(* ===== verification/_CoqProject ===== *)
-Q . S2P
Prelude.v
PyStr.v
PyFloat.v
PyJson.v
Utf8.v
Effects.v
Hex.v
Modbus.v
Mote.v
SerialGw.v
Http.v
Daemon.v
Flash.v
Digits.v
BignumTest.v
Literal.v
PipData1.v
PipData2.v
PipData3.v
PipData4.v
PipData5.v
PipData6.v
PipData7.v
PipData8.v
PipData9.v
PipData10.v
PipData11.v
PipData12.v
PipData13.v
PipData14.v
PipText.v
GetPip.v
Bignum.v
SelfTest.v
StateM.v
DList.v
OrderedList.v
Sched.v
Alarm.v
Thread.v
ThreadInv.v
ThreadOps.v
ThreadApi.v
ThreadCalls.v
Sync.v
RtSemaphore.v
Delay.v
Heap.v
Arena.v
HeapSpec.v
HeapCalls.v
Aes.v
Poly1305.v
Security.v
Text.v
CString.v
Curve.v
Primality.v
DiffieHellman.v
Handshake.v
Base85.v
Zip.v
Inflate.v
PipArchive.v
