(* ===== verification/Prelude.v ===== *)
(** * EPOS: a verification library of its host tools and utilities

    EPOS is an operating system for embedded systems (C++, include/ and src/)
    with host tools in Python (tools/).  The two meet on a serial line: the
    IoT gateway (tools/eposiotgw) talks Modbus ASCII to an EPOSMote, the flash
    programmer (tools/eposflash) loads Intel HEX files into one, and the
    big-number checker (tools/epossectst) verifies what the C++ arithmetic of
    include/utility/bignum.h prints.  This library models the Python programs
    as a whole and the C++ they depend on, and proves what makes them right.

    ** Ground

    - Prelude.v: exception classes and [outcome], the result of code that may
      raise, as a monad; [mapM] lemmas; the hint database [raises], which
      bounds the exceptions of a composed computation.
    - PyStr.v, PyFloat.v, PyJson.v, Utf8.v, Hex.v: what the scripts use of
      Python and its library, as executable functions: slices with clamping
      and negative indices, [range], [int(s, base)], [format], [split],
      [strip], [struct.pack], [float] (through SpecFloat), [json.loads],
      UTF-8.  The Unicode tables are a parameter (class [Unicode]).
    - Effects.v: effectful Python as a [prog], a tree of actions with the
      replies as branches; [run] gives the meaning of one thread in an
      environment, and Daemon.v interleaves several.
    - Digits.v: the value of a list of digits and products by columns, used by
      both sides of the big-number test.

    ** The IoT gateway (tools/eposiotgw/gateway_daemon)

    - Modbus.v is modbus/__init__.py ([chunks], [string_chunks], [parse],
      [build]) and modbus/tests.py.  [parse] accepts exactly the frames that
      add up, and so no single altered byte; its exceptions are exactly two.
    - Mote.v is mote/__init__.py: the lock and the time of last write shared by
      all instances are [Acquire], [Release], [GetLast], [SetLast]; pyserial
      and the clock answer the other actions of [gw].
    - SerialGw.v is serial.py, Http.v is http.py, Daemon.v is __main__.py: the
      request handler refines [plan], the list of frames a request stands for;
      the daemon is a pool of two threads whose steps are single actions.
      Mutual exclusion and the spacing of the writes are proved for every
      reachable state through what each thread knows while it holds the lock
      ([pre], [post], [wp]); [lock_inv] is the invariant of the free lock.
      The clock is assumed not to go back; the port's constructor, which is
      called without the lock, is shown to be outside the exclusion.

    ** The flash programmer (tools/eposflash/eposflash-emote3), Flash.v

    The script's three globals are the record [flash]; [hex_to_msg] passes
    them explicitly.  [record_spec] says what a record of an Intel HEX file
    does, [hex_to_msg] refines it, and the messages of a file form a stream
    ([sends]) of numbered frames with zero sums at increasing addresses.
    The session with the mote is a [prog port]: what it writes is the stream
    with repetitions, and nothing else.

    ** Big numbers

    - Bignum.v is the class [Bignum] of include/utility/bignum.h with its two
      instances (src/utility/bignum.cc) and the generator of random.h.  A
      number is the list of its 32-bit digits, every machine operation wraps
      ([u32], [u64]).  [BignumLaws] states what the constants must satisfy, and
      is proved of each instance; the operations are proved against it.
    - BignumTest.v is eposbignumtst.py, its globals and its file the record
      [st]; SelfTest.v is tests/bignum_test/bignum_test.cc and joins the two:
      the C++ test passes the Python check.

    ** The installer (tools/eposiotgw/get-pip.py)

    - GetPip.v is the code of the script: [b85decode], which inverts base 85,
      and [bootstrap] and [main], which remove what they create.
    - Literal.v is a notation for long literals of bytes, PipData1.v to
      PipData14.v write out the 17585 lines of the literal [DATA], at most
      150 to a definition, and PipText.v puts them together.
    - Base85.v computes [b85decode] in one pass over such texts and through
      concatenation; Zip.v and Inflate.v are what the interpreter does with an
      archive on its path (zipimport, zlib); PipArchive.v joins them: the file
      [main] writes is a zip file, with the modules [bootstrap] imports in
      its directory, no two members overlapping, those in the first lines
      readable, and pip's own modules intact by their CRC-32.  Two computations
      in the virtual machine carry the theorems: [archive_checked] decodes the
      lines the first members and the directory are in, [middle_checked] goes
      over the lines between.

    ** Lists and alarms of the kernel

    - StateM.v has the monad of the kernel's methods, [ST], a state and
      failure, and its total-correctness predicate [wp].
    - DList.v is class List of include/utility/list.h: the elements are a
      store of linked nodes, [Repr] says which sequence the links spell, and
      each method has a total-correctness rule ([wp]); [list_refines_sequence]
      says that calls on the list are calls on the sequence.
    - OrderedList.v is Ordered_List and Relative_List over it; class [Ranked]
      is what a rank must offer, [place] and [rel_place] the insertions on
      sequences, [times] turns relative ranks into absolute ones.
    - Sched.v is Scheduling_List over the ordered list: [perform] is each
      operation on the chosen element and the list of the others, which the
      class refines; choosing takes turns among equals.
    - Alarm.v is class Alarm (include/time.h, src/api/alarm.cc) over the
      relative list: [tick] is the timer handler on the schedule, [Inv] its
      invariant, [dues] the absolute times; [interrupts] calls the handler
      again and again, and every alarm it hands over is [punctual].

    ** Threads and synchronizers of the kernel

    - Thread.v is class Thread (include/process.h, src/api/thread.cc): each
      method, from its lock to its context switch, as a function of [kernel]:
      the threads, the scheduler ([perform] of Sched.v), the waiting queues,
      the interrupt flag that is the lock, and the thread on the processor.
    - ThreadInv.v has the invariant: a thread's [card] says where it must be,
      [Filed] that the lists hold it there, [Ledger] the counter and the
      joiners, [Current] that the thread chosen, the one RUNNING and the one
      on the processor are the same; [Valid] is all of them.  ThreadOps.v and
      ThreadApi.v prove what each method does to cards and queues.
    - ThreadCalls.v: [call] is every call, [allowed] what must not be asked
      for, [effect] what a call does; the methods refine the effects
      ([calls_have_effect]), and over the states [reached] by allowed calls
      all threads are accounted for, the running thread is never outranked,
      and a joiner waits for the exit.
    - Sync.v is Semaphore, Mutex and Condition over the kernel; every call
      comes down to one call on the kernel or none ([kernel_call]), and a
      [trace] of calls with their callers is compared with the state: units
      and waiters, holder and waiters.
    - RtSemaphore.v is Semaphore_PIP, Semaphore_IPCP and Semaphore_PCP over
      them: what the protocols do to the owner's rank, and that on one
      processor a contended one fails its assertion on the lock, because
      [setPriority] unlocks.  An [assert] that fails ends the model of a
      method; the program prints a line and goes on.
    - Delay.v joins alarms and semaphores: Alarm::delay and the timer handler
      with the handler object it calls, over a [machine], as sequences of
      parts that lock once each.  A [history] interleaves the parts with
      ticks and other calls; in each a sleeper's semaphore counts whether its
      handler has been called and whether it waits, and so it waits until
      then, which is in time.

    ** The heap of the kernel

    - Heap.v is Simple_Heap (include/utility/heap.h) and class Grouping_List of
      list.h, over a memory that list elements and block headers share: what
      is overwritten is gone.  Arena.v is what the heap does to blocks,
      pairs of address and size: first fit from the end of a block, merging
      on release; an arena is [Accounted] when its blocks tile it and no two
      free ones touch.  HeapSpec.v proves that the methods do that to the
      blocks the memory describes ([Blocks], [Holds]); HeapCalls.v has the
      histories of allocations, releases and clients' writes, over which
      the heap refines first fit, every byte is accounted for, and a block
      handed out is nobody else's.

    ** Cryptography and trusted messages

    - Aes.v is SWAES<16> (include/utility/aes.h, src/utility/aes.cc): the
      tables, the key schedule, both ciphers in both modes.  Module [fips] is
      the standard as its document defines it; [encrypt] computes it, and
      [decrypt] undoes it, for every key and block.
    - Poly1305.v is include/utility/poly1305.h over Bignum<17>; class
      [Block_Cipher] with its laws is what an authenticator and the messages
      ask of a cipher, and the software AES is an instance.
    - DiffieHellman.v is include/utility/diffie_hellman.h over Bignum<16>:
      [meaning] takes Jacobian coordinates to points, and the product of a
      point and a number is its multiple in the group of the curve.  Curve.v
      proves that group (classes [Field] and [Curve]) and Primality.v that the
      modulus and the order of secp128r1 are primes; so two parties compute
      one key.
    - Security.v is pack, unpack, otp and verify_auth_request of
      src/network/tstp/security.cc: authenticated messages are accepted in the
      windows of time around theirs, and nothing else is.
    - Handshake.v is its update and a round of its key_manager, over a [node]
      with its pending keys and its pending and trusted peers: each side, given
      the other's messages, ends in trust with the secret of the two keys,
      and over the [reachable] states every trusted peer has [earned] it not
      long ago.  The request that would start an exchange is not written by
      the source, and [key_manager] sends a frame without content.

    ** Text and memory

    - Text.v is class OStream (include/utility/ostream.h, src/utility/
      ostream.cc) and the conversions of src/utility/string.cc: [numeral] is
      what a number should look like; stores are checked against the array and
      signed arithmetic against its width.
    - CString.v is strlen, strcmp, memcpy and memset of string.cc, over a
      memory of bytes and longs of L bytes: reading and writing by words does
      what reading and writing by bytes does.

    ** Fuel and bounds

    A loop whose end depends on the outside (the clock, the port, the mote)
    takes fuel and is stuck without it; safety statements quantify over every
    fuel, and [put_completes], [readline_first_line], [session_completes] give
    the fuel that suffices.  [check_file] uses one round per line of the file
    plus one, which [checker_terminates] proves enough; Barrett's loop is
    given three rounds and [invert] [64 * DIGITS + 2] (each round but the last
    removes a bit from one of two numbers of [32 * DIGITS] bits), both proved
    enough.  Loops over a linked list are given the number of elements there
    are; the directory of an archive and a compressed member are read with
    the length of the input, of which every round takes some.  Alarms have
    bounds instead: with up to N alarms of up to B ticks, N + B < 2^30, no
    relative rank overflows an int; and threads are fewer than 2^31.  The loop
    of [wakeup_all] is given the length of the queue, which it empties, and
    the rounding of a request to words four rounds, of which it takes at most
    three.  The digits of a number are at most 64, and the loops over memory are
    given its size, of which every round takes a byte.  Requests within 32 bytes of 2^32 are left out of the heap's
    histories, because their sizes wrap (huge_request_served).

    ** What is not modelled

    Third-party code (pyserial, Flask, Tornado, requests, pip) is the
    environment of the actions.  setup.py only calls setuptools.  Of the C++
    system, the lists with several heads or queues, vectors and hash tables,
    buffers and segments, the mediators of the hardware, the network but for
    the security of TSTP, and SmartData are not modelled.  In the key exchange
    the clock stands still within a message, which region holds a place is a
    parameter ([Geometry]), and the thread around the manager's rounds is left
    out.  Of string.cc the functions that go over memory as the four modelled
    ones do (memcmp, memchr, strcpy and others) are left out.
    Alarm.v has the methods of alarms without the lock, which makes them
    atomic; Delay.v has the lock, with alarms made by [delay] only, since the
    functions other handlers call are the application's.  The heap is one,
    without the lock of its atomic variant and without calloc.
    Threads are modelled on one processor, without stacks and contexts but for
    whose context is on the processor; several processors and the semaphores
    for them, the real-time criteria and the statistics of the monitor are
    left out. *)

From stdpp Require Import base numbers list option.
#[global] Open Scope Z_scope.

(** ** Python exceptions and outcomes *)

(** The exception classes the scripts raise or catch.  [GenericException] is
    a bare [raise Exception(...)]; [OtherError] stands for anything a library
    raises that the scripts never name. *)
Inductive exn :=
| ValueError | UnicodeDecodeError | UnicodeEncodeError | JSONDecodeError
| KeyError | IndexError | TypeError | AttributeError
| NameError | UnboundLocalError
| OverflowError | ZeroDivisionError
| StructError | SerialException | AssertionError | GenericException
| KeyboardInterrupt | SystemExit
| OtherError.

#[export] Instance exn_eq_dec : EqDecision exn.
Proof. solve_decision. Defined.

(** [except ValueError] also catches its subclasses. *)
Definition is_value_error (e : exn) : bool :=
  match e with
  | ValueError | UnicodeDecodeError | UnicodeEncodeError | JSONDecodeError => true
  | _ => false
  end.

Inductive outcome (A : Type) :=
| Ok (a : A)
| Raise (e : exn).
Arguments Ok {A} _.
Arguments Raise {A} _.

#[export] Instance outcome_ret : MRet outcome := @Ok.
#[export] Instance outcome_bind : MBind outcome := λ A B f m,
  match m with Ok a => f a | Raise e => Raise e end.
#[export] Instance outcome_fmap : FMap outcome := λ A B f m,
  match m with Ok a => Ok (f a) | Raise e => Raise e end.
#[export] Instance outcome_eq_dec `{EqDecision A} : EqDecision (outcome A).
Proof. solve_decision. Defined.

Definition is_ok {A} (m : outcome A) : bool :=
  match m with Ok _ => true | Raise _ => false end.

Section outcome_laws.
Context {A B C : Type}.

Lemma bind_ok (a : A) (f : A → outcome B) : (Ok a ≫= f) = f a.
Proof. reflexivity. Qed.

Lemma bind_raise e (f : A → outcome B) : (Raise e ≫= f) = Raise e.
Proof. reflexivity. Qed.

Lemma bind_ok_inv (m : outcome A) (f : A → outcome B) b :
  (m ≫= f) = Ok b → ∃ a, m = Ok a ∧ f a = Ok b.
Proof. destruct m as [a|e]; simpl; [by exists a | done]. Qed.

Lemma bind_assoc (m : outcome A) (f : A → outcome B) (g : B → outcome C) :
  ((m ≫= f) ≫= g) = (m ≫= λ a, f a ≫= g).
Proof. by destruct m. Qed.
End outcome_laws.

(** [mapM] on outcomes, the meaning of a list comprehension whose body can
    raise. *)
Section mapM_laws.
Context {A B : Type} (f : A → outcome B).

Lemma mapM_ok_Forall2 (l : list A) (k : list B) :
  mapM f l = Ok k ↔ Forall2 (λ a b, f a = Ok b) l k.
Proof.
  revert k; induction l as [|a l IH]; intros k; simpl.
  - split; [intros [= <-]; constructor | intros H; by inversion H].
  - destruct (f a) as [b|e] eqn:Ea; simpl.
    + destruct (mapM f l) as [k'|e] eqn:El; simpl.
      * split.
        -- intros [= <-]. constructor; [done | by apply IH].
        -- intros H; inversion H as [|? b' ? k'' H1 H2]; subst.
           apply IH in H2. rewrite Ea in H1. by simplify_eq.
      * split; [done|]. intros H; inversion H as [|? b' ? k'' H1 H2]; subst.
        by apply IH in H2.
    + split; [done|]. intros H; inversion H; congruence.
Qed.

Lemma mapM_ok_map (g : A → B) (l : list A) :
  Forall (λ a, f a = Ok (g a)) l → mapM f l = Ok (g <$> l).
Proof. intros H. apply mapM_ok_Forall2. induction H; simpl; by constructor. Qed.

Lemma mapM_raise_inv (l : list A) e :
  mapM f l = Raise e → ∃ a, a ∈ l ∧ f a = Raise e.
Proof.
  induction l as [|a l IH]; simpl; [done|].
  destruct (f a) as [b|e'] eqn:Ea; simpl.
  - destruct (mapM f l); simpl; [done|]. intros [= ->].
    destruct (IH eq_refl) as (x & ? & ?). exists x. by split; [right|].
  - intros [= ->]. exists a. split; [left | done].
Qed.
End mapM_laws.

(** ** Which exceptions a computation can end in *)

Definition raises_only {A} (P : exn → Prop) (m : outcome A) : Prop :=
  match m with Ok _ => True | Raise e => P e end.

Create HintDb raises.

Section raises_laws.
Context (P : exn → Prop).

Lemma raises_only_ok {A} (a : A) : raises_only P (Ok a).
Proof. exact I. Qed.

Lemma raises_only_raise {A} e : P e → raises_only P (Raise (A := A) e).
Proof. done. Qed.

Lemma raises_only_bind {A B} (m : outcome A) (f : A → outcome B) :
  raises_only P m → (∀ a, m = Ok a → raises_only P (f a)) → raises_only P (m ≫= f).
Proof. destruct m as [a|e]; cbn; [intros _ Hf; by apply Hf | done]. Qed.

Lemma raises_only_mapM {A B} (f : A → outcome B) (l : list A) :
  (∀ a, raises_only P (f a)) → raises_only P (mapM f l).
Proof.
  intros Hf. induction l as [|a l IH]; cbn [mapM]; [done|].
  apply raises_only_bind; [done|]. intros b _. by apply raises_only_bind.
Qed.

Lemma raises_only_inv {A} (m : outcome A) e : raises_only P m → m = Raise e → P e.
Proof. by intros Hm ->. Qed.
End raises_laws.

#[export] Hint Resolve raises_only_ok raises_only_raise raises_only_bind raises_only_mapM : raises.
