(* ===== verification/PyStr.v ===== *)
(** * Python strings, bytes, integers and [struct]

    The part of the language and of its standard library that the host tools
    use on text: slices and ranges with Python's clamping and negative
    indices, [int(s, base)], [hex], [str], [format], [split], [strip],
    [struct.pack], [int.from_bytes], UTF-8.  A [str] is the list of its code
    points and a [bytes] the list of its octets, both as [Z].  Character
    classes above ASCII come from the interpreter's Unicode database, which
    is a parameter ([Unicode]). *)

From stdpp Require Import base numbers list option strings.
From Stdlib Require Export Ascii.
From S2P Require Import Prelude.

Abbreviation pystr := (list Z).
Abbreviation pybytes := (list Z).

(** A Python literal. *)
Definition lit (s : string) : pystr :=
  (λ a, Z.of_N (N_of_ascii a)) <$> String.list_ascii_of_string s.
Definition chr (a : ascii) : Z := Z.of_N (N_of_ascii a).

Arguments lit _%_string.
Arguments chr _%_char.

Class Unicode := {
  u_space : Z → bool;          (* Py_UNICODE_ISSPACE, consulted from 128 on *)
  u_decimal : Z → option Z     (* Py_UNICODE_TODECIMAL, consulted from 128 on *)
}.

(** ** Sequences *)

Definition zlen {A} (l : list A) : Z := Z.of_nat (length l).

(** A slice bound, resolved against the length. *)
Definition clamp (n i : Z) : Z := if i <? 0 then Z.max 0 (i + n) else Z.min i n.

(** [s[a:b]], [s[a:]] and [s[:b]]. *)
Definition slice {A} (s : list A) (a b : Z) : list A :=
  let a' := clamp (zlen s) a in
  let b' := clamp (zlen s) b in
  take (Z.to_nat (b' - a')) (drop (Z.to_nat a') s).
Definition slice_from {A} (s : list A) (a : Z) : list A := slice s a (zlen s).
Definition slice_to {A} (s : list A) (b : Z) : list A := slice s 0 b.

(** [s[i]] *)
Definition item {A} (s : list A) (i : Z) : outcome A :=
  let j := if i <? 0 then i + zlen s else i in
  if j <? 0 then Raise IndexError
  else match s !! Z.to_nat j with Some x => Ok x | None => Raise IndexError end.

(** [range(lo, hi, step)] for a positive step. *)
Definition range (lo hi step : Z) : list Z :=
  (λ k, lo + k * step) <$> seqZ 0 (Z.max 0 ((hi - lo + step - 1) / step)).

(** [s.find(sub)] *)
Fixpoint is_prefix (p s : pystr) : bool :=
  match p, s with
  | [], _ => true
  | _ :: _, [] => false
  | x :: p', y :: s' => (x =? y) && is_prefix p' s'
  end.
Fixpoint find_from (k : Z) (s sub : pystr) : Z :=
  if is_prefix sub s then k
  else match s with [] => -1 | _ :: s' => find_from (k + 1) s' sub end.
Definition find (s sub : pystr) : Z := find_from 0 s sub.

(** [sub in s] *)
Definition contains (s sub : pystr) : bool := negb (find s sub =? -1).

(** [s.split(sep)] for a one-character separator: always at least one piece. *)
Fixpoint split_on (sep : Z) (s : pystr) : list pystr :=
  match s with
  | [] => [[]]
  | c :: s' =>
      if c =? sep then [] :: split_on sep s'
      else match split_on sep s' with
           | w :: ws => (c :: w) :: ws
           | [] => [[c]]
           end
  end.

(** [s.replace(c, '')] for one character. *)
Definition remove_char (x : Z) (s : pystr) : pystr := filter (λ c, c ≠ x) s.

(** [sep.join(ws)] *)
Fixpoint join (sep : pystr) (ws : list pystr) : pystr :=
  match ws with
  | [] => []
  | [w] => w
  | w :: ws' => w ++ sep ++ join sep ws'
  end.

(** ** Digits *)

Definition digit_char (d : Z) : Z := if d <? 10 then 48 + d else 87 + d.
Definition digit_val (c : Z) : option Z :=
  if (48 <=? c) && (c <=? 57) then Some (c - 48)
  else if (97 <=? c) && (c <=? 122) then Some (c - 87)
  else if (65 <=? c) && (c <=? 90) then Some (c - 55)
  else None.

(** [s.upper()] on the ASCII text the tools build. *)
Definition upper_char (c : Z) : Z := if (97 <=? c) && (c <=? 122) then c - 32 else c.
Definition upper (s : pystr) : pystr := upper_char <$> s.

(** Digits of [n >= 0] in [base], most significant first, no leading zero
    except for 0 itself.  [Z.log2 n + 1] steps are enough for any base >= 2. *)
Fixpoint render_aux (fuel : nat) (base n : Z) (acc : pystr) : pystr :=
  match fuel with
  | O => acc
  | S fuel' =>
      let acc' := digit_char (n mod base) :: acc in
      if n / base =? 0 then acc' else render_aux fuel' base (n / base) acc'
  end.
Definition render (base n : Z) : pystr := render_aux (S (Z.to_nat (Z.log2 n))) base n [].

(** [str(n)], [hex(n)] and ['{:02x}'.format(n)]. *)
Definition str_int (n : Z) : pystr := if n <? 0 then 45 :: render 10 (- n) else render 10 n.
Definition hex (n : Z) : pystr :=
  if n <? 0 then 45 :: lit "0x" ++ render 16 (- n) else lit "0x" ++ render 16 n.
Definition zpad (width : nat) (s : pystr) : pystr := replicate (width - length s) 48 ++ s.
Definition format_02x (n : Z) : pystr :=
  if n <? 0 then 45 :: zpad 1 (render 16 (- n)) else zpad 2 (render 16 n).

(** ** [int(s, base)] *)

Section int_of_str.
Context `{Unicode}.

Definition ascii_space (c : Z) : bool := ((9 <=? c) && (c <=? 13)) || (c =? 32).

(** [str.isspace], used by [strip] and [rstrip]: more than [ascii_space]. *)
Definition is_space (c : Z) : bool :=
  if c <? 128 then ascii_space c || ((28 <=? c) && (c <=? 31)) else u_space c.

(** Spaces and decimal digits of other scripts become ASCII ones before the
    number is read; anything else becomes an invalid character. *)
Definition to_ascii_char (c : Z) : Z :=
  if c <? 128 then c
  else if u_space c then 32
  else match u_decimal c with Some d => 48 + d | None => 63 end.

Fixpoint skip_while (p : Z → bool) (s : pystr) : pystr :=
  match s with
  | c :: s' => if p c then skip_while p s' else s
  | [] => []
  end.

Definition rstrip_while (p : Z → bool) (s : pystr) : pystr := reverse (skip_while p (reverse s)).
Definition rstrip (s : pystr) : pystr := rstrip_while is_space s.
Definition strip (s : pystr) : pystr := rstrip (skip_while is_space s).

(** The maximal digit run, single underscores allowed between digits:
    [None] on a misplaced underscore, otherwise the value read ([None] when
    there was no digit) and what is left. *)
Fixpoint scan_digits (base : Z) (prev_us : bool) (acc : option Z) (s : pystr)
  : option (option Z * pystr) :=
  match s with
  | [] => if prev_us then None else Some (acc, [])
  | c :: s' =>
      if c =? 95 then (if prev_us then None else scan_digits base true acc s')
      else match digit_val c with
           | Some d =>
               if d <? base
               then scan_digits base false (Some (default 0 acc * base + d)) s'
               else if prev_us then None else Some (acc, s)
           | None => if prev_us then None else Some (acc, s)
           end
  end.

Definition take_sign (s : pystr) : Z * pystr :=
  match s with
  | 43 :: s' => (1, s')
  | 45 :: s' => (-1, s')
  | _ => (1, s)
  end.

(** [0x] is skipped for base 16, and one underscore may follow it. *)
Definition skip_prefix (base : Z) (s : pystr) : pystr :=
  match s with
  | 48 :: x :: s' =>
      if (base =? 16) && ((x =? 120) || (x =? 88))
      then match s' with 95 :: s'' => s'' | _ => s' end
      else s
  | _ => s
  end.

Definition py_int (base : Z) (s : pystr) : outcome Z :=
  let s := to_ascii_char <$> s in
  let '(sign, s) := take_sign (skip_while ascii_space s) in
  match scan_digits base true None (skip_prefix base s) with
  | Some (Some v, rest) =>
      match skip_while ascii_space rest with
      | [] => Ok (sign * v)
      | _ => Raise ValueError
      end
  | _ => Raise ValueError
  end.
End int_of_str.

(** ** [struct.pack] and [int.from_bytes] *)

Fixpoint le_bytes (n : nat) (v : Z) : pybytes :=
  match n with
  | O => []
  | S n' => v mod 256 :: le_bytes n' (v / 256)
  end.

(** Unsigned fields: ['B'] is width 1, ['<H'] and ['>H'] 2, ['<I'] 4. *)
Definition pack_le (width : nat) (v : Z) : outcome pybytes :=
  if (0 <=? v) && (v <? 256 ^ Z.of_nat width) then Ok (le_bytes width v) else Raise StructError.
Definition pack_be (width : nat) (v : Z) : outcome pybytes :=
  if (0 <=? v) && (v <? 256 ^ Z.of_nat width) then Ok (reverse (le_bytes width v)) else Raise StructError.

(** [int.from_bytes(b, byteorder='big')] *)
Definition from_bytes_big (b : pybytes) : Z := foldl (λ acc x, acc * 256 + x) 0 b.
Definition sum_list (l : list Z) : Z := foldl Z.add 0 l.

(** ** Lemmas on sequences *)

Section sequences.
Context {A : Type}.
Implicit Types s a b c : list A.

Lemma zlen_nonneg s : 0 ≤ zlen s.
Proof. unfold zlen. lia. Qed.

Lemma zlen_app a b : zlen (a ++ b) = zlen a + zlen b.
Proof. unfold zlen. rewrite length_app. lia. Qed.

Lemma zlen_cons x s : zlen (x :: s) = 1 + zlen s.
Proof. unfold zlen. simpl. lia. Qed.

Lemma zlen_nil : zlen (@nil A) = 0.
Proof. reflexivity. Qed.

(** The middle of a concatenation, addressed from the left. *)
Lemma slice_mid a b c i j :
  i = zlen a → j = zlen a + zlen b → slice (a ++ b ++ c) i j = b.
Proof.
  intros -> ->. unfold slice, clamp.
  pose proof (zlen_nonneg a). pose proof (zlen_nonneg b). pose proof (zlen_nonneg c).
  rewrite !zlen_app.
  rewrite (proj2 (Z.ltb_ge (zlen a) 0)), (proj2 (Z.ltb_ge (zlen a + zlen b) 0)) by lia.
  rewrite !Z.min_l by lia.
  replace (zlen a + zlen b - zlen a) with (zlen b) by lia.
  unfold zlen. rewrite !Nat2Z.id, drop_app_length, take_app_length. done.
Qed.

(** The middle of a concatenation, its end addressed from the right. *)
Lemma slice_mid_neg a b c i j :
  i = zlen a → j = - zlen c → c ≠ [] → slice (a ++ b ++ c) i j = b.
Proof.
  intros -> -> Hc.
  assert (0 < zlen c) by (destruct c; [done | rewrite zlen_cons; pose proof (zlen_nonneg c); lia]).
  etrans; [|by apply (slice_mid a b c (zlen a) (zlen a + zlen b))].
  unfold slice, clamp.
  pose proof (zlen_nonneg a). pose proof (zlen_nonneg b).
  rewrite !zlen_app.
  rewrite (proj2 (Z.ltb_ge (zlen a) 0)), (proj2 (Z.ltb_ge (zlen a + zlen b) 0)),
    (proj2 (Z.ltb_lt (- zlen c) 0)) by lia.
  replace (Z.max 0 (- zlen c + (zlen a + (zlen b + zlen c)))) with (zlen a + zlen b) by lia.
  rewrite (Z.min_l (zlen a + zlen b)) by lia. reflexivity.
Qed.

Lemma slice_from_app a b i : i = zlen a → slice_from (a ++ b) i = b.
Proof.
  intros ->. unfold slice_from. rewrite <- (app_nil_r b) at 1.
  apply slice_mid; [done|]. rewrite zlen_app. done.
Qed.

Lemma slice_from_neg a b i : i = - zlen b → b ≠ [] → slice_from (a ++ b) i = b.
Proof.
  intros -> Hb.
  assert (0 < zlen b) by (destruct b; [done | rewrite zlen_cons; pose proof (zlen_nonneg b); lia]).
  pose proof (zlen_nonneg a).
  etrans; [|by apply (slice_from_app a b (zlen a))].
  unfold slice_from, slice, clamp. rewrite zlen_app.
  rewrite (proj2 (Z.ltb_ge (zlen a) 0)), (proj2 (Z.ltb_lt (- zlen b) 0)) by lia.
  replace (Z.max 0 (- zlen b + (zlen a + zlen b))) with (zlen a) by lia.
  rewrite (Z.min_l (zlen a)) by lia. done.
Qed.

Lemma slice_length_le s i j : zlen (slice s i j) ≤ Z.max 0 (clamp (zlen s) j - clamp (zlen s) i).
Proof. unfold slice, zlen. rewrite length_take. lia. Qed.

Lemma item_ok_nonneg s i x : 0 ≤ i → s !! Z.to_nat i = Some x → item s i = Ok x.
Proof.
  intros Hi Hx. unfold item. rewrite (proj2 (Z.ltb_ge i 0)) by lia.
  rewrite (proj2 (Z.ltb_ge i 0)) by lia. by rewrite Hx.
Qed.

Lemma item_neg s i x : - zlen s ≤ i < 0 → s !! Z.to_nat (i + zlen s) = Some x → item s i = Ok x.
Proof.
  intros Hi Hx. unfold item. rewrite (proj2 (Z.ltb_lt i 0)) by lia.
  rewrite (proj2 (Z.ltb_ge (i + zlen s) 0)) by lia. by rewrite Hx.
Qed.

Lemma last_two_items s : 1 < zlen s → ∃ u w, item s (-2) = Ok u ∧ item s (-1) = Ok w.
Proof.
  intros Hs.
  assert (is_Some (s !! Z.to_nat (-2 + zlen s)) ∧ is_Some (s !! Z.to_nat (-1 + zlen s))) as [[u Hu] [w Hw]].
  { rewrite !lookup_lt_is_Some. unfold zlen in *. lia. }
  exists u, w. split; apply item_neg; (done || lia).
Qed.

Lemma item_head s : 0 < zlen s → ∃ x, item s 0 = Ok x.
Proof. destruct s as [|x s]; [done|]. by exists x. Qed.

Lemma slice_nonempty_zlen s i j : 0 ≤ i → slice s i j ≠ [] → i < zlen s.
Proof.
  intros Hi Hne. destruct (decide (i < zlen s)) as [|Hge]; [done|]. exfalso. apply Hne.
  unfold slice, clamp. rewrite (proj2 (Z.ltb_ge i 0)) by lia. rewrite (Z.min_r i) by lia.
  rewrite drop_ge, take_nil by (unfold zlen; lia). done.
Qed.
End sequences.

Lemma range_nil lo hi step : 0 < step → hi ≤ lo → range lo hi step = [].
Proof.
  intros Hs H. unfold range. rewrite Z.max_l; [done|].
  assert ((hi - lo + step - 1) / step < 1); [|lia].
  apply Z.div_lt_upper_bound; lia.
Qed.

Lemma range_cons lo hi step :
  0 < step → lo < hi → range lo hi step = lo :: range (lo + step) hi step.
Proof.
  intros Hs H. unfold range.
  assert ((hi - lo + step - 1) / step = 1 + (hi - (lo + step) + step - 1) / step) as ->.
  { replace (hi - lo + step - 1) with ((hi - (lo + step) + step - 1) + 1 * step) by lia.
    rewrite Z.div_add by lia. lia. }
  assert (0 ≤ (hi - (lo + step) + step - 1) / step) by (apply Z.div_pos; lia).
  rewrite !Z.max_r by lia.
  replace (1 + (hi - (lo + step) + step - 1) / step)
    with (Z.succ ((hi - (lo + step) + step - 1) / step)) by lia.
  rewrite seqZ_cons by lia. rewrite Z.pred_succ. simpl. f_equal; [lia|].
  rewrite <- (fmap_add_seqZ 1 0 _), <- list_fmap_compose. apply list_fmap_ext.
  intros i x _. simpl. lia.
Qed.

(** ** Lemmas on digits and [int(s, base)] *)

Definition is_digit (base c : Z) : bool :=
  match digit_val c with Some d => d <? base | None => false end.

(** The value of a digit string read after the value [acc]. *)
Definition digits_value (base acc : Z) (s : pystr) : Z :=
  foldl (λ a c, a * base + default 0 (digit_val c)) acc s.

Ltac split_ifs :=
  repeat match goal with
  | H : context [if ?b then _ else _] |- _ => let E := fresh "E" in destruct b eqn:E
  | |- context [if ?b then _ else _] => let E := fresh "E" in destruct b eqn:E
  end.

Ltac solve_char := unfold is_digit, digit_val, digit_char, upper_char in *; split_ifs; simplify_eq/=; try done; try lia; try (f_equal; lia).

Lemma digit_val_char d : 0 ≤ d < 36 → digit_val (digit_char d) = Some d.
Proof. intros H. solve_char. Qed.

Lemma digit_val_upper c : digit_val (upper_char c) = digit_val c.
Proof. solve_char. Qed.

Lemma digit_val_bounds c d : digit_val c = Some d → 0 ≤ d < 36.
Proof. intros H. solve_char. Qed.

Lemma is_digit_char base d : 0 ≤ d < base → base ≤ 36 → is_digit base (digit_char d) = true.
Proof. intros. unfold is_digit. rewrite digit_val_char by lia. lia. Qed.

Lemma is_digit_upper base c : is_digit base (upper_char c) = is_digit base c.
Proof. unfold is_digit. by rewrite digit_val_upper. Qed.

(** A digit is ASCII and is none of the characters [int] treats specially. *)
Lemma is_digit_plain base c :
  is_digit base c = true →
  48 ≤ c ≤ 122 ∧ c ≠ 95 ∧ (base ≤ 33 → c ≠ 120 ∧ c ≠ 88).
Proof. intros H. solve_char; repeat split; try intros; lia. Qed.

Lemma digits_value_upper base acc s : digits_value base acc (upper s) = digits_value base acc s.
Proof.
  revert acc; induction s as [|c s IH]; intros acc; simpl; [done|].
  by rewrite digit_val_upper, IH.
Qed.

Lemma digits_value_app base acc s1 s2 :
  digits_value base acc (s1 ++ s2) = digits_value base (digits_value base acc s1) s2.
Proof. apply foldl_app. Qed.

Lemma digits_value_zeros base n s : digits_value base 0 (replicate n 48 ++ s) = digits_value base 0 s.
Proof. induction n as [|n IH]; simpl; [done|]. exact IH. Qed.

Section int_lemmas.
Context `{Unicode}.

Lemma scan_digits_run base us acc s :
  Forall (λ c, is_digit base c = true) s →
  (s ≠ [] ∨ us = false) →
  scan_digits base us acc s =
    Some (match s with [] => acc | _ => Some (digits_value base (default 0 acc) s) end, []).
Proof.
  intros Hs; revert us acc; induction Hs as [|c s Hc Hs IH]; intros us acc Hne; simpl.
  { destruct Hne as [?| ->]; done. }
  pose proof (is_digit_plain _ _ Hc) as (_ & H95 & _).
  rewrite (proj2 (Z.eqb_neq c 95)) by done.
  unfold is_digit in Hc. destruct (digit_val c) as [d|] eqn:Ed; [|done].
  rewrite Hc, IH by auto. unfold digits_value; simpl; rewrite ?Ed; by destruct s.
Qed.

Lemma to_ascii_digits base s :
  Forall (λ c, is_digit base c = true) s → to_ascii_char <$> s = s.
Proof.
  intros Hs. rewrite <- (list_fmap_id s) at 2. apply list_fmap_ext.
  intros i c Hc. pose proof (Forall_lookup_1 _ _ _ _ Hs Hc) as Hd.
  apply is_digit_plain in Hd. unfold to_ascii_char. rewrite (proj2 (Z.ltb_lt c 128)) by lia. done.
Qed.

Lemma take_sign_digit base c s : is_digit base c = true → take_sign (c :: s) = (1, c :: s).
Proof.
  intros Hc%is_digit_plain. destruct Hc as (Hc & _).
  unfold take_sign. repeat case_match; simplify_eq; try done; lia.
Qed.

Lemma skip_prefix_digits base s :
  base ≤ 33 → Forall (λ c, is_digit base c = true) s → skip_prefix base s = s.
Proof.
  intros Hb Hs. unfold skip_prefix.
  destruct s as [|c [|x s]]; [done| |].
  { repeat case_match; simplify_eq; done. }
  inversion Hs as [|? ? _ Hs']; subst. inversion Hs' as [|? ? Hx _]; subst.
  apply is_digit_plain in Hx as (_ & _ & Hx). specialize (Hx Hb) as [H1 H2].
  rewrite (proj2 (Z.eqb_neq x 120)), (proj2 (Z.eqb_neq x 88)) by done.
  rewrite andb_false_r. repeat case_match; done.
Qed.

(** [int] of a non-empty string of digits is its value. *)
Lemma py_int_digits base s :
  base ≤ 33 → s ≠ [] → Forall (λ c, is_digit base c = true) s →
  py_int base s = Ok (digits_value base 0 s).
Proof.
  intros Hb Hne Hs. unfold py_int. rewrite (to_ascii_digits base) by done.
  destruct s as [|c s]; [done|].
  assert (Hc : is_digit base c = true) by (by inversion Hs).
  assert (skip_while ascii_space (c :: s) = c :: s) as ->.
  { simpl. pose proof (is_digit_plain _ _ Hc) as (? & _). unfold ascii_space.
    destruct ((9 <=? c) && (c <=? 13) || (c =? 32)) eqn:E; [lia | done]. }
  rewrite (take_sign_digit base) by done.
  rewrite skip_prefix_digits, scan_digits_run by auto. simpl skip_while.
  f_equal. simpl. destruct (digits_value _ _ _); done.
Qed.
End int_lemmas.

(** *** Rendering *)

Lemma render_aux_value fuel base n a acc :
  2 ≤ base ≤ 36 → 0 ≤ n < base ^ Z.of_nat fuel → (0 < fuel)%nat → a = 0 →
  digits_value base a (render_aux fuel base n acc) = digits_value base n acc.
Proof.
  intros Hb Hn Hf ->. revert n acc Hn; induction fuel as [|fuel IH]; intros n acc Hn; [lia|].
  simpl. assert (0 ≤ n mod base < base) by (apply Z.mod_pos_bound; lia).
  assert (n = base * (n / base) + n mod base) by (apply Z.div_mod; lia).
  destruct (n / base =? 0) eqn:E.
  - apply Z.eqb_eq in E. simpl. rewrite digit_val_char by lia. simpl. f_equal. lia.
  - apply Z.eqb_neq in E. destruct fuel as [|fuel].
    { exfalso. apply E. apply Z.div_small. change (base ^ Z.of_nat 1) with (base ^ 1) in Hn. lia. }
    rewrite IH; [| lia |].
    + simpl. rewrite digit_val_char by lia. simpl. f_equal. lia.
    + split; [apply Z.div_pos; lia|]. apply Z.div_lt_upper_bound; [lia|].
      rewrite Nat2Z.inj_succ, Z.pow_succ_r in Hn by lia. lia.
Qed.

Lemma render_fuel base n : 2 ≤ base → 0 ≤ n → 0 ≤ n < base ^ Z.of_nat (S (Z.to_nat (Z.log2 n))).
Proof.
  intros Hb Hn. split; [done|].
  rewrite Nat2Z.inj_succ, Z2Nat.id by apply Z.log2_nonneg.
  destruct (decide (n = 0)) as [->|].
  { simpl. lia. }
  apply Z.lt_le_trans with (2 ^ Z.succ (Z.log2 n)); [apply Z.log2_spec; lia|].
  apply Z.pow_le_mono_l. lia.
Qed.

Lemma digits_value_render base n :
  2 ≤ base ≤ 36 → 0 ≤ n → digits_value base 0 (render base n) = n.
Proof.
  intros Hb Hn. unfold render. rewrite render_aux_value; [done | lia | | lia | done].
  apply render_fuel; lia.
Qed.

Lemma render_aux_digits fuel base n acc :
  2 ≤ base ≤ 36 → 0 ≤ n → Forall (λ c, is_digit base c = true) acc →
  Forall (λ c, is_digit base c = true) (render_aux fuel base n acc).
Proof.
  intros Hb. revert n acc; induction fuel as [|fuel IH]; intros n acc Hn Hacc; simpl; [done|].
  assert (0 ≤ n mod base < base) by (apply Z.mod_pos_bound; lia).
  assert (Forall (λ c, is_digit base c = true) (digit_char (n mod base) :: acc)).
  { constructor; [apply is_digit_char; lia | done]. }
  destruct (n / base =? 0); [done|]. apply IH; [apply Z.div_pos; lia | done].
Qed.

Lemma render_digits base n :
  2 ≤ base ≤ 36 → 0 ≤ n → Forall (λ c, is_digit base c = true) (render base n).
Proof. intros. by apply render_aux_digits. Qed.

Lemma render_aux_length fuel base n acc k :
  2 ≤ base → 0 ≤ n < base ^ Z.of_nat k → (0 < k)%nat →
  (length (render_aux fuel base n acc) ≤ k + length acc)%nat.
Proof.
  intros Hb. revert n acc k; induction fuel as [|fuel IH]; intros n acc k Hn Hk; simpl; [lia|].
  destruct (n / base =? 0) eqn:E; [simpl; lia|]. apply Z.eqb_neq in E.
  destruct k as [|[|k]]; [lia| |].
  { exfalso. apply E, Z.div_small. change (base ^ Z.of_nat 1) with (base ^ 1) in Hn. lia. }
  etrans; [apply (IH _ _ (S k)); [|lia]|simpl; lia].
  split; [apply Z.div_pos; lia|]. apply Z.div_lt_upper_bound; [lia|].
  rewrite (Nat2Z.inj_succ (S k)), Z.pow_succ_r in Hn by lia. lia.
Qed.

Lemma render_aux_nonempty fuel base n acc : (0 < fuel)%nat → render_aux fuel base n acc ≠ [].
Proof.
  intros Hf. destruct fuel as [|fuel]; [lia|]. clear Hf. revert n acc.
  induction fuel as [|fuel IH]; intros n acc; simpl; [by destruct (_ =? _)|].
  destruct (_ =? _); [done|]. apply IH.
Qed.

Lemma render_nonempty base n : render base n ≠ [].
Proof. apply render_aux_nonempty. lia. Qed.

Lemma render_length base n k :
  2 ≤ base → 0 ≤ n < base ^ Z.of_nat k → (0 < k)%nat → (length (render base n) ≤ k)%nat.
Proof.
  intros. unfold render. etrans; [by apply (render_aux_length _ _ _ _ k)|]. simpl; lia.
Qed.

(** [int] inverts [str], and the hexadecimal rendering in either case and
    with any zero padding. *)
Section int_render.
Context `{Unicode}.

Lemma py_int_render base n : 2 ≤ base ≤ 16 → 0 ≤ n → py_int base (render base n) = Ok n.
Proof.
  intros. rewrite py_int_digits, digits_value_render; try lia; [done | apply render_nonempty |].
  apply render_digits; lia.
Qed.

Lemma py_int_hex_upper n w : 0 ≤ n → py_int 16 (upper (zpad w (render 16 n))) = Ok n.
Proof.
  intros Hn. rewrite py_int_digits; [| lia | |].
  - unfold zpad. rewrite digits_value_upper, digits_value_zeros.
    by rewrite digits_value_render by lia.
  - unfold zpad. intros E. apply fmap_nil_inv, app_eq_nil in E as [_ E]. by apply render_nonempty in E.
  - apply Forall_fmap. apply Forall_impl with (λ c, is_digit 16 c = true).
    + unfold zpad. apply Forall_app; split; [by apply Forall_replicate | apply render_digits; lia].
    + intros c Hc. simpl. by rewrite is_digit_upper.
Qed.

Lemma py_int_str_int n : py_int 10 (str_int n) = Ok n.
Proof.
  unfold str_int. destruct (Z.ltb_spec n 0); [|by apply py_int_render].
  assert (Hd : Forall (λ c, is_digit 10 c = true) (render 10 (- n))) by (apply render_digits; lia).
  unfold py_int. rewrite fmap_cons. rewrite (to_ascii_digits 10) by done.
  change (to_ascii_char 45) with 45. simpl skip_while. unfold take_sign.
  rewrite skip_prefix_digits, scan_digits_run by (try done; left; apply render_nonempty).
  pose proof (digits_value_render 10 (- n)) as Hv.
  destruct (render 10 (- n)) as [|c s] eqn:E; [by apply render_nonempty in E|].
  unfold default. rewrite Hv by lia. simpl skip_while. f_equal. lia.
Qed.
End int_render.

(** A byte is rendered as exactly two hexadecimal digits. *)
Lemma format_02x_byte n :
  0 ≤ n < 256 → format_02x n = [digit_char (n / 16); digit_char (n mod 16)].
Proof.
  intros Hn. unfold format_02x. rewrite (proj2 (Z.ltb_ge n 0)) by lia.
  assert (Hd : 0 ≤ n / 16 < 16) by (split; [apply Z.div_pos | apply Z.div_lt_upper_bound]; lia).
  unfold render. destruct (Z.to_nat (Z.log2 n)) as [|k] eqn:El.
  - assert (n < 2).
    { assert (Z.log2 n = 0) as L0 by (pose proof (Z.log2_nonneg n); lia).
      apply Z.log2_null in L0. lia. }
    simpl. rewrite (Z.div_small n 16) by lia. done.
  - simpl. destruct (Z.eqb_spec (n / 16) 0) as [E|E]; [by rewrite E|].
    rewrite (Z.div_small (n / 16) 16), (Z.mod_small (n / 16) 16) by lia. done.
Qed.

(** ** Slices with non-negative bounds, and cutting a sequence in pieces *)

Section cutting.
Context {A : Type}.
Implicit Types s : list A.

Lemma slice_nonneg s a b :
  0 ≤ a ≤ b → slice s a b = take (Z.to_nat (b - a)) (drop (Z.to_nat a) s).
Proof.
  intros Hab. unfold slice, clamp.
  rewrite (proj2 (Z.ltb_ge a 0)), (proj2 (Z.ltb_ge b 0)) by lia.
  destruct (decide (a ≤ zlen s)) as [Ha|Ha].
  - rewrite (Z.min_l a) by lia.
    destruct (decide (b ≤ zlen s)) as [Hb|Hb].
    + by rewrite Z.min_l by lia.
    + rewrite Z.min_r by lia. rewrite !take_ge; [done|..]; rewrite length_drop; unfold zlen in *; lia.
  - rewrite !Z.min_r by lia. rewrite !drop_ge by (unfold zlen in *; lia). by rewrite !take_nil.
Qed.

Lemma range_shift hi step : 0 < step → range step hi step = (λ i, i + step) <$> range 0 (hi - step) step.
Proof.
  intros Hs. unfold range. rewrite <- list_fmap_compose.
  replace (hi - step - 0 + step - 1) with (hi - step + step - 1) by lia.
  apply list_fmap_ext. intros i k _. simpl. lia.
Qed.

Lemma slice_drop s a b n :
  0 ≤ n → 0 ≤ a ≤ b → slice s (a + n) (b + n) = slice (drop (Z.to_nat n) s) a b.
Proof.
  intros Hn Hab. rewrite !slice_nonneg by lia. rewrite drop_drop.
  replace (b + n - (a + n)) with (b - a) by lia.
  rewrite Z2Nat.inj_add by lia. by rewrite Nat.add_comm.
Qed.

(** The pieces [s[i:i+n] for i in range(0, len(s), n)]. *)
Definition pieces (s : list A) (n : Z) : list (list A) :=
  (λ i, slice s i (i + n)) <$> range 0 (zlen s) n.

Lemma pieces_nil n : 0 < n → pieces [] n = [].
Proof. intros. unfold pieces. by rewrite range_nil by (try lia; done). Qed.

Lemma pieces_cons s n :
  0 < n → s ≠ [] → pieces s n = take (Z.to_nat n) s :: pieces (drop (Z.to_nat n) s) n.
Proof.
  intros Hn Hs. unfold pieces.
  assert (0 < zlen s) by (destruct s; [done | rewrite zlen_cons; pose proof (zlen_nonneg s); lia]).
  rewrite range_cons by lia. rewrite fmap_cons. f_equal.
  { rewrite slice_nonneg by lia. rewrite drop_0. f_equal. lia. }
  rewrite Z.add_0_l, range_shift by done. rewrite <- list_fmap_compose.
  assert (range 0 (zlen s - n) n = range 0 (zlen (drop (Z.to_nat n) s)) n) as Hr.
  { destruct (decide (n ≤ zlen s)) as [Hle|Hle].
    - f_equal. unfold zlen in *. rewrite length_drop. lia.
    - rewrite !range_nil; [done|lia| |lia|lia].
      unfold zlen in *. rewrite length_drop. lia. }
  rewrite Hr. apply list_fmap_ext. intros i x Hx. simpl.
  assert (0 ≤ x).
  { unfold range in Hx. rewrite list_lookup_fmap in Hx.
    apply fmap_Some in Hx as (k & Hk & ->). apply lookup_seqZ in Hk. nia. }
  replace (x + n + n) with ((x + n) + n) by lia. by rewrite slice_drop by lia.
Qed.

(** Induction on a sequence by steps of [n] elements. *)
Lemma step_ind (n : nat) (P : list A → Prop) :
  (0 < n)%nat → P [] → (∀ s, s ≠ [] → P (drop n s) → P s) → ∀ s, P s.
Proof.
  intros Hn H0 HS s. remember (length s) as k eqn:Hk. revert s Hk.
  induction (lt_wf k) as [k _ IH]; intros s ->.
  destruct s as [|x s]; [done|]. apply HS; [done|].
  eapply IH; [|reflexivity]. rewrite length_drop. simpl. lia.
Qed.

Lemma pieces_concat s n : 0 < n → concat (pieces s n) = s.
Proof.
  intros Hn. revert s. apply (step_ind (Z.to_nat n)); [lia| |intros s Hs IH].
  - by rewrite pieces_nil.
  - rewrite pieces_cons by done. simpl. by rewrite IH, take_drop.
Qed.

Lemma pieces_lengths s n :
  0 < n → Forall (λ p, 0 < zlen p ≤ n) (pieces s n).
Proof.
  intros Hn. revert s. apply (step_ind (Z.to_nat n)); [lia| |intros s Hs IH].
  - by rewrite pieces_nil.
  - rewrite pieces_cons by done. constructor; [|done].
    unfold zlen. rewrite length_take. destruct s; [done|]. simpl. lia.
Qed.

Lemma pieces_app a s n : 0 < n → zlen a = n → pieces (a ++ s) n = a :: pieces s n.
Proof.
  intros Hn Ha. rewrite pieces_cons; [|done|].
  - assert (length a = Z.to_nat n) as <- by (unfold zlen in Ha; lia).
    by rewrite take_app_length, drop_app_length.
  - destruct a; [|done]. unfold zlen in Ha. simpl in Ha. lia.
Qed.

Lemma pieces_flat {B} (f : B → list A) (l : list B) n :
  0 < n → (∀ x, x ∈ l → zlen (f x) = n) → pieces (concat (f <$> l)) n = f <$> l.
Proof.
  intros Hn. induction l as [|x l IH]; intros Hf; simpl; [by apply pieces_nil|].
  rewrite pieces_app by (try done; apply Hf; left). f_equal. apply IH.
  intros y Hy. apply Hf. by right.
Qed.
End cutting.

(** ** Byte checksums

    The tools write the 8-bit two's complement as [((s ^ 0xFF) + 1) & 0xFF]. *)

Lemma land_255 n : Z.land n 255 = n mod 256.
Proof. change 255 with (Z.ones 8). by rewrite Z.land_ones by lia. Qed.

Lemma lxor_255_small m : 0 ≤ m < 256 → Z.lxor m 255 = 255 - m.
Proof.
  intros Hm.
  assert (forallb (λ m, Z.lxor m 255 =? 255 - m) (seqZ 0 256) = true) as H by reflexivity.
  rewrite forallb_forall in H. apply Z.eqb_eq, H, list_elem_of_In, elem_of_seqZ. lia.
Qed.

Lemma lxor_255_mod n : Z.lxor n 255 mod 256 = 255 - n mod 256.
Proof.
  rewrite <- lxor_255_small by (apply Z.mod_pos_bound; lia).
  rewrite <- !land_255. apply Z.bits_inj'. intros i Hi.
  rewrite !Z.land_spec, !Z.lxor_spec, Z.land_spec. change 255 with (Z.ones 8).
  destruct (decide (i < 8)).
  - rewrite Z.ones_spec_low by lia. by rewrite !andb_true_r.
  - rewrite Z.ones_spec_high by lia. by rewrite !andb_false_r.
Qed.

Lemma twos_complement n : Z.land (Z.lxor n 255 + 1) 255 = (- n) mod 256.
Proof.
  rewrite land_255, <- Z.add_mod_idemp_l, lxor_255_mod by lia.
  replace (255 - n mod 256 + 1) with (0 - n mod 256 + 1 * 256) by lia.
  rewrite Z.mod_add by lia. by rewrite Zminus_mod_idemp_r.
Qed.

Lemma twos_complement_range n : 0 ≤ Z.land (Z.lxor n 255 + 1) 255 < 256.
Proof. rewrite twos_complement. apply Z.mod_pos_bound. lia. Qed.

Lemma twos_complement_sum n : (n + Z.land (Z.lxor n 255 + 1) 255) mod 256 = 0.
Proof. rewrite twos_complement, Z.add_mod_idemp_r, Z.add_opp_diag_r by lia. done. Qed.

Lemma foldl_add_acc (l : list Z) a : foldl Z.add a l = a + foldl Z.add 0 l.
Proof.
  revert a; induction l as [|x l IH]; intros a; simpl; [lia|]. rewrite (IH (a + x)), (IH (0 + x)). lia.
Qed.

Lemma sum_list_app l1 l2 : sum_list (l1 ++ l2) = sum_list l1 + sum_list l2.
Proof. unfold sum_list. rewrite foldl_app. apply foldl_add_acc. Qed.

Lemma sum_list_cons x l : sum_list (x :: l) = x + sum_list l.
Proof. unfold sum_list. simpl. apply foldl_add_acc. Qed.

Lemma sum_list_nil : sum_list [] = 0.
Proof. reflexivity. Qed.

Create Rewrite HintDb pystr.
#[export] Hint Rewrite @zlen_app @zlen_cons @zlen_nil sum_list_app sum_list_cons sum_list_nil : pystr.

(** *** Packed fields *)

Definition is_byte (b : Z) : Prop := 0 ≤ b < 256.
#[export] Instance is_byte_dec b : Decision (is_byte b).
Proof. unfold is_byte. apply _. Defined.

Lemma pack_byte b : is_byte b → pack_le 1 b = Ok [b].
Proof.
  intros Hb. unfold pack_le, is_byte in *. change (256 ^ Z.of_nat 1) with 256.
  rewrite (proj2 (Z.leb_le 0 b)), (proj2 (Z.ltb_lt b 256)) by lia. simpl.
  by rewrite Z.mod_small by lia.
Qed.

Lemma pack_byte_inv b l : pack_le 1 b = Ok l → is_byte b ∧ l = [b].
Proof.
  unfold pack_le. change (256 ^ Z.of_nat 1) with 256.
  destruct ((0 <=? b) && (b <? 256)) eqn:E; [|done].
  assert (is_byte b) by (unfold is_byte; lia). intros [= <-]. simpl.
  split; [done|]. unfold is_byte in *. by rewrite Z.mod_small by lia.
Qed.

Lemma length_le_bytes n v : length (le_bytes n v) = n.
Proof. revert v; induction n as [|n IH]; intros v; simpl; [done|]. by rewrite IH. Qed.

Lemma le_bytes_byte n v : Forall is_byte (le_bytes n v).
Proof.
  revert v; induction n as [|n IH]; intros v; simpl; constructor; [|apply IH].
  apply Z.mod_pos_bound. lia.
Qed.

Lemma from_bytes_big_snoc b x : from_bytes_big (b ++ [x]) = from_bytes_big b * 256 + x.
Proof. unfold from_bytes_big. by rewrite foldl_app. Qed.

(** [int.from_bytes] inverts [struct.pack] of a big-endian field. *)
Lemma from_bytes_pack_be w v l : pack_be w v = Ok l → from_bytes_big l = v ∧ zlen l = Z.of_nat w.
Proof.
  unfold pack_be. destruct ((0 <=? v) && (v <? 256 ^ Z.of_nat w)) eqn:E; [|done].
  intros [= <-]. split; [|unfold zlen; by rewrite length_reverse, length_le_bytes].
  assert (0 ≤ v < 256 ^ Z.of_nat w) as Hv by lia. clear E. revert v Hv.
  induction w as [|w IH]; intros v Hv.
  - simpl. change (256 ^ Z.of_nat 0) with 1 in Hv. change (0 = v). lia.
  - simpl. rewrite reverse_cons, from_bytes_big_snoc, IH.
    + pose proof (Z.div_mod v 256 ltac:(lia)). lia.
    + rewrite Nat2Z.inj_succ, Z.pow_succ_r in Hv by lia.
      split; [apply Z.div_pos; lia | apply Z.div_lt_upper_bound; lia].
Qed.

(** ** How [int] fails, and how large its result can be *)

Section int_bounds.
Context `{Unicode}.

Lemma py_int_raise base s e : py_int base s = Raise e → e = ValueError.
Proof. unfold py_int. repeat case_match; congruence. Qed.

Lemma py_int_nil base : py_int base [] = Raise ValueError.
Proof. reflexivity. Qed.

Lemma skip_while_length p s : (length (skip_while p s) ≤ length s)%nat.
Proof. induction s as [|c s IH]; simpl; [lia|]. case_match; simpl; lia. Qed.

Lemma scan_digits_bound base us acc s v rest :
  2 ≤ base → 0 ≤ default 0 acc → scan_digits base us acc s = Some (Some v, rest) →
  0 ≤ v < (default 0 acc + 1) * base ^ zlen s.
Proof.
  intros Hb. revert us acc; induction s as [|c s IH]; intros us acc Ha.
  - simpl. destruct us; [done|]. intros [= -> <-]. simpl in *. unfold zlen. simpl. lia.
  - assert (Hpow : 0 < base ^ zlen s) by (apply Z.pow_pos_nonneg; [lia | apply zlen_nonneg]).
    assert (Hs : base ^ zlen (c :: s) = base * base ^ zlen s).
    { rewrite zlen_cons, Z.pow_add_r, Z.pow_1_r by (lia || apply zlen_nonneg). done. }
    simpl. rewrite Hs.
    assert (Hstop : ∀ r, (if us then None else Some (acc, r)) = Some (Some v, rest) →
      0 ≤ v < (default 0 acc + 1) * (base * base ^ zlen s)).
    { intros r. destruct us; [done|]. intros [= -> _]. simpl in *. nia. }
    destruct (c =? 95).
    { destruct us; [done|]. intros E. apply IH in E; [nia | done]. }
    destruct (digit_val c) as [d|] eqn:Ed; [|apply Hstop].
    apply digit_val_bounds in Ed. destruct (Z.ltb_spec d base); [|apply Hstop].
    intros E. apply IH in E; simpl in *; nia.
Qed.

(** [k] characters in base [base] denote less than [base ^ k]. *)
Lemma py_int_bound base s v : 2 ≤ base → py_int base s = Ok v → v < base ^ zlen s.
Proof.
  intros Hb. unfold py_int.
  set (s0 := to_ascii_char <$> s).
  pose proof (skip_while_length ascii_space s0) as H1.
  assert (length s0 = length s) as H0 by apply length_fmap.
  destruct (take_sign (skip_while ascii_space s0)) as [sg s1] eqn:Es.
  assert ((sg = 1 ∨ sg = -1) ∧ (length s1 ≤ length (skip_while ascii_space s0))%nat) as [Hsg H2].
  { unfold take_sign in Es. repeat case_match; simplify_eq; simpl; split; (lia || tauto). }
  assert (length (skip_prefix base s1) ≤ length s1)%nat as H3.
  { unfold skip_prefix. repeat case_match; simpl; lia. }
  destruct (scan_digits base true None (skip_prefix base s1)) as [[[w|] rest]|] eqn:E; [|done..].
  apply scan_digits_bound in E; [|done..]. simpl in E.
  destruct (skip_while ascii_space rest); [|done]. intros [= <-].
  assert (base ^ zlen (skip_prefix base s1) ≤ base ^ zlen s).
  { apply Z.pow_le_mono_r; unfold zlen; lia. }
  destruct Hsg as [-> | ->]; lia.
Qed.
End int_bounds.

Lemma pack_le_raise w v e : pack_le w v = Raise e → e = StructError.
Proof. unfold pack_le. case_match; congruence. Qed.

Lemma pack_be_raise w v e : pack_be w v = Raise e → e = StructError.
Proof. unfold pack_be. case_match; congruence. Qed.

(** *** ASCII output of the renderers *)

Definition is_ascii (c : Z) : Prop := 0 ≤ c < 128.

Lemma is_digit_ascii base c : is_digit base c = true → is_ascii c.
Proof. intros Hc%is_digit_plain. unfold is_ascii. lia. Qed.

Lemma render_ascii base n : 2 ≤ base ≤ 36 → 0 ≤ n → Forall is_ascii (render base n).
Proof.
  intros. eapply Forall_impl; [by apply render_digits|]. intros c Hc%is_digit_ascii. exact Hc.
Qed.

Lemma zpad_ascii w s : Forall is_ascii s → Forall is_ascii (zpad w s).
Proof. intros Hs. unfold zpad. apply Forall_app; split; [|done]. apply Forall_replicate. unfold is_ascii. lia. Qed.

Lemma format_02x_ascii n : Forall is_ascii (format_02x n).
Proof.
  unfold format_02x. destruct (Z.ltb_spec n 0).
  - constructor; [unfold is_ascii; lia|]. apply zpad_ascii, render_ascii; lia.
  - apply zpad_ascii, render_ascii; lia.
Qed.

Lemma upper_ascii s : Forall is_ascii s → Forall is_ascii (upper s).
Proof.
  intros Hs. apply Forall_fmap. eapply Forall_impl; [done|]. intros c Hc.
  unfold is_ascii, upper_char in *. simpl. case_match; lia.
Qed.

(** The interpreter whose Unicode database knows no space or digit above
    ASCII: enough for text that is ASCII. *)
Definition ascii_only : Unicode := {| u_space := λ _, false; u_decimal := λ _, None |}.

Lemma pieces_full {A} (s : list A) n i p :
  0 < n → pieces s n !! i = Some p → (S i < length (pieces s n))%nat → zlen p = n.
Proof.
  intros Hn. revert s i. apply (step_ind (Z.to_nat n) (λ s, ∀ i, pieces s n !! i = Some p →
    (S i < length (pieces s n))%nat → zlen p = n)); [lia| |].
  - intros i. by rewrite pieces_nil.
  - intros s Hs IH i. rewrite pieces_cons by done. destruct i as [|i]; simpl.
    + intros [= <-] Hl. unfold zlen. rewrite length_take.
      destruct (decide (Z.to_nat n ≤ length s)%nat); [lia|].
      rewrite drop_ge, pieces_nil in Hl by (done || lia). simpl in Hl. lia.
    + intros Hp Hl. apply (IH i Hp). lia.
Qed.

(** A positive number is rendered without a leading zero. *)
Lemma render_aux_lead fuel base n acc :
  2 ≤ base ≤ 36 → 0 < n < base ^ Z.of_nat fuel →
  ∃ c s, render_aux fuel base n acc = c :: s ∧ c ≠ 48.
Proof.
  intros Hb. revert n acc; induction fuel as [|fuel IH]; intros n acc Hn.
  { change (base ^ Z.of_nat 0) with 1 in Hn. lia. }
  simpl. destruct (Z.eqb_spec (n / base) 0) as [E|E].
  - exists (digit_char (n mod base)), acc. split; [done|].
    assert (n mod base = n) as ->.
    { apply Z.mod_small. split; [lia|]. apply Z.div_small_iff in E; lia. }
    unfold digit_char. case_match; lia.
  - apply IH. assert (0 ≤ n / base) by (apply Z.div_pos; lia). split; [lia|].
    apply Z.div_lt_upper_bound; [lia|].
    rewrite Nat2Z.inj_succ, Z.pow_succ_r in Hn by lia. lia.
Qed.

Lemma render_lead base n : 2 ≤ base ≤ 36 → 0 < n → ∃ c s, render base n = c :: s ∧ c ≠ 48.
Proof. intros. apply render_aux_lead; [done|]. pose proof (render_fuel base n). lia. Qed.

(** ** Splitting *)

Lemma split_on_none sep s : sep ∉ s → split_on sep s = [s].
Proof.
  induction s as [|c s IH]; intros Hs; simpl; [done|].
  apply not_elem_of_cons in Hs as [Hc Hs].
  by rewrite (proj2 (Z.eqb_neq c sep)), IH by done.
Qed.

Lemma split_on_app sep a b : sep ∉ a → split_on sep (a ++ sep :: b) = a :: split_on sep b.
Proof.
  induction a as [|c a IH]; intros Ha; simpl; [by rewrite Z.eqb_refl|].
  apply not_elem_of_cons in Ha as [Hc Ha].
  by rewrite (proj2 (Z.eqb_neq c sep)), IH by done.
Qed.

Lemma split_on_join sep ws :
  ws ≠ [] → Forall (λ w, sep ∉ w) ws → split_on sep (join [sep] ws) = ws.
Proof.
  intros Hne Hws. induction Hws as [|w ws Hw Hws IH]; [done|].
  destruct ws as [|w' ws]; [by apply split_on_none|].
  change (join [sep] (w :: w' :: ws)) with (w ++ sep :: join [sep] (w' :: ws)).
  rewrite split_on_app by done. f_equal. by apply IH.
Qed.

Lemma render_not_in base n c : 2 ≤ base ≤ 36 → 0 ≤ n → is_digit base c = false → c ∉ render base n.
Proof.
  intros Hb Hn Hc Hin. pose proof (render_digits base n Hb Hn) as Hd.
  rewrite Forall_forall in Hd. apply Hd in Hin. congruence.
Qed.

Lemma join_not_in sep ws c : c ∉ sep → Forall (λ w, c ∉ w) ws → c ∉ join sep ws.
Proof.
  intros Hs Hws. induction Hws as [|w ws Hw Hws IH]; [apply not_elem_of_nil|].
  destruct ws as [|w' ws]; [done|].
  change (join sep (w :: w' :: ws)) with (w ++ sep ++ join sep (w' :: ws)).
  rewrite !not_elem_of_app. tauto.
Qed.

(** A 16-bit field, most significant byte first. *)
Definition be16 (v : Z) : pybytes := [v / 256 mod 256; v mod 256].

Lemma pack_be_16 v : pack_be 2 v = if (0 <=? v) && (v <? 65536) then Ok (be16 v) else Raise StructError.
Proof. reflexivity. Qed.

(** Any bytes are four-byte words and a shorter rest. *)
Lemma cut_words (data : pybytes) :
  ∃ ws tl, data = concat ws ++ tl ∧ Forall (λ w, length w = 4%nat) ws ∧ zlen tl < 4.
Proof.
  revert data. apply (step_ind 4); [lia| |].
  - exists [], []. split_and!; [done | constructor | done].
  - intros s Hs (ws & tl & E & Hw & Hl). destruct (decide (zlen s < 4)) as [H4|H4].
    + exists [], s. split_and!; [done | constructor | done].
    + exists (take 4 s :: ws), tl. split_and!; [|constructor; [|done]|done].
      * change (concat (take 4 s :: ws)) with (take 4 s ++ concat ws).
        by rewrite <- app_assoc, <- E, take_drop.
      * rewrite length_take. unfold zlen in H4. lia.
Qed.

Lemma zlen_words (ws : list pybytes) : Forall (λ w, length w = 4%nat) ws → zlen (concat ws) = 4 * zlen ws.
Proof.
  induction 1 as [|w ws Hw _ IH]; [done|]. change (concat (w :: ws)) with (w ++ concat ws).
  autorewrite with pystr. rewrite IH. unfold zlen at 1. lia.
Qed.

(** A comprehension over the pieces of a sequence. *)
Lemma mapM_pieces {A B} (f : list A → outcome B) (s : list A) n :
  mapM (λ i, f (slice s i (i + n))) (range 0 (zlen s) n) = mapM f (pieces s n).
Proof.
  unfold pieces. generalize (range 0 (zlen s) n). intros l.
  induction l as [|i l IH]; cbn [mapM fmap list_fmap]; [done|]. by rewrite IH.
Qed.
