(* ===== verification/PyFloat.v ===== *)
(** * Python floats from text, and back to integers

    [float(s)] and [int(f)].  The number grammar is CPython's; a decimal
    value is rounded once to IEEE binary64, ties to even, with the Standard
    Library's [SpecFloat] operations (which take mantissas of any size), so
    [float] is correctly rounded as CPython's [dtoa] is. *)

From stdpp Require Import base numbers list option strings.
From Stdlib Require Export SpecFloat.
From S2P Require Import Prelude PyStr.

Abbreviation pyfloat := spec_float.

Definition prec64 : Z := 53.
Definition emax64 : Z := 1024.

(** The binary64 nearest to [(-1)^sg * m * 10^k]. *)
Definition round_decimal (sg : bool) (m k : Z) : pyfloat :=
  match m with
  | Zpos p =>
      if 0 <=? k
      then binary_normalize prec64 emax64 (if sg then - (m * 10 ^ k) else m * 10 ^ k) 0 sg
      else match 10 ^ (- k) with
           | Zpos q => SFdiv prec64 emax64 (S754_finite sg p 0) (S754_finite false q 0)
           | _ => S754_nan
           end
  | _ => S754_zero sg
  end.

Definition is_dec (c : Z) : bool := (48 <=? c) && (c <=? 57).

(** The decimal digits at the head of a string: their value after [acc], their
    number, and the rest. *)
Fixpoint dec_digits (acc : Z) (n : Z) (s : pystr) : Z * Z * pystr :=
  match s with
  | c :: s' => if is_dec c then dec_digits (acc * 10 + (c - 48)) (n + 1) s' else (acc, n, s)
  | [] => (acc, n, s)
  end.

Definition lower_char (c : Z) : Z := if (65 <=? c) && (c <=? 90) then c + 32 else c.

(** [e], a sign and at least one digit; anything else is left unread. *)
Definition read_exponent (s : pystr) : Z * pystr :=
  match s with
  | c :: s' =>
      if lower_char c =? chr "e" then
        let '(sg, s1) := take_sign s' in
        let '(v, n, rest) := dec_digits 0 0 s1 in
        if n =? 0 then (0, s) else (sg * v, rest)
      else (0, s)
  | [] => (0, s)
  end.

(** An unsigned decimal number: digits, an optional point with more digits, an
    optional exponent; at least one digit before the exponent. *)
Definition read_decimal (s : pystr) : option (Z * Z * pystr) :=
  let '(m1, n1, s1) := dec_digits 0 0 s in
  let '(m2, n2, s2) :=
    match s1 with
    | c :: s1' => if c =? chr "." then dec_digits m1 0 s1' else (m1, 0, s1)
    | [] => (m1, 0, s1)
    end in
  if n1 + n2 =? 0 then None
  else let '(e, s3) := read_exponent s2 in Some (m2, e - n2, s3).

(** Underscores are allowed between two digits only; they are dropped. *)
Fixpoint drop_underscores (prev_digit : bool) (s : pystr) : option pystr :=
  match s with
  | [] => Some []
  | c :: s' =>
      if c =? 95 then
        match s' with
        | d :: _ => if prev_digit && is_dec d then drop_underscores false s' else None
        | [] => None
        end
      else cons c <$> drop_underscores (is_dec c) s'
  end.

Section float_of_str.
Context `{Unicode}.

Definition py_float (s : pystr) : outcome pyfloat :=
  let s := to_ascii_char <$> s in
  let s := rstrip_while ascii_space (skip_while ascii_space s) in
  match drop_underscores false s with
  | None => Raise ValueError
  | Some s =>
      let '(sg, s) := take_sign s in
      let neg := sg =? -1 in
      let low := lower_char <$> s in
      if bool_decide (low = lit "inf") || bool_decide (low = lit "infinity")
      then Ok (S754_infinity neg)
      else if bool_decide (low = lit "nan") then Ok S754_nan
      else match read_decimal s with
           | Some (m, k, []) => Ok (round_decimal neg m k)
           | _ => Raise ValueError
           end
  end.
End float_of_str.

(** [int(f)]: truncation towards zero. *)
Definition int_of_float (f : pyfloat) : outcome Z :=
  match f with
  | S754_zero _ => Ok 0
  | S754_infinity _ => Raise OverflowError
  | S754_nan => Raise ValueError
  | S754_finite sg m e =>
      let v := if 0 <=? e then Zpos m * 2 ^ e else Zpos m / 2 ^ (- e) in
      Ok (if sg then - v else v)
  end.

(** ** Integers are exact below 2^53 *)

Lemma digits2_pos_size p : digits2_pos p = Pos.size p.
Proof. induction p as [p IH|p IH|]; simpl; by rewrite ?IH. Qed.

Lemma digits2_bounds p :
  2 ^ (Zpos (digits2_pos p) - 1) ≤ Zpos p < 2 ^ Zpos (digits2_pos p).
Proof.
  rewrite digits2_pos_size. pose proof (Pos.size_gt p). pose proof (Pos.size_le p).
  rewrite <- !Pos2Z.inj_pow. split; [|lia].
  assert (Zpos (2 ^ Pos.size p) = 2 * 2 ^ (Zpos (Pos.size p) - 1)) as E.
  { rewrite Pos2Z.inj_pow, <- Z.pow_succ_r by lia. f_equal. lia. }
  lia.
Qed.

Lemma digits2_unique p k : 0 ≤ k → 2 ^ k ≤ Zpos p < 2 ^ (k + 1) → Zpos (digits2_pos p) = k + 1.
Proof.
  intros Hk Hp. pose proof (digits2_bounds p) as Hb. set (d := Zpos (digits2_pos p)) in *.
  assert (0 < d) by (unfold d; lia).
  destruct (Z.lt_trichotomy d (k + 1)) as [Hlt|[->|Hgt]]; [|done|].
  - assert (2 ^ d ≤ 2 ^ k) by (apply Z.pow_le_mono_r; lia). lia.
  - assert (2 ^ (k + 1) ≤ 2 ^ (d - 1)) by (apply Z.pow_le_mono_r; lia). lia.
Qed.

Lemma iter_xO m d : Zpos (Pos.iter xO m d) = Zpos m * 2 ^ Zpos d.
Proof.
  induction d as [|d IH] using Pos.peano_ind; [simpl; lia|].
  rewrite Pos.iter_succ, Pos2Z.inj_xO, IH, Pos2Z.inj_succ, Z.pow_succ_r by lia. lia.
Qed.

(** A positive integer of at most 53 bits is rounded to itself: the mantissa
    is shifted to 53 bits and nothing is lost. *)
Lemma binary_round_int sg p :
  Zpos p < 2 ^ 53 →
  ∃ m e, binary_round prec64 emax64 sg p 0 = S754_finite sg m e ∧ e ≤ 0 ∧ Zpos m = Zpos p * 2 ^ (- e).
Proof.
  intros Hp. pose proof (digits2_bounds p) as Hb. set (d := Zpos (digits2_pos p)) in *.
  assert (0 < d) by (unfold d; lia).
  assert (d ≤ 53).
  { destruct (decide (d ≤ 53)) as [|Hd]; [done|].
    assert (2 ^ 53 ≤ 2 ^ (d - 1)) by (apply Z.pow_le_mono_r; lia). lia. }
  assert (Hf : fexp prec64 emax64 d = d - 53) by (unfold fexp, emin, prec64, emax64; lia).
  set (sh := 53 - d) in *.
  assert (∃ mz, shl_align p 0 (d - 53) = (mz, d - 53) ∧ Zpos mz = Zpos p * 2 ^ sh) as (mz & Hal & Hmz).
  { unfold shl_align. replace (d - 53 - 0) with (- sh) by lia.
    destruct sh as [|k|k] eqn:Ek; [exists p; simpl; split; [f_equal|]; lia| |lia].
    exists (Pos.iter xO p k). split; [done | apply iter_xO]. }
  assert (Zpos (digits2_pos mz) = 53) as Hdz.
  { rewrite (digits2_unique mz 52); [done | lia |]. rewrite Hmz. split.
    - replace 52 with ((d - 1) + sh) by lia. rewrite Z.pow_add_r by lia.
      apply Z.mul_le_mono_nonneg_r; [apply Z.pow_nonneg|]; lia.
    - replace (52 + 1) with (d + sh) by lia. rewrite Z.pow_add_r by lia.
      apply Z.mul_lt_mono_pos_r; [apply Z.pow_pos_nonneg|]; lia. }
  exists mz, (d - 53). split; [|split; [lia|rewrite Hmz; repeat f_equal; lia]].
  unfold binary_round. fold d. rewrite Z.add_0_r, Hf, Hal.
  unfold binary_round_aux, shr_fexp. cbn [Zdigits2]. rewrite Hdz.
  replace (53 + (d - 53)) with d by lia. rewrite Hf, Z.sub_diag. cbn.
  rewrite Hdz. replace (53 + (d - 53)) with d by lia. rewrite Hf, Z.sub_diag. cbn.
  match goal with |- context [if ?b then _ else _] =>
    replace b with true by (unfold emax64, prec64; lia) end. done.
Qed.

Lemma int_of_float_int n :
  0 ≤ n < 2 ^ 53 → int_of_float (binary_normalize prec64 emax64 n 0 false) = Ok n.
Proof.
  intros Hn. destruct n as [|p|p]; [done| |lia]. cbn [binary_normalize].
  destruct (binary_round_int false p) as (m & e & -> & He & Hm); [lia|].
  unfold int_of_float. f_equal. destruct (Z.leb_spec 0 e).
  - assert (e = 0) as -> by lia. rewrite Hm. simpl. lia.
  - rewrite Hm. apply Z.div_mul. assert (0 < 2 ^ (- e)) by (apply Z.pow_pos_nonneg; lia). lia.
Qed.

(** ** Digit strings *)

Lemma is_dec_digit c : is_digit 10 c = true → is_dec c = true ∧ digit_val c = Some (c - 48).
Proof. intros Hc. unfold is_dec. solve_char; split; (lia || f_equal; lia). Qed.

Lemma dec_digits_run acc n s :
  Forall (λ c, is_digit 10 c = true) s → dec_digits acc n s = (digits_value 10 acc s, n + zlen s, []).
Proof.
  intros Hs. revert acc n; induction Hs as [|c s Hc _ IH]; intros acc n; simpl.
  - unfold zlen. simpl. by rewrite Z.add_0_r.
  - apply is_dec_digit in Hc as [-> Hv]. rewrite IH, zlen_cons. unfold digits_value. simpl. rewrite Hv.
    simpl. do 2 f_equal. lia.
Qed.

Lemma drop_underscores_digits b s :
  Forall (λ c, is_digit 10 c = true) s → drop_underscores b s = Some s.
Proof.
  intros Hs. revert b; induction Hs as [|c s Hc _ IH]; intros b; simpl; [done|].
  pose proof (is_digit_plain _ _ Hc) as (_ & H95 & _).
  rewrite (proj2 (Z.eqb_neq c 95)) by done. by rewrite IH.
Qed.

Lemma ascii_space_digit base c : is_digit base c = true → ascii_space c = false.
Proof. intros Hc%is_digit_plain. unfold ascii_space. lia. Qed.

Lemma skip_while_digits base s :
  Forall (λ c, is_digit base c = true) s → skip_while ascii_space s = s.
Proof. destruct 1 as [|c s Hc]; simpl; [done|]. by rewrite (ascii_space_digit base). Qed.

Lemma rstrip_digits base s :
  Forall (λ c, is_digit base c = true) s → rstrip_while ascii_space s = s.
Proof.
  intros Hs. unfold rstrip_while. rewrite (skip_while_digits base); [apply reverse_involutive|].
  by apply Forall_reverse.
Qed.

Lemma lower_digit c : is_digit 10 c = true → lower_char c = c ∧ c ≠ chr "i" ∧ c ≠ chr "n".
Proof.
  intros Hc%is_dec_digit. unfold is_dec, lower_char in *. change (chr "i") with 105. change (chr "n") with 110.
  split_and!; [case_match; lia | lia | lia].
Qed.

(** [float] of a string of decimal digits is its value, rounded. *)
Lemma py_float_digits `{Unicode} s :
  s ≠ [] → Forall (λ c, is_digit 10 c = true) s →
  py_float s = Ok (round_decimal false (digits_value 10 0 s) 0).
Proof.
  intros Hne Hs. unfold py_float. rewrite (to_ascii_digits 10), (skip_while_digits 10), (rstrip_digits 10) by done.
  rewrite drop_underscores_digits by done.
  destruct s as [|c s]; [done|]. assert (is_digit 10 c = true) as Hc by (by inversion Hs).
  rewrite (take_sign_digit 10) by done. destruct (lower_digit c Hc) as (Hl & Hi & Hn).
  rewrite !bool_decide_eq_false_2; 
    [|intros E; apply (f_equal (λ l, default 0 (head l))) in E; cbn -[lower_char chr] in E; rewrite Hl in E; done..]. cbn [orb].
  unfold read_decimal. rewrite dec_digits_run by done.
  rewrite zlen_cons. pose proof (zlen_nonneg s).
  rewrite (proj2 (Z.eqb_neq _ 0)) by lia. cbn. done.
Qed.

(** [int(float(str(n))) == n] for every natural number of at most 53 bits. *)
Lemma int_float_str `{Unicode} n : 0 ≤ n < 2 ^ 53 → (f ← py_float (str_int n); int_of_float f) = Ok n.
Proof.
  intros Hn. unfold str_int. rewrite (proj2 (Z.ltb_ge n 0)) by lia.
  rewrite py_float_digits by (apply render_nonempty || (apply render_digits; lia)).
  rewrite digits_value_render, bind_ok by lia. rewrite <- (int_of_float_int n) by done.
  destruct n as [|p|p]; [done| |lia]. unfold round_decimal.
  by rewrite Z.mul_1_r.
Qed.
