(* ===== verification/PyJson.v ===== *)
(** * [json.loads]

    The reader of Python's [json] module on a [str]: the grammar of its C
    scanner (including [NaN] and [Infinity]), strict strings, surrogate pairs,
    and the errors a malformed document gives.  Each step consumes a
    character, so the length of the text, plus one, is fuel enough.  The
    interpreter's recursion limit is not modelled. *)

From stdpp Require Import base numbers list option strings.
From S2P Require Import Prelude PyStr PyFloat.

#[warnings="-register-all"]
Inductive json :=
| JNull
| JBool (b : bool)
| JInt (n : Z)
| JFloat (f : pyfloat)
| JStr (s : pystr)
| JArr (l : list json)
| JObj (l : list (pystr * json)).

Definition json_space (c : Z) : bool := (c =? 32) || (c =? 9) || (c =? 10) || (c =? 13).
Definition skip_ws (s : pystr) : pystr := skip_while json_space s.

(** [Some rest] when the text starts with the word. *)
Definition word (w s : pystr) : option pystr :=
  if is_prefix w s then Some (drop (length w) s) else None.

Definition hex4 (s : pystr) : option (Z * pystr) :=
  match s with
  | a :: b :: c :: d :: r =>
      if is_digit 16 a && is_digit 16 b && is_digit 16 c && is_digit 16 d
      then Some (digits_value 16 0 [a; b; c; d], r) else None
  | _ => None
  end.

(** After the opening quote: the characters up to the closing one. *)
Fixpoint scan_string (fuel : nat) (acc : pystr) (s : pystr) : outcome (pystr * pystr) :=
  match fuel with
  | O => Raise JSONDecodeError
  | S fuel' =>
      match s with
      | [] => Raise JSONDecodeError
      | c :: s' =>
          if c =? 34 then Ok (reverse acc, s')
          else if c <? 32 then Raise JSONDecodeError
          else if negb (c =? 92) then scan_string fuel' (c :: acc) s'
          else match s' with
               | [] => Raise JSONDecodeError
               | e :: s'' =>
                   if e =? 34 then scan_string fuel' (34 :: acc) s''
                   else if e =? 92 then scan_string fuel' (92 :: acc) s''
                   else if e =? 47 then scan_string fuel' (47 :: acc) s''
                   else if e =? 98 then scan_string fuel' (8 :: acc) s''
                   else if e =? 102 then scan_string fuel' (12 :: acc) s''
                   else if e =? 110 then scan_string fuel' (10 :: acc) s''
                   else if e =? 114 then scan_string fuel' (13 :: acc) s''
                   else if e =? 116 then scan_string fuel' (9 :: acc) s''
                   else if e =? 117 then
                     match hex4 s'' with
                     | None => Raise JSONDecodeError
                     | Some (u, r) =>
                         let single := scan_string fuel' (u :: acc) r in
                         if (0xD800 <=? u) && (u <=? 0xDBFF) then
                           match word [92; 117] r with
                           | Some r' =>
                               match hex4 r' with
                               | Some (v, r'') =>
                                   if (0xDC00 <=? v) && (v <=? 0xDFFF)
                                   then scan_string fuel'
                                          (0x10000 + (u - 0xD800) * 1024 + (v - 0xDC00) :: acc) r''
                                   else single
                               | None => single
                               end
                           | None => single
                           end
                         else single
                     end
                   else Raise JSONDecodeError
               end
      end
  end.

(** The digits at the head of the text, as text. *)
Fixpoint span_dec (s : pystr) : pystr * pystr :=
  match s with
  | c :: s' => if is_dec c then let '(a, b) := span_dec s' in (c :: a, b) else ([], s)
  | [] => ([], [])
  end.

(** An optional minus, an integer part without leading zeros, an optional
    fraction and an optional exponent; a fraction or an exponent without digits
    is left unread. *)
Definition scan_number (s : pystr) : outcome (json * pystr) :=
  let '(neg, s1) := match s with 45 :: r => (true, r) | _ => (false, s) end in
  let '(ip, s2) :=
    match s1 with
    | 48 :: r => ([48], r)
    | _ => span_dec s1
    end in
  match ip with
  | [] => Raise JSONDecodeError
  | _ =>
      let '(fp, s3) :=
        match s2 with
        | 46 :: r => match span_dec r with ([], _) => ([], s2) | (f, r') => (f, r') end
        | _ => ([], s2)
        end in
      let '(e, s4) := read_exponent s3 in
      let m := digits_value 10 0 (ip ++ fp) in
      if bool_decide (s4 = s2)
      then Ok (JInt (if neg then - m else m), s4)
      else Ok (JFloat (round_decimal neg m (e - zlen fp)), s4)
  end.

(** One value; arrays and objects recurse with less fuel. *)
Fixpoint scan_value (fuel : nat) (s : pystr) : outcome (json * pystr) :=
  match fuel with
  | O => Raise JSONDecodeError
  | S fuel' =>
      match s with
      | [] => Raise JSONDecodeError
      | c :: s' =>
          if c =? 34 then
            '(t, r) ← scan_string (S (length s')) [] s'; Ok (JStr t, r)
          else if c =? 123 then
            match skip_ws s' with
            | 125 :: r => Ok (JObj [], r)
            | s1 => '(l, r) ← scan_members fuel' s1; Ok (JObj l, r)
            end
          else if c =? 91 then
            match skip_ws s' with
            | 93 :: r => Ok (JArr [], r)
            | s1 => '(l, r) ← scan_elements fuel' s1; Ok (JArr l, r)
            end
          else match word (lit "null") s with Some r => Ok (JNull, r) | None =>
          match word (lit "true") s with Some r => Ok (JBool true, r) | None =>
          match word (lit "false") s with Some r => Ok (JBool false, r) | None =>
          match word (lit "NaN") s with Some r => Ok (JFloat S754_nan, r) | None =>
          match word (lit "Infinity") s with Some r => Ok (JFloat (S754_infinity false), r) | None =>
          match word (lit "-Infinity") s with Some r => Ok (JFloat (S754_infinity true), r) | None =>
          scan_number s end end end end end end
      end
  end
with scan_elements (fuel : nat) (s : pystr) : outcome (list json * pystr) :=
  match fuel with
  | O => Raise JSONDecodeError
  | S fuel' =>
      '(v, r) ← scan_value fuel' s;
      match skip_ws r with
      | 93 :: r' => Ok ([v], r')
      | 44 :: r' => '(l, r'') ← scan_elements fuel' (skip_ws r'); Ok (v :: l, r'')
      | _ => Raise JSONDecodeError
      end
  end
with scan_members (fuel : nat) (s : pystr) : outcome (list (pystr * json) * pystr) :=
  match fuel with
  | O => Raise JSONDecodeError
  | S fuel' =>
      match s with
      | 34 :: s' =>
          '(key, r) ← scan_string (S (length s')) [] s';
          match skip_ws r with
          | 58 :: r' =>
              '(v, r'') ← scan_value fuel' (skip_ws r');
              match skip_ws r'' with
              | 125 :: r3 => Ok ([(key, v)], r3)
              | 44 :: r3 => '(l, r4) ← scan_members fuel' (skip_ws r3); Ok ((key, v) :: l, r4)
              | _ => Raise JSONDecodeError
              end
          | _ => Raise JSONDecodeError
          end
      | _ => Raise JSONDecodeError
      end
  end.

Definition json_loads (s : pystr) : outcome json :=
  match s with
  | 0xFEFF :: _ => Raise JSONDecodeError
  | _ =>
      '(v, r) ← scan_value (2 * length s + 2) (skip_ws s);
      match skip_ws r with [] => Ok v | _ => Raise JSONDecodeError end
  end.

(** ** Booleans and integers *)

Lemma span_dec_digits s : Forall (λ c, is_digit 10 c = true) s → span_dec s = (s, []).
Proof.
  induction 1 as [|c s Hc _ IH]; simpl; [done|]. apply is_dec_digit in Hc as [-> _]. by rewrite IH.
Qed.

(** A text that starts with a digit or a minus is read as a number. *)
Lemma scan_value_number fuel c s :
  48 ≤ c ≤ 57 → scan_value (S fuel) (c :: s) = scan_number (c :: s).
Proof.
  intros Hc. cbn [scan_value].
  rewrite (proj2 (Z.eqb_neq c 34)), (proj2 (Z.eqb_neq c 123)), (proj2 (Z.eqb_neq c 91)) by lia.
  assert (∀ x w, x ≠ c → word (x :: w) (c :: s) = None) as Hw.
  { intros x w Hx. unfold word. cbn. by rewrite (proj2 (Z.eqb_neq x c)) by done. }
  change (lit "null") with (110 :: lit "ull"). change (lit "true") with (116 :: lit "rue").
  change (lit "false") with (102 :: lit "alse"). change (lit "NaN") with (78 :: lit "aN").
  change (lit "Infinity") with (73 :: lit "nfinity"). change (lit "-Infinity") with (45 :: lit "Infinity").
  by rewrite !Hw by lia.
Qed.

Lemma scan_number_digits c s :
  is_digit 10 c = true → Forall (λ c, is_digit 10 c = true) s → (c = 48 → s = []) →
  scan_number (c :: s) = Ok (JInt (digits_value 10 0 (c :: s)), []).
Proof.
  intros Hc Hs H0. pose proof (is_digit_plain _ _ Hc) as (Hr & _).
  assert (∃ r, (match c :: s with 45 :: r => (true, r) | _ => (false, c :: s) end) = r ∧ r = (false, c :: s))
    as (r & Er & ->).
  { eexists; split; [done|]. repeat case_match; simplify_eq; (done || lia). }
  unfold scan_number. rewrite Er.
  assert (∃ r, (match c :: s with 48 :: r => ([48], r) | _ => span_dec (c :: s) end) = r ∧ r = (c :: s, []))
    as (r2 & Er2 & ->).
  { eexists; split; [done|].
    destruct (decide (c = 48)) as [->|Hne]; [by rewrite H0|].
    rewrite span_dec_digits by (by constructor). repeat case_match; simplify_eq; done. }
  rewrite Er2. cbn. by rewrite app_nil_r.
Qed.

Lemma skip_ws_digit c s : 48 ≤ c → skip_ws (c :: s) = c :: s.
Proof.
  intros Hc. unfold skip_ws, json_space. cbn [skip_while].
  by replace ((c =? 32) || (c =? 9) || (c =? 10) || (c =? 13)) with false by lia.
Qed.

(** [json.loads(str(n)) == n] for a natural number. *)
Lemma json_loads_int n : 0 ≤ n → json_loads (str_int n) = Ok (JInt n).
Proof.
  intros Hn. unfold str_int. rewrite (proj2 (Z.ltb_ge n 0)) by lia.
  pose proof (digits_value_render 10 n ltac:(lia) Hn) as Hv.
  pose proof (render_digits 10 n ltac:(lia) Hn) as Hd.
  assert (∃ c s, render 10 n = c :: s ∧ (c = 48 → s = [])) as (c & s & E & H0).
  { destruct (decide (n = 0)) as [->|]; [by exists 48, []|].
    destruct (render_lead 10 n) as (c & s & -> & Hc); [lia..|]. by exists c, s. }
  rewrite E in *. apply Forall_cons in Hd as [Hc Hs].
  assert (48 ≤ c ≤ 57) as Hr by (clear -Hc; apply is_dec_digit in Hc as [Hc _]; unfold is_dec in Hc; lia).
  unfold json_loads. rewrite skip_ws_digit by lia.
  assert (2 * length (c :: s) + 2 = S (2 * length (c :: s) + 1))%nat as -> by lia.
  rewrite scan_value_number, scan_number_digits, bind_ok by done.
  cbn [skip_ws skip_while]. rewrite Hv. repeat case_match; simplify_eq; (done || lia).
Qed.

Lemma scan_string_raise fuel acc s e : scan_string fuel acc s = Raise e → e = JSONDecodeError.
Proof.
  revert acc s; induction fuel as [|fuel IH]; intros acc s; cbn [scan_string]; [congruence|].
  repeat case_match; try congruence; apply IH.
Qed.

Lemma scan_number_raise s e : scan_number s = Raise e → e = JSONDecodeError.
Proof. unfold scan_number. repeat case_match; congruence. Qed.

(** [json.loads] raises nothing but [JSONDecodeError]. *)
Lemma scan_raise fuel :
  (∀ s e, scan_value fuel s = Raise e → e = JSONDecodeError) ∧
  (∀ s e, scan_elements fuel s = Raise e → e = JSONDecodeError) ∧
  (∀ s e, scan_members fuel s = Raise e → e = JSONDecodeError).
Proof.
  induction fuel as [|fuel (IH1 & IH2 & IH3)]; [split_and!; intros s e [= <-]; done|].
  assert (Hb : ∀ A B (m : outcome A) (f : A → outcome B) e,
    (∀ e, m = Raise e → e = JSONDecodeError) → (∀ a e, f a = Raise e → e = JSONDecodeError) →
    (m ≫= f) = Raise e → e = JSONDecodeError).
  { intros A B [a|e'] f e Hm Hf E; [by eapply Hf | apply Hm; by injection E as ->]. }
  split_and!; intros s e; cbn [scan_value scan_elements scan_members];
    repeat (case_match; try congruence);
    try (apply Hb; [eauto using scan_string_raise|]); eauto using scan_number_raise;
    intros [? ?] ?; repeat (case_match; try congruence);
    try (apply Hb; [eauto using scan_string_raise|]); try (intros [? ?] ?); repeat (case_match; try congruence);
    try (apply Hb; [eauto using scan_string_raise|]); try (intros [? ?] ?); congruence.
Qed.

Lemma json_loads_raise s e : json_loads s = Raise e → e = JSONDecodeError.
Proof.
  assert (∀ s e, ('(v, r) ← scan_value (2 * length s + 2) (skip_ws s);
      match skip_ws r with [] => Ok v | _ => Raise JSONDecodeError end) = Raise e → e = JSONDecodeError) as H.
  { clear. intros s e. destruct (scan_value _ _) as [[v r]|e'] eqn:E.
    - rewrite bind_ok. case_match; congruence.
    - apply scan_raise in E as ->. cbn. congruence. }
  unfold json_loads. repeat case_match; try (apply H); congruence.
Qed.
