(* ===== verification/Utf8.v ===== *)
(** * UTF-8 and ASCII codecs

    [str(b, 'utf8')] (strict decoding, as Mote.readline uses it) and
    [bytes(s, 'utf-8')] (as the flash programmer uses it), and
    [s.encode('ascii')].  Decoding refuses overlong forms, surrogates and
    code points above 0x10FFFF, as the codec does. *)

From stdpp Require Import base numbers list option.
From S2P Require Import Prelude PyStr.

Definition is_surrogate (c : Z) : bool := (0xD800 <=? c) && (c <=? 0xDFFF).

Definition utf8_encode_char (c : Z) : outcome pybytes :=
  if c <? 0x80 then Ok [c]
  else if c <? 0x800 then Ok [0xC0 + c / 64; 0x80 + c mod 64]
  else if is_surrogate c then Raise UnicodeEncodeError
  else if c <? 0x10000 then Ok [0xE0 + c / 4096; 0x80 + c / 64 mod 64; 0x80 + c mod 64]
  else Ok [0xF0 + c / 262144; 0x80 + c / 4096 mod 64; 0x80 + c / 64 mod 64; 0x80 + c mod 64].

Definition utf8_encode (s : pystr) : outcome pybytes :=
  match mapM utf8_encode_char s with Ok l => Ok (concat l) | Raise e => Raise e end.

Definition is_cont (b : Z) : bool := (0x80 <=? b) && (b <? 0xC0).

Fixpoint utf8_decode (b : pybytes) : outcome pystr :=
  match b with
  | [] => Ok []
  | b0 :: r =>
      if b0 <? 0x80 then cons b0 <$> utf8_decode r
      else if (0xC2 <=? b0) && (b0 <? 0xE0) then
        match r with
        | b1 :: r' =>
            if is_cont b1 then cons ((b0 - 0xC0) * 64 + (b1 - 0x80)) <$> utf8_decode r'
            else Raise UnicodeDecodeError
        | _ => Raise UnicodeDecodeError
        end
      else if (0xE0 <=? b0) && (b0 <? 0xF0) then
        match r with
        | b1 :: b2 :: r' =>
            let c := (b0 - 0xE0) * 4096 + (b1 - 0x80) * 64 + (b2 - 0x80) in
            if is_cont b1 && is_cont b2 && (0x800 <=? c) && negb (is_surrogate c)
            then cons c <$> utf8_decode r' else Raise UnicodeDecodeError
        | _ => Raise UnicodeDecodeError
        end
      else if (0xF0 <=? b0) && (b0 <? 0xF5) then
        match r with
        | b1 :: b2 :: b3 :: r' =>
            let c := (b0 - 0xF0) * 262144 + (b1 - 0x80) * 4096 + (b2 - 0x80) * 64 + (b3 - 0x80) in
            if is_cont b1 && is_cont b2 && is_cont b3 && (0x10000 <=? c) && (c <? 0x110000)
            then cons c <$> utf8_decode r' else Raise UnicodeDecodeError
        | _ => Raise UnicodeDecodeError
        end
      else Raise UnicodeDecodeError
  end.

(** Settle the conditionals whose test is decided by linear arithmetic. *)
Ltac decide_ifs :=
  repeat match goal with
  | |- context [if ?b then _ else _] =>
      first [replace b with true by lia | replace b with false by lia]; cbv iota
  end.

(** [s.encode('ascii')] *)
Definition ascii_encode (s : pystr) : outcome pybytes :=
  if forallb (λ c, c <? 128) s then Ok s else Raise UnicodeEncodeError.

Lemma ascii_encode_ok s : Forall is_ascii s → ascii_encode s = Ok s.
Proof.
  intros Hs. unfold ascii_encode. assert (forallb (λ c, c <? 128) s = true) as ->; [|done].
  induction Hs as [|c s Hc _ IH]; simpl; [done|].
  rewrite IH. unfold is_ascii in Hc. lia.
Qed.

Lemma utf8_decode_ascii s : Forall is_ascii s → utf8_decode s = Ok s.
Proof.
  induction 1 as [|c s Hc _ IH]; simpl; [done|].
  unfold is_ascii in Hc. rewrite (proj2 (Z.ltb_lt c 128)) by lia. by rewrite IH.
Qed.

Lemma utf8_decode_raise b e : utf8_decode b = Raise e → e = UnicodeDecodeError.
Proof.
  remember (length b) as n eqn:Hn. revert b Hn e.
  induction (lt_wf n) as [n _ IH]; intros b -> e.
  assert (Hrec : ∀ c r, (length r < length b)%nat →
    cons c <$> utf8_decode r = Raise e → e = UnicodeDecodeError).
  { intros c r Hl E. destruct (utf8_decode r) eqn:Er; [done|]. simpl in E. simplify_eq.
    by eapply IH. }
  destruct b as [|b0 r]; simpl; [done|].
  repeat case_match; simplify_eq; intros E; try (by injection E);
    apply Hrec in E; try done; simpl; lia.
Qed.

(** A code point the codec can encode. *)
Definition is_scalar (c : Z) : bool := (0 <=? c) && (c <? 0x110000) && negb (is_surrogate c).

Lemma utf8_decode_char c l r :
  is_scalar c = true → utf8_encode_char c = Ok l →
  utf8_decode (l ++ r) = cons c <$> utf8_decode r.
Proof.
  unfold is_scalar, utf8_encode_char. intros Hc.
  assert (0 ≤ c < 0x110000) as Hr by lia.
  assert (is_surrogate c = false) as Hs by (destruct (is_surrogate c); [lia | done]).
  rewrite Hs.
  pose proof (Z.div_mod c 64 ltac:(lia)). pose proof (Z.mod_pos_bound c 64 ltac:(lia)).
  pose proof (Z.div_mod (c / 64) 64 ltac:(lia)) as H64. pose proof (Z.mod_pos_bound (c / 64) 64 ltac:(lia)).
  rewrite Z.div_div in H64 by lia. change (64 * 64) with 4096 in H64.
  pose proof (Z.div_mod (c / 4096) 64 ltac:(lia)) as H46. pose proof (Z.mod_pos_bound (c / 4096) 64 ltac:(lia)).
  rewrite Z.div_div in H46 by lia. change (4096 * 64) with 262144 in H46.
  pose proof (Z.div_pos c 262144 ltac:(lia) ltac:(lia)).
  destruct (Z.ltb_spec c 0x80); [|destruct (Z.ltb_spec c 0x800); [|destruct (Z.ltb_spec c 0x10000)]];
    intros [= <-]; cbn [app utf8_decode]; unfold is_cont; decide_ifs; cbv zeta.
  - done.
  - do 2 f_equal. lia.
  - match goal with |- context [is_surrogate ?x] => replace x with c by lia end.
    rewrite Hs. cbn [negb]. decide_ifs. done.
  - match goal with |- context [cons ?x <$> _] => replace x with c by lia end.
    decide_ifs. done.
Qed.

(** Decoding inverts encoding. *)
Lemma utf8_round_trip s b :
  Forall (λ c, is_scalar c = true) s → utf8_encode s = Ok b → utf8_decode b = Ok s.
Proof.
  intros Hs. unfold utf8_encode. destruct (mapM utf8_encode_char s) as [l|] eqn:E; [|done].
  intros [= <-]. apply mapM_ok_Forall2 in E.
  induction E as [|c p s l Hp _ IH]; [done|]. inversion Hs; subst.
  change (concat (p :: l)) with (p ++ concat l). rewrite (utf8_decode_char c) by done.
  by rewrite IH.
Qed.
