(* ===== verification/Effects.v ===== *)
(** * Effectful Python code as programs over actions

    A statement that talks to the outside (a serial port, a lock, the clock,
    an HTTP server) is a [prog]: a tree of actions whose branches are the
    replies, [outcome]s because a library call may raise.  The same tree is run
    alone by [run] (one thread, a given environment) and interleaved with
    others by the thread pool of Daemon.v.  A loop takes fuel and ends in
    [PStuck] when it outlives it; statements quantify over every fuel. *)

From stdpp Require Import base numbers list option.
From S2P Require Import Prelude.

Section prog.
Context {E : Type → Type}.

Inductive prog (A : Type) : Type :=
| PRet (a : A)
| PRaise (e : exn)
| PStuck
| PAct {R : Type} (a : E R) (k : outcome R → prog A).
#[global] Arguments PRet {A} _.
#[global] Arguments PRaise {A} _.
#[global] Arguments PStuck {A}.
#[global] Arguments PAct {A R} _ _.

#[export] Instance prog_ret : MRet prog := @PRet.
#[export] Instance prog_bind : MBind prog := λ A B f,
  fix go (m : prog A) : prog B :=
    match m with
    | PRet a => f a
    | PRaise e => PRaise e
    | PStuck => PStuck
    | PAct a k => PAct a (λ o, go (k o))
    end.

Definition of_outcome {A} (o : outcome A) : prog A :=
  match o with Ok a => PRet a | Raise e => PRaise e end.
Definition act {R} (a : E R) : prog R := PAct a of_outcome.

(** [try: m except ...: h], where [h] says which exceptions are caught. *)
Fixpoint try_except {A} (m : prog A) (h : exn → option (prog A)) : prog A :=
  match m with
  | PRet a => PRet a
  | PRaise e => match h e with Some p => p | None => PRaise e end
  | PStuck => PStuck
  | PAct a k => PAct a (λ o, try_except (k o) h)
  end.

(** [for x in l: body(x)] *)
Fixpoint for_each {A} (l : list A) (body : A → prog unit) : prog unit :=
  match l with
  | [] => PRet ()
  | x :: l' => _ ← body x; for_each l' body
  end.
End prog.
Arguments prog : clear implicits.

Create HintDb prog.
Create Rewrite HintDb prog.

(** ** Actions a program can perform, whatever the replies *)

Section all_actions.
Context {E : Type → Type} (P : ∀ R, E R → Prop).

Fixpoint all_actions {A} (m : prog E A) : Prop :=
  match m with
  | PRet _ | PRaise _ | PStuck => True
  | PAct a k => P _ a ∧ ∀ o, all_actions (k o)
  end.

Lemma all_actions_of_outcome {A} (o : outcome A) : all_actions (of_outcome o).
Proof. by destruct o. Qed.

Lemma all_actions_act {R} (a : E R) : P R a → all_actions (act a).
Proof. split; [done|]. apply all_actions_of_outcome. Qed.

Lemma all_actions_bind {A B} (m : prog E A) (f : A → prog E B) :
  all_actions m → (∀ a, all_actions (f a)) → all_actions (m ≫= f).
Proof.
  unfold mbind. intros Hm Hf; induction m as [a|e| |R a k IH]; simpl; [apply Hf | done | done |].
  destruct Hm as [? Hk]. split; [done|]. intros o. apply IH, Hk.
Qed.

Lemma all_actions_try {A} (m : prog E A) h :
  all_actions m → (∀ e p, h e = Some p → all_actions p) → all_actions (try_except m h).
Proof.
  intros Hm Hh; induction m as [a|e| |R a k IH]; simpl; [done| |done|].
  - destruct (h e) eqn:Eh; [by eapply Hh | done].
  - destruct Hm as [? Hk]. split; [done|]. intros o. apply IH, Hk.
Qed.
End all_actions.

(** Goes through a straight-line program whose actions all satisfy [P] by
    computation. *)
Ltac solve_actions :=
  repeat first
    [ exact I | assumption
    | apply all_actions_bind; [|intros ?]
    | apply all_actions_act; exact I
    | apply all_actions_of_outcome ].

(** ** Running one program alone

    The environment answers an action, or never does ([None]: a lock that is
    held and that nobody else will release). *)

Section run.
Context {E : Type → Type} {S : Type} (env : ∀ R, E R → S → option (outcome R) * S).

(** [None]: the program blocked for ever, or outlived its fuel. *)
Fixpoint run {A} (m : prog E A) (s : S) : option (outcome A) * S :=
  match m with
  | PRet a => (Some (Ok a), s)
  | PRaise e => (Some (Raise e), s)
  | PStuck => (None, s)
  | PAct a k =>
      match env _ a s with
      | (Some o, s') => run (k o) s'
      | (None, s') => (None, s')
      end
  end.

Lemma run_bind {A B} (m : prog E A) (f : A → prog E B) s :
  run (m ≫= f) s =
    match run m s with
    | (Some (Ok a), s') => run (f a) s'
    | (Some (Raise e), s') => (Some (Raise e), s')
    | (None, s') => (None, s')
    end.
Proof.
  unfold mbind. revert s; induction m as [a|e| |R a k IH]; intros s; simpl; [done..|].
  destruct (env R a s) as [[o|] s']; [apply IH | done].
Qed.

Lemma run_act {R} (a : E R) s : run (act a) s = env R a s.
Proof. simpl. by destruct (env R a s) as [[[r|e]|] s']. Qed.

Lemma run_ret {A} (a : A) s : run (mret a) s = (Some (Ok a), s).
Proof. done. Qed.

Lemma run_of_outcome {A} (o : outcome A) s : run (of_outcome o) s = (Some o, s).
Proof. by destruct o. Qed.

Lemma run_try {A} (m : prog E A) h s :
  run (try_except m h) s =
    match run m s with
    | (Some (Raise e), s') =>
        match h e with Some p => run p s' | None => (Some (Raise e), s') end
    | r => r
    end.
Proof.
  revert s; induction m as [a|e| |R a k IH]; intros s; simpl; [done| |done|].
  - by destruct (h e).
  - destruct (env R a s) as [[o|] s']; [apply IH | done].
Qed.

(** Inverting a run that ends normally. *)
Lemma run_bind_inv {A B} (m : prog E A) (f : A → prog E B) s b s' :
  run (m ≫= f) s = (Some (Ok b), s') →
  ∃ a s1, run m s = (Some (Ok a), s1) ∧ run (f a) s1 = (Some (Ok b), s').
Proof. rewrite run_bind. destruct (run m s) as [[[a|e]|] s1]; [eauto | done..]. Qed.

Lemma run_act_inv {R B} (a : E R) (f : R → prog E B) s b s' :
  run (act a ≫= f) s = (Some (Ok b), s') →
  ∃ r s1, env R a s = (Some (Ok r), s1) ∧ run (f r) s1 = (Some (Ok b), s').
Proof. intros (r & s1 & Ha & Hf)%run_bind_inv. rewrite run_act in Ha. eauto. Qed.

Lemma run_of_outcome_inv {A B} (o : outcome A) (f : A → prog E B) s b s' :
  run (of_outcome o ≫= f) s = (Some (Ok b), s') → ∃ a, o = Ok a ∧ run (f a) s = (Some (Ok b), s').
Proof. intros (a & s1 & Ho & Hf)%run_bind_inv. rewrite run_of_outcome in Ho. simplify_eq. eauto. Qed.

(** What holds initially and is kept by every iteration holds after a loop
    that ends normally. *)
Lemma run_for_each_ok {A} (l : list A) (body : A → prog E unit) (P : list A → S → Prop) s s' :
  P [] s →
  (∀ done x s1 s2, x ∈ l → P done s1 → run (body x) s1 = (Some (Ok ()), s2) → P (done ++ [x]) s2) →
  run (for_each l body) s = (Some (Ok ()), s') → P l s'.
Proof.
  intros H0 Hstep.
  assert (∀ l2 pre s, l = pre ++ l2 → P pre s →
    run (for_each l2 body) s = (Some (Ok ()), s') → P l s') as Hgen; [|by apply (Hgen l [])].
  induction l2 as [|x l2 IH]; intros pre s1 Hl HP.
  - intros [= <-]. by rewrite Hl, app_nil_r.
  - cbn [for_each]. rewrite run_bind. destruct (run (body x) s1) as [[[[]|e]|] s2] eqn:Er; [|done..].
    apply (IH (pre ++ [x])); [by rewrite <- app_assoc|].
    eapply Hstep; [|done..]. rewrite Hl. apply elem_of_app. right. left.
Qed.
End run.

#[export] Hint Rewrite @run_bind @run_act @run_ret @run_of_outcome @run_try : prog.
