(* ===== verification/Hex.v ===== *)
(** * Bytes written as hexadecimal text

    Two upper-case digits a byte, the form of the frames and records the host
    tools exchange, and how slices and [int(s, 16)] read it. *)

From stdpp Require Import base numbers list option strings.
From S2P Require Import Prelude PyStr.

(** Two upper-case hexadecimal digits. *)
Definition hexbyte (b : Z) : pystr := upper (format_02x b).
Definition hexbytes (bs : pybytes) : pystr := concat (hexbyte <$> bs).

Lemma upper_app s1 s2 : upper (s1 ++ s2) = upper s1 ++ upper s2.
Proof. apply fmap_app. Qed.

Lemma upper_concat (l : list pystr) : upper (concat l) = concat (upper <$> l).
Proof. induction l as [|x l IH]; simpl; [done|]. by rewrite upper_app, IH. Qed.

Lemma hexbyte_two b : is_byte b → hexbyte b = [upper_char (digit_char (b / 16)); upper_char (digit_char (b mod 16))].
Proof. intros Hb. unfold hexbyte. by rewrite format_02x_byte. Qed.

Lemma zlen_hexbyte b : is_byte b → zlen (hexbyte b) = 2.
Proof. intros Hb. by rewrite hexbyte_two. Qed.

Lemma hexbyte_length b : is_byte b → length (hexbyte b) = 2%nat.
Proof. intros Hb. by rewrite hexbyte_two. Qed.

Lemma zlen_hexbytes bs : Forall is_byte bs → zlen (hexbytes bs) = 2 * zlen bs.
Proof.
  induction 1 as [|b bs Hb _ IH]; [done|].
  change (hexbytes (b :: bs)) with (hexbyte b ++ hexbytes bs). autorewrite with pystr. rewrite zlen_hexbyte by done. lia.
Qed.


Lemma hexbytes_app bs1 bs2 : hexbytes (bs1 ++ bs2) = hexbytes bs1 ++ hexbytes bs2.
Proof. unfold hexbytes. by rewrite fmap_app, concat_app. Qed.

Lemma hexbytes_one b : hexbytes [b] = hexbyte b.
Proof. unfold hexbytes. cbn [fmap list_fmap concat]. apply app_nil_r. Qed.

Lemma hexbyte_digits b : is_byte b → Forall (λ c, is_digit 16 c = true) (hexbyte b).
Proof.
  intros Hb. rewrite hexbyte_two by done. unfold is_byte in Hb.
  assert (0 ≤ b / 16 < 16) by (split; [apply Z.div_pos | apply Z.div_lt_upper_bound]; lia).
  assert (0 ≤ b mod 16 < 16) by (apply Z.mod_pos_bound; lia).
  repeat constructor; rewrite is_digit_upper; apply is_digit_char; lia.
Qed.

Lemma hexbytes_digits bs : Forall is_byte bs → Forall (λ c, is_digit 16 c = true) (hexbytes bs).
Proof.
  intros Hbs. unfold hexbytes. apply Forall_concat, Forall_fmap.
  eapply Forall_impl; [done|]. intros b Hb. by apply hexbyte_digits.
Qed.

Lemma digits_value_hexbyte acc b : is_byte b → digits_value 16 acc (hexbyte b) = acc * 256 + b.
Proof.
  intros Hb. rewrite hexbyte_two by done. unfold is_byte in Hb.
  assert (0 ≤ b / 16 < 16) by (split; [apply Z.div_pos | apply Z.div_lt_upper_bound]; lia).
  assert (0 ≤ b mod 16 < 16) by (apply Z.mod_pos_bound; lia).
  unfold digits_value. cbn [foldl]. rewrite !digit_val_upper, !digit_val_char by lia. cbn [default].
  pose proof (Z.div_mod b 16 ltac:(done)). unfold id. lia.
Qed.

Lemma digits_value_hexbytes acc bs :
  Forall is_byte bs → digits_value 16 acc (hexbytes bs) = foldl (λ a b, a * 256 + b) acc bs.
Proof.
  intros Hbs; revert acc; induction Hbs as [|b bs Hb _ IH]; intros acc; [done|].
  change (hexbytes (b :: bs)) with (hexbyte b ++ hexbytes bs).
  by rewrite digits_value_app, digits_value_hexbyte, IH.
Qed.

(** Cutting the text of bytes on byte boundaries. *)
Lemma slice_hexbytes bs p q :
  Forall is_byte bs → 0 ≤ p ≤ q → q ≤ zlen bs →
  slice (hexbytes bs) (2 * p) (2 * q) = hexbytes (take (Z.to_nat (q - p)) (drop (Z.to_nat p) bs)).
Proof.
  intros Hbs Hpq Hq.
  rewrite <- (take_drop (Z.to_nat p) bs) at 1.
  rewrite <- (take_drop (Z.to_nat (q - p)) (drop (Z.to_nat p) bs)) at 1.
  rewrite !hexbytes_app. apply slice_mid.
  - rewrite zlen_hexbytes by (by apply Forall_take). unfold zlen in *. rewrite length_take. lia.
  - rewrite !zlen_hexbytes by (by repeat first [apply Forall_take | apply Forall_drop]).
    unfold zlen in *. rewrite !length_take, length_drop. lia.
Qed.

(** A list of bytes given by its elements. *)
Ltac byte_list :=
  repeat (apply Forall_cons; split);
  first [assumption | apply Forall_nil; exact I | idtac].

Section hex_int.
Context `{Unicode}.

Lemma py_int_hexbyte b : is_byte b → py_int 16 (hexbyte b) = Ok b.
Proof.
  intros Hb. unfold hexbyte, format_02x. unfold is_byte in Hb.
  rewrite (proj2 (Z.ltb_ge b 0)) by lia. apply py_int_hex_upper. lia.
Qed.


Lemma py_int_hexbytes bs :
  Forall is_byte bs → bs ≠ [] → py_int 16 (hexbytes bs) = Ok (from_bytes_big bs).
Proof.
  intros Hbs Hne. rewrite py_int_digits; [| lia | |by apply hexbytes_digits].
  - by rewrite digits_value_hexbytes.
  - destruct bs as [|b bs]; [done|]. inversion Hbs; subst.
    change (hexbytes (b :: bs)) with (hexbyte b ++ hexbytes bs). by rewrite hexbyte_two.
Qed.
End hex_int.
