(* ===== verification/Modbus.v ===== *)
(** * Modbus ASCII frames (tools/eposiotgw/gateway_daemon/modbus)

    [parse] and [build] of the IoT gateway, with the helpers that cut a
    string in chunks, and the package's unit tests.  [hexframe] is the text
    of a frame the way the parser reads it: colon, address, command, size,
    data, checksum, two upper-case digits a byte. *)

From stdpp Require Import base numbers list option strings.
From S2P Require Import Prelude PyStr Hex.

Definition READ_HOLDING_REGISTER : Z := 0x03.
Definition READ_COILS : Z := 0x01.
Definition WRITE_HOLDING_REGISTER : Z := 0x06.
Definition WRITE_SINGLE_COIL : Z := 0x05.

(** [range] refuses a zero step when the generator is first advanced, and a
    negative step yields nothing. *)
Definition chunks {A} (sequence : list A) (n : Z) : outcome (list (list A)) :=
  if n =? 0 then Raise ValueError
  else if n <? 0 then Ok []
  else Ok ((λ i, slice sequence i (i + n)) <$> range 0 (zlen sequence) n).

(** [''.join(pieces)] joins the one-character strings of a chunk. *)
Definition string_chunks (string : pystr) (n : Z) : outcome (list pystr) :=
  ps ← chunks string n; mret ((λ piece : pystr, join [] ((λ c : Z, [c]) <$> piece)) <$> (ps : list pystr)).

Section modbus.
Context `{Unicode}.

(** address, command, data, coordinates, mac_hash, scale *)
Definition parse (message : pystr)
  : outcome (Z * Z * pybytes * pystr * pystr * pystr) :=
  if zlen message <=? 0 then Raise ValueError else
  first ← item message 0;
  if negb (first =? chr ":") then Raise ValueError else
  address ← py_int 16 (slice message 1 3);
  command ← py_int 16 (slice message 3 5);
  size ← py_int 16 (slice message 5 7);
  let data := slice message 7 (-2) in
  let coordinates := slice_from message 15 in
  let mac_hash := slice_from message 55 in
  let scale := slice_from message 65 in
  cs ← string_chunks data 2;
  byte_list ← mapM (py_int 16) cs;
  packed ← mapM (pack_le 1) byte_list;
  let data := concat packed in
  let expected_lrc := address + command + size + sum_list byte_list in
  let expected_lrc := Z.land (Z.lxor expected_lrc 0xFF + 1) 0xFF in
  lrc ← py_int 16 (slice_from message (-2));
  (* print(hex(address), command, size, data, message[-2], message[-1]) *)
  _ ← item message (-2);
  _ ← item message (-1);
  if negb (expected_lrc =? lrc) then Raise ValueError
  else Ok (address, command, data, coordinates, mac_hash, scale).

Definition build (address command : Z) (byte_list : pybytes) : pystr :=
  let encoded_data := concat (format_02x <$> byte_list) in
  let lrc := address + command + sum_list byte_list in
  let lrc := Z.land (Z.lxor lrc 0xFF + 1) 0xFF in
  upper (lit ":" ++ format_02x address ++ format_02x command ++ encoded_data ++ format_02x lrc)
    ++ [13; 10].
End modbus.

(** ** The package's unit tests (modbus/tests.py)

    Each test is the outcome of its method: [AssertionError] when an
    assertion fails, the escaping exception otherwise. *)

Section tests.
Context `{Unicode}.

Definition TEST_MESSAGE : pystr := lit ":A0036162636465666768696A6BFB".

(** Unpacking a tuple of [arity] elements into [targets] names. *)
Definition unpack (targets arity : nat) : outcome unit :=
  if decide (targets = arity) then Ok () else Raise ValueError.
Definition assert (b : bool) : outcome unit := if b then Ok () else Raise AssertionError.

Definition test_has_to_start_with_colon : outcome unit :=
  match parse (lit "hello") with
  | Raise e => if is_value_error e then Ok () else Raise e
  | Ok _ => Raise AssertionError
  end.
Definition test_returns_correct_address : outcome unit :=
  '(address, _, _, _, _, _) ← parse TEST_MESSAGE; _ ← unpack 3 6; assert (address =? 0xA0).
Definition test_returns_correct_command : outcome unit :=
  '(_, command, _, _, _, _) ← parse TEST_MESSAGE; _ ← unpack 3 6; assert (command =? 0x03).
Definition test_returns_correct_message : outcome unit :=
  '(_, _, message, _, _, _) ← parse TEST_MESSAGE; _ ← unpack 3 6;
  assert (bool_decide (message = lit "abcdefghijk")).
Definition test_build_correctly : outcome unit :=
  assert (bool_decide (build 0xA0 0x03 (lit "abcdefghijk") = TEST_MESSAGE)).

Definition ModbusTest : list (outcome unit) :=
  [test_has_to_start_with_colon; test_returns_correct_address; test_returns_correct_command;
   test_returns_correct_message; test_build_correctly].
End tests.

(** ** The frame text *)

Definition hexframe (address command size : Z) (bs : pybytes) (lrc : Z) : pystr :=
  lit ":" ++ hexbyte address ++ hexbyte command ++ hexbyte size ++ hexbytes bs ++ hexbyte lrc.

(** The longitudinal redundancy check of a sum of bytes. *)
Definition lrc_of (n : Z) : Z := Z.land (Z.lxor n 0xFF + 1) 0xFF.

Lemma lrc_of_mod n : lrc_of n = (- n) mod 256.
Proof. apply twos_complement. Qed.

Lemma lrc_of_byte n : is_byte (lrc_of n).
Proof. apply twos_complement_range. Qed.

Lemma hexbytes_snoc_text a c b bs l t :
  lit ":" ++ hexbyte a ++ hexbyte c ++ hexbyte b ++ hexbytes (bs ++ [l]) ++ t =
  (lit ":" ++ hexbyte a ++ hexbyte c ++ hexbyte b ++ hexbytes bs ++ hexbyte l) ++ t.
Proof.
  unfold hexbytes. rewrite fmap_app, concat_app. cbn [concat fmap list_fmap].
  by rewrite app_nil_r, <- !app_assoc.
Qed.

(** [build] is a frame text whose size field is the first data byte. *)
Lemma build_hexframe a c b bs :
  build a c (b :: bs) = hexframe a c b bs (lrc_of (a + c + b + sum_list bs)) ++ [13; 10].
Proof.
  unfold build, hexframe, hexbytes, lrc_of. rewrite fmap_cons. cbn [concat].
  rewrite !upper_app, upper_concat, <- list_fmap_compose, sum_list_cons, Z.add_assoc.
  change (upper (lit ":")) with (lit ":"). by rewrite <- !app_assoc.
Qed.

Lemma build_nil a c :
  build a c [] = lit ":" ++ hexbyte a ++ hexbyte c ++ hexbyte (lrc_of (a + c)) ++ [13; 10].
Proof.
  unfold build, lrc_of. cbn [concat fmap list_fmap]. rewrite !upper_app, sum_list_nil, Z.add_0_r.
  change (upper (lit ":")) with (lit ":"). by rewrite <- !app_assoc.
Qed.

(** ** Chunks *)

Lemma join_singletons (s : pystr) : join [] ((λ c, [c]) <$> s) = s.
Proof.
  induction s as [|c s IH]; [done|]. simpl. destruct s as [|d s]; [done|].
  simpl in *. by rewrite IH.
Qed.

Lemma chunks_pieces {A} (s : list A) n : 0 < n → chunks s n = Ok (pieces s n).
Proof.
  intros Hn. unfold chunks. rewrite (proj2 (Z.eqb_neq n 0)), (proj2 (Z.ltb_ge n 0)) by lia. done.
Qed.

Lemma string_chunks_pieces (s : pystr) n : 0 < n → string_chunks s n = Ok (pieces s n).
Proof.
  intros Hn. unfold string_chunks. rewrite chunks_pieces by done. simpl. unfold mret, outcome_ret. f_equal.
  rewrite <- (list_fmap_id (pieces s n)) at 2. apply list_fmap_ext.
  intros i x _. apply join_singletons.
Qed.

(** ** Parsing a frame text *)

Section parse_lemmas.
Context `{Unicode}.

Lemma bytes_round_trip bs :
  Forall is_byte bs →
  mapM (py_int 16) (hexbyte <$> bs) = Ok bs ∧ mapM (pack_le 1) bs = Ok ((λ b, [b]) <$> bs).
Proof.
  intros Hbs. split.
  - apply mapM_ok_Forall2. induction Hbs; simpl; constructor; [by apply py_int_hexbyte | done].
  - apply mapM_ok_map. eapply Forall_impl; [done|]. intros b Hb. by apply pack_byte.
Qed.

Lemma concat_singletons (bs : pybytes) : concat ((λ b, [b]) <$> bs) = bs.
Proof. induction bs as [|b bs IH]; [done|]. cbn. f_equal. exact IH. Qed.

(** The whole behaviour of [parse] on a frame text whose last two
    characters are [t], which need not be a number. *)
Lemma parse_frame_text a c s bs t :
  is_byte a → is_byte c → is_byte s → Forall is_byte bs → zlen t = 2 →
  let m := lit ":" ++ hexbyte a ++ hexbyte c ++ hexbyte s ++ hexbytes bs ++ t in
  parse m = (l ← py_int 16 t;
             if lrc_of (a + c + s + sum_list bs) =? l
             then Ok (a, c, bs, slice_from m 15, slice_from m 55, slice_from m 65)
             else Raise ValueError).
Proof.
  intros Ha Hc Hs Hbs Ht m.
  assert (Hm : zlen m = 9 + 2 * zlen bs).
  { unfold m. autorewrite with pystr.
    rewrite !zlen_hexbyte, zlen_hexbytes, Ht by done. change (zlen (lit ":")) with 1. lia. }
  assert (slice m 1 3 = hexbyte a) as E1.
  { apply (slice_mid (lit ":") (hexbyte a)); [done|]. by rewrite zlen_hexbyte. }
  assert (slice m 3 5 = hexbyte c) as E2.
  { unfold m. rewrite (app_assoc (lit ":")). apply slice_mid;
      autorewrite with pystr; rewrite !zlen_hexbyte by done; done. }
  assert (slice m 5 7 = hexbyte s) as E3.
  { unfold m. rewrite (app_assoc (hexbyte a)), (app_assoc (lit ":")). apply slice_mid;
      autorewrite with pystr; rewrite !zlen_hexbyte by done; done. }
  assert (m = (lit ":" ++ hexbyte a ++ hexbyte c ++ hexbyte s) ++ hexbytes bs ++ t) as Em.
  { unfold m. by rewrite <- !app_assoc. }
  assert (Hne : t ≠ []) by (intros ->; done).
  assert (slice m 7 (-2) = hexbytes bs) as E4.
  { rewrite Em. apply slice_mid_neg; [|by rewrite Ht|done].
    autorewrite with pystr. by rewrite !zlen_hexbyte. }
  assert (slice_from m (-2) = t) as E5.
  { rewrite Em, app_assoc. apply slice_from_neg; [by rewrite Ht | done]. }
  pose proof (zlen_nonneg bs).
  destruct (last_two_items m) as (x & y & Ex & Ey); [lia|].
  destruct (bytes_round_trip bs Hbs) as [Ep Eq].
  unfold parse. cbv zeta. rewrite (proj2 (Z.leb_gt (zlen m) 0)) by lia.
  change (item m 0) with (Ok (chr ":")).
  rewrite E1, E2, E3, E4, E5, !py_int_hexbyte, string_chunks_pieces by (done || lia).
  unfold hexbytes. rewrite pieces_flat by (try lia; intros b Hb; apply zlen_hexbyte;
    by eapply Forall_forall in Hbs).
  rewrite bind_ok, Z.eqb_refl. cbn [negb].
  rewrite !bind_ok, Ep, bind_ok, Eq, bind_ok, concat_singletons.
  destruct (py_int 16 t) as [l|e]; [|done].
  rewrite bind_ok, Ex, Ey, !bind_ok. unfold lrc_of. destruct (_ =? l); done.
Qed.

Lemma parse_hexframe a c s bs l :
  is_byte a → is_byte c → is_byte s → is_byte l → Forall is_byte bs →
  let m := hexframe a c s bs l in
  parse m = if lrc_of (a + c + s + sum_list bs) =? l
            then Ok (a, c, bs, slice_from m 15, slice_from m 55, slice_from m 65)
            else Raise ValueError.
Proof.
  intros Ha Hc Hs Hl Hbs m. unfold m, hexframe.
  rewrite parse_frame_text by (done || by apply zlen_hexbyte).
  by rewrite py_int_hexbyte, bind_ok.
Qed.
End parse_lemmas.

(** ** Shape of the frames built *)

Lemma build_ascii a c bs : Forall is_ascii (build a c bs).
Proof.
  unfold build. apply Forall_app; split; [|by repeat constructor].
  apply upper_ascii. repeat (apply Forall_app; split); try apply format_02x_ascii.
  - by repeat constructor.
  - apply Forall_concat, Forall_fmap, Forall_true. intros b. apply format_02x_ascii.
Qed.

Lemma zlen_build a c bs :
  is_byte a → is_byte c → Forall is_byte bs → zlen (build a c bs) = 9 + 2 * zlen bs.
Proof.
  intros Ha Hc Hbs. destruct bs as [|b bs].
  - rewrite build_nil. autorewrite with pystr.
    rewrite !zlen_hexbyte by (done || apply lrc_of_byte). done.
  - inversion Hbs; subst. rewrite build_hexframe. unfold hexframe. autorewrite with pystr.
    rewrite !zlen_hexbyte, zlen_hexbytes by (done || apply lrc_of_byte).
    change (zlen (lit ":")) with 1. lia.
Qed.

Section theorems.
Context `{Unicode}.

(** What an accepted message looks like: the colon, a checksum that makes
    the sum of all fields vanish modulo 256, and data that are bytes. *)
Lemma parse_ok_inv m a c d x y z :
  parse m = Ok (a, c, d, x, y, z) →
  ∃ s l, item m 0 = Ok (chr ":") ∧
    py_int 16 (slice m 1 3) = Ok a ∧ py_int 16 (slice m 3 5) = Ok c ∧
    py_int 16 (slice m 5 7) = Ok s ∧ py_int 16 (slice_from m (-2)) = Ok l ∧
    mapM (py_int 16) (pieces (slice m 7 (-2)) 2) = Ok d ∧
    Forall is_byte d ∧ l = lrc_of (a + c + s + sum_list d) ∧
    x = slice_from m 15 ∧ y = slice_from m 55 ∧ z = slice_from m 65.
Proof.
  unfold parse. cbv zeta. destruct (zlen m <=? 0); [done|].
  intros (f & Ef & E)%bind_ok_inv.
  destruct (Z.eqb_spec f (chr ":")) as [->|]; cbn [negb] in E; [|done].
  apply bind_ok_inv in E as (a' & Ea & E). apply bind_ok_inv in E as (c' & Ec & E).
  apply bind_ok_inv in E as (s & Es & E).
  rewrite string_chunks_pieces, bind_ok in E by lia.
  apply bind_ok_inv in E as (bl & Ebl & E). apply bind_ok_inv in E as (pk & Epk & E).
  apply bind_ok_inv in E as (l & El & E). apply bind_ok_inv in E as (? & _ & E).
  apply bind_ok_inv in E as (? & _ & E).
  destruct (Z.eqb_spec (Z.land (Z.lxor (a' + c' + s + sum_list bl) 255 + 1) 255) l) as [Hl|]; [|done].
  injection E as <- <- <- <- <- <-.
  apply mapM_ok_Forall2 in Epk.
  assert (Forall is_byte bl ∧ concat pk = bl) as [Hb ->].
  { clear -Epk. induction Epk as [|b p bl pk Hp _ [IH1 IH2]]; [done|].
    apply pack_byte_inv in Hp as [? ->]. simpl. rewrite IH2. by split; [constructor|]. }
  by exists s, l.
Qed.

(** [parse] is sound: an accepted message starts with a colon, its data
    are bytes, and address, command, size, data and the checksum it carries
    sum to 0 modulo 256; the text fields are the tails at 15, 55 and 65. *)
Theorem parse_sound m a c d x y z :
  parse m = Ok (a, c, d, x, y, z) →
  item m 0 = Ok (chr ":") ∧ Forall is_byte d ∧
  (x, y, z) = (slice_from m 15, slice_from m 55, slice_from m 65) ∧
  ∃ size lrc, py_int 16 (slice m 5 7) = Ok size ∧ py_int 16 (slice_from m (-2)) = Ok lrc ∧
    is_byte lrc ∧ (a + c + size + sum_list d + lrc) mod 256 = 0.
Proof.
  intros (s & l & Hc & _ & _ & Es & El & _ & Hd & -> & -> & -> & ->)%parse_ok_inv.
  split_and!; [done..|]. exists s, (lrc_of (a + c + s + sum_list d)). split_and!; [done..|apply lrc_of_byte|].
  apply twos_complement_sum.
Qed.


(** C35 The longitudinal check detects every error confined to one data byte:
    a frame that carries the checksum of the original data and one altered
    byte is refused with [ValueError]. *)
Theorem parse_detects_byte_error a c s pre b b' post :
  is_byte a → is_byte c → is_byte s → is_byte b → is_byte b' →
  Forall is_byte pre → Forall is_byte post → b ≠ b' →
  parse (hexframe a c s (pre ++ b' :: post) (lrc_of (a + c + s + sum_list (pre ++ b :: post))))
    = Raise ValueError.
Proof.
  intros Ha Hc Hs Hb Hb' Hpre Hpost Hne.
  rewrite parse_hexframe by (try apply lrc_of_byte; try done; by apply Forall_app; split; [|constructor]).
  destruct (Z.eqb_spec (lrc_of (a + c + s + sum_list (pre ++ b' :: post)))
              (lrc_of (a + c + s + sum_list (pre ++ b :: post)))) as [E|]; [|done].
  exfalso. apply Hne. rewrite !lrc_of_mod in E. autorewrite with pystr in E.
  unfold is_byte in *. Z.div_mod_to_equations. lia.
Qed.

Lemma pack_chunks_raise t bl e :
  mapM (py_int 16) (pieces t 2) = Ok bl → mapM (pack_le 1) bl = Raise e →
  e = StructError ∧ ∃ p v, p ∈ pieces t 2 ∧ py_int 16 p = Ok v ∧ v < 0.
Proof.
  intros Eb (v & Hv & Ek)%mapM_raise_inv. split; [by eapply pack_le_raise|].
  apply mapM_ok_Forall2 in Eb. apply list_elem_of_lookup in Hv as [i Hi].
  destruct (Forall2_lookup_r _ _ _ _ _ Eb Hi) as (p & Hp & Hpv). exists p, v.
  split_and!; [by eapply list_elem_of_lookup_2|done|].
  pose proof (py_int_bound 16 p v ltac:(lia) Hpv) as Hlt.
  pose proof (pieces_lengths t 2 ltac:(lia)) as Hpl.
  rewrite Forall_lookup in Hpl. specialize (Hpl _ _ Hp).
  assert (16 ^ zlen p ≤ 16 ^ 2) by (apply Z.pow_le_mono_r; lia).
  unfold pack_le in Ek. change (256 ^ Z.of_nat 1) with 256 in Ek.
  destruct ((0 <=? v) && (v <? 256)) eqn:Ev; [done|lia].
Qed.

Lemma parse_raise_inv m e :
  parse m = Raise e →
  e = ValueError ∨
  (e = StructError ∧ ∃ p v, p ∈ pieces (slice m 7 (-2)) 2 ∧ py_int 16 p = Ok v ∧ v < 0).
Proof.
  unfold parse. cbv zeta. destruct (Z.leb_spec (zlen m) 0) as [|Hlen]; [naive_solver|].
  destruct (item_head m Hlen) as [f Ef]. rewrite Ef, bind_ok. destruct (negb _); [naive_solver|].
  destruct (py_int 16 (slice m 1 3)) as [a|] eqn:Ea; [rewrite bind_ok|intros [= <-]; eauto using py_int_raise].
  assert (1 < zlen m) as Hm.
  { apply (slice_nonempty_zlen m 1 3); [lia|]. intros E13. by rewrite E13, py_int_nil in Ea. }
  destruct (py_int 16 (slice m 3 5)) as [c|] eqn:Ec; [rewrite bind_ok|intros [= <-]; eauto using py_int_raise].
  destruct (py_int 16 (slice m 5 7)) as [s|] eqn:Es; [rewrite bind_ok|intros [= <-]; eauto using py_int_raise].
  rewrite string_chunks_pieces, bind_ok by lia.
  destruct (mapM (py_int 16) _) as [bl|] eqn:Eb; [rewrite bind_ok|].
  2:{ intros [= <-]. apply mapM_raise_inv in Eb as (? & _ & Eb). eauto using py_int_raise. }
  destruct (mapM (pack_le 1) bl) as [pk|] eqn:Ek; [rewrite bind_ok|].
  2:{ intros [= <-]. right. by eapply pack_chunks_raise. }
  destruct (py_int 16 (slice_from m (-2))) as [l|] eqn:El; [rewrite bind_ok|intros [= <-]; eauto using py_int_raise].
  destruct (last_two_items m Hm) as (u & w & -> & ->). rewrite !bind_ok.
  destruct (negb _); [|done]. intros [= <-]. by left.
Qed.

Lemma parse_raise_class m e : parse m = Raise e → e = ValueError ∨ e = StructError.
Proof. intros [?|[? _]]%parse_raise_inv; auto. Qed.

(** The only exceptions [parse] lets out are [ValueError] and
    [struct.error], and [struct.error] only when some two-character data
    chunk denotes a negative number ("-5" is a hexadecimal literal for
    [int]); in particular no index is ever out of range. *)
Theorem parse_exceptions m e :
  parse m = Raise e →
  e = ValueError ∨
  (e = StructError ∧ ∃ p v, p ∈ pieces (slice m 7 (-2)) 2 ∧ py_int 16 p = Ok v ∧ v < 0).
Proof. apply parse_raise_inv. Qed.

(** The gateway's own frames are not parsable as they are written: [build]
    ends them with a carriage return and a line feed, where [parse] expects
    the two checksum digits, so [parse (build a c bs)] is a [ValueError]. *)
Theorem parse_build_raw a c bs :
  is_byte a → is_byte c → Forall is_byte bs → parse (build a c bs) = Raise ValueError.
Proof.
  intros Ha Hc Hbs. destruct bs as [|b bs].
  - rewrite build_nil. etrans; [apply (parse_frame_text a c (lrc_of (a + c)) [] [13; 10]);
      first [done | apply lrc_of_byte] | done].
  - inversion Hbs as [|? ? Hb Hbs']; subst. rewrite build_hexframe. unfold hexframe.
    rewrite <- hexbytes_snoc_text, parse_frame_text; try done.
    apply Forall_app; split; [done|]. repeat constructor; apply lrc_of_byte.
Qed.

(** Cutting a sequence: for a positive size, [chunks] yields pieces that
    concatenate to the sequence, none empty, all of exactly that size but
    the last, which may be shorter. *)
Theorem chunks_spec {A} (s : list A) n :
  0 < n →
  ∃ ps, chunks s n = Ok ps ∧ concat ps = s ∧ Forall (λ p, 0 < zlen p ≤ n) ps ∧
    ∀ i p, ps !! i = Some p → (S i < length ps)%nat → zlen p = n.
Proof.
  intros Hn. exists (pieces s n). split_and!.
  - by apply chunks_pieces.
  - by apply pieces_concat.
  - by apply pieces_lengths.
  - intros i p. by apply pieces_full.
Qed.

(** Every frame [build] makes is ASCII text, whatever the arguments; for
    byte arguments it has exactly two digits per byte, nine characters of
    framing, and ends in CR LF. *)
Theorem build_shape a c bs :
  Forall is_ascii (build a c bs) ∧
  (is_byte a → is_byte c → Forall is_byte bs →
   zlen (build a c bs) = 9 + 2 * zlen bs ∧ slice_from (build a c bs) (-2) = [13; 10]).
Proof.
  split; [apply build_ascii|]. intros Ha Hc Hbs. split; [by apply zlen_build|].
  unfold build. by apply slice_from_neg.
Qed.

(** The package's unit tests against the package's code: only the test of
    the leading colon passes.  [parse] returns six values where the tests
    unpack three, and [build] appends a line end the expected text lacks. *)
Theorem ModbusTest_results :
  ModbusTest = [Ok (); Raise ValueError; Raise ValueError; Raise ValueError; Raise AssertionError].
Proof. reflexivity. Qed.
End theorems.

(** ** Witnesses: the theorems at concrete frames *)

Section witnesses.
#[local] Existing Instance ascii_only.

Example parse_sound_witness :
  let d := lit "bcdefghijk" in
  parse TEST_MESSAGE = Ok (0xA0, 3, d, lit "666768696A6BFB", [], []) ∧
  Forall is_byte d ∧ (0xA0 + 3 + 0x61 + sum_list d + 0xFB) mod 256 = 0.
Proof.
  split; [reflexivity|].
  destruct (parse_sound TEST_MESSAGE 0xA0 3 (lit "bcdefghijk") (lit "666768696A6BFB") [] []
    ltac:(reflexivity)) as (_ & Hd & _ & s & l & Hs & Hl & _ & Hsum).
  change (Ok 0x61 = Ok s) in Hs. change (Ok 0xFB = Ok l) in Hl.
  injection Hs as <-. injection Hl as <-. split; [exact Hd | exact Hsum].
Defined.

Example parse_detects_byte_error_witness :
  parse (hexframe 1 3 2 ([7] ++ 8 :: [9]) (lrc_of (1 + 3 + 2 + sum_list ([7] ++ 6 :: [9]))))
    = Raise ValueError.
Proof.
  apply parse_detects_byte_error; try (unfold is_byte; lia); try done;
    repeat constructor; unfold is_byte; lia.
Defined.

Example parse_exceptions_witness :
  let m := lit ":A00302-5FB" in
  parse m = Raise StructError ∧
  (StructError = ValueError ∨
   (StructError = StructError ∧
    ∃ p v, p ∈ pieces (slice m 7 (-2)) 2 ∧ py_int 16 p = Ok v ∧ v < 0)).
Proof. split; [reflexivity | apply parse_exceptions; reflexivity]. Defined.

Example parse_build_raw_witness : parse (build 0xA0 3 (lit "abc")) = Raise ValueError.
Proof.
  apply parse_build_raw; [unfold is_byte; lia..|]. repeat constructor; unfold is_byte; lia.
Defined.

Example chunks_spec_witness :
  ∃ ps, chunks [1; 2; 3; 4; 5] 2 = Ok ps ∧ concat ps = [1; 2; 3; 4; 5] ∧
    Forall (λ p, 0 < zlen p ≤ 2) ps ∧
    ∀ i p, ps !! i = Some p → (S i < length ps)%nat → zlen p = 2.
Proof. apply chunks_spec. lia. Defined.

Example build_shape_witness :
  zlen (build 1 2 [3; 4]) = 9 + 2 * zlen [3; 4] ∧ slice_from (build 1 2 [3; 4]) (-2) = [13; 10].
Proof.
  apply build_shape; [unfold is_byte; lia..|]. repeat constructor; unfold is_byte; lia.
Defined.
End witnesses.
