(* ===== verification/Mote.v ===== *)
(** * The serial mote (tools/eposiotgw/gateway_daemon/mote)

    Class [Mote]: one lock and one time of last write shared by every
    instance, and the serial port behind it.  The methods are programs over
    [gw], the actions of the gateway daemon; pyserial, the clock, [requests]
    and the standard streams are the environment.  Times are integer
    microseconds. *)

From stdpp Require Import base numbers list option strings.
From S2P Require Import Prelude PyStr Utf8 Effects.

(** ** Actions of the gateway daemon *)

Inductive gw : Type → Type :=
| Acquire : gw unit                        (* Mote.lock.acquire() *)
| Release : gw unit                        (* Mote.lock.release() *)
| Time : gw Z                              (* time.time() *)
| GetLast : gw Z                           (* Mote.last_write *)
| SetLast (t : Z) : gw unit                (* Mote.last_write = t *)
| PortClose : gw unit                      (* self.serial.close() *)
| PortOpen : gw unit                       (* self.serial.open() *)
| PortWrite (b : pybytes) : gw unit        (* self.serial.write(b) *)
| PortFlush : gw unit                      (* self.serial.flush() *)
| PortReadline : gw pybytes                (* self.serial.readline() *)
| SerialNew : gw unit                      (* serial.Serial('/dev/ttyS2', 115200, timeout=None) *)
| Print (s : pystr) : gw unit              (* print(...), the text after formatting *)
| PrintErr (s : pystr) : gw unit           (* print(..., file=sys.stderr) and the traceback *)
| HttpPost (url data : pystr) : gw unit.   (* requests.post(url, data = data) *)

(** ** Class Mote *)

Definition inter_write_time : Z := 400000. (* 0.40 s *)

Definition mote_init : prog gw unit :=
  _ ← act Acquire; _ ← act PortClose; _ ← act PortOpen; act Release.

(** The busy wait of [put]: [fuel] readings of the clock. *)
Fixpoint wait_turn (fuel : nat) : prog gw unit :=
  match fuel with
  | O => PStuck
  | S fuel' =>
      t ← act Time; l ← act GetLast;
      if t - l <=? inter_write_time then wait_turn fuel' else mret ()
  end.

Definition put (fuel : nat) (s : pybytes) : prog gw unit :=
  _ ← act Acquire;
  _ ← wait_turn fuel;
  _ ← act (PortWrite s);
  _ ← act PortFlush;
  t ← act Time;
  _ ← act (SetLast t);
  act Release.

(** [fuel] iterations of the loop. *)
Fixpoint readline (fuel : nat) : prog gw pystr :=
  match fuel with
  | O => PStuck
  | S fuel' =>
      try_except
        (_ ← act Acquire;
         b ← act PortReadline;
         ret ← of_outcome (utf8_decode b);
         _ ← act Release;
         mret ret)
        (λ e, match e with
              | SerialException => Some (_ ← act Release; readline fuel')
              | UnicodeDecodeError => Some (_ ← act Release; readline fuel')
              | _ => None
              end)
  end.

(** ** One thread alone *)

(** What is not Python code: the port, the clock, the network, the streams. *)
Class World (D : Type) := world : ∀ R, gw R → D → outcome R * D.

Record gateway (D : Type) := Gateway { lock : bool; last_write : Z; dev : D }.
Arguments Gateway {D} _ _ _.
Arguments lock {D} _.
Arguments last_write {D} _.
Arguments dev {D} _.

(** [threading.Lock]: acquiring a held lock blocks, and alone it blocks for
    ever; releasing a free lock is a [RuntimeError]. *)
Definition gw_env {D} `{World D} (R : Type) (a : gw R) (s : gateway D)
  : option (outcome R) * gateway D :=
  match a in gw R return option (outcome R) * gateway D with
  | Acquire => if lock s then (None, s) else (Some (Ok ()), Gateway true (last_write s) (dev s))
  | Release => if lock s then (Some (Ok ()), Gateway false (last_write s) (dev s))
               else (Some (Raise OtherError), s)
  | GetLast => (Some (Ok (last_write s)), s)
  | SetLast t => (Some (Ok ()), Gateway (lock s) t (dev s))
  | a => let '(o, d) := world _ a (dev s) in (Some o, Gateway (lock s) (last_write s) d)
  end.

Section alone.
Context {D : Type} `{World D}.
Implicit Types s : gateway D.

Lemma run_acquire_free {A} (k : prog gw A) l d :
  run gw_env (_ ← act Acquire; k) (Gateway false l d) = run gw_env k (Gateway true l d).
Proof. by autorewrite with prog. Qed.

Lemma run_acquire_held {A} (k : prog gw A) l d :
  run gw_env (_ ← act Acquire; k) (Gateway true l d) = (None, Gateway true l d).
Proof. by autorewrite with prog. Qed.

(** Waiting changes only what the clock changes, and never raises unless the
    clock does. *)
Lemma wait_turn_frame n l d r s' :
  run gw_env (wait_turn n) (Gateway true l d) = (r, s') → lock s' = true ∧ last_write s' = l.
Proof.
  revert d; induction n as [|n IH]; intros d; [by intros [= <- <-]|].
  cbn [wait_turn]. autorewrite with prog. simpl gw_env at 1.
  destruct (world Z Time d) as [[t|e] d'] eqn:Et; [|by intros [= <- <-]].
  autorewrite with prog. cbn.
  destruct (t - l <=? inter_write_time); [apply IH | by intros [= <- <-]].
Qed.

(** How [put] leaves the lock and the time of the last write. *)
Lemma put_frame n b l d o s' :
  run gw_env (put n b) (Gateway false l d) = (Some o, s') →
  lock s' = negb (is_ok o) ∧ (is_ok o = false → last_write s' = l).
Proof.
  unfold put. rewrite run_acquire_free. autorewrite with prog.
  destruct (run gw_env (wait_turn n) (Gateway true l d)) as [[[[]|e]|] [lk l' d']] eqn:Ew;
    apply wait_turn_frame in Ew as [Hlk Hl]; cbn in Hlk, Hl; subst; [|by intros [= <- <-]|done].
  autorewrite with prog. cbn.
  destruct (world unit (PortWrite b) d') as [[[]|e] d1]; [|by intros [= <- <-]].
  autorewrite with prog. cbn.
  destruct (world unit PortFlush d1) as [[[]|e] d2]; [|by intros [= <- <-]].
  autorewrite with prog. cbn.
  destruct (world Z Time d2) as [[t|e] d3]; [|by intros [= <- <-]].
  autorewrite with prog. cbn. by intros [= <- <-].
Qed.

(** With the lock held by a call that is over, every method blocks. *)
Lemma held_blocks s n b :
  lock s = true →
  run gw_env (put n b) s = (None, s) ∧ run gw_env (readline n) s = (None, s) ∧
  run gw_env mote_init s = (None, s).
Proof.
  destruct s as [lk l d]; cbn. intros ->. split_and!; [done | by destruct n | done].
Qed.

(** One iteration of [readline], on every branch. *)
Lemma readline_step n l d :
  run gw_env (readline (S n)) (Gateway false l d) =
    match world pybytes PortReadline d with
    | (Ok b, d') =>
        match utf8_decode b with
        | Ok text => (Some (Ok text), Gateway false l d')
        | Raise _ => run gw_env (readline n) (Gateway false l d')
        end
    | (Raise SerialException, d') => run gw_env (readline n) (Gateway false l d')
    | (Raise UnicodeDecodeError, d') => run gw_env (readline n) (Gateway false l d')
    | (Raise e, d') => (Some (Raise e), Gateway true l d')
    end.
Proof.
  cbn [readline]. rewrite run_try, run_acquire_free. autorewrite with prog. cbn.
  destruct (world pybytes PortReadline d) as [[b|e] d'].
  - autorewrite with prog. destruct (utf8_decode b) as [text|e] eqn:Eb.
    + autorewrite with prog. cbn. done.
    + apply utf8_decode_raise in Eb as ->. autorewrite with prog. done.
  - destruct e; try done; autorewrite with prog; done.
Qed.

(** A line the loop discards: a port error or bytes that are not UTF-8. *)
Definition discarded (o : outcome pybytes) : bool :=
  match o with
  | Ok b => negb (is_ok (utf8_decode b))
  | Raise e => match e with SerialException | UnicodeDecodeError => true | _ => false end
  end.

(** [d] answers the readings [os] one after the other and ends in [d']. *)
Fixpoint reads (d : D) (os : list (outcome pybytes)) (d' : D) : Prop :=
  match os with
  | [] => d' = d
  | o :: os' => ∃ d1, world pybytes PortReadline d = (o, d1) ∧ reads d1 os' d'
  end.

(** [Mote.readline] returns the first line the port delivers that is
    UTF-8, whatever number of port errors and undecodable lines came before,
    with one iteration per line consumed; it leaves the lock free. *)
Theorem readline_first_line bad b text l d d' n :
  reads d (bad ++ [Ok b]) d' → Forall (λ o, discarded o = true) bad →
  utf8_decode b = Ok text → (length bad < n)%nat →
  run gw_env (readline n) (Gateway false l d) = (Some (Ok text), Gateway false l d').
Proof.
  intros Hr Hbad Hb. revert d n Hr; induction Hbad as [|o bad Ho _ IH]; intros d [|n] Hr Hn;
    try (simpl in Hn; lia); destruct Hr as (d1 & Hd & Hr); rewrite readline_step, Hd.
  - cbn in Hr. by rewrite Hb, Hr.
  - destruct o as [c|e]; simpl in Ho.
    + destruct (utf8_decode c); [done|]. apply IH; [done | simpl in Hn; lia].
    + destruct e; try done; (apply IH; [done | simpl in Hn; lia]).
Qed.

(** A failed [put] never gives the lock back: if the port or the clock
    raises inside [put], the lock stays held, the time of last write is
    unchanged, and from then on every [put], [readline] and every new
    [Mote] blocks for ever. *)
Theorem put_failure_deadlocks n b l d e s' :
  run gw_env (put n b) (Gateway false l d) = (Some (Raise e), s') →
  lock s' = true ∧ last_write s' = l ∧
  ∀ m c, run gw_env (put m c) s' = (None, s') ∧ run gw_env (readline m) s' = (None, s') ∧
    run gw_env mote_init s' = (None, s').
Proof.
  intros Hp. apply put_frame in Hp as [Hlk Hl]. cbn in *. split_and!; [done | by apply Hl |].
  intros m c. by apply held_blocks.
Qed.

(** *** Progress of [put] *)

(** The clock moves at every reading, by a microsecond at least, and the
    port accepts what is written. *)
Class WorldLaws (clock : D → Z) : Prop := {
  law_time d : ∃ t d', world Z Time d = (Ok t, d') ∧ clock d < t ∧ clock d' = t;
  law_write b d : ∃ d', world unit (PortWrite b) d = (Ok (), d') ∧ clock d ≤ clock d';
  law_flush d : ∃ d', world unit PortFlush d = (Ok (), d') ∧ clock d ≤ clock d'
}.

Context (clock : D → Z) `{!WorldLaws clock}.

Lemma wait_turn_ends n l d :
  l + inter_write_time - clock d < Z.of_nat n → (0 < n)%nat →
  ∃ d', run gw_env (wait_turn n) (Gateway true l d) = (Some (Ok ()), Gateway true l d') ∧
    clock d < clock d' ∧ l + inter_write_time < clock d'.
Proof.
  revert d; induction n as [|n IH]; intros d Hn Hpos; [lia|].
  destruct (law_time d) as (t & d1 & Ht & Hlt & Hc).
  cbn [wait_turn]. autorewrite with prog. cbn. rewrite Ht. autorewrite with prog. cbn.
  destruct (Z.leb_spec (t - l) inter_write_time).
  - destruct (IH d1) as (d' & Hr & ? & ?); [lia..|]. exists d'. rewrite Hr. split; [done | lia].
  - exists d1. split; [done | lia].
Qed.

(** With a clock that moves and a port that accepts data, [put] ends: it
    returns normally after at most as many clock readings as microseconds
    were left of the 0.40 s since the last write, frees the lock, and
    records a time more than 0.40 s after the previous one. *)
Theorem put_completes n b l d :
  l + inter_write_time - clock d < Z.of_nat n → (0 < n)%nat →
  ∃ s', run gw_env (put n b) (Gateway false l d) = (Some (Ok ()), s') ∧
    lock s' = false ∧ l + inter_write_time < last_write s' ∧ clock d < last_write s'.
Proof.
  intros Hn Hpos. destruct (wait_turn_ends n l d Hn Hpos) as (d' & Hw & Hlt & Hgt).
  destruct (law_write b d') as (d1 & H1 & Hc1). destruct (law_flush d1) as (d2 & H2 & Hc2).
  destruct (law_time d2) as (t & d3 & H3 & Hlt3 & Hc3).
  exists (Gateway false t d3). split; [|cbn; lia].
  unfold put. rewrite run_acquire_free. autorewrite with prog. rewrite Hw.
  autorewrite with prog. cbn. rewrite H1. autorewrite with prog. cbn. rewrite H2.
  autorewrite with prog. cbn. rewrite H3. autorewrite with prog. done.
Qed.
End alone.

(** ** A simulated world, for concrete runs *)

(** [tick] is what a clock reading takes; [rx] are the lines to come, [faults]
    the outcomes of the next writes ([Ok] when exhausted); [tx] is what was
    written and [out] what was printed. *)
Record sim := Sim {
  clk : Z; tick : Z; rx : list (outcome pybytes); faults : list (outcome unit);
  tx : list (Z * pybytes); out : list pystr
}.

#[export] Instance sim_world : World sim := λ R a d,
  match a in gw R return outcome R * sim with
  | Acquire | Release | PortClose | PortOpen | PortFlush | SerialNew | SetLast _ => (Ok (), d)
  | GetLast => (Ok 0, d)
  | Time => (Ok (clk d + tick d),
             Sim (clk d + tick d) (tick d) (rx d) (faults d) (tx d) (out d))
  | PortWrite b =>
      match faults d with
      | Raise e :: f => (Raise e, Sim (clk d) (tick d) (rx d) f (tx d) (out d))
      | f => (Ok (), Sim (clk d) (tick d) (rx d) (drop 1 f) (tx d ++ [(clk d, b)]) (out d))
      end
  | PortReadline =>
      match rx d with
      | o :: r => (o, Sim (clk d) (tick d) r (faults d) (tx d) (out d))
      | [] => (Raise OtherError, d)
      end
  | Print t | PrintErr t => (Ok (), Sim (clk d) (tick d) (rx d) (faults d) (tx d) (out d ++ [t]))
  | HttpPost _ _ => (Ok (), d)
  end.

(** A world with nothing but a clock: every action succeeds, a clock reading
    takes a tenth of a second, and the port never delivers a line. *)
Definition ideal_world : World Z := λ R a d,
  match a in gw R return outcome R * Z with
  | Time => (Ok (d + 100000), d + 100000)
  | GetLast => (Ok 0, d)
  | PortReadline => (Raise OtherError, d)
  | Acquire | Release | PortClose | PortOpen | PortFlush | SerialNew | SetLast _ => (Ok (), d)
  | PortWrite _ | Print _ | PrintErr _ | HttpPost _ _ => (Ok (), d)
  end.

Lemma ideal_laws : WorldLaws (H := ideal_world) (λ d, d).
Proof.
  split; intros.
  - exists (d + 100000), (d + 100000). split; [done | lia].
  - exists d. by split.
  - exists d. by split.
Qed.

(** ** Witnesses *)

Example readline_first_line_witness :
  let d := Sim 0 1 [Raise SerialException; Ok [0xFF]; Ok (lit ":01")] [] [] [] in
  run gw_env (readline 3) (Gateway false 0 d) =
    (Some (Ok (lit ":01")), Gateway false 0 (Sim 0 1 [] [] [] [])).
Proof.
  apply (readline_first_line [Raise SerialException; Ok [0xFF]] (lit ":01")).
  - simpl. eauto 10.
  - repeat constructor.
  - reflexivity.
  - simpl. lia.
Defined.

Example put_failure_deadlocks_witness :
  let d := Sim 0 1000000 [Ok (lit ":01")] [Raise SerialException] [] [] in
  let d' := Sim 1000000 1000000 [Ok (lit ":01")] [] [] [] in
  run gw_env (put 1 [1]) (Gateway false 0 d) = (Some (Raise SerialException), Gateway true 0 d') ∧
  run gw_env (readline 5) (Gateway true 0 d') = (None, Gateway true 0 d').
Proof.
  intros d d'.
  assert (run gw_env (put 1 [1]) (Gateway false 0 d) = (Some (Raise SerialException), Gateway true 0 d')) as E
    by reflexivity.
  split; [exact E|].
  destruct (put_failure_deadlocks 1 [1] 0 d SerialException _ E) as (_ & _ & Hb). apply (Hb 5%nat []).
Defined.

Example put_completes_witness :
  ∃ s', run (@gw_env Z ideal_world) (put 11 [1]) (Gateway false 0 399990) = (Some (Ok ()), s') ∧
    lock s' = false ∧ 400000 < last_write s' ∧ 399990 < last_write s'.
Proof.
  apply (put_completes (H := ideal_world) (λ d, d) (WorldLaws0 := ideal_laws) 11 [1] 0 399990);
    unfold inter_write_time; lia.
Defined.
