(* ===== verification/SerialGw.v ===== *)
(** * From the serial port to the time-series store
      (tools/eposiotgw/gateway_daemon/serial.py)

    Lines read from the mote are cleaned, parsed as Modbus frames, turned into
    a datapoint and posted to KairosDB.  [json.dumps] is a parameter. *)

From stdpp Require Import base numbers list option strings gmap.
From S2P Require Import Prelude PyStr PyFloat Effects Hex Modbus Mote.

Definition MODBUS_FUNCTIONS : gmap Z pystr := {[ 3 := lit "numeric"; 1 := lit "binary" ]}.

(** [while len(data) > 0 and data[-1] in '\r\n': data = data[:-1]] *)
Fixpoint clean_loop (fuel : nat) (data : pystr) : pystr :=
  match fuel with
  | O => data
  | S fuel' =>
      if (0 <? zlen data) &&
         (bool_decide (item data (-1) = Ok 13) || bool_decide (item data (-1) = Ok 10))
      then clean_loop fuel' (slice_to data (-1)) else data
  end.
Definition clean_data (data : pystr) : pystr := clean_loop (length data) data.

(** Looking a class method up on [int], for the calls
    [int.<name>(b, byteorder='big')]. *)
Definition int_class_method (name : string) : outcome (pybytes → Z) :=
  if String.eqb name "from_bytes" then Ok from_bytes_big else Raise AttributeError.

Record datapoint := {
  dp_name : pystr; dp_value : pyfloat; dp_timestamp : Z;
  coordinate_x : Z; coordinate_y : Z; coordinate_z : Z; coordinate_t : Z;
  dp_tstp_si : Z; dp_mac_hash : pystr; spatial_scale : Z; temporal_scale : Z
}.

Section serial.
Context `{Unicode} (json_dumps : datapoint → pystr).

(** The nine values: register, command, offset, value, timestamp, coordinates,
    tstp_si, mac_hash, scale.  [command] is unbound when the function code is
    unknown, because that [KeyError] is passed over. *)
Definition free_data (data : pystr)
  : outcome (pystr * pystr * pystr * pystr * Z * pystr * Z * pystr * pystr) :=
  '(register, bytes, coordinates, mac_hash, scale, command) ←
    match parse data with
    | Ok (register, cmd, bytes, coordinates, mac_hash, scale) =>
        Ok (register, bytes, coordinates, mac_hash, scale, MODBUS_FUNCTIONS !! cmd)
    | Raise KeyError => Raise UnboundLocalError
    | Raise e => Raise e
    end;
  f ← int_class_method "from_bytes"; let offset := f (slice_to bytes 2) in
  f ← int_class_method "from_bytes"; let value := f (slice_from bytes 2) in
  f ← int_class_method "from_bytes"; let timestamp := f (slice_from bytes 5) in
  f ← int_class_method "frombytes"; let tstp_si := f (slice_from bytes 15) in
  reg ← item (split_on (chr "x") (hex register)) 1;
  command ← match command with Some c => Ok c | None => Raise UnboundLocalError end;
  Ok (upper reg, command, str_int offset, str_int value, timestamp, coordinates, tstp_si,
      mac_hash, scale).

Definition mount_request (data : pystr) : outcome datapoint :=
  '(register, command, offset, value, timestamp, coordinates, tstp_si, mac_hash, scale)
    ← free_data data;
  v ← py_float value;
  x ← item coordinates 0; y ← item coordinates 1; z ← item coordinates 2; t ← item coordinates 3;
  sp ← item scale 0; tm ← item scale 1;
  Ok {| dp_name := register ++ command ++ offset; dp_value := v; dp_timestamp := timestamp;
        coordinate_x := x; coordinate_y := y; coordinate_z := z; coordinate_t := t;
        dp_tstp_si := tstp_si; dp_mac_hash := mac_hash;
        spatial_scale := sp; temporal_scale := tm |}.

Definition kairosdb_url : pystr := lit "http://your_kairosdb_server:8080/api/v1/datapoints".

(** The bare [except] prints the message and the traceback. *)
Definition make_request (data : pystr) : prog gw unit :=
  let data := clean_data data in
  try_except
    (post ← of_outcome (mount_request data);
     act (HttpPost kairosdb_url (json_dumps post)))
    (λ e, match e with
          | KeyboardInterrupt | SystemExit => None
          | _ => Some (act (PrintErr (lit "Error in message " ++ data)))
          end).

(** [n] turns of the loop, each reading with [fuel]. *)
Fixpoint serial_loop (fuel n : nat) : prog gw unit :=
  match n with
  | O => PStuck
  | S n' =>
      data ← readline fuel;
      _ ← act (Print (lit "Read from serial: " ++ data));
      _ ← make_request data;
      serial_loop fuel n'
  end.

Definition run_serial (fuel n : nat) : prog gw unit :=
  _ ← act SerialNew; _ ← mote_init; serial_loop fuel n.
End serial.

(** ** Cleaning *)

Definition is_eol (c : Z) : Prop := c = 13 ∨ c = 10.

Lemma item_last {A} (s : list A) c : item (s ++ [c]) (-1) = Ok c.
Proof.
  pose proof (zlen_nonneg s). apply item_neg; rewrite zlen_app, zlen_cons, zlen_nil; [lia|].
  replace (Z.to_nat (-1 + (zlen s + (1 + 0)))) with (length s) by (unfold zlen; lia).
  by apply list_lookup_middle.
Qed.

Lemma slice_to_last {A} (s : list A) c : slice_to (s ++ [c]) (-1) = s.
Proof. apply (slice_mid_neg [] s [c]); done. Qed.

Lemma clean_loop_eols fuel s t :
  Forall is_eol t → (∀ s' c, s = s' ++ [c] → ¬ is_eol c) → (length t ≤ fuel)%nat →
  clean_loop fuel (s ++ t) = s.
Proof.
  intros Ht Hs. revert t Ht; induction fuel as [|fuel IH]; intros t Ht Hf.
  { destruct t; simpl in Hf; [|lia]. by rewrite app_nil_r. }
  destruct t as [|c t _] using rev_ind.
  - rewrite app_nil_r. destruct s as [|c s _] using rev_ind; [done|].
    specialize (Hs s c eq_refl). cbn [clean_loop]. rewrite item_last.
    rewrite !bool_decide_eq_false_2 by (intros [= ->]; apply Hs; unfold is_eol; tauto).
    by rewrite andb_false_r.
  - apply Forall_app in Ht as [Ht Hc]. apply Forall_cons in Hc as [Hc _].
    cbn [clean_loop]. rewrite app_assoc, item_last, slice_to_last.
    rewrite length_app in Hf. simpl in Hf.
    assert ((0 <? zlen ((s ++ t) ++ [c])) = true) as Hpos.
    { pose proof (zlen_nonneg (s ++ t)). rewrite (zlen_app (s ++ t)). change (zlen [c]) with 1. lia. }
    assert (bool_decide (Ok c = Ok 13) || bool_decide (Ok c = Ok 10) = true) as Heol.
    { destruct Hc as [-> | ->]; done. }
    rewrite Hpos, Heol. cbn [andb]. apply IH; [done | lia].
Qed.

Lemma clean_data_eols s t :
  Forall is_eol t → (∀ s' c, s = s' ++ [c] → ¬ is_eol c) → clean_data (s ++ t) = s.
Proof. intros Ht Hs. apply clean_loop_eols; [done..|]. rewrite length_app. lia. Qed.

Lemma hexbyte_no_eol p l s' x : is_byte l → p ++ hexbyte l = s' ++ [x] → ¬ is_eol x.
Proof.
  intros Hl E. rewrite (hexbyte_two l) in E by done.
  assert (∀ p y z, p ++ [y; z] = s' ++ [x] → x = z) as Hlast.
  { intros q y z. change [y; z] with ([y] ++ [z]). rewrite app_assoc. intros [_ E']%app_inj_tail. done. }
  apply Hlast in E as ->.
  assert (0 ≤ l mod 16 < 16) by (apply Z.mod_pos_bound; lia).
  unfold is_eol, upper_char, digit_char. repeat case_match; lia.
Qed.

Lemma hexframe_no_eol a c s bs l : is_byte l → ∀ s' x, hexframe a c s bs l = s' ++ [x] → ¬ is_eol x.
Proof. intros Hl s' x E. unfold hexframe in E. rewrite !app_assoc in E. by apply hexbyte_no_eol in E. Qed.

Lemma hexbytes_no_eol bs l t s' x : is_byte l → t ++ hexbytes (bs ++ [l]) = s' ++ [x] → ¬ is_eol x.
Proof. intros Hl. rewrite hexbytes_app, hexbytes_one, app_assoc. by apply hexbyte_no_eol. Qed.

(** The text of a frame. *)
Lemma build_text a c bs : build a c bs = lit ":" ++ hexbytes (a :: c :: bs ++ [lrc_of (a + c + sum_list bs)]) ++ [13; 10].
Proof.
  unfold build, hexbytes, lrc_of. rewrite !fmap_cons, fmap_app. cbn [concat fmap list_fmap]. rewrite concat_app.
  cbn [concat]. rewrite app_nil_r, !upper_app, upper_concat, <- list_fmap_compose. change (upper (lit ":")) with (lit ":"). by rewrite <- !app_assoc.
Qed.

Section theorems.
Context `{Unicode} (json_dumps : datapoint → pystr).

(** Round trip through the line: what [build] writes for a non-empty
    payload, read back as a line and cleaned, is parsed to the same address and
    command; the parser takes the first payload byte for its size field and
    returns the rest as the data. *)
Theorem parse_clean_build a c b bs :
  is_byte a → is_byte c → is_byte b → Forall is_byte bs →
  let m := hexframe a c b bs (lrc_of (a + c + b + sum_list bs)) in
  parse (clean_data (build a c (b :: bs))) =
    Ok (a, c, bs, slice_from m 15, slice_from m 55, slice_from m 65).
Proof.
  intros Ha Hc Hb Hbs m. rewrite build_hexframe, clean_data_eols.
  - rewrite parse_hexframe by (done || apply lrc_of_byte). by rewrite Z.eqb_refl.
  - repeat constructor; unfold is_eol; tauto.
  - apply hexframe_no_eol, lrc_of_byte.
Qed.

(** C40 What [build] writes can be read back: with the line end taken off, as
    the gateway does with what it reads, a frame is a colon and pairs of
    hexadecimal digits, which are the address, the command, the data and a
    check byte, in this order; and these sum to 0 modulo 256. *)
Theorem built_frame_reads_back a c bs : is_byte a → is_byte c → Forall is_byte bs →
  ∃ text lrc, clean_data (build a c bs) = chr ":" :: text ∧ mapM (py_int 16) (pieces text 2) = Ok (a :: c :: bs ++ [lrc]) ∧
    is_byte lrc ∧ (a + c + sum_list bs + lrc) mod 256 = 0.
Proof.
  intros Ha Hc Hbs. set (l := lrc_of (a + c + sum_list bs)). assert (is_byte l) as Hl by apply lrc_of_byte.
  exists (hexbytes (a :: c :: bs ++ [l])), l. rewrite build_text. split_and!; [| |done|apply twos_complement_sum].
  - change (chr ":" :: ?x) with (lit ":" ++ x). rewrite app_assoc. rewrite clean_data_eols; [done|repeat constructor; unfold is_eol; tauto|].
    intros s' x E. apply (hexbytes_no_eol (a :: c :: bs) l _ s' x Hl E).
  - assert (Forall is_byte (a :: c :: (bs ++ [l]))) as Hall by (do 2 (constructor; [done|]); apply Forall_app; auto).
    unfold hexbytes. rewrite pieces_flat; [by apply bytes_round_trip|lia|]. intros b Hb. apply zlen_hexbyte. by eapply Forall_forall in Hall.
Qed.

Lemma free_data_eq data :
  free_data data = match parse data with Ok _ => Raise AttributeError | Raise e => Raise e end.
Proof.
  unfold free_data. destruct (parse data) as [[[[[[r c] b] co] mh] sc]|e] eqn:E; [done|].
  by destruct (parse_raise_class _ _ E) as [-> | ->].
Qed.

(** [free_data] never returns: it calls [int.frombytes], which [int] does not
    have.  A frame [parse] refuses raises the parser's exception; every frame
    it accepts, whatever its function code, raises [AttributeError]; and
    [mount_request] ends the same way, so no datapoint is ever built. *)
Theorem free_data_never_returns data :
  ∃ e, free_data data = Raise e ∧ mount_request data = Raise e ∧
    (is_ok (parse data) = true → e = AttributeError) ∧
    (is_ok (parse data) = false → e = ValueError ∨ e = StructError).
Proof.
  unfold mount_request. rewrite free_data_eq. destruct (parse data) as [p|e] eqn:E.
  - exists AttributeError. by split_and!.
  - exists e. apply parse_raise_class in E. by split_and!.
Qed.

Lemma make_request_eq data :
  make_request json_dumps data = act (PrintErr (lit "Error in message " ++ clean_data data)).
Proof.
  unfold make_request, mount_request. rewrite free_data_eq.
  destruct (parse (clean_data data)) as [p|e] eqn:E; [done|].
  by destruct (parse_raise_class _ _ E) as [-> | ->].
Qed.

(** Anything but a post to the time-series store. *)
Definition not_post (R : Type) (a : gw R) : Prop :=
  match a with HttpPost _ _ => False | _ => True end.

Lemma readline_no_post fuel : all_actions not_post (readline fuel).
Proof.
  induction fuel as [|fuel IH]; cbn [readline]; [done|].
  apply all_actions_try.
  - solve_actions.
  - intros e p Hp. destruct e; try done; apply (inj Some) in Hp as <-; solve_actions.
Qed.

(** The serial side of the gateway never posts: [make_request] amounts to
    printing the cleaned message on standard error, and in no run of
    [run_serial], whatever the port delivers, is there an HTTP request. *)
Theorem run_serial_never_posts fuel n data :
  make_request json_dumps data = act (PrintErr (lit "Error in message " ++ clean_data data)) ∧
  all_actions not_post (run_serial json_dumps fuel n).
Proof.
  split; [apply make_request_eq|]. unfold run_serial, mote_init.
  solve_actions. induction n as [|n IH]; cbn [serial_loop]; [done|].
  apply all_actions_bind; [apply readline_no_post|intros line].
  rewrite make_request_eq. solve_actions.
Qed.
End theorems.

(** ** Witness *)

Example built_frame_reads_back_witness :
  ∃ text lrc, clean_data (build 0xA0 3 (lit "abcdefghijk")) = chr ":" :: text ∧
    mapM (py_int (H := ascii_only) 16) (pieces text 2) = Ok (0xA0 :: 3 :: lit "abcdefghijk" ++ [lrc]).
Proof.
  destruct (built_frame_reads_back (H := ascii_only) 0xA0 3 (lit "abcdefghijk")) as (text & lrc & E1 & E2 & _);
    [unfold is_byte; lia..|repeat constructor; unfold is_byte; vm_compute; intuition congruence|].
  exists text, lrc. exact (conj E1 E2).
Defined.

Example parse_clean_build_witness :
  let m := hexframe 0xA0 3 2 [7; 9] (lrc_of (0xA0 + 3 + 2 + sum_list [7; 9])) in
  parse (H := ascii_only) (clean_data (build 0xA0 3 [2; 7; 9])) =
    Ok (0xA0, 3, [7; 9], slice_from m 15, slice_from m 55, slice_from m 65).
Proof.
  apply (parse_clean_build (H := ascii_only) 0xA0 3 2 [7; 9]);
    repeat constructor; unfold is_byte; lia.
Defined.
