(* ===== verification/Http.v ===== *)
(** * HTTP requests to Modbus frames (tools/eposiotgw/gateway_daemon/http.py)

    A POST to /network/ names coils and registers of motes; each parameter is
    decomposed, dispatched on its data type, built into one frame per address
    and put on the serial line.  Flask's request is the list of its key/value
    pairs in iteration order; the text of the progress messages is a
    parameter. *)

From stdpp Require Import base numbers list option strings gmap.
From S2P Require Import Prelude PyStr PyFloat PyJson Utf8 Effects Hex Modbus Mote.

(** [struct.pack('!HH', number, data)] for a JSON value: a [bool] is an [int],
    anything else is refused. *)
Definition pack_HH (number data : Z) : outcome pybytes :=
  a ← pack_be 2 number; b ← pack_be 2 data; Ok (a ++ b).
Definition json_index (v : json) : outcome Z :=
  match v with
  | JInt n => Ok n
  | JBool b => Ok (if b then 1 else 0)
  | _ => Raise StructError
  end.

Section http.
Context `{Unicode}.

Definition write_single_coil (number : Z) (data : pystr) : outcome (Z * pybytes) :=
  v ← json_loads data;
  n ← json_index v;
  b ← pack_HH number n;
  Ok (WRITE_SINGLE_COIL, b).

Definition write_holding_register (number : Z) (data : pystr) : outcome (Z * pybytes) :=
  f ← py_float data;
  n ← int_of_float f;
  b ← pack_HH number n;
  Ok (WRITE_HOLDING_REGISTER, b).

Definition MODBUS_FUNCTIONS : gmap pystr (Z → pystr → outcome (Z * pybytes)) :=
  {[ lit "numeric" := write_holding_register; lit "binary" := write_single_coil ]}.

Definition decompose (name : pystr) : outcome (list Z * pystr * Z) :=
  match split_on (chr "_") name with
  | [_; address; data_type; number] =>
      let addresses := split_on (chr "-") address in
      l ← mapM (py_int 16) addresses;
      n ← py_int 16 number;
      Ok (l, data_type, n)
  | _ => Raise ValueError
  end.

Definition modbus_data (data_type : pystr) (number : Z) (data : pystr) : outcome (Z * pybytes) :=
  match MODBUS_FUNCTIONS !! data_type with
  | Some f => f number data
  | None => Raise KeyError
  end.

Context (show_values : list (pystr * pystr) → pystr) (show_frame : Z → Z → Z → pybytes → pystr).

(** The body of the inner loop: one address. *)
Definition send_to (fuel : nat) (function number : Z) (data : pybytes) (address : Z) : prog gw unit :=
  _ ← act (Print (show_frame address function number data));
  let modbus := build address function data in
  _ ← act (Print (lit "Writing to serial: " ++ modbus));
  b ← of_outcome (ascii_encode modbus);
  put fuel b.

(** The body of the outer loop: one parameter. *)
Definition handle_key (fuel : nat) (kv : pystr * pystr) : prog gw unit :=
  '(addresses, data_type, number) ← of_outcome (decompose kv.1);
  '(function, data) ← of_outcome (modbus_data data_type number kv.2);
  for_each addresses (send_to fuel function number data).

Definition network (fuel : nat) (values : list (pystr * pystr)) : prog gw pystr :=
  _ ← act (Print (show_values values));
  _ ← act SerialNew;
  _ ← mote_init;
  _ ← for_each values (handle_key fuel);
  mret [].

(** ** Specification: the frames of a request

    [plan values] lists the frames a request asks for, in order, up to the
    first parameter that cannot be understood, and how the request ends. *)
Definition key_frames (kv : pystr * pystr) : outcome (list pybytes) :=
  '(addresses, data_type, number) ← decompose kv.1;
  '(function, data) ← modbus_data data_type number kv.2;
  Ok ((λ address, build address function data) <$> (addresses : list Z)).

Fixpoint plan (values : list (pystr * pystr)) : list pybytes * outcome unit :=
  match values with
  | [] => ([], Ok ())
  | kv :: values' =>
      match key_frames kv with
      | Ok fs => (fs ++ (plan values').1, (plan values').2)
      | Raise e => ([], Raise e)
      end
  end.
End http.

(** ** A world where everything works *)

(** The actions the HTTP side performs. *)
Definition http_action {R} (a : gw R) : bool :=
  match a with PortReadline | HttpPost _ _ => false | _ => true end.
Definition written {R} (a : gw R) : list pybytes :=
  match a with PortWrite b => [b] | _ => [] end.

(** The port accepts every write, nothing else reaches the line, and the clock
    never goes back and moves at every reading. *)
Class PerfectWorld {D} `{World D} (clock : D → Z) (sent : D → list pybytes) : Prop := {
  pw_time d : ∃ d', world Z Time d = (Ok (clock d'), d') ∧ clock d < clock d' ∧ sent d' = sent d;
  pw_act R (a : gw R) d : http_action a = true →
    ∃ r d', world R a d = (Ok r, d') ∧ clock d ≤ clock d' ∧ sent d' = sent d ++ written a
}.

Section perfect.
Context {D : Type} `{World D} (clock : D → Z) (sent : D → list pybytes) `{!PerfectWorld clock sent}.

(** Between two calls: the lock is free and the last write is in the past. *)
Definition idle (s : gateway D) : Prop := lock s = false ∧ last_write s ≤ clock (dev s).

Lemma wait_turn_perfect n l d :
  l + inter_write_time - clock d < Z.of_nat n → (0 < n)%nat →
  ∃ d', run gw_env (wait_turn n) (Gateway true l d) = (Some (Ok ()), Gateway true l d') ∧
    clock d ≤ clock d' ∧ sent d' = sent d.
Proof.
  revert d; induction n as [|n IH]; intros d Hn Hpos; [lia|].
  destruct (pw_time d) as (d1 & Ht & Hlt & Hs).
  cbn [wait_turn]. autorewrite with prog. cbn. rewrite Ht. autorewrite with prog. cbn.
  destruct (Z.leb_spec (clock d1 - l) inter_write_time).
  - destruct (IH d1) as (d' & Hr & ? & Hs'); [lia..|]. exists d'. rewrite Hr, Hs', Hs. split_and!; [done | lia | done].
  - exists d1. split_and!; [done | lia | done].
Qed.

Lemma put_perfect fuel b s :
  idle s → inter_write_time < Z.of_nat fuel →
  ∃ s', run gw_env (put fuel b) s = (Some (Ok ()), s') ∧ idle s' ∧ sent (dev s') = sent (dev s) ++ [b].
Proof.
  destruct s as [lk l d]. intros [Hlk Hl] Hf. cbn in Hlk, Hl. subst lk.
  assert (0 < inter_write_time) by done.
  destruct (wait_turn_perfect fuel l d) as (d' & Hw & Hc & Hs); [lia..|].
  destruct (pw_act unit (PortWrite b) d' eq_refl) as ([] & d1 & H1 & Hc1 & Hs1).
  destruct (pw_act unit PortFlush d1 eq_refl) as ([] & d2 & H2 & Hc2 & Hs2).
  destruct (pw_time d2) as (d3 & H3 & Hlt3 & Hs3).
  exists (Gateway false (clock d3) d3). split_and!.
  - unfold put. rewrite run_acquire_free. autorewrite with prog. rewrite Hw.
    autorewrite with prog. cbn. rewrite H1. autorewrite with prog. cbn. rewrite H2.
    autorewrite with prog. cbn. rewrite H3. by autorewrite with prog.
  - split; cbn; [done | lia].
  - cbn in *. by rewrite Hs3, Hs2, Hs1, Hs, app_nil_r.
Qed.

(** An action that leaves the lock and the line alone. *)
Lemma act_perfect (a : gw unit) s :
  (∀ s : gateway D, gw_env unit a s =
     let '(o, d) := world _ a (dev s) in (Some o, Gateway (lock s) (last_write s) d)) →
  http_action a = true → written a = [] → idle s →
  ∃ s', run gw_env (act a) s = (Some (Ok ()), s') ∧ idle s' ∧ sent (dev s') = sent (dev s).
Proof.
  intros He Ha Hw [Hlk Hl]. destruct (pw_act unit a (dev s) Ha) as ([] & d' & Hd & Hc & Hs).
  exists (Gateway (lock s) (last_write s) d'). rewrite run_act, He, Hd.
  split_and!; [done | split; cbn; [done | lia] |]. cbn. by rewrite Hs, Hw, app_nil_r.
Qed.
End perfect.

Section network_perfect.
Context `{Unicode} {D : Type} `{World D} (clock : D → Z) (sent : D → list pybytes)
  `{!PerfectWorld clock sent}.
Context (show_values : list (pystr * pystr) → pystr) (show_frame : Z → Z → Z → pybytes → pystr).
Context (fuel : nat) (Hfuel : inter_write_time < Z.of_nat fuel).

Lemma send_to_perfect function number data address s :
  idle clock s →
  ∃ s', run gw_env (send_to show_frame fuel function number data address) s = (Some (Ok ()), s') ∧
    idle clock s' ∧ sent (dev s') = sent (dev s) ++ [build address function data].
Proof.
  intros Hi. unfold send_to. autorewrite with prog.
  destruct (act_perfect clock sent (Print (show_frame address function number data)) s)
    as (s1 & H1 & Hi1 & Hs1); [done..|]. rewrite run_act in H1. rewrite H1.
  autorewrite with prog.
  destruct (act_perfect clock sent (Print (lit "Writing to serial: " ++ build address function data)) s1)
    as (s2 & H2 & Hi2 & Hs2); [done..|]. rewrite run_act in H2. rewrite H2.
  autorewrite with prog. rewrite ascii_encode_ok by apply build_ascii.
  destruct (put_perfect clock sent fuel (build address function data) s2) as (s3 & H3 & Hi3 & Hs3);
    [done..|].
  exists s3. by rewrite H3, Hs3, Hs2, Hs1.
Qed.

Lemma send_all_perfect function number data addresses s :
  idle clock s →
  ∃ s', run gw_env (for_each addresses (send_to show_frame fuel function number data)) s = (Some (Ok ()), s') ∧
    idle clock s' ∧
    sent (dev s') = sent (dev s) ++ ((λ address, build address function data) <$> addresses).
Proof.
  revert s; induction addresses as [|a l IH]; intros s Hi; cbn [for_each].
  - exists s. by rewrite app_nil_r.
  - autorewrite with prog.
    destruct (send_to_perfect function number data a s Hi) as (s1 & -> & Hi1 & Hs1).
    destruct (IH s1 Hi1) as (s2 & -> & Hi2 & Hs2). exists s2. split_and!; [done..|].
    by rewrite Hs2, Hs1, <- app_assoc.
Qed.

Lemma handle_key_perfect kv s :
  idle clock s →
  match key_frames kv with
  | Ok fs => ∃ s', run gw_env (handle_key show_frame fuel kv) s = (Some (Ok ()), s') ∧
      idle clock s' ∧ sent (dev s') = sent (dev s) ++ fs
  | Raise e => run gw_env (handle_key show_frame fuel kv) s = (Some (Raise e), s)
  end.
Proof.
  intros Hi. unfold key_frames, handle_key.
  destruct (decompose kv.1) as [[[addrs dt] n]|e]; [|by autorewrite with prog].
  rewrite bind_ok. autorewrite with prog.
  destruct (modbus_data dt n kv.2) as [[f b]|e]; [|by autorewrite with prog].
  rewrite bind_ok. autorewrite with prog. by apply send_all_perfect.
Qed.

Lemma for_each_perfect values s :
  idle clock s →
  ∃ s', run gw_env (for_each values (handle_key show_frame fuel)) s = (Some (plan values).2, s') ∧
    idle clock s' ∧ sent (dev s') = sent (dev s) ++ (plan values).1.
Proof.
  revert s; induction values as [|kv values IH]; intros s Hi; cbn [for_each plan].
  - exists s. by rewrite app_nil_r.
  - autorewrite with prog. pose proof (handle_key_perfect kv s Hi) as Hk.
    destruct (key_frames kv) as [fs|e].
    + destruct Hk as (s1 & -> & Hi1 & Hs1). destruct (IH s1 Hi1) as (s2 & -> & Hi2 & Hs2).
      exists s2. cbn. by rewrite Hs2, Hs1, <- app_assoc.
    + rewrite Hk. exists s. by rewrite app_nil_r.
Qed.

(** C21 Refinement of the request handler: when the port works, [network] ends,
    and what went down the line is exactly the plan of the request: one frame
    per address of each parameter, in order.  The request fails exactly when
    some parameter cannot be understood, with that parameter's exception, and
    then the frames of the parameters before it have already been sent.  The
    lock is free again in every case. *)
Theorem network_sends_plan values s :
  idle clock s →
  ∃ s', run gw_env (network show_values show_frame fuel values) s =
      (Some ((λ _, []) <$> (plan values).2), s') ∧
    lock s' = false ∧ sent (dev s') = sent (dev s) ++ (plan values).1.
Proof.
  intros Hi. unfold network. autorewrite with prog.
  destruct (act_perfect clock sent (Print (show_values values)) s) as (s1 & H1 & Hi1 & Hs1); [done..|].
  rewrite run_act in H1. rewrite H1. autorewrite with prog.
  destruct (act_perfect clock sent SerialNew s1) as (s2 & H2 & Hi2 & Hs2); [done..|].
  rewrite run_act in H2. rewrite H2. autorewrite with prog.
  destruct s2 as [lk l d]. destruct Hi2 as [Hlk Hl]. cbn in Hlk, Hl. subst lk.
  destruct (pw_act unit PortClose d eq_refl) as ([] & d1 & H3 & Hc3 & Hs3).
  destruct (pw_act unit PortOpen d1 eq_refl) as ([] & d2 & H4 & Hc4 & Hs4).
  assert (run gw_env mote_init (Gateway false l d) = (Some (Ok ()), Gateway false l d2)) as ->.
  { unfold mote_init. rewrite run_acquire_free. autorewrite with prog. cbn. rewrite H3.
    autorewrite with prog. cbn. rewrite H4. by autorewrite with prog. }
  autorewrite with prog.
  destruct (for_each_perfect values (Gateway false l d2)) as (s3 & -> & Hi3 & Hs5).
  { split; cbn; [done | lia]. }
  exists s3. cbn in *. rewrite app_nil_r in *. split_and!; [by destruct (plan values).2 as [[]|] | apply Hi3 |].
  by rewrite Hs5, Hs4, Hs3, Hs2, Hs1.
Qed.
End network_perfect.

Section theorems.
Context `{Unicode}.

(** [decompose] inverts the naming scheme of the documentation: a name made
    of a description, the hexadecimal addresses joined by dashes, a data type
    and a hexadecimal channel number, joined by underscores, is taken apart
    into exactly those addresses, that type and that number. *)
Theorem decompose_round_trip w dt addresses n :
  chr "_" ∉ w → chr "_" ∉ dt → addresses ≠ [] → Forall (λ a, 0 ≤ a) addresses → 0 ≤ n →
  decompose (w ++ chr "_" :: join [chr "-"] (render 16 <$> addresses)
               ++ chr "_" :: dt ++ chr "_" :: render 16 n)
    = Ok (addresses, dt, n).
Proof.
  intros Hw Hdt Hne Ha Hn.
  assert (Hin : ∀ c, is_digit 16 c = false → Forall (λ w, c ∉ w) (render 16 <$> addresses)).
  { intros c Hc. apply Forall_fmap. eapply Forall_impl; [done|]. intros a Ha'. by apply render_not_in. }
  unfold decompose. rewrite !split_on_app; [|done..| |done].
  - rewrite (split_on_none _ (render 16 n)) by (by apply render_not_in).
    rewrite split_on_join; [|by intros ?%fmap_nil_inv|by apply Hin].
    assert (mapM (py_int 16) (render 16 <$> addresses) = Ok addresses) as ->.
    { apply mapM_ok_Forall2, Forall2_fmap_l, Forall_Forall2_diag.
      eapply Forall_impl; [done|]. intros a ?. by apply py_int_render. }
    by rewrite bind_ok, py_int_render.
  - apply join_not_in; [by apply not_elem_of_cons; split; [|apply not_elem_of_nil]|]. by apply Hin.
Qed.

Lemma pack_HH_spec number n :
  0 ≤ number < 65536 → 0 ≤ n →
  pack_HH number n = if n <? 65536 then Ok (be16 number ++ be16 n) else Raise StructError.
Proof.
  intros Hnum Hn. unfold pack_HH. rewrite !pack_be_16.
  replace ((0 <=? number) && (number <? 65536)) with true by lia. rewrite bind_ok.
  replace (0 <=? n) with true by lia. cbn [andb]. by destruct (n <? 65536).
Qed.

(** What each request value becomes.  A number written in decimal (below
    2^53, where [int(float(s))] is exact) is packed as a big-endian 16-bit
    register value after the register number, under the "write holding
    register" code, and refused with [struct.error] above 65535; a coil takes
    JSON [true], [false] or an integer under the "write single coil" code; any
    other data type is a [KeyError]. *)
Theorem modbus_data_spec number n data_type data :
  0 ≤ number < 65536 → 0 ≤ n < 2 ^ 53 →
  modbus_data (lit "numeric") number (str_int n) =
    (if n <? 65536 then Ok (WRITE_HOLDING_REGISTER, be16 number ++ be16 n) else Raise StructError) ∧
  modbus_data (lit "binary") number (str_int n) =
    (if n <? 65536 then Ok (WRITE_SINGLE_COIL, be16 number ++ be16 n) else Raise StructError) ∧
  modbus_data (lit "binary") number (lit "true") = Ok (WRITE_SINGLE_COIL, be16 number ++ [0; 1]) ∧
  modbus_data (lit "binary") number (lit "false") = Ok (WRITE_SINGLE_COIL, be16 number ++ [0; 0]) ∧
  (data_type ≠ lit "numeric" → data_type ≠ lit "binary" →
   modbus_data data_type number data = Raise KeyError).
Proof.
  intros Hnum Hn.
  assert (Hbin : ∀ d, modbus_data (lit "binary") number d = write_single_coil number d) by done.
  split_and!.
  - change (modbus_data (lit "numeric") number (str_int n)) with (write_holding_register number (str_int n)).
    unfold write_holding_register. rewrite <- bind_assoc, int_float_str, bind_ok, pack_HH_spec by lia.
    by destruct (n <? 65536).
  - rewrite Hbin. unfold write_single_coil. rewrite json_loads_int, bind_ok by lia.
    cbn [json_index]. rewrite bind_ok, pack_HH_spec by lia. by destruct (n <? 65536).
  - rewrite Hbin. unfold write_single_coil.
    change (json_loads (lit "true")) with (Ok (JBool true)). rewrite bind_ok. cbn [json_index].
    by rewrite bind_ok, pack_HH_spec by lia.
  - rewrite Hbin. unfold write_single_coil.
    change (json_loads (lit "false")) with (Ok (JBool false)). rewrite bind_ok. cbn [json_index].
    by rewrite bind_ok, pack_HH_spec by lia.
  - intros H1 H2. unfold modbus_data, MODBUS_FUNCTIONS.
    by rewrite lookup_insert_ne, lookup_singleton_ne by done.
Qed.
End theorems.

(** ** Witnesses *)

(** A line that records what is written, and a clock that moves by a tenth of a
    second at every reading. *)
Definition line_world : World (Z * list pybytes) := λ R a d,
  match a in gw R return outcome R * (Z * list pybytes) with
  | Time => (Ok (d.1 + 100000), (d.1 + 100000, d.2))
  | GetLast => (Ok 0, d)
  | PortWrite b => (Ok (), (d.1, d.2 ++ [b]))
  | PortReadline => (Raise OtherError, d)
  | Acquire | Release | PortClose | PortOpen | PortFlush | SerialNew | SetLast _ => (Ok (), d)
  | Print _ | PrintErr _ | HttpPost _ _ => (Ok (), d)
  end.

Lemma line_perfect : PerfectWorld (H := line_world) fst snd.
Proof.
  split.
  - intros [c l]. exists (c + 100000, l). cbn. split_and!; [done | lia | done].
  - intros R a [c l] Ha. destruct a; try done; cbn; rewrite ?app_nil_r;
      eexists _, _; split_and!; try done; cbn; (lia || by rewrite ?app_nil_r).
Qed.

Example network_sends_plan_witness :
  let values := [(lit "out_A0-B_numeric_2", lit "513"); (lit "out_C_binary_1", lit "maybe")] in
  (plan (H := ascii_only) values).1 = [build 0xA0 6 [0; 2; 2; 1]; build 0xB 6 [0; 2; 2; 1]] ∧
  ∃ s', run (@gw_env _ line_world)
      (network (H := ascii_only) (λ _, []) (λ _ _ _ _, []) (Z.to_nat 400001) values)
      (Gateway false 0 (0, [])) = (Some (Raise JSONDecodeError), s') ∧
    lock s' = false ∧ (dev s').2 = [build 0xA0 6 [0; 2; 2; 1]; build 0xB 6 [0; 2; 2; 1]].
Proof.
  intros values. split; [vm_compute; reflexivity|].
  destruct (network_sends_plan (H := ascii_only) (H0 := line_world) fst snd (PerfectWorld0 := line_perfect)
    (λ _, []) (λ _ _ _ _, []) (Z.to_nat 400001) ltac:(unfold inter_write_time; lia) values
    (Gateway false 0 (0, [])) ltac:(split; cbn; lia || done)) as (s' & Hr & Hl & Hs).
  exists s'. split_and!; [|exact Hl|exact Hs].
  rewrite Hr. f_equal.
Defined.

Example decompose_round_trip_witness :
  decompose (H := ascii_only) (lit "out_a0-b_numeric_1f") = Ok ([0xA0; 0xB], lit "numeric", 0x1F).
Proof.
  apply (decompose_round_trip (H := ascii_only) (lit "out") (lit "numeric") [0xA0; 0xB] 0x1F);
    [by refine (bool_decide_unpack _ _)..|done|by repeat (apply Forall_cons_2; [lia|]); apply Forall_nil_2|lia].
Defined.

Example modbus_data_spec_witness :
  modbus_data (H := ascii_only) (lit "numeric") 7 (lit "65535") =
    Ok (WRITE_HOLDING_REGISTER, be16 7 ++ be16 65535).
Proof. apply (modbus_data_spec (H := ascii_only) 7 65535 [] []); lia. Defined.
