(* ===== verification/Daemon.v ===== *)
(** * The gateway daemon: two threads, one lock
      (tools/eposiotgw/gateway_daemon/__main__.py and the sharing in mote)

    [run] starts the HTTP server and the serial reader; they share [Mote.lock],
    [Mote.last_write] and the port.  The pool interleaves the threads action by
    action; the port answers in any way it likes, and the clock in any way but
    back ([time.time] may be set back, and then nothing is said).  A small
    program logic follows what a thread knows of the shared data while it
    holds the lock (the lock invariant holds whenever the lock is free), and
    its adequacy gives mutual exclusion and the spacing of writes in every
    reachable state. *)

From stdpp Require Import base numbers list option strings.
From S2P Require Import Prelude PyStr Utf8 Effects Hex Modbus Mote SerialGw Http.

(** ** The pool *)

Abbreviation wlog := (list (Z * pybytes)).

(** [owner] is the thread that took the lock; Python's lock is just taken or
    free, and any thread may release it. *)
Record shared := Shared { owner : option nat; last_w : Z; clock : Z; wrote : wlog }.

(** What thread [i] may be answered, at time [t]. *)
Definition reply {R} (i : nat) (a : gw R) (t : Z) : shared → outcome R → shared → Prop :=
  match a in gw R return shared → outcome R → shared → Prop with
  | Acquire => λ s o s', owner s = None ∧ o = Ok () ∧ s' = Shared (Some i) (last_w s) t (wrote s)
  | Release => λ s o s',
      match owner s with
      | None => o = Raise OtherError ∧ s' = Shared None (last_w s) t (wrote s)
      | Some _ => o = Ok () ∧ s' = Shared None (last_w s) t (wrote s)
      end
  | Time => λ s o s', o = Ok t ∧ s' = Shared (owner s) (last_w s) t (wrote s)
  | GetLast => λ s o s', o = Ok (last_w s) ∧ s' = Shared (owner s) (last_w s) t (wrote s)
  | SetLast u => λ s o s', o = Ok () ∧ s' = Shared (owner s) u t (wrote s)
  | PortWrite b => λ s o s',
      s' = Shared (owner s) (last_w s) t (if is_ok o then wrote s ++ [(t, b)] else wrote s)
  | PortClose | PortOpen | PortFlush | PortReadline | SerialNew | Print _ | PrintErr _ | HttpPost _ _ =>
      λ s o s', s' = Shared (owner s) (last_w s) t (wrote s)
  end.

Abbreviation pool := (list (prog gw unit)).

Inductive pool_step : pool * shared → pool * shared → Prop :=
| Pool_step (ts : pool) s i R (a : gw R) k t o s' :
    ts !! i = Some (PAct a k) → clock s ≤ t → reply i a t s o s' →
    pool_step (ts, s) (<[i := k o]> ts, s').

Inductive reachable (c0 : pool * shared) : pool * shared → Prop :=
| reach_refl : reachable c0 c0
| reach_step c c' : reachable c0 c → pool_step c c' → reachable c0 c'.

(** ** The threads *)

Section threads.
Context `{Unicode} (json_dumps : datapoint → pystr).
Context (show_values : list (pystr * pystr) → pystr) (show_frame : Z → Z → Z → pybytes → pystr).

(** Tornado and Flask serve the requests one after the other and turn an
    exception of the handler into an error response. *)
Definition run_server (fuel : nat) (requests : list (list (pystr * pystr))) : prog gw unit :=
  for_each requests (λ values,
    try_except (_ ← network show_values show_frame fuel values; mret ()) (λ _, Some (mret ()))).

Definition daemon (fuel n : nat) (requests : list (list (pystr * pystr))) : pool :=
  [run_server fuel requests; run_serial json_dumps fuel n].
End threads.

(** ** What a thread knows *)

(** While it holds the lock: the time of last write, a lower bound of the
    clock, and the writes so far. *)
Record held := Held { h_last : Z; h_now : Z; h_log : wlog }.

(** Two consecutive writes are more than [inter_write_time] apart. *)
Fixpoint spaced (l : wlog) : Prop :=
  match l with
  | (t1, _) :: ((t2, _) :: _) as l' => t1 + inter_write_time < t2 ∧ spaced l'
  | _ => True
  end.

(** The lock invariant: the recorded time is not before the last write. *)
Definition lock_inv (last_time : Z) (l : wlog) : Prop :=
  ∀ t b, last l = Some (t, b) → t ≤ last_time.

(** What must be known before an action is performed. *)
Definition pre {R} (a : gw R) (h : option held) : Prop :=
  match a with
  | Release => ∃ d, h = Some d ∧ lock_inv (h_last d) (h_log d)
  | GetLast | SetLast _ | PortClose | PortOpen | PortFlush | PortReadline => is_Some h
  | PortWrite _ => ∃ d, h = Some d ∧ ∀ t b, last (h_log d) = Some (t, b) → t + inter_write_time < h_now d
  | Acquire | Time | SerialNew | Print _ | PrintErr _ | HttpPost _ _ => True
  end.

(** What is known after it.  A thread that holds the lock is never granted it
    again. *)
Definition post {R} (a : gw R) : option held → outcome R → option held → Prop :=
  match a in gw R return option held → outcome R → option held → Prop with
  | Acquire => λ h o h', h = None ∧ o = Ok () ∧ ∃ d, h' = Some d ∧ lock_inv (h_last d) (h_log d)
  | Release => λ h o h', o = Ok () ∧ h' = None
  | Time => λ h o h', ∃ t, o = Ok t ∧
      match h with
      | Some d => h_now d ≤ t ∧ h' = Some (Held (h_last d) t (h_log d))
      | None => h' = None
      end
  | GetLast => λ h o h', h' = h ∧ ∀ d, h = Some d → o = Ok (h_last d)
  | SetLast u => λ h o h', o = Ok () ∧ ∀ d, h = Some d → h' = Some (Held u (h_now d) (h_log d))
  | PortWrite b => λ h o h', ∀ d, h = Some d →
      ∃ t, h_now d ≤ t ∧
        h' = Some (Held (h_last d) t (if is_ok o then h_log d ++ [(t, b)] else h_log d))
  | PortClose | PortOpen | PortFlush | PortReadline | SerialNew | Print _ | PrintErr _ | HttpPost _ _ =>
      λ h o h', h' = h
  end.

(** [wp m h Q]: run from knowledge [h], [m] performs every action within its
    precondition, and ends, if it does, with [Q]. *)
Fixpoint wp {A} (m : prog gw A) (h : option held) (Q : outcome A → option held → Prop) : Prop :=
  match m with
  | PRet a => Q (Ok a) h
  | PRaise e => Q (Raise e) h
  | PStuck => True
  | PAct a k => pre a h ∧ ∀ o h', post a h o h' → wp (k o) h' Q
  end.

Lemma wp_bind {A B} (m : prog gw A) (f : A → prog gw B) h Q :
  wp m h (λ o h', match o with Ok a => wp (f a) h' Q | Raise e => Q (Raise e) h' end) →
  wp (m ≫= f) h Q.
Proof.
  unfold mbind. revert h; induction m as [a|e| |R a k IH]; intros h; simpl; [done..|].
  intros [Hp Hk]. split; [done|]. intros o h' Ho. apply IH, Hk, Ho.
Qed.

Lemma wp_try {A} (m : prog gw A) hd h Q :
  wp m h (λ o h', match o with
                  | Raise e => match hd e with Some p => wp p h' Q | None => Q o h' end
                  | _ => Q o h' end) →
  wp (try_except m hd) h Q.
Proof.
  revert h; induction m as [a|e| |R a k IH]; intros h; simpl; [done| |done|].
  - by destruct (hd e).
  - intros [Hp Hk]. split; [done|]. intros o h' Ho. apply IH, Hk, Ho.
Qed.

Lemma wp_act {R} (a : gw R) h Q :
  pre a h → (∀ o h', post a h o h' → Q o h') → wp (act a) h Q.
Proof. intros Hp HQ. split; [done|]. intros o h' Ho. destruct o; by apply HQ. Qed.

Lemma wp_mono {A} (m : prog gw A) h (Q Q' : outcome A → option held → Prop) :
  (∀ o h', Q o h' → Q' o h') → wp m h Q → wp m h Q'.
Proof.
  intros HQ. revert h; induction m as [a|e| |R a k IH]; intros h; simpl; [apply HQ | apply HQ | done |].
  intros [Hp Hk]. split; [done|]. intros o h' Ho. apply IH, Hk, Ho.
Qed.

Lemma wp_of_outcome {A} (o : outcome A) h Q : Q o h → wp (of_outcome o) h Q.
Proof. by destruct o. Qed.

Ltac solve_pre := cbn; first [done | by eexists | by eauto].

(** ** The gateway's programs follow the protocol *)

Section protocol.
Context `{Unicode}.

(** No claim on how it ends. *)
Abbreviation safe m h := (wp m h (λ _ _, True)).

(** Ends without the lock, unless by an exception. *)
Abbreviation returns_free m h :=
  (wp m h (λ o h', match o with Ok _ => h' = None | Raise _ => True end)).

Lemma wp_wait_turn n d :
  lock_inv (h_last d) (h_log d) →
  wp (wait_turn n) (Some d) (λ o h', match o with
    | Ok _ => ∃ t, h' = Some (Held (h_last d) t (h_log d)) ∧ h_last d + inter_write_time < t
    | Raise _ => True end).
Proof.
  revert d; induction n as [|n IH]; intros d Hd; cbn [wait_turn]; [done|].
  apply wp_bind, wp_act; [solve_pre|]. intros o h' (t & -> & Ht & ->).
  apply wp_bind, wp_act; [solve_pre|]. intros o h' [-> Ho]. rewrite (Ho _ eq_refl). cbn.
  destruct (Z.leb_spec (t - h_last d) inter_write_time).
  - apply (IH (Held (h_last d) t (h_log d)) Hd).
  - cbn. exists t. split; [done | lia].
Qed.

Lemma last_snoc_inv (l : wlog) t b u c : last (l ++ [(t, b)]) = Some (u, c) → u = t.
Proof. rewrite last_snoc. by intros [= -> ->]. Qed.

Lemma wp_put n b h : returns_free (put n b) h.
Proof.
  unfold put. apply wp_bind, wp_act; [solve_pre|]. intros o h' (-> & -> & d & -> & Hd).
  apply wp_bind. eapply wp_mono; [|by apply wp_wait_turn].
  intros [[]|e] h'; [|done]. intros (t & -> & Ht).
  apply wp_bind, wp_act.
  { eexists. split; [done|]. cbn. intros u c Hu. specialize (Hd u c Hu). lia. }
  intros o h' Hw. destruct (Hw _ eq_refl) as (t1 & Ht1 & ->). destruct o as [[]|e]; [|done]. cbn [is_ok h_log h_last h_now] in *.
  apply wp_bind, wp_act; [solve_pre|]. intros o h' ->. destruct o as [[]|e]; [|done].
  apply wp_bind, wp_act; [solve_pre|]. intros o h' (t2 & -> & Ht2 & ->).
  apply wp_bind, wp_act; [solve_pre|]. intros o h' [-> Ho]. rewrite (Ho _ eq_refl). cbn [is_ok h_log h_last h_now] in *.
  apply wp_act.
  { eexists. split; [done|]. cbn. intros u c Hu. apply last_snoc_inv in Hu. lia. }
  by intros o h'' [-> ->].
Qed.

Lemma wp_mote_init h : returns_free mote_init h.
Proof.
  unfold mote_init. apply wp_bind, wp_act; [solve_pre|]. intros o h' (-> & -> & d & -> & Hd).
  apply wp_bind, wp_act; [solve_pre|]. intros o h' ->. destruct o as [[]|e]; [|done].
  apply wp_bind, wp_act; [solve_pre|]. intros o h' ->. destruct o as [[]|e]; [|done].
  apply wp_act; [by exists d|]. by intros o h' [-> ->].
Qed.

Lemma wp_readline n h : returns_free (readline n) h.
Proof.
  revert h; induction n as [|n IH]; intros h; cbn [readline]; [done|].
  apply wp_try, wp_bind, wp_act; [solve_pre|]. intros o h' (-> & -> & d & -> & Hd).
  assert (Hagain : returns_free (_ ← act Release; readline n) (Some d)).
  { apply wp_bind, wp_act; [by exists d|]. intros o h' [-> ->]. apply IH. }
  apply wp_bind, wp_act; [solve_pre|]. intros o h' ->.
  destruct o as [b|e]; [|by destruct e].
  apply wp_bind, wp_of_outcome. destruct (utf8_decode b) as [s|e]; [|by destruct e].
  apply wp_bind, wp_act; [by exists d|]. by intros o h' [-> ->].
Qed.

Lemma wp_for_each {A} (l : list A) (body : A → prog gw unit) h :
  (∀ x h, safe (body x) h) → safe (for_each l body) h.
Proof.
  intros Hb. revert h; induction l as [|x l IH]; intros h; cbn [for_each]; [done|].
  apply wp_bind. eapply wp_mono; [|apply Hb]. intros [a|e] h' _; [apply IH | done].
Qed.

Lemma safe_free {A} (m : prog gw A) h : returns_free m h → safe m h.
Proof. by apply wp_mono. Qed.

(** Actions that need nothing and teach nothing. *)
Lemma wp_quiet {A} (a : gw unit) (f : prog gw A) h Q :
  pre a h → (∀ o h', post a h o h' → h' = h) →
  (∀ e, Q (Raise e) h) → wp f h Q → wp (_ ← act a; f) h Q.
Proof.
  intros Hp Ha HQ Hf. apply wp_bind, wp_act; [solve_pre|]. intros o h' Ho.
  rewrite (Ha _ _ Ho). by destruct o as [[]|e].
Qed.

Context (json_dumps : datapoint → pystr).
Context (show_values : list (pystr * pystr) → pystr) (show_frame : Z → Z → Z → pybytes → pystr).

Lemma safe_network fuel values h : safe (network show_values show_frame fuel values) h.
Proof.
  unfold network. apply wp_quiet; [done..|]. apply wp_quiet; [done..|].
  apply wp_bind. eapply wp_mono; [|apply wp_mote_init]. intros [[]|e] h' _; [|done].
  apply wp_bind. eapply wp_mono; [|apply wp_for_each].
  { by intros [[]|e] h'' _. }
  intros kv h1. unfold handle_key. apply wp_bind, wp_of_outcome.
  destruct (decompose kv.1) as [[[addrs dt] n]|e]; [|done].
  apply wp_bind, wp_of_outcome. destruct (modbus_data dt n kv.2) as [[f b]|e]; [|done].
  apply wp_for_each. intros addr h2. unfold send_to.
  apply wp_quiet; [done..|]. apply wp_quiet; [done..|].
  apply wp_bind, wp_of_outcome. destruct (ascii_encode _); [apply safe_free, wp_put | done].
Qed.

Lemma safe_run_server fuel requests h : safe (run_server show_values show_frame fuel requests) h.
Proof.
  apply wp_for_each. intros values h1. apply wp_try, wp_bind.
  eapply wp_mono; [|apply safe_network]. by intros [r|e] h2 _.
Qed.

Lemma safe_run_serial fuel n h : safe (run_serial json_dumps fuel n) h.
Proof.
  unfold run_serial. apply wp_quiet; [done..|].
  apply wp_bind. eapply wp_mono; [|apply wp_mote_init]. intros [[]|e] h' _; [|done].
  revert h'; induction n as [|n IH]; intros h'; cbn [serial_loop]; [done|].
  apply wp_bind. eapply wp_mono; [|apply wp_readline]. intros [line|e] h1 _; [|done].
  apply wp_quiet; [done..|]. rewrite make_request_eq. by apply wp_quiet.
Qed.
End protocol.

(** ** Adequacy: what holds in every reachable state *)

(** Thread [i]'s knowledge is true of the shared state. *)
Definition agrees (i : nat) (h : option held) (s : shared) : Prop :=
  match h with
  | Some d => owner s = Some i ∧ h_last d = last_w s ∧ h_log d = wrote s ∧ h_now d ≤ clock s
  | None => owner s ≠ Some i
  end.

Definition good (s : shared) : Prop :=
  (owner s = None → lock_inv (last_w s) (wrote s)) ∧ spaced (wrote s).

Lemma spaced_snoc l t b :
  spaced l → (∀ u c, last l = Some (u, c) → u + inter_write_time < t) → spaced (l ++ [(t, b)]).
Proof.
  induction l as [|[t1 b1] l IH]; intros Hs Hl; [done|].
  destruct l as [|[t2 b2] l].
  - cbn. split; [by eapply Hl | done].
  - destruct Hs as [H12 Hs]. cbn. split; [done|]. apply IH; [done|]. intros u c Hu. by apply (Hl u c).
Qed.

(** An answer to thread [i] keeps every thread's knowledge true. *)
Lemma reply_agrees {R} i (a : gw R) t s o s' h :
  clock s ≤ t → pre a h → agrees i h s → good s → reply i a t s o s' →
  ∃ h', post a h o h' ∧ agrees i h' s' ∧ good s' ∧
    ∀ j hj, j ≠ i → agrees j hj s → agrees j hj s'.
Proof.
  intros Ht Hp Ha [Hinv Hsp] Hr. destruct s as [ow lw ck wr]. cbn [owner last_w clock wrote] in *.
  assert (Hquiet : ∀ ow', ow' = ow →
    agrees i h (Shared ow' lw t wr) ∧ good (Shared ow' lw t wr) ∧
    ∀ j hj, j ≠ i → agrees j hj (Shared ow lw ck wr) → agrees j hj (Shared ow' lw t wr)).
  { intros ? ->. split_and!; [|by split|].
    - destruct h; [|done]. destruct Ha as (?&?&?&?). cbn in *. split_and!; [done..|lia].
    - intros j [d|] _ Hj; [|done]. destruct Hj as (?&?&?&?). cbn in *. split_and!; [done..|lia]. }
  assert (Hmine : ∀ d lw' wr' j hj, h = Some d → j ≠ i →
    agrees j hj (Shared ow lw ck wr) → agrees j hj (Shared ow lw' t wr')).
  { intros d lw' wr' j hj -> Hj Haj. destruct Ha as (Ho & _). cbn in Ho.
    destruct hj as [dj|]; [|done]. destruct Haj as (Hoj & _). cbn in Hoj. congruence. }
  destruct a; cbn in Hr;
    try (destruct (Hquiet ow eq_refl) as (H1 & H2 & H3); exists h; subst s'; by split_and!).
  - destruct Hr as (-> & -> & ->). destruct h as [d|]; [by destruct Ha|].
    exists (Some (Held lw t wr)). split_and!; [split_and!; [done..|]; eexists; split; [done|]; by apply Hinv
      | cbn; split_and!; (done || lia) | by split |].
    intros j [dj|] Hj Haj; [by destruct Haj | cbn; congruence].
  - destruct Hp as (d & -> & Hd). destruct Ha as (Ho & Hl & Hw & Hn). cbn in Ho, Hl, Hw. subst.
    destruct Hr as [-> ->]. exists None. split_and!; [done|done|by split|].
    intros j [dj|] Hj Haj; [destruct Haj as (Hoj & _); cbn in Hoj; congruence | done].
  - destruct Hr as [-> ->]. destruct (Hquiet ow eq_refl) as (H1 & H2 & H3).
    destruct h as [d|].
    + destruct Ha as (Ho & Hl & Hw & Hn). cbn in *. exists (Some (Held (h_last d) t (h_log d))).
      split_and!; [exists t; split_and!; (done || lia) | done.. |]. done.
    + exists None. split_and!; [by exists t | done..].
  - destruct Hr as [-> ->]. destruct (Hquiet ow eq_refl) as (H1 & H2 & H3). exists h.
    split_and!; [split; [done|] | done..]. intros d ->. destruct Ha as (_ & -> & _). done.
  - destruct Hr as [-> ->]. destruct Hp as [d ->]. destruct Ha as (Ho & Hl & Hw & Hn). cbn in *. subst.
    exists (Some (Held t0 (h_now d) (h_log d))).
    split; [split; [done | by intros d' [= <-]] | split; [cbn; split_and!; (done || lia) | split; [by split | by eauto]]].
  - destruct Hp as (d & -> & Hd). destruct Ha as (Ho & Hl & Hw & Hn). cbn in *. subst.
    eexists. split_and!; [intros d' [= <-]; exists t; split; [lia|done] | cbn; split_and!; (done || lia) | | by eauto].
    split; [done|]. cbn. destruct (is_ok o); [|done]. apply spaced_snoc; [done|].
    intros u c Hu. specialize (Hd u c Hu). lia.
Qed.

(** The invariant of the pool: each thread can go on from what it knows, what
    it knows is true, and the shared data are good. *)
Definition pool_inv (c : pool * shared) : Prop :=
  good c.2 ∧ ∀ i m, c.1 !! i = Some m → ∃ h, agrees i h c.2 ∧ wp m h (λ _ _, True).

Lemma pool_inv_step c c' : pool_inv c → pool_step c c' → pool_inv c'.
Proof.
  intros [Hg Hi] Hstep. destruct Hstep as [ts s i R a k t o s' Hts Ht Hr]. cbn in *.
  destruct (Hi i _ Hts) as (h & Ha & Hp & Hk).
  destruct (reply_agrees i a t s o s' h) as (h' & Hpost & Ha' & Hg' & Hothers); [done..|].
  split; [done|]. cbn. intros j m Hj. destruct (decide (j = i)) as [->|Hne].
  - rewrite list_lookup_insert_eq in Hj by (by eapply lookup_lt_Some).
    injection Hj as <-. exists h'. split; [done|]. by apply Hk.
  - rewrite list_lookup_insert_ne in Hj by done.
    destruct (Hi j m Hj) as (hj & Haj & Hwj). exists hj. split; [by apply Hothers | done].
Qed.

Lemma pool_inv_reachable c0 c : pool_inv c0 → reachable c0 c → pool_inv c.
Proof. intros H0; induction 1; [done|]. by eapply pool_inv_step. Qed.

(** The calls of a [Mote] on its port, the time of last write and the release
    of the lock; not the constructor of pyserial, which opens the port before
    there is a [Mote]. *)
Definition guarded {R} (a : gw R) : bool :=
  match a with
  | Release | GetLast | SetLast _ | PortClose | PortOpen | PortFlush | PortReadline | PortWrite _ => true
  | _ => false
  end.

Lemma guarded_owner c i R (a : gw R) k :
  pool_inv c → c.1 !! i = Some (PAct a k) → guarded a = true → owner c.2 = Some i.
Proof.
  intros [_ Hi] Hm Ha. destruct (Hi i _ Hm) as (h & Hag & Hp & _).
  assert (is_Some h) as [d ->].
  { destruct a; try done; cbn in Hp; try (by destruct Hp as (d & -> & _)). }
  by destruct Hag.
Qed.

(** Is the next action of a program the acquisition of the lock? *)
Definition is_acquire {A} (m : prog gw A) : bool :=
  match m with PAct a _ => match a with Acquire => true | _ => false end | _ => false end.

Lemma reach_left c0 c1 c : pool_step c0 c1 → reachable c1 c → reachable c0 c.
Proof.
  intros H0; induction 1 as [|c c' _ IH Hs]; [by eapply reach_step; [apply reach_refl|]|].
  by eapply reach_step.
Qed.

(** Thread [i] moves at time [t] and is answered [o]. *)
Ltac thread_step i t o :=
  eapply reach_left; [eapply (Pool_step _ _ i _ _ _ t o); [reflexivity | cbn; lia | cbn; eauto] | cbn].

Section adequacy.
Context `{Unicode} (json_dumps : datapoint → pystr).
Context (show_values : list (pystr * pystr) → pystr) (show_frame : Z → Z → Z → pybytes → pystr).

Definition start (fuel n : nat) (requests : list (list (pystr * pystr))) (t0 : Z) : pool * shared :=
  (daemon json_dumps show_values show_frame fuel n requests, Shared None 0 t0 []).

Lemma start_inv fuel n requests t0 : pool_inv (start fuel n requests t0).
Proof.
  split; [by split|]. cbn. intros [|[|i]] m; [intros [= <-]|intros [= <-]|done]; exists None;
    (split; [done|]); [apply safe_run_server | apply safe_run_serial].
Qed.

(** A request is about to open the port while the serial thread, with the
    lock, is about to close it. *)
Lemma opening_unguarded fuel n requests t0 : requests ≠ [] → ∃ ts s k0 k1, reachable (start fuel n requests t0) (ts, s) ∧
  owner s = Some 1%nat ∧ ts !! 0%nat = Some (PAct SerialNew k0) ∧ ts !! 1%nat = Some (PAct PortClose k1).
Proof.
  destruct requests as [|values requests]; [done|]. intros _. eexists _, _, _, _. split.
  { unfold start. thread_step 0%nat t0 (Ok ()). thread_step 1%nat t0 (Ok ()). thread_step 1%nat t0 (Ok ()). apply reach_refl. }
  split_and!; reflexivity.
Qed.

(** C22 Mutual exclusion in the gateway daemon: in every state the two threads
    can reach, a thread about to call its mote's port (to close, open, write,
    flush or read it) or about to use the time of last write is the one that
    took the lock; so no two threads are there at once.  The exclusion does not
    extend to the constructor of pyserial, which opens the port as well: as
    soon as there is a request, the server can be about to open the port while
    the serial thread holds the lock and closes it. *)
Theorem daemon_mutual_exclusion fuel n requests t0 ts s :
  reachable (start fuel n requests t0) (ts, s) →
  (∀ i R (a : gw R) k, ts !! i = Some (PAct a k) → guarded a = true → owner s = Some i) ∧
  (∀ i j R (a : gw R) k R' (a' : gw R') k',
     ts !! i = Some (PAct a k) → guarded a = true →
     ts !! j = Some (PAct a' k') → guarded a' = true → i = j) ∧
  (requests ≠ [] → ∃ ts s k0 k1, reachable (start fuel n requests t0) (ts, s) ∧
     owner s = Some 1%nat ∧ ts !! 0%nat = Some (PAct SerialNew k0) ∧ ts !! 1%nat = Some (PAct PortClose k1)).
Proof.
  intros Hr. pose proof (pool_inv_reachable _ _ (start_inv fuel n requests t0) Hr) as Hinv.
  assert (Hg : ∀ i R (a : gw R) k, ts !! i = Some (PAct a k) → guarded a = true → owner s = Some i).
  { intros i R a k. by apply (guarded_owner (ts, s)). }
  split_and!; [done| |apply opening_unguarded]. intros i j R a k R' a' k' Hi Ha Hj Ha'.
  pose proof (Hg _ _ _ _ Hi Ha). pose proof (Hg _ _ _ _ Hj Ha'). congruence.
Qed.

(** C23 Spacing of the writes: whatever requests arrive, however the threads
    interleave and however slow the port is, two consecutive frames accepted
    by the port are more than 0.40 s apart. *)
Theorem daemon_writes_spaced fuel n requests t0 ts s :
  reachable (start fuel n requests t0) (ts, s) → spaced (wrote s).
Proof.
  intros Hr. apply (pool_inv_reachable _ _ (start_inv fuel n requests t0) Hr).
Qed.

(** A reader that waits for a line keeps the writers out: from a reachable
    state where the serial thread is in [readline] on the port, no step of the
    server thread takes the lock; the port has no timeout, so actuator
    requests wait for the next line, however long. *)
Theorem readline_blocks_put fuel n requests t0 ts s k1 k0 c' :
  reachable (start fuel n requests t0) (ts, s) →
  ts !! 1%nat = Some (PAct PortReadline k1) → ts !! 0%nat = Some (PAct Acquire k0) →
  pool_step (ts, s) c' → c'.1 !! 0%nat = Some (PAct Acquire k0).
Proof.
  intros Hr H1 H0 Hstep.
  pose proof (pool_inv_reachable _ _ (start_inv fuel n requests t0) Hr) as Hinv.
  assert (owner s = Some 1%nat) as Ho by (by apply (guarded_owner (ts, s) 1 _ _ _ Hinv H1)).
  inversion Hstep as [ts' s' i R a k t o s'' Hi Ht Hrep]; subst. cbn.
  destruct (decide (i = 0%nat)) as [->|Hne]; [|by rewrite list_lookup_insert_ne].
  exfalso. rewrite Hi in H0. apply (inj Some), (f_equal is_acquire) in H0.
  destruct a; try done. destruct Hrep as (Hfree & _). congruence.
Qed.
End adequacy.

(** ** Witnesses: concrete interleavings *)

(** Two requestless runs of the loop, or one request that writes one frame. *)
Definition example_start `{Unicode} : pool * shared :=
  start (λ _, []) (λ _, []) (λ _ _ _ _, []) 1 1 [[(lit "a_1_binary_1", lit "true")]] 0.

(** The server has taken the lock and is about to close the port; the serial
    thread waits for the lock. *)
Lemma example_contention `{Unicode} :
  ∃ c k0 k1, reachable example_start c ∧ c.1 !! 0%nat = Some (PAct PortClose k0) ∧
    c.1 !! 1%nat = Some (PAct Acquire k1).
Proof.
  eexists _, _, _. split.
  { unfold example_start, start.
    thread_step 0%nat 1 (Ok ()). thread_step 1%nat 2 (Ok ()).
    thread_step 0%nat 3 (Ok ()). thread_step 0%nat 4 (Ok ()). apply reach_refl. }
  split; reflexivity.
Qed.

(** The server has sent its frame. *)
Lemma example_written `{Unicode} :
  ∃ c, reachable example_start c ∧ wrote c.2 = [(400011, build 1 5 [0; 1; 0; 1])].
Proof.
  eexists. split.
  { unfold example_start, start.
    thread_step 0%nat 1 (Ok ()). thread_step 0%nat 3 (Ok ()). thread_step 0%nat 4 (Ok ()).
    thread_step 0%nat 5 (Ok ()). thread_step 0%nat 6 (Ok ()). thread_step 0%nat 7 (Ok ()).
    thread_step 0%nat 8 (Ok ()). thread_step 0%nat 8 (Ok ()). thread_step 0%nat 9 (Ok ()).
    thread_step 0%nat 400009 (Ok 400009). thread_step 0%nat 400010 (Ok 0).
    thread_step 0%nat 400011 (Ok ()). apply reach_refl. }
  vm_compute. reflexivity.
Qed.

(** The serial thread reads; the server waits for the lock. *)
Lemma example_reading `{Unicode} :
  ∃ c k0 k1, reachable example_start c ∧ c.1 !! 1%nat = Some (PAct PortReadline k1) ∧
    c.1 !! 0%nat = Some (PAct Acquire k0).
Proof.
  eexists _, _, _. split.
  { unfold example_start, start.
    thread_step 0%nat 1 (Ok ()). thread_step 0%nat 2 (Ok ()).
    thread_step 1%nat 3 (Ok ()). thread_step 1%nat 4 (Ok ()). thread_step 1%nat 5 (Ok ()).
    thread_step 1%nat 6 (Ok ()). thread_step 1%nat 7 (Ok ()). thread_step 1%nat 8 (Ok ()).
    apply reach_refl. }
  split; reflexivity.
Qed.

Example daemon_mutual_exclusion_witness :
  ∃ ts s k, reachable (example_start (H := ascii_only)) (ts, s) ∧
    ts !! 0%nat = Some (PAct PortClose k) ∧ owner s = Some 0%nat.
Proof.
  destruct (example_contention (H := ascii_only)) as ([ts s] & k & _ & Hr & H0 & _).
  exists ts, s, k. split; [exact Hr|]. split; [exact H0|].
  apply (daemon_mutual_exclusion _ _ _ _ _ _ _ ts s Hr) in H0; [exact H0 | reflexivity].
Defined.

Example daemon_writes_spaced_witness :
  ∃ ts s, reachable (example_start (H := ascii_only)) (ts, s) ∧
    wrote s = [(400011, build 1 5 [0; 1; 0; 1])] ∧ spaced (wrote s).
Proof.
  destruct (example_written (H := ascii_only)) as ([ts s] & Hr & Hw).
  exists ts, s. split; [exact Hr|]. split; [exact Hw|].
  apply (daemon_writes_spaced _ _ _ _ _ _ _ ts s Hr).
Defined.

Example readline_blocks_put_witness :
  ∃ ts s k0, reachable (example_start (H := ascii_only)) (ts, s) ∧
    ∀ c', pool_step (ts, s) c' → c'.1 !! 0%nat = Some (PAct Acquire k0).
Proof.
  destruct (example_reading (H := ascii_only)) as ([ts s] & k0 & k1 & Hr & H1 & H0).
  exists ts, s, k0. split; [exact Hr|]. intros c' Hc.
  apply (readline_blocks_put _ _ _ _ _ _ _ ts s k1 k0 c' Hr H1 H0 Hc).
Defined.
