(* ===== verification/Flash.v ===== *)
(** * The EPOSMote III programmer (tools/eposflash/eposflash-emote3)

    The script reads an Intel HEX file and sends it to the boot loader of the
    mote, one 32-bit word a message.  [hex_to_msg] turns a line into messages
    and updates the script's three globals, here the record [flash].
    [session] is the rest of the script, a program over the actions [port]:
    it waits for the device, shakes hands, and sends every message until the
    mote echoes it.  What the script prints is left out. *)

From stdpp Require Import base numbers list option strings sets.
From S2P Require Import Prelude PyStr Utf8 Effects Hex.

(** ** The globals *)

Record flash := Flash { hex_offset : Z; sequence_number : Z; last_address : Z }.

#[export] Instance flash_eq_dec : EqDecision flash.
Proof. solve_decision. Defined.

Definition flash_start : flash := Flash 0 0 0.

(** ** Messages *)

Definition msg_checksum (msg : pybytes) : outcome pybytes :=
  let lrc := foldl Z.add 0 msg in
  pack_le 1 (Z.land (Z.lxor lrc 0xff + 1) 0xff).

Definition handshake1_message : pybytes := lit "h" ++ replicate 8 0.
Definition handshake2_message : pybytes := lit "H" ++ replicate 8 0.
Definition end_message : pybytes := lit "e" ++ replicate 8 0.

(** [struct.pack('<H', sequence_number) + body], and its checksum appended. *)
Definition numbered (st : flash) (body : pybytes) : outcome pybytes :=
  m ← pack_le 2 (sequence_number st);
  let msg := m ++ body in
  c ← msg_checksum msg;
  Ok (msg ++ c).

Definition next_sequence (st : flash) : flash :=
  Flash (hex_offset st) (sequence_number st + 1) (last_address st).

(** The block the script repeats for a whole word and for the two tails: the
    word [d] is written at [address], unless the address does not increase. *)
Definition write_word (st : flash) (address : Z) (d : outcome pybytes)
  : outcome (list pybytes * flash) :=
  if last_address st <? address then
    msg ← pack_le 2 (sequence_number st);
    let st := next_sequence st in
    let msg := msg ++ lit "w" in
    d ← d;
    a ← pack_le 4 address;
    let msg := msg ++ a ++ d in
    c ← msg_checksum msg;
    Ok ([msg ++ c], Flash (hex_offset st) (sequence_number st) address)
  else Ok ([], st).

Section hex_lines.
Context `{Unicode}.

Definition hex_checksum (line : pystr) : outcome Z :=
  bytes ← mapM (λ i, py_int 16 (slice line i (i + 2))) (range 0 (zlen line - 1) 2);
  let acc := Z.land (sum_list bytes) 0xff in
  Ok (Z.land (Z.abs (acc - 2 ^ 8)) 0xff).

(** Defined and never called by the script. *)
Definition split_by (seq : pystr) (n : Z) : list pystr :=
  (λ i, slice seq i (i + n)) <$> range 0 (zlen seq) n.
Definition str_to_bytes (string : pystr) : outcome pybytes :=
  mapM (λ x, v ← py_int 16 x; if bool_decide (is_byte v) then Ok v else Raise ValueError)
    (split_by string 2).

(** [struct.pack('>H', int(data[i:i+4], 16))] then the next four characters. *)
Definition full_word (data : pystr) (i : Z) : outcome pybytes :=
  v1 ← py_int 16 (slice data i (i + 4)); d1 ← pack_be 2 v1;
  v2 ← py_int 16 (slice data (i + 4) (i + 8)); d2 ← pack_be 2 v2;
  Ok (d1 ++ d2).

(** [struct.pack('>H', int(data[i:], 16))] then two zero bytes. *)
Definition half_word (data : pystr) (i : Z) : outcome pybytes :=
  v ← py_int 16 (slice_from data i); d1 ← pack_be 2 v;
  d2 ← pack_be 2 0;
  Ok (d1 ++ d2).

(** The body of the loop for each position of [pos]: messages so far, the
    address and the globals. *)
Fixpoint data_loop (data : pystr) (pos : list Z) (ret : list pybytes) (address : Z) (st : flash)
  : outcome (list pybytes * Z * flash) :=
  match pos with
  | [] => Ok (ret, address, st)
  | i :: pos' =>
      '(ms, st) ← write_word st address (full_word data i);
      data_loop data pos' (ret ++ ms) (address + 4) st
  end.

(** Record type 0. *)
Definition data_record (st : flash) (byte_count address : Z) (data : pystr)
  : outcome (list pybytes * flash) :=
  '(ret, address, st, i) ←
    (if 8 <=? byte_count * 2 - 7 then
       let pos := range 0 (byte_count * 2 - 7) 8 in
       '(ret, address, st) ← data_loop data pos [] address st;
       Ok (ret, address, st, default 0 (last pos) + 8)
     else Ok ([], address, st, 0));
  if (i <? byte_count * 2) && (byte_count * 2 - i <=? 4) then
    '(ms, st) ← write_word st address (half_word data i); Ok (ret ++ ms, st)
  else if i <? byte_count * 2 then
    '(ms, st) ← write_word st address (full_word data i); Ok (ret ++ ms, st)
  else Ok (ret, st).

Definition hex_to_msg (st : flash) (line : pystr) : outcome (list pybytes * flash) :=
  let line := if bool_decide (slice_from line (-1) = [10]) then slice_to line (-1) else line in
  start_code ← item line 0;
  if negb (start_code =? chr ":") then Raise GenericException else
  c ← hex_checksum (slice line 1 (-2));
  c0 ← py_int 16 (slice_from line (-2));
  if negb (c =? c0) then Raise GenericException else
  byte_count ← py_int 16 (slice line 1 3);
  v ← py_int 16 (slice line 3 7);
  let address := v + hex_offset st in
  record_type ← py_int 16 (slice line 7 9);
  let data := slice line 9 (9 + 2 * byte_count) in
  if record_type =? 0x00 then data_record st byte_count address data
  else if record_type =? 0x01 then
    msg ← numbered st end_message; Ok ([msg], next_sequence st)
  else if record_type =? 0x04 then
    v ← py_int 16 data;
    Ok ([], Flash (Z.shiftl v 16) (sequence_number st) (last_address st))
  else Ok ([], st).

(** The lines of a file, one after the other. *)
Fixpoint hex_lines (st : flash) (lines : list pystr) : outcome (list pybytes * flash) :=
  match lines with
  | [] => Ok ([], st)
  | line :: lines' =>
      '(ms, st) ← hex_to_msg st line;
      '(ms', st) ← hex_lines st lines';
      Ok (ms ++ ms', st)
  end.

(** ** The session with the mote *)

Inductive port : Type → Type :=
| AccessFile : port bool                  (* os.access(hex_file_name, os.R_OK) *)
| DevExists : port bool                   (* os.path.exists(dev) *)
| DevAccess : port bool                   (* os.access(dev, os.W_OK) *)
| Connect : port unit                     (* serial.Serial(...), close(), open() *)
| Write (b : pybytes) : port unit         (* mote.write(b) *)
| Flush : port unit                       (* mote.flush() *)
| InWaiting : port Z                      (* mote.inWaiting() *)
| Read (n : Z) : port pybytes             (* mote.read(n), at most half a second *)
| Sleep : port unit                       (* time.sleep(0.1) *)
| OpenFile : port unit                    (* open(hex_file_name, 'r') *)
| NextLine : port (option pystr).         (* the next line of the file *)

Fixpoint wait_device (fuel : nat) : prog port unit :=
  match fuel with
  | O => PStuck
  | S fuel' =>
      e ← act DevExists;
      if negb e then wait_device fuel' else
      a ← act DevAccess;
      if negb a then wait_device fuel' else mret ()
  end.

Fixpoint handshake_loop (fuel : nat) (msg response : pybytes) : prog port unit :=
  match fuel with
  | O => PStuck
  | S fuel' =>
      _ ← act (Write msg);
      _ ← act Sleep;
      n ← act InWaiting;
      k ← act (Read n);
      if contains k response then mret () else handshake_loop fuel' msg response
  end.

(** One message, until it is acknowledged. *)
Fixpoint send_msg (fuel : nat) (msg : pybytes) : prog port unit :=
  match fuel with
  | O => PStuck
  | S fuel' =>
      _ ← act (Write msg);
      _ ← act Flush;
      k ← act (Read (zlen msg));
      if bool_decide (k = msg) then mret () else send_msg fuel' msg
  end.

Fixpoint send_file (fuel retries : nat) (st : flash) : prog port unit :=
  match fuel with
  | O => PStuck
  | S fuel' =>
      l ← act NextLine;
      match l with
      | None => mret ()
      | Some line =>
          '(ret, st) ← of_outcome (hex_to_msg st line);
          _ ← for_each ret (send_msg retries);
          send_file fuel' retries st
      end
  end.

Definition session (fuel retries : nat) (prepend_string : option pystr) : prog port unit :=
  ok ← act AccessFile;
  if negb ok then PRaise SystemExit else
  _ ← wait_device fuel;
  _ ← act Connect;
  _ ← match prepend_string with
      | Some (c :: s) => b ← of_outcome (utf8_encode (c :: s)); act (Write b)
      | _ => mret ()
      end;
  msg ← of_outcome (numbered flash_start handshake1_message);
  let st := next_sequence flash_start in
  response ← of_outcome (numbered st handshake2_message);
  _ ← handshake_loop fuel msg response;
  let st := next_sequence st in
  _ ← act OpenFile;
  send_file fuel retries st.
End hex_lines.

(** ** Specification

    A frame is a numbered body with the byte that makes its sum zero.  A
    record is the text of an Intel HEX line, and [record_spec] what it asks
    for, on bytes. *)

Definition frame (seq : Z) (body : pybytes) : pybytes :=
  let m := le_bytes 2 seq ++ body in m ++ [(- sum_list m) mod 256].

Definition write_body (address : Z) (d : pybytes) : pybytes := lit "w" ++ le_bytes 4 address ++ d.

(** The words a data record becomes. *)
Definition word_of (p : pybytes) : pybytes :=
  match p with
  | [b] => [0; b; 0; 0]
  | [a; b] => [a; b; 0; 0]
  | [a; b; c] => [a; b; 0; c]
  | _ => take 4 p
  end.
Definition words_of (data : pybytes) : list pybytes :=
  if 8 <=? zlen data then word_of <$> pieces data 4
  else match data with [] => [] | _ => [word_of data] end.

Fixpoint write_words (st : flash) (address : Z) (ds : list pybytes)
  : outcome (list pybytes * flash) :=
  match ds with
  | [] => Ok ([], st)
  | d :: ds' =>
      '(ms, st) ← write_word st address (Ok d);
      '(ms', st) ← write_words st (address + 4) ds';
      Ok (ms ++ ms', st)
  end.

Definition record_spec (st : flash) (rt address : Z) (data : pybytes)
  : outcome (list pybytes * flash) :=
  if rt =? 0 then write_words st address (words_of data)
  else if rt =? 1 then
    msg ← numbered st end_message; Ok ([msg], next_sequence st)
  else if rt =? 4 then
    match data with
    | [] => Raise ValueError
    | _ => Ok ([], Flash (from_bytes_big data * 65536) (sequence_number st) (last_address st))
    end
  else Ok ([], st).

(** ** Messages *)

Lemma pack_le_in w v : 0 ≤ v < 256 ^ Z.of_nat w → pack_le w v = Ok (le_bytes w v).
Proof. intros Hv. unfold pack_le. by replace ((0 <=? v) && (v <? 256 ^ Z.of_nat w)) with true by lia. Qed.

Lemma pack_le_2 v : 0 ≤ v < 65536 → pack_le 2 v = Ok (le_bytes 2 v).
Proof. exact (pack_le_in 2 v). Qed.

Lemma pack_le_4 v : 0 ≤ v < 2 ^ 32 → pack_le 4 v = Ok (le_bytes 4 v).
Proof. exact (pack_le_in 4 v). Qed.

Lemma pack_le_inv w v b : pack_le w v = Ok b → 0 ≤ v < 256 ^ Z.of_nat w ∧ b = le_bytes w v.
Proof. unfold pack_le. case_match; [|done]. intros [= <-]. split; [lia | done]. Qed.

Lemma msg_checksum_sum m : msg_checksum m = Ok [(- sum_list m) mod 256].
Proof.
  unfold msg_checksum. change 0xff with 255. rewrite twos_complement.
  apply pack_byte, Z.mod_pos_bound. lia.
Qed.

Lemma numbered_ok st body :
  0 ≤ sequence_number st < 65536 → numbered st body = Ok (frame (sequence_number st) body).
Proof.
  intros Hs. unfold numbered. rewrite pack_le_2, bind_ok, msg_checksum_sum by done. done.
Qed.

Lemma numbered_inv st body m :
  numbered st body = Ok m → 0 ≤ sequence_number st < 65536 ∧ m = frame (sequence_number st) body.
Proof.
  unfold numbered. intros (b & Hb & Hm)%bind_ok_inv. apply pack_le_inv in Hb as [? ->].
  rewrite msg_checksum_sum in Hm. split; [done|]. by injection Hm as <-.
Qed.

Lemma write_word_ok st address d :
  last_address st < address < 2 ^ 32 → 0 ≤ address → 0 ≤ sequence_number st < 65536 →
  write_word st address (Ok d) =
    Ok ([frame (sequence_number st) (write_body address d)],
        Flash (hex_offset st) (sequence_number st + 1) address).
Proof.
  intros Ha Ha0 Hs. unfold write_word. rewrite (proj2 (Z.ltb_lt _ _)) by lia.
  rewrite pack_le_2, !bind_ok, pack_le_4 by lia.
  rewrite bind_ok, msg_checksum_sum, bind_ok. unfold frame, write_body. by rewrite <- !app_assoc.
Qed.

Lemma write_word_skip st address d :
  address ≤ last_address st → write_word st address d = Ok ([], st).
Proof. intros Ha. unfold write_word. by rewrite (proj2 (Z.ltb_ge _ _)). Qed.

Lemma write_word_inv st address d ms st' :
  write_word st address d = Ok (ms, st') →
  (address ≤ last_address st ∧ ms = [] ∧ st' = st) ∨
  (∃ w, d = Ok w ∧ last_address st < address < 2 ^ 32 ∧ 0 ≤ sequence_number st < 65536 ∧ 0 ≤ address ∧
    ms = [frame (sequence_number st) (write_body address w)] ∧
    st' = Flash (hex_offset st) (sequence_number st + 1) address).
Proof.
  unfold write_word. destruct (Z.ltb_spec (last_address st) address) as [Hl|Hl].
  - intros (b & Hb & H)%bind_ok_inv. apply pack_le_inv in Hb as [Hs ->].
    apply bind_ok_inv in H as (w & -> & H). apply bind_ok_inv in H as (a & Ha & H).
    apply pack_le_inv in Ha as [Ha ->]. change (256 ^ Z.of_nat 4) with (2 ^ 32) in Ha.
    rewrite msg_checksum_sum, bind_ok in H. injection H as <- <-. right. exists w.
    unfold frame, write_body. rewrite <- !app_assoc. split_and!; [done|lia..|done|done].
  - intros [= <- <-]. left. done.
Qed.

Lemma write_words_app st address ws ds :
  write_words st address (ws ++ ds) =
    ('(ms, st) ← write_words st address ws;
     '(ms', st) ← write_words st (address + 4 * zlen ws) ds;
     Ok (ms ++ ms', st)).
Proof.
  revert st address; induction ws as [|w ws IH]; intros st address; cbn [write_words app].
  - rewrite bind_ok. change (zlen (@nil pybytes)) with 0. rewrite Z.mul_0_r, Z.add_0_r.
    by destruct (write_words st address ds) as [[ms st']|e].
  - destruct (write_word st address (Ok w)) as [[m1 st1]|e]; [|done]. rewrite !bind_ok. rewrite IH.
    replace (address + 4 * zlen (w :: ws)) with (address + 4 + 4 * zlen ws) by (rewrite zlen_cons; lia).
    destruct (write_words st1 (address + 4) ws) as [[m2 st2]|e]; [|done]. rewrite !bind_ok.
    destruct (write_words st2 _ ds) as [[m3 st3]|e]; [|done]. rewrite !bind_ok. by rewrite app_assoc.
Qed.

(** ** Data records *)

Section data_records.
Context `{Unicode}.

(** Reading two bytes of the text. *)
Lemma py_int_pair pre a b post :
  Forall is_byte (pre ++ [a; b] ++ post) →
  ∀ i j, i = 2 * zlen pre → j = i + 4 →
  py_int 16 (slice (hexbytes (pre ++ [a; b] ++ post)) i j) = Ok (a * 256 + b).
Proof.
  intros Hb i j -> ->. rewrite !hexbytes_app, slice_mid.
  - apply Forall_app in Hb as [_ [Hab _]%Forall_app].
    rewrite py_int_hexbytes by done. done.
  - symmetry. apply zlen_hexbytes. by apply Forall_app in Hb as [? _].
  - apply Forall_app in Hb as [Hp [Hab _]%Forall_app]. rewrite !zlen_hexbytes by done.
    change (zlen [a; b]) with 2. lia.
Qed.

Lemma pack_be_pair a b : is_byte a → is_byte b → pack_be 2 (a * 256 + b) = Ok [a; b].
Proof.
  unfold is_byte. intros Ha Hb. rewrite pack_be_16.
  replace ((0 <=? a * 256 + b) && (a * 256 + b <? 65536)) with true by lia.
  unfold be16. repeat f_equal.
  - rewrite Z.div_add_l by lia. rewrite (Z.div_small b) by lia. rewrite Z.add_0_r. by apply Z.mod_small.
  - rewrite Z.add_comm, Z.mod_add by lia. by apply Z.mod_small.
Qed.

Lemma full_word_hexbytes pre a b c d post :
  Forall is_byte (pre ++ [a; b; c; d] ++ post) →
  full_word (hexbytes (pre ++ [a; b; c; d] ++ post)) (2 * zlen pre) = Ok [a; b; c; d].
Proof.
  intros Hb. unfold full_word.
  pose proof (py_int_pair pre a b ([c; d] ++ post) Hb) as H1.
  assert (pre ++ [a; b; c; d] ++ post = (pre ++ [a; b]) ++ [c; d] ++ post) as E by by rewrite <- app_assoc.
  pose proof Hb as Hb2. rewrite E in Hb2.
  pose proof (py_int_pair (pre ++ [a; b]) c d post Hb2) as H2. rewrite <- E in H2.
  apply Forall_app in Hb as [_ Hb]. cbn [app] in Hb. rewrite !Forall_cons in Hb. destruct Hb as (? & ? & ? & ? & _).
  cbn [app] in *. rewrite (H1 _ _ eq_refl eq_refl), bind_ok, pack_be_pair, bind_ok by done.
  rewrite H2 by (autorewrite with pystr; lia). by rewrite bind_ok, pack_be_pair.
Qed.

(** The last piece of a record, read by the code's two tails. *)
Definition tail_word (data : pystr) (i n : Z) : outcome pybytes :=
  if n - i <=? 4 then half_word data i else full_word data i.

Lemma py_int_last pre p :
  Forall is_byte (pre ++ p) → p ≠ [] →
  py_int 16 (slice_from (hexbytes (pre ++ p)) (2 * zlen pre)) = Ok (from_bytes_big p).
Proof.
  intros Hb Hp. apply Forall_app in Hb as [Hpre Hb]. rewrite hexbytes_app, slice_from_app.
  - by apply py_int_hexbytes.
  - by rewrite zlen_hexbytes.
Qed.

Lemma tail_word_hexbytes pre p :
  Forall is_byte (pre ++ p) → p ≠ [] → zlen p < 4 ∨ pre = [] →
  tail_word (hexbytes (pre ++ p)) (2 * zlen pre) (2 * zlen (pre ++ p)) = Ok (word_of p).
Proof.
  intros Hb Hp Hs. unfold tail_word. autorewrite with pystr.
  replace (2 * (zlen pre + zlen p) - 2 * zlen pre) with (2 * zlen p) by lia.
  pose proof Hb as Hbp. apply Forall_app in Hbp as [_ Hbp].
  destruct p as [|a [|b [|c [|d p]]]]; [done|..]; autorewrite with pystr; cbn [Z.mul Z.add Z.leb].
  - change (2 * (1 + 0) <=? 4) with true. unfold half_word. rewrite py_int_last by done.
    rewrite Forall_singleton in Hbp. rewrite bind_ok.
    change (from_bytes_big [a]) with (0 * 256 + a). rewrite pack_be_pair by done. done.
  - change (2 * (1 + (1 + 0)) <=? 4) with true. unfold half_word. rewrite py_int_last by done.
    rewrite !Forall_cons in Hbp. destruct Hbp as (? & ? & _). rewrite bind_ok.
    change (from_bytes_big [a; b]) with (a * 256 + b). rewrite pack_be_pair by done. done.
  - change (2 * (1 + (1 + (1 + 0))) <=? 4) with false. unfold full_word.
    pose proof (py_int_pair pre a b [c] Hb) as H1. cbn [app] in H1. rewrite (H1 _ _ eq_refl eq_refl).
    rewrite !Forall_cons in Hbp. destruct Hbp as (? & ? & ? & _).
    rewrite bind_ok, pack_be_pair, bind_ok by done.
    assert (slice (hexbytes (pre ++ [a; b; c])) (2 * zlen pre + 4) (2 * zlen pre + 8)
      = slice_from (hexbytes ((pre ++ [a; b]) ++ [c])) (2 * zlen (pre ++ [a; b]))) as ->.
    { rewrite <- app_assoc. unfold slice_from, slice, clamp.
      assert (zlen (hexbytes (pre ++ [a; b] ++ [c])) = 2 * zlen pre + 6) as El.
      { rewrite zlen_hexbytes by done. autorewrite with pystr. lia. }
      cbn [app] in *. rewrite El. pose proof (zlen_nonneg pre). autorewrite with pystr.
      repeat (rewrite (proj2 (Z.ltb_ge _ 0)) by lia). f_equal; [|f_equal]; lia. }
    rewrite py_int_last by (rewrite <- ?app_assoc; done). rewrite bind_ok.
    change (from_bytes_big [c]) with (0 * 256 + c). by rewrite pack_be_pair.
  - destruct Hs as [Hs| ->].
    + pose proof (zlen_nonneg p). autorewrite with pystr in Hs. lia.
    + pose proof (zlen_nonneg p). rewrite (proj2 (Z.leb_gt _ _)) by lia.
      apply (full_word_hexbytes [] a b c d p). done.
Qed.

(** *** The loop over whole words *)

Lemma data_loop_words pre ws tl ret address st :
  Forall is_byte (pre ++ concat ws ++ tl) → Forall (λ w, length w = 4%nat) ws → zlen tl < 4 →
  data_loop (hexbytes (pre ++ concat ws ++ tl))
    (range (2 * zlen pre) (2 * zlen (pre ++ concat ws ++ tl) - 7) 8) ret address st =
    ('(ms, st) ← write_words st address ws; Ok (ret ++ ms, address + 4 * zlen ws, st)).
Proof.
  revert pre ret address st; induction ws as [|w ws IH]; intros pre ret address st Hb Hw Htl.
  - rewrite range_nil by (cbn [concat app]; autorewrite with pystr; lia).
    cbn. by rewrite app_nil_r, Z.add_0_r.
  - apply Forall_cons in Hw as [Hw Hws]. destruct w as [|a [|b [|c [|d [|? ?]]]]]; try done.
    pose proof (zlen_nonneg pre). pose proof (zlen_nonneg (concat ws)). pose proof (zlen_nonneg tl).
    rewrite range_cons by (cbn [concat]; autorewrite with pystr; lia).
    change (concat ([a; b; c; d] :: ws)) with ([a; b; c; d] ++ concat ws) in *.
    cbn [data_loop write_words]. rewrite <- app_assoc in Hb |- *. rewrite full_word_hexbytes by done.
    destruct (write_word st address (Ok [a; b; c; d])) as [[m1 st1]|e]; [|done]. rewrite !bind_ok.
    assert (pre ++ [a; b; c; d] ++ concat ws ++ tl = (pre ++ [a; b; c; d]) ++ concat ws ++ tl) as ->
      by by rewrite <- app_assoc.
    replace (2 * zlen pre + 8) with (2 * zlen (pre ++ [a; b; c; d])) by (autorewrite with pystr; lia).
    rewrite IH by (try done; by rewrite <- app_assoc).
    destruct (write_words st1 (address + 4) ws) as [[m2 st2]|e]; [|done]. rewrite !bind_ok.
    rewrite app_assoc. autorewrite with pystr.
    by replace (address + 4 + 4 * zlen ws) with (address + 4 * (1 + zlen ws)) by lia.
Qed.

(** The position after the last word. *)
Lemma last_position (n k : Z) :
  8 ≤ n - 7 → 0 ≤ k < 8 → (n - k) mod 8 = 0 → default 0 (last (range 0 (n - 7) 8)) + 8 = n - k.
Proof.
  intros Hn Hk Hm. unfold range.
  replace ((n - 7 - 0 + 8 - 1) / 8) with ((n - k) / 8).
  2:{ replace (n - 7 - 0 + 8 - 1) with (k + (n - k)) by lia.
      rewrite (Z.div_mod (n - k) 8) at 2 by lia. rewrite Hm, Z.add_0_r.
      rewrite Z.mul_comm, Z.div_add by lia. rewrite (Z.div_small k) by lia. lia. }
  pose proof (Z.div_mod (n - k) 8). assert (0 < (n - k) / 8) by lia.
  rewrite Z.max_r by lia. rewrite last_lookup, length_fmap, length_seqZ, list_lookup_fmap.
  rewrite lookup_seqZ_lt by lia. cbn. lia.
Qed.

Lemma pieces_words ws (tl : pybytes) :
  Forall (λ w, length w = 4%nat) ws → zlen tl < 4 →
  word_of <$> pieces (concat ws ++ tl) 4 = ws ++ match tl with [] => [] | _ => [word_of tl] end.
Proof.
  intros Hw Htl. induction Hw as [|w ws Hw Hws IH].
  - cbn [concat app]. destruct tl as [|x tl]; [by rewrite pieces_nil|].
    rewrite pieces_cons by done. rewrite take_ge, drop_ge, pieces_nil by (unfold zlen in *; lia). done.
  - change (concat (w :: ws)) with (w ++ concat ws). rewrite <- app_assoc, pieces_app by (unfold zlen; lia).
    rewrite fmap_cons, IH. cbn [app]. f_equal. destruct w as [|a [|b [|c [|d [|? ?]]]]]; done.
Qed.

Lemma data_record_spec st address data :
  Forall is_byte data →
  data_record st (zlen data) address (hexbytes data) = write_words st address (words_of data).
Proof.
  intros Hb. unfold data_record, words_of. rewrite (Z.mul_comm (zlen data) 2).
  destruct (Z.leb_spec 8 (zlen data)) as [H8|H8].
  - rewrite (proj2 (Z.leb_le 8 _)) by lia.
    destruct (cut_words data) as (ws & tl & -> & Hw & Htl).
    pose proof (data_loop_words [] ws tl [] address st Hb Hw Htl) as Hl. cbn [app] in Hl.
    change (2 * zlen (@nil Z)) with 0 in Hl. rewrite Hl, pieces_words, write_words_app by done. clear Hl.
    destruct (write_words st address ws) as [[ms st1]|e]; [|done]. rewrite !bind_ok.
    assert (zlen (concat ws ++ tl) = 4 * zlen ws + zlen tl) as En.
    { autorewrite with pystr. by rewrite zlen_words. }
    pose proof (zlen_nonneg tl).
    rewrite (last_position _ (2 * zlen tl)); [|lia..|].
    2:{ rewrite En. replace (2 * (4 * zlen ws + zlen tl) - 2 * zlen tl) with (zlen ws * 8) by lia.
        apply Z.mod_mul. lia. }
    destruct tl as [|x tl].
    + change (zlen (@nil Z)) with 0. rewrite Z.sub_0_r, Z.ltb_irrefl. cbn. by rewrite app_nil_r.
    + rewrite (zlen_cons x tl) in *. pose proof (zlen_nonneg tl).
      rewrite (proj2 (Z.ltb_lt _ _)) by lia. cbn [andb].
      assert (2 * zlen (concat ws ++ x :: tl) - 2 * (1 + zlen tl) = 2 * zlen (concat ws)) as Ei.
      { autorewrite with pystr. lia. }
      pose proof (tail_word_hexbytes (concat ws) (x :: tl) Hb ltac:(done)) as Ht.
      rewrite Ei. unfold tail_word in Ht. cbn [write_words]. rewrite <- Ht by (rewrite zlen_cons; lia).
      destruct (_ <=? 4);
        (destruct (write_word st1 _ _) as [[m2 st2]|e]; [|done]); rewrite !bind_ok; by rewrite app_nil_r.
  - rewrite (proj2 (Z.leb_gt 8 _)) by lia. rewrite bind_ok.
    destruct data as [|x data]; [done|].
    pose proof (tail_word_hexbytes [] (x :: data) Hb ltac:(done) ltac:(by right)) as Ht. cbn [app] in Ht.
    change (2 * zlen (@nil Z)) with 0 in Ht. unfold tail_word in Ht. cbn [write_words].
    rewrite (proj2 (Z.ltb_lt 0 _)) by (rewrite zlen_cons; pose proof (zlen_nonneg data); lia). cbn [andb].
    rewrite <- Ht. destruct (_ <=? 4);
      (destruct (write_word st _ _) as [[m2 st2]|e]; [|done]); rewrite !bind_ok; by rewrite app_nil_r.
Qed.
End data_records.

(** ** Whole records *)

Definition record_text (bytes : pybytes) : pystr := chr ":" :: hexbytes bytes.

Section records.
Context `{Unicode}.

Lemma hex_checksum_hexbytes bs :
  Forall is_byte bs → hex_checksum (hexbytes bs) = Ok ((- sum_list bs) mod 256).
Proof.
  intros Hb. unfold hex_checksum.
  assert (range 0 (zlen (hexbytes bs) - 1) 2 = range 0 (zlen (hexbytes bs)) 2) as ->.
  { rewrite zlen_hexbytes by done. unfold range. do 2 f_equal.
    replace (2 * zlen bs - 1 - 0 + 2 - 1) with (zlen bs * 2) by lia.
    replace (2 * zlen bs - 0 + 2 - 1) with (1 + zlen bs * 2) by lia.
    rewrite Z.div_mul, Z.div_add by lia. done. }
  assert (mapM (λ i, py_int 16 (slice (hexbytes bs) i (i + 2))) (range 0 (zlen (hexbytes bs)) 2)
    = mapM (py_int 16) (pieces (hexbytes bs) 2)) as ->.
  { apply mapM_pieces. }
  unfold hexbytes at 1. rewrite pieces_flat; [|lia|].
  2:{ intros b Hin. apply zlen_hexbyte. by rewrite Forall_forall in Hb; apply Hb. }
  assert (mapM (py_int 16) (hexbyte <$> bs) = Ok bs) as ->.
  { apply mapM_ok_Forall2, Forall2_fmap_l, Forall_Forall2_diag.
    eapply Forall_impl; [done|]. intros b. apply py_int_hexbyte. }
  rewrite bind_ok, !land_255. f_equal. change (2 ^ 8) with 256.
  pose proof (Z.mod_pos_bound (sum_list bs) 256 eq_refl).
  rewrite Z.abs_neq by lia.
  replace (- (sum_list bs mod 256 - 256)) with (0 - sum_list bs mod 256 + 1 * 256) by lia.
  rewrite Z.mod_add by lia. by rewrite Zminus_mod_idemp_r.
Qed.

Lemma checksum_matches s ck : is_byte ck → ((- s) mod 256 =? ck) = bool_decide ((s + ck) mod 256 = 0).
Proof.
  unfold is_byte. intros Hc. apply eq_bool_prop_intro. rewrite bool_decide_spec.
  destruct (Z.eqb_spec ((- s) mod 256) ck) as [E|E]; cbn; split; try done.
  - intros _. rewrite <- E. rewrite Z.add_mod_idemp_r by lia. by rewrite Z.add_opp_diag_r.
  - intros Hm. apply E. rewrite <- (Z.mod_small ck 256) at 1 by lia.
    replace (- s) with (ck - (s + ck)) by lia. rewrite Zminus_mod, Hm, Z.sub_0_r. by rewrite Z.mod_mod by lia.
Qed.

(** The newline is dropped when there is one. *)
Lemma drop_newline body nl :
  body ≠ [] → Forall (λ c, is_digit 16 c = true) body → nl = [] ∨ nl = [10] →
  let line := chr ":" :: body ++ nl in
  (if bool_decide (slice_from line (-1) = [10]) then slice_to line (-1) else line) = chr ":" :: body.
Proof.
  intros Hne Hd [-> | ->]; cbn zeta.
  - rewrite app_nil_r. destruct (exists_last Hne) as (b' & c & ->).
    apply Forall_app in Hd as [_ Hc]. rewrite Forall_singleton in Hc.
    change (chr ":" :: b' ++ [c]) with ((chr ":" :: b') ++ [c]).
    rewrite slice_from_neg by done. rewrite bool_decide_false; [done|]. intros [= ->]. done.
  - change (chr ":" :: body ++ [10]) with ((chr ":" :: body) ++ [10]).
    rewrite slice_from_neg by done. rewrite bool_decide_true by done.
    unfold slice_to. apply (slice_mid_neg [] (chr ":" :: body) [10]); done.
Qed.

Lemma hexbytes_cons b bs : hexbytes (b :: bs) = hexbyte b ++ hexbytes bs.
Proof. done. Qed.

(** The fields of a line whose data has the announced length. *)
Lemma record_fields bc ah al rt data ck :
  Forall is_byte (bc :: ah :: al :: rt :: data ++ [ck]) → bc = zlen data →
  let line := record_text (bc :: ah :: al :: rt :: data ++ [ck]) in
  slice line 1 (-2) = hexbytes (bc :: ah :: al :: rt :: data) ∧
  slice_from line (-2) = hexbyte ck ∧
  slice line 1 3 = hexbyte bc ∧ slice line 3 7 = hexbytes [ah; al] ∧ slice line 7 9 = hexbyte rt ∧
  slice line 9 (9 + 2 * bc) = hexbytes data.
Proof.
  intros Hb Hbc line. pose proof Hb as Hb'. rewrite !Forall_cons, Forall_app in Hb'.
  destruct Hb' as (H1 & H2 & H3 & H4 & H5 & H6). apply Forall_cons in H6 as [H6 _].
  assert (Hl : line = [chr ":"] ++ hexbytes (bc :: ah :: al :: rt :: data) ++ hexbyte ck).
  { unfold line, record_text. change (bc :: ah :: al :: rt :: data ++ [ck]) with ((bc :: ah :: al :: rt :: data) ++ [ck]).
    by rewrite hexbytes_app, hexbytes_one. }
  assert (Hl2 : line = ([chr ":"] ++ hexbytes [bc; ah; al; rt]) ++ hexbytes data ++ hexbyte ck).
  { rewrite Hl. change (bc :: ah :: al :: rt :: data) with ([bc; ah; al; rt] ++ data).
    by rewrite hexbytes_app, <- !app_assoc. }
  assert (hexbyte ck ≠ []) by (by rewrite hexbyte_two).
  assert (Forall is_byte [bc; ah; al; rt]) by byte_list.
  split_and!.
  - rewrite Hl. apply slice_mid_neg; [done | by rewrite zlen_hexbyte | done].
  - rewrite Hl, app_assoc. apply slice_from_neg; [by rewrite zlen_hexbyte | done].
  - rewrite Hl, hexbytes_cons, <- app_assoc. apply slice_mid; [done | by rewrite zlen_hexbyte].
  - rewrite Hl. change (bc :: ah :: al :: rt :: data) with ([bc] ++ [ah; al] ++ rt :: data).
    rewrite !hexbytes_app, hexbytes_one, <- !app_assoc, app_assoc.
    apply slice_mid; autorewrite with pystr; rewrite ?zlen_hexbytes, zlen_hexbyte by byte_list; done.
  - rewrite Hl. change (bc :: ah :: al :: rt :: data) with ([bc; ah; al] ++ [rt] ++ data).
    rewrite !hexbytes_app, hexbytes_one, <- !app_assoc, app_assoc.
    apply slice_mid; autorewrite with pystr; rewrite ?zlen_hexbyte, zlen_hexbytes by byte_list; done.
  - rewrite Hl2. apply slice_mid; autorewrite with pystr; rewrite !zlen_hexbytes by done; [done|].
    rewrite Hbc. change (zlen [zlen data; ah; al; rt]) with 4. change (zlen [chr ":"]) with 1. lia.
Qed.

(** C24 What one line of an Intel HEX file does, for every record whose data
    has the announced length: a record whose bytes do not sum to zero modulo
    256 raises [Exception]; otherwise a data record writes the words of its
    data at increasing addresses from its own address plus the current
    offset, an end-of-file record gives the end message, an extended linear
    address record sets the offset to its data times 65536, and any other
    type does nothing.  A trailing newline makes no difference. *)
Theorem hex_to_msg_record st ah al rt data ck nl :
  let bytes := zlen data :: ah :: al :: rt :: data ++ [ck] in
  Forall is_byte bytes → nl = [] ∨ nl = [10] →
  hex_to_msg st (record_text bytes ++ nl) =
    if bool_decide (sum_list bytes mod 256 = 0)
    then record_spec st rt (ah * 256 + al + hex_offset st) data
    else Raise GenericException.
Proof.
  intros bytes Hb Hnl. unfold hex_to_msg.
  pose proof Hb as Hb'. unfold bytes in Hb'. rewrite !Forall_cons, Forall_app in Hb'.
  destruct Hb' as (H1 & H2 & H3 & H4 & H5 & H6). apply Forall_cons in H6 as [H6 _].
  assert (hexbytes bytes ≠ []) as Hne by (unfold bytes; by rewrite hexbytes_cons, hexbyte_two).
  change (record_text bytes ++ nl) with (chr ":" :: hexbytes bytes ++ nl).
  rewrite drop_newline by (try done; by apply hexbytes_digits).
  change (chr ":" :: hexbytes bytes) with (record_text bytes).
  destruct (record_fields (zlen data) ah al rt data ck Hb eq_refl) as (F1 & F2 & F3 & F4 & F5 & F6).
  fold bytes in F1, F2, F3, F4, F5, F6. rewrite F1, F2, F3, F4, F5.
  change (item (record_text bytes) 0) with (Ok (chr ":")). rewrite bind_ok. cbn [negb Z.eqb].
  rewrite Z.eqb_refl. cbn [negb]. rewrite hex_checksum_hexbytes by byte_list.
  rewrite !py_int_hexbyte, py_int_hexbytes by (done || byte_list). rewrite !bind_ok, F6.
  rewrite checksum_matches by done.
  assert (sum_list (zlen data :: ah :: al :: rt :: data) + ck = sum_list bytes) as ->.
  { unfold bytes. autorewrite with pystr. lia. }
  destruct (bool_decide _); cbn [negb]; [|done]. unfold record_spec.
  change (from_bytes_big [ah; al]) with (ah * 256 + al).
  rewrite data_record_spec by done. destruct (rt =? 0); [done|]. destruct (rt =? 1); [done|].
  destruct (rt =? 4); [|done]. destruct data as [|x data]; [done|].
  rewrite py_int_hexbytes by done. rewrite bind_ok, Z.shiftl_mul_pow2 by lia. done.
Qed.
End records.

(** ** What reaches the flash memory *)

(** The messages of consecutive words. *)
Definition write_frames (seq address : Z) (words : list pybytes) : list pybytes :=
  imap (λ k w, frame (seq + Z.of_nat k) (write_body (address + 4 * Z.of_nat k) w)) words.

Lemma write_frames_cons seq address w ws :
  write_frames seq address (w :: ws) =
    frame seq (write_body address w) :: write_frames (seq + 1) (address + 4) ws.
Proof.
  unfold write_frames. cbn [imap]. rewrite Z.mul_0_r, !Z.add_0_r. f_equal.
  apply imap_ext. intros k x _. cbn [compose].
  by replace (seq + 1 + Z.of_nat k) with (seq + Z.of_nat (S k)) by lia;
    replace (address + 4 + 4 * Z.of_nat k) with (address + 4 * Z.of_nat (S k)) by lia.
Qed.

Lemma write_words_ok st address ds :
  last_address st < address → 0 ≤ address → address + 4 * zlen ds ≤ 2 ^ 32 →
  0 ≤ sequence_number st → sequence_number st + zlen ds ≤ 65536 →
  write_words st address ds =
    Ok (write_frames (sequence_number st) address ds,
        Flash (hex_offset st) (sequence_number st + zlen ds)
          (if decide (ds = []) then last_address st else address + 4 * zlen ds - 4)).
Proof.
  revert st address; induction ds as [|d ds IH]; intros st address H1 H2 H3 H4 H5.
  - cbn. rewrite Z.add_0_r. by destruct st.
  - cbn [write_words]. rewrite zlen_cons in *. pose proof (zlen_nonneg ds).
    rewrite write_word_ok by lia. rewrite bind_ok.
    rewrite IH by (cbn; lia). rewrite bind_ok, write_frames_cons. cbn. do 2 f_equal.
    f_equal; [lia|]. rewrite (decide_False (P := d :: ds = [])) by done.
    destruct ds as [|d' ds]; [rewrite decide_True, zlen_nil by done; lia|]. rewrite decide_False by done. lia.
Qed.

Section writes.
Context `{Unicode}.
Context (st : flash) (ah al : Z).

(** A valid data record for this state, with room for [n] more words. *)
Definition target : Z := ah * 256 + al + hex_offset st.
Definition data_bytes (data : pybytes) (ck : Z) : pybytes := zlen data :: ah :: al :: 0 :: data ++ [ck].
Definition fits (data : pybytes) (ck n : Z) : Prop :=
  Forall is_byte (data_bytes data ck) ∧ sum_list (data_bytes data ck) mod 256 = 0 ∧
  last_address st < target ∧ 0 ≤ target ∧ target + 4 * n ≤ 2 ^ 32 ∧
  0 ≤ sequence_number st ∧ sequence_number st + n ≤ 65536.

Lemma hex_to_msg_fits data ck :
  fits data ck (zlen (words_of data)) → words_of data ≠ [] →
  hex_to_msg st (record_text (data_bytes data ck)) =
    Ok (write_frames (sequence_number st) target (words_of data),
        Flash (hex_offset st) (sequence_number st + zlen (words_of data))
          (target + 4 * zlen (words_of data) - 4)).
Proof.
  intros (Hb & Hs & Hl & H0 & Ha & Hq & Hq') Hne.
  pose proof (hex_to_msg_record st ah al 0 data ck [] Hb ltac:(by left)) as Hr.
  rewrite app_nil_r in Hr. fold (data_bytes data ck) in Hr. rewrite bool_decide_true in Hr by done.
  rewrite Hr. unfold record_spec. cbn [Z.eqb]. fold target.
  rewrite write_words_ok by lia. by rewrite decide_False.
Qed.

(** A data record whose length is a multiple of four, at an address above
    the last one written, is sent whole: one message per four bytes, in
    order, under consecutive sequence numbers, at consecutive word addresses
    from the address of the record. *)
Theorem aligned_record_sent data ck :
  zlen data mod 4 = 0 → data ≠ [] → fits data ck (zlen data / 4) →
  ∃ words, concat words = data ∧ Forall (λ w, length w = 4%nat) words ∧
    hex_to_msg st (record_text (data_bytes data ck)) =
      Ok (write_frames (sequence_number st) target words,
          Flash (hex_offset st) (sequence_number st + zlen data / 4) (target + zlen data - 4)).
Proof.
  intros Hm Hne Hf. destruct (cut_words data) as (ws & tl & -> & Hw & Htl).
  assert (tl = []) as ->.
  { rewrite zlen_app, zlen_words, Z.add_comm, Z.mul_comm, Z.mod_add in Hm by (done || lia).
    destruct tl as [|x tl]; [done|]. pose proof (zlen_nonneg (x :: tl)).
    rewrite Z.mod_small in Hm by lia. rewrite zlen_cons in Hm. pose proof (zlen_nonneg tl). lia. }
  rewrite app_nil_r in *. assert (words_of (concat ws) = ws) as Ews.
  { unfold words_of. case_match eqn:E8.
    - pose proof (pieces_words ws [] Hw Htl) as Hp. by rewrite !app_nil_r in Hp.
    - destruct Hw as [|w ws Hw Hws]; [done|]. destruct w as [|a [|b [|c [|d [|? ?]]]]]; try done.
      destruct Hws as [|w ws Hw' Hws]; [done|]. exfalso.
      apply Z.leb_gt in E8. cbn [concat] in E8. autorewrite with pystr in E8.
      pose proof (zlen_nonneg (concat ws)). unfold zlen in *. lia. }
  rewrite zlen_words, Z.mul_comm, Z.div_mul in * by (done || lia).
  exists ws. split_and!; [done..|]. rewrite hex_to_msg_fits; rewrite Ews.
  - by rewrite (Z.mul_comm 4).
  - done.
  - by intros ->.
Qed.

(** A data record of five, six or seven bytes loses everything after its
    fourth byte: the loop over whole words is not entered, its variable [i]
    is 0, and the last branch sends one word only. *)
Theorem short_record_truncated data ck :
  4 < zlen data < 8 → fits data ck 1 →
  hex_to_msg st (record_text (data_bytes data ck)) =
    Ok ([frame (sequence_number st) (write_body target (take 4 data))],
        Flash (hex_offset st) (sequence_number st + 1) target).
Proof.
  intros Hn Hf. assert (words_of data = [take 4 data]) as Ews.
  { unfold words_of. rewrite (proj2 (Z.leb_gt _ _)) by lia.
    destruct data as [|a [|b [|c [|d data]]]]; (done || (unfold zlen in Hn; simpl in Hn; lia)). }
  rewrite hex_to_msg_fits; rewrite Ews; [|done|done].
  change (zlen [take 4 data]) with 1. rewrite write_frames_cons. cbn. repeat f_equal. lia.
Qed.

(** The last one or three bytes of a record are not where the record put
    them: [struct.pack('>H', ...)] of a single byte writes it in the low half,
    so a last byte [b] is sent as [0, b, 0, 0] and last bytes [a], [b], [c] as
    [a, b, 0, c]; the words before them are sent as they are. *)
Theorem odd_tail_misplaced ws tl ck :
  Forall (λ w, length w = 4%nat) ws → zlen ws ≠ 1 →
  (∃ b, tl = [b]) ∨ (∃ a b c, tl = [a; b; c]) →
  fits (concat ws ++ tl) ck (zlen ws + 1) →
  ∃ w, (w = match tl with [a; b; c] => [a; b; 0; c] | b :: _ => [0; b; 0; 0] | [] => [] end) ∧
    hex_to_msg st (record_text (data_bytes (concat ws ++ tl) ck)) =
      Ok (write_frames (sequence_number st) target (ws ++ [w]),
          Flash (hex_offset st) (sequence_number st + (zlen ws + 1)) (target + 4 * zlen ws)).
Proof.
  intros Hw Hn1 Htl Hf. exists (word_of tl).
  assert (zlen tl < 4 ∧ tl ≠ []) as [Htl4 Hne].
  { destruct Htl as [(b & ->) | (a & b & c & ->)]; done. }
  assert (words_of (concat ws ++ tl) = ws ++ [word_of tl]) as Ews.
  { unfold words_of. rewrite zlen_app, zlen_words by done. case_match eqn:E8.
    - rewrite pieces_words by done. by destruct tl.
    - apply Z.leb_gt in E8. destruct ws as [|w ws]; [cbn; by destruct tl|].
      rewrite zlen_cons in *. pose proof (zlen_nonneg tl). pose proof (zlen_nonneg ws). lia. }
  split. { by destruct Htl as [(b & ->) | (a & b & c & ->)]. }
  rewrite hex_to_msg_fits; rewrite Ews.
  - rewrite zlen_app. change (zlen [word_of tl]) with 1. do 3 f_equal. lia.
  - rewrite zlen_app. done.
  - by intros [_ ?]%app_nil.
Qed.
End writes.

(** ** Whatever the file: the stream of messages *)

Fixpoint increasing (lo : Z) (l : list Z) : Prop :=
  match l with [] => True | a :: l' => lo < a ∧ increasing a l' end.
Definition last_from (lo : Z) (l : list Z) : Z := foldl (λ _ a, a) lo l.

Lemma increasing_app lo l1 l2 :
  increasing lo l1 → increasing (last_from lo l1) l2 → increasing lo (l1 ++ l2).
Proof.
  revert lo; induction l1 as [|a l1 IH]; intros lo; [done|]. cbn. intros [Ha H1] H2. split; [done|]. by apply IH.
Qed.

Lemma last_from_app lo l1 l2 : last_from lo (l1 ++ l2) = last_from (last_from lo l1) l2.
Proof. apply foldl_app. Qed.

(** A body is a word to write or the end message. *)
Inductive is_body : option Z → pybytes → Prop :=
| body_word a w : 0 ≤ a < 2 ^ 32 → length w = 4%nat → is_body (Some a) (write_body a w)
| body_end : is_body None end_message.

(** From one state to another, sending [ms]: bodies under consecutive
    sequence numbers that fit in 16 bits, the words at increasing addresses. *)
Definition sends (st : flash) (ms : list pybytes) (st' : flash) : Prop :=
  ∃ (tags : list (option Z)) bodies,
    Forall2 is_body tags bodies ∧
    ms = imap (λ k b, frame (sequence_number st + Z.of_nat k) b) bodies ∧
    (bodies = [] ∨ (0 ≤ sequence_number st ∧ sequence_number st + zlen bodies ≤ 65536)) ∧
    sequence_number st' = sequence_number st + zlen bodies ∧
    increasing (last_address st) (omap id tags) ∧
    last_address st' = last_from (last_address st) (omap id tags).

Lemma sends_nil st off : sends st [] (Flash off (sequence_number st) (last_address st)).
Proof.
  exists [], []. split_and!; [constructor | done | by left | cbn | done | done].
  change (zlen (@nil pybytes)) with 0. lia.
Qed.

Lemma sends_one st tag body off :
  is_body tag body → 0 ≤ sequence_number st < 65536 → increasing (last_address st) (omap id [tag]) →
  sends st [frame (sequence_number st) body]
    (Flash off (sequence_number st + 1) (last_from (last_address st) (omap id [tag]))).
Proof.
  intros Hb Hs Hi. exists [tag], [body]. split_and!; [by repeat constructor | | | done | done | done].
  - cbn [imap]. by rewrite Z.add_0_r.
  - right. change (zlen [body]) with 1. lia.
Qed.

Lemma sends_trans st1 ms1 st2 ms2 st3 :
  sends st1 ms1 st2 → sends st2 ms2 st3 → sends st1 (ms1 ++ ms2) st3.
Proof.
  intros (t1 & b1 & Hf1 & -> & Hr1 & Hq1 & Hi1 & Hl1) (t2 & b2 & Hf2 & -> & Hr2 & Hq2 & Hi2 & Hl2).
  exists (t1 ++ t2), (b1 ++ b2). rewrite omap_app, zlen_app, last_from_app.
  pose proof (zlen_nonneg b1). pose proof (zlen_nonneg b2). split_and!.
  - by apply Forall2_app.
  - rewrite imap_app. f_equal. apply imap_ext. intros k b _. cbn [compose]. rewrite Hq1.
    f_equal. unfold zlen. lia.
  - destruct Hr1 as [->|[? ?]].
    + change (zlen (@nil pybytes)) with 0 in *. destruct Hr2 as [->|[? ?]]; [by left | right; cbn; lia].
    + right. destruct Hr2 as [->|[? ?]]; [change (zlen (@nil pybytes)) with 0 in * |]; lia.
  - lia.
  - apply increasing_app; [done|]. by rewrite <- Hl1.
  - by rewrite <- Hl1.
Qed.

Section streams.
Context `{Unicode}.

Lemma pack_be_length w v b : pack_be w v = Ok b → length b = w.
Proof. unfold pack_be. case_match; [|done]. intros [= <-]. by rewrite length_reverse, length_le_bytes. Qed.

Lemma full_word_length data i w : full_word data i = Ok w → length w = 4%nat.
Proof.
  intros (v1 & _ & (d1 & H1 & (v2 & _ & (d2 & H2 & [= <-])%bind_ok_inv)%bind_ok_inv)%bind_ok_inv)%bind_ok_inv.
  by rewrite length_app, (pack_be_length _ _ _ H1), (pack_be_length _ _ _ H2).
Qed.

Lemma half_word_length data i w : half_word data i = Ok w → length w = 4%nat.
Proof.
  intros (v1 & _ & (d1 & H1 & (d2 & H2 & [= <-])%bind_ok_inv)%bind_ok_inv)%bind_ok_inv.
  by rewrite length_app, (pack_be_length _ _ _ H1), (pack_be_length _ _ _ H2).
Qed.

Lemma sends_refl st : sends st [] st.
Proof. destruct st as [o s l]. apply (sends_nil (Flash o s l) o). Qed.

Lemma write_word_sends st address d ms st' :
  (∀ w, d = Ok w → length w = 4%nat) → write_word st address d = Ok (ms, st') → sends st ms st'.
Proof.
  intros Hd [(_ & -> & ->)|(w & E & Ha & Hs & H0 & -> & ->)]%write_word_inv; [apply sends_refl|].
  apply (sends_one st (Some address)); [|lia | cbn; lia]. constructor; [lia | by apply Hd].
Qed.

Lemma data_loop_sends data pos ret address st ret' address' st' :
  data_loop data pos ret address st = Ok (ret', address', st') →
  ∃ ms, ret' = ret ++ ms ∧ sends st ms st'.
Proof.
  revert ret address st; induction pos as [|i pos IH]; intros ret address st; cbn [data_loop].
  - intros [= <- <- <-]. exists []. split; [by rewrite app_nil_r | apply sends_refl].
  - intros ([m1 st1] & H1 & H2)%bind_ok_inv. apply IH in H2 as (m2 & -> & H2).
    exists (m1 ++ m2). split; [by rewrite app_assoc|]. eapply sends_trans; [|done].
    eapply write_word_sends; [|done]. intros w. apply full_word_length.
Qed.

Lemma tail_sends st0 ret st address (d : outcome pybytes) ms st' :
  sends st0 ret st → (∀ w, d = Ok w → length w = 4%nat) →
  ('(ms, st) ← write_word st address d; Ok (ret ++ ms, st)) = Ok (ms, st') → sends st0 ms st'.
Proof.
  intros H1 Hd ([m st1] & H2 & [= <- <-])%bind_ok_inv. eapply sends_trans; [done|]. by eapply write_word_sends.
Qed.

Lemma data_record_sends st bc address data ms st' :
  data_record st bc address data = Ok (ms, st') → sends st ms st'.
Proof.
  intros ([[[ret address'] st1] i] & H1 & H2)%bind_ok_inv.
  assert (sends st ret st1) as Hs.
  { destruct (8 <=? _); [|injection H1 as <- <- <- <-; apply sends_refl].
    apply bind_ok_inv in H1 as ([[ret' a'] st2] & H1 & [= <- <- <- <-]).
    by apply data_loop_sends in H1 as (ms' & -> & ?). }
  clear H1. cbn beta iota in H2. destruct (_ && _).
  - eapply tail_sends; [done| |exact H2]. intros w. apply half_word_length.
  - destruct (i <? _); [|by injection H2 as <- <-].
    eapply tail_sends; [done| |exact H2]. intros w. apply full_word_length.
Qed.

Lemma hex_to_msg_sends st line ms st' : hex_to_msg st line = Ok (ms, st') → sends st ms st'.
Proof.
  unfold hex_to_msg. intros (sc & _ & E)%bind_ok_inv. case_match; [done|].
  apply bind_ok_inv in E as (c & _ & (c0 & _ & E)%bind_ok_inv). case_match; [done|].
  apply bind_ok_inv in E as (bc & _ & (v & _ & (rt & _ & E)%bind_ok_inv)%bind_ok_inv).
  cbn zeta in E. case_match; [by eapply data_record_sends|]. case_match.
  - apply bind_ok_inv in E as (m & [Hs ->]%numbered_inv & [= <- <-]).
    apply (sends_one st None); [constructor | done | done].
  - case_match; [|injection E as <- <-; apply sends_refl].
    apply bind_ok_inv in E as (o & _ & [= <- <-]). apply sends_nil.
Qed.

Lemma hex_lines_sends st lines ms st' : hex_lines st lines = Ok (ms, st') → sends st ms st'.
Proof.
  revert st ms; induction lines as [|l lines IH]; intros st ms; cbn [hex_lines].
  - intros [= <- <-]. apply sends_refl.
  - intros ([m1 st1] & H1 & ([m2 st2] & H2 & [= <- <-])%bind_ok_inv)%bind_ok_inv.
    eapply sends_trans; [by eapply hex_to_msg_sends | by apply IH].
Qed.

(** Whatever the lines of the file, the messages they give are frames
    under consecutive 16-bit sequence numbers, every one with a zero sum
    modulo 256 and twelve bytes long, and the words among them are written at
    strictly increasing addresses above the last address of the state.  So a
    file that needs more numbers than 16 bits hold is never sent whole, and
    the script, which starts with 0 as its last address, never writes the
    word at address 0. *)
Theorem message_stream st lines ms st' :
  hex_lines st lines = Ok (ms, st') →
  ∃ tags bodies,
    Forall2 is_body tags bodies ∧
    ms = imap (λ k b, frame (sequence_number st + Z.of_nat k) b) bodies ∧
    Forall (λ m, length m = 12%nat ∧ sum_list m mod 256 = 0) ms ∧
    sequence_number st' = sequence_number st + zlen ms ∧
    (ms = [] ∨ 0 ≤ sequence_number st ∧ sequence_number st + zlen ms ≤ 65536) ∧
    increasing (last_address st) (omap id tags) ∧
    Forall (λ a, last_address st < a) (omap id tags).
Proof.
  intros (tags & bodies & Hf & -> & Hr & Hq & Hi & Hl)%hex_lines_sends. exists tags, bodies.
  assert (zlen (imap (λ k b, frame (sequence_number st + Z.of_nat k) b) bodies) = zlen bodies) as ->
    by (unfold zlen; by rewrite length_imap).
  split_and!; [done|done| |done| |done|].
  - apply Forall_lookup. intros k m. rewrite list_lookup_imap. intros (b & Hb & ->)%fmap_Some.
    unfold frame. split.
    + rewrite !length_app, length_le_bytes.
      assert (length b = 9%nat) as ->; [|done].
      eapply Forall2_lookup_r in Hb as (t & _ & Ht); [|exact Hf].
      destruct Ht as [a w Ha Hw|]; [|done]. unfold write_body. by rewrite !length_app, length_le_bytes, Hw.
    + rewrite sum_list_app. generalize (sum_list (le_bytes 2 (sequence_number st + Z.of_nat k) ++ b)). intros s.
      rewrite sum_list_cons, sum_list_nil, Z.add_0_r, Z.add_mod_idemp_r by lia. by rewrite Z.add_opp_diag_r.
  - destruct Hr as [->|?]; [by left | by right].
  - clear -Hi. revert Hi. generalize (omap id tags) as l, (last_address st) as lo.
    intros l; induction l as [|a l IH]; intros lo; [constructor|]. cbn. intros [Ha Hi].
    constructor; [done|]. eapply Forall_impl; [by apply IH|]. cbn. lia.
Qed.

(** *** Exceptions *)

Definition script_error (e : exn) : Prop :=
  e = GenericException ∨ e = ValueError ∨ e = StructError ∨ e = IndexError.

Lemma py_int_raises base s : raises_only script_error (py_int base s).
Proof. destruct (py_int base s) eqn:E; [done|]. apply py_int_raise in E as ->. cbn. unfold script_error. tauto. Qed.
Lemma pack_be_raises w v : raises_only script_error (pack_be w v).
Proof. unfold pack_be. case_match; cbn; unfold script_error; tauto. Qed.
Lemma pack_le_raises w v : raises_only script_error (pack_le w v).
Proof. unfold pack_le. case_match; cbn; unfold script_error; tauto. Qed.
Lemma item_raises {A} (s : list A) i : raises_only script_error (item s i).
Proof. unfold item. repeat case_match; cbn; unfold script_error; tauto. Qed.
Hint Resolve py_int_raises pack_be_raises pack_le_raises item_raises : raises.

Lemma msg_checksum_raises m : raises_only script_error (msg_checksum m).
Proof. apply pack_le_raises. Qed.
Lemma full_word_raises data i : raises_only script_error (full_word data i).
Proof. unfold full_word. auto 20 with raises. Qed.
Lemma half_word_raises data i : raises_only script_error (half_word data i).
Proof. unfold half_word. auto 20 with raises. Qed.
Hint Resolve msg_checksum_raises full_word_raises half_word_raises : raises.

Lemma write_word_raises st a d : raises_only script_error d → raises_only script_error (write_word st a d).
Proof. intros Hd. unfold write_word. case_match; auto 20 with raises. Qed.
Hint Resolve write_word_raises : raises.

Lemma data_loop_raises data pos ret a st : raises_only script_error (data_loop data pos ret a st).
Proof.
  revert ret a st; induction pos as [|i pos IH]; intros ret a st; cbn [data_loop]; [done|].
  apply raises_only_bind; [auto with raises|]. by intros [ms st1] _.
Qed.

Lemma data_record_raises st bc a data : raises_only script_error (data_record st bc a data).
Proof.
  unfold data_record. apply raises_only_bind.
  - case_match; [|done]. apply raises_only_bind; [apply data_loop_raises|]. by intros [[? ?] ?] _.
  - intros [[[ret a'] st1] i] _. repeat case_match; try done;
      (apply raises_only_bind; [auto with raises|]; by intros [? ?] _).
Qed.

(** A line the script cannot use raises [Exception] (start code or
    checksum), [ValueError] (a field that is not a number), [struct.error]
    (a field out of range) or, for an empty line, [IndexError], and nothing
    else. *)
Theorem hex_to_msg_exceptions st line e :
  hex_to_msg st line = Raise e → script_error e.
Proof.
  apply raises_only_inv. unfold hex_to_msg.
  assert (∀ s, raises_only script_error (hex_checksum s)) by (intros; unfold hex_checksum; auto with raises).
  assert (raises_only (A := list pybytes * flash) script_error (Raise GenericException)) by (cbn; unfold script_error; tauto).
  apply raises_only_bind; [auto with raises|]. intros sc _. case_match; [done|].
  apply raises_only_bind; [done|]. intros c _. apply raises_only_bind; [auto with raises|]. intros c0 _.
  case_match; [done|]. do 3 (apply raises_only_bind; [auto with raises|]; intros ? _).
  case_match; [apply data_record_raises|]. case_match.
  - apply raises_only_bind; [|done]. unfold numbered. auto with raises.
  - case_match; [|done]. auto with raises.
Qed.
End streams.

(** ** The session *)

Definition handshake1 : pybytes := frame 0 handshake1_message.
Definition handshake2 : pybytes := frame 1 handshake2_message.

(** The globals when the file is opened. *)
Definition flash_ready : flash := Flash 0 2 0.

(** Every message one or more times, in order. *)
Inductive stutters : list pybytes → list pybytes → Prop :=
| stutters_nil : stutters [] []
| stutters_cons m ms n l : stutters ms l → stutters (m :: ms) (replicate (S n) m ++ l).

Lemma stutters_app ms1 l1 ms2 l2 : stutters ms1 l1 → stutters ms2 l2 → stutters (ms1 ++ ms2) (l1 ++ l2).
Proof. intros H1 H2. induction H1; cbn [app]; [done|]. rewrite <- app_assoc. by constructor. Qed.

(** What the session writes before the handshake. *)
Definition prepended (prepend_string : option pystr) : list pybytes :=
  match prepend_string with
  | Some (c :: s) => match utf8_encode (c :: s) with Ok b => [b] | Raise _ => [] end
  | _ => []
  end.

(** The outside of the script: [log] is what was written to the port and
    [lines] what is left to read of the file.  Only an action that returns
    normally says anything. *)
Class FilePort {S} (env : ∀ R, port R → S → option (outcome R) * S)
    (log : S → list pybytes) (lines : S → list pystr) : Prop := {
  fp_write b s r s' : env unit (Write b) s = (Some (Ok r), s') →
    log s' = log s ++ [b] ∧ lines s' = lines s;
  fp_next s r s' : env (option pystr) NextLine s = (Some (Ok r), s') →
    r = head (lines s) ∧ log s' = log s ∧ lines s' = tail (lines s);
  fp_other R (a : port R) s r s' :
    match a with Write _ | NextLine => False | _ => True end →
    env R a s = (Some (Ok r), s') → log s' = log s ∧ lines s' = lines s
}.

Section session.
Context `{Unicode} {S : Type} (env : ∀ R, port R → S → option (outcome R) * S).
Context (log : S → list pybytes) (lines : S → list pystr) `{!FilePort env log lines}.

Lemma wait_device_frame fuel s s' :
  run env (wait_device fuel) s = (Some (Ok ()), s') → log s' = log s ∧ lines s' = lines s.
Proof using FilePort0.
  revert s; induction fuel as [|fuel IH]; intros s; [done|]. cbn [wait_device].
  intros (e & s1 & [L1 F1]%fp_other & Hr)%run_act_inv; [|done]. destruct (negb e).
  { apply IH in Hr as [L F]. by rewrite L, F. }
  apply run_act_inv in Hr as (a & s2 & [L2 F2]%fp_other & Hr); [|done]. destruct (negb a).
  - apply IH in Hr as [L F]. by rewrite L, F, L2, F2.
  - cbn in Hr. injection Hr as <-. by rewrite L2, F2.
Qed.

Lemma handshake_frame fuel msg response s s' :
  run env (handshake_loop fuel msg response) s = (Some (Ok ()), s') →
  (∃ n, log s' = log s ++ replicate (Datatypes.S n) msg) ∧ lines s' = lines s.
Proof using FilePort0.
  revert s; induction fuel as [|fuel IH]; intros s; [done|]. cbn [handshake_loop].
  intros ([] & s1 & [L1 F1]%fp_write & Hr)%run_act_inv.
  apply run_act_inv in Hr as ([] & s2 & [L2 F2]%fp_other & Hr); [|done].
  apply run_act_inv in Hr as (n & s3 & [L3 F3]%fp_other & Hr); [|done].
  apply run_act_inv in Hr as (k & s4 & [L4 F4]%fp_other & Hr); [|done].
  destruct (contains k response).
  - cbn in Hr. injection Hr as <-. split; [exists 0%nat; change (replicate 1 msg) with [msg]|]; congruence.
  - apply IH in Hr as [[m L] F]. split; [|congruence]. exists (Datatypes.S m).
    rewrite L, L4, L3, L2, L1, <- app_assoc. done.
Qed.

Lemma send_msg_frame fuel msg s s' :
  run env (send_msg fuel msg) s = (Some (Ok ()), s') →
  (∃ n, log s' = log s ++ replicate (Datatypes.S n) msg) ∧ lines s' = lines s.
Proof using FilePort0.
  revert s; induction fuel as [|fuel IH]; intros s; [done|]. cbn [send_msg].
  intros ([] & s1 & [L1 F1]%fp_write & Hr)%run_act_inv.
  apply run_act_inv in Hr as ([] & s2 & [L2 F2]%fp_other & Hr); [|done].
  apply run_act_inv in Hr as (k & s3 & [L3 F3]%fp_other & Hr); [|done].
  destruct (bool_decide (k = msg)).
  - cbn in Hr. injection Hr as <-. split; [exists 0%nat; change (replicate 1 msg) with [msg]|]; congruence.
  - apply IH in Hr as [[m L] F]. split; [|congruence]. exists (Datatypes.S m).
    rewrite L, L3, L2, L1, <- app_assoc. done.
Qed.

Lemma send_all_frame retries ms s s' :
  run env (for_each ms (send_msg retries)) s = (Some (Ok ()), s') →
  (∃ l, log s' = log s ++ l ∧ stutters ms l) ∧ lines s' = lines s.
Proof using FilePort0.
  revert s; induction ms as [|m ms IH]; intros s; cbn [for_each].
  - cbn. intros [= <-]. split; [|done]. exists []. split; [by rewrite app_nil_r | constructor].
  - intros ([] & s1 & [[n L1] F1]%send_msg_frame & Hr)%run_bind_inv.
    apply IH in Hr as [(l & L & Hst) F]. split; [|congruence].
    exists (replicate (Datatypes.S n) m ++ l). split; [|by constructor]. by rewrite L, L1, app_assoc.
Qed.

Lemma send_file_frame fuel retries st s s' :
  run env (send_file fuel retries st) s = (Some (Ok ()), s') →
  ∃ ms st' l, hex_lines st (lines s) = Ok (ms, st') ∧ log s' = log s ++ l ∧ stutters ms l.
Proof using FilePort0.
  revert st s; induction fuel as [|fuel IH]; intros st s; [done|]. cbn [send_file].
  intros (o & s1 & (Ho & L1 & F1)%fp_next & Hr)%run_act_inv.
  destruct (lines s) as [|line rest] eqn:El; cbn [head tail] in *; subst o.
  - cbn in Hr. injection Hr as <-. exists [], st, []. rewrite app_nil_r. split_and!; [done..|constructor].
  - apply run_of_outcome_inv in Hr as ([ms1 st1] & Hm & Hr).
    apply run_bind_inv in Hr as ([] & s2 & [(l1 & L2 & Hst1) F2]%send_all_frame & Hr).
    apply IH in Hr as (ms2 & st2 & l2 & Hl & L3 & Hst2). rewrite F2, F1 in Hl.
    exists (ms1 ++ ms2), st2, (l1 ++ l2). split_and!.
    + cbn [hex_lines]. by rewrite Hm, bind_ok, Hl.
    + by rewrite L3, L2, L1, app_assoc.
    + by apply stutters_app.
Qed.

(** Stop-and-wait: when the script ends normally, every line of the file
    was understood, and what it wrote to the port is the prepended string if
    there is one, the handshake one or more times, and then every message of
    the file one or more times, all in the order of the file. *)
Theorem session_transmits fuel retries prepend s s' :
  run env (session fuel retries prepend) s = (Some (Ok ()), s') →
  ∃ ms st' n l, hex_lines flash_ready (lines s) = Ok (ms, st') ∧ stutters ms l ∧
    log s' = log s ++ prepended prepend ++ replicate (Datatypes.S n) handshake1 ++ l.
Proof using FilePort0.
  unfold session. intros (ok & s1 & [L1 F1]%fp_other & Hr)%run_act_inv; [|done].
  destruct (negb ok); [done|].
  apply run_bind_inv in Hr as ([] & s2 & [L2 F2]%wait_device_frame & Hr).
  apply run_act_inv in Hr as ([] & s3 & [L3 F3]%fp_other & Hr); [|done].
  apply run_bind_inv in Hr as ([] & s4 & Hp & Hr).
  assert (log s4 = log s3 ++ prepended prepend ∧ lines s4 = lines s3) as [L4 F4].
  { destruct prepend as [[|c p]|]; cbn [prepended]; [cbn in Hp; injection Hp as <-; by rewrite app_nil_r| |
      cbn in Hp; injection Hp as <-; by rewrite app_nil_r].
    apply run_of_outcome_inv in Hp as (b & -> & Hp). rewrite run_act in Hp. by apply fp_write in Hp. }
  apply run_of_outcome_inv in Hr as (msg & [_ ->]%numbered_inv & Hr).
  apply run_of_outcome_inv in Hr as (resp & [_ ->]%numbered_inv & Hr).
  apply run_bind_inv in Hr as ([] & s5 & [[n L5] F5]%handshake_frame & Hr).
  apply run_act_inv in Hr as ([] & s6 & [L6 F6]%fp_other & Hr); [|done].
  apply send_file_frame in Hr as (ms & st' & l & Hl & L7 & Hst).
  exists ms, st', n, l. split_and!; [|done|].
  - change flash_ready with (next_sequence (next_sequence flash_start)). congruence.
  - rewrite L7, L6, L5, L4, L3, L2, L1, <- !app_assoc. done.
Qed.
End session.

(** A device that is there, a file that can be read, and a mote that answers
    the handshake and echoes every other message. *)
Class EchoMote {S} (env : ∀ R, port R → S → option (outcome R) * S)
    (log : S → list pybytes) (lines : S → list pystr) (received : S → pybytes) : Prop := {
  em_port :: FilePort env log lines;
  em_yes (a : port bool) s : a ∈ [AccessFile; DevExists; DevAccess] →
    ∃ s', env bool a s = (Some (Ok true), s') ∧ received s' = received s;
  em_write b s : ∃ s', env unit (Write b) s = (Some (Ok ()), s') ∧ received s' = b;
  em_unit (a : port unit) s : a ∈ [Connect; Flush; Sleep; OpenFile] →
    ∃ s', env unit a s = (Some (Ok ()), s') ∧ received s' = received s;
  em_waiting s : ∃ n s', env Z InWaiting s = (Some (Ok n), s') ∧ received s' = received s;
  em_read n s : ∃ k s', env pybytes (Read n) s = (Some (Ok k), s') ∧ received s' = received s ∧
    if bool_decide (received s = handshake1) then contains k handshake2 = true else k = received s;
  em_next s : ∃ s', env (option pystr) NextLine s = (Some (Ok (head (lines s))), s')
}.

Lemma is_body_not_handshake tag seq b : is_body tag b → frame seq b ≠ handshake1.
Proof.
  intros Hb E. assert (b !! 0%nat = Some (chr "w") ∨ b !! 0%nat = Some (chr "e")) as Hh.
  { destruct Hb; [left | right]; done. }
  assert (frame seq b !! 2%nat = b !! 0%nat) as E2.
  { unfold frame. rewrite <- app_assoc. rewrite lookup_app_r by (by rewrite length_le_bytes).
    rewrite length_le_bytes. apply lookup_app_l. destruct b; [naive_solver | cbn; lia]. }
  rewrite E in E2. destruct Hh as [Hh|Hh]; rewrite Hh in E2; vm_compute in E2; done.
Qed.

Lemma sends_not_handshake st ms st' : sends st ms st' → Forall (λ m, m ≠ handshake1) ms.
Proof.
  intros (tags & bodies & Hf & -> & _). apply Forall_lookup. intros k m. rewrite list_lookup_imap.
  intros (b & Hb & ->)%fmap_Some. eapply Forall2_lookup_r in Hb as (t & _ & Ht); [|exact Hf].
  by eapply is_body_not_handshake.
Qed.

Section echo.
Context `{Unicode} {S : Type} (env : ∀ R, port R → S → option (outcome R) * S).
Context (log : S → list pybytes) (lines : S → list pystr) (received : S → pybytes).
Context `{!EchoMote env log lines received}.

Lemma send_msg_echo retries msg s :
  msg ≠ handshake1 → (0 < retries)%nat →
  ∃ s', run env (send_msg retries msg) s = (Some (Ok ()), s') ∧ log s' = log s ++ [msg] ∧ lines s' = lines s.
Proof.
  intros Hm Hr. destruct retries as [|retries]; [lia|]. cbn [send_msg]. autorewrite with prog.
  destruct (em_write msg s) as (s1 & E1 & R1). rewrite E1. autorewrite with prog.
  destruct (em_unit Flush s1 ltac:(set_solver)) as (s2 & E2 & R2). rewrite E2. autorewrite with prog.
  destruct (em_read (zlen msg) s2) as (k & s3 & E3 & R3 & K3). rewrite E3.
  rewrite bool_decide_false in K3 by congruence. rewrite bool_decide_true by congruence.
  apply fp_write in E1 as [L1 F1]. apply fp_other in E2 as [L2 F2]; [|done].
  apply fp_other in E3 as [L3 F3]; [|done]. exists s3. split_and!; [done|congruence..].
Qed.

Lemma send_all_echo retries ms s :
  Forall (λ m, m ≠ handshake1) ms → (0 < retries)%nat →
  ∃ s', run env (for_each ms (send_msg retries)) s = (Some (Ok ()), s') ∧
    log s' = log s ++ ms ∧ lines s' = lines s.
Proof.
  intros Hm Hr. revert s; induction Hm as [|m ms Hm _ IH]; intros s; cbn [for_each].
  - exists s. by rewrite app_nil_r.
  - autorewrite with prog. destruct (send_msg_echo retries m s Hm Hr) as (s1 & -> & L1 & F1).
    destruct (IH s1) as (s2 & -> & L2 & F2). exists s2. rewrite L2, L1, <- app_assoc. split_and!; [done..|congruence].
Qed.

Lemma send_file_echo fuel retries st s ms st' :
  hex_lines st (lines s) = Ok (ms, st') → (length (lines s) < fuel)%nat → (0 < retries)%nat →
  ∃ s', run env (send_file fuel retries st) s = (Some (Ok ()), s') ∧ log s' = log s ++ ms.
Proof.
  intros Hl Hf Hr. revert fuel st s ms Hl Hf.
  assert (∀ ls fuel st s ms, lines s = ls → hex_lines st ls = Ok (ms, st') → (length ls < fuel)%nat →
    ∃ s', run env (send_file fuel retries st) s = (Some (Ok ()), s') ∧ log s' = log s ++ ms) as Hgen; [|by eauto].
  intros ls; induction ls as [|line rest IH]; intros fuel st s ms El Hl Hf;
    (destruct fuel as [|fuel]; [cbn in Hf; lia|]); cbn [send_file]; autorewrite with prog;
    destruct (em_next s) as (s1 & E1); rewrite E1; apply fp_next in E1 as (_ & L1 & F1); rewrite El in *; cbn [head tail] in *.
  - cbn in Hl. injection Hl as <- <-. exists s1. by rewrite app_nil_r.
  - cbn [hex_lines] in Hl. apply bind_ok_inv in Hl as ([m1 st1] & Em & ([m2 st2] & Hl & [= <- <-])%bind_ok_inv).
    rewrite Em. autorewrite with prog.
    destruct (send_all_echo retries m1 s1) as (s2 & -> & L2 & F2);
      [by eapply sends_not_handshake, hex_to_msg_sends | done|].
    destruct (IH fuel st1 s2 m2) as (s3 & -> & L3); [congruence | done | cbn in Hf; lia|].
    exists s3. split; [done|]. by rewrite L3, L2, L1, app_assoc.
Qed.

Lemma prepend_echo prepend s :
  match prepend with Some p => is_ok (utf8_encode p) = true | None => True end →
  ∃ s', run env (match prepend with
      | Some (c :: s) => b ← of_outcome (utf8_encode (c :: s)); act (Write b)
      | _ => mret () end) s = (Some (Ok ()), s') ∧
    log s' = log s ++ prepended prepend ∧ lines s' = lines s.
Proof.
  intros Hp. destruct prepend as [[|c p]|]; cbn [prepended];
    [exists s; by rewrite app_nil_r | | exists s; by rewrite app_nil_r].
  destruct (utf8_encode (c :: p)) as [b|e]; [|done]. autorewrite with prog.
  destruct (em_write b s) as (s' & E & R). exists s'. apply fp_write in E as HL. by rewrite E.
Qed.

Lemma handshake_echo fuel s :
  ∃ s', run env (handshake_loop (Datatypes.S fuel) handshake1 handshake2) s = (Some (Ok ()), s') ∧
    log s' = log s ++ [handshake1] ∧ lines s' = lines s.
Proof.
  cbn [handshake_loop]. autorewrite with prog.
  destruct (em_write handshake1 s) as (s6 & E6 & R6). rewrite E6. apply fp_write in E6 as [L6 F6].
  autorewrite with prog. destruct (em_unit Sleep s6 ltac:(set_solver)) as (s7 & E7 & R7). rewrite E7.
  apply fp_other in E7 as [L7 F7]; [|done]. autorewrite with prog.
  destruct (em_waiting s7) as (n & s8 & E8 & R8). rewrite E8. apply fp_other in E8 as [L8 F8]; [|done].
  autorewrite with prog. destruct (em_read n s8) as (k & s9 & E9 & R9 & K9). rewrite E9.
  apply fp_other in E9 as [L9 F9]; [|done]. rewrite bool_decide_true in K9 by congruence. rewrite K9.
  exists s9. autorewrite with prog. split_and!; [done | congruence..].
Qed.

Lemma wait_device_echo fuel s :
  ∃ s', run env (wait_device (Datatypes.S fuel)) s = (Some (Ok ()), s') ∧ log s' = log s ∧ lines s' = lines s.
Proof.
  cbn [wait_device]. autorewrite with prog.
  destruct (em_yes DevExists s ltac:(set_solver)) as (s2 & E2 & R2). rewrite E2. apply fp_other in E2 as [L2 F2]; [|done].
  cbn [negb]. autorewrite with prog.
  destruct (em_yes DevAccess s2 ltac:(set_solver)) as (s3 & E3 & R3). rewrite E3. apply fp_other in E3 as [L3 F3]; [|done].
  cbn [negb]. autorewrite with prog. exists s3. split_and!; [done | congruence..].
Qed.

(** C25 With a readable file of valid records and a mote that answers the
    handshake and echoes each message, the script ends, and wrote exactly the
    prepended string, one handshake, and each message of the file once. *)
Theorem session_completes fuel retries prepend s ms st' :
  hex_lines flash_ready (lines s) = Ok (ms, st') →
  match prepend with Some p => is_ok (utf8_encode p) = true | None => True end →
  (length (lines s) < fuel)%nat → (0 < retries)%nat →
  ∃ s', run env (session fuel retries prepend) s = (Some (Ok ()), s') ∧
    log s' = log s ++ prepended prepend ++ handshake1 :: ms.
Proof.
  intros Hl Hp Hf Hr. unfold session. autorewrite with prog. destruct fuel as [|fuel]; [lia|].
  destruct (em_yes AccessFile s ltac:(set_solver)) as (s1 & E1 & R1). rewrite E1. apply fp_other in E1 as [L1 F1]; [|done].
  cbn [negb]. autorewrite with prog. destruct (wait_device_echo fuel s1) as (s3 & -> & L3 & F3).
  autorewrite with prog.
  destruct (em_unit Connect s3 ltac:(set_solver)) as (s4 & E4 & R4). rewrite E4. apply fp_other in E4 as [L4 F4]; [|done].
  autorewrite with prog. destruct (prepend_echo prepend s4 Hp) as (s5 & -> & L5 & F5).
  autorewrite with prog. rewrite !numbered_ok by done. autorewrite with prog.
  change (frame (sequence_number flash_start) handshake1_message) with handshake1.
  change (frame (sequence_number (next_sequence flash_start)) handshake2_message) with handshake2.
  change (next_sequence (next_sequence flash_start)) with flash_ready.
  destruct (handshake_echo fuel s5) as (s9 & -> & L9 & F9). autorewrite with prog.
  destruct (em_unit OpenFile s9 ltac:(set_solver)) as (s10 & E10 & R10). rewrite E10. apply fp_other in E10 as [L10 F10]; [|done].
  assert (lines s10 = lines s) as F by congruence.
  destruct (send_file_echo (Datatypes.S fuel) retries flash_ready s10 ms st') as (s11 & -> & L11);
    [by rewrite F | by rewrite F | done|].
  exists s11. split; [done|]. rewrite L11, L10, L9, L5, L4, L3, L1, <- !app_assoc. done.
Qed.
End echo.

(** ** A simulated mote and the witnesses *)

Record sim := Sim { sent : list pybytes; file : list pystr; heard : pybytes }.

Definition sim_env (R : Type) (a : port R) (s : sim) : option (outcome R) * sim :=
  match a in port R return option (outcome R) * sim with
  | AccessFile | DevExists | DevAccess => (Some (Ok true), s)
  | Connect | Flush | Sleep | OpenFile => (Some (Ok ()), s)
  | InWaiting => (Some (Ok 12), s)
  | Write b => (Some (Ok ()), Sim (sent s ++ [b]) (file s) b)
  | Read n => (Some (Ok (if bool_decide (heard s = handshake1) then handshake2 else heard s)), s)
  | NextLine => (Some (Ok (head (file s))), Sim (sent s) (tail (file s)) (heard s))
  end.

#[export] Instance sim_echo : EchoMote sim_env sent file heard.
Proof.
  split.
  - split; [by intros b s r s' [= <- <-] | by intros s r s' [= <- <-] |].
    intros R a s r s' Ha E. by destruct a; cbn in E; try done; injection E as <- <-.
  - intros a s Ha. exists s. split; [|done]. rewrite !elem_of_cons, elem_of_nil in Ha.
    by destruct Ha as [->|[->|[->|[]]]].
  - intros b s. by eexists.
  - intros a s Ha. exists s. split; [|done]. rewrite !elem_of_cons, elem_of_nil in Ha.
    by destruct Ha as [->|[->|[->|[->|[]]]]].
  - intros s. by exists 12, s.
  - intros n s. do 2 eexists. split; [done|]. split; [done|]. by destruct (bool_decide (heard s = handshake1)).
  - intros s. by eexists.
Qed.

Section witnesses.
#[local] Instance ascii_here : Unicode := ascii_only.

(** A file with a data record, an address record and the end record. *)
Definition small_file : list pystr :=
  [lit ":0400100001020304E2" ++ [10]; lit ":020000040020DA" ++ [10]; lit ":00000001FF" ++ [10]].
Definition small_messages : list pybytes :=
  [frame 2 (write_body 16 [1; 2; 3; 4]); frame 3 end_message].

Example hex_to_msg_record_witness :
  hex_to_msg flash_start (lit ":0400100001020304E2" ++ [10]) =
    Ok ([frame 0 (write_body 16 [1; 2; 3; 4])], Flash 0 1 16).
Proof.
  etrans; [apply (hex_to_msg_record flash_start 0 16 0 [1; 2; 3; 4] 0xE2 [10])|reflexivity].
  - repeat constructor; done.
  - by right.
Defined.

Example aligned_record_sent_witness :
  ∃ words, concat words = [1; 2; 3; 4] ∧
    hex_to_msg flash_start (lit ":0400100001020304E2") = Ok (write_frames 0 16 words, Flash 0 1 16).
Proof.
  destruct (aligned_record_sent flash_start 0 16 [1; 2; 3; 4] 0xE2) as (words & Hc & _ & Hm).
  - reflexivity.
  - discriminate.
  - split_and!; [repeat constructor; done | done..].
  - exists words. split; [exact Hc | exact Hm].
Defined.

Example short_record_truncated_witness :
  hex_to_msg flash_start (lit ":050010000102030405DC") =
    Ok ([frame 0 (write_body 16 [1; 2; 3; 4])], Flash 0 1 16).
Proof.
  apply (short_record_truncated flash_start 0 16 [1; 2; 3; 4; 5] 0xDC); [done|].
  split_and!; [repeat constructor; done | done..].
Defined.

Example odd_tail_misplaced_witness :
  hex_to_msg flash_start (lit ":01001000AB44") =
    Ok ([frame 0 (write_body 16 [0; 0xAB; 0; 0])], Flash 0 1 16).
Proof.
  destruct (odd_tail_misplaced flash_start 0 16 [] [0xAB] 0x44) as (w & -> & Hm).
  - constructor.
  - done.
  - left. by eexists.
  - split_and!; [repeat constructor; done | done..].
  - exact Hm.
Defined.

Example message_stream_witness :
  hex_lines flash_ready small_file = Ok (small_messages, Flash 0x200000 4 16) ∧
  Forall (λ m, length m = 12%nat ∧ sum_list m mod 256 = 0) small_messages.
Proof.
  assert (hex_lines flash_ready small_file = Ok (small_messages, Flash 0x200000 4 16)) as E by reflexivity.
  split; [exact E|]. destruct (message_stream _ _ _ _ E) as (tags & bodies & _ & _ & Hm & _). exact Hm.
Defined.

Example hex_to_msg_exceptions_witness : script_error IndexError ∧ script_error GenericException.
Proof.
  split; [apply (hex_to_msg_exceptions flash_start [10]) |
          apply (hex_to_msg_exceptions flash_start (lit ":00000001FE"))]; reflexivity.
Defined.

Example session_transmits_witness :
  ∃ ms st' n l, hex_lines flash_ready small_file = Ok (ms, st') ∧ stutters ms l ∧
    handshake1 :: small_messages = replicate (S n) handshake1 ++ l.
Proof.
  destruct (session_transmits sim_env sent file 5 1 None (Sim [] small_file [])
    (Sim (handshake1 :: small_messages) [] (frame 3 end_message)) ltac:(vm_compute; reflexivity))
    as (ms & st' & n & l & H1 & H2 & H3).
  exists ms, st', n, l. split_and!; [exact H1 | exact H2 | exact H3].
Defined.

Example session_completes_witness :
  ∃ s', run sim_env (session 5 1 (Some (lit "go"))) (Sim [] small_file []) = (Some (Ok ()), s') ∧
    sent s' = lit "go" :: handshake1 :: small_messages.
Proof.
  apply (session_completes sim_env sent file heard 5 1 (Some (lit "go")) (Sim [] small_file [])
    small_messages (Flash 0x200000 4 16)); [reflexivity | reflexivity | cbn; lia | lia].
Defined.
End witnesses.
