(* ===== verification/Digits.v ===== *)
(** * Little-endian digit lists

    The value of a list of digits of [w] bits, least significant first: the
    number a [Bignum] of the C++ library stands for, and the one its checker
    reads back. *)

From Stdlib Require Import ZArith Znumtheory.
From stdpp Require Import base numbers list option strings.
From S2P Require Import Prelude PyStr.

Fixpoint bignum_value (w : Z) (digits : list Z) : Z :=
  match digits with [] => 0 | d :: digits' => d + 2 ^ w * bignum_value w digits' end.

Definition is_digits (w : Z) (digits : list Z) : Prop := Forall (λ d, 0 ≤ d < 2 ^ w) digits.

Section values.
Context (w : Z) (Hw : 0 < w).
Implicit Types a b : list Z.

Lemma pow_w_ge_2 : 2 ≤ 2 ^ w.
Proof using Hw. change 2 with (2 ^ 1) at 1. apply Z.pow_le_mono_r; lia. Qed.

Lemma pow_succ_len a : 2 ^ (w * (1 + zlen a)) = 2 ^ w * 2 ^ (w * zlen a).
Proof using Hw. rewrite Z.mul_add_distr_l, Z.mul_1_r. apply Z.pow_add_r; [lia|]. pose proof (zlen_nonneg a). nia. Qed.

Lemma value_app a b : bignum_value w (a ++ b) = bignum_value w a + 2 ^ (w * zlen a) * bignum_value w b.
Proof using Hw.
  induction a as [|d a IH]; cbn [app bignum_value].
  - change (zlen (@nil Z)) with 0. rewrite Z.mul_0_r, Z.pow_0_r. lia.
  - rewrite IH, zlen_cons, pow_succ_len. lia.
Qed.

Lemma value_bounds a : is_digits w a → 0 ≤ bignum_value w a < 2 ^ (w * zlen a).
Proof using Hw.
  induction 1 as [|d a Hd _ IH]; cbn [bignum_value].
  - change (zlen (@nil Z)) with 0. rewrite Z.mul_0_r, Z.pow_0_r. lia.
  - rewrite zlen_cons, pow_succ_len. pose proof pow_w_ge_2. nia.
Qed.

Lemma value_inj a b :
  is_digits w a → is_digits w b → length a = length b → bignum_value w a = bignum_value w b → a = b.
Proof using Hw.
  unfold is_digits. intros Ha; revert b; induction Ha as [|x a Hx _ IH]; intros [|y b] Hb Hl; cbn in Hl; try done.
  cbn [bignum_value]. apply Forall_cons in Hb as [Hy Hb]. intros E. pose proof pow_w_ge_2.
  assert (x = y) as ->.
  { apply (f_equal (λ v, v mod 2 ^ w)) in E. rewrite (Z.mul_comm (2 ^ w)) in E.
    rewrite (Z.mul_comm (2 ^ w)) in E. rewrite !Z.mod_add in E by lia. by rewrite !Z.mod_small in E. }
  f_equal. apply IH; [done | by injection Hl | nia].
Qed.

Lemma value_zeros n : bignum_value w (replicate n 0) = 0.
Proof. induction n as [|n IH]; cbn [replicate bignum_value]; [done|]. rewrite IH. lia. Qed.

Lemma digits_zeros n : is_digits w (replicate n 0).
Proof using Hw. unfold is_digits. apply Forall_replicate. pose proof pow_w_ge_2. lia. Qed.

(** The low digits are a remainder, the high digits a quotient. *)
Lemma value_take n a :
  is_digits w a → (n ≤ length a)%nat → bignum_value w (take n a) = bignum_value w a mod 2 ^ (w * Z.of_nat n).
Proof using Hw.
  intros Ha Hn. rewrite <- (take_drop n a) at 2. rewrite value_app.
  assert (zlen (take n a) = Z.of_nat n) as -> by (unfold zlen; rewrite length_take; lia).
  assert (0 < 2 ^ (w * Z.of_nat n)) by (apply Z.pow_pos_nonneg; nia).
  rewrite Z.mul_comm, Z.mod_add, Z.mod_small; [done| |lia].
  pose proof (value_bounds (take n a) ltac:(by apply Forall_take)) as Hb.
  unfold zlen in Hb. rewrite length_take, Nat.min_l in Hb by done. done.
Qed.

Lemma value_drop n a :
  is_digits w a → (n ≤ length a)%nat → bignum_value w (drop n a) = bignum_value w a / 2 ^ (w * Z.of_nat n).
Proof using Hw.
  intros Ha Hn. rewrite <- (take_drop n a) at 2. rewrite value_app.
  assert (zlen (take n a) = Z.of_nat n) as -> by (unfold zlen; rewrite length_take; lia).
  assert (0 < 2 ^ (w * Z.of_nat n)) by (apply Z.pow_pos_nonneg; nia).
  rewrite Z.mul_comm, Z.div_add, Z.div_small; [done| |lia].
  pose proof (value_bounds (take n a) ltac:(by apply Forall_take)) as Hb.
  unfold zlen in Hb. rewrite length_take, Nat.min_l in Hb by done. done.
Qed.

(** *** Products by columns *)

Definition digit a (i : nat) : Z := default 0 (a !! i).

(** The sum of the products of digits that belong to column [i]. *)
Fixpoint conv a b (i : nat) : Z :=
  match a with
  | [] => 0
  | x :: a' => x * digit b i + match i with O => 0 | S i' => conv a' b i' end
  end.

(** Digits [s, s+1, ...] of [f], [n] of them. *)
Fixpoint columns_value (f : nat → Z) (n : nat) : Z :=
  match n with O => 0 | S n' => f 0%nat + 2 ^ w * columns_value (λ i, f (S i)) n' end.

Lemma columns_ext f g n : (∀ i, (i < n)%nat → f i = g i) → columns_value f n = columns_value g n.
Proof.
  revert f g; induction n as [|n IH]; intros f g Hfg; cbn [columns_value]; [done|].
  rewrite Hfg by lia. f_equal. f_equal. apply IH. intros i Hi. apply Hfg. lia.
Qed.

Lemma columns_lin f g k n :
  columns_value (λ i, k * f i + g i) n = k * columns_value f n + columns_value g n.
Proof. revert f g; induction n as [|n IH]; intros f g; cbn [columns_value]; [lia|]. rewrite IH. lia. Qed.

Lemma columns_digits b n :
  ∃ e, columns_value (digit b) n = bignum_value w b - 2 ^ (w * Z.of_nat n) * e ∧
    ((length b ≤ n)%nat → e = 0).
Proof using Hw.
  revert b; induction n as [|n IH]; intros b.
  - exists (bignum_value w b). cbn [columns_value]. rewrite Z.mul_0_r, Z.pow_0_r.
    split; [lia|]. by destruct b; [|cbn; lia].
  - rewrite Nat2Z.inj_succ. replace (w * Z.succ (Z.of_nat n)) with (w + w * Z.of_nat n) by lia.
    rewrite Z.pow_add_r by nia. cbn [columns_value]. destruct b as [|x b].
    + destruct (IH []) as (e & E & He). change (λ i, digit [] (S i)) with (digit []). rewrite E.
      exists e. change (digit [] 0) with 0. cbn [bignum_value]. split; [lia|]. intros _. apply He. cbn. lia.
    + destruct (IH b) as (e & E & He). change (λ i, digit (x :: b) (S i)) with (digit b). rewrite E.
      exists e. change (digit (x :: b) 0) with x. cbn [bignum_value]. split; [lia|].
      intros Hl. apply He. cbn in Hl. lia.
Qed.

(** The columns of a product, up to column [n]: the product, modulo what the
    columns left out weigh; all of it when [n] is large enough. *)
Lemma columns_conv a b n :
  ∃ e, columns_value (conv a b) n = bignum_value w a * bignum_value w b - 2 ^ (w * Z.of_nat n) * e ∧
    ((length a + length b ≤ S n)%nat → (0 < length b)%nat → e = 0).
Proof using Hw.
  revert n; induction a as [|x a IH]; intros n.
  - exists 0. split; [|done]. cbn [bignum_value]. rewrite Z.mul_0_l, Z.mul_0_r.
    change (conv [] b) with (λ _ : nat, 0). clear. induction n as [|n IH]; cbn [columns_value]; [done|].
    rewrite IH. lia.
  - cbn [conv]. rewrite columns_lin. destruct (columns_digits b n) as (e1 & -> & H1).
    destruct n as [|n].
    + exists (e1 * x + bignum_value w a * bignum_value w b * 2 ^ w). cbn [columns_value bignum_value].
      rewrite Z.mul_0_r, Z.pow_0_r. split; [lia|]. cbn [length]. intros Hl Hb. lia.
    + cbn [columns_value]. change (λ i : nat, conv a b i) with (conv a b).
      destruct (IH n) as (e2 & -> & H2).
      exists (e1 * x + e2). rewrite Nat2Z.inj_succ.
      replace (w * Z.succ (Z.of_nat n)) with (w + w * Z.of_nat n) by lia.
      rewrite Z.pow_add_r by nia. cbn [bignum_value]. split; [lia|]. cbn [length]. intros Hl Hb.
      rewrite H1, H2; lia.
Qed.

Lemma digit_nonneg a i : is_digits w a → 0 ≤ digit a i < 2 ^ w.
Proof using Hw.
  intros Ha. unfold digit. destruct (a !! i) as [d|] eqn:E; cbn; [exact (Forall_lookup_1 _ _ _ _ Ha E)|].
  pose proof pow_w_ge_2. lia.
Qed.
End values.

(** A prime for the concrete runs. *)
Lemma prime_7 : Z.prime 7.
Proof.
  split; [lia|]. intros n Hn Hd. assert (n = 2 ∨ n = 3 ∨ n = 4 ∨ n = 5 ∨ n = 6) as Hc by lia.
  destruct Hd as [k Hk]. destruct Hc as [->|[->|[->|[->| ->]]]]; lia.
Qed.
