(* ===== verification/BignumTest.v ===== *)
(** * The big-number checker (tools/epossectst/eposbignumtst.py)

    The script reads what bignum_test printed on the mote, recomputes every
    operation with Python's integers, and counts the mismatches.  It is a
    chain of statements over globals, here a state monad [M] over [st]: what
    is left of the file, the counters, and what was reported so far.  A run
    ends in [SystemExit], in another exception, or not at all ([None]). *)

From Stdlib Require Import ZArith Znumtheory.
From Stdlib Require Import Zmod.
From stdpp Require Import base numbers list option strings.
From S2P Require Import Prelude PyStr Digits.

(** What the script prints, one event a group of lines. *)
Inductive event :=
| Digit_size_found (n : Z)
| Modulo_found (m : Z)
| Failed (a_raw b_raw c_raw mod_raw : pystr) (a op b c mod_ : Z) (correct : Z) (array : Z)
| Parsed (op_count : Z)
| Verification_done (errors : Z).

#[export] Instance event_eq_dec : EqDecision event.
Proof. solve_decision. Defined.

Record st := St {
  rest : list pystr;            (* lines of the file still to read, newlines included *)
  errors : Z;
  digit_size : Z;
  expected : option Z;          (* None: the name is not bound yet *)
  op_count : Z;
  report : list event
}.

#[export] Instance st_eq_dec : EqDecision st.
Proof. solve_decision. Defined.

(** [test_output] is only a path; the checker starts with these globals. *)
Definition initial (lines : list pystr) : st := St lines 0 4 None 0 [].

(** ** The monad *)

Definition M (A : Type) : Type := st → option (outcome A) * st.

#[export] Instance M_ret : MRet M := λ A a s, (Some (Ok a), s).
#[export] Instance M_bind : MBind M := λ A B f m s,
  match m s with
  | (Some (Ok a), s') => f a s'
  | (Some (Raise e), s') => (Some (Raise e), s')
  | (None, s') => (None, s')
  end.

Definition lift {A} (o : outcome A) : M A := λ s, (Some o, s).
Definition exit {A} : M A := lift (Raise SystemExit).
Definition stuck {A} : M A := λ s, (None, s).
Definition gets {A} (f : st → A) : M A := λ s, (Some (Ok (f s)), s).
Definition print (e : event) : M unit := λ s,
  (Some (Ok ()), St (rest s) (errors s) (digit_size s) (expected s) (op_count s) (report s ++ [e])).
Definition set_digit_size (n : Z) : M unit := λ s,
  (Some (Ok ()), St (rest s) (errors s) n (expected s) (op_count s) (report s)).
Definition set_expected (v : Z) : M unit := λ s,
  (Some (Ok ()), St (rest s) (errors s) (digit_size s) (Some v) (op_count s) (report s)).
Definition incr_errors : M unit := λ s,
  (Some (Ok ()), St (rest s) (errors s + 1) (digit_size s) (expected s) (op_count s) (report s)).
Definition incr_op_count : M unit := λ s,
  (Some (Ok ()), St (rest s) (errors s) (digit_size s) (expected s) (op_count s + 1) (report s)).

(** [f.readline()]: the empty string at the end of the file. *)
Definition readline : M pystr := λ s,
  match rest s with
  | l :: ls => (Some (Ok l), St ls (errors s) (digit_size s) (expected s) (op_count s) (report s))
  | [] => (Some (Ok []), s)
  end.

(** Reading a name that may be unbound. *)
Definition get_expected : M Z := λ s,
  (Some (match expected s with Some v => Ok v | None => Raise NameError end), s).

(** [x << n] and [x >> n]: a negative count is a [ValueError]. *)
Definition py_shl (x n : Z) : outcome Z := if n <? 0 then Raise ValueError else Ok (Z.shiftl x n).
Definition py_shr (x n : Z) : outcome Z := if n <? 0 then Raise ValueError else Ok (Z.shiftr x n).

(** [x % m] *)
Definition py_mod (x m : Z) : outcome Z := if m =? 0 then Raise ZeroDivisionError else Ok (x mod m).

(** [pow(b, e, m)] for [e >= 0], by squaring; a negative exponent asks for a
    modular inverse or raises, depending on the interpreter: a parameter. *)
Fixpoint powmod (b m : Z) (e : positive) : Z :=
  match e with
  | xH => b mod m
  | xO e' => powmod (b * b mod m) m e'
  | xI e' => b * powmod (b * b mod m) m e' mod m
  end.
Class NegativePow := negative_pow : Z → Z → Z → outcome Z.
Definition py_pow `{NegativePow} (b e m : Z) : outcome Z :=
  if m =? 0 then Raise ValueError
  else match e with
       | Z0 => Ok (1 mod m)
       | Zpos p => Ok (powmod b m p)
       | Zneg _ => negative_pow b e m
       end.

Section checker.
Context `{Unicode, NegativePow}.

(** ** The functions of the script *)

Definition find_bignum (digit_size : Z) (line : pystr) : outcome Z :=
  let line := remove_char (chr " ") line in
  let line := slice line (find line (lit "[") + 1) (find line (lit "]")) in
  let line := reverse (split_on (chr ",") line) in
  foldl (λ ret i, ret ← ret; ret ← py_shl ret (digit_size * 8); v ← py_int 10 i; Ok (ret + v)) (Ok 0) line.

Definition read_line : M pystr :=
  line ← readline;
  let line := rstrip line in
  if bool_decide (line = lit "Done!") || bool_decide (line = []) then
    n ← gets errors; _ ← print (Verification_done n); exit
  else mret line.

Definition announces_size (line : pystr) : bool :=
  negb (find line (lit "sizeof(Bignum<") =? -1) && negb (find line (lit "::Digit") =? -1)
  && negb (find line (lit "bytes") =? -1).

(** Lines are read until one announces the size of a digit; [fuel] is the
    number of lines left, which is one more than enough. *)
Fixpoint search_digit_size (fuel : nat) : M pystr :=
  match fuel with
  | O => stuck
  | S fuel' =>
      line ← read_line;
      if announces_size line then mret line else search_digit_size fuel'
  end.

Fixpoint search_modulo (fuel : nat) (line : pystr) : M pystr :=
  if bool_decide (slice line 0 6 = lit "Modulo") then mret line
  else match fuel with
       | O => stuck
       | S fuel' => line ← read_line; search_modulo fuel' line
       end.

(** The digits of the correct result, least significant first, as the script
    rebuilds them; they go to [expected_raw], which is never printed, while
    [expected] itself is shifted away.  [None] when the shift makes no
    progress. *)
Fixpoint array_loop (fuel : nat) (ds expected : Z) (expected_raw : pystr)
  : option (outcome (Z * pystr)) :=
  if expected >? 0 then
    match fuel with
    | O => None
    | S fuel' =>
        let expected_raw := expected_raw ++ lit ", " in
        let expected_raw := expected_raw ++ str_int (Z.land expected 0xffffffff) in
        match py_shr expected (ds * 8) with
        | Ok expected => array_loop fuel' ds expected expected_raw
        | Raise e => Some (Raise e)
        end
    end
  else Some (Ok (expected, expected_raw)).

Definition array_form (fuel : nat) (ds expected : Z) : option (outcome (Z * pystr)) :=
  let expected_raw := lit "[" ++ str_int (Z.land expected 0xffffffff) in
  match py_shr expected (ds * 8) with
  | Raise e => Some (Raise e)
  | Ok expected =>
      match array_loop fuel ds expected expected_raw with
      | Some (Ok (expected, expected_raw)) => Some (Ok (expected, expected_raw ++ lit "]"))
      | r => r
      end
  end.

(** [expected = ...], one arm an operator; any other operator leaves the
    name as it was. *)
Definition compute_expected (op a b mod_ : Z) : M unit :=
  if op =? chr "+" then v ← lift (py_mod (a + b) mod_); set_expected v
  else if op =? chr "-" then v ← lift (py_mod (a - b) mod_); set_expected v
  else if op =? chr "*" then v ← lift (py_mod (a * b) mod_); set_expected v
  else if op =? chr "/" then
    inv ← lift (py_pow b (mod_ - 2) mod_);
    v ← lift (py_mod (a * inv) mod_); set_expected v
  else mret ().

(** More shifts than the value has bits. *)
Definition array_fuel (v : Z) : nat := S (Z.to_nat (Z.log2 v)).

(** One iteration of the verification loop. *)
Definition verify_one (mod_raw : pystr) (mod_ : Z) : M unit :=
  a_raw ← read_line; ds ← gets digit_size; a ← lift (find_bignum ds a_raw);
  b_raw ← read_line; b ← lift (find_bignum ds b_raw);
  c_raw ← read_line; c ← lift (find_bignum ds c_raw);
  op ← lift (item c_raw 2);
  _ ← compute_expected op a b mod_;
  v ← get_expected;
  _ ← (if bool_decide (v ≠ c) then
         _ ← incr_errors;
         r ← gets (λ _, array_form (array_fuel v) ds v);
         match r with
         | Some o =>
             '(v', expected_raw) ← lift o;
             _ ← set_expected v';
             print (Failed a_raw b_raw c_raw mod_raw a op b c mod_ v v')
         | None => stuck
         end
       else mret ());
  _ ← incr_op_count;
  n ← gets op_count;
  print (Parsed n).

Fixpoint verify_loop (fuel : nat) (mod_raw : pystr) (mod_ : Z) : M unit :=
  match fuel with
  | O => stuck
  | S fuel' => _ ← verify_one mod_raw mod_; verify_loop fuel' mod_raw mod_
  end.

(** The script after the file is opened. *)
Definition main (fuel : nat) : M unit :=
  line ← search_digit_size fuel;
  let line := remove_char (chr " ") line in
  let line := slice line (find line (lit "=") + 1) (find line (lit "bytes")) in
  ds ← lift (py_int 10 line);
  _ ← set_digit_size ds;
  _ ← print (Digit_size_found ds);
  line ← readline;
  if bool_decide (line = []) then exit else
  line ← search_modulo fuel line;
  m ← lift (find_bignum ds line);
  let mod_ := m + 1 in
  _ ← print (Modulo_found mod_);
  verify_loop fuel line mod_.

(** Enough iterations for any file: every one of the loops reads a line. *)
Definition check_file (lines : list pystr) : option (outcome unit) * st :=
  main (S (length lines)) (initial lines).
End checker.

(** ** Reading a big number *)

(** The text of a big number, as [operator<<] of the class prints it. *)
Definition bignum_text (digits : list Z) : pystr :=
  lit "[" ++ join (lit ", ") (str_int <$> digits) ++ lit "]".

Lemma find_from_char k c (a b : pystr) : c ∉ a → find_from k (a ++ c :: b) [c] = k + zlen a.
Proof.
  revert k; induction a as [|x a IH]; intros k Hc; cbn.
  - rewrite Z.eqb_refl. cbn. by rewrite Z.add_0_r.
  - apply not_elem_of_cons in Hc as [Hx Hc]. rewrite (proj2 (Z.eqb_neq c x)) by done. cbn [andb].
    rewrite IH, zlen_cons by done. lia.
Qed.

Lemma find_char c (a b : pystr) : c ∉ a → find (a ++ c :: b) [c] = zlen a.
Proof. intros Hc. unfold find. by rewrite find_from_char. Qed.

Lemma remove_char_app x (a b : pystr) : remove_char x (a ++ b) = remove_char x a ++ remove_char x b.
Proof. apply filter_app. Qed.

Lemma remove_char_notin x (a : pystr) : x ∉ a → remove_char x a = a.
Proof.
  intros Hx. unfold remove_char. induction a as [|c a IH]; [done|].
  apply not_elem_of_cons in Hx as [Hc Ha]. by rewrite filter_cons_True, IH.
Qed.

Lemma remove_char_join (ws : list pystr) :
  Forall (λ w, chr " " ∉ w) ws → remove_char (chr " ") (join (lit ", ") ws) = join (lit ",") ws.
Proof.
  induction 1 as [|w ws Hw Hws IH]; [done|]. destruct ws as [|w' ws]; [by apply remove_char_notin|].
  change (join (lit ", ") (w :: w' :: ws)) with (w ++ lit ", " ++ join (lit ", ") (w' :: ws)).
  change (join (lit ",") (w :: w' :: ws)) with (w ++ lit "," ++ join (lit ",") (w' :: ws)).
  by rewrite !remove_char_app, IH, remove_char_notin.
Qed.

Lemma str_int_not_in n c : 0 ≤ n → is_digit 10 c = false → c ∉ str_int n.
Proof.
  intros Hn Hc. unfold str_int. rewrite (proj2 (Z.ltb_ge n 0)) by done. by apply render_not_in.
Qed.

Lemma shift_value (x k : Z) : 0 ≤ k → Z.shiftl x k = 2 ^ k * x.
Proof. intros. rewrite Z.shiftl_mul_pow2 by done. lia. Qed.

Section reading.
Context `{Unicode, NegativePow}.

Lemma digits_loop k ds acc :
  0 ≤ k →
  foldl (λ ret i, ret ← ret; ret ← py_shl ret (k * 8); v ← py_int 10 i; Ok (ret + v)) (Ok acc)
    (str_int <$> reverse ds) = Ok (bignum_value (8 * k) ds + 2 ^ (8 * k * zlen ds) * acc).
Proof.
  intros Hk. revert acc; induction ds as [|d ds IH]; intros acc.
  - cbn. rewrite Z.mul_0_r. f_equal. lia.
  - rewrite reverse_cons, fmap_app, foldl_app, IH. cbn [fmap list_fmap foldl].
    rewrite bind_ok. unfold py_shl. rewrite (proj2 (Z.ltb_ge (k * 8) 0)) by lia.
    rewrite bind_ok, py_int_str_int, bind_ok, shift_value by lia. f_equal. cbn [bignum_value].
    rewrite zlen_cons. pose proof (zlen_nonneg ds).
    replace (8 * k * (1 + zlen ds)) with (8 * k + 8 * k * zlen ds) by lia.
    rewrite Z.pow_add_r by lia. replace (k * 8) with (8 * k) by lia. lia.
Qed.

Lemma bignum_text_clean digits :
  Forall (λ d, 0 ≤ d) digits →
  remove_char (chr " ") (bignum_text digits) = chr "[" :: join (lit ",") (str_int <$> digits) ++ [chr "]"].
Proof.
  intros Hd. unfold bignum_text. rewrite !remove_char_app, remove_char_join; [done|].
  apply Forall_fmap. eapply Forall_impl; [done|]. intros d ?. by apply str_int_not_in.
Qed.

Lemma find_bignum_text k pre digits post :
  0 ≤ k → chr "[" ∉ pre → chr "]" ∉ pre → digits ≠ [] → Forall (λ d, 0 ≤ d) digits →
  find_bignum k (pre ++ bignum_text digits ++ post) = Ok (bignum_value (8 * k) digits).
Proof.
  intros Hk Hp1 Hp2 Hne Hd. unfold find_bignum. rewrite !remove_char_app, bignum_text_clean by done.
  set (p := remove_char (chr " ") pre). set (q := remove_char (chr " ") post).
  assert (Hp : ∀ c, c ∉ pre → c ∉ p).
  { intros c Hc Hin. apply Hc. unfold p, remove_char in Hin. by apply list_elem_of_filter in Hin as [_ ?]. }
  set (body := join (lit ",") (str_int <$> digits)).
  assert (chr "]" ∉ body) as Hb.
  { apply join_not_in; [by apply not_elem_of_cons; split; [|apply not_elem_of_nil]|].
    apply Forall_fmap. eapply Forall_impl; [done|]. intros d ?. by apply str_int_not_in. }
  assert (p ++ (chr "[" :: body ++ [chr "]"]) ++ q = p ++ chr "[" :: body ++ chr "]" :: q) as ->
    by (cbn; by rewrite <- app_assoc).
  change (lit "[") with [chr "["]. change (lit "]") with [chr "]"].
  rewrite find_char by by apply Hp.
  assert (p ++ chr "[" :: body ++ chr "]" :: q = (p ++ chr "[" :: body) ++ chr "]" :: q) as E by by rewrite <- app_assoc.
  rewrite E at 2. rewrite find_char.
  2:{ rewrite not_elem_of_app, not_elem_of_cons. split_and!; [by apply Hp | done | done]. }
  assert (slice (p ++ chr "[" :: body ++ chr "]" :: q) (zlen p + 1) (zlen (p ++ chr "[" :: body)) = body) as ->.
  { change (p ++ chr "[" :: body ++ chr "]" :: q) with (p ++ [chr "["] ++ body ++ chr "]" :: q).
    rewrite app_assoc. apply slice_mid; autorewrite with pystr; lia. }
  unfold body. rewrite split_on_join; [| by intros ?%fmap_nil_inv |].
  2:{ apply Forall_fmap. eapply Forall_impl; [done|]. intros d ?. by apply str_int_not_in. }
  rewrite <- fmap_reverse, digits_loop by done. f_equal. lia.
Qed.

(** [find_bignum] reads back what the class prints: in a line made of a
    text without brackets, the digits of a number between brackets and
    separated by comma and space, and any text, it finds the number whose
    little-endian digits of [8 * digit_size] bits these are. *)
Theorem find_bignum_round_trip k pre digits post :
  0 ≤ k → chr "[" ∉ pre → chr "]" ∉ pre → digits ≠ [] → Forall (λ d, 0 ≤ d) digits →
  find_bignum k (pre ++ bignum_text digits ++ post) = Ok (bignum_value (8 * k) digits).
Proof. apply find_bignum_text. Qed.
End reading.

(** ** Arithmetic *)

Lemma powmod_spec b m e : m ≠ 0 → powmod b m e = b ^ Zpos e mod m.
Proof.
  intros Hm. revert b; induction e as [e IH|e IH|]; intros b; cbn [powmod].
  - rewrite IH, Pos2Z.inj_xI, Z.pow_add_r, Z.pow_mul_r, Z.pow_1_r by lia.
    rewrite Z.pow_2_r, Z.mul_mod_idemp_r by done. rewrite Z.mul_comm, <- Z.mul_mod_idemp_l by done.
    rewrite <- (Z.mul_mod_idemp_l (_ ^ _)) by done. f_equal. f_equal. by rewrite Z.mod_pow_l.
  - rewrite IH, Pos2Z.inj_xO, Z.pow_mul_r by lia. by rewrite Z.pow_2_r, Z.mod_pow_l.
  - by rewrite Z.pow_1_r.
Qed.

(** What each operator of the file should give modulo [m]. *)
Definition correct_result (m op a b : Z) : Z :=
  (if op =? chr "+" then a + b else if op =? chr "-" then a - b
   else if op =? chr "*" then a * b else a * b ^ (m - 2)) mod m.

Definition known_op (op : Z) : Prop := op = chr "+" ∨ op = chr "-" ∨ op = chr "*" ∨ op = chr "/".

Lemma compute_expected_correct `{NegativePow} op a b m s :
  known_op op → 2 ≤ m →
  compute_expected op a b m s = set_expected (correct_result m op a b) s.
Proof.
  intros Hop Hm. unfold compute_expected, correct_result, py_mod.
  rewrite (proj2 (Z.eqb_neq m 0)) by lia.
  destruct Hop as [->|[->|[->| ->]]]; [done..|]. cbn -[Z.modulo Z.pow].
  unfold mbind, M_bind, lift, py_pow. rewrite (proj2 (Z.eqb_neq m 0)) by lia.
  destruct (m - 2) as [|p|p] eqn:E; [| |lia].
  - rewrite Z.pow_0_r. by rewrite Z.mul_mod_idemp_r by lia.
  - rewrite powmod_spec by lia. by rewrite Z.mul_mod_idemp_r by lia.
Qed.

(** The checker's verdict on a quotient is the right one when the modulus
    is prime: for a divisor that is not zero modulo it, the value
    [a * b^(m-2)] it compares with is the only [c] below the modulus with
    [c * b = a]. *)
Theorem division_verdict m a b c :
  Z.prime m → b mod m ≠ 0 → 0 ≤ c < m →
  correct_result m (chr "/") a b = c ↔ (c * b) mod m = a mod m.
Proof.
  intros Hp Hb Hc. pose proof (Z.prime_ge_2 m Hp) as Hm.
  assert (b ^ (m - 2) * b mod m = 1) as Hinv.
  { replace (b ^ (m - 2) * b) with (b ^ (m - 1)).
    - by apply Z.fermat_nz.
    - replace (m - 1) with (m - 2 + 1) by lia. rewrite Z.pow_add_r, Z.pow_1_r by lia. done. }
  change (correct_result m (chr "/") a b) with ((a * b ^ (m - 2)) mod m).
  generalize dependent (b ^ (m - 2)). intros i Hinv. split.
  - intros <-. rewrite Z.mul_mod_idemp_l, <- Z.mul_assoc, <- Z.mul_mod_idemp_r, Hinv by lia. f_equal. lia.
  - intros E. rewrite <- Z.mul_mod_idemp_l, <- E, Z.mul_mod_idemp_l by lia.
    rewrite <- Z.mul_assoc, (Z.mul_comm b), <- Z.mul_mod_idemp_r, Hinv, Z.mul_1_r by lia.
    by apply Z.mod_small.
Qed.

(** ** The array form of the expected value *)

Lemma land_digit v : Z.land v 0xffffffff = v mod 2 ^ 32.
Proof. change 0xffffffff with (Z.ones 32). by rewrite Z.land_ones by lia. Qed.

Lemma join_snoc sep (ws : list pystr) w : ws ≠ [] → join sep (ws ++ [w]) = join sep ws ++ sep ++ w.
Proof.
  induction ws as [|x ws IH]; intros Hne; [done|]. destruct ws as [|y ws]; [done|].
  change (join sep ((x :: y :: ws) ++ [w])) with (x ++ sep ++ join sep ((y :: ws) ++ [w])).
  rewrite IH by done. change (join sep (x :: y :: ws)) with (x ++ sep ++ join sep (y :: ws)).
  by rewrite <- !app_assoc.
Qed.

(** What the loop adds: the other digits of the value. *)
Lemma array_loop_digits fuel v ds0 :
  0 ≤ v < 2 ^ Z.of_nat fuel → ds0 ≠ [] →
  ∃ ds, array_loop fuel 4 v (lit "[" ++ join (lit ", ") (str_int <$> ds0)) =
      Some (Ok (0, lit "[" ++ join (lit ", ") (str_int <$> (ds0 ++ ds)))) ∧
    Forall (λ d, 0 ≤ d) ds ∧ bignum_value 32 ds = v.
Proof.
  revert v ds0; induction fuel as [|fuel IH]; intros v ds0 Hv Hne.
  - change (2 ^ Z.of_nat 0) with 1 in Hv. assert (v = 0) as -> by lia.
    exists []. rewrite app_nil_r. repeat split; constructor.
  - cbn [array_loop]. destruct (Z.gtb_spec v 0) as [Hpos|Hz].
    2:{ assert (v = 0) as -> by lia. exists []. rewrite app_nil_r. repeat split; constructor. }
    unfold py_shr. change (4 * 8 <? 0) with false. cbn iota. rewrite Z.shiftr_div_pow2 by done.
    change (4 * 8) with 32. rewrite land_digit.
    destruct (IH (v / 2 ^ 32) (ds0 ++ [v mod 2 ^ 32])) as (ds & E & Hd & Hval).
    + rewrite Nat2Z.inj_succ, Z.pow_succ_r in Hv by lia. split; [by apply Z.div_pos; lia|].
      apply Z.div_lt_upper_bound; [done|]. nia.
    + by intros [_ ?]%app_nil.
    + exists (v mod 2 ^ 32 :: ds). split_and!.
      * rewrite fmap_app, (join_snoc _ (str_int <$> ds0) (str_int (v mod 2 ^ 32))) in E
          by (by intros ?%fmap_nil_inv).
        rewrite <- ?app_assoc in E. rewrite <- ?app_assoc. rewrite <- ?app_assoc. rewrite E. by rewrite <- ?app_assoc.
      * constructor; [|done]. by apply Z.mod_pos_bound.
      * cbn [bignum_value]. rewrite Hval. pose proof (Z.div_mod v (2 ^ 32) ltac:(done)). lia.
Qed.

Section arrays.
Context `{Unicode, NegativePow}.

Lemma array_form_text v :
  0 ≤ v → ∃ text, array_form (array_fuel v) 4 v = Some (Ok (0, text)) ∧ find_bignum 4 text = Ok v.
Proof.
  intros Hv. unfold array_form, py_shr. change (4 * 8 <? 0) with false. cbn iota.
  change (4 * 8) with 32. rewrite land_digit, Z.shiftr_div_pow2 by done.
  destruct (array_loop_digits (array_fuel v) (v / 2 ^ 32) [v mod 2 ^ 32]) as (ds & E & Hd & Hval).
  - split; [by apply Z.div_pos|]. unfold array_fuel. rewrite Nat2Z.inj_succ, Z2Nat.id by apply Z.log2_nonneg.
    apply Z.le_lt_trans with v; [apply Z.div_le_upper_bound; nia|].
    destruct (decide (v = 0)) as [->|]; [done|]. apply Z.log2_spec. lia.
  - done.
  - change (lit "[" ++ str_int (v mod 2 ^ 32)) with (lit "[" ++ join (lit ", ") (str_int <$> [v mod 2 ^ 32])).
    rewrite E. eexists. split; [done|].
    assert (Forall (λ d, 0 ≤ d) ([v mod 2 ^ 32] ++ ds)) as Hall by (constructor; [by apply Z.mod_pos_bound | done]).
    pose proof (find_bignum_text 4 [] ([v mod 2 ^ 32] ++ ds) []) as Hf.
    rewrite app_nil_r in Hf. etrans; [|etrans; [apply Hf|]].
    + unfold bignum_text. cbn [app]. by rewrite <- !app_assoc.
    + done.
    + apply not_elem_of_nil.
    + apply not_elem_of_nil.
    + done.
    + done.
    + cbn [app bignum_value]. change (8 * 4) with 32. rewrite Hval.
      pose proof (Z.div_mod v (2 ^ 32) ltac:(done)). f_equal. lia.
Qed.

(** With four-byte digits, the array the checker builds for an expected
    value is the text of that value (reading it with [find_bignum] gives the
    value back), and the variable it prints under "correct result in array
    form" instead of the array is always 0. *)
Theorem array_form_round_trip v :
  0 ≤ v → ∃ text, array_form (array_fuel v) 4 v = Some (Ok (0, text)) ∧ find_bignum 4 text = Ok v.
Proof. apply array_form_text. Qed.

(** The loop that builds the array need not end: with a digit size of 0,
    which the file can announce, no positive value ever shifts to 0. *)
Theorem array_form_diverges fuel v : 0 < v → array_form fuel 0 v = None.
Proof.
  intros Hv. assert ((v >? 0) = true) as Hg by (by apply Z.gtb_lt).
  assert (∀ text, array_loop fuel 0 v text = None) as Hl.
  { induction fuel as [|fuel IH]; intros text; cbn [array_loop]; rewrite Hg; [done|].
    unfold py_shr. change (0 * 8 <? 0) with false. cbn iota. change (0 * 8) with 0.
    by rewrite Z.shiftr_0_r, IH. }
  unfold array_form, py_shr. change (0 * 8 <? 0) with false. cbn iota. change (0 * 8) with 0.
  by rewrite Z.shiftr_0_r, Hl.
Qed.
End arrays.

(** ** Termination *)

Lemma array_loop_ends fuel ds v text : ds ≠ 0 → v < 2 ^ Z.of_nat fuel → array_loop fuel ds v text ≠ None.
Proof.
  intros Hds. revert v text; induction fuel as [|fuel IH]; intros v text Hv; cbn [array_loop];
    destruct (Z.gtb_spec v 0) as [Hpos|Hz]; try done.
  - change (2 ^ Z.of_nat 0) with 1 in Hv. lia.
  - unfold py_shr. destruct (Z.ltb_spec (ds * 8) 0); [done|]. apply IH.
    rewrite Z.shiftr_div_pow2 by lia. rewrite Nat2Z.inj_succ, Z.pow_succ_r in Hv by lia.
    apply Z.div_lt_upper_bound; [lia|].
    assert (2 ^ 1 ≤ 2 ^ (ds * 8)) by (apply Z.pow_le_mono_r; lia). nia.
Qed.

Lemma array_form_ends ds v : ds ≠ 0 → array_form (array_fuel v) ds v ≠ None.
Proof.
  intros Hds. unfold array_form, py_shr. destruct (Z.ltb_spec (ds * 8) 0); [done|].
  assert (Z.shiftr v (ds * 8) < 2 ^ Z.of_nat (array_fuel v)) as Hv.
  { unfold array_fuel. rewrite Nat2Z.inj_succ, Z2Nat.id by apply Z.log2_nonneg.
    rewrite Z.shiftr_div_pow2 by lia. destruct (Z.leb_spec v 0).
    - apply Z.div_lt_upper_bound; [lia|].
      assert (0 < 2 ^ Z.succ (Z.log2 v)) by (apply Z.pow_pos_nonneg; [lia|]; pose proof (Z.log2_nonneg v); lia). nia.
    - pose proof (Z.log2_spec v). apply Z.le_lt_trans with v; [|lia]. apply Z.div_le_upper_bound; nia. }
  pose proof (array_loop_ends (array_fuel v) ds (Z.shiftr v (ds * 8)) (lit "[" ++ str_int (Z.land v 0xffffffff)) Hds Hv) as He.
  by destruct (array_loop _ _ _ _) as [[[? ?]|?]|].
Qed.

(** What a statement does to the lines left and to the digit size: [P] of a
    normal result and its state; [None] only when the digit size is 0. *)
Definition ends {A} (m : M A) (s : st) (P : A → st → Prop) : Prop :=
  match m s with
  | (Some (Ok a), s') => P a s'
  | (Some (Raise _), _) => True
  | (None, s') => digit_size s' = 0
  end.

Lemma ends_bind {A B} (m : M A) (f : A → M B) s P Q :
  ends m s Q → (∀ a s', Q a s' → ends (f a) s' P) → ends (m ≫= f) s P.
Proof.
  unfold ends, mbind, M_bind. intros Hm Hf. destruct (m s) as [[[a|e]|] s']; [|done|done].
  by apply Hf in Hm.
Qed.

(** The part of the state that termination depends on. *)
Definition left_of (s : st) : nat * Z := (length (rest s), digit_size s).
Definition same {A} (s : st) : A → st → Prop := λ _ s', left_of s' = left_of s.
Definition shorter {A} (s : st) : A → st → Prop := λ _ s',
  (length (rest s') < length (rest s))%nat ∧ digit_size s' = digit_size s.

Lemma ends_lift {A} (o : outcome A) s : ends (lift o) s (same s).
Proof. by destruct o. Qed.

Section termination.
Context `{Unicode, NegativePow}.

Lemma read_line_ends s : ends read_line s (shorter s).
Proof.
  unfold read_line, readline, ends, mbind, M_bind.
  destruct s as [[|l ls] er ds ex oc rp]; [done|]. cbn -[bool_decide rstrip].
  destruct (_ || _); cbn; [done|]. split; cbn; [lia | done].
Qed.

Lemma search_digit_size_ends fuel s :
  (length (rest s) < fuel)%nat → ends (search_digit_size fuel) s (shorter s).
Proof.
  revert s; induction fuel as [|fuel IH]; intros s Hf; [lia|]. cbn [search_digit_size].
  eapply ends_bind; [apply read_line_ends|]. intros l s1 [Hl Hd]. case_match.
  - split; [done|done].
  - pose proof (IH s1 ltac:(lia)) as Hs. unfold ends in *.
    destruct (search_digit_size fuel s1) as [[[l'|e]|] s2]; [|done|done]. destruct Hs. split; [lia | congruence].
Qed.

Lemma search_modulo_ends fuel l s :
  (length (rest s) < fuel)%nat →
  ends (search_modulo fuel l) s (λ _ s', (length (rest s') ≤ length (rest s))%nat).
Proof.
  revert l s; induction fuel as [|fuel IH]; intros l s Hf; [lia|]. cbn [search_modulo].
  case_match; [unfold ends; cbn; lia|]. eapply ends_bind; [apply read_line_ends|]. intros l1 s1 [Hl Hd].
  pose proof (IH l1 s1 ltac:(lia)) as Hs. unfold ends in *.
  destruct (search_modulo fuel l1 s1) as [[[l'|e]|] s2]; [lia|done|done].
Qed.

Lemma compute_expected_ends op a b m s : ends (compute_expected op a b m) s (same s).
Proof.
  unfold compute_expected. repeat case_match; [| | | |done].
  all: repeat (eapply ends_bind; [apply ends_lift|]; intros ? ? ?); unfold ends, same, left_of in *; cbn in *; congruence.
Qed.

Lemma ends_quiet {A B} (m : M A) (f : A → M B) s P :
  ends m s (same s) → (∀ a s', left_of s' = left_of s → ends (f a) s' P) → ends (m ≫= f) s P.
Proof. apply ends_bind. Qed.

Lemma ends_gets {A B} (g : st → A) (f : A → M B) s P : ends (f (g s)) s P → ends (gets g ≫= f) s P.
Proof. done. Qed.

Lemma ends_read {B} (f : pystr → M B) s P :
  (∀ l s', (length (rest s') < length (rest s))%nat → digit_size s' = digit_size s → ends (f l) s' P) →
  ends (read_line ≫= f) s P.
Proof. intros Hf. eapply ends_bind; [apply read_line_ends|]. intros l s' [H1 H2]. by apply Hf. Qed.

Lemma failed_ends a_raw b_raw c_raw mod_raw a op b c m v s :
  ends (_ ← incr_errors;
        r ← gets (λ _, array_form (array_fuel v) (digit_size s) v);
        match r with
        | Some o =>
            '(v', expected_raw) ← lift o;
            _ ← set_expected v';
            print (Failed a_raw b_raw c_raw mod_raw a op b c m v v')
        | None => stuck
        end) s (same s).
Proof.
  eapply ends_quiet; [done|]. intros [] s1 E1. apply ends_gets.
  destruct (array_form _ _ _) as [o|] eqn:Ea.
  - eapply ends_quiet; [apply ends_lift|]. intros [v' raw] s2 E2. unfold ends, same, left_of, mbind, M_bind in *. cbn. congruence.
  - cbn. destruct (decide (digit_size s = 0)) as [|Hd]; [unfold left_of in E1; cbn; congruence|].
    by destruct (array_form_ends (digit_size s) v Hd).
Qed.

Lemma verify_one_ends mod_raw m s : ends (verify_one mod_raw m) s (shorter s).
Proof.
  unfold verify_one. apply ends_read. intros l1 s1 H1 D1. apply ends_gets.
  eapply ends_quiet; [apply ends_lift|]. intros a s1' [= R1 D1'].
  apply ends_read. intros l2 s2 H2 D2. eapply ends_quiet; [apply ends_lift|]. intros b s2' [= R2 D2'].
  apply ends_read. intros l3 s3 H3 D3. eapply ends_quiet; [apply ends_lift|]. intros c s3' [= R3 D3'].
  eapply ends_quiet; [apply ends_lift|]. intros op s4 [= R4 D4].
  eapply ends_quiet; [apply compute_expected_ends|]. intros [] s5 [= R5 D5].
  eapply ends_quiet; [by unfold get_expected, ends; destruct (expected s5)|]. intros v s6 [= R6 D6].
  eapply ends_quiet.
  - case_match; [|done]. assert (digit_size s1 = digit_size s6) as -> by congruence. apply failed_ends.
  - intros [] s7 [= R7 D7]. eapply ends_quiet; [done|]. intros [] s8 [= R8 D8].
    apply ends_gets. unfold ends, shorter. cbn. split; [lia | congruence].
Qed.

Lemma verify_loop_ends fuel mod_raw m s :
  (length (rest s) < fuel)%nat → ends (verify_loop fuel mod_raw m) s (λ _ _, True).
Proof.
  revert s; induction fuel as [|fuel IH]; intros s Hf; [lia|]. cbn [verify_loop].
  eapply ends_bind; [apply verify_one_ends|]. intros [] s1 [H1 D1]. apply IH. lia.
Qed.

(** The checker ends on every file, whatever it holds, with one iteration
    of each loop per line at most, except when the file announces digits of
    0 bytes and the array of a wrong result has to be built. *)
Theorem checker_terminates lines : (check_file lines).1 = None → digit_size (check_file lines).2 = 0.
Proof.
  intros Hn. assert (ends (main (S (length lines))) (initial lines) (λ _ _, True)) as He.
  { unfold main. eapply ends_bind; [apply search_digit_size_ends; cbn; lia|]. intros l s1 [H1 D1]. cbn in H1.
    eapply ends_quiet; [apply ends_lift|]. intros ds s2 [= R2 D2].
    eapply (ends_bind _ _ _ _ (λ _ s', length (rest s') = length (rest s2))); [done|]. intros [] s3 R3.
    eapply (ends_bind _ _ _ _ (λ _ s', length (rest s') = length (rest s2))); [done|]. intros [] s4 R4.
    eapply (ends_bind _ _ _ _ (λ _ s', length (rest s') ≤ length (rest s2))%nat).
    { unfold readline, ends. destruct (rest s4) as [|x xs] eqn:Er; cbn in *; rewrite ?Er in *; cbn in *; lia. }
    intros line s5 R5. case_match; [done|].
    eapply ends_bind; [apply search_modulo_ends; lia|]. intros line' s6 R6. cbn in R6.
    eapply ends_quiet; [apply ends_lift|]. intros mv s7 [= R7 D7].
    eapply (ends_bind _ _ _ _ (λ _ s', length (rest s') = length (rest s7))); [done|]. intros [] s8 R8.
    apply verify_loop_ends. cbn in *. lia. }
  unfold check_file in *. unfold ends in He. destruct (main _ _) as [[[[]|e]|] s']; [done|done|exact He].
Qed.
End termination.

(** ** What the checker concludes *)

(** One operation of the test: the operator and three big numbers. *)
Record operation := Operation { op_char : Z; op_a : list Z; op_b : list Z; op_c : list Z }.

Definition good_digits (ds : list Z) : Prop := ds ≠ [] ∧ Forall (λ d, 0 ≤ d) ds.
Definition good_operation (o : operation) : Prop :=
  known_op (op_char o) ∧ good_digits (op_a o) ∧ good_digits (op_b o) ∧ good_digits (op_c o).

(** The three lines bignum_test prints for it. *)
Definition value_line (name : pystr) (digits : list Z) : pystr :=
  name ++ lit " = " ++ bignum_text digits.
Definition operation_lines (o : operation) : list pystr :=
  [value_line (lit "a") (op_a o) ++ [10]; value_line (lit "b") (op_b o) ++ [10];
   value_line (lit "a " ++ op_char o :: lit " b") (op_c o) ++ [10]].

Definition wrong (m : Z) (o : operation) : Prop :=
  correct_result m (op_char o) (bignum_value 32 (op_a o)) (bignum_value 32 (op_b o))
    ≠ bignum_value 32 (op_c o).
#[export] Instance wrong_dec m o : Decision (wrong m o).
Proof. unfold wrong. apply _. Defined.

Definition wrong_count (m : Z) (os : list operation) : Z := zlen (filter (wrong m) os).

(** The whole output: lines without interest, the size of a digit, more of
    them, the modulus less one, the operations, and the end. *)
Definition size_line : pystr := lit "sizeof(Bignum<16>::Digit) = 4 bytes.".
Definition epos_output (junk1 junk2 : list pystr) (modulo : list Z) (os : list operation) : list pystr :=
  junk1 ++ (size_line ++ [10]) ::
  junk2 ++ (value_line (lit "Modulo") modulo ++ lit " + 1" ++ [10]) ::
  concat (operation_lines <$> os) ++ [lit "Done!" ++ [10]].

Lemma rstrip_nl `{Unicode} (l : pystr) x : is_space x = false → rstrip ((l ++ [x]) ++ [10]) = l ++ [x].
Proof.
  intros Hx. unfold rstrip, rstrip_while. rewrite !reverse_app. cbn [reverse rev_append app].
  change (reverse [10]) with [10]. change (reverse [x]) with [x]. cbn [app skip_while].
  change (is_space 10) with true. cbn iota. rewrite Hx. cbn [reverse].
  by rewrite reverse_cons, reverse_involutive.
Qed.

Lemma M_bind_ok {A B} (m : M A) (f : A → M B) s a s' :
  m s = (Some (Ok a), s') → (m ≫= f) s = f a s'.
Proof. unfold mbind, M_bind. by intros ->. Qed.

Lemma lift_bind {A B} (a : A) (f : A → M B) s : (lift (Ok a) ≫= f) s = f a s.
Proof. done. Qed.

Lemma gets_bind {A B} (g : st → A) (f : A → M B) s : (gets g ≫= f) s = f (g s) s.
Proof. done. Qed.

Lemma get_expected_bind {B} (f : Z → M B) v s : expected s = Some v → (get_expected ≫= f) s = f v s.
Proof. unfold mbind, M_bind, get_expected. by intros ->. Qed.

Lemma M_bind_raise {A B} (m : M A) (f : A → M B) s e s' :
  m s = (Some (Raise e), s') → (m ≫= f) s = (Some (Raise e), s').
Proof. unfold mbind, M_bind. by intros ->. Qed.

Lemma readline_bind {B} (f : pystr → M B) l ls er ds ex oc rp :
  (readline ≫= f) (St (l :: ls) er ds ex oc rp) = f l (St ls er ds ex oc rp).
Proof. done. Qed.

Section verdict.
Context `{Unicode, NegativePow}.

(** A line that is neither empty nor the last one. *)
Definition ordinary (l : pystr) : Prop := rstrip l ≠ [] ∧ rstrip l ≠ lit "Done!".

Lemma read_line_ordinary l ls er ds ex oc rp :
  ordinary l →
  read_line (St (l :: ls) er ds ex oc rp) = (Some (Ok (rstrip l)), St ls er ds ex oc rp).
Proof.
  intros [H1 H2]. unfold read_line, readline, mbind, M_bind. cbn -[rstrip bool_decide].
  by rewrite !bool_decide_false by done.
Qed.

Lemma read_line_done ls er ds ex oc rp :
  read_line (St ((lit "Done!" ++ [10]) :: ls) er ds ex oc rp) =
    (Some (Raise SystemExit), St ls er ds ex oc (rp ++ [Verification_done er])).
Proof. reflexivity. Qed.

Lemma value_line_snoc name digits : ∃ l, value_line name digits = l ++ [chr "]"].
Proof.
  unfold value_line, bignum_text. eexists (name ++ lit " = " ++ lit "[" ++ join _ _).
  by rewrite <- !app_assoc.
Qed.

Lemma value_line_read name digits :
  ordinary (value_line name digits ++ [10]) ∧ rstrip (value_line name digits ++ [10]) = value_line name digits.
Proof.
  destruct (value_line_snoc name digits) as [l El]. rewrite El.
  assert (rstrip ((l ++ [chr "]"]) ++ [10]) = l ++ [chr "]"]) as Er by by apply rstrip_nl.
  unfold ordinary. rewrite Er. split_and!; [by intros [_ ?]%app_nil| |done].
  intros E. apply (f_equal last) in E. rewrite last_snoc in E. done.
Qed.

Lemma value_line_bignum name digits :
  chr "[" ∉ name → chr "]" ∉ name → good_digits digits →
  find_bignum 4 (value_line name digits) = Ok (bignum_value 32 digits).
Proof.
  intros H1 H2 [Hne Hd]. unfold value_line. rewrite app_assoc. rewrite <- (app_nil_r (bignum_text digits)).
  apply (find_bignum_text 4 (name ++ lit " = ")); [done| | |done|done];
    (apply not_elem_of_app; split; [done|]; apply (bool_decide_unpack (_ ∉ _)); reflexivity).
Qed.

Lemma verify_one_operation o m mod_raw more er ex oc rp :
  good_operation o → 2 ≤ m →
  ∃ ex' rp', verify_one mod_raw m (St (operation_lines o ++ more) er 4 ex oc rp) =
    (Some (Ok ()), St more (er + if decide (wrong m o) then 1 else 0) 4 ex' (oc + 1) rp').
Proof.
  intros (Hop & Ha & Hb & Hc) Hm. unfold verify_one, operation_lines.
  destruct (value_line_read (lit "a") (op_a o)) as [O1 R1].
  destruct (value_line_read (lit "b") (op_b o)) as [O2 R2].
  destruct (value_line_read (lit "a " ++ op_char o :: lit " b") (op_c o)) as [O3 R3].
  assert (∀ c, c = chr "[" ∨ c = chr "]" → c ∉ lit "a " ++ op_char o :: lit " b") as Hnot.
  { intros c Hc'. destruct Hop as [->|[->|[->| ->]]], Hc' as [->| ->];
      apply (bool_decide_unpack (_ ∉ _)); reflexivity. }
  cbn [app]. rewrite (M_bind_ok _ _ _ _ _ (read_line_ordinary _ _ _ _ _ _ _ O1)), R1.
  rewrite gets_bind.
  rewrite value_line_bignum, lift_bind by first [apply (bool_decide_unpack (_ ∉ _)); reflexivity | done].
  rewrite (M_bind_ok _ _ _ _ _ (read_line_ordinary _ _ _ _ _ _ _ O2)), R2.
  rewrite value_line_bignum, lift_bind by first [apply (bool_decide_unpack (_ ∉ _)); reflexivity | done].
  rewrite (M_bind_ok _ _ _ _ _ (read_line_ordinary _ _ _ _ _ _ _ O3)), R3.
  rewrite value_line_bignum, lift_bind by first [by apply Hnot; auto | done].
  assert (item (value_line (lit "a " ++ op_char o :: lit " b") (op_c o)) 2 = Ok (op_char o)) as -> by done.
  rewrite lift_bind. unfold wrong.
  set (a := bignum_value 32 (op_a o)). set (b := bignum_value 32 (op_b o)). set (c := bignum_value 32 (op_c o)).
  set (v := correct_result m (op_char o) a b).
  assert (0 ≤ v) as Hv by (apply Z.mod_pos_bound; lia).
  rewrite (M_bind_ok _ _ _ _ _ (compute_expected_correct (op_char o) a b m _ Hop Hm)). fold v.
  rewrite (get_expected_bind _ v) by done.
  destruct (decide (v = c)) as [Heq|Heq].
  - rewrite bool_decide_false, decide_False by tauto. do 2 eexists.
    rewrite (M_bind_ok _ _ _ () _ eq_refl), Z.add_0_r. reflexivity.
  - rewrite bool_decide_true, decide_True by done.
    destruct (array_form_text v Hv) as (text & Et & _). do 2 eexists.
    unfold mbind, M_bind, incr_errors, gets. cbn -[array_form array_fuel]. rewrite Et. reflexivity.
Qed.

Lemma verify_loop_operations fuel os m mod_raw er ex oc rp :
  Forall good_operation os → 2 ≤ m → (length os < fuel)%nat →
  ∃ s', verify_loop fuel mod_raw m
      (St (concat (operation_lines <$> os) ++ [lit "Done!" ++ [10]]) er 4 ex oc rp) =
      (Some (Raise SystemExit), s') ∧
    errors s' = er + wrong_count m os ∧ op_count s' = oc + zlen os ∧
    last (report s') = Some (Verification_done (errors s')).
Proof.
  intros Hos Hm. revert fuel er ex oc rp; induction Hos as [|o os Ho _ IH]; intros fuel er ex oc rp Hf;
    (destruct fuel as [|fuel]; [cbn in Hf; lia|]); cbn [verify_loop].
  - cbn [fmap list_fmap concat app]. eexists. unfold verify_one.
    erewrite !M_bind_raise by first [apply read_line_done | by erewrite M_bind_raise by apply read_line_done].
    split; [reflexivity|]. cbn. rewrite last_snoc.
    change (wrong_count m []) with 0. change (zlen (@nil operation)) with 0.
    split_and!; [lia | lia | done].
  - cbn [fmap list_fmap concat]. rewrite <- app_assoc.
    destruct (verify_one_operation o m mod_raw (concat (operation_lines <$> os) ++ [lit "Done!" ++ [10]]) er ex oc rp Ho Hm)
      as (ex' & rp' & Hone). rewrite (M_bind_ok _ _ _ _ _ Hone).
    destruct (IH fuel (er + if decide (wrong m o) then 1 else 0) ex' (oc + 1) rp' ltac:(cbn in Hf; lia))
      as (s' & -> & H1 & H2 & H3).
    exists s'. split_and!; [done| |rewrite H2, zlen_cons; lia|done].
    rewrite H1. unfold wrong_count. rewrite filter_cons. case_decide; rewrite ?zlen_cons; lia.
Qed.

Lemma search_digit_size_skip fuel junk l more er ds ex oc rp :
  Forall (λ x, ordinary x ∧ announces_size (rstrip x) = false) junk →
  ordinary l → announces_size (rstrip l) = true → (length junk < fuel)%nat →
  search_digit_size fuel (St (junk ++ l :: more) er ds ex oc rp) =
    (Some (Ok (rstrip l)), St more er ds ex oc rp).
Proof.
  intros Hj Hl Ha. revert fuel; induction Hj as [|x junk [Hx Hxa] _ IH]; intros fuel Hf;
    (destruct fuel as [|fuel]; [cbn in Hf; lia|]); cbn [search_digit_size app].
  - rewrite (M_bind_ok _ _ _ _ _ (read_line_ordinary _ _ _ _ _ _ _ Hl)). by rewrite Ha.
  - rewrite (M_bind_ok _ _ _ _ _ (read_line_ordinary _ _ _ _ _ _ _ Hx)), Hxa. apply IH. cbn in Hf. lia.
Qed.

Definition no_modulo (x : pystr) : Prop :=
  ordinary x ∧ slice x 0 6 ≠ lit "Modulo" ∧ slice (rstrip x) 0 6 ≠ lit "Modulo".

Lemma search_modulo_skip fuel x junk l more er ds ex oc rp :
  slice x 0 6 ≠ lit "Modulo" → Forall no_modulo junk → ordinary l → slice (rstrip l) 0 6 = lit "Modulo" →
  (length junk < fuel)%nat →
  search_modulo fuel x (St (junk ++ l :: more) er ds ex oc rp) =
    (Some (Ok (rstrip l)), St more er ds ex oc rp).
Proof.
  intros Hx Hj Hl Hm. revert x fuel Hx; induction Hj as [|y junk (Hy & _ & Hy') _ IH]; intros x fuel Hx Hf;
    (destruct fuel as [|fuel]; [cbn in Hf; lia|]); cbn [search_modulo app]; rewrite bool_decide_false by done.
  - rewrite (M_bind_ok _ _ _ _ _ (read_line_ordinary _ _ _ _ _ _ _ Hl)).
    destruct fuel; cbn [search_modulo]; by rewrite bool_decide_true.
  - rewrite (M_bind_ok _ _ _ _ _ (read_line_ordinary _ _ _ _ _ _ _ Hy)). apply IH; [done | cbn in Hf; lia].
Qed.

(** From the line after the digit size to the first operation. *)
Lemma reach_modulo {B} fuel junk modulo more er ds ex oc rp (f : pystr → M B) :
  Forall no_modulo junk → (length junk < fuel)%nat →
  ∃ post, (line ← readline; if bool_decide (line = []) then exit else line ← search_modulo fuel line; f line)
      (St (junk ++ (value_line (lit "Modulo") modulo ++ lit " + 1" ++ [10]) :: more) er ds ex oc rp) =
    f (value_line (lit "Modulo") modulo ++ lit " + 1" ++ post) (St more er ds ex oc rp).
Proof.
  intros Hj Hf. set (line := value_line (lit "Modulo") modulo ++ lit " + 1" ++ [10]).
  assert (rstrip line = value_line (lit "Modulo") modulo ++ lit " + 1" ++ []) as Hr.
  { unfold line. change (lit " + 1" ++ [10]) with ((lit " + " ++ [chr "1"]) ++ [10]).
    rewrite !app_assoc, rstrip_nl by done. by rewrite <- !app_assoc. }
  assert (ordinary line) as Ho.
  { unfold ordinary. rewrite Hr. split; [done|]. intros E. apply (f_equal last) in E.
    rewrite app_nil_r in E. change (lit " + 1") with (lit " + " ++ [chr "1"]) in E. by rewrite app_assoc, last_snoc in E. }
  assert (slice line 0 6 = lit "Modulo") as Hl1 by (by rewrite slice_nonneg).
  assert (slice (rstrip line) 0 6 = lit "Modulo") as Hl2 by (rewrite Hr; by rewrite slice_nonneg).
  destruct Hj as [|x junk (Hx & Hx0 & _) Hj]; cbn [app].
  - exists [10]. rewrite readline_bind, bool_decide_false by done.
    destruct fuel; cbn [search_modulo]; (rewrite bool_decide_true by done); reflexivity.
  - exists []. rewrite readline_bind.
    rewrite bool_decide_false by (intros ->; by destruct Hx).
    rewrite <- Hr. apply M_bind_ok. apply search_modulo_skip; try done. cbn in Hf. lia.
Qed.

Lemma checker_counts junk1 junk2 modulo os :
  Forall (λ x, ordinary x ∧ announces_size (rstrip x) = false) junk1 → Forall no_modulo junk2 →
  good_digits modulo → 1 ≤ bignum_value 32 modulo → Forall good_operation os →
  ∃ s', check_file (epos_output junk1 junk2 modulo os) = (Some (Raise SystemExit), s') ∧
    errors s' = wrong_count (bignum_value 32 modulo + 1) os ∧ op_count s' = zlen os ∧
    last (report s') = Some (Verification_done (errors s')).
Proof.
  intros H1 H2 [Hne Hd] Hm Hos. unfold check_file, epos_output.
  set (fuel := S _). assert (length junk1 + length junk2 + length os < fuel)%nat as Hf.
  { unfold fuel. rewrite length_app. cbn [length]. rewrite length_app. cbn [length]. rewrite length_app.
    assert (length os ≤ length (concat (operation_lines <$> os)))%nat; [|lia].
    clear. induction os as [|o os IH]; cbn; lia. }
  clearbody fuel. unfold main, initial.
  assert (ordinary (size_line ++ [10]) ∧ rstrip (size_line ++ [10]) = size_line) as [Ho Hr].
  { assert (rstrip (size_line ++ [10]) = size_line) as Hr by reflexivity. unfold ordinary. by rewrite Hr. }
  rewrite (M_bind_ok _ _ _ _ _ (search_digit_size_skip fuel junk1 _ _ _ _ _ _ _ H1 Ho ltac:(by rewrite Hr) ltac:(lia))).
  rewrite Hr. assert (py_int 10 (slice (remove_char (chr " ") size_line)
    (find (remove_char (chr " ") size_line) (lit "=") + 1)
    (find (remove_char (chr " ") size_line) (lit "bytes"))) = Ok 4) as -> by reflexivity.
  rewrite lift_bind. do 2 (erewrite M_bind_ok by reflexivity).
  cbn [rest errors digit_size expected op_count report app].
  edestruct (reach_modulo (B := ())) as [post Hreach]; [exact H2 | |rewrite Hreach]; [lia|].
  assert (find_bignum 4 (value_line (lit "Modulo") modulo ++ lit " + 1" ++ post) = Ok (bignum_value 32 modulo)) as ->.
  { unfold value_line. rewrite <- !app_assoc. rewrite app_assoc.
    apply (find_bignum_text 4 (lit "Modulo = ")); [done | | | done | done];
      apply (bool_decide_unpack (_ ∉ _)); reflexivity. }
  rewrite lift_bind. erewrite M_bind_ok by reflexivity.
  cbn [rest errors digit_size expected op_count report app].
  destruct (verify_loop_operations fuel os (bignum_value 32 modulo + 1)
    (value_line (lit "Modulo") modulo ++ lit " + 1" ++ post) 0 None 0
    [Digit_size_found 4; Modulo_found (bignum_value 32 modulo + 1)] Hos ltac:(lia) ltac:(lia)) as (s' & E & E1 & E2 & E3).
  exists s'. split_and!; [exact E | lia | lia | done].
Qed.

(** C26 The checker's verdict.  On an output of bignum_test with four-byte
    digits, whatever the lines around the two announcements, the script exits
    reporting as many errors as there are operations whose printed result is
    not the one modulo the announced modulus, and has counted every
    operation. *)
Theorem checker_verdict junk1 junk2 modulo os :
  Forall (λ x, ordinary x ∧ announces_size (rstrip x) = false) junk1 → Forall no_modulo junk2 →
  good_digits modulo → 1 ≤ bignum_value 32 modulo → Forall good_operation os →
  ∃ s', check_file (epos_output junk1 junk2 modulo os) = (Some (Raise SystemExit), s') ∧
    errors s' = wrong_count (bignum_value 32 modulo + 1) os ∧ op_count s' = zlen os ∧
    last (report s') = Some (Verification_done (errors s')).
Proof. apply checker_counts. Qed.
End verdict.

(** ** Witnesses *)

Section witnesses.
#[local] Instance ascii_here : Unicode := ascii_only.
#[local] Instance pow_here : NegativePow := λ _ _ _, Raise ValueError.

Example find_bignum_round_trip_witness :
  find_bignum 4 (lit "a = [5, 1] + 1") = Ok (5 + 2 ^ 32).
Proof.
  apply (find_bignum_round_trip 4 (lit "a = ") [5; 1] (lit " + 1")); try done;
    first [apply (bool_decide_unpack _); reflexivity | repeat constructor; done].
Defined.

Example array_form_round_trip_witness :
  ∃ text, array_form (array_fuel (2 ^ 40 + 7)) 4 (2 ^ 40 + 7) = Some (Ok (0, text)) ∧
    find_bignum 4 text = Ok (2 ^ 40 + 7).
Proof. apply (array_form_round_trip (2 ^ 40 + 7)). done. Defined.

Example array_form_diverges_witness : array_form 1000 0 5 = None.
Proof. apply (array_form_diverges 1000 5). done. Defined.

Example division_verdict_witness : correct_result 7 (chr "/") 5 3 = 4 ↔ (4 * 3) mod 7 = 5 mod 7.
Proof. apply (division_verdict 7 5 3 4); [exact prime_7 | discriminate | lia]. Defined.

Example checker_terminates_witness :
  let lines := [lit "sizeof(Bignum<16>::Digit) = 0 bytes." ++ [10]; lit "Modulo = [6] + 1" ++ [10];
                lit "a = [5]" ++ [10]; lit "b = [4]" ++ [10]; lit "a + b = [3]" ++ [10]] in
  digit_size (check_file lines).2 = 0.
Proof. intros lines. apply (checker_terminates lines). vm_compute. reflexivity. Defined.

Example checker_verdict_witness :
  let os := [Operation (chr "/") [5] [3] [4]; Operation (chr "+") [5] [4] [3]] in
  ∃ s', check_file (epos_output [lit "Bignum Utility Test" ++ [10]] [] [6] os) = (Some (Raise SystemExit), s') ∧
    errors s' = 1 ∧ op_count s' = 2.
Proof.
  intros os. destruct (checker_verdict [lit "Bignum Utility Test" ++ [10]] [] [6] os) as (s' & E & H1 & H2 & _).
  - constructor; [|constructor]. split; [split; discriminate | reflexivity].
  - constructor.
  - split; [discriminate | repeat constructor; discriminate].
  - discriminate.
  - assert (good_digits [3] ∧ good_digits [4] ∧ good_digits [5]) as (? & ? & ?)
      by (split_and!; (split; [discriminate | repeat constructor; discriminate])).
    constructor; [|constructor; [|constructor]];
      (split; [unfold known_op; cbn; auto | split_and!; assumption]).
  - exists s'. split_and!; [exact E | exact H1 | exact H2].
Defined.
End witnesses.
