(* ===== verification/Literal.v ===== *)
(** * Long literals of bytes

    A bytes literal of thousands of lines as a list of [Byte.byte], written
    the way the source writes it, and its value as a Python bytes object. *)

From Stdlib Require Strings.Byte.
From stdpp Require Import base list.
From S2P Require Import Prelude PyStr.

Record text := Text { characters : list Byte.byte }.
Declare Scope text_scope.
Delimit Scope text_scope with text.
String Notation text Text characters : text_scope.

(** The number of a byte. *)
Definition code (c : Byte.byte) : Z := Z.of_N (Byte.to_N c).

Definition bytes_of (t : text) : pybytes := code <$> characters t.

Lemma code_byte c : is_byte (code c).
Proof. by destruct c. Qed.
