(* ===== verification/PipData1.v ===== *)
(** * The literal of the pip installer, first part

    Lines 169 to 1514 of tools/eposiotgw/get-pip.py: the characters of its literal
    [DATA] as the source has them, line breaks included. *)

From S2P Require Import Literal.

(** Lines 169 to 314. *)
Definition DATA_00 : text := "
P)h>@6aWAK2mtey7Dt5400EW_006Ei000jF003}la4%n9X>MtBUtcb8d7WBuZ`-yK|KFd2brwikWo_B
;u!rn<*pQ}JfvyeG_Vod&A;=bObCD&Dl#;mHzWcj7k|JfvSvC!;CGmK7Jl_3ycgo4LuUaL)T8i>3Uf!
{K-)yULvX<43rRlnDTFKLtiCtaEhGk1t6>Y;){XChN_eHhYh;m~eE7jfAO`S=_?el#mOCVI;OttT5C7
)=ywWt&Ru;O(is#00muS(TqMUmmlODQWEvx{oC%gWq5U5T3R9Fw*YMK^!Ln^b5XJWq3>8Yz}7iHK>im
euCS+?>~vuSm3`xLY~iqKVm#%T+5yR>VxT%R4R=kjHG9ea<q;*a<7E-!eCSnJG@Tk(SFvRj$S6EiL<s
Mq>7%&OvOsdBN9NTQurtUeqruxyzb{dn;XOOY|12T6iY~H_KCECyGp_mh|{!`wT`}HI6L3<7HmSMDpK
St{Rop+3GgiaFw*OD8%yHkxdIH3@+F@4yNJPdge#%1o0%AOeQBRQ%Y>g9WNWUt|VI**)9J!Ybv(nY@5
~f9*N#>g<@;*z!l3_4crO=YisuGe#=WE4S2FUk%8apXYkt@aA)_NW#C*VOq8O5{SgW&n=Qv>v0at71&
`U(F0?blF0b@zrVNBjT!IpJ$Ox>%Kr;@T1iRXxviFs|W#B?Jm&G0=0sjo#TQn`XO=7*A4Bl~`xLY<q9
HV7(W;_X3(kh;7-kd4kv~^PNNf~^RSKyE<@F93PNmDZoj4)@@?~=3Rn<<zZBNaSuZbLQ!*LY3u!Za<j
9Rz!Xf`1k{C$5Kk_Y>_MBV(C;pV+8Q)}jEnw2$Ew_O+6H8Z(F;zNzGXKJE(W2svM~tZgdrzPjKI52JH
(p6PUI;+$5hjl&ET-lEf>rn?L*V}?y&g>Ht5h#S5Tjlu}++`dPZOo;BX%$5ab%RN(7D_6MWs^qL%lPF
KR+VY}cY9&PtY(t3ZEdzx<t1YlH`qS?Tdr_4^W9M=v*0`S%d|cssk^|d|98!OIqTrenObD)CU8O&Lc>
gxNc>BxM>&y3-0XZP9TqOYDLRO`=8(tE8M3(fp0td~}$sFBHfK1YlZ?9jx3l@p03(<tp&Dr_F&43A_Y
{J2$3!D`!v{4(mcQRpjCC2jHh`iB!X6#I})gS?WmGcL}>#?apptr%_ra8NT;Gpe>Uj$jiH;T0$+=Y=A
<l^dPVRpc=8|v-GC=PJiJqf!<3C4V|1@!3YwYd5EFBdlC{RX^AFVVOvm`ieqk`&!I)i1+nptoI>b%+D
bP9#hMm;|(g*i-zR1>mQ3;Bx}M1K;T}9B0brb2Htsr&aC2D;~gS&Z47Y0c<fnSiz}_J7tbvhR3fW>$a
tN%lw^rM3HVnK*5aOZ~P{K*RoOfqS=PQEQtErI^mr|*sEBf`3;kzy6-G+FH{s&w!U^Gj|gd@X;l{c`F
q*&0}afga7uE^_rAKtDx%fcF&oq-gdik`ta^(|@Hi^-&@$-je}ZxWxFnr~xa)cYy6G`n;}$I8M90Hy0
J42cuHD3;TE49wA;YVdh%HDQ4aR-v8i^y^Fh5PXIdGMQw}Tc4p2Nn6@PKDt3co3CUAYOP7)g>clN&Wu
#I6ZQ`jMaLAWby;6g@qK#g6aOnnYj_v1juxEl%EjxVpN&eD^N>`SSJEV&a97K1x~DLdqcdov2y`5k$e
Y7QDj&eGq4N8RT|&U>!y?&c(G73_ci)59UDxs71?q=((B0>czl(XuXG+-9<Fd+;&GUVdI1K+fM9aWJ!
h|&Q=TfqO99yRN!qV5bqAe-TEP9ctuX4*){ZJH?QxB=mlUnUa+|#uxReo){(`)Xf8A$soaXymSHX|D5
^H<Fh&f&vysqsV!<bYagRVpMMt7Nk{7BE?%V2KXFTTouzDf*=%l#hE3OorkUpXwfl5qSMu!G4YJExge
ov+rtkcGhZDiHfYB6A7(P|h$(U`EX(gGT@kNV`O2w@rz9`N!rhUcW`VYEACk=1CpdIl3u4_du(0Sl5}
D^Z3w4=%ubtuRhT9XHa8?;#(h#bcSlxtBboxA$PB-#bNuRzY1Bz@h)CJjJq>{l`fEf!!EKSp>18&+<I
QWu|%%X1>h8;XI19tvO-r(V7&{)XhR9Mm07?waf}%B5DOAw(hpG{yfNuh9z<M<(J)}Bab+NV+0Wp&Su
a8a1vhTDaK`JJOrw%w7%WIaUpdYTxZP|rb*N?JocO|75+kXgo!v*M^R6zEzTf}v2;8&fDFH(Zl%C&6t
GiM3FGCJX0fkSOgnGJZqC157`*|3a$VtVc*!NCRzAqXJB#nGbWC<oL#KWahTfoIqX%NMlHRJ&A9}N`l
*r$ogz#t1Fx4SUsz^(Um(E|<ZCTwbyAtim_UNYUkg7?{8MrQ@Y_?%f^DeIkNe6j8(RuR_mx5ryp2N@S
?3?ct7@uq}V)m<vd$^+$?~wbV=Sw}F5Je`Wz4yivy23K^Ot{hmS}UZC;=J$DqiMb|&zq`&oY|0K&aBu
YZXH{TORgXeb#W?`H8m!5LgAT3r#?}d4hWrBSlCr#e#Mp?Ohx7Yu>QdRIXEdeH|`vsONpTZ41gji!<_
Nlydpv8upP5mBX%6Jnfbqhm<2Y4huhf<t6;o)_2$+4swz}q%QdT5YR~Q-BjB{~#iVpb0?AXDA8?Kx2k
gUWFQ6Z7Yn>VzX|tILQd@)_Ftai2)qfD!s>wm?<X(z~hkf*jjuQe56{6&d*L@;7AUcf@dj9x>ekl58K
j_1VK;6U%=!wahTPG%Q-4mvRU71IlT=3EjM>u%qr2^JOhf>D%qkfh1Ap}?*<GZdP_BEMUg}ZTE4*4m+
Q)bgbqGRFVpv@Ut9$ucXQyYScwnT91*s|%Vnj&7<DK2rrO-3R8TnPBsOeWZ6`z2@ls%1N#K}u_R(KJu
C%mmop?_5L1Fta%WaEu)6Lja@YC|EI7z+#|p%Fc>Jqpf&j`#0uwBKfYm<A;VY$YtNg9lcFDwtRJ)3RM
*VSGf;m_8rKhG@;wB>1<}lrnp@c{LY4M8lD(EE$o<)jo?TU=h!E)V%G+?6m?G=W3zU2JGi~029`0QY2
#I`WG`F~pMA8SA&^QRKHXqy+LyQh?{)Ix5|X})pWeTE`{tdK-L*c!?*R97i4#t9of=K!G0xov>+GhLT
0xJpV{6*r3X7y>3rF#0%XAA@nZwU1XkgDuNj04f!hUOYGSasjID$n&ca-^kF8jF!`_k}g0CrqTgJILl
>+84I=WrNLAs~QufOn4eQM|LQfMY#?E^b5XPxAvWwo5ZfoQ(lf(39JBB=m9O<ey(Sn|*{;>3%uqpE)&
iA;4Be27vWaR-bu!txHJ!{t;HoU-_y5e>a=E#%~#LWT$DUc(IO|-XN$tW5#pQpmWEhKFn70F!B%@CnN
@3JHYJ*fCapVfBUa3Qy8<ieF7`X*dA}SvME;lk`q&;s$r#}3}!O?ls}KY2(-b|9CM!$vhbU)KjrQ}nm
{vtBwOt`pkLlu1#@g_y@jg+&ThP;NCPD1<!TR=WO)nk*8(!UCIc8Dobrr=jXIOv*+jpDj1_y9gUp{=Y
IZ{8+|o0J*H0Y#JP5bu8=PFF((Si@yZ{YVs@Q_#rim4HQv2tQw@ZYi{#Y-j?WK2nM1xS9&dTvj)-S}n
-uA&a*g^0+10(n(28+VMI9^lDf|?beHhq+<P)p`%NbvmMi+6|u4adqVX47$Y*uq36wu{-8ouPC&0&on
<4kizKe%fBtqxWCKHsQ$N0Qx(N4lb&;&~57+pjhqz?SN}tDbZAN?>rN-d8l68-aJ8V>yb7o8CT%sggt
x4o~TCfWNT5FWUA*~Lt4*ub?(p&^cq}`lKvf;*f3QZ=@Po{jRLZ8{PP7!b!kwixs?9WGvuO}7(*s-Go
8=Dec<2ubP=;pgM|f`4=@AMn=_hA2^+El_k~H{cbc5a?{$A1Z!tq0^3uv^T<b5#wHrG9&K8FhP+K;uE
h2QG5`)W$;+b4+!$HM?SFQ_EZ<2xOM`s~ub;2-*>bMLeL*11Y*+9er)`bBK2SZ=M4?u3-_$LG;@W9-o
4<nLc2giefR*w*PeDv^C8KoRm9)ru*Z+rz$0S&wYleC^gWnUs|glgpPAOoS2Fax}O{6of*5Q3xuO1ym
azh5pvT!$2$#1Gf6O?uq34I83G$4`Hy2k10^HF7>qJAxPkVE6}%u_qTE4|rr*Xu;+P*iNnYy))-jokL
_E<>#kOk1LOtA1C7r(LC=kGAv=D`)+6BERWm7u?l`aRevJBxVZcarjKM5jy1w=aH@VhRVRG2nVSaNQC
)ohKOSVD@$o?fBoL)DqVbP~c)7PWt1pz!-D+83TAe<cJlk{=+@uk!gM70u-dWzH*CeH*af(<-bwCQ4Z
oP*DH~Ex*5$JT@k&87OaS|_uzd6_2NFNVE?@O0iF{Sxl>7W{EDhE$zy@j?2@P+p(fW8uD-)G!(RQ;Jo
xa*Q)S2yfc3lX+tL7NbPX@O5j4F#4!HT9nzQTr*?ebLnXr9oHuQDp|X_x}M<O9KQH000080P~d=M@vb
hWitT)07wD=01p5F0B~t=FJE76VQFq(UoLQYU6D^u!!QiR@BI{(c4&u2#~En{j$9G<D748MktQK_Rrc
+%vy=^T%Afb1?O$w;Gbm*jTC!0J+?--2&>tB6LPlNBO;hh9ZachS)9m2Y!fHTg19=I-g)>-5)UZy*_y
g#11e(nC2o%NFCruN3-zSHly^kvv&4T)DAYEvR0g_9P5B)m%Bk#ZkBv#&T8)v!gq=!%TaNnmBwC!^Py
mm5=^JN<Rn{!lZ)-EX3r%TmZmyuv}Iq2EIAVrX}O9;_Idv9nDfM$qcya`0Xv2D$IGq`vX2r{8mm$6DP
huttZLgQ^Uy%a*4?%@DN!8+)$eF#@6`to|>e<-@X_TBwIZv^)H;@Wb1=4di?Plpn;|NU2C%)Ny8rJE~
SiK$#S29>XbnQuoOn|gWaxXKSuO9KQH000080P~d=N1nacs-_D70C_0@01^NI0B~t=FJfVHWn*t`ZDD
R?E^v9x8f$OcIP!ab1))V?Y2mutI~;HbVC=O?x@&Ce1bMW32ns^BXq#JE^pcbl-=hEhX86#PN?P1LP9
GA9oEZ-1J*1;3dXp+fPQ`Yc78zOQsZwKtuaf1dX7FE>niot(QFOGDVoNApmAaISQo^@8AvH-CO5~+x)
P5fwx$#`A*SuK!PoeyqI#jP>r+2AT%zr<mvH%=)WEb1<onK|S%>bB-LRC|fTr5*F<bh;aAUZ9Jj7hrZ
QkQAYihYfeiH9N=Y34Dm`0j=&1w?8X_PAub7Tx$wnmHkj$*fR1&2zKzxs*bV$sMfP9XujWJdT({zmja
vMXBDDJkQR!G{Z^F&{Ax7sU~f?(u^<lsVG)_T|+KFokpP2LtBVTv!5$71MKcHV6<4Du~k~;TK&lK-CH
5Isn$%^#3cLGQ*nE~X1|tPvMnq0n3#2_tcMz!0cc$+x)d3!g=i#lb9Z`reseP>=hxSl*TBpCr}^cFId
z}!XV<rPuP@H$@9F&VmcG5bo1a-xUR|HRpIzSF&^LFpi!*vQyLLE74M~Bq=GB60rs+<K^_Ud6xt#xpQ
IO-N13t;vPBLpr9`%}S#hzue0_@|TAFNS!(VQM?5oI6)7zjwxB7iGp#;F_z%+NiPXnb_JVarcPM@N)`
n8CNE<bLFgWb_fnaWPQp)N6kNo4YV$F{MSi1%FHc%y_W3u2?L7VN0Ey82KR(;Lk<D%y+5Mb!%Y5GuQ!
)yiIduhhQ<Pv}Ea4!FU|8M}6}0CHOBWID_p(W6~aDQbxcB;%00G!GafDQyMFluf~K!pg;jk%?ge$e5}
dRPY<xlZ!O0e88$~J1Sw3+N87VTs9~5N9V>FIM&y{pUhi=-wrIHZq=UBdS_0fB{UPpRrddWe06}d$0(
`Tb4iv8G*~a(IH2B3*a!<fOQJRS*r5!*oGl251HN@wm>eY~Nu0IWUef;gWm6Vej?Hg|_il~h!^Nhguh
>NsD3!*n%xo@(DY_O|PVbBavXIZELyP{D;we!g`-EnQ)FHYM0LQqF3qH+05FtH?lK+17rQ{(n}tu4F;
mi2~#!xv1Zxo5wEfN{S}okk|x^b>PBq=s<Zl6(Ww(X~)*{WLkOCX$d=CTKUU<vd$Whgo0>pvtBs=QfU
wF(hRzIa5<~*)h?4%fJWCSHqVaF6_0=ZJnK^5N)P$FG01VWGvJK|4)7qyokLh3@)S|&_}e<dKV>0j}B
jv9ynp(B6X~(B-NIt-=O=Cl&V(+{AokM((+3<fHomW$83pJ%0?)yrXE(yQh@{6(Wbr{#`GgNL(a$&AR
&4$(-(^p2NW^U9L=l*ZB_`)%`&M^I@V#tKY=LER|jk56=-15o0|(L!Z_p+f)ISgAuX}sS_X;^FNrhF1
#9@gy3UkTXeBpCg!EwH1wGu9^exNJ0om$xNS_X%Z6+ZFnGgp$&IkniM=*g9_c(P3GwiT>DF+{G+b3-@
{gTdrsi)ySH+er}kWsc!P$Q2Iu!*!l?zcN#Sr&oJMA8yIp_*`235<ZSx-LFJsEI|#LS$+r>RBlSB;Q@
xP&ar=DGQHX2OV3;rE;xYz`@r>MEQoS(xnzCY1AC@rx{du3!Za*=##HQUW2lsS+BWGc@bW%igq{-d#d
U62z7J~g(&M7XLpuNr{vX1Pmej<vmDlnKD@r3&*ncw&l36D6GTi|+9rV({shM9_3U<b`ud_qVtHd#2p
<d4B~T%soxi#Jp@}&NIh((|jB3&K8;Q8>36ZN#!N6a&jXKJ>N*6h!?2#)pK57e8^o2k*6s>r!?QFo;p
x?^Nj8WhG1)&UNoWNYvE5Rr4(#H$j<Xf{$6z;tuBL^Vhv7EB|(4RXV+}(^X4F~qaO(*coF8b}l0M~Xk
!03n73g$T8f>T3noTz9J3Jj_lAF#G(kGq^Np+YyJQG=)^Ku7n-v4J!7m-<MaT{Zb?(QZs^9}+Btd?<n
0uw*L@<NpD9nieT+MyDbd66&Aq#`HWk(F~fCZHyvUy*FB=`|myu>9TTz`@Yo=B6$Nrrk!m)E7+#ID8u
uFC)~=5tqOmCo#<Zu{!+lCis9)C_HRS!*YExfL(Z;+Hf<zCA@+;_zz`U^QKNJKTA1gfml@l?EXq6|!p
&Ho9su!HmhATwR@WD$5aA&9oSQYhIEVBQTeFXC+j2i3UFX|F!f%`M092*wX3j>zR^3M*@ne!aDF-OpY
_20|aqzi=ESTbWw&gsAlm)a13QM|8x@W`~l9f+~m?r@02b$T0+-{gMl^<CMy)nl{bkB+mtH8qcwTo0T
bAF>b#7rr+!7>uiA2tlYlz{RX>dUh5eTyh1s9_;fY?CH!9oJbKi-3NH3Fn;td4_+&4rZ5fMl+no3|O!
N>pq}eTh#CZBB?2B#=h?Q_#~#yWSx?!`vme9K7ruUZ+=lF=0L=-*3c$$2vw5?Rp2Y0n?ez-@V%5djQ+
jDdV`D4;et1i!rPUf&n**t=?gx3@d8M^@FZSX5@5j!?3)$DAB;lbkEZy*^Bg9i&^L#pefdSW>6F+D0^
*9tNx)e{$E$6qR>yaHd3Je1v^?N})S8)I3DmfQc#N)uXZm$_zO?6A-#75BEV$la`y!bV()3F}OsEMf_
FO`b1z#JHXO{LPC~x0VwS`>MxF223uIT)d&gNHlx1*1EDE4X;BxUMmMWL^P&!_2~|2(_7y`is9Z)cZt
OO%Y-r!p;SVOw$M^k|IxlTH|!tw3uyfnB)+%!oOXMiN|`J{1ylo*&QvRsupxw?)F*a_IggP6Ex32|bg
g<k;rs;jl0|HD{7Ydj)w6%#h$F_r@k``Xu&TCzH_^I4Pc1gUoasx^8I54@|Cec3|!`d{+wFja%(%(h=
<2+0XCJPYB4(n`L#(>bhmv5HjKjchHT~ZNL$^IWNgf{^ZKsH5E(d&rk}+GUK9$Ei~y}z0~lrT?9xJI-
n5WzqdKDmto;6DguE5<~!YHN3T%X#Q@YfCv;F5Ta@c~bnb85fHhmYpjV8>NS)%)6pNjPVjBDo-3xVh5
P#vl9jWj7lK+bh26xlEK>Q*uM~2J^-jSG9|5R>&VuyuDB?Nq^17*3>&+vM=W73{{EzxjuD3r+JV2;N|
e<tJ4iPSImg-f*VIx7GOY#3O(LHX2&-v>65SRk5|1qlxCfRy&>m57zOCQtV%&#|QJ`hVPP`u(v@@9NR
Sn&uf}^MRBL-Gr=TU1Tz0#vY-1v3Gfac!CMn-E6gQH3sW0Pk#`=-w%8@4B~G^wvZnGG47r!C&r~6BYl
?f>4_$G;7RW!)!k)R_pXiWaeoEtBgu(H{uf49zT7gXMQjE&2e4vSqE?%i=^!l~cfM_sX<P_lP8>QoYC
UcXV_UjoQeinYmop8;;cq<r`@2-CO`78^7&H&iPngqKNE`x6g$7$dSx<r#un_ibF4l$BO$7YWG6hndV
igh0PY#N}PYc3E<LQSbP_JZs(u-^Aq~<xAK52GNa??tJ4cSe@a`aC}d*%YLF^1Z0*i>WtDC?7>uOZc2
yZ?iY30BAybs3f=kQ>_;xxT0OI`ac`E3yG$4~XTNVl2G>s;tep#&GpV3B%JL7D#X+vp*A{`(=Hz*cb~
V{Y5f`N*rYa(VC*Ow0_-TA;MnT^u0gWO`q|~o(F!7r~+OYk_m=~|IvM22V}0N@Eosa!#LPmyThORk-~
5O*CY7vb2p)T$|x}O=TEA?$*sccz<Bg;QIc&5)xw(ZA%<&`vlPDYfT$V7A*%P=CijevV|(CF;%$0>?(
cv!Sqf-)yg{nzrzjXU6BT`*jL7j2oH>F*5sZm}pZ5CPddo?t+zwx`eWe(NcK`ya#h@6oTgP7kRpSwEj
o9CFG;v+k=#FAyU@1BJFHlPZ1QY-O00;o{l@>?ZFvLBk3;+P(C;$Kv0001RX>c!MVRL10VRCb2axQRr
omy>g+_(|`?q5Ny5lBkc>LrJMG3rCpyxbWmF2SMc7snO25_gxiBnl+8>%F4?y)%4~NJ(ouX9Ui!G#t(
h=jEB9SF6?EsbWNQnv0fnR4OKkV!H2EtJTF;iiQ-$w%5I6ML~Ge38@L)C{g#C754kZg?p|}%6|lghS~
6acq4~rnmy{Hq@CTS;!5|L*DA-~ek-M=78@bz3rp4UE-wzOt%S@Ke+<ZYyDRjmV``BwZ^VHqPhN_4%X
e1Wk-QcqMKcU!=>>tGn(b(LD(sqK%WJlF42liduB8n;kbT>t1btgESsb|3J*`=LSQ{3KgRuez>LMGrH
A)Yr?YfFfwI(~J3(aK1TUr;2|IRKhE(&1CrD%&zvMqlsBqKLq&%6{(2V7IR`uCUHFU4w&4{tMAQPxx`
@<lSOPrtCb`y^yTHSkUS0p+(KajRJsz0R(U+~5Q6NQbLAlYa)e6*(}u5#TX<ASYW-kDrD!&(U?v`igD
AeR#`tQKX91+ckMj<qp(){rcgEpWH_Hb7^^Y0<4A3*z`)14I{MXyOvet$n}2UmYbbmN0nDhm696=9(Y
;icS%DZ3*=gOuE{-^?8hHwgxpvGn3s|@@X64<nUNiNrT6CD?0nMf?uUDFMcxjJo;Gp*jA2F#S}PYeMh
ole%B`{w11rK|^|B@SHZPV}+OKPpkiWiCKPB)1{ssG;Sr%@%Ce4A$ZKH1nCU_RCyD_{*anKd~=ijVo6
r!hT=oL^?Nx>|nhR`Qs>$8yCkkGaw4bv2MQu)Qe<{FnZj`*4o$W=AN<*C}c)UzhFXm|K2TN9S=u1T6)
ZBewVE2|vnJK^UPy7pT-vpZ?vVA+Azy^)tHPfcEV@&)lgK@iWWDdeI}kPN)(?tavddqd=fQ3%gLjTZH
*a!3`B-qJZO_+hrh4Q=v5W&`Pz7vwY~QW^P)yjkGGTS%!oedGNhThdF@2c`-%Cqzxm#2f#{)A|QCzu*
&ycMZAv2uUnEtH|tp{E9#z7b;1T|3`4A)-3Awj8<^|&imcBKxoj)JtQ|bB>8M)R7tGWu+wyJzw}Qex&
GEBv)y||cg*c=KA#D#kFA0VP4u3@Z?1@F>l6H9q-DpN!~YwmkBqgJiHR(rC0i&p+6xh?G%#uf3G!>cx
Ot;McanT-zasN%@=Ad!V0n{+Tw+BbRO%}}oFP6<tx9XM0*2YtHo$gfk3be@mEcKKOKL_BpkQCuSgf@a
H30-5LwceG*dtUsco`oco-$RCx24(ERv!uZq@lb`CO(WmHQlfpt@0joU0bOnB4M>+Pb~T{$`P--BuX@
lRH7WR<R10JO2TRFj~nWUqiYi#F$mSaiH^2LhFuEBm}D>7bBm>K*wOfu>S+0gHkWqu>BiPg*65BcxP|
qlCs;o3aiP0R{cg@Ld8HsMy+5bsd}5bd3iBmEGC%M!Crq830hkj$<Jd1Ra&1dG_iFomad-Rb`=pHQYl
TEBuicA4RPYT;h851fg-mDi5#mMjfwyLLuDY6Q>wWjrOtAXau56ATIF8`<YgYkkZ+9QqmiDz)G0a_nz
9Y7M4+s-L_yUyem67bdf$TP?e=#BNaL7ORkQ?D&kDG&jm`p1t0OVR=!3cZoASN)o!`o&JI2KBf&$IXl
PYSB`5xBrXO36wMSsM+qcla8C5v<6)z~doU=7rny92kVd57L#*=bHQqg&{uWfG97lPM)<26JG8g&XV;
rSobM$hm*9&5n6lfQo^TBLF<bMH#}0^Nzr$XIj<g{YBs=_w`MKmEn=DfjH?MCK1y~RI>(_C$-`o2_VB
5OR#m+BGKe2c9MY=16Jf?%AaG#HsA3+?!HaoppZ=|rq67NVU>(N|y{G{1GnR>M@H0boJ^lt7w?<(!mv
!&lSJ-fH_}obsT1A=|4^=>(ch_SmV^ncuGS_pOaTK_VMi9qCW^>(va`c^9q^5Isnniv*_Bif&xgSEBL
nMzOeIn(al@BhO4IA6f_tMM^h-vFh5p+#Dc9BpY0eW(}fp<grawTfhM%<836cX+qXqAl(?f$?eoMz;|
(WAA6v%<u|a9RONEJx#k2|h|DWPywU>B>J|t*z*jRn`X153oTFM;>W5OH1bYLMF1yatXLJ9SO(vaNro
ZgF^F;J4)FvZnS42PXgxBfo9aw`XE>cTtj0ufIed{a7qC|v|-k#DibxbLg&Kig?Amx%%X404m}*1G4w
F3=8{*CNRc~QTskt09}P}MWfd?A51eeN+K0#^Pzbv!2rlcNctB}_^P=~kfBkg(bMfi+A0Lz1!NOTZ91
M$!9a?}Ni%=nKWiK(EqRntnMvlw^N7|muMC|IwD;9^*m@b?vp<UA1_$&*zfSh;Lqvmlywva?ZEwJ)Mz
CA<up`IAXplC<+9<mV#q0->>0^m1t`R+3$eF5&j9Pk9%%FY{|G{nvukH$`lqbG5VzySwi#PqZa>^jMX
<QhGbS~vl~$*>}R$eBN_!F=c$*nC-T+~Ord@A+>3LaCi8kli!#&femWKR^Q=7b)<^ja+l|A+InzNLL;
2R@wUOy6FsfkuaM*jeOViPyqVIf$^-YV2;qTZ#t71urZIo{kg&Obg%+|=1|OX!4u|DCwOh<%yZ42R6U
!<)g+Flk~|koGx`}2up{*$jhjlnh&9*bft}V+lj~qpEl-Py%#E8YH#@8vR*xOiW63%_Ej<51>W@+a=A
jB{;tjyjp%q=dgZ|6Vh_dVf{#T^x&8#tU0i36-p!)<av1Rdqz@$3;F`V5lq4)IwWMcI9HRxU}<Q)KyD
OW~mMa)eF(ge|Mpw4JQc<IXu`5^EuWNxj&%~Z!qoJ>GSS2Ze!K(K`JO|j9z`x-!=VF5Q6Fe&DJl|>j6
"%text.

(** Lines 315 to 464. *)
Definition DATA_01 : text := "vki#26DB#=LOd8=xVH%lqC_uC!*622Ni77||L^|-wr}!Cvk0;(Xv#1SLD)3e)nY?ysF4HmnE0*(F7^x
-Ldq<|rl{t>vjV)ybyorKa2uxX|13KbTbJZ*ehzAWN7;)deo{bx`Gn*6G|NI!-hl%*J+jByepj<c?@0
((bdbCaH|JM3W7wF0aeK{sOk`Z(_}ySjon}*?fQQx(oclPig>8%7D>_pj#dxSre*hSbnx@Q4!gsCd<e
Ltv(u7lBUwAXmVK|!MZO`JeDWXvon$<qR)H0oZ-P+x~Qn(W&WQ9`{GbDhz>p(yGnD25RXs@h`!i!!{b
pdE*-`*pt#A=6;4*=~*TRjXUAn8Iq!ViFB@e41}rzXrwH`UCi=5YFfX!9w<d8>?912hOXXwf7qp!PAm
xv}52h)(fqDf(6~O<tXw_<Q3tO4s<q>e+TUxwq9OImZxwyBXEIq+5zR+q*=?CoVggalZp<2TSf>B2@{
;u%YF{f?PvX;26T++~DQNTtIk<*LdTtigP@7w|7=0UjjvYz%h$0f^OZU5c;1>^2wA7`oIdS$BYEKu7J
7IurQCoJ`2*=PHkb0djYG0j2>tm5)X$FDqwT@LQ@!@%@S(&`RJKLM<YdReSW(Oj_lrg*u^wYp{oq%e7
(#D$lQhWct2rtl@TF3lY22fr$EZ{9Pz|LF<29mEn_GV-0hl5T5)ssRGw@y9{5x!6SmJg=wZ!Y6a?k}x
M!x4V=gyjN4$nI5Ms-1HyxC`vEZQt49Pt1AwvWa2oXVmX;Cox#n#5NxWV7KWL-^5mL`R{PfliV7xOd{
LgkZMq4sHVb+weLEK_*-O5yzieuelkcXx=q!4Uo$J1#q;9{%vrcP3{!5-komMx22sI>9o-WYEJO91g~
yDzvMg=eT0Jr)pro0FuJLP>9N}p`EJX#|d8i2!+fCn$`~yf9_bz%)PsHKrCl7xa5$6ZF7kE+nGSEsap
iIlSRA$W|;qlPOcc0<=)iyxd)s$t1FT&E$cVwYGotX-(82<#M{G#tj*0!7WwRkNoI5@NCS!4&N$sHbH
w~~i-RWK;)F?a>JB~v`SHNC6H4(7w)(TSBO{gY_ae}fLKYD6A)h$SfK59o0Jy7(GE+46xvtiDR#(_$J
pgR~3)!$eJ#fJN`I3u0122aqg9ThVU%mqI-@s|R698ZntG$e|rN=-1FL3aP!1Wx;o4Jff$v1-xW-NEM
n1j){vL^&7$gNpNfBv@MW#3=^&()}fo_MIHZq50tA$JOs12DH)*ao{))TrHb(rx->|F;m(^(tM#ib-K
Jt?=75S>bgpHq6NA;{Q-f0|XQR000O8^OY7yRWz-g0}ucJZ8-n{5dZ)HaA|NaV{K$_aCB*JZgVbhdCe
RBZyUGucl{N_1;a^&bm=w}!;E^EYr9FXG%;eQE0zWa>O@JLPj}bjogHo1|GxJ@-jOF+a^e<ffYuWE`1
rp09{ChS(a5Z2trnuJ8eJAf$YLQ@b=g*CG`d+UQPsN0bd@WyR<#n^h^7<^wbX^`)|5r2refYU;;W);z
7o1HjVu~18zq{x+Kg6tIhT39O~hMRRx4@BLd=yeRxmG{4$-}C)<S0Z<usO6rHVx?GFiZXb-fjUwNazF
YVMUPL?vsZOd={>+0SC73RTOz!`IyF3}`MIRTsGbl-M)tvdtGo+>9z|ka|X(h?^3K5*e)2rcp%$;Cb#
52Va(Do|pGPH3(v%j9wMVXcU1Mmvy-jX}WBiwpM8>^rkB7M##A-^R`hbe;+a2vMsWvEOX<)fPN5H&a<
!~@#7}n5&<tzDN}L%{_5)8<@I&?^78f7)Xt48<h`s55UR1;fMgO~EYv55X*?3}?`nJXYAU`j>y2#A%c
7~vd@7ckCe4~WU4w*jm2Q9!nWySgmbVMlPZwo6*M+RNQ$pnpw??J+Yo+o@zj<C}l7(jpI6q6jd;jL*^
<{c>cJp#7-d|t7OV7{FUtXpcuij0Csk5}I!MZ+;MkBB?v5~hbWeuccmg5!6fh1H<PKXRt0RDZaK>7tJ
*_W9p=l@n&Ljbf`h}lel=GzU}eM355=&WJuiwn6?G1*CMH6M#xwKcS!cct}3ucs>-4Jh$R7N<TrW5zL
MT0Zc8A15r%vbHP1XdQr~;v@4q#Gc5-!b)gt|4bNL&C>9JtyF6TR(WUj<&?*IwK$BGtX>LmY3Bn;r{t
cNj4cS5bU;h8tkh0)fctD^Y=I`0uxzce+mzx*o~QFx=Zlnshoft1VeHq_H)WxEE4a``&LLJ2a)Z=Ys-
77TM3q!q2qT_9L)a5A1OAJPPe3hl<0el8#y-{>YqyUnrD&@K#tVO4Koqa`7SQa}3DdMym20p);8?bKg
CGOdnk29$y$m<NFpP|QS_q~)T`+Gb*_CS0(#FN4Ut|pgrexF9;{eB06jR!RZ3)*R-VYHg#X?0>5wU*!
5vM;l^wBXPi|u$L!H1ccDWjcCo@Pzfa640SATAmv_+i`)<G+{<1rH!J39v^|E}hjZT7^o3lgmxaX2kW
($u|y>JqG}mLI;6ERt#<|iKlqbWVgAxQ~Bwi(B_}@|3=R`i+L7|kJc)$Qjmx}B$yMnO^(9xYz?^M*$g
4$snxk@PGfJt9jo3Demsq@*KnZW$0P=lG(-k4?nSyO7wXWa5in?BBX7$nKoA9cN2V#^aBS*UbxX(tPQ
RDAQ65pfwxV}!K}Wo%xbCnE#10;{D#{wQsERvXm&FE7ZE+`SjZuJ;nHHTl>hXb@EcL3b>0nBDVlo{8>
$Uo&)j%I$!ov?x9^(I*K+4J@-=bxMt~JO@iheO<L{jJ0=@YA{ncZa8!?EhRaT@Vd*iqF_I92xIj1P-5
NE(3CJ5|q1b5OnU%o1i{1De7yM^09@MKhq}Yv0md=sN|9gScC^P1QDu-4VkXoMO6xc}~$V=bMxJfdVV
^#y^WjL##;R5z}vQ-9h?)?C3|>A^qOigW~l3!|jN~sZY8gUjfCa<}eYzFcAb9kl>Geo&dqHjT0bJk(a
9@ehLs6mg&Q6sdMGN!FkA&p8xjWH*hY1FP%n}Y}S!SM|1@Ps1zxjC2_Kjo(Su~tC%jxAK|3SbdyrdGl
%`@pS5nlX)*31Pj-nzp}^5>REF8u`4h6_KxVuokn<iYel0J8qemB@g~ME3fSo}dU~Vb9qXmxkqMXt9f
MAF9*P^nj%TL?GMmi&yfC_)4*;Wb(s0Ta8zMDkXmCE#T3pT+!LcB&@;qfg#U=TjRYU_US_m4E6z{njA
LRpYR6n&dotAi#&VUnN*5z-%HYW0pIed81RgZ!j7?M4*sW{$ZXro_CxlGz%wkV28*ZLugIK~kHl@eUF
ZjV)^N2ls(O)P&f<kL6+80Cp@C2MLR%9}K)OHYy9)4#Al1WnRi5<A3xykFOzOp<Yax-72OS$=u}ywkw
MTaDy?%4yJe65g*3H*I{rm)8%w#3sv=o+(1FFrz3hQRI*A$Z0?HArJWpLvw&fbh|jUip+lHkU8VL^#e
BiQmlf2=2l+Y^48-LkolEc$Q3)TFV*w{-{=|%y2kbmR$5U9N8VZgl1IRdVjBRdhQ+;Nt&#s=i6Btroy
ivjHm%LVTv1K$JAn?R^XN=cU(Q^~*>di7A*}Bx3@`ic9oPLN68o$Q>-Q)k}@kbvuGyTCE8(a_d6P=^%
(7--_Va<}KnPa(!XDHviba8AZ_qxf}Q!&;P%r+rI8Q)KIg@5N0NavxnM28<`sy^oK2ol(UH}H_c2UjL
xOhD>`DBPXQIo)|RN}QjGd5d>CL}dnrX91PdBWNYaJtX%Sj!=%(<74T)zJ4tjvp~#xsWTuRl0ji0sep
<e(-w*(QWt!0sDfZz)%p(Ey;WOE(s16xgvZg<<qv|ZNfHI!jHPXz9~Ok>;7rgnfab5&w$l8~6HSM47`
orTdp(d1-oYhCZ>n730zX23Cn2AL6?iILZJRaN>J^xoTq*I2F7tL`HOFY{{7o&>j*uhnPhJfReC~GqI
zVXlIb6@)K?mLE&CK#8Zh|};WV*84(x!@UTnuTDiv$n|40$R^_~<|xQ1-Mq9L-(kwHO3sxAsdjulN<k
hmd|TrV=qP%Uil_Xn^n~%*=9K+#2Q?FA5<3cxpt5lpv03aLESQ<J?hUkL*je)M+}j5O(2LOYl;3BRJP
97k&z{ZZ<i2?G$~{Uf0v%&zu94=fC8`vd-2};h01aPO48BC9FbJC(obLPWWgLL(M1_aCT;(pY3#ri}p
mR)0Pgi%SyX-K#XZXF&x5C^b#-lp=97UgCpXHDvID|4n7(PKMK)BI|_(c0ny_W5M7;}|Kse%Wi(X6nS
GW}!rnU3^#*#A?CcSWpMvfx8Z5XSNno5q*{w^{-|C=Tm<hbnbE}S2oGcW){2FlX3&qFxr58nq7|(OZy
5VOgyz%we?$~syhy8FQ#fjsJx6m_$-ch@c$~;EvorYh&y}o&K_QT~7i*R*JeanwgxDiyDj)y608%~dQ
wMLCEN{|BHKCk7S5_dA!iyghAqZC{5^5*91I`P#1OuSQ@5|+s&2v7Va`5NPFXxT>$0s`({NBJy!SfcW
e7)1C!HVVjhb_tfEvbOg5={>(Kj9jY6`h8nKl><2j+EG91Hh3T!_=|ow@qoR-Pkrr;YbPwcOtqBrBa7
VjMsmnTSfr1&kb&@q7BZNAqJ@lhN&jQ=4PKf+bz;(mLS?8T+wuW=ga^B9)-U5DIbh`>++Q35FAGvfL$
CFO8#4`1b-x3jxrrC+@Rb{qE)8|((G(-&6r*3VlVW(-o}6RgK|f3~;&ZowyHzld6S_KJrO}c-8Yo#vy
l0yD24kdsTJ<lNH$Vn;H`v?dN%un9*X2j$QwLZ0xMoK{KEB^ZLa*4*1wFp^Qt>x_x>(%3%~6pk7Kwx3
Ei2pw(36FM`Qh_DdFi;52;E3x3jk(+Zew~tf|@=7fzbOf_hW=Fd%#Jwz&qozBKT;+;_Y%%i`V6-Qv7&
+EvO=ybdk~2*^z1lAXr?cZ0k(<pJ$M%4!?8e8r~(<SxS&$-PsR05%vuhe&KS_rNi#A8Xp*XSy?_YeQr
u;K(T+<hi8TN_Js#Z^esMFk!=3<9QKX&F2wAd-%j00Wq2{f_!_SRfCsxg=3xEPPd}YtXakZZWjZxSZy
@2XaO!lu1xJJqa5I7n1lg^AY!P?^LkH83qXhf?5XZ~bFCm*w#lv)u<BO8g!|$P3q@y0K1WrRHtE->r*
32mS4$;?@=+rLbxlZhrxLp%aA}%gLIOk_Kmlw$VQr>}0^ZPn*#?ScVIWF9!E7hc71Hc$k*B0-MIcoK-
A1@T-zaj*-tv`wDqZl+igs2h}Ww*2KgX-H07>IyVIA^AURu3AH=mHT1bJ}gf^U2=5aLK{Ot3IUK-P{I
A--y+Z;Z1`b9rEE#{oXk7NZZGs<D}Qb(bT*%CdkP-=L*dNhFzA09YJ%*hrI;a4V~`Tz?82#AvLS_<mW
*{-5Ac4@nkCK&t&H+ntcs#wHR|(s3zi^kKwLKC_IY!d3;#7(W4d4;|-Z{&!n9SN#cn(%Q96#5LX&zYj
Fa6p6t7ZS=c5jJUa*EO~pxpeMh(q-@~^2mZX{~9)BhFgw{LwHvXj;Hxf~+T~=;3P_epxPV5v-#G8_uM
xk0a<wot`>I!<S<(pb(w|r)mn+h+8Q8*j9h0vmN9JfabhppW!qCWZ2h7+IC($QT9`Hpkc@DTV{HNC($
etqNPoZ@$Dd;{`+d*i!u)`cLL0S&QPcK{;6_U5hM7`)Ho1{OBNwrg=2$Wmb@ccjoHILrlu%CcKMs2B%
bwn2^<_2Bj$A5#W?K0$P1AsdOO^|zRaac2hvM4mfZ(LavPhiiCivDPL!qHH0%DDR8Bl#Aok;H$C)W}3
o><p9rvuUHQ?fk0|^tZe~Afl!>u^B1nnhrJBc(5BKo^Pl}35pm~<Gf3wHK58;LZs<H>bMb7>#1pjlu`
f`%uY2l~ZjXm6ls%P5TOiT>B`#JU6oLpHeC3j0&~AD}6=7HA;QcN@G!T4HmUaw;u=YZRp0i}VYPsy@r
hzV~+6dWoB|8oI&zTgSfYULC>0IBcoqp2OpQC=rWVMFqdiuOI^>eCCpZnM#Z2cTf67e38bs>F-&~I3#
A4YVLJ}M7r$N)XtY|EC;X1<+~4y*lXM}Vq-guxnd$}*~zd+&2UouFB=)Uea|h@OLn+(6ACnkQ=6)~=p
d4yig&G38fk>B6lu1FL%C7$a@2<dIHCinIv!#8AOowUzZRrymz6?9rT7x=QUWT*{XPhtC1KZU*aIH|C
7i1&6|e*uVH*l$okjt;>bZ=*fr4#m9I48B?R`4gQh|PHRd_q$pJ1>>1eolDm*0^Spzjp3Wn@yKrX*82
^TKPL|$3F_Y+?i3_j(x7W?s$Xt(PelNEsZHxct>ad#s#c`Gw%xFPi*FL64wYKhiEAji$`FCJJJ32Ta|
Hi8OY0H0^I{F#QiHKj=pJ2TWJf?G?6Y(KPN7Ft#4I0P$;oYw6e$IBE1_P#(82+O++x}}_u7WSa*3f>^
wPE%n)VAo;MGb@ffNiDQ$<47}tsi`#>#GL{8mT<&-h-l7FsR!9*0<*PHHA&K0^VrUBlRKYV~~%d|G9p
d2h<*Rs60aXT}O$}dC+Py(8a<RQs2_xT^|SUk;8HSaWTMrco{!k?O8CKc<5E97vTQ^P)h>@6aWAK2mt
ey7DocJ&cxFq006*z000jF003}la4%$UcW!KNVPr0FdF?&@bK5qSzx%JiD&ry5%8b)?Z)V-`?xktE^<
A1|;`C$3^)a*vNvtVSOOUqJH21gP`v5=yq-3W%H#@U;noc8;z{A7C!}|ujXzH~{(?!>IjZ9NftT%Pji
tI|&W!K7-e;*v^=ksM@zRGo0lu6eXr819JnOc>_mHD}p?Iu(9?JugX%=fZhE{keuey)qPY_}U}+t&8m
rp($!-K@>;Mw)MGg@fB)Tid0T>&>Dl<-tMQY)=jZd`u%%3h_u(_1`mk{O!~8^zDmtaVp+6ojj0tbGd2
788v?1G<9<lH2Wqi6~J8})i%W@NpED8*G-~|yJTJ8NR@O=2_!HBZn8#6ktxBCQ~Lez?v4C=CspeJ&`<
1w02Buuo<LDo%0M`)RGXDRLwHCtnu%{=mA)&~I&0^vzU#WqWof&;-o8HT-_atQSFzfZMJw;xnP}E+Bj
rrs`ebdYieKSJUO<Cv3sY@ZGa}!}=PH|DcbhaX0G~`<Q{z<L6{=M;(N!CGo#GPi1Tcq5rK-EyH1%96=
=Ai>vv1FSc%DB0>Fx8E=Vz~8o=<}bBnS}L1lYsOWxkSgJ$QXv$tLWf+0-;Is$5oW3Qxm^U18dM4S>oz
%U?J3vH{G#%3zA&!}Cp1dBc_UJoDD=wgDQaup|=xS!d0)Y=|Izmz%k53||L46|fLc2$*chdFFMJ<=Li
{jfMGDrsPw81}yXT?Q8vGABe79neI>FJA&Z8@U58RqdmQS27Dvc2FNk8S8NB>Hr*V>mhJQm1_Xwel`7
ieMt)t)+dch}$+BhNn|Ijf!yfYt`J}GerY`%T;Mp^Nwv#e$NB&_4`v%sMU<`W!FI?kNo2D<|H*MWLa>
KN}TbIpdp3chx81>-bAWd<fq#(I2A`r*KLMdVduOn}BMTJU%0?|xF@K4&-v@P%_Z4dZOZ^JHGGhYFz2
{85Ly$c+fmPK_PbZ~aI84O@x<NjCwa;)pBZ8sKAeuTd+VXnAYWdl>yyEcIdzo2JvnpW8w)Y}xA<#Hi9
1=|VMzG~wsi}=Z8LjS&zz)_XR1aKGb{6=no!Jr}jXjhWD3hJ789rLWsVC?r6=}Ez&S2mLq@qU5`z?TU
u-()5xH?Y-Uzrzz+&s6_T(+~Z$C!1}%;x<|dCj7*-j;Bsz;DA!D0WT6HIHo5%4FVx3zncqDWAfpEHRy
t-coB|sdBKn`#p$Vtp1mfh(TRn!tCJxB^xHi>f+EX@jSV_$>kJH?K-dGw&DK)4s1`K{fKq~>DCLbTsp
F!kveM~^pFuZ3a}?ag$>*20CkQb4JK=m3!6wNh`K2zZ*c<Btcs9P9qB<6Lpsa?2_n3YhY5yZ!)kor4j
U8Gk{tD7m{S%h^tf{L3xBV~SWp)6qoM{ESyJ^*J(XQeN$hz)sGIiJ<Oqm83I|n5cgG>Vj;jdPit*`P-
+?|NKizk=9q4R68iS=Y1Spi>*d~!MK5v5^M8mqYKcmq2-csjLTL9@;OF>C;Wi;R!P)f}m{YjB_(Ht}}
`Q;6WsiTwD*?ZOR$PPB~thC1=r`xhwBn%kn9Ohs1ZJ>u(3<9%^_8Hy}tkY0MfIu}0$;(H8MFEe{&$nc
D({xFG>Ehwa{E8BR&O#uA+57VC2haiT)wMhF2=(>kLfCV!g0cN)<s=){slli9ef!LM|q+x|Rc~8x)PQ
1Lp`CWc^Jb122d-*}UN00HtBw_a=_69!1|Mkp<El=@(N#3nDDyFwWN$|I_wr<pEJelFTolK_i7%ZjqT
5i=TdVQK@(KMKs;I4}AfLz7bHMqBxwOeCj&%*p!-Gdd8f=n&iG>t)-EMPl;b+$n}fx-5K!q<s?i?lM|
gC;QgZQbMwS?+^74tYCf957%V;N(%}(8KjG(T$`pF*L>>dNJ_xNc>f{WXe>s1zS_#2B|x6GOH~(^;a^
_0p7fk=<5{V@7kWa{iz-^;onI^4q-g`cOdYS>BZ5LOLwqyJs2P%>IHo@UTs_3H!coiL+fdbOcRYjoG9
aTaq{F+d@5o_Z8nAP`o(7_mmU$mN533KQ@|end;zHp955+X*^MM++O7(vXKx{(9f&Lp>#mm#HM_TrXn
-0_MEtU@pfUb`>LK#{u5Ge;>tSG*0hG8Q5$r~TQw2aY;;z6nC<(w8$MHqyK7@fnsWX1;EwF>FI|$Il0
P+WdHAmE}wM?x^?CR!TYoBBnJR}N~c!;oriD51Pi{o73Miu0MA}jHVnOKS22c7|J&nJ!DDNQC0edzZT
_mH<@Pumt`9QX*Uy1qs(Ucv0ZU;E<t3BYH+)o0yCE<u}s&w)MSiD@*M@$|WW3jLjNwBUs9y(H)xT3Mh
rGx5nM*SA@-R8!Xw`Vr<+m9U*MSc~imcbA9Y4A~#(1QH3&R%EW*tfF1{OXpDSkq|@?plMTg%N5ZZ7`D
qw3(RE@e1@vG?G$*LxfFjm#eq+PWzdsTn*$$b#I~w20tplaTv%52u9vEXA~VjwV2Lus1A+LG_W>x}D@
|c;p*VdVV2BbU195SC5BJ-*r=pMl71gE#S^B*Jbg01U5Qiezkv+b4E9+=$qW_I2ug&fh6A#~hckaXy2
@fv_0}c(_IMT<-f?#)hv$%hgqcvZt4hGO63qn#`DKvw+DVFHHVS`G}(E>)?L0#6jqV5`;qQ}XO?rCJF
p(vU|B@<`!!9wdn{fA9<YwRQpq*(8O2Y8z2X4u`7b#$OBC4ProLVOsIzrrXM4I1G{@GQliFr1mCrW}}
yRgTimktl<12}o98ply<EHr!lohEmJ4?nT#7$*=^|9PRn-U`n9o<5xp1rrqdq^W*r^Ymd-Q2%72X!*g
&p4H6CTgaD4o4AYX;c{ul8(OZ-9MGY3*H|IJ~7(205*PbNuTN@7-ZH8eenXOM5W?QT!$Z`D(4CP|6)j
#I4(a-(qf$+O4q@q`z)!44I>~W%fu^u)Mahh99NH(7OJHnOqr{c5YWB)aqZ4TrfuuadH4}wDLw^jr-H
fZ)E>J-hZbBc&!Vg#Oqf_;G07sp==o4`(nSI~V=_-0+_#iAgM;N-isM*>cUj0t5JE?wj5%#b&h>y}*r
50sWBDdxEVoK1NpOAJ)d<9@!t#<a^Z&+-^tD{x(h6IjVC$B6yuSl~N;Kj8DpGe+U)EsO=OtBcVv(PCS
_kkztXL3=w@O7sjnyvS60^qr;{v^T`_n|=taIA<+tkSLZ0;H@=RlW_l`z$$Acjr2lsOb<p3Cs+JX8`@
mnE>Ozu(erE}ZB#zC--7t?Q$eA5us6|Zzy{)WRe&`J_ND>|Msvy=S-~60_DKt}6#SsPXh70}@D%H8OW
@E*xk7UalUN0sJh1AR`$6-k4>0d?IX^)eJ!=1{ZUchGn-d$G)5O9EdwYr(Gh;Xz;Hi$xg^W#{eh$b!z
?f)2qOM_L*w+p$APr{Ma&fiot)zL^G^o+#ot$^%7h@n?oGnBFgsP<?+E7Z+0fk0tQI?#zBVeFc5KNC&
2kNE7hKmBVV5M;<kOVGq;PG$;4>m;7Lk=HT7K6M{xJC{v?8QVtg<sZ7umXXwNT7a5ZJ36MM_SLsPGag
yA<k?h8dyBsd2hXii4IkSd{lre9gruS>tqOxCZd;z(;eE&;@Pc0=w3-6g(g9sh}Ue9jlgmiN;d04DN1
r8K$<s)1TqIfVu2Ar{!);Wr@9<e@V4%7JF)YEk0K?Gz7>lyTPBmCl=2DfzaQ~0TjK4We6S;45>M4;`Z
PIC<?S8^#1$I^_zE{Nh6e82!^EDzZ+TrsEqnf1kIIbsv0oRps=G2LaRN(xRBt@43-B2Y5wPUkqo1{C-
6LFZUIV#ex@+Yf+l=PSDDs&&dqrQSVJrb$!h-Y=Fb<gYTkw@iS<NN8_>wzwY-FAxomiIkbP3>@O$?36
&lTz#_-Rf-%O#uYTvFhLs(|H-MF7e4xy=-gD=Xd%UMtoxX3^EZ=%TCtU-aFJ&NUqWlIyOg_Ww&CEWNf
U(IN*uDxK<?*!k|de(1iX?9gdWLAQK{&Y5xa*vE6|g)I{52w0;R5IuYT=56}&)ywBm&?rl>ow8a;Blx
=5oJ&&4v8{^H4-9hJ<s9g*2OFZmMGZKh0Dxa5n|gy0P<jd;_HoZH%-McJdN$E<^Pa^uWz$uy+7Pz?68
c`ak$-0Ae&!!#73;_^ngkS~dx~`+yFxk~+GQW@f+BiH)Sl91ZUxGY5ikaX`+zIMbnLe=qbWw;AB_Uwr
{ftc-@I=mIIlE}E_+Jez>;hQCE{?qu~$Q;E=SWkg+tF_3)O4z{~TZ|cuT1Xih}E<O-4At8!8UAmq`@0
b(@u<>eg3m9-8iCCT3{R0!g|uYwTu)tsTHZ@#$|&f_kc9%|bixsrcjZ=PX<V6<J~ZqX56Sn3D`z%dAq
p5A+Q<y72Vq&*BxuA45UW$0C<?OX95QV8>HBN7ZW#w1b`N4hk=T7i5!_0W6StJsJR56~ImaDFb;8I2G
hV5eQYoB1EuU%UWc}b|~BeXbrD%>(fTZN)~l9mnAqzrx$?O<&a1@4y)D~vc$RuKMR)!D>>m`_#)d|^a
>Uk2<+U(i^YIEb(1q2ZyNNHQQ586vM~i#urY3md9Zvq3Jj7iGSq0N$H`}ZbSe#k6oN@(q?rFmwOFxv4
{!+u3kaa-LbmWS*KuT(VE4Rsz>(IulJl(N6bb8`o2)D_`r{=ZkQ$(5jQHuHJK%Vn8R;FX?AdbxzR->Z
Ds_|ns0&qBzH8}#Ln4Eg2mhzSbd0<)!h)E%?*)(+#hthCphD?g7_TSEsf$4=vNWi39QvOG=+qCO%-K)
?vSF2PibaiXy50S(v%6I9%zlTu4IGPN5TP4j>}uN)$R4x20{LgOwA<16c8VUJoAt&Rxj5^?6AmO$D_l
{mjReq(ly$q2(|%_n4;3vZh~OvIGM+qsEWUs90$gI{K)aQ=#}p-~v6aGRsLo7oI=aC{Z>~`iz!qCpHS
HfPQYUHP0)ye4Wv>PV8#7b(6OMEZNq~4_(4$<Y3wgS;Ikyfm@sr|YTv4nIrw)okje^q+09+7apY9S0x
CUr4S4U=1(G1kYpp^ldTj9l8Fl$_OmrJ=OS<d+Pw8h@ENJSM`C?iR+fPC+dKRmXTF4$+flR{{IX#}<P
wU+Iw&b76;&&7C3njG9Up0&`$LDtHvsq!_jEVOOq))MLVCV#DedL;k4P#Zj9;HQhjq?hAi3{5gK$-UF
l6}@3`b4-orAXGuIfiTo*5<NFJ9Wt3r{wiDTK<G3hN^)YpFLA$Obcq}-e8Qn=;yc{9GZ5(nh8P>4B&L
X1iP)6&&kW=#yw!1aRP9|=V1^<w(PeVo2*aVz)?@{+E{5*Oaq^|`WHA4!plBN`^An>ca&axUlt2W^by
x;@A|gFr)Q8;kGSc}F5D%#WLB5tC4uA!)+&iZ1kVcnUIbmmNi|Gw~o-CWX+r&?%39ub*N>}^DrY%+Am
NFux*ss{Ye8Eru+O6)3koeIw@FkgGg99)_^%cEg`XEIV$M+AhdSn5X7MQ{cR~4Sj`ba;nYZ(my9g4U|
"%text.

(** Lines 465 to 614. *)
Definition DATA_02 : text := "koeUvf(&OIlnQ5LyhAUYfs9TfN@+g19BYUFz!uq**<8la&p%^D{Nu>am)JGLB%cDGZ<Xc^mg~b}(mTq
w_<e?p8Vu|&t@u;`o>XTA_-Mp`+lRPcT2cMIt6Mpa2ZMCh8RoYWEqH0LD6t-P6A#G2sYq<H$Dnv5zB&
8pyXPmM%8__vuLn96KRPL@w-3cV?Y?l^B*cbjT&HYj$3c`C`J%W>UjOa$otbHqN9B5-1e1bZ)8Qm`cX
o>!ypRut)F}gp^FXs=;lnh-@l-5;@3P#~YwJUEuf{X7588#%Gm2(WVgfKQ0;}JUCjxUChnNnJ0enwp{
$}#>Ec1DS2M4|6qHG~deZ2u#aTEPlj1uEFQog?-{3&iVXmU0^7}+af_s5^a7unITm(!nrv)xz?@gbU+
a=2E#7<JHs`HRa<r8k&-FYEdmgh_FY$_0dsqXuwKRpdNUQ!k!^Q{{t*_`r%>Y!^t5<4aHS8hy(>0Q3b
*PLLc#3jAUY@+{yvmQvo#RYGU&sFN}WXq=(}WEVe43L5T4;wjQzPf}G5?@q62rj+EfSKdaaei7I}J)c
beR(BM|qpCKV2t!BX5S{GW>SxfrNV~&kiltM1F+*y~O=g723?HN;#a>LrzTYFa_!3s?<ulzMJXkD(p(
kpkOV^0W%{qoPEVhOgBsR!wAh510r53(~bZRC(Gg)z6PpT!Ix2z=BczK*7TP#_3tq%=IOJi3GER?sDS
8a9p=L%hoT-r0iq^FS-1dGIX&do74qx|*NGpg~p9jrb0DQjXH^8kR-Z^DwNGhXLQ$6YjE%t8to>U?G=
9Lj}$f4V2uMmH**1;({|hi~7ZzR$eS3;Jb3gCV+E`wav$>I8j2mZ5_d^fn;?#%8elhDTNh+nkOi54OG
DgZ@#w82>jD#^ltq!nYVaK`sS50L?`3fb!INP93LV>x98u6V^z$Js@~Q^n%QYFiDgj`lsUt(TR}iI_X
7`8CJ^~U-kI2a0g9BlrB-q>C&&gK56KptD9fdbs6uOn<L=O0mTt01|zfJV=~RqkxKyZ$b6jZ<H7W6CL
FkU490z#<i%3z3LGq~)hF(gO5QR#@BtlmoVrbWYU)ygc~f9uxeUArJQ^;zpP(Uh#lAi&D-LrJAF3$@K
rnK(wjQ3Jv7gAhjhv%gKzvx)9jZSB>G+*9V-oQH`x&_bKfBmuUAQOO<LFyE<XS%?p0slyL!#&T0f|@g
j&T7W>JO(q5+6mxkZ@`j;e1LBiNuuHiJ?QJ2hztkyuQkEM2-d@QYql6nL{=n$B_xt3LPJotX%TMhxlE
N_H0gXT4FCdyS8ThLsoWDClakkJRL01Xu-_n`$`Av0`?5%KN;{Juf-UZ`@&Dw<Gn5Iks)fXBDSnIj@`
XNhZ6;TU~aFv>Kcvh4O`n^9RKOx1|AaE5<$bE`F{nyuJ`P>ZbS8p)Z5dRUNf`88+~&@T2wg(nZbew9o
Jx#Zdb@jgEP$xBnuuzD4$<o9yjHPY>yv|@rNz9HTr{|Q@NG5R6R8YS?!NyIfw0fuKURHtOs-4pzD4P#
E&*ny?IiyD=n#R6Q&5ZaqJe1UPPMIN8BX3+`YU0Q*QU{vtXcO#)U%vxhXOS_Rm^y+jyxbBq2;zm&}>|
w4o*>^mx8lU<U0*zQ9x3Ac+5LPxYU@{N|Mta9Y*3mO1SOEi{|bq&OIr2lw$N^=APaPkbVt93LM~cZ0B
Y8bQEa=|Xu>Ki7pH$MC?uViTDyDE-@w4XaH`B7^oeY1HYS9q~w<g9<9}5JjfXe3(S7*A8E>P%5gv_?8
RQhfGh5V8<W7$Atp(7?95;hCxm2@|314R$y(rsW&Gt=L4b8zD60HnKcqk9|MyDON+0zEjWb$16XSZ5S
uZ>{39@-DaVoM_R}&H<N<(Y-vPm5&{v!wBXIQwhnLahQ{8$805ey&sdd4$L1D0w!`P^v2l^x6!C~4GH
2{hhf<bO`J)d`tjzR1I!1EVbo}=Gmiol;&utFG3W*MSmp*uk2<P}q<6>9@}s$%U7%K1gH?7)>8DlP7R
B+fDF#(fl{52P&SP8~AekV3{(wgZf?)GACei4(5~uaxM_TS!^yp5zGOaIY3sjgae2yB*NwAD_wY!Aso
CTW9Ha&0-G-OfB198D;XrDV&Jquf=933|{yL&Xe-mdZPB2A=Yo;=p%7`GYFyAX4fX$LR5;Br2*9)-@6
BdNhRow3*#;`5L)<Dahb`^p5s*6JNq55zS`PM8y_Ght)OKco>i^EAlH>0x4RHpffY$*_+_y!Dl9nwwE
*0_b|jp_JBD(S-pMGKG4VPQNZ%H+%vorMrq9!sZ<rV}fAB;hP&R9FTCyXGXVzE0fCBf?*=6bC$5^}08
9QHr4SMXie(^K3fWujGh-zTkVx(mFv^P^w@0vi~Db)%kVVsXOv{lYTN>9Z*Djb8U`T#sQP}y=#;cGpZ
X9}EXoym10_{w6B!j`R_ku%7FRWoY7;(@ji+tplMhHR|8*ojWXI@i9%F8JxL>W!V$9=SAah{`&<J9UQ
%MoG}o==pY#5^<*)%!()UJMh%^xW&%kyUk7yf$u3bs~612z(@T7XdgK3a(UG)<H&7DmJO#cBjdr_NS!
t4MjX7}kR;!8Cg>k8i06A#TF4D+jqme3@#DIG30;5Zws^3^cVArXUQc&kZ?+u5=+pg!JU*Y9bK@G=%{
AyPY}40?f>SKJhe=a0gW2ht#(XPcJb>rb*y;+j)9^CIAlmcRm>Y-sER;$_TuiZi2xb%CP79n>d^M%(8
AT)x{bh8nb{s(ndPW82j&AXPSCOCm?vXqd&@9X?67_md%x)#G+ikSh^Nzm8f^^;-(d<5S{rwK)ZX}+;
A8EM<qpJX;9AlV7;#236%Y86M<}na`(N_Qp=LL&$NOib4!9lb8*5{rM2KBx2n{QoB#wj)H=WqEKm)7-
csXIP&_SYWrxbiPL2WvNf;Np5o5_4@}kR)+NhE>{KBlP?0a>DWd;j$dO+!m1q{xbL6ChO}QzsJ!L4@b
8)7Mr8U<}c5%pvlY?kCo7QRdoC5fG(98_pT7z+NQar!+(wZ3&GNF)BbI$b9`=a&LwM4s@;9H)ONeYLF
5}A^^u|-kouu0%%p+uXgtt7`%Y$Cc=m<?Urj#(R}38$OJho^w(AWNdx+I69JHT$z^cmB#F>S+YszcQ^
>sQKsm}&nbw$amY#2Rp4kS|`Any$X4Nk*Qbku0exo$2-=7A*5i7zx}2VYk6LK~UR#h$S<$-R2h%wrE@
eyOQS>cN{RGUOPuk!?Wt$K1yuuA=WTc46(oT00;24gy-Gt0+6$GZ0%Kbais<EUGK6ycFYJan&cUzh`#
99$XD!*PdFO1#|*3gUNSO<T{){{Wf5jw5l%%n1RtvzBtl~!00d(wdTMDN5x#&i9NE8&CD)zOGb9OJ+8
ni$nhsfi4dZqyWoJiV<#2L2#wS!c^GdrG@+a|8R{TMX>kiPh`TguyT<1#xcXtIFeLi8%IyWMobr$T+0
t$oNED`?oH7+!89bt$32pW29aJrfX3gcScq%~+%xcHyF!M7>lCcDzO9U?~=vv@Dq+sL!9;HMZpBR?Px
Bn$|lCN3ZUY49X(elxX>;I1G2o-^2&is?~hT~r1-J-meJef79-T^`S3{{_d!z=9v%tnZJw&Odb?>p1^
UBdJ^t8QwfJuMww<Y3P=Ky!WN=1{OE;(4-6PMk~8ij8fZj6VJE$GN<Dye!(IMs8~Lm@m*h;+xlw+PW^
U3mww3y5SLQ&Q_jqssjGgH%<V9{qX$F-^BTgS3lw+;q?x>?yjt<GM{eR=8F+EAV*%B916%epfsKv1nz
Bg0GcAE?*eK5F40ha#DIL!nxoag1|@MjBFEbztAxU(AZ9Uh#|X6naW17juLIOrbyrw53gp;ikAYr~!S
o0EKmP2=pZ;jY#=WX(pqBJtK2G#dfi~Er<Vr{MJ=tuzOr6@Kn4QPF;PIMVzEA@*^Or#jbG27=G}oGD_
|9TCF@IVEhr^XdDFAF&6~D?aQ?_K%)5GS=-jkubJYrK$Yx2XU6ZkGzIRQQl{xgjYjHxa<cHp?>@6FFY
W1k5Bna+gi1y69aXiBA^hCaJy715)?q{XLrfBw-CJ~%@C+i%oMH~7YS{7qNUr8s5*G|%vDemVlDEkWu
`T-pC=3HOTK;ICZ7JxU;BZu3(|a!{ODwK?7o=BCxHuxBjDGVCQqKhfRcDR_*hLOt#TT{0ccoJ~-gJAp
jZb-6TcdgMsBf$$F+_)=8+<~U)td)-6qKha-3c#8*Okr!j{uOKA$c`sC7v*imi<sG-h3J}}wo$&7o7d
J(QP5To{OgA^jVgC%k@N7IT?OjR{bL-5}vB<2IcyelxkJ*8K62Ns~xJTo0G^)hid5xvTC^(~++FEi4i
mu2ETk3F#Jpr-nY#N?ro0-Gw_F}vAs?N7`v%yuZh7>U9$1Yj}Sp7wN;r#&jUKQLrw^R%YBKmvP-be10
Y0-&@=t4GFpy-3|I`k1(k3I=#Lwy#FZmssFKM2R|{%Dj=^}qIBz~MD>29vRKCvH1JQ_~-?*53k9d|aT
vBiI0sol$NFbyD^&2|Q7{`<}kNRh0OdV1IqO{ZQ%j;ZmnmN6V#PjKremTmi@lt36RoB9`xiKP*}pqCi
K^O*7`}U8fEmhuvCLXWD@yH}HpN=k&`V8`=x*2s5l7<v&e?spZh1CGSz%2{_2omA_guc+mpW2Gv!K-j
*Pj0u8SKm!rM?@qJ)p&-yry4jlwI2YrK?;(2E~4B<!j&zLcd1b#$^du7gd=wTgre|)&uRRxZpd+O<pI
wjOCM9K*4C<=FgJ}97Lhd>k39l~`7_l2VI(+g(jb{FT!Ss0M^x8$I_&|>O6^;UIk_^?VgTurC^b;lpN
8Xi1&c!bn$F_Q-6O+~k;BhT3wdPk9X8wb;n3@7Q@T|ZNAPFOvP-0NmN9Wrt>(4$cg*QcE=hkH6lIqH<
46m)5ByY*}023ImO5PeFU!*~RVQq6t!kgX4J>%>Mb>d3@R))W$kh0TAPZIyQ3>Bh%FX;<M^b|nF*kFD
tPDz^ey;sKRh!-}l|ki8XLABC}r84QNFzhY~&GV5Mcch@9+bR||_aWxqAK^0izl~zMoedX0h%_gj&qH
DYP)*n6w2=MIYkfuiQM;SHYd{*^_ptz+}bluRZXmstA_!d0QMOT(4%s9B`gF#W|oGwb>nnu1U34<)l0
z+k*a4yTxC8Oc?8n5dk?%LK}WG=#2<WbSp6afUMr@tkr1l28F#am_<XbLFazX2c{HCdSD=DTC?<gP9@
LdLnqn0#4MNCo-?K)}@HLQ5>c#k2vf*lpch`_jPJvhOE>oWnn`V-|DrA<!$my*qvaWBjBwzI(V;de6C
@d#uqt*5}THBW!l!*C3Yb*6Wi7u{HbH00SL5N@0@dMn&1*XsW;_$07u6R(xy1X!W(o{Jn^`b<}uyG|F
`vRsR`-E0`esSlU0PW$?_M9{bRB+C@%HzyOF-piV(k{L4LS^ugxKLVF(!KOX7aQ`G9vckk-v-Mf(@a(
m;FxeTTf6Veb9Oeu8kO)s`4+!B?ra&CO-iO=}*+|A=?ir4U(Uz!=c6QZ{2$J~{m6N~V!CkXcmqx<j_@
B0Sp&Sf1h@#I1A@ck4oK5v5&`?@MLdH!%}uMP-NF@YjG4f}U7+$$d*iU8Th!8u_HK^Ze`X1h)MfEk^x
vR$$0NT028>&Tp_{lktO9k4L5r^`o@_5S(I`?5pU6xBCsdoCIs|7qk+QFp5J3NEw)fqBmB27}v_%(Jt
h%$a#(tdK?B(O<{Vr>+#Ay(UM`ron8O%Aheuci(6GxazbZ^~y=UK?Y{Vsuhu>3?ro^{}Re!4k~^_q{!
4*T?$tMd1JfmH<H@)Cch`U=>ZKhocI|;jfl%0QheC&CDKdo;mje#`zpim6TP-PbQJOspY0S^S+3K;!&
_?zL?dliJY+ReT;@^EtDiBSVU2cQ{;*?_%*Q=J89W<~={Ei!P)h>@6aWAK2mtey7Dw4?P5ssZ008L(0
00pH003}la4%(eV`Xr3X>V?GE^v9JludKfFc60C{uMjEv>cKjz>UxrIKX5&0~|9OYaQ<(OJ-LJ<liIt
gDB93&fuHneV=!~<hri!e>OA(_D&%x83>*Dc<6i#Fktfy4^-E6)r#+7w`*gFLc1MsKX?g%d-XO3+D-3
ORW%k>Vavn4h?m>n^jEJdNKayIPzeSefR=CBU{QW>8qiwI=M!RKoeA&Ak)S;Tz(iqp04~HO^t0pt!AA
ES_>MIQ?_)my<imrH&fNZ0!r9^xIrsQSM-C87p@s&X^8xk*ZKgo*pb4SvDMbo>k1W)a3#I+z`B)#=(i
TN&D(}Tf9G0qc5csBvqG|G?x$+BVg*JJBWk>5Wiw$Y`LP_A=8!Lq7G@FxoqRXXw=m>hR0phR<eq}Ha9
48X^Ho4Cm2&{k;dc^R;zsv*8Ti^HS{$+b)2@x&1BczfMnn{&i@(9NMm*AQD+}`|Akxc2jxufhB{wjA4
P!4hIX6djMI<k+tiEPas%ZsgUG<RuMCnMKdZbBa2KBLl#2{pmXsdRgf+I?j0F*Mz^MJcy?nthj)a6}t
P!FYEQV1%qMZ*U4=^R*+gc_|(Cbj@Xs&qa|PZL(s0d4Dwy`3FN2_8P8;osc8x7f?$B1QY-O00;o{l@>
>WU|OI>F#rJPx&QzS0001RX>c!TZe(S6E^v9pegAvgHj?-6{wrAdvXUB!iM`vqJ>R;$Y?@sCylI*zPT
PB*tWQTvkj0Hesw5Rh`|WRk=Q9I<00_#?Cht@3T`H5n02mAg^9_T+VDP%!HF=@xq*CjwQH!K0lUMs!7
n39}7V3kl2ZO=UvMM*pY_{AryGqSwNxs>ZRg+}bb-CU(Y9@al9qIS$^5!NlZp@$an_M8w%k^5#o4hP)
1ER<_YSHYrYh_C3jjEcmT-WABy|+J0`>V3$H~B_2`>nE{wq>1v*k;YjytvJ(g1S>5NiVkfHl4j!#iFc
IDw%G|_o_~J)q0&@n{I8hs#Zx>C-Qp6f8W1)rGD9|x^V#LH%=Gk<%T+GYUJB&v8YsCw*_ck))r5rqlB
J|VmV3X*?grIvu#yw2~+z?Qk2yuTjzgKGhlO))Y~;7@k8T&0X`-S<H_r%-(CFlZ1(KG-#mMHdGW)`%S
m$i<EvLcyngfSTj%XK=t;Uz+e*zdOrPo1YlYD-E{a$A_V+&vn!{?E80<ias)}YtZ`*?E!(44WvXJ3^o
7YX1U+?hgW!XG0cg13o{E_hZld5WZ`D9(GY_Y#6>Lw%7qK_BFdm8ZK=ao|H=lNPOMi|(SMZMbsxRS4v
BWHw*^0ru)*}}B{-IL4Nn-_!`n!Z_63i=ZKi@)e)TXj<|R69>tI_<YxG-N(Ws|mlG(e$*%wrcyk)32K
B#)7e3o#E{y_<L5ASv98)-Kb`^rDeOMdG1iBfwgKj>#v9gCx$Eu-uB%Mkz`%&s<{IA{6m+xx7qw%hN(
;63${CpgMZBQ*De6lTx5PPFJC;Xs<JvdI-1RB>WHVDCvS((L9flzvS_MuJ)9)N<))d<oAqp!6^pf+ZH
NJ7K;C@4TPPHG#hp~oK~~l9ir^h5Z?bo)NVq#sSM;wM*2$VkDJhppt>(nSlCsKaWOXvSRO*Z{)NIclJ
-W`DbiIFc@=LY9{69~}N0-l@{`mUY?1$GE|8?>55*=hhI!<WmH6<~#NwO;IMiw12Kztqz0InWPlEIhq
&v>Fg@Zallo~=<Y_VMKO-_pnU-=p8hKA)YPJUTfIKP`#QO>-~HLeU2x0t-)7)NQ>2Q=*m^{BAU3PBEK
}sn~p-)peqm5U=j1gzS7lo585O{xk9G@!1i#v`|ah1o9$pX0uVP*2Iel6DToBG!aY^3=cr4QlcLeO?6
4?j{fC;HY9fL6V*unckGuojqu>)r(a<9PVMRA$ZdM!wKVY|jol$u#Od@9oncgpcE2JS{2`93zdrt=`u
imL>xum5l>RgRdXO%eq(>G?h>(N5n%HVy|5jPO>g^vsjw}+qdh2%L%4VgiZe^**TT?~Tk3ux1+2(qYC
B!Gnv!qV`kd!`D^;w{v2Vm7Np9Ac92=?Z)^!Dox*w2F6uLG#XXX)%0L1#^A2k;~zA!=1FoCfkGi4U}2
*Ez_&m|N&k@^>may`xS0VnedshPHgQI0`#2ZMMX!J7Wk}vnG$lw=4;8NH%@5%IjoF->@BV!8(<O_zV5
tMrB0<v6j~1e3huI-p_Iw18oeAny-qSHmZbHDshwY9fTG7%`gneNpihUAZy^`7H<+7xm!HRwvfoGoRC
4gP4SMpp}W}2J<;tMm(|iXB#V0DVUi!}YIzHpK~+VzJ|B%I`qi!=#*r^`wZO~1ir8Rn<>%SDRukt7Np
&Rq6IxWQKX&0X)vkv0fqkn!$0ozPpM-~cMslHoP&ePpSbBj_1K@GGx-do}M&9iCr9(u7wx@(|!e!<YK
-yB#8BuYz2>_iXPZCdzNQ7c&%jeB8O@6FJ%h46QeiHd%Nr{re@&b!UmJX6f$#q_2)xLd0@>~H}^={oj
{0+hJ#0s^vRADH?{LYsKJD^zfGgwbqP9oPEQgc{r8g-C6@K?#0)FJ{$q<O+pUtZCeX;s~p)gsBNn;ll
<Su*It8R~uv{cqzI?Z?R<clmnZP;Z)CENO%ma6*f#Y6vxXvr7I!v`t!Cwok5=10&;|d!0ad5#2L?uP`
kc2~``FEU3%#rmXg9a#<4n?X5E7BKa7wfm=c#{Zb!t7H@ZiEa2YiKMNzEq)t`CAV_}CuT@3Fw%+qhs_
MOTXUbjAZ&nR;9s^d%pJ^dbHytq7goDMp?H`eBv2RvDKH~vD7!z6Yk2GyNz-+HYBIL^}`;nOuy(aQ;5
bYBMjTvuK!8V#04gWC=I5D0=-Ew_u!q*5#csuTtC%|Q$qChGb9T^A_;CKvhU8*bWIJ821lGufA*+)jp
0|{9BhhHdUH-a~BS{2k2lJc)f%qQeav1Ucu_9~-U%|vUYDW#RmQu2b<`9`hE+dycQkG7p!HKVZ4KKG$
Q!3&y4j~$H|$V6aytLob_xmCiKNpQ`UiV0izdv?86<HYcAA~rB$wcyoLf8+Pa-z;>ueH+237&C<xATP
hX*QK9VIqjIJQ8PlhsBllcgW|uUQlYbEJ3@C4^sU{sbniTZxwETn^-w&PUOzF*kEfg#xaqdjF2Aiy`^
gOdAS(ZM9v?;DECN5DK9lb5P5A1*^qb#gP;7bV)R9}_<ir;@d20q^bn>nR`EJL%#CLDryt?!omua0DP
1$I_<`In)ofl=)`-m3s33E2`WC!pT|Aiu9fmUz}z+23hv;`=xMT5z2h&BjU#9u82_3EanG((<e1yg6W
bCk?u`hNuqCFWjJ-)>zRrmbQl@-A&Vt;tE#{QE3lW7d516pBUwl)7`nlFz-mzblw7e)Z0KOR>{^A?8~
xKMPSa>5=fKrbcS)rCLX_^a$5^-)&8cl}XFz1xrCIebT2G7^0toO(MC}64$L75*}G*fRgY|SwmU4B5G
};(7#-O7d*uaUT(b0ym@g+lLp)`CYYom`T5D~mzXJ<|Lr;>sgfF|Inqjm1B;N86UwM50@4Z$S|ii8$+
OOiGxCD9pr`W{F@sUCw@$(>IkKs<5e6jT+P`7s<{$lHgVamwIT59T@~w?wJz@h}qf*V7x<aja2HSiKj
!k>&GQZhj4Y5FF%p{uKX+bw4)mlJ=w?~(kFTl8N6;Zwj{PjB7l#AUO!g}(GHV+ZQf$RgY?Al7>g}MmB
b4{|xyH+F27K;v@YV9zbn`8Rl^Nauf{@EGznz~o7%H4VadL!BNW?f!0GlX<XUs>pu5=2Mqy$6LvFxq&
C*fqu=v)9mefDNtK2uka%nu9w4!^(rvS$FTV^-je)i+y&2#i6^?RMY~^B?%QXHqwsrRHY)czwii)wW0
%S-KQ$EzcD>UG^B4^hVp`YtifXcTV=I~gT~3hY#L-noZ&h~QiDo-A1sz6;u%XcS4#(7?KkEs@k{yi5|
wpR>@`|=uC>hbpR^4$`CM!%t)-zZD|lJ-0vXv~6WTeqG_)BhSfZ)>TDSduDV{vD!t#RXg-y-%AQ{2^K
nhYlW-JZBR!ADaZ!zsyC>haHUV*kinsqW_2oqEoN1NsEzAmH{0$<AC?iwaad}Z#3-#65!LR3m<FVbmz
@QpKdyR`yWj4D=#@K3-E0sh?e{79it5wl*%^kxTA#qSZ7CT2@p^1RWge*5?eTyY5Z+#@(<hF#8x;TkQ
8e)~;9TIyC|q<M8bMG|Aki*_>4j{NS|Oekx{0Sz|L{W^W1@@Q}-sG)y74HTcwhU23ULw+l8PqkpWBMK
|THxS)n_~XJ)aYXr*jAySqMBN30iM*!O5~B{MY`d)DMVzJ$SlSBKE#39j!W7b;zQG()RnYGp-7!x~*`
~=qmn0B~HxnSo@m5LxSRS4q^Bg2r3#!E<ARg*@uomw@`<)(yR%YQiT+TIu8_TtD%6Dq7x7~Tfr0p`O=
et6zgF9_Uyio-kk3{|gG+5eNiHxHg9J?Px&l|RF3e(cv<o%N+MG{6T$iZr<D#$uHl-RcZg@}QW-`KPS
e{!uw%$l9VFjgCf8a98gZnPeYK^$RGEfkif144?ph(Afi(#CFmQA29y^J%Jq3p5zt@=V;{sdi+~L>%1
^F}id7+te6b%?4vXzAPJcmarPjf?%BsXqo`ExyBF3L?lt>^Oo(u2#rxmBF>Mz25PpLx3YqDf7b{i7Wt
B}&NfVFQzC=~AXxTfjAbO`S}fhNbi=YgHBUl=(@T=G9NU6RP6i>xZUb+oB5~dG^?TBgrA@~JdY)Xoyn
OTI#fxX(&VG9K8nGMxBB5=MAfMQGydt}hXmQSX+WgwbtdffTITl>ui(nk@a4vH_inOuRwL1GJDEii=5
VaUZScLQ=4CRPx4uc1^k>ay9fI|0CBnJ9y!Y9(?qEFf%&_G1WmgSWWk_Wo8%NQ2$j3ZMp9o_b=fw40?
#N>c>roSi@hh)YfvvZJc36tu%?my;t`lHb`pb_MAC^Pm;5BvLLC6+Z}chm^25W{FjEHCrAA18YKk$7J
;vbtcFYUuwxMZ$6sW)%2Ai@R2|a26R`{*~DA7v&scl=ig!FAKw#Z~w0+>ns$tLOX(3_m_rQv!%b32sa
cXF+C?nw=0OFU>Jyxh>q9zS%oCM`G_FRm*}Z;=h{Kr*=_ui6_n9hoxiCZ9m<_FUU*#JHOm=Ik@e_k?8
R~Nt)h))1J?yiZ$Jv<Hr~846AnWvSy4+gotm$*BCj_V!X2gnnis2FIAkpSLkNav5||hZffG0*FVMPg4
tM)an}Pue%dH>AgT2alVw+V}?rv77;J{jC)nZ;Q)S@R2Xac&sRix`>HJj&1EzdC`QmM<r*@cc>8$?+M
K0Vi4V%+7aN0#2Su~{^TE_xWVx{gC${B)&Acc#@<D?OjeMk9%TTh$?J6<E+bzBu>$fp=K7otIQ_@MXk
k1E)q_?36FuH`Tsd^f>uhC9pH1w~JCRwNRLaWC8r}&P|NGQr7q>-kAs}TBcl4T)CveLd`3!t>!fSkal
Vzo)T^(6Ihw%+nN3u-!Js=Pp+b036cE<DmO^NK;fvm6p9`zgX5&Edh6Rt#{2sb1|_ziTL7t`cr@5G%i
j;WHM(yK)!dfVyAW0Sb$rY|!SrLy!An>rL{I<N!kQm9M2S62eu8w(zVjYZbu72nB|B@G<t7>>P*}|?j
T#z38G$9%<hd+V5WQaW*$o^sjSU&ByCmB#)|1F$J&7&Wlm5ku$1d0qt36nd6&MU1tvX|Nd5;NN?gA5Y
Ep~iut(C3c0E!Ntmn;Vz6{g%B!@3W9l#taZYc#9%G=lC^M)y6)|I|#u{mW~yG>Cb*Yjo^l7}5mYlubh
na7C(x)!$k|)7t<Kp4x>n69DpePnO%Pbymweo*;t9eSg&7r$%%7ZJ9&zv&yC2ys^q0kMXT*GG=Ql%j<
Jqv^hu68*;QN56>?Y#1tgUm9#nEfkiSA)zmg&yTiaI#%?%PU7MB)54j=+Z&*vmxdH^FNJk((HHoWYXt
!o!cYASxvVqix2lZNU55yzL@iUAzrxnOK#>2o0H2Y|QlP<K1IO1jlQ!#J1u%zqK#Bo%%(1CTgP@eYXj
-zpEs4nx+v_0T%7__19;`QS&oBeIJ*HJyg=~Rz*%A<Tx4@0YWDCynrW7mG;cqLgBM$mif&2ntqUPv+r
"%text.

(** Lines 615 to 764. *)
Definition DATA_03 : text := "5BNIFYlbHaqcv<VajJk39QeuFjxbxX)@Ft*!k=Qb21e~loZSqXM9gs;_SKrPIVefwZ-GHmMZI0@<{U8
4_Q_L3JX7`N9V&14+ni0&uy^_VgJ8g1ZH~Z*y^rnC1}~=daljOw6WwmI5BX-d5hF>HU+3$**~^5xVUv
?qa1%p&07@Ymll>y3SP%?ELano!)@$-)O%fXf^hScOzz#It;A;v1u}+C26>Nl%LjY_8$^oU3YJfcE03
M-oL45!zH({uH)^$)9oN;=i*o)hh#d<$RGyrw2XqU{(Dh+oNumQq<is6eb{820#OQs0_K1`@YjLXu;c
HYB@3stdSc4ebRF4?DuX{o&MBI8PH$-76ja7A&C;OAw9h`jY46NSSzXW{<zLxK1?2E)rjmH@;+{_*4M
7hr1aqw#8@aJ!;ucre>_1<!!?gW-_c5($9SJc{+|(AyU9qZ^gz@E+zccro&O)-hUfB`vWhhE!9MTrjy
>j)8t0fa#LN9j;3}gXgr8guTOpn>?sw|6#ioyumx#z-oPfZ@0avvPGXKe6WW)Et7)1RLn_ku%wRo5|+
oaPb298_NeBy_2{oC_jk69dBivg<~J6moZQDh8kseox$g3iS>yl*^EQrDCbTXgO+32k>2TO?q_YqO!e
ZW%?DX9c45I<{ZzCIk>*5Q>(kf=A{*|+lGJ+6~6Bq;gcTku(c&l<G6J3{k;nr*i%9gmf?4fQLiWB>a#
nTDbG4-ENgHAKpuCvPcP2A`^m<z==sDl`0UhlMN5Dfm70~^KH%yCjIa5@2nUT`+|xs@1PHW3v>JOl<{
*ri5AorwRL><9uh@Y@G%x6qbr2NeBr2ON)>g7_aVB!DU2kvX<bGx+O{cA{Ymt~*)-v#9iY#tSke>M)+
Et2zdl^>E`3p&ghX=Bi}D!>&Y<H=5;rkoUiuBnpIwNNmB51O7$K5MPwPpCMEavgCBiotgp`jbu6nx~D
!}bHjxCbw1CruP#bn{L&RCXn79Kz>zY&ON2q0I6WFIe2Wl}V9S(PSfThusf5F5Mc>l|TY*MTvYjM9^p
m}shXT$z6ErgO8gN!`mfhtL;koyL(XN9-0K6&=O^*-7;}`*|&k}EK@LmLy6SAT;%!Rt%-He70T77mT{
t{7Xxoehdl}p;;&xY|0h@FMrOpOEH?MH!F{h3DXRSPu;x1V1^vvWKPEl85c%OXd7hTe6(GsP*wTV?0<
x@1ICw`ZHI0g;)rzWU855?((ET6K?wGWO1C55SM8I2_hCXOLX3YMElYbr?<;?kPT*cescgU|CD_Dy#+
K(e@8?cpw}KA5NFU19Tn+a83gDj<#Z~ZtLxdodYK#&lZ6cT>C`UD<5=;=Sh*R_kU@RV8{t^G{QuMUuj
3KW^J?05)ktOd&4j>aXpr|=*)4;dhZi##mva=E@;^9M^Z(c=fpS3Nq6GRFJeBCJ{&-OXEei3ye11$XF
L<#(nNt`I(QpJt2s<%{rV;d&t?iJVjb?lx*7)@*OwFSMz$|bbSE=k`jCR4Y4=kKNoM3aV#gnY-xu~Y+
oz${4NHpzP()*_cr1i{TV9xqGq{hye0wgAk0Q|8(vHw=mD66=?5(ptR4zvS$W0zbS?j}qBR%vW9HJn{
H_m{aNM^0Y(3^=-gncdMO|`dbG>tKOo|*AUAX>aU`>-XZR}0*>+UvGqIRYguQjz4EL?V^7vZ1j*_O_{
ysM-qOXL}v-63c{w;s<h}L{%AA+w&D=PY<Lqrhx=;oILl$%229=Ax{oi!?<AL##@WL-)wN?3+>q|smQ
P0H6~juC=G(S4RDj=y&UtE!Q8@rk>py<Ggw@$;X4A34?)Qx3@mF{7Z)6?LLJ;~S)vsa<-~ZJ+1XI57_
d&dlvGbl)Gc%zh)camS6V1_8=MvaC&9<Ec5jJp+CwdZ6n3P*OF*EA*fL()6@oo(VxtksDAmVW>ZaW4l
VWW0b-NC6;C&9yLwC|!c<i}El&}WF0Ufu+#GH9rRMY}{tTH}d%XYJI*Gu>o?>`vi$gcW99}To5cGYFO
?jiRBqC)(PQmnYq2jZul*l`_o<o7BW?XO5&QAY<mPM*M@Jb|;23ULsXV2$G~6!B{oq%>W7;Z1lx#4*R
i@-a*$y6pGLGh^}cC0<tJ9NFx8-*3hO7m;I+*<!&&U_-!c7u?t}Xh0}sH)#)A1W_r@qgG9KiXV4rBA&
-3I@^XJ#x=2U{5JG1TDlXi88dVC|78$1Ye!Gi;rVO34*qzh;Jja)?i@3Z-5+A%f*wWi$x>~E#?p_p-#
N=30s8jwRU7F_M0H1`E1tt*8lK^^Aa=RU4v>r<kTQ;(A@FJLw$rAZ^3IGg4CBzu#Mka=sved7{)BR$$
oJ1M)M)4XMmh?yVx|3>WZm&6j~P##2;QDXSh|lQn{lR49ZHM<jp|Nw5^rH0h=})3IXJ?^-6JMJk6n(*
Su{#Oe~Zcobp)Hk5o^M>FFn|Uq<KJpi0@*NI92aEiC$pvxxa<x;YQHo^uU9tRxe3cyy#tlS=|#tJ?E-
>3IE`^(ZMAg!ae8gN$RMa^Vl`p|7+fQdc0hG%36|`B)bBhV&<VE2w2l83jtGm5d6U*NL+RtJ0gguf1|
k*U+q!uPr=w7`5ZjV^^DNRigUtT@bZ}u(61OpmhVfQ{RynlJteQ*Nmv4;ttSsy<?CtmvusgLlwHx0ed
GjXt`9a|JJIzYV~M!9_pUbDW^EJ1h9aD*mowdyr?>2?m+M4udUAFZjh7u1#NG#o%=AJPhty(sK4C$R$
uh~;$;n4q*M6*>X#|}kV~&zg^Sju54^e$yl=kvo$#zAv*k)k7gUUS&j>7t>!!aB+K!QliuI756e%!X)
%fs|}pKZw|E9UvV%#65C52xwIpM^aPJ?J*XK<rM|k2SHeGkqrsIcpu3dPCAX$Hz!$*^-Y<v#E0;MvC@
uvknu0xrL;RrWN{ie2#n0P|SF{ddJ8x=M`-z6m)Gh1&)fE1fTbLv+vDLCebW<WUxXWigG$me#&lk$fm
W0#;+3#a2(f@R~KoT(k_x$Vrs$A)1bCa9B`d+e>deKU$Pt1$pOOMa{H4!Joloh;sHI8Se_t`=dfTnBt
4OZKm|*egwR}PwM-s6HF~0jf@ATBwK0CPAm33pKF@Wvww?>WqudEM@DDE-9;XPC<Hp$cwme^v^LMsGo
gM*HG>+{~_2V_{5Qe4$v6z*HVY^5sJchf({1%s7JY1`-_-{i+#f4=KO5Nqea>@Sx=4wp~l)Xjbt(u7^
2f};1B3<{xyL`KKE#pCk65jX~P9fB?*W;WKL=v5T`Vms!F*W+$!O(>3`sNXCI*J5{)JSJxa+aBwPK;M
)ntNQww=1Mm@LKJJoSJ03Ua53jZby$hl;*mj(Z>Vv@9s+!O$lA2h$|XTe7(1YgI@G6d9MfFmp$l#Yx?
gy>yy+2oylb!1WD@FM{ca0juVXJ8|&LMTbx9bg!LV*?@e3P3HCS7-Af$LfCO*tc>^&&kZ3DW7mOL+ws
s()4(ItmG!{wdIxkzFmcX4O4BuDv#1o%XJeUz?lO}}!K7xze4O_AA1PGpkbKYu6eJK_{VJaltE^o9`@
6Z$!W+Y6|82emyJQJwSY0C)a0U)8y_&F!>Q2Mf7GVY&wpJ8=VQ_i;5_c*J-Un<2HHz12eHJonuqqirg
zrFfX`pw(N(|^DEX8bS1&Qa?_Ih|a_Zrp=v-6mubS3UB6z~_n!9g3;CvGEi*b}&io3y1gP2=zqsZne%
gd6BWEx!AF6->CTJLZE82GQ$rJ5Sh3^BGEm?Wq<uyN?V$bvHX_1_hlC2Wk$W4EvxK?v)4wa8vXX?u~V
WqF^nE|yt)=J3~C;7OU_hxLKB<`w{Zz>`flV4?$7z^23Iou#4@$Lw;NtG=#}fl16&B9@B6(pZ3hi5-g
gio-yH-HgPO7YqZ6h&2!O7Y)!w=E4pju%Ru6?0U1}*yAUvr5L&vDOEd{be0No)qX8=(gx})gKqCHe}r
%&HqWG3YV&7OOKhnrfqRmMFh;@#^2U-DvEvS1jL^b3AyY?%-3r-<uFL!7u(%oQ`Eh$4YB%#qcp2{oh=
!R%0u&|$k6_6hu9OX!X!pV<91_wGS_yOnP3+Ds!hfKOcGXWC#$y|{0O2a-B`&=Nf#Vl)wu;wNjMfZ01
@KFc6pmXfp_{)sJeDl{ewh73XX10%%&sCy4*lg-Qe!^z`;;ry&-y5kt8f62Fz6laHN!N5i8g^!|!!<d
VvDZt}rt>J;h^VHzc=gDKKa1Mywy<^P<j>$@+Aw@>rGjcupQD5+_WSsFrZ<8<14`>uj3N}vmkScLcBE
+Kyds~&bK0)6E!*+oY)&lIJ_o2hXIJjpDp-<?)NYH4<9FSZqlMM=aKsZL|<L1tZwnM~lvrkr;9AV!g6
tQTG=N9|jALZ(SpC!2#%n%WHY-ZaPYxuLY$e;Y27mM<ilNfxT%{@4&=|BV&Qa74ht63tkLgs!rR?@Dy
TO?AJ*`hXC7$bm?C@W2VC^+Y>IeTDJ%}7F?LPImh(UuYW|FOA!!Q>ZXzO(xv))hp()NOXIyjV#lFCsX
as7-8yBw}lbo>z#c6Jbf$@aFQtv~DPplfjfX@~lBB9Hx{(`_0_R6kWBw1lRus59?zlZ<U*S@ir&&yHj
Ju6Rj?c_ah-NpP#Suc+dcz@j<oNL1UnH_g0B#B0AXHwv{xNEz)*XpWbY(+s={Baewm181F&$w)5!4Z3
nV8ek^Cg)2~CDXJ8ls4h~MWCtMSLzaq~ynMouZ#hAF#keU7ix_y5}%N}OfO1*+h&*6ecb4#770<QQil
0V6<ExdV@?`C>jeBf}R!#QE=t9L3n{kO-Dy@c8W*)s2v$-d~7EbcpDtt@8aCO=jb(^zx6k6vpm1*)M%
rIFufIxonm73hQ3!oy4X(v9%xs)-*t^iSFSBSRNKjiXp$SG<qO&acr|Dlm(O{py@xvVHnEBkui-w{BJ
*$tLP#GT|HyG;mXwv-7m6TrevEummE377jEJ?gBPm1Es#tBzqE3C(33R(ZBC!dG4L)k8~@Cb^6MM7o*
&Jw!1U#m~cOO5+w>+uV#2V5d;ECy}^l#NoN*2^L$`l^;Hv*M6CkLrowa_bm^xobZcln97}YVNDf<eLo
$(*2lkkdYqU*eO1n2nB5OCQ^)XKU>+Knr5<zJ+_H&)JEl~w2cT<(S?dYWIacYYq*VMjFZ3Dl(`Yd|BK
BM69?7YxX0e7p>zKKl^m}vW&z1{Q7HMCiLhL*v2SaoNwu`y4f9nL!MTGLzi-ox+SeE;GVd~L0(Pn+oE
jyd<j4qPP&$eo?gHG6woqIO98g4N8{uhhBc2N=E0rhj=n{r6dV^>93G|N7$LlwJ&BluR!SQy2^euXb{
8i=8S7lh`#9`XQ-K^+k93k~`D(8K;ld$xxvsvJ9L&OK(zI$mR4jJ#ni!!;zZC8SmfpzzM0=B`ybQ%2Y
V3bH^DqtaDZKaazvBY);6FqQvpu^zk~s*_FFmB0p-=(U#||^LI-6IX%^fhuZ7aO2R+h!+D4z^jGQ*2G
b#<&`i`K!k&<y=#$QJ<uu~^vV2V(sJ)93|25pgol(Ok%qv+iTEq(YguhnW&|n#}nN(J3q|bKQbj;}1y
vy;NcCxwx*OF*vW;*V2n#UcOZPB;wPss{08cv7fGvQ%6{KSXl?RO+@n_Dx1>;d+Xfz;#K_s;>%Ij6a{
+?&`I&`YKGx|`8(hS0U?&;a*DL489OV{U^})JV6iF!4H}d6q1)S`Nn|*(;8TGsCwyv-Yir$zVFL(}yp
Pl56UAS&EN{w}=gF3k%A8>$n$lqAx2oe5rF!>1$jpQj1@&P>IBpWLR_h#4~;P@%4*C*M-83sgPBVgUe
PbTM)kVZJOq&c#u*sNTX|wFStO9_J)NV4G?Wd$7JBRjfUOwM^m=zkI+RW&D~S!;S?8DvQ=1r^|v=Y4$
k|@`G2zwe2w#)Je9a|sWsA--}+#$x`EJx`3m)#fka>cUUx%v#vn!B4t2HRl@|`VOmzp*C;8=nwi%Jl&
FX2y0O11i<u}ujbMwRh%(<6{H7k(PGwllw?^F%$!?rhZ_^-{}oOdRaKO0y7xuG7H@`$tcUNLRj)ECe&
<p=lA*ll@^&;z|Uze5UMo!DPeawYDau)cfn6YoQ{9k}OJsCVCcDoAF<!o{?63ksZKqv0`exf9&<;@T}
FyBc`bPfsrsNrtV1!gSgfWA_Bl*=;2u^|jnJ?4*+B3<~)+eLt@e$cYL+&Ff34+ZIC(O1XoJRzzDsXW{
O8=+S-6K3!%h#l;>-MVKe*cUOQse0Ub|?gZPTNCy~}&X{RqB~4E7xT8LLqNn4;0j0Qf6~7!uZ%3YQr(
2M)cAYJtpJH%NUO)Zr;-_Z^U5dH~24rhC)Nl@1`dlsuPP48hZq0pv*zPCS3t54;?mvrzr{5Zf>mZy)V
}#&bSaipgGjhLK-`D=&3-jDB&dEG&EPzfc(w_TXChoS;lZ~O%`kkg!Jl+O&uyjAt@q}6|_rO~`|D~G7
8J&d71{)wrX>b{_e3xR1NWhRRQ0nZ_Bdj*fXgDV?9}m`dE9b%4=8;*DV(*?La#4_Mmy_g|ovQXEVe4>
$F;VTGI^&Dm=406tN9`?vd}-9M*XHkE!=zi#cQm4nQ+$;eR$Lksv(q2*fnz@%sgdrrU<RWK0mI1(o6&
&Oi<pmXi9^h^^txdcdTgu@9S)Lr5EjO+yPvxEF0?6KhwYq46nvkOgdR*1PJ6rd1Uq#jv4T<RBHV1-8!
w@5cUL7k(|Kv+)4xVXJ$S+y_XcOlz_OMeSHj?FMuale_a~#qCi^g@1#$kbj~_?s{QcnhAR11}(gWoB8
Sc*8)uZl;LM8&cWt+Vv$*#-yimy~kkes|WImR(job(oR9WmBHII?M|u@ly!3G<!l3_DG}vo}&^*3F!C
V7Wo`C11J@GE086ra$p>WXX5Wo_uTWG3AuDNJ`ZKhmN<l$9DxTEyl#Li6Gxd8Wb@zFP(AZqUdzMm7Ko
49g9xxAehXS4ZlLRa1-#(w_Ewf#$aFM3DdO1)Hih5`jBIE(C^Uit{3558=FIY|J)IW&#(dYZ#suJnqH
fpj|f~k!16_R1dLp(R`OrWSX`v{C)IT$pZnIF4wo?(>ZV9b&LTSmT>2Qq`4QEC<(*1I&pbs(%A#fso)
+qiZvmkV<9CmLCpk7weA<B!C268(u>5GFAVJbfGdFO~|MvHhrmawXZBTztds-UIZCyF%foUIbnAlu%*
S=QY&~htx&Hb9e+C=`0W)O#ZdHJHh?-C-3+?&X35AOpfhtXjYa>ETw1~>M0+&MCgEIDrYtk+>Yup=Gc
XAIH{Z(dF(2{_ETUUsb+jz`uJ9kqf00zY^a>b=@N(QS7XQM`_8q5S3C;}VWbLV>+Fc?0;!nCL#Bieze
!3k|~H)kCA{=m@SF;K!zt^vF}_@*!jV)#*(6m?CS({+8igQ5Tg818FcKsE9rs9=6j`pZ2$phPWUaY@9
EO?w%ynX8}3AySbJCdy?6Uz6r`_HS)jM_4iGTVunN4Y2nE?V0wa4aq3k{M5Q{&2zRF((S}L;+m~<5qN
O}A(>;fnvzXzcS{lLL&Um)Xjprz|#}E#(Zf+naw~u45;(U=bsL>#O^avFPoelGY^bnG?^vs%6ag#UoW
2*bn(#BP=QnEk+j|N@Zh1-m{3QiYu%X|l>iI|Gs<1?~0pNVs)Pc%nlU3X@qwI%do8>b3wet8G(wZ6sv
qfw2Dy{KMQYB?CY9_=`0rFEEL_?JbP)Q_^oSi!rQX<*vxpr<{|;<FlkR+6u=FlSc8$8_VxzOy)8%vU(
7-jA~^920UcaIOAf<H36zL+ljoQLV&CizIyqysJ_Di)$KMnQ+4gQ;3=;b|0Ud`4E3U;v)2QFfa{reh3
yPB9Ia%@!mUlOGr=>yz9%CNVL^g@Z6dUu23=x3N8Vsxyb!Yg^k*XCN{GP(OPz;@2d)4eogXSTou+=NH
~RSE^T5boc@uR-P|hGMT;4a7k^{>-c7n286NUB_M4tu;;Iy>4F^LN2L>+tCOUPs%{Xo*ija>SL2dH{o
0J36#<}_7xYOISs3tAux<02}S06OS&TEvh;rNa<Z9{8Ccpy-6aL&Ikb8S*Q;%AV9`qP)bMftrL0;hMG
IeqG#f$kKzOI6~D8>EKy$S=9YGG+Lj7)Reu5KZ`)goWh}D3}8z1~9gyoB{lXtHxK({TUygk6?bf_&>=
2@x<T83E60t?Cml~Fr|y#)0c1mN8&90<u?x}kIw$%{G0zwj~~qb^ryc~uT02Ay9}IhN>lztEJVTI6KA
Z&){$A34F9=ymExMN<c%0-CQOydkp5S%5Lmz45_wo?jSf+m$X!LWemIW&w#v;NX%9{xCnGtXiH*M`b~
nX6K5p)S2at2+Mk6>XvpL9boW?Gvl{;oNp3-`E?N8=9+gvX)9mS9gA3S()`eDfM7bD;6JvJsl?at;2v
aak_3Gp4%JcDh7wRTBct`zl9+YTNxIqG2hEcx-}Q$m>>SEy;&p0gPxzc^1WiluQ$c}|Ky(GzMALhDdj
kXG5;nG!gBd;F(fgn#>oU&z@w%um0-$Gch0R@ychmDPsGGsL~qA+#eim`PawK9XNk+4^oc7E#o;-xWO
k!wU%#`&wdn*Gspm`o+=+6S6->Rso%xQ&D2VBo~)xUzW{<$z9{*Hx49M=qe1V6=S6{h58jb^F>c**3G
ZbnLqUO<<~&WA9@gT^J^gH>z=;+8i@J22QjOxUiB_Rd<<7_S9vpT>JZ2*wC&J~S+7B-ZN}6$7l3q=4|
Vbmv5SD)3Tyj~6>_Vce+E-*JBb8mj)rVYt4wAJSlQYGl$sg&{WNFz?d?=u6p3}J2g`Th!-jlx!OD>TN
w6oqVELAS`vBGGysM?tD~I#jGu}NxK<0B~+O=>W%zZCi9%zKac<o{H1E@e6DSa)ZJ@6g^{WL>nFFl3D
cZF2wai{C{w2ez-T=$rMMASW|@8_ep|MQ!xFUP}vG&(>!mO?K;K4{LwzII0#kAHQ>?wJB2fs`j^gv`F
ek+n64BNFyb{zm_tp8gL1`R(udKc`>)EB^D<$?4xVi?7D#2(Dft)yl)M_{)2-VOe4?7Ic>mj=q27?kG
>=alHq6HjDA$|6koZ`KazeqlsBSb=AJ*9*cl8FTOD^dS|OW8xk=t+TSKc4s7wh`Aq8%_RNSln~h~-BB
{>#F48t$L%iOSh>b(uB|=s^!xu*RkLN^erFu`ur|r!g1r9`Tc<rQ6=SVO{(vx{gzYo14Z=8Xf%i-D^s
3jtsZwCExlkLB3F~f&%u6N;u;EALX!su}V$GbrtDK&MnG|ZW#5!w|Cb0R?9c7Q#3bz!dv@;*kr0j_QE
`~dcxa=nMDeOPcXIB(((h1QEOX#+|lrX(M<AC;&l(Jf-Gg@w_}c}-&PNf)*|p*T;Mv(|51>wu9rv6=4
r=7D~F8G6#DD~L^;GfBxQkxblT#mm81m|-KHud{r^kubYP*3+=INx@<#?4mIVTEPX2JB*Ef^47VM`EJ
IHd8$7C7##?Qp_E0PF9b2@ao5J}UUKigkB2SZub&g=;uKmez<acZK@RB7RgEjYKwB>Refh&1XF>N3L#
}sd#}H>T_hKzL`yD}l%Pr;RyWF4t?gj2$#-G<SK3RQ801R`x9DtP}P$8Rl<R6!HTeEK6ayW!WN_O%hq
3Sz04m7A_q;R^5<~6IXv-O&Fn0(oC@5Zk_$gWA~rHTW6^`?Y+vGm96fJ4CTjb70%#^Su`XZJquHp-hm
;~?rR8sgoZ3Fj@7`_a*H^2FYzL?fxpffYIX1Bw`!6d#f6B>3c-cY^ddk*wHkt*dRE+=lI}Sb`YTD!+l
Qd(=srZmt2R+Av2x=OZdQ22dX?S~NRSr*T-(`8MQaQYHxiLiO}-lACe&7iL=z5}c#Ch0+K=2dBN$)j-
=$)%57-V#(>LV6=u=nDDsQ85O}DYb94D3CI2G@QiSCHvBu6(1&zIwxjn)`q*7<b|BJOYQ<?>u`tDLDr
R49FBPX4_7Z7di#pWi5lxeA48ipo2koUCzF6t><D6eQ=erO<%;wM^Yu)-F<PpvbO9v)8+Y51eaq^h*9
P|j$P%^&oNg>;%w&^22z{JNb&3&Fa{ARPms-opPU+)%b#IF7c))ejdzI_E;@;u=JMu42?=sq!->mj2L
RJNsbv75jS?w;6|Ci-3@6P$+UUVFR-<hN(^k2yG}%Onqz6VEk2JVR1?>Wz+Q@p>dI^=Hvb2}cE+!f)H
VdKY;;&#HxlX9~L@s^qq4zrx~*GgW?t)o5;K_nOt`-Z->ccP|Lbh~orLC;RRl*Sp5Ab(N{mqYKP94(4
^PVUJ$S{jd7(&YiC^5}QB~UcI*_wc5lc^tiGIID?C7aW$eqPMswlW@fZq9|}B89K4D41GF5ZADm@I7M
w%PpV+Yoq>t^9IYL^Me?d3_oVX|*&XEOcW=YS=;Wcl&pgTJ0c5@QLL8SFvt+d<_??AVM!apQ}tmaz;o
c>IwML8vyQ^~`I2zhLO^Gql8b-Z|-4a)H8B@K{Nbm!)bVe*RafJ@{K6auUF6j{^QI90YtY3$$X7HIeU
S-RDV^R&Cp-|3)8jQ-MGZ|v@S@)8@KIaS}1rn%Z!cD<+B7X8GrH)1bxkEI+nms9yiM`uvFkp4;~2ACY
R=KIere7zf_Zh70LRA{^4ZZ%#F-8U(3Q|(B`=QbUMX)C$3>3%Za^>`w&OBvFIRArU}eqWb-g)oPfV?X
+TP)h>@6aWAK2mtey7Dr3@xpO=U008tE000mG003}la4&3cV_|e@Z*FrgaCyC0U2o&K6@B-wU_B4Ar;
d!p0)0pk6xoSqC)msf##zi3=|DqEbj*z`YDp@NyV(8hJ@=B5B`29}i=ugnO!8jdd+rAhIUbL%OfJ1Pl
@q&-vP$ffD2=%jYhy)js<pm#GodTzWmyX6oAr7ol+VZG@n~($R%F?_@r_kkCiJ#8)(g3Erfj^*!tc>2
j^8R@OXu33ruUWB(r?<IPJ7jT@7*ZuQ)q1Nb?L-mD%f{4pXO$}l~s|pM#uH>=S(bLy;;0nWIrtaz7*n
xsLU@i?osQSq+v`e^y%{5#rsdo!}P!eS=WWOuyFK3ygC=(HC0h6(IGl|b)J3q<GYKiMfTzR`pr_DiJO
rSwCROfX<5yGTs4(%=HIKz8$+<BJU^b}bM9O@&z1FVp34*Z&}$9N3LaWNo{gfa*Qzj9&Og3cT=j(OJ3
aTMJ1AJOaYNDfwW^jsE*Hm}cB^Z(9j^XvdGUmW!*#E%Qdl>?u=3VaugiUuXq=swz^0tLjkM}unl;9sR
PM;HH)g9=R_%nT#QWt>kCc!B1|}UD@tJ~g?!DU9UU(yDu~$O&0^~OcF!DT?m7t77YG9#Nzck8uWILud
@}6W$Bo)+|wWy7AdIe!qDJM7`?xoeHag>PI&86aU9ko`*i?yx_T8!OPh4F;SN0Bza(T*&8N3+g!<`il
zo05&*VMyI8+ZiPw0_mov*^T7jj9x(5I|Ju1c42nNZ>!|?l<e4>M(niP&=e{|uGnoTk&QQn@+zkc6;O
n7+t%e?G)_U?Q-6<*DGV@}l=@CV5L+b#R*B7vJplFjMitNKYE`5h{FGbHWI7EXMN3qneK5AvjL<W>7&
k1XeVzF7Wms(}HUjv|mvr=KqEZijGI`)0_kie&<3iQzwkf6R0Xg6%57X(46;8R@&+EF>q0GgFwt&-Et
=tI3^f7yNjt-MuTz<q>u|=eS*Jil{G#P$R#^@zuQgyMoT3j!(x91;!faKf7a(Vv!0&+=`{9|-YAgncF
hyQgcb5#g#(yKi+BML6EjGF=>2&fvHqlHVXZv3dXG#!oJS9#2VTIP51mX*3D&y{oQrUdY@Lt+zN7PaN
b7vvJsccn&!Dv>;em^4)hInFbyw&p&nCS#}R2-c52Tz<%g-o3uOTD&`d%kIIZlc4N`1W$?x;y(2cJ^?
VO2C=g^3bL>)+e&)}3~7f+w|aUS`T|ZP`u~Xp7z%<X2#O#WaimITOAi|kG|(!FJ8Wz-;Af+&!;UlYyk
k>VvC|Nz&NOM2%|x<GrUGGUov4G|^w$lg?C#{rjF?75Y*SUby3NqYAak#+Z)B;e`^gayAJHppC9Z9wD
4EfIkP1<l;;aj5ZwL9Acr8nZ?gs2E8V9<|Kp%8$q?6v;3ECa}LD7|2ZPi*oB-4X4_OLIHsS=WqNW)U`
"%text.

(** Lines 765 to 914. *)
Definition DATA_04 : text := "r!%4f2R-AJbSml@&w4AL(K+f3u*DIVgC|*KvfI+EWcde}pzMJFB)AJ!CiZcrA8m=aVRFRYz17wl>p0I
!bE|XGb+90<_uN_d<RQGVE{a#?B-nOByPR~pAm=&rco|J)TT@V@=%pckRdTB)?QhU5`ahxNX~uPtWz&
#?9R@snoXh<U5X!F@l}y{{Kc9FEU#nj`uFv8A&&84>mt{zZjM^i6cZgYxSAbcq*K}l|&9p1&P^Ou@u@
>}6)YecZOZzDs+1sP-BNI*WpVUpFmx0vPyP}_E_(|*PU84)a9^Z;Sr_;3FWn>8)`6@tRduQ{Q=a0hCB
|U<HWdL0vvrk((b@|iV#i_VcswO3rYx%C=46DpeOmG4sCy8=ML97R4&{6`Hup>C;?fwA4^L7O1pnEdy
4B;An$Q8KM`{jbt{-EiFxP&RF-$5L9#@<oVcMX#o2aXP$@0bT%NERDgb8)Z=7~rJ!lWv5w;2Mg9Cw$U
?HNqN|H(XZK;+cpMkE@93Rkv8UA`wI(9e28>bYyd2#9Nue6Y-PybFX6i9V%jpbgGrbp=cFuGxtnr0@4
n=6m0+o5CIZ%0&wolyx#kbspczP&C@h8vs0uit)y<rr%KT<Tl3qR0CJJr!e(0K_FFKXJ2!eVMqRyklk
66!2Q#uNK?>wKeD|Ck+}lVY9q2}cf)s-qAC0&dv_G+1cdMdY$bwH<saL2GrZC(c&sa;!WM_GKy$Dmoc
BLL_GzKoO<acD!aXA7fsQ+p$EOV=C?_wH~0I53`>CAd0@j|Q`T^6SC)HR$)pdum2KY=xw9g%SJx3*VM
(2qD@FtOLY{tcUHi|Ih%k8BPSEE15<=uG4m7kCmbvN{P1N_8vqedbVCh}RL~2hE|cLo}Ka#iIJBj)cz
Q$2-irxg+z!M88@6NBI12u%Y4q2AuT&g-+YWjm?=07|KP_yT`&uE?02xs*tugw5YX(9_ptpGj~zhdFi
O#v9{mmS9(P)e|}|d-JDg?4$MNSF~2euI+#jv6JeQqt#-<`Y0tqarH9z|=JYS0#TkHw89OQ!z8-ebyE
*+P&d--jmAajiCrTt4x|qaP(?i*H?;!)Q17SWwGenAf<2Fj%EnckpT4`Vs^Zs+>7u~y1=5YDi(%r#%K
DTGgCC->e&cp_7{fsVnGePeW;d5{rb$=Ro;>uM7(WhCa>_1qwuV-w)@VYU4x}vX^hg{&>>QzH`%#cMv
9;p5L+o+9SYs(=5xZ7Hpv6s@`63D-f9rs24Jw6pT<C7DRKJxw~U*C>D{}#D=TgT6+3CjjU2?3d$iVoD
HHEB~9FmH0CEtW+A6@51+y#+jvw6JcNG%Z<!C=;_RKKEs2_46c&P$x(roVi||5z}l>gLm(*L8P4WOdq
)SAfYJm%u)CTjf>GqAe%%mSxKbuVIfj1Y72D+zCjF#GBfTSUsH?5lHgibvef@nnW=ev(i($}uy{|eO-
UiB!k|mGG0sbRm*N)=GL3F02g~BEM5nQRww{E6HZ$n^5Kf(TgreogDLZr){9<wXigQ#0nB#vuM_+O78
J`G)J4Me3{U_EQ^JLd<umoMCy9R1B<A_|AfR$moYntsi_=j+{%Jo`<%RoOrg{8<{;Wnlzi>}08(nHmr
>DkLp319i?Eo7ool@g8f@(%3>h~%nJ^e$rPeQSl=uc#ZVXg{P>R6y+!Bhyqcr<(zRzG0w*FJ-xtd-sy
;5_0WTn<I~r`YXNknF_>mCo6vIqpdC7$Js<3ZZ%yXUvT_Erb?Y_&wP|$&<F?Q1{;5CDAQITaU!@HyJw
pTNzdGb;0uKlY(i1y{!lp6<9M|d%*!G;X9EOgEkeWL>9lK7e{?tMWk<465{q2&`PoC5S06aVU>ttrWm
Bl+XqZlk<FP<)Dd$KVqTm3>&FQzFhwBdKMgKn0)zv!GNW3=Csc|~AH25`+evQBG7yXgG$0yIDYrwJI>
CHE%N2X5)?<Mj0`4>=20|XQR000O8^OY7y?@^De^#uR`OA!D75dZ)HaA|NaaAj~bGBtEzXLBxad97G&
Z`(Ey{;pra*$70TvgX8D+8Hy3uIRRWS%bFN3S@>#%e2ExqBN39Vif)FyQ4&zvfQ94W*~{om%HbldsRl
G(QjOG#SAA*uE~9={vr3m+>oo+SLFQc2lA>cDrUq=<ihO8d$!fdXfz5osw_yFZfa92o~A?;RjCYND_!
Qb;c4?d2-<bU-ILyF_ju2g6mqMBz^L6kAn@5A%1XHr+kii0yfWm{uD@2QRC7Ycq*82KFe1yWyyMDV9h
0k_xhW<2iJT?ReQ9f<O>IQ3lTI#S+EX$(hrfd$E%ignRCbdB17rb4BpI+Fa!yr9lV?#%|6cEZ!$KGZL
9pf<vgIaatCd0?avC+p0dH?P@FfXu@jC&muMuR<3oZ??4Co~*xMkQHupu{0Gh-A5v@r>*UA0TWVhu-A
Ava~%%EnK%Ls<Yctg6ti@*E_<&7{hi*_5hCv|-9<^e_!?*&RE6|91C<`(y#TSuVn3w?wB^^JDv2yRRA
&nhlRI{EEg6`8wdJC7`3J6&QxeZ7C!zSVgr_u|@8abv-{@M!t)jSwoFwtw?7y`h<k{Le9=Ya6&F*{g6
JqxJWO~Lx*8ZK79B9ND2tZeI$`Juee-uneBX}{YXptP!h%AOU7xKptdyhRwnI=XM?UQj9$K`t*LtPM=
5y>$$_!E_?3Y>h7m||z(7iHue(nSBsT#JgtP3%kxX>OGqDjEsnQDh==6L{0=qD;m|}&ypy$4Dqaee(t
r*wL4JVe?>(OjBipgkpHd@AAynuehpOE)>PACxMpxlc*Co8B_TGs^vE**O7ub01ECeBRzcW>H)TrY#x
Pk**xNKu1q5VsX~TsBotaWvPUWQ18MzTpbI$6Y!)ONh`G=04859jnW&7VH)bS`0&Rx<4}}?^-Ju*jHg
?C~JTxBwTHanv<S%x6o0|5h00Ua?9yJ$>}mClT-Zh(%c7|unOao4pN6&;BliNiZE;1ii)XxP~Mt7wi4
PSx~u8d6D906G&D8W#(eXb-Z4ePcW=Ob5ZJbWv_=1oE%;cgxvlz_;CD{Or_<->on+TU5`3VePt(t%1f
z=?%A=UPt)&qK|EoC_4FI7J1Lxdk5&NKh>J`hZvW}Se1rsg4p3bLBG#kqsdFF0b&@M4uBk;kp<7b8hX
>Mrb_b2!hIFIUjvk?#IQdmuz{KgfosizpR+GPl%9?Ariga^L1dK0!@Q}0fL4-3p0LiAji@CSn-p_`(D
nM|#SE(q)?7dR3K45N-hS(>)+cr?McHfZ)$u4l_(hgmZP)i&(gG47JRU>UUL$>}t?m<VZjP9Q_}i$6}
9+T6Ph0bx<}ntEbaDSnN5rva4R>Lb7p_JWxB*%1?#nVRKkYp1=KY*krTnnnWw-eGR@#amboP6H5MI>Z
GH#q7le_JOL(4t;%8N$0B#GvN@>V=CGv_arUWBTv+WrhKD1FlzRd+CU3P|8_li<y+{3r-qchr45uP0j
Q<GvdxZhYnllQs$cr)^mBS5(i0uJI_QP$k#Owda2R~H#q8S)*g%_p0Cn!Lqxg3i-su@}{On%8GZO7Mf
#w4_74@<9hf4PuH^l`~*>F2otz~H1T&F*O_n5i;d>e{CJn6OTSG9tnpqoo#lC=vjuPzB))gm`;Y|5ae
?<^@ep)}3hW6rV#JqP)Ms@g|jH`|!{5{=!6;~1pji3Z;zi`bmwuGK@?hkgiJVk^uQ^Twjzp~tR-WJ+)
t($*yyj+MOD+|EJm5CZ0TEq$oD+O?WJosHV2P4qR7q4`?lzqiXVS=IQW_-`#>3bS<e$NqWOBt>TxQo|
(-gZKv9sf`{*d7K{)WXR+$jCvhPU|X6V_9J*3-okL%b2SplapuibsrAI+%-YxJoFB-bcJ92zQ52bO=E
cG6-4Em^Ilb=yXWMZPZ1H~qB5VEqKk<DS74g%l{tBs&nAyH`bwYxmdra*+&*I=kDmpljHWSU@T>FOgU
e!Db{sT};0|XQR000O8^OY7y+pKr?eE<LeoB#j-6951JaA|Nab97;Jb#q^1Z)9b2E^v80i$My)Fc3xe
bBY{6TemK16ERq4B+10(pwNO~iNxgo7R2t}f1fwyG%Jy*mYPQq^_<@+7j=Jp(yNwHejC7Z-y84MUTwf
QM{c1lFrJZaD1XyHv@UQr7>t4x<VcKqIa;_n6D_fq1KUB1wr;I<fFzeL^e5xjqG{m^P)h>@6aWAK2mt
ey7DuA+%h!}7008QB000aC003}la4&agWo2wGaCyBwX>;7hvETJ8Cd;T6u$CYtA1}q2R(wziE0(1a<=
82T55_KLmk6=I1_xK`#Q**EH3yDe(aw7hRT6Q`^z`)f^mO<1^iC#|M_27;Q&x>ymX*qix=HdpD^@BgQ
Z;Y0JjI9RR;$VOR_lDC=2?+cJGDs`cgad)wRO@&k0t<WS(R%Q$IG^9D;>uwTNC7DUYB{>=$M}$J(Bl}
a=poN4Gr2i^}V^(RaKPcVc8aorY!T?ytqy3+dP|_$Glvv08jH+*6uFaB+adPthBkSZ`&rb?Lw~`d%v@
_8@=8v0Yme=O{xN#sULAq=Si(U`^5CJt@1iq>UjRyC%Raaspdj@on$#6QPsLKMPJjCK-pxQD8AQ4T2@
h=y*Fj9nhKh_d}XNx<y?id+!lG6q^2}>GH%KkkeI2qz`?<LS3$pD=uMNAMQy5F7WYY>r9a@PzJN{^$y
(3U_eIV8p!th~ke7?310c=n28me5_2O1z<=2<5<8Lm$y?A>Ozx?veUoYOoFD}2m`0mS>7Z!{~SZ_Xg_
Gyy<F>MP3%oGS7DYzEE9C6*wH&waNbv;uW@B`jTvudW+$(@d==atR@w|hWgk!+Cp(ztHYvTbGrrCK+Y
)?u%uNVvwdm=&omni$>=2L}5J{1(-VD%&&`$t!w%33yb4I<}{GE5NTV+X{LxI^@y1yw?`yqAZr#Y9lQ
2h-O`^-#6-9O{48?K7I7)Zx?T_E?<2YfBov^>o4D4e)a7Id<>q>)M*Gcuv@@u=Vn$!E8Toc?}9kSQI2
CQw#bvZRy4?8Coq6PIsb=VG~pSM45ss!KumbA%B3PCY7!AVxs9Z#Bb@hCBh^co`&p4SaU9e-U(UEbj}
?oF7&_NfWiE|KLtj@qX|zhX8LkyQvL()d7RlNHJ5z4~tEwy;L=8og)aX^{HhHGLB)a1$zmHzfx3Bq=;
-0IfRC%_}8Vd+75_cI4&s-y~0II2?K^$oqX<_b>0#R&{hT#xd1XFPX!nK9r4eaMoWlPsX1;p0syRy(d
aNRBe%<c;}5CkfXiJ&qVAl2_?Mr;!wc%x8h7}cU%twV-hcMP~Ow0eyIs}XB(T__r3)u0E;u^s(=!}ug
1WGWb%5*8d7of>Y0=&9k!tRS{T7{W7O=|uw6#Q}oS3H*EMGjLMu6i`;xIHzZ7s}%^B`z+OdYXk^d<QV
{v*3i(57Dad{aFW(-4lHw<G#-vy{FayH9kNQh5fO$UZnLHq{C<EbRpdLILK+vDTU=7$37WG!h3o(iJ6
P!M0l^$Pl+AOk?sZjz3??{5yPm@%3_{6xKv&YTn34!-k~J`Hqdkz@thqI<NqL}6Q8K@`MfT5DN9rP4M
JhTm%lkT8-8PIxTK){u7w4Rr{Mejk#i4Nu1A$8ns#yLsI*p<T3qZF3ODx6}WGrRs<7iA%knt%HPeGSq
NvDAT>}%j95fB<grw~Z7Tt$5VCMdktX$DJ|P<mW)xM{{y8h8aT-;s3it07Bq4ZJh5hS-MsyuHm9M9>;
Yo9Bkg#A%V`X1Y1TLEk0?$(WTcbVUNMK&1g+A-h5kpf3XDPVZ)JJWb7iv~?r!Dt#<GuD*ZsE%bzW9>&
2Nu@a{Mywhu%Cs=q{C95?ob42~E7HGmYI9HN6ESpfYtVOT^DzL~_u;`tuYno<&bd1ad1!Dv6hRVXAPz
hAeX!a{04saOBGHTL(_P;neWE+c;%?9`&n4C|df0S7fTz3J_9Hg5tw1^@-&(-8eDp_!$8HWo}&4|+Qk
?2qJqP|U@J^O?h5QdUTo7FyDk;Q6Q9`d9TShZfXRo3iKfNWqY<0^qt3P64O*$lY6Vb}@0LXE0|uP|?*
@n!?x0+uFiE#Puca2TczBlVYZ3w&PDprzSz33Igo1ww`jRUd$x^BU;BBV!6U>>{GR04-IaDCFTpiUGf
$8x=a@o(Dp`h;`Q>45M59KFwCTZh~-xiwpQ5$g%Xp-q$4zIegqyI7f*K$(De3BnX;v1Kqp_wNm)btGg
v}y)`1IY6~P3)&l*nQxafNLocqlOO`viZ`WtfZf4TY>t|=5xQ9>9K64MBo!#7+eq9zdE&wvcQLk4<-K
DACS#m%Lr4^hg%x&WnGMs>;^#TMW^cQq5=ojNDi>%QDh(o<)kPWPQGE*NJo_#b}%Lgm)!L|3y%u1YTP
7L;!eT3wfB*}NE5Y4@;W}F@b4ogF)vSqSpK3Ku;!~VjHq$rCFECiM`=Uq)ZB4Z4{1Rauq)(`7mz#@Z*
hrHud!{r*N+2o?s)Ip!X-DX3B_k``@33Y&#60E)-eNtf0Kd2Y+0$A-FAhrmw@tU>D99AT#5FkV@&(@x
Lb#+lysPfdxqaz@zBQmcM&w%cti|<}teD`*y?9<zCF5h?x;#d#pU6R$>3`d%!u&&WmyfO6k(8cCF<Q?
!%_iPsd3|S|Es}tH%(!(($whIc!Eh}2>cOQp{fJWBX4SIb&QeTmhLK>qLu)vx-SoeyPq*~mb=w@-aDM
u2soCTd`W8%0NG_@d{d87%$?z}Zn4$cMBQVoEGy;00~h6f28WRjUz{`&Oh`sq#R3n(`izD17od<%3Bs
5TX7B04>PTeVifuQUo)DglaezADeByb?}fDFkVHS7$%#^QY?b&(*V2r|yfUA7Eu*d0nia1tL3PPfDO&
s|vjh5Oiqlgj;VRvmfaTLxRtz^hgUatkQ)bIIZT>5GTgc5tXn+qbfoxFR)05-qZsg<8obgk=CA^;~m!
wI|Xi|c7yaD`*yfpUW3v4XL6oT)svyK$ysZ+kzKX%F^p181*YgCDV|QlsH&SP+XU0|X=m62u4e~9#ub
T1;%QOe2dsLn0iIi1>Rla)vJVWsEP<oc=jvlepaQ4zzkYFa1~~xTnNL|(fvwvwJB6_X-qzDIHJuJBPC
Kh9j;TWnXfsDk?W2#1-1K0Xy^q;(!~E;<9#~eOG#&kpr!{lQ(eF;M*hy2K@N3^9MUKZ#qgxPkp;|3&l
VSxHhvCR0_2Z8}sy7#3zk2fxs~Tb+6dE)L(2eF=F)O5ofM$MXHA3}qJjl7+r7j;XvkDzm1ulpDop=i0
1YM>R;bJR9VA6rofvpAesiDZUCl)=zzew_0cRuR(T2^9Y33ytxO#)V{(JApQ=tI~^xCN_(-oyM3!f<a
d5EtZl1N;fEc%XjjjR8DK>P41Kx<D$PH69f_3Ji$4JwQ|eu?1aU2Nt(*e;I7reXbnm06)T7O|t|v6~G
R(a`A!(6>!jh2hU%Bj@^X$^o6<qB6{*X436;;U%yN7IeZ=t2Bv?#Be&%-w)T4fKEu}jcJbybPz$WkhS
eYj)ocSs2gp#FNVF26S8CKLW2OMA%KCj%fktO^W4pqmbqz*Oo2P13vTsA0h&mw29l0#?luQzQf{~(08
BC4=<4HWRni?6h*n+3>^f1K>w5|opeV@`1y$le5BO7#q%cAy9chRaUTM&$h2e8BWxsP8@L$M6hSzQf2
GeQ>l>W9BvTzoqXiMM*%vgLMmUpe(?SOhPb4>VUrhc%LXoE2D4*Vv5-j`ML=AIl(|;R>!N;|<~E^Q`y
GbDmiTW^xP~QMKDZ$5Brf^{Z=iIHxBJ$Doi0`d`1yaE%Zd`WB7vOdL$c2;Y@0DlVWHfT0XVHSLg~NF_
94#zSo@)U~Rb{WAh@t&>8$UgTC=Cp!gX$3KWA$YjzZ)#Z1WB--nU96w2eTR;t&&xlS_8q*)?4hv<Hn!
PfZ2N`XgL9?J%ZE#&dUaeBH``KbA!_c-Qu(-XRmSPD-I?Be83s#N<*uZQLd1LSMkzd2q65%Amp7<u*S
7`FC@Wd&7sI|TePQ?|l*Z>axPDS)4*?vvWytyTKEjA>1mzw}#n95~Qm$`OI!K%&N13JPt=-7#Cu=qi#
2&Pg&7V+9&lpL%yTQmXGBzM<Hop2v?XnhPaBh`c2DcjMWq`eu|lNo~BI&31xG{z!bEB#L=VrS^1sm^I
)&D3qV*5~LEn~`MZ+wn=d*~!8|O889i9-LIp02S0Q7_JlJm+ZJT{#NUsl*!6490~YYWU0T^*WDZ7Zc#
t*Kj{YkC*5G1!y;vFERfJ*@u2kxFZd|iDvZ(fRH{sGMzqS2(trV%=B9C-;1XiGBERAr&zcoq^SQ;x$X
_GmKqU!TK{1a;p1lDbyh>H7n*{eb#nD7uL2QyrIc0q7v>x*JMY+kex9P+yt?U-0plYC_-)ssX2vJEL0
C{HX#oOZ#%y#C{?^tp)yA66a@?B_w8E>@%hr0RBd!M$Ii4hRk2C$XIGWWc$$z*q^*4kJsev8-EMfWvx
JGs?_d@uzBCE3oHf|OpBvM9{`t{VQbv!<tC_qL4#)&=Q)WZgG$0MP=qhS)szeF#+E6a_>ZUD=}3Y*mz
%o(`987ZqVtLuA8%nUDN^3p3~c*=D*CBiyn&?ev1tH*Z$~_W+e{Sae$S>bfmLXnu`s8r0QdrZ&SBdAP
l9idr4b<8;t<PNp9Cia0*DV~%xkux7-vd<O<ww#<5B3NH{$FO!WzFAFqltSM}YJnRCL{j>hZ$lrkltx
X&tepk6=D^Z-`ski;o4pEUGp6+P6buF#jU_}PeQ81;4J)e}=j7gf>Mm*9j@^U`cZpc%z%0VikV|s?>E
J#`w^vqTC;E~S-Nf7uD=MV7GTD;jfccxjf$lFv;iEwVS9lz7ERJU`KelwY2tafjc{7%s7@j9Z$@)Q2Q
Mkk0Vb`#}8DcRLKG%53aPZf7t01u2;AqQ_ea+#>!<XO{Y%BSJ==?&P4DO<MF2<7^iRXcFr8ER19g&M<
Zh$MeJh(6GBIMc^_f%^J%N^czShxCBZF{_qwIF2;Cx3_q~61r4@ht^&bq3+;h3{AA64^%orEt-M`Kns
dCRf&NY>>Q?jstuUVy24GP=LZ@#=8xyHIA{#_+p_X&dOQWW6;JK1K)8plU~%AHJ^S`qRe*{w+q}s(uq
e6y`x{l$akEV7n-Ow@91eJINxD2vz#&>k>go<`khZ`bIn)oZ*cgwoj39>M+hDn;mwUNF<mQ0IDY9qCV
MeBXU`mYCJo17m78n+U5*}D4Pk!D}50Yggo1)YJcZh7TIjB)1@W?zwap<<wjh2F@-3}Y9|LEPLi8)1+
a0FOeSiv6+r%qSu(twV@_(AiwY`NJ{7XoA|)B$JoZiaR#-aHFMiy<G2LfB*7lfaLJLpcx-Qlqn7irdJ
6ZEr~$sM#kTCq7hTkA+5Kq4tQ_Zx6v5{i+L#n#Ew7H7LDgwHiBqE4#>RismsfSXg`u&__U72-xtVX;D
L^mZ{coBsjP;GF=|39-{;EwE;-%W!p3>CPP@X748E;`xGC5fjlFiWO1#jA~5lqCHxxiM$m0|qF@xN!F
6=C0JAk|nhI99nVPf+Y_ex212p>X=`f%SLJKir1IrOT5JKT7H7=L5zfCLy9d+K^8Am{oKLbm676_Fdf
#tb^$GQc`CJPMjbOQyievDuJbx-deMlig<_*iFkO<}9&YX2%B<iHJte^WGYbQNFz`2E!z|MAanUi*))
-u`72-Z&<J?&202@J7T#Ze$3YX*Be-3*kr;+#||88xRV4YG%LWLlkv^X8boj{ZzE$nUd{5EF%l1TP!D
!>#=2${cp>%Ez*g4j4QP<`2MUVzC<s<G)>vbr`XBICjKTKTVza=p!dNN?Yjn}=6xdum+!3s0DWJkfcA
89(1=`tSnS%M=gK@%7q4gV5BEN3!e6{TmW=@rEhsXL!R>5ZUl1SporKC5l?HZkyW!Y(Z{$gfF=~*fhe
5-A)sQ^fvM+;wuFsA?xpAgKz8{*y{Q)qao<0cZ1fV5-sr4ZgYkj!9N5D%mt39e6J5mer`*v>Nz-88t$
KGM@Jur%}1DQy$GN7&wAFRslaHJ^*xOF0UMGfn}MGJ%NhwjeCo^1tbxUZ*<wkW(}%oE%}7T4v-CWHWR
d!-{qqywXKp;O#?$`1F!SeZj}(0S^(#7(EfxPdG_R5p+4e`_D}9~nPfxv(2v@P5G7v~dm^GTnG#gQWd
{v2Uj^PG{5>&|%)_B9f9<TC3Zp+0<tzCoACic8+eGlg)0EoNThq2?+dF*C$W^aC+*niKIt>6>k%ETD6
L+7dg69_eqr{xZy!8BuLF|>@)A5B>B3uF{6bxIu^yx&C7I0ida2{`#fvr?cz>1QCY1ReK`cdT{!vp(-
W@)78~~D1yeAr!mz)c1LC~}!Jk?@DMEFd)mjN~*7|jAdqfIn;sq)X)rnt=_%k1Iz?RqjF6pnb^#-Kaj
$?k=o5>c`d)5Y%MPv7qaD_-P99#<4TUbfUtqJTzvV$N8H5udztg?$c+$~!CM(jU1`AyY6KCx?AjLRLP
8aH5F1T>q+9e`D23$D>;u3?e>S7$O#fO>7NCuh8PfuRix_WSOx#e~ncknwE`*6k7siqmEiP0&-*tA^*
kdgWb-U%crY_4|a8b-h>qp!fQ8jvmJ&b^Ot>;)sMZ)i%rHKj52@vtv7R0_<_Xoe%BloyURK)ey>Mcq)
cZ-H-^5<8_i1aV#<zV<M7jb&o+a6b=CLE~ut~tiA7Gx!nHy9j@!)^WUSh0{(e*LJLH{2P!@ekYZttj$
SYL{A!~YS(1y3CEE}uyCt#{lrE7xxLqL5dj?`>GMWQ*%iEzwlqm78)L>;`TT9+Wn2j_RqV+4lC=?sLY
xosaBs_7!hk+&*k4Z=KQ^yGNS@d5R1^n8D=Nu_`N9}zaeeAv|c$z8QEF$$4g|%y-KnEU*mN_s*N>K^|
%Wbn*GZ1=8ryCU8Pt>W>gh5E~L+x#Gptd8>67`V{ApFQb7a=%OAcc<;#S4Muzpct*MLW@!U=^y(B!$>
6Ww}cBIq2vM-L+lWfq;?{Z(*4PrkWdIb-TFrhTF%0gV)*Cr<LcHoK?_wK<uS~{wz9$#!V;hlPvdT@?{
~oz_LIjvpm8ved8^2-*rYO7w`~+Km&_f`o0fiHq&<!Y{i@Uw&xkTprKC&+@vis1eD|xb2cc*A|1_q7}
}joL0ioXmmm;Eorz&i9eL9Vd4whavKSaRhAmXg&J;5_?z0Mg8oIcj2{2gkO}H4sw8)y%CF-i2p<f1rA
j-`uK{p_bO=oCk?sx~PDHR5|<ACg;yPOZ<-Xd03A~XZ`gW41zk<~JVYmV;OnWGNJplz*j=t+O+;D)G~
F|7w&W28)}l9Y~G@o@p1EVsCB5|-pbrp<eNj~L84p%xNdYgS)N>&7BX<BR9C<V2YI>8FeDuD*YBfhSm
By?%T7>bt9-euAnnG-ZM3TLc)XImlFe_=nH^hzE;bnd$8;y+-w%hNhQ;CeM?+k+M=mfxLT#hs6N@AEU
q1zyMWu##}$fmquJTONWkHnMU`vHf)MpAu;;n>{mAwf%#!)7+#_up`UDHJh_bqn~IkQl%4~uc!PkIEh
}8`!YMtV&o>t@zWn~%w_X?Cdg|C*;{g<m9P_sgv3I76ro(<$y*9_lEoV-$jp!B}2!l3bv?({i6u!V3O
*?W_5_g?#;Z79(WYBqgdZ5JJ6=J?#C?c$`7y^sz41d%U4|b=Z9U@Q+8r)`J#RvbVCE9oTu?tSx!_DGg
1hW~aNTK>2Xi9DnCVP>4jE2DDdJ5WN;Kc`DpFO>qc_@d!8Rv(z_3@sz9?*^{3LK_$EfyCar*rZX2Vvl
qGR&cIfUa4<-1&|LjB+sni521>yi0?3(YrK!&MMwr=&W5^n?d%1x^!-!Uf)UBi^r^c_|q@aXVj7E|63
gEgBI2uY3)Deht6z0$QdK8|L?O%r`Myr(m{inrbC1ea*z)oIDVHhD={NkNFyB8Yxp2*S(mI+2`n}!Bm
eyUWmlUJD}c0Wr&ky@!|(v99;z?Y>Dhj|_xyfl5aP9Ly$07)Z<O!uxqtT_xg>Niym8bBeMHc)_n#s$@
RjYy3YxPR4MY3>g%O6+Gjc`z()sFRPq*y1KkWVH*ckD7qqQ49yjFw@8P~L7srDQQgTccH95!z^5k}4}
"%text.

(** Lines 915 to 1064. *)
Definition DATA_05 : text := "*h(G(7;*okQ*{t&g>j?g5re7`KLoa!?!rMatEMPF1P<(QTfHi`I1~(Y<bXrDWpmtVHYhpy^-MmGZqP|
hWIo<88Q+}2VowFqGq(Hb?9@KU+$HH*xy5pOVg)Sg4jabPRj#R#z4v}A!E#2G`iC=2Tb4Q_QEz=vE?#
PR!%mE;iJz6tTHFEeatQym`6D<%L9i^uQS~RA6evPZMU7vqi%SZBlvJx44+Gt8J@;0Pi30qHL(?sDz+
hSIsVT!u<z(GMU_%1nTMF;$9yu`AF4K8RU}P$jzm1WG{(=GY>YG<*tU9ksIatjHq~{usD%ZY?f?QCK{
v;H7B>ned<S2@-4$unj9qITxAwox$Z*{Mh#M^O1Slw{khO!ZN$C3izINIzMk348LOwWL|5o97*)C&Nq
6EK$0=fgY9=Hm<vKNeR|6G595gc3m5Z9~cM@V&wKH8gsq8=`rr8j#L4=QEI4(KrTBbhI`msNG{I<0*(
<02Dk_N~UjCE!sRWS$%ley28m6Cpx1V9UDJPOy`vXD~>~Vrp1UN$3kO=HVL9Rkv^0_J4<(8S>tmTZf|
h7jh6zfW#Ki(zF0bd)+tEAVCPWw`t11Q?q19&x&=r1fR2aFE_zX}9=bfYIYwTzCfU`A_ntq(;iLn<$A
5FKG_c`&XOU(^gR-W?DZ(zV%yz@9bD~Akk}UAN5_-GnNP{{t5MiQr*`;${ndSy)Z7I(bQr0^M(U(~P>
kv;uv(e<bcmpHp)L5p3obed&QDBY}jh8nkFF4y+-N^B%*gJZGm+?@Xd$q5p9g0qGqW;MuSF34J<yj{i
km}9Md=TE5MwY!j$>yi6;gj2g%?AHy5lqv?U5wGs!0_`7;O+teF;m{2yJZYKgkIy>^|Gqb5r|>dHK$a
v&RAp-^dd6QyvIYrAg{rslXGj8UeZpQ^BW{RwnO*E6rFJE<R7>Pr!j7dz$CYrCW;bgCCEP0T6ql<Hi3
>-<U##HJ&m4*f8>NLfHx%(Vg=R9#^>C|=nYzDMQP0pX^j9rjh+cW>5!B;0|?KKY2=_|6lIB_eyc&Bf|
uBrnR<yW@Ho<$divj{0#kH6n==FffhY-pvMJ^`hm54)sd#MqdF9SHSJJ^TLAT8+yBBJh!IrZsrelte2
#J0>UDX_eP{>P9xp!PqMY#|8V3wpgeB6yJuqK1CAwkXiLJbqK!TVp0(zNam!s9wL`EmMuLpp&O`AHX4
Nv<ZuT@KE`Y-EXyvlV8vovr>Hm6Q>=>)dG1ywfy%#6Zq6bh|UXbWBUDYJy?$pqvkTIPIE02XLKvxONi
PjpVFj{zRq1+W=#AYMt!nnnEo*hgD=3iVoDEgBZbcMR#^<a9Y=m@xf!e{;A!Mo_j<O_&_ghDVdMY>D6
Y3<!$9;p1B9yt)wRl=N+a5{I_?~H>9J!o^&-wejf?_@XtuDzLAre{$UC;k4F=3@LV>kp2_=UCKRX8a1
MYzXr?kng`IP3c!%!d=&<<tDvnL$LDhTqBTc?Be23<`$OUpSD^CpA{zN#b%)=hLoKUv}I3E_L0`k#e-
92>dLepb3l8(K#{z#Hj0eiLpV-io~SnK3?qSBTmF=Jg|^0$?Qvv~D`hXkfP{q(fgr@q4AV-4R9B255@
rA-j#5C(k)C{BauR);AtUJ*VVsD_hePlNEKThSxZmtwUv$qI$<Tw+^ma{v!;>4dr3VUIDJso0er775<
Z)NZDJ=Cmg7*=p>NWnf_MY$57AzWUkK!;bacK{%y{X=QkBBVzqCLjDZ&6l)CFt2r0yd)~jn6WFD<%{}
G*$9?)(XkcY!`d-^DMZ5YjfiS>LY0NUno9B|F@ei&X;p;>grP^{xkiAHdXe27amT{+qjuf3NO66%}I_
J=%RCJkdK+DXx?T;t)L~Ny1%2`K8w=qhvT-<fWPuRd^xQ)6La1fEmoGyuq(Q~k1Hd)x=cD#iOEp-+io
E2uGb;yrL5Gk9ef$nmN_W1;3eGl=+Wi8naiAtWbWHw<biO2K*TOvvC=4FYAOq&2dhCr$YrjDH8?oui2
=?Iv|3C;7qszC2;Vo+99-f(;xZup`z;ZSbd$`y?PFI+%@;MI(yL}K3XtoNPZUghOH$vdSw4k|t%<u^d
;N9Rpn0u`x5aN<q(qa+!Vlw&<Ok(^QIWVSBHYY&7Ni*(Sf4?(_3QtDyl4oxtrOXnH*<NBssp-Uf((C)
tADsF59V4>aU%p}jE=Sb*`Jc<F%#^t3NW^UuGpLQuXX#puAnD`a|0Tv|gTS`Z3_K6R4ZKB`Z<P?wAcP
ZY}hVd~$_1DcoN;C}QrE&23O1&h&BL^i05X|KzWb34lV?fuZHwS8sd3zk0J2}ioq4>_;4iIX*Q-9_)I
Sx$h5M0@V=@sS%Chv>&5uV}xONR|c!H9%$tqn@`T^1v?2Z7gP?_p|U+(S=KrR3y7eP7&+@^pW+(ajd4
uX?a?*v-L&YT05s8kOmVEd4QNtvfz{T>Y_UTq3N%m_L-G#1sxCyOL7_-@U8ey(>@`#6K{UJy@nD9?$@
=(=e379}(daZ``4(8})=1_FzOVczRoh7v8i*K?<;mE1Xj@AW`XI>JndIb6rmDoSmP3;~i}3^OTI1smQ
z|!{CPGiMpP8O_Oe%n%Xz&U56-7MnvU)anMVQA2<wVYOzhviI&#OI76q_R+1aYY5Os5wfTPV8smDQ5P
8~y=?ju~?q?!CNMNri@%P~yWOsrgjGnYjX<&|}2JlzzVV-#Y^@B4!z{Xh;ge$%5%{B$K%c;SxmF^VgL
>C>gkIr3y2MyWWu>O{bmxJD}B$6%5Y=(%!!B8cjF5iu>8FGlKzy3m_flnieu<fq%zTL<q;m&hdBJPbh
Rg2M>FiL8mP4pLd?zEOXHlD)aO+l!`ddesS@41dB8$}&>m8maW{kj{hfcVj7EkYlxiO6HznFMsg2OjH
}dcy>^UIFq2ctqZll*<!4qXqDq;z8{V4%B0qonomcISS34<RE87Wbd3I=Nx{*^yVne|Nl@PicZ@FM%|
z^-IJ(DsY9I_@G+L9eCzmtJu)xGGYFdtbAmkpx&i1!<AXr;51`@I1HU(E+a2r6Q73J#e{oh1KC?g_CB
Foo%h;RO&1GoSs}(1?BQF`uDTc<|Oq4*_+G2Z$=SY21>KZq`C?qz|D7U!r?;p$IBiq@5Gj9mbo%BYB7
3HEYO0`WW!XF!HHzW)zO~0a0Cxsq4M{TaXX$gcH{nX3*b2;yA0xwUhMZKiY2kY%iJ8ik%CYRVh1P_{&
cugKOG0kt5Ob)~12@G&>{-zQF5l!|<A^+MtCPt8(^cDcB8){0S`BG>!zqC7sg%>AcPQA6$t(AMJHvOu
jlCT49QRca({b6D4nw7b3P24o$9~>}5@K+&&_)TX|!rYM-;eJM_pAU*vySiQQPZ{we+KesjE?nQt{Iw
6Sk(Pg>AaX{K8s;4D>kcz3u*Ml+uW5;wmj>fQme;{F<^9XsbqXe5jj5bsf8(f54o_KgnIQ)8yPwrN<J
4j6eKihb*BM($@al|DPvIL>aQh>+aL*}li1OLe12B$Fhf_b;<p(h!UX&a8%$^2aLwQiJ(-zjd1tl2c8
PriW_YdR|9a5q_(!8W&U1htvrJtW@bNZDH(zDFLOHP1w0NPqNx8+D)7gvIQJqC9R=Nd%1Y{b-L&XpDZ
D4v{qrZh6g2LPGh$H*F3TuGQGsr)q0{`N%$bgGNhXnILjJC2nP&V#<Cxc^7o4lQ5=iFVw+B%=k4A)3@
5ZhwM(cZ36dgOXwZQPxRyr>n{Sd1gbey<Y;dww?3uqm_41HwCi<Q+3*Lj2YG*{fk?!B|QbJL@u30vI0
W{I$?G}?}~C;97aLT8<y2wm-PYa0e0;10xOw3aZRMy1N5D~nZ^M2N^C~=d&*xfdoIPDJ&Jf3S<!`izb
<fCweo&?z{#w^4-o9DF7~r;L3~JaH6dT#?vVLmt}#h$F87m*AI?O^zuVHEcC4{;4ucO28>NgnA00mVI
3&sbm1qC*=ILM{W$-Y(tOzGk+E?p3OU9_vXk59SUU8LWn_FkgKr5qyA6Cpv^S*Y5S2#pedhlxy6>k^n
*EHvUGnUf!ek_mrsn*eX#0nt)Xj^S*=6PTE7eVmnC;V0@jrr-L{{c`-0|XQR000O8^OY7ynY3ELV*~&
I%n1Mh7XSbNaA|NaUv_0~WN&gWUtei%X>?y-E^v8`R>6+jHW0n*D+uLKyLIHGKw4md92(e*E)eukw8$
Y?2$VFkSW}`(Qr5ab{=IKV$!o{nqB^W4&TwY<=Dp#jX`1w^&+-Fxm9auOQR63msct7K>hVrpsmKXa3p
fjJL~jW`UUWniyT#=sdJEGDXIk<No9M}t?WE3<<X&k+QJqs2O~Fo?U1J7aiGoCFf`g?>sJ0!vEHnv;u
#=1F^bvl^&{xvK3FREfI)!bbwx$(B@4O}1W=V?Ug{3^N2R~TKbHwb8^+FcT=)qGSzmsHI-)U3K@5W`l
^v(R~jxI@FiH#Y%m_VRLg;!M!-dHEbMwN|d<bi-&F?5wid1kPeC{D+a+8IPc0_*`)P8_5jh>rshyd5Y
LfAI3Cw8ppE?a0CrSX7nrIIh%jH&8|(>?`HqNCeoO&}vU2b?PadLdt_wI)do}^vP!X;m_YTAGaIvUfi
P|;^TcdqTE^z+OLE*W{-Zw@+xJi#5s?FB2wUhs2pv~#zu=e^fn?eQYae1P%3BVstekwu46`E3!n_pVi
mzqk@wX0o~>}7ThtxHSt1UI#zmMeK;(u#_*Cc3czw~00KkR{CA&bMdjiiSN@Una<(dE)wtB{llog02J
~c!-s^F?~@RzD$K&JL`amlA&x7&~T=HYjsI58#zyZCo8e*?QtwzL2bfm5C@mr0-!)e7g4!nG1jZb<j&
aSdR(zagJi=oVKJbpk@QrW$mthH=FKG&Dg0pgJs_TzMG~iOzWF5a3Ldg1jWRA@p@b0x$Q}1@$0G<9+Y
$*6W?}%}`{eY1goJ(6c4w|5;o5dm!iCx*xP&|M>2wpED@GKBZm63i-gxyF}obEjh0Nru563ui2NkU(*
aYx6%U_w&eLrob64*UT=>v2tWBG*F0Zb#9Rg4g2Ia>v$mYyFs1bSH_Nb}o=WPycnATu)*5>=?sEbECn
!Hm=BX*4FRFUPQO}Lfp&w713+a%kAz8usVs~a;ua#e<S-KK$&(e{HT<qdJGDmrgVOB4tjFfw*A<yq1I
RmQ6pg8bZo((L-ANmy&sS8S$nDgM;4rB~vvX-WC#AAmC5|eaN_61e7Dy+0D9dK+UP#nKJRM?p%Hb%8E
(W@#BF%B?~hw}*-ha1aeCT?k}d0a|R{I$UybnF%Sq>oHvGon-WaztEAh!T?l*zibHKEe<#ALsdQ8|6{
R(i+Fg;=H|<p84vs1VTFv&&Z-z;+N77oO+&`^DXy0A5bgwUY!q21~UxFhT2KdQ#gnbMNEjE07+)T@z>
`&W*Cz+<3Fcq^OsTG;*@qJ((gHAx?GAMPJ5GYtB#Xq!uO(!=QA+7(DNcKW!Vrw^VT52w??Beaa(z1;4
Xk0SL=;$^}AaJsBh1JT^aa(yRioTAIQCI$p))$<>_U)m$;{PFI%$dpN;?Ua6Of(R`9!a+V65p4)~Tg>
g%o9!Fp}5gfV!lta%p0@GnqH0|XQR000O8^OY7yhqJe*GdlnPD>nfE7ytkOaA|NaUv_0~WN&gWX>eg=
WO8M5b1ras?R|T98@aLP|N0ad={h8BiXthRmKDoc$FUQgGx5xwagyEjIy_CXDRoSCbGn;)WV83PZ&l&
_=w?%rJ)Yd*z46#2P$(1%g+ih5!vTApt#9+>;<9AJe*YQ!W0qYkV|Jd-dV2?qeVfeUw20@d%-HuozGa
(q9_K8AT4|Xl(@mM>?A1jc$E!FkdwYBP`}?ohA}Y!*TO!fxm`I<0e>FOSKgMhorOA4;jLIZSp~y6k@>
`aq?EBmDGE0HN`^%)zKNM^uTA$@{RK`c^>{EQCh{QyhMd_Ro^=LlN<D!U*J^U(-%j+!vRB*ob_7-`zV
w1^YQ*QEjGGWPTo#iF;DVb&Sc(P2&IFFXa-rk=01-~e>489Uy6lK1dm3w=W$yJ;e&;_7!##)13zc(1Q
_CR8<v(*|pH%)-rEn95T8TPc;o6P8kNs^Y6@^&2;P_GUD=yvwX{PuK@!KbneTW0A+XD_~)#p{y2i&pW
QJkN4oYaJDZPXjoG+M;U}HSMzSCw&X#px11ATLJ^$@b8lao3{Q>zxAR2k)55f{wZSzV#wGrD`FUsGMN
=re;zLsWg;>uGy2Qq3WVE+zjb)?_{n1!ixeB%i<d=wdS?nB_|Wt=={lNyYEN6={Jzy?(++aH041HGl0
nUnVR55s=q5lK@MTYZSx5oCD!JC1QZ%{sNg=oR-!6;Oc@m|dod)wl*6Jq|Zflxcw2bZ{H+}VQ>dTer3
=-DF41!6Kq(vE}v$#FI>iUY+u`2O4+W4OrFW5<kJ%J`%0mH8_G0e`2K`Bs0ffLZuIK3z@{hs<v$r=@m
)r$p`k++0jk97axdrp_VV0{L1690O6#)j<iV|F~WWtB%s5sN9^i*Z2P`%opm01KCGN|r64NO}>I%v<L
z{O>9%8P2Hvjw>HQM{3_WXdiE%myDMd+k<g)z6ZmT`!N2W|G69IP`;~Jc*({i^{?Ns{>{Sq$ll4htND
AEmFKJVl2(RzP7|ixK}&KO6%ouMZrNa1%L$iDOQ_2MR;3B3e`8$++B1t;c?tcv&e9hCnSa8GFzh{J*O
ze~lbK}kO;VHrQ>19M6W@F!Mq9vTg)It`Kq=$g0anz4(VJzPv}||mfy0qTnbL$qGiv=>JK1PJ+c16dk
|r3)qm0*Q1AB_$ckHDw7YP}4s6hX^zD!_UPe8|@wr=<~iI;PhXk}zi&WH@OKU)G>HhG_w(ek?-7XBo?
_;YfTr0s0_k9a1n@MKafv$CM25M(FD@K5n_4f;sqg;lSh&*f#zGWa8B)T=xxVExFT7`X!lL(?g$PbSL
}DB?0cnZ!R$CgS_Q#VoqYk~v>mNz^6sH^~HpY#PrZa2jAN*gT61)Rapgvy8QJ8F~qv<T><ZdCP9&lC>
|(a(#MqG~HYjy*2kqvi#yGDT+-z==Vp%j#dlet6jv)MVEK0(_jwl8THe+vVQ#224)-#1^n6*E%7p@-Q
cCbOR^hs%mvpeyNEjhQkZf?&EyY<;6D9ZR`+j7W?goV8uGhGg}mOOi9~ks*I-X;WF|^rRg=++>W<!n(
Orh&=NRucu?^BBvK>nxpJn9k$R{7Iz4Pz?I{Nm_yFb4F6EuH3#D9;~zhRM77V8z?1^hKyZn&e?)_)Zp
p?wN{%jj!p4!0Au(?BaFHWEGBHwd!t;&K%gpYB68<s<}I6m_zmh_>3|znawh=o4^~!qx`YXs~TZuqcv
A6vBbuxFyCVAL$EY#?Y7Q@$r0>Ul_AQv~kK_36jF!K;NNDB%m?bdB)x(WUXnFmF33h*}E;+)!l;KWyN
N_UMBJUw~}PR6#*6jSf(F8J|42`WVtlxOp)ibNWgY;DNV(eZhDKF7;ToN=*JJ#Wuq&vQYtA18~cGwse
h7OWL-2?MpZp-r>Lyh?Z=`sk7+*zyd<=8#9ROoBLU!l#|HPJ&Ym1F`mfqw7+P#Fs)m_6PJCa{_Efg(t
D7+gY0p>J+W7Odh7OGO;sxz4-z$2HgFg+e>EC*k(*jLXJX){gC>IJ4rBdT8J?pWSP2dmU2Ha*F;t##A
NNif$xS>@s1vcz3WI2vt<ybf*ppMuh3yt|*i#=jWXnVRhMmKim9B6u;o~b|`Z45-rLdzDX>8w0^pKs!
y-!cg9wps=mdHFdF!#mD{91Hc&9SwsJ#_m?3$G*!Y5g`xU`moEaC>d-e3RprVAKPrlyRcS#W*hQ(TfN
7$65`xpTA|wIi%1)-pMNg>qE^{+DL**|#ur~~Lh&ZRUo=~IPtv^loo0x<H4xW4E@pYc)knDnxJtmzvr
J~2Wu#>-R2@{D9JSk49<ymwB(rD<JHrU~tJ5UqQESkGDR{ip89`T%JgAMdG=h(YQ~cc1(9b)$KUaJAn
AU2NHl5g4BOW=-CK$Ym=l<mWAzs55F->S$n}HD?F<wJ>4B#wC6WyLB7l%CZ*kKe@*fPaaISoO&qA{f>
vWLcWub5}3#*&WYQ?N+vHs`Z$3ZC;RC>w$eS{h#fw^uZ;%PeCsDK26)KDI3i^rKFzy*RO2M@C&9&b3v
}3}|-QcUPbb%k0|KG*7?w<=hT;Wx=&;w6BzAd{?CzjK8GTjPI>Az;AO#?>3Ty@s}UUu^P%r0SjR{$<`
>jXgLwvYkx##FfwCQ!`zGWl|H;-!6hq=<9R%n(m~4X%se?$jrE9hyLBXF!Q=h(bBDcT!|mIn{qIs(Y_
c?FK!gFqtE9x>0Sw=xeBa!c7-NIqNpUQabS}dQB4Vt(2Q7@ZPzsi`BK~O;V@Mq|uE=t12s*lfPRuA|0
g^s=WvO3Km%-Ekv1L+_dt_7+j)AQFzcA2jIu@*iw#YFlqa;O_07qq!<OTP>VD&7GDZtg390<X<qqs1v
XB2=p`b<A?l4qRY84T!6*-nHPiz=0@dFb9gky-a9@WVH}8vXqV8`uFX9y=%UT`Fe%Dw|E#I&>D9-}u#
4$bSO{iVo#5ay|KHoM(9WP_)y{YKkr-{zDJwYb?)ontsQDz&d=Fk#VW<Gk&DU&=Cv{DX)Ht21r<yp85
@Goq`K`ldLu?qakVo&*zbeIy=>zH|b~d8tyPJBqjR<MV=%l;_OHKdzGYZ{H_~1#rZEm={HPBmL0M|rz
6cvv01I6Jo#tr%qe5Y^dS5w3&U)X#+IMLU4S7=w<)*i<(r!bW1+fRFJHc-$<?l6#tbdB2G57Reh>cF>
U0%}Ua!Y$KS2_MV<6J$G^fJY!91J6>QJ7tC-1)d;m@zWJ^$ZtCV%_W`TI9Ne*fzA8%64axuw-S9}S-Z
+bsCwV0dzLJTQAzQSP{ZbUbWzK8Dnr#D8jxL{0oq*cy^?&ziuTfEd7r^(*&QlyZVeG(zRoD3kqdkN!3
8C~dOsDY<#Z41>L>k(8i>v<NAlpu{5B<)Bw?E8_0;iSuX`Gm#aeX&BCDh^|46oKc{4L3uto-_5GFgIt
N$r0fKfasW6v+Fgu&8`7o&5F?l=CiUd^Q4xzl>|l@WjfhcU8F}S9o^zvyrQLF5xY}SCD7IwZC6;CIO#
2aB1hTtwO%ngEZgT%oLG3-#BPG?$7%X%w?8vP7F>RgA5BM}R9je{AmSg2qpRF+_Vy(_zxU)`*#~PMTW
8!nCa~Y~N_G^vpT7Jrc$@?b#lxEiy77|nyk84_tfhKQs0*m4VeE3Cj1M7-*IdGey3yDP^MIwHXjs<<s
kLPv07iX%du|A7-aZ#)B5)_rL<khsB#wV~OD*g@)X2A35(9)<miMb=w4m1WOiBV(m;I0l-vTZRZe#Qo
vca*B7+f)R>%K(QIeX>{IemnW@-J2h6b20^m`lQ{b<uY0qYN3n^9{z(JLdYHdHp|u+Jj=7q#ie=phx1
X;LhlqD)!8P`aa#x-nJ%;0CvVj@RBm8vs<qCITgGAOdRSF*JaUU3R~5ze(J4EsEc<-O%c{b)BKrV+!L
c3UAIJE|=p$&uOJe{k7xa-@iSa|JoyBFgS<W%&hf&FBxx{@(!c#DQi%vY05no>=k<p0HWBbF$&bF<|D
|2fid2AKVsX(i!TA~|Phpp2Zchwl`O<^))l2Q!+pT|~+ES@_n(E)o)wsaN42AA)@vkCnJ4Fvjq&Ss|A
OhNn52>jpwXBZAy>(rT{^84O8Ter1#6dTxG@)Gc8PyW*=L0MGToio{F?;=Jol$W%#5@cCA@K0lVZi?z
3WYv$nQQgwgB=HUXXj3>~e<q1w3_G4}C@>(XTIJ^P(r?Wwp~Qi4$aL;>=K%L9(kFvm$Q4Crip`QZlgo
0K6`zvz8oz?Zz+nSTHMtR+JQRf5Vxp+QBjnrcwiM_UE;mKn^cpZ|fc1s<;!E>@{V4L_;#*qPInAz9h}
IUtv79itrr>D1Uqf3F-=x@Hmf)o~&9i7e!*xN{c*zNQKlu4<xVul%jh+SmN}#soa{n8c=mE3+T9mSa4
~~!Q?WRIDq;4}(=@#Lq+7Lrk*F<`s1~#+WsM#Bbt*4!p@x#ClM2bjnKq_cCVP?GnLHAso?&z^uB{yi%
rN?fOGJ|Vq**<&}ewOhMVe~$Hl=+1`kY~k*%$$EGx}$|>1$m5&<hA3=`<a_--U9sh!{Oj#Z({i4=$Ux
#xcqz$w_NeH?n;IXcS}f5TDfFx*!86dZYhUVdRCSf`%CY=6~zvUq-RQnBvYN@UrofZrKX&V*b^ctvCz
`5OpKBvM~<{k8EPaaA6|yR<|$%q%vQO=fvW&tbW{b5Ok3->TuLZFqC>kp4y{7d6cJQ`H7K!?yF{RFXJ
8u}RiqY*g(FAKbqTaMz4)f&&cOC?pG*l-=OXo6jRLk#C_))g1Q%*TmXK~cOg_c8m`ZJ)Jn@)5gI}QIN
f}L-{M-X2!?T;q>o`{DIa~?cD54BPnWxci%mxV(b)5t7TY2=&jprtvN0^jJN8s~hv50B&!%xUzy5O-D
Dw%fht74JpdDJX-BJortYp-}d2J|0qp7khr3_NpR2UNRERxxJLT*p@!3g?;sm<ERF5!Xp^Dcopw8G)W
9YpH3Zv%q=51&TGGmFwuXhYJ?|6OVeZ;v9RJfTIUr60up7;ypC_R^92s6E+kC4AmKMcd<cP(Ge4$1EH
-648o~Sb}-g#H*FCMJF7L!!aQ5&3A(1xrXSKWRx=<YmNU_Yf8zm)^d_i}Qj<s<jms)Qa{lV*l9O{sQw
!($s_O;k-wUEhza6-3&^c9I#dCy}xIuumc_J<T7`lY;KTu$CUfy#3igBB<US@MLP|JnU2|e{FDw(Ahb
Qs|T7>!6)gg!IRWa-HvF#5`qqeW{I*z)E)Mw6^3yizrb7?PpMyoE_c^zK}mr<l}M6;C-%HL!B)jI3LL
F*@MEg-0+UYOp`N`;m!SH0x{zyDaWq^lX!i2OetD_KfuC{lV}V7>#~!u;1x999b0TIwll@;z@dl)q7F
Cj#>?y8TR{w)A{t|^t53^&HwMDH|@=lHTu^OnjH()Oj(AN$sL2r!4m4=4$`W?y?pBtbg!U1#57ZyQ>^
1zvPj}NCcn0EY2vlJ#>I)sJ6%B7ygD$ujAx%H!$L}wUn7V-%K<h<?M&UfP@LQSM|0MO-#T(Xtk1+zwJ
A;Fky`%tEechK>_{0psdE}hx<V42PKdjgqEI;YXt0Vm_8vceH2?hkTF!d?Hr4sK{dGr<r;mgOuZsp0)
+hKKn(cUd(+O=SRN8~(5Nml-De!kqS|O48jw_~;wXrq`5ePIDw3|3ir0$<QPGkZJ<W`~1od(&E)J}tI
iquzaZZK%!T*c74xgL9-BFpbCbG>TM@Y1r<F~{7?RfzvCFSY`S3<a5#*Vs>yVWW+k9nip!-f$WzQC**
OPZRNi7)05~Sg5n5&?!BS+22{){sI;S-QzlW@lsq~Ty|Vu{O`d<+ZGjJ5nwkRVfE^y#i{$ElBrCfwx9
vv6JUy(pv$lRHWuF&**ifW`~>q0*PD{3bFRSmSi-cz(<%7RZ!o>72#!z*lVb^`C!*+CT_OyZ#7=WVe`
w4t3#w<S5f%xQV}~xAI*bV>0>8%o(a{*4T!BJWRe)`kEZn98FwG4fc$tRNq78;mR&@@+(0)~Nessi6t
m5;y1jY&@n@wNn=h9UatsFo35e|jO3I;n`;>MSOiN+nSGvcj)8T9O*;K;kJsn1qxW@H{CLI?1D6)lsw
N(H1@DgJ?uZonhT<suR>sw<15Gi20sT_Nu_pmv0|+YIq{u^F&Ut;1%m1&J^j3bsl!;pR88wb;NZ<z$I
me4g$*%Tib?Xm2K~Jh-v&q~_X;;7A1R#Q~#x8p~yNjoTbCN7$32L-YZz<K+_nTWp|}4L_N?zDz)$!NG
~U29+Yiqq;bSk^)|U-$|fgIBZGHiHN+>KKQSr-sBH&UZ4N@)wh#Bod5Cs{f|AoBECi!y=+$vC4OjXRw
%1o&#;WQ6(h-kN~-FKh-Os|&K)=rB53z9qNBNZ5wbY<@Aod#-&v5&iN*gJa9|>-Uq^T+i>#QK5W<nMG
<(a!tmc$Q^J|}7iqnc|_I;F7>?_c<Wuop*sZ8}strbh6&=u3;6r&{u%GF=bU2d*elA_U@_xUXYhiG<*
"%text.

(** Lines 1065 to 1214. *)
Definition DATA_06 : text := "<E%6QcD)$eyT;rE9Id0l<No6#9zc<vR1Sl3v+nc^Vt5yc+YA&>c@0Xlf|YWUZ3?m-u$=${bx7+r1#00
Rd|m8dK+~X9Qc4tUUj$2aqBOnPfGaAz(58k!U*6%ooRg+X?-aKqz<O!R?Wq4`@Z^XoO%R(T&9fNozn|
GY_m}EZW3AwL2YEc-%p~T4AKesS2V{9BlP+s}p|fsBM>LH<Y1<BO8llWr>>^HS<yObmVs=xS41CF{iT
wD&%6Lpto^OH?XKo1#T-|1uN~;JqZF-BSIfUotWq8&`PPtHUe%4DQS)1i+;83bYyDjP9DI`^*e|UM9;
$!V-jVf}F>zR(4!@P>HwC+v~`iWQv%@8@3=rV7(x3{>RX7#bOmt<OhDu|K2R`5vB?54Hc+Y<lAmH55b
k$IJO;fUYOP#O~yv?}>R7j*UbZL|azkG?%%KdP8IT{Y4ds}g?TL#L5b*wE1dP>;`4zNiWct2p9^Kp3s
1o4RyTDkvNowdtalJteu?!IyW?I}b>07u5?|ImGAUlb<~ijF__ny7INLc^F_5Z`V~CG0@NUqr5{3Xj6
s1;c*7qde79`VkoQ0yES{l(XrMwsiZd9%c!`lq>DecFXNlGUEd_&p2UR-wXNCB1BUln79}(8YA6qWo2
`cSg@@0vDjLY3f&pvUOSI+pk1co~XVL63=2@6uiM9dxqepX1-APRm;b1qsiFDD4D*}glf5agnkX4l<h
E{D;P~HI5;*oO+3*w~u5|Arw5J03r02~alDjUdbxjxWLjpTg%Akd{uF!VAU%u&OSR2jY>4)tHJA)2aD
+RJ6s<#8>zp_~#6i%&NBgbliyren}}x+5QLIUi}z+c&nWMFMii;OFa=(Id+Kzgw@s3PHzKYBHr?sBgI
bV3MkHsK_(0#GpX|O}8rF>Ku&84TrU}el*RWEdZl|x@54Fu06QinKDnoYZ1gAjytP?&R6T~`bjIg(+}
Y6nxC)F@omnXo5-!0bbhFIj=c==Fo96ZwCgup#4l=Fq8cyk3N`NdefN}=yTtn4r7M!N3ZYg~G0hovu|
o;A@TJx9&cp6ixBH8gR+jzUXW23h($}gShyxZaucO<7EpYTuNf5&TR(}D_UMkpE{BGR4`!q9^M7KVVq
b0@nlM-CLlsBb(5~H!*%*_ssx%0#~_y=AYqm7!ud12}fy7}-;z1sQfqA{B2z+uK}#Ykdg91l*!z~Fcx
Skm%VI@}zMf^$=qs^r}-5f#v*v&~(Y-<k^e3D3raHy*B{s|6e5es*O-l~>1|W;Y5Bm39SmQL5$DYFP&
SCVW{+ld>1?Y6baM?E>OyhYZ*{dEN&59|El7ovj;puy3jaCfjHvCt3Kx#KUdw-<_PTn(itNcIzb?0Da
nZuT9y+OF9X+CIi?tZ57+vk`k(IsA>dvYDuYDRa5C^Wn9Ga_n+?+Vu;#n(xI%lh0Cweh0IWmEo6t)`w
iUbRPpL4oWtyaILo69ef0RGb&*;3ZP-6w${X(r=L}DQ`1$q1@Zk^GD$508Ur}ODr}1TUm1G-OXl8j<6
c(nW61wWFxiA|y0g`l{TqScvkR}Yu0OUg`Nff%9%@Te%C8&`M?w2d-OL*H<a%PHN)8xp2AGO@f<LagD
hj^7;#U`ki$e|#3shrWBZX>|(7NN1dtKIm)`U9TjlLqcIoH(g6SbSJfd_Z_5KJ}j4Eg}NWq-XD|ZW1E
h3OJRa3#KAI!NQ{>go3G{baFI&Ze8*g7Z4i=%t*8j%fJ<xSz!<q@-9-VrR<9)Tzm+{pEWN&g5u-m#ZR
Dk@EU5b*K0=Nq~GtKo*o?^TVv!WFwkr{Z3La`ZL*u>W;&NlE3TG`Xf2`yz#O)Stdew72q&&S3BtaJN=
_kKKjEn7bVY&RW}=hqfLG4s1|5tl2Z2+&7oI-h2B^)dPV$9S6C-WQxQs1-8V_mFw1oqkB2cnrOIsg}c
&NLAb~NHaV>!rTg?N!K^IXShk_&<R0h4UuE*!cc3yxHdg|VR#&Wzw&#NCa?_$Z!n=QFfTG}9;kj2GA_
o9sGn(Lzpdod|$C)wzY#W?54-B8OHTa2eiKaPPBI7A&Wr{Y^ut#Q?fKlpeMKDKH=*IMPHhP`h+~AUah
4_M)xc__%>&{D@%k(ECC2GYD{lAG)XJH8QMjWKh${u(A<%FOQ!CoZQzjy8u<f8;F#wmB%eg7}{LWRYk
g*=o@Nr34mVgfq5s?k^@eHON0sA3B6+kD;Q1g!1aaTr&SD2agrB9`j4>bkE-G4-A|iKBOGxYD6<nh4A
A38qk=N6D?Tua`>~Qc$@a6z^<Fad<f(jCZWCg4`Lfz+ea%Z!a+wEkfggF)mZf}InIWPH`07)93XCH<=
(m<E{9nVvb|Gj38;rQ<iN-L=p-^dWii!rd2Y&Hz&%hjyC{vg3;D`dA&i0tRd3znDde=f=lDyN3B;CcO
d$@5_B+$_~CAg+J>`zq1)}NsGE0OVmfB!xHz17t3vCo_F6Le?J)iq1$B@lwD?`Oybwky_%!tsd@2P)3
?A~aKAYFwOF-kW}k*Q)C=NE~V=q`&F$f{O@#<_PHpRJx+pP}Q>P^i`MS?BAhF$ii9uP4QiObQTJhZmn
k3(WCTow;su1fO<89co&hgDrA}MJu@nXoM*#*mU#W9qN7?XB!CK!^?;+j(>#|q>bYr-3_t95*4pwJ&)
V*D40y23?`G3@nO)N&b?SAf;o(~F)ZuWjmE6l6$PL^sH9qCq(!tP~-VPn2>Mt8q*R{nLeJ9z;LNN%06
8X=Ev`8YjhD34jt-bNy2fq!1`9yd-TIjTliR<;zI0%%t`1nGppdtujOW}F!0|WaSGD5<8AZCOjL^z>I
QTFf`g(V?+;|e2`$JHqO%TbQG*UP7XzKVhK{A_@ir>;fR?F<9*{=I(*Nyj(u|HyEW&p3=nAY5ypg{10
^4VN?-S(Vw9Nig*D?^Tty69h!PJsv8If84DHO5odYl7hsL?{tMH8X3_EI@9|Hf|O>P+}V`Z-KRoP`L{
BomBQt=FOo3p!vPWT(m|5qBiB4dt!JVol2OB#Ul2xa;ndgTLu$4xGXAhoxD3CeGLMS{-7@&zxnLqZJO
R`iIc<qRsQ}Av7b^s6%ms;##_Uyae*71A4^-JTN2Yd%c8W47^km;*-gb%gy&5o+4}6Az`fI&O;P39f`
=Lfj1o)F0FkG<cEg9@S;RMQ`9J<_q2yqMXD{0FaCWy*marK1P;?BE@c?&Disf<1a<`e&_1}{wKht-Bk
C?CsI-Z12$UF?O+QB`)78S^ppT&gyLyu`WVfB6~+&d8ui3$Qieak{d8$ejkAvS(&b55q?uVLm+s4WC8
(`Y6?s!g$I024k8Be#OvLfhSJm6(fp8Uv5_xk5NzBA<iG+(@{*^?2#Cobbup+c|m{A;!Z{SbO;QeOKy
~s7{jPGOGczOna_+I4|Oieag|NX0WMBib0I7OlJqk*-M66K`<B8esFzx0II%5Bc5P`m83B9_3o53!Af
RIJ;Vua5S?A>s16<ijCVsf37gh#GEzCfNUWw<ixe}WPfnD*OgS#@q_SAF;)#Xt&L19fg?vfWMy3Z4cJ
Te1~=1>TWsZfLQQ?>Y!{}ardr&`;A8|?IOus*(p>9O-(+~ctrL|1c|kMz4e&aGAEe4It{+%sp5*GXC#
YrT}pWzsGt)<xGjlS}R$mPywj>tpPDE`cu}XbB_;v9E9qbY*#H`bG7tRJHzAuTk5VPJczRbqT4!*gXP
EEM!2~gCQG0$v_^xw#~e2R}Iq~z5``*Se@YV8x}~FGNDI!bM}dnB`x(!b-r9uOjd}Qjmu#ODlRTc8Cz
0GcxdX1IKPVdTCVEjjh(H=4@^V0gz4L5_)2boc4QFr?y2MF$2ev`ynW4v$Ip)0u=k9Z5O5?-w%(4Qd!
`72iNay0!K&wN(d7x}FE|0WeHj%|S?2PjwdDw|6?k$5K5nf*Ze=)mH+*1<NwvW!SXD}QRqp7^vx<T2Y
!lA*gkdkt`InS}NBELF&LFN6(utx#615QXjH@kYTP+Nc0&U?eQyQ0dNF`mBUls466z}B&Dc*~JU&RZq
CvtIUzMK$Eg6%ke^Zu<`UGBe@U|%soJ(XCe&hU#>j2`fm=}jEu`i={UBDvc-BCFMj71ZO?1oq6)@{a2
?5;!CR_ZO@pj4yTKVmul?AKX!9x??*^O;@aw+d5CKqB5=(nm#GuQA{LS3bBd$?lt5G5}xe~Mrm}Itgl
9g1o9d!5A*mUDG<#CkNCu|WAE2H3SRbXH>rzSbt1o5X45TdS}XC*beYT^P~hm~e_^4kJU}h68i8$6h3
eaUavPQIBqE-Pf<z5UCLA>|CvxsAVutViv^Tt??paOlq<==uT639Y>uEIeZbekfGh(ui^OEyDG|#8mR
ItZ)wWg}Q-E66-=3qhmb=2nJDFglizZWNXHs%B3m*Ncx^kXEX0|tX6kb_Z&?uYOok;FVAA}W2!dLPC>
exScNC`j~`I`(HH`r?4S`Dp|5ZYhBNhfhIS_5W~g9}mUDwhK0BiA|=4mj%*8_V_Vy_Sez3Z{Gd!{hu_
{rvoR54+rMiKk*5Kvfb(rhR36)<7X$&WeUduN4}uwH@>=B(j5|Uu_IO3Zbgruqk_B^o25D^6^wCMECR
R`G|W~%K%ctM$r1iBgg-_n_(vc97{Ygh=kVQN2;cQT3Z@*$(KDl?g6a3_EeB#NqDOy`GY}Z>43A<G?_
Gh-$gwt{zbmxrg3>iU)rA>m^wc<L1E_C|9DIt^J*kcWYm;AuQ9J5j`omXIs(|x@$b=S01V|X=7q<1Fj
Nyp2MJXBnA&_nHOt!)c7U5@+JYYx3c|HMV$xRKX{?K^O8FB8M=xoO<C;<>vMxcz&+hO!J;`X!s;b?!S
+A^{&s~hvDZ%}eVtI$`TU@pMntikl+q(&M#RNM|ZgdbC7p_27`IQ=*Hz7SW;*9fCdGfkrlCLVZemal^
KJ^bNn)L2v_kA}ER{?0>!+<{wRM<nO-41v`Tf7(RkORfBHJ}1R92cp|5fZTAs+79c9=yg^yduF{l<3U
SuY8qkGIpy*d>I1YSo+vcuq8a)$kqZ5~O<~p>L6qtlfBwA<PO7Ig4xY~O-3A~|IHj)yt**@Q<3DV3PT
re^1=79`yB<1g660eYIng6dM2O?<N>ox>(qDPrQs7dI=uIGc;WgK8y^?nqd4PTzvv{>GZ_SiQwFU}l&
=Yg*R?ohgj5ic{$qq)XM$Ovae<Psz@kMIh4&FP-@pg-cQd)&<VcIg%Aq42gRlM+zC|1#$&xSR^xAOJ9
E1K?jfZiUOCXOzA*|2kujNY`Nn$qZcKy1w!p9b_-e<r-<(7B)?bMVqvu&Jkl?nJ27d_~$-etAlmF=D6
56yUAzqW+HFmx>5iedGt<zcqSD>-~p*4;ROe_0vFiEihP?3ZlY`hOI|4_RX;2-w-96o^7N<)5{0}3&9
iaqF+6u%LDC>fxFG~ZKugUqa2^;DmRNo&t;Jmu^KNsH14Fs{Arc%&{dRznI{+MVCx4zxZ>4!o#V^vX3
Xx!{JpPOF3t1|3T$h@x17s9^Gg%lJ}HT?*n(a<ka%anEQfriYuri7Utqvfarpugc;k7{q!4rLB|8qv;
Z+GFVO)-lQF%B)$XN!wD`yd$Z+rz^3LX9SWqg6bF<Fn3;<(NPR3b^k-k@)if0f=!!$--Uusam^(Iq}*
`*?+~JUm9RUFX=Jlwd$+WwbQG+Hq^c^GxR%&K#l=-$XQfRL-~D2vT)x*LtAz2>X)9|KK(m=duKDHU~!
c?j?K1uXo7)edvG0L;hC36&@>v1KlPrjzqg1Mz8+z!E$Ed9f!{06AZ>SL+~A$0D7?qi+3D8R5KRfvV7
=G{!(Yz12~tJ&!fEON!PG-KAa|{(mgWn-1Ssr25d%7(suJlQcR5UMsAJ~U5T{s)qtl!Yz3T%9%e?{z|
pjI?QK$gbE!RTee?TPmrXmMSwT<P{n(qGsd%m<bfLum;I0Omsw|6^YHH@3d2fS^qz_?YMJ0s|9a7=h8
o@Hdtwk}beTM~@p|&QSJ9xM23^6nkfqLP*v9n7Iu7cHyfu}G~oh#|T>Ja7pjpG{)&WK(de~KkRf0HBQ
$n*~{e53Vd3p#r6I8`h}#0I&x_%CX=S!Jq-X7Ppi>*3&IuqF!Coggmo+x901jkgd(uMN^`g!;)rJdpN
gKfgLDK}vYwnwv7rke}trlrO74ynQ|BA3tTsy{DDaoU^O85MGGLP=ODpry!b26JgWBEYX(pkRi9cUWn
R?zSW|rSS72-RXikU5fWuogxB1Qi)gP0V7{jYP(+DnVO>ROvfeE5@JPjP^+qtRdg`-<H$1@<O(xfI^a
;8&nY1kQx(YPk;3)bgMP8~>HiZsw#1iF&xz4}0Z+Ozamyo~l4c)G}Y3D&Y@lHAhI-QEar*sGUf~5TIc
sLvkhfklMJngvgl?)a>azP1N89AtF1DEKkHao$4lvSm74g{Ppj8}RCu>gPG+Sd)=EEdTup~$BU2jhFt
xPel;Gg;aR5X!4j+k%7wFU)(|(#yKgh4D#)8q7ZvFyggj8}&#)67gpkJpvW{^Oe7vXXjBzRc~Z-KD{z
c7ZH^UKaVnO>u*hf0%!-H5%b0I3O0r-`DBgxu<|rECLz8MEw1U=*Vhe7e5W8@-YMj(K72n`Qj&&z9am
Mt9#T-sHsM~!VIW#ZErP!mH5!IW{*uZ^8YKZ9Hu3KbXtBz_dci~4b~UIL4SdCez0)L(^4s9;e|?r7!d
JT*@tKlM4Elsl`Gs?M!v0(HEFL#~$I9Os+4(#54nEyoRGt|bq6l1yp6a%|q5AKhR#Gn}n6+&wD$F7i7
k7e^6Wvi)dw)R*$BJAy&G>lmY|uQ#xKg!LD-Cq(7nct5^cgwa+a;qeBpQ-2no}6o)w22O@;YP&-0|^o
|BkvLX*E!duPO^r)6!CSK74jpDF8Jhro~`vRL&(1r|J31y+Nb5Kq}m^Hn~nAx6<*^jCOk!jrp#YyyRs
grRXKts}Q)%X>S0{8i7l?p)OKZ!p^<<fT<#86%lh#7gSz`ZW{TWz}<=@IdDjZ5A2%>qN%VorUISZoKf
^5JXGS4+9c+I->dQ}{N+^eUT6%B6kQVqx0M17lWfiRohtRjQ>ZP&^+Bce+)o%4l9yczNq-mFHIth$rF
VHlr}n|7I@~>ri_n`pwJ#e8i9!(s>pgQu%ByJ3RYFj-s%N?L1tDvj*u23YomEE_s5+Up)x!akQ571zb
Z{W!_GFml-31ebShj-Q`0l;u!XNM>AbvW#NqzKUgt&;x7UGrgBO`ns!68vbpW;FwS(JH1hj?Q9IHO0&
dm$lsk5|+@sv^a^B=j9;guQy^2wOFqjb+6nER6>9#eK%|Z!vp3&mQyBVkZ+*qhQOuJz?PB@VFxy8b<8
80We3>;D-f-Gbd>`8>rgnGt@@>@18BQpU#l>$wmwiF-!TB8d_-U-JG8Ot<p(bSFmQr;I{6;n*-Jt4`l
&A53v2ct@48d;NOoU11R6{PUZ4yhtc0DI9;Mjk(@*zvg=4r;e^x+dAe$$1UxaI9fgCfrgL%1J_yKzLZ
uCdAncwYvb5}u2Syf-5}RNns`pOWeh>c-Vajz;FU`DyzJ(^PaK-GhR`Rw5`lr|HQ#O32^ThGL2kbRT8
Z6ePh(!`IKHY3!Ny~h6KJlfw<|AZT`fVEx<x$~Y$vLw)=X;!lF53`}Q#}C0{f{=-hu=u@AKjw{8>X@5
M>FHMq8yYw;)4&R+%ojG0vLFStcIr=R^A6?x3eFURkDoo<*hsSjDw2GUyhu-{+g1YXh8;x%;qpw_XfE
4!2zX!>Dw+_L<wEfEZrj@uuNC5x)El`RC>eL3G|*cE;fMbxSPay_U?iKU%fqtnt(0khwJz%Exm-bC}V
y?dL&=hkOB7&^2k$9o#+gcDG(|nxQkCZVwdzI=0@)G0)Hj6nj#E(l4dErip~~<Im5HVX%t8g(4Ray>2
O#TD@lMzJH)Jpm`Ap6-PquiyS%g)43-Cx+|`k9_NM9;cP>nYS#S2<?V;SuKzoRyf_^%aATK23F6I6$q
Rp}tBS-<b!VY)S=U!)uK1!(%x@w#$IusfmDeAC_JXF-*G&@!dm;ZbRizXdEb6!pzjmv|S6!4U50MZ)b
F60iGcN}PnhH=~=g(75KHgq*}vxZ&1r5t8l%ybnh152uOlM_f|ao8ID^1@#7fHHJK=^>F?%XDoNjOXW
9M|O;RHx=<9EBa$MasX!IW)+`G0UXJ3p-b=q^zpmL%^C&4@D_|ZQ2sEmQ^cw;>i>ps5O6SVac?NCBB9
&Z79ngtY+ktU4kPDX{1AHC1f)#}SJe1T;AzHh&cv_2^b$Eg!&hg54@=;aNg4*dh)die@Ec-o{qT@Al&
|bj&Ca6s6L|2^>f6tICNHi^g^uQTiElQLW9`8@YOnp~h@7RgVh$a5TFp;$X8EJMeU9CAl9-%^G#6n|+
?1c-{0YqzoGOjAHE_l5uG6K#AlCF_m-$ik2&$B*I}T@Z?{8mvJ@j77R(t$HgE8{=zW@F44z}DlN2<ZG
lUq6MuJ-%A@d&pAM}vL^T2J^Y`ZiKwS^=;H;~qQGdo7O{o$KuWp(AtOG#EdJ-G|^{EFD|#$kwYie8x9
KM<=R|mjd8c8V*OIl0yIY5-Tw0SP8(Y-Pa9v!zBg{ikN&?m2pH;RqPq;1jfA7u)36pBlPKQx-EqU&-%
_|cs1`&)D#+wPquRZ{G>M!rJmN7dOGN#mew{p>>nfhgX1m5Mt!XSRb}je2Y)$`ii+E;UKW$5W@am*P9
O=xvD{L>u*#lw1ftIHdAQt|Z4Q{kxEf4id<QUz@fQG-81pYes1Rch72;2C{^$EQ?<cRn`^&rcQ1V25y
9FoW)$d>b;mzA<I)n8@#5P0d45C4aDdE90OgHK5(g0@|e?f4DU*Qz~+rTN@2lc=L0vJov^6v%&z{5&o
b!C2stIt)J{uQ+*Pb=UZBvs8ysiSK5zVbi*d9M7+J6HBKt<#nj9eb5p-KJNK3VhNGJZ5mlhhXWJ_&QS
inA0<EVoX*^I+2YWyL(A-)#`;&tm@(~Z|c!paIA93^|gCVL#a_CG3hs%d2i2c-~W<lQs5eVSd_Q;0_0
`^^PnsD@EF|(WxR}UB5^0ux^B_xQIdPbjj$k&3hpGtm0~;S0VI0sY>i6?%plvYh;#(EdqEt7I&sut8J
P7sH_>_>r*qiM-q2xiTe1G~B^!)!C*8k!3!f&HRb8V}jTVAdw*=5Mh2$yu;Y8`;b59p(c^3&SR0>f;V
(|#}rjU!v{^{wyy45O>VYm}yPy%(Fi=YpX;|ExDB!Z2a>W?mmP=7L$mOt}^4JxL@OQUM-U3i!gqQ~w<
_~08521DRt-EX4&At_*+8|8B;IT%d3eFzh9k$`*HIz4Uiqa_4i71xKS;4{W?Y7YxNWid}?bW~5*<0F=
D=)4J~8uMv5g?g;`lz`gIb$$E-)Mg&vfLstdUj2e&m-r7yK(`G^`|%24YWa*!K87Qsy3tC|dfma-Ayq
{LRg_S$jx)-#Y-o`A5Z1(KD@M{SY{@Y(2bv@?xlCj-yMPSI#Fbb6VCDK&9GpzEtN3UdFEa52q}4}BY?
(D8Mz60O=~G&ZR>NVCuc<Dw4V^C`4O+`n0d>I-Xz9>;mf<$VR_2~>xlk5oM&p4J(7`iX%?w@-*`QkE`
T>notsb5+{|#Sx_ZSL<HBe~Nx58+_`p)+^TAN^YAqgA?(z5`ThWykhmB#WxvH$%P9K@eC36z7s*UT|*
RkXxd-{oai+vWGtIDer&pZ<sL^Xch-1QbKqui$!c$l7Y8pQsK7&T~vcFG8nfqWcPTDbmXY$H89fEP=Y
t*LS=f>cSx4FofPX{!ZR*>#EqTn0RH9YyXP_6Ol~l{arUVQq5DCy!d)eQDTOO^mV(igD)l061ZpxwbT
(wBslpUV*I{*<fONHzyMyiYX*Qrv-plHiXLAmen{z8xN2L?%Y)g6FJv1YZgM~1#HKYt>q*s`(66-#{T
dLo16bUyyBwyACvKBIt24yG@We!raddbsb`*B|%0=R?k?ctzs38cvcmd{kT=na}Wcb3IZ_<(Kgc#!V*
kfA~bvzzQVRl*n3-Bpo9K517Xg?oboZyziCH(I-h;d@i#LHCxDAoo~bPEpv94FYgCvqG=g!ho+fVkud
eMe{L5lRmClvP-ApAq*>2dhoYx8TrerLo|u(6nLqDzM)`i41CHm%b8gH-kIa*^X*Aw4?iiyM;yZttkN
h))@uw`G%5zFZZ!BxJ^i9Zm<*8KsV9FC`a9##hoYRKMP}R&fCJBw7h6c>V=93`Xx#lS{p3JCniwN<Ml
F{$)3<7p9O!cBuOoFw*pqP7{?!K@Avm*`YRD6w{U--C*;k^Cm?T1HUsXYUZxO8A-+h`R3^cca{r{>A?
IeN*vu})L&uvbZ@x4VC}%LWu-N|TKF0x)LgMb)I?wQu2%nr%1ak?}V?J!?hG`qvH_8I{WNEIkv@PYWZ
cip~C{-b3!N^SJ*=D+oDTFhTuWuS}g?nZA8G&BJx74qzO6w}_N2NZZ4#Z$W@fG2??dvFh5~-3w@V`)#
Pb&6r0nU;2su;?TrEupWOLZ|kRJiH*)uQpY>j7@~!>u9FS26eAxau$GoW~^|7%rj;80d<DcD`v=Rd&|
<&W;!dPonA+rcSV+bEee~cE`)>^h)tpW!n`!dJ^n@6G^(Mt@xlR9~0kN1rwJ;T_R@Bj0G-q7AWlp%z_
WC*2j?T`4H~zX{bRwkn`vS`eRt+9ebswV!ygGoCo$qexZk6ERxpucY(+Zy`3v?GM#M>_hyaLmoJ5qX?
w#a10g`6I7GI=L+nNh+BCVikcf~V1ohAcy~&<dzOTg(9dXw~mu0=DRprJ|jDT^4(yslId$TfaV~f+;v
d(J6`|<SRta-KwQWIcPtw;UiA)Ny`J1tY^_(75IzzBr)=JW>CaP*P<Fbx~YcZ&TkJ02p)*T=m8IqHq)
p2?Z)YIN(gWqT#Y<+U9i(13w?bF=0b9r*LJseCN0iMLX7lzk_yjft0P4qQFb$q@W51y<8HGJQ@1K#(<
0iZ830Q1@XPH)7&|_zPWSJyY@Jyr|5PcF)clD6@h%b@jJKb?fBcHZQukvI@hN8W0akr+LK6%eAha1R}
(xr@({5m4>u&2e{JXr_aaq=2JafDQ-1YR<fAJa}H11<2$JsrPO7umM;t!uat-hxYG6bmjG3&vV}x0;e
DV=$Da+V)EL0vtzW&&e1==U4|(}eiMuuI_Xnr*>B;G7tLhS<Dm)rK9rd4$$D;u(`opKshbK?R&-=&EP
e#w54#rQ9Pln^C<Gy>I+vKLAYC_yo4D(lcO)*^jF1Hjb?<j6tlYRw1y$ARyMy|{{zoMW1ihkM%{d9Z>
^wX~lpfWND2Dio%s!}{2`RohBRpy@oEcPpV@Y#eyH4y(jvAI_-YH?7%DlA9yzF5N-op(WUtQ10#fZ4r
|5RiZ;gm)PwXovulE~2OuYeXzliF$K1Ec`~^^p*ozo;-W5XW3ssRgD*u<@4%+t9{~Vg3|{b+@#4*8w|
A03}iOrW{SpD6%CID&yPRDa2`J$@P}o`cN|m{V$(tW1%e~*`oQz&0!RMY?vj@GxJ&x$>)7hE%j?+MZ&
JxLzYNUd9mUW98Cr^APz|ehHJYq23qPa;M!<#uU3kH!eLr7#ksRJ(k5X6i?79}ARz+hJ$JQ=Sb;MHnr
g$OYcu3iM{Bl7BP-N;I_=oTk)D;D~rcfo{5|J6RkcQD6JXp!%)ij=C{FN7lwzfacCF`Pi+hjywt3O*N
gjodyaC=1JvDM8YGS6bZ)dt~4x!7Grk_$OrZCQ+;385osQK4=B=@E#vnf#xRh5WH%A3lx8z`|{?XpTo
6doX;oL9_0Eg-5V*2#e&V%of>ZOGJ}YbzEj6J)#Zg$$PW*p<A1>eMRKW9@bD$D=@5>_z~eYbt`vu12-
59^~eqHG;=I^C;g5)gN&f01xqf2OkWz7T()~hSaNwP^3bs4TY6Z5O1`BtUpp#!Ls2U!{K7%W>qg5Os=
Lc#7dcdnQ2@VuH>nxZ`IiYvZj95fkmUcCkmSY){|ZTNllc{ryc&{R9gJ-ajQ<KrZXu4<GW2snl2?p>Z
44z8jG!52>7`BM4#A4hW<S`BBw+d3Ho*G$o&f7IEsu8mPOPjJRefxpALF+0Xn=4|TR_!AhtF8K5?NhW
"%text.

(** Lines 1215 to 1364. *)
Definition DATA_07 : text := "I6Yl#2UV}2zo-IM*X0-RIo<k4zXEU_`tE=!JqYBwWN+Ih%7t8)ELP`U$RnT6kb9vOiSfiBXVzk_CTJm
--jNs$51L(%A1Ky|2WGB*rhr7%AN5teOZ-h>+Q)RA)xtt|sAy#LU9r$zb~G|N^y5JRwUrfVl+z*$f5w
~^*@Vn#3G!E+(-JIh3rt{(>hLZBnq#cL%i^@y<l>m@I_8iMbQ;EG=n9^n5IBg}K;@##e4EH2*Kjl8-U
HA{%PdPZgtkWrscgwVzI%d>N#$Wc#4Cu0LBy}4S`=~o`Ln}_Z%;--L$+IXPvf9fHBzivn`(nspA}8~D
?|t14ea|qh~3Rc#*4)LHwODwviTM4yC!ZJ3<g#RvNn<I-xTfJ%5e=&pkD^scawhXGC_Vev~S#d(9eMr
wLg+y2j1*?iT{O3hImY{?TMz#nAf75OS!sRo~*osiPzMbY*WU>U}Gu|$AYKLKay8{_(QhA%Lp*F?aaW
Scc3Hh+l{l@WSXVDou@9Z(&23AGTG!4MA^|apLnBiOHclA@mt%$_Dx+#<JZiwuPbvbs8u~{pmsolw=3
Fk?&DqI-1Sar5ufyNbKT#D%5GFy^s&lGV@P&gm2YEQBz5!mEk9EP26pvF&t0T)U1~t=ja|fWXLopdG(
4^^F@!RsYG#bk#IXzK?vxrJLpA+c%!uV@)dln@)kB-t%AO$XL$a#vq+rbce#B*5S?`2?e;R5Jf2bat5
ifA;)g0>|Dw_<~e6_9S>#CY>wsHHmU(wIECtC#c_6-$y?hdGzRq9XJnVztF);X7pJFm^c-v0+sO9KQH
000080P~d=M_?WYjb;G=00jd802lxO0B~t=FJE?LZe(wAFLGrqc4cm4Z*nehd3933Zo)7Oz4t3Tc1Sw
WO6-WlXY7Pf6u>PWA+3^tK-$O8Nz+nkEQi!_-gBOxOP9WL0XkpM5c$Ux_SBDIYr6e}I9&soqBx;L*f6
#3bvV^}@8egF=Oa0*FDR92$e>bXSrkWX;OcdYvRoIyt9N9BTztjc8XQ(Pw8zfX{R6fKgWCQKiQS@1cv
e^Aoq}BDY6&z}YdQyw1+r0;As<+Sj570mTv^sk_;*J(p_WW8Cm=Nwf_yBLnX_6+QF5bpm*5a5OoF_Fr
#p}b&4FzVLUdvYwhNr<_2JB2CnP^~wTA3jz7Qq23L7Fu0|!SY2dS?wn!#H^)(35jU`iEu&-BX0Og1*$
gV>dmTcaCnSsZa4Hz_`9Y}<-#(}`KP|8!cgQA)*FDcEd4C>8Z6B?c;A8?-V`PP_J2!rKNupH=hkFhWP
zcC|~z(tO1ep68v;XkHM8K4*;4u1xXx_w8R$O9KQH000080P~d=M<IK>3eO1u0Q4pR02crN0B~t=FJE
?LZe(wAFLGsca(QWPXD)Dgy;}co<F*z5-G2q){4hD^Q=D9j4%u8ZyGzkvZ89WjZ^i8(&=M8%PL?#1ie
q&B-}fG=FQi1-xgwi!xLD-l=Y4;Cq<nNl-WKIf@Q1Y`XN%J}ui?M1$SvKGABrqtVsdl@|HzL#X1Qbus
d5-3YR$++Nn`j^&&<g$Oh{hj<Sbl}012k`)O7Y2gxD1o*#K@{C{jrV7+jK+XN<6?n3am~oW#YZ%s9<s
Mz&n7HJ=(KM2uf+jAErIkW*Mt!c%G!5~^yU*GiS=CnwwOHl$kEun-R?nIV%WKVH4PyuQ194FcB-e$F!
{B@yi36&IlFYDZ`Z0>yL%VrFzp3PI?DU@)f&6nHDR;`zgz$Rbr+Dj32fTq?m=m2&LWhzDBR1Yj|mlj+
4Bxw@N@zg^s2-OUl?{nh;sH$UH#_ZPRf7uWY!mv`jmmb|^Wes^_$b#o0*-;;~$U&-IEuHVfG18V^v_E
ZYg0L0{INtS4{-7)5fkQPQHS+ba?JO<VBhl)Nh@=!c7k%LC0WMac5dQ^gd3BqK2!xdF}XrNa(nE=Z|C
?bHo*i2GUY)Hw=FnVM#pe4d-$)6fZxs%OT#W$?|E@;eFH2yr9OpcH!+|VbUD{?~4z|tJU;~zV<2GhL>
&qz`*ng2<VHGKr<Tl8TVPJX)hXY~H!>Ygmg>EfF=-+XoY=d(9}o3Ir8ti&!jPN;a0b8>u~eBRE^Cj>s
z=~VxH$Kpaz1;VFQ9;4=<GR07pisp(_#iTaEEkdE$iq$6;E4}!;k_x&Z2LGIth2)4pGXewEhUH3<l1g
cUX&(Ygc1}LC-L?>kclDSIjUr&is?^3^6_8ioY1PrM_19oVs3eax;|UlrSM*6Q<0;8l9%v0_WC=FZYh
s#Zm=b2<!{TFYHvFJrw}O_D#0X?T3UlqGRtf?jL<$LW&P=nkWJ#0;$BkQBuh<`ux)OP-b1(~0s33&})
;gDSy{2W+%~~^!+^uScie-`wmHdBc=f>zusS0TjXAnXi9}_u^PAG8{@tmtD3M9+Y`9M%2RZ%XliySt9
E#=C5^^--Al@V2nZAum8)n>)SLGpxUbT>wY45O4kv1BiWsYlU<=a!)DD1F+y7>bQxm~CL52$EhX8^oD
yANB%5iH2FM9a*%gGR3h>3mep-7#C0HZB*ou**>AN9HfN30XU9|htc1GeNQ3e$9#k3aKBp)5q#nh38G
cd&La%9Fd7LNDCA#bT^gH)?G^EK!j2J*anjMIcZ!9>!i@Wo^;{3I3rqv1(X2rSsT=p9bioTy9ga0T1n
VaEA=0P5aMsK?XuUJ^K!<7Ki0hdiau^aF<kUWNPTNOxfM@&Q<Ll2`<lAx`AsKS@6CUKMJ=QifUanr(^
(cINx@>g(W(^NvyU8wfkI4PayBk6iXcE@YqU(0VWD;31=+Jl}q($vabb>V{MuIdSKDOig(;g2ND5ATa
c32_qg?XZPvQQ7x6cwnEtR2*w`+pQ(19-r3(H`6e1uW2#cOWdQVH&@Tug>UZl~7V^3GIRw=o}ikU62O
7;h8=gq<FOHG@IFc<sMcK42}m%m|j5x%npVIhLSfloQZb4-CT5N)Vf)Hkm<D-PRzKK*Kh9**YTrX70H
aT(siMy3OB%b`tsD%FXCG-9b@dTrvm}T%itFY<8m7jX}tIi#PU?EFOtVzKPJvIvP%cpvLo+hm!2Nau6
p%Yc7a}dv#V3>aCX(K-0Z?ZC%ep%4o;|T3x~HW%Gy_W>S-GHs2F*umu8A)Te_1#(4I8+$nVD)4i0LCK
8o>lXK1lttajwG#ZbGFNuLEwpSw@}n&LUS*QB-LIeUbf{-t`i7`>5x&+E3}7@W>PcPtxjUv*fNf<e8k
WN&}012EE;Cr}H8R4v6uS|`xybb5!yTx08Ng$A*Saq{hQY!?oj>jwPP2h9<IG|Ij{->a)u;(w+o-a!$
4ZG}&IsaI*uz^Cgz&K`x$(V^8dFHALiIsM)hcrT_wK@mc;3^r6KL99(EpB9TwBy0P7L8}{i3^<{iqJl
jM?{LxlE2g%LK@p?z+DPdWv470!B(^usmlxTfkICHc3Gk|{*9drYF_U`7=ebGa!P#%_Kfuj8y@z}B%W
2<!ug#Em-0(8fHHJwi?Y<fhJ3;7Buzb_5W{&kSXf%5mOa60?YOZDNl0AAteMN#Xg05LQCc#(<dreMfG
k1H@eE&)o?rzY^vluwv+6K^#gVyGSya>3!{tQ~=F{r)98)@#25!YjYZ}%KwM=UeG;AIVL@87j;4T)u}
da1qu>sC4~&w-`)qOw-Xbx~!ByRtcS+Dma7bTE7^t!vtFO=Z^$^bMdF|7SVcaW%bY_(-#geK`HtMeeY
D8HF<nyI8Zq<#OE~wFc1l)kg0$pZAYzmJM`XM!JqH306Y^wIvB~AjJQI8N?jkSy_2ExE?(1YRnp6FQP
MC^+1{7oqMy>FUdvSQKfm%7j;hh38=m0-t-%r4>_n62Kr9I0VakDlNQ138B(a#kSVIvyYc6#KI@p{xD
#;0Q0uv?@g^KF0$(56<FvQSIpj7dnw^vT3bc0#!5=JhK4bKoYTRI+kx|X(2+v)hfO${bxJSR8ruJFO*
c?I~-)+NrO%>1=z~;^+OXg%%Df69ts-$_<O(pX(G-S3<hEX!iSa-F4p>rujAzJTG4zD+j;<7t*ewiD5
UhrNq`Xx8>ct+|PqGF>%$BW_xX;sjFU+H7`VqRkpCDajG@3VTvi4N0n(F^%rjd_Jdrg?eR<Z1iv3>P%
r$VJ}F6PCxcgzBl^8B<*oF-RzZbO0~+-Z0~@92iC_&}yW-5F6;W>Xg-m*E*{-Yw`C9xphQN7+#y`t2X
FQ*LD9@#Bn9?2M$Rka1J5Z6N@Wc6SfMp_1k?3XqXR+l9Nn!QAh6?ftO~jJ2fca`(D;KOn}yT?j&wX+1
&e9YoxusHMT`-IA+$rFX64H>$m^0zR;?()v|fm;$5XZ?s(sz1lrEUlg*1-gyxCnNNus|WNuDxD~4V(w
I%eb(xl#=0>}H(dG?2XF+t2{RTBOb3Z|C_o%=s5KF+OZfF8toJUh^mbSFO(L{@kTR*E`2E#E%F2sP@o
c7;4Azb$^B6Rqv}zw+Nsf1idaW?sEB_G5lJ4L=n;589us)YOq$1+HqdXDHVf;}={E-w#RAahkdB^o`d
pdr8?ACp)y9@`Nb>C~6q;=9gl196s<z48*EDTr&_Y8g?RDa(hl+sdkSxo>U$mH<s%(`2eQ-=-SI+KKU
<DO9KQH000080P~d=M`CG)PT?E?0N`@~01^NI0B~t=FJE?LZe(wAFLP;lE^v9RJ^gdrHnP9#ufS8MW9
m-jOPsdzUZ%dOVk?c_`Rhqe)4p7WLy?fgnj%?(w5_|j|NZSQ022I^EXR|H2w-=ySnMtqAh{e4haa;b4
6=X=wu)2sn8J0mW?t-bmTlaOrFkS+9I@M7wt=5h=0-kyGaL>FgKyY*ob1wIy~&v6jo9g{*RQ^V|9)Wa
c=U(64FHR0JQZ;?_y(YFdAbdR2!Ko=*oLQkxnt|pjWX_!*(&9n#Vh7*+;q*yEQ_J59ZLwG#mmeMB4o`
4=8_$d1K4Z>ghaf`9^I4^XRZ*j7q~!?`LUO8d6c;s_P7c{7^9VKI2$e$#&AU4_}mSF9<Yn8x{*BwFyb
5}z(tk@9#R<tkQe4Y@}Zl<U>m4D5S_#!fE*Cc1&jl^9kXrh2P^#LG`J*RhJo0OnI9nWWu8H$z)Futhy
`Q$PnZwELu3tT;0)1-OAZMN`$<r+nG%)2n#WDNt&S!@o>qApLARW+{1`+>z5c<y3~LZ!6^CK`D0Lw61
00ulOVf7;t?n{@;4~yT?NOWo$C3}6i=>=l)g(4<7_uc-l7p^6&TeH?De@pP(1XAYSrVtzX??V|Wa7h=
EpFc5eVWXtY_?#x^P6917t;$ioGhR`9J5ceyAL-X?-)SLC)ansvzzy9a{W8|`|SE+%%;EH&Zmn7yO{&
A+12gkYznor>+{Qx7qjbM*gL?yzPV$Uv#Z%1kiEO1E)}uabb;iqrt|X;P@KG*UC!=)9|NiPv%71g`~G
ImChT@Hznh(ZyqwJ0?Z^4;&0-2HTma$g+4cK5^fSGhUf<c!FVwN=uTWr%50lGF><p+)KEfF0$R#_!x&
3`U`{lzO`*3r4F@?%^Q{Zm$?s6(SgQ1;YPG(nQb}_k{{4yo18=!+DL_o<S`}ARomDuM5{+-{=Zmw}K=
Qr1Pb105stn<49`O|DM9ka=Nwm`AGpWj^JFj268b3<eR^Li@jpwO#x10Y!bxR@3s*~N5n3Dg#dEC;H=
?ZIG`g33D1D$nwiI}QuBs0pBPA`Zbk99bR=RQ)QCyey7Gp(_ILG?j`Nl+n%NRF}oBXv%g87lVQ0xH%Y
c3ca1NVZ&*$pO&iX=Y+hU9jEKR4FT-|+CfJp-fR26?N{IqVK^TJU*#crQUKY3hP$cYOo4;3uU6poP|s
1t?ZNHur$7N1vo*yaTE(AVePL&3>=c^cbT_{NQLGq%yd5z3LpKtw9U2)TW$Bpe1MseEo)!&ImJMDAzO
tysUs<2=r;Ms46{=eXk(=&x?Q)l)^swP-^4ntee^bTf)_oGeKly-%g12(DbOo1H?aW!o9Sh@VJ!;|6A
|~bJ+2`1F2bZG;*Lf7+`qjcYjz@O9B8HRD&0w;&Hh7;j6X?>d;UDgUI~+;=@$Vb<KXUDJ!$)@~(5nmf
<`hV0!Y-gnNx&E^>oxo7C-&y`h<(RiOAbq+NTRds1pH+T&T<)Y^u8MxTr0{iURfjp_8(`ue7kc5UOL&
R?2@FzezRh7;0DL|=kpa<Q^-L{Em%cXwPyTFIhb0+6stvZmhP&sK*ajZ8jXrd{^ao_V>h6cD_AV1X&R
?hly5*l-+_QCm3u|h6qBU&<M#*A`tePTmd``>8yF_Z!u5RzLIMjN#~6bHB@qZ^CVo9yz~Do=7_?K2b`
TURYzL{3<-@NgF8zuFt9%}ED{{BIq&|~AN4AZX)Nz5u)lJqicLgqoDqv1Cpqv$*I-0m6=?;vkBcme<;
xjgW0e+-bIG64}cNbiEX{jEAQZFEs%9LV^nZYjpVWo|AFhu+@@z%UV1G-?0iGc}`QXXb#XGp?<VjMnj
Yh;iH`DVn@xa?=F5JzYg(L;O>_T@MNyRy5r5(5&5IN+a)rpWSj2=Ns}Qm_&*_aP2^fx)YiG=i-mf&}M
PqmuG%{7?Y-D6$}dWy7wSQ>Zxy4Um4xF~-m^j!CBCx)$q50NW56O{Ek;F@IMOXZcrBoyxh~Gl?)KAw<
#<e>}U6qspA-uozkfQOWwqE~r!oVXiDj9Z*JrBk`s?!A7MqW;KZjloZ?eV~?F1fG`YWpjwY=ZcGWTW_
y~-sHV0!dxfyDU{F%HJ&OC_hB>w?LYAYgnJ6{%yX<8wQAc&IskUmZYPRL_CJVH_9d5WZ$p)=GlPm{Yx
HDB$x~&_`&ix>5t|mB2T%A7;6$ZrMaEV>P^_LplUjY!Wq=Ugg2}`&qklk-lMIBcgkN8p-9FdVsLHL+2
iCu6Q0yblz&j3A51KPX>(#9Gjk=HL(Lo1B+nYM;%K=vjtum<}f>y!0GvE3Mpj*qrS?77z_9c6p{c8O4
J)aC4Skq00>=58R(2SK$kf`3hK(1NMEY7Rq_R<H*<nYK~yA5a0&CDl5=dtF)Ke>$C+hE!Id{m|C1b6f
hN!lx{Prz-%vb+e5OL3mmX6?KF$VOxNMRVmx3T^Gh8vEG4+;K@cC612^Spcl96D(bN1*k~n|-2zg`F_
6M_`F48y=G7@%1(6RV5j~7uxP+Z=rY&}f=LuWr9OGc3hGBSd-emtE&vn8OR@Ok!>6F?H(Gh`!ds7)ui
^;+ulu(_XaHj@Ug}IO7$4E7!6ZzM_jfutR(wH<l@ENnez-}-^O2X(6ot~~o$5+6#XlkX;&n2sWWkY)i
|7%>>5n_)9Ll~)57}B8474&&Mm3`o}w)Zh6Wvcr<FfMc4&2Fm#Fu1F8jD+i9>At}>0?6*smt)niDyaK
A-?fBusT;s1U)mToTSGDksp}BTgStd<#;_A@>ZVAIPz6z*KN32-^k8p|2I0cMkWA}Xjs3zi2U&?(r2|
y~gCYEKM8=#4B8c#G&*K&ug%O3;Hl>m*{NEOWHGMe&I#S9-1XJ2<+gO#E)WlM;oIp5<>)pHSo*B@N2L
I-gMwaHF_JKUJL~vhEHSJIoN#!r`?-PJ=uFg%t0dHbDl?7>nKTK0Rk`)Q}m~`2Kykdc@yyF}Ddj?!`b
hO|9VC;NN2Gt-pt|(&Dj#;C?4J{V}H$y2A6c1E-<uR{Yrj*T}d644ieqag~MN+I2+&7u+;STkjKLAD!
i@{D>oiNR=)k|O*sfjpGJr%;!Xpo#hSLBMKZZL3)1@NqW1=W$QvCxu2&oaIhX7F7uvRFr!jcXTJC<UZ
?UdwI16g)+z$lKOU?~ykpGw7~0k|pF?5Igi1bjUWl!C1Uf2x9!ds2Po0@mE0zV<mWfs)~hW4)tKn)KJ
2xt6o|w7tFUouv(}=n#B&<L6qc~+;1q}<o3g4G<6@H0#06ZQiJ}Y7INT9x^T8`(k~_jfIl51Qa4)jJ%
e~EfaFCNDQ+wvEhIs?i3Wjn6Y+De4ZApU@4^(DkUu$p=5a>oNdP-pk{{ONg>34;Hr2GIvK<&71y3&mk
7m}q_Tn()badCrDuQ1^IH^(f^?|68KaE_L4nTkUiu3)?V2}1G0Q~7D;oxaAm*ej-&l;pz1llEWb&gSC
#2l*0h=%pzXcepzyjwyp<($g5vfPf4>{6~|p6ndFZiDleTW1~R2)Bl7{DmJItJ=UFKi_V5PPR!o7zhH
_%2j|i5}PbbU@?jB1OA7bN(QkI21_hpvt2gtp&+C%@Un(1I#9QvgEyEmg^Lwb-oZ*<)Yt_`Cy{b4KHO
bh-WDZ7Pr4^YG9L!egXXw0a@o>`$+vD0I@<tN*KH2E0-X>Es<*FZSJSIzHG<nE_#V1Z9CeU}SfPu01!
+$QcpIup_^whz1PN#lA-q#oCG@URLxc#ZjS#|qxVyVu@bp1WTeF6yL&#zqjq_h-RfI;xJ_-wp@v1m&b
^GXew}E#r*E8cXkymX9f95<VnE$1VHjtDjsnSclY=sfAch56X@=oPNH=~B1Fg!+&ugLBx=0LDJb=d>v
_<<Y7<nu0yE7fMJwmx)x1g0eM9!gCz2239*;ib6J`C8u>s;sqLldHh>5+uDSxs!U*<gWtPM=%R0;<%G
P8XaqUv9fytS3epHihWqHdeP%6LQZ6*sA-gyy)zv7l7_k{W;g0pAmAX3Q*RT;%1dYW=U8*DYZ_;m244
nde;3;=J`q&T$T`*MIqK`e!0eU&eN{!X`xhzcDvp#gzAvs6fw*H0(x_W51Z=vNvC^I^S$-E+w8?<#A6
8wvv-_%kcgt?CzUOHOeoQXcKw584>D-P^ZS5L_!jNltA4!gT>Ryr>LX(u`Zjyb(dfR%qOygyomBC7_s
2DSA+h{#)!!+@Xutip=1wt13LKlTEYRlYjSC{kK^Kzk6gnE{`#~@Nst)ngh>dU~qPu4gEP*2+EJCo&U
guDZ(Zn2j)Dyv6w@+M{bnOt!gVw>mN5@RSQ2+uK#UPc3a;zHi?F!*TR)x*P;dfi|kZ!(-!4^$dDF&qu
r`Jz_M*l=Xr;iCh6dA1Ktj%g4_oY>IWwZ11(wJv-rc2J>z_?Zob*mHUcKxyuNi#2!85N2n`qf2K06fe
OIk3j|)*qNm6`bgwI;vhN_)r5a8u0U}giJM0+={b*%?z=ddDO~R1XigI5;`z9FbY!Or@z`!t*!ALx?(
<Pey0C*tcSqu8g)ToAGq0>#2ai>NPeTjZs>SQsN`(X>o`tb@G&(@I+oQY(p_}r4K6Z)^X9W*?EvmMV_
WJ4Ss@l7Tw5+q`I@pWZzB2amHRxFV_N;Py!opEA1XY1(dkksTYWeP6a49_eS_`g>H7g4)RUN+Iew<%U
s{!n3Z!Bw|;`zm~xaY9<07Jct<HbhbxoS1~f=avEwvYBOwI$r6)Rr)N)wZ3l=c=vJl`gfdig=&e7W<S
o5_{D)<=~w}_O%pOk*lh%sytkI0WVH?)UJQJi_ZI85c`Lrg9Lbo3hyC-r}_R%2;j|5oZC|XZ`J-i_yB
dPX&i&U=2?=)PwJHXx!7~ne9XviNN5)U-r?_ZAbUul`?=sN7h-*KA0OPv509J(q&4S0vGY<o@<zpN8h
c!bBgY2VPrH{eLMPoX9LO#BgU2}auhw6M#-||LsQH?6H{2dYbFvg!>UtTBFYqRLwt49wzX~CmuCGE#k
MAPDTZ&&}fM16ajqvL+^-}!BO9<d`>WlDS#{aqNZTJgme2nN>y_brS{N~F%6+opNO8nud6$qfbkh@Wy
9D@zPYkl>7#x%N-w|fx<TswEpa)(a^?!#{nU%Min!va`^eN+gmaC?K;F7BQi#ul+-XCPY>^uAD5gV%%
Eg3JNotVrVM>z#aRdi8)-)*c?wf;9C_?-p%ReRQZJ;Cf*!_yz)yV+r7^wJ*W#4rEL8E>q}`)uFZ^(T_
9+iM+=eIv9MuIcVMMv4^U(_Zx(QZ(4*VwBIDk+e2T?DvUc$Rl_J74!4atBH`j)K8JJAjjj%T>tW$Ql`
AP6r*$QMzvA_9`fS}ZC%Iewns*BKYG8FHy2<U+!?sudlmeco+|4+18;VAcnv2Bsbh;KU_;!gesNi$x`
Z4hm>fpzX5r`Ns-%3J38xLl;9Sy2i-7&a25Ko`NAf8&p4#X^%Jc%pK{b1z6I}mm`Plpny&MXq?c}Y?|
k^cFFFiytogvN~*Y8diTGDX)V{gW@x)b(!tK2WDgS8+J9uLpT^wfe%m8)3?gExxl*Dy3Gh*1ORNq8tU
0Q+?12*m7;Dy*WRp7TFD@2WfUxc^5{%q+RK?d>>`co7s)mYS53#-f&jE%yB+H`>mjAXVx$RY31IA=#J
U9>5zTPXw>5o%ENrm)4`WQ9DL{+vy3=&<v2s54V6r`;T5*YMuNnEC{MX;SA_yyLf~5vvKg+bZN5CN5V
BpDsxa#?Ub>+IQ3Zr3-_)rNA=uJo+X$cuFS`a{mfJ>96uO2`spuGkS;iH+&<EFlz(*w<d>k4R%FvspP
uW0C|252>G5^wRsu)&~HJw3_*+|A34e$qu*0D?;JU0y8CA}l6FMImeAo#v#vtu{fSvcu<2J8$mGPuWO
snBwIL-Ag|%^6X;6`}*}+ccJMzL<KdUlGcqWt>O8qtj+ss-nq&YLJud(bDEfT=gE*nM(3<MMYc+CG4!
60U3N5x^^@hw$jVeiMOz%(uTCkv(9S?OaGPc)T?zu1_633wfr2K2U3le#4SdjmVRX%VfC6b=v0>?14^
5ejAa2_>n}W$$-q=A!$fEFZlOw8v(v&WKmZFBgVsxuL_r!SOQm9>SCj#SUZg5~!^p%^9-$jUjuJ6+2Z
pC;MKire9aB1x9y9=`;TV3U8&3n(a7%a7jjCYU%nUulJ>Lln-!1;j{bQR`0Xn`-Km=jLCfG)KC-&nju
r>+-J(snQfP`wp4+D|y$Cpqh{zJeYaagA8q|Ts*1JV#%hX%A9L^r%_H!+CoZUkxu_^Q)6cv1?$7fg%+
`l886Uphf0<nty;Lp*Du3Yce1Rsn)Ih40gI02{TrUJY5XutQKLvoO&Z$l>`i^P`*YY<%+2q$63{LrIN
oA1&h4bi#c!EnrV4mVr%LknX2XQ}sOhpC#*Gdb((OsHG*EDkE(9FqSpM=X9d)UaMUfBIK<IRDpTiHn`
Tq|5Tx}wpEhhz5c>}I%BWRO~49sf}LWPIxA>jJt>2oWd-9=dv3NOv(yq7zSAeRa)nIL<;pCd#oNm=U6
@RZNiSrd{<WZ^x#-r>EOv;M;h4P!Jz559B^j(e1$+|~RYWZmuhf&gk<XuqfC&dM2r3}}S_9y<tW*gTV
=C!aEfFHNb%~nZA*OCo1sOYI&Yd(nhX^2>{+YWW#?SS-p$R&tx3%Yd&7VqGqp}KI1Csz%uiLI@137=6
;`H84Wqg9^MKd?@-7t<gTe{x8fcR_EuYf9rpe5{-C!y<cD?RzgKVV;uKX8Gs$}1R$3(rmTK|-Ok@?uc
a16@TUP;+c8TNsE_AL>89`chg-IosAUUyWJNft9a52MW!c{^IRjd|nGPty;zFoi@IuJVxx1sUQ_yFw~
?}3td@Nn;z|;J^AysBiXAS$(5UV8?dC(?JdU`$|AEYBp(-2j9Rqk)Q)c~Rod0TM{Niy_rYJ>bS>n{h*
xR`YDsw{XhRAktBzgi%NXv_of$Ot_4cxUI(snJ1OCK4$4Htc&r<Yj!61DEAc<=gPdS~MSXrW$w=v6>E
oo$AI=0pXO*&IsmRO?(3hb5e83T@908`A$ye!$W?c_!xVAhQi$I6yQDy9-_P;*W+a!VeofY30a7mmsb
=7h1Q3e^l6Q$WfyE^}{VlH~H#);3dQ1S?IkT>`6AB{PDh63;KGY#GTx$dnX?GYM|5^tPh{g<TQ5-N~?
2dr1e%buxI6M$P5PS-6LEK~^zpoVjt&0&(CklM<$T8xl;5S6Q+~a1i4l1(TCnX&xwIZPCZuQ_96_y&1
F9(c6~(keq{OmzJW3*NzO`-s+&HtZNFx)UsMxo{5&ol2H<EE2DpV5uXQiY?{CU6dOh~NMIGodR+!VK)
6IxhEt+YDssdAWqrd%RV)rOnn(QcJCW@|E-}g@4-6cNBxK)H60%eKhl(Yx5@1ylwv#xaTqk%V5~VLPA
7aOf3j**~U6-D=62M{}es1}0=GFpOOv?u@%XoncfyPE=<(5Rh2qLo|OOh3UZ`e#GEkfooOAzh}C|<`j
"%text.

(** Lines 1365 to 1514. *)
Definition DATA_08 : text := "&GL%tfJo+M3o^UTlx1+V0_#CyBNSSLnFi~MbUXAau{AH+UDrIP{-YZz!q6RLV<>A2g=sLe(s;e;3k%v
q`6+;5mx%F4Z*~mU$BIIg0RS-OxoCQHBRroA)Y;T~On_4~3SQSasA&ujJpfNkfi<+qm<9kXXQ3&88b5
bwUQKyO4yUG+L{e0etm;2$@pw+EZiyhL+gxOr2@qMu4+6L<bNJB6{}uVQk#l-Sx-oJDJaFUy`n5++Bo
7=pa(ckXp%XdmwlKvY7ewGk10N4B@WE3CD7nnUh~J1n?`DmvWRZ7skhMSp*-6(Fi!^#~3KL-Zgn5WS_
1`k(?!C!qH<RGM!yq!!zFWh8M8m3~$@}951RM6{l`Baisa8rrp~cvm>L$&Vuv%2K2``mgF;K2EFcHC6
&jpWQR$;485*N+&A!t!#ax=h8RW7m`s2I+Ns(_7AXT0+hg%NL5$BtY!&(wl@`1)%up5U^37td9gi%os
4#X5i||5$=bewteoLqL)mF6gTs9|_)>04?+QP{og9d3Rb`ATF15Cr+h`AGL>yuS(f{KPuyt$J9-Ph5s
j*ClB^l!8+ppS-D;RG@snwPUp^Kv6%gGjUNtK)NkVFiI1PWX+ipUdoj72E)2QrPB8~@{pQlDa!$~}+E
{lt0{kjE?5`9!Jz1iz+fLvbDLoZSMifciHyM(<SlX9i+FH7qX5kggHbp@#Pt9Pxy6r{*jLQntBA`>Je
yL1ZsI$t)xS2~rH=={Sw-hKX@o{$+_}oS90pGfH@39w34W(!m^vQV9w}<=zwn6xTBXwt0eep(pIf$O!
p`#{&Id<_bSdsDZ8|v2eF!Q0oIkib@RY}xl8*dOkI*#RqLg%i=q?43m2x|OMTR2K2<&z1l05lH<@D8M
{Nf-T(*-6In_z1tcK{Y31W{t+|U;nN=Q&QoVu8e7;A^F^k<+(IUkZ#GU&p-9gqp9C8Vq<V|8mwUhLV+
B#6!*Jr%phidr67#u-8~IY{^`VVsKIegs(}_k9~x>Qa94bw`~6H8U#g~s$C%VTFhoxrVxdW+<Qbi0fi
Y?dfdEdl3{L8SR0Hl2mgJPLT0jkjk#j1AD<44`D^ZgUVX+`w(I##FQbpwFcAQha<U3`CXzRYJEc81uw
1rFwh`<7hpOMfM9CG+Dhxi!)m2Xu*M1UE3i)|he`)Jm^!LLc^489vsK%Ma#pW{jBn6&z3G_9C0=j%`%
=HS@JiYI8QGGR!8zCwZLk(BW|Ny44}C`B<i`H?Qe{<R3`;O(?>N_L_;I*~DI{V|WWX!2Lwh^uh&=bl+
$o*N-i2waiRfcvbuC#w7nf%R_%Ab4&rxRz>kqUTCW#TwZ|_H92cJr13TwO(J&`B_m%#2b)uBF<RoZkN
7G*=OJC9JB=$U`cK1PV#K^-G7}_G?z#X<k#@<u29C+hg~q4N%cOFJy45`JmP~jMm}bNQJ?;rok|*vPt
_%u9ym{Qm3sb|h>!y|z#-&`%`C%>$2--sChv#bPH!3JWk)r`>+gSfO&EksNW}w$m?T%`7iMpM{E_`U=
ajw1pHMJ>Bg0@vogIRpD3SxYCLEtt8#Vo+ZnKLd@{Ztc>TT%YP=5JMGp%@IKch*alK8*6X+RINe8bek
fnb$jts;18Nn($lHi+oaSiWOY@sczK{H?InOt=xy+Mx4^$eRNpiUQ;#-twu#GLy9W(jAXfl5OtW%vyj
VBov{LPUE-#kTkjMc*_CQ6)^clM2(En{78wY=)OoiTnX_j@Rg5Jec&lS5k(Intn8Q_p9}GpO(H3lp<Z
}~`fGY5D5*1B{DPlB5Nvq`W0I>Z-8@4XK`+1{xUWYtdazeA-*QPCp{{xx?%m@^40=U(jd?Mq#h5=$5j
<!Z($}yIV$jG_{Hi0~u-1|yS6h5k&Gd@O1JV=KmWCe{E(6bOhi&PdhmAw1;<;P-iGb2H8sFOrtCRaVs
IK7Uo)$rk3CFJo1`+189%F2z?=KghVIXf(lOe-5UF<=nLz|S?w~9xFM}z+dP)h>@6aWAK2mtey7Dsmm
g2n;?001-s001HY003}la4%nWWo~3|axY(PVRCC_a%^d0FJE72ZfSI1UoLQYjZiyo!!Qipa|!|->;Qo
dP#|N6E}gmyicPmdB~hSgCqdD>SGE<w2|ARMNIkv}g|E*$$Yp&b7BEScc3|=lZB%-~&=V`|4Syj!ds6
Ew-Bx-W%;-d8m@HH97~}vQ`Dh&;zy?8%jIzT^hf&~l*?M6nF3JNmS+>bg_;7SGF17phYc4i6;nHQHzr
^mqC?f~>{;3PaNV}TeK<CeOsE5#Q_>ONBvT>S_+4i`!o4vW7pg|wy3b#`jMtJ8D8~DVLZ4%qTnL;BuR
1)JH;6>PE(U{a7RdF0h3Ykj6Hn#hUswS1zJ#|{cvCJN0S7c3JuV3;X;Qv7j>B9lDv0qS20|XQR000O8
^OY7yE)(3O#svTXiw^(*ApigXaA|NaUv_0~WN&gWUu|J>Yh`k5X<{#JVRCC_a&s<ld97D%Z`(Ey{;pq
fa}Y>sU13evtqA4;+3F72vZQE=wm_B%j6^wHWKtt(JI2!gzB`hVB}YZSOh8~tyf@xG_waH6&z?MkLX|
=;j$vi1XRqi>G?`3JrRBQO+``-WTX^x^OW<-Xw316MEi9S7<Jx3VH2?JW9b5_dFq=JmGkcKAf{@qXKP
&yfWO)r)hLW3GuDRd1;kA+r16Bc(TTm6)TV?oh6ahZX7T;vPMh8Mkm_dAKvO^QYAtYvNvapd0S*fdUu
cz?n<MZpZZ>d_<b<bQ+JTpx#Y?7iGr=UzG*^;ABSh=sH(A3OUN-u+c`|90<mu%-_|5K6<C6}zY6_WQQ
!>4`8a0an#YEHRlcF)78K(NA~(wu{_8Y?`7THJAnkFxLMDJTu`M#vXOF_k-t@|<Coa<qIEm%L)D+UC8
Iqefh)Wg}`%OVPq3zK$Yvt+WMZY`avZU3G~H@0h%Hx#8?i^9o(xtVC^v%!31rA*`av>g};RN~P7Zvj(
m8v9m|~zTl08QztXmT4`@WRJ#JtVDdLxvx(oK=Ky|l*5D|63AfD9d0?r^Rn4bxv$8<g{#w?dTFHWzS!
WlMIUZ+{?wr$u*<5J}6CcLJ?eUu0qLX04U{0a~l%<*$mX~0#N3ny}Obd2Xa}(tsPTpN&4*!k&NR5vNz
@6?~$HRt0!Ck{WYOUj=>z?WXygB{!#~d1lB62b86k%M-G_PG?K8e<`fZGB^FMVShwk1wj;E8y)$gmPW
WJgb@ND?I}Ix0d{%qTWW2^(Q=`w>1qQor*<0*0L*1ETpk^?yGh0VSvrR)cKqwKhsU?)FiI(BXZBuIWb
=Mqxwh<8bQR;P+ND6g^kSGML$0&TGJrTn;kzIf~E|fd^?D`N7!4!6&=pTa%<|*En$&lLQLx;OHc;@Kd
Ha#$50OrH~x*IK4*vb=yc0)C41}(zXCH&^wR*LN)F}2*UpMdG!(&wYp(7)?T>wVtShqZT0$wc6{(@6c
sfy22L*Df4mizyK`YXXXmQq?=_Q#(#v)5PQm2}Z(;L1F}$wuO2M4E)b@ImcCv1RE`n}-0F*^eR0B(H3
|n9yI>nQ-vx|@O*C_1*_yu{5Y3v1h`B|y@qVek!i~WoZ61L6>bZ&K~Sm{@nR(n=I0MZ22aP2B@2A-Y<
S0^&)U36;RyD&&{Us0a_<8^<v?eE+#PG$Ht?eDn?GH2aykj0(W4lYk+8g=Pj3xnO~b1ktby)<K4=hCb
+@8ws?dW+CNqzj3}T-R!Y{ZERfgFyhQn?R6^P+1}(NoMLx7tXlPy2Pn)xkcOe?yg8;47T%um>(N_{*;
G?{*WUF)<&LWh@0tG<&l%%i91|Ys5)0wg%qE{Q;7eH({y(kc-W7?I(wAey~O7o+P+wVH^@Oq7C`h-^E
HwOHYID-fE5M8e2{y|H#ylssJ94CChj7c(B$UMvu5>*XQK2TGqRV4bz$#E&qjoh*Q)Rw*E;FW<!)EJe
R%FmllY%-7)#TSkH-mx-6`Gcd=_(zC-z>+aF8CbMlhExxa4@@=03F~nfA%2Rrdjf>7@<Hxi0fTWI=C#
^cl(`m;U$|eLoS$y3j|lRAQSTnc>wc?CiZ>QI_%o?-@E<n7Oi#`1^s1@w(&FBpn1lOk|&+-F6v*0UDI
LsmI}>u`~*>VdD@xcW~*3x_%~Hh*#dKpT@%+_dDPAhB$f}B=`1WqJH;E8I43uf2yM6_`ST6NiUokU5h
va<9)3KB7t7_cwyq6u>p;8Ix?KKi3zpa4Y30l?7=kszhZ5-Vbzq#G^U^Y{d3S9+=}BkMFx)_A*qwVLG
tsydcU$?w9prtjo<#!7vwX4ilhx99jgPiK(d$hY2S+1>XMq}d8rEbFOL7_wuiXu_E3J%r$cnQM(O?sN
=AJ5%cKXL)0RFNMEW04O9KQH000080P~d=N1Xbo@2&s<04@Ol03-ka0B~t=FJE?LZe(wAFJob2Xk}w>
Zgg^QY%gD5X>MtBUtcb8d2NqD4uUWcMfW|$q#JgPE?k;uhzk=v1DVtT8lclmi^SVo1QHi)|9gM(M{8Z
8ZK-6RgnMv9U`cTIiKIqLMyV%u1TFz#{6OMOsf7oybJwoj$)%RZ1U>r(JPs5?z7UPlTC1wUF=MGJI74
w0XW@Yo*%uknfUaK%WpZ)sg>7e8ni;=IVvZK!V2(#~DwO&SFq2>iB-^V0XI2AW7}CCRUC=77fAsrqj@
1`XO9KQH000080P~d=NAZw!T=@h50AvsV03!eZ0B~t=FJE?LZe(wAFJob2Xk}w>Zgg^QY%gJCVQ_S1a
xQRromWw7<Tem~-(Mjvl=X(iBwU{Y`_Sfc*Fq@=-QylgF<N^zE26brNzQir>pLUavTVx<)DYseXFiQ)
zHc-Z=SFGEj%{69rKDM{j#`~rBbvN;g}PEY*YI}>#+sa0ys@AS6W-~U{r>Au{#oaim#Vf}NeQ|)dgSE
^9>e3_j-K`=pG0Y$S@-fNBwRFanixgO1211b<E!uf)oQgWB{ycYLKjXJg|>NEF}y_m%B85d74>s*276
MKVLN8PW`C}~e%r6NZ2jr!x2OHn`mfE(xm0juMImZoiy|{1k6Y&A-u<p>*gBKZ<z5zG`Lo&Wb(=H^i6
~s~OHc;1z;OQsy<~BMRtsZAxnyw5^|RTs+uN5*mjVaeV(PL)%C?MlxXHtYWB<V&ZMx#^{C=6zLjkjiW
e5_j!~H7QMA<lU<e$D0>Lf+9z?4Mea0brp5|G&_HNytRDT`|t-ESw(p(?}eU=q>BpmaLQbn=;1;=_jz
;r<UaXS_Gf**62sVs5(!NZzB;XXLJ`nN^66+Bq^|0|5MksYPMd&dnEwBc{LeP^M9}agG;YH9$pB-l)!
#VWDXsl2;7d?b!Ou(|-LhPhM4oC3e%o<iWzBW!?YH2nAQ006olDt--ds_V9;R$iX%Xd7gkIq_KQa11h
}8Nx_@d$oYohi}HnGF_@!=OCPT)BsZ^IXFM`&PFgj{4htjaK9ikk-Zt2bAe%)uOP#7KL6zsS=zP=pi-
M)SQx)D5yQArtpfQNcHDL|Jo+N!j@sRU4k)OFVut5Bu3C=OUqt4;V&in;?^dJXn0Ii`%f!p~I<^CiLy
9g;6X{c?`KuR(;PE+{j_u(NMWudmHTzMV3kmE}TVMz(KveB+O<OOj|Sc8<1SM<1|P8*@Ujzd2*Qx)`)
<i>K_8p8c}_v2g)H|#sGbBh@|@mHV?TU>-a?fLW2N?d+Q)nb~@!0QBvJ#mXIVT}+6fZE513E@&B-L91
W&V(5}j-$*C7%l)@n^cjrU-3p@u{7qE$bg;~j=^ESv6>Q5B_O;WqW*=MaO-0H{vl>$=J$T<@wmmraIQ
PLW<;J@O*%qXv1t?-GSOwZkI@y8X~(GB%%NR{xdv9@8ILTtCzlF5d|olRgW9N2j3?Y1WsEq;sQn)lmN
Y9B7E(}6JeHSG0>E#>H3AwlQ2&kycx2F<1F-wMyC1O8XxJ>&Rf7cHoo85<8cIihn&uoK@Nt8a=e)E*2
DH1Zf>KpjMl3AyylX0N`M6cdzRnUwiwH9*-c-C)0eRt96CI`>@9qP_SiT^a1bjbdLGqMLoM`=%&19(*
vu@a9IHRcJ3~k1%=`5a4wijD>o+LmHfB-;pb&Xf`eRpapj+03*&Go51gL&?HV>awCr2!oH$1@ClA$U1
()_*DZ9z_R1s8a$f3gvPFKQ0-I3_D{FGrj?0MNE5!>J3U3M><~<UnNU@W$;VSBjE!qZ@8udDh))}+pJ
k0cX~R#Vel5jTx|bi;FydLsR1d`e4~YKa8~YTSaWj6TKKYqctGeK<}<A5=Evk0p+DA5ldG4+j9au?E=
{-eu9s|%_v3sG-yL~{tqBLe;56FZ7x6kC{rPC<uvU{85r8$I8dO0`$Bi8oA|IVB!;g1HyHcudqKm&5h
q(Rw=nL<?V)qXJ0Z>Z=1QY-O00;o{l@>=5s>bjv0RR9N0{{Ra0001RX>c!Jc4cm4Z*nhVVPj}zV{dMB
a&K%eV_{=xWiD`eol(7RgD?=@{S+rABBeY)qzwI8B1KV$?#Q)|;Kta<K3YXl-o0l?11uG-2N2wSzs|B
uywwOwDt`L+4^#w?uRExG0MoP<8+2scaoC6jq-~9r>@0zaAc5+DQi~`n1mhkWY<xI_Hj0dQGMo#Mu}B
qsb6ZVpOzi`~-m8-kLRlFjJjsa9NhKeAtTsXbA6A1SQXbJ(YdGPV2XH$<nuu`lwEOXjI$w>rIK{2uQ`
!#y0M}@d@L$Tx`Zypbpq6vq^S*FJL*9GxY2>mr&QMw2)ccRr>h|E>G(#E}mWzaK-zS@xjkF}mqdOk>W
-r$T)gpDljT}W<>|5*&EbjQrP(7L)|IZ8-UCS@bFHEr+D6Y%y;Wv6yrDcvj3e6Yh9$Md~fGhD0P)h>@
6aWAK2mtey7DvLpK6;V>001`u001HY003}la4%nWWo~3|axY_HV`yb#Z*FvQZ)`7PZ*6d4bS`jtl}^1
5f<O%3`xN&Cx45~R=tc}X!K0YUL2G*ueR~m)7!w`r)O`O*?^|&5waUF4HAXslsnyU?FRbZ_U6=;ITR=
(fu%J6t)=%SC6F^!EG7}04T|`%#ljZvvoDEq8uoMZ2uO=KCR<C#+(UQ%3Lsy^C{A>SaW=wc^&)Jt{am
?61Ib))@W{_2_R3Wlq0}oJ30|XQR000O8^OY7y%Rm<*LJR-^j3)p9CIA2caA|NaUv_0~WN&gWV_{=xW
n*t{baHQOFJo_RbaHQOY-MsTaCy}kYi}F5@w<KnE90P5BduS7do`d-b4~&n$XyOeuJ^%p1ZtO(81F+z
a{aiX|GhKA$8uMa<23Du3P`-mof!`2J;UK}IQY00Y;DY@kc$(>i&d?pS(ln^YGp*umbGGy7VHjInG(M
@LK~e9hJYzcgn>o>l<`7TIamJO$WjcJsxFx*xh&Gg$U-ysal@4sIX7Z%{uo%OjohU3TOd)ZG;F1fYBJ
L(5il>f7MGP4m6k@{idQl-jzF66436XA@WTZzxQ|*W$qV^M0Qle+)L=09_5CHA!C}&@E;q6ei5h-NlB
-YWhc6DUpN-GQFOtJUc*oa2kKyg=6FnvWz(==skfiu`I0k~bSlUC*8zmF?H$ERQ_<`tt!DY=j!%Z74s
}(cAw-PIH&sK1ziph$-+-yJ=@}B+3>Lq*s=7OF6_4~7QKveLTXgFLcCX6>`je2{Sz>a1;VIVsNFH6N&
rKrppPS$0`b3%Vts%|zKV1S*p<R)7aOlsE?3#<evp<;<$ygI&~IJ~RV_VIc9c-B6Ce~t3U3a&LHg<RB
?QFT!WmDG#RA~UUMUgFV>P)nW(W@@GdsB7shkLh*Y6geY3=L~GKs!iHC42pd|mz6a0d7?$JoLK1D&vh
l-^IRCd(zB1Mft6quia;DI_(N=GQZtK)I|j3Ig6Tq9(jMNvb-~*G04jO`(yc)PZNmB+Nv#y1-@H9uql
&6lWs((o!dlC6V)z+8SvyCg`t|)=lw+m@_!^j;=1akD!~=OY0uZBKdjAcx!XKy%G{Y<<r>B-)%Pv_Km
k?lH-)CZDWL+i0cUAGg_(Io3WAFf%;3^7uFN*q3<SCvQcK%Ke*>`mM)+5}0Gxv}pf{OGMH~^6F9H9E#
<Dt8(;tHS+4~H%A0lOfZ%)wY6D#P#D0s>UdDyIgHhe8jw+PGv30iqWXK1LjfjV=o0as`&2f-wmAml5_
^dXk<XjSnVgXJ=_Zc78FpA|d@SUgd1~VwireWtCh-n!6sOCU7C(gE@gR9lDd=Gd4UwJRHK`R$R~God(
hN6ck!2k65jB2r%7UX6p#Smo!*+tJ*e{S|XW^AI`nkg6Bf%t`mf3inXnwGl%Q3+|DR`4x%S<a}XlsyI
WqsnFA^BF}YkWg#rhFCxsfi6*}FyIS>aLAliTas})+7&F$u}J|d>3j;T>>fg=hsQx_{om=PS$U7PHX>
*91Qx`o?E2}Eo#bh(dL0pmK=P#>6NG#QPzG3F?%Iad_+t~%fGXPOOU)2n;T<Z_dYy}OY(?~xg#;&vF$
h7)!?z8-IpS(52O)^-RQ&on(|f0|kRrL1y9?_yr>Vz=JUY*KLu8$C{uqn-R9aG#&qjFz9oPcRQOyreJ
8XI*~BeP^-QgRX<+bLXheIo#VG=Xh@^ai373%G%UWTH#rwVd7qDJXqEG&xF<RtnMIW_xX9l3oUm0LGX
P_c_CL~FmMc}@H~!O!~^bfdynEBKaRy!T}=@h9a<Ymd9C|a_1q_O%>3kIRZY->+zWOUa0Gjhjw_b@e#
%z?3L|WmU4`Xq)cR4^nR>g$JpKs9FsmD5^NeMH-Ej>kHr*U#Nu2kMCP+J`dI|LUy3#c(gwei=k_57<D
b>`Fh$8eQ=zh&aRX3}3q*=Z3nrKTE@C%-6uZBsa(R3wD5_CK6Xy#%qvYV)+yMw-i--_1wY$@1J!pOoC
1+atW>Cy4TBjD-FQsfe>qIgKzZxG4rYGh*T5r6|M8mu+zMzs!s?oO5;635~&vjUCqp>$Oe`V#1bpoAF
`6MRvKAp`AN>Hi|2ET|xPq!AwE`t#_OQAegB3!A!zlqiK+rnOofu1#4Ss%7?<lhfk^ZHt5HS^7LZX|Z
FG7ZS5n#=$5cr@_ILuzE%tq3p&M53sm_;;`*PNUaeW%7xZS7mX%BF9bMNqZ^1}i4?(>$7!rY6k&?4*l
2VU(8x}8B3P?UPk*+n+e?UK@cy2`cvMi>2>Z(st?tWt2kbXI9ReZ-*6WkjgQAFtLaf9s7{EecN1XS_U
`%k`2>|2*{0?f>4iH8X+~9GJ@E3WMr4%{U6MUhn??7_cey8|fQ~=XCXQ5N4&#N-&XUWi+C%zW2qKxu#
6s#MC#n2ogA&`ccm>f-rg(+><2?8JAy?S@fK7t<!bOw+q6pBqrg+GX$8)t&LDGb<MQJ^q+$2IT=awz2
DwAGG{9Vt)-swICQ2?OeannqbcGkGVr$Yi9hjj9*mq)<5D)-ngZfU#CaT8{vmfV5+W5Y9uk$OJALKr1
i^-Qe-zFU1pS(oR5~Kc3xoWwjhkK$Wr*HcVGSM^&j`nHO>?P@zEmXh-A)!McP6M}`iLcalY~Fy5Q~{0
Y$B-E))(Q>meUfkJNFHR_#ALbOb_NsN0j-8f@`NDXn_fk7irhr+N7MkMYx5+_7G-bFz!XFu+*pgs0%k
Lh~?y{Z&wdrUAoG&r0eY&)|Bn!7{yUC)siJ8#*pGj~bOIax$`kGa@9i`_HS7G%JI9xG%ijkf`a`j1pR
-9tex**@i74fmAWl??X$?C+R}UMp3rCz3rHba|E4l;EDuEuhS8CXAR2WWJuwnBGx8GvuEeS5CN4$<PN
O@!}F-+Cz4mx+tbTo3-R)En^+EhB#yQMKx!pp~8bl;|0%EvO|(T#QSvT9|Zk`L=Dw}7%4&KPdKTo!>F
`!)mX(|Q(nyq!4=j)Q2cf@_~oqlXhw{<aZDPT)j=expf*`UtSX|gu$?rieX6TmQu|-HwpZ`%p}w}C`Q
|#>6RO1ByseGmse-Gtx>Ea^GHOq$@>rP?adS1gTuw3mO@G1xGPXovjxc)t5hz`6?@(}Ure&SWr4;$sZ
S|AGnts6K-repklJx-bzE1HGtzP#$_o=+A`AJCe6Sk=HhyI{AZgpS!D-_C2z7=h6P68m6DpdW@Re*<p
p1fPr?A+ymy}>&Te{plpUXi=mOn!27HqxQ$!DxWreA~BGzO>dtegc6BYDC4WRp<qD-^!3bU(-9Uy*fF
9jC68zI)M`Z2>(02-W5Lv9j8D-^DkQ|?YC{IS%%Y&uNoD!sE?y{S&R34qU%RuenkNb;~rf^wI!GDg7K
mUyEBTG0H#f?uo1<|CmvtWI@S;w1qhs8(9(zoyH*<gFTH_+B|*)~zG(BG1zw8!qgyPw;V||R3oA3<P*
v<kh>b7rNxCs>TQ?}kVjF_`3fapelsU;(@CY1Fc6VA)NY0@di9&ME@A1EJmq<qlFLOIS2pZ<q1A2mX(
+2ngPH!&&SW(wEwx!^4w~ffJuuXGEZ36(6vwip5)l&cO<uU#W8OUWv>me!SqC_P_dlbt2c$9*X#rCUi
Y)wXVN1Zr?GY}>S*HCoj3!J7=H4LvkSz0;tdICEb_@ZGQxFg)*)+ThVp^y5ZSM1T4-HivWBl^mByq(f
;Ah%T?Bgt*hrzrIa%I%Q)7NhsSUe)0HwQyaVh2Cs}ajg`*(x}4t8W%qFh`5#np=pNEEylNcy2n-MB;5
y!y1M^6abvmCY^Y5QGyliSmTs-`4k!MnN6%3cG-Clvg%v1^uuH^iM(?6DkwGZXL|i)9-EB)_=VW%6h?
ByJEo#s&{Wun?rGDY#ETG1#UO!dCsVR`Uvwn`bL{qZ_?E@5$=vINosy0UWV{qLGFyD3s(M4!QySIGr)
i_r2`@(TI(?-Lz{uHyfdp|5;gC+B}!|IPK_cd<xEeeot@pd56rdK?Td{L-=Ayh7CCGM2*$QmorJ@e{Z
@uivK+7zJ{QcpL}r%}5#Jvj@*?C0rmOEn%GuF)D4T8bS7>1MO3wH?=kndCj2CF?5rO`KAqu`W6p#161
pnWyZ>#-wS=s7=QS0!L>A3$)`$-E<NY?uYk-bb|wyt;4{Nb}r>=O`}H~D;6a;GGloox`nrS*x(&OH2j
Ry{C!q5IViuai@O(<Lo8FlGp2>8R%ShHt?hcR`T7btwaV^VEnPn*HxqViZ)Nc*j;sM$8d2(G`!W=*_9
k5Hx{jcKj-BRy5W)+G=HZBLReacR$7HvXx4PSVKwl3bnV5b*R)tTGMfg2Y{R@%2$5Ir<$6HNk4|ecxP
)h>@6aWAK2mtey7Dqt>BlV#J004Lh001Wd003}la4%nWWo~3|axY_HV`yb#Z*FvQZ)`7SX>4V8a$#_A
WpXZXd7W0lZsRr(z56Q$$ssn7%0-U>a!9vbpqHk=7T7~k2oyE4xTZ*fq+<K;`-ZY5S=&qNgY8(uH*em
&8Kw!oBjd?*y$^|gz9f#ny>B)fZB>l)Nm*Mdef(@Je+{bdIc$CPjdj|+YzVK1hll+6r9&j0#t>4$53V
LfO;2Muom!(?IvGSIX5tSHm(&_}punmo<B}(pp{k*2I6RXA!l`9Psa1&@Fd!32TOS$mX~g0)>me~x=_
^(Io?4vY45qzH>{2A(j5s5DvB^*0fS^(erUFI;ZKgi>vq1vT0S2KA4)!8EGlQ|3>+wI^Oh|+pBF=Z*R
UG2TKvC_7%3dL&_5k0O<&G@s6}&!hW6l&&cg%3kCrPWcHZ?e-o(siR)&2x6W}d|)eEw2%LuF~4NoBc>
Y@27O{yfQX?UTIZVNsS)fL?E%-tN|q(Xv+{tbd;5eVw3}`460g;6%Zxju)vPp%v4IIt(fp&fPeuP^kl
>L)Jo4;~n%<E{<)Q$(Xo65s8#NsY^seDhOpjdQo$tkTojHY#-@hAIyhJyaWNazkd81K-QlkS?`a6F!V
Wo!T?=6aK;JB<Rr>1VBT(lzlPw$XjRy<_8i?)f-_A7!|aimynven%4;xj3l!rT=^dlj0agw<k0>0)3)
h+umAPpZSrUb1IkQx)%9$$$6Om^QT7*mGZAyK7+3#zwW6@&{y(@e;?0?$BlR$Tx_k4yyV?<wK(WcHms
^q&LvNKI%;OGf6JLbybz6sl>@?SQHaDAG67dQ>U-Adhxd9!=&>>Y8Y9A`f}Y~igGF7qD?z)6=PyNG`G
"%text.
