(* ===== verification/PipData2.v ===== *)
(** * The literal of the pip installer, second part

    Lines 1515 to 2864 of tools/eposiotgw/get-pip.py: the characters of its literal
    [DATA] as the source has them, line breaks included. *)

From S2P Require Import Literal.

(** Lines 1515 to 1664. *)
Definition DATA_09 : text := "ZkCPDn)|fs;XO=`x!(MTEF-)BpW%_dGJPAOSV-Eal}5|qD0JQx%Tap&<^6@;>KePFWBB)Q5Yvb)ilSK
S`dQh?vzD@LuQRH;^eUn(w5(N9b2Cv?4oBd3YXV!OI0YDYD`$3d8K${~+%;`?U-}$%+a~wV7nyDW+eK
!WB~Ryex5zw+2w5>|GH`i_q{ghyGe$!ztZMSmG@Oh~lT1~1U%rD@U?^X<Fj}aO7r7g-(7QN}V4lcNf8
^<rvm7umc!$im(5%<TxI(*SA4mDRPr<SEHs1(}rtuTr(%tcj%$Mg148x8CWm&Vuwv$L-7xaZwk`s5eS
198c$Fvu1d4(h!?z#&lWVM*F+JIBzUxf4|0fO#)ko*2p+#!8`Q{<6b8&dqT`3F!-0|XQR000O8^OY7y
n;li0umu1B)eiswCIA2caA|NaUv_0~WN&gWV_{=xWn*t{baHQOFKA_Ta%ppPX=8IPaCwziTaVf}6n^J
dc&QM9g#-qs)uQF0yKQ$Wb=uvQQMIZ@kx3kI$BDDHGYqZz-}l(D9m3o?JcL}%&EL6vHqA>e6iP57MT$
j-*3XLOq|?a+&k@NnWnrZ#lgNI}xX7_eu_7Z>Vj;=VZLGdoW&NaWIZgLGG9FUG6z+6ZZ_i)HZ_Za}iM
l;JLcJ9A)~NR{>YXim=ZoGa^w;^S+v#*tk|A<aQbA&zDIx-6U}UT=-}8bD799jX{S3y;9~a(fSnypiF
cN~ON))xkugJz>>^tFD@pwycs=X*{*J?G(4;*fxR@vkrYVK53G7=0112CE}EG7B_OL9gkL8YQez}H_%
qOI29g4-Py1uZs#BrF?&BU$o7y7lN^x7+piAL}?Uy2gyAXnJ$w^idtM{!kGxEE7T3`n}o`NOH0z-Uv>
=R#N4pP%`ZJw=0ly-Vv3k6#SZ|Bt?pIgc;*I=Sm_*uLzn>XI^=$RJn*E5M?r?L}eitn`o<Y7Kto*aWb
1fldx{ei}7iA8qU#fO9VkXf(k-XZ$@#QWkwUK*d9r|Z$-qfVSOiawB?n6CzghHVq|mGpH3%ejJh8WEP
PUswQj!wzbZ}D*4W7hb8ulq4V*qGtA}<}Z4oZ^u$rBFc>wME53AP;09Z$G_Tl2)E5LJy_s~^E!m5-Y$
)Qm`w-c$j*ROw)ZVH<1Ap)%0VeGK1Q=FppzD_u!klqn0xH_@|0^l0)%*gp9`=B2{^!twnI9!%&e?MNf
QY^4>U6f0t<wIBSUhTk7{U&tL)afy9!lP7q?M9tucl!m{0SBbV#G-}9eg3}pZ7%wYJ1zbg97E$Q`L6#
^kXLyBr%p=HngA9g2d|N6XA?41r$rY7F6`WsXbKZ*4<)0ejc!(fZxXibJ*B8!^)7v8EsA~XvTtys#Vw
%PFxsK(Ngy~D|I*j5`<H{3np@YhJ=r}y1h8DWoDN1u6@2H<5P_TE!BF3QSv<cSv|ajm+yXBxSscxM`}
rPa(`w^{7fNtuO!UiY4O6RsTozWvSH<hv?n|@K$ID_kgt<E$g0=rDB9+wq1G67;Obb1jHNBQZP@XnL;
Hw~xX+c#S+x!oQSG$AUo0c*#L--BkM(XL~@t#yRPHr{K_ZGB1AB%^w(Jq9eG%S1)8nGWwU|E%yOlPuY
jhB_;!1NSY9*D@!R*im7hR8EYPB&YH)-b;{uiVPMG1)tS+SkE5EY&$rX+}x<U>&?QV_Mi5=IX~$1ZDz
m_9K)*m}rfYE5r+9eC(_nE0uH`fvxj{^d`-Gd;)dP!;|pDC;?FeG)cvD>tk3jmb}1gM(X{C<-Ru%Y{q
XOPRUWqA#hD}YOA9$TL`5o5h~aRA|aBLTocCOZJ6_Klrd}qBE|UPQ<U;VMxV(#I$N#&j&zsk+5G0^KZ
i?UH*HmWKNf^RoFtO4e@IAF5Va%XDuQ9Fc*0qv)uTe5!JkX<8Q>cxW%+FO+Y963qA-D5lX?TgXiinV5
<ul-KHiG<NH*1@v5D9F7-|t$OvO+!s*<K<BvHW^Uppt0$p|hpeVOaa^AVcqceBZKgy#C)d~ynx=|o@P
@pLjZ+Lu4mxOa|!{UP+T%6)GU0rkV|m_l1y1E<&S%>!*9wDkT-`b#rPf5wf8yGGJ6m1(vI5&x<94PQB
%E_7)BKGV&W+vYl!c+|9I%Hy-c;qfUr=FDbvYTvQ*-6CAC(+=;lwKp=(p-S~WNUx=B&VG1w32>6KjA5
b=8W%|=1Z+BEywPjS@l7xp8S$}k-3U6`F#(Nlq0x$~(aIp(+k!|LGn&;$OYbG8MSUVf5z>7DhlC-TJ)
cb4yTdz7{JuPl`_a`mL}w3>w@uz+x&v}Eut_B{1D!kl)<@!Slbg4W?FJ9B*Fhg!KRSDz{{c`-0|XQR0
00O8^OY7y3?_n=#|HoaEf@d*B>(^baA|NaUv_0~WN&gWV_{=xWn*t{baHQOFLPybX<=+>dSxzfd7W5o
Z`?K#{_bBfC*!bMpH7#TqPQB^4{e&><$xx|#b`em#+s5wUdCEc6{+=Yi~RS_kkpELv7PH8i1k7~oEgq
M^H6f%sMbIxG=BZnnRItj^;e&?s{8BTDw&;~m95%CBb#)4z`9Uv+TyPrYNJza+AcR;iyHilH-!4G)>v
z4<N?2zx$yvLuJ(;E{lI@;UH$Z5)QzIS38Clr6`q})6<ESH`}(Ub*10Nhn;i}6I9p$y0sUH}#cFSQO2
gbJdY=|(uOgvyDWmlQ6d4=qG0=P^oqEWqGvz;{^$5tV@tjTGlI(=!O<IC_%%;&wdhpH}ML>Baw1$t^N
>Rz*u#Hvr33EeG7K_&@x_v{Fu__brJH{7%$TL+OH}6%AetBntd%NACD6rMAS=!LJAC~%I>$4MrEG;ld
4U9cN^UuE7oK~Sc5=HD?%~fr%Hk%(rr7-~H-#NVhaP{^QzWL^_peftH><FL!6$Ai0J%x9xJ*c`mLWSZ
W>pPHUg5iEUr1{xDa(D-Ys#gYf;(#E40&U=k28@EHRR>(0ElmpF2`zI`RY!^;mWtpyO$#oLzs*IyL-w
szRa(jlA6n5g*rsm?Artxi5A^I8_v|)V#IVlpDbOHlz_R4(AtNb@Z0!z#VabiUs3;CsyJgF7mlg!QW3
*hhc_)o_OL06QJ1(Nol7@rJ%i7%(+FtwJ13SIe-5!gCUo3)<<y}Ptgp4HMmVs_Tw0AVkVO)snK^*l3G
?e97EN?|kL9pT74oOWxpclY}v>eRap=44nklS=L?39|@vY||sD*cX2@ZE=)jSSMV5Ju2|-$%2fetL8{
d1K!)1ie|HH^xrp6MT8moPx`4Hh_Qel;ZB!$&B_6L_SNCDVN|rfdj{ETGXjDxYzM~;*zD>2-C5lClvQ
&Vd#OdrK-cR{?Wo<VhC-=PCW`aghnje)Kb*OHt~~%p<@mTr;Oi>r+yx8KM$F44sU3tZH%D077n64f{*
DaeXb*Z72R+eeGUoKJrDP!=i@P*(lCidz}3^?*DFR^-K4syq={F_YP_4g{cb2PHio;LMahrc_zN4&W+
6X9->%)*8*7|xL8tV(Lle8}#I}lc7{a%9r)~Ux4&ukWN1e#E06bFpQ{zQqC12A8^U;4ket7>_pyze;h
4sVxa$stzm9gdmQlEmuJfM9&g)7f$DR8#e4^a}OpOmcQ>v7MF@_h3u8fPBsGOMR($Mu{SSi+^Q{V$e1
o0d@28qo@)TD^&B@dTpFh<w-75w`bu)SIie!+Ei+CkkmiBDlR-4_c&BqL^tBHX{%p=kPJ?MjY`6Tv2n
*5No(2@lo3jxNppn8xg3|LWHHmyTi}M+3P|a=GXUVu-!}A#)lngQcpmP$ldIePp!SRT>n6sHRM?U^&r
jebZgq<q((WteY4;{z7#VX@RvhE;Qw-L3?+Nj;oG)V?F@zhY%aWrLPvfS_t<M9;RuHrHsVwjB+Xf;P>
<~$wEa=D>=971(h8s&<s=?hxh^2_9h&=T9|bA~6#Fy`IYD1vzP^FKc>AKU<=%I8;BVvYdeX0dd2Q1hU
U&P9#;VTrn?zHFGIux!W+flrjg9a1-(TL$j|M>=NKI#we8<GXpe|%KU15)ArwUus{K_Sux99N<_vK9N
CJc*voAS}t7QpuK`-{&}N{D-5VuD()<8d`i^Wj^<kXdJza^jq{o|D1D{yyMX)!JpD?CRX`Yg(BLoa?H
pCSadB62QE@RC$JZRKQ-+8G}>CJH@>BXkl@g6CV+$41#Q0@m8)CLCr@|^fMJzd7QOMQoOt`yn24>r-G
npd%CtF0(^Z!3D1(?4nk?TL`X3W=2XLEiMBliRu?PRVh&t->^FJ8M^S4ICN&tQl)jPzpyI?J(&wY~?b
L&LUo_E}$Vi;K9HJ+E6CAbs3)}16eA^aX*GNbfte+#YxAjo`Y{jTs_NhBH&4rdC9sqgEPEQ7HkoeF%Y
GdEs#<r4Y&$fIf4GTV38&g+VBX3*rKxOW%xE|E@P1>j?cKSLf?^$j7^XEj>GwQ7Hu8z$UHOIPR$497|
-3-rop%x)dIlKf{?GU?99P0_3JvzcqN1~b<UZwEu>6*DV=JNqx(4aMSnyO;C)71`()y@P?^wVGSEQq^
WS|Q~j5^8snw%#J;qVqK%GCJ>)xf8Hb$jY|2NemVaRztX8MQg2yh0tjw-8J@mk3BJVWofl0l};&g{KC
!Y1;>g7$7(&-PGSAWGtdqHH&!XcQ_PIxj}GG@7Z>w1o60x)HODjii)Ymhoy<YC@=n&=Ven4mN0&NI7`
V*hxG{gTWr8XWYt`ND0u))hgkn191MrC(k$M2_J*N{9SB-oE@2TGNx}~5XXU;vxr;~ury?gnLce7ISl
(X?)_EIMR7kk`enrF%YezVz-bk=C5EoSb*t3U06mDA1vE4*1xc<F61CST|Nw1emHi`zKfSchrL#?q^!
crS?Uw?=SfF=)|w!d^R0<de_*v*LoYOLK#ye`;|5t>URuR`AjDbjk{zO}|ovr>Q5GTsU4mWvc(EFpUb
E@N7)_xyci2J$u@GHV*&)X>+{x7o0c0u#ElyP)h>@6aWAK2mtey7DtPF#X`IQ008m<001KZ003}la4%
nWWo~3|axY_HV`yb#Z*FvQZ)`7ja$#_AWpXZXd3BIK4}%~O#dkgho0u5gO&A(Gck12{JS&NcIgX{Dz7
hYRMp-!We)sNi4ceaPs#YTba?_6%iC0RuP}zadc8^(NO#t<ztk~0N3MgZ&hUU;F95|OTem=oKzU%;Z;
s;25oqVIeLL8t`o%sRYnY7^1I5Ii_Y021T&E;}ijNwHZfOQ4(>i1$B6Z*5`b4k3bBe2UG%P7aNTQ!Sw
sA-9LZ~Z_bX^F<ND3WZAdX2af6CecgI0Tmc0Z>Z=1QY-O00;o{l@>>y9aj9y0001S0RR9i0001RX>c!
Jc4cm4Z*nhVVPj}zV{dMBa&K%eV_{=xWpgiIUukY>bYEXCaCv=@F>eAf42Adninm=^_yI_rDk`xQ39)
plqQobx-X)Raqww#W<TwNinViqhPtWcpj!?SjpV$N*Qxt_KPeF}Qxo!-~>#J(r^FTk&x)UwJ&q6*bFm
!R06uZW^B2nha5S1O_{pR`BbzS3M`{Q<lT|g910*#n5L5ua>6W2IloU-C%&(x-d=zePoaL8(hf&3cZM
dfT*5Lj_$i^OS8fLh+Wi$iObFsoK1;gW66x-t)o-}V&poF6XH{?Dg4RP_25$>wbS0Z>Z=1QY-O00;o{
l@>?Arw0F91pold4FCWw0001RX>c!Jc4cm4Z*nhVVPj}zV{dMBa&K%eV_{=xWpgiPX>4U*V_{=xWiD`
eomXvd+cpsX?q9*VA1Y^t5_DS!7znT=O@IPv45Znzq9_DfIz@~nQXuI#9{S^VM^X}HC)+T6u_)gA^W2
dZO{=tJ6*pBaRukcu%1kDuRt;-Kn`TcS3#HRq<?B+^z=F^<uCH+Yx@6j{3!(S*KGDZs*=wh1&hx4lIp
+p0=tIA&q}8gfL3bi<`=b9mnM?{OS!N*LXvkCxGTUllAtBe2H!x>qqY9WUCJdi9>>iks^^R@1w9G2zr
0K<0!Z6aBGou(;V!|>ZgM?EeOU_PN^9RFDv0~{myT4uDTz{Da2kz6w?d91W`|cN)e_mX(t*C2Oa#1r;
qAzf+7_T+(V#nZF7;Bv8t@jnIc|8}+k%aA$Q#0w1jA<bk<<5t{f}C#*kc}=skOnJ*+uS<0lmhLy+!%%
`_$?T7J8B3njWYdy`bu71)*lp;%CZtsQCntqO)ccwPynq4<cG!78c-5V6SNIq3;Do!C+Xq~rZBi*hRX
s0@YrJYT@^U<lo=w#dLoaxwK`E)!s#-*Szax#ub21Jfcjw`okSP@QnGu2B;Fcy{}wCWaJ?QV!8q1dNU
nFUcs&1jb9VdXb$@=p^L7rU(hdcelG^A%ya=}fYCzg?8OTB9a-ldRg$bq*EbRfbdN+7Sry3gdH1xsD?
ZI;nt!2r_<)zk2&)M>`dx-*n!|pnEHXCCdtS*9%tQ|{pF4-eVn6+pbuW*k7r<5?*-X0OHFY`EEVj9sE
N%v1(6H^#V&x0||a|}YsLRg_BBGRID>H)h2bVJ7bGB_$ZIFW76Guq-ZSOO}6_q77FD-0AVqSQCj#)?|
}g;rQU)toU?sZCwP{pzEjFgw1Z7%~N#)<K8`!WGZgn0RQg!p{+^TRgRhKi%*;1XzRJXi0iy;WY~+;&w
HSagISflOau&V>@XmaIRsj6cYh*^?^nm_qeOoBjh$FQ(h~BTq<Tm08}L$zj;lAgl4)M%}GDQ1Et(}&V
&>;%Mt^1IcIndpn0W{Nz?~Vpii%OZ769pLkXXrsFU|6C-dH0|DbLs@GA-seKP!(5iX}Uim;{E%!TDXU
>v;}ge6uWY>3_@<`^=l##@U~7%p-42d_8aS|^!aa7m)Xm67#5i&i}VwJSpOT0mn@k?!gK@fjHy2Yndu
$jqSy!X)h>L6QD_EE1qXf$+As9iXHA@Ot1P?1#7U_9)6>G4X-^W-PZNZ?J%>=y?S)M?1;$?4U2g#U?c
sfA{X^<T(wZvsqffb0HqU*d*ZK7+T6ePB$y##<^MET`q7YVr{+quImZ&yyEh~9S_v*cxvp>9JV9P1iU
_^ksbeh23WAl+SV+Nj~|4sHY>d4G{-o>G$wuQ4!3aaITprjz#PB-sW(G;0SydSvyjv<-sx$%wyuUavJ
)@=b@9u$8T*la^~-NBOp%t`Dt%PKmm!T>^vD^EYK1HgwOYe2Diwv%MMm|c-I%9Tug;Ud?<9N0jzS_D4
;<ZMq1?fe_~H0guinn6>Sgt!c3Gu#RK*CJIO;ijqW=B2;3M=t@ipGH{4oSWi-e0?FF2af^kBkx*8x;8
NtZk>$equAKI)F4VE^Hy_GovfYhS0mcJgkhScek^Z;<|Sizfij?S|K`c}FtN<_i~WvgY!cj|aeuxX^>
3cuimX0UCeR`QMz1r_(|4!!5|Si2t*&(RF53M)778e}W(U(UV8#)^s|(^<?TV>;B?NDr|+Poa=Gg{Qd
Si_1U;7Q7G_dM}Kb#`kpI4bmrYJCWQIz{j2f+iZYCgV)F@i%<jS*%JDZ)O9KQH000080P~d=N7IPLRH
gv{0L=pc04@Lk0B~t=FJE?LZe(wAFJob2Xk}w>Zgg^QY%gPBV`yb_FLGsMX>(s=VPj}zE^v8uQ%!H%F
buu>S8%!1PE#-Ih8zm?w98J#FkojvvFKW@ECmwNHvfL4qxfT6bg*dhy~hvJZ45mq)gI{>Q7N$fAw&XW
-)yqM7ey-oqY26OIEM3kQ4|JSpg`KGgiY`!m1L@i0{E;}tDh(8f`|Kh2TkY?n)Kc}OD7Hu5ZgkhlO~E
x+rZ62=_c#QiO2<dAX6`sRmA}56Ff?=w@nN=HU!v~5UbbO4YvX``jlV|_uu&Ob+_GC#VkwN3u>UQ;md
Zt-c|7VY;ebo(<#9(G&X(LO^0RJzhFaL?4Th7QObHtN|gy+yW!TopY<ZnT6|oXTodmZDN|nY^l$egu@
;~}CTf~fH}Iz25jTJz2OBXxJ_V06Js!Icbcs&>MRj#LC&^;fh(ece$;m?8&&9eMcck{=y{xXMz>jm1<
#)|G)tG#2)SzS1f5$ZGX3%m(jYAy=;*7(a_ygSmBeWr&A=W>Gb`GdRNsz#L(9)0I>x4D@P6+Rox>2Li
N8+F5(`BpWh#HfHJC!ABWp!=dSBmC+{=4WI$0oUX|9HlK08mQ<1QY-O00;o{l@>=YN2j8v0002t0000
W0001RX>c!Jc4cm4Z*nhVZ)|UJVQpbAUtei%X>?y-E^v8Gj6Dm&KoCUx`xOfoY2p#R+CpPQMQkEihC?
@I@p2pXP9^`|_ytzOJl@O*a_)MeOA}$s-p0mySX+q>dzfYuqhV1l!HjcfZvny434Op60wU}-d9g1GsL
7#LwQviXJVmmO2AA57CBloOaK=x{JHN8^fqvSGWw>3~(=~-M_HHQoO#;iG8~H)rOn;O4fDU|oA*HJ7j
uMD{Rly9BOdD+yrJhhr0|XQR000O8^OY7ym!pF1Gy?zt00{s98~^|SaA|NaUv_0~WN&gWV{dG4a$#*@
FJW$TX)bViwUyCw+Bg)3@BI{K$c14_i4ATu%?=mFxCtqN4v@)qb~_%`96+s+8A)uy+pi=$7>7}3bFsb
vOP~IuqvK!F1w{Go!0CD;;Vx%HZU}>0!exdB=z4yy1B3Yxdher*>;*zbQ)B|$AP`|ZisH#Uh84}Q<G8
NtEH+fYHec>Dgf%kcM52IjG9N*@A)KTVIi&egb;=xeoH9w-TJ>Z(H(iQvDI=NaICI2n*hsm%zPv=%d7
{7Q4wsa4a=yOQtxFv@L6MRjCOW7|!HLvleQ^KwdcD6~XF88wTHjq~5RZ$Nccn%;OI(?35}7ADKhe~!*
0lrb;VAc<fe!Z$gyaQN@9tJ>(~JnUG$v@I*VD{@{KQn2S{*n^D5Ek-ngX*`yI6IJ^|Q)3FtSCU43@Nr
e#-SjSHN;<hINEgUqw7oxoNtI`)Z(m{vp{O)#}zLi7e9<Z6j`-4Ho5~A~!vz{i+fsT&q=I>7I+6pD*>
{>r0@%f0Ef*1(_~iBWxUn!|CJXEz&_H{XCsLhO^;Y)KR4#gwdC`NQag5>vUc!pZk6r4!@TljQo#A*?c
z5+eYC%^%W9H)n03w-@5U%bJf_c(HgG)m4Qp!W=MD<QjW-)YR6%}YxC{4^ljs=ajMNI!~d%M(y001bI
!4l492REC%)=K&of{a4{L@~z&GG#7RQr1=o;`X9*?JwHP9>Pc!*zx3JkapZ{o=!JOv*Nh`xoBSBj4YJ
l>8LaUEQh>CWRt9ei>Oxq!t6)yYRV!irFy9pDMG48(r7%elm58-DDi*{3_TLm^**+@LBSVN1f79TQ|c
y18ALS|#zHCj2L_0;*O;w*h_yOs$TJZUu^38KOY%bdHC(jHN(OfwESbDe$2Jx>l9qV+BmDj+0;23@{+
+FPi}Zn*jow0Ro!=0-FH>n*jow0Ro!=0-FJX|JMM%XLEq>*(~6DHV^oo%>=$@bAj*KY~Xt~ANXF~2y=
PJUXFs99$f}7J;Txcv6@BVlj-a}9G5-as_;oT))%wqIQnQ&Z`HkeJaC}pXxp7b)7x@PD(AH5ZaKx>^}
>sbtmXU*P)h>@6aWAK2mtey7DxVZxGdud001r|001KZ003}la4%nWWo~3|axY_VY;SU5ZDB8AZgXjLZ
+B^KGcqo4d97M)Z`(K${+?gK+kB9mQ;fWPI3PWva2#)&ZJGi}id-)Z1VyG}ZDmqRQcZn(``>Sdq$G-x
72n<&D595{hcm-xhC{0RWX6k)$eve<{K8qHRtY2T6QOdtAty)2r(<${dqGYQXL(XeO7bkFOwx!*O3Bs
bY<_(^C(A6S<GpNMaG{8x)s@`H>XOU7y`|u5GESJxh<!SR>z}y*G`u=b(r@PKR&8>4sQ*~Cmy9VY)|K
Xc#_r%Y!iyQtxzJah!s$sR4mXQD-`m@(U?$|6Gca^%Uy)1_#+810wnyOCNZPT&5$G@I5=7%9R%#PUC1
|o98F@ifDHvHLGEqv{cM%CPyx#;PlCT9aPsiq&22ArrO7Ik)-;1Ous0jJfuQXK_HwXg#7hg(}SO^lzG
F_2G!u^7mY7~(qRT+E6M+s2^!dxVRGDQl(e{9H-3z9$x5DE><o=QbQC#5ia0-}oOxUH#L@dXK9M5bss
3L^5d%3vgj&w}RkIZ<>$6eqkC8f(VccPb!KBx6z~ECnLCW@EtOIAfWL<51Fk34q$oMMTm{*Sd<oeFE-
0<@B&*3o2v^>>w1RHfn|5!N`Sxd+-Y*x1tgzO05V>)^N#}4o>YQJZD6$Xf<#ZLKEh3t%BB#<G7NVRPw
%nH5&ptX<XQIynUt$2d^DQ;~W<)Q>;|j9@a`XaAqP5kfJ}71LWH?HnLi(rWWSY9lytH=qJ|Yy2$AoB8
tSR=e;6=p8W_T2oMYYB4PeA$QOuVR*>oS?IlT9i2(9ZLkLNKD=E-G8a`p%(V$54AMy>zT9iuJ$posZj
fJ#+pbF$UQ@qMU$m3<nfZkw53M7_oilGtl4F28BVMYWUr+i&NMGAwjN2jM>AHwkM+1JIt-;54M;X`ux
uj%1GA4iaoh9*E@C3sG5t=;4j?-yli{n6;3Zf9H29}#_w;BQCa*B?iJtB?))C&=eSJA1p43jCV!^%^3
vw`+1tup&h!-1a&tVXmp9YVvcEOWI1FyDrT`#>E<<w!wNlHsyi<dF>q)V$^0-Hvyah<cgO$(1H?e0+<
QKSK?HHGf9~vi<VdpbkY(_NpFPO0~n*ec1KCUawtzo9#g)wB^XAiJC;J$zc#Y<dE!;nI;to%YDVHLel
fHL6)wk^dt@>p0aJl1MAv1GmCu!KRFT=i-TdZb0JKFI%D!iUv;Md_nd9Y3<J;R>6EemqKml$Rr`l)zs
$&eUWIa}QLZx-}-z}z^t12-)n=wUgdg`of8C~i0nq9r@HQdhCIL)~P77qAhN=mgFTRo3z%~1Br^>mS?
0K6o+CrSB&Y9hBQju{0ONT3Gr+6$tVjkWt2N_+%$J$4?4BX>ktk}<F~olOG1ZG(cV=6MBKWh4Z%$=ar
bm}$~0h^`_|MW|{d{_aFcacW>CmBcI#Z~>LO)YXAex`42g%OzQ2U5POL%))6%*%)b(Oc!mOnkQ%^mP=
S!^zsFzMZa;FffAXNrOrTJ<G4}4qGWrp+9Cl|%LLkVhbC*(XUd?W;@c-$1L-=5YZT+`(5_RY0IopSvx
XI`WI47uyub-f@_KHQJX0HJX}>j4O=*Ho4#t28pczzR-&0Do_S;J$o;6djayzxn4Ypn6TO7oq+hksK=
M_MlP@h8Hq+(5Qagm_5U2W%?HRAWyL;TfE_V{LgJHLykS662wv>0P;O$;MPWE2hPp5I))dw=IBO4GMj
owyYk#JITpH~?_{>E`3~Y7oGP{8<d#eT>hqrn3(Y!cuQZs-1;-J*0m#zu2w~FNbvB-OT6L+qL!UA^k7
&tE*4<+X2k`VedcBhn)XBAJYCfeK)_pn{EfN0z(+HFVle#;M*bX`}dc30}en0zYI?vBtS=fNaG4gtw|
Bj|M3cKB3*S~MFWxyV!`_zku+fjv9!dFXofw5a7JWDJY>@=LHj)45z7*55YEc%h=@!ZghPQHu{0}Rn}
;uhV0a$VsZCG%kYuOYr1jgi$<y9mo3yT9n>_8I+NAY6waEh*tWDPYR&DAyzqK}L?QU)I0ETOm#_(#B2
QW~Zw6<THx)Iz~o9yJZYm-qQ(%4p;`e^ey`TA>9mqa@v_0*<5O6`c&SDShXwj*A*HucbLN37o3)K9)0
5xcdihl)F5_0*;wV)lal;WxOrg$j2&uBzJBcKd6aSZ`lzc0B+ULvvf5aM_csN{B+!->YW!kM3dER-t8
H%9Yc?S2os7dCvfKd#n#|E61Cs!`*rhAU64?-w%Uz5RvdG8o6!)0`7}ihC93C<~-UF7`+-9um5*_=|;
YHLf!q&J*w!<;&b*Lw~Zib&xySQDSMcuH+~7*=u-t}|2uGcSnc0n^JneSr-;>Yq1kcPP|iuAZ){o$sg
G}u>POn%No%HJE>n*`c#6JG6rP9My`6LTI9|fe6QUqOFHYJql?ZTyGCWt)5Mx;+EbQebMjy7X8H*7qG
!ZaHM+T`!t+E;qGr|Ki#IxXKA;VEyymlX~@sIunht4T8zIDms=rml39JjrUz~|)e_+qCNe$WbMApW>R
"%text.

(** Lines 1665 to 1814. *)
Definition DATA_10 : text := "HaEt#f?^EQM>$AA_Kc^j`Z#vibTzsaPrxob_>Rrf&|<Yl=$oe|+dU1}a1Yy<-aA6ebSr`M4Bjt;E!L~
D$Y}^U6BZ-X!g+<Ozd%Chs!EPE(+h-gh62XsnF@n9fk&v9RhCnOVjO{)J!y}Pzy11*xcjcQ&0hSKgvZ
fPt?zf{6|+5O+g?=ftP2wm`0sr1;{VHsb<h=R*^ZUIBcThv3p72SUA&5f(ef8(^VUs=hI_q?>L(K(i2
JVSK%-6*?B0OXGX8OCzdv{~7whA-Nk`*BV?A!w1C?6+;izBELN{{9XZ?cqkZ)odoccs|(mtT=PF`h9c
!2s5IXEy#-g@5Ri5J?cC!->fG?uBLH7mg_{1*3`F`Xek3=WZJjQ)=UV6D+__N&#U;4;%+><&rtBzayc
+G_%KO-3cIRIDw3$`F$)TMQ92PZYE#EkjscbbQk6lPM^bMMTcw?}ERuh|J&$xDRs*Npk@=*g3bfeney
gkiQ30umcjD9I{bFf^&PPZ)SJ{Xh(R1_J)W0?vDrS%VTe>Y@CwCuccHW4m1>_?kb24O>ZZ+rLQrcJ^v
4VjqR@VN`9tQ9-+ePTkHTHdn$W-fv&-;j>fOtE(h>4tfeDPBHn`j`TXj&RmWW}etPp$H@o*?fjq<y-s
~9~(@eptrw4@q!(NJ-PZXSCgX+li;T$(Owf2Iu0NVVr(En!zKhyMSo_H2)t-8o(9gm}vEvtu{gBq)<0
>@65W!Dm%tiAsLP)h>@6aWAK2mtey7Dw)4%f<=<002D(001HY003}la4%nWWo~3|axY_VY;SU5ZDB8I
ZfSIBVQgu0WiD`ejZ{r<+b|5h`&SUyp*D~jTXP%W!<J>(hM|`h+hH97wWebMieymovi$o|@|Wy%O$`L
G`0@BiKI;u^OmiZ+uN{0dTDV$h_#((DJi*P|ck3KJ-hG1g^+t)-A}INU+Tsc<B7Fb4+1}o5p^^&oL>?
ML4ur$M(hVnjvPn{rIY2J7mChWcUf)3P{lKPs^V6G>Br!~5XI*Jp2ZhhfyTj-}qRGLBBsr338Z4j9ih
SpZ9m`#5G_vQjP!^d%i4_o9bUUF`n!QhepNM1{QOxovvd@)Tx>U5z1XmGYSMX%?A0$`Yaxos9BiZ!to
?>xNEpn+)OIDzb3w98?<lia%H3E)MJ<9K%p?^q7Ue6DqTHF#DO0NQVpy1Og-kh^=l&<!uU|fv^g7%^Q
Ro2ztEAuE6%*VQd`6vgb)2u;S@EuKb&KBd{!HZ02ii<Fc^Q4C{Zop(8p*X~gSWaaH(ZGC8wjk`)@Dkx
pEiV)9V$PB-6Xv*A5RR7-Nj26;WS-b{MpoutT8EU563rGNgYy0Id-0YS<lAeCtHj?U&&wB`&uq55D0&
Id5B$FX-Rz?1@l#wdS_tGasd>UPFt4Mw(0|7+-fs7Id9kxjmg4i3;>)H7ok?oAOXh`&Ww~N}n-)JdPP
wg3tIC}}rqLY|`VK|Mo;fxcLJXm6N%tW<g?~^>0|XQR000O8^OY7yv#FkMF9iSq0TciL9RL6TaA|NaU
v_0~WN&gWV{dG4a$#*@FL!BfGcqo4dCgaCZ=*&K{_bC~N^~_`3Chd2sQKVHPUFgFN5-e*bUGmnL!ia1
wY$XeRsHXsWic!^kh4yeiXtn_JoC!T?CdES()E_bFOeXB(9{!=my!pMi3GOf^8Dh;Cb!NVxjGvrUdDk
Wu@5N+i*Nuk84pKOXGFp{0lU{bB_X3LvWe5B$H9(z&f;$Nc|mT-*~Nu?8O`VU%Vn=8*!H?d@QGJz$^`
Mnb`3nI<Vw{0jys8$%wyXL^#Wiy2#o|ug4${<Ly6f>ae6nIm~HA%Seb)2AJ&2x10h(v%mj=Wqs$`X9G
AbC*L8bSnnF%-Kn!WhX#xv)6Qu@(B;INnc;usdt<aEgxNh@hxn&Sq#1Sm>MaD3*zUxOGI`KFgPZy(kF
P9w7X7fALy>s1mbBbd6iN`rYrp|0Ka-HFPG@81%pYQKSb9X$wpBbh0A{zOeoSg8SOyX3k^=WEHHd0H3
8^(|X+(olrOQL*?lVIb--{Hhkewo$*dzdj!*(2q#h-umi+?09ah$(}6YQl1cpEaNx9q4=-OeXGpG+Z?
J@X33NSJ_HQwfOt3{4aozxGtu|bqx+lsHI9i3^0Ew=^GyctMkw7lMlqG$;wBnv{l;dFIMgK`2bw<>uJ
;k_ZY1zv;?<7c6qfIbiGfSKq&TUw^Rta+NaLt2x$-G;9F?19P;Ynn5xR%-$6Jcc<`_jLA3(5r2QAL6q
2h;TW22%*dBXPji*<0Sx9%X<WyOFYY=9@B~EX^hr#r2GOAoFhJoWVfb=#CLtx`Hq|J`DfZtR0P7unas
<?{@Vzf^Nb3f!Z!wm_zoy{gi`0cZBKlT=6r<x<9u1%3zd~N!FG`M=xbw*c*b}KqEzI=qW#I>imJFxpW
Nea1HCf1o4;<@Ab0@$D-whr{W>W+-CH~~AmbT1Qnx!2+K67O>I$ZU0$c{}($Wj|l+|8>TW@0&%8>*Q1
SG?0)%v*0@^nLG}i#k{4@m4Z%3qkP0m<$ssT)#iF#KLrd$)wTz<(>B16TEPBMM&x$UK3)x6JHT7Had1
=EsFsgtcit6#el4-p?&9-hjEIg6&@8b$^L^kl+>Uu)-(QqvOYN$LG-g)%ip5A$t591eZ55|QJS6fX<1
B2o4RT}WsM6i!PJKY?{;UfcN(X;tT-+>Jrtiz^YV7A-WPIFFs$86saY#f26*%UEW`fX=FfV;U*8)mXD
xx@ju}iTyECuW@<hL7gPAIEL&pD}S9n}mEa;Hg%f@+cC{noIrH934PY_bG&h@79viyP)*6XA`H45rRl
25_Osc3tYyCh)cfUr0&g&DxqZIlL@#Vr;E9vyxMZg}^<?r564fxv=!u@!ixjrIggOQ49YyhK;;h^*P}
_qj+mu>&I}}2Mn!ubU@LF<%U}mK8OSz|MdoS$|d?8<a2?PyS0|mIq+-+SR8ESq05ZQF2&sbWP|J#eAy
xUZfV`pen#s3qAsZkq%R`ERbF^Z96Pm810vLEZ^$1T@ERI`p^X=1K%d<C8D%JXg-f%QyJ4{qkRF21^%
k8{JhDaP3H-t8#y_+ioJqq$UO;*M8m}C+1YqLS!^@N1G(S6*iRJ;?kh9%X)%-skt{T&R^^y!aK340nZ
U0#Pe!oi(i3*05PkH@LiSulOOnGTTCZ#M;ePoeee3=aXRD2Q>Z5&k`UVXc&mK;NJ{>SyPYr&3$Hr7TN
@DCM8(@86L9Ye@p?b|jSnfXps0DJ!eP)h>@6aWAK2mtey7Dtq_Cm|~Z003kb0018V003}la4%nWWo~3
|axY_VY;SU5ZDB8WX>N37a&0bfdF@wQkJ>mCe&<&l326sfCW4u6w_1rx3`3{Wox%zjweu8(#6VhOBgZ
Mjsy}{xOJaw>K)18nhvfwy`}o}aozG4k`gFZz@nXs010?}p1_a&*jAOKgi+1PIgR99kT%PxFkR}Ll93
qmS79<G4-EDs`oD5(dW8~H5jIO|gc(taC!zLz|7qwcg4r*SAAtm0j7UCdD;8RTc6jRoqvo9#*&EIPve
ph$B{vYDM3vDCc4?xKsCEtt(gQ1cyl-z&l4fXn^lE;H<(DExKf9%~1hSQ#qe^v6s;O=hpNv^-n>^*4x
-wp&i;aiN{K!>C8$KD+{KN0j}yA5@S;uUc8$XjYO3&O7pMpF{$l*YF=@23?z--w+veGX4-_OC>hZpNe
g;kDWP#&v7VSeuJvriiVIT$I%a&B6C$5_8{gBnZz<lJX}-&leg&in;KmPSv|XyiZ9&F`9%7A##<@=ZM
{sIc;c#$@F@3KW%!O9_K8cr5q)$$pmpf5Nk=p@zAVx?9VAf!n>Z7!X7=Da;_(ZJ$i{e(p*tVMJ*OiY*
sNC;wd9m6!6k=1uvlUI-e=obn|V&w*aSTr_Lr#wFtimP`b+|yM|tW`xag`E3~rQGAoS?!k)q2cPPzRf
NB;YGo*sX*n~`pFdZSrx<g8KVn6OcrB<ks(@@&ol6LN0mclreL*=t2*hc`n`!2wefr^0CgcVV&_d}e3
+*d5fpMxbEVAY4=tO&y@1lOWn_wU_ub@x}GNFX0s6_BTGDj<g^S3seqvI0(**sW8IH)rKXDq!L3M~k6
Mn`)@BDaXMI=y)ni;1YmC3wzqBV(o<RElr(-M*k5>D8=d|^pZ)UV6CF(#9bb#;B8j6jpv?S!@K(i<8i
KGCi6RBDlVOz=No#jNwDd%>Y64ok0~)V(5hCt+4?aTjoIu)n|{g?%KkKab7OV5LZN!I2slP`lR!u*i(
>J{K?ww+x!dQnAVE>f+9HhZ<mcK4^tcw6X969)+uMoW`wTC$7mG9h;Le-tBwH?_ML8{3EEA6bPF~DP?
9^}1RzN5R;fNu^@fJ7}jUJN)@FmK3i*}=OLbEBMV0y)Ktyw3RqcM-Y>FDaT|7DE2XPARD3(>-<DSQxp
NfU0${@8-;p=v)*4hL&$;GZk&cv0kAyBap~WCk`u;jwvYwRU`DQ>GwA5fKxu;U}tRO$}ExLf!VED%PP
5$&#ixf)JyC>G!w<qdpVh3W<P3kJ7msY7d@eqH~mq8Ct}INUZNQbm1D(j(N;7-In5t75!%0Zgg6m=ce
B<nZ+j%q?M8YkjjIks~KW4^>7)8rsqNk5ys-0Az85`C%{ZuD?Cdb@u6T2Rs<nq5ez(u|3U&&FC6)y<a
xi>8B%Yp%&RHqx=iTWy;e5-xIY9J!m0tPS3cVZB0&mW@kv#BG71#=>h>rc?zwe}KsohQ8^|rC!kt&;Q
WZz%KpYwX{n2QA-4K1%ZXOduwMT?4pBF#dXP&nOh<S|hZchpOd<iogkgrLJoZg8I2I-@euT$R7K$O$d
8Jx9BF|@4k?M@(cBX3#F1q$S6iF&c<Z&e7wP(2kEc>7cwyDy*ebL_aF_Mbo<gd3a0HtISi2t_DzG>_z
Q!BWs^?$9-k33^VlmiB)FRhP}|Cu&#ozs1JSNHz{3o}WT{C(z9vnth58o`~f~iRd3iqbv14IaLJZe3I
~(=bx`?Y|+8aH=)wiTD89cP)h>@6aWAK2mtey7Ds~_d-q)d002b-0018V003}la4%nWWo~3|axY|Qb9
8KJVlQ7`X>MtBUtcb8d4*BIZo)7Oz2_?|aiE<>1!#w<5|?#MLqaf7wrdqyx6Rfjm1{Qm`?;k|+?GRPz
dS!bCnK2LO(1odu|)_+&L@u@qDE>2k!#Lmiju*Le3(yX^NDN^@L{YzL##hd69{c>QnW2*zz(=Xcsq0H
EW|G7A591^?r1a3MlcDGKubT%WDZAmk`;tlqvcL3Muhb$T5jTHz$XT6Gl;gE{ciR2zTfWR4iug;b>oP
kaz!D=l}eItq*hua2`ped4d%gYtW;X*wuNWYa%B$7Q;JPz!~2W;P=TyQSV}RSFKJG$zDmQ;X>+WqS8-
DzDeTK()!!_M9EC7~hICQu5Ui8&#7!@CF>q7t4Z6XQ4-UGOVGd=FdM#G@JrJgjGC#cdyQN`m_+L^=s2
SHT{pzVg>5iZhK;CHMEGpHxksn!H#|;YPb&q*TVs(v4;t!-iXW4a#+kt#v{Q^)+0|XQR000O8^OY7yx
xzwfPbvTa)SdtU9RL6TaA|NaUv_0~WN&gWWNCABY-wUIV{dJ6VRSBVdF_2$d)qj&;Cp@rjyyS{9GQuo
nZ9^Oy_0sFY44=toY?8^J&s3Bi<HeaMXGtRqsivKZ(RTo06|GfPk(!6zvG8Q5`jXYs!%r+z#Xx-yC-H
voaWbuqN(S5U*Rtgb{_1Aqhh%#)9agB1V<xr@MQn#9{lr1@k5$ND{&V6k}gAN_A;F%d6mSXE<}Bkh}W
z7rpU!vF|Y5VG7&F|CXb^!h2P*qQi=%1%j+_|YU%>MU6)C+Nb(wCoh6BQd2)38>g+hI-`66_V{vr)>i
o^gw{Oo+-<;u((C)#!EEZxqoi}w;Cex`%7t5lA=2umbHFYxO?++fx--}9pDiigoT2=6Tj{k>uNm&7Y(
=?wK7f&w5pT*NdA$G*FjII~ap~wqB85%th@JC~x0si^*$*CGyeWw-`eVNv)Wm1WWxQeQTe;U){I(c8y
LwMHYDG)zt0dpq_^+lQ`=h!f+#2h|TFKR0rOs7{(n$>9zG=MhpOJz1WD)M=H{W>ZuBz=Xnhwn@J-VPg
1ucFy4bx`!VY3ej<TQp@xoz!#neT<))y#4%3k>>QFT4rf2AJb<GSe9NXPyu``6QEFX2OxfJikfCTrB4
7LS0BpkU>Vgnd9+BFl)gXJ;sBbDar!j~*LhK#-N0DKWm%MCLFgbcM-K>2oXmOLpc)-&$RHhQ1>~%wd<
IX(id#k#VmI)y3X>ck1w&dx!;x+Q6Kl#`P6og~Fqy-2IB*Gbpegev`LzMzp}7~!1PJ@~%}Y6n@6OL(^
T%FVP@8X~DxE!R>YMLiIc16L`8ukq`=X4$zuwgU%<5--d6UFxnapbSV?Q7i&3KAaNXn5(f}6SqW?Y#+
y<cSIa_0Q_A5GGbSp13~T8e#l{{2fS-Lhr-i#^UF13^gZ6)>AuNEzM3l3zA8Fi?MPA*Xdx)<u!&<(R@
6ta%mjr_F8WQC1~w2l~nqFl_+AWm#Oq;IE22(Q-(#i4TLDqN)v98w>{RvmyR_akxY-#+QG=rtl3$z8s
Fk-rhIDZZI5+q1h$`U>fjsR$N6{i;=kiS~Sy&@U&&WRjcN&=G@98oE3{DXs=-S_aNLI{RRK|!%!{+{9
8oz>;{_ZZXx}`^EZ*9pAXfNqHp1KSv1RFe=H6<YYx#J3xx9EK>~!|pwrW08*L6>yJ{SM^ualYCMTyqm
eF#l#ipyoeOkMtrTeuqtdr2v%)tiLtc6JG+BK_|{!IPb(dm{hb<rwWdzpx_60;P(spGcL@9NLe^BY_L
Rz+xl`KRbZ`PWs8CjAoB?yXu=>fW#cKJ(^k*AP@Gv_bjvC|ieB(8x4OmPR%Jc~!KdnNj1iWNx9FL(<J
DEHOfJt*+jrr%hc;typbOl-7Pwm#f3Je^q6wC#jSvY7CM=aRiV-lh2|$VbUh=XUVb_C)AvNI_%RavkU
~Q10nb!${PM?sCLxS4_a4b8s`-vFl9X$=d8sTr$zLBdJj@Fi^{l~?Ar$7d+Y$}N<_06$TWTexBShEBk
{%l!JlBUf^ecI{zdr5@M)`oQ7#T2KPD=MX;RO_qP%{LY<OJGXV`T|_T1y1#*oG&YE+OHm!`_ji(16FZ
8W5Me$g63?p{*=I1fps1jEp9qq1aPFACHWWwMA;3M3}n2R!z%{Iq{~*#gu=f`+O)*rFx}(7Qv+u(VCT
vFU3gz9UYm3cQe={V%`%>dB#q?us-9j^!y#MHFDWlkyJ2A#t?=H0Mo)^j{Q?b=-k4Dar*HCq1q}`!Gi
-!azufXQFCK5Tq3Xg=HCCWodPj#15Qgk)^Yhh!zEmb9VL;#W<s2isG#b%tdhzky%=!6kLHL;s7X<s48
-Ro`~5^0hot2qoNedN=Jk{T5SM=19Zz*1|id2%-W9P`KvR5@_Q%-;t`CyEJ3VCh7+&@h9m)8n<cEF1<
XjyAZ`-(kBb(lD_A{jlJW(Dl)?1NU?e6Jy@1qj=Eyzk1HLv_pj{SXKQvmOLy#*q;n{bmZ(lwauTIZJR
71lh5t{v(2-HGSK`UfHjOuKjq9)A6{Y^T%F#uxJtR-P~6P3{n^%c5JB`^R~qR67FBohU+ELnQ64+`}j
N;N+YP4Xy#$Eky~yK?;FO_Jm9=+#A9@=$Kmx=OP77-fd$LBr>;@Nsr45f^oqRFwlxi>~!MDufVypF9q
R7k>{g9~rAI$qXz*5OG+)_i23-4BzK_d*H-^<<mUtK6WRxk%dn~r^jz%qXX+6_>%PT5lEaYu97$g2sj
0h0AS#=J;_rS)?4*pj?GdSxXfueM_Kw001+3c|7bDwlN-G5q?$#`Bv2$CnWV20mwu-xTK6eBiYOME^|
@xbbcDwu39mzOe}BLGDWijfvCJX}qs!sDU5rLh9zY9Q>oAIAA|k7JRGvz(AoxzNbI_#1(lWa5ykPx_%
S#)G!z~cRP9_r2$_`op-)BQqS;KeXFhmbJKu9D0=|6{PkiwI{zB+w#eDv(>xD$jxV<VhFu8j;!Z#x_T
YRuNw+ot`8q)g{4T>Z7!#fG~gfZ4_g<{e_B002Ypi3f(Cu2#A~7>BcBcAM1Uby9<#EfGL48fiu&*>}~
zyI_KFK^=Ux{}tun)aq&{*JLOiz>j&6p+=3z;LCzz^ctB63#O8fQB8v{0!|a-Xb#d+-8C_|X2|%&U?#
;pO0x#2EKYM+&H$_eaX^IUO-^gwp?QU)q8AjJ^mB~|QoykrWbRrAEf}!Q1ANf4YjGSqd=oiXF4U6)3t
s1MfHt}!J|Iy1hN)195=k+LBqasE3Chv&oAc@E>+_S-SI=G|Ao}6W@qfHMd2{@H(2AgRBOR}-0<|)s>
7XzKL(q`FfX;lD)vus22y|fR3S`-BvKos!BnvJt=<ehI=GcM^4On@{)W`;oM@zuGf^PAHxY>E6W~CN0
0UNpORjph_hiYHW7^SSpvlZy-1b7mo8YjyNa+{(MiTKqS(nNp;Dpw95B!xve>p9X59xFG<qBN7ZJ7*8
An=3zQcEnFV{nT~xal!J^AlnZf)eJ=z!bI|@I#{;g77erq53zwY7kb+mY-R_Iq{WY(Z2wtYSARX+SAU
zO07A$>wHkqAzwcY^9p`qS7xhEmN*u&RQsqPG9H|uxw)$b!ZTwIKZQO=NkL|}IS_bF=kM$%*qfy5*GL
Z+O{~p*sEH~h+Fn|zit^d%64J;vGPg#H;i$OpuH>kBd=-CSj;`Jm0y?URJooVuTfVR_)-mMLjGYWvPZ
?yzx1Fa!uNWdLP{IUCn;9d0%3c|}a$olg$agF&KSZ6cUfz~pqlSPx&DImp*x*}5{qcLTuy+A1sFa<BD
o=yXH$#-{e@1yd%a`zwLVK|+}=?t2N%`yg32eM^{T%15u^x{b5QwXzz&5Rh6p~^kKr!q5uxD)7LwgAU
q0S?NfsKOW1)4z%TBjD3d@M%mLya^_0ZMyz7y#u;MBrV{4aQ`v+A(43f?EE|JiAom>^&P@;0xQg+f>T
tfjmc|*i@?ySpsh*(HbzlIBv56Tx*t4^78WLM4S(flgz_`aGXnO~2%Y(b;%7w4ZpGeh1z$BR&>aPCAK
j&8k&~SmAYOwJVKxI}4WfedFH;C1a`qH}I-szTpGj02c;bi#o~A(Uh$A#}>_A468aOXCMns;K3{nVFu
r8R*B$}BK@Uu8hIU-TUlcD~M;C^QM;TW6@ElMzH5t>@@BlzXTePw`BO)&F^Suh$G=)uS^@X%fq{Afy#
f_cvJG4iGW0)Rv$N#3VbT|w&+$&ntQ?e8@-*cPXvz@!!6i%_hv<piWX8J0@IA}Nf_CrtxNQH@1b6t@^
$H%s{lNLWTFcveOr!Z>D*OlRv(a&HhT1V<*tEXyow;zSY(+m=ZN3-d0K(q;giHNZ`Xb`7pjC>K7iW@W
l;B{H4s2}4^BOcwE|<Mr8`&`aH8*CjikiH}RP{bi0$^z-gF(UXaP!Hn@|kPvLsaR>27uZZZqHv>FPos
*D~5LL1qStw%J00gu(Y8W)ngZngpdNA;Ln;p7~I=V%1hp!2&=viVcjnE~s6h8n0{n01v&O~7zrg?>7-
IH<K!@!y`LQ)<7bWV#jLH0$6P$8FbA0h}I!xTU10Ul6)Fc^7=W{-{q9;|0g1!QI$3Vxcr2j3NAMq&vJ
o#a@eQFXI8Fp>K-%S426DEO~9nd*i%(b96(q&3@N9&WHCO9lEM8MvTe8AD_AkQkvc2M0B7i;#Mw?ZiS
QN?^^4n@BFSPIN%cy4-{r;zChLNFZg*X)Tzc`f)_g15#UZ8$SA?g*4;H4&Yr{PrLq^+g>~(_}y_@K;9
%#E>n<7@++|_8Xy_EluQc@yDO2Uw~3ZCq)!42f~K9cSyZzGRLy*zzLz-zV9u<;oHvlWD#R}snviWMNQ
Hnc*-IVL+Qeu>-6X+Sw*o=6L)zZ8l*6p>;Y6!I`~_3d0j(y7pSU_z7mU|nye{SO*D#9XK(_4K8bk>QO
QcA7QB?luh<y7NIf^F$<XCn0+p&(amRm`FZLR*KhRn^V(NftDcEo?C%NK-oCF{CSp1^I3t~u9z5Pr#-
A*2+2|Kb6cZ~Y@(@_gA9Re-=z_!g)wzfy_TO;km7T?WSQ5KB#`n3OH2)8VM!T~$yg7SL9<doVeEUpvU
iUmh6ILHlc9H!?`-@#3)@Y#R?A+vy(-HO?UA+zF=N_rWKfUhmCt0{ng|dGld2%L)*ASAAQB6|gi(qX~
{5Fc>IiWb9(vJ|L}(!C!O@^KmF=lFduAf6)mlRB%gQp@ETDZ}f(2w#74C)7M7_Lk>x{+>lSZDN?@K1W
xU}!cW=R#`$@H1a=_zhVhGJyr#BKR^-yQm7+F`&`H$}U$0)ThNN8EN=>gka7)LFWqmmj!(XDiXz1_vz
X%Vjr!khb`E&w)52NjFK`CHH3s-3lkJN*fLv1xGm;8JRANndcHLP}+8F)vu%{$Q_)kv5vQ9=LOk!D4f
@!p!ww;U;0S}qiH%$OJyk`yq?DdG88_qX#D71vU-nN#27Bi`;%kNBIK$+McPijxgFjH!f)ayTJYgC|Q
icU9FWiTq3|2eh4L2au)3)vPjP2_NH#=zt7S)@L>I-u9vFW}rq2R2#exHEb!UCLAC}PM*}RNL3BMrmV
nA^$VnGWTzLsP;^DxdPu6&)u76_o!sU$Ayzc2{T1@^8GX!lU~wIJ3J<G+c(^t_jCi&r0z*lO=IO{JB#
XzV5OPZrY(dN|SQ1M7{;LwwNwgNXNuK^gyGe0U!;n*j`6nwbocc^_l5bDHpT0eR@f9aXnx&~6OXWPkl
Qfx@iM>NRU<57>CztQ4-QZ&H-F<lZXf!ZHVG0X;ir#mW(e#3%Os^4j+hCn6QZPb5L8m!dA2t0loP~B;
?Uc5VFmQ>kil*kB$+U!^W&fZp126&>7#9_oMB(Ca|KL&wgle07FvW;^Z(t=dsN+NosK$JNe1>04`@~P
6msjp&KNliQE*N0aDBs)1LDQ<(`|7JdecgUj52+~QoeA0*U&Gn60qr@E0K*;>jlo^xp$OKp)e*s<Ork
hT-F&kCjL8_c%Sdk`V+hm8b1dA76A?=BQwpHEDVnTJV#y6N?m~tsQeI6}H03Pe#IX=3D8;`vX^G1-hh
`;}HDC&xQEp2`Q_f9SD0lbK3S$ubuH+9errn09E=nWQdm`OYw7(iCV6%wcr;BDmX_fnQCiCb<;#|)UC
!)axQKkL1kxad3DTp*xrK|)(uLPBM(7_W@cIXq|Pys>|!!&H{n530GCMy<9-&2hZX2JlzJco1z&+vdy
uG?#PtO;;rxy6aaIS|e#%e^NDUpz&E&!ImhU=a*YK=mrscy&v43{m5>qSHt~BXPC@fAl>UBM@P6zlJI
j7`QbJ2^eGG+~DI~l%-q<R3*r2QrZ@1fb|MbyO3<9_S69y?Rm90^4XHTD!rz<Ewz1Q(it-nEncZXAIc
Cg%jJdy(pnx@X{V@R`WBEj2<lIn4N}M~b6`L)bb&b5Hk4i$tq+)$lm%i;i4ySOg)ZtPpsg2Y^-vR>sQ
Fo;8Dcsu%4t;>%fL}Xof+bvTrFybPS7Z4b_UQ+YFw9{_{4y5H5}S;;ylgcDa%jbsIFdocEoe3Y$^dZb
MLEA9H+80FrlT%qS(?0lv5TlYTcUj9bJ>iC6}pEb0`qY23E_nv!jy}+K$4iKv^k3BYS{hDXU_DLZDkw
fLKmtTsWa`${XsOpfZU3mJeX@^gSYke~Sts4%G4kq!(#LmAF1~bT^^Xc`J!>C#$;;VGlO^@R3q@AO5Z
UI1ITGD}YC14XK-!V{KsQ0_@;q>s4NS(z-q&3JmD@z#yPED=GW-N}{!3h{Ww;>bOf17?uHS7Ef~Qkg4
Rz1q!a0p)aXT4<}`I|0=nO?ou$Pz{o{9tE}7sW{E(V*G@^MB!tPxO-vj#`E6d@x2uLrl{>aa&%m2yUj
t8z$f5Y~aiGLRM+|G7bUzXCZyPyE=dBX;mS+*mI9Kv-T50xG9{nb!$N{%wOiRq6CgQRzuCiny4=WG7{
rXw62BN_p2JLdlpIYyse+MNs+9Md6Ot{be)xxG9av(8rjF#!bQw!4xSD}=fXf({|dD%GSYH}F*|KjPP
"%text.

(** Lines 1815 to 1964. *)
Definition DATA_11 : text := "y`kjVQyYJ&aHy-l5TCn`u?W#;yG<KNP~4!0m*YBu0c`4N?fuLOnruJm5N&R@0dE&}5AqD_^RXXGY>bi
os2B}*#0xAFDe^n4z5<l~UHp0P8}aYaV);KrQqMvsjK@PgDzN6<lP_{N!u0FZY3@5Te|UhW=7XnW@kc
3kP0r1MMD3|B2yoT!?k0?hmu}<W?#n>lL}~tgwET?pLkHIPyy*zgmU<0Z7LGb%<(_ePy-a2e5aJGv^O
6pEPVJvK6WBvyxw_mwsB<zZ7@G{kFm!Xx!=bG`&>y0JkdH0gVw6GH=-9T+JTX{Oc2SGG1rB4#&Umgup
nw;BsQh}Wh6(Ugss84z16h{SvdMFqdZm5YPAe)O<3qE)?H~0=)u<wkxy_i8HnhbM^lpM;7dj!(qOo!N
Q`5|^{tZyH#|uOFhxhtQEtrZGtVKbdnYR<D9jv}u2hl(bB3nE!(T|)Cai}!S<B1(bxW^CJu}slHLF7>
tj06?UT_v*!9~bCr6g7CJ(GskC)g)C1oMbM9ii;v{GQ7cKg6yMRUW)>>&#M{@ySTTI;$pS|47FGbgEO
CNfpC+xP@){{3Ln7R0L*GR9D`fv@$Z;361>eCZ5%o)(cEoSDl)M3o3W~3eT!$houDK2Ra?1=ThNsVKx
1(A$ASS=BTzRmIkR*P3yHwq;sqW8V=mmO=lyKjeY#7Ndm~+e2|2nGCZjz;1(z~3V698e>Tu>M#O6`WS
t#%tm(5j{&M31pGqNtah!L>mfn&kvFzJK~3{makAurBC5YV>dlc!f<4%onwW0XpkS`r)|((+^qDAQ~O
4Y0~KVud3UIc*SplJgZf5nA&5GOd$Jk*VSYU7TbI+a{_(Dwdd7&~>Zi188Ux0|Vosn`LkdiIEIln{on
eQaWV@m}_acTA`jM*FuuduBVmrw?lkRL|F_4H~S9Mb3E3fA>@(5ltdQm&}0fWe9$pJ=6Bk^M^q?tP}K
oV2RVN6;p1i7ZbwAfeYAq%L2Qz!q6#iV$|a6W5NP_Kn)GeB{4H6ri%)vg0Rk%l4;rokf;Lx@go}mbG`
dQ>*H-AOF9^y7jB#l_-@(No74=YBJK1>16{*sbM51?t6!ucoH2o;hS#=LivWTUnB@)2Kt!kFML)~1FY
NB&z5$1;Hn6xrF+r-5}Lrv7Nnu1$8?%=}2X^lSqMv<ZF?=ldgytVZv8C7M}<inzI-qj2ojpPK&q`^r^
-E|XHH>&I(t6B?~oZc*N$4xgCx?qFekzHu=2tu_^m}Ol?z6z9xuxwgV*?|mZJzI+>0`ztNi|gHv9LVI
Wtb;uK@B~DQWM(?mhWcahVgKVu$LSqu<@x*0-5B&U@uUG3V9|=$!Vvv_pi~viGCYWiSzanm-1XG+43C
uk(;8G(f=i``D^D89xZMCzKtpd{0LBflU#Ky0k#M**E0!xCJ%_K7`xY@iqsCr>L^6lx*ctseBoJPQ#y
dvyild7qU9;dtQ>p;Tr&bmKNJtogm)^=Qf-%rW(Os^{W5N&id;qQK>?X~mvw!HaTK(;C>FM)dqWroT@
(CU+tz9<NjT08wq%fvW3{uBh(fmbJ=9OT&t0DsUndHp=!$)(nrkG*L7zFDpYlh1Ri^Qu9^IJ1RE4k5~
AW51c`&JX^<rFX4s%!7$$wgneofHFB$`fwqLIkI0g9Y{4Md;QY!<TICw`-1hAHpZjX;Ho`HM}lmO%Ls
4KcebT2pEF1@vg!*$)dPR%&pjn)cgX(AT14E!NL)5EacEfQVWxA762E@VduI{ENe|F6uqhW?Wy&uKvq
?2s1**o#4*Ljt4Jl0cA>?tMG}*4DMThDOkFz7Wmj2wtS0^Wv<eJd|KH2k3|v}oeq?xrPt<(J==$EtNQ
G81=I0}@B|T0xDQkk=DFI3sOMO9EG`mTr`0JD_9X_>yv;zRIRk%Ut?y9+-%JXiC>*Jx*Sn_F}_UyzkT
(0c<d~6{8O$MjUgcK0|H0_7vC^kB@fLZZbOUv%wL))zAl!VghmPfM57U|B@5(3X8evaPzmIU9~5g$H$
P**(RPEQEj2Vaci+*z@B4DMOFOsdC!`tpk}zJB^x1m)MG2Rq_hRagqXfH80|l8FWK-OGl8RJHeW5dLu
t|NII6`2zp>l2+?-wOru^udmtb=f?053>clSshYHAeVFF6qFiD=15bm1<)uCCh+4@IIqb>I);C;v!lc
saK+4JLZyVFG1S)P8i`8^HfIZkuqbp>f>J3Z2`XNp3$9%zr{CooHmp*Pp%eW$psc&)wT^2K+^SlkInM
uh4ub?UMz#uLlDrLw1tw8RGXSj2BlVCa`W+#YZY*Ovu`EelQUWDZIkU@TB#=~P3TaB&ogcBXm$_3fp{
=%*}rw<6-y$G)qHamQqUhka>l~S%#yzPQ=+dz4<yDq7U_<5OJH(6A+$p<`B`Jgj7x_l?ov2C<8vlSM3
vNXS~I9(MN%~eJ<Qh2EZC9fR7bTW;G?=%&>lSjls4X2|Atewxn)k(6%zG_L{Y2iEvR~A-3(zoJl62K2
?+`6r>;2vv&c+)n@t_$Gc&0=JNJO=elXi*Un$Fo!urmDbzqt|pyxJ>Y3&5PG>j(-@7SI0k{kHz1P|Mz
9MJ_FUBYlt^wqNJos31iZSLY$@7d4$(LBZ3Zh9p|>oX+Dw!tiy{Ru^6wRONR7~HJ}iS1^g5{SFWifH;
hLIzO1!GMK|SDT9=67`V^MD;elL<?$s28wo~Fe)F&dNns4{mZxJ7hYpnH+hvH!icZ*UDDc5CD*vX(Rs
<oW%xX;S}U0k}&=x?W$&|H=CTl0n97l#-dT;RvC;D6C>U-k`*>v1AJeC#?h)2Tc~WeeK&G0d3cMKzdE
@NKkrMYf2|r$IUvtC9HgWb%zD;*0chva;Ea2Vps-${{DY{+tu2<WIErxGL)!kEBMb95q%)WLarAaB+F
EX01Eg*+{a=%(y=3k0Zk5AM@rQ1|glJtGCi;l{q4h#4`W;WD5VXs8W&wZl?F~#r|d6q6G)6R<YwnMtO
6Vk4~&-vaK7LZV_@y&dVo?^SYsz^DP*~b__~^^{Y#l@y{u<kDSMIWxy@U1|$DDb=XQa7!@oo(7cw?kh
+)eQC(+A!4jn_h`DOVLz^X8WgF9(Zz`*e)s_X_Zxts_3g4uH5s+JL5c(8TBV+!UC-0dj7UNXx)YF$au
KRZz;jb(Vy3h7GRA!KTE}26K)gm4_S&;SeiwFOdWbWHC2aL)1oWH6V#8%xEvcmgpsNKauSNi1u^mzZ$
oneXQyh`GAvozYsnW|rY(`=vo-m`sjxov0*)0DBP*!zZz171}pvnl9oqd(35H#FTM)SpY?*QsxoSd<W
Uc-;!&7Ed;07l+-sZJ`N2)7<IE+<d&HweD=(kZLn%-Jic2lWLw|*;v<E148RW5^^QD1#LSTx0$V2YA3
L4fuV~%X67~g!d{rZ#1Q!M^5n&-a<S%YL(t~~WH5vM!g@-#K5uruxbn+u#hg@)Z8$02=Is7&;I>4$I}
+*iHO5fsI;r>8wrQ=VU(y`yX+HNCOPa{-_Y9o#jUa@ar;Y5}tJ^I&jA3U2Y)WW^1GgqIbA1ErIeRh_7
IG`y=siT;%B2|u?(K1Ajy40#h%_$vlEGw24p}a}Efp?;Y|bb)+1s-h746;hC^mXVD@esy6kEaqC}MBE
p7y>yD_1J6o?(<)GY3+el)Xb;v^%QumO`a49o0<=xNm5FXpP)a2y3z6)*6@5W@O5B6xYuQB~HO}9UW%
Qh^HG^Ah%{aEHLcHnz1F>`^N6)3QfD;6KBiIWb%+?6OXt-FIpDMxasGjh^9iK=@8HxzWGd#Y<P@~UYK
6NTY3O^$&4Q8fyZjsR2-98df^y~lQ}$~n@lK~rB3yZ=~5tbPfkzn_z=DPThv|0Nb3%?8%mm}wax0oh1
Wup?bZN2B`bF<5BTW$6msRYpb03j$-&ar{U^D)!4gmY;1MyrQ>-#~KMz|JCA1f69h*=;CEIbZMYcn-b
tLb~QaO(UtfG*2&k29=zlBJf+6f-UT(LC5BuSw089R9rI?+wn*TK`zLX=C5+U$%7o~V)Sp{OEdLIb(R
eMfwcWxV(@oKhE+-6!xHmKayfV#(VAeByXOg=_XvCaz_hh@f*isAa`u;^T$tNq9MS-9GJ3EjeE9zs{D
F12**g(XC;ba5K;LZDw2oB*(<!rpm30_Km8R)aMWGy-cffRqvKl>{b$YL7}eGYs?!A^lYQ6tQXc1^9R
fbC04<e-tdwwFa?A%bX9_Mp^Kw3wI<j_RNj(I@I9!(`rTYrpQZZsg$%*%#W=nsoqab}F+zKw7rE#hR;
CLnt7VbX;S1jPb#<;RxzyXMfRA}v7Dbp=qj{B^xw$S+`EJx`hTGxWL6-I0np>SF%7OJiwF|PHq1Abu)
W{bhp*Kb|ecrFPBCbkm`TLf|cgR+wQ_EfW9ZUFb$1#M35TF$Zn~leW7;>vJi>?>3na*~-Uq`>Hm7-?2
?c}YZw6U0)<@9}X*L`&IW$8&XN%LYsJhZ=dliGMBW9lAwnD(7`Nat+_Al-ERc?VTvhX+lphgQD}1re#
azd5n8Hpn)IeF$2POtM{mq^tbKy*2UJ^<lZbGcORSOl?TLM<{S*_RPI2BylrKdUA5|{wvyN7irF=9CT
+gXqsg@yUnmH*XA6#(-U!V(R#+0wlD1%WU$3_M;uv$Qo8lB+RpEgQ!{Hn-(zJoTvpVand(THZq+MQ4r
9h5U_TYaS9kWRq`rPz);VILkZ3?*jHqt-dQer`*b~lq3K)M&eJG#c@@b3V@br0G%z1VJZCO=f&0crEl
Q(L($ckP+Ye7RJDPzUt*9IJ8+^rV@Zx@)iPZK5^EE}Gf#Bx)Q@US*f)AOvGekVt%+RlA_ziJgr*4XPR
$Y$-1+GK(|z(>Vm8I@^;*_Q%{z<%rLb9$`<RSQ&jX>9EtZ<G0JySLsZ)&=?s2=4MqFq@r%u5)ZGwEl~
cGkM|PXfnZ%ObXtjG1M3O>+I9YAG{>y{i+UOUCQUlTFR@tKcx!SLvNKGqk0WIw?dcWq(*Vjmz|6l9tr
Bp(F`zMrJk#moYZ?%0n4tatT^GVRBVgMI9T0Wm@)9pNmb%_Q)lpdf8IvnW2VrsK4AkU+}w*xTMN{OO>
eSBA!8)fK7l&a%ZrjONm3ZuMQK@aeT@~Je8r%?zALH{e$#YA*&@<?X)G(GKA|-5<oWTd^OF}R$8X$s$
6iEx|CnClzfbnQo?h<$LB4v)e4UapsP!i21psRy%l9!=R>>gUnc+M1W4sS&_=>Kz=Zi(uWe575V29#i
iN1&dSCW*D+cTD2taGG~YvXHNRA`3FMxOJ-FH{?f$|T13iOJ#g8z!o;geUj<SM>5hx{X>M2B(Xfu&|D
g-sxl_2T~FY-Xot#NZbz(bt@1RUr$O00LPTG<-(-8S>k=md=M-xCDyTogBM-Fa9o%|uSSd1+ruikiLK
tPW(=ubU{xk+bPdpWhe)>KfNw`WqB<o>G<9ta-9#P9cj&S_wnzTNO_9ZFcRZTaU@zP0x9wqSbl6p&t*
5I%tz(s%hrSZL!C>&rJe6<Sa(Pk|Z&q@Y^5!#S*0zSfgR`iOKr}R`7)tEiH|G#B<PBGv5h^)R!NBu*Q
qtXJ71EhDP;ny&YwuihsC#iy6{4~}q2Y;lB`CV4kROle$~v3=V}l<ru?A*iZV><4KIbUWz3-vIQA0kV
AxXKeA;)R(uTQ<YN31{Xe4E97f4BeU|Gy0X*W}I|-uLfjdieh7Jl}>@zXuOC(|;@4_tM=%b60sIq5)d
AHOiYdD^0bn8h)zQrdr_t*4qEts}}$4m7B)zCwu$rcy6`*XYhJkHvJdp!4?aY;0Lucin~PV`9Eci5~S
a6k^X<eIH%#(i-)=EhKuXpuXoNmt#!^RD3QmORg#M?q^*ht-N-v{GM)IcuQJtNj!s|wfUiw`{p|ew_{
}Tfy!7|)!T)^y=Vb|S-+zNK=jEf(;p4~nBcIj!CfptU!93OY<LR5{y}<BZ>UZ~#M)1F}2mJiBfB1Kyz
t735=f^+w_qs58y}NXVJNfI$ngQcS)_h1vr^=MjrS%`|>=&4ip*W=fRlA`rgTvYUnwr4>o+cm7WYUj`
SftlCU}vMeR^eCF8ZLhO61}jDa}HU0)%q{=3++&1wmqG3CMuXt`HANRD%NonmM-sWLO9Jaal<{?qpyR
d4%GUwFn~o-WOs=~z^!dD#UKCPaBCe!;|m9A$yD-o8=WVR2^qTaSjD_HmULBNxOO;s4R0mi=QRwS$_2
{nP52$;Xxg4^an?lLJ;)hN$uPVWDei9Yn6LB3LHtUJu)zBiLwrFuw)Zw$d-0aSN?p<<w~Xnv;NDJK7T
c=7ZD#vfxTxF7u#NR_-62BVW-RI}!SB9MFUbi;csRJz6w6P|6xb16TBXESJjAqD#anQ&JV#wb?{Gr}P
fg)24t}Z2XqMnhOX#i#LZv%9O1(K{{)VEF%f@%z0Lb!lxj(M8mwLe#f&ev+Y0<iv6<O#CzPS&iR;cgf
h@sFv7Zm`p0hOxu?xif$A~H>m%xPk$j=!<!zh$-i%Ja85r3;NT;=^(P?De=Z{?ZtUH~x3Az(d->$Rk#
<?KeS7zI6<w@X2Mj`OXsbUM=D=!R<WeEggL1Ux}JzhRN-vm`S<*g^d%4H=&Jx8!n?&m|2E>BW|1VqZT
n9JGXFL-@e_m4=ry&;)Aiv`VsMuDFbcS54N5z>Tj*`HvjNFe;^`+BOZz>>CFjwgU6ob)d~TX5aRYo)^
iP_e=7O<iO^(N>FT<`?Qq^esr3xrZk-WwYbo8`<>;z_&6Sq=Z}<?C?Q$zbz4Dy|*-2Iq{_REcbh5&yi
(_}ke+#W^eV3k_+5w@xV(Yc!7-xmOn;Z}VIcU)vTIi@9?|v9zXq3?r0J>fw6lc;~qdg6L?;^b_#PJ!`
3sG0bzJ<Fdg3g?|FQU7|#d=3hu4rRhT5`m8XL+x=+p4FsQ-#WoPwX)fy0zCKHe2bs+jY2NnA?Y|lf&!
Bl`?+6Kdu~JBeL)OtEb!9O>*?lfs-P?eG*+9IKrTJV7WmF{%L#V#Lv<~^kCGl$>P>P#Z-&rZN-5&Y0D
vh9{N>X>t;zb-7uCmO&El)rpZ89_gUlItD9W_E&kktmW!J5@OAXbPx_6Lk^tQ_;PJdAAfC&$lrR7(=)
Ljl;$F}pDmRlD<qh&43cSU34=-}euts+t(HpHh&g+bE#Yh<A!(rgozRLxqUl%y@$l6RXQF-Ds8wP6d$
{8pe`q;W7j_CE)=zH_-eY<UMpNZu6Y|5RM-~ub(q=$N|jvHZ6s;VFCl7rjPWlxH57WiM`iPu8nEP4*6
(wpRTT{yMuFAT@ON(vSaJT@VCMa7rbj;bjsqV*>BZJlOmy=t!*mv4|!g#&Cyu|j~%Xh%Z4%4dTPulux
~CHVgrP)h>@6aWAK2mtey7DvvPfCGLm004Br0018V003}la4%nWWo~3|axY|Qb98KJVlQN2bYWs)b7d
}YdF_4ubK|&?=<oh3m~l;!a%9bZU&?pRoipRzo4TEkH=a%Qm3K;}B*^BPBDExCTgkis{q+aF0aEhpY%
W)KtYpU`fd<fMG`btzjl<;l=s20zi=w(dNjBZ`_z(Ez;PBuud0wx#O>uqGCE4>)^2KMLe{l@|`6_vTB
a*k<?xwDii+b7J=Z#3dtvA&o?~1ybK+OvwlJ8$WKYx93KItC1B(E09^Ea>GzkB(oAKt%tcY!aV+`*G4
Pu`xtO}_l6Z<1oQF2zbz9Rq<c2M5chUM17%a?@=ZF`Z(Wy6KWlRX~Tuv@AN&<YjwsAV19VR($i7`h{i
Yt@%}T;-M>xnR;`Rw>Q?$vcA3sB&eUYuDPz;;$fY4H|j;Z)!+VFtobk5*@^1oi=xH0&L8GtjRP7djcD
slGZ(EaIj>g$RF%Kz8fg6G8~O20G%eIpU#~?sZRa<DpK<a-)o#}KRxJL^rOunCZe+!k=yI5cT-AIfe~
*(_=kL#6oV`Dre*5zK^Vesu&Si~FSCp!Bw$7VYOdIjbrf6t3#>qT~h8NRyQ?EtSZN~|hsq&SW!n{spS
H}lQ_%tG4OvMAjZpX=e0~2O`KEL?$JNPad`tvXNu^Am4989NqS;B0eCYLFqu_<O7L}5Bk(m%lrzpUC0
N{EH~(QZHODU+n<*ViwrWj#>U{`3}RJ^cWELgEk&bV*Xl1ZL!WdY4TZ6;tT?`HyekynBD4F%0F?^>zU
OkL9Q*Key1}!Sgq-UY)&u5iJRHu>!oRq6aTtUc9Gr7f>imU%tM0fA;<N=kL<Ul)?btoj-r`?nO#}{hu
GsFW#TONd38iPZw`~c=!DL0?PTFhME`ue)bNkjkxibufKgWJ^%4N_Hja8EC7Shvx9k=w{0?gjuevBv!
BJh8=X*FxP0;7v!tbk%~X`E^7R_9mmtPk;tB>}f=jGTx;j}{GtfHV7Geqfps0#&I?Y;9E@g9e8GK$si
6SqHRzM?3fy7YF#RNGQ@T#Iss=8SLeQcAu63Mb|5&`{7{HdQrfn&Q9904HYZ~y7O#xX=*UyBMj6|7kJ
_APKMaiE7YFGb!AjpaEONV*$|!!bbYIz(d8A+n0DO$r`v0>kXYj!sXw!BN=n_?LmM=Zgh(d`vUe)BUr
>BFUX8#a`>-nBJZMU&&Wg@`Sb+zYa7PA6v1cvW)zy2A*1(QJpxnuU}v48XsU__#-Sw=mKoRSo2NUWmM
%>01LeQFq!}<i)ukHM|v&z6ck?-@5CB*1K_T(25>r)dg&59lPvNtAW$enBg?w&x|kEy!VW}zA5Dgr$C
zrKz6L5E1I&53fo)S<U!T%U_7NO#?ao;^3GEczjd4=bhDQBhkVuTBxX$O>gwTOIO8d+rqi(bA>KfkZL
5h((;D8Kh>WB<z>@fYC7RHbx#$a7blr@0cx+z3ENnS2#>f5!L7t2B{qWe*zF^5b5ATEN2Ei9cN(D%&-
+U;(N)}Z6QC`;H0>RVzR$i^BNV^c{i#9Nk+JI^qldjY`UUy!GOU7-j=lP=|=UW!+Pz`1p4T=F0_(kO!
pKTOrYv4c<o$K6u`Py+?5Uk6@6X7;CQXBfpkODMxds(e-w=ZW-&<stZHgrh8#OBJ^+LN+c4{O-W>xvi
YMNXr(KHVS2&+~wuQUP<x(Qz?e#e^P=~7It(TX?Emo9sG6Y2GSDCEkFitVCnk2H`pl{YJ5j9^QXUCc-
j`CTudD*AL`uy#p1RU0ITU4EUF2B&*)7rr?9~sCVvr0B><toDWG@rTU;aeBE1vPX#ta41FdKgJjqKGO
@Wio#5@N+04vUdMTNgFs?7tgqE4*ZBomYC34eGYW<_2-`(d`Jx(&>11HZa<ga`)V0+b;e(sorA)h(>@
n*sz35J_OA*H|)H7NtO*LK7pZyP~Npl(;7rwxQ#v$Um(qK#s#}zju>c7S)1;RXyGbznVhjDVEP@^KdE
wx@5g5Qz6O)6$+3doDbLzSENR=G!5V)Uv3iUH~ldw+9^WH3lJ>!Z3H(-zyxVMSu@cCbK4?8uId`xn5a
$&-tR6I9|gtiUN;kiZ&8IHdwVSbMc6BD8PxIwM2PmjfElqR?NPiDrQ1yv6IY7q<mbAmcqkF2ARHY&tZ
jJMa9W7hlbGS^@qRi885{{TuN2e_*8@mPrwn<Lw^La4B41^ro~=Cc@HTLo@;;o#N5Hz=WFcmo>ntV1M
e?)-O^7EtUJ0juf&%YQA>w_&hVE&Wrz8@}3S&LyQ}xIG!$S6ON=!7UBFccmaAS=SSe7DBW!>!&O$QHw
Nk=_2`dcHnmYa)*Tt<$)=d;$bdw0B;=gfj>Q6UHMBs3Vnx?XQel!>+4k|0Vo3>MwGo4iBz4?tkl@qG&
Vr35UJR;|5OD_TxrmXhKV>_MO%IfMfAp<9K~NuVbI<D>#=Q;BZlktqk@MXTgu68^_Y)b`RtE;a&?09c
#yO9@a`cGjoi8yNm3q;L?ziB5tqb6QXW?8Q0~0HPZIMpO$7;HF+^V#QwJs)X(}sB&iWvK^C&1f)wguJ
zC^sz*my@QCQ)NR~cINR<&F>$OCXz>MJ&b_N7MQof7E2o%6~5yr7-=lL4S05PmUTbzgqK;0%+SLtzjb
p=ut0G(@?jaZlY+@dpF5m<PNg;~Ub6~Su@tt>!V@YUFlpcHmmezt@j>^vDb@DtftNd3fL$}C!KRx{u-
W|B|zh^fX23NdEXXgomUNVUkDg=<$J__M7X4%&ZXWJV7nquBsUsBsIdjzOAR!vHrc(G+tVJ%kBp5TKQ
zM4%suSW5#11z*Viw`32FjZflWaEJ;|3}upBtaCIx_jUyy5QI^<UDRlr#fgC>ET<6%+cVZdkeMLsH^C
g~2J-espfMPcq|mtnovm08AqyU^iDO=fs?}pAEYn9HlNwV#GFjnkPqYPLOIWuGV0~53UUAawN0uSE0y
3DzaROv-_?A>C;R8!%m(F7TFiL)(*y5hqw@?GzTXlNd)OW>#?5GKygup;}6GGEO+q0L+v750HOFFrVa
&1`1O;9poLch|sk=9sKanZxv0tv0`l`3(odkjT(^Z~jZ5XOF;=`)@LJ16VbpJ-ELNyV`#hC3KT^yCz8
+X{QYyA;X%WK!7GzQ2D3f<#!mr%~F~b~GGoJVw^ibb_m*hqk}h6r58rk89UPWV1-?JsRnjn`$o0lv_p
ZRC-x7Fe*?Tf!VN(M)t(2PF8gzc(by1A{r-hS@Ez2E+H1m$aq86_g2BUx<YjswljFe?V(vQAoyV-9}i
M=fN4OCYBq{LIm%Pg<fGiHtnY<w+WE~_g|gD$ifwYrorqJA?t5UBSI-Re!rNcDws5?N4sU72yQRD27b
VXA;qtQ&PL%<rEYc>eto_^7#lyDczQeW5@>|P|qHhiAorw+#`i|6yUju)yp)d&t?%o2MF`5vhq09XyJ
0N9MvrWTt$}Oq2&?RA26&;(|XM*hX48QCIABFJ{+h4c%L3Ef4XZ>qvxOXw1BVpI!03Dr8DZzmb6E#TH
q*|PD5mgH&xslZ5xrN-p0h7g?&~1smgVK>avxh!_fP^AENzi=KhCc}?^y}^U+v6|4`WpDgUUKK4AZ61
BG%&v*tE0nmBwNw`3^Chc*K9-5H}Gt8|3tpd(x+{bJ#9y6@-)d@UCGrSr40IKoJ?|*h^(?44~l({jVv
uHAb~=z+1i@6r_C7t4^8iBMhQCTSaTh28cKj3D^)8*^2do<+@a*KMxd&AIO_G3d$mRn4muKwxpidgsB
u)yPOq(4mg7c-`8_@nk;#8trmvoU(?HNV@n6|-rlX9;-Xq97s#}hzgBmrP*=-)%h!WJ=JO0wcWZy9Z@
2q3bTwC!;Q;(aKq)91CK}3AcKF<Ufn>k(yD12?!v{<sVszZf&0o2bN50{?{U+zIfo7ffAdq#+h1Q%`W
A|n=4G+Y*<mDoczcwM7q8ygzhq9pc6ab-5GKqe9-t_VEFZn|Q=Df31H5BRkH!iUi67tTm4@@9Uc4;%3
G*{{sJ6!r>p9L-yj>IZ4R#Oawb$)KV{$Jp2&&nOzjA*Ab(Fa78t;aN$z1dzcrm#WZ*7!zPwhWEcgE}(
>-2p3Y1Txl%RJYtn2UhW9?4!y)Qau@a1=<{E~1NnrD2MYBVq#Z#f63btsVRIFpsyrytI4`KweZD2ZX0
>V2{SeP4(Ilb|1mGtTMcNV(%Rlj0Q`*_E2e7?E7dCVDwN#y@KW3W(B=N2Q7QPVZog%9FR{QPP<GK*!J
cO1>vf*Mow^e;ljy5yF#F{g}V+5F305h}=5*VC$?p~5FJA()E;T(CrLkUH+wkMJN3`nl)Qjo3Ck$n_)
aVcM2X@53Qwe$fJ@<gCP0wtYlpnsLLT;12r!kQ)KtMl9ZTEJY`UN*BWN|}w_Pn<~<LY;Ete_~KEn&{C
*d~Z}IALpdz^AZJx8IkruvCJmw2<-|w(awQ7*?3x*C2v#hz^T7=ET{f-3rGc0eVjN}Gb%yao#j3y)lB
?;$m9#_=@>>Ks<yzLAR#~4rf6%+C`I*^%xJae3&K>ctmkA%@+43CwkWPe8|cCGNj!87OecTh_lM|XR<
L(dvJ^SG9k+&V-TKm@*amQDpW}n5(cA*jp}y3Rgy!}P7F${8i|M8*+u)Sn>U_)og!Jj(l(UE?Ik~w4k
RekcQjQcNaPLC2tM-#0-hEFKLoQCc3B`7n(eq+@As2%+I6Ajip9x8Sf+cv5W@>hU26`<E7*fv&1BrBC
"%text.

(** Lines 1965 to 2114. *)
Definition DATA_12 : text := "oM#F8o&hlJRb%wgb(wElbEbg8pw>z%lnG$YZh(RGc$g@guB~@yG9Nn>JL(&XlGTTY5OD~!9A;%3MpZ`
MH86M5*nMIEKcVqws<Tg|R@XD`b!o|#dcw8Vp$QhfgZILXs(~gF<*iALczRArUI6T5*#`0@efFHZEVp
$fJi@DK-gUN&zgqaC(VyJI>+htWtqqp<cFiY22?RF3m~=I4S+IWXZvH|m7y5<mXRC$PnQ$?6P+$^_fq
;w?=2WK^*V_C1UO5gZZZ+zq&1O@n#sm6v9OQytrgqh|w*f@j$F|_q?QeqRpO0+At=!)T2qxXfw&B$6Z
(<?tKDGtBs_g~IdT(o&HcO<>H6q{QDs_EdC7>i*Zb}fo%63F5s)icKFYt{;7po9TnFPq@Q)FtQ(!h{H
{$*rU)rT?Z1uRSUxdpzn8ePG7r01DjQ^_%#J+MC|`*75)?Y~FM{hsCUH3(a5i0p0@9!x)t3B^V+BG>T
9h{vk8kJ3w1Be0BFRx#HehCXq+Spz^?zj|VZT-b-nk3aq>_vGVMy%4M=R^$jL@<p#HQnF3h(ktMXSvs
#bC3~k(HMPq=Z2;YyR>gmijxp?s<X{gUDSyKI3GC+ua9rQ?-isi%QXF`YlsO2+R>XiWogP^0PMYG4>V
l6pw6QOy+!np9?4vAg#(wp?KI>W3>o96f)xD3|zk<@CsqHazL_>zP;<GIOSYiq*W!(%1@+gx|f}7U{r
1D0EPULLo_t?`o3Pqj97&+8CFWM}Z#REz($>r1b1IjO6d9$Fx!zNuh4TQyiu`LXV6px;^e;ksK#uB3K
&Nc<fL1~qw+4ga4AvDK!<i~;~-<Bj_6eI~sz^mzPJo<*!G<JNOB=5;e02~LV1U}lzmHVicyb~c~0nyz
;_AhOvJ+KrbK{41&O+?hSwhC+DySEEO9rPk&6f4sfz4B<3CppRyLJH9Z&6J}}nh~Rvk)AQTny{*5VPd
GBrFZG7=3O9$h6@x!WQP~%b0CXNCn%Vft*iIBQo59=K$ch}6;#Yn1RB(^5RyR@`pTF$N{Mh@+9Ohyz1
}#{EaH@?IzdN>l3+ZupRoYBbet*Ek_uy%{xa-<>|4OF&*q41m)U46<E>DJA3B(QtQqO7+F?bKDl^-Xc
>el#X-Dg16w<k^j<BRvKEqIkLie<fYT=QgW}bnsk~ToZh~qM6M~m?s%A*r`0sw`z%OUzDqTht}gT4wK
E39#;6J9osh(7(AdjONf9ne&y5rB0SlKuF=fex5xGm0w-c{*Aq2V9L|rv|a7cOgih>4_#jZLM^TP`v?
T<b^H2!sy+z9KAZn36nCD{tz91hbHM8$w}%Zo5r~^3ysdf4VB8v>$-vc2;Eherg!ShB|OwIc2uG*wsl
k27QXW!7oBZ8%g7<2@K_iQOS0(4z#P!YVt`w@6qnFSBNGnvioBLn&m=j2$PpH~NAfYW<&SW6m9{te=j
qi|FEB3h#TQ>;A^GdeKkzU34}Sal8})6q_*(ko4ukvp^Doe2mHnU;I|I73j=6Zz@u&Xvg=P?n16AvEh
YO%u41MraG^g^<FkM@q$Hl6sSaX{RjpA|g>c!VP;Bj0ggCi1D1Q!S$Et7*H-cFL(gne9OcW}ju2T)w*
MTb$mL$Rvt<-$jT3|6_rfB+2QA-t7`h{6Dp4Mo5$>k>`zM2G2V>g(OE&h5!W2ASb0pWf1lCwR^8TURc
O36P<yIMGO5(K-~bG#F)TQ|nBA8TG(?+Ma4j-|M(OHsJRe@kMEmx2*KK7$+W?pea9Jis|f|uSA9EM=~
xknlwnv>ud(72RMShrFlCqiiq3r)Angg8UpuqEZZ^CO<c0+W%Ztz!|~k~`5Yk^KkC^r%|56N&TIi8So
$!s1`+=yEBw4<^aieC{TA$hB*VKfxy2QV8YmZZ>I9FMIS2{pYc)oO2&=Fq&QG=%fbdEuI8pm!24$9;l
J;qY#~V?zJ#IEt!gh=n)(x&-T+_WmSt@yAuVCiIadA|AL^>mi(m|Myj>g;(iK(*EEN1_V|G@+W)2_)8
5e^LKm<$8E^W%{zrb)&$n$M9)QtLp_D|bn$6G9U@xjvdCG*KrLFX(Vbz~W)@Uf_^(Ai-mrWSMI~?ybJ
jWWXsYh*echhcT-|P{>KfIFyl(%u^|gAxh=y4YRWh*}4WFA`rKaw0ccaqshFiQA)}hJ92V_8yNqHc-R
dDVRD^u7*OenmyZ)IEse&4G)Sv%w=E)6$ww?ef#oZhZ<7)yFp-`qi6mmt+H1+ts<(X{8rwH!x7kbEjG
{P2>nYG!-oYPiK5~svy|yGJ!#n0AfZN-FC(z8(_Q~$^P3zokj(!$HW&$PLtJEDvpXM<5n2r_Nb<TACZ
lh#lrYKei&@NQ`RZIZmos7p+AHt=FC6g7UH?yQd>ItbH%D2m?loSe(&p~txq0u_48{VVX;TZJRj8*A^
5`7dpsmG|#076d9nE1-_>Gu8lC{$4GC7H_iWa#kMF$SuwGjnBJM6v^_#FIU3=zGXi4$1VAkWYp*Jo3>
x3KBS9R;q_Z5lX6uC`wIr_0y#0EG82b9BC2s-gWa?OZ%+zJ*<yY-_-Zy5H~zZd{#wEYAMXtYn4T+pt^
Z=EwWNn82}rNlP^c1LmNI!xs<G;-5{?;f;^=j{9ZwiRy>qW)oOS}3j@qNw^Daf5}g)?YUt3lXXzNhv?
Ai>>(^AxQAnGEO6Kcv2+C7mp5$k-QIC2|k*$iFbyLu3?jt=L_c%b{<R|P0kF=p3L-%%`zyp4C3<4>n)
-8{9MzdVObX-MqsutqKGP|8qt#gdkx1;DBPcA_|aUgte@-hS_+m-x^gEw!*mIp^pSOeU~O;)yp+4!mA
9C@?pF?!2=(If)Qb{d|Y(u0$mFVs}9MMqi>mC<kl0*H)$a3ZpP?W~qjkMQ4cR{u+;@Yjo&x`XbF@@}$
=3Y>J2QU#O0dgy_2NXkVQ%qq`Zlrl77NLwyf_*nYrmGVvIvPY3gFFZp&`%%j>N*aif0kR+>0KN;m8Q?
#?PiexJ9;G-_rO~wXJpA2Q0OfwNJ1pY$oA>7@Y*;^g`;z@QZg7{?!WLzSwU)TW_F-?VOSClhL{u0%$T
f7M(jC&UyeL!c)?)SBWU4a*!lsO{Ggjsm)%FfukYwaeG|p+6Ip7S&r49*919Xx_7SDl0g5A=kN)-Bc6
fmWkq*wYPIZa}DjEe<&Ev3zBkLvg!vs3eQdg@JP@6@Q+7Sp0ZBpC(%Lu`#nAVOujO`0=M>C(Qo(!z2(
M}4m^at2w-RF|aHJh*4Nah%Gt9(4#%epGmhl_&sxFE(~+hO4X0=v-2MlX??{{g*{0!p*jIBmP4W(a!Q
r(;iZ|K5wjXdh#yEcf|LR7>ZbK1xBR}t<84YY^uTZn6$~XKIRapI;b*7l`Tev<FIF?FgDCda#k4?Qas
SIyY`{cxeDfH!J`74EF4ECDhs#LmaPseFm<jv?O@9)yt(H+(PkEXp1#U5?g;t{HFjP%Ivn3iH6t})L)
K0W9^Xx1GGL3K#8mvD7rItA+&)MRO(naGZ)>4;EPd6mNS4mg5{{_n3{?iA8!pF0;fuG#3Y@S4#o9QPb
!Nk(M4$9JjHXwXSelw>+`Lir0M)GMC9<NE-)p^{V=5B(x9&~Qb(kz_&fvD`SmngU&I?f+DUQGVr*ERQ
$svRjBb+LQH4T~AK*A<j=P5BYH87Yt{18b?=-`&b5at|dGn10Yx}RUWy;USaXVc3y=_J`GY)&RuwMi7
ok5Hb41U+zQ8h?D?lKy+<%TvB#8_-7vV_GWV0GQAw{7-$KS<IHPp|x(ODn-8#^Ws$_xlo6QbIqYkd#w
a`im3tiTJ?uweT|JM7>!dtO^Gc;lnGtPN|=gPhsSJ|&&f=|mPCE5+-gH(tAsk8%hTfFb|O&rgp$?<RU
8xJK-+g{V|=GK+iYF8Z85`G(bc-!j+D+|U=^)&tePa}xZ&!ImvrnVzj8HoWGwe^I<Dj0MuU?hkl3Wn2
$^Au<4cj`Qyg@f<a0!*Oe%mL(V!bGs#H2-Yj7Ds5EaXxgm5zQHkcW%!#xQB%RdqFXsjZ2DZ_#W#LHG?
2+QZ>{Yfw5yO%+WYd_t8ulmRxMX~U3foYi~Dx-Pp<S{nAK7(A$4yRH@la#9mxTi0%*D0oszFt{`=^Fb
CRdF(Hmae=s4W+Zs5w3gMVOp5Vodh(8EV_+E8N1%_Y#_hmt*qC~+cPR!A!A9;7Q9HyG&(~by*f#Hnj+
EcDv6KdJi&#fPdoq_C!YtN@un|*d$R-999sEL|5n@&R-%VaV}h+%?!<9_4G%*$px>SDg(-acXOXy@yL
PQM!i~j1+F_h-Z(s*lXdC&Cpg-5p#C7#43PwU>bjq#Rvj3N4_88EYviM*HQl#q*Y^}u%x%e8CM)@b2l
-A7KZ%8wyKhbKM(uzna#t;()THZmF`=D+>rCQe&aeti^E3~c9R+3w`u%(qfF0it*p}Na&Y3D?{4D2wQ
s-rxMBnu;*(54{wO$`e}wG)aIH__$^MX7U|?z;lrPUsqyV^l{0XV)7FkQz;rmz4txBR<q7XrUmXdmgC
M_Y}@TyQs3?x$2a&6_5$0t~*W>so<%wbD8ivIB;+f&bf+cJXBQ2vf?@7d@fLp97|hIDem&BbIvvjJMt
o5nCzK+t&8JP>z>B3qtE`fW=Z0)?MUyh_H{DWI`&w-1!)wq7x7h26Jk16QRF=-x)bpIRi`Q4U)9TukQ
7ilPz;CpCB4mDrbAvP1t%?~?;$Xv52ag>&BNiovCT(jKC`H7C;^&%^N4@x2wytz2(^nrUILsC`ZfadZ
NU5<<zm`yvbVj&=V%VW%7{9TJPm0^-MxMDe6G#r<_vyO&o|l`*WpGdn1lD^${$_mS+10S`zjC;N9Ex*
*%N>}fHGax+HS);NX$<_KH8R}o3l;3wgWpG54kvCs>j#+BNyU;HN;+#A7u?utId+daarLafa%HfzLlh
MgR*udYp<dW%Flsij<Q>#X<uj!4JKSJB27{^)w)8TQ0cuzOU`$^!U53jJkpK^GE8PI=W&wxYP<_x7nQ
A4t)+wS;B@zUa=Im}%31nTCDYGRA3{mS0w1R8bk70IqPK>pGz%HSZ|*6J<&^5ru0}98)2G>tkm^tRt>
gBSK5f`7id|-Nl@5O5&)sf6%!pFB!x^)0a6gdu8ge#3C>=Wz3>+rUd{qCWX|WyFJX?RLjz%XY^nYm89
a6;UfM1aXYtY@-vPl>=Ly00x45l)6M^DHo(;**@<rqHjEWNrqmf5|9oOb)HY%t2G*D0CqUvlNKf9?kZ
Ok6rU7j00F<k3YfTC{4AQL7)2J~Qn1mPSJC2ar1<K{oMl9@*T9lH!mQMy4AaKkU4J$QCRU3mJ@AMt$Q
IIMN<BW-}mWp7EDD6Q%SQO8$77eC9`xQz9w9k$-gx`RVS*j%N}JQL>54<1bDE-tN~Y^<Awdzy9YR_D=
U0ovYMkNqA(36hb_2Cd%66*ku3AILAtDVc%y{5&ueSQ#h0w0klmqvojGMQ2#e!#6F|z6H{UboDSFfwC
9_wYC6Z4b~KsJ#fXX+^t6*EQ0Ypd7^;p?jI#q{Zf#UvbiBB+-OTJu>~@`+y4t2a>iw;p#$4%n9`19%%
FF`!gJk4&BZD+h)hrbYp*X3(r*+dlgD_(bLGuBzEAb2l*Gp2(tV>R)NZ&0d(bFI+j#5QoTQttMCEs-2
`sCR&&{$yDbhq-PZmyq!j4T?orawbD7=u~LLrzpUQPJ51MEyX#d7o9#P$aMTJ|RQ9qlHW~t-CMN`cOe
b1WsN2`N*Iltp@Q~)K~>s7fZ`+hwyttg0}K|$xVO8E_lk+Zka|195r!u_4Yr$JI0$CU^q%jqQed)7e(
_KQpN$AOuEsLgPuVl#9(;96sA@LzJVvKu;7HuD@ag$71YZ1)*FHpi8&&RBP`r7TiQ6O#>t(x7+RIeuk
v1V{=Uk}+xLjHeGJ0n?Yr|XhO{<%_k$lxY%T9chcW4k3ib$P(q;R?nYf2Bv^t^saufIS6k0(hfn~<(k
72v&r7ifY=P-FKbPy|AerIBddCPGizNh%F>9WsX_l?b=VY-+#F*>?q6g3oKMURLX(s3smTTv}YWx)#0
GAI+DovEpv5)?00CqA10*|*NB?4Kw|NPlAmh%US5G|dj2BZPf)qPSm2spKeX++2=(46JgonTtgXn%61
M`0|TqXTe9AUpTMSuP}7dXJz7~DAuTPQ-0UmaC+%mZ8ShHUDOYiI{YOdCkc!`$h?=d^PDoT?{{|{0*a
p_#nXt#vv<XzsJkKe8{KP4gEg<OtD;p2WUV%MNCW*Hx>>T3=>YfZ36*uT8Ir%GMQnJsw4ba`cZI0r29
b*v6_O^r*~4Dm^>h=-R~g7S9nND6+jHJB$?b_GMIAjo=Y5ODX!oKoOyw8b3TX0JHj+^y1n*>58_s`e2
f2&%a``28yz$96jDjz@4DE}2LDt7{m_1lbG}BmM#Z(=Whc%Anvd4EzHWy>kJ$_p<i1X!}ee#j@&YjXG
v`?M9>oV}vh&bfM<7=ZPd5Mkl?^w`8q$r^?vXWw9x(MM^!;ggNMliZ>S8UpdLsHx7Aep<<6J5WD$+s_
me02`Oa<wSc<(jQZc=Oj{t&UTWljL`KQKHxpfWd;$8~BIgbSL^R(e!u}$}nfBbwMW0mv7?c9|X-#K!|
mXre|ilbTS7Z>p!Fs*N>qnYx(aU^A}xe_(;%w9o;dR`1DVxmWu2_9!E#HYyEi*IR{1L91~f0d`;v>F1
{TE|633_J_AkmEb-puy<=rZ(#-YP_oz=~JQS7G<28B{dDZ%O&u#y@Rt7##Lm{6~#!+0)L1iGwZcODv7
aOI8Sz7RpnE8lC@edj?|Gz${|MPrM<NnXV@w_IAW11X~H(8ud`eE7u2Jx_haWaMfJ<1PNHl@s!gFd79
4CyEP`;K}<^*I009?!f_6&)3smft#5%IE?+0;L?aW4c;=9YZimN4~%2Zb4q!DJ*{}7idwThf5?nj{*W
k7S)xkOkbI7U^KZA4?4A$J0RoD8}&EAW4<o$xCH!3<qtmXveSNV)_Q)-QjF+BcKE_${MT$_O^>hbKE@
h+))qoAQ6-5reHbF+L|=Z0CzEGS_~u5we1{Ai^6HbB=<Yf3r<3ia2U1SilPr%;CkJS}Ru7XIxC1J*&s
4{9zv$#?C;311B*c)7t{)wDrJi1XsS!aZME5AmE%_Fxrrun$cft~MpndQlMdN|4NFPJZXvdO!z*Z<%-
6*hjI5iwH=2U2OB(XEBzwbPEtepl1-3fmkht`L^Mvk@)eIIw&Yq9y>GqAnRdX2k`!T`A&9;sjCt#WmR
n;)jFq#o<kkg~f2G}kqG)uOj0^_=rpz(7jZNn?_{(R4THiUWGay_Af|Hr0oI=Qd<LR&r!9!;}|)MYh2
G&b>bgi*Ij>wLHVq?>-UR-odgTVOuB9;mNZemti>sHxs%2>=M%uKu-YTC)z5AYwmeYZ`IMXGRRfs!G3
R<;h+}-0sH@}T>~P@=s%=mKqc;p5l`7c;56>ja8S$Jy>+q3_{^1x`fj}MntXi|zg6*_av*eX(@U<gik
2FjOzV<gQtD<?fnA~C^G&hl$QYA^Ek{i_U;LcUvFH@H9pFl&Mz8WUvy<QoYa@7r>@KIX%x9uRxm_lmW
Ah{wpzkuranVY*DQ$jGYNJ?OlO9T7lq1E}75xODbeUpswTiwDdQ4Gk8{qhuJXm>Cj3&uh+16v?FLZmg
ST2isL09WEIYP?IvEJtdyx6+EySjS7y~K<cW(1g>XxqA>^yRl`&nvh$S62;!z>Hr|`tsoe=72t{cxbc
<c(8NCRvn-izRc+I#=MdS4KB(v3R}7?!C8~5t&;`KITgXFmRD{A>bBn0UtP(HI7E|zPxeQL3}{*yq66
o=jB4ED^aIZ%aP}>1*kitT(j#3(`xaxdygK~Mu`bPe5jUJn%S=Y(vq?;6JCdOJEpq?6{mPZN&SWt7kz
M3S`S8$EwS^c?nr;<6(H^e&7VqV2znCDiqWll>Jl}&H8c2NzVuUMQ+2a{P@}=GJ53aHopnRzCp*;h!g
3f&4`jPYSFiy6T)kKoy<6Pvu>+R@)rp0}?J@OJ8X?RD}%26<R4<9pQNgc^H{?XIK9ohb)bc7If0_+5e
sLLZbP3Yc)_3%M!Olp2D`RFiNfo@cwSrq4%`C87I+UYjn86Jr>nBLkpK0GK_-;g%9p2KsjgzAxf#SoI
CB-;pQ7~5>HFNPIqRA<FJvML<uz({u0b2-X?A0~35Zm2WP8<I4l2yt(deA;T<kjF<qdZXOjjs|qAT48
|>6tmgT*$Gy%W;Sw&LZ=vXP(m5n`4ofx3{No#WQAvf1|*O-&{=u<xl15#n}WQZ_(o~af@$lp5mj$GOh
yCzkv-u|f2pT#{Fp72=_L^1=H5D36y_FFs{t13osy_;G4P?A%_TfUnz}M9lSrU7?o{9bYWEU+l_p1wu
H^TW!hlBV)&f*%%*bV|kgkv*0el`*q#K1*eHEGdQ<X;hB_2AuWEHAietz;HypTXgl5qu#4!U}}s1;qo
|4@xY%!0aE(OJqVYSk`5$OKw>^5V^VHTRl9kOm-S3@uxc@#Sb~vkJ721dWlQq~)v4jlG19dC-#PNM#x
l$#gl3bXv&l5|ZF!@*K;W(Dd59VTPE)@&rxX*uHd*f_`A{uda^E;#Qy;zRBJ8xneLD<Sl3&>0vH*QA@
JGM+E>rSrm*;M{@q#Pt_AQ8i2_bmQdTXo+bco6-!uxIgYX32=&*`NaInq1a~a4<)go<bwNuYu%7tq9o
vhZSYgY0;l>xOjh*xf9@!rMF`<7iS@OcaKm3FtI)j^t%^=M!ZsGQ>o_^~?v^PIhJ{LBPjGP0(D7I-Ha
BA$AqvVf%w3cpL@nn~%{uZzcU4hYjnml=7Rd~{0es(>t%bH^^7gQ{mX5yzsl?;=OgDymp#!<w_$BKjP
>DPZcpS;%=k6T0UuZub6cY!56bbk0&G-zqXlR#4|!CLB&TPjYff|ZMy%nM_AIFA`11YaeEHH{K$1I9a
q$N@8?E$vHa^SrS(O0)v7yok53Coq-kqvBXN*%SC{o^RNO%y++q;O0fcmw34<J>BY<Nc7FO^Kw_>YFq
D0UgfvwW6<7^_?*n^^;V%=b2B$@a~|r?6res%?jFSm3C`s$C04k!;uQg-ux;Tk<OflqUGJVv35Y-#(W
<@^IyFeMaicOijKroAfeWVHVeCeh+x;9tcY1l{U7RE7#uQt=jhk~9zyZ|A{e6LM%~Wt=et&=A8<k73q
(#p&krib0=`fmM#I){FfqFt8ZoKH3Fr<^6xRZ{gKuomlMPJ@O!}wUUe3{{8?jz<~W4!01LJ+V%lwPI>
@A>3A8o?`&ZuoeKDVh%+`!}9T$1i!I1axyLCiTZ{K6->F<vm@h=g4ksQxv8i%0{EzE?KZr-$m}|m5eV
g_PY}PN6I6vknIV~o_O6a*dFj@>9=A^{iTYnal?};SZWN~uPA|0#Eh*ek(J(<HQPG*qjqe^k5E`O+A$
RLGl@UKP!dg8`B<gcWGm;s$v|`~tld2b@UHMvbP&A~-MR#wQF$61D~w#@D>8Airl2vGl5Eh8?uaUKqS
4NML<iE4uTEK{W7up{lnYA<q4V|v{sXk3uYk9s89lMZj&I;iJ}|kmgzFIdTGj5kJDeA}38~xf?r@jUk
R`X)oku=1mj6%3ZVM7a4lq^EHbHPD%k<!(SRY|kuovTU(nlffF5FqZw=4p~cBuVtlmExaBHwrOGQLA$
L7LT|`a;}IL-$k8HvNko72{4u)K9AS#`)m(`o~_P&e7HsXxSa}MRrRia8dZGe`*vV0qy59rz~c=s-mc
;O>!*LR`XS+Rk__AVigPx9~n^!-=x7Inu4$wT`a{1#GjZu>oGPJvEs*~x|NilYwR?<;FN5Xz(=iyP;m
e<(9|r8HFlLtgb@*}@ac8b*Ily)ME_<%u&Dh!mS+5>7zfc}cu^mg>IY)j7@bt`#;h<hj#Git0UaCNTP
zgir2HuBhn+K>Qub=@m+p<++^L-0&?z!PnRbXLw`ym%jG-jD%r}7EI{~WIwW!F|sBcr|9iEKY?U6PkN
dd_+BT<PXXUpGfyEi3Iyt8Et+g;5B`NpXB`SwfH;qHaZ5y{s_$lXfqxH5x^l2m=>+Y>_&$}q?|RA`Rs
&dwNuRLX)l>WKQTc6(p`(qbq2qOf(B5}9i(huG`tMU7$w5le7-N7WVTQ9z`i{q}}<Bybk=1Lrnbi9={
stUUn6H<NX3JM2Jrv?<HoRNBp);t*rK`4CvusI;0M5%J2Qww0U<g$;VBN1u&wbW&rax#lB7u^y8XLC0
5xpg;gU;pCBc9F6{MwRDWoH(ji)6(l#s#ou88siyE){eRcbCt5!!+n~0^<RKBfW9h_BRzBh4u_Xi)9O
CO|E&V#;T?$tam6sC)P={9#7S;$-L7}!HNC!oplzen_3zF4!>p3=^p`RVhbV0!<m}9bDu#ZlD%U9SF?
Jza`j3HS$3nZv)NZ=C(V!K(b&{yR&;RXq9seDV3qj-_uO<k(=a_SRfaJ8`G%5<;gH=P6o{!y>2>>ZY5
2_H;P)L$5w1I@=;x6x_qjoAut{r>?_O9KQH000080P~d=N8$#~TnQBb0Ps-&02}}S0B~t=FJE?LZe(w
AFJx(RbZlv2FKKRMWq2-ddF?#?bK5qSzx%JiC6^)9%1oTzcJ{RAo5{NF)-!49vEAL<$z~*qge24y$pb
*k+ME5~_q_*z1ixf8$=q~1<z!-t1RfsV_j>^NoSlAg%90`#`Fh4Gy*m9pJ~?@Q@|;~1<z9;QMzio@!d
|~R`-=Tp<nf-}#y^QNf);N@!gIw_rVFMwoL%qrrpVcCvC_L(a`tUe<!P)1JcAo9SqwwvT8d?*3;4B`o
Nsxq5!Nl|?CsUX<-6O<NIz;8=PA4R;oaTM)gOPn`{CvmA40nmu`LU!*(O$-Of22ctXQvM3hrm2+@0D~
T4eRFYFWx6;i`VG`L<k%jGt(^pPewcR<hW_Y$T77D9pCIqX#GaG2x|VSM=~w%0hab(rUZi&&Rr+P@Bj
-{YEGa6SyRRKq31&DYj*-U8C^3ySwW@#!4h_D!us*Xp(U`WjFkPE3WjE;p^*Isa+w{@7Holxb&_{W@R
iDpR#2ovUFaQJV!7JIFYaCdS7xivEw7P+~`T1Y<M~cij`dI{gnM(l=D<T&s#1ZxV)Cd<No9XX%D<TcT
9-ZT)(Af;e4LQTRxvpPENkL{PxX{Z|~+;@4mVGA7~tGv@X@`<;!wkil`*Xi3+)<-$C8{=JL(k@3Fage
3E1^U3MKO_wkxvflxh$#quYf=!s#(vuDrf@7+cyW*SRgO0Gc66v$s`dNP4snW45=W}NMW-hcpKUrjwx
CQx=TMx#abD0H(V3731oa2cG|*WKny&EcQ^jswAn(Q_Jc4jta5@y%c7{~j0!DPOTUycBvq4;9Z=Q{>n
AyCUayO8&I)x`MVM&V=HiBrp-B<2>QfN!?%u+>W;hW(IWN?8lq8tXR>s2#JVYtyo@wI+Q#SE5TDUXKc
3uy+kT7p$3Ji0(FlD(L&rK7!yc={{x&B%iHZxBj#WWR$^UAvJl~<X#rxl1!>K>&WdCTJkuNeA10-y3`
AdoEUsj{HbaqYhi>==j9A$|hzs??8|nvt%^*Yuk+YD*F_>Dh3_Q}~C1a#^S7pOM<PX4z6h*910&LoT#
$Kp^y<mNG=t*gnb-ppW3^PDZw;L&y%|X48Gs6wm<$CP-d{e-zhF;1tK~;X-ci)oaqfH146{Y+kud)mX
u?r?FR!oWfzD*1i5oL%51HMM0!QU>)@TzTU_mT-9(HP?hc#+)ClQ_%5_rPM%B$&Sf5(gj9Or=Go&k>O
k12=v_UoIu}oecH`Awgu$*{fkp2}ncpVWq%p2_k*pdu#p054WDL=w2ujo-F|DIY(nB6Ht)t7UYCvd&C
(0iEGkbv@&SB6|<d)O(NG^#)(F6R2w+f(mT~?^GtGG$$UltEtp|lH}1|22~G=~z311+!3%3X2iqe8t_
R|Db8%tDtGlE?Z6B6r9}Jr9eqlOkXgFY94v_E$T3eeB#EBD>$Tp2g52_Neg<xm7Z>BP3z%C?j4UK?6J
d~P{C{8LJXAE@yJ~B?JEXpd2HCJr00Bb7ILoOCm_~ncP{Hnn%7BHD?yI4>_1U+Pi_u9|}fY@+_w=o`O
"%text.

(** Lines 2115 to 2264. *)
Definition DATA_13 : text := "+jGR$6O{%{#IJ5f%84>RB#R9jlBh9zt_PskykDWlB+;DMVZekPd*}#&4ObL7gn@e&jMz@Ut$WsOOGNV
<(gQSA6i0NiAg|@Mb<=_ljUlhaOT`cTc=5W0)`!I_Vt*|vwyhL~wa{1rlYH4=zFzoZ;>*F3uTTrohN8
A>6tyjfASU%9gE#9~<Wo-qpiyN5_*!6f<pg%z&s&2nc?xkA1S860?B|xUxdK*jCqON+nYJav<53^M11
!40#(-hmr+b^;#GWPRIr3;q?@eeBH@1$u@Bn=agcrk9gm-NP08XG+rqHA%?e@iS0Z9!GQL90aXe~*wJ
kc*vK{^?PNBDUYfX(ZFha;|X8^tN8x`h`us@T9f%)ge94FpR=`A}GHTeg1<RDq`^mIf7wAq9;`ZNF&^
nL+9~8&>2t7pRocCe9#Mc@Qb+iUZk?xZRr>d&6dwe9RW#+h>b9Qb#l)-UqNCZyAq)H!(wMj0ZQ!O&bx
hyxJ}SVRY}#@z-dBsx1$IakTM6_}b}Xrhw#yR;q-!fWu9~#RJTkd<>bd3f^GgwiSwyF=<6_L}?P#k2D
}Pfho8KSLwY&>tDauMJf{QzkMIfFx<hw5tBxWqW6IpIS^jX^6)$<Qa-m&!!#0_Zvm4jd;h@?H!MADFG
wZRx{v)kjsg)&e=-Ub@f;Ywi67D1*5YrKOv6LaK?tLl)tC`9WeO&%Jh$TI>KNcqz`+2kNe*H!aK`|%f
F}TT#bsY1aCjqGS+N%2o9Ky4Mh#jlBoBlG+5!S-U$&n_U0|lU0cX3y;Dj_HX2YwU$TFtESD+`{W5zGa
QI!BUobyCC6)d1oS!o9z@bqWf!^qInP7pK;p~NL*QYM}x)C}=-F{}%_jmS8=lU2vQE0hmHf>LD!61Ec
<VN>{iPSMXq2pXhzC~Dv%u*w%qB8i5h?0_{>ip(rR)qZIzJpgD~t;67ja>;IJ#cbjkaD#l36$&x0#S?
wK66?H`+dwuCWUxTsB^9Tzk@Elt^1ge%r}*Gd#pK4Q5Assz7^^*gl7u6XH6|?jLhNuee8yq~39*$Jd~
58kK|SruEzQXE7G&-yv3E*9Z{070!2p1o6b=ie%8iV{Dmh1B00rY2s<}!j9>Am`-B_)7mIS?#9dVnfl
Zb=U0pCDzKL~KLp{g!KmWmL;PUA?>m?CGUz>(Mhc(5Qf4#c_A0Fx+J_3-22I<Uo-pg<%3&avK!LyRRt
(&SoFMqDZ~z?co^=si1ejn$OJu*N4_bYbsZO@WFXFd1E`(^ZNI3KdjNPxInb>wWOSj~E?0hGW9|?RmQ
zGz6jD6L5<7qehK?4?|-o;4t9fnty0j)mrk1xFGBL_;jEyW1Vcw+#2b%bAA<gBWNU$tIJ2*`xNi}#Bl
}h3l*U_Mn4rI4>ib(d$0tksGp%z+X?%U1yQULFZAu8mO?<0Y))}r2EkZv3u$g4XpOT|3|NC<E949ov^
CxXlSa>^c{6L<Pmw<q_q6T;RuuXJmNXkcZqjr8@DRazac<SMq0~g=fWaK2qk{&q%4sdeNWGvR;E7V^{
Q8sxoE9-~DQ0irGKAYGY2Q==3P!OUXmrq3-m@zWmNQiSmfB<9YV#EcEcTk)bqZ%>{9?<%MJQT(47S#p
>DKfHtic<mtCAc;u0a1O3b6*d*6RRrJ0J&o(W$c&#j1~tart#%(u1;Cn35(|eaPy3A}B89V#M0q?_#+
|_y2z_*nvSHnEBDo_0{#|wAT!PA8Pgw-!L?69k&VwqxT3}m=L)G+Y2EOM>Lin{AYkr`&rq6L8WX`hA+
M_qxrRozd*_avAIU~Kw?_u=!GCiVH?PdKyH#4U+p;C#(PLx$;x+%8%f5&f0>eMug2<CPaB(d21uF+JJ
f&@*XO48VWM@A13>dUbbJBzi_EPne|r`|pTWCW`gxCjeKdIFrv(qUQ%g}F{Ocb0BUwv8MIP-WBr##rV
=~yP6&jisyI8blb!H4=3%AY_YaYwU+!)>TNC$KC3U}zZ&@LYtbsiO5-a?n(V#oj2*wGC+vX0qAhvT3=
DQt|Fs>rZ;%}|d8FfFtrj;s*bQNY$mg{U*Kz+&9JSd+BY0bMtD`uMDA@NyjUv@7W<lf%UiKM>iUIaCW
zTLh^y)0W|p3H!I+>fBiQ6TvpQT@2(&jZNmb{KkS~unZ6vo7l>vUxTqsX{-vw4Mm*#cEuH_`WA)^Nrz
45*&u4z9k*wk2MX(aXt?*b4hWBmN`jCdXQh55BtiWo$C6`XdzxJVzld_CXA%uv2aMu~QT2832?+nfX4
Q#=85HkY6JK)VL_Kj+6BFuSI^AD8HkKJ8s<cWl{=t<I1V3dw@=)qt5RD=%u&6MB#bSv+=3owa=EtXYB
DEx&nK*fX$=GdV1_@J0GcpT*apCj;Idu`SZ((rK;qLAp%wr5}n`i8bDoYPQ0}+BLk(yzwUH~p~hn5Gj
0P2e^kRs6RtLXK>B!9(D@RzYxV9TH``-cQgY1QQZ$GHuJu)>{OuAo`>ue*QznuO=YTib4IA%%B#g}Az
|t>E;_yS9h`i4C$Jk*~{Gps;I{y7&QHA62hT4KNBWgLWLwGsXMRyD>)-GJnQkqaSEAdytx80=YC>kXD
`jN6^A#BInHPB=gsf(%;Qfu{J9#c9UoX55v0GB--#t)5Pb}CVu_9ulrri^QU^JQB{&qbkc0M5;S80K`
?f?Q%DMcZ8|Av&zG{T&$?}#*@u_zwhLw7^snzbZ5rx8qvl69>-TAa$-n>GOZ}VqBT86hcpnC6$v{nmL
lwDc!^6pkjzW;IwHe+BhkHLR9K=g#H6|Z5wr+`oHnGj?NPP%zH|peojJq)>?V-%}<4A6`<UDkc!TPrW
`%&hR%Y!tDk6IzL@oHKm6>h$6Hn8}CE4;<6zK5g97KmS9FxkWJ(Bk-LuxLp!9Bm$Q<l_OCkC%<n)W!u
AZLk=7jRI<g4U2^#{YGzbkJum){*`>WfM8OFeL<vw4tR1ex&nVL(VsgYjls&hYY4UpSeAy0!IN=D{t*
!dVFW#oiY<&Qbn@-R8RkXP)wHPl(N=w91MRN;nvz&YfRQSH7>FCQ)LL-ow15=Y#rmv4;|CMNje2IE0T
`t)a6YKU*)#BiUc$`7q3g9iYzYm*pJE2Fnqu~cbk<R7UodZC5yY+ec_`HR^z~?i)S(sWK86SCi_Nmh;
WgFfs=@b7p-+a-HKvJ9nb}g+8SvM>0NwEVw<YMKm!Las?Iy1y6!)_&#Wq&NT9A6^&tOB2u^@k@VbOxr
C1x}ozZr~QwZV`TM-6H(E$qNz*waFQ1ZMT@TZpUpu<jo$FN{Sm{>)jGH{}JlSc->Zjw`Nvz1#aS{6&t
gTmB@6>|LL*z|mckaOcKeP1)IzF`${%$1hJju`pqeF*T+sEp~Z#WulT9&<+A2lSP}9-Y!buu?ML)MR9
+~^0<OB9p!!Cx!{<#nUe-&gWRx90Au%!=6Jxck;-?4+~O8ZSBu4co3!Vn=~AbY*ruq~pthBi5I1J~CO
|ICUVp@C3;CPPd*D|nA|5$-2@JpFHF7q&siDOAo|f$<p6x^fV&?_We!@K|nYcIk*=$wi$qY~90QIHd4
;&IMcx3kd=Pg@+il4?3w}LKZjAs|^sW2+5<Nlf~D|X5<gR0imV9J`}`GB;d%`k2vl>QO{jO~o=aj<5d
s3}dVft#>+N~LiASem`Blnfkqe$-oB@rDQ?`hXlWJ&<BIHse9WC<~Nw{^|10#rggHzD`U#ZlhUV^_hu
y3H4Ntk0*Bq5_}^36FZSYtO#P&lc+U(m=G@7MKrZYnl5(v1=zeUBxw8A*!l3#Qp#e1wYp%jnAk%oG%E
ND3#-e!&WsvWw)-6ENQffc7!uu%#12ueBgCWL#Y*vDcxc}B54Gae4#?gW4p7Yz&t3FO*SJGPIUgI^N+
k<1j-DExOa{)UI+oT|UvqOrncQ;roJy*}*d)Q1p??o;F?njcO*-|+_SC=W%-gL=7`XmcCgkj@K;vN&h
?G<S)JcF;*u8Han<KC5U%1=ZglDsawl+B4GgTNXvNJZ*SR>vNkLQkHzEJ?_f-Y-spL<ibZ5&Rpvt`?K
Rko@6oW&{lj8%b$@$42O^SKBJ^}%lCF@9tKY~t(avC|Py-f?p_3ug?@SIhm&mB`V(w9B!pa_|&~{h&g
Kr<vNk89c(gp<Pw9tA15Rh;-OD2+OQU?v?mECPTkJ`_I<{WomkNdNxo-i!mO0H4HPawu3K02cFrw$|<
matvAn5u`RO0XOAroBG;j9_x{<1h4I$F_|TskhCq#l83f$C4;|9eh9pxOxDR;jI7Dmymh4p6uOW_}?n
XJHR^#WphmUTXSpXxxJZC^oGt}@fAk22t+kr;4ZS1c2wIJCRZawJ$yjm6jzrG0B5uaj{ndHx9l~t{Ql
@}mHZ(rYY8=yI}vMx-FvfC6Hx7!K;Rby~`S3<)1-yrJdpe6F+zv$sn@pccnz#76B>`RVzE#n%33q%JG
9I+QEo_;~2_9CT?$EqKYzhEKaVTs}!V>1IXLNRj=2n;Jl5EOPr{@jK|!5+RnZ{%QTwXp>PcSo6SeRhm
xA}{J-b1M|#Mv(y?=&1vXqtZDd>kB*u4@9(QfoiAfjQ+8Jx|buOncd_FpXt(ITgGu7v(AWGHs2&f@M~
;eC#S91-N2_VwppLCK%Zldc9W1&E+%wSPjJgB{Qw)rHsP5obps?s@u)?bW^E=MKoZ;D*rt==Sj`@)Rq
f5x?p$*B>}^}PT;KYf*ie^A52*iPlOq87%^P6m>qYp%9q(gC;TH}<FE2I?A__#1+l@GMmK5BcV1Hp@S
TruFqgyngWS*8bP>IUIoF2fclg)AzeJyEdb1?Qd%(bwr1b9_oFh^#w!>$B9oqhDrDH3*WoQxka%u|&W
TE8b7IWdEdeQ@GU8kgEFC7O>f0d=Of3Ws?I@(62KvDeZAfZyYpy?luTk8ok?fn%wf<A<_dN(hllu3nz
~$JbxI`r6w`9!uSkYwtr%BwOxx-2i!aZ|O^4x3S#mT3ssqG^vJZ|8%Nh;Q~(P?!!r|39b83k&)i^`_q
(M)w}Q8Xo|t<X~4d$r#j5LFmUl5_yzjT1#Q6t1h%JGD)<Af$ellXp`L*`A7=mkq`PHzc&ueGa%SqGx8
--zW(42+duNF#h9_B<I8PAfX`=iLg8ZSzX`DV`3-`$plp3Ux(ep`1rt5ijr-irpXo}GMZp$JyA1C{p{
9A5UH3*bfeAU!oTV-0{tC!x?9sF~Du*QYdc~EEHlcT8Jv6OUo7+ti|6x?D2SuzFLfUYMC&FLa*%x^qf
9Z@k8drTcBEngqYWMhpwL{j+aF#L{PtP9z#Z?>xkwsGt0cx{=Z7C39O{5>-dT1TNepWGTOhx9(n<$YG
qo1qq4jvv7KDta}%&|QOw?4&!>#of38c&T7=@=s7p0|XQR000O8^OY7ypI>kZFERiCtHb~R9{>OVaA|
NaUv_0~WN&gWWNCABY-wUIY;R*>bZ>HVE^vA6eQTH7Hj?P~{uNC3cu6H{+U`7dMw52d<2W1NlZV%KW^
+%wqozbk&1s2LNXl(xod1671rPv1O6_Fs=ALtT61PMFg#u8h7Yc=w;Pk`OU|yzqv77|kW^wvwd~<Yib
P_x%H@hldUN=GXWE7k|czAXS|9l$!Jui}7@G|*FzKNmOH~Bm(>MRYKGH9-|;Q6k(E{ou0xoB>aDhs|U
w?&#XIlO}pSrsJEUeQ$fY}=IZZCPd6Ix8B4^)kzXZ=OAQ`rXT?ar3qbk|GVBeE;367tj9o!>jLKyu_D
K?&v6AZ_26(mcQhiqeWG&gS-sn-QRXiRzLe*75PV97V7h=TrQ!b>T6l6Pn)vN-)@rTTD_>Uqo&$Tjsk
e(RdZcs369fI_I93an&26|e_B;#Wfe@f>-BD`iw8+<)Ri*7tn%3rV;-w|U*>fKub&ch7%usFUakQ%RV
dn4tACVvF%ICvCaLO-K5dKk^BH!eNY?O8eL92JW5TiX{JhP!Q1a((*<ke|tLMoEKGiTo#d6y0Hd#FmX
4`y~PRmVJWK|EKuV1}-{vu2BDw{W7!^Ev{s_WoyNu4>bdjP!10GGNM6C@heaqz>7Z|KuV1_KBwnE^y|
%!ra;yvEkI=g{?Wuug8WX$r5U{yJ+CgrVwxE8pd3sJYT3Jx}J>SvuWR(Cw<(;b_7TPv=#Z0=eeN3dRK
}e_LhKdX?1I-fq>KRo+Y&`6}ZXS!NAF{0EH26dP7hE9g9o5iSHT94>`0rZ9-pH(6CvmtSTTe12Y)Z+B
{p<Tuq1Y_W!(VCz2sx*L3(rGMvAG`dpp_BzXS_x~HejDx(MG6CkZRd#fQD+uQGTrH&-pnpT}qA6oH9U
UEg{rKhAPhU*&4-~C3qG1?<DEujUef!bqJi16u7Y|PVa{19H934IR`tggGPhZ(ZtMIR{>ksGG*zX2Do
x}f8{NV`x{3#q`$!DXZuU~!p%@i5L)9+qQU;XdrPo3tP>}_-Zx>>K@B^#KCIkBPpZ=>sG^u>AwO@I0H
tH(cl^J@C+yDy*q2$jR@rrAvH-`@}ui_2;WA2)e;bd+Wb8p>p~B7#zMM!l|aS)PAa7TJhd!SV6&5z}<
Dt%?9D1!kpyDg`%1d0Pat9q_pz2j2KLrb-i->|~8gc@n$=jtYw)C>O+B%~BP?o&=AB6@bPP*bKw$HWp
iW<qHH4vl}4N6HRgW@;tCcg?^i_a-dB3$)Gpv^EhbobyjYh^N-^PBPz;hNsSm$n{JZ%O|pbh0@|3vQm
F%nBSao9;f&<tfNO%3xh<=kAgNHUfH0YDmoO|rU9Pq4`8Ym{-vT1548S@)KfxibvaoKe;=mG9Q7dNwa
*5y(AgLB*@iL}2X91M?VYV%rZSZ}O<yAf(#lbTe|KOXFX)L$~exFrRm4~Db2*UkjHivc9K$H2Z4rbXr
*&;)0f;!pNgbXj&APl8GOw+7fZh_yx5(R3SH(QwM9o4xmx2rTj2w1aX9vaqC6G;bq(?X3&$jU(Fb-m4
klZPLF_Lt9in2^kI4NNm+4AYMvoJDoETHu2Fc^oV@V^kJ^ldS9ISUOpcTKWMIj^kDnmDE9$7xS{hNnP
zmiZa&QRg-U4nLAju0VS%-0NCU#nL#&epx<Cw!h*rB{P5x#jCSw?^mvh1K=@oc*0qc5mdO}NTffDsH`
xy7I|^6QGBA>GTjinA16dtXR4|)#Sh8+JN?bsN%TB2oi2WP=7Qjli&bn(Cj=2<p4>UEjp+tSe)kh{oR
V)^wIR_>d+JH5#qB}$|m&mxMi!CrSco~hxfeTu|Unh0aG*u+sgz>7f%_^B^Q-0$P9X?Vvwo67ZLjGp5
Rh{)hp@9Y5xuPy5wB+F%@uB4F*Fpv#Mes*d*J|h?(t`QoWB0|syD!cZH>8D7R#7=ay`aPRh&ORbq~aB
qu7gup)*yqCXCw{3&MeOFu)ez7RxlkP6G3gkp8=sLjGLs2m%rdrppUa(&eUi63o15$S7m0uggk#UFa)
Yy2VS;ZQo-zPMt^UwS5g5K=hZd^oyx7UNf+T*M)kxHXiWmW1DQvX8&v7r>wJD4ke*TpyK)=cCLonSB&
?HWejSsv1P+z}hY?tBk`-_`0EO#~ivb@=mPuaJ4Y5UPqt$VO+q}7EUb-y`RM{C2b4+6MorZ%F%2(VLE
D=yx7{@8W1_qa?NmC3R8c&LOh7gjrw_D(fz%(~IV4mY3ndR_LHNPH7zq=hKa7I(Y^O%!^9<VAwyM<2K
1Ky>Bk8l!jp423u7?@7;0(94@tRUtu=b?<Rx$qT%;qwgYfNq=v$&yyX9c{U@C^rmk68ufXpC;;6S>6z
tuge<kusP}-BA8)pVW4+?3%AJF3Plx&W>Cp<VU6$;G=)?G{I}j@^L&wKbssbYFyDgkg7%+3eSQk4lxx
t>fqoUhQ<A$^SK%sKCi7i*b=3zfXR1*ciWUwF0;V1b+gi0qG0%6;pT*t*#@UFcWSqcU{_|J+2PFjrMM
I>jkp@Boy{FbXlW3OL%sr`b^F6Te2Bu?Oj}2J28TB0KC_rtK?ZTi+Xc+)EDuRD(VfMB)_6^uJ7Km*`r
Ovr!T1Kv3I2swPK3kaPQ#3*`ItN7v#*_>g=71>75OH4Xl_o(05Kcd=QL3c0CNaLi(5l6mp}?`mq*SFp
BXOETalJz}jF^BbPvZh&Rgt07X@!%uPGPCdK~t@GPHD9nYs;AKn2JT_5^aq;x1I<{t}evT)~oG$W9D6
*W;Hd@&s<->Q-*OgHBC$dw2P>kIBpTGk{%xN75asOW&Q?~U8zKtGrR;*fNKQg4ovW7L;jUFphzQ^(`*
7q-}D8v`jXHB2uA&mxdE%uGjc4fh!TJZaEWYZBzdhWK!_&YC7M)}{yny*`!)x|Y?cwxA;;H%Q~{-;n}
mpL0z^{10IiAS%WckPf`W!5<Yy68f<?b8n`doj$k30%=VTMLy;Sy(>St(78qS%=)O85WY}hb&5ooW;O
RmDaR$TvI-itpl<sl)}*7`sgX{iSht=%zsLW!s9KBEDPYylBjB|D&^5(jqUA50KHrr_u?Kxz=|C_AX6
IdC*&x^T8aQwFWFyfDEIf};`_SnJXN<ZAv0<A6^GFu8wfrTsBHqDXnGiJ}IxG$Yf8Ndj#WKSlf}&;n{
QXh9`hPt>uN;gh(SUza7&<fh6Npy0zhu)SO5V$mfm<)H9SSYz6KmdS+X01f_m>$i^8%czO*dt2JjY|n
#N)wY#`c|B#1-?;`EgL+e=0vwrYyU>p+Z%>#7-|`kl<U))T?2$0VR$U#rvjoVCbooGBaWz^H=z)t{k6
cKrJub2a*hkljQ)rG2)W*7p24movvWeg!d(eAm;R#PMS`w%o-Ig@RsDJ}e%z#M;xZweGk>)AL12)%EA
3H#`9%!L%oijM0N?%1+p3OWXESJ4aaPhZY7Sk<wQ^x_AX(NlbwA!m?8SHIYByT`*tH~CvC-?7jCrW5M
5bx($<JZzJ3OZCuxgg91`d{!R+dj&p!agb>DmD1|DsOf{1oYF2Jt{FGp4Om43kN`2B(~Bc4-{*_8FE}
84{f5XA1V&gE_5vAu#Yousk4p~1i(Fl(p?{giPA&2mi+huBiyabzVtZFKpl@lkaGb$Opu}9tJn^`hc>
uDmk0PwY_Km52ieCetsM+mD(!}b+RPXbs*jr{TW?sSL0~}Ksy;4d#SR&sS_4QN;-!>VeN@4Eu8n06eu
l<f767)vIiEJ=R2j=)@-E7j9URm>vJP;?qO&z;u`C=w*uH|U-LZ-8bkwkeUqidb?LuI9bMo-cvJB1FD
%ogdvj}k41MHM#HnMe67}*@wpQWk*K0HEDpQisN+ttA_cIS8;9Lvxiw>;%o4c#$K!7+@&@n2g7bj*$v
1FU~qh;nd0$duj>S@$|~e1_&v=;_0+@v6K<`%hl0ukIS7vgq@qQUeRrl6?617tcw{b~9Oyz@)>|5O-<
9Y3R}`dV5M3cn=^{51I^=I2I3<KcXSWZeAEGA@0YW2Sl)m0E;nVG}7Jf{^ap1TkF~aZ@I~p87I<}c93
b0GFjKSOPp0;jx4HV*{hzwtl;lz#$xU)D;3#tdG30QZGLsHp6Fo$)s{4S1c%~lLcFWrZELPoMzY0f4f
q<{l5Cnqb{W8YZR3`#mgN{oVhJ`K09eP%s@!hs$W(=0GIHwR=#K3%E~|Wr<BAF##vB;!(`#IJ_~GL8;
U)R=?>i2Cqw>WB3b_zEYMfnNM>d#`QUzIQvvo)VyshDhqUGv!UFZrqV}|@Th*hB=cd>8vs>i>Iy8tX!
M3}}t@z8^|!0B&Ducd$XQztwjwh~SP1A*c4vJ!L^we3G#OR*GPO-sY!da#V4N*hfQMJ_i`lzZpB6NiC
>;b^o68P@kt+Yz9>1lqpZ+xSHoOHp*KM{h39CYPfTN!~ZeP<T|x&3-w6$FJ5e67{3Qb1=B2U;VmGD%?
DX!n}Bsta4t^gaO-7!96r>>}5t~wY`36W%YRSM_#6&H7l=m*j?9bSTx#_?`f>t(GIRqxM$_t{0i`+vf
b@ce6;QFXmlco4q2`RsM1aUVs-Uy*~7ts5b*bf>b$dLKEv$CQfL7T(i`-yt1LLUTU-)D5lrS~3pqzE^
*smjCVUis+RrPfbh|bW;!9M=;7x~dC93r=<V^V7nLFWg5=vMLhR7j*s!??u(oX`HrMM3+DI}8N3B`ve
^}^+n=l~-KUI3kF1R)L7H&AQwdEzcWBb%}^69)IF7&gLh_L+`T_8?<Xv8m9!>T|S-mzDG;@v9q#4Cvp
uHArsPhOHRcp~BrM4JAYj6~cyj^g=>#lHlx=_F03-RMbYKwqiulm=-lV*MleQL0Pq1j)(*9k%4W74CC
e3kIz2+Y|L(qZ@>I>kLRKjk%BmINJ@R303;N0>-1AsW5Z|^&;vVD;hIAdwSuEOU<*mlu@psDba|UiDS
flM-Jp%DVi75vQAb-~(ZT8dfhxm%2wKKelTEzHi)5vKByupF!6P<iTbGhioegZ+-<`Mom%X;FZGBy?(
wb1L)`{hvTduOCXm@wCNTui_vEU2su~IHP(_!bQ1Ch(vWV|Ui5%b%2_?6*f7Ew#vGE;Pjr<xUewh<HU
3crxTwzyrVw2JFShr|w;Gy+ct(?*VDlh6QT1A265WAs)VOZr3W{TKE@l%#8MI1>>t$%ad3sa=Fztqw0
Q;CBzlLR&A5B@zO`ePF?xIQW|-1v|riZ2iug30_tTKLAE?oi!3f5w$~@HPL7kCuwS1(=<M^O(re7eO2
=-W85xK*_G4*P&&XEUEeA?^8Bj==DTk@EN2(36^vmyrg>4RxEd@<dmILix><u8OAv_hBZje>yPpPc2c
@AbgXm%WU=-pK++@{tvgwW6pognGIuD@MIQTp`!#^M3*N;b`i-s{86ZE59U7@{sbv4F4xbhZ%Ka~P{q
i?YFro@dQ9{w~AzHgmpcLs$U3I(}_U2mHa|2v^g&&id!^LVAV98o!fKB4Tnx?&wOsJHX$ZoAgZ&ee{%
>c<^KTSeNw6W1OYpDk`y^=wDd{;zu~f<5I)z*dz-LH8<@i{4gr(1H^%(P39km`3|aqG#nrRK?zQY}-N
#qZtuI_v%qNRshE+hq6e%jp8<VUP013%EE5UozN<_?H?FJG^$jUQSc}@n*`{DM2<uHo$y0eoRFx162T
_4ZIKg-{K1IsdfXy_rNxT1O4lnE3m3Lzc{5+t?Z_#Y#gs_2V|m`72vaS2ZOj{1kBD`Ga-{frkI{oCi}
J$bEb{uiqzPPK3SIUK-VE4OuD=q7Hf=%h_KKe6oA<FB$x)_R60TkZkK+o6#d$q#e;u|IXolisvjH1D>
Oo~cI^9m!H#rADnCvVZ1YkW%sljytjGm0_8$D{V-?(@EFMfnw_Y1|^GGy8WtBp;teY1q2V7Mj*Mp0HC
6~Sfqu#1&iCN&+q;i6+)hv&jl;A3~k5lijc+hd3nJ}RCH#-mfM)hnsMh3PU@k7nd*HFotzZ83JD<*PV
*+f<2X1#<=Y8Ff<m=+Td~>uE|{tHlI)pXLDn{B=a%9nHzsSM9(^nuW9jP_Yt%+2KqSreAnb^YSSvU#E
V$OqCv5^Cxfrg-3%P*C&r`DQnwh5=@Sp^e>)2Q8DH6*9j_rWkg?L1WO(K`0Y2RP^}GobRx-vXA~|CN^
e;)3iG5uzNA86XkFD5YY?n+Ty`~Da$u~Jwal-`mLe{VV$%*!_rx5NI{o2?H?W+oZG}Suj$JL!I!?u*z
%<d)@lJ#?H#!NP>wr*>Fa!0I2O4?-1GJs@2Cz}t$es`0EJ1-U9o4<FryM=DQ+;Z~{_ViSSb9+Zr{nlk
Bq}?BV*kmoI|YljK22r|6IjBAa)4jk<?m`z(!Ml3RdQC0T2%epxzJk%ejP;^l?hhB5u;FcvcsM5{Heb
Zxlp{7^ug70eP%V<Yj#V)So{w7`GS28m;QpSpy0CFujntn;-lYEoVlvJ3wuxjVRu_rX>HX}FM$<bT=r
C~x9c@}cg%Y7&S^`$6{ay1DKH&D+r!U`Mae6#zIf1;l`T@HSHS0vFmZ|x^=?>|dTf97C?9~f{@nsd!P
K3+=;<sz`+L9$-K_%#f<E6zzt_VDV4p|Fk%p}>{9iA>|L(5R5bK3?fK_2snygwRAX7jF!b?~bJ5ajTx
rB%>wgvkhG186T(FVRcy@)ars2hYM9fx>tnb%4aqeJf@PRt|gJnDZKLD3)ZO*X%dww8k%ExhnwCq3+w
"%text.

(** Lines 2265 to 2414. *)
Definition DATA_14 : text := "lh$C4(IbB!6HK7rfifs?ka9ct9kUbK-lzq{XI|(}m;8m<WBC}9M?@n~`|<E%Gy<DsK}O+iN9#poVpLS
?sLSri4STTk5CqbT5Er*A0@D3LB|TJ}q<0Y{>D@(0`dfuZ+ATB0mqjZ`71Q(R`WNl!csaMpwKbeB>po
QQnAS@_w>5-Rt<9CgIDJ2tZ#%l5-S@Kk1F$#&#&JtWH8>zysdb%U)z~16S_W8^2Hb(IuR$O68hM(a&k
gb(_Czsm$qLu-E=W!LO+Dq^7N%5D3s63Ji?j<+K6Oj^2)=YFUY9&n9cf9s+^dz)Jp2~5q`V7}8x`J*(
v4oe&wh>%%%S9d(l>&v*PXcV-EAv#96N;%(op@i9Gd79IsjFC4nT5v@P}B<AgH_Yn*&0@#8a2G+ZLot
E;0%=0!1cE#b;-%?jDB@SgHQh0DORq3RRgn^lLh$!~x?vP~4LO1!e^|x6mnCuQ1CO?uaLOwL4W|7FD*
)-twU{j(SiV-QvDM->tyI-SA?5jmZh};zn(?V<<cR(x`yy<LfG090yrW96DdGvoued3|ijc-eQ`i0<W
}xWmKU<m?|eY24;QSLgiEcZ6kaNUruKUJkXq0Nu``rX}Lu$k`y)!;D*lXuk3ACUrwbbARJOW+b7^~5L
Q{S1X!|9nZ3o~Z%-*qv8RERj0i_R0@PJ5qc0}M(HGA@hc^!&UHo)>`QhmJT_|tP;7tf`!guoGV|elCb
^W@4m!sG9N24!}umuMep6ak+;Rz257QC=v9Yp}mi`6F`tUh(I`pkp`C_xuFGgI&m|GeZsKQe(&DUF4l
;|VH!j;{d+qdOPj@#Pm0v~~RG@}rRpv_C@u=hNyx%IEhKwh148C~{P=X~nceE~k{(ZD?j6n4|nfQ)J+
rzEYyikO$Wwqwif;-&*q_EDL-N<4qzBbtr7zZ9(GJqlYqfQ#?psOe=Rf!i%4h(_bE({^d{q_R;wM<ge
#n{6~CpZ~FT6yVFaZbBiGShm#ylPYJI7Lo7xa(ORXgq9uiOIb8-#K~n+;=JV4qL%u+rWL9p;EuB{`TN
v}<y9{jibzZc|LqGweQ@RZ(WMEUa`k~Svc*gC*lq8P;F18h+L@ZXD^KK{AnSQqG?8!NPm4hO<-5?FZ2
*k(s)cxl37x;)E848$WbCp6{_r^MUnpgf>ZcU%rZH%K43$^jqo)X4I9xpJV3rvea%TBnF+CFBo#n7%O
>>O%A!j4#Ve;8gO-{vo8=9iD@i?4tD`zL1MPt7l%g^n4?ONouKwn1dD=9iBh9d*!s(3v+WElC)=^J*{
*y@tWKokgo;Jxded13`H2-o3N8=#T(&I8rPB!D!SQmqbbu?;k+Ft&AK0ozb?X<R;*lzUz{<elf<Sq7P
1ZP$#VAMD3jbuPho5)$qosf{#0+(w$}!G#3vp5if+Ao!icNzq<62wxC|h`W$xrJ=R`7Uhk|p)ve-GoB
Ls!LCC4TPP`xKW7W2(+Z<<{`LmWY{WuEG?tlMRjA0^fhVloG3^u4@)X0y5Wm&Qs1fMtgCPW30b}BF!3
wNs}2~t_z@DVcnF9ChC+yZ7veXY^KUbYG!O1-K*uAXMeiW%#hq{^}G6P9?VPYccmE4-*yiQ!N-R<#vK
j>&*lFgD?YGMbWyYE7C@%Tq#3(h3D+PG=L!+8X~S{PPt`9o!KF?e<*qwniza?d<R}U=+ZKEf_QY@z-8
uz}gSvLs-RjJ;h;zUYtLC@ZKAX>UVcvu`0{P-CXR738^KRaZUL$W=08`M~az_D2R;mR`QHVZjrisQcy
iae_{<0$?2%C2y|L$MQ1)rM;)w;5n{~X#SAk`ECPP5>DkOh1%wSmJuF2!s6Bje=N;FfT~_a^|6RP}R!
KF6=V~<VpQp$(dUG>PYdp>Cib?*dDW_~3p0lzM{}=w-DK<;e>2=9L0v<3Jm_vtlD&PoMhJrioGR7Q30
ppv~6mY#8?59dy9KV23y@^cmVB|&m<kJaeg;EKwW+X3i-l)D+XZ#hj1yVpZWI&>$u-w#`(_|8Bf~6oy
4C2KWm_0Bflu2OQg$=E-7F7cnFituOO)GF-f*i~X&L4*ft7tn1W6KpOpAv4Q>djFpbP>aFD<IHJQaT%
CC~ksH?@+bO$$>GXA-@v5D3=5y#32+kj%K15o&SpS!?3Cg<u#}oMQh+_ND5LimUjf2f;qtO&ey>I0Xo
bYE<*rEEDu(65aqGK?}$E0k<Ml;97h9|kLsx%AV{ttimOSArG#J_B<LPgwFZ^PC2C*+XAQeYdCk~LO@
l6>FOzIt7Llzl$gg-F**QsWVXQ*E8gu?`6JQ{ROdg*2RtAkB{Po-f(QF6p6`UFzKLKTeGRq0La2_=*Y
*RU1*1~A((m&?t{%$hP1leYqyG7-t+^~}aR1N%v7f+q+SdlQ*G(wm2OQ9n@OHd^e1g$A-j|-|X@fe_*
r^TCX6H#(xZs)x~HhiG7!#7PTYp3h?-2>#%CS$RCdaD6C35aw7>r@|~+&|n>z>UV<O~!UKP{8OcaowL
==`>Wx;Z)B0@x{^FVTmNUIM_1u7#+skne=f;Ifnx9p<_ZT4^CXwTDHzE9xOUz=K8D(e5G<APSXrI0|#
GOj+575g5|~b?P-+1PXGMbySIP-Z2H+J?~-bb`Oe=R78_fIx6r?j&)%IT>-4ivM(@_iysY1ze(^f}X!
Lq!dtivnF&4Ok+uoE`Ut%g{_C5r3h=tRTDoCgL=#;W}zVL!EGYodIP!20Q!T=ZL9LxiqaAhyDD!WS2r
dO%Ac|&mkI<JbAQ^lJUrOK9Iu4R?!Mp9YhJSWi19FO+7GwpKfoG^o?Lee=51X`xd4bg~kPTIUiKCE+j
lU-J}2{aQ*P+pd3<!f+Mb5DXdKTUM~P!i*0MU-{}!KD-js}1GMAvV=vbbTiyTr!{|5~q(e%aEgkX79R
(8V$BgOc~#ukmSRy0!epjGG|Kki2DFN+@kM5V{DygbQb`=G*fF*D#<Bn@j~6aDI$sCDt5E<EKTuOVva
fXeI`_!&mHn{M217*_vj@hZ>4=05)*>w^X)3>ctwpwmxN&2W2IW^oYy5e<^N1KBqC}}nJ1TlFZVFZx=
u3bkNTM=)$nAK9(96kSSH(M5an6$*-JQ-7_NmKG4s|~!uSqt@WCyf_1^;?Iz164ort+E*BKH3or;lV<
Q|I|8~{EN)xv8UO7yMM?k(W^T?e#>`w(Ru2+HL^XzrrEMAXMwA);^s2tFLSv6+~!zN8IlN<BombI|5o
;oGpQBlO_l$HS^%C8TjqWf<#UpZwyrYw$S568f&?F_{Inxi?K4t4Kqp2_LW*2bF9@s|?6=rG{JugsMN
j(@xMaWgbMPlsB!HfOl(XlSPSPBl96HB_|PLck9G3d4V;PY{xXzI}EVBF4^g|EllTtpF@Em1KI%2Nhd
s8yUVo_xy)Sa&#TjNY;a#blVxU|%flV|-Y^ehgv&PH5xzTNCr7eCl?0?c9aHM%cfF_D@LA|xcVrKkpA
0wrX?6yWn2}hK)!$kVdk&PfRt9bw*bKj?oe0}driG*Y5dh2P-P5uuTe;KizQz8m8NGIjTAq4g_D*IOC
(DZIj!3V8f<a-oc;idTv9aXwP2QAwii==b2b0si22qpLH&cu$^JK<@QTGz?i9HH0l>-826}R~E23=)w
*lnD%LTHYoDSvMYU6Y|m@&sT*V@yy~=NKccG8^W_={j4Npn<cM+H!~=fBZ3c_5GLMlSVyJ8P_G1ae>=
Ittw5nEgrn4aP6e7w`+8UfEKR7QLr-Z&EJ-&g(J%Y`3y`%vYX;&^ny;paxzx!xl};|NYxrzks(=&8?D
+JDIwV5J(cP`{<0I5cXb2f8#mdCZW`DYd9y<k^Zu9Fn<p3yUEP10)VpVh!fJIQ=T}bYN~lxdsCQS`wo
cwY;|dwvl?jQ9mo;S+j`KRrE6R_mZk6NR<B^Z&DmO;Qoep{h-(iKfa)rhwvT=mY@l^~ah;EB@kJY)EP
*HB0>z$z+His)}f0HueKN&AwB{;gT+N;0MwenIOyv1Y3Te{H#>N2#p8~F8*OtDq=GoUBe?y&(U7u=lx
GkiS9$hFf<HUlxiQBL>XHM{WFE^p{PUu}2bt4trn?eh)E*m<Mm=@uWgsb_A;_`!JE21YR4w2XiXy(in
&Us583=!(QZUj)U$<!UeW73PMbj8c87LFWoPIf8CN9}sOMUS#iz5MCmguX<3%r+cuVx2T%@zTT;w;-2
0~4;7SQ`7Ha(YSz_u^M$H?86cy?$VnyLC|%PqOo_f?Se_FRJ)I5dBGi7T9foGfrG?7PWlh)6Xsm~a!N
9_Z+UhIayXw?q#Gk3-BdUdgk>K!F35PQ-IK4wF;R<)$P9KKi^Iw3-nkB|Io%?8ZN#U*>%BP9DAJ>i)&
~-eQ0XQAh_l)+Wa>NJeH>Rk-56**69(=MlFN6{C`;`;yYl@ow1PAKM(*dM@b5r=Z-m^VJtYs8w{#_Ac
^k83#%-^L8y?S+vvZEVldI-q=!kZX!xfd+LW<gOIw6f`F9HnV-11H1J!EgnO{ruvmN0%QyiY|Wo{PLs
G=YOQTRQw@&UPIRQPMHcCC8vZUhvn({p&%zc;D_opOlEK|=z;AC6*LCBjTj`;))O&k1hN@{gTOg^CzN
BwzNE{hz}`6Ed??r8Sg_i;u!}qtsRD+vrI{0g<%v*Ywfy%9LPA(Z6p}=x+Za*)eUetcDc3=7oR6&j#e
lT<5Q7A_RgG!$PLZO}XT$ma#8kptLbfx7c%D%hM8EK1aC8p0Dd}=Pa^;OVV1oAG%gyNu7W=9ljec-+F
&K_emX5vCA-e&p59cy+oT^X158X5Z9HZn?+X3N8k~vq|V9Bh;zfKxoS(&z>Mn&$DP)iSwN~C2s(ym-6
7)a)FP1@p^kwn?uOCl1C;pyAq<1Gmz&*F^2?`yC(@XSWyy;5P|R+TS;$8~T^ff$^Uu0_ON6>^UcsBU;
2q?yJa2w_u|ZvcZ7E0x>jHG5QQK80dl4rpJmGMEEHC;LAv!SlZ?paI7a83m?4#Y<fgFXCcAL$}H5CbD
MRAtUnTl2?|hd0nTxyJ8c?q8L-7J=V;kFbJKmsU-{-g<pTsjs_j#&Q1%owhqk#tUMWKXfnBr3>rQl4K
P0;H%qC5{d(k`_EGm_qxWTZRZss;rhgMtfNCeLW@6nY4$2Dq$5eFwKf&|!M<sZQ4tqa>H*`NfJIc8Te
t!yQP3V2HiBP0SvI>Z`V{n4b=0lq!ZDI?#_?555%6YF%Zl}-bsFXf8&;)9Cb-qIk%hgtew4^NHCGV)d
S@(#$L`f@k?&9`LgM^A|sJT8vsSi<Q=?5rTcjcB~t?|?-NWWy67bIGfM%AcS>grQ7(aHZbYxpCk7ZKN
q0klm5WodZ$w#$}ujtHIBf>;!1!SFIFULzYyT7OCR>~Y@uK%ikx`8J(A{Z1hpp6zpddbcL&@K8#-D|L
gErE+i>Hz?_4z!BS+U%HzO_oUsdndRs-kmM&oXGOMvYU!4OVcPZJ0nx6I&X1ks)@DW%$&%h?E;)cdN=
MJTsYc%Ca)R(VUhRar%BANzZ^<F39FR(4AUSti<nT;aC%jF^iSgYWP3i$U3{@t3$pFDDj{wUro_r_x*
og`vN|!%&YWjK^TdYk|tkd)unS6cOAa$eJTfDT}t}E|)s!4(Ysy&qM#VG5^YhYHlG8-84u-DO1H_t)F
-$8Pr)1_vQ16_6O@pzE-fQcdPyRTL7B%mlK1>t9vqx$i3S!GK)jv+`~?M;b=P5&luiR<rB0Q-_><50B
;w0(|~?g=Dkhz~IC(b-aARHAAqYCGy;;~3(qpb(R7jPDmw!t*Rpu`8ZEG6<^;Umbji%p17%w|hs8N&F
M~*5!M;O}j9z6kdBR_qrVY>Zxzw=>dV=g?d)CU;EaZEVwS2@AoZIws}5UNB0RQbh<OWkIvDo!cb4j^^
1C-QtI|Doex#X-)-$Efb4E`5&A<o8F{qG!AR~v*Tcv@p$agsw{r~L0It<9Ou0KMMrEg*tGdVLU6|;BM
AzSdY;GgYB@6+zTMZ0PW)b=+BAr`#O#IjZ%?zEx;<2zDmGllo7GM2fm)Dq_+m-_rAV$|E?Ezk=>5_tS
csIt?`1gS|tJ)@g8<t}u@8;rRtH6fSu9(`s6JRW7u_pGwO!XZC^z(1P!vREP^gESNL$M1f9WQ`Ak4;?
P(<b@#JrGY@VzBNZ=(?#;Nc8(hi0*ovA>@!zJ9KWw?;b@^rOP%e^=I`~4;~SCOF`b5TylXyU$<4>WR4
Ox*57r8C@(~5pPg=zCwCg5yYO|d*Xh9nLRU8|2Esq^4uvtND5e_y>FXT$bg#k?=oasbo6F!GQ0rjP{d
Wko!1`dNY0qT#j*_AQ8mFGr>kL`X4%hH(UiWsuI_UiH&&1?W5TL5S9GgN>_#{RK=7hSbtOpudaq9383
q26^4PKp|@y3-pT7|c9P`FgyO|{3c618tyGZJy|m2p!%-%IW8JN1B)Bf^~VOJBJo!PQp3f<-S7b??p@
RK@;;Alx<pIpZu!0OJ;n{i5V<@teBr0Y)yRdONEzM6GCADJk{_=A+528+M?@9$2@u(y4E1Gsf&9Wz@h
DbdwwA`y#ugua_JyK!NmlMUvfXb@Zt0`rkZw!3dC(MD`tH>&#d#cg?{hHyD+MN5Fdk5p(6+octLgG#8
fJ1oqy)%T)c|x9_Uz-NO}jDY*q^VD);iKj5O4gS%lqwg=cjfFSMjL<i>e4a4C7pW8w?OkMCsr3ut`wk
F}}rW3i!`o70&+ihZF-Z12vW#o^<RS8BEsG0MfQn~2Lik)7xl*&lQPauOAr#w~WssK!1D!{yh9i70->
B2G?=I2kJ2cMjM7To7gpFD_<oM3PmV2_dLr5tn5p~vm#&w9j%xiGSPx5;C^EHo~w<$b=V<NlpIlIG<S
{(9nW40)8$Yc8pi&fQ3OrX0|HzkB@c)9K%zzIgfU`|qYNp1S9%G0`BB#iNVYx2KmMjb7Iu?m0_cg|8z
_WO$C51V>*W0GO*s7e9@#`sh!HmH5Q8!<aKG`EzW3Bgvmk=OG<>vTjGwRr>63={IE}x|0Du=CtwViDS
I;$C2cHx3=`#g)J4TPn0gtnkBnN?;UEkU1QiKNt)UorPiI-GX{^-)Cum;$-`)lV)mC%iV9Zf+I%kk2?
B4gOBK$63pQywzKN9XP<rL^PE-NXo<nDLaJl$8t=bg7m|8b7sif)XWV$hONor4AJ)P}{5nkXw9cOV{?
n3SfG5uAePI<c2T5Sr(Y7A`FX<g<SsEhk3_6{^!6+;khY{qPNALp&ngG}+8WBETEyBA^GL!!H-Dx0ov
u4%ZuBO8iAY*n@fJMND3_JS(8B&Ux>?j^d`J8GmA`0Yf;eK~~gsN`><Je>x^Lw!Ak{G|7Po#tfjXtLg
$@RS!^0dP7_Wn!L=F7276RD?lSEzyJLv|;Ic>Rw5v*ed(Ek7D^0uNpa}%X3hib=j&zYzR^!MB7qrAv(
muWq^*__w6O4Zj+IjL$~zUr)pzG#UluS_*({W)#J77XphDnoUIsYFXF_Z(&hEhg?hW$P+rNubE_Ve@q
`W)qOOrNr)v!HhdGo>%_tEPasXf6d|67^vK#^H9R3={+4h@>rYb+SWP!|QDl}8o`zb?T)@$$7NswcL7
uBp5$io~$IfzmWlkxyssWZ}{JvRlLcr<-Yn7wjF(p)R{)T`?d#6HBU&~c9ENsVVDYmBLE@;Bz~dH#@i
S)?vwXgU3Yo8mYI<~r8gTbE3z`7?|2`tLG|-qSqn;yHINDOH@e>&d#qB5<2vW8LS$r4s(iMhKSbuis;
LkogP4fKg&qw!z2;6)Z1s$Lv+17c;O2`*yP)H%+$QG%QRB5N7ymr-L)56a*~R`3Ks|;jR3Hlz5LqNZw
eHCS(hs_|fTJd84tG9ESQz>((rd{uc19)XK5;M3>ROJscT}@+%7YP`gyBGklHr)s^bc)fM1SV?+&#hw
j>{jlSSAyt<;ELp529b(aq)*vt#sk>fnFFiWzzuf`XLv?F$?nGS@|2cUbXL8f@3<ND3LwlTXhNGp>NZ
c?-Q%|itb9g=UzkzfvIO9c|xy&5<ukOa*Z=UeRs;^`DHL6F@+pF-erjes69vCa7#8*`#_&I=#)PGsjH
m!U-xw7Y?h37KTi<>7Py16KDfW!2Pk+2TSA#YQyq`tuymqvcUjSKxB^<<Fo(68KhTZVTpZsn_j9;U-o
0O56e2P<ypAn}Mo6X&tu9-85dr+-fTtLjUHf6`WyFvz<1Dy=u@Zuc(sE8=G`GY;VB#0gUJuyfCYYG-4
x1M?E;_&WS|~`+6YL+BLtZVsF+x4;fHD1}5BS4QiW)VmnZVu~>Vo%#KgOFR}cYetIMpYHF>1rk3iM;v
1)Y-?5~iHtzLiSN)JK=UAo46p*z$fmkXM7#)>fWlrJK(dopWv{UXS#|j<vvtgIV0a+bps8at4HDfGLL
sW4i_&Si=p+U@DV<_mP$zbBg!DP10S76fZ%MVkRfqCvmOAkHNBtWjNa4M01QJjr+ce(cFQtINt#+3L8
PI+D6uG3ijzd{~H%Y&e{#R{Z4T`GbCk;QgGIZIS5vN55`$FGEfFK(@kS>r8HRoK*Snc0}Rmt2cMcd<<
tM^mHn7~(}iZzzFqJLZ^SZgM5Wm0p<{=dy-Vk@N5)=Oh@o@zrv9<#D;XG6)n(Z*;KG)fFwX5zQdW$9_
bJa;E69p0;tpLs%Je(K-(?KXO?&rxFCo-W^N(6Z!98?ToJ0JKFJ7`U4$vt2s9{gJKmz*T1?7w?z#t*X
Z{R0aK+Lm<w4QWD{|Z6Q-(YNO*UWY+CEpYU~PS{!Jm<^Jo}HZgO+pE9rT!+)AF`iIemD*5+$@h3Et38
(=!-6^|H8Jo#`!fy5@0u{DME2j$J7N;cC!2_{&OI1Z>tThNb?25_$=pXYc(mK^O#`+(#A7R3yP%*617
jIc5Km}YM#7_4hzZ^VCE(!*TX?hPrdPpQlMd>$QqoSd7yl<r|lB(n-2R@$Diu0r56Xu17)<H5pxknMR
MQ!E;vyRk*R0jT)wKZq`SBz(TrKzPW_$aN%bj5AQ=;gowBvd$i}UiYp}+mvZ3FDX9Nq-JI{Q?;C^Oz9
M2%Mqb?X9<6xKtH=%jt7|D4fsc7$f=f@CeB*WJ?dFU$?AGu{jmclu-5RxnN2$TEB=Ej-V_$r+|6)?59
_7p9<)4OT<H$i`GALEAbEu2grK<Nj_bkpljMq(F;#5wavrhl-?axUrX806wQ1F5>E$h$se*MUjiFv2g
-u1>UQ*0Ow&T2?$fuAuQKOVhG<)Ob{nV{va-7M%dV=f6+(mHk$Of6Qr$6s#R}sat40U*~)&n4o*}cW?
sj-lef2W4=oq+Aw737A~H9Zjo%G;`_%JIQ^+*&FvhAMMN7Od||qa_YcLF|AnfdS$7oN4Dt5Az)##zWO
}f*NtrqM_r*B!~?tDV2zZx?}IPK#X?Ax-4H;P^c4to&hskrTi-@@vf<}_ma%rhN61~!~i0Dv-`*dKH*
&gR<d@36DJs(CcdfAVLgAv;ozzQgFer72aut+-h$Y-YvFV~LI|TSXCIEIBGIzn&nul~3O}$s<~JtZ#c
P-%IuB!K78JASfi2_H+0K?MdrfJByi3H4o(^|k)053e?V0Z3BO=2$@c{F^tHf4Mk7LF1sPv5DFs<HMP
8*%k@_I8o?|7?7)>e=JQ4!yivSTysL+}Xw&5*=56|}ZvG2cELjcf;|B4iH%8v@@kS4A68Q)!W*Pw@Mp
>`N(mPZBRv<x|RdYM_9@r|~|Tr^fqf+-{HJWie$fi#(4~EnXDrXFK#q{|8V@0|XQR000O8^OY7yp$jB
<Ko0-_9yI^}9{>OVaA|NaUv_0~WN&gWWNCABY-wUIZDDR{W@U49E^v9x8{2Z*Huha#fyA33=}JtKzU;
VhGG52o^)$9Kw!7_2>{TEVl2}s&OOTc|(~sYC4geCo$Z_H}Q$55IE(hm+1G2*=yAu}4ILQ`!tSaY|f8
xk!XSBl(Wxgqr#j<4nVZdH~|KjBY{`rA@*py3|u?smb*SrwyovgB$mx;_m*mWTUdw+a*bb4_VmUkuNS
<DX4PA|`o|Mm0b+4%(y!n)DZr%y+RDOZXWA}@pzSqV6>aw%AvsFKM!n<uGIEXf#WF$@*StkS29j()F_
Tb{xmR!W+LnN)?i19y)ZEQS4duwTiQV0j^DsaUCy&P`UiEMPuc@iJQ4pQ&6d00sL~D*LSvqtU#OD;6>
{@)piWliAT-ByvQ_Oh<B+^U^Mwt5^VMg_%SQ?NlVQTTzr#SiKyLM$;)z)9IA$vya{h&yu-NrFT6VAx5
HrVS`$@5aoLs^QY5{uf%j3jDY8yU9q`LQ@Iu~n{717D(4Z9{~bFzdq0{Up1ps6@ZsWU`r+X6^62~&fE
I!f2A28W)z#H{_bT(oIC>J``jeBR)61i`)Az@xN1fF>;qDv%&Hhyu{Bf1RmwyCiBl`pYTmVv|h-7Q2@
#X9{5tYH-h`|SBaL|$RtV+@naR<#3cX=ucs|_^2QKeXsF2T=I6htS%;(4BKaP2KG5?Lt*JcR|BLd{q&
K^$v@0XqR0AZHO6(U(}v*>sv@NjaVRN~Ckp9InLvsmz2y)~>hTk704b0eb=XfOe{qXA!`y7wqM{;46Z
&$1Z^a{02%|00U&PLA*4Df`Q?PA{;yhkqK$%KB!`dniBGv!oR-#oylTF1GG*SxDZq%TE~761Z_}YV_*
*etO5KTu2&*&F9cQ8BH3rih4!SKQKIw%P4bTZmwl*aX%ex6565P>W-xLepb~%EOnrxPfhnT|#10ZV;f
LaegV?7}7N<|2kbAfQSRvD@Y|ukKph>7kr{?IGhPg{736iUg^<sK_aenmgF@1S^e6GK|KmBR6l{?PYk
Jt68Ldw$Ra<jeU(G9M}70vow=C~XuL-^i|S87>LfRc+WZcte-;b1-2@Y6XR0Qo^{LbHZc2@Mal(Z{vH
sI_ViI)p3H>C%oibXroSDJ^N#@;8}e1Z_;4Ixw|%9Nfwz2E7NDq%`9r;GbfX3Hz-=N014&PCyf4IR*j
q?1pV*^`r-hw$jn~&9~SDy@f0AyqbR{ES=)d-kM}?<?iEr(5DtZR?bEWzV++P;r-Jg3eBx5Y1pLAnJl
ed-FG6&-XX0vBp%1cNhRP8xA>=n7)**Rz}m{nIN`pJLNMA#S@Xd?a7+k;i2@mAY$m{`rx4$7Yk;WN!*
&H!BaH|b1yq!3oq&IGJWz*ZT-jBn+I9?`11=~;R`lE;t#0#c3dC<5rm1_m){aRJVxMaBPdN;Pq~^;xh
$cu(0Ta~lTl~^a2#D95sYzAf#Dvw3HP6t()&4u4s%>%XT$ELjnT<`Z)x;@TfH!V!t$$eNq8q`3#w_m0
6-NorxNRIdr3qs(s}{azU?42O;hFLfP+LFdEM`v}f7-VgkOd@yV>Wg4Nabl#cF)ESBqfk|nLS!pGv<4
6u=m^>Sl%L1?{fSb<gHa&nt0e~XMl4%pg1=Ws36(PH&0v(vEu1-td6Yi1Zu<_(bT8)8PG=3vH*UeLi+
QLdonoxu}>#Dq>ws%Y+2$iew~(8o`M5IJeuEtP~SOgC2R`;zc!m2I)dv)d!tnFVjw>_#BoXxB1msRFR
iAAy;P~4nY5<bfx12vY66T#Q?2n}oW^?U-&+jlgWg9~iCKvOIa)H2V2+9MFlC3yLonIsBr!F#PoK=-7
!$ZctmLg2+HF?#oluR0c0>(M;A#ws#+$39tkM|W5!F;65~zO$0}#`dOae6%LkHfJSb)jN!Rhh4ql?Qh
$$%8XYp);j>9Z`$eDC@5SVo`{R5pgPSUj(xJy)_SB7widWw}as;9PLGu^MDN<e0nwpQ>xb3<xF-12@U
4e5}n)RfS%lE7z=A%|IgH(%0b5lmiO*K?T8>0<+P6+9*<S3l^$(gp7GS!Wz%REj(TGjSB`82{4KG00~
c-dZkc$GahSk1vtNuj+ilthdXe}WdVgVmeU3z{KafTVL?O*FCp<Go&)9pGStfEfUt$nnEB*Wfh;=|ka
FR$83~%;qXCbd?En{6k|CHuo6thR3IcE}rm>ZggUQ)XkO|5)R$e#wx5P56Ap#i*)jQ;ah$Ado@>>#`1
7c8omKVrS@+bt@0EJ9aLB;0+!Qe|K0PG|+UO}a|;wckFA&W`06wwWq)vj|k(DwJ4mt;{|#lqX`xns)~
"%text.

(** Lines 2415 to 2564. *)
Definition DATA_15 : text := "up`U1zFRiAkY=2LH8sn9^B1)*TFPSovZ%IYgC=CId65CKzL!b2zG2kEzykPL;nh-f#6hX3LlxxUkD*E
*YW2YYyPvFnIbc{ru=+>rY@r$w$XhJ&)6K-N)8;MSFpSQ}`#Od#QaR)4<XdV(H*a%44_Ai)whVCv667
^{LY@6JeYP)Q&No#m&7HrER=FJ4gt#1iAdoL+Jow$JP~dsLjbiHJZC{6mZ>5>KAJkMNuEE+c^&l2~8}
)4S=x?l_LwtP@tcUY{QSf=$;rG3ohP}p`g-)W<XVd_XEGfxwRQ#N>Imd0MC@-q4t3fS_x_a>_iiV`#r
}DFA<h6sHOK3wU_Ngg>Ecjx@_kbkG|8Je#lF_tVLu3NxA#cNu82Dv{Ie1fEM7+Z6ty3ZHFq1x(VwI=7
6jRLO+O;XiwtDw=#qUuGshLS2wS0g$_RRd~wxx^Y7S0;#OZT$bht+@o#gh@FQvfz8<O8a*TLZw^r0b7
8cEEITE$8>=<yOgt3niT_?>p$}QoIp5C~hh;pB4tF-Y;}6j=w*Cf88`jY;YMjiQ{L@srTuoP+t$>5jg
Y%=A(c-h8yG?$JV8E9KsITpV8|DoCGS63M?)wQ~HAHa_r#LvT1GCRcn%Ao6G-x+^lk3oAqk7yz80z@@
(H|o7N($ZuU-SpkVq^ZRzPmPsZI&aZ6=iv6p>6`cU^l=R-6UcRARHVy_H&FJ9MQU%qBx81}r%0G~d(m
$`(V?sicJ0Jx%g{9^C=dN{Ta;|7#-NZCHak{|v=mVne>e+6S|t?6+EcyJv&j)^btXX5>K)n?X{{XbKI
I8zW~!Ee8EjOF!KCbcbU3#Zxv`XONw@?~tdWcNfx+O2zC4~j2Nu<RymI#>=B{B_bp8PInBn5bzX7UFK
`n&LuWyO&{6lr0qV@rg*a;<I!^$uC{C1iClsHT_?YIzlxZN`62cG>)Jdoc)|7cN0}^sIi&G5eNP9(eV
V96sN=b!73>B<uD}vUL~b=!V2%oFz<m>Myy0u>X#Qd<(YRSjbC2LxJn@t@OC{4v)&ueBA3Z*qCklfp0
a2OsY3)Of-H3X_|!}}7i@}Q?u5PDiS7`>*?UZ-TrIIZhV=c2-EtHyjp_#Hj7K+iQ4Q?v*~Rl;k}Q^M^
&_pKeF)}+N9^pvVa4$r8wDt0>VuXbX68H5C?NIG?K!L3nnGB;l7)K@jv^(jpYDeF=Bd8-)r+6brKB-@
zk?jdf#)+`;9!Vo)NovM=BPkpHj|}ouqxqz?a-mMlQya<hs;RC278&g`o-u56O(6Z9@>31EI%nx^+2m
^QcX+*nK*lD-J{<;+mw`!CwMJbu7zl%0T`^tF4k=tlSL-+-AjT@rn^}sI)qt+szo$zAduc!%2A&UJW`
K_sTN;qb}KMBI1y6Ty5Eehjs%EqtK<n5EHFmLVvm_SZia^F-48ZrA*(41o~e}E9&k(rlJ2?VS{S0Y0O
p-hgB9Wq*$<@qYLY02Xze9n!uko~9w4hP6ajJP%DCBPu0GLMVOY@BH1g!07b83D*I$2Sc$1;Y*N=|)O
oF1WZGYRfWP<pn-fw#d<m<Zm7Kp8GFIXmR?SEPKI<6gPtN9*_ly89eRC3ZoEG6s(7~XHYxm){s4ET>8
d*H&^zTj~Va-WK{!1SVSLu04}FQTPS&l>vCw{yKe{I0|D5rx+cX*B1AtZqgA*M_Wfy1RQ=$a12UHuk;
+I{JD>mPdu9!0<r2>P8_HhSv?y_$Uwb(=ARf?d!@`%p?yTC-X#m7l<#B2)7zZTcaH;sXqW^HpM9Y7!2
P+;Il*~!bQkP914vebn@cx1ibG|-&xZ%guKi#jOd2rn@6Uv2wR=$;i~tqwXo(Ca~qF*bnpBhp!f6pm0
n-|!m39peV@9=tNs0oe`!y|;II^FI!TioC%>}!0BS?++|lP(DQ}ugkV}KXDE+|K4xTsnvhGH47j`2ag
*!KvX6<06dm&(pH5@`mM;;%<MHjd>x-}vIaZ^yz+_o`@`8qf%yUmSu!Pd7?7Tun%B+5P{ZFCVZ8PFFa
b>}&5ucJrY>=g~p=2miVFfe27Jp;yrx$?A>Fw{S|e`pJU=QSsqm#sjCP!Z3CzwHH>=LM~{m3hYsBEa;
pAFm()CYVV=7KU!d>Rz2&x4E>+%Z*ct^+@zOZ-Vsc+xVd$xP9E4V4>N99bC7-D3O~-jLz#@L!cg|mh;
t>H{>vIZ-JBdu=;-<`;M7czOX~H)vwY2imp|-iy)g*f_@A6z7MsvjPM{E1XIV-**GIMPx+$D2t76Q-f
J77%}lS_?b{2I;J8gkjxB%rAXkT*+iuQyw|l+XP%2$#!{FfFCi6K)drTRc{J>O~VeRK3(CeZAatW+3V
=1(8n3AerUN%0-*AJI4pQy`9T0c*sEpDvE{ysAOi<BLzcd7o^HJEldHWLxPck)8BENs@DAC2|nDhJ&0
$$!q!0jvuN90O%?;o}oMucX3GD(&SpA9VGb=n{GCfTQww1ClC5M%f9RyD_&J2+C})w(wHlrnTU0uy%&
(MB+NAb?F5gR{Gl4#UP?mH54{D!d3@ReF(jq&if^X#(?=zRp7(KbhBq3Q<DpE<TvPVKI3b4*jjk_e-x
Bk;t{G@l2^tEXmqS!-mpwKMVp3!|Ji|vHqTyd7ouDzkr?oa=+|7&W;sSPFFyY7nYzZNmP<!VAu-viW`
5!M{+m}%uC4+f;RU<FRS4;@fi`yCSl3fHPUQbkO9KQH000080P~d=M?Dd)0*wa%0E!p@03HAU0B~t=F
JE?LZe(wAFJx(RbZlv2FKuCRYh`kCE^v9R7;A6aw)VS!1#f~ta_b0fw&7kF%Yd%Ph5$obEZM#Ufy!94
%~=+8Nh*mq^uO;MJ|t42bBo~$NK8@Z{U%Sz`KxoX5*2SYOVa7}`G0U{b~-yH??ro%e6!Uge?KP|Z{A*
<!@qCH@4TT0azp>%Z2@4v@D*zmtB4jvZyEV?&|A@v8?n|;R5J3D=$eXZ4tua*l2G8+XvrTsE#Pe<8QZ
f)Bdr_8$S>FLuRh#d75Z5d+EnEI#}Bu^UjO*p?Z;nla1-EWCnqPLs8m2~4J42&YaY224H6=IDtAmOvg
a!)&THCiI=W$`Vr$-joV+2Qu0D}(zWuHMI<pzyw?YChrTtPUzfy;O+16A8xBYCkmSRtemDsmb6aUp{U
BX*!v@r@Vhyp#EO{otpQx31wy!KeUDIY=d*{m#SU6&=fBzGBaG?T4lI=i3EW~-ViMXnxc-BGYtE*}11
D?MM%2s|i1{=OqM-*XMhF%M`g<9xxMft*qxkt%vTvk)zl2(5tgUuFlNjQuxTlA7)xDoUOg<gg^q<nod
n76ZsePeFbdL9hf!Ooca75b#e3QYRRFKY~aw`aWjVh>*;Zz&n6O-&0EeYeFR@F%lc3{$foF4i!(VD$y
ZqWM2rY(#I2!gV(~p2HadsJwhyl>i{l0Q^lFe$eF=#`z3GI;%<3yKVY7c7P12ZFQQDiGLlMGbNW!T1%
V92<bfnLpNPPhfXWl(Ib`*QX~K$4K`x4a7Z<M=CM`{>LmC05Ppl`dx1nScP1YR*`Jhe!TBx?>I?qV9A
aCb)Zvtg9p~{Bt(Zxa)xC%|=bSqsZAyqAN_m<D+DOfN7qY4T7t-@{PN%%qH9^P%G;rDd41%rg}ZYvF+
tR0A*+V><}l!5I@3EFdAmbqf}dSR+7d)Aj9M8jO2z{l4Le69hW)0!&=zJ$<Knl>v|%zA(&1Q6YOQcH5
ZCaPsCzUHi25OjhfSlnwNcHsH0#rW4-2!=gvTZp_O$rlAI98t&!zk*8j*OwSbiB7H<z@Qd`st}6hTG9
=g!>KFQYsK^tMSo@{!Z9C!&DyLT>8CAUZ83aTv@^LvNh<~9#Xc>&XIs{+0lD7383cyc>`Y=_=7I2cR<
fo2A+I9}_wyc|uSpUFsvP_eDF#YfzOR9CQ50Ff4PB#?4N<Yhwvezjlg?m`sF>+UFW8I{htoIM-u>j=&
8?w9kVe{8P7L5pwf20oN|d&G^%5+Md*_3+u6?mU)CE~{umgnLOA+lFB*e4#uWh{;Tb7D-^5@T<+UL&@
0&FN!6^9x`4+zAhgqE0A4ZOvb&zRhj4!iu=M^P{%c=UM(Bhtn+hinhuu*RbavM&)7@bps0)CUrGnTN>
kft-JdptU?q(TyiBar!B+X?T@hy|Q%Y5dwQ&u~w6t0~Dj@E3^_Il7vvGl2JWMSXQ`Xoxn?qwJ4yQLyy
E4>kHz#-hkMLkh5x0mS$2aOIV@iu)zK+^8v?)bRe3~j3FmNM|%V)5*T{Ru~S0lCSklOvfM#o|D}(V*V
usPS!~=|eYGWx$}3TqDT7Xpc~U_`(PY<%C$fb<XzD)G$QfGq1Z!6^He8;n`Fxz+q3z~z!NIIAckB?Pa
gZ0_CWgcBIE^p{-)Va?U~?!K)W6s$g)tUJUsg@Z-7ptf!<dn);FaZEAelfwC__Erw1D7RGt$KZTC!Hm
4-jFaOoy+$0%!e1!H@lysZ+r$p-X#HSu>_6A_lbAsChz8gxm43Iab6FTK<n1fmz%#98L>Mmv_J^%8P_
RBkD|bwf1T{kUK!Tf59*@Qmj#o>)dV;BF8=mQHwV1)tG+YX$IFSm^%YKRVk#eE}|U@45m89z(*Ov;!O
Mk@Vlm(#y>I;(qV@N&K*JgvtrK?Ft;eUYX^DrCAK2=YaHoFsMp)&{j{<iv&XbLJBb|Ykw9L~qZ0Y&K{
C4g3Llz-wLFrV2%{*BuZMEAWvg9YZ<Vbc(k_l<<*n@EW*GPJo(lTv2Fis|DFBdTfT@n@0)WpcoVbh$)
BJ{-7h~C<mjoFwNAeil9dJpO8pl1sZYPhR$fGEIl|pWCUPcmQOCKph`22(ZhEJk?UAy{a<A<xEeyRCz
vT?fmT&>w!hu<dYFtJsiHc?1n+KIN0LQKFvd7Ha>pj;=iqL~Yq@tpW#Oh=%i1?FLmIX>|?^8<#vqA<G
kmp+M_Fg0t}sIJA^Dj5AOrtJ*oyd&Dt=#j8sQi-_u^b*~P_8!$Ys!#M7O3YO9xVjA997p5ee<#;hRHU
IJ9_uXj)HUrZ528B6qX&8_O(k7FjM^1WGcUK?qlGTriyh6dA164)P52)%9QE-D-~ZEy;^<C>)Py&cmM
^-|kb)ER4B`9B*xcSKFMu~&b(jNX;-bZ$6t6uRoJTF9Yn_Gz^){+l%bLm@Q=9M#+ug*tTNq1VNp9g7?
ufwv-%DoCsY`Ph@}Qt&NMRzgCFY084zKUc-~hpC?sU2~q?$l?*F2HZPP^f*dV)6}(!)wx;L*9w;c)Rc
P)h>@6aWAK2mtey7DxD<?~7|A0063$0018V003}la4%nWWo~3|axY|Qb98KJVlQoFbYWy+bYU)VdF?&
@cigy*zx%IX<K{_|otegNdUti}YrV;2>)XW1vz`5@*Hz>ZZL8Kuvy#S+yUqW80QfCZnsKsy?e(2syRj
t_1VIo4KmgiilP424ud=+n+GDHsa`IpJWNUkCn?0|V_jP`C-Lm-ki0wYz*=48KoV~qoud9-sRF~~tT6
6ZYT9sMa=2ba`PA8nRSBKAMM<=ss`=MoNnX%_@j!usczkGN4=J*63Lc6U;j~*Q^mIYt%vZc<fx@0YYf
6dzzz@_Z6s?}J_bbgaw@rJ#fy=|sjTPLgKvZ~vLrA5IOR)<9j596Kb(=pqb?%;oR$ArS}^eN*Xmb}hs
z+yB-47M)oYQd7^a@DSCo+K<^AY8U8b07&%ioE4@S~Oc*@&!JfH=-L~q<NuwEO^rZh6%n&F7tw`9)E4
BQvF_3S64u1^=HkuwgjlD0`nqo+9JQ0eVFql5@ig?-SWDDUz0?(omY!x+NvHWZ4Dp~-;7y9za{Pck~d
@4@((TjE_*G~`UU{0Zg~kaTh_dluUD;^3-qkhd7E6^CpY|l%&vHw&@(ylsl-UN$M?<r8kTa53-s*S)8
w1k@yX$vqvUwDwS}|hHQQIypF;ar^ej%2GF<@OM?i>qkv5H9{nvTZK-*beS9RQ_%4lzk!4E9p0TA)WR
bKPVutDCih3Jhd+y(r+DldzC-mZn*wtTT{SzEynX~uvV?`mKNi`{ZwWDW2vEC%j_xrDq*i)m=&cV*4z
)m54Qjc4Bo3a&%qU3pVhccmFqQNCO)E_fXr=CHg?i#%ITIRi8;RvgKei>?H9n=MxtFdcUA_E2n1q-&L
}fVGnZ_8sh&eRdY9VWTmN-hTa6a(MLeO)@)r{^rHu(O1sHx5u-Wv*Y903&kDLISw-`h4f*o238R_JxT
%SHNjpC_foUvL58s-l2#F+TJuX@BNs>lP1&ESCBIx1#XY;rK}cM{`dp{w70;kKtSJZvR+V#(49kA~>^
C_5Mo1Na!U4?v-8F|D+K)b>073>3NM0Qt&8WfQcks04v_}E)IQpSv;^&9IN29G|_t{SJ@^JR*#R;^FH
Ss2rACO*0up{ta>(SdHZBe*I<1Oa?L?^2S?Cg7N^@2C^I;Uk0H2j+1-&J+iV9P&M3qDzbxWYdURv=<)
^V@{vS^&bUe9p^;!!)*%U++Box#uBiKQWE|DYJu?&v8HHu)V3@3)p}~m1dK7$FK13Hy2G+@Rm0LAaCp
HHqSVraV!K=qv`ef;P`9c93q$nq^DO0kM2+%yl9MPzxg*?lh-L6Q}BPW5aut{!CE!1?}m#wK?xaN$-n
Y>tJ<q2lFiLJ_4U{9g$CnvnSFq>w@eGYYBp!A8z}(V=Z)_4LW7T8`uadZ^tQ=@*gxC-kN@Yn|5H3ifb
-k5<z|sQND9?#@+A@dgtx2Z#N$K+TK0g@*w0XN)Xd_tdIt}$*SL#{&!uZo!;ueOy)tat@HQUV&!(#-F
fEU*(>eU!oO(U)wFC~oH@gLpntgYAd;kivt1#426p^m|L-S;RAN~_RiqHP?==_V(qrXS+TLiyFBWQ#w
bH*>3G7ol19W7w`v3w$Rz5G&Zjr*jrJdO4=8NmQp)g`lLPOo_3_1X#aGW6){wHxZCsTA(D8^qAij$YM
i-thIRwIYQg)&*}`MX^{Y@J1zm0c<vJN&Uoj8mWvgc}XfN{DE(!=8p<1so>b3z+b0LA`Gn<EGMwSq}4
St^FakyJOy=Iz29^A8t7qKAe=pq?Il%C>lN=(>Lu8#U|8Z4?2AhJ`IZ`)>^Z6LmvSCcuxb`fY~hFtqT
0k~=dhjL9esWD=G!CKSw~gLM=nBO__TRxVS?jM(<M?3=`a%5EGrO>7X?@JC)9`^$AZDef@8*l1<pmUZ
NRdI#Q+%)fw5KJqxRl#jz~%y40ZRiYS}UcV-!pkz)(38<WTnfeWC&+e2yS;XD^WFfH1@t9{w&Byw}s3
FRELx0T95bZ!}AjmZR-_?r1v$qZu7hj<)-`qwV&OW@!gB+V1C4a+fG6`J&s5_z=$OhW!X8I3B~=9Bh;
%EO;4v;72HSc07^ewL5!yE*KIWUhEe}di6tnYC&}*mg|OyJVPH2DKk^S`;zIAyH{oYBWzD4B^rT}m}H
aeBs<DB4N{vH!<SXIkuox{cG>;_pY*~qYORK~n>=Ov16<Gt%hDT0Y9T=_i^Wt&><jbPuJsoTH)8+oEb
Pz{d|$1E3nDLthYfK<FXFFY^1nj=p%9m5S?)NyPH#C0n)!7FY9TrtpN`R2M2<)J7y8N8j7{(@bb*Poi
@LhuC6kJ+lw%jGmVx?u)3Cd|y(Z^oTUABlK-j_c1{s*%R(a;U*#$5kc%y+LI2^6W+ZLvhW)-Q;Rv(;I
nq}zNso_}TDY`+$I=~?41Ysq=Q#7Y-E!YcN=s$PuKY{9o;6$T&wJNeQY5_ZFmX`OdS@JpT&$(n^TYL<
-Th<E>xpDhpXzrm|cspLWbL=*|p*Fjb-~jam85)($)6?T!5_iDmKT(TF?PrB>w8sKQl4y&rP<$^8Ch^
Sb)@i*|=Fy&KPet01mDsI9rj=?h%&R@i(h_en%i7ut8DG(jvbgqa>r1@51`8}93vACZ$Hd!Im}Gm#IJ
2K8!rs~o8f?+RSZR9!JJxz{;P|$jXj@2oZm(<FMRQ}%?FHO1Q6??CWL47$uEi(XRLbg0GBi#0dhEbxD
J>t}tYiL(R?^#TT7_)Fs6m@3@!AGWr4HPsFdg^$+zh5AR~F@7(9CpO+l{(2wkPXR%^{f86AfiWcE@g3
Ey%RAw_Vuk)gxue#l1b4WpAQECXLBG-{>_fM|PXDbkd65`Uv6ygwcz`=Le@V+hO9_t-j~R<pVG*r7Sx
M!cmK5+S$$Y+(+oMJ~_2s+3ptCk1^!%wB41q8*>w1$EI$s4o`KU*dCJ}=TR@)2NBYq2it`})H;3l_SM
WLnLRqX8D_6$uV+W6C+ZN0Es2Ql-yI!3fAhiyVcb%#->Jvpg+N{(o}7pakm>@5kMZHl!&kGDgO?p=LU
i_*gUO%M$={w%emgz?!uSmE#*S{@;NaHgFg_S7jd_gb5?y5C<9#wJjir1nPCit8P`K1Ns2X%F1#N}yq
V8eDNqKnbfFlhCOxLkGLQ|$*O<=a^Qd|Trv~iug{cQ!~B`8@J6^uxLQ4vw*0BRcb3e?I9RhM#-7R&3j
TrGGFng{fXrjZ3_ex2f_Cti`_WnRtU=$r!{LK9<nod`NqG>N8+9b{RK^G)%335K!2G)w4(H)*!{DX(V
P1&5X4&cKBAKGO?0ZB`dCj54M-#<J25l2B7cY>9LnF=U)+G#WX2%HwA8xQW<f<}S6le0{~Q()qp8Ph!
DeX4UcXzn~_@PN~oeuX(}KhRem)m-AY$SNHL>JgBF}aK=}YjQlM;8%-H1-}6+creMLfY1!r=tc7Y#xY
0To%O3Rjw7y#5Wq!kASk2P-B_`|%sPETL#?&2uC4Jexxh=SAiNC`{pRlVORC)1kQsg&WZZ9#g?h5KOn
wc=H0<cJzOIX||$kZup2M`EWchySVkIP1yE$AVww4$+8&QIUGc*C-4P7|bQ$YJO@7Re|*GU#_oS4E3<
_m*))C3%^*NfI}_xEvD+_R(=OW^%gnF9}rq<vE!oe*2LeBXV6tX9!k9)WFU`{H(wNBS#VYJ=^W*=wyS
P-Y>bdyBsJqH8oY-hy265ST(RTmX`r1HBF=w4pi-r?i;P4(ABZ=f0?erp~uU4PVW&@w}o7oeMtd(*2G
TI;e;LC*+~S_EXH;QWpWd!Ij-+bsK>H>2a2N3Fcj%>mW@Y#1JDtZu5}WR3=0L{V^50-?1eb<?V59xR*
uKj?qH3TP-KO8E?HJ{l@wLzj<mg~;`Nj|#vs}D*yHAh(iU#i!yW`rJ#=;IZ9x*&Gw=vUXc`LvZ1ryf{
e9GIFpUJGTG`MtUJPMF#7N}vAm|2y2M8%n?$|vZ+WOvQ0)Xx=kAY`)1E;VM21*L;#n47o?|f<~Z`&Gj
#^S&)-CbMNp0w$kW4Eu3gwr~R1-dOH0@jU8&~2c_F#brw<3HwD#j`d_qS3Ud?sy%Kx^uN$0Gfl;L2i(
i(ljBKSdX=(r{giF9y_{ba6XpUQyPGB<6GDW*J@IL=9yp^P5wcm)Wg?ytc%b<e!!bMpTB_sY1`I)?BO
hoCR=bK*#FGsT)~_Ntx!F=$D-Tv9DS=}nB?QFZGoY40DuLz1U9;lNinuxjv4NH=aDr@Y>hES7W>helU
}+SGyZ&n){H-gmm1`QwPt(Of*L;&R`{FF$AZk-L_9Zhv1Xh%j+E}KDGY2~OqnGnod+Y!j2;E*ijC%`a
?aYSoh|L)xPbkY4`KSL<C)E9#-rojtUew5opnz$p~E>5cMYRxO0kNhS2!zoxda47yy+C!vy2sRkU?l8
av3+bFXP|_4uh^<u{3QjbFyOG_Ls})yr>#(>jS2{eL#Q0M1@}LOm)#*!Cbu%TB!hq6~7*R13;Z=uj@p
)f6mQ@+GgKg^OB|m#G~L=;b=Gay6Cf(wg^!J#IC$&95_Tszr#lI@(U30uWh}XQm3cOV1DmyiJ7={ARb
==K~Z!!USmmlq6i*F7_upDyhmPJ4+GoNK_;~T)~j-QgPyf3KrN=fr_B;Hoj4kUJxavXcgv#rxd%$?PK
1>_TpAZ|4&pULB59~2QNlElOhTajq0QB|nX4fI`^COFM8hNq;@)B5b-K6EYF&{6^7$rTCM$7K7&>0Qr
SN2D`>7D+N`u*0#N2&?h*4@h$ru;mPmnkkG{+_Y>G2R^m`Gwu4`4(X@(1*ZqqS>97&}tI55f_rsV}2C
u@id7XtN`*M}aBr`8rz?G;Aw61A{fr^xxgV@MpaU8qh2?bsUS$UKh#ru-T`7t@1LKTi2I4!+59&f+2C
J8)MLr?Im3!o5U|ht0(={1Zw|1@{u)iO^K{w32w<x9~lG8rBaV@boYth;uBY>tFTLlf!JvkY@Ay9h@L
#Txl8M-#@$~hybYi7xaH85Rx-++!8`Q#1nxbtt$<}IxL<NO&GL$(7|3t-9$jeCfAM|~6=2n0+?>CEk6
{7t-{bJtRc72)(CD6gMnzSjE(~T(O=G@)Pn!|CokKU&Mw=$TDmlI((DKz(gPMUn8LPLlk2RqRaC#q`S
gH{=kuUAJeU0%~lpm5+cmWRLXMXKEB9Ut-<sogwu@2*4-pRdOW|)r#mw}lA6Pw!WU|yoph3AfimZzb}
@F)AKTFa6iK0=TIH5tRYTqcr3;Latox$w5dL!=}fsW4|TP3cD9u0vo6OXRw}VDZtMj0wz`?wy;cGee5
-!U<BNDK?1%B2bV?a{1ZKx$R)<Dis70CaR(KgS&MJAvnDsn%oIq@LeBR>69DvJpn^J2YS{O>9c4#w;s
DqA7Xde6N=-o^Fg~MP!8*hw-IudGbs@uBE0)^sT+=2jHl(8k-j(@`7G=Au=CskbW=*++3gftE@LTIwZ
ydaQCI&9tCSkvxyz7o$V1be^FLwM_{#(5Wv{Zx)|=+dtVD5^y{zh3CGLHDaC~%l^i^kgbsKN-l5#4zh
nM!Mn}osGa<_Xrk0!8pb#4^$L6gK?_pn-kH-CJ7BP1~0*@?pp4-)cO1bazAClCi>CDb$_0nh9BR`J;H
qS4vYkQ%0bB)LHrltAIQw;ldOkLx}5xK?u(9u=W4!sAgOI^O=VmkA_C_kvN-;^pCYuV*6HujbgiQ5Q{
Paz7!FC?)t09S*aXs~e!O;cE5J6r>XHKHiQeBDy_rwDnN4LonrpQrB-AlP*j_u`hip28r?W&_dZE|B^
Hax^|tA2T#oDV`Er-SE5QBQvr{4R}XO<MdUeFdcWhmb<R@hmfu$a7Vfe7)#sk1-C0Wu$HvqnkGk81wN
qI6#8HjZ*zWa$&z{nyDVsfX(cGo5DI6L^kX$`<H%6anx8Vr3qb9tE{A&>Lv~wklKhmrkI4U~Jw%*E<W
2rO<0PCBT;e#1}w%I9&+Ncpl5KNrWx?yk}IB;lZp6#5Ef=dtWw|W+3!1mvKT^_8w*xX`iXIq{3fsyrY
rbArrXB=(bhP*=0>8Q^yT`yUVF&zsSHZ9vJ8k_<EKBs#OQl-U>Q+{bSe8o`7LGAY&6>$VQgNz2u9_&!
sX5W4H9c!*JT3YKQ+yv3Y5^eHY-C<aFmBKiNO0wv|m`Twu_<Zarc*ss@MhU-BH#Kv#hiK@E3K#b(JHE
TZ1j3SF{*p>$6klQo_k@r%rg#t07M-hS=PoF5GZ3j3Ua<$f_Qy+qigzMcifr0pd?)bVsVxB`jQZ#k${
_W1_0J`S)If25nk6Yn3i+YrTsUwAN64ZkPo49m&(%oYYBvXuh#_{9$1c|KxlU1cybi$io~qUaRg`u5_
|KwMJ85u%7nC#SyK$Q_xgx-HE=1y89D8=hI6T+UMw(OH)r&XkwN4#=;Mkuvw2BuDtg3c@hBO)caZZmb
b3H;)Vj)Hd-@@P@W|;={V8zyI*G1pf6>Kp97jY)VSj0m*K2eLkhqnqce_NruQXM?#q?e5c0s!Q#Ose7
qEsx<#;r#}=+?cv0LYV}q2V!8=h+B<SnZatztC~+J7-gQqi>AFVtY9@@6slZv$*%90aE475`3HbPP2+
sZr%Wek*p0Q+8-+cM8=Yn{@GRM(oG;g|js3KkaUd<G!`iV(kWm!{ytfvpUI>i|t5y-#UK^9N;?xlE+N
GU}0(~tKT{yr=Wbs-TrT~eqw9;*3r{i=(!@F&7tWpR%4BczBv;yUg@2=Zw?j!_Q=>a~5c1ldQ2!hqxK
11-pbHX@vrm__TN6FHfr+iBi&kbw)F(s6A?|w^5Awkyw%7bOc%WZVn`U&s&V{qQ}_JN?7o2KJsLIebS
"%text.

(** Lines 2565 to 2714. *)
Definition DATA_16 : text := "?4|1js)7vn<5oF{KwXkhUpGO?PfQ8*=_Eh-i6MO>>GYm%&5=<1MNi3&b*;_L^isn*J>3&(Eqm_vt2Up
(q7n?=;h<vYBti9_=YxD5>d<eKcEOqJ%aw4kuhbmuLC!m-=9>Mp)4P9mdiKxKN;}diNQ2z(R%aUITQ~
pd^SEN?AI24%2`}aNfyPFENwZ8P3Q{hG)MV^OZqVif*H6VPMe=$Rvp}?!^8{47Cyes5D9>39+jxZ4`e
mndRxtl8pb*+O^kExK5Tvl^=VlF@b>#9n`(ocAlgbKzZ4x!)6H4ZwENCP*-4s6oU9(1igQZH+b!8{QU
alEAz8?}~;zZ)&fHDlXQ;0;~2NQ>dZcFcpW=?8}xE|@j^Gsi~_kg!NHsa#52adSK*3d@l!6m@P%fK{M
==1L%H;n%G-=y)2O_h*hlO$7Bh*FF>C6Dkr8;M$4IaIG_rw1<%P7f$S>*(M$CgVlRdp!B3SOqllN;P^
JR`l<w?VED)tKd~m6+G>-sbCQ_l*k|d&&iu3A(M1>s$r<p=E=E5l~Uw`F{}c+tJ5W#B5w8<!BKuZfRo
R!VF#BPrqrMT0t+w^wp6G7>QqmLe$iA>7U=7P)8~Jh9d|Mn|MEljMf}4Q{yTc|OI2b4iP+cv?CIpU2a
`Xa$MTnCIyrx$9*+L-%Ls+o^iV?b2M-h~#fB&EUcWv#{=R3_=}$Z3-KWp~^P|GBJ3Ce1LcINIb~HOaI
DLa)qD++HWbxx>ge+(mb``J=j$UBn?~|`*-=F9j0{Ek91H{$|WYq?69-Cx-uqkLsqp^JdQD$Qvy_kKc
1`%eJz7LXC2$N8lWpOZJ&#)-4F&tZmDbs@~>%uZLjVaNDAvqR=B=d{e+ZiBz^!$5+wx~#p8J;@Rowb;
3r2o2D<wa)x42>p-<hQ1o(kF<o&0{-Hd;pXzy#N|^d7IZ&Nk@a4#>w|brw899-yFO;q?PV0a-dj5+_!
zku;})xD+aN*%-H6D9?tQ>hPzl?)!8DUE|Srbq$w((MM4Xfs8%dWRK-}~Vv5}3>fb(fQ6|xbG7l4J4R
4;4xGk$NFSCo^;eW_Ag9V&<?0AXS<_&r=y#^`r|6x4^2}I=;j#(&l!<&q3?KG0PXX`4s^<kt**vVN|Y
|%k*e-KYKy?7`REVM9^w8#fOq9S7%!>U!*#sx-2HLOqj6a&co(LhXrWVEpJ0(;7&$UuL*OqN$&;mgu(
b_m-p2SPL|>AkEl#kye=^gCW){h*Bd(J;<J{}h~9NU%}2u5b&hT+tN=!#r)NRt)vi=c?b~V~1=ZV^)_
k($|!ToK-Tt$D=GKiT_M9j&bv`7Z|U8f}6>s7pjF*JnR}m!3Se{cw5i_>feQOlYN7FTF-XEpKV}@mhY
|Ij4Z1-Nsk^Vc?s$!Xp|HPYzAd<j#t^KU){b3j?gycRj9aG3j($r)Gh#2p{?<;>Vg%Xtf>yHO_!=^--
Mdgd`=f|DBHo1rDP!{mjYEHj_}9$>Mkw&poq}2iqZ_zD_FyUW$u$}>hM$L{sq5mc8}8;XILO=R4k!Lj
ev*?P*!D4NsL4_9(l|6Zn?2-546%Blx2$L8t4KGRReLN({+}4i8mwWCH^J5;syXUOd?|GPqr#Z>TkEE
Oy|NZaur1C5-um(?Px2E&`nRqYT~G(J#8Efv!{(va|t)EL`@ehQJ%jK65T3Md6M3tNOe_jk>u7}Tz}X
Gy|0a4Pslnogt~|})vBIzS-&anR!S!It3#%)UK}blZT0)86w1Pyslhvtr%ZXoTJ6N}b|WhV>+6a;)1F
R|wMDEWLGbJP-WFf`B{iidk!P+1FK$qIy`j%*i1*|#>7M<zYzdx+#ZA9zfIq;WBF2nvVo964v7-6$oE
4AaheSDPs5X9dJ6zmslI^E1l|KO~w^C_rxO;5&!PxAmv9o>Fid|<n^u{STlP9g>%FW++04cXcQN^^N>
s=W)HhasS{pPnlA|BJPV0&0)q}E_5I)pVNe;TG}S`$!@@CS9${+kB5K<HIAl4p?a8r4i7AnwMd*2?x!
RsE2Xtp~N`+2FXDH)IC;J1_d?z1jSGW;MheW*$RVIAN3(&;Jup&M#FD{056;v;I*u^gwW_wWWnD?nXY
zuEUa;N>)2?`{if92<t%UF3G_5_W~b9TkFu$#(-Tz#L!t=y`5s+<}9H>J$F<muLCH<>vF6d8KPo$xM%
RxiKWW|M3EgmrdG&+4MfagRSq%!l)}H_9tM)O+@eRuI&pu_myse76OU<qr3{JJkwLxgy}q9a%?bdh3W
?AagIJ1B(9r!KWQuMnBB!`YFzK&jI0{|~?Z$s?{U-TG>o&wBU;*pz(Q&~egRZBu;^y2FLip1aL_e=?u
}-rv(nMVdhcN6Zov^V6(K+vd8>OGsIrhiwr;ojw*9HfBcIKVo;R!ip-|X-fC!mdZ=j;w6FVO0xY(I4e
$23gwz%e&D^z^PAkQoE#ltooj>N&Ki503iBAEm*|(0`Gy*{3B8Wbp-HQK)bj*06#UNcfZp42v2^Iy`X
m^=(^f_(yfD=mQ{F$th5)tGDWtxZ!rLu*Vb`J?a}$U5j;xdboCU)`=WDAK<=_mgH<86Z~^#<#D5;5<P
D8U2ET*-7tE!i^QNIL{uzsGpM5dQDKFswlcHbqoIFZ50Y|_f&szMrKH7ShHBxoxSoKZwi%00gEsOCj+
eJx4bzSj{u1MiMUe*dexmQxEv+WXM9{Y`FwQ}KVpMg<&%C5<-dx_3_Z1X1@%aKcpsc%9QH}LOYdpbw%
d}1x0^vP&K)xpg-&BB04(IFyUA3UFILP!!1K0!C7#*S7w)hDkdGm}|S(tbjh-NkldIA_w0EENZwHI6^
w(zF4i#sSN<t>2dnY{HeA&%=Pzrq_@jm`EcQEij`*b$DBB>UF4Vq^IXP&|{><)-41A2*kYZHFrsI$DG
iG*bIB6JL|D2w`6Jc}G?yFp8?$96n%5Fh?>J{LWXE`e`wMVE^GlS1p2E6T?&!V5{QZURv|A-$OEt@G#
OYfK0n=@KbHVICC~*XTGxM`e{<L3=3bUn7N>L`B>&NSu^g1B^lgcX{~#|yF!0NYuI05XrRA{9E*M=--
7Dv;Oyl=L27Uog9@wt`{zF2OUow~HxXzFWc(KY!P|q7dXI=kdyktvJk>BRFMu95>la2*yi*@l>ha2KG
yJyld{tuv1DFIwF{Tg7<gL1x19C0$603BB<~QdO=^kKMyXS&a;XNERGq-UAoJJBM;97j#m|GJ;2lx2z
Uk{aj<Q{SE;U+oslMQz~7Lj$<>Iklah4&IDo$C7ss#tbzES63bt^De=hKju?SSRAckXUO%hmI1$%Kg~
5d#jDVcS66EerluIRkOTlJW$p8l-XD;Dl2Jq3v7jN@OA8wzQlKslrII_d-q@?Oaur<QiLY7_G5`&DzS
Uc>i~DlAE;c3ZtP;XsF7=`%9#bvdsP>Iy`RuR*7@L|O+xWHm{%+_fvr?<MEqw;Dt725i$1CK3=$~puc
KNmPU5W$!_IZVwoMs3lp*f;twk2Sumd}5Vx=dj-u`lQYmX@6?CDhi(wgCk&}#*)hxL%VVv}GQFO#{G$
oWa4S5i=daY;C!N3RoqCRVqvl!JRSV4nb;xui`4(%y|TQ8~5N+2En*26cU6FxN&wTqby{SY%z^v?)t%
wkdDMFs5AvS66~t7o%cjgl0oumS*nfzyhKTM+3Bj0_~>bmF#g!mN%^9ynKKeLY;5CS7I5@O7d0%erGp
EqTk$!XX1FVzMX9=Q&h?h@jr{APIU(A@06LRv5cb-$Go{S<B5=+IFR({#O?%hvO*s<8+$Q4BUkQLAU?
~R@OO0aTbgRsXd@tXs+)74ybcY|ezL!6Ci{H!iQqU{h?CV5vm-@7y_5TD(i7e1fers^_SM02jKhBWR(
uf3PZ+R2CP>eFKPX6Vdq0IoZ+kxzNN?AEDv(;aVM6{l^*&m%tgU(^ne?U2d4qBGZH;=K{CCuqv&w?#`
ht-=gry`p25c=9%_yQB<JfOj-dc?YZPQu?ym8wq^jaZiRDpt;_xc=AY~$EUgcE*4*XBTpX_{qm{V7gy
ZG=btm!tXRIwV|3lEC}y(c|V3DqQqn5PW&N#+={G>UZ%#FENo(R)c_1)R()5!y(oOS~vp%+zpl|`kho
d<62|USI6nc)~ed#obTdeRnF-y_L6_TcOp&AQ02nC=W`@$i3L<|v;pACqFw_)$l@||OiH;~k&uNJC~g
h1nEl(`@-(oM|MP`F#)+%6?BLx#Ae~Gh3C51{^a}1wLmn0-`#X`EbOO+a3FDv}RCViSnCf2jj^8*Gsc
LuGHC;ps>YgmYE6a~GE38E<K4%6RXk!f!R4whI^u1X*g2zPdlTML#QrrfzaNOjZUpQanCbY=hGEv=eH
2VN}7x(I`aP(y^WO@5LTbyS+>n7j?@;xw4AfV!}z4Q~$6Hi@r8iwVB-_;y=p7|9{G0`C8hp+-43J4eB
-vBG8n!iev+5mL$3VE1_h5}&+RzJ2q0!ohBn=nHe0NHA>j58|>4D_8<&6Bj5=Q*+K7=#tN;P-cjj8xo
k6xFit8_r>@DZR%2?t=Br1(i`UkSOG0|H*iVaM!#2lj;Jjzqy=xa2<$47PBqqd+&oCGs1TYr^Q`*?|t
$Qe@GpKBZ2(!Hk6(VsleTn=q|3Noa-QZ5nf7-5VZ+5xu|)1)8%a0uQ#qq!~Mzm2D44<PO4Ow#?!n+bs
~N`mcTY)>>96fg|;m^IoBWT@AM|T;x6WPKkH0`?oJq7IOX3i#ahY|jZs`yqE4;RU(GjF?U(>+4ULth)
IAqXB>@UA7%nHURyo8Ut+Uu}6<y+8MJoI+P)h>@6aWAK2mtey7DsQxo_Tr;004I>001BW003}la4%nW
Wo~3|axY|Qb98KJVlQ%Kb8mHWV`XzLaCxm-dym_=5&z$xg3aP!`RY|ScP&sDU9?G>92Q8ELmmZM!%%3
8wwaYBL8N!rIox;e%<v&nlD*!$8bMZ%nc;ArKa#p&m)~EqRh7$fGh=(bzWggb8C{Gn*sH2OG;*`mEO|
9yKU_Wkk^Nhi{J=i)ud+^o;;meXQi+`Dis`LjKOgkAD%r<st?zjw*qdr!=3Gm71{b1X9EK`&BbR$!!Q
G}2Vkb(CvOWsI-rl@={qE!IR6l6O%bdM>|L)U=o0p$Iz5nnL9|GNI-Bdf4W$V4(HzLcJ+|^a1LB51ph
^&xWG`vuwk$th0O02ZIla;$Fs?7!_?QSdOuIk&(UdzJWs%><4@O1i63xD%X*5+zt6il67|CCA>a{2mU
C2BN;eT_05$%?PGBG2lkszsv@Q??O0qlej&D=}p?*V{~2_E|2QDSL&NqY+L5%zEu+lLG5odX{8a$#-C
&$!IhpMxc6Em4d<Vf~^|CH8}2mD@s-hk&7JZ3a%9UAXK$)R)WSz=>N%VgnYSJgXv`{b(SSc6zeHN4X;
tICBdIu(_<zTjo7|0V}FKMB}B!YU<zWP++g_dyGrK3q4q*Ch?gJIhZ$4C$J7PH-=DA2NE8in4X#VkLh
08^mPu^8WHQAul5u0_bV={VlZh9k_F(lSnltdg+$O1?DvAO-Iul5hDa{LEP2gl3M+J6x_UxIzzEPAR#
uLQN){p}DYy*}ky_CO?JkPA=4d3}UGxiCnXXK>W7pL(TwiIYX6Gds48C5cjc*UwU4e3NOS+;5gyp4eD
DuJ)r3v_3zI{1{dPX}jtVFDAx-tj`()CU&Mw!Fz1g!r-$J2ty)?Qe#nky;Cb7dys1V%DDoRElsqwi1!
D(-WqAF<?kp!qm#updqXQF{jQnVyI@_h_!q$0Rj>0IMcPnvY56(E6a72_&J9eWkd|;6fo=y4T4d=e<K
QYj4nzUG<0ez4PBa%u;4(cNzC2E26rS5UXwjqdG<+S28yX+4rQf1sZ=Q4GE8DU@dtD}ek*`Ld8$+L!~
;}X<wowyGdXu{0xf*eH&aMX7V!z+N%gKiMAVmc!R{MqOB5u_gT?~aiJ&lQp_Z>Gae8v@C1!9fN;}Ib8
{aR-6UG%=_eaIwI;D}l-YE^=OFkp6*8pB(1+A7}p?@B4049W|tm8(qn|TLTG#Bwp8#?%>H*ylHV5Pcz
dch2BBOo*tpa-me9Lh|2S@YE`--w_htNm(=_TdbQ5eGe>azQdf7D+|YFoepg+3}({*aDy>wZ`Rv?G<Q
`umbwrUb6;#4iDf3C*E!ac|)`O0!>xIs5@SQE-G?#8qEa43gHl!B^l`rz!uTQ%uARIpr~Ad20I8hxs(
8I4sDU-7?se+cjSo^1u_aXGKS$x+xlotLgwJiK@p5gOhP6h&z5(x+T(P%#(NVwD6ACsR$yCtAds1syC
db$hFuUNR06}<7}fsK!A5@W=*SFnusionQ7w64GAS&dzI*knr$a|E?&&3oDetZ`J*FTfT35Lv^A2bqk
*ef3ai-9gv=8iD&<&+oCnyO4oDq;mRd#`Qt}#0FJ>^Z3#bwFGmZP!th7cA;3c_|R+V-#7JRI5h0E)CO
xCWM83RR%d3d?OW{>tz8I4o?pvaVsG;z7gO2g<YpD<$K!KCH%2kl}Ade@W}HiK4j0oFgGXo1J>QtMYx
(tF-1R$T1i3%cA0@41;~S1~_bpV5}@N@3IU=CKMlYb`Z8}?*nouAyLX0!F8)V&%f@KZd0`fl5H5cA)o
>jL~I&tD+udQD8~6R>olGVfZDK#U>AS6n$gMzix_o^1{NH+Xv6Mnz;NkS7qHq01QZfVo>M5JWD<2)Or
&y9F^SZenzWzHj2yMC_C*fEKx^4@@OjBPV;Mu&VB+QYPvaBF%@Bn&HHK(_B}su))sT{4p?VS%rl2sSW
pXub9UE4-Azb)9arWvU@kf4jXs>k^=HFTFwy3S+><%72x)QL$FmT)VB)F9osB$c1EGjn>YvU{?5B-l_
(omE1&J-hyqHZVrij{{1LD_}uf|6D>harKH(0(Bwn&25Iw<qy&L53x@Hj5S<9W)twGidFnJn6t~>qsa
l&2rp{jkaM93X5=ZPt*Whwxh4H`s7JxFyBZ|DsJN$7>GU^xFay`aD!3_-W5f4FY;vF3oRNkS+hS}W95
amL8+3BY0nH|^T<*_l)33?6mk77G#N;Boy^y!jp8a7W?4YK;=(PSAjWa4?;_qSSsjVeBUm6#g&{*m6q
vZsjpS-4pp@rHw7v`#!F@qsc%&A1oP6CPlM|Jo-2*V#xsNV&l~*8a?kE@0TUaU-f@lVl)2V_4X<gOH)
ucyukOG>FBksKpluScs3@;eng5I;x@@z1kASj4fwtH8p5A9*;Rv$DJ4Ro9ef3U8|!bRdSy5Z7xL=v=6
)7|Ec>Dc)HqHk6ATY-b}C>Wfu<2<<BK(;gN?SAB7f(Us+yvL<KK3x+LB*w$%|H`_9pyS&!khFI$x;*_
RYr@tlUelh1SZT|(r%`X))iQcM-oTvhd}<o#n%bu^aJ73_1wgKA_MH8Z!Bt`@TY(pV|9(EOyb`J$Yrt
qAoHN3*u&@P$i+Ig%?W2ZRVGq?F7K6wD^^t}B9UQ;qilA|zA>v~aIi7Suoq-TIT0AH7@FX4#S-pyB2A
6GZG$3kj=e>wcgf@S`adBz}B3X&Q1;59j>jVG{fWy4ws@Wp6BoWFooazyb6>aGaVl0w{zN29;pD(a?L
Z<+r+)t%ILkJv06$?bXPRB~A`IEE;9oiYx&EW*}YI)~!5iULZf&`r+u^S|Q-89ueQSoAFH>nF+&D)sE
oFS#TSnfB;m^{bU9L$~1*mn*58=E;zqX@Oz!Y9l=B=^2*Zl5Oi1g1P^g<yBhPgjiYt~>>aD;idzAU0j
Z2YdQYf~O(au^J&4Zcv`Yjb~zLS*0&gft&XxEL)8{&yx`DpmmOCZUp5hYv;(ZnE$wVG7Ns=&`(Kplik
<d^sY_EAje1P7o@8W_6DC)3Jlhh>~AE#rJMB1m0w>TEerj`UqW!)#yz52T;_FbuXbK3&!Jq~-2-EiDS
JMdUo9pK+azsa$lXrlxHoQ~MI+)93W?@?{#fG1=>GrEA%2ImpW?h;4S#C=ex!CEsoNbZW(JNy?rdNkM
vI?ch!*#?5_1gS*(sgU`xYStaAwv=g`;0bBR^I9eL}Wws&Asq%xxi;W)ap=W!@u8KU%?scuQq&5o|QP
X-|aCkc2V}$AAoL+2n@E$+lDWLYvP_1l`-{ssRZDA~xI7I2ep-22UJRv%26ekmKs<N5(b`lZ8LsGCZx
1+_AzhzuF<~NcNDb2e`@6!C7{Iyg9Q>25bAHeR^gNr^AEknAja*_fNdtd6nDD^j{=I0{m&!+C4{97R_
?jFO$*xxn(rj8$*RaES5b4d<SLsvpaw<vk?JH17}44-fw^h-0`qMX&KnRrf+QeyWk#&4j#L6s2aU5e3
J2h%mM+Yv!U-3B3JrBPp;wYZ%mapih*&f-EZ3152H13l#6aU;R+)>GDgJwB%^#T`I5Fe%=vZ{-+%?#c
dX}AA57t>y;b3Gq#4+NMbk)%&$+XFzuO%$A2jqWSNboy{e*L;kA^Z!meG+$ki!`$owcVFPt0V5yyl45
9uWAGZ2Ns2?HAa?*}>0veotmQZl`X4r}_edw<ur%TpmpDZ>#E7(PwFjx!z$uwP}x8?N@VzHXTjS0ez&
>IUDAhBg)!y)t20UIB;fk`pBI13qs`U&g;}2Ty@Vr?0)gMTVT>QvFNKi9)8x)iPtDn;|Tm8P)h>@6aW
AK2mtey7Dtv^Z6!Pr003t<0015U003}la4%nWWo~3|axY|Qb98KJVlQ)Ja%pgMb1rastvhRT+c=Wn^(
zqjTqGwFoyYFfoNJUhPsXm&mM3w=&TRIQ91Ef#3o%7<0noOl_Q!8G0FnS7vS)9YR3Z_LMx)=|fDXy*y
BSG~70+)@NTt@ZAMnlOaB@iA7UfRxn~fsj+lah+@$&Ty{`o8UjpuYnuIM*j#sGG~Q<h7%BB~&2!^q`M
ZHk;+6>D`*1taH0m9MDc@D4sOK`5-3E5VnQD&X6VU~J2Bg}AO5BNvOeXYa1gV)dX1%~#~@`*+tL7C(Q
ye*fVLUjp1@Es8DS1>xJW5Q_Y~Q%o-2PwdyMxVeG-)L#o(e-f<zB$cRA)qLB@iNP7C#kQo1v;#ovn%_
*xiYb<=gyn`=Q}VyOJm(p+^8}McB~m8qscVj#wWF2dSv?TqtoJ1o6t+JlHw=(I;0WMWVmC$Z+%fnHbZ
n**(tpepmR5=`Gd3kWPwrTL7fmL(bKvm2W<d;~7y4b8Bstx(Bmt=8m$UQJj~Ca;ucz-8=Vw>fFd+zn$
&WuhY%>CDOAyxl;AQ;cfYke)AAGz%pZ#zEoCBfItjO8?V8`UaPj4naQYqPXne7P7&*l7}68VWtH*8Dg
Y|B$oNKl3uu=a$?ZG89gfNW{b*G#J4+{NBZNP}vz0&Z}%^T@$J2NP0?0vIg|aVpXcN3m1_sQL86_b`a
NoF5!X_^5Uze7xuR>sJTIZzh2K*=$A(=Jif1D=o{6r$##^a8%%ug8j4NLMx?=$!vynfxbw!$k)Xa_xM
`xrbdaM5i9JNtu6(>0~NSo(tCZTB?^RGusfEK4F8=UP`SwOid!ZQNX1W6-1q!oO*6@GOXSDn5wyqd(#
H+;Agtq>#cx37F&F|bLr{uC0-H&1318P1%q2-_mVsr%7i89&3klZ6b4KpD+Q2&i0o?`NM-ffV7ay*!l
Z(Z>v*g1W=#*gEoPels8T{Yjv-rDGW4{0C^NZPk$6vn-Ka(%&Yy4gG(|-lg<m&B*#pQK!efI0+#p(5#
QOd&+2L)u-8cpT^nIu~Zc8~-o+G1M!oubw2cPj>S&`z^E7H*4Gg|@S<@-#YWtSm{)%p|c8Q8NVJfh52
fn-Tfh{QtFqD5+2qU=U|4L9tXA#6gPz)~+%I0AQ6=DS=B&&8)aA%J4<h!mhzJmSEXt_{4JqJv`<GpmN
s&qsT3&**`d!77y-&ikrL7FTNT{$!ZyjAe_k*6heK8%iaCIzQo{WP&iW%#nhb>O<GD}w}7JIY;aVwPU
5_yP_tONd`K;m!iXG_ci>83qlyVoB+z3*C3&G?*+a@oMb7kpXrVB|P6*5?a&R`XDp6FR7`4W}nUh!X_
ud|*0xvA$doTqg?MQz4k_Y7Ih_DVlFDLaB_5gwtX*5BfIGLmw7!0}6Z26UfC5FZF8~7ZnH3tU=`u|g6
03iyd5I70QFBOa`Mhr(K(V@UZiRK+bfsLUbH|v)y<!kGaWbCbA<|K-3%M9_(NylO)mTPrn00_-oU>K^
C+^{9hZ=_=l3C}s|x@6gUYH3SW9Kw<UK|`3)pXq9qWEAAJ0be}778M%^ODnNUM3v9a(Kmrzfz=n~9M^
Zu3)hL;Wze3QFFsJaJ^-~}d?1f7fb+ilpum6>8KTMahtjNAE_KxO2M@_Y8BN=Q*d+i%nuGF{OrbYmWX
Vy4Ik|j)wfGcwb_oP)pg9Q(8KbMxj;bsqe+VL!y!ZYay`uppJVOzG{{v`}E`FbwJ1RKMwQ~Zx!Vs-F_
!R#mh&q6YksI2l`2b|P`ATTT963saqM;esZw^}NBqmm?+)Sm=b}Su@06%VDVy+SfHx&okv>+m#{<%EL
Rp5KVRSue#1GNB!>5}!j?UIoPu0hv1Bx_(nDfj~ukB}KQG6ntw&z9;nz7;$V&B{H0+fFbHg6*M8L4yS
i+=4qocaG6BG!l=rKPv^j+0qk|qw|1_r$MV3%w+<$n`J$QMm{%cM^Qh&fIAgi4A(#g25{?Lz{ffpgBV
V&Z}Db_n59EZ#o@zeI_yV#m-FIF{pduYC|T|b1s(ai>;pTDT$dmvx(Z)KTJnd_f{tKxXb9h5oe6<y^y
0n#5cQFooH&MBB!^HD2IrJ#rdmO=$Pq@VF@<pmGQPnV%$h$W-?ZZFQ~M50s1n-L8nKRo;&Vv;UWi*Nu
!_=d{BKQmmKTcTjIB(DcER)N0ksVRgp7N5Y(|7iH|Y<q^+23Ke2A|!3N*({0W1<~7Y5b}10xN+RIpcm
jv;t*%V4Q?EY6C12&hra@>OjWdV8371cTi82tN2;K;8}>8-QGvz~8?^)m7ZfF(HmnWk-YKN{Ztp&yS&
+Ld76QJ%esMo{grpw41UJ{I5z(Ix}CQpSA9-8wy$e&#KT-90RKB54Co*>z<5zqz<GH*x=WiYq<v*N(I
hTXYThr%g7SGKy=F?4S`y{Shw_{q)@|}8aM`pHEuFlRy<pU(H_$L8a0f3ytZQ9i@|fZEfI(q--m(Cp@
L|zNNyhM+Ko7UJmzBp(J>6pKApMIkO9x0N?dRG@l}3ay!&PGVSwa@N<(Kjj^eko4_Ax#?;hLsUNX#PB
UkIJnm(p&<I#R7&QCnO{{IBR5o(4#@Q^#lLPKn6#=#a+Dvjglx{E;>=P(avjG$eZ*jh<&NGra|17+jv
4)PZ-`{9r_(jA&y&ajZDVh3T!K?P|)AVI<$LXZY&;;1Ysc9=pmOUQDI?bh>po;+*&#~dnvKis8dkCX%
Kopd~(vsv&Tj2!;;<q268xYY_dDYg599ZH@<mVM7irgx%x8`LcZwV}%7BgThfEL$<aph>7CR&=`3kB0
^0#1FG@7-;ao6${Uen2R-8h$1%?BDm)aBp~V9FoxwC<yt^&lXXGqaxrw3R>!_H<AGu7?9<7)o)~C9iM
4v``#lCX;8m85Pw6;AXM{YTlVw2K1>2<EauCNMM<UN%PCfT=00`8+4vTEnTvCC$Yb+A;B22uRoY2Zcc
mF`?6wh2HD|GZaL$ocLhldBS+~StAm|Qy|-cXGi!_CH3D5s|clA^lom}=$dV+4Wb$hM`604sY1@oULI
M6l>p;i*=;ZmVHfh&vec)>>8TrLh)OtPu?8n$1N&<{Za=(NH=W?R0G@x}M)?R+-U$*a%#Pg-0T)lRTe
vV;ee}8Q1}DWMzl_Ic*_2-=!q2qyhwWwn9QQU+PTnGd-IAQGPn>Hw&qvh<)#52cCgRnf>_O8Z0I{lBk
h%Yqlqe<7py!qF93AiCS7i>_99g%p0_A0vYv6N(<6WKkH`DgKAPx;F;q?>gl=}(P<qWL8MBR?bFTm%(
xT`qUobah5KL+&(4<B8fM#oUw8MhE!aJ4X!n8Js3F^;3Cj#;7fbZvZ7jyG2octhgWGM^KhpCZ*6BW=W
u9FV(a0%jBw=~A#4{z+$FdN>YKJheoTk@Qrz3tpYM^`3%tnVNS!s4=zl;Vmn~1wBc080rGSXso^?9?*
"%text.

(** Lines 2715 to 2864. *)
Definition DATA_17 : text := "a}Q)slB=sTWg1DlfeNp?W37wz%P>&g{z-3vCm`uIVWfh91i`mH<_rB{of+A~xX{2(2_nHR!|&_<^1rW
5I~ZWY=G-8L?fSC!SNWZn$%-n9H0w1mr@lka(IKZJi)OFS2gOpOZM*4^{ArDW+(7G{Pk&J<qfedk$Zw
e%rH;Ci9akWHAUR^)P8xa_yJWvHg1X}6@yNr0n%$>6?~S)(!I9L3KiI8(*#jPo3!3jv`_jlafl3}yZ2
hj@#Xb?^(>-z+Uh9z9CK9fL{@hFS$xLVZ`s9461qqDrH)QY`?@j3)_();vCX|kZo6ZwpY==;pF>w0~m
*Q#A-!VR`wIhIf#y%<FgEgbo752cTlA%E}q5=2-ykJ|X>uS)3pYOoG(G0smdiQJK0|6}^URk5jQJ|4(
gYOVrr5K<3=V%E&R&*=2tUz$5C?cIY>&~((IFmm=L1e+xgf(gb4QpHu4?;do%ke4kNQ)p_rNVZRQD)T
e8{jkS6Vs+AxO}55ZYb2@5yP70xzhrSO&y~i^(CmTwqMdn4(E+5@9Jvp)fzI~qoCn+yT*ET%gYjFt5M
<y)FIPQ9(9`dU}K%<RbNB@9PO-Ii1i876a1z0x^;S1_}MP^wR472Cqyy!VDnWQAKEMn&&&KI%U*49vZ
;}_s9UjOQQO+hSdR*#9tK+P6sbK<7731nL_UA*#X}tFGsof!Yy&s|yVNlj-}jmA(~B^pX<S>Yw^>i!M
Yh0R`?%#%(@twpnR>#*<P-#^6c{DMT8~NGJ^yZyXbIV)LN5yqbQ{S#Q5;G{t$M6hp>G3-;nN>Q5i~7P
tNS|{+dDyc521rS{>OiSe>S?n$?LC!T~d?VkDXg~yK5*YNT=^xT^{N#TPUZuqh;$?EG_Z9iltYpI0lI
~5`2T~&2gxvt8bMq-a3cnwbJ!dPxt14dwtCk?C|iZ32d+6>tU*oC)(3}&z0A%EoXSbRByL-RzCCnSdJ
)=Vd&A1Bnhi>rivM4=`3nW1m6*u+OutTAClATp6;YMVKi5#u&uSMR2?`m!>I&b7tHbM#7tDVxl=Hkd9
4(x2w<9$dlo?W1@;h{rj@`Ve$CiwNzIk5d)*u}ojbq5X6W71-dbzt$?}FrfmrstTlRdlS1mUDwig3Nn
k>B)(e3Xuhvqy@*Ge#<bN@12>+|9MsWiqtb{oFvMlAt;Rks=Eq@5b}Vgl}`1%CWA`AD9ilHega)BxL3
?MxOBN}C;k&ODa-Y5tibn(Y>pSYPG{qbV6wHqFzH!r`-}D&3&by0`FR{WffO)ZBeo24BP%y!xQK!cmV
Adg4HItbK!bYFR&iG}I{K8&Onc_)_0^!Fb*^V1u!zSObN-&d+48;C8KDJ35^#buGS&|B)2w&rgqPh`z
F0o#Oer2!q=5pffY9v3_Xw#-x^ZW1~vdaixPA?(J^Wa`z=Hg9qM&x#+UFTZ6uCpKWRG3`EOu&h=*XC%
LzSnqV@To)5&_&-qs;)*9b|#@UUwoo(;cUp@3crM+I!#Az!D9Sui1xgDWdO!gZps<MZsU3^obyH(xGc
pZGeEDhG&UK+iAbx6+I8n@|k*(0>r0lR1$qQV|vY?LbH$?@@$t7VnmG8Gr%=J*bOR}f45UBR*B+cImr
RmYu+H(tZg?CzH5tAU#~`ksHB(kzwycgTe=%@vj(PBd-b|78X=^aQ2v^}&X}|4ZlA(Vzm>(63+l&~1_
0wzWbebE>EK8dD#wzHUxdH&m=Jf5*T=m$Jwzg@?iEExlpHq^gilbdaptD_{6?hm0zI$Le2ZK;9rA>93
J^Q&&*JW_+2{3(TAA)v;)<GEd3N2$Jqj?qe?_n;$%c9Yj%#?@b{P``u?VyLV0bkX%;FjHl%EazWMwHi
eukt5{mrDXe=}cC?^$Z>iz+-R593ZguLUq=IgJgeT_s(qH3#!y(4vsTx-s{ZkgO7LM2Hyo2N6N7q|EM
iPQ(wk}o1K<Fc=>N~?asM5w24WL`@9z$j0jaj$8pPUtjz$orAsjk7vsXjx3&v=cYXiFpg;~o$jBDF-^
upF<C!mxwRh#v7|pfdXO7cyK&)78clqV)-{a*hyPsWy%nl<;$_oQB==-Vba-PXe7g6F3FLi#pUP8@03
a>L_0|+Cpkiq&HaH_Q-f+q*wIUHzR9M-zbtTSP(C>LF*Xrx44YFHkwn5!^fZ#60KX_eReQ|?R2jpNms
-}_uKzdZJ7QMZO|9sJ=4QBflud1A_vhO6FGabi0)_5@$^q_TS@&JP)h>@6aWAK2mtey7DwX#G~lPI00
0170RS5S003}la4%nWWo~3|axY|Qb98KJVlQ+vGA?C!W$e9wU=-E0I6nI$$t2li7DzDs4j3#F)aU{wT
>=}(hA0FVVs=R}0iPJRE43JA09yiyvuiUM)*r3DSKrfCiuR#x-@_jWR>55sv!GV_VKEBTXj8q*L=6&?
1w!U~&Yjs!g3|il_w)Jw^+hvt=iYOFoqO)N=iGbF-O3+6#F!X{F~gs#GR$5^`{!W(`9A`G*^~a1&Agc
Y=gE5wOa46h7VnSN=dWw{$(;?i{W$;j+wQ*mCw%_D+>zfP+@1fUyYtI#uFC)MPuARVZB|xBfnJ71{y4
AV^n;5Ne<z>1V)2deuG(0z*iGLf7B8ajsf*{pyYv_17gti)2Nqjt{A3+ISAUPB@8v(b-HYWV+UjyL%o
0Ni^UDuMR43v(7^5N6kijs2f{$NoaYv@Y!-@eN3m7&sObTP5>4`V<q=6#slkEn;pQD)qB5d-Ve9?cqz
G9fU7$`C@Pr1GYnGYG5cUgvMI?6EP{}Ix^xMXagoesn0!LQ}-*u=xzw^wfv_SHNbCZAzeU)!+eHvTq9
ny&YK2K?<G4hQu*uGPSpgV$n=K`Zn0H{e3oHmq;B9m2G)&}U{jyw872c@1~0{Rse0$<}Z{%Ufc&6mG%
gd-(tV`+xJVTJCD@G6O+u_Zv$Y+v}3EUu<L<!5MT~U8-OS2Kq0ks#gUb;YGS}kzc^biwASG1eZ7ew1X
jUr9)iE;UdpxW1_`pP;;3h4o0r*xBZ#ik;X8GBT$oE$$D&Ru)N>J?N141molzpWN{|V5eV_)UdAXn-O
dU|IUcMq$WFE}94ss9SKg7Mt7@?Xv1^9M>wqeQ&VHNfT|ExUkQ)1?#%}T!)M7hqk8+QMVdguSWh7r!R
iDwL3jJhY1h6-Fr@{L%$w^ZB2UJx&SRhq*NzS-E+Gvs*<5g~ejU(7Q8u%+_AjB%@jKGptvM`F3yNON3
toimRKSA#HrPKr)-#z=Z+{hM2P0sjZayOJ21Ac(B$7*(y@i40;XO9e(GEDb{n!)-KwcV!G=EjP8$Z}d
y4^;F9v{CN1h3tLYqap7a=#wOLxyX$e?d&Ra_V`ku#u@;AOlt#HO>O`@Kx@Q<GYW;yLZPGZ?7c=?ua9
wKRlQbP74*qNVio|z;@ifB`r5rMP`-<FU8Hykmd#V^Rw~)`vi0SsAfetqf={ckN7sL$m?UR67WD|UT6
T8VtfE8fmb=wlD-5}K72`Ad3{W4C59?BM9Y_b=fnLF)=FUNYc&cD1m)q*J0YzdPx!pUVlmQY*_c4$o5
1?!zhnC(MZ|*w9B<S;?<S%GvuwoWQ%cgofQdz-xHMa;WX%ChaSY5t#@Y>|^rB|uB(;ym(wTPPwtm}jn
C{!`pLf${nt{R}L&D#oEa2gabOic~V$!j@T$mxBH!oA-QWK>q?hQyg37diiZO8*jHFioB{6Tp1E>IoM
lt|2`zGEs9u7tQut$OdJ8ttEQNds-r^U}8W^?9md}l0RvQ1vJsCB^tbqBOOe%tl(DUvuf^Ks0)DeFvk
p+$K!!P^r$>EO3k%E8U%B^4qC!hP=X9lFtH#uZwI0mIyGK{0(_NWyHzcmqm>KOoqpzH&)3jmKDvMnfo
Q8Xo!^21Sq6BQOXeJPFt4-#P!$ZaGBsGv0^{KJF!g}#Nn(5oKi0>($gWI8Yak?80IXkqkCMT0TPV<r1
pNrD<7ZF@kZX<D#@37Tr_>0OZJ~N`-V|>;By*31T%-mdY@wQZDOGGU)`(G~4v^mk0FMH|9NJ7}1Xfw1
SIK7rFt;Za8YFxsJ1tTXu#mcylvbO&3QR*89?tt*GxV=soHK<t`|_0(-xM)qu36?H`%H;0L<1dw)txZ
5N<na)QLFCljBlw<+KrGJ^Vp9p%I$;UE1(sW;P(`sm39+=QL>@|eE$nXio_^CiXXPa^^#>lFwhNQSDV
Hs34>^g1L{=hGEmCeE=1nE^U(9)&#@+3Z;kwpJ-$A-bwtzoEZ)*|K7&sywI6EuQZdSB5;*tMY-yOSrY
acdxrkMyGKGC^kB{}nE+U=HpcB>>vYoV_#XP%cp5y0m6zV0vfSGD)g1hluU;G5V_%YCT#K-=09Um;<q
rP~e@EIMfE4`<>^wE^hQQ|hPQnE2aFp(j{)Q9-9M+8E%O!itn*R!mkSv2_CZ-Ea6x)4=v=?Q!j4>U*$
bRs50#ZTbd>-bzJm8^4GECPDhCSv>IfLxkGJeU`(Fap;zMeFUyh2FyO(YV|#(+a+kAO%k0JfkD{&0L3
MN-#keB;-Lt;3Om*I2tz{G6gZ8C&*vVy2(BmyX3%ncYcnzz7yJ`QX*0*nW($F=#%#46o9zh9`c$Q`B0
IEoPg1MD^>u#wr3$t3&yjN*Z`~|K8yFr7qB|#<pO!AQe&qrB-gU`kDwxZRLCJaa~LMdj0W~c7DLb$Qh
o*yf`zU(u)KW;15rFr3m+qQjlgw`g`8RBZkjU>aw>;m`K>Ru3;CobS)6Ym=<IfRu`xs*P1kp2J1hrQc
NMvdN(ffT*%@`>BCL{h%FjE=OOQW;OYI?$w`(G@N|zOZ1)edA^pApKN7qS3<Vgt0ZAyW+iNUqZ3PK7Q
Nta}clnR7lhJK`xw-AbfHHH=g%SF9hZBf{I`y2d7F$7bUtq&X)y6cOrJn$183>PE*8fXH{*I9WZOJOo
p&=o|;bCaK9iQU>7<|5PKt42yqRIp6Eqn~kuP=YcO_Q8AwLZe{QE94bB`}t9%7_uPYk|HdrvR`6h5j?
EruY!RQFLZ4DiQ6NVV9kt>M~t8d_$HDiV?p*(ag=Vof)f8p-YiEH6Rc*g!G<ouSsM?i!c{&?U2)3hyi
$hGsv@aS2C}bb04IA#!Uz_T=jaRBp^{TY{yq)>$P*)R>_8v@Dp*+?0cD|-iEIyDi@YnR4)Uk%MJ-54w
YN2<$!$9@#b*ZIJP}*8<Ee?bd<zqOX16p8(}-hOLW*zfin@sH*vnY1lCmA6C5urE=Zgo-&F7kcP&S|T
4b%aI6(BtFfp9!UHV2wu-IC9XpG^vXmMWXm#JI|{_BP%OMH;2+A^U>nbL$|(=C@bbLUj?+nhzRONg3j
gPa$q-gE|ZAA`^hphL9BPpS`<bO7p;KsC(mB`R&3(;d3cs*t(1yn#?fGODzo0SB;V(w&lCkTo+(>2r-
HAoW{{&$m$~hF&T;1(p;gz1BlZihVornmcbmf=k{>Jq!L<TUh`^;x>Z#R!_ZM$(7pLIyO#HsA$coVEb
?4V<0w53ZRAbg1b++v!K!bm0xDZB-%`NZPPX1!VCg%63O+x&HA6gLxZzE{K_mwL1}#=NEfRCXNRNCW{
5RJ05x%UZkCbt%VEN;-6FD4^L-=ZC1Y!R!XV~6+O&u86Vmc?DQEl(w2!6~M49$Fpd{aL_UwMPVj|s=D
5VSzhs2o}qT%fLu1Q!gf!skW$?1v}qV9=R|WGv)pa~UU3(NyFSd5KxsWd$U_46%UZ(P)(_<5F#ZK;_4
ZjX4aT1Jn2l@>ed&%9=PNV!GDLLSCR3q`yO|?O0!5u`_4GWbuN^TdI7Z9o%rOrg-%7;X#0nySe{v%;_
t)Sb!~qRv~}HvvPSJ$nQ#8)Y*gDDKKjP2T+j?#FxqCK#zP0*YXuIvJ3Y122fw@js4uuUx5gZIvZslAx
`FB!!TEGF&pL?8smi@0S~;ov0rZNjs*b9Ufa`ftJv7X@RME!UbfYC%>Mp{bUEAyia=ONlOq_26dq7A_
hPcWeWOv1*q!|wR|3O{!zu#mdX0;O3KPoI&v34+F*xIe?N>Ydl>#?;vj9LacDdNt&+t>^%DC!`w-}&%
i&fx8&Yr+YE^w8K%0*7>Rn(6fL3+e7!Qo+v;Tl>vxhETOJq21Fdk~?PTJq&+A<XVR!5Z^xF;=AuR-bN
Mef~Wgg%e5WEEcT%b;UvsKfPGU6Rx49b5Ob)3x8^cR(MW!av=9);Xsn#WYc9KkIX}{SVCOp4WpL#sLG
NvWJO8QRuqM1`)Pl2>L;^-=nENtNLP)V+6Xk&`Xw~=ORVvvRErB`BWu5aOJ4+v*qW7W)D#E;xx`+ltg
^V)LSgt*QX}gjkE0+8#M!&Z;t+n~A>S+1Q9e$L5AdVqBjNKY@*(l#N#T!EO_oQIyD2FzGv-pJx3plZa
5aLCLC_qTa-)t(;f_?3Ij8~drGSotCO(IJZb`Q2Aqa|<ooaDyr*Nf*{G|{V9@O4J=C*jqp&7VrcY55!
Ls2~b(q(skmcHyRyO2cGvc0$$SYPa91z1iG!+K!QKG$2hJx*56TANzRaC^+9$^=~Ve1@Qtb)nL~LR&6
PlTjPMze>xM;lqh}Y^j0?3|z^60gyU<unT|A)R1}y)B=)C_tn@180vWODl=%xtIR$_m7Dx*4kZx~*zF
N++XZaC2bdcRnFO|QkvTRMMX5CTW>#)5d|#^V={;cL=gKD#={XeH;-{0spQiSf-C%Bl(Ku>9vfe6pH~
k<(Ff3ePKhf|t<iWWijFTfV)H40YHhoF%%S^O0_H%f^*cv$hi?nug;F!QpuI`CFji0q~S%?>gO$WjkQ
lO^b_$RPV5Se5Xt+fbhy%%(22ARQsQ7zH}Q&`BC7qP(LOox>8ra2jcNp-RgSSil-EwbR&oZ`S7l!M&+
eSLc0n*!)k=Fl}6MrET_zS+_nW_h+RjGHvPNnVskE5=&QJQfLS5HJGS*<*6{*R2BP2t;3mM1MYmQnHf
;N`|4!B@bsL2WDml9T;UA(#L*~N^4Ng!H?;<pni)GcP2xpCeyiLE3RB_*(nNETB24smV2kz@uk>kHAv
+aA=^#<0yEhFi`^Yorp8TdC_<H6YW$&lS+S!ZV3g524gAQRET8=hc2h`;mggY~v`OtId%j1x;PTnH69
kBY`NTaM4wkBQbdI~QyP21E_qXZE?mE-8X3ducE369{;(&oq5eJOI2ekivdjH)z<C&yOo!`WQlCERnV
&5<<c*J*95D0U~HG`ENVHqYfs+9GXTSR`2o6Ln+w;U%S7;HD`ybAZ+x@S|NnGXCrsxne8ACEexi#WfA
Ce)7yE>mw|P^6<BU56c=lCJRu6zN&2{n75ez$R;Uvs!nvplS!7MT>yOUyF@*lXrR(-6eC?;e(C*Re2Y
Rb(8Uf9TZEtKvgw@;B_P2&|=9ixP;{TTMLSV(6}7$L)f?gi;F_>tS3P@6EfXyp8<rd)xbRVR{jt<O$z
S%@+q)tD6_ZEg>ds;jKN)e;q=RylpD3=L5y%p+{?o|d&6<t;o@C{L6t5nRd$j!nJ8|9EI*#qV*AOW`F
ezvETIu+?7$j@ev&Z)6Ygbw<H+N%*wm=Gw?a#HJdT3nY=GI(3H>7X{6L3d$p(ZXr@ya9q?0=^!e=0Jv
6~>ErU4OR)b<%5itZ?ahfAGRfO7h*e0Y+jU+I+7Q7m){sV?#XFkxbVEXuXAvrA^>bgA-`YZ;k48}SyA
?;x`C6o8A3oeaW<5WWMKC2dG#X9wAk2IEFfK`&#E;ufJww>qYQn71R&0VB%l!DntaJ|}eHa~8p8Nhdt
(x8+)`_{uWV*MtrlnR1H0rnb}9HSfaf@dr~_0Fj-{j(!f`<{b=t!wRs&g7H-AjiyvUngRaXj)^<^0fW
($Zg{4fnNT#PC%cp$q|i+mDbNmCwztqAs>W*WIvfB86ah$mdOji-RGhWAGxhjU2L!#ikywHN!21EF8D
YFwwzdliLh%}SC08En_W0OR#&)a<W+AR1Qgx419ha)R6%%e$i1YG!+)fbVxA8?{yn(+`jBn(xAor&vC
(G3-$TwoQ0lRs{060~$Y$wIaeuI+!O1c4OTE9`-0<s-0_0-!BaQ+hz9lUqzpYZ%5aG3Lthi`6ANQ_r;
5B?G*@~tAt=ls3M3rQxwyn<gSl05zzk!0|bLDc2~+YQLx<6Ph^21h!M7!%*L#v<^}{3!M+E=Lgu7x*K
Mcf@{A!MYJF_83hxa)E~^PwE%{HULaieAAd2h5pA-c@`VvjKC+$%~$Rg$u0a3MUu@sD*zABs9cexa)B
`b&=+AsfNW>x2g)K8R0VtU9sTNSFx1W-%&%NeW2dH9_a|Z|>3K#pzlq9`!tJH<b33T$hZSRHdveQ+3!
I|jW;et6pTzxx{8iex6wl-1K9k$~6bw2kU8JvmTmbiM#kSNzAQ-_CK}cpv@%{mFxXHS5J&TYjwq-ywV
A)VgeXMscO<p!M*^0?VMw#ME^S(usZ%8JO6Wg*e*}x2;7n_QejU>03l0;%g!Wi#uGSD?C=)`?b)<rtY
=$5g*Igt<YwVKj_XB{ARS6Jjqi?qos&5<^-(x&lJg_Y_qKC5>Za>|t^lu7CK4bb@vy6sTgj{<dvovPY
g@C}?usOAREyNdJpl`<ncaJ8*?2GK5*2FovsaqGsB!E(?ur;Vf=0-XPmL@ssaE;pHS2KU(Lw`|_k>wv
Y$;&PLFX>_^rupEa5D7X9Okjco{<SeSfo1X*Ocd7SDPA>|wY8oj|<v<!IjDiZt<6l5Qn%+NtmohF1h+
49ib?z>xL0V<8U*JbK-$~VJko=@otTahlHD0{gswS47Or+>2xgVxtM5bt&J0iJb1ai)f9N@9K@~APuA
$z@YEv&+z1g2GyC3Y0gpGJPg_?86e2A~gC+dPoEf|QMEoGBP6x~TDM%AKS@2ktNiPvP^?c6>hZE<Sf3
!RNlWa9?!WqjCBQcG1@phv+MCkiMP{(bpeeh1cT`2D&dI12+dN%~B9|Q=_y#WS&xhVA_rSQm_*PKq*0
Nmt1Lu7}}PuB){}Aa$IAQLE3DW#wLM$tpSi&^iF$zfWueWzsmOKmE=uDRgp)+`n&%MV4iNDk-Sb%#y~
3@%1G;U1!`6f-E7*dovWB?)s9QGvHynVyk!fy@E?h48dh>-Y=`aUKR*Ox!H+5x&t21SCRp*gcy7eTY+
u$27%=mnA2H&{rIg{xU3QKA(74c*VKKzkMo4rPUA<HH#!aP61mYs(#Y9xU7G==|E%FJjh?VRzi6!^pN
-uYlSK%!c)#<w=ga5p%uW>MI)LD24B$pLfrL_gtAp8|}RJlErY_50q+g^7`cMy=kfsg7$C^_RnXZM;N
m@gt%cCV4LFj%t+Ca?VW+GUA)^z|o?ZePgjS=%fu(<7(0IaNkyl);}_QR&N)mzquQ*er9%%+t{Rr53r
I)xHbx+sXDi%=H>GhVc(p6RE0SUJ0uikt(~y3j_SB;ElinR?186&k2^@Z<U<gGN>Q%z+uoQ-y>KRRB8
x>HaWH~lAUq69cmTcZfaB+zCcbL-h}63S`*x~2|pm)@!Q#>^)7;2A$0Q>u-sgH`}!Yufbv@MtBJVpmh
Z(kxqSihJlq-K<Z4)=m#euLFCGM4#{x0r5d+;hD_&vYM|w4+9G4G~f7PPp$~dydOIkJVl2&EXR&~o2E
Oc-><iv9{wYbW{`EQ1RUhJEs6p~_NkTUV~>Xrg440VpYq#&<)xog=nZ_{;28b};7mKCsTq^UYp6v-=C
fSzF+Bd@cF0|UGr%9tshAK=aQuQps8oVg)*>kC#n6Iv|(%*+UHc@5Z$g)F&YA;Y|kV~ihV@S*Hl^B{`
PxW5I+j6kvGzEX24#Oy^l-Ujut&>`C)at%>|dc1k+I*Yo_s;<i+^E8d4mcl?cB;#J(#fwx!F|2&Gde3
<Eo;>xQX(U$%JYZ(3-JUA>G#=;Jj@f!`s(N%KstNLG`HUO}-ud7H6l@^%Fr=&Mr??yK_V}3P-m8l66n
);W7zSF3r?G1b*yYRcn33!r(936m?RarnM*+=`2e*e|ad|Yn19zq6aB>e5h;W>*!**;%-x<5pvYsP_C
?)DU&b1Nlzbj#SoB`d)P;Lu}105Sjxqa-=y=|E2H;5&;t<CV`-Q?O7ZD0GC>;$!lPfZl1WWn5k%2J~S
j7aR+db_CDxJ~0*x!zMpDQj!dzEgm4sYhxPn?x)*gj@q7wPQ~Z`Cq_u#RvqBW@t-|n+#ls+Z1l{h#3{
Nt)TC^$$^C!{v&<<wiKUoDIM#&K_w6x$stpgv!R_v^{CipwhNYqu0&hKl85L-8so(`89Sf$l+U2;!Kf
PY6bKaF)zAlT1xiNSvAKwiTihP+6}LgmS^(JVfVBN(@TigF_O|t$oCd`h)gxlmY#(SiBbGdZ^{lGn$9
XYCcFogjviKOfO_7VSI6A(3?-7(m-Z>9!nI->;C_v577IGA)EP)~7{J34RqXL4hPU~-R172*jFkAqoI
dxVGuJ5yO(NIsw?NaTLz)9Y#&hn%1aRMcacct1>Qe(ULr5VEZ3k{3O_G>}(P2)d@k9q3%F&lXRqNFtS
xK<uUC5kAnJtd?RJKOneET{H}<ZP#<%C$$7-$$LDYXAq$jh*Y@wSEMsxH6+7!r5t7K8-p%cnZ+5NeAc
{1n8gun%t33Wo9cQTpgvo#`y~9c#TD!5vXP#N(qq8qmK9t#zx4;Ko;7t`WS5+^}qG0lZ>V2C66Uy(R9
Mc5J~&SPlzBt)jw$-5;JJ}^$ob<XbLu6c4;c;`<1NS@_Ne$ph0Ii#Q5ljFX#!E`SoodI0ogSe#7uHaN
M476Wo24<F=DE(mpfPX}`ev*8-r=M8=fU%}fL5PtzjUa%~D`i6wY|0|{S1OPUAz;mP@D1CaONNg&Z2U
{SBR0AC)`;7p3}XpiQ_gX{hGL6W<wen)FgseVlU$^|1`*(Z4)fdZ=B<Ohj-yd@!8Eb7DgmI?_DXw}>e
)7|785Pi_>v>@j>RQR^fbo88e8x&CZewB-G2^n12=k-J6er%T8L+)Fc5b~c^cVm|!?(SsV!(MB?f$`3
P3?8DCYDbxMRroJ<FA6C=YVJ&WUT#0jmx}``Uup}rS{AizOJN7_czpaKo^_Pq+S@>?f&r|+6%1gStEK
h=$tuMiD?I{4u7@<Esa16-on7+@N@sxSUzcg9=X2rX;W7>FlXSETqrHf6GIap$v@kRd_vVI(!<+Jw;;
=dkKav6*M;RZ^`4nn!Gk6l(wZt8Cz6dPxag;0_zWh2jS&QegH6X)<1s1n!Irt7f!~mi1pgWzjczD_mt
e-80QpAc2YJJq9G8s~Z2?CRtj5fz)_^`E9Tqn<>yRjih&~>4?4GXZJX!vuLr@pxIQ_i1FB>-X%bAA&B
^Td!DDAW|$&rnmUxc$S;M)||y30Pg@U9b7!g)Jm+8Fbr#Wnv1Z<p*16jx>9C{q=gA#MLIIY4xNgakY)
n+6T}43~1bSjLbokOm9P@>_;1p0hiRO*!){1Ri+`E8aTP70YxVUx9V?2;lu;O)tcTLHt?0bVOGcll>J
IWZi(C{emY5xhT|#WPg6}ZwbM+@ETw`V*~+w(o2lv)EVm?8CeDvqy;{zS&bWDz>g=~)*!+O)q<j{Opl
CyxNaZuJ?$oBG<|gHywsLcG;G~e^>s_H_1Q)7(?c+jX=xdiwnsHH8`2_)$pXW)o%{CP&MVcqZjRKb9P
}0S?Niai@{YIPk8PFaj1Hq!H$O#vU7fjqXFN9P&=CD#wldV-N>kdb7N3mC1>^!z!WK&~5MxIgwO33$$
Q<{MOHcSFie+m_q`w7fKyB2AJoN_mGPIyDx$xIf4jFT!C|J8>j;ne)jWkoJ2OE0Ol6wNMbuu(ILofiH
(mKN6cSgqb}ToCu4RaJUm1aj2FCQUW>nN~@S9rhB`%^Po#`>1wXJboANOeofzi+E1s<|>S%Np*ILYR=
|q!}aGU6KXN)&Z|EfqB}2AwqLs2+z73Jg@Vi;w412X_uS<}O&^<VC!5Y01;;aZQo<L5R^gH76~+VVmK
h#U@$a+JP4g=&v;&E#z(GEL=w43jxQKi1X?VaVzNxN)jAFeRh__CTtgIcBXFzC6cN3JJYn1EUWHSmQ$
Wf3GCiRtDaQ}<Xag#At+{%6s>Z$2#uNfCYQ@lF5C2Z{mTsC|KxWsJ^sqqwaW&w6aY8<}PAr9T?n8Vk}
"%text.
