(* ===== verification/PipData3.v ===== *)
(** * The literal of the pip installer, third part

    Lines 2865 to 4214 of tools/eposiotgw/get-pip.py: the characters of its literal
    [DATA] as the source has them, line breaks included. *)

From S2P Require Import Literal.

(** Lines 2865 to 3014. *)
Definition DATA_18 : text := "3`M9Lx^Y_vGCkX|1yXf?0+(`yr8g|{*A-W@!Uz|+N!5`)5s<EoDQ;wioZhez$KyIZNid~5K@#aFz&Dt
3#cxw(p<{5D#78TMBnDt46$n@Z3<7VGou|mzGulY}fuYi(fgTZ1X%Q&zwHBZyaqib;X5`uvg66Ls5R&
H5`KA_$(Y)k@v%pePu=zOf<W+SMv48@iaC=5ptK<nt9Pa%X2LlQ7dX%`uY~Zsz>TwU5`BxAWu42%fu6
bZ}3UIGe6mpe}wlV1lDVSX9@xk;@>sBV03U%h|2%NAe@L9ZbaA@A^#-Uk+7DOkDC!kC&<dHQX+4v^XD
XA?x`+E>MKoG&1w86y_d9xf<e(cL5pX1RY2%#4Qj@-~aDEKQbUj|vhXcMP+qEJY2;Yr{@xWYqjKZRTM
7r#tog2|?2O7oO752?VUODDs+ZXALPa<!T~n1GJCgIdqTd5ka$h+U&mf%T0b&)_+SI(xW{huD>0<*}X
grP)F?K_JQ6j<dfnuFZjNucs}cyM3b}i0dHTVQsYH*0TKqKgNDm$R$e#!M^;0f+=^=qkGBOX^(F-0WM
Wxe9(#eCsAkD0&2^YBMHO><gQk;)I=%=go;`A$mS_(W#^_ekV{+glo61}RYhjdwGN3nMRw*W9G*pYw%
j^T<(>$M#7Iy0bepCe2HNxL7s>Xl(%MrSsgi50RP2Mr!wR$5S}a(Ek+x9mSpW<4@@aA-GFmIyn#@d(K
*>+w8(Obz{n#&Tm@dy*SmpN4_XDl$qmpVKZY?Y#<yh66DMAgI3n6Ka;*#?`I^ZK3U|ZQdl|kq+AUdnU
6=bBIXDVSaPo6S95W06<TPg*zlCz&<ThRJ|{OjkmBUCxnRkyrLEJ@C3l_adRaERRGp-dDbEO@rK^FFB
YNm?Wl5M^~RqSpa-cRKhi5=hpj{H@A%a;JeGE!CNKS~))=LSD*>9RpG}ut_Kk&oU1gAq)^e&d;EAh%k
ff`T&{`%C~p(7V;DgJM7&;7MiU+yId3H(%i(2L1321qdlA-x95T1%JYI11}R%!npYUVQCe!YU)VCigC
=H#UywKqS1QFr`A{p8*u8S4MLdW02ItV;AS`xFl8=VZr%*G3M~9ganDhA@pRuZH89C!(m@5we!67wGg
<4xH*%nqA4Kv<@=lWP(O0v4*#(rQU8lDt9Ri=^zUHOxfO+M2GY#%yyJCOi)5_F_uEp(&83w@BY?OD^Z
OBsHooYj$8$^<Ib32Ef9l?;kS<z{;d$$-Ss*!yHUOX5{nju~Qm9qWujj##nI2$dL=44H+J9cD~ytHTY
Ce=>oeSCTWKTG1x(tHUPnc$mO>L>>gYRtI~89<R{33KJFPX){Vd^Eae}iiuNONe!Ck!~9N8Y#>F~(7E
h}xx4`9at58ts<R_8oolI0Ee^o9%ymaHk<N81o$K{d*_MIJO!jw9C)?g|`kzhq|GH$d|00<=CSwWro&
MIzt~?2I_~F6Hej}+ltxeooa`S0A*>9nfodS9X(5@Lk>!l@I28K@eEA?F8BV$g}={^yr`vkOs&ekTp@
pN*+KOMVd!t3HkF8OOL+2bY%#?I6EW7#Qk{x2Dv%Us|yd>cV<rn80GcZi43@<5xYAi^A5iXu!3(3q5}
Zpc$Nux_#@jY>y%rfT$$re2&M@q)Gm{`>Hdt=w{-unct6G~L*z$W5-*!UKE(sMM3;19Sj)a4yvV$O!m
`iCKe_GOcEnJ|kNl=7Rg?-Y2A?>0v(T(Oal#gOH2e7;f<Za+I8{E;Vy68A_#WC5OuU9ab@9O$RmrA{y
Xma3LEnSJQ#_4XluyT~c)?aG!DHH3F#2XUJ0|$@_r98&epj3hll(vvw-kH%uar5*!xtvm_vyNVNH|Gz
Bejp=%yAchPz$r-7o<x}?Yq8j+AgR%n^$B{M7D=JPmLHZGNFd+f(Ke<~CLLKqjg2>mOrweYiA%Zdt&p
(F7Y=K!}qRN*t%@M9{3Z23Un5#+z(Cj(NoRj##2wcW~3wOC;c`QkHL)4QJ~31K4ymD%!vqeQB-+QSVd
$!SFbUk&22+zt{)H%x_z<hP$CL<{mP4YE2i?uG_wyD_+ulrM(Pa#C6LG@Q=2WY3T})7!nJ<_bB&|Fre
Sl%{hTd;{J6S*uoBn;Hk0mQ0xoE;Q(y{B32~DH*&==319zPeouS1)kr+%A7;XfuKeWbZUk$m4aS{pkp
a$P68CbOd8l#89pXhNtQvkTymN^GgZyqsjHEjOn6K{0*ASlAEPEyY2|*t2IJBUl|8|-RC6!W#Q8g+X;
8C~^XK4}%V9pF$(|vkG_hvI)RccguI)yPp@>uq9IVIQ&WT4Ediv06m^+s9|2KTh&EhRBriG<|<JiMg2
J5M?A6lOmEH$7tQ>GX;LQ<P4LlFS~%8ym272511)M!i{-fAI3Gp~jaV21#9<g{LBY6YLu)Tn0gFSnVp
<h0gGwPi_aiZaz++YQPqCOiq_q-sWezrK;0%Ft*tz%PUb6+5lmedR!QO0Jxy_1%G;G%6{r257t-DRg$
@06-_X0D3<n1`ok|acidk@TSy-vHPjK>fl~FtZ-u7ymb^*-jKbRdnwb=^fJoP3{P4|aWB2W?U(Q~a9G
G9i~f%EgdUa3PfP8G1hc7KamZY6+4az+sS8_fxjqFH@XhJ1qhzk-mh7nuQ3p?aUA3^VT^ZTe{+Q3O99
^l%L8_ryLC7tv?LJCyU9M7vZXYwmZv(A3L&D62m3mhvsx_5ect~OgEjP_YMjb^_+}Q=(i3`YdtEDF<Y
H#@p+hKczdo*kcK|#`z(M3ud&_rgv_>YN#o^}9^_pstQAdB~L0-ej^N7PH1V#Fwhj4<-C-IQ{A#PEPU
ynZ73ONhl8LKfZJvHCJ%58$#2MC8ZZPODL;5@XOAzbuukq*PL!ppt3zVq-jmf8Lk1qFyo~rNog^FmMh
6Q{}X_vec_Gl<7!0X&P{VlFk4k_;zYwVAbN&wL+l%2?8361T+TbG@otmO+^CAHY(}$GNXaPpa4sY{Q|
WS+CE=OoxKfKxYEBRIp>Xk!&AtZ50}mOkGa4PF>ps06T21HM{WPaXZ5Z?rR!e+mU;yY0K2ySO=H(ze=
?L^zl4-}auaK(yHgEgN$e91?Cm5Nxd(#EF*yQkI>DmPYIcxv8n?f!$Sigk_%_X|*l8UXa-d0^Ud+!wN
ib7oPZjC9UElUcbQgifsms|_<QL}>hH%OiWcgs-Kh(-WE3|}~X3^EO!=K>3cr9B+X091}c28~8xMaQL
`Hyw^MRr&R7yTSq^wE^!HtIe&ihKxAns>;3xYyLCR8WpN8f2V?5pLQ{mOOliwtX8-S~Oor&*3Z-_7#9
#pG_XYlBU#1tb9g!-Zy&1r6<PnEd>@lvkM&Ke`E`_mKCu6kTAOWJPPa$*<#7s3Dox>7Vv@`FP{_7n;W
k0dtdz6#9IoFwxo$sgBUXiz4D=O2WtxB%L=bI#7|7&n2}FC`+F!jLxVewa8SXj2t3V$0*{-#gS*9KZM
nYPxtT0^Th}otRyZ>E?S!7O8km-5Y@*w%3rnj!KnU$)KpCFTyn@1nkY7a>ccF=28lZnvupATv35B2)Q
h6STJW7^4U)sV-^Q5{w&}~3KF^-@%_KubM9?qcm%=b`;#!Vk9o?yAj-Jn1<*IQIn>gw~*J5;P^nHtE`
TWWFesp7qmsX)EayeU&2(PC5$+)E+F0_*-V7peG4mwN?MdTK;XO`Kdb885NuuxQ6>9=Q=oG8lYnh&4t
h^#*&9KD+7j5PcH*e2YF`rBAfYAag)CAP;_o-;cmI&{-jA`Y1_`S3<C9-!4dD_zXGl2R!jvz3w7T#_w
lRS<oTWf&7OO`=3y(8)E&9hTn2`cp!yZfA6N+m{ER%ntuPsP}6U;`#zU4#Pr)JA3(crE^v>EVzm8z&V
MI_T1V+dC_!q365I>VmPfyYr~eq|e;|Wl7TS8HC(ziWcsBxa+wO(P;DV01D>ic6{sY|prtXst5Jov1M
{d7AY&`{hD=i#1*GPeF=usBtex46`)PlgHD*!TxXan4~Pz+PN?WXwLO)<HfVt6-VG8O|C0Ck8YpT9{Y
CVsX^Sbl0n1=^IExWF4|o*G1WHnu+*HpiY%h7GabLAaTQaeBr6EtzDD$q;TjKV6t1M$OtF%Uk=Ueb^T
J02f?4SYjWwy@~x0Vq`k@cZD*z{ci-z*drP(#O6biv>SUCo2eIj)$n48UTiKcmf|3mP75TL6i7??0xx
nne<NSrbl%ICHJx9}=QW+*$OTTYiT<FF8H*yAeXTHhp&kiyMjNi!AJ|0ut+6MQ;r!Sm5N<Wioh?jk`k
7&-kO%9Ip0_EPcOAgYwNZ#0G>E4W0$qo6h@}XzhVz%>`$wFA9=?CV`Df!>;QZI(dlTos3g0U@|3o}R*
^TrtnT~BRfHTa+y>!4uuDY4-VYCL2?rQicauDZTkkT8;>jx?|E!3*@gG{vxjhBW(^j?7W>`&83CBBAx
@Fld8^sg|YhE>Hqh}Tu{OGHx2TY+>6;E%1S-~zt~t)b~ael*ZREu|Pnqx+Z}^7YYqUIcCC0(h&(5R5;
_3{4g?29snus^U3SNTCimF#Z~#75hF&326Go`3KDC2P9-}Uz3V9s~9QMXOwagYJm9``ezcr-V~6!q1{
^x!<-*`hwWD&QKqGSOGSJUw`Wnm%ZvJ-?xPzF;1qX}$~C$nI6o;$*%mdl9M!t0za^lVj<xHNT1KsHvC
UXrT9T$AyIrm@gJ?HXs~a)Ey~apEgywS|LqF9aUHLv_*G4`z1Fwo$o$R%XEJnAYST1%pzK(ma#E8Q;l
@8w>+%^-9zmt1l4^^3e#BUbkck|bZ@t=S~4tVLM)i-IV&>D~G7r#~?8T2_^Ee0^vEYp{~uAi)3tV!tq
0;;4|LOyS)mjg&q^-`+BYC$P=5J$0jDM^geq8(ao87Pm?h`un+A<o~Sd69U`Vw8<pjF;pJQh#Uacp*J
O?EnK$QvQnM(`boO27uN)icc8PbpB4^b}fpIlc$)5x1?%(qM7m)G$GqkBGUqz+iKAThU^2my_Hfl@Zr
7Mh*@>J!`)b)+^%G31!Hz-F14<J7E6I9OkUJ41^k0ERiz9YrkF~r(Wn4opQIp|qspbu+L?;R6zUOqA9
htdIKKHa<h%R?kv5bOa`fV=)LAd;ur)PJ`>>sN3VARgh5+mu1h8KtjL^pudbd!+TU9Jfhn(m`E(LLoR
;G(&J?Fn0*aS=y{|c0kakY5GkQj$3UCY16Bxy$*M=LctxB=i>DS&xdTL6tRi&_GIp}BB<LghM^JwV6W
itHh0fKI^Pa6X@>A*DAALJ9ZUqJG7UlkhQR6yOpgO^?AEd2A49Y~a||(VNYI(0XfM`=}Fr9}M<TpHmM
(lh4cTg3)#fc~DvyD^jl9r}^*<qYF8b85L3|(<L=1oYfW?l`^P6Xlp7a^Vi6<+m9`Gd8$Ys>b&71=?R
TA<n!XW;w`BriqV$rrOLjb^K4;Tx!x`$U7A_iO{e?60CA<sZ#NYe@g9|O0GU493`GuQ{*Cnzp9VS{Xt
ZYwDG45pE7K_VTYU-lQ_^m1ngi0W17N?_V6~dWeK-#R;b`NgO*h2hEEoqolT6pf>KbJ%o}=qug^C3a=
SFB>`Pv9lQ#!h87t(?YbqVfCTB1dmD#w)xLl>A``8Shapp(o#{8D*yK;8P0N>MBCLkUlQf&$Y@fX&iH
>EMh6b+I)y{Iy!p42AE*dXzC*(ej(Sif$&eE-CzP;yz@Qj5a>J5D0C#N8YWW;#W8c_oS*p47hx$L1zz
C`4E1HZAP-LPG|1I>|z?rU#sqZ=+c(bJhYh;(4lW1mIZo%@H^#7k&1(=GFHm~6TE}=jY5A}NKcGtQ<=
>-=$+!P);skLtlipk3D(4Y$cY$!l)4)O<ZuW8o~Cg%GF{<YO)XRm@Q3(Oa&Q}MInI~XBe90Bzg2M77<
JO(#r_&vygYQB%fVc`)WOuj->dM)-t1sT!CwvhNsu-~75d^9ZP!(>lJ}1f(T$Z#55!T!0hgNlhlCvjn
$V$cj`A*^v%1LP<G4iv8OG7AOx@{R(~yJcvzLD{dFH<f_3}5457Emv9oIDF+M#vRgMwjt`7#}Bb`p%d
f9$*H<yB<EEtk`}dk2PS-KUNvOYS^&S*^S3ctY#mf6K5t7Cdh9RF%Ge?b=Q;FkleUdz)}K#vo*(6WsV
-N11^i?K6^lt8iyjj+1qmr^X&di_A3`c4=433~tiEd<6dICZXl}Uhyyl*R(;GK$7Au9^yEr4}=lDw<*
4Vh4}vAu_5?owZ4(hj}FDR|5AK^d{hH#OM;Of9sO?jPOZ8G-+<}A=+2IyS@VMxe+z!k9!=o4u4)*5=~
)CnaVN`<RX4EYfqhgf?$d6zky26HE;kRkU_fS?=TNii>Eb4<NhpvVIVJfizZ}EomQ2Q1cF7ccrIj#_#
|%OW=^9P#Xb+ef?}IBHy04TilrV^IO=ajEOt3;C173QoT+Pa1PqCHH5<`~Y%Xorqk2ZYS9Hyc0db4&f
23;9kY~YxXW(&o>#$KOK5iH_r7B@p<oixIrS%1ovmMXb!wX}3Kh?e3xmJ8tal&_#h-g2wBrkI5l%F=u
e%isLD%*b2Tlsv#NAt60lz6Q-Ylr1F>CBE_YEamQ!hZEm8zDixmFB9MBF|RBw2`0Yr7)F^_@?hc{H*1
w^OMa2~ZpH73CA*FKcM!j`OJ2n9H2B7?M|Hy*AFCd#k+!T+(y)We@S|?^N_yZ_8xc#kp|vdF+Bz2<G-
shxpvQ(g1bIk<xc5D`gf}d5lR0Bx?1Ox&p*7VX5>ETfi#(+0B(;I6kxI}d5Gejlt%NGY<|b*7p=n-8O
>l*QpW-uA5#veR`M~WMe!jcPMb@uK7$hzNam94DX&xgSQfUEX!7D)PQ!&Vh-(#XFO%pZCR3NOCtLh@^
EUb`>r%)KA+_5uZM#;RLup3<_S6ZuVA-9w!e<fF2qPVGx&c%E>&ORq=mPSd={-$|T1U!Ir_P;QNdn8n
j2helXw7@Z*ZB1=4E|97%trNMIBCc|>ZiQw}JW5SNV_;zWm6q02)oE!lltTqjo&O|%19iB5rs+aHpVD
+8UHA=@WNuraGB^dHo18xe&1g-Xo6no)rVFX%%GssL-)I8v)6+etbi9!R8)#Jxwv!9dxvadjY2K~;Ic
)7!coH><-g#gNmK&PpOcBg-w~~c6@6ZkC1oYu(43wdfH`2<Dw=RGV9Tv`DUtk3JYT8B?ny`3oI=?7zk
}u)*hg<-BC6PT^C$m~pp?g~A)U?5#Dp|y<gP0%zlBzA`F*h&`$ez|_WDsMR!5Yh^ew=LGN`wXOr5c7f
&f8A9J;f7{1c3q{C{EbUc8o#W*_H{NW6^477g~*>+p08cE{wE2!lyys=Hv+`N$8iW`*AD1sw&vnLo(<
ca%f3cf=AfvZ^E7VbL#p9ay<N*F=*!O;fC2RGOHbLpsTT;1u;R(ZW{2ov4F!D69rW4K$ljDy0_Xwib*
@59ny5Sn)@ofp3T;4|B!A_Zmci1@m7#2LADg)`n%gBm+VE$CbzpV;yxO8xT@T4$=Rd6hbEtG{2Ukg-F
uV|_ruq8w_6qBE>-9ODD^$OpbIaho3&TFBce*peG%&f>P*+ei9115_ukMK4rV_-Jl|><zp9Qx9YUx>{
|E|g<TpXl5j8giFKT<>R%h|3`s5x=+<P}poz*oqVRS2ZCjk!OXIoul`?^$ZpKvtjU_D7ls3;3l)a|^U
o(-$(Td3w`(E?&$zK`bk-o3a=&U{l<y?K96I61(Q6D_}WQ>TM&x1#OVmK<rzy0-iAP-|h^{fki%i<Wy
sP>?T+{N;m$YySqXntKEaNUUu0kcV5yiwGb!_Tx=z<!jM$YCGC+Kv><dmW=;CP<SFoF0Qtx-++Y>s>O
5XEb_$rXp05KJo0|R98QxC)LGa=5F`#_)*}>MOTBm$=`)avf1$)z6X@lC;MO43S=~eM1H+N$18q4@?V
Z)!cErt6GwA(Fx|>XY31V%%P}92*zX~ypUK?9+mSH{U2mZ$+co+sLfW{6)<L8GVmAcFO<J5$p0GB`)`
Ri^3ET5r$y`z22)V{*n*Ie!E1?|hBeLbyxm1$r9rhQdtUy}B9YY7e$Mr^_eK-Z%8_0f>Gc=4Va=)x&Y
sN$Mc95Fu4Ll*BIV*KXOMk)J!EsknQTh>C}D?KC|UC8Yv)Z`|oS#@Q>+ak_q1SmwFJ!Ie}GPw0{_C>U
}n+|wDa;C%g;d^w{AZ#JWw6N+KN^E%TR63b?k)B~iU~NRd8t*Lt;89O_EAYL8;J}^m&ZQq++Q&@#L5K
8&Sb`9YJPW7A4x9%3Xt4wV84yxRx@iC}ek$0GGm93n9cM!{1v8f42C4z2jvd+*!U?%UpE;aAj4M2yhA
#C4ZXNAHDxLinS}<dFdDbTCoua|$jn$}4Z>%;o^~TaV$kY>bW9D|b1nJS6b~_R@&HA2tWJh9FmnG==n
&U}&E*ehH?@?MFhqOGS|594UODogJdsI}cTQ%s=jt3y(9dWu)R(W1q`l;iUSMUyJkjAqD5k9@|$PV<V
SMG2l-&S+GC|l^a32`--AV2KZYQc9WedDEVYHkPRn>{vXx2@aWC#3Da8A?{HfwO`|Zp#|6h+)DV*352
+Ix_a1kY-^m)C5VKx(-jj5>1>5i&n4G+T@nIrP@<1wF6RZJnDQ)GvYkLr%Sc(wmDU+k`Z;jOSf=qLAg
Bz^GUOc;{qS1;(gRjAlo~w!pJ_Sm2spo=;(8bH#b$PO|sJ}c9;qyFGJ=KZWK513oH0(6?{JFcpa@l#B
7yBUQZki-uXHn4aPpC=gd9IIA|LPH&`qK#dc{vjSj^mRrkow9G|tOFwB1+{-(p<1o*Rx#34LgT-`%Oh
Aw4d)Y*l07)mY#aBE4iK!9%Un50^e;;nyzf|)B1yo{zhp4U(+vxm3Z_-U{(7r-!GQG$Ch{4FJT1GjKZ
)JbS5w?F`IXjT?OfL5@egh>IwnI#Nh1hO9BuO<Tr6FvO+V4{bCgV;m5%tf8rEgfkPpzOeDjXJw=J1-F
BN6T5`VYTi%dSzvv|L~?X{my`$4t`{FWjBP(&6Pdq?Jib!nV+FYd8YKn?w$F3x|Yr=nLDj~n)YEO|Bj
CGZvw5_Bf?~|<{(wRq={tFK~$FTnm{rao5sXeYch^p(oG$fRiQgdg;iA`LFZeroOi*Bj<%by=yyPA>p
(6+PodD2hwO)hLKrdwKehRe9^9g**&!F?{bt7R%d;=1&krQ5Bi@c6tNU#PTLv;ltlo?b=}0(92xb4Y4
0Qi%iBMm`4qfx@75+$Wj$pshAy|1*^RTE?lO7h8DvQvw$&7_CEUEGlJnl<gQG`}uHLXD0hYc-DjOK5o
LvpapSkRQ;)KYn|>5hvPEtRUUwKv?v`F8^K0D_GCI-ju$%0Kai?kr)yAdDez9{`ne4r*Gw3lfdpsv1+
N`9V8_ra0{wd-#32r2u^&TQ4@Yj}=DA(Z`l!$}3AW_kak0fLcV&CL6z?un@DW*QrAN)1dy>aEiW6Z@g
%<3Y_dbb!AjYNw2gjrgWzji15m&J<OMtAaU_mm*Caq{FD;BcY%HxwJ$S6HCr<yOl)%w7?eB^kN4uG8<
Yw%AkL_m;mPQem-GJtZ$MR{9S*6nlM6hd*|Si_aAmjz=e5T2ODLDP#~$Va_v&s&QSSb`@dA&yaYMEkH
*Y8u<0)KVB_2cVcMjOp3eG<fPi?rsA_LlgcB%uw&W*8==mlr=cmNgC>3wz9%me&e9vU%bs%}zik8u76
0Lwm8(AkN2yt7@$8t30Ytw4;t59opmpvypWW9OHzyv7JCu-7r|o@3g;Khx6_BX|Fg(62Xc=6>$c?zYC
t{!pOT&iT>9L2JRkX^~eRfSLlR-^S9Y$lo~?Z}ut~fQK*^;Ld-JbKut@orOq3JhlotR)U=r#(8{3fC+
Xb+k61`g%SPpXf5lt6y@ImE!c9OX{8(~jJkqlCA7D1=V}HPxCH+kvYO)dkGB35SOw5E-f$*c=mEEO(O
Iy}P|(WWP&v@_@zx^tau8^IW(~)zp^wv=KG~Y_MpNTOriB$IQ*J&Eb7{xtdPXgmxrxmm#!0qNPO>REZ
4<o2XF^s2q%##c486=V7g-f>l%!GBzrCiam#qgl!)$UKU3O#J@yg!W^4mjtK{<$I&IZjXR()PosUsoT
ydQLMUyheO0}|+6ujy_ucyCjleif@Qid@*A;PSuOPfc8EfcJwU-pJ~gwH7yy=V8L-Ox=nH9PQ&m4*m_
0*oT_KBMr)J<kq-;VP3~jnOz3H83n}?R+Jg9QRyA(FK+DQrxiDLXqZjjNvHQ`u*W}fB)7Y$KkLw2A;@
HPs1ZKMF1ApW2TiK{c(09I%LYygW69Y4Nh^ze`&5-$B+(mfs9`eyksFVfD!a+Q9;H72;-(x%C@uVm+h
ewi@zRDYG5*7itQgAY_H-*oxtrUQhS8ZAol2uaV$`TsTKTeikih2G+q?OQG6!WIZjT9s@0;*;o^I_Mg
mLdpbONFM8qEgz`3%gNf;kUyd*J`J!f;b#KU2qp{vH=^TX%8L5WB=R4&A?ndvUJ>dWu_Gnz8Z~q-bBV
r^jE_d#c<nS6Tvx`A-VZK##I7>CqAB(GhNs;Tt^)(;h*)j$ylw@DbXs1BGE_l#dy7gAnOfv31Z=$I75
04xhLW!(th^P(0q=omFo)3M>>X9xy7OLL|2*qcB`M>^=*~qTkbH;I(2(=bFOJbLjP4U)ql87j#wRagQ
934-B)QN^Wpg%r!wvOLMB++@5<<ZO1&pG8S*^90$WKS6J-l8q(zztm%FGg@%j;VrZKEL<6BJ{BVOTjp
PQr(_rpscX@0FyfQAaiygecBW`=$mAtJ(x`P1OW5|nFijnD*I`N{4TcBOn&}+uD6c<flA>{|MqaaKs^
}$+fNZhzJ<jxQ6QVe==m+e?HUS1ZWJ;!^yba3>_zBB{2U%PFg8rM|sukLYBv$VI|3{#sZ^wRqwZlG6J
RP@^pk*wd*`ys5dYua+zRj{1o;4*QL{l@hWc<Du1fwkHNh<fs#OYgeC`{d0UZUAZ;-gSYuT&VmH#LWd
WR6f<t7tGjjO>pK0+46$4q`-pLTx@;;R_80UdoIdeV9AY)9$1A^&mL^H-dp{m3tMQ7Ouw7&HDenDtGv
u2FSisgV}%sjwMf;nSDHX6QZn^`jCCz$rG;kcE=%<?*NU3jnw6lHsz*>?uRv~D@+aV4Q$d!I9h+dBM$
<ivBT5=5O+%1R?2GWaJAjRN_cS>4U7H>KpnDB^Ni#5EcbM_P;=?kobjbC+a#jxLs_tT!8F=iOyLv4qm
?I&Jy{)0^uEQ2nC0l0?uTQ~bdYiO53(L^<De(3LFShmJmy-^T?est+bL(P0SC06MsA)`rKNkKVEG#7N
Q`rpw@lYMNmv6z{K5XK4d??lG##`m%+QoLkb+A|}%jAeiIQ|Bar1Fz1_>ts|y-6<fV+blQ@5eT6$A>a
{KX!CGK9r38*wyX$fK?m^!lgAF)(2ZiZ0s;_{u6X7xI;+unTQh>hhk?ZZdm;K5N@&H{;7C@<ujm1e2R
F%ER2(HUM*F=D=k_L@xna$<~35~k?5i|+mIX}W`>-_0y?G2Q*xFC0w(%dTzRT-j9hsN5Gs3amC8o2s`
HfcSMsl2)Rbe$QiWwqQa7%tQmZ>^lrexzxv?Fu#^YHZL#~VB76nZk-mDR_Gts70*?B}-w8j=9j=hNs8
tBbY!$y5a-r(o5Dz|22;Yr*-q1`@#_gVC-C-4FQ?mo)p2MR9)7nwmyYY?hP4zNVI9lmSq?dvP{QeXG>
^+q{jir6C!oC`NCS4Z^gJ4Oc=g2dP`kH+4l$MV;ORii67bFWUdv~mGdD7s_u9{wtV*{!~}gEq#=YR6~
VMyJp0%O@`#pl+Gn?jiXpFswx>zPuH65%DSpZ_oBwye&wlv6s-D63+|tyFU9bbJu6e9zY!-e@Y+_VIh
hNAARjL6}6h<tE%pKh;Ddd_0rEVEJn?uI<4W;Rdtu%$3*#Em|j?2&}tCF27icOsznH2(u;F~PZbP#$%
a4CyQq(d-Ky<?7zT9}uc9V$X+Pw=!QaUjJOf%C!;g9f)lA-~{5e>vVl9Q?NU(Gu8M>GZ_3I&BS}7PbH
N{^YfmtCtEp89sgY?HV^KG$YJg)YVlL(F8gLGf4hwgX>PI7)Lvd9v;BewVN_=6em;r<hKP@<boF7<?W
"%text.

(** Lines 3015 to 3164. *)
Definition DATA_19 : text := "CnoH`Le%&0`w{w`pZwlLzY7xIJ7$cdKbK<luGUJ#xM?_x@gY|djZ#6=T2!2cu>5=%(klk#INqEB0@aM
bNq!nOh948GJhjYc0pV(y&)`yz<9#~4&bUDUZQqJN52e_)V_WP_!e34I&-f|o5y{zwdAAqnDV&zVqAH
Gw>MYtHjI&Znq!XoWOhgh*9{E@NM!SM6aS%P|ik3^#UQEcmzkfm7*#MHl>wWMz5)HlnDxatqf57mmAg
tUh^gypZD?EyVjAYIL5eDTM)6K#c`0EP70mwjhzc6Ut{j4_4tMO{_9Jl5dcTBJrS5v<@Drw*ujn<e^<
fktr8Z(hLM)@n`pzSa!M~1Y@sJts55HElPEPsW<95yCfZ_M|gG0GJAOyO7D9!qMy#Nycp-d1!oZ(1xU
c!>jgzOexn^iwJ|U_n+84SlY9sqChK6|prc+PE2s@_e!<F`uem_ep=}KrdAIy3olUjaSrO2D#5ZpXkr
h=ab0A%anu^MD0iNiNYiJGYNQ4zt+kmD&Iv^`UV@IygGQz)24~yIpY?Kc+Mo`Y{v^>Ya{d}WoaMehUb
&((qEoS822aa$AwH(7-GK$hEp3sQ*vNZS;$vz{WV=`luD0ML~n_55Br&hcw!qm@zVzmH_3cOyNF<dIM
A`-O*gslCscJ`cy7@B9J@?@`y6h|CX~D7&mpf%RX!oD!{UFS#miCU4cgefonz7Eeg05ObmR+&Wmx0`G
yjfec5~>n2%g1_R(gj1U#WP~E=(fxo<ko=Qt(_78_`{wTb-PmFqIgn3Xa!I6-?T1Aha%-Q(!!N<ec<G
0hHMioDa{Yb4EU;>6}6M9uQ&QQ9SLOKst751`x0BN*3>hU~B@E-CH)toX>N3#S`v0|2T&#I&Lz4w0<+
>V`%hf>Mct%H*x-L@IfM<qJ*{9cDT4ACm6_wTDeEUF4?5cOq0*3xy(_#_X{s<Sq;$kGrVOEZ5roy;qA
=1{Wv;LP?XTjATk7IAW}dxy8p@)v`2IN9WD1TlRv}-?gXCMnknxtpukP%GH}Z^F#hkTc$=c)ra26s+v
=LxQr**1`L(!u4uft&JuYQ2w?FJ6Z%)w;Tz?=3vChIbO_iW>I_!tI`=6$pHo-vI-_hie+&pD)f8rNrh
FPf6hA88FhAIunMGA+&pi3a0ocmIOl|8^LgF%E@=2CZKxAfd<?q2=qkMozH4<Qqzy>+><jdB1xB{P6J
?YbYtcm~?%(#&!Ysl^nQ0!TZ>yD=lTt=EK>Uf6$z^W$bvvP|5%8!WWV*^@P_;OA&Ygfwv5cEN`l!17g
EdJK01=Yk41*C<Tp_SkHP#R0%{7<FFS7^Acs`zHmlW*u<3O5@1Jxq#$)J4F%~xDo52g&OsC@>lz^R=6
aZPHq|oJf5~=4s8dv2DnZ!t&h9!+(l>>i*Ab9t)n!UmRq=)a<){)&53<!#EZR=H0K~`ZimmNeMmEm6x
52|iOVXbv|>=%@4twY{HCq9kP<>LPytVSrFH#Pt)mu}N>AXRHJ#4@rbFA&#$-9lTda=q<^gpS!!-Ow?
$)vtb|b#0X=6xZzI_-MVs#YGK$~uF<F?r`E>cJtf*sw+)}r&k)MV3*T;R{c8(o3M(@!HlpzT`Akz}#j
I&AzxZqF#who-l+_KVQ|v4-8)eqYwgdMQt)(WW-TZY)B3)=O4XTk}2)4q(sr{!e@MBf~d)cAMdno-M+
jEvAs#T%VEXl0eNq@l)^EkZzsRyJeRjrNq8xq=8bs>22&<w$`c3c4sFrw1$wa*X{OJgL)YZb}KL;gF!
5|FiZ{EU2@pv)_o-D%xt%R$oc<GpGCCq(2X`%&_4?^e;WdLi)l9k+CSX-rlS9jokrRabE`}{TBvt=P6
8d7Xo@)>+JZUJMOWR85bDf1$zpRgoQhAEQ6i>!hnFwXHG~n?iu))Ge~mAtu9!|iA%}eWY|_5%i)YcbP
?@h!&#&OKM!7!G7i8uRP+e&oo92wAW*7zJcQil#-YEI6XEm$AL(l-3Hl&bFij~@3v32A(kJ8)7tlpid
BpiHph*e&LmX~;*{fAbNi*>M~!B!uC=DS(ttt-5o73AIVAy$wlo=KMc;WL-Df~<TtVWqdXklxc{^&Y}
Lbw88r(<mZ8Gqf+;hxcV9Svy!0hkf|qvVBOUeR#Wy{9*c#KBPh)uCF53P1lSj%}42pQ>H%j&>6FMM<+
vd+A(A#HmtH!V#(J#|B?A2|4gD|A5Bm0$1dw#XmPmZZW(QX_$={fAZ4Y2sA5P}=84~<_cU%P0>QDBQ7
bL-n`8}Me(7Yzd8&{t&Yv!D@|(Nnlck5~@4+xz|AM9iDYCO)N=sb%@f|$!{&4Y9kG!21|B*)?_2APy@
_q+m9J%<P`2F}r-6QXd|4fQC5C10`7Vk|M7Qc9L&?E1*As%^;zy5#GBd-@3itdp|?Wd*Pnti?IAcywV
gMN9>XHXxAp<a2?aId_VnnHh1dgaMMEaa|GI`@*F?SOb68z$yD&1n(Xu>VUuUP`MO;;C2l5L!DWeD$a
wUjn0thTyn6iR0L3gT8td=&Lugu#Ng!<xuB~!;qRzUHkqId+LFjBmIv(^~9&CGfK>Mc~?CwH)n{e9(#
FLz0WV>s`r=Su6k{kch&p-5Ldn53~|-_<#%w^`^i6b)vMH9^_;q^UWx9iH%oWbyGD1_o2t9&O~4jBO}
#C|r>P@CkQ&=-&U*J=@eiE!?mBphv)-eZI_upC5V2Q=IP2}9&U)4V#941=!dY+I#bM5RRsY{O>s|N`&
U%Lv&U)jAIP1NjJL{4ErL*3XGln?pJ$3QBI_us04QIW%nzP=l@8qmE6T6}feQesL-g-}<n|EwP!dq`P
_12q`@Ycg$d8XcaFEE<7-X`?cn@+v;{&uOip2p+;iKpIyQJSaTP5<0eFM*)%?y2`z05=WDi{i4UKbC%
}r=IS#_AL&3=rQwu%vEpXABVW=J$Z4ss~*<$-CgzQJXNWm?KfTZes%GG>Z(VJ`$w*N34nj@s&|m~hPE
e&3%Bm3$Lnr-D-&*d`-iycA>3u$^kz{vJp{PCo8E{aZhBYz@7?sq1&(dKg1YIA=xY~`G5^?4PsiT>&`
~e&ogMX-j?^9XG{Q(a>LDurxuf3ggN}MDzTv3nxUpWG!z4WQzWU#L>ft>6zv!v=tBe1@Q;+PsjHez-e
&6P)H}>lUU%Av%59=B3sV84j_&@U0L$5pPsYjjj5}tbKL`yyO+O8VnsfV%Xsn>F8O9wsm)>B_PEbE(|
dXHbc)Kkw%FVg%rPd(bHZ(!~DSHIz@hm44N>S2IPl2FH_ao_aR<FpBD>uo&}Tl00&R}(Y^8c5>;!Jcm
wu`lu6+xm0V4}&){Cx7l>+5-+I<9-KI4}Z_Y-+uTrL;UO(-Ft7@GJUsHa>iw+)#C=eflQtNXnjYmu}6
gwB;)afsv}3`_mrEc`A7dUYV}VY`p_*PDvU~82E?bkNdJGJ*89%oJ^7%rYH06aymgkK&WAbBbP?~3@1
VczIv|WE+y6t;RPX<fWE&##aZL*hffkseYqa<3aCJ#IVt}A>l-kM!=Tc=s?$)(I5bl>;Zx%lWjn+keJ
^m7ncKq-kwbU#&B<Crqx<eU5`u{yygITLoYw~av@RVHLLGFfh`r~sSj87_o+7&SLhZ@N0-=W=kB`cMp
X+xHHqlJx@(p%+}5%6ISmgYbbL?IuROIh(YGb0&>{`l>Hz>&L>4Z;KOAy^qnT!U>r`xs#3!*AM3fnIC
?z1UG3x#lSlEchuRG4of5B#XCH@FrU*veyhUN@VXy`ZTlnM5%?ID9YW`?!cx7%g1|M<VSmPlbG9cNDf
O|%y?1F7EAbJYi2mO#rpf-|NdpPm=_OP0J!k&*Dzyij-kcsxLN26-ammJtJ63Z;+6`1tLhR;?f8^oO0
6dtAm?$aZZNC4Ea>ahpcjRkeu{(^e+mwT!yawuX$^b<pltz+$cH&r6nx@Kh~Qp2#Jyy)AKEy&Fzj#zA
IZXWU;c9PyFGLhqjjMHbO3)yIN@W|4VGY_AMeWBV0J;>2<oE01<*1be-Ww*;vp7hpeLE^flO7zel;?u
G993QC;*jGDbQ#NRDgKf=EQ1{pJz8MNu6MA-IjvIDkG4o=VDYoMnOR>+for>N?Oa~G=P15O<As?F&gN
EVtzw!sJWVk<wx-u^k-wT=}7R0`Qn8!8#9`gWKXaLm*p#2;`uQfE%=!qT-MQIRZMLRQ)+*wp)K+IM1>
;VbFz5Zuh1UnS9n3s+h`fFo!$((XdMVVTh}uD74k+eb?L|_AN-oSbP(^a@E+hSa{fOP&J-KHlF(_NMX
wi~9q8r9x`+5x3}}88ZgN({%eE0nTI7`}G-PuR_llvW)ep!*CsYvn-QX`Ec3G=nWY9{j8@J;o6pcei+
5ur=GzEjy(mB@(v@@r+pLgm;W6E4{;G!^cD2N3>l#}8>zc3Pi-o{}bOjHhH-Zb>RLLS^U=xLSz%^esI
S)=`)L$B1x+6RPeIYR!_kJBZFzbywHvxSQHc4y!(c%TC#UPc}&DnYC6hR>Q+auKC99w3|57!7+-;oB1
h4xDpT+ZlF43|`dc(Iy2(eIKIe3=J+E?{<;HFG7XK7T_k`&&<+#OK~;f?#DUP)c6Gyc^vg0;mg)+|6$
JGhVtP{<uFqY$MC>@NHO=lNH@Wtn7a-aNkT{PIVO{ijZ)ZJj%ET^b1%)q+oJ$w9j#4W&?&aeJ^@NIEV
9QpoR%9|Sh~@3@(2u^>g*8PSh2Cg3?($g<S4W)x)5*QWyp^%z^qJ_7FvP}twE^=3i@Hae0{xCgjR7O<
4yk$dv5|zW%2co51U+<1XB~2@}{^Hsh54ZAQxE_0!2~KTnObND4TFEYAK*sRJ>yP%@#}3T*}J&nz^*8
pypEUmYG_qsa?d<(gc&7|M|@GJeLciS#R(A{(k@8_knX~o>|YCIWu!+&O9^5U(DCU2N{(ci5rSz9UgY
nX)6kDAo)VbP8vvo;g5WD8$_y9x@hA~bGW0W6-A*`OA}O84yE}jxzCcis%OzvRlOPLi+Xk`8G2jj0<D
8<mtxTn+NAeHL+Jkk`No~$7LPBaZ9=ClxbVxIoKAIanFI+YQl$-dbeWZes!&6PH(>?Zh1ii0MUEfg3O
#BP=3Cd+n7T6DQ)j`zK4L^^<QaT?Q7bkqo)#a3$*rW7IVwFwYA5lQFN!ha8Izu14mm6~qTGnewRb7G1
c~1Xt<%n><Xfz<KVX@>T4{pej;nOogAlG-6(P(Ps|Iw$XM?50cr{MbUDM35;jU?=Eh2r$SyyEdJ|SR&
=?~0{b?Y>D?im$4DkTrJi0RZ}xuJ)dJJ-?_eiylDwN|uSi`HyK{6T^E!*EOBUn?zIe0iZEWPe$S=3Lb
cX9}oi+>&A?SWXu~d0g<k^*}sFll~0$%vw0PS-%c`aKay!L~NJY<22v;9j^6AeqWRnu0T%W$IWxr3u(
gO5RaD+ZC^IpzLeL!lqJXSiBw_AI^)@z^Hj!$re+7(&-839q_c2G<$b3sk5d^bfiEe%(?+qc>v-MKxj
+L~nL`H%)J}`7P5(=1jTvd)lRVn?>VnxgliB-Jl6I#dCu9J=T}wC525RImCeY3JlzH}t(px)vYaMUV7
E(2CMl8!5TmwA9JbPok03GTA{Lvi&_-64Dn0=jl^>ndSYIeC4F@hrM%(HjVTQ4-_c*}7LV4jU#%iA&C
_Sh3|*(sb3%Ws>eBQeCcyggk=aOT+{G{k~p=@|GjZ~`_CU8%R-3@^(Jk!x9@wGfM>LTqJrCM22@62!H
m5GXLY*6^UYzhj+qB%DoqM49eMwD{q*UL9lWv{sy}Xz)oiYqZsdo=K$vmI-L;*ln9=`5EGTUp4}Rp!h
hD2Elx=uzAlIv6)QV126#n&Y^|WQnu{Iz6famj>;v;t&j%bPL>sL&droZ;h`@{qwu+f7=>F{3@elmOn
vboqG@+#qGbe^x|{R$+Tb<{owXdXjpyrs>}I{Es09}FlUz#t!~)EYcPa2E%F2H4M9cf{in|<c8@eP~)
{x!y?By5ez3%MgDtq(Jc{+FZqF{TMSr&%W4DZT!L{LKMHVKVtkWlPh60&odwOl0RVUtj2n}k|7NXX%i
gl^~@iw&d2cKz!UoUm~@-ZIQhSxR&kSF=}*_U3`puNG?fK*uQ$nw!jv4Y@v7Wo{`S3Eh(9>yYa-Xga;
F938&5zjpf7X@}FWMNn;ua=bm|0dq_27b>+gHL<UH0Qb66gy?Rf?I`2U+fy;_NZ%Unwe#K==oE|bX>o
<QqE6&NmEh25L)*a7t_IhDM<BJRh)Jc*Oy1?#jwtWmKk>TQy&pKdjqwpFP!pHUEh&_(RD(|*zYsg|H#
dp5p#6!BkkcUx&Bcc@rki$!-2&rWr>VV<298#_ys%>kmDk|J2~ByfqjVB(NjZha)+tx5h?1uc7-MJXX
fDPJW#%#~P3+<pB3R{9;J=s4l;e7Bk%1;jEB0cEoXT+)FC{&}u6}MVB|(_be=OhXRX3CSN}9>lef>c0
D2anBFd>Lknd7dSOYvE@%NED5ZdlpGHwD&D3ij=^rl=CPbKx58y8V)g*bd&j+}P6`D{eJx;eE9F7xM}
104MXRd1rMhx$iaahUsvmsz2FBkqeG7r7%Y-kDNMk>Bx!Z`;6DCubHn>s5TTL!ris{qQjBAmRbroS(W
FarLYA}2YQf4$D!_Ryibu$MYa~zC#z4GPBQc7=40k>kk6PMuF?$uhEAOCIYq?`9mM&?eZ;4&AAx<-v=
v4tQ%gR2CvP(PPt}y+iki}wIL2iQ^px==$i9f}`H?DnQ(sP<7gUw56GF+oP~7DLUFG4%bd^&a8|W(A$
ht~ww42_dtZXC1v`t^)ciDOTmaG%MHRAV#_`NQEPmAC6;`cE9T7IX=hh?x?=qhi?y2^fLtFH3GJS?P?
-;x(nKD||^tNaPq(%;bDHXL%<(ynxqMc{B*{O%IJYw`QS8Tw7r9(S3wx*0Yyjc~YGx^=}ZasJ#bXcDJ
Ln#43y4RncH8tM{7T9PhNW2;MqGjxfA#OGzsE^{7`G>PVQk|q)4V(rd`-V-(@P-88D$}`X;ZfT%N^r(
<EiJOHc5y30B2>l$aj+O6N?RJ&Rg(eYpp-Ehb7~-|Egsf?%-yb)6m>o<z9hJ%fBGmj!)9MneUIxd?p+
fC<;+CZL+ajy|gjb+YB!Vnf*-J^cTfKCz%jvch>53Alv==E}Z;&G1D}Pi;gx5qH2AgWq4LVazroqirG
ufqNze*uV=(V=0kY8w~v6aJ3+1Ztx-%u&|yH>tpwW})^h=iR@HGanSX{I83ALE0jJ&tljDx=CQ1g`Ox
e7z*!HSmQRv2u{`l@I$g)yOJDsB~ue2#e8WmWQxRahcUcScbdIYA@7?U<;xbO<_ox;IKWSmc=Zo9h!6
HRcD#(RF~&Gg*Iusq7B4-=eXlM%-~84@Ram@gG<R-nmn7J4SZQnN#bg=C}N3dUD?*!TZ+<V>s3)5XbU
C#TuK+%W2pgQAuCmWCv=F2B<T?MvAUAm%543N&a%6CtH_CSqtkYwJ>2PdLxfUGRc{_yTe=LHy3D!>)!
`}Y`Z*j;Yc7jY*@PDopck}q!ud4NmpVIP0}{FqnuZRJw>1A<-obAd6~zSsfm`uA?QrF3Mc?>6;SXKo3
&7jr>@w^6ZERd}Df!qD1q+7sz7eJ1x9PA=ueACW?sc16viBBNj*)G=Ss1%Z_5nq{ew|P)!au&O1SJ}8
=`Xg+kRUPDrF0Woa+Pyhsqm9RNJL6qPo*C;k#%iCY^fBQNN=fFt(r*0F+8}$V@Dl-RQ>{G;+n&viQ%Y
En=*{Iw8g<2m4_W<J>&(UM?PRD>mj!(ddMFko7Q9)vZ04`7kbE*LJukWhtf@89K%?-EkFaAXhoK4(Gp
QDn((YCLi;F+P-q{)$!Vny&_0Te)?tt6)CAhqjtT?m_LLy~W>zkew2n)#nDw1GyvCeRTltk8CVkX<j5
j7pTq)LQp49FwR7o9!dGCyyLT~6__P(SsJhKo>V@P^LY027KipH?6+|4!67$UOJ7&^!r!=04kLU@PQm
X<88t8~5zElFq$uUpxJTrZ0th>>KgF<b^xpfUVG(HM$u5DGz&T#~KEFwL|Th(cv}$~J_J$}m)@3`O}6
dHtpKnpD~THpsay`V5Sp&L|gmp*DQBR<QW2rHb0{pjbXcC`n-`YF8?KNntn*>!h0D#HssH03xWVd@#K
qyd|z;2e&3cV_2f}r!FOUuWQ?ePLf3@l@GLs;X->DUc02Ko$N<Nt7s5KDA~DDEuuoPoMk;Nq9{>l5v?
52!6dq5MT-b`Xb}a6$XY}YQMT!p(9wzErc4@w>J*765J{2fbc1MvB60q$dWu98jHE~`K|(^8s5B0#4=
oiPmtl<1CGIW`&=?Z9XuoE`fl@!Un`x?oMaP$FZM2eqT?4ObI!I_7n>bXIa2yQ^?;|x*E~c$$P*e$P#
dc7juvTaAcuOb|9VhgvYPr^qOpmH2YwZnfCa6cGm6q)n$)A>!H*dv2?IAi$kF7$^5UjYih0(q05ou7G
pq56ZL6&(!aRoacA#`Bh@lA+h-U>O)yzEQS7WPX$A%a=v{H9bdG>3g8tD~{IS>#gHVS+|V+q`p-<%x!
=pEGS09h-5Yd6^iPP8Ft@1>@K2h?O3AwP=G+T0Z|(QtFh<7ZqFR&Nr<VB`eSq*;&f3bMCMe0Y;RZDq3
IF+f*hpuIeVWXo(^&YEhv}MBFTE4e`RJdCLSD9+wHaqsWr3H!L#KR`f<fZ3v6Sl8NC?xQ#FiG1Dws1x
X{`H%dz+S#&qC(c#KTzd;6tya2r+OlOx8yWbiWcco6(I>qciQPvxFS*>GTR_fSLf`1d-B5+=%V{rr#t
7W|*t`|!xDW5Vz(l+G}mQD${DsCW>)NL*m7n_)ZTXLhXd_yi)!;O!aEX?4F9ZAO42@|eYsS+mqR^^Z|
;RbK(c7zglF74FByL@ETLzYEFR`u1AB4tyo^$t;UoJt(Vru|~tNbLgxhXiv4^o_qXxCKd4>-m|2HQb<
4F6({R;|qgpv_Tbp7c5LIn$S$Ms;#AY9Tu&N#8EG{7hlP0I5$gmp`?L4U1+miwVpn%gXNeU=0j^3%Sf
_TeRbyv3pXNEg!2Kjqe`s$q+`|R8wzWlt`Zm7iYsmFZnKp?81+6CI7VgkozToOe*s3d(Y1JQf5%0#Mu
*bT=XsP$S@6*?T={g~@UTc*`ou+6+m=NHAYQyUjOe`Ol|r0IaEj2NOa_+OUhUZEK@5m1-C?<Z{{*-6x
uByJiXra2_y+g%gyxn<%H&HR#a>Z-7}DIbzf3yk4408}olBV(-Ivc+B#h5FaG*%3@r>C~xHyTgIj_2y
Uc{&s<!EOdX)2^?YXISBLPFlB!l^8TTgN*K!>M%i=_&_Y^{cOCmY%4(>8F{oUD=ox2@>T<)6g+NBE_^
@S7kC!KVdeWq4Z<sqYOlZi@PZpO{P60JS%QDq2fH_<Z!jrc;19-Ca3nVd;-UX;Ev?AbFFLqhLo}vB1W
m5d|$G;)r=j2rXBh1cIzCONyT^ToSNY@OjEgzB2|4`@uO4e^z#xg95S8lTya*ZvE5*uB+KqUq*8UX-J
q;|F?wtomIIqx=9_`N{QY|p){o3_uHdl>^AU&L+S>&xZH>#!6;M3ggp`ukNx502byA|~M;FsY7wzpa$
wsHj2injGyhnT<+NPq?-gM5vbW@f0*tIp>{e`RV6Z7o(7@np|$GjG%GY$@WX;$k<?%chMZP2lWWX_`3
g>C3ZN03U;^~k&?bDif!+0E^5H!sSblAYV%-n84nv_~Yq-<mjeTGp^4l$~iej*CF3H>{x+N?}a95e65
#knddEG=3!GOM?9by9hod*hsLBU^QrnSa7~H;<@u=TFA7Jd6~@1WL_onDw)^GyiR5fnKfkAl382kh=W
d<!&QeGr8GE*RuQxz=(z!nOEo5W-_C`=(AF+dFS`(q^-6?_LkU}E@T@JH7Fa9SfqPvYJn+Z0HMNxQ{1
1?C^*2<~!5;{El{&d8)rkk{WZ?!;CkVW71=)8ITqc+o<<RxW-2M)xpGE0i5v8}mCTZX%hpDTppDCoMg
}F8%7utlQKy`KYvxDghP<EM#b2;m$ts`RqK|H~5f~N`6333TcABei?L}lHHOgA#!$ZSJq8!}zVbS1L|
nJvgvk*Olnkxa+>bt9G0Qu<v@u#sTz2R3yR<v>{5)P;DjUk|o!_3AFo<x2VB1Y8B`LanmMyu);^sKVl
G@RvWJPID=;BM5WFj~YK3{OIr#kDsUUlUr7bb~wOzxa6q8-@K#3;%IQGav)?7zbx8yfboXuoQt88d58
C@ic9teRcZUOXvY|14OOtA$=vo~1B}0q9KO?hqWY9+r>n;?@A4t$W5g-sXBQS@{Jo+IaVRCnCyg~vRS
rXc)r`08M1$fgw0uR2R=3`qWS;J-y=H8sy;bmlw32LJ>PAE7v(k$Lbzb6r&Z2_WmTi-jZ(YYu7T@kBa
-$m-VWZ8;a<oecjwVhsN4EJ07n-JND+>Iy*9<O{eDkD)M2o|VVvB|)f3mVjY)MC2@>;Qc{tH&RDOPvw
t;uT30OZ;Qxn3^d9N|jjHRVct+&j04yZ|m8fhN|ZgSm99D#8dYa$JkS2}y|)?8@TW3{EH=-9oH5e<)5
QGPDUC-NL0reEb`y(tcssT54DIk+dDkRP&5W3C=IkUUQk15A&AG?1?xXibx4~L6A~8Qu%DS!KJy+ixu
lOil{LR5|_<~(31+3!fab03e#KqY}j$GebqVhuO3(Dspht5qMIc?7`{ePTJ5%H7HvV@=fb<CPjBlM#8
s$^t)*f?oQ8ty^M<vVHPr55654Pz*Ms$z$h$_m%BQzGc$e!MT`PAKtK}1z<rQ9k?cFUQ5tqW+B|zU@D
lTlZWPJm5xkVh;RXXf4bR{EjF)m7C@Hd#icl{g(0o~+=Fbq`FT|KUL{M}_Pwki~<sC<R0Qe32!FhRxJ
x*x$e{cU5#4z*fbVr>aETCbS&F@k3VpQK|w0lBobgMy<pvZjPjYgXi_y_V-_-dSaD-i>o0#AWq6MTG%
1za_|hN|T~vB{z(R%*LzSSc4!(gp!29<4jr^g#kF#@szl_&~nItYgV0%%`F=Y%HedTgS^yuy=trWR?(
zslx_aRggPcjJi)ngE3nI~2(%<}Eh3Q~-z%vp2kDrH0ZU3FuXf#0I_x?$=8stttjSwO8tT5FE^R`%b~
Ro%-KNxVa(#k0vd@A<tG>3)>KkztUL_1kA1v=>5u5tT+DP(sGg%BhI4{iIzC6ig^HfKdZROG?=p!{VZ
izeR<H;lkLq9Tc-duN>_RR1IOh;x6DUNn5Ha9Da^>m-ts`%WD;?M2owyNq;-*sm3=k`^W;uOcCst4+P
iXSa5fjDk-76(+0-igBK#>yE9g*s+)gowD$E;Qe&0yvk4#xtA(JTR&wiC!vke3JO09EuUs<u+-7kt*q
W>4Zd~D!Oc0H5;eWUN#SG<9$l|g|RKATQ*>On(1cy$&P8#Nl;Z!eu!RVf*qpgKZ0WQN)wV86ni5KPnZ
`#ZSAtz(XL8eHmr6Cbt%JCL*fTp4mKBO^hf~>j`Uj_FuDe9>N?sKIMwpRM`D#qHQ^ykZ?cZK;pEdYjM
*DnO|VOE%b0G0gJnUk;8C)<PgRZ-m-NmLnk=dr0pEU$CD?e&^JB!f{dHgbx3#GAti`i)l6)dSy|4Rw9
uc?E+gtvaVwL;{n?lwT4!4a?mc`VvUdIbKP|}a?+lh-&Yw?M8oN6#J>=R;dlHnZmpZjd|XM@Xd*vDSt
<ilO}ns;?$SE;Yuo7c=-F=DZql{&ib?1h$H!m29oR7RVJxk+=uV}+e*;4pt49pGkA>8OfsnD%k=4v&f
f+8xvFNOE>79bFSR+TGY(ob8Y6sw3UazE6l_sRKv%L~rBf@<KV3q>i6SXYd%^`El&+xvIS-P7WAC&V}
I<&UhakUR`afvCs1_iwISP;B3*!tu3iki{@Q4D0JGx_V345&Unkp(NtRG)N~I+>6^+`rIFWhHtF@i(b
o;@lEjIbIHwIqwz*5^;+}z|?yI5FN=T3bhz{X6Hrwu$&e0XenU=)48Xhx8s^N%5j=;zom*-YVh<CD$D
DL$%Pp{G5D(q*2ydRL)R!n}#@^&-wuhrf%r0;PC=B7QWst)m%3!@q$FI^=;0Yj<Jqb#o4<boqf5)uMO
"%text.

(** Lines 3165 to 3314. *)
Definition DATA_20 : text := "tBsBc2~|zFQ7x{lu1QJ&Wn#c23X&}PKg403*Da&|5CiRqGW~g+v=vwDeZaEyDeF-rb)!-b6MDX$Wsz5
rlALbc;dX?m_yEJbv4LptU>ijv7)5YFCtEJ)RL2Esa6ucv1+H~m&<R{XEPxMoiwc8h@T<5z*~hl-)0^
H|_iv26qxepgoHBe|<`^13fhAac%0zQT`G68|Kqpa*t%$n#1aa`;aH-T1gyvQ%tjpHIS~#MS!ulN&m(
g7mR)b=y5<*3%#)>IXK5=^-&IKrNwB$k?U!bz23$umgX<@orh6}TeC0>|rmH{yREMekRZ3z^nyTwzOJ
uQz3^9jqN!qiyW3)9EaN|>E2O@$d?u@h#n<>m-rsN)4X%g@-GQV?OeD9izt?}Qm^IWEk2%Ryldwd@w=
aLYDfj<ReP=F^t<gqdo2LzwB7*MymAc~O|TmIcBzSY``ziltDP(<}ut3Y&|Cd<oahxctI0T3E4X&oV?
<ag>&&zpz4XwFC<*KDoAd3hT?Tb{E#Auyz#I6|lMr>uOk?gcYYISbiUF-3N7LxOErPd11vC49hpd3Ng
%bP+0ei9(%ZqGPXcjHVKap#r`K@#UZAa<-&Rz*2Th#UdB=?thhtOQYft0fn&)R*2{u^VHJC%MhojzLB
FtG7xW8jji6sxYX$wniqX*0U088bf~BLdVuPo}RY4i|p<3*P2Tp0SRO3|D&23=4EUa#@o)uPTGcCu3R
SoMG!s-rdxv=(xb(63@0qfhss)2R6u=>EdSXcvKEfv;aSPO+!2W!5tM!=dbtOH;jog||ii?>0-BOcZW
Va4fimOx=04r^~=9R+JwVSO4_H<5_jn9;V)&M?B<MC&AW*wN_xTcS9V-cjomE4%z4xu~>G@v_Si$wi}
enj*Vw7cK=pTHk3cr43~7!liyjF0-&V)Ew19>oio3H%CgzRqHfdb}>pWZM06KWS4Q0i<{QzY1w74<kC
s&lq$P~N-k=xQ@ZTZOLB47I%Uc(9VM3lty8h=(o}K@);i6SU8;vkXZLHJ=E^P?B$o)S(|p<GnB+1*>$
FgIsSqv&v0C57GWGu+W<&j8Oji>v9p_-0(Sqn7v391hy~QKLx?nr7g<1$Ll_7TG5bg&oErn+nXj#s#w
KKFcr8%;-t}e5%W?&wuGM%|y+OjkXiNQyl06)Rrbmq#)<~zyxEpgB96BfTj`Bq><3(Mn)%8kGe;Dja3
L1~qakUf2XtkqF1&@_^y{h(Cc=DuYE>`Pmk2fBIGczjVh(6NLUKAeODaV<Bu$|o+=Rt+@mRa1tQAz}{
N0&}E}rknV*zQS~-v-wEH@6t!};^^usrw_49?}pA%ZD^Z-!-oc2jQi_Ee?u?iJ6e@i>Q?nI4)m!-cII
2cX>_e+hBe>7>9vOD)?%x2Ht!Ut8jI_*lgzutQin?kWEJxf)7hemOU?#;Rg<z;rS*=SCIkar=_gT5KV
z`o;Y=_HOCU*D0!b#PoHQN%WXID_!PE3pm`fhxu`H5<Ws%8P7AeXt6FqgA*bN$ETvf8q5KUBH!u8PYZ
1XE}E-P>?D{_r7UNN0@F}Ry6aNY9*=7&n#l@&Oa6*)#5ui-cX2SZb=v_<ugHdYTGlRSFo$54QJ9QOEp
uz80P;GwzgM1TrQy(9)0uZ^f|uFUC49xW*^Y#xuB(cZF?CWjc3<E>LX-d1x&S|PW2&|Kxaf#@+0Yk~D
9`)1{arluWsF7G(HSN%e*nWS5CH&xipYa+aM+qtZAbkF~ps(qJwjIDfa9_sFBj&)a6?-1*Q!Djm)J7a
H()IBK0&e*NldBejM7T2IKdt-ZYY!#H^V01NAIGT1iHal-TYNnas&V?PzkDM`;+wH900h!3)HqV}Lp=
5p}1Srz!>K)iQYFM3S#-X+3agbbhBmK`P{jH`7`>MHrjXpCMgtbrz`=u<3OO#>0pz@%KaB-;UxUYG|h
{}(z;lLT$)md>}eGRkN`1lD9^q)@X>C#;<;b1_VCcO%im7U6zg|ex+O&y7J61CK6;MCw21rM6zRB5I_
W@xG-BD9e$@_uPhUDEn_f;rB$`94D&FrVIHOV|fbZB~P>?#<56b2juKO1csyrag8+Kjt+F`eCxY{l%a
?WZOx$-9cxJ&2cCB5$}CLXADiT#gOOOSAS!!7>V`6hUYWlXxUhI*XDb1I;*iMt|qTOyTg?wRG*c%9j3
asagc0h9gdA8FW#+~2>Z|Tf8z552~t4>u>@%ZQwZi0tR&b*aFXCEL6hGY>p~Df5KAzMAd_Gg!HWc+6C
5WvNANqrgEts+C-5VPC3u=(8o?_B?-3j)xJYn=z`mL>SAs4Cegypph7yb=Fc8cqSWK{jU<1Kkf^!5l1
P_w*_Xxog1VIE51fvKt31$+!La>ow7r{w_>jd^UDIS5EKts@vAdz4!K_<Zzf_Vh55NsycO>lzXJi+yw
Qn_vT?as37)IrBi8g;Dy5*>SWqmCUJsk8b$yGO?kbkN-yiJs@bYc&ieda*GC1AZnTY56Mk4+C7n*f{#
jC--4&D2rmfSb&Y)llie&7Aevh#s;!z7S0B-2;mZ*lNUK9!w{dBGftmR31m?!<5&*MV|x1Q%~Dw={V{
qsvTSBx85Ba#)C76-hj40<?gOluFo#l3gIEIn*@lsP6Da3_tbZduR3{WGj)jR3jrrplLUd@DH~qo27l
k8HivIM3Q!bfmf*kra5)HsHPUIL%Hc*r*+|oq4St4vYQIk)$6#C5<sf;CBr;<x5rIAOz*=#($Wm5=HU
LaDaOAG!P!Y75|Ww2-Da5?1Oj7maDAK_BzcbxFo%Xz9PH={@&{%XoMN8}2>T>8tj#*k9%O+L|rN-5PW
a?Ka-2sx3`m2d}Lz%EbZWF%LF$sx+sBE3uzUZN~T<gAoaFF_m1GK0eC31>Cy$@-9MCZ+b6C_Qk&I4e%
J<(blGNo5Nh!9C+d?c@nu^6JHm5IDtA+zdgdQs+v2ds*u{n_?IQe`Jf&8c(#UDTiE&J5H`&DfLV;C2E
zLl6<mkO0;1<o`1quch<Mwro6)`ouP8Q<XL^B63!8&hW7N|!50nb&{*kEa8k;xF$z)}#P_1ULy2z`H9
A%<#e0<k$^iJ?*<QVv|KF^?$%4Xrx3k9b^ZOh5flE{WW`4fb{BlK2A>9HBpGUEbB8|pcj?xzEQdH9O`
5X8ri&XV&iom>&%u&)CYEG%eJMs5qf%mNM9Lh~EV=T4j9N8beV1eMq#?!6ON5BRtjT4xq+VIT1`+H9t
{%Jg&EV-A<5G^iGq?&5&11A1y`hSOC>gSXy$~#3)T}ijD9imKg1V8i?{b;%vbI{WD*0Pnj;m-D`v8kW
?#}6SS9z>mGiFZRi{4_T8bN}h4(C>H(p`@692mfkp`s*}N2U6>iMx0!F&k!-yVsy$CE_vcz!9t3YTCX
e=*{A189d;kF!{6w{!pIad5kf;Iroksp=vXVblldUr$!rbxuXW;*v2-%qlj%lg2Qt?l*RhUd29PPvxc
o}TaLM6XGCPxb=1ZNBaHf#?D4BDQ>WKdsOC@tE<S;UyA@d0`v9jn+CiVt6k{Ku3MxGd_G5&(KMA7#vy
+Szipg%R0Tz%;(mTY4wCQ5s%puL$~4!y-6W5HBzNO`;nl_ih8Qf#C(QIzIn`t2*%P5m4qtu5kFk#>B&
)Pe-fJt>A!aOGnnjh@-Y%uKR2!M`2J<IJH6Yhv%}7#SJqgvVDy=^&swAbz;Biur3aN%77kM5|F{O!aj
7)AUeb=1!qUMIo3oQ>n;M(Vw%5{pZ1>zT>Z__3uu<JO2hy&D`s6RwIA)L(H)Gv%Akf+xRnW{_OAbPl>
Dk-!A_D1D-qUH2r^?1MKSl?)Rz30d{qN_V@W$#{vJ<zdxfNe{JZ`_RZGszDbtpuK#|&^w!bc&_&#<&W
dNuG|eiRJ!fv|JoEgr1<x&9^sna^zwqKqFE4rJ)uqc`TfXA;m8({-dE?EsZ@vA_x_96E_xkrYe6VrT<
}Dw7^zkR3Zr!%Mykf`BU7zjVvv=R;U+h0{@X+BSM~{8^)$y-Sd~@>D>2JUL{><5PKb*gC@kdMLrK-z6
{e0!>FTY;9{@ab}nw!7hs{P|OXLj}uj!sRSRZW{UZ}C7&7uQw~wr<n*p>}TVJ9O;y@FShok9O(m-mQC
&o{v55@kFoQeKek4-afv5{sDnO+Tf7Bp}Lf@<5Kl$<I^)HOw7#6&dHsWmv1l@OrA3JnUSMLk4b*|?*7
kCn_gJ-zfJ%DcK-k6@(=459uXPUe?WB1ld*9F2gMH_k}z~wV$$#tPf6u}cmMw*${%;6HJ5wDhso|J+h
4S?myunO8y48upR=(qw6QO;vH#1){=AKSqkWxylZ_qPiKbF|Vx!)ZBt;Ej1L-$btWxx55oC)MVWTqhq
w@56m<f7AVoIh_*!$bq!!k2-#vv>@%Ij}Q8QG~hlM@UnhK!tSxDU(M=M5S=K|jtAot>7GmnA%sq&TrD
`G&A@hKvGzd`_-0SGY;<QZg)#QcM}I@0T+ri49{30^5do;%QP`JiB;CF$r`Ivx{fXEN<iEL=s&|NeNY
eMpGPLJeQ=io;?EMlZr`RBcU!n9=i<GJ&WfSQ!GYeU3z-DO65EyH+OPwZasN!0R07#L<yNPU#w7)>@5
F1!Laru{i&@kQ{_J<-1`XkKC%lV`7%zJVX_$^W`fe%9cFoW29hLO(7<hwy#A!PB#@aaukk2uVPfWE6l
(!^VubWN)oRDwQ_4G6tPW-h93i8R!##m4iu}ilwXQn3Jw~hm)wxLcDmW^5DflQjD0wUSO8HE+=B?zb<
f-I?bW+5sL!OwEN;pIbZ0p{!0)-IyHf~8`wv{bbp%mAl6w3BJPRu3i;v@*%Y~ND^EmD3;K1$k3dP+J<
e4L*gl$8~fFPI~ho+s3C^r&H(N)L;R>yw(=XR62~o~k{JAVNP*pEXu5DtBN`fz>`}oFNC+1bwbSaSSt
#H|86le9aVT#2B+hMTX_(Wr#XV$r~r?Pd_%#n35-jNy!#g$_MEqU8IS$kPgzIcvF!E;v+8Nu!IzYF)u
Ymq!E>uA#6j_jd}U9TarFCTQ9#1HA=R)oNVEcV3f@i1L7hc!Xq5Qz+aT}fA_HPC&RMP9t<RaegWSHM5
P!~GS&LLyqr9BMz%UL#h5)VU7r`E?v^hmt$Bh&5iTQBpQ<+GsB?1l*=qe1{Wzl`Wo#xYV^}sU@Jpl4O
P!LfPRXS}sT3ZyL!DZ0n=pC$lvH(EUQQN;7SUPPN2R_jCTA?+VC^c^lZ^VjsTtYh)oCL0JN)zY27`?^
%QvJF38}{1%#3kT2*pSE<roc(dy*d&K;wROc#k8*4SIF1)Z43#`N+CQxBMP9WiwuHprXkzsK@1`>eV@
EN@&devGyhPL6K8(X;6@2NF_$$v$9giMx};iiHsh-sf>HTmY=R4n?jD68QJ>YO21#1hCVMVBRfSD1d&
L{_L^kOAw;R1Y^v#Q2@SQ0F2$RiVMs?&<r`A+Y@F{Sxw>)?RLTC0(5v7q@tkcs^}?p=MKRj?%f&uyXj
HF&JJapawTC)I#vG+zFXcw?=<#R|qKk&|$)Ya1-cj6*#JPJJG*Yj5<BeJRY(u`fr@nw%O-7nppOtHv`
q;hm8LL+-OqT*V18k=-h$w_CeO3<jZ(Ue7>fyW4xZ6#vNY;Oso&oIdKiJ#4{%4(#orWYtBz(4+9sRn=
>9~KzT<q{(!G~{Pq7xo83UW^Vs6?vJsiR01g20nMDnBDDH&dUi^e3Z+=ri>x`T9}evC#>_D^~XDotrw
=CeNpP(cGyIV=E>#juSpNg!!dxD(?&3boccC?vZ=@JFD;QKdj5W{YQ4ax4+iCzW;t3|9^GUu{XNa_dn
bqe);3|{mUEp$9vy9{=UGw=MOVMtFxAIXR_aoj^n}i&S!eez5TC^xVL}8$ol>#8u*VITZh|38+*fWkE
GW5J#J%fNOy<qyXW`hBpn+w>F)kt=jqs~ynENnE<=6)hUFPnaPRWCIrHBBM@{wp8`5`T(Y^Bze&OEnT
Q0eG{C_RIxBt5L>ih3);Ge%<^2hV<f9u%gU#+ifHTGZ}X3YJ1o!d6-Q8~gIeg3o8<-fMqrM;c)c9J=E
G$#$0hMia%b&}X5N16`X%w<U)ljgT<EejXYkunvgb|7LK^YUo;Q&PO?n3R%Xh|0-Jpy4)CFUK8EA+z;
)6gxa8J3l8=A8yFYjHKa`r2dCkSbl!S_-r|ap*eL~vhR@t5Dq6H!MX>gjXk-><)j)j^-&~^3{1%)#Mv
5$!H^{z#eKX(oH5go(Qm3jKQt#PBUK-sPIH16WQwfe!f1Yjv=a=e1E@qGx!T*yGx<n}&y4j#`PdL4h0
9|W79oq4dO7M47M_`tue?1OIb>jDthZP1)J&SvMA{`7^5{RB@J<*In-mrwEj$j{574LNiiHXGg|JJD5
I?iXY!ax#^D+#SMP>rwiUkN3=n$(<DbU~Ho*_|@M|CiCYA#A=c7vJ@W5-1L^=lgoH;S}aSKh}Qhh?V=
GEyU_jH8Jgg`|QvVDh#G<#Bg!hv@tW{aEAp@%p^@JbgYY{0IB!Y(h6BGvk?th=*mTCgf&hhvyh6+$Ew
JvSEBq254uWW3FfO?&dhekU1=y#JW^=K+q!9CY7$eykZlUnwlplaI51OsXnMgx;Z6L?t+6@4ycfPq|D
hhlo$L^er%jno+NS_b5UGL><D3#sW;qF^cx%#GW9eMEq53~b0Cp8OGE0gDyXy8cXBZCUWy%RJ~F!?BQ
GZ#GNn|5)YMuzDNH*w$I8j<q-Y(D1ZST)4z;dd?Sb98uC*6$))lYacoXb)g=&RRqZkwQsnOXq5y}#+G
atCy@c(BvZGLDv=6TUHg{rcRP1U5tep70b@%lW$V%g)Q;-w;Z9wjg|W86f!yesbPODN%~qTHwE8}wO2
GpLO6MU9Y+JtwzaI3%%9huEAH;_I<_DS1<g{-c5)hUldtctzrUsm;dIcxCfWl|VI=WEYib%uh#R{fud
8B<s?wScHm4b+dHX!w}aW7!8VygS{DXH<e>Xs_30k#_QP}l$K5J;YcB5YI5?T^jLe)EA1cwVI#9s2c=
0|5@TPt&Is&joRwNAwG$efByN?lPGY?rV#DLeQ&f3U<74H2p8q$VavWPOo04Wqeq8Sii#-~4cRJVexB
mxm`_J?L{|Edu@S^UM_uFreP~Pz+xWY>gvI(6K_W0oD4ID0j!#|;~!LfqS*QjK(scbfr{hHhOJtW74=
_04=D!XA{(StI;{ZZN7SAGwZ-^1nicsb4x**!rvljQVA$a!bV?pch9-4D<MU@uahjB67)e6fu44B4D1
`<rC{S#mnKr2{*5UX$Nnm+@IG=l7=UzD36GpzQy(?C<6*m4#Af_}ZhmZX4F$dh8mQf7ShN{(m+6-TeR
a{Qc+8_D9$^cpT(MiLW}XV>PFAEcaU-%llp@_>IeRdpv5V=iA%n_s++<`-1<O$Mvp{jQw4o{~-kbo1e
RDizNTMYn%Re@%|^D|JQjye*Q0K1>ECfXYZ)OZF5i0oH|ohDY7@dm(17KNal>?XRy_m=?aU5xt79LtU
9?$eV24++?Gt8Y;L;G@L{sKnZh4hd46RFc44Ju<;c6IU--JP4JH9-@X0YJ)hzksgp*!(hCg=VyE8W#^
DLBNVjUGS%iKyGn?+DeFpXdefq@{GAf4c8g5d<Q1UiBMf+q-i61Wqn2|5wD5wsz2C1^pQB5)*N1hp0&
yG~#sI74v4B85Lp=3atwf{g_02v!g*CRj)?pP-l^li+EBrjB)E_;7lUCm2AWBM2bS5cEXa1S*1>A9d_
J!C``Of^`I|36>HpCYVn!i(ndofgqD0m0%RXP=Z*3V1k|mod{gz@QwsE7l|H%F9~)LtS4AXu$W*z!4!
gcf?xtX|6Q^NZUp)#-|g6)xZ)59<-vGebC&4)f#|2WxETnKfyQv#IbLrWbQE`J$3KT6`H7(L!#my`fQ
y}+wk@8wZDa@WJn7Wr&eHnN^H(2f&z*yqZ}p_<NJ}Q>D#e&{&6TDnHsPE_ova{t@WO{=BHm##;cp=m^
E3)njLLB%6LT?*UBh(j#EypnjkqKIryFs{GsT7>Y~APH#r@^GxUap7`-gXN-+LGL6L)d9G~$lFt%lrH
UUm!@UY(aWJ6`p%V>m%Zd3W=(V{27)@8x~%Sh`c)d(Q~+?^gGIID_6@>)xk4L*X6k-p>@;iG6I!`+y=
l_LNP2IDS}7pc7asJ1`r6diU<l`uFe8l9G~GMn(oR8jVs#6&KTgF?;#tm)V<dzR5oN=p$BMUe3P$`fG
Ok_H8CN-C_}#UT~ZbO+=sDU)+MZ?3q0Ika#`BuhbT|sGU4{+B5{X!uQu6;`^(~dk?*<=;aE<rT58`@o
qV^fB$~*E~XVK`nkeu(}e%zX;)R3DKg(JzfV4-szLm;v|8!C2;ui1N=rMmM}DuB{4>eD7VngPE&1c2F
hx@O(tBpL2)}>-q1}>0wMhSa<S)Hb{+yc+L1_v%;8%O-=J)h=1O5X4nYHuw*Y3Z8H1K|V$f#%vP@75V
)4S8B``SFVbpIhDAr0lDI`Qs|)>ouC6b?R8{ZZo8Dt7-N3NatWrK)}F70&=EfOxMtaA<Xxb^AqF0J&c
d3+6QxU915R{s&hL-Ct9CsJL8&Kg9VT!?xGd3U7p`@~vE2!-cmfe<Wd%yb)fU3voj77U>JzByXmgD?g
GqtL<D~bjG1Llvtp%4LA_k6*H-$xeM6I;cVlD-UW&Xcrmjha3F9da3Sc-!RM|rum2gJ`}p{<xVSi$kd
VNhdFGjVJic(@LiYCCZ?laXHwqp<e*8GQaN&ZL&vUWdvYz_T^;?`#6VK*8%QvTOXGPnuY)_k*!-}Yi(
zbJ6w7n{sIALPZ&%Y&aCQH$47e;b^D{cC|3&VyD+nyHd^A4HG6JsU~;(SvwFD&h`edMrYR>W6r-!u&A
eY61S7jgbmb@h5CxcFJd3Oje^uFjn~bC7}E1C%h%GPp?Pgfh~Ja=Q1|Tiv>KV;&wJOrz1TkdP1-78b^
$qoYOH4IVt0B_<}a5hF&h(W6JR!qg}>e*AbgVZsEKm6gTv^72IgF@5@U_PQ~Yz4J^6`=C(EOyeWj{E6
XgaZVU}HBZMrnGwX^Eskcd%oxkIyqwE+Klda%ylNurxs9_Yc5vpoo3qeeocVsvS@1#5MjhZR{7cTBJj
vPM?>WmS7<P`ckw0=a?hI#RFLO3y#tc?kTFMqJTEt#@=_R&g$r847=~A|0#R|4&%^Fd^>({Smn>K9{e
c7j<e#(yRT+e3y!r7*)oPGA$XKdfTeeA%21MJ9=BkapBzhoy*o@C#C`z^b2;RHMOD`#iVo)vsiSy{=h
U%AA7xXIbot5;cdb+zCXJobHPe28bP2{DaoA!E&mZ<<qMZ%GYU%^zeT+>?#ugV|I*iM`Ahu}%Da_9Z`
}^rx&1#qUD#H55OD;>S|_5fpzs#h=1kv3V4KDaC(};+IqWqZI$VP5kZ@Uq|tuqWA`izkuSuMe%n~{38
_q1jYZ3;{QPLD=GdJihsi<exL4)#gllLOVgKy2FBJepgGN3G^XvOMtHOp<0m{B|8_9r=O;0KX%XXB-)
H=WP5d?#zYE3JQ2f3WKaS#4T30hD{#1%TkK!+*`2VK(6%_v{#lK(^pM;NiYRb7JY~a4I_01@L3!I-p@
zoD9-k0K!qWI5H{Ff;HW{Ur%O?=jp#j|$QW*=n>nFlpnKX!;X|0;`Sywy{Td*(7ecsApcmNLF*1LN=S
W&FtZHu2RI-;d(QQv9(Le+tE4K=D^o{0}JpHj2N8;!~cBPE-5~6#uF<{u7kKlaxXRr7(w5SVJl7q7=?
j3Rhck_Nymn*9UWUV-jc8i#WUaK4-U%aBKXI6u%e652g4+DE>H#UqJEaQv4+p{|$=2k>c;5_=hO|X^L
NE6JI5lKwFC6k>Wo}@w-#}Cn$bjia(s<PontqDgGN2e>=rLX%oNxlPo>9PT}GG!uo}Y^?ermc+YO`UA
lDdZ}ko97ZV*F5fKv}8X6Xn+^c7g9^Ksg_wTBt5D`t@^dC)@h=^p5#}J@@f3@r%6BiyC6H3WPhKGgr3
rl_i0lIbT@~G?|9j6P62@8)1r})6D_Y)o-eUs~ujERd;o~Vv)?UH-<mQrx<@~FCNf5fNsV`8F1W0D_k
-QJD-DL_v-K=)*d9~y?p;W5b_Teog6`3oG~yQm4tXlwe(ZQHbN{bYy;;2{D$sz&_q2>6D<zfJ3hpOjI
HeH=MZ{N&KExPdV-kuk{~kU)F4cI_T&(V|7CSmXfzIPp;W9qI*0MlrxYJTfjiCMGU2u5-Nr<lp0Qk$%
6ph?vN@h`6XnI<%Do!2hwHy<(Y^ez?d&DYfKa1dz*5r0=PXqau!rjENIOh#ZviC;XEmJas@JhSKN|71
g?RYYJfXPxfn)tm_j=84M)<N1~zx3Z1O};Vw=t0WCF=F%fZ8%2AyK5f4Yn>=7Ci7Ut#P;-m>pj!TY<j
+C*CQ@ATS+^1i7A4j`p17#1CRdj@PrW>6c*vGYL6Fa+B0|-N)7#9;tj8x|z=I^WVZt9?VFq%BW`w=hu
_=Jbo`6nm$3mc?u>Fnf3*6?Jc9vxAae{wj24AMSe@2rD=cqp-J46E};`4EHYnzw2>C^<YXR7<?Zm~Hy
fGr+Y~U|blLW3-Jo(vJ|{<nHesu8pqmE%6VfA3=;59qAj?z}qH$Dw^o9pa$M7rv4Mxz?<{(q8gXt&@&
`Rl>amGTu~#?s4Q2^LL10)_m)!>d2Yy%AwnK0)c3c_9&b+R%jRZ8vX}G1*~XcXZ2c>R%zrP*6x7cR_?
olCbCS$3h0GUUe38BS>Z@$ovSsY`*I#F=SFaYb!UrFGAmqW1KmJ(A3SX7K$zCOSV?D_VyLRnj2M-<;v
cdUt-?MY)&aw07&$FtkDt7tuW%lbYSA=Zv+i$<IKmPcGEvn}1eR@A~%ch_0^C%5;{xr~0yIeSq2D+&<
&^<>3-5abG-^e`qHa3{=Ws~?Zwuql*@AC^ZeqXhTPXl5+&FFJ!uwD2B#rLE5I*K1d@kdhpNfdt$#a~A
8H&Fb26u)kq`;VORA35d!Ryn1E+y`{%&_OKyw-;K+4sPB0^y!1kJUXa5ba3nN=;NJTTef_J_^f@Gp54
0j=+>u|tIJ~#(0hkRyY}coVOzO&?&HzNgLUfic+Wl$H|x`i0<?VKfk!$$+O21w=FNIOB0H$nJs<C*Qn
lzwaUOfH<pUku+CAQ<xk}ZnsgqNS$6Q=GI5z3<_`}Ur&EU|-wR2l%JLfKa@I2hq3F$xNX5X6Lns;s1w
5bQRuSdIebm&CB6y;%hr~ExSwdv8-qfZ|XT$)JvKknh-?&0yMhoG+$J<vft`lzJoC~{#e7>jTYGTd#U
+Ri2n!egUEXK8&1*L6KDf~fD=&)&zQZ0TrX15R?T{}a#OS*8cR*h0~^bLY+|Q~*Aa>)y0!Q|ej7alKS
h;>a25Da1AmrNsZK$3afF#eIfHxng((`>U5PU!Fwc&L>x{T)Fu3&p-c2W6!yte){PGncrW(e*Fr~OV6
J^efs@9d-j;^?Cd;(gM<6XG`Y#?U`q<h;jfe*>KX&{gWbD#?@A`hs^xvgbsITyWT+oKWbgR(*Iz$J^J
u<(`*!~0k3Vu6Px<lV$FV@gzyJPwPV;XLf1-iYIQy-|VyPrr&mKK`^tFnLilTn~`gt>{p0EX{9h0`m0
2kD2GZ|o4wgh48&BF+rm6hdPQ&aOhLpON;__wF>K16NM2Wj~G`*#O^gqOho^Upu$AAR%@C;a$_AATtC
zHs3Jzj*N?KYaKwKXT-V2!}W%Bf$MU#aaIT`|nTRvSrJ364@e6CextY+}wx-3l_waTn*f?J;<Y7yLR5
CrKL}Kd3mAi+#(_(dLrGwivP81*Eq>Ci@J90>Puy~;L@c_yu7^JTF!?K9pc}7^Nqlh>PO%X`<XLm_^D
H;#5-tGfMgzF63<=#<(FS-i0^JunwH;x|DFH(>#x_o`s%BXe)!>s?<udF2uE~2PwmZ@a9Du2e-(d{r;
wKwfWHEuK>^f>0>EFPL$NE+kQN09XDd*hTfx>H@OSXvxpU`ys>d$G6SF|WjvYG${@{<3Cr^qxID7W2c
n6MX6V!%<dF<FR0cabj516Pov>n9x;)^c?{-{H0{~Yyj`}S>a`_TI>a<7FywPCNng8z*hH#iMLg8u^o
"%text.

(** Lines 3315 to 3464. *)
Definition DATA_21 : text := "0=k2b0l@#jfdl-LPd?#P=bU6_(S}j}sE>X7_6Y#)d-v`YZRNy?6T%J}&<B9u&`wZCz-{x-oa;|=9(s^
-pM9M7`3(0AbKbk0^C6#e{`LjVf4gzx7`2s7e+B<-+qNxocX#(C8GZrvm#7ax1Mo$eqg+7`>H@gKj=K
NuyYB?RjxtAi17Gj~XaU|Rf7J2H%bZ6X=UjJ`bL}C{{r7Y3y_aa%#rfkzL-(zmclns}1*bW$t*u@9SM
aC4-U`590i`Y!_&e<c?Ew6e^d0B@PjDXo6_r0|pgQpTf^#pTA^U62Z`5+0c7$`yHmhplzVNTEt_Cm9_
xASgLcA~wG*CU<K?`sJ9|6b4=s>xn%uz?+8}L8+U7E8Aga#4*Po9!!==UY(eF@hfqQRH=CijGdf5tJ+
-9N3rf9=okr!j*o{Xh7h#v=}BSSJdfqg+uJ;4AQkLI>J7_zZlHcA=PP7kCoRaz2n~h#~%u`dXqP<S^%
f2P7Ia)E1uD!FkW^e;t47ix+k4*3FmdVFB71`j*D%0I%PTzfk`0$GCua=x1!7#PiffLBqG4M-vT^M8o
=@`29S;5WI3X{BPd8$!VOa2cSU#g^tGRq%k^f-MYn(e6)<OnHIxenH0)j%+U!Xp1R2Supc-de1`Kl(D
04io{49ImG-<(YR~ACx^I)(bFWXOHcdV5{=4B%^*rCl$EOSR=d*x6_@p5n;Ct|OLpl^%!0X_n@Aq%yZ
%z*8tBfK1wfw$<20WuHIUga@5dS^rv4qorZ*1B#Xpq};Z}dsjr*@-0=~1Gg^M_L3O3#eO@bA*4i<SRr
jK?^CM}46EVmwgl0__3s3Jt)Y`aNF$QYwFEYA}CeatL2ZG%O<;@T5@xIf`f)PIwGGC()p^XV9RuXY@&
)d#K!Za{d@-pz>FLMD2gCNakQ;_)~u`_@CO^0?0#Xa|#^_EuaD8!QFTZ_@kfPG$V|^_pFw`O*E__8eT
U@_~&2Y{OKy9!NPgc1*tuwPl`EJ*PcOx(w;$s(w@;L_54I6Q{51Mv@?t^BxhLxG$_!Jj>g)ELJOWPMS
*<7v>^W8Gg|)E6r!OZg#UK+694*liH2mNVdRfQgH3ymk=t|FF{w`qI3SJBN}tq&Xz2P$qy3V=pXB@bz
P`R)NJg0j{LwGM1kZp5$UF)yaKl)u$Yt=ucng^U&&S1qd~;zSf1hZ0muOf^G<>=whhM)^d0(APCDEBh
brPVoXIaMRv8{3Z(O)S19~2bS9d)4q+AHt|Zoplk1${sId(3OlZ(^*%*oJ4@%mDro(Xgp7h_9cf<?D!
shVA(U>XQ~_h4J|l`|-IM;oLMnoEN1=aI^6#{@vGy1r4?`MsHchxEub|-wXaHd=>z2-~|&n0dKSi;H}
gN`gmLU7~?N!1pn`x+m~-88a^Z%HclrRs4bv9gNBtd4NGJi7J`Ne{rH@8q9HAU7p6uE8t|Y`3bK(gd_
QZP|Iue)41*j2Si5#Df9IWdIOHM)Z0qD+?c|R?{@{mSOW_qJfBxwVqJi4N2Smfa<@Ss|>2+gYzAUdVe
>pdlFV5ES=Q6{%nP`|zG|VI#rV|Z#8p;@Bjy2x@0Ds~I!T-e9vp~!2*|Yh&b?XE@_d|z53*uUie86|i
^5^A5!zV<8XwO6g`Xr@2ub@6@X<jIQDObmzCmI$I4fBYG65^v7dT|w~=##>1WQ-508t?yszrz1ot+qR
G0Dg1l&b89ekdAxN^2Z;w{A|T5{ImJte7h-te<HW%4L0q0wM@gSG7bMCK3Xs_jF)CeG~f|3293|L1j~
LD<L?*j&Zj-<oW|cpg9i_e$<EIH9Jr!Aq74)l777|{`RmW>1SZ;4!#P%C&)2)&v&tA~&t-CZZt&bw{s
I1|`vC(6pdR>JZ@ndCFUT^brKP-}pukGQz38}Co!~*Aw6X9$+B4D6NI!G8r#;GP;lhO#)OYe8J$mru<
Yc~P%^HqzIX^$28w>_MfBt;YuD|{EThZ@87HW(Z;Ek~XeHCOO$fKAK;6Zyn^oEhw{!a6aRRz}etjHKk
<o3Lf+QOgV|LLcnx{$0hRKdSjuU>v>X=&N1si{@ekBWL&xpE~RG-wb{NJ!viWo7)u7hmLy7cUn0V15s
LK?BADj1vkSn8Sbu^rzrMjD^T!mpOtTeG~ZK;GeH9sFN`YBpCzk8GX_#Q{sUBpU%I6gM&-s;^Jn2e~8
x?(Y)Vx)22=9s10-S<5Q+g;nXHL-k*H(Ng*SA_St8GAAmb>MI9-8rPK%L1Mgv;1Gx@$f%bqlE!s2HgK
c|$t3i9-zhyb(z*p~wc>)6i7cW_|M681#Z@De=;^JbSn3%}BcJ0a^d+aezvbDekc%W_A0%%a6AuRy#l
#(|3)&tAN@=r^2G(Jl*2FB-irib$_&yVM)zSzuf{Px>1s_*+=e|Y)jm-(z&v#u>#w204~IrF!to_dOB
W@d_Vr+KB|CD4F&0Xl&j=x9g_)*vtrgYPj$qpe^)0`o|?K}JH|ftE%dBLC)hD5Jl+{)5QWc30%)=6?U
|v(MfJo=Hhb0??)v8XkZAaXxwSWKj<oGnBO*g%02g{FOCd%ne|oJ)n)CJv40Z7_)8X9+*F~zqtN}wgv
ttUV44Tj2T~|oyNq(@M+VgiFyDHz`tL=eth`w;ldqt02&kk4a&S1b1}%*;CtW+6FdakY<UYZ6~a?r@-
KIHcfXArH$I0s#NWXmya@m=VZ9k{zzb{6Mx#-*-|+BouG8sw@7}#dJ-{Dv8q(1iZz*j<F~LXZ55QOGk
5PBZ`Uc?yb=&>wF9iNX_k2G;zb;gUv(TQmZrv(qK>1+ZklKf!Atfb+$HvAA-deqSwZI=`jWUNFc%vPl
|A9MXQ}7RDZL|Zl0kjFEi$0iezfI}Pa&vRjQN6F+wQCoyD22|)`F`<7zP9p@Qmz2Z7l9AeEhpImyNX4
7p!(*-Z-NIfMxl(AILdk=`cafA`u`0ZHt_e}drypk|Ni&CMLd)>m6L_~w$U_3P9xlRkQ=TQhu-6U^*2
I(gZzX3pW5RByraFr1TLs=v{~X)AxmUsWr@C(+PWCu(AR*!6+T2eK)XbpfKN~d=#y>bA=r^F>In6L@t
o+z7h32yo$eENEB>~;YRkj6ybaty7kCJ5Va}X6ocb&=PTM}fO##F~KZCvq5BLXjA^>m)UCWm*#~R}bd
wcu8in|qmMgFJqo&_3|ez7q+P~PZ+XzUjA1n?Bb+D6v&1^%cTMTUT02Ye4+LYboty^PKLf4$u6;cv_T
=p!1Au?=Z~i8c07qek(UUV2IJw{5vAfN<a?@H*Zx1^{<OKSFZtvi}0^0)N~2FO5A5z?T?<K!>v4kNyL
F9mXSDI#9NoH*e;zyz+|RXQd4TK)13s54j2N;2A}KKz-($4h|0g72K`(+m4I2GK{TkbFVr9tXQ!^#0O
mn588k)cnf_eXi;z{`Sgvy$?tdI4_v5y3I3<?dzLc)x)&|Vnx~?_L*2j)^`PkFP-p0ipi6)b3bX)s%H
!|!Gxx;bcKt`0OWmtZAm2m&!8`PF0Pq&f-Me>-eivnc_6mLn{%8lpkE{Pd+y(x&>z~w5Sl53*1IA9sF
X;ck2N;hqcA|_i=S10~9+dT6)C1np=cBJhKSpy3q1Paq|7qL>{@~qv@%i2O-L@}+zp`$Dat4jyb>gGj
BqLa;t}w24_=j=FgX2gZ`fmp0fqf7E$k9E#m<E^alPA|QXMQ_$^5ip&g<h3Rvi-xRgKXN#Ci{m>y9Vj
o<XbG8<^Kf!MY72y(@r)WWYbwTU1YPfY=+8ak!*6ww1ZjyyB#(A8xQvPILqL~?jb8;y^mlY!Hov<MZ8
0!(r`WSZV&QuBiUC&V}6WYuOCeEegyUT*oKX5XOOwuG8;Zc+TYf2UT}`{0mmgB8`grMQ}Ei!`KW`OAO
BV0axWY}YbPfsCx4pTO`<kkgZ_+U&floNt)zbGGWAO*Nj_gmvh4(tf$<H4CqWmIH?E97FX_p!779I|R
$j~f@*3xde&IZHm&pI;d*uHx_2H{1&l+2Oy0X_qSwEL${@VoCsLwq{{pQC=7&=qv8=>cdeg$jdSd0DY
I_HOfy)RvFXY|uEXU<Gnym)aUaDeQD`2)sB^y?Ul&{sp2g`5IE*zt_C)aeVM<AJ^tYueE7U`-x6wm-`
sa{!uyX48COf-=9yJQw*wjz*a%a~{Y|wh#1WPyHzA`=Be^c(t*mi+azM2K*rMx83{DaL)tE1mo9F7f$
jwO^IS1bAh}DIQA#blP^hn(}Z)9-dEW_V9Srt4?)iuOy*bhd9pLc6q>)Lker)nyAK2P4;dJ^VEp-HNt
Rdx!+J2*<dysZV=hU0Pw3kOKc0|uZP4+6AEBdyt`mB~5nqU?dzJh#j?;WUd;0Y06KwU}iaZMwvh{m~;
bJWj>$zA*w9Oy7SLlzE8t|h|*3m%M2OSgm(POLBKPdS_{;}1SHq^fZ7d-1_{luyQX+8G(l}miaFZFQ%
KPEQd$52^k>MiqQ13jI{pXNy^OO`B2w8aB?gU?~&fxZoEs?aZBO?dN5xqqrNy!1Qgd4x;I5lPpEHUWL
7ZT^rercRxjT~t&w!B+PQ9I$SJvcQA&b?BPjmGynlGhsax{0JQrbQ>mFzcg)}1TW6a5I6{aJY1*yZkT
^VU2sDkFzUZzPN>j#L05z|O{|S8{D^gN=vSbd5IQb7|LLhwBCq~7{1~#oe*HrxD=jTeS-Ny-BHAM6`;
gB;H*i52z&yGtL+A~mufn?OJM!B0a#_ECHUa$zbcMzG2x}SOvF)RwyS3$iw5?~Jc_y3s{|SnI0P_OO?
NBD@dr%hFE#L6ZpN|)M0<2H3m)F-<+q4Pjnar}DtVqTIkKjkjcND?t>iX?pnV+E@Lgu&Cv)JnHP)>iQ
Gdi~8-$KU%UEM6gp-|Q}+B|pkf5_i#HmAJy+G~l>4M83U9?HC0**6G0P!{Nq;D-nL+xMQSYZHy}qYbY
$+W$kwo;Gb-_MAC$vQQ4sJ@=gG_t5WR>_h(#UO;((7m>HE&gtiKU-F;M9j7+YfFCo%th%y$<&QB1>l|
3qMHyp$MQzc#mflborqm7U;<H8Z{Ob8H`IR4z*YTsFjvrqw9D(c`9senPdnNzG#Kg0qp`l{k6}st+j0
`?+-aIkC15Qd`p!AifAC%2C%SnFl^@;o=Q<&Hbpz!0$sZo5x3%R`N{AtebBLDR5+t*vC(@g~(g@uJVW
5<r&qtR&i#EBEdI`D!83&h%mGWS85!$kQjdmB+64aa0WNRz@HCEmKH{MV~juVK{g#XJyWJ@hirEs>nX
M~)mR=)T)pbHln(#&KnDB_)r2&-ebopUNM3ll*ZBx<srSM@L7C^;h69Y0@N7?&uE`9f`sN${Mo54>V5
HW@cuNCtl7c83`YDW6u9)bE?iLD=Pbi>FMdaq2s|C{jg!fIO+oWH5!+#`T~@@!iUNp5yhmj>US#7XDO
}aG(Z1|NuO-|+0$8B<3}2h?NHuW%LNZ&EggCdv=3W70_p($0^$J|lm+^2^qIhO`}Xb6vHR0ei1t5!{`
{2JUw=JOnRBC_fy4Om<GF{22Ol_apukO8_fzyk2nW7V`U~t!+^}H-j>K$xA9;)Xktg~elgTsz>0wPCV
?O#E=oUtg9xZgtXcq{J2W6nF@j_mPP6cv1(XjL{<ZaEr;To3hngqt9yu3WoH(;--vaX2wLRo`u^vTDL
9ed+1<}LC^KGfHU{=YFi6dCya_uuEsmMs%&#poNc=A`Hp|7PAIf8?W#zu+a%tH|JJdx~BXIDp5X<G}j
UmMvS9eS&{CZ!7)xvj&QO27MpudHwqJ;J=@!EJ~TQe)4x8d~4$RHv#SI&-%B!KDC{TL(kaN`}P*_XW#
7Fe!FXp$0TTY{>oqYZdZL*JZU`ad^bPh$MEILmv3CTa^(%`qkdkqX3f9ec;k(F{m!~|>#k55Id8xHws
5B~j;mI!ie9l|#kP0feOJ_{GKQg^sZAfZjSqcVMMVYHS#MDqXNdo<qa9*y41Rr&<{$~Dq<v7KBwxRJP
9(KOiI1@0X~=MjJfpNJ^kvDF(wqtM=}{7EeD>6nj~T{b<b}4T%!zDe!IYn*Iq;TW?-+)EBiM|-3GE2D
D&Kb;{&Y28lq1Q8<K(#$=8u@aVy=L>iiYM&O9(IMS}`XF?%;pq`&MDJka4cj9PHKWQW}_xWA25yALf0
ScLvbB6EX~BD&UQN3lHWnkQYCAVUkG0_Nlrht?6JL0dqE#AL<EXkg^B$li86%-h#XbSr4)%WL?ZR)-5
d+X<*JVfbc;5jTkXP=(*8{p&ZWadYx}B4iWQ7$nKEaF>k=!X}Z3@$Rpu<&eu}8y!z^^LLS5(5$M%Wm*
AI%viRYO^+N8SKF%t0gV;?dKN=TAzXhEf_75myDW3NW`|?X?j*0Tb9I7Nk<Zr#v2E2#99(;<r95Q5xC
{y&)sLStmtmGSJ_80p<mrZ$+fBx~Ch`&jRzirz#A*(6-anNr==0bg-KefdLc8uk={EzTT{VRKtkQT;C
<d5+P^8}=gewoJpBHQ@rr-3)pL0Ldo1e!2rV?7CRG0(=>y=&L5dU5d-I<E_JC14IRuzP?K##sgzxZ5#
jrdGR()1GkRnjKDb6>m6i&7R?$R-7Dw)7BgqPIbi_&RTP18jaLD;iNSuIiy;gv(`iosTQZKIkVuD{Cs
`Z*vzTwDOs7>`5|45dD%hv<I?q6Dfzv!GREcQ<maRrdX3A;3QEb(>RsU3MV*zBosp)`Hzexw@-uR>L%
MkO)^zFnKr^*E*pO$;7k8`NXKLP3Jc^mGA7{+VFie%-$t6!e$w;~AQ{(e83NkYF<MsJgPh0Ouad90X6
00xJXR0&t8`32uKRUZ0XQDo@i`tkGHVzj|gmg(u$;{Vx=^NbVE|Kdp?{oLugZtFOHMozJXnGIsqm*ag
_^|k}h=}Nc{f7^iE&qA{=iV_0<HM6?nlQ~%nrAd+nvI%mn&X<cJ)3!T^@{Tv>y_;_$7`|I+g^LTzVrI
c%gy^??@;fd-jlo+crWvQ$9s?WVegCHKY3SsJNP{4)6VBHAAg@<pJ#nu@%hB(mQPb(jc<zY1m8)%vwc
_ke&~C}x3ynazjVJ>{Vw{|`aS2r!T*r|_x_^-Is~c%y#f~p?hM=)cp|V}(8EFgK~X^oLCHZmK?Ol2L5
qT33)&I%Wze~x>L5F95A9Rh3~iqFMeS$W(S22+(?U(5YeLtBLX5z|j=yG*rcyK7^AFF<USD~~`Q-T&`
ONou*=M!S+diNA?D9F}^N?>x-)_FizNx+w3Ac;BmwkWrt?|9>>*&|q??J!zermrSe!cyC{X+aA{o?#a
_>J`&@0aB_*{|5o?Dvx2QonV6@B3}>+v<1B@1$R)-x~oZ0;&TZ3Y;3aG;kYHzyn=^0)t|Ll7hwrWd{`
#{$B<C7_>)wMEjk#Q*hT{O|V~Ze(-a_8-hOzwhMVABrhbk@6f)PedqN3uCG&Qt59e>FaUJY#A!xomTT
5%{;jcSe%4fLZfn$@FL*BVT<`gbXSwH5&(oe~iAra$hrN1w^`qJv=B4+V=rzr2lh<~y3tpGKns`6p9p
HVE>W6zr`Hb;N_c8gHeHQsF_c`Ws#^*Pm?!Mu^&-rfkJ@5OAZ?*5Ee*KBs$$p>u?esh0*V+Fu|Dpbw{
`36b^Z(BOs{bPaVFCRECIvhbFgsvt!0v#f0nG#3P`w2PJ{34Fa9-d`ME%==B|&S0J_tG<)J>bI&DT!X
KBs*{yHWeG_FL_F?H}4!!R><8!QR11!7l|@1ve+UjeReNUJGSHVTD_(3p9nA=QXcs0>OFSCEgu<VttP
I&hcC17fINB;eW#a-GD6tNr5i}?g_jS7_Yskt<ioIJSyawkQE`UuS?&@`!aDk1MX%G_4M`H=iS05z-N
R{h~EnVO9GY!ydJP7;H`jn1Ktm~7;r71bzrZ+<iI(BZG(mcjS4aZEekqC9ClQDLhBI{MD;Q)WNXOYkf
R|#g!~-xUg-AFJ)s9ekA|KAzE4Ya6rqXHq-hptPHHY{e$)J}>FBBU4D%e|In?th&os|WPow9vp0hj`d
cNrSn&)b&x6PhAJr8&u^ZeG6d$#ck@_NRrnA+BQugzZjz0P|z^Pc7XruX~amEOO22l?oH5`9McjPuFx
$@MAlnJ((?Up_BU?XC6M=<|`!Hsa;IJ_o5Tzw!Cb=O-Tr-=@B;d>`_C#J8)j2emwZ-zeWFeFytK<@=0
pvG2>iANzjmd&&0(@p%*Ca;;yu-$1__|0w}K1l$N{8`vW-C@?l~e&D*m8NsW9PX{}MbPeeh5)qOSGCw
4+?+DPG%UC%Xdo>3%-)sKRwDN4{Ip6aa;y|O<b6zideeCs%SG89yQQ_j<#=E`uW8TBP$9SiCzw5oh`!
Z2f<Nb%Xqfb-nC8qey@R{S|LYVgU_4N($eb;w`?<c;W`~F1ju-dn!Uz%U0U!I@4e}DfW{=@y#{j>ZF{
b&2n_kYoUss9`P>-;zSZ}<P4`i>L+=lp;2?-|f9U{t`EAbrrppo*Y9LC1ocX}f5{wJWue!TR7~A%!7d
heQJZVo5LBS#yQjk)P*esugc)F=bxP-k#orz2|r@@_y3iXP*|nUcN8-zUTX;@8y6W0u9<N+8?xz!9Rx
Ja`<%=KS7hE8L3IujMI$QOw{CPwrF-~zSZ2)_<JUMR(i&H<$C?#rS|sse$(eepI?1A^@8nu)xMAWj`7
X#&G(&8X}{%rfclz1zgTK(-}rU$U*x~uzgvK3Ktw<ywXmrHGXh>F4m}WXJm7S|g@8)|Hv`mx(bUee13
wOI8Z<a)O;9@Zel3H01_uV`1-}`*H~3PpH*stCzMg%*>KhJPS4d}dRBO(8{_gpRR}bHbesB0!`nL`64
^Ri0srPxF+Tg3f%c-v44E`keVDR_Bjv=8TLqaBm%nSK8#HsHieS`Xr@4L9~^1cW9p6YwCZ}-rEP($dF
&^JO4BK`Fu3&u1mO_b(s&1ubbDgg&im1hf2SI<ByiRr}mbBR9|dM@^S*>kDq3eQWPS3R$L)_B%>j`hm
&noB(M|Fw7iEKUSr7~g}4DN<Y!GzTeCqzIT|cV@G@&OS4n!Xib)AQll)Y!NizAt$IDctzk2Nf9AMiU<
dnB1OOyK_XmnLW(OC4m?odiYp=<x<!hBDXxg%n@gpiVV@5$@BDe*-@`OBZF0>%`^bK=4W8m@p5a-pbC
Z|_{+c&=i??})9}u}e<i6(a+YjyU_PK34Rp-6)>b4^eXeW-uXAuaKSaSnE;mci_Tryz1I_v9fgWY11-
D58($KJAcRP77<!G5!A{3bcn<#+jG^QrkK_r!i?zqEJkH})e(yL!xc`8RISC{Zt$jfzpDZeFgUDcWLR
^u$1nsP?fqp<Fr_7h)>rVj&`K%#FKAH|=I!)1?6>t2-`KUImm@8L!~gyoT5F`raom@U+=#o>4ucn|ev
#(p&maKc)S=)FZ?a7<sDg8+EEYHYSF~QY_DWqDGeuuAYBi)8cEZbMUPyW$UKZvf5UMQmSk9tUhJc&>C
5R2;8YVbLYg%g{vWgC}LPg90??e$!YRZmXgVY10at(D4>WE9-xd0d{j}xCbsY#+t@)JduX7E7P{!6j{
$}l;Sfg{<Cxrdf>V6M8Bt_{3j~;AhB+>=fF>g{Dr0h8#$`e#WlE-HMrNfhP3cI;JQ1fL`|^;udnN-JQ
wfz+DV0_krK^G}suE>oSyhy;s;Wk*xvh3oUG1rcYN{6bwWI#OLxc(yDpaUYq5johP)h>@6aWAK2mtey
7DsGqy$n^j0001f0RS5S003}la4%nWWo~3|axY|Qb98KJVlQ+yG%jU$W#qjJcvRIDFnT7FNhUAOAPfW
$i7;q1KBB>zI7H{bjGU1fi4`<eP&62+pwe(gv4SL?OwF*J7F%t#Pg`5HRqLZwUMiUc^57Zp6+i_Q;S2
{f_(&!^a_(AdpP7VL+wb1*-tW8L&qrp?+3&sf+UvE~+7rBGxnLCpAszk<Ll9O9{GUho@Bb3;H)zc2LB
hYYHlMrF64-q1^tnG?Sg@ex{<~}LxVNC{j{EMrUn#iru7aA-eFZ<hufRL)#)5nApL5qGd3o6`vyF5A_
>brAGS+n^|GHnF*)<2gAG!1Xu7~OSzAig`-_kW7zUM!7bJuJtyS}TO((f_L-)4UQh`xXL<EpvX-kHW;
;S+>8Kg$rF_;m1$WLlRnR>(=q7KAPE@-j~=ErbsT2Z=>6pVI`vh95%zx3I@TKz!l$G=Qh4E?Fu0b?W;
GkHW-Ui!c!%7FdM8R>1dci(t<lP@uyi%)tSCAqZ#x*OeLYZ;v1}q@6kY66LN%3Vcu4WDW@Do_=DP0vO
FDHFNGz?hu4eC-63fAHd)C6U%wv|0TSbP+y7_VZcM-+ip3zT;nARctM&Y%vH#R@3T)S=eeY2VNDf06H
EX$!VlrQ@O0(wntwkOya<uGgRh0~(^JY#Ix{5x&-@o|58WGJANwOWI)ahO`N7E40=e#>4A7IA?S&y0K
`vP*N9tY0kP=`URwG>f(aHJV=p;jq23*B*#Oo^1zP~~cwAndOChCQ>s61PaI$t{oiGKp5T7~OiIG1k~
giXzxHp!8hF1s92T#lP%^<V+BT{;f>VMk<kxMWv=wFjb;j*0Jf_*uJlZXR~qCWjl9(ae@f<+ey}i(mB
a@Eb9I5ft{89n(8xrnpLF)-1D`(7(E_;Pz(f$ASIi%aO&df*I0uX@+!@bhFG3Lcg8>iwB~%A{Zo$b?@
cSbTnA(E7==}+*PdYwF`p8Hia7@&jCfmCu3SipJB)h%D^1cO15hSLlH{BVl8I~e+X1{Nzr$YL9wtQiS
jXDNhAA6>m7n~z-o(K7Kwc%txN}a_}ONyN~CX@b!Zy3-H8(&1LN3(eGJ8nhhKrVs|<h9aoKt_{wM%)4
Q$kOwoxm~;=MwbK)a5Hp?+6?ud3Ormo@v@M*ubL`$1TK3pV;w=nZBEbDOS1BFvI?iciI~ua3hgpm&+Q
C#}Sts~vlpy2pA&eJ}#;8UReuk}mAHXvx94uW>H@z2=#{Cg=DOPIK`ff+h4e=!D*Cp||U!GmDI%`;(f
H;tE?1WLHaNRwX-Fv>Or^exqB1><fbNOW1OBrpx1J>-_B2Qa@V=j}Oa!_Jwr2bel9wnmOwf-15k5r_6
c{=M|fwV|AR+3fPI%@Lj~n0E3aV1=vQJeFQZM)j6&LK+_*XS=JeD4CNZmAUvyy4AJ{3B3LEIuL{5~58
{`4un_joSuF3LfIZ=M#a^=AaP9<3x)Pg*QiaVX4lZ`(&yb_@UA3^eYAv+6u5*~1%eMfAShBsO-EeN%g
p>5`kyb6o1^^!b4JuY=(aT2KYKHR}C<JISxNfnl0*i$*X@BWyCG7y>_u{Z>=N&VQx?q=3Jg~WBGlp~c
Cc^nPD9YNj-lK+5vK=?`0@&4awP%3Duj)1o1Aw()F74c_slp5dm-bu4)Tr|%UiodPyy|->Y&b{oLTy+
m#0x#o3;hNQeMg19+en2vuuugr^k-hE<|w}9y#R@;aXziSmjw%UzHK94`N{ymQbvd@@WE687#<mxtW?
0yVgWu11;9dB%#wB(dI2XoCDfsFW*pbM75d4Be!Q@Xb7eN&RSEF$Mn->CY=NSMSd;}^vkm9H=3}M00S
0YsFyG|pbXSGp%;aqr^MS8AVi=GK>90b$O@M<8R<#naa4xL;0w6w%3OMP3#b02h#SacjQP$a39Oh!Ex
^^s#xVo%Vu|=o#>6zk+t+LvfF0R;yz<L1)Z%MZ|T5X376v_%jFaB&lEc&=WbZ(kHL}KrYE84U>a|tyD
`PKDllDNVrR72S>0?{jMmso^%a7&i7``L$Hw%%}Fw*fmV*DtmRtRs{Ig+7NzSv`;@M;~`pq~TVKOt`7
VwtTcjsL)=;S#E(@-x43Vhu`kSRa4Umr~42|-JJ`E*OuieVr^Nrk}VrC+1*z2m2L$jhx%b$@k^lzth^
K|dm669CG`{?4X|dI#;W*nLGZGzk@>Dd6X9QL2RLsbQam0zuS#I$Nl>{uqAd2{zVcL;DK3u!L?j5L=6
&r)IRuDo830jT77{}Hs?{aJIGVuVI49>8Xh0WD$QAMmc~~I{xV>2CT&k02*4dmGQ0Kes)6{{&p8W`n&
9Kh^Pu7ejO0x$k`{mVT3+&28)n%1-<vekPY+r3h8v8P}6B-ItZTpeE23&TaBd|Vt3)>P5W1GkJagYUI
"%text.

(** Lines 3465 to 3614. *)
Definition DATA_22 : text := "0Dg6yy}E3c5E=)>@@y9k(6yfr@FK{^b#p<XG@5;?$PN2>6InQivv}8+WhW749U@Gws~QN}UR<X`P-B|
LYkbs$YtIKV&rEBEw30@@+HL@!_OoNrinQu)UX|H#xo2A-Dq$+T`{`Xa+5^^DGNtdN6nOPVXWBCXd9-
uWXlGrknK+j4h))3wv>DJ_08pYd0ED_Y5Y3yZAyk1JzbCV;fyf+0miZuv<k}GSTeW&X*G;$=fktcdj`
5e&zv^mnOg+gzvO6!9Z4p9)<yg#7-4ip6P};Z6a;)7EzZkgl02$(D+{4fuNIbwNe6XS<vG__3No>6wZ
Wo_wghd>#?aT+-B@9F8-VKi>jd4&01S+$g$|xVhOSQM`LjJZz>l(^wJz#qUZtgto*VINnQuVb^@{-V4
O-(fm@W~Z8L4x^?5QOE+OB(etASU^M@Ni!L&R{H%K#<lD#c4&xRf$Y&Ht?llWS79fHf{3Uh$5JuHG*&
_vmG#xkW(8DeXYT+BKg{L!(sC^>n>?!Ep<v_**>J)5i8<!I`o~XeTk)z;}zW6yh+chb~h=5Wi<xd!h*
ZvYe)#C%PiJh(g=JLSml+}Z-B*Qme+BPML^Cew9q~nuKi{>0R;HrdZMt`z&rHDTThM|=)H%;O^?=`&j
ARPN0mW>;?$-OCk#?@wCiwa0hcFYNAWP(#z`_LPF?NY^WfsO#JR)mvgqrDp<Mw(Lzon3Q^o*SJO@|x6
VSg_8Td4A1ooTffI`4qa0<Tln9_wKxv0$c3ztPu2H_&i7{f`0{*tzO7%n8Pp!RC&QD!arS=yygO8adp
5qTL(vn1Mbkrsp~n;(d6Glv1Qy*<$)tU*Z)ddysj%BXI0H;aL0xvGt}c*OP$6wzh^8ImKmdoRNIG=^N
!3INB($mqqGc@593Ff%h(jzr9RfaHl?R!EEtwa97{$kj2sY;07rfP;;L!umesw;*#s8DCVk`aznCI@>
R>faKRG#}YR6voU^_-Xza!uMDuE7QcGLP;%h2Pq78V+d~<xX@E$E-)O|v{YHD}9cYi1i1zJ}@q$oWE&
%@#6r1+9u>|dZ6j?~LioXfsqlpW+e9^pO9IAUq&D8*;e`nxx=Yy9cg;@F0Kj`0ua?v)q=YSkL0^DeW9
E)EQ4GeZ@>&^p`wt8N^Xm%Z)N*ctivN3*1Gthu!A3N3Fp-YCSF^BfclWSa;sxh^h%K#wPq~Q=Y)La3>
8BfD$d+-8r^-rKy(S`wI>WQB;pm@o6lpbTn&|Eq+hu!9ht84N_=sP|PGqFQs{Qf5DD+rjCTRK>QwTbz
Sw$OL}o=$mGqdYFwya{wW(&^NLrJ%MI`XiIO{A!gZXlpJa3ANOenG0szbaP5SqMaEJu)}gBfO67?AnO
ex!TUyzOm{87{ze926FY<9?$G&~HY7#yLPL^hy9fc2l+16xZ5EK~w_QX+!iF*k<W05B@b`QdaJM~hfv
ol!iX*^UO17iEkbfapRG{E<0}3V{e98}+s`%>eo+<gcByi|ThL=rq=^4^0G+uaNxU=Q(F0sB6vdvP`Y
Cy52%58zF2kpLaw^AWCplIlKf8`Y?eeYvi0`7M4u>-`Vfd_3vx;j^T@dwb{1rORK))IjIH&-swWJ@OI
E%2g<7_fH9MQ!mvQ#Hu<v6$bj)y(w)SPEbo?gJ0xNUX`nzL9zk>#$+gd)fE?o-S|EH+nWcx)1ooDc?Z
zvOD(R{m8QNpi7_G9SCVa_jXUfeJ$1_t5Oq&G7olDkrsczKwWXGCSSypD`{9rRnM0i2q3bt*>AJ}lO>
2C&zy@(31tq&cO&gafaj$E{z4%v-Pp5m6;WD=UjaqbY54_m(I)_ZP#}B0ix=`Vhkn4%TH_<(tzXVv03
32rejqZtfOAMcI~-&h@W%lA43T9vBFn9a6}UQ~u`<$u>;P*5CAtXvetvKYgG%60zm#MF;M&UxHv=Gi0
RKd7a+7vF>ZqKx{pJ`xwu0tEDCa>+Da#D>q5zu%+>RI>>1iN00JjXHw$~(sOs{zmh8+F*JSt!gvON&-
z&zxF8*w)v4MNqd8=6n@_k8V$BQ@5?;1RGhzMB*46n_sy=eTBTcYva?yn9N%M-2Z=;8Mwj6Znc<s3!W
9@p4rM?fPC@AZq&+@Cx<wG4j0am455cHXvuO13A+N!^4Y6*BD4uw)>z^_oULLq4C(tNNmLkgdP~HNo|
qR`mMQ*-BM|-GDN$+f2_Meno+kHuwgI6kyK1TB{#@6k;X)d&{nMkFc6p*`v_oby#fRaOuQVX0aywY7x
ytT&uW0BooM1pG#QI4c2>LFLMRCMR-(!VZwnp3B3=ZdC$4B0SES4Od8DHTK(zIs5>@PFF~fQ3yQq)=#
BAaU$Pib=#1$LI#ga_=%zBhb@_{kuYxjt$Ira?V>v0S8rM-JOygY0d0#$pKq^nhS5HTdS2{c@b_6rZr
Gu*gnJG(KzrwPrIq3oiCcGeOf1JBG2ptg<!z3A(rd5-QTt1=M~&kv(Xv9v}6bhp=TuZ0C*lO1|?ZE1E
W%~&r3FLPUK4g;J=vGwr|7*_rEMTfO@gOa0+-vX%D-DDB#UlsTWLzyLq;(vjcqK6$pb}-1kvp#J1$NF
rN`sJ9ZEWIl@?@*=G?X^K~i<7fR)7q~Q1b0hl9QMz)%GS2zAX;e<v6{m@lk?Gdt4~Jb%!g1<d+HjZC=
DON{v~MvsOsSE$@z9A2MdFa$r6f{J?sLWWf^M`u7lpG=X3?yE$WGSuMo_wHXpZ|0un3iw@M=RMCwg`;
y`+1Ps&yUHjq<Wm6uwuYx8Kq^pV<x1a5Y~yG$4v-`%SqiOa2~^kd3w^OFKONkCG*#1g=m*p3&~kVBi9
Y8>0WN8R&v$)O08Q4^L>mi7;z9qc%eZfHJj6zZ9`=KJb*J(Mk}UmWvBZq3(6O5M#CWhi{wl|hoY`itz
E%+|>+1Qk~LaWPhECF<<Inl>|NDC?s>!xYu#qZLv?%Y-Sf4X{Bb0V1(Z9B}UmP<bvl1(o7lKKhHpyOe
D8s70}<N7F)|Xbw<<mU~$<`w;i#R|u$1d|Hm`Su+RJ$$j%4)vboPUxsQ|^>@??N^ef9er>muuPRq*T_
nzKWC?A{HGH~1y_DqdqgNx=JY<7r^dT~vT8O+RTbuA5($K0xL9NOc_(~O@H17d80F?(!c&PS9PHG(2z
$1|H^I#kvB}2U<U(ma>vE3#{Twx?J;sr?3KOBG&W<S_P@yg&WXwa}-xWh0&E7_%&%2l=>?I5GlF#NK{
>Pqq0C-lXt9JFqf$@!tql3nUbWUqrB$SQjp546OmnxRRLHk?c;p|NWDYam6Wf&A$M*=E(*L`xk>4FK)
aTA@E#G;9_fiAC`=MSCq(v>O`K)<gfxwTFigJhNAg!i+Kp8i0yckqo{LWE1TrFFhARYuXEw&9bDg=Rs
NRNspO?20iVFXd2kHMR}xTWWtJlDWY6r`}JVZOd_`53`PdxTm)Y%?>_j{zU)GnqIm`QF;-X%6|`T#hd
!Jo)Wx7$h3t_06V!pV$KZ20Utk%Ts%iVw{v~rOXZ!&a2R6}i%XJ4ENJ-5*Hy4d+Y$X}Ia`RA)@VY8VW
0($t0NT?u{WU@0dN1@@At;jE>UEWpVh);}j9JBG9>S+WAWEBZcsn2y1dz>pk#j+FCGFZX(3U<{X7w%_
K*aWRF52|XSG5sHhiyD2G20{f6|sGtjc@g?<-B|swB2fJfyAtIp|RE02v4LAGTR@H@Nt4LY<tFhUSK$
Xy#f`iVyMSg;3gRvn&Et41wml#DqPt+;6*LZ&LJ+t%UvR4#<OpsQ5L$AS)1X!9P8Ar!@&Yx)0xbzc7J
4EzCW_C0MBOz%IBUSd&nMSmoX{b&mJlb7WD+#X90FVX7LxR#qc3$#9#Fj*&mtO7K}^=F{8zOrKr}S&}
;?x&uq<QlM?}Vm-y(5P?SwRhR^Eni6Ny6V*M}i$!$?aFe{z%_}K@3Ypc<Lydwg6k0^CZgsO%2?g<sjY
I(*vsG*$$Gd>Qwn$|gm8<kdb;B7XX`yiQ3O_#_nPHk<~9<}2mEG@e+Jx~=SkQQP>q2KyZfUU=a5pMsh
061wX6bF%3ZFb;HRv;rSGtdMThh-OnOe!cj<SRK8ENXqRKyjCBFB|><C|=X-OoF*J)?_jZd_9nBfcO`
4xQ8#y*S`c&(AvlXtq!1z8Ek%Qu5R_RIKoY4pSrJHI72p?<=7YLvUN9`3<^kBO&N#U!pnT&LyFDoE>b
ST2lu>VN}=i&LL(3t7e%kNyl#<T?6Mai8??4cMn`h!HE*uuf)Jf#+zNo52j2?^9%I}-z&<e_`G(>u7`
XPu?24Zc2Zg(&+t1>@=p)<~wG%WpP-cAWLm&IJ+FN#2C>wfAgD1DrEv~R~*sF;<lwvheql{A%4=Tg8i
!)M0c(sj;Rg-}<uC-WUE9FV7Ps-`i?Q63vC_AQMdlKt_#;Q>(X@*n~dF#JJs=1;~?Y(j7L&`l;(N?j3
8+H}XQKlH}%GGK-UpZfmXDcJr-t^GpKByCZK|o!nL*43#{|&3J{yH;`*yrhP1#uZMOx@~<FQZbO`eH~
<3q7Fj?^E|3Q@5sxtG~+B7eGUyJE0LN$Iz?P_;h8O8Xu%ggf1_{zK5&58De-O;7Cua&<K0)2hhtPy$m
$8P?3+diL1K@=|%W9n%=$|q>naB=0ZtP7sb{4a~Ikq_Mx5*3As3ZbME1EXx4{{=DTPqN$-a=?13F`g3
`ItO1S@?cK<YzxWZ46+SQyfuyD2NE*HZO@|;uy&S$9s8$YeletkW07hKJ37{*!p^-v^AMeJsgh5bbwP
-L)P1VtXDBAI59itG6>vUz8NpqS%?p?J$m#PC5n{|lfxy9vY`*r|Asf(KSwbAUIn1Bw{7unjgeki$qQ
KjJ&v8wr8t6oQV{!<Pg83c0ce;?M#VNfwbRb{hOP?Qg{;yP{Jqn%fC{ro_O*T6g*97l8H<J&5D4>H)I
*#t5|gOzaYrY8j-`Zcn}%n$hFQ7iwX}0?{eQ)r8|gM|7G)%N@$q=GSQM&WErf8~P3EGG7@+fQ`O;1X`
%lzr{9`T$y!1)^8w7x5<cYMr-^bnB=NT+!oK#sc9RXf!Z#?rXslslz(QRg=Y1$B2x0VUZ({(M`n3B)L
U+^HcY3!j^;yOs_UqryP$zX`IMW$x`uPi>&T@?cVZEC_E8k0KtEPS*HzK1P-y}A%0VZWT+o_&w!t}wg
N~e=2dKR!UykHG1lzT_U+$cNnr!rCmjln&>JE01f!wy~TY(=yh4-YRbs9uy5Yc)K5MG{;1UyVzARs0v
pl_^v5_^0!pOdWxa@6OLqd^Bhjzi{cIREw<&g5^XNg;O!l7@<<miu>Zg}u@|r~~Tg!B%IZs8Ebgm3X=
jFNN4*5EVYq(}9_90=}f5Ewiv4#~TUrmXmKU(#p~sOmP7qj3P&TwT9F78Zuy(Fr44MD$oRE!@1{GS{+
B&2<56r4G@qvYA<`Rg(yy5F4?4gzaJJW`g<2b2gow;p@qdrl4st|?FWUNe6Ai2+**pt7VY<FxO9H{Pc
scM1Oy@37(ee-ZvQ(~R{`xH4hXU{(*p3`;YX478<3A)MU7%(0L3d1Z8syh&JCbQ6NpR)?$>d$x<%_O!
{(dKT`z7kNcK_>mdbR1?JH>q(BpZs_F%t}BM{9yd>9G5pKbF-J$84tQe-sxtsQFO;+k)w(jhf5_`!^o
c_@9<#k^2)B`Hz8pafmp*epLSF>fs0l>2U-NXr_^0)fo>Ehm7D4u0N^`R)Pv`@b>shf=<2x89)*A5f+
_RVI?J^|=wxoG*RDQ71hRt#H7CxnW3BBrRpYKht?m-N8;+(_l$s5YLDKAOVysw1($Ny23oOHdG-o8)a
62biNnLIsC1$0^6@f=ytQr^8UiS{but_2|&CWO^$TbOfCh6v-1@aBP|(ZMprH{obN))#EgX_VcB({nB
*KItwPr%JS=$nm4TiD1NAjODt1SZ%8bU7`AK`^p2M=cb)l#&2E0q24(PLF@zq}5LfDW+Zvw67#-0cBp
}&Wrzi5RW@XBz$`Z9<0#cKIc6hoB}s5ZtjXj^PVlJiEZ72DMRfiD^S<pg~$xo*JU{IB9<kMcI5si^b(
SBXZ#elQc$*+xLz6VGd4%~zl%x6yDu_7d$8QfcDXqKaWYUo{Ayd3i0Xj8k6LsSV2DT<jdAVW^i*<?r{
H-+eN7kiZ_}+hjbqb8lF9aX&!mtZs+Q=*TJ!$JT6@-MecJo$N2fi=$19DnKj40Y;$o=HP0i8QYRI<0p
V;KwXfB_nn1Sq#a5=Kx-E~Yb_H=BDUk?H(<gA0XoOK`W4a>MEKGk0pLJax4`>HSHk;OIJfBNFA${B^1
bk-4?5ih)bgd+9l8zWJ%DZhh<7F;6=;{D6={a^Hb_sNCJmS?@n6LI{1bEwkSEzrFYDzh=kq`lmaFBDT
0t2S>n+e#tL;83*NnUk<E!8i1flTzgfV#^4@RZ$t$*-iFjC);6+g#w-=f^7|G^I@xf<7vqbLk84c~!=
eQhUiE!o{yvp}-}B;>NpP@29E6K<E8XgDjWey67W0QXy_@gB51hg!ax=fHb_-Y<dofcx8!E#TIaw*%~
3oHocN^j)0l(;SQbTUe5fFVT{`3}4y`5{H~^JZTjs{S}gy`@(w_kwd2;2Sn8H-q3liwpnQ$C_Ll-9Av
9owdP~!YPHpH{_;gcOE$A#BJvE7h=^pzt4WWBXIM5%ys{4+b4uFLW*MJKS(`|wf+W@yFY8O4f5F~*0c
a5H1P_YLC5>cqz(%woyj~z``^mpK{qF$UKZuUp9BN`%&EXOx@1O~R?$u~d;<Do;-2>=q1=+xCztn}K>
xu{a?A4w{J*=A_z>4)>!3d+*TeY#*qq+eo6EYJ9b15}XEx#6;fQ*@tQD+=O`M-W8@%M`_2K<uV9%@Av
V0-ONQXkQu<Htd6DHg*+Etq%l53nFPnN>%wxXg+I)CZt<zkst|?Aj0gTnH^(4J~jVw89{53THoeq`7G
Y2>=fk&~Zm1R1y;(n1TsA12l+l0cz4JlIEiU-`g^a`HR-e+Y)jS@b8bby;D!$Zd(tu3)NrzHwqN*!!)
$ZsAxzEphq61jNvIG0mmj_H!B?lC?0MmdPa)T$<6)*n>{&k=D<Xr<i{k_<*M#^zTIG$AhRY6Wg7dC&d
rzQNDcPtvJz#m(L`sk&1rQ<z5|ffe2J2i$J6j{S4kS$38!$=eKE;)=y1UrsUO36j2eHOPyq$0mp|o#6
e0^3q~?JjwXhV0sg&#w{F5N6^-U!lQHJx^uQ@zMtL3gZU`S}_Dnt%#KI}PeL%Z`h2{eTy=U!k-or4o?
&&#*rp1<mO&VwB2>ehkwu$88JoO!f-f^4?fm7ns>TFw_4r&SJ(tVa1idQTgy$2nG93PAA=WTSRGW0;p
l%>H9EA=v~pU~Z1&{S)8Z9SeQ1xw2&Sx*nstb&?@udm}Ygc)C=`Zkco$zD@Bq)J#UZ5>`-~D&^>PJ-i
w8mRb+=3^G6`Q(Sk7^%Ll<6OB)}zs|!AP*t!-u;Zf4O%GbXEXx-I`R<Kk^f8)2`823Zqeoo2GmXPzE^
~_5TeN|?iDX(oh&YdD;ecZcB{^Eb2V8sSrL`vvx;T5lfHO}WY&&zVz*f{&yZgPx4SEI}{X!OsxP9SWk
1Y196J3Tf7r*+HJEU%(U{P+tFMDW^pXIuMAO4kgkWa4q8i?%UP?eM_&?VI`$KZ*JJnvAYY`rK38k-BG
d_h{~Lswl#gU@a_C;pY|dOt>a+?Q*#`i=GIALTx}xZcP1`Prv3E5DM)H_>gNQ_4hlpORf0aNBF+VIq=
Vm(k*N+v|EdSEASBsCG5>J&<(K3j&SrIUI>b+a`!mlu6DR#>eay--3N`ky}lqg)*^8kDje2tRWjd+X0
o_4pTvV>N!5lCe)t2?p!^Oip#C(?miOIn=2(_om_Vm^&IhW83m=h*>=R|zdVOz8~4<5GM?QE(&0SVR}
Yhdk~(ua-B}s2hVne%OC=!a9G28g=*X)HpCo;aLxo{OaiN87CiKF}KL@Jnjs8IcboaV<OH7x<DF-F@!
BE?PlMS{QRgr#A>;K$;iGgkdERLPiStBYr+Tia~L%6WaHV?XeU@S7p5B>r@NB_hJF#1L$^6V%K;+W(<
7Ha%2gE;dTx=Eaia{zpV16VgD<uY_BIvT(zz7%K_TMXwk8pR*YQEV1)6yL%qzLVVFh2H&dpg6_0VMM1
{wA(@IUmm^Pis#wx(Y6s5VaZ)`)we(ccG#1KjS89NcF|#sLtC@YFc9l9j8-60F7@cp#g{?hm+fRg=;8
*1KmM7-s^9R$!`feVlFi{UJJ}q*6^v&67u;U32U&INDdvJxeDS4x1lA6hbz)lRnjR@1@lp8!D=T^k)a
OSo*5*2~#~U49@}+$PSh~A4B(ll*^^FgS>Yn3~$@zMwIyJvQ-2$MV>OdO?YvC?Tk(?7{=6>28Zb#!43
hx+RqTNlRuwuhQumU`n1gQqkSvP9&p>!ZMa+)CYbdGB5C+hw4=%?ufeJ_ibbi)!{Z_z$ZL-W!uN!@Dj
RaiP4O-$&N5~%tDfIAIT^Xt@!djw_fb!_OK?n$r`w?VH*chOOl?NZEVxqE1dN+k8TC3Ked15`}it;#r
~1-f_XqkQ2*p<z%Y4OVdk&y++jTD3s(bm|${#?a59S=Yyq+Z<njwkBF6H@d4ptD?7$uT=$kog<pfHZ5
ql+o^Coo9q22&zqcgqT}EH0^Nm6cKO*cb*bGFI!~@@;k2klj^@^a(w)|aydt+vj(|x0{U3>-oo9do-|
A40x)!%{y|Ui{4F=&caa^uyMtM<ntwSwz*Xhn>*Sd%mjSj##SdYw#<nSS7l=`sUf(r=*=Zimb_Vo2fN
dC~i)$EXsEur_J(wHwWZz`GDa#Xh^lwmmkh2^Qt*3cKHKWvq&+F@QhKgUCkcGwSXvN3+$ACT9b2%{N<
c2zsx<+^wIv~Ktg4cF#?&=kFXw07*fq`WcdFp{aGvK3^Si|e3azq<H1;9@#!(H~lcp<$YOBt^+Y?bEL
YXy=uyFt$mn7RZreBd;2|*yIT6AGot4VzvIEVQ7EpuiLHX`6Dxr3wnmu@gbpJ-d{h*O5MK)K}J2@qRc
wMegKmLF`(l!gv2hOExU!#VD0-pQZVgNd9b$rTO4)n?*0u4uv-56Q(#3gGdy0VqGVT)?Fpa_>l<Ldo!
;o=LUbSMl_Rq{v^nWyga|pcoriE9-2W9GaSuNb1ck{ahr5-}0xT#8n9s8cow5S%&m?kL6{p0Y$&OZ^H
i?enLVMt^BjW3nj1N$9?N&;{jf>7Tf}M-(GV^sb<m(QMA}DFserMq>HR-HXA5=E0b5g_1^9=D1&C$ty
XsxW^40B<MVJ725&cG|6Ox%w?Fc>!y47ZE*Xn_vm5j|3=5$NO--a!i-|B?(ZP^6t6wu|+R$f4aG4+OR
M5274=tp!AyC`h#|p9Hu7KhrAY<~!g-WWj4d*Q!KcXukGGsHK*U6~idVY0Kd)lCM9aJ$8^zvAt8#$hz
6f3e3iuPtzF66D{5`hJY=OL`SbszIH8dH&micgePyLK))c|_)uX>CY2hkop%t|41K@!9BstG)B--Q(*
mBs<D(c!0oomt#>hf$fz<xgm$Ex@I0KC50*n_FMC7DBW&?m&8wp#1P0g39y1HYJ!VdhSj$PxiHn9*8v
r+c#j(L<k?NL27#?MQP?wCax5qa3&9dn5F5u#L+9qMO&a>N>$nh*R4^3*+Ft8Hn(k^YW;fT2sZweRD&
8jEFjr!q);oxjb7w@?m<Md6!hN1|V>HXfdV@sKoDAH^fmBIJ5S^8oE8S)da(*=4jvCfmb@9vR_f>!JG
dQ_y)vzgcZBfDy#60R%@cyK!n?pK=bxT><5Fz6?|s{j^A~Z3nqFw@J^0wO#iK%u})#D8oy(vn}M`^Ui
dnP6<P-|C)lsraG2+UBwL+eb_rhxX_IXin8@u5q0f8E{4}bN%1YTx^Qoh`TgwvB%a$M;bFt}&{A#i`M
BjKgTA!9k#^q@nKi7Wr>S<??fm-zpm@VrZ5t$oZS(d4DD7JM9hh$grg+PjXrh^HS4NQ|QUevs^J1|qE
w7T=wqsT|wU8DXs#2M>mdW`RJyUd~eJd`t4D`)D_1^&dF6iHC!d`Qu_||s+DvSBgFTT1Bl07x&$UQsM
&oY&aKv7JNIAm*EkhS^MJ=geS@r+Ozf60Uwt1`H{x_bF?If8!bcJw{|4qX+q8wQ(RwB60(7>|I3;J?4
F7sGBB7GwFy4L~<;a6ml|e0Rd%9;gpr8vJ#^Un110KWW;R#pc2A2Q}b>SAmC4{Gdwkt>H%(ek4L2UA4
I`AwK<dy#0Ts#hr*QVchrEYpJcgYd>w}_zOhNOmh6`Nfg&#cMN*I=7FqMUndf1J#%t2-34?wNw$$n1F
1=o<(WX1{YaLFaI%b_Xhn(mI`p9?g~s?Yq|oPLCYDVfK)ydVGm(6YK)$OdMP^p_{SWl}B$*=_oZ%}ub
P5GOd@2S1lvD5nNeaFtNx|2f6ud$^Yk!J@@2*Nx@I?bD_<|JC{h>+07ib^vGb#Av2=p!ckb=ii!ql4f
5fT4Y)j%S?Xdn^qZx7w#tG$u=xAzUC;<dc(&;;#)eVmG42vqz6D0nF+<G1e{K*oQ#FSYi&zf6(w3Zx0
Ai32$$9-^0rg5>tM@(i>RAA*)`DgQ-PtViPbqDKs)(euSL5Y*ZVB2s=Fp{=%A;E|KvOs%s529zl?3D(
MjClBMY@XTw9OJ+AaK$=fv3PNOxJ!vN<lJ{G9=$?}QXy|sV@Qs}_`HA@QCB5`1m*PvO9cjW=IeNtpd-
0^WQ;r?AX-#(Qpi@%67!#bgt1@6c`%^tL5FLG6CkWWfCfi+)PJA?E6Ib7#pI5h(ocltfpf|hXgi-ZOA
xB8^C>Oo42#!-UrrE`}EEvre5%r;{d#HOHYNI1-O1^rxT`-}0QmjT~y32v*OEYd9;9O4|xKgf)NvyNg
w+Ge#$gI7%fFrbb_Zmit5h>N4+M8sA@%0&iss<ow!(ZXaZM!Z3!&0B76Opa}O9Y~MSH58w{+MA?_l=p
#9`7x<7SzFc-IdF{m)T#mi1qWKY~4}Z&kqdOZiSYig9&?+>l(j31A(<4y&0~~z@-$!Kggi%pltIln}1
oUv=UFOd})WIj^mQ}?q+Ypy|ayWWhl_h9M;^^@uEd}QT?JXz`oIEo9|C=(<OJOBu?rCW;*+8)JiERW|
X$(i=>#Vb<iUn{Oqv-S_S2j?c|?Z6hzZj-t5=0UguO+Pg4p+W)^#rFMjr+v=Zg(Zf`Nr*81PU<FY_;m
ULB{SpRcmK`<S3yOtUTCF@A)21By$^ha;9_@c9Wyba#sEMNU0<<4XQXrK%lP;LnCQi2WHse0C(ve5)p
5?G~7ss+98k^yzD!aAd&&WQdxyh1Nj#X46dmn9Gle(XhqLGERA%3(P5C%9#(0R`x)86N`?YFLbZxXrS
=LwxKf>12hT@fvJ+>*vsV0-M1}*NXL5;L&~U@ieji@ig?sQSzkPtFzG*Rcue!ZMAcX?MMAp>-_A~Ap6
R1Z2_{Zk)zirR5ahl!(KF|O&lrKBPEosTBqbSSY@NxZ>*1RB5v!`WTP$M))o%;M|~FbFV4W=QvHzt)8
e>WVP=Ws%z&m>;?zt(FJrwq$IK_Ve~RHe{tJ4lE?e@katF+7$*YDja8j}|vUW*jwlc=sFfQ5hGGAqb_
p&VA?RS3~%E9cAt;L$H7XiXZ=K1LcL+idy5HJ&3Js(<CMBMSVv*8iif;k1;_iEy!xv&lNF$25waCoKZ
SqKZ7zL$OBE817PWVS^NZ%d;C9<ja+?Wo4aZfh-wh@iH=j{X2-Sr*kJ=}U*h=xWY_0!EYgmUU9;+d|j
*7D3r7zLhgce7D|$Z+McZt=@xJe<2dOjYd2Kts0H)CTO#&Nw#+CvrYtu8@g%$yjG8-EgrngnuH0adM_
(ek61&eq+W$B6?N)E06slCO$b$O*FNwAR{8b@*u51}(Wl!qFWVSoEy#RIwo}wC23W#sNk2z=um>5Y;S
Bto3@$zxG!AzIH0Ew*v-W_Z9ec$vt}_Sg5ua-HS@%X37t8VI$uDd*ZcZhyS}Gg%9}#jkA>>{C2uYE&Y
65Wb5<K0J-0KuaHAeq6ry=IWdE}1|*jHm8BIZay%(Ut<M<@%j)8nt8H3x9>lT&fClj9~H)?-U1a^CZE
"%text.

(** Lines 3615 to 3764. *)
Definition DATA_23 : text := "Ldijfb9R)wIQ<$50D^MCA8@Gi<&%-rO|z>mo6)Iwfc=hJ=Ic!Mg{ZpBw`0I-S+Z`!^x~`Z0AjHtRX=2
_jttSSgr$;On~)a(0kmot%79zhy!Tt6cj{@Fo|{a&_GOX}#vxDuuV;&oqTsKOJuP16a*%Qma@2+eL^K
GxzgO&j&|U6nf#p5gCyCyVS+o8l!#U$|<gqrO*EydiIgwUCkLZ^cmyV;rb8je}?bhD}{1^{e@r#b5Kc
+rX>-mIuOvfjws<S@f5{SC4vOgy5)>#AZ=pbM5fgxxTvbO_rRj+CwZ~O~1QL-zNuRWA%HjdtRCA*L}{
sErc<(C{r-uMKe!2SU1!61r2wEW7$Xjj_{vcTTTsVuz*He{f{u6|}we$1Msx&*RD@z>lf-Hl_<*M@$Q
<d6EzAZBFUEeOl0YPYw*Zczq%S&N^206D`kN}*GCYM+0cnr+X=*aqwu$bax|ik}@x`Oxs1{$ldSDX}a
ikrfO$6Q=khlEQxWaY_ms!Yk=kCY?RdZ=_##^P_VS$iGKG_@$_vn|LD<)J#V8Zr+6<1NuZ%dCrpE@73
f{F!hI8?vG){8+mBf@^4U&=vLOt?xPEHH4D}!;qqPb4LU{OF~_mk<=|#W&@#1BJjrO&E||i(+;4CSrR
!5_IE`<JcHa7aRs2CBScYxvC!~Ut3|SS3j(-%-ovRXlb>cB0R7BF5mH{%lKaze7MT>knI=O)K*oc+(c
x18*G*5kmpXDCI5Dtumnrz1}P;8-8PTkb}w85qePBMn97>ygH{kHsYyK*_H%srFxsVdv4oGr5rS~I9t
byfMsSFjvauB3~eBN+o7-u_77baqkD(O_}dPS3J9clq)x+iYyq&Mkxeb`7XO;ayAjpCOdwOgc}2)a}X
lki#Xk?q%crOk>}Ga;W6`)kO{=WRom|^{ZikFsKRAvY<dce_(9U{!vP78hQ?$rMfQ+4dywoU!yIDoN)
KjZRpi(MM`su7h1syx<mfJ_|fRguHruOHtgU&1GjBVdK<P`c!1~*9*+nT@?6j<YyGSv$PNQ9n&V{}h6
zw`0=lN4`_@eOo32S9Mrw<97={l|xqZ)KDB(rgyd9~nk?6#{UEb1JPb)dVB9^PqqM_k9s=cc-kpyftx
+mv*K(w^IU>IWfZvuB8`qeS=^YDPkgO>b4)Go#asv4o-$Ik<Xu{KHFGX?|og7X?HgVy?XB(ge2FhY@4
Pz08sbZO`UtbGpF9zn5vO&HKemL3f1doo6(c~WVua*_7$&eX7_GYnf|t#NB69z1WyIET5oS6h9{fG&R
H1-N<eLzdX~KxD>izIu>Qnn@>^wNhGx8jas*MA*#@cZ&^w&)^50dnQ&sc$Qy$cO6i`$L+OWp)E?(trF
XSG6R~=hqgi1liANgR_sVR^e~%kK)v_|7>EIi@=xvjd#w5WnVG)H{9a~$D;e}19)~?chiYPu_=|;PPP
;D+d5a|0my+prvRMBCX?;F^wyh?ni1nlC;YLMK6P059hxB%fGF(mEA=c;7Ta{RkSG2{8@IopELTL+Lj
DkvGr5&Bv&J)){$E&~0S$Nhnt$;qb$%~q{CF0$9ss|IB9zRGoBaDu3=2-CAdC=SkkS6u4FNW#Cz7ba+
%JH*vB)7p@$zl!qAoc_$9Cn-wdd5R<$qr=EJNhrYx%lV8DJ}KaRL=K_E3Qw_ojT~G8f48{WG<~W`qV*
tGr4FfExR@WZ!*3$_@MBt#&{`=5z-c6np6uLQQhpp42gXkHpIv|X_W2FK=8~YVBaM^ZnfgW-H&Wn6F=
tSzM8m?`$(&a`#EJ+6AP3oHL*~v&qV8GBE;<>YGRQXZia?do{wXyFxslUWf*R*#?pZBcF9E><!!xs0R
RF4fcFyt0Q795&09KH$pobtN_|tb5q7*Be;DHn93<$iJ|vQVI&OQ3!lghPduV3*4J}?*MX?mU;hP4p>
jr(AL>^U`=kev}pa-z45tLfudJ|xP3g~6ky}m#Jaq3DvEplZNf^ocX2LU9}X$+h03amumYHwHzWg>p$
F3bvY^wBS&1;SQ_!ly^c42o;7P3Xg6so={&X&J#Pcux1RYZLUI2fOkiyT7Lsr(?%fv#He@tB*B?jfXP
nLJ2)bQornx+(#vG+EJjNbMStI=pQgo?&%!WK5hfRCcw5DTf^;3ZMf0LpgFJ64_mV5aDX*NCl#xSvPa
UaEvTSu)ZZt@5DjAsz;L}q%^>?@#ECDgi}k}Tbefk{>n;}Svn`~z7?9awEsh_>vo42Jd+hGeWW*90UY
R*GY^u&cweFGg>RM-E&8n^1v%B%O58rFJzcOXk$$E4<R>g9#^<<Wpu@OaT0G{~nF}bQ63a>PruRn@L>
R_#xZ6$Ya7C>`X3p#tlqgQ6{p|3ZTSZQ=f?0DUNG?OXklr)w>+o565Z0iO*^!hQiGozOLd1&Ax!v^L5
iSqpe^K0D~hwQW#7`y|!I%gcLIsgk0g(7mwrn_c}VT=%_^}7sL%f2uZQSM?`rtb9?#epwHv~U2BfIb*
f(-bOFplcu>1iTbp4$Us`7R`Z1i}pj2+|XGR-wbn<*!!;+Xo(&)+xwn1qn;^VttDyVyEH)<Ygh8&GyT
M>#o9X<(z)0r6ELPLcZZEfs$}-9S6nejjy}~$&T_#QrIonHjjgiUlBQiZ$J`B}OWBMU!`qcY>KpBf<^
ZBpk9vQ-huA2<@nyYGVm)4%s0V}R%+d0Jnpci#Dld&-40kU&7YD42>Tj9PHXDb`0S(O%vWR$b)u7c>8
Mze9$V;pY-P<{r0{;2XpP<090%T#~DZQWpmChhW7+kLYnHVAZ4@6OLKnJs_D-o!_cNJL4p&JE^fwxQm
e)yGA_?)X;0H5>GBy#M*(4U9^>rYFyrSn7Cz#8#AS8o8y;Lsn1&jJehkd|?>H1P)^r&PPhG9fg`uQsM
pTD%epOf2CUm!~qm7wM>H;vBL5O8f@mdMSPbNj)FGfrgI3??tdJ@f+Bgh-x0PR>WFKd}|Z2BP})+kA4
AcMHnZsfL!#XWt%kHr2<7x%=IoCD;rHDGZDWZZs8gIMR#73LiYHt@Q%OQV;6=%U?6&ln;ZGVa=QG_z$
N#_Rd|W!u0<9dT`YG{+Wl1E2#(4dzcbm)D2bCvl+J+UM*NteZcgv%)I|)#jONx-D_&>?UgH<=iUo=Up
W|So)gCKS#=_^t$`JT07Q>mm1$(^jIBzQcJ%6yoF%Su%o*Dm~C#A(P@Cb*r2tQ`xM<sp)eC$ASHk_@$
1_ib0TT}AYXIl)zQyO|Y{>N^lV<+0Vt9J0%myOyRmHfCZ<j{t1O&vpmru9Q0U=%=4u3wWM!Lv3jXE&U
eEa9315?es^F;Gw6gxdy`si?CNJrT@%8O&R7YUkMP$CIJbC)$c<a$9jyj5al3FZ<lofb+FyVIpdQpe@
>xQh<Mfmd^G?3*F@<(AmOyGTR+sU;AUnLG8W514-%^W8`_eQ0x5)l-_(&dVQdlmR53w_N#7hzNyc`Hi
nE{6jrVe)6PouqMgq><_hiem88&)(gvHuiEmC7d|>kcjW%^9!0op+pWvI&3$1u>=FnDt1nR+WJ`;phs
IsYsC6wi<Ux}xWp=@_=Xmqz{wnZ7PId3+DoYC*wj&<G5$~n-^v75}$gEbE)ZH&)6j8|L0vh0HV;+xPG
up5sEKzzpo0gP8b#|W0Y0nY{|wRlI^1rQi>0S9j5<L_4nQ}+(!C)dWr8uciy$e_&}1p79nR-}%v$X)K
yf8GNtG7H^D*taqnBF6s{lGOdMB1Wa3rGE!2Qc5dwCG`C~jC47sc6&=<MRFjimF_~&2WdY`wGS!`WQ@
I;0_I0)(M@~+ccltw-)tOk*h6|O!k?e}qT>?iUdmW_u%jO9cWC$hn-tj|yalomk90wW#uHo9SC;NTvD
B4Puy2vNC_g<ko_Pw&F-%5rmY<7XgUZL^S7y23dBzgT(29l&!Y1;}DopzO;(aFMjeP4*NdZjWjd`+uE
W=*x)sB$b)1GuGf1C*2@@HxNH<Xnr4mtWLomHzb2l}8MOuoC@7N$eK)z8}LT<?eIEXyQ&5S#JgwLfUp
$_qsNb}8yPM(zcEyc>dide5VNUZUu-$iMJQeJI^7hS5K0busm>(je3(M<5bNOUQLcu-nD^>&kvE2#st
Fiqj#nRVA@nFrB#T%9cZBG8qvh{&Pxx0+VxjG9GX1KdmeK)qphgPt~jI%Ay0(@CI1@hjnGY7?6hN9Qx
IDWxpJdhOx8yg>_|bruC<xJyRc6SN3m6W38)k5Tds!LV4_0_(_tsWOPJmCZOR0pqM`$QsfB1CH{UN;m
PSt6sL=MQ_HvE?KmNu_Ix>MTQ_dR<1EzOM<K}n4Ve?m@p2Iq)^5WaD55j1mSxuZ#?b!g6bs#9CRep-z
x#k+`xCLnI=DkK3}UnmTB~)F=j2AMU<AIDM;BO>OXRArlHuptY^)l|#5xPf%=H1vC70Yv1Y;^XF3VLd
vb7T$3ax-fU)#VH!s)N0RcidR8)(VT7g}uxJ{2g$BX!@<Nl|$x2jDfe(ltqWgJ8&-jW=h(J7MAi-Qn~
f?zag*+p~l0u%9I)^)AHX&td0Etri~cwOz>!MAFdHx#Uo-du(VhFrh=9x5kQ3HiF>GG!W?xAKkT;xy;
%CI#{dtRte^8(VR4KV8SOAfLu>~w=ybxDD;Y_wy!|RfX}SZpRr6<%M?S<QS~V41~7^BUkC_m(6?&cSs
@!#)eloTtOvOl*!_`-cn76jGBV7V6&;Hiv0C>`r5lI*gZd4j(cx|dB-+WA+S0KhioVT3(1p8U9;|CyT
pw(-WB(Z~nKNOCIOK49NJsQgriHsh_K5|`l!;l&WB|yO;=65H=`G}k2D4~X1}($G9GV+eG^eTOkQ!q&
V;aH0XpaBLAeRa3M=*=Whe8^8O88Zm3rc4Ew~KFxPw<c#j`|;d%u)ZPtH>?C<3quWSwYhFQH!nVBNX4
Ai4g6K_K%V5l&5VWlLA6k2w8!l(@hv8X!8J%q*VS6218Wg?nBcA{u?8^4=<c4R|U}Fr`K3`gB%@tSax
r#k<ntgV;kQ=F#Xa%G`*|8U3q}4fA?{IJ+23aGG#LogN-GP-pJ@H;aRu#dl4wy1?=|!;7jK*oL7X9kn
iQ)iuHfz9K70F20FGGd_FGJoq9TmH+h!IMV<IvEN?pssxO`iPqmb^d-0M_OfN8;A1X)`G?>W^xWSDMo
EaW4D-yLp)v+2~%UIGr;4<0YDYWf#&=G#&D`?#NPDao3hp|c4qUX@ty-ISE4|JG-1)ocCTQi#n$TQK=
w?9eiTlwUfV)RawB~taS<n@aGhkAf9#`v2T^4MbFr!4P>YcM?5Q1T4ten?mIJdi-qG4XltQ_R;X;g3<
<=m_Fi9WpWX4u{Yx(UtqHb*N|IQ%ju!Uz1zvdhiP>1lCXm6v*)2CPDkn2jq~dVoH}`CO!%suA(#jMU)
*`L);kDOPH2z?mBEkr6k7iON(6z!Va%-ExO^IA(ql`Zu$wZro8IaD0CanuWC|W`*Kvatj050t!``T>h
uzp=U$CPIt=FqD!UO<hm~yCx+q?I3#O@4?MB3^XKKnzc%p>M{ZA@8@bY*w2K6UK%DdMdl^t5N4c|>yH
IgtcuyCi@{(D53zZ4ypZQ9V6$Zb#NZyEfplD{SXL2q;U+X4QzfWLjr-xl$=E%e4}380wp4o@IKBx;-b
7>PZ2KPIHF#pM98_wakPN{qYlVdNH6J-f@u3Jr%k58_=z3{#<EhBhB6E{95QZ%?k`8@zgQ6;UJIsy&0
@mhST3HVJ|<5?Z+|hVKbwka~>}%EA((`d4+qb{?tg_y=Fzq@rWOb;LT*(LCG8&3`t^hO|6a{sgbnd1x
hf_K|6Mxo7+zHmBD3GM0DqN^_0(Eg)8Q4pBud7lUh@2NtB(n4j!qY8#J{%rfxq*QB&*Ykos8FA$g4Uj
CQe7e7;kvuagx<sOiEY%jloH=)uUIEHh@0`t_%aQ<}xc^LUib{Wn^1D@-#2$U{OCd^xayc+-zDA^^i<
a8QR#&yaoOU&*9?%e^=3p8)^51==H&wKDR;SJtZ^7Ka?AH)b-K+)JLe$ka(v0~(Al{`_lwv{y2mC@Z+
xvTlzRyX7W2mQ8rQ=m$k2m(ofZ4X#ulDNV%)F-Z}%(yNZ5b}M%WzJzY<ObZ^YqCK|wl)Ra9W|n4#6Ye
t^tm_Ie2zV^*Z`+Yq&)!^3q<ppqDVa3wR?E5#@Jv{%+GHJZXjmbsEEwtifLndI@CQDGg6~46<>;H6Z}
rJ87DeN)g44sFEOMyYbADAW;<Jb8s3ELjoxjEEa~(#EUA<uOS*jZn-zOxNkUrT&@;V}yAs}I_|pZQ+8
fjPDgFhS_-i)MR=6wV=xGr=nZSz6e4UEbmwlXV;W3@KKN_WR?GirJDz_T#iUfb9+Jv=ugstWnTK3xhW
7A*1%Wqoyy$cDZT(=H~I?(*&WnKCRPj`!5u|t;vba_a^Lu!w1^|3A%ob8Q-8l`tg*Nr=ri}7O|evH5m
QSJ4F>V57m_L2BxlRj8t+w@$CeV}K8Zmy@Xk66np0iES$tQ!}T=&nWOTFKq0l$E0`O}Vfff6GTXryTv
)l#9yotX?TB7c$^$kUOS~j=L~Qj(w>Qk>0j(yY$=W+l8b1Y!yx>65J$(yOd$eY?IatLU+el-`p2#qf(
vdZG$YBnMWBWu8xnC#MNIp)D7t{6iCNeiL3YJF3gZ}%yJ+;Lb*|THat6&On5#UGPLC~UgeDDlXJC>ca
kuE{vA|bah0{-!6OsmPm{~D&*NpjbutT9v=Vz_zD;<(T#QaDfoM>Z*oR&&5xDL}Lg(8<4%1<V?249_w
Tz3oW1-1J3Ow~)N*T0~Y!oKZJ?69x;)D$6*7^O7hOUyU@REGJgPf2D_;7>H-hy_WKErv=Jo1(q4s+19
zYP;9jsGs)G*Em#&(t@lnZN$0W<I(Hn_->Wmbd8_NA?)bkMBX3w$R_Thu=m}A(_{IFS*x;GNjtA9z6@
g4%6Y$F0&bXSdP|!zQ@$lRjHm#S0L!mmz}`wuv>4#Vms(RIj0>=X|1%Z)g?FhI>a!lv%Y#mjQkBvuJz
w5A(rD~>(TY<1q@X1wIP&7Xh+r<MqMeER)R1P>sN*mM+bJ6BS&Yv&&N<5S@OR2$%hn=GQ3({^8Uz>L#
~?92IblHocgbW)=}Kmt~<y*g#X2>(h$bN5LV-kUWK7y;cr5D%-1=tDU_abSWnC8f<<ovbe~*~LXC1kI
sSB$GPWFlxCys|2fofN$DarylSR4^8trZHRqDf6;k{QT#$<aN?yc0*k=*c|EY`nFhX$>HlS>*SOWMTn
pD=;75~hudl_Q4n<H>TOCJWp#G5oN_^dGCi2ltl`I3)F0`U4lkr%epw5sUb4u+q!+<Eg3B!cR@F#akA
9ZAKqxii6PO79kC=ILpOV-%Uy2SX{{%fhUq6ZsT`PX^(tBa1-nCeks5dWfbDb9d%3EzFxCd2<3UBo<5
v5-CirM@U@lq0b>e{gf*B3AlJ@XouYf}X#9Pg6^<t~hWZAoq`h{)?7`WGPImWJl361;v|sXEy&P{#SO
hZ{e|8p{*kShKV|_GQKB@9?G%2zETb@X@3&)w(*sJ4s3j+WHM=iZ$r5^lM>!7Y2oo;LM6|K{XhM8W&k
E8Np-Q#l~T)I<F$8}1&zvXzB-BoFBgWA1IPr-Aq9X{o%AtxQ$v)mR21qPQcjcJa?J(+gz;8IWNl8#UT
5&4m)-#7ugy}%?tt%yuw_$lNQ^<6MR5`u9@XWvcqEJ=$}WC(~-&lsddc=Z-eS7IL-PVZb39#<I7mDNO
LUI%F+P&LZWn#rsQ13-Hw4q#I4oP2v9Eac@9AQ1hq3eIc;&8#;$vn_HYJ)5=0FYd(yn*J*V7K0X;wE_
(nNjcm@@)7Doi}4O=BY73_*DLy2<HIYEHIhME6$jk(sq9b}yA}z`5UD4&ly03xbbAtW*5d8dh3Mo_;A
I==w*WpONlV*_XGxuqF##$U11rNzk>o1Tyy#etI_GTUaWoi1!_u3Ga57QLn#4VSYw-M9G~)LdM#>WEA
zf8HSSqm?-Qn$H9RUz80Ol4`Oonm5nr-)kFln3|!*m+`7BpKw-E)n>)odLZ88>h_Jv36=_Ezc$;x>3h
*>7q5CDVHI8C^8sXWO)UHldgEOjm)gtZHcJ8o8)PTygf*)#_2HCL2C)c`&_NZ7vX3WLB#QN=i^tV}Y!
;rpd-;#ZwJ(oV(iHskG=5=zwrKtl+MxxT{5a5m$6-8}T|BwIwZCD;sOsu+}DVMVq*yxhUo>1=ShvLxU
wSkKX=+2Fzu_l13CQ*^V;XFI#~)Jcwu4KQ-t7X8-)(H0RIlzBvCt(ay=@irgX9YA?;Imu3|!02%eHYV
`=E9ig<Q0>9dn<~Q1K%<VYl4az!kMU%Lqy{L`Fs7b(IZAPDYIRwUf<b&kOe|$nYtJ<9w%0p)bnYR<#2
RY)3?4npwAMs&y$Ibw2hn<v=x`p%r+XfiRJoaE!MS4$Xz`9MYY730p=C5kLjtzBCq?2rytyAsYl2uf4
#kVA@x~EHiI$&)Jlx#rrGlet%;di)?08T+BmBJ3h1&`q6S_7_q;&*B>3N>x$Fx9+tW1B8$UtO0hW!li
Ukqv!X6{4$c`T7BEMDil|8p&J6zZm~|e7$*R70Y`FQ;hK=tI&vW((jt2u9n<E*YC|P>1Ny118JuJ$AL
8EPW%YsN2Pkes@$j^NLMaV4`e9Aj19^a+L!-It#u7N>YhM!yoG)XBku@k|8XRHkkq%1l6v4vUkva2`1
@{rpRc8NCCxb89A9&S**{QaD|$!}%6^ot3_-g;{lvtcblKX3Cji<BuM2HhEDiLY=pFVTyU3+uO!Qpd+
a2rhhD(7C_h$ngzLOk={TR)iS<)CkMi$INp=>D{v}y|gZ8w1iYzGAUJt(cq)uVQ0uzEB{$yJZ0E13b<
5rz6i0roCh#{(4Ptv-*>0+b95@v^tjlHU3={6r||HZSfZ%q(Mh!9_sIw;|<WHXl4&+uYlhTqsv<pa|x
l(bUyBZFa$E!rS0j-q}z{e@{Dfh#VhXXugG!r8R@<kCt-xZV-ijP4@h)lJS9VV;kYiy&IHt7;+X2Sq$
eJ_**(OUiWS>oJFV6G|Kq#K29#@l5fMwmo@@A1)EU^HNW}ZAq#!<x_qto9jx3&Kiu-lY{Jkjt@O3Fl}
wr;TXb^1o`J5CC*Q@QoOl-t*}o5KyZ*(4pC4<bdvs^>A5vm@_tX0gv&k6bcdrv4{T<;*!e4YO5WU|HY
iSoB#TZ)r!GJhj_0Z*auU|NW?rf9YO|m$tL$-FvpzjXGGO>5i6oi;J5)TgL=uHK(`@<SP=Kbv*uFg)B
V}@0Zo}D0Ze&g*lwSz6#$ri)8hTb86s@-t@lV`S4=BL=AHtJv8a&+SF6r6Z(I?@3hmjL67dOD4^<Xtx
dY=-k*0PM}C>E;+tpV=!~42`WJ{X|3B>EkEmo*nYv(eFwTtCufx$VOxRcIEaLGeh6{R~miv?-BnRfk#
%>$;=VN%MBat0qX|2XS=^-n}6JU3UIxO1k}5szFV0h#|}8)xeT5!HJ{Ig=i&S@yS_WLN{)IhMl*i)(d
TjcJVu{K>GKGE_R?npaBIeZlW<@`wvl+(1^SSB(d$tQkc+Ff_W&(i+34m*!T>S+0old!7KRW<oVU~3l
X&?n@|tm87cv#H%WgB}&YxP$l%82sBA-ftcx1b;5gW1JX6Apy^Y<vp{F^9Wn`P#&;Q7y{@~@`+wq*Wq
W+4W5LdF%1T#z3N#ec+$8_s8w<?f$F=wpXMI{uJ?v6dT%ZQX0>!qA?z+(vb00Cx5)s^X=(d7rGM`5Mj
%v&>%|>ju2V8#s**@#{j8uOzb3q1Q+$Nj*~ZhVP*j$#@@+M!LN&k0k`!`yr<esG9c^>TRns!Ek;$Q!u
YK>`47sCCjTc3k)%w@0bPb<c!6yV!L210^vC`$Khq0gXBC<Mfg!W9$1uY((ZqfICw?Mo^q>6W5@*-Pj
r<*C_H2#haX+-jSSZ2ztS&)CSE4%3=tOcP|PBxZ)^x1#z^OkYF}iqzS&>Y1~P_FJt>lIK_4Cz5o}l}j
)fdpNE`M_($)RNl1BZNRNOR%-FBc`{UDitY!4McflF~@!*OJ1VWzD*GD6pIjAz4>*8Xz;5N8Y+B1laE
*5p@vjnLV_qMb0PwCc%`^dTti;Gix=Q6;Vy28y<Uq?A6gT8dcxcv6C4$|w%mFlu=(dHF-$C=@@#_u=m
;VUs!4k(oF2Nl{OQz8ps}`DJrT@sL4>k}+|GL#Fv}4}B*W#qdruqpd$i{LC;<ywpFT`j`4A^uIv%?U#
~}Z34ixn!lmBs6g#adn8ZowT6Z<o97kCK9|`_;X9IdIlc|i)R$5chU2AVFiBzaDRHYi&Cu0sJn|X_2&
LbHy=Q7a`xQLTl+`199-ItVdFva=%QwkuwUbVY0(e1V{FWrm2;E<1+XxB^KVE*~Uu5VklGUSo9(V^+m
O={I?$7jlUD{?ce*;5I{}JhIA$X5i^$)avCo}X)%9u$RcmTEL)Zb%@zU=Dw5`@O$Q84?Rpwr1kzy@vh
-<uRMTrd(XralUoId`$kD_8CC;SYJ?B^5lBGc-oK1G+f3RJ-aQDL}UVoyUaZO`rjGG{C-)qqgjKfoa8
#*(7!U7`*HT&(bP_^NdPqnIe{=gfrWd*6r!&^VIgG(HXHNlqIniiu?Sn)a@1R1xjAYcD9jjF}QsQ-Ah
>L<N+WX=m-96e|ty3-xk>e#WOLI@n3k5)3A?dIcO|1K@x7{=Nk{dgEHSx90};GqWEO9;k@}rys;%1^|
(vP^3->W^$ReP&N%_H00N-jeu9AmzA)qj)6n$SEr#o1y_e;bG}iWJg9eJh1<=7r8p_Z;lDc?!g`gBj%
e=z_4FT63JW{N|>zXa8b0CX;wm|ob@3w2Vx#-+sf}gd>Ma_QedKqsz{P`;uZv6M~s(AhP-f^aB;tg`c
ZPw2=EfVZKDycOm3p`=r2NB8NGX<hJ6OU+TbMHPn2PxT(+A7@)ZZw+*nj3C5!}Y}a>n;3Tr-C~oz~su
`#+2MPJm#feFP)7*^s#k@bJEQmh-1;dbW|!jZbc8evN^6w@o^iv*e`Yk1pFPP3a$mD+KjIegccZA9%0
7`4fDAf&V4uWwp#>hr_v%m{sv}vU0$PA|0&`OVNP1;9C3ve)M(IZv#aqJT_y3!brh!tSQkK98NLP-zl
we+NW1N7{FNan9=aRUSu`-6Yeo;UP1RV{qq$Q>piAtSrox(~qV<xyW#M`81IG<x8OUqS5qNIe3X}O<Y
Ve8yK+DgiR&Qnn8JuUj0`XqLtVuJ_tt@^p%}mufChuA;(4A0(_<+fMX&90gWM2}-p*sZO;Akrd$v5VC
(FInHzFB}l-R%-vXAb9lX<53<Z>*b`9m;7KCZRJ%3kI7Tv4#wMtm`#kAJuG;&z*@b)8PV&*>3R`HR8n
q6(H~2NavopF>-`Nt%Mc?mq(VPPhok`8)xukK?hYUUR}l;l8d_JD*Uw#cZ>LVE?Rfly43_t8l3p(wNO
6(Ex-fUKn!;#Cncj977LzfT9*SqNT;77#RU$D)sbNm+8@Xc5u?BANCv&u_4eTmo6kJMpRD@tGrX4{{?
rHi&OE~lEvL>9Z<me_wwUw6-<g-_E^PW$Wc<mc<cuyoaYng-ZI+~I0spGa*SaGwLccXF19vq2ba7D|?
&k%#k7qy+EJmTX&lEM4Y~Pmff~0MZm~ZYwHzE`gI3-kZ@NPD5YI|30k)u!MVQC+01prm7<N%`kcsN{G
uH9SIVmN2qNCYd#3W|r<-M4h54qD2BA0kHMt5agf_=JHDNbWxIQ7bBm2;;CJhOuj)voqDBw$N0q_qmj
>;h?|L{T3^G(JFB+HK(`Zs>nct3up*FlJyMddq3nW^RHv3XZtSwufP`$LSyko_#?vRDl_~U6qX(%&fr
mUq}nCINU{EMD55Q;p6Mreo_vlRALHeaUIh4nKDAL~gD6Lyzl{5cH;ke~I%JzC{1V|Ad~E{*d~GN2_O
;ySPUCCa`qnAFw(q}nW?$P)7oFm3>nC5^Aqmsh_W8f0K)U8H1AJ|-y4du!{Tol!mh>0Q{>y*zwLQsSm
1gD8u1-~t|AA&BHlUB8yZrk%VMa^P*@*R+zN%^cGctWu`HV0e_DE66R~2Ve1W5~vOy#BNhNL5|qax{u
"%text.

(** Lines 3765 to 3914. *)
Definition DATA_24 : text := "3&`WtKKnBTz^?vt%9oYqc+*8R$06FEQyJPNfBp|XtdsIRe%7hv%IZ%kxX}>w@y2!bMR_tyYXCJkO?)e
++mTH#eUpwLLg`snJ<Uk{fb4&dSN!KMh5sR5vG+g6D?afSpzNk+Pl{Ju^K44|lAk?uyy7m3SKN|}SDb
O*z<9+knkim!`L8fuvE_t##f$Fyukngm_YH_wZ22GK71R5N{luTn6tCD4cky^d3Rgg_q1C%=><RITJ{
UqWUUBaU@rudN28>r+b85WeTaVi-5(DEEV{$aN(O=alTidP`->T1A0J&03OUFe3i7jCl>yd9stj&jXr
^*aWeB2CNoM3)`Yo>o{e*fP5t~Uc1UH{(%FlPGE4fX$C0At}(94!j)sP%LKjAMYL4-8;z{f_~RpFJs@
F@Ul4gaF2ACk8OKU3%I8#wq`Q3t;U0mGJ*|0OK_XO6|&FsQ|{`{XYv}B=o@m#@3Sq7^m<6#wh~=7^hG
G<COn%0vLBc|DOUFAtmqsV((1=qO7{c@jEOsEINaNf})NJisFKTiK5BKpfflq?p79{3_`I?!;E6NfIx
vGhHbBvmX(#QZ>w9qiu;C&OJ!z7X7v!3RElWo{hxF1eTD%+?fu^6`~JTMAJ4hlx#!&V+&%7bJO{A1=>
f(%1Nk2wU~Ka^Dy8cgot6$Te!UXiOPt+rIKUYHljB_7fBFF9ux&Rvz?i-5W(OFrZvE2-7)!(c!~w>-t
xXOv*6T{GH#xw#W9w}kU^HxP`2b@=L6ZZF{3sr(*p3s78`CI-j*gvR9Ez*yI70_rkO#Cn4YxYb_|TGD
A7~uK4m1vQI?!0o4>XqMkI1yOg|3sGXRMjeHdq`|*JN`<Q)2>TnTvd=(J%iYJky8+6@I31EI-qT_Cp-
@7gaR_#gWF|;z(mRaip=MIMUco9BFJLjx^$ajuwtI{?fkXBaK7wB;M^EY4oUf<VsC}(~(Bjg33o4m#`
Cy*Rc@jYAh`rX}r(*NaG}@BaN)#l#et<-Qq}Nz%7q7)?X7x8h@6LG@g}@G=Awg(s)!p(zx$tM;f^_yr
X{sk2DrM?NGtmJuQwjK3wm-PeUAM#N>>EmZQ46*fZiQ#XT+S*7%%y?F>lbC`{s!*tVh8o*Bowu_*N30
mh3u-T*`KkB6YO`yGcGYw=0177jJy_$}(jecZPiXH`DM2R7@Ta*RwK=i{t-(W8<euH5V<<E+frTOMcO
_T$v<O~zU69pkJo*|O%z+D_6aM>Nu89<!d0LaH#WU>Fi4jSw8QZ}j>CTbF2Yti{J9)ZO|thW~<JOOvw
}`<qxbHX&^b#|J3I^)s~{z~F}W)PMz>A!OIC#<E+|*)pEv%w6H->$bMiiYH|rYR5p542*7TTn|aon_b
o6pS+$l+e3&sqS~rcDhsP)YTHW_9l@p3Plzqhp*wH5M~1H~-W8;`*KAd=3V2Y5Ps2-(y}>knec2+lwr
qSGt!m>=UFp3(#?pJ;(tdwaUp8u>9p_fAEpzM6?oGq{yMKpf8kOHIxM6dd+wc;0X(BxU4lSM;lkW%S`
)a1?%hu=dhwAeALv_81<)N6F?WFwGZg9i-#zg9$981W@M8W43M)H9g&exPEXaz(Xz0-1WnJ#!bbbDry
Z(;EC+P<m{GZZ@2h6-Kuj`<z6VbE<?#FrV}%y{kK`x@!_*D<5_x-9c3s<0imkM&`*H*CTNpE9zKb<^1
o@|S3falTocY~r2Fv_b6Mych!B?9+YN%R*&wW_)Q#&-a%CZ#w(Vi2XRfFAW^fg7;#adTJU%%iif0fiC
xFssc2R%%?u=Gh^8rGn<K=(A5~WM_ccz0JX_ey-erzU2Qusx>(iuo;azk{H~+`6RXx^PXT|{mTt%8Bv
7qv`)WtyJ7W{NLOQ&lEsN0<HU!RB0-3Tgnpz(%n%V)CvN6@oXh7Qy34PpxvoB`xmfq`m{0W$R{+3>V!
Jexz*dGox*uN8VFRa8#&m3mwk>neL+phrSse`_76HfdStEb++3ipcDX7VE@-Ct&V0bbxI8Zd>TyMD7A
JdVM^QkOdF4H{LM`|1+Xc(lP?TDbt@aNn>T13k*Z+TGVL=UPN~9p&5kc?|z}k+O4%%ChkqY2DL~<$A{
%ZC2M~@Ei@kQFu&x7u3qakO%SQc03Love$j~OZ*rO^*<3qNd7`7Jk}}B`>AT<3jerfYroe$%Hi`R@L7
AJ@Q<rDKWsxad)<SCn?1&@_G3=O2c5#jK%1?%#qc)|<arF_3`DzF;8-MwTK1b{pzMfC1HQY2C!Q2A%&
6(ew3Y$y*>Pn?Z?84jcWXbv2!}`U5v<m=(%^ayujneg>~5(kpwcxQE4nK1y`~z5Un01@><IP$oxdnw^
aGnM#XTxuxkp&Cb%U}ALHLLywk*;pNV3w!Zl(A6;7Wr=^$6P!3H7UY)U4p%)&Ws771mJIhA7nry(0SZ
eE+Z`Kyz4EU?|_q&ER^%5LRish^v-S0k-4%va#JZUk3vDN~OVd7jv^ua4V=;hr8hW6xM)}S6I{5s-pX
?Zg>aVCO0>1gg3QE;Iqk1iQ92D`GTo*tdFiVO<C(&dY@8Xwpa}<-DXrxp_ya*V~2Oe^ERsDP1pH~*{9
6~OML|k{nRW-*sh7oa0Ts*+dpt?{lqd|KQ+$CL<Lv}N8P2c_E&B2Rc+8JqO0ZyLIoevRlCep>v}?~RG
@8wYh`rRymL4*jS93KF%(uP6I@Rl!p_+~hIA`9zm5(5)0Ea;h3DO@oeIylwR+Pdw$2}O(LUy)eauDs7
)3LNeFn)5%&NziE$nw;OB<GRZYnWTZ3sI717Ii`mMi>VuMtWP)Z*`~TrJIKI>W9QSs$%*+7D@lb~`V?
SemTimoM8dgIYtSiUVvPm!!sPwd~Jht%DwR>s35hSREbf#-9Y+tid%u-7~Cf#uLF%US_l2=V@L~_h~m
VFAF+D{zSuQOKY!`l<at-#GbNco>y#QTNy%LF2eI@o;F`$Wr(iC`ftOY_<4R<&9(j!cJa8X_zHk}_ZL
d>88Y@*_EvUo>aeu=c{~ag>sIRi_vi6lY-OqY8w~L&b$<ns&y8j7`|gH93?;qriu)pe{hR};jk@vbG;
L{-z9LouO=9gC`{(Fha0QFTq7L9?nJzGBOi7WVJdAnx7B|@zP^{&PI>HEbSy3SNndoC}fAF!l_G_rjq
y)KEqDXBoJSvN{6*H!^>vxYbk$`9SHK3q{q2ksX(&4#6^mv->z>ppXzmj3O<0?b<2uQs1TKn#1+mMWG
ILPjU7W<G2M+IWLX7k&OhpHq`e0I{^^(DvgXH+EWs6uZqP%HSx4p-Ki7HFCp1DYDcosDJMnS20<dv37
Z9-df-<0LiC9D)xQePLb$Yx@$FjaC&J+!q0buwbSFlOR7?fqT;MEFMk)X$$w$I-SDPi8D7aE1g)A%>m
8K;Z4lW+&%QD;Lb;IhhDrmdu?U*gdOMafXtsxQIgCG>h>G=Dink=moG5V1^TkKIjBxWZ?|UY?S(S)DT
PtQHcM}}bME(BI~ESd*E}{_*eO7yAZ=uG@AiPEKAv*&(U<!`qS7KK`v)0bC`&#LBO3#bIJ2oQsKLfnO
5px+25%c{4Z@B{!?|6ef*bpBBa)H2aeO8l;=3CkA?$c!=fcgH49M5py%{g)LHhMUoXLK8=2o82?!M@K
__#W2d%azSvUs5^?$UnrSGc4BH3a)arIX9wnaf@c>YiKKD5c33jGD(DWM^UJcMncsPH8dxNTc1?7=6q
-2(R?FACLxK!{gq^tlbS@c$*E;MgY6Ol)ePd=v6`88^Hz=JDuK=6XzKZ?PkrGtjmlArPUhX&}G_5Z!`
B*Xsiw6CnP64iwaE{I}fY3`^Q3KBu(eXO}U2w&p7ELek+^~p2}w!QHR%vMIP+^FD-EN{^7VxqPJgBZT
wYLT+E8u0qIRVf?76U=EJPT?6I1kv>A$Hr}8)14fZ(aa)j-*!5dS=ZR&VV*6B9&1lOR`wXR0{SK4K<Q
Nc?_y6_oo3>g0=KdZw?j&dd$-jrmIo0C+iinb6=^3ofe<X|-X^advxjE1k?XhIUt$=W4+Gwy+(XBu4l
pRSL?_4rbumjpAdO{dy;m_My9bq-{A$5vRqHsOiP8uU0EbnL}<>dP{NgXu(NUPmZ|cqcS8a~`S<O7^g
UM{PUR)&zoYKWd)CyG`*7_CIj!vpX6>FWjrzxTiKoKW8G&E?+O5sDyD_Z=jP_I=B`(i*ZW4x0u~_pQi
${X{9h;_He;K-uMvC#>3LZP+5hAZg^G}-;ry^ffIi;l&|sG+j{2lmUzEHKfJBaDt4-3XA6C^{AL6@tx
zY9f<r;?fYY??bWuHRA#BHany$15-@=rP^(UR3_Q0M2qfG?Wy)2;`_pfh$4wr`St!C#Hda(zCRU1GMS
6!5;fvpJD2}PBkzkOS^K?P%$YN?tuUIL3}V089Uyxmn>cv-PHTpRuC!Z5sQ1OzDlQuS1Y(Y|+!C!bso
Wjms%|7#IEAZWAg^>Yf?P0-PGmfpIkxeBYs&Mc4#RnZ-+A|=!bwYvuAv80${`R45#I7OY#g{>Ct;yZ0
P58ARx_<}NjpdqfBv0>M{QU9(H{E#Vbp00hh65njyUy~25Lz6LrwBlL5unpyI!<Tw{Nep)KpnTmGf>Z
bo)!ym61yk%RZyamr{z*!$ubFm~HvNI`Tv6O7v)$%i=uMp#NpE$3t!ksVzgD#o@2`Cdms|d=_t(bq`)
h}5RU4fyu<gpWJMMPD8*KgY23x<)qfsAZ?(7Utas86Y+qlHGr8QyARW=d9-iWumKWmjIBC1@S)`au)r
PK1EYLxRUY>i-*2;~I^`qhqgVZB%v&crohX~8NeiytnP*M&Fnb>WwnI%fC6m&yyQ>scXP>r_Z*d7*T1
`B--k#;G=jYVF73>{sIK2XKBGms!)|ihouW_3&bAs}+TZY1xFkbY=JTz#W;!(ztwlV4%U1U9`SCO&hi
oGJn25C?B)++)lN@sI0zWnRUC~bsz3015Z!_eH7a5HEwu(D;;XDQdM*w3EKC^p%xY|R#p={IcyN-R|G
5<FiyZee8sgmQ82YR6@-o6u6nG!3yw60x{B4-N_n+)l0vMuZjo18-{Y&Ts-o>|wQr`X=wTPW;yRJ7xU
QC0Tye9T4hn#7+W>3^hEEO7R2AQgOT6{FVpK(g+}X0;S*5D5-VKkbE)1UKSVpPwcXwPhYb?d`19>o9U
ak#i6fv-OZb#KNqASZe@r(`%yABs^b@qnZl{(e7s5tviY!Vt@aqF5hpD*0bt>P;T_J*1yY=kcDVvDY>
ao*nzhrZ5W@3x7r-8MMljw||3RWyY!-a`K4vSklO4OdWC;Io6esE(>4HO2R!+ClSME~WgzmrOwW*3&(
FkC`r-F8r+Kr|V54g<N1#YS}|mxGyi6Ng~H=jV#dxr{dDTu4HPk$v7t;TV5kn0_<s1@sS`Y_p*p>fj5
TDtaVE(jjPg^-CGrBzgDvd#}jcSjC`DH?dG`z&*J0KM`0x{1y|YYa9$r5f3@3CH^fa}`kFQJVld9svp
~_?7w_Gi!3zvqDP)VnyTD>|j<99(GYw|Yq;X;RO$=!hPWVW`<~(jFz6iw2w12PFLy~gIF;$P-F!D@X_
t{zNLyx5ChO2SqxWc8F;>z((J<HviH$h{Rmxa&qWnsP~jE%uo6fLeS124H;urRH#ViLaY6Fdu-h%tHZ
t9?LTBR;!e67#L|{-M?=Zn|aZE_pVH6jc@FLy|ye5EEB+w+8dWJq`2{mr{?t(8jPu<8oJ?lzh>c5!C(
zZ!mLOKd!bqZoVCk<<`eihX$k<$YR7gAzy+U#4o}1XLe4P;5K@6UPwNt1oCVl`E2urWKV73*-O#aRTH
n{IVdw<M?TW}I<lt4b!1nqypVj{$eQx9;v;+|S<hCIAxCt@KS24v%Jyt~>Y~C_MXuPM(}Pg*btPdn7o
j@XeA9H%HMY@O##_zbAP=J(wA*l9ST(T$scEC>;y#Tl$xoFyR+3dk>DRc@e+jog>T6wfcFM2Ay_CzZ!
{v#i+Io#IDOXVcHDPSwvz)IdCzR;yM{qeAtU%w{qqiT|u}3MYwDzlFIk`)mSS#L=i?fBZ7=dZ!Y^|8p
049OFpj^g04RiLy+NGGNXtt_+PF_{MaF7)yY?s`5TZpY<%}-ZwQFoWZs@fDLs{X8+E8Nn>+F_GMwk*s
0mMtxN;%YLp*72uGt-*P5VV87ammq|^plsjA)`dTlUgbC9ZgMOr&vIH&{^}BoMrrK=|GU}znWxR+tUG
6+)A1VG;-78M!_mbldix(*d|5QEoHsni;AGJdfgTO2!EYCMql(u=Ee^p&#XQ_R%(qiZXX`<6aJ`20se
Z{8#&+!h1_}@0<W5X&F9)M6`o_iNq2e}N@Kk&(FA15o-o=^KG&1{fJ!;9=UPc_#eyrhDFGegZL(|PRn
(dS7X7hD&vA_)7HG1O#YKG!OEz;oTTD-tzcVUCUnpoJ7ZjIfX$yzRJz~-5(iJPw~_I2S6kavv-UIU{Y
u4HbG+iK7G)cnF!?n-sd_qg5F`@5Qx3ejk#X$zz7uyq8G=fZEkbz}B58x%;ZFe*Yg4skeMP}MvGj+?N
{hS;FHUWUdDhY_zo*p%ZiV(YXCTi-JMcibjPfvv8F8zw6_)2bqzZP2mZc9?N|H5gP)dBcYke34~B&0%
~gO<Q=apDk2ebISx~H4p1A_9A$q(|#Rn^z3mmwl=(Rw^$q2*Wh+$u{Nx)ImlQ=di}+Hw@&oLGVxn%ny
J$5(n+=|j5{eEtHnT9UM<ciT%XZK@3h`o*wD*5WOEqLuwI)7aKw)l@96D3lV$)>W$h#+T{{;3SJcK}`
g=h0Tv+K+8=)(mR)Sn+I<FL;;gWHsLXAZU$`BrJPe(P85k@tUX@$iNm})TAYXe%Fhi#NDY8ulp6V}Qb
6L#qBWvJfb(DU2-_zZBkJKLCmYOwRh1nJlL4vls3{FXIV`<~i&Zq)n5ObiT+=SH`E*iJ}pl77x*ec6D
=aQ@4F32#W<e%&2!NrfTLMSL9FgW94CN40};rLcwI6c^oZ^``r6ftxSj2+U{mMFj4f>)H9}x%i?b3t1
ZE5m5m{ow)gqmC(EA^9{C+7u#+!PGPJ9pASa2J-!V1%wP}e4)}2y(*J|qx<K7=EgE9GM)<OG9IzWeA;
(80r6aq2oY?Ks0=p5%sQ(5wB?ct)g+8v7as0$Q2gmE@wZO4_Z?IS^_Lr7&U((%<fVBz0`rzoc0myn^{
hXtq<@aZ-J8$&F&DQlgHE<4Hmz%maNQx4a)Qv2xv56IMcIK*u`Tyx+`+?E^9UdMsmJQue>a<cH`2*`=
3l~QC5L;x~L{Dkrqj;E_nL9({9ibNQB0mt!p7uW0>k8FH`0yu`dp!cZIJK(A+kJijzkzD%kLPNd+@p*
yA>(9)p0Cfdd}I=jC~Zk%Afs06X~?=><c9a5<-H0qyej<=7x8o1eRw_a2gU5h8V~y()+B;WDR5REL1A
Qcyo9MA!G$zNRc1$Zc+RDGdr%!tB(N7K*`j5<-K|dVPP}pA;-sn&9}cdMRVq})crQfZ!;lywxya#2m|
67DmyMSbXF@N2d7-W>U4aT@Xss)a6^V4ci1&`E=%4!U?8!;Pn4g*P&>g6@AQ5^Ry$781r4hz5_s+oh_
%L8})64dOTcnrl1NE0`jrKE;jcx|W>Fv^JqieN&@AhhUooh9_9jO-YZk&m<@V)Ivp{K$t&UMj0sEYCJ
CAzl;Pcd)7wx=w9pHz)IoN!K(-N34!gKH@3a6O~ct*X#{0bm+~-KR=lu$?E&_T0{UVsJx5_?{R~ufk*
>s1_A78HL)<w*TmkDiSDT;xZ6%3y8t)R<TE?R4VL8q<gMmKB;t|V*ZGpH+y3OeO1WjcbZLbu_-nA1on
;RrHwGk4?C(_`n-Z&6s)wQ)Nl8&-hs~#doOdtW0-7%L;ZFat18V77KM_02Bdzwo3$;sa$`1b`26hl8h
6_yj<{O=peTCjnIn6GwhmvX#e<eggMBA^e-`3k5#XA_?`WCEe=>hg@6&>ckUItm8tqfPaQ0E7FV$8X@
mX5C&Z`b>8`wLw+Bze?QF{U+>t2I596Hl0*B4yDy(*TEm{z9>aPv|H=)7Vecd$bPHqPk_YS71~7?wUh
JU*jpr>7Agx;5I3UTU-o0HZ;Tb^&OoLAy|V0T=D7(OyD(&KTW?wsl7K3ho<*0tsU<6g03$I17<U{xa_
7>x|uI^21kdaNXBDgY<O2oJTB!^o2DpPMO3q2<+S(nIvaWVq*ps)+jMeS;8qAGsuHy5OIp)HuFd4)qo
P$0cFe}Xg(*Y(H0WUk4K}0frGE@Q<gosw3)mtf9fcm&+`ZJBHuZic>Zj6${(YM57V~+)3*-oB(%d!Fi
2=ujdmx|t_t{KIfU6aNsac5GoC@1&AvCwpDowL9s6lGJA|iL`RsGD!QOz66|<>l8=rc{S!b6Xz7Z8Q%
Lre&axL_v2L2w~Jb$S?r}3O|P!4;rELCrxhK~?eOA*C<7Ft{Qupdzs<MBe(#<-}>l(6~CdGUDky**xD
*_Ivc#U<`-5Jno2BhLa$g8<E6)IjWnX+d?4OK%*@-pTB|5Ks!o%S`)9*Rm-sOX>*>*|TvA-l7Iok*V2
S^E5D*v|;n&dvVJI!6;Nk{>+<W#<|8Fr%X+upn8sX)0f4C@;w{upqQ~NE=oS|$!-+EJB6u#byt3IbK#
;;kT`<fviPO-#ZuSWHPrv*ARGcbq$=)0`KxWsWZwzhgLG%MIDHKQ9LVCrtBTfLZ_3$|>>{0WQQ|fC0r
E{qVhs)QsV%M_DA@^jU5P^aF{?47a<iOIxbII0+oxSdVoTf<23k=h&V&DqWuRS&uk=oqd>VW=C_M*mc
!xL!k8>YobKqM0Wv#tV8d=Ea!9#H#TwAozwX3Z=2<y-0#+~QId+iYqGq|%=h?Zu^oi8%R%c1N?wVT;X
w-FT)`)e%x4enO%=oU)sPZ1RFCmyG;|0>x&!xAa6R}B)u&IMm`my$li)B~$gdiz)Uu#>0{tiWkX>R%O
vvs+k$%4R?#voFrRm-@TnnKhsSX**b2k?D9Ww=fg$MQrs7>Lk{KZNZrxi1ceV9<SEfcN(I<(c3?bQzh
&L>zB9lwKO07D$dE`F124uhD>}`+TG?Yb<dRV7StCWq4*xeVd)9RYDf?^CA)!1R99zoh8&x=;NCc#1^
*O0J@hFTQdNX6mxG1rBD)I)^t3Lh&gr{Q{iSd8xY3(ZTZpvb0XZV+-~-|y{Fy+!84^A4?ZrUcz=(Hs5
WmFkp0Bwiw=qVXo$h+q5<(LAktc&V@)U3PIXGsSP7yU$wPBV*=~AIB_zr8dPPMg4d-MvlpwKp2X95IU
E4HY3QD7)S7h=^QbR#zXn0%u`nGZVK!7=%%B&q<+BuY^m-pqa}vv;Wt0Fy$wq*g7v`=GlbDnG9HOPdF
qb*oirFP-XA5ke{maYrUFLzP00$7>5ZNzdNz7*_QGls&ar>t%Ppb0MUU!g&v;I*nbQDwg*)@s*r?s-i
atn`Ek%RQZ^;_f}&QY3rlfI89wPW?LHW=401tVeN0y@ToTLs5PrLCaBrw&9vwPxgl(aqvUlrQ+(S%3#
+ajg+BE5LL8#2Hn=Hk``gF+K?|ngO%}V<4O%cYpDo$gmaUXQK&u=4e`BQlz9F{4DBp!O@gsiYj@M?E4
2fW@cOQN~WRBI3A2HwJPe_cmOz$Ffm`f?U%2nE(E$-T4&%8^MGaBDNPj?!<uzTj(&N5@;iWV>km>9_J
)n-qS)VzUYDp}I9M$q22<bJFWFv#+eK2l+pwVlUpDC8=pdTj`AD#cl3oWKzW;jaa-Ci@H3MjabqMm4#
Xr=|OO3eTyHrGCLiEZ+$cUmAg0fHABpK{e*M$!HG>!71g0=;OH^)3gO=NL@nNbEpky_qd|14f=Kni)9
KTQ{$e+X-?OBCF06<jK1_<_-uN8=_0&WXUAPQ+~2J)jZ@n1O^%=m_Fv=d4W-ivG!OlB_TvWob}c;+6N
NX!(TX@|x$E#DZ9GZ8gYJvoSvFI#(8YdIXE){9FU1v~wR!063Y|UK?a~@n<=893U5;t(mDrUPo>B65c
Xv?#lm0kLlEg(7^{8QQs^d2#tBNZY--laL$5b0GU4+{2VwpI;%s4=;2Sp0n==uHhWm**s73RC*402(0
orJIF;=LGUFc8G9@2$Nam6h!35Ot#C;(M>X<g2eRmG`RAPYLIa6>?xu$M1<}&jLq_3oDFl#mGi_SiuS
YgO2EMoc$2=tL$FJ;7&L(Tqj?opxuPr#T7SLhuIU%xEh8NlF`4a9&=+8lX2--I~?J)cuNpF=zY2)zJg
9L&c$=N;QCATOz@e||J|WBMDLqFR2JGx??@;n`<`n;cI+K+z==;7?{$^spXj(eyPYimPBpvd3iO9;XK
qTZj>Y!)j=1X>@4d3enQ^6(U21(8AJD+bYaE8MscTg8YTJq>@^mH+BqjA90tslZgTZHA!ElVz<}SHT!
2Kr^8!diIfZk#cGzLn2#39LSWX%=yZ%{bxP&ms>YI(-#-W%SzHKR7kbb~~L9gjUonumc}QSc^K>Q)C=
ux1dPbr3EFwJUJM<AQ7`3OKv5jnC?af^jVix7Yp|Yqxe@1@&lQaJo<$l0|D}gd{c_?Dwb*_S^u2{kx>
*bu0$!Sa`EKcHeZljuE>p9dBx>Nx-+At`yhX+CX)&o82zmYlh^98q(z$D}hi^u#SA#9_vW8s3Ul}<l?
!G%wJ-RuAV;=>P4`lUJP!nh`juVqlkoKw!h~n9={qL#Y5#(JlN9{;ISmZzKh+jp5R&`EqVy=k3J;V8T
(=ODuXC7%J!_W^Ecu>*H9~Q$L100Z)lH~_ctjBSH?q5?S*_NnD2S<e<t6P9r+%k#g~p7q|gPpnP@f3P
sqnrBHv>$-@|#qEDA2?ZIKZ(nD<O^*I5qF6giye)E}AIN&wUUF@CJaXQ7Xo(s;$cQo3V2yQN<(4d6(C
6wDEg)P*CVQhSbsOP&nzmK59~Mrw%XZv#l@Ig%*-z>%5KR~$)}PH-e$I>?bIX$MEl(q@k2N$<uxUI&o
Yal8caRUAjDrR5yQbdmDo9ghb{R*qw`N$DKN>LJbI_$Jo(avbZDq~kcIk`%>pyslE}&vBebmoyy5mQ3
>FxP-Wp<8_E%H88vZ@j8y9z9F6ExDxS`9A_IAD>;ta8>I@4<7P<dLqp?6#`T8A9f+$rj(ZrTa*pG$Kq
@jgHZn?i2FC_QDU;)Pph8OKI37)wrgA(VaXrUz#abH4@p8n&Ilc<<V2-CF9>DSSi2HE-UBn5;Q9Y0@=
y}>AE^!<W1xlwmUWIrS$JZjhi{rRnBW>b%HR5k^Tta*;$LkP(lH(1Cmv9^xf~AEVS0ZlaxEk?Pjt3w<
ljCdywvpqZh{td|9PvnwM<E`{@fgH|IF7f&NNSEJBJRfVnTR)xV|X&+=Qy5@cs0lINQ-oW<9Ueh<9I&
epK!bc@pn01j`%u`uR?qk$JZjhoa5^e&*%8Nh+8?1cQr}r<JcgV-wy#J+_c8J?x~M%`)Lx46WpaSEW~
&v*c{|G;oL?IHru&PH*PZ%Y%XydA8wNjHa~NlD`Vx@Slfc7->Gd00FMi~$D?C;lL9stZnKTsgn~^vw|
Se}goDj}+~zrM69qO?xlJjzi2<8<ZZn_T=)oq2+nBgbI@nC$HdDBb8EkaiM$2vTz-9!u88p_>0D<KIZ
rORPqa^}M4Yzb3>u8d|vIDoQi*rhMdEF&IzPLnZ|5k55ptqlr>R>2ipArD7R{f5ppxs;Vb=)E{K0w2F
aAJk8-w|VND@|vvY+|80g4XX)SOZHRR@U!OtBTlE6CSxcb6sERS~?}b9vc8|h1KT^_qmkD2E5K5oF61
T!Lo=wQg3Z16>}4NpxztCq<8IO10uG`{_<W*FU1C6v&HZCwukBMQ`BJ(s6mT!fk^DJ!G#jgRu=!fI8b
Nb4dEATW-t5AC_JD67HUS~T+nrD?NxaFy0shL9SK@dng0?qzvNmz-RJ7Fqt-)T*7k1`K~SwyW9@`f4D
6b<@;&k(`5c?giB+fRN;S1X?5PPHk^oVNnq7{im#%EW=%cTxinrp{AJxWPj)?`Q`&OFvyWxg8+YR=U_
A4+xDBiyqhHzCVJzmSemK$-QHW{=-9oGu+B+%zN`#!wbl6n*3bmBlf8`bjoC+w)vegLO%yDU?TS?1?C
"%text.

(** Lines 3915 to 4064. *)
Definition DATA_25 : text := "Vux+Io^CIyu+Gq5+K$_5Y(JDYUQZfd=I5DKaE7YV3a&J$<{t!QD&Fn~Rd$DMn_-K5ovG0khI)0BO|wV
rFcj~!?yXhnyTHKVB;6TNfs?l7MaQgtit4Ss#092Z@B&kTs{r@rs9RCJ&5p04h`=rI&t{=}q6mIz<;x
T!+`Mf4`3yeT*?tjI%eL+~2dd)kK4OOdS3QvKQh|ia!IO)17|5fK1|Rq6?OJGdbY4oE5l}UvYTGD40}
u_c4a5n5Tthg7^TzW0^>cFgF7gt?FF1o;TZl%-XZP{dtM=(t`$2K!v9~%tMW$^$lNvJtW$n(h3j~22n
}OF;PJld%m-Fn~W*K$VDWi5X-U=mUV}{N1#r%S76WO)B)<^G@>bIX)B^Zp)E9m*;D*P8p_!|jOm9F+;
FHPcZ^B5f;ihZHP#X9%L?`AW=dif2^wgq?dK|k)Iy?ou;hWd~5Ao2y=>`8<Qb_HmfZn%PtmDxpL(K{@
^{Jyi2hFEZ$V~Cagzu1FKIN(0tX<{M~-vE&I#NwF%sDPmMGM8}fk}SO?T*74+5hh%Eym=Vzq5vh?u9Q
|SZ^4znsdOm41*gJ)U`tM{-fTOX^m<Ev^m7t4xcFxG@0N`f+wXvMmlG56uUT~WwMfd|_P}_YC<$sq$P
KQTB*V_MBmkQ_^hs|PX`?%vGCeo<CQLyJMeHw#awnuh_2hQ@c6O0`lXNd!6i%!WdiykU;i5=_?+<v1B
}ZeK``P;)?+@V0BY%IuODg@gg={KZluXzK;`hvLK^94IR|~fGgcxb$x2=lq+Y%)%b$wb(PHc(z%hsJL
(ppVRws^YM$({W5`~S~RrC^|)fEocu2xt^AS-^P$J}%%p0`3y<lz{aD`ltn60mB815pbq}_Y3&EfNu!
6LBPWT{vcq3fL^{Fb`x-ffHMWm6fj@FX9avmz)u7`E8qnI-P&{5S-?;M?+{Qg;4A^t1$;=r5&@qT@O=
Td2)IYUlLG!Cpt6IIN5Cin#|k)A!21Nu7O+Ubasl5EaEpLd0{$dmgMdmu4m%3iTfis*jRMXTaJGQi0_
F=?F5p@L-xqMJfQJQ?e~+k}np^vA>Vl6q5i&BLL%&x!Oikmk`7ihjZoew1W%rhTE5G)gh7eWd+3-av6
eQ|*?p7V4V07{$Ih+H3xd5k;sbnk}K%xW<**uusL5w8ML3<jRKnx_7Oe8vH8=GT^%geAPT5{%?a)D45
P@6+?h=rKoZy-q}nFP0WT8NEg6D!F8A10!K&jNqwPs8Z8C0-0ph1e#NDe&j)M|Oo_CB!~~jBCXeRCfr
SK(x$POMWJUJmDk){?KLs_|XDaR`8ic%m6j;<-q?okOTQlU@;m2L#a}kT^ggA#r&p&M7e;a!2h|7%50
E#0obGh4GXwtleu8Z1|KN>JVv3B7P@CJmlOz>K^_wRa=_jTQbVSX{!-!pIn3Q8;?zKFHbx)aH4twOix
u6>@R#Wb!6^;|7Xy=$Q_TX~TxLd}4**@xJIaOJSy)Uquth&PAi0Lo%Vhq!WGO6WIh_VD*)T0Lz>f)d)
{sy#2y8QfT3?oWSQ6$qcydn9lonGeoAHPxXb#IA3**JoB&3e<lmKBfn4Hb?dx#^yvmu0)m5pqcT5~~G
4a8uEuyaKIa_X4?xwLXlahEKo6m>3p&hZVtMftih-%U>G9t(7)iu|!STzE?7u++o4_3tPj&C@O1A&1P
9oPI4yklIRm41sn<rek9{JX@sd%~Au?0{L{NDbpMFPv+-*Ch5)VT}$!Z@lV8ur8f1SjBltTJ~PWPq&p
A%TOgE;(P*hA$#t`lqD(LHpWr`<Q8ke~#`z#ovbYIzPR_*}`5#P%-!#8-AU2cWnAh(d;f}51JXR`AH<
Tr3`c2Cda)lJ<Fb-3l%1&$jM00w>Zb2_gw1OF|CR!NvR7V@}K&$b{^#7Ui(=?`3mi{Ttq>$-1)>BOD9
9B+3S$mt#`X+1%OpY|?rKI)x8t#;Tx6d#7;AIr^G>e(7E%F=glz+ERKL!4u3qEAZxh>?VOuw<cPh)w+
Ya8#e%wW!76f~@NGcy|tGt1oYFsV1Bk&BF+<NBCV7}wTvv!^h}2(uir?k8?m3v;<J`wDZoFt-=x>Kbn
DAk6u~93aeUVGb1L3W=LL3v;3{caiD+$jw1={KDK#nDxTkU5@VuZq~^033Cr&)|}<$JUKmtd4U|?cij
At%%3n{73NLCOoe%sFek9OZ((`~>Km9B(^(%Uw|cQ84E{8b(@ix>BVe;3B$g7+g_l#l4P<|ycSBwy^|
{Pvme4mi1*G=?D*^N2|2tW@=CQ;%YIzSvKd}k55svf<g-|wD%ldM2wk<Og&^Gu_f#txp4Qb<|c8iOPb
I0G%aG-@AHBpH(J(Ofvc=(J&4@hVYD`Lvz^kn!!f}8W;rvx9wgD90sEP_hnp(KC(@Ta-qFVyjOquY&t
ddQiZ{S~$F*VIRW)1Trt|D3}wb^3F;%|AJ;=D(f%{|kOM=4twWx&$a1|8Do!qy#7$|6FeKudxLDPycQ
uKmPf_pR>u??Y2c0ayK>KuDp$MH@Cq%${K(91xpKyiXVBjq;#2mdD)7`%2z)A#FI}w{kK)mJp0`0HP6
4W_QjW8UiZqYudRRmjW^$V`<=hP``-H>eE89Zjhi-a`S_E6Y~5C|eaFsSyZ7wfxBtMw%0q{bR2@Bb{K
Ti9eSY$bQ(vC`>g#W+zdiHa+3$b&QL6c=_T10EoUi-!x8E;ZtiRN7`N|(xuU)4^;o|D%-o``e>E-Ryw
w+4t+rERJf5%P%ft|Yqb?w$&)1zmv;E>*ZLi_d$>px)Npzy&%A|i+0F)V8Mi0F}{?i?MHGJ8&{DQ#|g
#{CauW@YD?AGG9JZS&^mEqLgjS@+(Tl-#=e!wVNJUh?0T|Gypo|2X}%V`6o2W5?+Y@#BpN6DB53nmlF
dwCOWu-gP%m|JL3ASEN6#2YEZyhpu3Db22~O%v=U$XI)}NGxKB3%;n9@E1Q`gZ)Sd?nfXJPrsj{DnQ>
VYb?OTEa5-q4NuFz*k&&I6Gk=OT#hQ_mjrP-WO_qtX?>Eh{8nV-JELqH9hM)uP#*|#Ec8)b;o+&ZMY%
@FTxg94*5`c2bT+^7GJRWiynF2cBWHy5|kmx|mG!o}uoBaGo@(c1op>usC|B<Ene(vs|(G?dLL&ArL=
O^ZufOZzzCn|A9KIm(p)Fme3E)q>>en~!rBB0i#r>85G9(iW-e6#rmeNGR5BS5o6-7=TW)bd}d`0Gz_
?v4Lx95xHYA7S=`nEfDO17icQ!=F|_{OQ<em(O3~NLKz$0PS{O3-%MmT%2q>1)y2Xb2<CevJst)&4u7
Eo@vDk9CYHvc$+x<o7t>srZ6WkeSQw~;ruri{LW@`fsJ}Tr<1}oZrPU0Bl9owEAuJyCG#Wm!Q)%t;6s
jIj#rKc>7=lk7z-PhH}Wx-ao=c%Gj!-Hx0$~gY-E|uX6l?>rh;#0y973tZuBvQ@#$<%VRG?!<@jX!GC
i4&93IM*eneK*h+Id3N`+s4O#=Khh%A5~Pyd8Lsi}jwArXp;RumbXX^tstw#iW-CgjX(VxBn1nuEqEC
bLy`(AwtOa)H@+TPC9yZ_8#GuQgjTFb@(^EOQ+BY?^JcrC1yZ7N3&Mj1Vuzh4hg&(nNYl3&JlzT1W@O
V;C|e#cH#prZ75VEg1rXbV;{aavdf}FH>r^$;o1>jhhm3vYF)+n}8`+q=Vrx4EjSq=+46ZyStlPboXp
!W&(V;eiMu`r&v=mH71KC$D+x|)?}vGvgf3mEF&}_xomK3VWk@VWn`LCHP#$Wj@gv0G3A-&*sLkDGv%
5&EgKE!o(2u2CM8>wVg`??5C(G%8qk5w{8>yXshTuPP8NjVWO~Vy2biBZvw<H+Gp%{hX0j~E$eyc7V~
pJ3o@=sNot#OoH5J53wV5+B=5Qaf3;%(8j?LP-2XKc(Y2Ce1jyWKR)ub`=UPoigMK=0`<o0QnZgWjmN
VW{CW=>A3Nt2T%hv4)EvN^@Zb}lZ@3>_5@$x{@<Wo4xR2C0fsfOvfdLO%3CEH~XWI|VE=GqOcO-$2J?
$;!x1VTlBy1M>qOwB-QfkcLj#c~fFo?w!c+@bfdQ>6nzc))b4A^=*=EOdlqt@Y90)GXK1sI@7u#y;4m
qiJkq3Y?(H7?0~42)3;BrKAIFE1?En(7;g06qYucKnVB=6<#(?evZ0lHY&}g{$#=_KTb3!?nyU#l&4Z
ekk)|<anXL=@-a5Y7CXHN3Q-IMqSWM+Y#1bXTl$9fz(4Hg&dX=7_8-%dg;HG9mCQs2#IsGE-o0I4}Zg
YkGwF$=JJ~)ty9We{_s@z%AA#)bY0^JK0tlU|-8Cm8`Q<B`C%*wkXa@J&1rYR-YG%MC<n8KWm!gZiIb
vC)ZAI7O@<3idDaY^*;pd=kqeMpB$Z_;71s;X^;w|P}xJ_q|!AR)Wq%m0FhI{^6CPG&(PT;Z)C-VnLM
&x`m)s)*kZbzQq^pDM2krP(97O(OF*8R81`B7wWSNuU*AswWAIRFc5S{#6(s^0ZciH+&QFtf223<W7R
d1XOf1`zQN_6C(RdhBmHSPbWUQ`jD<xZ_+i@i*%jpNxA~vu0sN=J5~8t_^RB9D$;|fhH$wsd>J&_e}n
HsIlP~e_@%-()dTo%gZ!I){n~Il2#aPp?0X@gCx<kKZHfL1y$N}}ccULqFE`>9=}EjMw{iHfLethEl#
s(;aH#NcAwCLUqR{vdO{y=^OjQ$2WILj<1l4t}4yfu_;b&F^`H-Mg6$zT!js!&lJ~^PSW3^vZ`wHM!)
rP1bO;sSfYH}klk3%c*{vblm30?vRLi(icf;8Gmx+=Dkb`?Hm??li|77<eIE~f?LBc!7r(DIwCHY?l|
#0~S;!-aS#p5x_5{+Rr2nEbv$UYtMRJIK<=o6Jj}I|vy%j1Z4gf|mi_q)X}~(q(EQ=@L1SbWy|;9)k0
O2LlvA-XzEx05W$1x*bW7qCN4i?oj1h0d82HtWb_1p8_H80)dafA(-bar$zQ?Le7kCObb>Xtv(PQ%4D
P$mc=@xESLX&S_lJQnBe!<7(yNe^F6|>@K+LlD}1RQ#2@1JAL3i#d!wDBe9w&~<Q4el$>CZ25I3ZE;8
aI_s8DoLl1{*Xr>Ov;Y;_va!R)BFUA#yas~XZx1!>lfba|YmSfV1piv&PD4w&jq0zj64$vh<$L7pV&C
6KGyw@Ovf*6fq)9qtAB?Td84e;26tU50e3<7ujLq*ecEgxm+;lQOUBHbiapAZn0FJ;bL%;psv=hq#9;
0+bLhe31SD;1)2%&&<*Q=z{FkyhZU!mg!!D0mGowM!LSfZHO=M>pP^WzsI00{s6wmz7+AZJoSb=^<sI
dV0Eeu@fy;`?CXTfd3Oh>iZSrLE#jF5_(J#&$?<k@gEr5DbQq#?ggKo9b=BM$rVHSc&5dDroJtmtC)S
BEjcw8}P`>YnukI9wieN7i92rQ0f9qTqP~EZ0ucE!#H(8y?dG#V*md3VV(L>Po!Pj1vm6eOOP%fZsP8
DU-;$P7`&S#*GtXafygub1;pxm^BGSilHn%tpIPJP+`;3b4?gYTX%oy)&dTReo90@?pd`Glkw5VAn#3
+rq*s8f%7S9?}@RJfbnl3f#B!m+OE(d`az5)%2KYltGvwP_E)>$9c{#Cemlk?|NI&pmeQvJqWQ$ddBL
vJn{WO}a;>lJ1JTNlWqWbGdoEM^_W#zNRtWz(Jm*oAo2oE%igvE%F1>P4O;K3tDDqBY7TrILaH+cxNr
pc#)9xa#~@ZXK@J+?5>15qb6!gBUeZ#N>2Zq^oM@0KwtApBTZk?-^%VwUMJ)!_;$+a&_hYuPgRlj&@Q
yMu$Da;;|iDCja|@YSfR~GZ433@2ip$OZomiaPXNRZ^_R69JWXGPG+o_dnpU}qItlgO(f%`eKn`gC0#
hCBakb3v;!mJ&gzxJn<*yz1g|ZI(KpC%gZhzPOgOFYDT^9azfPcRg<UHM29u@x3#zOk~zu(T>HrXe!N
jqVIcA{n7pbm8dg}V!Jk5mvvdpAh4wxs>z-iZoN1@RP$6zlieV?Wh4uDi88q?<3)Ej8&7+wO6%I%Rd6
Dz^$3ksf+S8|4detBLBEw;93>?JnBtPLL-ZBHCG+hYNRvQ$e_PMD;%K+|Grx8{!qN@N&U27OrTI`RWB
c0vy8gRne@ElhdO)WHKz3<7mvQ!2T|zv!ayq0C^c00{x6N68MZDofP3j)(P-{qoTVH>2CEU-BZ<2CRC
(*W8a<_IHWDnSZ$!QSV3n2tvAv_G>UA(wJ%O1*;ViXZC9R8<I+JM?&qwAHnUx$-Q!@FcZRh5`)l7ZgM
aNi=J3C@@3_0dc{^^IVw}ku%ZG$U7!l4Oi`}M}oae{mb7u27bF!YqvY8HfdL7c1g|=BNFg%qhD&1$KW
LU@MSf;?RIMXD;W`WOalLbP@=49vQWSU~FmdrR9&RQWwh&DGjV{W#fFg2$!O7a87fDFgNfZnl(xU&n`
Cgh~rGEHMMGEEawvVd{&n(HK-BWjWN4A%r(rZr>C0;_3i&WwyyQ*3&Qg*+uBa`*%N_yMFn#hR*z6v0_
3rHfb@h{Gu|=)W<2oP^;1EaV)~iK!x!2s)X>X6EF|rtxu;C&U>eh73&2%!E<8Vv5xQ{|qzmAgpnQHqp
QwK6lZZQp{s5CW!es!?ieYC%=)nY^%u<Yss)e6q!?iS6tK}(XK{Q$~@Bz_GT`H1@d6(0yC!0@@6@$C5
PSQxtzw7J>xblJDo9{8kaZ6WJYR`#8#Z1{QxCz)!D_>kgGGzw#}VuvLsqextO)R-6mTzr)OBKwv^0i+
4D29L3i$scE+5X2W;lCF!)CbAR10W1fWZ7irH$jU@5Vh@~k8T?Re0*JW}go$Ob`EGBX}(F0wW|b&5G7
J2uA#@%{p-g)=~jIT@I0<RH!pJDI;^DciK1Lrumsn{Kk?GSjEb4=*23J6*)Ok~THf!cwYRV;ST*3~3z
cJ_ER7Ws)q!)Z#9jDRKpK0NpT0$o)KrQXp~6$i@tE47kiRS#QY93b!elCX<=$be(KUNoB-|6{#aCi$n
r%tP@b0=PIx)#bwXSu;gUpED|phP<b`(ay6Km<ER_tTUOs%@J{YljLpo&1WL)YnaDk8nj)L-LK7>r`N
)@3Z8_-FLQGA^8D9gGftl!^7i{u6ueFIL3(Jb^IXt;Qq-Rm0sTp$~5b3w~#?}Ui<+F5LkZUz%P0awAb
6E-lMjjKj8!cuKt*bF71xo&GONwOy$a9M2?_?8aV=b>8yjFwu@V=875*1SXUf|i5n~ucB*wWIVn1Bwz
d?jM`k!-}Z81_!&XkuIf;yzF-AdNCoS^JeT*F>Jg6mn``QqUZiojNg%=j<ex#uZHD5Jq;qv_hFDB!ZV
P!PyKl$kiB|0FEr1W{|&rxBTVn`MH+n<|eyB)Z~^w)bSO!^wreA%PoEV_517h*Y9ROxy}uF>6-!1gb{
M+Ud^$z6O=l;;~jW%eRCBM_pspJXnYC{PZZ-DE4Xh259{N;5v72h0(uEIZzs2oA}m6cpsN;kxKF#i_|
U$GupcVST49bA=0p)@vap{b;0!_kE)jR8u+Jj6bCIyU3AjhwB6w{h{O1dv3j|y$+zW+!k)VV3RpXB1=
Y{!2!OuDo-)q8tqu}qbaQ|Gm2YB$bkkgEcU;d3pC;p|s=56h*+TMS)|34f4-%bC|hX3pLfAe>%{jo01
ey-vthhOyzKQ~b#AgSZf<u`G@f;P6D`19G%?f+Hq-}_Uy`s41JR)7C?*8U^E)_41G_ttj{{df8PSN{H
AF9Xef|Hq4jxvv<Hxwx?{uK50Y^3nxMdkFVezv1x3S2!$qp_&~Ti&>n{;Ck@C{pC|HYg(aSaGk>#0YA
D;|5^bzfd3;eoqee@`Tiy8rF&YZzxYLlO#+2;(y9ASX-Lwk`%ewI(f{$2UsqoyWbk4h@;bD~u}<!JS9
v>X70@hTrhw@JrV5xW;7kD%1=I@|C19w4K?14;^bt@gpqqe1z^i|7*dX8q0qX=jC!i$YSplmBJSpHl0
Y4G&!#|qRe@no10<IRYT)+|m^8`#6Fj>G^0wxL=C19w4o^DNbCXKKU5Kt|kQa~cheMQJCV6}i%0#*pP
Uchnz^94*7Fj>Hv0wxNm7cfS^C;`I-3>8o#V1R&X0hIzaTo(KZSS4V^<)-xC73Q@9mJ66CV7h>b0!9h
gU%+4i)dETlB0d5CQ+nyTflcRi{<pc`GA$xn2`}`u@(UuJ>qWka_{@WwhI12oojlhxP<%4|x*;5%js4
faCE|BM(3N8UIj9hPHcx}=Vth%)ySKSn^4<0ipZbAsm$!mg0e%VJhk&03co+unb%0j^jP3w!j+cUr1e
gq8q>qBZ$^L|#06$X!eiZ=iCD>O3{3(F@!2{Rb;j2(6hz8&_ylNjO7dyikzca2ULA(IpgD)NEd<gKOu
x|kPP8ZJ4rY`JGA7+nmTM(yT0kBtBZXXPAn!xd`6qjxw9^h^OqczYr06r4ncko34eiontI?_5<@B?s2
Pv8OUBLP0!lk>A0;N)N^Z(u(a;9K|sj_|$^sMmle13U%aS-?*NoZg#|qBaUL6X4d~IO`330vr|!?H1r
s0OLbB|3-jM_a$U1*yCP_r^2AEMjW6G3P2v<c>s?LBIHTHPXg>U82Smog8@z(%<0SoxEH?DV80LG4}-
Z};n2k<4&i<fngxz<!w{ZURRAx**MP6pL_j)4V8wy_0@wpSH^9RI4u($&cqG7O5uDC)fW0HRyrBS7B0
0@efDZ}$Nr0aV{3Jl{p^zp(#|L2CP##tf@RGnA06sblSHK|M0RAwHhxLmh<iQcpCxE>b;KmW63;_In1
ov|R;GR*S4}hP20LR`5eIwv{fCmL$32@SAj!y-69lo`AKYt7%3u1VATL^Gp45x|kLoJw*AAq_sVDGMA
@ZcC;2F?OJ0E$Ww*jEBn>$ofk>)~4n_6-1I#sdF<BfM`c&!c33KaYcY1@?6SSL%7Z?*e?*0A&E|R|DJ
-&*^Le=x&7a0Jsw1-3grMSpb(zh4KmZ`2e4r2K5@l0^Bi;r`0Zi<EL}~Mu1&sK;DBN4Zs=jxna2l_&R
((fWHM$I}_@xC&&x1ZZ^~frGmjn=5RVC0OzJc9}ND}0S246><E9v)k44}fZfx$TpEBWX`G)_fC~kV(3
sBC6XC)PUY-$-e}LCPBfv44p#K3)9l)q8NH-4!gXSzAFT(W#{}A98S)Bf9fGe|s4%j~lFd&EfK{zsp^
M)|T4C#h+0RCzg<qF_y4?-OQ`)~`CL-^bvUMs*L7)k^Kj_?=wMgm?3u;;@(e}e&zSjhPt3Gl>1(Kaq3
WX>W{UjP;?;`T)VUxP0X{I3VNTi7=M?3WMiAkqQ2B%g=HgK^6WpnQV;a)2)vaR2K7o+{un)&X3#6!-@
}2-g;YZV5QTkYY|J6yPO+`#l2m9})BcRy-o=8o(zW<@x?3zzZuN9icoRJpLHS4)_UxZ<a&*3HVz8e=8
Sh2yo|fy!`9}c-Lyq+bn>i*8okhj{*3^8qsb5{Cy3N_X5ED=Xu#cXkH7t9Qa4r??q^@pnUcR_z8T$fF
m5d4)ij>BLTL573v+}egH?l%4uf4M#%T;xhxXE(XaD(V*q{xUmp111aRY<kamDq0gQVa`~#i{@Ts?XT
&n<nBk*c~o!;Se0sv;b!|PEdz&3y9^+*YD_7><b08a(z`!Scx58zh#l+e#s0F3;E^NH{a_yWM*?H@pI
8^{8<2H?~k(2fC)FklxU%K=B&e-|%%2+MYHe#!xQ@8<ou2H>VW&{hDB@R7YxegH24xN$F!cN4&}eZU*
omm}QA?GbwJ=Xe0X2jM%7egJ;GAD;_?bO889CGY_FTL8x#0{$SKbpT&F40=1@>j3sV0{s)<!2sJIhdK
hdAHe+My#GbG>;$)84zSB-koSNG0bBrI5#Z$jV?KvG0z465r;|{=0S^cGJ$&mie*yOT0_4TG0FM2F^N
;5a@QlJP&`A*DKL2n?D};xIJ;HMWM~Hjg5l0v%aD-C?j(f`I2^`^*0!R3^z!B~fIPOW71de--aqlqV2
yuTe@`G@Jut)fqz!9z&IKrI*NBFhC5ndKJLch}-$Gw-40{`px|MricX?JDogP@Y;w<BzAEg#niOZak{
lRpnOE?EoqIIh|R5W`ggM0W`wt}BA4d>o_%0K~P!a7A-E3U<Oz--11x6KKI6e|b*D)!DwJ75i1K*spK
Jep4&<`&zL-*^0f?f<4Z&;Da1W3$#g)cxT0B0(DmCe-(}9fO$}#m5t_##h_ccH=09>z&)hVT=hDb)s5
!7E#Tj+(OkV%!On!sX8kq=x!Wl|$aA70Oa%rmoo_g}@i%bbKr(LJIM5eokc^BBVzb$JMu8%d58tX)tH
^7wy+$@~-b^YgD#+)be@?DnzfQ!`N<Q<9FNUJYhdfr9??Y63=g&XFj7RACtNA`x=g(ib5Ivlyl~<3@%
1hw9w+`pwz#YPZdH#GfOGhdzE18)Mi<R)-d3rUCxzAr%r#uIN=^kO8e?-}U;nUKta`O`OUwI@g?Z{qX
zRKM*!Tu_mf&SGa{7qNzvxL*<=FCgXe`V#7J>23FqyG)Y&&?1&rS>D0$Qsxoe^-xO{sv6-=+5|GdUaX
l)yjILf#&OzXBoi5)l8rdX7^9_`}JL2c?3jA!}L*}e7m5-c|He#59lbb6%X+>RvrN#%Q3l>S6_d2a1{
5z%ngT*tn2w!CG(3P*q_smqzw?9tyu&AhhLsr*>Lqpeg*S?gwku%wl!R3&gdV~w`O$%WzH=9k%YvZ(L
cK`{3Lf~^cip5nJ7!dk2{mA-7A(<yXKFEBGBFGbA?ZlPk2Mq%BK+ioWqT7<wMn&<`V^cuJC!lr-H9L#
d59|W&Kv=JTfwpBqSt|DO0A9haP&UNf|FMFDGxj@do+u!w*>*|Ln8R$oJoW?<nVH+#c{Qw4v{A^uU~W
*!(cvkhYC1*>-+g+5<Uc31m^)HcFRlt4)HE@W7H^E+%aNWXbd2-$UsiX^ZxMKW*ByZE42HHvuL+5dYv
rN<T`Xi%a`#yJuPwSwdgl_R%z?w|NE9Uqb26moB|aSSg0_#^UbXsoJAEC9dKlH~C~g9^zB+biy=>Vd-
@9+tNZpLP%Ix7zqy#C!<D<B3iAM7z_rMc9SMeBGac&CwJX-7rFP|d&%O|v1IPtx#a%)?<ZMVS;S(ou=
ZooqDACI+i3FUL!-zCi=#>5+&HrQfmrfnj+Q)Ui6I{sj39648_2T-v&qI)X0qq8@uceI2T15vO8W1hW
bhtJM(?6z=mAPb9;Rg0AxdITP%{1$C6m6PBp1GEXDGSnM@r^YQ!@J;B?Scqq_nh@tX#R0{OxalBhNhZ
3|YN;HCelMEqUdYS6KeO`|i8sqmMpfZP_QEd_s=ze3vZ!m6DI@DA~PxH`%{`KRI;h5IK7EC^>QB1UYr
;6#43_ugG~&JdgiI$+zEr%gRMfO%1tl{wMO?WlHMm>d2)_msnZBpUWWV9};1FfMZP<BY8o&@rKIY4l1
yQwkM<LU~&(gL>ABo$tt>%d_><PC+JbRJtck+z9)nahw!5yyb;3R1>xsH_&n-MmO=Q{5dIwqUjgBdLH
M&y;d?{)7zlqigttQY6%hV)2)_fuABFHIA^g`6{yPX?1L4m@_<E=CgL;DwuZ6OH4~*@sguDx5!6Ptks
@n;b@R%>5CkGSy)g(gCK1k?KD+#T8kI;Ij@O}`!Cxj1&@OMJ^1PBkb>R{YY7eM%B5Pl7W|2u@=4&jeM
`0t&<gYuCGRoRShNO(ecF9`30XHg)$rahr|Likw_{vineHweE0!k=&oPuh`0(h2Hp4^mFTpxWL+jzGz
;BL+f!?<RDxnb1j(5c=S1LRY>|=zIGJJ^GDPcnyTV1Hv02{A>uH2jN#h_;nEe0|>tr!taIf5a-I%5dM
1zU*`zlA1I6m3K>A*QK0Y&P}l_&z6A<(zLfknn34;VD5-ytl1nQox%?g_e;lQb@LeGM00=)C!cT_qb0
GXY2wwu>pMmhNLii6M{0<0z1j3(&@U>3il_CZFA$%7I-vh$;hVcC%{GAYfCWL<w!Y_yLuR{235dM@?_
@=)k{&Tj9jUA&Mqt!9o*e^6BxM$Da;~cKqG4Te2P8T0LdbC!TG$6E3pOD~j<9f*ybOvySe+EEwx}>na
"%text.

(** Lines 4065 to 4214. *)
Definition DATA_26 : text := "=waMAjc|`oh>eRM4dmluwWG&qllr5FkdU4|gu5XjMjNk<)x|=1<ZEF6u&_Im8kvkwh?jq3y99Jf8aR+
s2=3WK(`y`t2m0~xhSBj!T{{E@fID~y6&`vgLHN;H3>+Ju)TKj*K<>_X4DP7`CJheyN&bEvI*cF1JcK
b1Jv10TR)?-ybocAfb-ZBB*bifX@JXY!2@~Su<KmM#BZ0txPMtdX`1k}FF$Q!`U_YSWxrv7)Oa^q1jY
}}Z$0x)kbZ_DT-23!n^v5LV;^Pu@31ho;_7@(|y>I9MBjNO8Srl@rC5=Q6BK;Ws!O;nj#0hcn2}}qUg
Pi`rf0Ax+46+apG&+wR+o3}T@ZfMyx}!}}%%C`kU;?;z8#|V<5ae)=Rk^F8+J(o(>k=T9$988zbR8>-
$LJAS?GRU$d-&+2gro#RoZ!-NQ<EV!a!l+XH-*;(;ecsn&}kj+Ny7)JJ=-W0zIxygSxkr@4F##uT{~=
Oc!Z~`vb_NuW5+;Qj*N_rZFEmc8l#;U-Oj`P4nSj*kh($F7=KbMdYKsA*2N<R-D5{Xag8U9?wCGMz+$
|8+f7W0O&A>wWsMML`uwL?`wmagLOL3poRPkcIfMPMh}dXDQ)ga&fW8h2q9JbRh-S`C^dV^s+7Zp1Nq
o~^LNjMdE0#2<@<&&LB2n?L(dU-5@U^JR<&)9P^tqesDY8B{dGchYk1RHgbLbwg<=sh2GUCW8ODy?tX
&ia?*~MhoKF}$kozs6#$@DW^XUGHi^wUq1=bn3xtXZ>$y!hgaWZk-TOjr2egAbTKxMj;0rYn3}@fvv!
^o@5xSJ<^{7dd?RFw+grp81BHIdg`bJ$sha*4C19=gyJeem&20gNqk0l55wlk(HMyc@NA-|8Qz&2lar
CZWwfQP%q2pKu5O#I=aW8qkEP3(htdCx|K|#`^bazI9W+gllSQN(0|uCg@+C?5k~Z8=xodTL-;!&d<=
w-hw%46_y-~UqY!=#gnu8x?}zY>{oG%A%3pfQ|5ZIjzURAh=gvJ42C|F5I|qae8Z@XMVw%pK13LHU*I
nJNT{kFafjvV*Li&UZ@>Q$)wgq$N9=-bX0l&WL?t{Vxg^{41{Xz$I^%~?09@@2S+byU^Na!GMuh4G7L
Zb=oH%O`U3576y+qY}mIiOR&LEcKGm#4eCPhXX)vs;_a{knQ9z0hKiy1T!J!lUOP{B`woNBSKDTsnZs
yO)=zXBgD49wA*^gTNJnbOkfS9~R`-r&rjZL1B2a7R28#EG#%ItVbA=F9?3Pr>{p3W+Y2gxGqKb0RUI
h`sNFTlOObt8~eNS`5`>tp3J;xZraY?#!o(i(8lR=7qR{)e*esbH}Z>H{{6dm?~aLzA6^;P+tbq%S{C
-)C|(DTSI9$4!Hx~cDgLkexeB^Ix9K0#6}v|){+btFcwq+gJ0G7vfBuJGe);7`=zGrm{PWM>1N`Q~g$
w6lTzdBO>C^A+-MiPWP$<GijvP5i$P^&x;1LQ;hd+~knAg}bx9{D%cQ1gLR_$&xY`{JD+%x(P_yOMK^
Uptj493xP+qP}=#~**B(4W%JKKl$OsOUG}d_!UUP0<}>pwQ2LB}q~Z$olQEW5=G~zJ2?WF=NKy&IZgU
JTlUW@FN|_3+Ahr_z;(mu;5XVuIM)_D=VU*q2UU_X7Kj;4}|nS0(CGFX$%`StT*xpd@=qH95_HXZ{AF
SKe}ntCdT*o-+xbk_~8dyRaHfg9zDwZVHnU6(EcohdEveH-dnVB<Hkjxvc(k^7EUyq&AJsURwRO6jlA
J;matBpIz^P0mfk&N$Pi4s0G&=3igf=h|G)qKI|W^4Wv^bnhC&*y`01ygXhlVZBb|>NIYPhq;tR$n<P
YN=@#^Yo`sJ5jGBe5~f1vX)2xacVufP7<0OjrvpebFsa)ti(+i$;r`st^ezx(dHZy>JA=nv$40_xjP;
9&)Z{j>aoK80~PKIC8iPzL$KJdr=-UzS70<*&Ic@&`OSKFD*&=WLJPKg0jdojaF9KK6t%QG_z=*s+80
kLBaksZ%TuzWw%FW=0;dPCy-I@c8lL?8CZ&`GFAg4eJhuIe73O;~(=7>OaMNxPD#UWyXJC{sZi<qC3>
#A%BMd`uchb-4HAPQBhI7u^i)v{2w}Wh<^O>#}x9Mg3iq9Fs47|$Nv5M*@wLE+qaL^m6In=G8|>VHUP
^T))UMl<ZZ(*l$uUaI{GlBk^3nfw42hf?UW9zpmg#9O5gaN(u?)=$DytS-I8-B{<m)3x-vL8cqr)bE1
<o^{9rO5znJEjt|$-Y1@ewK=Ka@Sf6YF`G0ic(kzXtaC=2q9>5qB*(m6_XpHUifjMC^Mln$$;G-4mfu
#3`uAVcqeP}*|~r7KQTdiCnn)qjS6XzLvx@-KgKUdZ1+Q%|rSV0oGGHKpTDQX2ayq(904d2q);N{4_9
*`HHdf0fd-qm+hkbu3NX7XOznUBa@wJR%~ZCzORElmYVL23e37EJw&=OLAbkW13?gVY$KbkL@mu*%(6
;f&cMeav8>)p!81Qbp*&T6v~bHB<DZlIHkd#i2awh$v^ZNRBr#V{6l|4@oSzZayiFz#k|0Bg=IsQ1M4
`JGc5O5FJy@I0)JD!rE~(w5D(>l?B`sDQB{-<Kg4AShq};z2c@Cg{yhKC7OxBm2^k9cumbBDwk<8mfn
~k5@`dS-?$|G2IBaK}f78!G9Yq<wqSOE~#DNU&{!DM@_bYtQw#NVE%a<wiGfh5}LH=YpTFR4_<oM%{K
j_iTYv?Nr<LR>xj;2rN#4slA{(;hI-%&cLn$iT6;R{ipq0Eew>+^nIpRrBqy_MJJ0iW<X4J~d<@9HxC
A)l8=Mn?98_PhxB$8yqK4lMUruA9pt%YtPc%h5NLAJW(6kEAc#M$zYU?_@II@7@|p?-DX3enY7dc+!9
2RG(1>QJ)85n*?oY2((E(K!)y{c-soUf|mI2*|Vpk{6im){rnC2f%O;r1353SKA>5a0r`h^k5>FGmA<
)PBz<-MDEbn}um)tnUkbFJvp|NKz{k`xTn4#5qYQF=#x`m2UP$+yl=ej#ApJF)q5kh<WDd8)KeYF({6
k$^f%*{EIav-_7L)<|gVxFx@{jH0M+I8?&co644Upj#kl{ru=Rfy6rOCA*gGA|!?|FU3HYxtg#`=sh$
n_azkn1zHNueJzGMAe3kM#`u7tpgDAIczq&E;sRj>xj$Z{w2T^!<e+=sOQZ)7SGrhIymt#k!y9=U2E4
Ng%^LKY|QS^*LVDXYFy`CPf|M{j=OA^#K`recWQZ#P|pOe)-U$LwkabQiS|tyND3W49b8yk1Pw?VP7l
jW$1?eE$R&T+mb(=Zdg2=z6UbA4Kl0;89sR?hh8{eb6br~4ak`Vc@ibpXQ5;C+1fJy*j~uxf5eCpy)i
H359=%Pjl3c6vMkv4V|$O|8f-VQufo0!e_NME(aj*kM~g?$cNa#}w?KyG_4z4ilU8PF>GB80(2|T;S~
xeBE=ko<yX|iJ_2*Sg24@{(pwKZ|;~(04R{nvX705U8g%Ei{zOg<a-*TQ{8}F<iWB-dXV)@@$awq)<$
gl}y_;3-(0CfTDGs^Iikl`62LpjQD{}}pcI>?Zwql;7Hm<;&CHfe;Djxlt1%jF;24D7>DkHByJ`t|h9
H{YbF7s;P<p4_aST)TFSRz06Ww-*khpA>)$P!~P`8U8NnGqy=D+U}%lEO*jX=F#-Y>=^o3rk2`4hDSh
#r69v1kO6<qb&UItx7_|9|4<fK`G;~{gt9#H$RqTvx87p%+>RWwEErZg`T^ZhG>le&3?G9GtUiMb*e1
#Kc`dX_t1YAH-^?-e36Nn0$gm7#D28%WVA3&0u}#uC=@=i>w%q<B|8n_{j*jk)JRpB1B_$3Sn#*xBS*
~5XO26IyEZx04mToJIq92R;{Jv9tUMFODPRQ^$l%o|7XlZE%mjQoF$AJFX2;Z6?S^s;G-1rN`Jcs^w<
)lfI;<K}}4<N5tAF&QBUc8ve;9S0Ll_v<XPBkB6we<UZ*E<d!1M72{sL#!QH`RZTf6RNmUXS@eUw{2|
rhB0-Q(9U|=gphvkl|)>+$>M<hi%e_i*KVogA6USGp+psF`dfG%eO<@N&EEaLz9w{=qs<hLa|@Y&CR7
&tCcQazMR$TufF<<wL7Q_wImDjjeP^QRj3Q0K8oW3{9%1Q@~Vwqy#nKnm*+X^v#eu0BkFTG)P-B||H&
txs6f}5D)T>Jz<@i_($cb1Q&Vf99cB6O(n~MVi4!N%DO0A<va&Mz^wUq%C!c(h@q^=g<QHYYz5x3PSq
>b-pbXfaVmZXV5aZZo*U@9IA^-LCz`A*jI>tP%V_<#8HtE^C1Z4k~<FAn;N0ufeBotuzfwI05#{EM-`
sky#pbk@Tqj`CG6zT*;^Z4=OnU1h~_ik1mkay%2^GGgNa(<wESoUz7gL)n21=a_w)2u#2J~-Fs*PGSn
%8f6e9{Akt6rSP3hd=quGtaPj5R6;YWtyL#Pp40xPJ8w0Mf>*cOF_40ydWP~H=I9|LH?S{f*+PCnKrh
qht|xdpA^SH|IBp^?4RFU6iYWgF_(UMa09Ksc=0&o_ifKVtXj2-78Mo!zH;SCx^(H%i+A6BH_gn<Wa$
p$N>-Lo2CNq-C-R1JG?xYEAg~|Ca*us9))kzOz;Ptnp^k)khqAQr1Mx3^jcN2}=YKFT)ZMjav-z8cAA
a~c@;PJ14EAB2mSyPIuOFR1e?H3x>@(!K9a#?K7x|axd~s}m5bFch5v&i*>pS+@&SMW8Ka)Q>|Auu7%
RiK*|F6As500w3<M=|PVLH>1f9zyB?PMq8AIva7tR0%Mc_AnXWtdclG!&>TaV3E~AR!QF2;tENgaNc#
-sbKuVq$mqh7^HndD#@H?buY1Nv&;DYNrv4prFmD!|CsH_MYWt&5M{$|MAS6oZQ`e@A;kI`JLbEd+y!
9`t|ECuuf;roT=*S>hwG?2I#;4{`*x?QIY<fIbaN?G6oa(5{uzqBlplriwrR~w`}24alYu1C-1)d?kP
u(9N9q(F&z4lO)9cPzM0RUi=1;!O^sf^)22;Rxw*M&(xgdx9{8SX635Y(Y?-xTTI2|QfLx)EnLCr;5S
oD7hKgTk`eoePrc9ZVCOq84dOmUDgdPL@A#W(_Lyy7d^Ql?0W@*_vc<`X6A6~<A{)cYX0s4o}@lBB*d
~MbNYk)PuebK=}`%Sserj(SFT$%S^dwYAgCx-bX50!rUb^AYtuT<hi=#jZq;#;t*Sg!|}Zzb}kWdIum
kIgkEpNJlXr|AE-wl)=wMzsyJZChUluZ2(DqT3dTjjR*eUzX1rJu%#4sQ8Wc-|&CX|FRypbIf|9g%;+
UH7jzeeTnk&a;;lst!w*+u0g(y9I_5rm&^%r!W^KJ-Tn~&b6@6&`M{pbczMGGdUMPWX^+$ImQ}Y5yJZ
{N7#A|cT4-!+RHC!Aopu*!GnH%5Gw31;@<U8Sg?7f()YL?d(HcE^^zG6fr{DPh!tYIt!RW=l#sR<4L1
MdgoPbPWYx~IQYx<cR<3oV!Aos`;JZBB<W;6fo^Su}SZuv(?B-+@-vCxuZpFe-T+O=z!mTx!TP31gf3
0dbD8vyMF9}&Oyz~`V{)9;Rd#rAARF0nz3!{qzXALu&lk$W8Q_UO^0YVY2?TAs}srZR4mo5yeB7@0Bn
f#}TVl9G}>5AAXK-FDIK!?=B$f#!s2S(d(@adAFlgI;6{-N{%C?c$#v8m7E|hJI*~^`+%s?Dr-Ue+@J
ilk+tA9dpBH%!9$?m@{+{SOORnV}W+*V>o(dK>FSJ9}`OrG$;7?_&*$j%TbXn+OucRYP|~&Sg*)C^s^
2`9uJNn?V5gf{!{csJpaQOu$}lX=s)BDdxY(T$HbiQo_R3&UFLyfbUwNkJti@Q#x-QjBTc)eAK4v9&i
j*hw=Uv)led7+j1gHEIl3u6LbuEncJ*r`Ogn|wXMXj6T<L>-4<qtAUezGR<<zQGpL&wj&74)Mx;&noY
q3`T8{sy|X-7G&XN1~O3HNvP+u*dPM}q!!POD<=D5p(w+GMA_(`i$kHpgk#IjxGdqiB0Sx8wB;qp-gx
*{NeZ1Ne&M`=tI>>PHFjBF7*qiTS|(3Vo%B@0%_*f2QB>|DO2!(?#dA4V!Ie_}q7STyo02|I(w>%1cV
+U5sID<buHzzWHmV=D()Y#Sb(s1JS@(zdmNnm~TsLw_MhA5Bf}e&JRW3z9V|+-=de^6#qOZzU>n6fq9
1E9;s>KZ(Lpcb_^#Y7Yfez9VeH2;kr_PcwecUcHRGb1N8q5(cvNKv&W66o4qC`fA0AFH>F+|oqJyN=8
N1I%oMy4oC|z~oH)7IH*P4^@xhR=-c<DTh7B8hPd)WiAvEAS5kFub(d*bEbTz&#ehT05KV@F`ExZtn2
fUM<Huw%Xc`&xY`X>gE7_>s-g(W7wC(fl`{AhS$Vjlb^cL6W^!M|d7A6VIuYkj3IdX=jQ@}T>7?|n$z
^8in<UswM5rh0B;q0VD&cXEJ>t|;}$<rr@I@TC~;YxWPg<q>=coH0|{H+sutDmF#pSD*N~h3<VA%s)O
bv|xW;+EcD`VB~|z$(#PEKfD~nJ;B?wJa)#gHZUIK5sV6~6P$4F@AReTO#j$%iT5kku3fvtjdvS=mKN
VST0c$a63OS1M|AfO_6mOd{RDZ;bub#RJ}@Taal(n1elY#x|G2TzMEo6ED6I}Y5n36`$KJSlS*?G+Hx
0;RVS+s7IGE|Zjyxvdbh>|ulYD#j>?w59LEp$ZEd{)doGSPNIpL$bmJNy-UjA6ADxoFok1?!`H38n~?
jOHm_3G6X>(;GX;>KQ~fxHR4ppah&Yl=8{A2<{FP~;Je32bAdgD=$;$Lh~ElxiBZJa*i|z7zXT#DWts
VCMf!V~)nVz>3Iek{dVjNM0O#1#CiNTu%RMAAL~wHNz#3S-<Z+|M+BEwruh3-@m_*wMe{=f6lm}1s>4
89xBziA$S#e)t@`L?Is6bU`>FJfE70Qr^k6faqDQXTetkPw$`j!Qz80)iNObm3yAID3AzVf-01$3diA
FT8Ydt>-Rk7m54zR_IMY@KCtK&xK+*Cj{mz&A)_;1he-odv4)OWjIEx#*gHMBDM(1C)HO2x~w@GNIcd
$lR`HcRf|E*iM`kr~_nL@B3{Bh_oakbeu2p#YOeZ+SZ@Z0E`TWg{(d34EIpZXskyRNRTqOq~D96s#Wu
|w-U^e(m!{f{ib4`h+P-I&vRmoBI)moCbhNRY>}sd21qp#HHb<T=Rc!einqS&Q*pdLkBP=7zcW%@YOc
+S?b@)qh;PC66m^$>YBIxpd#B{g?ZXHvJbC7XCdaCr9U9!KO<~OV#6#Kd$3DXfnFM=t|}X-dyi~Q@s{
gs(!g~s@@A=<T1GVLDly3GWG7;Zz<J}|C61aeQ$1V?rO$SUteFjXwjlq($mw`(xppv9(eoq?K*d1Vjp
-;3;)gDM);9vlPTO&&U;;CYe4^R;>3w_WZmmH5L*u}1GXf7mYO$jo*s99x#q;VF?QVSt(4od?|I+{{D
uGYE&j)4utf64`T6-e{|XJumoL|RM;{oB#K?fjAscxRJMn2*S=nNd<!bSfc(9w8f3TP;6<!JNcb1fto
CV_{M?YuI9K~FKuZdlb;|1{D$f4OIVp_3P9}7Q!B=>5P`230|_Q=LyCDr8kxd*--{3e%+43bL+*I<3P
aRlZ7y})(Q0x!_p=uGH5b?Vd(&(JUmz5cgt+vW=d0)-~#W}cy8@#4j5!h{KG_Uzf3Hk0==_z>qIH%4E
uFR`tyjkkf_HH5x(|MZFe*|>4z67EM%9-EKO0b5wGV1dS%Sr?p3fd?kXi@yw}g5NG<*nb;+$NNvrVYz
b>*rTedDy<vXt7`I!%on_7-00-<=g%Ly&AxU2^dq`P>;Jy!Fh20%!-v&@0|#`j7~M$D$zY1Z>|6IwKg
RwdON`g};H*7^OF{!O2F5}D>DaMjW}o12`;L!)C^=B{47!hbZf$Kv{;miwws>Osli?PgH5oU|%K92iz
x7)_O>M~O8rAFBTk2rX?7E-bjbG=9)x`I&+{Sae-hSy6dzjkacOs9|nwpx91cSkkL`S{%?6c24dFarg
UV0}S4qugfR6hUw^ZIi+=Z;V)ly6zq$w(xk=hN6Q=2_PCMfdgKX=l!yA<z1W+@nk6?*{9T*cf?@N(}P
wpJV%=a>T#hcS+ysn7N*Fk!gH5<Ik8ig)V#Komk9-fBL$(HQ#!rmw)WR2GbX7&BR1*U(k0Y76Tvq;4^
0UL#ap6O{^nmHP3f+{OX{3qB7<i7CW&M@gwmou>!G5y2MI*gf6gFVsdCl{^_@+K41Gd*ChtqcO!NWVs
T<GVn5<O;?4|-JMm%gsh}IZMIna4U;M?>%k@3n<=szWIUVu{#BA`7dBO&nJ*Y4J<N@t(;qT$=;cMdS5
^sd}Z_)Q4=ExH|n7_Gm=W3iA9R?q|+5_rnLza#w@!j#;i5rNW*7|4YJ|6y?Qq97bef#!le~>*Q;A+ez
@{;I_cbsX}e*fCyxX;aCUx0sN7qs32lVksYv89y5_1Wrj*LlrPVyGXN>i%z-`A7E9^~fo6`OrfTX`Z5
|najVv98_%^X6XH&2Wr2oUVZU7u7AN?fAZu>?W>vnIOuJBF6IM$>ZXPNvE^?0=X^8&W=|6L!cNjZ_J}
xvd!v`d_OEkakDi8Z?gKBtiWn0%n|u=25@%z(+uPfFT}!D?4o@8?)sy5@&j8h&lkC(x`FxZo+2i$&({
Fp?jccR$g$#Yf`_@Lwcd<7I@V2!i55JPZ5${^N!;_vK(@wl;ZH#lKSHEZNOU{{I{g$<4Po}TB+F!n?Y
_+$xysV-+E3Kxg;=bzQ5`Vd`dSZELaaCn?<zp)*7FU+v=c_KCwDO)bZ@I6c^f7<6`Hju2w0kC{r)7WT
%U*BhimIAw{cD^<yxYC8>*UI6e{oG!>5A3Pv3yeHUtS}<_#Z8(DqUGx=3nfuj(_R?`hi-xlwa7K<zMM
9^Oo^9E6rD(U$L@sslO`CTT?o<n4e+HN_)&#R_#yA&YaxO#kV@2+<)(xlY7ycIXOOPInJDH_?cZWwP5
P>>G`u~6csuDd~rN-$NXkDNo_0G9Bd694|W7QgWk~iP)WEpyg9r(+#Eh0J{Rr`cZYkzV<Rb%@sW&3UZ
f~e5~+=Bj_i&!M~+84Ugt%P);Q~0b5FCUWo(PLWqeC|OGZm>OI}MsOHs?hmXa1L(i%M;Jsmw4?TB_py
Q1CEYtf#l#~y2svr}xZJ>E{YGwfVD&n~cw?1grTz09t)8|=;YPJ6d)+0AyVecV26pR+scPP@zQwy)Ve
wnx8M($f8>SYB(qm2PENxmKQ4U=>*ltrBaQRckd^o2{MJZZZ4KR;zW~I&Gb^I;>8s%j&kSSv{5~Fg7q
QkP`3)#s|^^8G+nDUZ5aQ6j&H233LW}0x7|aU{P?l=F#ckIpI@RuqWsVjSY<prG(&EdMG258_Ek6g%*
ZNLd!z6p@z`r(9TeQ-pd!|i}L?3{{>J>0|XQR000O8^OY7yf29?aEI9xGKFI(88vp<RaA|NaUv_0~WN
&gWWNCABY-wUIb#!TLE^v9}eQkT(Hj?0X{R+lfFWGX7lAX!!tu}3sqbOtT*p^n3GqcyyFjSMR=7>#p2
)17GvcLW61pomMl;q6p?%i|!Byu+i6bgkxp{h_QY;J4@`}OL+DXtc65bckGSGzA?ZNs161!s#qIKFQe
brqb}^Y%7v^5DCAU1e!o)Kv^MPxCx@f4G0}@$?{W@7f@(vS9z{<JrmKH=oXqPEPS5l-nqltGa1}S)Ju
Gu`zGzC44W-e1?ETAYW(skL$cETebOJTNao4iMZjaS7m*v>J;=N6@h58gnp>vMXkR5Rn(RGUe;GvMRl
cq)<S(--6ykpxhhJHL8HHk#kws@{i~i`=dJ!Fx)<xqRa4J$p@E8f{k2V-xdFV*mn-_+HurlQ0esYpMU
$r)qL|;!@>Lrg(({9+sT-?cwq7pp6I~o>(A8DIie<jRM2l6uZwrA`Js{{ne)$?ZpSG${B-#exB<=kw7
vlg&g1(O>Eyh8U-X=x0TDRlil*%3+jS0QpXO_+ud4jDZqFy&M0J3h%dX-n>V9~ZKKxQ1=Ez4##qpt#<
wA7d%-n+B2<9EPmW!{YG$Eo~<B={y3x%q4W1{T||t9fy?Zql{}KsRYw00(7x1wDdSZCX^=z>G?*(nbs
d`*iZ2hG!fs({{E<7PV-rbP4_3&zrWG7qhg@Wr_b?tiFR`A8l+PCj!nB#gg$=-oB@2QIcTwB!N<!Fw0
J0UKCBf1k?gV1V<aEQZTQZ080ihf||xMEfHTBJ3zh_=3^MZCKUuOkFVk&oY!^mdJ?>hUyXyWgIDoxFu
hCx!OQfgi;&9U^l$R3{0>I23PheSgEY7-+F+3u%{`1$9o*)@<+>=d0G_T_LA{0<H4nrxEpa$jMGlhzA
l)vC*&;yku}rJ<Do-!V9L2)M{?UgIZ-E3&crLca@PEjUl9K~`n#XcVM)VZOaro`Q$1|!Bo!|a4jkhmG
FT#z3KcAhvP0V*&zwF_k^V=7ry<b8g1iyR{grjid`-79y<AZ%Ds-8moTW`XRjgy1-N5}9yjHX||o_z7
27n9L1@C^u}DKak_fwBP@I4DF%;O(H82kE6C{<$s6GPulP(qHElvSs+66C~<4Z%+;q5Rj*U@8QR@Q)n
s*BgBteModO;fDZIb;fYw&111;z#9v-sG{E?vjJ84`;<tw<2m5D0<L{`eI5W@1i|Ebq*BP+c{B^uF8p
$3X6zu{=68->V!1$TmRS!HbD&$h2!y*?r{2NY(f!Glu2kp&XzD5*#WC2`h)C^2}{pBv6kA5LQuLc1@p
%M0)ndJT9De{QPF_NB|y3RYG8P`2!Mx9FB^E+zN0INsu92n;0;NL$1_8*uhVU&@)6;v^p(HJG!!V8`X
qc=z)&mcQ}8@>4l=$g?~Z{is5q%`>?@+@fUK;W!~6{B8XEodN(F@%D|NqSBZ`t|Cy!>W=LH`QyG(?Sz
~2P^#!u*&i|$+bLbI!PCa(cT7iA76uPOgj9c<!Db+CIisR_zL>5%8FSVjr5x)Z`Vx~WYe%-g%@M|a#M
vD47JI{x@@8D$GXbt$r66pq>M?P117xg&V%Jsnk9)m!PYWtO+7~R`SI*!c!9GAzrHd`Km%3XQbnAH;l
-Xc{IF=6=;9|YMQ#_`46yDDCDc5JNjS@`*AfW}NC&%XImY#WWpqm7hV}QJ1d&GzStqofH^M`kem|f+g
fQK`pmsr~gkQh@ViNB4#GXU|B`k0r{;~nJIj!(CxF$!&^P<Y|ZG?43zD`YhY)4D(646m`FZ#U;pNk-R
E=FPSJcw8k2;sl@uXRyHQ+)ee;5&d!@bF)Nhz(tgdL##0<##SG@N)h*JLqz1S&d1%iX>2TuE^=2RUg8
9!sr{KVS?Ys67Yoo8PJOqWId-RjX<>lb-;-rEpP(=kK}x$$;x<auuwqq!vm@yk}Makh`QfRUBgn_tjk
<Taq#Tfv+rO~11wooDH|6^VO=Reom)UTTeQG(o`Ckdh%P}d90&N-kT9Dt4h`ru#ZLeLO&rD*z6T}ElU
1H=?`(@4gcxXg8P(Ud5hTzR|B0J?Ri?8%szr=tVyFU)u@iRVfRCXxy?wlNDnKi3xwHTaqZPM>>_txuV
xei7SNwMGB4*qp0;tGg&}|a@{3|_00y161dOk1i##9bDmT2G6X$7LAxPyucVPbf9z-;6YIA~1?Q3<CN
ns5<A8ri&z#mL%o8c@|0e)d#W4G>{<0}9rtFHaP{39<^bW$}mG83lRN0|T>{$s}lw?jak&EU0gCT5Mr
9H1}8tH0N8Gp`c~u-dSXhNxZ68k%ixwfcIPPOM<R@+!eQH9TkWBr0P@0CWP8Blg5p~Uyt={YW3=Zv<2
DD3xtO1hQ!pA7A6QOGm0v?$*Y@4jx11kk&3i!n+S|?zzi&8fJ6KhT66rSXxeoO6XYg90HQA%&zd!lkx
kvr;P~J;_}%VTL-nBHSk8?vi0TG9NOFbF*eLn1P|WZ0*}6qD3j4{1Ns=7@$M**xzfa!3{q%AF-N8wc1
X&6S0J31ZVwJqS2U!LdXN9I`mFHQW!GNQUHe00dP@rar{3+V?Wl*N;YKHp%GACUzC67kjwH~D9ZF(<)
"%text.
