(* ===== verification/PipData4.v ===== *)
(** * The literal of the pip installer, fourth part

    Lines 4215 to 5564 of tools/eposiotgw/get-pip.py: the characters of its literal
    [DATA] as the source has them, line breaks included. *)

From S2P Require Import Literal.

(** Lines 4215 to 4364. *)
Definition DATA_27 : text := "Rn1zXRU1~dqtoEe@RY}aI#;GG%t%nRV42L)=C-Ip5~)$>!9V1>kA7fU1N#B-i>9uKAnp(t@2B3DF1Qk
pY`?zUZ7yIBj`2iI1za^|Fusvpdn5;vd_{Q%!Va`zlqF?Z-{x5YBZ2E=jt+x_UrunAquiaR&=&oYyt~
51g38cOu(V-RkWoASL{YB2HPOmgYwWsmm{8~7WllC{%MnuF_=Q=^)e4bjpuEM{r6#fk0P1!)W>$y$(&
`eX>a|<Zq)NZainOoU9w=Dn6)RcM%qHbncG;R>GdU!r&dl26@;<rF?<1HS@Q>(3Ng)bQgm6+t_yQ)Z;
U+Vr3BCkW@E@sgspcd<8A~e^LSkUqJ(HsHd1m*LAxz=r1?kcF#V0DTH|PumQGpIUfeyVqU3OhTp1jE$
0iqK)V_u`C{dy97X{kNHo+J@2VWyK4FkmnpZ_!V{gk8Jn!@^c!$isCz-~M0WNHx5{AkSdcYf%EF8Tv*
3?eys5IG6(`pi}EIon52YDD$gyc8}Bn1B^A3v`vwv2v&?uNQ!C%loK+-qWn&~Rt*T~3y!gM3omPIuq3
L-ZC)XDM0ha`SL6ndB{A`d{%WZ*WDkyMbuV&qg)rC{%!Q?h9Cd?+e;nLkIa$SDka{XDi;1)zBCP3I`A
M;u$Yla?Oz2T0`emj1D0LA*Q@>}(DWHJd^ctCtio4pSAqA!1T05Bc9Bu&>A-|4x$H6XRG+Pn>bZ*v|J
+sI3BhtpVTE}NAUdA)h70g9^wu<$0YkchmTNazItTGSGO{gH`UWGX__FPnBt^p_@Y(m|n<vN$Zc#NUm
s4rWsAvUVoqxaNNe$ohU((5=YNUIZhIq$WFgOAAA<L^^XZX4*GmOAp^aq!<JeyIHc@$)23vnC~@-=CB
q$d0}}0;MSjiAANc8tozQa0!#!(kx3P14Y-i?ITB~3T|Sq=T3cG^JsY3xY726S3Yn_)*$UM^x6ZG-}W
T8nYG7OtG)G`U(U<)%Cm4QHl98g7X(<C4iKa2$c9VPtVOxTWtjVg8oQW=RuAaL#_zj5!dQOg{e^}&5x
3Z~qEQ5G(PO8!-QwkShTkL4N^xK0Wd_BW8^F9MOXDr?f5pub(8!}U8$F80Y=Ky05{=ny#s)0#Dtz}L0
54S?8!10Vx;TJ)0$F(bGQq9E8uUTn%eu<M<mFciL6~q8SqhPq%AP9k!B>_Qy|NPalX@`-1n|LL%}S7E
yqB1vDz^f;b|2N3e}#D^F~{B|AWe!kNg@<upjm(cV@xP~7~?bOA^y|NXL1w3>Vi`dZ4uspL#|DdWu2`
{{VS_y@YRw91X)^j)GU4-YfBGXQqM?rA8i=;q6k;$LU+c&tQ4k(FJ~OQ^3Q!Kge|eni_N6#FA}O72Bu
n^Bob?ApIX+%V?}`8;<E__;VrtnlVsYjfD6PUtxJTd6t5Y;C9oE>?1;cW2&?nyop6Ovy$MlsOxe#)Mk
#H#-PR2$k7$3QOW-DFXWzYmi5@e>(N1PZkl<}*tbpzXG<U!{VhyydVNB5MO|Md5hc#`u(hkYGK_i+6k
KF7v2yf~4tD86oK9Wfd3)U=M3q}CZBu$VEW9Z5%5VNKL4Jnl_A8AC3^$Jje+EDgW1)^TG_vqn4+!iVN
jc6s5#NtgHgjv?JwB)IauPR(-pdfH`jvKVN%>y>g8mC);NI{*Y!pERc5S*likPFxMI5@OrjTEZtY8x@
yF2o|>;sSZn7?GSe3fT!6)D5d$F!=-YNWy3dn7@ly4XIKCKz0H7$Q!T|?zt?Yz^l@zy{Ko87FNGev*^
Lco*JEuo)K4sxDW!pupQJnE=66g+x!`<VVWy@;J07?Cip-bCJj`y8(_O0ehTRb#>di()Xp?E^ilM$8(
>A=bcHI0Hx_@!>~f5B!I4W#(IccT>+@;Q623(hJE@Ej4M!{94|!B1XU%=mtgFd)X(@77Hp`c2h4DB0H
CSZpCeKK=m|Jf2lAD29SvR<>cI}(bv83B5zXG6ylCxOg1W8cy0CUjaE>KD&Gf+xe12f$^15Z*7M3TYT
V?dR-!^JTRdWfJ#8L^L6H&o^5X<^_h&IV>9h%%!Yn0jY92uo-Vr$4_Z!vJfeG?j9S07$8cpA)&|(Kcw
sz|`jwF!AreY+!#8fLWr@fj+RS5f;v3juH*wYEU7!3acqdmjO_!Opw*NsKVBR$s7j@>tEI|i>R($wGi
ADTqZ#K!Pf5UHF`cZEb6anKV|_K9K#xrVnhzIHOoK~OT>s~4>f5Z_OWi|deknkZR!2Tq9CyEK?u(<*e
Ks)sT(MkQA>l8T|DHdIq|~AvS0P&8Fb}YY!0Z&L)e&_s!Yy^@ph~V7Eo>|SoDncJi_OV+f9&AJvHC+Q
B8y7q_teO-P_Z2Q0%cOp~!-VobDbG1uIRf;KPq(iTYyjTECJo^{Z~8%<9#>bP>>G0rQh~Qb5_{FJ#qC
uwi@VV4NhZWJDvdc~@xBfo1@bY8z!1G9N6uGgwv8xbcsXA;uEa*%c+=JBs;8B4Ln><HTY#lA{n&z&4+
gT@1@f5B(mkO}T1Qcqy)YJNM|GMGEu{J6^B}-$Il{b*<6$?=^7)XbR#M1ZWORtb`_^tk-uml|~zqJ5(
D)V3T_aL8JItIG`%i<X7u5ZD=5ekilRNapl<^bXRtS{~`!wjN5I!E>ZmpV9{-)uy(e;qydRsNazoapR
pd8%ZDy!Gc=pUnx*-t!PI#*t1&dxH7%rv$fhfCrWc>Topq(p#^PWH+t1)(@<njZhFv27R(pyt?ljU=3
2!f*;qiM)ObF7~<N^u}8mlihXv=6GU<c5iB8wibn;Jho<GF`sJS%IFyPC>Vn2G&&m(W6ENl6^)G5N+_
_2~hYAQj~^Mw1j`A}lvY!-Lk|yx-Tk^apkR{s;Q$=t|s4ifZ<Du^Y<&3p*PVZh53p{M_DyhKfE7)$Pj
y9kk0-T#s2ZaU2gK=7=_sqN`dIcOhz0k@@(q=}pQuG(1h5(vDolLjx^`Ky=&4hysATrHE^}hl1e1rZ2
M*n4k^_;Qr2h4R9qUJu|jv380Db09?wunhg(*`j{f@8SRmyq(SOor1Nv}3~2T_;TKeMLgXVgWzHH3KK
+HrFbe*W#^N_&Ln5_CoW}IjA9z6yLwFtOQdCS>fdz@gv`m+m8LZs^b1y(^UGmOu{nb}rjf36#pW#D9(
EMf05wEQy!%tjg(T+KhCbo+Hv&=tN5s-?4(+u~it7aHYW|0h#H?UzlyI;(m{h9sRUg}V@XEiO9rhU(Y
{;+J2!?e7{ro8nBtwoKjX_xv8#>;z<fhr=`lz<r1zAS#q*+d_+QmcOO_JFHJWO7V<XFa5BqtTLJ2lRt
)0G(|{$I)=5T<-D5qnZJ0;~)m86dTAUFt1D?#|U-OKZCO(y^_84@0AYD{efsbGvMce#&rCi3XZcQPrL
I=I?CGU>R3Y>lSMV6I-63RrTB=)77>U3Dgui_vfQc9UZ-r()$#bmwM-2?2|OkMnIQwCDfuhQFV|O5c!
Efg!KPiexQ7#f!LHfN8^`zfR3)-m8$*M@9-OzbjEYt4O=EuzJ!sa9m!7{qB7O$#+jav)rPk1-B3te=*
q<tq&GpoQ;z;Q+E<S(b;M8K69um-J4~*rJdt_v6@12E;o;w8>pr}6Y#L*E7wx5z+!AJ)#FgTHhXPX5b
il;L?#V7>`{QgsN^v6EY`T<%TWN56WmTv6grAo7GdrAP97KM5nhB3Fo5EMN@3@(e-_4u03n0+cCU9_N
A$Qa0Rz)q&Q^4<b3j%6#lt}N^K@<>T<uvC8#`+PC(&th9BJ09*w`rp)LiThbD1s<I=T5&FcU!p#q{&m
ygviX4M=w_m$H`B=#Q05opLP_}mUA|nk7_xdhR$)b}yji3x3hQ^OC&}ub^^XLP;vzJsM3ZC433|6>Fe
{hB=-51M)Sej_7DXd@%!WXPac>;A-=f}Nja38eJM7VvT)kMqW8ak=d;`?MZyp6xQke=qs9s1=lK=x<H
ATV;Zyk}j(e$VeBZTSh#h~@jEJ?TbV5nbaO2d%jIZum{Ij`ELL4A<3W%#0~OW+f^{m#)KSq&VRC58+`
PhD4nr1L#!&h*HjG(3=Tyz<r5sKvywmoBc5Bzz(|NlZNSE}DT(-~FVgI@I(uu%fNfi3vmP^2On(4@HF
&0JJezrt<*1hW(FRwvq=hTZhehaQFd$^2eI<*4_a{KpjwQ*<(9<JVGjdNF5g8NFT?IBG1TG_MQj4&}T
@TASQY#L!c%Sw*8XY!MG0mm!;tEop2G2IK>{ga<L--v7Ld=*lgYk-e~ewBm3Wn6n<?`FOYG4d!*F7=C
~+Dim}=G2TxOZKL&PVgBTX3`Hx+c32xQ*7X%}?nM#b!!S8L(cvX?U@}~<%#<))y1^xvp{XmB;hER3n?
?-AWPEobw??-A$7E+ZY5xcJRmf0j(q+$W<&7_N|;U_SG4nCfp{73KTYZHcam=^o~nhvpV#}}g)epwp?
=VEK34okzDh{_?>dNGQod*|^5e%pGWZlsSZQ)ga7`DlWb-b8rZzWWJK=-~3`%>Xb!8`rn^`-78jj!q9
o)@c+o0F|9_Gdh$bxdy%FiW;$ir4|p>TIG~HMLt}5B&cO+<8JIUBuQ@qK|?>h=s$nb&S!X7arCAQvTv
&RNQ3*O&jU}7?D_DNBf}I;)2-D~;l-1}a`dee#U&rqqore3uPazO_Cm`?qRLEyU7HTJn3h1skDVv&Ab
v3kUJh-K{ava1FohrNj#^Glny6(0NJ?Mr^Vj^=yOH!aaoztYZB&=14;{GHh34w)x8Xpi{cK6haX7l@P
f$}&ct{WMsv7!)Kk2HMbYzNZnQlg9U&&}dbpOjpQ9fdeVQ@q_Qni`N?2i<2aLDm4o#zL`8wi{ZaTw!K
%tD7{#F!|7!!DSmK#901&`O-^#23PV$g8$-Yzp0%VJr~|<x$T9gIP2v89Z`S1%E24tiA=y6N<e*+JF2
0?eX!qZ_nN$LIAI*x;PPejBQDYM&LokaJhLQ)=Q2Iq?q{*JKj!FX-Oyyl8o<;A~lmpo>x(b9Uq+@{+V
mn8ciRTbX1)&CA2Wqun9%5sHKY6wX`imD)CI--3mZs(J1`Sa0IU&!I40jc+!J2{Qyz<>sqwVaGL{B`C
+F*YD;b2EQ#RhC77ucr9@kG99Rm1TJJaU^B;a-4*B7SUU=hB%)XXV9bT%6xvy5WysH+P#18G_j-JJ`v
&50OH)$iH@E<5j6bxP5K@5GX(`N9NxF?`(JL+}~hMOGn$6C=txWTY)i2;I;oVOuu@#krVOct_(0JI4e
B@1P5(+VeytgMVh)WY&msF)i$3ShXKah|rDn9(z|)wQ4<M$@gO44<B3ODZ5-#TJj!LwTDv6|im;eyjO
LMy*}0b+niA;_b2bQljJ`c`qOUw|vs;9DM|lS*_O@eH591vS$RevMx#35Z<3Ef&c=7<(!Ek`B>;Qj>m
zao9;CJ0di>$88~d=C8v~`T8OVJ20NCrqDM(zT&n7ZHq>NlnRb!1wOn2FUV^=<>~mCgfWgu-?3a}<pp
+p;SpeV)u;zRPDK9aG97@Zp8W>=)#3C3JDbv_&#+IN@t9y_fpql*fgAz$ugF)-SMDk3%mM`J<_I9Ym3
&42`b?X^Nqt9sT_lF-ik{W?|>zmc#K}=YOTpZnBRi?Jj6-Cg=;O>hOhLLyUwsVQt3U8(}1VCTM0d<AT
((z+6e*mWr(C^g_Q}6<cz6cb~>ZmU7G*MW2WE{~Y*Jg~7=d`(o0n<IhTyRnWvlX#n<{^T)fr;P>VD+f
VTi{9w1jU?G)>p9D-g4ZqR+>>q{5=V1u4OoTq&CFQ(e*)Jlv4G3Ak9ll5COH+-nVZz(nQ4el=M|QRd#
IR%(XfVS+_3<(yyeDHxxFR?l4(n#DY3#Wv&qXVz++vih=7#o~djeT`oi-k5&sz3W+`m_~JI8rC?zW0?
y6?gaDtag%u5hZjI^&qZlra;ltckleWJDKiw{cbifw9gO*MQk57*N4bz%^eEZ=bdHeC(1QTZ+9(}YO1
z|Kzw}0B*{+Hz9MTD8|@Mm(NA8vukzWr1yp#v7b*uHo%Vq5-jv~m0&XYY<a`Y~w2?bUsBo}I^U&a*d^
M2%07A<rc0Y)hoR(8+pqf{=^Ur@9~T@p^S4mXCizHO?_Ae+QJ0GSz2if~cwkeHvT(w4@Qx0|Z}DanY1
lE%zM>T-HhdWm7}BDikKZG++vhwCf{d66+33^w;U$l6U?iX+srri)f_n;U2$kGI$;Eo_|+p1k%eey_Y
;_oT?1I<YJbt@?MQ5JiiRbf!&vWfACXLe?Wvfc^fnlyY5sM9mr`#h+W8WQ2p!la$5%`dJoJ5*_)>z+d
0|w2#odjFGnUa&NKvt7ZXqbJEt=~p+!TWv{G1AWgdcz6uh#y&Vy%Xx9|g2*8RH4pKTD{5@(O6Py6|%=
eI$O^NvznJ~&g2?1+H(>*-(4#Rw~oFw>v0MA30OV3$O4f3$KY+uH!+5sLOcSmrRlGFC@Goxu|yn%SI5
$0AT_GvDDe$`+ai$855SZS-HT|6G>Z!_#leV6_J=>O<}+C2!y?qtVNFcf`Hk<0051MX84ao$71XD@+b
*_5?Y_p|oU>)u7{W$k$Sq+lU!Z0-N7aO>@8Zg7fgXI1edki$VK+c3oyc_SY$wiAs0Exdy@hy)eC`m?|
y8bZEJt-NN(+>>SDn<E(4lAtPN{KJ9*kl$**OIt@n_>V6xAP^H)kIU|LHVd_Qlk=mOLxB5F!zf8K8^g
`PVK*WhpHtcrjo39j))^tr!+<#+6ML|Vp4PIAhB@!u`=}Ra4399S&Qf<=64h9Bk^J5L_@2pHQwvdKtP
e$%3kiF0a-ImVqF%(dtDB1_*^{zI5N9-G)_%<nT3q;EIit8*oxj<&5lrja+?{bP;5G9zim$s86L!*jV
CRi@QM1Bq%%RCsCmAk2OKL<<7IIc{648vGsD)0&<RFkv8g$XytMpZ*J%e>@;5Fl_iUw-*d|ME|9@Lh4
oLqcX`ZS4PVN;4A7wY6wLtf?k~1?P#5O>RfaM4}n#1cmrnP;MJas05`raM4<vWC1)kk0%~rz^iuq3>3
<6gdX!S#Us9K;_hH78fS9YaZsPC{0<Kp<ry^x#9-4Cljf*77e2&KoQmhc>^unAiNlbYa=4_-wF4+o%(
<#(*U%%bv+D>aEZ^dbE(Z^{AzdR*+8A68jQ&W{<ee=44p^sK(G)jwq8}vFb0HltFofeEf7tb`)Ft9&<
M=rzMvX#DR4(>*c5ZKPfh5^>26Gx$`kmGNs@RdW#g4VO!&<Tf|H+pzjkn6`g1NEQV0Y7ELG3wNXa=U(
kikTKpo5Ef*9WZ{{~bHSZEQamkMyT&+roLMTPogQA8mX)(x6jlxJa=C4FTQXazbMbC(9>033KL-lDsP
2d3Sk&otX}`8?hkS37SHaQVu3iPjDlETEpaw6wJyhlF>#@NgK6LDmWl*rcQv7x^;Qad&x3H1=G4=i-^
kYBF{_tywi7B>FCE+aMDgaAZD=HA(SgXJPXvO0%gz|2UDenh9Fq;vUe^J6ApWlw3Hz`mvT?VJXc}1`!
_jx8NkyWz4&nskFvwpAq;*@FRGnw6d>r67xYFSzW7Hv$v{GS*DI4fo?liLm9@WWiW?wS=w>*j$O4%J*
7cm3nF8qnRW;%^*h_=nOXD<!n;g{+X(T@;l2Wm%%FF8WWXfqFeV9IgMs@|qi7La^HLkM~%;g8eEwR93
?ExuO__)1gNxPAi-26~Ma+<hqX0^(VYttpcV0HFKz31}!@z79>Hbv~yr*mI8Bz}xQN2fjfSO;C1lLsN
$k>xJ5;dE;rlE&=owSdSGHcEBTUzkqhLvaW68xYBKvR#l!4p!?+7?;J4SYKj>lS?IO9lx?G+}zl(MAv
U*HZ@%jbyuDQ`3>!Vc16e1jqN$Nt-rs`GPH4Z9Zn8hF|fYCq{oJ>3UaM0?3C?*as{Iixfz?GS{<Rii=
iCooX5Rem<<p41E?{SFp{=lKlGaBe(wc;T5#4HoagiixfNz9eQkR<rPWZwB)jRTZdZYVO4ZJ{Ljvo3J
5*7@&E`OwBA7d+4t7Bq=gby7nNk@_afy0vH0?lLJf!i8A1OLe18~hNNvmGZ#gA%cbPYY_)P$~A=JVF7
t9e!mfdRH1;M5b&6#YNNtV&w^R}FFR6n*%yHn2d&oq}2j%*bk44y=-`UXr7ZX+Se+KS*zqfoYf5Uo*Q
YjqD*99s%w?S+cylWW#uHrKR+RJ>rr@DY+*aSt<fc2AjdQ(&h@3&8@BLTl_ZA>tn78Y{m$8x$QBvJ<j
-A#>xu$oK@Pwh>JIIe26JENhH2~F$Q>YQ4Bzkx9Y&dHLCigZsSIjN_s`$LeZO$eVm+Tm>}HHb$(B~VZ
W`Ffp+X6mDZf2#~2e%ohEX5*5y|Gcoh|$ZB18>2AJS8)rP*s-Pz{Z8vUhmP-#Tjso_cWuJG#}mQ?;Im
b*@#IolH=d4^1S><UFvkL6g(ADY%^^ZQ3k(uK*wmF=JcM$6tMz-#VUzmZ#!c)!}FRFF>P?&M=>uX;KT
tjn2`D^|_<+06T*0y9M@=P*6Tdnxc4nM+k25X>C{V5v-0RmJGzd2bgP0z;0$syhzetzB+?kTTg-E_xZ
f$Ue(*&C(3lS)h#ur3kOAgX*|=AoTu`q!j~}Cz6<gBo-Mbl!~4OnvY=dc{|zt9%NxdCJKHQWG?5-uuZ
j!<9U}N7rkaxmf7x@mF$#EH#>Yj`DWl~a$cJ3HNC!gN}Jr>zr9U@gKc`$b;JkNo|&1AQ=NxK=gSupdh
44dMo!QO%ZzynjQC7@W4hGM4jHv%>s>8EWI#pxY*c$vS<P*8D6ob-8fv1O#KW>ikS>epKj!zIz^=Xu^
_=$(Qi7Zdfwn3tf%okKL>9#eQ@0<+TThn8-S%LzYQ4(@^>@LPRX#by)VzH-7EH;N%5Mi>`(Zs1KJKIs
4+Bnb>oL>aIXy`Ivx<?3a&<~5p|nZL!835GQX%V>@l)edbzRlBmC|{+(t|2QTW7WXMC6|Agjh@){5Di
RGmHfs@r*Q>a7{j3=2}o4m3)VuH_6E2Lg+b7OLXzyQ|bPqyh)x_-1|}b7TyFRYPu8$<ACMCO!&Vn^8S
czvJEXyT~dTHv%)Bd<CsD+aZIEp@2O5yA#BHde<~)ERnAXL6wbRw?paf=j1f|O)liY>iwQ&bOHF%kkl
6X5a>_RCl^d{1bD1L25BM>l`0>avS`nF6(Wqa8c!uJ1SStHYPVqSD;4doh``+n1(KdB;g%__?D(k+ZL
v7*?#@@~jbn~{jE>?L~q;cI`?clGSv$XkZT0MXD&lE%kpvrp%3~w8$mn%?3LEBGssAe~dt1Q1u=qL?s
oK1I)Io4uwU~Afy^)0#v9es^}*pJLvtRG%A>1tuG0Nu-u5EAvsQQe3RIOF9}h!v$Kz?PZc$t|7b`br+
Ulod=mjI5<yQYdOqZhSJuI_P(?C}EPp?Dx}3yDx(mli;Nzc7U{sAq^e0>*qdjL4li@ddaY-o<FymE{n
%rk=l&#XBt8lm}y_9>Q*swcBsN$O{yy^og<2remMcQhpw<ld86Sz$Lz!)_ihTXlXL%xMw@kXt9~id8_
s1>MfSt7{;6Sk&WDp%+a?E&>`>p>y`oEZS+Z%SQQm6`a8|n%M*8hOFg4W!J=Fs})r07CfB(1loo9yGa
fdq(=fMwHl*6e5yc<qhO0bAJUAoFEibzFA5@6-7uP#0lb6)ld>5*%Wlu;kw)llZA8;FUVkEj6niRNjw
^PfJ*Y8HP$=dfFQo=hLyO4lO_3yVDM_M1Ugs2i2D-ME;>{Mc)t0nPH$D07x%M=w@~-aa~wJwm*f&(=I
s++Po~x|hYITTjBQ;C18=!Ox-VWtz<#b@;a!Ds$dO$YdzG3#3oYFu=p^+ppp8zmiICm{cP#eFxnI9>4
_Bw&R^rzlJ^4BRsD{^NfhP3%SAo--412S%FT3-A~1eQfR}UtDoS{CH%Qvlo$l{_GJIv;r9p0!Jp3#K4
MHFU*#P`>G<j=y6gnMUjFn-eW!l`;*f6&OR1Wd{4cbnVm{Xr(L9p>CSBAuUV?}_vSWE+mb@&^%3`c}i
Jo>BEj$<!&nJQ@OD4v|JGzIFmTWLO$UH#e?s;>z5skY)d*;dv2~>q?8+J7Xflytbp3O%`9y7BDUrdk+
YJ_=lq_VqK+Sub(Jg92~s35ivg)ltZej$g*IT*r&(~pBjgUK1w?)XY1c}8(V{{k_DISE26)tTevV?a$
lg@1?P;#=#LObZz{d*+*`wWz1V<%3OL4mODZp4ukQy5UyfrN0%kg<eG6koB%0Q{Wl#lZzSihNY)=Trr
VDXt&le(*G`2n2p{u`vKpcjXsdRn{OhSD6n+Sl>C7GHB{YOrlR5p)Kf#6*m3%O%5{AK%G0Sp3a{*UsG
qm=={*7ql^*>U^r#!FFXUK}Hs`y?>}&HHGyGuA+uROWefiHXzxuK}myU)R38)!gzb)_v7?i1F2aqJ5x
~Y;v_tT;j==+cjyo&GG3$x6ZxWmM0RLwvt2Bn+AoJ?;|_YV&-sTo4WZOUzQ!jyT+H?ZNx=n_L$i`IdH
Swv~EUo*n;ej19ZXYUDv1|Ymj^po^LpOADE_1q04WAD8RvA<MF5Hgw0(2}J-W@%<f{c~_BQ<zD@gE4J
LeJa(<%H4@4?^Mt^x_OBQmg2;+DnhG^wSiYw=oY1|q)6#Bz_h92@JQyL>792f>R6VLb0RZVE!`5mp=~
53Xw*^KXSdHNC-qN8Qfi8|r0cIS#7-uSmVsHfX?fl2f>}|`!GWaA^L1Iep<CRRJss7j$+0+=m}1ZN`f
1MOW!26>;c^JzPb$?mV#3OmH|W;b7X*d<3LcB#GHp;f{PgkgjP*fW?f!^=KH#4}gyZlG{yz@8c-LcD*
WN!|%S8nw&8Lrl{CM=IkKtfsDA=nvX*t=&6yA6E?d9%nf9HbVDeVIlDEZ{|L_+BNT&Rr0Gi4Zn*&PfN
O3}^5fb2J<wdK~?Sp6<9)0LoiyY`C=F;hn@b$8d8vOsOl04_I{OWn-0h&X>ek!AcP(mRs`ToUW3w>Co
Da|a#_49biGWCi}Q<NvMBd(+4`<N;_8ESe6zu<30Jg0VqT%^He|)>lBxnm(QIDGs?qd4tB(=@(qxNEu
Iu7JWO}W>pw~p5=uvOgQz*laJCI9CdQmLkX*`)JU0ZvQKwmOy81*O2u-$9LU$kZOEzTU_~s01Jtp~Kp
XH2uRlt!dI{!q!g<dfeo|bAFnNRLj*jc%F;q8r^Tw|0veONef(GK<U@Pbbdt1+*QLqze>YC378hrj`7
Ce8B%I?iW9u1@l>rP3AHy~jw2{WnsX%i_@k8x)1a?)qt^zG*8M58)Hn>TOv=)aCUn?&2LDf3M2rd@e^
dyoEm&@#|jFHkawwwaT32%o>(d;VeX`6(;_^yZ3gBhp<Qd3H%2@&z57y?r`c>12xGxA4w3cXSF`DPC-
~j+0&ntL*Y$@eif_N4>`scYPXk?E#uj2CGN;SRu7-Zw+)aK+8d33c7;AH~t=tueDYhKju&Fv<Y-x)@l
3reBt6d#%kJ?^umo=DDiRxlhivv%B3aGH%SMZk^9k^YVBxvr)`zzy*u%I^d8`K5G7BU5<{}a+dWFIQW
fM?B~7Y-Mv~!vjk0XFKaPE8vaGN}($B<MlM>{Z_-2QRsZ?J?Li!2+P}Z0IlaMEe`|pxJyg&NJJ@<Y7b
2R<SuNPaRb96-}`|l3+|CpQ{?0-5rMW>;!%JeTg=jY>}FV45lw|>Dt{NUG%4#0=Q(+_XYpvlvNGq?I*
rhobQV(a|ZU(SD~mj6K~YbdS&cXH(=_^mT4^ifZId}(?>RdVDNU49*GZIJ~2xn8v|$MEMB{`vCP*vNC
`?V?Jb;I@q)zLg6g6f*f8z7L)^d(bW56M>!rdh~2->sheGgkI`MRa%1Ru!1aoS90;K8{DjerAf!%hU2
mjbpD)T<a1Q6n`<z%!=LGDobcE1^U+hs<J{qrqu6`SXg0-ck?4njt!7E%9us<})4Sjn6WD%sO-wWKvZ
pNi%7HNWa_qFL>vdwNH8L>{6s9ySEnh_|@aAWoUeFWzC-d%0GKA8XujL-X(P^K2F>HLNH{Df%KW$k>N
8`7;bUO;wJ{}t1HX9g`exrptYuIntq*;?@#VjqQN1Z?_k^pX2b|8s!ml-z<`;B*Naok&obzA<b9V(%d
"%text.

(** Lines 4365 to 4514. *)
Definition DATA_28 : text := "tzux|#KV13T+nTt4?vXP;*v8a==*G+R{H$hDXy4<ToE2mMDMJeCQoYJL8K4h`LBoQ&YsC(x4a3AfW+0
uefVK!m{%~NX-Ro^c6NNauR~nq{ed@mgP8?IFoOxm={$3>L&63gX7v&scDVMi_rL)XVOR`a`|dnfH@m
0FEa#l#q(ZCckwVA2tBhx~+fGHv*%-yETwX!P{!vCm8e0ITuJ~^0jC{4K88Z#i1~W<p^x}&%$zORa6_
U5KBdpaD9k$@un>EGX$eZFhf1ME}6tSAIs4<r(=Z*%39LewUI(f@lzp^fE50iEcu*w7>z>IUln+XN7y
*oVmFC~!3*yNS&%0();HBmxir>E~JKfqnvzai~AV7FKCojYw=i;~p!gaY6d>P`M5?dXa!-aj}wgC+Uj
KOLSNeEWoH?5+Rt=;OgK1)$VzldcjTk_i8i<i5`N_CWcQVAF5!<nVnoIurfv>6HO9l^AD&SRS7oogM8
Ty-$GbH?O|@3@jwMCl>J^GJ<A2s**h2Fh?FdM!uSHO>sy96Ru#LqhlBauHfegMO$xl2tmYT3xs(xTcq
kRY&RzMkl9G-GZscPo7MU-Kgz~QrroRi<R0eC9@4V1$_pu?S&BFg4Tpi9p4>Fu-n~6dPCp(FOl!Nd(-
71jXqW^6C-_muGCmoc4hr%9l;|J9amm*?IZO%rgyTQ7HfT&EjSp_2fOXd(^hgOoEY>HMeb(k(En2k>W
io@tKxG*^x8JQ*p73vrN->^g&g$DLl2ZKi-6vp$Z~t`CN2{ykUS_I3q*_~R;XBUe5`B}3+<Y*6X@weq
v9+|hr-)s6v3<J7c0?NMtorH{uoqGDr{U(ul`X+U25NzN+MzzmU4iK<_>^&%=`{_ywX#bS0n2lPp`rJ
9IeOTc;dBhns={Q(eY`rsz1uP8ylvGT?Lj(g*93_=WJOJ<T$>X~Q+{SnZ9`4S%=U5cRsb(zQV)R|<z-
GcpHpcJCD*_JC(sAixWgo)wXxusv{0S8;^>dGy9(%G)Ump*NnQP;VL_cOG%vSwhZ)b?JS<C1xhnWniF
BU3N*fjKV37((_<~|3Y+VWH_8s3?FM}D0nv^k{4m*ym%PD4yy2hj#1QB&L<6xpB|05?3UDa^#FyO<2T
!vN|ENvC`mbJON$MKK3iYYq{by4ztW2NrwNkP+lFKHuBHgz+Ifpn`j3$9Nm?@3@esfHv~LPG~<fp|}Q
?Rm!8{$Xv&F+Gx~eO^a4`(4p!CSaBzd95)O{?Ew$&v}k0*;oFfPeOY&Jt;TQ3^}7?gM9k;3XO|4SYp1
1D`FrZb_zE2jQ56#rGhBGOL5y%V8Xu-X|;V=ZJ#ajZ2<P6$THp!y}Os2{{#htO!A6i6v#&W-S57n{Nj
|Z1|!y&PymJrtq3BAAOq>cdljR=nSNx@|K0sh0mfSL;SZSL-K1BEjiAVA3@|{Xfq0>0ww(T_#*B{$O{
V?Q)14+73Nk*KM2R6y3dBUMLp&bRTnjn`T`gb$DNh1r2Ex*EbwD>~4brhFGh)Xa<rGOsOh5r}RO>i=)
JoA3$Le#XMCv1;hg#6g#b<1`Wvp!2`{8-R45?V&$}UDI$b@16*`ldQ)f5J0wr(Ea%dlG}_Bwu)&eK1C
c)xveyf3r*uo*@+EGl;tG!snvaWs3cE;csMY1b8+1ktN;@K4H`)r7LlUh`7g{%VgiWP;oB$cHje(zBj
Q2|&zB?(YE2vfW^rr@+R@P4sG)FSa$WqQK{UX9L0MpMaJJKR|x142i{bOsIbmTeAqjKoq@#HVIB`)Bp
b$A}|5Y8bAo&Mt94yS<R3P`q{ANCs`3Q%u~*^93M=~*a_2dAb0lQn||$SEq2;4K^xoYxF(sNi*8(u))
(U-hyU-s+Wi-`jN&0gEJYI{vc>&Fb47hD?I2oc8ch5y5^sh|eag}3019)&hR()1@20z+V+&k}VyTiYs
bb#u9QIn81k4R4zndPgfxYS;Rxiy<Y%D!Qp6my8&&OES^Zyp+vReEvU@&drKZV6`^koW-N8JR<nwDMb
tZ28dpUt|bQY1LC>;E~%wS2d-J5P2^4SxIyKYq(p&{-}}MLkBf&YTI|)8TorZVK<>;^%(&#wF?Ok!Bp
GOxK-FzGwrl=ixOl7wm$b)k_%|xhm6pj)HZWZ4-@SeT9$7g9?e^AS5tjFuoM;`=h-Xj4_R%i#DarIob
7yQo@?Apj)2f)zk#-%#bqc*`8@<CGwml7M`H=%WD2AdaA0oG+Ak6pjzaYX146H2t}i-U?CKrT<iF!C)
F&jVKs99^m}^?KGv=deKnU(5KK|fd=J%3+{i4OXbOa_R=-t<bsW5_Z_!CW9t4#&G|SVHRaRMyu9Lvzo
hJwTM<?I%UQ?_yB11E*d(SJ5Vehd$j_za8;^ZWK0fR3ugtCWHjZ&54VKa71hSoJELl|`VRZqW1Usf+&
4eD(qzI9_^mY2m6vr&b6WbESB?3my21cZkoNE?;vv`h3!G{n<2H=U{%{<yB&90SZ1xMv19c%U64FkWw
u4`C6A@1)s;wqXYdyUurXVV*7p?Ys&{!KNB4X2)O6pxGQx9}nKuYKJL8={tiRx758zt^gC5PkCtsa%&
==aGqsJ?qT`p5sm12V8G;O@U6D|TFaKHD&Na@=VQ3n6Zd=qj{%OF&{xON9tMN$uWhRN;k?pZ#3L1ST?
h6+@T)G~O)%AG+^h^QoD(oqsmpsUZsd>1fQD3OZ;|AC>!RG^>1<NbwvJm+F0=Y&Y-YKBU|f2~M&v~{D
(IlQ%cgh9nE}~37{QSdj~$3$fYXAG@?*x%p;HjvJ8-e5bO$beG3LOZ8p>t&=o~<KHKZbV#vhA^x9*rz
(7qaT{_)f?=hF49a+}n*PBh$82CMPs22g_sK)u8D*+WGD<tXLVa8h={NgavB(vCJrQS6P6hOwpxQi2y
>N-R7tuGTU)q8kb)$J{7GTQKGWbqbXdy(N4~sAct;Zq{(i$8N!qxB4_Jsu{0@@I}2CJ}xn%COAp6c}E
cuVT}pQO(b~hYt-o{T-~4Dnf~Dn!5|T5w^?K`*-SzO-021a3mwN_BRdh*eQ%6;N%uI2O1ij|4#)cfPr
9IFR8;FxG*zGrzTUN<V3`ZoY20fFN60U4!f3=dQa&VE^frJ?gxZ%w!l%7ju$--E^`ZP`58%?lm|kD-e
l3$3em==<?)F6vl5aP{l#uwDaeL5vHf^F&*t4tEMp!g+NIg?+s=Mip)LR(SD;(gl$70%7dvXB>GZu8g
9hg8yA{A-Eo1mr_p`GrB4z;=Zh^)v-8m1j(s6BbG?@Aa%rfhR4F{A6T9tUn02V>NYB|pSw3GamPj;@V
6h_&m1#0Ww5q|cf?xC2I1^c+@`+4AVMN|EPt3UH`_iX5)GKHWSV;LidIqy@s(GU__N_h}Ty6q-U2>*8
u-x+*Ma&hq`Sa*q0Ls&Ro*WbuP@_K}2{s#}IMmfhkMpVqFmy7yDdbDee<s_*UWAm!V7R+q84$=SOIAi
Wfk3mrcy_vlb2cqi#7nR`;FB~^polZH7CXt6D-tBG1}ao2F}C;|N|PUeGz+N2$`yMk}5Zq`*Lb8gF96
>|;>nWd|Ct<sqk4W=+yt=n$VJ=GOFiP}92Akg^|%oWbwIo5|4dut(5NtT5U$#3>+eeiLj!I()Ewcb4r
loBRGWCpV^r+5uV1wB{yk?GEbvg6A5K+@y|B|KLf<7tP5f~Z7l5Eb*z=|c%5NXzNYZlYp`=O!rry(XP
cw9tWpWX(p`EmG(L9qCL;cC0p#jYnw9h|C5gM$~f>ktg#h2On6n$qo*Awao6|HJECQp0FaS)S%os|Eg
<Hk`LCx^7J{Yey_f8trJh^P*-POuEoM2p=+|^Gh)|ug-L~$X{B<O&X$?iF2STG9bd-BBq^vcG)bE&#>
>OwgGW5NjAyTsXPs(a;u^a^zQ9ZR&gdH+eTVg9Vpy7-;dl~Z@|29+b|HT;N!7koH&J$vUi}96fIGv7F
Bbe)J@~8mHZ80MU$R8DYB^6-c*^5^Y!!<_JPwD7P>3-n)-_oQq?c{`>`H*ntG*Sy+W0?EO9KQH00008
0P~d=M;R7wBCHtz0H0g{03HAU0B~t=FJE?LZe(wAFJx(RbZlv2FLq^eb7^mGE^v9>JZpE`wvylVD-b(
5Bx8z^WT$DgvD4nH+nYVD>l3HlyDKTW6a~p_B$6d5*>2tZ_MI63B*2Gk_i=mAx{XcZF&GR6^TL4ptoy
Xff_NTA%OTt3i|*%G(%J9qvo~>alZMO7oY`+2Ht6*SUHEmx-d}Qdev@Cu5xa;N`IVn?_Eo%z=6)W=kq
135IA`CyeRFztaq8vQIrF1Ad-L7d`*&~u_Wk?s-d$iJwCn8c?RDO+lNDd{D5u^mUNE06R{T1gtvK8AG
=ow=j%C3mG-F8`Z^JniY?35SbGC?6c7A%^J^cJLw=)m3JPl`?oOgqGod8S(gX3p>?MHbSXfQoOpcAeM
&MICmp-{c1ywh2v@tS!85R>HyKUz-nn}lbb&UEUpR?{gvW+Uq?PS^e_{F%>x5JOll(+a=!bC^PExgA#
iSl{raAKYjiL_u@o3pod^xhiVz@O>nyRN!=)rg4fLmpq>enp%@i2Pe-{n1-Z+2i4zDnLV9G{+dsxPN&
leR(_VT7O3_Q{%XVN(HRmNK;HM4VaDKpKVqA*n_2`97XVu(0JnfIf!guxM;_!7)|@ZcbQ(rsKAqYbUo
Bjg$twK85^pLN2d0tXKM!9M+o?24{4~dU^_NQFCF6Ehwgp5uEO(fNQI`8rz-?;pvU~#!TWh!Ck!aws6
V~e#C`-6Cd{aNnI6I5;g8%tkP|<>SAL>F?!NLgkM7Eg`bu6a@K85uQK2A$cmjlH)u!1&NxM0YyRO_%u
$KtKpszmEOR7+$6KZ@d<(GalDpQN;zo}?Cg!i>>$w5I&0Vv(w&h&8AoE}E6(;rS+w%mq6Zu;jZwT*O<
4lYnpz0+_%}4yVCb<$pZNuUau)wvVP^Y)h00H_?uPw5w0VoXMTkxGz`(<NHEg-VdtK5|??N44*xl$3f
;Lq*J^&T|P_sf~Ood-7`=s{yLuX)xMAh0P51uE~irsHBlhAyM`53+S;NRlS+A#w)Wh6lG)Z1*l>G_*I
{tlgVU*}q@rs`9s@WOwZhgri9TO|W=lYl+!PSPY?`D%1`-D~IPLP|yg_~_>A^G4Dh0Vz8m6F?qFKxo#
N$~UaXBqeu0S#<OF3!95OzVj_rV@tjmFvd%JRCCr;a_gZSScwcAVFHVs~KEdOz!f{p$Gk<oNd0?aA$<
<J;q32JYdnx1Wxk*W>J|J^C=t+{uCS*b+dZ&AJK3cz$4yJ^1ZBeQXu1wM9*YYKMo&av(kf(9=HJ0>F|
`#BlY5v9adBc5~`D#TD@LIK_GYQqbCZWewTNU(e<~+qx`pSu$i>*xf;?ZLO2WHYY}#SI3QwK(YmhR}J
J{%}waX?ahr=_i47zW;e)${$`cCOf#j9PuR(^SAzTWFdQE>H-A(N{;R%&TD3hWG}=KXuflpGvo>k8(l
jadN0#s)T-*Q$NGMF{SJm}iHpN<55OQ~TYur@2B>~8yFkjz=7i?x^+;BdW`c;FmOyf<02&_HvXj@f8i
KCBY%TaIAZ2f%XHwt0w;H}~-5CD!?b2Oy`piLKS9v)?39&Wi*{b3eISph0o!DP|so#?ZaLk}kAOathd
!*nCEwnl+MObmz8sp#ls$tuik%e9<|0i$TD0W(K2)<Q}gxfX#_YuUUe?Q8QkqLo4W2au5FPk>BWhh1N
*dYd@WmkM_Z?xb3?tZdbvG)*G&cr?$hK+4&c_tbKl=K~F4K%6ijZ=;}aX)CrgZzjPQ1{hle1!O6(&74
-Hj&$pf1=Q2l4`~=Db=u$$dY_xsoXx;_BSSs(SH(WHxwrJh-~*gAySfa6%N96S;3wt63<q1i-0iS-G5
g4Q!oplsNNwB%W(&<h7catV<gn4OJD9laeY)Xo<Sy(@p|&I=ZlfI(-)H}|flZaij4VyiQs8uMBXXXET
u`XDf~d<x9J1D&uQJ|@2N-3SME4eYU4b|NPcBHgpQBsd0z|n?v_`0HOBr$x^42GjIWGIk2drzoNf3E{
lE5~w?Kp8YSWcVcM;@F_T{VME%5Bm$a(HdEl%tA2Z)kncsk&4FiPEJNaCj!?U2wbCDf$lq5r3^Z3@M<
Zdc*P)0Ol`!BqM-92U-%eRJ=oU;Ytt}c}iLe=shHw4gV><=zlhJ)+ZA#bRV}|Y%R=DVOoW1<5DTg6+M
szlv(9!1SwWLG<+s=sD&D&w9GIvVXHTjx6P?6c1}V;2WWntr*hpFHGsI07Y&*wLyN#hiAG|zG{V~jqJ
^Y*LSoM@DbnIsH0YIflOM2YM!a0lI^i1#BApX+tI0x=b}gO?zxIQCD#xmOJQ)~~%8}48#E^;Zn4!_wm
$AB{6tp8MNKJ2{0b7k)s39sHHJvGEAzJ>i5tPEqB@6743RB?Q1A{A>2(D!R!r%(og9>GQsnGw=3%mU5
0{}2RhaLRRh`^Kd&yNRm&QH&ej(XD{PTyU;{qAh~?zHCjZeQEr^geRvkMe*W+xBl~x4~^1I9LuY_?_l
iYC&&1i9r|2F8Ds@+Xq27ut$FP=P$eeJDyJv9qr9|4M4~@?+_glo=kCauo||K%5~QYP5BxXOy8<*!;1
~p7M>;tt71wG<!+N8+e~+`;!48-WT?Fr-pf|=UiyXi;#pF9gIx+PGs-yxfRSM#-|%hJ?N4xX^-A>RC{
#Oy>W)6m!dWQW^CSjC0YFfRY1OGZM7HQEuu4+RPdplaCWIt%Kw11^_;MmycdPjzy<vYK%2#m!7I|57I
8n$Fc+ia~?p+f48oP_JB~?v~MHT!8L|wugpZk+yu?2>$kOltDphX@2DS_jQ2Aw9_23$~~5w@s;-vwlR
)&L7i)nXHhfXxU?OI7o)k=?KuIga{j+-9noeKaD$ecu2<$%z1l;%OKtJ(Hnbf5PyLEr^$?pMdw|GJhL
~^9mekwu4;>a(m6@VG06xb>p(xCWjFM5X-QkXjcdyOb(mX;H20SJP2^)DlS$?XC%27X7g|f^Jy?kXxc
!jzFawYt(Zs69*yePbLr9SLL^q6gITSXMr?PfBP6c46@f3y!S+>*amHbZ&>!Gk8MAfKGFXHW0Fx!O`~
5}E(`s~xSQKl4d#cM>hiuM7>?z9!>!{mzN*+LRtImF}6b&_EDF{DXu2T-HAP~Oj^XnL7Qin(J70@gG$
o!l<9x%Rh3asiA@(k)hMSa^^Q!)0wfi=uY?`qIS?n#RX44tJ_k)+5Y7T8kVlfsm8HGwW!M=D;DlP<|z
GK^iq$VKR`U<A-x)2KMbor(aOuEmOQdhGz%{=x7g!R`7IbQGR*m(dLA7k(Yb^Kx!|Z=kI||7jC~*1}L
etjQi!dc8fpt=H4v{Jv3l=nu^IS*1Rxyn9E*`}^<y^SdFiFswcKq47rA&VTcDY&BNeXX`Kuft)PAijk
}{n5KbU*-~wa72om|TVwR&(%+&;Q8gLJEm#2)eMQT{v}!$LRc=9L{q*4Mezg)7JwxvuY>5?0zMpv-bM
(N8y{r3gAA`ml-0I+X214Fi8H+f_kU&Ka|HJzqR59?!>lF{$+U>Ky$5%iL@Cw27VZdI>M<%-mu|dFqO
g<!i0Dc#`f_m8A{sc~xcjP_ydQK6Fn1>58r$KfjPFfpiRfYw2+g!!^;yPuUAOKW~uDfEM!nT!^n+kgU
24hOBXw8c|e|P%s^qcAXFTcJZ2QarsBnhn<{tEC{O21)8TNCHE9kz*K{piNdr8i2G(#NJyS0$K1ZewB
i5+SEzMeS>s-N+Fr=#{7TwV3CPe7z}j&NVX2O%0tQ{wSs6H5kx1Dn)~D>gbnlJ;rX(D!nm8;q@pYixf
!SAkx%Xq5Ru=SXdE(f6|E@9XnZ)q@|~8>4$Avi&bt_j_Op+(x`c*gEhgO=v7Oj>R7MhKUuZYHdW`Rvk
(MJdSg|O#8it&0oKpK{P~Zt=cc5M%mC#baUEfeLz$`W$<LZ9E5|yp)X_i*j5N2>P%@y>)xs%t8v@J}@
a|hcFfcnSt!tc8#3?hc()8^@2Rlb`j0j6zA?ATR0QNPIq0+e!z-5dTAw(7sOz@(&gE%5QqsG=KaTkH`
Y^H=%p+5jFx(c6PNxK7(RDB0zjL~6d#5Jpl#|GxmxJm7Z2XRtEt0LTHu;(stI&svLPL8#f)u>)$G_s;
b^wlvdOB-{6A{NA&_hTGJ_6VhGD0EJUY;Sg()aZ#!U`p>|mH^tR(RTT7LfcpW4{2LOX#Wb@n)}P7Z=D
PNjW9jgi7Ef-ujN<iQ`huVVZYmj0MzGE!l-Mb()4fUttKdKM+6n!{UBPY@Gk5MbuxyNz;_*m>R{1d$v
Y2Pkw*_+ksUk!;j2<RxcQ4k?(v->*T@>sh4uYp^?u7L?cX)jZxQbDkj|{7Fm@Hg3T(4L1hZA+->WfpY
71~!&%gQd&FQzNXYbJ;w5hkPot;=C@1Q$*Y&qZ(;;*J33{9+Kur7-zK(dK~JgWgqtq&t_Vvpwzf=aEP
H||$~?lbQUV^KZ$<Kz7SuodfA0i5n+CsHL=K%e<;q*My#V}Vu^QW6#hgd?zmRYb1>XlqNUMLC&xAS59
UB*Yq0MUN(Msm-^opdJVg7IN~-!2Oko<~36dqZO+>#Q1c&i86FA(Yvi<HlEr3YT@7d$))d%X9Uw<!Ak
)b16x^^@D-*%K}9nVjF3|GEj-bKfYzyEW<kAYj?jQTIz)3noriK$R>reuJon`)TljphWyWoC@%>j{z5
T~McFTv+@RK)%9dodQIq%Dv*2sOj=h&n1WEZO!&^FPPPbn3_rJpuI`!qb5GP!M9IDnufD?i{YT&?&LU
Bwn?e<VA3y9Eq|*OhER5V$61-+z1h?(LiD`MXnCo9c<Lan4(wre>Svl7qTZ*PF^Lj56p<f8VDR`;+Z4
-A!GH0?E53@mprX;#-+iR}7*>N{gIXOc%opJHQlHEMXXZ!bn+uNjI!?6v{LWb=0fUPpMj*aDjfs1w&0
>uxCS97aDunW@cl1R~8!wHKM4YCkSfz&r-puGj)i8D5%pip<rB@5P>OMImcYVc#|`{7$*CQsBo5xsqV
{LV#$2=ANb45cs_-d4!Cx%U0G=vVQs))JK8SN;}q(uBHJuPg|v{ctah*}T9mO_N)ImLtM!&649n_DS=
5wDygb>K#t_&qhqXf`s8A<tJ;PkmJA%nn=~<c5XpKp(wlmxnek%I38x~@~(cy41!8DLo;07gRr{UqGV
JYqyO0!)G^u&Xa>VTmlD%B1Z?_wjtduu<-{G|wPNx(&IeK$48{1zIT8%q>BMm9nf;c`#X%p156wh)r6
Yas{<#*2F?G$b~~Kx7*{ST5{;AlvJhgc-^{5JzeQ?aDl>I1{D_txGpuh+Y(evuvl`9Ef28AYO4Lmf@C
{uD6Wu3F^IFu$y?JB9~?paYhtkWU@RYv_p@34N-LjCc~I)6@Em)<lx{D!C%v@UCf=v_&T7q<QR_C4-#
!ms7I{j5kTcsk|dls^IM=UFApl|LMO#weR;fxYA~Y=$bvKkEi(xsX6dpS822K$kJo)?8Be#x)n7S!#)
3^M&#Qn*(5Ha<^PBUx9{ZYr`E0&fC(wle<(EkQBD}jHa-QG3ftNwA_tIrYgU??ed`x2yE81m)!~THT&
kwzqhfm~DSwm17)fq~BFdCwz@{CBw;mrI^9z##i7Ltk7+H~3B(TgKyf8O_cM+NvRT%b)R78}S|c2Z{^
)cFgMADppYfM&n4FC!MFwFOdqMI8iRXRLm_T#y~sTcoyxi&AONdCt>y7$JSRsjTx<J8{}^fT|)KB#`_
SSiSR`0t+Drt^=OrZE0D0(n}`O3saE~ri=rrX(^q977<8CQy|V*`yV-oMtM7h(v8z_S;{@zwuDKJhk#
@uLjf7fbVx|=Mt#jzmp`^u=_Sq;0|`>*A&}A64x$SJP4(K*N;<(39F%yqk}fz0bmVo%h<KzR3|dOED4
v-H{C>D=t#m1ii<M@cG_&oJ`o+qjhKrHIk@NAwir7Jz!GT%|vo5Y+GtK9)uX`m2fc;BaXb)OE-UFEU(
8CAGe`YHHCtAUSYE>ct1CZD)5h1y`H|q}e5Q{zEg9n+#0ys)>ApsO&1}UUj63>A8Hw;<A6&|6>cpk|1
D~@RZDvAIQ=YDpH!_4En0d;%i&w>f2ZH~s>F+~&(95I=3e>^ZJ10tmhQ|zXPFZvi*fOikx;Y~K^d418
~#Y+)*=wtnhmkk5U;V|7(Jibm}YlD0B(cb_YMng7$L4EJgrH5JHg;8F5y-zZiq%w&2Y4Tc3(HVQM<+K
{XZhHuG+m~4pux@FlA8T7%tIm3({%~TzDg02Y2de-=Q0AdX8(n0zY$7mnVWB~dXW^W8`C@@NYPiUFzs
O~KpgRt|-gB?_a!*1>6+|gc*^s?>!R${1knO+%Dxu4q_juMjAY$6DAC2cu`@EU|Z1yY=n<9#fvq5%>_
nh{C82%nEBt7-^Jaz#xH_798g?T9pm0+_^xhh@*s)M8F%zoiL|7;hwh^bg3$#~0G{gcW*LQb}bwa(7Y
ESCFAaXkrlGQ2d=z<X^|hg<kP_EKa3ox!lQ!eIfC1c&M>jR|W+cabnrZO&KWI&7XpSL8oCJNJ*zgwg{
giK0U6{yF9#?a}Qfu$zRopJTdV%m_)Da8=zs-ndJ<=a%|wlj_|u=EDX81`=aAg^;^r5R%nmYC=yGLkg
iZZyJR<-HP@!mpyX;yr^WQ7P-X43SHuX43GCkCZ9^&!cy6ZfoM4L`(E1b$!!a)EX%M@zo#{P=^Y++`!
5EALD>+?L`y8MHcnOR*2Z;)OmDll-5M)muSRJ{bH?lhkSY}OA@5~_uGg@F&OsA8(A-2F_A!<X4mE;ED
Gr5tGjAE@MY|o%W<RHQH3K!^<FKA=C=i4)v!O0G*r)#U9!R;Pol;Kh@LRz27SOoI2A4$j&=g{}=1!5*
AxtE2U4Tm+gX}>A(FX{nNI(>G8U%g4MK>rD6zdIuQUGBa@+(0XNxh(%BA*6*X7{|$cFTRB0KmMJaBsV
YKng&x4o)f?D_A{y{}BaU#`coyJ#}$1OwDbz_S26_+*eGb8YdfyW~Vi;%&Get>S@;GQ-kfkPsdQ=3r2
+llB99KGje+D#?Lc3(63Wu9G-vq?tLxxiPuRc2e&ZATabew1}(HOy|+$B%T%PWMv*3l0d`ER3S>f+C0
D~J>*5<py{;+(qh4=;TOHoNQ19?UZj^ZQiq~ING+{-vH*U9JIeu=5vV`o$4Ap9)KLu=blE`pf;S^QU<
T18VB?aA-Ok7sEVvR{*^;~%j%JeKuX-G!H{sbSamsayFVH_;+e#W$5`}2ofFQy34Q;Qw2q*gCTQ6%I$
o#qPbsqjK}9uQZ_T9CAP6_6r^ky*P)k1g0MrUtLiPQ*jyxTqdwbWvXNksZ4&1eH@v;-vDafV;r<<WB?
KMwpF6mIM^}xGD;*5<rdblU4HBcjsP<!&+lI{Kn*4xtM0M60Yg)%fql}wss%*x^f?w=y_dTcPy>Z@>*
N_#%r?@!^STH%u?=uY~xmg%J)mLHC9AW)X0*Zhe57DX!oX_O3M-E&`xke*0X2@RCy3m`|6JMp>`If7V
`IHWjs6^LKPMt{wQ%)dFy7T&0Sw*5#Pb{uKW}~5NKO(${V_%wDb?*h=?BLtxKGrWV=6xA?#)?<K#(ZH
Il|@ny|rJW~RNKE*jF2B<+iO(rM<U#i>s<&vbWo1@2v;-7o6jQ6&9+ar!OjpQfv-WSNXT{ZBicK-qUu
+xNOJi;JZ2+?^n+?YN6dmr&a~J}wLfp{C1I10}T7{EK;%mrd0<fjVNX>UNAkPKEf)TrgZS9_1!mw|$$
aNT(8=++7J&#pen!+|hJ;hd=x5zv&YlR(Y$OzPm$*m?Zr&5lW}ecOKG5Jr<k!5)Tk6fMz!oPw1kWr>i
IOT$D2TGwhg!>&=Qj1X8(TSo_dNF;PLKQE5F0<y&0-6DL7Qsj+F+^&}u&+vDcf*HcA~9&|bQjtjtR|3
~~-131_CC!xLHa7-$1uM7_-6BW$3jOl0yz2#dW0nh@<V)=a+b>Km_-sC;WmC%e77oBaw)g19Dc}xy+I
B^lA<2KYi$GWGMq2KL>IXJF1N}-J^pBeoPTEDVYe$S;F{gV!T`WD2aW1M#l+xuzH%G|2o9KE0~qTc!C
"%text.

(** Lines 4515 to 4664. *)
Definition DATA_29 : text := "QJ9u1Z&%?bJj5{$Pme3thP5wl;XOg4SoWr+r6;qxfJtY@^0}i^j_$D=AKft5!f^Sj!?xccFt)3qbnfd
O8W0-4B~nf1EM_CId+2QbZSXI3_!Pe`)G!bI(>vd1@*7&3i;Tw;co^v8cQ4o?<g0ns*je8mHTqfe&3b
)9pQK>+lgyEyI4BU79JS-idL{qu)?CI%U3O&snm`*45EV_Q7jOQ4`t9jO>ByJS3h=hgeOifRxb^#Lt;
bo#&yMqdc^GC1C#F7n>D;)c3Gb?J97+NYfyNS+5{-3ey3lm1V(qSZv?hW%6q`^~9a-|Dj%50mr5cSV(
%vaQ5N#tLNghGHid-dcj423JHLHI(ZWDcs;;Tq~!JEE|BR`=>fKBsDVuUr5&i?^WO9KQH000080P~d=
M}9?s1w^I*002$_02=@R0B~t=FJE?LZe(wAFJx(RbZlv2FLyICE@gOS?7e?{RK>Y4e)d;#l5BDoNHF}
45G)$h=n_j@f(v9rRDz2!yF>`+EynFim4<TwuLKfLmgZzwYg@dnZ|kiT>D8-kxm5(K;x22mL{S4;#ey
2!RA)U@qQqo@kn??>IcGNk_1^pWeE)d=dHJyCoSAuM=9!u2dFFX$o|)9#{xE0ZIL-<`P2;%zoc_<v{m
=g>{PL##DUW+D>y1nIo0hzB>1~1UuP<8Hbl=@gcmAO0dw1S@?|ov?zuZ;SB;8x|{d<clZ>cT%!F_A)x
+*s}yVxjWU(VX!pAMSOr+#-7|DW?;!kZ30b^f31{j2js?EU2VU%~tA*q@vqV6c|+|H<N?G2nk;ynoH!
w|@V70W2?ttJlMEOH4NI=O2!#OU3nYW>bzSo8z8=z`q-Cm%+mUzlhNb_-*Dm8)stasW<nqiFMlHWhO{
=w=zJ4O~2DG_V1a$aojxoC^B(Rc)y`DTTI;JJQN${xXJ%bpU?X6qOk!yt4-eyf0cOGCK28fpEeM}wpu
TQDdM<0u4-Cyr+6pFU3P`h_Sx{;b0Hkm>%K|{<9e@xN1svViLb#$u4-D}^gZ}yZG|>-x5E46H<Z_O*V
_94Fe8s+eZb0_Z@L(6;kUQ&|NZ;_^RJGa^aV=)>gKe9%7~jIeLKb61zad1O$ZH$*9GQ5icc$WL((oiL
7W)apTluMF5m!G2zW88#0NR8Tg?JUJ3u-ks~TcZaO+7cP})vwA4L6G@eIk$JSWWwdmLU(vWG)M=QJ&#
f$#|+L3*j_T8`6Wz4R_k)8tnRgC?zjL$qp!oNv&^Opfcqf=LbUcWU9PA+K=2);;XzyvwL;=Q#OQJ0Lj
e1&ktDE?zQ|WVqTyJbXzsTv<A#zD44z8EW#$+5SKPa1VQioLV4|vw-s|%|l9aAAJLAadx@l!j5QQ9Y8
Fj*8nm>vtN^j=oMo@Ov2kahT|SpJk&NcjEEL1bte^1(iLyED9y=QAHXIN?A#az{-PBKx)vHE@$_^aM)
9PNI$0ZwTyb#<=?mKG!_DuU-c6eMlDNf_e3bM-nF)|9+yP(;tB>-~>x!qJK&8NW=juo5OVt+EYx7}6{
j`Hs)DIQC1~`&FXT&uqJQ4|Phc+qFNiV$}qdg}}JpDl%)L0L|kLoyJ)pRNdM!-gXb#{r=TO#$8oW9@e
90&qAKvmQAs-R7NdMQ-Iitn5h89Wx)1Lb?^`SYw_!j<#2RV&oIM&fwkFeEg(#)z5KuK4=TRg2>3!=fT
k6!G-cuVzE*BYj#yJ`A~h85cAMO;8_D3-8qmmN4=R4M=vaU>*V_GbB?L>C|bB(bm|V>vS5;3UZKRGNV
Pep5B{mJ&AHkC&yQnw&G(PR?Nd_IW@musVttX70kg(j)g0W9p2zNcy00qvud@1*$@rI+U3o~j&+g^3R
TU{NZ=jT)UnXi*6qdZ$WEmkS6|O^ih52Sat8Vt+-E~TMwP34kT}QhrA;m**nCASo<+*$0$6ZBd)EtzY
iK`=Ox#+We;l(t3)!H|uk^$KeNRs;Wr_c$C-&=!Yw4f##3d~8em&6?`14pd7q2W{iF21$Pz`kfa3SWH
?e+WpFo=Fl1f;YA2c*Ggejva~_%4({016ljVheX+_d=tJbSUUAFXFA~--UX)z}+lZj4j{Jis?Ith(NS
MXXnE(Aj_cNNrgM==3d+bK(#Q)>dbHz4{}1-$2CH4Pm`0=#fd@QOHbrrw}Mcz1K5!E9wURdosrN067)
-~j_ptfkZZl%$v4V3Os|(Nbw(QH`O^d32{$L~h<IrbAe@o<MkPb;G}p^<vjI?z0FMB`jSNk73|9Glqe
?LcfQ5Y-fROYl@z|A85Fx8pbm{V~*fLtaA>S8Rp?!_=-07k<Sftv5)8&Y@ewmjZu%wz05A{H=b^}SM#
o={ky}Gm6-%y>h7a?`waR5b>55#Q2ELK4UhNp|XvX=skni~({I|z|7HIqj$;OuHt><h!8KKS-_>T;5D
*iA|3It`i(l(ORl#@=!kS|0up*5n+hCvUlu>kB%@w4BWq?JZ}s#moh+LrtetGx;Lb=g+Wgg_y0rHXQ0
dk5y!FC4)YHkPjrzBb}8phIK}q$6co}&oP##_Y96gqtYf}ruzEuUVJx}KZY-H0<<0b<FhQIKX~Ym#`3
Asr);oh1gswzqxq{djJVCK)jZ7bLMlVHWf1$%6_Y5-a%o^rD$Dm-79C#s2KaF3BzBcgc?{pw4+trtUh
K(8`D6GF1U@iGW$GC{76Ai0Qn5V55|#tzu5h&(q@E?-=z3ckD2X0Pl0L#J_*#MzI)Qw~M)2#o4iQE$V
J{>ULPF>`Bpf`Fv>dX8F`qvyUc>w7Q!t072R6|C0rvH#Bup`kh%`nf+TN4w$=YK55T<sYpAOnk4wd@p
yD*xEX)(0=uqzjdS~8!GCCWg$2kn7AfTr4bpbt%H?sY~;1Mm6>YI4P;e7XbT;~YFV`dtKxs1E>yWM>l
&%x@pUNR-dlzmHP?IGo6M$eBxTXE_TYr`iScZ)3SjDx#iralzrRr_UQeWN1?%o8Z-*FdsO4wbbvxutV
|m#yvO-Ycz`q^j`WHWR2lm+a<st$B4$}6^RF-F^<v#D0ciRrIc=mFVd+N2U<9s%p9PU(6MYzwksJx8C
GaVCf$!v985B-7?>{_Nu6Eg8(pu7W910&D&H9DlKL9U9U=%611#`T6g8^b^l76Y@C*dKx*7#x8{npO8
=#2iA*i(;BX#K*<ms}Bh&g=RH$iWLj}}b9Y1T*I1@pj1J>&5CBK!U=d;W4FKHDZ@uN1BtX*IM$0BPbN
d7&=RtR0a%tuD#lbTZW>x#Gms1so?%2;iHpm;n_cUod<ys-Etc4oX@8+7R%<gYHChQI_52^9O!D4`Lh
uu)iA84lIF3JxRJc*9#;QiZN^5a@^_~Zu&y5=)rncuM#H(@QZ#iU9ZU=#F-wt3uCbhgGB+yM^Ng+`7l
&G^<WpscMaiOUT$+}z-(<ecki;pXNSk}8y?<rvz-${kK;&|y#wWtvgJ5Qy-SWM4c(#RVn8eFhG>XLD$
VaG4JVZ5WAZ60e7nvy-AwmS;<)lm@t+WwuYDJ@(cKWGWNL5g<zZB+i1LOLlC9ixOw7Y_8oCwFF;*&R=
vJSOdwSPGAG9|2Zi3hPF+h-nGdjZ4YgIpqdwMoAfSwiupl1Z2hXLs1Tm+4gn;o2Vd7QNxjUwodhD)G3
kZN8=6${cu9%2_`Y>fT}$U+}h=v34*=^vPaYHvu#GA;DcR4i&(L5?bV7=sW&|J4YxJoNn;Ol76halir
^viTnX!NWTFfZ`=ysha?0TsHJi!AeHvQlXDNFcxW6*VnwX1VZ&nMvCy3;h6eB0Y`IyvB3<4MkRhgDlG
R5iR0+?kOhg6UV|mo3@JP)d|i6}T985Vxt@*p`TTMP*33zT^hzirIF)X^6eyNq`g5iP0R>n|Otk<Bc}
Ebv181mYNRuuL+E<m^tPm;Y)>3%_BTVTjVE-3DI|W(sNA|+0U(K(j|AGMY-^ZYs0<!}Mb45e!F#8AEl
D!r%zLnfo%sY>FtSq(<9>fI}aePO%e9(05>td5kP2#nBtn`^otxaS7<XrUcyyYW&IV>NklU9S;Am*iV
xFLu1<%$@>{)1#YUw=g#9^PU(BY&Ye-;xhnTR-MZrdF|s+%yExGp<#|3DJZDKJD;nRu8QXFVt4V!V8C
2<MTXw4#AUkW7t!OT_WY{A`k~+(|4E<NePIP4luZ&x9y;@H9M4=q|z`H(!_~!b3P~LgY>(E{?w740m>
ZMAxuXiQXyE8cKMLzJUTd7?#bV9seDco?X^L$s+vl5gKa>JjsR@jEBv83f3V7K2WkgvjC>^Wq^c0?9y
K%W>BrRpnBdy}3KbbZVkN1vLWfrf?O&q&Kj%8u1ZJPBc}V!tixA=0u0x$sO41))&2g7+v6|+anv*3T!
PIei^AKt7ON0Q*)zIIxQf}_&#Az=8X>WBNb-lkKi$n*(fQqV_B!(Zcl7ni_eoS^9+h`^+muG0>3LxI3
kJ_N@dQbqaN*SRK$Vp9HWAY?Rj$Q5<Qj2|b+;>onLF}z^^AIOaCpAgUlWaFZ^KRCFvOWEw<3i{%4UMw
=#7oG5&7gJTnCP6m;A&Ply-dKq243V6KSrpf_97B5i9ruajzpUt<4{k+q+N<q^d<q7Iz{R&mmK2N<x;
+QMY&WcUCBxppmZM=-m7CyyYkWlxi$|6lHMY)*|d=IJhCtLW#I+X@*Xqw@<&a?Hhm&iS++_(Jqf3?fy
n?FZ)cNjeo7qd$Mwg?at|-T%-a>)j{*;a>m9;A4^MJ$8vx0_&$>XJf-)m$3VV1jE)cBI#f{}sv>fnPW
1kW2O3|*p7Kj!&(RB`RQFGI+dk8*(?h<!FEuaNeUWu{?nwKnJZ3U}(wKZs}^-<F`tXn|2cg2M5=dfLV
U}zpPNqos-YhosRkxX(6PmYzmuQc=z9JGk@$h*<AHj@9y<6thypG=E>k}*(ut+hoQPmZ{{*E>jG%k|l
kY0*O0yG>s~9;63p5{V^nR%<)D=@ea*#xwCFcnmDIn}oLKSnbx(QHj5_u0OFGgAGX{B}<}~gVA#~s3|
=8F{~4`D`H`_mO`!fv)L6GV2;jlK(<m5S<C}dTMnsNEpxLai{|0ou4vQg!Nqo54piNkgK>>^wL#MN+n
~GDx%+W76h>vEgWO^ti1H#o7{&D)(Lxp%vWl@*tB6H{wgkjaJpC5W(5lrS5P&AVNR!Xok+h%`&<SDa3
h1r&^uT<T!v;p3g(R}WX3YH<xB`f){u}hY-`Nd)?|s_^`W~sWKPgKNR-#@wmV39{a|)(SlTu}u@_h6!
K)oi9UB1h~)%)l_ptX>#zAbV;FZT=qj5_{FlQ{NCUd($6n<-_+s|v9TbVBygoD#<Q$F9OvBj_mLaN&_
?c!37f95i<wHaDJgQFFhS#)xJZ&Aow04v>Y}@~}y?$-`#pudMx6qy0XE*`^r^>eqYWKXQy-c-wkGFZk
uRG?-BH>F3$$N`C^MIdQdepvo?bbA9x4z}`oa^!;m4hn#x_F2`jt(s!_de@j!xlB&sQpL(ectO~htGT
_x{=Wt474Sg6J`XQ7n*Ys+r{qxLHWX%;vYQ7{}Z*DGB?G|%c5rF(>5FPW;-Ii2y={)Vi!A6;)z5~Vj=
$Dps1Lcazs2NE%I%kruq%==R&HRt`<IE4pEf4HL<Q703Vb3o>4_}81Lj&byhd`Z^a(up^$)^>pg~<Ii
x1-Fl;hM8(1DUB_w{sqRx9-On+(VE)dm)F(rS?LIkxt0_MR@0Jc-z@kzK3#X2u78fUi#rgR9rwSnoMi
4CG?hjBf>!!vWU~rA0SO>@8y_qKOdY#!vkms6a;X!^;J}npC|)0Hy>I^Kbm7e@$_zlqRX!}BC@CtBZ4
M+B{taADQ0@<A_nsp7{US1t0pl6gyJF963nh&=Jf@zEp*(MVBLCp%B5Z@!%Mrqf-dfZhk6z9oFqKSQf
f|km(d&9f>w;&MTzGGfXmIj9K!zr;opLXF+8Be(#wDnW3(MmPM|u;#;5h<EEud^vp5h+xyAS_D8lEI$
@nZQ#Aii5JR7$cxY;Xr4tq^;u$RrwUNd?2y3z`-U;WrN7hc4}?V8Qr)?KCWhS^}(JPb2yId0p;G-eaG
6BBpMhEUvA1kWrh7m3@74Skv|-YB7CkYy*&KGCGs3R-Xo)&UT7>oRCjJ=!OmaYgGLX4!4R1;`2nfO!D
B9$^Alw!V4^L?*%uW-$kp8rvC}imNyItAGMBnFLicT%FCCq;nUh1g%~=7fYz$^+X<9eV-b%`jj$Eqth
-(umvYBUj=jh3s|md+lkSN-7H6oP!Bxw@Rx3G^Jl@~RRB>05PotnnzRvX2&V;dR{nHa^wSJt%|tzf2T
}peNir+fK=y^LXIdb`<~LV6BdcPxaW==bRG?)Aj6loE(5}L|XeJWbh;(7?bM-Y%ZyjC-b#I(V-Yhv3J
!6xjj%Ad9NNQbb=fJ?OSF`2LB4D#N=$28|w4BUu9xq26Ub-p=<(R#-T89S^kjjxFubyQj2WvUZRnsb1
g@vtm*tM;iRuYAVvV!Jiv+R1__EC9jcr5Zve)BjZ4?{BdTfjl>-I<>Q7U|JiXeg=xN?pHFmsINdR12<
3$@7auTsxAJcZ#KQvPqmFCpU_h&~3J~w7cAff<JL54ET#CU<5VSd0eg;GO1ZFW|>e_4w?1!K4;egf1~
T5(Dp7whwtC|C*1T3bqQ^gAuQ~R$jMsa$3H_eVyjGxgth^k%xI2yYqhvYriJ2_GR+n*1^Yk<?KI*1oD
@Qb0VeKABALstI}$N?=X{iS3H6DXTL}G*#k&(vGq64cOFYUF%|hs5HmMBBe;<ZfP=4K<6NmOET9`$e<
Rmd&ZjpMgOm7o!mua5psfK<4qzYu3A%rFXz+epb5+zU0U)9B^T}!UkyN0w^P;B&Le)Sp_J2R_pC>1l!
$TOz(b)*AT*w2*yW1`jBrJ8e&rPoJ=&<Um^_i;iS+Wo<z)%v)U&li(Hi!X2j*D9W!XQ(ei2p8z(&WsT
t7{LljN@uYJdLf68{>^1%k#gkDY(N9%eRV;Q5A?C**yv;jCYw2RdN4C!J&4Iqq?0Gfoq3pS;zrSnQ^U
%}(mO3_BC#T2Ob+1YCnyzR4=!@^Uh2D^?GG3WQAJ=BXtql80%iqQ+ewXG*<@AbDw}v^(`2RE!3?gTBh
Zagoezq19%oB+Ae^jBac>wxE1<{4q>2!J4W%D)blAG5yii<0IO0Zisro7Gc4<Ml>b#tEY#bY|0+!-3n
MEwL?MUU)=IrsY?ScAw7ADp`18z_z>|P&zh(%YaKfzUzUiEvyxwHW15t7TKmG!?|F>z_&alt4Gvg*vY
ohkAxP8tUl&|jW{f^-o#d5=0N4Tu6k&pK}p)S#@kyUvN@TkmF)15|fqHLpxlR!^31aik_Fnu8P_r>$m
OAYt8-pOIE0K&<SlhQ2jeU!S!`E$ov9P@}+d&8(%1(9)B4<0QicmxS4BZxGa_U6<nSB}VJhNjOw`URT
xFl%j-sa5*`A0-ui@!{=k~;B#*`K3_hJi{RTINwQb?Bzrw}h`mCuve)hid;RVuc>U_fp}zAt>srG#Rw
ax}=W$ja&Ui|QV%m*EO1Kw4fKtMU7pZYT48!GQdXfurB&pAAVTQI>pWAT3Fa#>6(deaD;qcWAt#-b#f
_{|HG&HY3Z8~rX%y_<_nf_T{F!Eh6`x%RnS{Zh&R<K-O{j@Y_Jr|phY&ppp@!~%k*UiH8$T+)P);Dls
6UQx(&s^E`MY#H(@|iIk^Mbj{VZf|!?D!IewyhGkY4hq`hbBd4MCAzI5Tk`zOzFzlpF9n-FvP{EEfqD
SM;VJ;!1k!d)bPs`o<4{Q8tJ1i!CNU^m0H`ue}RXuc5`dAGTiJVmBkKaZLuQ^zmlF>pPy08HJ%~opS{
Xm6s#u@p$7dao@Ch5w`LdSi;<eXHA*gi)~^P>CI4txma4*-dJ5Tc3t7)Q%dBh~&*=1MoFOB_4>;uHu$
W7hS}kum?Q>}j1=N??Nfob$D=_Tg2i(?1T@J(0hwG?PJ49B%L`IdGlk&M?adr4c;Qke4$+rA(<u-@n=
_6n|CPQ6fK6#H~RZyuZ6xrn7x|n#9<QUW{z1h;NabhvaxDbWcKGjk1F%+(+f5Nb*UvFIumu}b^KXh<w
`S;fUphvn~u6R5T*PV+3_@;kn`}eq#Bak{!sczK@FkXHY>{L6%&>beGACxb*i(><Nr@T!L(SOsUNlg-
^;zd}^xd^LbhE*S_=AnUCKu+8*)yiw_Lfb7G?uoEsU#ANoDKP<w5_c(YD|Wz8=aVJHg>|=jmn{qIxh7
2msqN&-Vt$P>)1Zn{vYZF#+0F@Mon0Ot7F|%r9Qo|9Xmx$L;i~YQ4dIo~I!F#+EI(l7q{9Idwqg-aZ~
ZREy?|qkfi)0N_pJFbnm)K52b~#%Vy%M<tRT9${Rk&Ip*|iO<UB;HKGA@B0)^T-ySC1ut;?tLb!)MK!
9X(<^L|`)jMYIgJh@!^;biTHh1w5i(E<bTpp~oh`D@8%xNYY=>Kt%t+L0A#;*rnD7bFT|^AFddP6Mf3
kgjQ;;7Y8|ALMQg_^w57i39Dp$iD)2-PacLw=To&WV+W_Z$8L#AUOQafmggB6XbbcS^Lp^n-aEu#le>
{mrV;=sT?m%%?F~rN**rW{I)aVUcD+N7c)TIWBP(<wPeaK0LXU$<NRcPNE64&TdXEA*RQ?prz=2G$(M
1sC)_$*^c85gCm7^vg8MsJ2q{^-+S?=PpR8JumOI*<KO=BTDa1`MoLkT0HnO%DcfpRAPr-#`sgNyb1g
BCiCuMvVeS&i!D9GVC4B_&rqLswe9|Q|&*5w@AA~`1s^mZsLwT7&EgV}UBr_a^pQ>7Bt7yeW~NSF9&2
Su}PW;&D7(5vPs^VLj0y$_QvUK98kK*pfd%eA!94h{2#^_I!=VV?EU8JNgS(=jv$OVO@NtLdQiIC`Mb
HYkWL!YxMkCg{5HY)PhD&4fWg<1kh4Ua(T>RID^GZ4P$b!)Ql6Zdt&M%(G8GXxEeYcm^MPEDJ^{_awL
f9T?AYuNB0=7xxU<EfNnh+SS=~@}4fcrG{VSimta|GTUs^%CHQ5YQb%zQpC0XEDjLr1<l9U7D3L|o5c
bW3!3XoqT+P;@$iFhX%QVX<E|+H!ep0^%YnB6QyoAQcj7~>(>AUoZ_@_sqVPJNWT?wXOs0Z(E$F!7rP
ZLx{rn7$2GiuOhfno|1Bla3e5m6OU_*D}L(M*bP2Gu)xThC+*Q+BAX0<aSH}{x8`{z)1?~yWt7P<r|s
NB=bta)7caz@aF>Krd-LyJV4e9kIOBDdV3)V!lCz60W=`Q(;0N=<is@tW-@FCb<%$)(VpV9Jx+lkj0-
!Sb3D%@at?3FuJbU#V1%;Wf_*^#h9Qi%LdnC<}}-rfD13)M|A-_38xZOwxP|mjFaQ$kBID&5N<L3(*=
wJSm(qh^Jdwyv7+}d*dTSu>XQl-}Tak!N^EZD~ni0DGvhMI>lW>8}sa8+l2<5#bCyO7l<$rF<M#iS4e
<Qq`ZbEX=R7fC6T@~z>^s4Tov1i{Euewc&}F0orcu9<y=hBb`~4yc`$6xp!uK63P@}KatAi?BI$iN2$
M+u!PMR_uz$R2<#OnAxsm5kXl%(>wyf*ib_hCmQRlXsfeIGIs{)QQporztmDr(-vo-{@f;~_`YB1)be
PgFC1W=lX&<~|*Ewb!R9<su>wqY&(5}2=k^zhLgfKCjm1w5emVsvi-F-9ky)1?8rtKiO@R)#GkN%|^g
?PlGzG>{Lh0pkAgVzw||9~uy^_vw&Y+2K+B17lGb1j8pe%$$4*_G8~HwQ5R+n&qR%{*I(O05v@qLBZR
(ifv|ZMP&=?!S%3zLl{hfZrp_3`11isWebRHNt9$&#ZU?G0bzhuv-ME39-5<v?$bl_^w6Dp$gPKJ^-!
fA^5~&zJ@j2Yw6X$+2_r7U2<Wai&l;mawghmu3!3nfE{KIz4M$7_se9&cqol51AEigm>Tzru-?A3+&h
XP-Ck&3O0*6b?Z`DeZ@V3i0a1s=9=jef(%Hb01PAr$c^OdF{IkVxr>kJz;__ot}{af>oCN|v2%%XG7q
i4$Mn2(g9yFtJU0DkS=KqbC+y@~_(ZeT789MS`&EWn2JUAY1wI8ugeu?yJ%WPJq!a$>GrahQGJqEYcq
<SbUiPUMET4Kp6T4ych)$1a_PkRf*&oFlYF+4el<@oMj)If)L&blOMI?lR0y${uE$_BxD#tWIqPvN~%
T$g(=<GeG1pl;0y2NRNT=TqIDI^*yb7SBk4EQ}o<@X_}r(FQn)97%fjiTAn?0F)gFZUnYHzxsa_|ZR}
Xp`gAt~f67Nd_YgpzgCXr*(&suYJcu5gWVqy9c(GMZTAQR=dbf*1AH&7gde^b_)%!WH&f&vMVwRXI)+
Bh*DRRT5hP&AK@FEAq&S$ZA7_s8jQO)cP&)IKGu&i>4Cl##w-a`jBt517x7emIwqpzaA9}6~{HCRLs7
hyRl1V{2SU|>jFuy8r3S(l*~FX}vxBSU7K2Fkqa1JI_7t(c*2*@~GCfH7M6K}yym>^=Y(JchoZ_0=fV
efxVpbaMyr;r~WYk=0B_?57At{|6{PsG$31eU;KRlpo<YK*-vxrcYL{O0WDGEBhu~OaUYo%(FyW=duO
;Q_iEtl74leu;U;(INIDhoK{S#=UEO3`xfNa`h<Ny%y1s{hbwv9-JV36?WEf7I@6Q|TEFFe*SV(bg>q
z;>)j^Gy8VLU^zwqkfe3V~ZcFY&?cOV&<VOt1Bp8rsYf)k96@KXp_g64g9Sx=10Iw_A#)O{YWhp$QTu
<D^Q95m~TkbKXR_I6BoVroQ7W$n>TXDN1!dgB`m2*bEAp_!$3B1ex=bqO<f@Qnq<oKq~S(jS>-20k)W
CaDq-)PrJ+==p0+*~I~=ka>wWh+$UIw!QP1wc@DZkoro$3Y3o)FaC0>0THhb~q>o5<Ul9T8FVKgtqGd
C@}djbYebOG_M>32KLikuJmFbo?{81KjVRH>jKVK+qi3N#sb58^2KvzwgxaQaPoCGSL>tqr1FXO)FQ-
`QyNTD--QG>U^Q>U6+U_e1j1I&4ir>}O5O}wj+_bfLIEZ3*LtZtwOS{=95?}y2M{fvpFUfjS`OT;?Zq
ZT+^^GdKM6RBOh5;a!A~d8)g9bc)#AUz{kWXbuNBN?`ikqc2xgEbE^tOV?2FsC+xTJhnw-2?<lPl$sy
ETva0n~#hC`U<ZErY7=YJPBCyfZ;_K5CFzj_s}<6LqK*Kwey-@0D!da(ck2d~$=eVWnj()a-OIGs6+-
un18iB0sNb_H-{7PYTeaX+mKy8V&pE;NWpG|hLRE|91_&ZEl*zi@f%>jfJ4e8l2uhzWnFvHQpuAa_hv
pac*1Y#iqc@}vE80F`Uy3Utlk#K}JT=~ue3a+G)+FkTsH<0+TaIH0nOxCtZD&TS`)YW>dRK`>P6!(b6
K^qhXWydfVfww`~c)pi*^QTJzy-pvkN?RT9MC%8^a1@wgxu$4NPdJl5}0paILZnS`zp-Gd&9$eCjdrs
mx6|f`}iFy^ON2}wRhhjdAUYRSldAe59yD5`+dfE%sF_6bwOJ|!<6ypqKBc6O!a7M}-dfQjd*M!F+GB
vYZbHmRnp96d@AHnDFNrq2Dtd=x57=MM1;~ui)D3|QgSZ5^hp8y6TDicH$=mrjY@?<JAb1R@HAPm^+t
8uP#8?GR87uEU#Pd@;{<Yi{D7vhr7V)`srHFvsHPoIJ>Wv=Qag?<BYhYr|TIbY)tdV<{S(4<S~RwK_$
Dq)^Nb#f?j|D?_g2IQc3FkH}!g<AB6Fj;BL8if~mB%RSKNx6#P5c%lC>_mhe_v@d05Ngb2MdDP1J~23
=S3~bU=@xV8mujju_3yRL<4>Bz@yaUelMbN`JAy3b<(^?BPpQJf&_Cdi8NLAmCi17y%Sf6{uk8gCB1N
t~(M~U8-)>i*l#5=Y)0XNylj)<c*TCmsl^s1q{6bp`Q(t*9KU{56^2pM{lH`rbQmgCSmMMO8d!z9sDF
+j^Mm|&owIYe#PipM)8BLrdpBWa%lc?M?jU0)dwMBa}ELP@LqT2Q^A8>O6ZflX4A2iq2E~AfBa@>rAK
yXM+GojXw8or%Z$AbajM_(DNZh5-8^5!8i%jhQ+JvC+`bFW^J@~*>m0`f&?l^r?odvtL>j3G3ndMz}g
"%text.

(** Lines 4665 to 4814. *)
Definition DATA_30 : text := "Isk1Td9GZh&W<IybBBRZtJg`H^vV)6B1x6iWt)2*631if)9E~Y3MMS2$_lXq?saCcxvSTip%RmtO?W8
TZN<dSRSnFF`)?U|+GlA_IGE5G_@xUNcrq|>Ax$RIV81lLcCZ~U#;d@nz^ARi2HFi9vcN7!)>bpZ)*F
Do(~J$I=pD_=KH%kr$jjM`mo-mMik%ynPdg64H}JYUoyd6I!Fat<soXOBEzCY|1ow~V|HSOSzlhm2nr
3!_C7hz)$m}`)20Z+e5oW)Uc2b>j8|X`vG5c+d*%@G97|#^|Xrr=Z%kXG+f7r<N9lDJ&cApCDJ_XMp<
mn85A5Am-Sb7n|8{XLk^rke@^q-$<TH-9@AN!NC&~}PLUKT>1;@d3d=-k45rsPBD&7(6a*qn=R!u@6&
(3p~;Z79?>@IJaGley{KouSh|x(o_!*e}d5c@XzKtLzU-%Y5|uOv6vF)JLz<zlX(Q&|NNtKs0Idh3B!
|bUFsYz?k*Ol$rIb4UX(^TZ<o@_n?%C8{eR3w{BtXLQ(-X<3cYYm_13Jw$v&-Z(5+_srjfR%RLS`;>Z
Fq&}c<RnURTXGO1$&9~@q;cup#Hy&!!i(b>>TauFc&X<GIHg*SsrSBvK^HuJ8s7C^RX8a024!$RpNDL
_g-(fMJi4ISa3X?}De(_2R}qn~7SEGe}PL`_mY{qrX*^V8|fYM}Kj^2)}gN<+WvZJ{j#3K@u+h0u9uU
wMOFEbFK&EjCBGlkJ{i;XtH1Xss6~R7-i};9xh(U-@stN}Yo=*p-Gp^<VW^X#!oL*R<f1G$Hi<L(|mj
$iX92sd2cXO%}!DKmw1BLp!P-vI8qjrNSpE#e!bKK6#@v?zN)fm-2`HY(C@?l*+tW$j-Or%_f57&4C5
hY7!Iwwc|!x%b9GkiMds;)oL6q&BI)K4iUnOOvdI*XJwu(Tl5m4V@cjj1oklC8`^myxb++eYSuw#W=k
^}=w%2xk%8u?Kmp96gI$&#<ia&{88pjFGPOAwTEQWv`v`5DEVz9`LtR4q58%^P;}Cwd2IDeKHT~hr4C
?^bBDCRpBGhaa+R)4eJt(`yl`Yv?c&ln@DLO|Q`p^q6rZj*A>vtU!<Rcv073wg}n<%vX0Rr=KMSHtt(
E{k>#7~$t*I(^Aw7xLBz=R%xIdaqtNu8E#Rf7Ikf1r6BfU}1(M@;QPtfg#yVF|vVcPR7@$s7PwtHu15
W-VKMq0^E}GCOLt_9YoMb*8JKPs(5kkHa`=x^w8l3g&*sqOAbG2oNgwID`kQfb7%)lBu`djg2&`whj{
@PhusWJ{$mOq!8*xfe1Z_i)}Y|<g|5d%2<@x#<WGZ@O+mlfIYr-98}(vceC((j=SXrFW8QpNIS*}&%Y
)dP%s$kl5**De@A-4lhNwGE^r-^td?V{n+OAy*FckIE^5E+8k?LnZ_er%M}+p<@@6iQlNKozx@=L&F?
H<Vu}6cZTk$9(4KSAk2bjwx4Sh!_&dar$)Cc<X$hj%>298K`Ql9hmxF#jnoW#v5P@{2~YHK&HTX{}`b
P_^@ZG!bDWc^Jpadx?4pp9E1P>`}@e5u+AG?CLN|Mx_}cA=n;_wn)>AdB~rfzITLV;YqlIcAn4W*GUz
UPd|na&*`gT|X7iE6L^AV5LQ@kQ&TRJcQFK5K$ZE_BhN2m6*ex<hN4E3PvS$DJq%OC^sjw#Xkmfmp3X
Fq?9C53Vxh{kC`O1vohndZ1oDHoJ<`!#7JitJ2;b>a}GT|OD_cQPZ7{WB%lev(_)@=AOi^~&#Y!O5>5
w$K>?AL_$gY!48Ndlm8%nGxZi)AmYmOjj2pv=AWoaf9|$2lN-N)Wl1r={W~*<gMFky!9$Y(l4Pe<e#4
w2K=8tu8{VyMn7T3=sr5@kJyQVN%J(2nhFxN<xANBy&M@bCCbV@{@)_sdfrf{IL)C#7)*r|J`dmNJ@Z
kSC4qnQ4llrUBI)zZp3!^sl6yVPnD4L!S-{`5@Bxm3M`zS5JfJKn>}LC?<Af{)!;@VVw=T<U4yYw7m7
(e4z??{jmyUOKJE&|iq#F*51r!=#ViEqAixyW{B10Hq(!I`t9sTBlmgB<6U~ahk^X7@9m)ChB%_Jnb3
(9kxGeXRt2<?D{-v!jh)fD?Ir^{bO+a^3*0ixvkiad#ItK;`hOnt}N!;BGUNQv#6*y<;fMBa?#MVCAR
oLe<x?;v(~0-2H%%IwuttUBkh@T+$1MV(f~OW?cps^d^zCtn*29QG+`DqPCpF=XX|jEAske&ItEW`Y8
qeS3wxe3d{Be#V9_cct;j_i5Lh-U@kkB=i16^kIDhS8-rQ^kcO6`RogA^r)#tRvxLf10m1+xoOyjaU-
IqeZ*<O7$DPtbz5qH>ouC<dbEWX?HMy<cGyyg?3Est?Gbw!0X3w{<dmL0Oh4j?2RC;xD>nS5Bzh_Lyd
SDt_uVn`pe8_SN%WE-Xxh1*$<Ob`Iq7&ysySh$uurnSg-I5{0Zcot;?a#zE23n*FM1f*O?nvTkGt6s(
C->4aceL1zz@hwg0V!+mFSE9z{CpAMIS)hH0H3Lyz%7HHH*7txa$RH3ti32A9^;_oX%z&A}@bC<EaP3
uAwsjh=vZuX@gf=t|v?^ZqB&~}z&yeff=7*fe$!RQtbsPE)XrNX?-5D)Qtu5*gJFBd%pjz011IyLy@F
KQ|DM!BY8f!91S<}RYAx)g`PvhofR+KUyrUMB}ajRK47g*tw{~Au>Y`{m&MzDAWa@8XFoJH6kKx>4Jx
mIu(S5|a+f_B<KT3hzf{AIeH3Yt*<2cx8kTH}W}WDKn7ofM{cnh&KJE(YU5mzP>Uz)1x%Ok&EP;Uucd
lrWwgC^~O=cRK>y#~{hL4@OC{XHV#|<rgPLOR^moOS0_-*bmcSH2=i^Mv~RiUwOYxP7Mr?l2ezAlsxU
kx5_EyL`qKeded^M);J|V4z+x2aUO3uW0u@cq2(@?gYn=e^GlK;ZOd%G*Qalud1+yVeuN?}36QTXa=#
$=oX1lFnaq@aU0V$qQFT``R*~36<_(x8=rdBUUhSis^-Xt?9jcf%2xc~_9{E1{;#s`^qU%;%MmSbKDT
3pLV~`&x!ZFx<JiWPnB50zQ_vkx<7r6Gx+$h(+x#B9qG1ojFG$Zs5nxM|33zfQ|l=B^_whu&Q@#^wAU
K-=2Hz8)o3R5-c-wEZ-yp#`$y(oC;)kczJ$?}|lS}Cg7Rcf14BT~<ZTi`>il2~d8#v*Mr^ClPu(Ly{Y
==r~*SAvQD>_fI8X<~;OMxR*l(eExbj4<y`MwG)QDQlnwRSFZRqQhos@_@S%jEJC_+LxkwPm<JvdFow
pTqYdEWf-r1Kf#EmL6Xp$nvd4j7zWP;G+*BdRK@{6+x?WjZ}0}&I$<nOjop9#{ZTBi=Y5^FA9;T?3$$
I#0*V24ZyJn_dH;XM0*}^Q!~#J4e=)XRRDn(&srVa6{@>nDk^C1mUq2TkP6capBG|^XtW(ok8|{Po^$
1Fa0(Ntib(D`b;acZ1pRFt8O%97xOx*buMYf+!5DO|U#aCX%bbMu2aPCL(C`SAPED4uz0+W4i!*SjjN
jcidAM1O+Lff@C4J}<s>Ua|MmpepIBJJT9a2eJWZ#vZ)Wna<tR{d->?$;78A37>!IwOg%u+?X6l3l)o
M~yzw%OXtr*<ey*uO+MQP?p|7s;%-FUI?L%6)dhNTUN?z%6U$X+FQ?H`J4YqII?9;1*okNDJx#J2DwM
wQt@yqj2n3By%j%6g>ih<RTV!=h4J{Hy0jvk3gcRWI=|w_sW4g`>Qxm#O@%u!Jhfu4*$9U*oLBK2hBG
0I`m?rSO_0}))+<}qfMkINF2lg8J65n&lLlkstGwbE9$>N2!Kt`q`>L^lcOdzWo9oD!SF{my8}TY2=;
C?Pr7UMxNE3EM$r<7Kh?nlTML&FPs;W}o2GGo^jttO*zG6G{GAkHMerzfp3@XDTC{Q7u%S94L`*2=`X
j<%}Cjg*6EM}Nk_RoUW#eVt&b`?Q=y;9MK>wcQ}x?V!9>h#g4Aw$djiu&+!lQ=zSs--vJaiw|%H}`Jv
)q3gJTT;6ti$PVeoNk%VNryC60PTnYE6v1DPW}!Tw;cvFP0XUJU$J^sOe@0*=^6%wpKLztP3`I2_?Oh
7<z-;{);c3TC6jzf>g;heeDF}4n1#&k;jPLz(2QE<PnU3!&NKAvbYVxN3KwbTX_=tm@f{iMW{{!wj;X
@)F>e+1=qteDI4u)TqKnx;fE^i{$KGzLf(oFzw&UWp?4aLME$50vTg$mD>DN$_wR54yA%{aVg|-Bsfg
>kc=VeJ5RqE-b>fc#Hw=P3DK+vNj=+I2g<BQNIzG^|s{FUMv#P%{=t(nHom)gTsV7O10tfWuPMSneL1
~dZNa3le?;Mf~k<>r+Op+Q~J7uXgUL9veE$O8&D&&v`QhmMOC!hwhvfM?J<YV=0tc4R>F^u}qKBP~^P
X@vn|fdojZvsWd2Ad?__W~Z6M9>WZdL>@ac#IIU`upk^Y)2IWR&f`9R`4oe;CrwUm<nh_Kk=H)Oo`ag
vG4ugPl2^(&pa)k>%!IbhEtD*ZG(_r#(A=!84LA4GY<AC45@@OdmwDIUgx2dBZT&)$jDBhkTLo9N={h
fMGBL*h*J<%`BfDkT@52JR&Zi2f-qkyd9u9OE1)6Hn7cobn?$Zi-aiTfq9B_TeOq-33<xbH7wsT{7sg
yL{eST8WgN}<nUrEe&B<c3n`g~x7Yww{N-YL%Y(!Zmofagv-#VdSZ`Xs%Y)DKYFdw7WqdIK~^a3YX~Y
PEtBSSL_tmhqk5?>Ek|;6AK;SCSE0t^bv!pSWLq5%2qh$uc(-6SD@pcj4(L^)4T_TPx^i&Pzj1DXA6o
VR?PJF9g0%vNzt#p%qY8Z@<&i=j?M0N|^_4fs$26=(J=fow;Kca~#-5IeiLqVjg@~DZ^UWGPgW)Gg?~
4oZxp3pdB|eg1f`@Ax-*Dxy=E?ykQ!2XcC>%w^3aD(j&3kNgwJVujvYEx)7%IvQvP6$C6Nt{IAQ3T~w
A)(%){<g&7nyyWC?J|Cgmj)2ed-^@cwmfhqC0(tzg<q<3-L8is<F)k<@Zs{)m_=G(|1Q=rNx?-4zz!x
W%${if5<#w?(X$y)yASr?v}_(kd{1fG|;=fJ4*5{uQH7kg*49nlr9iGNA!Tk^>{z;6Q{M~jd2DGevu8
-|sJWZZLDcQ5T0vy_H+Iz5_0&5nECK{46hpoKjry!6v0`k9c>hZ%TnBpA>kk3$+e=y7oFOb#!|I3ZeF
YP1&OamYQElGqE7Ir1lXw1|tU#aY#25xut?7klMAjV|j>S^i(Wg_eKfL$-|6uTBEoKrUmk929#}cO`e
L7NxGAc=Ce|bn5&r{H}oC6!<x0>Xvqw*Yz`LcT$}i_ngFKR<!^=a9LKh!v{NSWKkMGzj6EtkGIS?_yV
rX`(MEc#TDJ^6lZ}<DFzO?qyiW4#oH?IqD<+^xQDV*Zi5fJNKw5RK3D|{D>xef&Z*#_M<DA#@p8KTty
Bx|dn?t#ajb=mL*pL(U~49PFn=+RBkt+L#fVT`98Yq4K+p^xnNd^N*0m|qIHmQZTO8Y3gLf}lTWk99e
34vp()tu`Cy17;=DsJ3#4J6XS96|ph?#o8LB~|$i7idZaK)rc>6dRZwN#l(|MDiPk$4FYeGNVdm$*Y0
&!l3A9TCx_zBrp_HHn5jhd~mZ1Yv{>0`jT{N?Qja6+JE@GY+{9NhL63CUIu#UH!Nk#j-;#$out--zC?
5oAEiETKru3Ci=paGR#0cCcwIaB70Icw^aE*mVwvijDM5evD0JN1Ow9V=m&3LyV1o(eOx!#YqYe%UZe
2{eI4BmY6Qt3-Ez;gkyHJ+=~LeU#NB0TUt+d?Egh1>mFD7>qL%iW^DTFsuWql=q^$$d7NPA)Gakxyn8
kHLb1jsAd7mMwT<4?-bS2=_Iu~_N(F=+6OHE5?Y<2M%hb!&JF!r;5F#8wUKCw}5J~mMrN8*p(iYXsg>
Go+%JjgaYuA{G=Vz3aiXTYOD{j;F{SCB<tK$A1n>;O~Nb7DqZvSrmcRIuzEK!h{muBcd9fy5<V4thPj
rdQxeHx@GMAuGppek&(U?eq+r)Iylq_v0}~Mg`drXI8E7<P7E&+MdA+#x%gg4Hm2rdQ4xgW`bcxv;z5
B_X(_EQsRfMs1Ul}Shb1^+wR39lS%W2JUMCIP$DO7LTCjZk38TRc52l^+f)ct3!%j(+}`cghC$&sC&r
>Tk=gHut~gc9)`fEpiiiCy;=^KN$J`YY+8%;l4qC#VUhK#AUZdB9whe5N*DMBsE`$(XpW52od+NnkIB
7YyI-y@9$Pj#k?I)UrZQn;vtfW==kzc<$5-a;*s&=6bO>7;5m3riigHTflHUC5=(^h(C;$;{W!|;$M0
$fiY^1$rZ4H2S9$;4`CSOqpxn&c0f5$2z1oDYJ=!n%JxtEE#<QU4Eg3t}F$tRS(HxHnu`!CJd;w!VIf
TcJOKtd^wfqpcr+r~tag!@R^EW}F2Sj&yA*?%=Pj8E*M_YbpP25V*JGh$bA7k272Twl({;mge(ZJ1<?
zr1>Pwg|O+2dM;}VUvz;a*}^2rrZn58WJ%D1q6A21CQ2A~e^3F6Dv&7YJ(HQQY1+5e1Crr7x&+9qKCu
&T#Ji5XIjR**f+*HJQ2G*eXElvEWYO#{Fdu^Xfp(nG`@4*F7`*DB(75PK8b_6`l$5`+i>+YSgX{+zqM
0|YLMv~cECR#j&)hn!yG6Ri*Oca=(cUgdgQSzLOd9v9^o(}uCLlNCpfkgavbT%5cSHT<&AsBR^5!1BX
Yu$o8wjI4BQ2&C>4gAx57g*$c=S?jw2uv_jm}7|A9qaJ@FX!9Mxo=<MEc~R^qT(7@X0nD*coExcOZTQ
s%n0?rjPFXfE~4xH|2BEf|8GfeO8y8T+oy&CvV@#gYF{i>r>67PuQ1<(K#5M!J;E_+^p3&#LC9dfOtc
rt51xnb5Y$C_F262-z)Jvbe|s1^wNha83W<=6w3zr#ca%J!<>hNeel1tB-#R2%_<R0kEDF(y7MD`78O
fCZR32>{b=SvOPRMWTdcc;9*Cz~dS~2dsro%Icffr5TgeyDqP&Y*)D11_7WSFG)}knD5#V(c@#+?146
lPFQFUC98}V|I*}A49z2}dYf9d|JXhQN>MgbI$mt*EOy37&}1<MD`>L(B>?8`2Rva3#Oef~NW{sDS7y
PKEJuI0Ffln>{{=f|#PN8750oQG(}9(I1rLA<kWCEns&X+GOm;lFl#3=hRs7CY*^!QnvP-4~yQ!+S-o
y6-AL&BC*AcnVGvua`F$&(_2YmsmV|!<FGV8;Jc`Wl6CekHKwz7N(I)^mA~P&+_y}&iGi(cC8R?!yDB
&2<MEfAuQZ_zZG$i9AufD+-fgh#!EKVv{>!37at!0t0u?zAXwMUyt2ru++(j>=3QRjP`~1!mD9Ro^pC
GIFLFLOo<0Yk^#e9g!8x-yCTI!(+qr`l`f-d&QTY0=KY}FC|3QEI(ccK<9ckuClpL{ix`sFKuB7nb<A
6o$8Md=DIkmGi&hL{y735C@*YK*<k}YxXLXI1Zv#Y@JqY1P8H;a6RZ@T>SZmsx{Jwd=Z{wGY76V@g>X
wjBKT5;&r@58tjha-^uFuW`A{SL%&@KFrE8Am!Y+A}+<Ozn$J9aUy1wtcZ#?zG5pR`}s`;o%!cU>TH2
?nFL9sNbfc9@b&xPK3dYEl6!2UB-XFYX|(c!><i~o8c$IZ!P@RU>hnQ>QyR#+zW3CZwl{|@IDFeK6v-
RyC2^D@J_-z3GX3z4~4C`HpW@{EXh=FXxQjO@OuY-6k|O6s?}YwhY`ck-+Jqf7{Kv@9)a#i!G^_ahQg
c6hm0{O9vOq&^QU(YLA^`XV!ea!Lr)Lg!`hn~lQa65l;D_n?_pztzz^R6-)-=F27Vn?mKjId7hB}dS?
`@<z4ymaMI&wo%*a@M4v=gV+DAb?JPHngM#k)Oi+l=E79Pa4mJ7?~;Kjqw0lz}{6~S*7{7T`sXe}F?$
<Wu6;av#tLU`xHJ0IQ-cst;2hqoQxJiK{$Tj6cJaBTEGS_#iJ@Dt(JzIN2uR9OJ)QDecv7mmZ|xC_Q^
WJ6gTD^tF8?gt;B|CE<*`2(<NLwX~p49`p9RbPJXUGgJTB5`TSi-G;41J8{PL`DMP)!w*=N4ePgKr#Z
nFJ=*oktRPdgiCshtf_F!q1Esb6z~qf+ptK89dTzvH1L`_RO1n~m)IGR|4V3r+{a7LM{Rg*!>v%~aX;
7u_f;$h3sVe`ZHO8~tST>*ZYSIJ>!C{^G|o%M{T}G*dCWzREo4VWwmo+Nz?Z*E11x0#+Vkva&tFI4-}
)Up5W6j+XRL&bZnEuF2wgdhh|=E!0NIAB#w#c?K|Q6vWKrElD9j4O{Pe-!v5Asw!-iHI!fu&V{tLtjv
AJzN7>Lhf60K*ohPR|UajV{mV@M_-kpoBoCCx#g^3_A)ShCnU5<LZ@<v8opxR2&x@PaW$eaEGf<{Td>
bq$KM{K{M!L^n@78RDa#;}sC|xq3-x9cD+qGJSMC?%$C3Dz>%6juk(N3gxa>K*9U?5N?g^WbU$6>%{5
umbIKXnZAb6>(;X4az*s+XV`H$`ur=nnq#LkUrikwEJJ@>xpS?L*0U>GM;*{%OBM$JdTI=FOTDoxp8z
2SRZy#ViA-}vd$nkBMq>N%&i>f`vFwRAhs5@ev9g6anDqPD1dUhkPxgE1o)2-K2UHmnRkm1_ExfYD9{
t#n6Af>1JpJ_3FW@0Lm@omj<jq$wV@JNJ-Qm7P8Vqlnf-AZli{l|~sWg~6tkZgOvh9MSBmQuR;-;v!!
KxK-Q8&kyXmCq^h%NoMx3OFJ-L803e@EzZ0PPH6L{VErEDb+)3L=E(4++m(T!%J}FNwOn;T^e{9xS?*
{__Jir*|wefd<(Yk=_M$Yy<vn0(5TNVD&=X2<m0GqJF*z*`^laAr?l~pHB8erdqmlA!;X;2Efp0fB?H
P4uLi^pknN|?H;TKT^#aSmSjwEbZoa_vFaGyZY{v5B8-B9+P7z5hpCzEzhWQQ)>qV9^=^!ZdZCzK<Ds
3d%h@-11fSuyJWRH9hi@;E&rR5v-LfQaiX*(NNX?bcPS|M2U{QEkPdixsogBBo^;T17>W+_dyV=<gd*
Be#X6DO4L7q-rr_gD0@j7veycKBk60$L1kY)E%I$2J88Obu2J`_!zpWGNwq+VAU^9R2U7-OPu)KSV|{
V1i6{vPx1L?C5xfG}vt=DYA9EL$vl2*?*IxGgej71L1*BZGFw4M#LhnNo-sp$`vBQ{y)LWNTLiJkZYE
h9S{om;vfMdHB3Eb~K0;K-A;%@Q^eX?}>0*M-tUnF>fYr1l+OiJn0-+UoX1grWiZh!lrBVlTHIlGw&L
f@<@#SiQOcg!26k?VPJ6Vcb~_*jBz&&7k4A26}V2<^l7U`&*K><5%otc!M+3R9;moiE3ij(e-<C!6y>
2ndyFYC>brO-3K=cDXtK{s9q21?bRl|5JYZGU+so^yunl>prTKFx@@@DEOQ$;W+PZ``AOKEyz6v;{EA
bR}K`~u_#nWTGP|Q7DrHa%O{x7dSHfjmX)WBqy3(wCNo{y-|Wj!4&^B|G0bWMTMOp9H~4WHp3k?1tzH
eNRjoaX6~J9)Xe#|kAhB}g1_i!VZ_3yyvtk5XqSi|pY=j<8Y*1>N3Au4z<C(awpOZ<4+sr`Z|I#B)Fm
ElVs@tZr9y!vGe)MdO4}DRg>x(bN}kMrq-B_l?pSm>%gE$O5G*wY+Lk*7JtU(nZw+D5})|C@;ft7DBf
TGe5QTA*nBa!x$kyK#>uKUx3t_9*xe8;pi&OCn#Q;Lskc1%;^vDCLa&)T4WX4{5TXv!1Q$Dr^pw_LdS
)+Du{dmub~2#Am>i+mS?cPdqAH%uS@G5TuvWiCg=%v2HfD1F{CO`q4SBCZu>26AFK-0l8Qa-xaUCCI<
pY^46+T_kULF62vj6IP@Z!j#e$2hyJkWA$Rd8%Z1%SAD#g3aA}~eBNn5j{kt|u{XjJT;$q?;UDNCt9B
52O-SW-B-y}k6D8xj(F0&+w%2&_VsFzxMghcN9Ejd5)n?Qx8o(}=&Z8xfy^akbie7fej0fNba`WM_3I
?w%C2p3`&H(w}24dhPzS2cuQKs|Qy>=<^Vl-l`rOJWqW%v&L=5(wo95Gn&W46sPv3&H111Gn^4GxVG9
6W!HR|X$DrAy3ZNy<tV$rxwyk5N0Hu_>Jic@b}>u%iQ-W&V)_%io4H%=)0_w8sP!p!H8Uj(h9Kv)ZM|
YKu$KmgAaa=|n$<VL3pA{yBpM4Z7*2nkPk#*=Uxu_P9+5Wq*GqtEh{x{p!>G_N59n^Fa>X26)=)fDY7
Xo<hC}izwkwH5=s**@f}IV2;usqW6dmlK1v`EXDq~;=ChWpOwD&OF!oqXY;WaEgFBRTZnZy3<iX*T@F
A?M15VsQ_q=xFpq+L;Qad|GniZ^)iurz*>Bwno!n$+yjad8$RBTfj{oLCmLgEU_jG<mhR@tog)Cux$h
T5BBm=c-iaPQ=CKq2lH2B)K?U>sCA`G4IZKMv9=P@VMuIiCP(J55_szl1ncxD`FyQVrhmq{aU}>D&>n
ba-^n!KC?HqxaZxgZ{dJ4h{q1mBc)NvP(L8=Hp<s?VupOse2df%t@^a&2(H*D)@+brxNu{+Mfx27N`r
I|GSJ)ij<~7*r*7)h;Z@uDKK*>pQOQwW$IkaK%@g<0b!5iTX=!9)&#{%p4<HA_!>o3X!pf|^Lk`O4G^
vn$iK|wKOrC+vcK{i6I{BjHOJScqqfy~;e;Q9w-XdCVmQ-|p#1lMd%!KY|r-HE{2dS|Ky^TucO~cC*I
L|>P^x@~yElC75<N8nb=Ms!UrLRgn{E=jJ!?$$qEzhOebNbnI=i(tx$%b9~5qY<y8~@q@-gc>DneNJW
uq%ZT1k{&Cj-PItDxWcLvCC&HQvOc7EVd!WUP`VWpzl4KmJ9#-tRWW$7TDb|i1+ir_1cZrO*v#tyIC{
gBxe^6M3#A}7&p#xNtUdPn3iE2OdMEbcl$^mL0<$hSAGB_4`>W_Q-(TU{to*i1zSp?Q#v@U#!g<RJJ8
kB!^`tEDNnxP3P~WZ@410)(b(PJ+}6L~1ravl8B#J+$MRZFwwN!vn$E8Ol?O0La3wb!erD9Qa=q+tm^
{gzee8LNJt=!0X3r<s6EB&gW-v5p=N~crD+q&TS3>vwG2K76!)MFO`ymDG&Ja#ps0*P>(49H#1eIG_<
)cYZ!Rr5nhoNxedJ=lnjwgrYkEfBo=&&vNafZddmz`lWlh+0o6mOM&iEtATE<d$i&rUjq4XA?y?&209
^h2b;0oR8@+uiWhF;3abZqwV#ZqwWQ5_>)l&-O=7!L#kC(Duh{j$5QWhBxPxGhku6g0}!K?3uTGqaYk
OC_LX%^giI(BQPNl#zO9iWC_o=@otC@@=<DCrGzlr)hV={LbD;W-W3&oR0QQ{#i3Vzgx(f%7&{btZTq
MmJv6G1`_g@!_%sW*tPaYwNUWBrMVwR8DHc~(i}?@`LS2xWwHLt?2jEi<<EJ(8$Mm-;@mu(AW#4EgCw
`tzGA9Upx17B~nk~nz`rwnTL(0pD39zuTcBI5XcDZ2Uc8DPi(|aP>!hzSqm3+63dEy2H-i__z5>BJs%
PuUJ8s+A*a#<H7cvd34s6-4W{>fu0H;Q#FX9Hqo%h|PJVawT#Lg+7iszK;hp6Em{*IH@(A|n!HzCMPD
r}<O^9Eo42zl#z-gYOQ@yz8W?Ef1LHNQGd`8F^dMdG7<5c}@m#tq!ppA@Ckp1EK~Y)(CALe1BhPtHAe
tLR%TWC86y~d~XukX5xFf&^84z*p0LSFC1Gg975*v3eO+((kly?e?&(JiLqXsPQu8NVMd1Zm!Oe$SPa
r^gZcLnR3k@2+>dJRi<vsDB-aQ(-iH=ITb&uV7;A+eqa%g5M5YTw2M`Yu5MNy_gq{SQq~%~yoKYfk*I
>+$sD*rkj0{TwYaxVx?s8P0|Ck${EM<=*5jL*!8BMaWzl;DBpaVMa2*3y};PsY5+c_)#fd(mO=N$BtV
s~B=_KY*)XP3-&S@G^#=)cLJMFHMhOQJ&Cv$%H)_@he&VWoaUMPjM2Z}E_BOdEf6DjY)Y_tH<xjN8h^
"%text.

(** Lines 4815 to 4964. *)
Definition DATA_31 : text := "X>rDX%w!wav3RIGq+gGD%!t%8>bNED$LccER1MkZk!mZ<EoFM$*aN~VoDxQ8G5=Bg!%L%@G6$QY4}D@
5{;k8(bhEuQidPjRaPdS=t`mNIof*e(Ivc;cgzfl;59Q?D!b8upP2=y2o8;uZ;uUi8J|XmXNE=}Fx9E
ML%Q$hZF)UDqdWRgs6f0pbvTlfO7^AO>+=Pn?EO(J;ZzLfkC!9ff{Zq*p>7c}XTe`bh(Qdt;vQZmk5r
a`=A))O9TuB%vi<87Zl*lq)luKr!fD5xf;>GT_Rvu&borZn^&t`j^2>@JxQ-ji&ma}(D-_xVmDEZ6T_
m&J@PPDSZaQ|pa1=-7DIvY%QE7Du<1J^Kmu2({j>*M7xZdTokHIZX#wq7u1Cz-n5DaUyw)Pl*2hm=qo
@|e!2+Fs-mU@(nUqtgJy{(^yEj#{r)=KhM^Nz_eV#<t3@PHz1a1+O^8Xtk7Y6j!U2Eiqv0>sww%Jnxn
Y@n*RZfa(zd*Ok&3V?a%8n!<L}CSGN&Vfch`;#RMa>3X3}1OWjI(zXH(RGcXem{NlfXA?Xgf-;CkA4L
31svx`ozJmc+mvx5l%GuKP&|g?CoSM-5N{kt11MNV;aLF)Zy@6<vSg3c%KooQ#;g!WhsukJqQFR>jBS
u;tg-P@12+*X^(XE$kwuU0>#|$2mk8*>59ciAyP7edlXUQ?i?9`0jOA!a7go!ef$%FbInYe%|NGvBVW
n9XT4oj!?DMn+$DHPe7fyv^Pgf;xpTfP2TYR1107A;jC(+Pu|mCuxK$*{0KZO>b(z8v<PF6pc?5JQp;
>52qn_3trn^EX?{OU30H<9@=Pou*Q^>b|j2o(t9~=%Jw3ep$jO@JLdf#YA7}MWRp5ys-tKZEmIm>(t7
sl3zwXgg(dZN}b)X8_QrQ@C-_pK3rF-6LE>q2$iUITpb*vhl=z;WS(Pe)-GWMml#^dFIb6oX(makQ%2
7&dx~zMg<l~C7}7**NZb06wik1emr?U0k1=3Y3CLJBBTf7&C0F?Rdhsg#(+Y*ZjP<A!^rAt7Exm=l*n
eT+f0tioQc@ovQ3^%2{E+O`yW(Nw!F?H87(cwhjIgI4s%*!A+-at{rG{jet}AD;;#Jz-_KPuPc^I1OS
=Cq;S6?svR-GZUOP4iuqMiZxyN9)nL3`LAiO^ByHeYKrO1#`?)Yp3LZ>KNnHTh)}L}1TrO!uUpf=(~*
W^wg|P469+cBTWg;nlW`S)2nM-HA1<|C#mxmIC|86hh(tZ&a~$(VaF@S3ZnJYWPNO@m4oi+3e;v!0#y
hrfzX_SHN!_{C>05t>2-sY#FW)fRUhhl3-E!ePB1xzu+m#x3qd!TpB~){%z_Y35k>U)SH+O$Ivq7b<B
>Cu|GB|jY}Qa6|=nb&$teyzV+>A$Dp!0z?ZF_@qcr3Gy*x${}BIZS`WMXe^{DKgTK{}$J{c4LyWwg*v
a<5Ht{Z-ag1i60r#CW9DQv!4ABwh@DiTKj0MtX9HRl{e#tdf`D2sV>7}<$yyzIs<O~0Rk?wY(cupvFJ
?aGd=iTWVaLo#xBpJ#V9<Vt<>U!w4fDHSiD-TUfd)Dmlg>M?Wa<rLd41nJW^gibwIMvK$&r*1nH#^vg
mfvUKxff{~UA`Ny-JtV#rwy-<pU`h=AQ`EHOT)F{$@;+|i~dI)I+n~WHg|QOQ64LXGTXy9z_aCyS+up
BF-hMcHIBg}csO7RJ^O^-j~_jeF8)FIOiY2Y2P)@Ui$nqcU=Ut|cYw`z4j-MLy8r!AocS#Sm6_HSp=~
=ZZ(j9#piB2!XIFVOOmjt0tFR;LB^GT?Ciy}uD2(FOP<ZC_4uE!jA=>9M)Py!K?uZoRLpphkbqUMtj3
}Ym*eM=|ux*A7rLy}UID=s(P?SS=<DO9t*;~wjTh3&on{R0HKhW9B5|=lDq%G+1&S|gfZ?E}EzGE(jC
(rx6>dnG|sF!wU>E{!!Ct<9!<aJAp!x?eA4hh?KGe^O2sPZ2;?bF+`MttIa3Od{(jUl2=3YuzlATKQ)
1%tOt;6an1EnL&TENBXc5oQ@k8*G-5TPx^^==YI=b%EDXfHsP)_4*J;62e9i4!TaistbEO8#PpxnS_y
AEKwzdv{SwpGYZ=WP>*~W+YggHIv}RYM0e4VLOVVExfc}tUo0a+nuP6pAfSb?e2tZ!z^&_fCeb?2EL|
$>b2_`^Vd&{7`dKk#%*tMDpAyEJ4ZvG97DqQ-0iE3FVx1&}Zp3<6p=JY5@$z8qa<9VD>CG1aPiA<`Wq
2SqAg;<;eZqrh&ZBjSH(%s+jMHJ-ZxiN_Jf%{Yn>c00zrTc}ITuNDCj?twMw$WLT`&4c<XT2)<uyQC=
aG_McMg;=LI{Vd;pwVztiP;d+@b}_V>oCnXS1ao9gj{f*Im`_a96bsYvVYs=`W;D&r;Hd{XI(`Ll*PR
!?*~mV{j&hx~o&z?!vfO2@?n|yqRDv8qhP-sGEh*8y6y7jn>0%><_?Q#~eu(t6hc2FB0~RvwUdz|Jr*
KfGDf4fBdp3u3%ZBSx$;e;WEH5Gt96I0xAfKqN2GV%AhElFyqo!1p`VNHT||}X_`yfZsk&`3GSM?q?M
_an${qelp7^^|L1d`=NSeBv%bCW`+NUy51hI8x$8OSp1Yp=+<Q>MzmV{6=duC#PiiqTt;EMBoZWW2Y(
NsyZ(51B+wM7AVZ8~;KKQegrMuipS&B;?%KCz`{vxDQ*SjkuS;g1~uQFjyWc@0WWwbpjgniRpE<)<v4
uZ6n5>XA3vz8jP+|s~n!-h>9+JfeN^D8T;Le8I$Wc|v-R4&0*mM}~{c0<(6<5*pKUam!gb|PbU!u+Bj
M6Qnkmga675YYHd{wEdk)#Q?BlglWZAk<GLTCcF98O9^wgbQNg)EB-1A-G2GNcJ9yr-f^xgb<6kwbL&
YeF(E=6mAt^EIlT9j0qN1(AwJ0mODBz&*eC+q9R<bp3Rq|<Mvl*L1S*Bk%_>uK;KS$wd89reF^c~BmU
l(q|d7N5&|}Xh@YqwBPDI|82hJB2ql^K#BS*3zk12(8`*g;$=`p!blcCw&2q3<M=<-3%kJzOS?gU5eI
}k&<@A|&<uXUgRm&RuOnlr+$~UuH@2a`BP~5vBPCK;6VRN7@-m@eE+df(p#x(cb6CsXrs%S+o?(-vBl
NUK*Vr7f)EKG4{B`(hQ9o@8g*~dGO!R}6{Va{Flel>VjEF}(nbL$RfqTYq5H;u0SftTZ;&E{B$P4X(%
ib?Y%=+!nWtFb+Y*+*;<pA_A+bR1@nC%f~RR-yD>bEZ{=t8K@VCSTwD5Ld4vJ40&ix5(ckQ9|BM3Axu
v=*s5$6LRq?S}qbgy16EyJ)3J1+Pt}TLT}uX&^42Lfn~JVCw*m-2M$V2u-iK+%Ri09HIfyh18H1UIa|
#KxKF>!Mx&$9D|0<<E#;%OS`rIGuMA7Dzx9rCB-`G;##xm!52xY0TvcHo_nXsO*jhq=QQ}hA$hD#c?x
3UyZG6T4CuJahv<Q+feP6fNg$6+${h&sErp#7Wvoirjg2T8h_XLmjws`9wz~%x^;|`0YTnQ}2mq7Bi>
4J4)+jQ{o*4784K#jaMwxm$bn-6dp@h4&n^u|UBcI=@N$8*fWmW8?aLZR?im)V`Ed7Y^W{4991r`NOF
2NS;r4V%=2=eSEJ3>BABXsB|$jUq~}N<YTMa-XdLFO->AQJOe4R_v50$5oy7w_Z?=L2^b0_1P$NLn5b
AoN+`+Pjac9n^&;`jowG{HN-We@6V;tca1QUJ2)}*9qikQ_O!)U+DdSS6Yl=(jMXS?=63Am-nYY%qNg
}s7FYh&oVPm++nbw}TD#fe#4R4p13$a|v+X!`G?Q6r+i^XW-1pjc!*n}R(U<I_$OXs5P?#g-M@}BOaO
8Nieby`2FWV|9RBH+m<?DU@d$%LGEsYdznrE(;k-|=GGQf{K?i=FUI`AafJjvGl`ibku3r{fHe%n#oS
IB3~c5i7`cFiPoOw&D?rJXnzs+Tx)`a^LGs<F)KQP>h1>PDmgP_-1PsFs3AV!Sp%w?y5R{W++SqCH&;
!}tiR7t~AMlfub;wm8KB`lZA5>6fOv*U>Mvmi0?e{LN}UfBt&xrr2-{zst_yxA;x*TP1#vi{C5a_muc
uCw>p(28oq#(NEf9p<lWo>z9%iJLVz3J&(z6=?!`EyX8iWe(A@ixW(3Z({jjbQ=5_vc7el1@w-#}uEp
=Or|CD%_=Q)|>ZTaYk8u07Wb29>7%d})*SzVH_9v~d3i_W-b@e|YElK~QcGmyE8Ty}r;=7*4UQe`;v_
EgWENOp0F4kL|=soVlfhq?F%1=Z4v#E~u$FEG*{%jQ59|SMoBy=jUx|hG<u)CBm7up}#h4yD5Vu;uBV
zQ<c{`RodkLH9s+?B!sB2@iK(rOaCz6_4#Lxig4_zg)_vq@If2(MtF`~g|4yoZu*=UVArk<)D{(iI#i
cNHmKsgok!%YX2c2(OB<3@WUeXfYL5WmtR)tEPDsAMjL261s@3p2#me!`jO2SJ|1m*Ya0975u%+UvSt
}<qJf@jSH)^*0yPd`K}u4U4?tx<%q<i@=OG-3Y2^UB;Pggh3cn#pzuxgD(WLFvf2mB@I@M7v3eEx3Cn
b^qK?8c+^eXqQ2jtGh+b5M!SjWL?GdFcHZ!$BbuO=LER&t;^_0KR0Bln<IJnvm*ZD<Qyh#8ak?tk&Dn
3J#-a=?_7RxC~Qf(6~mWVdZ-&%b`S!mx{DT)Jip?IHH$pTmG2t-&cx0in-^gf6r>3#OG8qRHH&VJU$v
b$}o$caXg9@~V*XNUVW5lST$y=`Q5$ueZ>RrD*=JtrM&o^UK&b5U?*173=`*Me3aIMV<+uEri1g`@fK
+6Wzbv){zk?BWm#E(i$Tir<-s%TFmfqHhU*=!c#K-uA{`MOSWO^zK#skvkX*fegIXN5OByVW(DU^$nc
QG`D!~4b1P5Esft{>@MC16#2S0g*piS3G<7=(FA*6F=oWAw_YV1P?IYfr<DjlDTG9%)bx~VF*mQN6Jl
LKXpaIVwmP&&h-0~nrW`f$QT{XL#cK|WD)xh$Lw8gu&?r6$;W_Lk>yFL~-QTA!vhL_(MR)WA7HF!{Em
_bV`3l|9N})Rv?L)~12##f(To<4<8s<QjO3@xAu1@eOnl3a(f`vk31W8USaf8N4G_-DeM589qzV5CFk
ZDgb(r@aJB1u!U1e&66Y>`#A#Om_TaU|<q)Ot*?CP`8$*7^Gz_s;f|8V1|mIll^Bk8b|El9s1@8+NcF
=@BKxYi}r8o*KT}s-WdTWTEA8leIiMD8+^Fj;t;zex|0-`3BS^q2;;a5D#*_D1snHlCzd)8AySa=Q~B
qBbq@daYS-S&RU+d!mU6QYMztMA)M4a;X=(L_(SCNmFjC!dE1*H=Za`E(0?`tUwnnC=U>%A#EX_Hs-A
;lmoGv|N*+<V689w~&rIw~P!A_bJpcxXpoOJ_=>6agaqA$YH3?dtVx>LxD#m+F-L|xsEGCIR(D+0OjZ
b9tl8QF6AF)=^`iM}nbG@1$g<?6&TAClhQD}Y~649<uG|7tQ2ky}P2nmrjKOkcMh8se!BD$OTQWsRC`
~gEG<&VcT-0rF_SvK!RE#(gwBPoB1k&w{;D3wEMLrX-%Wf>#%Kf4R`YD*#)_17jOP->@kGj&CXX!taa
N-O!-RPc%>1BI5Tky}|Yw_f%W-bbpWTne|MLQx^C6>B0uVXevH_nJ`rxKHX)(Q>T|nSK?G*1B3+Pg0F
YE17>lB!5ay-nJDTwV!A({kDp6h7iTI&8@x_4@jNTB$d=F4YWTglnt=+5khbA4c~w`wyhY4*_Is>b>V
>25+a!WiK|NSLfg|zvbtNl*hDTB?Ix+Ev~4>E+Pl|H{cPb@(Xd%3+m?xr>E!Gbn-Kh34YAS!uNHN%zk
UBN(n5UkJW;T-effsfg0liWk)6Ht3g>QH5nx2|$^3N{JqzcHj4L`zHCm#Gi&9kR5)n7bnjXBcnSnAvm
WO46Zedx{mAWh|+=|vnsCr<rS3ipGPPmP*iD9Nq)CwAn1YRpCmd2vHNsJDcPq~UQD8>uW^}uZGRqS%L
-r=s)=sKpDIa6g_Pwyor*86!Avk)92xNotEbtT9oNL?c9dT?xeQgP|@5z>M}-XQ7o>`HO6v!o*ND*L`
sVMt4E4U(^Tz#cN|1BG^G@y0F^>)nZyu2gs?PP$s*mN@Aezo$Lc=o^=`ZxmQMvf^I*EAt#H6mQQ{R)!
o$r`X~>#Q{FXPiBrZwh%ZZ+Hg0s?dLkDOG~RY+QJYux2TodChqt9#Nr)e@r-Ezi^ArOXr@_lk6l%RMY
nn4j1A`l#pRV2AA55NL;KG*r}d{=OD^r~cAFIDQ%4wk4p}QczxC7hYf+wr^QSg<Px0kWKdg6^Q&@cai
32Ic(Udi(Qpy*-1)dBZ<7o|=)YLv>p>*~O-rL@CAf(l;Wb`@S$5UCAQZpQ-ea>>fNL#tQyIA_BTi;y1
2^Z^DuiNk`_(?*8GBG~oeA{2WU%)qa+;u(4XW~Rq(Fsh5KPNtFKQ*bDy~R`Vt$<>8A9N$l?3<sGP8%$
lb-a+9yyhFxcxkpGS!gtHjzfv{w9Q?(c!={yE4>PzL!Z^h-Nibxa5ha^^@L$A5(+#SNt_UF_ua}0kCM
@+D%@~jr@5Mn7zH=$6tlLOKc;!2L^sm3+?Oa3Qn=exQD~cW+-5yZ=?5<W2SkMLcT+H$O8ZH8mfdVb%s
lPkR#{>_SBT3yX7nxZj#C<N(&_t~92@a1Df63)7$q+9si(G9bG8ebw&%6kZE|OYo_x2-qbZJOD=alpq
>8W0e()%nbxx9mLxpELl$}w^Yc~WZ$qpSoxa#h__^2GubG`&$&NQ?CYd)|~^SV?zC=qu*cu|CW+xEh<
`DOOT7M;A)Jk2ZLg&@KkKPvpF@ngbI0)EEgCue>MhB5uDhl@Y6=xp0*K5Ox+aHHk~@#n{Q_p@FrJnLm
?Z`&Stvh0GZ#j~XC{22FGYgOTCH%p_rZ6o?we;YY`hwb?FlZ89H{f-8f4z?XFJPSXUh*;}yWfh1+DY^
HzRy|Ta6s&B@?@>{0U4>7c152?myin+W=Q<XK@3xPf>%1WRa_t4-yX+ATZ~M6?s4kvpa3Q#nSO`9tXw
Oit&y$XkcCq*;+ApD>AffUVU&vUS$?NCQ=kOW9IVSEhY-|7F3GszXiKl)46Sq52F>0=|I=sBv`P(C`M
aEa!cP<qxR?ThkSDqZ&x@d^Y{nV=BOyaw0tzmVF_LdJ}bqg#t)w`JGE|#+<G5ZVLd2!4(6pg#n9`O5~
Q1(o3dtB@R50rLHyU%s4IBWaGukuOHxy>7yio{;&%M_*6ZdYbM|9H(#>D|)#mNg$rG{aF4OD*EtS}a@
^U&9?Io^~&bxP!7HKB+=2uIm|A>*I-TW%3PlV}d<!S&zju%x+vDopE}9;my-iKN)8C!@GUL<24rmA#3
|EpkApQ+tKK8v@wk;&f3Fjx&Krw+--X*_B-xK9)_DiToUmOO^G<Q+ur<Je1c;ahq{yuy@-X~5x5-%6j
XkL*+!@RI4<H>Zi&EG`?I|LD)0NvYc4*2%J(#0_7dO5ZpHvPagry$M_ndvvmPsirW%*9+Fvbp+%vGW7
zz||kkdp=evr#OF5)=DXyV1prupv1%en5h9Tl#&-MGOG0gitwv=Tr~y9BvUZ<K$OIC{utt>o4!1UVvB
bSXS8SCUZ}g=5!Fiu3F3x?<e5;bCoNZ&$1wVN`gKmsqb<Y&G7<pE8rO&6}K9v&MS$YtEIcVZ4fPQ8rv
ZtCA{5cgjJ!psnAMlIY4#+e?OC!Or%F?3;^}<n23(YD$BO!CKkLdZq9trG~?J6UD(!b|m^_t*pKh=b@
LwkUl_`x2uay4D(w{wYjO>XC8bq!q>Gl$!p^bcdw62rCoMMs^;9lIYpKPGReWxn@pTa)CHz1vpfLPom
oQ*V%!UCP3On?`##yK;Ov}&{VsD`RdlWG`dGn!*9v<<ihF)ViyEJT2MdZZcCa=U$C!=Y0cLb&rHuM86
LY$lR2*vlYN2DjGPV%a50{X)7~70`3QuuXhu8yxRoudht<!>|J*7K_5{HR(?Thx87UOcui?#u+15X-1
vED=J&hNJ^t?<{j)7;af^Fk{6e}IX=Bo{=_djM?x$|C9#v=AdK-E9l-owV0Rcb5v){Gru@C%McY>Nz-
Jko}^#McYRTXrb9#bhUnT72208XkQ?yNw(dhOYtf$L$h|I@JxQ$g~k?hMWgvIO8rW9BZ2|cuVfFSekF
Sh`jy561JTtap{q$Ir|dN9YO=GatI3{9T}}4v9P*fe?k5}F&op#D`8o49q7>(gPr75RtBUtoVr)msF5
vw2HqQCwH=aM$dw#xmto2gi883@34H?T_EiG*Kmb95a)qQ@xdyMrmz9De4G{I30efq{&uMZ!SJbK4Rm
;w78_S-+mwp|Hu@7y*bK$*Q(68)@~N0dYL>U1C9p!spWo_-Y1%dPCbea*^7ls9e4n8UTP;(7%un>A-S
dlikxPKBxN_Ul>rQrOdeNtn&;KM2#?{;e=u+rJd1kNpr#t$nX}RoP30>1+Q$nBDB_gxTG`R+wu03Sny
Oi-p<VzEGHY`&?m$*bB1IikSFRliezuqU@Q%>}NL%GtNF*m<jfw!W?3c7v^w#v@l26Lxnlk9wf|Edk<
kww09O}hW&nF=GgBMrp4YunA7bZ!klUUJySwKl(79$Cce%u5*@a%;yXwCSHg<>i0uc3b)jfWgcV9)`v
=0h7}mFhbt$YXg>?n2&kO5nSmy~V_Ho$fWI7HOn40N07GSclLLX)yE3D{p?L&q2fT*wv$~aTN9wIz&)
Pdb!SaFn>y^FA(g7rROJq@e3u;PqiyN9sag~9?mHa1=q^b4yvbl{w@Rtoxs^@^ZhSgQp6!YZ!S`#@Mx
+wE@&D~>v~uM}2%6l;GzLq-|58`(>Q2R`Am&lc9!u;vM?53Cb~6-&$Z(ZZ^Nb+EAd!rE6@yTKYFthj;
B?k}urSi1<T2G;w8RS&DTu!g|uA*?1?f13<z6s(towI8hKCd(+t;q43IkpSx_!ip=l?WMvx9M%oOItt
d;g>@{f%S9qSV`?3tZW&=~Wb_b6Ry0nq&zvl-?sYeMjFMd@NiH<C8!NjEmt53FkGZl-AK@}pV+@*iQ~
L5;1DDzvc@^P%T3esyMvqiEUP~z@Z==UV*`<1taA|Gy$dFwwNG?7`j~v<Mxa88_=wXpvc1tcQqsMgFW
xeF$YxI~YyR4L4^hS?`vdcorCB*3QjO;R7axob_7RxRfl1r4)W2x-&h~(1G=&?d}=_g#K#u<ZF%hYQp
IZ<D0FM(~Sk2IA(I=h1{y0vY8jNZrMX`)W+TH!u!+wND^&$xY-3r&4|N=8=&kM^}T6Q_ma7Pn|$Taa3
uL>oN18^&KgUeA_7$L+ogGh!MH`SLID1$CwIhS>c$n4D)vN>@c*FRXIS)y<Cz_YB3EoYU^M;}kaAPU8
+s`#tQy0c^HNuwPFn#L2129)>ev3QIjpqOagg&nv;BuUOtp5+_aKd@~$%<||z|jJj+K($Ih>F;NO2hD
cvvf9nqEf?{zDXmPx^<sn<N3XWK#3XZPwdTNz~czfrF;<_8#tSaM;*}a{R*8+KC*|dA@FaAoHR~v6wC
hlnr%nSE;R<uj78*V{fI-H&YhSMmJvZ!>*1z)%(CI*jIS=|#8D;jaDO5EgDm6Qm|#MULEAjy8{198aZ
6+141u|-#nm~TFZgTLad13$HQO?7<PS~F+yUWl<^xB1bPNJ&n&=1{l<`+2bk)VIEA%Ai3`dSVEQkb?H
kQqaCe3RIAS)<O!rYowq(q<};Kn~w5lhs@!XxKvEzT=pZXZY}#86K-MO@#2$~kLJ6FCro0A_Iq9sgKY
2zlt2R73pTbQ>Jk#gfq|(K*AneZHYv=y=wQ}w<LY77cMHHQU%{+8Y^o5u7~0pzrkX7vNi^RuUbeO}-k
91#+T7t<;zNZ0OL}oD^yK0y!u+Xs+f6f+solBhVroa@M;{<DW`VLp#H$#+X&P0{4{_^Anz3xE)_B?CM
aefyN*reQULu%azdBvnw_(44wB+p@@>zHo6H=@$#v9XA_Wjc_HAJpiWJ9=Od7Fp0k9KY&c~6RT9IV(T
62hg^u@Od`zYyPiP-4<B8j{Ah9+X%zy1Cc{a$20uXlWfhy17@e_&zw^)A)&HYl%z6hti~?u<B8-Vq9T
Nv#_E(E-nXt9Q^@EiC!#7DIdw@iA0_IL7x`vZ>{W=C=4y7*6pU%!`>a5HN0R#Bkc{^w*!~0Rb!8Cyyq
a?<{}mcEN8LzXJ4(`nx*lfyWd`#93Aeo*S51WBl$G$&24Hc8}W>dmAL!v=z+;%F{>zdzMAyvbC`!JSC
h82=T39JnpB`s9_k`rPC9g&<8sn7Yh5gDaDND{CdCO`b*?7GrGPlYdy;G6=}RM<?QmRs*xml`?3(*YA
J49JKWY9~(y9}+_I|L|+)rA_9QTvD%J-A{eNr;Oy_hQ(ly*5TZ=$QN7$9G{7%GbIPh3!XPa^h{53*lA
R5LfU^gzC&J=02jD(=S~?P_FayCIxLSKHtIQpp!Ll{Ry*t)j7Qhd3P7`Kr>^#ig^GCEzNYTo-BTjOv-
-kPm*3MjY-S&g&Z{-v>aCZD@0xN9NkJ)Y7DIyNlNw?!Fa2(*S_FH*zm5b9u6n@Y?O-waVQ$?<XR3r)r
F|jM#?wy4z^7aDBTt5+cOrYH+dkq)1&1DK6H|P0v~GFSC0aB3!L)$+49o#m(wnSms{1-M#5K>t{Ba9P
e0oU+Iz4g{3Y#u5TA7GWtB}O1MxmKM(>G>D2Y@*i2|yoo2&nkK}QXTz4b=U6lUT!ZO#2xe7jaMxTuf!
kR0D{XD-9mnaik*xl%VB4ufss5*heBXG3pDpaB!N>!q$RX1roAsx%A+zcKZ-F)g@RI$?vgPEm?i4ZeJ
H_!dqc|VpoFEP;;@7-*lB_5c}YQ8Dr{YN&cfM=Jc=bmhA=}MS&BFqZ+xEOxOZDjavnyc&ghCO84LAKq
7)7ECVgX>7(KEr8C6Kwh7xvtm0vXza*d2zL??*VaiWt^{fv%NU|(b@!8aa}*N-J2y|KO=7gOZ9E-CfU
xo9UVztyz?_e)c=h~O;egMf&_v|1k(wgBzTEnJ;7muiv+Ic8S^2~5X2IUA;=<_O|Xz)1;Gad`w4Cm-1
R+U9SM387zpAB#t>Kt9w&H#U?agX0y_cwfzl^15hM_dBCrq?5iBHliQr9wjRXe?z9G0m(46LBJ_KC|0
tliA1{0(bJWB8k!RrJ&3BDotiNL*_u?Gmc5NHTY1hE9e2qqF(2yhk0a|EvtY$y1F;2gmff<`nqxc7p@
zwgiA%G0#2CibJz#7d`{*pOFDY|Jo|!>`vzCf25#>DEY2&-3538VVD&ehfj*Hv|V6i_FfAo}O+=$ju&
a&dXygljX7TESu#rGyU~ssVsy37*lZ*n@%vE{wNq5%7(B$tOwIO+5MT8#j$9S-%vJy#jr>=kVOfX{`5
PT+@dK&APb<BqsSH~!uH9?>yv9X!%Q?=hNWa!g}twnJt89`dpyGCGAqks7M4z!nwg3qm;QjSN~G0-H5
KL%N_!wnq(A2{l5ZkmHh}f5$A`+AV#Tuv5u!eSJcEf&HBk{LTzgQs2*Suhp)*+ynJR*8`n3|LfMdMKF
^+8DY^rce6X|A(uoH=zJhG+GZ=OhH9PxYxxujAWx#XM0CeT|Jg#hJKMG7@(!9QL2q)@zc_NW{#o7|fc
CzSLNE|q@A3xBhmr;2j3iuB>HqI|POuJFsDzYIqVDaD@T6C<dUQq3gSJn@c@lPO&ZchCjwaz##7az&V
IqFg1?%Mjru%2Gtm3ZHri+Q7?n3S%amRjeE9MXni?+CzeSkb?0JoSgZYQZJ{n1dfoN@uGBc1unU@Vnz
v^;wf&rpi?PxrMv?i<()+_EJ8lA1h*y-tt!ePhvJTx%U4Q0gG`B9rKBXEOec=k&By-_<m%S)Haqb<lF
}I>mrJh0N8)g{;2P@ne}!Dsr9<tYL%~VmTYVIy)`=fLZHp4$DoS*m%*ESr0XzVHx7ODHru&QKH%(A@`
+8Pie%il~AEY$(FXk8I$S+5f6w;ka;d3dLRisg0%~9%NO^Ql-n!kX5vPjj;rVGq_$r2^Kq2!cOycK_c
"%text.

(** Lines 4965 to 5114. *)
Definition DATA_32 : text := "7JS?C&ZgYVGR9JU&X)br3QiT$Sbw^;<p|gyrSSr@R419aeS7ckBtP}1lPR}y>7vHvid0h_ZNTI|O#iR
QOYNLe1;10|)RlB=>LGZVE##q_Xh$cCJ_j}3?BJ~=4Y$@uwNv@rIerKs$so!sQ@mSh;iq;gpF2-Cg?=
Yc2qne5TjW>m)Ly5FGLUMI)Z^sPd%B3J61`K7aLE<#3KmkF)LOhy#!v<OP2w{6Ze(H#et4frgqTYvv`
1<(Tfu#=iQ%%!xn$lAcQSD+PU#*KYm0FhneC7$nfH;gaJNZ(AZH@;0l1UdfeigFlNjL~-f3bFl6iVNj
mOB`LgoxISCIKAnMGtm2{4mPEZ~eHGhWn<T+vUX{{?NsMBA^l3X#l@{#3-d+M}yDvW=sd;PwnbdsCSY
J;fhmA;dSNJVAuYl>1&OHqx3bxH*k}!{oB5okO&vMm#9ePN<cdLD2kv{ZZZW*Uj;FtKY4E{YWBj_g7T
UU+oZcoc>(y@XtB^V@`jrclf8oRsB!1|NnvK)-s*=-z@<yHGg;d)RF*~nm^Y&{Hu|G|Mc&V=*M4c`g4
AB_Pb+}Wx8v>-zmK{bk}tecZsrsIgb?<6+iyO+>$44^X4yjYT=@PKmE+J&pp3*$qO$oUG~!Q6)&$`wR
+7fudaRV^*7#p>+N^ez5Cw#>o;uN^udQ8ZQio=<87s7+js2TwR_LrefvK-@ae%rhmU-A^w{TLe0lt<6
DLo7{mr+h&z$}4-1+Z+u$Nz`xcK8wmnwh$<?@xQ*REIn`rD1_-*0l};_Bw^(WtR!lcvp@w`l3*-RiEp
Ti<hU8=toA?rVSl107TkcI@Qaxl7k>4?XPHy+_YpYX5*hO^{Zn4>lM>Lc_vMDdWbcn$spsOrJD4BQq;
IXG(6K#X5D`^cjzi95s4O^4Ny`|21>g?EL>}`v0f%|Bv|}(K|9Kx=-JJF|qyQ;s*>&7&JI>$k1U)!$&
+K@xNjJ|0nqGLBpnIa*KFB+1+LPb53?#nd~Xs7dY9Ua<VUUvM+M7|J%v_w38jzC@c02PIj!$H<8j4d-
w44qdx<UTrhUY6DwtmMvu~8cZM|%=}+ZwnIZo%;oeKQ_mW*0jfdie86lfdV#Xn@5n(ogX8?_urq*#AD
6exUE{SC3$ZH9TTZ9;4Tg99cPpp`~%y8H-$C2{R5vx!c0!NGm$1^PD_aXmrVojxHd>AWM8fsi5d=(rO
ycB#C9F)A3e5HJ5IPzBVRq|BwK{_d7cAG2aJ`xUn1hzHrSm{8BJSVp#F{;lJs~w8#5DMk|9xvuBHE|L
JZqDy1f)*)1B_AbiB|Rk_B|griG-PHP@`P}t($ifPPmc<g8T7FD_+F{0y=I6^5~$cC2%^m6&6(rOqHq
UfPj%P_j<;mPnrP0kD2@@<3D!Id_Qqw1G-9n;q97x3a??c_rsR$n<!2t3YfZ_O!lYygE9HaqkuK6iT1
W?JP`nvP1Mv|TaadxC#hRO%BGTxSn=WiaCR%gzWVa-9YL;1k8Df=e@!46zA<-(EDHg;<JcLI$gn>WnY
gX2#lhU(Nv!^9mQY`7&!hL9-Id|Z=N#^mEn5?wy+)Uw-MEQ_kTuPoLV!S1NsyQJ$$C@MDq<1M97EdXr
OfdJ(o}R>pQpsR-y6(DkHzCQG4L>BkXIV2c$l3`1)FXQ{w??dytG9b}bhHPaAT`xj1XSr0hBx+PI<-0
}p)n2LRHDi796NC=J&aAynNE)<g<y@DrzaVn^w(HvR~i)*JYF!TfHH7<yx{T23R-)3P!7e##nb?*)dd
L!b18JUuKI+e0*X(WBqU&CoT^*F+yaWlD4U5BCwh7|o}QC4Ehp!e^#7~7kw56hg;rny0rUp=?7&I|85
qzrHG_n+rd)=kXPUFEmI#uo6iZ5mDmpheJ6DySrHV_jW{sa{#=LQyRNqt5Gt8+fOSURI$DE}yPdAUZT
2jVkK<I~N!2-WDDtJ{&mMSHO0;N)T)B+NSo=#zM%_*s>wA}1W3N50uP7g{vi_IQKc{{{RHN|Sqosph3
L6s&lzr{b#Y_T|bvph>Gp`L2Z$w(hBg;0Ei9}!x=C;6FkbL;o3!FxO*ZZWHJq?)3#<{|5@o%6an@n(Y
ALaa%*sK#ffnpN3pN@&dGv6dyZ_0iLFs6t6GB#u$|%*+(B5!a9`k<qm$@wh8&c@xd!QphnQJ<Hrv7B8
nX%(<EASt)`ML?R*EV~RDK5G6i26;neA4RMMt#haFHnFv<pSyFPHobMpH8a@cBWdC~TRdAMM%{iS~VN
=b5jn4iu+lLP6(?fr2x?MYURi((7gZs5ot_P2<4|XNGGBUEKiL&f;3%l!y(=ZR}Dc9Ty)=YDjB~R7OJ
e6uqdYa0dnPZvp(CzaXXI3dfmjay}#7+?q!Guh6W;XRB9a(4UNjuW`rn6XKto<%M{n%fBuu1IjHzqL#
8=M%G_-c<$v8Lz~aZhVjJ=$i?nX{NMMH)t-kH{M}j0$wdDC$ShS>%n%OV7;7Fehio?Z~LX<_vR6o_SQ
?p)rZVOKD+x=A@#9S=fuQb^eT1PN*Lje9r^(m~1NVU-_77`Ipx5-*%trw(-ZPZtuUZ<L&(qb-KO(JHE
C3=Q{b{)y2fRbgAusxK8}5-EW`%cY(G2k30E?YfLOsb9?@D*ESp<=2@M|VgK35UN_w8;2OVmPWHO^4h
d;EzZ;<@)-vq&{D>ZKd;cE?*Y-b9$A88U$zP;3#MEFqr-$A?pI=7bKA$r4?aS?_?A!Zq$i02~PfWeNe
^kls@o&B8_W2)JRoj1W9sfmZYWVo+>W29k@T!T~&pLv#<JfmmO2fBvHEzF<o2iV|`~0)d<?q?&($>X!
3(6BNG**w4x|BHTQIgmc_e8Vv7@x*k(zu_EbHT=uxb$(kn7gcHkzyRAOc<yzMOxO}T<YkQ^nZ0vN=di
$$<9rrjy1z9r!;{=W|?y-c4T%|UUr5#(vq7IO&uf6qwZx9d3os*vg8zoWY-|TzC{i|Kaz$6j$JgZUCA
{*JJp(D?nC2_0V$b823zAc2&2Y&DVg9FZ_Tiz_nu)f56MnSPc=tQq*>OpGDVJXG#XAt+KHCbe#9S)QC
(f-`HmPMQ_JBh&zT}pQ*#A2A#QQmDXB7-D1{#2rxTe{O1aF=qU2$wSx$T~i_FN*Q{MVV4;~O5r;OC2T
@o$1^dCc%CH9L;ib#kN9zHd+OYz8mKjxKSP<DD24Y1fD*M8=d9I@$#eIo4A2A_0^wp=QiAv1Ci^YJ>;
5W$X$@U<m^vGGz&8eCa(;E}{i-IeiUO}QL(ADT5$Ae9<DeLPK>DJ~TdP-1Jqm4?0DV)CNQ<E#@Vm~#_
|tq_c#STv}K%uTlt(=rmNd;~7RZgJ+6spebUzjKYrBBzv$^hfJ@Mr5TX=A>suW?L!U3zV)iw|v|OTQY
`b(LgYj9U)F;m@T&?9`0Pm#J64ULma!N_Q3AgO|=(qj(t|U@g@r55@AQVQH;sv)R-)qQe+D0&jVka<Z
G8xof<L`Go~1tj8r(srovWYclJmkOhqkVpNf)`B%11`+hB?-JXkjJkfcRo0lSP`;0ZZkY4FFJ!V-4(t
u>4!J4Lhy(OFZ|bF;I6fFw)Q6twbCD%Fr|M@?fVMD497ID1v9s|n^@A!J$OCB!J}r;+oJ^zoBrOv`R<
V~8O$ggnm3vzRk6k&Va`w2+Ox=bo5hHs`RX<hl)yB$g{uNr33GiLggRCNQQ$Dg&eAVQ)$jNM)9uDq0$
vBeP>tO(1EaK0&G{Qk|yIZ#umbn<&H+;Gt8y;ZEtv_-5z!F=HLatVni}OP>sD-bA3*+nSa}V`#=c6S)
mGOG1^1)S|Oe2c}6S80%WIQiE{R%DBZv#uIvirNmKRNfKn7lIrhL|9Sp@@L+$$fbUJ4-)*}s3h$*YBb
Z`Jnk@P8u0O8Jt<JUlUH>jb|9SpTJdh`RTd&BDn`}a7guOVpaueqf;BZ6eb8u`L^f{ig*+e#*%6`q9{
O*<G!t|2U^_JbR|K~0l;QpZO9wfg<$nTNzdx9Kiu<V{Fn@Mu|Bjmg@WcN(Q#O?^_QLtwySH`uG9KJxt
d5&y8Ci@r4{zY;+xGWee+%L)RFU$C>mh*d6cHbo9cTo2KQug<0Eb&6&nZk2tll@8ehW!6*_=f!dCm$|
9t)`jSoxuP0=a2SFxYl{x<VT60@TrLnK4cPnD`<MVobK#Vc|6_L`Mqv`5-FSgj+<B%fr%i5Ku@3{P!n
_`P!aeLG$&vLRbQIeMFKm)IfBy!rwEP{93wbPaDZSh!A^owf-MB=3Dy#<AXqGiUq~>Qpn$+akU=n(U<
g41K^%dJpgVzzpox2pjQh~LH-RSsBdGeq#3~8w1jh;X5_~|gnqVP80YL^qD#0j%Ap~&*Q3N3b8iMWwz
69+FS`#!UsQ#SNBsfKI_;V@zPBK3rSWEB>K@mX?!6<?u1aSm<0&jxqV<t&H{_`TO_bI(*`di;!*sZwY
+yLc)oE|@7V#ALTk14LY%EbQbAMXYq$zRpr^WT8nf5X$Two&qLSX=o&i}&C8{9l&=`T1Wi3b>x$#ns(
&HT8UBADi)*ta@gzd@GqRuaV3-%THsAH#5yH5awD6U$*MRDpdpN&bcX>CfVF@hv6e+b0dX6wDR1_cI^
C0`^u3Gr$75;VH-pP>Om*QoKUgk6O&E^+#3Gq@o!H5%9#IbDdutNJNF*1S*IUDeZBM3Q-%a;YZID9{2
}Da&kzbfgx(thrR{c+(^uMd1rNv5-=k3jtorA<%_Hr}a})EeZZsWf$;4cx0CTRn()7eBTw}ri737Zb*
au`H-eEG~ZzmJ;GzwIJ!tfyzb1}6`-E>^UPKJK<xFh|s^|<4i?$oh6yU%UFeQ^WsYa4L?paJ*24Y(g~
z};StJH~!h<nGzgh1rRD=j6?hmA)<vhcYSeK3!bcTF;vI(w;7CqDRepHx2oBu6aK^g5JGr-ltEZ@a{G
5r?XtdK0xKYU$zT-#3?@<u&N?32`rTzn)N?Dd-h~~`}So?Nl7d{J)K#tR;i#03h2LpEnd8sz542_?86
T~WTmC0?8`5|WH)c#WO7w45P|6hCuGq?^r-^{&6(GpY10mg*F*eLbwTs$Y13xTM1V{DK=mPh;5vElp?
6PuxkPd4ecCj<+YcQ$a6r6c%E3J8=Mt|@6aLd?R(f8f$b7f_KJAca72>C*RZH*r2!G&ETH2vK@_V)9k
29{S@lNSilRq8`lP{$&y=Pn(;SU@*v|DnxF4F%N`AhGVKj*eXP^!WW_*EbJ^;>$o27iJ7W7SU{s6KEF
Y2f|l;88IYpgM!nr+1Gn`&vJ=^uQq^Ar1WTJpR_4yDv#|Qk*5``Fn9dtGEM)D8xLl%d`5m7yR{70P$Y
+>7msf-#j3~0?7ShL<p~<=wc0k@ISa}$bqWrLj|QG{2|VNAG)ooT6iNo@wa?w6&K!u|470vc_X|yXW_
WyEz%db$(w9F=gN=d&8j<;=AU*e2qzKf-~?_2E(J_#Xc_<)Ih=F6@CG2CfEO?q0yl!j1YQIkION=0mi
0f9bB#vB;^X64VqzkD^wCFa$@s#B3)$<hzs}aLUoT|*i!Z)l=g*&a$axNyTh>t<x^7crl*GSs{>3+@Z
DaY{E^SMjoXzs7h|;!kp1-XknIvIy{!dqvH<Bg)rSl^>zmYa;-}#|Khi*%Y)4V}u^5obl13BN2%x9N$
-8OP)GRx<ywrv=S^gdjG^z%9Y@%r_3Oi1y+7@OUp1NUy+fipK5*lj=w(^v*CiBI5>N$|<DVJ6YjxpQa
c=jX@NYBdWD4P_A#5iBMqM(}RXph0ZduwiV(h!Je`=+SI;Y9BUX!UQ&H(j=CdnaOf<b4B|xYt}6GvNf
E&@n|S}f3}eoPKajnCP%VovLo1wxhA%Gj)A>Z5W`-WGmdRqoWpiM)t?<+HJNq$n6vKNIrHDmS@=%Qg7
$M3a*(r8pK=y?jI;hHI2-gWXL$re&vG{M2hPTy=4{+W&gRUS!%9j@*rG*?*z?an&z3A%!j>*w%2upc!
Pcx<Bg%K(x^-;Bh7F=E+p=W~JGx^Xd+cY<HdJ!9Yu7HeZ{I%l>8GEvBS(&~W5<rM6DLlvufP79T{?f9
9sPx~GiS~SxhO9$XICy=VBh`9S!HD<yMFz;kQF?xy{LakV5|`djpstfnv&c!qsrcrDzJ**#X`A18_5T
;8GH&`%oni@{9Sg8A5q#<)|%pXr1)xzA4>7#DE<hFKY`*;=dIY26n`njf1Bc$QvA;-{yC@kT`0bZ;y*
(1EfjwN#ea?BZ>RW2DE@JZ{|&|ej^dY7{7V%7np6B<U1+=)L9$N6&4m`m)-9kh=xfxc?Vw8dSu4hm`!
oLaAjZ#4Vf?}(#w*`t{F+nz))c=Z#aC1OFp3{f@hPp!bc#QN;y+38mr?w8D1I5m|BT|FcZyGgj|8g9I
W*Y7eMsw?QhaKEDrpeIRd+ESM)5~c{6{JN^Avw0#Xsg0pS5HOtPR!K2iZdAN7Yu#4w2+nvKYo&J;Jzu
4&#F!XMD<1#uvTE_`7=<Kk}_pd=<slQv5iIKaS#0r}zsf{%VT<KE?l-;_spOl;@&T6#qQMuXM!kPAT-
K6w)b$Cn$wAl)_F*;S8lv*^0AY{5iWah_h=`IJ>@xvtQrk?8Xu9h<_i&??LgyDgI!JKc3=GrTB9x{t}
A+3dLVf@wZd_LlplM#jkLR?<sTO9*Tb-#eb0EccJ**DSjBmA5QV7Q2com{}qbAjpCnhieLLlmL6xP$j
IIiy(5HviN!tKt+Q{(j$QgXd?R|t#>7NL#YTpQM?@v}=+?DsXWzbkJ1Hqd#gI4s$B-o|D%tNL1nApWC
Hu$5M@GknQ}WS~5#hZflDi{7=gu7;l>KAkO%bsXkx`KpA9(fb?&lYlT!Un6e5~^HxzDFfa?hSp3cej5
RCVf$_>_KZY)p7;^8I(W^&x)>&`l1|C7I%fM<8-!Z1R0~-`!U77dZNMR1uOfj`Wl7X?^$I{X<0nKM~+
T72-!m!8Zc_t?$0Szl>Vk!^nZ+Cx=JG4~UJ8j!kZd1lszvX>)J$=FQv3AqV)!i-*#0S1Uj=*Z}{?==h
k}*!bx94z&W1f7gda`n}_$Vx!}u;`=<%?jAV+{2%JpBaTVwM~W;It|f;cfXqLUzP~Y^SR5Z68!w0uIV
k)m{F9^nO+X=*(rDMG&)s+5O#vMK$=XKAre4vM!2t4qpiduxLVJgQq?d=6zNI=kHY%RD+^2&e;{HCec
!V1wA_CmJJk;UI@yYQq(K43tigd+9YI;ZZa(8JuK=uHyVxl4({>j0;yqh#~acR|$Fa(P6vEd|0HU1I0
Aa!69H_y9b$TPAx$+AWh8Cm0>oZLHNps{6R4=q_ElaYE%R89WLkq9!-*uu533I37cB(AZn#vlA40W&p
g)pB5RWPG@hWQ{TB^rfetcdOv|2;yUmlQ+_j65iyl3yd_z)b^I-htiKCL5ztGGSu;QN}pI06Je<1&0=
dm@pZg8FU_y=DhNMK1BueVXFQi*57axBD`4Su#&fqHrzqpO!Gi~j@yKj*U&q+v)#+huZhACZoEyp3KN
ii_y)c{U_R^Sw+PQvTayIO&G-jAi=5x<I$6kE#MYe3&GWPPzFSFIFSBtU2`|rOm#)BVy^pO}Vd|vu0d
y&Q)>u9X7bLUQW@Zdo)HaK_oTXy#BS$6K+IaX0o!7g6B$bR|xk{BCYy?T}X{`>E2(RI$=rS~H@oZ8u5
4^l^`qmGX1<-+mQ(aoTa?kVc%USX~HdgjkRW`p=%HiaK$i})$_E<aEGccoK&>JSrXMxR5S?ZWO9UrX^
#6hD^YkEHlhDE<=^e;LJpkK*s6_%;39KjV~t#wq_>$0_aPHlSU*c4Dcvt<WmA^Xc5HS1+85+D_H3olm
<5AMW7YvgHFLXKg!n>)g3(=U%P6y&h^o@9iG!)U_*xZROpemtQYG*1qGz-Fn^Mv{x$%(6U8~2iiZ_xm
&MhO}jlHJE&CM9`5Do*}NOYdFZZ|E!z3CdAL_IPtT@JJUp5|<mJ`Qy-~Y|?{DVW6b`+-JKWRQrE$kzc
<yiFf%Nb7alM<~nssX0q=_HZuLnEd=hmKlDa!ryPWk(_Z{4+%U$0(%xD<}^f7s8@*U#@kKS5u6dZ06S
@Ih&1I^T=25G=yE$<UA@&&4SW!egUE2Wfo>*Aa~sK~%SGXYb%qwsbUd0uMRY|BmOcs4;;rwou&Dp+g5
S6@X9Tx-@ChgjyDHfGcrI91TM)h1iCnaQyFj+~jnd|4~5s0bkKQLi|<BmoHDEerNNgOP9X?>8GE5puX
qqk3ar+p3HBrT)A?I=B4LOojUdIo;`bPE-o&9At52XWSV^Bbg(4_eE2i`Ls_F^zN<@@E}h5(uUg(=T%
VC6M}}+ZA^Uw_e);87G>_)nwr%4-{O|*({*-_5#TQth;@^JzEvNZ6hd<H4sh|DYZnu{ct!F;_?6a53%
F6P4_wF6Yq;kR*oHk6_A_H7du1#ftUD*<ZtvB~0Y-VO=U{zJsZw$@go#Wq@_<e}#payB^bh<9UkMI)s
@87?lfB4~tobclxeDHz5`~3Oy{QK{}=Z6m;=0}bk5#bPr#t3jfM{$<F`|i85Hf`E8i-v5`g@uI!b8>Q
`7A#nhK;vrQhV4OqZQ8U6EGa2@Bp@IFyz_~Qit2`R|1AEOFJI;~mRZ!PQ>P%};erbnF7VRQQU{+89Xi
Cn`syozCzX%D9rn|wPxF%}Pl|WYqyUY1gh?`Y<>#M&t|Ga+L2255`|UUW%P+rN{`~XLKm6{y@4ltHen
mK<^J%JYL4?Bs#Qn4Q(|8JbIRN-802&lPnJ57K6*?5V0(EIofN*vImAM0)-2s0E{~bGa%%gJbNHS3b8
n$oWF7StZoH%hpl);%ZXT&>jM4g~IEX<=vj|xEDKzYDKxuNbL&L^LIBJf8UQvK&BhnqKVa_5KMZ;*R6
{HYEH{2BbOUAxAq8xr!b*Xz4Ljsd{`(@#I;n>TOfROXz<%%Tp1|0s`r`}PR{?tAy{6?NtK@#De{8qfw
n-cV0aM!;?3Pn?@ia2|e;bIm@^d+owKs+{*M<$Umd&R;*z`PFOJj#6D||7Y<3_~VZk`TF_>(HMRKwU;
OlK?Cpw&%syFgR%hbu%qn1`Q{q|u!HB|H}HiVfEM5l{-canUgSLL3(ifSac(@sx$XexfqRLDot!^RG<
4a@dB=}9UvP@^>gwvHe+GYQ>m3066;R4Tfxl8uP!Aw4N#AhZ_c-T~pA-K<1C@dH6V3yOhO93+zgEq8+
7ZsxA3IbNcZC1->(?R6^8y0{JCZCEfd(pvTWA3;kR#w&A06O3c#blH+(7=(?$Vr1AT*Hh?|)LFq4zP)
!w6Rc(GWy(lXG0cKm91@zFVX^ai{oGpTU*(AM#KA5eL*Q6GhI!SCj?h3bLWlfjSO3gWRKDC?@I!p2Rb
p4<H(1N&fqMDbWymnDgLIB^uOJ7rJlfyxX=vk3Y4=i#m7i97N@?0QC%QOMP@e)*F&9@E`u@7Z4BajPo
<>9Mw_K@HOW#L_;*uu<l2GC(q9WFEoVzufP7vsh_C@pg{qJj{3@^K00pPxWSKnxQwrv8OvXo63(B?HV
Gsi`JVHk-*G<ZH0SZ4;VZd5lgxxD^?9FEpV20D`B<vYJ+?@7np)fg4dGAaJWr$1bfosY2>3%z>e2zZh
g{dCL!kw-4mtYvz<U1bv=F|^8p>bF3llWp8C}l#2$_b2Z#j=6ocev`RG&eET%UWQO`<lnGqp(%5)B<b
klI#y=G2FO$BrEx@=tv{`uSVR1N9gEfl?Nz4|rE-0RGhO@zUp0`5QAr_$$*w`AVW;8PR|zh1$<iM8j~
xW5`*F2BkiO2BkiuP4eGEeBZ(OL!g29ulkVc|6Y;I!TRv0_Fl+8)wKl}524N}bSSid2J{CF$rkWOJGo
&_1b_QqM*cd{u!d-O*&^YecZu_{6-0xb^Q7}qeMXxUd$OiJg9fEOg9fEOqfP3zStN74F8-)z=wE1@<p
9v2KwUcOt0M|6csAt+^Y>;N_}h;f`D@dOhN+?aYUKs~<!=%V$wb4*ABYC0`W!3Q=ZK?Ho236#>YtT1s
VmXYX>+~plE9zF_w#~+f;!R|r3m<=U4#jl0Sy@QD73&0eXTMsgCF`^j2ZBJR1nNJ&JO195)E$=4Qq*p
ElaZbl}qJ!)Yz00otac7dZj+gV~nmJ*N;Ei3q}47216H=g#xIrz#F&$cZC+T{b=touR*(sz6yOCo{t~
X^ACxJ4YLh=-Ap5YlW3@0pP!{RX;EebpEtQTpPL@Z3nxVK{M0CJvp&MV`SP%!!Fi0)Qyyb9gg>?SLjD
P#1;874!30jg8}$KrD`kQ<-g$hC{ueYt{&&m`<6DV_4~T~Kvxo+&3#iYaVWmvN5}AgDpkY#P{=`J0Au
Wo}PK_2c;6a;Ya2jI-?W$k?(Pp3z!#D!4cI{gJ#v5;NjEfX-E|c5Uliz>;ogaQFg_jlT_?9_D1J#B1i
H3LN`iwT|WosB;mK(+w=Y;cTvP}G`j0kQc8XhMa9wQoN5e<0ijxoj@t-t*N{v-=R{z<NjK+EHgKhEEL
^G!j|ozS7sg1Gi0@AK_NI$laNY$h5+eI^>vCMorK1+_^_bHn-bIVS!z(XfDMc#>!+COMj87Pp6rHYvh
sjPZU&{p~;SSLEMlG<E?Fz;Eu{xeglY(s4Ule*e9ipDBBR@0u6Mw-xI7X1PAU=Tx6p%QU<w)9`PSqXm
;AcuBfM10FHPp#C|IVA&6%|NVsB`m{xvQ~$eY(4axFSy@^8fh+1G>cH&Tvjq*#^7Th$0uyzr?i{PW=g
XaMJH{BO&-3N_T<5v%_y_o-?ECfWhjQSrz4n?Idtoe7Qc}XFPMzwY;dXS~u1xTtO<F(u4(c<}P)|G4(
9;%tTDWjw8MU3fYuBzkIXRiHS+j<tU(U<R;}(mB&zm<-)a$Rm{#vv<7z@=$3-CtYfVK)_A&f^cAHak9
eCQP`ul|kZ8>^-|>a#M&SR&Wwg;W>*2>&fxws_H4XNZD-j~+d=X=!O$si~<I)Q*aBSh;c~A2@IzPfSe
Y^XJd!&pr1Xf99EI1U{JG17Fa9z5xA%LI>tBpaJbE<Pd!!^4MvM;-9?={IBu-tEbkCF{Vmm4Af_|NiR
%~2l{_F{|X5SDT$Adp9A?JSzko+{-6yTHoQr7n3Er$K7Bf;I>GVYzkh!*M%cA$myieG4qQ=2id-q>0s
0_&nCD<zhq6F@K%Ex#naaVrKEGC{J|Eb$9OJ+j??iZlgM*)0vSf)^2SMI)UFHP^1$@}BVZ2kPPW+*V9
^y2%7PtTp)D33<4GPqy1pt{+(nj0*>9TQrOR<UiXK9Rq{`rkrk$ltB6ZpwbHu7s%uO6lHzT@?W#fum7
qN1Y9ixw^7k3II-)khwAglA-A2)@(2Qpgf$K)nE+zzuZNr3Gsc=!YTq=%Z0rupWVVB-}7YLfL_qdLAP
G*Kfe1KfC^e$W(V%<mBXh`>%if>n89_N=g!dI<3&~@WT)DY15{OazLM<tnDat0AJv*todSY02B2Abp-
XHZhc3e?L7Cu{F(j9^*7Wl$Un)_%X8+;Ifi-~8ym}K&YUUA0W<*r-o1PC;lqauca#BWPyjS2^IpuwFu
sP|15cQcA<*V5TNqOzJhdhN_VxAEu3x|YDa;}M3jUBy0Ava4&2R%=SaY^ot)l)$Mn-az$;5m1>?z6t{
)khTj{0OvsT+z3IYN5?xk7u4vQySK2q&o9?o@vv@F%+GX|>vp#KR)g=dD|}3L3y4tQ%7O5HzHur0}@7
I3ZiBSFaZMgV*3W?7$oK0PPRlF*b$#V62ULfI5IWfppOZ6Ye)DogyC}9}|`P%AGrLx{lEKG`>^(k+1X
kN8u{~^F`o8Wy@)7fnCL-K2Ujck~bj(=%c`6C62P5h;|e_Mf?BWd++hL-+o*4f$zNYj)(_d6QAtVwvD
Dfawg%vo!oE}IrJWPs=pEAH;jMK{!@KifOph4n7{?)jXFzmD#j9-nVF((rMfQqH?%d7Z$%DK4^S^rCX
f@90or8e@eu4t7iEO<Kz~m3;)@!zn;v(Fy90k`S#_3SXW0gBpbIjDy70skPjG6pL_h8P05=5?2ki{nB
0P{E%!vTN9ds>Uz8q_eD_mV&|19nf{FU)P@w*5#DD7f>bb#MzgQ)Ko^90Bg`r3Nd^acJX8)Xauy$<9a
"%text.

(** Lines 5115 to 5264. *)
Definition DATA_33 : text := "vIL%^4lTxJ{y)$6TKGH5KiY`8eQaG?U}BAZ)TmMX`RAV(^6kub1rQFh1X;&B`T*dr=tpQ=yX-%}UEuF
L|E0cX0pt>W5a>|W`_X=&twVq0Ob2+oapOk*!V515c~<H$0CX#B^B6bb9WtZn52($2)y>WAKf&FBzjM
FnJce-|+uW{904r9k5b;45!h<&83)w>330f4~X?*(1UzGP-@CPnbzl8i#|6Qcazivm1vgWDi?@%^yLp
dlqIg}aNBIpvJg90tUo$~lA?aXcQcV7Qd=2EvS6O8XM{=qx+asbE{%-y?pi*^@0Kz)V01Ao*5lE>A5B
klr!=k-r&CmicPpaFd+#xH39AP4A=(078zm~(>nC<kSI7v+F=wE1Xj(T>raLg+P!=D!<vfj?yTc5>d3
ygRo=@K@F?z-Q11StmKVNn->%l@<Ecc7HSOcyJuaz5m64Jh1QKZ#k-m7f|Q2ZQ8VI)|lT6pEm6@W8sy
ONw&Y)bdyaN*<^o{=~5?sr+f=!v-I!4KVLSvWV*<vn`}0gO)uH(Ae-T`nJ=4MGF@QS{%%Lb{=$R(J&k
4XV7D17V!e-GAHlUc^F_Qvqf&Q0u%QQe`Ow%`O?`f>*=!y}<NYXV^RW#Z+s-iNzK1!<DboJBiu0*wIq
&y{q+`QcFmwt5J2)S8kn=Bo5xCqA2hiHy!^1;IbGs>2r>oGO(U|ipwYTNeE?uN{=>(0>SJK#a5{-fJ4
TC>HM;dQjns83ilVL3sdOoAPmV4|n=ZAjgJbb6f|EJsJe?PV1t0>PZXMMV|*F;%Am&g1!2`*Ecdz9ME
kB~5QrqDM+&jtMo*2J+E`}q~l5C3vUy50_GryqOlv6N??d1e@Jz}N}%2lS6<*U=ZDt;Sdu;}rP8j%TF
3MqdaW5A>Z_(}sQrYx2;s{Zamy1JE2ai{=ZHl=(g8xyTpeXz)at^I+WM{6Js!$Pbdf54y7TmGv!M)Os
$}kq42#^WKNLdmg|O^j|-oKfzxu946K=7szXX<9_5k`GTZ3O*|{<eU<$K&hiNT5cG^8WPV;-COe={q4
{eHjdO=N@54a(V+;&j(En^+k}1}}upW#xc_n|qm<y8L6Z$qGkH;ll8+1I7N9d@a>x7<g#3v%^UL}9@<
22vTnl)?IBxilMGM<HrvGv=tBgI-G)^o9r=$t=vuh1VS)saV&tfPUh4>~5uqu*AkeNghp_{UjST37!L
T=1-u^%JY6O6###E?wYrey)uJ<Z)OXc?_3zrh&3N*3r|6{Ar$)vSi7UVa|9UZ^$`JJkYmcO%?hDtO;*
?KIad0h8KS0JeP0@JtFDaP$!`8bj}~+iWxIzWaa1QPjc410tc*{fEReMz7Ac}Te7|ndM2!gLLQ-Gf^M
Tw)-TN*FTrz<r3)N{JRYvmeb>#ut}eK)4jAQM_C&bQcR^Q#HBGFIEAohSap+f|n-DrKIsaLyeMDY;o#
Zj}K<)C!n5?9vBxUK+rNdAcG2h4d9CQO0@Brp#tI~zu5c(>ttG*$xZ7-Mg3#b#&k3d&gV2*O|0FQGU4
c)D?{G)C?`skxs)c#LW^aGd|U~UJVpzQ%KuGqig`=3q_dIGFZuano;S3A`S=$UM?o-AL+0gsSJ%6AmO
sq3}tzcN2VJ;a#bS<m9Ey91y8NN03(`#VC%0$p7Z;V@g)H99@Fw13FoX0xTd^wLYipc}$?9C#@6YGvO
b@BlB+9>EU}^tW$6T2m+LlSe06tGE5f7<=Z-nORRf@kA#0@YGXJiFOa|F8V&S|Bwan1G0#`opnw>ojt
~XJo^RJi8}I_5#i94-7bIhDOl&gnl5;Z`4!bg$69(_U6@ifD2rW-5_sjgWBk&0U)0E>rA8iKoIL{B*W
3S7`mRd;!-fqz6CNHe)?J~SPESwgPd@pinBM^>r7cj}N|X<HbJ>1^AAET-|FAGZ>;+KdapjCY{Jm#$c
*VI>oHsE32@4AgG?`2@K*#Lav$MyI8@ETTR`bb|CyRC91q&94wF_nL1D?YK|CPOs;78p)84uE=aG#NE
-FE!fqeqXSRPV(+5Pd!LGSDs2IE#-QIa1Kw&{}idvQheRWp5=VkA2U#|G=O4kGyI8aRItStQ*I~#EA7
*;4o#%6v2122a1kFkpX25S&;|oC#o|tGA58L=g}AmA9iET|3`DG4&W8>e&NK46L&+$gEji0Lx*yd1@v
pwFFW)F;JYG+${rELq`vAm;^)68t>rX7|B*?bZ2ZyFL0RKR8W`Jw-&o6q3}P)EdJWVMXFUSS0PO<e0T
=KB?Kav>;JIzvwx`&g=_o|~pEqw_%F8dmJWQE$qnv@mgb5S4pPwHeFkpbdO<DI-^g{>-xl!5+>`Q#_z
4ve=<~?_ix5yuPqWvi>ES!Y&uqKZ_A8ihF3!_Jm7CL6s3xvf39w=+P7%xMof^j?1u=G#l?a06G8kX~#
1p1@g++5K%V6UpOu88siuR%B3<fBKAzVavY7WpF|YHLLMUmqUI82H_H-{s4eEfZ_SXdAKSr05j?V%{Q
u<fHVzkR{NojKNX&6ul&HfQ&)Mf%T_Nn>H!?1pjK@4*Kt84HWGR+CG%?x^?Rye?Jm0N|>~M@>d^xYvT
PE0rl&T+P4Ou>JA0rr(J4&dkgrZZ+4x(-F3uc64X6^<xhOKt7;HW>JK|K<VW%txqSKZ^($Adyhd%*Pi
xk!`S&ZYyi%*(dGpOTFHsuVufP7faHlZtt5&UwS+Qcp$8Wv$mMBl94?{Uqo&Lf(KJ;m2Wo1}ry+LW5C
i%O9dWg9(<n?WugCw4m_CbZy`1-}OBB@PEe1wHeV+^N^XOudHwk)|^nloX1`WX#tG<#}|j~V)4<b}GX
%!!=Gf+;^rbKp(C+|mtSCD@3z3H1oLD&Kb;-m;o6%9h54<K?*%=8u@aVy=L>ikjw1O9(IMS}`XF?vQ`
v``YXnF~+$}bFde$NNHd$j=2}+ewg=R-l?Z~C&n-sQvq+ZTX-;s!FcigXQzlXoS%vt(wYv|5in;1|4>
fogOoj}n;(xB<1LK$FxJCZ6JuS>H{M)YBGSN|qaWdc@*6Q?gwS)N4Fexe?|hkWEC?0zNsQewZpXX<bE
jG6z9NsrZ#iE}e0lN37sYrGdqkjDLs>#z>W;+^m#q`y{#oN4V{Q<;0sNzWL9|=Y$zlJ1(wE|ScXk-Ra
Qdj=C+1Ma=_3CtO8G<f(AGmvQI>-T4;DN{JB_mZX8TJ1-eY~m{?BF8`}6%Dy^8o7l=vTi{IM9TDf@BI
Zez@a@<4m)j0^1O%bn#P;g#}N_9P)K^pnUR{SoE~NE_`k_5JzI@zG8LZ=?fWKvx8s&}U;k32`ycM&G@
2=gwMj@yu@gW`s8ZbCZGH29z+3W$=Q#3v0|&DsOSx6HZ)n!3mt=4d<=7GMuZ4lLK(tnj6C@oOr`oYwk
>~mRcvAwB{j)REcxe8p$D5;*_<<EF>i_&zw0fV}@#aW=2+CXh&;qmLYHaL~~|JUXRT5@wwS~*=d#@<F
hjjDS4Sar}}qPWu|1Mr<wCC!_2vP>DgJK9sPT%JBGDrs#1kma;<sd&XhY$El`R_G4ssht-0xz8S*>1<
eH~gDHn5ULT>uh^bGR^bDqP~**jWXNJogonWvgFR2ldU?U<4mlQlJavN^Y-%9<WA9#=+$c1%mj$TN2g
3+dHB<eJQTHJp1$uUfc<^l}hQ?;*VueugDPBt%3-#SG{>e7J1+=l$<{M<;xm>Y0bSnffku2Xz;<pW38
OP>)xyRBu;*uC7)$@_)ep7yrQllLMX&cs*caz@dOs0lx%z1$GGx4ICS24tyeTY2b%}Uj&{Hyd3DI@zM
0u1Zl!G{WXthk~LE_`I;il4$WDOTTo=sprGkNuLZpq^kLA!pbJ4vtJ99uPS&o|ey8oJi_(3m`%UMg@1
|d)PYNC#oEDrJ{8X^Jp}C=h;bB8BLxiEfA;FMgm};13c;4`?VT)m>;h5osp~B#6>}ecg9BH%~XBuBM4
hR_%k`}Tz<a)^OA<aX-4#&^}SA@Nx-k~1tf5d-Ez}UbTO_}C<%~j3snx;Yb26YVT7GwzO9TXq*Owf{`
RY6yR(zF@cT<vu2Y;BR&rv0~eiFSqdRqfl_4ce{RUD{8zUun;3f6)G@y{=`tX1X@I_PXvmf1OSjs!P;
8qD#?D(9O{;)GgD!ru$G=syn1Rsk7^v>mSf}*GK64>!;{f>)+RJ(Vy0P1wRmc($K=#-Pqsww(*GZvhk
)-6A~4Y6_Ot^FXZWvRUsQfJ_>0X+CH>8v{BgIVS~bkhnd4Bhpi3U8TLciZ(;u71HxB^Goc|FOKsUqb&
-0hdXu`Pe~^EKe_X(ffP#Q01C|E7A5a#sC*VTB&jC#X9|-gf>=9@RObuKeSQY4_>8Ke&<&>())lAdO)
XdQ=(v)g;YYuAe32GNKBxpp?*dTLIM$nX?{Gii8<w2K%rfDD7KC4}+U8~)rJ*YjQJ*~Z{{Y862>!NF_
yO%iOt9w|d)rII{h!-Pt<8{Tl7l;Q;-$<|4YxN=e!TL%1h5Dw!J%V+?*}>C-OM`a@p9($`TpoNW_*!s
vu$!TYp_ReMaKE9mp{K!M2scC-VhsZfLkuGf$%a%zo}t9>6iL8R!)n88BnKM}TMY*cM+{#YP8*o9k?{
dzgt4D7!B}eCWjtv7+Q>pYLYjs=7-9{1G~~sQ6(PGqJ_$JzGCg!w=u@F@g_ecx2@MX53mX%*CTwfip0
KlF7s4vTZiWSfhldXdFDCB(1pb<EKQv?Q)zRuf>gUzV)UT>r2ZRQ!58NCWrs<;@sY%ngXdl*Ub@96Ib
glJEf(H_|EsX7rPa9VltyG#FLPt}6n?k+AXM`^gUlV>P92ZEer!-ru@1v>yH1!<yo9dnFvsBx({{8%?
`Y-Wc?tj|<NB<T9T?0l0%n5iS@L=Fqfz^TiH7hmWYRWY(K@SIw3MvXp)|#~+>psyP)3woe(T~wj)W4=
*um4zoNPj~Ag5eFr`-Tq<A5&dX8@0y4#z&32jh`96H#P~mH>6|8!yy47VIdPjvWYh@khHxM@_opqkQ*
VI(9qDB&~c%Kq4PrD4=oMd6?!yuIruPE!nuR`N#em4^+EL+^<{OSf1-akO{}I+^SWlg=9s2J;~f-8(!
zA7bP@V^{Vx5tdb_?|@TB0S!Rv!J2k!{p8+;)6aPY6e9SosVy8R4sRI`T|h8sp1#u{EXtTU`Pd_eWPq
p=5-<Up$1!;Pbiv#4%=Wjt*>XS5qH8Y_)gj8(>JW1o<?kOZpn!$bCm+#7195_O@v@k`jG@S^Z%!w&-I
9LCm?F-pBey-uwP@TYccdcb1=3j>w}tP1!t;B3If0FOYgz>a}^0%rxj7q}}hNHbXTBDD+;1-%sXdeGL
OL)2FN67*Y8D=OhW+JV}k+A-Sk)IKcHZr2{wdQc0np4zUnRL84yzw27+@71@blISj^y^nsN{t<mLl}f
IDmi`0%XZnl!pA1(GHw>GMkAzGQc`3v-v|Xqvl!-|d?i3lW9_W8Mpi|($z?{Iupl!Mxx;<37hjd3NkC
VDiREuKt6ZEU}pXkQ~Zw(%6C@|z0ml%IBjtw=0H4Qh04+{Tx_`9HcA!8wA3{V%S*Q&etKk5IL{~mw4f
75_OY7zPb4hp;)I9}66>#A#~3)A&A*o?bFnuG?0CWV^9aj@@nw3+_z_`mPJ$$zu|Hvb(I`=tL*{@mX;
AUPnH+LhM>eh=sz7#8>l^#JPww*~$fcq7nV6QvoZ`L|}1W~b(&=7FFtL8(E*wWGBYw2QRwQk(g+wzs~
Yeu&;i6m$sg61+0_HEQGi4f%$CM#^v<(ND&D^=|cX^#$sCI{It;`}hy{pX5K&e}VrB|M&cN`hP)G{N{
gmz^H($0lNajHRCilG!v;+I<7shb=M8mk0NR7K&{8a1~v5>_afa=>HgXwl+q~wvHq$4IsO*^WB$ke&l
xTnt{AEf?#AZE)>L18sV&wRLyS?zIFh?j##Cd5(L()7k#Qc<IV{arQ^O{Pd4_ij?-xEXd~W#K@SWj%!
|mYtX-V(ysrFTOQ}<I(R9n;wsYU)keT?X-Qv3Mp{i7)V0-~gpYBvi|1(*WHQY$?#U@dl4S5kX`yUNu*
>TW^ZgVaHqAbn6skSQoCs9#WAP=a=dcCYq;_OSLCQG1Ho-g8<zwZE0xE7~e;HT6dBI!|45owu&F&WGA
!6}86QsBcp1G&()C$tLP$`|09z3A!P=;kr?}vAR^<L|uk1M^~UL(#_S)qh9M7-D2HR-3r}m-CEt7x^*
PmALzDF3%*mgS9d^nnA(}+RIg9#&XK%d)K%)PkknUG`|hsy)Hm0A>s#x6Nd8rNU+T%{>KE(RlGN`dsj
t#k>shdSuxGG7R2`-XGf`hQDr{^Rc$pEF6J`mU9yT*<ZrHrAg<;QxEe=~6wjyjb^>lUT1OGh#JpVlZJ
pVlZJpVlZ`Sbq)P)h>@6aWAK2mtey7Dv>_3eOd_0001R0RS5S003}la4%nWWo~3|axY|Qb98KJVlQ_#
G%jU$W#qkkd{agC0DjXXZTjMdM<6^Z5rU#ssaqedp_)q*xRF#*K&yhH)yl4@Y<nZ9Ag#C2hB3SBuDY(
PyX#|j@vXZnEvVSE&<D>_QHm&3L7Z?w3TPiZdVlB4Bx!lL`~Cg?{qdo>cV^DK&YU@O&Y3fFi*8>b7zI
Hv!Jn=RLao66xrP7zuLu4Hja@TH_)qHQ^J@+M&F9aW|I2d6!m@|&FT49eN6Fm}J@l~RxaU4cS>PeZFC
TJvZk*|O@Zo#!yDT#^%^54>yvtv<-9F>k)c9Y^c@Ipz1D?|6;;A0?ylv`L?D^o-ned!Bao*Is80^uhM
ixIe2LH?0^C9-U`Ija0vAmya`wXuj-1}6r@ciz<v*U4{!Z;y4DNPXSA@C-T%ex4EtQ;i<A@-gm2xj~d
`kz9Ffgy3kegnj~E905skF&$4y$W)ML70p$3k|~SGvGPTAnZ#W0MKd>?u9C>dj(<4{~ntDe;tDGLekG
CU#8r*Sb^ttb+HCv-%Y2(IG{C`mEC){ayQg{B`;IB3jP{ThjYXK%Q%=&orf8r!NcHr@+`Qz%NBA#)<@
{8kcRae&MvR4ysQM?8BPE<!p-m;buPI37Ca1qmmo2>^05#WoCP=K=P~jB&ws%dF^EI%CtvwOGp$9TLV
HnYx?|?8a^*o8a3~Y=H=;q1bJxkCDrb%fAvdf+?E1omb~)^K=6J$W^juvId7KV9`)bG%&ivvaa1-0aR
?OcHMf~GRC?Z%FxI_-_Qm&W7w)F=wX`^mCxfNbQ=3opUokcE#NNv17Y+i+6;aSccX|+`_2)Qjy9_Pf`
bU`Q$Epa;Z*3~$`y6tL!-_)>44$W~|<dEXD-YTmH9mKq29F$6q%j8JzE<b7Uho_tr*S7jd3;lc$cBC1
qRI-TqJqEW$av6N0XQxk(__6`mlYdfcm5JialSzY2<~Va?b)DlbUXK;)vCG(u+0ra&wsebht4t0;y>3
5=Leqz`rrTcn1r!}F%JJsz^M~%sp$9F3AdyYMI!No$1VMZ@LKpYxx=a8j>~SXLw$ayzA##dx=x>Me7k
^2o6kdB0z=FCY$|t?Kbz}!!It=@O*_JpB64@cungAU>vYCz;%$_o7rIeN3jvXBf?dZTdhG9YpOcuFB_
hp}wjVGc{0v<nt31}i4sUefs3RMD6JQ0Nao&B|@#A@}B1|Qi0Sfg)P5q=96`WVy(y@S3@hQ2|iP__76
gg$=?S^>4o<TI%jIRf2x533&YW%oe~XiA14WH0T+inEs<tUQc;>96&7LwT+7KJLJ7=2#gnp|-9A18bW
IwcQY&ldTuIzAhUj)|ih$a;cPWRMLvF_dsO%QO#IH_A(q#!v2KkINd(7&PVRZ^O16ReO&gDz0zIMozh
%s&fJDgXV8{gCSS^=SGRq)2`W~{3qY4S$Ys|W*j$2^H2cX$ne2cZ6V-d24xrMDHVXo22O`hVZKoig+L
J7Lb|ZlmbNZSA^yNnSQV&iHwgiTd%u=A9V2fhOZPRVbAxkY54^R^uVl=qKX`d~J7dR_mx>gw2bp1s}Y
`S_ELKAb_a$9uU6PvJ;-VSN?3W3i_AcGleQdwXlo4UHq2S7k3gDaOfXCPQ0g-tIlDYpes{81D}ZOaK=
uPo{mat0O`FGjb0x{=ZR`v6Ls=_>%7+lDM+A+U(~^c7e-R(I*T4#-+KpH18!Scch%F8U%;YS{J%p7~z
Ly!s~q)@>~us2PC*9OyS3=sE=YkpaEVfm#u01_ugppiw6<l=)AHT!Z~-^1cnM1S<dCMn3Yze!!)S7+L
6rt^zXLG7MRsfWJ8c{7e*p3SlrA|8a1hvv&jQt0#)%-30ag>$t9aU=-)eWR|lS@Zkw%{UgT!pzR1s{L
Xp0?b40>wOHK%jeakdP>eiohHk6jW!ibe?}h>)5#n!!_)S2A1V*(OsBk`v{6b(piyfTxz~C=5vcbPHE
y1hj8L^p8$olCxXmM$No?;H)*r%n4HCtu1&Lq}sLu9=NtUR~N6E3wN|4sFWFKzjrbKm(%+E9sX7i*g7
{tQMMgM8}xBuT9C3Z($M*B`#}lS>W4CpaZ@TYTgT4_U9<j<;ZC1+PI0X$_<U(2MXYs|S+g@H5UCNjMc
lSKQKQ&dV|gGw6HR%Pr9BDbay*_}*R|HPysux(|ue)m}cLB0p0REArEnG+B?xuI92IG$Rl><PYMAkAN
aD^M#PvU41nUsXP0GpEN)>R!2_>f`@DkEpSeZ5&S%8DcQnUaVAz?(u0`~^yqqNNLk{>dF3w6SDbDIm`
D+@n(g%KbcTpD84yvL9}oijOVy>qc-Dbl%GvoFP=F@JF!wgkkck=Mh}(yG&S!akiscCm%(M7hc>s9g_
lS(mx@{{A>PO=kr|Ce>{)^K5g%;(K()?nJa)DSQTh>^R$L6qd0>dEdq5ZgE`<)iu_It>zHIgkwK`e9M
evYyqyLH{CuCtWp&lLjWfmx1mvIb^+&l|WM(sA6J0F=afp8(1Ko)_@}fM`Q_)gPwC31%G<Oop=*7}`D
@r$dnAYRYpg>&CI?4Vf8>djR5c>wId94(qg!oD9!MDn0t1Oisz&+x%e(V<GHgVOekS8zb?UzB6JV=nK
!WqyX{IsF}^I%V><odfei3fCG98_>mt-BF_(uI>#T*^iaequ;b5Uveh5D7l~y72sU-ei2JRy3dnU6&P
CwS^nsH+aMr)lQgLh*ldoh~<}1ktAuw2uM69LV5nT@?9cz#yE!OB}5oUG2EO9H&WhgdBhFTq77+EH{c
ykX)WW5Y>+H-X<m?P+KMgtEMh9j0o!)tC`6qF5t!L%_L<tqr3dh##kp)K_F5uE1()z835o=LA~W!RCs
e+rP71;){<6UE}F3!E`I=*JMfVnuG9HWtJsFEAj!=Kq?BC_RYU<4j0t!Ue1t7qfY=KIP!D2`kyAP41Z
}iup(#h>bGY3H=Dz=*Ce%zgShsPH%;G(x5q|+6q=F6VLV|2M-yMwoOoX3jGs8;mYT@qhXVlTI#A-2Fq
#$riTG%$6<&Fm}C-Z$gOLL)d`h_Gv_uV6Z~{N8+K(Rbj{U_wKVItCu5Ny^60Ixk~byt(i&J*a828_j`
7~rNY>HwvM|8khm65@4o?dltW>}<?HbEgL;BPR{@fi4Z;3tc$>NJH))>7K3zS_O$}eRC29sOaxbKt+>
wXfpt-&I@_LLnuQwHVWxH7Q}P|66v#ZZ}~1DYY{ws_9yz?_=~<dxNevdO?=$xa1i`ON#_o!&lyO<fCi
{uYb~IvGv8+Q>xva(K`u069?A?GT;>sr1Y7n3gq-ffUH_&<35W18PA!R)?Z!W)hZt$jK@bVSUYQkzlU
twgWB@^y|**E0euEK*D^YFnJpUF_<UhOAqN~V?v)mYE=ua8etF&VwC}^YBG<*03>><CyapC;4U$^ol#
omd>5|HZ#H0{6K6*bG+3;9ji*jwsn0ZULdO-uPr9%b6a9o@I8Rm&TbKqQyZXu&(){xPG(RPfr0vIuyJ
RBjHb2YXPRC$kC`AXhlG%9;mi&u`n0A!e&cfp$>~|dtnEfuQeC#L3u-g-5{>(|#8EcF7A`Ho-^=wG2@
SrtJ#I{|+qp~pSb%<Kw4enD!j-7cU1p$JA3!2P>hjXOxglQv@fo!D>CsBOgs@wKQkSt*c7UGOvjB;sQ
7>4n{!D@?^_963wcNjK9w73t2z1$X%^bFDIENK%Hw;+ntNAoczF}Iq4#9$`O1FC`it99gGPzW8$^C9(
K&0zf`0{D4<JWvEkz?OQpo{gYnI76LoTNPoFQZ9snTbw?JL2h${d<P-`JvM=(8ZwX0hX}<+<>7qxr_*
cU4OpE!WI;7AUd9=^B+f6jw`0+gPniTBY>`E8FEq_I9`)9ifP)?bN?v^)VlxCQGwTz54@FNHZ%{8mM#
L@@ML4mcE}U=P0}09?WC|^#`I4`_Mc=g{BSsEPUrW5oq){6}Ujr!mn?z)MmM|4HHo1$Sl#IN=iUkBDp
WYn!(bwHBkFJx)M;bPPj*q%M^d}FL_ldqxVW&?mp#l{zVOm9AOwV!5zGdJXbD%;?j>sWD%C;MdNN*7?
PDka?EayV3Z&VQsn5`(-6}XUg4oj>~sGssCA^|xP1a#+ISYAJNGIk%-l|i5*sLi^s`$xa4`H_ocwNF>
9e$trRhC1GYi@0(LfUgYz>{;}jk9_45-`mqY&7Q%8L`_NdkQ<#^va}ivSsrNaJQ-$tRWT&TprkdxxRx
n*`b!pByumJIhFFc_ywCN6N1XDLmu&I7TEwRhFv$w!hHbb8&Zj3qaq(QV$Rd$OKj3=4oK0mz3Z^aepj
huWcFNh!(N|bDNcWP6&qd4TdjTyD=!WaSBk2;U_mZPh_Yo~sChI-qCtr7`C;O<DhOe#zUUAw{C|-6&7
Cnq&#@$e*H&z`8)=1-5AccrkC|0OFy7B-hnb|b@h>j$-mA;hCql;Oya0Xo{RWpRh`evWr2!avA2+BG0
aVP=iP;?KjvxxA_1j0{T2t#-AP#i^+Fr!xjh<c;lA!mOL_y?uG`^V@+9%t1K_()T96wca&Zn6-hnZ<U
0Xr6;hGd^;p2zVDc?kC?MvCKnaxdW*JM<*~&R*&mSnxE9?w$Wu+_q#(96y$<eZ4%CpQy@>SV6^E6fe~
aKv;b_PHz3pFVn}&96GK2-WhCduSs}{=bXh;S7bFuVlrY^IWId2<icmwZmq8DsZp0xc|4pTkW?}rJ7R
}*e&6lOF<^T#I-dg0C5GuEVqV=)a0EsPPjY-xnV0yA2#A`P*R(VK7w>|I)@;>OWS*(Esu_hwcY#bknG
nk*(<zn0hn2MdgIyixgN$?8PAH5ywqEm7q@VG_rmvk&OsU;R*j}qC0yq6YU4eYElShu*1%(QpcTL3(e
mR)WkjnT2V(!2a&^M$~7$l>e<tX=g+WilYr2d#<pnALB_`iQAcexRke%VV)rC^nfCTD7!_ytF`)zFyY
rWS6n*2u$?RWPP+1npM@d_y|2|jkhv-JD{?w9@gIX1m40xO75ZPs}RV3+*(8q7Lgx~k6V0^KC`5LH+D
KPbrwBvs95Uqn4z{M@m?g+rB?}pt1&Ph>nB@fV{^O_O{@`-vLoGvb~H?Dg=ir90`gJcRcwY-e*yGZi)
MM?5`()6?G_~+fkDqDJ&KV$?v%sk3FjMx>!Eg5vk8QhrtI#p=Sm?)It!3=6p)sIeu^3MVyr91AFVil;
<DOKptrbiZlg!U#DF~^vH{aZQMUz&7icsETE?k$Jw$PtImWqT>&=3=GQd_!$u5x|V6<fCN;P1m&n61T
a(|_E9L_xy0vNT&5J;tO!dxJyfE7XU=Us)m?j3e-)via=Bz5mePv{Q2HcIMhFet;|*P;xP#5H@<%2Jv
Noro&TbSMWiH8E~;>I%kAKucO5_Uf@^W&w&H3R*|_S~JiN8b^pk+OfgCr(tE+pafRt58|!AG`LGiQ%@
Kavw9*a@HHKi0yy%J2J!`RvmX#q?ToLbpnAX&b!OeXMs=$mn=iv?S${=(rXZv@X;Zr-yQ*A6Gp=NvBt
3LW9`A17BqlpNd^J+dqh=^Z1JQZ<MC6@mba6NGgp!GZT4IllRL&Xw9zX+-c|eDU(F2)@b}Y)ok=8DNc
DR*f^=`YMb<)d{V-#_v9;b+ZLzMQ#0E&p!gNFFOF|Ew+%+YPm)v$_vRCGHNw6ALirQDOBbu~OeQQD<l
"%text.

(** Lines 5265 to 5414. *)
Definition DATA_34 : text := "E|-`~As`!@D)VrQD{x?SI$B)vWqV*x?k=?!mybb@q~^bXn|I=K4WXBu?_)C;k72UaIJICfER=?TnT~^
))wtC}Ye&Wfn%zfrosJwH2i>2}LAyaNS&f@VG@JnaH-df%I?xL0nZ!_>wt6%sbfHzxHmjD|{WnhnC7`
;1y@#MQS~WQa%LLO6084+JAB#deBdvib#&7AB$507TQeY5YMYzo{uw5SK0)tosf{C;mca%J$cY~kQ;m
Wm@%AJU8l%8SX!ECvhZ7Td|qezeXF~fuqut3TLh}=Y7@Vf#B|0O5xi^`Sja3r`6h5CO(0k_6RZ)SokB
MBI;YBpS%zfMQ7{;e8jn45!ES*W@gEs3y5%wu*xdg3)f;Ci_VE0v%~auW#o%y0mbtIU-Wlwt90A~3Eo
>AW0R2mQFTc~I$w;&NN)8&H-uP9{}O)_{<iB5XJoRO^7fm;)F^%v)F~=IhW}2=FU7yc=Sh%)=ov)g;t
4nXPGDNq`Jr|HRt~0-$+k?0q4~->X3IHdg=~ACl4nT=aC?^Q#yJx@%GUu7rSEaC;hCi8$P~1(>k%Lo^
;kRZJhhc@@JjHWm=f_M`5w_(BiZeW7v(?oFMh_Z5*xEk)#VBAI;T(Y&JU?jrJypB#`$bY-a+JOqXKN`
5W-LerazLWQj$KD(|K)k+i;je!3-O&O%H$M5PCpIix`r0^uZt1q!d%Or?ZzsEP1K^X~3EKWQh`P^r0(
pzzT2|?NuO65|ar2N5-z(i1L`z}GH_B`nEPw+<V!@2Qm4M*N)-L@N|$#j#%?Dwp!t@QV4_zFWyW}5sZ
MGU1AF=C?6xWiA@;|315Q!WHN(LVq<h;eFz6?;;Hi*3G+rm`qfZ4r?ixre;Dhl;YBRyq_{Zd?9{N3N8
^H(H1UeXA==AqIFnlA(jh6S2BRl-srMK>RV*5r2~vcxN(M(3GJWJtT^FlgVz^)#bBgy+MxbHOa<3q!5
Je&a!-twerio!9$AK<H}Yp#~0TFCzXk+O9+faT3j5SYWTn)LEB{yV7AEEB<Zd3rk8zK%Y`Mj<8lWe_5
pa758Q6y^DAtwJO-2y(;3arW*dZ$aOVg(PYPSzHM6Th^f$;Q&CKK&GXEMt=mHlbW$$RdpXdzF0JUyoC
~Fob-pCUt#u8I%N1+Am5w^cE^cbcMGstQ^F!~7SPa72w)y*eH83b)Vo3*xdfboW9qYq@qu<aYW0S2(H
UvR2N!O2gC8GI<yro(TaVlE1{1(KVRfI;X!5M7{jpWYJq1j=KQAmbzBVdbqTSe%ShWTqdwnEm0&Q3lR
j4s|AUXPFtb<{w47;?A;b0Z9jOGP>Fq{Q@nPwQs%2{#`6*Z<D(Z$dThlP}t;1^t!Nru$9gO5)#)uU>9
Rmho`e8?G9O=VEZ>H{P8-zRC|Xl9SUSZFFP~G^@$vN|Hbzt!nU19un8N=fZWV;S#z2fT_mpgHRQ_PFr
ZD{(K8wp-D*L`6v=_&UV`GV+DvgxnO%gsqyNH0tWck@ELK-sMzW*O;TXsda>$kM4l@Ye+%6x9dc#j}`
{|dUxq?#XC0}^SZdfR<38VoPCc&Fa=@M&<d_Jl@cPlw+Pnj}a?OCLZpqC~m7VkA?W?(G@a{JU^1X{_I
NS~D6saZZvg{<n9BrH!Ntx#AgYG(})8*CG+e#F(ardjQsx$IHpS5o#?v1%Ju6-`&B=`G5&YSgY=s7BM
2k!r6g@QfGo1pg_Z&ey7LwMPGr+1DISi6TdGcQv`iAaWgbt2?@!LA7g3AUY}Vi28k>y8ooQHA!6aLyE
Q#3JTl<g-GeTR-#5{DL1OoLCR#P@?xxegxZ@d21fxcb~g!iz>lwjS_WzPps5D3y`))O(=|xT#!wau{V
+(&ia}-oq^ODFn(s5p%@X-SGeJZKc0bnlpb3igqQbovXO*cR(?GJPU<9RFBjbmk(LIGsQV;%)sh<tW1
A$9bSAiH@#8VOl*w(QE%zUSjCbI(AXr@6khG;hc$OjC>5(C*gB>`dukil9ufc%4jq{Kk#rtoH@@yZ4P
nDw-#c=B__;6Y|s^P^h73B+UI-na>fo2@ig;sxvk5Z!ze=vu(O=Z6CJkavtH6tMV10jOv_Jgo3Hkt@9
*MklOlIj8fy(`-&Txx2#C4fHJ(6?1hoGr9_Xa{*|b;e*)zl5Sv5cMeA$F}YJvN@dVyy4-d(FuU7r7b;
-H{NZV*)E?_1YxqVhU1H|ugZEkAZ4)pf8Fmz;qU4jh?k8D8ha)#L9m6t|44Je-67FwkW*MnXZ;Cz&om
^dv)8gqXxwRYj@6BJ@P?pH(LAiN0&gM0L6LEEKdzTHsdBDnQ5QJp((s2h_UH^ozPj#LUG$$1BC!X4ad
376k7p*8+RR}`HoIvp#okp@MOIWW^*#)`W%68qkfIfXpOdzaa{wfUv)PKM*vma-E0=%`MUtgIGyh9GZ
?X;qSuJT}~nF%>P=(2&Er@;;r8bm?$0@1!#2c8^8edu22LMDbQpr_V8i#2W;&X=-<a@cE?!$nrUm5c(
NZu{UJ?8)Cz14oGumN~SRQp=0n@_2P@lNnY_H<mgN#m5|cD@M;02u#Ehi_lQucRE18YyK0=t1&VOTCl
yLATK!{TFFM1g`kTIfnXFl<gL(cgWo}+jP&R>{cWyC$hz&|+iY~KK|PS6p3p&x-bh#GVhLgFyqvp<O5
ed?g<o<ac3`On*`z!Nm+3ioaXZRH&OX<S00~YC%Le)qE^@ZEw_<TfA+UY{|6cU=>HNE2#|5o23IuYV*
#P+7=|ffMsBRnaHfo|9{U~~aO0*f#b-o|PTz_a5`u&`#rn7ODVe-x6Zb*0POdeMc=E=<Y!kgQ|jMjj}
Mg7Jee>n5&ACSTO$Tm;dZE>Y3*?OJN*sAtiT6Q!n9a4J+FG{Y>M2WOA;(?5{O!@8w<#}pdgZzR-JP{M
e1-&qZ4Qn73R>8xEIRmV-a$gNhPZ^N@Sv-9hOHbIv_a^tlyqACp+3AL4q%+$e568Bw{NWi^7%&$!NeU
$;jMnGcf2=&%4&zyrTUUg>4S)<k%9*tKk4)Oev{+8a;z2?}9R{#$$GsM-uPNd%|6!zNiNUPs2j=CU&b
OFD3QR3D8iyxzB67QOclpRkb(zHwxIivx<jkQ_4rf$ACoeOihLQo)F6y>d-eh9)1t4^)O;+`Ub4d&Lc
j-5BlO@~&Ak6`}uK}c2;3Df_0JUA`vY&kFWO`KAd}s#&c9|`MusT|O++sk(7Kr87y~*TrO1?*$Kz`C-
mGv!w?U2d!1Ex)9Y%LvBfk3iu6A_-lYz^!^w^2kc0b$bIbqE!W7T{{lK>l@aAYM<$(QGDamF!&0J$ec
@GWBQ#eLF)C!Z&15Pg-1&{?%Tzah{NkFc~j>84C8POHP5HXd;c;qpK$(NcW_~{)R{&g2gDlKcE#eEtr
-H+}^;m1}=@U=t*zz4HaArpWY9;@GtuFc4?Wu(413(mP{8w66DUTJA|2z0;AE?a}CPe)9f<PIXPT#5P
7O`7c5eHgur0>Qy<$nw1nls^w4+Mv5Y<awiUqDGb<4tFkkLq%)GjlZ?`BWeVZoGTPAabo6k9rE4DG`p
NCg6x!!6t#8R;xnW-2IWv1~*I)7xqgQb(q-Xw_8C%pMjWKL)7!zaYboowlym)k|QsRxq8s`bbK4kRh}
;7<|$6sre}%1rfuNx4itkgN>XHz-%q=m|t5lOZ30SIrI6p%UvOnUBFE`V7;7COpBT7QsVX0^w2~z6-+
(==P+<W|0L=zh!KnV+FGYkq!P5^GBZuLjG+gWhm-&Ocm(>Wvw0^W9VtYax;P@<+k|4cZ1q|iBrS*Ne!
&FZ{WeUwXmbQ?ZtoKvPFIBDMKIygkN;tEeakAq)Fi-BhA<coHeK`7GR}T7|a#w35zmVJ&~@!GGbCv{6
Gy8wM+bDEv`p?C=wLpf8e_Skb$8dvI<3zrl;^1v7nhf=rn+d`6Tn}k725A!}X4sKZkc?vuoSZi{+9HY
&Jc`x~|^aY!UQ&TnR|#+W@3}Mn6HlI%IM}%Tl0akAUFvDN2H_J%LQ}Jk~|FO8V!TnQVlIYmYJro16+w
7K3&jeLz@yU3<h}Dg-?t*2?H9<~_-Lx?o8?Q(yyf+AJ`+;`C>~u0}FH7SISZ_3xZ<ThUFf6^&N4G1t1
78n_9Vvp(UUf9LBY&^F0Ds^L<jE19~j2IAGs4v5g1Mkt=(`=n>O41~>Jufds6iFi`)whB$s80PX;*$l
t<)>x^)qp-2E8y}G2r6Vi@nzvSGvOSlRY_h8u)2YWIFF;2-wk0`+C5Jw$WAjoE3<9}HW@V@>iV%Fze3
+;!c#Z?db^Yi34|Lm)uffn{CTnP%*KKQGPcSkWB#Jf7FazkHvg46TF3H?=fO&}koif;s5Ia1#jdn8G<
1ZMePPgbGqn1Md^Np_O?!x`-CtgoThOuVE{5F2A$K7L*Ct2xj-(Wbl4U7ies*4PqdH3%F6JH*3Br~1G
fTznmG?j;nc_@#E=JU|SJhYI9#_-T$9vZ|#q$0-X%=A<Ti{M6IbNXtgQA7N95dUc=BW3#BaW+bXnI)O
r2wBH;>Z!oY!{#QG69~pa#$@_-2bwXr(s{k{QM`p`kB_2~jpot8Xm@ZGJO-JSQBcZYTmfA@FjcM-KqL
W(Ke!U3It=~uVA+__!ACc4w2tBRyRTq1+1JeswDW*Zf53((<u$a^jEwTFN|_BW7u`R+C^5#Dlgw@!8{
<{4GLhgswBK%|8K`F2*1Vb+V?K#e=*E+12s>l{pIL>%*W2lB7YQ-n9Np%9m8}#Hjb!%EyYLa*6)=Yj?
OHNQ0Etr0l4;_5bAED!9^S<l#0y8_<o@L=+!2ptiY$EFE37X**E;dZKeIW}<I6tj4?k=Ho@x=Fe45z+
H_@FQ#@>Cd_2skI;Fh)Qs+Ywnt+KIIcD0rbMws)V?YX;<JVybu*d>Q=amcPO%6yn+zKAoG$#O(D%Hc6
R%#2#{3hUuB%s910x6Nc>NC%ABrt-x5S>kRikxtshDgN|5)6@67a6Q(L6?V6euIp~sn`3KmKmQ45{W-
$6B%Y1@obONn+&e8_InTG?|82g#`vu|CG=|=E-S*($crP&*2xr>q3}?VUnM79O?n!CBMKR`r5MLrsmW
|E1b(Q&Sza(P~-!HkzE<Rg#tYMSCM4AlRgP*kdjS)$#aS!u~HO0x-hy8-x3wr5!<faV2tF0`JNETzgA
I43T^a!lS6TPmDW#3{ABr>24h)X|-fa>w&S{<Dk>93eCl`^g<JL2QsZ`H_@&?}0#oe?^=yH)Kl#Fh#s
+xWxg58vc^ODpIsgP2*-s`d;oJA(DSfO0YM)LG)Z)_R7`40M7SOtdg3?-t_j!fuEmz4UKrQ|{tZQLOs
GfYPXu4xffo)*w~|ViD$POmfUr3)Xxsps&>&NT}3NRuHRdnO=J7wq8)8KOSa8Nyq%-TTIkOAKJN7`Od
f)9A?0@OTR=w=Gb2vy7KcA%tEf){`E3?1ub!Y5A|FOB|HfwaKHaCQyEvV^=oykZ*=|<SQZgr4~!)46R
SOwADM;`TfD3hS3?ofYG#EB`@J8-$oR6?%iDV7Y?wPcXuId!<yx^^$bRrmY}$6z7$z{#faJ$h5G-aWj
{(MMTl^;W$LcUJ<>IIWf&?1$&MbB{+I7#2e0^XfkNO=(#oXLKd5Q58qz=#^fQjBnzF<C1%hRQ5OKE<t
GFY!?cIJkp%Hux*O3S`Ojo<CA{*N;kSJRK&+*Kim*(A`(6$C}BN4G6}84G`gkpdb3+@Es;01^u~06dW
6BjtH$1W4GdfSwsf=}`}(5oH7q?&bK%QVU+#1r!n(wi=0pE&v|R^_qK5F-1Hk%R_$|4`eR(>?nn9>v@
TBs}D|bK6jCB+YK?3lgmc|ul@5Wfq8f3NUQOv7dltfzBKTJ#6UU2hnvaAagEHv6A4o~<nAM~tEpV1?#
=<)(p*`5ua}n))Me4rgL6*rSY(I#vZ22442z#M>9(i;%=Pq3)q>FwEhr;#bu@P|-DV@2tNztw#4@!vF
_6pyXYC;mSYOx~B7S~oM((a6(&0zD$Wb|5)b0rvPDIz7UO6<kmCiA7xyweMI-F23hQcdusy|W`+^3l3
V3+cZpA^Y{;&rb^hbO=58;QB@iqj%cWNVX`PGN#WpacF|L*8}}ijk_il-yw5;`8;Q_Qe*Ncw4LOniWq
~fJpsk17EdGq)8i;Kev5K^_&ZI@#ThaVINw+W&nWzn#+Mm9?yvp$lRavbK!nLQ6K0w>>N!I3R(x5o>3
RD;a2`gbY>3jWWy5uj*CWORSSD*6RS{e@wr+bDWVlWAdOBnfQ<27AutF#T7l;K`QF(?ZW1CpxK*ec-I
jX#0t@K%kW0-QCkAmXrjsEQvTIM!+#lFck(UZ_LEr2lj#yz0=P1ktg*AG{>H?NH3Z19|c6#&>D>sl!=
^@l29NI;}x<@BArZA{1+I9%X4E?IKbh`dfVgPSG#0KzZyian_+<~^NxPfaTw`$S9_9bjt9M6E``GDhv
j*uKz3^o9Y=@3x&$#lD1(%BVxGBAQ(&#K1#balGjfx6`tFuYw6w~|RO>u=+?xq4T`po|PXZt03x#i|g
a;zFzXO&=__q3L!~Xoobl<FMMC6e_g8fj)MDN%XpX*seMdKiic-^l~1W2cbYZ*+R2!Wt;)`<>)832ts
$E9W9w+RTyPk5JhKNvmXGmn__@UNTE}24i#F0hn^VeA?qRgo3l|@&~8;*9MFR3bwJ?g!8Ts)>r>8S=g
=DQTn@}j^_#J{IfuJ)vN5AxOM$V?=zxAo7Kbt-w~cIJzDBkp<QP4=Saq1Gd(*AUfvr><wBesHR)8*D0
7}-=NvvwuDKWSnAjMU<InO;)7W7-39RvK{L0xE+(16_*SVlv~(5bx;bifr%?hXx=Ni`SXr-Q6xGwcIS
GMrSPt`;;GM$r|4{&+bTY>0Ur3dQ+_7G*SZimGN{nPU(vl}4^WutEzab+HnX0>e}WlhjyfH)tuMHR+h
R%rMZ$^_=!XSQFJAOW90uRhw_MA@<KFzPAmc-DT&=-8<E9Qj}zWc0>+YL2@c0%|5l`I$tE39LVQ^6bK
lV!KJ08D?n95KYa`CdH#s*e`(c&W1gv94dPh0fI#rySJ{iln#*$#K6DfCi<_*F&kfIZ`0IfD@SyP534
c9-cJ0}iy;5u#41bUVes~smX~!Ry37!;xI`O9`(Ars%;S{2?xPAElBM)vzG6~{*Pdbp8!oQ8ODIEPLV
`DKky!#AJ>#GD!MZfNm)Fy8`GG;BMFl=%H|BbV2<j%li66|;muwx&x<Dr}#<1b1!A#bZTEXJ7)Cy}k`
%K4axu%-cQd*2D3h-_N~wp}_UG^e!h|G>A;u&2fkr+9M@oyED2oXxp+bIyGr&bhb5IrsV)=bk|uX@YZ
qR2=8riwAP<g$ZVRbBuE@q$_BQbEEBuK1q>tM=O|}jWXu_aPdIqy?7w=?k^9w<4ZlE1$Xrg<la~CvIA
Gpiz(;c7X$ac2mmK>_C1siVBg6!G4_A>KEb|cATKz_IheEj$$R-xn7Z#1r4+$ybSV00O7@kiScOb+rC
SW5;bvu$lCCy8LXtg-*jAej@XFb33SE2?YQZv*V5|%%iHuLh{gY`<ncQk6&9o;4)b44P_}K==>RyDGu
4(os19xGDqZYonPsYG^EYPP+!azIj!jr9X_{yW*xa-(1M^2b&y#*_1m(;yuiyqij>^F|tt)=+GS?_)c
lJD|Di}T6JPX^55nuqO~mCKleVPG`WW>IX=s_tpb8IyTwi=Idb+bQZdTEtZbJk=KxwPC1dsvTCf&YC*
SuHJ7EV%R<1*B!Shthiq>d*%R#bvA*E<&ua*+MB!`Xm|+C-G>7>l9ufU?M4sfQQ!Xf0vKJN45X?9kyg
JBZ!U8(^ixz{VCTI${iFv}wH@z+sut1B>i)6Q$uqr<sUX=u&{e$LbGc<D=spVow(<nd=SN0R5lV&%=y
&mPjoy`v$od|4#;;Arp%jBxv5lTKWt(UDg3I$j_d)d_>5$ZVN)p#@_EbMOPj69%0nbb)4c)CP4a!P&Z
=atW)#k;*FKp8!SGy!mX@^C$X9SWwvlEY|4}TXIXlWIDWrvkI%s^H}a&8;*5hhF>$`szm-Prc&q>6RP
ADWZnjt6|?3#k^>>n=|Y@YX6cWGwgRq)OK`i&ekDr3bq66g;KsLGe72x<QwWU;4tg7`)+m-JWVsPO7)
+kaABP01C*50+gFTC@!i_OXM?tDeLu+r3bU*OBJUKfy)Nuxd!uOL7tKQd3c6i$clNci4TiET=bO(tr;
1Yvy(Zx?V}ZZ<GUIK=aSi90TZfTVq#9Eu2%8sUz?a__|v;E;f>!y={;BscDh2Wx)Qg6D^4YeRnH`$Ux
$(@Ra~1ENU8AWSWKF^;@%v~317)NAK6_*e()I^fh|+!NH!YJ8hnhlI%&CAm^@0XLQW`MvrfsZHp+T~P
hTJ1#8z7`mGx%7i<Xb@g}ny!aZbiVw%QYZLZdiap=Ukuo&irU#;(Qu$n^EGKJNG}_jS;1fBy}8E6rc}
m2x-qD+~HHuv4-!s$ywznljc?Jw9IYa&K|9=kip|<#X*0q+@cx+-OYGvVmZvm_D^Zr?-GqjEPWc(>uD
Zh&bcTAHyq@1%2|n9;D)v888jBu>-4gb9^OfsfY{KeGl2|&E8+Jbe=&BZcAc^lEf-B2Fm)zE@K6VhI&
Kv1E`pJ&}pK2+_Y>2w61Ij0O<AND&v&AkA=<)4T7>yT$MgWTw7(p5T1Uc4}FVNe=#z;je0ZyrRsIAdM
LA`UN*LCb5BQy3#zIHx>k=TEg8Jr7{>|5dM?jbj~fGL#a@FYWw&cX0YBYe#xPXUMz4gGo_P29$%8Yb?
A_a_hioh&jkx&awz1R4c+eC^3pal}qyraB-S*=%%nP~q8(2Z0xf`G`R|A>bA&1R(zpd-n#~SMvpKJ0O
_l1_^$kBf=AEPxmIhD*(DS!BXCCGV<An)rZNOq!F?E#v+3@t8_Yn@^(Wu~(vq`W9UP2+{-tF8|Ta}*F
}Qfa<5kP6AB=sN=29*TZ_Hf^?Z+C=3YONtTaHDN}QgLIqa8SXCgJOBWJa)BRcXz^QT5~+*zt~7skyW)
oBcl>g1d%P|r)#cuu1A_VSyw$UEuF?ER#nwdrfVng@RJ$66N^YvhwE!5PkuG-wZKd(rkG~1B0M;~I%Z
SJAf0M}v;}I!9*Ym_DQQ+6cos+IJI7&GRIcdWHA{i99eo`zx&{-~Sf#E&TCyAb~NP~8pZacLc*H|;~>
reN@S0cKdy`qm(R62zM&w~LI*`s|3^sy6?qL-XPGq*O1zO{#~F;)Fp2k+q$h`O%0|D4qwa|hm4!u-_-
9_x~Dc{?DN^r||pjkoN<-I9=<UYaO2ik@7#yKrrM8Qxq42M*)f_&Y`d-}^~79^~+c3wA)Xr0xS*U|;c
cV(Nwo>33MvZw$&WNrP0`gG;0MJa>&hyc<O}+PpiyK5Dn3%yEYxtYBHYJPwON8SEjAKJq!FjOf9m0Gf
?HzdO;}w^$i4Um$(v9Cm(q6ibJKAMOV``E^1pOGspn0ULO151C0}*Cbj)n|LP8NTe|X?MVHyn-3jTK>
j@r!Y?}+bPF%!C&(E;)m#bh(5lI(@(ht(pOs~@L*-x4gIUnyjr_RNileAUbSdj)*NO5B`XT0L!sS}#X
L6RnGf*b)-;=03xPlurak7~~MPGwHTH#+clg;!_E1Dg<WYU`0M1CNN8P%M)xnma60ePE4nM2rCPiwhX
R_jw`_4;nTv}uYiq<KPRMtGYfq%}^t97EGQ)n$dCjDCj>4r+a|9KODr7lWJ5>q%xaB$Rsc73V!-)fJ4
Bpwl=mz!#vgx5V)g3MBsUd{dF}yL`Lox4Slq;ip*-3jTN~)_Sy?zAAFF-+W>#$J)ZxteQ}Y@$-=FZj5
n7$|X5GgEzS1o=Fv_H99A4K!a1xZfpy&jb^=Qvba85QmrMEtn@?Z_SF~M^~4gNI@zf!^YPKA+%0u^1%
q-sJ}iMjK9b?oZDrNWTI`ie4ujgU{U9_Qy((m~Ui~g+cQ{lm8!w6Yh{*|zn27@D(N*oW=(hhn&Bc;mB
2V&W=uNPi<NXV+6HBVRWIu3lnG`HT=LvPPOUJ|RlU;pET7}<bsfY%VkB2=@z0u>cRCc%5;;ky9Thz!;
xRQFBb=z}KVM{185f>pAWwtrAmes1b#8sd|UgA=Fl8}kHEN(4L?J)+-_-+AGa#>>@BAKyf*5lTj$CaU
FGH|)cg!V7=nk<&|b#mniX2E$z#^WrR>u{smcKy?+0;2tR1>5jKHS>XlnmO=1)j++dWGDB#+eq)cm78
S(R{G~J6Xq(InKygLR(9x%b?MksXp=!W!0JDOd{Z6zm<n9;HOQxJ!o&73`NFmwypxD~Ys)cj?TULXmQ
(TLJ*VpybGU91*DPWj(?h<EaZEdPLh-5t_{`1(!~88u#x0A>T?L<l#8>`+O!oN6VPE7Fu*oamhbYjPW
YCy^)%^fW($1Kq7ueXoTQ~#!q03{B@jr=dhlE}1D3mswKEJb{|LtTIa|U?xt&9PVrqA(M`d~lc@%8~6
FtMd~*PUnIl_lAcP3&|UCnp82>z0^BPPvNYXFqBU>Q7usTiGuDOsj|8b#noTI<BUGNDA#$b&rZ_$Ei@
ET}xrc#4XH(hJKo)k)t$}e)@J?zkdYq%`|=y!WG!u`}tOw8AsWHXZB#3Mpvzk^d`I|rkOqu%mH=7e#e
P(?b9;P9S@1-cIE2f8w_+lZrA4SlGLp_o*;E)O*;X^8b+&uzhp0Pvk^cT*Q=8|1ZDp9WLQVn6uYY23A
JjiY@gTM4Fh*Q$>?Bb$#Nz1j2S|&LgzbIlQLd!gzBBzXm9XPU^svzDONg?C&GfSGZz?Q`!_3N*tbyZF
!Wk#h%VIQCz+aH#IRJ+)5mFX2D=ps?Z5M4PA5297;rSL-*y$7GQB_rIkWg|QEr3wPNSe+qZp>@hCr&j
surz`fizcdAgjwg&!CK;hFP(lcf6b6$C=0x8<g{)96D3r*JG$p#&wFDp2T~raI+ZF$IQgFe-D}jBE4o
b0KmlB!7irB*nqZxDUF_y7SIlr4Cv{&9egoOI_*LSY`Z-^w_>v%q$8M7ZC`K_e)EgOjH=`_>ONQ2gHT
KPTy%va$7CjWOt=%G)bC+N>BYche}oy8$7a;kQ1|blr7JMD%aaE)DjlMl*!fFs5WPN8KF|at44TCb>5
Zm0#Tsx?0)Vdie1LI>`5xl@;WUf{0d%a4gBOc3MkYQhz4lXGuPm{5pI|--AQgrRt!SBz`4yndK@637?
C?;wy4Y?COdxJY0lHZ#wu1BVF{of1K2iz<_n!=bWU9e5-qgSU8}ohpfb9roR|-Nb>0CaLGVsz~y8J6x
WO7^L+q%!3=17*GuUO^qlguWqMy$9t9*l=w&E+OYH~L5mv*X>2i#U-iMOcg%kIthMo9PevEK=Bgl5Hd
S@H{G$H7;QFyv00|L;uEy`l!hw2D?zT%VD*vtPyIx)gSUF^~jaSvDziySLTBvTSq=ZFRXyrq~cQ*VjH
QI`LLqY#iNlxqQ7C$zr*MZ9*yQ~?Xk-IKMaV&byF*?%nuKU!<+B4n=A8wJ0K428rrp$`M)0!hvzP|i!
1X#OzMwA{Y4vIng1V%BTZ|t5u&F)#L~zg@RuE9l=RjR>xq_zh$21{#K<9rm+1CBMknWTCLM6ci=JOl4
_FJB>Eq)NZCTHDG4G&Ho<kvNmn?ePD_o96sTD3k$qnktMHQ}bfmB!sb@ACc(gR8|eRmdH`%(Xf|61#0
0Ed_5#;Ur&u`_NsJh!j5T2O!^2aV`DpEY8~HZ+}~2hC_4?*BmI<N`cQjV$|SY-o6n(ZFi>K0M99JaXi
cX4+)tyVxP~>}_1g0|aD+;2qmP19J}>hk=6dLW6RdT=GNwC>?!<IlHG|o^mEqe~y=!?Vrh*)pQi*<dR
0v^P!+X4HSCCHs&QpSAK-j$^_>&Ms61hP3BvE;x2KC`vT7JCO^}0JZ&4h<{<OcR$vOZ@#3CC_tdDsoX
Gymd44~XJ+Fuy@sS=$y$@&5x4<=|CIjDUZc|eHp(K?4au4CS4Tf<$<X$xnh7JaZP%U55z06N5Wx26BM
b?|dRk@h5h3>qW4eHP{0U*^~)uoJvCFvb^MV~`ShTqh{D+rU?I87Hcpo5LMU4SOBYOjE}b|~fwS8BkF
"%text.

(** Lines 5415 to 5564. *)
Definition DATA_35 : text := "#BqehZxr}ehQ$|}jQ4(7Bt1EHr;CPQdZfZNN9n>QUsbgskOivDAURxUsK^@^V5dgX5p}^XB*D&YQEjl
^g7qgirp$pRVv}M0*N{Av8-rZ|%VdW#ZE~to2ne}aT-!`f-o(ArM&n`1<w&@!Z<sOGO)VXLDIo#l7!F
`vy^XoguzG|Tcyt)Vv0WLT>U08R^8Y&M&(<jJGQ&xK$}vv*C(dK4$`xP7eO8dI?r1b$fLk8AZNU;YGk
(G&dZB{nx3KAnm=yv>5C++)UUpLickqZ^zDPeoXNVG<`M6<^|HjI$Bjt1C5<hM#_Uh#~$>Cu~WY@MbX
z&JVPD=QJ<oUy<&i-=Q1zoXH??1(_By>Ylc5OyRv@y5N6Uy2M@0ziH$3o%T%y<2l{d%`<d*g9bCin4b
#i}>B^Z?49Lm3u3G&MfZm3TXdx2NUF+3onuk++>-=deBD>4w}E4_>T>@u0F^|2Q%Q3O%_ACwMknGtii
=NUQ{w9ka13baGn;T;L}@&Zd1j-bmI|gYHy6%INNS_%SS_QA=l`Zyt+J@`0N(FyQmqy+(7mJQ7<i&By
RyI=lE${`42G?zxnCpMsc|A$J4MHh)!%Cq`q3@oOH7Y3aJ{^~czbh%a}SZnF<~uX>E@=6Ugm2Oh)uKL
`4iyGyR+V+}Fm+vVEaSap8a9zQU2e<-UIYV&n}25<M)3bD&6IEPjz+=c|#@N?tkAO(Ng1^qrGlOvM42
`^fu6KfLAt`lK?IPnO?$wy(SDtHJ$J>i$B5gx8R644}a+Cj;6Fwi_;O#+O`1J?<zzx`bOurA<55K*k0
-JXdDdFU^{N;Ki(d~^4gg7C;V9HYRa*nq$C24wBQZ6tC68gWu`oeb3dk4F4_8@iZdbd)1t2R6WQL)_6
cFbSCiwBpyi6<dIA7Go>^5^Ke6tQE(g6+cR@9|LRu7b?y=zo&<9G*E2|=n&z%j9l~B{DUAYy-zNI1=s
w_ZXtGf59l(ZlPMQg`qxkRhHbLm1e$|WJuz&_<p8YgW+HYcKP30mB7vO~;E_k@hX1g0bvN!t>C1Uc02
cmRu39YE3?gsSSx4fyev3ze_}v||Pv1bRJc!Cst}cC8A(108`LfAN@wPxu_<loZX}i06X|Wty+Uc#@t
XM)zd!!nxmf{KB*W+1^*Zj8At{b_f_o5WMQ69<)b_T57je<J`SZKbtT`_voPLVC#7Y~(_I%#~1gfA7!
9eRr*!CxL-w*k$ZYPwEe+|X}YyI=#F*6>aS^lp$V*I`o!UM}S!o!UruSEEI-K$QYic}PM-rdu<5Nhc|
q=LrSsq)(WB6tyas;?H>e8Hqol+UpKfd0m}khxly0HdrFtv<!)SuBCuJt|gHjq;a)?8>+L{jgLs|P9S
Bf<f>Eh3vi!PxwruD(^t+bz&%dok^;2nDiaHYWOxj6MU<?l6D>aEJ8h`+G1_{ybm?Q<|HIaOvl=@SD%
vCkJC)(f&F4WEyIRM2=dY{?OO>Lh8Iqu9Ze_T*COS$I*Zg2rH<+L)5RbhQ*X++IPnObSaIowH+-NNg-
mOXsypMqdDo?}f($HjbKAqPR$MIDysPf<_(`<MpLi7dZ4&!xuh<BY#ie@x1d5L&8p{kvO8yo&`5tYan
9?r>Y1GwmUJD4*~kf8X>hL$vrkGLX%Lbg-luIg0sp^SK;(21_G=PVFAq}xgc6dJfjF2M_B@88KBRR;L
?fS%WgwwylQ_G&rXQTb=HuG4$qhvY^7Y>FwhYn7Os$cl0Nw_@&K#ejBvXEVE<yF<4vEXQrnz#BBZ8Bv
A1DcVbtYkeSDs@Uq*QqhEFf>(=7W_OTu>Mq2U4QpD}9<M33T?F-c(|WKvtkzS#!~$|_`Z*huS0OELa>
~`-RxyYwkhe+~Lw^TSld67F0wmo_*5mfvzYoGddYchTBkA%c&_VMMS}B5tY(1>&QFLx1>2i4XcHV~4(
9-R6bqDiV98sz+-99Q{l}lzfBfO8h1FVD6QB0w?9OO*t-#ja8!Z>Kc8l2Iq(M%IO8ptHx_VM)rQ~D7t
DZLX0y&lNDumGiO<)Q-oe1bBr06(69)4>go^9%5rex~M{gg}<3+FPuRSdHiGV-%C-seZ6nGa<X-Gg+*
98#l7Lnt&#k)`gZfi^0EQ1ZiTFHa=2-6ed<>LSzBsCJS8=G5EM4w#SGksJyQ49<fU5Nz)^j!mn8j&PC
JZ+M;3)`CbPV*9Jj&2B+ffk=|y#4<!6S=#_z(23*{50asZz#gS8RLEL}rcX1Rq^Rw>s_B{-5Vilfe2T
D;!BaPf$xwQH4N1qCTOi$R|hux0uLDjLw+g#8G!a!gYjKSz1fPP<HpWu7sM07j$3fmJH%jyQML_a<dt
HIWX8?g@-GgUa=w7>9FtpIO<Tns%IpBjReDd@fUbRTOi@6@9cSf|9QV?2`OzIQ^*0()%~Z<hpQV5_B1
jI0J<$vVg@hi93az1i#N(92?;CC{MHY3%U24lesrGvPSJw@A}H%kL|WO@oSk%g&;6j|G0^lA$uGSHF!
-gEmOcXe0nIIB!{mTI)JeES|x6?!2X~0S9C9qs~2X{1%HN#(tWRn8e_7xK31cLJOJXiZl8z4>Nui=S2
xN1Wc)WEb<~e>W|%($PV4szA%Q5D|OrChZ&cV*1^JCGTKKPm?;bzfHp8}z?6!6?Up_m$OG2_0hQrFbL
`m$*0bJt&$h@RQyOWCUfRnHGznMmB_O^3sU8*1xDCL~WKtBQmf+oeI=^blPM0<GFOBI9xHK{&v?>m`k
xJRAE^#gvKuzq9EMvE$A-O$^DWBr4fD`eoufsz&u=_T5FzJ?liI+3CL&6o1IR}<9JcKQmh=6N`=&-Hh
Gwx%F{*}a3&lo2WX~fOFL(0%IQ`Dos()EP(%zYO>Pm(8*2)jGcOIrOPUI5M+jo`^Y4}mdj^MTT?pXuL
v4!s045+A!?5CvVbjv1ylFtxfRFpAz?pV-*@Ap#x8oyh20F|GR>wrS=g+vp8np!@_9nm4~>Sl~K2yIZ
Uob8V@5LMlsx-`f|NO4SC3Sd&t!_OPfP7FFkv)utp_->kSxLCbTMy4saS?FzAG5IT)I=-6pEt3?(NYu
c$e4GE|*DV{40bD1&MCb6bjtZB%Oc=ABy!TT3r2-H_l!a4O{G#73Q%&o)YDP(89xo;~lhef#Q_*ks}k
^cVI#rn@}h1h?8_LqfXO~%ktwU_m(m-Q;*ki?oHrRs4Ocbvu5JA7(=l232OHn(7#Hz@1GntHLOCA*nK
Sdl=#bar3NsUQ6T?YVUg{DNj>NU19+kcl@o%e<Vxen=5((y}9QTdEg50KfE;7MMvrQkP)zlWjn;#BC`
mnPKW~_Zzp#CC&cv+k7Pr*OOsZ<^?NTWaD&8mt+)`3~`lYR69E57yQO%f9?h}S+cE#M_<Qz1b8YU63F
ixaKJ-&n18@g0e;5m`v!jSCT%st7=>V$`SSn3nxzbjU3OrD^+gKHN%TFC)A>n<-j!$F0^aXW3&SF3Zx
f&V3pb2f%I@xpq$pRRTXp(!QyO5R8ol1SB1wu^N+3d|Nu?nJVyY`*QZjjziN%=Ey*3gx2X5joM$o$<U
1o{Q#kLc@ZxQtt;7H8B7V2OXAj*$nWGVj_Z{Gm_TZbT&Pr(BHWLBC5igd^!sl$(Mx5SgyiLpJ*4_E5+
qYv(OsBCN$Pf!jlZ-rcW96kHWKCE>hm$94DM7t-=EmuZRwuNSZdJ#p4S~tT_2CvUAHl+H|k=IZBX;zG
~L(pf%I6KBUFm57x_+oqq##4;v4bz)3w$snNeBbm{QmnyO*~6R+Rcs{p{9WD0ntMk7;ctb{*nH*y$$C
qCjMxClYBXuUAh7|0I8$Pf;sZ3Je}L4e1#!v{XXqcG6h1)0fGYlv<Ks!|!5)Jq7{vjy`_WYzVgYf(cr
}v69~vC^oDEO8enx-U_;l*}B0fGa78L`BiH}cY!1(xM^&x(H5Wk%mM==fu!ACK!1LN8;t`*wFMhJ)RC
M(9Xmhl0?VIKV7#%B$TPp58>NhN*^3MZqnQ-{^M(s6pwetIxxU@$BdOSQ?^xv*`?`{*@4qZ0;`Sdr-g
1n{86JpwY>8J7O2ItR`XSZFHo!r)H50>4Vd&j9}sB>=TW@AMc_2eixtVatG~#l!Y9!a1jf2exkad$HD
K#9D_SX}o!v@#e+ic>6ZQ+vhP<&ts;tNW)pa#g!9T%1*5GQ8}DBf}J6bC=bd+jW_;oHBSi4kqP0gZ&8
M;`FKOave((^V=RH5z;kqj*iVO;I{@NA4uOSI?|}Gx_O8ZzJ`F1a+9i1gMsj_~H*FkVhNw@G2IcIn)W
G9r7<lmLYb=Px(Ea?qm>n)O|L0w{JEe?LS0fs*T}RxkEeJqYBXIcf;<X&n<^Y1{PwP~M$V6l}d}3eB^
mhoSE(3IfY<8n%K*}PP(&WJVK-MxBg40|CqPM=rxPIc!G#n`j^H27Z!G2epG6|0|kPY;*Q)qf_Q^xur
@XjfezOTXWL4?ikzmK-QR>e%OVVZWsfcpSq=cs2#n7u51+T*es(CF;4T3d&6Ss6sHWa%$pP|M~gvmg5
yH?70$9KK9!Z+(F0z4<YB4#4&<K##SAr#tBUR|gz;Kli?mLk{0IMkdj<21ZpIJ$O|#{cJNzth?m!QmY
i6o(v*GgC{gM!ylS!Dn0g=94?sh0gmCR<)*RKe9vi1;Fuf^XBkj!grDW6e6}*l`Uc#8I@kVJ{7e&<_h
!rCm5cd>O%?pYrfGP4CcCg{A=B`W5T7abDV;0s!w*^+xc3Tva{w>!^E($-8}vG;)YVY-({hjVmPU_rA
@pyF^A_zQan-E`kGQJN<EmdYT*_{hNZs{ezX?BHWcZhZe!GbgMAGt<s=B~uWNHSxz6p;YF2q|p$yCsF
Hu76KgA0>lzN`FuLJnFfv-_jm0)UZQGT2T2Vedk`*<a>%4|bV&Lv9P&3F+-q&jB99&)=P%Lt-}}#xhN
qiljb!p`Sy_*<bj>FJnvO@C{l1>_(}}Xi!osQmxB9X?wLn5KL066{!wsxyQ1%x)PD4r8HLZD?dSEP#Z
u<-56-ruER5vH)H`G{wjst4z*|GA`27~p5o9lBn%CLQo>U@&L~5#M?`;C)+Ceg!q}ZshhF4IN-OxCQg
$CH2Lb%?i9WJ-ZbSby3v}*UcCmMy?ymwF3~xD!(LFHX7f^@M7VzsSo?gxTH2%sDQz3?2S;zhbfKzbuW
pt;W9vF`E4VggvS_CtF?yp#fdBeXj)6*<3F@MZLFrI8(fueW~6KV&{nJfO9I5MB`7h?0(jdyV1U0rST
Bzk;K$XbW0*onTtgeLQ#b$q{3x2?QK5Gs}c@hCF~%K4gCJ#i{9q{+OmArAQnKx*676DI@1(2>s3WNwb
75w}VEh!>K9Njd7@SRrgGySZPCJ!aMAA1pJE{9A0cu+K;wr9PcqkI{qYxN&;`&k;q3C$S^h>p#FRG{{
8rk@eEYSYdu1cj1$an|#KDc)CyRHJ3#zb$SZV?itzn?<jlkX2y)Ix~=JMKL7SJCXDyBK;(<D$n`AphB
0`V8gdp|iKfUWOrbk7Jo)#6!t@l=(_wyHkT=J9fpTeHu|b(AuF4Zv$p%;NB3t%WDD&zpXi!C($!FZ|%
ia|D2^yA^XAgWPho_#m8kd<0i^XSL$I{3RrpoB+Xq~+fgf?Zg8qHKhy+tvh|7fiVNK_kII|LsYwI&N*
O;bA<LZPV{o=~YpGluSj)%yu6aJtpFtN@#1cANaHtLve|!P-840_^iMJGQbJiGJ3DfY_{if#>@o-<m!
_lkbgT&&5_BX_oTr%H?^t8I()JRf9o|F}PY6jf4sQi!5omQ8I3qEC!4%GH!CUK5`IsgS?S}tv<ERQe^
zfmwhns5#X)zFm?@Fs*G0;o0Jji;Y=l6-x?V85%1bZylWrvu6=}E^Jjkn=!V8xr-zqZ{NtKrHgYC0rh
)jfw+A|rG|G;1Cj~!H4$R^U|A-R+W-(Ww+;PkMz;BeD`5ge#E2*1xTD1nVc2es}eEtPz9ob6Pp2UsH4
p*UxUoo)Sfk)LH?1HFv^e_N=xrePj&+~cOEY&iQmyZI?xbU-rWD~Wp?M}+BbY#H4L12G)Ld}~f(51qn
%cFd*O*sGmjOQ``!Y{fpc0I)oONznc@aQr(yoc8su#1G(vO8C{(DOgUYg7tNA@dz|cxSLBWWI&HWQ5E
&;mZzx*!=bqXb@1kdfdF!CYNjwYdq7frBbL$t}ZkHOVqw4J21WSIFiQFp#ZYnGjhz7>MBFsBnI#e8h<
KvoaIZ0%OzWvSB=Cq6Cqmhb8=1EZkWu&-o;j1uuGYicjH~Ee-XQs)%_0Z614fjf9txIjW(+b01xlIfq
-8r?C9<D086D05^mV$TtMDo{EpOr`FsM?lhuMN@e4YEVXM(Al%@jRH<`z7Pq<UW@4REj0qO4d6DEiU-
p3`hnOg|>w_Ud5XA;_C_XPfRF8|gNZp}ou{Hb59KJ9#}+`UtN1Mlzzjd{g#tE|^mwJCS4Oac9=R_|l~
p76oi&;C_{U|ob45!PA!#tm|Jn=f~pZ~SKp=(IC>Am2?@UCJ~$a=;4j`S3m|_I^IRkKnIqRb7GAz=sS
V#K3PK`#r^ePqN<=?DshP?Pb3`4ept<2Y8OofDwD~#RU76B?9`>Q9p@N(<)@ba(>p(wQNUU40867nf?
ea0Dr$Dz8fx9{eelowr>Nm&5X$HF`MmUhFHw~cQA<e8N?PjWM2CT7V^UFvGi#?eQ_fFA1r-wJpDqRo|
j1f4NEVMr>ES33Sm2buk{ly*pCD7BMJl8Z8>qcJ@^tb7Xy%nAIrG$6MngidFm(Za?fd>@ICc={H{I9T
$aVj@@8K83G1(J8+Lo_>vmnrWOiGo{slfRX0}O*39=}9<uQw)6u#*v<O%wAbO-73INgRovbg4uO#?d4
jC_o>ZB?$&ZEJ56VpmDDCO(QvGFQd`hU&JLV*nO*Q5XL_)1x0F64Y3V)k8KHvBL=rgu6DPlLqib@%PO
7H6yVXc}MJ?DQ|9@pLx(JgHTUMMGHVysV6j;*1gkjzV*Mub~c$PUh2so3~~+{%s@Uqf+xt6OTD4N+Gb
yNGYH#4>6DPk082m;n%B$-6h$B_0?}W+6F*9@GPh29C!wd{vF27hwlGNMKWzaA08GM`jlh--!9;UuXr
xB5jbq@AW({cK8*leF(NA{zNxe_))dORSvcH5zC6yM2OheI9h>e<r`f600=+E9(2#d-n;DSaJDlrW$9
*P-FR{Pi~3P>A`rrY2{cuzJKnO+*2b5kG4n=`Z(*or^C9qUpwpfg9Th*)ElS^wJtKg!t=yvIdv?)NYL
d7S&-?(b0hTm2pSzhKrHZ-!P6h-->{t97wM?M-?jQ|&bdh7)ruEH~Qu#M}(eP-Z=bhSD8xCD`D-Z^aM
m#P9y>nqqhRNIQsf>SI>WJ|$hyCg|5&7K31xRBe&<Bym+lvxsY3=+L!nODAATHEKzE;-go=wkQ1O(%p
Qd*GD?Zm+s|Jex0g&`DT414We!SI$bdZcP;z=XFl)ob7#OEQkUEAW|tX5=^irPM<`=vN`_Be%$jc)tX
->)7obsBNXv@^R`cij7CMOCg1#PV4h&IU7Y7FOln<_>KjOuZUCXxNE%HV@d3Bagp5wH$)b@cM3*on&I
eknqY~}YFUG`jDF>L0l9|-2`n@6zp&X>bQ6+V~-q!(E6y&y2)XBpUcA#fW6eIn+--z=IBn5K?5QO#|W
L*Bok{C^1*-%O0-OK&h0*poN+1vD>tSHxs+6asgppvh>9-c@LK`@@;fDY`BO|IQY$ja1#pzSUNNHypV
dm5F%Tdc41+4geP@=*HA6sU2*asOW*Z;v!>J3m!Vt@GD6G;sX#Eg1lvci!k?jn0usL(t5_Wneo{OJE}
G%uR^(m7Qc~b_IE4K-E4_8Mx80><JE?j63@q3)8tt`P9jG=fHyb($X;kdX!iTws(oVBK6XZWZmskY`-
BYWdx+j(mstH#GC!cwF}Zlr5TCeq-4t=vGZx25+%FO}qeM2yB@sECQRgeEla0+&#Z^_QZb+3P)P#dD5
7bJFSTz;*DoL{!7rBxYwk=!rjD<h1h&_+R;&;cMFU6i!$$T5viA{kPs6F?Jzb$9?j69TtTa}VnmB;S1
DHN-4%~gB6T*Fa&rioQq>}95+s6EAE)fX&uJIK^Mck|t4wWma^dK=kMHhv48r1;SF6uF*EK>P)@^8)c
xsCdnH>E%QI)CBZ|!clhpww`Dg6VqooXGIUPkM?HCf9GW3=mrJsbBL3=*XLN!+Ys^}O81emlB<t2v8#
MUPXucM2&)DAlFBS>yW$ndq9@D1i;I3MoK;ePPUS+cSaV|!`}i{62wg-PsN)(o`1qkrC~powdn+xU)&
n85(h1dG0G?YH&4V^V++vKADqv=+o86cokz+w!44s$6l0B$RMCUMM-zPp}G~&zsPqe8$zvSnk)t-m=h
2(0_!`#TK_AFFN)Shy&Dg_x-Pat;TYR_UZ*Z>99UWjd)p*OST5%(yPfU9@P*&F3;y_$o2LTB~7#t@*T
>CK+J!RQ|v0jQ(d8-WGL(Z}&JfBaYtqC{ku!6P4#*avL9Rfis(W4fu)<D8KLQpM3~kMkz&Mv1v`W18E
Wu4yhGxeifD|2-szFtO^-`02#1^$rCV&#Seh(A9AaM)Awch#>w!8kksq<`Lxy(m)E*M@D&S5how*GB!
Y1$}sqKD=9_dr_*}05inHnu(G)1q7ryFdC9aM7S4oq?NN)byB)h@!BW#$sbxklsSE0lrm(ABwRB1Su3
K`Qki;8L07JbOuZIo4jA?kOU(5InfEz!k=Uam<%gnfeI2P|af%(}YcOUVSy6}`7wI~0HBx565^EPVR*
-8-(VhNzIc(T!{97S7iP!p?0FvFXYTH(qOtC%jPZ`2{N(U=oGfvSU5syKOnpb)8qH7`HbG%Tu8$8+yb
Tu|ABo*AG4(GfdPt?|AuGjCtgPP#P<W<@w3eyA_g{72kg1LTQoPs$}-09>ovT5m*gwy45Gwz4}iK}=i
hCylt_4X+;18c}!zh+4f>BBv_9M}1Z~FSjlq$_@;NVjG`F(XX17GrNKbe5~Q4f;vn83rn9rFulTcX~4
q90*#(9tFJ!>5{7~fzisT3DEYITbHw27%#Y>&Ved=eqO8{c&#=hI;($uxKJF-~C}=1yjLg_TkhrCl2F
M~50>O-8xu8IaBc^3#yOovQx?L-CtE;$cnOmE;l}c-f7TOS(Jpbo=&UuFc!K`2Rw|xHh9bTTZpXYhbb
N2H-hstjVN=skp1Cbj@#Z<RXXA6WSOw-AmP!mM19ySrgSmUHgS%O(i%Al0i9F|UrhJ8&z{OxVU5#R*z
?bypk=htV%0j_oGYC3UY(0)w^O1F9;v3gqw{r74dHQf0kcK;XjwhCrUvCS^yi_)x)pUq-#`~FHX6-nG
6H!}E9Y-&3{AEs)9eXwKd2I@RQMcz=nq7bMM@kH+H&WL`M`1oQ?sL4@hrV&OAZZA^UN<_7T%mp$u*jQ
Fq)B_0HIya;&sXbfgVl*WqgvEf51ODz1k<o1tMP|{rnW0Kc_FL4Wp2^{yIy!V}Wy5e110z)Gf_$jeAu
gGtriz|2ag|!B!-s7Z7+GM@-{~&77=m*m)+Ku}0&zc$Nb(YA8%_VSY=h{34s=Ldm}g%l8swVt;*mM_0
O~qn^{<{M4(GfbSe+{k#_9|*EcXyi)u`e2_QiMTB5B-CBW&SRjUIATgm53~a{tv(JqYgU)Sm%TbK4D&
8riD=sa3^5Y*dk<v=tzAa5xKuJ}CuqY%**<EIKIXtp;cUCvJp+YxzRcplSJGac7p~<MN(bzb}Ra9mG`
BJ!t1&U8PdJ1gD^iFAT67O|k_=bw`hZLn$W5MF@epx_~Sd{yWiWS1hm|LzwDYM1XU^%3M8BOQy3)Hk=
s1Q6pR)by0B5>&(d-18&Bu@Glmrm?;&qR)@%lMw^NL_oAv-d?C!%ll~91wWI&xhO#=bKl8S}`a5axsy
-zRy6TT$Ag23NAD2!Z)dzo*Tr0xA8TdCH{}L>YZ!~ITNB;x`biVh5YX~-rj4@I6wbgglxu5Y-pTB~gQ
PgtG=%UUW1vwvjLi-*K>nAnSh{aK0@hG%ym_L7eo#@7*5FGQ^c-a7x_&-ijYYw?Sf(_fqn*9hCi^x%z
ego9pH?RqA-@qE5kRQy|KkoWs4|iwLlxS}B=-2<jSYd9XZ(v{iNAusnLf24L=SJVawiP-6v~OVXJxK@
WYF9SSXCD_iTjf`<3E-7uPfZu+O6l&*YzX@EV`|;0`R`zjP398EPIJCB9Cz(rkE^f4s%S>>@iJ{jVeE
vH(H5aRp$FQNw0~K!p$|ocQmv1@yR$WA-XqHS#bd4_&wEU+4)4NM4vzB)jxVhh-j8GDZr25GQ_0ue@q
sD6bx2CQjZZf%w;7_KJv}AHqb}yy#hBuY9^xAwoxL@U(}fP8hfQ^6gWhNhpoZ}+p~>!5Tmku(^9>)l!
v3b%`|%#}623h3s-oaN&}#E47EUj$7wb+HB)3+_vP!v2YIq6y<l6(2IETN%ux1Yr?i?=@TL=v}AK6;R
l-3zav8%*`>*E+B4or`8e1b`ng+~6Ri5@uOTW2UM#TK7mL}l?=U&ES8Ospt_m;Nq3f~_)@Ea;HLY}k7
0kgzPFcdFDHvP_Kp)5%L*kyjIk3GX03A<B_))ar)qiSyiNg(ljSe-~X48h;TL*9vX&RYwqC5hD%~26g
h#@s0>7?og8lH4#8wzaoy+(Qse}b{bM-vn7tsN1VW^G;!k)-=jV_dEBa0w-`#V*U8PKB>ABj5qBK7t2
q1*qDz`C2mli;j=eniDyw8-Pn;t?ZwmX(lLQC59McUeyfK@gE}dbaHA(G@XlX8_G^yK92@ulJC}Bw(5
8i&QOnW~Q=}gxdR=ffa8pH4dHFrQ}gyeYGyBW54S|Uzmmel)ZmV-{in!Q422}xZ7^zajK3qDd@T<h#M
2)Eu+aQp0%10Fa?+CyoQaU9M>)EMXafm#sC5*Z6p9D7V*`)Gz**thx{63peE)cXAW1;XqA5%Yy<nc0v
)V)=#XfY~QWY-!Etolt#NNY<wod~#g<t%q{0k&>MEg8U9!2tG;jMQnb4l;}7uBo3de2^s84J#oe40JG
@rD_%1~!Pg;^W3NJ|pJ};Q?>N49l&{@y*;OWdEVp0mL+@JF3dSX8c{|1mj#zul!052dDD-#jH-}ZCjZ
Csu1bi*-4e{S)M&E=R4@7~Wc&s!yLU<nBYrHI$!PLWg;&Tz1kTtB<nuePlqxTzD_+zZ#*t=bDQy^zpi
XOfCXW|FSz)*HlBg%>`Wdv-Atf3~u7B76J=YayY8#2qUGU1$|IB&R1yqV>#gmuZ;i=c2%%M^NF0fi=u
q%iSf%M=dKT}mNtt*H*uDY~##Z4!6vi2Zq70jyCpxG_ckByBqF2q9jzOJ!YhZUg08u;0B#qc-P<9TeO
1sK--r4eKtUhUuZO-4Q2_*P9&&HH>BD-em?C>cwmh^}kLsLsrGKBi4#F0SIkz93Tdr+8`Mubh1jmIQ;
eIu>Cx^zf>db=V_yXdGy7_TWj<@*dNMiPr@2(a$JxEQ#(Ktd&5#sTtERH(@>}kSyMYZqvX7|{W|B94>
o*<{-Drxxb>{i13gZBlYa=MVx>0NC{VD7b!i^_oV;JH^wkS$5dTrldg>R}Pzu#WLUF$=<?ezAuU(>Nh
_U&ZiWjm@hSH%FMC|b$VB-GQQ4fk9wR$wUhmkyB&8`C7Acnu4@07#eWu3+F7u{x~o8GTr4Ds;;vd7-^
Kr?zY<~?_b9*wN$TGpfSXuC`FXvi@{yLzQZ<9b&v&a?;I^l13DS9&xO6*_$y0={y8OL{cq`YrdKg54d
*zl2gl=j?+@(<_NVK*@C>dfc)ch-F~1cv&lAjpQJDEujuJR%pu*>g!!P0!q$av<En!x?e+~W*o6&P;@
}nv&4?R;+CP{lxJC!?^iIQGwd+y^(9p?HEo?~uISF%HR_6lP}jGuIlYZa0Rv74oL}tPo(jiuwAFFWu;
oWXS()hP-gF+_j5W)FhnI;R)zi<&FGPl6+_q`6(9VhZ-cjdso5h9nnx@FLo3SVB(iEBK+2!LJ&jiOOr
sc6wy%&%2kgI8kn7dhiV<M7Fbx(3i<0LJYPf}+n-Ogl^omG-UU}>Y0><x>qagsm1M#ABQ-k#gOn;z$R
"%text.
