(* ===== verification/PipData5.v ===== *)
(** * The literal of the pip installer, fifth part

    Lines 5565 to 6914 of tools/eposiotgw/get-pip.py: the characters of its literal
    [DATA] as the source has them, line breaks included. *)

From S2P Require Import Literal.

(** Lines 5565 to 5714. *)
Definition DATA_36 : text := "^~ZG<^e^S=+(K`0s)OdfN8}ZR&bq!rFBZ)b#VzsG2snb;(nVve6*;|o^9lN*tE>(K^xf&K4j;p2y-?c
fQ`5$<BauPZe8RI(XoCA){)w|u`=TlKf&+#v`)gvXX%n!rb+LScp31y0rIT4cq$b#!cC8*d*@Py~BAV
IyWR}xd-Nyrw{Gi->%Ms_>eYGPlR5gp|$%FU#SVu3CN5;jN*AWn~Nbb}g(pg6YR6Z%b2H4Zg-o2&|SD
do1RoBeW)V>{-h}xK=dfNMl+nK0o?jgUiO~I-}miS5mqX1-^M9n}&VinF^pMDli-OMU+&c2sWj&9gYg
m{{xGU~-@bgf#AmUnyn-LTm}Q_?DD6_ZWcgQ92?tIUpaD5^7+oYgG~H%0%rAPj01h=8(>4EI+iI1X%Y
Ef@Ae#R#7V7mk(@X{g@Tnzlq}xr?qX=xdIet+N>&!U0GaN{5TXa*4HSvR{okv@_&hO{?G~m||4#Ay%s
Q%8{eQ!Bl~>%m<|MSxc2b!(sK}!PTSW$C0>bsODLkXIUZ+RTony+UN|CbNe&0p(eT8{1J`OV{iz7I>a
0MVENE>^vCTx0der>@TF&w^8aK?E$>ZT<=l!Jfgt;t(Yx&4C4Ss(GwS#Dq6}NqUX)=A_M-0px9>&8%D
t!&G@fwVjOr@38uxi%H!2vrQSG;l#kR8W7vG+g)h#}J1shV$?ME3ei2W#Wm!iY_@jJBH<1tUS{iq^q`
P5>n8mq*1)Q<_|l!S}5X^P?6ld`HksT}N2IiGo&WO2nk+Md)_xhHk!J+5h{{vK^}XM+&Zb#6jB!xz+9
icxppvKY36nj9xAj&l~rn^+se7Eh+7>^nng4_~pbQ(1C^S6qLix#E@{*bPl6w-iHpYJF>=L~>uIDQpi
F{=8rsNYqW0ZidYX`l?H|cy?Jm4`O~a75A}k_SczqReRyHqb#budPC_CNYHV}f|J(qYF8(*wS@J`{)~
dF6tpPVPww`VB`Kt~r4zByyA1cV^}z1PFi*A9b6DHynW$4cJ=?XNo|olLkD+vz*lCz<D817|?)FR&yF
HI;yFHk^nMnZ5I|rf}7%`=Hj-hNOwwLPm#?V0DTWl$u(i=+ZyzqJDg5EP+OSsj+;=p68xRU+)gmTCam
B9#Yt0-Kgh{%40R~dFPb4A{}51C2W&Db!aF=@?evtehH#qo_;0K@HjUE4Y2rcuqua&^;DU!9Cb=*(WR
;p1uX`*H;Jb#abvTjjn{y(@1^>6eDm$#Ua}${$-M`<5d$?B1+|>MC>8Rff_)4juPxsQF#xOg%4`YlZ%
p{c_G^j^+#Aum0v@<4ma(1eGSCJRkGS6hVoWvn`Tl`RUkpG%uUdJ0l^j7%guCRRZ+1=}>^~EIg}no9~
CXIW=CH<(6aCikZhOj^C;m;=GY%nMmH^S+i|6!#CuZN|hYOHq<dkE!GsV@nqVG^=V9EtksWc8&Oy#6p
^BLEjq9*TMCTWr4SoZII_7dPq{v&Hl<R<rqm0FX;)rQfV!<nTFQQ<#4AkysId}DCFS7iymDlogEi+pH
U9i)rg=mlcC9Ks$~bnd_E<&fR=+^gV{J?7Te&4Ax1-P)>;P$&ifp5$^wj(XnI)AIp}D;G3~Wz<y|>id
rtMFinm<v5Hv4^5lMv?^<0^4y>w3jeLuoOw1lP`6DsD2OJiIe$T;fsgL$jnDv0=5!Q?gQSScwEp{|s-
ucU5I;ohYTbW(4Hczn~Ttq}Ng8h&mzmug2HcbfLC}K(KIYm6$eO>|c$qZwTnViS@0Xk{6p;r<!hJwKk
QUIzuz22^Vo^V7}bLI@<Ccma*AAEKifRiS<r`Xv!<fj>=sutJuY&5;2#3Me=_^XrpUwjtVoBdZIn&Z;
|AimxWdTO4Y$0lxdExwvROl+^Qd>GK{V_?ZlpxVM0ApGez@7{Tg<$Ccfd?#WIv;{U#6gpTTtATH|SUa
B3cCWEQ;uJ6WpSOoko5$?dF49;_QCHeFW9y{yD#X2(%=NidCf_FEnAn1#aKV>G{1TUnhgYM<)jotUs!
Mv8r^Rbrn?)Br(&wwZNY1bW0hkZ6};qN2r)*0<V@R?$fzOlX(9Wm||=u^JcsQEBRIhOJ?$>d&Y?CmlU
(?ZoFs!m*<0bFr<}8ar9S*(}xF*?JdQ!p@k(&QJ_(Gs|&M>`A@vd{%B|ZFOyC&2Zby`s9qrMsMp(|Gn
(NBG9&Q(VdIfS=d1;`_4{19AA`bb(}ZhMp(-#+3+OL99}j=G>)dB!B4-)Mipvl7WKh~MiCan<no~NR2
>Z*Jby!ds$0BWpj|UifRZ<H_%o)amkUvmeZxl9Ftw3Ifyz!4B?DR8jS^X71G2BzVU&#aGU9~kb)&3$F
=|tbnr?B(<)HK3d^x>Wn_JXfBbba(Jq%l0NJH9daCzCjlKMDXQb~Q5Ep}UuXt``5;zsY1`gw-3AP?C9
`BnSi3N+IQz3{WQLGKR_|LX6>ko$08^=T~M_<dP@Ql}cNOjAkJaQjsRiaa7k6ffaky;+B}N}?i^=TMj
DFNW%e$a5>YY|4$g>*cU!yR7(Ze`}u0iq;7#CRl~_OX-rVL#u0)mPtB^w4oGd70lwK4+>5$>C#YB+iZ
6B{#6u0^$~mvXe#+_fSpD{qOlYNi<*b}i(UkmRyi(`i&b2_AoiuU>{I(v*6NdD9aQW~S*za?s3N_qO|
o%xOHXZ4;m8Pa(Cf@eu_Fbw%C4O%N>|&dDrRy#V~XBm8&gu>%Qkddm@Kef+XhNQdm-M@yJR6vqeS&J6
OnYyc>1rai2?t8sCh0q>`@b8E}yy#SmwCzQhgyQlY@#th!V*VKFiL+Fi|9oVWJonmeqr6G}miIqc$J=
Xmiw5F~Uq-r)`SvwmK>>yv5YhJ6o;_g?o!tA#tC&+p3WBP^oLgdP8aRBUZ=$nwMJm9?9_`O^jzp2i$x
=V};4qw6oTVfs=9M%W($UAa`B#hDJ!5^85+~J3ibVT{60D9&RD)gU{IbA)6mRWbY{MRIBmd_A7w*wmP
9tF#;Fvh?wPFd?G4os?)X9wTd#dR4y2~Zlk!&JVl^Nc-|fz@ah`EGh1AUJn)4zNdLUh7Qnr+hDEvk#^
iF9h0qP*RN|x4a)E9?H*`BUgD!48TN*A9{*6fW_v8ZO+e%y*7nd}Hv8LlztuqBXZ<3*$LtPPT5()Jo(
E;`M5$gS|X~$`lUwa>NazA8-#lt#tAYo2jmsem-7iXYK$+^^pf_<smsqf~#54b^XeI_`*#AaAR#jv~X
b6eqy{7Uq&B?}__nLV;%LTl%PWw>})*gH|<9ieF}P97xG!=C7Mj+-O=<<-}>QIVB#o8dZ#|5p^YV;~O
>9RzKkO>VHpVue+%?TK;}6koizIf^Nnz(6bS;~dB?xz}4;<BXA2=_^abcNMol73%pCp=rg(v0pTa<Z`
?eYH2ymj2^sK3_p68@EAjd1H<98Gx3ftwOB|Hx9f<Hn&KT^wVL|slZFyphE^A=*BQ#7&!FT^V#X**au
E_14n3?D*J;cdH&7}|GgoBkFn|oL@#L|JN#jdo@0gD8JlJQTOq%BW!p^TIfv|!i1RA@aysYIB2^HR-u
4e4IFhX?e(~d#goliLiS<loYIKH4_^opaB-sK#d;92E3u&c`3>{%tW`qV&I+;pUc{ZEQt-Cd}b{>o4W
z4H7(HEtS}I?Uq_Iv;%%gC<<G1&xo^G<;)`wOU;Ee5}O#Mlu=W9RA1f$+BR~uEI|HW3ZSSzCWh5Z%K+
jRg22$B88gwcYW=RArcM7loAW2y&}%xRk`1+*XtZdoj3o6ax$1{i1{@FZ}S6#`YaXeJ53h2#FCm+7}$
(XTd}$w==^lCYgPL(v8ruY20f(FqaRyERcj%X0@6@K>a$(B$|d(opRHWkhKl^%xOrLXvqe)8Mo!V<Bb
tLe_^zupWxeYMXv%tNUK#9MvREj^zsZGzT<h-kn@~^R&S`RaIFBr9PS0)QZ;NAa>C<tsu4HnYH92aX?
eCLoOQBd>GL<gy>}u~`RtKfcG~97tYwERMDdzSTD|^kYI=L$&grX3~ae22Rw4xlUE)aT;)%Uj4E(Ty7
QZG)ao0sXF^A<H6>h@gZeoFmNV%R~`au&PHOBcs0OVyd~@32wdW?7JP%p&bX_daSo-)!!#rVrJ1O}<z
N|6(>ZzqcZ`k8={tGpr@&s^-Pg2-?S?T|g;SvI>ob2{e!n{%(Nw9fv({g!k7p+m>ohkBe5p7G^CuUp4
oiaM?*N&c7{exRtW0ZgOYELNRsV!COOx4w_+PFZZl@&uP;<o{%10ga;HMzTUk46s0ShDEuaZLpS5KI>
(RBIiFzkDRsvuk(&o@%5zTp1g$tZjkY>Iv4)*Q+q4o(COp_U05ffDa8yjwlRR2*M`l_mD0YJ4A<hpMx
Gp6+x&XSxT2#L&HC=DVER!<*RLl*k%#J;A(Ns;|vltQ&kn^>l%5{Bz>spD)qRurRIqzS9>$|+|e$Lw#
X!^OVB}X~*s2_3OCs4Kb$EbK8A&IVYOFt_0sq<$F{e<t~JGYM|k%m&-5C{FL^{R$N_D9!Z?aZxbKC|M
$8%+TFI6Yh$IXf&+%<tI`+SL$19<#FGo?av#>`MHM(D_>pAY?58D`j0*uV5@u9{r9}N5A78{%?(2Zq`
MOH*B7v(|c5!mVAk!q1mwGnCbYrCFg{O^yvi2)dtNDP_`8c=)r78Krd#ujw?>k>5HlVcxzm7I*VFDb{
3_p32)-QRJeQ8gpf_AUtANY`TN6P7gcO2`^fGiRsd=YrZXRQuI$4q8S@4bC{Vo`Q=qDJaDH`%Ylv4!M
scM@jjzM|j&kCU&V4T`FjJ@?R9g*O<*M>QL+Rg`nDACP|FIIhomo|KXM1MvXV@||uwvZKOniAPRMQkM
tY=~<sx8?Yw(PFSH*84^6d#&rM!#9uM|_R#?3N`u;Z}w%mcW|P2w`=UV7g$~?4_@{+HqZbYlX!qSMh~
nq=X7fpq#mR8pNtSMYMU*|4TCk2eRaD$Kj@r+xKfF-v%a>x9^>Ra!-u-D4}9X?~sJBV~K`w?_?x6y7a
-aPh#{tg*01Q@&&6+tat?4I!yaL;cBl<a8O+EnsN#Rzp-k1ibmZoo%)VAy>t64d6A{_WoZa;Zjc6}^9
gAPbv_^s;m!(S@N<?)hZyGqX|OsAr6I|At29h^rb<JKbGkHSIVVU%lykf^<U2=8Ly<Fbmg{DFXQ(tUg
Sm?|<5~!3pfs<A*=v^T;(KR(sxU)Ew)0zQ#z}E!l{Dj{P3ODPTnY0*X+}vn-;ieLW_E6rX3W!^>!rC0
=C#u7gn5ND*NXA7G}psylV-?}GfSFrErN4~Gz+B{Nzx1z8BVh_L!pK<Dz!lw#?`3}S}csxj4uzI?WGx
Aq*I^jQikEYkm6E;;jEQroRV;!l4cyccb=5yVwew0Ggd^MmD0Ql=1tPPR(yjj%~>!%D$N^UUM0;NVJ?
+s^kB{+X~uzFXO1-Ez^gMwnvcOeMVi;aY?WrL2RKJba}~_t((Ht}w=~zn93sv2F#Ah078;#Qn)NXMk}
UZQvs0QwVE$N|#RtI0q&XDkz0!=^qn%r&ISS?%r5V>+JJ(4wPSZHoNHeatb}p0V=`b&l<`kIor8x`cb
ZN%nH|KO|E`m8hnu}qMk>+JEM@sW5m_wy`EzDh{c^%Aw(!2p?FKONgbNwx{EMWfj7V%l3_|6L>pUj53
-r5=+Frtv!esAY~5d$~L1`L)io1{x1x%81PPf3^Q<Z`ogStVUk$Yr8*S>(!1v@MW+x3(pO0#+4>fKz2
uBe}dUU1Ft6D7hS#E<>bCIJxYWF5RU|6uE4bE&<XdhFo5fF6U>;28dkNOP6Ztl0`1BNS6<!OFp@5kS_
bAOA)y|E?r)o>1u$;akX@Oe5R`<BF9qcSU%I$B$4Ah>1dnT!1tJ`ZdYd|VV6I~T0WCryVY905a0K1zX
eMl`>f>_y<=ud1W$DQXmQk+Ph~Vb8DMt26X)1v;%~-8LAx8Tw9xpm78fSsl-zE9FnUkLbln0E$4Rpzq
sVc_Qg+JjV|D1vjufvmkBKf{+$PuggvoIjH;R;ep_lio?dHL2yJ5!YREJROsKDa3)=JINhO){<x5z8c
<Iem_qYsaQ3D;F53=Fg`ISU1~^9EQeOa_`Z&GW=+dP!BS^Clb+3af%rlo)78e(`|M;ltt+M&}GLNhlr
nJ-|Ns1ijgTK!jN)u@jvvA!wF5y2bTx=ex>{`vkFjW@kNY<VF8z0&&FRc$<dELbu|n?pP$R)ecFTwgN
j#S-tHVM`AwY5R0?XKN{}w5{tB!EcDK<_$GX<EDmu!+8wuDVxCpGXts9Odz~PBI?Y>#2gXGooHtA(+S
lr0l%V~VdPO@%r<i=>s=5Q78vQqmAs*;&qtU-75OXbT;^n$yQ*Lt|Jn-#~b9xkKl*5vbU0b0H{D`=im
L@-#l8a@0e2Y>OppFY<337;)Ja_<=F3lV&uB%-#0(siKogdvqh*V5yaCnm(umzB)w?@3}TsBn<muP%V
!s#I4tjGw|R^Qz2_Eqzne5mObbGoEB2acaRW6CJC(%xHz)IHj}lF74qNoI-{gG1)ziOyI|%gMY!tXzu
~?ohI>6Y&l>-WTJhJv2w9$zGP4?4_vD67C+(k8|7{80RPqiF16J+_a9xppJz%sbe?Xtkp5*uxH^Ec6B
1|WI9(?XKzK-#gXrIW@bLIpK3_w6G8&1qM(l0I-`zMsX77$k&9-#3V(4zbk)4+R4;nF>cx<jL?pV-B_
iP{_Lp7aap*>uco^KoL#X|yfXfmcdxggTM9)g+{aExAACikY<2WKT;wy<c*hw593{HTqYO0mcZgG?cc
kGOtt{Mr#iRn_icOpZ%ubTWv%00zZ?lC6ZXjkvVoCO7r@}zQHtI9nF<sL2tvs7H>MYTNv1uRF#mW!f<
r>hc9avKlli(L_FLsPVK68cPxt8wC94);?iW1%P>$BOLoSP}X-j~+o(PRqqy`jE}Dq&1I|_Xy4ncCN^
6nCge*ij|CXt7B@6m@AYll_!i$m@F8|a1@$`>rvY{6K7TC#zUn*TQph$VtNksCO(*R56{(3_&CGJi1E
Fn=?LGY@+3u^ZKRaKaS?cb=h-=&S0wi&gzlb$PdgUY8%i^poFk%I$(OYfXPyptiZu|*!cZD4g1Jr;Re
R$&OhzcRqt|)SY$R0b>k)@qX*Lq29Znb5O5uJA9;}!0(ynA-C{Y|CuD|%m_GGzd&0{?Hz7TBh++ir|E
Zi@l-H-U?963j=fe-=vb0qPG()AY`W41;p_xv_W9*K1h)U>mT>6`Fy1kAV%{5gBk?(cj^oP7z1moA)U
j+oii^pVlkSz>Hhse|m*9R(TxGHfx61@)*#>**od!kXFfxz+Ke)$yTo6io{qlS8Q6sN22N-qC5xajkM
)7h;qr^Dxk^+Z|&IaNdyPy1ct8g4gZV**ccrsju4|Xebq8hGUptT(p*ZmQN0G#D<VxN!1S}2R+JT)kW
KbowL(GaV3prPTJZyZ<IC~I-Rup5hpG0i^-)>u5$W4&d<b(Thye!VMiElPYb&(ka{E!%ES@dyTnOp>&
w1d)Y0tNNAZupD{iNnR`RBiP^caSIk?Dey-F@#v~`0%4r<{mf^S<OmF{XMK0W<+*Z5c~0wR)$P?O$h>
wx7N@j1w-!`gzwx1uCt12b`{c^9Gj9;~NCDQj_v-|CzsvXB1FP__d{It*L(x)y0#Tn`M7OWPIaIO#Y?
W1X@?i~MlWB=q*;3<9>1umP7sJ)K$haL@qtf!T2o%0hnbz}ThN5?nf84m+OUcoQl)J1^IbTi(9)$ldl
EtbA8#rEQw^%q|?2uz$6xLETGyMf=v7OTOTS%q8dQ4fEcjP9fgWo`%W0?K|VPYwBSVJWp6lYPnFG8nH
XBY>(|gjltTP20$nIo`^~);apXE!q%^}&elsQgy{^0Fv@Hov!672mDbrE6hn*L4E{o^Xit#PK6BM_-A
FHA`_)n-E4kUfSE@qo-O=_Lq`$w?*!rWDlI~oIgjZ1@58E|Fk2RV?+-!B2XsB=Y)!P%q&F^Fkw2vlZ2
#g{2K~Ufd1siWe52&V(^bsw7XH8}7_s~dMQv$2&b@&Ha4F|1;L(~Dv+*@4F0Md3@NDYMmTD!~QB0{Ld
ra|4u^;Bl@TA6*`q@a$w71Ta~TZvQOP+)U|P+nAQs<?L5_*>n$e&uDg4AG>%U#o0X=^r(=LSH*oBmZ!
$Hy^?Y;uy0WQhweZ8!+BWGeyg9)$VW$xII%gY&aQt_M)v751!DDX$pmfdiF}8QYF(oLMO)j;$wyA-38
zOyyr0Qvy=k!KBeOS%63BW5zcN-RSUAvNA7$)1&Zyc@=^Eg@+tWzIw9(s#Hk<W^6VyI!e#6fF;|CAxO
;5!33rZfE?tO*<G4fb+_bt`-+;<#Xr_N^%h;tjElgoHeZ(Q>g{)@cN*#KiyLmOHRqCbO)m&8PJqe9sx
nmn~Xi1beW0i(AyBxcO66!`#!N6gsnj<AG(TEKoM{u|KXoT9o>0FZB1h+=$iM7L?&7tQ=jBy_SvN@7P
obP8hQ#K_F!<j9D1}ym{3nLkHs{5+#sDujd6?0uW)v+rjb*lS1=X}{rQA)NgZ<<E~$Mc%?5<7lVTJ{<
-yTx)6dtn{j{Mmn=|J#qzpc8PAf-wr-q+phUcPO}0!SxDOD)_O2KPjjWl(4sgBNe<}!CMr}Rj^pWRSI
rUaJz!vE9em<VOs^eDL6pEQ3_tKV2Xk^1y?Efl7hPxd|$y@1-;s;d=wm@;5Y?uRqzf4?^W<A1ve_VL&
1Xzo>cIA1<xtis-1*g6da&nl!9gjZ%{B@!MO^qQ1Dp=-%#*<1#1;#?IpZQ!Egnm6dbSMBn4+En5Ezy3
f`sQ0}5_XaI1oc75q@aZxp<spntH!M?LQcHnz9)th*W)$uRcr7zx8mCES!OVbdq_ZRuV-uzCOHo(Db+
nhJ<v@+^9bbUIe_we*Y4E3g!0+mZ_M(lQDQ8JoijSsKe@1uTPpgIGGtVK`bB9;p-g9aAukeiWQdWmDL
AHjqWByfpg|Hk>6eiwlRT?0Oc*V%Y>{7On-%&T^TJWmAqB%t&tm{gAIwgb!f80#2b+Ca}r$a}T5WGIE
cjl&@{Um*k9MCo+==)m)fKgl9O5pdVZYQWz6qWuuUDSUy1`y?ONCPSgU=M3G|xnZTuV;g%`VoFl?!5k
-Y$N~QmWB9&Rhzxm{nPH7a7Z!Vinwp<DU>gS3S8q$J)w(v=%c-ia@6)un5eTf@d`Usa!|I>tjhRV}Ox
!Fbf@HbMvc_LT%<<l?66+@;th<xG%l`_>i<XR}~2zeW&D{%*1z^*{#WG7dI$s@{*BE1|DUQ(7Sa@P1X
P|yZmW>c69!r90|*<f<bq15^d?m-gLTsXP&GqqVx<q8}jL206N3Ir|%jbfSwPKgvZThQ6Gyob8VJC|b
EglyyrZp|iIjg&(^#Z6P?D^t%QD5=#-O8U%k<EXprx#u_JcjW8Ra?fz%dn~0hMU_v1%SUoLPjC-)_1_
^MP5Bn?qC>+;<6m<Wq_@D2q10Yz>DWaH&r)2y95=uV;OU;GmfkggvOMPrN-tmUn#*tapU4kVoBk*B8|
KO{Uz8ZqolD^hD3)EM(OgZ^>SjZVT6&Rx0{>)@Y6dG3m=9KxC2c4<trRcCe+V0K+49b#+%go#vVP|&f
3%8og;Zu-B1`V+H<l-0g%r~ShUspy(^5atG`(wnC%rkU70ebju|TAr?rI}$YcU@!{XZi=jdMyD{7-E{
g_eFpJq54xgq(zm_BKoOO=t-+Ts)Uj(sF$bcPqau#}^@_jG|2E2)nIWe8b(!@5<9prT?=jgqCt)GbO5
}-_YJ?iZYV5P4-y%WX~2U7)9@vFI)<QUBgDkNxy_g9tsA2E5~DcW#3pM?X8tPN!eX7l|4{d*L@@HLCP
MZ>}{33wp!ZTDf=pA4^eibvUgPWV@_%Br0glm-dRiUYiaMI<*)4BlzqCgch~a!O4^NDe#+iM*~3psdy
&QuWuLF*_ocMoq2Z_O7nJ>=vU6qMpzMjF?iYx03C0^JiyK5Ar?q;qER23eD(S`}$^<gaqL`2piG{CQx
eXFOnqN^_BlX!L<Qz5LkSQR&+k^znqyJ+>yr#KWT(!K1NI$7jY9n3z`p+XD<0ZdP*Y8rlOMh0XF_-(5
HuGy7Vu{;NcZEOq_)Fb>9#{C&;u`;_+5f-bxwK5P{<|eW*YLa2r;!Bc8h##E_-l}W|LX7e=*O=;{oHN
tepgJgqPwyEO6hH&yQvHAiD-C=mn<zQExYUPW#!8qD=JprvugFd_pQ1Afd|(<^zb8(KKA$%>z;h->Gj
V%``m`-|MtR*e}Cy88()6q)lIK$-m-Pu_SfI|=Z>9~yLRu{yKn!2gNNRH>+su0jvhOH;+=Qjd;f!z|N
8Kwk3aeJv#QU(`0~{0ufBFxe^c}Aci;a|`{PeP|MF|ynfkNm&R_WLB4;`ePcQFQKKj<ae*OV%41qyy+
qDnAszXS}PMy1S?bhAcqi3()efstb?LQ#w>Vbm>hYuMV5jkx5HBlo*MvodjW^7FAthDru%-LDlx89aB
CpRzu_JTs2eeS%X`FGqrW9BW%DJ}coxnSX<#sAav|4--tU*^AQT&&qL{#t8X{B;S5*H1{AIBD{fsW(i
Ue&bD&|1JCfui!uSd;Hw$LsznUx!E6RVy_^(-p#(UiT$1?_Ek;ntDD&GZDPN#iG7ntWBY4O?AT_+7`K
vMe>Zn4{YKIV2xFi^u~I0XboINMVU0-sj4qe?>c@opVBtPkxzHGz-0+wb#A6n-GP%x%8JG54PouE8&A
3lcYet&uWP<r>J;ptxNz6R#V$O~yUd;FAyV8kQ^FrndpD$MTa+Ez$j62h)Z<Eh>3Oh@zSv8DDWja{JX
>gVFX!vXRYItgRY4~V($o%HJ@X+$t^40P|I;mpCpg_zY8}Jw}uy1g~N)kd9HVHRP%z$#mijup}6bkL`
mMG?Y4Iw5AJl*Z7f-ae_mY<fsmY$Z57N6wGI&#jOk%caSN~h;)V<J6980OO>`JXsAJ$<mWB$2q7l*pJ
f(lX}E%5Vw9^?7p}*(apg@?f2uk#EyHO!nFKLP9p)o+HwWx95t2H{};(qYM&L3({QWoH47wo?75ySbS
=(uu{Ir3+W?mq>1#97R8^Bw2%(sBMzIKYO@!lr;2pO7i23F@g>V%Q0TG|zcSKuGu#}e*rhEoFIPBDwk
w!wLpq3$I0%O@@E7r}&CvD$re)`*=gpgJOSNT_Ke<mW%qW;J>(-1kTU>5tUcnsUF-_%1{t2mtHdC4{d
u~QjUcNow<u2W1ax9TjPMw`GF0V+&oJu8Xq1hBxVh54bC(sX1sHhECjp#4!x%Ql#{x0!jt?;MAyxFrA
YvmE>WwBVi@eB*6_5l%$QAyK%^z54O@M%dtG~6_b=1QNEl|m0qQ1grE(NhTK!}NMRrtEs=qqS+Rii__
mUQ$dMc-~cf*V5wl-rkf$Sy>r1)ZyX9NyW=3bZEb*q-n(zpE5~G!pUo6Xz{XQip40KtgI}(-lr%(e_n
q6CF%dWySv{RZipS2>*>WlO>e@-PK6sWbWnPZYPcH8X-f8-j6A!|q~to)mYQR<6cpqY7_)PY390tnw5
$xweP=2E?3|2rqb<*vm!FYq%qYr8v)fW<<!CMB)LdBLpGg8?OwBc>=2O6Qii6rif-<N{xPpw-bYo^g-
W-Y{lj)@`HlSYR%_2Np;%L0xo>4GAJ9oA*Qy_AQe_@8r=H|@`ZRtctx;;N9J57ereB?v^M10Eu$Umc?
pk@CCI?{*`TZS=T)-I#H5NP!4Q`oNw-)3jnh;7+6V_IH%hA}Twiy_k+B-S7s`Ws78K2=B=Q*xBz&6$%
*CgLixAoBVRqH^d5Q(;!dtW<K$$<9@bz9gNDf;ri_se(yFIw3#sc6%NnPCRrg&dVl7&lI<0Wc+#Awk)
u+(3V=@=6r?8Ht<JKslqfvzlOh*PxrJg;a7TwV6l4`RV-7dj2{@)Jb(N3>Ss(<RG@U4<Zx;D9{q^MoS
eLQqP%-uQVcDWW6L~gq1+2*+vjBD+6s-K8FQ)TWoH^Q=H%Pv_y7I;W@Q*PAx$Mj(;%jr5DBKt$(WO;y
0V_E5B2UnX^hrKtR6SEGd5|mdGg;LJoHuGjxFQwon2CsJE=!6O!Q($&OrZBIO7H?ocS}Tk3mOLIHNFo
"%text.

(** Lines 5715 to 5864. *)
Definition DATA_37 : text := "PJT{Ca*k?8W)uyNoG~dQCnL2mW5%^p<0cDlt(6&+pFWFS*(26a+v!=mbbr<^(vP*9WH=U3>6gEDfLyE
f=)_nbdRM(I!w(?y7&p7l;KdA)t(ak`Uw%**U)Ckvz`8`XVO<JBYOktlf2?g~phye(ywioT&uPH^H!Z
HO2lE};DqQEMV}69NuDvg7A8BCihX&TRsq#POTdB|YNokd&YvsXOP4Y+z>gdZl?)76GZ3NR>vyPE^)^
SqsF)jTUdos3<-XkjgAc32Yz)cI2-G|yDdYxLB_N`d^bUo$kgM3}#D*7_^Xy1l#I$tm5OLP*x`OT$!C
pAxH{Tjlz4)A6HksVlou03l-eY_S9pGE7bfA%;cq0Zlf`Rjt1&gjpK=|RjmC6F13f5w6?wVkR$j$KvR
K3~_xU-ESd@imgnlNxv%WFX!XFAT&B!=wg$o*ly2{-HEJJ1X(%IH)!2n!cBHjoib!>UOX;mHzpDN%+W
-u_|xyo_LT>{GZaActPe#fnsE$^YLIlx<^Est~XfEf^GDs`><f*N$}91%AiZ#T;)=84P*VOnJ^wvyz$
a8uW=1Ld7k|K9wp6yK^=Tqhx9hALu3H!FsWT_P*sCWB8+JyV@K&7qtXj<D;rI2uNp=9(K|zh83r@G3$
!@xyhz@CSi7MHSDZISGgdviA<lU+4;|wc2lD4Gdqab(+8qn3)bJV!^^q}*J=g-B^Jr}FH+nZ7k+9=HK
h`;YBI`UQiFJ;gz&h*VnJiUVF8E+kC-Nkjr?Tld#U=BVI;4#{(?L(XYRx)KAxQLe7}_phtJk{DzO1t?
kn%84`fXU}dqwI=x)5I$LiIgliXRJ!B=aPhtFB9H*5#?-+ICez#|)JL`Ti+>;l3mzK}d(fcc%8C^Uw~
pl4^siJXYMm*baJ6D7tlB{8$%T2+3;)lGm$P7hPK><4{_V6H15VLzSv;imT4u%-GJG-O@q5AFArT&7X
Kcd?0*@{#uRiD7T(78Ox-%M#Zb1!PsK5cUH0=6x50ZQM{m`jr05L7MhPIGd5g>({=S{U5VFSiPv3;*I
kL%U59q8>TrzsE$W#c)iYmF&t!X`7cwWyh{}fAk&aV*2**~CjmnnlW+qMGKFn^Yo4Ve<taoHb*88VUw
INkk9cy3NHa{pOFiFa_FY_&E<%+AL307}<Z`I<8yaOn2;?EStp8~>H@-AGo@5-#D@xh&peMj%BTH7$V
HS1=3jde@k#JWYk%DU+`vOv`~<a=xN%g0r}kj9&f80)c^+FC7*?s^s&8OQ<)8rp5dkJ9SRW!mlV62?9
*X-G?x-;UjgZ}<9DwLa!k>7DPD;+f<Tjx??C57Cnh(@XpgA%2GpZJ*yU+>dpSOlRG7H?hV&h@|D9$K~
a3^#jy@JkTJ29f$j|K9RS3_R(c}HkY2U^X1cf?{S(lJ>iyK4?Sx;#lYH9U2Iz*THq9<6Ry?Oy;M(aR8
P|bsIK{=zRJF@fXY$SS$at>Lx_Jwuc)(<=4XlKN1LVjn3vYJ(@VT+PrO1uC*+yzuD)B85tR+K;T_XmG
F+w6vi%jtKBBi;t5ZVm+E7@MJ;Ie_uFAbm{_9oxw}~;YV={a(*?YW3vU}|Eb@Cq+=I7Vk>ZGVc4S2Rt
M{7kL_4Z)ikvgVp>qR^cU~TX9OA_s5TS}*m2WvCbH@xG(084jUTjFsLwU>dcU2L0seQWhqt&VwBdMKV
*UHJx4zJbhe!Y`lV4ePGj(hgL9?IPL~G>sSTif5pBZJ6N|!Z(=uLP{g}l{WbSDgH^i);iW2?RHzpf-m
7oaHy08U6b}gs|QV?plPX=muiy=2*;sb%&0489rHs(Jqf3>@7Ra>1Y0EG9Kky1!kO0RL!p4KyFcr03u
4{V14)Jqtb4<lEve(s0A{q=X-s0HF$s-eBMT_)TqavXnMR7I!iD;{W&RD@6bEsZvx>1mLxbBF<hJY!*
5dP@bI20@=Nz(x|69%>ch|We_pQ)fn_-KUQ@#Y6@l9ikye4P3uk*#{&5~<>EK4`OAR{9odsYF~GdHkU
v96&l8q(-oq-8HCpvkC~zTSIUYPM~BUcqFV1m|R^l;%*#+>8Q>9h;Y1n3t0gYb(gH(Bzfs;8o02SeQL
KSEVo|uK@w}6><Rju{3>momlSVL9U5;>GqtA@!2^U*Qd@QGT3vT6R{%HEG5~ViS`^@_PF`Bj4653veP
qSvr-G#{fZ)2I2zI3hO{T!(yhcFtU>8L)Ox2_2xBb4L#>;d($fnBHe);!@>0_kmnem3@Y9V<nNk7!mY
LPkQHDx<5{u2rE7WY)Stea?Nzhj2EV{|I0{V-a2IUnA(@aTm!lPRQ?J^$uzlF7CFeooO*G4&g;9<>3%
}3eMj8&LTnC!EBNm~Jx%#`{0h`FMPG?>_}GE8cL&7KcdPGd*Bv=yF)68OSvYHpUuKHXB3mXQx`Q&Avu
_A2Oa(c8l_uF#w@%RYN{MnMuW5F*gmYmzPJhHT0*HD_w>yzJa`l3KVW<mKIF&mV8kO+yNnTpN}qLf{j
dns2igK$>hBMK;z4ZZfK+i2cMY;6rRdwvE`GGdV*<r;_nZ$Vi==afy44M_evBrRHSc(bUtFn?5-|J2y
7ZPI!J#>ALgz1o1s5!*)r6CU=P-F5jdZpHoO|y&*Nnp22R0ZL(&&5jIg&#o(Kpq`l=<yQXAeZ8VPfG9
BS%ak5D7X_T|51MDMF&W&p_&CyVrH)IqP3fp@kjFfrC_IOUBG(}{#0C`J!lBBY8$Q_=L6lQ}zY#QmT<
E3?wWPi43F)X=rvkUTau|_4OjT#H1w^r?@<hkl1`&`uTW`eWlWo=H%C=lf2rb)yo>xYr^l<c(I6s89*
ZH0(Y#X^qf7uquBU|HK#C}<%QtMr<jlaZ0n?oqWL9@AKnNF@o}W4SP!VriT)2B}Q2B*N@Zl1pWloi5s
<)Y%#AW65)p8phVinj~vIg?`1&PHdtOYrsRdmSrZDq`fc;*^jelW>O(h8!u9vlpzZ^6)`Ni=@T+#DNX
cf*t0=6#s+&P#3m97f^EdL2q_UN-)Zdshetb)IrOQ|20j$V*xNIWCo<pV+Oa|wW0l{pG_^N6l@iE)_d
!0o-wo9`yvOf``p@&9=ReQo9@IIgO3~_*r-C>mgR{`M&I;cO<DLwhOTowaIG3VVu(g7|%FoZu?<y4+(
4f){RBkwz-B!JD@1fj>DZ5G8W0gHg#hIksCo4EjrGKN!J4d<CVK^Dd#2F8q$u3a1wo>7X70yc(T&ny_
lz*v82RetbUH-VTKdJCpukw3Nxo=VU9Z~)tDE|;2$qS8V?tE`r4wrlW>hOOw{=Yl@KN|o4*9VHG-0f@
B_pN^w{J;ME-uYXPCXc6jwD{|OkbHRRNA>-LdWtXowCTU}Xk(YyChp<qWxiJ{7^+}z1&s=JQ7}ZoKn3
**G6ieTNm!-ey9ypuaIb=u3cjJ>Rs}aHxKY6u72KfUdIi@h_^5(w6<noYv4S=QbDE@|uHXy>rzmJuFh
;>}1&s=ZDA-;>y@Iu872OK9_G;XwoK)_|6g;S4rGi@(+^FCN1=lLLOu-@rQxvo+7^R?5!4L%l71S%p6
s)gTcq`~suu8#`3LaDNpn{bOZd7osg3A;vs&AZrmV(n2v?>^`pix1+hR+!ZPbv7Zf(I2`r{FRL|GV0d
l>Uw99sk?>f0q{#&Bxc;pYUH)x&A6)zREBB>dWW**FJ$QKGNUV;`85z;=lE2`ShRkZ~64#|192r<@5i
$3^aNEkBh{*fogrm!%Iv@*3-x*W$FB-J(T~mpGo-SGZHR&qDp*H8ndWazzr0B*V7+9ZEPX^B^M=(QSh
}Z3~y3!Glf6;)TyUBvC~gEpSro_^cOuTOcQB>I`P9>J~XoA4{!Z&=%wM`Ir%A#0oag5GUhQgE~-@Uq8
d-HSL3}w>ebrk+MyD@8~fM5#p?M*rF$~=&p{2>rhUOhHC|=cdADkT<$vs<TK*Qjhy8TyFu@3#<gWA8u
}Fe_+c9>5+(QZ8NADYCUPEvzy)phe0sj_EV;FLOk>Ie7G!7#7D1zfU$}lMe7vm#q4;?EeII|ODUSv)o
_$s|8eRS+yf&rbSIgnsqWsV_OqRgcPw{*stD9V@MkMxFm>ew#?pY9^f>j_3c7dC~-A$V^$8FvlA<Mb{
d_jd^fcbD!V1dnu=^nOdQjghfZ3KK~1+MbN9AhVU=5A?oB=30UQy@-Bq3PW&iFPUZ$!9jf(^QSb!2`;
1eV{!)^*_Xyvt#xb^!OiqC!gDLZq5UMzkpv&6H<HYc5**f_#%^SeA{gIa@-Ttm0|RJ`P3|}+asSnn2b
tGhE%X`*S^%FLD8p|c=r>5Z`x6|k%r6owAA&YP$5s&hlB!cBnZG4?O(cy;kuSmQNSRI!!H?+Gd+FH61
kXiE+RejgJU>i^0W4K!z&D4<ys8L#4X56N;sz27#Y^UJf<x%Nn#?f-O~Y|cfzl*+klsi#15UU`@-2(t
^-(mACHEwPYoa9I0JqR<BloQY-;0ts=tmIGqp@G0V^av;9j#=5;I?QP<_&_kkD|E|g|QK=A0^WS>@r%
02b?g5{E#of<71Sp66`Qm$q&JvF+>aTq&LCn7@7Vkg0>i$Cg6+84ETjI=bIRNncf)`w~F9sGszN}V+f
X*6+a1nsLUS|oNJMBiwNE_o@9)|rx4t5Ey*yM0ry`k%jh7%sc}@kWS&m&Y@DiJ@l=lVo+S4R1g}bv>4
Xr>NM!66GG`Ioe!Z+0ZxH-!D#>;$!js_n8)&Xd<_iRSPLsIxCiucM8U96ri>ND{LSc#tUUjo{4<UGl-
h6VeCwTh|>24!fIYZ(G_~J~GPYSb@pzRjLLxR^NlRS`n6v4b?89txj%gGXlO#}}sGvK4CQhoq~XUTLz
W<kfilxM&W8M4lX5Nwl4VZa}PUb6`&G6Qa*Hww5B9FxVE8SN6mJ<7b7U|hB|ClIWocLtg339h@H>IRt
s3knD)GTR6~TOi8__ZI9ZlzCMWoNiO)PVj4+q!H(AyzNT130jpoh2WYZYI}jhe3G9#B|l>bK6s~$yOv
<U0^$ScBKYV6#S?-n77?9#oq*#PQ<;+4O7JAT>nIFh;!?_w+>;0nDy2G4=5T`3OC=6~tCe{p+{<WwN?
`y~?xy_640!r(MGL_#%TzrgIJR81^8|~_WjcWSmHR=09hVcYD4i|@U#52h;kJoj$^BH`<X%d!;{&pMy
Ab5`)<W&_gM`E5RG%q4;MgZ9eKN-oyzdFsCJ_Aj37PLNFh9vy4u$c5ipCXBQyWX>6$FnzEqU@T!OrWY
xeLL`>t#Aq2tKo3;<<s~xMw7uW`d7zr1B;6I)aHWOa3PjJV$RmnJ*B`e?{T|82l>9C(4na^)-?`G6Qz
sOmlrQ8wozLS@y*n2?lMEIJ77D^%f}uPJ+eTXl_Yn!0WdYugIK4aPfA<XM$5-r*R9p=M&sPZxxv<3BI
(G`T{a<B-o`=_HlrHcS-k9f<NscK9l(ug3I?(zfbtAAo$HbDho1yOYqkHj3tpdhhX?YDi1OPnh&aegy
3WJ=94>Aj1PX3Xhax-74)uvJHe#4h%Pdx5bSrDcuVFOg1^$ck<9f3Bi?3g6PY6k-te}h5#K1_TZ2cb-
2gnI%z!wjzn<s<#94f}0~(bXaEvko&QNB+dCH7);SVY^;NO)Q=etiRGhmG}1GYOV%{ZGpT$uqUC^O)#
$_$7zy1*0gh;j$4R%Sq)v4k10yE5aP<yd9Dl1F|s?J4$$LP>nuFtN8%j6I@day!K>oR1int|ND>b8f}
Zgdk;C41Xs<>?=_qTsF=^2x9LjT-P)mo%lk_+Kjtcb8E&OPmvo*?(WN4a9`Vk`-T?Wx3=JZum$&%Ex0
?IamP9(E<Ms0kn9ojPN|R8Yi(4obPe{9xzv{E8|;;fs9*MOu!okCf1d{XvFFJi*kCW(PT{>8>{UB-;@
fJ?Zr!P4H@W3UWzLLDe7-<fx_?1`=`(21Aa?Dw*RpBTrm^hoY-YFHWkD4e(_b-LyLK&m?z!jKwr$&3W
o0G%;DZm?#ful2nu-;Rz+}ONTg;!`bGX=_84k>wcT`x9@*ge~`(KzhZ@~ft_<<k3aFicDL*56-t|!Y6
6qoGt=E3efdid~RVHeXPJ^lNEU&s{x^A^<Vzop20zp~Fes;@`<%*+eYz8K*TAI;1>dO+DPNdFvizW_U
>e}Vk*P?*IseQD1*Bf=j(e00BbI3v>k4Eakt<<Gg}=wYBnZou!t(X*eCtq%SI|D_j}AHHz74r#!Cang
)93UDEZ(kHw38;9EWfAsKCA|Vs}(VzVLl6F7HIUp`6)BjdBG$`TlQ3|mF?9yL&{^21}GJvqxzkPIl&l
eAiuz1P+Thl0BPtnDmCE<VM=_!ZnFB~nd6yc9@{@c`@^%sOU!V`b1AFb!YTks!AIHfnj3mwrXrMF05;
HH!t=$ENSdb11ND;HOJ7LO$n=<fD<(yJ?GvY~0=)v0jq@y53BE~b|kGabF2^!m_iptn1RoChjd|2;X6
jErQ7iHU6T<jL%gJML&C<EvJ!Vt@PF-`J*2n}m$N|Ni^z^y$+sInT%TF!lNQ8@KqNB<{?=lW)%4$rkV
YVQ1!Td2BHiQRYt07w@b|CP}z$@%O(bZzjXy$4}qP`T5L+hfYtOI(27eLgWhslW&W^eFEpNCG$n){dV
3wHJL5uPw#wfD$?7w66r7I{JS$}HZmc_H11o}y*m%|>CTy_df8=OEsT$P4U$jbQH<b|zGWuS)2B}#78
Vx9!o$Pa=+UE@$z)=2adCoo6DLk&H{5UoyYa>w+02<U*`oCEZ1(Kg?ABXvWpn1tp>c76Xg?M%T*#iZk
7Y01F`B))D4Lbbwy+hq#j-VdCiX}{410aaNcQ*QIQH<8S!~PNe766d>)5fUZ)2f5IJ<f`XG8XLHg+#(
!`|d<)Dg~Ryv<qcyPRG3A!idm<E)V0sb6q*^VgiERdF`!Th5j&S;ET8%h~GHtJ#AOKFA(==ppv#qmQz
6>(;Sno_R);@5YTA*=w)8Cfc$$-gtw(vu7h)`Xgtr)pE9P-#&Ke&>{Br+i$bu$B(mj-+h;T_~D1_lTS
WjKb$_v-ua2M&p-cM$VGK^HT&g<Z`hY-IjgO$WoOQu5we2EV=(m(Nlbhvs9(jHFUgG`RrWSifsMQ^8_
kEXoB2dGpWn{b^407${xW-)AJ^Jb)}G?`r1;?!e>BBUp!hdZ{Mi)0hzGId6#r3*{}RQor1&Q&{wcTke
JOqn#lMN-+bI4@ivK*t-%at4Q~Z+@|5J+pCB?6%_&-qmI=A?P`_dSV=CJuRuUkd)m5nPIJNi8JX*4$E
CxRG1IfU^~CNh5NcE-P1&3Nt0jMurvZ%^@iQv7g=PxI@IH2*wGY1PskiqEI`%PIb26#pL-e;36+LGe$
!#izkXk{9Nd6u&jby%e9?pIREkaARA>$58wk6#ov2{~*QRO!41!i_hAyB-VlIY!9}Ig;BK~&W@7g*Rn
XqgKlDcNIv5e?_&J+M;TxJ3ga&yWc>JNZt;y2e>lZYp!l;Wei6lAN%7ZH{8uUd4vK$(;!~chKc@JnDS
oXh{?(Mib(BIjrEoW;@C>D}ms0qgQm75$?581|{W6iWy4yKBvzoKBFLQSOICsVGOz{U&{IL{&62(uW_
;V@#GK&8Y#ebIKZ=(3SDgIH4|1rg{af`2490;cPohg0~ir<&wUrq7HQ2gl>|8|PMg5p0*@pn@E58dK7
ev;+m?i3q4&NR+s7UqNjp?!My?AiBPm#=ADd|aH_93MM&tjU}_FtlI4KE1EKwwIQIIgY&PFOCdmb8=X
J1i1EEqw<eWjJ3p%rQ|KKrm^Ep$yXylpFTZ%DF3*`7*o6{)*MUmf!Cm`!@|ZSHy|0G7_U9!JBM^g9yC
a%(7R_3W3OuwpVE(yj~g4G+_hcD5b~!0p(;S%WQsr5gvhb+$(`G^>nQyNj=g&t3CTED`pLoV+qJuHv<
MI;0`xE<eykb3Ciu5+*Y!GuTEYP2K=G5uni8*%kGI4pcR~UkLppT0%HQ9=O9FC$f1-FO{Z5SnB!dm`k
F_Mm#m6UF61z7FK>qy(i1f!Ln&T~r=EU*cIt8l$@b4cwFoDVRV?`Dk*OEsefa0G>e@Jv9u{hBZpD2hB
IcWSR{FBW?Vt_(CrO|2p_;&5uQ2>{J^6*y4F@r6X!S&?dZTxtFLKl~Rtijt5)h65$Z%!mGkMAys=sI4
B$Jmi3(@;-?clg-k#N@;{i^9^S@hC1fa$M|SFP-o8$^*QLGn-ug$s+~_wr-`<1z8D0pqLmxmISH6-*n
Be@QBu)`nGZ889R<-IWjUfw!uF+d7NoNbQ>S<;be?WM(T0qhWwLb5oAJifQL^E{A0(GxW=;vfAEI{EX
FUW&4lFG#IeyNYmB+4FCS}Q(1=76@iETL8|j;cH@ROE5gQ%X*jvgErEexdjI#_I*~Hr|ePT_VX=D>`7
T@?uY~sy%<>Gon@z^RFNL2nc<GIDnyv>f~irLsE<GIU^Q?&8iq)C&+cw|w=wXU(pb46p=vTO@mTM)}O
Ew!+X4=-ZZ9HcP?wR6@FIJ@BsIc6v#_`m}Xuty$wggy4yW9-Q%pJeOTuNPy5S6_Wqj0d-G-!8@q?^Qm
>9-;BZMj9*Z-Mg0^IdVjd4NiUW8T;akFW9M5r&vu*4g2=nZ`n^j{vgH%zyA6w`|Y>i*y=N!y-fDw=iS
=b!9A#>yM{VCs+X(MsH2-t9o;?D(LKw8_$D@l?_d-8L3TTThppxxvzPg4>c4B<;!}s1L^Jw)>TFkCP4
S0Q{1}QKPw{W2__tI1yD9!-6#o^9e~98Y^mG3ir~GG}@_%)lqUm++)Txu$3hyWsKX(f0GkEY|-1*qa*
r`)Uryc{k2exU`jpVFj&(J=7`t=zc6lmxlK=w{OdiCo^VS@s@4-Oj~#=7(z5IVT4@8BQ`&?X?DTbCYv
LI?Z#hIUg9Mq}uJ!Fs)aD8=dDwoO2%kPZU|`|0(*t-Zbd`x^|Myjpb{(A7`x3x~mh-GhB}K0OEH>Dt;
G>0cG%(T;3>y?k4@4x{?jqfckgF62v5x{{sp59`vtU$3yigTtU1iSi#17S=l~tVfujuM0gmqtT;>-1%
Q@U~Ci?;XKvb(z2k=EeyirV0U-9K7{X^Q$!HsW!u>+c(fzvt=wL3mFs`U^Jk7&0bd;X4({H)JD7?WD#
7};ZrvI?ySQ2s>c62foLUNTY+U2`U-fvZbp3xXpnAYpbdL~!;}cIjF^&42*MIoohp)c>{`;?~@A=}p@
4h=t@Uvfj`Q-<im!A6g<BwlHaNvMLr_+Uv8Z~OLqA5hBgCq3d!yn-v${HPW+rEAK_96&gwYkE$AvfQA
^Vs3^kh${*AAE2R&7=9wojdv0Uw_T1KjrVg|2`I|_-CJe#%cb|;ZHPh>SsT3I-S)->*ps<oOpcKu3d}
AjT;xiWI5rJfeuU_=?5+-S6}tQtbM|OPX)Rn?3_7sBI@hw&oMNESB`&2;`dRigONz%nrp7<3;YN#f&Z
ItzR9<3+r|k$zIE$Xf%oatr}<Z3eZ`L*JI0S6KQ6){4vi7uev0Be@$$<rFWj<a%R(BmSxQPuCgkVmn^
&$}nMC7i;D*l`!a8*55K&%Ue$&vQL&3Wcv)LSqbpI&+KmYtQr?JfHUcGt^BOb2&=9_PLWo4y{&qt3Q<
^THEzXYCCJ_2``tE#H_M<0D8?4U_|Y0M)a$=okL{`g}($=!KM(|PXPIsVg6KmGjPd+%-g^2;wjqrA={
9MO3n)wf}U!%D>cqxjQ!3VFF+;IF-)L3>dq+6(+OIyAHPHl;;-31`<!W$t?2-SPez{P*nHvx3U8C&@%
9XxP1bx4<9r@!^LbiZb~8^UsAHIHFEa9TxDNcis^%>ITXK5aoutgE()!^_IXNWk~g(qZ}??)J_@6hwS
Ic{Q~@{4iEh!_}A6daq5PI{6|Ga^@SYc1^#cp{WgF7_18I-Ij1qRsKekt%Hz<XL*fPQ2M-<;b>-yAlf
n!d&;~%>P)|@sz-{yQoM(K<`Pd_zM;_vQ@IKDNc5yzalJiM#a{jl|oc~%^_YT#SF29Sp8~!_X>{#8qc
kf{|hF?kTCCWq40DQr7@D=o+EPy-ADEm)8{Zza#gXiEk@P!<J7T^v3ql};WmUHv_oX4EtJo+f-*Bs_N
;vmtmm-7KcL*IXL-g7(WD?jG^!i5Wu{t^7Ct#`e^UwgH((B3~&Pf!maFVjBd{MwV8$G%7W2MtsP!{6e
3DAADn0q1oWIL|!JdH4?3*2ERzf9A{?$nuJah=`sf3#Fie%Ha}PfD7aZI5tNI_zs?<j376Vf3&+aXA=
lbApEcUNYXIwUCzf4t|N(tVI(*CCnf&b?{MDx4R!wR3h}2tgKO<S<e&N@j<;!<XmSp|qAVa+kPVFv)N
#le<R0}xgQypHCV$TP^+ZEF$^ZBdBn_jFaX#X0Nkcf*g{yaS9=h|7<4<kz>OOt?45M;biF$^%r8znv>
n+I__z!>d3y6ny#{IeB6xC7C@CoN}M1zHB*!Ug4lIKTyA8rZ%vuDq8>Sr3gph0^zI+`n!=IA(o{yaav
?J@q$f_VP$?PK`^c`*Wso4(?F>X)2Ptl~ToH2h1|XOfvwT75nw>oeM<zB^=n9{7f=)70WNcbTfdpUQb
fWMpJdYR^l7Kjfq-9gus-byGStS|IC?qt6a+;?K<+#h<p1=8qSS5j5bLS<U&4iiV`mI8Pv)tp9SW&!9
oo=Rs(bs7>udZBh@Sq5D?Zw$ihtIsAL}?CFw!>f_PRUs4{ZzvvINvOs-+U84c`Q@h72A57;j%pb*{oj
004MKnA{G~h|4_Hzc&FrDz2@`a>9tIwc8tIueYh8!Ti@8P^ZXdwO@w^98+D3UqS9RAea3;CzIwi4qZ)
H#g~jTX>={-7n<0{&<xUt410FWni<|3)-CLo_^TllT|@z<Ejy(ct8K+G$yz(I&-z)KH&6gI1qGgI1r>
CWXE(k~z~9f7CPdFEq|_y`VvRo6^x-9nomPvt{uJ{>p-p{G~gh`SV3Y!`#vQ*V=FR2j?UW$wb4=UlR>
(^*LVEXVW{fO^SM3_Rm_I)Q@QB^?I}IlE9zF_bY}C8`hJ?D5bz3?IIv#1~g#IqtOC4^tIZ!41VZuF=o
KCy?6xQyl4b}nP~Vs(XfGNc;lfw{>u;5SJc>46P<IYOro^<ti~Aqb~KMa+6ztoM~)oX7iFQnsIR~qxB
+*K7PS3n?=i1IyNSLEeH)$~OQZNUqT#hgBl*S!(fmcCp=o`-pW39=b4+~2ZR7Z|>{wnhJC-j_H*<&mC
jRLM#{>=TV~jy+jL{PQ)ZPpECwx`{Z{P(8oPam#1Mt?$1Z}+g_!#{!XoURlSvH3MlW5pVG;CT(G*DeY
eFhCrDH<M9G^_#*w~pg?XAupVX1*xhB51&aHff~W7-QJJ=H(x42Kq3JBk*q6uz|nu!V4VZBJFiAlgrh
U-+udzAA3BN?<%>5zp;d9pt|rX(eMvdpV1~gX&=KMD;UGq=8xrTa%1>CIVSEP8tx(*mJ$sMi3U7P#~8
P~(|r2_{7Dvs{F7Xlf|k4Px{JT~;){ZwE1^T91#z9nU*)??ui=$M!|OzYsLw<L+9a($ucJ2U(Sou3!T
cD0AJMRqXjo1(l#v`Q$uJ8<(I%PP#u%^GG~fOMe@*_Qqoex*2jI7C*)kUmP3gECEx-MCfq%a1VZLugE
Z<oY#a~zT`4zYNyk61ph@#<MlB1QknRt1&qydi@V^IH`K<{H;i~jd5cInd*WlsI?>WLF4#^>hdz6o4W
A5jMuEm|aKaF?&&D-%G}sit$R=AIAszT_HXpgvcq`rPEX?Dz-xqwK9#E6RaC|NQe}?1iyRd3iaXJ9n;
&hRe}$xiZ0nHfhtME2z&zLo@A6OHW7eY1OJ#yQuBt{rdIe$;rw5nP;Bi=$8u%3%Si^<11FI5cT?#Pd*
Xt4#q;w(E_~DH=wP;SP0`$%m?tGJ|BJ7&M%y!`Nq?8UG-TTV?3nl^D3$fzlZ-DZ@gikvCb3?|A7Ms4$
sWY%uP>Euc3BSl*3a`J;f(Xn7}7bp3EyMD)<8rJiyniStIbl{2us%2J{8!Cp0=RhXD;}Pa%is3z5fOh
nb&v4*1vcH`mW?7-P(pV+_=1v`G&aB?A55oqvrQHL5%@F>wjxhh%*<&HIPF_S$PNQXS^x$BT-JIMoRb
"%text.

(** Lines 5865 to 6014. *)
Definition DATA_38 : text := "`*qh{C&mc-_U#k$0NjBq%1Dzdtvo;<WDoNkjO$Pqs1K;qqCQhOxYy_Bo7CsSTb{r;@R2JKo)IHPta<3
6hr~Jv@>X@37Z(@v8*aFP_v+P)_wV1I)7V<z0z6PR++Wb3y-jJs3z^c=M%()KW3%`hWiix0%P|J}=NA
^n@-6qx<{!Panb-aL>pN85SG@kPcI{eTT3Y(^>eZ|H(xpp(z3HZ#cur1^;5*GLg)D&v)C<rF+(1WDTC
fIzei(9(J{ole>k*ho!VP02lpSbk<{|RWehMD_(e)ohrn<W>KR^GoJMX;nBJi9xZJKydr!^V|3>d)Y&
6_960eyzHwxiJje1X5V=8L%jAnF6^2<k)A`i?%^eeQwzGy8+<Z>U?4f0Csqmn>QGF6wD~d^}&UV1XzH
&;b0$jT^_OPoFN_Q3jwvdqIOX@5NjU<7>!0@C1Ymfi`#9!k7x-sV%v;ckkZAH*MN<59Sbm27kyVUdR&
Go8bn$u;y&H+eQ72jg93oF)@75ph2P>;Ey;>>1a;2w7Q`|$PwBD$Q9aSl%2M|K{#Q%?MnAA1pY+#is8
eD_aq*cqCWrgpZ^pzfInC_r1~LfNKH-U2?+^8w$`s-FYpJi!E=~_H|hb}AGl*|3i-iU8}$Hn0CfWCq7
5e8FH$<CAt50#RPImh-MiPx<erbumEw<l-N!!~U-4qT2z;n)IgKrFs#w$qDsN8mCS(A86nLz~(bf~uj
)JFX|6h6K75>soFNr?zAOHA=hzDL1pPbaT&7?kZ0pY%z-0o&_-{VU6Z^ZZw;~%vDR3BHuj`{`&Tu|Pq
vm~ctEHP)!9MQH?T^Icu+8W5WCWoj8sFx@c$O*~-ZL<4#2xg><GD3NvKPP(e#WLDW?<>UJg}=M3y34S
;Yy&sY1sOtJxclzAIkj1$pLTzMoAx3O+8MM(cpyKR6X6B!pzDbzp1>O8Iu8$zKZ?5xe{K9v{4NCzTD#
aB9pE?GAnLotJOMI=zP6b)eSts9MjJz5Uk7pzSpv^dht}dS{~zajBmCXvA8ka_KDH?>fLLRnF=GaQ@W
BU#e7o~qdl3$@1X+h2eE@LR_D5)3``CX0cY(kA{FnNkm5@vHL7+oh???NAwhsM~J00Nd=FOY=!w)|!<
XNl3ctN+eHji-=?2s94|A5-e=R7?<|0}q=@OSSQ-N!KQW1GvB3Ep+<)`|F_3*kW<@P%xl?F20v?leAq
_D{<DCHMmus$W9>ssAq3=3keiMO*XK_U}+Oa6>t0dvYi<v_;rUz#bH60q&H?pJ`_<i@*E&k2aUOT$x~
ekMR%e*q6f#*#g|Zf4^vV!2{G+$UE>yJs^2p{}<ve@ONMTq;|r!{sS7&cVhg4_78G^{s?_1c#JtGc#m
?>)^|}3u%pdKTZ?v#<`iOIgJ}M%aToYQb}uLAEy=rkTLgb?-2!|DjgWPcql+{~a8g;JU+wf4<BkXF6R
-L=zsLjU9{v(_tGt*xm!0$GU0^=^;@Elfsu&wvD<PTwV(6)$PC@n;L0yyd-SRC~u=20Kf3bpGLY;!13
i>E$P_Vm#V-;MiAeT@F*!a60Bl{B%&iDAJ_y4tbuCY;ER~#RbP*A0+{!+;wT6yJ9NQkhMN=2!k3JG>w
As58fl#sAEi@nCrU9fD5jf>l29s;K&Eyz6Voxpl$cIiSAaFUisN*gz=QWq2C(zJCcRUM}W2b|POqE7G
c&Rl!E!8V{u{lb;TyX&2~=ghh1p4b1*-PzhSu_E<8ar{OcAExAsd<IcTtp`rkpp`CSU$5}_Uk?NV-xB
fuQepF1hRw1wV(u?!E<L61KaW{f-8IW9xME{$)PlhjzWhtedg?99x^heMG93@x>lbIwp8Zvk+trFWJ%
&9KG3N)u-o7jB(!YdVx+>!Hh=^^=MGVX{42#5(DdLTrrPpnoj9Mr--`AX4?&aH-_51fNEBB(Le`6Z@U
lKN47c|G*c)D6^qUz^P%>N&8+!i*sPuR^@=@`ruyb+uWe1)1gwb-{uEvxs|U17Z$*y-)txBK_+-|vG5
Vkhzk{3CW9UxckDmL*Q%JKodQ3{K#MU_9WR)U?5OsL6w|%|xFZK;)oRB3~$1`8|0qbcv&piOPA1o7@e
&>^uLo@jkG!mqzYXx|q~%rs#vD?_T?my5<3y;J=3dan*{p_+%Y(uTukDKWtgg4B5Ep%4;_6tJV*=^$~
msoH0whzCBqdGw>-QfAxzv*XLe`!T1vc!wdfBwS$$i21Y%Yn!KXV@$`_5dxEz~eeAcfHZUIa5sV6~6P
$4MZ{?*uiavf^<oi{Pjg94Qyj#Vyyb@cVXnI`M5~=4>M|9H%dj&uKc8WgcIT#IC9~cw*IR6*6eNgm?f
81DUD*g^Hw4{Si=yi5IcJ$_u^}Y8e^MF43QuHy`!AuuB`j~>#N%|sB@*g~S(C6j@+UPm2H1IZRs^AOM
girspW=70#=p)Mt30|`QU}J5}3Ghxged3CShK8zb+qRXvu~&GYZh|am)Yrk95)R%6&O|*FeFS3y+h}p
{rL86Q@ssUA$%E9#-U;kGm3}G~oQeT6{ug%SO1ulKh?*v~aix#c#lcs=CM3q?&~JS9Nl9y&OCPg;H+l
St$#(AC=|6PnkdL`YzE6D4eZvbf;PsLol(->y6?Ik9scj#1@CD`s_y|~Gb71MX3}|i}4R-6+f9BSfEn
BLD{V!Me0C@qq9Wuf8AdAt#KU#18xJcpz)Tfh9ef<U3oB(Iq?cikF93E&=9|hf~#PQC*C(nPCpD_=K`
Q12+8@oeJGhs%3um4P9EMRrt7d$jMSfi_b%Kkxr_wL>PBS((-z=nv&;X~!sYTY1wAPejf-_gKtPi&c(
6L-=_m#*E>{u5(w-MY1E$BrG9$YI~UebVk>ckzALe{=zPpo`FUV@@}&UABg=T@iC4MIS5j$FZ{M=;Kq
Ub5PSo#^hIGE{@mIQ?W2LHjKruo-49Ou3xrp{{6~?K5m-O$M&YxkiVn<7yUn^==*%WzvbrU%DOAqbTA
mScJ10F^E-G_wm{iR#s}Hl9=vM3)w$7nr6pgk1yK4JX?W5)^?Z%>-t~7ZYl`?MCnsldUS3`U_tDhURK
0%v`Zv5@ueEXGMp*~myLYdwU8vj#ne&SL)!Ihnk?NCa^eN7}By?-q_;1021*^oomw6z*9$W@&NyJ&!n
l)?WeNR<uP8}QN$JN?O(LL*)r+>ho?NS775q}JUB~mvoEG(4uS9qwct(9`e9w>}N>42&sD}4}t;**Ms
ic+D=VG$$oU^hAcOgU8svJ$dyD=RDeH5d;y`c<n|S&Rkvn()ixcmZ-(dZ^Zjs8`{uJ`(c$uITHi$j^s
0`;m>AT866e(+9B~@}`!H4pK`8*I<6QaRkNyyTEnuf-JDx*i865ckbLi?d~uNIsf<U+2il*?DVOen{k
GR($Z3E{`~pY^5x4VZ>sL6@FC7aZ<M`YUE--zr#dw|SGb!d?H~51rKP2u{;0|0^RYQ#3v1V|l^8Sgf^
%ueK-GAOm%&ts+r>Q`x(C|h^iykC?wSPtC=?1w+rU~?Raa!ZkTv&>P44UKJARL}C4J}!TO;lNo%m2O@
X3=Wt;2^8%UUtEk(!gj6z`L^qz@hCf6*oGSH<AWJ%vlc13CuALH+5>nKNpg;Qi7bzyG_bfnsN{eT;K5
nMD7Fg)DYzcKzgj8_$}g-RHsln#sOR**?i=&K;OF>DgP3nV#8oKf61Aon{}Y`>))?bGx1?`4s*zW2*0
jK0bc*=+T!Vk;sR_M%_4e?AVWvA3r|H?!@Eqo1%|u!!YFk#W|1Yx?b4P(Q!7BNXYS2K8$e|bNY(=dho
Oh7cNj|{aExdAoOpPc}Q-IzMc>{$jU$2>!5N)eBFLcc6CNw&$;L{F`SBL)SSYWJ@c-eGZCL&5@F3(-k
200YxrPjG1pX1<c<aX!*&jQ=GLd&@CV{JjcsBc!K-?{qxa`8SkG14v0;gmJCQ$<zmhAEt9V7ObWrdG)
=Ewe@8~~tV@-uJ#<?wWu=Y{A4{~vGFLFQfKJv~bBJU)IA*O<F>=un2hIsMC=WAsj?)Kitc1?#m0y!J<
W1R3oY7OdZKYT*QTf}?Bdc>N<y5t-2Lpx<3<QxTp55{lx>eUkG#)ct>fs38i>E>*iPZGNmx05%JJ2eK
DNg6BvYFS-EF755@G9F}&2)G(!iN2)9;=LD=GVX6I8IQTS*_V-@@C(vzfyuFcK>1SI$)+4@XrNEZlN{
;?K}mm9jX%1Ftw&E8%M~kDNSR`%8Oy)C9<fesUnbXo9<Kj}_2#Qlu76owfA;KI8LO%FIM{7sF2)0U>g
I*__;R=YbG{mXwI+$a@RQKTACV`}H+EV0{%!8-vD5HPKga^Ch<n0kQ%~Yr@@#zf#fujwT}x}46VFc*h
xV{@Xww|(oH@?%dHz33o1=L=X>zwGc3hjqj_2|d`>j2sv5z@B2e8}P!y3Du^NGFI9?`sB+d8q++HB`c
kKAYNGtQYFxy#xdEz2Jc2P)TBG<fPOE2_fTnVUmZkA+Lh0+s&og34e?s5)G|Vbg+=>dMFb;mSwr7G-)
W{Z+vYfw208!R*XMk9sq6KKEIVCu>t^b6EZs;a&E&*uG9&84i?e4h1(gIG@FTLV?=Nf=b}oqEN6dSP>
`<gvY;hfBi(gxRf70{AQpoP~oZIZ+50XTv%0Cy)h8V^lT31m+<3x*_j*s72!Z;PS(OHE}kI1aBAvV3n
%fKwQ&5V#pkSrN}f4I`9=9lmliHxR$T17dGPsv_nF^mrl_5abVtrddLjdn!AP;bPOp!*#t+21;@$C{c
z=8_J{F&wNKed5EJ+k3iW6mt`b2BuK%y(ro#;tuo>}bqsChcP9UalGXfoOzJs<6f_D1`o1JS|gNY_|b
O{_lF9BYlW#SX+eVqLLhtUGo-))VWE^~VNcgRzm=SWGkK8fiwl;W6eJUSo-oXA~GkMzOKZC^Kq|dZXE
BHQI~=Mu*X5B#mz4ywPtA7=y-$F=lAyTr<r~H$CP&(`zm<^UMOX$SgM3nPp~;S#LI*t!A5f!0a%)%%s
_Eo;Q2UUbEjEFbB;MbIjD@bK`08^tdNJPuzF6xaYBWy13ICai`7VUfU9y+`y9Gv+wQfjr0pSjYTwluA
Zi+>mGfc?$wv*d3u44^vd)ay<TtDTlF@5s_5lGd(i&>?Y~e<0|XQR000O8^OY7yP+wat{UiVYgO~sS8
~^|SaA|NaUv_0~WN&gWWNCABY-wUIcW7m0Y%Xwl?LGZ>+cuKF>#tzz%_9{{%tv#*eSYiiIf>KyHnII|
r`=u0Whe=<8A~J|Nm)^L_kX|n06>5QCE0EF_TDXD8%q>000x7>d||NT4IdA^aW+ZP>pgE#O^3h7H@%(
Sj`u3dS4DDtQ+dIwzW4m;vu}p*&kOIzB#l?zdHgBKLn!t(8H=<O6R*m=>PC2{tLi38z4L5ZE#pFXZ?Z
)?iK_(O!3R-zF|?OfMKW4c8GO4ggqVx8LRjZQcyEth9Uh+_hSlfFi_?ks>g4$1?C9nDi<7f+d<o@x(;
}ODQ8Zmti$X+^m(265r~rNfLlMy|sYDUa%3e?YFp5j@?F;n{%Zy9)4f-akWG?jgq^uTIGAl#;mzxsvI
GL$d=Ata)YZ2iu(KMOqnm2KIGfPJ5EBsL(Kb2XkKF_l2YrwYpn(2<@S($v!<LXAeC^Y2qhWetut#qAA
%yY8~UlRVx-40ckqv%c)B}_pS4ZPPdK<MV-=ds9fT4dRAHiyQ&x(%46X>vXA{+i@(0Or7(mVh_F-2j^
XTt(F?$Ct?rkS$>VE@Q;Cf^w9WRXm%C3ARZyUbi<FRgC3T*?02$z<YOiaq#-!;vjl+^!D)h;N79DfjC
g51MJdC4$}-oG(d`i5mphRZ{WQ;|M5)3Kx_2zrvk|VKE~r4G3a^iXN<p0qP)leV6_@}*P@E(WrU*{z)
ZxGNPNbY%K;&Mk`#T}Es0vyv*WCo$Ft;%nEc2;47~SgxybQH{qC?RvZB{RT7VU?uZSXqhTqb=Ad1p>4
z%6x^{6LM=r~ISc6Y}cLx%vEx4aRlmkKcv6QK1eQea$FMF6um@cew0uk^$x=`{2Edo=u`cc;<m+2Na`
KLb=h&;6d5L2alN=Cin(!U#f`I2i0Qscr)QQ+yY@>wa1}>U#U|%XpUft{MroRtnc|WB9H2<KbC!{{9W
W(qtIYl+efME-nJ!7+RW5vdZrx0@AGVY5;qLth|V?=kXr=24n(ts9~!W|55p<^u0$k3KL<Md(W?Wr+<
OMgs7G8?HV<E(0l&L7=~4#cX0OV2l(CQDKr*^te_tj0=|qz;17M6wa7Q#gz^nQdU>=KALl1ff{}nlk#
oXdYZ}KnvF4$gN(PCgbbGqUfM%m_Ow~k8y$IG+awnpAlmrq8J~_4lpf0h_z(By2F2W?z(f89;^!o7S`
|o`NriL5Fc`njP;7_1CTY>xO=;DXy^e^uY-o8C~wI1etTbR(r_s2)CPF^2I=SP1%^!rHUFV=xx7@!LQ
8&&H0e)uU%(trx~jXALJDzQB?-}ZWn7e;4?P@xdSuYm^!h41^l;E$(&Nax>O{ye<e?e~WG^)CJH!(<o
VJnr`bdNnd$_5aAl^3``Amb>se_z?1k{$mMYl;BVDOI+X=E`%jMgv*=R?|RTUvd8e~`{R?d!&e9Ahu+
`uJJ7((lk-C$T<SD@JwG}*{`ES)P0Qy$9KJj_{=U`dsPI3Ok9WSh{P{!iA-#GG6Qzp2hOOu5t*ge*0o
4h<zWn*?tKF~v{^5ML-~UkV2I1rW?+gg1f4TVK<QS@t{GG3OHTjJnf3kjE`oy}kGAu<-tn-OvoK+T)O
o01CJRePBFWd7nV@bLT=+(?12M7?b(Hqa=vh?18I0oBckc~cxan(20HgLS8ilU$tv#GIY@M{Qr8%kQR
-$3io+~59T{|@qme68WdlL>(uc(^I!W;XCZYyepixNEt#flF263SicC+D(Rw9L2Z5fLnK<5OZMnjXoI
d)|HU4wmK2!Ssv(Wx)$(k?{?tbc}Z$Ouo(eN=PmxO`?=SWI&gjKpD%B(>TXYybP~<8$zrDZK3&Xaj6d
woK8gXxFrYD2U`?BaC>OIz4zxyrCZ$$6Y^BM+_{X}dvn=lD>YDz+7RyySdsvsaR5h>GblGeG_y6^XFX
9B`(<74AND2c^oyMb?K>Y=AU(YJdH46rMT<$Id;e>>Y$qGs(<Dj0hdXn{6TtLDoLI9!wZKg3v_^2IL!
3c{o2Q7yMglGLGK4wB~GTwLIGY1k>n|VCGMO_9Pr3#l%uexSEy2-LzD5p3`%~O8D1!HrRufP79{=T9D
fZEX_nN3J6NmwcHNP4EKs6>d;3r-JDy%*2_vma^@^nuo+lJ=kj!81K(RJo#CoHgK^<xTwjKfd*A`m|U
YsVV}IM=J<sCb>@c-+-D3p8<F>UGX=AcGW2GIRa1#2=+idams^8$HH5bAh&}~8{ENflfG^wbOIr2z=m
;>;ZNg-n`|+gMBEuD!5{20gvUEl8er?Re#%$;{*oltEBi+fB1l3@VeEeMw_<!lKgQ{*`5P!Yw6gYbhX
Sc+yqpA<%%leFB_%Npo7xD51mI5=^ZCke|6Wh6|1^B&C=lsJB&Sy2*RX{-GBI2B2<LG%z6n(2*0PzmR
|;wY0B9aw7a43e$r#q0-)|K&he?WqpUw?Ts%OVL6GS<cAX~{S8^<$G4Ieh^nDkjU_!>*x!d>cL)slOJ
BKxqbYX;SD<x%SB-j=v_;~O7IEcH@jvcYXDWQOI&Jw7;JhLF2<u4rah+jGnrKFsEurjEcrN@<;X)Hz`
9zO#16<E!56d5;R(7S{DnBE#Lk_SzyO#iJ7c2J)AV*)*rfIXl#YUzKt@DexE5o8nqr4s`6RQ15LW-DO
@T0Vms3U<SuE;=-;$RsKsEe+)T{5!;l9O?LiLZ)$R{jBCoL?F|<>=#NRZC_PjrfIp_7BRYYh{%PXQCL
ELR577=`m0iOJ-5Z9&I$(fx(t0jx95SBmBJj>Az<6zxfR}ZV9Z#|-Z|I>J!i&7P1UzkGeKoC_q}R5Uv
~=u8<q*v|L-il(skl}HP3Z##e4vrzGz+>P!qEV6Gw^t*9Rwsk1NSML<b%uGSnxI4H1D*SZfkt1Vp3ue
Qcya3P{r4+_EDzg$yahReY0r>3*qFeBJjD*#;6byfG!1J+}v)J2v{dg%*k#ytgpKF%0TSGV1sRLk3}-
7O429tXp)9WZHAl!oFf9*TrEU<-jFP+P+Ni2g_i}|fUqok8c=L1$Q}*42D(@bs--0%E$l(9DEo!q$93
{$Y9o|IVQo5>ivx{S_AkMgsm%(PcTm_abLo@tJ(MPClPR`z3PhwKfme$hx_g<VRgm<F5QtWmcULW$%B
uMXDZ4v}iKIVe`L}mvx2!=m+O7h#NL8%b_0;gqO;o#Hn3B|NgB+8#cNChkFVhgnH4R$OXxc_o_c~Zka
Tb_7g3+`M8y~GzDvt;WL7-jjFB>%k$u-`e#ELZ8E@k(}c(xEy*H!Wlkpl2PF^(5d<WY&@`xe5GKTk^3
cu4w5TimH>A#hM8>tbKb75&dxl=qr;|EC`g58pPI>HX%M=DL#sv}Rv=6;Wbq`WFLp-X)?*o|7f}8yG2
$>sMu>_hed@?P(LU>L4T-)EGt^l{aD(r`M8-u(mNMR3U1kuhbx@j45O_GzLM&gL#NXdwWV`Tii?(Pb*
QV_R*(<EOZZQU2%a+__$}wxI5k{j6)Q6XfjyAo_D=KPdA7^2#bWn1WhS93|iP)AM|tND+4j@u-tGs%a
&++X|HuzAmT~}CZy4M3zoV8L`%JHS<NNNC7f;aYrsiK=5P;XTB)p*LH~02>}rc1>*~I1=8)v<A?;EPt
E}2cWtCmWY_E~7$Au(?5N(IS$p26@l#to9St9jYm;o?<@SdVV3ZK4%I_;rCf95n)sJ{hfPyt1%92a{4
a@Tu)g}w#sAJlj6PIU`KvyJX{8WnvPZX3RlU9P~GZZS4|XYC(o<1^O#pf>tBOyRXb&}oh`?S;gR^b1|
AB{X0W+MA#=<Xx9>9!5v%`IKAoLB-(?!m%-TnI?=V0fOwsv+Jw?Ry$Yb21k3Ew{kC;+W`Z=7G)JUig6
@NxF}|2JQdOC+ZQ6mO)B6L{jk75jU32y-v>Ap?-BTMIZl$cuBH1kXz}YM23<r2)Gw49h`*HTgN)U{4j
EHOTZ<0b2#lh%wGdc`vQlJAWRkLpHkER{kpE=M0RFevV2)C)bf*PsM=ZpQtTF8lH-zg3^Z=c1sGs`%z
8fW_#0hTA0}tqc#12%7(BX>>nI1A(2Tim!Q$%rxs~d6<e$*wp3D+il+qo4(=W|4+)tiQFgR?}k5RSAM
@xJe1T9N@wLll1++ba_(3vc@}{z3@|wC3%d8=o@yVoEGf65j-Q)1yM@Ql9t#N5qW{2!fgvHSd-HRHM~
DJA8F=_SztO>Yhc}nx=C#i-vK;NmETpQ#E26RW#nMLF6Vmk?A7(0&BJDW$hxPF0pM1q$&f)!oMD!!gl
`V?ZL(2Yo{=`Es5a6;Z49rMvLpf|Eb6-(ln}!^o^925TB42=WS)^i$r!Hf47Hj3>#yz;_FiSbu4#LbB
l0T@3;cn>(~*6;#Mxk$ut30EE_;0-=bteuKp35t?`S|SQ8ZG=1GcPAr$b~&^)Ej)KI7K4`I1?E&8SQt
`lmL(XBuq(G2J{;2^xf2m-({$ess2dbObfawH5p!jJua-*ok%&rm|#uM0K&tYw6NaKTQ|PuAG##WaQ;
Akt1K4vxBV7Lv}WgO^7gze|S{hEJ_^{nlNoip8cLHQZv34mG`Fu0Ba8navbb8#q(QmM}gI-T=m}UNl$
<w_4YM??w&F(rTKqjSBF>tWldIC5`Z|K!k9~6KwSSfoeC&$A;PsU!5BFR_eK%>+w#ff7|iiBn5HrYB7
b4^d>>8W2wFUz$1pzlU=Vy3e*6Ch5~_4odoi~AuYVbkL4KToT_Zbhhgjn)RLe(7#jvKC+Wg=x=70|Bb
zYYfLohx0V`~|bz4=7EUR$KD#}64k)ZZ6p51oUQ+224o90^XLey2<lVvooy)$vs)3oolP2p3Rd!`bRa
^}R{wbty0il7FFc@PitHI1*|9J^}CNk!hKrkxl%&T@{Lzl@L!#b?nZh~~4k?9+VK$wD1vnYT1dA8oN{
eHWM8cTsJ)+=Q|Ij<aQJ^)*-Cz{{!|GHb*sZg)m?B~&qpdIywCh8a~$vTa5oJ!EOX%wrXtdi=GGf*sJ
+XmhTz+?$CzkOZ=H24q;qccShJwhg<YX#3`Oh?2_N1SF!0%B9)TxvUfDIIT{RF6J1yF3`_gcF@}-H5c
i`VThLFo1`WM*KBqT9UB;Stp2XHs3zbCJAIk7-MQ)+0fFDPO*LgH<nanAU)Oy_kYZeA#R?Q?5UxN49?
;^P;^7g$X93&D<#y23iiS2XTU1^uK3873NGgi(nhBg%*ssT$d|ajzjd$RLHFg2LP!Tr|_zMW`z_4?7z
^A2bXl~moTC7z_6}N5IbMwc-R2~>bu%h)`gx*0}0!h*to{{jTK<S`Xh9bo7qJ)XtI4pUQW{c~adi^pA
_l;6of3lUz&iO)Ir)swilr{tyJ~}?XIC%T^@C?74|8Q`2NUx<~zK!_qEv=?F=eD+$n&z&#Sy98M<+Ho
AAlY8HJ@3&Zd^90R%#M2lEVBM-zU|wNYyW$Z@{yQ5np|M4GJw%M0c2M>0~#D2mBUk3682;TDO%TsudE
4e`f{}s7=_byK1&@Re-U3}Tf<uNY<bpel&@3MoxYlS_j7K3YNJDADg(58*}tzEFFSEBEgm1awZ;|fE-
2yh0tk)YPe~vK^upc>>L>kApjp!NhPZleP~AlR$eYKvup~=7l2=1%87|5oXxoqaU6!b3Z&83*)j^%Od
wzlKk4~QH8T%y;raHET3>;mijix<Pm8&fUGS<|#6(EXWjE^7RF3}s%8Slwqs>(hfk2f|91EF^WvL(Xt
K7NEhu>3xLgvC=2MU@|*c)$^!$YWz~4A3#~cpycpWdg0iFJn3}$7EbBYjYks-H{R|$vCc*eStftnFJa
dfKiv~^d-tBx|jx~kF1fPMiVz669my%g7G;(9^*pfaXMb9VzQPIzI1_YjX~TSVIVB;9|>$FY$ic;KsU
+Y!$xm>E0o3CfMehgC@?|+jIiikfL1>sfsA?}4H-|QfkN&-Fiu11lqU`cdgxN;17c&*pWO)bb1i^q_G
|*fZ3$ORCDO2G3|c6HyF<@9<7<yXq4z#Ik34=f;)PS_a!no|KV}jcu7Q({3~6JGhbk*a!yiAQi2U)RZ
B?p8>0%WX3zQ^@=tKFv=9NUT@G~z3wkq&TgQKdhHOi^iurG7qbnn+${r^&S3GM9P6f@8YMKN|HYj4>I
skNg?|HH<5+F)I`yhSL|M*DDAERq=$;TR%EMJyd^ryT~<jA~)5Zx;<g(C+GD|D2enz^eMyzDqD8{=zH
CfdG0Rw5tuQUiEv;mh~_jQkzfST{eO`?C`cBP}_sI@vyh*O55<2-M89BWgHEop_)`;5OQanl=1-b3GS
dodY$i&rc{Axx7+%q{ea!Y@IjFdikcSi<|7AmnO|{Pd$>g8`Sf#pIo8IkX0$aeRA(Jy2{-ESmbI}ZWz
=E-7K9z*{IEf#Vp;D(pd)Bg4d!FWS13Br9^sdR1_1QCf?&CzV+%>uT0|M5(>#wK$Zcj{{%x<jEDssMP
!qR0Zm7(#A(SVIY&ILk<6DaIm*?9}7^5*%#O)ami%me^j##=Ktt!$08Q$w`fd{)%aSig)od99&ZFVPS
tFLTe8E`_W$X;GiMI<F=rnLWKx`qZ$umoeBum>fcs0b2iuS<-$5qy?eamy=7C2a`jw-fx_umu7hMCDb
m&k8h`xa>|lh$m_F$Agy9EMBBzm{F3o<e4UzHq#2n^<;LAx3at;kdpj{1OjWvs>G5*nJtR3ko%?_i=!
BKTNbmdclbC1G7*(uNC<<K3!DN!l2@z4yaGCa+zF|c`+SOefPRuvk$oVm8VM}c7|9k<-IDy|EZZFy(*
Z??RWyTv&1Z+?OgtkNW0DhEHGucjuW+&eQ%s-kz;(7s0*!bRsxe*^g-9!q;Q0F_Ls6WyM&h@PRc&BT_
unuwK9O4Lr)A51Vm_UAFno|x?`tlrTX8dFvf?f;pI@=9wJL&o>LYUL<1Wlay8F`=ctcSI^Q5HUH6q7*
"%text.

(** Lines 6015 to 6164. *)
Definition DATA_39 : text := "oeILoXCYM&qtjT6eSEg2j~q?I;{CoXtz?+}whUuF)=sPXu`U`}J<=>S+US{x26fOzJ5*!f*})`^(aYK
}S2V))-Rhby3FMbe7(Q~+^pthYnO1)&20*U|Beh1L_V$6647!ZN_}Fm~3j7{95prCUk8msBKuq|oU13
QX$sKCn3!L4qrHl3cBzly;%*7DcZ`O@LXX_eM-H3`PnxnuBJSbxrV0cA50W>}D?z`OBn@T84vIO|bP8
}3<`X1Lac@VNhoU-@F@`;7(RztltpzYhCK@CjJZ-ZNMEh(%)hO+osXsAiAlaZ0hUQt+g*B;E2q?CxlR
m3_#Fq#h3C^pWyHo0!Bpv6Rxhd|&&Ba7rPDr$!<K(=|a10%}bLPr8OuzHOi!j0^w;Zoj&A$+!G-RglA
1&Y8g;Ns?hHK4EdCC)bY7@uu9`-8Z;dVCObNhx^v2BAUmMzN8UFlc{Fb1#dUEHYnhiY#zS$IS;lm-}j
Upt=*OBsCkmr=I2#0g&q}$)ILEQ=5B<iwXtJYxGkra>5Msb;y0?Y=F}^nU$LlUha6K1!c`c`#Itkl+2
qrFUg2P3lub$wp+gW$URruqyzt@t2<)i-{T}GKY$#{6}FFh>_avWI>@GYGDa8Esbh;Dujj`2pho60xJ
pgU?PS)Ke`O}EI@2K#;4?u}mpO3W(KphtL(81BJ@{t-up^~5faAZxI$X#hfeIdhP%~as=%T?SH$vwkD
7V;sD2dF(tkSAuNS1CacZrGY13)<u73>cE5zX2z6&#;#dff4(2U#d@iF*n`J1xiqh&GCRg^h)n<kB$V
ltR=lCDW^7!$Fr2hHJpeE*T)VPmVS6Wf7n70uf$^>bznHEZDGPZzite@rrHk=+VqDJBwWQ#7ZV6XL1W
@x<efZ#HV3C<^)odV4z`w?vkKv0Q;W*EPUE=GKYuv9yU!mIxEh<`CuBcH6})p!bTJ2@U|*3p=t*K;j?
i^vN(sxyG{P>K1$KWOs(nm1(=U9F%3I&^RdD|fti-sOrU-AdXa3}hw-^(?@*+}1s@@_ZKNW~{KdoDP8
w2Uy7bW{5<OClq2YP5d7$Qi@9MTMZ?8g9vdb<zn(HZf*n86Fb{FP_m?ogs-i7623ZJ%66y*b`xC^JVR
yfG!F6=@dWE6^our+|m<z1)}$931bpFGo)9Nz16VMx1bMM_ose)(kPI_E9$O<<a+LMR4!Pf$9X`2iBh
{g(NbPQDh5jZVMjV=Q*uTPVXCdjHt_TqoaK!@$&oM=T|@`z=cHobpE%*N+DDP`zB!_OD81|9yUP>{;Y
;Kk{f2*Lrf<3SE+^Di+zo6mhef^ZxB0-KYYlydDg4?e!q2%XWu=AsT?!qhFfB3|A+&ZhO|&L68;zJIK
EVy9E<&XKVP8ay3ZSLc!A5!~=9$Uxy)W7==T=uE(%>!<C6K8#57t7Czr<AJPU(*o5F;xeX!M&1<|v*k
_R2Ro^W5Zz6%M2@W3_`h$Bs$t8R23*Efmo47Vw+#b*P{1RMKC)VM6pa!=+tOp{$6&k86nmVj;oqpsD*
9!8Ewst%^m+Wyovb#I-{1PST;4np5Rl4GC;`AD0H%s=nQbBhQ#cX}RhO3~C&gkshr7z<}n#V4zk{%~5
mqDZD4JdGv2y=GPqy{pQ(&^t<53Gi~n-W__s0}D*mt*Ht%8u&rKMEBpl|7*xXatcw>tEg5%+onkosgx
pr?IvDcjlruA1MZi+9)cAWE!bldG1tHg$$f<n1X40>DhHsfb5X{_`Zp-m{)}m%7$bdz>R2kSfNRRlFl
@<%UsX0Q9R>&74%Eoq3I?A=NVU4Z&M1?Ko2j)w`N{^mn9R9DTNI^^`3{H_sFy$0~vPkN|L9x7Ed=&G?
;>YqeIXikQdpfF%0PkzrUF#jQasD_r7TahN){B=$?sy(gf(=C6O>fY&6z#?Ekq$XLV#lx3%H$&liWsn
1A)$4AH+whBTeJ!pMDa&qzh5esgc5=T^zPtfb<W*5WoaNt)rbp3PO|uEQ)0afgMZh8|Ufa7V)OR&$YS
eK0J(?Svt&_59gVZVh&g=mAwwKET6cW(Bux4NuWY2PmC*va_vkmUAZT-f9m~Ug%;weYuVG=SR&^%gm1
0$Oc&p`dq~0N=CVLtBPyYbHWH33-OvF9u=k#=Jw%ZG^hKEwymx%JPP#(jIG5F0Ck=Ry6gshhtCgwA^#
zz7*lv$Z%QCHcUM<}#}wCtU$^K&ja>ukclBV`&8Mup9_uhTSxyaZ;BBH^d}Mxgb?S#nnWpQW3H(q@Y;
GdWR69u-@!d_yXtp+6?Q5Bug6#6@SWCi*X}PvMbb{v$7AYCbVaJ2D=FV9m`{QWe>f9Xj#m5iq8=o2lN
f{Wk2IP%aUIGffK2x@?d!$nBsDruQus-TBfe+|fxOn-x?l3hX&kOPVwX(uH_GOi~dFy@J%1B3ntmHqi
P}$%u^AZ!9v3CIzs9>%3)B(;|GzxLc)+eGY>U6u`0e)w%>N(udDQJEk7q>iNl%HGG{KfszXqUH0w9j+
f4m0RYJmaHkGLwUE+ykO3Ixm#qnRf`rD>dO#YjJM39oh9%U6AO3rh})h-ca?{#UxEZv2`M$>n0NUGhf
}H(q-WN8UkaloCo4nS9K9JRsz!IdGtEO+g@rx%y}QnBCXffZ@HQ@Kx4dH(29}qV@o>G6Dn_-anELhav
5FLO*8E|;6j_gVvn~1rzzkevoCugXJ5}I-%ataptAh?+}FR)ef<;8eeHM`C$CTR(OIJZgzaJfua83A=
lI6fM>igLY-5`v8{N9rLyl@dNBuCQ486L#8+upJV<IzhQ&<MVxu0W?7NANHYJ`lpfIRp>$**yk<lzTN
I^&wRK0xxz50Cst2S+v^8rg7Q<bj7p9u)4kRiyF54~X37aL8|ZFvNK%gv3|AYLGR<c{V|BYQb7PZo@M
9<c6dY?+FNL*htuv3_LRwUObISKKf+rE#p;4YgRQT59?`QRu&1FD1g%^aRP@iq9rcs#N&IUHQ$Proij
lu)fh4dlCB-PsSQeV3=!uY8I{>=Q8DXa!vL2y1)icYI{pG2qs+5(LU*Of^d;C_B6R);O7%nou4OPaaE
t;h1Vuwg|5+1*Dvd?yQD7UTq8Q-O$XdD-OWh>j*n@JddWBaZ0KJGhxH9DI79iT(WD`oxQL6&d?u3m({
iJC3Mdu8O>9}WB;5;b**??wEgR6`=)@dtJ$~H<#FW6NWQ0#M7mZ0sgBsCg~$(U|vl>^`T&@X2l#c;}x
9~HH7k_jU>38g9(OLHdK0HaPna2)4w$VuLo30hIHQdT6_=tin*pkK?KHKReumW2j){7Mb0M&W?7+K>s
Rk#|JS3<F_8D{=E?erO_9mFY^7Arp;D(T+smXpX6Rv<um0Mz!!L6WFzaL^(Gr@RBD|i`hzFz^9#m61&
o7hII?4fBJrSbo}OovNp+PTp-tilLJu&+W9N(aqFu|u);oBeU)O?kcBy2iOOz(C2hp>jBDImB^zj0#I
fzc;yWtYxQ#t%>5m#s-oEN6r|NfJr-yWkx%xXqNZm!4ncZg;!stK?KHYMtzD^r;l9F{2$^fNYkBPVIJ
=-%cG3)a8<BgufXIB_f`D}|0tFTYy;!N)2C$Db-0};zqrT8XNr{&woc`xUu!w_zpYhH0Q8+RVoN=hd=
W(l6b!&^j$FJ3(DZ`%8PMb3{fPp^|K5=Ea5Q{a5!UI&hX#>IIOTzh;RMaoGH*vX`%<P8i%HX$=*t8NS
=#C`tLu3{rpB43jOCBuGHP^xYNI~%A$Z%Y5G_Mm&Yu<vbRQ5D(T4qH1qK>2P04wG;gOSZSID4Zb=c87
ldJ6l3W$BnA{=CnRAKf(5jJwCsUa*t1^g6}G9_$$9~Za*En<0>vUefNQ}dmRYYazm|$OKGB+IOR;t#e
5`hKT_MRRYpmabxtI_oqB_S)@bDosR9xg0@R9En99$T3GFuJTe=BK7BE`TN?mhvP}N*HXwNegP*LGwm
1TmN8imZUDsLXB#q$;bX=RBlf#{xikiBexA`K&GzJx{7M103;-|-G66AZ4F+pm3-CyWklOn8AckGtax
d_(SY4!1p;9q%=$EE8d9ni_}Rb>?aeEelfXaYvr1XF8#?(Gt%_lAe;1^ziwYeV^_Vy?6K^J{(uG&ntS
!2pB#L6dD}XE^S!T<5^aUVCpcqbn{?mc#lHg8t&i4|BeAzTxWMyY)nIR0<0&&PWdV;b;=9sX<j8j+oM
`5Dt4${tt%<E=7?(+8CPqkRBe@XWMZ`#b!UoG3qYM3RpM%6wXIiy4E@9-z2tS#4Yb{mQn^!1u-8L<u8
v5E==xbnG|C8e#&z1cepPzYbrB5~B$bU66{Q~!&!Y49Z{8gJnH8aV{3%2EuYRxm8z?@_lQg62Zwus4f
f3Y62e~gnUmAMP2J#>Cwo;t|RV6W&8qXy)$T6h^y?>>$p}+`@i<?N5BStbnV`+rFNai`&N%_5fUJvht
rq^cT6dx}RY1+%N9n~#WrFMZm@58A2x<g?JDwnk3LK6oskI?MOx1ZEtsbn3j0Hq8F3Il0<1lf$#<bp7
<oK~&A$OT7)e)Cye0W#)v@O2Uw%f!5uZcdhcd7Gdgd|2-Gqu|5D_!r*%4#tIWE$4sZib0lN<?PVR4Ai
C7^<9IuBtXQ0H)&OJD(#=KOFSlo)4JnB<-!Kh@0;I$OE>Q1W0!A30@8S##?6DcozURV=ih%DefwfdxZ
kV;3;+SpeL-Tu&7IvIB${kz_W%i>xJr!@9>^ALEz$(naolWgd4nD?p8xOmT^1f<9^_hpK1r}0TvQ$(R
{xRa>LNyh(y7ywxGa&z_dN2$$#5pJ#dhw+yy`SBa99gyh(k09(QiB6yR58~HFyksFIyBUz+MYv$Rtp5
q?@}HHsmGY$PsEpm=}X{XKW-jq9YX(4UXQOMyF?oz^%2xp#;9&@7p=yWuI9BOf%}(6K-%K5Tr=Qs{tM
LuOS*g>CPtuGZA)uDTiv?x`A)&E@O9@E5cvAE6R>eN|56{eK0~KKAH_koB%e=I*1uH7r)K;{e0#B79+
Rdc8r<plQ>a|N?l;t>-AopygNO(IC}Z^FuFMS{+v&g+CmA+DzoP69!oHG5T^7(==<d)Qgj9^Z7q=nDG
tTFbdOY%eSXh{`aD@N-MQf<m5=T^%PymLQu2GK2Hh9L$;;sygVvMWzNW#xp&_AAE`1xHyvd9fI<IYhj
bGI2H{QZG*Mz#_-RoOn>^SEC0Z>Z=1QY-O00;o{l@>=M?`QnO0000I0RR9g0001RX>c!Jc4cm4Z*nhW
X>)XJX<{#5Vqs%zaBp&SFJE72ZfSI1UoLQYC6B>Q12GIl@A-;R&JYB>@drI1@dqfIc)NzIQ^gL|{yi?
e&5S&w=NRKhud|V&^ea=vI{J>!!?rFsK`l$oqoVOL@?g>@tbKsRXh?3DO6by#6vA05|8kw4mX=k0)5}
<=6yq-L26=gU#)A5mzLs2mu6<bASxW-WzABY!n3^vHR#-=Fw|ppgzhA;OmW#p*>f%9rO0N%LTQ=<f|G
c}QuuN|D%<`gE{R8ynn~EuJ+!_|T(>u)iph_Xe82$iIO9KQH000080P~d=N3V)6WzGQr0Luda03`qb0
B~t=FJE?LZe(wAFJx(RbZlv2FJEF|V{344a&#|kX>(&PaCv=G!EW0y487|shy;b5Eity9h5|XPK?VdE
(xFLD!yw2qooG`eL!!6%?<d(&>!#Rr5l!+vJwC}(SiD<+w3RZ4J7}q1e2N)1Wm8z$rgQ3WB*<4Yxc%_
)7WPMkZyg=2ft{`Ck8lWIY-=h(%9<j8c8KtGvs!O=>w?Y%!c?$&*zO-U_fPwW$6ZW@J~o+5?uGo-SVt
ae>p+=G{Z>^gG)OJHN8e-X*2u{1i-2HEogxCPPm%9DW1I`EIfo^D&!mt?<h8RW?rrNNW^)KhtwpK(xb
|qmz?l7DjFIc^7=#r85IEt&`-X<$Sz<%5>FaCftQ(LO)^EG>rsK8JI1lBrJuErzcg|-6C@u{4EQfkOY
9=!XMr1a7ZgEJhGjJh;_YpHzo#qNWDNH)I;)ElW{e04Djf0(O&Q*eqW*IWMEq{*GUZg0mj3;4aU!OnY
XRpk>SR7<oU!<?3>@$&5WlMNvV(QD|tR~1Gov!Nf$*ExuWk={oeIuo*>BVpTFBVVk{~X0dS$J*50V$?
KNO<b=;or$;v(Y&ouh@k02>Y%XM$RXAZo)kb>f@aU0dp{x;Konj<`wpOQDAv-sNg*A;a#!6P)h>@6aW
AK2mtey7DqIx(aK01001&%001Wd003}la4%nWWo~3|axY|Qb98KJVlQ7}VPk7>Z*p`mb7*yRX>2ZVdD
T2?ZyU*x-}Ngx6bueG^u*R37I$9g4vyDGj3jHrkL+Fqff|xcYNFu`GY`x3-v0NiXFq0!lGX`uh(6dPr
@OkUy53zqr{?iDkIkxD=jHa9>DtZX|G-~PPEStFi)w$U^X+wOk{2^`_T=fA`EYH`+e3R@mF9i5X>YUI
npag<uCq3;$`mHOx7PgW^^2E3ynmUtpIeiaYxCmG4<FvW{{6=fZ{EGfA7R|dWHR~K=0)Bf%%&?>IK45
Oss>#42SA1<X7%bi|AgN*d0`v+ZJpP4)mHVvw6(QOdUEp9Pd^c29?rD|yw+7YZ3&!d;c0D~s;gHP7r8
O8PzAr%W@p<Bu+I#T^yh2^-~h9elYF<Y>ef_^ergW>W1F=no4VS;<8+_3*G3*>%Lc#dxJ|js+Limds*
1ugg8GxK>#|}{sRC)U8i_qQY3swY69a$pVEN^YzAk?M*R#d@k8j_;dH3Pv_vYMus5^UNKd<b*HLq#x%
et=WXXB$^WknN0r`7kjYh7k*+x=~s?T$j!0RZcVsvLmY*82d|w!Q}x4RD|qi>xRX3;2F9!JR`+RLj3j
=Ei;1&%0{vKI4w)XZ`<dGN(1<kA6dm!RNc`6a8QB^cO-3KfK@DRh|{EU?ur2g7WgSUAeKl?8YuwMhOU
zqhA*wWw85AZ+dOFdDGguHw-6t<<W-`2wbEq_u1;kuMq%_9`&XMOZ0}}Gx{N*Cf}A-Z5JTXFrjQFmnS
EyB5N8$^d~RNPkCLHJ6rOO&Uj1rFhU3Rd3kIOXxzIjZ|vIKUfUA%nhZc&feM?<+~lD3)y7nNTa%eFiA
}eu8j2ZA%2%L+4Z$iaP|$9Vf(GzlaAq1tgKUV*%?wB#Jm2SgJ0pb`(sX+th-wB{>~?6DR#jK5Y4xQw7
Ql3{egOHM&DOsPaw*o&npIW`+!}yHFmX5QgTN&v1O6OCRX6_-u<|ws^M&TonOd5Q6tP6$PUyrOOz<Yl
i-vIUdjBKrP<7i78mj9*0Dl8b4~IByU)zldv^?1~^=fW5>!zKX!j{|i`uyp)-#mSC_V1n~vgc&5$=cx
5$3=c)4FCY^Y7hpB&hP<%MZ6IXNDPR=(`QaQmfZ%h!nrB(IN{Z2?s>l9t?f3?LX9#@7=7b@!6nk$I&W
<PBWFzDq5)1IHVIJ&Lxh-9^f!6gR?YR?d@S?N>4_|Loi(6zbt3L%Zl(%jI`iv0_Um75+paFvDW$`8-D
ugPH}8WT>Om1V!H7OD3UQbFB5ToTG|$ZH+OBTMW#dW)*F>daDg=s>kb)`Mt+K|tAH-K8a<iE^KaX&@c
NS7Jo5d2;=Pzvbi&$7hGy*}$@7NzA0~JUN-sI|0b48lLA0Wg)#UbL!F_}lk!<aGekUg8y<fXaLN0)bO
Vbg*b0<q}Ol1=%r9XmB>Va=|B*(mV^&|HD4qQu(Ipt;d#GSChzY;qqMhEqRYXBf^@T`T(@+R)~|fzE1
mW7`G@vY+x5gkfnqi{Jofk%;vD;`RGiuV1}MKsB0nfnIwSuju(a@E6STyou~J@)=pfnvC`f%vs5tpVr
Ii%w!FzvR}rJBHJ>()lu*@MrPa`1(JpY9FsJBW|n!|+#zmWw*imUHB1S0I@*6!4flj#pF5uZ`OWt)Lz
cR6Fqxn-rTokxuVBZJhro-VgRE{UlQ>%D20X>i0xbS-Q)Js_c8tPt0v>{VpEn&Y7xD(6(r-+e%op4Q7
=D?JgB!4Vj8WqgiDDEOP<?$wVgyUdvpZCp)}dj%5~IpoJfhwxnzz?IIDl7z8m$;m?f^)<eDn5)Hy<#<
2Nc2o_Eif2r8L(3=A09b)K594ie6;yw5rGvFZ9V|wI`84d6=cFpqQAgZPVr@2OPWXfRRk*^Eeq8=!jb
Tyn#VUY?0S0VKm}zRW3TMzbwIBpsirXauVuv&k+u_*;9RXFWEhHLDC=pt5F}D1E#(g^(WuxC(npil4p
ba1NtF4MUpxUG(m1P%}Qnh3LH)i7y%3+^{oJ8yWZHpceaGI93uQ}Q7s=g?V+G(f(FqHS_l0tEdmAy)T
QXw>~<Sv9R*u`^f`V)mNWqydDMDAzhkm_>0>xhKbehQTLJZSF`S>;&#f)jiKP1}AO%wrdNx-8Gq39s8
a1{}A~>@!aOxA{MU$ATn+E3Ouq*QNra7m8Z7!&tV}L!U@e3`BoReVBV}+Mx)>*j)Fxy28F32Pxp{X0l
Mj*JL5IpM@VvY#BAGGU0cF}-k1%}uM4ox^(e7zA12vZVpF4YQFn_~{d_7EhcmQ)5kc?Mw)00W5uNKI8
XvN(Xjh^!(w5UeOM<g*Y+TX&XNwycVLW%yx^f^6A)afJx!!Fo|wpn8vwkEp~6-+}J33b(k_hPMMpuBs
9Q1Po-w_;D?356auJI4=)w4T8YypuhvGbGuHJGRk0e;*#rHLL`NJ<&<MRVlDB{u@yK677K09dJU6>2<
4+iHajNgr6hsEeh&on5T{wr$eB10hJ9T@45-`iKUGIo0VF)$k7L5d`vZ)?{Xr9Ws5*}Bva-eB8=xC)M
0*XKb=ahkMz%TqOnAXFaE>5j#%?y4@>NWS%UO6J*9E0UK(Pv=5lC<kW7vvqhxt02tQFY)Y*|>^mM!Q+
32MiThv)cI1r@2k0$siGMsV)R6)Z)nA2fYwG2Q-@H@R%Ex2AK>Jjha9#V}+O2?DRC5;sSS%oc^=0kt?
99Si8TGX+W!+ZDD(=J9{Uc8-U?&v7F{EAL3Iy^RpT7qBXOC%P6@X1Ek<YzCABwgk5*Z@lEULI7}Hl!H
Z<ZFg;9bFoN*(&M<@1J_(*amJO0mQJrmc04kfM>d|JszRYtVmDQ>HV{Rqs)W4`>&u1M8mb@T)~XE(?F
v6^92!k(et$qmmw{=TOQb?ufJn^EvcrNq%hD$D(jxASPgxt-+zc3NO+sZ73icos5BzyAHc@XG2$75Mb
B!Dj8Dug#pyLjgzlY++b}LFp`;*XPO4<h~VDS}Dpr~4Avk`Od9Hk5AqOl_w0qBi;60Oot220qA&ieGM
UeUB(2<FJ}P9BgN8%ZuZ9yv%Dq7V=bQzFZb1nc-1#Ew=$uNn;>jK-W?OzseruvG>m40*1E41o<x2l{u
aqM(M}`KVmnn7CuH&m(A}1Su29nKgnCXJN-2$v8gvH`vM;VJdRmVhy4Yr$w4faY)0Z<}=o0u2i6BrE2
H+T7e1C-8jNYTMQ!p<GUS(e-TU{25JD<i~ahGj&0qk`7t1HP>dmU>PlZ*r(mQ#>}@lO=tDSg3f2ZfW@
5N3f@K9ht`leCs0NEEhL=j>ArRSIsq;|5ih`_ue(kbr*u0nlY&$fRhi@s^+~(rR<se7zm+wcDbpe;{_
XuumzaWE$Su@ECA|o)8ng#10s}X=4MMd_&4ztcQc?nR#?c&1oXmC%~_~=)UT}`&a;Lc!irJ)QK&j9df
ML_(T@?y;AFpr5Dl50#lUW?^tlCttCo}_wW8hC&vMZg36PFc}-PP4Y4`1V*<^Li7*MdpGxnybsfP+k1
UcixuF$&{DgQ0Oeq5F{V~^L-8bQ*bqz21}NsPTwS`N}RYckst~StUKV@7an!vb26yTGtb#0;6dk{4!h
yo4u1d6LDA^Zg*dIK*QS@=Q_`K&bKLmvP?}UA2@4L6+HPOiDA;TcxY0Z&nWaNEDpM#|A|VxS;g6ibMk
$O-1BXSE2yRd>v2F*FZ&0IqlJ2CH?Qp#M!@+RPY@o<PPmZ4l%I4A_ETxM0;ZYk(6&T%R4jCJy7!8=fW
w$k_Prv>4KZnb!VMrz~_`DG1OLRldLBl+DGG<hQ>Zni~<3AVqi+47*=iGE52H8S#6lj6DuBsc2=X(W_
D8!TqF5>1$_(|*x>40bUC?QTYjuUZ5$hhf>Vl1Td6{b64Iw^o75`45Hz-C$l?|YdcApw{tp@g|pmhWG
`OGb`Y#5(GVJqzh<W8mioMteXGF;?x1CnmP^cM;Ot88uWM$+69e&`^W+D`kM@9FqV!uysY$KwD4EbK`
!WnNL}rV{L--@C~FP*cMdhd$y@9Xe0-|MTV!luuc2g!fdH`okGspH5kZb#cg(Iun~q+`K&?h+3f-4ve
g=k7=6?w6wts%M2D?|A~1cc2`{I}jos_PDQ(`c&K<f%90Hbu!hm4q1DdL=<VdTiR^0ssMCFb4VKn(JF
S1(may;KQlijC@HcZ4NyD;e`Z{k<NP{$<@xU7FR4-#qhC5SOru$p{r;|fbUC{B_a?AIlI0qr=7Q3<o5
v|GZh2s?0^T=3_d^%H~zb>2ec1HdpaL<y-%)+7<E#sYKNeAV2^ADq<H2KK2&F`-x&LPonIj+DlMlga>
#$r~S-;5mgWvgjT~6mmrZK@mq8!gJVcpsAwDB=);3sm;z(!(E!DJOWHS*6YpgQ@X<1%PnpwPLvuIu9Y
`UXB#fs<vWNRFa+VHw?)-7@C^CYbM(OVV!>x1YdO}w=fLE?1Af-VAFbI@qvKLsB{m(P5Lu8TDlY{r?#
<oX8jFjPw2+6$$^&S18V&TDJZ#7CI_yhw0ja|Z!eZo{r^gJ*nib4gz@mK(-}hBw`ly-qWE>CO9jtL{9
8edJJQib&WxhQ;ar;;-;n}hM8xSM`kQgs-N{BA(xB<;<Y_Xvq(th7Y2sS=&QL=(l7wo<4ZRAcT+~rb(
L&lg{0Y|%1%Q@Ogbd(jS&*vuWso`28$xqlcqdG%va`h?&E7V}N5&4Ip9|7S0)=MBf3;|%f(>(wXgAoA
YvDS1Lp4Bab2q?ua$8Ek&f=URvCaDA)csA$SJASFFZciat8l(iSxm3b=<6^shcrVycQ`$hZ<s9hT!Ap
FsBa;0`d+3R_o8(~T8+W2KRv;A=c*w=s<w+ke&z9~uTT0V~d;!y6kFkZ@cmH{8A$b3vY@tS6kfSA}JP
F#y1xJzekpe!9sQ^lIKG}ZB_mjB+=d!FCd;SE}s6H&}u7r;RvjTc}3&Eotr;?n>=c3wfZNH-M0(6<G2
+1CNSiYpgQeN1uXV}`!p%hiQFg^3ffnB+_TqT$))>H9*Q-v|*U<I5MQ(+Qz+jJZ-o14iJem$E|!jFjQ
e4=4WK7C3wOrukKOgq6rQk{tD<qikYD-1dHa6(&B^^}GWtd?C~v~(JVJGif_PY`^q<qSw-6c3l6614C
HB|MAi+I`o0Zs{;?0h_x0otobQ*Hah=Bs+%hi%z=+fS^5Kvxiu{wQeWS%~Ab{J|&ZM`-NFHNta*FT<e
A^RqHWAY<!EO>J+TM2w|U_pQpGz(`Uf#FVi`Tw3$wSq2W4o0XRfs0S_3WS`qi{2mM9yY8O-5^XVmkf{
$lYH!xf$8kN#8$wR0QN$y>E5`byjI)iAEj<PIAXPAx9;hQ^2_UB`YwE`JbAKe4|6_V=^yMBr9FImxP1
K=`SL$U?m2}iF9v|%C2+{sShCnIVse-mH6erA4t^2;RUd5MD3zD;exmyF-Z9EjW$B@SgTq#*?}=zz>&
vu6<)(B>eJgKrcog^SGG&X1gZ1YqLWmaWjZ?ZiKRo>GE4S)p}8eSL&i211x2NOJ6K5eJQI?#wNkETZJ
VQwGe&_~Ze2hB!`NI3S??vdUDJ0N(~obUu(Q3ZuUDPcUd83nP=b1)HbPLjX*r(}<4<;3yMiM#`(ezvE
9uRJ?f;*xf^5Gi}`w*qs)hkmSB|ltGdF3^owid9HVhQfh?_r4M^z{}-d<M*{<+pD*tyZ^4{2Tdx!EZ@
CHTJmkEe555LuV+6(uQa`I_yh2`xrnq~oY@*UxP@`f2mMvHqzAe;FdoM5N0P5+(<|b}<#^NgQ?$)}Vl
N)RITz=+txSooMt}<GHdoo~c?jyi5<>YbAhA0mH`(ysjgD4_cgR*yRUPu9}(R)<i>+kM*%GewT@^4F>
"%text.

(** Lines 6165 to 6314. *)
Definition DATA_40 : text := "LSKea8~vPIOgIMexb*p^{Jiu$lmDX#Z-|&*iusDk4LD`)z#wEnxx2i%1_#pKS_o4oR7t?9F^I)FnC=)
qMF**MqY1eaB!EsM?0Vw!Y)Jy$9i9p34Yg}jY@Dp2X&6&r=J%}UDJF7<$L3Vm())N|%@6~+et{L(4yK
nFF2s`&d#qHofL~Ui-^0Z^zT-HVfo6p)4g*&KJ|4J^#;Ny2pN`67apo|_4B{>~`>wcalA;Ku#(cz5jc
`n(#EDQe(YvC;wFHzV`vkj&yMoQigx6~@UVnZ4mS#<qVFU-q)1f6Dl;OT_@UE$;v;&U<U(j8&5mdU6Q
zqTQwyFv(NV<jREGNNbuQZPK$k<Bh)$@c^4y|Vt{e_#_3lx|~4~PTYq<{S&0GKbEubZxgQO|y`NNkAs
nr~0hHJZ>e@xX?OUdl3|IU3wAl?@_v^wOD7s6P*~-e2!soMw(TF@5d+a1jn|%6jd-Q|W3lmZv&mN38h
l<UxCjihr(*N&lMfvG*g1K~8S(Sl#~x0mQij`1<YQ`<Ji&^c?b;03-a9Qw=`n5UptDF5jY_Tadilthj
NTF;WB!Pw(8^@tz>6b9zn0i)K_Ki)*cl66xl!1xgs|i<o4_N6vVAT$Ve64BMYy9RYuz`1JoGaSDWIGP
V|CGZuBlzH0IO-HSiG{>#h7t2gid{QSdv%v-s%u>FF`&@+=nHJG`%NWxr=bKKeGoC_CIEIMTMWAYKRx
l}zK28k0{0>vN4U@;_f4=nPYmvr~pS7}_?!2#p++yN7D24FZ99alIS68Iy@d!L6FLNVs#52g8D%^Twh
hZ-Yy)045ns<zh#eO^48w9CJcfo}-A?-EA5?9~hSP()fn+*OaDUnG&fDBG;+eD7P;)V=EB=fD#lTFa&
9i?hp_(|G^0Hm?VNea@$#d^@22GF%~TfZ8OwgCS3($!Pp?z96MNGuWEb*4YAkM5Is{kaj+uhAd}*O?c
ItfeJIVD%+1qWRP#vkujs~$(%V$nNOl%S*@XxoiEpU)CX5{I2;qNhvk?V?_U$QLSs7(Ujy>ZOLDmAn&
u@dcTCYzq~gKlNPN7s0lD1&t_!J55iq$3F)HDXNpaMM?PU?Qu~`kCxn30UoIx9%-}K<s9_b4qba0FK!
(lH~ttm#^j~cz1E|y(6gh_bZw>ezeBRDq+?ZlikcXrpR0ac~7YuXyRjHVks^-VCU!+9AnBkrH>VZ;;q
=wOf!UPK?y%x})m#*QM#(Ue)-3I(nKeq4k?sFk6CZN))kSjQBzXKqNnkG_2)JZf3n;>c3cP!YTjB+TY
ig6pbkF?12jpplGx^_kw#%m=C8R~<+M7KUGfu}vx5!xSv5wd5V9cw=@a4|D0c+2v)2*6SbyKBi0J8@a
^fO6=d6DL;2WV{7-!&?(f$NL6CO1^o%RM^;zNwkgt>D5lEFX}?`0vPa~8DvWo1JISVhnDL#-ZHkqj_O
Q=aRIXTEW1>bU#lcETyP?j9pw1b>NyDR?!TlcT)P!Z|z%zWc5hUr{mWg--AVMlI9iqa#-Q=H<2+Zo;O
OaSQgVsU0-W6cx$)IB(zsj<LNLW&7PPVG(;3nvwIhrMh!ga@?le@x6FC=k%%)(-Cbi+lRS98}<Qf%3q
3{-b@yXN2?d;)w<oEcRv9J!_P;9PBOm)#bUwd<_hA_*)i9AxVnKG60>0iSW`p?r}0_l)bY{F{U`@vA6
px}`&R=AO{<z()AY({66X$^AT)<sj6RPY`%AweS;vkkhFs8)qHnKH&4Ab>zpFVU|8}EIc^&>B^fDwz+
31n8WBE>8rkC1Dl`ELqsl~_zOTlA9)MP34<X|gV%5{7cSr*^cgVN@l@9R&AFrj{V5{lmxJ28K4;0lbm
syi4D`h#q-4Ab_{}#AP#ko>etxfHKTx{wknm-;qV_uxa#gcI(+W$ce;ftWE}?WON&F_OugFN;TZ+Ci0
|_Hr=d$`Cg5Y!{BN3645C0aWCEOoBOi4ce@b>wOKmJ1*$%0<Mqa2h%eiG6!7W@RU0ZzwDBpJP_t#K)i
MDV5X7KA}*Kb2Nj40K>WYAl4yeH$H1P5K@XHxJOQUBOFC0iOgcJi2IvesO9Waqk$rA}fR|(0xAMjo!7
B;d&SF5%rP<G5{it0eR3R5J$efF$2iGp6zCfr|yq9sgkC;9)~86n#nYp#U?R+!52b$Wc&_4q!4!(_5A
U27FV7BX$ek9qh_kwzvA!GPPOfN{MB?Lnt43ezKb6ZO2c{SI18sM*H?Gt;a46zd0COWR_`7Vs8t04Ot
Y`J^H<`mcrhjJ>fuSfAnlX-4}+`M5W!h=qdLY<bMIfs+bJFn>3Nx4N%DyUbu+uPQ7;L)x7q~`o|0_^>
#GY_ez&gvW$O!lclFOJFMOpn=ee<YblLBHvm-Az$b*M^7-|hR*EVuH!KqAmeN)~wnEKbV6yu1BHv>$&
n!+7UH^MqPz<5cI^;Hk_R+%U}L3O*rDOcLDtn2b|!pO0kuZH&y+@z75hsCdq^0&_AsbDY6(xY5|U_#t
pwZVx6zWJ6_7BlcG9eRa=c@+%5ibU!kIRaB>qHmy_ekt;0{HDygzGYIZ3HfYI$)>S~&;y;k8PGfM34Y
PZBi9w?PpB!F*SWmN_$ibhG++igPz@CDI0HYU0Zw{{Fd_xiP~#)faKx#+8$>n%8>g$HYxx3BL)R!v5P
G_unWmCt@A^SDbqEGs&C}n}i@D4+O{aRVZ0v5gTu_gm02I6$)Vl)^2nnPHyxzXZTUu)H8b0JW!+GecL
tW(gqo8Sd*9DFkj9o2vavJ{8%d}{(`K_DL)(p?Y@D-iZxy0DWd;A8&MsKUpd^vZ+Wk;ZoH6{6}dPp|*
6ipif9Z$}pBeu|3NH^94jRlPU9rj3VztDfnFK1t8J799P{9C^nEatix6CLp(tM9QW5nCcn4^Gx7TN^u
Ri;Tb#gj1moJG?_Sjq_aQIJWm3&&c`Z1+{gi)UXR5;eSZzdOIa&en*cm-LWGBI}YK22aW&+KL=or9X`
^;JI)?^em6XNyx@l5Be>q1VjMqlTwq63FN)~-iLcM}d;&I_?_udio3)*7a?{4{4{?G`J|Xz-?-<1I#~
#;Nsl+p_y-K`ju@9(S#P4)?B*o~B4K;jhxVVep3L;mX15oV98_n0(_q6TbRyDl>+Q(V$N}-@n#9sZX(
tc3RH*ae9#v(2x#HleQSOW~>&ETjVka87yS5xzng3-M+c?OjYbDNEnD>8kHnoQPorsR8pB@%_NEx=|p
$Qy#nW%!B$+4v|SSheF7+VEjqxb9UVM@x4DkJl^8_Ow5&$@1by>awH=gWBvzsm(^ovYGz;<d>;yr<Ve
4(B?BzrG0uCJssC6tbMNYm4f7%XP2|FUaM0)Ucnp{-J#w?ZR1je?tBx}6MJd8=O8lgE-MyRh5QB$>#B
oT_~ViKcFaUwX2`}PTN<*|mG+5y$0nQwZQXZof)=3v4^T@31QY-O00;o{l@>>D767gG0RR9w3IG5r00
01RX>c!Jc4cm4Z*nhWX>)XJX<{#5Vqs%zaBp&SFLQZwV{dL|X=g5DW@qhH%Z{5s5WLS<jFf9)q}+4LD
N+uRHaS@q8lZvJ;%PKJY>X`D+tWPOARcSjW0Z^K>F(;9Di`=z65}N-9i(_UsSo-q*%Y(N8INRjf(~L&
4uKC^KhYU9rP}AfpyTGm-Wkktuc`8VOP0j_66wbdOE1`;In>%nB_*fvTo!N!>(OQnM3a0t{bC%Nr~v+
`EqU!pRz;vIhNQnqQERmN=zytmF@y!h?M3-?Pz|X}=`T6}AFIT8(;q8#0p~)l3XDcIIVtwWLthhqVf@
8%l~;zl1GQ?n3K{zo9NMqJH9?V&QPtewV9gnBO7<nPR>rQ8VYoFML0S8p?6s`J7jP`YA?M`$O_hc51E
4u=0g11hDFQ|hpGp%yn+&)m+{HG*qm7Fyfq}a(tm3aG!n80McVb8Qfq%!2=10AgD|PJBn@bW;Z#X~kd
EQ=kbnMuy_rQ&*;>DTn0pXz^p`FRJelG93gm+0-Tb~M&;(8L+MrK$4))kg@y*6ipp1Q(J6!GVOQ`Ibw
@&a?a-v(PjgDKk(>yEt(KXPoqKYF6ab`Gd<^6%9){b6%lcJ#-L!cszSxVa8ka&m2Yi;Ekviw>@07Xmq
;rlB0W*u5&(jr<?YcSMu;5~fc6`G1pp-em3uD<2uR&!!!w?9u)gP)h>@6aWAK2mtey7Do|3NFeAQ002
&D001fg003}la4%nWWo~3|axY|Qb98KJVlQ7}VPk7>Z*p`mb9r-PZ*FF3XD)Dg-97zx+cuKF`>()C$s
?6WbmF+aoLjfgv7Oe}B=)o1G<&vJp(w~=Op#iG^vCvkfBVf001_ZU+u3&Sht+#+BoY`5fcc&Q+-IX_B
Nk<|IKA9vWicPU#wTn2wLaU+R(E-PxhR;wH((ntUT(0{1!u>1#Ue}DIGYzYVb0mxtW0NN5oc)toyMHA
cZYiiAI1kkaa*u3ow2>652q)GZ+<yFIvL|bXt&nu^>(9(3&Dy^f%F6*lFsAHGAD2>PUl&^l%S#g+FHC
^WqE<<@<`}kS@kXF`kS~DYx6u?!pmS477M1Huflv5=R;^2Cir}<$nUn-7<?+whyXMbJYVCt5nmPTkX{
|+d6rvk_o(eLwPm5O`>w4`CSj6HCTxeDQ7`Y37ZcfLvY5={gs0(>d&Abt>o9je73Sk*c*PNj6B5p?`F
nzmMDwZrAPEaxa_brG&E%Tr0`|dtBccUgavLnozM3UGy?~XN@j07_aLy-s-F^JuK(1!B1^CH%QRXSL+
tFLK8AoGdBa9xjn?NCR-1~sv@~AArX~Jd0$??h2e;w?dPTuT}4`4?WSp+}~h`!&z&IU0UtnoxBNc{$U
7KJIBa>kdd;*P=aVSagi_TqvqfFh=xrz~28=_Q{LCn(;Dg@RS41Or$Arjf_|8omRIAtG#*XP0@nWQd@
15)GtbPOvM{&CCacaUtLV_GLRetd|x&LZG*bre&PWdca&Zz_Zco?TaAEZg}nw+^g0ekQVVv7N@?|cBm
K)5b3kyz4edd{|H`oqI7<~iq6lkT`0YL@u%a|#BKNe{?_KbxY2^0pNGrY)}|B5&3`45l6_*K8IiEj0|
B$LISNYV_r|~oE1+mm^oC6RO0p<SdV`u<<UDEgSfJ#%7n$DsY*r>*0Kj=VFu)j$cbb=yJk{^FA@B-Fz
vI82{&e(V^5&Prcl)petqDMrXnu){GK1Hu7fA}9iZbWbTRqpyB%1<TRL|GceA29_AJ!<6_z!}di>%B+
(P*hXkJA~*XWeWXMpyV8gkf|QUUJ+m5^0l3kc(9k7rqyGL-uk2OkMSwNGQ-)e({@N26a<F4Hp^#%f<o
z<9i@Sq?`<(g;#e71?Z2W>NjL|OAv&x#loxF-^8Hbbn74#6H&lQEd2rMBw_E_WW4v&!TW=8fNM2h`C?
#FhP7vQM<g^U?}^yFRVL!w$tnjGbPKDaelIdmLk%*qh84W<B^c-vr%_VQIClR{<Pnhj@9T%^+2D~dP-
B^JKxls9Q85h#|9w3GFxEb3Y9pEj0#qR3iK)ATlkmpW?Le!OkGm(6lY`@T&@|^klr2}tJGpoMn}7DV-
!7j0FgX7mN0S76y8_`ckpwGz30sSX7IkYnR$IKl9fT=>vh_U$!dz4JsKPmj3%(RaQ>iU0g=O~vp#XTR
Wl_Tzu=Ep!745owgxjv)TH-{%2eDb<U{e6VhCNbJLW9j#*lWnH!=xmdQhn{N_Oi%6z8Z0;U^wWlHKKY
br&u&0C@kchRkNHgvup0yi8ZCV)9i-HjRw=1k)Q=Id5j8OFrb4t1*H!YLxqlfi|i@;y4JR}0rjkEs5@
*HM}==~yy`J9NS%l<=fE2gP%jwJ(IT6EX{?jfbxgkvF7vEh`7Z~}^`~}#V1-3{xs~LvTAX2@i#11+#%
M1Lq@6_JoN0@?I=8iA+d!04zgiN#-!OW=$*fu?AZC5`_VCmD12zM@7rl$*j=^T3{im#9w%|EPp|}uCd
Mcpiz-~ZQlYo3m3+czqcoD`4!pr7tPuhS(Rtj#ynxMDCkSO5Ug5Rpgs7NOt4^GC1M;~Cjj1Ga+PNbKN
Mw9VRM<=It)3fbYjy97IN0a>{Y-+qh)AhOaU<13J9Kcc-hI0zjtxRR920%(4d^*^Bpe<U?ld1!FhHnp
l#BD+${2@#E+T@q<!HG7U=!te9%Bd*G4I-~#D0z+^D3Sml@lf&`s6gb(&)D!Yx_h+oU}s-}_+?3a#o2
EHlvPkHpxy6MheAgs0dlY!R+;2%NsDAnAmnAZVxQ}gKL?V659jz6ykQ`KG;@Ife0iwsd%^>Zf8`nk8v
C_JaqokiYjACisnd9?UpIJ`Ck7DMNS<EDd6qhX)UO*rI+@;h*~y~P^Q$y!!GTFh`W4_|f%l2ufzxr->
AUtO<=ZQMN9wL_8{i{Dufb14(A030u(54sXiTEK2L6DGGX_3`<`;kqjkRW*2t>`=m@z0hCt?5F@7gxN
S4djO50+vunpum4uZFA<KJc}YXwSd0u9T=Hlv;j+CJ1H!p~aOJO@mLutl3{qwM0Y8P_t^5dU0B^!en>
FKeRp;@c;m|pi=x!sHN3@`_Jd8PHuAW(H~*~wOop1h@SX7EE64i(L`!HuWD~<4ErQ=R99`qBMDGLBrD
UJZ=!CS`X=6LOanjMWHh}sVjvbK_*-tU5)v4t@O#qLKv|EX9vn<0ZAG344&70rnP<RB!q};L@FsOxo~
-OvS!*{7P|o2rD+}gjVuLS<c=H$>E8(#p9LtC?fO^!9S?nGk@9&=O_6Df9d;i-r$wg1zNh<oKA#gidR
ttg6!6ldGLr=|2#k+Liju4-P`AwV}$j@__(@mCN!3=DXp!ebJ$?p4uUyn|H?pYLHb!=JX?#bOZLH8tG
6NPnzdA^IMd6?f}=s{xvPoK_$r?Vb=+5*!2G%c&M?Tw3i&D!X@(6-Taqp3qInhRtAR0n5$9h{ZYXorZ
rGFHgFWFdR6T8~6=mvC|vlv%M$20zRJR)UmF7^i4aAjowoXjfq@b%VqYtO>G4!ju3=OBh@e0}e7g1{u
gZ357J6I6$9a@Uld^6>VA_r7UGjQK0V(25iVueq+G1t(QJK;g?|Kff>a440@8Ffr%p8dZNt7;F^e+aT
21z3-f{=Lj{1$vn-jZ<)BCwEs7Y(u_oHnnB=#%L*Dbx!qGo=NB@1H{(Uj}&&kE}!MS+01ONHKvw@;;i
p2n&mn|51@BGQR@1H?$fN`PzB|y&x=gs~b&i=o3bpPGp+sEj1@H}|^E6s}f0X-qRRi;CNY{gT9-gqjr
Iy)X^bwJ#444jLdo+#nVWms@7qHx7~6eyb4C?w#yA`Wwk645W;FdXm!nU?s%vJmh|Ai(q~1R~~peUAj
AdY;ECe?S`Qp#Z@WeG+4n1Ja*9!m;Gjvf<JKm!T5Z+Iz@0Y<CvlUTaLOH+}Z`$rF#<H$b=GIk3!Ue1N
+9%9diqawP#NP3?Qo6|{*NZBhvKo>0ITd$i@A+Rn3-tiwkLN-I;+oL8KJ)z=Q2skF&QlogH4i9LVda1
1*dlXo^WFmBHOi6d&~o=5|bR?@SqiXq^1c)rRK=|Q7wMUBi@ND_;}SBt2u`%2$`tlANagv<kv)??C&(
NP&Kr31`sf+R+X1-_XAF~tTmkk8lPyc13c3N45NjR^&+SOBeEE?6C-Ro%xc9>uVbQK-B^DGrN_$q1l?
Qq7m_7>X&NrUToZU-MLfipjY&nt(`_Vw;Q=jaH~|3Y3wCFJ}{T#e8q??YrF{$GBVX_N%XZ$H(%!TE3e
F%4iTIe${!vzGp8CivqY>o5M1sShsY00~N8iLPJX(8CTLc5IoF*+oko3^23z1_S+`EEv5fmG=!@Dq^5
Le6YCr^**ZMje2ESKPIu;nOfA55!njM3`--?-{Gj2e1?gf(u+vZn!)AvJT_OJW67(|55k+Sgjl9gHbd
THR%-2H$8^(py!pI@pY#t^FB}ydqQfIUh?pp;jC~&cM4?ZnA?O5D7^Rc0&Uy!E<n5gSC2eHf9tL+QtN
RG&HV-{F+;CfByOOf*Y5!;C$dw)8hb_q)ZrHZ_&;V%ZR^?g|G-ZMwE{SjX`h;Uv|?u&TvYzZ5UNxBPX
Th0Hn?e<dcpFhATBO&lyg6rCJr9r7p_u5#}rHZw<THe3Lof@_|9n!XK5oC?@IL)g+ZTy{v%H!wa2HM%
Y;tG}eAZ~L|mj3*c42hqInDW8Ss81A(d)w-u4QhmYMYs8Jtl1-MGq4x3%Tm+|9aJ$GEolVK4i7E^)|1
M4=gB(wWa}&C#eeGn^raL9o8{RG#W46y0OE$~OgwnZ!=%;a5xacf?)E8MzG7lk=5Ypd5G%0iL>(zavs
x{mGddazbPq#7)W04gu!dkI{H`u6<6Dm$RwXZ@ObVe*GnMSGy-aQWiJ)A~z;_`TXob=6rSig^^-+H9c
%R4~I1p8bWzxXX?rET%+3uWpBMRj%o>1U=Rf=~Jim(9r4aOpvUEwsIC*h@)-BqEPS)5N4p?mVt=&5)r
Joc3Ntvt?<f*l%~EC1UGwHeQ=C!_1bd`}eM15Ulcun7jHpr`0n@sBu-p(BP2{bpt+F2Ej+{~`B#NtGq
&d4{VM&^nN3A)}JVN8`g!I3=XCppGjfSvaGvL~Ka{#<U(@4x)ElMY$XVK+P-}-;CGjFDiO0*HV=M9+4
DBl#Qibic8d?aSD7F*9Be@MRH!YjVdqn(b-ecgMHK^nT(|A1LJ&H#ew7X8q6dI#Q#5MJ?1|Z1B6D(g4
)+48phz$D6D<xFz8;$)tyeW%fWO3pB*q<+`E+IXi*SCH*W?O@M9MU`tyJNLhG^q{}=iwWxI!;hAK0Ne
&7w*!<Qs;sO}XvA&Ju~j>R<~7i;<V-lUE`8;$U(;HoQv$~n&Znrk>}L1eYlkWIlMyjk$H-ed)eqJ3&G
a!tXwN-6yX(l+N&k?D|LxAdb#2Y8U<pLS0U_C2X~@X?$4nI#a?Ed66b;lpVy2n4uB(@?~bo?C@@thAQ
G@9@q3!T6NWYl}0Z;hVz`?zR|KceFqJu=nnl{e$DbHk!v)@seyiKB7imu)3Rh#`A+u2kHgC<>m_|+Ua
Fi%HGC(|M0{!b7+q(YNaCYRXI&yC3lYx1^kwK*5uLEz0qqeIsP4@*N+X$Qgu%|`rMZ<7)5`r(C_mB!{
GCIs*C~ft@ykRVEydb1?$sGHxPKgeqLpNWS|Da6?XI%gSV?Hdh6R+%&ed`wy>K*<EvWMVx^Iu<DV6Lb
^2Bvk;_N;PDlieNE2pX?O1BtR>!I7#dprkJ-cdvI(&p9y|~8!btujI4A5EyKf?UHFI7qJ(+JHpLnt^c
)Z;xP-`8HN8j97?VPMuRZQ*H4M3<eZdSWSOwE&eh**s;?Ucpd?A5G~Z6&!XFBx!0JQjISImLkgwKJ$&
TQeAmBFo&;CPCR;WsiW<o`|S4i7UUGitpjiFCQLD4E3iT=qDZ!hVTF_wfTB@v+r&@TYwS2{1PtLlR27
RmC^8(=S%TWdSr`)vD+@v`s*>%WKg*w=KclcTtVvy9K(PUo<tT7KnP0~<J|oF|6DNtaAMWY|s+%nH9K
)VEzimtF?pj(o&6c~?U3TN3Y1N0yY24*8&3*8tSM(=s1_=hckW86+|HMXE>!xPbBp->JMr)u#^(}!$i
)U740N7vA_D{1)1B;;^Bs6t5>R&+2I_0Hp8I_~}vzA{Yb99pc^#I%Ymo&ab;~J*D<Y6i>Wdeg#5g4Ne
w>n_f_8q^~;C_wMS#~4n+{gPcVn<^jRu2<`%Q9LpvBZ8@vs)+>Xwt43BRk_<$;1&d(Iev<vW_sxvMb!
qawW+wjA}Sl#jte}uAWne;i3;m7zLG;3Nec;TZT=e1XCF}Qe=I=qAE1bXH1n+2+~wC^M&hVRCAIuv4D
qnNT!SMntyA6f?3T&EZCE7Oqg?3rwJXx+<;H^+A<Tg;dE>xtqL<GC_Ld(7I7jrl)n%-Cv)a0X(<h9Do
X8WXv{*kHtJZrVBb|I;u?nfgB>Pf0jkGs-#^?r&1PAvv$JT|4GN1}9<e0IZFSQ}tVezBLPKvD4ESl8f
HsgSAa<e3m-U0%Mv->mF8J;-c(^Xxuy6GQm3BuOXj;ny%&CDC(gH;Uk44Gz>PT?2ATlj5lbVT*W;tZj
0XE?eT;N<Kd^Mo^fZ*xdqCm;w=}J5*X`rH!DNnK+DOzy$Qk7U73aWWtrt(ArCHhF>lvKIXJf8~9jlNR
r#KlPW56p>~1@qs-<Tiq>=G3e;uW%<qvdRjr_4nkVAy0?*O(^%lSKYeFv~3A@1F(H;cRK@ZJXM`uW1)
q7iOx@kMpif#SppO-)jkH*3k-sA^gC0I2c;{SFX2exoZLxYw-pYeQ+7r~hq0fs8&r@(HY>3>-rPPekZ
OjcbNOwErx%83r7r38H?U4#rqUXOwN6K7+z|Du0gCh+>ijunKZ<5dNo}2dIuJF9>CO<1H#{0ufa%^a{
5ajq=w>E;Abm2{<z=>x6x+S&41)QXGGAF?9HfNJ>)Lu}GK?nkmmM6yk%R76v|(&3uF;KDoQm8@f8vr=
OYDH80wi_ZCt$lmfTdwP!f_Nlq8bO7Y6!vuL)RKdO}9a-muk>(L1h(d7oRj?bn;#MYze)y1w^wl){~X
74dHXe^OPrA!AjVr^w&X+;_QE>7TQK({_9{fcx5BI48LT#0Rv+iHsGK-Oo}IV+NEMPgzwmE7h!;zs!Y
>Qz?LvC&R)I<Hirxh_~;73jIcU}c4-vD{PQepmud8M;8#`yVTp~Z2BMBKLx}XSRHa9E*rC0{eRhh*cU
{~>0cWBi6c%(IL0OGx76YcQR9?pcO6r-Am1&HN0LH8oVH6rcDbpTb9b=FR*r;bh*`N!ZTAhqVU}?FWf
=LfU%y<sN&Wt>%T@wbYeGjA+#*v_1xk84!;Yrd)R)35VEU?$=A9d)wqbx<*Gdng<;PHujTf@HLsREDa
;#@pGzj=Nxa6AV8GZKam_Se+J&i=;Ei;HKEfYHJf<C2y=ho7!|`fj2P7S#Wg)B(cC<C%0Fa6aITM+Mf
>No<LPT-2VLRZG<#y9oNj(dogqBx_k)7ouz|a&R;v*x>0M+g+`wJQ0}i6O!~dP6^*ft{`6qx(L*}VWQ
G5bX+t{FU#-}4~oV@*|IarpgACs{|GFPt}#f@Hri+l?VjxYBx&g}MP4K%tRgJ~KnFqn+cH~c@2}%Hv&
TQnbtVk??{n;fMN$B$vr9LlImqb{1CSmtO=i$AR%wS=)rAV6<~hu$>55nzib`3~ao0-FYayPp@&3<}Z
dE-dc-O*JG1x~e%rMU~1h&QkbLu(;e@5~?0>Klr61JO5$ZeU2v4bG`PUXd=)<wV(nq)HOBvl$NfT*;R
3?Kzr?vgLlSZ1b_S)4OtX}7l3I#e&Qc-M)))a514Pv&o_Bd(-c#M<r#p`s#-4oIYh@3OKA1b)I30*_e
}We?aCPbZxWMsienFBQql(%f2C0OkAV<L3kDCi}O$K3uemA2GYSzjRlDGR<;%PlgX&@2T_rLsCty;-4
nk6u7UEZ}|CRGL9DEtL2>8t7Rdeyc@&Di~o5tc%;n3&jUhCUae$Q2Vct@EzW8z&8l>}t!^KnOP$XA7J
XAWoOv=;W%Lr!of)u#t*$V+gz8HA$>cYsqfx*lypHfni9<P&I&iMD<G}a?t$8t+Kk!sg`rz+n4A4=O0
=2c8)syYY2y`_!QXR^rawWvn!Fwt4W`IRJkJVX)jzIotEpO4YjMIby$Y>V<q%szZs>ev+nTmNFHKH3a
sUc~Ex!V@CorV5L0K?v`;z-6%WR6lI31(Jx-xjJu?T=}-Xjz>;Ua(VwJs3-o?A4y5H;`f@Oz>>R<wAM
kVN{s6+Uc=jDjexjXl-~j{+98}fGGO#L`7X&<HrI^LRVp4#8H`qIZlQyIl}yjkNp51Jj_e!f{lMXBtV
NWpW)Sg1F2?kkauxf-qHwHwzJzFLvo`YN0Xh58c}|rB37CIsQ4zqF-Gw>uea<cVX|6;%>SWcKas&eu^
4RxTO(1Xo27mc=ke|6o8XoCduwyF6>R8?j7;HRhOx>vr^sj(65#)j=q4}bZ*5M&%Fumau5=X`?CMp>Z
eMRrw!p7GObedimxK3Po2Ns@i)dhiibE%)Ls*))T$)W^Z2)9Ii%P8o8!=6wNQ6T>R$<h`s6fG6yd8y#
"%text.

(** Lines 6315 to 6464. *)
Definition DATA_41 : text := "v@ifCOC+lR_E7T{>@^h+%g%ysj;f$~tx^{=;+z)NiE)v}b31a2RAN$Jt&~*$XNUC|E`x8Jf^OVcLKk1
@%Rj0{b8NT6MlYS`pUo*$@4vVJ_XfQoi)+A`W^3Go5<kaNO$vkUFV(eeCNi=cED4c`=S0e@$jEbcjph
E|(-{e;?(3RsbC>>7MMlwDM@vUnF=kjzOoGRZ9rW3!PoK<#?@jsf1N(4_q((H3Fn5s=hXw$h1{Li6*6
S;5a(ui;Ob|SbIvCh_OO&IU!xD2)?AKYDlf1w@F7?QSOrS3^Q4F=aJJh0RSosEKh)$2C!|H|*$FXUDB
LbtsTHd;cS2E@xiUF?b?PCx=0-t7?VR1QoGu~f68iRZ!xu1urK<`Ku#xoyzp?8d+afvX5FBYnjM$Umy
q{O=-u==dzx?w}t6H?#mW@t2dlZV?8xREz7$c2tZY=3h>v2+r#J(DVS3%rR&(AhE)`|Csi07e1#bRoe
i&oJ=-lO2r=0P(BWTMZ&;(V8SBHa^}xkp%NYlVDiysTj!$U0-j!LO@qzv}Xg_AQQ%H;<+XhOo4t6Exz
e(8yweX<1z(u_y&8ArCMPd7E@Lm)>CSy*Wg(KkMHsB0f{e0ck6KnAk1G?^m?|jePO2L=<u9AB?@F#rM
%_9Bh_uB_ZW6o`pR{6gtZczawSmpSyN@wD=)z=nsWJmYqR&4=CV6hU18u@^;dGN(8|VGfPx0BidVaVZ
b_ig-KBj?MZFQ~l`&#6$$8_Hy?1s#3of1;-l+6Kv8gKTvv5%4vTTZEy}jDG?8dltuSVb4W>U~)&Q@g(
LYfQApLwwJq0F|BK};DNihoz;73RwfC{=BP$5zl{g*9o{l%OHrdcV7OH2yT%KRAAO^w;+XA5JHyyC**
$kQ5iZFaQ-<AT4Xm)hPQr!%Rs$jgz>z12Uv+4r%Nq<`G0lN#ZEPD2tsMu3|ERU1q8dN$mp(NGxGTUsY
x;Z}eGh*|`hnT6jeBOI2Rm@;~am4Wny1bEq22phOpJ&&~tc1+o&Y-Q*^`6POD}v$oKOkR&yz^FTW5sp
dayfT&M&&p7CkB`wihoz+q<${co$!b9kzNVOf<&Nu)!h>)h)80SasBAtMp@K9ET;XbdZ=!otwm}L=_6
7g9B5X@LPg)UO`u{x3bPSsz!DD$j|54QP{V`vE|GEBouo<E|}caAy{PltHxV;Xo}-SD!$2jn;A`E?A+
M!ox}=18;hoLO6S-olkR_*I8DL$s0c<Qj1<n`XB|`!KUndgzMl@kMwI=1SfUz_hB5zw*WgJ7Si5-(B&
$?~f_XQ2Ziz{xKHuG~sF;zFWuF=i-_BP6qn}z@!)cy&pXLVes9$`h`)LK$b~5j=lqpf*;b6c?zN=6Wn
nU^>NWVi^RRalbPT;nrEg)>6)G<fWBPb&b_O5%Hn&(N^;b8ljWo^sS&gKx%%A8qqXXSmzlWjwX(auZ!
E%dT!aDD!eGQV@SG_mnLMC$jyo=6#boutN@qO*M!K7MRq~PBLP~}ND2|#sAgN<{X7ah+%7uY)1vvU1Y
;%O7sDY8d;y@rXsvXoacU0W1+7Z(}x;v_~XP)lxU@BhFj&{}tG_`2Gk908e{*`tdhsHfpQBZV3fk5l5
kB)su9nnwS*D6TIi%jXoVBi=IolKCSvH@BpFFRRIO_-XRcUS8VnK%jsycz_}db-Ma6?LVcA6mvPkTRO
`2&j1LOY(TQi0apX2c%y;3>}~Xw6BC~dh?G&`|HQ4iQX|**IfYecw&8&#_!T0y?wgp_6lz{)`P0sPgU
$k>^#lM+@~MICV|p?D|B%?al##SESMjYm+;8;$mnLAo0T$@4;GCy)l8eThV*J<geEM7&++6JUYk>2m{
XNFHR7fYK-ghx(*)*XJ`8g#!&`wT7D0Y*JbU(P<H2oH`+Lt~QTmAj3deht$ic6ZDz@MvjXpb$K@o=1a
HqA>CG*F}dmW*=x-<Tr7P&txYF^X#N9HPt`YXuO?yDBb@-aL7RU=$r<R+}YR-!W$I$_f)x7L^Tfq_)0
+hyYdiyvoU5gLDE0q^Yx+tIHtO&#E#@e~Z@9B(5~!W+BkD-ujqjGhsKK(2UUuLF(kdr!qSqvQRAfMKD
j_vgh^K|u)7qh<ys)!BQ@o)}4){TS>j(6eYXnMsH0sw#Ogby}ZNQez#fINo+OoSpU=SdHbmW3}RqE{)
x=I_{}_ka>h#omr`&I1ka7VAO4V#twSN^3U2B=UX1?QQa2ix$n%yKM$h+Dg+6(39a>HqJ*1T`L+K8P)
h>@6aWAK2mtey7Du5&I9p>`007fz0RSif003}la4%nWWo~3|axY|Qb98KJVlQ7}VPk7>Z*p`mbYXI4X
>4UKaCzOmeS6zBvN-y`KLuAlIhGPxYdJ4Xee2%iBu?t5j-AJLHtD9hDkae}H!`V1QgPhf{qA?(0OF05
oV4fO^V4o)i3A1%U@({&3}!aBzx}hZ8C7v{na-2J;&x;6kAe6+U)&by?5c{o&wJ7C&dzRh92aHuYFSo
sGEU~v4|DkaUo-W4Fin1hdI$4)MD@z3NXn%6oJ<EBoABaIQe3BHndVs(rDYUdB}Fp6jb=rhRmrp;MVC
dAL{WYjO|If%mcWxLkD@rcjTT8!<{7}q$5otWX*P@ED4GC<SUjq(0A872RyT2xV2x=Mmt{UlV*ngY^U
3l$$*Q<Y2?mZ6G~cbRpls({s&#tOUNlYOIbfI}Tqtp_;YK%Ub(JqGfB`+Ligbby`&f1|UrrG#RV13H*
D1FsU}Q+Jg=Lxa0S2PqkFN7+dWnA%>hfYao~PwiKbof4!gyK1!xA4(k__r$=l+@(QJKu=3?s$P@F*DA
_IVhvxdo1U70Do$+{>G*{2FTjjJkt3E0@b60|a2)sN59(D|3JbIQ%1-RQ!~hy3FVE{04eWcx2NQdt2_
&Twg$ec$|MusFzGeQI=QG3&sm)j4@-1kay)(4CE7y5icH9Km?`&pGse`^UE>NTvnwpQH#8wc5w(0E!7
*Qxr?6;qw~|37w-<v4x^*<=*`*b-;Q1!zKA*p=Mg;U^rLr27eAf8y@;U5*}=)hFVX4C=-}j+DEj&6<O
R;t;rlmdhv(<f=~;C2`pxmt;fsEBbn^W8?Te$6S5fo~>YkilM8`+3k1hc6#c4#%3cRDkbASObqt}OL&
wqj^2hWa<k1l?JF@1S-ae|QH8vu_EqUg=R*~QWGx5o$YGkWv(?9J)<A-p(w0WeNZPmWGro<XCBuMbZy
27v!b1W%*r@Ne)tI{)e5_?X*{4&Fki&HysNeSZ4pm$Rc+KV1NfpH7co9OCn5hk)?Gv*SZ<n>zgb_~7V
uKYDTS`ry?e*F6PjfC?66qyfgepAPvcG=BgX96Y}`Iz6E-K0iIVID_AP7=^Qo8p6Ay^F!$G!P(I{pbs
!!o}EHVIP6dj2lfQ(o*XhLoDzHLpa}kcdyZdmJPCsrhX=<1?;NX}#c}R03n1{(=yF*ti)1v4(rcuYXi
=nD1y3_tyBiywPUkF%rx6uL%DgGkDnTL#jtV4RT*p-u7n7^>b5ahl_{PR)^cj{CR0pv8QRhF-lFupr{
1131ZzBA_yPd)JgPji4h?l?@3aEfjH6Q(TxwDfzLSEYScxex-O@V`9C93uxFW}c6u;SrxduMlh_i;4*
Ztv0V-p(+3umcP_>b@+}egw~7CSxkri~a+lOg@+Cl)xaAqv@WpT|`fxK7RVd0{WPN{yn;ej&H-Dz-pQ
&*W+a|6L>`etG(pz(|+(dk51C$I=M}XK7N}!{p&|(DRT8`bdlcxAIqi#7_3cmzd51_D$R#7XXS0FzUK
NHG+L?eNl|3E`cb9VNnNN|PINJ3Me2KzY;07;?cN5Ctvs6*3t+%E(~acIBw18~(P2^K1($;Y&|@e8|D
NO-fPfvT9F(`$^ECSu!L+|ivuS=)BAEf70xEhk*olfbErD^J<P|`KflP3}Bd{A%b;K<q;p|7<gGx9*m
Fb5n_G;ueRipGG>JA?cAN61#0**OOxNTse%p51cN0S1WI-mm_H@eE_Q`!X>(0TH_NPx!9Z?DHW>^R4O
+M6Q%43siUuuuGrO8b~U0Mt!X`aLy}C-HS+4C4YeXB;|Ob3%z~4({Vxna_!|K6EbP;w8KUE{$K0vdbL
5rsYU#$qRzr`M9wG-2`G8sO6bLg%3L)qaUJ&)<lm+<7GOpQe41s8Oe`w1IRY93hFl-qkNIz<ftbD`b~
od`&1Hb;qNWnK?P?ju<;GT7z=f{v(jEyeha9Rx5tQk=hvN16#8rub!1E2Wnq=ZlPW1To*kb)|M~pr?}
t$J@o+a#X`W=W>I!$>MUhVu*vUZz8qf2|r*h-$@cHT43#nd%x(}Sjt6e0MyqK07uTI{MVDCA4PRJr(D
Wb^0c@sF&ES*HNY)NB-5)z0Xut^@hcPsw-Wd}YTv)Upr(=TSljpM_UR~J8xP7YopmcyMLuZ!35m-Kph
Z6F(y0GR<vtLm@^{d|Y&xNOYoAYHsXdXE4eKVDfK=V?(Sm(Y<*V6)Q=80c3Qzq~o5o`<Fvh1J<|j=LG
)y>Vcc572{C{P^T&U3wUVPOPsBOCp^nYBl#Z&VPBW>+J^XmBM5Qz{c~R&UE>Q!Sb3gqjHf<Q1qL^zB@
^PPHPk&1*;NCy47AB)h#{_R-2|km{nffZoE8td8!LP@e89;ahba<pfsdweHW?)i@Qo^%Y0e#XyXdN8l
&UWlUG8O<IZu%r~)O3gy(rSBPueh2qlg?KQ~pO!B$nyLEJp&HqJX1Vya5H0I?(y<lg`ELU-p&aKvaO4
u;zxj0~gXO9lHpY(7^YU;#gQ|LRy*pRKMwo9AN~OR0Q*dW_QJ$i(4&$E<vw1JMHib(`IIdwy|nHUcU4
^}z+ya~G-6?(qAkPoplekDkbW#FKR0VF+tAR#M^3!TY*`&o$j{b{Fv%-Pnu6mj`c;FY5Yr>)*bW&^G&
rY$qVUBdqFn0dhoj1ro9XUoICU#qDjJzkTxtbb!MbBb={ulxu|Z^rHj)P1s9+!yl(eSO_R2yi)s-T86
>mYPIzv;U)b@I76_wyVClRyO3I|@zUvS1ja&%UKPnwXo>))Z!*;Z@@&-c+J?q&yzbx{NT5CsYqwH+hE
1dcB5U3HoyQ`G0PIGk=uy!07g>LdP7Wejfg3~|i69rnO3EGZk~um&enHrD7IAfjk{$9Y^}S4gCu#2*#
ruvsI-O-Y#kVv5vqZ*7zv;^w_~CHHmzTiqVZz3@(bcrT{iaMR#tuiNMiCx&!)UrKn@yt`BiL}ZydHzZ
+9xYV4zpG8-VSS&-W!C(f=ek#y?y=c@T^AbpEN3+n1*OCx}4{6#Us_31fE?7p5Zv|0jBEr%=t~zKo2(
l{f!*y8EBAb3M2atlIV3lO}OLz=yN<@CNyOEq>AT*Z)xg$boBC=_QjoixQkL@&5CUy1WUsD<B~geNlP
lig1}s;;La1fAPXBJ0$@R4UtI8!U9c7}uoN&YF6CfYi#-NN;DcOvXctB)WMkvv{O!?;D54UNc1)>s6G
=D1x1g^jUy{j^tRNTXuXKgoK!sO+g}+_AmkL9tf-?F79&gVM4_;_IBD+*f3oXCNV2{3d`|j-M;!q)Am
1KjAQS|Wr;d9-zRg@7-{#qtzu`%krsu6)%2qH2o^5p_b)`;xvHXx#k)`-A7tUyHSoEnJiJPMBpG5{!P
AhNR?Mnn}g5ZM{7K!odj+tN+56m75R?_yH_dRU;a=j8x-C9d^uC##ToPJnZ=9)5W8{FKbB`@oy3%k8H
fLrFJYqSil4Dl+ZgmKB;xCOKN<yS;Dh>v;~i0h_v9&Ld?u{3hXPW13t7AJ4kL@L8|xM+)0MnzHhul-_
qbo#%N5TPN%j!urvs6qBaDU7__ni+RVY&@xUI`hlv-W*Quv0l`nYUNcmrNUCL#MdgP*M(1PnAnJ<7xs
51x%U%x@_mj8Bj66t>i2OQ8w;{@1;cnSTF9_+&G@EuwM`b*LRu<7;_M`3Lp5Fecdmr`|AFZAYrb$D81
^=|$fGuvsyazFMi`(i7PbcVwjU*j%pxA&r^i7V|g)$w36sB4&QP^^z_JN-&Yg-C5&;vnnp5F{q2TL?p
K_4eqMVDA%ukNe1_^A)tqhKfQ%6xR<a+0PbEYaCir-x@HogH}cw5KbIN$zjB!5TI>^&xv<bd<pcoKAl
tL4`_nJ1IXC=|$$GUW^K%9sLV?pW?DE;%t_5nUH{@hCR0%Km4#CJ$0Tv*az&V-SR^U<T(6jk!r^Chy$
46N!biUiT$U25pMTwEh;q8*0ic6RnL+;(WJ1UednQ45{u-&m#}@8N_ImSW0`s-^2>tFF9ixoGJ>rfp0
Thg%LLa(pHIeOd|4_fXt@CJ0;K!&{{1e)*dF$J+rxnt?WIx)A_caqFq@I|NaAKDKuGcgYReKd+Qr4~A
Uc4B9@7yf@4$!*%-uAd#1-ijfEDT!=>(-9fm5$9l;8AuV5IPq<xawNG)`yRpqQr`iy~Q|tRM%o16WSs
o=4r?$4}f|s|B+Y0qp<<MNgyq_aiCe5LroD#l4;Tc_+GOmgz@Xucw%!ET0~b8*)0Ix}h~W5BiI#nByY
Lq8~xmfBd8whk9+*E3ex@wFt!T8(bwO0iw!cG>iS)v0-gS@87?V-htGdUW525G_X|y6<)=k(|lRbQ8Y
~P42Jh}tz<Y*XksV%5*Qw%cPc0mh69h^@QKP`nJwbUr*7vMn2S8(2lEaMDzLE)Yy6QC;-ZLeyS*j`(K
v49Ak9Fgthze@JNi$c(1+iB*K<(&@kf(~m{pjMS{nrOk4ZeAj3!r~%H?(09WO5pP62O#&ha1+Pff0p2
^JE5ex2Y*!cdDI2P+s}UL)ZHy#fI%EVSreDz1wF7$U=?jppVm1<?$q!O-*4O9dpYqMMk^gL8OAb6Ubs
Cnc=e37XACC@_`$5~d$Y=(#RYhN<w-v3tJE=$P{)d4JKP5#W9bMhrilWzZI)uR$=9%Cs>}L02wd>B_;
9Y=fjSD|HSA6v_}p1q2^or8AI2p;xF|gLD<$BnBF|k*eW_Ep3?zE`YM`3_Y<~v??dF8S!F#fb-IID0c
Yh=`)~F!0y8yeE*2+-6`_$@e@^K`1r}*<Kgbd9@EcVS{biyWgKorsMP6H-)>z<IA7eN&<he(w=5>G8J
3k2EBEn;(%k(Px9T8)`7+r;q;>?gk&M(&fTI`x(WR=FmUQmfXV)8?PN0FbAhTixU+q~*b-n$4lYeplo
FW3cE(H_^!qi2vOl)od1BQI4m<&*3>JFdWAMWfvve^Oh%p8yJF73KhAF6$_o?>4~ry?fcqDjA>y?rT1
Swmp*5w=Lr`LL@GWv^q{ErH(mVR3xE&Zk`^+e=l3iws~~vplYDusf%7R^58M2v67(<aJPjJC!X4wp_F
Ul64kf!s42CYIsi9)tuDb`HMAk4tly+6N0+HABUnjGgt$yMx!c5!5emYdfn}c$*0c{U{mS|BkPKZN4?
p$-#k0kb;kCa7e{C6&D4JL{3rcpV!t_hd8*zlIz4zL*s)ziUPT>{rTbD3-;v(0>fPAyP|^PvnRigiuU
nHx3gWr(hU)0HzF2s?YQf`G3m&fok5@h(ubS|9)q=-q3m&H}c$^9zf4g`OcvL1H^hiOxFy5Sccx;GTs
Hmxn|Ae##ECAa+*(nX(RhigPI8;=-UEF-(|7$M#wq$8v`3KC?vJzoP>%E{Tqu;|v%`2F&fnV69UN0wN
C@JuK+<R&3wcq0h)+FKlpS14+FNQxpU&O`-@nQk1v5UZZUJ09X+QP950auo}nRPmYf8=S_#WFD7lX+Z
{s|2%vL*+zL5BswiScG;i8R#KG-x02T_@zSeiXkXaHGo%1mK30H)eb5+RtZ-UgFpx@x`Q>rJhWgfGvt
CeL8N{uC$Rv`=lM12I_Q+LF6j7koX%<XCv|0zJwb7u2HQAC@$q_H@N!TGB$>mM#NtAkAxQ(2?RoksQI
r~N%`^@8t=W@DO^UGGJno0ri|W<{YkY6&M}l<(bPy<r4;gB((>nsLRJ}Ifho>*^im$QLwEzy7U)BI_8
)(8bvK*Jme=k8&yCZCJ(?zfAY^vLF4%(dtTTP^7Lk7htgZ0T2$G<N@v1zZ!{TLnRH^<56WRCRNWpiSU
I=tMT<69nRF^fXy`D~gj?W!{<S!nwse2yxVMCDkjtk5P;PCMrDkFsClz%cgcOe6r}3EEU@L72Ya_A(l
w*?ctWmdX4Q6xsMXA@A?R5dVlxtAjlCfempFt>mYpvlpi)$G_MrJZy>b_T3r2jsC^Ip2MDcp?+MPy*+
te*ZcPeZ0MsYv|Ys|9>{icG$fvmo*kVWoc+>q6mdfDU;7M`i_{u7^lEU4o{>2_$93x-q7MG#$&+3^7?
XKkCNvU86Hu{!4zP^!ByRG+;SprdRVJ{mE(2AiSPg(BNP%FtS-;|ndV3l%OZDjMIlUz#8Xa|&WbXsLd
Kxd#(l$=2n<U8;|1_1?*kZ7XGRa-ue*ye>eyeI`Nirof<5m1QA%cY7l7*M?@5$c4OSBX^OmxenYTSU_
Js?p8se1N%x<CM9_`7RuGidA+bGBX?2O$jEax_k4Z;jDSb&pPC$_mz4ZGqq?`4S`*7z02hp>I{ZNaSE
MN~*~~8;xY_5fkJL#An#XN^28GMzfIl?Om2zpL&X}5`CrZk{0gJ6-$1svjd_EAM=bwwP`JZ5wJz2MDL
UOYA!SN#?yB3Q&+S3o53n<yO`hJ%NV3G%XX+bi*n!A{Vmsuc$krl0YXuRzFuh3F$rOsRLP{?6|WMfy2
rd5`op95rpUkCcIC0%ml{n~4bSt`)2?9;rC!sCA%6C0X6c~AnFwN5Tm-+`FOBBZSBH}c?lnI4dm)&JT
!QJV_db%=$1Y~DwA8yD2Q6fOQ+ngfq<8q^Ol@cOd&igQy;{09`#1kSPsiT-ChvFm!&<y2+IA2q4*3!_
7xpvP!feOaDyZXBXFrS&k4!O<_xSbUZWl(?hov+f9FQU~9vU1o2jron+3#H+kgwbXsuSbo`mIwl{(bi
=<_2p0;Zp-J?=UlKkLHx^LMEYmWhU2nstX7Vp8b9IMWUDtV0Guww?I7)0pfA;77TXSWtx6F=K2?bB*1
rNsX8nkKQ#E}Ml?<4vJV;iiy?FI4%K0ZogVGr8dZL}*MLCR5OEx$blQWB>PWe5@OCYtFWdY{7BDz}%M
QoGub1sWPv!U@-S7Lxix-D4j}I;mUj!W~8$a7MfY%4_NAI2;U7X(yf`!58_2KK$@!{VNkM9O#r=D~4l
Pjy3yKNqJ{eZ_`cmj_l2KZ06*X!A%H5!TWvh(ZC!|#6G9X|YZXSjp^b)p9b=m+GEzq9-6!|%T9SoT!C
;SE3xDsi^DodK|W_moWUi~IHW4}04WYdL>2I(zwi`2FMEsElt*JbAfZmK91=(b4(o_S2`2zuz9}L#mh
LfNmU!dwnu7<1^H>%mobkAr#4C9-}i4pQ)}Pjsvm1Bkv|Lt(EF%iv^7^RjM&+-w%y##GqZ;OUk}}>&z
Z*)erW?38uNhzd(ak?DEJ`H3ch1uM!iEJ(%WF9)0BiA!;#R?gb8?B{wYfn@FXs{@#i(jm>~`-Ll$|wZ
jOM`YE5w(1^(UUi70S6a~gzu~UO?=xofa_A$U^<-kFew_5qQLY*W{4W85RIPyD4-?iZ@Dz8M1F%g)8e
2x~e6gJ6A5N~hdVp^^szyPl{Pm#>BdS|`q5W`=Kpv(zTgmpPzmRH^0nk{%oVlC6tI3Mmtzup4G58n*W
*d>94K3tJ0sn7bb_u=j~8mdvLnBjfW@v;g4!dZR8empk?TAd4&oaX5ytw1-N#AT)KCXlI~K|c=w!fP=
DygA>;>5f(N<NQm_Gp^&?s58&=Puiiv^Fb%iOj;YX9FY-YO#=Dkkp@{q!s}=RX%HGFK>Bl@f+}BpqT_
oYzl@#A3ck4?{l<IIZz9o=`;()AF|3rvz-p7w!n6GROH%snhls-4`1IiXXSDO>Qa-%~0e>xE$ZZv{m+
<L1ZZIpwx1i`2RIx;EbA%_Q5UiA)v<cA`oB*(DeSP_9nwSz)Nc?ej3`5*Dw)QIilw?dDh|}N|{6pp^_
US+xiszNG^?Tf6M4j*M_K^3~!iuwoS+S^(NIIlL@F38ITz``kz(WlfB%csaUt2LxDf~ka(?{xZ9?v3i
7_{2-_F8)W#HK5%{h!ez8>=sKy6_u-3DOMtdbPHv+oU%LtQTnWsoiFi&jSHdM57xEDQvVxC`JY{VGz2
)dX#;XSK~8$^8Yi0b^{AslWM(ut7JY8tlBd+4%hP07GJakK1e1j;fGD?j&c_h-c&bNCdnre&fxj}j@{
~cQnfT$k*hFBAj&fjff)w~)PM3F9;ef3lWd00&^bEGX~y~EzUw2{;+$gF?OWoTJ&lf&p69V*%}i~A55
lU;1UyH4rJwnNd9K-!v5Lm9bC5u$?HKG%Yw(}O$#c#UOgAZ?Y%<ttsF?E4%r8yvsgP<Ck;fF(5#*rNG
{X=_f)nk$><NEqfG{Dj=j-9=%VvpF8u0DNRqaEdK5gsRkg-QACQzDg^sORro_`hLq#Of0xssb#{sC1R
LHL+j7`hr;z?%y}7@L0cu~JP1G|nrge5E$(%kn09j?CWZQmCnFHEU{hhNp89{Sf*3mN`hP=JRfTazTr
w(Hv?cwJ_t)w6b2FHdrn_;X<7>8{*Y8uHsIBt4u{L!ud5{PJ+Z>AU$P06!p)blvNiJrBh=YBB-yTD4{
0g8v0aRyl3$~JCc#5Y|u@yIOCh5eBE#@%CrdTYv@VIwtpy9nM&=QXRm4UT)RQz)NMxAS+8^S%Li8O`S
1BPGVleyliH+bCUlfmHl3xZ*1aRO=-fF(i^u~l+A98af2+6pXj7f1?b$<6pT0F6U<IdDhiX~t^j+`hA
y~n!*jg{<5ua}#SLFv7kfCDBr)@@cZJ^58Z1%g)k3B%o{(klSun7X5*|_)<7hhp?3TmK=$PA*=g!b(3
yI)0R=zT++!th8@Scuw01lB3`urFi*>fG>mB(G8~+>on4wZv0&RXvVw^5Rom<V&c-cOHyzh9C;o$4DU
DLI+UIRFxT3zAn&RX5=hj>7zY7_W%ZAVp+Fr`q#w8i~=`0OMpdC<e{cF_KMZvx!SC=M#LS*KRy;SJCL
tFz!~U<IuZkb<Vw39VrCxM&~KOU{o_9^*q8^#o|!LfE&P3#JGlDf%_3dWaCX+R0Qz!Tux0C@ZVlG*Wy
NmwCAeD^@lDHar6?!3UqRKiZVP|}qW2c+qbc+NkcL5noeZnmHU_o7;TuEr`{o_)&Z4lb(b{|%;ryUM2
Buob+ImK#ZmXFq^z}xC%{&XCf!b^ACy!%*7-XjOJlO>UCQ6#fc3vMav^Nr?w6Bcy-Vg>F*P@BqB3gVZ
F-$3YHj`jsYzfU(1UmBMqb%r1d4SggYxBD72r)*2NJ~09HrX|9PpV_EZGBFs=ozP@(BR!ZT0874hj&Y
%$WnGNRnfh}zLKrymzO2_lHmgA^WK1A|6Hwp9d^&4(B?;9?3c3P_?|w>ghb5Qqz#QrSWB;8gSL+M6p1
l?G)=mu1KM@GU`sBKA<V<?Ns-HD=$y|&*%4Y-zW5$S2*$Dw01;H~)&gsH&d-c-(Qi>AFh`vv0@WGM=R
yYcN7Yb+<p}Un7J@FhKJ`_FdWvaE18c{uizbe`hBW>_s6+bYz)-z?;LNT)Iu<B%npKe>YB~w9$hQ9Jd
b*1iTSj>=z<MZtr{O_j2q3DKE8Oy>Vf%CdDM@x{Q;d_5A&zW$xR_kp6cz}}J6U8W%Yt+yv5wxs5Sw!B
UUQJ@y(=~DkqDe~C?N41)MAxOsvM3h)TFz%{btv(BgSm8sP*&a23t*fiu-6zwCxOrDi{#PxaxJ9b(zK
*fp`LlDdn-yMb&<E4b5%VMeIJ_5r<s>|Ktn3D);ru_+WFbj~);l8-#$D{q2eQfneUn61l>;tmd7-4~D
^Vdf%_vtRbqx(|~!rp$(Jk;z!+=HKz;u=g*Xb503H*Pc~X5nu~SqVch2N4V>PZ?go}b&8RvSzTnsj2n
<4dUwY_M==Of_m4)R4uZ(HQ@#L9}4SiD#f1Z+P;R!kT%JONq&UZ6)uS>4|*B3=fY23cmC-=*6q`E!(I
<%#?wyCTVOp(6ep4u$Nn8KS1>8-YbMiMkW(tzynBU-C>sYeugrwSBL)DgTzn^t8gs;N~#^l;E{?dSR|
"%text.

(** Lines 6465 to 6614. *)
Definition DATA_42 : text := "pPi+xcQVi>rj93oCAe8{#Q16)u`7Nb+KbIy($ZO43LD<tZQK01o9&ugQCvmWd07RIG>CSbgDZ1pB~}Z
b<Z=iAwnES6yumHADxKqbm3WxpCGM|qmhvK`9R2mwaMXhT%bbg|LCc0^*!?cu3+SzTZ4J(-ALgwVp_p
%*8KDK$)$GH-%?hUH+sd9a^6piKY{5z*GAMI`>saG(>2{L?OQILREssv$iF&y#DbNtb0GJN-g(jvVdI
n=bc4dq1=V_Lhw7)$JP(J$dNvH}e-$M36=jM>GKX$gQT)*mbT;+vHikVtnrXEbAL)$o8MA7?eoUs0jw
upIBF-HHBYsFCQn5uNBwTxVKhi3a!*mEt|L<4S?-0)zcS-^H8Tl2hmZ4;fQGFcRXvm(J)PM+vq8+M4a
)26fP^+&>KB|Iv386h7H)7W{L1n%F{;E_!0Eq^C0UJbOCBWnX3!SPuU6!2|~J_kY_-ZwO^zx2&@TQ+N
mc;--6va&Fx6nTu`Vxx*pdSbbpJMIrnq(~F9UmGilj|2_F_+~GlO>k>Ut;bScuer#dq!s@;+~F>|HnO
!On<V>rIXFK&{CRYKc=7G3_n*@*fXc|?!Zq*>7;6m45ZBLj{H05s-RT+Hv$=-`VLyL+=1CoFC<?F*uU
%-<SzD3du!f)!>O~OR`n@?kd9h-o0At+_F(t1J3;QO2FKcea0Yseyc3hz&D1iBDZ^+EC-n{`cf<Ta1Z
AHX!Djua(QuuejC^|_+QUE#RqCxd@Qs@S^$~GqV2Qf5%U-lT>Eybt9(n`BFHR<4S1RX?(&o14QPlCa6
>i{qq3*OVo@gYW9gxQMc){!!1EMh5fnpAN*FEP#B630?uZtLsO48CU^WfP;csF-~yX6WHnA?X<n4p<p
d?q^BGP`kapQP+M~cKHUM@j{ePc>&N><z-0+@6kje|25udAC1a+E*ZDF>VUa}dND<vx1!&-hssB&96=
7tpy!2(VXvS%G3-MCrpf2)_#b(JrSN;2;rBp6HY{K<!^D6;7x9;o#0?>w$u1BCVWfH*aj_8}icrN7C8
4S?U!>*^4cGtoI~`}08^<d)2@LpFdCHWQFN6>+%S03@?@h-t<g*7caOg|x5#{z_`fRjz?Bq`#J<_FF9
MJg^OS=jXK;&dL*+hM+h|;NDauzB{!O6X%VnMMZn_ns`u!A$wnq7F4Q(IyHS==BfEt^$GM^W4{>d5+3
F(B<4a${d*FtWzczrwF*n!HODe9BhjkNMImSP!6Ib`~njL+BS)E5+#MrV4n$FW9fxuZ3$WSc_grExVd
FteYc>6l!ojc7dYgtD(vxac|hEE6a{VFU;BwwQ!~&PK>A8mWMJ$Y0cFg{h?+C0N|hhrn*L^46~w`4~{
aU054N!i|pv6`I*F6rRb!X{BA1sIeSN4n0^jw_5th!AGI0e^kh?o(x|}v#x>g-T!3C+aXeTmP<pLyyQ
<B;24?azc&YGgLrNzXGZC{Y_H_a>7eQmeSYT9j7g_bZZ#7~uVT|$Y%RkDW?uUD2bgw|e$-T`lKT>dJL
S!_eEq^qEZ-~Wc)Yl`}PuWsno{|DCl<Tiuvl12$q^wiVaO9q7%9(sI5O!E0;Zu4iEECb!o;|-#Y$n>E
jUp0;Zzul_K2BLqy;7Hj-%g2{Q)1?okn}9Ngm0hMSzjWPb30{3KG=&aPVE#T(ZOhoBI?*h^eWu53C!(
zJ(4vucKhy>nFY#dsbtUQy@6sRu<Y5)R+sv>r8H6!N$%}ORESjGI2EOV-xGQtjT`!Zbr0Xoa%d=l5}w
kHWej6M4(g5acL{~IuX8Z$t6Uf=)xmzJT*8+bh?Pk>i5E$y!OCK64R+Le%K1oP;9Vb+z|!D3QOnS|Ud
KVxVd%_EY|XbJSQs8r8aCM$x(GIqal%$w>xSy+>?@m@Wy`N@q)zm<vXOd&a~ipuI;`$PFb<};8yYhvo
Q6&{F-hfmi=@B_ID;CKM*|-^lw%W@NMz*Wv<LxBgIrcKhL0FKz(}LHY6SEag`#<$)7@>y$WyoCwSWOF
LW`0UYIZ*M?M13?(NNw{&^_j$P~a;YeAsd}k{PjP-K75zp}Es((B?N!CdP(0r!wL|kdr1GoHM67HS3B
aw>!_VdE7KI`i(Pdj-ClHke{w;G{1%@)<-FX4kyrSL8mr|qc>S2vD7?l9a1qkOo&vzcD>V`qzXjmjLu
ao?N{gTz|eenmEb16?c@0wn!_d4of9Ke6P*c%@24*plHuBv_V3PbR2f^PaJ7s9#;-TGsm<sjDJ!-4T}
rM%(6b~F317YVGD)bflBQ0l<t=1@3~-ow+ZdlTiw@48A06olse6X4aD=}r{-XloXA;ib{M5D|$v9{ba
jzeBEkllxn9x{$J>SUEt!+N)%fnp)H*;)3_#9}-H7Z`I3|__<`vyi1{$c2KcoBp$rKi=ce>z6VakFJ&
w+288ieAGZht#Dva@Hw%kZn-GTZ=?Oi1bG%{fm)3$*LrG7vE+nmOi994c8crG5A0OgEU$<xMn|1rbYF
TWie^oy-AnO&0I6<&^g}ziF7Fg8kHyKDUK(E$%i<D31yWGQMsgfLGtd3<?<=hn(<w1m_w#Qv1H;;SE#
;>{s7X84k*-$%Esf9Vm*|e$6oUc!eBK|yjbEXeGwK6Brw7OPs^0@^-hv5l<M=S2HXox0#JAY9b=`y4Q
{(P#&kZX&7^^MTM47g&9!ml&8x`9J~hM0?CC`9S4Q=IB>A1!laK>(P}baBZAq+N`#NG7L;NqYL$Du8X
vgIo)e7`v4jnLhv(~1IBW<O+UQ0ZaZbFOek1VI(?o%Sgr<SeU6L5n@EIiG{BABlX*BpvNl2;6Kqv`BF
eA-JQwK-dK^uaapN=Ue0lG>iFWFPiq+j?_$`10sI<$=>B`4mjbBW(WqVS7jk^gz3I+#wWXDYpj&YqBw
Hb03iHa-p8#=+ItYma`Osg*%r3*sX%5uipf88)wS737#Aw(h_fGP8=!?l06GnYiba&BMPdkET+ATg*W
p84~<4G!KpSm(%?8DPb@h%xvw&)>7?WhL_s#^{pf==c$h+yTsvn;Rf|O(*f4+?16{Pmp46%>2WdOK+B
g^Ke1fetc>_bofc47H?pR(nLaZ>{U8{!LEL*FL_1OiK+%z(r;ePLF$P8G{3gz_00cg*LDTS^*BXti*v
hSO6eQRq=v#E!>D_gQ_&+b^;9&O_!bp1)Kk4#%D*?5YPLXGI-$8DynkFJ_-MO?c#Ez#Jnulo0K50(5Z
xYmqo0Q!*5O_ujzTUX!vNcsNk2I=1F_QNNSD4lHQ-p-T!*Bxw?VT95y64Zx}ziSDy(a!4@@h!+l)2{q
&iv@-Hf)ulI>+z*Jbd5Hrf}`>1ctEvfG%u!2C%^5f!8DHj$cVV0$;C{;<z2T?ct6;W>TnGpGS)$rBwM
dDic+sdv}v+-kYvN+I|t5Ra|3bhBDgcUrkkKmK&cDip*42v#?;1=#?v)a|MTCD8A03nI)lFs{`z0X(C
cI1Uaqx4+5hcxW`0LJ`lEPo(x!hGGuoyIl%Bl(fcxoM-vgrGU5tzX_E%qlvE)czMBI_pv=WdzT|wBTn
g(hiem@v)@9yk8tw#eW!IqCh^g?<ls$sAIO65BWV#cTB_6F8ypEXy&DJ>}QMdGTm@KF*9bB6|51au_a
E9quyEy;)?tr5^?FJ=x<6jCWy=J?hCM?pKw=xSP!{G3$#oLGf2MT2Nw<P#j?ZjbZufO;J^kd0H4$K1O
xSjia#TUQ>WRRSE{(J6yQ6RNKHHfa%mfVo5??gdh(x3<4?kzmTx(ziP^6xT`p&5|SW)uXHY0r>einWb
4~<Z$Cbu?+yKP4qeM><;~@`ZY5Y(61bDsRA97Z}vEQZhWEsa-YRKRwQJLVSTemp`S4aopbUoW6yshJh
wt|Xit)4I!{UpGhL#6mqY4a)oIRo-2gdGu8hsqhs9&DZ&Ojtp8WGlo1lVzu0fcVeycunVb3zU$OiEzR
m2|;skdA3zX#FQKK=V^wq=2!Tfm<Er|qT#)|g96XpLC}?pIQJ=Y4>DmpiP8M%GBAD7{E~+O|RRRVTuj
^NQ5)!9G6VQGCGnCCrWK9c9}=MKCU=oY|ar$v5#AP8!w`Qvg~3>GWWlTlPUChZYfHmM{TvMs-B``Wny
74SUjh`*e-L*KX7@V$FMX@EB9u$P8QJ0~!5q+^PdssI@n1-I?b78m~N|KLKsd@MV<{*X$k1x2Ix54CY
vtEnd=QT3G+y4BJ7x1b`hgy`LRfSOfdZel0(TfCdu)cHH!SHgJp-Hp!P+)y1R*h;M5XP8z_DpXASEMp
~iDs+9Do;iIQ}!^clPS|~^<_AhBlRBodYNE+A~$5XA_n@I5OVW0%VKOCLqm0(@5inp@|iu=blJrgU5z
pC!f4pw{m(JsUus&yIY^YDpNW@eWeKG_@YK61*4Q>res`)F_Y&;_KtQFW<@PdE#=RjO8PuPj$nd?%i!
V@b|EeEi)<>%HMBrv?kk?CnCiRl~J(>g_&xytn)P>UuM`-uK__J>30%Wj(_KRgDK!+k5!%yN`ZBaXQr
nA3__C9vcN~1FfI|ulF7|P>I1cPeJJV+jrz`BnCk(hOk8uI2gz)w`>%bY>TFttRtDn7+^7-Q}PR7b63
_;L_K%=(Sh<4M!{QAcbkWnG4bN$WgVR1{sp~2M+)(4m7e62$#Rhb2c#hDvehlKrICG)ePJhwy8I;fRw
x%M*%lrtn9OsRg?am9Gdjnlf8@z~m0VM`c}(%EK|M$~H77u3ZGi!)=mUX)Q5yL9n}f4+ho$kY!G}+uI
F=}KxR1QJ!cKJPM}ecM#ynTrTUk*X-Yld*JkfCXqc17p2M;c3v$1MX4XJ8z4D}Ipq_(u*Mc9(g>+n4)
xRAmnAk;}XAxRRiKES1wQVXml&*y~yqo;0XQCxTU+@q%t_a1%!*ewW?>fDLI`yukRZ#3A~K&@4ImR#q
bQ6rcxvuT`FyrNWC0JSJnlNN=R(h}afN{q3E==D~hKCqzGX16>s<O}vZL5q`Z^ufc$`h-W*uxyKHOhH
0EZ^S|>KfvQ4_*cDg1vHEV)-E{7B@`B(<VSnV@Q}!)5`x;%I`N}|cZ4m8WKebDdw9`WjqdZ_K2Q=L34
5w~&878|z^0+srrRoAVC_ZQwMY~g%mFhZxhtiHOI-I`visig!|;ePU*;J9ot!|5L}kflRik$OhuOpxO
zJ+*6j2lA_Z3iblZQaU&IH>LMeWB^FRM#Exs5i7Gdk1y3}Z;a`jIRZuyQ$;xUG2<PeBj^DhDE9K=*Zg
gK`iZcn_o3pc@Dr%xc4)QI*+Kd0VIN-jgT8L4+9yyh|No!PZwcZ_pOSSLyIID=%yk=?f@cf@HM9F<>w
_sEmcMh0SP}n^eRi)YIG`tq>l|tx~B`H|cy{w@Y{^_zwrsS?yejCP5YcnjK=D+gr7b(wsCaxQ?UiT;=
M*C$Pz@%G_6FLQLAREssJ*$f1zVqO@5Ds&6r&`-|^2=-S4^!HLBy6}vXemdG{hHKvM^ud;Dzs(sh@0g
Di^3NCg-yKHC=gY(nlgR`Uak-S;i3$$+rTJjvCy^7;yI<GKmfW>0!nOE;yrv44jG;BgrSeQb=DXBhX`
HeiHC2t~x1dGeRlG~f6=(;MhoPFCW%w=niYz0g+s(Q4Qme4+@g{~(_w#)OkZ{D1qT^zm$ZJHoreo7ZM
hcWqrZO>C-#FTRnm8oxj8>tg*j-W$p8j`>pZ8>zdO!f-}!FMVL07fPMVwjtv5Tv#FEgeqKl>~)|eJZh
XPjojogzXZUT7zp48HxVPXNisCZD#S!R>F@t&N<6ObZ4>cl4*;85S|}P6nmMd2_UwtE`yLu4Wn&xG*6
tTN-Ca<Au9O`nuTz~KoK%yoG-_Gz*AY447&G<%(sZps8Q-t0TW9LP3gElW>=BWjLP_0%|@8Qu<{_ZD8
szoV7`jg`$Op1UhX2WHS>D4j|7_YEf`<39uSnf9%SoSi{~23v`ofgzNFyxg>pY?JcxUT3C%c}<pfw3O
fPT>Qo%h{8rh$ch7G;ARZ-HOi?)KLD^HVoxPXD;bH*!x5D}t#;_I?nK3k}f3wb}Ts}|tLjq{5iM}yxT
{-3DA*KvsH)}CO{5C!zlRreq7n7y;FPJ0w|cTvIHa6J$YR_)p5<$tvp*4YOa60&C1qR(2+_CbW2Cgr3
^$8>4J98c3bpot|=thf3cx8bDxn|8|s^W=w)SWDyb3iQNilNMK!qN3vLFSU$ChRv=T5t7_ciLeWpM`~
RjG26UnaetA+U8f=QLQFs$Y7x9w)(zaJ(QXoz?RalEX}G8Il92={x{Q{kGi3U_Iae_8=6QVwo$czlzI
o?npA5|OTVN&?BZU&dE49}K8VKHAyxe{&S4yUsa5e&IW0Ke|DV1fB)@nIx-vmao(9vPJI(@%JqQ*=B;
^-jmB``Ej2PtpRT%u*<g3=|%xT&X_kJ&K{;-E}0(oJ_<bbg&aFr5;*AO4?TvyTsYzh)ge=(7%%7=YxZ
^CL!@_Xs*QOgayxssjpi(H-_E=|$+Y9Ry0rYec6o<Ael>n*<XoZ{bxk94Cp{bBp-}U`9!mCr9!QyHs>
c<2PB}v-xeLRsN+MBSSwVUK+ergFn6%KLntKxBxa{Qc?#KogbY=!<{FOo<uOMJ3P=7Cy?Ra&_Oyqt+6
m@b>H&lAm2=5q^!|4Ywhd4*+Z`Bdf$`3T9%|yi)X+Ve{nwv2hc!klN?uLM&MFz@4#s8nZtB%8r>`R@0
A!q@m?gsp8JkxOK+ertFdllZ55kprRqSJ(k`s5`I3+)QJW#KUrt()fd^*JSsW5caiF~yaG^6LAVG~`>
YPRFxp9GJOcA$X?I1>|qrl?n!s_Woux9pQ$?O}`=L$<rjvn=r1n>j;#nLndTr^9{B>^hZ6n@Kk?2Nj-
21_Tlmku4CW>qjaw{n(2DTLvme6ve&F8BBWg?GVJy$=+)?Z~|5!1JLwDz54YrB43``T(J?2ooc+Jd0;
joE7mDbD*iBDAPs20;Y4x`Hj%WNrlH;IBb~TSS)nqrvWk<2T<}QMmi%a8XYwLupbQvyAP2##f+oaGOj
Y*B+B}7s{>3i<D_QA!p0T<?k;grRj}>AhQ${lh^aY%JZ~{slf8jc@ExL6VEouZF)$pinvd058IC6HtZ
0d)AZRy<1MQM>jK;79i>Vuf8EuvJj96oC<5QCy%S6oW$(}+hwW~RSb_C?VL7BQqbHz`py)=;pV^9TDk
Vh|%4v$})`^!X8aRXZP+B}Q)blM<-tB`DWKWoQjodF89-?%Z$aD7ycZ=Q}<$H`x1=K0@d*AX4UFdGC#
e4wcglo8De^DT5*uZV6EM6H(C$NQh5ILc%@gQ2}fY&*PI0d|I6969?UVBH6@)tI=EPud@W+|D}4?fA%
vjA&!%NjTPM;(ZtLi|PzHgjQ>Dy6M8j-OTT6b#1s-*M`Ba*#`qc8V$!6?WY#24Ar!Uxi@C<@{VtMb8X
Xiv`KsLf|f{^$97f|8h7*PGT0aKNv!2Ome_oDwu$?8marBC5??%@EO{eEF`iMiPXYrVtYCG%FL7;ms{
23kvg=9Dsf=+jLciBO7;&0>AZ?0~fWC*rm9ISdXfdH$D^@P!hSzP2T@^(jcWH6mewb~TwiHIz@%W(|2
&_P2Xln|VjuC8?5^Ah^uD?&xwN^wOKMig|8QM^6wN*^R(q<S9zYZS-pcNxkXg!o@>XqpZFPwCLPZwe?
EG>Is^Xv|rX7}4CcGz(Gs4)J3z5Bw~O1?OJ;e)$-ejL#4@NTEy>3v)^1pMT~-rnxVzO?sYh`-u~V%S3
HYaAl1GbY0(Vi!XY$F2;FlzX>vU7I_@?bkOVWfaNLz8?+UlA^rv4>#W_T_WK0InfWQ!u@F13y8sK4}`
aclW=o@qq`g(aKw;xx>66Fxs15JyL|3s+WsbLbGBS2HH*krU1_B4PmQ}1v&c33vVZ)dNIs|e(z;}31=
euQ-wo9HbvKF(y$VGylNVAbMUN^<Bb#v@V2BMpjxy8?n<G%Jf-Se&kuVtk`VC;V#y`Fh(L9@!&VY{k_
Vu&Fv&IVeX*@N<k5U~ySX#U521Z`vzTRP&*^nQ##u;Op?=T$unw9C%>6Wyoz_Av(34^Rtg{IR4TD_iX
&G0>CAFUo}^caO61y=P7f{Rfvq3m3RJ5tLRmMU8;!|T$UUlHhdl*Bx4UT||SO4^qs8JCd$900pUM~&g
D548FbU2Ji98>RJKF3<-Guk%n5G^5v-%TdWwF-j{-=1&H*fokFD!$+X!{YcsE?tCepT3vY?-Z=tiUm7
b@qY4?oukIU;s(L_J8EA>3tdzsE!&h%XDP+CCs7{8EminS?7&XvadR2pUa9N{bd3(K1#q(cYI~C{Ir*
$eGpZx4poLsGi>hqsmRLAqRT6}iwws@KPv719RUmm?Yb%&>RHfgA=>_qjEmpLuT=XL0yE1m5t<og<zI
#0J)1vcv37Qv+27i>TvM{vrJVI<4WI0M8bN*d@r8y6~_Md_u)9xw6m$BN`HpUvnsrx~M@Rb*y6Q8&w@
>vC515bndMi{@eat-uw@CHzN8U-$~S0S-+9lvkPDm~%iequcd(_$rxp#M!rT8>)d-;vCs0qbeT(0h|F
NlFqWcNJbcjqjWJb5Gg;Ui!$Q-f#|>@fpKNgo5x4Zh^VM-rQz)>SP%=HC!Z6%Hav7I0v0>SZ&B=HX3N
KuDDK9H4A0IQC|qMSwHaX0#T>3Qr9Z-)_9*V=kJt*sUjr1Lf-NxL%2fGXlhZr7RPaWFr_|Cv6~s8Q<4
FrBcBrQk018iaFdYzwsj!oxs^O{+BUKz~1G7W*76sX-+haU(QBe`<Q@VQGl_KVK@z6Z3;JZ`2b>dWtk
|%&9;|fL<5L=xI=z`M6T*jCyOug5x`p{oBO00*ViErP^eB%MJUIrjFWhCKDns|Y7zk|_$q(ylyF~8}D
MFG+~DQ2u)d15Xid87k{`_P&KhFkiPZVPBsfz*p6kZ<%9G(RMi?vnBx770>j&*W&)Z#V>7gXlNx{}wW
6c9n^?iY*vE6GzH5%3>LM4}t2(S3L+&KiZ17=#mAgn~}QgU=%fBaYiR-<%TLvRLH|Dxsi83N|?S?NL@
FV<MA^iYr+#6pcx0uEn_9D;@@OWse_b^sE>z^DSEghQ!Cjpd{ymYA0+s$2~X~uOp^*T!DQ&JSdX4@3k
761-EK+rWuax^gu5c=ui|WOdUHbO3VPmpr5k}`kh@_-;Yp_2s@f^y8%Lk;<K0mO6?g?kkLQwSr{lP!$
vtEIW4{>5n}2pNrhlgx<6&D&Umwu-8~lDV?)>`$mh{8+$#8i3v(fB6Lew$;^KyXd(tv2A>^gxG)knt)
$bfXPq{{0@{-{E&-sE^42K2-4N4mh+E>S0l9?z?6lrJPMQQxTN7;NZy@};V)+Hqw315h1$l{3%M*j&X
WsedX5wIs<1jE%S+D^ri_`A*I=9xw{i7XW6Bh5~8PNkbp4kTW`oN3^deI3AajIE6zwsxFh@V%rLnxtW
(+zL`gtM;S)W)QLx|vr5@)8@;j^y4th(i&<aocI^P_JyE`yAWQ+U9gHn18ox|%mKfI#&yo1dpC&{tW3
)pvL=n%6iVG+aLnJG+4bviFG()6q%|UbWhjz<G%W?`-{HL9Wgyq9klf!C(Er8<i)e`NB0W?M5`iDo#x
I=~Rs&m?lmc;CmC6Dat8l;NXrC!FRbI9r>JR4!ulez^4aygG@*jLhR1ke>;oF6Ai#+jonAojUwgVnj|
v#B$+x`|Ddd}BpLWm3=bX`)kH2^b@o>Li|ADYrN&oBK(QeN60>ho!z20qR;Zt!K_NSb1Aq5wxn(;1s3
gH*}9lTFNm;1&-V8dFRpY-Wu9IU*qL;(Pkv7iZQ^UqvvsQse)dyGZm|dPVy4<X^Y)tbjeL5%5)PZkyf
K`&4EpZY<bs^F`^NGxq#H^ia=>K6x$(cni2ep4&x_$>B4B=Xq@!XW(-(FL_dC(5HXCE<$;eMi+oVj^d
wE)nVM15saZpyTAd=Ok990_HE)f9z+H%9&<+ovHRdS)CwBg9uWap!;N{xp;r8XUyz-=<#)Zy^aAw?qk
Z7m6HDA-z{aKg%pC$ABhKw9!+Ni@csKl_b1XQ0>234|ROMD63?hWhIrdDtW3Sago5m{fpS9w3l=RB)@
&C#ocbvA*tSdQoE1U0$;OO!fFL|85tNzvIhFkqKWOjgULG8jsV0G|mUAd~-IBGyoMY}Z5$F{T*U>4a_
;D}5TboMox@i)&y9byNV-l~3Oso{U}}Ui>82=vDXek_EItE0dh&OYUV}hb&M-q`X>T(p5vyJo>$=or&
GEsmCVT=w=Skte!x#MKVJ@h;l@r@)P6f%jY<q<G={KF>PEV>ggB)(mP!2Mz5$sFlGnMr;b{?!p;Iq2+
s=l&kmoTp1t6J$oKDmx`~Tf8M10vRt!Ud?`!oPr)(kd0#xV%bFIXr{uTM6NO96_g0z?v;%qHdG>)KtT
<qQ7qHbCy1a?J3-(?^e6iy6cv7zj3=^q{xU?X#&tk3AzY}#)e2(#a}njjD!v)|K23j*WccemQAkD>Z*
V|_6b#MlpAUk`e}wpQva-e&#^3)GER94t_3D%A>T!s8}13})r_VYmqmgH_!h274U;bzje9&g5BQK!R(
MmST0O^bVBqFNZQH4nj=?VerQ6InbQpiS6-dfakz)#wd0MWgQ?lYj(>Rf2aPs9chNJb~i#GI%b*^+0^
xww?->gAjL$^m#%=bA{I{eJS9?fiBEQb%eV%Y&FE!{vN&GQpq=-=Y@WEi8B7iPfN#t-Xp7)j0{gB`*)
V32=I*|HatYG~a>q<u42Zj1RX!+Sf$PKRrM8MS>c8qkF(*cR|7V3(*eLGHDI(%5rZ;orG4>a)wusDKE
d%$X=k-#hC%qOS`Ys)%QMIIf)$_3Usq-9JJ#{4Z4l!H47Q{*8hzyXpmlI^am&^J5w&VH4?~!w|x8D(h
__SZs3LAlyOX8mIf2Qil1kzU^woYN&NezJdD;5J5(%Eo`{+uN?%3C4?kCRJ^e>_1i5nfbIHM01dyw+X
<80zzXU<HJ)ukg&d#D)1Z__~xSXcC6^3QFK0ZP-ot1Yb{Ffa;ye|JT<}{=fbQCSR76eYg?QI9H!<)JG
e(X2ooOKN_9WH*W+LhQ?Tm)N1!V$d4+H2j>ChR-1THNSCZ}4JwFw3~ZcQ4;HA7#Ljc5qFKE+0xQFG8R
r|T>CK;`B}k0r1hmE!l`}qLXi+UxgGNq_CdHyfiLgWuQ=j0w>%mjO|L@P?>TzFdyo2L6`+eQvQzOJ@%
-^?;rz?xyc}U@NptJ|IbIOhKuO0Wh4|{+;_(t371*+fJVe2_Q7`%diUYd4iB~2VrEs-Y<)G-uG6Co`9
U4cdz5MIvp36a*^t=-&Q>j6=uxo34Xt1kwrVI)sH(X}W;la0d)B?{)648j?(qtk$?RHSaBhbVimC2qC
Z)ohV1T;FG_p4>$<!V3Yxd5)(4BYm;)bXkA>!(}N|3&#Mp>Ca#pp7Qm-nr95wVHz-!9--HaVLd(oFxF
uM>*yghVT_*refLd~f4Qws`)wx$UxGE99Dd&&Kz)Z-xWr)nY8$I>V;o)K9DO`=3GvsJtH)o{OsUSIZW
pWUWwjX{%;#EfQHFE0rW*!XypzdftMv&ys;mhaCF4E%LxzJs0d@tMy7=sOD2;z~Y1D`OeY&mz6NwGTd
hc+J&@!be|Nb)r3X5gmK4VaJTII02XQW}L*>qfqF|zDj1(ub{gXkzDPLgahNmVyFOl_8yWR>CkbK=HY
SR9{?o3($Z_Q5ooGnb!nToaO>{VUPU@^;{i>g4Tlbl=QBcR$+g1<s4=(<-N|qbOfuFxBNkpY`f&eA~V
;52IjF*qWTYTBGgp?hY|)m4U_v-g4={KoK)rD*L~;KeuG#YagE)rj?+t=b7@_&*xgt<^tz(wX~g7R`_
E-r>{=G=7!3|y@^lqm8T}UGtyUbL}cTRiRL9;B(dEf`q9tHEuZ}2`42L<DM5-AbWER6l$6@c1V-VY@~
qC8paEinY!DMT@j{_}mOyY=Ui0!8C$2O4b&dgQ7TZ<6Jw@xJb{95AqGql3IsK>}L?^qS<$C4sZ_LhB|
JgD|g2g=!X+z_MCKVg3;@#q<<<DgqU^GVjdF2LTyGw9*V&!P#c-PP=sEIq3yOP*ECE`q}E>*N1)r37Y
"%text.

(** Lines 6615 to 6764. *)
Definition DATA_43 : text := "E%A;=l!m6;3zIz`((mE(O?-2cL^qg@0BzJ`3>Q~p?k@|f4cnT0HckH@3Q@$KAmj<;*ylo@&8S4`#%|q
Q<?}%2%o`%ojx|XXS?JrR2wtR|1rw&{h-SlHAEAk%%8Vd~LNkb_7oH#K&IjezphaIz+tODP)JLnwQqp
&AhmIM)Oj+I8CY2X<fC-6LxIV`d7L?bI%wds=wTp9?&&cy~aEZxdF&+{!5CX-qCKnY5X@lsOe2IL`<{
H!V^47}hA_#7khBK#fJGuo3cts|y_+Z}Jy{A)h@Zq~1;t2kmjL%k7E|N)lnertd<-}kqA`V02Bh5Q5K
it`^fI9Ec;oFeY1uqHqAqhyWbd}nx953QJIa=3|`9qGs2K;Bsbgo0gQCS&x*({oR3^n5kisVzB!-Nt)
(8Z97cLf+lvw#^8@?c!%^JT?RCAq3BAqrwL=eeMlR(ECo!t7tY<V>~t)wKBBH{K~%V=`z@3uvb+FKcF
5mzHk>nV~M!E|Wz+vTo!0#pmHHEGPL*pCzw`ur@|n^Mboj>qHTzbGR4wbF-t=5~~rfHz{ah_7*ly>>I
7v0>94jd*9CC0b@`hRz^jMjaJ@X<E^qXDz9RW(hu50KL2cL=Bw;3h7WoUJ4uHy==Ah~tLqLOvX#eGK^
~u~1C9iNpYY*~RW(pE;6ZHGAYP}GX_6eX-1I;*!hf6R%4Ky;G2a*zv^%og=y71-)!=+|bbfaDs*A<lu
mc$%y>ty2@T_mboF<=xkr6%ra&o+`>tz%PAMGai!q1FYx39J=@uJ1zYEk@U-+c9f{(KAuLZaw^ocxj+
<~v2=TpOq$Oo^>%|F>5_4x7vix8}!~5g)%b2!{1m>3+$+zwE+>{`j!t(G|&1j#rG=dXr`kcg2S-p5Mf
`Wwhg$l`cqPHSaYxgzbOW2@EKH{EpQ;%AjnM%w8Owg~-gw(-y9acXV4STi1#G+AvWqmCXy+>SIhHEI}
j_eBv!!vytaNwRO+DW9`>{cHD-bdCi*ZHsn(wqrAaEU$*QAC|ft|2^b3$mIp|K-bOI6cO&n$oYrDrym
y>9(qIDcz$-L!3(br|sHMpTav@x2yab2}`d>q_!rA)c=TzMB`z3iOO?HZp{C$w8%t~3S-Wf!tzM5TI+
&I>q@DZ>YO_dn!W{Tqc;s!>uYYcS{mafff*s7^?SRXRpIX3Z`6^lFIqmo)eEyQP5%nW>HUyYA9_n|xd
e!LuOw^v~f&3kS9f&&^hcgo1P32cDAn!91)ZGUcM$-;@1@oRJCCQAVYN0JyRNiojLWFO5!ZU8MzZHC^
gc<!BFs+;|s>-!d)o94@k%{~H#Zj6$pxlenGtB`U~T}xzVX?lT;iRFiPnG236kVU`E%V>MPwT%`%OOs
nxizO9Z6!~;HX*yJ~?F;&GK!f!rTzVCtqJjf)v8zPaWK=!8Og-J-inaoYAgEgBUisI1CB@CQ*IkVfuC
?Y!upUv&-0HYATJWe1Qv;6Y(K9P^q>caqn_U?0a1T27ru}=<PJ^`NevB@wRnYfHyVr(#Sh%q<Bb%AYe
b<<h>Gr*yUH&J+fA;i0&3(H^A?ye9d;%IdeCt|_z4u}7$w#B*4Zm4y|9cRj{$<Y%CDG*jq@7N$30NDY
THr8PO#8fU|Jdn!Tg$qXgdt_x!Hb-{ej8lR2v!7gt6@fREl5Rzwqg*n_nCc=r~1^eFI7nqFfScUr=I=
DIYm*AuQ_x|oZaf|kgkcTtFskjlbFaI#(kXQc@g#&u&O45u${*QvzE!H-OdA_7j=?WPC-F(zaA$L|Hr
o~Mu8;QkSGH2=RBos7Zw*UlZt%Lf72jnsEFsoAjyE!J`mR)kaR<)yh5i>6PWBzI9F`Sizin)__`SC1t
M$>zw!Jzu<b1-Mwf*Jnyh_eVO-3Xlqa)}R>elq$ra`{vM{r&_E|^Ll}`B9Pe24FTY?Elp<kyK`&w(<9
nDFG7=Fk&kbR2n#U@a}u-POh&H*=ZfzI0YNt=2&z%Sj-vQ(EVai;1KPqVTDb*CY^`3p?-Js~yW9mDIp
2Y@x6P0<u2$ohEJ-R;vMG}6(Y>ibljQ+@Lae%upJ$##g!RDPX|^C>KLT0yAdi!I)q%7LG3N6nLUNjw}
jV1K`^5;)fL`-I3XTDs(Rrv@{W6Fw^wPm^t35p1jR&am!V4A~~!)?+XWy}FlgGYp`avvsz1FJ9eUOfG
~A8f6+q-2P&9?R-eDjZ2{JG?xtDs$JF5mMQ&8GG+H7&ZZL=W^P6^rLV_vtX-Qz(K$XSfzTirHzja>ug
)z59_)CIx3xZwwyhM7j1!;;2Xf%dT{fVA2O8dsq>Me~0CgQ~qJeFg&2`oK{70UuZeN1bWjz-9rZ=rJu
f|V{AzA|AKh}^0<2`soV2VNdKDZX9+D_1vh~q5s-=wN9?>MoEOyoprvFsZhew$r}R4}HLw^|lCnrIO|
a<ZmkEjee;a*5SoG<I&3(=2+IW>dVTs_gxshS#{W*rBYJ^>q`nSGiGOwu&*wibCNhN{b@p{9TfgN=sb
W=R5D<H5b7P-+b%ao?86q7}9L|$uTLV5nZHj2QpDVo#6kgZjCqH6gPOwk!1GXDm63VtaE)8n<({|X#3
e7c32A4etagTHchSVrDLml4H2rp#Y?C5OtPJHTnM3fqk++Gian}}HidA|%byaUPO5l5*P*JbtNqRZ6f
3D4U;&3*$%=pCN~JnDpad_u$%{|UNwwB)B<@WW<u@6|{-)FLbRrq*Qn`A#z))o5AX+-9(Wj<ratRC(P
hU%r^RYA5kv9~*q%)tYZrzgmb2TFH6@##G?>Ouk`GCc9zECcHu`y?oQGOIAtgrBpFgrrw;LTN`U135J
K^^SIKHzkWQ&P;cPql8M_(9p9$Hl~vE%i|uUnULl#f;J`<A}6!wT8mVq`#AYw_``1-i%)4a@bdm(5PC
P$n?>V1-*Yz(VFIx;%Zrt2MBBdnZN9WFlqsX(?M$R`<y(?8c2%|o+aoE1}q<yAah_s^FP2+nEYyg9$$
~AaTM=G@xT`6%;E(Dw{v5jCwTq3z*2f`>Gf3KS<AxMIJ9GwvFQU|;7}MY1|;9`@R*jVHLj4ci{TX@Ta
UBA4+Q~-!b{U&wyN;t%3$*ig;gjUp6<3-GD<}=LRtM74IA$1diN@*twtkcgD%77-o)qN!oGQdD>mLS$
<sH?Yd)@=Ue;vdHSe?pR~E0x=V>_?m!0THxj>mmcxkE7#`qj1-fLYJl-|yS2QL;mF#Pd6(X6<(o7LtW
id*97WFaRj-Un{OyMSQNTgD(F_iMxPs>{pA1V<}Lt`CsBirc_4n`5q!-}JE82N`Qfd4*%9NlUbM#Mvb
2s);Qt*U#VAqs51m|Fn5>)K$5xodPXcs4zHeZH<drBJR5Jr-V+Ndkv~!z<{e>j<DiLfVHv=WzlWBL!r
Hyk(fr(alO7*@uM|PM(XvWzj;?N4ztf`k!NV2YGM~bRuK>#eKrwh5opF5=oQdtB&dg|iIWWQnl0TP`6
HN<SRJ}G*uH^h&mXyVCc7?!U3b*(%2W-_SQgVA`6v0=68lqp$>C!bzgxl5P?1)($#PvJGYZs%)%tcqP
<*t_R~J}6r<h1Aiv}R^aY9^IGhx*bbdV*}42^X`wc{1-!N!oZjyE+8&^SkX1{pL>)XZ`hq9gnLh^N~e
2p!b|71Z8JcWyCizFV_L6}!EDBn~r)`Mty+6q|xi;+;4g{|i|5DqEcCO)ko5qU8qPdSDsX*3M$LY2LU
%svxI`GLldaDkOD91{&V`o%$wG5B{(Y$d+WEP6tjg?HRO93KBCRs2v?d<u&<#E<pyEVVYhLmEwZ#si+
gSNnA>ZH#`iWlOGhO1JDdLG>*D}W{-AY%}usV%X*A!Y#T{e$2PN}g+dnjnwn%!rLuC3gcBBPR4hacrs
i04o4f`OY5-eSeIy8!8kvLG?*e!lRN%7d!3Z<+nG%LpAlufIWunS*wo=7qnNL!pQk{2G*t~fzJGnwnn
Z5&WJpY7G`GB@>I>4zDES!$Gxu>4X97Xnb<Q&Il%RP3r(q^$gV8vD31r3+c;_9|cC-L0fS2*Fr)Mzg(
+M20=1J^C^F-NVjT+P_CdW`P*R0LRim1e9rsB=ekalmBso37hEc0$>4Ye(`DrP>%{HCiW8(h;_os$PW
>P&JknKY1ujawoJCJRGCThYK_^gj8;N1#e12GKQbn=WgAYb-Ago(hxLW7x3b12~MU(hu9N}{RjwSLAp
1GEN6WNqmok?20ELV$vN#)f;br1H0)gK@o8I<1Hp6q$H;MoVnXqhiB`{c6RK^wSbLjgyDN0pKFtcv-k
RrEGIn=@MVXG8F@u+PfwrD!SB-4)`A*>PFy&hFTp#}0vWsp&gq2lo1gWQe=1nTnEII(iv4Dlz7bv#Tv
B57ZWczA@smnWtHLn|gcI@5SNJE>BNbz)m^p@{j@iz21jitW3KlV7!h_aAT<Up<@P{ct=csJcBR<Lx0
TG&O>Ye~Nu<zydL9z*dwt!|CXJ8Gde?#uQ*{2GdrF-n=B*4$S;BM9GOGVJhre>DUZ{7F~ouI1te=7_e
TVD@af`Q{Cz&(A*zN751pS>V6YG(tJYLGbzuWdg|Z!QtWiqw|X<Mc*3m(CPJx5x<KNQ|8NJqVLMML1p
+Y$23%{(8x9GiVc=GggJPaStWGcJCIb)aj?KUYZ6v~j?dG~sT*`3M@^lOZi={Wp0IK!)u?hiZG5n;Zu
nT%#Hh7IRlw2%D(!l2EawnK8;X&C1$l^SbrHInk|}l8zDNO|xLQq6>&pj?{!H9B;VBMH@V?2rxMP{xE
%n-TZ{|pg&eGCXt=AtrOmVi}((*1se8Sr9g$H6bN@7`K7iK-yG%R8~giARK)Q(`|TfBNuCD$FN(<)Qr
`hBjG%;ln91F+BOWNjWJ+qg3rSw8KMROG*7G~JO3^_=t`VET+uxoQybBPXin0c%+J4TykL_h0+^>e$O
?$3M5sl~?@vPiHkEH1iqDESghNEE}KDm5NbIo~`!+>?tRK@@{k9Ri4;AJ{<99S}vf74F#kOc1kjxgS%
Qiou}90AJn5r60pUi;BhSk1`Ji{VfxPM)O8oP3=5p;GDK_v=>hL$G98ElC=^n=oAccy(5>mNvlm)+r2
vWwF<+F{(^LEFH%X#RhNSZ(sbxCfKm_<W8gS_7slkJf{QL|o%_{9O^QzO5fbFKmT(!o@l==kOB1>N~<
|Cb#v&HeFVdk)Y=yX3|ow(DvT8+GO)@QyAkEwx@TfK$XG`k!8IaAX})vGQRhS>NrQwcpJx&U(>Sn}yq
+h)w2j1|Z=dD^*hy%HO-GH{vUru9%a?O=<WsegqLASKImDz_VfX5>MaoYi++M)WRG(Q`;G%X5m%GtEK
H9;}|snR&kxsG+{!NtE?r_l`F_X9j_p_k0@>Seh4JO$3%-hrrT6V7U$g{(|<WWKN_Jx>kxG<bT@upf}
xRKbqZz<564;U=V711HG=3m%GXJmq0LUqv>^8USF}qPiQgKA>$|F-jB3zuO1b%ZOzp~qPXRt`1K3PoU
JXwWXnB149z_a-?bwxnL^y3K8$8WYaB&3Al+dUeZS9d7)DoW-Xe6|p)Bl_Io`;^sA@Zy9##8#rZLKNT
k~sdAnT5=Jv^O1$r6W?N7?jRLyKVv9a=9CUhKlT`G&SQv(p!K`d@LRH^ShmWJYpkCdYGZ2k|2K>A0}#
xLC!up+(F(bvD69Q_FR21k$Cg0v@P90z*01ySDv8<7qvjP6|QGm%KSsUZvdvtR|Zh54OchxLel1VB)_
O{*q?u)m08gc)4lk%f0u?OUI6+nY87)tNr9__xMoZV73tzwK$__Hveb!jruoN7_020o;;>LO{o$C!*z
(+BU&>+es!xI&amkOCpOx?5ZmA#ChL#v`Z?YM`0ph!`PJ>O1D11L1}rZt^6IY2+SzpK*^s|76#3(iKl
wRMs|py^RWiq;apkaOcs_)}%j%6+Zslj_Up&VId*p9xZ(Nj13h%#LDQwXK#<$?n+&j*z3Z2@}|6yS%9
7opZ%e6IjWm=YOSfwzT6=qKa`D6hqa@FJ&ahR3MLOg-ODTH}0>iYKW4l6#Uxse>B70Gl|DHH52-$cQX
#{sEn9lENUmv0~T6qVrxrZ1Yv+>G}!A2u{693hsf?=agpSL#@da=l?H9&)ZPLvw32{-dUb`E}riLRi7
Ep&6CESQ=bp->ebf1tJj`-h4#y6l^vmfRV6J<jdKW#IUZ?!cGQFO5Z%sKWT}|^$b(f7o^Zep~039B;T
^rXM>o+F3ENd-$vd;W56<-IN;_Ie!~gqibb$tL!2xtyw!t3WnYD9tT^{-LBjJ^>0Q^PTQcP$&!%+ZE5
M}SS42K11}_o%F-{L1JySv4=(*P;I$$1+;2V<0Xk-bd>X_C~4sRxM@H1ICO^?wctUAt%3ahi9wgzWtZ
NA~lcChrhs$3e!^UYcvh?VgXPcU?3Lo2wdCBm<WG2d#Z#H<5!Cs+8LzbtI)ksUs-*^G%<VE)>He;dt=
3=O%iBY20L49{!q)M_=-h_eg!IGMytI?UJRcIVDC0Qv`BK8)+506So$9Uii==WF%J+V=5dr(8F-Wy_p
Tn=-*LcV+TKv`AcQT&qKxYs}q{=Dy{)iKC9v3b^nnz*OI`4>=AZmO=MG&nq*u^i@3Zkcx+Zx~4?ddT1
%}Yd~dI)yyS{$^x%KNknvA&g>q%!&}Bsc)Xm=C}u6kG^+!wB}LJaDh6*>{IIX$q5=>bJr14(jdEas{T
il;<p|bXXn^gwX-=2x>#73dOIitte#DvRK4VgvKIW92B;$DU$pEdx?lp!3adQ}i7Un?~=@Swa>wh{xY
cyT+B@+w^Y643wQU^+k_v6rHBZqf%@f(9tZReNUdcjM^4ZOI($)~-;v_CJ2`etM$-QL*HKZ)v?;$?J!
M2^%_cy6bQcJ74=wC-Rqu=#SigaJ??ZFE*yS&ErC&1_w8Hg<K_L`+F^zTUDXmCZupJj*xxHA$;Fg60a
Qa8|G5l?<VQm{CM(gRPA|(8#siK&(X%7O+GcvdDy@sfSeu+ycn`TMI;>n~YqA!g141ztE(fzl=7A!=0
T+yWgXi3C1@l$k8q>Cd+HS6H&^cwo(0xR87`rOx2`zw~MCBg71ckAYz6@=ae^e5u5iuHQUI%KoJA(lU
&CzUdjB{(p&UGk+}}DW8bPpWy8{|;Z51F<eawD(sIkH+Z6fYNcFje1+8h0qlT3VRugpaROtxcw4N}Ak
u%nb6@4OP2O!ej*L2P<_|cnNpw}$g9eml?2wDn&4<%p314X$~mJLO59i`<+*&mJAJM}7}sBcQ$BF&rQ
YteO=I?5JM=Z&5yieM*4s#m~`@d6!1N0fdVH+I!pu_lSGuBw<uX09xk6&sQ1HjL>38h0kgY<Ocsy9r7
=8}eNi^?;uJzfem91QY-O00;o{l@>>)n)@t@0RRBX0ssIY0001RX>c!Jc4cm4Z*nhabZu-kY-wUIUte
i%X>?y-E^v8el22>gFc8J>`V@ms3Am;`?4^)H3;A<sA%}%Mlp-X1>>VOYW+cbieEN=T?`}hUku`cV@2
6*Lt<}^1_b(VNCkj1ya%}ko&L(Uj2FOQ*!_$xb;SqFE?zBoHHq=pLGsRHDUKFJr87M)EiTWVDIf6rI;
xLNNd4!qr5%7&t7Nga*i&JQUR+pK43%2Zs(c^$2Cz#RuFD-UdCL(iWU~J+m3SvImti;h<?$Mt<Sq-s8
4h85X$5BQ(a2#jhOtn(?Z?@RLlx&aRl@im)8IF1II|)H`a0hY3aHEHlX=5`Lpt>CETa_76&d=g{x&BR
etF+{)I*tPv(@l9|GzPZO)}`pDjAq?e(9$a<iLinxP$RU)Q%1HvZ8H|T-8tKJO3CecsZ?v~+w#D+FNj
-bA#{@@Dz`ni_L%ol{<)U_6VBGZeAXS7>LwFEvYy_rAeV|###ry=qId8|U-@(edO^FqoEb~uBaE&TTp
#^`pr|iq`meaj=P$V}j`~~u)yYr!4^T@31QY-O00;o{l@>>jmU58HNdN#@Qvm=W0001RX>c!Jc4cm4Z
*nhabZu-kY-wUIV{dMAbYX6Eb1ras&An@z8#j_J_+7t(quE(WXH+)tMVixnR+dVaZe2XOxNUcPy~)fZ
nXV+0m6@z6Y0muj1LOto8vv3lb@x8I{q$oMBLYAG2m~Sm0pu#rw!PneTOG<n9{=`RFWK(1yzB+bB1;c
t{9FC|aW6`)lOoA>k9&t*5@u2STbh({9;C&+drg_5%#+>v-o1-=&wGF9z0G#9`dj_=U-x?IfA@EXG(8
J9K^}yv;Qj9^XoY#JFg=6mB|G*1{h_Kb4z`bbdAv`9FphdRNxA8L`uFG0pFjKN{^PpZWOp5;Npz-p+G
okG<eFdA$euy!%Ij*Wf-uYTI4sl8XLUPgs_#j3D7dB%HK_OS+ebYr(Q7zU)t159t@A9*&vx-mn(X4Uc
vmLnXUSee)_eNC*O2vUGP~EWpQG|Ljn_eXc9ZO)?4~#y3@1ZR<rfvCcPQE_nsU9}VY^hr{E*A5)>d&I
@51<zX(tSJivMhP9p~klDir5Q=xOI|jcNE+Lw!i2-Gj2XjC)OC#Xy<S1m8#DhnSg9|Nd_eHO-Ua)vkQ
hpWQxkdTfZ#R#|>`mefe*aiM+`y<lgC!BqAgGvsh#n2^n#=^@Py<yjGL)p|&?-4O<&q#BWU*UZF&#RF
4qe7jcypoGq<f2rzTXXRO(t&Y^(mj0&qBC8w7R=rh{#!4cKG7h3s?cAa6o?@l9Q_H!x$__i!xC^$bx;
qVrru@3Wpt?J2lAYHanu>x_DI>*qT%094RZn!LmZw}DkzTP{M9V;pl~QY_zbM?+_n?T=)mfNkh0<_mt
29`jWv1E(cdVA{=;=D#ZmXhI*Ujwb$$C?sE!D!gjD=>qXlvE2=_2(YJow{-?wNOLzdFQ4sg(NJHpnmU
Qv3fz?Y)ODKfZb0i?X=T(@9IHIP9zaV4r7UTvWZ)h4MqF+bX_!)XCT#SSYe>TyAuoaatHDcWP{>O4oe
%v1}(tt8!;Jd#~2JOz&{L2mkTyA3ZYbYtvf2{+2#LMrZ}!tpTm8zN!VN;RpZrFbc}xQSrc9*otYrYJ9
WeXSLe?HZi8kVcje#DS+1SbPPoA!daPBGp?l9jLXLE#=flCwJzFGJ6^xBH`thwRkt-qhkcrafvUvdxu
$1%w%;o@4H;FFNn^tdverjx1e|65wWIupUY55gZ$lUW)!oBCV>+vP?%vSprEFK-r5zu{R|jRp>S;aft
`3=})d&7A{Xx%dTL$g5^+NGW;rYr|gd}yg=8@B2RsHuaO95?Eg}T;)w?}p}RbRfk9c%jSWn52wlpU67
d{zy?*DmU+hTg-!-G6kd6|FS?!B!reY-E?!4HSP@3%(gqPFFJ*jq}oI@H;ARy-Aq0^T#{P_?=p@C;Zz
ZZJCy$px7w0O&R!67M7p)eyiZY+1UfFrXD<d_w?h>KU_TcMtPj2wUH73%Rp_MHS3KW>2@^xVYc1I(ru
(J{7b|7*_r0OrFH8s_R3fLdm5+;9&3brNw*?+kPXt7yyJ~qVsN~UYJbt4`l`x$56>QX#;Y2fzhk%_sA
;bUtCE0fzVE;~wehvwpE;|U$D^M2q73e;E$%SJm8|{)Ra(pT^q`7OrtP`q?8T0dJB#yeCZxFu5H)cjT
B+`muj{&_>qCtH5v-F=X&UM<MZJxEt>xlxqMk}_;BFImhuXfXBDd4^%qg8JMzy2<3#ps5mR0^vZ9y5I
!6R&q{dp&jZB9Khd%PYYvrfP3u}gNlINy}pl<WBEr=NNiqViwWzUk9WN1JY2t3AS)7Kw7Db#rHVmI;y
7z@A=0g^q+R<H}oFC3&HPoPqL{y=HbRNT-GL;+T-q7+>zP8~>E&dA5tQL(wflHaB_#y6hJ{5Vi1_X)2
B|*4aiiI7bW&GkCp+|MpO?o=3%_zo#8ffXEWrySGtS)o96NtK2u$pe+zbYj5<YmXU`|1&?~VhF+Y;a`
TY!vO7c|PHHw!XWQ1wo9t|(e5c|p$h8ft^hjLlUY46+cc$d$<SgmZdcDTCNm1%eVS~s@?6upzerAqTX
2j`Chbonh*nX}$^cB*jW+hO@R<P5nSoNgtz?<y)M2lY|z->L-q>7&T#^6njIyPHY>EcN7!dKoqZnZcT
C#FU8s`~M^89fRUHdS#K)Sqwf!i7G-sa)tT{UaF2)Sj2@g0!u=_pvVC3yPlVc6?JKOp}p5E(n7rFnO|
tcI3Y4J<D_?^q|9%<-Z&s##%<dqHbHNO{H0NvJ{CmAE>ptk!NiFMWcw#sN6p)U2SQ5e%hwXEIW&XJhh
IX9Mx9Dv2p>ktXC0}-l;flTkNjB)^uOjGoNm|bANnub%%c0^A$wdz6!Mm>v$J_J{x>9I8ozulBG%r3n
dQmzBhQx6SP;G>N*eho8F)b(y5)IZJ<{-&<oPF68v(rJ;K89pTffMA7NqiPhny7_p>nmX8ctwj5}Bu-
<<__dpoVsNOZqepY1ZAy8gIHiq@Xs-fmPayUbaL#B*!Yw7gd#Amv?maNdyn>>P7!pi1}ls%39ztE;`U
Wfpz@2OHH@bhli4BF&apw|SjqQI>s$*{j<lfvKC-$Aj^$wj-+J`MT2HHjBJ$Y?3I7wKuarlqW~K%ABY
UR<(uOtIO7LH)`3}%qq*br>fU9cdE=a8SXHCUW4l&A3q~Fcjv?}H~%0XVVtISlHR6rMeZLGwxYg5nsx
IYO`!dHYSGhmYVT&FLk)R+bx3lIQ_)i%L9ekmk50iIdjAz`_L#BXsW$TL<{#7=s)p`i{)+bQ-p*04Mr
rY|QVjK9U5l$il0Y?0HSnq(A>r6n8j@psLaUpOve2e=9pT`FE;-dlQ+1hLDz#?@*4q^K_OuInvhnWOl
&v0Vsuq}LSN8S$lzy(|rrp-N^eORVbb06KOP-v;_&SbGj?rm;s!h3$t{hP!U0ZQwp;h6P<H{0af3m4g
p?gH~^)+qF5Yinq<v*$2Ht@R2RW(It(A^!-wm>W4Pl@6#(U{Y1e$^P;>>OEeEh)3$4;yz6dt1)8FH2T
>4^80N8{weEbz(feV&=bMG-zp^X#d#qA|7g~`w9;1Wp`(>xP$P21sie&-f=Ge-(*2A+&jx9)_Nmvs)(
C(r_V^bvdHcp%0HU0#!dV^kx&}Pzo*HsjU9hQb8UuP_rB+ku9Mr~o&le<F5LQ>U9+RYI|!~@rIFDtF2
g+8m-y@J_^pa`@~aku+Az-2U>DsXHHMk4OSTpBf!uYLM8<s4j`3NU2T7_!<DNYKj}5NZ;FSEAy&z4q8
y%zE8AGNO8lStaPXOBnsaGv;9Br~{6RqjQpI&>U*t(iWG{rL3EuGy#L6G%T7wYLkW;TBM>8G>9E{a#l
PFJ7jnWY>WRIfty9+o<kR2;%fonNo!c%!cX=<|_PavMil^ZfU{d%D3&j}*8PQnRZ6E%)Dj`|Zum%{Mo
rZ?b&-?O;Bie|uZu+vAL&+#I2vefvfcRR4MNx-C;&ul)sv{eJ&jjco{T)s$Zz<D|m3#9eIs^yYQVis>
sA*%e1vsqo+4*W*-#*<Q(CBN=+IR(bX%-l-M&@UK;E4>6Q~t%vZ}$7-wH?^CtXA3Z)o69!de@;FiT$5
D!HkY63*_&8Cv{9P-vqcpYtJWdjwz;C?xMp`OvlamzLNecg%F-38bqFTNuh=QHc06`U>zU`O>Ew-ApQ
7iAd$GN49;vzgsP$p$P55GRTcTb1-g0lR(WbpW0El;46^$GFKq7%{*Z;#_wN{Jq)@C%DU@3LinoWd^$
KyQ_LKS5IF$>oWTDw=F}Vz|l^T|L}?R84rHc84TLzkar(D36O1{k@A?3i9}b<S5fH2~Vktph!;1$5L6
{rzuWL$#Pxj?6?y|X%=4AdBn%*w1a<~;)Kj8gSR}T*6*bILnQ$5iN?b0g#0Rkb)Fser>M5u;M5RCr|@
y9%(W9D7$qlq6eZUu2u}1kIw3Ccb{U`O$tsD{s5rG!R>}I1pAe^2mYtkKt>aHnXfNOnBqv$k3{K#OC-
9>a`0)w+<OF_t0<ZIfPEwp2@XaawNuw(fGxD!G+dZz6k&<n&j(f@kZ!&kaqjD%sTvcgz9mBt0S?Ni2S
ufZ%m9*ZBNovv_!eL+CFw$kqAiR96T%lf4nwx&wIEeGd_mA<aIXcmu?TOv1Ix9FqQY6Y1xjjylp4ibV
"%text.

(** Lines 6765 to 6914. *)
Definition DATA_44 : text := "%l-sKm8<qou!+@JA5Kw}C$_>}a6(z_vOB1oT~@E&Q&f$M{|{UGr}m5!n}trZIH9oiX^`wXO>B^zQlEF
}aS?~7_tGYsbHa@Ke9{5BgO7CDf;j0$sewCfhLw76`Mdlv!k^Tq#v3_8azdRRPKevhDU0fM>zBw5=c}
@#b>UY^1lM`x!2O`#7PzZX?YMyd-*|vkKWbh+Dv9_f^ydF(-gni(Ao~4Kl+WwYdtxs8BQ8~id%g?8@=
)Eu={;-$M0$1_;Nu=QRHJ`=^jMV7!#qpv@(u6~<u`e}l7%bC9ZI^*-nGqQqmvc5WCgiH$y$O$(HeA@v
ej(_QB*^Ym)xe`Rqk9>PR9uw_s%M%=by`@!EViEs^2Hd)UiA&R0EEesserw^)on++uu$B1(QX-Ya@{l
O%XFFzOp)Ec-VCdbd-c@g+6?^D<1chI~t^q9`~+vMUQmIy#DiX@1fciSIKQdqFSns<tw(1|F5IrZ;~?
J77riQ(FMgZ9SFOs<Nn`FRQqo`^Vgx@?>}vS^$a+_UoGKkSA3-^$;&rc6dzGc%?8?(ueZwfN41@`KQ{
D^MA<YG6k(FQ&Tis7)W^46dwr|zn~LJMv?X~|7x}c`pDJ=_Ntz<BtE&{nkv3|ANB5#+os?d}8uRGhCc
b^vNu-c19WgtsdI^ci^5|ixgr)lTo2q{gA3b{1EfZRt!sdA;PcQXo{%h~08sqxyj%L2}ov7wYlxiu?<
LKU|rlBc)SWk-bB%A3`K4bgW$ow@ne@)C^)BE>SyZQv^n1s}7qyD=MOEf>@>naf^JLCxF^I1S;ueYt`
?O#jtmv(d7sw%6z`B59R&5z3PGVPlakJ<xjen=KdeSfbO(NN#V^Y`vSrGOti?mcMDy9c^NexyiM{e#L
Zeek&XQ5nSTFJ&0Df7Tvp`>Sy~@UwO>@Vlv}VtSdW{V4G6y-N2HKlhV7SHf}~>`G|L+G>_``q)Gbuc6
TcZ`D+6gFOg>LzH9|NpL7L<wtzJU&W_(rP?(~L0>0P{B<ST15!~W(l2dQra<v|7lOErWl3t)s~yp(iC
gDMWD#u-X_@S+z4m^T6k6fYP_!Z~%hZX%qJ-|lCJry_KNX*Wsu%Sr`Ic3vIo$+N42sIXbqA<8EVl_&W
MW;`zz`owR-<f}enz1>ss1iSjPJ#Rpo-T)$**a%iK})O(Y;$`;eqD7UbS~)vrVIwRmo|v#J0^5xKsV2
P9r23lS6q&UUiZG)(X6Oc`J#FztnHXRZqw18w0fp|E<yCzg6eJ=DzDDxQ?rr*L1Yzo8GHZRitnG)JM-
@(7YBGfRAtP`5J0>g4t*~e%#aXtN!h*-&6k`_MbfM^)5cWf7ko)>c!iNYC4&WMvoh+0XC{nZ=YQ}fA#
j_SzXs~Ff(-x>$(O{da9bYFJ52tUcdXx*}V6kpWc0Z^6}NXx4kz{-v7BOH|`I0vAWzym+KGas{Ct3_q
O-p&6C%!d#^7(e!O_!d*1uYtB)^xFW<fUbJOH-Xqp^1O<weR&)$9d{#cW<;izxQP3m&PX-`%B{?#w<-
hO=Yx_9yV^{XE~y!z0#gJGIB^lG@CJ$dos;(bdpF(l^=$-uBel;?v!`a7%oJAA4tee>?wtLLv&FPqLj
ef9q7r#H`EU;Na2^7QG&+mB5<W3WE2+ZicVeo!Ueyn3ygGSfDi(7-;a2X@+T2lnZcA71H>Hm!ZAhxX}
{_wU}e4b4qM-!~1-F`XCBKc4;Y?$ujW*Nfhh3g#K<(P#!9p4L1}h7J#}UOf5u>HS6T-GwV~&$<L|G#j
Aqi@NUfXC3|f#qOVI<9SybOf~Nx5&da9R`Wq4hiYo|AhiSL6~n=~Db}tSHN@{<y?A-N+|bCteAJYC+B
DY)oWIz>6l+(@v$naT<<Pr!wJ3JK|D?pNmC6CCZWhQuadz=mN&bhIEsa^M^Jaw%6dM<BKyyBV$j+O!@
l5rs)&d`2y?#~;$ZR}AUG*v$XqG;{fAZ|2;+&Vk2z9p0VBpm+o<%UhNVkgsI;|SHJFS8_SZG(l$YSBh
8kiqh12kam8o2Ow&RGGY^J&kNecqIvb*!JC>(b9&J-K*)q4lD&J(cTx(QGc3xtx{@Z7i?re}e74{&$}
h)gSsOcTri;G0Hbq>ywK#sdA0}b{kGxE4>0P9O#=LH0b}N-wO!{!s;=&s@On67Y=xtD<7o>ANqs7@r<
5?Ngg)T61Z@opW6z?gT8^T@*4U{dE$d;(l-v)lXb3k^rn`+gf1L#y59tC^`ki$-v(h0zCpi>8t5>X81
L>$w$65-1}oWqCAb{T3~IkmKR-Y0s!)AfWq%3=w42&+I}yNz11&-^7UOvcRFSMr^}`7`E0Z*82Wcds3
kQ6tbIKHK%&>(G{9gHeMH&<v)8b$XTz+kaE<PvlO>D+=)CWCJyBU`6<LWY-sed#9Cf{X;G);;YIT(gO
mNd&ow7$262(>vgH#aC2>0xAM^m{W6vgyNiA72@U$Hq&3`jUD$Gz0SV-48$4;~LBvws3&7<h0aHf!Le
oq9H+(GDx2#tLiD`GEsjUcE=NtDev_&jiCt&JPm`Kr91>8j*?bD&Lwo=g3TJ&mCOLocFC^9#F{1dG|E
a8FrkR2y85)4)!QX1s**&WwPkLXXnK|Vy0uA+WCWm9T&A(9MKLs=OWd1ecPN0JO6(6QBPSC1G1<n1MW
Z?;=O!uQr^;8)4taCHkz!DWM5@RRdHVTT^>)~Q>O>x+Mh1~fXHlRx`Z;8@a4z7cKyW?=Vz<r@G0hdU)
>Ao&!xbUCJsM&;m=&j{2OEU~=UH?JQ7QI-r`bWz_32?Vn(S$w6=viEV$V^b;OjuEX+%(7W@9tp&wPvO
nG&Qt*cdf8heCVyC(;7w_OlNRMn%6c*s%XBSg&Iv+{#A+B8SWe1THqDjLp<OvzB-a1Sw;X#~9=OIYC+
3g4$NLD3PemR+%hekUk+ZVmbB@U`Z<7JNFXk_3(ss<1mUmgfEOi@c($QAF&ha3PK{;W-tPVAu;LItVS
_BbGDQvP_4EKW&|Vk(<ctH@<P7~i(S1Bl<s@yT3bmvf2%d-X7?n|vm4V5NPbQ6I$o6)Mc<`(ub*?X$i
^<&$2j&0V~tnZ#%b()HS<%s4W6$8m()i#mt;QHhaM8*eP|Ekr@d9dz{Yz9dLn6ljPpt!m7Ro%BpSQ?e
B|J$=zQR!Z7x@$c46&|NN*{e8Sx+Eu*}d13uH~DM#-j$Z5l~1SVn#V?#*P%H0^xYEv+0PtEq6%K_S{Y
XCg7}V+$k4GY|!Xu4U!yKww*^Q(qdbjQ#K8?F$1P8!^B5__AKrSdj{}aA54m%_Vf<faS(8Kx5>`N#Me
TlDTUp_kyiEcncTyW?`1r1-o|^bm4&OV<hZSzz7F#Fa&&Ge*U1-;6ErOo10mltd@dAtxGRi05ahe4$!
i*4;a;cu`d!>V`}p>OHpY2;9SCauTr+ikdR55Ec4{Bg{-47_E%tTUlhp}4H@~o;62?)^aVV_CBqgDP(
P^$o41d8Z}-Z~tTxRHY?`Kl=PWd4ojtdu!wBkg{r!~4JAa|1>6}0#u+N=|ih#<Wq-6Z`fjH!eQrS6d*
^$vM&&7xv@C#uAnvr?&QN#X-p9}dr*luY`Mgkrg1nh<vG8Qv13it(iY6>wN0>Qr805!2Sh=zG356y_Y
u;<E*?~64IYcqi_oIwYl)sr8&G=8QNANq9+Gk+K@Et2PlG_`6uw@8|Q%t8o;7J+Et+%Enh4R)oqX6=5
+Rg0DO!rlp}ZSuKHr(QmJ&*u5ijPJ`JjLo(&gbV&MsH^$E4M5B@mf1^knBnffOwy&2@DDn3257J&{J0
3<Jo%zOJCnXn;8sqsa$fS{pz7r2H#9rM%fq%ZpY*@beKDiu9FNV0`ii%rff1lre=-44)e?N|SMPXznq
~WnH_%8z7Y>;A$yfjvE|i!vyT&VCUC`FAXo_H*z2ZGGl+c9(-uh|~+aqL3!S(BI`R7+q*5I*z!OCMWz
v7@kNKnf|Su!eb5}Dy^QGNP*Z<VhDEja8?M-G9Awe+W`LF~>5L%g!}&lqE!@g8V2)+-iV7-z3a_8<pC
jMCwf<!K7I*-KXpTiC!qiRC&P15Sct*!z>Me~nE3$?2+@{y#Z7XaZE6GykSvf0F$&Z2eipIZZu(7Q3F
2i9ZMXJ&m#vyg$oLYBU9cdJS^B*JgtM?DX2m#GjpBn^s;6Zq4AnuJ-8vz|V#JEkm@3A-@i`%ZR$U1Y&
1)#dG9cy$-6c?Xg(_ll3(Rc@VgIEp2ufFR!hkMB_Y^fNJkse|6;h`dN0cHxne%4edKPa;66G@(tSKaN
|@;Q$3BVrw>}}s4tqYy=8~RsidjgGs{0j^s=R~-NTWeKzN69rg@%bC_jS5(-9Myj~xPwN9=1>ykr=RE
R5xRjxDt991Gq)=1HJu+SI-r`q12Qs3oS5JMU63QAa&&J_eG+GfjO-VTTJ=KD3x3Auo3E&_#;EVjzN!
$d|@dpD+kIVqV&6tj5N&FNaaUBpw5G%6Pl<xxlh%8UzDI`Rvk&2`r-&y|(o!h8s-cEbMjajuLvfO@uL
ns{FCOiH-M#@6MUXM=)gqhdqiYws?0UDVC^-d<0Mf&NhREs?(J{DswIfe0l;r3Y!D7gp=375>hEmXzc
Q@$(=AgdxK+*ISwA)@YZ0~${V$j9Jay}=p)?rCQg;Y7Ot=vgEy8u!EUO~)x_}`T+BDlpqiESM)=k!al
j^P*nTTEbJO#;a<|5Wy_GvDq7!fBPKpDcw>(^CfxV5_L77~~zF~vM(^7rhB;n;9h<2xFbfn`rT~Wr7-
|;0svnI0@3`x%0_y)e6xhnD2o@pa~Z?o@JW0!^_X!y6;u0pBpo|wK3h=80-cyMoVU=qY3K|N=dLq^Nf
ylF(ZBVqU{kvWmZIU}Vm@7pLlfTzV3sUn)n3ZIP$=gip3MM?(F2QGy#CgQNsDI;B!GD<Rc3A}-luG*~
4iKo3I8sOCA3kx_zUQ-ChxJ4nYp`(?_mW71MH5FSJYySEc+OY>_7J;>5Jxq4k23|^Q9#|NU>5?FD1>3
Jwl-1%;{*cE?+fv@dtna}}{sVV9T0*zC!<Z|4A7ASLgtM%9&gugvM^KhsBrGXW-(gMATCA}~ssq*^4$
A_b&T!^-mFcYNh90uL?l0xLxC}~4tI81*TD%RldXI(<g{)#G+B$@x&d>*T;K9o2UV2z=2z}G-tI!f{&
!F1lG#hz3=Nq9Jt3ONQ4{VgBqsBJgRo7&dG&EKl+`M-?LnBTc1Z6325XaeXId71_WPBL`es{r9R`^x#
D4dF8(RUn9B{0INaIW4_IF+GfiW$B7E?TAmf@nCgerKC2V32~Ukp*2iU=cqZhkz@i%!~@g_1!iJb3XY
qoA^7&<~3%=yM4Ut&H)P@GK;{7^*g9&WQe|VgdhMat-e%Qb$KSC3kS>+Gm+4R2TbAG0NH5oOmH-sGHl
@hmD(n$?&J8V!sKKEk0J+0v7-^978?6Qpi_G`ae@3&I$QfeKLJK*KSN}4{lM~PX7vYK%#3LN!1;)#TR
#xc$g1{|C=Ky;X;z+o4?#IC@m{GtI-~)=!hSYV_yYuCxdhPKc+UeHW$(H+-lKibLz~D_y)p1gCNQ5EC
@U|pPt9igEEh)ykR%|98~A8HIAV{1C}<LleCw+T74$ws78b~!ZX;X&DQ3cq?0-6JnDKi5J;i(HaGc*?
ylC8{m_Q2$CcRuN`1d08yabq22>T2!Q?Owq^}TeK5p{bno#hFYpz{GV0J()K>$1w0Hi0km!6y2&_mIu
uKE3C&HL$SBAO&W@)zKPnlzc8}WJG7^B1N2h;^N)N5pobKDko4bIp~O#pIbz}Q28Wsi0oMTu!BMbQ)R
ELX!%kgMXY;hqpV=})W+NVTXj3(?vWQS?RGDT74ViF^hUgK9No}(*bOZbJ7^ty@nWc@XxOvW_h3bFIU
qqtKID6$#2_U46-w(+cn;_Fy)RUb84@8*0#k?+%kPlJ&*C)rjH@K`mFfD2m-4Q~90&#*P4(g3^N)-$)
9}I4okm@MXiZ7Aae`WELWF%jSeh^ff=_lQR1<MyI{m@kRE+q4*r*-uSZ-)VaO~8sA~>qBDhfMy6c?yI
Bx_1f!YNgia#df0!0wBYcZ^*O@l{TD00=Czw+0g7%_E?3@VnAJv|QoyflcGM&wc`{nxUlnv=e+nf*o@
JGE<TdhZ9r9w1GlrSv|E8mcvSwS<d+R(ni^yxQ+LjfRRmPd*6iLeB1=S4gUkS?jb_UANbM+Lv7#PMp+
|pPIxhJrp}Kq-@Sj^I3ckBE*z-7NNbh~((FD8HH5Bx6wBUB#>b$U*%A;q+Boq2XsI7U2=#+VxKMh4+G
@rO%E$JV1en=l!g03D3~=XEW3tl!#W{@Utiot)DIv(5^#x5v0_lmEOay@yE&<1mPQnc3`pF7$O#?V*$
*zDB2XZ*u{lqblKtdNTnA1L149?U(0z<<L-lwI=+=&U!nW0lNs-Gy#vJ}9D3nkexBmYT;S+MtivW3bF
_a_ds%q4W;fJK-EM^XAC5XO-CO+sY|VC5i13}7PA-XK5(5|OMn5^!;%Im6J4G&G#Ie{zHllhV28HW+c
=V`w2=s{j{?efLr3g!Q^h=*nK$>JtIC40S?U_8)a7a<5BJxxM!ceJTii2Fy7q$e)jf4CWks;uW{AwXm
V%_DaX@_emxJP9f!pXN3$~*uWp3@pWnhBYs?BmIHX}KXSCm^y$Y)R5BNE?Apkd`jKW5w_|>cb859eAa
dAd7TAe0k8G?tGyY#T=0mI>A|r?89MOc9#?sn-!ut-rjfVKqRzMgOXX%+0{-ZO~7@KQ3#-^da2%8><W
q*mIH4U<1{4X|RsL5f>h~Qrw#?0LRWY=e8<tK<gvIc*08ZjF3C#MlJmp}6(4Y+6cGv_knzUR+kvoKBn
%)4JCp$i8rhjj`#Rc*TZvpooAef@0r7e@g<JN-42_p@25x^W|vzpx>Pb?}RH8*vW)i!{+-5c4%(*jvA
F+7wLiU*bIbOA?ivt^|)?geeBL_&z-Pz`i`rgnn@b!|26;<_(8x0nZzOtrtOz2pKa$sfZZB3xZaMaZ~
`eaFIh6z+}NGXFw(kLk-)Q*}!`NIiUGK@_i7SXH}p&E8xO`nlYs}J_1`R(Qh(>a4a3L5k%lLUKO7a=)
{{C3bWsM;r!|elvp5NJz;oi;)wwb_Ex`GhqqyZCiwyYx+#q(E)+E2cT^^XAaF?FBF*-=B#do9p>UBM@
fZqa4-ryUP*cYoj*^T43i541{0}4|2vFC|LM?%sTc{AIz(OH*g?+w35#OPOS^*VVs5MZrh1vkMA{571
B>Wojgk@}D!1$b5C?I@8_>&sZUOW$J>epY$p&8+PD3FiqpoF8j(FElHVQTh9mjrM`f_*^FQh?}xuqU$
uGqq135pV>nSC};T0U-N4yY;f65&R+yD#x2Y2>b{1<_|#~bqrP0jPCyc;PciyAR5k$VD9M57Kt4JpV<
=Fn6k*~4`9j?@Wy`Q1$EpIJU|?0DKh#De@o@1sk*Sn;T>sIY?<)L{ngmLJWrf3j_$q=N0Ei0p$Z9?Uz
4%CWQ2IwXd)5NM2uSICLNM|PYo^w3LWYi2HvnRoYB=GGhN4av#efKLeD1>;d^dr8S7inM)%I)^DJX_t
Z3}32by47fLAt8V7MwU?Ojw&c@xL*vk|RW+S{pF%gbaPl1{)Ol}5mh98O|Ugo23h<`p7~NGfrIQDgSx
<_Fk7HA<#7^qGg^irNZrB}}6zygMaHN!Dd^^rYQn(*cq{P@wL~lKXLx+>Qx#?R5YZ;-<rGSzZR@X3uf
UOb382Q~it`ZN6|=D|FFy1-rtQ)-l}#cA3D-frz~{I<eo-kQ^{gbu5L7W<<0zYmkCm%k*+EH1zW!!^e
OR2tFb>)suy${t2?-mW_Y>2fb*q1t{><A-Tpv7}$77=?G~8OJ~~z1N7V#!X64*W?L`frc6i{z;Jf^?6
v6#9?sD4_kfQXo&r8)cn&!6dHWLJK7&mL&Sc8fy!-_CoZ%7R%+AXL;LQFf>Q=;X>Q=yT>Q=~b>K60!B
ftX&qq|eC=0~tI<<a>O>`Zxhe%t`QWH{KwX@G_kn=67ZVcE<>=0BqGnJ}EjhZ~5{FiYrdgogXvVesE)
@(oQpH@l%}XX(UCT$7=w9@9QzaoEbY-gqeX;-R;gFhbuC1LpTY!^HD&pkZQu4>U{yj$s-wzt<Qh9_?!
qBbL%@5+fG7Yhs6cc8zHm@$g-P&7ok2*aUs29oF%_;xfNp>hHj7qY{}OHFV*C9s3x|xQMrjX&2$GWry
)s5SwiH6<O2WzcC1&AAB1P-xN5IJttLpz%wF!_(&RzV+eupzILF&@NNPDCpTs#;8z|*Xgw-<4g}go0)
>LICyzX3g;?fn)Qq_dRTjXB(g-fWZL`INAg@9c#MR#ptGG|doQ4o7)*|Lc&timJTL5P$v>wGH1m3-j&
n0x>g2lU+7!B2BYBdz_0x$7kn+wHzm>4}U1Cxb$VW?%h4}sBNfUlO4fGvE$IFCH9Y=)K<j(AGAA*Y09
SAR{wEDa>WR`6|*`*H9vXa?cPPmt}Wpk`^zVaM})P~L<F)5@4|<zX6E=TU4#4wiw3LYR<)<x-NgyCG#
|Hi!?#yo8EqP_0{E?K5_T?8FS`7DtgdnLva_VPk(sS3BX3_X)K{{3C$3q!0z4Im5CJ)5Frp_Y_u21wS
OE4`p5?{Z4?0*|9`ic`@zFAddy8Zt?#j7!(^EHVt0E$;7U!5q9?JKq7DH2^8$V(ovr<n3Wsu9$LW?oR
fr(1y7yUucd<RJ|R9gGB;<~!UrrU@eX2<bG`wB6CppTdQSAt4vaCRy)eK70ve1MFHV9L9J>NimNb~iG
0-KA=a6Ld5UCy@Wf|9cY7C?own%u0_jE}=CU}7b7f~Cj7^SI1;AS=K3yw12ogD>L`zLRc#I4*vr;OnJ
lPlvPnQ_}VTn$Jl54^7i*1md>l5j2&NDY8(80y<6@zp+$L+@Z#*y0fShg4xjI6@Y*0uo#<k9UoDk0o^
B0bl!c`_v_{R6F&)i%ALtGJj4q6cT(R;8+Ns)39u}P(^R%F?vE1f?HD2OUeX+V-#7h1^0nSMa*pm1g9
FIe%e?1gFb^1mO$!fWXFhBz)+SDz1AC9rWXouc+<=x4v*;B-N^3lfH2f8JX9H}#Zq8T3GljG6gS~{L^
~B|;llU@WJIeX+wKA@tE7Nb&5`*S+13<_Yyv1VdZR|eefjuN62QH|je)51J>v!=H|Z&33oqQ<)`$2cY
w=hiO|bq*wrP7s%r>KRi-$cFENKrVY-k5@wv$eH$oOn`>qGobqJ>yRl!jSuI2|E$t`K=<l<o-LL6oIw
v;6)K!0eqHi_-h9wSuy7(-&~o=?E7os0>%oGR{g7u0YH{OT37|4g;!C-xqODEimOyo))PHg)?}VMYPx
yQc3JS%XUKbh9eJ!)V(Czxusf28Rc@~R)i1}XEv+IF<j<^BH_T?nNWbfc7SoQ-tEPR3JYaL@Z1C@CV0
?DgI9n<^bWkz@k~y1*s$J5JvSnZK1Z}9`ojG}fiKCL_xkgdLB-D~>y<R5_+$cvGUgPKxr8oUaKWzzAk
i+iULjrr0pDYY_;F0RAb|ibT&VaA0_HYmpA{e86t5Pe_qekL|2AHUF&P4GsdiwHYXM&_=9G|`gf3h#V
hTw3QBZa@kd%#g`~$o~6zj)(;vAW-2xi0xS`FZo$0;>BA*g5+mB<&EQH|at&3NI+tAcY9zJ<E>B8vTB
WcGd>aaD*h5TXRYV2Uz75wVJQOpN)HFF#{M9rcf?*;9@r(p)vTfNsH|dn}Ib@Sux0dtFW#%qQX!b8X;
IBJq`oDG;YuolE74BdB;*QNi`)k9C>*WU@x4{Q3t8k51UH5q}_9OtBECEBiQ1!0}y<0Qq|H)wMOiXgL
?F76Z=;aZUp-zWxKA3b9M~0rw9T+l^Q$Wpmkn)hE!xfgurN$*_eB%#j6ve4_X^tZDxRkc38>R>SQ+4$
FWqRneQYF`o4H>BCi^p9Nb>Bb)T%iZ!lTuq&l5P~8+U;MFR@gA%JHm|U#{oC>4@fhKH)jH+Z4X3|%`x
A4{P29^e7FGm22D$v`s+!@KAz#~}gvUbn!)2+Leqe3vQSsr-bBv%L%LmlE_3=Kx^9Bj_jUO#3)@juwK
t2_t?!&;n{7IfhS8{Ip=5~>j6hCGzeg%><QEfay50x=he84ycG42hw!Ku{Y~MvPicV+mb&!Boq+KoCQ
sZ(}MkW5k5|76=4YB?kMP5X=?yTc6fbPT3M8*d8m#`ZeRXMlLQ6#n%_G9cHFyYk7=>ZAChQ$VORPuhv
IEAfkl}iEHaEd!ujH;+O?jk=GnBK&#@(db9Q@o`k5$nm%@fYfo!ZVN82<<r}MJv%^jl16BB;h=~OV(y
qm}65u7Q8j%4rv@kSTV?uG)WVBBsi8owHUEA6c7{s}eWw2iRUi)7w_Z+4q9_d&MFC6nlmq$U14@U%0l
<PFWz+qz2-vI@~JCbbhwqwx?7|f}i0)==q(s$N$K4F2cyv?#{0GoU5Xns`Xe#vSrUegDMTsJ;Bu;w%F
0JqaLoLmD4MRiE{NBmq^zgcR}2~3%`ctvI{+~J7m(;vu@g;lsNg$WoSS6JDY_Uud<$EMqi5M2!9@m1>
olthISNLGJkp8CHJp)eg&a2@BRB@)(3ycS|AksA>KHj=#wlAK+X0El$u?AV)No1}=Z;B0vl<Q#DwQ#B
kI9y3^6L7g#%?g64{x>!bW-i`b+g^_?wtZWntKUxS8vLu|c!7v!OQN4-tkUSd1dp5R?LtU3eEFw+<bt
6$|C=(GIbTiwQ2y6}UBKs!GF5Rb;u@Pvz=M@bkP;MNpL1pD_K6Jn_0WeMC>#jUe)@M45z;8Z_6c=2|-
hAF~kj6{L2MNcDA_-kMV54a0;|~eNePRJzxKOeSjFcuE^}%UiqCKR#282fw<2DKC3YVy`91~lfjASGn
-3cXh;ebt)kUqYVsQ<CiPSoNU8AF%sRtUb&BPxIoT_|7H2u$+3_&y4TTYf8KNpM(F6#mrkls*DOAI;D
x?SA-6nX{=reLX4J8b?Vj-E)BV=Gd)I$JKP)fDZ`NkEKDZiJFFJh^T)Br{vc;4Ax|qu~kWo@+>R~8uH
6Q0U_cwh2Q8dUKN+?ER_cN#`t>yf|Clx$pHb5XOoPrEif!Uk+K5Z)+uP7Kam1GnshZ>?c>chw35(;19
sFBrlasrs{&)o#M|r|E+X&~#$emV3qlnfv8C0B5!b$^k$HxU+Qj-K3>XrhPJ#cKAfmHk*un<>E<Xt~0
i5)hY3_Gh4H+5vofjEBn)kai<wk&iccukg$xp?=VEtY8*9`Ne`1lK?x`I=b(&&pz>r*D@Kv2g~kKJ*@
(d9bFrIJ1!eP4>CH8Zf6!a*?ted&x7Q1&?C?nL^8%>umekqV=Z$jcx>%o4{SsdyO>?|Y<VH%<Y>DZ>m
^h?D^%xvBLb8?YGIXWC<+)b54&;D9O<AHP9>Ar&tW&KOKL3<nHHNKh0Y$87@W)gf#4>7@WJTqv8heFm
GvCHjU<1z+KbGlU~Fh7l1Xpry&8(};8rgy3mU*-N4X`4n^b6sdTlaS+f9z);{8q+C%8cs4c&A_miw-I
4T2(xni_5OBK5c8(WM(xrKr<-Y{1CjKkIF0t>D<SKZPLQe3CSB*IUgC1C)NWzM-^h!tw3=w^TC=HvGH
t^0G2wX-Xt_|Z-TPiQ+g#u1CIv9-dNSyMX6XsAbYD|su<9Qf)3U@)K9j}AdL5pK~VewM<=ER=wWYH&m
i2@mG^bsD7H?2_Gz&R6m9H05vPe4^n9g2n#qFFjL#nmBMTTYhfO}SAUh?Q+Z)ll#Yx|3sv#5l(Qh+8{
$NX-|1C`Vyt1n1ZxQjJnOb~vywh~41bG=<`>St>vwId;gU3Oi0SVWf!1Oc@hj(K(_ROpRkC?`jIk#m+
^QA|L}Hwo<Yno2!nmd!@E@0R_7DHNB>|CB|CET6`-;!4JNbqTx{5xYv_zmMPsPgnS9h1uW8sKTwC*2x
;|I*-*&QpnRxQbYPAEaGG*<3%;b3%CAA;U@zTf2L$;>OA8T%o7jisAQ^;S#B%2hmQqM43W%N)^r{1V<
!x5PaxwLpuyjI#b9@MspYfi_^>{yJHL>x&FIAm0(Kgr@So-IykdeO9#6q@r6KBb&Xz?<4E1(uA^<hqG
"%text.
