(* ===== verification/PipData6.v ===== *)
(** * The literal of the pip installer, sixth part

    Lines 6915 to 8264 of tools/eposiotgw/get-pip.py: the characters of its literal
    [DATA] as the source has them, line breaks included. *)

From S2P Require Import Literal.

(** Lines 6915 to 7064. *)
Definition DATA_45 : text := "z%iw1I7IftkPz1U@sRrLhA&VIsP{KZ`<=Kn`(gwYnQGP@W{JTg95`lA+m1bC2m-8gQivj@n)ayNUT9F
)Ic@U1W#w`KVsMa}-6!85r)4>W@0Jz;n<QjzI(`gvm-q8yX@`E5XATj=$ul8_u9lW1SO}wOCg5Z=VV<
lHp@Ekw2Js*Gxv+loPC6wppJ!l%%8u=;vJrgdfn_&PO{{?Dw0GDiAXHZ_4o#>Csb6GQYA`)tF=jZD4v
}h^9`Z<<mjR(<<{{d44>x9(sUQwFEaaAx4To?(b=<Ln-r@}##3BWdQ%8mb#sla`gV*2~k6s82d1h0Bl
JayA!UV=?SdElgb1ac$8si94--v@knBWT8Hso(12e3Z2?1>n?yOr7dXgUsxLmo%gt4L;%Z*40F)3L!I
Af!}%*rc8iL}4r7!iCanOCy3hPueILuRR2W6hbY&rs8u6UASP*lSY7|g5$X(-1n{!^y=75A`TdQ3`!c
(<)tOSxZ+MHQQO_#|K-DN7EyZTki^K@CLs`eUqz1kMz@Qyea5Kj9V)`}!Z19y2d%c~Rxs{&Z4Z9<?gi
%n{7rmXX(zsI|2OeTC55{dNKw%JAS*6u?>fH7it9N$@%>V}YW_f`#nWr%$@-$&&huJ6ZvO17H$4d<-;
e~8!4l~VLtM(<SzoLi10fzjvsmZnvE~Hj_pz)FS?^vsSR*%z3$9W=f<>4TZx>9bv4G=X!^OZ!$9d&$S
?n8)-)Gpu1s?l4;Lg4*Z=uDdyAgrKw?T<sej9WOgt!TMF5vPisLcW2?!$DldWYmo^$vb1*n@$IMWh)l
#e9}D#|e~1P=r(z@V~aZi)A9L)io=37oCgsIXgI@5;B9<u1{vJjwQnPCC#0^uNhsv6NztDLzF9qWZ)g
Ag-P($v8tT(Fo&Wzf)sW(R>zu@*ovUJ4=nOXNK1-D4^m7Ua^3>m-`c^YKo-d^p`*2spwKJ`3+zZ7s0t
Ch0I@hJA@wg#KCJPQL4K->cV-MD8AEtIaOVk=1_J5J&WMTP%3rI90oshap+JYCIEwUrX>=$3G^~rX^i
s3i7zYB5kwR!=CyYDP?wBu-#nz5PtiZfzC1HH{I~Q<1{k4Wcqvav6hu}Kss+pd{L@1@k;MN4fBnrc8A
{20L#llc4vBXd-kaxaC0;^JkgEXZCR*6IUXRwO?CLR&naW;lp57rp%vsAnkfqA8C^GHus(C|Rg!3a8G
vUgr_Z(P(C(_0;Gxm;)k2$l%8;4O^`j^|lNBfC10yEeDimG3x$>K5xo!f8Y>mGr&<BJm0;29OaLK>It
WJICgSIZ)`&_;jqz3U^F)#1=eYFxgRK0l)Ghx)|t?=i-W=ilEQgRv0qkV(KV;5N9@KFwEZ2)&ZiKnSd
Yrz-@!4&N^jD!~2>I{j;yXlXG=sp6M+KL{c@F`e<(_V!#jp*YIQCxoz;=N4u=(qup%D$=oPOFVEs)?2
ccaWiTJCP}QEt9(j*qJn>JPmG>z~UbcdO>%amgr<s8Dg85eh#JG$#z?<<3!HK)rVy>n0h^nt&iUW6u_
%-``ku{6fXA3X{*Wwn0U8+s_w&7MzA@;0mHqqvNDk6@b?fTkKtP7W6OB<hy)<%So1)YwGN8myWdn4Q=
%+-x_lSYi7okkS!f3{?IvlIS~nfJ{1G*m{ZvdBrxI8~Ox-WR0!TS4@6RE8W{q`_sBL(5QdK+TM29j{J
h)|ZzDK)~b=peXpU-63u#XZq4TjyVvQ%3|?-X>@<Z8R<Ca$ZWq4HBtH_W&UTBstb=N<5XP+<G2S0B^j
r?&k+F4Hm&gSx1lrtGf<g)Y6vrzijES!c&cfRysM0}ap{Z68J$%jTP>5Hw#LMYPg~;<BeOnjO+!!H{v
2=ZWY%+=K-kU#A{gQj5fR>OAJd~tNJ!1(vz?d#GB+TB^1UMr8;;om98M}I!t(>1Kvr<1Dof0&@oEBwE
j++&4O<G>!UZO4&Wgqe=9I-TA+Ys*1q@(LpI1Q7`F0U?guV;Dnn~!w1>-W>5Kj?gYyeCobm0N>!5N}W
H6oysVD#1G)UE_<;Q+5`k&X~q6E^9Dpg}VYQ-&>kKxt2N9kl%fP~EnVMsRk{444(NS#4@5gpDHkH-aT
iX7)D(+aj&2k9*y`mgpI11ukPejNM1Z``%WqV4UA?oDvjCzIX&-zcJ7DRq}>m+0dhaQ=Dn<sd8|il;N
i1D)gS)1v_c5!^@O(*`-F%HJF$&xKu5QH2UV>86rMC0kc7)==dpSxF|7XOk~VRdf2Bz(7Duv5m@l&qN
Z*0Y#MH(*U*Iz%o01CGN!yiG8qh+{no8U?{FfH05%<!Po)mKs8Nw40bDpxO8p7|gj2L6QVR29Bawj%B
!kJg1wlh^i*aZr9B~VA*t~@2Z%2kY7-45IVV|q8?1sVCs8Aw3X~rlK41@&AH=Bn7PG>X3!0y7^I45K=
znv`6vzD~1)Q%dYq^5^4qu8z)4Tg*=4*3cwn*NMVO(O=EnHSMDP=}m!JhEZ-PAmq4LQl8A#@`=yA$x)
bab;^))A*JDBG{F)mduD;$%)1Of90@imiW~nDC1mz+mfC;jTkGIG?i;JSN^8}@naw>V45iKeTFO~D3|
vqmVh&O2(Zj^Hv^Q*`xAzVTwIDUx|Kg9IvmyEzyTq}r@|*dM7Xp_AF|G!n-n9UI9qVeV7eDEWH`O@HD
Ng4m!OKw%?MbxIo*t4C_A)624g|b&nJwaD-#k<HzSZ^V+Uaw&Q~d7M(|aNfDwF^B4h+zr5FpY#8rwhW
B4kCV2gvofJ-4GuF3?O1a@f!--#1$l#zES(1^TC0j6-5;=cu~CjOORe3v3*xVTFZOAPK(;8H*?55kdI
oLgVJKPLp=rJw>$s205Q9W1mc?oy!ID3w<uP_eva5eaziMQ}zVhBrov!hqC=0*h;{OUB4+t)dW3Ihu|
`e1j$+aPtBw4iR(n0x7|)<aLy{lGnkay_-P$iHvjvF>;ZS4nsS)GSbmilOLw`H>xJ1n|%O#PE&?1Qr<
ur2?F00lyKl9p+r0ChbHh{LK!<0?hTSq(0DJR%ms<(f(a=TP2sy?Le1cTI=U5+>-(wBQ(G7&nct6&r6
RW&t)!Gf3<0qc^#>9m6ZL`IiKpZtx-vIDA~@&96TQfdhZ>N1<x_%NR?vu0BCnj<u=2{WW3-JtVh9EOa
3d+-+oz?FXPN#D$*_{JF|UqUhJLfk!f3bI)4vjgmEl~#b05M=UxrjzLJ2O#d!};+a|oW{^v>yw;hb(T
M_!6jG&1EFg^W8ifT>VeMw!um#ZnB0=>Z+WBE`B0$)y<s${x*(z`QNOeU&G<(9rTAm!M)3T>-&2zb8}
;J6=-)Gn>>=>3Ge7u%&hcl<<9sCEBggUykF$>Cs@sIs!qCfj}yGAyd^b&Q_}0gb`%2iULC05+-ajPtF
;(aDmN-gcgA4w_m^ohB3BYWgbi!we!Mnk(~}Zv9LC3#OI2xH{Eo;zM1qXvb~Cp{3Oeq5Cq1+IJp8Nfj
Sb}EH>@uCn5qZ99XiZ=i!j1P{CI~3<cuai{NuSf{F~wfDn|jFk<kPA5L%d#tf#<F!c#e&uB#qraOQuf
>W9%GDj6$Zct;w$j7ZP4jp&di>;cfV^X;diVZXc{IFtcKS~QOI%H#;!0j9{oNl291f`H#$Y8o`9?Bac
MYbwgWKpa+WcZc<^og!9gE`udxp2${l-UOnc$(rcsz!)Ms2JxvJ}9pE16#NlR>A3nV`TN4KO8!Qtx>_
L*w`*6vSC&N4#~r<)CwW8K~^@3)`=`f{0Rmq>jaj4h2Vy)GFC%W4xjF$O~m@Hs6@clAnCh0c)=ZUkHW
FTpe#G}dgpr3-+INV9U^V=8?XYr0vxhb=0TN~Vt)qNq2Obfh_S6JLwBfz#0&|_=~Dz|J&ObwnNT%lFc
%=re^~09Ccq2`LnaPx(`h)h5fEHx&n0(FYR@@gWS*BqaPrgCMqT;GMdA2^Rf4}7cjfOCAGE;S*9iKWQ
Y4z<?<UcRhF+`o5ITnwGe$ax6A@!YS{fsq!-+s(#o@$MpgIgvh3c?74}cCxOyEvVX~RG42epVV=L}nT
fbEONLxwFpz)=GmF>K)hV)_}%NqPhpD=B7#n0cBkPUt&luvlYb!ffa?{ydxu3^&5H$-Ai}NPD?rd4zb
yh72c;xhAn<LlP`2H&G&ZeVyB=EB`3l>vHMfuKcWvb;*+;25u}6v@XGe%r3(mSlMM$M$o1t3JA}JFgx
L%U^RS6lP0i;FK<=Ag$-4k&Kg5M!oF4p$asWo$?w(!Y`Mh~AcUif;Eb^Ej7afS>po6?$~dJX*b&Z?OW
S)gdZOIKd2GH2F+^5Ng;-_uZ5)B)2k&MAUVKJ2S2Pf)YcC=RFYOz1GlBIxH3}uZLoo;9l2bpauFjgWy
gB<vfUN>994J3!H^k$SRV=8HnR5YLc%kI`_a%ZZ7SSwe6g?$KWxS7EmRXE50;F`6bjpic*9uCXKp(;9
RtRz3ct8ltJD4zvvP}X6Wy`D}o-kY1;X2sLg9xVzaO>L~WMi))l-8m+_Dx?D@+C;qn*bg8(X@IS0*Wb
zHcq5YQ}nMZb6PM@t9lZ1)v>=t;l&1slPZ+hK}O6*L5^TV@RA><z|&o2zK_2ourWrsc2GKQz?@K|w;)
j>#DYL%DW9movtH#*f^g6fhbrYwwuytta}O=HNPIWZ%<?&iy~oJ+L7aRW0XcBqaUh`!7tFg9s$Pn>A!
CB`)BbqB<Ukq8O95QCP#SY^Ex-3S0bFDx<G$uWo+E-q>vW9}*6v~?<iJV8a|vBIVDV``EZc*)g$YyeA
fI}|q*@=X3nhY|m0^_lEE*b@?>8A$dJyTrc<;%iSq4OE9!dsGJTi+T?1Q6O&DuHaElJ0O?LFV3!#wYO
ADW}#ZSmG8J~7TBYj{R*&fJ+W*gU2>LjK9Y^2@nI(>FRM#7J3RvWp~wXOmH4Ho-C<7!D8;K8Q0L5=lq
HVSUT5*+Kf`YqvOtKZs+Y34`hQ$80tSp+IOnkjNV{Y~cXy@7@`udM&h`;pF;zvOSQ4roqUDhDU1M$N{
}-Hm8%o5Qw}xHlvX88C;C0LhUkb?cvr_pUe5fIT}ImDZ{(c+OCDp=BoG*A9m2S&RiCu`yrz|Q4blAWF
iiKc&J=Qt(%BFHit^u?h*IJdx2~@^iaqPV({^=IRzU9<z*|t>0A{?s)CXcJVX+fLa^x-0L~vc7~)L*I
yO)J|1W}-7R27Y&>L~vn+8JOs<duFUd#K4*8Rb2N5NxRc4T2*%eTtFo}-*FRCbim5(7I}=%8i9!h?>x
CGktL{t}qAI>+Uz8*ylhY`L2_Vz&pUyz(R0NT#mfBnopN63W&e;BmAYdy<Wwy>TW4g}gOEG?9~algD^
LTp*k|GV1V_k3OI{ZutX*6TEeP%SRq?T5jdnQ;pEv+8s8deanwsoWo$fWiyK&O1z~nE1IQsn~F+ifQw
4dC_Rlt?=0Sm$1#lf-tz6Y0HSs4%+;Jw?D61Zb+?&tY;axVHWyt$P4e5XX5+YZrV@iK4x|E{RoosVS7
RW=v|&2M*VNGo>vQjBL_V`i5=rR7111N-NY-b$EYATaYBM*V&DZ581X?&STmH<LeCCgjAT9E<Gq*-EK
RY9D<nXibc?fKbq!q&!Ht>r~jlrdbFEUaGXNSKTjO@!V{Fp25FMNsP5{Fd-Y;s>j0L_fe7kkvu06WeY
OzTs{1ALI<i!+{P3conxiSf8GUkd9Z;r7eTj=;Ki|9$VCGUk;37;ocU`BbTnAk<&Y?fs$mUsaj@ZNH*
_{`~o~rWyr`>JIe#fX(_%y-%J3HfZR~BLE$+VN-VS1h7#v3+A{|!Nx7!1z?i~W+KZ9Hf>>jz|LD3wL7
cZ7(S)4^M-CjWuLTO0KvX*>E?hvZRjS%^Ru?UG*%a_gc0m{OZVKs=KTgXN4xVuI|ehr%=m$q`KX0qKI
Ufp(C*xfA9$X(<7cv^6s#RTb304H+VOivZOq$6LiL&P!`RQw_+ifHX8fq#cKqhVvl&0g!Tfm(o7Hk1@
4_rn&IV-pfm-MfzUw^*_xg{z;DgzuU&Hht1~zPAL%=32Yy#MM3qyU=w!SIqn+{so0I;@=DcYEhTG$A%
w%sY(olaZW6tH;<o42rFS0uNi@nAlkX<Sf*N#fvUQx}&9%Oup`q{wEo$^6VTQ`0#Gifwk@pLt6xlXca
D>R*CwE{m{e5%rG-8!8_$E@F*aFE0&r-*2a{kLe5d1GVyNaP=49ld%Tx%lc0PA5G64{*^=w$Bk$ViPk
4D;eOI@rda=Bpy%h!MCm^abT+7_<wn2ObW@xShLEUQ<ZRiih0d0~TI_83s|C-Nz*_Wd8LWlRmcm;6Y&
on2(3V8~W86Z=40R>67EN15YvHt|G~CZeQ)jZ*xrZ<*+#VEukqir;;Dtqe2rrwe=i|A6?=Pd(w){QV2
d(%i;BUY0L9|}#i+DD##YTC2+hAA8|7L&I{4nTbx%G;!Ms!H8MtMb2BfRpb5ndUo5gswA5I#w%5guWw
5gy5?5gy^F5gz%d5grk#5gsWilxESpl$wuP&FCLub_~H#Qv5b_XlfB?Nz^YUn9S;Vp7ouXR@hYE3><V
WYD3a8QE5XDe#H2Ziyt$7?BXXD3m%dwS25_j1V<D-h{Df#lBSYu;*#l4P+c<3xl6N&mw9}{M6^sUvt(
9Hi~i$`rbO)xlWBjTwyJZ_!rg~T;Vy%;tT~kWS7DWItseW;Uu{1GsjF}`&2(t-C-tEwQPxDf57x1FPf
!GYy<N2Xk7p|?icPXAf3KBV_4jZ3he029iEeZ-IFzfZP4zF0>d|RwkU^0IJ5Ss3GK`Wi+%IECleDNXa
5R=dZ8}SBVn=7Ss9oAw;i2e6-IOjW+y;Ze*ekX*ZswK4IL*rWumg7pYsDf}zJIrfZ_9WW#gUqz+gdEb
%Q#wP`8Fukf4g^(^>Q#%jzz6j>OT#}v$J%lA^oQX>0Emi#^2>5i}C1&w)p~PH(y$4$0pag#VLf(66@I
aG}yE5IyOTE_E}?kXX!S_s%_G>$11S9use3!j=i>Hr|sBhE3j*ob!@&JTW`n4+p+C-Y`Q15+|wKGiS1
TFrsHXnUk~Q<fh!9Yw$=?cLd$FCCfwrt{{7FORjb3}B<-GatQE154@Ndx=&8ZjK`SO^$4MpvJ+aYpm!
CT5VZT2(O5(RvT4Xx}T?BqRrbVjKvttB)E2l-;rELN+GWNhs?9w)Y7&v=Srgpz=0)afYk#=dDKrlA5k
v8Wxfvv>saha<Mj?sj1Yc6@EF3AVAR_zdbjURN$ghtN0rd%QAs<fINPP+z8BRl6qAxE79rjX-tmmFy1
?8r!I{M<1BYQ#kFBb0~2&gVzQcR1``wMjmiS^Ikhb>lQ07PJ0!FyI5gd0ZQVqA!hg-39kr-N3nHlXj}
*)KbW%)2UwrrGC|t`gKOy=@6wIeo)$>caM8`HMXlK-JahOr|*crcih!G=H*qmV?C7eX%@w{aKka%;xg
F%o_PI~ed%{^x*ea~Z&w~MIgdI@Wm2d;uCZOtO)JN}Cy!Ne=!hh#a`hgoE5KA&;M#wx5ohWL<5I?@jG
MIx)4^tP)!a56ss3`11A`p6$e}?FUF66hM=o+~kYg7)G02IFoEqfRMV=evxr>|`q&*0(_}!k}o{4DQf
8V=TW|#5q<L7;h`2PK8Sy(E_{qK7Hy5xPFXer>J0e(>aS}ZWb7E=a!`7zLU2}TX*Vi(nbaSPDz9Mzyn
+e)_8$7c#MZ6H4cc@baad8WVcb*_&i%3%GGSzhJ(gM39?KKv`X@>g*1>*F578#aEe>+krVDA2O`>#vX
Q-MhEX<5hB7wXED~)#$_P$Gyu(J>{<UE+6-<d&#c13$}5g$ENruDdTPN@R2Io7X0h|O<C^0`}W(Lo11
TLM&D%l`de+fe)}dUH`RaMyuSads{X$I2>X52WS9m;(R&t@!RxFj{u1Q7WVe3!sfhFD??>NNo!KigL;
k+Ho*Q4>hVfp%DD=?$#nk^BP)h>@6aWAK2mtey7Dokc9IXFD003jk0RSTa003}la4%nWWo~3|axZ9fZ
EQ7cX<{#EbZu-kaA9(DWpXZXdF_2`ciT9!;P?Crj&f!r-?5ZO_q?+0-gRC*IXAD9cpkgHIaykSWR59P
O;T3Wefqy|RRJLJBtcnroW8A-6H6pe01AadRiUadFN<aL>C=2&uS@pnQ<N@OMOjDjSyg1~ntkHG52GZ
#OsllW52JOS&WeP6%F>#ZaaP@#BZyVHntr-uc~X?qD*Y_sY|{Gt(~{NkEQ_n^&K>c%-mVz@qMB1#HqB
S-x~fYSFO4^Kal!KRCsvwOpfEdIr&+>E(T}P6X!_|au9z(RIxa745bHXXV`!euioB}hyq3?K-?Bipif
8QUd0fUbKtgpG#nmiL|GrwW^3khe1Fd)~vRN8u&oj1U9q`XtoTT}puh=Y!>sS^#j7sgduM#2i1SjAyd
e2sIS+VDzXKYo|?B?;3(dhhrtC!i!yk?6s#wzcMG_Tt}EaUoonVqoDwXcj1Zk+skUDYp&lBJ9MxUS3e
3<$6S)cRh%j#oZl&+pv1ldyS2!y6~X>`<kZqY=Yjqr-^hK+AyXqc=s)4(~+Gr@_PDPF}x~T|YW0*X-a
i6&sC4?+|ztM?kXxA}Y#go@Q*4r57wJ&i>72NYixzC8)L0h$_}+(UC^D(*>(f;P(^$d#t=Wpc*TvfZd
?>;QiU5r+dz)97f4tf#=a`s$irUy!>*YV(mp4FAxAP3mC5BG)LS4D;Nz$XE0iC19p5PZ@zV)4tU*pk$
g(ntN_|C%9i<!=j(iit3iyE9!Af2L6(e>CyH12L13Rg<!tlm(->hK@(MVJ!wA`0C7wJ>XSGrfKXV|(S
T2({RHOL`B-z%R0uNtSW1~8L(s=~@o>tY2jhotsoOMrMh_RgLomM|>i${?hdJ72fWmaf<b*lCKBh+sm
XqCjQVUMQas8T1q!9L6$pAUtS_!4fHJHFyeqnt)RFrb5&_!E&UGJ*9BH_?b#5^)9C$)aK&jaNlgrDxf
;>HRX!V2+k7IiLoSHQZ?@J<Zb^hElO?&es`VPVF{$)O?#_^%MEavEq<7&FZ5Uuu(JL!ocMRJ3K6_1uv
+~sN`BLtY{LIaf*yDkC@yzqRlzWVbFx0h?ON!U|P{KS;Ib1B8DXxLf1s#O)O=x8gPY`MV28ut<M=vEn
<+W)aNk@6j>IXwRFHIk|om!83Zz1jeA5h=;ayobp|_H#S#Eg7VE`%Qy+J;KW6FKw2$Wyr7MGwIH!^D-
ctuxWpSA%L>DauP-!So@KLo*O&fqG=YX$eyv5#@Y?Z+zCA5&)bTLI>F;E3HxH(T}=ZLCHR>F=~6-xja
FA#j&J=lP?Ic$F1jo#a{2mi2R^R%pLF?;INH3R?@ITciJB*>wKoQipZaUi|wT!G$nb9S+d9O%s{6~`S
Mye%&$<`bWkBSm`D3eqs~{prU$`kU1`@(g&B!1%_eW6nrsStXWa)31XAnxW=BP@j_($`1_q9l;*cVmp
xR_v3-G{P_kgS|SQM1h~L$aL{rgo7=J3tiBQRW%(Ldqgd<filo<s)#AZ_{Kv&6E*BN7d>t1}%dbJ^2b
46w^<qtbph)xGGciayj+q+E!CHH(OOWXLw4-gl4F#bfsQtQAKguIMl?{e<tdy)`^;lsnu(~rA;jEYoX
lw7Y1Y!xuepM8!@qzXJ3^013J>_fO68t@&wca6h@(1`%*&~|u(3IES5Lfw7$7OvIFJSVCg#Bw#dyy3j
dWw9j$g?d@OhQ^E->;%2kfp-gMnA68@}e3=_oGpkE@6Eok@6@n<S&zam#erIB(9cHnVY>Hbgb#`C6za
;0mcG~;n)y-EVv|}sd}7eYFZHhWHb`8jK^FX{D3cY3do#omiuWm-r&{~*6PtwbPqN<(2=0Zy<MAZAh;
T>m<{%B#398Qtd3-h`xOqIKXsK3>V_NH_*tRl!x|TDG7=2maZX2P4E7WDH;_q2A3aq7f522~EF&h%So
iJ1eMu!@btA1RrEIiVq^qyd?oOk)n#R~;W9`Nj-|nCSZbQavKGye7p8?`Jip@*h^jZD(KjA&HMgIPOg
PgU3(QO;n1j^bP(eYgD8YY(lDd+@b9Ner)B!llWX~AjsoK}D$VKc5c!vVn!HM)dRH8NDmy}79Yg1}=?
86N*X9K`=4X$WBeb>&43)uEXs@PQ=SvU++)?Uu@9uq+@06&@i2+-qp;o}p<8C5Dh@JhNyP`#Qz(O7xs
Q_}H@bw8D8eEjFS9jFXwtIP`NYo=yp$u#!h{4t=M}lg~iEAYdleQcx?AAcr+ulhf&ln~z2x-6I7NQS^
R<EK5R*6=RX3QMKW==xGb<BWzxAUS+U&$KEa8wD2AHguU?ynbCbzEJlZbmendtXM~sgpYh=z5IYB5t5
J^D!q%aNK<q)MHBO!1*ML~i6diUs?<^1LMu6F`=}aT97z?zur;<V|C3iAao{rkL3TynJ+hJYxj3R1fA
(A+2iFZoz=Xv5O%-<+QpB76TvvU~yl~VXwF+(-iRam@I3X^H#IZ8{e^6gud8Ka6qrEsE%G2}(Lj5FX2
2|=+8Kxj&-RruOlE}^z%1c$SAKK#tqWeMYb!$qrBQUvCmOVT)<Jp9-QLe^VaAUczC0DseR6!o#fX`lh
MGr>?D0R6BmU}V8KYO!@X5;N+uxbebA<}ADIYkUuGN{*E#P!<_|JZxJ<ReMa2FQEdkrJsK}u(btq>Yd
ne%T!_j<Ba8F_cR{hz#hOZ>E*EQ*;I)JxJSIs>h^61G~SI)#-}uR;N3Ymu(6yPooRGd5=Nra5t7X4BP
|kGf%CHX3Dz7;2yAzYY`Z$gZ35ThB45Vk1#Er?T>}#|1(3!D=R0)r!-H;cV;|aG+j94St%VaP6?pK4)
vL?JsJr`Onw|1X_yjj7)#mrm+>^W*cCQHh*dnt>K=CarHxQD$#fjKcP%-(Q;#-%JdX0|z8&uf<S35x7
MiXiap=CI3PC^=Avuqq_+o5#>%&;z~GrLRMqW+*p6`^5=CVA~a4XUEYF4N1a4{A~sV0LIyR9BlcEhK*
KD_I6EjHg*qkvQ+{0~SUOY*#p*UF5|kW66Rgmga#UbEh5Uz|Ag;G?@rFc!CD02`CXMo?J|-B1@BXWm{
#f&(ECKJ=QtjF9)i*{-1cVf@)_5GIKNsZM!-LO((7IRnhaeFBEZIAXMtf@<n6LR*Y+0hHI+mW9Aj6pt
-O-8Miz~rv<e=#XKQN_w5VAE|JcC?a}m9Xsb}I3}U<FooTfPOLjH12wU21)L^~UZOXF5kcSE6Sf#?&i
9ol=4>PdqW(eswK(-cXwves@8<u4gemF>n9*Q}HA1C2?6Z#pbZU!)B;e;T}jq(7EngF<GjCWBvhC^dW
LB`)WYlefRfCkYdvRqd+9i2(g+?<gosLit0qJ_=K>eDECIp<C;^OPlryiNmL9Nv*l<xnBq1z;*eN-E~
CPPfsMx36(XsF0Uvc*$bEtHW-;o}HsdNQ#Gzc-E_^(OiFZ8dhkQ<;jZgOeOH#!F9UeJ})>>hNxI&P?8
0C{F#{eu}Nu-`+-hzmIp?!vxVMUG0JetoQr<=D6=Wh(o}m4G|>!gVsZe)y^;YM>RJ+LYjo5MdiWuY5E
*vF*O-w0@xeX7z`fsA#x<=B&cZ_dUb<+!A!U=s`9>-%Pxu{;t4E`M{p(+obq=M_P&%O(K<H9$Jp!$@C
D*$Vl%}~#6BeTt0%mg=U$7P+{LB;d!r4ys0rT@Fxx<a!*3uP72jsMJp!BirjiNwH+XX)nH;j37+TLpP
<L9Rhu#eI2TX2poj&Dc84}>-)ZM6~&|4|avtf@y7(Rv%uW+;}3<_eI`rQE@75-4H0jbO%6q-tf5$K=|
>)5nh|4?ikmjC9o@V^T9v?$^gP^wzD<GhpEq!EHiEAUYA5&<w513}h(f!QbD%8vUY)1Q&<VB^`4qP~6
^6fRzh!BT)xr3oQD0FF#6CS@Y<^mO~Sk*@X;jeE7!?gHfS1G-_<zLbe=f?o@_U+P)+jP)j2fn5EI1YF
@G**RcM#SQ;O^XdXC916xO)EX%$VKaG;JIGf>7E*8V@cw%Lh$<oydXk`s^Tv0)I@D3jQogSE_xl&xs%
5+uBv5AKt=%H(TvR1v#m{|#*x#}e8d=7kD`k)de@<&hQBcleY8gjJw-8EYF8CZOdXOva3E<tEUB&Q{)
"%text.

(** Lines 7065 to 7214. *)
Definition DATA_46 : text := "D39Bh@8!$)@}&U<a1A8^2G-&~ppLs#gIE63iB+;!m28g1==*#4Zk8$IBn5=gp$f_iR9HMbX&!oNHNB7
zoc*|f;j?TR1F3$-!u<DZ{@Ym=;btsf)aPw^1pSIXv+8VDXhN!Z;q5#A!!A{=K;>hy*az{;E?1|^rql
_2H_Gt7aUOu>`0r!>+boNo4Y2tF$+0+J@YN+B0@1N!dT7*IlK=ZTOBd(V0{{It{@Yo$nG62YITQTVCQ
UeE`OkmSPpf2gA=Z)txVjMLD-ZPQLM!Ynm9Lk@47O2@Vfgh{{4&ZR_h@MVf4OHL-r)K&J1ZV{^;Z<pN
MAhjQoeX^Hsgj*bQsq}^!&$h{V!jsty=2;_)7hxmioU|DRd<$FIk*{CQc>AgJXK&D~&=)O|q$0haSJD
$5u_E-%HlwK|XO}0+<jX0sdO!hi6;y&KfoBoh+`&w~-gYpHJzhvt+U^+j7s~hgFJmUS!ERM#xmWIDh)
Qed?(<2e50wpyjg{@|jTwv9|`1U)^ftGv8h#-?PsvU<`Vl=kl3V2R&oBD?2ZbzhCp;W?2*xi}@T>H7b
ff-}0YU$s}QyDM_ciX!5N2ZIw;y*?A3;LdA>X&lCD-mRy%}Jfr}rf!Lt<{ega)Ww#Ybd>OFJb-duE>B
%ek#3*0KXBoSUvo-Gp{rm_2X_YKN-TBN*;a7_$`QvR{!lF!c8)&%`{&I7t%am=-3Tg|#J}Imn4<GYJW
T6xO%P9AGb{>QNoq?1I%d#Ls|NN9c`yihgb+(Q=+nzc<6$NTytC;2;e;wz^JNVTU(}ne-OcyDLH*|^w
qIi~8hJrE0t#@pmyMX9!R#io1hh_J2A&z*}a;GW~TZ-2ucmcwe|GR<Ms(@bJ&<d>Br!dW+BXFt{;VxW
X5!G|viL0Vp0ds9AFS&CpY2R;1r}kjGJs2pt(b{sA)m`umQ}x|QcSyqk0OGM|%vcsxooyp{2n#9&ZZ?
g^FVW^7XH~(y(o#AXP{2t`0I}3*Yo9<*Jj<ysXB+I4LxJQ=8<%RD^CfMus)WCN%CgLQci!=?<nP`W8|
&3sk!<<f6Xdf`@TUbDwxPZ<^P;GG%FN=G+=QT?;)kUPW{a{|uSB6DTQBn;=z(jKP#QGfw|#bXr5&~Ft
#p3mC0@v1W((+QhWa)49>w-Nj5SB2SepC%aL8(7xB|6aFu8Pp(F?H6r<LlyslFtK#>DXA(3*VUFs-O(
L3X@>{0O4fj=CJZ?tpSPdV0=g7lauQsghLK&CoJiofqpY;Xdc*WG58M%@F~?Va?2=eKB~+9>;QB9V*0
iDCpx*%%bD;(TxqerJ7@epL1%SPrvK(p>eoufqs+bYvyR99gXB3c6F5?RDT6o<5YtAXtQWXyaJvy<G{
ijl55Ea-eBJXLIcgPRC5RA_uQ{t-3PdZ98DT}4CH7uqTs-E7D3(PljHmEkN<h{{9h+z1V&?joGpN**X
PTojshu~h-zr(7d2Jb&38c;YE_~#Q3pwi0~#F|Lnb=lZsgL1+&p+k2R8*Uy5dN<4$tx3!U8;Q=z{_q^
nuC!{GIJ{<DPVlY_NyuLql=AW~kQVhAOgRVTSUGsd-f_7Odp_qr}M4q!Ph;yghOF4O=dY;USGkol!J6
exhY7jp}1kJ`N+0z<8(`d^wEhVRx)q6A(Xb4f@jDtxPkHXHz13O9W~E2gWFA@n9-gAPYHkjJSoae)=>
em9Ih<i1A1aaYXJ`5qbj>l<52Dfyac7QYsWdcXaE$E98l~k<SY{0uUzJ7ICLsz`KV}?tT3Di&dS+Ke@
ruQH}McIVBN5DL|)1uW&{o4EuZAI<-k)`1_v2V@s7Ofz<RfD)HP{BF$8U2dG(+E5M*AJebcNp<M-lMO
5Kc5xWjwR&n6e1fIL8+t_McE_ee0iQ-~WwR;Khlh;iq0Fd6>ya0z$^Ys(9qQ_ZiMV(;+9T^7<z#W`d3
8m+K=E1YX0>^q1m$5b!;*N*N6g4kMU~5m1<#8~`xz1U(0_G@=<@t&Ea@F{F#|@VRRY-6VH6BMhxO9Zc
b6V!%@&}Gxg}+DNGy3A#cG@^&y&=V+$<W^jadf=<rl?=a!LWqRd7VI{d!1XI#LwLbv~^Pcq~8_=W*1p
jY*2PcF-X3I-KCzQXIRO&BN#bL+0pSFVsXjJGEEYePu=4d!hr0Z5O4g>`UlRzNk=~a;54qI_|vU(_8A
SsESV%C<iXv9;`-UsiZU$p{no8VZs4YK={2+<T}b_)RWFK46#pCSr5P(vH7CK3mdu6?HB~^F=x9YK4C
;L7QM!t2rQ(gv70u2q%XE{(Dw7gb@&kh^(R<?!V+p2DAT^Arxh?=4<I!_6Aps2vQyd71fi2S-1AEiT0
7)hk9`G=oqQ8w?8|dwI3D139J<u11%%9SVT82feD{Tr^l+KG@rB?|=>xk~?sY!WKP^6$<dRLk|{@Tgo
xW922buua(K%0CIc*&zg`Hn*W8_8}4uR@Be-Hpozb3W;vxhu!x(UJO6(g(3V%hK7)q%9<$m=VBqQlS=
<PmF?MduYpv2WEHx`c+f+ekWHpYMf1fl&CIW{6*6xwJdUu<^_U|&x&>ZIAe==ww>@mdzYERzc-+FcJA
63#3<A*yMxdaB&%YCixT9NdOXn^NH{VFD^yyNUzOleD~8lDBSqcJp!8&JcyKdQR=di~srs06+Qy?l+`
nI?*)lHE?Ed|vPAG~Li8{J`P(FMZJ^brm|NP+LgNOI;`+V3(ll%AM<T9>`c^zeSqJa5k`XGv{4NE{C`
9stmi}nDkt_&h&^;`k+2!Lell4ViPIK1^94X!70<Luh3R(;pjhgKU{{vjJw;hTXCd^3H7F%EGywAQfl
gG%%H7&eYwNMM(F=XHjSM<cUg!@2^2UxB!_s=JJJNR{rgpaz%eS}-f|BO>>foQFB~QSLIGl?Ad*4gyn
`lsT(`%dN7a1Qiuma&Xs!q3r<-9dz~Z;9fxA>~(bC>}Pb}1da|WRkL`-V255Vr?^kArlEx6uPdm#A4G
AlWT4=0NyY-<x0t0EZ!m<N_k*C_HUaJG;T~a?EQ>#fz{FYlaUBCv;L9d1nSfT*Xn*1|%AckW9zO;V<*
yI^^x)y+$E|pP$|JS=ZD=zN=-&$He+K#I!H&>Z+Xd=8#`Y|+(Np<HqgvCua7n0I=Mg7*62vQwQj7ZE@
nsx9ZXr;DX?OF@Ox=G`#Qfvr!8emf-wvt=(m_(j^B%roR|*g*tV#omSHpV-loZJ${-O0qt4Kq39K9}D
+R7AlS|BNyg+D#`^TR<y)c}B=@a>}>IiRV&`6h@^3axa%1i4{nHJhEwJ-PS^m{J_b5B+tap5s_S(~y1
ne_W#w3xx*5^3F~nzWh_oOiz`zD)%6`qHgFSwuie?=|huD5Bzx;RBM7W^N1KrQ%<!s$mDv$Oj)lULvJ
>lX?nKA<bL<jZihX)fBEp?eRxQjm>y2l-c8|kpJ77J6KJLq#1Hu^jCaI0^$Iu1q4;hqTKIO<9zqaTA&
Dy!h0DM+XoidwkPg$2dIs7!1SrqUq<oqgFwVF2IpyiEEa$%Nj=4zZ>irpfO5(7$nI|!mvvoaL6!ip?$
5kUou0ah8W{v<e?9b?Gz=_D<juJ^v>UiO&OZDT;!LZkX_L|lQ4-;g`TQ^Ae8R_t$74zK)t<4X~4;`K~
OT~Tea918n^F#DX8<d@B(>FH7e*C^D>M<T{r>x2RG9JlffK5d0fn#{#OCLQ3m8E|-D(Z9POgnH!`Vxs
+I5lA3*fGmKj)a0)Vjxzo#M0Wp>tTnh=1HFA`?{YI^ztgJ|KhlF+&Ht6TeEa(#oy(yGoOYv2rf6_lt1
C{LO33Ng1DaB?I#G6Zft6-2k_xP@(lN3c_)0d{N)|8jp0841Vfh{O?e>Kv$O(%WCo05d}@uVVOcsLcy
?f8znONuFg(-I_0hrfj6O>DWXb>J>$k+<?CRPf^q>KD)9RrL9$kC3VZ+h-V-AMDG=>t$tW~T!_7^b}-
~Q6a%5Rjz?qw(r?iJ|!qWUlx+pBaOw^F`!y4v6{!uLSK<Jw&mkw78m%54cQN35NMh%`3^2z59_o?mJT
jrI0ryAgy5msl&dtauL7Hxb?9K2TSa)s@}lW&Yn}XQ?r3gIW3nAG(U8&l%77ffJt>+(v=lDWgZj*Cn7
g1y2R?rr@zvl;gwMj|Qq%pVxNx1hbvcc7iEWiky0Mwy27Ap70Q$CC0?!*DTF1Mh+l)Tj)>w3Q9iZ6`j
4rg95XU=&O6XHtlHlU0dt40E1n2&p@ed>&V*mjUA~DIsTLKI(GKE<ic38IEzSa9lGTYQFjfn;hXVJ>i
#X>X&wBy-V_rgn`#n+1_7!HC=-}rV^W{T`J~7#XJgNb+xI4~ZsyaKb$?G^qEhWT472OF=x=*}@uOVbU
<7lU3a2`|R;o7bVvC1dpRTz_#wBwo)c|iq_DojOO%g%gxE+n>3)WmaqFyl}+xTefjr^cMCYLgL(UGj0
PB$i)DC9D{lG-Pw{zvWDM091s-7MXRxEslFVz@zEMSnkeG5HI3-A?h&yYqN<f!E;@-^;eqhRIM`>l&O
ECi2Pn4A2QYEBZUXUs&W;JfveD%wm9{Fj~C34nt(+!6XO#{ziVOU0feVFmR}hedfK5F_;1a=`*?k#@j
1O4oQg)St6VqV1&mXp1yoJsn#ooQyXoH@}inLLC~#2N9w)CQ;EGNTg>60k%~;>J>@NqN9%e%`HTAmN8
T-FK(}x(#xA%4U>mb09!6XX>n=Kk`U$LupOV-%gn{d^x58@Zh-y_Eaf)=E0XGzcz;F0Tf$lcv4EJ$-(
gY|Gg>n%P6Fetrh2BDm9rGPJ1QAQ?83P}|9{IOBZqU#VmABOXGv|#~Y7KY1t+Lbaq@T(-To-17bh4df
npT+Xa_3jBF_Bmc*cwHsb`zG*?Y%-heJ)I$bm@1rDC+3<)hPPCC*49Q5=r@V>G`JQdyUB4Re`q6zj$L
wZ>sd*6Io@d-9`f$BF%%8Ue0kBYk5H|nJ<P3@%ZkBHPB^pk~?hhmK@?O0-DNCpdb&t<?loZRlAp*%+~
UGsbe|C{|(Fl!bYnr#PG~nxXGGgRFL^ocGA~LNym#?xQeYC7ld)Zv3m-`0~F$xj9xYWMOiF;D(y|F>{
jhig?&7BThl|#UY?IzUB6M=`)`W4(HvF@<m=k?jh<U2hYK>@=53Mv#o2Yq1NJXmb@!>s-Q?{TU-nnqE
*saENwKac#eA~dPB_oFlHu8n9Zl#_FAFh`FnVyN97*`7P_4gP9xMEa6h?*!HYEObTC!zv$;JrAtt%NR
hW22-a!qfrJal7n^M7Y~(!nb%xl(S6SM>mL=C<-OT+<)wCDr!&LbZOgoAbEdEI`3q+{dJX6*@{!V2xM
z#hq#sw0qpYyW%OWCU~dkB+YS@4*Peuo#=lqS-Fj7W&G1tzrg!?W!AgVe=@cL`MqRwemg?SbCXcs#5j
x2QFcHnzL=w6U(1^#^XR)($-Z~s+<AQdrpVuw?F2f@d`W3~@Yz%&_BsXJ=DcmFsQZp%hHE=tO6-r5q{
NI>cvWv%r!zi+xJna_p{$r){J1V^`ZdG+E_AAt06t)H+$d>Y;!Oa&INjJYN=PK0<IPjNqwswpvr+P2>
(b01DS%>LOWrnaTjE=jMGzMtpQn6H>Pbuu7Sy1bvr^6+o5_Z&HOzQP9BQ5Q&m0=~**h0Pv2VmL`G)Dx
Rq)an=S-|h#wo5sP1-uEg(dZhzjDt$WmY$49-g_|%2JvRBJrfQ+QNoj*34OX)Lb}kHup}xa8|PpW{*8
<lgKVz@P){!kS&Qi#7d>UbH#HRXBl65WqRQu9C%mc1g@s)YiqcOr?~c_HZSNT)i^mnE8R<WUDrfY`l6
+$o)x%SWqdIJ3I4cdG-947%IfJcm3__2y`?hFUVL7z%r5+ExpI3L@T9GVhXFqHbQkt8q1e*QoH3%JbV
(?_VA}<wCAINrzFIr~DAJ@G`#^7a@f1xm-St5e3A@OJy+W|y2P)(oDIFD<BYlYv-NpuM(*Ne3@^neL(
+#-z&|MrPhJ<~#D!@hnkKJ<wi%Q^KpC<9#-41OCRx`96_?$<Y=~T@-jZcY*aADSWJB-L=uUd@{^wiyY
NsPR7G_!i|sZumM2Ylmufm!*j&p!q4^tDRkT}<xcbQ7;RnoAGKDqGr&Z$WCtTRATyuWBl?K_614=|h>
+`H+%JAIdz??uw;7CXk#k+4ybtM%5%84#q3zsG?r0eeFTIX;^n7=ky9UaaJsDQp}OUL9fK)1K%O@Xvj
yz^vW5$tWU}qt@LtEd1>4VAv8RrA6<foThwX~H@q7P-@d}c46*lX;)X}aAOWOH+-T9&wcUk?0~}JQFw
jabVsg!GY=72dx^I4l7K3(}YV^<{S)d;BKaX5l`QYtTrsbkS{Fg9#J=D{Bw*@@8yoE`{HoWq@+AJS)s
I4c$0m79p9;q(|L3hPew6Go`B8#$SiPe6arPyEnkzV~#P<5Hq50H<49-&(QQ@T=|FvJ_thQ|X&WcYiC
Xd*c7Vx8!5o*KwlG~ND`BtAmAqUl;*$=c~&uGLry%9bVc8>J<RZPRQ#LoY0A7=311JW72{w~4tiZ0Cy
S!;-#YT}v^in>^*ksBZY?aHWZx+kUkw;(Q-hjalm;`tB(D#$4v^l1EU|6N%J`NNJTeA@WqM17V3#HkZ
aa%y~eWai)=J_aPejTe0L5YYAsw7C*5Z&ta?$klQN^5isQVLVP^JB8i654R{bdo>t*n4k1L`oQa@*Cq
!o$?Tou!@_0FKD6Rb1>*sFtp)OXDu<3>b3Oy@})f=|KOAk9;tUeS=MmHcvW1h^lm~)frVf394>AvTle
&0z|@B4^^Q&<)oGoSG$&gmBD1X_osM3N5P-#~XSYGs87p5L*w!$R9_zvVVwb6u0aot6;)zw(hgyMdqU
a?+r1O2Z^}7`2+Pds6xBA9WY>^SBazg4X?63d-=$>BGmC8!kTY;!!2P2en+!>SGU!ad;V;`xYfs=Dv$
ADhxVRZ-Z3jMa4(a=)cwv;Nv*+<99JNE^yLmHO@BiwxW!~QNGSHbSh1OgB2S)`3v9GJ^Xe!UYs~Fl1!
T;z<Z;_<>Y5^LR<<Y3RGF*d}dRt=iJCeu5rE{pQ5*HliJug&oC>{hi=xvN@fP-k1o>d@f!%>M?s>|^-
P7<JLd_<t_~XAN8`?R2RLX9Icnycr{NHQgp`SE%59cIQq4mrb>P99n@vd`i1}`L*iQGgNMb1No0&S|y
Tg1`@UweHaDk$Ltl$s(vw}B0@2PEM26xg(s3*)WbkZEf?LaFxM;ERv_zfvIayy#=3~tJj`iHao&<uPX
l=8i)CB*!v=V_LBFnDST{P@{G1=cHX{LY_(!rwWEud`mbR}F27@5PIXpG$TN1#RbqxcxH!FoQvHd);M
RrXXG(Nn@yQn-V5H+tFj?^y~<@a!cPg<XPueH5T8bhByK4B7`gIhlj_(&K`<El#+zQ+D@5DJe&~C#X%
WI_A#A1OzFUB)r%`Q3p6CDvm=e$yStL=WkGqRYYkt=E4m#lOJN31@z2L@g&&O%Sd!ZylBB<UVwC^I-4
jHL(ktVZ46j9@WS1CR=Hv42dq-NU0*V;2)c{ihc~R-9f4rkN>8WWH16io9FJR4WuH#o82pA{pRmOYI{
jnNDqd%}QvW+R)p_e$2LaOhwB3=()9g1MbV%5-k^=(BusQfB+mC$Im#$U&{GSc+Ty>+{-Uy@X<M8+}T
{`RgeFK~U@dPKrqNcFg5D&jdie(pHFXlBK$){jiP8ER%Nw5#Dxq<X1_WoE?B&m#izM#v0wJ_|tF-#+Y
{C#p74#V&rVkJ_)2?&2D+03Oz`??j@n6Md&5-VR;aBIG=r>mq7pqOQ?UHMm>o%Xdv3>g1Z_Td-SN!2K
^e>FA)WJ9^|>dis8Dtvfz8yRLHYUCpXm+%{g9skk~=x$AMSR`%T}gS&0+x+?~XM>jRYt$UL)$Kv6Rvn
)s0lNM5a(P56<;{nP5i%XxSy~FkPhRp3j*=hO?w7Dz6ARC1f4gXrMZkLpJWlRq-(p)vO1^HD6;LlE){
<}77`Ze25de;1n8pT44qJ&eQMO1e%zfB8vPwAuvpx22Y@_+BZiw4KtfZYcV_8s`3Bv6!b$vRW=nmx2q
r@Z#Zu4^WFuq)jF?V|j<Jc$t9{(Z!YMM=S`{9YaL^gfYiu$@R(>bR{DZMed1PgSOw3c6(FufTe8s}>&
yiF7AtDntb7bn3XgJXD0lR8{ySb_eWPpPxrEwULw)WsJ)xXPfrf!W0~}!wPv)Z_S~I6>4IEcgT;?p7k
DS>|h5_$}At*6F>TR;MvPXz|Icm#|c}(CPOn~o|nkrAp77r@TA7!g@ffkA;Qoe|MM><;8Dy&0xSk>18
*Un%32>y|FZVY4wNCH3-(1CZGWBN=6$`P2(X@z^*$I`e8xKOzTg`1t6~;s=}&ZpW@N5)oFr&yxvE1Zi
I=peML^J}#jTDtAV%a<MVSpN7MHLap3xBnkmxjePUl|yd33?Ho1#oApkXhT6h|ei$)EW?F3hec@EvHZ
tpF=K;v;!1dS|Q<e<n?kqE}nnE~Aotm)}XkGA)0kle&!=8UoKbEouRIM@GvWc44_9_Hkb;tNnUC9M?B
OpH{+`*)^|nU*p8JeA|SK(fo4h49i*4k;?Fjeh0qJ1&cuB)3V2GN=9&Mr+rVB@wYx2i8xveS)%CJNQT
DZ6CM~l#_hRDfyZ)6e|G>?ufc-wwlgtiz>yj1LLzQ<__?h``U285*<=PDnth<?;#;ERhmovd@ZpvYJj
L&{bp-NUH;ktu5cP^sifp~if1tqBt3jeM@vJ^qg7d!ETy;z=%V75jSQcJm6eq!#jZsR4((j2I0^4Wl!
YKJ&HS=<P=5!`)Yb;pKO4vYNat6TJfy)vfz=6<|Ni7bF^SSz&ItKS&Cvy;ejuTARjg7s2b=-(aeSCt~
f`(YS$h)g4jtLZnK*C}33rGc18_?~T12Co*ZF52|7|;Doos1YxL{z4W^P2p%@C~Mb#+=b5B`0?r_}q=
oDQ|cixQmWT?8i0U3sF#|&&w>YTItfHTbGE~MXLcGx>vG*eYm_<L$XE?AO7*fm!TodckvqmT@L{@89B
NI&!}+#q(gEMl63|sLl^jx<rqdtS6|9dUQzNqzGP9XflJc)oR!?^1Sb#8448WEe?}7X+bG6M3>G<%k8
XDlO=qGcAakWQab;^U<6MJMorp-*CM}JLx83ceV)R{JU~Zv2Bs1gn$emh$q}9Ar4AA2vuVSP(!VcX2n
?A)laB>_OD*<k|Lzu5CZV%l)j|7kCgC`NYN<XV%qR&qFP;>Q%ay1?*)4CLQ^)&>(gE)Ia^Lpvi7xxq-
HR8u%Aa9c<^voMI?lg<{MZ-UO?AURd0UIvd-Pr+J<~iK*rg34OZ%by~+6|hUd+!EnFX;+ecp`6sKavn
n*MQX4wEuB4Hwh#~30%4+d83h16#2yq&qIQpoo}-j6giWNyUAV<=d``|AmHZ)NaNKdCIw)KM-7cRIED
P!Aqt_oDc!c=N;}@>=juG={3j;XSh1MPis%^FARdQ;U?RW^uMH9q-88}XYLZ{VHQi43p>Qa70^>eMHy
6LdEDoK6e@E9dMQ8Esf=+iZ%LqxxN($a4Gq08|Sd3N^QOLfBc@umra!<(~I6~e2=N#8sx2)qA0pQ9uh
cM2q^(EXNQ?AFlC?+f}vu$X6K-U2Gv@!P#DYPXA$@WAIT2PhqXpiKo$H@UXSu`v&9^pHl?5jfvpcF(q
dDZUVLpwZ@ao<)mndxj`S{##hTkU4ZcG`^qeYpOs0vuEp5dG-nZ5Y*P^+9MX(GgD;GYXicwu+k`JLpg
ARI4tDzgMKpFb1<D<+0DRY@M*94&E#faCN5IF>o&dx;U=4aB!s7t>?J?;ddwwVUCTUh_@~Y2!V8Y{|@
6@__4*t+p{O%I1UN^KvKgGCpWCEX@b4oylT6S`&z7^x=te{rj1&zXXleSOa|T)ns5a(ih+n`+bGT!MV
Z#;OVcpd+_zC(=IVVL8+OJo+9>e0xSCB-kGm_u9&@NAyG$!=<<Ecl)1M8n=uY*7Za9uwx`~z`)<T!62
!NLuUJXolYTl3Wp=K*1TTihDK(C5o^|V+E`Q?GL+9T~DpHHjuchO%S-?1h_K={UbVb%WwCKK}2|JDim
m9W6in+a`lU!HN3dlrMfC7-2sVlSTg5cgFyIP*Xg2RLqgcDYwiP_jE?^@cI7-=IDRpc=54wyo(&g=@?
KWl0e%QbodghZInmZx17(EH=sYWC;ft(x^9S#SWbg=Ga?2Zy<2E5>fA@B`F@#I<POiott*tfuXt1)!D
yIkC9Q>ZF{T~W4ol+WaZB~&?y^PEf7CD@Y!MR;`NfXygxZFq6&CP#PgHFV_+j^MM(r);q<bV@3vwjp)
`jQae^d@vz0JBAV8NLK{F$u6+ZtSAi~Ztf-iNs1(MB*jr(q6#a_UT|DH%Q{0NJqgVf%(w3sSrARNR33
wV1oo$3e`$pJ=e7Ged=F6dkcrm|U?0+-Ut6+2)k2Cn}ZaoL?ORY527vREn$&%Jc4$+D40wpN=AJ5z%V
Q+(uBG2uJV<l*$ukg)y+bWn7)HInNf0nQ#fNg&RuqK^hRB{fs(fI>@<PXsPzlWcS%;p(Jkw-DZJbZdA
ZQS8E2u0|Q(PQM*W89@_SxA(z2c3nA}4j9cQT<LR3%&ltXWh$6vHw45d*|YhLWero+CesB1kp)fUxV6
&p{2@;_iC6l9B*(9-mtq|-S_g~`ysLq9#3-7WZa)FI)LHyExyA3gk}dV54h-TL-vlcae7q!o{jppAT9
>#6YM$3u%3gJ`S{7B^93Q!7)xDxQPk_0^?8&7@G0s&P%gHcF@=y|3ocGIt^0GLLUjZ7}PBC*Vko%Hs)
<|?Pv?6ErB*$|`5i@>0h1}aic&bDuS=U`A94b_l%5Z!XBYV|xK*to8<4e-yr#iE*KK3g=j+9Is`$S}a
auS&#MCr8FuyGds{g@KuIv~u`63T<3h}pQQERtl^?)zs&UBg!)T>GfZ-gO!PDj$m0EA-uQOA%>~Mk=I
FAGy+aS|P<X9GmZI5=^Vf1XZs15}9L2T(%9_(vWXy6EBS0ZaR^D+}U!#TFz)KA3tecq1kW|iR~sB5w-
u>dVzN{7Wr{L1H={`S@#-dGl|TL92EF}@nyn3D~bzLIJqpgS``)dXTv)x@U$*Xpp|sKm7Z%Drpf(tob
oxYBuYz%_Ju!A@xYUuw4ff##R)X<@(pXih)Q&_>fyw+kj@y)H{VOVn)wtDx|vwTd|VEYvlv~%E?Lvjz
fNuRH+VS;p#U#G_sz#&trut#c*Cu#!nmp}D|_8xvfEC34KEe254mqS7M41*neSY8S2#QL2VX*H^he;Q
V6B0MCRYjv8fW!1MkMcRq0>BlN|isl;ffPFOHCV=wF*BW$3?!nvjP@fzP5QbM;|Al>7P1>a5RWRy3;m
l&Do1YG}n@@L9`vs?XbKEWziqJL?ycU7w79)h6k>EZB6M1_SnPo??&$#Ij(X{k}^PbcHANCi{QfRs)I
*w+mL=})IO9zgWD5}%wM3H5}Vuc*YCMx)6fq|E_m$%PlR1byJsKab*9_Kk5N#|ur1%YNrC8vrxpq+-V
FKS1Lu2#%X{|+NA<hW3s9iAu^)M60}2pf2n!z57u|pgLM6KRz#nvBBM~!BxM8`(eK{8n?Q?3(Z9v23r
5XE;>8OLB(76el7Z-Sa#7&Y+)uT{e_^SBswLaIa^PSIP%e!<a{K%j19ZF?a3szI~)9bX#p%*N{-o7iU
6jf{wXA$F6VKxKRo3iWsZ3hN2+~n#dHJhJGW@#IvRL<!I_{e&r?Ful<91Tx}d;gfAb^x>wjC6qNfcs#
5YrWa45j2RQ<1CNm7I+x-b@`7St+-^1LESWXKXq-u_98`Jbv|g5wujZ8xeiM)*L6az9~}LPob2|7fgM
#}P1_#g8M0%0ZQ)r4$mxg~anRF~-k6jipQJsc58}B+mE1vRjcLxALTJyiGPXBwf6j*i?mK<qKYO|@?<
m~mY7ahOqWS&!fi)f5s}r33blvd6XRX_X5<k}MHuB@UXS3tLqBo=emq1cG7J5Ac38;!NImtV8;vduh3
f&@gfBKZ>Y5nPwAZ^|)AaTI4LE%(;+Ew0OV8&(R9ruM_`KofO_7!d_7eR;GjmjVB*}?wqQ66&9pUL!k
"%text.

(** Lines 7215 to 7364. *)
Definition DATA_47 : text := "Z)fYit<<|sOZr19^Ix_ZxIqZQ?cpxotsx}ien;Gj+@6SRwVKYWiHC%Giu<=H(+6xZCuPd@MuBwUqJ&O
GzbBLM`=`&2Pmb@4tS=PbF^YaKR`fkY!aZk94JWxFZu&hq6CKyKn~^KRc6a1*(|XA&;iHAuHPVtJ%{<
EhIqUhHo5G7c+eYW4!2q7-2Argrtw{pIgJu?Oit?h`WoN!7ic&bNNCo0%vW*YqX0uU!AaT2>&=YdPT_
O3&*#w7q|8AO3NQJ+ZtlGgaDGu+@00hsRch$F{=304?v&LPejYZe%i08gaj`FUeW3Qd$zyR>R*!<vYa
4Z8P&!u_AsEk6|_5@pU_E#Ehv^qpt?$)Y$%Z)r@1)I%%!1rR?a<wP(#p!*-htA?6Z=+TkrFET_uDp-$
btBhM%Heb%RMJ3qE(AgAy_a`)UDAD^b?GH}S@q*_xSVm94l`LPcyOih6Vf(6;35A>L0F+XlSQgDD}-@
G#TADo3TDIuer{Z)gBz%=ZzN$CGd9;+HFirL*y}pE4UnFND%j|@lAAiF>8>KE43t!wX$jd|?neKV{u!
E&1Z;}m;aI<q()u1b=QKBYl3SKKl|sCr5K+f;c8h$0(eIw?F}(s~F>kRO61^0Bb?NYn+B-x5ZRd8yHx
H5njI?Gbi#rqHswwu&9{2?)yRK)ruH+y?bc$aEQhM;AXiI)XkZaY3Q63|iDF>b1#4Y0>r~>Chc{WE*l
~0tI?U`)e0QijOEaHrD886b=?>hCl7iF;|y!B-rZ_&&{@%?xRZLTA4r;y0{WNYs}viEyThNouiCe<cQ
qG$YK*WWt=_BjMKN27NbeIu|&Y*|xP3CL$t_2)@2#pm0MQ6*QUFQdN{<3rKf4BJ9$BSh|w)4uy=0tBW
jUPNVFLe&Uy${kevne!%r0hwrpoM9bYnOB@QB84w^eiuF!wW$NE0*;%6FxI!_%}rYBuEdpnceLDwOH=
|ViC3PGYUz^<8&F{@7e74W6NJZtqB^--5-Oy-OXMBV^|~FfYu0+wXapb(2jN4M??wo}pYcGnx}kU8ay
<y&J6TtE;#Y*e$z@R_MG<;x@&&{+lNE$E<`B{pYsRiAfhD7Easdh=yvZcNyveJkJ)!f8p-E5L%vmF!d
7$fKX5<=fJqR<71Yv2ouR&;Gf&UV-e!i4>MPJ(vq;7tC*R*Gt1%eF%W{0!{fR2^HjcR*wjtI^bI^aMe
%q!z7V{bxk+nu>-=P6(E;Mz1zSixspO_5qR$)}iM?bOg2=GnSBH_S0c_fR~;q(-CZzhMI&pJJMiMzmA
&nYfy?ldi@2mcwWq`HeJiDoAX_<vGQZ@Er}gu?PSB(!FBMD-Nu~Y?GtFa1d<2oI@b6sADSoCrR2+iX{
n4JuBCo(m*}4_dMF6k_4RMUsrGJ)A1p;#Wt&#pkq`l{%idJK8{_?k*?J>bJ9H2VfYL;38Oik)%BL=2H
h~3dOK&AAOe>xo}JriCj)xLVT+IIDB$j|lm~Ag&2d)#<@+VK1YxV&?;*Q5>ASv-#cvb3_H*`e&pBpSQ
g(-+={&#GY*0>*>)Ul6Y`7k9NL`KxJ02hho*M6n_3J)0rjrwb{#-?nYY!6ZwL718i*-}e+}UZ(CxAlL
D;$Y+8uj`PT>QpaX@wcA61Z-W{F{g=PS&6rV1kAyD?qZ3WQ_7W#l&0dTBMpGH#AHK;<)rdonuK5u6e(
r)mBcw+it5ixQn^APum(Wr=5mcW-W#O?DkG%x|HPO6YeTE6FvbyuF>VKN|$MdJ{N^*?LoPHByXR(K}(
IC#(}n)tLHv9KAPdCVJ)}TbQ6HK>oeX2MU^;fh98v$-GKJx>_9snj~)DaIOT1(hYjG+x`9d8588w9J?
jVrSRdH0MMv=Y$lhiV-f#sL`*NToa8vq5<Yv`>q=V=?c90|KlQ%?C4!j}O<Lftw6FYC(acuy-98}_}^
VX*T{}jjl9YOq4nUpKqzIGewl}5QISvtT|Xn?oPUQdO;LaZ{I33MOQy2taygekR9-(3U)PZPt$N;ful
5MlDdCA!eQu$##86;Y#hq=wSeHH0ZW&`|hmiBqE6$#gSk*%SBUw2R`E(^oUlnlVZC=4H1^Bz%hnx&D|
dMStrGySm;WpQO_`ds`!UaGiHV^9+s3F(zt|t;Ix{v}b>b2%q70p5Pts8f9*U25J#odu6k^Jb~}En}?
sMcB=74d;5-M8PayB<-XU2r*qZafTKDvMW2g$v+rEZ-ZKLT&DxrT-_sf7pJeQ;4sY+y1TKM&@qLmUKU
6tBiH`FvW_*pSsK}%9VuM!q>O7Vghmyy!vbp>(bM=q?=U<Y4nx|i`D?B=&2+kP-r3aGOZ%s%($Ik(T-
qdky-tOF5=Ct>4(Z1_B)fczN6up<jDwBuypH}JU?^i$vT!h!-E4&NIT%RJ@PZZ(C?_KyIeuh}g1H8I_
V>eoz-`I^TaV;l4dldq9u(u51iydb~KpOkCew4-L*J%2<X^Tdma{W~qHWa&&;7U%b(Ll4so{S|s+dsT
Ur<*o>L}L`#*EwFy&`RdyM<OB}^zsMV0=4!QK-L}&C1sao;|g{SWHdX78hf^PXqZ&(&_Y+<#W#>p=64
JH&E#>DCXZ07LDwp}iJS+}MOSi>LCGa{HyQLD{+yVHXWCxiv~w6@CO1l;5h51B2^gfnGX!Ouc-y#h$_
v4C5!13wd~rX^9aPuO8Swa6BIZMt3NOj(<g|Z%RHT+rA>202p;!OBffewc$#j}((k$|37LLuOyvsG(#
Fawh$*o;WU)m}&WCpB}s4oT?QEpB-4VIE_p>B$s+MXR30phPyJH6q+rrWM@I@EQA)A*J30ji+$nA@$W
23|d*1H_a{*Qq@kN?=j7a_*pv87_-xH?wVIYMbXKCeNja=Pr}%K3hM>)~`d+`WiyAdS(1>3;Ui7<F5J
i3$T)Cze<zzmkHMj(P;NCW_5*MX%Kgf#nONbi^nog_Xj0<lb;=K?m(YvcTe#%G?Bf5vZ42<$j{JwKZd
J?*BpSwT|oLfA1+J}jP3byQAH#&-0+$99yxGTELoi{>CWIzUOYspx|v9;4}i_tO=af!f_lcNaNbk!)}
Ji^Dmbqxcq^VeD^-L}vkFJDTf~-$`$rdS3)>7y)a)}<WU+ncfH$ANe#uSKF266}_9{EZtO&vnpOdCS=
#20RVm_`%McGNc=e-;ttzT;jc!9Gk=YZc?QP@w)p&@rH=?tOM$MB!+<+7-VZKLn*b29!O`~6+>y|Qiy
m=2vn9CqOgIS&?Kdd_WpcnFPjy7vBuH^iC44Wo*4lPe}cB^chdXYnrE1R(3}n36c4k4+w6XBRt-9Ssw
1q%#Sl)8f%TR<rUz(Jh>N>09az=91oThTUfJ_HS7a$fa^K>|!5Ip+m5wVM_Mji=;lTdY5k}RP1~1;W$
fc*kwp#sha(z!@|{zTyK(bAB;yXHrr`2>AgbdWgW#?RW!qD2mPgZ|J~@x8u#h?9B<`8D!N@{#Rupntl
m9nZ|r#&>khXXwT2y(OhpTB+srPFs59}^B{<$^n&Ex&c->6Uc{k!Mw-#szje+M{K|YiE<$kwU*S<Ccs
P3-Upi=L8a>YsZX3nn6wuYQuU2WBKUkSm`U6P&>PCFo!PvuI1;`cRsotY>OJuuoQdMy?^7`fNw1~h1<
x@T(-)@N(!`R&gyijt*^oV@pPj~$v$c8axB#xd*nyexiVu)o*i)6p3+sIzoIf3jkB@#DIviMdJMb{3w
Ma5Q6hZwmLDNC-+o956{Q=?}S7B;hjLh~Y)6@c$X(q4E#u|3~!yH{oE;zoi;~r2qd!|I6Te>TOE@EyE
B0Mj2Jf(h5(o@GBs9&HvUh{>_Uah~v&C<Ylrd33286jL=`vf6F+_!lA)VMjKUCmj&+~d`mC*6}js({$
~{quifxylcRC2smHL+ENkHP$T0{xPX4{F>JR_;0Tu)%tnA)$R#`l2X#VF>oYjkLyE;dO0KWe~-@8%J)
Pcs;YR_2T)$dJByk9`A`VxQl)y>moT(en`6(!Z>zn{|Yu)52F8v>dKuZw`}pt3Msj77H`w*XF>XFV`x
S-JvAitvoz-^CtxGo{X)0fFTSR++OW^tHDJp$B?ark{B|!q02|AfWbgRpdY%e5|aLFvQ~%`8W(x1@o*
xpq~LX^UET;WcncZv(RxQ>3qJ1Rgf;ui4zf!XZ+zS`7i)V)vT6fypmAbhp*#4cEO?4u<24?8W8w|I?`
W%o)v|lffw|(zs5SB#i9m$Jr1jJ*4B6uR%6lD_#v!D+17a9Ut<xks|o~`vurIY{ve(_!6&`-VTCRP{k
^2Gy)~Aslr>({*RUFBTTp7fp<TYWW>K!rVR0_DqH6oQw{9_?gP_9ez2)C~>#XqlHiZi5I=4U?#IweA7
MJ>h`XHW$uc&HOs9pE~KLdLJI;lYMN!oiA7nWa_XKP@YGg+(s-B*{3kHy))$(YnUc*`I3)TZsN<QpS>
f8W0=W@*mia#6-f3QPrS@+UvYCq4DCSe&W#`IFH4=o}#TCj3r&(=WQEpglh2$^=G3sKSJ;O6bLpw9=>
AOV4#X`#;q+iekwZFJ3&;v!s)g?O4@9<|Rs1tbY5S9xFHAsf5?QbX}=L@6D?@z22O5%kmy9wdgy~Ro5
!McD+|d95TP@GMidAJ|gBUGNHPb!sYOWHLBuN&OwRuoGqZHrXh2B!M4@-;2`=R5!d3ls0i}-Jf3kWKm
7^4D*LeRQQXn-q0!qxOBZ}$GUJNo9#Van1-X&C?-+((HU7IJU-NBsVH<nXRPr6#M3H@GZiN=<moQXdG
<4Gr?jId}I~WEXM7#6Xuh6MtNE?os)Q22k<#*dH@Z(8UJXaToG6g`e&5!DI1On{&G7E9Q<r*Bvz%j_)
>Djtw&YRkKuR?oJT`oGCw>3vklkN^f#s1#f)r5VfzpAo4Xhg)bodfSUp$od`w%tas;?oRNmAo5uL%fh
}(8sfjyx3$cS+Img<xMI5yzibZls#YO3HuCCGH=3~gJ=>xwCW9F?Alpdj}vwH*;0^KFMhh*#MR#Q-Cr
Hx{>?)|DS1R%<@ahC`H50+bcR>wAoF6&D#{toQCx1FaHM5cch&9;{zd-R<&|z#?YUyDv#!f+yyNaQeI
~kA0a6G~h<_aFsiy_RSu1CoPc(O~+cxFL?Xcf2k;xIP0_S`GQfO-1ms_iJCwJkF?beMB6d%%jZ4byFX
Q1N3p26PBR{hwLDLEv3)v$g%2m10Sh`!}#wSLcTt?U;(Ue&uOYGDU&>df<Q^r0?RGz+jrX|Gm506X4^
dN(@ZjFdcFSrVPGS-b}3L-*REM{5C(BA$JNyTBr^{SJ}weI&$f10vmJ24g2N5-OlqG~LUIS7dSdAlpW
`il;W}6sbV=p89?0V*n3KQ~nSIHDD)1&2SRq>f+hcc1?TYNF33BfQl4$1L1bp;(DmyY|m+D_mA&(J&V
y(_CU8omFWg_B^R+4NfQFd!?gp{oKQqi1I^~(zLsH+zDQrgq&Fwg!hEyeybaPQ^!0DOuHYIuI<tbrrN
5H1hO>BH@K($kZ^ZLkBNGJRhl6Uc)7$gwkQ}Zxa;O>bmx~<=-Ng0YIyXQ$QM=!x<Olnu?q-t9=4+KB)
M?v$5JSL(U+r#)UJv5{T*%?8sMtkZ2n@X%Tjt+p1Vh6JRQ}SgJr|Z<&Z7;xS2pQ5+cuY||D!rVX~T>F
JJMXBM(hCDwkQ>qXdLI;B__W?KtS-D6j=GRdrta<D@j7vE?ez+At-i(YmkHpHQ)R?g`lrlK=D{HzKCG
5lSyO$YJHzjaMca;OUD2jqul!*+GC^`uBqM_N8LYW6sG!{MRpK#>t`2NFmnc*7L#JO#y8iRTiTGQ_nc
bVtFSfH51QNAx}GeGn%LlPCe2W6H9Yn98n+CJ={=wxH2y*9#=e|s@7UT&eq}6pm{9uST7}Zz`1Tj%+q
Z$kN&@=|#N%sa>R$`{y`#*?&kdvzvb8kMpu$W3jrd*L)aZ<%OXc6l%oROpet3%Eq&CIihgnR_JGSO{&
3$}Cp*Mv{b|wqIDR@#A6DEoC0_?H;ZZ}Lcj<6cxTzQQi*6<QNee9Y%ANb=)4U4x6oNy2?+h2CUry?>N
i;3@!LPfS-=0ET>7g(_U?P<ChntornRuHpJK31;N(woG~IUcJC&9&DbL=Fc%kD#N-O9fZj6T5;Q5K1*
1F{0))i;?O|mJU~{b&t)nJ`<Kw(v}*`!pCOo-Yz&4+Q&ZG#3X&HEB@C`6o0vM=MG)qV?_Sq@&*>OU9q
DP=Q<z=#Elc@5jthL`3ABe;rMt&PV9n3rE{e|+F21q%e|C$N72u}Xk2B4{gABZ1in|N_~avom~y7XyU
Sg}A1ko*E^7XskJX+c8o03cuH~A~KhGFXCCIxu8ja`$+LMX7CXtjA;1v}i+2sENP)h>@6aWAK2mtey7
DqbIDGUV^006~6001BW003}la4%nWWo~3|axZ9fZEQ7cX<{#FXkm0^cx`MhaCz-pZFAf<lK!q=!5weP
GqEI-!&m6mx69Y6txB?cd8tjEr075rw8l4@(G4kEcS-*H0Z$Xayh(PFyWKCVD)#`5?nd{62GAUiyUqH
}xw+{chKG%~xp5YE_v_8z@VZ|w9|mzl{Zpr1ykGQ-_3G4lSS^}$D{hvHL2UT4KRFq7HbS>P@XczmdMk
%IW&XTbulj+nhF+U5_`ttd_x;~U@Z_ZCy~uC*#(CpRCX<uP7muzRcxUP(Os}1v9B?Ay#Fmr0;1rSJ6b
U$$;*gzc<WyS5bD`z=p5gcbaZ1CX*}WjqcDx`3C$=&P*~xvw$qR5Q*KjJbT!qF?1v_&u)-v-DcIIhfI
9Ucx4i9C^Poh!XPY{luq-H1|wfv;SP-^1xQy-kX)U*2q=JE+Kv{K#3b)y^`rK|0fb7)n*wiCF(CvbB;
SKwmyATT%wA<2YRCM21}Gj<sK3G%?m<S}s)%gKmi?NAg!nHf7JSq9D|L+c(?OmjjX{)C~9Jq+2X9#U$
BiAki8rU*-uY+*&5YOXoa99of|YBwTEn<y|^QB0i7EO(Tp#4(8!Q5r{fnIf7!D*Vyas0g)i8Dgk3t}+
)K=Ce_l`Ne35g#dv?CM8%x!bxs96*$Z!En`R<mYU>eDST#`tEb53S~!bn$l%P19Gs#s>IF?vS~mzxRv
Au8QKW8aInYWySKCQFIF`;$ZlrTKmior|)SnZ_w;ZzUn=>Kx6XF=3(~yBfxr$b)hhj1q2S%MROp{CtC
xsR!FjHpZA}~`6W=deDne{oNDKhJGMpI;ZP1CFx8){d=PDY4jb`NHRSmqha86lQg#4<uG^9`yQA(mOh
GCv}Yo;~w*fLVye%|f%dSxA%G9LorwEJ-Z~+cUE{mNA-?nS(K7j5zva%UEuNM|E?yWOTA+sacdPO^9P
BO-U;=XF`_6#4+oh6NWi3JRuIWa*JW^!PVSim=lJ%MJ%Tr%Yhi#iICyBg(W9ga=Z0%f+e@G<OEA@vn8
i&$!%`rlpDFpjl9sgnwK<bX%5(e0xWEj6ck`#11u=O!UkASfQ1dGpl}KsPDxilIWI>yN?+d>C1q6UoB
N^+pk4-MEy{${letz;0y7lTP-2GUC3S*^&cl-7VlA0DS4+yD(k4ln(iEvaMawiC?WD1hNl7NNS_N@TT
$zcB_GyW=fSt_vLuYttFS3e4u7cQd;9(VMR6TjdovDvp!{WIGajNl>@?^C#4tcJcU4Cd(WiupBY=oH+
&S*%lyKI)=cylf6=ZHc!%8?Vex{>RK9tw>cVE{W}sO{)$RJJM%MV=mteBB6jBi0S$YE+O`Y2u10(%9E
_Vy(`!KWU;HnYNQsfN5pyV86?cMBB+yEu7^T$_*N2Ha02^LZ#y>Q89WY(@El$v~Z=VE~FMXm1mZ+@)F
|cqtdJ9BokPffMkNga6*y^^_o@+UTS2tUR78aVE|smRy`s0EHE5g(DEbK2D4K8lLO}}x57CIn_A1OC?
TuDw;YlwG80!xGNsk3$Z};ZSEN;qZp^*;Skuau+Jo{VGehHnHm4d}e(0jhr{@CSW%}gz-IO?$KKXsx7
rr;w{-ilpr-<cIpdK(z7Ohyn-SGR{MMKXVQYfHhW>q?7wlAMG^sIB5W6nswS>M$Q_3WaaT6iNLg|;4D
e0sp}?P2HB>FL|kGe~fO1zQy-qZ%|dXLm@KTxhSWkRA-etk5NFR_URf)OAA3R$!`9XhoqOiei1DMOaJ
uVXlX$D2StXkt{W-7%k1w7L_q^63d~Yw$zCzt5W#GTzytDUtj0U#|^{+U2L&HAES((8CYoMV$qyRSaX
*!x;a>)k9C&ix>4$ehK13&%yLsGFnYjX_5p*@0|v`As;to01EVJ&R_eJ@cTVA?{y1qmo}RLyCr#<-PX
qI)kOnbvY!yh0lA4__D@@XgZS6>rrY6!<MM~-!Fig$OA)7QsZi`xqE6vRm87)d?79}%_lF_1Mfvp0`=
Pa<bBl(;KTg4w$ilMpWvV;n|#M&WOv)rJO<)oDxG_stkQnLh^S%RE=&fTqIi^`_JtZ5!Z#IYqBJ+9{#
-aMqTDKtASCs*^tq*hL@=JpoP$<^FuOHQul7S+5U%Y}KsC|s(jtj`7cTv&Ju^0}}+7vyt6@TyiA>(a_
Ir4`jZzA1A{TBb6v^@^vfu8f530aDTdQf6kqmw7^kiwTGBE&0JlH!7cQU)hLtgXu=88#?(bdg84TvpQ
805y#Y66+QM>Y&>aYD>g$^B&8<Ds*DU~u@=t8(qT^3lKjw@id%Z-#7^nNt|$t5W3cg5XDQC`cJX#GY=
7hA)3-_XsW75rJBloao?9dPtpbba`8P7>B`b+jnnE-snKZH-l1Z&hMlzYTlhG-gS(%(<a%(3iJGqr9N
T#rMO8S1O3~d(B*9&D~I8>R)kMVvJkAqmX=2la%WaHY;3s*NhXZ#9k9E!&JQ6^(FHu6Ycr6|3zGCtj<
zCOC-iWGFGmxfd2bf=f(&r%HI9V-PU=kL~w)$~$-Yk2BxUFX-clam+D-xkB|`eAT}TXC}DcVbVI%&D(
6WeS{1_C%61MQ$WHyxdPuoWnnjk(^OYQ7tz8@WedQtnzE4zvSGAb2-WVVkxGZ$&1J7<yHGrdRATk7@P
(_&nB}`@@u|&EB3{&E)NvW4melW(uhoP(K(GY^v$r5;e5OPV$ly%#pq`j2&vJt^m3ZZ#USp^dntQAoj
Kil<0yu+SV62m@9&q3VT$->*HGWQS8CMWmnX9q2Dxtiuxh{LLvt&2D!%N+*3d@A_*OjLE9L2CT-7ZQW
*0jva5tJErE_$rYVz5R*rFRH7rnDu56)NXmAE)q%FX+8et$2Qa(a0y9=~1xc{Px&oseMY{OxA_aNkd7
*RumNa<ZjZO*ii^&%EoI^X84?9nMAbDGB90H9mLd2XZ@LeY<%O2NLy0@c%SiIk^hZs_jnA`(A7Y_(zc
`?@o3^woq7aS`veAGrQ8O_2!N*7qsh;OPlxOuoxaTD=9T5-JxVNHntK^b*0sQy%|Jn1&(Hu8nH2r@hE
{yiQvD!p{9G7l?&N)(fV*J_mAxV0Wj>jqyFAG3Y0@UwCLqxYt^;2S5j@yqQh6MW0jQ1wRFw-gI;mv@~
i#qutRSSl)dX6(Ra?PZBG}f`)+?3<QXWOcD;J3-pugj^1q$_;T~^a8hxtu4zJhmg*qgi?90D87t@nF{
&+LK;gNnU<W87W@=qR$UZf9{yG7s2(}ec-K9D=ucQz6k|L^2VTpYpo(mmalQ=(^%cfFMdrzRD|>fugo
_#o`6T&V4K)UHksiS_9&rrzEx+n$cAAidoJ<EZ_870k1xbbWkp$ZauvyZ#zSmpquCL-6@sAiW;bUhU^
G+WoB3-ip5A_kw1XQ*NfC>TG6{TF68Bm+Q;8<=yGLI(pbiqem4zGw}$|<npurdg6R0>kYa*)zLzLnNw
LdZshf(fg;6)9oWv&ooRdAf1_T1FPa5k=5`yrai&xP{GiD175Q9|SBm^mkslTLd2+N4pufqb61i67Cq
<@;%&4xgsjL=JE#`p_7IyMgor`FkZ^ZqQH<a+w+SQeW8g^zU+c1!{+V`^VxtFC6-o2`=jZJ>CTCcvpT
Ye=A6}i<3mfgzY<>i&E^3G0QU!48v>gw|B>gtF8xVrlB?CP<O<iA8Ux~s=FzIyE9s|VNf=V$ovK|6E;
7nCU)cZxOv2AW3E&O@hzN*7T_3D4y-hx!PV&YUxJYOZL5Y32<^TIzJF;|DO{hv-BY@skj=25lAPb48)
<w=slT1`44TLM?`cr)UR{1J?yr!$F94h;}jug{2@-dO;JS(?p<*Ivlj64#Y%*j({18J^++K$5kiv)ih
xU(_xr^(ny36nlxnSAg&M?g|$$$0l)D<;Zlf+Ls6q6(CK{DiRMZ;@-Y(mY9tD21b9XfCXOO>YOGFFGf
=Q#Icft%1^7Zh2(v^K5d(<KRZ`3+makxE0fZTVWnoAig$0WMKa12tve-o@fmi}FNlPphGGj<6#uOHeD
>qo}fg%=G!%9sv*O<9h@H4`PVaXUR8N-sXhCFLA(k9e_W{W8W`6pnxL)LNE1NEsBfY#JeI^2Vs+*5Ay
xpI^HQ1Kz_$Dr_%10U`yFL^)~g9wyShl9dPjwInoOdetjasbC;#K!>~2XH)TK;aMo;{c2UFkVB3km5j
!0~`)iIHAI^Pq?6P00Hl?L^W2rM(nlQ5=%{0Q|vWjuMvBV*lQm^)_w@esiP*Y0~$ftHHBRx?3%)^L+F
GFb)XYsGCBonU{F)?)Cpz-26a*sO956h3@~iOnkAsH#W2iC9s8{2A$4L<vce%&!%G6LMsn2+maT5!MT
3wDzZzLpQ&!ai9m1~xehu(zaOgCia<2hm4f3QRkQ(Gh6NI1`CRmyfQgnVa*v1V3(g2W#0BHb713(%e(
Ey1C>Chk%8j7buJPiVA5J*FTG}!nJou>`X&<45D2$~SN(NJtHwnvNDTEx~OwidCq6jh6;T3Y%R!L<mk
rQq5y0!^r+=4vUp7QwX?oB)nuuEqtOZUU#9z||t?JQdg%BJn{(Vnv_~loYXJM1uJRgD}!WaH#VD6nY$
f2|y?~^f)HO0WE5>fumCZPSM1mG=S4ov~aHTV$iXpM!Gq5kOrL}fhM5ifC8@zz@n48i<OTZ?!zv@&C}
tw>KN1!NXIdKS3|Z23oGx*qfOB!LZ?Bei_uY+uji>Xl{5fNKsjiusHb*-q%|m5KGXsa0|5pC3<MYmX(
04LBkI5|mP~#KMWZ<=ri~&{2t_0mHJ}|jF<gux8<Rzb85xbM%`7RS4!q|Lbs$!|=+u}--F=e6?}nliP
!Xge5Jg8(bnppxpw|K~!5}68tDq5qk<No_SanGSbubdpNPv-mMu1iaWV(=pHlPZgE+(NELhAC9v;{@T
UE_gb0JVwyfNUF}(_*A;sDlwfVjVO)jCYDPM^?<;mO8=(RXcL-%|p<bIt;X-P7B(hqui90pF-1jRVqm
ufhJ(78pU^gq7hgDIxIv-<*=kRbsEqP9S*Us1_cYL>dX0MC%~Gpjw_qIR-HEH3V}}kUB8r-wJn$Nz25
UR^M1Yjk1LaP{TpBXzgNK+{)g1RpIFoa<S3vHPQ#DYu`PUx1QoTIY_E20K*!pZ%2fdIn`_gZ3X@DCGE
-sxwxaS#oftz_*NMNlLWF32SQY;E60iXs3%$eI?(b5_eOe*5Q(}EmJ#|<qeXK0nu5@;b8xJ(tE^(s2c
X0zBYVrXov0v#>b%MHMt2+5-dGXKk;$!8-uPY)B%LkOsdxe884}L{q@WT0Kad*EI8)vx1e{ztO!e1Zi
MT>V;M{0!0<qubn(v?TIkpEJC_CM*_zq@Db>g?*}boT1>{Po3~KmN<_K7aA2-`{*jukD&8?|bLZt8U$
kp;{~lv6-&xccL-h5z}{qcVaahn{qSx?((X|+raQN{CP5dQ>eZcy}4Pe7Q@ZWv=__nR2x#h_ixneu_N
Dbwwv|6tc6zn7wd+jBzl9_ch8BY!?5|Pe^Ty#Bi>8ji}gdj6b0{Z^Yxty=HnVtHXTOka@9U5KL%E<H+
Pi~t^K0)je48*^aS6?HC>8-dsq(wt4b3{*zNbT61ek2Oymk2GM`W)bhb5!vp30;C`rvH$BvuWgKf*e-
pHN{Pr`_Vdt&T(82iXtANEI%`;hbIR-ydk&o-Nzwb(R5fw!n11~DeJdK*u)zn6;0>)Fn0lc&~Dy}46*
"%text.

(** Lines 7365 to 7514. *)
Definition DATA_48 : text := "=l#GpL;qnh+)gKtO6Fp+_X=A7C#Q4Om`;ojz0>fOdKX)Zw~LjdOgOMGIo<z%PrL7s$M5l#vs*7@q_fk
b$s=9eOJWnSdK)yk9ftdh*RMZ(_;CKgKVNU&zMi|T`x>si{uRNfw-)Mcf;3=f`gJiKykr{RV5l&M_4w
E|Rg=v2m%3cy(EGH7{snf&4KUhmWlTpB=E*&`2PR$(PtMLJ3NvNv@OJ=vfSZjy!riP_1DDFYeJA5u4b
n<~D?XY+h)D{llSO`*S4YYh^&-mAucEflQGy3(n63OgAWxnEy8+`Zrov*QUKvl}TC;voFPG(wm``T2j
{@|qcpUb@`R<iW==@`t9K{3EN<^G3JYG0|k@>xG<b8golH9%~{}jk@a2-cWb^k)|<j9Ym-@WKJf`?_q
dAC@#e7T(N**ls)(g*d{P&xnomtQ#d%GAeqr>P>;>qfPrZ-p!<4A(5^l-@V)<GK?Sb@pCYZcQ<JYCj!
Z4C)l#vZ!E~PF_xC>USRQvpA6cUY_)@@BEjV;8U{Yxu~QYr_Up$96h?p$db()dm`DxY-^Rbe^RE}`o}
GL>}z3%ybC*ahu`TO|MF`5p_DPbvm|%FEW?zMkD+NMGLSwC-4VYIFN;H)hI4WN(2k5^Y%Po}eBswHJ@
SU!Y(cHRwY1xtciY<kJ&eC;pFRo2r|;J>iT9CzwP(tv_EX+bqQl3X%f$RDV!zzmuM-Y%*cQg`aju_9o
g@16D-q@49(4LgJ66Spr+!)S?B3n}*^bJrZCC9x+fH)r-+|+gR#A-VB~m8G)8}Ee<vD(<cXYX|&s*Y0
S78^M$#<W*;rHs-IO?~6yU09&yL})4Sf7I9P7u~B_0y@tDh|IKTG8(am4rI<@Oz)x$^QaSO9KQH0000
80P~d=N1bYj3DX_`0I_=j03!eZ0B~t=FJE?LZe(wAFKBdaY&C3YVlQcKaCLNZbaG{3Z7y(m?LBLA+sK
jM^($bgwnWAxmy+Kq%PH%XxXx?4{J7*w)~P^pNMQv6SOC;xll|}4-Sa@t0~GDu)Lqqum3YO$Oixcwzo
!SBSH&{AxR|e+RV6MiqI6jnRTCwXy2w_IxRBom(JZ}A>$J!R(JD`;#Y|jeX(Os6tGDI|qD;%t#kI(1M
K!9^TMefXx6MU!SBhY-(XzM}weEY_H08xKOGVynZK*b#X<F-VmDrMSM$;m%n<Q_{;FI^KgQzZ(sW`e!
s$>ed)q^Ohr)m0DH0;}#vJ}-csYMqgk;9~EzJLKAMVVB!IJupQvVp~`A-d<PNn!c2F)eiKr>26@Z{BZ
hHPzkzRs<iX$KhQgYUm&cZuEv)PpYb@WOwyEI@ko(YCad0n7w&_h->NsIn9!~b~^Wp$<Jci^konHl+b
BwYdd;Z<U_U1(KV0`mR?82JZfn*FREx&izv;b=2ApuC5A+*YRlOJS_`ZM(Ee5AwP<>0z&FbgQCak2+L
O3X0Pz7rbU>W<xA;DO4@5p*gENfq-2e>)07*F4uk%GF4gv2g(IChmG5*PCn#8Z-K{Sb9#sCD^KEF<~b
atVIEH5tV6>Q@oX#~KF&%Un4<MHm0{_~vvJ*0n6sA=~U|9y5!UtYkM)8pgu5dU+6UrtX?=-<<?Ul0m?
*MG^jJ=3;l+8&v<N2cwuX?twio|v{LrtPU|durOAnYL%9?YU`tZrWa$wil-DwP|~8+73<Ip=moZZAYf
<*t8v+wiDBKV%knk+o^8b9qTsw>-0Q^t(r>(FsfH2N?U!A6}f1)tCn)L9en{gfhQ5D!YYaCMwBQ^X+B
FU5I>NuD9LBhv=X?-?eOR(Z7vlEWQWUY1cC`#rv{Y(QkT{ijGJPW&7h^JirH!^0A`eCnOGzlgMk9A^f
sUrm08jNS1;=*2f%6_2)$lSFC$!z8rxzuq867;D`d_}fHGZ{X(oDW+4!N+H|stEAoO<PuU}Wk&&R;S@
LwQ&ywmS*iL4g;zZ(w_x4g(NCd=|dcf&qqk>*l%Q9Q@DBqf7L{&9+b?CF+0-9i#F*kD<*D~)-qp*+?t
Pjm~3&t~AB>M>6>lxMo-nQnQ$Id;$Wm=_w#3*GWsx4hmQyF)$ZP(wM=El0ZLcysKI^_UY4<wUof>Xy^
Zv6DhQ(0`qx0w%qFQLgf7vr15|JeE=__=Qx#$N2Bwn7-_h@_qE0zC0e|zfTV7%TxODOn!NGavt~5${r
<CFr8>sreGoJFF9zFUVp3o@=+{KZejL+{05f6w&36xh-7J7@Hmd;W0YV7TT`bRbVbrcvx0>DGPxGf#B
>8i1ok_vqT(jsA}F6P_46ntpC}Vc@W{jrY+jUr_NW_j1uj?lRgFpn?LVNlT9S)IlM$ewL6C5YWs=_^D
(F&yPRp`r0%|TRZX!@*ps3OYCwkw@|MaK5zFvsLWhUm}n*x~T;-XiJY(7wHVm=Etk7O$fE&X9XRI53N
&d%)zWl^VuGdvpZ0wbKGuA`Mj`D!^4)c}?{2Sw1L(}*l1RJhwzpuQNJ?{Z5K3OX|_3TOM)v}fb<^L>j
`5zxbfC=+>)#`m|JC-(T=c0H8<|2@ZUEvmH;SBh%T&hUlZ65u)_%$Ex0#Y8a{xhTDMV!3`;9)i}5skP
jjOOOjfny)oI??*4yaC?;s<nSOg#_E~kns>W5E!F#T-mV(<f2LMF!L_h;gT*F0*Uo4oridsBf^d|SNj
Rpf$N*5!-OA{|TTdSiyQ7NS9SjTuUOeyjzY{fW89N7_Li`}rgdW_An#}|bmupC?W$z3zMpxMJ+uJpqb
Fd8G@W#xNCW#KXD353xoz*e;qXc~KeAdH}{V;>zo^-Phk)9}TgHWr)MrQ?#aN$){VwsT2(*Xr_XdhqO
Do8HmO+FL1kt^9_x7&LyhMgKfN+AdOGRTiEnh!vfZI)5$!RhykNqmc!m>sjdQ~b-2P=cvH>D&eTQf>l
=){lnPs`niciX>q_7aw6)$T)L|UT05hF!TmCc^`7f=N2SivV27DTgW$}=7Br+=V#k(@j8C0Yb_-l%9%
ylHOucidc@kc;Q{Zv72piRvE%lsxBdGa2zz?Y9@g(~xdJ<h;}Losz3Lj{Xq4K&e*Wq0o4i~#TK5#IYA
OaM!E^8q0vxc7n78;zG|9o|Y6aiX|C))0zA5Pjyi;&iF!wPP1`f+tjsE)i^M{Y3E(?h2nM&A>{#I01Q
BoBvkh~9f%_Z#fWVML4_b~k3m)2_BkEU5si<*3?X_4nLrW-LhINAP>Kf>60R1%y~Q7wK<!SNCVt0gix
k22Cbh)xq=+bzkzu!zf~PMW4ND~NIWm|I9T)?4vNAv<WZdi^b5HrB$h#<sLoBP>&`w+X#NG~2ja4!<N
Rgw~${7G=76@lldvPjOpj=`?M!I}GA55;m|frUoxo$HLMrjeT}P-cd;TEEHNb8+VxINp-i5^BB_^e(M
__zhiFK*Z)uz*Xc~u_Hxh-Cih(DoT8>6wnC_%iz|_*zk>PHzCO@aPTC|_0BV{*xWk9HlvAby=ESg}g1
^fwnZg$ph);_OQxT*VhPC)*1tSqT7zRvOM5RV|T4bxG%z0#KE}{n0WdKLvWSsvCkl|#NHAm<Pe*&z5p
LWN4kH_7yf!v*TQvlW*=#WBiucgaT3Zr)CyVS**CIL9K!&ktD)e_+S3IUNKH)UjHZz}}A{OIHkBzKuT
$<hg%N_GZn=NJnK;7Oo#63xMa59Kz4_AjPMMooFL6iD$zu`2_F!CFCa7xXn-1<VCQaQBugh}K{VJyeE
*m^PXw+*TrG^zcy>y@BAN6w`E`irGMpVG<-GI9T0mz}SBQT%3uT^28YN9lrkwk<JptV<v#hDhjB<bH?
OSQd1f=0z4DuzEZ5o#L>tJn9{dJaYckpqL(=AmF|x!vytY3X^k8+TQubsX9&w0p|;p0iKjo?(I-T{&6
^Q5D5g#_RF8KcI%0YS%s~M-bauwKX)u90t46K`G@@L<7!cK2Ayaz<hBljzC%Xue2bh|yGU+~aH{a=eo
!dLJlF%Q;0u-d%pX>vA9C4fFjQbd!?Cx)l0zI7C&0mf_J^mK7Sgu9o0MDEx;5lUhTg+Y0?0Zn$`%V-+
mrUW@vyeUnq<epUKy62CA^m^${`~TR*R}6=q$M+d;H}ET+<@v3z&$slOhNjl(^X}MJn-->Jp%`G%p7t
<i4!d|2T?CxHS^)~7<_{%1OXsau@hclWc10TTd<`7m(8({_K-?oF162NbZl_qON9=mO%6a%1MSKPj02
CDw`n~TdfU&=IrU_A2kF<tjm$t<_7wp^E0vYFPK#Bol3Y#z2@l_`mYSmDAXI7NYJEHg7PgVbPUhR38G
;iW6<KY2&)d<l05wl8%+bf_?J3z%c3@D0+XGB-Ep+;6f^KJ0rNUW*3G@wbYjt3@h;M4Aas43A8fs;`B
5Aw0LEOyfMc-ufV#XZX(QBo5El6C)yH4*8_TO>xD{TVNw&MZiqI>GIS)b{3rbOl<TW>{2dWxblb;S_T
%-^!Ld6a8@qh`=PtGwy$e9d<T(bz!Z*+QBK2br7!=i7%0pc#Q2iY*_Cc9Loijzae&XfODvgJ`(xr85b
QBkA!S`277)=U2Pw?E%s0!>Grne;Dn0Nt_<1!@z;W)RDC>Hiv&CNHxqwAV9ABT82T-R_J_~_+1IRN?>
s=HG?$`Y*yeZ%wGiQ4OpI>y~P?ecL3vvk`Z{`*gEkfkS%T~SKyzo1nyySoupYZ$;2p<i?yhK^8OS}Oi
q7*TLQzuGntJ#gpuY>$Q(&#HZ!N_S?l@H^AeypYKW6KKY9B6)q$h_ZQkGsU6g7H6?%O?PoroFi`cTI&
CaW_Ce|&ftmkK}mvf+CgXG^}|2+MGknOy+#9wL$vt&wB*jen>8p4+NaWOZRlHJ@;$}!MfHw;2nsFP_C
m}~C;02?0647Z+#%tV9`xYtHbDvW`nWLg!qXW%sp`u5Q#FvlujOCQSgF&}Y{+11_13rChl0B-2<Hz6Y
ph!&OwIDOa$v(RD)|94Nm7@x@`kfpbE+B<sXy7#D4F;QJqGPzEN5w6gwPOwwA<73n&<6HD!DVa-;Ug9
HkWqncXri7l(8=}Zf&-bx|w_!nNf775qod7u0{wTeFU1Gp8Do)3D1q5?n9**II;y45TYa|0IgV5-#OD
7L?L>ds3P9PowQq5=JkvnKIs%QYvx%!%;^Zu3l?HxT$zp(gPJnRW@dvfBcHO!mZR>}zmm4c(u?H<uV5
|XS+@`dQp36oddF+!Il$uc>$dq~DSew|2;6^x-N?TGv9klPC*2XTL~6lhe-l%jjw*PE(<m`MeKDh<O%
{8zDxFss|r@G32>oUC5<GHIs7EgcKSf}Ng&k>-AY>B|`AL(+U@X9ElclyuXqqeWG$%3j|Vae1IEJJd~
5HNC#W^dDfen>$pj0%-yN)|XU(gswecoa8y?f+#&*N7%u|T&7*p`jghpACgqA@(iZmrvvY3?>u14TTP
g-bV>=sANZ7j9lijf!g6$;hfVjnIMPH3%<KV6=Pf+gt?ud}A7}h*%AVdh$u}fdyj`9{x7+&aK<i<uCo
}C*8K0h>29Bf6ZZnAn*LpWV_U}PId}<aHgm0b35@J<6qdlj#0Jtd0X%PoBndd1>=iX#T?Zmn3HLprc&
`rRN1q<DppnRIGREGSH`P{%DJ1wvsw36U{j_gL2pEbY|oyr6Nly=o=Ny1|%&37<idRfe9i>Z*0LJx}h
)21~|?IgCV&h!(OCBl4EgjAsai6)1R3sC3Kgq8SZm4cNH89!5y%%_yWqgB6j)(h<iJIhoh%l{$nSiQ2
LE++YBVzOFXT=<Mcg*Hg(c8aj*$s_F^s=X<erR?rKcaJw0bPTUg5zpeUUvGaH@7>1H50M%cn9X;M(0S
8~48<X8n*aWxM#%L2_fXNTP5Yrfe`o-6+kEZhz+|}q>J-<_Jk`6Ofq4_apJWH<T%i*4)JAuyQ5{h)78
wjY&)%ceG9120G~N&`FJ%Q;gF)v&F@1EC)cFp|%{0L?mK%XSLsYEV!Zg1Ca2uC|Ihmpi>2)s(d9Xh6)
Sn4xhN}%!9;h+2s3TNozJ}MUm2SmlkqH$(o0TiyN`Rc-5m5p#q<*6GVuDvMsOm4BA*l#XXx)g{hD&u$
=VdJH(rq7}2P`Lk0)d_g+M^Ivi9#)PWI4c0CR-^PW0A`lN*5KH2>eEMikV0T&&6%yWMDU6Xjt^`Peo9
Y1hJ%SM0n+`*fN!bg$<@%vI9#WtUy*9W&kbc^?jb*IVmBKJfKH$BTt?1JTG4qO@pB^h!NIh4v}VPpct
SDl_%7zC6<FOU<;sSj<G1(zWJ)6obD6}4L}JcJ8h9v-KY5>DLn9slhlqPXat3G0WM&s8q@-n$nNMwEp
2wtt}hBOl_`W|@@Oppi6ZG6EYct^7ON3p7n5sBYEM#m#)6MkFgLI0XuHYo0>BhDv`+HDj1nIOdVeYg(
a-1rfL=v*Blu<;+N}bQpx_zD(8Nfy4wp^GbA;8yP;%MtPC=emP}Jegxtlh0$Kgj6m93E|Dut9eF;)oS
7gL1GBmV!?MRXQEd{1SQg8c6)iGNo~bRDpLOl~4|;5(E%rld;lK`rYQXu<Nv9O-^MMV7f&!3{`AbFc$
wykby-M3hwu6tS~URdTcWxpP=aj9j^~;QEO$`)Hi*qP_#3>1p!ytz&YwOf&2aqi_58ojE9`B1$3{I<n
}YX0U(y0*Bmqvw`M9n1mACL~8~4YDx8y#2N?Dlij@yk&t)HKv!TPBIg(RKq->&WJmHLRcnnyG*J_g#}
pML)ocY?-sgCBZO@=iG1#8OHz1|OO+DP*d$JeX#{h^sqtTqE)1`q?4C*zn=?ZNIUUe2*^@bRBXCT(xd
+B*hffeQ|f(d0J9sW^EK(usgFIWcHF5(D1DZoWkWQ-hn*u1L3s@afNsz=~Jp`WU%+1+*Zd$w$Ba--^=
&yGqx@AU7JQnrwP7bI+6kf5%O`^wNu)u<zCc|l12P4}93RTX7rx@NL(q1CSX>?nY6m|t$=hE59RB`U0
<Y0VqhPWJe-u|nilQIJ<+-3?l8G_yeY5;==G&>|?E(3!>PU^VC9pJ7CF&}w@&u?$QrAtM`_N*D7PWVs
rb7kkaz3{pssJB84wYsjn`ve{b{UXdm__IJ_`_VOU`Xkh+p!58?K6*?@0wA!43DjdjCEF8EOS2b$?+a
?ZjZf7HYNX*GapNSE8DfsGwB$Fh-(<S-FgfIHRv3lSqYdT({&^aGW@q6ZzhoQB7JxG5HxC0+jAeAKZd
US-WI*n$*3|l*~Ifc~9eq`>@xkf#l*-^0_EB2Rw^%be$AeAr)-NUm`^in|%)$BVi;kgVc<{+4zJxwpV
j1izM6E4#iGzz#RXFK}Yj=zHraY^fropX{6IIiR#0I41H4$vM%^CZn`a;i|-DL2X2Fai1e4w>{-jOCS
a|K-zaQa5R{YUDL%JWT+lfv&81$x4fWZh}F0=Q&R6V)*>|lNZC?c;9jKe%lJIX@u!4kO>T#7_d$S$@-
kRFwQ+=*52J{sbn2O<qP4Mwp`rk7XS9G?{)2-V=C4+F$|1$-zW;<;5j{be;|b{>D_&b$NloJ;Y6@6nT
Q?V!=6x81b5C5Vx-EhB$H(=9O^+}{p0ido#>#m8Z1`sDhppLhn8b~FD`6FK@^A*bVtd3kx(x-a3tr<q
%rw{!Z3L@)Ui~)>wVX^Lf6GF34Gl&Vp%o>TlT{wFFGnoqYgOnz(A$al|u*$re#@ngG#x}2&Y=6xyD?3
SxQ<cy-pr80rfpDiu-PmHfjVi5qG2~#qv0vVi@@kM@Lck0&`t_`F#3(KiVPw+!?Itwfpqq?TPA19KSR
0dmOSJ6R{TFqrDd1qrDJ3=yAw;06YWkH?AT7QpoiCBF%Gk0!>kaIi~;te(YQ%R!OR`)qdP}6%D_GM<b
0{=H7F4$HINRnKIg!=>dKk&W#FFsA|hbbP_?m&h{Uj_oH?ipv>?&i%kV4rXN|VrD%<VdouY>-;t3#jK
Ci4=@SV2w)?b8*ZZisXgzXofDmr>&6TzIZ9t4YB*u0KRW{|GWkE%wPU10~(Urz-T!W7GO;XF8$)J@j1
_%@LX`_?g0fFyGwn;T<WxEMaEc){!KI3w9#C#NhgsQCN%i>smRV71V!zXw2fQL}Q$a`~V7O_|-CLP|Z
e8Cw^pjY#O8a#jU9y`N$L_$OsF`h#|=-Par9T&b4@7^$V=AsdiuYlmMH~?D9D-Xjgy)vm4d7&0xh*lR
<OxiLwMP|89D!S+*Uw$QvSEMRa2fA(fd`-vO(SlxtMfEQ^Q#e?kw1Bzj7#|IiwxuwT;E|=BX^xPmBw#
E}vKKs0E2H4=JN59kU0*QA)=>bYb{YGf$20ECb~SZ`7bmQ-uzEE%@cIpC-Lh7A+xVSJuV&kCc*suaFg
JqrWBP>=?%PMmiTTtN<r`gcWczky^wK@3buMRz)^S$umxu;?dkZed#b7)7aJNTwmPr!=Gcr`*cRJJ!t
NSVQzd;0VZ%X?AkZs9&I)OU>VBaRv!0ej>&P3n0Iv-n2I)l%`!RKFqMG%flZ_X9o26w(4r@i{d7g-f0
D2TfrTibvWzHcr6NFL6k-drQP^3+?;V!scHZSk}P=3v66Ve?}}B`f}@4?-`Vv~BJuEW#v5g1^*D58#H
?h>Sth{>TCwjU+|-WXX}^hx#6~fhH4FC3`!K!vj+_UCZ_SDVC9t6Q=6$0tJ6QyLw&p4IJx18F*b#7>v
g@dJo(()H<YjJih!RNb-M<98`<dzDUY{T@tVuJFC`}5$$=T8=IPg7wtLNQ4v;XkpIi?A;>a|*)^JX+u
Kl%Fv5tEx%4+$e_58kNAKMrm8ytkiH5)ebPHsXIU#KKj<d@jYES89KSUw+Qnzb;YlDbTqp#(@6ANFda
~;TYv`XcG!FIQ-x^6e@=hd?OTx_sergYBVGgB&>M2qwq>n&9mJDs3!JgA6e?GDl1Y1$?guFzOcX7I>9
*j|pKWzXprMSyaA<SXy`>UQ+^zyEz-9xTECRtu~x!}9Mpm;~9u^<&LQo=$;#Zjw7$I(<v^5F=MYUGed
6%LavP?C<Oa-`XBu0_P$s;t$z6>l#78A_gq58yl#&$9*BqPvG?GAPM=T%_juPrYN0Y9gD3iaB?ocKvx
wM3}wa}#R;fSg?c~;N;bEFWFudv6uTD^l@!_`PvDJmERM2u91q+awJjr^;}i@rvO4UPMdscle)(WHj8
zQ^ggUcK92H9{>=}4nkx+JDiedeZKia*3HR^PdiIaTxIavhyKd}3g!V7f!^Jd+`lYc_xh10iW#SJ2v)
^82;?>k-zQ6i&Bx_g&j5W<xJfmHV)0FX^`U%0dsl163b3BUyEbn(-9(&!^7Cl4GN=}-4TmOA{gWNy=G
!*^)9=TsRi1|;xOJEsPj`P6=X$Ku>TYKPoR`AQ1e$8s$>Y}yuOgeLKD_=;chX_>w&yrALSZ&prX$P;$
;Jixe7SIS7#XzaXD_0bco<sdLvSxgnXNWW-NxOMm;70Yj{$(y8hO&4bFa!SnABB?-CkU!LbdIM9#{F}
?9{!k^0W#a8R9)AKRCytiVkGpSrVA7Xg_aUQhrf%IL?^OpD92}q>9Z-m`_4uAwAWuCzuY81vho5lOu>
z-FygG^T{dhw<V2s1E!|6vOchyKNi-g4u@tt&WaHy==QKPB&!l8I)O*{X%ro;i#InKJp?LMT$gGC660
z}h61#_m$xJ6MT*q=@{tW!r1Lg(?m9Q$3gp`m{mMdSu|P((fbpp&~t@;kDz@^fteKvAn7UUrDS)(j(Z
kUH!{Iu8KYh=AX{Pioq4*ef-{NW}V{`1!Wo)t|My%s*iT;eLEADba9DjO(<l$>lh14tAEeOuJx8FU*B
#Ql6vWn}|DRqVl+|iS#UZBY+&gb~g8g8r+U{nNaW7S6oA)0&=n+(yfz>l&G-~mo()4%Nomckr#AtJay
ltFh`C;OM|cOp{1z!ze(`q8EA_KPk63Er&-B#T2!j0*nz|xRo4tjn)n<;%Qt!Bz&&io0q%9jSLVUgMD
T5P$p57nD=3{xt@Sc?sjQFIWn4U`a!C3$5p^{Qy(}yVikq8)9>h_SEs6?=zVtwqRe>+y(WkvHY2U0~U
F7h^O~3aCYcGAr1wR}52+~#2ZbG*z+5lYeWfXk#*2uN(iCTWBHCyN)lb|G2`!Jw$A9^u?oi}M+EbEm~
1I`6_q?@)Ux|LTS(J9E=5J>=2>_$DhXD`!`VTSB&^7}+T#@yJcQ?scl@Wk6I_<IHNU6C#pdp2j|F{b>
*qd?I-Pa`^D+7bbz9ojd$SQ1<Rlc;SqtI>}c#c^Zqb&XpoJcwlqQO(*FEb$g{K&G389t_E+ftOcUd*v
&nb#wP{<M4;2Ub&~j_;FvFt=HGb5pf5|z^`V7MH3<Evdn3FJQ{*}PcY!U(ll)Ay-D5Il@NuWSdB<rGQ
GCdRehh?eEUH1f<5y(d$A#b)og7^OgBa^Iz-s(xH}HX+zv9sPV8PY*oN*S`?lsUtD+&UMHeZco_%pKf
cAnc99WYz>XFy1<<FoJcJI~z#?SgaXxm6}bl~>bYyL)gz>k^a9-%O^J_*d)<>UImonI<Zn(S2^)VB9=
=r=5PlVz@x`;g50>t45BEdeb<cd_gmzO=Nr?WcXKB3;X4-=SDHVWK}?v%1vQ#{qt%Y@G<)pT_qqaP%w
f{GWYc?=WLU9u!MEZkU&}-Hwj%5SpUvOXXftZ7RKHo3bTNf44Z*dK_>Ob<QPFGc1h+JF(gA=o7H<{GA
eBY<3VbNfLeMMiMxQ5OK+zrFFX$2;u)+N*90p?$vCwtI4dMcp{n`A@cU<kd!`rt*&a98evM1fdkWqBD
WLrb_n860Fe9397H(OyJxZZDYBV!^k|O?SvHS<40;`>5N>F4#%A63=kybK-NxhFl)-lNB`0KOvZU?zl
cV#1#pWayIJ-41|00TQd?d52-Xi9`oCaArOr?7<^xloN1`n(Df`0ZUa82DD(K1}+kI1ORAE`rnQw9En
jlQML#Z*P0N{JFYbp$&r1ig-_9ZqA_VTZX`qhnY5w{+TDHEzX$#~Oi~J0rlI|3t4#H+8r8n0f`SRk`f
XDsJ13(<CndPLipxGxQUY@=cv_`v#7_HqLH>!CZWz!f*?=3W{k&@W*8c&;J2XO9KQH000080P~d=N69
J+`$iN10Q^J%03iSX0B~t=FJE?LZe(wAFKBdaY&C3YVlQ)HZfSIBdS!AhaCxO%dw1J5mjB<Mf}=DmDV
CI^)15i%#K}ohPp4;-CMR~=nUx$ZL_!j3zCw_))bW1zy$^r{C6QEieOeJ9fqQ|A`}pA!%rZ+NZ$4iZd
6CKa+*47SWVt66Ithzh&bdDF0<}?ECGp5BV&x}+oQEoxnF#gSndy_svn5j7M&U$@E&gBRD%6&y)V@e1
65tZI)@nP6l8r2z6<HXn#XJ?6mY&d9r}7!MpXAA%jMX19vmO3^^Zwn9y=fZxNvv}b=OtC@b+bz)jQ0$
l<}%LbIn?LbYU^FX;Gs{Hs!$HHe!qX_wf}wYYVgQ=FLHnF3C}R|keT;Vq-m&pk%K5-J$;GyUUiWgy#D
yo9r3H_Sd9O8Gybn<<Nui4o<FTuhbNCL-g*97WWtAa^t6OUj{{G}u(&E-br0$S{(FH0pz9@+ongQz@F
D!a5L*7_yW#M4=de8QVZTo+gA+(T^4@4&MAFOG5*AqJp3+_*a?#asG<nk1<eRPrphTmNHlTCAUVZxh!
}Zk=l`<4slQLh6Smmh9@6}etgJki$^z-2bQS0@3p62JIL|(G={(+s&VO7^~x&HM>T1dFB;!wrX)A=q0
OUm<1Ex@Gp1ZbQQG2#0%&BY>=a~aA=qP<*t)4u4ByuMg0GP?R%67M1^1_6jsQ!$gGeS**=SAHm|wN?Q
aia;e;SkRAJ(Irg$yDvqOQxoP2Bh8bzgM%;PjiBLxKS60w5vC!DhOd|+x+}hh=CaC?BJCocL=gxQd!W
v&GF6sCrE@Ct9U1Z^7vSxvxa=BvphTF^<O7xQWkVMxMbst9Ty9`KW1SS4Pm@?G83tex9SoLg<;VnT;N
Gc}Bt|+*a4CGvh|yY#fS;_NcMxBHOU?dFzu(dCztitu=$D8n`iW?cDo%@>3%Y~!o!qS?jrndt(hbFe<
r_+Pz_*At4LTAjU1VJFl_uB9Au2-9OIC$gkkn(j&3SeCc2eYKz)6}LU7@n-R7q-?vaHiASy_Aef<IK!
"%text.

(** Lines 7515 to 7664. *)
Definition DATA_49 : text := "BBDkbjM^-Z2J7>?R#ZnKq|t#cupBC-(5diw?V!XY!P@VnDJAi$i+Di>sd=X45~#39f*lozVGeR)!-uk
pxCv@h2laeSEm6a$KqJjbz_e@y&1)m*{svq{(!XU76@gQW!n${gL@79Y%<G<I3H6Sa5YVWgng`X7NC~
u`sWhiWiI`l%zZ;fil!C*P0T<VRCX%R)Cak(kF(bK9;hwIvNL>1o@gs80T*3utrVWqH+C=tRE>gsc6X
EJ`fkzKo(q;^%ft_re#L`M#Z&t?wLaadE(kZ@8LYBIzzfW2$#5TIgM69jT@k5n<G>hn~%!G?TF4>QQK
*<LJB22YxB8;AFyfnfsE8|#1dv|n3<j5zj!d*&i*LN~&95V(`k^Pv7KuLC&c!yOlyEAG6jvu1}Yn|4B
p2mjyaiXACJmd13gu4}MG!`uj<SIg!dDiSE`V<q;+!J;$8=9uRR{-{`@v`CO#<;DoD0I2<4kD-k1FJv
@2e3s|8XJUW?`RD!ybJpDD-(ubx-tc(QRE3C@lYC7gZeV@3q~DV)e%5|_Cok~=(O2ME<`9|R*l8Vw+g
#hfpbnJAQVZ27fIG?ES5AitEg1f0Mudc7EElN^F6>a<V;kTBSzc-+FrKhDtZoEWm8#0ERgX^no4G`$#
U7vU`?&KgIPI$E&V%obtP&-Jjw-W81THi$R`Yf@M;tc*Hie+h&M7aP^JIETUpr&<k!8#*4*&A3`<;=i
j~v=oNe9MI~1i2SKwMi5q1PDk3gNE$XDVsjpJojnOLpt=!0Es*ud5aw`W`oIyqDh%fK=Ah!DScq$^zF
Y-b?U3h=N&XN1$bWwe%7|JD#uOA~@hzyNCv&*_@UrM-f!5WBSrRvkP5M-eFoPXzNK1Gbem*bLl(6^n!
AmU*ev9X#xiEa(ma&Dg*YChY9+>Vw7SwsOh>U^@+X#&o(j7qgm?*qRF(nuQtQkd4b<C*2$(#jpawM#}
19gHoJWvB!yCi@@Bx&xFC6vIA*)3`nCQGLa;wFa|~ADbhsY#=)3FnrNdx=@)*S$uJS!a{xaXvA@SSl$
2-~U|^8M;f~88Us5UZv5}musqTqD)6iH$CchLaV>`<vq4Ny&*l~e?r?kD2gXyAPgzV(CpRgV>-ex8sd
~?%CszlJN2S!6Wcz|#@>RLdj3)nqoJ1(ZF-3EZuQ-Hd*T+UWq`#1#85`v+@T~+K(QYS`O`zm6dne|N&
*vSYxI25cnn=%wbsgPXAlqI%F!h&^oQzF?-7KNSU?^VF&W0iXwg%@Pib&$UgI0z!xsg+~%aTxLOYV$y
jcSE41tEwAj?Twg&Mw&OFIVKO`AuR(26-!M3g%+WqSJtf#FJ;{BW(mEPw6Jnt`t>qYRIVOpl&_V47aN
5OI~_S~qUx9l@01`1E2IbPT@R{THk>vFu<bX-mB1!2GsaskMoZbOPz!PP0<Lc`i<XsI%Db{qZrDw+jd
X0~p;am}k+Te74=n*k)B0BGYztc$<=ut#=Umfk3@9!1xtUdOFbUQUDqPS*cQ<xm8<^!9SL+Tp3J5cHd
j_5%R~utEuytJk{_z`!(}#&Jls~o*L}=gaH%hiY8%-;3+|a<A2x1ENBY;uGYP(n@<nb1A#Sw8qlJvnY
-rL-qNXzLoQFRchO2>BdR4OVJ#+k%jZE41YHmSI6A<TwLKQvHIdLYU$y<Ph*h?~hp!4#W4AUz!?sGj-
GwjN_Vvc?Si(nxU-rE04!nI^1@RTtMej2+XYy6Y`k(ii<D&3j2BSv{v;O7hW0w%kgu%wF`DSaFtP4Q{
**#JMOm$<!ZX5p2fWstP~QpYIqD8At#bB3&yAzjw`~0a$)Sj6(x~%5_@$bEw?_;AanL@FQ>7$8E^awu
w~W^e8bR*Z*G5i0eic?IeG*z5?AR1Z6Ns5gPwV7q$y4XV{>%rFi>}N`VB8j<PJNw2>LgVhpHHwR*a$X
)S7i3r(~fKj(6ltaw*K;nYaJi7p}@nQi17or1IdgzqZIDKoBH{=;1V$yY>*ZyCQg5#&Zc6ovw$#H%fs
H@=qC?%lsZ!y=RBUORw;h>;twnK5i-%obXx2=Hrd3mYyZ>9~C>%x#=S;%scbh6uY_JFBw)#94%9(pgd
^cJJgk5CCDbOzigVSsf~G;xhX!aL{e{d!k~eYlQE5Lj@P-W;wqOdS#r{I~3wOu*X7h>cT=`&Q6U*?62
9E=Sef!+)W^s(3f<zAfH8f%@g&%YFje^^OD;sj)CjS-pKVhMPJh5Pzgg5EwC_cR(qr5{r4OT@pbw_g+
@W@pn{P=GwrPt`L{Ij?Y9;50N`90l{PmrKTE=vxN;1@aF05iDN&2vhPWW6kvO1z!~+K1Tv&gM<r1PD#
XnGO(XJg$d`A=iBT1q+aqtn4pG{-}P?^IT%$1%OnIhC=CunwdHqlk(BHh$NwPCJf<1(+*m{+edLRB`Q
+LT+Wdos5|+QWP_1rZ{lIW(nd9HO6bT461}$h65QwLz0=xX{cD$w_G+jeL7?@q`=;#Xo&lIgQ%<a9Z;
)fk-%C+sTPA|IudV8(%oIGTna}(eUD-5|jKXGVaKVqMiQXI{_#Aa+tG6&t_LEr{!)ZZ=Ck=q`a^7yvk
g&#QsoG!Q?AV?FdjVKh9W>IY~X<%WY#l6e(M8b?fU$W47;rFlBWP?mDrxOgx{!sOnNKYoM~~1*-$!Ve
_{U<$Lik5hYeWiBmIZ|0+0s0w-rvFHyb5&Ni0<R@DGO+|pz)Q&BX&DXTM}mSeHBc|oc!Bv=S%4DE{}D
pcVwQ~tUYqPRQ&{RuXIER3r&23(Je2+xpJH_{@e=+*h6y`nE^aJhv<Hql0S!e$bv7DzwI%B81Un2S4c
;VleUs6d&hP9VNwvPqOL9o?`AvlEEluOSwV%V@}G;JEd}*5)4Hk+AI-Il*f2rJ%g@A_Nb>g~S$$6NUi
h$8S-<3#`qR-ge`0oaBE0T#e%s5NXO&;y?ftIpex4{I%vh`pUr8RVMkJ#Gm-Mo-rAPM{PKgf(to;Nod
~kK!i%n2>}@>PLb0K?h&2&*l|6JSoNH=dq`Q6PCm5zF=kU_Cbe&~*48RDP~#M{3e8LQTrx*`N88DTfN
m->6G%#^N-DB8=w&A{j2=-I46%Emf)PP$TH+L&+uwmy0Do_zab!zzGW~LVhckm&;XC4xCnbY#Nz<1(a
a`xsl{|rJ18dAN5)k;wkYdSs*;SI7L}eT^y<CPdN9KFEpv`+b&25xYKWJ)bFC{C8Nw*6{YMJR>Oe&s>
u6JR5ty#=ws#&h-D$HpKd?|XwX*fqmSz-$D&eN1b30HnkrBhp}WmSRcrd4ebrPg~sg^;RB!2QV6#ey<
)z$FqpFOW+-eV9X-$~^EPp4kU!Jeml1we-qUx;$o7WEr?8PmUc>JU=)TbY45KQlnMNn;t*haDL?d!}(
s)wMO#*gEiu_gKm!VZgA_hE(a#uXx_DMu6-OcoBFW!)T2pr>?+&CsdT9Je4R((`G}8p12#dbUb!xDl6
xxl-n@JF;kT<F=2!2o-e3KEb3MZIsa9t|!YTDkikx~sa!#u5Q+RW8^XaGWf4RB3o_N=YvkVod2Y5@5j
*ADx#uIe#7cdJ1A3WqdLZ+$o)l$KY#m-Q$9Nu1E&p&?p@bT)?%}-a?M8SRZpI86<?Zc-Za0<Z3h|n|H
o5|s5aO^PV`LA!@&40R{|MKZ4>Il+`V>?28iR$4K?XN*_x*DFL=Li6XcJtxwhj-U5f5X?b_U!RsImg8
r^k4Gpk5^uh%wqxYbguJaxf~3=mru>3{;=%qUB2@EEzDmucEX3YUn5K5;fC(A_q*5#ZhHal!G~SrVEC
f<>Mca|I}aSJ^Z;#o-#mZz?B!FjKa7{6sUbB3|5EX#<NX6I!{vyN`VTM8N?-a2l{$%{1P_9EyvfrZL{
NY20p{fnq~%_qmP?5NH{6xooyV74nf9>OyDgijrP~S?3=b;|s&5V^VBUH#G-tS*2~*=~b^rFPnT11s+
PlV``i)riZbvSq-c=m%-Il;oYagZgj(Y5k)v}-VFh||H#Sx&mC;MLe;(${oa|n6$*1TTyJ96e#KhiHl
E!)ZAshm?O%CIiN%bLu4Z$Uv|{Jq;c#}opZLt=kGW-vtPtW?YTm>jLFjqJi*+a5;m9!iy3)VZKXLEjv
J8yidqxB??@Bf=qBMOlU3UCTUWKDX10i}CZ@mew#Nq<gT;m2<nTFBXmjA67l;8MwoR1Qyi6IC+}nVJr
N@K&0YA9y~<y_H&|uzv2NDGU!eJd-m+vv+?ZNch6?e|N7VQ>{}@4+w&ekms2n(|5?fd8rl?pZ->JP3I
hDt0hLF<9?uSY<~R$gQ}u<7_UOx`YP8jp&S}-^6GMK`n}J7O1~8{y?{GAn^t2yOO>ALMqjlH~7Uk$-R
nI0Ir|h!Tw4;O=#|hwHAVbfQ=Lw9!P#N1c6OCZ1`yX{pBK*v0fP^sp*8H^)syfUiY9@c`xDB;vLZ_q#
eRoLx;ZcdzFxJ<Npxyi$GRVzl*lvOj<I2u5*vo`7{bV+PpXujEU}DqH!`t)Mv*GDh2KyTCYg!+-%Kcz
9I3BHz=AA7Zt&Pda&zGVhyoPg^A_LXxe=eszdGa+=aQ=7_F1Oo#n1FxP+Si)y&)S?nYgtP}gxld#vRE
vRg00A)-lQ(sS`fj_<g|=Fw+F$9Q4o=vs9Z*ffT|%M51j`Q{iNvG9M&xWI)c2MY4lz`eXL*gyvKEra|
AosPR9duzdyk=$6(s`9_!2AW8H&-H@Gu9B=EjNj@fW$QwDoWvqRRsmyfj>WnH^R%-@AN`#9wot(N)P*
-ln6AM|hu-i8T&*w8x$VI8`AAOkQ4?4^58U-b@wtOe0u2barUFo(Bg1nqTCz3f&4eH8`ApQ5oHm&<XT
tyvH2D;bY7{zs)^V@R$dK7X58`~0}>Q)im|Db$DX(;t%GMTcovxVxN{C}86vb63<DbAUL<!d|cUc`&^
gy?FF^GSlVPw12vNnB9+O_YeK)OwaCb&-)KOQ|dj;2GdzELhv*j4xfAjBo1fih{pMJ`hYvS%fWPvbfI
)H{e1D__Q~J{lpnq!+Fg{(+xTWEM)y-K4O$iEL&*6Q1YCjhQpEv?eb6&}QHU2b3}QZPU}=U<ln#C9Q8
)@+kiA8Rhk?G989G7~r!)~M9$g<`Lol5F1;oa4Ga;zH=<jckELWX|Dj)R6{o(Z4tviP4{^u~}Ll?@Cu
TIOz?)~-c$>ZC@S&(nzR2Filk(<FCiE2h}wnGgcHN5q}2s~>Y@}ABO9!){T#dvvp{*bK}U{=BT<JY5E
@C1He(`7b%{V)su^=$O*|I8+@O=;jq4-)>{KB)L1iXKw`A<ZAs?Ze}T(ZdWsKSzBv<7${2{w*>o?hc+
F-`e8e|4$E^w6C5m{J(48z9$4v#1W4OG<?QBsQn8Kqa)wA8~LF#ozE3Kna@i{3i69a<-bdC`EwEjz@W
X%dzp*No2<ZpQ$kDh<$=uk#-V6QGQQCAiW3!hqV@7`0@h(vJ$nOj)O|o~GU8ct=5O)bqx7(gM~a3SO!
H}x#(%WpUUFWKza*|0c$gr=e|q6w>>PSGYo$H<7dP;e{veS$?&q+AGV)X)ML3yE%GNbuPCCTpNXivbr
_mpi))6_C65`A7%w0wZt7cq|?9f3__(T;wn99*E_{UxL(W;a4IoJRkNu%K34nLna0sMafP)h>@6aWAK
2mtey7DrMibL<Np004n30RSNY003}la4%nWWo~3|axZ9fZEQ7cX<{#QZ);_4X?kUHE^vA6U3+ueHn#s
ip8}<4YH4e!PItGDv`#09?P+G4G~2j$v)A?b(j+9Yrbv|_?Wk?O`#lFBNRR|YQleflIh{t9fCJz>e&^
r-1V({BCD+%ZD2xJneNCL{%nw3h-Z0;dLV7L!J|ebr=P<|jj!5J=mT%K**9mE0y6n-TFql7iMBuR|0X
g9X;KKnKx#lhX`U&y;-_1w#y+vmsd2LSVSrGVvs4+7c5Ex-6EZ=ph6+#<K_QIyWM>PI<Xu%Jm>4nL!Y
-U>Y#l#Fu3wpxJicv3gLWh?AZZgYpexxDNI1+#TGMmxhiy!@a8kE(tov{-_`3Zf08h<?d>Ab9T=-*QB
Vm_l#EHuX#$)9Bv0y=YHbW`ZOGQzmD<ISRwg#k6EviuJhuYP=qU%%yF%aUQ>P+8;xK0kUSxq*Lytni<
n{I37#(Id+RiEwhflg=MB==nFlfnfSVVuoRmi;2UCC>er?;j<Y~;*Z2Qoj)9J%t;I%@hX2KjJl(t6$J
q_#p&|z3HiZyZJ;rsq9%MYLxQwLQFl&mC=#0mzC{_Mc9tUWETkDyCU9;<p{|7_Iprx0C%%n;-2gAVJ7
~xr4u|C3yLUNaoO6QO8{a``K&2dKiD1T1@<NcX=?IL-@tpAbx`)(`h#+?a>Ic>WV>o&3d-MntK4A0}4
b78_AcDUm##Pv+q4*+hUwK?qL(63J%;oxk78F-betH&$f$}|XB;YNA)Dn`)FhTUWf%WnoR{E-Tv!5j=
ngVj-L)zE@c|(JdAAn&)2f@0%J5XV??(ee{bmIehy01$r%F(N}<acU^-qJ9dah*U(Ii@T16$YTHQcRy
R%bd}3*Bk@kb3nR$`z8y|{U|`jFeq|)mFF~&gzxzuwi%jl%i2ijE1kW7ZpLO18;39j3#1fMJ4;42Eg*
)1PYXl<X1$C>AMslKVWP7Aj2Z*h#A+Pde8%qKzxxT8m@qDL>{w)C0$_S<nD+lal-NE2=78ozrVEA~n=
lR`oCJO}o^S%3Nnp30jZ{5yPl4JU1w#%MoFHh40f;Z)CFTxwZ3Q;&C*W~F13^of+E4_*=JIkLeIMp1!
Z-r-FDyh@QHGgiEwA+Nh(;(S?vQ$ySAA8hLKDz6ZFNZgg98C?Aeu0(3AI&?xOZGv4koKs2cVeH9n(fE
MN{T{!T!6xKNA%}I8(<1I%%I__%2mi=qX|={EkLGr09X!lLFWX#{Ox9;G2vmircz0-k^PR&uv^C5d-x
ZN)(9>Xa1~r-2YJ4gOs0T&F6|CL6?p~RY}obMpODan%>ah4Bgi}hFypKK;LK8mTT=O@_1|!GoBIZ0AB
<0%V+23=cmLEIGZi$Ysn2@2#5h)QYs&tTFw+;14@J6H|3w;tOLrx{!DCPNM1rv;W8g$1hDP^ypr*)L7
WkZOQnK)IfB?Il;0Ny&aKMsRf^+7A2m(7wu~w#e}D}FG}@@cJX}eB2u#~~4_`k%PAy|3*q9YiN+F4PG
QTH;zD!$1eu8~iw*np&MSmeAh*YzjXCer|fWiT3nckSj>N7QO(Wn^&ssI8CE!+1FLo#uo7Pq^U1(t;0
SVggwUO#6z7B(bDhX!XMJ5ew|E6amqJW@7RKl{7Bz3jNb4~7E!Xo!Zc3_aFs9<9Jw993Dc*faJL^yCD
8=o!ZFH;7VtNuT;hLI&CPpfMB1r!+FANqh;Q3uZukGzF&0KWz+!pbJKejDdb>OI{|#t}=C&Rrdsaim{
UBF#t5_*mMUtX_;YIH-M;Q-~pQh#~Se1cW!9nE*&jw_YS%Oz5CNhh6R5mpFey^HG;ap$zJdH{pr`o$K
<;cg{$xfd=1dk2QbOC-Aju-g;I}?&#_!z%W&h@2=U8!XpCh!?*VRj;z#H_W)!rVhj}=Um{7nT=1=Lwz
b8F91n)fc?`UFvXlF#uzOuF)%kKF2__0QI@b%Xk*@5)<Z)e&nk9FdXt9*5?t@2H2mGje6ol>2jp6RP(
Od6(#e?Y`W!`>zD@AD(9dVYQu|9g)AKIUK45+FXJ0<ZanB=v>-=I>2u{ax1lhoton`OQC@()y>Y`K6@
wrTpfrrnJ72HNTd$zLwv7)0EaXvgR{M>zVxKc~e@?Wz83o)(iQ~X;WIKvgVnjbtb<#Z%XSt(WYZbOd#
4-9@6kx8oFxts0qaJ@-4z#(tdrY!zanFsSnH$gZbxiR?P#@!{CLHUtYW&d_msK!wJN$H<9Do>`-Lnz+
d<tOvLW};Ff8~VI<)2c$YkX^=7EW4}x$Lqz)?E&$u)HW4e)=<5QnIq5{@{D+4@>8jIcMU!-?Oo<4;*w
cjV7$zNW`Up^I((a!`wry>C7WBOK&z{yV-@!UHMlO+)#Vh900cnT5kli&Gt4?@Ar%nZY8k>=oo!@?rz
k@5;7C-TV&2K-O9;gYjjIY5#6Q8-|9>R7((dqz&P)L1owNIS%UHk}%XIV#GcF!jnzy5is&L%ul8h3Q9
3!8kWjNKg1ISF!d3@=_#VKmamL2ei$|g@8B;Q6gYtA|c@UB7-}}pnPhEIGaug#f5?4pBg2zj$$}|rHU
&JpD&NE&@<+;$~f1{7wN&g00i@$afI#m3!;H4J%uH5Hi4Ys^9%L2lambjJSJ)cq?S&{%wx?=M}e|&VC
2K3pE0|TWJJ>WE=Yk<%BOzeA;T#i4kMo7W@z9~`FvQ0>r%OkoG%1eX@>`o1#6A>$klg-#y5zDF)gBni
^{fhoXED#MEH0kLc@_0usFwGhzYS9e3qE+donHVlV7#wih6;HP)b2e%{4<mAkRYLQWH9bO2o^7iA0`#
1ktUuN#6DQi4SvHk7q{o?zKdnpbr{VmIfx$jGD9y3?}CV3c<M;!D~MrpXm7ZTt6}B`xynTxAR{7Ly-X
sIL0$w{RKP&Z~#wLoTsZ+Tb#%|3&q@p#~LK|$Z>j+Or7y06d6*_#6*GU`H-B+Rjw>COrx;S51?dBY3%
wprb{3Kam*Xg6hp557+IHpkfS6MHcBFa>##qaVIu;?1)Q6NMK{1R%+}zd(1hk_#ej|@V6tD}3qmDfn^
FJ=0G?|M7$wl3W&0^|IK7-LCHWhTF*zdZrmlnyCnmeTrE_+TF7q0~gpu=JlVQ<N!{-Ln<F*x0$_hVCh
R3|%sWFBLXC^W?IJH$olB33pPtCdD9A=aR=X1p%kVLVKoFv%{>}H`9lStF^_IU<c5JQ2R5D?+gUydHg
{8Qkt!=1Rp=hha@N=+NmiuU4_oQ!zl9+e8_@(H3>(G&&6AE`G6UY!7fdcCv}ZSeXpIxh)bGri+0EP2<
Ulu%s0RsqwZTwiq|qkJ|KI?Bi3uu?mKjEB?Hj)wz8CKAlV)as*%Qk5C^is}NrF0sL%1@&XE)3heWPbW
s1$uHp-@Tv9<`5Jn6nxQ34<uaAR)fzhe*-5d#8J<14suKxpPM;M&uPF8Ay*wC5#tJkczPf;WDaLt)mU
Icm1bi2bEeIQ+iMT_>DNK=J35&7&Z?mP18Y0ZpFRR)>&dEn*Wl;?0gR<xs$3P<PeCZ|ZEKWi->wobsk
a&TD#Zw>%i_k}j7)Yhba~OQR-dM0UoSh4+vtZ?Oelm;`7-dv|tl<kq`kHljbpQ_TaT!w&!&V3mJllo9
2*-eQLJ=cS++)Pjbx1~)rMhI%9X+^UHq3e~Ts!CS!XYm2^M7PgX@v8`cs(APWKdjLM(6F8t)PeThJ>>
HKRo2IZMpl$SF$f+zYbp!Rwn%DYeHcpT#Y!uXLeNe3x-j;%cMlHFS!o{(kI!!hhboP%*6%v{4TM=#5U
W<lamapoq6_!IX14ekwK_JK+6$9vq(VBmQ1O-Y~XkRqV@n7UJ?kzy~iHDaDChku_J@P<_4DN(qQD8<A
JXoOG&r*H@Q+J`+Iny1M-}L%JKOZ>NHNb{D|c@95J4a#f=70ywZ!1kkHCw0sgRfMcWz0g}7hR=8}|73
)nj?Y)#_Hq=e3Qm2`lIKLMK-5&1R3Ja1cB(R$fXDSOAeGhN3{Gx*vxXw7~o?yhM+VjkpIh&hh{*9*H1
U}h%Nh3_kYFwf4-eYKm26q*&G04B%-2$0-)4DyK&k!U~nBf?-30P{VbACD25k0?iq31=y0urTcuGuV7
Km2d0d`%z8&m6My3;uJFWDj=B|)D5XSA1*Die1Ow1lH{!XtYCEP7tB@kasxc#`N@7xzj*SCM;pMvXlA
47WOonZhPopH;AE)@NKTwjx^v`2R=|bM*mLfViC}<eAxoNXt;2acuXGb++^-;KdUNvKCxZcIC<lY5Fj
nxv&=saARXz^1;$4p=eCYxF$Q*gB_x+ZPZW-zEo+(m^Er%zQ(@-o6hk5kXgnacp!oo%aYh!Sq<cWTkd
!%1_KU*1FZi@V(_dh~degVPgTW7q;3A7Gyonw)Xg>M4VJC@D~bWWgi0=1n$IY_SP4-}xU@CfF8NZ*Go
xP%(`E!wIH;2qdjfNh&juCcA{m6<UsaAsj?tkt%jr_FV$UcVoms+T=YRDI@}Ai`D<y^EkXsOfpF+^A-
isD7gKRZ6F(<W>XMPb$H6Y6iE_?37wAhUuV(Rms55tEZ~2&*;VCv|?^)xMEceDC;K%xSN8f<7=plSP6
K-+fSFOE^Ad)bK*~gK{l-R%)0gbdzac{YD*FyDi{fRfJ+^Vr17+{N$}mfcjP7Cmg5I=+#GAk&2hNj1h
)x~;Sc86_~s_68sEw@B+sKTN6Gea6AP#qz5<F{MZRwbWtwe^P1b>-t9&hZa1(`tu^$cs+)p*Q0b9ML?
O{)fE8jgW*>bxuQIwU>_YYV;{QX=&lmTK)_3mYCw2Iv~{y1VU{3)&i=Gk7{jfbZM>;gyDp_}dSv*xU}
fauG6rFMW{uEHK=QN0Evr?9U@^)*29rnOEkl%n?4hsxThrd#aVg&|UZv<^G_d^v7u!ALOBGVwSFa(#F
`94?;|T^AeCY?pfRGv*lnlYa-QZLBW~niI=h37!^a+%?^#BR`<Y7NMokp|Fpr?ke-9G{zs{_K}7DtWj
80J&91TSw{K$o$<-;5{!2#eWrN}ykzoPR$sG{(>vvdD&VfLbov>uP$b*M;=qz=)^6@7M5b)Q57_c-@l
w&qWbvy;xHsCyBM#;wSRI+3HLsY_mMk@{Ho4U*QAlxd$_(buqtS>TZe(b-HfoalBBapGSzFH~v=+YAU
zX4fah*Y2UJN=#T`UP5kgh`#We$E5q9}D(Fp$8X1&*3kQNv<1%TiPj`z3pQG!mUK<nOJxNAXf*+TB$H
`uces-Ox5L18C^)KQ|s6hZ?%>rw@Wd3qm|S7Z=XKR>t2Jv9wvR1b8bm<hed>7=}w0&vzsw5xv{Xm_*q
DQA-57AC;*6+_$h~Icao($zC{>E->i=lT|s?1tyybOlkx1g6&Sb5uBtQERRnrHzBO(9zUthK`Pzk2Q_
n(-=8=tx5=)q&g^_NmGA1F1yn1Er3<U}!X<WLRToyR%Aqc-+DKTnEF9+|g4F`6LHhyDV9EIA)MS%d-g
FC`PWtvSaNEYw>?pVGkBiHToJo_nM`DuQOC<IC(ex#fdTwpGS4IZ=^xjChB7Zby*_q~!nPyEUFJNp-_
Pn}M;y<g7tiE0DiEVDoyjI!4Tr!XvuTqqSJe}$1`_Y+xE2h8u>2=Z1>MVPW{J@GSZHRly1XCPhqb%^L
AKkcg&r|d(XyFzU_D%EkYKQkWZNIXpx+MNyBw)KFewV~wl|x+;f5S=qWx!b<K&<3P^M`_wzm!Y&dH@e
cXaRlgg+FZvzw!{|5`Vz0Q7}W3#;O~5<v6Zawxxu(u^_c>cv{n_wy4A(L;5~5o~1H{>xuBIJKN<T>-S
@+<$;a8t||naero4U?$(j22{P<Src%${1!L+E;=v$9BUU#~Sa#sjEPc9w+f8w4Pq67D0G4ijCi8Tl*M
Z(PKyM@KM=M#iK6$><nv}|cGq0elZO^6K5tZy{mlUevcZ=zuTA21=l0r=txopK^?MGYHyB}dGQR*&Al
tR74KS6NDRTWRo^&hp>`Vm$9cJxC)h(qJ>2(KpPH!G}w6f5}hBubJpMSq?!wfumu4NGtL1IdL9kwIX4
OxcBl7qe<odG_LRq2SsTO$)fi^39>vrRE)=0p9ufHtq{=BpEP(k6aDSp6ae@{z)bB<eWo#;c08I%<r!
~P7atOpZ!|q`}6)nZ7lCBN_e#BfcugIu19$EF|v~%YsYWgNw2!(mlRpPcSnOzT&QCb+p+TJC&w3LgR8
}3?5qj3@HR(&+s=fFi|r8r;CH+YGKf6J8$}DsQId!1NjnwI@ssjQ;yNtbvZ@7H^{9RElSbX~{-*{T99
nd4`-|3!mKTm;#HWF-<~)3R&b<jQHXi`waAIlhwdvcMX-}Nms4@QbyxCG*Q+-9gP#z<nWwDSS*%|o2K
)^S=-VOK-qZ!j7xxlO5CY-k{!Mz+ch5*1%4COpWX(iXY`Q#40597xgvk<Q-!=voY5yeaC;ycZ9^bnAf
"%text.

(** Lines 7665 to 7814. *)
Definition DATA_50 : text := "4jvKs2Z0rjv&TE-;MaiS1#=vMXDC?#y8OCmXG*h&CKoP=#<A;fh^~~!3F&E-r>f$j+oiLLgtvX8f*lF
AaiA|H{sgEOM<EBia3CkV6+IwqCTNt8VMjC9v4A(Jjp;6+#^(ltiCc}kKX=}9&Y3s<9W5N|?~GEHS|a
oXvp#(=sQ0G3JNa%uZd~!O>Rn3)bP><m=cnt6fL4uexH0cohGQ2d^FVw6!B3q_6!vK%UkY-&jo!Z+l?
Y{K#w0Sz|Bn1{;gVsEyQQ;qfAMrQ^TX8Tz_aZhHf;AT0B@b~Z2Nwd6i9do*Wiwo+PUZb^esI2d|W=8U
QY3H4(24el=%O)<Y4IU5zNPM&KP;W^A6`#Vi}GV=7B47YX>|`nW?Pb&9u+i#Ytm5BCoa~ppHk#%u_1k
d95p$1-?ZY6SrW$^b%@4h~pj(K<$R%<a1HNY;3Mq0}eKuwVMWc{~qe=5fQh>7msPFVLpWbU^Vlp5r3@
HdZ7KzdR81-E7rrfTJ5~`9Ij?O8K<?w_n$R1qNk-sv{G)WCvp^==i84cBQL#@PhFE)TYTBU(e~iT^92
;KO=D3R^b|&;?rQv0>}r%ry@J80a7F&gV@IPb`vwy=%fr_$?J3)yYAb*RT__}2%R#Dz3yN3UKi)P<uW
{&=nyKFaU7|p%#nM`}&!UdfuyK{&*^<=R{7t7#{Lu>9&wOxW5sR-$eMri`j*%~?`-K~W^Gbg}UYWO)n
8c&^#1aMLJq@_+YwX-n;)KLx@#?(kx?&qx;!YG&5x-Rxe;zpj3&~UB2dKBCr(C+qca<@|c#S`qQRq+2
(6NBBa%buRZ=P>wbHZVjjmCaE6C1}x@t<KpXD;}_p7hK|Nr04=FHxI}SoHhs1=lp2?3K}+nPHZ1#C8J
E9^4W#;@8N+k6c=b6z(UEHQ_r;9QZLHra}%+o59t84|zDujzN!Ib!<tiLQ^xijb^9Ra-rv;<9nqCb77
0{gLMlnTo$`>rQ&E(7K1YFTaHNyDTyM*!W$sfR1;RzIf+LjS;P3Cr<Y-^l~`Q<@HQQ*<#!zJvqRt$Ga
KT}!_&juObm<$Ov%>y6|^l0PMk#V&_^0S9rllao`s)Zh|eK@zJSk*L9cf>$AbSAm1g+)jrdIQ^Vwnk9
iOEnsFfn_)Pga{@#xVxWkz;Co%$5F(l{eoaRntg^)3EwO~0C)*<{qbQ=S;J=*D%dmo`*-?Ryl@YMQf<
PSbB{60-aNF$Zd)%G6P0TMVwD4)=<7c*#%4dZcNOZ)Xb-=TOo(oW&)Fpg(lzgF>CT6s?RkEsvcV@|(V
KVnjYUDHaFdGb1;AEekDgdw?S7Zuqv6XZXL1<kO|0*~`|B(ZHCtVlY`0<Q@h(0ZyY@gQ^^Hi}72!9A}
$sLfOC%2C=3as@nz+?9!C8Rj<FLqMP|MRZN;_E+3aI_Q3^zvW5c%N*!3$NhJH3EUU<pZE;(L<Ha~Vh^
0{To&Ca4S2~(+>si7r48C?IvF0MWwUmLc^VASs_cZUUe<bET=<K_*?`7>93@AS0dkt2;N#lNy{(JkcP
wl#X$4g)h*5gaA8(O65s`_>AtZjF;kPkbL{Cu}PPQZ57MAqj5RzH5HK>*Wg;IQvD)Q%CYdWm;C>rOYO
H;$K_;ti2#PF2pQ1T>$U-om%LRyl>Ro#FDqH6CuQ`P(kSqcX;ABIH5g?b7Wmur4cSF!?p2cw#mCiR4<
NUckvuYU1X{J?#KKe1xGG_a?miI~<UK2DWX?>KfPP_u0kEhr9k}Y|Ny3hg@aFCs!S>w2Ms}*RAz4&7;
6Dt_(@ElB_Lh2C>vepi;G2@B(nY&ia&nW-_Kx<Xw1IRjbI=FRJc}O7F7=71z3v+V8^J9W-v!?Iz-?;c
ZJrwaDXc>JXWdVU_;2=<K2jK5)FR;nHjFAa1*_9VnHtxc(dZJB~^su2(Us9UR(A#jKBV`GipU+d2CbM
YU?(rCQxsm+Hj4n>Lkg&UrJ(dCYK??M?o@OMDjWI>e{A>(_{o)-MKb)HQDK^K<dp#m_$)Rl9!i=@||d
ekm$i`1ysQ+wF@_weIVNU2BJLmI39P7V#-=T#TD5-Mom;VsHM2Z^Hc-o!|R`<{%*X==Q|olRLA8As^q
iBjh>K`md0Wq>G<JvD>tskSP{E6BVcU`PD-d@>{;Ix{;7G1rErw!uv5$+O*>txcEt+2RTH(9Flu+Kxm
H6r8)TH+2DTx)0mI7=7&&wYz8;xm>-duzAh5u7k^&{PaG|fvK?lbflcjiiSM~{UKRZ^3zfG~rZ@w}b4
m}N9>#C&<j5d>%xo|`juZ-V^bT_;neGz2%lVne#P~sWmajs8O!*EPt4aOO%$q)~1X#uW!Kdox`}&bd5
vjJ8)qE4bxd4oCMh*>1Lks1g#GN>Bpeis}Eo)bsExR(0*uPZ9It5gnV%65)%0xkbVpdjk$@@h-H&=81
n;&A`vlq2z5Urs<JAQVef;aJ@qx)cL9WXWF)^5C*-a5A`0u@<yQRcT2JT`MoU_*DjkLgVXOLz8#rw$7
rC>AbK)#_|)UB|zXGZQ-~>7b;8l8ta{4Ny{P!kf*Yg!hzsneIIE?6>im53*mZg;`D8tG|cF;kM1bdB~
d_rqN`&nU}^&)8B`{pgQyM4*$Ao<x<niMv(bn7VJv_dDrl7OK=1I>ENb=o91w{c*%Hct8E1v=vLbrv8
9VXwzJx{SU}aQZQA-fyV~}U-R%yfh1TLsy1dX1aH|VcN?&cPLXV9ux7GE>`<NqFz_iPecUZVvShz@4Y
cID|dj3r=w{=j`K}n%j2PL}>C6y-pU{bW53VuA1{YncM`QrO`oRChH`PotA?A6PQ<#I+F(x(h4=ns72
WR#=qOXPEzUUDK1k4G}u#;|1B+5Yk#n=2!C$bX$mPxF=V$Lbfg;=2R1t0DLl-?J(*5Fg+n4Z?&Lbf-`
xRuz5^-{6ZU;%11es}g&ZMdK3)c&#UcFRrwO^>2gedn$=bhGLhMQ~zU88piN92-R|`c|cC7>5_XVoDe
T^T{58oC4tFr=m{sLCtuDIw@D=Ru<Q#z^1^sDLks^%E+opBaa#5%InH(;U;lHkiNFNA=_MsKuj;Kgw8
f`>cpI~n54_G@OtGRYkNT<mZyKxPKT7ZG0E&tj{|``00|XQR000O8^OY7y9v<BwV+8;J!wdib9RL6Ta
A|NaUv_0~WN&gWXmo9CHEd~OFLiWjY;!Jfd5u<KZ`(Ey{qA3JP*GIM6gSC=VGEW4TUui+(5*mI>_Zv|
v~;%F$fQ70iQS_AeeWpQmYt=mQB;xc?(z8U-jOqBmsAw9Hnfh5g7mVnE|8jfTepFW?meeU-)XO{$*DE
Ev=tY%4(wFzN28fwgmuGy6aLm#ZOvEs)LR?fjEg%qm33pUR~x^;t5AgK7To%LMELcl)v_LQaLnWKRn1
E_;R-LLJXJhXZ5@he9r3E<CeZ5`^~yQx9)bBL%4k#+s;)u61zjh5wj`(IEr*4zUTWW{P%hZXH|^iISZ
=NYzf&5Y;<EiO@k85{y#!;8)h0;fGO{yKWw37DKOTfPlD;o$Yq;2g`Q!$vKB0HD3N!1Lo{SCDJ8Ls1a
i^U-r61duKcAc&<1v{`GV%-C))h?|Af;;Oi$K#gg$3hNZSPSKAI9|B(437_7bflLz7Ha0*3|TC1EKY@
=7+1v@##;(sScjlpgZKVoo!l$d~o>Ub7WR7;E2#SYcOiYbS3!sH)W*bc>@L{u4mDpJXd5*Oj106D=@&
=?K4Mam3TOo7-MP4<w6<l(U_KItrHuuFIB^v@b1lzcdb{fP=3Bsb^0v%*fEzp%er=&MXI3z<AX9Kr^P
DY^>22*E#DLRhsiKkJ$E`Rs7;dX4w3&Ngy#JD^JzQx<4+wC*3F-5?^`}Q`SF)6)*zwwFeCXX@7aALt6
m*la*y>CmY6`tkP`m;U)L+wid@PXYtx}F(n^=1=ORgxmw4+4I3wS1snJl4vkh|A?9WHh?{7oe=%7`I<
K>pu9?U7sAQZFKK1km%I?Fl=ZBru)v6R-_0Y_-I5oZa-YM46&Z%LIU``Dq<wjvBrFI|Me1?A|jrL5C)
ZB!jGWVz#7-{SN16C-)Yn2W|o&!y~9;7||YATC;gk_Rk&Nt2niBK4_qNp_CM=j3bFM_fna4P9JNG;~P
6ZzfU)PxlKAt(3}$?y!HP;4B0iQ`xwx0A)=vr^g%0J22QW)P>ffNJU9`x9N*C+w0U1k)A@T_R0WCCOA
5YRV7?i+JS?5Ep4XfMqDALjWE^Jwqbx3?sXX_>rBZEc~>)(OO?eQ9M4)*o}J7MY124o1aHdtgknOgsK
R^zhnj`RwupMXQ^YV=%<7x11wdrflJlNG)Hm+=d^lJ|$D)i>JTvi0rRI6pSvldb`pgD&$DYgfV>hb^t
b_{2LyyBO$Es;?@TIAQ^~q(~Uf51}{|hqM;Q&ND#|H%;hVMMZHr}+)1^oqC3|nT-LDJlUKuZG>IyH2w
!E@)6@8M?gjCyaE7}!DMp0LIQHl^s>O9xdL192+cvv!q%NTF!kVuF9Te1ArFUY;)i(ZtzE(^l6N?irH
e!Ks^8DyTlgKD)GL(|s0&oyp0tN3C^LG+&?GWc1qwovdW4#sg%}^lLQzF_}D$aJogfJVZF%BFMQr>XL
u#QZU>Fq~HqF7sW|WR;MTU(GQgFrFPsWozW5gdLbSUx+mRB<+x9>@0p&e&012f?#f2}b!7WYjm^7*On
dVz&>MB9a(Yd-#@=TL`%{iwnF_%+o!^v2wH5TFOC|Fe_bRfO)p2s+_E1939UuR75lUy>v!|nTxm1{|V
C2i!U9;{5r*ci`wvf}2a&p-?I=a1=zXlDgXT!5{cT0tKL|8?UchezBvIFgl83`oCQ(yEMCiIkc%WfgI
VGmW^gG|2%Wtek}!@wDku@BtWb6~%gn453p0$(}0wiI*|alg-}pJc|)zJuaJXzW9#L{W^}22IGRU_J2
KPZmqz+avoLjrQMnr62tZP)h>@6aWAK2mtey7DoU80006200000001Ze003}la4%nWWo~3|axZ9fZEQ
7cX<{#CX>4?5a&s?VUukY>bYEXCaCrj&P)h>@6aWAK2mtey7Dpn0`^1$10015V001Qb003}la4%nWWo
~3|axZ9fZEQ7cX<{#CX>4?5a&s?VVqtS-E^v8ejzJ2;Fbo9meua(+gg&6qYri2JM-D2ERV=yhuR}~Rb
Z^?#jueX=fEcUQLWsb}TZ(~SRZ=y=YhGaE4=YPvpk@xT5hgY&KB;pqB(DljPR*HQeNnLa?x1O-*yx<u
5GSP+7f`7sP|r`D_U&@v(PKBZ8@0EGR-yKBhBKT7!aO#2GH+IXr?WrkAJMl)N?&zfP)h>@6aWAK2mte
y7Ds;$kWL^0003|T001@s003}la4%nWWo~3|axZ9fZEQ7cX<{#CX>4?5a&s?XY;b5{Vr6t`V_|GzbaZ
lQVs&(7b1rasb&pMJ!!Qhn@BS4crvyUSxzO7>*lCCER)SGtWtci~kd@N>``Jl5+O^fmAMYbQ>e%<7bv
Mbxq&3)n^eli)@NN>)>%9bHPc~RTlrRmp^@g;wLX0jb)ukTQ71a#}Qc8H<D2TQEw%$2vB{m4x+!q^SG
Vit(Mdy}AfzRb<$L#rr^=r_?;4@aK)?o<nVO<o;m+{qlDb_BAy0~J})jAL4y36}A!83?I(g1dVTef;d
q_W)#9Wt3m%IXB?*<O(48-KDAvRyyQoX-EqR4Bp$wzpg4#X~BY4cJo&Cv+2~5h3nQCclg}D45k%wCqD
(ln)JF*OBI}!@e;H=M9_>Z}k()Khs09sH5-V@sPW-iK&ITOU;&?S##<aP)h>@6aWAK2mtey7Dp9#c{;
cP006oQ001)p003}la4%nWWo~3|axZ9fZEQ7cX<{#CX>4?5a&s?fZfa#?bYE>{bYWj(Xkl`5WpplZd8
JlOZ=5g?z4I$9s%SwXwCAmIOpd)Yw`gTKFa#^cCbmhsit^v<F<ut3EFsC9_?UU~@ty}Ntr|jU)!9x1r
Gz)F(w4A$qeN$c_V*bn`7<|M$&7T87pep*xCPCGiJ}TI@<S-SX9l7uDg-lz+;HLC68|voZ_;f<oRv_y
#9VSqX<|TB88NEU1!M%I%fRJB@I)H}<g;Pv;EPZ50|vPo;G%I}hZ6usS&U^CTtwWuVbs9NczD%-WwcV
AEZzHLnt~hhN6AqIEy$4jZWj$tE2W85k01$`Ck@TkgJ$<FmgEEPV!VrY69--eA6NHZ%e1{^5AhV^;MQ
YE);Nq@s29gf>f?N`r!kY6a2ZB2aRV{Vf8Dfp|AqWG-81=r5Dl$h1(2d<+JGf5+}4B@wqxSR?ObTh46
UtgDLi%jnHEY~kd}st-Z=5XY#b7mV3nq2s7Jg^GxE$t2gqIMqhzk=UGAuBOp?x5A37hvP%Bbdub1-?X
jm<m-F$^;e)0%Bp5!JBX|oJI>EQ09*PR>BMB<BJlcRB~7fMFE*T5b>Zpt@<<Xw95HiS8N&%m_Zp3_U@
^n;$4)o`|Ma4K2kb_o}YPLS)2#NkDpo=E6ZT)js_t~M6_*`Kv-#P7o?xw<eLa`7z|Pu%;nzPv<y%c$@
p-nnzlr2*YLx@)Tl;PxO0GaIqzAWHJu@4)S7*|~A}a<-v{Y^l+HklX24-&Q3Yw%aJ7-(0H_z7Ev&48`
eoO3&NMDr7m=^nCETvpMXVrPbc2{mO^MYa)CTSBn87NrKw|3NVK0ed=*4(V2Sq!aj9yrl)>v!7p!BoB
T>=9WliUy&f^YD+sjjisGf_0+wg`sUfV>$?^Y489Vnk;AR<oMn4Rv<sAxQEnX#FKIuE{&28Pj9q%6f2
T)4`1QY-O00;o{l@>=3naaSR0{{SU5C8xq0001RX>c!Jc4cm4Z*nhabZu-kY-wUIW@&76WpZ;bY-w(E
E^v9>SM6%sFckgor?~SdIFRK50%MdegF#oy+Ks{}Mz!Tut0Ngn>Bq+2efLVT6DM+-bQ>G<pG1~)bk6<
Kb*0rD^1NEuh30t<V%{iifn6C@FD%dfcnqbu6GkXGhJ_S`DtTTD%QdS_l2n8-X}9KA%<%ATQYdLGlh(
AeMae9i)qKwJ<rwtZ_)dwk9VLSxreOs?x?!3X$iXCQV|Wc|I{B)E%+_W`Ns<&bGX{=@v@@-h&Snn<Z!
Ah1O%uSU!Rc<<J5l4l%xRkVL0DGu3hhQV$n(tbx(e^<Q4N<l4>FL=m&<MnwOD-n0WDa+tJyViJw1ARc
z&36YbvF|s#`8WNLW33GISt4_OaoJ<~DvwX_Q{}7KqBPLC`EcvrOA_cAbtPoy{BjNdMOm>5*){f=Z(`
)PTI9>%~&oCMrFe3By<X&`|=ZERpoPTV$9MG*pN^g@eqp>yb&}0KTXAH=R17KSnWX4$cS{Lj})h;TVk
75w%fXjuM$c7>C7ZvydGPy*mw>-SJfC6tLm!Gz#fmj)v~M2~3uOtn4Mzj;DUcEf69XG^cFiB`^b>b6h
0s;{jf;GVNk*$uzk88Ej9Ke04X(xIJkL<6cz9y|!uMIJaKPPgsM)(uLY4Dy6p%!aG(koTma2s)gxg{D
A!fIcl;)i?Mr!m3=Uz9qAC$&N73ZU7<A`*ijZfxLJ=&B*f#ooz;Fpc(D4WayQXRcLUV!eg`r-<XP_yi
&Kh~{k5v!J}zHcX#Gs=k57VAOgA+{1Mvqt5Y*Aj>iF>e$@%Q!JWY}f<Yk)6GM+2D-Y5TW(f$+F*_(U+
+H9z(<-sTY64t0Di}GLDgLnKs#_=SxgA8lq$c&&=+&gE^Y;m)^VsM2!1lM>CxISpWZpBUEaLFSgY+IY
PC2Wt>oYY6+_V=_n0sqMk2P0>IrEA`n4K1~AXZ;>G*2Pf~S!SKTW_HLrTDVu%J?nO%Q--sTW_LUt;~q
^kGNF0C7xo6Y%Sfl#rvvrHQ)kPkF8npK#z_Rr($9ocHk+Ruv2A$Ju&}5&>UA766fJg!IaH|y_E8uWYj
js?0sZOf9SxQ?-;xS%RpD**H$MpiiJiU(Tx6MD`j&s>dU**K7Z+2wzhM@QiPg|YY%fXS&DKJ2%CzB*k
}CvU3s#G7;Y~z~|F-P|nn?ZL(ECZ=N_8I^RY$-nb?FvMtRCW{;C1P@CO-jCO9KQH000080P~d=N70jS
2+0Nj00b!j04x9i0B~t=FJE?LZe(wAFKBdaY&C3YVlQTCY;<LEb1!djbZKvHVQh3^XLBxadF@$CkJ~m
7zVEMKorBhZ;9@tALy#0Gg5=msatM$H1})NSA+qR_^ltp`J2R9lilS`Ek8KVWAX$&$a30?bhvTJIYc`
)Rw|1-Le9rRqMrq6V!l+_v<=j1|OyrNb$yJ%MZJB3E$a#@lsd-^;ZkEVnRu7#oxREzEH(9}rVW08>$Z
qN7%sous-Y__XTryMS0=^nqEUUM8Y_xpL)z;jx_xt;Mxc^I)a!<5WnpyQjmMkwBGME{))tPMA;E^vqZ
n<Hlvc#rMg~u+Jg=nTrn{la|r!~SCYfl)ZKqcDa56wg>?#(lwqmAeD&_JkrJ*bi{Wu^RS8(TQTPTP9g
-A2~pe4F6Y<a=l?NAsRdK3lHs7ydBm+6u^SD<*<lKKag+?hw@nnw(_H&0K9PV2BrUgUo9lC0~OesizX
^GM#oOZp_zpi7b5SKbE3b_NYX%6rnsM#aJOsFSZ=@-nm_KpiJOS{(u5>%+au|+(-`RrJ$SIo#2UfoS;
!0M+8T*vg;ygOZbBQSu%VN(#y3hZDJS+gag@{@7O{zwa%@Tg4nGjTjtup_f=j#1ibRn0Q88+=UE3IXJ
*4Q$+8vKJOgy2z?@}jja0K1Gc6%0l}=q83-aGiJ~+xr3J66`A8JNsGTo1MSg6znI3z2{MOSTxuP?5(#
}l>YW&Jb@27Ued^(}jn43em#sc3v7L^W&3P_8$27Y$o7&^~U#LLZS7?;|j-touc8<tcGg4R_dc5kmt|
+DX477E0_Qj=<NKc7)G!82r+Jnf#f_jg3rtXd0Lz)A_~*ykH(<cZJ-OV&vlZ5*AZfJJ(X=+{$8yai75
h%u=%t#quX>q2p<#49tL>!FDTdz;>`gR@R&KgXU0F_4@u30QV4f4y+&z_=O_J6iWSI+(kfR0QrbsVGt
fbS;CVhT_Ws4PqaV;Lgn~osft290gM*Ay_;f7*9-jWJ8L!w{&kK@9Ooou32{lL1J;OGICi2ZQ^kW;+f
5{b>Q9%BqL8mc9lWhyq=e*(W%Vv(=Yp>Taw#fbz}FS{wlf#uIYj?>bPr95qfrTVvKW6gIwKtSc|GEwT
9v02ma$}7&qfhuEdcizZN@%J$%4{m7=STof!$;{T-zz2gIC*=?(H@5z3paVs}G?RXaa7BQR-$$kp&ki
W^}t$Fd`26Q*!aqthq-M$>7!yUj~!3K?P(WxRw!CzMk#G*fQimIC&c_lB$0AmY`w@VJmUPL_!3A_ih-
Pp@<_GN;%a*2~sL)PB*A{(o>-KE>Ygc5c`SM$*It9y^PlQxWNc2{L9t#x2~{Ht4cSm3a#n!O239nJn(
$t<4HYOU!S|sCp#25Y7bU-3uQ`P?b?AA`Cub7q}`0stA3T8y|JLbW2j{;^RTtjxJs0kCMw;c1F>7$co
{<8tQ8%sOg*5#raY!nIAvHhxAi<xGcR=?RjDBz?;n4KxU_=?X7!$IRH1r!LJIe6v_Me}WZJ2t8#IE7R
Uu-5BJ5yCG^FDl;f<w4Aw)kmgcvT8I71{6h-9w^`7^K*crdad^C~hCwn0t-&`~HJDGOu!m*E*~bBae9
7eY&8pbpeF&k9(5IaZFLCl`gve*Cjl76`Dn`Ji)w-EUr~2mIC43WrOPLRBgYVPpplSeHm3Tq?az+3F6
?dpKXh`3lb0aK1@t<Bn7-I6<3j$fe{kje==5)Cz?ChRiH=;4NRE{NSA}d~T<&fXO8wc}iEQ3((5`h|<
afbc;Sn(hi%xBWe6Yc&|J}_vE87yuh1o;3NG|`BeLq?#Yj1IHJd?2)m=}JzZbY^%Y%T)Ah|5o(?B8j;
@Fm`~`earBjSyMg<X|iFy+bPgEiyqVQ&0jA>S!w&Gw0a8+@v5$(Q=DQAHEtYXHSE}qvrJM%ENyu&}l{
;2DscfZqPT&A$fI2@R99+zD?Dp&YL^VK0h6Ke`Gy@~Ep^zf=fpHy|=FpyPmu2=s#MTReI`m~kp`ih(j
vBuNSkz2+!Ne{cE9?+j)#_oXwPCYx~U!*xt|4dO66#sGttaUZThG^7EElYK~NYwHh)|ULucj_ft>8_!
)?<4iJN~#{);9aOs-R+eeYqy2n#K?{~Xqp}o$EQADoXeM&q>?|yag`2qTL-ArzXAum#%of?OY;|%>oW
(fSTAIH6MZG^pny3qFMsoTs?<vT9!VERn)x34XWKnGVI$%CKbZa_Fg56Smcr4xw7rVv>=6n3l-3ZALP
=LwEgL=l1J<2iQ;l<r#>UH6097l~{0mS^0|XQR000O8^OY7yIIrZPu>b%7U;zLCDF6TfaA|NaUv_0~W
N&gWXmo9CHEd~OFJ@_MbY*gLFLPmTX>@6NWpXZXd38=p3c@fD-RBguY@zf3f?IK6SGph4W&(q0BKe4V
dYh&d3;GrV^L{+--3W*}#pDSQc)U3uLH5C!6bZ}UfZ{s`cD8|Jd2ou*a3n8H5JKmUc8y{$11($|q~*v
j@~e8hbf@!5cKl!~gcytr0S;`Y#%j*D<!OHS>z#lJiuANQZ$PX98NKis+IfiXN*36{cVGK2kx>$R$kJ
yx&TKW`dSho@65EoDCzDY{6mL*V0|XQR000O8^OY7yW3^fp&;bAdb_4(bDgXcgaA|NaUv_0~WN&gWXm
o9CHEd~OFJ@_MbY*gLFL!8ZbY*jJVPj=3aCwzfO>5jR5WVYH3<@DO>zejj$RPx`*U-(Ouw8`K9w$m<$
w+e2^w)Rfk7VUd3z>spzTSH?mfSkqfe`Hw28Tj`>U!$}$b+|f2q-4MfJQwjudFFxFsil<3atV<sXb$J
k3+`V2v;sB;vhZFv9h+t2Wf&|vaW7qkd?*`DO!N<WsTSO(#e{TJzM#337nS?R+(&-$r;<;TwPaN@uT`
){iH&NMA!97W5##qe!t;xzQ(66R%_`!d{deN*{HUhoct?eKsNT=IP~bAaFI#`G}9k69z(X{y+d9A5BN
Jshm!AM16uizr32>q1leFq3y;eaBJ-$Q;)2=wnTZ%azXn_DAlOGVpbQ*~EdK=)Exhy*W^CN?=<$70px
U{H_PQnI;a1*p_?6TwCQSp`tGGqajvLt#Y}6GMl<#h9r7Ib8a|vHql16>3t1``~D)KK)|AG7TKAf@Pt
tLXf&7EF}iD;fJemlNDWjljg^Z~3%3+c&Nf)942Qzkgu3^h(S$iwqJI?9gcb3CZ(1UdyIeZW67&e0^N
y4T>f)mru*#iTGx@_EYpqEOF^p;r@c@JTn_{`pHgq<@Kl<0o1A;gDUxMFC?S`wLJ@0|XQR000O8^OY7
y0x`qn5CH%H>Hz=%D*ylhaA|NaUv_0~WN&gWXmo9CHEd~OFLPybX<=+>dS!AiUtei%X>?y-E^v8eQ9*
8lFc7@^6)Spy2=M?U)KjG%+Fla1+$;x{u!^zK+HTaoz6Lj>QGKz-J3BMG9@tJG<q&*eloDu~EqhQ$XL
ax>6E2~rPjX~U3Bgcjdz6|yveHh7VbQ3nYp-X-i_&N0tv32eJ7iLtzLBrQ=fmsEetQ){^f<sq%gM|kI
xlifhRc<eFj$_HZ?Z)(LNqZ8nN#y-4VD7#&Te<}ly>&6s8_}Vv~63%ezZaNa6#x)HzN3v+~Z0}>7n^M
N_9eii11^D`BEuXG7Z0>plKlGs<$96irkNx|4+5DF)rxV$BG=nyV3!lm@Vg-|C$k|;5-}=R+rSr7=O-
ys~Alm<x||WyyCW?Li_+wO9KQH000080P~d=NB8lKOLh$a05>uK05Jdn0B~t=FJE?LZe(wAFKBdaY&C
3YVlQ)La%o{~X?kUHFKBdaY;$FDX<=+>dS!AhaCyxeYjfK+^1FToN>5^{k>xaZ{cyJBnOv;)GM6-&$e
ByW$*>R!S*ZCc0m@P@_up?907Z}lDJSjBoia@%aNoPw2f(h1EFnR#DrH%)ARs)+vqBQO6j@wK7U<s-6
7dZeJWD5}OnI0^EQq;e1&zgMg(PyGPlF9hqpX+;zOCp;wv~b0<!m&P#qMlG;G^JIWg5yXi$w)lu&4~#
"%text.

(** Lines 7815 to 7964. *)
Definition DATA_51 : text := "h;2ibOY%}J&Wj=|G*V857-?41X_%!#(p2t|HyMxSF-sV%O~?}HGMYY@vfxWl0+vKhL-t}#3mSsdqL)w
+MpV+86#UI4M+(~{o|_*Pc7;?*UYP-)rh;zqKebwcFcDHTLQ4)ZBc3<?HRGw@dNOVs3~e4-*1F{a-~x
swQqqNhTd-BZ@)#)T2cp-Wl^0p6|54B=jsT;D(i^c@umhlLnZ(LKJHyl)DTE48Jqi+<1Mt89qaJY)l%
e=5EC8nOeSH7)>32_mfR8sOvl;nL>zftiZbCMMrz8e7{mKhd2)RV~<FOVDKSxB|@th=OEcr=TnQ!m6J
se*V-><mSG*bLGV{%Ep8<VWq!&M(Y%_MQcKeO562ZBiQv}87~4fzHP^w?`c!UIDFbbWT#VY&gksIZxe
60CenC3{PGah<&Yd*%=&5^x(>wU^p-vLb2&E4h?jsl!KT^eGo{cFzib+$DNMatJT5?c-RUlWc?EUR|F
n;|QMcm=^I)`R*}I^79FKd@JE^Cc|lmR)_n|<`c+#r{gDLE7FNA6L&rYv?Uy<1Zhca;*jC93Gv_Sc%3
UAbG<*z+I2xw5rbLPa@&yw!?3>j)bg$|z2lh*y&3rdvLI_bKr8SG3ALrm1QMlG;!U&VuPl@|_!WdM<Q
aa0wE4+laZnC9bRP`zt_5#}<(_OBu`Qr-@`UW=a52}R$i>1AMq3L-=`4Zlbz{_+80t^Rvrl7}P7RYD4
)+c-i~NvTt_z3a?#<Gc2scjHC0@tDl;%08>hD*^9p8sJdcH>Ka%I4&vkRuTO!{HoWe(2hksM;Sk_Xa_
+a?wab3*`q%nJ-%DDJsj``)?N<GnW5a|hRcOE=^_+CCEJ9(hFkHQS=%H_y&KjmND`37ttw{Hjg@f$@Z
xaH~PP91UV$WmJho=bL6R^_}%@(wmXSRnm%Eghr!L7(?4a{&D^K)q)kA#{754tva5;x(e@z(5g=%zm*
wm*;|t35?U=?yl{;L2or2*T&fgRZ+iU{6@=wu?^qXX!Ga|dGH5(iTf(rE^p=QSD(SYtD@(Wx^a70o02
20Af_)BY{&%3Q`>S9tcmoW%%YyP4Gzp-K<Wbp_S#>%fAZ!#Tq%ElGo7yJP%~TM}fNLR|^vz@4$~B%q>
}2uA>^RQa%n~j_7RNMY83<x?q;bBcOD1^;c4??x6Xz+qHAtAG%H)Dc+bq~u<-z?LS{P-3rb%cD0{vbu
YIkS}VA1zFVc<=OSNj)#Io$3|+MCep`WSHseCwd$axqdF^sIwU*O5r2;XhnxyUjtV$3ckg@QZ^$+dWD
h;}vgQ_ay;{3I+^(!Q$0~eEaR)JuPm9l`B2Zdx>~zx3~8GbhHQiC)?daso6W(2kI2MSaQo@j3O&u2$(
F=m_Y&&IScuUvuF%a7RF`7&T2vq{bm?-pWCg$zt&8yp=;yV01Adv9ziU~ood`6GD8)4$_T)bx|zmE&Q
`c+QH!#$M69~G>xAgA7{E<oSozN+IJu@0=%>dx=loXkVxJi;GC7by<9-jLVIeR@6eSp|Ee>iiD<Ly}F
1=&V!hbKAF}0SWRu>C+CnrzImGKV;0W*sbYz7dvT*k~$GEQr$rTQ@nh6k(L;C3iN&j1k^u1QFNC@NJ!
0Tx&RSVibN$!Jt7+TBGnW%JLiCde|pMj;o-v2FeiVZ9L_N;9m7Tjj@;fz0rD$qYn9u)zSvX;vgOwuqT
H6cvEU;QM7!f@vuHD|a!g#cZdCgJEY7NJ<lsraLrh!Ldt$!U=LT17Boi0qI*7j7`ZkY?KeLU*Tw^w@y
@3QF9UwL3$t}kI|F(BhSRSMNoM*rK=TeW58eTfFT4K>^c>Ad&qW*I_QytB`~G|p@gO?Gs1k9Kyp`c1r
b`4niBsScv@t_ECHQ_z{rbZ3ls^{DmL|sIb$$h1GH(~mkksax1Sd4tdI=0i9sM%xdqm^Wy!B4<VMU<t
=P5q67FKQ1;c}w7d*{NNGV)U*mu#)tG;=c5SO4T&~Cw8)^>MQJGbp$>g0@DJd88JPE?--Js^aw78rU~
lS+viyHqCz3wVI#+6g{Oa=Ej1#u~^fDu@VC0%|UK6tQ$XCG#nysf%@SY6(ABlHDG7i_I<SpuNiz*d-i
hGl(8dN0$ds5VNjU5Az6$)X0nY7*-8aVwl!)5)hQU(-~ek&1~smYO&k!3)~tiP|H-%6~n`fGQCT)dz`
``VHRZw)>8**St-HM_L;<jG4czx_ut2SiE<SC>PE3R{}SwhyWNx9hHn5)d-&8itI8^1z6!sVp{IRuEB
lT?-@uC2#(?~aPOu0O1!lDz(<uoC)I5U`N9Jdzr#SXZZ?g<`_!KtBX?|K^o!;|1ehQ_txUw<r-p4+gI
j(E)F-oU<rRJE1ebm%Fu{4cZm1QKPkWA;)CMOZdv}gErV%VzTS})vofX3F;sfh1SIjtif^+2DGHXC(p
4E3~VNFq>rYc+*1213K-TW3`oWKy4yTN2>Gj}iiD0+e&G)dZ#%-#z@qeP;WBX;~9(Yqd~1|G(%~9Z`R
UI-=^tjV@Tk?`eF;iV3M0%znyJW~tZUUY*+5y(n~D-BHsSNVXC76xI1DLOL4xrc&nGVZ~!?uUzoe^}r
7bq=8(kigK#wzDxbusz=aER8?Oi5V6k6IKo_`T2WID-k5xLO>bL_kJPSB=$0pCLfC4>Lk>v;Dv2tBP`
_f>eb{q1@v0zcw>*RPuzHlQHA6Q{tGYADxdJNwM8@4pGblm@sVdDMm*R*#w=0QNY7*?dAON83%L#Vln
QAwU92S94g$j)#8ykb2s!+lnLKUcv<~_x5P<<Q6V)yliXp|k9-NBrQlfWLLDGla0prhb!JpAP~Zwf#+
4KpJiluiZFJs^$r6TDly_~z=(i|e1?&dDQzC!~fnjx3&)NNoBVB8SnEhc6@VlluU+;_+lgj>+5ie}DD
z1@VB#am}PA;W*f>If)$%qRE3ed1UeP;(Gqt8xZ^uITs}OKaG5t?#JYEMxOQ`Sob4)$KD}i{ODv*l@E
1&<a-N6i|`0%KD-*+&-hE&71fZ0G2b{Ks7K_U1AF{5I-%y#Mg8eNXYY`x4u{*HhL;`*{G(3fYvf7SbQ
6pAxEqZ&&C9OjJI><Bs;gChVbEFxb;uz(j@JP76*(T!Et<FHt~(2R>$SmgPN>RvZ`AGUJ37*sLLE(35
p;2SFoc}p^FC$UTo3&hr>NbFtLN9xdt#zvG`}Irm)ya0N$HcB7R6ydEO5AiijQ8H<B*Eq9p=Z3Ri{Ri
zYa=dBEq}S(THfyTQNm_e^gYxx1l_R7h0O4eT>!P<+_FIxjD4rpyxjJfQQ312NkQMR%m~yc6YVpa66V
BHL(P!rs{0;w4#2G&3Apeh{dT9n&wprx3EX#`pwmwGx8j&^PV;lWv<F4)N}Wh@*UV`&)*5LsUVb84~s
tI>tk~4NF_rUcY~Li3V!I$3atCFcf<O3)teHXw~5psi57swSmrVF$NgDcMdATco>vnZxO45@BeQ`jQu
S2bTSU+vrP>Uay&A7?YgC`%Qq-ZPU-$B3nk*wqwiB{DBU=>8-=U>8<IWY$!B6|$swYr<K6=M9Ft3`+`
mKafyP2A6UA#w!oTkofA7I(;>HDx1TD&e4uUH;nRom_%HZ~>S@;t5#B39}+PGW{R8f55Dl;2dqL$6VV
{DJs#%H7wh*dLXVk<XqfO7I7m_O)1+jyAkPILxNy?PKNbqrd!Z$lY4KL%XR<9jt-W)h)vT@_o6)?&`h
>zx}G&pULpBEgmF})h*bsi`M5at^?@arcjsrp~LmB$mHa-$8W<X=%wc(*R>V2=)J8T#`!#ru($il)~>
fnJJ^Z2Uv2x}v|{}Y>ggkKS+}SIW_*z)inwF!*ZMa4H<umpi5WRgP6kH~rv;1v^^l50zChD&PEH<)la
ov9IHH<82BQaGnflu3xnnzkQJ_%H&z<K72(y2yRo}gSfmO78F!?GP1q-v=6rM(dV~3*Dd7DV}dbKdt8
{<6(B--y4{te)|PF(u7zCrgMo0sUEO?mIE4agn8xj4Cu=JGxsuNN$hSn&mC>()8A^Zb5Uz4fPF18<7r
KD{14;8x&aM91T?<KjRYKx?R8i|{^t_(10G-o1H8Ue6bc=ReNLPxJZJ{K{**rH)YevH*`5)vu6{gx)d
j!~`OT%B<K~_nr0KLG`|*c9~^5>prTbC*^{XMMLJ%XoQM17yY@qy60JHg!Md6J<ykI1~gK>tnT*I|B3
NmP)h>@6aWAK2mtey7DoU80006200000001oj003}la4%nWWo~3|axZ9fZEQ7cX<{#Qa%E*<WMOc0Wp
Z;bUtei%X>?y-E^v7R08mQ<1QY-O00;o{l@>?jTwf3x0ssJg1^@sk0001RX>c!Jc4cm4Z*nhabZu-kY
-wUIbaG{7VPs)&bY*gLFLPmdE^v9ZR84Q&FbuuxR}ebcfaf1jpob!BfgKhU$Oa530z<LsRE;bdlH8^k
_TNYOE4GthJ#;$QmPkH6KG7_#sUXYB#y1wT3}jUs>p|?CQH{r}+b2-SSLvkD2{c;froc=|k5(whSQ#*
ml}epBru4Qb3bX^%o%dGm2+OTE->O>m{%M*U?Yz+5jY*4_#`y<hQSS9AETp_*Vyw1U%41fEx|VtmxA6
N9D~*NjJOO2Lq1K|p1T;NeEph~@ujNW#g=)}6@eKo7vh0CCI?%?$+Gy-dVa=02b=xhG7*jFE3M|2!jI
@c~ggT&2;92NGq3x4!&R0Sy*xdd4qT~UAgz>2T;08P4umGdMTf`0nx)+7E5WQzgdRqV0<V{8KQQX?5Y
Rn{<vrp+dtFiDi(8t#Kd*>US;l*ss<;?+g!0#xY@ces?q)lso;$g?Pqmh*E?6<(FfYy2n4J)W3b%Wy}
sv(GyMSK%z{t$bf0Kczl{~o^MIfkH%cEn-XlTlBq5MJ<YGK;you6AWSi=WAOuP|KAdJ_#PM+qq}OwRZ
={t%B@$cG|Y5#}7H>W|vpoPiCcpe{bYkVPr+g?n!4>EfK+e<b!#Qf>3Co`n@T4MZ2(Zxgajj^fK~^U-
78f7eQ1nJSdFsJ#}>O#&P)THZON+4?|}nr0yXsSnz`>HaTme>3(uV}i85G$dlSaGH##zfem91QY-O00
;o{l@>>!Oo!#-1ONa{4FCWw0001RX>c!Jc4cm4Z*nhabZu-kY-wUIbaG{7Vs&Y3WMy)5FJE72ZfSI1U
oLQYomNe6<2Dez^H&VKSkzuP0{U?>;6s`X+69^v*md_(6b3DgZ8ntXawt1#(f{5VQj%pkaf9R%+ZsMT
zV~LR(P(rHxw97YU|a=m4W%n;iv(-uVO1Mjm}&!sS+CJ!72v^C1xa1-h_LpqR6j57eu2W}b;$*kDYbB
rd(;6z$Fc~6K0<1!@Brayhb_nyo?OkpVgbQ1jxy!WqF@2x9=)~@woHO%N_{(lYyLIJ+T3cQhUi{<<7$
eyksT%kn!(40*i=5r^QpRVW%}hdRb{Z)A|aGD1vu^=wg{#Q=+`<IwraW3gjw%Il-;`mVXSS~x_Yx^DI
+pe{4>E;??r-6JVj<x=}>!&q#56MUQ$u;bsn6b^3f1Z@KL^H4dIDe;A5y+5MC5ypHe@8w&Y-iN8&7`C
eW4R4Sb{$b(w;bZ+vV`iY52S!fu(43Gnz=Z9IyN--+0L|J>?N&Iycj&4DRk!H<4y9<82))1F}%WWq<&
L79s8H-TbGPLGw8>;Z@cMie9Xq2<8G2*I0G9gw|m19l^}!&P)AMnF<iQzt2`TnMa}qhy1mL3i;~O)xH
^#6UOMAk}z!aYa)@!cw%pSlrZ*`V^9Ra%xxM@!TbHo{E{;U})pZV4snrQ&9x<&K-{zcX8q)w_JPDD7a
GJPvFx!cG$ttR%rOTiYw~Ma1m0V)PXVmkx$#aN}hgU54AOav&o4TQ-v-*Z8Q#BlW#%iIqukSov7)mP`
)9pfm1G{M53!rB_HpbB9M^eTSnq8;T~u<ECkPa89<783ul(E)IpTwMaN^rQ>f8sq*Tn>a=EUh&6Z1vx
AT0i6*<d6TBh$)ZpytO&gxVEawf90Cdja%1|!SrU@Wx&1+H~%!xEFM;TYW;oimL&{PV9;ipzjq>m_?E
rHj~qr>!=>XV0hb;lsm0`wdNI3iyu?@e|KCebQYiLeCDm*uw`CwsBa8D^`W-olsU0uid=~W2MV3GI42
~#9i>XwFw!6up$%89w!-mNpM(1yx!kl+nPyek25uVHY!{>;ytffjfxG;p??W{{Pk`i24}EQSb`DU5U>
5y@L1Z6!LyPx#Q#AiNijgn&gewjUMBR+BqYGcog<;6tC#3NJ0`@fD{CHlH^wVZ1o1>^&gVTeFg&;R+E
~4^sg+&<Fj&vi{#**n<w=RS<|+x;SHpIIQ=Uy#VWk6K+T5Dbw2E=CWbHR}=0{vUxN5Fod{cY57%ksoy
PY){=cHt_HB6>M%2JnB;!Iw@KqtMt95;&6pF|zA&6y+@Wn?{`Hz<qqMizEGHt#-W)*ZO_C+XblV+mUl
C)Z$p%sNi};`uxses;n*ji+uf@f%qG={w-J1s;pLG!=O6YQ9>UD8hK>ah)|cG7Ce2-Ca#i5SYQhDZZI
ySk2Cai#Sb3wuG9-JgXgG&YvxO2luyMZ$CpGhbq56a0KPE7|AROxh9*zFI!T*N|v91q&r6nvUr1*cd=
%C%AhxT`)?v06562^v2!kY5ks<+vXi2r*}u1_f3OP2HLqlmI^%z7yw%b(n@(@OH<}d}U$!fC7#nsgI=
s;`8l1>$!*5+*<)*sz-uW>%?QfOG+-)i&bFcprGkQ-Wxq#t)r+Dg&hT+ghAv-=+{s&M?0|XQR000O8^
OY7yy9}waLk<7{k2L@QDgXcgaA|NaUv_0~WN&gWXmo9CHEd~OFLZKcWny({Y-D9}b1z?FVRL0JaCzMu
{cjt$^>_ajtb(8tCST$f`-m}ZXx(HpumnMEYz17;piY#;=5$n!yeMv$|9$U0ejIs6$#T;lh6$)6-I4E
$@0+j7Ms3*L-Lf@pBkt~)+-y~27@uoZwMN|8-&3}bAEcJ5p0c)<rCNx)N*dAdN}ntd#8z&LyAPsXsHV
{JqlaU}M{{THx8lSuD~eLp+VI+FzeJa6E9=$EN^Ar?o-)JdmAI_6Xv}Ls)V-+rM(8asg+4iX!mihX_6
oM)%{$R(#v8#T?Gp>OTZ@{(KG6VhrshA1(lFs+!G75Fz7@hFWTmJo_`&Oif55i}ICjqvc&h=hQEb}?V
AZgtYBt;$KmhQFzfmRlJNP{ULSP{Q0swvV1kn>voV+Fm*o?hVHAt$G+IX&C^DR98<%Gcp-=4EEAo^JV
n`Yb--DJvM!GVa$l$MX?tud+|9ooYF!|>_NxRdS8Xl*vt=yn<aOl~KA&`9EE09Mt=K|21EhtyU%@<{F
}eS0XOFNbK!Z?gyha}TkGBQDKRnAO&-8r5zOOJeU{X%A+~uA5d&PClKSoRk&U8nk2~##Z4b=LC5nmSE
ztmgeqm3=}S{DY>^q_h^LMSR+8SHJl&X46hlO_y#nY8L&0e2vLL`2!NfE5gNX-KLNWcB`52XW=*?l02
?-K!HB?Y>^Ap9EooiZHuMwMv$1MO+0nr0?Lw99#=o8fcprGxdMfPqEHu8|R#IrRT=YluRHF$7K&9G{)
`kaQ)r|!8hjpingZBgLU8`z=azS3F4&Rnba6Cw6w8IgRuwJfZwRl5_5g^(RuA|3}pbYH=uqHLzwAutn
vM#F@*y2?c90~)(umS!PpeUL*vbtvqpfy$m=z%-t?v@o_AsycYIyO?H|Kqh#E$~C{&6*o<f;F29v}LC
1AzPq0;X7(pL5eUV8Kp1WaXTNEyt1Oqy@`YhPViIuG7{;G-Q1=x9gp-PG6HQHX9JP;cUZ0rdf^cp6+b
Cik8eg#_3TIZ^W$j5o?2UUCqFsDd!bsy$|CC{Hud-}&;<1uEWJ~JWlHgR0<{qk$!j+H^Ha^9>c0@(;b
f-i&JLykAGQ}x56C1ID0+;cM334GW(oPi1)ie!N@(4QSF&k<Rbmb{>kKAiDp{3mxYPpl%3N-?)>OpeW
z(ppqrxT(*Wec%5eshk)II)Iz!{1eDrS~0T#Iy(TXB9eCThyIN=x+B;1lNr4A*q3YIsBTM-0X|8G1fN
06|ExOZn2GD?X25izSl#6b^0q<}(gp>KSx!oIC=sjLR$7_eig1|3v#BI#Ig=08Kuv!x>=paX(T7jo7F
U;;`m@PirjWl-dza+yYpCO9ccABG-7~V0((h?kzn}$$E`Mq3eH$9Mqlwqf-`&Cn#7U7NC<_SvQZt-Ff
_ls=tJ++>oxKUUTgN6bU3g(nReQ;D#u<<M&xfJYhfl@B_pgy;dz8rlGhd%vzygKrRdvZxH25)L2&hHE
cvLY83!5^&EfdvO0ES*Fvj1PnQiH;V{YyOqDXIo<}2%Ag9KG1vmh;1D3b<S<%Y^A~(0+Lnfr-kZAKIE
GxPQhcTR1*D54OO>8c|R>Rg@UnqE9oBdpw1_M;*WpGoZUk#o0lr1sYwVA~Z@IICzm!f`C8u>xI3e}S@
8ph}&qNLRxW8Or?`<7Q1s->Lbc^n*x{4ZwAR#mBrpfb6n$*a@N`T6PDZMw`s@+)U~VE!|2py<o(w^0v
|?j=$?cJKzg#Gi<--_6)rmaK^N8T&d9hj3d*=kexqmXvxtfnq54PMIQhy7y=HpRXdG=pd{;oKfVzZb2
K6U|QKd%BCGuRGs93#Yv%u);&80oO_CuQ_#t4@POa8pzoqdt0z$HZ@ISh&)hD+)`b-*$JlOV<4TkZf_
7@10(}QZ-0H5DnJXx&Hyfp$vj7Le!)^lQj_V+#zhA%p2lIAAyIc)(a92|208Xq64sLL3w3mdH;S=_qF
UV*|MgYE-VV7TLi2=p4g=QB&6V@LCBjGF&#bcl(>?ZO_p}cDNs>lA)JsK|GQ+`uXkH;9=H>vUDmZZu}
CJxYfTbVb0Io2<0W47ndp6zzKV)u2Sn$@$j7cX8s`$+wR13CXbfWyKJy98!DiL)4L0;S=FmMZWip(`{
j)cBrQ0896ViAiV5KCOT#g&`G`SX1h=7JTv2yIbtjxgRNVT=f<zJ=1mHlJ~f=_dZ=<lj&EGA6`?>aMp
J<R;1oqX6bLzl~{^S{V(e)Y-~DZff`{Y3>J}%<hAkDNF;*GCEH;yLTjIOKy2G#R%OaHWpxFrRJR7oU~
F1;5bR1`-zP~6WP?c|FFwL)QEEQJ`~aQq*i$zO4t*3IPu$AHqUr+{6EoK9aNao9Zo7?CJ3CIW+uCSh1
5%<-y%-8Sj;U>8yAU%cI!d%KesuIhGQu(+!kF$0douAljwA7NQ6VLc+kZzi*%$~c#R8b@hul*pI6Q<%
Pw~|LC44$vqljP^r}Ku?dW%{cn<w?%o3=E2t*U3d03Nh}vU`BXtCectx2=OzgHaG7mo{Rn0fR0f{E9`
t=6k~QR+MrnOA3^}qI=&;BSKP41@sW;08~j0u}kB5)<!}dv``%&s3zLgx`<8V3ShCbbF62!w6J4@ZU`
`w#gZDxT4MwN*RfDV;)sFZgPtmvaSTZKij)aCgM<w&(U$(9Isi`)?gt8XrI<uvot{OcpxwCga4#(raD
`pY2v3@O?{xNUxskUqyKaxqcro?2k9_qN+uu>F{~<isK|LWHxR9V*E2C#9>W9$)krD}fJ~W#rw!Yn=V
$6jNN_eEt;TKeF!(<wSb2`kihY7u8r~PEyargUkI2Gd<0G!yi7QCq>rir#Rrkpx;5XT-&Pju*M&T~}!
u}3YH4!MPY`gL@~o2W*HO|-e_D&`3ydCg^A-J{IOfnrUb)X80<o+a-^&yR{YY}#P!$Qu7L!t88x&PG>
gO4ocfdd!s)#VgoN^xNj>V|P<}lz^ZokAj08!~mib&ZkLMJZI07rw<()9+FFYve3@@b`=%8hhb+cW@|
Q4F9q!2*l2T<CKg+@9Zz~TaX5?YoXeh$z+(^(^R$EP<*wN-)}nkzE&Mu2TYLlup}~2Wov<M(?)h4p;>
5_|>TZAN&e{hNdmCP0QYf*ThxgAeosf{HVb<R-gsH0&syl}zT>c%_giQD33A0=x5a;8UvH{ZOqU2a}p
$9i#Vj}8ZJ3_JXxaQd4?7_3`GH)G4Uu}uf15KKtKc@^0w}n&@|J|F1;mW?yqTH-&tADSQzeh0Yov33C
Pn{XnoPM}rY!~k@oP0}W(8)>aiKOotmi9>e&X%=%sC4&t^!Ud5$j<w3+j%9+%SE@qKZzFUd&qJ&@go0
Z6vZ=FTt^jAsI}cSn+H7&5Rc*70UB_9VOs(**HhPJ?O*SJX1MmN)OO|~QHyYqIXEQriYMu^qJPO%#J!
2J6A%S~+et)psvY^GLT^ILVqbzyWZS{Fe4}YWS+~P9H*V4%Jm)&9{b@x3!F(LWylK8wFxjW<aa+e7Z@
qU@dh45rsBeQwbfZ2C5PF%`<a_QW?JaSyevbg@JRpDln;gRxr17QA<Ckq+QmNx-h1@YjN91plI&q^{t
tfMJSAH9*YoT$F!j2;0D|GU64sMmNAjcY9y!TlF(GjJwTGN9}%O^>!ve}lEPIpk*&e6kQ-Vmo&%0qg$
4OmlS?#G!^oaRnsVC4y#U*q9ig)OzDDYa5KZ4Gm5lPMc{4xid;)(ynrJ$KSA`QNvqtOv^nk-b~?My7o
xI@GJj_&2nI&a>GeJ2#vZo5W*+t-q)l2!b@l)ueld60^4r`}Dq#cxXm(OK0wH(Ai~eEo2i-1PNYiY$N
P=ZEVw`2Z$Ok;8iw!CCeZWkVDh(dKGv7@MEJ@I`-g&2U<(`Uwfy7)!th-*Dy{mm1H_!kdL4p!o#|jmr
=Ak8D$8UYw^>`&`bRW$~%}A$tM!s_yk>)<I*Bl($7mYVld;-r0RQBNWsV17xDPpgP;BOaXgH}hSYC@C
MQhtM)Cb$+fJV4zCH(4JPdkx(f>DWg<*!GG+t*o?Fv>y?MVqKw{3ztA8SW?0vJD-IkC-CyU1SQ^;4Gq
SdP7V%OXehrv@-&IZ)F>CIv|{4n%~3DTddj5vWF#un%V(K_>%BZ>`-rdpBg<%nKY~Rbe9&7Or@-5bI{
2gd~?hmfW}5(Z$|z_x9nK!6w_x%vH?Pdg*FWKfgRMu9#5R@IavpP{W44tyszIg2g!5lvKFeks!K82>y
werllo=+MK3EL?ikf1>A1-bI49ly!{Qsc5N#1u>OdM(L*&nm8>Hh1`Js*#K&>KO#SxT177Jtyw3+kO}
r(w{@D0&O3DZvv5{i&vR+*CmG3%<k2E3N4@WNXJ;Ik;^)OI+o3(8&HT3^K&@`Uc13N*MMj^xiI^WH{k
4K9I<hi4T!M~Lpb;IlN2t0hJKaKrsMw8*J3SHtMf-h#C!%3zHNlq*67j~?LDL6%)d)WwJXlJ!v^zN)Q
zt=?<TYAv&l204C!ZZ~UQW{|^D+Q$77enIq9Ghn+aqfP^V&KaC#1^_!Swonj<TqR2hOv?uupeG{7_gs
dh`qS0kX%jy?BIMt=lJ|!gwwNRDq?(~i~u_*29uC}_aHCxFFL-U%rRG@fv7Ei7R}zN&alKDbUR1cMFY
4lLSmN_aJ_FqGa#F|#~RNNj&2B#cARztb5z#b@CEVHUhip#4*!p!qbB733s6e~1QY-O00;o{l@>=~Dl
r_F2LJ#SApig<0001RX>c!Jc4cm4Z*nhabZu-kY-wUIbaG{7Vs&Y3WMy)5FJy0RE^v9B8fkCaHuSrH1
*;;6yedN1kHJzPP13E{k`%2wY)AuvvFMbo4o{?W4EynWq)3XSNZE;iCK35AzJu>jS6y49qF8PCrXxjx
XuWPbj_?g@s|_bb|DK_e-cd%|CPSNsF58k673HME6`RdwD?#L;uJRIoD+)DjD7<Fq0)S^~@t)ux9a$-
iT*DSOm=U#R7ME?qIBq!88)iX6G`J>gjhDoLY&fmVcHNenioC~5-gb}b7YJLD6}lz-w5{K5XjPIfg+D
*k>x$H*;h4iA=Z7-{53HjjG}@iX&1HodL&uzVe^AEL_U1cTa)l@!!KNrc3A`v$MygeYNKeE95|7x+)f
TW*f6aVCpln6R!|w=~u0fTM!lspDkd5Ae5m^q{HB0C7+z^`k3>e`8$_Oizo1r^gZODYcIiMYDKB<l4)
2~P~Ek9|}ozCD<?w8|quTlYV_4+!KpjSU%&(W&w<O`yWgQB0E<hXX__(2}0#F!*0as7i8#cjYOVd@Uy
"%text.

(** Lines 7965 to 8114. *)
Definition DATA_52 : text := "Ti+xj!VpOu(}qn^rl49zWyCGDW%&l;z=M-gV9E#tIyZqr%CoL(I|q_fj0A84C-{b0@C1F#i3>%CuDm&
NvGSbI8?f^*eBQv`g%rTX+ZM9sVuH<e*RDy&AJYogHzk(1hX_t6?C*F)h7yDL<<o~`9`sG~;HGr7W+N
l;@Qb$bO^?@W(v&CPKzZ8ouIi-pLLY0~^@kH+@$k0^N<6J-FGw2(I#`eguGp5C<4i5TBM^_|NQ&!9!T
~{vU^uq-4e3tX<wm|OJAye8goPDTL3TcJV~fk!{~Y2rXezk7G7hJ+DTMtxswP1;s2;_3uuBHPvAP%=C
@!*X0)rivI$&i-rjFF@9ogb4pk14#q9>T5BiC+Q6l8O2c9dB-j4yM)De1r;T5xjzQLcN^-vbyK-8>Rm
909K6vD8bk>-*%2cC2T*`za-%aflmPgT50$k_?tcW)SVl%S?7Ym`YKmma%2_Je7@TWoSrbWA7OD#;O!
q*s2&H3i>P=$hBi+MStfMW#I@ws0RQS9EwXfio=WNpAD|)ijq=f0#I<ODZE0-VFEwpI}{dCD&Z?)iia
W@#fcVS7oU6a-ax_Q5Y493N#s$*+|v&guM#Kaa7swMICzAeP#wR{T-Ws6c3FXuWrm2mzg<>1!Vk#rq1
_>VohGgfsHXsOg80-WGm2JWt%dO85J9@?i48RdWf31%yoWaFD*49iD!I-E5>Kqq3@w|4Q};;0Ju{gDI
d$BkBVHY6t$5{JsS^H)zznHHN>l2FP1L}rm*;NZmd;hVpsR;es4YXo&w0pns%OpNKo5^S>rnOvqWp2K
(>HH_kjAg8`pA}BSF+Sg-1uH^ZYsL`P!2$P#RFuI3@%0+P_HD`-7n>9Yv_inNv(JY@)&@iP(7V3#2Nb
_)xu>)o<L^OhI7)G9cqf<d{nl{?)ym35yoz*5Z!`MXJ)`~jih34@E_gb8jlVYpekE9aW)j*Ko@T+>D^
l*v5^&#5l!jztd~i3I5vDZ5GSdqdtU{o*Y=4gaLvhz&bukw+SijTs&~6G2dPeaI(<d%@mO{Eb~2c^lh
^isuSku$=bbtoLv+VB1`-SZOgai#^<O1ZthH1}@G!z;<upoNNn29L$gcs{=pc?ex?b}UUOwt#CmOfD%
nn72*cX=v{PH77749#34<5VsSjb84yF|=O^xN^t?}rFiReRsJlZ~vBG3zUNAcR^l>^EXkjD#3bqARy&
m!r-7LJ}ziMj<XEwjVE5Wh=Hg`)g5LT%MlE(vuEW%}1oRlvY6;(EKoH3PQwd)Hsd`kJLTEm{KsDyufu
^bt@34la+#VR}HEX>CpcLVsjjo!$_yAC6JZ*y1PK%#56U1Pn*V?Hl=X?*W+wq&y5x`j~?}gKfOHpa(;
HPC>DQzJd^qx+t<d2BSt;RblbXKfJVwx+A0;ty~nCDLWGhe?jb|j;j`O<+1+U$N|NNiJ@(5B(1*|j+G
8l$V~PCn7B<n|4sA-hkM_||$_$yKv|w5Coc_fU*%SCJ2stG}fL)wbj7@;a+`sX5^0%<7S!`eGi!XT={
r8`ae|;jO16=?-iQ~!T`EGoq9uE$LYaJX+8Vkt&DLc)l$YCzPZ9;ra#J^|p4|xm7l<E`|n;47QbYch*
m=jw=kVxuMw=En7i9m(Zm=AH#6Ok2tfW|UJ`+C=j!}PE{t`SQ*pTsu*2uE=wdM$6Tzf1(@gW_?<6<6U
Ij{F2A3V;qbw<Hx`zs4ViVuLTu#5%Y)G)rkb(JPe+jJUq^(~ss9w0w!vWrnKd1(TDwi6Y06blUYAcHP
e)^Qv9qD(pb|**=JSl6EYuEAMi?fqEU7egcC})^?nfX>^ooKZ7gpgDdZ`Bau7z2X9V$cSf(!o4NZP*X
ywr*b#c;tPAn_F*gWihG1r36`JIGg^~o;WzxVjUQoTZG^JXW<ZF}U-&@+G-JROipHhXH<=kxc5-p%|$
4kD!6{-ma7v!zzi4azw|6k1dZ~f=;4GbIlUjeD}{{iN+{{c`-0|XQR000O8^OY7yV9$Fe1PTBEO)&rf
DgXcgaA|NaUv_0~WN&gWXmo9CHEd~OFLZKcWny({Y-D9}b1!9da%E*MaCz+;+iu&)^<7^v%fJYgrP*v
AgO!1eFNJ}wV`Lp5h2j!pX(Y3yNP!$VcDMQWp1F~8Iix6W(w8og*b;f}w>fi$Ue(oxWZ7!RcQwm0l5e
(E%?Z70s$$1kroJa+nLp%BUX=;imHDDtvaHBCt7*|pR)WMf-=^6EE0<NBHu<BW!`UOx_|uk6Ci+edA0
<X=V6r>fFnzDRncq{u-4y=)MO8MOmb@_!+8YL<q#M?3>4LQ&JDwNq<4v{P73_j8cvU~?Uy})^>#SyL_
P8Z85D}<uwt2zg==XU3kFU3{reEXq)ijz;CX*#wku~GzH#KALc6qU6b$nj14J*00b-CH9FO*Ajt#(Br
?$0j3R&4rqLg2FCfnP7S4|`f|<VUcli<asqaYUPCG)+OBi9}u$v}p`vEG?a0f%mi=;u88~SzhKm%i@L
=t3;YG=?po$s!AI}Tmmr71PDkXe)T++1T={JjKDD^o~M!#TEQ5L-_Ug|#dGL9?`mb5P919bs(VE8h6w
fF2K=O40`6u9KC@M9=FvUh6wz&B8N$J55DFtGdS>h;CvR_Qt&AwdMXbEIhgcQ9ZvbX~i$JUjy4DZf=&
+5CMu-<2;|$0+kjx-du?WH~WTQmCA2nZ(nur{c*fNp$=(@9JP}|B5*Hf-x{0eX^#hwxBI)qatS{Sk&j
l}orG&FWAk0*)N#EOFUu@-MzS6f!|r`V85S_OSR`nHt8QXcc?v(ot++M<(jpFxyNj#Z4vfoXKWIEFw3
_=WR2zk{`~*(-t3oJy3?-X5uh(DsH$_60cuVw@57m^VBx*A^&Q<#oe7@K2vUkz>N|S<T3XK9M^{DE#2
CMw2h_omXU8!SlRH)6~ITRW<n+dm?#B3g8uEs-ytW#M5b*kxN#f%FhAg7UPqU2U_fyVArXXLNBoa1|f
YYCD3=sB_2XR;&V|Q5m4iBuQmYA{0)?1@%yLSX;@RxN@EcNM7&hDDuZj)qNH@Qg2?ik7lB<YBwlPFF?
ib6?!7VCmH9CKJTgXHms;S_`CDwU7+Ow*tIeVgewJK%mOF4Qm_!N|YZOa=hlyjpPL;${%`@LUZBDC_n
@+-0Hj1JT%6hyOLAeqsL`t9|5EXw|RtYF1T3G<cEPq#3g_k!1T3{8dbe~K;`RH~FU9&QPuEK7AhM7E7
Sg`~hD8Uw3Cx8PlAGNK6z;?w`{&~m1rOc8q0o7Mmp`dxWWRE~7tR&M^K8rP8k2tRQig_#%72juSQL|0
;z(yI_@Kz|}O((l9#B?_h2%6`Ta+)|6#X4)zJXJhK0tc;*0PC;2z!5KKNQgqMjP_JF3HRenitqJkxf>
w;z1|CQDdA*#NrI4F@-xi~QmM3qy$V+;XR602h3CgV-KK)h2&G%t5sG)PxboPt5$buTEF-=*TeiqoIa
|um32@tDgQibt3Y}^OP3M>Gk0I=pCU8Pt<90($t#FRXpv6N=dT6-u_oHEc==VjR5(5bmh%k^OJ+MYbr
xYv-$O=*Rur;XL{)$0~f{5F_VA5?1b%$!>ij~&tJj7}%!N;^#Zo?*E=YrHN2qKB0n<$-^UUgMf@Ki^l
DY5L!wY-lMIP)m&*0fMS3`!=YwZ%|T5&B_7uIkw6xQqyp9$-8|fB_O9P$LCfyiN}B*stf9(CubG>0ZC
tGbA%%(qoz70g}joU`O+@(PeN4ZJZ)1hj;Z(4B^BM1^PHbi^6nzIkbIMDR4YWUux0V)aWWPG*U7;Nb&
yH6O=PxI(i2wT^sc8EeX7HN8PVdxg!N6{9gJ@_9cda<Mp#@u`?sbajsX@XuG>B^2Oy6s@GEk1?Y0=$*
O6k9(MHe4`=UBZ~lILei99JhFZCvNtk9X^wb|iAS0LP7xl-`XV)5iwBG<HjttWX^ofwMi$fK6C6o?b(
1)r;xC^y;`+HH_EVlcvTVL72A-mAuw4DyKhOus+H5{tn*cujZ-x`+x9cvhI5=S^RDaItk$gqc?|M=_q
)lK%{{rj5;<#tii_4nd>@!^-hiVudfAPD^c|Bcl-E%JY}y4{?2l<Nni(lrLdjPEsGBHPW9&tBu(9oTJ
)KBNPWI9*5Bo~JAAR+!Zl&<LjZ&Lnc?6c@A|z_WNtx^adV(mhisE7Jx@_VtuqVD>N_K&~Imo<E8@b;(
gfA~6mVKThBYIqGeH)fL-?7A@z84ALyAY?)5ve9qzIk(E14--~Xpgd8nyFP1uaB6J6ISYKw*{m)VJIT
HV+1~17=@`}VNz{!u~%`|aHBertXf*y81bDBf@B$naxx~}RtGG##xs}{5r`1kZdZK-j6!z5F^KZF!5m
vUC+ZVGzh`v76O%|*1|wfIrzpohT|KmTxiEF%2)_{4ID^2VSe@PLJyD>m@f)Y+0U=}xr4$)8c{MCXsN
(dV$u*GJ_ES%W!_nuO?)wA|-eRPA_yZ{bF$*-*Z?7dyoEoH~`a94Zsc=LWZTG$R?PNw-Dpfb1@t#1PQ
T(sf<!woM#rBCc)CR=J#9n4|kt-4Ywn=5|Ox$T?#}g@T>;iOY)+Q)}GNkf^xT`ZEQ$fivfy<2oRFb?=
m=cdOo+x;GGTJ6I}NfiPTZI%bFY)m+c<uepRFGT0J|6R!i@ZLa<x#Tf+q2Om_=P;@NC7Pjdqk@yi8Hk
heuC<<}!nV)@i@%s|u_o$hPmHTDiVq>2@?Oo`;@8V|QX5>vUs8XZdF6^-u-s>JEis>B(`a5hCIZ~x#S
0x~2snp-jzP22%H$TzmGD`nh<z-wy*o}0hA_i%pp%rUeY*>QZ-d3!}IoIb;a#3x>e1sB3$v%cMU3hEg
ybx!;v-S<D^s-!4u$8%x58~;#em(5c!v!(H-q#VI5A53iY}@<W_Un)D{&so#f7HGIfwtT!OMkZ9vgHn
ljVr|B!i%v-@*B1BqK7|fOb0(4RQS2u%{@32{z3Z=c3FyYc_(XXRWI|B)=&G+6kRv$PX&_!s^F&LUDH
pSLcY4?wDt$(nqV#(AEFnMIpqAzTDp1@ACW?~O6}mQ7jbM?io7}#nk1|XV$UQ9{qe@cP4Dj=*uHLm!8
G%`zXN&_r{S>1l6~uO*lqZ|h8h>zuO+Lq9_x-hGt~9tRASBAF{2G2_No4Jk;*NM7S6z&dl|M+*>4`}V
$iiJdZOvGFq6&}Fn8XH9(-fkX>Pm`rkZ-<4URTy&(PB)D~?Re2pE~RLJ*jjzL5a1=H$i&?a+Eep)+TS
AP3zQ-HVGOma`$w=?c2x{^}y%r<3nALk6Jy4{9j(OQK$&4(;9!!TXOOf}l?Wyw2bg3$dscv=E!y$;7;
_`m6k70SGwkuLff8uK=c#{{m1;0|XQR000O8^OY7ylb<E~B@F-o&o%%6F8}}laA|NaUv_0~WN&gWXmo
9CHEd~OFLZKcWny({Y-D9}b1!9da%E*-Y<O*KE^v9h8*6XdM)JFU#g>5~DwSC$Uk>O+0TSD}7)a6}aj
#dnK4L|#EXEY6<C1oCz5Mr^*$271TvD=;I|6NJa^5>LJ2PAbLGZpzo1BqVSrOiBw`Eml#SN*~jO1T8d
Bp09!ELszXtj&TB|OhkM#-90aK}kql7=%vIoUMHdQz?gYC-Glu0_MQ+miEanX@^$&+2vA)PRPJRu#R;
fd85%w;T{|8A%#mmm9)zwqZp*Dd>g)pEa$?vSRd>ELnZeSV1a)pqz0jRa)K`97H2R1duFKNcTXI7DZV
D!nR@@Y0^AzB_gOH|105JmSn3efp<Hh#H!5m@*ahxpzCb`3{c&KqQcv%1l$e(c`~_VUuy#9OUexj%u!
vW449lKgH$E(*BYIb$!-fep(RLB64Y=q`E3n4(PF1ifCs1{NF+&9%~21w$!bE$8LjC%kp4GX6#y{_f?
zUPRbaC?UNv=7u{b8#2G^3%B`@=)X0iNxPSWfy<5^kENmFD=nX)*~YF5#lPbLcIUee|I?~3U=zT=8hq
#49ZSOfJeO3H%Q6m6j1x}qvL{knyBh)S;mJBpil*<^XjD(<3Zu)Ykuw3Xa&S&cjaftx(P#Agd~Sv71@
)0?<rH|*;co>UB^-fY1K!{E>G>Yv}PpU%F8(bHKln@rS_#x<-LzzTxVseBj)l&8Tg0&2h`$tmXqR<^-
+mjEA@%P%acXFpE}Tq#?@>SRS$$8pG6zM6|=pOb9^o|0Uob2M(vHW#VFzzYE*gahWnORN_f6<+FF8$e
S80DapNb&r^?FtKuCWzP>~;RqEcYgnug;8+~qUtLdHx^%l`MS6;_l?4>7F&@zk7#)HqoJBNE3kbDPy=
}o}9g7&CPh0-30u_VUD0*T_bW3cA?k%h8U1$>oP7`EPGhTmYRYvpd->eF4HL5$QH{P$Zg61MW7^cdKR
moZXCd(o2;Dz?$=)!yv8ftOP>s)fu9OpnQg?|?(hL+iiV6t0NPV2hrKm%~pz<^V*eK=)t7Z$H4<PF4<
$e54^IqLybcadD?FnE$G4}(B*!GNz`MSwzsL|Fk!gSE~s&-#1~y+RjJx_+Fckb}L5`f?FvNW@K*do<N
oTBk9uahZY_Kb-w?dindub8^IA2IQzm5UmzlVQRDI>>xgY#fbz*JP`kT32%UF_#h=)ndT2dYmNFaG{d
A`Ji|TybHq_G&}T}f<S7ZIE0Z6|^VwXRW7a2wDL_X)req~Sn<jb)_iL;#Of&?BO5iRl8y?QEP(a7R`1
G%j!*ZC^0lfEf>jk@st|MNU=`q5J3~FPt96}3f0<je*tjh$r09e@g-Ys{K1icwTq`M4C8ByDbg2x4d{
fFW9J;D<_DY}C#A1aktxYmY#fyavlc|MkOz^ncU@IS+|q{X`3#?{^zmXPR_@Q3HQW38_z;bD1gyFsDl
`EFhy)=@7tBzrWLS-{wgY@@yS;rJMn&GGTeVar9ZO}Xat?jSYI@?ZwVY--4p<$X;bwsL~V%v9K2x)H~
cwOf3yYX%do;2T;eYhB^B^=8ynijjZ_4fFQwps9>Tc!A}Gf{bpeve|~u`tBlD&jItqJ7k_!_LVHUIy#
b%7{4m`^&WG-fb~{8nPYEBWIXlTmsQh5Sf>ADlYfA1Cqzpf6mmV`JdzzM(Xcq?0?t&4)nfU48UM_dzG
6tef!>OD1)q6|m=`tv9nBkNgnT4XBWS!fux$+NI;~Uoyb!7Sv;U!P*fEiPi0f^>&8)?d@WVD977wq7I
<3CYW>^zoL%zU*h^YEOc`F%aJ6?L(gdd|;=Ly<{LxZSVf7jda^0)|xK9;3nM{>YDx^S6_Qfh%E;&iB<
GMIS0-pub0PSQ4`v8_VExm!3IL3CfEn__Q66exNp{6B6=THj+^-)?If?$%C}=|R4(GxWyk9vPm`I|6z
=Rd*ZwQ3TPKGAqLBuI*P#>4{FK3jIXe#e!Y5F2Y1v&DEk5q9?9PDCi^=95+cBM;hI|z3byU)(3Tt9(e
e-Uk>T3>%#`ndRW8B<@@xGoh#_3$O0L%Z`TnS@&4!%5$nSvuB$^c$mceF*A~zZs9`MBW>6-l=t)cAZe
^8%*HpW9F6yjX(Tz;ihB+FmZN*^dH$SNIK;pPaL<P<jgxkW1IWu|guRspo_OJWIY;}lFBOz_S2tPE1T
lsnN-SV(Q%GBehfpsy%|B>0+qZX#&$!HpWOb&iP`n8g;9JS&c^R;X#LNP9nj3;{Vs+!1Cfw5@Ev-%}Q
r~B?wrz54Ae&0?SRcQB~>qgbfEZb})Ia)*Wt$QM4#@e4^^DRx-+spUwl&PVp)HC<R8wxRJByrVS^?NP
ISLcW!KS+h*twBfMbe`|dQN>*M;NfcL&uYZpQ$o$$d(S)1mCO68E!Dy_OKNAs@|djka*-ewe}40nc-A
1i+l_i~$T4#04`eEg?_0JrYfWLXu_nZx3<>PI0sk18n5y<5`16Q=Qx!VkT|K{^JGFIEvMOP%^#s(jYt
P6JukjMz+md+b`)OOY?rvnZzCzm9KwMaD;#phZh&F7^-`Ut>CAD57IKC3*A#3pc?LTb$$J_l;Hka|H^
SR0#ksj&njXSw3w=wOp--tf#9M0PXI<mMC>2O|jG7K2Tnk^U!MtsroI3Y+Yden~HU`~0oj`ott5tV$V
Q}-pk@qeA@IM0oHWr4mnH-<JIJ=9h^+^Kgg9O_DU>+{|RA(gh^fH>|F3<~8gpMR|!a&t1;?(cUAi-67
2LbDX_Xv`g<JVt>01Bh7gD26Gm>0CX2&0ud~3#>1EDGwkA9PV^YE1JOHuyq2|{<u0o43F^rFVC`Q?aS
)&8^UyRl0Fll@zvk^bCOW|VK!5&#to*R+(aaiygrFXHU39JIhjL_2@upDY^@~w!px-TkdmTW{(dH0MX
PF9K@f9l=yRvu5-?6Z?by17eIlXVDqDl=YWt1*d92qP__mQ=Icl5}z|&2&Yq>sE1I*S>hLKXItEi2K7
a$IFRW6!%7`F$YtZ}#iQ5{TgI^>+B7&;cBR(;^yMMn--S)Xfh%z*u#Y9X8^((owVg;_^XMy4BkagFcN
rjUB+T_Ls0*cR-%0Ko`cy3mV%b#mSEGgTcP2WS@lfj|!mo+4D9@vecMc{%mE^FdCcM|Vuvek*RxB>nD
8I*#&;y1ZqDVK23xi^o?1{uOj)Gmb|o0R6-OGLA?oApIn`wnh{<A3z4Sj{2xvgg0S;=g)el4GG(9>z!
`mgSmSs&YkD=!)4e3W%f-!NIUd9;Jt+%XlBy*Vc}8oU`30vIK~$vs@hq)Rnyd3<jc^I%6mv|%xHR4>-
dtL!>j^gODlNeRxsY|)=p!)O{B--J<W;(=!5Y?`348ERu;j@mwzAKlV`4upI!S#yPm!Dpf#oG7uay{9
E8s9OSUVEw0EqPk9jt4U>^>RO-S|uGkbRlO=I<J`w8{)=Yb#yPAf)hCZuX@D2}nIuN8PbA+MP{zN?Pq
-qRf(QU=AJll!u|g-ST90iW?=T7!gaqsG<UVd2uCM#Yc`1FqW0X_+{{tYi?*NLL7gPsE|QHAVZe0(Im
pjSOO!c%&K&SUl-lFgYo2xFm<QLw%enyh@xymI{{*N|2eG@)IIwXOj2*I!o5-6f~@6J5N=otqYXB!v(
oNt7B-Uo0<XUJ#t|JM7{4Ait3Nfmk=CIj3Z)%SP*SeH%7KY2mdU@Hqjf1z8bfcG@O!;zrKEVaVk&XP0
7*V_zA9XF!z3JmRUNWL|K8I-Qy7+lef|j92VN~EOoMIi!wCV6G+i2!}<0!n30zYaw6vK#*1k%l`n=zZ
%z`?iz~V7bdr<>?D|kB0c6eum$Ym!p8nO8P}S|*6urs{F(Faqke^V6Ihp=?a&q$gFVn%Z5k8$q&SbW}
Fx4N|1%XElD2)J^9`R`~NNVJ3qCsLB429Rrz>S|?fZ--@RZNfE8FY#hKVzUI%~mTW_A<c)GL*YRjIFY
nAuiuue2zcA{pHtpXYq&gzn_1KUw!;|{_0aK<MG|^KN(sI2Ks0|4uRCCZb{H6IG&JKV&fKKsZG7z)Ql
3m`z1##tkez4okGBA1walwqTZecwSO#Nk-Q3UqYJKQmUzYvCX_Nu0g<@z&AD;>9!#7$9cqi?loPV1n)
!j<L;XS(RZyT3p(W<u@RvRA(#i+f&APUKr!ZQex9zNkK&D~PJ`U8d5J~{r<YGMM3{9~vZ;3!+?;m!OA
DPs7I#aTKpqZfN^t|QZ9x)PjlJG6A<!@=fO44zm4=u=f(ofja$)N?fZ<F9}c(}zUcA7wQToJm1Z7-(z
H3^>&`9k+Y2wmx#R2&yFdr?2QVUJHZchCk<i>hin9dgj47YSBU4;@Tk#Xb2iP)h>@6aWAK2mtey7Dt~
peKm##004#-001li003}la4%nWWo~3|axZ9fZEQ7cX<{#Qa%E+AVQgz<a&s?VUukY>bYEXCaCyyGTW{
Mo6n@vQI8_l;>TF@yV=xye(rnnn+G6#(4yj=<5^b}gMUAAAdPV>H&LMS|>^j@a1SFQpbLV$1bQp#&Ay
rcH)C!e@+Q43ArQ`-SN`tUmGb{2f*qv78b_bc*Y`EsRg*%aF1{ngYIiJCn=MAm8<GBHmA(=>-#0BJ6h
C`uIc*--lJ>UxWl;Ur$1Ftm+f~A5~b7na(Aj$B+<Q><}90oam0DCAn8S3>OREeu75|v~s5c@*%J=xc1
SGS+gMTpQGiNs6X`or&_DXGfu$ySxeXcn`r6oX=(8LkDBXy!B6b94lCu{(0KQo#%uCGk^lORqZ50?lo
yb4Qg|aYPSBQA&a^41-{!)gIRCO^Hl=y#_QuX%uvef=kQS{`(BWe=iK$IfF76sml0TI@!_$!Fr9pA@2
fi!Y#M0i{T8yqR=9@^p>eTeQ+|JUeF}769&IBw;@08WwjYV`-DX)CGoC;pt8;!Ol5hJ)D~kXjb#|PdZ
V;LntC_m8&*oYcJc#<9B<+kOA!tW`0_Of0;GbT0}&A}@z`h3oD8GmTD(>{E<S&L_kh7S@ujmEBl<HZ0
CY|{mCSfd-!m;#X&j79jU#vvb_chmkajL|Fl9mZ22Nb99Oe$QIoo^q5q^o);ZgIyN}&;1h%m!ZhQY83
EADxmz&kIFXWf9(bI)XnMlj7UgW;Y(DO9>dMR+C&eogiw7x)RU-uyZU#hAT5uz`qb88|^6{JD>rJpz#
RrN^vDyNT%h?&~+eKNre)z>nm$5BEGIVJ^iTipdec8<uj2?sD~zQzAboedmtkgrI9LXz8jz+WAK52ZZ
9pIT0sg?`W5tdsA4k$HdOM&b6##MxQLi%HU`BUPsW;_CtbH(N(FbTFL{kqL2a)+Z99JM7V{J%H;vU^0
KPHM_g}I_^RB+AWyalG{z_0kSKjbTsLruD@C;0Kz`A@CQ?0MCdS^+O-qt1i)RRfT)u4db!m|<stZsJ&
-k)unoF+*gcl~cFd<w(v|iKNdOd68#66C6RUOyshzR?e7)z9fl`5(F+6~dHdNc#mZ)!Cw<V3EdEh7yZ
mtD6Oiv}5eXM7E;t6#U$o^3#v={!puxKG*9RQR)vXgJQZz(f0#31jsrV~{<<0G0R45poA~i$PoIl0Jn
GA3j{d>+AQ|zd`Dn%nrwwnR}-ULM0h0aR|muCjra<?L-dxj_yek>`&Jei(egG)HkWqk%j@QgbadB;-V
Jaz6D|{O>qv&@$YKKG)u8gF5S=&`Pre$oPy^Wy3)`XngBe)U9Bcs=bvM0!)dDor{$ZFzJ;q^);1a2il
)SUS75R3EDaKPWKM#W57(kfQN}C_S8)eEW^l%+dn9Cxf`i~PgD>9jOBfjGwBTx(d{QEhM)KmXBY`L4*
w^VCsq5egOaHTl9tVDOi+qP_N1V3^C3^t3*=@_7&QL8UN>$pTw5=;RwNu|;!1rT>oIqSp`{U5_&N6M6
Y)ejG?+bgN_W@|0;z+%9wSS0&N&#&d0$#Xs{e5Ej$)cS;lV-!*ggc7`aWzp#CZ+p0RALIvH{vs&fFC_
ML1avPGnTp<@sDBOlR6eLqHQ}RRGl(6vo2#d%Z{t8#Ps-jL>@tP7Nfc!FU$+4FN6@DSBRQ9L2+MW1-9
=N@WbG^8BT!W7Oyr2BI9Ob2So}dHalWcI>WIu-}WUEUnf4knDiSBiiw)I%|I%=^EumQe%_`N_9`PMEx
{Yq-b8UciI7Ip^kH==9s?a0`6KXY1dh*~p5w@Agf<eU0X7MoHcpShsu$Jpj)+F!xiE{5`0+73f}rY<2
0(fWhRe-7mF|WysuA_z(Ug~oqx4Xm6BGxdOT(RKW8O3PuGF4d|A29vHc#er3^>f^Q`yt+j`1;FuT<*W
$%#67y4DrttrY1m*%Z};-J!Gm)tjs3pKq_p{E#q1|6YW2h9_=l_0#wC42HflkKt&Ydkhy|53mFfS0_%
LMZ!O}+;}Q8rWpQZVE?~iZC#s;!LjNvkpiv16G?E6Mc?!*KBwuOux!Gv<LTHL>AsQuM~mK>i9ejW`|6
l69IsVBG4vM4tmA_mn4KzdD&4Vr4qLpsYmw2fSxicBDynNj*tKIALCpjv#CxjK*IFwbg}>+ZZ#OhbTK
7|(?=9BfXdIir`-C6!YUcGpii3XuP)h>@6aWAK2mtey7Dvs)G_L{%003qi001cf003}la4%nWWo~3|a
xZ9fZEQ7cX<{#Qa%E+AVQgz<a&s?VVqtS-E^vA6SW9mkHxRz>uOK#;RjUf^Rj7Nh6(DFM2aVD+FoFfW
"%text.

(** Lines 8115 to 8264. *)
Definition DATA_53 : text := "OWBN9T!BkDaRUGM&hWM5zT_x5<WOF;BxgQ;GaQbF+{$`K@_c(x2g&lB@ZG+aiqPw(t`3Ujravbozvm6
F#he@jFY1!z6<18ss!6s8vFH0me$PZ%%SFRKIUL14sa!qm*_<>=a&e<OO_Jm}ttwdWj9jG`m*;O@uGX
7$PVjs4?$ruEH>-d3(CV+1n?1jL=|17-#pWG;y;=XczI?k*=Lu<Bx{-{%rPUpiD6_7`->f*uhTpSb=6
zz=f7(@x5`Hb~HQ1LVjuvplfrabm>&uH(Vu|)9anML0e>aWaX4G2aCT!QtS@YbS?OHu;uUFGOGh^+Cs
r2_}w)5<d)S9+f6t!p+6{>OO-PgQaRcyy#4EAMD3wC}>B`sh>o21i6*mUus<|6CN%#tK2*_Nm}$8F94
>$;-iF6Y}^)PkLD<blnWdRNjkeJkmH&m^I;K8TV)kSu(300se?_e?uq=sw%+)q{;1P}eYgOTdao%Pjq
N!)UbdG7JPF8HBbV76BWpnqe7)O^gI!LcD9o6%0-DTxYGSRcn$ys-5y$nRgd&w7c?JYO<NJaMVvBi{J
#!NG+WwoOc`@E#@YTTn8gQjmWI1Xw#7PXk_*E2UaLc3wh@`7hL6e*05>|{s7Uy6*#!SF^CuZNkTn{7O
NLJkMf2AMfGC0H^Iotm6Ww?RT*~edb{SP@A)q&8jvnY`kF~jEB={j2t4v7RTO4G?=e8cpxV$I3o7W2>
8LiJb3&Dpu-Uh?IltvqDVaEX4mmEg6#Rr?>QzS^9Y9CE2G3zQ_~}^}xPvjS-qVDPnq{Z*nh`3>=uo)R
HOc1*TKBX%bk&Abwm>xN><HMa)d?47Zx#?tyC$2>5)bjfSycw1u(ErML4X)A=2Da~!0hO}%OUk^cQnj
C_2q4ZX<m<EHVVQg&NGIpJ}V}+(|;frL+a4+k9wrAis`J4T5zOP$D;QC5dCpOw4bi*j;6h+YGc;_b(m
F#1-~L*eZZEyP+6AsRQ$<^&}IWjadXnviw0!Sf2Vpf%;2INJqbVJ5wPmxp|H{hO$EYJlGo|c@Z~Y^t|
{cSZ*jWs(7<jK7`9uhwkBg2%K}Tv%(}@PFUtz61{_{g2)FN7nohc6TV-XhmK75QjQm3I+d$3Uhp8A9h
H`Ll6yvpm(gAfJyH=P*M(E2U^d-N!_51_M%ZRfXoMt^p*eFJSMS8_k9iWwi=qTzP{!e}P0O_5HbF)xD
rOk#~Hy~Bkg(<LoMwpZR;kx3*i}DPQJWzOOAd&cPQA-K6ZFoP442bJ<o0-P{)4B?7ai`?_#}pk+r|A0
=p1LsBKQVm_r2$7T5N$2!i#t+*c+0ylZhaj{+mSe@E3O`b9h?lSV<pE_s>OA}x-kBa4JaMNov1$w#|i
G-o8h}(P|LkBI$By2f+fk%t+Kyn4ZlWY?PqZ9x?u`${1;47UNr%que(YC%ySOuN!O*{g0cpez2*=f;^
tdmUQwuVwPh!xj9o0ju?`zjt-qN1`H$cN7D+*EAZpclRWQqFuREB|UIY+vwPPN<T4non_3L{-di7h7^
RWeY2GG#|@<}8B$y`5`oShN-_O$FBx8Q!^(&A5c!C8!^UpO2dzE1VQutZb!9q{2c&h`2AfPIaYg4UZ@
(LQ_iAqMX@{Q96+d@XOi+Jk^)P!(B+FI~fQ`$qaFf+;FTD&k%Xn2-3a>$@W;K1RAS{l~2sUEAm{loK{
i1&n=}oD4u$EVRKtg=ii$Cjsrh#MAKHdu$&ub|TgQU6>&U20Ywf!zhud7XWNqpNNCR5@hGmyfREJg40
i!T{eNlXsW{&XU<mZ2_(KEsk(Mza&_&LBpdkTXeM&)J7lC_S)G~CFHg!&u0^My95}ecF2d(>|1Jyr5%
_d`y*LQ`llV}(mW<vF&Wg552=_Or9gglVIx9dq8cu!gf%*w1j3?6mO3uKbs)_9T4^T@31QY-O00;o{l
@>>xuL<M%0RRAv1poji0001RX>c!Jc4cm4Z*nhabZu-kY-wUIbaG{7cVTR6WpZ;bWN&RQaCwzf+iu%1
41M=k=+OoQf53n|1dcldTkRrs+6}`XC^p>+l`oLwph2;JpQI>q9JlGF2Vcm;!y}SXExHB~QV(hnKnP+
@-wB22PIi1yK#u<yRcy~B>spM4mX%!vgfj(#av21*;dpI$T<NzX$TY-x;**W+sMN-w<Wx#j2!Kb*UqF
P`5ocYyfpQR%?O}9AUjn381vPpCWoTERDC07ez-x?JZE+a0SZyt_c@&2p&|+b=#H&2n-lkbWil28W$?
{b?2AL&5SD-y=G++b6j*B+nKKo(ES-Gy<uRKTv&AJLa74Vq?)}qi#DAFH=&5VzdlGU<UlKV6%)_G<f(
G^W58jsWuln-z<?`h}h_tb8DzGteGkZ6J4{!GkuC#=gT=S-^5@)`@<>6wu63mjw^U5GsqYCenC-CCYP
jE>MaqgjZSZ5+19vZp0%H|sgESNkiRq4AM`cO~VSwnx9U1Z&#c8eQ@LmvA+M9z?*Ss%w0%LvDgyrO(D
@)aZL-B;t?LJLEH!$ur}Xshp|xKXp3EZ$IetWRe{0zlO;Vu|G#=gY0cLo8?#Ue1Dijf5L1Cp6u+hF%#
L_>|2&UW_YSBIKLiln2^fW?fu)q@mYe}V<!|DysCSqPkH<FIY&E!CnR@NKx;3n&pCRJ4gLa9O9KQH00
0080P~d=M+5NmDCPtJ0PYb004V?f0B~t=FJE?LZe(wAFKBdaY&C3YVlQ-ZWo36^Y-?q5b1!9da%E*Ma
CzNWQE%He5PsLMVAU6?Q-!A8Q&tb?5~nDzBt_<78;s0gq_a(g76p=WV+{T8yCWr8wxz@=FkqWrER%QN
efRN>q&?Sa#b&d4Wh)J{8565gY0LPXQL?fy^WPJei?uL96$z^fk*OSJQdrPjnjo-xa~d#w<^+~0DIv3
HYZ|m`or8w_Tx2$YhYU)~KDn8()=GQd7NiAI-YZA1J|MCi0;8v6%SMb)f}n=c5CkqnDav%Vh9XxwHR7
QOW8uNh?51qY(q>|I#|_kDX=R0MQ(URMl5oK@tMsP+KxO!1reOgOB~s9kW@=Rm2~qf0H2w4I?W_1}l)
j3?I0%9q=4=6WJkbC@RYD^9Xe?m`g{2`((SPBjZ0ytQ%p?Aw^}g+yTDezDaMvxZXQGgsJd9JMA2{bsa
$^{o{Kn-yGIK(tSE{&ytkOoTVLKUb*B}hTk2qH_y98EpZADf|u6KxQC^eXdYl5c2soF^(X#uTbe62*z
DkF*o`nu@krU5G$OD-(1I8Dg7VYWgL!@dZ+bOh#Dnd%GrwQ!j#ECx9Z+L4o#P0$o!HBK<_EVlD+{k$l
0cwlPoaBCx^Ad&7Gh^4TG65jEBm$DDcSf1UJCoeKESSF3T*&2RNhI7dmETmEl6a3^thS(AeHTMAuENO
0$iYL)9rt}#q$Xhg$4N=_84-8NZ(9Xq;A|zoqx$Gs*qLaA0n(cdCu2+b84g_E#19G0YD4hzR2N~ktQD
EknazqA+Uz_-pv6t)<c8^#rExQ9pK`UjO3faMN9WQY+x`$0tt7{T3)W`)sFvrktS`;kW)pCzx^Y}9Ij
h;@%zfTfMlUu7J7n;!G9##hW@!WEZh<32ANug}C<i=rpQIOdpjC+{XDD;sc9a1QYdjN6THrbwEpZ$6{
zM9N#uCFJQb~|u!^Wh`C^l4D%UpIK;lI#To*$p=uvGDy1w4MC%dHiE|1SlCMH2^M3(koq)IAt7#WpyV
-_6fJ8q%&$Z#=?q5pJLd*{|$2WRL`z2UHV(9`%(JV9rsG0Qv~s&hC)mn+H)n@n>>JciMtGKgNDGW739
?N*dM&0V^I`bZ`!?S-*?4rw!~`L9zLlXdL$fb<xB=@n6JQ;JR{n!)tqg*(5fm;^sH`ZkPw76vR)(Gwz
E5c4%EedF=)^^-+MUBabKfo30ren(T2^WFxG285aKSy3(N}n59|cPG9v6@KzbgRu_Zr^Is)Pbn{)+@-
p27QhIO=iafapXL?Cq&r@$j<yL~zSd0ZF!&Uz0wrwf%Z35An2rn97Nlukd^XT^ok#-1(lYV%D;MNgTz
`akwK=$Gwjkc4?Hr?>v?VB0<ZfT{I9sQi9v2wk&tf<Ag)4W!{2^(2khv~0E8KnK(?DKAUBBDcmz@R+_
qvEFou^fvo&A$Ns3xN=}hzX&`Gip9UEj(Qo_Ogz%4UX9*`{;w>?(;nTbrF$hWaxcJ(QQa8dR><VpU&v
_5-a7?r^Xco8+nBv(Cyz$z7*7e}J9cvG!qVG6Q@WoWCf%9;Kb4EO*e3EZ3;TQ}2a-Ip9KAiN(ezKL%A
V`OGZLwP)jc~8@0a*%NVif`_hYgiiuY3tIuKH2T+)pzX#Od<bbmY0m8|FghiLErggE#cP)h>@6aWAK2
mtey7Dp`@u-Cx?008C)001xm003}la4%nWWo~3|axZ9fZEQ7cX<{#Qa%E+AVQgz<a&s?dWo~n5X>)XP
WnpbDaCwzgO>f&U487-9aNS|fU<BK>Kn_`w!+<62Rs-u$6ozWksbE<$EZJQ#?7vU+N37KLn(AUpA|Kz
QNGT~)24R?#rYtZFfoHiY46p~SL}@T==03!{;+iYzLn(QrVhja0STLbyvxG1XDD@*>M5@3J<oljwIJt
WhtbPPOZ1)=<Zg=0p{c5+pxn8ZeK5VYm!LMuk6KrpT{{w{kn;N73HY@ARDp)m(?eFzhAJ$j9-F6?eY!
@9!_`o!FixysL!=%yOcBOc{6_}x2^FdlYI%g4D(X&V}tsy87e=?C`;nh%!eqnw&13O|&Y=S9SVd!ZTN
xM$tJ$xyX1Pd^a2v|`R&<dUqA|@fH09@9ai4sCRad`kG@#voySaDTqSi;_2PgK#skvqj)7)z^<OM@r9
JJ%qUsWDECIxwSBlsy>DwAZ=&O|1FQmBuqi5jOxQ`wsWoedc6kqvQuefe&aJ`CKy5*u6X2ou%Lm_T)4
|-X(rK$<~>GTG_TN@V6^I<ubMn!wmBwSG_)mHkrV3*%a()WWx?VFk=e-K&}LHvQIT=*R9z?sE7%g4-D
!eZLN;;6DwQk6&42Lu#ffU?;vxj4;3Y@H5w+#im~@X-8B(<*1T@|iBcE@z4OwZpATs-X?|}BRRa_hdZ
a=pu<2YaXbbhS_?<j0ozA|ycr=-~xCdsBs7|((?_LAvGzez7c@EgYbHvfFKcwl8s+ky6;#6&5BhvTo(
>=Uf(pC2sl+O8c?QCo0jh#Dw2#s|u-&R9m&XYgy&jp3k8CKHeSlv@UoKg6-*?8r*M_=di)uVMpp^Qf)
P4RD^n^QywEm9eU^oZyb2EBf-US{?n8;~<Dut9|Op`BzItH?a(=zW}|X?b{4ulL}Ao+#4kXZwXHdJtU
_FU!zjUdmLeC+QK%`RpH1O9KQH000080P~d=M>8JS9VrF?0B9Eg04)Fj0B~t=FJE?LZe(wAFKBdaY&C
3YVlQ-ZWo36^Y-?q5b1!UoZER(9a%E*MaCzle-EZ4A5P$byLAdBDVTw@iY3P={<O3+MrbXwWDFQ>FCE
DgneSoCW1jGLK-I4krCEDqhr(u3bWZm8Gj`vOPWL=Uh+qJrtEXxQln_6l@x2hJcW|{q-kb>WH#p@~|Z
N>AtV42{WNh;K0hY$^K((Im9MJ-dsA9@_k9(1N38@8});-M5hjcLi4eVwNGyluHCm{h5u3=njmNw#MX
O^1>8lx#~?51bBf`GJDgQY;pWg6#;a6rN0J8L9Zqg20FGh$38(o4R854Spm87gXk@dB+6s!I>+iX_d1
`CF5!0nV9Ni)ErTz1w)TT%U18seq1JG3D)pjFJrJV7gQ<ov95JgZ~tJq?y%AJEaMf|Sr#cKb_qDl(Tl
HACRoWTZQOMZbf20Zz@L&;K)TxuBsdk*X;J6A+SMtqAc_?gm+Q+BdxntGrh(W-mvxTExAu7KCqGUM9M
uxeoK>`B@w1_tb}M+E@#6VV>QQM{W~~%)9FL&{TaAa)JtQXvYot{WTcF|F#qjbgc#atoN;Hz)^SV`0j
Cof9mY;hL%v>aZc^oAeHWZ0ZDXSo{L6M(6nC-wb6vRlNT=WDdR{@8k>-u#4!X5*4;@WoyESnLcHw1a+
l2dhpRh_Ci?`kNlK4YJ%Et`zsj)Y)JCS*vdgmftZ*)=J@L8uGAdG=Wl3>^*se8PYa)Zy7@8T10n@cgV
Go%XPQrZGyZ&EU>!N%z=sOuxcE$35DMPo3s=r5^5+#7vd0WK4Fow2y>W1KK8d{C|65%R4z+Z_HCEv+M
XXbXh`x{ZxK<+&&vf0t5VYd-Q=Ss<m|qawOyx9`;onsQ1nb?x^de3~4NVe?FZ|q9Z1NkHaQd=Lbyy($
gj!?I~!&;BzxBW?}5O977G?lUblR)Lpe#eFn{Qe{@IjfLxsbjLm{QSUA^X$n`UU&J^{WF*zeE|Ga&*b
sTpn^gUT^PPphu3;gzu3r?9d+brAGwK&>AkvRC%_hduCG2hyy)eyXZWlqRqSEyex|FPhynP8$a3Ux)l
hSlj46<?s<%{rOF0Y0+4m5Sf9k$Aid;O^xpbIJxOu<LaT!*WtJ-Ogqjsljl<?=PMfM{uRX5MEFAp-vq
s4IRX9Ogk=MI|LQ|PMyAm6-hCDZ3vN{7dH^HONNE4`fA0!!}E=EEIVv<+X&zx<ONw{7xE@3ek>d0Znv
&@M2H}Rl^>}vBcdfXGTg7xh-C~91EwO7wPt}QFjkNb4ZLovg1l5q@)99J6=xl|zPeo}Zg1-w&R|^ZEK
k$;Ste&#PIPpMclrL}_jgw}>*PtOZl?*O4PfifAFgZ&QoGTZM`x`u-vfI^Sm|Us#)N|Ja0l(v-Liq}_
tR7l_|oXciRWuIuK|IapWEwUdQq3C^#tI>`*+4|ZhS0`8GTPFxT>IsKAyk_?6>RBN8s;PZ_ZX5%wD|G
HRQXWT!qs%4mp0{=IRNF+m@^#x+Yr&u7sp4ctzzS>8^C1TuF6)fczh?!l`)`&1|Ck*kAPF%!buB1V5M
*s-Za+Av(nJrF&VojeF||AH_qM?hgIO;)aa$s~FM;XYikYd9QK*vzdEOMa!_lu?bobl;PVH#~&CQhmD
&kH#@<U&tiLw=GC0@XcWT0$2~us`7UyN9<88Zx!-??;|-`Y*32-%5pj?)Al)7mM)AAP)vs5!ik!4?W<
ZKRvfP&92B;ARFnrH8x)U>MP46eakk{C6r}fxPjB75HzQ9#0JTSWUj$P)+;P6}gf!^c&c(^Pq7gMOwG
S@0V!Qq9i%olfJIWUKNc;EeS0G(QPJAP!pd+pzSZ$S1pyA=NS=O@@|be?xUndj;Ya(jFGhJ0ltrxk{{
RnQ5^(rlhKMs~y)PoY*!=_Sc)@PKS{m^@6*3*!Ye)SMz#FIn>aK@)}*09y>U+-nMPG49k}%!AFhJI#<
e;i{X&bxJ;7uG60#JqbJx`g$hms0;mmGtEj9&M}Meu7&tP`7Rqjm@Oa6;{TA0jz1?8+s0u>h1k;k3ue
!<s%1&Vk~Ff;nF1&5XPzH^#j|&%c=0z-O9KQH000080P~d=M|C+zP`m;F0R9L704o3h0B~t=FJE?LZe
(wAFKBdaY&C3YVlQ-ZWo36^Y-?q5b1!gpY;0t2Z7y(mwN>A1+b|G*_g^9MWP>s6wa|wwHEW<vN1AO9T
`_8W?nGoMNOIaR_P<Xj+p(Oe%Q~1I5_G5g?z^9^l&ncnRE=pA6a``RRw_g2la{<OP_*}ylx)W|lOiRJ
U~5@I!I=R?xsIX=F<xt)m9oyZ4d?d12fANPm#ZSb$#3(;Dkb^iYPfulh&{8r+x9yDw76SNKi=fUx9j;
TzyCa)<tdq6PnXl#Dqr4rj<O!Qc%mA5VYZe+8!C+M)jP?`oI?#(7DdsTQ?1EL0equ;11fgr*&s+R9Gw
y>n-7ewC}It~>g0IXvye7RjWCRpOR|sx4!W&^9g~edmRC{{*jW;U34(Z;u`UNphg%KiOcNoE!yr_YU6
PJZJfdQ4+<WV)$9eehh+_X)a&ZFXISv?{zCV`)KWHO2AcmmvrsLjQ+U6uc3D2GZFI#{xg{oCPOw4`@l
SguSNhW!{HTxBPo`f+2)V<J0CSEBW%c1@i`G>rZ`TRv{5HpaOP*#8kIQ9KAhESAgAYUnOAXiGNcrxeQ
vZ<jYS9iBvlWN<Yw7ziDW6|CCkQZit$j127J4vF$xO4$vFkM|!BH-1pF4oBk?cN9_6}4Ey(Xtq`7qmu
GM9A=GVecmo^p>uNSH0lNaz1)VjZs+JpTABDgDR{GXWGOL1tsjsZbF@HV6WpOP#9;`d3^>m?M)U|5Th
~)n&=0o91%^OCgXBVIfj_n-fl%ZEZp(da9Oc@{ats;@3iHho0a(BJAHF#0tc<$W#Gbnp9|Z=*h4s5_}
|Ty6Wg@Db8!II@YX=NgxF7qGUJ4_QMS~(W^bXqhV=&GzqM;$W(@soslAXul!1WWilqArj}bkzwXD%)e
2B;`k|3HT8K3)>Cuf(Ut@*LDKd(fO$#Jp0I2y4L@<qhRG>Lu#P)h>@6aWAK2mtey7DuU7-Kd5D007hg
001Qb003}la4%nWWo~3|axZ9fZEQ7cX<{#Qa%p8RUtei%X>?y-E^v8WjWG_wFbqZaoWcjFH~<m@5)5n
%>``bO$x_-xwu8v+OOnEXCqI2Z|G;ShYeUh(Xf4o^6Dzo<q*xT~;0ZjvNGPonl$GY>(MD2a7sZ&+ejI
ZB$`2+4CvdNAGp6(DhsyP6;4{PXPFw!xUe5g(-!o=~TMw_yiHDk<h`}g0aBtY94Nyx11QY-O00;o{l@
>?zVuh1^0RRA>0{{Rb0001RX>c!Jc4cm4Z*nhabZu-kY-wUIbaH8BFJEF|b7d}Yd4-ZOPs1<}g?ImoQ
&|!bDwTnuQU?ZD5Qw2$RatI&X)GK&@;T7{d+a!&Nt+69w!e4x-r0pU6>wfOuCd5D$f`Ehf!L8zjYA&y
8SLe^Bx!U8jh4CDBUjR)6^a-uLXF%gg}L(x^+n!AT}ypnjO9uY!P-hpy2EtIz^~bC_Pir!MeblH2qBV
%vEV#S{+_kq9t-%w6D5SI$e^}Z$m8n6XzVJ56#!TPH8t8Kowt0-{;p-w=|B<$=~)?;MLz=#gf0onf$$
DKPp&i?9_LR>&?YcGaOJC&sKZ!@O;p(&+aSK3j@G<^<D8tZj((&oljtVhrss^MARbsA03Lx+=0V(0+_
Ry4AiBKcP_iA{MAI=gaK5$;vdcKH{-N>gQW<?fa{u@n%sV=qoOeXnD3uHfD}0k=k%2<pyM}vMTqlf|o
8^PtPPe*h*Rq3@Li)e=hNl;6jqRJ=%FF%FuWp4_UF21KlZ#39l`l*sohoZZn{Ma-#V=4x0|XQR000O8
^OY7yBvqZMrU3u|ngjp<BLDyZaA|NaUv_0~WN&gWXmo9CHEd~OFLZKgWiMo5baH8BE^v9BQp=9pFbur
=D~OzA!0-nwu!r<<=w(lPD+)oe=|rt886us{{{4zp5<BrCMavT<&Wtz|yBK=Vx*K_ns5RJr2$8|;D7c
YP=W_+EJzBECS1@|pgch~4jL|qMicU0I!_ne}|0=m5__mcSBL+Lv`iQ;_u_k-EKp9W0`F+5%P_1`{Rz
lk^UnixaXq+LM?$!CSd@3MCi(PVJy=AQxq3bGX%ABhb&A~*1XCP!%UT?b);Saup^%K5MIjIFp!gk;TL
mGi6HoifXP}SV~9b6(Bn{2$M;`bOsRGY1H@(w{i62lIG(!~6pHsuXh+L1=3p9EhEPcCZHwo0<HxB|p;
t;Iv~m?y6`oBDUKeu7fDGF`#ZxDl`3)1US$^Rw>HMERA(CsMJPdJ{aGG@I+>6L6stF|C)sOnKH@N;vd
q_L`V#YG##7nrz`GylMC^fq(Ra!yY|jo4?_Pyhj$tkGsCJKl7(W$;2UIXHU;B!Q&%=yjvN(Xyjl>OGU
p~KImM&5q_xoDSP#X3x1Ep|Ezw;`-`r8NB_U#nS6QS15ir?1QY-O00;o{l@>=!Pj1c~0ssK-1^@sb00
01RX>c!Jc4cm4Z*nhabZu-kY-wUIbaH8BFK~G-aCyB|%Wm5+5WMRv7Cup^Ahg#2I;2H=?8&zvAZTe7F
G`aFNhQwTcd3U($xiw}QJyT$?r>%~gj;7%AZ6Q!-l3F0r_Q<n>fo*J1IqEcfQFvQlQjkOhHBfO)D+Mu
?Xxygbkvpd8BJqd>FGT41Uv^BUOUXjvIBXn!;Fq!Qezt?yp#v!amM$K5R`}e&tKxtEX!)GydU<(w3**
!z^lQQZIGcLrSPa*maKxB(731tW7(P3f}I#2l&Mjii$!A&t#!cK&Cpx^z*jHwgd#4dSTyXp{Ht@;iQT
={5G&!-d$xq&gCq0gcX@VcjDkuTNue6JH^|UmfoId$i1hGHVXf*T@&R1D+ug!COD04v@v#7nW+2NaDd
Ui8Yl7kdTn5EQB_<tm6inQVgIJWO6ihsIUpK}>m#)>xF)?rUMewc0Ckzaq-dDWzJ}~~c^beyP8#{+Bo
vZKG;5r&30OTQJz&V(9syONR9mBKS)+Q9Qf*_WX<o+)QlpH%3{0oJnSl{R-X4)2Tq?n2A-LA?8I<AV9
$!khf%$|#ha!C|wk9U8`mUx@9%ii<U@I+Q6ff%N8b8-<`C|{1GF&Xv)J*I=3B&>;IU8$NztlIKb4Z(*
BK5d_6@}@@S_uthZqyS1raAhK<?x_5rLPpJUWL~B4b^y~H-yGH6_4pr>^=}gOM@eEY^t*xi#{WEcbpy
YOO!gB{O9KQH000080P~d=NA-WC^;il30Lmi(03ZMW0B~t=FJE?LZe(wAFKlmPYi4O|WiMY}X>MtBUt
cb8dCgkukJ~m9|E|A+aIj}P=T*|82OJjNpy{On7HET9nxG%jK%gah%~%p0l3K6-`_2p>qWoItvIkTMc
30AHUYy5|ql`wQtXAb}A#0JZx9pO=t+`z&-CWAH5^DiJTFZEKCymluhI9-Um^{ngi7%bh!mzhnyHqXv
KK~c%+FBUHwyI-%y{@<L@Q1vTi$(S;tdi|5lZI8Q6$}<|wif!*F16qln{xxNWNR$msfB;L)~ZB~^csY
IF#J|rW!Z}tFGvw~&5-kJP;4?bsu8H-cuMcB-d<&So-@3VIOip)JeksCabJqHWiM+~V2f--)h}3U38w
cvXKV}#)<ng)Ta%AdMx+P_+S6Q0-v0UL*s{6s+ya-{h`oik$`aK$3xAPm?k(9QP2t#pRqu5tqHA(3YQ
YU!dzQP7@O;fdFCy4TyQKF~%ZJoB$?`0vp0FE>F{4&|%dB$rb|Xu{7FspTE(J5Z5zK`V=ygQZ0|DR#y
kDyBcF9`BO4YSiXq2~t4V^KgD3oExV80-?QFznUR<0ortZak{Y))JH3k8T&t%1-*Wq#3GX-GE+Yr)Ez
Lxe-tF$LymA5KV3w0NO^j;!HzO>!~04y?p$5aGb#W$Og_)B`3V&3s(5rK&4K&ZUq`ne|Z)obZM%+#M=
|yXUO{Mn<)9=?C)O2^*YyAGX3VBIy`0Y{L!goejA(Sn@{M-^lEg*e{=Vme$R;WM|oFjkV7C<e7I!Hi8
P7QKS{cqO+YAMZsjVRvOCU+^D*<qHy<F=AWCbiGQLj8}3wm?xcXR@c{%=_`B0}E$88G!*vUUap|IKOR
H3Evg`@_L+O<Z_P4*h{Ws%n1va&pbaN-PK__A{jq+Hdst$^MCKqJ=k{fQVo<xEf8+lh0?%8O1MLvxb`
S3kt@7}BT^x&wB+`R`;x55@Jr0>2EN0JAEft3E;8+esvMF9Z>`*O`bjw!;h%*K=nH}Ap4s<U`INQm()
jhS&D-$<E+E#5*vg++AZqHC9fY*(S6A>D7QO6v5%@BjT(TG2n*lm9cM2NJqa9e>I)mn)>lBvupeG>lR
F{qyN!lDpCqJ0sq>;;6ZVmBc(g^*t@hO6k`iVj!6wcpanPC-n2Qj)Lj|*V15YQl3Gmh-PgKR(oHrV<C
FTgeZH@41D-iCirNXM3%iF?@(67HcQdEepEs<p^vB%8p=nB@TN0>U@B;5Esz76k&2KF=K497colYSi5
i`4&mi0nS@e5fwukkPdB}sigPTA=@d4Eb(!O2!J|7Qh?ivu5_Q56`Ye(m}-3j}4#go!;b}E?Tx!}><*
}0I2|F&$1HE)uzJe&=@4Ju>cG`te1xd%@0vJ1WYoH&YdchyhS_!=Wzt^QUcT(Dta;VA|&dqf@&n&UKh
"%text.
