(* ===== verification/PipData7.v ===== *)
(** * The literal of the pip installer, seventh part

    Lines 8265 to 9614 of tools/eposiotgw/get-pip.py: the characters of its literal
    [DATA] as the source has them, line breaks included. *)

From S2P Require Import Literal.

(** Lines 8265 to 8414. *)
Definition DATA_54 : text := "40A%0hz9Hg(>fgE%vzLkAxmGVkN`kyU<tJeaE)xGEsBW|^<oB6>~iL-fT*q!%Fn1`K_$9=12%i7rJ4o
16EKhZ48Z((bctkw&eMakP}3Y01t$1w_yV~Xv`g23xQH$XsD{5M_+!fc$woxA!*QvM^;pB<HbfZV;bg
iaURI7j(7@lxYq^L<^sd6o9)e09MJ4O;!c&RE=JU^@w0JP?kJ&#E&J$eM5(-<TJjl8eOyY5UhY><A0|
5n45ekZiBTfZca63fGv=a0KYaCVsa7NEYGsJJpiJcBLBqs!SjV>?lN9=-49Gicz=l2VL^{d?Z_BfAzH
vlgAhhhKxlgV&{r&(O`1QJw!=>(&Nn76QR^%gKX#O(m!`_49_13=RmoA7{;!&6{uIrtkFQIK6;x*oED
G=>1(04}LM^HQ|o(2;OJwG6UY)Uvc}f<=O25gZ$i9y8yopvvQeOL`Amx^E1=nUNx{i6OTK7^T+0PAfP
CY_znYfrkU0xR++QkmR%|B4I(oLe-u@y{HAPnk#?4j>->I9yp{0aPH1nP<@=sLbJoY>DCa`uDM}a471
EJEq0>evy$z^hr|FppS(sF=ECIogF<zX^5=8ex%v?PHWpAq{$~c1pRp!Rr#qF(7jG;+9#F>GAI2fB^q
*1XUmgbJcs*q|i@<^=HjRWXT0shEMjU5wl$93Slej~mskaoAVWzVbiTw#a*yH_zJ)hy~Lk9$Eepub0Z
?{{pA2PAR>UXn9xJPP_$;JJe2AP~nqfb~c0W!o7S1|agjVD|Zh<;4fAFol@1F)FMrV*9oRzPY{!-!H7
2_ac`M;qymL~wD_tZUIgQ39YglHmp$hw0|j_(#)z=fi9ecmBv;zdH;#@wypkoQz*)yV&hfmF_2NC)9o
~V9x-^xq_)lxm4NzgEM8po5CNHPJ7gLx@Cx|+@@oiP=h~w&U!=@=MYIN(($x{4Kxe@xwPMmeK2Ct)u<
~^)FWWxPgxNeKdQDxft1>V(j&_L2l}+Qr%dO!u-B$r<ACh2B2)?c>2K7}?FhadNWV`I@l&`hA5Dj3DB
sJ|Vtv3^uiWUz3v<OTG~$p8{i1JPML~`$3it~<P*KeGy5?C;rSBbCMhY$JVkv5<j+3$mq|_)#?5AAc!
rxDyt~QnNT87zVj(<!>H-18iN7oDEM~&$>o$##*a8<bihoLRV{D6|Lz$K!j6a61f3K(Z$Sq<HzzW(0r
A>w37Qwq-Jl7^$Jt%G*bjv>2RsIN3(-YhYtpgb&b3heL*_z7x*FxGfx99ju<3}bayV(+31rGYCB7B&)
k3E&mRjXTWF2~0P5NT}#zfwX~9X*&md_(~Yc8AvN~Al0LdLPU<5;K*6QKjY94Z3Qv$!&96FfZc5=Cb<
6N^H1mporK8~WQ3ZdCFCc5r)2148Xy-ejMT^kpaAju?&?zzRg0GRPucY~`_2!NEyKO;CE?x2Q8?U;J^
>&4)RP1&#LHwDDK4aNCW^yOI)WbxB}kOl;5GWn7#t2z{SHnPZk98Ly@xQX5M4JAta2`EX}7*By>h3Z&
S1Q;R&0Q(!u`H+(Kic2`*b)PKOqr|5S)1pBr#IMygW^2T9yZnDS7IOB#Tm#Jk<bBSqH_Aj^*tk-_m^f
Z{gg*r2B|>8>IOP_YUZf_;)~)541=<JRtij7rTl5-@?bkj|Y$BWb*}75f6BINR$s1N&P$|{3=I#eCMZ
7`v($G{}q6G&B4)t@?^PWqUCcubmLMt{i+-V`rYq@ck)Yp+ac}<HSLlP_*d?jk1L}I;e9~z6GdM^cs;
#h9`w7uLXaXHqyt3u|4SiS`ja<n{OpeFXS!>jHCyb?<KD*S$#?}F;Rq&qo==BE6C4i?b`q({;t5)tQ2
!J^73Lew*T%iiQYrWxw>H@d>H<TNeqI;Df4DpT_jGT`0lbA*oQ|fKk2chBPniL+pC{~dAc;M?+F|SsO
(UCpmf=Ur@PSepjAAIm;dA8iLXQ}rsB3qsjLCRS&juAf>&IRv>Kd_Y4zPn~!+MrwVH=YFHj!n20Z>Z=
1QY-O00;o{l@>=r5E(Zg0{{S73IG5k0001RX>c!Jc4cm4Z*nheZ)0m_X>4ULY-w(5Y;R+0W@&6?E^v9
3R?BYNFc7@!D;6q(NT{nOIR>zc7HEI~c^n#`M}f9hHW5m6NUDzizDrV)t(TqfVu|JsXJ=<g<w_Qirg>
#5g=q@B*h*!9EwvPt!PLJ8K|ODHfz7kjL6F<<q=||i<m&Yo(>MeBbjP^BYz9x#*w^~;ac^JziWh>Dm6
-+59Y2LamhF9190V)Dw1x*>zB*ijZMTYVU2qtNb_UpLg|yU2V35-~s5CFvz>F;T3bsmaQJFo+90Z|7H
*pfU_{CxY!UD{@+gxf{par^&Ke%oNW@Fi7Hos$n2sZruMj7Tr@~z?uBaI@TIZa7~`I9W0Z0s;<f7{W8
sFyAzsY?D<VOp|+ln!^xFiuuNYK-DG0N+=*HE{p@TPdl!K#FmVM-_^~-2GbBRz%$(T<8!kpubrh9N2l
%Bt!GWHI&kT%>r1NwewPWocjI1u*_0BS3|h}j}qYdS>y#=brWkLzqYgvjCUJrhZj|0H|Pt^?Hz8NJA(
~Vne&HLgqx(Zeoz-z8=W{m4a?(ZtYcE^j=0O$7wP%WNRd1>>oL!Z%MyH<5`agxUn1=A@*hGbtEIqi!u
86J0Y+(gX%d+zYQxNcVocMiTQ!KK8Z_Z^xEb=R<=Y??nXh@tgja1VDr!MHO%=PZb<G?Ik^hUA3Ma7EQ
aT&1Wiq-#A)Qm@;4h>;o1*tjMAXhY-ZFB%+ZS{+@{9p%zmf?X*NqdfgQTy@QGdjfF-O}Ed_GX6ZRq+y
jl%i?c8nW)0NMl5pE}`5sNo2`W;yk-I~6_|?lRsovzbnHx_Zs<33hIUD7?_NFw9Sa_y6blon`2Xtp(y
XI&&a>zrM1k-BohkYxB|k`pvB?y1FoP{q0)hWHZ!_&|WDD1=4Nk40d#h*bXM9E=8_WFH#hb-3RS0-6(
4VTUEzYLQ%t$zwJK>zH@E#(Bu=_`7eQHJ5hfkEJ<Jsy4*v76FYyTp?YhMj^I|bgCafIyt<=#jpC%Na7
ff?6HrmV1lBlX*T_jBr-IHL?C#_};=3fzy*ef%emR|V?~`O&<Nr`g0|XQR000O8^OY7y-nujra037U8
VmpcB>(^baA|NaUv_0~WN&gWY;R+0W@&6?FKugNX>x3DV{2w<Y-KKRd8Jn0Yuhjoe$QWVIE30Pc<pN;
fo-%fShqp@Fc`xqvAk%prBssF=D**aWGiuOr-bPxl5_Xn?@ubUsvygX+SZz98Hj49v<0>@s;n)~{CN(
!_$!Q1ax!Totf+XqSEk*Web{oXrJ76%GLW{o@fWq;eq@Hvfp+&ylsuoqS7qtgY#;V?@DfjGM%8vcf$s
WHYR>Y#*GeXnb;*o@hixvj14i6nE4g*rQ54Y^DDXd6?O}}wR><GLFgnfGR_T3;LQXj61*SzvVY4hYye
#IhV|FtKyCK6oUp(m=qp;q;#aAU;JB_WdUoMwWlHtXPe^*9ToV>Y8E)hQR;hvQk-k{Ys`1EWPA%FwO6
b@MumXtu4PL2S+mu$@ughMUGbIrZ9WEHANtB$aQO~Z+>Qm>FXSqxH{lsroRC?TDPDMg<VUa#ikE1H>f
W@aXW8F-Y9GL~#y0Mc0w<o^+NB2Tb8=}aBP*3UJju_?t!?=+t=IqeSfFO>z7119tEUFpV8e+~#-<{5o
!Al(1)p~9kg6L|^Ox1G2H<h$V3WCW1Fy2>w1P&n7=&A~-%+(Ds=y~fueH}D>Au9JhMmkl)<jb2yT>iu
o6PS{%&&Cp3-CEdVY*L-K;+vA<qO7}sK#?UL|wG<_BlnNCmKW~2Z<S+*)nmX2l#lq8HdUyBZ^W#$=mD
aQ+F*oo$PY0zCx1ACGDvUMp=@=!$@Ixku_OKsD<u%7^K#uuwu4$Sc!^UYlW!$SHs9vA-JYvG|<C`Fkn
vH81qHn9(xr#0v)yPwAfpg@z<3e>m;aHhuRI%UYr)vt2NbHnKl7$U3j#tUC@jB7+nd#hvG4h}z>rT-x
5A4m*T*Xbv`7Wj^^o7Rbp28<pm$|&M{sQJ9TvrFW<v`&ljm^l68g9lzSNIo192M@DdZ9t}m%-V|AM{b
}xa^JC9HN(1l%(rYnPVmm{`k2GJg<3)&U>Ce8c%F|8XSi%Oy<iIpUkh1Exd@@nv!Cu=TLok*}z{$7r~
r=b+zWo<~g>)K_gH{93z&|U@c1_w|!g3GP)Y#;*hgLLQb;glRFsJAWp_AhlJcP0u`TDfM{&!`Z$}%Bb
zJixvfJRDEWEEyVal(Xr57|SE9y1(gv@(rUd66RM7Z+qB&fce^5&U1QY-O00;o{l@>>&%^(s+2mk<07
ytkx0001RX>c!Jc4cm4Z*nheZ)0m_X>4ULaA{<0Z)0m_X>4UKaCxOz?{4F`5&v%VAqWSH*gZ$drq|+{
HbJv#(gw&Si^T0+(H1f-Q8BTS=p(5(F8X2Lp<mkv=xg**_DMQ3B=yIZlU=M3ATq@n&iv*-_t?SD4_Km
7Sw5by%4P@O;mTmJ$Cfh9Rq`Q|xrmnQ!5%DKsO4JA$AxA8`!72_I{NO@$A7`UU$b|jWLL5*#hU$gF3N
9~Yr9b8@8C6~)kvlhug-|cbRi9czf23kjLPhaYjMKXs$vCSgDlJSgcTrB2LE}P9xBaJX{?s>$_i$Ye5
LdUU{#f=(69olLKlXqjDEbQ)7gXP&8`$|<W|DkjZ8#o#DqNwZE)e3DGi)*4jdRaY+227X%-@7^YtstB
A~lf3|2KS?V5?_r545jDM&1fWiCY;u?HcD58}vft}iZcA1<T!4_61rEJMwN<uW(XU@#mG*^LLB&BcO0
NmV&Uq7bD8zE6^~Kb7*Cy}$lFF$6jW50DN9nN|gh<E*lk7IBP(N?XR~M&$rp?0ydheqEXHX4dtq(7II
Nhn0o!Y@@(!gc82vh~Rmy1y9$wAkqnmeg&%F`>nEJ8D77qJrk0&_2A+Zj!=~y4+cLQBsn(*H6u>Is6K
0a60~dpYQq9%+rS0jM2ackjy~+bm$<D|y5PB6D0$J?ncLuDvn98SnM3xR==V*{8T_*Zi<QXBK+wQSE=
xhKC!Xyje1}iO09h}!O29D~uowZKaq!cyZWkQvl>Agl4f0qowAbP6?9AzK+QDYus6wDX`{OU!MxKH%s
mQ=tKu#OSBO~%`!cgrA9FJxd>FE{E(ahGF==4^V!4UXReqbR%7?!GXA6%(gI@j?`m|6-=!7_nRXFOl=
wL!m6M2i!hgjS?T4y0T^M)juP3Q@1jT~Wt1RVp>w7%)*L!mW{CA?gUFk5T-FVh(3)kQfML>j?1o_^$_
V|6cE><*JlFRU-Cu_09%p)F=kLh)WAZ^yohb>+%db7{;1yJ8jg78nj+`*8<|atXaoMi!VsklC}{-nmD
JR?2}?DjAb%w4u@b#Dy<>F@-<tCJoWAvo@r|%eh$QSoM3XJTur;gGh}eH!J|i=0J_`XuSd)a(gZ^6b5
$V;eV}`_LiDv{x+fV7o6V-W60=$0vO$4yTyUE#1bJ*tURK2%iioia!&sIbJfgu1T9cZMea2Y!5Q;}((
QC%+)Vo#fNG&{k;_v~nBU}-fbGLCb!QgWNjIC2=hXp5C)HIg{cJUGm1s1ui=1`-Zs0y$ym4zBsC$+Bj
4UrQTf+oDdX-JCF69{1)4kG~k@0x=s(-_x03;I54!Wj+t3g<I+bkgz4n&mgOSdGN11tNp)(Iv8a-Cdx
~T0-5$;IyhQG&`q0Ct_*Y-NPjz3&{{xwpoHgupUvJMz5fk=<@Q%>xb#~ZhZEdP)*Rv*z{ynrz6I`=WD
Q%$%R-#J)27#_40THMvpo`8L;aYWrNig@|zF2Tf0vf4gCu=UD87QGpmA+4PRun{S1AQ1+d?kA$#+M<U
7pRegqVy&rz_`NR5VXs5|Cvk-3!c<?_8MAsLP=KYArZ4&NSO{2fJaw>j<Bu`!<O3P(fdb!akjMB#AXC
1*cpmoVFvH5X8_`|7~G`_z~2@VOU-dfH5RAe-JG>n6Ugh&~DS7Ku~|2j@cNTTNX{&UUWC?VGiri-AM6
?yrNlAYtt(eTa6Lw+rYl{;p{c{Bz&ULx1d2`<fME$5EPqjj4je2`}~}b8v(YBuk$K-{DuPHlEjK+Y!{
2wvHj!On@O_k6xjIXq*lgP-+1Oyx5?;u2#F(>o#Qme@q*japoR2*OF_ID4jN~gBwpaMjEFwP+@@j_JK
B6h0rqTGQyS`hLR4$noG@?U2n8*2`_#9Mr9}ff|J8=gHA3R^l&F<Pdt|->m&#@n_(WA&02B?IB{|~r8
MJ4q;~D}Kw<yA6lDju3ES6xjPcd-`i`n)iyB5qx1p0g_MrDcNPNXWO|Jg<z>cF|fCDE~65+2Nsu8clC
$0~5RkoS5UR?uBk`@*8n*fXf$Jm_gWD01>OhQ{I%MSVZ!^QRWfhZG&hDt>uVJw|MIm&aja#JY`t71jN
WwPL!Csycamo)FSdepq|vm~0WrH)xpPllBqrok2N$Z~Mxc`iCkKyCU68o=oZLi`&hBN0v9lIJ5IVTcx
B1FLz59-1R)B9}aYSqzdW!Tk@RA=V~%4FSrE01%MMJj}>}-m6Ov$J11zVPICrHM8AM*Q5l|Y49BCk#T
7>j_}fG*=h&3x-{pBva}<lXf}HP`ZLcfvEgDJH*0xpl;p~Y(3txmfNukr7J7TZ9a-TA+*@n=S~ds+WX
J&R+lEgc{|ywMKK`e^bJ!?TH5W`LBqJtHA0zHaa&o$2X<u~ogf#|ioaOw{0Hz}tU+&_I`^)nw`zNCxm
p@+Ig!dor?{07YGH&P!hyx%yQos84+d&J~I7{6u-jfcR11AlWahuwaW@(2wgOs+v+V__F>fEq5_{x;<
73qLoDP8jr&m1qsCYY=ft<a!&q3O@{)9LXqC$;>Cv@1d<twWe1+}~l*T}<mZbHeOOfmHHI(A8{^$UB3
Jrq<j#XoctS4H{sa{;kBm0VFV^j;SK@zE&J=#g#9w{bhJ(fyM1T0pweRt$PU~Kwsdkt`L(VwhVa1)oC
i&va*I%Av-k}Pr}e$p0Uv9($&{WguLnNs7r65u+ll9Wo)G(IHM=hI(ZE6cA#`IXxGVIQ{|3n^7iiXcK
Slb+iuONZ5;d`P)h>@6aWAK2mtey7Dwk&dG-$l005*F001Tc003}la4%nWWo~3|axZLeV{2w<Y-KNVa
cpUHWo&O_Yi4O|WiD`e?N~`~+%^=x>sJsm3`?!5+RZKK*yxs1;-XD}pePD~Bfaquro;(Jc|8BVkBfHA
=J?P<2^i6kZ~gebM=~oZN|I%(TGtY?jIeSeq$YH!1g|w@?sq~8_QVtuRS<Xy%}Qv#g$e>KcW(oNqpny
k3JBmihm9upw1nTJ6mqai7DQ<o1S{h{ZM?o0`Qy)2K|=0@Hb0=SpC5MSM`G7Mp<hvBL_cu}wAeYZAjm
mYihTUzJ=0+3-Z2hQV=#8k!(X8k6*{IGjOceuTq_7iDONqCVPK^+C|xWu!h2DHn<`+1AhC++EQ=KIRY
EpYuM?uzCI~1NpJa_;YZu(YXnLR4Zy2`Ux3{;}A=)1Wd!<APEBv~O&ywy%@s4s#cGhnLMS3ugHigcJ5
lc-Bnem2!_$`cv3nK*-`cgwy;qH%BdP{N8YO&QQ!_@BsQ+6XdG_ABRLMS)J`Cu(unKYVBY(&!XQJL>3
9taDS=3FR<P;0VMSDaOkk+U^iEr2(UW<r?HWZ|RgCGFBsUpR`t86udAs)Af2=L}h#L^B!9I_M&7KXRi
xw3g<zR6_P}XsO$3rSJ?n(mx7wtP3QIrc2y=v)L*fh;}24_O9SxS3plx=4&dWH$TM5A&q_o^>p^C#9^
0_?>!A_zi$93kGWIcYemi2VB_dCkwC-c34Ed~nI4r<(>66cGd);wQ>laphV>_-wycu*Dv7&}L-Q{+li
-QEr?>cNQ(XQF2~!DeNkeE=wDUr`T>S4Y<*LZcoHt?Dd+8xDk6FGY*F(%&li#*s1$zumxxJ;#q;s9#^
me7E^y6aeuF*KKi(aI$@jbb@?jmxGI7F3Jbh|b+Y`XoZA+0Pl)&Nr(x2IARznxU;g*niOTTcmE+7T^W
kH<2Zh`R_nKC(&y78<L((q1~Y1GyBn>`VHz+RLTB?i1xToaW^&A$M_@91|TK9LeOsh~tTgy(FB$_m?#
wn23)8F#EE_VwKp!)<8tXcMj{d;04Izc%x%<NxmWWrgAdk+clue;URc;Dl|Q{WCjZ<whGPpNLQe-HF6
$J1u=IHRb=F2<mk<`7#(2uVgp!;AMrwAm~F^I9<WHYNdg!C#9Px7f>%omz!bDO;P8M1JUGsP?dza3<0
SaZIH{+bF>NHxxFCPk8wBSwTw%Bc0*8ex5H~C>Y@)L|67ZH?4Ljwmga3=T9fKlXEcREi+Xw@YZLab~+
tG}{<OTUacS|sPpw^=1g*#0sSu)eftB3I(962)m35%3$&dF&`Jrk4DwTtUskWygQCLZ&GnNO24By{iX
6ovky(KB`CFB>PZl$i3c6}ZA<^HPQ6@<cUT8s^Dy9@Pe|X-!qT%@$M74ZMTlB@Zf{9>QVpY>dK7Wwwa
ANq;P3I{iRLweT4@Pl$M=JI8*`$pgdoc(5Yuwkr;>i45kwOP)k-;<L<>rgvR9=|15yYTwFDHdTAU7-c
eRJfmgiU%-3qy9an<pZk~j5-Z5qS?&n-h6w+;RPnJ|n05yjN48yy%x7vt={1ex_p_noOHQHl``y7lcl
g3$|36`r@TdS@p0n@v{XEXezyH)fntgYR>*enH>Y%qHd87F6>wktXR0Bg-+^-G5Nypu5rhV*4^SBtwm
_H-mmBWCC|0O66h!fj>&m_!g7yl7fQ&3yrme{%<Epo31+Y8#p*VoV9mhmr8O9KQH000080P~d=M^{rt
Y&-)105u8#04D$d0B~t=FJE?LZe(wAFKlmPYi4O|WiNAiZER_7Yiw_0Yi4O|WiD`eomN|K(=Zf%&#yR
S+LnkCHXbJx1QH0OjUjCk4}c;kJz1@~ac4Vp`S<wPxim?;YFL%(IOp=6?_8Wh$u*>DQJG3%ngU;Mq%y
!VEk$K8_0K`joEyHzb}w}h6r`TCTG6%4SD%>18PM(v;{q2m_%01SHrtz;9=yc8H76@G3t+fD3WaP@d#
yMKa>2BQyLv5nxpJnh<<47t<@Ccaq!VCyj#k=8U{F{&s5CDhKzr@zU7T3Sz^N>-u)*_^n>39yied&EW
|lKBO9Ft4`Ms)aG{)ncf0t$Jjn)b1YJ(~o0gDrFGfI*q?u1*k$+HeSU-7P&jo=3CFJt-YRriAQld9y8
6{aOyBg}1160(;#jc6<o|GNCs2hQ@xiYshj91QWR++a}&QA1UhNYpY_Lm^emXwnNCRqv|WWtGbbjv0j
8ER2&}NR81>r1+HM#=y7R&q_%(GNl;TxKmhBSh#=6bZ*%*2&X!P(+MxVgC<BzRJ-FEN@;+i239V*a|(
~lG|!y{EEg%AH74Bqod|ew)be|{xEj=ZXYzFiE9eBaOR8Y1!lBZMJ*%DFCUi#W$fV#oP*R8#Zjyn{AU
o}{71MUcG)?YASjJOoq<9G1=j!%ul&c=$HQ{jZxGcdZD*?D+b%wCT^S=lSS!Dv>2-oNzCN?ac4gycvI
wc|7$Wc7?)%)}1Ks@_EfC5S2hmtv3?|U^B+TmADUZK!<$knY`qS{hD+6@r0NuYZ*kJLv~PPRtcqSy~$
WNK1UlL))kX(nzIHXGP7ZfHExxby=deAd)-g+6|o2(JHLsO}O>Ln}V0csLX7@&OL6jVL_TL^AV-;A`y
V_>LlUiPHjc6Ez8WdwFpv(-aC^B$uOJ+8f}wgLIWs5xXY(iRTL8K}uKe4{};=O;vZ}UZFsH{kSgQX(5
Y~!1*@Qsb^{2W1imb9&f27#g5i}G@%%nf2NB&5B~F@^&pz>hRo7PcCs4Qc)*#RWL4P@vYoNjanJ`iV!
@NuU7uVZv9lY=|Cn+e|GQ_vN>i2Y6`ju~H(HM*vuY~`Wlv(C$8bdzhEH4@4QFTW))=JZFrWVbP)h>@6
aWAK2mtey7DtF|o!UnN001!r001HY003}la4%nWWo~3|axZXUV{2h&X>MmPUteKjZ*_EEUoLQYeN@|S
(?Ae?_g9QuRRYO4Z7DAxBtlw*MU|jBrK%9JHul(AvEE(w64!svtS^uV3BSa%bLPxBv*Vn>O6lJ4X7Aw
Y;_@19lw_iU-1)k8(OGl`cf3Stu>vnEG~o6KOU+99nKB7{Lu0v;aFt%bivWnHRQ&QCG4#qq%X*N?fwx
E$+(OL-0zQ|h9dHSyYPH}@mIxhp`=QN5k`l$!M4@($5t<QRQ&b=0fQ^Fp&gr*{Mb~vH8-%9HGz&3;?B
Xt4-LCW7S0r|TKS+Vrg27*&8?w3UfoalGvK=WDtOI3$H3li?RM6TP?zn6cu&Q<)Ge|5Ix6bgLcPE3Im
66|L0F8=Ch?hBJc?=(yd6p-{@tAEtZyvVrxV*n#uD9834x4*eZPqv0HruQz`UK1M6MV_mHwhq(iQ3?^
HbFm$<Y9zZg?Z(OCjx3U3bGnYUh|TC$;Pt=p-~4klI(y+({dXw(vrN2SOjmmV{SP4$5a~CMzv5BwRhf
NQH1`=IAA-g1o<q+I3eo?9%vKLhD%2UvJ9kAR1{1Is(cUMBcLZP3dfxwvN#EW^=->cKZoA%`Smca+#E
9R_R554=E0V6F{h`?pTlzA`Jv!P&@r_oB{A*HPu9>x;^;_0$gGq>@Qw?*f3(9;zxLEv!dQbglng2ZJS
?K6O>F3<{4S*xU+7-5#ZiOk$Vn)<e3QN&PG>{m@Z_5e9VTxfR}HxjcF3h%4aI-#2E>0p*1&Z%i_zlA-
@&<!;T-<TiGBl6O9KQH000080P~d=M_AS8w)_DA0Ez<u03iSX0B~t=FJE?LZe(wAFK}UFYhh<;Zf7rF
UukY>bYEXCaCv2tO>dh(5QgvkiV?mf62)oMQ==YS+f`8`ECr`gR8?q!0gnW`bU#e|?>n&AbyP0wJ3IT
#JF~lhwdzlrnuCS=yN{n>qoimn$gHbt8!UnaJW`3$U<FQAsKFi(R=p_sH}6F76SW~F;Xb~Dn=v7rx5C
>8CY+RmPMkn03(g=T$Usdk0=|{lTObLg>iU+1ED;8>hpEgAi5c-aBUE7pXA92nS=HBhAiUv&wf*Piau
|kKOh#j+n`P^h%<?f=Z_{l1fz3|o&$2~hK;s`rn%gW+AbR#vih>=sVgRK<G#Yu&s?qD9$&zd$FsinL(
8!dEjMY>)`)*KYXWZ{~0*^{a2v->-SqNWOS&~J}cuDr(ch7rxSv@_i(tWbcVD|*;UAjs3$u4E}4OZzZ
{7BMG1ju9JGWgc((LbA{afDcn^U4t48K{*vWO^*Arjq-TjS~$*qmHO0w*x)uj?8$GhV4~MX{jSC>=gO
0sW_;$>LAZ+XPw48AL}b^K@>){+-L4}#H}A`#759-l9mt1a)bt+5a+oll(YW`Hv#a+VP_9Y=Xu2I^88
M{#7<D_m-EefVO-Y<ee%MRZO8bGbDDho=-+Fe2e(1MWm+b|7x*>hg_m<-G>Qw+%L(F_7mSx@w_$YV%q
IQz#io~6{qTX`!Cz2I0|XQR000O8^OY7yXGgu8umS)8<pcl#AOHXWaA|NaUv_0~WN&gWaA9L>VP|P>X
D?r4Z*6d4bS`jtbyVMPn=lZ5=dU;=4^1aVx^xdyraok8r=eBJRMJ(|G$98LV$ImpHlb+R|Gu-KQL-O?
0sB6G_ubtGV_2%X)4beSm|eVi3)f0AkwapeqOid@7{e{kP#VmkkvVFxJA_5eGI|V=5Wb=|TuGQk7cg;
v(GVJ)zbA%HHBhk*q_WT$Bnobz-~s`kGpsFe37M*D!I{huT5fkf%|H?n#p6Jsww4i^5x%Bfaf}1j3*K
2<&!^M2Z6oG|MoO1c(SywNHeTMWlAG5g*2C|mKx07TQ^Pftx$S_}q$OipQYcspN&_o3Qp_r+wbk5mS%
zR#VOyq=SaNQx=G(@eH0nhe)q4z}Rxt^qMFMd$f)9%%PD0{%h&P|s_ZxUv+}$l!oA@Sy^&KqNtLu0Zu
UEAD2#eJte2!PwAt1Gh(%^HgoqiI@T?;XH{Ynr|1Qe<lWNOTK!858$mJKTrO0`EVsT`<LSKPQk8j_b2
"%text.

(** Lines 8415 to 8564. *)
Definition DATA_55 : text := "i{KTv%=(kRii(0ls|wPzXl$b~O<jJaEwHUog6d5BeMqJ6xuXrC)?8Y;ATviA1j7x}nIH(hJkH?Cy+`}
rPbrs$`gZXhuC8E4;miMrF9VWW2=)Wt&B<p^jJOM+EAs$oxz@`vwOx(IkysrDC=C8Hx@BY&e-x6c91H
Krv_i`=!Hk)>w-8==+<8wi8jbvOsgYT7q9*|l@BPf+a6dY^F@}x%90vOtca>Y`Y#J;L$#;M5`%aWJIG
!VOej+PYR4(E3rmDJu>yX4xTuCx8?ol|t{+LT+nY7&V5-qconi6G{np=aSuXdnwX<23)CjOM)vz_*2=
!ILZYiTO6P18vxObC)y^rLWJe(L*1t~i3brIBnTJ>{fFAArG8+)XKZp+4jf;mo2l6VqMlPtHP^oQLr9
*Lm<8P)h>@6aWAK2mtey7Duj<Iki;+000pO001Na003}la4%nWWo~3|axZXUV{2h&X>MmPUvqSFbz^j
Oa%FQaaCzNRO>dh(5WVv&M)t*)2u`D(67@iBM@5aWWSmAhp#=um3h$EL#l-)<v)FF@p%kTu9?AulnfL
b1+qXlQ%6hAKQ5v|p{`47UQm`t6$TWFwoS`#>2cDwPm_Z{lRA5R3zh)`D_7xX?pwe6lxbd!GWE%$i(q
Mc?3|ra2nr%Ty1C2(a;2LsXA>eC@wE-?5mFv3VOr!`cH)XfYp2Q=H=RJi?45MyF{WY!f<33<J!KE?v?
PSunt;af{o>ax8+BNCPLol6((fo?UcI}U%LajmJOT!h7nQVd8q$OnuDXdrvQUNOzQq4%KwN>13QMjOG
Zd#_0STe4S;z?spj5;Wzd5;^&DkfmyM-W5<`07VN<PyhIu==)mT)~sST>9ZEm`AW!!gLYNf>p2xX>|{
N_zd5JaOMJ%O|%WZ*2?N9k=$B{ne{6|JQ0w~ogiIf%5$F5T%u@Lfl$Z|Dna8wjcU!cJxERRGGeLtnj2
=iKNmxJPOjt{;y7<iqcD!`{!$rWiIx@38SmCEjlSWQ)`ePeVF(~nOX@gIS~1cdh@1;<wj-JR#MF#$9S
7*iFeiG2wTk1B#ww=*>>q`+DS3E+4vrxu)8)GmTO3)^U448Etjr$fg0${lqVHLy@dSb&hTuydgzOU9*
xNAbIw)$??!|HER~(;+7QG7W#rqIt(d)xXH77F_y&}#L0*iOgD8zzdx52~dI?mw>zPzPn{5wGB{eKap
tACxOb3ginbdLBRa&&Py`h#=<`BReK5_FysO43Da#?CKLO9KQH000080P~d=M~s4+wG|lv0IzKT03!e
Z0B~t=FJE?LZe(wAFK}UFYhh<;Zf7rZaAjj@W@%+|b1ras?LBLA+eVV#^($a%t4u01BKz{?bfz4|arR
V~lT(&At}R*74#5$L2m}}a6vbH1Z@+%b06hbMq7-Lyn+>ayh~S{7r>9@j-P73(US^AR9#3aw@NEC-7s
1zAs**`?S}rdy%bnew-Qe3e(rKY5!7`obJSb;6I9jL({$qX_2H)$vh_f_!7VZaq9MCgA^#=b15Z2i;n
5%V=W@WG}G=PYU;4)5hpl>3*D1$f+qHMlMVwFZZSjFXxrZGT50P%MNA{&<qMk^S<fNz&_T%Z`?Sy?U)
KL32RT7`-b4YPdudBTH=&%Zr>`Re5K)e}ILhW{;1bWsGk{%INKu*~r~Pz%5%Qe(g{QL7-!12xSx{8na
&>ne}SIGqlIBD*YCD%SvI5*KA2kC&xGD2o}aR}KJDsWj*vod(CJz2K{()8o@2z<783_P<~M?QQVx=*^
p>lefpOPJ`EPf|svPzCM0?{Q3mGeG?p={5|-e<CCw4fd(?cH2P+dBmRJ7j3m?(q}Qp|4g!}MBUCJO6k
o;>tSg-^)l>)5>{{n3EGJm#d>$9Lkp-YP0Vqj4k4sh3lg6ULoy$C%2NxHY%W|3Piwm4T%gaEGi!6b4U
hwxJEd4r0u)|=H$7u;Kq!9w$*{R-$?4R^omL-LK5SKc49ss#{=I{cUMwND6q;ERCDAx;J42g>_=DJi-
qKd-2acvmYykYou7<{XzDq2@x7b-7cmK}OEI8Lus5>HN<bUN>Uuac#HmFHPLIM@l`)9dx<zefO>2U|h
|$yN%OJp=L$k@@o?C}!CbL@d{rNYE_!?$vj}7hmj$6(~FLSE|tUtnPyPK(p}ZtC#-^4~8HXKkBF)06G
NZOZ*YGq0CiO!Yi|ELeD4q67~xoUtIJHom?99<r47oM#F}}mJ`F2Ibez`rc-7GmO9|*3N_%9D{XKHgS
YTo1<I^-tQ{cN+KO%sBQ6o6&_QU6#mrPO+io=~z_GzKZk~~c&PCi83;mP90k#6A@=jF7z|k6XKt&Z4z
|~BXNCR%DDv>_rD)UgRfHA57EC)UM(^4h(#yZu%FV;AGE6f*p2Fj^iSGdFUxdv1~pKr7E9*Xex6Z?9g
aAB(%ER1kcNs_JD3X~2b+vT+3D$ofFU4q8y#B|6E*n#k=E`NJ$H}FK1rD$I*s-S!4L%D>}NtSlu{<SX
AfTVzB%)&hdK~D(?8bAXZutiM<W|ZXbp_qdE0MpfY=4h?A#`UebLSm-Xo2ZWvQL=mnI4Qt67<u?FSeY
zM)@ICV7DuxR7;eNJi*q(B#%aCf8jXK(oT9OufK1ei-!TJL#b2OAs4@dAN5O}WJ3_4EG%hQ_MifT9-b
TvIRT<3y3@PA?Tu=24u(8UcSsz~?R0CmOkt1n*{W^Yf6@!=2u#~-H-y9wUk3Z~xeB28`0|OkMV6anjF
5!Sr0inJ#2TdDJ^K7~3_w4d}gAnchqCXgR4>o4MZLF9Yye0ssn+nY_6UL&ch&)$8Rc{I67g&iLC$<U|
Y14Ya;Kt&;9sIEWDF0X!5oZ)X51dzF*P1B7ns9N*3C>`hz&;8|5%kGPn+Cn-uz~##PXU1s&pr+gD=Zv
1JmUqi^~DAJm8v<I8+VgnH+b#tW5BbqK^t5bix;5v;b~2jy_%IA80{W|0fImFJ6_yi<blNC;ig522be
znI&}Qefh#U$zIGqrhhD41(2|a!xjSl(O}@A_L7G*aWaTlO4fGsLww_d@bYcX$1$PGr5BqkgJ}IRnk9
cwXRnl~W3-TvTH`4S`7fq+Stc-&t?V`!)Fie%D9ns^n6ddC~id?-?Tbi?MaXyeD5oJ1$^o3Ec*1zFz?
oN6Xxwa>*zIXC6e+)e8*mK*6k7oA$fxjs8ymHGtx6vU>lO#2D&-Tx|V93R81o5;J#0Kxx0n;!Vzs}KY
vr9Ba3Z(S_E3rh6rvt&tTcj~Hl>2&-yS49#ydp6~zX^`W<Jx;-s~k$^^6VNyciG2Xvu`b>2XKOnpTs|
Fc3WX;RYkX8W{+FRH6X+aINRgsnYz{joI-aYFQa8iC(eKTqxUS_@1X}Me5AwCv!3v=a9*phJOLAQZlT
*si{o~&TwsWU;yRK%zGo_cF=dAa)FdOJHE<jt;0~uaB!d6Y`hqCVqh(wQU`aNOBR&YgbXD91k1vvm9c
>S*3*$m?C^_Ti3}jzvRh!?aq|lNuM^OnrG&t;&jE*9#-QogpfL)qMvJrxfLyCYUJ^I=Y^!d<{+=dPg?
YBXn#ep7HYV21WYu2$&CLk9hLj?PrLQbBvpPkn<x?17Ep(h6P4qR4g2$ppi*-3nxFZD-<=Ae(}U_voS
ikO#hs=CIrPm<6ckghQ-sOys#?lH`zQjF&caCG=0H-5;Aq$i<RU|#c8eUkGeAI-(&qP8Eca^>!WU`bc
axxj|O-rm(}&~y-XgJUo?%e;&0hqPpnpOrR25K!f$YEYB3fD_w*I!B}MJqDr{bX<v9w<JLC90(Di+yG
Eu*=Y+b+B%{t33B@hTu{JUv@4&D7wpH%ZC`Q_AlW#mw2+VY)??mKEfzYRG!1{fvR51rXK`j`b*T>X*D
4YfHRws5wm{;uov%76f{dIy*3%dR=1qDbaoZPEODT#?_Yl{EVRTNi6-OXo*RQpetqBX4hJUSTvxlx)<
H2TLX_7$BSQ3X;^nfZv4k8(|CVj`Dk^;nUlVG`UrIc*JDh7s}0uRr$nh=yqW;+!=&SwcjVHbbbU0Qkq
f5+$+lA0h38}Zrzw*_6QFbhRPVB2yXq78`?U7vGv8B+S8`s;nMSN+|8@!fN)`Vae~(e0zr?eo#?A^iL
Ha4_h6$KZVEEa~ir_r>`h5dEDFeq0tN5aY0bImIBURx{v~Vxc17`55zRPJ~c=c3DC75~52_My*obKud
K#eUaTCGYakS)HqurD=}8}p0}^}FESKXAN+yh-@khE)$7w&!7Y9{{_Dx>H?LkEoxb8RgSJ3e4Qez3d)
A}yvH;q9M2~^<E*d{Qr=Ktxc!3^HbHE`DnC2Q)ZO54B4h-jQ|7G*z$4`2oay-<|Q<O8Rk6{=)$>t-KL
6T33w046doN<tCFtx)m$L5hi48edvt0DGdE_SMFzaBQ-qkB&0@xa3-eSXhLn|$@Kc@H1D*at52;j4V$
`Zi9uL$jG=zWve8-oLaW@nw}~4p+Ha6!=SpEIwK2$rk7}1<@JZE{4vT#d~<!O_Uum%wSlVwBN&+{W7}
s>=}F?2?f$=$NDeYoaVQ9D41YUv0MkWQYWXF3>sJ+T|{bu-U-@0_KCpnXaNStJ{*3dB3l<=jHSstTUC
gqDXX}cab*YWVUjf6x?Rd?vx|e<4YrTHV$8dl?7elIz&7HL$`xyKFTt%U^jyJ8qhPKT6<?5d8JqNZwR
}@J62WOgO@$j*0~;@~d?rek=tLp$z#Cdqn$V?Ib5;Ep&qugn2<0{AwwOS+QlzmJ4FHlg?8mq$gxWp5l
+MEh!eS3*#aU0v#KBwSq9YL8Vc2Mkvb$FItZ=&}C-zg2ThhW^><H{If$h%OcTKWLwK1Y$w8BKOtZy~J
w4(L1DI#%+emfApp!9hQq#B1p1N(s%MJi;l>2!=nY3SNykkWw*%-e8UXi**8`0LJAJAVD5WzvJQ{U`r
<{@J6!3puG?WFl>9KRguPc^~qhgFPDEb;g8|{-eO0k~`m_d7fOn56_#}5=?bFzKw44=vF0*8GO;Dx&?
sv&vmR<&GY765NRn*Y7JVc)xMsrC^s$$UVLIGc8eruZ2I`#Euejy56mORrMU(`riIV2)Xr!zEY?#Vqb
uOmYdlL6$5-xQ6Hb{;IgbjQPI*|4=umZ^0+$|v&DE9W$JqjFi&TsDZIe;++^i1}a#vb&-7aB!2NmCcc
BY>EY}t@ORZj*8Zns0e@pIey^nLh#kCb3Vykeb}>IMx^cqd;xOlNU9TukK*)_@pK2xPkqkO(Ce=S<>h
T-s1v3p5*lE%X#KQSEx=7gwnS9fqU@tKUtteCDh!=)bd(j^Hyg{}{V~4N^giwETPM9sl!B(nBpU?-uS
2(tUpcIs)g8v&FTcB}aoTz6y%vm;$xHA1m}c+a;&VZ<u7E_0l6sOu*}Fn`G$<{5mSO=|ZF+VVvKvSej
_tWqi{Djl_~F_N-1SS_S(NyY*7M$(bWbq1gech-0EG;~OHuJ`%!<AqQv$ZZIy4EJ3l%$sDY=1~<vl$J
WDyz0={JPRpOl<I^dRe`dh)7m6;{)>6g}|7C)i23vxy@^M_|Dqp*S&M&*7GtFR8O^hvKF}uOb+S90V7
ABE_N1FIrCE(1ULo$xjs+Rq5M6T#)glBIhbJ%ggF@|48&%$T;O#lIvb%>9LBl!28IkwAE013xd^qAxn
cwIW57d95bR;P-(7s3;11A-bnE-}FfG`ZGANWLGRiCMktAT^g&z&dbJ8&1f}NUp7I;!tLt-WlCopW7+
cfbS*fMsmhHmC=+Tji{Bn#D1D$u9DONQd@{#QKdtTDJYSxtSPgl&w(l=xbiWOZ<SU@;ijj`W)MWI7xu
y*vp99@6O*{`Di-lmT{a0zut%$z6Crb6SM%{i1vdw1@XO#PEJ~G^1s-ntJzQn4UHgiUJ#4%00%3XsuO
8BVDuF2$;9YRUvpLe8cyM;`<mtIkXo8AIlZo&c5E&MVl4~Y(O3pB5vN?q2)AlnY?q07^rPgmLf<S#U=
yyaleX_K@KWe<sSlEKJd#IIdgX<&&Budun;i?v@^GPR3MLFwPRc~VH0K5_c3C+F&oxCvcF8G76jn%cR
0CQ$z^a)Fong!^krW72@LrxdTRLU2<qPX<nO)|Pl2Y$dxYrG`q9plXTT}oB!0nb!lx3C*9)3bAm7{1Z
-?3(YGfsT(8)DLj3?OdUZ;M?Hq77O;^xyygRf<1Vx%Xbo04Jwqm<if$Av1BZW(rM?S*@>r3S98#%I-O
!bq^S77M=`U>f6BXhrAu05Yi*ecawMA;4^-<Ocx6mY0*G&C2Y@c?opXQP-=V=;l3k(@LlIAO!O@<dHG
rrVLdTUc*d7iuR;2LYF=3jFIrR5up(aie$Qe-Umu77SIt(ei$v6|!n^ZxZ%EG@k+4#Ph=BmLS`#UqqG
#8|pU<04)4D(ebJq@$T&@hFesyj7pd#I8kYoB8qb~iaJ(pU6S^K|S|+^$_b4HwHXh-CA!fS>fON|o=S
t{;&6<)SLi5=x!lVt?+7&8Nx@w{Xxsu=s?@;$MfzeX_?b0_POi+9c|*O7~!un{^9US$;+O#PI|9Mx3o
qtA5%nrhv#yM^^~7(0Y?-flj5{;Z*Y4(9l(SCq$VirxZD_tu&TQ5v9Xq`WJ?;<Z|i|<Rn8yq;J5u2Fn
zk5WHIkBxqDndC7SAbGs7Rw^i|<3FqKq$;mL9dI%Gn#XDw(F6ug1Q~I%}3{d4=RObR~!EC&%x;)je%O
YcD1ITtS=<t)Je1p!#sjtIn7(D-v@TsZq6Y#1VYXSTmf`7fw=M+;2Xn)$Lp9T%`l3r|9B}?V!{CeOk*
EV%IhJjYL2B;V%qq@I#UO;JV=&>#On`R|>AQ^2Z))7;h*_>uO*c>gg0M_LCYVaPcf3N0tcgxM0)-mY2
vTV<SYgA5CVdSsTgMU~JWET0aqJ$3rA1EO>fp4jW1dO(~?xThTC{{>^wL)^#(0+(hwd<j0{M!aa1V3-
mMD@?VpDKElnozz=aFa=K(i(n6PDNg4b6r9Y`35!x=ro?ZIi(`yWXMScr}BkvG}J3+G{n7zKZxpXRTu
Zs-U1e#QSYa{9sOLzfVX!~{S$VG_rCHz(V8v{<6HLO1FqQF^H~*5(KjZX;MBV7vT73IT)J?oo_7N{_M
{WwJ??9y+>2=&uU)q)$c~GDJlD5bc7=I-yij8Ub9L01!>Vp{U`_Q>q#KLaxtUfaA*x#d^>F{y30eU`D
5)|lOzVYP&_hvhT;Ge7^r_3-(%=jud_&4h3@Lpvq?E{z(+TJP(H&#n=0M370gat80>IQFCN<={Wqd$h
`C$fY+jEX*jrAqPsTCmZ-|&zK!_<f`(axIRO~F3=)YLG4Q8cX?N68EAM%B#*#bwjOHZtxN_V3CXe$Gk
AE+UO(xtD4;`LlvmYl#;Rg=YKBF01ZbaFDC5oHg(L&^PJCe*eXR&5#bvv%mDJ5@9#2=c?>n7t5sN3v>
7#6@krn*xly$dZFBD+epJf(6-Xx%bSAgZEZAY;t)J8yzC@;SQP!ircjo7&s>tKXEM9OKiiedfLWq1!N
sEfZ)P3%go$FF^A{q<u)0CG8~jysVAl`1X3pKW!h>m1r1VQ$wxv$2+yEa^ol<`=BnSgT0)f>-!SRA^@
K!FS*m?!<<P5{1^-qI?^KK07aPb?BHy9kJg*}$Q{!DB#LChP|h&mnhv`+n;_4a$`!5(nbO@AMW<xF$7
e?ADF1TL=laA5P&KF;@>$^~j>^5!2nDR7%7s-SxN7tK_h_V)y3MV_mDtR!nanO`1%s>}9vIvt&J*tFi
&KgZ@dK(~|IIR*#pD$oi&)N~S0;%kg^i^EGwS7c2JlkWp#!@U|FwW%=>%sq5tpa278j?XItR~JybXHV
l5fY=tc>kZdRqY@K2U!%u{y#aYFcI>%yJig;<_i9Cazd-uqitqkXL3W%Mbx98%IvqmEyJeSPoG7uZ_$
aLWyLlp=%P62H0TNt2rWFaoij{5A9fW~~AaDKp21Ny7;3g-xZV)1%`d1AlY<UVsX<*T(RXVi*M3>7v`
&p;tl~RIKU7Nbu>guo9{mR$E?dLa<Y7D%k;StR&EG@Ul<N7RgtI)TFedHU)-t~C_46E}SU6C3Iraydl
BuCj0CLf;4Hc55UBgA?8_C`Zf#!z5>al&AvNY}gW^k}(PzoWu=6FBXYb?32-cpU0@ZFn~H&XKR(uX9e
V9lXg0%^_`4Bc<t9w%jSi=65j>bxS~jHScY86cp&VV$uZSl5Qg(Z$RT7C^XNfcVIATL;Dj<*6@I-0bS
jhwOO{)d&!p?xco~y%wQ7Lc%&gZaa>e{{CiDsc>O-dBzNfk*whJifKUk6C+sG+wQMz^c3c;{6FO=ip5
ZqZ-$q}h!s{mHSd35DPVC=|sE@jd3hsQT{h)e~4)cLNdgqI=ZFA$kdH+bBy+nt-JWR*Y_LyEU&nCuOt
;2aTl%<NoR;a*{duj{H1p|HJc;2yTw1g$>Rl|+i_pAEE$PsApBXAMPM;i)YUWl@0fmGMGCmGUJnysqN
N1`8!8`pc%>B8BBM7?_*+?P5*?$^j)D^$~_eGMnRxbcr@7%O9%jTDV+h2y+D$1DQ_76B@w2WVDO>W#o
PK<F3JJ#2TW{@@MRWWolI1GXPlclWa@SK8nUp{aQ0Et~wA&SxBqysOpO<D8m!M--ZtQtosydu$pknUM
k<ibd4~9HuPeXql+oG~fy_q2z@9@eG95ey|+c%aKSuOeNS?g}K`7^pUN554H4E`>p!fy=$o&WU@>tw`
;pjxdK042T7J)@c<c?Xh<ymUjdRe*Q8@>WV1HzolF_&6iHpnr~t?9WkmNiKeo+faZdIyu38kqx+H2&o
}2jCRo~c0sniFYaTYnXr(F5*G+0$>+Oh2CjCvr$=F=|!@P~TFAC3$RHI9N=wjve*Bv!T;AAqo9#xQ1h
xNoXWe93V-A7aqI(GhREtol1t`C$0h*gRmt%@Q(yzu4|m9?ZLc<y~&uHF{ZO92@PfO-jn`(B_bQ$>~K
H*dOq$ViV9}&lly|Ua+f8K!fDeg+V1NwJuymZySF}>kr;}JVo}8Vz)ZODu2MnJ&U+H)zzAvF@!dY;l~
Ib*4^(<y(j6sz1|a!q3=|A)wa}2#o9dXNa$UQ-nGQx7WCXO0YjmHpJ6*@%E;6L(JcX$1V<-d2Wp<BQz
v6guhwVYrhnPuQQ0u3$79XdW3>iOjfRHf+IbECcMh^cpBL~Ho;tqU;<$=>;|?O*i%7<KWxtw{l95BI<
{%;(Qk(u^j#-kWK)E*m2MKr~Rnm>GN0Xgsh3q>r!BnTPNYQ+t8DQYoDFl6X?rqNIPMdZEZ3eNuQzc{X
70#gL3BV3hHI~Jfa~hQplaXjL!msni?5EK`Q+j9q;O_Q^4KN6xt@*?^?)DSOs#+ft9VZ!cmeIC)*^|l
Z+qtPnn*E>|h*O#2u94)Zc@sa^eW{yr8n&ehpB8W`$+eoSnUC;<ha4?0XqdJ)t!*jWmcFTF=iM!J1t2
mZhVR=4;it1%=Y6@vPUXJu3>BqPOs+IDj;H7;<SGqe%%+XI6;-#&r760Q@A`QHNsji0mG&0XW;2E#+w
aSVu+yf3?W8;Z2T)4`1QY-O00;o{l@>?n1{EGg4gdhHE&u=^0001RX>c!Jc4cm4Z*nhiVPk7yXK8L{F
Lq^eb7^mGE^v9}T5WUNHWL1>UxCs$6S0vQJI&p-zBs9yxINEh9FOg$({X$%L_rd2ieN#?vQziJ-?Mn3
2vTyKHs4N@i6vt3VBfIVU2u!NQpK&7(^<uy?(9BeuT{>oF*~aklS$Rv>TR(%G8K6##%z&~g=W=Eu!Dl
9_~S+f?48i1R5^Q^?65u&L~baG{{@6wwP168%W_q*MJWIwOE!_2VB#hfMa5*!QZ+9!$@5gOrL1OV83&
R8;%5h;MimD&2YrEGlO`SGmf=}d6?;#fESJlK8%7hQr%y6VR6cog^y={V>~I^*8uB0WOq3<l;<ts=5O
Z|PcmZBgJ_3gsUoxc`pK5`zN)fM1Ei0K%2dq?+YRR<#%2<|_mZL=#D9UpNd7A`K70+38aK?_#BKF<E+
0oem7(X4I|NHHa=j^A0)6;|F^P|Hv_V$#$dVBo(==|vIF@Al|4vv3j|2aB-JzxTA!ZPBf(8NEOl%zs2
CVia=5il@OmZ7o`shr3Za^=$np9(fr*FxtIhZRE4Wl4rC!QL1snVidtSLR7asH8X1YR-nk$)Z|lF&xt
RN>_}JN|iy*q5VC8=+}~92dvOCuP`A`3AER9Gg6gh!aOSdBUuSuDV5a^pk=#YGK3-*DXm%hC6Drn%w=
`k>-C01o@HQWpI!7AK2gCn9C5%R=cV-ZjhOQEw(;O7zvh`7H=evZJUxTbhbIT;=ZB}qQSXw#y{GRtc}
{XZ7vpMCWTJ1^9M(YQ_eCTMmCguOi%f9K&sbd3ADGYlQDsGcGnMizx*YUktTz@DX87-4TflhFE)YfL?
+J|=qfF(s$eE*J<Z7@etO&h9Q@QsR&i2xbm*w6sj>BKDrGAAR22M2z0v&lWHWr1*#{`aL<Ydj-vNTwn
8I7`&!xQ%G*-kxd*2oODf0hI?Rr=NnNgv0(<D%Ar8F#@WG+k$EAjS%y*E3?aX7}ImY#|P{R=TC>0|;h
GYe|+IQA}Z93@EDUl9e;H$VlT8+9}G5z7o$bI{XeU;Fq+D#d3y>EIu60csUym`=!VxaYrH=G(*YoO5D
cHd0FLV4VWT(cPHC<6m1c=`i5wLU@#wzIV&-1kCp5>Qz5GOEU5b}Sn=EEfZcDyPCpB`FFLTFMYS(lsQ
G7M_KOy?p1J`%U~^H;)VQ$#b}yaC2+es}(aG!4o9@}5Z!mSNsv{gWVlHx=XT3JhcBz$*Iv%{gx?K?N%
+{g}9Z_VjwRGKK%dT==2WG^+Fixz9usjHcHu?<Hd4UK0V18g6AZ^@)!K~&aEsD*vqUWK|zwi7Jzlai?
&U0S%X=<O?H<M$>%eRGAIGS;|`9+Gw2<geg8S5g9pleU_S8&W>wE^H*<zmx3Sq^dRxwCM?{O@^I-V1;
O^FatbZ*V7!*&bjHnTQtf2Q3nMBK_&DqyGExV|K?b`1XfO`tm-xW7{!KXOJQ<`0nl5p*f%1z%XFOQ?o
0Eb6x=Zcb9|UjNfBX>dyOXDVFu`ZTg1vg=gC)K}hQnN)Yh<TVxS`xMW~xvVnR*{Hn@+=|ra_kDgGDdY
{Zmi9E5Yr_sku+waV336xAl)hE({nGpBdvBbc5E)bccBnsn4s&b^x3lYpD>WjVIOX54)*?s!ev%ml2p
I?8|nz{wLv5_%f%!Nh{Yr~u@;h#;yTPbh~6KL`QRYunTdKCu*JYsJRb@XM#9-BFqvn_@c7a1n<8;*=N
D`x!3NL2huikwQ0d4*~Nqay)+kX@7YdQCL*B=SZJ15OyikoF54>3W>1v7oZRq>5D9Z0|AzO_8vJP7(z
!kbh;jn0Spzc8-HXr2_USRp%z#LS4f%N=J4Qc21So5;|dGGNJ7CS^%V2R5r11#-@RTTh1idL4s2n8py
*_fYFID2G>|YPDxnc$kmZRRaA*xSeP8%V<BO38UuY>sM6+1R{VWP?=4}NE>XwLO(9kBD`cCd6ezByaM
4mNbSlau*cy%1sp_EeM>#xMJwkyqRz+p<QJce}P`u((%4;(@(p=wKZp;RwTH><1!`5v@pV4M&DRe&$P
g~=XP#g%U#_hxD;<k@#F-Jj0QK429TZKvpKMf{0RHSU)=R!dGz=D}@l2AopzFll%ztIl;(uJPxyjuRG
P({D7*#k~1&1FV<`yjL`tz87FZWusII1Tjc_p1R5Q0`}K$9>lDww5pZ5XCzxl)ep6O&i(*&HQqcd~HN
7H*oBs?0qfZ143gLWwvR7<Y=a}t^Z9GO*S+PV<qoFw&ofT%^WTYHv<%mCb1XEZ@$u2zFTH?I>@xZw(7
MCO*)W#(Q*CK{OP}3DFEO5FHfEumS0@#Y=3k4IQ}Ajxz2XArB>0wBAh&T?&JV~`95)2U&iYYy!(}6O8
Yy&f_J{SXZa2m=(inSVAhN6;rrzBW$?`553?72emA;H?{s=+g7F;%<2wx9x#KjB9}Jdzy{(2DUkw#fi
-*eukwDMZ$pp=Ad%$77>lY4ry=zbDc>6kOn!G|k^ydz$xYO~cPtTurRYIS5lY)?$e3H#Uzg9n+%mjMK
"%text.

(** Lines 8565 to 8714. *)
Definition DATA_56 : text := "g#RCARU+SP)!1*M_m7F#<g70!xAV?#Ve2Q@1NDa5vMH`Vqk7FM{=Uiu$I?{XtVu5Eqoe=6FHOSH-usU
+hM~W?zL6oWQ%)qJ_;K{Z@!QkGR|k}WTIn8MDs8cM)WM+ag(8+eDqZBIJ|&%Oh)jhPI8p0)C{E0oY-<
7|T2czG(^<FDa+#o+(yAS~#1gHBi|@R7X7<=46h)8fn#kif!u%FHtCSY**w)mVR>)v1&psM^gZWAAD$
#f7`T>h3Qtm?qeZzk;)oM}nUH2}INw{?bCaq*UgHT-S@B8-HAxs&YgFsUD5Wx7RVC*t;q|I?0q9JhYy
Nn|f74o~feCurM0NO;)s0Fr`DsNM@IY6ZNb1aw$^>H3-jD$9!qctN>Kf)h^z@K8z#F~$CXF|+JI5452
=7E0HECg7##oM%S;N3rn+$0~!{HS4J6L6EXj|3&+wg@Vfrb~$R9S&D%1l$EXAh9{mJp|4t?<0ZN+&c`
j-8T-E-ZyNt)KSrcnk=8vUb&~$(@6ds<~a<qDMW-dilvU+P8j`y<TL_jU(}4P0SM#W>4x+x#7v^(S0!
^J;*AY8Hxz2t+BIC@WKB-ikqqXh`ir7F^>*$P??IdZuf+u%<^gO_vh_ed3^8=QLDe*Rv3nVE@mioLRs
|`#le2V~p~U8)ynuEyD;Vr>@}`-3bd2BO#bzoG<E9hrqQ_0%9_UME#a1>Oce=se8=95Zr#3bHuJs4x<
7mKk<BOfkKhxp-f7#ccr2n<8T;JSq_lf%}Lo^iyYY;yn@!ETXkfdeI-Hpb4NV|BXRMy>7luLA@&R^;(
uUUvD#bJlGm4eux18Rkg>RTSD&OUEu=syW+l9tllwrkTV7@5wXx!+Hbqwg^D4n(7pc2}_`LN~xn^TPI
D5E@Xls8n)l&zW~DWR(PIyWx!jNH=)6F?fG3<TWQ(&*TSU@Yab_x;}~2%=E!n%Izx%^Lnl&1fKok`(?
ciiYV1wu%*)D(rY8bteldhvJe^dpG@X&u9+Mmy~40UgTktr0vp6j$(DfQ2=G8#N#I_PaBvt>3r$L%2(
3jE%o7Fb^CIoD$h0V0U8`E+h)4B+$ij)#)z~<1w0<5WyQps#nimY0n}BqB50bWTCFsr5&6^6HDC0ex3
LWR=-pR=e-E=B7?P$yA;hT%OapR?Jt=pFhxT7Ah5lTEaM0kGK;x@2g#N57Ngnx^Y!WP-J-aE}+4J&W+
ir=ulNTvzfO?I|-<F1Q-g1~eo)Xe*br6?$uSGo*)0Xn*PpA5GzqjuN`ss?+$hA$$V^DFo-_pf+l@(M~
BrO9qmEk#DR0Z=h9Sk~2iKLP>8SlHDPq0$UMrHlXTvj-<|;{_N0F&%BUcbj)Wi7dx*irDT-W75&8A?r
WkebolNxkJLLqFD`CwYf^iwQzmWLc4ZgOg*5waKM_HgujuGEQPy3qC(3%gj;{m3=p0Q>NH`K?k;SX!N
Ij!;I=V7PS}|O%p*|KOK-FWq1!N%Ny8crAOlB_a<z1LU}e05TjZ6@9Jl5$pkN3G2SJXskcbA(>#6NbP
+F9g!!k#NT^Ib1czR`hg2+;ZxR%m|-PmnS*SH3=#@OcBqO9elyD%~u#YI<tQi*DP$*XX`?I>>jai4?^
{ilA*D<M^w+kkFr>RxuZ*+bfcAi2}6)aw;|64WZwS8fwGduH|kbMN&<*iY$IWDfx+8_%Xn!{l=!pj$G
82+AsU{M`(GbN7A^fsw7p%0?f0jc~MzKU6%qG_Q_jL%PBn)_&$@I<&@t?v8PSFmF$p5az%Vc4R`Pxd_
CrwVtW0o8`6P{6SrdrWcuTSAjEFIdgAinv>f3Mdl1kcTAQK3JbPd=xVU~!NxkMFjwr`^$U8IAy=T6W<
yc)E=*?n?$s`C5Mdua!j6jl3s$9h%W&f3{+1KiY)&lh?h&()?>0-TR|Yq;)X;OVwzK}aWogldavH1B)
21diuRCs3pzD@5qHkK=St4AV9=1hp#{7_aEmM~E6SZNsubJ5Pf$$=}wPI&EyGbeh_$RLMOE2X5Tjwwd
Xn8u0n3Kbk`fWT*w#^PGQ>!m19e5eY)gFBC{7l@)R82K6W-_G<@?hri+BpuXLwz>GD2(p!$^#BFl~0>
vOPd0jpfiy-qRFyv=8GFnJG^71HHUm(B5#Py`QCU}Oq$Hco$vkHxOmz<<W0xhtk7=fg*UMGAK$(I0Z>
Z=1QY-O00;o{l@>>sRHesgZ~y?}p8)_R0001RX>c!Jc4cm4Z*nhiYiD0_Wpi(Ja${w4FJE72ZfSI1Uo
LQY<-Kit8^@6-`klXG46ZK#2^_sSn=BL9t4OrNjV19&vYi}?2N(iFazbDRo&iX~iO+Ap_14|hJv|`hI
D7YbE_P!Pn4aqH>gwux?_RIBcaqJnv&%fG^QPL=vpjiza=dpC`RwgIca4fB$&y8NS<JFUa#1YuWLA~y
tSIw&a$BsgiV~i$81yKqYS((N*__XdI-jkpdYi1T@;a|B(j<9*m75p5u_XD&6*O+#k7c&Zo4s|FTxB;
oLMUo@bA1K>si9qy!@t>D29ivtkEYX6@}R8N50cv}cyN=~_!bNZheL15J21|ofw8=-5@?=mnmnnRlv-
4)92yi=*(A{OGAoPKW&yzLu=Z$J$$4IsmoSp1fdLdHw8gGq9_ij*=M({(^Smi85qt2)ZB<|M;LECB3W
A$$v(A_1{bsb6=9icJWRzs(JlT}^3?R4%FqPwVGRt5w7LCBAm01+af-sbAsiVF0r((tL5G?9^wrSSYG
C4UqNuE7^3h2t_c@5JC945_XwW{hhO>R29%-557w$28_>2z<Iudk|ky4M5Z+PkO$!enx>S#RomGD(Uh
y_TIf)nc>GC;WYHPkx6<nm;T1S5cY2*2OY6f7kY}^>&rp#xM_@hWaX9$Pc$!UBU|4_RTu8&n`A4P-V5
S4_DWhn{~0U9aYzP>4v&Iuk0fxkE*tB0&QHt;+gNWYOw$+M*4A0ie|ki&dv9HnH38lwz|nJ7+7&{I_v
!7`nJwij8_?+K`O2S{|Ny0*7f#qFM*Fd#YcPj$63BwC&%>DQC(Lxx7kllwy<ht@+^G{V_gEt7w5&ISZ
_55_$SF4hO~F`*JsHX7c7PS)WF0hMR`#rUnYZRqai$f3QutpK|5I93;dV+qM>i<1x%f1Yrw;A^nHYXA
vMF_^6FFn)%(6CJvQqamV82Vf@5CSqrH65<eg8G{3crr`kS(tRr9<*1aN>;_}>y+3>Mk)e4Zu6VN#^@
<6t;UxWfeDCP9N*8tv`v!)9FJR=|w|4PmpNZ;@Ff4Q#vf>LZMV*S2cx{D|u9at2SA*T76iup5y501C=
QQC?HSAKo6nKbpMz?&Rdn+xIZ+_w^><K>#K22OOx`+M{GuSLfOJVhccF<0s!dKZ?Tr8hA^-7mgY>M2W
;wH52^PJZ5HU=&7NxH?R}dh@0m(RRIjJ-ae9H&NqajRkhB`bpebJhqS;|AO<zh7ugoste_&FT>)QimQ
9Mw-zLp5(q{5(NGuK?!;1h7U=wFg5rxTkob+ZZ+6}$KfcoJdq}pXRg99#y<11_2&lCHzBCg0&K-uf6%
-cIuwtm+VA(>c4xhhua<R&lYRh{yY0F+~<ySq^X$7yj<K+`?@BaA89cn_Clp3fE;kZe-{dM+106bm^8
Zi~eNPCRIFK_@>Rh;X)6@KOUPZ7#Na(84(g-KBeV{^JIYeuDu#k8tZX`Pw375Bh@b0Ef;OUp)SSnf2i
9ro>GkUx$njJYVqN@9?C(y#jJ0VS+@H68_r&@erA0iQon05IcKfPRQyOTSNezf(Q<eJLo#KeV8Fl-sS
7fiq41c8Q!Y`_UoWJ{~K_27!<t$sDShCDr>GLlR=X&E@ZU$sR2M;;s(p>K?gY44){`PVGK3g#af_(Oo
g*mz=7h6rYPY&D`)wDo{kdeVUepwY83Q{N0|J9q1k4Ret+4}X_!1fZ}j=UX7uA<d-!>D`1z0jlHrek?
cvin+rz*7*I@t4UwinMaqM6IYe@ggUwia%(l7rt$p7ruMt<3W{CtfvjGe=EzHRe0HLz1?aHavE6x3#j
$bNzAm+J`~3U!|1FCgy@>i*!v{9*Es<TN|@=?wq)kp3e%81_-rNxwgO`^Pu$j)rOkAaKtR#^1fk_g8h
^KTP_w{;2i)O_AS5pB><@aG+(2gYZ#3i@q_>Z}9j3RKNe60?zjASHc1v@Dn4GkhVH#f<*?Uf%I6^(=>
Wgl9F1@@k7nW1_uNDI-(zkt)@V0c<j*|rX%1#{j}c(%L@btZwYc^1Q5P_didlFN7{e<<mt07e)I3Y{o
Q|bK-!1)bDCYbS%O47V>P2L8jx3FFKml^F{e(_pFjm#41U+1PMg~OxBCzJ4-vwi*JeM-%Z6oekYTdL>
MDD5p0Be<peWCaIV$xi?wsc^+B_jb*o(oYCw+g7tHs=3=GKa_kz$;jo^`H!oKVt5bqiZ~7@+`JjTCqY
G(}Nn08@`N<muP>vbxEU(9I+>kgP#=TI3ljCD~>4Md<~k1vB?}2l%<YLYolJ6{T(Z>+}Gq1<CD!?5^(
jEvC{{wHmZn-kZp}2F)3TxS#SGG!RlXauBzHtJMW4b=8F>I)WL6wtK{n<+EeRyN1ipvK44T^Fe!SdJL
4>4jozTCn)z4fsjG!0_YZGTryS^YV#P&Mv8w7Jovr8RvWgKAs;5&SY@nWb>3_iYXsZ#-&tK>PK=eRNj
;KGllM3THUj3C*=!4h1n>(OBj6D*503(HMG4HLDH>GeST4uj%ly_#=PYJ}u25I=&5X=vu!82i3gP`Oe
Viu8WwNXqG;uX(27?|9Fi;yaMktPDQ<gc*qRHxQntTnT41hUagoqFr0I)GOE;%g|b51u2+b|aZ@3@7!
twDEI(pgFihht1w143Fws5Cy{)x7V>jGBe8&Nr71T?!qb3ZveEhQnE1oHIz^XJwwx)1H4o`TCRp4CXV
tUgS6VV*JECQS_%dQ-r;(Yd+NjZsXXuRiIk3N4GfAQfX6pKGeE!3+}f>i+4fa$#jxP-yT?h1jzG!gxp
92tKH*AHh3EYH_Qk`=Wlm?T;61hVlK^h0Q9F0VE6VWXxoH=!SGNp`k6;N5p|xQ4&W(TzDCJ|2iLbUbk
Xq#!*sL4<8S~^=z)T09?gr{Iz^5P5?=!iM~Ofj4y8X79{D{`W{t@W4_O)$^#_02KKBgGT>~gO4OORNN
OO3gXQ$U^2;sCpY0w7Re|U2?xP%`WmJxulr5RG=hD86GiSHZ;wQLW8`faFRHB{*SYyfZKIN<%xq0opC
iLeq2fhx`52atzX+kwF(^+Ig{*`P?Aj}krl>O7qRC#hxV@Kx4`8|e<&W)bhwUohRZyw%lt1g%Jf*k1`
^EZ~;G$QLn^KFI3J=FnJwurqu?jF3678?mGtl=phQw{l$K8Dt*!n`D`NES8(4wO<1_HQPv35jcI&U=G
9!|3v{^K^I@kVvB-wg;D@A++|S`Ok-K2sa_<nvRU%xUGf((gH;>gb?1h=vlHh5@caj`vEjU<!vq;NA8
Y5^U^Gec$IY62Q^{=(=QtjaXwRBm<uf#p`4)LR&j9{)S>56g36?c*wT8yB?1LIkK!EfB9c^$jE<l!qL
kS&G)rIvb(JR7_K--uVYr+QG>@qy7;V6rAHNtL|n`X^!CU0c3O<m)OuU<pEzIi8WaxCHu9NqI`O)X~d
PD48{E4QrQ+GP$cdax}E5$J3aHt56Y?a4_=b7hu^7G(}Ak<DgRJ%`3{jC(dkgoV5SDCB%oEHo9;^Cdi
7X0yuh@psf^y3E$Is{yv<W*{*yak)_ELISsjXFFE3HqW#AwlK!#*3qGc)2A*!9(>-w|M!#6lL07h>EE
gX&N_ZXr_f+{dieBgI7*i3WnFDngJ(l0ZpumXeYV)-%D8Mk`!rUwuz}*zG@4i7pkRMbfS4u|RA}}Xz#
p>)1a0fz1RR6lMKec=2T^5%%kc<^qTVJe82lO^%upcZjnNm916{ulbUQ)$X0^s|v}5b)rkLk7eCHoDR
8heD=&PJi4-@Layv#o>vz7k?x(CdwWT{ZEHs*nu(S+%XMyGztv!(YFN^|H?XuXbZKM)?h#`#D1vGIN)
=LozkSUoClin=PvS+O9!yslU+?VAIg9MG_r331A{j$gC+e3HRFxFJsmjUg`)i3|etvAKsx8VfRO*ei8
L8)$;A8~hm$nR2so%7KAGtC3%1pifL@pnv6V_$PI-1mQdJJuWQr=S)_8HAU>^2cE$@p1@n_>{V6*tFi
-s=`B7sBhoQ2j&L1Mm;x*&X$O!emOvon1p%P_fUn7}eo>Vdzy=AD?&x*3{<_+fb2EtVN@RKE5u%EEwK
x-qrt2S!^O;`rd>jf@AUz<{H;jw-4ig<Z1K|uP49Zyatlgw(-8_Mm7BahF@~~g*L$`AFB*i7RN2vXoA
d^%N)Klh6AZU{U5}OIhFfi&MH^^95YAe9@Vu2R+V0}%SxR1Wp4GInBCxZwT^$<*(?Kcw}MuK4Y_%43R
g-#6=y>Ot^!W;QK2Mw-=n+TP;wIRQ6zL~r{e)k@M{qgwq^S6JsU*Em??(K^s`}M`2j$Zuv&3EtZ4=<0
tKl=8~iF`Lb_fCXW^%8P`UBK3aQ_0@~61-98mpD%P>CvL9t~V=;43VK7zslDc23VXp=GQ+qTSEW%HQ>
xNHtTT$_;A0$L@zJBugleXt6}8$gW|Ic<@IK<(5(Q9{`!*lz5eNc7ps#12u~9jEHa#2c%b}b+1KO>Ft
P}qa`Xv#=^fMh2wcd$X2cl7+f6KlqJ<pSAMGEH&Y|&bR?h?3swx-e5Q39unH98up5J7}B7@!V(r1x-X
GRANn8?5~87H+qKW~UFB<G~;gLpH~(H;cExTWKg-%oM`&=^UC^%W3FBj$6XPQb4qeA7TC6ExxjN+y$s
_!7O6qKG}T`f|YC2Eo_^_v&*D9)i<tzC9r0$6^73lQr20jK-NLkQwF8+BFhE@0}IDK%_=zK5W&wd(FZ
2HZ1N94=TY@TweKU@s9~c%q&>D?ERf4kH^~2D22H$0C>U=0WLi=lDmNUPoVx)UQ753t^q>Xg?~ix>Ep
Am*8%>WZ$D8U6V^d?F1VR#irhI{4<0<AfHn+9ac~g76O<N!AB*qCOm%XueK=;h@pF8k8?gXe9uQj?nK
5KqqDR22Z=gxg!g;~{Zn8x{a%r?%aZaeN<DM+&%>Isu!=N35#N=TzPyj~55O<wp8a(iKNq58Gd$?c1{
UvUO88QSkn1WVPlVuEc>6(0fY}gakNJMORqVxMswd~w1JGMfIfA{QR(g%gq?FNInpZhyV*)+P7q@SKy
e8vQ*Zr1Z$@ewVTf_BX6)CImDo$H{7ah83zzxz8N1lCrjNn|>TC$#WWHz@G`+#CKgyL~6G;9l;{F?PV
1SOe{0xY7J6MfX}CsV!TfF@QvqemE999a#hQp$&h1RyM(@>^=mgE4PWYWZq3|-ib4>@}}&sjr~69ktC
a3<Qc~8^^5`Ivbf1h3PnaDw9?W9gglT)i`<x8PyRZ2_58oyy!B%xPY<7+?HPd+9zEMr5+{6rx~D`=`2
J+ilR4p+$9r1ngdYx`u=Ok^F%8t;6xXN6y48j?em9whZKfRce4X33*+Mf_kf*#>-cMw#LQe;LL60*p3
*a!bamCZ=vYKxeIR@VFo0I93MLgVyk)e>^$=Y?0J&sJob(TC}Xb%#$R*sa(f&#;))0W^oozh&0&&pUl
mL6H%Q#DC6K8J&JmQ3?xz>we6AiT6pnJ})_sANnW?>?7-Ar95yU`FW2kf@$UT2^ZB8f7I&Q6%>Usrn)
}kA5~p{)K=%Ta}EFNu9qmr|PvcF)oq`>d*N$FhEU2WQR?z`}#!iyfSRP%hq<>z^EL70oy`*oM)9Mon!
)P(Q1v6GVL`V3Fx6fG`4YVdSkoC`1DM0Ev%M*b~81y)7V-qF{l(l3@m2x14=NQ^Qfy3HN47ZCzW<!7Z
(oHIO+F8vmxwev>QHpM{4w=Z;SIftGAC{RCWF?uWt%aNadMG2r0eO_rO3W61bbPooYah;&BL9Swl!S(
e0$eW%CmP+YymKZCOe!*Mt*(H??m{kI}cG)BXwB*4HwLKAMF+pxs`3y%Oq$(-7pDbBOX{8gIVQayUMx
pZ147RZ(L)?KQDv_3UaOA;G>2=I{LzjPp2ofe}Tk)eKKq`eg#Ej|nBsm3cxjMh40#G2k5U32oPRc~Hd
2L>^!H^*{n<XPyw%FgE`3m%k)0*ucNoGBn}$4Te&Kpf#QDbh=<>4k}{>yB*MX-Ef@o70^5%G2a&D<|7
>i#w_h~XO9EfM24s7Z;^j}IewNtwNEKB1egb^t;MCzo3QyB*sLo8+k)`t6os?Lgl*jjfdfI}(_?-Bnk
q$U!9y>kN6i0v8?{^oj-Gv&fY(SU1scJ|-r)HHZ0C!!)P#`rlHMrkO?uHNm7eiJ%+t^32cI`RbVLAQn
w<c&J{%?bhbQnuYXe4i!YBAC5Q9J{=v6^ko&8(rr2<tI35BtlumMqgK@_i!95sNozN)Lu<y9itT4KWv
EOkC>jXFcxE}<Z*(clh)8;2iK`sZMfJ{SV3dB8j0<|f|T0g!##lYwz-PZMC&ttFn<nAvwA2jSdV4jdn
Ok)aJ}o?BVPNNe+{^T)y3BqXQ7V*|oH{%TK5IxL~B>rIYpn-{*{uRvacXEw47>CBFie4GF|TcnOLy(V
VjoA=108nP7$(J70MTVOAF<FglxdXqWfAjpm91S9V^({4OAPc>u8vt~;{K%o#ui8*4SwBB1{yXfi3jD
G}R;?o_DN4q{|;QWdk1P<^H7-kM$02(oMlDhG2v9o>^>XQOJ+^FVQFhm)y3C9<S2O7z8Em4U992NWYI
Q{oDc@BFycrUx4{1ZCW$gzkUJ^+KESSIp}ccbK9X3mD9@%57V$T*4Y&lb+~%R)H(ep>*UJ5G(f(lr&Q
?UP|!+@bNh_j;c<sqkN3Y5VFZ@qTz3fd#{xE7|e4v=zJ#zJwm0JWikWkhVW`N>Ccg?>eD;(TmGqdJp&
ug;}fxsp7IsFbWAa<fVumPLhn~pk$nDw{=p<GW%QQ!Wd+{bR42G=TWs#v_&h%+XtAA<HmpSS^LFj@!0
;>@I{=m+y;09kDo((5WB<)4Tl0w<jug4mPZT8m-Kr`BKH|lgk>SG4VkHP8v2aP1YulO3Fd0;wL4-PhV
}XnP}G_rj8VeBkaxqKK;KsA&+#pMQ~T1CoogG45=o{C!c@Q+HeWWPS7P+j1=?m|anp;5goAM#$`6F5r
+wpO>7U8lUg(wI0$+hYwPDvy3)Q_;%~uU^1aK&4H14a~Gaf3G5-b2G{A-j@e{HLSjn47V$A%LQz|rOd
N}nUX7dJZ~kdc>8t4M0js;KtdkeixE)(I_cy%1oYdBuZ+$59KGHuGsyNLIj+@E*p?uDjk56&%Qo&)pj
Y$sQUI2+FQ!A!Yo5*CC8Uk&)1r8znv^%c4w~I(2wVb&*Wz6}D3mc~40Qp`j~1#Vm{rBu)ltYgBqXj(}
{ij2`uv>?UnRGWSLdFY!=$*j8e@*ubI94WY^XM(YoS0Ja8+0X+A>Ee^qjglIySfj(sH(|C=z`KhC%vG
^DjYjn$vuX0AOvSzZB#{)HZnZU~`=aWDro_^!+S*gCE?S%sDE9)dNDBID^`_}6!kPGEMxBsIcIW!~!_
^%WWz5_IwsxVOl)VK3RR$kLz!0?Fk5LkN(eVb=<Qufd}Y;r$tuZlGX0^p&E<6NzvGnWjqAR`IB!_Wkn
6bad%PH`ASq(u#5aRZrMW$3quV-1CgYFVt;7-Fw+VCPR!Tao!6H<6_QeA*C}uaac2D6X-ZhB3A=tl@M
zjQ1shWRc#!6=d3uxHgH<hpWD#dNjaV-F2Q#Cho%T`siam+pKdnTYk%Qj)A?4BA>hW6O3pE8qVsiPPc
B^!w0SHquhn|)FLCk914vIKExUVLEV+6MZ>Mgy}^=W%|`a6NgLJnC?&<!E7SsXMXbepd+KDVslcCd?C
g0SxF;mkjX6+!s2q3rX#+*0D#o(VU=N4_G$Z`ijux}|KWVgLk`(@C5@*CpOP-`(dBn(w4aC8Y5r!N&!
h+4)J`46EJa={BF%8Eoe+knFqfd8rYq*DBaOu;yhiqaO!|BQ-m@TVn;*diSqf>oBzCp7QnMrXk4M-ks
ie<6LYC13cDNZIBSY%U_@h~p(M$0SG^9$Gkz@fzVMWGjTN|+;vdXv|affxhFW*kEuvO->G)6~o9v`@A
Z%#3l#F81L$J&8P+iOWYIYIV+ZB}OM-V{_v$WA&4`Snh&ll!pG>991wE!EiwTH31H^m|WM%p_?s;%M2
aHgW00-k!=4ysj;>e9|+u7V?G`Ubc>UiEwtIXW$2d5Qm6pAx>6Gp3)@U4p(#0P&d1L_)gB{F3J#7-(E
TU~fRqTL2~0!K5jinE`L@w&yG=08y%$M<06ccj>b5a46azh%wq4v0=!vTCfWTB%36bT62?x+a{oc%G*
UGnHLWg8{V#PL24u8aVVIQ}4U#2ldR)Z82FDgmYSb~m|%YH(H&1t38W^D}kjfq^;d_=u<zD>xzV(P!(
`9M)_iPz9l<LQ|WC;Jh9ZU<lwECM`r6&usyHr3(=50)PRS1RItpiFcW8;XQiurArOXax4DD7@O#HJ=l
yE{lc&$PGU*UN3+89!D@w{f>m;Y+0Q~sz{@(!wo9JJY<0=pQ&1H$(VrxS!+P%httC|#+CHdMVm;9u1m
-CgQ&*mh!y7Pn7W5uPp1YpIup?C&)UScefkutcEEJnPLtrNj>sSehacq{H=F>5jRU8tfi$aXAcR%L9g
Ek=9y{BS347fV!+=SGz5)HyL+rx>$`-d794_pN=5GDT<rt-eh7}IYl<lyB-fiqGeg-C=`#hgzXd$0Y&
2qq`W|^;Gk{K1F_JNsITt~qfW2<tO+X;B1F`-i)Y$qWY+aS-$F+6nZc<-dcC>ID$+!Q#A@By<(djIN^
+qm+DZ1oN?+whK+j~}ICk&uRD;Pm3z1gDLaS(KGdX7^s)VPf+Ub8tjfqS2y}Q}V(!W^{-gOC1zAfUl=
m$ptO<Y_l?BqgWstF6<BKYozPU@0|P~NXwdsqq9$m<CN*=3UqbN!H*%A*|7gMm{5aMji!SNcQ1Wg=D8
$p8vA~Ds9^0cn}SKZ8b`?~m?OmWeaC3>?<rW+o#-SvaIsMwjP-g>^+-lQ&%p`Kyn_sS^E8UHviek<84
H$^AR9rQ?n6_G7*<0{0oX(+S`_7-5#%<~k8)bTOQD>Ft^z!zh-;vo%okh8ni)o0^B$^o9GGWjH6+{0+
Y|a#mbi#6z;-Fm*h+eeoSMe$YUz6#=$NoTVz3pFe8iOxkk>9WT+*Mc6_*4a<(l-*9bvOdM3Smew}>E2
Q9(aXV@GAdoL6Yel1?ailE;Rp2n`FUV<19>GxyhMN{Q2hW`T&#E`@_wNz_oQ+oNF~kB+GJV!F#$N<~T
Ol=0H-^@od0<STzv3)@eJs-s@z$EVo*EN=7CITKCH2_-m-Iikd%!tXj?)Gj|1e(vLoqIRABD2C$sr1+
;UzZ8CS1h<JLXzun;8KiX;`LesrCvqwURh0+x4M&$-jvAwXx8YD#<FzBYH7BBcDW&`jB}rhRhQ6=O-{
vZ;faEG8ech>(HhEt9$~vF8AX3WahzrLgd_g1Oih-2UCd_>rN>)>LLY7eYAXl?&HMP~be8m_`R^;1AX
Qw!jvuM~RzF<d~N5T~h3aGN%_{om#s1A>y3>=C?PS6p-Xv|y_#Gt%hk5S$knNntB7MWV&ya+>5DciD0
&{V5gp(=l~yzDb;D?=xn(#iuPlpU<nC=>yLCT1ZZwX*EW-8$-c1MKBvA?hmyoxq~4$;+U+@u)0E5BY^
AI7MIUe&fr_0~XwGGm3%;g!f^pG!rWw(&5lW*i4IksjXlo7+dv$)=APIOmCb9;j=ZP1|ZTm<pM42Q?q
2afKyL^p&n^SBhs;)dCR0K=sZ9W^f%{J(I`i2Vxnvh_%Rh{XO#ZbnMcOd<Wn)7QT$+1Nxq8U+9-}KTi
dqV(zZ3no*@$3LhOBa>LXem!4^+<zvOl1y=)WbxCo*V#8S-#ctf^=C@)JC#jXli9uW(wn0aeYk*V9=r
js*4MJOJoimSAl9nDWPFRO~&1>$KN#?x*foLxk;H!1U5Z89-NaWuwwXFM5kkRWaxXQE`gn!g9wA(T%{
"%text.

(** Lines 8715 to 8864. *)
Definition DATA_57 : text := "9xQCM7}Fw)ItqmT5s2Z=yiwt}#iA!5+%G^KBgJ8=$D_R(-tW$}0h0v<0F-ZHRZ|tSfZU6PS~eowOh+2
c#v?aU6;jAiqO4P>ok%bR-YMYnFDZ}A0tmQhd&Zebq_&qtlui@lT_qA{$ZYia470F{G97tyXfcYSys5
4YgCRe#)(FX4ILk_$#yOd0(I}{_8ST_(J-FZFj0I~pFLpZB@gazOSDw{qWQuox=QB``l!%#*STREHdz
e|8n=Es{fg5sQttRQ8lN}`rmqa3(y17AvEm8oHL`oRBvrr@MYt*o9?Z4!W(M1UNNGonR$oX!3yoD_h?
g&oS1IVK~w-zPSeNZJxFBNh%sbHd@1;U!LIO2J?S@A)ICGNE4*5PJM7XE?$ZFqWkc<|&b098>mAbOL@
7Z-5`xW}H9xKFax!IwUVJkLqdR_)f6DbSJ!ejkhqUagS$s|%lcD>F2Im-z|9#rpRO)TYTVHVcvfI9n3
oQhEIB98KpoqdyH1M!Dc)eUn8ho1IFM!AR8k$<;J9p2DL?(B+CCpnQIgyKQ}SKp_|br~Q$l;T=FKwfV
TEVPZq}<nU_5B<y28_Ga4|OqHX#=deGp@RlA<x4^A`6q^aIXxvyL12YDbxazx~kX;SQm1x7`fkgXr+D
{_Yfri}zabM$2$CwZggTR0zwMkl>sY4&XHF8h%Dalkf-6*&>uJi{Xjy*?;7VP2~WAt8U>0tBO$D0M5O
DK0;@D(|HAmIkYqYkgGxC0zA=8H{D0kV<884A630MfMaiOA7nW9&mKsJ!-F?G@3V3W1>%2py*Q+r%a$
i~yvPp*mCe?ziGLzufTxWJ`w5byjEeb+Rx<D-qD!Dt$eCRk3F+Z^n0dmjx6*`^lSX)o|5^9^$H(G*xn
uwP+$!^<mn3T^?a{&5u4Za6QgiFWhBZO}$DX9{Ay2$htR;tKRD!r<J+z%0F`P18pb4(MtlmF*FgMqFn
pd39MG0IX@Th8-yTR1GV|=(ZP!NeNN(1%Y+gD$Mp>RYcH-|hM@Hsd4zD1qIXXuI8?uHPc2$Rb7_w{zD
3G3p(>)W5eEuoBU4n`5w7pwnXDF@OW2sA{_wX6?BEfF=}zva0h#>dao`8Djv^5Mq<@n8TbAyr>sV<yM
;|jxzT+B|hlf6vJQyP>n1nv#Ae-IJu(eK_B})JEqHgCH4+Db2Ls)=5TomU`)RB!Jw1Dg3z>6b)+#zUq
2*>PJW)n~a25I+Ske)$NDOEP_n~4v7<EX~x{WLn!g2WkVfsrXGB3NeRyU{+dev|aLR~H@D(`t|T6)pN
aNJC+P`nGex7MvL>5!cM*A0Ig7(i?TkhCkb*IIWzKz;-UVq%(>S1Jd2BD>%pS(n7$5SozRG<<3XIqUV
@oYZU=uZLumxVv;6BXuVwtxMiMk=?Zkw*IN}<r_OZGQ*Jcc2KCi^ZhbRuqRL3%D`Xf(2{H?&kk|*-4u
`H&idi_{+WJG>xv`HpJDgcPd3BmxEHYFd=48Qduxu@fH@CU0q|-{*SmcFdB>{`Y#9cjEDGDNF#C}++I
NPkf;=8o|R$&)V^HlEvn6RvaE&Gu?J)m0ahsj{-;cSYwTHHnywm%)>YH1%q&{|5~3-{%4NZ+Y}YIexg
3^1w4Tj#Waky1xM!j+3YGSzN7b{!vBN@KLBT+=0(T6ZB+kDC||+(lX=gIZ}xb5oizC3Y)&gQ!Rpb_NH
-JiPkz4sp~s51k77))>O_U9%zLcgfgfx$-S0MkEU@ClQCaF-gU30I~$utt7g>TN%fK_i0yIi?|JVrOQ
Fi^EGLSb9K*706T4@?vOWqzIM*j@_nRoi6HX~h~6-%F0=FfbscQ`aI8*sH?)@K!*Ffi5A|D)O<ra5>Q
?S*^GgnTS^|oPZ0xKywF_7+6#(0o)&q}9_l!?UzEL2!gFuN*T;Ri7g2T2K%y_QdbWSypv)~o{ur$q<Z
3+ap^4nl|)^6U4-*j+jV{$aEo16;&BNMZy8MOdOtY=WS3i<U-yjQ$-54ZvEy;gjM1#4-O=80nFO|&5r
q;UFfm5hTgnOlEc`%GP|W{C05_dBl`qM`28()Xzf7h3r$Q_IAJzFg<|D!Ht7>C$Lxx{e^dv&&9uwTm4
|v&N5qN=GkF&>*^&c0<W5BMbz>lYmS?cn2khe4;r^pQIWaQFy`ZL%u|F?T}af>4cn51?Pk^I?<eVzes
H<(mx(}nw+0gq^@i72kPQ-e6I+FO^VhtzmM;PvrNb>I#^XrQ=Ef9SyDXJ(0W$1Q5<ir9!W&m)}*Bb&W
>{K*2HLreA9J^Ee@t+Nlm$N+A!@EFTDQBux_VIv8S8G1<9L10Q&EVG2=x~H(41XGpn_kezw?<%hp7YQ
aCCJFUB?OdMsr7-5Eq7BOjYs6Xu5TAZkYp!9ifyIs@AgdfBE*k)SLII$tvrp^=G$JRI^_B-5D_dy!IF
-mL*+jbg8{P!^FC5YaI3PFu;_IA^U(JQm0APGGO8u|nA)M{(2++A{4!XQ*<MMuSli>U{^^*@wPbBwoj
H&|Xdxq;+^UYWc_cew2}C^p@Y+fb3`ilzr+~nDmDS)IYhNoKJKzgAEzL{znP-IZAZWj=Z!Nn*|w3&3x
J|Y_^b^o!`o)4SBQeAQJS~=t-NrEG<KZiCOP*EXhQgKvQNb(BmR5riya&s3o}*cV%L6Gb+n21|?G-V%
&Ari@$h$8}rzd()2gyJ2S>EPjfg_#}uBoBL1zLbgBkDby4^(j>qE9F*^SpWyuI!^Gc_u7&SIf#7z=@Y
gW{?o^Mb#m5Akvw6knsPPE{FBH39E7O&(PemHe@cilI8W~xheP<i#E0`3Z}GG!-h@k5*mEwaqR8KHvt
zy$1Jn>Xa&RI;YjejDWJWeTY4KTDtWr_-VHf9@EIU#%QJcxm1eEpqNM9Mpak&IfSBKf)MK8T^nFFxbb
BoPJwvEV$dEx#B9StK<P}$_Js0gf@-8A$kE;)55T)U7K=ewmcRLLMCtLq4tQ+9Vm|hN6}6_R7JvC<iQ
QNld<ec{~_wo1GNbhYlSBhKm4zi>gstsC8CY1W^=Z3C6%4j-uucoeflX0h)I$UJ!<E>9X(X3BS?7%T(
W@NE$(+sWu(PYNaZ59evKuxyCUt)ai_7W9I>Q;uD0f$4)e%ki|uCPu>v;?>Js6^qXpg=h<qLSgy2O>;
bohhEBKc0;*^E6)>4JCPC|5nWT|u#$PGeRvBM-d4A6?>^Wm166nzRvP(^!D?>-v-hn)l%gxa#wqaP8L
j#JCD&SE#gBYy)Rjtev?V*!72IRjtN<MPj<RE)NJH`Tb+N;l|AO?F|_wr!B@yE_*P-;cy3#I%9<h1Q-
=E?$X%jnN0|>HuvV&DwXud2#Ji4NiHrzQZssEQE#eWOy$erStf$)xF3R(!8OC%vhOo_DAb^32ECHgIx
<c^!aL3Q4e+M3Ee78caw7YlY*kh)iD_62bs=94Ap}-R}_a_&fD!a_e=xg<UG4TyN(JK0S@GMiw+rcx=
;qDNy)-W4s@m(ef1n8_=%XiX_<s)21Y%*U|OsTVea@0NDZIch+jL+Fm%_>QokBR3=pJ9tw8*_JM6$UA
!7`5G{)-yvUOFbSd1AEjyd{$n8MX;x$0ASK%5JQYb(5~*bN&LJJNpD&>0-@_<E->#WHzT8cu@|9*ifw
f<D#fxj4}pak^1TB1R)vXOzt+)etx+j&de5#YKy@_gN>za$;R-5@Av5qksv=(PQohihTrG*FX=V7mYW
;_2V0BtQ*yd8s1dWAsq)<eE3S#pm=?PD0OZF_m^^|MM7(pX6vLIu7z*2DZ_YT^l(YuBpq0Gh*3^~7@*
^m^MX5~MMs<@zSehATX0ATM(|hTq>KrUBW0VqGp9Q;2}4ltl>*tSjPGS2M)Dt{B^bPz&(JPo1E*REL#
9<UfG7r9jPO-5uWrea_ec;C<-~D>IW8d2TVe6LH~$+B=k3Z2*0$HFsAxAuW=E`ybv~p@h!FwhjUG=73
R0v`)^y!g82dnGkdc?Q!@8I38MX24oV8JsDwmtw7oVO@%#8T`y^6oDO}T0zK|&~ShSc|4lOg!3s;<TN
i`TW{Mmg8_CE^Fqa&fG)=a|X?RAvdeB6h%#v9vDvb@1uA4%0G;Pij6{eYqjoww+)jVFY(=fjIg;A#D(
cv?&Xan*;x>u-T5Vk1&l@C&Sn?ntU(A*8Zd2+1{D>;T$)3=FI@>P#95?79untA4qD>++1>d5iSgs<A~
}?eqBrg-&xEOKUV7HkvRUoh(b~uW7rnD?IBk3#NtW2hG9_?<7ACs&l{dE$h7@#t-_oyGCJu%{`<T}V%
7M<BFH?UVO0Fo%XP<UQN@tbI}XF76p4n2uNMXyMqK2|>?u}IHf#DJt6Y}l#*peLhIQ=VAqCrpGleI6d
+{RhrfO{bE<-=Az}boYn@k69H|4rm=HX>sa%rKB^hnIDvBZB&9Wh=4G}K&F$kFKOn#YiHnu^=YWI!;a
>Rg&O07ZQFQsT`s1KGM|@=)?2sI)==g@I6x?Zk`WLpXGBxVS7%nGn$KT3iNE)x~8|W{U|S!UGeDnUS<
3in?-;$Z-erH)!3{mrJUGbr$dZJvJz|a!GM?Lz}@>zOdwc>AKq(%51N;glI*8qdC<^)Nw0bZ8^CeMl@
>feNxpEPlUKnNxh)r9l`x7Vm<Q;0LMEVraKDybr$9O#Z%}g*;hJ;pex?@OD7bJH8^zD(Cm}gL~WJJUp
&{lOJ6$0#(?>ybB-72Y#n=}Pe6dw&iv=6zq_F3zX%61`hOM!Sda6c#Xx(8VXfd_W41Wbe`>a-M&&P_E
@knC)kh<{-Niuvvm4wD`O~(z;`4MGMI`HQ3clQsk8Kd9G0fh`dqB#|Mjzow*Mr7Y+r&?`m;=9`iA5Lw
;=0$vQ<b;j&Q+V)9vnf?Ve8WPAdC_vlRygLi)Z?4Ge$E&k_j&_x!=7#U(yI96i!eCtywCtML^-wic<}
s?#UHyFt*Pd2JRk8nGPo`pz+FHjKw)(_SKWTzRFe&ItOd?a8(-&#W58pDJ7T69;)iaB(><WujrecW#!
)NDl0D~g*O<&Id!}?R+E#zzW>vk*Au*S^2PHPe>(E~9yeKC5DUXf$y5f3C0rgs!OE2YPWJ%+ByKYajM
O?06+NmoOpPQKWC!9Sk4Pet7`E}HE4;RfyLP*aR0VkIR~~lYWY?p20Z3n$upSSFalU>|QI{C2%_SF5B
xf9xiC=?K#g-b+hKae>a>0TP@4rwcF7n~x)NNf0$vxo8A4n8Vtx%?Hk|xk=?vKKGn$|{sHD{&1U6{~X
&K4Dyi3IW;u&n~^o)TFfMhm$1KNTwk`k4ySaB)vqfv%SV$X-H8T9Pp?s2S<ol)PjQC2Tqe8DWM7vBFE
xlHLX{jqmYzE-(9ymUzuFb)*7FUzF5h>xXdem#}Sjv8fHR)BZEbRwq%e)hQb`2{`4Bk$r+9<_bJ2JV5
gLNJ`e>mur?9FY^+u_NF*G^W#ePAJ%dzH>(8i$*tq2OM(1LIIaP)&T2ZM7=kG(O&9!X=>AT6*gse=SN
&1)fX2O}Xz%2Fi#MlDxIXU0?uvoxH>`CVF>bU@ICW&O-VKUxIoXs=c7bY%hXQXR;fq?$IaPx?qf2-#y
OGp7_gu>5V(?fo3+v_X8Vn60UMlxk0zl<9Iz@KI*;?Je^tpBm(x1siCQTCyin#6W2({V3MhDV+1WQK2
In^ph$Ki^@hcFatQ<{6Z@CaCADko~um72e)G-F1E`ACI{R3WcOwgDv6#ZOp}Fx#SSHcfuW<Pr|he4Ub
vew2jnX}055Ot%&D^e$H^ym_+!?6<$6u~H25JcnJnXga;sK+#+^ZJhMWb>H2!h-9wrTCA}AES-<1{ae
g$s{3bwb!;CCK>YyED$H<R<u%pal|WkA%b4r}3<k!^4j<q*vYY`ZE|{7xS2|aYlYU@yC=Sr^d~Py?5P
?{Yt_tDs2II0FfNi{_EMk?lKP~a{KHBI=x=f8J`T*f~jW=rd|6m%~I(;`e{^8C0KP7~7|L1Ssp7=;wH
kWiI`{z_$R?ma#13seJNT~E?fhZFxgvl;)J$sMBaU#EyHHGLesw}3-3s@VvSUF=_5mJkQvebuFEf^-c
bHmMRZncR(*d=WxM%o&tC`b7`4?nVSO^SaE0EHur9H@WbpOvH!hr?P@hDE?Z5@O-T%-d%!AbUy_)HV|
8r{GDsk*NU~x@L=pGv(+;z^k0DT&``oZhNrLt1|z6cqthE+IKrZZd%{2uWZC(w&2rK0L?44|KGL`Y-u
**C<%Ayzj^)bU*%Fj$)3O@CslDsn<>#uTATVV+yw{gZ#kCi^_%zH1M<w$wo%R)lc#5-G;!}b%ZQHLw1
_n&3{4>70H0KNPxH`|zz~c$P|ezUm0hjG=Bn<%AXzuXRDrE%3FNg=HzkVuD>&Smj-<MPhXTbEANwI=e
1#Xqudh7QBwh>Sd5G~N>}N1A49H-`GNEDekK}Rno8SCq2z=&o^;`IO5a7kx6*L?;%BR;<@K}4}S{p!k
_P&#fy(BubU`|AC7u#aioqOww#9B@*P%C^);h#Xe#KIkI8h4|3;&3Or;lVN@?&x?O`4K-jnlO0POCO<
-vWRduMK}H62bAzNz2F>eNvP>G<XF>blxK~Y9pcw&qlzE3c!|jz!=N@ive^jFbH}iyYPPXg>)P|%!ZY
Xiu)Xi)wpWFJ^o;6b)8;=R%6OWam5!L8_&DwvGssG_In?Da=8hpko{0n|0Sh7H0p<3+*{@E^<6EsMo&
jlq_y<wIbSiSZJ)jzjT2jK*JYVE;fs!v=H5`eGER`9PtqXm*$?6Og4aTzLF&&-R%v(8YIp~rr7W+Laa
vr>{*7+e%N7O`Rd<cb8t}w~Swf-Nw>%|&?rQ+4rqH}<PwCpIXj~%<^d%0#hs-a_s9TnnTgqIWYV=hN`
>2$ktgjk+r>cO-}vQAD-mwEUSLa21K9Wzd)py27&9GQOslH)~E?cXn%mi(2qOj!m?F<W-`jD)H1p}5d
dCh8#a-r8D)m+DBEDiv6(K%KfmW-9E41c{4H$q4i<U{om-2!syB8CE?7@|%eYQ@Of(7MK&b10Da?L={
C8sLX9%xBu*{K>u89uqY$#_XK64MQ&=ev_m#@+^%0cf=BZEfEN^NomxQNMJZRqb?q}<2m-YJj|E1qSb
TAMflVurD`$+EfC3D5O^(E6@;1A}r|Wu^zx?Gd>RwU*bg|yZmq2M4b)0)zD_hKLjnqB6?m9T_6HXu6!
xCz(>JU~+6)S8M51^pOM%sg;%gd&x4~ng}i1nVYxC%8Q_GPxtddl8Om3}Fqoy1rc<)|MleDZ%ENxc0*
j$QbdhkFJPIjps68BSZucT3{;pYv^ST@hV7Pv4vz_SqOU*;qHE)B=gYUPXOz(D%pM7e2({0&5fac+Sh
U$n9DF88ypRs|j5u2x4D|uD)$?RW11{EJZ#P1j?B_+URF`$u8W{Fc|copPamW{{DG?G?a2)BmMNdcSm
ne-oE+z_}e3DVMgV*`qP_NM=#$Ve-CZw?~~{6|J2{vnp*4z7#q=k@*lr>^dG-_^y)~r{^9ub%j35(a8
g4+0+LXJCyJz669#*SdbdiA_kQ30sDhc=MRlc=ccIBF7Ef&8dKNzUd8A1cqo9Jy643;C&L{6~Lsfoos
-Hd@e$O97K;-@leYNNN{GLA`KIU~Wi+|AfPJoLxxyXB+z7vl%Iesa((~`N5+|>SEv@bXkpKNROd9fzR
QPSJ^oH4a}ypSXE_7M!sO{q7W=Z_WisYpo)(sW(S9;NQOQWliORyQ|A<>VCWAM|}zB^a&q6!1OhpZ=f
c2md=e`04S%f23y*`y+h8-Dhj(XCmU|UpGto_x@8gq0{`Zn}_bhj6rl?6hHAX(@x=Hm-O0rSJ41wQsT
Z320PTuw%z==1ih-5%Uf;?_P%?YYbQ7!^b_DWX}=YKwi~HtI2x~XD6^&dmrzch-t6C#XzoiglRh&sbG
eg*X;XYV1)kbmlKCgn)&#4W(PV832_s`&xoD4$ZDd0fD_3`f_{q8=ca(YmAa7>biiMt~LkcWGIDhB4^
)Ug%jLwV9i<SmpNui;;_4!p+U+47^>gaS}`U%&3!3joGS)%Dz4e^csVY0}U=kx5)9QE$p>4OwvQ}|Rv
O0P1he6BU0`V%VgBRGPWZ2GM{mM87^+$*M^j#mf6)5B+H8i2Hm^&08Uv|eTyG@k3$@>6?o1r`dlri93
}{00o*=N<PO7R{vKtq<eCwd0Eou`p(bn)N+4#=_0mhJ#;Dj!u#<p8mTh#WJ+t8?w>$w6u;Yo!g{RclS
?RK5u#1@Z!gu=`A-?pwTPCC-J;@TR_T3TU96?z>Ux>)1BB65Aqh9;}lp%Y}6AL1@p1%s>pB1dXRael&
d0nQb}$%)hIX@{4h)ja8c7cNF-lXYS)>%Io4fn?g>wTN1khkE4|9@ueQ<4i>Hw~u9hkLV{*glP`j`;i
N_c4)8CXJ(C4JbAHDfn!dS3?3h-#4{k|cdhLG0x3n}zD8sRE$*n(eT7FdFg{d~Uj<)1a>q!vkIKPefX
A<oJw_JmzQI4jBkl%GcCS&N!5zN34S0!}Au&?|Uvmeo98_?d$H$*b?)y(g<Zs2uhBU{=(#4eH#AXsAq
<o-^Hbh=z-6x<39hw=YrW^Yj}0;NCzFf4zc156mb|i$G+i6jw^<L95Z=$tVE?+UB4oJaz5QLOhVdUsV
gdJaoRnxP6=32RIn<$adY-`~P<|RrP(a1WlKnSi+1jJM1TCr;lCtSQ-gkA?xZoFVk;Np1*A=KK9M0_@
-<8w$+&CL&}L_dV}7PTuLjOH*b1TZKwmyPZgSZ6ZXCZ1aBzhFVEH+@iN;&EPQcVcy2W+n6WiP+Q8k&b
vezQC<Z)vtDStAd=c{{_g-9Ol&tPxN@x^Hj(3lJ$M`L|0%X15uxvW2v0BkJ2+NiJwcts5>-+lotD_b%
=t<(zVDo3uJGrPMj8mxA{dNO4ls+d9_ghW6OWDbbY_xPQwj~Lk>w;MJq*@K&hn5u4HdEn;R|}-#nqEp
CCcVUL$zOZH4E^H(mFzQ6TNb!S{L!<s;V#NG^G2$LX}CF7tM=*KY?tTNB1MLKNZsLIqgWGjd~q}LE#4
FulQe_BqD|aZ;D)M%fPelAr5HIr`8Z0phsj5ie!dNw$C^f(jmOZ;vfKQ};PGeP<FJ5u{}1rgJzfMz=z
r-wz6>A#!2`Ysfq&^ezRY7H4Q#cmtiepA0pk-CQaCekLHa?=4=nnr;9Odq$^O8<Lwdy4)#_{qb%j#8R
Ww8$j-=VzzeS_WcPblb7=Iyg%1_fT9y(FerZ1esp_x<67)!zuFD&mH9lu>HMS%);Cq)eL`zUC#=nw{G
`f3^aBiI?xr*eRGAN}|nayV0Ls^pp4w^S7er9S-^PZgziEdM~>L^#*5*1_DCxK8>REUm!DsaXX5JHBa
w?FhAup13@4w784Dm98r)J3V-Uaq+v@j1a)0IG<P+b(hw8KLXfLD31mI|0w~)W<eU=s#v8H(Dvr|D*C
L}3L{EZwZAz!Xp&d?IwQx#lk{maKvX>Y;y1(Cp^_?4??K3H7MXb3jTM(%`xfBS^f3bj+^QRLxn8mxpt
%QWqPiUTDV<`J$NN!YImdWc1ea66+AG$Sl(KECRoVGe+M6p^@Fpbhil5d&F01H`+7YgB99<Dx&i2=t7
|3Jxf!3j%r&)d3fD9C|fMWmFb!GRs96WNf?Z8t^zDA!Lm79b$!6<+OJlDvfJ&6!PX1t;S15pr#huADr
wWK~H_7G)v<Sv_$#buX#%bL0;;*Q5p4{cLl!{}bgP$IK0X{_&*%pwZL3nxp%QZK4YbX=o%8Ux}Gt;Xo
kYptvr!Y&5qbG2U&Ki61tMm<uRnYkW0@)o+u;KlK{OHhv%_O_^JqpjQ;ty}EGdk5~nD>?R=hWmMqA))
MM@!qq@9(GOQ-TSx4ufGYR<vZptuTu~Y%x6MA2a^sMDWugNc2uqCQ8hAPUWM`GG<S*l(P=iPPrM6&{u
{K`c;vpu%M3(=yXw_qo72N5XE>H#|3k0m$rJeDSio|wgU$PJ9`=X#YTE1f`@MG4{)Z2im(KJ<n4WLT2
0VriiL_<#-fOeN)=NPX<L!98Su9NKob}bb=i)S$RjZ&cl+>2yyrrly>)E1{{P9z|ECUzPgrVk_my^)^
h`-5g3-&jDZ+DveNDhfG-QB(mT$VHgBaHSZ6Mi;9pOs&`f!^eXVFr!(rUwylXiX(x{r*set;RE+Wy~B
v*PX5E)m^)g%Z}B^!Z$m*^-`qo+i6jyf82sPbo_?9jV1DSz}hhmm#F+{lSfnYz0sih_o@a&QjNR%gZF
-Me`X&@e>=Ld<j!e7@s3R+fi$$z7di>W`NmNGFir-~MyfBf0=q{f;D`(B4m)dB^?Ffm-?31w@zX~4Y+
C;##|i4d49?s^Z?nEQ_+2j`YBSUcdP<s|OHH+gRJ+uhYDhuR5*GKOS@*)HQmvhg?(@^=Hr9EZa(86&-
)oxsm0vtjzu%xc6JQ)CuzL(9O7iMmb1g8TVpC4=@`Bacl*XkmI=6WRTBJVNr~w*&`LE_t|Dk$GPs8pN
pD$74VN9I}E~y#xURS0+PC;SGR&_TF#x)`5xumW7o0_|Idhv()Lx~3_{I?T|`=;OPdP})9yH-R-;i(s
d;Zt{rpShk5M2%G!lgWj0{FY%EFAmZkQ-WrzZHf`*17CWcaW)NV$yCLF0F1%`jW9YWpM_Qh_-TLu6zO
Oxa;jy^sX!JS<Wd~#EA|^M!r%=Le>n|CgBWWo6AL$EGJuVe$0Kh^o7JLN4`?Y{6ZD|@vy_%0q8#8hwm
OleV0Gcl$(-hNZY3S@?s;9UkDXyN7Lmwl2P;Y6BU2okwN3iWrZnN>u-Qa>U2j)@T%sM1U*_n4!id81E
dLY6bYY5MViHmJDN|hdkD_ef3sq%!54^VwO+V_l`98K+<1#Wx3s2gW;nWz|@f5g^f!ZPSR%a47PEFH+
pP2fqErF<W6dZ#$&fBpKhJ9}t%t{%B3)e}4=SH5M>0<4UE-%fG1FwZuMa?fR{Vhvwih8}t7AjG5*L5Z
>g;95u#vA)8A{Le1tR|~EzbHNqG{Jcfg0emPSnHY!g69e4e(~jso7(Bm628y(R$($d3<+}}V6NBsT4!
`rAktv{5xip;a{+!&(E6BShPOOX9dWJ6N}W=CFO|{{7Md<Mq2962tHnHw2Qpzx>#NVk@VF(a(@v2{&@
?aSVkg1VIHX{URb>`1dkxo^)aG`MwfCA>4!kYO0%8B?n{N(|Uw{3kzvK0~s@5iHD{SP)#XEGg8gqY?c
<M&NEI|rYFp0lpUxOucMe;2wZ&V2(DK@1{FRk=spX$4htT4fZgqh&NkDVus4}e>S@9#bjECkamc>SL@
W3be9UsVApr9STu@57@hD3G8FiQ$XrUg2TJ`7=E-GGClC(tkKTB_tBG0$zw<h7JvhrR6$Re)Zlc=*XM
tJDUC1Ks?{dA=B>EaAgc%x-VbmJYmV-g0WFi0CV3OmPrHV=4^pXX6UX#ckkE)D>%d-s*720P2z1Ny~Y
q-ywNEeq<sV5{Yq$Z-WJwr-rDkSSlG-%j6>M}E>^Fyvbeyh(nXO$Ud2zv3h9^{B<GuAVXmgNc!~O8s3
kjKc9fm@BewD{3vP;KvB+wZbq?K&kZ+UZ?As*dHzVT-QRfDE!ZG7%jcM;N#be~Ue4gt><L~e)idb<9M
0k_0G7cf4k^%W@C>H}sx;{ErEhM_KP8YxBy|>z~wklyT?v|#OFR;+xN0bd<xJc^EW^l9qglsc7w<Pwl
t<J=~C4Sn#qdw(b;gm+v=F}rfXH;m9xlXHL`;;>EsF2+=2>eF(d+xgH-d35Ptp_@G64?S?K8Hl&QXKM
Sg_V9hy47C-`ZeuMEip^Xjh|m(e#S}=q^~U&xn!!6QGtUi`nnk^_;zb7F~3W5WgLBH@dx`iGBgS@7cd
#u2jUc637W8XGPqWf^i7PjBiJGE3Si8-s{&<P(XgXcdGLW(i-Sv~RrXE+93xdPr=nFUL;7sYAcFusGj
I{zm^-v3B?rz5c?#bH^JT<+wC~*1!;!X@aM~M8C?b{b0pYyEyCT?yBn`NdKNo>mvEhMX+A0GV?ryZF>
A(AIl6f}jGLZ`O9o54z58KN3cs!0ciDyKm-16Z1P%b!t5%!*-kN0c>5aPuTFlYk)d4T1*FPjdc#Og)s
"%text.

(** Lines 8865 to 9014. *)
Definition DATA_58 : text := "dNad}Co^}LSqp=dezJl?W>ps$vk-%&)WiVa<dNbTcBqQM3xja<E%agZ)u1&@3dbC#3K8D%w_CimC4kJ
D;~K-j*qumu*w$HyG|*`MV*(8)mf@glGseA!_t*c_5bve_VgI1wncXC6w`f%l`3z9K<7o>Vf1><<7fr
yu_Fbx_r_B=MA7I)Sa|*05j=KuuRWM=D@ZV;0?kObu=7Jt`^I+`ESJg043*~BfNvIv-CE`t3UQOd6PG
<bh>B0!%wy_HQCyT`Mrh$1|yR&bM;Id;B^JC_SqR8hB6)@#KM&7FE3Z`xisQ#oNpBi?fKR~HqnySPe)
Hz5sSWkkUAW$l>p~KQvO}?2|2N#X6A@WcS$;enAnxWhS*+x$l`nn&|%}c|FPY%yS8I||{MXO+Y442_Q
k)uHuTe~Q-FLrS4)Zgl<J^h0{_iK6GLmy+r7I;4+8ey$Hj3JjcaS<=L^{^+tI~2(xEHvW?OWhj3sAkt
e>5ma6`2s@~(+^c5Bty1^U}(*HNbLC572-K8t#9754A{C)C-jr9*rPEBf-oCkxIOPYyXS@!<wGC?Cxj
AnW6$x!5KZ|{>)p5OD$i+jGO4&5?k+%fxI2T3#O|3-F#NxP6NsjXZMFP>8I9w_JfYk>YOI!ayPRJwn}
@gaY&%M}^xwIPMyEbRq_l9{j}Mc<WAd*YJkj*><UfA*7<TCe)<7_#?OfaN@MQo+sWSL?y1d4J1{QJ)Z
T5{3O-u3D7Ak`sr+BWW6-$%$VjocH@{eJ3t)>mH*{J~#xvB;v5i1(E#~0Pm>~K9pqUmE43G2g;|I5Bb
mRJAFFSQio-C?8=j$aAm0q(v1=o6tiVUW2x1P%8>HuuBZ<M&6Cci)|yym|XR#^#RSFl+1gDoo15QBgc
xg5NjgqA0I>w#2DpYVABG_vu#>hHg{egP7+4GuguMELod0C<`9v5r%mimJl$ZfXDhqfD0SfFp)X}13Q
kW@DQw{ZS2FXHfvNjsKy~hCtst*b~Wgw|0Yz@!^<-3aYzRi-q0U6w4-XB1BM*+06DfBzRDU6zUn{P5D
Va8j*@|*I{Rk;%q)zqWoq7cWA~8}jm~8XyYpQ!Oks(ec!;j@(-#e02jD=(v*~{Mnw!tQE39^&&yZD_Y
M^{97job9RX)4MdwS2Sn>=nMVrW<*jgYAg5p9G81Q&;8>uSyO1vxKl{Wk!hEPwh#SB**0ig8e%D*P}f
P)Ob};I0+^#Z%;4KAo_#i#U)qlLnMg`Q?L)y2#5p2xP6qeoNH53YEwAyZBBl9f`tMSieJrnzU*!Sv`2
KE2Sn2S=sxU4PDvm)LS})S6bqqJ~a#^IW&TuWrr5mNBle0QEpLIG54<SgoK-BO@sPuOoK*~nEXm6s?W
xDTKDL6pLZSmCA`~T=tfFUKDLj>ckomDmU9NFCAJ=+i$IRSCaRB%FbK$*XjHSY|DNxnYRTe(Hf1B)Sc
;Ec@NFghQ$N8#i(P|$Nt*9uQJgpF`r{hyv_aqWbA(BnF?gY9k$@?GJSp8jF>eP>N<d{G*%N`OnT`caR
P>ieYQvH|8Q?CGgyr3aUDI13?|E)+#EWE*aIVYWe{P}K6M|(IwvofPXp9r(S`M{&^RabBV%Jd%EMy~N
@mUz3IkZ2;)QvbxCWAG-S5UfP_n`m}Pr2!tx%ZlZcf!U`+u3eD-Kp?FZ%D?}6D8FR&)NiHR}PvMK^}&
^^K>3{q_^yLEv4Es_DS>D_Kq!h!bZ@zM%3Y%Z;dE4pR`7^3$pLC?}AOfCl5sGf~sR(f*?86!MMJP{s|
GlEmNu==ZS`=9WlTyi^s3i^X>rTs6XBsV^jMVs-4Pi?u_YZY&Qw51JB{??CCb)^$O1Oh4@UkZqWj7EI
#=&2f=Wx2xH_ss;HziE*ph3_WSHT!l^x4SC0%B6B18p;MN^p=i~_{KR?0oQiF`=->^yY>IgiRgl(GmT
JBK7j8(aHk?ZE0y4SHg+*qh(qlsMJPPY`PdxZp9osNNk+G%lRbNlk$y>mT8d^Yp!$1@2!W6{IceFo@6
4?EIPzy2;Nc?9d*5<JwHO*1zaG6tBGND2(Mpky&EePJm<lbri6Pn?hqasm^##2Uu1w6}<*S2CbpUh3M
}9Xn$`d70nji)uxVOLR}EhbsO|?Gz5y!t870Ob6J&N#z(MHsLUpP}?`qhOuqw&C~!HCGB^x@MsuINAd
#5RD)J<oqd0(vv22|v#W0zraq}lDcMMUjBRftJJ_-LW2mwCU5P<#`8-5>fKAzRQEVREfa12=;(zn?j4
mp>6H^9eVAr!hs~ExIuIZ;3DDSNK4s2xBLUlWNjas>Y>-Zr`o^}_;Jeogs2(6vDK2Yx12?&#qhh4)qX
O*wKz95E;5f^RHT<=dEbKY$vfj`x>37x54bDP>}T5FbRA#e<Ckde{Gtw#}I_oEQpt}KcO@DQFqk5&}%
WS+wk);SsY^FbeDcR<aW=rY1Ue&w9?o4@}og^I0+!O!e8CLG)ld0l(rrDXjy(rn89=F+cZOo69Vr<CM
Wj4k2?oq8SHdvWj!indIiRM*~Q2KSB)Q6vKoBEb`3W+<2DL<dNB0AMwKz6%3%{1FA~q4?l74uZ5*Z_O
y}b>1UBZ<=H})!ThKRri-)R2#Y=P~-~}QG|fyew68Sb$zLnVI1K^ZiK+H|9l%;{xL((VQP#t(ZxOW5Q
!>Hq?HudrEa|Cp%9=6j%-B!M(=_N==ZNU*<eN0J)t*6mP{>(sTrun8l_ZE%vaYL?+qRs8n|g-zztT|D
mqQYPUv0Z#P+F}d8L}qP)!`qV&G6D&3C>KB7pw=x{yc{imNMD%=><C?rYq-@Op{H$F_cSn`Sq%!*#6t
?bSkCL-z3^3t$@&kBJ0n;AI-TwC)|cMT@T6;%hamq-9vGNXFEHtAT=GjP)CEyn$RrU)3q8j|zV&3YRh
In{Avhs-{NUXV+1w7Np~>L~}DNl|~oOnqkWt5EWI?X_3aWIj5aoI4QP$7c=JP`1Ub=>y9)96Za6wGLV
@GoOVe}5+#bVO|elma3DPmN2bq+nQUwKu+lJP<8&yOVefhyNtpIMw~(ovF>G~hl6y2z-H*Ax>)u=S4q
ipsKlb2g-P>(}BR_Jri~0H>&ABWIwlW&H0pAYWq};W~V4L*q<jtRbin7n|nF6z)Y?Nf|J-TyiMT~^)z
2=F-9p*qir5Jth%B1NEL~ct-`$>bPXRXAEh_xCLZjyFHI(|r3E7!HT8AE4{@DfD=01)?7U<=-}W$D9K
SkV(71xrNZ0acpv-GawRj`BQilEiquJD3Fxs?*5o)1d*k)Bk93sO~VM(mi-wQ%$&*Vjq6G^d~iJJCt8
wr0udV?S|R40gPEEPR{rVu{}~}CJ5cLe2({2k6#{rfAsB}lgZ2DckiRH+T$YcD0#y$oQo=rM@XoPI*@
$G`_q=(c2i3nLHdLt(A_JbPK{qSr33WzcFoJ#qwbgn8TRncNjnF_8xyr5E0Ed7^adHP*f`XU5~}@96{
ReY9sUEJJGM%3Jyu}^Qusk3t0*`5PU73K{i&x~y6X0a>>!ohesikCEuzpJM1dbB46As>KJ1za4}4I0U
_6Ty^tfYR(vYM6mt?Ma3V@%qhK%EDdfe)!OMABI{1ee9n=xw6cQ==WOKu)$+AW}=(%othQ@LA>Na2=&
IS?lG^S?*Ujtt6IvKIwi4qG(ZL`t_qbRtFMJi~^`Nb)+9yI%cZeEirLx=g)?sKL-yN(#He6gM9&uPwU
FI+LbF{7h~Vlz0lO%Cfjhg=Qr}k|1T5H3izDmS0c_HvuV^<}C7?tW*YokufdU`;M_wEh@XPX&Hi)uAL
C^PA2Z|L=&lLv^cp#F#mB=+++(1C}Kz{sIZ<%LD7pK0E5DqL$z%ai+oZxc7><DVjI~rZIeW+4Q~<oHX
#;e&9+L=cN^h|Z#*PCbB!63<6M-p#fH+Kb-cL~=Lhz_-k~)o-qS##l=gNsge+IP0-e?KiRtj_>G@gM^
2VKzg#gB+z3>;lRwD+~6gm!p#(<nE0Ju!JTuu6l9==E4W2*xPDYf+I#e$%ra>DNQU|CH`FF8L=PLdSI
>l<)dVqk9)j>Ni?=ng0bde|E!E%?T%*)l4%$uu-6Ijy~eCGr0CC{^eDuzA45Uis%0egt@cKJT#!e=y3
teJH_2_)jNA;m5>>Ow56fU!oNkxP@dB24jl&1N{arOvBqRHVcdsjA)OWqtoKw8@S!yFXbQ;b184_zG~
X%lcjagsqFCO3Y2bOe$X3cJ&3^PMdr}tEliwx<PeVq^6Yu*G;$#^=8PQqMK3V9A?@=D*#3OL76ddjLZ
9;lN`aWPKa9lK#E^=>hV7N6K4h8ioGal`*x_Un1sV;<HDN6tYvF*N7M<hg9^p@f`g`nu9-%S?zOS*0^
sS;JF{7HfH*~2m-4tBrx9(`>X4xE03Vr7%oz-#$&Sr&ykS+`;g3uHgpp*y~{Ebe}hHk?|Htn5I9K$))
vHADd?E8rvoO~mFE(q&4;k4`gV!<~}Nu>}Hn??aJmPodkbGq=2E_Wa0d&cIEw<Nn!(zZo830>5(ZN&)
qakGk`X5jH+oQ=LXArKWncfY~A>lfPt*)#KqtZZZmH(D#*+=r>~Iv8mrx}1Dk6E%Pi*JUkkBhf>ke#s
p+?QPSEIeEjLVZ%>e5>FJo|M_Uw25XOR(ESU0uQ@PCGZ^5D<Xw##338)wot8`ZZX<gKJGI=@T6yPDo3
D2WYbCk!w1h=zgQ2w>k6mZ}g1In8-y*i3P<?HcAY^m`x{6xM|9E4dJ9)xGc!wU^p^<xwJlqAK(|r(t_
;kI#OF!JD;)k6Q&6ao#<}asNEsO8Mgz;ts-PuuCsvw_6Pz4fb`nA2$kT<|14Edp`99!6gOZKle^{Q$(
@<I(zSDC;|S*=|SQx5z-Wiz)a)fJ88U(lFw*k*UqBeyxVwH=v;yK3Txt?9Zbxu&8EIbo0HUI|k@twYZ
^6n~D1e~vK$-v1o*q#}Tg93R9&$0Rjqpi}+Va-~p90Almbs8j7S6yk-kt?MTAYvDb<R8!~?{sja<@nv
lABm<7z4NNsbe%zqBTKk?G6P`f8N79-UbX|mkJfjI$^lunnVmuAbER^<)`7?CdTo<e4e36ycJiJFT*r
s)Wku8MW+g^qI{g~C5&5likQ_`62pxfD?^vFYR?A8MVe-C}{z!g|RzyZqe_r5)TeKa|G{gOyGHT6X6-
iPMFU_X5@{OaF&!<6$x_SvK?mS6Hc?7evN`u*|i?~Wp`fA|oEp&c2C$>82Y-^1HCu|W(z-2UVAAUzvC
94aU`pf@HI_4WPH+jqxrUdLYj!}zOzd<p*>kKsR`jsNj~$3q42!Q``t0aQdv1|sqL7H?hRz@8UxUcGu
Afj+YDz4_zY=P&+z^gf1zQ`_prj#g*3)vGrzzx%e0&D)2A4=Mb2_`snO?{dd$Km5kbKFuZ>e0A~%+^J
ul{-1-hheK7y=>Q)A7TZtg>1vD5Da<h5!ot8j)-ThCfdllbz2Hyz2L?704xhrx{qfDaqvRj><@lS|Z{
8lgc>eBav}a~$1NzYVc>)}2?cY2Nz}~O{6EEq@o4h19A6_m#$66Kz20`)BNOoI(c~^8_sm@9X=tLISj
0Z!x&y4>>k3x8}nV5ih1qTX7wA%FdSa3%aK)I&fShFb2*c(MqennWkmq)FG@8r4q<~O4$p=FGUPtmua
2c9Z4d7G1#K$m6Fr9^{4@8jv`%^4QHz^mdpkd&GaheLVM2PT1}9IN3F4{V@au?YLbY8zuyTf<Ix)S9B
7HD@Ol^7Myr!X5ULhwhwnZQCGt0x=i~PP?zCtzKvsSkO~N^6ae6)N|x5DE_=2Ql)XJfg7*>RrAV>F;D
Wo6_{i-or-94DBT!FD0!1uQZ4Xy>2<sgm{7ZnBB5(fE*t!pM-W8nXLX5p>7@8aq*BO9R>OkQ_4QQU1F
M$-)H!bJ85$?jBzb|_erm==S@>;0sTq)z*~=H(wAaovekp+A4ElkG)@}ob_w0IsVejLo{!@=?q{B!kt
US59z7#j6dFf;%^HV@J{(>?#sMG@ah*r3U9CTb@h9|QW#1;{Jd@-#VU75+k-8Lei7<Mwoa`E^RmW#(5
juAzVcV68Vzu#D{k{PMZ+b%d2wW@Ju%q&{7fhNG56?YKc&h8<V7lk)bUfvKJA90}T0+gEwTh}bn3U`L
H#l|2PVjbZt1F0u%Iv(1x(U}+4)nhbh>iE&7;bKEWPfeWfnA(lEReg;@Fi7u~s1OuQR?SnH;W3+SnXL
x;)oeaDS56D|K#hS7T1LbT8f_m0nZEjJMUV91SHs}hIMSBa{mau2w<$;)VS_^y+@KW_iD@(ZDguVl^5
uuq6vQfO@o(H@*VS&!cBzzIQ_teZJ63qbW~h_^k`|E-C(6ncU`(As^GG$5yT>moj7ws#HP!$*49b4U0
p3(tlZNneNPpw(lT(`F6Ol)rp6N?T&7cSXWuG~bLM)<0L$J0$b=3cKdPqBOI`!`4nohZ&<_sRN+DXpj
6;)JS#Mwx~m&*yIuoO1{Y_yW-gBrndJDNL$lH~^L!jk2&PboHn1{Ph+(E5bEY~73OK_y@Tcv@J!w{WX
0)62Trtf)e$W;i1I(7kd*8eBc6!2(gIeg3<zoEJu(qR059f2Oo@DXwpxke-*cQ{JIBhL6)lzDi$s+W1
x2BlpfEy7M|#Z{S4Q{PzUQ(YD1_^)Sl3y#fCil??kIQOeT21m|RmKZcH|aIqo=k{^v&dB+Z(&~ox*=}
!(bYVO+5rMH#o&4{QYf;~OHw@6Q|jYQ9{x^of*FE1Hhhiz%yp8gy3nXl|_L*!!<LlwFi3_f3_ricLrt
+XVa_V8bVW`H;8dQ7fou__P)9~!_ul_zIom9u26y~W)th{q7EA4e(P!HA(Xnu%Jg*96O_3`GX+EW89r
0y8OOp3XhZ5?W!M(wcTToR?hEci^J=@dKlatgj|a3QmJ}TE1*1n`o^HX<?%EI^x<o!}Ho}t<I;$@?De
(*li{V_1BumH|Bq%7Be@Ak`VD}RJUu}7}TE9?`L`!2m@&E{T5R}0AiyA?QB`y0O`$tGr6d<OS=2m1lJ
0Y7=+8OEgep(uhSsV@3N^EvMmi91BRQRyT-E)Lg(XtTQ>wa7#NR`<VAFwW5K(Ae>C*s6HHImYU1UshI
W%5YS=nxD49{ERrK{$m`z^57aJhQ`|9?Qi5fP$>g3PgOeh5hwBkr+cVJU70~0~phUD{CFOQaf@)lYy`
7@2T6Z6B#Unj4g|JR$hBU?x<^0o?cMr#=w8C&V?s(;+jcwH)I?C1x8pS}q7eeYD0;lyKOY$s;arUUsp
kbeW?i<>3d@$HwOk<1#K$e(@#gLY_ONh6rKK@P&OU;IY8*1rv3N2{%O5x@?%?uV)qYd7Ecu8<&Ynidg
NWqtR6T8fcDxuyn31Q@r4AkH3qVPAK>@WpDad~nmiTUorLOHwAt|E+a3tbH1WB)FsqjJ`uoI=gZxn->
=sIl4}Q2m=z4F%eCSxskERc&KG0Nad4oLqJ&Sji(K;^f~Io%kW>a|Kh&@p<UF_A0jL*8W2J>ohm$@h3
pMwUJr;P4V|f=I7D>1V>4BM^E+k{!^YVB!Il~OYG<|HtE{=2Ems{@yg_@{Gsm7p2N&$X$iwS=>;D=(r
@XB`jP>D|2{N&MtcjtIpn+FF9B1EY!o-IIQ{f7c<h{CZXF-Kt{f-JV@@n!2Ze_lEkn&H1H0}m<`Dugt
atEYO8`PIO29^KV2}&doCCO3?Q{Qt!ymvBb#gQM|xC&1oplC6UdXi*ZQ0J6duSV||lZ#Dhykkn`o!Bw
fGz*4b-$!#sLuG7m9~K}jQ~vL|BKb7?Y0Fc{)>!gcB?wysa=8^imJ4q{z*#)nlncC3iXu)}{#k4#m^w
|8L6PR^h-@!@+NA-OZE46T3?K$gL<4Ldv(b!!4~KyUAtNJovKH9upH_MeUQqUmJHrm`OTeM|zb)A(nj
R>9Vs9NI_jz2T_MVQ4W-{na{Fi#67v2=CRc$z+p~=0DQY$`1sWSkfh!UL;z)LQ(*|uxs-+phSEMNsqP
wBVx()WQtRx|<)<K$ILLSz&pfZVc%+4pzH=<X*!Tyf!27QeLcxz1--WicaC&Jr1od9Lkx`>v2ZTPQF^
=8G>LJJEsn#R4`L)-}D(7npdW-nUz3hFgRUpYRt}*+Pq>xi6`}c_mA{Dak;&%GP=uYl6@S2rLCc-T}0
9;rwvt(5-K*>)Xp9g4s}zBepHpCd!j;BuL&>;@%<-(O)c*OH?h%>LUIq1qac{nJEgZz(V-;u53-QrdS
TLQVua)E?-{Ty@YF!h|uv0LeVW~VCfu>|MftdEAZ3*yWW~VCxgEW^q+?mF@B!ophVk5r-ZDyf4G-030
d8!Qk5outv1BZsKQA#p95fEp#^2t%wbjQHB1>p^u5=QOEL%-vkl&;g@t{kDp|wD9AH4iU;*=G@;H5*!
Xe~Kvkf4I15oB%&wp85*0ea4rAKq^)gq6Lz43<x2pk$Sgt{!5u2@d`ib42}NL-GTO~``>4{iXT%m;=e
90rU+oP(W=yMue|X5OJbcMk@x4TG+JtyexRHClPR{wU>Jnq+)!c`$U_mDIXZf#rNrHgzBNM^A>QWY^e
{)VUKAgpFtlwQQW;tD-^gOVa<|3_H2XDd7kx_7Py|^M*J@+cn%WHxbCs6AyRB2iLLOlX<=(6XhqZw|V
PR7JR<61vSm<Xi6meLUMZ6uAgcwynW*(G$m@`ZA@XNuaT%~6M;2ie<RYDZ_|vB8wXs*$%QrNI*UJ*78
s9#naR5wGOB27%dEcUQU>^4QC#vQPG+jJf=%%ghB4rO?#OP&&wlckzx;(5#+^+Ob>pCRaBC(eM=Zy?w
y^T_rw-_@UI;g4htd}g%%K_%ULKGB%$GVXgYk{I9a4Ol#je^pdm8d452J$OeA#len=*$sc*?ire~Ym}
)rIyZH6n|<;1n);gKIfuFjLZ6HgNjslT+=PaL2*-pu98wV&(`az*GjdF;byc(@M67CDy=<9ZehZA)or
IF${8^Izx*sX4?S;(PhM-DNN%n@fx|=l@P;4o~<!$<n!7FQ_)iFDqv#PGGB$2w(l(0X|%$fMXp<CSyy
T6u5eat;zowW>2ENB-IW!Lc#I@{Mk{nEhUnnHl8b&#lYwl8u`z@X19y_ihHP7VRmxbqW+6z%aGFf2GA
Lc3Aet8gjCH2Ic-Eg5mRHx89Rfo?lFidyyWGHW!QOFZ6-nT`zEq|lb16wAqDhMW-*Sn1v*%@{`i+$Gt
>>;vBOQ2>ZGN8X6|zq$l<)xlf3=lpLVx#G{{2{<J`5sY>$%Z4?=-U+=R{~q6MTABw{WRt>=<!)fc|u^
akxoM^Sgr$O}A|qmI8-NWbk=2RLr7-#M)AtyXQF!TI>k*Y%xzKV_urf0~&%6QTv>Y+6oPGGF=xu@9=X
!s}<{=ZkWZIAJ2Lrt`RvpC^c$|9{QF+nuaxi;TNCmU*@Q|tvQo%Q=(RMSyJxSYID9QX7mclh!hx^w#t
hJoC%wI(tZ05Oup>S6Fn&exOD*NMR0x~nZ;cmAG>kL<KuF00`Fho=y7g=T_ujXb9{!bc9*T~tDae(f(
I^U{ilPa(PB?G&&rbNREaOsDVrR~)q=|wax*MfF<URT-7yL=??J>EB`Q#8K3nB8=6vIEH@QZ-*jd_D0
sT~{;p(;nhd5TqBA)62aMdD;N|4<nUj0BcaO*(9Z1{BQ1%!ZbIi**pbo+4_BdS+{LTao?!Xuyy8g<ut
&GL>Ijdmoej<Nu0j1&Q?s7k2xIvBNY>&sVs^J7p?oJVN%QNd6|_)!Sbm_eNq#RNgmD3NQ(>9SRB2u-}
pbV8PGHB)91pRVUd0iZuLh>53JwuFwDWTOa2WE!SR?`3ZlZLm$;gKyUW$3Th#uND?XinfU@lD+5iesr
uNA*Do*TBwIi<+NVYDGqo#)vKh94?dZ2Bn{1hY1xj{$)-+>CQrSbp8iOWsdW%%AgTHwj9sA7w;)9h#K
C55QVqTGlolR$g8!A9ztdK{f(yUdZC))IR{MZ}-`!%J#|zJwUZau}iR5&!B3o#rcqXaU@L!U&&Fob)F
8w~T`PF&3S>|Zu9F&n#hLiz~Wje<+iMD**z8HoK3g#u66B%v8&<>6*z|faA(0!YEot1J8>t#VnA1WXu
sj#RnE@!+lr3`<!3S&MrJi3m`91wV|)5XFM!8IQ)0ZGI*SP?n4+mu10GTO>VU;BW&*97iAcwP3UHJ-L
#XJty5H7g+VTg-e%r>2zLu4Q-fRUW@j(DBHz0Lk1$%(;{+zV`^Tg6?6fD3RA14B|yLh&|Z-51&NM6kU
>b8^dud;|K5HqaIJo)fqDy{3}A6SJ`K6ilFg^GKJ$~9jnu!43RGs6fNg`3QVN1K`zUx<^-Ff%x?-d7A
S8O0y;1qHA!+f*tytcv!YzM*_uRL7(vv;+Nq%H>PfS9nt6x1hP((=cVi@ub-1op6H4WY83F)d1M|L=-
BH$n#D@-3jP8BERm7eVu|7oOSh*mW0W|1)rQOixt=1F20h5ebHlnaEJpEIpw@Z&evi%9EH<L+AA(g>h
kjph0ge3q<&+~$OAqj3>^aj$p0o|_ay%E(kn|vZZuSnV*7ezy#$*rpZXo`}|*)jWh!?_}S1v+~kshm(
G`wn$f!#+u{6{LX%ScayAFs06JVYDCK*RQ6{GWRtL_(<t}SDtT*1zl=G+oYE~q;z8O1ja<cXhaNhT*Z
g*)+v^y0v(s?#jLh%y^yM%H|t`(A=fvRKHLIB%gRew3t$wtRXwLHOD*itF2X=uFJ9GHHk4V)MtNC*%^
mT5k5N#TQNedNNx6iuQo{AEb{cRJpKr9`-)MU{9Qv>I4fE;STZ--7UjcIcAg2MLw982+DKGIzwbOadN
)P^PIic~e6<FB~&LSN`eGHPj7fP+a{F4FIBONu`thb9i7GnMC=>7AT&)+}iRXX}#NB=9V4=_0WFc_Ut
af1)@^a17D4NgZNhG)ZGw=+`|b>yB_J&EVX%o7rNlQ0lGx+nb@90C3*I-x3)-SQ6vuI@H7usx!)aG4b
g)*tJX=7P>|`i^Ew|Ne#D!|%f3f15+N<qPH?W?Xt|!d_n3%SEdubi8Xt26f(Y^7%RD4Mp{aJgmeL3rY
X$syff=WbkD8`{X?PsgGyC!2CKMKfx0ie|Lj=ha3g7QH#1Nso)E{Ku374pghJG0wEy7ywE~aTohE&)`
_}hj+YT+ROp>9b0(RXmCdWXDLS&9O%WY$cE+dtd-5s68F1R~`&WV8@TEh1iRa_9R@Mtn!aje}ey(7^<
^^8Qw2b>1Fx~s`WIX=x^ux2>$hM5WYyNa$E(1hyU&Xx)`G=7A4a}?TPuHgEC>g~pp3*StqtP#?o<j!Z
h*hz|fRA!s)v36?7sa^<8;S5Tj2)6crHw<uT@ev#x<3Za-u>j*hKbRkT9xxcY_V84q_OdxG+eY3=0Cd
QAz+lmkg~;M&=*r?bAV?8-<5EB76fv5IJZ-XZaVloR3jyysKhjdh%4SwO6<LqF*qTS*2n6A2|&MtSW_
3(!u!f}D-Qi;0=V%)3)-$-!5p@ZIukLS(++HawuKsw{PEv8ueN_k|NI=0aPh+qU;yEUhH+%%%>gR=DF
;QF@Tf-`2qE(&XNVXdJp%|TP_p~{ZVHgg<(dO>&BsZgD=s4*C<Vi#r<mAAnfaab;uRPs2T5xRDjs96m
6CzmhFbC^4TpYUxO>7ke8eBS8$b@DQWCfOSyJqLk(=vbD6yE-P8ih_`i80CmkT&P7EP=!<vvF%@{Ol;
v*tP-u=*(Xa>eo{c>qf413=3hHAM9)RUFjXq9n+VbZvEP6b6X0RRsk(RGX=@0S$YYUQA@P*zu*m^gOe
NW@<Y$6TGsGzW5P}stAd|N}hPtUfeC9%CADQ4m%!PUxMr%9$Ayjn0R$^sALJRV}t|6s=9^#Fg9UxwV5
0QNpqY#!|@csNX-QP+h(Gg8gOLp&XR$-p6q~c#2TUrw3fT?@;a|B{7UZo$;{l%2+db3YDurGtD0-(=D
NWBhXY;TjF-e*z=5v~S|#n&If^&?&^23w<M&6eM#=l5x37+0KYx#DikzUm68nF{hGA15%2}qQipQxkB
s1-y*~P(=eD5$39r&xM$kx%KwVyn4#jqSXZ8+yV+6)ig$E_zq-0#-a>X`7`iZU=CDfjT<11~Z~qr<@i
"%text.

(** Lines 9015 to 9164. *)
Definition DATA_59 : text := "@?s?c+!_5`x_WzUV*`HJ&lV?q=tMC@>Q-{?aBVDhLiAB}ig>D>sZ#NA#WjV|QeYPm{_X)Kcg3A{j?oZ
CFT?zL{QGoucovMDsKOl1I*0E86H|En+e|-f-+=|HYuAZ}4ircoM81A{xoqF06n3qj*$Bux$vB4X{-{
rhr{(;hx;R+yeLufGx(#|FV^rse#R3revM8CCVEjetd?Rrzb|J{#EH7L_-72aB=7N-eGg>a6NF#06T4
@hr7m{p<wHLF199t0PItX&7HDN0MLD!6JofXaN%!Eu$#WwOk4XyaGIJG@GKHZ`p#^fk5<r)>^9y}Qhf
pSDp<?009`-+V0OH}g2>rx6<juKOP)9)gA8kk0VS_xKl7!2goK?QH#WD9mh$`_90h89i>V&Pe>`XGqj
z~%-^QMp1(5dLM(I{^6sPj8afZ{8;_o`3so^8Qc9?~?CczkKuJyH`iA-ygk9ULC#v)0>ySCrPXwCNlg
?E0rXiY)YH3KMKh)7*jN{Kg_&uN3(Fcoc~~F-W<JU?G;`YnX_V~@64a?@_-0?qaI6Nr#<t>$5FC9<JH
AK-O{>VBmEQA;lKVPy9v1ZBN?x(VqzC9fQN~lFEG<Hmgn5cRQ6HeKXclQ8qILjH4#ocPR2os@rxkEI4
aKCneHywXfhU>h}K4Lo4SudZA&99f8OB#^*chMOuZ%_C*I(9Wc@~y%iB4?YOf5v{J8c4>Qr6$LE&AE=
ocsL^6PSSQ{yg8_wT3lqusbzdBm!&o8wiYxD`JeTbhf+%4_#bOMqelererB>NtN+*F>)BT<!-zU)XK7
rF0ldfTJ8WI+{p>l=~N4x?FXkppk8igCbK*mgAVJHDBL=0R|>$Icb&|UBiUdORfoL(%%#~N}<eVvyGI
q441;EtkfW1@Tw+7r9$tY)UWnmXLzxVjcs%5coEb8#LMQ2S+xFM<BfrAcywUKw9cWof7`|;%y`R7PE|
n~ebPxS*yQxFAAb-jl4QhCx=jspUDbH7bfc2wS}(t@bZfavonMj?MC9VAD~y(P%Jet+8a+zzyWAn+U2
s>-_+M2IJtz=Bp||*s!Yd!?Sa*Y-nzBI7{Gc#H_3v<4lga6mL&i}1k<7rmmx`|xK)ZZ(uCM*$cv&pZO
zo13jKYaHxUD*$vZZ)xUbj(gWR;<y0fQ*xY^=`7A1{u<KF=3^9S(hdvu2wl!;QLT%)`_5nXF1qIU^Gr
^)yg%TfvPi?h+aoBt?;@oKcd0#2YBhY$V_;5`yOPLd;#H-Zi+=OwA0QFSF|$9yIo;p{esNF6!itS-b<
@b6$Ns;MOSj+o<>m28IE({qPo)>B+nAPEOvuRq<sK|N4gMzu&`QUIUa~aP51=RpG2}+T39vQyJ-04))
J@7&3??_NmgtWh2B<)`=I3Khu(iJg{SVT>bVpzcJVilOz>F$-AX*E(i@&K#J%ilb1&nx<M!RDuZ=oK6
!*@vguUXOyvejG8nG_acYeyY>b<kRM<i9RDL-VeF2e@Gf3&pfLurdo(0XuuKc6%m#8}rtY{&Z2OJPHq
(^Cz9AEGR`NFAk%Xw)0qQrzMqb-k*pz)}w?)0`#HA-<qa`m}P+G|wczLKz4-_~c)pb|c0w$2^YRbsL6
`Gs7BYvXTvr(u~2)5zWr+&c@KNHa4my7GjEv&*>=l0~bjn<beqo*W)ToQ>wwn!owPgY&uzS!xmkvS`@
?+VG@n8wN?usl|SR#SfCriVb~DPPL5ocHn?H+VUFjPg=Dd2o)?N-n+~!75}221HS>jTh&=z0MRlN0Ii
U?pSJW100K3!pa?k<pABH>66VNon8d=Xr}oYDsCdy0-KcsFI$^9wna3Vp*zpcI+Ke}iSB(G$pGXYN$k
xCC6r<W)H&O}*4#?yRdjfTF4bW;BLbZgM|BdbHvkaANssMz4__w1bKcEK$$OiZnFCSn0x>@7^%Dj9lj
q<EspsKrR_|_Ic4sbl<$3PfsIHOt-#Z(Uz3vcA<o^^Wo?+$t#ehJiuL9Um;rpF#CMlw7j+5$WhA^w)t
*{n)!#qs1x`iyA^OQcM)rkLl0i>|Wy7x9wqCg%>i`A-Fh;i5UDpkTkj<=DEf%&`DkK9W2Co)|=fN>OH
)$gt=6qBzf4z~?g(?_@q`vKzeMm0*~*V=DTNufO77WY=Gw_9xP&e@50Y`r9%+6E2BonmlV)>LH89&it
{<Q*+ai5y1qQNsrl$92g?qHKj_858T;F|DKR*oavrho0{ercFR?*v+G=nSKG4c(<#0E{Ny;vZnA=IYE
GHoyhj;>Xn{Bw)sDxwX^cX-xFFY*I38qy2>Z-gF2b#GOb*5Z`H~bbp)%Ds)int;c)bp@G7cG*iL<ARj
_blW9c6UDVNFCHY*tdH)g69KvMHUwgp;3}vyJ7>0<_Ot5MPVt+CL2yiea^W;BP>P=>!8F=duz)J>g~G
tQdeit)Pt6-@?hwZ3|)9dHR*bG+b?+lM}RUJ?E*-L7CvhZj9rmYP2O0zkV0vC1*8k93IQ2oZ#2hIvkF
DAg2#<-&;&3HZ^7n5ZSgC$P%xe9w)8Wo=c`VC2M-6!EESkRjR8~N$7G)f<TG9JQqSD$Fm~!!m}L=^7J
wV5)nAK$Ee!8-U36e#e>Y><i%4xp4)t}NOxg&u*jC@bH0(_kp7$6#Cp-SHA->8iriMC*camn*-Ge_t~
&+H4d^ztUYM6*m?>XIN_BIIf$sgkP)h>@6aWAK2mtey7DxJ8ag34#007Sm001BW003}la4%nWWo~3|a
xZXlZ)b94b8|0WUukY>bYEXCaCxm(TXUjF6n^(toSHm{S>l*HZf&N9C@NJ5S-?!q6Gfmky#bo-ZjJu?
J>4LpiP@d1^&!H!eCIn?a|L5o?Kxe)NHEd?+>LJUU`82VGXYNo70D|V@W-}({Jt&{nh#S}eCu8HuHcd
If(k)d36jA^5ED|wGofG^UEz09W{^=KIep$p0`djH1Y60sgcDdXjs|<gsW!Y~g1{S<FMv|@%{CHNgaC
TH5Kf-=u;xiANoGRD*_LJ`L%c-d9|FlU+Y$sy+iXfEX-YH!9kn`AJ*cXRBphf7NuDcDO2km770qo3{b
}^W3T$vfcntg}XJSv_ixuMg7qGmEHnNt{+z(*lgk#ro79m)!3+NSCUgX#zLj7=}IRy613edwxCxkmfd
t-MwalD!Ka~6-TgF%k|;7<`^VF%+m3akgmb)ug-_|%C!I}C>i0iF-`lkG(i&J|3D*MkkNV?DSwO#J|n
Ebk|TkM`KHToXwL_Bb*T;qZhWW8VwyKbMGxHZZXk)=bd|v}^OKvYJ~_=ws9Xa|@Slq;i-B{sLS-RJ36
k+8Dx$Eai;#L&Bknem2qz6l=><gvOEMd&(XIM}ehSc=pV7X0|uBm8-AqBR@dHW!N~FU<FR7V*1OdE|R
Z75yi7>OkH?Y3uK}>*Z~${VQJjyX(NWc-iosV;&`=@8&2XFXi+gPadx*<%}isEvOFiLM1g26$ln`MYq
LZWNegmNsppL3GO5)?g2UaYQbO}uD)udukQw2;7N6tvdc8QtEmUNX-aYhhhj)FHrg<U+IOU3#R1$+d|
AhnxzxMz?E1DBDZE%%D6iNI>%Z$CD{C3pS!i=mib>$z&h9LRMgzJQ_1%6$>zNx1MPa~jyhzMkd2%}T6
kO`Nu6sS?0jlrq9)|^<L8DtU-bVZFK+2y3XudQ3wM?`fzUJ0I<ZIY`Uu89t@28A#>d~0x-NXeVr4qk(
9_G|1My0!&CqYemNDM8IzsN-bx<NjF?PH=Qe@K{NDXR`JC_{yvy@Ey+?UMIP4=_K2=w(Ue{ki@1i4y7
8vSHKc=-jQZoN0Q?`9bJk*@}v?ZyAXwz(x@8<H>dr&NVx%w<t5B^8Bm|HG81)c8^2C3HkI0=bCe3F{A
i=;d~TxlLA-o!Q<9x*no{21p7y(hZ!kLTaH+TEY_c_$8e2oDZ`w&$-6_weux`yz{qU5TfgSrmuXhBYd
LM6G=jFE!z7{u?>(mlQ`Y?4=cJfopvr}6`<!Oq0O7aYL?|JD`o$Yf|;z4_b9ywccB7|``M@`6IJ1`rZ
EaL!W>QIAW>wfNdN(rw97OA-fxOPS#C4Cc5-RSb@>Y2Q>2kKJSD~4MM*L4_9@c*Eamg~W1sK34pGP#I
{Zz(C?4gKLRDEF$V8M4HDF9IE!^f6LFOXJq;&e_+tv=_;>^|%C@?2NWQHyv;jMuUG@>kFg3W|AF7TOo
C~w@f)sLCwA!?G#gww6gsV3nTgd{3oTIHg$t(XP3z?C6$C|UlE&g#!nrO7f5~n=SBPnP)h>@6aWAK2m
tey7Dodn?<7V9005H;000{R003}la4%nWWo~3|axZXlZ)b94b8|0ZVR9~Td9_vBZrer>eb-kEVi=YLN
_E_qB4~oHDM}(hkt#{q2m(W(#ig_@MY2oMwt#$q(<|Bn3HsW8K>sOU(%D^-y3}q{6cJz#cXrO1GsB(b
5%jt}Sfn9Kmd~IpqTXl1(`p@oo@N`)ma78Viw>NfK0SjGOZhU*;ez5u@HNZf^BeW}#d006xW7o(FIq<
ko>IPMdCt-ViWJJ6YM3P3Xt2gq5!xULA!K>M*>zb^C{{?8r%`bma0*e%F<^r{S;@0Br*O-P6`)txv@9
T^6cDkZoL+BW$%CYzp#~XGZ&*k}<O>S?M<KXQZzvKinrf1?U<)b*$gJ5`YQ2?ZG~mDz2;x{E8O{5$EP
rf(=M4Qz;u>IjFm;^^b6^bM3Gs0K1c*J5L1gBS9Tx_sr(49Fct9)*5aklvHw_P|E=_+7t}!AmA{+!E-
Im(ct=Yh|M-pdFrk06Gws>%cNHH;7eT)urZd#`QQYIgozHNA3A1T0gz_>7MAH1=k+0k`wfMt?%%YdQd
A``J+f;TmElUN#xb`9OvkfDA;gzng$@#PHJFa`!>LPkP{E1}g=R5d2P=U`SBYx8E7FKQUN&IByS6S86
E8JL3jM1Zk>DA>~wXP`V+s3x`$r2D30i+D`zyF{q4jge)J3|lt@)RFPN<6_{<s{k4h*YreAXXdLWIg%
7vY(sI%#*1E{5~;y(u?Z6*d58NiqTgyoJYB<l9+gGO>3j}sou#~hGGRD1bRM&U@*vJzRb;;onDTVVX`
WZ^6^-$r<@N3*M_imt*d0p{x`=~3hx359cQ>?#r1Pu=_`78xj=^*I^h_?-xDzZXI!;ccBQK+f-HG*an
<XK=>x7>ix7Pt$6>uH!dB$lK1h2Q=E%Y@gFI{KFW*#vd0THX5_3}t9S2%3*Magp<&FA3rlD4Ejq!E-^
7!<Uf(>SW+*90`2$23{WQdm;RkiM#|3v!XwbvHPrrh)B1di$KM2C{9BjINi*a@j;-@pXhOu6sbYC!mh
p=}mV}S`*&%Q^r@TgVZrg)XVFCm9nJ$s#2&a%=TSrLZqhh>})Dht)V;osr{>M4^`9D0c(roo#yE2tAH
=@8z7D#{#7q*_dMb0UC^ZHgvZAZo~4J5(t{`I{rzwIXX*Xh`;$h<5S^&Q`=-PXK`!L%NULNW@V)*0kn
fMb@#%~&;t%9|_vZoMyEj`tGg)xD#zqA3ey_4skkcIF+gP?HRQ#mOkIMX@%=gNCr_8s?yiw-<r1Nj%l
Qe1Yys5!ao}Ed#%kbNFIAb-i3m-CVAAd?~gp`G$hpKzf-WSoWYw!Gz30DlSdQYz&opZd+IKJKkgfv&c
qDt@!I0YKxLv{21^9_MFaQjr-?@mv?!75v)^D!@uDoK5VJbqyu+${g;2Ju!wxDg|<KOv7!$Ir_AqRg+
`3HS?8O9KQH000080P~d=M=nUVY$XE#0Qm&~03QGV0B~t=FJE?LZe(wAFK}{iXL4n8b1!3Wb#8QJaxQ
RrtyIm9+cprs>nR4=gY7_TBsm2^Qj{yxHUU|3MS2%OQ5af_vWdu|KvKKeW7{Mx&_hw6ZQd_W(xGIpvu
M#n5FI=cXTF~qlRSg-$LFxog{rqNpmpW>bH5S<XAtS;&ZzCq!EiHzXHT9!gPGE1t1VngOyqBrg_k$|>
$lr|uB!1y@4pGo5WJLTudG$N2B)F5GDMN)E`&Wwl^FB7fI?Yk)OG75xE+#NUAo)cNGP?zf;;4CTGMDN
;a0gF;Hr<hbx=wPh}cOZukT=M^4iHFgvRI_RmcMQa)&<>@@st~k!W+@O|6~U$j(5g+MKK&Q%xgt1FD9
+sytFjJMP*Na|%42iYt;)U>ufNddVhq0*?sC??*tANmoQxVxDF&VLXZnTW}z842a4|A{gaJb;ZOSGCC
s}B2ok)-HAGh;?;yDvku1=%b20a2@mNMDHb$~=D0vESj@!hPJGHlLOCBJ1tclZOPUDab5HY`uL}w>BN
s7+X__GuNnQhA(uk2bMAI3KM2HN>H$+5f!s&M_WWySmkOi4}8(9ZEeEP2DMDP?<GwhA8V&Qw3X6XXrl
zZE-;uIx_ARdhKL&H2o97TJXcTEy+C=x79d_4+_jCdCboyBZMlZbj~+SQ9R!@?Cm074)c<6bjeiGE0F
M~W;7?K!)_`&poq&I8SG2n*8jP9Ode;~*%F-otubwyrgDy#}>!v~keZ3Qvt(SIS9~SN2diKIU0nsv2`
4EREh8Y3-q4Co9}>_E>jiuxO#)syYaQO_f`V2d~B5Y=);)cuzNa5dc1W<jc1bUcq3{E$ndDuQ#o+ct&
1<Fs%%_^+J}=Hbw5_(8{Vj!2RPt$G2W$h^Mg2j#XXAx1-TRCxyPPA9y)7bRhdW(njJ1QsXW3nLKy-=F
R^}H@n<Qi>ku`3_=)u`uoQ|{M3h^`|z$0@B8qf55M%`*TLuuyQuHgD_QqV^edzL5{1dVs)xtYb9fr!w
c-xdhi2gMk!v*i&l#PlzgIt;#<Ns%*p2Al)A;o9x30a9fA-;zKK#{(-?8U^08mQ<1QY-O00;o{l@>=F
nWIMt1ONa|3jhEg0001RX>c!Jc4cm4Z*nhia&KpHWpi^cXk~10WpZ;aaCyB}(Qe{66n)QET(u8CH$t6
C`!ZT)*98O7hNKgRR-+vWh2Vf^LV|3kw12<XCO|qvyHvZ{JV0XKbI!fjK29#7Uv8eISgtg*(+=ERf4G
5>DCM$LaL;if`7RXv_PD$KW4TU5-c8H(C+E_+ggY+RLMc%epi8I}cOgYS7uMxMWcZ&H3s?xHrI=TmgI
*z-Dl@%JB!{e&81Rfdn@Vm<#bGP-3UJi?mz9Q$b3nw3OFn;wrA!LV7cOjM`6w2AfqaR^9}da9eB?-!9
;zuyEmCe1u&SG5s{5(Uh9?q40ZE=4q~NM+%ZkSoSU8LyNJPP7a2JL5-hd9^f-ro(01^yr5Shl~FoJ={
`aba{42bUoq9PK+9%V@N;KgHz=!is!2oZ#IN9v&OPX}HwvN&&Y=X)q}#6vhliV2PSV;ms2p6|t9toYE
21IkzzDIf@e-qRokHa0YkylyG@9=Y`?48sVSNbm*N9qoI>cQNUR_G1?r_IHTrhXJFXr^tpeFd!2$GHF
B>T0feq#w2DTszz8FoBFY-VHkxI@Iz+OhAE>cL1JRS*gs5|xrn2fUSzT+fk~(zdtqSWQ8<o>$s(X5-y
6}OPYpD*@o^Yo;FQ$>7f9qWqZv-)U6VpfiYx)$aoWb4USK9R2O41$CdBd%UoJ$~aWYx1VK&PuT}eKhf
mm-!sd1-?LgQ$WYTP-mMOB4J%LSk1LUWnq%5j`A?w47A8ZngaLF?<&hxuQ>-~5`l95xOgPRy)Yh)VNB
DR_{`GZ9asXqWSEJk_0#4&b%IJwHn;sn8)k7@`n&?8Jg+n3X7mp3T~d=NTH1E0rvHFDMH%<<-@9blg(
aMCMWzI--4)a=`#Q-2=}7bA(_(ceWJ^G-(g6591=+%N^+t@%0P>>N}^2vmu$tc~_`J>*sdoCB;6ZQTo
dObJ;~|H#+VDFBZL4%LPN-JBW0gpJB};&%+&a&hkpF+MVMfY)w1s6=*j5j7sNrGt66X)$H?&kQ75yH~
&_tI_+J|sjBAi3#9KT=dh~l<f+N+Le7h}>YUwy40jKX*uC@*_1m-g?bY2C({Rk|CA~0DUi^>tsm0DP(
0^)_v)gx;F%FGLb9^c0#aSzOO0D%(+9U1H))`{kUH|H)=c3^6leF{uj8FN%Q2uLIzhh6I>d0HF?>OJi
bb)<EDX}b)eE)jdJ-NWVkr%{u#IxE@^CzJX_F-b_75apGE-o%2zQj*CE)^tug%xhXoXg#ZSc>0Ks_qu
xch*i1fv?)^%J}0Ae>JlC*<L?jk5HRhd#CQ!=Nk^1H+h|JV{w0&*&p7>QLVARGFdnGWZi1JAC8KqgYD
~%^EXgS0|XQR000O8^OY7yiZk0@{sI61Jp}*&9{>OVaA|NaUv_0~WN&gWaB^>Fa%FRKFLQ8dZf<3AE^
v8`Q_YUsHW0q+DF#^-UKd)o&8Y~Qpj?@@3CNNo(z^(fz|dNhO;i>IQrgV|eTJY-4tbFz1)Ah#@+28jw
s&)j4jgf2zMrAQ6FB?%4A#0(_2v<DZF%;)%LKs*M7p^(YO`(ObUlQJzy9_Rrb?TQws0Y_kpHDD{BhmC
{<+!Zsv52J?n!Wh;Dt0hWv$XRv>G}qLlkLlL)f8Ii7~GWD3ooDy6Rd9?H0+bF58>jNGP?zhFj!mI@4$
?;YPJvz^se9YoU}95V4g;UfsgR<aH~H5E`SeRUr%H%UfI|<X8GyBGLLdO|4tCmfnC@ZSJfdN=+kk1FD
9+svJ^DJMv?R83mqB#3jinFb<0>y<lTHh6jY>{sE9=?3>6^%+d_Tj7KqHa}Feq0Z|!A1fv|OE}57?My
Di0M2aA!yQ5B`csXXt)Z^HE5i=CI!$UejiaE`q879a%i<x-l#V1T8l=Bf%K#~HzposuJb2RsSol}SzI
gcq!(hQkM@(lQbMvTNEn$Bn>LS#6+AtFi>PM<E34SQfr=49$@WFETTx~XPF@Dx=uoQ*GI;bxd*=^Wye
JKM126eWlt4vgoAhIxoMiuN++nk3FpBv_ibeiRlNaV`=%joFkY5p~ei_lq>c#wFhaLLeFAPBUGK{*Y2
niYy83IsL)Avp^@_1I_Rd=EU<(zW)%TASjLA!D>}@ZD-_a1!~u5(?VA(yft!FsaBf2viru-q0Z`3)mY
o7x3a?j%pR(j21|4GO4UIStgGBw;Ek$lX-@A-;gMwcC;)tR(%O6@;V}#bKGAG*D=qF%2WNv21}|Q?^>
4TQG8p=nEnbJ!x-%9p&tnj#lY!3{vV^WF@>ZT&S(SSQ_bBXhsgbG+`3io5O4hz-)XNQzoj!Tv{NArWS
1*UhsTN8e2HVHI($V_!!Pj^HImch$eeA=BKD-~iJkrdyu77~%-yZp<5C8Px?LD4Y)j#0p_5U9E`cof1
_u<QTyHCja4Nyx11QY-O00;o{l@>=vjs?i30{{R;2LJ#d0001RX>c!Jc4cm4Z*nhkWpQ<7b98erUtei
%X>?y-E^v8uRNHRjHV}R1R}7Q~ORY>_iXw&31lR^{H`p{A#O||}mc}-_lBkkY9Jknh`wl5eb{4H6nB)
v+=A60k3Z~ypp-`o4_8D|`H~q;;7`p<1Ja@}1&lB4F5BmQc@|jymJ%gBb@f6~j|EAz>lQvJhkMNr@7D
W-$_*aL<8hF3iJV7P5TIdt|_rHFOJr9?q0nxlMN#Urawb+1c;OS%!s!3s|G#t8`u5OX&7!JP(BMbO#w
PBqRd(0RkD7Uw_AnR6X3j>@%tl?&q@jcpja<H~F*=%+^9(n8IaHaQ?WVGPM3fq~SQix8toX-c{qzC5V
L#x$Zi@GLYP>E*W5uS-duX&*wVq%@yMt8^<=NyR3)5rDZ47nAjN{NyXma?$%XFM%#CNHAua4|`Nj>~X
dUZA_=(<&1P5g)f~r6)6U3UW~jD{exR(L<|cV`I%NzFIH*hxvLE#C{V|*6S!6<RoxVND%d4qV!U+7!`
}Cmw!p$IQ+uc=76B=0d-&T8Yzh-rBEZ7u61?85~g4f;nPS?wDJ>&U%RS;QWafI`4m>FhPmWh_&Lz-OE
?|Pi2f~SEGtxd(sF;W8N@|GMO^#{+Y@}irlIigjMDziSyssc8-p3VYehjYmwcXjAP@I<tH<@qw_vRZX
^B?I%J9DJS)N;IE6j5$$Yh8<A@K`pLoj>Al3(+=lWsd%m0mV~oiFFt)KhsbI>N5|n{R+Qi-4@xp3yng
$gNl24ac74H=bx_-_cyvtp%$98?mhrI$hD+{V*}Ge!L%wkb>L+wT_W=g;{;dd?9yQ)xZhBXKHZ6gQ@R
vEw{tqwI|gQUQ>CS@x*2GCl)rRo>O@+jT45i1rnfpZ@bc3={{B~jA5*gIC$<Xr9H@Mn#sxxn(&;Yv@x
xsWTo(=v8BE$gDRL&FMabsq(F~B3I`Nr>NwNB6}C9g($Suxpe1*zbuBkUH)vdG$N1r#!n)rK*Us<9c-
0?*z9)a_DE8z7=GCB1VIyl)4$mLY4^AtISwCGHrG6L9=^0Cs71pGFw0tI0xKq>tg>&HrEOAY+MoYAIq
N^-aYQJ~S)<HC7MPo^gAzqX$A$nA!aHqPajNmAA<KJEuzy@RAAOKh4v8LX<{{GxALxf=SNMroI_xr!K
FDfej<;^%a;o+QQ!^7i<0M^pR2CH34MJ<#rFZAbL8hlW>A81Qn^Slu?%~irhSq`Bt!zKy)3Q$V}1QY-
O00;o{l@>=)>}^bU5dZ+HK>z?C0001RX>c!Jc4cm4Z*nhkWpQ<7b98erVPs)&bY*gLE^v9}TWxdO#u5
I`UvZT_5cE)plYHrLOwY)&(rBtkt|X^3bv)3KIEsis0L6=FCX@d5?(V(d4mi+Mnx@m1GjT*<Z*OmJ_t
}>_9<!4dCv2I=N%k;fO}#q#BR(08j*gB-rTBXzs=5k!%!^u-)#xAH&uDbFPAay^<0cirC#!jqRjghMR
+l`hioC3u9uALr&2AJ|)>Hx><t!GfBoiZ^#cTtkkpptd#IjEEtO`k%QL-UkRla-_^=Pyz^9>7OUXfNz
y}J=GUsehAvf#@{{vfKbDbqArd>s~fo^E&s&q_Vy9X$F@KAN(k%s=fS92~)rAugqwMYH(!?(W^^W^U>
v)%17CM&u1>rP6=i@@BbrD9l-xyLOrIMUgM_O#wPpZ(vNp%Sueyf`fAF5_VM)A{(Qq;O+T0r|&QCqO;
TJ&HJmjm*>&D)4Ok{>_OC#$fP+)MXUvnVe6(N=J^z*C`1-V)p9L1B1%?KCPXY^$%r@g+Gul%!og0L`~
ja&lvp5Rv#cA?sg~^wB)<SvW>r!rPvUK|tcO%1J}pH-Hev=#vr&3IFU!0<d@yb#4Z*F6%(ufCe8)f0-
aK>IJ2bm?;`ZyaSk(D4PoFvL1~&KC>FW0OvXxkWdCtVrU+iJaJbz4DI}o1$K$dl+9!GT^{m3<KpJQ-l
5QCUbJGL;j7dtib`|X-O?LJIdyRF)A(TMfj5qMj&l=cn=JsN5EdUt(&`R4Na?9Xh@zTqk0gZ<|A;&12
h;>(xj>CO4w&BggGJbXDCjg~2|D)t8a;Zy=>kS~6O6-{O&G@#-gz%0IJcLr+}DM2Pufy=QdO0uMmqM#
D#N{z-()fB+gnqbO^A~XXgEfes_xXYmA2~2*K*B6^21q8@y5z8$#!<K1YiD!&ct48nBtF{Dmm%eC{v_
64ofz*2CYz0=SEl<h;JNcBvU|Jk-DHA16PnM`Ph&7^I@ui?KCN2STR%BWbn<%0!B{ndKP{a?v+~OP+T
M#PCH2`K(;OlKhJ5k6eT*@_WlQboMP1W!;-LVBk&{A+v2J%H#GoqZ`-%63#EA_|gd&Q&40G*MP7%lTB
z-qPX8H579VHorxE1b?4sxE6b3mBNMw5qI#OGD)9IRJau<F?_Ss^ljjIl-4?(`+n`)?~<};!mh*S`Q9
)_<?4SLxceiynKkIdd&m~Wbtn;d7U?D%y?akO;LwvS`Y+l)HN@P6o=*+Xc)v<@gxNWzrDI;DL_k8R8y
T)Xm0ibFe|ZCQ%eAWF`0Nm&F4&KNo>0orC>3yIa~9}aN9rtWl4>ssDetAFfe3qcIY3xNeP-1i#P{Kv%
F?9;7eJ3a)s<-#ddkaFyOKWu(&4WC7ElPr!0SxR)G)VM6QHP#qip$6Hw(=sF}E4#?;Cs&@RRmyT2#+y
Vo{{Dk<O(!;8{7Nc(C)*uJ$aQqb;<{dFxsAS0D+YkK>Ll6=ug|A^!J3PQ?kHd2$me*Ibts`YQZsQ^Ju
"%text.

(** Lines 9165 to 9314. *)
Definition DATA_60 : text := "@~T`0u&gEEHi1r0LmPA~qnv+j53L~SY_d8Suj{&)eeuP3%J@X168%4lzz)kQieQotV~Y`xj$vi1<N^P
Rx}MoSR1P-wL?=Z-sv3VB!1!s;>*w9T<6&)2-KV$RblwSAL(E9Zc`q7Tksw*weA#@?I;>|7Yg}CD43M
EYcsYgr<nf%M?8J<L;y@h6A*4hV;K<(jmJtn;dj}(a{>6PE3kO|V(ECo1wM=U$$Qo`v!vK!mN4^ni>o
m3c>Z6p7Hn%pZBLYcgl}kZ){;4y^RJ!iG<u|b{6N-VVhOpMpKtRt;nXwp>{2)NDp~?aOP<AYzUFDgWO
b8k90bq?cZIdh1-sgx=xgx+G;5SQ>V<<ebaSh0w#ZbvY{N*uLL2T@7?wBH)GY^FAC5KwpVx^ua<FKku
DtS3e`DPJwwrVoc=2W3^QlSJzvV2ShU!*GX?z6H%^E7X?&Zg{%rws*ST6&m3sH}oX*E{;kr*T~y?HP#
Qa;F~q+>>(CN19UCTCLsm&OK$$v>n6jLC}=FctOk`x4e9)EHwa%U%&(jPhmW6mQIkYRzcWmL$*I4wB@
l5V;H|Nm4loPVl$Nsu<sbuVh{+UXCl*)7N$NGkR``5bp^YDOaiv4Sx~%HX{907IiUq9?A6|2_WIruSc
T?)JtMT3{T2zK#ZF}mZwRGG7a8Pjr4Vjr2FVtGf(*%Z6+88in>%CYSWB`;vD@Y)WQpZNgZVmjpkkCLF
&j=o;Z8HN)s|scE>4R8V%RNmkcu{sd>5N8j<fgx{a`FV0LFa?ZlliJw%q{sg@#vipU2D(^wN&I(!YqR
B|!Q7u53it!&?7!a4Z6~>6`_h(=a0NdFG9b7se%#P_2vfkGuDfJb}d!kN*KbrFBThqCaKDL0aI0dgyz
DrP0s3gA621sl0)v?YYBDN&)Qb*}dKZNgnE2%8vo47tP!#Bwwk{BUrCRuO0^UZPJNdU9KPK+eb`voX&
30vu$a5{>OUGx$~`0-1^l(EbNWYE_X<b^hd=$UB`P`ds0R-s3ogqBg#600y0_ctk6mgT*wCK`ILxU-~
685fK}e!UefDil`JvSc!uv;rEbRu|5Gtix}GN_%3d6UY4T-4J)3P(uVr})i|@H0u#miz7%<@d&1H{F>
bEVIp+eWqjb$y{M3ThJq}AM$9^T0rI~#&7E_wKaTS6&7nC4rE7LyRt#j>t&akA#E#uM5YCF#g9L9!jN
Oz=5O+TEAO>@)?gWP>MFA(kKzr~$_?7{gJop)&$RQL9a4Uj!q|tY`Grtde}x<$_~1)!y;`laXigll{$
e-J}kV&WzEo5>Oon!%b?;TWD|2PMz&pG+2U!N0W|f!S+I$6D$Z}aeQ`ugLU#>-e26Dza4vsd4%+oZYW
vzRK^4Rudc7o_w#l)I*|Y}^Jy%puuH_Vr3jG5KBk&@cEt#^N>ZT~@!{o1KOuxOhwe+4uD{;FDOx1N26
G(g13v|ZpdI|DDqQ$`gS1#LXzbBv92W5CN3ZWSd=T=PKyHDxBvjb>+=NAgrBem|TR^jinLsZ=M{|2u3
V0)8)#GHZIuAe>I`5Fp`C6tOMg{#Ds=`HOb0RC1>PIz0G&iSDcIV|74`|W_hlCm=L6b(KMF<vSgdVDz
n<|pJMtyGAAS(7*OTjA}xQyi15SUdrHt_Y7jpfU+YHrwqe8(RJ)7cLmRGcL3d8lWaHc|4Nod%t06*0{
F^Dh%;+FMaGefH~_MZc0O@t+b0U703*J|*8$^R+5G??{vCwWd~29fYxf1Pm^u%w(~vMb&{3!v`p2%NP
F&V}W}TjOo6^cwf8F&%jpOX$+1jwoD&il3QAheye!!9cZ>HQ_pRHvFG_yA`4Dqy{yVN^2!Bp_H3B)Tq
$+`wUx@q47-;qYSI=DapT)@3J*#7m_uS?n2gy|ve}IkYi74*!+gjCcx_U6F!24JS)xhoKzvm_;qu^5Z
y83XTtQBW0Z%9F)SUjDRP_#m5H>^cUAe>Fi5em?5)YtIJxWGD(CHC#^B3sC>J`c|%)AX@Qv-c*B(M@c
$o%M9$HehGS&#P1HDc($4HBrrp0daBq(9c`Y4*z#Y7ltJJyf%)>=dnK)NQc`|LybeV|I;(BZW36QG$^
c2!36GQB5&SY^%(bOhSbuMD3ywUfH{inql#~u8D-7Ib#Qtc$-w{4HeoE&vx<{8jMbLfLpF-O<9VpPIv
0e^v4EpgSb|vA!cq#$zHX3i_#CAP<oBCzvNT^2wL4CW!toNlW@tCNoBF_BCi*8VXT(<06L)Y`wf58XY
!DC!@7;%7zP&<<DodM@O%+rWFc@2#8B|yb(uF0Yk)2~{#Ry9?3y$se_wNKX&QE5H|VG#yT;66o8VQfw
t^#sLg}dU$)Q@r157F=r5IEYx-F|;oBC-4G~9j%Bvb>Qo&U8eA4bg64lYW6rGB!+AJE-^&3z6KmFrtB
t?dMTPodym_#6aE+8M?F4|AsK=a~mCoZE4Z0DG{@Bqc<Q78N<!Nom@pt$*=2HtAZ&zh1oX^;|K*LG;j
RrUZ3;L#6fjkew3JJbe|ulrVy~84M?|;5BaZ!n*gcXs{+^saVxyuXt^tOkzcb2CnXmYP&Vu?8`B~(rE
v0+zVU;Hr?!>Coj>BVPxEI3!97<)g#Y8vpARxI2-PgF*dhpYqj}@azxk3ane?7S_S?Oj8P}I2pX1AXu
Ou)f4Rl5n#W2u=X3_T;Sb3YSwW>F+uR({UhMEt$qHr=6_+(82NVtD{T&qrpiY&yS$KvmZO-Zj9D&S7%
a*L#0DFCPb$)i&#uthb|HZawa9P#idbcF%wQE!vzAtC(*xt3ui0Ry2{n@iczs<D;u!ZWVvy5**WoVMb
X5PP+tTRie`Kd;li%vM$1zt7dhcTUfoSXv7yi9(g4(1pS96DD*10zkZ1@)|tmZqN(Dv3PzH7$S#Nd(`
>OEOb^myK#R-Pl)0ci09~&xb3!TbQ9@T>w%&7^Z#trrVtP9kK?wPN&Q=*UxhGRyCO<d#a*6jFgHTPT%
HRC=Sr8a<=73ZHib~@N0l{HkvL4E(B0gtxMifO!4wGXR9>lus3*5g9Z1ddek?S@miC^OTA&Q(5AlN@e
{T|;&5GW(qnx+@%4Q)0YoaCgYkM-h;~IZEzU}0-G%F82)_nZPrh@mPz@YG*u`!p!}>`fujIzQvxx=%c
BH`*l7k9peKd-RofSSXP!xr{^J#6hiy%(nqARjam&3}%+7hI5+HN12$-^>dlyhj-A{1qBG~O<HdgYEg
m7TvSQcIfUy2&1?KE*I%WMAYl9idQP6ZU+3CJp}NQe+SHdW<1V)0)=ZK*P;gCK*nr;Z~PBf0rGUDQy`
<QyhA9+Op@)4`Tu~eD1KB<3DayEq@fizQ^kr=En)1rvI@FNE^OW2Q{3@GYItL4X^1Uw?GDAZ!A0p@q(
j^?1`sIY()O~<u4(7N4H~H;0QWlM?;u@q(_q`6$D_wPK9z$!jgIqheeKOj>_xJ6=MuubSvd3luOc^Hk
tG|Nfoq83t)-+YL3rrl7n0Nn`KKq1JQ?R(r`UzX%IiueHnD7ybxLc{2o8@fO)RXSbp`#Ti`QC$Mn8LU
zyvE<0sR%0y=KvCx*b4U@oabua^dl2T=q!FIwl-UfQA*U>|X$;?_P=+3P-pQeW=vUXk@v>+E63nLDSK
c)kGXloyHd<3FDR<5=^G&Mzdas@s^@K^l9G4Dq9&oD8O=9`$I`d>h%ck;eU?v$RQntQY2NreV?4YMsF
$7U}y8TBz?+JtjrOmxzGoY=)9KkM#J#q(z#nbu+YM%l<o}L(7$e0*C3q<YpL{gpOr<<V<YY&?65Jh|=
G+_!Ojo7s+Ju;j7t4d4|=V`}D!k&t@_Hq5L5mA4;D5CVac3FOgQ!``s4|*$e_(F56R1FS*23``4@T4m
|d#pi1_GER7ttO7t{})59cfW;NH+?%{Vh&f&+0bzb7WN@VijH>_i96K@4uL$Z&}2SAlY3ZB96bQrR_R
PYS)`EEaKfEVPelpo5#TjjF*u*Hf$)7Q_Dlf3W4%ugNt{LGHaLx6$3#;N*C_Cl@{@-$5`U)+i`o$3;^
^UEFG4{>hr+8>FkfD95<wWOB$s*Ejge!i-Ijulc0HlZZ0?A#EPy6gPp6Ehc+c+dN}v6{{Km98g6bhBN
3DBb-%sr)hM(A6K8HW2&7+Bc{3JK4e6+U0zHrUA_zpf~G>$sVmqzAZ^0Jo{{ZDLl1)Up@K!9!%Tc7!N
8z6L{BRlZ&*+z56@pJ(@Oz2h8JhFX@Wi?hU0}o!dsH4wP2`{s~Y^0|XQR000O8^OY7y%AV%vI|Tp$Cl
vqy8vp<RaA|NaUv_0~WN&gWa%FLKWpi|MFJW+LE^vA6S5a@<Mht$}uOQk7+kqo@c^ZVqfRlJjwjc>=2
YXnD>MYUr&5};LJH_>e?YECSogB+answ-awWuE)**<<B$&W`eFX8au5E7NjVi7@Q=ZD|&H$m{?#fw1W
ZxtGALQ%@#ubo#AOqbF?uF@()ka?M5j)gT~mk4jX6^w2!!XSteRc^FgENukcqz6Z@zBz)~27bh%K)a;
l(*7O>Q6>{C3`Q_2MY6=BJ{Ux}yf__SO~x=+n&>n_idM+XgtdpkT&o;Hc0p-N7RE?bm>>vJoP+njn-h
;p`%vku4+jUUwa^RGivpk*p`4P1)m1_+iy|eEBBdvYl1vyA#XcT*?H`6Qk+W%33N3P|(IfxYdCF-haJ
>%^gPQ${i4Awn$*Bl#-&}sQp?f!!R8?9ET4X&qlZkuO8z8XR#v)0gV1^u&1z9)(f}{f!GHJeL-Dhl3r
NW9Qi25~6p9$wO!^2Fj(7VgroXv)Krc!cj{yg8WMinhS{=#|juOXKxQq)hUYYykr=?$FM$F?+UNhSI$
c%sxw;zMvw%BlP92ch?q^3R|-ryue<jyr|Ou@l{A|F9-9aZF~KPW;gv>2~;#`_Omi>16NEIPTT=tIDh
-Rts3v9RaE`QzC6SBr3aX`7^3G4myb(8llhV=|mWr49?_&0veoF#?m!)3Fgx+JS%flm2E+ut2Jbb_z7
?=q}^7jL4AjMn?kM#hsCcM&bdJ><X!D~9|T|HIYnSyc?#&piK4E<BGjyX>JcJsK5e01S41=r>76JNOv
9zkvzPvi8OHB=b+|qZyD9NL3P;Cm?no<fS*F(SG^SFsI<0_Dl*&*PAxzK}$W&L<SLbkZJ(&(}Zl{B@@
#T0rhQ^u_!e|^Q^<jsM>8?Ky$Y#XQ>K<CXf2?GEW#ytQ8J&(<m8guJVga~O`Rm3Ao0gO$jht^<kdiBu
qlx3bvzkmUAwjCKwahZ^OwLG>_b`If(Yuq|tFy~7H8(1%L=+T=aSe>v?qrJXTBII^B7aEu9a(J|HJXw
-Jkl*KEVsdiS>`$AM_9}@kg9dTrM^eNp6<g>T;uH5E^;NB43bPTvI~sw6?DTA^IixSbC_}=^y%*LuXO
J^E8KK?WG=Pm(r7D94e!1Yc#mH<Ps3&ccmvirg6({6j@5JN)`$g0QQ*sYI2<<fu`$^Bg}#F0d!%M$cD
^4^+1I7DWi%M@pP4K|r5A$*+D^|SY#oH3k6yj{W!Q|=n%j?K!fyt1IH@1HHNaMy?TN5GvyXR1_i=lCJ
AjvPvH^Tw(()iJ$(UryaM{+q!XfryP1oU0$rR{{x!zz@vO=2ns>A};OPMS^7#AF=yI3H13yMuuI>DcW
F5FEk$TFuo5{3sJ?+O_;cW@I=(EO(bWy2&Z4@U-yJkciHO-IO1;x+>;{WcMPaiJ7<U9|O#KfY20KDN0
`{Hj7?H4?UWlh0wfczf{H2NuD#X9N0JH7h0c(>V6w(M+>qh31proL1r1?t}&{sUc`Ab~}3wmF@<2wLK
C2-QgSJw@oi#{b#p&YoY7xn(h;uX`}D;&Gh2>YVwIS{_+y<)7jZy^?kN^2YfEo=i|}Y*F3vCyD9p3qB
)aKWw}(wcQ0PgeDC4~{@FIh+s-G>{TJ|`%m1)^_RE1KZ_2@m&Tn3HetV=ys)sf5fx@``-0R|V5V3kp!
w13%n=C&@y3zFX{Hu8Xxp*u~Bj1PgOEE)>&rQMYznfq99NbT1ot=l1?Qc*^0|XQR000O8^OY7yDP{LP
eh2^niW&d_8~^|SaA|NaUv_0~WN&gWa%FLKWpi|MFJX0bXfAMh%~)-38#faEu3teYFm^YQHnEW!fpJF
R+U~_@;{>(~<d6mnN=r$sSG!x1Yspvie*4V~$$ga^_ru|;56PMw4(Iim8NOiCms2(`QkgGLSY;N|cep
YdjmP7W62DhM8y)k?tVaK7|3;&`mDFrqq*W&1d~UeRH8U&0kXYnK&bg6A&Q?56GodtF6pGz=j>LZ?*J
Ys$E42So!hadLuD@4YuQE9sjTWj{vl-Xo_$_mLv*WiS2l<8DjpxO><i>ATDl56tV#2ghHAQhRh4v(3Y
ZRZG#4RVLNPgp<wlXrSDTz~(N+4bdo(eT#K%9e~4<Z5nU_*CI8*VC{pj`E7`eQUY|9E|Od3~4M{p-_Z
^5e&w56Le#KVM#-f4sQ7V5cnLWtlnKz1~hYo6Qsqx1NF`R?jr(viR`J&v#eJr?Z<oJiV?mBSB8{nogz
M@L)6=rDDMnFr1tx=pGa{th7)$UxR5%uJxu+X>>AT@B`P}2vaHWCucw4A$A6bnAI>Q&mkRhf;GI>QU&
bQz#t)!;;;5p7zPLW<Uj}PfbEhZiXB~$0jK;hfE8p`h7mD~?DdLd^iqJ5^9(qUs349Ai`j2tZW^6%ky
#qEf(YSRMu*WqnOH-}lF>B-$AbI}Jz48Y22AE~CP_jqvc-fc$C_l}5}02X=F0OD>7`PI3Ij6T3StYgr
P2_vAOx`CvrNQ6REz!o?(P#=5$Qv(L?iu~F?_xfmayfOR;HPP@^1;k=RVVzwE{V<(L?6a)OzfV1N<RL
>?y$0{<BNq4+4Sze4g22n@9Q!nW<3n-=s?L6*%?dwIj-;dvVmTv{9ithW(_9?IRhsW9EI<CGs8C<<GJ
0bCjhErvFowFXR$Ld{!`7(!X~!bqGL7ljKD{M;<}Y-K2Fu-YPe+`=+}&U-1l9|M;_aW1(U7y2yKy<kd
QP`{s~*iWG-URL?4zrBDmdbgmjW3#<jWHJxDT0o7Yx;@KK_)N*_YXeszwlX#U{B(&5b`MoIH1o2XsFo
4CN2?w4nA*#%3JtVBRTI5B^!M8(NyB<W126EBj4aFbr)%X^FN&D{L!^L-vZ$ze_BCfyVsw}~jjeIXy#
@DlyLow32g0QhRcdZAkD&Z=uNEyI72CV@rW#U0(ZQ0xRIq4X*B*W$D?d9!l&=nS4zD~bOphJ2WZlms|
yFhAafeZ(Sg<I-3c97w33;J&B8b>`>%O6d=P*%I%Cx*-6UVxCT)j#Z>Kr#{zczZcpwjZj0`~GZ)ih9N
We=5S|htJi~3))2IPuM-#P+@w)(vyZh98<qB#(o30qHa((e0K)5lakP(6_uYqe};rLP4@ud_b5zb^xS
|JeOM_IY9bNad}|saP&ABB0Q9ga(ag2q(E3Sqj?Ceh1T6mXoE;q>9<$9#&Y>$?6;+m!D9~Dnb!i@(+m
O>~eQ8X8L(Gp~kJ|>Q_u)SE*wvnnyn=xF9=p3PWn+%BLri$GvTy8qwTrNBZwWg)s?XD5kD+*b%USQ~p
2n|dhf!<qsJnO6^|Axk(|!r*syiqluMqWXpAJB5N6Bf(^Z5hM2wQ`LH}AHnS)abCHyG5u<hKZ-y;-DD
Hllo*1ShF@j{k<=U{>h3QZTL+>+oI6cynKu!cL~@PNsf2IXwOvwGI9}VC}oK8$_@>u{uti7`@!ZdblT
Rb!qeOrwhxb1p<yEgiI8*oa^|ZwAg}Cd2nBlcd!*}n9ZOzPJ$lp5yP28_m8~-C(V5W<Z}YJ0P(s_+-)
S;;7s%l{k#m(6X9xM%Z}tU{7hwT;%~#<u<fG%`*`TE2um=|pc0xb8y}jm$<D7(or~|AsSu|!Ft|sGQ?
TFI!G-&#tK2tWq5BHhuYD5*XcU;>Eb$X4<gAV8GVzw|#I9|Ay0#-p5eX-5yS~N#xwB8&%c7>JxzsCdM
z)IV<zlT{v#`{?{MdUK_D;tb1Zd;=>4Elf*qE;upi#S>r7#KH@Zj<lxkpWtYy&M(B9#i}20s){*vpsq
8?KhRl}7aHpoL-Grkg-eC<YUWXQS)+!zrm^sq0I2;q(4B-bo0%-xBVQ-wWLuiF~Xv;J}Q+2PNx`DVlU
bB}WK|_vXRGiCd2x09;tMhv4-B2Cj|FZ6+-w<SLL$8p~i6Cp18&VnN%pB7MYRZL<<e^tb>ZZJ=?6U65
8dey*+PWqs_IkzcHZxDUOYO=k2B34;PR#t%M0XBz^nRh=~rwQ!`Kg6))n?^~@0Ljk9P-pmnLvl0edHg
Q&La7G~0cV+qqJ8I2bdm^Ay)A5H7h9H`t$3rl8sNAKPCX0+O^(ky#{qy?c&E@&o?PWB)!A+KfC&CbT$
GVz@0kE>-Pi#=19=2<lb=WyX6wWyKpb91-1(nDICN2670AeX~xCsby2zH2w9tV7;$iP0Vs1yX?#=F}F
LFM>poWCLL`a$6C?S}^6#7>F?FYfi_r4l81)`!r%C?9(?yB}FYJR1AONyB1dZynwf<3BL+`7>P(J$us
L6E95UxLt$%p!O1{x+%p!I!!zN5=Ay>91~;4k$f#k=^cqzQbR63#vG<zpjHC{@4i#IwyU4R;6(Kb^$_
oRC)BfE=U%X@1=|R~$Ok|<h?xhG`qHWIWl50)_YAOYUvvHBbKhQPsM_$VYjx9~Ra$R3%Ho(2S=Nd~v7
L+3urt6cIjfAIC)z&rUgf0N9CHpZw)>a{eT>YPHj`2d{T_phML!j>4N~Gk7F9jW5gv2G^l2vVg?mw(A
i!f6jE8z`y7=!<zvfG7vP*ysd<QXsW>`Z_(PMHwNcMdXUl?*rh)SUne6<eirYdmLTT?QlzkJ9S=^c-k
{{>J>0|XQR000O8^OY7y(@<J|OnCwT(zFBs9{>OVaA|NaUv_0~WN&gWa%FLKWpi|MFJob2WpZ>baAj@
my;+l^O138Y&aVjTemQOGDlrc-I}gl45=bECmut*o(u_d-`s+>%J2EqJXYQ&xr>pJWZIQ7f9B>>D^nL
4FYx(m3`C=c++sppcU6brZJf+!-a=NxJpzYShRhHae?x&agA$z%J*Y@^u%BNrS(^xi5^s?*Xrc99k`L
ZdK?0C!m_siq&FZkclzrSetOZ1YQ&d-lacAJ+zy1g7v_m{N1-LGZb-Lv$iFYgC%LU{wd<Yfc82u|Hg5
*=So@jWWR|Bl&9bbmSA@8`vQ-oD=X@26`q2VKs=&E|hcz_r@#)@9eli)j3(YRfO;GtRE|wY%M4)aDdN
&5Lycciz4pJYCPHYjiJ9$Cs`1{rUS-)4@Zx|NWvJlfQ$$_pej&U(@*}inC_%@;`pw@&ABB$gX7sP9t#
){H9CPi&7qo?0UYIM=-D?S`g_XB^ETh$gu@VEU09Wq6-3F<k2E#7kIp&xJAY;sA!SKu)`&fecK1eELd
#8a0?1ur0fDq7971`&_$9g2okoS+#<>02_(57umu5*W{aF$Fyw20I7NTkV?@F8aB6|E3pQQg*aAZrQ3
U%X;{}Q@5@r!Ii-caJ5gaNQHpVPacEOR0j9TRJg25Jf4u7EO1<fo{YLU@!lqfi#M*ar>6J%90UPRflH
ANG7Tb^1GUDHIb5=B1IMZQoQokvx1e^K{ZOh~3I2)x7VOJ@*AekBx!EAWBMH?FN)MXwZrgt(@;mV0jL
%1&Y8+%r+RXW(1s7$=9-$TzPS-RxzZI@Vs0GH=x+jrB}@1JxAcfy7G}jXbVPo_(?RsA^Nml`hIEk2x|
w=#hn4iY6OW(7I1|xxx~{EG&F@1g&z@lojZJF#F{pF}8NmZzXxuCH}d!`Q8I<`g>cYV^dotV7hthMKh
4V$W^&txrj5$fi48o9mRvbd%NQ!ISP-YRi@GD`=npJUbK-1>h*DnrVRa+gCs|HOhv(t@c~QK<`EzDn<
h71@FWLq<PWcNpxf$Kb0DWTB*s^VSQPd#&Y`-d=HLGnc+=r|QZ;x<6iRa~6sG7(w1~5cn9$4X5-D{eR
eG|!t!z^r(Jgnj`SNTpg<EMhY)OW~na<mub!IZLUK&NttbM1?a%bM$y_LO3t|WFZ)r_Y){MjVjQ%^3<
a=E5`esc`v&2bjhH>^4tR}B*{r73K)DB1O@;`Uf@Kz$NHN$*nQb$jpyt&rHglBCpKV3o~yFI!WSc#{{
tdbz-33A{>N5w$;_{d;5Kcv1$DdD+Paf}{oZe5c0K!ITa*!CZQ>9|GOeN!b=x6l2ItZt4dVV;T-2b{6
jXcpPA6K<Cnh#hwEm+{NYf$Ttp6&+dMi@7z-m&$bNj`99Y57`;^t-K@_&x<i_9_jpova6HUXUvuvRed
+9hE$<2LUgOJg+_hJcIL}`{P_iNY_;LCcVeLcI-!lkGkL>y)@&NkYnnVC?U2_L0@RB4D|HSNiFY_{a1
w?oSpo-gzR6fcZX!#CZ|D_$jBkT8_e#X<U(Uh8Sk6c9fB1;z(v0woDC5wcG00w>q2t<>MB!&=+rC*{c
PCy6)KnA`jY{3CI!xtpBAXx}=F$u8@^pWC=h=5-?1tFG=7i{tqGzHgy>rnuTplcigVHPa_@RJM#NHAJ
FU$FTiA{QvOU?Ygk1Q>9-0FOf^kOv|bLN|bSl3rjLd^7;*BsiKbGVWJs3cv=S>G4_cy(aJl_-FHmP}G
-0U8-D<g3q$4z|Zj@$s3)oC)5!Ry6DyNfG9R^zoJE9OG?@#gw-T136NFkLtEbK;IlGaFzBnPZ7(=6k#
@R;_G<qQ$AjfWszRjd1j$`OxHkYxUHBBLV3bd~_=a_Zo}0M)1jpLQGY$~Ckhm0V0BSgBXp*NOM}Bxta
DZu*9O^>y4$G#i9u6rO9l-D=IfhMA3X*BdEuxF&=MVXcw*o(bcLDglft?<$(Og=mz)#U|PgOCFzQK0@
pqd{LfZsj*H{o{$?p5i-D}Fl^psFt??(@7M|H#CBo;TzlnYhpMhWsNF_j%rs-<`N3WP8aBR_jx!9Uh6
nLsT_+2`K`U2TZc!PXJzxZSAOxHpjv%b>q@|chaM!yF6X4B7QQP`MN?aY#AM5r$|?Oby;v2^2};2$Q?
Ddg-)?*k#;wHaK9UE$dpkr$XlJ5JvyTneMy;LmFqeV9{Z$VFfox=mgpm!S!Tuwe=^TU-<Ee-KX(qXyU
+c^2*^aLakuL`<B4V*i*IjhEG)G>b^?!3fWH;5R){?Emd>+q;!?Sng?Vo(Iu8!!KRmMxpScKRUYMWt$
Q_v`8B~Nhd6K=C`|5TLFDkcEyEt+(qe#@J99Zf>y&be&(@429b9a%tx%YsomS?QI<C<O58DbjUX_QuI
=ds4nZAXiLgk?L6)?pW_V!@!9!LL{6XlHmB_2lD{z0?<yI6LXFw8bGrF6o839i5n~H&2GmpX#n%J=VK
<S?XOPC;$0ZnPhj(+Oli^>lo!<dxP(o<%iCH$uKCr;PM5{L2DYLp>@ll&>+Sj{=+Z8JPENtnFXCMi0D
g(q45QiL%SM~6An%Ud_pWZ4pIt}!b6}-0QU*E$g@QZ7=~C78KeO&`kB2RL*4^+J@^9p0T|yD3GH<p82
&i?0%N99$U+<jhfT!rI}T33p_LD42Lr-mGSlf44j$O<5is$S1qO5j{!4~gL54Ytzhs!P`oE1~4!Xd;1
7+|BPzuk`!_KLP77pkPfq)3?b3xx1{i^s31ht?Xnm%dWd*r+KjsJ$QwSc~jwhM6Xj_3mEOLmRxQqk-7
E8FPG3AAb8cWs3K47<j*?x`;l@;mW!77*QXdij+#G`S!A5E$~{kvcG{L!vr^T=C}X1&J*>Q(NJx9049
N)rFgiyh#n`;~9b6h>r#qFM)DulOn+NVJ-3Phk8OM{6B|nQ$ckF6azU;MhY52UoR}R!6V<8WS3_1`G@
3C-U&l6-{%D~5Aun6ra#wrlpQ9^RTFy+7VohU{<XkAK7AYQriHrA7KP*Z{hKE%Jiiqxlkbb579k{~Re
(pQhu=3{hMyE6II$#C*D~U!vB?a5+*sj~84j9ZpZA=2zX&Im+04!!Nzc?OBz=ye!Q?ukoy|95q#c~Jj
8Qc=k*>h^!oeD`)o#-~PyA6Cw$f&#6?en3wbkJVWgQn~zIhVWEIQGL;}*9XBY0}H@(6Sb>6ZHZQe*}v
"%text.

(** Lines 9315 to 9464. *)
Definition DATA_61 : text := "uM7$m)1{P%d@u8Sq}#e6_Y(XQTd2*O%Q?_0Jr7yv(<37vpEmH!g~_*jvG@9>qG=&SrS;|FW9FQ_=c`N
=GQTB>;JG4<BmGoZ6YX+GLk{`4;_Yf~$IMfyR}#hCBkS=HhJ&25&ZS?=@v3JnF^@<3f;Al$r&cK}tFz
{W5xLTlGvDt4tk&0RKJ;kQw5L&dN@R1V_F+e9&&168L&Mx1F>9qLsAlnFb1o9cEdKL1*=PHo@}(>DXn
>gi{^LGNx+~y>4+_X$`0jo<UCaCPGqe077r(Q{_oshD7aU5kD2ZWT(gw{y(ZK<e9)(bglhDp*0WQaj7
>B+SVAZD>WRWacq~w>h0q6m`TDV1&E`Uf$i3LW&A8>5Jkc$kchgb4Q7l2^EO`uzdhSWm*j5bgfG6VyZ
2nxkW8bkI16vCp=!9!rMh0fp)3=P#2&@6zmfDp>CMGUAZ1zkg3gHGNjKp2oYxCNd-R~Ezmk~TC6(8j5
Krw!Ri8Fc*N1MC3m5Vl|WNK74Q^*7*JTE2osUU<kP`L2t%ceJlR+C>2Jo`EGTWC#e_9~1x@d=~&R_l$
gtdc$H8VDVG0WZaNsOm`s`%ipvips}~VV>H**2U&t2K8SWFTR`0*^_n*Di(zB)*LV0_$?kx>9e}V|rT
z+H?q^H|zbhC(xJS}9X!ZrTAzz_e@8W}}CR)(ZMO&h|sN$BQmVtO+W_V#eWYQ|NWM}0%og+dfk^q{w#
&#^rvm=M=afmP@7vkL}B*nQ|the(!Du~&5;00?p-#vQCz@)CZT}f-kBgv|ET}t;@bLL0aT#Q6L8D%Wg
*MqgJy2qM}y8v~WA#HNU*i;VB(&aXrD?6eXm|8?$(QPXNs_ctGR`lh>_UW>>&bpfPVI)*1RjvI|NWXs
v;46UqGw%R=1&}Y_0Tb=TS2~sC-jbZUA9UgLYWedfz+zR9M##-Yk8CCFsoMdn+s@!s{09DwmnJI%wgZ
n9^vhS!t^}dzl@ssmx8Z5Ff9!8(-?zA;LNr0x=~QVRIkR7y)5%*w2xLXB+Gtl_(d*j9&^*wd;MU_ds8
@4G=leGuVk*eH2vI+5kB}2kAU=5T7{g6*E4|ZIU{n+_|AWiRba-U)c`4O)on2Xuqp`7AQwrlLXnd^5m
9MXC83>DLA0KCU-EK2y<y&n#ujQ1g4jvsK%%z%px5{?oRhzhZ){D#QZhtvyXe|g@C}#7q%W2JXuI@49
3?3hEt+&xm>4<mAGCd&J<8%qjtdR1{F~P=5vQr(+b7g;iWtnGlx<u<`mT?q=&TayckiSb6E`aBKSsY*
8_LE9zqTB6-c#DAm4N$hx_4)Fxc=!o-{0n+}CllD!4RrPL*LwIyp^zL)5**Hv1jS-3&EYHwI0z+Zios
}>!Wa}MY2qtF!q7#YKym=GAO})_h7to12+$fp5CCwerhq|`Lhn7zd`U=vbpX@@cHkzb765-hLV((`c=
AngP=w&|L>4jhWq~`;uUv)ygpe`@#z80=#w{`+K@vDNE?Oknf+OG$bPR__0l5S20ZxeFX(SGhf<_931
P1gJxG<(5<I*TpSYTLW1{BgS;|@DWNRcDTOOd7o)Wr8SdatT=*6;N0`h&<9fynRu@s$CP&lI4Hy!%c8
QUmPTwy`5G?KYyYid*nuw3FU=ciulKDOQycNuK-&qy-kV!#Q|D>$tfG{)+mJ7NAA_6=C6sF3D4z;gfn
GUlqk4>fwF3UyT;|E5rS2w8(D__fNtJ$RF_pY2_<z#vZygZ|zapU}e*IR4&b3EJxfO_<n=hyAZdQJEm
9#%coDQF9#VBqU((xI5MYby9-bJr8GF~@>EW(p$vp}9CwyJ9Nht}jt?8%^l8ejYdzX(>MW4v<qgp=u3
y_x{S4ycEj$%ZY}*{NgnJzEXkJ>1&JDPdp}W&jscoR&3h$tt`#-`7$T!bbyu}kXcU>+YyNwv|_F&pX6
f<-FWF53|TnodoE;;so^J!u(oscH((+clz7iFm@Tv_+ZuD9<&+b;vbCDpxOE(bJT&MA&Rcsh1gW`?|6
^`RxTE8ln~2+wm~Wv)XeTAP+L*4-f1yPSXWJu{4t>hyF~ood%Pb)NHioIa0wjc?m7w*iQUJXZgAVe8A
^UQ~SkAIblE!8ne6`L4Ua!HD)t^m_7`r7ztrdpRAO=luP|m)D4^k=^^#wf@&4^}l><|0M2D<M{^sX$E
I0pgC|7CoqmCS(3sqiX<79MOnZBEQ`@7{T28_E1!VcgG?YC1Dl=!dV*Zg$pRp7f<YEwQ;45b0s{<Rfj
<lIoPn|Ch=%bJ0KGts5GjOee2SC+K>_4UnoSyEieTs9K0qVnKLLN1fEN?V0>hy!0Ym^a62-wzf#d*u#
9~m>fD_Oh`ms2`F~lUCA~=*JSx^~NFQ5_4Ch}rn;Dlu%&9U(>)d&xR&g~6=KM~H0e0LFOLS8n<8J(>R
J@_8{6$t)CB2T^;<l9Je(kteh2fwGh&|jS$ygA0@M?9I;rPI50I-2-!KoUYPbO58Nx4K21UO3CuIrfx
iwihJO0Se65bAZ2we!tNLd;YG;$rI7-Q@`ckFnW|v!Lu%OyQa3H@Z$(dcv1LBO5u?D)+r`dXC!OgT3f
nfxECIAJ5ajCzFMPGfI0lsiQv4&m$#vB5#Zu0q#)!~G&#do`g00;pS17i4Ed{*_Whh8e|6HnpEKmIPT
Kc#hWw>T`+^9O9|P->?%!q0cZV~&e%PIN)?14UTS?q1C#SGlY`Nq1il*6zINp)Sd5h|-mF%|j_Bh-7e
xJ<bV7_7lc2-*Rjp~itZ7B0{q^o@AnTh4+OI&5JW?!?;wm=b#DDunZd^ai8tx(tZkBl;7FSW3JT$(X;
balq?4wyWaNL=b(N8XZb2Q(=iE(rk<B3}m9%{L-c6l093<Vh9bQShF;-H@9a-GzkEw@F}n=Y5ShDCWf
b?jgAtU*fin&6vz>0rAnXytIUaao2CFaXhWfmXbXS9XIZH90u(Y4+lPDN<^UpokV$U+cQTRwZ`@NIz-
{-kyy60jfUY&$*Xu~4Z?Lxdv4NZri9OUywpejgssm3a$4bO6fU{n4u`yE{Y=0=r4&tZicgKl$KP%dWT
CgC-zO*i^~*ofkAArHo3taA0FsHo8Nd!4gEBPDp(ur;<X5}^40K?)Q}_a-AY@aomOTbjeSk~=7|Z307
+bIm#Ao*F;08DzPYFnD3@Ifi-yBl-6vYN6JV5dM^$r-kRYbx_H*|&lEPS3#9Ra~YqR^5DS^|s{U^_7T
6TmA|P(PiBAb;&Hf_xFvla!c-0!b}{qz0%h%^}T!4gmwgOsQXo&r=)lLW941sWt*X{U<2SJ?bg*OI~o
l7X@bR464oh@1j7K)7z9|qZsE97|8K4xF@*$$#-<K1?)AKs4!7^P)9y|ccIJmw--At_W-~mnKqv(JxT
!prhpb0^os9+C=eph_=J&cy(*?g*rqGVw<uh%6x{;G=11&VSjH+>B7rwdVn9<VeB&Dj-Qs(xc!Rh;ol
=CR;D>eVRrAefGOVVH;kC$gv9fx+JqmR5lwS(~O^|vX9$)h(FxjRQNnI2oRYF%JI$P(D$54`b6V1-ra
xPzPo7R=hJ;$m$i)_<&9L97U?%H}r8)ZNPYpUhL=y67dC%S*qx5QrZ%ae_+bscppXHF97UUvX6GnfQy
WQLe;n>~A0I8r5C!xp!GZH#QaJR_KQt!}59cB`6<`+zOgCSKQsa>n*#tR3}sUbD~6=gQpK?^Y|axyMP
W(zc~8tqS~v+>Xxn&=p~Mcki*`lFHdD>7-b1w~yyaFm?&Hw`J0yRi@93jkghkCzX=jfDdd@N4FK?;Iu
g&Z$!FjdW(`v$J4zmqK9iOx1wHzYfe!wb>)TP)h|YSz7elNEHu)-$P|h*ScEH;6EnL$oijJDDQWi})i
x{eO1=8fQt36QEyGt`sQBIF$+9Nj5>Qq)FTuEjE}*X`7p5l&R*~UBWSO}CJT>NqK;_ZipXT$C+yCgTb
fC9V1RoL}JMNCT%;Bhp&za4od{nlwmeyFl8*WFjzdp=1a~SUGUryG36F1^|J0i~tJJ_kAim^WHX{ibT
O|aMN<7yudCR3BAS@0;!fMICCbRS1me4yl*n43gVorWr8gkX)lF&y`4S;A4b($q6uDd${$`&6qrYcS6
z6`(PGd5rl(J#w4FN()!lqRGXUdA2)*k7f66_URdDr;S?InLv-{VHkprSwC0VO~LSW|2QlUEqNJ~U}#
d|SO(5@<~>{AiBd#bUqouvScESUI2Le0W?e{k^tcDf5%p3RXsU9qobAlbE1l%r{gH`2>F-Ueii=p6k)
`hBXH9r0duc@!Pfa`!UfB5MT&`B@eRwAM-wmUDOFQ4t4NQOik&*uPV&OmMt>5q9=gc*o@l*PuS)64ln
qo1W`ij0d5^4}2F_;We1W*Hc3KOdc6ox8DKujpig9U5=6Kv71eOlBaL!n;@@COE{g__jJBy>;`Dj1+c
(sYtF?8HV4^myUmR@qPJ3nqHu@EUUReZlKdnAi*WD&}D70FW#&V#2{RvN(sqd%&0x2FDBp6r{BT=AzL
#ba9c8vLLI1OTbYs`z3vKP}W@5KhT#%1}#;fU(%N?$p9V5x2W)-`|s(kZ>H=A=4&EaIF&ZQ%$Rp-6F;
#N0_f?}LH(P9;MkOBrAq-|B^jG^!bh5wJhdSojg_G5d%j=3GtZEIFwA!ZQ*8Fa9$X9~rXPXr^*4|3cJ
M8*|J^Y#UwiFiUXagOOn{npJaiJ8ClUNC@auTD;_2C@Wlyc+io^Og)7*V5a>o3ylxX?7+aM1z&4=SmM
H#L4jhMUU3PWstGFSzx`XFJbvdd<~eU^~r%{d*I{Uu)SqcFRyGu=C=ERvlz*T-o*-{_~eGBbaFt}nuK
hAxlUyewuIf9&JtS}C1<x;>0w-(~kO&o-uT3Uj}1F38<(vQn~dk7c2Yt5S~Fm9b~`MQ#q1or~lqxgDN
&_vR7A;Uu>5DL>kceB7+mwWV#w6cIT;9Cyddsy|&5YN;Nr?)KClCvq*J8%o^RdDk0<2d?@T1(4@6u(q
1Nniq9{wi@yrA>(Cs#q#VTM(5&@j-k(S&x^;~e!&Y*=SuHr`y%xEfj`mWv)G9($-V`?x55!fA*8im4W
p&WPIUAhT=_{vJbgWvl$FAC+L^XQTs%pZH{l}Osqnr!-3hJ_4<*?f#neGAh-?odbl~}m6&W<q(n1sI^
w{9WGZv{M^7giklVh}{npEVT@N=;7wdbY<CrPhK4$HkRs}k=O;A27-sUHq~)~hEKA(|F#OCl$PR^3!z
ggM{1u?-aaFbt=Lj4Wm=tUKA<TuAkXtkAjF$3<ci<tVMLEM4|&+{&@-+|FFcD$9K=blX<q)s=F;)LPB
7XC1u-?QKII$io)FIczY5tKb@EbvKjj_2qtd#SOM?H-@Ip=yh=PiE!DW*t6VSl-SJuoboJblO5e{^w=
Y(`-~_#i7$jYu@e4XZ7XsUS*Tkd6(M$aN=kLsvY-z1Vb;wJN?oZ8r_Rzo7j+{TQiRVRQXC&2mWokUrO
d<!eJ*axIYZw&O}EUaJ4@~G=2!gK@JS0yjPvNsFO9RYx|KO+5L>9wxw{FgwjF3e-VvuNm<`y9qpw+$u
tlb?3i*C(Ol`Q#mz21bg<5`OS&^ys=C@M}0JXiXTj~4$?~kY{lk9r`dva>$(6<PFhi<w*e2ecbZ%#ez
Wp@IXJYQgY`X>>k|Kj_6_#D5#%>8wy8x52o3z-l|wJ3$zVL&$lHUcURriM{42@b|ta+oZZeZ4XzqoCd
btVbk}P=Vr0Na%OuSm>oo6WBeQK;Ixe2}2<AfW!o}%KnT^0rLS72V+YV6neyzP7zJfAGjtZhbeOy14j
tt9y#3%oDXgT!$T2Vegfzpu3@2JS{xBi>3b-oRWLY|{AGlQf|+g&4?m}0I|Sp~u#))lJ=aRb!b7Y!lQ
#;{l<AlHJt|_iE}G)pGa6-I7o7Jn_SOYd6ge=8Vt%aJFl>HA-j(4-`J-1r!?(aUMh$SbqjI;%GpO%x^
d5derufTVeho=aI_+>umsY<m*+)vG#O63%Siz2APF1{T2TkI$Z}N*oQ}$%9>B5%dQ#jNq71*3I+1_GN
Kz;^K!`7a9rK8))4=7J<$fw3XovfeD74o~2^|QG`es{8dHdn~+PS(%n3i+6<-&$BB1zxbC%eeHqOYi_
A3y{qvb(VbCaodZr-}FNx<UNbh?Cn}$^)c$vwb$@z!t;Yxs%Ayb2f1ola>>QqSuNukVs}R?r_h@zU}2
=v?Mx~AqjlM#<9r~5S}metOG?-DsThiA#;rt1(ySI+satu1$p(m>1DSqTM%UjP>2X~wLp1FTbe{ZdVa
<pCPdM$IBZ_Q<UTut-8!TsDHsmv#Q178$r75?0c&>li&C0E?KONX2-`}HjKR-W*d$)?yA?4}g#zQprb
}H<R#4qcBQEI<Tj%swEhG&iw>Dp;5@2Kq8w~%za^~$@2Oy@E3!<}<<WH`yLM~?oUxY%@Y&S&`E)NQ=n
=!~z5YwEb$UUO{YZ?yjww!r_J*y30B`3YO#zrz+02UF32dV(2k5d>%;YhH850M4c{^v%KOJ`InuU*{9
RJhKQo3V}dka+o?m5R;0dpd3mF7{mwA4VVZJ1`uB9v}7`eA*i3Q1t2iE(1(Evj+?xG>6G*U_y7p97=z
Bih=y)NKm&l@h-vW<5P&SRU<tTP2iytp2aQ72MS;udDb;|2aVh$jA*Fw7w$T3F*aG?`?HV(_VT(T+|B
tf8uP5u@hAp<+<8n<!56uf#E=E5BB;^^3xgT-YNyE@dwu0*?G*#d`Ww8BJ@5iyaJsfq#>|IgZTUW86$
K1g78)s}WBjgaTY0qJ5t>h<K+ty&lj4vEqlbIivHHr=5ERc%YI<392#>2Tjcl|!zF;*Tfb(CbxJygK;
%sB1mV*;eAA$2p3iA(Ct^}k>X={^S&|3IA8KHPg6xfQt0Z0&2iOC}b1a2;lqGIj+mYnzSAi(5O!Pu_B
N$V?IIX035Wm!UM;9ijztc#>AD_0E>7CU%`_$2o>OYrS5g^hTfS_uB=J#(k;kRP5+_MVhzUa66^XsFi
yW@#ed27t&2qQ0x21veY3w%{I(Em7lD~x#bewrT;B#LHswd#jo!3&KB05e{<h`%AUr4O&Iv((IOy_XB
mv`0Fodh7_<RAkw<XpdCE;;pBOGd`Enr*2c2X<K)@(d0)s%nl+ULH^Y|nKxG85Dz%`H;Ko4XITogmV1
?oRrs+m9<%VBhDS}C7EA03{;C{r9msv#mMBY;Q&+JeTQ03tZZc0fRY!DrZXG=m;IKuw^BjDw8G5Kvxl
(f`$iq5nG)Mx~89_B~;|HvS(aj9*XIzYSqjt)hC%ZROs~NQjzT0v&kvg`H*R$2cm@#@je}ZaDkXrmze
FZP#1zh^1qGywmrT7{ftXwL3yz@7XLZ>T`ZWaJfnztSoAJP@lmp>dG09V<llZB0C<0;S^L$kGczSa_K
vbbeRh}u32s=C<B(5mjGF<it`z5!gETHcho3@d}ot)!QK6eFqDYln^H!?zPJ&?JkHR1<Wl2!%=f5x5X
WcY+{p9llK91uJ&KZf*JmT$INWX-)Q3n%O?$JaA1maDdfiUDoNr5c^pi?)x!L0)d1FqtOFAo>`g)ij{
7Z*j`^><KOUSm?_`C?aj!?JhoJV$tHc^w_wu6;$55|m?umXIzca~3GPsdqR34Zt6gz=G8_Scifh%b}j
zD`qn&v)Z~JKya)!ufX|=f5BUkN8Y$I7-tjNpm#La3q5h7>ZLQ&M+*4Vl2whG-xBSFC$ejt$IpPh#2U
$0-7Vq7O$ZvEQN{9K;yg;3<p>Id`W(A8Bq#TwqeQ!0a+5zA;-X!?HGqEIe}mT+?3&v{}_7GFjGQb@-w
xR#W2Q|<WO_PQxYH-K_&(l<C7c%jW`OG9FR>(yof0HE09NkBbiA~0lmdhFabNB%FuvzAlw+p-{5h6MS
ijhBQL!s%BC3SMYuYRRN19|SIdWCopJtGA9`I|uHmu}<hykt-(k4>jNB>U^nu~aw-^D$aHR<WYQE(>Y
sz~W6sk#==_6@x!?xnd_mlPgp<3_xVGC#oVEad|H1eJ-4P#<f%RM#qBjJn=J+lCvHk!(H@v<H)TaeyE
V!O9aUh^bA)9unNApyYUrjdsol4D(bvB+Qe$lyztHH>{N_3<qa#Fl$ql3$bYUeiEEK#+uP2Ty%;D8p`
|_X&jahx{`W_{SssgA)kn5BX;%aQZ9!GZP5s4|$!yZ)1Re8UoZi`lxK!OkksB%f^U7Y`K}<TpK~_?Kz
KIbKk7ZE2gkz6C|={$^=uks!91l(Oa^b0~CrcF(y0ec2?qdWZf#^Sxs8okWLR}6(=Gudxk<kBkTOobU
$39O393-r_)BY^RKMDT8R|yukhp<cWQ^!gOenizOeUfK%Cbatv(fZkR#e>s?|YpPPON`!EUW<#}i?c6
|=waJA$J^H<>AWp+!V-=GM&YVm)Uk>zwy;x0&_D>FQ)5PF+*=KGTfz?Ro0aA#{UdODjgQ++I>v)jW~T
SBT$_J#ky%<7G}nj}2``QK=91it^7DN>Qc3c}f_PTdL9PRJdnLYh`<Ea-&FNwH>?;Dch2Askg<iKddJ
IBUUC`d#{hWy|_!}8@7GUJ1aWkc81_jWp_B&XbS8nBIVr;>)rFg$qjrp?(X){XGx#uZrH4R#MhQz`2&
?#IL(M7aq$j%hDfULxF;f}J+)5gADfGBZ!G4P_G#8cZ2v&(4YyD6W0`PvcR%r7S<Z|5oa_#I>S&RO%m
cEoo{f4FNX|%4WN-+A{e@`njdCL{TuJv!b6MK6?8NTX!|K%S?rm$Cj^#c(il)wpLdsXK%2$4QMTc&E@
RfahZcKihOGBSzfi9dF;}FLuoVm;+{Mp~H557+9@+J+pQN1JfFdl5``H=c&$`OTu?@Y`+Nzolg{fa`f
!m|(ao2zse?An=U+OE0HVM}dTFk`a$7h+}K(LVX_MEieYp8Q*l^C#xXUmD|Q^Mt@iioiGqXE2OIIT9l
nl0X>>SSBdJ5e%@!DeCLh%0P)HEaZ8dfkGM(dlo?njZaQqxMD1u7HMVBL7V1ZnkS%xY$}MsGSG+twh6
EpfRPf#lU2e^^)Iq1tT@H$FcO*$KqzzR&&(5I!A@>vVDq5)v|4#8kCEbV^#L$FK<^|2eYik(li5_;B8
N8v777?`ghFcto0fusdjk^&rKa_0+?0&^%c69j%oFK$T4$U1=wA3_F6VmxXcXrEW9EtZ|C=ZOoO$xsC
-5ILPu9fdY$@lVX|HTB!w}Wvyz%zLmQSfZmO-<h31b*EA#oQaYUk|kad&6^@ucNrP4i=y%TB5K(f%%M
2~D}JkXfsCm)#mJ?i1JdI18(I-}W2y0z`Yh8qRl(t(SLEbsoX<C@aCTTyvx2mW_GnP&G~whu-L{ASLc
{yAjrks*gsZpdxjw37cgox0sbf8BkHax_H`|XG+n3qRm$0i++>sHZ5Wd=|-1>C8Y`X^S$&oU2&TU>bT
{x_I!R^o_iz4Nv33n?N)8-`=!|Q%zD2J@1wAr`vKDB_N}<Z`(5ayR3hvS`Y}AA=1FL;z7>sqgkK+aGb
iOh%eJbHhK=Ox&c-;aBq_WQbEJOaKGW;JG*7Desfkc7rq<SWg?U%);D$T>f+6DFTI2L1J-M7cM1sFfH
e2i2&9=9L_h2{SYT)Uc>9GAW8M^Um3;zAy9{Rr0q)kof7o?zXiW2~c5|m>!-)e!A<~+4?y`Cu8bbrt*
Pq|gs_@=F|XmVRW<eBcV?uM6c`TDeOk-Ul&Vo9=LFJhE*-;?VKJiJd0Ezw^sbbE-ib9>YsujzK?zT&a
0xZ9DHjnOq^5+*@#!(q(>>i5<vwd_jT?sn{9PfJ!^KC!2e*HyHmh<ev5bV%<c^SpUr4uf9CrtPmdHAm
vjW4|oKUdss5^wwgRmd{~xSDl?c3;`=#miCqNizD9UL|E^}<4K=^r;!X#w8p=Z$|E1|ke>g3%<k{CJK
ifk{e(=n-&_NT9=g!8Kbq#^ZvRpqlhgJ5_m}wja?SF;zx+o7tk(POr75HM@Bix$Bj9sa8+b~VerK2bT
MqD}>dDUs_iX_boS`X{V7@jfa%fMmC}j9#st=OU6Z;a-tDaLZM-~_buz+K-$g;2N+;T8j%f;|gEP_S|
T-z7JDu{Rtmyn<+ygFuKq&A;crUMHDkUPQs#H66{skq~`NF10dz)FCA{PaB&H-&zDGM`F$P0{RVs&Jc
5h6R;R)pa>&ltdg17e@&+dGObSs1z6_zceXu0My{{9|cg*>)!mb0E#H|-!0rmrj^?gzyHX)McpoaEl1
nMt&8gRt>3;cMH^Q{N+ezAQRwS3G^#^F-+Y*uU~6gv{l(8jB#QuWP|~{XrsPk6o9>ZsjhZ@~15fMLw%
q8V{=Nh+LDs5%)+8Aad0kkadIlXA_Upw>D9N-g74NCGgZ14A{wRL(srulbuHAcI<YMy}qF2rUOa{t$H
6I4p_}ZpVZNPkxzNi}F=z=zl2m$89=DVQ}+mWX}tbt=nq))1ekFQq4TjHnWD0&fjRD}Ry?l+}SW_wr@
ECANQ;TFN#U`xFK6L<(p@~rQjUhCiUmis@JX6^+A`L<_4pDtG2`qSD(NgfsDyYoKkm>|wuMaJJ)cb|S
04uHi!Ht-EQ^iw>*SZg}!3f+qBXAgsthdIp-f!?0zjb=t$Jf|ofXU%inp*bc9$sEzp)EM?jSnLDcU1~
-t65*0M?T^fJOwui{+T1cccDk{z_MLgnSH>m58i6YObA*mLf%Nq?Sch608q2y>dz#m-n6bJyvn^4{yE
)g%O+c)rtf-o65zC(Hsg%2kTN8e6=&gwGY0?+Pa!TqJJyG5BsydV55~67_3ok&6$*SKf%k06=(=sC+y
dT*~TgC|Z7M!)E3mW!+_QL$^eL;Trh56b0g8c3a^RxE_`P~=hXYUL0!wd6O5geEuP4ms6G`@}OwQh%e
MxPC8>}`>oCg?3Y`ue(@h?ikduHf0p#MUL}Y1lHZOErq<%H^%BPTd=}hUu^Zt8MnbQ&oo*(h`v|hr7+
$HLpGxN89`C3@cIL^leq09q$JR!`;QZxmXC-879ije0LA-e1v>1tMgG+$NavkPTzySn(S6)2hIVyfd6
5&fbw4dvo`vkf1K-7UmwMb%W46NDs;tIJu_eVPebmn47DmTh8)Sk;thnO)-yKQxmf64gw5?XmH{3n#V
~Yvx0@M$8d$WPajHF3C`y&gMN6LDaf9!+8h7N96u}dtFv%g1%C)z_*VRUt(O1)dT*ei7pamxxTFmEt%
BiUP#&I@Wf3ay`na^VFA2X?bW~2NEj*{&E`YluC|AD9e7a3IlCd2#6oO-W6I(7f2wiQXEG>4PuSGHA_
LC*{^ExaXgX!CH<RArilY1%mh7xKm=v{vBSqOaFIQE){R%!)=i7=q%MY4I)vT`U9#`$%G#m%+W3C{1C
E2Tx&_1okuADur<^a7PB8;#vtDUW`J+3Yc9K3*9)tbOL5nhC`bTSWjTs>9oiSScSk;#4=dB8$)3nDPi
IIV_<n<lRt`Kera2+p}S`ISob7v)m=7|zP7FI(zghYd=K%a#LwOk-Z6-uA-s|66_0L30bpqhtM&7prm
iS$xoX0aEY`q|ioFI+o&tb;rQDSDu(J8;qok(zhvxy&<ZrDxO@6&N^vppY`QhEWu&%#9?-kXNpP2!gS
Uh#fB-bByl>F2yb1+5+V6O7IR@mkVWNL)9@9Y(@qf}J4%w8_uD>U4{<rhieb?L1T+hD>OA`r+4-%*0;
VC;1F-?2H7uZ+&$v^hszdRzMijLysVC;rOIvX->okcu;Wkp%6Br8@GPzGr!OTrAd;*1tN~=3=eYTX(5
6K5>=SydZ1zVLkf$+76g|v5cCKNl8-|M)P(!^~T*^b6D0bqreEa8}*E_@_5=Vv5r{Y=FLhlGvpSi=gP
;)QN3^YxhzV?^LlppnqP8gvsP14Y{!y+U<V>g-Gr!ng7Kqve?3@xwQ)Ni(Hr5hOG-K{#%jL7$$g^WrB
jFVL_9r$whEtf^~el^>WSngt8dRxz=5&mkQa``TGvK=d-RT*&2DY(s10qIx4Wf{h4XZSD|c%xUF!CMK
=^Ua%_vcEi-XOdXZ~F~tF20o&Ky~u!ZbUc+(*Xp)xjxUA>nH=vL8IPidO1;Cg=7sbj9AJ3<77{k<|mu
"%text.

(** Lines 9465 to 9614. *)
Definition DATA_62 : text := "TeT)3d04_P5%Mjm{Df+~DgE_zV95JIFc(-|sHO6cd%5b&veNVRu;Od4^ZBpRt)$6;CUr4VVNtAaQ@iy
CI*U@H;gS%%W{hx{uXSQj19IktrA?c{?XY66ZF1Z_?KwHLIRReQ;e<GB#21HcFuO)~yg@lOp*rs1SdF
IXOf_?_gL;*?<Ut%*slt-m^42o#;Vd`VEwJezM@Ap>WpNe@d=niuZifpfO{P(XdIRMj>qOE03YDMs7I
#=CWx2;CZW`+<-L0eaaH$yS=4{2_Mfe=n_6qBzjmLtQna0)2n0b%fx?GCm`9V=dVo|Ma_}yXMUot_AS
G%=)XJ$wom>W^M&#LU|x8hP|X9=6_x$I~tx)KlvM%0LLb(TabPl}aj-0&=p(Lz()c=wpgS0q>HDD9fC
)?Kz39V>L@-#0jfsJWNz36@>`W3QdJ-FyBx2FpBs9RAKG_{Vy9r|q9!{Y}h;peT~Ym@g9^rzKDv3DYL
H1ZF1!R!kXK$%uL_1Ur>CLZ^)M>?b8)Nx1SDM`2bwmBDQKJb}p{aM4o)qaZ8`7X~vdjE>+e>^O<wda9
r9^n-!hP3a~P2W#yyG^A*_=nJ0`Mktst3DZF$c;kF3;}H`J3|n9vOok`PiMJ`3bwb84-x8+!6Yxwrf~
&%QSzKdEc$|H(G+*$1_mx8xiurGK*$S~fRR;&Oy)s(`7X7{h7;kh-@8x&zM}PiihZ}vb0ZsTCPynCKM
hv_G1v=_6)dhXqL+7np&+862Q`#YnQaEr`GHFP`RNV-Xph%e-r}9Ry5r~y<9W{IBbNTI)Ejp{iR8`yK
o=9l_u@V{3+xnZkOL7Uo?cH?}etx|7{fChE4Tz>1Aktrn3+Qt9Twjq^!hBi`pY7G9F!5NDS?LxVwI{J
|yMDG&Xv_|NhJ%@R@A$Lm#&%r>4;lpma8Hlb712V1H}^NeId)pg=}E<AbQhFZR2+}Vtgy^=ZjJi6toB
4x^<C>2>yxAFC;H)CS3$N$+H;Uxyo}uSqsz^kz5JYuD(CjePTcjvW-Z*hh)j<FXwL-psBT@ZoGf{z$=
rtTFZ&MhTWNN`1j>A4rvg@sm{JF=y2H-iuBiEe^J7iT9$SU(9u7}a*+HW6`QYE9cm#Gt_(al#Bb=HTp
CNziY@&JY4SP4Rbt@`~K-K3*641;x?GDxX+7MQyGuTO$mVKsS_+$Rekg7p1hf8VzwRcpj`fcel07hB=
R(o!})U!p=!Yci`J87;Iso8kJ5J4vTHw*NAYY9!~14wb;Po}>XT(QvIE4={{EM)bwGY9!23le%gL`72
YEv0f+Bx}maz#03QGzWgmak$NG(xfM8(^O`UXuWUo%;s=}JJhzu6sGuSg0o>Ak_{>c-f3SRa#y?(%0m
)ZtgH1^fUBlFzm02Sw$%edcIJ1&D+Z*h$NjBWQ07WuevxYGk?ZF}m>hJ0I>d!C_h+-vQY(q&#ry8CH^
y4VqI$><<@_XGQA9o;i4zLUka5Vk5YO&OndKs*oma3Pm$iv=tdG506fjs#9cIM%ke<gU&8STNbhN{W)
VEDZ4w2DTns_0}fXHf7&ZwCYb>?*>`(}AH^$|aY<{X=AbQavWr6u-)AK%iuz1brcr;(exG%M2n865zS
SED=MX2KGX=t|yPg0VgSzC`}ETKL<(aGB8E%42rB0fqNB>{B`Nx6{7Zx$d9p=qI(yzv$$bDf{fSi3Br
o6h37wax6@drzYTMro??fXwYpQFOuZz`Wo3(LOg=94oE_FD%YAMQ;t0b!va7yk_?oqBnr7J<=~oK4DN
RHvo&5hEI|$=WfnoXn-P!@VZH(dE2D$&fZ~AK%%_qb;1D&H&mf7ZOko6v0uH5c@$cK<VQE}&&g-J!U+
PS;hM=0azu5cY2lj$q#RPe)DGk}n{;EjzTjjftV%Ge3#jKI{6F>H!Q(ZBIyDqfu2y~`o?$P0M(!6f-=
;zHPknb9QU@sVDSW0~KQMl@lg65O!9(gTX{u*@uqr$m9RXG2#!1-JC4^e1Lz;KaAHB;q769v!so7*>Z
UE<gLs=3*gyOWP1;-r3l=47JcmdC<31g90_V<h{lV|gE#<!N;`pZAm;EBo}o=j$kI&Va;>gwDHlGTak
{Vz=``9gRzFduvuAW?_2?==EUr+78=V*7l&Wv38DJ&FXP>snk06w36=RC6b|2=o~pw@%3QqhowYjyH@
DZ^Kd*QzSiUNI~BCLYC?l#6=)%_Jz~-<;C6Em$$`T8*{(w0J2@YhvH+6WjL<#t-0y-JUCnP;dPO3&|C
VSr^y##;o{oB#?`&P+yY4h+3_rpTx34z6d#wO2NhR;9mtl6!@$1nHO}57>CXy^`6`xgmHJAg#+Qi23N
k-4+r&=~NX1||VHIIZ0DqLBjNb(^Xaa$%=QGl)uo-EWg^Guek=LltO-i6l1oSUeEnK}6QaFy_9CtA-3
!d|q%&@Jq|)Dt!!5{4$I8xf)Pbq)+SK6~6A+7`RWfzWu(x^e$eApYkO_@9H`&sTrDQ0mK~eDt)oDa&C
d7CFT=6B<@E0=7LmRWhQcC@N@4;sx>bo_6W9#RE2NQwQ`0j93ydM44sK!3T~4;Q=%RKJ6ZnQ`6$wX)8
MNXWl)SB~HUYCrQJadl3frnt<gSQV7`qby;#k;|zX>bzCv%%Oi1^<qi}E+$5BPp;a)fcuM2~mjj)Fy{
Zu6m#AAn?_Sn@psw(PXKzAX`=3GGX#=!3)J?xc-OvHXH{Nt1%;=E~VPng0JIB?%QE7uNnV&a~`)EVnD
jIz`yx$oe@@K>Qv(de8&xZV<4?b_trjrjf?)^KFXEojAUV-}dXhzbiLbZDnV!CxgtcQpiiKp;SNxh<8
qq&M=W;f3Rgc8qIX3*Ny+*OlHX@}ejm)56bt)=>YD_OV76gtGaNTJ!0krw)tQxC3pb9P&qQ)ewfZYtk
f`s0;+h<zGJ+Qr)59;fQDZRxB3Jdr`M?h*O;m{oKjy;rgeE1~{*0Px#tcCeTo@><RA6?wJZ40Ivl75P
l+jb`Ck?HLV|_m+v9>Uo*V&%<|>@772rt@d(y50xs+2v&BCTDVxmpr5|70j3>!1k9t$m>-rc?S?us=I
z<md82*o^w2xDD?iq~IQLv#PsgymsVR;gQoq>cL#eGZd5;|$Hrr4@B+a?hnjxM*Ef1JE^VTYM&x;E~E
RPR;hu@q=CGS}g&0H@#pN{QvP=kYgeC9*P4=bvWigd574P-9lv-LT+-o15uu5d1=R^jNLF2z+NvcHl8
%%|zAQ{=tIjL5%xS3VB$0`#wZ{A$~~uZnm7D>{3}-jBnZQ~x(NYP#%?ec`_M-h65FV%fC605w%=Bc@c
=7zQMO*_ljb3IKYhG+c5+!UdvV=fX~fZqN+oppw%HQxt<2!ENNGN(8T^Rg)CDU9x!ELxGsKApKb`ESt
cv3d&7|4I(%anDEL>5K6z*Pe`Y=wQyAtJJnj90GXS1_W_^{Zh%cB0&b7LE)bgbCCcDNKEKX|g+_1xXB
)mvE}P~%e6uZEc974J7SprpcNd1~Xv5Ox<BzmWS*gSKY)!>-oVVJ^$W%P}+oh92s9NtXoA>PrhN(i`Y
hAdvLURCuZ5_a`&5v72A3ksyG=8*IUl046_|QKx?9Zb{es|bEtCfoUSS(fan!9<}dr}$A4ua5+*|3!o
`MEQC+h5MOa4W-|FCUKT;a!7>(mh^V0ZozF)8J#}!Fvr)JjLg;Hm{wk6*1u*@4MN?jRhrPs?`~FHwTF
kPHZn2^bxtMTXfE-$+dbuQYQ3<*t?#(=De-YtxnX>9U+SKxjDoE+KU=D?C4N)ha<U4hfUZ#8zj|c!Sz
;AJs*@5J&XkHbTe#|+$^`zb|)-sj~VeChxpp}__MF&`{QcZ?y1&q{B4ySkezQHG~7Yg%$@Y2ok#is)n
2SsbsEqsPS@>a7q&ps`>U>0^#Rk!{fwTi44qK7>O&HdnVzJl3o13wksP1C%3X_EkCn;~SMy-bH&0jZm
JIi?184zgqDa^eOB<O??Ugs&ccOE@5=;CpTjE}w^%1w4TLPo=x3|KozbdM#sk`^$aYc{-v9ss@tmBi{
*5N2L$gf`2U%jcwuU^$(y{X9StGfT$n)TNpia6Xu;g*jkk#^>iZdx7H>%+2*Xdhv6?5SMB(Za4M%@Jo
VjTtNH&!uCf4>X{5S=Bvc%sCv$G~Vj|3f&z_H@IFr?rGQch>*mJU6<SFAu;o{c)g$IY@#t|$?cn??c7
VDB*;1bOap-lmhzpu+wucX1=i22EF$#)@ObKPX2mGrdA_`**Y(-OuP4qw%_Y>i?$1tN?MQiUXU%pqk8
g=v#n1V5jZ=QaVEa{roX7bL^`g7T4A(Y@A3K5=RcW)%*tojjmfGY+8>Nj~5Vu=X<a2L7$R{>#=;)Z7y
e*G-rIKk0XS+L*j>%(uSzp|dd{jx&XX;asMO~opwZsiu6C*9uTN)y}CK)eD>wkcv<>8)Pk5Tg*wEA)C
Z;<sr-|Y{y{c+y!k#!2II{>CbNm#m-VWHL_rX7OdR|=C4@F@osjX?XCWDR&ef2|gQL#;#-us@oG;SkU
tT(82xo`6cqNa*^4`&3X+ThZ*#G9g$<$I-N%IKjeoDWD@DopKbWHN+SsVm6&B;=K~_RBo2epivPglV6
L3W$yAAW|_XqD?ssdI^~-Fa(7nQm@*;gUy=3WFO&7E;_Hv(1?Lm%$u60y?lW$c8}cKryar$1VlSU@Ma
h<M>sJc;ha_|V8hb%L1z%uP9|q>f?fc%S-?sJfcS*7i>I}%YNwS}ZsfhYM=vVJMKn&QIqd~xM99Q8#7
u5JRF!O0%EdMZVyc&4@RErkIWstuVnAzlnTJ2i4;N^{dEbQiSN0!WRlUN*^m0Ntg)3I!C{j=EUdAQ9V
&V{XKsHAq=-8ggaj&k*yXX|(;vETdGcysnSq|+~RV=V5=inh!M>)l)4+vEJCpDFZtD@}KMRQ;YKkKvi
$@$@Z-&Y7akvIDJL9Aos6wx%CKyls<kpCqwi2K;p?Qz$8rfq2=rr)VDp_4=;gWVX7D=iR}m^6@-BMBa
?S(2b8os9g^<(Z!CEC(U^frEJVRul6F*G3E)s=?SquZX#4VJn><FvJxv@A93Pt#4>Xk4Md)NUXRr5`D
WItROFolZBU8xxZSx&H{=rZjG+-BmiOj<H^g}Gp55}nFta9gI0pq7n|#!iB_vV6?QhG(USmASsy(`T<
n$nh4%2TrQnWX&aGLTU5g35^Blz;Q$F2zLH$Ax*YFiYl6aUdM@?+1JLqc1FuCm|lh+-(;rQ1wzCi3=b
3g##IF9P}hvp3LHEc5e1Cq%3G;$tV?pL}Hhus?q!b>tgX--t1(IZb~LDzcb)!g-yVVVU58MHOkCd4sv
s#;~avDM*>_W_rUC2{gmH?SOfh<t$eQ_CWI9Ip(6dmhZA<yVAmIY4geYP<bqSr>wzPdv|V_*&Wr-t)4
>Yz84+KyjNG$BlTr&9sT2KP24znjUGaym(`3ungO;yRQ8&<>W;HMWbMwPuH9kSKSad1lD3pZTtHA%Mk
g!D5n)!wuDtDV?$k$S;aZsNV@EnIHLq|rS!dfUWgmMxxP-EgBxEsn54T|}lxSkkqA@A9#}nD9GgWW3-
DWv12TLARVQH+=mfsEYl2b_Gy6KKUWl#~)9_yXPpE@k0s?~vV>$4pchxGrY?$4SP#oDe>_?%yHpBu61
yE|eZ(2EKJA_!;niXb38zkV~xrm|U?Syk`z#QS{_l^LrLrnpk(xVkY$kgx(X5$yS%ng0USKNCg&NAm7
}xz<nk{dt{#mU9EeJq*xG*GxGgL6ZpZLL=ZRMY15z2CjlE=tL3g-yg#`7*wD@j|X^1ZB3_in@k8|pwC
2a%2I3UyC(B-3dH@^bQ=3)7V@h`6SB=}L;)zfuJ0Re_1E>@f&ir2(boG4V^HQ?SB%*0jTsP+Fa-E4K$
L?9@3aOIYvLXy0Puql$PQ8<kN+c#%fN?Z!2Sf|&;QMw`>X!?3f=LyVENU9=?mt?;x=9g%AY8hSA;ato
OJt>7s;1{Uyf;t`N#ba`sUrh{<qndf8PJD-+rVY_q<P<Nt?T&X3O8=|6lHfU!#rR4g5hrPW(|;HRi-w
mDijN6X!6Wx*dmKXsmqMR&yirR@Ee*x9SU9Iuh?dRM)1LBJ5wY-m~KCRE5RBylC>~MWyEx(e8X|>uOJ
^(e=6Tl4h`N8NJ?n&X4vo{JKGkFpjB7Qu|U(rsu%HH}ny+y0m|!n1OUsOGgA|KT}V4tmjJ;JC3gjSi9
OiZQ<O@fa1kct|yU@($ns|f8qS{+FkwQO+Z`qwp<i0z|>;bm5W1LFgvkKWe5E$>2Q@(Co0)PXyK;Cnj
Fo%{OtS4KiZ7d;t%sK@RxOa9}-;<+0Id)`ubhbcHGVtcS&+lnGWG7(vl$xbFaZwphn$A`cuvFyi!q%B
p0=Hb_M19V)+dIGVn*NiL$yse_ME6bM6ao<f-?3b7@SnQFrW?rcW_l;fCD@M1dbC1EEi&fh#m;pPOr{
qOAG1nEh_yMy_hb8+}naK|e;AzYQ=gWK_OVIjrws{Kuej^IZ5GRNlV*N`GYve@15LkNGxd;PUlN9P}!
8?tvY52zES`y+Y?A<6bC8<?lpsdA^*{Wm4gd^p5OcRV3gU<I2mPXkO1=u+H?GRx`yq6;HT0?L4Ehbay
r{E(|^P&Hzs$b17`|28$HE_)BWFm=$^VFf^TBqK%h47lu=Dc^2k|(#{EdOqo;2;xJc1ij<GjdohRQ!W
He|*t*zxB6%5qu&=jtl`8xlIsWNjVWFo~%bxb9bJ=s3o^~2rweJvdQT6-CKjCU(y}T&uo)x-^E2L858
^N?Aj<XI0OzDm&U$jxNcG(Nt3;GSS%j#;D(Cu+*pDhlXbuFnb8cm6|ekyh^_38PB;uLmlCT+(3csQKT
xuzXyt$T9bzd&ZQ4~j?nNaFt)aQ^qp{e;ioEcKUs<KKj7;H>*e|8P^CiZ^M*V4LS>15k4QG=dRq>WJa
T3h~6|WlwKn5uZFA*Y!ejqjIL8c+I2$_VEy`geD*ySTAA1|3<&Gk=(`>*Rv4@C_KcQ>I7g$kRT2q2oM
th<=_}(*bxTqJlTMlOgAB`0AMsI`LB6>0*DFerWy<qZsfn{pJgKUn@mLTCzyWyZ^E=Ts$Y$`>ThA%id
`TQ=+{87;3KGpKEpEd0aPQOpgQ_3R6}2Km45}*3wMXUrYFyDKckF#?gY4Mg)jUbuAyHI=#xAZz}<Lot
K|7YlAYx2hP!BoUOth@DXq2BtrhvPfhInLiSsm3#2b}dy0b^jLhh<}x;~vXGkL0aV=uWjtlp17?~&1I
%#Fxx7Jrm|#z7T`p?RWCy|ejx=jk+Ph#}xd18Jz5TH4c7Y6cve=*!d#O}0bxNeTEN5}ch;7RPjC9uRi
kbpo#hNB?zio|atR4~bEu-E~-Am55d+m_J4P(LNtBM!wu8w58rv%T4HGml6hZh1_(Oo@}{KrRgf|`V_
e!){f7pb4L_dn%d?Wd-C^_blxe}=y)i@+mUa3hp_3NJQJZ15~-rL_+fnUJ9CgO0iq8VT)FOYGo~%QpD
P|N1-9+on@9Zx*Vh%UEdbZhUyV|eEWGaVK$iom3Y5$3ZpL&~O=kA$<=1cxeLu-B@K5tATpw1rR<hqMO
v!JkR-U8(K|$#6!Zq{-uYUp8xh8zI5DLD7>zf0VJ4+~Vo#*ee>F*$$FW+(UCLWk`FRU{anDzkO+sdxA
q_HtGG^QMD1f+F5M(!4|G0Q3*1;;uC2`rwBjvnuDC{BvfSDwkT*kY`AaIeQUFmAOBXHz@n68gNeDl%2
$jiNcr8m74D@pmhk<(puOi6!GVb>FqR?i^mofx1C)=Gq2%+jEIuJN6xx6vdwtJ+0enmzBEO^s0IhsfK
wUWv>a4nk`wKoT~1Ex@jojkU<F(&xW<lE{S!MM(xFfr|d-z=<!asN6yIn=u|k|Xbos2xg##)6#F^^F?
-0Di1na{$qU}XlINJ0TJ_MI)~mu3k$=c<YyVR0{cMi$`I<C3!5o$t&M0b4*5Oe*?codgs-UU)2Rwt%^
t>M>jenuO@Rt(Qhx!ZcXU<^tUQspvOdL$!$ty}Wx*&!i)PKHP>SG?`|HZrcfwuVDJNYhRKq-Qv5C;2@
vKUi<1`%yTNMyXVz!QM^Yvzx~pCzNv6fhC-^jBnv5dTaD4C&1p6bGsFnrkE2){~Dm!XWXvRu9~*x3rz
a{+s?v4uaksLg~#ynn;1aT10`Gd=P^mfZSU6^kydtgs~VPHo?STmT5hRQs7#^x}<=}6dHgc1-6kM=@>
*3MD)kd;R!N){Oc&GWVxN`{DQLBiXX{A<lObk&L&>JvhTi%A^~3CSEBm<dm1D39aH`G7h8S(a|Z<TuT
;j;nf>)O-<HzPi5UQP_p=-XD9U@^Q1ix*hgiS9{?$wl2p9iGz2H+90Ml$~)&WI4*AT7Px&U8~LAt#i9
J7%7z+u`OW$sHo0sV`<_*oYVaLyt9OQyE)Kj~$BBbTv!r7x~`=K;o{@QKk6`7RK9a@H5G-%C(EHf|>f
r?79Ro$Zg4v(V?!*)J!2^>+QeB*tIug`Wqze(Em-PWRM>UF&zpl2vii(#}pK)2&WQSGj`p9&h2g;&Vz
Oj>dvZl3$*lNTR%@z-~ip4WQIkd%>F5E*#tA8Q$(x)k^5_;2w`D0THKyi|kaMk?35^bu|h{$GhJ`i+!
PpFu>V!IJ|8-vGv}}WDXX*M&i!nDCCH@qyq~bi!xBj>+K}D$sQxc#6`5*A>Un&sjMP#bQ{o~oG64X?=
s>AqDvi*dAQGyp13>Q6cu`h6q8farFizu)x)3CBKed=>Myo$TkP!&VsVY4no3?f6TcyGrk8w=KFjgG-
;uTPfLKC&`e}>kBT;92UVkqS<y4cfL+uioqThS1tyE`+?e+XsW#(fS8v&-ZU)u{%yFQ}te`Z<tojd}R
am@B*`TqO<Sso$xCe2oHEeEl=IlK9f&U01;J<rywKKgd1C5qqJ6N_}>j<~Sl4_%MouzpnPQeFvhe=mb
4lg1|#?j>k&5iscRz4QUkjpDskojh6}m<l=NoXBMt^CRs$=ra|?Mnz#nM=d*cBI)fOmdIVR#$o*V)y;
NynJ`vxcc>L8mr)apWFAzvdfnI#I-|$s*bOgKy=Wfn8T0J%Pls<=nYj|Rj*R>{(Zt#$Xe*nnWmKORJ-
R0C%)bwm-v<z<a5jwdyW1q|7pq@n=RnVn9SkJqys<vO4s^{VmY651Wr+>^rZLfc>6Zu9(DnQ>Al5Y_;
fY(rv1woP+k|lz#$I^SCdhb*6bZ}ii;F)*r=KIe)k@;N$9&`&Kbv0L?FJZ1dP=@Dv6&gd>n1hVQ^Clk
JzdO1)H}s6xa*mEsYaAz9L=B&((U^m%X;&?zYUp%mJl+;w@3_@0bWyhTq^EPYr}UEcHbuR_kx=9{|hV
{w&7zCEv&e{8Hs;;Y||fb@Na{Ue{|KiUJ&2EJbb4~iQ*Vb6D&rd6i$!?je@^$gk*7&!cY<;5R4_Lj{*
k3I*Gw}FwmezLG}(@+kk8M7CA&9oLHj>Bn0r!e5@aZZJy&S0+xx=jrPHUWFJTq(4dbG=HQ4;9CGt%#S
y@3VSzT)F9L=j1*M2Ju%Iw70=-58*w)`?(9Ilz1+fho0Re6{0c8<tBhD~eVFNS+641~`J`H4(TYCcmy
vcCuOZ+)t5IwN*KfeYHrU3SLljFG82s~boo73w@PLm=>K|h#%U#_4W@QJ9gk>CMr|4_aB?wn1}@w4E8
`&rWwOwr9+uC7~`Mrygfl@Rp&`(v6|ZC>cmS5Aq1u-A<K^WgG|XO|6<zpr@wbPhK|o05R+E&qh3-w~`
6#YYambv2X(>8QxuY$%5pyKYK6i<b&~PO$jEJ4)ZZ@Oh_1IBhi@AMk`n6*u)n%EaT6(}%gpAeh}5xi}
myevj4%`^+WPu5)!dokLcMaZU{}3Avz#)#_(l&+xO|R&S<{*Cg%zo|OU`FWRF&WubdN?;XOh7(skd5|
f*6j;n9jfl7*dL|(k;5-=zCov{c$GNIR;MTHkHuRFwPvLzzZWye`T^Fn8Ye(aC$E|)m1X(`zdojS4J5
i1T3LLbU>XCu$ddz84#U#Y_tgN(>KJjo`PDvopfr*F}?S>G11AKH|Kug2~;lU-`!C9ipS<%Hch3uhu8
3cK($z3!nEaBk`v3kaXh87fR0*O=?4dFyS??E|NAi2n({%>9T;V|{$rRzRQ!;|(8#aY0T>oQvPX7tiP
xq#Z8}b#;6FVpH&Jwi+u;FK_&Ht}QdW`^)cp@ygh_7eV`1=?yUMNOzgMW^}K4C4=AKHTd%!HF+F4$JE
b5ckN?8M^8#qJh6xQ#IM(Bcan4xhWwDsq&c1*M{6MnD@Ov$AsoRb@9jB>`PU$Y>aZ}kHI6H%ny>LbK~
5~?q%n6f7Gwvd2m;GWj!KT`jOoR!%`Dbj5%$zEcerMN8@ZoinL3ttVwosGcnHXz!i#%&Xo9_ShTfMeU
a0PF2=-U%9ch<kjwxQ{7<t!<iPA=jzOXn;z81AGU#6T14|s^AXHjHMYejd6@`@8SCaMpc&ilsgP6#HS
nIn$Dlotr+193AAe6Z#F8s;m^a^jgMS07)u@o_MGHpU@Z;AAf*{(=2?QhlmIe`X^J9B>i;a`1z6_-|e
C)n5FklfQ!^f*|M*bJKJinhruBssqe~HZfr^Nxh9%rzxl^<C_gP1H9=zCfp<d3D%@BAT~8Xa`O>N0qr
K*Hu@L^KNIZcRLX+BGZuhmGWsj1Syy2;A0up=*IqN@C<b)@7zd~VxHtqr55U`}LG5}4xb-6h8*hKjj%
gM^C1`TTU~VnOK#@HTfv(|t2lyYIi9`pa5c&KCYD6x#+z%CxCH1G&3;H4V+WRj1rKt8P_p(}`vh}%Qe
fakE&Ey;UJWcg^idzNZU_X#+emIu%!nXx>=rg&-)p+wufnB#SXZTXG`<$bO8vp!~qh7v!9r{YJlyv@|
zzx=pp0|iB#PU(D6#mX-8736-XB5W7GrllYeAjlzyVzw$ZC|9lpyq)qu;uwuvi$9Fdf9o!hj9a?FXc(
LR#v~oAv<3VM{buK;;_r$b63~<eW?|KB3`er0Q0O`?QP~g-4TPAYv*=y!~uF-FfJ*Qj_JuXU{x*;pVu
94I(q!#tVXA!_F)Z7;T##<EEXy{l(vR5l&IYHN4pQN5PIutB|;s%&0C}(i0jUYY+~%-g3I+`D#^A#*K
0Pxof3!3OG_B(-C3Zmz3B$*bKT^^k=gG9rrlR;c1})|UTF3?wvxkR2#p}S4)*D-a9VZEtceWT#YiNgA
0zCp9HS(uTu3vlbQFdva);;cOVt_G#_O-(<~zoY%|S_huX682H>2|ud6``iv*@+AX8#01HuurF(C3qX
sraiWS{?M);pSY<M@P86$Y&s*FGeENkK(AlAfKeoWm++L_u|{eHt?$ytVkSQcH}Wcol84k?)vzC`+Ki
BJ(dNwJM?*isVL6(hMiuZ&U78`U6y$DWc61|#K`0JK6+U`Q{`+fLR%Lyr=@4fksfL<6x7>uE?n`X3et
#;NQR6yIbO3Rl*2U}^oL@4%h%xe$^&1(%I0eHrzfoLvHtRQiPzbTyJjeh<Bgw)bBDp#7jz#9Db#N;9`
G^k#g}ewSBN6Wx~vf@eoG`h={ir<Hwjs8q<T0J_wsg2ZqtNf67_N*GL>Axl29~Q!oyx3Plx;Zm4Dtke
V<=1T@oj`gXoj7#!PE$8E{oJl-l?Y$VeXm1@_Oe<)ce}jV}Me{@5`^w!JvmthCpC8QH}2*K`2T&o|#|
z`Be9Agm_@AN&3Un|eOYfc_>*fFdW!03b*)08Ai5`ZO9Gf`n=Pd+S<)tcU&;nJC&o1xzv_fQAWDEgFC
ovyD)Ja_BazjFVfY69J~^nscpKh-2VyWXs4_Xo*u$t=$}pz#XiR$%ZRv{SjJx&@p}faXwl4fGoN02*2
OZzqTIN4gLD<>tFVBXzS0ckn#yyR`^%|8UFegv;bL`Z;$2Q-^t&FmS5h<chCav<X4=ZpD91$U`Qwj8J
3uy(KWPo(_Nu(j#0TP<307KmQ^bGlqsRjUQxJsQs|B0$;rjNzdl&xK~-SgJ~5Doy~6fVzv+kUF<D+GS
~tw_=w4Sum<)!ESZXqwR7l;BXK&=?z`q};n^=gdnkarhLH67U=WyMpu0q!GqJ5U`%Ht?${ZcK*^62eG
"%text.
