(* ===== verification/PipData8.v ===== *)
(** * The literal of the pip installer, eighth part

    Lines 9615 to 10964 of tools/eposiotgw/get-pip.py: the characters of its literal
    [DATA] as the source has them, line breaks included. *)

From S2P Require Import Literal.

(** Lines 9615 to 9764. *)
Definition DATA_63 : text := "A(qer4wr6jda4wOkmTKc<Kv8`lfelh%cpBid*OgS#g_83@gZ~0&}0*iP}0t59VS`OhKe7ah;vEQvbFb
KBMI`Pzc^C$Y3M?XT2vj6yD8N<Wu&BK9`9;=l3!KbKH+d5n<obI@FC7IhwhTYz99^?CwH|PDAgr_u>H
ko?j3v^?45N{?_W4S-ooF1Nzea=aSzFRiO>gC&>Ve##3;(Y2DQXHp2}ShKe0?dI2ZbQ@&`H6{Wp-q!3
lb#x)_p-iEiJA<b7z*X`vIYO$xk0q7{X;*_FO=RhLWxu3lf^{=~yfW*<G|Iw;RtTXb6*AXv|0OUJY9w
u>omxcdkBAuLZdKTgQYdHG3ET#88{<ySXY@!7>}ndNfNc!^!V{=RjHLwuQ{L?lJ-(v;n~MJK}ObgkcE
b2=|p5nJ7)T1YE%%~;eff%fm&PuseG!p+my5hw`58Qw_&!Yx)@-A<2(%N8inhLh_b`UE?s%!AgR!i0L
<a$O@1Y@)BD84yi=Xzr>Esm$q2(yhd;38_V$o|Et#T*SFOoPBScyNh5jd)=Z^-L3bRBJdEWk@v)cs_)
%<sf-089%}u5VWN3_P$BnkFz5Pu49UCwM+wazuK5XdzCHhsu)}UDE96H14=~W1!nX~Z#zEDKi~zqRAi
?Mh7;R-fgq?)i>TWoI0Rjj4#ELd-u=&n0Td6DtfU&{`O@I;@N`f|CvgRDW>b3zg?B*BFrht1IVj!;p>
MSH6;H<z%L>r83eyr(+NGS>`as;-G1a17DbYt^`TdNQa0kJjO=(*@0X)$sDG8*)c99H??z)qs^<Co3e
`Sx|kC2JtQ3`N-IT;fw-YlRnW)WNLHU*as}564E!{;TH)eGzB*zULPgA^K&S;j<A+&P88FYUFQThg8|
=gPUJOFZ~nY1{4z?zapuqpPEP+Xd<n@tE1;YP9Wq{&!zbRxnK2^A0A!U1(&3Xi`hLPoPx}-7d@~0t1C
2&7iYS+;)oEP8@4+b4+e@%CE*8$xlJ@L7Pn(Y*1mQm{CVNkB0(NHfg_i?p8cHaib%}lOw1&nd21$pD`
eY-%>10`Jd#+qFt(Y>(|5Bh-zr})7H1-tk!ha2bSy7qj(SG$bOUi5;)~>^^Bu1f`3}i+Qc`J_lySF&g
L$kTa!Yqjv+jK58}_MyI0gMfRdo|K%t1nT<-1QGZLx@zMJm_;Mf3sN2e{e3?k}Y=$-OL{d^8YY`yPuC
9W$r)UEJX$Sq>N2!syNn?(IWP>Ns$MJv>6CPe+!S?MPNVh_-vhJ^p+p(_3d2lB$@lJZge1YkHv5PV+k
GPYe^*-8LGc9m1ef3_1I{7W~k~rahnE+^W+Ua@GiD5G;l)Pe&p|*_uXgzBxSM2e1)&nz)b!)*IpXv2c
UBMDflHhx_Y4PjMzrM0%~>S?3P8a#H7l&#O?rpa&Y;EAKr~Id$HPZWnu;vsY|s??Wkj=Y9P6IO=ScQD
rjk2j+_Fvzxkha*r{wrE$_(d;z^8Ra1wZTVKh^I6Axe7N%AL@efvhp!rpuf(yy}{ZY|<O=nHcpYn&*q
}Y^PvloYt^Cc;tsq41&xlzhPbl+K_-tC~*z3--pUGU3fDDI6-Nu84f`of$M=Jg;dqkNVc<Iumtbm&*0
F6#|_YMN0zJ=8-XBR2&R5k~ZK{Ox{=>Cgu1zdQL4m=1jh>Y2o8x4fL_TiPEiZociMM!dDw9T)DYwnlf
sD8Tc%%}c|Q-M6n=5flV3v&=JQ*I!dTaU_D^$wGNNd*+g^c{H-vyz)TJcM;qMcG>xN13}4_nWk=P1}e
Ql>X_e4nHJsbjx|9r#PbgKPN-y+@1cO%rHGU>buehyR&ZL5Ea~conjr-b@x|NA{DL_Bwug^hmkEclHk
a&Xnl(2Jr|Ph`Qau#YLUdlvV`tj=yT4r-IWEKb+K6r>23HtapnmbZlDHajjQ6Kt!k+ZY=R6c>In%8DP
?)$qPH#-AW}U}79}kJ!^=?fjaU`wByU`)z6+Zf?dNIW=r7_YM&Coke$rE`^?;d5Y%JX3;&*jx3QItO?
`8bRHMTcLwS)P?+9zdpwT@H8I_HKGi(fDhUkXpy~@3;8u{F!jk;mT!%dtdhK`n=)K4(UpI)MZa8F;PC
c(6h3Vx;dk@NW8IV@f0L!n5P}s@KdA=?m92<lCiWoI(FXevZIb*Cslrm8eiT|+Jl883r^o{ahy`^<(G
l-Rvs42zRK$~8V_`;eX}ZOo<K$vwGuX|UtDn4JKTBr7Y0kr4iaVJ5OR-OdeqqTV88|?U2A5C-jX52rb
UXoo!W<}%=_2yJxogQoQKQVIKMOalJ-Lhg@?(=+?w)_Gi`LY*Nl7p6s%u!XEsG<P!0H9YQ3T>*zQSIw
70ty>Z2tW_%Z&U21|cCNB`qhzYUoFMy8H$N=qRF=6-PsR7%+dq}yvW5^bh2>k(#4*;(Sh5&dDvgm2m$
=qB<(prCxa#ye}+0=ktH2w^C83#cL>?G&V7jGFkwPyS8Fgl(fq_~y_@VqgSmjoc{E^W6OQP%x~t#!l4
cOSAp}Ufs0TqfOWy-9FU%PIL<7On}xpv&or+|3&_&)+&cv$aMKr$h7}AA=7u{hu?-wzs=V3pR)D+NB(
ht%GN);8|d5H`Sxzskmy$#yYMMvS3$-O7(~M2$R~cb=^2aX>AF79$0V6X<XVw&YSGb6zEDaN@4MR@sY
+PS(OVPuO57o$#GsJ7s3$HlLJF^OJ!u-Z2h%U|tuO?$!Y#Lu%#oYO$bR(l;dK#`Y{Dvq1zMY3#a|Ujm
UnBkg3>v9zw7$g2*$G?N2OGsW@K}TKo-Lpk!pt5H9wluv8nIysbS9)5v@6M+(5T5tX#yUaP55OUDnMj
#ym96VVvok=|vAh+9`7>pj0F0Bd6S?eaUj-cnL49(+1NCY7@fiuat}H69zB+Zb2DwG)9^_k%|JtfvFu
XEKKL;A#UR3W?~iozTNMQ7DY*)k0Er_{kNk9jmsvF6W{vFQ5D#_^9MVA-``G`z26?y7VdC-Vy=Pgl+@
@%A*i2APS`8zKx!76#cn+}@*P5z-bYoVc7sK$j>HXxN-Ql}CP9v5PWV7n?O>sDcvap8hGfCbrg3P7{e
s1osYo;7yd2ytFDRErhKJR|RcKc*zSDD^5gC_1yK4qPQ5q}>y;x@Qg85bl-8t^%H_I4F+`+7molR=GX
BO5$e_T+rzk1<u-}X3M<~R86*hl(miEqAT<g!yQSrx57m8H*i{Vs4fm}#^1i+5?7X!eVG9NaU{5+OzN
?3D8RL!{ZZNXtw|i0JbvoJu5_3Fy?J{<|yhI?Z17cv`gQPUHFYqqoJ1v-fD09dmXcY;&qG!Th<g3;n*
-Zea|1yYCtk+rdJ5Qw|etFNn2d=5hH{X@|a<R{Gt^KaWs(-cOTmpF6wjj--VA^e`4I;rg(EtA(P*R&e
wqoYC%~;|^jR%v9@M(%k~Zx93t_*e>ED<e8GMw1V4m=OkHEIQtonP+8hb1J%ko(dv<(!}@4aBbGNE&n
)`hgx2V&pLi?4`^+b7T3L=}P0p0mWZszU{cAKoJlD=Mjzb>^a$r?|*Bf@Dp=phaR`!PEj7;@@&m7;^@
u0!$WfSf4?_C+zg7j7_c0W}_n^*67Y33W%_jARH)-BQxE~e}+6%=IfzB5dFI$I%azAyD5){Z?gg#7Vf
q|z%o)(wZM_ZK2mJ}S-(TBSJ4<ZL$)b{}|<jb5qi&KQ{Cl1}*Ixksi}>x3Xqn00#d7>M+i9aCF|QQvQ
M=IyLlBc3<RRvN4e7f2DEc_E_r3Dfesj7ho3-YPX`N?)oDW$B~p?q;2+GkSeYwUE_}<swAlCV2WV>XI
oTbbK=B`)G-c-|BGES!&cCwbYB%<ANyc(V<)PcuBIyF1y!6{L~9v!}y?`X!T_t4i0n{9{Sa#V_Avqa4
$!P%F<(}!P1g<n=97s$TlfpO~>Nn&Dp1cVI6UTrw4%x+MVa_Au2dUZ=CR?%3z&)%%8ezoxL!h757*ay
o?hky=v1XoA*JrAMfEs>X)m3Wv;LD*?EpP$ke#Q@q9T2&%2H77Ts}f(=_CD^_aA}lgb-T4eoOZ_Eb3U
g=zQBR2L~i^MuB>wR>FtKBKH$gO(`x&-qn6Udivr!hta559fanQvJ`Y_?1`oPgeW0oC^UeJ_xgswqsB
gq6jcXwMI6{rjY`g+}o@48uWZT^o6saZWW=RAO(zoV=%-W1)%B`g&^#Sh^>eegVW-TGKPeppH2n8niA
i}&1oF;+9T?}c(7Rv#@kv5xR^*bP0mf`Ki&l5){qelqer00zeZi4tHN#~Y}*V08*U$MlOs<4D19l`AP
B4GKLug=AEhr%7X`+&xp(1>u$=1fFX>Bcjjg_fKi#+IL0?Y%TXV@5?z8wX7<|6YXOY98zY1I$uG!Lbw
t?4*wiUR%<xk?natE#NxW1c|*%;XZ0pTx&E<NXvFNLntRqlQ|?~|lj2K~wXMYDge)&hO6qn{1b(W=*X
-jBOyQyPq4y@X&YggI?)X&@nC%I&ZMyR)YtI2F6%3EkT=rzt@hFur(6-Swdz)M<?Xhsn-e=T<18h0G^
YK0BjZCr5`*xXZgJPgSm0E<dk(Chy|d0lwjT<(<|IToS}0&L?(1(=UDr2QPogc+^t|%gpg?Q4D)IXIW
nQIUQW>)`iZECa07b-B~w+_s6>0qXc=1CdVR+p0)0+AZN72&Cv>#2a6`2QspI5nx;928wD3aYbt36WT
RZiWDVU$B{3dSnG*N>I&)n%3vB6+iS@Q^$}pISRa&Vvj1E)1_d{#UX9b<{_rBOk37KBfQ4{*ZQB<q=X
`rvR%*y9%1Yguz^jurNz`vkze?JYz9dW;ceUdFnq`5JR;Yl|XSqzOOe$rBges}WEdi#p<V}uX=rMJ&B
k4{PzF%gK<W2|<lTSWJV=dW+n;)3_^?~BE`C^I9zZJUzUbj|T8Lw?U942Gs_ra!RNKvU>(=KaSboZqr
@LW;rJ^|Kl_)??vY8t18NF)Dm;6Zo^Hp4WecQ(o`qiGHr%NXLaOxnfpK<K%Ng<D80-xk2#9$xJ)^d>A
H1elUqXqnWM7N_5&)k2h4Ado_f)>zh6Li=)_SkMw6PVV9?G8n;uPT->-MvbQ9NaUEv!i@>vE%-mx&5U
_bCK$;frbuU<UzMooMt63?&Ts3`|T3vl#gOa$!d*P0pOF9%{oXwe@XO%b25ITIDsJMk%qwM>9VdIl&Q
F5kdr^Rkmjw%xrT_m6WU%^J~e;gZsz2d*Y#y=M*VhV7l@Mtr5*(QsT6ciCq1hi+6O{aea7K8xZ`0!(m
6o%Xk;?iwoECh84dK*PUQ&3%?KCz`YTiq3_(9PQg-Kbg2uk2)27{#|P3>j>L2gEiLO#xtB?=1z^z5r*
j&B_f&!E)=*D}Xa7!1MJ?h5*9|$TkO^;+s?(1q=ch<iBD3#{$KMjl}<-VB`FIY!sjKc||-;%>I7~8}r
{ciJ<SgMB17hS$J(+5tFUv$&6mvt!?#=X7>?mjLsF0r)*i%F;5O!l<4$PfG~vO88&&P`!x@B&)F@}_M
()xhsYFF!-mDYy})Fz6H(|WwAHEodBSk!?jLu`AV&}A*!la+iKVRY?ZNY|oH;NletEhLJ@t15Ezx_Bo
lHF8o=Yko)~8~TYEM^LId;QJ!l1)+H|RrKjok%7@li9f@r^T;gfhXID(>gzcqtTqYAyefo3Yd(ZQSM7
YkJ>GJhOK!#8>L;Wbqy!Is_j+2W*_)&jY`c<tNdT=2KcTqL*c-2yxJ@H4QmC>MZWgQv0e!rl1q(wlFc
CoM(j+?#G8Fh7W?5y*R304my$Xeds6!*DV#Jk!C<@2kY<b)##CoPl)2g@Q{(bgZ{N-t`gmPC(j<LulU
#;OH%A<9fzj-XY)KB0*RM$JwS%#Y#m)HRS)n{#0!dsZm;x39i84|RQ=}e&0IgU?n64yk4L^d-gObh>O
%U%-dBrR3zadFG(H&1Nk5=SFEx<QaI8zY0mZPi(mY~Wx)mZN1b$2m#}j@INvq6|tj5lDkso(9wx;Bc6
O{u7pY%oXp$Ze|{SiCp;^EOt+MR!?TIEcg)!wLM#Ef|LiXvxNfA!H0M@6*fqT<lIOqUW2_des$?nJIJ
Lu3^PA`kiG*sIk`l&v+{E|*aiv`R?dd+U|+1c^sl^=9`dM(ppeFHIuo?@oTm5-N{wM)df(4gx77*ZWZ
$DTib|Nq*KB|M=wX+#i}m&~GO{GKurCR_Ps9KF{?@qm5F*I^TYrv_4Fphp2o(lfhq$ta~!F?Aa)3!Kd
Rbnd4&YZ%1-Ow8O1?5O9-rYJywWV8|%<c2VbING113b{KTpSE#3qR(43W#y?!h$4~|dR_{cwJM9zLyX
KZR_N0rRI_1QR=Hpnlx1`6*m%Kz#1OZ3KJulMAi3lPc=bz7hcXXQASlk_XL#>^B%MQ0|exJw)KQ(cCo
R=VOZyEE#@oZ)wL7%Nxlbh&t#Utv9_QtfEt`^6)#(O6mxto-pxn8qghz-MjH7|Sgc{S;`GyB-N*Aht0
7opC>SV?v-m_IFtmiIN!(O!CP;FPT`LTSUK)vdo3TR5ci8X=$T7_VkGJNuo+L1M05TzYm$`)D>NLkZP
$7w@Rk`h-kPFxW(@VB=}utPko7A;tQ5I9?O%P8V}^^k+<lxI8mSPQRmiRp@P`x&n5uQDxA$`oIQ$eIK
LFl6)+GtU-Q0+?3;qd5M|1XdaEcuQ%vi!tDFuvh3~P`zIMW=J!;QmK2aP-8{Sw^Ui;rbH9Hp4w)TJY9
NPbBpW$J)}dpB5a*xK8&7z+YX$Q?tBg{Uq!fvAlQViTO?{$?{pKkI^&Xa(YPfl4=1%Hs>}pwSTwOr^&
@5PVq>dpKT*QY^rWg2(RFjgHaQ=`MS*s04hUsPKjpzomw|kk1NN=tGFxP<#M#%D*@);b@aPtoYYn?|M
{3j8rat)oL<crjeqh2^bM%!LhUz<QIh@XPui_YACxVEjL$9D9GnC^dQ$uB|O2g`jMx?v<sVkm>qG=(u
FgHs5>AQ-{0>t85|kR(OY?1#1=YpjH#TLWsF^knhPpZC*f=Qa^TCqOEm+#GQc>|?VfWQ*5AFxAOK;A%
ie*dnt}u7hiE2PQUCFwco&fOnQ4paMeuiiH3=Rsm=wt*4SCphqA9kiKJLV67B}Aig6bP_>CkU@F2gVD
%UQL<GR7K*0PFiEfU>F*t3F@7DKDHop<<k25=B1;UT2`AT?`2oJR_1m=emzjLoL>T{9zA>oaG|0tCWf
<FDTKsSi_B<ES!rY#Mc@RihFI%TnVfR6UE3J8e7Zb1<k)|7$IE{N@}nR(Nf5Yy|=y!CIwGR>AyzmC>O
%fIRa6mHR?UVJY~uL56?HL6snv#4QT=?u9FOqtfuO`6@De}lV+{!eayld}CkxqWc=(6_h$_Xkyl!C^^
vUs87nD}|{L(v!@#dxH>Un|VZCCn6yN8)cl|G3KD&#HKyl#(s}Ar$dgs_0&;Yf6sGILV}7~rd!b%Tgy
62?hZANOlSqpk;W<PZ5*>bn!(c3&kPm26MNin7Gl{C-JS_5rx;@g@|zW{F0_})<y?;#ZuR5cgBi4;uE
H|E5!+ZFO5cj_5>_##U|=Ir7zcKRv)vU(-VKDY?0i<2rFi3$OfQ!{?_{?PUTo{#9-|V&d|4eU&F#fng
`dQ(I<|_E6gER}HorqUXjqt|Az!oeWo$X6K#FU_sHbC{Bv<d@D;3U9I!$*wee7a5FN=qK)Hr2nmHosI
X>fw#TS9pUOd?^T`x391`T7s`i*V(~at5?X*nZcsF`cuj8OA)qk*FohHQe#Um=Ss^c0ZYNT~|!|JbZe
CWj?)4k#Ksx3EjO|aQ(U+ul6`<_j2yE$2BzED}I0*hwDm1$8S<qxRC`d!lgwJtBnGJSCv+*D#q*PCzU
4GH673iLlXwsGw>W$m%|BtKFPFyz-g!)?_CrcICSDuGZvhhg~_*Zxa{m}$LA9Lh*&Xy3WvpH@P*#h%k
p%O?a@EL$i%*GiaPDR_$jwBL=U*e?r7FKx>IuZC&UWPlvkNhDQ_4>rf0t%PvezQuAWq0I1Ewv-ZKMQe
jc^Rh(>6)6GOkzI4;D?lipZ2idP;8+Pp-B#Z5<nUjbZk6+?1jd7xAHF5pT3P+!HJpQ!oNK{(4SFAdJ$
0d+=Iy0q7zK(0^O&G7c(KjAxoIznH5njO8q9!t_y|GCuv&wrNxRR2%)V_D;mCw~FA&nJGWRD3sPO0CG
ne5eT*fw2fM(MfIN1`J>xgeaIeSd)8pQ$hh~gaJVM1;YW@!(*UYP9R|J6Wv7ESKPo-K$>6^a1bZJN(c
ppK>?VcTLs})3hXO}uE3TiK#gU+s}KWfG0awGU<pt-`Q$B6$6!ta-!x-b768)<Pr%le1#m`@0DM<a1N
OQEz-2(cp#F;ye}pY@^9a2BMV>R)hxQ}#oJjmYp5ry>8*<!Hnhs7_7L<RphII=cPY<3_6{Zi@9RDwmS
<M!%n+rS|UU(5Q?a$ooe3O#^Bsol5icj3^<@;m*TX*me^v^YF8ZWeM<BNWX2+w%J5|k@DE_fNLi|&b%
Jw^S<M{OW7v1#;KDyZ~Bzfj2<)Du{HGGB5$Jl|(eIFN_<^gOy1lo<EL#QUcgik_=2_fYY7FJsMr3Maq
oZbifA>6G(T%a{yyoci1^f~Q0vxEKUEp{UUH6nDi_JuqzIWFyL7Xub*HoDp&I@xoGxzWAvmc!nUsV=Y
J3Qtb%(dc(q=C~iUBL+6lwK4;jsD1N5krgSOzcwOL!*aoh1mwR?sl+7jdQqr+$vymUC+BgP|kjoSXtJ
e(Tj&&taQgAnwXp;Oqs~(v8-uG}*EAEXp^vmLOT^+MXw#f1Yqu63tT1-WoHpFU=hW5@EV_FS(4*yDr<
d-}Hs8{hby^F4W3-_&bxr8T^G@7FnHW;Da(hIszg!|6ROmE*4LuPfDVaZFfQ*PdK&zS*apIf#m<KYzB
I$U0-NV|r0rXKr}r$Z+f%I9n6E$S)QY1DX}-)CB^kg>3GUJ$3;&Y<ZsWXjvmWFc;~SE3E4!(3{xzKA<
=7A!&5{TqDtN|SoVq$ik5reBXDjT@{%*a_M|Lf+UC+0wG0*&aE<h!?$*#L=#6qW<=rSjqbdy=i8x8}p
!$Pu8j3=P}=l&j}G{a)Qoqs#@?GC{4Fnawu_MPt3KUS+1)tja<AGy=NjF3tRWqWg2xbrF$dhx8u?E9M
v~lh*G$wB%GsZ=<mnFZuz^{M*n25=Q!?LvChA=wa@?Wnuk<z1$Oq+qkMEp{9{4;pI!PD2R^+9uKs$(`
|l`(0(ov0)S!XoUkC^RC<_e3fx|1ZZN^(Fux2Rqx}hQ;Q>oF-5(@{p%ew!r2~E8DAI2=;3sA&1kN3$s
c1w4tZEH>dx%yXVKm!V1fNbpU7$i~{4T{mg{uKp1S%TRp-y25{08k9nK#)&LBLSd=6WiDvwhiHd^aa@
rXW0##{)h(BRzsbdKNYFzAM%yGnM)z`g`m7X$rlSh6hM6{dhojEl6jyw3lQ<wEbddpXPRp)AKRWgl_7
q3YF0Hu%4Z(7$jf4gp@Xk5n-Zw46kPzMtVHSlxo9PE<LIq7!vl4$FXCJfc*noe2WR<<!5{(okMSD@1E
JaK0{-as6FocCm@GfYCtHX*DGTR+f{jd*p7HFvGUDIV%y#A8!|p|duOBg&%+KX93F60bf5qh1FWGs$-
9Y2BPrs84xb?AJh^^QJM)Rbp4&4IrU2{_HPh&?bzG#pF28J%*7wCN;E^<3yfxCXR<)3tbPbBwBt)56~
>^@Dpb-kR2XQ*al5RaGlPT_ZFk~>ih)x}q}ay7FLAifjjHD=Z?7xd~eGZvP2ML>;aM#krOnr6FyPjWy
b&Y`*ptxmPMo)KMha8m8z8b$))8a!k~@W>CA@xt=CJn+h0NcZs@&KL38K2T!sE3Pm~kFh!INzZ37RTi
pe6qjAn5s;VZE~8d~w5z6SqOvkY2zKyZT5%tE*m?Ixdp%M+ylEHLL)j(QE4d6ZqS4x0BKj8eK9>o*&!
{|N4D7n@8r=Lok<6Kk>ET5d2j+r<0;{f&57c6A#WCKKPd?v!^}NfNsDzS*Iv%2w!+pHe-ON-En1Si^W
h5?<=+M=Pd43ht8byI0eo(H0DqcFO3*|Cq+7b;@)5NhzS#GRP<}VD>zt4`KFX>V82?<kvZ;nyU5tSHZ
y6Vlr-a;a=8cvu#hXR>@dS2MvyMUjO0Rj)l_bn6WuP@O|=21D0dcz@=cvLjyj>LP8I?XIN4)o(X2z*s
P3-7G~p#1$e()sHlJC*Ald>{q*H4hWykl_X)q>SBj*ZK7Hyl~4JI!&p^x!PQI@9}zZGb!%#k}mL;%h(
L9P;-42n9|PnIr$a}`n_Xf+2RKnXQX$&x6wE9a5*`}1f0LV7k1bS19Kr`HNZ|c^u6e(1+qG1n0me$84
cm)i7h%b7&Gc6)Gwa*`nM>+%T0V6p%^=Yx2AUp-@0d*>6)$xGaG}}55o|0<xDm0Gftsuf?ROe(oz?Bp
$}_jm~i+z;2cGTsXjZM>v^svUTe|wRXsHA11d0)c*-P#9*@D5#^=UegQJobP;8#6ahD9ct|HNJeh;Vo
xMY;zDQH04Zo>objH$t)wlp5BtF~EZHJl`yj9rQ^@>c70;Dy;gz~;{uzyA`R|M}HFAoS-2{uxNeo2OJ
50~g*kaa-Y;qJa}67<Fd=scuci5)=%H2jH}iWxO}P^)*RK2>_Q#y2*Gm;J-EhBQ~3Lpj1MDG!4hW;8s
Kf$*lNS2E*aj6ONLtpPYi#S#UNWFRr%-+SU;uEUuA6y1gIZ4r1VLQx+5(SNuk|!S*!}h&S)#HLY7wpF
zNa3G+vgHUI?7$)7-a_kRtfpPHb40qO8BgY{294Skl;{MSGYr9b$<|5KobwhR9SPy_YDFG`r2g6f5bJ
G1{Uz#95EyW}U0I3AI`_>PD~F!gIpYQsT%9?e}$Abp@vQfe0W)X<=)#OH*J-|d)A@qDpvvum&~lO<JA
*omXgtYJSjr0TVk=WqwB4Wba?gSZ`QrxrE*0_|&yKKW+cyl%Ia%unyr^t>VhlT&l6w_WrOhnP5+H(Hk
?<OC1(`k9`ZJHCxJG+CB{1R2A7<G?9%`+61P`Bu8ZL!A-?A+)5g)Mw~n&7%``ySGp+uL7Gr;_bCZ`d;
MIG(I7G)CsH)oADY2!q_Q7j0mt!pYAAp(-gg`0y@$fg&GD@YOn`ZTag2YxKmR}KuYEUQQqSWpHYh<^~
r7!o<uI^X2wsALGYJrzQP;65A??c&XKQRJuL!1eb(uMzM!?CKkSEg;<D_easE?z&SL#~aR(3ixjgwTS
VKQKY<ZjNcDx@gO511Snc~PwOcdSy8DGH{4Dv8(`=8U7FVpp}XcjypR{-Ga&;Cv8J^avWVwvd_hu+ta
C*E5lbbc@ccwq(MA#~YiIDb-u{qofPDFT3gsY9kle0b5~v}kW>B;U1mXOQsuSja_59EhrsX}g0>1R|S
?Z0pFKyu+Y1cAcM-0Zw3nIu)m;F%YtAbpNua`$~Kt9uHX=2r}2nkmoLlW0X1MlO(^(ip#<|YNI`2)ij
gkd4I#|tr}nbkkYBPlNk!OZ;F`gZn!kRr9^(u%iao&PKC1L5WU2NP%Y~u-XxY*wI%H2Ub}~FsYUJsEl
d5_%Fc}0ELGVvtJ=gn>dy@NzVgul3PcJ$6lve}0)~grI@=d)P8nk@Jf3oNky#<V1~gpU&Q`&_{A+jCa
Q|W3in~{@cd>vTOA_?Ki`<8BQ~HN{F);iR$f+1k)4)-!Frj<P!g+eXwD9F0bQw2-*!K<?{{*%F#pOT1
_Lmj@8E&t5xWXNtZax;9t5vY|-w+y9I?)s)vq0wy2U?Wa#}u^{*H_42F%n6DH~>Rzy}<;)B)biJfk84
13|U9yf5QO075ZtS>{ntk>-`|WL<@{iuK*qsV4y5rFW#J~*QHnJ#<#BE`X9ED=u!&wFu|KK0IPwa<|a
=7(r^}hv^7azGxR82Q|v$Dwz=VU|0mpr|F7Y8p$Xa-+>So6&Nlt%4d0-T0q#@%Ru_Q{hx7@z#ZUGeXH
lB91^l^^x?Kd2w*SFO@EHr=)NfUhKkTE@0sGXfO6WZ-^~%5L0LLdu<j$W(IU|inbx<W8qSBm{obx`<n
Q7AX%O<$laA<*x)<7OyyIe>0i?y}LPoD(bl+6I)yY2S7kmR5Eci^}@=*8W32NiSVgq!xJs-6)qovWD4
"%text.

(** Lines 9765 to 9914. *)
Definition DATA_64 : text := "-C+N4+t=B3q4agQRJ<c#=qvX3Re+rCG;TkgL3Y&Xj8NRUnxybOM>jL@>D<tmxzd7NPOvdNELsQIO2yF
XAU?Z;9nTi>;^ICsW>!EutS{ghW+VK9)LCMr<F2j8?p*upHhjJayLzP66O`WLS<dEi4S>S41|Ph41Xq
W1aYy!Zhx1&_K6dhc$s3KQ^1jG}PBO|iys&CZ$(-dv=oupxg+_NfwRKM@Y-8=4#ki*{*ylsfAW!@45X
9bW2TtO;IP4bc@>bf*V|YFJkfWjJwTRljv#H^cT140n<c%A-AVrEUk*ookMiV{82j_OSJ8Jyu-*M2?z
4C*9hb<@QgQerD2;vi%AgS8r#3geavf{55uA!ex%L1Q$O|-``$vLJHo9wK5*hh&r^lhg7^+A#Tgx%|c
M-IE^Rs{j@{uOrroduz7#Si*4pN76g^+`zdBfJc~YF=y=zc6|?_C=z|wrTbk7KZj~SoUy*`=dSJqRb!
5Q8;1hfSAe2%!vB9=S`(O>J@)mAMImomm^(Y8r}=s==`p645}{^KP;mX>@0s#5R>u!Vb8+rK6ZS*kn3
*Nb4q{u(pB6E1u3ORz4at-Y)Hiwok_hwIUm7=818PN$npEg?hVsHZH8D5CgsG!n)$jEC&StOUh;{+RO
6nu7fC&`0clpcw1cKbo@jBGsp?dos}jjO+iR~#VeN?Fp*>K-bmZ|wT%(wzV2`BJE20+7^%B8cH|Nm{i
h1>AYdu!%Uj93~cWz#AxasU;w+__soGTi8W@qx&k@xY|=2CLvAAcLW&AxJi_|g8!A>-?LpFwyNv;NH`
KVba-;@f<Q1%7yo@7k>_Ln0VOvFtBwxZ(sfB3IO3Q8T1LTNA;z=H_Nxks<(JsR$I}v5&npzyc}gw}QE
zP4;@t*4a<yln4OmH~{r<WK+6EP_Q<`0%^GDmsE8EXv4)@{vL+l9@q#71g#MVxe1Z3IeUbFA6C4NDe#
s+nrPEirBYBz0QXFP_S<B)zyx@9ZK9|2A6Zf|vL=1}>G9P|<NWr`$4AYrpJM?5vTe!N_~^@Mjd{H}gH
y^+V2kk)lnav<eLM6G{o1KP>NVl3G*I#F!hdstuR7anzWxLgLyNY2(%JrWEZUAi;NZ`(z(M~(_1lVF*
7aPgj^^*798$l^eotQ=I(}==aUsUj7hmt$v7m2O{(B4j5DP%RlT{rs1udL2<-iNYl+o#Yf2WeiKa0?|
1`VYa*sG!9K|CFad!CIbxW|*X?n2K4a=amjo%m=C;9VYaN5|T~I4M4#cvNiOD234cl*##kiO~C8mzb4
>f%-<Bsqy;Z*2Ou>U@>(K^6n%vdnc#S;w&}}BBGA|q|?NSrsJLVT-P~3t{`}6)1_$**XR>(GyGCd*y7
QT;&{JQifj~DvNHmI1q5%2E+{Lu<9eETz2tP%XOO&;CqE)$Ki}hVCi(Lo5#3YZTr8}V9$__Q6Goi%a^
BT({Rn$9`u~`Fvn^MVWLxx|ugJ%Hhwk2@Z)%M5KqndrBoK|@jb2C~kU&E4^~arPRzze(X095$?m0DTW
rPSiM~>SxvuV?w`NPjH{65(>UF#yxctuw>_EgVJTNdC!oDV`PR9QU5=0LB9en}<Ut-gQkj<U6gtou6_
&_wqniU@xuhn*E@>mh))PX$k31~YA@nTfEY3ygtJyl^a6v$vc~(2N5YoZ#;XnBGV_&u{Y)*5L%d>+r>
-|B!wL=-qB!7}NY7{4Ng&@RZH@yN6yhybE4g_&hHFsKS7Mu22*=p@3d>BJw9ucs{SfbEQ|YQbBlIA({
eSBGqmHsJ8!RR#tPD8)bFR_QDW=Hxc|iA_-w)vF}ab4<`Uyhg5+9FSm&Cpa5@XHJ{uki{Ky(uuo^;>m
9h*1osP-)rbIm4|{U=;Hu!3tRlcU@P}%Cy}`CeSPEEzyPc-|`5j4A{RohV{gMX|UrsPzb+y7`EIfv=A
<dsaw(x*=l7Y8UD*_F9|N08qU)ArClDW$b{F+|AB><vo^fS3#>o;*mILJCaD@ry{+vqY>q<tM1%iPeE
`<rTR5d}jLZTYtYzV45}1DZgQTTK!Eos|js=w<vnD--gzH2v<%R1_B7S0c<@{#nII_zPvmvbWqmXVAJ
`UzBuz2A+u)oVcpVSK68I)5rF3ldl!YkySZ32QfG*YNIU7R^gfL0!^((W|pjI<&Su?<@Py?Fe2w%FDA
oJ7#iOL|8l=qn{L1K%G6rpYx;5SlHJNnEE_#P8m+J~0<3Qoy{b=n?qW8QsK<lq7}?TVhZlY_#lqV?nf
ta?5A?pqpM^&1-mOlQT3Q?u^^o<0otct<NE8B#&=ILEgD$(Ls{`v(96Cp<6xy!G<DFt?L3!%>Wxqo&y
W1p*C3SB@t;xx1>28<V%{X5zA9=2{fG*W-m#g(rQ>**6R@OUR@+)+IiG~c1PL)_+FF7r$>ts2WF5xo9
p`<Q1%PhBRWPh>nh4mX*nXk}lF4p@B)&3gs{dmkz@a;<pAI^S@-Jpo>tPhl?P>UyyW)UA8k`Q1X28Ub
F<X;pC5f}b_3sr!ShzN2Sk{p(#le1tE8N=ee7>7X@9EF&PMPWb%Tn*zO*kY1@<;+hlR4K@gNawQpl$l
xEvz+gX_C2^ySnW>E4bEnanaqD8=k6!@%+Fw$nUY69ln7vHM8SwqLe8P3zipwq>Y){&7H`;16s+@its
Fk-A;KJmbw-~E>@4!DvB<|2@>h=GS0cl3<m$sdFTIstTB91L*Rab;ei|nWz$%S+4ZBP;W$tC$48IK7e
P7Rz--247mG9?$kS}Y~Z%GXCmKY(5(QYap<u?&4t%KVjk*an(58=^9wF}*~wsx2{q|zHl+Oltp)3FR9
^+7FEp`Z`?6TptKp;HY&OBFkMg1TX%M?v-LGJklt_*oKS(e=yhykLf#(mkb?Fmz?LJf_RYiIx-vfKNN
s#v(XZk7RkTx|^yt*wBZU<+ZO}t?$<ge`C0`7}(5tXefTp&E>-EY?<9BDG>|E?Usm9v!buAFOkKezI(
AyN!f0%u1?y0H~_@tmFGu(V#7$h`vZw_S@cwH(ym_7sM8_~-k#X|WpU6;gF9>=5o0f=)K0*nY-}@StU
|Z9n*4ypTgzh7PF|`Rk;n2vJ1^100YlE+*2aRXhU!vBC`48!dX<FHMzVI?Wy8g*>$t}kw?%dsdzxMnt
L_m`d-q1!OQvp@CE_Ln?G8_kDrjzuZCt1}wQO%!Ne!mamY2=4D->(fr0XQ_yUGtA0;Z?W%V1H*Kr1I?
*DK9(y^GXXvb(+M5~z*G87AO{GHSQbQB4+8)A5*&&65%djLHu2xRsVvARR<}TOiA6dz6@_TiJ(e#q9R
Y&0nz1=&Q%;PW8ug;AGVCVocyj|5BP<akY&iTOZN5y&Nc4MVc|OnPXsO%yYFrkE39&!Pj=+q?NjLl}0
o2+Qy4<7p?%Do30y8;_fFu;kJFe$i2IUj2^>Gikg&@Nua1TnpRZ`y5@tyXF8fQ+fh9&wq5GK!%k%YsG
|Qd`y;-f#@&0G=rf5uIx1^+FAtM$IWE&nIKs15X!nX6O~N}?2`8Z{zS;SGUwWmtaxyP4$k!F-cNZAs>
k9L}z%)NDZ7*6z61iTT@f;DVdvm+2(#_yL!bRZN!A>^8WE;f5kYY~_R|MIs8{NLTk|L&Fc{p<E{py<<
f6&b7f)vZrT=E%-SDd-2v+=kiLVNclTurU>jiXCeKf22!E)1z)Q-QHqh@#$_-f2gcDwwxOzFJ=N+m0|
=F>p<bNW24nE>|Q+dDP-j^m>!l-bo<ZQ%V|`X8CJ!83fE2-PDJoQftKbck5H6`&g7b9;+aqri(y6y7g
6XJAg~*fDO9}wOF)XO8aB7Ug*-^qqWeD+`dB92ocal>zY^V6xs^uFhjLN!DBjM+r^P5WBcwMn_^P9;F
O_vJ6QU3Xe=p4?uhB;Yt57($4ytpoJ3MaK+)D-+ZkJ$#ymO>#8BUP9iKnQiV<CZ@!-H+JX5?dP2W1*H
b<|qb~fU;T1f1UnD0fWMRe4&ynINvv)!m85#3P~-2`=TDx%{sk@OC|qm-}|DEX?U;o_kA5>m%JDN4)s
@Hk__!qJ18I^=X}Re45_`lCKwHQ||t^@FI6>@*}~T#JVlUJQ#%u-~8|(i~-1@#*n+?3>-WAe5#g4q=#
GjQpYFnnt#AcrZ6lEyd{-x)v)!5!^{>FUyb%Zrq5F(biFuajjR4zBQ#SHsJi~W|OURRUHjqx2dO8ORb
YPHS38Rp7(^-q8PNhbNymFMF^X1pA5IKPndNT$Ah3BFS2{&S7GXl^7bYg33~tcVHxpnz_K5X`4N_V?n
g&5-&QdYvsxoDBQTDHoPQ`#Jrhgv6k-~37Hp(*Nc~K{7gxY?n7x7$MhqmRG9>IIht0iiBUrHqqhE0b&
quuVUtlQ6hGnTAU>U~FMArmrHv-^A&5$vg&zQw<BP`xy;75v?d)m)+4O9dpZ)6JV9T)=QHaec8f*3?*
kX<|XoFM+TPlIxCL{ZTEU$86*{!hTN=?g5Ip_us@mN`6bO7?#omKnbR%OnHwP|f%BsjkhP<7CW&NwVC
Us&yFenpIPv_<)7ygR?u|3fWqt;(k(Y4-K~?vnZrvBOv6lWt?N0lFgOaQRisN`s0<=tM<4cdIl#>%ZW
=gcGD=?f{*lYBGg(MD}2eU{LFQ4h)Pkkw=GX=$7@=CwUcP;ZZ6pPvDoh9^>Msn#{-4!mC?9NKG$@3g>
U22c-r+hrnnzcgslJwaLh+}inpj>ZkG(VmL%I~JLCB9c-hPD&pSmhwoRQ^Ddq9OAf~s&rg1niiiZdC@
Q>1}iuCm<J)U#CzMUC<eA-ndrJHjRKLk_KF4`#;iMw!PWNzKr)%H^2Oh58nx^a*?9B8KQqlnp>JpgtW
V+|}r_gLMOERs4UrYY{SJY|eAv@KPhbk}$=%T=!570t<y84~w-xKhZ_!0XGF-0Nr7c07A~bPq><u{r4
t@MQ0mE*2E&GM2aZtIBVwoV_^gdYzsU#G&M^%uHDoIeAIdi<{m}<#vG;5eu-f?u@%wW!l8;43EuL8;v
!ndy0#4dp}>(QtA<(mk)-%YnA3vB=|0j+O@lPY4qk^SI@Ok8oNPf{Gv?gNRw9X(KimqZOdMX<aRu7r4
UKzzAHATM#T3{qmPD?FDA5@y7N9#%iFdj58`ga->S*S8aI1HyTMzQ6F{HX^R}!w9wEz()^F^y!$oxN7
K^KLHZbO{BuO>hC6>ADy$$~0_+ObpO{icIPbmMK+#_GYMuniMp`och_~!`48OG*hKBfYm2k%Sb4n=4v
$b0AzN-=1PqBM$R`4pw8-W2ZVh!`4u7uZq&^0~lH5eFLsuj<b+xz!J-Yy5Mn-HP#N8xZGWGk&AmvJ%F
?H&K|1*H$J9?;`fSJCcgzu=yAnEo5Kwe+sRc7ud-x@Lz~Y8{8a_Wa2lk>C^Yr>8IEmR2~FS%$gX6DY=
W$2H3&8lOwpSp}cVHQf;s=hT`*owR7XvXM6fnD}#TW==jtY?c+YkThhYX^AlL>R?ojst8i$%*vJz-?D
PkRhu(EGP=vWBE#8@Ne-kA<l`H@_85S2WTMR4QF)Qn3plRjp@}Py03WsxaQl4kEx!|N_m;0<nQmi2{X
3-rV(;dnd2wiNac(;r9)?-h!T{~p{c;Ctw8rRAvep@wI93H_E@Yrt(bCV*AjgAk?ft2aSAkKQb#+hli
z4JQvz}mBAUa;2lt%oOhy7mOG3tKMuXV#3a<nF7H0jqMpd}`#;-s;OStU{a`IJ=^~y(DA08@l)|UX=S
`u+$(5o%L->j*3HVZ+OjJn?sbENKcXC?PBnw*_`;riK34c8Wf^Cj#}|(_ZL6*#pp(d+2Pu<=jQA_Qgj
)&Tk2Y*d`&+QDG=l#VjOKs^E>IWYf8J*DqWS}F_STSiAOBGUhe9$xTX8$xaIcoIlc&DeA;zJNHNHnRn
Mb;j&_M~b4tBuu6^Jnv1KLljXtycBgWk9^w@D>A)>StctNAoc3n1VZW}t?A(MKz7fXK#PM2N0%1g&w+
u}fBYvCR}mS|)x)pfe;m=ms$(Z2Al!p;)0Nwl=wkuiEg{1HPfeG>-Hvzc&M`%rZCu@%rYv$^FlB`C~+
w>$r+b$#x1a&zv<;NH8}^`^7SX9nzoUKQ19I89h{sW5T_+&jm7l1${pw`)ipRaj=x0Po~tEwbT!#)}n
UvlcTsd!x<|YlPf;M}yHrWuf1(DLwQB-pYOR55tVx|FxIJt?|O;`tM8D!_@D4FJveXalgE!e<2nXdF*
q$<$ve!H<bGqJATO|f8X&EgUMY0ap?%+LjWUV3No&83bL=D)MhjnRHd^fSoFQlCOx-ijv?sHImqDRG8
jB0lbQ6DK++eQL%~dHF5iOE<OvK={uqVK=6;(nQ=CGs7&r`_HO|33#3T%7qO%HTM8ec{LO>*p&CyMOc
%kYi4k0y)!AdP|7NZ~|m|O<Pn}&()zb)GJ=eA_)Ure%Z$}f0Hu)Zv+YgdwCKZxLMQQf(yCpjouyh@DU
<Jv=weKP3QTONb@*!ma}$9g37sSg$inlD?joVN~`#;|pa!H}#G{G(nZBR+3K{L}Zh_D}B&`RUevy0fo
p5XfK1K}_9}TB11qWS$}G(XJ66qV)#7FT-7LFwJdX$BIR`e0g8rrIwD{I26}WU9;V`3|rUoL%p9oRcW
8kw&m28NONUUPD*;&pBOTU`B10NIwGwj?}6S8Y1ewS^ayBiecTf=nMLE_T-Q^1V6MQSQEFlDA36PK-k
!aVMVYr?_+b@uh|w+1c)*AnmzmeyF3`b&l**IbCZKyAWvVfh8d_oZUNt(RF&u|gz@6!ZsvQ0Bx-=2XB
eV`hubvy-RIbU$Gtc2H#@)j;f06Q3(!=v59l%1p-w?Q(twMXhiUiK>s?AkYb>w+d`;pyxfhq6Ubw4c3
<;FQM9rn21@EBWqyLCk$fN@JhTo;ein;OJ!;<+z8u6>c9br_lB%Eu3<dMq9uwcre9Q1{ZGfyi5W7Wt>
;!I3Ps*UjVXU>Ma6KDJ`aLS8%+<XjO2nwr<;<G!eIeEA%_-UrrE-H8O=*a2Vf=)Dj>9NOJ*=rv$Zi%g
+0HNtmWQO<9Od*aB;nlo>YljpFDs1_T`a;p8)B*J=N9_K;1cO|oqWbJI#<IqjbV#+Sj-mtuJaiI`lSn
OT7UK5UTIIx%2q#MTf{X->f^p0W|+gcBvZruk3^=zH>b;Cw_dNz6aX<l}b?jpJ^ZCK|v;`uG!dlAz<=
!@kXBvLyb$Ka$AQ($TBF{E$8dVvLgg43OoCuQR<diBush`rA%!&qf(-#FvwiEikDY4q&0<cV5$%vny`
&1v9(jSC(V9pA?TU#>O;_o#;r|2x&e`{t6}qCdnc>N@;I<Kbn~*IJ{$*zet}eAwp?{5x}kf1A~ch`I3
>1s8lgo4XX}P&bHV;d)GFv%+!$Khj|P_gO81fq@emm>(JjHJAhz5<wC&1}knk0@|dQfqD%X3hhCT&&@
cZcc$~7wJAABFb2D#1Pse07&J-Ptk_J=ArNpGf`W#Hfp-N1Ejc^?DVn)d6f9g~Fqi_1BX}$@BQMI&uo
Rj3TYI9-%82ibBtiX_naopP7Hwtk$U6istgoxK;zIJkK|g*7WJvN;aAKUQl3Fe-{CP|WWBkxw?1{i;8
Rm&6jMEu?E&6$W*#_*#mztmR`6<nB{2V@M9H9cvSM80#2e$#Z1lHRffh%^w!JLfpwVl|9vK-_uMIUtj
us`|f_~6Z|OXbBeAeM5;Jq`<g<G2jzFB&AI>m~nunkR)FZO#*-wdDwgj7j=cwwBLC%@=yNC=QB&+lS>
{Cl}YHQ(>$!#!h;;^a#~BCvV~R>%>8~<>}HM?y?EYz|y1eM`ZMMy0x6rXma~_Vm*t|TMYN9RO}v$J1a
9CLO8YOG|=5nb;~%d_*i%SI!Jf<MA6Q$zBCG%?0BJESSL@NwA-V!)I#)=-gYNkJ|U0ojk#EB4~-)#ao
Sdt*j>L}iBIx`?WnS8nI<9C)sw-Fhr$!+gVLjRL4#Rwl1|s-9bqrQ7?+teTy_&7oSI(WT~pV-2?}2%U
Z!61?V{27(=KSvWZE2Y)_Bu=m>_o?`9bu-ek-gM3rpKy#jCG5&fzrtDc^$p%!d`CsmZC;Me{tgOY!h=
Y06+=bn`-RL64sH4{j<eWV&|#J?b90blBWXe%H&xZK+9*h#c+16yh9rpOok2%55}z>93ylhHb!#o<0~
;qV>fRAtYH#Vlh3X0cuZc>sh;JjuzHAZ%?PGdaTIj*vHsrRBvQP?xeL$Ct}uKc8q=zgolKz%o|Ce=kq
z`)9BG2w;6Y%#uX+Mc_81cqoxXC5~$HmZ}7)8j3vMA>f^%BmKTaa*EHgs>1+b-T4he59X>Ng28fAf&_
l9+%Kfz7(#8E^+mUea3C2uM<gLMa@L<o`DY}Fcj)XTixbfH869d%Xw0KDErE<D%MY<W|{=qt<pX1I(t
*UmonVj*@m;XMB`aja__J^5)|5ni@&E6dWxW<3?_phem-#o{=+4!sDKZV~>_&@AhpM*wXH40ev0h&)T
C_RiOu$m-^VHsyO(+bd8fIs5?m3%K90Ty>`ZW}<%gi^53Co>t9i=l%9t^iI6{RIj-5x}10<g7;rmiwR
djnlcj75Ej9$dEvC1;xRScm$mu=!ax8Yh%_rPBW-^M9yN$<Xm6F&CQ>v99k=29#a(7tipzxH2hQa_uB
t==#yOEeG-}1OTYYH@6P*TN4AI~{pw2z?1<+Q_AxkEML3s&P!;?c&x|$iZtR0We`9k#F(*}4M<f-6^I
Y#)d*G+u1wM6#w72&l(7Vu(JQ_{{?1?s+(kwLeG#z<F3@3m_1~aB(WUSmT6fnv#Y;sWfx6r&dU-jcfk
q=jW>L>pEmMu^{6Ak<osws29&NlR+-re&U*LD?`ze4uNcLgUuaZGD-jk)%UE~3D#)m8uKrVAoJAHF_N
bcZ*Ax(Sbd?;XW>nVp558ZMZW<!&oUSZAi^E;eGOS;~VTOtcL0gZLa64B>hYcTs$I+6+N@%2t=`wB9H
A-k}OdjI@Q;lu6FTqpbMAzhDE*&QA;Dz>zIpGMKSNj)$z27V=;(NS>NZ&Q_90#MGvw#mv=@jk(hDO^p
g{Ev(p+db>KSW*zsm6*7u)Shz^Pk|~~8jKnn=YsOYj^#a{rnd-)<NhkEjhhB}ueXsXKQy<c1+I#)}!Z
TQTC8WDVG>A~&L~P$|V)ZURykIqwVRgPg<uxO2@9A?8fqA>d&r>M@zXZQ6wB?nh<P#c>{Z+R4BeJ*Nv
;DTADO-adUWFNcCHkG=HJU6JgMAWYp|Cx5&+~>f49K?l9CqD&Wi%>%8xtXz1IH@zp<_Ed5{2s`-)zH!
@j#M!%3{N7;P?9q)KAoceUoQ*HlS@(CM+Id^tgaM6*n8MTYMK8c=d{eV6S=y3l9>7K~qOrMTOJri!-v
kJ?^X6dI-hPve$CoDzdp;_ldabZF%g?p=^)iuF(D6(DOHq%EPKIV(xy>y_Kd+HIhZSjSEA&G_*p;RE<
46Q&UOXqb(25LfT`?os)0k!SIqsZuE(Ej7MAfs7NWUO-(d%CtA_Cm-oCRw8wgIAKZC|dk=QVE4s>7T;
9fP5=)|EoO0W7^r;}mi(+Z0^pMtxKO#)X%R?-;=foXiR%w&d&RABczZwTS%F@NM^Ci(-u!N}5n^I`Cs
qzCQv&xaew|QqHrJm#Y2HV_4-VX=gBu@_^IW64E$<;$#XSlvSuE^z5QUY(-+pKXJB-Obeec2t)|JW<q
{x3%oUsYXS0&AZ>zZ#~`(YSwj#GA?c?$4hKIB1eXG4|VRGlxOT1H2Moh#=PvgMJ51{0pD+&%laA3G_$
kSt6hPzRe9jCx+u$Uk|u1bON)#z*E6unBt8ID4_>@vWSJ@JbKpS12zcwXY5aHZh&{jvCzIk?qCA#R-Q
xErj&rOKwvGC2zo|PIgf-}psH&QeKugsfMElc4;Z$Tg+hR^D{~Ghg}^bySZL9+zjc@7H6#H(x4#NFy0
LP;55Y-aOr4DEC)qOu<IU6=o@`4{3m;ZJ&Ot649h7$(vF+Nj0p<N6M;lg$eaLJ4s<(hW1%dMcaI}-Y)
myx5oA`N~Asb(_&GyEy-9diKHV@CQS9$_3Fn+OOowHimvNiq^o2|edyqm7yv0Ts1kw+f7>IKi`p^n6j
B=cFiNwtd`8T@Ti=&R+R*xQRqnzuueZ5M$xOvi><JRaK;M^Derydz<|(A#ubSe0;D9Jx+?IF^t`%dro
)lyWR$Il8JV>_l3bBGoS6j&z+Q5ql4mW_v*+1btlWoBY^J7ym)154t$)T-Z#|3Qlgi*-?j6LGR>kgSO
r_#ZgDn@m<C%gkSPGKP4DKmQ%bRyDr;QI?g)QlNu9BYYK5M`(7O{h3pxVOKEo<t@EKXmx<c!pTKI%YZ
2En#Y8ft@@(aTjct&antRX>dC8URrB+W|1|WOWhmpmqONO@?=D2&H*fCmCn;WxcBKDL>h>a?E#h!cdE
SGoYQMVrwqWbLN%7Y9%+&~L8K8Q&RII}PIgI9s4{t|vu2Rk!X!{A?qpjky{PZIWDr|eHN7Wt=B_ScO4
B?}CEa~ZKP-2hYdHhXwBFGGQif@eo#E+@7IfXr|(sh=ix6{Jan=<TKJI6!d5Bol~#`X){JrI}8wSi*C
Oui|LZ@RqVf&DDD6>0ej;fPBhnD$g?y0M60JyV1O6E?=(1jmvu1qxBsOP=9s$3poJ=236n(>DX!B$-N
s=gKkbdc-njGFZ|LiVzHA=*r=rp;j*V48s#c;F>Z4Wvtz319)ehI`hD7$k=oVDC80>PE(VWEw<CIwwg
+TzTz+XEqHQ44m7`cho43bn8KwiUX;)ERJ~jWQ(BvsGnRB=9Hod^Dw<FHtJQ?}y0>OFP+qI10rE7Y5>
s7%_*0>$4P4R;H!VbnYci#CvsdvVy)k`D_q!BYGa#iM!p=LRRyPBI_!JK1%inpk|uNl;|M{~IY9_x)2
AKaadd;1{M<W3en4lTK}y<l~}b0#t|8WcIXCNGl{S6il=CBdC;q9b>@xnew_4<$Bs-pTUN^O`9SrInG
+BJ4=hlzHyJTq=QJk;pR3yMA5?4tC3gHP<Oz^^YA>*D?S2uRkQ-;l<|G{;^j?Xl0MtAMPF;XuEp{c#H
ke+|JP49{axi*K#=w!++nq?AFg&v81WLc&h(nCw;Ty@PwaE_nj@r2!_Ntk|J@IC25vpDGH+*ieYG|?T
$gQcl6u1C@{kjHOtB}unP`7r@+VvGQkoKnt0%(LIK)zu6m@uHS`n<MH9IkCd05f#l<pEeUO^VBU283B
q<nJ1&$|Fs!gB+oC2HtlTXXeI_`Kr3oNDZr1;DlgP~dq_NpUjDDDnU2OM(Xa+CAvSg6JT^_{Xgz)Q1m
hZnV8NIIJv=|R}>_ex6#=+mOnyQaInA&nB_c`deVbZi^pTKCbnu~Jb$&fj#!`Q=p>4qth$VJE}tWvNx
=fr5$+z@k2n5$?i<H*;0yC&$>E=_8(Fd%EjZp5uwYqdeF|Oz1ZQEcojCGJO11WS#=YV{`E)NFSM{59T
s<^b4uYbDfg!HQ5$Cc_o1p4v4lgRqKV+MnU4*OI?9W7^l_jIlpg%KPMpq4wLiIdLXZ2@bAw-6yS5Po~
w!XUez2NsWOkTY8Ai%xj`|dxi0F}+eTj9Z8uWf!t>0PTiJW?(}h8SR81dA-F?tc>>Ne;>}?_GVJ7K};
3qm4+B=^qBc5k(H4!ardF5KJ`A9B&;i9SZhG~$00&0i_707Gt7FP%PbYt&!ak-FuvD=hAjmVT0Kk^7K
G^!FpgI90kgDe(X#X|S?V(f0wj^11(lBgNRJ8Ryhq!MP_Wm<e*rDYN#61wyUYD6Ec6$Z<7EnByni<Zg
bp|#s*+$dMUXuAultg2>ErO_QE{!ocx>xB>VQLPbD-YboaZLxED-@CU>$Yu4D_o>s7L6^IwNlkHa;k~
Xq8RaS!QPLO=!)C*CJ96BO=PObj9szqzw-RQvjfL~waF&LgO9+pScDM2Vkh67krJmz)@m$}IIWYMfMh
*t_pl!x`<s)%^co0On2;%G5Mx^X)#^$D+y^0|oG_yAz(}Bc{oxSF%WZQCsA{j->?#tUNra^!^egm_sd
4&(D^jhNfJiYY%{hOA*4r27mG!aW+f|TMAc-wQo&TJbXyNTysPQc2r6_p{a3uDdSkL9!ZDAIs@^8!8K
"%text.

(** Lines 9915 to 10064. *)
Definition DATA_65 : text := "<k`5tUKluWUgZ$4FNA(q)+YW4%RrIWI#6(X!TPmUR5XW1;)jnI%@Te>3kY}+7c)%wvgw*f5<t<kcDda
USa@=+O<#<+#SQqkx_RNO#aT^mZ9t2qu_(QZ-VAw<C{xxi)o}q<j)*ulYmYB{J6VTakeesvR7BRUead
vuo$ki!W^5aN3|#&0To1fHisK16ajZyfh3EF6pc=6*u7#QtRIymC#KPD|09I6yA%@uE&=;ykOq0jgv1
MKAe(6cBry^^=>!?c{UiTGe^n`AnM(%bxJmru~?-ak3&*}Emrwa+!C)LyHtuO@p934{qCR2Ouf#8N{G
U18_c5s(mxD@ZvxJ11h#bIqlpH|*^*h#x6&sv$_+Ds%(>>1@8zQYA`XDkV%&M%6$bac<D$a@J;dlYHw
rKSB2TKF$$!&l|4>;FrQZs`!+vi}*x@IQCrkEr4Oq<_4h^lz~PgOVtY<1~X39FAicOHu@eam=?;$_Zq
^0CbR1P?RZ-A=f5jAyR<p)>&%*rBg2O^oj3<^-&U*<iWOq1Z2Vh@BvIaI-6>M8t|EE6DN>$13Y#Vg<d
^msB`~Hf6A%Sb8R0v=V5`<4=w=Qeb|{Mg^>r6g%NU^fRF*)WW>O*IiwK9P!x)r^TUw#&Ov#JJb^h_E`
~7!7K8YR`1>G13Ui3q_$Tb3Zvb|fg6pz&*UO)<L-l_>c2Hm2n?mfcny~}sxv00d>uO90t4H?AY7Eu%n
AGmf4B9&9!JK%?a0=+#jWaXo!?vxXjs8g#-iD6+yJLSFI`Z$1{cY&TzdQD~p(AkYztM^2$*~5xWA;tX
vQ$y6E(mb(bM(Ol>>|t8i@_|teRy}uaP`Ow?NDjMtv{y1+E<<DHR)YeRuX!fp*NYuYMOF&#Gvi2V$|k
&pM>;KCw4`fS5CMt<MY+C6U*BeA*<hTHeRLuHSHG*;km-^Wx4BkVo64baY&51SkaxcIjsj--71XKdgS
RL`*DUz!sv)QeBs`*-i#NM$*Wh%tA&g$$y_Q^GesJW9<SFMeyVFt=nizbS0_=&+D&nu>hWya#R9nUXS
7o)`;niO$uIlxJhHp%^Z2l?8X|S4e3wzIAdjh7QMYp%-=7P#IYqsBB&!Kk=rbyie))8c>DiKUeA`h5r
e6$y&#k)=Y20J{#yu+H^H9XWm)x=XC;jD*&GeA>0Ks}S9>ySE>qn{bP}Su8Rn=k}v@=(RY`sc9TAU$u
!#3iHM)DN{KcdJ-?Z-a>(mm&SGTG1Q_8hj!1#EYZ;JvYl;GkC!PaptLJl_Dt`ouRMbR{63_?2)N++WH
UgQ2|bhrk_$zhFq&&-0GBI7%I6kL4O|4i|q*kJyDdQ_Px63}m^Cvk~)4@xC%V#diYbp3Cjn9~z^hvFm
-<T0O@LCpA9t@oux*$Gv&RS*0zSvO8BLBFfBiGzzzC3jdHL0wt_H%5~9>?Au4OK#u{3xgo`EPX)b_i~
aL)zigjZQwnrmSQIiM>f*6Xy3jS3Yn4}6)w06uDd5%gxSw@t{p87fRZ|!<?SSp#VzrG=q-qnXdS5p+*
(1au_P35Gvg>=|KD6tT=JdmbQKPLd7Rm9dFVB}!ym|gg^wcHKsH=?0ZHo%Zdo+goJ+i(UrL<e<`UT6i
u~)IDn_m5E=34004QXMKTFl|X@AD@=UId!C<j4BT|4y%*V^qi4t^1?N|M=Pmju-zBBd{eeZ*}y?p8rG
CR)6p;&X5GoGGE|8@_M4Oxcql>E53Hw`OjVET|V;HIexs_-;#f06ngsEEbN$aFl~TybKf2k>N~O7+*y
HxkO7b08~=Xo*ptDm`D-4XdrPY)kfz0wbCY5eX7Cw&7GlO=D?1v4no#ji^3UKDI0f?y7!DBzJ+pUTWS
(;z1|I;JcnNJ}b5r36h8iF?f(U6AoJ<m!bO*l^F=TDM$Y9cQU*Y6$6YcT?#&&7{@5sMjrK5oHlP`!Nx
^Ffyvs?oh%emuj9Ub&O*b5G9J+OC!!g7kyoUF+>6@;-j2JMv)jL6Tn`GgH>vk82x1SgpyKfQ0Dp7I1t
p2)xX*rA0VkFl?VWzQ%OSOhZ*Ec@OFi(=;Bu=JYBfLLIf8_P|m^inuye%fY#CnE_E!Y|J9T7FW3H40K
NceDcwYK<MW6;yIIb-NS<1ga&Nk}+<j<oV*Ay~Yl{WNL%=+cw(}C+`3&T#UUoAlf_oppqhG)d#gVzDn
iHG-U8BPT~F~KQhM=q#tD@(U&*^{}M;&r_iG!FI6O|z?;fF=acrtHsl7ALWWsk3GS)6-N(rNa#$_bil
*<H2a`0~{#3co)r#)ZwxCZ1Tg00U8$ZJH-dOJW)sRN#)%uF&NxsuP2~829Zu#BKFpe3OD8xk!x;<$&B
zCZ5LmO<>jIMDY(?xh9HhOVQthI_B!g85J_lj4FE5ZaOEzz3Wr&igK;;`eNk?Ws(UnqA>SZ8d+lvNhv
HhuCXelhr~Q#{}SacS?iCm95SwpJ3IPx_dzEBxvj+A=vw?J#;C^}J}-$_<--nT6Z+$&QGw<xM;>JaOf
vT(bsW-T}EaQc_9bnv<BV38u5V*musUSuy7Qp0op5ay+#q&+FYK2MaTJPiXMKUDz6M1&q7)lK*(M_nN
^6(B6Y@VE{vURf3dUI3u5pxF|M3aQmtRiM)UJcy)<O>XFpR<HMvG;rIU<4*1j^f}|X*bBPwgX}R^WY~
vgPCB3U)QEYxl_sfdti^`r?l!Xkj;vD_p5n$3UFVPEG2D2<H?C0tIu85fc&wo3O#pG4Pps)Zkq6Jm?^
%~Cv1X(zJGrYm)U#Sl(d2l8HhR3>>D!M>XH$?*@)C)rzKA;dySe=9qu@qtYxMm>liw49;s`1SOJfg8b
{2)ajgO>?Fql(p{W5<`dzGTijBSNk1lX>na&12<@dDGhfy~KK?o?}Wl^Q-Z^NV42p;$;%1NQ?6NE_&*
=dq_47Iz$^yzds(*h8<~<W0xt>E4kC`b&d8<)36fj<-QV&G`1#w(-b9wrKg>0?^ISk9k9W_Ol+!NP91
9+CGT*SdtVNwyUXcr@e~jAC5@94nkF1G9JIQ#<ODg06PKN7luz81$6PMEb+f{QQ!AjMFx@$!h^T-dx4
?(L9n$CW!b@Wslg!yD&Z%=KP$ZKqw$i(rak=O7SkaF?U+!18#hyT=evt-`E*PDQl|?4rM63I>yHjPJ)
;!I(7_ifKq*we%3#H=Pi@`%Gv1A%I3v>AA&_$`5II7-_JwOEi0pRi<yT~`N<%etiEoez7XxW(<GVRcr
Z$RcV#UX_%L(JTbf}KT?AW8fCXbAD5a2Z43L!q$a1^5Us3^S)bSO&rscE&^*3ezJA0p+w|Z>gU&FJaq
@1TxGqW)5d$@b>5&)*gY=(Q_pfz$D2m`jlo+;Syk*JcE5PIBbrgU@*f1;0=?)ObV0;z#$%E0mw=J7PL
HP(1QORXyN{kf)=n6l5e2pVB^n60Nc^ZW`lg(`E!Td*U}~@c$$(-&OwbS`Mm8Ua9<nz&g1%>VIkj*>v
x8Qd^fJ|h6UEtKQ(}a@d{)PSXgtwLVFEZl*xKyUC{O2f95K#61$bQV;#0W_RsC3?6YiFSnG4s7vAHFB
1XB;oM=^uyFDSgbg|!aI@a&<OPEF%3ao?MVd<weF)7ieUTKYJZSv=S0T$KkA!U{wV(Dm=T<_R!S_caz
BbMq~rW{{gcn7+9vfFqh8^W&(+|{h-qr_}uV_C#9er)&UPH8<P<6GjIp00|sCN@hd*#RfB3s2p6#puX
AoT`HJxO?2ESzFPP?w`>}zl#1kwBmcja1<hN(zB<R{YJ+3cUEi;bb84xXIxpw;ihkV@H;?Uz0nulX7R
k~PYso>2P$DJ@g`sWBQl{!tId}CQD~gSO;~n;mZW&IJ8;9M3YHIxU~1bsSHS8^kjUY}D55(Ia`CC;sT
hFG1;7P-BND%S%U^6I9yg?YVO;s)SW?Xwk?HyCMm|jrU~@lN`O7>9UgWAjXHcYz6y=>x4v3S)+XIbS*
M%#!`L$jBptSuH_XNDoFDja{Wt|LB5mfy1O#CbSu`XWXF?&G-??E8vpV199Lk3Iv?mZCVmk0_kBQwio
#Vg_nL5d|5L2?(tEgG^s?1s<$O&Gv=kKd@q>=hti@f56?Pkwlq05<kt`(q&=V=p_YAI|w%_QcF4GooM
C$7SFVmF0Uo;~@t^XkS&6%oDR)WRoVE8`nVMwX)9F2lTXDy7(GBV0%<X9WE%gYrzl7#jrJ%^XM$j8?<
gtd{661?M=R(>OsIA4<&LNt<WnpvAZ?9)%K>8bu1i#D^)V|{?U$S!ASL;&NS=8RmYa}V~L-z*3PU)1f
J#ER}gQgE_VO$SDmh~*}ipm{tgW_55?HUvk>%cO$A-A+WLT2qqG5&Sv7M<oAv-`IVO=HSz-;B#eI8U`
4~nXlc(RDck#v%EYp4#`C}67F_o};(viVhd#)Qbuf%=7vgNGn@pOssL9_DP?V?H4<zky`L)upNhcHb;
KH~P#j{Tk3i<$MCCOQAHZl+UKj8jwo@&CM(m+}AaA5L_+cV+*GF5|h3(gq-oxBb<qYNn`<%c*ZJT~w5
Rtn>cAXJY1;gU(;j%>O@Ee1kS`N1II_-Np}B`ig3B>RW~gOV5R6>70Y%=926LN)b^BjGut*X#xW?F#{
n_{(Vo62x0}u#RM3LA|NXSry%A)XM!f|3o=*Y5ityfKv|+3Mn)LO_57)FZWfkI=94lRyf*+z&<yH6rg
McHGdD;EcZDZ2gLQ8A0qg%*NE!uqPQ{SZ3QP95nJN-Nk}Bl9(Ep<UHp>J20#OwFU&2GYWqkEiWGFmTL
|=mzM-TbXuS1iER7-v85*&2OuwOgi&e@HlnELiHfjvH?&!7QuY7cc3u<VS27WmIcR<F>YuIN<Z?g_rS
M0;TqUaUK80P@=Z1AvB=8~79kmM9boAm1~;Zv)?cM3W4xhxG=4`VS}H#6)`y{gldTuGPe&6f3JK83h4
Z?}hiXeLUGqao?FTByBXI5~X9ICI)N!WVj7xd**Ej*!b<k`KQkY`RU>O(`SSH^l<*^vq64(I6pp{-%=
A-_lCsu1}7!i)$&Dr8y{m;x@H^ijygwKib@HYDq@fIzVJ-#4Tas^M2zDtg<TzGLnOI*#%h__W&PAlc{
nYu#`*Lxxgk%&%l^R0Zix`Nosb)@XBnz87M8cYE#q1jyshE%ZRMRrMj(ZqbBa58d3rqUOjztM%}!kQ^
>9sU7V!&dd5y{--97M)M0#5b$Ay*ONNrJAx9wAputi;Ssmnke%;`q%OuD1XX^F;oKyLzM+a8(zI<A%s
Upa(*qMnA@TGySB=X|Jei+0TTs%P9y6BbV#_`w&GSuHYqhg$|NcO_zq_t<#ono2E>Vq?=}x9+P6-(rb
Mc~{e-lL%e3Wy!RMdR=S{;)9y_WrAwrZTC&^g;!v#==)HS^$Fu3p9r>^CI<W`0Avban`=iRf5w!(n})
XgTseEWun#S)1VWKdlVvX)XOfc);5yzFdptxpr69zreT0=zF<}%g(LQ1&J;H4%m~;r3(@N++(GcnYDP
9Yp$X!#O74RrfP4T*@UX8)Q1SVX7CmFzJ@b|t-h!%@g@GfYwTto_#JbPB~PQrsxgf-V?KEO2x8&*7hc
UQB3c<A>v0uPK8Zc1?PvhnpcyVwtSB5>8CriN9hobT`=p;BF<0~|^PWs<tUufUxd1w26=<LNO3;{ng(
2yV6hH6*tP4ov|*Ki-A}h6xcE9UjaUenwu#XcV#UT~fuHhXNm5Rtn$*?J=oW)9W)iCb;~%AH0KS1BUo
OG(|2xzTa?>_(;&#l;b0=pJ35xkKk)NYBS|bnBKfFWNw<O%nxXmt=Ql;fZ#?E;8hQ6(!key0blP8JhW
!+Rj;h*k3#_v-Q?kc@q7n!Q<x$IFF1HeP=>vQ5>H@Ay5k8ux3UGNvX0tn7LjkE9z2{#FaZ5aj{U20mG
V`&3T#tNEU4QmAglsO753%858t(g2@beb9NxvNiaeYTzm)aC*wguL?GA}?^Y+?2_6&XpSLDVQ{d%{L{
Z$)_^T7a7|7oaq=zSue7*PB>Us}`Un7CKrW6>22j|y7~7!-g=Z!Ylj2yQtg4q6X_wMCwF%4l?9BpfQ-
*?1kF63R;t>S+}eQdz8}Uc0s%L3g`=6qfWtENTM{PrI>iTq9cT5cG6mrKj9k>@K}hJJoY2H5ZDAH>WA
%PGgSgowl<!2fW&ITZZh)s-PF9ZtP_fySWx(Wx62xQ>nDAzb6uryNYpLW-7gM+ay^7$Jry5yX=J$VM%
>ir0wGVO!+(A2RrZnJR>=FjaMrGr3un;jr6v@hs|!oB@N$z6@{YdY|RggOUpg5P7WE1+838KW{uWyFQ
!?zMp&`0Q-5nTk51k-#<rf~LD^chW^4^sEYzDb9Kxo=mT~mY2~cl9(w(ZTe}}BXe;6eH=dSh@APZoRO
9n3T>sntSGKNy$YIAasR202H$!N~^VK9V8b5Lc1n;YE_bFL9!<@kFNHOoNMOTM(rqvqpS$XSN1VF{Qd
Olg?#%;x@gL=HoAU<U^KSCs$M_HMp96GL>1$M6@J`<yA$;4o_Ldz;K9!E8ETfQ5NXJcE)J;M6eMn8N1
rU|h*8qeRU~Snvx}tHA$OGJQY6b~pR?(BGd4)7DISs=r7)>{sp+k)0QQCnO4svW@|>Fu<O0UlM+h%VW
SbN0X1hrf@V^)ynA5qF^DSfE`I&O$M)mNPg%S*EzBW4A8}!fFS~_8bw8T1?&!YGaPL&UUPhiJXXKXzV
c|WN~6)9Z(gM=3adO99x%u$FhHpqf)iG^$X}h~SKc(Tb@<UZxiA(u7$^OWI1RS(@7oMb3BQC0HP4Z4N
K1JkLOl)5x_IZ{AOLG^J@tvN-ZV?q^9O?rEE&L~01mv^-uPl3kq|$>SnAV<KDST9{`R)<?g{Q}c;h#%
U8+Lf&h8!B4m^vGC|CR$<tq7G91;0Ud{RvKeV5i+C@k?w7fz?G`P0y_WMC{+`?m9xCBxjqIupzx$;sy
$DZ<meHJx>N%qZ=$ki?5;)U43ribXXGeBUgw_@G+RAm{6CUE%fZR@y?&I_sUcyp;!}TrV`9Jm>9BlXq
RAii?=)Mley1mTn)Nb-434#l|bI=JAGI6lW7}m!f9}j1}Lm>LWocMma{-XUqs8<6C6zYhX_J5*9<|xE
TL)T<q^4Bk~<){2j=Me1{o-2QnhxVaDHqjL3JG@pm92@*QUU9mt4$hZ%ndG9uq$#@~UA$ak3WcOWD39
cKI;$cTK08Gi>dBHv-g-+_$CcbM^aAS3b}X8bc`R0N)P;#)HuZp&hOmR8%zA@xB)X{6f~lOv}FN%)$q
19LAG-Z=@{svC}A2ev&pJ6u~=+r+F$R3Gl++9C-eHV^T!*&HI|LJ0Tsvl+HFI^ZL7$~SAf>t$k{Un%U
ECN{b}sm|$k;XI~_iso|k*5Et0)`NIxw(C7&mi_4l&|Nect*b>6Yps4CgvrnL25x?O11sWx7>4~PulE
&*y<Y3XrT&b=$ZrYhIaD3bXBroS{wu+uau!WMVMl82@0-r#Eh3o(TE6Fv0kFm4Fo1~X5d0)LByPO`GT
3u4gSlNMhmk~rfiRDz=2ABXK)0WGV=)X*X6Y=rLc+u<z)#@36a}-mFe^;L|C1=(2NK$5Ar>~CTNKX%@
7PQ-BT~qL$B5U$buhF%2T1U5ahNlGYC9-Ie@el=;;`xe9vo&3M)8ir`VVLK$VAnF4KnEuSVa1(Xe9C;
j&x+ykcy|_y@w-5Lwesf6k+#GH1bWK>Tg1_e-(8^{z*voOVknEmG%~OynT%Kt};~^!8b5v<p(S}{)9z
E;WB++%qE;*cse+XMIiI^VjN;cS!<*J2t?_GhfDT6JmN!u4^0f#-EFhkE)RzylQijAU6m?Sdv|$Ft=&
}9CK38XBRxD~+76TC9_sk!`30TwlDuZu_oFQ$xTn?fexstLWE9tZbj@k9I7Df5%lGERU35X9b2ZiHXP
U_F<2?x+T#yV+cQ&_lJ@^Qi0cT4$(ws(L<-@iBhp|IZtmD55)xCxGkk7Hb?}=3c1a~$6>2H#?7x_x|k
)qH|`&_BM3+9E30(9fivyuMv<j+O07e36`dD<5iz$FNn7{JbQleRMH7=K=1^#X)S3Bc)g?R9S$B=U6#
^12WJ9boz1u?TpXx&of$H3S7<fk~&}BoMR!XaV~KbP(LUh>(YmSgnr0grZPV3Ema*^|of9;(NCcTpdC
s@M2Zrh|RBVOu!QXXtfvc(6?K75dfnA6o4Sjf40d>G_iewN#F!E2ZjWPv$_X<SA-vi^oCo&5Z=ZF&|l
4sS?xhA`T=iYRY=&?Jd{0bdN+f(YXHM`qtGGYjQ#*beAyA+K^G}2G#<Z2!LxG3t8hgF7NZV;7~vYg&W
QW(V_1L2BQG!tVA5kqoC_qvy)gpgf>(Tjiob?pDW3t|2M}|Ld<=Z8WB~v@W;vMdS}x^kVCjNIt`T^pQ
~yOT9?D6*Hiv{Q7~k~c;R8Q?)rp52!GZcU^i32T^msk+!wfVn7u+dWU|R63N{EaRI3Z?QqiVd<UcW%A
2kdnX*{w+_lmLTP8y`DHK3FoK7zw2FeI4uOPf{S(ywDUDZ`}^dgCwnau`d<&PzOjK5$+Tl_)`zH!JEv
wKd(0JV&QHdsD1>CV`|r{Wtk28oMSWMoT2w3-uSn=N{9B27f8EB?_5r>kDM~ip)elXtzV2AY;X6={dh
+`L*aA1+N!B&FumAO;f7AVcoD97=fspGvTCuT;Ai}3N<nKSqNx}1$uVT?ce2L^JF44v&e)Glm|u2#*T
e=m=20eD_lI^#AS#07wC4@%(!K8SO_|_-_DXLU?DJLlZ;%&*p)7~8EK1N6Mxh+d;T(%%IEfPkLsBS4a
@4owf)NJg?qCZ*0+tA3bHoWnVf7uC!n(V3mg5HK3*fF4`xc$Wvs^1n&rM?DxqmY~m-}I`&<_A30)>&S
oPZ+V)ZBSGqagVEF_D~PFpHedTCT9oGzV`3;6#A;UZh=9a6cS85x{#%{I3j$(J*$FKf)6@iev_2=-li
O#^!K%Pk91U%hBIP$z%f(eV*^=%yM<RV}#Qc3!f$y=8rU36t|zs1&h<4%LUaFpS-L09Oh+>1Pf~q+$Z
3#d2{#B*Mj&nVu;!sgaNCRevA)%;o{yYJ?Oxkor@2x=b^I8$=IXA`c2<;v;)M2XBGwZwUI<&!2^`4j(
qb7em;Pe64Ha+0ACfJ@RdAgJq-r{8z*@pro^K!>^XOsH%jhgPBH~c0{_YIkiQz=KN%kKSL6F9!$Urf?
>DOc0$rfFRlKJWg3XL}pW$1+Z&@bXUd7?A*;rzm?D23QPw9@z@|(Tx>8Mv}rT}KQtg%N3%-`)0h&yB*
;)=r6i4-3D^vE~<)~-60Ti0rxlZNrk8~)Y@697M*ee9)8(*$_1c02&DdfaC$M0$dmNTs=huOfEqQ0M4
zQJp(W8%s1AQ8eG`T40Y`7GKGevMBb~+U;Z_qUbZ4T{IH8%Br!`Ej!O1THB1ov3snI=@IUnY_lMm#j%
_&374!r`gyLOmm9~kvZ!4<{+Wc~&W;d$zcx*A9J#tk<(hEHBkAJZe%Ic$(=qjEDaNkk_5$9GjIoaW<y
szkJ1~w*L)CNBE0NvfHa_=+vrO&kz3MLn_%Ixx+LiuZdjGUU0Piz_7bISm-zx%<7i_5fWl7+BMW7Mxn
iHx7q@`aBs-*aRhn&0-qvIepq~NV25VoWq)->NXVy5W+2S!;v+%px<NMU+Yvq!R*Hq;MaP66no;7$PO
e!O*8cwyPe-_qid7u{mn+ggU8;5oBDPLx;+ag(-Yg>NW*Wn3^)KRYddAJB8Wrf$h{eI&!_@Kkf&Mjmm
hkxvPiQg(@UHGZx9^M2EaI0ww<(Tlef>gR5LFc)p^9D==h>vD`%1VIjpW_<R@H6(@n#I{o*I>eID&zG
%U`umI;A7@pUJM?zh<_YyM!iz)Qn7!IcgJ|2-LEPS)bQ2+(&6)L~PRWG5T%KaAYK7Tp?b&h^QmRKwU+
?3Cs_gE!exVAFIBNKv7EdisM})Q8k4Q<^z#m;iO3!mqc)4H2@<cl0#BMbEVsNarjZ+FWxu!4ZKB`Ujv
<FMAWsz3QiGgJy+XW*#JEzl$r#M_}wrCoCj4erz|0ym0rF36u{*a<H9sf{n&At8qpaq^oAn)7XM9hCM
=3mtR{%6kkX6OHW$lv$mfMPsz`~#={6~%Lb{A}(p2A0>s@_!2cKG)<y4%N4!fDEj&hfRfPn8m_odk$<
WlpmsDfj;c=%fOEeI`huwzH(Xiuk0tSpkyxSgAL^Hxr%>QVh8wwCZT8$fB}#dMnl<NEc@Twy~&cJXqz
>-=PGj9ZL%&g4{6p5MlnkQ#GoBB2oOkO5W1GOu3PBZ_wN7x`)Xd?J<=o6<BQC%s@mE*Ez?th1A0Xu&N
H0n9MJC~R*_zOmBS6=l|N5`;tRq6b--n3dUc@#rgR~A*Ixnnsu@0%zhbywerWRmd7J_=IQj#if^}3~O
h!etiu2AQme+HHxs%Q>Nlar5h9ge;$GG}j$V>Vm0t2{eb-`FGA?*B1<MB7~b$EG3&3i}0An@W%eBJoA
@qODAe4$40hv-i0>?Es&mRw_9%KJ*>xM7f(pH?{4fgv7Ge>9$23#D^wCspSKdp~Ly5Kw0SlfjiJAxp+
Ht|lL=rXBm^6YoQ`-Gts$+w(Wo_9Y=kHl4o{o5I_Sz7Ll>@=hh&jWeE~uO$~PUoN)G{cB25=Uyd!o`n
u>5Cl^(qN8rW0<&f7W9f22@Mz`JB%c@?+sX-TY*OtJvec5R&CE@sWT})Xad?swG$n<kqMMtET(Dw}e3
Zw~o0VcRrl8J}x*kw3sQSk(s?l=WUUHrxwnPBCcslC)-Y+5XrZ{?1?(Ya~A3|2)jwR}AZoOwMsj<jQu
;bw8X}2V@N)$X!S%lEx@s9H+&s)CPMgWE56KBcV%y2>2-1=~<No;4dXK5todC#QrgbfLWhRn4IMqQN8
q~Zz*ntR4sOs94O1!a*9l_;N(%R%&UJTZKHOSxU8Y{X=L^LHdDr|d6zyaX{3{5=|)x(Gc?%|gV<iX*d
_Uud!I(KhUzi?QU-A11eXa9Z+5jRgn%xIgr9K<lN|+4=el^UuC7&|mq&{Il;1^wk$;xvAK%L;!z|zk;
gMl&&2*nHC>m!Qt~hA=wvKSaHSS0W+1&;n<!xLCT6A(GhCk8wVP$JadNjd&-cPz(qbE+fI<t^kJQlZB
!d>F0_x=KIn&&<?oRZ_ElB)-8|QN1*^MDRH9By9U#YOU&<zrOYN4Furx@IDkp*_eK}(oACgUD2e~92>
l;eEiZqOrGpt35vcDZJyl`lbklf53g~#TTWr~u-hI}5}jY8UmtPtcZ-0}@7yw1tM>#w_0hG@J1JG?y`
+w%Ox8_|Li@xFDRH(9`3MSn0>Xr(z@s71Ym$wyr|I(tgIbDYrKyp-=fH|SdPg_r!(Q4E3~GRR5;^E#L
DBdTs*o%ZIm8D)PPjc59=8(;O|JuA~X`OQh=;@Z}2UZ#&f5c7}U|1A*yuRQH1Y5E_J`85<{tL7cPO2@
~mGB3%j8uIB%pAG@y0pYy0Wq^L&=?D|RoJQi`Q5uNoE_j({0B?Z^Jq8eQ0bXEAf&pT8ih=xhLC1*rxj
rwTybxdj9$3L*V8(38*C`Tg2}#hD2^k=<L#LqkvE<t+zWQ&i?y+GAFnLL{V|4vQ6lj6~3E>D(yd!c+;
(rOn0;t}O>93%;{o=_|FRAc1rPCP5(1Q{3v-hkN$*Kdi7$WpJp3%CF=Wo~s^h!Ult%JTh=-qWh5tP50
5>JqMQHUicek~A;zNN&#3+2<c%hyZ)SUL2sF8$*e=<hE5$C<J3{k6WI8N-anWkdSAhEu#=;G_zp36r9
8VW-5~HXNyg7G@A_><hGaf~f4B>hP#KffQ+#YW>ZtR$&Lxv|yVuRIZJJaz~8u`e-HgY@`=7i1)y_aI-
wx;^|nQhaSr|$@y8`&Z=dd$T^Z}j6Nd{H(kihWR>^rJ$-akl4iHumRrUl%J2k3KGO?Tpr8w6(~qbm@)
3>q7yLL2<H$8`lXj2uPQbRYE7Ar}Wa9<FVoFW8<|Qad7(yC;YN}$sviC!En9z}z8-5T1hU{LB8SUvXz
9TOcYqy?lN;vz9YC`kRS5<CP_-fr*2=Q>ow9OPF`s|QyJqC+-@<LK63&+PMxpU?PNBV9ox2o8(yZhVB
"%text.

(** Lines 10065 to 10214. *)
Definition DATA_66 : text := "m@FBJ%>U@Gwe_jYdi8Ktj8^1^uNZj>yl`t2;>B}S{;rs-?6d`@<@|kr=*t60>Cx@lDHQ%36sit;`Nm3
;On5<3b-8KW$C>9&OM2Tz4fBZ51PI+f06`*{@lR}{hob?rgg=fEpuZZ={tTX>pN);Ptd|_{GJ)eNbi>
^v%nmOvxkYRchYpf<tzW5HKVpzhDe22d(&fo56y(mQ;0ifh<K59M$`L1mf$gq`&HTb_sgddWw7KfW;q
+utWj7`SDM0CcD4*LCEaB8yJPGiYpKgxjZaY*>^wM`&_L1)jq}^C4&giJVWb0?_1bgK(6=q$nq34W{U
3jBU__@d2w3^2}KOXy*J~&jO6Q1vP1d~-sks5s+QAm6SV##pU<gB*be;wr7YQXY`8~#)U&Fy90M2(}@
)!gk;D`Cg=>Zz!snt>hrE;3<1ny>QUT+PuTkXRD~$U7cX<!&FYrkiSgTKD}?i?R|sa?-9T7(!^Ytw3Z
CoToF1IQ|Vwum$vbzHR<VA^Y1ddY}B;H|xptH=)eS{<{)*`kP(m*9D0FY#Q_5^Cq96`=7nRcZKt>U>r
qP7xZi$43B|U?UI5n0Jxw!vAo6sNKz5t0xWwXUlT{M6i_m=H}QN7q|i%(onh;IHVH=06B=mj6A4iHMO
P*SPJ!GO{uyyJrhsJLg4IB24+UEKFtzIZlR#1jLsqP2*1Vhse1r%E<#>h$k;C$?3x)$2&p=v_AYcT3i
2^VZRMcVS_cZ(!jLS2at%`Pk!1$Nt??26qtBxRgOGbVCfN^uhwW}pWD4aX8RV}!8H~8uU_saKD@RCJ*
G&Lunp!XT`PWcIpbT;*Heu>??d<JOB=bumh`55Tu7{5BrV1`q{=EZo2_#d`?F*Ck?uD|oKpszmH-}zY
3SD))^{Quf&9{R#-o-56VI_{pkOfIw99}t5O=D5+l$qAOzSm|r1F}gCeHa}NTXUuzZ%yFVTOi_bA4<<
6V_$h7^W5H+R4$qr$JKUzDTVMOfahDx$X`=XEdYV}iyJyfI*raC}yo1j|XKGTB=t7*CNN}-9UFo)RyB
#RUIf`-Wy<CMEE(Z@gVJZLWHJjM-kXmlZ-U{OQ;$rjVnGlbAp|+3Eyq;q=>0ycYH&o>1CA&>hqwVD>^
$k|+<Li~Q`oMv-TS;`cL9i{XriX1pu)F<^y&VF?@Cr}sgrXu}y4!RQ^`5X<rEMhiaJPE&a29djEFt+d
isOxQ+|qrVj#un<8?_OOnCLvduF0@Hcp)uF;q6WoO6_zyMkc|@tnehPBeF6Kh#fa)a#K7UpNllli?Og
vUK-6A>12?MW|I3`oNmqoGbfF}bqazKJpS6IibGKN5t*P3y1(6aQ|Rhetorxm<2Sl=3n^X3eLr_iZ-?
9RQ69vCHJ=xCyE|-Y=5RNoPHxSr*+9Fh=t^4i9ILe-P32F=+YuQ%LaEB_aP7N|EXbQ{i=k$2!q@Y`-E
NNkW^chgHckzXLFd;!+1_q3ZQ6Q<DdlSc?3#-3JATVW?Q-5cFT4Kk#;41y_C<AzCs7lo{Yz|wIW0FFg
p%g4or9^~dO8-=et(0R2T9+bQG&7~UnAuZ7RB)vkI}`zp9z0@I2bh;31`~&qzKRl@AtHN@8Xm2ri9~s
a;p2@iXg<lD~>>ti0jnzRvo3Gme58vj1~^X!|@nWv$6Y753~|PdQ7^;-deugseedPUBKi%tY6mv30{r
b-zNB9=c{=MY-H^vtdslvkZU1(ElT%C3FE(Tu%dAO@m=I+dF_ItnhU<clJQyW2Qin=%z~1f^8nSA@2%
!P&CGvZHT3D7Km3h`cxN?+aQa>`sI323I(Yc-#4FiJ^YTyyiivMhOW~WvL=Q+QfRU<Sx$1o3Ihg&t8f
D63V^W{N$0P0dNq(#@BA#tOJxDu6e8OiQpH|SZZd?sNyT}9dW}r}B7f{gDkF~eRbMx7gJ_s71d-GPZ<
U8Z+CCiC9BlHkJomscXbGs5app_&my<HHnl3#_kio}i4uD$?zHz037AMA~9<c&8?s^uidA%6QPpndcv
On`kHOibt98~Ggil6@}ZKd_yS_vLQ^_?*p&2rfFeiyIfL+<_eaSEbsYC`~R=y41{Ph}i{(dGL>gOECQ
K3PllL5*I4#%9CUh;yk4}MLSqxv3113ji$wY!`{<pGsbnpRy1@e#sYIfS%U{EG!5c>L38zy&HJ;MoWg
-mG0J___X^KVKi)Myf2dPW3p5O$c1?BiAnB58ex0GgBO%$`Z$^$p=#GMKb|Y+b<%FYnTfmM`arbnuRr
Fmn&9mt5F}v*igZhHf$-$*fd4FWa;P0#<eu<=bFX_iquCidW<U1{O39hhnHk<S{2~@HV<@5b@b_Jw0I
Rv^c&_(ZW{E@ie;dxfm*b*+)dB)KrD&Dr3YT<Z!=CJHx-oyJ<m|;u5%jL1$WU|f?IwYPP#gvrm>)0h%
+~>;WlcxvG6(wWF0$w~{{d4c-?FJQxv9;U1!Jox8tmP)D?#Ez&bh4g`1@{DOR?nHYKO)EdjX~>NXimX
`=kxizJc$gOu^1(#;5cgr?0Obp<uVML!*qk@@y4HS!gz;!x7v(cpRr|0POwu3C8zCVU3Rs8<1!+X;=*
pZDSBPi@xZ?DhB{dT5A88iZPCsz2&YD_7pXZdIW3Ik$&3}}b3KR4)6tr)jW9``dU#~xL=ZPOABOm-vO
eiTLj$wig`CN%J?@jsQQLZ3O7^z(q)WW@P%!C);jK)WxFrOopb^MfKd1LiWQbKY+XZCqAJUd+%X`-|h
pkkfj<?3x-Cm56$2p79aeHrb1pmtw$6Y(7_iK}0Kg_oNN<HzfAN0-DD=eq*`rFR>zDS6pFp9wxOvBXj
gF<nHU>F8LaF`%S0;OP*q^Ykfi4+iXz;RHp164(0WgEkwTDK$-3;{UKK&$}=fjs`T(^rOr6lIC^qipp
CTkDVv4ti+InW$C%5?`B#<oYXmog%~G-=m+&R#B_iH_EKc=?vr<#M;_h)|P;R<|^GuuD!^0KrKvH*UQ
xyd3o1lZ7AYz?wqS&)$$YAfUJ{w(J!?&r5J!ca{I>0k(c|&>*I0C&tey_N|>4{^QFlpyZteKKe;b)GW
a)zDL$XB7RsQ&A_<TRKiO&h^FG9T<8B5sYNjK;4B+~;3M&{tZkwRPkBvJiei{Nhyw_+96;8&a0W&H{9
bNx0YWjG#LqF}qmC8^0aLSu`at_RsfoFl**2Df~v{$c9x7pr98f{4>c4A(fDD^cHaD<izlO{tybHo_!
xCbZ8bn4<abE16<Qqn`H3XGy{hfKfiPQ*OL6|>v!rk#8uuKR9#(iH!UZOI0EUiT*ljxbTIu+6PF+b(j
0@?+xB?VaFy0gHKcc?2cg;Ar?G<DU~TZQ}#tV8QN&?o6EN3n#km9$|Z|;@aLldu@j1V%n#H?DfkNmS@
Gmspvgo?Z#WUt(*Hcekn<>4vy-QI#rKX19uqbvU?g?*E>AhKOkw_UuQ$>A2G`IY8EF;ge0Z)4I!N(6|
;TO`;?I#NF&1GTX~^kaZ2ns9d#Ay&$keTE}pgNZSHn;2Ci=zmfa<K8HD(2=WitU&~b+B`A<Ydrgl_`Z
kL6knS{uxDE!!V#wS!i@Iylij~45au|M6ClU}C`S@$57(B?;_O?c0^t!bZ0>=0A*7LgieM;)<Zh_(_B
xw~6HvuIy$YTF;KZg|zxaEzmXbKowu(b!9G^5$MTvBVz_#B~Wma2<}f@p&EyTh^c@#Oyh;6f+(hPPYF
H2tM7Wl3(t|u`JF0k%r8H#H_<P(2D>w!#Sn;$%`m`ux`gzhQtM~osvJ&2ilYemD@8WyB|{1Pr8O+wTV
Ntz-P(5LA>~`^C{P=2S*_Xd)hFQQ<#w7ZbaFO%%{hDy`+X*(Clmf7EEW6uI>FSj26)wH9ei$;)6F7f=
c_l4i@xQNp+0ZersqRU+t-#-Ctg$(P)P|e{%OP)_Auf`NM`psCG--bmJyggbarTJfI~BX2EkoS}wZ47
A<&K$XxDTwcKD?kTw(Jq!fp3ZRaS=%;_ZPl;PYo=;WP#B7?a+okX6s$F`YcA~j6pP%MuZ@8As&+<2v$
MJ8N)hMb|c`{<hUSF5}=7cJE|qiOMnGE;6?DAmYVEsWofs5)moM;q9s*to9?eM!}WpU)X|dyV!M^Zc1
~F6Zg8C1Td=PdS&RSArkui14~@#PZ^1Xjg@7b~o(okt}X7#Uas}P=n6m^5rc`xnk|?SZkO=j~fe?P&3
_bSvf#0M~j|SDEX;UJvi!Ot6|{6>B;rm!!eRXNIe|5ZPDFF{K8CO6jmsg=BL|PQJ>1WXb@JePXd)cba
<d|E)oUu#wbXCd9)d~vCk=}II-@wAknk4m29Tl^nQzIp)sUgkt??YoY~1<Pj7G{ygGqAzJw=hjhw+D!
)Xsw8w3(>dSTfI_Qe)M5T)u3KU`FfYW!n%m1lPILNkRRrzx@%J=_txR!=-HIMGIqs`GNUKv!W?8V^-_
24Y}XoOf%TQ9s_d1IJ+SeN%fHR}yBTSH5SK0Uu-yrk`LUy>G+0#yuYzlFsGsRYmpLZqE_R!$zU%R0{3
~Ju6H%Yi!zd-Lcu5kKusnovrx#FjvmyiQ{f`eL;`MacXRH?`NvgT8e>j+L1qVr|M|X*2Z^d&(C|fXDB
gSvb)FTex{De62OxbV%=jQg>*v@!jT#=cDQb;C=1LX?&|uO*k%_K`+1X1JPc<|9OFlJz^@m@+1|yIDI
&9A3~UW`LGZ{9NBb{VikBd0iGh+Z`7KHRh>v0rA4x#3v%9xh`dI!5s<lA-lSD}jhe`T}V(@?FJRiZ=p
LYDpK>Vv93)rKrrXows1LQanV0r=uzE&a?up<pY$CFtH){^Y&b}a*}SLszFfT2No_RY=&BLJN$S!u~Q
`A$EM*0Yi;hl!4VR_8@l%5nsV(l7(|Ue1+bV1O>7K<_wQrOcO*kO+TAu~q$(2Fu3R;kD%>EQ<g|UJSI
GnFIuqR00A&4Er4>e%Y>dLA&;~`9+<V=dM2p1X!-|gp>=Le+;JWPR6K+2of#$6D?tlA}FxQb9?~wxV`
5XHRAJl;n<Ja_WemhmUMgxtURkY12b>?yS(=D7W%wNh{v)zp23jHvTZG-!u3uOMHDhF!OIj_bT5dF!5
=>tK~>fY{N+UK63)$$Crxp~G+;0%LWv@Ja}$}Mx1zAPL}m(XT$E{v(55$c6yy7Cm;e7>gTKy~7OqQ>J
4W*Y-q*{%wqJeC5d*|`IQQJN6Ku~3=45R{6olI!=$P3a%bsvAh)j6HJ?(u#q(Z0Pl7<=OOmz}=BWouC
bRUUF2e+d%V@}MR99dz`opXH1?oqU2q#ZPYWl8@~oK(5Ci|Do4u+g4B)_BVuIP3)#Pj*tPf<d;g?s}G
<TX+}VPCQ}~Q>Tb@b{h71W|_UK#~L=&Hz!XYcdpJbnJAM(I78f#CyP*EWTzNr<VF?u`E*_a`Fx%-g~s
q%m7Xs()hQA`V0<O)XqF%`VF{D)J-Ul^s0<t0Or5d6*l-s`q8@r1*w~*`@e*M~<gmKi?ApHJj@#t$+U
f_gOPlJB_u_r5oj8Ji<V$OBjbZCeY%|EdRh!<%q~4TjeQu7>GnoA!p{S7_Z=`$H{%p&}1D3%O53xXGl
Yg^t6WL>B@EW@syT0H4(6@WN6%Rll!vHzc<p{(wmhD_<u=u<G+e*q_J>a;@AM)xD&{sF6AwT!>4Si5)
&>5m8X^14#c&Nuel@Vvf<h5<#E94#o1d-EN#cJQBV%HsBGAflAd(>fLgE}XrOfxZjjt+f_w!4=Fm-<D
GcgUvOw8(UW1{fZ#jgIe+k$MG_uKAK!=o9`dHQjj0)3QP_%W9MmM}OLf0wrCI14C^cbimFS*+4}r&dR
h;=0lQAr!Mc#TK5R;JTOeWpp259?{|;9_FVYD1WGPp!bJn*3}2*T-o3IKI%~U)bDW)qoqeWF`p0W~op
HXQf{W}UT*(gQIpLxsaX%8Yo$0eEcsL#$Z?<7q1J^-EZ+~5GK7BGgdw!BZi`>YkV;ovF<}iPor%bSOj
ZJ}9Fiyh#v5y}OW8A}7>~3wU63}hfU5#zT*u@q_J@#)jgs1ZHh}-4^Qh!50clKlB{`9|p*^zx8Zu+tB
`=315xAyLz&hs76qbP>c6hlxLOv5zB&@_dSB#y!`ic=`XFf>Ww=vU!DMgvJrDh5Rgng)$gFiAwNLOm(
y|1O|PtZe3p{yqCzDxAnbGd7FCuoN&p#ld(w4YVsk-<ZNz?Vl7Nbcg~zbH)G~78U+Z{LJ43ML<;rkiJ
mRt|j4>(w%}D3XuJQK?^xV0E;@M){gQjX}&Bqiop!m5)niM@M>A!m7>8Q)e<Z$@4dt!3A3E%mo*m@)E
DS)ZQrBM4wBD~SMMZeE<J5C0&UGNYc5>%W6k9f3U4Ah?>$rHge5@kVzu%5gRSy#<o6aS^mUK)+w{{9o
~b4V<~2cA<6S;GhmNqA8}HWarnBTe!0+q=d{Vj9n*Dv-{ISj09lsklhuFq!KdD@5;#4>ZTEAj+9cKDQ
^WvXIY<<Y+{aCbFP~2HIpvy<7<Jb3=r=PCDAJ*LV@*73re{Ol2uey}{s!N%REUY)vjeVVm7hP<)(KU!
YD>bJ)i4+EEP_DNgrD1rqKW%SeBt`wf@GO@;m^b3AR(yN5pX4QSvxK($Qj=ZDzui4=+v;jk7LYVn@sp
>T+U~9|lkK9*ESW-4*pbLynShL4#*AVj8^UW<`poS#-nC|{$G5CWnp3=moU+b(Ei`?9!6Qo)*e!KMnc
=d1E?4r*rmRIH51C%>er|kT2?|aLGQFiYK}yDMhe?q58m2C}_C_(oev|61`Fs@{-;uCqbCT5r;ksZ-t
_M`9_=rr@UN|SP=A_&_qe&FEP?d!KSYD8Zqi)_DEq4d+$INZ0?C2gEGO@RO?+ib*=(N>elu#Y7JL801
uhbw%a>xyk986*Ia$~8$@24jXmyGn-9@Hy`-I05WdChGo9;dN*2}!o~x26-4xJ*2Sjok(A$&{c`jm(&
(=s7i;p(4#aF6)wKQN!73eaEy5UmP5qEV)9m=JcSq9{%KaM`P+0nsK5QLKt?R@<v|8Ri!nj&YN{iiAl
k~IWMdlols$Ri8~9thj$@uO_zh0ATv8|;mFor7ar2FQ+)8LuuJJQP~7gg+y$H6VIx-tQG_8Hz~b?N8R
=*q$oUF;)<(M`34bZ`R;e4+gQANQp+}7{WdFjM`t?F<lXzmayXijJX2H{lN}i<|7$;TGeTR5<WK-tbZ
hPMdL}mJrs^3TJV&9Ob!tM9p6a%;dj1|7V5H1gbkFIUOalr&h0*GXiyzr0QX=1t0uYWE#5Px%_hdylR
+4(eL&1QMlb+K+v_ttBWGh-X@_6HI@Yt%YJj7v~L`ur<~G*aq%FFRe#1M?GaSWr?zL}Pq(`Oy@PTXQm
p`|Y49_4LZ1YG%w#<UGT_-#eDcU;h0yK8))nH#VIK+Z2YU2^-LdmpsezU>WufrcLfqGfr1iN(H$E;Y}
}(DcRG(d$QqqFU$EwAdDNDp7_@_W&NWONnxXOh|_U#SR8M-q{?|CG;)9Aphxyt0^$4f%4qIzp^iHyaO
H5nDSAH=Xih!rkKx4CI$Sz9X5q5ivv{kzlOl%(!oVqnb<Fe0AIAJ?#_fD`9lK@^ySsQxO028wTF9LI>
c{C(W}B^fKbwO^5c+95s(n4)9~M+Uw$Zc9iG6<ATS)JC5AVFK(GE))12Mw-e$<-_8{2Y23$VAz+pW=!
mM)((ZOZVngBm{#A2DC=Z6eNg*HYJon~B~k+`Si!E7bXBQxEe^A@EnU^^mlFHf`3Nkr0z_BPGjFL<;c
b<~&SEiY|O0#F~U5N6~gC7D4AjDzt6eWav}eG5YqE_koB%uKWJlhlom5j|{qNTS_={;kn@^KfIf%d90
{M!L{o0aPOYC>o^mt;k~3l-HbQV)i%R(GVd4GV|Bl29#A2ji}5P@ThQ0sQo927yX{5GcRB2Is^!Mv$t
$V5R!02%+|CD7vXKhalGlSdZ(eW!y~?|8S|0Cb%t@*H=V=_UIV19B;<)pHziGpa9;?H?^g?b{hHUR11
vN1|GayA++LDmL-I1nw!9sl?_VsAVe`mxVL~9^Y`;A?;-P7bZMfetx?f>}grvdk5*%mL`zL=u_PoL}~
IQ%Ck`YuYO5CW$ViotLMg$bIXNfaR|ioqEKhbaU{37Gz}W<*n~Li#G)h=zcAk29+SE&?cg6awh}*cym
2*zXkjwYx3>MgyXCKmbla{V1V8-1as#5Jn)FTcXS*R0N^h8ni_#B@xGdCMuZ%P9oTkSk>FpwIW3Wh0A
4aOC*?vpb~_9#EF2xAA$lEwpNj72JDj|;4Mi8*at7WVF{=oVN1*#|0+ln`c-}JTg~Vw?6aJ(vcMY21K
|nuZp%*lula)Yk3k|J&$|ZqjrMP>QPpWBRJ=`tTh%0eGl=Cd2*_lt3dY_W>jDIThJBor{KFWo7eg=U)
<BZyI3TbVH*TefwFm-52t<lYp!mTDe1Z`rkoJBn{k+8Qw_UjU^QxhLW!axs4gD+2{#Z3A)<A!8y1f?)
e@}>e*4KA3O(prp7ws;jVo2?5<u*Ed#%2jkDstgavdaV2tsS*E=-yLPY_06)jL&C5!fuC3n>7Nf9bed
q+87+5Mo`e?@k%jgZrg#mZDx5sHF9>H1z+B1Pc*}Wv#Hn~vL!q&M@BI-TPGqyY<qeL`39P-QMd?)Gs@
G!w#*L?G8K@=f*l4|nCHOT)=gYu=N{SaN_&Fu+o_+?j>ut!Jeu(thuk2}+jv_?$Gc+t)3XuGhcYxWEU
007Z=Jl5`@NMWjnmC-8j+oOb)}bt+*_AXZuk~rPvMR!3u4ygkdR{kDdVwl=i%yh_8t^E*BkWKZF%e&=
G)qej$3l)kyDZF<m3Q~H4v!Q1TU`msxDGo-ZZ;DiZI`rQlFe%mhi-qNKzXaRoC;2*q?&o+ReL!MlnTr
z0G)nk-eS3difXoLZ5d2sk>~OlQg!`dwOrq@dDVjzQy7u3XH)50{+@iY{nT$uBm(9XD<UkX?kVWC>M*
>GayWZ$>Cb^)EEh^TWf7P?|E(RVqaYIz{#L&s_1$j;%YhNql3OQ<%;=Ry2QIwls9!v;aQH+($$X4grp
Qz8y*eimz&I??=%%Rkm(^=dEBA4J7nz9i*7Htp5htJX#E-C(QeaNEs2YLz3=&cdo$!7Dd~tfo~h(9W`
`#vqYuN(V=sFp^v&)2bQEo?;RR%l#jzUqHMJo3+_hq|VToyao$s_GSk^#ebQV0>6xy_Kq<YBXLV8$m+
&$r&(X<x#yoOjgZLdP(?l5hNl~+kMCtbU4@=nr8eWLS!1wh|rUH<dn`LCSlPr&*8Nxm1EVekbs8G@l1
0)=rHqi}{mXbfdYY=KUkz%iWs3N$GO43&ip7ztkhk4iw1gdqX!#cSUpMOPk643G%@n#}@m@QpA3R^V9
wjq#P{P67G}nSdt9+k_pOfo={H1J()lGmRO1b%G5S>}CMdW_fpDZ4!ZrcVbn0rdM|rdi`y*GWM6HF3V
m3J4(QA$vRw5Wndo+2cEXeIb#YyFp2yUH18{Dew&Ls^1_(A9miYuU6FWq)jP|w{dHxf`0oNuc9OrLPx
2XkzG<y|lqjI%M^yz(lRNA?IIdNd*8-N`Z8LV__ac6^>p+He0umtaRh8%GcLRgM&z-~i-!uv3wZvV4e
cl<U7YJ01fX(JN^LKcy8m*-lMNA$Ms)AC?2a|{UTTUPNWh_KrPj8yzv`BheQjY_VrN=qcYO2upb^YKV
-WCk@yuUgZ9y@Il;km0=m%z%4ttZ8FW?4m4Uk^OWscrUh`lmJM-uV$r4=lJ!Eki-qf^@T##B9w_&^{c
~d?L8U-P$#rja-J`C~DBm1kSJyZ`?)-cf|78QS}j~SdfT9IL2?2ClA{7Xpw-Y6c-q`8rhk?)!qpiFOw
Uiwy%v?DS<MceCkLR`lh&5osl_UG#OzYNloVVE48luR1yugm$=(Le2kk{WSq`iCVO*}8u#r?jdzEK_0
x??IHPY3WWU9sJn^WDn{Rt-Y;C(NW3zp7CWbwVXm;3c&yknjz94DuZ!VRwAJq@157d~JJ7EufmGleKX
Bp>jl<x0*TUmxUnr>u4j@~!4b|`nxQCKo$26j*168>-b{`<~f?fdhoG-HTO5|EG;ZPO#-Rb=eP!O8Bq
gQR|?EV*y66(4tK0sMYQe0e)MoQz!bVTZ=))wwqO0*sM=i8a1>oo1yu?~TeA%G*T8W4G_N=)on}B!^&
fzrDH-l}@}pjvU}ib08077WKO*3!2D-J%YPr%7SGbW_O!qFXisV9II^LUQ<*FI$Y~hRffS5@+mhV8)@
@Q1YDHf_xb+ikq?Ul6rgK}pH3U?UZE$NCQodH>BB{I;ramuwiqBsyHADbv2VG1w;4vsaynGGa)VPm@J
@P^BU252T)QuU-Ocs|PhK4cCv+bjD+n0lQ9R1<6eEoYPu#M@y<tWB9+%3q%V8gfwSy6L$k}tF<gZdVK
jWKR=EYlL7hdD^H_`nsz|8;TIsXKoKRw@PB*h2<!(kYvNF0HeM3g}o3dJc5rZ60%Xk_^n{iRr2^43F0
!5kV919MOSf7q(HwzmFb0wC&wk4skiF%bUe76s5>TP0(FbpZ-EnhTPJ3DApKP>@+=V3O69011KRSG-!
Nqr}f>q4-MSB!17<xpY8aNCD{qjLA^|GnaIEIZL{Vz%3X}ul@<32LgjcGl9VlA-Ss8P^&m_3f_J}aAX
1GUrOl;tDEWVo15v8y**>KY4xKzERXE#e6NB!`6?b3xW|7NkUl2u_#s%Peug$>dEF|a^olWe1~T73sz
q|kPcZeyDMeQhea|@GwP2n<Y?~rM)S(~eekF%>KIVP}@iQjYL+}#M1{Z&{EROFMIqObu!y#`XZQn-M*
r!o`cMZVnZ`tUZGA3lX!5_VgRT$=HgjDg3ka}$2bYYChApAoEZ5W#(Y`8aWQAPyfc8=lNj?Pc*ad2zF
y0%MV_mG&btN7<rPv;B62c1@Po^y9F)$yQ%*~5Fy(q1B5=VPLEu3_)@)N4sMpOsHs`rFX>^u8(%#UZG
7n~mW=&{t{WQ&jV+Xh2WC;M{D~y|!|*tK6CqW5#*KjF%QaNj+v*gZZH2$~xb!_Z`eiQY-dU>yU`3H49
`wN=4K`ka9<tZ&G(wv7**o<}?sB9G~XrrZM1<E5a(2569(#IKC!5VWgwoq)*R#5rc{s=W+X!)$_|^bC
igEP?l^V(JH#69eRS(k5;=0<(+RFenihn9XMQTpV9(>!xQ_+A@T9#1{Bv%PKn#}<Gs3WUY6+V3oETZO
R7O%YO3ktW<o1rqcbv_*nwKK3Og{DGd~LNx-W?`9Rq_4S?Hhc{B^N>SqvNR^3cc3G={FPSvlu{;?8oU
oHAT%(%bmV=cHnfF1^!e?0yzKZ*OL|bSrwuwXY51G~iWQ2)aVPpwyru95IPFiE8D1<j~rao6@S7wrgG
{8JjfPn!40A^Fg^@^HRe&0Y_Zf@WeBPTqLNlnZ0ocbHfTQ^FAxjR`8lBI^2;gvoX4~eC_mrEmi$E?R-
hYo`*_nOwsiT+8(bH3I(r{u{3K-@WGvb*nW7#y31Z?MJdH+Ij}3&pY7c>82Og>CPqYf_K9w7GUm@owc
}H06dyisZ{Yb!2%%BQDlOaoA-gG2-HP2rU-eD8Rk*l84<;q1H`PwAt&qJ~MP*zw?V!!R8bs2>NRH9|G
Rl6)oE+|D0~{$=1O$-Q)x(di{9o<+&A<D7({F!1;QMOq@(+x{G>j9>0*p9};s{RC6ba+>l3r2-L%?h8
^Uvj28Z_zYH&xNKv5m!GLL#F;H5JA{;WJEuq8N@YDDx#CQg8DRI2eYYP=KXN2Faj+WVa-)3$iVVAK=-
+ARz?m^($=<bl88YEuVo}?6ML%1alHVaU}#jc!C7}JqQlU#t8v{HbH=}JQ9KYa@k>7C(vUF!LJA!RCA
NnW_-cv<y6?}QyxdZ1jGu=NnF3pNm#7nG4}Qlpo7^lo#QVL!rJ2hWQ_^p-U&MV$Z4yU=O23Wt;4^~L`
;$Fz6|Rz?LKhssjm7>&?*oiadYS)MSQKkRaW;-HJL9KGn^Q-;@?Si>o(N5EXjm(BD@Rxr%CJG>GC~mU
`0}ydn7*+0ID~Q6bOi<oMg3&JZT29Qhy7Q%;yoRd)D3vzRk-8+1Ki{^|r%{s;n77Fg$&AS#F!i<2lB#
"%text.

(** Lines 10215 to 10364. *)
Definition DATA_67 : text := "=?B{M;w$IDB6OVdwnc=c1-XUBGaL5Kn8Og*q$(=NJ<@M4_Kvyc!&S`rP|{M1oi2ti4!RYH=thS{3*QF
5dYpBrirJ{~hqIfbBh_oPg=ClXR8yu>T~)<NAImB{k=i&t6OPrczq1!<$5JC)ABM=}6G+TO=aS59FsA
P9WGnVn+6R)CqO);M-9Q!u=E5WMgx`scl+7mtDY(7th<LEku{nG|GUe%eDiJ(ym{jfDSIQ{HLzfstiO
md=rkl-)wjP`LQ593{1?=rsGIftNTX$2}Cm51<NjDuN9*5J%me1pJefrk$y#U7{=UYMaGb2qi*vC7?{
|iPLNc?cj=rQ`S*VtEzMf+;LHu&W}wuVyu%mPx}8AALa{|Ux^zMAP>OY*@VH`nksAPbwe!!wsv`{bp(
jphCn%YYNoMzOf7jxp92Vok;~Pz_-ak*oHjaA0<dwXZ5a-CiXf&U>Pz*#psEnc;|;865PX9!uDjI9kf
hD`;rWB%Vf}+o#{rvb$4;URko&B*99=a(cr#@2-_T92|mps7)B<^?BUy`eZv^Ui;JCuplWG4-yRv12N
T7bSsngN^_$az^bVW*O~80A7<+9hC1=hHCRADy2f&Q^3bx1iqc@AIU3ZgA=#3{M@c^ls+P~uv=6O$nn
oZH4=a4kjklv&lHAdpIMVjETSPIYdx2>l2UTisV*c`(DBbjp;#Oy6&9s>4`?)e+A3LPF9(K<8sLZ%Rb
hzZ4;sCLt?vaG3XnGV>Q=9T~w@!aOW3-)bX`GL}XL5jA2E;<b9!QBe_u;YpzWui!6T`oE=(qguyTd+%
8-t(>LoFE}MPL}iEI%+}$@fr_WJrRBF>1;8h%f!?fO<9tfNjaW7DQPfjer4EAggE>P~l7gu8<kvg2%*
{*p`IAJo!yolUPfb*(&+L;GjQAtYuOP1GP+yUgbH%Rp&GQ9r;<S5neHDIbc~E5FMew+~4v#VE|h_LqO
qlNgtU{!rNfDF9EwPZ<%FliFVZ~A=i#%6ocyRk|@H|lF<GV+iZYs7wucJXK9-$H^Ylc-Bd$pcKTSb;g
`uCm;wBwy{3J%*MM`BBCU4yMIyWNl8&9?tNQ}EOf=(9>BYJq2m=X~<+z_pii(uK-t)C3C#zn-OxbXh=
YDlFSzfQ(fNzNSG~Kru!0+_0KT*b<Wi><KTT5DX%3WDSV$k42>A|q#NjiQQuS|q^LXMxPVq9Rn{yM%b
kEG2=o|7Z5n0{|O%X1bU^Wh~g@#ftyx`;BbLKY|NWaX!FBeVu~R<*&{DyPP|i})V8zX)YU{b6ewg@F3
D)>rcdf7J|@PU3Yy>X=tsvLUJE37Y29&S>{#*0v|ZfUR~f-k`l+6Z}PHPCCk-lMQzA_QJf^lpyW&Adn
xYW+2)@)puo?+1fr8%vQZza9=N|L@}8NdX_isHj_-OVG{pr>q@rfr{CXhFUK>K>z43xCq<6>Y=#3R-Q
udinX|q(p8aM!pQH(*xbuwI(PJ;2h$AD=TdRnVhn-I{UfAGpGW2ad#8H6JqRU=xceJ6Nhmt~kwu}#EC
_rI)JT}kj)|a)9Z%#}@Y$vw<AT*i0u>jXkYM3j@3Hq+!c?^D#v9_;|(4ur%Cee+gSF*o-a&BG()$var
exIP{vMc9Enz;C8QG>P%u>E}_JYS4HO-)|gT!J(8*)o-l;E)VdRzsd}+r6l0al*Ap*5x4<KOCDfa%*o
}Wc;GD(2v5w-w-2~J3WfA!VQVVW~2xI4zZ(bvF+nL6GzgoF5-?Of}KmJY<-`E!|n+xU|taF(a=~-5NV
rx-56wd_Gqf?p63^2(U1E}Z6*`G9B|~UGckP-WMwYsXtMO)i5o;<?6cC;>a|D8`?g8Y*uO+VsCp7-5R
fYDr1qBc-i4F#1UYil#PesCB~j}Vs1I*cE~+?0c6Q$B8wZ{*o(Gfu{B*JC_KboS+DEi|wq6QzO}#L`n
aMOR*Z3h`@+{J#K%+X8H=Wb*Zy^uMi}s2G<UfHAz;}M%_X`C27f$gRiT*hJ$21E;aEw7Hl%hx!qbYRx
!7NyWkuXEyBt?^7A`!agK%hN`f)R0Mebg^G$&zlR5y)qjXZw;H0R>4g75*g>;cN9TS@8;qfyy+#CS6O
)lde7!OS%OtA0m)+Eol*ffn<kS5HI=pH2MNm%*tS))=_qJZ6Gdr6iI`{EC+{c@e*DqqsSO2W0Mi!P@@
ERr*!qZSPmpt(aneiB~&B>`6Leia!`r~S;hDVGg@%TGv9|vk6j)p3kvyxi+)XdiM}d3<_nN~;DY}PT=
;AO_He-R7F6Pnu<LvViw~?go=oX9zhQ-Wd28E2E2-rIM%P8cbc)po)%;<bAwB-oxBF-kLT@0N{BscfO
!$5piY1vRMU;efQ0g<Xz60y}5#E6n{jp#7W4jLe+^-uP4AG6|gvp*(yU2x9EG%h4!aGZ`)uZ;I+Y&;)
hY#M)9&MxPy~6-iy_O=Emm-|G?5ymbH#RpN^FqMWsXg6~oEm$s%sw}Vf)|r`%k9q6<+Ul>DkzB~qES$
;OKurFo|~S>k~_g296s!LrIxTmD-XJJ=WmSn$_vEqbOdo3{MET*lJw!E`r+m*Lm7Kf^7}pQ@R(^m6gQ
-Ze@q(Z&lrMt?X=@d{M;XO_Iw`6wv*f>%C8x7)t)imRd@)6g{Wuugd&KGcahKI<c!ftH8(`U@8wsDkI
{X1MVFLSILyXnYOHO0Rasrl3M48;#eu?$OJ|PX=}l<G-N7}=NK6i{(^6*AjDb3T^y_e0F%(()Y1Q!0B
}RGoQ6UtMYlV=LWbPi?$Ov2`ll4}%DrmW%->T-jHv+H1T9F}DlRE|4n#*}7kiv1S!>NWCe=kjR>EHY-
zj=3FtvT^c_$-@mwQT!M^yr&8lW&aij(LQhN$Bu;C-zY25!KnxhfucqNccY6<b7r56onvceD7tLxAG-
Xsj_KvD*qO6L4WETYKP#`hcim!67kZP54%JJ8y6*{;C@w`Bgy7dWHQVlrRtG7RnSqfR6G&e`|@qx*Tz
&HWF$ceYaSQa3+c*#4*53I9))qwZW)(xJlRWkx~QK#cSsLgsKDVFQ=QtvyEH5gYOS6ac%T$h^^dt}_e
Nf_uJFo7S9K6Xr5{bT&9M6+ygJ$@Ki;6L_zbz5-zgd*opYw66Ld?a#$0ai`4pVZ_%aQsYT|r($5B(c9
;`<7k&Y@aqam1`1>GO9&dkGPPX1$*;tPJc*bRDlxrL@Uuu2btEcVG*&AbScr`$4AihL5P|2)$$VPq)8
Ot|i-&o-6&rx9m&dEl<cY>%~CW)gn;GMhWul#jpOIduNV|6ys4by^@%tkbH$x7V@)cnIc;s_-|td^Kt
Rn;rh+-|KMx$A85C_>adw{$qjM|0Vuke?wuI`0djfxU$a6-~RD`0ps)k`R`@(+n9oFZ?AX%<NqGhYhC
{1-^=&2)(h(X#{S#?{6BxpF#kWZsBhvmr;oFJHF@>h;ogpAlHT9)TjZBh)k_MvWRXA_lLomb!1N3>1V
Np1)xM4>K(rxNyU+0Jv~>vqz%VuTJ4}P@5l>b_&NZ=&QP49)2v7|LblVK%z)J*>U|?K3`I&SLjsq(yp
qIV+ej+OoDPHTeGz^SIm(U=K!E2NTAwx`qJR1RtHRzQtIWo0s=`8s-L4(hNt#j590VuTLFM|bP15&hM
|I4ZB{v~b=0e)+}O%v)G`xrV^{pqwo?*fogv~%yvlXHxk`o19Uhdj+ausJ34yB=5#pHNx6qR%3Y?Poy
SPbgk~e2zE-Rz00A;sIn6Yn^wRcE=N;A6=C*++cFwtT44Db8UmU${{fDX)c&P5l`DjEZcPfj;md?OFG
4{r`3i%_Oj4}^JEEAjzE^}{m&M?r=g^AhiG?QmQ{fkA{lwW*3O+no8$C{m+F^qGg`>|q%~$Z$y-$7ur
Dx*`fa13?3Vx2)8ReN5rp#(D+9iXJsda85PFYyL#cIytS=O?=+XuO&Vx=6+gY@eh^H=Hmj7N){X3qL!
Pb^-99LU`HQtd0_RKj|&z&mq>0Y?ghjfo)7Z=TDfqpllNRDuoRNa-9unt6D%e4TW@6c1{R=@V=ndu^6
-)M7u=siFFEKk%EJ$uA*;p{B@_Sb1G$EckmiUagK<HN6lqR%nWTq_dN7y`;YGb~Xl$j=lb*hx|N>R}D
b&Fthc%GGHBHT7ADx5JX0-Olzj5IcX~)pTKaaOFK8B47fCXayB%>1KC>T{1kLvo1)i!e~iSI>8NGM(m
Xh+PMRUO4WlTJ#`xy50CLvy0lA%<1j*nf@r^^M6x-0q&TvN2je{AncMQz?J|&ss$DGSKu`DlBwPtz@N
v;?dScdZHr<}Mp5US3uAS)_Ih7o{BL^`&T#&209rqh-=1ERU?8lCf_T35f!YET}hEuz8PHX$1k}<{T2
&4{9Ls$h}qEr?cPuzo<`SIxE13pQYL^3WKYCks;o}uo;KAw-diqBJ@XwR#sc_#vaA~;E>59|5olILH(
P@4I9v(tqb*Wa2%$a?m!+G?Wf@B)fR+mM|d`bDrI!;4xo;N-)*kJPrv;nRekt5ZUw0iUoI1yvWm#qtg
nHXAp(V@tFbghDv0wlo^~E8>~cdC9z0uQ&aTLOFrUJ;fVsUkS_EA4I8uGV##7;^p=W9@Pdp)<_Yyb^g
3^=;n12vy03hTg<)%-A>-1o7Og|iQ8S4(|g2$Afy@MU|W*wi{^?>!jLmD<5dy&!(rN0T|M6}_aeX4&n
Ks~J*_<?y4shWW(ZETV2h?CEEMYgmeMjCe&xZ{G?~!FrswUHs@!m~w$F}3FIPgn!PIe66nM<P+RU~^s
u&Mjo%S^wvUW#7P4B6PlG&W8`@4zB|NVi%e+BgZ27p`(mlHNCp8r?H2meiL`<KE5^p{}*7?L4YrVkE^
(CBKo&8#BT3ltM8_EI4jkPgw`Vfbs`$yFO=Il&Sm05O*YR2ImUcob5A0+mL<){?<N{h3@LeA!L|1InL
?ui&di`C2TeQqcB=QDFB?QLD2g16spN)B(uIAvhfwgL(nE5}l~E;k@jV5nu~KfkrfN@yI~+os5>~<(D
;u1E|!__AkSP@$&yhm;hw*{uCy7#2vW)8ZJC}@9bScvR3?s{*}<+b7TO085)%A8id#=0BEUK1RzRrdY
{%g0irPm$j0XDgh6jj<r9$aMn5(JrIxQQ*jLvJ`a2iwtLp{*oeTEW^@9G+1^eoHK|i}-e^u25Vvl@hU
MZnEna1>N0^YdDp4=a#cCKGl#mShlzso158*i!33n{8D!ACE3aG6oJYnnkSqSW}KPf)WIPF%v2caJ|z
_I?4R$qtjMf8v8b^YKY`5BJRuIa&_fsG9QJ`1M&#3dq8)%p}Rr>3qFn265Yv8-#U)*eYIQIm|A_ytel
z8<PYUJhbjsSh=~N%x2u~BA9Jd=s2SJ@op!jE4f-sN3lMOu7+{qa}zK;fd)#S9Ee*#=kvBh&d~)+apX
)8_F38Dhn)|pa`$MS@gYhXr%}Z_!EQF5U&*OH_;t1fXo(dR)2+kl8TGg(Q_J1+DK+M!l8{M5I_T9+EP
qhY?Teb)BOTs3hv^#j@S*B*d~w|8*&mK`&L(B<xePnM2-=3E8;O?o_O3cNWeGeF-|?i6hQLh$`!iQeP
?&(eq%_NFUf(knGxN?b_mWR(FWrx*(v1D>wePLyf)?JKDdTj5L|%W~?$yNH`T)69N8?;|td6SZN~RK%
v?eRpuasNN1Wb;j*VdX*x*qP^+1A!F5r@<o8@sS2H@-v>eHX}y2~W999-2DvNlXuQ{G@mNW74Cz1%vy
~d#RdjXl}UcJ&|5eKB4ulKnAf>H^ok2B?_fgtMKVQ?INU6M#0AP*2S;qD3%Q4QPx^iw@>?gL3dKy%g`
W+>Sf<Cub`M8DEoS3tY+=$19Pmfl0WYC-6P-MbW+Sz);vGOaA#0=!5jl>dJJ3LhGy){WWgnn<6M$GlC
HJ7xyZ@$xxHDNlCiEsMV#)@l@pb}sjC9&`M>R2U@^u1_P_nMLqGIT)?cu@uk=&?!ZF|Jr2J|B?{FEz8
5DG%NrZ+;hCxvJOEFp$2k@3KE9@blIKL#(S-1+uu8gQG`#qyUroSY`4EA*+ng*FPMgtxbaBY6;WJm7-
0JTz%aRP(^*xDjsR_-xMfkB$Dp&E?MCV)AdG610$(1k;gvtudX6))>aSB^AHfYkz%$q=xn(-5=*fRz=
!x@zH|hX7t9z*Hk%h1(V&XMU-ZCJmqwO@3=ctE}F$vUouJYBPNm{u|=yTW$%h#q`QlewcxIQx-u$9Ua
e)r}!zq&pfQ-E${j!z#{^RN=}Z@)fb9W_yrhV${*vaf`S-A{xSpudAGCpe%pnUer!Mpw(vdg`CXP|Z9
e=z%)Qr=quSanc+XR;d!2KHH#?#)@J1Nn1$TG}0YVNCPv1<kGApZA)~Z_n?vCz=%1R}|%!$w(<8$LvM
M*K7Z+W3>s#okmpNHz8%-SHxcG-t2X0Lbcl7Esef!?)CZX54eUhZe%s6DR%`;g8yb?&w7bvx!qP2<Ja
m5zggw*}&$8Hjy)`PT=!r6G#c?UAE-O}u!`g|5X-bO~9$cIZs*al778Po_CNwn6sN#~>?(R%-+XW`av
UqgP@BrRkMZ6oRjL7D0W}JnpX|il}#b#JhZa+=fXUvhGysk7`34D=a+quT9>c&e|?`9XA<7rUt#Ehna
P(ZFt{u54*3197WpD@t!+AyrbKb))h`|aVL@8l_tA6Be6RBIk~CRs|Xb>ODB(Kx!cSIR*Bp6j5WTR>W
|&_;fR9tYOV(QP;cd~eh$~P;jb5~&uPiO<-zpQa>!_}hh||qDBY!n7gI;C-%Y_z+qhoW9g1Z*OrY$7D
RBpfJ$bMDEA<oRA_m2Q<L~(cGK9k3J>5bQ%tAUYXAPdnYj(BsAm`d;bL1FLzIR6(9Y=%5M!go5!?Wn}
TCK4QjJ_b_K1ULBGaoe3cDctKh7Hrqc%K*frbo5t_VVH0SCoA^n!a%n*pXJl<0i<k<7pt77bMANt1o;
(=uVb)I`TA|>CuU`<GGPH*RwFQHeR&ppsE&9i+x!4BD+<Ita^~@#n_*qL?)QJplK{Tz=vdVsF%y$u6@
{`TjF-WlE~Xc`TT0mX_VD`n#75!rI~UHEQ@%ZCj+Wf1}jiLQ63wVK39cs>#aaWBixct@>RopV=G34es
`vJ`QYN)d>215*>0fY`_=nGyTtypGNy20Gf;DN8vj7zR=H;jIW9=y*3lOJw=yQM^H=*qU}vZL)+j=t$
Gyi=T-B`ND4{K`&8hX8y>nFsdPXdKAmdpl`si2y>6q4JGBYO!XL;t&&+P5{KZEc8TO8%<?wYIGEx(vH
IN{KALb2GfY>B)Mn7|#YtxL@TE*0>m%)?~ZTgR{*rdJ_U0_r|a^2ie#tEuK}wje)RIHe#xalhZlJky7
1#Kfw2!*NR_PCKRUu!^d7ag<gCqgS^Rw>(FNI-TcJXe0>%S%|S6U#=H4kN*6er7^wZthK*OWQ$`)PP3
6!8s~!aPb#c<8p#JqSMol3^$;Ds^E{M}S4zB}6!(=m8wY<(gaJ5FskILmb;%v=c(S9y!8I+mLr%8xlY
HvsL(Qjh^W3}!NZ$KbzhsG{Rs^Yxr{il7bD1Nwl-+5}wmdvkVupi-d<^CNH5OAA=dZ>mFWS_%mu&)3)
Nb5s8ztq`TYO-H#h6GmgBc9hv=w~X*RQ>hi&Cvf;YBjx4K7LcycJVJimdZ(nZhwY39r}k?d4Hi%LD&%
t7P(ux;^h!W0WB7(Y!97)00P%ATS22eLSv@UGhR<Q9Yh=3}VphVsVVRWl)DaU|;9EUhZc0<eJOU?^Vq
q@%lr&l^f+?J0(0eu(dz$?z;((=Sb{(NYBZpFf$o#uZ24km~~=3wNe&BekvlAyO}<$FAMK+pYa~9(Df
Y&AKCI<bcW8Ao|_Sh4Uy}f-R>e^BjLV{qP;q}=|VrBB5pb<{E~@1gG(W)U+dvy4YvUq*bU2DGly=Dj|
XIDG<Ppr{1v9l0+r6z)q&~r`5e;i2umfmsR<H~OYMI^*W6Px6t{m%*nW4^-znRVM|>u21O>wwjll$lA
QZtc1o>rRd;x>{E|C7ffO_k!1TTOtT@DJw2om)11QpmcsAfjK=4?#5YRwXWj4ekL1<(!2Qc&a!)Jh7#
)))+gcM=MuB;qjOhDZ)l)W7Cz%Q0jI!a2#>O>LoVAb7)o%nQ)gU~NvikTHw`>H0XiR+GVi!hv-9a;+d
Qfky^j14%^=2C>k`g;Os4E&n}d8$iki8NPEi)td%iM_fvW?_VavJD(K$A&?Aj!_|-FRnm7(2HJ2rpSm
HllM#JpQ4mOwNR_zBPM?_4N3j?CrbRcau-UA|UO#UeA?K$C0{?b2&<~{UtI_<1w?UsZ=cc`^l#GcRWr
n}XT4;TXp0)*TZgMM2d%Y%uSqY|RyTgTm#Bmcg21uIW@?{Vg(U9=l@ht2nfz*{&V4f!;(VKv-9I>A}V
#~U^GRP;-Es5yxBp;jbBvR=Oiag3rO{Lvz`+{;%xVy4QNXqVO%Pp%ODe;xRAs%NPKW`{Z^Rew>$Q!kP
f*qRlPK5+@DH}9`o<ugHcp=B%dQBl!Gx4RmKV6>0AyG0cZg$EXcTc!JS5$<Na7ErmrmLq+fk@WdQRrn
lG9LRFT0c8Hx>!G<XTRqQ)PEZC#b9FL*%aw(j`Ta4NIPnuyxdJ79gFw@6`CRH{fke%q@M)otl){jziz
N;_xLL~?Cq3ONRKbulsI15M0~nO@-Wx2OrG((YHp#7Rs;*Ku2n@JTdFp$!a+E4PvJh3n_dfg*1Kw~Qi
*8R!L8HYf{sW}ctl9Cd=~jpgNzGT-HAQByG0RCAe-9nUZU7<H+dlIQ|n$9DyLmvR4vS{aGMm4nP$I~#
+awoP3kC+;&FG!y7VR<x`~|7)m(3i`TT?tVN|w{BGQw-A1<9;%BigAFD7ze_uh1q<UU>5E1}wyo_7vA
ayYFjeVb)PW1zbO=1gjto08LA(s{h9waq?e6n?e@X2`W6S7au|H!&q4;<UwQOwODZB_=L3E#)jYemzV
QcHk{ivE1Ea+Qa)$++$hNsQQ3ikt6-V+aN&P{u|x~Nu*$og~L7SKDFqF)TMAX_BDBIs=x8Jul9xBcm4
<7Cj1j`gWkk{|L437VwJsI6>JBe;61MSBi{F1iLmzr!knU{m6P@y35ug34Jwjn$(3a$x&>UQ$~Sp%k3
AG>N_KWc<mz4Wfx9-5Mnww7NawJN%i9Cb?xHNbZdQ#43;TFgv;D*^w+WAeW*u*L2AcR=j7-dn8VKj&Y
TW%G^3inV@AB?;Xfjt}wmNnQm%E4%XLU?*NocWJ*|f@IJdmLcp*sv`Z}9-5LT)eQZSv5E)m=;Z*emD5
d468>%xKR-)8eJO<)-b^?6NCA4aiF;_SYCv?}hkup5|gvY$^9p&1gt5p(s)eT-=+UQ=99tL*P3p4O*I
<4M90wBO?y$QAz~)L_>+wEKeY_X~u9n73Z@bP(I>6JSsoeVI2u^vgcS5;f%d0%Xnzt&=5gV<t#N1Ja^
E;Vgw@b)xGWuh7ykW*>3%2E{uv90ujmiTR<O(UVdFEi-Mb{)+hUec09|8LRE9<<+cOm?Blwv?!tCw1_
9n}-23wxPMP%D?@V=;Jj+xcNxk8p5v(RdUf2icIZo1sBga0{#4ThQ{Xt|=#^AR~U&P$Sygs?8NG?04N
r87jZONx;5u;}9jQ!Ol;{GPtk`<G;Bx<4!bYzb$e7Dgu$u{EtrQ)W`5;o6V2h-xNCYcP)DSH~4w|S;Q
CDwGjp-OYkQcgZ-ss4f<vf;y3bdB+sz+}{wV@^qOr0xWJrFQ4}#)m91-}@8F6VE^9ZE|sWOO^eoJN#w
K*^ga8)A*l=+<$SJcV_per}#l70HqijMM;7{79z!v7>42)g3&OEV<bZ(%bUyZugKrRkkFMpy=lS0H1M
|pQnlu+<nT8}xNIrN|D<0xHo(?WN(2Fkw8+}YHl^2w?<k0k6>9+`0s|(NlYo*j>lGFj$oxugXL&m()?
-NE3q;VhI5PzVl*Cs_Is_yE(-|nQTt>bSzGb(P20D8M1IDpXQJ`3m0&0jbU_g1XD)Yb#t^92YP6=Xb?
MH0QmUk~C8Ib;Q^vMW)4d`$aFJI^DMqlOY{?Pr^L4)DFX5(8k_sQTtsMiJhyu;_(#NRaT`;gdyj5_;4
W5=vP*eiM&vrm{_lNeI<_gq~k8l`W!JdijdN*prp#VtT%=LuBp^zmJ&;Q0A{dl|taI%vdu6D;UgEfN1
TB?SUGDZ{M_itW}f6{NdG=DDDcy#K;V=3=X=tb_|WyLO`O+%^oljf2hHisKVo7|yt3AT~^Q)G;(uQXD
%SJsxAyw+1sjvFtQ6^)u-s9xY&@-anAED6db+4>>1E7>g_JQO!cJ8f21>suNX^xN_)kw$F4~p}7`M?T
kvmJ>H8Y!X2e%RO{eyQg2gZUj>93r)(5qh$<L4E4Ukbt&psJ9$GZ5UeiPzm@45GEOkb`?Ly&X_8EuKI
C6e$HZh$)a^y_a1QtSPF7yXcg+)UoHmTU{J1RVN2kCy@gfOWW?Z%CU4m*;O{CKom8X2hs7u->BdW_f@
D%4s`wCP{sV@`(gvAM&8ZF3zrneQnnusYhpFSO=Z{97OTUkLUCVxybO(-3FDY0K};R!ZIBaYN%yGYIt
`;!09KmajQ~%+8*PV(0268<#p=>4RuuvZ7q93#@cKCX6-$k$kaFHGX?`qO(&IJMWI)q=&EjM~qg`;>4
c)$)l-xQ(0XRBVO|8l4!o+m05aiAvX}7QhsodBh$NX&YSD==I>r-d0TCH$uvV_KKWhP!qjeBOcCA|F!
WvyZMchbDhbqv+(DP!06&#e^s1}4&6-!&)uv0n207to@r2RiSthGkNu=g7J+>{JMXc*;%_~Ft*r%l$@
|Q=fr#siOwQ=+0C%cXMYyWU4kMq@|Q=-W|9}Cx~_cgNHme*Hzl#$!X*(Q;>n=U@YdL&DWyQ;DCBF!+v
B^{|w?k=hCi|`p%rB&_KBa)E8`Oo7@k7F`EiVu+aE@kuf#{XJj2^5a}2tOZ59KvZhfhIcJZ@H%AUq2l
9zyFdhx4)7%u$qhfujjq^>(Vu^p8)g!!(qGw?$<;346h_ZpbWCWD1*Wn_#sFV1=4mHMN<@lGC0h@U&8
BxP+788Wv(6IvjPO4(gKJF0HFZ{M6QrENhGHinETqdf~<9rt5*dpfCnR6^<Zfnpd3zvuo}axy%sazt0
6Ps;s9Oee-#g-b1(q31p6&0pCM}pAQ+U>AUVKRj0A2MW>v~dQE*0PjhQiPSD^()$rKEJxoU~8aWWi4>
gaT>!}+ZWkEjB89Zw(dYKl}4yo7)%CXL~@mdV_2=`Ye*pzBYf1AmjTQJhP3$l=%>-{JLQ@X>o+NeO+?
6aBm5{)-cnL)?R&C}}O?hVXIVu#=4*<VQfu#%jUcV~#nE{tX@1z*@_^RQUswNzi#XKbVawGtY&@e?;h
@HAL6F5Azdzev)eaBruEpC@>q1kU5K=bP#}X`tR-u^z%*mxAz44`KJ8adjkD@Q~u<he9lUNej{Idzw8
C7k~+ULit|jM$M9fiqUalfJ3W)VbcaItcyWU>wq@_LoM~7|kG3BBuwtb*&u%-#+~Kb{L)lxQA-q#^cf
oKp*RO5ulx`jgggLUg)B5bFv360ROfE-5QlBdP5%`XE&pCotp6&KYmWai_I%I!Y7-cDEivgCEm-Y;iJ
0;3O-@G6aMcrmsZCUdfJade?(SC5(Z^Y?Ex>V0u$J3F)Z!a^qMt?dh4{U!#P9)@>x4VSRKzYn=dibFC
0-YVyY|6NfoOR|EYguDnrBQoseGI<wrE7GtST<<yz8GAC%&UW;%2V-0FW9$upOkmPb)$k$Lbia}2f3-
bW7ch=64?;l>!9Re{*jeZb1d}BtdhS~_=xh4DJ%{Z!iPO{qba=@;OTtquaCi$NhDW&;n#|^g`==8WjT
*w9?7uuAt5BBp*dX6jBc^>_JN+lQ3*<2seAMy&Uar)FR`K;{jQsy>JTEA#fYEv#$Ha8GwlpT8g`SJgO
i>e@tQ;&B?TwtP~ZoZP~F2TvyjZW?U32T@u84jb|RK>Bn$19%^3B>9-wKTg=FSM+0dyOHkZ<g4z3=>B
&Pzs6p!TDS0z%IX3So5kv<-ugHI@GK|XbaQoAh*ZLbqs6yaTzX{MeYM1C1WlQNF7>NRF1+@cpBKZ|Z-
"%text.

(** Lines 10365 to 10514. *)
Definition DATA_68 : text := "j4owo%WWSTaoJW>8NtI$w1spf^&(=5v1rrcHd*Os1=IULnW>pEwtJLErA^t3x5_VhZ5E#W#N{T=WR^R
exjjcgb&wdzztMCL7HC|<4{v%s*kAi+y4dZ%wR`{fUox?v`}^VF@%`h3Z^o}#JjToI{2kVRI^s|H#s8
nj`A$Ion=$_21;Aj8B5@ocDT1V7f@UZfA%PArzHFdK1V(V;%e0*=1v#k2D$WP`4;8><2O15<+B}e2<r
px)0Lq20WM5b9u2r!>gop<Dv`h*zY(aW#3CduQ0;mQOBp^Rn4&Gg^gX18vxA>J<Ad`UO7qg!#R<+!fB
!T{lFyJ5P+B%w9H4YbMRII|g<Qo5>8Q{@ac3Zetx$5jEYyJ+<o4^6(TF6TNdzu1+LLBP(-3wseobD7e
r2g2cL2b_Ro%&jJccCe-`U^<@sA63pxrv(v<JS1fJ79iFoY5h1ibGJ&@hw90Zfjfd!NF2YyBXePwAgR
zg0r}$ajvyDCvH6sdOPqN2|9tOO*~{L?wB8(%W{Ig00Qw!FfV93r0ql)zCYUU2L3#S(5I`fa!uKbomG
iLqIT+|*Wa!FpN)R#-RghKI`Thp8W#VV)BH?n!2SEXT;adCf#Ci@|IH2jmOS-8zk#1Vh5y+N1osd6d;
|Zy*&;t^%OkrxTo9;hS>yW5bql7lQXgr@c~QHKu-Vx<5sargR{cQR9;RDXO{V}pk^J@ApLcV;JrO}#O
wa><&f5#K;gIr9!TU6B)ga24N=Up28|rFARdpZO9tn55FmNU9>EG(<S(4lEc+S)ra`U4QEtJD$c6(Cc
950u(<S;1NKAAC2gHh~}yGZIaH#*2kd1Q8KLtp9a+-4C`+A_ph8~a(<EMdar!|Ar{?FR2Hsyc1%*l9B
_tK9rz29~)o2y*s}SaBxyh1qA>l|9t)Hqedl-3i|YoY<Y~&{R&s)K{Q`F$Les^HypS-0E`Av1zW$Hip
kDRI?|T`6(E?8G*NusTSesNq8jh2OrHAQ+2Eo`XALh-or)Ed%P&MBXu`MAkR->?NN+8uDk?j70z62NZ
A-Tkp|?@V$>gEv}p}~u?1#Ufw;=Q36;UimF?G?gC}2-dmRzCk>0S$!%<~^qGT5zH7BY++C8GvauWIpT
E#C9(wc#{)=%qLJf||#r7xmO!k;unl&u#hC65&^iWXRnh7Dp<?FJwNF#m&`m8Xf9@qp@kl)Fayj9oG9
{1^@;+8@p*%bG=~CplcaA}8S-jInX(8Z>&eY_mBmPs+?68@iIOJl8AO&=IAkCA@sDg#5foL!1^uDuRe
Aacu5HY>b5hGY{_i<U`fy%$W1>Dr<e}x)XQy-Ai#Q6->BcAJ6k?YDD-fkzCm9pipG0S4Z+mb?2`q|6r
wuwA>V8>|TS@4VAHm<fM!75RJLmCMSN^!WU(P^~pMP@+pcTytJKk;*qADJG=5<C{5;mfL|UxDZ$7v^a
n(;m7Vn%iRIHuDPs=QEIs8KK8SHZo6xaKGDo?gO)#SePgM=l@gK)(n@ID^K3^qEa)kq<T=f0!F6POF3
eD@EXP*?=^HzLQodRBzA2wWW{pGfjh@aC>{`|0y{F5IJ`Ke(J!%!5y&<_M9P>P~x8Y5APSjY&Dk|a%{
F!p6v#XJKNPz!P=6mUGCEAz<KG>?UgFgfrvp!v6sh&l2l3!&Gdo$M{7vDW-xtGracx-%FQydW6BaHt&
ck9?KmFU$WRzjBr=1R_J$ZaHg$OR}bvEJOsxfHosYl_7yJ70@+70kz37Ky6au+xS7s3JwyCkyY8a%s_
ymq(B6O$p1rOzl}vafwSbwf7cG#^VWf_!ahOxax2`l=@`Rb8B7AF{#HB0M}s;)Xw7#GDdv?esPhelei
Ghj%qGHuR~)?QCj6v83?Q5UQX$r=K&%pmx2*lEK8U~~K+?(;{?3WMtMXqw3HjRv1}N*eA#2|v9zQ9Tc
yYM)x%m*``bxbK`lWp1?s=|?Fqq2&DybCj(KjFOPC=+m9B!kr&D#en7H24awi`UMhNyXIa5<hsRGx88
bZlqL(}BmI+q&p+ne5NC+)XGmT*!VwL%gxzUVgY11Xo7RZkUG<W?8^w@-4fmOo>}JG-_Pd4S58upT|_
-#jWEEm4Ddl>Y<Y3v_#ceO)k(F(v#gz?!K*cdO9yO|Eb7Q!fJQV#td%27_u6BF}%pO<H9bj3~9G%_eF
f2&|Z;ih!PS%QF^S`l}<QqxZ=4(vP(K#+NVyl+Z0C5+h@0<9p24w%$gaJIq0z3c1Z(2E6#=J^I-ber0
{bh32oBzS{9m8$;Cs#;u~ZPjKaft{2~Rd^1R(Yawj^E=h~X}Kx;~nl_0W_ib<@xeEzt|iUw<Yto{us|
54H(`Z=k>u6L+3T*Pfj<Sup-wq<VE9Fo{1J(}!#f|BFmaW}L5WwDhZE&2?M<}2li`P%~ozdb-}OY6Z$
9Km*pI%~&e63c@G(3+Kb$eeuc4aV7DcOw>rhX>z|q0qZo^F;cq*~q(u^1TNJkui3K2`0nEpeaUd7jCr
C*LObWxKB4LOxw=fjBqvrZydMjXqPB!hn<eJEP1E&W(#45emLYt#_Tuhf@l2I4yKo0+_h)*e5liPiz(
StSIRb>Xf?2JgmgMRk*vS<WPh2?EhG@<C$9^`HthDTbJ6O;>blpUnYBY{x`}(5f9Tn$Rc`Uwuj4Y3%e
XUqDQAZ+e(ha|-@jBcA@y=2j*O6RwpsK-PiWyRR6ezE1$(IQ*3`H5KGqpImbu1l=~~@IuV_q&!GSRKp
*){5frPq!xe9PR2KX*Cl63UKjS(9c;yRg>YZC5JS7Q7=-j0{Sf_bVI|3%TvicaqhYW_76{^5Z?V&V6L
e$aHJK-(J<bd19gm_P^uM==yxOmccL#z}^v3Fb@v{sps298|Rcw823F;{uP1d5e(1x?bQBKurQFMnPT
7*Nt$n1V9|M=3p++1=NUPP=pGwiUeqczqM~mfs%2C15>?Rt7?#6Wn}_sWOyy0!NGouNxtCQ0)uG^qWu
e`qVRv1Vio0rK_&qxaRoZWYY*ZKB$)yrB|-3hnc4!aK#pU@;$)fK?<F0F6%4-z<`-M))LXTGx-=%k?N
xeTU;D2E^Sl2Z48OOTSx`;-hE?wOhBrU@?Lo}_3>&qIuQqOd27!5?%YQ~d3*oTlcK>!n(9c8qlM($Ju
lZoQRCJT4AhF|#aLmiHDC|*VJUZKYiiDE}o$P%-6n)_|hK5Nq5<Y9paW6bMOGo5&o;`z7O7?=4)rK_s
`l!UkP}61h@=hVm+!JUkDUZZR?eyx<nkhf+`ziEg<B9JHWZR#*1AKlqg+UmoYbjT!Jeyj#*Y$XNmWd$
AG^p-WNx2NUqlUcw;IxrLD%unex^}oR*8_LH?xpdXsS%4*9LI-6jEAO`^pD}vI9{hhN_!yA+we*Ude#
E{q9{rP!JjwFg*i3~6hUSw@)9Mqws6^-wegG!DMKcyjYnmB6m*wnzuWCk2M(*RzJ?sS!Ou4|5$HFKKU
S&OH=2$g^~K&i!H0cUW4-WUG{*1<Rq+MXa(zIHIobSj<$_~5ffdD(e*?h%zmwnJF(PMZTzNhTD2x;Ab
G{#yTRY#|vmw~;lEx2%zmL!^VY>?-$}0MyX$%1GnSFcW-W0dq#I|(ARF((nP0kn$*S*UNtFpPO&VuDP
aPG6eHVnC1u8wS(IE6nV7^+;Kz@mbDClaXXNWUy=NSc!;$-HyFc-cuLH&%2Z=}p3)0+=%?>!$7OK<HH
@Jon<^OdK}d!GaXHw&KC2Z9Z{Zc}%I3BMV$H``1I-$FeierI&89ju(1Mc4)Fkj+sO=#2z2cJ!7<xO2D
mv9Q&=9Z|)D?JQ3D*=QBcbaL^bY_8dO9>`)+h>Ie`2{*bgSf$@<!kg<}pX#|~2k=%K_I6qXPlGXHT<O
esMu0bGml7HQpc6mk)VPs<GQ8Mp+7tT_WO-hicBSTLaRMNW8a?{N_CM=2dc<hHKmb(rMUk+lyQJ>n5p
i{@*mD*mNwn@4hOUF`j6+1d1orQlc*>4$^VEscj+WQXdU;3#%J&OEi9smEy2|mRA|MB1-8^_@ovA`ro
;xvjg3sf@rVouToOfUb@7><)TL48@qKx7~mzJO%8mIP3%DnCI24>7r_J!BcsV^}Og8vYOUwU`u10uT6
tsSAdcYd;!h^=dCxUQU3%GjO)*D6b_A3&?>~w;bs9Q@_;r&w$iqP6D_t-#XTmK&^^l0HhbIWs4xdpAB
rq6y&f`s{^}Sd-EVPkhNHjqB8*5FagX?WDT_gm-g>fA{1Z|jUQzUws#SiyRS7kdtWFOj<Dyn+5alkUj
3}^538S4^p|(f`6~{AP@Y<OA!zV&Y%<JgvRbs?^M^!kG87+`?s3b!VnIv{u6oBe$A%fxgPr|ankr6x8
a8ko+LJc3%}1nMIh%XWXGHJy$0=|xLwIY!3Vlm~ds*JHaTdR)z^O9#6Z$H4Ev5$dHeH@GTnEz{XhB*~
_h5qlJBhql33Bi<9QG~1Y1@i8=3W#|ZHj4U!?}zy`>q)+2_B5>AxESE3|F4qJeHNES?)n+@cw(cU-9W
4{IeJR-^e+^BCnq?y*@hw2Kkwo2CN&wWV;=UWOwkM%7%KXbA{FVOv}x{pLPKs-yV1B5)@-DNz+^){Mk
pi?R5c6RKChN>{4Nv9DIp{5q=sSW1E;nz$e}~PKrGH1AFumC3@Bkt!QMeY1pfplIVJjX~-t-K}Z!(Q&
TpGthTb4B>T<4ZA#e=HqU!ep*o7GW74JpE+%zmP8YPKMOSSw>~`p(4VpjfqNS}Aexaet)2V#fhd9<*>
VQA2lXe;8rxXY$ORV?TgR2S6)gkXJvXkeld)PpNx9ODh<}LR^@6GGovY5c<Z7KE>&lKrLonSJ;i!pqm
c3db;9A+v+bcw|qEP5GXLESD;Z~DDuJ~S?6Yk7$DAA{Pq9$KM3oyWi=9ro(+y_yn=+4Ldwvq$)!3kW#
vEh&!{L73eT$O_u;Sn^mOFYgkT0FKwR{g64QsCoP*VYxnaj>!D&y8?Yq#9VfMrT-9S-}k4Y-9{;yXT$
?LJ(YtRL2hm-glH{XZ>wF0@bV~_pyVYtF1tV|q&p*!#u>95z0yUm%BPg(_m(WGSB~WPJ3Bxs&u}L~$y
_m{=`1atU3@d>iq#kN_bjaIvW?p8>3NjWi>5~H)2wjIq^}7ByR(sPA!o{s%UzY5steIAzTJy4havSTs
A$@v#q2yEVoTcHse66bYtCwf5Y{+GFXS$vD;0-kEpX3UZsFQ(rpl#A4Xqxa3ViNjW{<mOkd_xBnFG4?
<KP-68-mSl#QsJ&vmX<AzN|>(hR3Z|!Y#t!cGct=0hgZ54V_8(b04`Ej5fKVo=)Ors5!}SD5cPeDDqB
sYq8p)*!~w`_HW_kzuZgn1gLrcK~d>5{{DSW{r~9yhyOW2{r`~@zT^5Ip6myJN65wKWst=ZMj6l*cKN
qpK1C2DMw2vx;xx5v_|iSR#-JAvUQFN&29f9mHIaPvup+=Q%#fg7aIr=gK>bB)SPBOSyWnqz0oX36Rr
G1iGsjaP=?rqyGmv3U;;Z;G3=HR0mGTz=j}QQ=7gDg;#mjjYGZsiutuN?R2pgt=5H<p@d48+<(?S`jw
Vf?P0UIA)FP5TUWCXLSUgTgX0PlaFs!jlHi97iL@Bw|FQ(DWUXRJuavOWva1^?PTeEP~F{-^?6@Hz6@
0L~YaGkI}dicZLy8rB(=#}kHrHl7gBP14`nz`pX2*s3ZmYmpMH>rVC)ZZGyJ_Z~upa^?KpWUkrihp_N
sGOrf%M_8CU{XAmm-wyfb5kvoW$Y8|(!lV|?gF?E7jLE2q-*{>vP*1jN9#pX@FD^WfGn7$=s8iEaTVe
S)Y1O`A^114^RW+t<BiZsP(Xc!?9-J-{EBe7-HR0ftwyCKV+3oj`#gDR9HDorFq%Y|B*zdh0QS13EPq
XC(%A7i<`i9r?{v=6FPuZAPqQm9M?i&xiHBc*?y~~CheW2&Zvps}ihsRU<Jfm{xa0f5DvD-oJ8A?2E>
&&`cJMreD4d>4;a@RWv;;Nf?7Y~RXAkUK@P<!v*)(iI}a@{FY)j{@;$T;ni%ILDKJ@+Mo3k{7^Eaxg3
#^TU5BA)kGj<%9gafNZbPPgFbs`M@m6X_nZ*S$+6Gr!m2h`-!KLwyR~cau5;Cbj*eHO!0St6UfWOh)L
Xxb7Z&r{5&jNOI$=p6d|ztETIc`ptB9bVEFk4u}wnmTZSVTFy`k{KzPC&oJ};4U0d%5B{<}Ur8M?|Cn
nT{P11)UCSWqb{@J1Qr=4P@^~y9<rv;LV&~_CmC+DcI&pj`kYZt)wd<p}ay{sE%?2nhv}_`DRD%{RVd
MH$)%TM$bEmP514np{`BSa8&=Fy?Y5`7M*s%l2>JD8CMzM+GdB=KFb}a0vKbS;e?r{F$rdQu&wzBNsU
!_*#$ytH6-83oaeb(el!Ihb`u>GsJz}cZy^xLWS%KHwEd$B#t<5QEiddO~XJL@%waXMqlV}Qn8q0)_s
-BGT%UGWQA`}cHqB>0scvFDU}uly!;FUDD@Q+2bn!pZE+L&(c9wisJ6p<bSvWG88PGYPN!M4N4X?_(E
1j2E#`79=<+1#0YX8~S;U#Mc-ke6`%M*B?W2STxQ3o6GlGqSjl=_%CpD-TyBsxmB0HJ|AoOKfJ{y-T5
z*{RyuBU%%Kpl>e&>{Z_GY0mTLX5@JnFM*%i3Ms1n_dzUJKJD8-_Ru1S|TSk5f)c~7u5L{*QwIyr@u$
f%@&r-#^ZX*n`xj-L3e2wRVmJ<Ideg)Ob0m$kY0B!z~l?AK^EL)aQE&l))C_xK|<wd@>sl`#?UI!OmF
n;YeTaasld;wG)mkSd#s58r!YyUQqEB+)Y@Jq$U;}_Z7(5E=5vDmy#x-9Lg7$37XA5`h>?{{~x;f$mF
hH<*UnTI%>?$Cm1a&*wT^u_UuF?&-*f-}76Emj7Uk$Gg@F+)Dw$aWrT_arpd4nhzJu>KP$zQK65z_mE
9jr(RFeuHrpY=a?y>+8n)>pA{ziqP-o_`4}WznkOlrU?Cc0+#ShDVHgV-Ja*=!eSjxD>gSMoF?ylogU
o-<0qbw8rDEgi*X%n_GPV~y8N>6U$Pd_S5phUbTKd2Lw)I|ggq;SRr`=|-r~sVVf0)|P_Px%lvVf-=5
hAgy`>}A2{vnzD!i@0844?VkK=whp;!*D!!Z}KJEUBlVlUUYOVQ@j!Jp>y)DycB7w9LSA4WuX^>Dn=I
!$?Wss%@-DG!_~zA8i`h>KZ6Ggayles}O2Qjpukq~hSU)7`t+>b+a<+iKoDxkDHXksF||K5KFODd;C|
2P>^5B_-s>k9$5`cZV|Lib$fz$Yi;an6~z~okgPJZK81|c3?AB+T&aN4l6@=);3|Wb(?W&pby}$L>PE
Ij9=BT3FmjOH;~&N^(%Y7@C#+z$v=6$<wvh~Z%<s@N-vNz^_C`;&zYjt(YJ8$dsaL2W8;b+JOFLuoNc
r?9UDT~Vq6zLY<mND#x7YN`}^AoYKT+itD(wW^-l*}W$r|}-06!o0s50K%s+i!pg;M-{L}XZ`u!KCUA
3fs6)J~V{T$qV*I8(tx`Po6-=31<m6`KlN42)FE9EHmjWlR2^fruULikvt+>iS#E@Y%Ia%dY1+Fl8;0
PC5JNx_JDz?ve4(<4mZx`j=Ss=&F^<i7k3w=s)$2$m1GRpt6r&Sbxg0Cx`wVc^C6GCJJ-><D|CFqLd4
)bR3XA*S2ZSLJnjBrx7v=wq8DiL%`svMoj3=dgp$IM8AhS>if5(%tTiW==Ea+MJQX+P5&GRmT`9auLC
zD%uox5iNx@l}4wVgXSnQ&?#i{>rT1V_AMDFcusfw>%zQ~_Q2@-$aHo`Y^URqap`bdcL!hUeVrpOPf6
3X$Ez72REDRrJkS@1RgN@1g!#A$&41DP;+u0`<oW+TJn-*N@>7W5A5QR@bl?a<(I}14Bn8tX3EEQ8pz
s|<)}(ie!DyKIGSeMMIIb#`6b^_5wswyq3Xo$4dP1z(>kBtP3J?WAe<60X9*q}(EG(uyo&)p0SUWFbY
iB6}Ud!J}5Lu^-)itqt9DbQ&hO8O(3sa&J;EF(SP*KNFYm2HJR1Jb!y>iV|TMOsYwK5M}F9D4z7ABL@
U>xYmlaRGz)iS1q4}rs}-!T*Z1ei&+`EVjAa4}q4mCYp1_gJ}TQ7hin?2fCdg{{=q9t8d7w^a%HZz2S
5YDxct2m#3I`DnGMevc4HHf&U1RI`1-RI1Sc?S$W=1n-IH%SKPcKPRI9yz+iEMd){P{M{6x-_7xNQ-p
q=V_vg1S7qNmE|ml6!<B8bYGt0-1-TsTKIB=;OVNSK3)g|9hkJ|q4%s)V&fN))RW=9QzMS_Q%yAaZz!
z9+#<|K1kKACzZa4TsB;L`}6xGrd)}X9(b_{>CAA3?&WPF?Q^uPyA+6Q;tAiC2yqYH*#?i8ha+_PQl$
39~x#BmOiCE0=@E#1Y~)%MGB!7Vi>I<NQx`5ov}^7W68>S$hAfos@WWU0|ii|Y$3*#7mv>vBs4vc#Tu
o2$@5rCrO5<;uvr<2<<OE@EH#+_&Y7jC;e9H<F-S*_!nk&7j>Rn~R>49m=dr$4b3hK0vZiu>O|HRf|R
1I(4Q|CWyzJ(_1>%g-aMPt!w4cpRdlU%x^&!(%#s*vS6;A{CL+@e_DV4VYl}ccHQOkB8uV!0;4pAQ`D
E~xNrt+qC5xTPLPU}01>u~2IVyAn&`8bVaaNb5!rt*>g#|i3}T<lGPW$3>1qyw3Z1oxd0D+O1o%j))l
-_UDsGE?2gH6stM*^%!Z9HB3bgsjwIZ4P4_bf)kX+^Dk`yePKq({#8-egh27Ir}@}92hcEnp!ZUL%;K
q~+gSf-!=dhG{@p}#faSm1Acel$#%EJu<=&Hhpou8RC0bT%ON9Dg*4S@@MIj<KAzV9D^O_ue2Jn|WNo
EhMg)KLr|h;+Wfz=Q5rHJC<SNqwrq4G6tfJn4as2mcfqifknw(zE(OcPU_4a-_1-2*qOX7hLYTL3t?k
3G(V>&VoY74OR)ge+xT5*?ghHj8uP+~>hsG$)|}oEczi+czqgIe<!^KR-4vnU&GC0rgnl>2-%Sx(=lC
yzsrTd7fn{AX=7HtZM1}6mjGy);gTec<xS)v}%&2$08H(N>$ycG#=d`!renK47(z9)QOCGgv<UWt$?k
i?dXnIrw+RN9(2wvM`w!0tmO_BPqlOpUggAd&cbq+E(*9dnzcj}drW+HnDo1x5}r?9}GC!EjXP&#IKC
h6)*+y+Lr&&g>ZWl0{|EwN{`V_DRh8od+=Eu($W-;%?2W<+>%KvGDe(+sKbOG4{8UHWsPA=XySY4fOu
7hJg5BN9Zhca4QyA-i%1>srKRW?tUpi_^0c6x@k%*C#JSKVn4Jv4eZ2wy}eGI$X`Z*x)>+$kg!c7t0r
J(1+MwcP(5}uN;wWOU|MF!nGgoLL^u==H9P_NbcX9wQr7Er+&*whZL6;!4qY$7n$d;Tv15`$o2lw9&>
BXrK3m^_>+ChcQ0wb#R=;wEK@LRwp_318lo()Vf7C?n_txVLGQs*E+1QT-(!;RT(&&ZTAf!N3cKHqks
{*G?n*O{3&%Lk{;0h$8<q4i!1AXC=?uERNC?e1`mG~yycbL3PNebBkIi*7H^#ULDjQ>@C$A25Ii?b38
}a?ML*PRkTM-oL)3c`J%bufRWpDM`Stnu+;|W4X8IDM<$7Zo`wwKG0SC@Ta(rSmK&jlTAIe10)3gT~l
vehp4y^aYFy2%UPm-a~Hx8s~_=3d?Qd4ITH?BkGIO=YWI@fwE)%PgGOk0qKcH_=Tz$=OJwsWx^6imHd
BecT*;OziT3y4}eaoLYE=j`{s&5_EnX+XFR<qi!7@hy%e4jaG@67CbZEw^HnhQMB7VCAj6nu=>+jsr7
%k;$lO5tIBm>_eas*|KhFx^S^XYSPOSo=O!>j_)FV9yLbCS3|2=c&mx~8_5YdE{g5F1Py2p`<*#-1S0
^e+Ktezj%mSI97I(D;$TiCe$AAbHXe~qjC;!@PDGOjFWH>0Y0clbU*ca5;7Qi8jtwk*i4D5_D2hC_ei
ZHRt-v6qtZnBOFBt)$RzRX(HLaqi6wxTVC0;C6LPu7y(wFn0&@V^}euZ1&fytZ7XK&`s^tKMvx0!Hy$
nJ!?qw4WTRU&lGCpMr)vUl1F};6D`XGan8F4~9Qlsry(15`7*Z4(Pq``|^N`dM#cJzIvC;I6~h%D}Zf
-RN+T@2%euT4k<XjHGj7keEJ5dm?1=?xpvJ3r7>^ftv_r8kQ)6|CgV2jq<L)pUM8bRrnDLjs`RZ+Mlu
OtaioXEFo5Z&E>6C~<I`fYUEUl2s==EJXDufcLDtA(ji#S+jhrBQ^MQh@o-gWXzAB@E){+N(+EP-HYL
>9+^qw!0Ry_?@7T^2I&fj0_>H?b=INMwc#5&a520LK-#=Rz^D?*NOZSnSGZG*s$s?9mGDT|w{hkXg`o
A(M+d<ZTTwa3n_w$J0UUe}G%zK{UF78G1r(0u57>5_|&SU7V%`n=fgAym3S6|a1PkEdZXmcphLvjUrh
r;E$n-U#YAhvQ4(hj(JR2ON45Y@Md|&RxTHQK6lcOp-b3SYr-8$EjuULE!GwklBvq?G{Rb%)k01KJKn
(L4u6QX>wK|&N(@-a4p%AmkGFQC%hn?`!v&^KJO$q_JDYJTJ+kCAa|GC4((kF4@QJQ!CAW+(w4t&)6?
GD%r8gY8~%Lg;PVe%;(rKl3c-%?(P7UNJY?-&w=DDzdGyMIc;9{%-~45GlZ9pI7tzMcans#5BG(<VJs
00|)+I{%I9Yah_lAqnmnW*|9$O`Z9-)h!ZWb=n3v7^6dlD6k+|OrpBGvv0cRqLL7t>iTN?bf*{J~cC&
S*#nIqv)3En?_OAgAL#c1CyB)aelI^x~#D7UDc*nH}i1HeB_5M8fT{>FDNgu6E|F+dVKmkS4(uQb^Qp
>2Qb%4lCl_4owb^>*T@q-HgblxtC0}<)W$U!d7`*>XMZARTiF~5=Bhd-N51vWS@xLv22}FcoLWU*R;f
SgU_WD>>i;tEl*@(8yiti+eE0cc0(NsG4v2)7w;R3(HRR0bOcY;`Z^G!ry1IqB-&P>EBa>F+Fd)cm)E
U3sryI1*wTM&|5@t7dH)Jkx7Zc0_Y#veGAFZd^(pV~0gbFn|GJ&3<KwUQ2C&<=<E6{9%fEq6mtSu8zd
7*!-@MK{4F2XCpFxl&DTJmeilz_*!w`aj85pKvf*=?Kp;3&$X$<)?OK3q9fQZQ2b(I3emY^V$1cF%vz
IKX3fr*JCz}@zX4m1P<#JUm$Scsr>=B-%_u?kPppxx|(Zi`X8*sIIG6b3~$%PC=?I{vG=nN?jKU6Xo1
_AtK6f{{Ro0?1;liNQ1iqKOL}0@ZSAwPVS(bY^V|2V9o)+8h^KK@?l<Rq8+af||coGZ$#Epg-CV2cPX
BuW9St6kHO@QgL^ZSGK>BvN+X$*Af?nH-8MkBM!;61q}80aQ@^OyL;l<95SVOK}ncja-RLJu;7U&gJ<
8NH1^=e3q&7?MImYHd?4uZddNDnfnwpiT-9RsmG1`x%kS8KG{vWqmv3PS#dbkG=(i5`CP@GFL_p(bQ*
ho?G3SqMgy~5jCHUup9MJ0KdnWV36qJuEdY^KIC&OI`z*sC~AV!a{%75?hx-46x%D%OPU0}J{yMgIDE
+;RR=rfkzvzWna=9Qtr*>I~-d(TgrnD_k;(DI^j(O?1Z{GOuPG3DRr#qu||R^tA~qJ@5F_X=+ooBht1
4~&5Q=9)~LrflYDN9poL*l|1G3OsE={+AdyIaR;7$$^64`8;nbZ2NlL$lSXQr(1rN#2bR9LKI9Dd#{n
X(<p1%-)nufy`$&k*l}$7nEOYGLL-Bj!_L(oadUjK^6A1jCc^s6Il=G;dz|7OGt$m<D~D9b3HY30!&y
-0BkHBcHo8ktYYz{{6Sdb}WzlW^x@gI@iAuY^7ie@a%)CtujC;ZnxhqS;@Ql5D)R-aOzNX-$$rXf)v~
uT<;licT26nAej#Uy$b-U+gZ`qgWsOpi;Ihx+}9I-1mIO-W=&`j=YJod<gfp89U^oyL1%<;ldXeg7@c
y}V7XCBql1+os`ELubyz4`B@t<az7h2Iy`?^Y-DUFjT5v)ji}-l(b8AA5U*K9{8aQAMiwJZ{IQlHT^j
"%text.

(** Lines 10515 to 10664. *)
Definition DATA_69 : text := "=vx!y?v2aH!Oxf7aGTy{m7ROO!p**(;e}Em!;rqt%%HZ0akgJaRNY{9tSmS?q}<&v&nQ$r2E-Fo()O9
up|=<Qg`yMJ=D86lQ~kIK<mjXG3}?iv=W?3G6bIi76%t8jUYw3JH0&Sdo#!4l^{5P`?+j#?+FZePuW_
^O)429ob5Qh{=g6B^&voU=B}=B%xX1gGbV#718Q3h9o{l@KHLn-Ps+6NF4xuBT=6%_Cx$4eNFUd{CW7
RS|yfAG1@jMZ))1Hmv6C~9*i%+k{yok}|Jh}OubuK8?E_bO8Z#e4H{w9w$a^g0TPleeN-INEzk0=u!@
VM5XtxlDE1^>At*EnUj%e~0{D*m@SpQ`TiN$c|CJ^hid#^uL8{LcwN|HWzEVfdG)_`x|$p$Li+3=S$*
X&5DN3`A%VhCt{Ah;af#7u^54t2?{`6bXV>*{b546CmM-Ua<?bZ9_rU4N(BBE50to0Z6&_gkQj$LO|&
bQ-HIADw+~lmRJVR9q4JU)iujmLEww|5Bw`z6<dRA%khiR3lyN%y3+&(F|{IHMWb*KdPCPva4GViWbI
_P7_*D5nydl11&2Y<4FT3JpadC!Wn!IL{@bqZ%5^cBxc)=N!C{RTPEd@sb8gJ#F}1xj-i7JQX!!_bKO
wLy`IGp~Uj}@syr>}yn2hma41N}J7DvQfOwt#WVvF_n;*4CjpN3<PV)gD=eKdMtl0ZZ$eF4Dyj?64T=
CG-=mYJbAG^*G|yrONow530?W!@3i^jP>UhgZeF0qkVX-?u?vqoJrj`HGK$;fQZRoVAwb$mgMR%s`!u
@S|!r^ga|Y5>Ig!OHlL;PJKsU{qyL6$-Q7<^&UNweWZsXOdCLXqbmCkAL|#WCWc?BOMaEx1AR*FdAwL
5s1Ac^v79oSPjPgmURPXO;FZ|N%g6p~iaxoyZB#zpD<>0C(I@n@ww{>3IO0xI&1DYL=^*DAdDJ&tdA>
y*f+dOK8#MXo?)nBNXteKK{K?NR9gl;<2GWiDQ2Ix5e>f1=E89IWkW;ceIvvq2CZ&0~=H@cOZFPM~(^
K4^#UgIle#&~|`btt38tN(Z6wB4N((O?mn61D{k*3Qe5pUR7;geJ>l*7Yw(mJ!9t#-ncFyOrUggE$~q
F^YhA1RaU??|k{cxR8)sHAxA-rD$nO|~bdKfYuY)=En3iuSVXt1LKS1ls-@Zt814K_ohpjB`6D145NS
z*5NZNj$n>;N9C;Y_RXSJvIj7Eym1spE_EAj<Zf`Nau0Keiu?QSXoxqoE~llr7>9x%3=IR_U&WV+asc
*Or2rN$Ee$%58TP>_e5SS$Fk@0AkE(%r04Q+4DU`6P%@JX>>m2kj9$o9Hhyc)vAj+|m?(^vhe|qe)%Z
>NLcYlC+B6qDZITV#Nj!g-0n_G|bwN5#AJskiGM2whVfi-u$YofmoLYSnlB!hj`1;E7bc*ak33!&xS?
<WnIJ>F1nYCc>H_BQfn^qhFfgMPjd$Eem#x{3nWf=S>S?kPZqtLT*_4fDMelz&}wqL}iBiBK!EV3~x9
NFa-;x>0-WtuH2wgTH#cDXCc1?;#Skb(E_;6e+tg4w;Xz7PF!hh>P_$o1fg{<w@_Ibl>S7m`P|u;2a$
Q(LEytvmQ^RxJlCbIn;Wg8R3jj^IiS_?>_gC@PqH&k7f?{Q`k2E@v9S27P1)R>|0W<S>@UmlLoLFtuV
maRv??!1jdY5SFLG$P$Q^3^uIT!B7?Ty;`fv*s)6C<>y*eX|epczkI-;ub!|}O}M(9&e35#;0~7czdZ
-AY3)BRX_}{wpVq&|sNZY@uzgwD?jGVZKfN#5?zD%%Sw5d+U06?(vG>0NiY^+=0yx{~$GmknKEwm`UR
>tM&9Y=aPDw}{v+n%0{;Mj7Z}&-D@CP5O=*dB%+&tr!VSoJAh39<c7URhn)o*e?0@trl_6^BCPzxF<;
}aTv0*!GrKjwV5W>q|TVf`bh08D}2LB&O5cmWmXTd_UJ*--5+SUw4^$uRrx$fe5nZ-FR7tP*>y5_x$f
ipo9sVHA0(;Xg%q5HVX52JbOrmqT*S1@85ek*Pv~_v@=lHS2#!9)9|?RB?i19-kzEb)k2Qn@2xE8?Xt
#S)XslWb@?>TwvdY-VDjbc07vgtk>ND<GnnfCrnNng&+3|+4#XinMh8{o%nb(?~{vrE<}4dd$t%0+h@
PFL`=i$<hTx9YIjgrW2;(pkScIp<##APmDcFptE=;(oW>cc=4M=!@|uWtM{d;~I}|-q4mGmN#7PTrej
|y?{Z{Omo$OX=AnMUIn(3$5M%u~bwVaSGUL2LHNEqzv(nt4#dI)C}M#u`)y1BCMN)X`sl&2|k3bqMEl
NH|0zRVl=sYxjlDPNnAA&7*T$ZHt1!%b|$X8R}~*4=3lgAsPhgJ(rtp76U;I?&ON_5QfS^5VFA1@Rpr
cDJq!G|SZX{>BW>oRYR$D!Zk+VKh3$_l1h_!Ri0z?oE~*RkN(YIZtut`ZGn}#Ec#!0is7(Oz1=pl8}V
pS$?audVn&kv@)wv&LZ-?ijU*Rn{$ufCL*(btGagGP0pd!0ruK^uf105I;Vu9w~%(!G<~Mru`Jny61h
8pL``9GHd$Mp-CPfMF3l6+IFy|58jraS6Dfaxg(~m<3BDho*X3QbBn(1Pwo`vEhmUN&&sX`%)%)_}AI
1P^FtQJ$427dGgOMn*j@bVyIf&Ll_lN|u?trn60@XBN&_aOr6R3ZYp!Y<qxcmIM-wc@c%YbA(i2-?9n
gn2-TwS1nSUvp37m#@KoW{W@!m=|4FzSAi9Ap^CSAeQq40fHanFUURoL~X|OWu&ISqrG*QJ`iArVepH
)5BNEdmLUVBxlfqLsp~d<+{!Ukfn{lWa96Z=Rk76eoGE^?2$_FQ9Mp=wf)o}S};EvM2EI!sX(u41^xo
tEKf&s&wK`s0`0qGLDTs6L35NSKwk>_(wG7>@`&bWqwcL-kB`en{X<{MYSfolu_pA+LFQenk9>rPG3%
1d-`;8LxV*;SqQ~-n|25KveuGA@Mn`3b+@o1n+%_+$;eMd5fg!e(B`K#&F3((uLng1(ryUVZ^09awWW
RpWr`WG6+`g9#gOz%@u{f$x=aCw+_%sl+bx7EJ0pXJ(zq$#^&E#n8*bsgxo8sn7u!m>LCDwC!HjG(z?
$3P=?^{po(54+;w@J19vNA5jq<Zcv9-)~#4<53;^!fF~r&JXXuO}u}RbdXEe~rkFe5v@@PR!Pvum*>p
#S0JIT|DP_S;43YAs9T#2kmf>uiL7kUGY@sLYKIA2X%S%jO{GS8(Nm7Wcs@2y~n=7Pp4PX9A`pQxfq3
ZL*CqSZ+|z^>TonPsnIvVaj@jP;;eRmR&Uj7?2!w0>`9-E&);NB#|5s`f2=emKd_DIwC0_+!e_2b?%k
7^rYA5?9HEf?Vr3`6qmQ${v9eqkdlUWsHvYzs`Uh^~Jg?d9eXbT{z1`WzpUKaQGVk-Uy(9}85!_sBXN
+CYt^NZ)>iaqP!ql?5Q&97|EqYYW$nB98w)+OruO4xaHj!{*&Mkg+)Y}s_=>m#9vT@s^AwH|;{(gCqG
muI<DAPP_)b<&jY+{QjDuX#fq13MhP>)AsxgGPFqgts;pmP!t0^ex8W0WMCkm1R3n#bXu*4|iA?hSj^
6;d~kBWEM83ymm^V2&r|nusQU8XgZw@eA%kUIJ1wt{kJv%-vlO#KU4ScZiieati(BtRIAsoe>OibnFq
Iki1qK^w^9xIYM{XY)3w3Z-_f~)zj0<KID#8qCB_9!{NMzkEmjDiYM9zWovA4jm-XVhP};!Gxl3^g#1
aN#c;tswerjeG)T{zph<Y&=eO4f90!k$6CVCBwPOiLEdPrY{q6sl-?-t)-~RVDx<$X(|H}R=U~2S9nW
a(s3m>)FEoy#Avu_;or2O0e)%_xrd3j%c@-M&M!H3ZI-+QF@2)Z8SuP+|^>x&iMkM-r>$kz>i&~~R8m
<H}M6o$|!36l(gQv^!m7=;0K91Q-HH^N|mw~1wdUjbMh7+_e!DX6KTFc4(}{B>%zkBOJ4{AsvN;?*2@
^;e5wz&9sWCP~bI=!>ABMt5FiRF?pnF)M)`1`DyD*}Fw=u5KAP6EGwgtxQe~XyK$NkZ4a}@Hf!TiNLO
x-BBxzWWfqB_7|D}#MBG{ow(&}G74PO@&U(ye;x6=GxG}s<#|s0Ix~OdFv6~}XD(%WK+CN*ZAR_Wu&W
F&=*KibKWc6=TIQGcl|VQ#s$W9iD#9fnIr&JFw9=r;ORW6C8_m}*Bc(r75xl?}7&NX9UoGB_LhmC*(u
%n|5!{lKRLk4$J(5O{>4J<$5pF^M&I7MTQUX%qg(_(e)5gD(p<Cj3#lm`}5^oH5c7$|+oxnui@`K5*I
O=29%b6ub6W=6i_<Y>BC{soLl9TvA6i>PXS#{8VTHe+_jQ><oV$5;LiA!E_N#*6bdHB;agqBnM!r6R#
nai~#sM4+&NrZg=qE56?0PDMx%{hl!e0=XX41H!f{JrDw6@Bb_<fz%arf%rt(G5@P;g+je3)3~1$<Q_
H?uSByE$Uz<`n)^pygogMgG4^f<=VO>7d~9~2bu_i*wij%d1A~i7nxl%oC<C}KxZMt&e`moF)bYA>x8
Q1{@{A>^_a~MO>ofxF3Z5u{lX=ZR{=XzaBHJ8r}QN}UJMgD5$E|rCialmB{v_#I)ROjqYYI%KOVE8SM
<U5_vv}-yBOYAJgRQw)T4+)lquSFheP_bIXpR3*5~%s91o|bcun$G5pmCXMs%C3ICr-@3&g#L#dDF^8
hQ_G@pVL}Q%2I02@&{{h?LhTklGa%dK{ax0B@dIE-Oy1msSq%B8Rni5hv0&iRp7u(N5yQ5WM~>u$vfK
qHs&AaeRflpg|F}+}6S<?Yj1Lz{aQgXl0K_(<s81{9ZGsd%<`C+w~)<p4tsgS5Vp53UQ!m>hTm(w>T?
R^UVF-l2l@%gqY!d&h$>mtm$|<AlapgabqyF!+d1OXtNP3=yVp;-7uijUYVEQblsEt0`rU+d-9Q1Y=k
<fmq(^PyTsk;3(q++Xga)D%2v>wu$}J^yA7zFZy`dFgu;ntr8Xt9TA&YJt)QVmw$~+{QTaX5j7Z<6n&
>}X8<neB9(k&*B0)ECXbG=3^UI^ou>ocXa#!1YP~B4gg~kGGv^DZ{^D1$KCVGkd1&Nb+Y>zgxe_qc!=
<;H-4Z)bvS^FxROH@3E&p&tO`<~qcedf#uo1ICfXCn(NcjNTqu(j@oC2x??e9WV@z@MtD&9$Jx-#E*&
oS#HcyaXNp(qV5OT!hbGm2<HaODCdwd+hb~35CFXB#_Px6|OqWT=c`n6=%rxOIs2H@J^^ewI~d<Je1u
$M3=|gCt!&3rFnfxt_oXj{(Y?}l<7P{-8@meCX~I$vJM!|e5A^*NJ_3*UO2;Y2At@M+T$nM2@96vlIG
y!Rw(IJE1uaYKf2i5UZnOi;1?2l#ln_X#-Yc=M78v;4_(_7d?Cjf7@hTm78{iBB^z@)x2@EfA|Bm@1x
+?Q0`bBn(4%`wEwiBv`>1Y-%HV6bWZhgj_cs=?Ild8{=M&4y(oa<xW(6*ica+AI_zX8`8*QQ8Eu+*M@
!ZZ$kRC4NWXj$cdKS4KhRs2iRioZcvlqj~`LchKg7`{VsxQjWdwK>cT%c^8@G14SdagFtw&FF*$22*(
onMHW#mdphc6`po4ijqCR-A&#>#<lFOH{n+aF3%<KDSoQ2`Zh`$hq3!Fs{g|Y)1D+;MK^&F`a!HsO_X
j-mj0!b2B!PF7iGtoa`~uVW`^a8#5)aax=+jsveIMX3ZkMTyv-@B|mq(9wuZXCe&DGA?NGVQQik+C2Y
lukue)6;PWXF`~kgHYU;;y3y*|_<8e&fb+$1}ZNn6g3w|jK#;})^a0xTl2_w#1%Wu1SCqO<LMrEJt%q
t>}h}7)S@LDn=?p_Z|OjgM4u20e(xggzvcTh)W{K~N>Y<m%steiJn$T|>(b(O`VnRkvV<|$sQWSg=<J
F2cn!+t;ck%k2f-tmgAP3)erCq~cxsV6OrxIvm=6sNM;+PAJaWQnVexFIj^-|Rek-ttP=^4{x&xwFD+
w;M8tl$&BF7N>+4Wsmx+hPYElXUq3=;6vg1XT+i${*AB9FQF~FeQ^^)L2p=97xen!$8sAhph^7Gtv(>
*|N6bZqv7A$^AB3eI09fW3UDw^U^GcmG>R;r7c|VEIR2?DWRd~i6o!GeF2R7$po5!%8KZ2SXaZh`F!+
FGKO6X5kS76y=5>|=>h&34d&CK#N|UQOBOr#YGo-|-bb+H_2|_H#`B}k<1PB_4J(7T7O|Re@rU1rWpe
?=1AtU5pD0r1<K7$`Em^fO6C$e?yb6I$%fD|Nwf%U1kmNxbm2Kh^j|Lzpi6||>_{W}6S4sFk}Cd(^KY
OD5W1;X%YCp!J;%43P{OA*-Uy+kb{mhetXUXb4d$R(;`dOy|q*N!X%O4YLW*^2sb3iMeO)U}2Cjr6QJ
iu7%L=qDTGw)<603e0g%nq$s}V9swc6z&%_DHVaf$Vs6ekni$UiHXMb?+pUS6SXg-a7zf6Km}$zEfgs
sTlkT}_SuRi`YIAk%e8XtOf>I|bM~br(C=<wb36MtXxPvvb_Q%gJPcaX>4G`;J5{xYc}`9A@Yra&gg&
aGm$ugacDUAPb%yR*<(r#MOuc5iHN<oyNTd3Cs9l*6*%l_@p}mln`K%AP;11GmKF18f7A=ot`@Y`i&_
nmOkvEyzZ6659Wsixc4cquTce4ch1(Ut<)MxPdD4s3tF>@og^BbmWwQXQ<{DQxrpi(pST9=ml7{d}D=
N;2*&+{RVx)&}yo;@C0Wp)#-pfQ7px~PF|JEwb?_Zt`AG<%57(%ry072_WcNU&!Vs<S&%(67gyoAg@8
m>X>o=sZcz*>-O)HR?99NIh)b3?CbYfe2%tPRIj|pWABoZe6OX(xYb^LwnXyxTFG69~DRU9hWT+kqL^
E<GUa;^yhsKo$88MTE16euQo8Kc5eq7-;p9Rs@Iw4DD#VTfvPmx5;T`T=U!Ek<xf~t-jDs^&YB?bK%B
lj4~N!j-mDE6R4W<ygfP`=JcZCxfa*m6H@o*HV~4&q8KL*K<eTKPReiY|9}7TxnlR2RcPeNYzL{(+xm
nx+MO1gvzC3&oXdG&93pnt3c?t(-MqG1RmVJ1{!Oy`1Wb?11=O7bkJV7hkQ?$VnHRi)vtjm@&`Lz4^R
oU{b`^c2b=`_dr=c<;Kem<Wcc${<moNt3z%q};ZENw{EJB*t<<Z!^{G`RHc%T37ob`PFoH55h;kKLAe
o*oe_y|M%=<1_m3{fDH)g`r+<OGaEZ51VjW?>ru4{Em&D=7fD0?)B(E!`}WxotbRB7eQRypTjZnvCgJ
Wansl6Cg?00iXO0UaLm?MrAU4ZQ^}(fJvUgsXR>=MA^UWwoKv-T`RY)l2S?oR!uW1D9?Ow^9eGfZ`^n
X6PlO{)0xOgu)37*i&KXJ%4{y4KAw1la_^O8;(opqrXUs}kihURn0m)`6l)4wc*Hy{5I&Bs1)x!ec@I
;YM>79EeS<H-h<hlWW@}Eh_CqX4$F|;%LIXu_Te;TJ?{}7VE{vb~Ir}qAvI0gGPPC*EmBv6b%5FDW>1
Snfl6pErSfx$2eQ_QDU(F6(n7oup@h+Zd?m*9RT0lf^!I*_13N3K#>%bN7(@|Me{fC;x+M=Tg;fe*km
5ntV&S93%fUp*b+Rhc3Jz=4cF)9d^*4@Lk*;B~WgVvI@tlC2t+=qgvq#Gow(6RUa!4Jv=<XvIb}nCZ$
8aCig*SFu1Bm<HXmwJr$g>&r<jSMg_oid`owP$42NMJk$gWBPw7P|^M@P|<z{RA9|<vH!(DW%{!~W%@
^e%E8GWh)fwvyy7%Z%dD{~D$zW_y0@FRvXx}@F&lS+)n}@<^C9Jq$NHFzYRNolGk#r3%%Ar6qMsPyb>
OGNc@~<sp_WX$o;8+O(sBNzb(-#15472s&;oFDMMPp>>~2CX9m8Wk9M$H8^7I40aXo3PRC?-si@P**@
d$PW+{e+}KfOBLPYwzpy(xr!Ub9M()93QG&G%EZ9m>rdw9;L^FIl`z9D5{sxZ%UYV&jEJ8|Ju`EK^0<
<_bM(Kb4dwKSvB(=IJ~Th7V&VTsb|qPl<#&29HCf@Txv-XqVZl$RYGMyBZCrD>s%1WW|^T3kr8d?DI7
}2&a}6=y)LP%Wi)(uSA#l`L;^_OM!~pKd19RA5Sc!2T;IfHO$-HcvM+L`0oQM^M5l?nf|{3RP<J;lVc
*Q;xSZT7oL8W)o^QcsJuDzc)565FpCD7MR%Rih5qW;MYiA$Y+q)|(J074Im?N5vkgCpO7rA4I>|cl(W
4>f9$cHp?vV^KwSN*r{4A|jjOod`2ma=!%GIzPB>8k?&(T4uIkdlvq#?oEDD5%NCZQaThe?c(&3+S%!
mv}+t&v<#jE02ca~ChaRgY13SD|~|6635$$yKx1Elin>dO<fi2QkDwtMo`OYCPQB#^gD;#pRS`8IPmr
*t~j7g*WoNyimI-XrcyY(9`DbwA|Af?<H43_NKo)qbna46qQHUPA6eUHX?h(6;7ibs&Z92{AM$nKN_x
sJU2w>=Z1<(jFJ$4#^m}#z<0ayncaprW2irlCBEP6x3S89%>jM_SAN|2_jrYb5g5g39EEWdp&1w>P=+
88hM;i@!zq;f46fh=i0{!lPnQrt2nJhA8Te`dbzYs8iIqVEsQ;f^Mgte;Rn;m=!8F^ldYrBDT<I#dxe
Ci9tGN`D0;fj&3{<x;<}YXLXLXerXm2MlXdKe3epZYCh7M4EK>*K)A;7o*i2)W5y7nrU{VotCS(}kW2
6~MEUq#^m1?OZaI4yFu#m;_zA{_&PaQHfrZYYtu!WHU}=DAYp_x$uJT*-bVr1dA@%1&U*Z*b+a6(#Qx
1!0qPI%wO07~g8V`5xob_Ye<#ALBirxB%bS1eJz2WvcHW%d9St#YJ@C-Q4O8vOoZ{e1R;)KLS~x^_44
#wZ?yC_Q#*C`0?yC`!w#p%-IRz3%t`m1_I8D+XfAT-TcKFEB_3({Dxhmg{ed+-UtEKqQqqQNa>Cmj+#
t{4Gc#L^8MA>7PQ-ixRSSdOI$s>z9FY><geOw*dV=_R$Ufs6=I;aGm8`+e7$1$XqND~bkR~(Srv1jGa
sf)ZblH(3pb*?O-8Z|Z0}OIj3-=f&)2OHaW7%87vriA?-@q@TnM*$?yegz%pOo>sYgjTmaZZQ_9=0ml
9C}rZu<|K%xA;qI{#32qa7*tG0HbcONE#Z7h#t<PydR|&=^uK0(-{PoM1H`HxhDxrsGRxUF|aH@V05G
wuyRe<au=K;OLH+t3YFnJRQRaA)C-So7-kIvzi`DJI#XPc5?XYC8$`sq4l|)ZS!p4Myv~0K{wv}UV5c
1cZxECUn8Iqarr3qtXp3#<gmB1XD^8)*3sqQdzWl5(?I*F_cHV=v9Qwzm*d^OPVK4gZX{<JcVesFq$U
b(qT<cJF%!@B@Pn6;EXK1fA7K3MW)QCH<+P>k{m7ZGqw!$n2@Md4N}^!5#T&Xgx535Nj;)nT-er4OV*
M+Y@~!J4^Om2UV;oY*bu*x9ao4k(9=x36_0&OhB;L`YuexMTDPg>KWdaB0me;$Mp4>}$$dKD|AkM@l^
g7(`r&z@D!rjSz?`wKBKvNnjNmm?1@#IzwZQM4qav%p2q2gEknB-wN^g_6svHbxS=Ii!kYi1d~R8uBK
_HcBdN0o{`Cy{J>RcRrCX|B86^yOjNhL=jVU88HIea!m%apI3-l)SdExhL@B;Sgo`%ilt%b4nhi8@Ux
6QM{@t24D9THj+Yj%oC2HJop^bfyp!3=?{lxA$#11q{x18vL>th_Ui~73J9wof5^&f$ov=ZZ#zrANV>
cQ#Sh{5zjVj%Vfg1e{gL1Esaoag4uMB&RsSu6UZW~tr&2(5`V0esHe^+?gz3*~0tBGPf=ywNz9XyoF|
o$OWlu|BTz0dB#3cq|Fo?W#0w&`y>M!y6XA*2A*b5SYrbr3{VM~Tu6|`4xW+n!Ej8=0<G6IDHYMr2q8
4yDkY>-fZAqzAs;dR1q9k!=dmt_j@hJH85cJuO9?z6A5FS}0%*SXhc0SNj&0$H+$q>5fevYUIdH-!HE
8QUCZ&Eok>E(8LQ@9~Hm`mY8kzI+p1c@He#({o;0^pl<1?-YAT71TA58csdxGfS*8Yt9z|%J*ff0Ohi
*`t@Z%9|P&1y^K}4=AXF?XvG79`nw}@-#JU(cv3@fb+||e(S?eLrbWXf;@L~>E0vP1tT%24$EaP&E!S
T54XgG}i0p$V+i6C`%J+whB*s8FkA1;IroKJ))Rp)Bt1Xjb(%yS@Ke^q;uPbY-<mB`s+pX)ccW$FAGv
8Gs>qk!n&1Xcb#v62#ga{dqSxz|nD?5c+j;pp5#?kW`;a+iK-R7LsA}yIGu4>Tx^;SA}4b4dM+(#v1L
%KeY6tW<V^cK^zLQtK2S~5dda!qX$-aRV9&hnD%_jt6#F2dnXbm-_o<|}Osw|xSc*QbO;=VQcfe8P~5
cFCKkokSyGHu)l%#YRr~M|5u(HGNeVW}@bZogJ@g29EK21-ic?G_Eh(cOvgcLCqy>y+*8#AI~L$eVy|
%=<gCb?uY4-YV)^2Hjx)t83a%^7p0$Q$9$Tp0<6R~vK8K(rY5HDCT@vn#0STtb8&a%;FRWa96eLyscm
y=<LBM$foK{-5hNSmh6{AxExD?5cgeX9EDVpT{7Eab6l$hD&Bb{>Xlbc8L8;!$ofq3Ddw;1n_fw+Z3o
(-}5v0zSpxJt)CT<=bdeQ9ZVf5^=IzIRdqVFj9X7qTc(zlS>=2BO;un#lUW1O8jY=uJuk)>4BhWS!YI
6Rz_r|w=QQNML%l@!mWsqo`oDh0_wB-1Sdj$n9PPNx((yf%3G>^9IVzMb@kEl@_<+$pB=pSpa*Wmjh`
uF_8xQcy?6&tpqAO8>TGt6p0W0V}m5UU@|8LVSyohOhO-<uJ>tbJ{S<k@LdZ8~;SA%J;2Z=G`xE77pp
#K=_x1AE!Hhd)2Q~9=}@chxu@FNel@B#%Ka$ixiF{2!+86jo>)L0Ov*;$LUWC-AjhJ1T}Q^0j5{YVjK
gJ0?t+j=NhFl3VdEtx%Bh-@G}E~%(4YASByXx9mQ8U(KFB{U83Uhe-wkEjwMe8opuV;y@9-Q^pl{r#4
^yiUne~9)%yvs0&ozLXc9!IB|QX^&p;#;jIaPXR06m}EPuzV#WB4aH7-X*)&cV6oR$z9(O_@s@9K&QR
}j=L#&`4KNpFqq{E%N##bM;`=%UV}{(L_CD11{RVc*n9?k?JNamhJfEY9mSOZri3Q;1Q-S%>I8#F(8U
d>QK&*jcO0B|d4GR=ry(F3X(L3ygg0P8eyz_=3LazG$oNOYG^F5XJL%`T6iI?ffc;4760fp5@0{z3q;
FBD5@dmtUMAB{aQ}G*!>Ws$NP-YSX~`+k-eu=}s=B%$Zt65Gy}=WJg3Hg59B(%M6TtTnC)#3n*8#f`2
eXE01UXxG7u(n_BL<^JIE+v8zEf&7&0$$}v*dO?f>jE-u&GCsGQJTR;y!^xVXAS6>y%>aOF35s0JAT>
{#4X3DbL{oQ>%5BZi>!pOG|esuAvB4RicRzqnoVUG;bo`k;>+R0NbfmsqJ^zh<pZF$+WRYab4=GD3PG
v%f1WyvI#0EW7Hig~CKKd#h3H#dmM4VMpuOe!RDzbViPuFY1-h!Zj$G$KWq{GkokdyI8vzH_z}{Zfbm
EoD7W1m!f|A#&qJH<p=^(=IgC?<|(0WCSCQ!rO$0^PN$l_&)l2bXW?~gf`d7CAF>euNB~Mx%;9(T^$v
Y^{ynUcp@$_zq&6xzupIp-axC(fNu%r2g`+Tb!u7u;`f!Rqj}P}h?O+yKm|O?%mfXw!oXH^vJq<ktTf
p0p{UK-8)Upclg*iBDOTMo$DEM57qMhmzoHg@tH(;i_E8tQdBp~|s|?gExhul?3?Dt|<WW5>>}uX5g$
qUM0+k0uuue)9mfBYALtV~HX)sRM*kch_RyzT2YnN=0BgOk0@~&w}KxBL<$FBixk9QtQ2bq7IsB8lV#
OZY}jk%VmE+wzRxSP=tJ(~31a_<+ZxJYM56T)+2Cn39}<S$J)`Uj|<x4?>6Y7e*Vsk`V3-feC-)Ma<=
"%text.

(** Lines 10665 to 10814. *)
Definition DATA_70 : text := "R*ZrKS2{_`?+n|DDcJ`ETX;tTx$d08dg60>fQoa#9c3lonjSY?cH8lV=J1}dLz%nD+NtgI3JDDpmD~N
f%<0V*MGV;s4Rt3C-E7W~QCWd2T%Ngy%de-qIg6yRr-_Cui4-m`PAXAOTxMDIr-IxRXSe&BW__<7W_<
U9|M833B_9LcAK&b2@cVR=A1nxHjG$l)rD&XBNE)Rn3a4?5{M>b5ooc|>nq;=lV1VxD+DHW?v;-_X<3
QTv3}mT47bQD`keCr5w#4U^J4S<K4KT$L5VewM%@m`RkcNVGagu=IYVxx&3}#i(PR}6bk{B4>03vCt{
w5f`U_iro$u5_5mh2IzoJ1gTTcYz4VnKJA0$Cfr>Z6@wFk6B%ApBtrkXea-KacA{`K|vdN_JS@G~ho@
!2RpN%|8uw#w;$6{OPM8*U`k95^#~%S|2~=wog==^~D)|tp$cc=I_8n!IymJO+E{H*U$PQ&543EYzb-
j>Od&16OgYD%f23cwJrE(jt&mK4qg8l9qNs?yi6_242$EI)^!4+_~Uec-IS^iUSemoa@3nBF)e3gMd?
gfXD>!E-dLVZ<m?|r%t^f^yiiEgpMAKWZD>cw<#vwFt?cI_Ov(G!j**bH=a(rn!m~p7aznBdeuW9Okx
`>rB6wh+<srsAqeUl3Io$J63=izt+ub@sF7F&%MWV(I)MIO8$A^4xX^aus1Jmv-^M+YK#xnDd%aapP<
q^6sFX)R?-LU!`BOXj_)v}|R<eDCp-oL6;hw$X3e@S|>Gs7@QPWa)8#SG?zuX6JB8ItboMS$CjedOos
EgfD<q%vGCy$wzo*r7vfc%qI)ab325<W^}K<JnL+Ow7aAWoA!MV7uML{A%jkXsTTP839e`gWfdCD}$a
5)1Zoz>{YvLChw2JMn-RDx9_pi5P<W9oom+xy%i<#L$_2biSdie&i$>+Xui1-y){g$6#P+E;hNPi5c*
X-Je<^QM96tR=8hWrT0<SLC@CERF8GWf553hkIiDK)1v^<r6P|Y)wTrAoar=>N7>;(XR8|#UaTzQAj&
lC~kR5mPNs2a#Rzd!CN%hW0My&<|He(T;LoFF?gNWIZ(1Q7J4MKHe;7;A=7Zm4rJGwl{DOJ9ZiBH@Y6
c`QB;oJhQ(1ITm_voItELukbdlv~*YcAMkn&JX247g%CSh>R924*(%bF%=e0qvo_O>XYp$HFs9II@w~
LF>3V<6<X+>KOUBWP|faKew9kqPatLvbc>CVB$`_rH|udNyk~3Oy!a*Hn@mU5=Ha1e?vA&;H7*{wtRe
f##JQ^moX1>X$RjMc)HXtKRqQT7r>Pd`3J<;teqhyd4V4^tM-HVzK>KxBfLK<V$BziE-%JtEfywy`wQ
Ry>;L$s=XKnxA8q-5@W}a5!up@z*?Tzr-F1IR4QYlTVVYioB83qM&5$5ZgqJiCCYA*#MZ!2meQF!HPT
w!lXbEK~3Gzc=$D4xoAfQ*DS4uU#3VJTN-RE5GB~C42Yf0A52r#IiGw?SNgVDhy=0^C+-d^2)f%zW_c
E5z<C1jrApM*(3ye7eBX#xUdgsxNnDcGLC0oiIv1<5r=qU#{z66`?%l>h-ATb0Ak1PJZKsz8>lLI=w_
p!IkL`R(t7NofF0D5CtT-6<s{6S`?~qsoAlsG7U)>F!f2K`#54*ty>Pt<1;gV`QQQ61QoeqT-h_A22T
Egm}USATa`kKk7(ps_&ULTz_hp_oihjA*sBC?6!e3hs~h3G*X;^@aG$?DSeaQ{IE=u@E;{s8Y=(-Fp&
B_T*+O8Nbw#aT3{!eTT7YXwFuO#59RnS3ieH;dmM|<;|`Ght@`>lG5($E_4l6W-wzmmAB&;S1`KiAJy
Jaumx7LjG<sJsm~>h+g(upjQ5~K}v52bkwUAf^vZpZSU42kP;yUTB!1&yyqUTY4m}g>}Ue!v*4qPzdN
1To7<F-Hp`EK2~3;epP9a}(UrA!TG?|4gXl^wN5t$o=zb42>tmfv$V&V>9O4xY`{L76l|?84=J1wHxV
J%4Ig01095Xvonzof{HKQ+y!$nHhO`E)cyD%IDR1;cme11CAG5TfsyJhKq)3Yz+<alZrqN*A3x0yuD1
npz6dyZd$P;Oq0LYwLx7s7N^UaunCTO6(H#CVa!#vXY4?@)$tO}cF=iFuA3mmXT-VtaFq5qYt-(MLz?
?pI$Y0}9<D8z3!j*Z4^=qm+f4|2u;H86TXa6N(2!eF)|l+=MmWqZ=<st+_p@SO&v@asj&y0yV`?UH!`
YmdoH~M)j}k3ilQi4d+lLGJ3bGL$<7Gb6GUh6O9-IEyF#}VO$I}&UPRy{oyy()b#VjV;{qcS#jxa}NG
2gJ^!G<~qR;9=_SsR_TF6tW-owLi0;$9ps`rD$SGg6q`DCKXBvMabYrHf)ydR*J@2lS#qX&a!%usNQJ
B+SOXpRJpnzwqKUP21;_DWXH#$<!TpPM8sHf_glWn2N?_7jlTcD=&~<KK2XNA-ZhV%A11kPEF$9PS1*
C?wM_a(KMkDf->xpN+>-YvD%5~YV0!YQ%?|i=u4yZs>%6}?NAQa7%J@OhivciMj9oTH~_Ea`dWT5TuH
^zl%RM1m|>p8aOxG7HD4M}j|X$r-`@eBDIwQ*Id@r&O=Qkb7L2o?dd`vt?Vvz>6Vg<3$Aw)$$kLI!6!
S^^Ot^o2=tP!}4Z%ff?s)NbkF(4{k7t9byn*ac4o2i_s7u7aO2@F<?%TmO6-(}~ud8ol+@ZIa<|MzgY
tXfEH}=<%JT=g93@=`H6v}qNBvZ?Im?=+}`MNi9Je*E9I`xqw>N^`DOsgK%O`cce?DpKzEOQs?BeV<d
y{lMW$G*a|*E42lHf~<!)--yW)p^e`^<KBZzK3TxzzylqDIDrgoEV(;{Egp2`Q?m}6-I6z<Na!vu7Si
U+=!3cz%xAOYbm0_%{_{5x|UY0c+`VOe5;xZkM44lXHlpkx0L?C@4VQjkHaPoj@9*IJ@SN%PaB!awb4
39`@SnSSU84!Ld94WRsQqDY;LmNk`VD|_GH8F1ypvFhkBPYb!-IR4oni|NIJ|_MyVy~aHz4g$PPB&sC
$XH(eiD{!X7RM^{9ra?n`{_?pAAwMna5og_w`aRAiRWDqaa=&yy!MhN#)ol#Ik)(q-i!P-Se_x(#hBl
RU@OWuLy#Ym$!}&U)qADbwo$R%<C)FjOxq^1(bcB7qSnpDgjpI$kd5ELa<KhU5!U-g<P&59|!{YI7v9
6tA&LO9O>6s%bcqwo;t-@^cR9ZQk97cB91B5bn4wV>lw@GYNL9RRfF6D8?q$(_BA(NMyuQxN)QPi!kj
Btn8fD5I9~`LmZp(x-<PP`kKv+02R8qQPlvmEBMwO;VYjvI@v3@7><8}WcIiJ$^HHRblCkbuDEB#U-p
0dziWV{0L-eRUzBogv->Z0^!I;jqUrDdp8Wmahrj>(FaPq3{kQ+P{p~;6UogNETRzw2l>Ne$P1z1v^U
D+To9nJ``l_sdVQ<lY{@eZU|9)$uU-pmNqkSwp_;%n04Z6((P{YI~tM9kITeeyDu)md;`?`xC_8@k{y
}bYJKZd{k$FiICthf7U+2_}@9;O8xYT2#M=JF%u?f?Im`;~zA*H?o5^~EHAec|X|Up)TT7YBcL<!^!?
9Qo<>zpc+m%eS!XX89N+e|?eI`{&{P1Ndsb?1;a;e^|bz9|jUWMcY{l+8qlvrB}zwga9QYCix46foX#
*13LOy3_RN+Aj|bB+FlSlzE*rlWL55>05T_Wz*kss@`BaL6sT#zD5zbbKnn{DE+Xk)n4cA;fcggo%2p
T*wu}hSV1XIXFG|-67)GrXskL!Lt~T7jTbuzLhBO94n#=h|FhKN725M!X2)1^0zy(IXi?$`uhuMC$!s
NuyO}cs39zMcV8`7+Nl-~L)ioh~T=<mqTW*3Nh2OQugmg|=_bJDwD*0FJfr?R_6LDQ(>?gGVfb5BrjP
?fMzC98>0;u*`#HS&iAs_u$c$iT0IG{wG{+n6^kkqQAK8=ht)=3tMICrSs+%}49q>Q`XASn*cMo3#Mu
2(zXbB`(p#p`pzk7MMP!GBd>J<+4Ec2|6YIIo0e}(jo=WrB5*Hl4=H>&<4F8$@LDV>wc%+F=%pqFXF%
j&7KK*<38Vu1Y1S?^(8^Lg~8>bx&3Ir`wEMaI}$Jcb>Ljn9o~1E+q8i~%c(i<Sw*y@CAQp<vF`zwo8q
-&hEvdqgMSo<VEF^ST<N%ci3i~+!?`xUXB;z&e{Ea|>AN2BvP}HC4Aj>4^9LVtNqs@U4D5@vvL?W3bL
uV)xON+5s*~>xk@KTIiU+=*_I}BHH#gg6fFd86!{r-K+m$?Vi`%zvc)2t#X%(r%oaOX)_a%)vq`?jWU
*2I!Y2LpRX!%lJw!q2n-|!LfhBR2&n^L^&a4r9|&27C;#QT!IaBz&io>5z`_X+g<jbi!4y!=++k$TM|
wF=F6mV4(c=et~R93vZ*?y3Fu<wI}ZzBFfRP6uRc?oHO#FT3K@chwftbA(Pjh=XKt_Vi_^%O#Cec!QQ
-*L${gTdq@$g3CP&%;hFg#14HGSz^CV^m3yuf54aPE;m>*7<6p2Gx*Iwf3z%Gw#Z@o;#FffqUVd#lO<
Otd%S@17$>uNj%f?A&qzno(@tw5-h7IMAx2N?PWgJ)YkkFsGAfdusis9o`&oRF6%U>EkU?23IlS1dVO
-<G;lQTD^kfdVBH0vz7YP1b1j(U5UR`HNf^e6SB91mRLSMzg83F@3@0xRbXmRzTn-?0<68XA`a&IdV<
4t+oHWrPG7k@L<6G88ZO_o`PMH<&^stTlP_aoGV+LcJRm*A2<REaqk%0)D+hE)z1Z@(SJp;w-TaZIRP
jvJ;S@%zSQNB2T&?XleS2dHS>P)v^(-acm0P7@~Ql&Jm!kL38(I>HH|j)HP7xx=+&^8DUz`@;dx*eD-
#HaArPTFauaI-0_d0wd2;sZ6IWdSUy+_3@Op7qRN1`@XEyA9{As*Wr>clPJF$MERLoD2LFSx;;X=(PF
!c>bJQE6Y$fFon{!9m)LyEUr)_BKlvN36XFSD9W~t5H(5qm7U_1kXK{iB>JE*QagLlxHn=IHn7+$&S=
2Fkzq~$(86za_e!8Q}uV_ga{9AHxCgxz8XRX!iYuxyw22qc|GN-g1PZgHkv^+Mh%hU2yR3l%m%Hp`ND
~}uNw%IRfPm+nRV(ZzsXb;7yIB>>tCmwd0AofmI3a3-e-)iGh+vR2uOwrC<zdztf7->~mB*{2*0bvN6
Y1|obv{401BRZ(pH#_8tYUx#TM#3ug=rfEpQQ=EfDf~&=iP7a*Z4Q}g^XJmkx--h@8?Ct-FzQ^~0h+?
eL?6?|tfu=tSN}LX<(7@Woa1+@49Eh(-WRj>zc4h0kQjziACTUk+wvVWeYVvPSmsmH9~zY37ASCrfk4
<2@_`>ux>67m(6pk~2}EkOv-_FI!>X?U3}jbY;yD4c3sejyB@q<hn~Yw0jwu+^Ofk@6TNb9^Xg`56@H
(!rAgVM4;AjC#3l0JXv@qa}P-_Q}Tn8Zm2j&bKa5%np>=?j}M9-iyNv(uQ1O_Lx9Qdu*Mr41%=-=(Hx
d6&kk8k#PpBD)aA8Le#Gm9ytal?CjbIr~p5-^>$gfDl3m)lc&>6JEXRq|3CHhzx>lDI>%fLlicp&!Kz
*w?o{8w*@zN3C*4V^tazKQ0^X`2!=wsp;>I)c<fK)6?#TlLJo5tj#K>S@0;2Uq%50&f?Rc8Q0;<4{8y
==W+-AK>t?<nuCKAbKkZv`bt*rQL=D!^al|~iM^=oX$N7Mr(U1(7f)$Pz`{^pIgUP2C(OBE2U@u8vm$
|S{-t(oMQysxtUtRp+W2EsDW;A#(&_b>lqq28XR96$0n{M$tG8(kzEO|owY^`(DO3GWFvyao$F?$bFW
hMgZ(-4^lqTMwhTA1~f{M+KbLw%Ba^@coz8)HBm+L!|LLV#+hwywX0=S+J602X4y?-){E<dW??#w=XJ
DUQhF7T%mq8vo*P=ho!yScD5kAsuk+Ud!@+=#3joQtjXkW!CIP|6+lqtaEp<AnW$oZ8VlaL*vdAYb>U
bHRw|ZD30a_B&5RC>Z0t2Xn*KkrJ{WUG6?I`k~KcNRK!g`KKqHVUMIIX?zg6d#x<D%aH$yF#^3spHFq
60HfcNJKQO6UC)vFVK?t5bEiydD%C|yRMGu#gz`l7kl?Zr_;%1=cyd-kyGgIec`}N9kT#REPp>@TUr`
R7iwLd)1|M}lbWi#=xVIZf*cT>cAC%j2ucpuEohk?=JjU1#Ly|qqNH6bI2G=O6Lm6{l$phOXc^8JY5h
Go6*gqgHx$6W%pFKSG)ZN%`P}(t$0V;+E^c*&sGS2-KHtT(`V~<W~-|*L|R*oDci$fME15{A%7Ok;RH
Q5on2$68tB70wN3UhEve4@>exH2O#jzWML(Jl?|9OZ|b-g@n$-DK3z;e>ZNq2_&>c;~J7kPQm975aJJ
%7uLJ3!bp^Q^`&phoOkE**a>`|ARpW`-g+f?``>ckimWxWIpvnU(!!(&5j8Mc(r8|$a{&^w++Vsf+t@
TFcZ+4S^~%C-6;fc2Z4MKvJx+{wHdTB6PeW;eTgc|D?VL^(9)HOxa<rCCOAJM<5M8XT{3rs0;x4n(_Y
#43<F3U%Z|=(;ze((t!zX(1{r-u01c!i>?~pKiy9}odbHCZ!Z54e0Q$R1Lcb0&pOf+byMxU1Ly$o<VF
@IT2m|TrH|uio<FfzuAfx>QL1u3o2<C))-^qg4M#*=|)v3BxPC}8#1&=2ghr<W^nS~wA?qB6O%%O6y;
z2xEBQN*UMvf`evhLUOQ965YF6Uys=T7}2gfETmcy3W0iJgzxmQg)Ra=+cqkgi^{y`I1wIX;nm`?~NO
#=Y%!g%1<@nG?00F7J*8N+3t-Da+4mq`4bf4J6ze@a0trZL~V^rg=ODr2FK3r!dNh-CZQk-39s4GUj{
xFwU{+zE~}EE=q<9Jo3C+Qxd-718PCVJXuBE-so|Y$9#we#Wb{-(p2#js}`9cRk7Krtf!s!{@`}bsY>
IL9rvfo*<9da1GTX@mIRA6*3>JcJ5*=OoAhVun>YRzlsTgge?G_<oYPK6{&HcDuv6h>k31*j!QV~A{L
?{(3rRzpY?l#HJ(b$+&^!1p*oof0yoEV09U(5AsLQFniL-X?suHVYnoruJl3+>3n-OVD1$7b6yOTetJ
TK5??(Y?9B45K{Go#c1iL?F+C*rcX)=MTFvtrZeJYw>7Z&T>&@XRr8%(TMU+_&=UxlKx*Rz|T+wI<Es
?E!^ayEzkN&&~UBzH;OKK`0_ia?g9^5XIe?)5bnA;*}c^BXwM1AcDlPA|}2T+tUG_cqrTA*OydM&UVV
SrryY9Z;YgyOBd^wMNui<Y)ZbGRn~0BTW{9HQM+yMzV4^&6sG+Mr9n)~q0*z9M|_<3TXUBvyW35p30t
zezN_htY2Izze?=`p-&vMHh(8=;L{9#`;QPBZXJg$0l$ihX-^%t|eYshJ1Sl83ZMOc4{n!8e-##iy|G
#j!_i*<6hx(({<nMzZL7)UhA`AmeS78((sL!p*6CfqM<Tp$TVjr@y5MdZ-+5u`j1sqhP43v>!1ekh%I
-{1XmT?iNH-ls;27-6X|2Pfm&=?Fj_vEV6cV2~N0Q)cjdnM?f*}W0#kJsI$EB}A_C%LKsp3mS&V90x|
Y=e|B26N$Oe4SQDzvNqV1`@L6kV~LMnJ?$GTw1hj{=0O3i2z}d{#r&>ojo&~#bl)HuR_7fYs^pV3y{L
T%yDbl0rq%n`cUorgC#Wx)YLR58TEJS1W!n2ovg*lDDlsc5C2e?Tn;it_F55McM64pHH5+LqKe|<72=
PNG!nP^G9OT}I5?0ds4q=u-pZ`YGDvgGWudk%)Kr<(oP5;3*qRDFv!2a|dh`!PU+6chzK)13(fl1cJS
=yofbw}PcT$HocThQpzLm~jP14qDE%tq<U#^!s41RW~epLY;^IR>VpG+U{Z_@`Vm_AqnxA5pytAK^eH
7wW(6-4|@W*u=x3kW|yf|M#=%_Dc3IuaZzo&s#=$Az9>OxePlr!;%XIYo7AJJAeE)!XZ}MhL7knUt-e
d#PN>$#A!2yWQZeCCGNfx&3Ws=LhYeao)DIb1b8Hlay$|lL2v{Wj@(o_ZM+f;sbO)-sLvWg&f=8O2fJ
)L)U~B^VsK`blBt+!M+~Z{Ss``^DR5wGnI{<G`|n*#jl!&bAZxDvGzN(ke@HHuQ4s_qF!*&tpw9$DGA
K&77w+=?R{e7nbB=8P`mxM=R@bJ%Tn~jp#<Jt$2LR<vu~vob?V0)Up>ZEo4u7tutV0>5a;@UrpT~02A
$n*+WfVT>8N!C+HE06kf#&T6v-pGhP%#w7!87V)ADuq(RI*$^u<R<Rk!cm!@rZ0l9DAsx5=RqjrlecG
qkBybg%=7uf$eI!tQa^4(Bw+$^_~9I3blbJTh0#lXy=%2%3JWW$kI2uc+WA{sJ4&p^KQ{saxgg(H{|S
eli33Dov@m?9^-h(D(VV@d(jm<i3}DLP>EeaRd7-XI-nbnhzP7W=WZTl53lp=;gt>XCil}M@Gm>bJ`J
b!3`MoY{i#CcPDc%V$acF1iBv==#pK1=-eY}VG(t}+}-{<ds)6CB4)p*<#QAUsxB!)O`Zt6ns@M7I#0
+whV{OVH+(acREI(hBiD!Pb;G|p-pZOW0DRXS7WSw%o}Ay8nTEb2!Ttb|2%3_e?dXR@OxjmX8BM#J&|
8Mq$vVgXKE@A$IsV^T`SU99^6uO{PHls3AbQHHbO;9q+qUM8V)gsv2^M;n5*I~vm!P(4rZ(i9->mcjk
I{5dbqr2w<)+o>MOGp5q>os*K-Bm;W3Mne-l=>#KAo*UUN)R3_j2COJKetZDpwQ2KBX_Zoo!41USFS%
U_j1c&)qA*@ZD|XTgWxLTGF7ZZGH+-=Iom6p?VBsw*b3@=SaK`j@<di_T#Kx*j~{@Xgoi5yJHk7(u5t
^OQ+|qs>Q|=Wu<=q;P47_vWFzsl|1Ih=s*pOx!VR$KHp!Rm~T&z8kLmvG%jMp!1q&jqAzZX&CauI46B
sjsM%}VGk?Glyd*FE<X;8E*5&<~<p|evcOCSq5xJrU*K*)}Q$&WimxDG998C>0>}E}OYT7S1!zDUmNn
$RiD>T>518r_X{@hr&2?=@lk_%4TcHU<DA_Bub?2(P=^<L=t*3;@q+CoK2xY*BUeb}<p68U@_^OJINo
SwNt`*b56bxp_j>PZ}4-T}_A3o-E9T0u+kbw{r?XW@FiLsc`spX?051!cA`Q>bii2y%ytGQ(8zg2-B*
6BK(y@Y=YvNqO4ZO9nW|Hg!KCsS@0&+B`Ak&c4}K%nB>UCpV|Pf<shR`L#$#uffmvsnMxXh4|HSOTcZ
ZhL?Tgsd>}wqi}d)a32b1e!pp+EyG5If@LlRna2j%6T{7FZMm{2xY`a%$_Q6GQj^M4-AjIT{wUu!S)i
J&$~xdAeEn=0hVwxy=y%tAhk_q}^n=C#fi5@>rBHl<&G@GT+|}Jafk88U0Y6yuMfNX-0Z#x<0FDA>Y-
F{({~XJmBLMmUY$HLvd;x|)(I*D2|9I8qIg?<11;zk}HlqQM!&e<3CjJ>EAOgAq0GQ!GUvR--WDH=~0
v0nIaDovA@C+8n2L@qM;2cb+t2ysFLV8}ce6qEkvg`riNCp(<Nf-z<$MNr$I1G@XmtWnvWR*QhQpfV2
J97;mERCAo@jH*(y*L)DcD@TYic^W9#wG6q`sOMfCh0p1#&fr3jvmhm&{v1u3b=HcFMU=QWc6lYuQ@+
1`*?J4aOj^oy6Nyd^jqbNABFvr`4Ld+&b=D<<t4o59#@YLdI+`;PI$OE^`>%fYFL=^CHK(6Eku-#8k6
VF+jC3w*INTC6?_x+%J#XLo@91bl-rp#A$PLP5{-9PwY=SsYsDJv=26EFAJeG=m+`qrl!v{@hq1xD?1
4QG4$aPbAY@p%8Hg0J(i1*AJ~|AF*{Rb0`miU~8`BEegs+2qNAbKM30BQ}Vb=D#KwNnK*0}xh{)rK?H
X(zhHWmDeTR6U&XMf}sM}XCQzIStw>f5ByB|+$1qPIPEZ(Q(c#D_!Grj>esNX7VscD-ui54~yFUK}L~
3%n;T8VB>yT@D)t$5@t){Hdzo%WFPXd!^kgJJ;R@*max-nEuM#{Iq=Wu6pw;(VOI(=nb^eJPlr3Fn?p
m$Jben{h{6~Jj303y{mttda;3vX$KvufZixUN_0$99<9mI>H(Q|2F<`>=4MP)-Q#*>Oxre{=w-^ugWk
cUT;MP-PFZq-w9ce$89#RL(`8<iQ{!Rn?b0e~1kX#hq`K4i{_+%5LN}zwLwkiI;sh=fntmSQF@$hDe{
G~X%9meaLx%8c!P`Fl3jQDF-XzOWZQB;C(~494e<)svJh@~10y#)R5{W=iBS#>Vkc(bK6QTi8idt0Ph
<?T1n429>%#Zsy@BJ6whr64ZgkVc1?YZV!bInyY8*FX0qL_3+L~NZfizhP)^}}wZwGHZ}S^cDTw2o{N
tk}GaxN~GpkU~^_h}>PXCJ>KygW!}B8TM@0t|pq_%-g+=rcx9fQoD;+LtO1g<g&g=g)}<P8*SHE;#BL
$I6mZqk=0Rv5szzGq-SP7JNMiTI66%V;iB&-Hw;{fm#%w+>*>*}sEwsq{u$j$zu)}0-|OPrwtjf~;rl
kn&kp!#X#BYIn_?=CvnT`D{im}UacnWU$6-;F<lx>3O=1?sSG4pO0y0f6_0q*x=5uDh?9^loZDFvbGa
n!TheIGqLReU37iSnOTBbCT3%N((73iP2&!jjMd2s~nKZLy@ENt-)X{Z9ra99RLmu^TnmXTasW|(Ds6
#);x;{}_d#le<anm8iZy8+;W<6wp${I$iK3lq8}{*DH+?HK&$l~w-xNv{$D_T0l4IW_EFR7{jQ*e7F>
XWn{mpBF1=4ReL_kd6*!elcB(VG{+8z;9p@`^|Oj?Z%JW${(-z{RNTVx#C~--Xq^N-#hy(UdKe*(MmT
f?9Pf-m^-M<lipfXThG#cwJvUq%-H%FtFL2$=mp<S{_cSHhcGI$qIk`55BOGpFI-}cKk<p3=v<qKxe`
X}$k~csOv*XKyUXlqA&n$EmB^Ber;kA}od|sh0qfZ}nJ1f9qo|$}L9NOsNw$)}SOnNqGJeEaBT6nc6P
|+u;;ySG*lr!SNru{EA~CmPIX&<i+m%;=-#$~N%1ezZ#jJZgDxSNEj(WTldk`xU=SD<S?S`lI37aXY8
JvT2!wyY64|P48`EDYHr-ha3Q{?f{7*@6)7TtE=)Aj09KD7YN_sGE5IWC4P9pmOb!PeA6m+!>-sBcq(
oty28y6xV3@8emRzMox)d^Nl<TXuchkfCfX7pyB=s@-<T2*TZZVjGL2$qbL~#K>PUJ>*-e*M6aTZ!B;
99m@+ceQNB6;5f{_=8eX;@&RG!$URK*&-FWUi!tq7HO*Rzo_Kb3y4?|LQv!=0cMxDBhr^aqhgC||<cq
NAo-RFt3l5gkJw!4#&b}hOP<O0*e@oCcQQdUs#uL@Kp>poJA2g)TrCYya1(#I_@If^WYZcY_%eZ#c{G
Q+;c%FD&<HR(-C^9|=${G+N2X*h#i_!Aog1k2T`l<WI`dIJI_w&xdx}9Gr+H`VR!RCZEAkEO~gKICiY
1SQzM@?S$PxYWao%<@=AyI$M=!@cBf{Dw{E1xsP4bvY0z`wjMc2&BH^1}6Sm91>7)%LS5&3rDiFZH&w
PDP2}8^>hy)8T-UR*>0Zx%Ii`LSC-?O+O#*Z0@4oHb0z|>uH0N4?xYRx}N0Ul<yq=$0mG)x3o?FQ13(
9-0Jk!K?1=)9@j5DeBbko-+aW!B*U+7|Ks2O_~hZ=bj^S22*adH_xO^p4c|1s<YHvb!9+63{EH!B!4x
n6utg`IE0N*YlyI>W%a-yf21}k`YX{+ewpflsH4X!-o9vs%8373cpf?Qp6QBWvg<NcCm;_p#0{8$Y1(
--JxCL!SDTrRwA}$7K5-uHofbXOkti;AK)G1RLEZ`;_Y#xNJHyMOCG=XsW%l3E}THinV{siN5`HuA6m
cKno-`SkmwKDo1b%jH;ES!TDn0@5AeIk7|4Sh29=2;jc^{qD!iEv8#pdK@HC|_FP0nHG;h-tsQ&5(`n
"%text.

(** Lines 10815 to 10964. *)
Definition DATA_71 : text := "XSqI1!x~5R-EU^vZ~e1SM728ywxC5saE)uKgN~kt<&VmnHh3qGm=J3M6wyKh<?9etd*Sc2$v<!+Ph?s
{O8TS{_2q(-VPNCtKF;{95cG#<uNk{;^E|K$-EESh^q;Hg@r;GWR!^x(NH>ejuB$DQQFeu)vA%YN(Cw
{zBNp>r8y?wou}zunZkg9xaxw4oFb%|!*^9^MEJjs)u8){XQHb8u&KNiQ(T%!`+MMrFRR~Jl-UpAhP~
~_o&C4}9Wm^wR?P0%<8%l65qP9L<O^b_1L^)7#sd%*K<Jww0rWMD_<&hYoh%nQ(z8>nw%V2}8WS-933
)pYN%*O_C#YteVyA&N_dUBcEN~u@9ip8EiU^h=ZO?;vWRyW`6Z?F3{qF8C`i07?<vmMKwwkOImvg+1d
@)}t`HziepC|f%C*7(sTpBlOvecSnNoxHZKkA!AiWgifo<1<7{6RFmem^hzs6Vo5PH*R7HiawsU*1?d
+Z}}^D4}C4F-%9+tzS8IVww<pvL)6#Z`r1FnZ`J7iLA>_|>AE^dPw+j`rUz*_9K;UX@Bsf>6uhDSh8h
)F;7qzcEiE7pQq$h?M3vU{PI#6~_~57c#<X~+ZZfTDcKM5|o!zY!9dBH(vG$&C5D?;&?m;adjjoHVs6
36*zG)h+1zf(C@>yP~DZzIcUIga$+z#<ZKGxA4-RroU814#5x7Yd%n2ml;M0q>ao03SYaNv|o7#MHL<
YPH2gD+j~tD9WN#%qnP(^!qy-mbrcUnwH(<>oxaD{`jSqu8#*U|3zY!K&Nn=e2k^<q_6DSkD;y*0Pd;
G~?P!z$<$uDmz@+B_d#Vg?S~L`K4x;YTU$X_}H{^BcI3_%^4P}XIm;aRd`%=!nw%!3BQw+*lrH|(cC6
Gq`9~Ej@)fkKC3&dLus22GDeRsuKD|FR5iW7*=!!0OC2_^pY@{yBvN6g(8uxmEnd3b|6Bau|G-g{{o~
tv{_PLt-uw~1J$z1+KY9RR_uKXL9mo3r<NEJV`?s$BZ9_hbLXOA4F=;GClLSU^EQzudj&dABu`ES>K9
eM(V1^Dh<Iqr)ilLBGQ7o*>GAPWs;VC3z2?;&c(9f;fPy#mMq{(tf1Z7hp3WZcOw~Q|1Aftq{h;fLL1
P+sq<lEri<Y$s65?bHD86)^&BbR(J!+9(3f=7ZFB8?$zV-%Fih9L|cz&GHz0G!5X*!LeN@O$Vyhrxs)
9YaknAdShdB~NQOlcW#-Y{(C%{wmb3^wbI5B?a42e$;+2_itg_kbu<EcjZRcn3R$~y&HW?r{o%8?`|>
I-hYwP!QqK7yPJa;Vo`2w!1N?Q$K)RlhTR=%MCiHy(b@ih?rRuCe*o$&l0w0)^x^*9S-3mA*=w8mN!v
W&M9<Xzd1pVewDvDuP4WCia7BU>j!QTHhkK4e7;xNzqtAP%!l0@*5AtPqNB&Gty3SY7zXi~*1s?b2+b
s&4s5bh=5q10$8qECNe^ogGuXGTF9}b3nBv#G6boIl8fDSw}2d~dnSGhjYDp;OIk$2|1`});ZgjWdXF
5jy6p~dw_3~~{K<ZRs|V)IBeumbQZYsUQ7(yniEqx<=Ct~b8s?9T`Anjouw*cIgKhRIDL+{<U6lT*Dt
k(EIEfUlI>wV)2N{knu2zvZV*EUNAecR;*t*nEAek)jQ+mrSBD($3>8cT^woTBscNm3A*#BPzo#8BNv
dEuY9SrC-7@mM-cm@!7)0ANdWT#=?jt8hu$iVe(Sx>>Ou)(%P^S9I{jCeJ!5yU03+{6e$FgnHw{Gj)b
V&#dtZcJ!Df)t<RfR=jyJqbhW<9W!g<d66>gP1{|hd??k3=EC8dOU*?IMM+%Q7mM+}bbmDi2RB!v_>a
EX2x;j>saGG&{WA5>da!<N_zoBopYu6aek$D(fSy>Cu=~=d#$>pac0}&Tez-sU*{!3}sPjjOn{y@HIf
j2Dbb*Bp_Hxg|>HTbMVSBYF38ryxJ4H3sL*$@y8b(3{Gx_5y|Zx`-HlWm=51KzDp=luG3tdc&|UmS?+
w5Lg*<)+xOp5q)6_PXCY0y3Xyf#q3w676}viPXpQJ`#9Q#9T&|cW=XtRC=|G?e>x$Wu5FZJpv&v6G~c
gl`3<OR0F}alaH?od9V57K_IWsts4>X;3P^g5qmE<KS7v|>x^I;=d(NoVGL+^XlioWs1m|^1y`Qb;wq
HF#+_OANK5=ZVI`9|?(!nGD}I0MUxJ_d70x!fbV0SYq&z|=Fw;M2h`nhIk?l4|f@r%nu`9iFqdteOpX
ibY8>I4jif2hlpn;4;hEcM=Dl5+7+w=1oinxljkLp6kax+mg$zrQ}UhEpxlDppy3%Vj4yYvGX-yOCA5
JKnfw|oD$?=hJ9<C{BvHw5^feXV!6|BLH<4eksE0Gz;4n!#C|A~85&jHWRf#~{8_(596{Kb_zKNHv#0
wJ~6%&^?ue`A{5(s7$0w+w7Z{4YvSg_IcCHGCeGc7sELM+ONioWqF9fUf?MD7r{aWRz||)FE|o*>7+0
VjNv~4_mG6`x^NZ;3NyzT3v;_5>R_<N3}`W4WodX9_{%QBEjS7_f=~{w0sDV5C}xKGE*9ny;LukL#vd
>k_+@%myueL6|48qe`)sVw`&xF`irbXfxu%)3TLL1P=K$Qx!_hP)eins7`c6%}0K3CGAHc3zcmJHAf&
FF^w<~3Un*KZc9=59SSiHdvDb4|S6$xQocYg!e;24k(U{i_rs|g^Kzjpq4L+Q%m8Merh7yK$e==}u6(
Ga_lFZ_N!NFX+F@|Q86sJ*j@xa99L4en`{T|+S56AcDjHS+bczfyhe<QKbuH^lD!O8~KnLL};`{XT9%
eipcZxaDIk2v}S6{u+Ia+t8H=fwn~ETYT~|z?LZUz6SAmE>XDaD_c^Qc~O`AoR{yN7w5O$y=97>>e=d
2glj}dqwGFzj*^+FyrP2baAWW6ZDp1>d3|3$U$MHvWMX|Io+;TVZ2iP<MSh(NPP^6po<<(wqhB%4IW~
mbWvgS@_7Jui-i<vwt)3T(UAOx5(5%&~cE2=Next!bem3j<GYwAN<-Ea5w~$yV>Ve*MExkpgV{VZV_;
uyJ{^hyLFggoOehhMb;`aneDv9RNSuM5)j`PLsbw2G?vSM95Ads!`gij~!QlD&(!Zp^XHGg%)VZHY64
in5HIEi7yF;?-3+r_tY?rGC$*0H@!V)qF-2gJ5%P-lBG_ZzIgQ}`v8hr~a=s26`t%aWE)yZmpsfBt+!
BtF@Aza>Xtw;V2U+WsM3hD!@>S$`0*|6~yOuUX5lLE>8j2%G_NB2@5FG|gf-$FV3yL2#gP25>)s8zjS
gN&&&nibZf<1lV8M@LwDWnG*?JMPXBAwir8*5zLgrhM3Q-OEV1a)Ng~T!O37+mw?{f&{l2fbOGm}-a1
$)$Oz*QrdR0*oc<>$0YxZ_Wh(VHHamfQ6f6duJ&R$P4-V4CmOjn|ibP;dF@~0F;Qu!_HgI|NO>#^@V1
hu#z=IR;bmCu*rQAXaIDL$zG<{w@cW8K{8yl^=V7FVR=IUn@u=!qb`fH@P8{!92WXLD%1d3;I@bfi(3
37N29x)DX{{&(n!hlUa|HlyXu2B9xh?(CY2A~OQEZFvzEk+gxIG93)E^vQB%=bd$Pay`b8u@@2J0Cai
5HoQ<verd24S#lLUA7)ceVvz4d_Th`z$<@>O<zM3@=vhoD`=XLzmwE%8}_z44iT;lNvgHc?UvL?9=EG
Od-W{s-|EsXLrIwq(*8mn_fv4Ir>EzY4}Wk=obQh4&Un`CYZQ;WovbC)e$66&FkfOuzg#UvQkAvb72G
-E?}{hx^nEqb+4gMBWH?;5iOd&!G(H<!^IC~3p*@A@E<+-0MTg|}a&w29-JmId-bFUy+z$k|&Ma2$#4
sXvR@lff=SJnZ6$5+A%af@_K5p9_!d)7l5tYq(GvH}|UAvCEx&jQXDC72`whaB8_;IrqSGsgOXI4lU6
k0s}Rm6ABtHEt#E-E$ded8<@k7;zgL7flYIwHc&9B(XFzihR~GrRb=gEV7~eD^J-4XAK`2yVNvI#tNw
-TU<u9R3{`M&5C_@m|lXD#lFetXCzuO~kI`*D3D(IHGp<r^&&CNAQh%ZTQ;0#6HCd()DRl^$EjBVz^g
TG~6sj%cjCd#h!bD@1NT--SR{u(KEZ<DY}Q;#ZKyN&pZ<1!+5!!1#sZ-%8t+0c$meI9nhIKW-BuN%Q}
2@*XC6Y?QoW!b#zFvs7E@s+y$(*xe0e41Z|RS9w(ot%=r{4ERj$g<GZ9(Micm)-1%{xyaE)rPc~j^p;
|C8vOTGmUQUk((~4{p#GCQ3;rQrTudG+z9||$n9=vdKj-54z%wu{yAAU2~4DG#ehRh74W`^}44Lm<Fw
hz{d9aUh2b6ls*+7~dr^@n8ixr!Q8HXd)cIJwlr+@9Kix6+FgfRA%x@oKH3`;x`@kZygN|DTgq#{VL%
%lsFlmH)G@|4-7&-!M-Wg|_E3;GP7*Vkk{9ERKOF0%aKrV>pt=IGiLtizxs>q?XQCXyckdV^<=9rBuK
g0r$(6#BPd0Ef51IgM2P5N?^RelCX6autE?opl_AhcnJkk*k=oa4h-5ta2(WsVvD0x^fRAVxTFYLv;q
oCEQYZmx`>0AFYXWU!6{TiF&xwoWs3m>w#>Z(cX1I^%3_NfI~-j}FVn9u$alfLH2q8F*}#~h{FohSf_
)mb`8!VzOtX<d94;|ZIRD5z>ra{I-$*ILj56{irA+*jlrqdHBma?<GR!C=={se6ODPkEBad&@<&Tsyh
-PGfa6hJ$zXT=!Jf#eg9|5%VAE%T*!lHkgQikCYV!%<~0<Q|Mr)nD{2fIoIyB7qWzwo%u3xYS%M^sWy
$7^%wwLNUN<hIiOy5TH0-XZoKV_d1Fqbuw3tzbS{_PQg8t-UL?lWN4<i>zmxJC5_i3biA}ljLzLp69c
Rm;ElhBHd=!MdB-?IZV2QI%}gBO9N-zbZgHSX-@w|n)S!Qi{^KO7X>%lyNTsy?X`WPQkabb;M6PGJ-Y
^fR}oQsd+y-D5|78cp_-zh+MX9icQK)N{qP7cdO2#8=2*}2Wmlu<ue<g<m(i|L9pq^;^(`4EZMV%IQy
!<OrtNcmJY2(}zF93d^b#o@9Z^{oH)9js(8%lB-V*A=Md(3b2B7txTRZc`G-j3e`0Wus1%9>tZ9H+o7
P$;h`g7>+U%6+49sT_gf0D+JbG+@&`?MSHP4y>N{O%FI3pM|XE$tnJ{^qj2!68`2q!>7>7-dO{#W;XM
G{I0fO_C^qF*wbB?l%r0Ct3UjF-QQ(Wbt(%p*#qtD={eh!N_GK74<WLE3qg~0b?a7s5Js$!QilC6`Tz
GA5t(i32p>{f@ZKV$wW|s3iF#k)g2KKuK<2vOA-~1SYF0uB`I83x_AK5ONunfpr8n#6fB1>&JBR!GK=
dFKrir@Lt(2$v}kGpfI+LqUvt|Y3S4RR1BXnZkpoc$WKEW&W~k(%QM4blNME?^;C#YuXWsq5qAOJWT$
ia+9~AD-ff+kQo&pbco_-l$^}ZJ$g0n?{t+Fwk`*?Vl3eED@v~77D^7g<l%=rQ#B^ct1P`vN8DV&9+E
gGaDswe8}&Q$rudB|5+|7K$F-*P<vp78#J?{c5;-7{hcr+318aBKG!z75lQr=yeh#i#&+xAN5s`aaVU
(PiqIXbD(SI~_`%{6Kp9tJ<;h<8R^}?2x}gyZ1Kb1?;e|um0zh>5u6uzu~$5DF;SABf%3c6X!-2_WSO
FO<uIdim()o605~Sm852^?`i6q2M2vt5UzKtA_Al;8@eI7h4TsJJ0tI6`mBX#)z#*TZ7Wl|9rDAf!nT
vBWm``@8kbFxx1NS*IBjGK>*<Ojqi5mhu9{Li9E~)ke4J;*7WJG_oNsjzH|fX|X(i9;L7vIMFxA^iLv
}j`=dwg3dv9If+s%0tb_9D)D9x3PN~X1&(uZ-oOHRIy#*MwD&gQ)CDO2sLQc3p6S}?5Cce?Y{!S@?h=
QG3HnEu)Bnn^o9>X0h(;OPVmr}z1wjm&s^T1MrDy)H%N(LtIG=ki8|i|X^#yXzRB-c+a(<-KC7JB}XP
bY6JpujQZfPhQ|%IlQZ*kRRkxKTPA2RYOHpQEXMHM-)cc5WpMxOe@J<X-C9!gtMWXJkh&$zL#8gc=8B
JzAyxK6h>d!j-<pFcUjTbS9E%+jgB8e_IS+I=41<bi=<Q48{)~+@d8aWp5DD+%X%{GZp%AwUf#Yn99q
EPF+L3e&h`O*t>3k2$op89Wc_&9a+;l{ojdk-&A9m*8pN9V*;e*t?3X>1B+~N7dZ#7~wXq1FoqFeZ<)
oa5U%LwH!TZ8r->X&ql1e#E4)}4dhbwM8JgYsYY_oZ;kTx|ZJr0Gd8-!A$iP%o9y>Om<wkI6{3o04xs
)B#luxBqHd*LMIMr6#>F+O7c>M$eZOWSOu+hc9HwKbTLoCy1v-gDMaaZFfbe&<Zbb(tqh+^8E|=nV6Y
KkW14EH#aQuMlC<Ml2Z;%AZHf*^c=tIFt9)dU&eOVMdcKF-f{h$FuY}hUMxwssSL-%>xfjkJB{^xmxB
Si*a|qzu6@r%=x*Gvj+G5q)-a#VoqtV8itPzYiT`Vo}Qz_AOyM^XIrw~90-IlaM90XlB!ncT6~11`8P
8EAHl)9U(>OVu9x_C7%TY?0vP5$99#V_xXvE}t$(n_ucI!Sz(@j4JR@0*A}ExmX^Oxwj-@CR15p@FqA
2yLStAj`Q7Gx+pq0I`|8SX#mMvNT3`RfLLZ)&2U*zW%1#nNY3{n9h5Su~gDguK68=Jt+A})b3R=g;}@
dSE4#@xS%42rynpUwZIxy34E8OR31rU)hw;$>JiM!@<9h_0ZPjD`gUaBXr?v(bw+3BkcM1{}>zE{bvr
W*+cmh7DK*oQ(ZzwRZvQ&g1hV>e`XgN+-vIo^yII>G#S{+x8Ro|N4G-=HHFDV8Dg^lZXqj<&Q`W`CAd
!=`@<-mxybgz7E?2DOxPR_!&@V%&(`1|N5%B@E5@Z0;7o~ewja7rr=m@>@5QOGG2SmN5hfHxAEF1$}8
VqK=}G0|B)B)>!<LKUO@QzA^(vV@XK%EpTB_c^+VoYz@+3&A&<Yj({uq&^~g<=*Yo{_=k1$&d$6bOQP
m^ao%coBY;<m&Yc-;t?wrE!cdMGe>HAu`csJTL!cbKxcUwEDFob)%>^oVSuE#(G!QU-6RCR8ysPG_$6
v=j5SQRgLJ?!y2$Dn%MITjYwl{yV_$`c#vGOp_~kMuDQ*`GRjeX940OkdxQK5T8(cyp9}N679jo_n(p
7)m_4mcN1K-9><(h9!y+<q<^N+MiQR%u~5KJL)}bOP^{+cEyLCrK{q^s5UunEWboT%|c`8KJ31PBMA)
Q&r1mZHph(!=1Apk(Tlo;-gnuNo#7!>M)Z%GsXCk5lw?AJpsS@K6@%%KZ?hvgZ>T5HQ2jy@^4eGKWQq
kMLT)p5f48j4=G&ygq+@I*g?KcZeZcO`=rDUVSMfv?$%Uwy^wWfjfX&F+68L?)d59?1CI}zQfVuTcbM
>}9Yy0VS%hcDSND0j%h9ggzC~ZIQ-GjTR+Yaqz{%=4!fU?~^UPd+CUVr?zH!xD~*W|zdq5Qx9M;G4y{
r_qI{r~EQfB!#kFbDB|_%`bnV06AYpt^*~zyIGAIL)Vp_W%AJO#fG3`yG1!&UL>{v{NLB!||dRjeRQR
iYb^o2bh;-Fl7#bY_U6l%55BKr~pg?U?O6e?_k-_b=ovkX91L?7OcdUQ=;UO1n1!3G-$f8RPGZL<{7}
%I0jB;;C^OJ3E&nwB!{s1He80HWhlgH3WeuNQK%|U@C8y+=z@%KP+kBv*cdDbz!~2x)RxmUToZ@GHZT
CPBn^}N+%Nr)Wd$ZOh7T#1YM<nm;(7BkF(+U>x39T4U_Kk&b!6)c6_SN<)Xke)`Dfu86Xw?id%)=d-I
k}p$J^Y-19Vr)1oB}}HIBWjD*ebj=8?wGq&*bT?b?K%QjN^M(Z%A^qBZhfwcak?m2V|*ejHn;c2P&=%
C}(xN}t;N{oM!C!nrmOtK4cm3rT*sYV`#f^XY94!f8B6`t;UI3~z((%wKK;$cQ|?8;)Qrr|G?k6wXEv
<qa07${3vYs9~K(d3^8EnIQNXNQ8suCwDdAz;OBk_THkiyIMum9_W}obcq&8caNe%{8|LYVGdvL>AdC
2k<S$l73?~j-wi=`U%mQp_5paB`SyzoC!)*A5UJ)vmm{S*|9I73)!>nD@(-ew#tgNKEJwO$PI;w-9xV
k$E9XAot`#Xf!Nz+ZU-x6F8(PUpje}ejHq4Z+8)o5Hh#7vHxXoaMf%uSK(%M~{q)GUgx=Ww#xYi#2?9
&kw@6|}R#&gol2p{m}S|-QmnJG5-@y2*2d*78C13#{mhqP{YC5O=<p4eED$V9FehN;`}l|~3u!?hIR^
4K*=D%T85p~0AzyA#uz#;Wy23^8nO)=xhZRlB?pf!kOlvsL-Nc%ARhC!0;Rr6T$+8MAp#?S1c^n3zgd
W=OWNS7_ncd#xDN@|2ZYD_l_Do|%q5=o)|IM>ZmT&ebLy5jI`3Itd9cIoj@V#crvm^YmlC;*Yj@i+B|
_mTfP)I|>4unYX{L!HW_PVl#m5d@jqsqlcT1k6X1C@qRB}M}e77YurFi+)BbI|L2AHZMSBM(R&6Xdos
m*6l7fp(}1d3;i6at5)CS)Zn15X(Sj)+PP=u7Wg>gGalOiYeaCs)q^UINJ7tq+kIUWZLccqlg4ijj8W
)k3$X?@}UTj+Bb+T5*&N#@Gu@6h8Ida?N`bc{p&03|c0!*>@&xmwOLzhM@AhWGCi%0|(>$$k;&HY_+q
~kzf>v>R<oFO(=P3Di`TAZSLu_OA`!*a`eV!Op!P5bPyVP{-H`dt|fjYn;>Tet^%o*kG{Av?DLHKv*H
cAG>)AGL#3L)Zvu%hBO!x372M%m>;2-s8x*RLSkorQA)+EHO-{gTJpLvrht#KY5Rxu?<K6sXA;h_;YK
OiNggJ^Sj;30GaJB47)#)v;kBX{C^E^NqYNUV*Tks-$DF;=tS>${p*u_qp?HbAM8`>XlPbR!2&?WLZK
U+S(Gf6Md;#ENy46Dz<@~{;w1Zd!5ctexcECW5OSe-EoPv;8BXhFppQkom?{C*3IQ^L(48zi82j0%C0
MSA7c&hKt_R>S5y9#O89{)BEzcwj831BK7fgC-zDAcJODXJqj)+Cfw-|8%y38zQ(qLr~4GR`@_Dhe<7
c6))A0j%L-(0-%he?32uporr+eaggB&UWjzI#BrC&DWHvzZ5~`-16j_!Us09(?T$yB)XYyZPkC0l-*5
m2efD^&G${__}F*kE#NX{9dN@`m@8yc<mR|%%?qeKO+)sZ-O^EP(E!;a6q{CowU!X#z`yr_`_1#-J`y
zpt@=SfWH8a=vjbVPDNB(*Qk^mL#*C`{_<B(2@36yZ^hiur0QqQNcvkdQVyGuz>96T0fmFO?O9U0+s-
4K4Y{L^x8U{cl9D-5vc5Yvn3f+_GH<KR5$|QyoYdf1m{<9UUT9wEOxAuN{o#~dPTg(r6rEWUHmQm_6;
-}3mQwQSyH-k{dyc9+`=PokYu9Hvk?l`7MM^?998X9<^&V|7=P7?UsM>9=!=V&Mm#~lVl{$;9A(;6l-
LDh3x!T9#kdB5X9G{}^Cp{|-GV(AolRKNM2Vk+{aT{%t9p3O}eY~D%|8lvej6OE&oESTm#>$f84&26&
(qMB@bZA6{P*!v!HiAox>-)jLgZ)c6p0m>>!W%^{f?UDQufPlI$1K7IWm5Bfx!B#q&ACW#;Tk}TDtR)
Q*o<dnk>_$_aq<(RDYDvpl-kZ$iajTy*DY%U&Z=3><Pb@_edwZt_TX9X5w$)CTk;at(dcK7b)R_wdu;
GiuWN@n$j8)BhJX`S=aq1066VszRqLHE_OoLfUp>AM%B3liZRiXW)#Fn~RS*k=Vs2>%r|8{rWij{HaV
iaubTAh0&`H~%WO~@$<tJBq{(#U=uyI`^=b~>4R?sh9Gn-iGv<+tK8{1?bI6lRfYJI$>b%uE$9E()2P
Qz3t%hKg7lJ2SPeD&5^at=By8dxn_i$skz48c6T+Oi(WJr_(|i}vgORr~wrDPP?;xnCYCW*^dsKqvha
v!@4m_EqWld3I(s7k{1w2EU^y(;s8%-4G=Y;xP}*Z>T@=rv^cI3m<G=wr62u$gwIYr$p!Z@i_CGkmrq
%!^ZAd<Sl=CC+o<LNQmS`jUWyk7RIi+k3gjQNaV%{pFk*n1)(SRf>o{ESs0*GLTY2Mi{kJ_2lyAFhmC
SK?y;-+w@a6)?f#OZrP;Cmy=>m;2=ZNX890e}H&2h-_OTW6tI(54=C^aju%qsZu3#}QoZD!<UX%mX?O
rw_1|h|@Vx!}{n);*VTs1rO`FTZQ`p{1T2#~U@N_g$y(xUNvUI?#K3`e9@pUrcCebglty{W7voC!`6y
)}#cF*TOAR($i$pU#6hmf6~Nm|zS~5tCRabzRvus*&^K%yJB(2X%H0Sn5#uadf=xQ|e{T_T@3rSGT99
%U;zn8EsF8t0(n-2q!G593Nj@WAxl<vqkb-3CK@%&M$s<w)rd#nH8q-p7QV{Tsl!}Y?CC`=uOt%ozcu
lJlD26W^A`vB|iKevZ4u*ym)fk5!G;}f@m|0?7qCc1`v48#p)6<#%iw4zQeun`Dx+mNl-1kJ8iAAc$;
>}u$iX#^-xY$t;{;ZS#*M4E$}7`xr4$ek4+2xfs$xC;WsKE6@_xP?RAyg)@8pxR5cRGdHSp`wveh~j6
EZQPa;vpI1oMT_2kAXqWB!Eb9P+Ce0$ZZambbaT!p3N%(v@MA$zQA?2c_+^1*v$NE2rlM8Sy|gWn{fk
i~s_*p3@94)+g}s!pawTyO_$ov+v+h?OEDJ|h4|cIr~{84u(68MvpJn=5m&^QV5kN0-*DRu1dFHg{J)
x~~6-x+vJ2!@+*0TOvSS<KtS;K|RK{a3^Bg6UZHNKkRN6W1pUmp?RyZR`HV&oypj2;y#-=qn2u#UTyi
mQ`rG=lyqq?If%yIzJ~vM`@NC+&yM-9Hv4k_FQ-Hi8MF%HXqc~0@h?*`vL$%QQm8gWmlO%UC=b)mZD#
OrNlGjkepnz#p}+#qpehhVXBoca|7lp0pcd^2y@)WF@S~9NLlnm0@D%W94jQe2$SYn3fJE582m+QbVi
Lw;(9>oyE@u{Bb((?aB}r(s36>3qZKlu^4ayNo7>I#2frrPxjKX9Ib}<j>uckz8zl*>edzKvp`cf^i&
SY%O+Xiy=8H6af@5s*kePUs3EfrR3<J`BYc~}0KRYCa4&|wJk<$y2w34b(Z9cm@!gJZmTojKp#R=%wW
`F=@%cSXqeOZt9Ae`SUSz0i<9&Co=fD>WhWORffy1+ERR_<Wv>IGPhLqEB|A7Mq0J@1}OWn-tH_YgKM
!WIwG6yRtcwkY(;<p2>2}+Db8;Hxw;K4{QI@%b+rfR+_5&P&^fr1oT}i-0dw99=9`6m(%GoSJH7@D{~
t)IiZVBft%PDK_+Gy`PF=1wG2h!_pGa1EN_}iIfZs+f={sQOUOBvx-epCz}|9NXM+B8x))>FcE;Tu?z
^Nr*}GkctCCt=BH#7c=XmnxMn!|V-D`!1*z5{#oRx9uVwp<!q;vGt=inVzCDz8F(Y@-d3AL^_=*q}1f
E=s$!W2%qBnDB=ZXbwJocWEuNw!l64nE=uFOCFylx0=$0(`H0V1LGrc{cvu0FN@-Y{Cup5=D<1#SA-b
_MR;V)5`x*$?!J7<E>dHkxg?jL|l;ZeGw4?h|m=@A~t;R_MYftyjPX_Ly!O>hqy=nyt5sATpokBD`bM
gj%SDO?qZ*BegF1R9(W5ls--mWqGlv~aitI5LUBF9X|dV+34H=KSikb^lfM_2;GSsKc(}0eBK_AFMZg
UMJa`9|ea0==19aQf`&T6K;d@L3egEKFU9x*Yd#DbT-+Ax{CcQ@Fr(SLfiUQJPH1puEDX#M*KR%khAX
$226(YY*V|K#{H1gWkcy=>KgEnZeyP>0YrOd~^TQl-Q(YKB6kAt$V)|<;3^Wtd8`H-lq>cJS)Dt4wPB
Fh@jb%(IMO<@(xe4`Ay<1z&49@i$3vA3$bMf+^dIW;FW_DV1pU!?A@gF24)<8h6M0>C;<*rqdG9xvj9
"%text.
