(* ===== verification/PipData9.v ===== *)
(** * The literal of the pip installer, ninth part

    Lines 10965 to 12314 of tools/eposiotgw/get-pip.py: the characters of its literal
    [DATA] as the source has them, line breaks included. *)

From S2P Require Import Literal.

(** Lines 10965 to 11114. *)
Definition DATA_72 : text := "5IHaBo6dB_@s&9MdW_oQ`9nmJ>L6~t6ZrK`3ct1LzS_M~0g*4UbDqQ^X=!kh>^aWYf~P$H&?oIhJn3u
gdYAl!^M?z1UJnWmMPs{hZDPYo%auKHR1YhCwK8V+VfJcqTA9zlm}H&|7}2_=BIj0WDJn)W-u6_O|2|
l5`o8%$dkb)ox8H|+bZrVCufDWZ+E#u09d!QQBi@1Z%h6xsD93RaixDXM8J>pW;(wOF7V(T-+Pg#8kQ
Xtq4v#NlNP004C8&Q<pS#15D6H0#5j+RRKxBg!E(}Z}aLXj=ID%*ll>p>2(J_G~hlu?b%l*tBG=}wtl
!O0+v%~ZV0d@PZp<t1Da?}FY7_5%4OG<`a`v2G^{{hE3lJNL!L3(t-S&V|H3LUY3S;&_uNW@wCBdc*B
sonaAtj2<=$ro#@kIx*!o0XvCS4cv5@R9BV@ARD^ma7=HKI-rC_US5|z8al@B-;K8%fXQc_66LXL&BX
6i+|hhV7Yiqw#nIj?cDwDOJ-v-q<jXriW;RcBF6hjMk$Bsj^##h8`!~Q-w^z-VQ>TZ(<WBChpFwGUF}
}K2V})^0CtM}JLm?cYb-;e7ajcBngh>;`gpKWbyx5Yi)YzHzT|iz5Nr0$#o`MFkp1_qRuEoSrhQ4y0v
DBrjyl;bep&5sRHIF9oWgT4*uM32#Nc#3qNu=<*!}Vp1kzw%dYc>s#2$i+LUfs9-h0$o?erCO<SUw?M
`k-%MM>*?T&8kdIz+z4x{R)!D_{WY`pg<)Ud;$EJe<c%D-QDD<x}4^xFfEti7wSZcRW8+`Q~zL+DyPb
r--Vs-QDEXh+5om_Ey%QAv>`rR7G2n+JHah%MeN3akpBN=qXM&*K9ml=zJa4gXa*TlgRGg$ezb3&{Il
|bJ;i|$0%2hojPA*!hhv!(ZsW;qmH?L*ZW~`?_2#qjZXJSUsC8irjCr7eMvmpmai@t+3pa0nqBV_L{c
n0DNizQYZ4=7_KVfZLFB^`ghuN9XGUr;Eb`t#2YkO@3MsH6XP#8?0_B3HFc<6sJbC7idBT4sBh*FkVb
Ub+uJJrLXJ86fUgY_B1Yb3sPhjJm>hqx~G`uSFzA2#a{%90>_%+F;3gOj}4|Ad5H3L2Xd^P#R6e@TCx
VXcMC_KRoe?I+qVibW7T&@i605^2JTEP{7E1urIYVa$c!xcpE0xHVy;ECmyht{mfa$pXY1|AsX@XRe-
>avm$t_0i<4s784Q4W?4z9wHz1Xs44ARL7mj_LmD#SxUk{Rjg<6hZ86Z=XPb{A2uL$L(8qlp%s>j(W-
GcY)3|-4DMDKIZU6T?3nYE_(tFLIsiiCUJo%Jm7>?T2gvFs4crSx3Pc3*8_dVSBCKRyVpk(><uCR*|E
sS!Jm|FsLzH4e$ig0tn6Qv!vzrmQ{L2Rcse+eV6)Bse6bwub(bwbz2$4r7$s47ZfrFz10r#;VX<QukN
CEql6Akzkt(k73g_5daoTAtM#*QGydR&wRy_7)WKF>fK%mRNHr6#+Z_c{sGxOc$yK-Nu4M!o`FvVJ8B
-PaKBn4N7pc;)L-&F4Ik!@9ajoWtJ&#Qe(8#|g|bv<fr@R3R-op{_e8@YvCC>PPTb_X`X(Zdw-Y0=ge
s=WOC%9WD-2%p@=eYErL(uM0l?hmi~^VJ@z!g$b6<O$Za2iT%J{rzy&U&kzH_N1?Rh36AT-U<d1)pxP
P$+DR_wVVdQ%V$E5@7<;k(ExFxLACZR{(3#*^6$7VX!l!Qfq#D-?``){{D3nyzq#kTz~lEH^&Wiu<Pq
OjSU!zISQr^V9U-@LLcH0!C9p0*;_w>~Ku{rcw7~%*{=B*Z^%5a869?>{U1E#`hp<m3&>JUOLIx0ufR
F+3><C}N99XLP`2@0T={aN)NW(!C1PDI5n4iZeEcnDURA!*~qEDn@r3O&=l!4`x48$ZD45a|&rx)iMs
BL6nnj#`$6Jz{46UZb3LSpe@A1m^!{L{%}*7rqzxt)-2+Xssws*@(dshh3{15`ig5}&^J04V4W_vgr0
Rh0LkoFK+H!NNUeIL5SJ8v6A2+t9tEzhFb(`)ZJ{m-A0ngM7W5Z&vf0UH1swgqkBucKx;Ht6O<*oT55
j`I5L%WP?%be9JKx+t%zIj^9BblQHMxcsmh+it&%xL`t_Q+<0#mP4xhzti(fU3Qgk<E}-Za%zMn;>FW
9y&tmVy#O6m2zw8^byzi90i{u+}oUe|UKAW&F(6-%N&pN%%j6GQxc&ZFDwyW5Dn_seIeN?p84o|h8+6
q(3e0bC!Wq|}f8J+EYePAwE<ErV!^I1FtYMneB@ln4BGn3pG?~_z#8suOwj*6M3VM`lUb_%89klW2gy
Dk^c<<m@CLEPVVZCDX8!<sxX8NQ3Lb!wEJc)JqAIvqM9qyX!Y6$~}$dR-t->SUd9l)YoqKF5YvJJs7<
Z+FGJmF&wOH`0$4|1Sl93Hb~*roVs<sfyg=mbnz%HO>82L~2>qOZmm(-Oz8QUZn7c!U*BcA-$YsHsjz
vy}o_)QA(*7oVjf;wAW76Ofz=&-01|uJTCVu<M&-1->_}4Sz9j<Z-=RQS;u<)3Z3;PRGfN>lejshMW<
~_9=99x?r#_@z6!|wVhD*;xR-H7?dtTR^Cp2m#vMAv1*xyjsbdX=oQvQy8&Rbt-za6|bRjL|qqt2rEg
~0A<@<OmZ^X1vM26i2gB7f{Ec<Ak_1!uYC)a9^dyU*jyOV4)u5dFggVV$Qba_4wNM@+hiq5>wj)yDV^
`t;tP-|>8)VZv8v~>?=2D@CHm<+QMS4h&8@O*MJX}*BIhUkLu^$>V}2R7_9?wfQGn!~+Z<T32sT>OvE
m2z(y_V4TX|NJx`Rs0`M@ykpxoLafa%~Bld&cL?IqA<If;gC<JB*YSE7qbj&#y`&#11=ep|Kc*J6bBq
LBcL)be4CY#LcRE#79d(?Q_vKw=7UWh!~PW!Kl44!poAbzm-);oRLuhv!a|shhG4@j?dywy4g|c#x;$
BW)KM0)YH|S*GJ{A7NIQc=RUK@5#GxfB_G?6mVDx_Vew8WqKQSb4koUqipn;b+Lvr%7mguikULWQ+F*
GwrzEDC3@W(PaZ?0d|)=QU}iNd=47poZucHZUVUOM4>DS@4LFL)dB^^Jy-|6nxzl}cbMzcz1X<(EJE{
gBTrW&RX|e>j~>GC;Jz+hcL<erb$@rZ^TH<s|<${J_0zeNLYb>jfCauyZ!;j9jq$$qJoYB}5j1WwvgK
m9i$XX76W@l@n#htR<LS!XK8ucClBckL&ZO+!Dd_$WdpJg6sR&s2;{)Ur%>e;rN|;XxvNtT+_GRs-il
ZH#X%gMWIvDw-YW!ulD%bzAmpqaSkqGB!H}}cfJ3pRexTsiNJW~bb<Glk##I}Fz?<`@8ez_wyqfIN_V
mj2`%SCczZedgF{YR0uxM3anN8|+xhCWZe?5~&Vhw()pc_`F#J@PZV#xqijJbiK1@A0y{0|y^XdI|L0
BV}ycj&Y{&F*#V_nOlI>qQsz7Iyq(uC|x7a#ER<E7)Hhs}!~j<+~RMDs~M9RVN|>}hrR*7W6@tg*K)_
71bX7M)3>gHqN{aV2KKx#P$sje`8p0QWb%#NQGWTd_C@LA`q>p7v5>VYnwuR9z+~uW^|=GTZ$+O(<0l
RV^V|P24<R55pUzdFzYBR3qCcj56D`?bD%gM6!u)kFlBj137Nm6}qd{4F+fm2p6Owp;j8Y%iDObOsyw
3OsN+pa;8r4u)-U?ajz}u(YJg>HmOUi<ik7^I44CD<0|~FKWzs$<o!Ivu64RvQJdF#(!B;Tqs=Me#_O
D7BzY%|(!6d6Z_jvj?eQ1&KDe8JKBL%+E$r8AC9Jz^gRWzXvCrA+kWt9v_;_7O%aOvfX%vN(T&q*WuN
y{L@ulWUIeSp*BWK($=$_J2sX}S&ny0(1aEMBw-Xo@+Y|I0bQkT7aNM42Bg*3m`e;=ZFQI>S^V7!ry!
~gj5)8X_#j$8dZ9QxI<ALB5-KJFWvP88=zj^G$LeviR0j{FpOz+TM0$*pkcBLdg}MJ>K1Df|ZP?2ynb
HB21;S&1@5Az%S^fiFxYqoMYUW?@PdD$NLJngTEhW8ow{YEfac3s|r}>qv(d-iv$<oR<sXDX?s5j9Qd
v90_?9w}{L`4(3?_D1ysFyOa<<3qWqTXz8C?n(dhsCVR<c>@qZu3x6pT>mcw@A3|>3_X({iTOrR+pHr
Hz23sKfIPT5UUa{n><e=yq7m#EFHdB1jXG<r!+Zg8ZiTxsA4&INSkni%Z&R3S#(*cfOD$SR1UFghmn=
yafwyXqsU&=pS3G%*_A6BC4;!m+8U$8`cqcS-F6Kd;%kXKC_vwbOr{u*%J6#@TvIqORGB3W~p5pN<NA
Uj)J)b2cmhn-e=yBmX`T;AOn^tET$R`Kvvmzf1x94y>SJKj8dEQ1mAl@oKbp~C(k@!P!FT~CfrYFlfX
800Jj=d|c0pEv1aeU@fZONpoBNxSEP=qi~h5>J2hM}Lj&mAofXA~jaFhoK%G$QSB}s7+bZxotNkYW1!
n9{qGQd~ZnIXT0u{!}+l}n(J3{c;Z+264ZUF8yHm{Fy(T+p7<@&p>`q@W-~s|jb3=Zyua)w)6O)X%PG
^3YIa4XA<uzmeQlOpvnoa@oyGlJ&-}3RBjn6*w_Y~`%sLM#+nf7RxxAuLe4;^CugNgnnCLMO4^0+Tnt
5H@_nbU3)NSq99%tb!Vrb6paA4eMJDk=>lkY|$DjeNQ%Hspy9)g>B;-3Xr2&r%pfj^5H@07FSOxw-$9
Ly7vrSYp5RxFk&hrwgde0e)d4_7?2F@Nl<+Ml$i$SK?PbV=GSVRmy9T!-PVJ+{4!opl7aGn|m~s1+Td
NcY4ocvkE<TAE4do#6DHzd4H$n|m5N=$E4(8yyuH*B$$;p0DFeL$+KTo{ssA7CDKWpB%0v(>kW>({-S
T6VXvwFkDicsi+Cp&*!nK#s~LW#k|d|PI8zc0Y9GFF^Q&lGe<{RJIkj^k-R=%D^JJ2(yQj^@4RT--!p
8B8Sm+4;aQ5pW9E;@r}k{$=OMS@OxkT@N6|T^)#vqi5-4JSb+(iFDWNRBlaN1}W3hd8o32add-yzYrg
n>Q*Ju=eL@a(ukLH2|g3XzygxrEjZr+gOaW{U|V3x~YcdZv7T&zH3J0Ot_wVc;7!m(Rib66}=;CplkR
IdEV5Jos?{IKIY`{e00l9}TzC)WzsJ@ZiOj@6ZUJ~ZPcyL-8<oZT%QkLhVU%iBnk0%F$<_x0g6KL@gK
)OjY5e7Gxn=UD8+;yfNQt~{~pYTg`E)t8bn@#)~KXC-5%rf9H5XBkw_UJn(W;*`B}wke|1ma+nzSZ2h
Xy3>-mJ0%Zvvvwnf@t97-j$<{Oc7M%JF7})c#__lnS&t?!yZrG)F9-!<i$qY?&XFTE=NwYGj?z<Z`{!
5{t)QffOLxD=8QZ43XkIa=5bx!TtG#xzKvZ}^E{}k*tMh|VZpu*i64h(>W_KF3fm8%iqDb4=pL7<)5N
vy1<xKY^j(Kz{3ihsVFUAcJ626&N_{pPRue94~+pW44scvsyrmk?<O<Yblvb)6s(=;IX3wiJ8RZ4eMa
G%S@HbCywzLXXHd7DhnJM7{|W*5r6Jyd=#ydGV!>WZc^ldJ1;wnnq`iUPzVbfcS!9(KEkM&{@1nn{~&
fJ!j{j*>`XS;wPst$6%n-GKmG#{zsa9$adeR!`HEO<ij)FRUASFO2tys#PFBHU0DTxZNvSXPHf1wyC%
Wq5DBSJPdI>%i!&F!#qvCR_2&<x6slIr=V8$<Jln%D&CWD@+!?H@0-^(^}vVOYV^=NKl<S=wZvSJ;CD
Pfh<jK0`{+iU4|RGP+cvvt$rcGv>QPh&=Wy(C99>COV&z%YuC{Zoxj~UWe!C~|v-bDD*P{OI9JBv~vw
ht%-~RoU`R`izP=<oRAI{P^$x;+X5hzXK97m!whY=`;lb^Qsr5Vg!XNwptT{6RQvUI0oFngS)&?^rkV
Feuog)#ZLOFITr1N1UAlY`QHSZar(lUW#5qHn?2GD$gR;90?s(bAbf|7;|4NWyS3TAYf&>EdM`8oJz)
C9skXqFCtcM=W*rW#Af!G{KeP7-k?s0(#1WM}Z%+CD_eE*h~P;mIydV=2u>MN0{6WPaxWUSw`Gu9N>D
=<4K~jy_OsD)2Q(LeQNo)8oiwu1a0pwvDDICjr`O0>bJ<Tf?jzt%t?G@Z3jcgd^E~Gt?kb9&z+Qzzq8
!WR*U@Ba&<NPT=}N%5$N`GF}Ff)N}ID%r)<%0dCNxSJu930p>%2PX`RGl!H+xCIR?0;9hrRNYp*l0eH
JnzgiXs&9GOwH(+79{dD(N=^QGKtz*GtSHXkixy15ft-UbKVjY-08D<eGU>dKeamln}6ZrnOy_41=z8
{G33cDNR4%ndg@Twg53;3iy2(c}H5RE~P;bFWYyU((L-X(2!2tSaz=@H#y!MG>l(C~M>7wcA-EkGgf+
Q)(8U=_;by<{nc3#PChggV(#LVwY`YmyaqtDI;;Z-mGG0;twm?R@J5P>YI0tO3qoIyucUm`xc$4^E2K
cxON&bZgce|?1oi^n|Rf_%3NJUlZRf{;<aHmFX^J%w|g5;S3NvYO{RKlX+4ee{bK$$*EKG2b8pl5kM!
T{8Ej?uj|v-(q8!*RKMvS+$@fXvzy09%jq|S`_)Qj;L@_{%afYEWj$&AnWIlBc%~+_k&6aH<ilHV5Uu
Hf)UrrYGDKpDhCwlSWh(7lY0W3OMRI<<{bQwAfM?;1%#S7D@1hf-npg$X|2y%-F9J&~jvguEDLn4OST
(ISVGeXC=5DJv=co7n1OJOgBy52B@dw0r0ip(%@g<zw^QRoU6FFxc1Y}Q&@p9xrI1ba5j8vnY{S%i|K
;iHji!yB8GIa&v6W`mzJJB#m0TI5TX_OF|r|17{6(g}O`#AX2TaH-1^iUcA#ZRY=vx;I;P6zQ5o?|F*
4$GXKld}e*YED#_u35h#q#3aNFPk%r==gO?i`uab1?37t%?L-iS*i!iN6>GUO<>!9fWAV)ilG8hA(|8
Czeya`sR&29{WLIedekdt2d>5|*h%MEdPV9?Yu;9<=YjzjW?E9?Q+O)+n@9ZwHjkIVh^X1^T@9$6E9`
H}^?@!(y@K5jWPu?C7+5f^z>Re;_LC@RhB_XFIHOBD*6cJG=<HKuQeQLd7SaO|7T*M7t!r45NnSdjXQ
J(zq=86%wJoyZ<`|N?{+t2Hv4}mbKeeyy+ljosOXJmOD-6NvL8E%i4%4sA>*1RO-G9g>8fzv{W7MHfI
4Vhgs(GA<!smxfF$R7<i#-1Cex}Lnw&JJm9U`HaX2n|fYNpzknb7GpghU<R5I@9?UPmz4UYZB10XEBS
l=CEv@zg~^ha)R^>@EbYIjzkoY(Q5Eb1h>(G<Z`uxhmtJISi#3RYWsi#=3*^b<LHssgqkcJKU`W_k<V
9(yuKXcXhd|-2(Ke9JvS)I2E0=eC`#|E0afW?8ejlyoiB_t<yr8TncbhspzR;!uWp#O%2PpN6c_Ch4z
R_YGpT-6r?!K9{zuE^ujc|kIXU>Cyn-O|jFp;f6I9-4Y@fXF(-%vvGWb_bMEmR%$iQQ@ziAyhfy-f{4
-@n(Jxy5DgTLM?%)t4nQOS`Ss0^so)qzDwq6eHKdA56=Ud=K}<6|R{9IC%A!*ei>Skjhe7RTMd@ySg-
oVA+7qAr#SAc}?*D-EX$p5e(i?sRq{o|)lbs{k(of9OF*jLL*PiuD4jhk~@OkDF{yNsT2PN#a1i2<Ey
y>1)l^f+EM#YO%)`5=xyWT+R@8kM1!$>dE<;ET@AgW}rj2`tf+hEZQf?5I`;!B5lNpTOnj|)J5wf;vN
SUvZ9yeR4Wy|2CiV=g7q;bXl_3V$d9(!PPRwoGu{J7O^3}F2D5&E+;}J>%V1jW@<Y8f&I{%F#8S$%=G
;HV-}rw?!x-0pou0*CLKzo*`>Y?u=aSsQ|LgcztGNHm^3&2^9^u9}_AK+)GucO(KK^<SQa-kynE!442
-E*>-QzQw3;%xn?@Ebbn8HYkCJ7v;DH?_#oQ6phf}o8Kp#+M(nb1%BcA}j{?1UlMw@!V3-z6pAMkISi
8G0K-C;Ja?ACaHe_q;uvceN3ENAumNIez;^k-MrFh3(8`J4nVmlM3LS#cb5(T_pUgI%8tzGtgUuoWOU
16!=|!1ch&FlW?~hfx|t?y_-`Jd)9onfqqk<y@u%BcD?`b7B7#8{eJX2Wgg*wpl-tVJLorG>WmFjsq~
A+@Cu29QRCu7KXm=icW7bY2Xu6tZ!JbLEiv7>^igvO5WMjhmh;`Y_P1|gbo0t!;}IL+6{%t2wweo+#y
>w7?5>^#f1LDS)d1<z9|rnbsO%#`YDpy#xK~IP^~^)&EOyI$?}qrI0L}}O&I{YHGIV~^B;m_3;M2h=`
cZLKl;;!ARG(Sh5xRDs+e2YR55C)_MpbtE>;V(KBA$zP8wNMBAPmle%@>{_K35WHh|_<ZgQXTix3cj4
K){zuX1C8|A#36aE+dY$?{3uHZ{^-Gy88cs>%iZDUDGUCA*Nf(mbrsV1IC7gHAy9XTf?rLhB#8aJI`7
q4qo)g0W{B!Ve>>d^PMBgEGOadPJz%%dNs3kx`YA;CpWMUEqrk~K`u}1QG1llgSqloVk&JwJ>-0TAlA
bLiJpU=BmvoTAe$0M-Dx0t&y&uw?i#b)hg;6~>nT62!WiRrvXMF$Jpy=tuk<NjkOXdTr%P#x^L-RfAO
pYHA)8>H;ceQ|!O&)8CC@{}6pw0hCghnbM{?o-8q(wWKukK!dGQ3=>)`RKrh|MUhX&%M3nI)W7UwoW(
AR3#Ms?kuN>kA10(x2t420m3y9~L!*ha~T>q`2;u~fkRA!sEG3i$m(bmwdFy+`CX_znDS8~6J@-os$3
X9rGRroE8f)q4uSweR{_AIe|kZnyE-!;LI$7t!d*R%@^`A*t&n6!My*s9u0qap3&(ct}sBN$~I^!U~$
J9h`FUNW`MiXSP69TD@Cz@Vl~B8<RUN-Gr~+p|yM50uIwU(aNczs@Z<wqh%6I5?$h;8ii5xXu{)}JG)
LV9!X9I22}1ITsHPvj;tPV8(9YqAVRWj|6*H_u#uaTj!<071I)*`Jdh9il|CSl(5VGK=*7_sv&O@&Q&
WN0)UOld2Ao_z7JT10vPDRyk}Ky1q&7#qr;Hl9jn#M<7*l+@cs!;s^TfupWn%QLy=hX1&ixBW6taw>6
H;PHu*zX;tS^B(f$c>f(TjASvzCh-wC+Lf5*vfor=xJelh^IfJwD23;Fs?@p!0YCaK8Q5S9K2){n4c3
zZu|*%f`>o_!b~B3dKnXMK<<}(<Dw~2(kM!zjeZYruY@TmA$dI_&9{WRVwj4A-FN(ec$yhyM@L(EFwQ
w{EFT^HXlOcdyx{f<JCq?x3MvNhq4gfAr2w-Tj9ZfDE!T^H*ouvGxG+}d#UWl-Y>Z)E0MQ37vb-qyUl
PTyxTzAaQn9KyO?!@;f-u>F#4fyvU@oD{~_PBoJ8IoKlFZZn-d!R787rKn@I7cmsMq%_kXN>&1~-Uw^
evo|CwxlqiZbokrw1;?PenLc(26n+X5q5(AixZ(aE)W@1Xk(E?g0H0itAqsPCAFee<IB-HY36pL$!1N
m~U>v%gWL%s-9+Uk>K%h6K!X{NigB9RrDe+}-(`f}$_lAC~s1?-lsc-1_ZX$iFteZV3IuYu}?2@Q<`p
o64wRakfq$;&@|H(ifJ;BR&{cL<rsfaa1Y5Ocj16Pp8^26GiI=3l!6|2r}o@X{i%Ufesf?Ji_WpyQDd
!oe1IvlXoY}SbSJJ8%U3_#+^k4s+xy7(=ph1PZTTa(tadtAA(ERRjvWAXv@olbw8)`O(Nkzg;FzJimC
!m7q2-V0(IdYChj4p`!z({qv4=OJ3SBhqAo-T(i}M+9GW?A%RczvP6Tc@`O^)tH3AF+OV1q#HN>&$3e
Zq<B_*zjIvAGaOL=+byfg|<Npt{B@eB^KP*bhLTrFMTG*|F|Tl=_?1dR5G<;N|ZOy*^*5S8TJHN8rO`
!X(mFjRbjipX45Vw!#LU<~|}Uj7L>$%n~8!6%>=PSF;y0aj=KL6Z;E9H?Je7;osL8v4jMrxsk8b)<36
0ZgYN%al<Jf7w2mzI0;3b*aWGQY(VtkfC8(n@)~1kG&2d5}i^i5@Iw@TLkZdNo#;S*KjjDpK-Ok1*eu
0nxJ#2dyjKwH+W_a(%VN_irmZdjIFDaO;q_jbfiC(=hv!mCxA%U$b2qW^w!)@>~lOuq|WdWn}e_rM3H
?`B9KBt;h5cSkH&`}8rKxU)Ff12qtUnlRVXKMO6IEZ=(%j_4(rlh4eV0fwuP0_Z&pBN>I0_k^2i%k!I
p9KOs`5?GSah(!w%49ia0MfD=YZ(d0C`bD>HSr2(s_50SyXd>L_*qJ&~h&h7iT@OtLMSnAf6e?Zf5>x
ICTwc{S3|Kify-M}I}}*BzyB-%%1DZRI!ZGl_S%NWc7xlf}On0@*kdL{L9gD*a!K^QDUEza8T{foKRL
5fVda64^~AQHuJh2M3A1eTK1JBOwm=oh={Tx3YX<-ye$KCAcB=E+B$7MEm*v)?1HiqgiOOpSuyg;B7=
4<NIdQzN19$s6zXD@)d&K(DZIGO@5^Y4PpC+*v=BEeJnWHe;}|Ov#4YrX!{|e_9~~1#G!Air`>Ub+R=
1F;cXu1dp8S(_Mi6-Qf$|O-fc9Y|HQu)Wst;u-90Q{DxMs0BFS-BEb*shg_H9Q2?BN&WL~w|$XVud*7
EG^h7R=NyJqI?%2(gJG36gd7G4upa0Y}&W%R1++b3~%zA&It+87d|<@Z(R8RX1=NyftOOee2xfOdVGT
<lw08#fca9MnYN?}bZ_JQ>U<K`y@BeUNsmiQ?|=YFAGBox|lFc~=HY{!QucH+G|vUio&n+(2x@WyO53
te(q=wi=V3r&F5B58xMy4cxBSu${0AHtaPOr?MK(#F&$mFT>c8){uecoj#(0KI3JkBvxZ-1si!SOEyO
*rNIQVY20f(_7=<Ga(BUdI%v|fr5+p;m(-h93m9S;8W8#&?cA^nOVc@fU7Ha%$H}U=Nws|^;Mt2h^g7
gp%P6XPiWM*Nz-PyVeu+HP#fb!{wA{OQnBWS+^{+Db%KbZeSqV|rG<`lOMIIesOz82A-eEij9jXMnRD
lT{OlF1g2cR?b#O7EkiS3z2<v?*4J7O*SiJoWv^*Rci?%ftfl$@mZH!u~tCOYW%wrgZc)(#nPBdBzIu
}FdjCCR>|yRCsZIzShKx#X`C?pGk5E#7Fji`<kv?N^#gdzvfF)ukJd0H~<SpbbGo=Yr-}43nv1%%|04
Ml85S-Wif1s)fLUIuPTj*Tni($j`99X@M0k3bz2>!MKZ!MjV9X4&5HEW`e|Nnv<JX^>?iF6^=y^{XoA
UqLN>)=r-KzM-4wu{-u7jxeo|IcT>G85*AaUsoMilz;i;ymq>#BZpaqeUk8QddUb=N!-Du`Egr{0O@`
?h(8q%foMdWtucN&fr>Ym#Q_v)&K{>KgfhSrW>3Vs*_~<H9vql`FoQY+c_0}maC2NSMQ3MFRU>|(pmz
Y-=kwa$FJb>vz8lBV`*HVWSob8{WdvwokL08u;yqbLlL)m;_9?mrb&er89K~^rtP6#UUG<<HI!H%OQA
3Keezl{uJZR2`dWUyC||Ds;`lQqUiqS`FicxZJKV=gs$jWj0gkNT0%nnGPUw)r$by4@t!WGUGG+`m*j
$<jsRsP8*dANu#5sg>6N`>OK8qVl1Hy|=5bZ1|lhSI!#80%IKJqjT3Y*b&%UbUo&y2l(A-ySMPB?8r#
i-cUO*62(O6$8nuu&`+;td*|+bV#{|g@Vhx!5|~{IYzuE0jbUbn4}Vdoy)C?KL_aSTgod~6*GRysqPi
LL8l&c(ow}61T1$V+`LWa@6r6c=#^Jsw^ZO#5mr|>f8wOd(#0sxeEoi{6aH^uu{Xx69PtYq)x7Eb#G)
^DmK|$ORobT6}!{_Ym!iU4FFiE)3+7VIi)<c0*7?4$-6K2NTzCPEXI2os25isvw5vwQ*BlJSLLRwKHe
mUbcTXH<ME$i~Y1>)jgY>a||%i^x*XwFX!+sfiWa5CjwF4L=3kQ-X$%M%HLsXy_h?^O+sl{{Fe8ZMSx
"%text.

(** Lines 11115 to 11264. *)
Definition DATA_73 : text := "+49KMumIFQ@OFwNN{Q*Hde%wZWka2`wl9ZBA@iAbW@U@k%>yl~inCj~NWxs4#+0!y&=D^HE4CMuP`l1
qnNzm0c~vZ*okdYz4!vsTcqc6k$$Jefn1?2IW-~G(-`zO|dbC+HhyWUm5%E%x^r+LcHwm-g>Nr`151f
3#=*<k<V;nhlZPe)Fiu5$9RMh3JJ&7l0=iyZYyilCdAjJ-XHh1Hl*M)d#FWrOfx)?R1<58rmA=3P3|1
>+_qGYNr#%FREJPQFuC<UzEOmGr@#>j0EP0~8Qik^tFRyi#<S1^z5wYXE3SZ>edtV`U}xE$BZ$>vYoS
vx$!6)+$!71y;T@?i>Jem*#jddobSR!`I-FV^fKNqdx$k+&FK8kz^LG6S3R<k7Qf%V2?A)gFY<Q`gXs
z?bF>h${vaei3TybWxD&ABUXs8rMzyzr$zs*ZKd*o}gcZzpVew{J5|152t+&7{8wKea4@}2^1o5jD}E
(MlcwsaU3NGilAv2gSNQvr$z8v=odhHcAvuc5G?ZdZTh`X9ou6=l-}bhB-!IEg8UEp^N?_Rouu}ybOh
g9xnOGFWykzIQ@?i!!|y!BTQ`di_iP7@?{!Qu{l(_(@3w6C9?gZ}u6aVgL%;1B2ze*$-$hVchzh?Iy5
Qg~i~i2UAnzZbxAGYF?%}21Jy_^lY-9^*BkZG|{<lT&)SgMEt1tO}M&(d<``p~fL$(}T6`t!V`Kc`%g
Z-HA7oAmbKH<i$o~l~cMzl*-ltpc$x!<KRG_EKKz;p4*v)*;8U)?owVcoaf&%BI%xNCemwo8YsGVJCI
_G6jBzrOS58w2~D_t5SSBRd5`+Y>(%U4sQrvAVv1E|de)R^~FQK|vg~7L3c-kS>q#a-z!XOrtRv;r1H
7jLy^_anW?n`E{%ng*kDhe+K3#t;+M!v(7?)>7S>tNAk+N`Kf<8(#L*K>R544s7p-CV%(ZFsL&v;GnO
zOvQQI8K&|fP9hn_)U81n#D0Mt=Jq_v6pb_vPhJ2NH(D9iKI#CK>M8^bFx{9tM<=V`(;td%5^QqD<-F
dae(h-}azHt|h7w<u1ngo*;$~h~9akcAhZMs@MWH^-(aIkGc>)07Quy9vuy79sJU?}R<sIAj9VxiStx
?C-a**@E0PU;#9#*AVLu<mJm#$R7Yxm|jRxPXAtI#-HFsEn-}@+8Uq77u6gWqm{<#J*~cqXQ0o#G=Cm
Cy~sR_!+q>`(%&R0ty6V0Ilj2wEZxjk*6Y~L_$4&>=TJf6VLNEAaKA+7sLLv5ano|oxlhWS@ud!kn~D
MVbK9L*Zt@7Ru;UQ-pk3gM?Qa!PhM(`E)4X$x&Z=5cRmk}v20ROG~M}5tH&x?nZcn{AbaE>)YdPIew7
mxHNwCL8%TH$5GF%C<lq50N?h8poT){iDL=ASI^(UwQ!NoiG7A{uOOFFkU7_*v$^y2Gt=^WOpokxx&Q
;5Fa2fVw@W~T7AT{{l@#w<qnhw&5iQg0uIBFSsfCrx^<AHU8lJZlR6yies8rdORWVded)%1DuKlL|e<
GU=6lmp;ZG_#xV1~ps0&Ch&`Eo_d>bMdGN&gU-|_`{cLPZsi)bKm&YF8i};=*H+K^{Q+<K*`n8Yd$EV
(3^<3M$)y3AFQ*R=;#(JZ5%6g)^s*jmIXe(qJ?%YM8uPXU88s-WAI+r4sC-icNZ^%g%$S!?;Er8Tp`t
LW19gpZ3E7L#<8ydLHjb*iLwwiOaJ!#rLXLdb}qo*ePyB0Gl(bkxRSkcyx^)d<1KuRq)Gf)?hE)Rt7o
w$om{J-wFloa%S4o7jU<DUC6Y|(_ie#j&9ZGz<CShix~(@fC$)1dy8%%8MlCxLXVtTO9<O4eYFb{3Sg
SZT+68nHq<$eRZIND%q$9IydboGV>ro718u&N?_*3<oANAl1Wv$6f5$A$?zV;wxP6O&rN}I^@bXU$pF
ydoNy)yg27$=Qzli9P@=?N(M0Estu;O`GYtuM@YeH?K|T?m*QjydzF!VZN(BMUZ~Fji27XKP_RxY#7Q
E``epQ2CqNu6L-{AQI$HPZHFzM>6Q9wfeQ1fd)Hg_)0vA$E;EvN>u8-IUFuaOcaUw;%wl$jB#dMaNkb
Uy3Sr~V2j%Ap^(Q{oy8I!uWLMJIG$-l5;C|q<<3xW&l!nLF)pM6P_uKOGk6t4RqH8<VRkxR-xT9c_!~
>`X-h)y=es@;{B2?*={24&!NRDo<brTWrv!kLyF<ml`XP61nFte0hhVdLEP|95jeX>}?fWR*1!K9g@Z
sF}VuzV9NRE!2_V<K307k8erEt0C`Fv*Vr`MRYWY>vti(OWJNXNr=Ak!aq8+lIydMpUougW<#6WA*HC
j$btuTl0<-Ii7>g|!J&DDuiS#KY3-rltrk<bAu!$E185b2kVzq!Cc+0()+I_7<t^0Asncx~r$xd%>UU
+kGfn?|L~5=##&zk$}Nhtmp8IzEo>);QZ}F@oywnGrtPrw)^Xu{KY-1DsIF0V-M<oeYo|W{}03c#rfL
{$)4Q%SqS*wj`2mJ^*7glR|*QhjpY%H!YF8q7)ki&h4FjY2DArP)LT9uiuc$K3ii@==v|J!cTQ5f;tI
Muu>Ukl+(Ja+oqY7)s;z$TDNnb>gxm2g+}ongEuh<O;!}HV$SxD>@1n10_^ZSrvEObBG?TZF{1)s*$$
uhr4;S|e`FA373u`fCk2Nu3pKV0#b@{uTK)h!Yv3TDW+oIL&;C9PhfgsuwqT4@1=yy@#(Ox-@wd1d)p
r^~WN)biplm5^4r#FZh{uZNMZIRc6FFLA(?TW>oo|Cz3^;{>tqt_*@u0zDJnJ1ZxciX}}NrV9T_*Rw5
?=D=1)kik*lR4*?6Hm5a?H1?n!A(su>^)jERxM9aKr_2Z`rLy*E3C1w{I`RBjuKBcQ-9uOlLh^`o%7g
zdI4FYtL?xTyf4zr&s$~cC)eAr&6{s0xJAng_^Y}6M$f)ExZy4KW9ss%Iof1=%<w3zjed8{4Ka=Mv<v
T9Yz{;l`fWigv^|i*J1XUF%d@Nae<VZnEO4)jSCvcP3ZHTyU(RbZQ=S0fBQYupQ^{_jHLCO4a^AviX=
S|6`;I~(^4r_|cCgf0a8}KQW`ox7^KM^iAlY`(HhQh40dn8|P51jncf|Rmio^8s+ow4F5?uqo53jkA(
fUbW2F5L(L~wjKiLW1|?11QzO9Kei>E=-emG)#fZIhpu>>d#A8hBPk(Qv_wH-sLNMSh%^+aNyX_TFH3
v7_2Unb^t;xSp6ry4K(k8*dkvlQPR3vF!;&E0&hIlli13BR6L7F0oLQ7ng52<MC|s41*+yL=1o*PTtc
TB))(7T-&MlD<e6h6enoVEz`j`rs$=z8TzQ1q98sxxW7DM@b;Pw;TX}L3E-)I*kG@;-3%V$imD6D3ln
Ft@VURUg$hzj6h+HH>5xl-rg(hQW5pm(w{wpQX`%w2ARfc!+&bE&<!)Y~>oVS>cat+<#0;&b&EZ!|UT
Mz)oh_{EZpURzh7%&`wNXL14_Fb{c<HEJwA}$F4v+EWoR?>ijqsF5#!~9L0|pA&V%01acgI?k1I97U%
dsnA$}Rz?G$X}GPU3^Z+Sp{t`Y9ipa!d)|WLmb<%j*kAQMep}QyTd<%CmSPMyAf~EZ-zL0ECfd_VT6|
`+MAC^s_LCJ6t>5a*HJhq;W%v*GO()kGe@lGmg_@KvS6@@%f~OGY+@~<mvbcoi(X%4<@cCuZ1y&xrG;
(!k7hwC%U>w=>=-z@dY|+UtX&$8tw|52WplBi%+mOHia>TBgcHc=*tODhVfF@Vb<gjmL|Q7<N|#H&k7
xJ@OUFrM>DKPpygGzg_+x6LjY2kHfM<N#pPILgMEX=O(!A!Hr!0NaC=Xp$}Im$6ax6%5(-*Y$CD=*Jk
|_Yak50&o^70BaW1Ab);{&0S}d}1EFv>s&IkT}L6xO}RiuINM+*$_;|lX{7Z~8j73SYAFu;#1%)eb=f
R7dC!EpwcBZUGssx%<^&pjG1#^?6h`=s;CvL~B?cea^(PABI3{@SDTrN8#Wqya6q_bm1s7F6&3qE9J{
Unm=I7^yH;yU6hL(r}6+V<NaU@o|>NoTg1riHYbnOUdK{7X^e|#E<<U;fE_C6U-I{F4_fsIK-`+FHI=
Hsy`J_nI6%XdhzdOs)4D&o99NRIT66`IN3B99cKEX9o$zEdiin6p+hPj6pd<C(NNGqZUax1&JN`g`3%
NI;FxYBz0N%hq@`cK2$u3$ZKWG%q9m$5TSk6rc)H*Um})MGe!5BYAs=&wepvM~K!>XX$_P@G{t*zLGN
BQ@FQ+-0w(UzDHd@|Vu<2{!nXW^%xH4z34HGaW3HsP6eF`@`FP>lXt!{M$Xe^clP5i{VGTS^d_^!kj?
_!{BM?CMz*A0>%>s9ieT;X3t@TBE>plPw9Lh+p^G#;48U~YA4q4bKC1}hvBpAj#-sj8JoM~}P<AEg{S
p|E|)`4&x1em&}<9zdY^5->vo`dsE_@ifT28g>tnllq3CxLP5Zr*=E5#?Z|&w1%gZl~0el+CEJB!FNV
T=UBR1?H7<2eL>qK-7R`88jvttn0_)!^P(!9m~f>`$9#0QOSP-FFKxuluTiR7-f-7PS;2e^B-!KMI}S
<L6+~P@Kc0LZq&XF7$Kz-|T27*<RO*?_TzEs}p73przv&tRgEZqj%oI3Fp`gXfg~C(`ZObdQc5`uU!`
?`*?d@K2DNL%*<iVfr(#YM7z>XtQhq3&)Fmu9tKm_G~-uU%VclOuk0Q^h+*`LS$|J?}R*S-Df>hD{?a
16#_m?Tkn`<tRL`lpp|^gHfP-uYb!-pj3#c&}7LiMOa${En5Oy|NnGRkwbwI_>Z0#_`)o65p%LP<#*i
DSGdE4d3ctKD;N0@nBEkCd6K#?QbmOS8+d#?p12rDA>Epc28B4d$rs)RhZZXT{aGYV7rbBiR`rmTa*v
IjjG9DzZvp&oTid}T6--7wO_T(FNk;k5&l*p<!IS^+%J980#@q~SYH$Ca{fi!-~InE?*FC{%RYWCuj5
!A@TDzAskZ5TTeQbPAB|X_%N6$ce=jG`wOQxcce%oL4As`Xocz<lZy(IRc`m@u9?ZXaF2K(o%)faqz|
S7cKR=i6EyI9+_6*~bYkw)uO^=v?VIzkF+h>)kL&CkhDo0|DBj9v@oOO4Sv<H5?kGjID8;bJ&9EJ<+r
sWDpm1tf-^Sa!UTkfAjT?|7<i;$=tZ@NkX5(yD~IP_0y7MckeWYakew<aj++r43B>|s`?9^)-6SH^3z
nD8?-I8ui^MS<>@3j(ZjcDbu^4rw8|R-#(n4;-(vOxNTg?`P*HS)AI6OIzn^-N~jJ-8=;Y%zw!ec`QT
>h@uO7NZD&AM-IWohHk=|Mj*F?5)PGY9aOE#M_RgXU&8)=$WN7=-9^0aP2+q^@<jrU&xbaSCo_}jQrA
<)J|f$%G4fBh=Skv>>AA*m{3_VQ3S7`2&Tev~rS%M-?Cy4kBm|Hn)S3A0_k~l50rSd0&RyKZcd|pY<6
#ILpHM>;s%!Mf_{2;XQt*Ufh~NYMIz7=Vuqa40xu^lDw27ZD*tDid+wbm${+J1RRN%7ar%8OCk-Oac-
DKZ_C&82l^aMv48UsOGblzjOGMyER4h!+vS&z|lbYLrgJ!P`W!x7by)H~M|8X&_#vc#jk)Qb_s*@bQa
LhAgB<~}+|B_C4(-loi&5mkVh>pW6sfnOe33Z|gY49{b4Aht!%^b>m0&vPTtN(M}xL|WUrl|zzdL2KZ
f>cLU0P?mKs1Yzo#sPiF0Q7h7UcZ)~v)RVr%4ty=^hVPy!uyVaxEXC!EZ%8V>c4<8?|E1Qb_HA7Rz_J
$3g|G0~k9NQ}Z9BjYbscOrcZOTevDinLnzQoJ)8wO@{%}6<-32d+?Oqn!ZseflzwcKuug*KA{>fC=J{
NGdMe7aVam+JBuB9yLa9As4P#fvS1-6yvx`qpzZHvv@c;qMX?zo=^e4JR!!rRP!AKkGzN5Hf^gtS%0^
i>En_KPf|WjK2{|8+3nZn3sn2!m#YlVW@pH^e{HB2VAM{_g_k9})@=4&V%4S))q>-=KW`7xDh*a3A<@
<NY6(w6F2L%*hGL$HgP}SkIIWID2~~!idgK-9I!GpUsMLENVpXU%^s(z;1*i3~h8t+`xg&5p%i6i>Yw
(+<S?3hpA|~6Ny;kK1i4`qo7?Q@RWSx>)14J&lR}ApsPv`b#mfMrF8UkUR64Bx#DTSP=Fz4(Oa}@e^m
YFt&wz-n4WBVJ9Lq^g@NW_29o(S53yM!NaD&%3k`f3Rp&HoK#9IMvL7kU)FN5uh_JFA4kTZql`15+)N
VXRy{>?dXephGBF7hJ`pAODk@YV$+ZwMDx>)JRR4^Pij*>fBK6m&0il6LTeq-~bIMK@z0rzZ0+S?j6x
e)j5@t8cF3VfNbemkP+$FW%B#e2{+n<RA)4fm42F^K(aCJ$L0UW)+hRr*a=@Fa*rIFSvH*1Tosp}5fe
@Or(DE^>Jmpwhl{3k&P4l|Tr`#f{ApuOsZxXMnkop5IWEW>8Ni73u2ysJoL=)OC$n7y0@M*J=^$cB5k
+Rrm8HU+3zSh!QIw@V0vb8l*O+(NIBhl49#1rddgI_mb*L6M3A-cuFoB=8}OH`F7h>DY<N8;t$1LpM!
v<F)&h`Rq{rFEiw9-@zEF$HDSkr!$SRYEI6|3?=IiWqm<{bP8yF~nmqd{_iT_QUWB(xs7>pv>Gph6GI
gmf4#hN1M-jnOV;4p8Gejf^W5yS|sR;6V-Ik+N7gVD;uzw!zKmX$WC|W)>nS2qZiNDIye0IN;p6@gFq
K%(Q@BUv7^@RZZ;V|D)fuE|pZ;>?W@1hR~vWNRIu^0SOZ)w5Zw&h*ju@_~$?RBA_OFv-b9#Q+j-c*8o
$TCp-&cPOM@6{r2yS6>^{w~)DkzE5KiS}DjzY@aPOGmJM+hM!)HhLWFG$N$l{<zrQQWL#RZP2&*OhUd
ZhLQI^K)h2F+}~+K{MH)Y$iPMt{BUnkh3UP_B>HXK&(C{R$P4+Z$@^3PT#ikDq9y|f{Kt~KU1_tBxcI
kb3@YK98jR59N<9xy6ABSC3nXWja_0UyNdyQ^G@9=;RPm9^{vt#3mO}dgj3qk;3oGo96kA`~Y2L~+z$
fXMQWo~|<ZRy!hT`vycky@2%y(ir8mjHm@!KEZvszAi*S^oBl~?;4-y2z&B6b^`2oOBeOl=ZAW!L~=Y
V2+58>;BV-JMI#d`{9AcOCH<K;|B*;~!!B7fs@MuY3ILVD~f;D*f~vzG%&VQ(X;t7Q5FtKLb>0qV1e7
hP{^jx75_ndv8>FzNh&NmIXx5qavLyXeyL<!aDJQKm?*JXzUrYXZ(3p>Lq#6Pb08j9E70UeO_g@GaQh
G$br5z7Zolhd0R20tJh*r<_H|NSS`9UxN{pz&~}kXAe#Ix+qil^yo@sszE0pHyS@?{Qz!E7iOlUpbmu
3l7^GQG3&1BD<2|;p+bw(jIhm50*j+ZKJ)aZIb3H>eEU`3px(t1kXc+~POzRMqb+1ZOF|HXP6&9OwOJ
m^o93>_q^`7Tb=!CDhjE=1z*Ew@KhvfW_dD4PWO&b>RUTCGxD6TR|CeZW!bjs<Wiyz^G5$T$?aRk=;y
Mi3lb98@^Sz?asd1gEQ!qly0i=prMD<*vO-T+@(L;tY;;K%X<K;&P3W`u^fJP`8W)2t&7vL-o5dWe7B
d&7AM4C8Q8-2m4O`FkRQ=jlF27Lv&_e(~-xL=%2E>UpEmeBch`C6ed0=Q9pTuO!GQ@NhxOE{X?$?vq%
cdRsUWC$pDsU>gpnS!xTFsnbjStl_rNaj?a8y6Z6KR@<nj2sB>UH}^K#Es)CRwo2u`H+cwA_#=DN8S*
BV&r_9<3eo!P$-7eiMaZ8@qr$?$xL<Wj3UL0ElXm_D5XoNEBjy|!^;J{ofko0AvYd=F2NQWDI+R=IxA
k(0bC~3Y%PD~=9FMoR&|MLUznlT}!i@F_MY}jT+e9u@P~))O^^io4%!6`xsIlAjo?^N;+^*0RUO<rs8
KCNJmP`GT0c=o&v0PCiTj76WJKrXc?W6VwSoif@I}Wq@Sw7Rpuf*&B=Z5{plK#(z{4JbDZyQt!-knHx
t^0T0jG%W_qU3EsN)WsC2!!t{_w>(|hBsi_6%L5KUvqCf4c-o_AIkRl4zozKqh0crTH5XwVY|f%lx&d
ut0K#{?|c}%WfR^WEW0GrTk4Lc_g0z>z7cpAzuV><qPxCv6uk{lgFUyl&4!@fN=op1qx~&+w+lH1@1C
FE>dNux4yT>_TR6@Cr{Gkvnfwc!9z`9x?@Y$Mb{@w%o~u8DitYj=YP_4)$wE2Y7i`{>H=mO|r|Z{iHp
=)tzW!Ty1%AZWukcF!5xfFF;_Khw)p90z`V6nL9ZBN8Sycv-kzS>14)_v2Zv3*|-p^NYeS71R%;#{T{
O+P3;THHE-u@15fe*Yz`^mUa^z%UN9+WOl%ZLZ#*z1Hci0Dci?dkjEbg`Y`;at$CTLtLz=^soj1!~n)
qE&9LBZ8Ci8p&g`pj?!dAc?q7y9=@ke^_gniQ_f8^zDsumBwVPhvQvoHG_fU**oB(HCTu28kQj^CFw1
^*6s0;9-|GaEfw$ji&b<Nz0lFhn$ELys}EUl)wTQUpaaLL&xiFDfrlAqlq`!hs!9tsr$}Y-vqG=J*5T
`$rXL3N5sKb6fy0f|6VK+chKzI|DxYywV$gJcxYwpSbqDs)Xb6q+@|-Bg3no$~C=D;`x|)?|o6kYd-K
j+StM|a19s-VD;3&Nzvtn&j40gtQlA6FNDK5hIN({e%Ti|ziD;_6J%fK43*~5H<pHJlUe1=5J!d?BhB
8IPc%b0HREbU1jOQj&I4CFGqcB0gEZiDbF5cqL3YVLW;9iTfp7-gHUI<}I>^Ikdey@SGgA2d#CH8M-8
kCTUXGggH|t~k8%!1>yF&U8w^ygHx&mPZG<eKOApC!MixhjkPnv^4DwF=#0~N?}Tw^;2hVsOX-f9)CK
Mh(C*&<x}>OqySYPoLAZ&j0{3a&n`W&u;gQiL8}a&Wf3mx3*pP)yiiy&$171E$xG56XLdohsONA38ue
h5)Acl-pZ61UGRCWkah5nkv`8PL!tG9Fc8Qo1!>QDajw<JxBDeNTnnZNMt1wV$%{{N77um30h}gJZo3
Y{_VJ~%tWG${Qt0f(IIA?AR{TFci*|g>VE!_Q|8~^VB{HJ687KveU-#6Ne(2{*Oh=AY9|G^tJ>D`b#e
(StqZ+Su=`6&`_D7#TfDtQ~PhP&q(gzYke8;Ik{F0DZL`<B_R%s{;vC$%?5?3QWCFOV1~_OZ5rV2c3!
cMC2>?!481OC@c1ykRg6?IA*#?0*OFu3ofvSU~&DU~~^GHY7&q9q>0qNBo^g@3nXvi~l_mle?5dAO9A
KEB^mWB>vF<{-hUFevic8SlRr0R0jTu^?pHRFa0Gd1OLQ&{{)qRZ(;f8sN7BG&spJB`5u*#>jFgE``j
MZzh=aLrbeMV+PO1cphG_B0P{*1JU_(qd|VIeic_h8Kn-y2(o15msE^*UJ6$06(<8W*6O*d)=-v)Ub|
^{%3u@o&t*YU(FuvSX13m|bK(?X^0jRlg+sA-Jtlh4MuEORQarEwkpZE7tE|1rdDxZozIoQR|j)pTKa
m-37fnqr0X7CBHJDM--vA*_qCe(V1tb4l6+j``WxS0gpU88K*klR$-?O#D0ZP+p})QhS}RWl?pkeQj1
NZ$FmHvKEO4LU~<ym7`fnm!Vw*yh&Ft0;nnoU5cY-jvZ8#}_4^1zs1DeE|@a$hKPTTy^lMQoAZ!pw)2
c_{xDAAJ1_XoiK9PRKy(aYFBD9IX|dT{FjVaROW=y!56?p;dELb^0Uo)t63MpllXs9qtIWz5FvGRo~y
)LG#LmcJX;b(K*hsde;##&?OD~MQ#1^He}kmp8DtOca@n{nzk)K<O;&VV>g#yO;zhr)z!(!&uqqJMNS
sO{oKe5}QyZp<gHUnlSW|X;jY;$>Exe1A!{w;j%WOz_7O~6a1+Tzs8iL4}dozg7<!RZCZc<35uI5DMg
nWte13DUph^}1R+@H=$<)KWX$4fK?@xm4n@DTV*;@qRdOdhe2JjnDYflv5qzX}eALetDi=n%l<$@0mU
D?aq)fv8rC2(ni!H?9Vt7lNK{EKcOBe_!0>;6708JWn9%o_YjMJyMPrwQi78HZsq?<{hZIqDNo8tgKa
XI?!1U;?LD6lD(S4ZilY_T(G?X*k0`M^@SgWC;se`FB%g+J^ee)bONGK9H&W=CNOx{kN9aFIQ3!C=I^
B%@mpb+@^@tO-%7gp+Z&C-K9z6;Kd%GdPT9C@@b=`y@EtPg@a-8M?mlX}wlDObDBMf7iFn7?kldN)?l
nsO+A`-;LHS!rIQ*Cf^oDb6zjy<6=)>tJewTT_u^)e{QlP|+&;A?x>35EM*EWXUN=V5*8=w3weA@d`n
Ok23BqB7Fw%EVvZqrXykWBsu0g1QV_$On=T^5&v#OhrKcr};krbC+fNqc6Oa9};w`>058!uq-b`)VH`
@V+gV`>xo1pqem!=$;FZw(s@5Epv9k-W}Aw9DC0M_?z(gznls1c`ARK$-i;`q_h6wO=0^qZ!r5%)#D^
B7^;hGVJfQHD~f5mYj;Lp%Y2!OjhTuGA-tl1A5ItGI1`fO$FJT(@Y{r(rWYvcw_;I)F1+W-(p~%0C2a
NZdT5N6a0o4rK}(T6Eht~qy#)dv5~)jj<tWg{6V_<tjx-4;chQCbdF?QqL9Yb0bc*iJM+iC~S&C$=Gv
a)7q6@P<#8_^X>J`{xJhU7G4#kyVlQUf*#kH;Bvn*W%{dOnVNmcX%dNe`uN!{*IINz3%uwY<0HaOy(H
qJ|jhYqW3La$QW9Zj`yj@dM6l^fytV&6*k9Pd4h5~)e!h(mciDBP<Bu9NmSF|ZQdK=h<H@Q9H)%HX*6
5B6)dcaa>dkCzv90O}dL;9hkdIU6Zu>R)AN_m4U7!{_|%zs87<j%JMW8Z!D}YH3(~y0@jGW8~qvLT&X
dgxWW%-qvdgxH%UodthKl%2nck_A3a4Q}b$NFLb(y&>&(^#J&Gpw`cK1-Wzds5?DHuX3BP+o&#gBV)r
}eZ}k0a)coUhgCyk!)z1VUNmYv#eZz3r@fp5@dw%p_7@7`u!G0uLp!FDgz@x15;+&V8)LkFOiMo&TnQ
EQ&)hZ)2y&lf_f}Fv0Ff}#s@<*e=o=mw=pka`n^K=U6IBG8y4DSA*HL4(wc}T($wsc1nndUwo)sr7WM
b<gx(R5;nM4pfkmU`9AUQgdSpe~!U7r0KFjmarsTq>ZLIt>XCv0zqp@(rU-r9Iq|Gxaa**S-M&J?^Jx
TWkyHA4AMPT=FxB`Fi?y5JTf6N+A?NB72)UN#Z}%DEcs63;i7uwndwMO9^4`jXEmaMPhdmzUbY}y%D+
O=MCxfzOEzhR3;Vd1%G>X75Pts?<8%Px7)ZGykpdMd?QvLdyu<j^sg8i<nQU*9isdl0XOzVz9sjz%eL
$H79@1X4m{esn6}}z+iW1W%PHYIQw-l`Y$&`Fylp~Iy!Rq)mn3idIQaKsdp|-<B2dEFT%F2-e&x#cKM
OHu?`EPKfoOdfum27)>GEMR{Vl}2kNwX>%=a_-HxSdywx-SD;NxcJBck;@5BZ8#j(v8WRH@agYYN_-u
Dxxw#^4FHlKWU;mT-Ka3vgGU$?g^*i{);eiTIHFt%ioMsi$z6J!yT&2)@s+CLzB3`{*6ij%e%BhZEZk
gTV(1PH(F=mLoaTjwOiK50rSpT8pYZa%uE!9errWmz*DU^VM1>qB4XbaBu4PFsrL&s(>L_vqUG^^t>@
>#vCp&f^FgREW?*@MBH0I*SK+%^dvy8uttDS5vygIq??|p_>^e?Vx1+5htqMT4XB?g<0{1>zdh2EK3$
14$UvwE>v71LHh;OkB85E*MzEk)#|u_R(uPqeLMta$AJIU+h)XhRn%E+c_zw`n&Ib#}SAVLA2Vkhy6q
k(Q9BpAyq5mt0`C{?O$mOleJmRIPG~8D~wc1>*8jC0(b)z4;@fCxha0v=KIRiZ}502>gx`QJIDx@T?q
jq+k)Mvs^CfuXi04uby1q`C)tc?KG7kOqo(YrQ}qFD#PxI;4nh7eH}8El9Ij98e**ZLA8Bk6R!b&Au<
"%text.

(** Lines 11265 to 11414. *)
Definition DATA_74 : text := "kQh{QbNz*vu9IETVwAl^ydC4K2dL@u5a_u{$BxoV^G3zmRCJJI<RYl6cs}Z)7IWgE3VMLk8W%$zq=_7
h<@~%pdu#xn<v_P{ju#@YhhmK>$VR}ZIAzy{hO9XX*n;rdD}C_9F>NJ~Q!arhB=a**j;4oEz>LPDcY4
_9!D~`XNvUGvEN9qfL`yufcce(?5PbRlNO%7o#9Z3AdJNSc<IAtk{~5S^I`=!jPl`s#9aA6@#ZVmCQ2
nPeuGqdlLvQzz57lsl+KWZ@^6+=D%bo#z7lZFY<v%Ac5%uOe=uS*xXqUU&SV92rZKfOP*)5ooU1D|DU
?p}OL*6uJyASd!@<P7*Ptjy=g+<B#5W&tqAad_o-R8N23%(c2Z1;e%UH5K7z1^ESeiyvQZ;vN>hn@}F
5PV0aJ)8ONct!W>oZm{Fn0q2<`66vD2lvS_TdCrPzd1W;JF*x*s^9&7J^$*~%(MF6ki`hAYwzE#{ohc
<X4VhlVthrFk7HkE0sJ|t{CpO`Csg@5i$C=F+-*K*R!xA{^#B?X8qpqj!VZ3i*)vwP>zz8%#FN)vs0^
hpf%O3x+lcK=ewAPHQp&SyU$ZC102GOiPO{3DaB{b}!tMtNEF3h+jM<iyXRMr*OMc)UnK7y~S0133c_
$y9zWA?ajJF;D=6P(2;T2CF+M<^-mO`#FL-8V?MJ0%dS9xVuMtfKbV&)s9J$$;F!TN9l3#!#y3+Sjz<
|~T=9-qv$C!wo%?Le|AQ1_&w)4nG5kCpTNiX2||r>^ykM`&8wj36Z0UW@}r&6rR0H5o<C67j{mE@c%V
LZ%tvpg2_|UDSbE`Z-r!;%r1pbXZ5VIT`F7>Qyu%0TMbN^bIAEOSv}7x<FzwoCK`8VW8nN#W-B@kR6J
l%5k%yg~!ai>a&n_-Jw1t{vZKY@JztZD;ALrPZZgK?jN9xK=DWmNFZh*6%&PYHGJB*SkVw<xe8Got;-
gu%HR>SfY;HJYC$P4FC(6ekavrFKPbuC)9!M$j^ohJ8lxnns5rGo9-amiNl^Om#EK!SnzR6XfG}d1*k
eA+*P_^d0Taq7gv@vBin(+}+?1onV+L+?{NgnnBdub2#Isp$lLV7}fP-tnwH34@=hVO6@k3xp@v^!eA
9$ma_Zdrrjdi-5+Ki*+6AFuGBNnh;8WA>t>>F^NM5rv(lsU_T54Iv%pSpoOfW+(d1oai^>gv>2-|OFg
Usj`_+i&)+$$e4Lj@vd{;2~^Lkm=9)pV+f}Bk%rw#*t?}J8N?56@rX=ff4v=eGTj~YLAQDL8b3_GXk7
s7=M+KB+@t78GY0|r?RP1_e_`7R6|8!gqW*w%`)g1_Ldc2H2c0>`l)`<Sozd8{?+3Yj}-RfbcOXMm76
X|T8+$I-A6AyK~P`^8T#XqCRgmT9Ij2Wde7dBSq8hc3C;r4*<Hf15z<`e2oAo}u&>>7kT6;<<i#0OE2
p}N`o{ScEO~9Qk%j03i=3aGH62{u0JPIaAsO@W3hiExaH0gE^I0S;71yW6ufl+cXkmuIInCtmiq`}z$
VyySirZT!PYMAjFIP@X;>z$L7l#aXIC9MCfgOb>$7S1M=p0WVHo@`@;m(&+b5#US_s&k>K8ZO{4Pd}3
sQ@3rVo*ebzOZM)V&>RV`f?~APkTiVn1J}=^T|;KmR47`cdyGJ6y?xUbfbyD0KzL_p=M;)H+-=JM8Fd
R17nCa@DaXFmQucDBgx`*XYl)UL>P(8y8Q4IQ+aNV!2Ri#D_cOR1g<UH=JkOktrL1>qO$H^<x+sp-fP
`uI2-guRmW|0e-TrBc&+aC$@eKhI{ENRB%l<TTi@aBnqKD#Dcd0ydoHo(SIHt=-OzCsXIIbTDqB!cmo
an0nUcXj17<HpqTU`w&=AY#Dk!QGtg~_K3LbmnIGeST07-+pa4$x`AO~{tbM%^vnGJ#Yfrx=q%pn6)J
|%Oy8~;WF<Y$46z;XXN82Z^Y{}2%E=YL1HF$hKwjD|>xfVcl4#7~2w-8SuQ7K!8g=HeD+?2ah(PF*(w
4x@Wob&Ghmz$xBnc=YqqBx*M$-y)YcgWj{Sdkpn<Vc8h`E*%%{viCl=2ROU?TCner?iEG9s`TAE^WMH
NdnVc6>2{3m(<9!zop=ivM{m8k-TM;SLoSlu#qSg9EjbtOw0c)K_V?uShv^JO?co!=8>s&-C}IzLP;_
^{W^|RXe01R<E{%yx@A4iLtvR%<pW0;p;E4kKHWc})Hot`;(RTsS9*F>-LlIfH^2Yk^r<*mNnYFx_^}
XFAH}`%zXb+V3e!9=cG{JdqQ3BuZQ5qkO_iuyq{`<RqlH>nmn0_-{@1q&zdQ{*LHB#rOl!05qfyIgjq
)pMgyCvKLqx^g^WR^{xHZ}eq=H6?|QEc5Byyq$Eo<3W6v&Z-^@F1KJR=UF*AtYf0;*I(_`o)^1$f(N9
iriIoPXFCKMvlk`%wmDi`sU~6bU3ZFYL0U(QzjDmjEE4T%cPa0)M3A;UX`D&p|N(tIptTp4Gxb69cGt
$I(`J#wh|9d<I-Gvz7lhNbu7kap<zG<@>0~wbZ#aQnGC#<Jobr*)bZxY!7C>H%&RJ)jT+NhUq|9Tw)*
SZ03PO_)WO`if3?)iOQ_|Zk0vLI@ss4xm<|sjclc7{nj^jq@SSco-*7r#mf!Auvvaf6aUy@=8ZHtFTd
ie2?wRcY^{g80f&q$eNx29aLW-4#&cRMuy=JN5^;KRNi^L<6t`w%gDx#A%Q@lS{$ieqBm_p{uD;y{dD
%zCoWLAiGzG@`VT;3047{b%}a6gf!Atx{!9#5*3%(|I7|AeL}@5gP$c&{IM_8G4OIvMu=^1FJ?$J-B;
8Sh5px2*5SiGM>B_<!qFey2M6)fK*92r-(ai7&gGx0Nn`mt_(Nh|{6Wx0+0X0`48Nts^8@agYLZBhz2
&dTgHB<_B&*-u4rFvz>3JZr&Wqf~9bC0yp0;#z0jF9)peXM@=U6Z}wMZnSg(j0drtJGHN7n^N9DNMic
KkQVi5;ChveHiU3y@tch<$OCkoVB!h#?WN!vfAW%YsLe0(l-ENb~|1#7#fntz{{kisuyyS6Tb~UR%@o
BWY37M`oYrj|Yw?T4ksdIFEZhmHa!m263mggC3L7B$S-EM}okRk-?7P1g2zb7T%{s*Mw-`6lKn~PR{7
K14MyVe7&Qs4YJCAer3*=B0?Os@mb?)XNeS#Ard_5wAI)@tJ41VP?S%Aebyu;JmKnvxw)lxkDpKD+nM
K}g>7Yk(xLKb5PL&^P9e&J@0p11{UQ6Woppmh``n0R~M9+GqLY(u$wY<6}iWw&(8xpg<_)s{knURRk0
SK#ASR-f*3opW<HD3N)T&n+Qpcr|;t)MRzPZj04)MkRQPPUDU6qQ;sDitRM}yIi5`v2YIE4Z5CgT<Wk
D#UYr-VsTid6T=&)7G?}4!$}k}>IwTB59u_nS!bcv~MZZ3<#@C4RdCxHWJ^dPzP8U^?f8nrDQ<+g^s(
*gEk33%jAL99E<gC{*a2uJZ9yDu;m%gd?CbMAGnIVDPZ}-%;y(&@I&RFciA%cgnqool^dK0?%d)yPE{
Y9*v*iJNIg2-F+0;3^slcj&7{g#xFiE^#s2}g!!r#-B)C6Ycv#M!O_ap_^eD`}Kbq?ly!7**FU&Ir|f
HM+l#$UEv8fp&I|aYwp820#xVY&Jhzl^>|U9W5JhgWoY1c8DxGnVhGsOBQlQ*>3?*=&K0mmjO^czV)t
Qa~^iR?bsTT>a0e|7c{7qM6h$(&mF5F4fS+;X$pL4JPJ+Y7P&y|8^oq_QOrmu80w)HVkdZAQ(N>AwJ;
!!1*UKb4OqU54t{?0OjQQrnSX@09qHqU-or$HK(8(;S6bgXWfx_f_GF3fbj_~}v}ccMliaLhwczXGUR
2|HF;h3yRY$ZA%&NF?OF1Yqu2i&i$!$-@&3VMD{<-Hv=5d08o3*C4t0<$kILYn#tPwBl&QEWu?9w52;
cV77UWd<Zd31+CTny)-*H|dS92ppk1|j&V>oymUe<XWa?A!-C71wg;xW>N^z7UYR?$*hnrfmMxxO!+Y
5ae~d5KN%r-fRA6Mz!v4*LwKvzkd5r^%(!J|MRzFoYq~wnY{1zZ#E7=5bQSs$61zPk)PGC{)a<-ZytX
+%nx)RUy6kkAUH}hAnk_WK&yF!?kNjmr68}x0*By3Arg@P#a}1lasarqx7rByR=q0TCv6rDXWogucZc
BS5MUHY>1|_YIIv%z;v;{ujzDU<02A2YJh06aX!OJ0J&EMIhy$e8-mHYcX+VMfqk*vnHWC5cgn%&w96
$n^LF64n1<uF@0yekhFKa#I4kY3T_m5J^uT>wLpDc*tZ}1iRl!gMbQQr*QW)abQx=NAB|86bpcO7EQA
?9k5wpWs-XfFGPyL_@vnCgecyKi=9^At=_(f6tAfy@->ivubnWcvpL-{v{2fSbB0K{eyHQTu)4w{7$3
r#_2gtNo<EWwp?ES6$?l3qE!Zp4fo$$;}TC&DHiUgza&w>7M5Or}7AozHJ$_P3yV26e}Rc0G97<&`tZ
U$$OwaGM&92i86lX$$)+!%GhIaM<gCW?bP8qP9`kmBcdU}87IqxY%syX#Czti=hjr761fn~36fFH?5=
7&OJsmgSv;wCJ0ntyOqw3PlbijarS(-I3wc0g^Hl4cM_y99-{aOptVs)EUc^ns#UgN7n@+POncJ5!;e
mNC944r6Bor90rIYK;!;Y9N>$|ga@7PD`W?ChNIn*D>`{PVfQRBC8?{=;i;O!&DLRhu%mo;NDYTlh%W
a87s=It9Tz_(jisP`IEfG7vFvtNnWd5Df&gq-Bj=I}b(jzprD$DTZs*kh$aT`aFPi&>2+V%(8@-aW~+
RV<i0b%N-~ok%gR9XtvcM@Wdti&jY!UA&^m2%{&Rn6&-DBNeqsa~V66>24giTR`s@Z3+YkV_=>m4=2_
(9YQrQP89~mlqqp@bk_BFKPI6^@?GLrr-t9|qVb!{K7`lYU~ASXD5!Nkq3w;^?R5|$=fKSDp)Jf7)z|
`IlQk!;omCp}u~xB8q8)OoU(_>``}JVAx{XRu*P-qWgF~ZgVfA1o%M#lY#<LlARs&7rq>vxXLAlxdvr
q1&hfV~+7D6FTJJ>v_JcQJ4V4xNi$HpuYXSr!>K}Y5qm8p`%k?S65ioG9OZe20eohGl#{XB)?j?Xa6X
%QA8OI|BmqGT6Ez=!_S!6*FqI^`7J;HT8$&vGd^MHds6O2B!;`b~|or>^+q$$-L@KmSwN>+cYR1vSRG
!Y(d>9FOcwlWcTp=5@F~29b+CWUo01)MuOAtO)gk&r3PnRxR!=SMqf}b^B5Y4t(Oyu$nW}VSGON<rN#
8WUyw4V*X`eWt4AD7t?#P19W@hJEBZ9`@CDiN0(`B89cP!8}idjIB8;Hr8~hah$*>oNz#QoS$jqCad#
ILf1=MOWUI{06r)}Dvb=GFL9)sL%1gkBh!ic=1r1;6#3=R$46B7^bK6hwNqSJuokPw9{(vZyl>>2zdh
K~xuKs}@1v3gy<l5*R#tYG`5=gg)eP$OcD#Iixh57j@yQQYN-XpPtFv}-eg>CYD+6g70k&OQo5xvxxB
e#30C7=2oadM6l-G^0$^4kjC)Y)M#z_mVgj|RHoCT^X0R_e<&LpWkS+;h`1UgN`F(1#whgp&9ZdiM?+
D3K3IAP-^^9E%}oo_hm*LfxW@3+4&ptE#K;oGab*8ew>{(#zSTYGTh0Yml%vA_}yloX~4#X%mv~?Z<L
wPoe^m($O(cPkLMqvgygE=Q)wLM>kx%aPf);Z+CDgKlRAV8;n_0((W+bRtV_@tKRV#KA?LhWnF+al;B
;h%Bw31Nx~wKuDfTH;d8OQPW8>@;@jZI`oXC<n3%9s;i$elm*Y8svcWLyZB^k8LL*Mfm|R30qXYzz;z
`c7xBG&iaHbhdRbai61bbtDK#s5Ttk7t&t=Z7#GLc@C?orx1@S9u7BqbM&mq@Nox=tiTGfQV>3hDBC*
geY;lUo9};N+C;^ZM!s<ln|=pOT<T-sOGV)?+;W7Q}7drFGoJfMMYmJN*B3&^0CCegbR%PmK48*#7fa
Kj?k11c6fo`DK|dh+d?i#E8s6M3*E0$l7oZ`oWJtfhwjf0gx!&@YB~_F7bx_aL`l&*cCEBwML<Uyp5q
iH5T?(7zI^PB#2g!G)P3V={rbF{Q|my@~!+$(fk$<2P&vI=#pXI_>9g$`%3&)8sDH8&{;*^Qr;v0d1(
43Y5NHFQXo0LLCfv*?H3?<ii0lKzkqH^4d|Mq-vb+xjYMtyr%snQe7pV3N(T9>RD4^00elOOSTJpPrb
?6+0feBzRUXbE3F=;_lP4WO#N->CQ#OZd4;|4n{}Z>*A8Myk)+X2Bbqbez2B^&B^EPlWZFs0kt{<@r=
q<**au~>XnT_);c=6u0n4bT!t@-oRKW7g8cc=b2bLhV__02#1T}1@?iRYOA;5n86&oMA@ivAcQ$xENw
t=Bo+$zBsO-pYwF(LJ}n<S-OouU8w_Fd12II9<~Qo>Y!>M$V4z_+^dksM?%!QLTfMV|#~ZY#fV-y^k8
D?4w$5Ah%5B{f>{OqPcs`9v2#xKOYYLIVZ7Q>pqGjQufb7l$n|y?R-s_HEorH3@LXToKsq8qLg($dsb
j`ugp`9%2j{iT~x0KyvNRpBO+2V%6C1Z(XNCAk3^|Xv~wQW9o=5GUl7M+(*8M;WI7-xnRD{xnZ#_SK2
Vm4&HL2(k|^0^e~rd`A2-4S_BaN8r36jeroUVuwWYY*GZc$*4PUn<XnMMQUM{LgnHMLzpVX802zf)>*
36M64|&U#%OA{KCjAcbZ7<F1J0Y;`={r|baAvLig9FOs6h*%N&H?p2;nr+)d=JGg*=1L0dx^|na{6*0
gVH!3RK1+LLHYquT7!Z;0n+AeO$S%ulwII}ezWc1%G?f6Z$HYDZQHY3zHJXTAj4%2j{x;CC@uLrr#L{
4?DD-_nKN(ys~VSaVE>7W9lil7WT$!idwa1rn^JPJ#z7}X969yIY1}q|;)DN(54kd41%D^y$3WW!w(S
=%V8y8p*dK!9pafhI2%>?Jw++c#5RKqOhtoM}-cH=EBsoA)tpR#y+d!}HX9B&aqJRUylsGOe#fnqRZ&
NqH3G08lHR#KGQ{NBieZt2xN<S_DZixf`pTPbJTmTI4sp&R?dpv_3+dU@pcQaGI-HQ4iu>B?y_dX7KA
MoAB@=re%=*Ov>e@wO94p9ByuatgMn|uHLohlu41|x1Ge>`P#8(CbzEo~nY4hA~CA94w<jDTC%7XK$F
FkCio`_+_#jFO)@W!O&SCh)MbZy)3N{qz~|aOZ7iVAcMC8%+s6z8BE;#ds6LrOJ3Wt{HZ6$u@nlO}d@
*V+-|wB8cd!YI#0SEFuX_dbq$ZDCa!J++e^5TsODx6Ec^l2luNJ!11^6b&0<%_0U&q{Xbdip|95Zf3n
m=A8WlL@Zu<wVfpJgrEsjgXNbNeP0)KQ&0<_m(!PUQ5pLsssLg@LNy@dBYUXr!1<pfVbZR*5vEqm>7c
uTpAv?r=IAO@L4B0AN8dy_}5lWc#R$@|kyl=0ZKeEmJ?h5V>OP2L=i_}9S++!KH#Up|otmhzketRS;Z
+}))8s)tbV)qnoX^g(_u_!tmN&9k}mGm`wlyIthXK7!3onk1Q8x2uw?O|~B<5_y5zD0-_9LZ2NrQW#<
;BztX9cioe9w(1&#(1IdysD<BQBHX|sT8s;sgsHyd-nWPuQN*>RrXO_w>9w=pG{njsj7_*XVrS7LX(u
KcOSYDR_dl3tT-*Ns&1)L${bfkW}WPKS~|M86{h(Q>J$F!oiF>Z&Y9x&zYrW08GLNoVCV3!-->_z=GJ
MI_f=kx!|)o${F?t(Uw_Nn{4)0c`b~_-ynE*TC9nG5lxv~_DEsrMKNmRszje{yD<po}^#gXsG4#uXAi
)AC8RsCHSP<_@2of~5WekAJ7y-a<!T_8LM2^3vJI;V~2pFcoK)w$&9?+l@8?Y3=8w6<b8->}1V*%Z9@
xD&{I}ZPIh3Gr3nY?=xNcP_e`{qf*LF-+DfdFTLf&?G+rcP!VkkE|Zao6-++p*zvprb;Ah-plNv(We(
?F?v%`0L(-6(j`v-@C&_E}Z{Fvh<DS*!l^4@=zeknkk(=RkC)D`+K2-y5WaOQ%;j6TlW)Iwdu8L<LJ1
icneZ^<Jsl!P~!6Kw#xLGs!f`7thOCfwyi=j7TnUBSCeqBna9g4f3#E^BG2>2w@M2mB#%%Q%7X!-k$)
T{{(R8y$9%*~QIIIKR_*m2PmA=!#<yb03HeD-K=w_)oR6Q?79#t;2n4PI7SHrWl;@f#eXMO_WxE9>xM
!-h=G*>rh_;&2j+-UeR_GB)x8si6BD<~D7)Xlt=dgNhgN&z3xhUR8c!%c(Q<9|dTe-%Vv@&`M=Mlt<|
2W1pp<f*I13Ldt;2h!{VLWU`gWK7T&G5WHxZIl0j~j{h6GjWp&BOhpSKah-^keJDj6}nTM`=fT{mS_b
)cOL+<8`|)PWsai70SA@Gw0fsf2?R6?p{UD@6(rTDCUk2`PFrz^0eW2NqVO6Q9eU!C-0p7q(5q}5D=r
r(3o*Yy%qNp?yPiHvgTFdj0064B-f`~1im7*KA8PgcTpu&AuQ}8RtpPKH0ymFwJ*`8W+vltd8fp~%!y
az^)O=9D)~Aihg@Af<039ZtvWJ=cPMnh<@R;Q)p#k#L$KH+8xe<9W*edygj#!Qa0gE~z9$aeK;f%2nC
5uu!+5iEOFT6LgyndUPA@o^RhtjO0w3kF=C@bq8#=cd4*69$P;x%Bfo-0<N!!=-(S})&ALRo`(0x&=@
@KD>vp>3Eg6!xcL90cE?N#w(cY5tErAZ*S^;jRC$%($^nz?;PlKJWLyV1^^oo9>(PG$-P((PH<KGus^
Qf-vL=1|#Tnyvm?5|(f+Uy0H3=JDDOPDXp@#)}N`$mp4HGa{*Z>|luTb_k8I3a2JL_k3=S#GY%1T(kS
SkfLramGJgF?z~)6O5dOHQ9oz<NIag0_6EDe5t5Z=3HGJd3$ZJ*)V|wn^nhP_<YAGh{W5wj^I~al`hk
q7)zBH!0aafu;^o+rg%uaNp48j3=~WpOv5`rbD=p|T8*3b?9QZD!D#ysKRv_l$PBHm#xMEKup!2<d8Y
pUe#~{&~7GL0W<?^87>cP_dQ(I1My#A9CoDCOnKeL(qQ0B5(NRQJ(&iXG<FynuQnSQdX|AS#ZE#+Sh@
t2uGz}3%yHn+|G6fEei1_WRj2t92E2hBlaHK6}|3jxsVmu539-tuBJpi|jQC@2w3-(emKB=TY$1g^H9
bPU?KLAN*iF0KJ#q+it#7Qk+Av&vCWCWF442RFlrzcmfe1k?&9`M*gDFv1`?C<OxYvM4Bb+-&SNRlt0
fgI;v<&GJGfV1A&GaT|*GOS72+vw5}uDpOeeWHS9=m0akPyni#9`#_TS0V3OmZ}H#pfEgl}{f^B|_pR
6RVcZ1ShXP~+?BDdb{-T!Vvoz+dEo+MD3*_*i50P2!TWySw+MZ8_&DYcYYPQfnneJD!g?=^Ne`2)eqS
J{xXZz%%$OW%Hx|PgTRK|p%<L9)0lq?*6vJp3-NnN=SVnx~kmJg1T%M!$;I-;89;#6m~^2|ExH9eVk?
LOcS)hULbWI0Jnnm;Q^uFB9^<jyJ7(it>99br|4bUZSOJv@z>l4)z!+}TCA)tJlkqccYnaj2gApmYrb
)ssGMLn>8w+yAF(6|l0%Bj{Mn=U^TB1m66FeJk%Oe1Z3QQ}YO}%C7^Vp4w|G5;xh~9rrw@vD#}H?4Iv
;3{3A<sE;uBRPGZ!GtnDq#}0NZqr{-hCqwf(YdK0!F7V;0?a=-O`-gfhExPQPT?wDM?c;~=aB<JY)hH
99CXUOAqaR0wxTv2->s@g9wGH|^WiZEwEf3cwqm1ymKjf_|D#xY~#PB+OGh)!sRty-igB9S1tS{>1p^
9AP$2IR<dTMq&jND&cQK)w}#}p!6$OXuh`u%0cK1k}s6+|ms$J3Dv4z|IpFRYBD-L!WW@u3vy8W$C}w
@D4vTl=+}hMv#b0gCd(p;_y3z7v721r()eT+dUT5VoN+S~ve#!@>TsJ4y=WCPX=1+m!Ard`-zgr7#g{
tBMtS-?vZRqT848Mv}DJ-CyC&Uh{DG91p7_Jc5&lBn6D2WLW5u*6NeUtaKqhJ18FR>M6A-*s`~m2PQP
ltE|=u7evf$;=bb6P7(aIpsjv~%9e0TyVt2g>T-QWOK~|vr#c_bt`Q;Ys*oq@<ul8E?dN&d4Yo;&G@W
Vw<;bZ0-!65x|CcKXw)s(g`J4N8*@oW)`(OWu;fe1$PB%}dw+#ZEBUATjSb(h&IP7~%_W!_Gzmtaj#{
>V8AdE`i1>_mXL~KTZ{BXH2P|}%Ez=D8AJPdSsXZgR0uU$a00KIoi3T)tJWI&B3{w`5xKv{bFraD32y
wfQTk}ROTj|CnYP5i1R6n*n<r|+8f_lVg$QIeCO44!%GtZ!ajR)B;~`sV4R5Mcg3Y%xxKs~E*lkai(r
aCh`u$8)oQ1@)J<ECaTzh5v#ejL&{D4!SQ&Eo2JjXFw|5kf-P&pXH2B>3?(e(ibm!FJkcIqx5s_B;;c
O5Mq0CSG^_AqG0;YIJ~WjgGk@8Z2B+z?Zt5`D0YEFPy2b}9Q{<b@3!0zv}CGm$qvF=n*8a($rcGJFq6
nE9fX+-Y4MN3_cA$yr?yrL1ZqGj=Qm|cG`Y47^jYiqrso0%@NW`iez0$G0b~dI;`cVS1Xp2^QMYgI;`
ziI%T5oU)_}Ead_8NgTl5qgp;~dAOj(zru_&Lb(N}tCO<Fj+!!Ya-n5A>{T$~nZGrX4-jY=~j>vN}*@
%TWED0a@AGiOQY+&ba8a|r1km{7n)xHTQ+5+D3?mZYMDAMuVbAL~<+6M_mJ=QzR7cmL5+Q`+?L{hs+F
HwxDQmCK6*RTlqvH8+J5GnG`y$Xj89!g8Y4d->T~!M4OnMRJ|1<3-5@IyoJCswx8g604m&hBkC-x}r6
zS$&nedbe=V)fNw$`B3g{zp~^xZk|lCB$2v9b;%y>vN}<{kedEZ8By1rp?J2O*+m$6L?uf|<7{)>e$@
;oa}W6uWi5ZM7)MhHkxU23K1ez(uD^1+e$h<u2ULN6qTe#@hb8q!D-UVz6+>wV7o#}ax0G(%K`<Ws2<
vtC9_IOtQJ3s4L+Ne5h)wUV3fzsl)J(h6rDKL@cY9se!EiC=W$jdz;a(k|$jG{xf9&i{`(&xG{1Bzk?
NSzs2iq6;xxiI1tv=oG{60XZ=z<pm%tvdj2DEagUy+BE6q{cr;bLPwnx&^}#X#c@YwDX@_KFVc^HsGD
{DVuTL=R3IYT)qoWeto^J;v^+NY~eqZoGirKaM2g!WU6~L8yNb*wScOe%BY)H4NfzM{7NK^^2Vq+=NH
z8Ff3Use3&>V;9LwjJ-aCNSirTJEl9xZMq}xUyM6_!pk_w8vV9LH|bXB8M}uEuD>Dp-*&{*ylwN%O#H
@e??Zmweu=y6w_`r!ai3PdY27f^;{<HT@Xd()h9M}rnXG?uCUC9(^~+9)|F7ooX*2(u*Z)gny4f~Bt+
KgG39xgU14XmI&njZzY60fW0+4*A2?&9vUpt0H4&t5^37p97Y~(!*%K*tZ3I#T8vyE5|e6lPCr3eTMO
dN*&-mLa#$1nv3lqmj<lE4l!$(tyf1&&_)R*R0`m803)DsLv0DnPa9HVKS=OIW<MEH?iW%K$bYiOm^&
ccR6Bd7DQ6%9u(fsBm1a|G}90Z??_$Cku5%wFNqgyzptFY@})vWodzh(ImM!g-6h>)o6-50e0$hv{@s
-#RW(tI}6#Y5(>SIW@mo5S;9}<2R=6+%1@TbOgo1QNEh8tuWdyH!log5hqgbe<O;~3gY_KBuM<`Rp@z
+jw@CIjbL9Hr%N<4MtpqJC-&*_MO%{;VNUJ4YQ1gS7?7h+Se&05iXaA?TYUY~0Gdthns*tpfUrz0B%}
jb1u{zTagrJ_xnIiG2vx>V)Fo4Wf9B$8P0~+TIp@82{A$i$uZ5sd!s`P5z05$1`2{vT1J;acmKG{b%G
y+uLmiI^fg_(!GwDWrFake?#pRo;J#glRNVOW?Sfka!==~%ULb!b-1Af>|!Wv8p<=bmV>x?W2tsrIRh
"%text.

(** Lines 11415 to 11564. *)
Definition DATA_75 : text := "`xfEe9xgd%8tT9oyKW^bDOL7bW<iP&ej%89QIUJ%u!oAg#d{cua}tT*#LjG)JKWnlc{vGBi=wW`s?wu
-+IQX()2J%zEF4Dp@KQ@7PNi;ul5*9qO>VI}2|G!{)zI`DQJYnC*yb)vGf`an{i3Ou{a_VEKMnF`UlM
v^Ui{H%A0kAPHWeSE<#fl2t9KP{Nro7=r@uHOZR|u%7;kLuJmSmpYISwLUVJ;gv$9p4T=EgQ2S}Dg6}
PCt36I0bUlZ<XjeEsC91X3d1~SXIr7_!=Rl%Pun>Js20$=^oHRXnHX8m`Q{sWiI{Vof;qgA=JoeR2ih
sdn-c;PTPu0J0?xNLHMJN5A37?TSH?nQQK!^vf7PUpy<`R$D{uE8bqIHfF|2}<yNw;jm;exUPtp!COq
jx&86_vf4o^o?n|pz(J5j*ZiS*3GKP1ouLu)<Rk5elz%Kdyq<|nmIeF>R^mAv)1EkxRn?n1wxeVwWbz
k6|c>4_n7I;w_GcD^3v78;OEN&uSY+ZxW?Z}y9uS+{o1o+ajvPVWFYUsdtIVYojtYPUJAzxCJ@{#yLv
mY=}NpvbUz+A;a;FK2V=Sxhm%B{_w#D4&kgB7nKnd6_iV~{MciF8cJ<Nbyz5tP(ZhU$W<ywvO#{On!U
$|)?v0&gRxI;)kpaV{uK}{U$L`iy6ie**@%*S{LqC`#W6>`oJ$IAz^!<o$5a!jlxTWoMYG8JzM>n-?b
FLd{P)mo|_1;>8xDswDBxegNZ2x)OvpMni^Q!3>xApKguz5Fr?|6RnJboVF{_FlP?q54(!{`i&AuL7z
oGkqxjr4m4^goXBz3rwj8f6HArZEEBej+5oeCZmqpiKhFfayfuF<CSL9&GUuM19j>C+|-0g8Fy-wTea
Yc6c{;7!X{)>ku*K-JBi2on`#p!I;0hCllbsg0y8060Y&D#9%iMoyCB+%e*_jSqd~-Qg7Q0_(MN=<hD
VP1hjlm@4ZC=rk%XmMdSD#Tz)r!Y@-2Ry#S3OfL!}8U1Ry(E=m0!=GB7vc5D$tBABnqKjZZ${v0=OHb
l>v-?*|(-be4rX2DI@oV9Oqq#}RkPdMPtZdV{fnhGRu)XWT-tBKm1XKRWV%v%5Oo4I+;H_L^9T8+&pz
2m1q$NXov8G1)!KdrNPd6__Nso4zjCu8W3+kTk-yW9PLGJP<6=zlVOFnj2qF!tP;M7q1zi(&6t#SCX(
x1NyiO@+|*`}tB5!l0!$zS>=qP@Q~khab_KI@cn)`60C~5)B$3lJiBl+_?}97%kDd2qNMaqnY|bXx6d
50->bM6@Klwqe?a6<Q~_cnef9?RWE^xyE!RvN^!5HjP<3_Kvovgb-b(}NIlBuwz-}ChO|UIBgkV{H>O
}yYr(S;T5wUOi!oA}i#`>ld{68i-``)_4l0Fo4QC3k%O&I2RC{5on_trUC`R&X&QmiY4?4-%bBPwGK&
pe|vpG(O=8$pd>E0($zj#_msb+nAZl7wx-1b9J#+j<lUVmG!E`Nv52)*;D3+r@z2e-F0KPVA)TgvUJo
g9eV5XVEjV|xkawKQtP*&r_DQPqqmjB>OW8(p@j52>6iFHpN|!(uK|=84hA%wfW0D9M>tD)dOX>?;;|
M3goy5?4^?lk(a;{{y?OJLT|HnBZZAxhC}L<RTK`duS`O<&s0X49}Fv$}0muuh@>REDI0s!L#4HQa4e
|EIkhH{XiTAwKn~r@+HE-Y!fY{`8-;L3_U4R>6jW_bEiO;R1u>`kjcIk^ZkYq#`?TRM`9nAGwG<ojQC
`a$S_?O<OmzYkaSS7K}??sIZNhl;em5~Rf<fbzvha~u!cTfU(;(hNn|5al<*RKyqm=7uxo-FhD-T{hM
I%E%mJ3&xzW_w>q|L=XovhBq-ab<`Y}i$8>d?AwGOYY^r>5+e68lzya-&AIKN6ItMfNCRlc0%8|V9Dt
=U6e<VrF^bz#xAD)=u)6ReT@x((%PKJg96at4&+x;iVu)%9OmXrHqBkosq-zG8Bzix<YTG6q#MZ{!<Q
D?RdoW(ch`#&i*pBT~}{)C^W*)Yf%SayX$APFmaY@z9X{*+Tu1>be-QE24GNaC^r5B`bGztcM}Yig1h
-;tGYgv`SCB^@2I#y23O(akH1g3WE8La%_(6tS>sg7h?TYK7BIAs(KfbHIE#y_}LNx<eJD)PC8BxUI?
W%_@RlX5i?lzYUHU}I;vD9SpT}%#=WBhACB6hKsk%^H06R^*ao`KtsopdhSNKtRIP(C@EmrOY1h6}+#
q_?tK|1>h0H0xVQ9>23xq6^;X&+Tfq1<lC_*;$eD<ha{c14v6i*WNvL!fyD^xqFmn-o+u#ZfLDOEVQQ
6G{CqKo4&G6c4xVEY0U=~HbZ^@cqxW=Rbq+iQ|S#KT?KdyWwgyUT*DyU8~P4(;&ME}23nc?j42LnjP_
K0-PXv3IP|rc&yMa6#0hTHCysMkZ|;jyE}D50B+!sD}gR?}>KGISp^l*WH@8NHY4+Sy=abIxsFB+3r|
#B$C#Cs_?~e6~~G4tGz+ZZn6tRIY0UQ^~gGE7cX&1(UH2_?|sO44afb<$8%{p#=W?%a+S#k`Qh@>ZZ3
0dI3b6oU7TZYvd>vLdG!7qNGWWo+qHt&gN*L*IM)@i9ufaZ2?ygv5yp*v$y#qxNx;C^D--poYRkW$@^
~jGHc(~M*BVex*#7UE<b(U$7fJemaL(@;`9JUd9<JdOLgEyG;53P|EP@j_LTu2DWf+zwNeZV?gnSpL{
RzS0Z(j5Kos*{$AQ6HRAk|KhAjN^cHOVjp@YGWDugHGz1k|_T%)5vUf8#%Z_JA%JLxGSA=;*-zoxMXR
1qnhwK==&V(BUr-+y=XnH?<+lzS)LIFb9yge^=unZ$L=CDS;^lWdA>8O*ZHVR8dk;)`nnUI}r4w-taP
itFye%qO-qDZkz#vyZoNqaFhie$66%!mWjo?LS;^`GW<GuFGD|NJXEKVP9}f)On4l=@iqVyW5ywR2h<
ebaS<Ajv{)YnaR3`hXUG3Tz~mb+<A4qcAo_Wkp7V{$UHc&a*+AO{0Z-_gX!qxE5uz=MxcQdfqD3P5QS
S!&g*~Mm<LKC)MJa_${`Q$`@xGg`;>&-?i8#LqWPmsZ^rt|E88|sf&{ifEi?&+L{W;zk4!agdfqJBHs
hNlSBRf~j)j9eW3~}~D$=#dy^bq`dYOf<4>cK7cI;ApV&NVNjDI6NnwbomGI$hGrC)tJ#pZOYLMO~>-
?Ww8QwHKA_+>q|!0uy$9{_GB7d5`N|dvV5K2QSai^2b+3n&(bAh*m0LWpP!jrh%UBMR*);DG^L$Nmaa
S%yD|cyVK;4!}Kf)bC*2OUN;Nb)Sjj+?Q#K*EK)S+$X!+rLXJLjLF5aP$FR1fHK(<?icM{=P@PMx;|(
{iJ!V-35xKG$#>Ry*sYX9-?r?Q+S{|}{uOfB^#h4fUc2ToOZi)+02KKW0%H4}P?0A;0$R`x=wmJMjp9
_7*pIdwulY`H{<XsBxq&7c|k>mPRRgMcq?=RwQsLtyj0S*X6IHu=)*+*9+K%`bXos2Y}UT2Onv@rd3S
+`1_b~^-xHaM6n5}Xgh#5A|r-@RTXcFB?%hIu1qWU4!A;m(A;vQU#WTrUh$TfqxE;C>g)*AQA`5q@4c
GvfCFytjo{-QA<@gARy+u%4N$T;|()Ci%%mLr-%rj#(3f?)P!TN%3$XAe7f$utSSOHoq##84_kxMEHJ
n9QMEjb$c%nOT^UtekQXb466fQbPqYOX-ZV-^ejOI>Y+DSI56rGXgB6Q-js$2QQP1r?hL<1ZO@pes~T
)3O{86%$6DmB-~3&#L{n8VGSr;;0*9%BHFlF)Oea!>9i2E55=RbhaCpkW*d8zUtfzb0?zC(zPHoLo(J
CmZ?noAN&d2SgwxYHlwe=+Z{faW6mNg2uU-Bk>)7^R>VvN}zS@rxku`cT|ZhsKga_h3&R_QO~zW%pd<
a^Dp|8#-x4Ix2(N%Q+=z6G6%1jyGH={wm?f#d;(gF-cue#=)P?;QNsVTu?BMb(>m!{1yJ1P02l(*pED
W+>=l-0Ta^g6%8=XqBjsoIKDN`Gt|oQIP&;-x4GU3xX%bhw9in0l|JS+sB|o6NrV<AZs7LJ0F42H47p
YGzsRvSyvhZ0gCk9;0dx7+g<!+(m}02^JDl&2H*ITL3?NL*`Ms$-V>#8vk=awL9_hLk59X!m|#fhsmF
`aNWCdsJ}pT7Em_}c((!)Yz8<G=E}<VQ(0ot<-6hv{I<L~*6w=SYd-?s~-=72hx@_$<+n$7*-UZp*qm
QP@^@nX(*zoMncKUr^|KzryukP!g+!plJeSKZtrhQr72132UM}3<H>f1JREAq89?4Qb_6lz_x(S(|$_
)4!vID4mUm}9<9EzVp_{Z^hY(A|95*0UtY`Y<O~Y&lry>qhwLEi>6sG<)O)KX=n(c7nDW2S+KKN1ka>
nENlz!utZUoxlx?4YDI=@owoGAUDLcu+UTEZYJWsQ*XP8_B=;Q^KcC`c4`hGz9D#F9d(!73DCaYQRDH
HrcHpqnk6HLzS`f0*y_$HmyL)lL@=F%WzFrf+`NtIoJS@njcM0W$MNJr`lBZAk4bcoc*{(?jN}ws;U0
$*YKB#)-^J=etwwOY5Bomjii-}**r7j;*x@V@kyS(L`jnmz-V5qr@SP5SJf8X!PuS%AT)S-A9m1Fq<@
nK)mDYN91E;c+Z(WEiZWHQanh^Jd&lFq@Uc@Jx+nM6=JzI5#H}lz~Sly!RN1DUuiG5{Pk-uvwMhe8b%
QcUr2?w1a7_%P_WsU>mnC_!~yZx&nKVsTYi6|-qD^v(qb<|0!IBRM4JLRxr*h6n6clBmnt}vurs(a1o
p?AEw!}Su)&ci{UcT&65yQv%Ruqvu>cf&EOw2<z60Q}S=Y#)&kf6i9{ht6xC?H-Smv0S6TwR#=mqNNj
}CmyAwH)nWhl(7#|zj^J)>hefuNf&2(m9F9|uVEg-C~MliPIJ2p4gAzb;{#y_is_dm!?>r=qV*J4mGe
lSNn;XACisJg)03I;mg~-%2)((ow%1vDbGgj_SO^^YJpdvR2E9Bkjy$z8c2!ODhQ!jrabo&q@*nXJZF
V+D9&_Ix3;pR}P2<ClSVzfkzxx32`pEWWllOc%fR<E=J1MBO&5YajL7Z34M)_k`p!P?%>_=1J$D*>P*
gTyub~JGQnJ8_OyW|X=mD6l-KMtTPe=z{oPMZhuO2Xg*#UYUPBWEyBnKFtX3<~f|_*oN7O%=8kDAYc*
6_IbnNNswx?qKE8x9t$v0qUuAmp3!TnauYSmg4e!{@qv6q-8r{e+M0exw~EG8dPV2N8)X{18LCaV+rF
Po)UCm<ZrG;^)1i*&=mHnsmI&d<=?7>8JLO7f06-xC=`O+>5mGHypv$tmGMh?iq2IWF4gI}v>IqT{O%
b+fAy5XvynF3deY7scS;Cn!>b=*EKW7WQh|g}P+U$?U`gA&9H*D-_WNln+x@oNL-f3#G!;K*4E>Qq{=
%TXBhV7p+;$zlKa#~kkqeUDC)iVuipkuSo(#>QaV&gYf66xAa@N%p;f0(ZoiFggK4P)Fax7|gY{x#qm
{#}vD;FP8c(w3@y7Qkd<i$wjn3eKu#+_fR;#m3%Zep@_A(wHtU!tCim;T|^c<s8kh{!ou+|}@C9E!``
7)A)OQ_Jp4czvD;_Ccz9^U+vdVlParUafwB;p=Oy^Q1OS=~kSKFsz@iY;Z&b$IgnCLigkTdFgepHFHg
#DR1n^x+eME1EGqYZK1NnJj{_z#9Tyk(zG6wdZ=Kf<)!F$;Pn>T-qaaMGLOMHf4T*m&n7b}9#ry+i*j
tH9k)%1c!`k|Gq3Pis>g0%;c&*DEve{%3>}bG3|J%ETmEp{VaLYJQ8FKV{(d*}mqObQWCnR(%#?dWWz
Ug}9fydk19;M7q|zbOVeYhf=4JubJf-Aiyg>GRdw3RoHPl??vPg^xE&J%3Jh0~~IPrt}^yimuI%Hy8A
-!^znefMEUoTaAKh(ixoYDeU%~~%QA>;l2>Rj0Rh9UPm56chs*_LTN>J4f}!6ZTZPL-;FT(+m*D%g5D
WoAssUb6O&yV?6S+gZF2V1$e!wn$zb^isshe4|cv>7NPX3^AF&h3BVXW_2PG3-0y7t$ywYwsveIT;?S
@9P!F?((OG$@IhcFn?SjCib)c!#O?|eudrn<8${F{9&7%AywqQM1;4BQ{_Yt3Q@`TN5&o{z@RKqy$$n
X^#DG}UhRWF-WC$7T8yj81fC?t+ot*@kLkysJiugJ>h62B#$bdtzA$1CWYft5%DtGfqHfMtU;L(mj5R
1hBO{d@=DBk^*JP1%fj6r~odV4MGo7xqWKW!e&2QMuPqIvY2>2C8IHpk>+*LGz3ri<Nt1#n3qGX=bg^
d0vr-nC2YUrGbZClDM%rr-Srd;QXH@cuh~!(a-xPmJ7r1^s{30#Y7V?F0S;(Oz#mT?Dcr-0}hczY)4N
Ai22h-0=UG)B8KKgZ|U>{?qI}Q9SfTm&#8lUchSaobYs7T0JIA@P;EeJIEi5eM6%?v_H4{lJTK)${o*
@%RBF?HiNT6Lm}tcdeFIaa2erPMZ8Q%dXCqZ2IVB{#`EN44I=a`?7P9L3c>A+?soHqzGm6>Tr+9#8XK
*}5@UUaku18)gq}BdLK`^e=n4tKmHX`kNZk2(@hb4vknlrNsF$LsxqM|?t*cgr_N?)wE75gAS64U}Ea
UVOhC9>M(plqlAa{_1T$Gwv#7RzGSj22AW%0Npb-+adO4U>AkkLavxtX9L*Q5=T2fMm<rY&kH*1fre(
9!i!Rd##&mSk<C%doT@sC|HqWt3U9)jbbPKnypUd?bSn&sWJiYE2Py`f_WyY0@E8ykmMdhH|yM^xl3D
+gi@;8R-h|pK5hHg;X%qXvxg<-L~5mC(ft-Ffr<LGip(~SWq|P6|O&MA|zs3+g0ObvGQo2$*XUuS-~I
KN4U2|Cw)|Lgq=ponxA@QPx~jKt9)ldh)5WnS?-Nzo3!0s?d+Cf=D^AJ!P+(3T*zFArubkxWxjb_o6X
d`-7KUmO+9>bw>hAG6HN;Ige4L-$=a0_jmpBqA>Z|R*-ZCo?druq29BdOnVLNsLE2`l*NXt(vASg;HD
(dJ*Sgu1@<SIk^5go<>wVTOX1r2)Nx`-vj0cvy#{v2}Xcmi0g?_{OeHlx=T0-7bFZM19lbtl9^Pd@Sz
oJq9zDgSUs;0_iLc~#~Q8nyVRf6f*#QSRYO|kzI;jIDvPEn^?(c!fQt+$6Qb_y@kaE?0CBN26wlCw(F
QBFt4bSV_u%|#};U%d4U>ku{|lrWZ5SYCF~>N&=IaL*MIKhH16VoI|qH%Ctj6n%=}e0)@o_;{D@`doO
4f7FTy@(byHV$bM$OfGxklEJ3-au0ZN&4fdQ9+6dFHajiXm^14ZQ5<herZuA$sYMd)vayAz9d<(xQRq
>}B+DBaxe70AZsGlDq^DMQyN13kQC=NvUQe;HT8SiecDtQc5KZJBb%@QZQN%Qf4{`y!Za(QNAl(<~E2
pPvh{#N3lCp!#*RiKi6F=h*PR`mv<<W$i_Nlms)bh61w7L?9ZcPwO2sp01v-*J)TVH-rmfDxev`p;vL
eP@vrJYuJG^H&eS{*K-p+WQg5wFJ}v-K`~K1**rGj3e$ozr8b<+VWQzCzC!=fH&Jz`l!S=Y^AL1Kve#
mbBFgidK=~bn0m`lI>kz)SZf}Vl@)m7M8S1b)8g)_-cZbwx62|qLvX6?<h0wPNW`_Eu<}aAP8F8GGxL
}gh}+<cNK9xb}Wgb<5zU<j*mshIO-@EH7*I>O*~^)={m{hi?%IkRTgBKp&rGW-~0-@9TfXYN8<*lgTU
0i={kB>;#NGb=H*pZ(p~FkPH5!ZaCTfXwLLW4n28^o<0UN=>3KAF9v97w8r$--dF1`|mfT4iKb*$aii
{$0h%D3oHlE_A*F7GF--H(Y#J;Qi`rO00|HU#mO5r&6bM@FiKKT<x{o=$Qxb(kd&7j_N^Vq*XO0_oxw
ZSAZ2E|qYV<7L!Z3ZBa?HBCpDsSS=D@>Ds;y!!#0dId2^t-l<0SKy~K&ck><_g}>6q0~0EMgm*{RMDh
V^E2<9f6S`(7VAbG66+lWcF{C01)UyusVHH+kwJz23#+p0OuU&_ew$j5;Xh1Tft%kG)ooln(^%h3Fa?
>QwRbGi1J63_n#`1-oVNJ37Od5DrFmR8a^9peWwe^RFPLu2j#yI(iY9dYRuJa(q&tN^G}io8QG(G#8)
Y9f`IGt{>7|+&L&C#FukmXBh0m&P4rV=?T2kM<TXEL6TJ(ws2-PmikisMA6Ih%bF{s3HNDent{M&mPN
44;PJ}FK=Tl^X;_Ko4zo`9~S^R?U_j9d3{J{5X6>9V>c%D7tFk)8h!9(NRo6J&8Zp5h|<%=~<8Cs%74
^h=p$$m|%PN6qCHRJm@qXw(I++smj?KCKpor`(1DBN&2iQ08u82Tye6K>Au;t)UvVPnN~=-4yWpAMbJ
oG~}k`ir`chma8OW8o|nWgT~B2H!&1_VL1R896XX4ORpeg-{(++;j?h)KL<vR3rjTcCd6+f{xo84?c~
q&Qa!X`~9()4D-miEq{tF{`E33G*uVKY&pm4c1U$U43%ZuPifjkoNV(ep32(87arat-3^AHmma?~l=z
f-ByfVlTPv1!&X9A>>ZmKqTN@4I*xqH<r+UO2-670L_0|=3fTC1y?DL|C=ROe;%<~>~xkkgpv=<(V`_
!7Ym#nxAgt9hQq0P^SoTw=MfQo#Q)$oio_xYi6Tp$zZtz`Fex0Kp?ly7LdEtLL%OUK(T9gD*$z|EXGJ
0x%HJiKZ0Q9cau@l_Xtdm#C7?hCz!izhB$kJtFj?)})PA^BK!{N=tw!x!o$=1M4PA0_nt$}ul=L5+hz
#$2Eug~BMP8-C(1eDkQ(%Wg37t~$EVVdvHBVP9R?&GE;ck^i7}u|9GR#Ya|P5sZ8wPQIp|%_K_5(X=_
V=@tEH-KIL7Zx+P5K%wt$QJp5b*;9=cv_3Hfi=WlOglRNMj+3c0`O7+82Q|oZ+EKNAU1g0<c;Rw@e(a
V0MOD`KWnJc#%V55~+zj-1Usq^)X6DRN#EnA8zeo7-NASr<nF?Z)$85J6Y3%hm;lw@75G6e)ul7#g@9
J@vR|zxjLJVH~<Umc=S>0!nAun{l90&><APz&O)TN$_ZI3q^F{L<1cF5zEFB{UMvdBpcu75g1n4MKgY
gR3g?xuM!s|Tw*7JP*4cA8s@ln6x9Zi70gS;BgB5*}I37nuI~>H|8%NnS-MaiL?=KF9NcjCm(y%ZqK?
Ah;OnG;7&mMU^M*N<GP?BC#Ql$L>j2B-NLDy{^(eds0K7T`q>i?8aX2yxZ$`ITtjfr)N46F!F`P*hp2
0)GG4mwD75`=G~)xoQzW@b{BJ(_K&^Bzh*MsF<ss}FHK+I34=t<6%38<ozqR5?Wv7f_$&>Rjt12BNY!
#*mY8csl+8=%?iGqgv8SGF&o)o0eIfn;sf?@n6p4%DHO_|6Hh8R=#%M4fH1~L{I1+6y8SALTrNOluHQ
)E_W4%$Y;VL4xm*GGfJo#aFzvB+PbL4!8(bmCY`%Hv1+&D71f0+S(*Ry<k)ZvsFuE@uVebSRWJ`k2pL
*&RZNv#NTSdw1io<ikZuhPSbhRvUv-6cN;$TfYzy({MXE0<E}`FMXE9;9yW?mM=E@PizC;r!B&!_@1|
L|<;M;4N92>Tq84LWPx?utU>0ofTw%XM_Fa@$xRQ60?SWIjqnLMdQ%cp2UJ*9$DfDqmVz@oEHjpzr0S
?=52(*gZulzrypSp{yzarf8*q@!4m$r!P160@B~N=u{r4H{y<7O0~+8M=3S+pzjbJ7(8isoUsH_5po6
ZU!B2|%R``xkAohb2pfx>t7tU`304gvNB#&eEeW_nXneq$_w?Qj#C<a=?u^7~N5gGVNC!l+sc&iO<*l
W9FjsapbP_;#XNERRjX2G8z^z<f5Vez*n(i=(<e_4X{{}-_Ir_!tMz!DHikbeS8AKU)7gC+C736}II7
VduN+jhXTRF*Z8Vs?*&Ir7-V3Go<c*y<kDVb7ePv+;`AXCLHQ?VK)iZLkD!$ddA5UsA&w2`RtYu`C7Y
P^>0VTy8RAL^dDsuiMO~xCB{vdh?F;k?ePY|3nuf;$V_Vq<T8cI`>4fdtKE;77WeJ+ZidmUvpcV?3?%
MpC@Brp>h4cnR}CEN3m^Nu+LXSGt*@6i9%GzEF08FqOMVo8bm1}%5O=_`wMyd*?Z^xSAw>04|fmu6A|
~myq4zX?%J?`1skn7W;I5`vKcSd&fAe=4^@)mX&sL_FJ7wNs;{q@Zy%E~&t7AD$Kv9{BR*bf<Td87<^
dpkc|aA^vzoAm_ofI|Zcufq;g!>AQm5Ok^-b&oEqtz&cAs?0ypq|SedTl(lUFnXjtFH@>M)a*f|=yaI
Z&=*!u3Rka;sF6J@fo(xxGYKx(Lq^3XxNrz$4Tg<zcc354h&+y2{TMJ3`OLf(6Y2Ght@gb|zSo1q(+J
Cy)clh{5fN<7GCF3E5r~=NP1QVOl=0o+mI=&v%I|O`#A_=f;l=%A<n5y!3M>Md}3uGu#ij0?%?8<@kF
CGp#u1Qs^q938;{*8<Xwa;LAbSd|Km9T-ZuqyeFafP21onwuQ+`qN^5h3r}b03jztm#lA%3LL)4IoMv
9;Lji=%=WWy|uiI8~!Wt)JeimzornquhSEMLzhfL-Mez-06MXa^d9Xi9!G~i0IGn}v6I(fgE?&Y;8^x
c0!84DGUJ0=ix;M8qTgz@vr-6URC9f^{q=XB?Krk4Wb?}H^SIj!lj3J>_HAEptoG90~xjH(GE`**<-#
ZY%Zw`{JIFO*-i<LU0m(0b@kcT*p({1}g|%Rh{>vaDSxON*vu*M=-;G<=0{VfUNyb%4m!7qZVJ;yFJK
7q#!Rl=0AGxXQ)#@kAftfxmF_G(#r_ABel(W@zag9t9a)JK69|;4D1*BXg#&@<ABRRPu->qqEk9e=1^
=u4cxF+(Ob~#0mM*$~T6YUql5V&AGKXQilQYB2B37Bgi$Z%gZ)<XnqP{An4#F)iO@BAtSzd2vRg^URO
pSE)~l&DU<65s1W-AP*D>RU8Z^6*5>L~p4$ypQp%GsX`bKbRQGriH`Ta8C~r|gmK6dPd7!z0D~49oc?
3WN2~7U@d|enq3d)GVrU(iy?XJuLjmvyr4!C*e6tnds>~My!W(dKrJ4ZB5z9QHF#I<rwO1dgf=}BxEI
UigBY6<no%e}8=u5UaFtyJ*Usxn7-LPT5Elv}Xo^}J$o$pK|}HWZpWU@w{#41z6DN<Kmy=^PC@97L&=
@aN)cN*Jx>fejwPWm`!c*o!z_d1WUEKvYil!XdM7mXzk<lQR$Zvh>cDDBec7zS&hQND!-ymeY|e=&V^
#NfdD)TLG)2kp%{vtP<raBq@1O=LgGbY?7$!nJ6Jycwx*nz0>aN`N9Xk@rHaeN?>FMdHVpZJ9vIQfYU
L<2Xa;**jnrmuOE+BfLY=|Kj(Fvm4fMx;&6-p2JPH`vyv(?ljt|0YQv!VfGuAzjJoaq<lf<$*Bc%5$&
P2nB1-zNw5z|5`rzwfl6~-x%yj>sUg>M8{J*%$pYqm4!8?`%?vbifvggW3_|1<R?{Oz0*%ch4)4T0|!
)WQxxqi@h(K)=speWq4gBuo$;=L{&M)qhH{;o45<1ej<5cH;Qh5ivkzf!o0_Zs&2oqL4d2=SEeS;Y-r
ZOAc6_e%Ti0=q0Ow&(r8cllsU?m;s&*~{edWG~_0F1+Em6nWRtZ=ej`TPnjpFNdGr`j5lE;H~T5^aR-
tpvU0s8Mv-g_lbJWmHzsM--izyqly}O2|Q&lsn|a6r4-Kk$!aRDR1AF5n)2Tt{K*;1?p=U4@B9r_k1U
J4{&IHSR7a_HdIB*N$ijE$PcZihqrTCA+*|XhMYU}BBV{Om5!ijF40octpWokKxjo=t-QQoiJ>Xy6-@
m%OPhz~E<s5&|T42cdrcHiv8825nOPZihL*#Z*+|%p0DgePr8HN;Rr^3Rz(ql_suH;M8BF!*gabeM_B
IFHEo5eU?i`k*b+j%-rsH!51$4*DUkQPgGg{Ren$~aQl1<F)IBsif>DhTy$rDJt-Tk_(x4+2D;4>Hy<
"%text.

(** Lines 11565 to 11714. *)
Definition DATA_76 : text := "=DOIV$MT$c0`i9k7fX-A4|#Qz28;41a?b6jxbV*u4yy@%P(5SqnL57Ez*~yAqBtLBVd~ZkKcK)Zp?XK
oGZ6MY?I6kytE{Dd#=3^Y<9l6*XaK8M3|cM<DBdvir8-$-k}jCAPp^8(0M}4*$m!W*7JZU#V6dA_<&a
{p{yeMT)8;SrYo4Ew=NvH_&k5Ezy4j3<Wpf4o6@dA3bte-7sACMPu)qZQ^&#-ulUf9OJmTu|D*&^zyW
Wv;^ZiM<Q5V3Ku%W!d{sm1BR47b##+<A~56_++rae1&b@{jiWCZ0%05;8qK%?$-4n!m~ZtRi20gzzwC
R&ddT~8J}=qeIp`usID=n6j(ZbrPG@66R2qE00H=Ryw2Yp}E9NC(K|A|QZe^@wXKgidbK<=EARM7KPN
a(vO?A%4^s-2oG)JLoLNn2T@70-kH2C>j$5L8)f}B%~iQYl9N*Bj^u=t|j3!B*pW&Or=#OX!$1H1XV7
^tW1PE8uWwlWO)NiZABf<bp<43QfRk8ShaJlFwmpy;6Qj$)2V_~TB6fpp${>^k(DnQM%Ut+Se!yk)LG
Xo68h8uR;RHYuiNh55rOBpA8Ju{%k@mY?cq0f<Ft=>^~q+X>Y^``z8v}=?C5{)OrLi0PtNk4sf1tzJ`
pg1;TQ~pFbNSjM8en!fe3;)k=q}Xz<#PbbVA-*>%`8TgU34~-RW(O(swaFoa{y@3HNsVZ2<OjgBp>$I
S$`#YMXH-!2Oha4hVS{%;0;j2}bwR1aA#_{H^^MZ5HrX!42ds{~iW!(V=(s4uQVagz$I5>CM+pe#kYG
dnPD))7fr-VAo(q-?ja315Bd(Ww!Hd5Mgg}3-=HBpE3k+)NW9RuLf0j&MexB+Dn^gd1)K}gow5IGsb3
?hJLJD=MC!{CE{$l>5iP)pY<r7vEE!~*=si=_*HFxAs|}0R%ZOqw))iAywRT&u)Hl#RNLQ#8a^7?zBM
Kn%J46{(uFQ6PpNh)nK}FHdj3*_BY*wh%`;8DQ|sQO2FO;l$g7PiRu#zNkK8^E|E*>;OINhL(AH<EWh
`zcefy!?B_o5)m<EWm%4RlQzD7()-Y|bwo2gWrMP6<uZ316|Iz~3}*|(vSlIF8&3gC*0;C{Hd_D|Vmf
nNv~ozF7cpJYdRO!28o6%HSJiPcE(UJH2dN{=&HJX_aZfMgg{9z3`()!}7uxrcHhTMUYhSjiuSDyn>_
IBZr8j}#+~84In~r_7D{D8fg(8&x1|UKMdK=IMG~aQM0eDxKQ|2UqE_ucQ`!c2m@?XASihaIQ)4==DB
!ojqLlGjsb50WLq1YjCgIbe_gDW=7=Tb;y)I?+8uWg%~mk*(?s2IqpOv9;^jM8IU&(B~a?AA7em%sYH
=qtXi%whnb2k4_DHhbXk+1^3>0=`3Mg=!QBrXQm`I(JalU7zZ4CYLqk?L0Ad_?c_s=pqt{z)DW2>`*+
FEOa}nSib|<V;Bq>!d2E6oDu*lze_M>-!IPiBW#J@%dXlZfp_`}JUBe3d0Po!M6Y<?O<n>U$z(@n&ic
{|AL^i2h|%zUFm#8O|>Ux0U=_9TBhko$HZ^KCu%RQ{o54*0!iZiG>pQXY9FzCg%pkJxL#`NwAM68K=;
XCKRLKCr51cG|xG#qBv;ydXHhNV4L!^HB`}+kU30v-{+pIBmxBJ+EH5>m^#ORHwLuXuFl|2YP+T)w$C
e%R9yoT>v;#*w%lLGFZ|9PiI1SIpN6P<a2=v`l&5-23fghhDY?Hte$1?JjJw7w?3=iw0T7bU@$9%wd)
J#M~i#7Nwj<~J@p1gs1fsBW>qPU!#K~ORyRG__=!H{H7f3x9!fGYJG($Z`O@oglg`ZDM((imv?AU{tV
7r@gg(c!H#YoAKRQ3bkvLn|Xf&2*L@w0b7Y*V#0)oR_e0l9I7h9Y9J|=1sF6C5?Bf*_-;NS3u|HuDnT
rI;kt>3t}&Pdx7<)<+%gWtqrt&`VpX7JB{tAgd9{~rDG-}`_5`|iE|ejr^`S@GLH|L-b!760?!iu$)P
*|&Xs7XHWoGbT+{{PW+6FDI)uEBhPu-~Z?T_1}N{-=hEhH|iNw|NQszx6RQ0n40+i-Q>Rd-1g_`ziZ|
D^xd^*I~H;B{J<9bv484_Z;t8at-|2WBSc_(>1_b+Ig*I@5L(%5Jz(NJX7g)*u2;AjX#CC97h=2j8%M
iM-#|lv?5EjwZ7%)hPH)4AHy`|tQpla-2l<uMG>PvVzWX5TO-}SdJs<7>BnWmi0D}A84LxkgW^?fIH|
hQ6n(rke*jtzIJ$S=F>6?#e_vW!LGS!=#_h-04+k^d!`zHkQ3_Y&gQD(tU3lBT88Uc3svhB*T9A@)O-
|{J!adYLKAC9Tf-L}uZNuL9+d)+*J!w@3Zz;m8N=Ij&Z3`E;MKXSd>_uth4>1h&l7k&EPC6}Gk<b7Ij
-mxciHUSedOvh2|Gq-n-#NAmor)?%+5V>jKf?2$Q4ZW`V&z}uKCF0r{LZR7aQf7cDY~H8qfZ;BcV$!t
KyNOg#t-q9+zKdGP<{T_L!61cv>6AzIPI<-RPTP_*10O=y+<T*Z|Jb-w|7IaEYb!;5`qxTju?>Hb9RA
|ike(UtTm^`+Y`6jKf^X1B0CU;rthNW4&lhrYz8kK0HLmxzzdy9#0}g+l*>}bC7jmSM9|D+Pe2Y(He)
@vqW@rDEee)Y*0(Wi#ljVS3n5$T5_y(?CXYp2jJj^dYb16G++roP8wwZKiF7J{W+Q!dSRBzA7#Cf18P
T5tEx1HNn-F2I4zcUj~%KFy`h=C7g!U55;hrC=JpHG4-zC@(?wAxFoDKc@+5V{!(mQ?(ajX5OI{Gfci
Vrv;J-UqH$KWgwJ3K0dqBq#8EW(Vw<PBZmXuBX6W5+&<x!|bcJdtC%CBMYR<_3>)g1u@wIaKMf2c)qX
eU^DXaWf{8Ve&{J^!;}!@d&V41q=X$c;?h3X8#M(D_z2RL6Z&&8CITS7mf)J(0{PG;Qe{P6F^rTrfG`
Y?2I_k?63_58o*Pq_$xc7!7H3-cbFkX$X|OO2IInTCUayZhjr?$Gtmh-PudIci5(@W4I2)V#lJ`X_rR
CKm480vvGBH9i$$Eb!P#M4x#HHbbPXvc~@}6F1xu-{-fG7E15D+sBUtas_Ig2IWhll&|l;>sQtH*Ak|
1JSB@FQ{H7v4a9Gteh>m|AfAvSv@tlz1M~O&hi@$6lKcT;n>ncg<XYDp@SdTO?P>rSbi%bA#OLb*?3a
!kkV9>BW695~D2?adD$ZT+?giXa#C`<fDQQXCUC9D_!_VL7mlCAG%T3r~#4&{#_`Y{4jVY2!SgEF0>7
g-!Ldksbx^rGk96o;K86kJsUU0x@qfCRlN%Io`&nd3cNsuGf*71ngm%_dulbbdAL@*;^3~2*GNhEq8m
yd0G?5l`18cMXyZf<>D*kSfP!mC^R=)D7X(EX#&BDb$B%vE+4A$DjP6SwYc>Q4&AtJTnU9xic)wQpL(
dv^yq)XY{j7L;?!?+bt`+LqwZ;RqD)KLb5ca=)7}M_p<U7OeZac}%p0l4qX>}<6fD!)gv7aXVUmy29H
z0z6KP8jd>F3|ol^FRCBHoK9gSP}QLGFSoo0q*8D7-~fka%;he;z$2_S%Oa+;z&3H+u~7Zj2}1M{gcB
6z;KWnB0TmX}VtrO?SJS{;JRZ^bQ;Zr*~)kX70f~c8|gDiqf~mMo(`deDuu`i0#!9$-4`mO!h;Pw=Qv
v?G_#(_8UarjKwIv6aPnlf!udrSLd(JKFj#p`ZK;Pnfp;Z%-{jpuqST%Vn?Z&`;;jAj3EC`H80EJ&S~
<+V14@RK=>|wpw_osBYS?Y^r}TA`~>bT@tbdMPbw=zij@c3w&lldz|W@jcV-3rY+65`)!$*pRn*1oNz
6EqP`zlFS{z-Qb1#bZ6asQQz!Tj*REp({?Nzm@BDL(Utyp)pNx}B9D03di#P;s}^^UA2m+M;gOpVHwE
-=D!9H^Aeg@w;)=GiA0c$wnWTPup@$uRAg`&<m2PUAPFwOmtEP4R9BXU3vCUQo^aIod4Qc}8_KB2A=x
(f}4yYoiASj=X<KXGszzVZ7d`>*9DaORAtSK%(MwSNt}wG$ZPdCn$5cO)bT(pM_oqD*oYAN~hPOc<jt
qEeF;`y|Srj98QdhuiYVU?8o4U2U^fxML7{&Fk1qJaYfLeMh6`8CWb|Y$fAdfwD_xE&-~5TL39X7XJ#
M|362uJt^UzhW?Y6c+C8@6?jdX7Pm}H%67aH_%E~F<Y$&6q%hO+!%SjWs-8KP#G)@c+esp=K^jVbTvv
`)z0@aFGmY#1|C>VLfwxa|aT~s@FAQs3aG0{@;zR2{|XcaRgYu%y!4SYk(i*=qpUNU=;za&ETZSrC-+
pDb5?;nbtU-G;&S@zZneSLlReFh8_CNr~|ZSWfW6&c?*P*DNfG~f{a5+U0#R)px2j?r|>9t6$(zES(e
K;TCX2OTyzJ^IL{2P9a3#UF%9X|zw1C-3j?0z|Cdc4BY6r0?&7iQc37k948mL<<fcys~EmGo#exu}ox
Dp1yPiZ8|=u(@#n2WbP2!@}-7FOpzsLl9Q$Yf+$@hrO$Xj)Y+6dJSiT^W%SU1@bLvxc%x}oF}WmxQrw
$cTIm97Dus9eCG*6S9SF3@(ME8_rylbdz<qx)jiq(H;o>|i^e#2T>+m$w=UNKo9iFTk3eEme@azi5<s
);t0xM%b6x}-c7tV<-h(0cIDnxmYoh}xA4NHr;D0hFs*6Ow5f??YNVl=#m2aya<r-cBtvs(vKTeAsc)
dDl5y<b+RF85GDy>;hHzJ^MH_AhO`84%Cfu33=TQIfCX%gSrS2QF<sL5GL2S{S<Yj2>1`!E1~Pg4RQO
IREu%!LN-b=lrK^^)C<qb94RW&_7u0pURtVHZ8*TC^#JLL3KEOC#p}o{><jYq92_2(9WiI+TG}%T5J;
ADdaY@yr-SfJt@8U(mM&x+d+=sqBA>34Y~W<n|Hla{qHn8{~&(lX7BB>=s$Mp)i<yI=5lZLmcVusy&b
vD4J3C5J9*a_f^W^X?J^r+NRj=#yV}iZkK*qHbf?|g?;W_v4j4|m7V4i`Y<;)b%XbzV{Hev}slRWruX
n2bw2f!`FIa5D@qb~p?MY#8KUi&h0``qRo7!KU8StyA{d#8KTW;WAYS&zvIcJS&C=Q5xWz^A|xD`i>@
zRi4mzqh|H9&RGE@V!tm3dife={s5($ML2i<T>L?=os+C-Qma`vZAHFZS>v<hg{~>~IY;jfrItKr9XN
Ut+!*O^4^XX7R;v%5j(Fd&hlc*dXivjmGaXeuWAzR$1wItAyUFV8U#V*aqx%OXia~3)t|*hyy}~2Mc%
oIXkUFWSOFsr;q1pFz&|e>cOc{pc6vm$PF|>MS?2>=y0^|+7`P$5m9)GIj=DXHHXm^8s=ccz~1(=cI*
=sVaF29$-Ah!MDLBc$Gom)NC0A{AH*x`v&75H;0uAbFRQvSor6gaU-$fjjc}J^H#`$$b9zN2z`n8Era
tX{diIyf<rLK}%DLc{_9peq7_}X#ypjMAmAU!3TglLf{?&3jo8>k)%PqENf!qGlc|-O$fu8`iAjX?eE
jL#IL*#-=^{4sMhp=`)2~<?=_ZO{_?;qv1yCL37aDfPst37M<-T-p@=jCms9sm7VW+_zS2-09aHH3Gw
|9+i&eY5O<VUhQ56G7YODz3@<hx!uQ2iyBEb3tZYX(lh}HWrO(pLM+1@O`$xchiNHC1l920K`Mynii@
5t`=5O8QM<l5Q_&pu(!VP#Q^Mf{}=SQySokI-Yd|qrd_B+z<IVP;o3pd+Qc@)XMXfM02$aBlKqlN8hV
B7@WryXHGdxHN~rljf8qE=8W*a)*c(*2-w;L3O9Z;kTokWK528TRUtf2T%ZaLcK1qVGDtGK#qvFps8W
a6P4sor85iJA@TP|-SiU@Lh4LHGyL?TmofH4Ol_SV#cE00oM1AM(L=kldPqU$@a10rZ7t3%9?lm<?Sl
>vb=*^w#@9@&e9Hvuqri2$A@7UeFl<C86J+)2F*F{Lm8#GD(C5tO^i#E^K`9^vC2H)y5B984EJEg`pu
2V9+L99y0q{Pl=6P)2vS0<DN8J!EIR-s{WYj1#$>s6~7<b2v-93H^1N{^8X=i#UjXi<932*wLFBKPc9
1YxNt~zk;~^%}JVMZL6SZckYQ|FGLG|Q{H2P>W_zW)n@AVD18*XY43(E*)3es#7Pqs!G6F;ki2O7e|h
u|z(F$^?b$}#=>Nzx_HcZX#O?FDk?}SK%~1De^$pJW{Yu{#1pEw4B-k#9zL{zW-V^#kvK!#|T{cIcJF
1A1w?x2OjP4hW3^=%R?r%;#e%g@){MIf9gSST>@0|-cx)bqlrzg`roWDm2;vJ~`QYa6JcEZ2yU+A>c@
ulzXh`ntSf0x}wJNk*<Y#7^YLGY~-fWLJEkhd`GTNYqv-HUdCq3zlmRN6xs@E*<&|1@TQ$?pt9!`RoD
J@Zq#jLkk8r&+sG#20K}DfXL6h+G2K*!h*p+xI!``#Y!2U-H0fvzy@bXKtsA<;!rP-J6S6Nlo^E@1o-
mF?-jrIQ`4A&e5|h>U;RvRq|-%ZZiGBQOD4-ZV1)7uYX-E5ZN|p+DV*3mV;&XD^14BhCfQye3MqUlkA
IX9)2@h;JfK^yOg;CZm!Q;u1~h*N&lFc#I2nbdvq1mZ$hhKyQRU0s~k8B#y7=t)fg?mcosjN+_b0j<X
?dAa{Ku$-&W-9p><S*III7zd$5NaOcqjetA20tI4|mUtIGEIi`@Hp`bZ_5SH&u!ch(^0=F6Qbzx{PGI
_L7RGKP(@UC0=9k>0Zg`}DsUk^L$<v4f@kzC~`jv4OBlH4!t%ex$Fr7saAMXmfk{?KyBW@H=Sit+PWf
A#$s3t}#Z%AD%@SB64Q)7flBp)A{n-0{-f+>sJr-&AalG7s-;hSN{tm%GKr-))p`0`=PSm_oe)R34d(
jbrJHa+A_uq568((9d2_(NlFu%CfyGzr6mEJc9<!3<!9Y`g#UOQ&y0h$3fERI%!yE~!#rnrW@*c$l+D
YBd)QFyGjkB-)*mk0`am;Ynw<$fk0DY*1`2T^>c(iNu&)o5eaz!z&C&{U)=(VBrek2a?7>4H2*p);A%
p-FiM>G$i5f^*s-1(Lo=-0ciPo}gbK_BT%ypf~oMYgd?KUkqR)fzVp2zS^7eIYQ0+&dlkJqlr6R96xJ
fUfi5pwaP4T?5tolkvoNoTEAIh7C|`t@==$a2`F8G<6=Ic7mX%knN%?l#JXrwk7kr9DLW+9G@dAKSX|
ROq#U*TX}D=DNhD>$w(S@WI>`-n6`+fB`UsVx~fo>Uw@n=c_u(EqlG2Lv$4Fm%fl=orI1$=7$Fz;B0=
-dQoosn3Fy4p&e`y03Snsxoxk_U}l~b`KrrNG6V?_#d0sXC5Yg9*G3sT!sR5DY)p2C=+f7&f+39>T#o
=&H=$!*9ea7$ulVrd?*$#Z;eB4Futb-~{i<DIcOrNgju3ISP7KxPYlw0KM|cuc10#0n&TDb1UFODCH%
sm21Aks7x<1Z%6X?$)JRUn%xTEB;K+pF^jhwhWIt8j*QQhFcb$h=H^;ma2Ubl1naJf{9Y{F(B{7hw8-
S%VmgompTr4rAF&?$aEaJn3$^&T9OWCX&8j-0Zn`C5{a$=+Tk&8?LAZMubFDPd2yP@CH$v(X0-&o*Q(
GZ@1n3KV?=m@27`N54SfTd;SCIayw9cm1GDmZnY9_Fu*V?ofAg_o!7V!0iOzD<;$IT%I0Xb=0$=gqFm
2u4m6;Aj8?eWDfO(^w4A|JKFgRSs<g$*RY)9d0<T{xRY^3o8<xaCmS9>OxPTVpnTUoozJv*=iaq2U%u
wht`E1%RCOE1FW;*(_f4Gay{PQ6rhJ#|tCKrrhPUgs7~`4WQ<DxB?$AE0iSIqs>c)Q~4!*66F}r7yx7
BEsjdJ2YJl8Wf)7*~Qft_M+vvu1bdb3b`FI#W+#J79PEs(Vjy17t(=Foh%8)41&-_92JcDj3lcU!KPJ
-_S2+^nxO{kh<()%Kg(GtPUVxr=VMgl_92mjSmo!RxlxZ713m%=K5#;>VMJRC0f#WBoQ7HGhxxhgQ<-
=3KnJmYaz-A$%U<?Oose=Red41MebX?&DqHHiIp5Cc`$HefYuPw6rbIE+cr`V%t)a%v7|cFZ+wMy;U-
M&4kJ4{qrrMvg_tGPP$!If@HTZdEE@iYOl&Fzm%1RKVENw3s?HJ`%S=49jE3eueM3{K5`!4R*9<w(^h
DMBVK@A@)x&&ER*9_l{HwqoH@fe4{yJTQL}SErFjm$9m@Rz+e6*ZN`-x11o-YM7KMCMeYHI!edp|*F4
ON-STZFD0{k^tJ8mADGW~SQ*2g;_niQw*&7G_-(DnWh<-HyC%?7rYeF0x6HaBpA{*~uYMuPlZWEc3N1
oc5=#Jq0Ua=i^F^I?&gKEDJZGS$SKRKq|Re7amRTxD$(Mg;HxH5n3{0F+8qjO_)Biaow+oauT4hedGi
%C%12kz#8l!w>anIR}ZKW<?--_^6cBt$0+-OaqAF3QOI0RvuDjx_TM7ArMI5<ZUGxPQEw8{a6&tYt{!
XVo#4@e$98hE?W)pH-~xz+>ofQ=)Ln%dGu+VdyF|k`mbI(KnLmRXgY-qBOfCuS;G)}a4u_`L5Vv&;0b
C7AqPaKiSn~JSbAERQjnPFW{^TL#}xD+O?DEf*l|GVO6~6h_T+qJo{JJQGdY>(@FLbgC)O7?HyfU(c<
ZWD&Pw%D=;YOFI*6?~s<xz|G1d2`NgyE0;vRW7pGa=amoo3X73kIU{5tT~c#~>kTHGNSTeOp2-HE&K)
JRm`Q@fKsXsy19@VKFfo?x`pSm~xbpF$3JFu~=)61Vy!;C5hK^G7dn`eA<7iWQpo2VyC%N-xXPXDtZ1
l6Ae@{6j_!AP>`F90IjbTqis;JwDW&Y$h>P((rHwjpI0gbF7|A(mg`#Dh)o`wUQe}&*VkASU}xhb+nQ
|+ew?}R>TMWQFeD!E0^ryyOVgy*ke_ZZT>7yYu`Di>o9BH!G~5^b?=Cu$P(u>M-lKxIxpi5iD*IM#4j
qNY*QvqaoLSV5NgNqD40ymK^lo1^3fztbT{|#wf@V_Hj@`k@Y{KB+G>*5Z%Xo-+Gn|KNZV)qdm(!A+y
mL)RFi$k%x>=PUp~PPKJ$O+g+JZr|J+5tbGc!NKyVVr@t?WgyC{A9)<yyULE?M2KNjpC(l<+F5PspY#
FBjsg#Mgx>FrSOb!_j1`>wVJ?W_YZwmZJtt`8x;y>1TNGw11B)n&UZl>EZ=hN8F59=0db<8W{M-(2a<
8HeF_9sm0po9m6hZ?(X5kNEEl{lS}8AKCZf;qLkGk^S_|9F^`#`ORnF+t~0w?OP-FIR5J^!#!tS2<lf
QbHxw6U4Rar<~_Lm+1z!tm3Bh_`7ZGKCS2Z3>jo{VSd7Q0?sr+)dILqTPhIz&;r=~P-Y}P;f2mDp(aq
W0`~q{=-!(R8cTZu`>diBd?cnEr@>@+Vq08@{^Vg#FYIF2>r})08{pNk40bt*WfxTbtwAt%PS$A<hCj
hpM>yI1dvvB>vk7KPnx5LZN4uVdHH!q{!0FL=?t-I{`%goyDH-^b2ShlIxx9y&x?>Ytc7Byp~`On;jR
w^y<cOKa1^V-}__j`=yZTJ6$h+)U0zf|_q-^zaUTiH+Ns2V|60Dppba_veT6d_wV*hGOXcl)6lm1Uj{
>8x58h8}7bx{)THI1RPF?8#ql+j81X)bR+gam{hz^#n$*5TS82VEOWN8?jh@wS&nxB;jj!JL%mljQwC
NaHUB31&)^c1XYkT1FNm_y&buvIa`?+YT!hdqs`nl$I*ugGlg;`)qPbu=&)E;J{Z!i&djOf=8NZ^bpp
ugcJMA780J-)&T%)p-WV*R067#k!U9VB$QZ6V*4KpX<AkfCLw6lv<htfH-P=8|xdx3`y3JiTYJCi}>)
~)d3$-S<lO2)mGw=BOxqB`hIjV&}JiREgC#Ro+{4l@J(*R^T$KcVy^=d7AsQ&5oN%aWJ(}vuC5SKBCs
O-_1U_<}mXf@XQfO5GOORF-j_1AbIf24(cE77FlMN*@bg5hgrp~FL9O|$JEY*ziTtp01BoO!Y{C?mj~
gkPO>mhsnQhd$AEm;AC!%k~7d*BQP+Y2;aFH%38E<6pXpxYtQ`n4{q2vL?r^0HCmqi!K4fL>3=Xn4<f
~U2}c+ae-vML8!_OAUm-NkxU<S3El6vK*kTzy1n!mc3Np5iE<@wkc4~+NR}|!A>dC&9tBQ!pR7Cl6jh
{G<4H8N_<qcSVR{%*Q1we8d!l@Dd*D`H#Hq^4IuR>va3JZ7vQPyQ35~Utf9`BWH2CLpoI(_XL(5-jR5
k`4=`G<on$I(^w&c({(2+uH5WT_|!!eTaacaA;KPF=HjBxqNrto1&WA~{A2yPz2v)PEM6gV?wEx@!OB
+oqbIxNNY@^|Q<r=stpw*K0q_U3N>+^E|B$4{kTzSNKZNDTd-Jl9u>=s%q2J0%$qBMA_FtKX6!LY_#N
AP@+JArMAj@C3pbO#U>dj)uGJEk^D!<X|&%$j&afn_Xfr{U)$ISDn0Bqp@Aq_UB=6e6OC{Eb>kh{T>d
cdjxvhh@Ey*`O&@>68iuW-EAfj?1C}LuS9XvH|gSDH6QIQ;?TRoEqHH?-#PN_V%u3ZGasXSb6t4ar?=
DiycrRR_aWfB@Gg2+<wM(jLHmH66zETL>O8#Xh>5R!KDyYQT8z6dXmVszu1(xLZ(cv=_$hyEdAkQJXM
D+Q?orLNjl^AqDEANsziE^1E%A#o3-EJkmJiQ;Go!PxQn$~*J69=4;3?}a9Ppu9uW!cuL%#jP&RP^K-
}Svj?j&1A@HVsWZT4nnKeow&{#|qfplYR+jV}USdxT=jtr)J>Xpa?d*OVFgQ&}c5gsOSR+P_g40Nxhg
d{>^s+bvYl%7rprenw@?Z=S*L9eXCVd}`qWe?<(pvM*|WfeiE|Uoi0!oZ%)+L`LOD?g`u{kX<`XmNM#
`VEua6tWH;b&$<rDz(uy)L<_PxWJsP%9ulMnw#1Jdc7er}za0)w0DP992lp5O>+srNr*&4^rN2uU?iH
GO%8^6cLn@0#mz#WqJHM7952arw>YYT2hEf0?{KMvLA%UNvt<7f_mzOH5YW;kfnaRCOY{2jgcYMBv{2
0!oC@{jSQf)IVpGNO!0L2W)HXJ4Gz>3a1dzf<T4l-BT9ej3Tgvl2aJd>1tG&|9K4t0~lHmV5M&N&Es8
3M3i$D?W9iA;s$B);OP%#Kuo>bjmmXM}n_i~zg~7>|X%v94llFMfzDP+(>k>bSimz-uUHA<J6SWm%Ch
^?ObiKBp@<^*A_2K1){*?4Oh4k3@9BPcfXMUcb(V)j!8&qDTO?%%&nS*Q0S!t0()6#6zN{ajidv=aZL
$xTL*gd61ZJV*6~Ma=(aKIb~v;3F;~ZfkA66Pbe(4PRfd;!a7U@xqM}?jE^8SAFCTV=HNjrS~O+E<>4
OZV0;Kh139Giq$D7SmZ`cHO@5RtvtlC;xlVjzCkw9oe)pKVwSLsQpMQqy@ZvkCL%19?f%WSJcakaxN=
zonkoO9Zxc8T_s)Tk#PHS2@T<2do>6#dk;}pn4TW)yaC>DjSAh>9`nsw|E)B%UO@{86~(`nSuiTEsgp
!1!i;b$#?{?``3oTmK=;MqM=8)vzv)Ao)vzWFTE=Wk0U&NAiiC)yxo^tEgP_@EgA>oaq`n55=()FTf`
yx>}qC#-4sqteXxV}b7m|5`nFVV>7gAYSCyUc4f#9_eudkmkt%(lEPeO^rOR`J%u<C=77Vt-U(J($px
2B*A#gq)<BP+pL?T@YURV{UWaV1JoyI9f2cE-%<kR+fz@P^i)yzxk*!d!AxR8J-ABlcb$O!$1TSc`J`
S$WF8)T2i4E}wl_Zm2A8y!*2$*cU8nqvJUB|8h<gt5ky5Q!XI>v^MJnEb8WYr$HuNzbUvYlx8!fiXZU
*{icOj!bf>H-vF7<kpc{x^9a5PJV*Y#F>p}f(s{S)s_Y}-E8j7AZeP6apW18^LHK*%Khp!Sn{zTj9G-
&`Sko(#vl@TMsHRcSu;$voeErydPM;6<G)mGe>SkAxQ$lm$#J^EjLHtm?RahgKRS1@+uq1dE2<XGzX|
"%text.

(** Lines 11715 to 11864. *)
Definition DATA_77 : text := "!tvMJ?M6yN5?hGIT9M+v`uZ-Y-I*jCfWFVf<_LiLz}GL%=a4>dYl@Uiu`T7sH5zP10=0Y$j#I4_l!Hq
=!EAbH@Oo?+)CFFcQrQWJKW6i2@f?fshbw&>hoZ(J94FgDe-D_0!Ync6@t19V9hk9PqTDe9=(g<ui1b
kFl*`l3dZp(o+6+i*@%eFjc%u<_8Hk~ke}k+Hv6$z0iKaY!m3NHO8YL^F83ssZ)i&pd1o1opZ=A`g&C
c9bok;Ihn}<W}^U_7Dc%!o}SCh9I=EgsA*+bP-Nz^k6OlEI3k022UuV!E64C{Y`7U6pownst!7lOn8(
CL1T55Ju1JJnqnCUFENQ3S^!m_&%}!wCb44LY9iZ7aG#M40?3Edn0yunsxx5sf&0Gh2sywIlKtwMC%4
M*=4H;7XAEs#IccYJm1qgpXc`9k#)Hlj8=`z&CIt;eGoC?RGuf_$|bn><kQ8_zR2}lY1}4b^!8LNKBI
bblYW4JC(u?2XS-{-(c~Z{s7yd<SrtT?$_HH8lrc@<NLlsXphuv^AF)2O@iAU{W<63Y0p*>#V1BIC{4
m{>IL*kRXG})H%OE4Qe}Urir$>P3AnA_2XK5io4GIU<}P;2@V~>lFQow=bqDjz1#a8{dk*Ql?2Tu9N7
^GBr%C+CFR|S0{EpttkI)40C2+BqMt+eZ;U?w2>++W1X2VV&yh877kj!Qu+wOGpiEe@aD7^hdx4^I9t
$3%RPk75ae}uPtA?J>80r~!OHp!nR?PUuQP13`vxF-=h_HlX!?5xTRCR<yiQ<?GUWA!50h95WqYF~Ow
HuRXbW*SYmLzD7!R5@&=<iJ^~QJKsK3qVVh%KGWfKci}y7jW>Y#mgUYc@$esp!yC%z0D~%yyw(A*>Hl
@gOojWVvx_}gVsc#WjI(sI`3*0jr1hv%Z*))v(njDt2`O6Lb&Od_NcL=dIZO04LKCi8aun#bxJ8qX#n
Clnp}|Zf@q*9ci?&TWh#g3Y{Yk&wUy&D*UVt)j~yWu4*`N*P)*0D8TU&ds55y4&{S$~Mdn^&TB_EfL1
p3sS|Q8ec%XuYe-H7w$*QL|%G(_d;ylbrqXptE0M~1zk3bRE=t7iilfL?j7d(z01ZHkS?dUUUGupGmm
)8pdf!M-k{@sct<JLst)3=nsh(!rdV@e1rB@=@qe1K~rcun+*Bj}y1NtfU-?}P^|ICM1%KCVI^FwI0f
ma~L<(JM*=22gxqIEVv{4$s3=(}Nl@BJ50*WCh1YulHbndY;_}dx2xed|3B|y?VEfUf@BqZw#6OCyal
PHEW}*r!2kE-s5;)6uFcUbq=-aaWe0rNBATrp$>YFLfo`&>|AReEc-6c(17haBhitEAhQ~UG3KGUNiK
c5jfRsMLAzmgif#<HnAc2<vaXt>0Kb?`z;~FmndltA6K8f#Dx`@*dIAr}G{@)$6ujSgB>XA!<)82_32
)w|cfZP6*LP8%iOYP^KRY1hY+&-+&-Y(u{MjFq^!(<w(cv9FTRt>{Wk`pmoe+dcHGhnty~hH-82n4B%
8Kn)x+6_<r6WkgX24@S6gr_J>BnVr0PXuT<L*T+-LVe8-)j(d?r?%}5c3e?VvO%-GLWh-*(aoZg(P7C
n)E!RRp2v6#cl|Qv+5IZvQEx8`E`?6Qz?b^)SV_NKaMl<<ZL;8BxI*ANLw!x0|M@2fXewm6~4|@KCGl
uZH=VaK2+l###M<*S?6ZO(N+bHg&f?QvO+kzWNn;mvd6a*&<xX0Eh$9XW^8!W@qLj)q*8@2aw$*5T{)
1lhnJoc>xy5mr=!>lssp`>T13f30)z$wVY#u2JnmDo;>PyzAiWbN)!AI))dTLH8GI;*Zu|C#)b?U#ce
K&?{L&TH3whN5e&G|u;f^pOYfs(qnHc1#Z8_0i3XEXBF18ej$#8j7xOGM)@l>MRX=*N3e~I(yWCG2T&
=%d+k>+vlt##2b_i;h$m+XP*F`aHf<i&$U5^EHI)16Av8Z#k;%;V~zVW^`3Bh3$IZ@wvLqtnk7rE75E
AKonp?m5CPlvvXSqQv&uz^{H2Yll~%^-GVjUcM}DP6KWkU#Exm6kgHwu}+H<WmoRDrm+%Eo6{37Qmwt
LkbfStVvyUIAOl#?52^1u53I4yKzcs176esUe!Q`M6U3f`<40b+&FZ=++^t}uy6!48o$*p)NgN-=#PS
EXA~Z)srVuzE;If}VH!2nBtn#<Cm)fTp9NY14P*rXKj4k>i`#@v{w718+e-8e8|D$}|pN;*Rq5EOncR
9Bch{Es*#kQ3e2Qg^-|ECeZ@ZF07L3=)o4BkmMa_6N8-?%A)_J|pV?`^PA^ba`rDVihRTom}}A1Sd@M
ZoVu)CAqbdg<vO7__&|><usB9s@+N9UyK{ZbN(#_N#~=xpQB@$bNi;>^P2$cJd57*lDcxzM6Pv8c*My
xgfR+Vh7+GzL7g`<xUPB?<qk1-HNl}xV^Q8*h_p*;6I||PtjbkNBp3#5x)y1%WOTMdMTXRA3ff^|6Jz
JUqfcVM@5h#$%eeEb$+P`>bBR62RHQ6?-HQj?7MFJ_Nt)nw$QoM$OG_A$<T(@_D~r8IpBjOal6`=V$V
fpqgk~mRAzlhsosp<3-H6n$^IchXoLOCt(5VF$iZUD%d)4kB6!Z@nwx>&cW&Ub+;>#XS>T3fIn9Dad0
*p=J7na(?EeDDwu|lk8$XwQ{)t}PV?yo-aw+Z|)Fts;EQoHD01Inmjrx~N@wP?JD;g%S)uFgWrzJ+nG
|i66$pYCtC9e%QcvlY98a%oo-WovF_1FUH84v4&Lkz^CV2HDxOiMu@(MvFKA8NZNul8p@d-}-sWUNTO
r#!g<M0w#}>x;c26p-qNDk-I#+pxD0OFhb1;Tjv%7x)m8E0s8RVZcx4YsQI)K-9xyJ=YL3KXDIwqUt3
9&RNGVCw;bp^#GH+IE+<Rt@V71(&T_PB~x5y$wn%Zxpj}j^+6m*qAbb<3+01l5Dm~qusRqiezEXNI4T
I7fhJiY;;{NU<XA3oU<(7h*GO&!zH=QfPYa6d;{_tm0s?DS;JApbtA`n*xE#MNX8QI#=771>!fT!DyL
yW;GMzl6PjJ}5_^gUN8S7+h?CPPOu6N)WmF_FTW3Q`DY2KpgQ=;g=qOym3H&9H*ss$c}G(?L|0W&LVF
_b6qMQZ4!fnGKXAk<xw^6=_$)QSlyD-B6)sI6fb6Ld4d#BjOoJ9Qqq8@PI|chb{xSWx{aVzMlo1_$6#
oID){n@b^lYLs`2*pugyVN123rs5vf7HO^3qg7Z~g<s0}^>~sha-U#!gwm1$76wi;jBEluXk^E8R`50
M-9$4~^xo`;Xneh6s~C!_y!l1!(m5Km95~XdvlmQDG4L3r+Pb|iXk@o-_?X;2$X@zi*NX#wl^ERff`$
G7)r%aUk8!9`&Of9!q1`<lJpHl!nEzU4#a<<{gRV<>vQdBORk_8OSP$1WSdnD3hoU%e50sZE1ANko0n
AS3-%6N)UtUxaRC5YZqJgdnSA{TiTRKv7qr*Ki@AG2ee0rd#!xJ(jgvHR@s{#rzQ;(1}H?(Gwmga>6P
mOqbwM;yKmla;=fnHdV4zWsx$X3pLurK0pbjct#UYg~#fcUs*z7mPobXi)=jKkbDoxGBnC)=gU`DWP{
0hbVxtl|*4<%f<#<S0{Fmq*5O?PwsW)kn%cS~6HlFop{$^dH9yLEne7-bdCI-QGgSv~SuGX_W?BPl-T
3XU;7k#`Ec#0VtV%TAq3W4O!HN2Q1s$@1*Nqr<@1To7vxe)6p1Voa0Vh6aw{YNpc}df=)a|-<A--!v|
c<CoV+&Oikc2HJi|sF$Pg|=5BzT>^w#DNcX-Yc`sgMGIv!@>Cm+Cb#t%|Gr+E~-)R>!a-$=A&QIBS`<
h60TGr~JLmpSBn1aVOh+Yo7`XptYui~?GSN-n6BQlL8z~i;h+>5!QX8*3z&g1^NhquSYm-6!3NrG}T4
mzkJ(P0lZ9z2#zmt<~8;gx7h`rv^8dBjay!(CC_%2Q5}E3VjqcEtt~H5LIn-lbwD6eGkjD%O~CTAzz`
s8VDuuf&G`03Dm=PSP6eIQdW}bj0$|lnj5qB!PH=>m|SsIYBlco=DT_0F})h9INW0WxOi=N1+n@H=xo
V#{L2-eHROZKoo}&6x^^jLLvx4z(4O1g0Vdol!ou7;5Tz8gzuQ?gzhvP2=QhJMfNdB_zw{IDO3v49S<
ep9;pi6;&91nPgCw8G;%+|E{2Ql1RbZh<jLO5jPJZ$_^$}I6L{|;ItAMm_vjY>CLc@4H#S1|Sk?*N5g
AVIns(t^UN=tv5r%v0D|}<I4LM=&excx<i6!H`gE@VZm2G$Nx1rMIdMcD*Dti9@^Ty-<VyLwI0V-Mc`
q38iEmZp0_+Jf`&VLIk6)mAtOdRl@3B7nNWF|yS042K2j)&0)>?PPLOQ&3QLLV>GW!K<{Oi@D?9@S)r
0OUB#7RWJ^dn5J7n_@n_KoJ4WHABoTg1MhU4SyW^wg;&K^Btoh?!w{Wk)6DjAbSopAH18E(}j{nO%#8
hQ=v!Bzzi?-GnVHLUt2WcYv?866mHPBsMMd?iT8<s3hHt?#?nx#gmNJ_&)n0%lj#K^9VUQoWgym$1ej
zTFK{p2!}=MC)dk}11B96Z-E(ez7naDvUbC9jQe<55)ZO3=(d4NCEQ@!@%Tp;;zMODyLK)ZkibeFzMF
~HLxm-CuCSia&^WkKKVsZMsiu$k^9c$?KrwZr-<~-A*P+g&+I+<$f9+IM^6w`&)Q!|)iudP$6J*CVUV
Pn)3#OD^t2v9m{77~I1k)&?%ko9z^ZHUqGtJj?8D959mewGO_81%e?uGpev$aA<C7^}KrGYrb@1>aUO
xBz<Ub7k9hR~LG!`P#%D$V586PHI9fa}zf%vrP3Zdp$W0@0&V**1@f0T67j)nZ04H;&^M^<WAGMKyEg
GqDr#T#XK?~_FNzQH1o#NxaMJgdlpFbbmn7;8Ny9M*^8a3Mh`TStZGJ5^mpBa8f<xRH4b`ht4mnH=f@
Ofqm=VByrjBH$IeQsWdh~cYZ_9@pji;`d^n7QOfcuqxYz4!<IkJh|Gx+-y>89vi8D5t$QhJ9UTcZE9f
J<~0R90geN&O{3tq!EH%mKbHGXU82osR5?lTci*jMKj$Hx)G(W|Wb*P54s7o(fShF!O%4rwIsiawX*a
zbSxD!S2oQqbzFq3<l=<1Vx{0v{UXp5pV6=vmbGj}#Ev&gxzT4qJ}X8zTSE)z!HVXnv6kufb_DznI0L
?Qi&cP|6h=<fGApwW*SF$9821RAZbE?8sg5+bNXvdw66?5Wgg`aky1M(UY%dK3hC~AbFuDufz>E3P)-
$B&<#)b`5|-Qkhcw%DBf!kS^`wGaVI#9_X)ybzxmyaF>9}Bb~DIa5t3K0U4jN!bVnb<e@OA0E>UkOOn
mwke%qV$b~_AfUoUK;bg(_M5$Th)i0tHLkb^{>wT_8k$WM8%Ewd{gkS+Q=J=x1n_yt;YtmR-JxD#?-N
KSqRI&0g3}?scIk@Lpz=%>6V!?D4CWnw2gof7{0kSo>RMy8gY}p;$UIn$D!#EOwV4F_P+gJSmt?as%9
YvPyJHMj1fp-&e9tw{z0wnAk-UtaKfiPcxLA!fT&)lAK&VAV+R93rym06i<HAEG@B{;-IV~JQ1qsn`C
_YX-Y9#BSjLNZxesWc(4?rBV_8&cbQ^95&dXXo(4)y@nC>h@r}+vntRPe60W*`5y+=YYcsetJQxacU`
_(VBi}r<Rw7_*A;HZg^o<F@!vdVpP3dyBZCZ%?$Q%6aq>C>FKs2^)fOuq!Y_aeB$p795R}p7q7~+qWU
7b^SxK<t4ANA;iWJ`1mkPM4XE?5+H+O(y_x>^Pzmt7=KwX@T}1o&Cq-IQ_tU=trGH=YCrtV-^%n{j24
hHM!$ky5FceEM2=Y64lp#Bk*!AD?J;Zv$76`kCk74M(*GFd`)emgn@nf(*kl)juviM$={%rf9<cHs-*
aNq>k65w0kyvzh<&a+ls-JB;65riD=s(e=Z}^PLcPAE#{gI;|Y2OdTN%9?Aq3kXSw?VB9_w4R2WRLYm
Kb$Wc&f5SG`Wf~<X7oeqlJ8z6g!l>^`vd)t@JK;cp68NpJ{C22o$&r@!u<*SF7R`*8}Yn796$I20@HM
~T~qMdBX{<?`Ij6sT>zPVMq18BOy97PiT`FtaeiETP0+7g>+bp;0)~G0RxSo^tl3uxn6Sa4Rs6nYi0U
jhz=nQCMDwmB*qg;}yKQXzl7r1plj4fQ*C-p&G{Codow#3vyua&?c)PO4e~ow&=n;=_=stqyatNZnM*
>!e+Ba?yqjRHYrf^n^cQmWG4MZ_)7Q7V9z3E8rao0b;bs?k-wS_q`BZ?&!SX}cWxj5i$9HlIOnc8_QL
@w>lQ;`j3Y2XZk!N-I7z=TdeJE7k}GFEq1-XM;=uwAO_fTj$qGC*ar+Sw2qwS0EeCBMt!GV?alcy~s;
WY?hL>UJ@E0JVzsTuU;rz==Ech}L<T5XW<n1UEZB`RE|L!?(DYnkL^nDyP7eXp!?{q+>!*pVbpm0W)d
R*((mhxR(9xo=HIWiTX(*@npLZa)SZW!$eLSy!{^Rhl32)iD@28!U?1fLx`q&tY;ikXN4W-B$9QMA5O
fgfF~n8<1U?If{{-mcnGpTZrH<Qr|07&9P_6?leq$2sY0&1Zf!Auivkr`H=>uaxDr@d)j6$5sK<4_>Q
6h?o7S~1AoPaj`J$P{z-E}BAwm;d4ym6@*dp*$Tcr+z_7<%4IP0;FWwl|<FGQFr1IAAJn3ARhqbD!C;
VXq&#tFLNzC-H$S+CjyQUs=7-I=jWumh@fXYwlIMMDniV0Q>v*9ET}t%qR0WaTipgLdv?C=L2+JZvv%
*)X>U+K~;B;;LR339eR~Zq9yxlEW;iGW+?+{Rpc?cBUq~Maw?Ud#i;;_Z8USFb~f=ieKTB&`+<^yjdT
rquCf0sRrm%`w60-h-X{Q%bv#ZN~gjORp^^b-4@04!o3ag7n1fB{D#CuYC=35qriAaxAp}^zI09ecGM
AR39+irZtSZ6O7ym;)i3NP$1wEGCTqk!7ZKSby8g`eTLD*9=66pCX09o}=b4(Ae)HD9Zv9=(6@6*&HN
9Wa0E4{o!I785XgC6X|5HHx-{Z$jO&LyBVJ`Uv@`}i(I;AyVi=i|Jc29apznJt&Zaa_nU3@>>Gkt5Wb
oK<sPhx~Ge0Z8<=ufhGmEXURIEn`j0JhDcK(RqGaSM>IAlhaLWE-e}y8_wWkHUV0(vm|y1xl_5vH?PS
Lz>%XX5vP`1K^fh#S;SZ5|n!bk-Z<Mt=x7LMF82;){+!%ErM>p5KUYQWCDcK-k|tvkM4d9_l9K#B!GJ
ZIRy}HZ#`^1<)0Rft%q&M+t6d1yX_;{DpdQ(Vp~}EhPQ^KeFV`y(yiP!g|9E-&(KAngRh3pHYb0kU;_
jQAus@#fgl3Y1{e@spxNLv#eE7kkc_?M_D2uh-f{-G2?!m~C-4SJ3bKjA0Z;t+jSP^LTLYgTaow|vzL
QnA|3G++6$kl{9&SrFTmD>7IyScv)~<>C#mx|4o8i6{9t`PAut1rd({?XR=Le^DVk|rIU+D-xOSvZ7Z
E4@)Js;V31}OH4w;ddtSZ=WdH@=7)e#DSO@^)W*F=c#4VR-B{3V!6}{)4R%d@W^B+=(nod;V0k<?lQ2
pVSYw*ZMJ?K@Z<y*Sw#%w;svg6xyA-Xy7d~>&-C9v=+foj1)@lOq}NX-Ddi%hXfiC9rkv>Xt&4ucl3P
RA~Z7?<7lDVygC@frej?+srMLzo$Hz^@dICk{257TrgWj>!uOGQf%PFmAGg^Ix5apNO*dqp^{V$b(q+
ZGeMfO8K5f&354N~jk*i9(wNnU(8w3nk)B<BO0w`I&P#Im_G@11$IwaUT{{%u-ve9TTLV|m(wAREUMd
ir`Y{SM)-V4y%I~<kx&b>AmPFxYd56|NfecwfrOG(RJyVe`<6F6SZhxypP?wJjavwXxgyDIMO?F9{YY
Ph5Jq?Q(^+@&l0z7l*NhPbV|Pu|kGYRY>BGlh(}+j%`;m5;x8E7Pdvg4MnP(Rt-LBBpMz;7}cV;%TKP
?|MC<jnSf=W81f>6f5L`CKSWmd9GKu@?HAqjU+@zCo4#$*1kWV4Kd_h|Dn~Rdp}Rv>huR>7SBsA$H_=
|K{cJ8mJnX95}ntD7UbU9mFd?CpbDJ<_F6m(4N5c3iAtxCAVsNik`}rvZo!O=Lm0@%0lrPqvscQaa$g
?1z+bW+W(mshLwF>+B{)Bu>O@O7IefP@*zTf6II{V4DCnq2ar;g%x+GQ3eL3jUS`PSFTWE(VP;Ys@J;
#x5ov+^0Mn+l0m-HBx+*r1h!uTQHi$&rH$l#e`_^64H{_kZad>;JJBm70C=>k+AnE$h%yZ`!e`R|es|
DTHAat!~s(qH2isox4w7wqo;r1L%fGN<<VJv`lM6u-2e_f2AYcd!=4z6;I%0~utxyG03RHz^8gch7Er
Gkmu;_J~5}lkE9P|D=#Tg`^-q+6cuT6!{Ov2g&X`(_g(8^sc=`eg!ywXrCB*H){60P;!req{-cQB0rg
>1i2eb%!m4M-;YmruQBrR4pX06Nd5<!{72vHM__rm{WLy!K_`A2fav~>>EDym8QSsxw`0?DHUlK%E;Y
JKDg6omXG8f#VktGa?q^cR_Nte%-5>iy;BWdxi|L0U((HLB=^j%^7_0fKAu^j6mxMkNOOp6Estsp*Ua
6D#lPzOv-OVToY?l~pMEr$@=yicO^vln>f1wB<{`SS9PO!%eI@tUUcWMpkyWC%l6X-u!Cli;wRf<@}r
0Xi0AkDiXY6^OsXdmP6$3lWoWIj3WUAILI6&vRzr$?k0q@uF5fZpk~TkCvRm(xI3B(}W0_^q9y*Jacu
QMnH16+(bsxK`vnvGBAUI3?tnr_o$dx9PePu4w5MhNG<e&f+`k8${w28$vj^Sh!bc1z$l1H$A#zeUlP
=gq<tKoHWNKU}_mc`-rp#&Egyrdee=0J|0ppz%nK$xYe78-*3--1zOb#Ri49(dmoZ`B?4NOA8D}4O04
7O{OS#t)$e=-6^m3#W}FohdRrd_uO-`KzfMw!ptSDlcg568QZ23RO|RzOaib-eQ8AsTOk{@Jj5&_AbM
Om?k%%6P)u%k#r1N#aphbJtSYTLv;l!Z3!WWXL%aN)x$#__vagQDJ)imlW0^k;6B6fM0^02b(Yr$Sg#
Me+8>!+1{@Z^*ta+LHVFF&+^x}9|Dq`6%c-LJ)qIib8?<mg~4&f9okV_2J*pqEK#K^=hm<><k0)OWbx
X<1GH5|%h_;7LGNJ6T1(W%N3USU<d8#(SmI-tpnYyj4CkeM4-VuofeCK2heOZ~XawZH#Qvi!*)H)pvP
=b^a<P)A4y956pXcFh0ZC4I)ixm@k(k6`@CXZj8raq;IdFrnMQqt<_as)W<PX*H>jOupzJLHpi<rD;0
_B1XYr~dg9)bqz>v0A}*3sT=Z1<ng6;NlY05R<dpCQ$p0cw1;M`~fBO-=7p!M48xOvc1?`Ys`H-;vDW
=L)lJ6`sD`r~i5W19X9VpSGF*&NTlZ4-}mpt=wKozm~D(&G=Bg0cHj+x#hLbt8+vG=dy&3>Hw$LkL1R
d1HbK|~dhKi%R0yN}E`2+No{63>eoc5C|-SIu{GIkf6HOf!L^lqS#zmzXJEf)wg)nWqWXEW%*CT)w<o
kDXT+(>#{D_ir>~Y@Cozs_)OkC<b}tN!*JpR&$nX-|Qeq#V)MuOr3yb8VH0_z!Ty9Rl@ltq3pUEj|9u
7nRQrJ;)+Kc-s&ac73aHsVlt9GK=-=MSw?a~4$iT1T=c-lZKS@Ca750Xla*3iw$@DCRED{t%3vRXf@4
l|G=@`Z`xS(ec3cbktlsVV`S5QTckC}R-++;L(x%f~%OQW)EEZEI?D$+Pz?K@bndZ(DA;Z!4A!>CRaa
&7mArJHcPD`m$DR(5OoByJU1q?}`I>qfZMQ}9ceO;@x$he~*KJZ&jTzu&M(x2sA7xD9z9A&Vk#`@ae_
8OQiS>%V!RHlzAV_fOVKff-Rb6H~f?MLg8vmU)hHqaEKYy}KPRBBnq@6Bvk3wLzOXMN&l-JpQ1!DJI&
2`{JSnX<FYD=gBhG)AP?++U$sR&1w^d(}Jkdj1;c!+@`kkQ!`bz2J#MqO%J;T+gk`QP5#a?1(@=n_YX
#pYY?hY=(GZbH=}w*7{#iO9KQH000080P~d=N3Ah0j%EP>0A&II0384T0B~t=FJE?LZe(wAFLGsZb!B
sOb1!3Ma&&VpaCvQzKX2SH48?bT3ifWeyWq~Z76CF8MTP*Kg6x9MqHMM{<x)}-FZt||{{<*eZld_e-+
TLS*BteFW4V&N;xMK*2<-84cfmS1mgXLF@|W*Z2Vl3`K~0)sHH`4F7Qjo(5&PhBN2rvtO2pI>4oaR>$
)O`}bC>Yv51jPuxweV$mc?~c0X%seLq@AbWa~e+DVOn?{$`3Po{_4iI-?JY7JsqicXS++@+~J0f^)yO
VjFT$e6R-TNz!><T3f-owbIZGRZv)X(RqApN$GgP6jt)GDbirI;B_M`FvUOt-(aT@xF3Qh3?&GgT7ab
EJzy!Xq2DaxIyK(_dar3n_%!z(Rf8^y!n08<jj76w=LP5A9RCyEgtN)^_)6l!G`ajDOJql1QGQLXW>*
8%@4#~09*$LPPe)@scVx`zjECAzr>lYb!wG;r8Z*rpgAWgQFs8RG#vB$0gR-RKYU%`^P)h>@6aWAK2m
tey7DrUx#oRCg006xO0015U003}la4%nWWo~3|axZdaadl;LbaO9bZ*6d4bS`jtom9b&+At8k`zuCpS
hfmL1(ym5_0aaPhiWUKo~kM`juXrp+iQ<o^7oxM34vXxy3NHi<2Nspc@L&Ae>VqVOJ(X6M6Bi?+6rTn
$%MHEch(4da2!*CRo)&TcU(O2S_V)DXFY=0abHSgtj|Le7@NYpdno#rh{9Qo!cAk4A0fn=`<xZOq=$9
eno|^%HH9*jCE%)Whedw;$W$m?vmoTG?fCKjC#=`7xIf1&Pq^g^+>&tUn-v3khGFT{av!LX2WU?wk3u
?x*+W8n@!tBZA2%iU9l`Xxx3shmV~H=i#CsZMk%2<MowvUO@N=G?Wh(`bL4vIy-sO3I2j7h%NhD~6(s
Ld1^MTWd<0{jFH%<ywDG@H}OjXeBs~b3}7roYMJCHp`i!y^~`XC*J(=nWiL*}(K?Nk}m5}mh4C8^v7O
|fkp58>h^j(hs1{xw6MXrdY8y;UX!!O_R2sFaoG^~-@516ArRc8IRfD&YBMgtbpf5_oL>lu85OtEFB&
-fqy7?;jqA`yn3@C$Hz-7|XF>$@5;8MX3Z11dm<qGnH5(*+!*NnId3vH+GtD8zi@kd3PH-)jI?aGNft
fVocJVi3jPGD6nyfWu^>mPFquFP-)ANTuxi)wO_u{KL2lN1_QjwHP`jby?l=JRX1e)7n8N%OX>IAw?E
=5K4`IdR}Z(`pzLiQ2&=UeNPkP=japw<KAo?Xo>7!_m-m0sx>xxRP)h>@6aWAK2mtey7DvoU5zOBb00
1XL0018V003}la4%nWWo~3|axZdaadl;LbaO9bZ*Oa9WpgfYdEHy<kK4$R|2}_3V~hbMpN5;{zT^}P?
shkib+X=FIOAI^97E!et(o>vB-2e=)&=?BQ;&X<lxCdU0EZJ`kHqe-?y9cGud16b#P!Q-QMQ$8?$=`I
ch|qhCl?o&mzNh`xBIT>)t#zUf5c8w^sTs)qPVN+>tLkVmTmi}WUcP<uj$(#3%wNw)jtR=|2jz1oBZO
!e;s;N8=>}Ht9v7My4{NhspU!-qFfeQ?uMGj+g>>>=7N90GP<Mt-mAR~&+A&2y=ohCL1goimM?s}UFJ
#*y6y^XBz+qi`~7tbf9i{iULV&N0zPh%2Q3Sf4?TP#?zLWt?zpRqM`_m3tbh;oNg8pfWhHm2QMd}x?!
?f5gesAF64@mY2_)sGQg*#~MN|Dw>sBXoSHpgP-1zRIFwxkHi?S|^frXckZ&<#I_U;1+VaY^5Y(MIvG
olb%zX7)A7WZ$j_Nv5IkON5OSH2N;3<=ymNZxkUoY-gise}0pOF=cg)Vrdj{;jU0#!1RnYv@xSiR8X$
"%text.

(** Lines 11865 to 12014. *)
Definition DATA_78 : text := "ihF5yLv(GeN+r!os9feNQAwb%SB(^h2ib#Sz~XGzvS?62jO<t9UVW4e%qfXv)$R+`7!)`>a#|;frlQ|
GKH{j=>RvTP?R&D&1aN?&y>6TOm^1ISl8tRJ9cY$9#ox8sYn#;yoTrfoP~`%+HsYfKq29}W0}nU$;bO
U^HIbA$Epado+>4^?blYiF^b%+OsU3(YJiG%-JBmXAiy(5$i>0_ld4althTX}!J>+iFnN?^Ln+<B?X0
rgz-mM(NRz2{8&-0BIH?D2e60INl{O#{)bARk4Ja+c9u+(yRu*^*fyveW@Tt5z=UeOXj5`%66!F0q!3
tBxtVt(32_H|pPM0m$Hz~VW2M8?m#Oi6%Ksy8sfc<c-DJ*bN#!TLw4A~Pf2zWG)t)=F>$T09h0ll7>>
^z559lJ^U%JpKU;Y}(%KP;Pet7r4l9WEQPr%moW0qWy|iaTJxRXnNJ7HuPG_k6^8AEMTRu?p_ZiFOO{
-w2KYQQ$z8<u8$V>ju-XbccZ<jPN_$<wl|}BQEK4m4sHdozL~AJetYpQ5du$Yb#FyWUAc!43?8B%y4V
~46Leo6S97Fxy13ti7w~QGBh64|Gc+HiRy&0;@q}XC>LJqVhr(EsvR2s?dpRA1PtlK##0=hR)D)TM$a
Kb&kiRH~y1)6ZZDyvNQ#BqpnJH?sG?$TBimFOyf0W0S_*m4@oZzQ?L_wK=vWr^YL+spxA0%jjj+O$;9
%4aT{RZixvfdTtBbvvt9U$_8<^nf4`aRE2p<wuTZ4Ys^mbiPeqTsr?<k;mMwRvcVx*|+dRiLeeJ8=0!
1HoKrG62WR@^ZxET&Gyv!0{j_-Zm2BJM8x!Y=nBI+ZTt9GY)II|Nn*2MC$(N$vs0yiPl)1m!}ARrb8W
fKS}p<ymNwn*yWyvKM#H1A$0lX_V$O@(ip%Xa|kGhT~*Dlg<lQ><#~R1DEj{tUlm4`MO}j?gI{Vv!O&
S*FNbu!QW5;bM)3I{O&<|FR5%pJ2v0>Qs)Zp$cmH%Sx3i@t^%_7auoDY~%qX4>W<i`|`NPkeyrHAG1_
CqkLeB%>t#0qz!5~oAM~h(Gz<41eoevmd;;K;IXBB+Txy6Pt@u11DJnBvTKy#3Y{M75Bbdbty`gZf7&
<ptIanj1~T+pcB@vsP4M*Ho$BgSh%iXJFiSz9^79BVNHr^NyTej`g1xK;ow3Skks@tu}2CA-kI0F4#x
p%G)4Z?SDUh8MXOtn>d)o9wkE8sN6kB9R4n>7wuT!cka>Y~#T6#>1W^f{76_;ii1rd$Q*?$wFyPdxN)
^;H{NmD+1&0!1iKY9kIa?9fSgk7pF-M2;12@0Cylli^?LEr*IHyIN_vjKuCfC7+dy0c5SCIej4kK&Ty
XZ%{|W#>X47L5eJeQI&GbR|3p!Pdj6o>YJda`lBFoC5J}V%fVIeSTTZATxgb7WjtF@LnEH2dP}S$;hw
H~^n6A$%s<mXDPqHCKvb?g)@u}s${U{x&yW<8;cELZ1V~aTmkrIqS2-iQvhz1t@76jazkUZWU?Lhcq@
rr2CHG@C*`6KNu&@$FqId}vcE^7%6V!1;7`+m_Z^TbG~6{999!8?Y*oGH=@KwCT)LFd7;Y<fzV?&gM;
nc{lr!z;vjkxkqk`veBq@%$hiX-6YZ@mTsDM&i%uxRj+FEv=~*i)6M{Okx#t;=tg}FO|1x<*{p^9p?4
|vZ9`j3}K(Q<?FWD)vDym$>Pn>U`2?21YNkr`jRN%Uw>%5&+Z|n1Fp20Sg92x<&d-+2*iMXWaZ4;ZXY
g+2)+g1f|^U(k{kO)HDx_i(rt^=B$)NyB*l<BbQrJ{J5Na#=6IU;`o&C;SjCmD{PobI5MRUofJq0YN2
NO?{~OeSVlM80S%6DpP=j46WdndO==kahR(aU_hNyKw`AKv$k#*tDyI@4}0MZ7ROp>>C8%l;r5=TL%Y
(S78oObVOFM$04E7?5IyH2->F3?!o{yE~Pq2me~@FEap7A!Dk#7P>~APoh#!QwgU9~ZLVTZ5<%#MeVg
|6wr19NT;%Wpbk6$Z3G99bx$_7hl$OkOo!MY~pcf^&^qO=wl05ckQQ?761Wo<sVf=YH9icghb`8?KYI
+z-!C=o|SaF{r1Nnq9)pa?e_PomeEryi?>a!2sCPWKh&_FkzP>t#mWg^I#oV`VS>JSYz$CVH&{DfljK
0eg+4~|W;;XUYg)Z0R=!{Sa!I=iwlH<0HrSoaTA%R!meg-yE!V^r(puV8)W+)th_9p7)~9UNlk>I<>e
tpEB`ylXCz_#Rl_mf<7<`I8Huww*GM>^Nm{5?Ax`-1Y@I;bcd@j<gNJUX_Nt){`)$WtPX3UH?O}nWEK
u0B*r&+|olVum`Ft!r?CwYv@&?CZjBLWgPqn)BOb|qfEd_15SPi>0%zq~22gkN|+5}7kEd|-&-Tn@NC
uo89OV6_2lv*3735=jC+J#q1PEao}%lb8Z4KZ}<U6hF$A))?X@e2^`dGh2BPuLuNYy~@IFAfJVd3XCN
Hn>{sPvc!wz0g)EfMovd@cyL4JRVB^djK{l+GBjB=jH<gBwjbqjQXxsy&3Cdo$7C>kP*c%Etb!fGb&*
@Od+Le#{0>oo__Jh+!~oJH0D$nJmwUvuu>z$C5POYRik~B;H4%Oa3_i)+EMo$Upr7N(^Wuqlp2qx4c(
Kw)(p<_7a$Tl7Vo5!<Cw|6ryTYBGzb#fCKl7%H>T}Ov@C0*yXC{1|*_xE6=WUFef3!6`{;8d@vpi`o*
X+!C2r-|#F>ZZ7hq<gyY}2!tonbUFpM=NfZIb5=fnR$tHhNsUBXleydIH-mBB#Z)&|`5MB^yApQFUF2
?$|#7Fko0q?!nfM9l5Sh+B~fumhnhCuzh2L;Ec@P_Kb457LQzzkT8KJ+-#F*n>L|T;x)KtpBg`Zw?mF
>K>=bR_+v><Q&$(rZO)nup2QN{c_aoZ1AM*^XxJ$caO3|<00f0B`$TTaJQpxh)>EKo8K;hcZ3lzSXuu
n59(bH(k2P&#J;qS62s{Nh{PzI)q-b&UK^gfkQxnCB9icF^qfzS_1&WXD{%OTxHo26k3Gd;(0)nDp2_
T^K(1%<B1HR|vIk$KR1rJNH-ly*e0-x~xG>)coUgzezIzHEJ!Kwa`x|hiRkza|!RZ>BTxc}>*G@ZGnU
MNZrlZyn;-rdEt3YKo^&5dQ3o$w;Ad(GCj&V2%PS1uzfn(;QCuXj;I!ZW=jCXKWsjEc{9Km*V(`y-yw
xkeJX;@(Ru#Yr_HDMH*nXoy9lgpab!#Fnu<1$*1XSrZY%)#Tz;!#iIVMur1(S3aT9@)Ks9s<+9vb(WZ
8q{mL5mGq7!cs9vh#!@viQk|a7j)dz6{Y;|8+FOmsZpToSrg{&E($z#gWU?|2h0%g8tIf*T%*i+rm`k
YQ#48a{CF`fuPS&!QQ9+$=U=>y;xKh5Iy&|^Ff?T%S`3x7J&Iqxb&x4mq1;QnY+|EBBvBa!$wiKc04h
EfM#U{EE86?5FH@Llgij|mf9$FXK<y;2{3ZZ$F1xNixt|8YF{4nI+*<b#0nZYWuNh~n~7{?SL^1X~@k
}RL#J_u~+Dlii(EQ-P-h(qo6Mjuv7Sli<qrD$keR075_zcZeABh%snjdDAbXvs)gX-uGDQ^z~06SUni
$N#JlmglMxPe{}XiNzC{3c8!Qdd%4%?TgKWadP$M>I=L8B@yUbt~r4KzhdLNCr5QK@)xLmr^0;h!B&x
~ns~Jf)kE*{OM8mK1vJ{|74r(scdFNX7+pTJbU=UygP8GnN;6*AUC*Jbix5kKN9@s6rZFe@x#>dwiS+
O}hibOpvmwR&0olyq+6-uzAB!JX&zdB!)JT_@Ts?M?Arm)O+Up#CC5^k%nYa>j#oe*$jw0pfD)Lt?o)
T{fd2Bdh__GCg1m8=}gz!f6&=A5|^RY=I<C-hoibkV6aBOV+flN^Or&T@4tWK*u$7V0cpdKzm*tJ7M3
@4j8Ts)ERq+qz{ONL1aHMevyp|PDN)%=z@fbftY*8guxkAifpMmgFVbEW4988eQqFow@)-O24)fX}8h
cVwL1o}SKw-j#?<Y*bE<KhX{*@g5jEAch9p05fR%fpo!N8CIn3b<6kr8+S(Sy<t+TcXQ01&$z~al@CF
~hgjZA3l&Gm!5t*>QQx!95tEx@NZDU3rc`*d;fNkz7iMtCm#UjUO1$~DEg$3SOP*%lwcR4~H@#};H-o
XT=O}H6d0lajpPA)^RR_&zo_NzoYj-7}Wb_E%P*Xe#1nXZN$w^l66?c;Isge)5)b7aniki8nknn_;e9
8|n-Sj%ca?~l0!02Q{xQo3Pw7~_qguvd@vr7f}AWWScs97@POI=5Y`{^oChBRZK{zCjHGw=kJENX-xd
>Od0XYQ1*O?VnlN4Hmk%FdGnsMmngDkB8#K=Or?4)Sy(0;v7quKw9ZcO8kIr7<G8V&u9%jg%v~Q(cM#
|D2;cf9u5FKD8_11K0*{d-+>6bOjM#@^OdXU->H|D_cTUbh@y`sVuml`L^sp`4u30HQbldvW$rFJrg{
CZP3%|qkqL`(c7ylc((*E2^qpFu%bd-QZm4cz8qag(9+;-mK#cM7G9`88xNUpei14l<XTBSp%<?EhNT
t2N~`TnhEdh?Cd;B;=#;ZBq9;a{gO)c`Rt!(&r%u5d#{`ur3tin{1v5M?+dY=$Mt$v5e79xP0(ASEzh
&R_eTVP3WNWgezegQ*<*$DEi~q1|vfkvbs0g{;P-Vhuh`6R-EX}2}M%y*$s?@0SS*mkOagX<N8vi=Vq
dXp3UHO8iS&J)^jbh&IvEz$i3nY5Qryq7g7t?q-&I!fm(A@Ga!_C@w?ai>Nch|P{B5u##r(<|G&yBJt
_VeTD^}(XvRBcZq$AgkGM4pY-3u<$Ay?7zuy=OnlK0-Rac=^)p6T5)Png2e%9YB}O@TGyC?ww<cf1xh
E1&wf~2M*kwafFVKUwkBk5A`am&oKs8ZUyhMeevnKxR=@c_1FL~x`9>a_#bG@zfFfQ`8uLzhsM-!_y!
W2u4X8bT@?WSs_Uz}>#Lu{)i>*_*Xyf4i$A=+%}%Xg|43^{qA@j?UU$?qnSYheyF_#G-29J|gWImeI3
~vJh}+*leAd!QD<*xHQx`JwH`Z0TkxnV64$1x<`9~g?<Lf}Ft8)ZdLC<>2satY`@gg`LvSja1I;pWcP
2|AO5;3p~x62-Rau)>LaQhpq4uX@749<r9)z%G0MLy=SXa>KpLI<0I;~k{~<~HQSgRO-uH(&=Y%AsHU
f)kE#x{$tj5Y4z2zYRyoU)akCV6K2e(3Ht^1HPLQp?4S-F11~XFT-;rgKuiZuSoQ5Lc?>H(0H}uQ?nI
^dPKRlHafZc;cDrjYHrgtc|gx%(kQN?4VVJO&@_)(QxY4#AsQvFiHaNEV5SzI2%WkNo}P31>(S9pjq`
jjJk&FSWG*2{7cg^J<!4Rc;0(lz=I3|RmUBTPz{I`O_tL+;;9DJ`2qS)3RgqRi!cUJTiC}f=4Vp*?qa
rj%ou{?WK4ueeS61~bCHG?BM4w3Fp|m~W_*8kD(aC?Kz1f`nr*@#1+v#|i*dAG57F2LDqgj!$FXy#+&
g&#P;fVzI6LAuJ5SisNgwVNloacLTS2d`j#a~WSqEJFNQon?RP2CN>oVk}8YzlA_8J)MCnRESl?T?3_
Qu2QQP)h>@6aWAK2mtey7Dv(^96)3P007kq001HY003}la4%nWWo~3|axZdaadl;LbaO9dcw=R7bZKv
Hb1rasl~zr2+At8k`&aCwhd_q-(o2V#9@;dWW+rJfg!T%;T4NPka`h2H5Bcp~$(F%Dq2+=RyYIdIl;6
Ph)iq>_3%MMFv-$Nqf085@7Z-`fUk;5mDZXS_TcM;$UJpM>GA)FGN^w^rVM)t`G++w^gBDZ{lNRU_wn
%Bik!w{!TC;4$mS|F^%Tg@f?l6L=YNaiFnNA;XwN@IKfsf2!caS7WRx)EE&297@+<glM!*K%iA-ZXS8
evTcOaiMGV(FAKTU8{Qk>V_KS|f*bAt<7PNnTQZV56K4NNr+LA3!+Zn8R!)q_DHuz+jn=;EL&`p|7je
+CQ}#S{>c<9k~crir;vk9@fGZFmJi$q?r3(rlzFe9Ms|`W>lM_u+a?OLqng|svca%<I53zRT77ty_cN
sIK{_(gCOMqG@Kq_iW~+VB=v_>Hdur}{Er?c9d@4aQ!vA<)g8(RI<nzTK9A_@#S_oB!MGarU_alZ;5A
IUI__7n>$9%&4luTz_CW?Sz|gX>qneIsVQ!R^R6=q)3$|l>3h_~^mrVn<2fm9{d#h70Pfz#fK%_T1g)
tQsDrZjwMY9+O2`pK2Ap5kLryFLo!jGKwo28*yi?W2w{{ahSi(ogV$sNyMk1VRR)!youcMW#JWrB=%_
JOn=uOn59@$IE(6azmKXS-Ug-h?QXUz;AsKic3>DeL#Aen#CUC2rAXNl_KK%Lr{JMU0l4VL5sfjRbxu
e<#MlQK=0ja1n=;rj^MJaAp|@8Pu_|RMrwVtCW*r#rw#54e)((?*$8LjFX-HOxurpYri9O>)`{a*ov6
?yEZnLQV*nQf}D(L37+aQ<&j9gj>bKt2Vo3V;3+GxVn<fO4^}!nyhMUt6P#dx=`w}F+8U??{@V<FEL8
*Dqq~zK-2b9`LiG0wb0ul7H;@xcle9*FImSTx{t+HxIMh(jg8N&Ku1BLPEYz9`9^lgc2oz4Pkl)JYz2
V&U+U+VN1Yh5*fdFhVVBtcq`HLWuHb(m^(~{9AJjFcfzaDIbd}cIrp|`jP!0k1eHMqScXf?8m2#uqe{
TtJCQy*)O7BAE)%xA|G-aSf!<{NJn!29z_V|y;6H_ljkZSo^7&_Jn{B7;0c=du0(P)h>@6aWAK2mtey
7DpF${k)3-001-t0012T003}la4%nWWo~3|axZdaadl;LbaO9gZ*OaJE^v8mkx^^HFc8Pz^C=E}Xcg`
A5PTT;Fc?hOd=sg$y|%%cbV=%vv3>Skl2+}uK%4e1|KI)ZGKTqd4w=e@EEmw)V*cPFjEzPkrt!T+V@*
;ibu{dIuo&A^!oW%8ZH>@qbrv}quoXha8-5VAuz~`G(mwdw!N9}7T#Ut2!r0@Pi<%#Z;S&qS_Ir({QP
SXkzhFRXL;5}jB}&xXVh)8?C*VCf38oo)TCbnqU<uo(*F-xC=U4zeysd5OOU08w4~CZT`Q?9|VLYR>A
S8HJICed{_1T@Pu=5#>w$(Bu85_f9y;?7BhDDf)lJ$jN*jo{%;Wn$hm-vX6SpbAB&AH_>m`;x$T$iSE
O8u=m8BLb^lLX4FP?Bp$r(h|_9y9_os!4SSl=#8i_ZoKU)T!f1NQwf;hikjLib31GDk;%Azn!QPR@`u
Fb=>t3rD?|NI!&X=4Rep$`j6d>;l}R!`CHzt^g5N!NBrNI1`=|0r=nYs%EAlXz>wU#>ftvH`+d71`U6
l)0|XQR000O8^OY7y^(yW7<{$t7_;COL9smFUaA|NaUv_0~WN&gWa%FLKWpi|MFKusRWo&aUaCyx={d
3zkmcRS2z}eFymCB6cbh|mV%5IvEt#{iblQ`Fz%Vi{5glyInsU=7`-cIjtzxM%v07%Nt&duFvCb5N&2
jJo1eFHuc#}AIhs><^6awghlef$JV4h{|v4-abj_g1P#C7UXfg*x~z|8sC~ew8Z$m2DvbM%ko!sYG)n
#kS5jX?-iIi(loc!Lqaw+v-Nv;++9XLmcFrZB;kWyC|S#UX{ueWoaXud?ODI)^)WJc_nnk54Vj}XK$w
BL#f&=7Rl_*R@NzY=f=rZRb4C7A(QL0Et&-t>ISN*+f~!n(zbe@DtT5aS*pCrck)HPYV^=a+BR3F*^l
SvZ+}QtzIq0Qx_$+K^9~Y!{WYx@SiQ&q(o|f^X2BJUE171po(lNBy)}i<TtnNYtLyYqs-&%pBENW?ta
Djp7P>~@D=ZxEQOIqj8q-IXu*Gt*0W9R(v~Cvbs@?#C(=h;TlNY8lbWm~uHDitC=at;j-kC1(fq>5oi
KD)(>k1b84i<e5+gY`ZE_qv5O$8gTzy4IMXb0coa8x$Y1CGJRt<ar+&XocZe!sesn{+D9%3WII*@t&O
O~v!8w!D_v%aW;_J5c}UK(exIXqvVLOG_q2UGToCWx9c4)ouWeJ2OO6FsVz}9JRm=DASGPeMkCXS^$(
y1)i&_L6qh^5k(^`GQ!saXmSgKL4BEH!BjNW;#%G=U`>l6S3pd>B}_+9R9-6vlsE8Q75Pf4sh-KNswx
+7u%`kJ3$~Ue0W4Fb@&ybHOP^Rm-fYvxUl7wLZ1hyX?AwyYrr*`J$Q$~N>1&D$nTiWMpM*Am4Cj<*rW
V`V)2UcprFABu7tRaXwmFbwx!{g)0{!`@CT&`^K;X{lf-eULM>BB_oJPq;RBIvy!L7Lgvz)wy!v}msq
@{pOs5Y?ZRaz9c*nL}9fG3q+0Qah8me;WB$-%pqFV5b*e15)ofBx+JOw27704OlRoy?}f`y7eKCy$&q
>#8k>+MGIVDqxcJK%2)-n?~Y#fr~E8<fhc-k4_ud&`nwb4F_$W983;gynOZS!%yc6yP%)Wem*;g1wB4
Fc>d<~`ODYmi|0Rnc>TA<`?LRe3FVJY!~^*6^qYgT^Ox`Zx<5QRJvbmz%G%9VK?#0I=*z*u!Kz4=GMv
erw4d|Oc^R_^n9OL_e+HbxoSR$v27DPP8IA@}P^@IJ)~)aZ!r=#?jf}+!G!k%_fo?^sWI~d|w1mzuos
XZok}Z5U<VkRmQ%#(D1UDDk1b?xm`C61!LzUe$oaWKP$Qv|Cw_90eF;+Xk0R<rV5IX(lf~Nu>wgV^nQ
#2W?qn^$nwFJ>siYQ8ctpLZ}^8SoxAYW}{b5&&)$qUW@;pnCt6(i&KQB7Nhc!qijJOmCK92l|9<x1l5
!X8OC{4aS?06SUX@maTUoV0*(0o+{4622=XGm$C)hGI}uHT;G=44_(Yr^ijZEr6WG8{iE!@CsZYC=<{
%=fSbecC;OUeKaDiFY*S@iHmAyB55s=^#L)sGfCX#AGlp}5F~)bawQ2-QxSJuZ8Gt<PwxXsQd0)3axJ
b>l{QVSAw<C5v*@4fyI2rcU-bJc5a&$#ZaIi{aXl3~+QUF{gj+wn?49y>F>V^33^OmR9-Wo>?2t!%+^
J8!TAbew=eASBU12gi+;1H7bydpYRvik=AsKCkpZGdq8jT~;a-&JG=xdT*6W9VJ0e^deiQOH*b}q2pW
HPkzR&2(+jH$>fCI3D@uUk2BC_>3`y1B=hM@>Y<^#4@!PkzT_FRJX8HYXKUPke}a;xQdSZ4BIp3(#Qy
{~3VC0i3Qe5+1D~JaK6b+xhQl(XxITAHJfMZd#bt1zJ7TF3)6^98UZb-D4@v>AGu(7r1yD0jC9{q=I|
mD7J4YZx-52@EC$E8)5{w8NdBLaT?=l`fa&fH||<P0f7fzlNNZOc`$!L!MR9_{j3G+_wp7T3K>gU^tm
2$m9!Y-Z}(s+N8&|QMxbG)NZ2qPm|w|^pQfv3IKbQ6$Dn5mY;##5o!1p?#uz8V5q-wMf@GYj?O=U4_|
Cz#`{}m&PR18gyM*nEF<zzjkf+5Qi;Kot;1{z$k7$t9?j}qyKv+H|j)b=9sj2)7r*@U|aYTE{-*c3Hx
Sf9K)lg|~f-!NBDY2ALtm_UiB<zBi&&BERcCEpJS);bO>s8aa?*KgB2Vlx883GbA|9;0QFWB!q+;Lq(
L*G8d>7l;RZ_CTtgF_rXb`3uKk=Av3JA}?PF`PNTz0X8#;{-LQI5-LQ8tPm(NQ_IFU$cChQ|~(jxFx7
LVv-GMHD6x^l6swN(rd?W60g{0uxM_#(6#ZK_fKZMcBYO3b}C#5u#8d9Ox!{1EB<{@p%L~Y`nm=zFjN
g{c?m=h92Om7WFSq2+yNxO1eEv+!dtS~K)9P;Ab_w{66(zaf%#o2$m$}0+a2;Pa-4V?gxbng4l4(ybd
!VWr2)fciNmkdVI;m1F_pQD#ivaidFnb9ljp#%(b5k{vzzBf0{O}893f&@FK6JRQmPM9er^aPv9v2h4
_1d$9+|IRBkmi}=$Gu=3+ZgxwwAlRYL&B*fN<JK+vgn-mlCLf;_Of>q?yXk*a7zARf-&)#oCAk)r2N)
A0M?uKT3dNhq`h64)x^xb4X@T8>WecXCUsK1&tt>@H2EI)W<8}FGzVa>Ns2K9^!lb%hRRyVQY2q18TE
Ph3MR(UYXjSZ@DD15Q2iIOCaZ~e07C-h(d}6Fb#RI>Yc1L{2A%3f_3>ByS4a>@qM_>z=W6?zX*WLyh_
c~W~A)`O_4u-ZHfoGusjYr{AO6?jOrO3ziVX?pjg%=K%iEs4-q-ptTQj5IUJ!Bkf0ZDtO{|q)_S=f7?
5Pt>8T(qL~6GZFa=P(8sN)fTcj%=Bj}Zy(f@SV?i^Uej(vf=%QByd2bVo3A!-oyj-i2r5ce>HK)nYA{
lGJUfdgPBWmdq+M12S;aZ0ArM37eEb<)8Ff9zU3r{ce+HBQ6?AcAF*9i`1SmokVi2Wvs4_aa?gb1mT<
I2Ej`1dY2@>7}$s0Dhm%%!z;c^r`X8ns|{@14SU@Y#_-T%;+yK&m-WWS532>J$#5iF7h&|>dS|hvax<
J4I$B|EjH!h*%BWC-lwMr=5TjL@FFksX0c#aX&DEfs5vT$T_GH%pv0&Jekl=tP)2%(U&Is>6e0lxMSA
PPp>Y#}GNfuMn#?+O3pNW!w}jkmn_JpcMVm+FHqRpQCQ25fYgZ#o*3~^{lraanF@N(~Q&EU5=<wU`*u
i}Fy6D0HOSX^x>UH5VA2Zz`9Ov_fpeUbh--#dS<V6Bw$MW^e5;A(JNdh8%0}Y2nyf2GMw4n-$-{!9EM
vXNOp9{xJV=LK%jR7`)(iWj1)~MQSkG~64rFYreO{yTq$i92O!tO(WZK|a3=bVVwuP|(9Zm9UcIeBnI
Ykl$@^cm0f_x9+1r9M3+oz6j&qx6`w-;WPqM2@1k>WjoM3x+x^)dquxfDmBCdR{<EP2#$P&<YA5IApW
6oXH~(&0d`K_|^z=8nf|!jo~=%{`)PM`*Z~0*AgGHB;eN(`><5t*J)<ukb+-Ne9O{;UuPJYOA*1Uh?#
W<v8$bgbg{KMT!{6d;L@~j?Q|L*MhDp~xoH~;@_hk~u$IFU)tL>bdZ193pHpD0Wb<;6k@S%ZIj+?GMV
6SI0GcC3HD!*`KZj;Vl}?oNo3v~(V)=h0eYyXaNnq}(+@aq~I%=^CTP2EYWDE114t$G`rza<_I3Jeh4
mUW`sxsjG!f3YPR+zRvKlU6&28^Rpd&*){1z?zShcJA_iXiH<9CYtEybppR+e@qAEm85O^{}}@bK+VJ
xTC?QBD)T(I|p34Mk7$~;lgICC{p@lAdMCsR}U9v@L*KxJJC!H??TXhG*2IGBhq|OW=uV8uha5;?QT%
3GoMbo^RzlgoAb4}LG8_aTrJL&k(-64%;{6WNb<TPJMw~H`DMPNn2NDDd>;&RZ@tO9=-7zU!8RCnr-T
$<)krIir&#|SX{8Ym>z^a7kREghL`S3$9V3kqy)nrfK>_ZLo?lmV2r#G2X=~#!z*UJ6gVl;`AL|gKoL
(dp<_I|&6MCG%U`myELzWqIys7GIbp5AVfap=Ofgl*3RX9jLe|Uc`F00_A;m8TudwTq;#`Ki7$V8fD+
L1Pbb)sqdfAR%dRgW#-p<Q7HS_teeoyYP{2c%QYJkhX6r=sI_F7r!h3KT)`c%l=nVZGjCB3qYDg?V(b
$H&~MYkp*TlRG=jR5}hbpqm)91*gpAGkcCTA796(<Eff^?F54zT|XMi@_{(tl6Je5^#GH!$v1S$EHAj
%D$u{-E&*8kvlY4Pyu{C|bSHJtQXu_G)Ra>8bGm(hkr8mcmQO7l!;2y>VZSIGr*q*R0vI@yrA`%fI;V
;q9wZ6#a#ge$3(78jXVSsY*t>|FY#Znfr+s@1h$_Y7<g+&`RF4#>NteKd+Y3yQdw4C&60ll>CijnrM#
p)$1zz#+^z`u)ch?*bFQIoR`e*GwH&XW`+Lr{NyD(BH|Az;|Bs)GX7((>Zo=kW%12$FOvh#{ImigkEV
zK2hr_wQ#1XK7LG?7i37frRCI-r)w#g{@hE6Xs`8Z+O7ldVbW?h<CPprk?L0d>Hz8%&9Jubzv?|Muit
"%text.

(** Lines 12015 to 12164. *)
Definition DATA_79 : text := "*auW~9Rx<R2yJp)FxqKI_K2whlZoRAW(d}eLJ1j@K0D}*?;F_o;bZOM=e-kp)VKv~!Rkv2KPZ|3=6gA
G+xK@9>R3BKRe<s}0qT@`PB{w<<X@d$ZqQ<wcL}z!C+D>1yPp?}v>qmfP+X-;dyOB+B&{!%A0Z(JCrx
jtx0gd3A8KGkC%>KiOa1!{_zibYZ9YXJ4n0UipToDZzDl=B+*U2{wG`H@Esx($e*e>9g5KS<*`K~+u^
l9?@}bh_Wzt_QqW=y|c?<ojrd47$yT(HhpW#V*17s?0Qa1QfXm=~lUc7#0lws`eg{ym1LL<!ShYhCZS
(!$YFkBzf!v`kJp;$<`v<R1Ug()v3oFQIikzU9miM-W32j<S2P7PyguL>;$*c_ehLKC6w1Qk%Gy+UZG
Mv;ems`jU+yL>$t(VwFb(ASI$7X}`hQ3${lz9t@rt-QtjfN>c<wUqmVEYEJRN<s>`U%sbhuKTiE%*n^
xhkj6-Yf&oGFJTJB9=N>hF}QXo_?It$%lv2<s>zXsA721b^R{7-CNq|PegRO!DaYVCoYef<gWesYa<#
C|PSz9s<k-*_!pOGm)7$-llwNnK(O2qUzfz=sYt(eG{3Q=3LKrw*uQ2b~xl0gt>G|<TLyLxXc(2(!4J
6Q~Nnn6=;<BeK8e@<ZMq?7*OIbAfewa64;*@={-5Cr6cXQ&nCkv3{PAD6#l@r!y=n4iEP}p5h!FcueC
|LKHz<@4I_ATS4XXV~y^gE~`Glg=lJ!Ao+zLKkJ6OBPn3EnRu=OSKI!F&Y#%~4-5t_oakD(bd`Q9whx
yn+G{xP`g@;2E=ESvPqZp*jrGx&t)i$O$r8yt+b`myJ!ta<`j85To`>05d|-stxyt*fa84>sfX85@L2
IbmOT7->pGGRTS|@Uj~mQTKis`AcapSg?CwuoI^GhI-v}mTMlV`a;DSM0xX*B-5k!)4rP9P4*1a5k)F
Yn^NY4I--m9&O-6?4?S@6rYzVPkj<M5aAZZUjtb73doNWLN$XE1TsW{>bR5C-bxz?gNdWE8T(>CPb#<
do$f>YpWCwf%9guOYO?wS1<>Dyh$KT*%<6RgL%Z4@)W`!Hc2>^Vk`*0Me}kqCkut@xH%w1=e}iJvi5;
+S$JaQ!-ALM8V^aokV)nuJoUpYDB+6`EKuZj3pf<7u+46J_XT$zZ2DvY=6eyvLmh_p^`v+`Z%xC?3Q4
e0+0rb4<x6Hd#N5e9{b@pbU&@i?%DE<RkGc%gmt1G$>-G0b4?$qG}Re$?2%G$wTV!ri@z_M=rp~&%x`
7Xm94d(}IkKDB4dh^g3w*AO~7c1O_-@VMv&mxs1nbHj{Luq`ZzMw3?u%kwp=b0ahj0B|e#o(@B3r?#l
!S5RMQBcQm{aPJ%>0TK^~~Dm-@1G!X3IK!*C4@vdM(u5;JyzK!zz`108cu#K5gJkRT;Y~paJi8=d&S&
e(<7o9|XVjvejlYn*P&!gymS`b;5Ls}5&G@M2SlN~rRpk{w=Y7En2>Nq-~bT$@n)><{54VY>${f$Jwl
}>%=UE+1F6}nw?bK4W)m$$L`K5;zR;T-lEmW(^nFL)o3vKZiSa{3YHv8BcF3V19s+I-a^wbxuv+q>Ex
KcE46?5ilM8}5L)f0%`rHwv%ymUt!H_eW^=00$UCNFTO%!=DHXLDh1N$*;6i1bz@C3mv*rzgQ$Kfrx8
c(i`NR#4F99ED4`v@6E$4!yC}{P0Wi4+=LtMMcdpsyjMw~B;(!Y#9mg7w33e+lUVA&@N#K_zlOps93I
F7NLuvjb=SBP@uDU7x-E$mEKB8=crpCSgp@5Xa;WRON431PxeP3~(gNl5EvE>pDf#y}Q^HwFXELNEd3
X^P$DZNqO4?jaU}kjR)LqOMXKf_nS$PXA_(EYt$@h7>SOKhjxeT@ta7oLgNCof~U>$&XA=hiVQr(uIP
VpWdGV(jGr``ifwWRCeur^qZM9+55)^*Ob$&_(6#s>U{c<-X0Y-Q?4tk+%-??s9(QtKFW&hr$S>v?5<
U~MY+Ts!OYA?%M*Il=@xX{E#IKj3|!ps4meP-yh7!^T;BUW`iT3?eDwojrR&ks^)Se{0gawMb1(nnUh
}jdfs6oKreDT~c5R9O)k@q1Nsem2c2L+$ws8fYUV5Vst>cnT(Xme%ys7O<<CL!a;Gb_u(BW9$ByTeu;
`2eL5k3;v~*<29AGcL?=^q=}J0H$0qD_2~#@7-984x`G=ev65$ciUD0c<S)rGqY!A$0fl8oSEHDApt|
>C?IqFRG$ay5fE!Onq7J(f0TI856bL$qFBy+b67#w;YoDzKiypBb>1w!)s(ZY1mr@OP5NNbD@QuXmlZ
0j(m)ZhXz#Md7NYw;&NTw<GbbT<=c(B@KNHhD&jmp2GhDBhd*gj!IilFLMVbMg(6-|5LokdNbRK+nej
W1#QsIPaWi;)R#~W69~qFh>gdzM@Nj>4rQj%cbQR#^AC0^~tbs9jtdH2*6<%V6`UsY1LP2!b4|Enmop
6rq&)$pqVom-^Ua<)meOg%)3J~3>MRc>uiT2A>(AHiHCp>il)6>*69t+^6zb4o6N)IlASknXB=uT^m{
0!celdfGw0??0Kg!Zd4@Mwkx6q5ivpi`!$+rI6_n=HJ=x^p1ZFg}-LG=Y+d^gA1dZHX9#5ciVVI4<(K
#H(Nl<jBJf$1wluQ7&+vg?#Y43>)z<p+Kkl%xuas1ltPTCPO4XvdZ+_27J9$~TjtJ4u=nYm!vEhXqBl
;%eh!Ye_11<qP4RgrPZA${9mxDY_&p7r*XDOAtPe+mU($pI9hGQ(`_u0wwK8i?T)2J#Q_uphqp+hMrv
3}+C#-ldf1=2D8y4&)SB%=HUk?$=bjYv=mipL7Frq@Bb!!h~kOZ~~eeDND*sGzq&JUoM1HCw8WFo#Ty
iy_wyyq-O#Uawdx=^^YVSBJ+@qxiCbp3ZeF^TBCu`#PFU{8BQytDY8l_HKdyfE4l0{Epv5+tHIcgS(P
#3#hJIVoW`z61;tbv(qIuWw}J&hhZVh6BSlyRA7q-?-tZb=GuQI=rm8_LsxMoLwgm@J@5S6c;g(oT#w
Y!){9*;4GEPX(@HMg-KN3+7vl@d^mvC7cgPw~bOb+A~3;paDYFYJdgS+sZ!+;Pm27jsX%ac{?=NHz}Y
l<QH3#11VbWgKhTzXiD52$y#N$-v@9UZTEj8mi+$;iQ`{W4TW9v|PAL6Qk7tt-*0WVV@?nW%g$PU$%=
*Nrp~kfSCh92c(5ou$*y3-)jG)iqg>nqy~`eoq3_3=~iY!{DMGVxy_>A6^MM0IW!(>5DG8n2dHm57W_
@Ja89PRrJAuQf#i~Hu`Gr4CgjmI&hXq{L!1gMV_^zXF`Kk*X~edRsKWP)&J6H99bI}iu_5O8pIb|odY
a%=86exjtxb?^@hfePM?^!uzHV;={wWT42EwjQ!EQ_;xBl~aW5cepB~(E8#ySXTg@XA%awh=Z2(8zee
Aq5(U{lW$fBSKg%Rdf1tA5IbB*ydSa`&Dbm$iiU-wl!5rdeRp<O#$>KhxtHdR&Zq@AByI?`}pN8-q+e
Nh;MAZgaK7@(2==HBS`VFpg`!Ml6o3(b2i%NPn~Zvj_Vl&VN-5kveRT2$;j8Q9Icpa9<R+kKPKm4kMU
nM}>XD7QnaMtw%N6Q<qN`ovKKAQ{9DFoNEBfo~=aELOKj;Ge;-5i*mHorUZewB7;K-cXE(E>!*xIe#?
OI=p$%a!%*NpZ!^*9h~Gi@e~wtk_zz)>i&+s!}sWowc{*;#Qc<ZKiyS%rbxo}<u&^r!PcojaoeEs3@6
C~DnPyIW&w&8DJ!%tf$P$$mMGiJg(QWS?}X(byRY!vIa5kAcbG(bdbNM7l=KW`ofo`AI@ApSCEnyl=@
@JgJFGJOZYjC4-23ph_1QYWJPwJtvq5BgafsVx+F49_)2_~(?$Vszqp*}k(c7%EHA9`tB`l;7<2VlGe
2)X;=SaNg_=TYO1(~J#vDseRK>+x{Uc6oA$bt}0n1bStJ}q@>l<)&=;}PRqe3OL%_u6Rb;Js`+kgaPz
oHH@>Ky57hVRQ}Lc~$pr&;u{r?g1UX(R&~G?pwJbXbslSSQ*^y2Dm729m;%geJB0x2E`w!5cg<!V!Y$
?Zo}yXp>DfJ(-ZJ0QnT@`zW`YMO~;Q*6n%YS$QReC1A6?CmMC7_98<Ry2G*-$@CmtrM~fXT<_MkAZGr
JO!y45FuUXIvl#!Fhw6LHhUPN5zMsxSM;c#Lu!aJRs-#NDZJD%VKAxxz|*f@gBZHErBhgP2f2H9q2to
;u#GxgYbM_*ocgIZ}=<YgBb>||l^vTjc@a>M{k<$Qx+266`P5R_BWb8vJNaO}g-!ZX;00U>&)@a%SJz
Yy&S&kkuxf+tPRv>(O4&{TtRidXYNgr@62nAk5{?b``GP<?*y=_SrC3^0GQ0sdF_r43C_X7s(8Xod-y
#$OMy1|m+q(R~m^K<E&|jtReIY@6RFscQfL6Xig19W|xI0{rdc@uN@ljhEq-Q{7xc#V-S?<92_jSF)|
P@qH#dwy*dhnnI$c=Q+xu>^Nq@Sm~YrJNJwG>1JaJxU1auUZG(3neRfJ;!H^)>;-}S;Ejp+g}H(#i(M
uhBti^oJ)=x=pA3K3mdGSnM2w2Q=-g4AIb5GR@w^)})paU>b*T(IU}<LPg^cFnWO#yMm}@Y{Z#=&*>`
vPePx#I3K7;5#iaw#dMBU9_%so|`!4(_~*7lSG)9OfMbZ@Ve{0KlT3yE5>CJwEDeMc65q#cWVua1m9t
vGwKA6fPdK4o#0w)nCe!Qx~T)68|Sm?@5(4vfNl;nC0x);CsckjNStIx%Z1{MWz0V4-&`jlp7pESK7P
T`s-68pm!4ef`csM2olH(6hsA-KeUNV3k!Is<!aV%PepZ(0zqa@dD%Nw~xLx0h>ZL0E^x=L*JG)(J0o
}q?git|JYu;ye_L7*tSb)ldDpU9pIgES})4m##zjifCuI#%Jb#2wn$tq(JugdR_CBNQ1T5$2V6I{6VV
uvx<^2ix8xf@_!Opcvrc=OL2z1~sGJw2>)%gw+zo@yHB5kv{QGOK%nK5jR?s%pF}p5MIn=`>Jq8?-m_
JrH-JS!+e}Rkmn6a@5H=KUbAHK)8JA5haZBDEb-EFf(_M+xdEy>33-wKR>s;cXDtM3HZ>jINdtUMD=L
&{o0A&{Bp9=l_fvb?0fW?{2BTry*L-Cx)c_?*&K0<*zGR-=WHgBpm%Ncq0_I_gc!PT6GUbQ24=YA>Ys
6>>H}GhZJ!uaf8C8_j$1-otiJ=XV(*vOr9m*XsU*2iG@r_jcH)4p_#<$2y<9i@&WM*Y{MXjyg<CKi>D
B5B^ibpNThg&pIt^B+ljq&|l}E%LQ=y5&df9Si7gr;@PB_dagh5G<?MvuM2gX18gA?e|`VvHSxl4zCH
aT6mcfwV-EBv+!<z8n6(R)0k{w6ua2Kg#WAo^po8PbrwN=bJjt2>b%qw$h2J4#C80(2lw?o`(5!!Ko#
q8HYcy~Tn^@A?P;f2r0Y-A8Y0s!;y#ch89AeCdC&?JI@c-tHkHAptcFB6&lo)kyX-e#N+8fQ>A~u6e9
J(BH|LB{=j)Q4<<RkG5zIl$@MZWBnF#PsA*c;ARy^yPvGD%P+!PU{;j)22g{8hC9nMf~VJvqL}`S1L!
99JoD1thFpUKQktAAaHa$j0_{%0ZTAs61UTXq3(ppOe79Pmt<C!~@`V4@SVD6Jq#vcT61&`9ioGNMJ7
JM-(Xf6HfaAar8%UYDG^wQEnym7|^VkYj{W8=5zLw{}GBWN--UWt|{rnCR0<;lZyivH-pO$IXhJPf1p
agA2b=X>#nt37v?YG=UU#fDS6Fv2K6^0y}T>JyuLnF7ayVPC*8Nl!JW&ky>Q>aMqm?Vp4T!N3pNV4B+
OHUX|-zWS_Y}V_};;Sq{?EWkWWPZ-STfvPQ>@~zG?Km_`^wH8}&hbrNr|hM-jqjR_GhYA+)KRzvEts#
w#R$7@fhl_nN_bK5hTp43L;SphF%_i|p8MJGJCLcl>i?v=@~cdN}eO8&E2+psZ}5(^geQBHo~()Hr@B
ley8UyPU<2T|iO7htiRwn{+*$uj2jrj+KeLUZ#2J$oB{Ms?|)qXZc8hA-bmv%+y$ZUDkYe=_PsKE^W|
!V=p+Z87(<{h3~%sP)h>@6aWAK2mtey7Ds(S{wRtX006pP001BW003}la4%nWWo~3|axZdaadl;LbaO
9rWpi_BZ*FrgaCz-K?Q+{VlK=G-*h!@%<z(8KncB^%;#_$g&%}HAI@{U1y=+RNNXX)tA~ghQM>CasmV
1_avg;231VBo0c4q6UZdX5Si3A!ze|MvS2jbw-fk?_UE3T)ash0;&@X28C)mL8)D*00*Rjnc=mCDLu@
L$1aFt}P}O03JY$)(s-<!zQqC1P>O9YneKQ6{yhOR<iN_*#m%NX150DpR#kvaVrRXrEN2Qg%2oO3Lyk
lWHR3rd~}D@JIMLj(A$xdQ(=lDAizDm1~%Mp2Hw8oD%xgt9Y{k$oxKyYguP&X<nM&1AZOh80Ot<5vwe
j;iH+VE8QX~*PFODZFq8dwwQ=FRVpi)KF^YRBAP1yvCInkvWY7tZEsqP={_0=`0&FY<7$SDW+_3CAL}
Yk>Y45_tIHX*n1~CFm{WTGM|`xF)wMJY$9g27gUszfy4OU!tt8AxruM<}v+qydy}X)ToIO9kI6J+Xy*
z()ex-q|0H%eJ%4OW-^^6`)M4Bl;M6#max_wh;?U*p*8@Zj`#`!GIa3~8v#(*jS0WFHS&Tb{**U~7G9
}~IpXvlcFD$7@KvAvLKRsoR#z<B}Cv-C1q$#pytr>my8k?C2%JbYGFC7|cDENWTQ&!zL!U}+O4H^7Q2
0y+T|zlml&9CRTQ=$~)jDVZX$I4h)K2bg%1)J@gW^fXrTyil@G87>X^!E#p`Z)#Y%Y5L;o>g@?X8}wn
2myM!O)^gTV*+g8+dM1n8tSXC{76pD-$hu-?od~rmn>?K@wwqWf+l+u=Q{rf1HCXjvJg`fN>qY?r(sn
WQV=#CimSqKOmT!@Wu>4f4fY~Q7H~Dc>D*YQ<i3OnaF0N9+l9Da5Jgc|;Txodj^6KR3d@!)TPft!?oX
sxJ|MN^7i^oStM}xrt2G*Reb;U^Q2=g1(&6=itfTA=@a=^l|Bc9_ap#s$h{(mk3|7%zjD4z`=Yg1*Q6
^urrHO1l@NLh%=NKGBz;Jd5<Z5Ag<*%ZL<D@pJGBYBo&R;LNjef0`-hV6}t4_ey>S)qT@^doV;6fuFa
4N#BbV&HXLZ70}#EAFy97YoT)0f;3K7swzQg?;Aj;^%g~^d(z{n8E>GmxW}+Fw+53+Xb6;wtw(^Xa8U
v?*Bl1N1Ta(in8{WCPp&4j>N63vgLMchQn4P3!5Io8i8SpM2<RC*BXC}c;3~i!#k!Ebr|0d5sY|?gky
)_MuGMVXE`4CK!}<R8l+C&U~uTG@pvKE<*gLZSTT!%YDcC)Ba8His2y_f=w>2r$H-{`uqdnLT8*3)1H
Ny&1jP@?ZZPBbHy`$(Vx&j)ClIVzk8g)XTI0}qksAMgCr=%aJ+e5`*2$pT8moIKg0~?1q~i##5{nX?0
qcmM&}yiHphi4F@_KOIU?r477GB6CZj=;vt5#+3M8xs2_+<#jVgu$y4yWS%hffo$IA~b0sALQ+FWsR8
*dMTY`8M(<><F^9)J!!2`1W2zpczK(xMQ5h`wu&roceTRy)%UO;+{iz)9O;VquW16PT-OOeK80#-odN
vV^)mV=hSpYmVpVDIXE1ZaUwu4^CcQGwZXqX!B{m=V14|3oGY+!=pB|#eT<8qc+%j1SYsVuRSk4XWTk
r;e^vi_^ho;vGqjP{$`LytDmofqXHeN+XhcTv4bg+ot|j;#aSfO+m$re5tX?O2f#@CCUn_L2kq)3MZl
v4@^eJz!JH9EaZQJo~m4VxiXoxap(c{biMmvu)O&tIY-@vKeY)9jPuWFYtm1p8;+CkX^@s6~dnF0xxK
RHXBsM8xeMWCu>k&bY(<4%i0-p%y7NqOS;ZYx@-nZdE`<S(MGw%z$t&xCzSTn%`Hs)2|?mB|fgUR4S(
{YhM)Wd@Oz;12p$h}~N;y1%yyUOzY(z=-U-?wC^*-$lT==_tj%7!VL7X5?P-91CRrXdQoS<)H_7oPjb
6o$t}`4Avo2a6BF=hhjtVum@@|JX$Wo4Ea4U(SluWavs^M!WWye%zYMM<mcdVh71R;EU_b!mE()|!@N
vl1UvlTHC=<7RHmAF`A0at7r>Mx4m^LH+Fb?>8z3+S8&ZJYkW+E-{i%5T<md@#A8z&SIK(qd3|;H0Rt
RA<JUkrsP>_N|5G-DXi5iK;F*fNkFgF}NRMUqFaXxY&L_9}|K0BDdLQj*|z;OaHYF^%f<Cp+NqR7WMg
LUWBnGR2d8=@J2-ywA#i0|VB0|69#kP3?WL`xuHW5O6TU5?X%d2I>5fB5>F$58-{y~N=m1Q@Hsx;#X+
-c*Sk3iR**7OIiqs;)QF!^5;(L&z4@dD?A14gjA*(2{2{h&ECS$N%P^pZtCz?j)uvFb)J;jN(NMintE
xjsA<q1;k{q!Y;8bkugVLX*_WwJ;Jg-IS8EOE?8mD!Ct)`ai=i+?ot-;5d*83wE{yGxkSgkZY3Ul&8#
Mo4^d&P31Ds=7l1pf5J>5x_~A@`cicO}?pkRO17eoo)ZS|#A4ETpkPS6U)Sy{Zl*xJ-mDTm(s$S=Z)i
Oa=d!Sg94}Kqg8+{utiK*p;%IN1%lpKLVn3WWOg>i@ZXvG8T9lkg_dETc7tZo|qaCS8eXaBqeI~`M~3
4UUEr!bk2mY7;mn+$_ih;C8{zEvp3Ab?p#kt_OI-yD6dSk1yHs-JGXYg|I4n-cNDwS4JPKw*|eI>F&$
@%GK-6?&HJKBg4RvH->~*T;I+z;zsO<E+EwksH3qevT^$ffjNV-)11;2o&S-m~s{ne4H!QNb&d&N8f(
Isxip&Rt;~4IOi{1b%#N1<9;iI%&LG}uK^Ry0#lENHxg`Ry{cqZ|9og-lfw*Gr4An-J?SuPXH}@501+
cz8U$aPvVy3^isnQwx+}Cj><R-6wa0SsQWn?s3N>(dp<2Cn0pJJ2%3VF)hu}X9IxsqY7iEf09lG3pYY
ntdSLj!t_y2IV&g3xZ8u%C5!TVRaC4a5Y*eey%`i%3vz-3!uvcw9_P07h26IluE8`-3B07vJNz@atqS
tPzQ0jV5<)m=Aeg~39Cc!2Ak!B>Ng0G3TyHQG}v!CS!Kk8%xQ5<$vjF|5UwQVtF1<1`9T(U-*@b+A9P
S$+z^j6XZxFFvN1$(xXUuzB#kUG)P4VfT!BJl92&0Ul_pfVMCo!rKDgF-1z=OyEFq04R=)`J(P7E87{
k-Qn<{czto`o{k(31=D>4foYX#f2FLl>#T@#%Nl`m{Zo%*41zXlW0s;Y2<wSOe(J`_I;Q4--Pb0_*8j
T=bac)Cy00nT#y{OxCjR!a;O>XK%{Efeaet>-7`b~50<7=gdY3&X9Xz{S?<;ZfPsif1_h_5RJf-#nC$
r%&2PZZ9hd?dj=N;_#f5(i~LShEbAOy4n2>LqSiaYd*LHnSyxFPn(tQ0%&g3|jYk%b?VB0zh6TV|<%c
#m@C2|&h<faZv;wzh&`+hv|-*R<CH{n6^SXl92IBL5tPDH#2Zb{{sSQrRMx?U?OY5aB4t(Qz031x7(f
I(z+0G>IoLJ&?7Zb#MbZxz_+bz)U}27h)zC-{j(;0$-I#vpXB8G3GG{1uNl0`k(&}P@)I)CEUpWtQ*x
C&WM~vjRVowj`xm`u;VHRqeZx!B8Is0cgG<x`>w~w@C>exS;rZ8AR^iV6YK1HRg+~B>k_zv^fYFm8-=
zMt)9VciyX}VP{ZS3GmVzUiB=Hax@r{dzfmy84u-R03&lxe@6VuFJ49od{thlVIog$SV?K5Xx-laCa_
)*<B@g6noHt-V6=z+@o`HA1%&wb?xoJTU6xb0A6g@%LyOC@3Rc_-di$MZaq&XY+BSOx8ckvQ{-C`0R;
95AZ-^|`#y!nqmGs6?7@0d*_-e8z@mtlVPjyF8k-~!{uK#OSXMjInY`x+OF1CKx!6P<Vhm4<4A#@cYc
Ax2bU<e(f1Xzw=~^x_ZnSP6|F#z-^*-{RN@9;a#sW<}+2o!&C|TPh~gMCW`0snw|>PY_y<MSs&7USx6
e&f##Dg<n2-DliZi)ZW;>cW0U=;>$^}#jV9Mc-oukK(Zf){b_T8SK8H6)TgU<987?xQ|sb|kx8uuBfR
J5AI82R=wXH3=D<^QeLWp@*9lF)MXykSPAIy#E2~r^&D-rCIjd@?Y_YyCaOoX@cQyP#3v-^jE&Ip1xe
sptLIHG8elzNh-%*n;&BA@5QQ!Vhy8(D&3v28)JVSqL3Ypk(GX+bsNN}IWX08t~S4|tqxMW{lF`(~oI
pUp)ujO=VX8!EiGgAy<f_dkS(wRM~yE5w-yA62PO((VR-y$n0qXo}xZu9G-BeP5%cQ%Xbx>B<l?hRQS
4mC-J6EW0YDt<)*;D3!*{7SoU^enF8HGN~xeAxQULv+WvpIpj1AsD6r2ETJGfZwc|aJzfk2l~Z_)(*~
QS&`MV85zLw)bRtR;)FE(LDm-GxCI8d`K1*rn4^WXQMQbel?!G{{4<?v#t={SmuGYCqFvrh^>s4aw@>
w#XY*FalWuI4dr%hTrp^K2bABsMeD|(yHaTs=wpDdNQ&<6fyWb*$`DpLQ7iAp3#oU@pBv4`2Wm4uQ6@
hjYu-aN{%Feq$ejyeePQ`FpmeC@vrr$jN`pNLqSd*YZfAWh+5X`={6RsTs2xqsLJ6hp(4o+Qf-20T^o
q4~$Eu@0SKQM=C%Q<tbAdEfif5{?fGsfXf^uu5k7;WLEOor+R+!q%bn0Rp2krQC>HOx1oPAN}HkVIlZ
Q@BbN)h>cANetWclG)kR*a)Do&;k^Sl6^pzFU6lw3m6vdhro&gAmC1U2LLJ!h9GzJ#}<8j`YQgIt(&z
dn)O0f-Y&A)P$H+4b7@QoNjsRTBgA>O&ah0&k}ll*oC{l{NNH=_Ax(pcdI}6?yra<4!vKeQ;L?&xq`5
lo^}qN7wBA(@GEamp5G9hvpe})7023l<s)}Q5h$LylfWmT{bJQtEA0@Un?YpfZ4CUjMu2k#i^|ne?Jh
g_*B<(tFp3Ns>(bO(HEeV(u<*k+Z+?L!%w&Q$miw#jJl12>KMlbKUuiAF>%O_Xdt<H5erj6wawWg`)J
a+4UN8^AMus)E@G^X>x<~fz0qw((6y^WoTzA1o;Si>NxO48qy!$<}tnacq)@JI^WB3jEe7Jhg``g>}y
nBJ1tQBQs5*fq(}MOLj%HbdCbpM2@H{%8&OL_7+rVVG#{Mn85k(X!?xTf0NQ{8$&uGN?9JIdU9SKZ~c
q12FBbx~;3YP!w4r2T%fvYjLugRre0KbFqq*Eorylbe*P2mF;sdOr4@G6$LbC3u}P|j>g=HPN$^n4O%
)v=|E>L!Kw3Zn<w>527*3pSJNM=w&G<%PxAy^6wl&_@5&OiP8Dxj4b{Tb`{z!frp=f3$bAqr?w9dyKL
3GuMHP3nbW_@=n*~IhwXnTvdq4f{zv}3>(Rku1qp?{ORk5|Rx|Fr6_5t}63WZ5ejVn`bjG90?YEL_Kh
93Cy9s#=D)u3qIIEFr+`x9ke-muNXK*K;f9PPL<`L7U<m{~dYcS)mWvq1&ur{-a_V`pUl<uc2qvajiv
-vFIA`yPMzuYXi!VPE49|Fw45k9#W@BU{npy8B)wYR^f5V0G-Y?HGVxPF(jc=#F#=I_m=hhOj{g&5p-
D(+8_Y_xQM{^ft1!n#QSiptm&F*1+4jaJ4y8n`)QZ?ivw(5hhX3e`HAFKQ+tppE7s&&j@4wqy7TWaMy
_HKE3Q?cR<FR|4eU;`49DOSFi|MQ)(X(e^RaV=S^SN$k?<o)$?$9bCHs9v(QZOX$wV%2~W*8FjmIl3J
nlba%vK#oQLJD>5fSXoi+^u%YZ1p{A)Th(@e#vBu_og$6g#)iN%(3-fb2@Z=O>q<=a6H_RK888FYq5*
1XTah;cJ2RV@Too<M$XFk}O7FnsWvK{u(&U8`A=e=1(IITadK`x9R{n3mMeV2HFfmS}SxzhWp7|2?ak
"%text.

(** Lines 12165 to 12314. *)
Definition DATA_80 : text := "&xhCqQ;x$awLZwR8+pKktNGkFH84Sn#sRo45k!V*HhCGRow3QLx<g}jr_Jdkpj~3UkqHxkZ{ApxNj!X
>UBkK#Pr-tNKS?w|D4nsi{_=)<QQnEX#EqO%+{GaMhOw2bK=~NVc5EdG$`XT(>+F_S$Mu?G39E#FnNC
WL<~nRLBcp>J`>^yI@f4G~hjDs~u3j2p8Quf^PCc8?#*7kYN%eLk+ZEBUI4U*kAlX;Z9s(};j0|dR-1
h0D8hD@%ghg5A9WBGUeitY0Pn!8yF$uH|4cSU~L)@+SuoqTeuGcWdxR!W4ue>Xe<-D4qz{XR8Co)kki
R^q%37vUYOxPBALuV))h`RZl4zJkEjXjY@owBeP=tP{J%)Wc~`uWQ<frYqKB~ROD3wvO=D=P>%9R8Bj
@r0ouv#MMqd4?*S=7G{GM$tyD$Nm(~m*NU}Wg<p4L46~)!!dx$DnGVyLI7Q**D09gH(p3_3Y4n3+U6o
Gvf%<7;|BM*ytWc>r?boZcfEcnyfR*9*9(T1JN#eFeBwU})VlsJyzY9wHkqiu^z_w10{NSJqqIKv5|=
{GWRL%dPK&8P3iAQ*-;F)OeatWzwTI5lK?rhcozTm;%|V=p!*a#8J%Xz%o3yy_2_R?kUUXNaZWhwbC>
5!$F2X#mH{?(&JupSRMN-2+S3$erN!$KY--vAu9k1AR*n^TUTs|IUa(Z{S;{4(y+J7bYp3wH_QQz^WO
L9M{y0@)e+~tApb~}HS&-j-|f6;TBiZ@#22>96`JLp4}^SPege2xc!rP`r4G-932;|`T3WP&=ukxt4n
Q&S;vh`1KDtQgh((fj7@)%ly(m;XSqgJO-7J!nSNdVd^aN&Mdrg7pcry%?rL0=v<>DV3)o+StC0azBT
3Iz{k*h4eiU--P2m@{esC5e6~cFzvSw{5}uyw`84OHlR}zE{!Sc#xy2BqnA0FUA*xbhIse)#Sedb>b>
hDULVEqW|+T@W+zvtFaANb-;`>IQbV`T5H6Lu)F&zKW$2!ty*#@*`+s5TdU40=+he%MBlh+o_o2+*Bo
pk3MDAu9?*OGXJU1u)I5fhb8E*;7e%ARR)l|BiHO}wit)kjz2N<6gs_58dTONXav6iGvn?&l=16RIw1
Ct&nz*cWLWg+8z9ZZ3kTLrSWgAUJa(Z}A#ZE>1g4&=pM=eUv99uYvKHgtZH3&!Il$?&WIcsE;?<=8~(
9p-x=erWK9qxd?;eM$zVHZsA|6|s!797#f_scoO`&ZcFTfER*YO+J4ACoJ-zs?5>w&t*egP!?vY0R$B
douwx$ncT<}%Rf2Nb$8&*wGZvN;LM7ETN4oMv^pT8I8FV{Ker`TWOCY~2Pjo9?(C`y>h+x5A-l!8bZL
r@Ht(pj1{ChHHk-C&9oo=s21~lxB)BDnwnxm3XLP62lEu*i47_3(Q?u!&+<ZPLv2|6t6P0yp8Eada+=
#c~=C0`n$(q8w$4Zx|pu9IuD$qREgrQ1dU1JjLsruOqyvcx45Mo55e9YFAc^n&iXO4}vON*&u%Urb=H
FZ*yccZ;Ykya^V4vFW*$%n3zb>Uo<AizTA@dhgjX`24D!dbTiMW$EJRK)==!yU?Qg{|Wv+cdeZ^Y@sd
qKlB6d-9wcawa;(C8`~3d8@BR3@Z}wP_MbV#3_8`PP)QPn+ncFnrlw5dH{>d_#hV*m6&8)U6vjoEd(3
7FsdC)1fP2ybmL=fdk(qX6N&*4^hQePO9fbLQ9SKcIjsVQN39kLF9E9htam_d?BY~d;lXuXSJ(=uy-?
;oVb4V)jQ_!Qaufxfo_Oz_WV&26%Ox2pz7n&dQ}-E>wvu4R^f;b%=_L{{1n^qLT49Md0JO)l##Sb@f5
9y7b~oc>1Y~psSPCzQFe(T9HCw|DB9Z!=4k!o)7%IfzWSMglPv>GHZ8-H7NYGDjW^}WUt%J5Fsq1*Td
lR|A_BvXkur^cQ4uIuEnZ7$jm1}#&p9&njA7a|PNvPb{7KDK(N2Ep$c3^vC_Um>+YIjSA%n=r^AvC$i
(HfmDcRTtwxjA6E*T|Vq&lws55NfWMAn96Q^g#?4z5a1DMD{{DMV|pI!hZrmMdy+SU4EP?-ur{$+9%!
Pdib#g%cD|7dP;1cFV6n$-Pz^U<;-qt4H0J@2<<0?a0*j&d-oKlVZ|=;hIR~kHaGkNpO%q5N7!_;j)v
dMaDA^gZ!zHaF%r`2(Cad7zXzSrc0Kw~Y=1Ff!qm#2b?v9Ej2h2qDs~+x=jdTd)A;0VLs&1z3V(P98w
aqV8-<(NK{2q6SUIFac5|hiWCc&ZWFIG{%h<ZtwxHMwPROcwxe(pUG#a}XNHN6TOTY++vAIyT<)qgoS
rSmo;D-RuOb-rQ%u{&bU8Fnu>UG&y`^?8B`3e|Z-0-0qekC3{w@e|9xo9^i0Y<fn&#4x_1&DHtm9kB;
a&JHlv3T3X8lRL1_04U!WSFa|?J-%87y;q0@mv?qs%P<hbd>=(IgAs#5<Ey+RyE%;lS-9H*5f6Xg=3A
u4Fu>p-C^S2*ypY5J&*9A^?KW=S8mBQq8mTK!C+;1(?Jcg4vaIp8H=a%MKg@!VNgejcUE{%eO&tUf_5
K_`(%lLmK<JqHQ*p(c-xHZmVwh_dow7WK%<+B@r$MpKcj*+zBCjc*ag~CYhxee`=K9I(&<4Oq$lL;?o
uEKcLB;@z=T_P<?KPRJT>4rFPO<h;K>3P?Yu<dURoG+?X{h%2Q}1h9PrMsDc*Od)?NUFH6=x`&Rvu2y
OE23exQm8eO0S6rx)#s%l2N&u#}x<L!RBo`hf3>CpXB7jV4`tBJzI$P)h>@6aWAK2mtey7Dp<Y$=>Az
004jt001Na003}la4%nWWo~3|axZdaadl;LbaO9rbYXOLb6;a`WMy+MaCvoC&2A$%48Hp*1nj|fkz^D
9WRn1UYI`WqQ`=(zL7t&)Av4mfq)FlyeTp7>>C^Q|N|72#PSRX5qCSxne?HNl#N~IFqOq+uhX*l+{pD
Sh%w~IMdvWE18=EjX@Iv>4bwT`W?bA5?pqnt8Nj!%;U&SA@nZUnK;wQ7Wu2(@@qq-{+-dtZlh{e3ICT
KIl{9<{L<Tp|7Uvy}WXk8A@2HV)qSCCbN;6?-9Bc|F}lhPwJPlMGal${lw8J(8FTG`onO3WR68^H&8C
QnCJ?4f;%K>MUl@xSUi$rAo5(u1{a{C<42pX2|3|M{zEqB}JXRDd@7wBmcHrh(yHPPZ`DNHvC|bvj_^
o<V91V^sa|P6}`_x?wFc#u%zttgg3l2eSvEYzh{X<F^!K<$_jS4NIZ|{1Sov*aa;;`ZM~7qV>?hTM@1
GJA^Lk?kFf72CF?u2eG{B;H=0m-OJG@aVoN3pw$kV7y~Y`H779JX^vK7#bi}$PD^i}p_Kz*{0v^Pql}
U;rSo#04^YDPb~J6Jg|g)Vqzy-KR4w$80Vxqd_SjH+4fSD41zsiA`Rl3LxGin)ZjT}!Ahw=zF-Uy#Xu
3%A6|$&!L@~}+t`yKd|HXP3`&e6z?J<4<QjwrA`hp?<?T95KRw7uj1L1&73T?#t>Uv7c_nk%);z#GK<
GgG*FFV!B)PGSiE+_vsoS4z1BLBUL*d{f<I`!=Nw-H@$xiCpqw5&N>Zl~K8Or;_xB&AZ!FH4p;oRc2V
b}J(a+uOddje42!x05<<Wwq;|GWI2r)$56x7CqDrb?UkE8F0QT@M7<d+n1>;=pO9Ixlf-Nc%LYC-|43
G|K^6`f3T)<^M*p+fjNX@<yhWMlnbb>)#UwN>2C79h_msVb?s%mMmRCYDtD+2Z)#j7;x`~}6XVB$`9S
tqvPy>2Kvnr}hkCd`vYy+@7-F3=2cR5#jIrNq&YgG*A<>7}teMgbuLHJ`I*U(6+$G{dpFj;Zwd?eyrK
+~3L+RNv>9LC@Q!M$~mAssx$al7Rs?Dz`&g_(IVE}_Y(U6*ImC-5S*0q3zfc)Qe%&lxU$qSwWI}Qh@S
~x50BrC|fca?PB2OreZiV8W_1rpY2Vhws!CSk^|sgRHOdVrHiwq5J%iW2j8vgzbzdN7gW25UT|x3)su
bNK|MS7hcRS4t?%y4f<daq#6X!c1#lyu?=%^OjyxN8=1VrEi2;&%}Vwm@vvZ@|f)4fM9$XJ-QbaoC~J
I_uThHyt3)6hl**-gZV4CXK*z$Z<(2KZ~}*un)HN_5E0Sb+x2Jr_{g))-;?nzb9ZbL9bb*e$W<9`nZ6
_UA8;6YQKxDvJ*4g#pJ`d$olCAP^8rd&(o={qZ&M8)Ll`7_?PH};_fAX^)z-U3FBS8%a$1>4_ufha2a
8irsK$paGrLCW+3$5j!S(?k+KRZgOu;*4+85m-vv#`I$cC>CK+7KFy=<Q8Il2n3AvPw5@6Xw68m!B-y
)deWuX7%<c<`PtaZI;PEaK`yAXjwYm+@8Zv=0jgU1^*O{9?I$Ae#|SzzE|L4|x>8sZfRBNS{v%FXE2_
SZ0jg3v`(G@aF-Jh;ei|E^vODFN>=GQ+I_q0k>FAYX1XJO9KQH000080P~d=M{JV`qiqBL0HF&203rY
Y0B~t=FJE?LZe(wAFLGsZb!BsOb1!pra&=>Lb#i5ME^v93R@-jlHV}Q+R}cvnk^@^s--@6q5M;OL0=t
W%NYRIEVA0ap=7ts(l8S3A+Hdd7P#4OMx2+%ISUht(b7rVZvA9}@(p0M6T#MGP7eCOGB)Pb_NGv?J;J
nM7w{7WL3oiNl^phlSrI%s^3BQ$IG-eN0{MP#jE)%tDjP)2%Ybd=kwM&wu)Y3U|Cmp=69n?;F^#X5I>
9Yuze{8*6Y4|9c2D6=ACjvj@l)i68iRKG6+KZy7&_z)!w0Z(zR$tH&ra|cUyGFwfYVU;9TI|4YO@;s0
l`suh$pM8~Gq@<uXHgVFI<W_Ig5MM`b!^ZaiXs=c+8OrISo5MPpfgRpER~0yLrBQy7VV$lfEid2@MnX
;pc3AQ6%el&$mQaG3nR(GV*a}oSYjL42@!xf({F)<dh*!&06*vIiUI@M3~BPRE@4&_^R7k;pV9At*~L
HXcsM#4K<r?zu!PdoUaC5@Vr&Fi=i(Qv`vvS=pdjo4OJZN0iDM@ol|l!~g<_&^US9{MxKLGzn^)yBi!
l%BZCOI&(?>+7*e|V0?(BD8oT<|(RNmda`}LlnuVIC_6!*4;!A2{G;#Ad)@KK;1$H1SB#b!#<8WFh#S
z*5(QmPrXw}3hfUiyeKVgfB-Z|k9>FH*PMQi<m2U1#>LH$y9&wgy!RA~>JpgN?M61{WAb+pXENBmzRz
atC6MVl`H6RE_dKpsI|8s-KOZAWSld%~(o4Z<|VbAPG=a&#lzT9}u-`q*cgK2saK7DS3l^se`b2C2S?
Cfo;hn4+06u&4-FtfEa}lPy%gT!CKWrV*RM&Q?XpCTKVNNbD-CAfvL%xPo_qmudbf<(r#S0ALv7ve91
+k5~`_C)S9g+AUPPVI24`Sh_8Q5eFZKuI*kG*QFb_RG#^8P$iY0cGs^2y{EnUDaV089@)Zy58VS(GJh
cr{vub^45F;f{ztoWn!b@#%L*Ra42#3jEtNsDOJ?%6US(H|s{pK|LDD6(9=lni={}}tKK!3v*o}P6Sd
!dEXxj4-vW9E9|`X6(#!#Rd343U~7obyB6UX!vl)MsPhSr$2n?4o^sY>SHhKzC2HE<-=}%5VAR85$p!
WH0f!xQQS$HsI>;4_1L}&n5_>-~=^=9C6WQHb5qv!1K^KgW|GLbvQZ7^*2ezr*kp6DknE}|6$;n{T)I
KaM12(AUje%89!X%P({;l$NOk<bLhh{rMv-{fw*@w-sRPh#?fIQg(5TuS{C$jq-+<QxS~7%jCfuv^<U
L!p*b&kT+P{7MxW!Xf0g>c%Y)+(YJ69sN7x%_58Z<4-;4O=Yz#ixu5@Mac0Jyye3#tt`FPOc9gvL)%o
#e%2cQ4F$n?i9$Is~-_c{G36>mf~1pXfz>r(syG;VkkuJLQ(x7M_qEnbNhZwzO`3UuU4w%XH66P25su
+BYO5~a&!jxoamWopK3=y|mDJEzA4e%obdG)w*gP)h>@6aWAK2mtey7DwZ>xD{O+0034~0012T003}l
a4%nWWo~3|axZdaadl;LbaO9tbZKmJE^v9(JpFguHj=;VufWQiC6!9FEvLCuiPCi)r*$`tvx(jAo$F;
N5|U_Bq?RCUt9|X?e)9p4phP+Dws-HXUsFjSFc=Kx3o`@mh{5B52(u_oXCqM-)4?-r>2$i?ZYP)jDy1
rvR~B)iI=?plI-Rq5ti&RV%0!A~p54TeR06xk#Y#-eG%VsQRic;&g$QyfN+lz48yE9974J3ZPW3cMRE
AxqWg@0oF63Py^E5~Rxm1;lB?9vpuTH#JW_cmPSzLY1A{nasSCUAc-ZaIT`Ic2}%OogZs)hNTOY=>ws
!l2kuVqpFD)KU{e%%In3WQUg&NR;!!V|jP_itpbV0zzQdlJeV7R_y8wphaA4KhKlq(3i;rJuwKXrhGA
ZTQol%OH|@>qz%sWmd?(DD#8{^u=UVNYzJV`{Fc*aWZ-phXr&=b>CR|%hj;o5p92yGERy(^=bS}7O=T
@F#^OdD}S<D21?O<Wy&*dffFd$;~Xf|s}Rqw0g}PoaKRBZe;dGb+~X?9eH`IOfVLjXq%ZS&_z}QANtH
}hT*No>Roz$Kg>uR4r~96yH$f6d=kMQiI{v&=b6Ed039bR!Sh$;r^g5ll$7k=4{MRRMjz3@@$4h0Ahf
ZHOK7WHguZ~|Ip1(Qsj}HB>&fmUzbL_u6Jo^T^(?)x@bD+Ho{W_7H3S5j|WWK`L(onilZ$y*>rhYGBX
@G8!ia6DrZ~D<dSWJ+wM7fNDLV6?yI5eJ$d7y%#$lVAqiwn6>js}Z=5#SPe)QoswQ%+NfNMohSrOf?A
rf#OkSuitPEk5*p8>$AugEkPsLGY+$K;}VvYyW8sPcnN*k*`J#zTz&hp3LK~upsk{HyotgI|psC#4VT
6DJ(2N!ZqO__tpawC7X{8s>++HA}Cy*s|Wn&tN16`iaiJkuvaN<{C9-(W}f&8W%1+`IQs*M!pW&;zO<
6lGqBvA;TvdSj`M@En7bf%n|xEuWhG9cD3_p<u`{XCK+HfqQWRK0@<G6A9%@j!?qEcRe)Pp#{CJ1rew
^o7-l;|~YM_wjus3hBRMwAh_9-y5uw<!8?TuZ=za$HBo0W$^L71088i8rZUFX-`pZ9)oJk;8_HN9SAt
mcBh$rYiv33#Uks0cykra_ztkk(ZE`J2=4jzK?yt_0f0DcCIN*a8U^<82v7G*)@ygOmc*_h@%_QqEwS
RWS#XmF2VDSgBGD_x7JY5r1icgrgJ;n}KaCC#c<buVo5ko#!$xe%dv5nBl11{bx^}Zh&DP>NMJcOY8N
56;Uowwzo-^#tuT4jSiDs2G<>nwGSuA88XO|70yzio&%z#4%pXJdR0$&W&sDPB7d~WTMayq0SRNvh}r
FlQFfMs`LbM0z|2-0Ya>3-z=Vzgmd6h~wFI}sbw*C_V(+rEUCFSZ!BF~iYvg+#%9BisI1Gv`S1wM`TP
HUUZ(}?bRPuj-#50hIUD8CiS-#0#)WJtWxO+8Nz?}4z*zaxGe&On#8o*`W3>{u>C`)%uqWj|Hl)kKS$
c{KMJA4aXNkFa&C@>+hvmgZnnsx!)$rcy66c7r~sU*dODzv`_^Hw@ZBCbl<Cv^>5%5+B>Zz}5!4>?>e
k5gC|$XO6x!>3ZrX=Xtuq_Fg24naA`ld_QOYhsYBSwWnXPZ~a0NH?2Y)tdDzM^B~5xKp(b>?krKh*qm
G3Y<++r#O^4j8Q$Xd6-;*fxt%a9FY5a#(=og6O;>3EKb4Jpi6*lecN-Q4%mvj|EIBVUN{>Hi5?I3`T5
H>yQ{ST!ljks|BQJdN9$Uyd@wuYY`SEBEJ}czgpLU>ln?@&Rv>K@C_Pw8T#y!>;I=QpLjy5Ey$Q@hFl
ztB6X$7y<kTb5tY{gf%5dH{xCbf0X!x;cS^LZuqfsr*FJHcFS<Qv(z;E>1pvmc3f?&bCr&l{vhxf;+`
+bj8W5Wa73@ce=ATn^kNyWY(k|M>>We%@D0sLpeWyHAr@>>u#TnL-OQ*P*7P1f2_<NnnQNTd3~CFfrs
Bqmvw^wBTv*{l`Bpo;26yAEt9?kBjca2nIxVx9l+*>FI<iE^60sJ$*`KFyopE&so9=84t2<~~8EF%)=
0{9fK$$96kUtv|UJ%r<WLO+fDF*Wa*p-hU#Wwa#sY3B2!u<r39xJufe7%%80%D2pS3U3bK5bVL?$p~`
uDo$cPr{Q4(Z&V*Y<J}f)g^N7JWj`-^=PWG9mQpmQER3Vr(fHzr*_pgt{aPR3e@I7f6V(2k~Cn*93SE
WqwP)(D-au<tWpd|bXPzV?%9Z|`e$wV$dJQOfH9}DI@uUG`&<fUO!0<|fA5Dl1_!0Q!<%_f+oOxQYwS
y}`!iV)3AebX!*aDQR<2ZMg2VJkc?z|;g{5l2xXVdUTW5pHiT7ugNUa9Lz<2mp610Vgz=!lBuCCWZ<H
8dBW>{H$vQ>j8x^!r;{CBa>c9L-~*FjSwHvb~6gFc;F3ib;Y7giWpB;MZ7>{K-+|1P=$#=VB8DDfYeM
5C~7p$=F)IXB`SeHR*Zr?5~DByhh+2-N&QhP6cpf1&Txth&INtZ)f6OXT`kcU{1ml;{n*jY?pY>6aLE
c#mx95u-;A5wz(52u*t9-|;;L=X1dGbWvZ9p<@aaX4kgFCv=ZKa^yGu;3btsQy^)X_CjGA*dGz(A>=n
VpR!HNyflDI9%ADfY}hS(U1hu#+>aEr!c{yx|r(GREVG+kVRJ2v4l4btahIE~yNfqT`nbQ|L4Az!2s_
2}7(fgk@)oj}o|PwND*OrYocnzfceoIgZQR4yb4>5a^h>xr^pIKi2xlPlRqiytwPw27HB&9ZTqIC>hZ
c^7@xeB1>LZe@}f<|Ko(T4KZtxu2qX#Fcp|s}72SHf|NI(tPbY01??*!*qIJHE>#Nt0qSC$3kD9MnT(
XvTzgx=!6#jHim--I0PTjG;K;;V|8dkag(yL@O6ZTy8qnrWJI>^mxs$6&h&pHZwUE*d84`8<?ZKR{!M
vv#ts=@7=Q!UkNF7x0v}wOIFbDvtwo%cbt9jIj1|Ul<`6%Iowts_#sx8=&Of%wx`Eg#>^!zr+Ak2HOX
Cpyf#SX$5sK5BL+AK)0B3(q@f>#TJk<uX;xKkq1je&50TCpq9W*m-&hfG5Y5RmCnMp;Pr}+@i?}<hY8
4C{5;3|M+oaEW9!mtY^ZNj2N>q>A+3JM_G=s~Tlim+{T`AkIEZSgG8&hozOHTHLNdv^eOtXT4kmR0m=
8PoWV0~63sWo++_<S`V~mzdj<T3Kk(0KUe^9&aN@>7j?bTPASO%NwWi9n6(Xf(bYtD#L&Q>LiPHtjb`
kPL6f9D_Eds5i1J>c(54<QIH4pyxpVGkD&a11f}Q|cSRRr85U{xU74NjAR0yNm{36-)S%N7&<s42oc2
7N!^VXLBAjH|H91cflt7%nJrWpK=;OGQ-6t&*2#B%JN>Y1wu;g>4<3biJIGiOxDC?BRL?+p-$Wm(-jJ
UI-I-TNakIrP2fNL-S7)Bj>in4M7G*zJS=Ek<++*O-iacYeRal7+lS;vHWBpMjlL=O_wRG!1+37i)x;
=A+Y^JmR)Cn~^NYB4;fwbPK}Ge5$g)0%Q%@ztboxnmy(I6b?yi;c#z+C%L$6U7v&WSSdZwWONRAnx)e
Ss5lWQ-P>bVNEFxuSWGFbM6Mp%DV!2MVJg9LaF6hyBhe2>?>QD%FOT+lrI2ZQO4?j!QVZjg7r_mYKso
m7)^~JihPrJv+2>d`?e9MUZti;8@28u4p0S7oHDP8f;{Lo2Gl5w1V%r!JIC`V3k0#RwI@x=UJWavG*Y
Loy++;D;}jy0VAx=x@XAUz(b*bLc!rTc+ocGOJ~zo#^=D#nU{v?kzR4P?_}Pe${_MP1Y}AC;Gz=!|?%
@~Lt@y<`K~t<#U<ck_|DKgpPM|(bdg3+kp;N=6*j=1*q6zjI4$+`i=&;B3F^W}Kk{L%W#WC-l;qd8GP
q=7NEm#I)q2_eh&C;YgQ)Zy-ydL<pRrgmIrwVD(A9$ROI-okn(`t^IJ(pAk09wY)oflxK0`Kvcy2tpU
`=fLD*!4d9vWH(^UV_G$Cc#XNVb}@p`Z5n@i{L(BOeqcQc?JA_uy>231?E3r{P-n20jOp>T5xOzSKNB
J-ZX}za*|Z+Cq8Sa&uS^3>d44#^y;-RK648@D$3QL59IrA&d%P6Z`j8{p>A@%hBdNvZVTtPYfwVi$D<
UGSVO{$vFqq(1AJyhz0e%l!|sXC+1)5+6fCefBAmsZE>2<3-|kmW<mml!P>u88jk&n_qUw5yMIG_d?K
(epyB4Sdh(U1f#oRgha5{MQ?DH=M`;Mt)D8S(Z)h97B2wSa|8K_UcOk-@ogL;n1yS~Wlt^7b^1dl<*Z
+bO~EOM{fn2kuMeNr-mn+ARrOOSi)v$hC^&vWOb!?BJDcQj7n{D|?mAkmNA8i$@sxi>X-v|pgT0WzlZ
GQDm`CBMOH5QgUQr%T-%hpGIg4f*`0vkk<=K}8U!K{CbzeU;#{0aZYFqYyV=C2=T~%i6y$=qJ{i%!+x
vJtwpZ@T1^F!(AxmVNSeN+HIL3v+l8ln8#R?1}!hBs6waG*0JH{3+Ok(zMnNPsH5rhY}|NgDGbe9tS=
15xp{kqhBi-d6f|~d5`?r_8cb7F<RkH3L$q8inALQzz_7B=F_l<GI;yen8LPqi$yO57Vd#lzfR+%^Kz
G<U;@DVCQk?@jzrzr>66!zE4i`w^+OOaUB|X^z;;%kI@k))1@3A+zXDm*ofK11G3Z%4N1hxhMdg6XHa
3lYJ&KuHFDzmmi6X&cU>D9hAtTXCtAap-6ebKJKG-_u+tu?$%ti`~ha0`ak%hbf%#rgXa`_Ss*IsV{_
XHR>b^SAGhKODdR{`i&u;rI+_59Izy0s|Jzw%x<8j$R$V{`#AfZ~yk@ySJzB{{H^M+4=WB{Num>Czym
F>$7=$b)78IZ27NT73IzC-RdWng3m;EZ-033<nyQh_3Vp*=l|L@{)7qa)EK&D9@m=TJRL|C21`78uP`
nYBB$ska}uU}NI*-gD`_i$m1D?D_BfaW5^{s4j6)aHu`fW-<Sa<Io*+vHhaZkkPT2j{skEr+XJZCQQ7
ukvB5#i@I};;fd63SeyWb}@O9SlG-JC<lg}R6@FZSR7Y?~PzG4EjvhoaG9?!_ud(sJSU*155zL<~!G!
g=n(xyYUO#s1UwQZOsWxdDO`i*;eB+tuH<ZN*49kCf9DkHp-nNz%&+ksM7n+nmx61Ca;Dsc17CT{f}b
s7hQL4Lf0t?`$7;{}|&*Io?$kn+??5iyEA`H;<ca`(APi&nkfd?yQnsz<(xIO{F$cH9NwuJS%4yeK8W
U%kaWgh{?4~>q%8|`2=R;1VN=lUrNSP#R|0mG;p@7$+{|-N{Y_=dMjc1-9PR8`O#k-xA*w7{_g1c_{+
auT>iS&9fSGJ5$yvSEV(0eB$f?I(bP$n@vH}&VYtj1V`S4-UQtHQJNK%@*bWb-wQ!@+eB|`jwIvO9x9
Fiht$VydtA-}7#lv3k50dk?7#7peo15In$Z7&EzCv1=fG}(%g<zZUI@o1QvQDG{72#S;9+-FwC!~@Za
DNt9^Pzb|uE2gYgRZcMiYYj}D_26(G7K=f%~g~nE0p~9woomP*C}MNN3RYq<yb=&r&wr*AwoA^_OY6+
7MK>n0M(q`DzVB+Tv9lf=mk#EgE@Ieu}^d?C}63f!ip#Gl|UVHuy~~LRg^}fgy#~tcK?f^xBv8+x9{z
<u9rolb#Hh0q^VjA7)mfa6wcmW4XFy*FOeM3i)-~gu61&q@f)YFFH(3h!13W&k^-H2RE&uup%I4ycf@
3K;J2|kyPB<`X%VRFheD6C0yx0eqsUGm>|U=iDUtSp5H*f8Ui`)2(}-DU0#pylyt!tcy4gf(n>f;=Cf
6KsdR7TqI(d}4cXxu_VPufIyF1VN*W?e_N*V{8H+)hvpV{x>=bwA#-(F){y$gGHQ~f9YDcpVW;)OUEi
h<yz4aB~^c$;2nkp-?MDwFi(iNl*)MO$JJn&r(CUrUfaq(NJ+#hcvNjJmh2t#mip>N*m8+Za>!xk85Y
"%text.
