(* ===== verification/PipData10.v ===== *)
(** * The literal of the pip installer, tenth part

    Lines 12315 to 13664 of tools/eposiotgw/get-pip.py: the characters of its literal
    [DATA] as the source has them, line breaks included. *)

From S2P Require Import Literal.

(** Lines 12315 to 12464. *)
Definition DATA_81 : text := "oFB$fZh-53tGDEP3A#+hl&N8v)rFuq%4|xERgFGfl@T{V9tV>|S~;yIZ185wl$jh^W&a-UUNb*3@*0d
<P%id2%Y3)FKn<$cju}n#LhPeaq3<tY*B>%=1LbYI)`IxnCgSaz*}9=kzvlt_%_l&8mC4r^oSHW)=+h
kD!B9{J?^c?_BM%jNDAEcnOw$X&^BwcSSR}z>5(VOVgtfRby@~TIrNA8s5*AUfHF_l+xpKM!f{@^-6~
nPZGo3-EVl&L&@?8Z}#Tcu;?rhSV0<S(XtXm0I6R~5POvx>6Y%7qM>gUx|P2+k&u47tj<;<5h8io71_
}&Ue@}M<W!dUj^>Tc03D8jiQ8*TT~rJbfj)0+UtF*0Jw(_>v>G1sLLX;dX7u?N<R*Y@99s`*+c-UO!I
oStFYzGIyM$Y8eKG_d4qUEx)l&ivu2im%uKJWGvio&@4`jb(<lT<*~Qw>T=F7`QGyrfu_}fymRXi%%i
0$pqV^a3}a41<6kf{nom*Bgt_9;BT&CV6MTmJ6<)N*$9za3Vah~l+X>*VhccYy_QSu%~vv>a@rhb@><
6=^b7;yawNP^iUDHgF2$0E9&UuUNu&`{hFxhGsg;az`*$?n%$O$Pq!BdtGHWxB34RPBM=_QmOv>48g-
ba7ApU_g;mbSvqN>u+Kyco1_1DmQO4K4xm2tyDN~8>4c=E(49$Z4AHLY+d!+08p8jy7Z6V%NO#p_b66
TqY2$byH!^e%Cc#BH!rRE3?(8yO@T9-NQjB3>Y|u(BeN3tfoZFglt9;|4`sW~_#z;8qc)%F&wzv0S?;
Qh~D!9dIx=Z`hl9+neUGPA!pwZ?`t@O}Tlbv%tDHW&jKWdbS(!2?J)Kq3gL?ZDf7Bx4xw+r$Lz%KHiP
<gBhlMsr;zRWq|_|+3mI<uM@ddslB-Xq+trWZ$~hzwfN*tQKEymc3fS{);H+ZI=FR6bYtjPI7iIBR)N
J@FLO1!Wg`7VUn`Z#mMPw?-mM-4-+81w`p*%MgbOMFCR(nlyWtqs_7=ev@ZeV6yX|iausHoAfrWY2ND
Q_2%OwTm6Oh(~3S1}?v{vDA50P~2>0(Ql{sX4H{KSrZ`v>p@Dxsqchk*+E8n1-iKj#Su?;pX7Tj#Z<`
5y9~r`KtAn>sC5eV4vAOV;$<V%@A>`kK;qFWuxeLq(@+rwj{zjYb>XH6*oe>WZ#r4G^SVEk#@vYQ12g
w}s!WF>BQ6ZzI<OK$#`=Yy9zAPg8T6ERLzw<mI%yt-$@cn$S51)i^jr)#!}cbg+e-a~LAQ2gf>@f>(p
UH)UeE&g`dniN65|?3Z+Un?rHL<K4%O_24K=Q?3rjhu2ar2jE`bNZscbvq-xXzz55Ht=6m4H%u7~!TT
oZwW(RCOqy2a9(ed~;Q2_r;5*cw=j~2GgbMF!DQ7RA0~M1oH9V(E@^KfOftlRJr`^6DM58btWe>vN&o
_qDnN0dZ3$ZeJ+UxfzmxrNXfh7uc#TqP`(jQX0tKGhM{GzMNmG66r0a$3OwgS2v0MEOPqUKK=-Z#MD*
`z*?5UJ}LJJWR0g>l_WKBk%4ix)42ReoU>$O-7Gl%vM-A;}r*Lc*8<nDOK8Z%)&!-94|?0+Z+^G&ZYO
m1ws<Z4#tPZQ_sh%U$r8l8kRl%yMF$>^a^jFsIO5>H>doa4<iQ9yR#F#!2R@#a9Z{OIb`ieu_}A{PS*
a&*4H2I8+8IjAMtCe3cl6!JM1JebC<c0RzA?KZf*J47usRYC33KYc_McQBVYW+jhjaA5PzbQ%_ztRr>
0>VmK1&Y3n2e9RMOQJk^0BFb4(Dd@C$Hruda{^AHWb7iI1`#5ulCfUP2DZc2UT+9AOC0<UxPv7MLiiN
mCt6_m(Vr{DF_`OqFEJN=5QrN;u7b}@Q#S-Hi!j2i35xReIQ`{!q`4~G7m<G!dHq2a6JO=sD`cOV@M9
l<z4M|1TpYR+*nI-mmd<}}aR0X`e3c;>7F?2GR{z#gmsVHe97vN8w#6!q388eX<6X#eTjf^_57MeRS`
x+vT?+8GRm)1*2sNsLwDV|5#gy)7$sT6<gZLu+BUvax30;fQeCSA324AdmPmCp>D4{plqQCemqvyuSf
@M+{SXlZSYMVW0;<PAtef;#C|`3Q6<jP;jOgXbyb^iSdAv;p+*%bxItxQsSV-_F%LXtApXz^*(g`y{i
hWRUHi5S7qx+t{r5z0MslfQeTC0aIE}z>Z6{dOk;xSuv`5^GpFM?UsJ9ypoj;>KQIYMA?Fq0L{~!LNJ
+!`W&$hC$WK@yyfW8Us`@3PFmyMq<mRZTtJjtBMQ}hOpOxqhdVm(|7d@#7Ao3*#Hidlw=ieL*+!V`BI
a6#$JsYbvVIb4NT)9Z&@ETK|fhzjMl@zX`Yo#F1^d>bExUF8S5@=XD)@l@@I8+L-H<@xr0a#SXSTHvT
gA#Oasq`d31Taz7yHa+jonOu}t+8YrBI~UmWcVmPR|j(o-BdH2O)oP2NH#kNtQn_%b(rh^CR#UYb@62
(TsH;qn&A|~T=>c(4*b?HZ$VpxrOChuX@M8|b>*#n1(M&Oq%T6F7f$C6^S&0(Dv?3Yw)K5A4bO<)#WW
Ts74Pyu&p_@~uVyn(%v8N**sA$blYU(&)!UrQ;ed66@brF_>eUKqfF}{3qc&9?W>unXypv{1#E@3Udb
lnT-<L28@`&E;fzfxWAvTG|ppFPJ`6)ghup^-1m;?l&WEvSv<ryKbQq3t{btK+|GYd>fH!%<xW!VD~2
&LVbl3zGdWLWWs41F7`wX0^B4H$2IQ-Pt2^;$fO+B}x~w4BU2QomfSCD80q#u;oW)Z2)%H^%Am+qJSh
^U9af+<*a=gbxs)&9{d&HWX!r%P{$6H%7ggdtqxLgvCM)IKM|}R*DjHJNkP57K`%ncPXGMQKhw6uG0;
Fr8}h;)kV2~S5bk$^*a9xP)h>@6aWAK2mtey7DtaM>g6*4002G!001cf003}la4%nWWo~3|axZdaadl
;LbaO9oVPk7yXJvCQUtei%X>?y-E^v8EE6UGRh>uSzEh#NZjgMEz%q_?-Dp5#GD$dU-ElG`s@VU6sK<
e~h(xpW?IhjeuTmVo@0|XQR000O8^OY7yacoNbjRF7w4+Q`KF#rGnaA|NaUv_0~WN&gWa%FLKWpi|MF
K}UFYhh<)b1!3PVRB?;bT40DX>MtBUtcb8d6iSaZks?5z4H~L_z)veYA5QYZYp61C#a5X8M~2B)&fJ>
cD-xuE_V6*4j7VDNu+j8Ff;G*=FQOSy&W(P@1i-(qDeT9Lm1B%lW*`&Z_nw$y5I%`Pc+jN&||I<!KmD
xn8p!Qs)UqD(3o*!HBU;5z%4MDeN>w8dzJCLs#B%RP=hTHEb6@hl{YVU^9{_<7^>Z&M9l;&%S7;$z%!
nrGziSVq0X5CGf1iiH?4)ltq_<hqGy&XIRfNVufKgnZ72g*{;>O6%jkj9&}X*RuR$GZpi81F5RBAyNZ
)zOg6Byy;Ig4D)Pcq-h>!+7aUmc<C=KSN@Q8tW;W1j@FE(ok=396SR;ysX-j1l(7K*BP#4{7$9|R|2n
o2WiD-uow58-NZPl#X~&7$?TRzHo_^DvHKx>!K~%V4#RCYxEXg5_qlT*RRd5F>UL*Ji$D@{`3mQSKEv
nW1G|nDgjcTCX92B7=e*k=C3dKaxBKsXA2uwL_ugk7iziJR3R!o`Y1@gOlcTJ665kF0nlC*Mmr=z6YO
%)Wqa3K`V#}KIJ)4PlZz2gRwHUZhZ&{JGdGS2OoylgCW2srp$W*;r#X=|BRmF>~`&y>~?Si7gzqZKe%
vmt@dClQ!i3!+g;L*%Un5*lVM&vjH&IjahbcH9iSi!`u&%k@CEwU9t`T6q$4w28p~vg4alQkiKi+<*Q
G;f2)g*2<m=5#7BcxYQ&L$puG{LULo-g>`p!g&q1H<GFT>vl(%US(X$O`3q=eTnvQA8!y>y+1s`0_^T
%ev>858H(Th%4`_NwA<y3B2x>AUA{U!y_$^p+!LXA|2*DwM&ttkITQo-w7c&L2=q0|XQR000O8^OY7y
ah$&~caZ=9qCx=xF#rGnaA|NaUv_0~WN&gWa%FLKWpi|MFK}UFYhh<)b1!3PVRB?;bT49QXEkPWWpOT
Wd6d0fuVuH9VEKN3#Q}`LxPY{L_9ht-yKAZe*=1J?<FXA|Mx*AXke1TrM9Z1#RH_X3ub)_pJEsO{H!$
Oe^wqtG+}va^K2`*Ie)OZi{lCZ0e(_IV{QB{$FMj@uU;pkGkDvYOH$VSBAODNb{^;dLkFWmp=JA^kZ~
yJ>yVu`7e*XTOH;=d9KmPgs|9JcDx3BxZ|NQ44-o5?$^~d)g9$$a^_RYJGkFWbPpS^r)`o+7qAK!M%e
|+=rZ@zv1-J1`O_kVnR{2P7t=YRd?<M&^`{_f5HtJ}Bl-+kZz`Qf|wAN-H*`0?BKANKFR{_y7Y$2Z?R
{_t0O{GT87`U8D^_t$>ZpFTc*{PVwi9M@Id#ozq+XOGXn{r2%CpZ)&v<(u!{eE9b_-|RQ}`TKVtKfL|
J5B-`y{{HX&Q~&1i_~+Lj{@dfXZ@>Mw4{!hc_{pP3`0?@a{o}WP{rIQ%@9y{SsrvTqA3nVP@K<K-k00
K=d3^u=k01Zi1N-~OU*G@m`1<v`$A>rHy#0Q6-xKli@%r62KYjn9+yD9fH*f#=SAO-wyKnk+81=_DAO
8IPr#bwmU;qB`t2f{GNFV?7=G~hQ{Wib-;Sb-w{kj|f>h0HW-hKb(@%sD6cl_@AKmEr{{gQ$F?jFeFm
+!lKXZP<PZ{GIbdG^1*`S5-J=5c;@e0tj5<Euxn^^aeFWc<CF-_h{zdeDD;eA}z>;Zw`c{^k_?$D4lh
c>B(7|I~BeKXixvqJL?zdi>$d<A?9x{PBlxUv&@t*~fqV;;aAio8N!+`25%Z^7yZxfBEI-zy9i9{=Pr
kGu?mf_1itY{quJ%g5Ny)tv<Yd_wlbi@b2KBfAQtd|4X;{{AXYM>Wi=bh0*`=i?4qDi{Jh3@yp+Q`S|
?t+t0uJ>WiQM{#T!W`S|Vczx?fQe)o&d9*^I>dGl$Cnasa6$^Xw3|FOIL^ZTC3Z{B=-{r21M_pAR)FY
os~z;C~K{OR?-zv*TE`pw&xsK@KxBH#V>|JNFR`~Ka(`M%xcKPL3=A8-Hoc=!I}tH)nHylvTO>HD8nw
|n`I^?lVs|Mh3D9_#22y?*!KzU?LWT{r*b+dp>Kzx?+7`wy=kKYRcEM?U(`pLg5mc^uE59OHRB9>4!x
|K@-7zsE0r{g3}2mCBD^y5pa{{kO%2`0qcwdG~co<?BCu%UD}Lzk2=lFR$PI@2zBdBfS35L;UTB_kVu
R_<JAz@b2rk-}VRpk3W6<_}zc{=}-Uim%n`W=9?cr`}mjtRL4*M+)Y0G^glcQ$61fZPk!>BAJ5O`dB)
MdI#+!9)yi7@Y8~gNU*+7tI-cjee^uA0NyF!?`&U=48b08QZ{DCjK1np=`;uvX{KKcte){9%C-;wk_x
OkNGj-3GJ;wKc{u}Myb;BOcPk+4T^Y}^s^mqU8{OowHy^;R<UF*ZY`MB4AU>BV0e?z49px(dhZTkI3H
q)Pf`1((eKebX*fwa2$@*lr^dHLBF|Fr(~tAF|J7eD{}SO5BtU;OT?FTeQN@4x!uH^2VZFF)`9+pn;C
p??0S*B=n97OMaLn-6Lsmuh$L`Okj!i+}yy7ys8U82ZTQj(c5c^VR$RXz>q^AHTH1JYF63?0?oXUiEO
-t7DGiRjcHB)qlPEpE~&|UajY|e|Kc|=bq=Q5!KCl@m`&E(&Bi&dZ2=jco}ufZZyWLac2M23*G;j{e;
JyuUdNf>(MQ*+5a4sua1Mi#=2gOEBWvluf|-*t25Tv{f_hHU|9Wue)?F?SCer(W<U5mkM-&?_|J9qI7
UD4xPr$#it+N(s#o3PlNY)AujAbP&gyxH(ZBX@M?ZZWJ)&@w+5MhpfAr|F^#jMNbMn_&ez-@ndeX-8I
{4gVGVXq3zVsY9d4tz|GV;+a_xoM1&h*8{>P8VgqS+&_{>Y=ZHZ#|Yah!wUoILBEhkCyBYxK-K7q9zd
J@|=d^{0B!$2_|?X5=`T{iidXtjJ`%J+*sAn4sV%`n}?%oA+QA@^JM!_dl#SLUHkaF&F>zU*m~99IjD
6dJH;G7GwW`|Ew(!{R%HVz5O5OC?32JwhN)?7rI6-#q&B@=N?D)*pAur(7&5>-XED0DU6=4tLLlN_t^
cOy>3VLub)?oj<b3&{AW+-QPcN(vg}V<@*@5AJ*s{}b#IUC|LhO@4oupo@y_}3xUR)ZCU4)J_b%!__|
NE$`u&PU>5-3qn@2K;gSlBf`{zhr?o!y8o0c2<jps{GE%MM3dS*}FF?vQG5sF6-|6**<t9x6#crRQF+
vL3vqtya?(5#>D@VA`x#(6n<mm{3ByX=m7{gEGbbc;rh2!Va_A_qb=`U#Iw$jD+@T3UJv`g4=Ly3TvN
*ZI;i=+vSWT7Fub*(Tk2cf=C2?}L7;rTaLqo~7~ZL60qG$%h&K>FAdIp3h#lWNgzBF@)%0^=$FZy^P1
v^V=(vG~y%E4aUq>_ffsRy=hS#z1%I~vHLyeOTRe%o;|C1_B)^b`2(5mWoOXz7VfCt$NkrX0k-V*k3D
D>YVewMxaqf?o%8w9@6w{nPVLVR=B*d%=r!sAD(Zt3=XX7|Jyf<Z;|;c7%Q(%Dy?)kFXjb}N@zTm-&~
FbbFGM%`!ECkObG?>}eY||}lgG?~rs$uFp&o1<=dfDNC$eY1+52s>ArtL%v8G2Lm%TjwEQI*t{aR24l
id3UIq%=~Clvc)@%lwp_uFfJ_gnSSAHYhukI+C@x&741-BGVQf^yIjCBbeSY^w+s6pa!{yu0Q+_dJYe
uUqs0`wduF-ftexG@pu-CtS<}lRS9wr+py0Pc%h86%&mp@HTn(dp=vAoott$yc7E}Sgn4c9+ryPE^8t
q{g@VZ*Rpz-^|G`8`d-Cyquh_Z-^PfS9+skuSwK6@e!pH=4TSriokwq&wtjvw(->6s<fET|U6_wkbGP
@~SZ9xS@M{ck@6uKSr_-YHQFl6xsKbSFpLCgiq<>n|eW8VE;d$QsxZjugb;WxDDtpRSKcPjT2Ys~8Xw
|zIIsGE02ljRKjI=_+X!Q#Ae-8ffS$DtfgE7nfIEGcH$_ItVgJ+=&0?UjMPt-*g&tk8%C^I7$W?XgE1
Iya|&gZlBy84<C&7Res5&exo|M5{we6dixQVS5`e>!uH65&Au^_2Fzo?EX^{F3Nl^$Y3XplgxjOh4~G
y>3?z|0q`QbZL>eep&vC7S&N;E%Vy@Vzyt>T`~_?@^;GEsfb6iWXX~RQpkc1RStH(4Mx96zhRI3KtJg
)VNK8|^ow6IdR7NEr+4LnS<t#a(VYmJ4$HL5e*OrxBi08~jOd>3pT!EQDd@NTl9pwR7i$`Y7C|S5YJe
5T_Tm>IUFdb>aiSkkIVUsM4@80X=lZ969@;Ny0cC86&SJF~R!_l&#$xv}gl&pT)u7=)E1(nSKx)e_7k
}9Mc(z~C#um}RmSwTQP};-kX2}-L0lL2Z3`Cp_v(O$%=SQG*dl0RVH1=E07JkWz2e!~%2P>Xo=lyEYc
BpkNny?qId&64yLJcM3>UC>35TTfuHjVe#{@H53WH5w@#%QZI*a*1FJ?P1f?#Ezk^&fB+v!`k@-tG;j
s|EI84to&p{Cm6;J?U<kjuKA^hjTK?2*n5-i(myuKlMPc+o|k9&u|}OuXF&OuKwL``y~esXK!JAXiNn
f{=o6>B}PRR<~-awSP5*eW}iX#l3|{w{tGYs+;(%}m*6@)F4YDWtRIhShC6}jelCngF`>A8Ji1>5|2v
%#Uz4G-VOth=zwMWt_Qngf5b;7o)xg{LQ2Pmi8uG=vCAO^J5Odd4)owNN@bq`=n%l1q{E~hxTzf{jTw
PoOKCk0n1SKaT-b=%aqaRLZ4)vCrah$Z%`P%Z^KETUlxA#I352*nRUNmx;mdSWe)aGa*>H*>yKNU7~9
7Yajs=Z;}aP4`B_Dfn;m@Qm~Tq@T^BUJ-#E}P?ERj)(qcd?0>+TkFG7y4Pf578rQ@8e$BwnNLY`B9|{
{fl36FhC-ngS|BrQ(~&t5rrktYd}U>+JpC+<DQ51OHQ@e<>yNU&6a1PE*vbB%EKkYi#_quPqhBja_x6
GoH>m0Z8uvxwtheg5>G#IWaD)EsR?muhYl~!BIcY8(*wl%@%#(5$#5QcEsyh#WAll9yI26`*QjZw6Ll
eMJ;3QsRg0lY2~YavjEYgEC-cD0Gd_;F{fBJ7<bjSkv3O^?XB9S{j`;WXTf_z!$}r?+8rc_>Dj!}Bs}
=}lJnw$-OV|Vbc_n`mjqz5-PX`Vx4&>mKh?#pq(J|U4+@ICWdbtPhfTkK-9#X#~_%)GN8w@_L9b%W^2
t5cWil;_<R6VII2Iixls8=ij3LhUGi?sJ!>)KwoUc`Z0JkX&F|99wUt*5$+xbS4L87lVTB<xxk)CZnr
Yu1w`!ybQ{hxSX3y>WU7Jr8OpHsr<zJi$mgSglLJo~Um^rgAr6;+go?HT<;Ytnf>gMy7>$8XnBcJ;3`
NsuC2P;pdYlXgp6HGJ=f67bHy0iHkAzK5m23@o`JRp|_<Um8m$fP_8{nP>Y+F;$iHA2Gq=8LkQ1WA@x
Y&_WNqEZa4ynZvVtvB_S_L*l3#|xt%N{BcfMAv5U9KrAOD#hxxQ4gL_chf2j6Lx)J)JmHUYWZLNpN-0
$o*Q7(z;2D=wwza}BpQ^6v{QY*27?HKKT+b_Y$p>T2NPZb`j0rxWY-trxiwTBEbEf>==CPK;H9@Fi|T
gTqV)qcsi$9u6_-BG!ZdAeE;EYqLsS$*mnPDjq#tE@}<qxI7vz2~9*l6e~7vD*u;Y)!fxICc7@+x8Z#
rQYG46Q4L(<cVO1Pd%BX9Uu4Rduc(M_+5&EHb<~@A*%uhEHhLGyL~+ELko(5BD6Si7{=h&pL@I)yaZo
th$<d9-c0u?0Kx<8cVwsov_urvo$wA=OJSG6KlXJQ@5a^-7rZ34KEYm~V<yYE4due0D`vltLj0{%9Wy
{S;t=1UI8IbZtETNgT=*pj?7-}vOkOv~C75=}^6;i76MrpKgU->Vg<+IKxq+~hR(;D^hp?<$f;*(0s8
mCFAOMDM8cFE^PNK{fZ~ltQH(d;M01+3m6nETm!AoZF(SeN`>@qbbn*#!R;2d<9$kfF~n9PWDKu1~`B
`m?3wTGcTV+XcB+2bAfZijju|F>1nMP!Xp7USTUMml_C6>B|*dR@w=P%<OebNAbRNe_lSd!d*vwvZt#
jh@QLqnDkC;8YC_u?XUUws{cgv_5ss4Q<x$xBZfCge4u!Dj^x6#i3t<j_H36`W1ztZ2$v9bccu?PeX;
|C!D$C9`7Q4>rr+viRp%Z;JD0Fj^~Wv4$C^wlie?`iw;M<4KW8X&k-7d%}ZLuPR0u&y?nY4F8;yw#qe
y`7g)ff9}I8^oC`&cTlYZk^kkr<=C%86zodn(7Zx&p0At!EApU1>jp0la2k^Q<cry72zCyR~AO6z_Rc
Nx@7ewqYJyhOws&^zZNV1cR0-O3rm$uCL0-9)rSxd0NncJO##m>EMtx#SL%;O0a?7fIVL)Ws~2M?SYo
`vd#k1k;10q7irB?tQV#7`Y51Kf7LKh*Z^K`g8SD@kw&=LjbG=<_M(@(Iiht^?u8f%n#KocIR9GT8oW
?~4xX+s>c(iJ0!hv&<b(u#dGq#9o*DfnXA)+G~Vgg2E-39@qArF$}ro>}bDaF6ZI!B^{R9)Tn|jaS#Q
y=nlfa2O;Une=dT^9*(jH4mq_o_dK*;(vA2{Z?J{^ZtczPA%*gMiUV)}2vj<FVg}L9m@yIsC*<*Ang$
<X-2M*XLEBBlWSqV;j=+9X;2iD*vBZN^%Yc$EjS<kg^~MuLgRm2g-qTXMU;L6oZlpbAjuMBHxa?tGB8
(`}=4ps0ZXcQ;p1_7#EHa+^!@!w-2l)V^*9hT_;7~NkhzKnLhmcw7j@Z5I^5;{bWLCFZg^1%K*Uksv?
ZF==k5fCbZj;r*Q#(<;&VIti3Hcvr=kw5+n^I?Vr%w1GmcQq>{gUnjntP~gc^87M!HycPc&aR6UpPr{
%pL@@iYtj$8b-PBg!3Ht{I*|mOn+_2!h;hmf+8Qp`0FsdCbIW;%Z0+k@4#w*1P>c_aGZC)?U$Ua+XUg
QV{bafp;^MEE-~451=!$dAUx(t>^{&BhtaE9yvV(7qy3UY!;aJ*_^`{M8Wq*LOPq$qM-7SK>q%ydzmi
d!AjEYj`+GQB|Mt{$9E$;juTL1`f`~6r^||wq2hkF)dV(vFt^s#FPCdW_jSZ|NGjJX|FVfw!ZmL=3SL
X604#1g#mz;)`q|y$v1&4bZoJPFc0b9_ezK6g$cfWyso4f%|+PbtQ3;_>?m08Sc50&&CDpDJ%jw2X3K
^iBa{1V{aJe3p<{i3Q*-7vyGq!vASTn>7<5%AOmt%4tv_2D*A(cwq!__+4I82BZS*q#TxGJGcB%`rBU
C3HK5wG4l`^KiXGuqMencq+?cI&SkFsBh~@JRsfe$E5~9BnhhV#m;n9%_$Q<0`w<zVC(@-|EfNdL~lD
Z<s~p8*kyO*r-*Y9`gqbuIvGYLIL67GqwP!$;b)wB7y7f{6Z>ty<it;09jPFaL`_3~&dzbLP~@z5zph
(Yvp{%H@N@+8i^17O;MNZlUUKk$!(@tqqng-^q$!3|Nn%ws_E^i<yAkSvh!36iOB}NIML+muF!u|O=5
V{>pAAgrfn&Pd<>wA2>2j(f5yil+B-(tZlX=5+&jY+<xrNO0hEiY*Xeh)6TfQ!dWs)f*HrgR`?VVNQb
AkpuTRa*1?cXpDYLUQnyHFE{0R#=<I6@nudh<n)ZiBrLc;L99Xv>V~+;X<a;~cKIfC5@ihT;H(on}xU
hdCIOgmR9jWQLju=EQ~!H_=lwdi$vznzp|~Xo{vEPbU=n5_;~$Ln)>sw7^vKU(shN`&Sff>%ucZx87<
0r2T5WI6^m6YVT^^9-154bo3;k>Hwb%i2q<;4!7`A+X(g5C}T+MxBZe~hPK!jPjjj+R66Gb)kdDF{Ng
E@lVfTPkEW7=*%t|dsO`7dZwqTl>|<>Nsn{O9VI{+Nhu|>+E_<jtT|96)X!ex)sVpSf{l=4ZD<==gtv
(}24XCRQH&DK{7(%>5Xi^-*$bl#UpHa10Zq94ZZ;;2CN<kS|0ZU8Yh7~XUW!}#;Ji5r7XYm9ai-XMJ!
FbzdXzA{L+b@}vfXt_<O~C-_E!p>>grc3v$DW6P9E$|nAL?XW$$k-XH3W>$<L(z;A{i&CwFF^Az`gAF
;rM5!juC)$NIOwwC;lw;Eyr~lf{0WEk$b<jB(?ubkeXY5(UZU!(oo9;+JKFiEnURe4|8YBO~ez1>P=I
H`KY^J>q}4wq<4n9_tGmvmGSw9=oOHCn&1%!1aUu%YHSWaG)A~HvHgc=zvLjb+3^}CYbVQaL<-AMvPH
rIf=OJ-HjH>`u!G(Nd;|_pFfvRE-}WNS;~-eh17XKxM3a6WX!8SvH@5LgX2})wG3?pXEDv-7Wj)T@9w
&YYxw+#sh`UUQATXwU_5c?xlYdy+%RdkZy32)Pg;1DFjjhkpJdT8nr}L608uKK@FxUf=cb@l%@Xu0Ah
R<(thk{~#3HmH{-l^aI`O=%j>ICdJ0<fetcyYsY=M<_sp=b&n3w%;aY!-%coqB4QyWs9O;gg3S(BHtD
g_xd3>`!*cMO?^>gQX`GIs-mBtzAe~gl*a{hef*Xe%miuyz{bd<<gwXWKlGDBZHXvKqo(_GCGjGNtif
Pn>ZHh+&(5OY1fJM#_l*^Ff)fbUt-D&39M$1XjxSfroTgqpxY?-Jb7`vUR<*aP5j(-ApNO{y+BrBaBI
IQ@aR%^5q6>aO0;vS9r4A&q&vPVUhKpxOxJhUfwaORkFz6H3N(ZZr&*+8&`k1l?R_*colI6&9X}45LK
y|mvc=wSg<nF!!%6+aG%d)AuTzBpg(4v|8Q{ZNo#H?EuS6ax=--ji*$aBlFZCsa@~7s8XD)IkC=N!%7
M44b2C~S6{K?$VJpBkH7&jZzKkxiSE3Eb>&-B-WRlpcg?PR9B#K-t&81{jtSP0+*Gd~7J5LTT9D@gjg
"%text.

(** Lines 12465 to 12614. *)
Definition DATA_82 : text := "|Jmcc$m0xa=^%x9IbQp<5BkMj0)w6m`oRW2Vwc!pf-uSxR{;IHKIw<6{gM;=(wjpYb;09(0^Z(~@M2_
e0}-)7;&Z@j7Te?`&wCo9nM;V<zFqJV;;ix1^Vmge2Tw=6puiN5X~m%gpB&y(go)E-%@#U#v1Idk`wt
hq1am&roN9_gXB8$3x?0fe!(`b7HDei1@oMe?;v=MjjcfR69;h!tbb8Mi2qw$JLLo_0W{D3pOlp;u(a
xO*2*6X;f$T4L<Cfox`jUiiTNiZb=`)zeUM<Iqv8Bia?eQQ$7^by{X+A9eX&ounjM}CLMZ@iv%%=;$<
IoC2Jr#1&%VDwhgsV6rhdH@votVz@fziTLKq96jn10(YnJ9||B3-9mPHA?L8cL%`KpbR+mS}&O_cB+k
K25ZZIm}(VaQAE7>uGf?N+R^Y7^N1JNVUpM%7&p!9QmOxx-4_sqRYfnZ8mpYNbz*X7vg3Rztz0rP5iz
=E#E_E@sQx4+;hK(sdncE>x18kh>z!|d4QJyIl2-4JwcR`WD)_VW0Ea6m(C2v>(KTig=CbbrE-a*paU
>A2dA{8`xS;5FtOFh-H&Nn@M$FvYCg@}xqmF{^nobLr`r!_8D4VEdmivhT<5SpiZID6Av%1LFqv%d9t
T4`&|)aMUB8JtOgK5nE)0_g=RLpFy`IPRmt7w8j`auhtNZ@k;txMN^=Q}^Q$cZWqe@ZW!<@>lYok_?d
e355xLnLb5g}6Zcc3h%mCKBG2&kbM=S~<0mcTMQM}kwiHm5zQdmSZVkgb`?AU~tO?9MY~Nho$4N*6+G
=|#cq(M5~E{XDEdsJmb4UU6$4$*Wl%z)qc1<IK~%yDMlR5@~9oxo=;(2htbp3WW}B7O&lJ`z0gQHc$7
bouk7wEjz$O6O-t|Nt&)NJokL+W|I}d16+p2h>`tLUqa=1f1V{HS8?ioT=IBxFl;||BTRTK<9U<>4$d
;>usrA7W`D06b+7X@Lu(-$P6X8KWYC8@m6+q85^NEQ^~jYLz!s%A5{{vQvFQGmGwNO^{@KB{BAi1Ip;
lx=Ql|&EoZRbyQX7DbWrBrhWl|`(PV33=nk3BhOWiAF95dvvLs3Tw;;x0|z`}ccQXuyPpRCge+(apGa
N@pO{(tj_le$;3aA+1b6W*+(2bb$`wM5WtE0WFp6^4Raqd~<Et<#l$Y7@4cQTIAdqhg|kIMrB83qg@N
4V;<BE)kYOvHirs*thvqZHMEvV&Pslc*zu_Uou?E9CT&~|0KaWp;i%KP!AOIz^$1W*@c63n)t-R%-H7
x&{!`6$7Ku?UfUZ0_^JlNWj7B=MV{JjScrs*)^%|w@mK3W=DPbmv2R0-#k-(Nmijtvj^pOGhE5<4Q`Y
fRJExyxes^2Mb8}iM?RvjqUrZQNBYhBnOo}cim6S{804Hg{wR`yNf#o}!4bhn*NpE~HwmqiqwLK*lz(
#h-`=Rj8{X1fmr4aiVUR))NK`YI;+78)^^X|9(lBF^pWb;sEleEJF6*Z|4I^1AW5`daDj-9fZ!-#+!G
5Kp%*}3yWr**HyPbXS$QVY7!Vgvu|6eL@~m1cZB)BwgeQEPNZLCXNC41)i4ZXQLdnejqh5!lC}WLPMz
oka;Mx|A(A7)l>bY6*uY6;6+6ER?khv~u^`e#t?y=&%ytFxTc`5W?kIR#>=3-~f~`ym4CFxp#C)+O0>
2SnT-Xr0%uDN~>V-wiNYCs-oY=8eN`JVKWiBiM{Hu)`GGH00N%kW4YhvJrC`dOz{ED5BV9ga$1OqA9G
?xAAsS5`C6wj9pL-vmaux&LGTe=Nc(NSWKx^)m=@Uc;>k0Mtk9*7QBN{dk}jvwXj!Lb#=|-_643bT=k
t~a>Runi+^b0hY!pQvgJmCR$1#*-7X@N~3OT`K=OGh5t^M(@I0d&~GR@;)hkz`Tmd8G=vTKF#iLqrM_
(@A#84M3w=kgzYFjb_`anCPxujlXx3WCUD_o9GkjpXoE*bQs!vO`arm{=wt*Q)7p?0PQi3GRNWd-d!9
d~%JgB8`e!g<@+C|6uBZ^G>B-A|b>d7;a(6BkPNsWWVwfroaj)osOr;X(9q^@N3VT3ssB~T*%lQG$ON
xnM<PmYx6S@6LLmfrsa%ClIn#`x6I5wMU$6hPy{c#b7E|>8z-(IIjg`2T08%CQulg>b$Hfh;Hf#6l&e
0d5u8>jn|QQZ9ATeik`JqlcBRQFZ^V7S<$=1_gMj$NMLdB*4}D{Zf4hi?!c(L{A(CgdhLxXo?t%gb-D
>IR_B>GcdKlwUOnOqPG14IvUcCs0g?cI@X?Yc&8_t(o0`JX|Z8z53`+~aH)A&u4`P}6+EIa!RZ);J9J
UtPzbU6X)hkf7;ne3H)5z~#4_jvJ3hHHBGrp66}|3t&8Tp1CyLMPU59F_ns9YW$aLrvl9<@4`;7krXs
w@S@qiejq$hMSMHMo<GGb0>RaJq*#xLA-F{VXq<AxYv!k*R=zc%TXd?L{g-V#}JmPKoNi5fmAE`G|$P
wHKqZ=U|@Q0TmMq`dX$B^hsp|70(&xqe40bV6f?FpJSQPn!NG!hEGl*fMU;bBbv|$Zfx6epMmPnic;5
%xWDsOfokmNn-?Vekvo)?%3RqS6ASpqLY&?C}&CkfY_dce8%Su>^eufJAxu1?-O<ZP4JW}wWy5~Hs@F
4ZaxzGt_?!W`8w7KVL-77TtL2l)dmT-EUk}xr;yp*6{=Jl2@!X9M9AaTRvOt=T9N9y91U+P|uVfOFxA
SPbq>G_t$yfLe%Z^~0Wk2xK_|M)EM2{K)7|6T9NLbV-|ac=#G1F5?oR!G|10s1>^FSXIi)KmSiv)o4I
gv&Q4pzd`d<qJpaw4BhExKJ}Zk@EBy0uqX`A7*)=sDo{aEgxGvhuUEKebl|4PxCX%uR47A6G10?g+ZS
~9W(3=fIxnTxO<TnUFPY^3eDR;EBz9DfK9h#O3P}0jJ;_RfD&1rQ=&(Juq>QH;?AWGV6`mze|{P-c^u
UDf-yeK-x|PA59px_hHNoVjNyV3)hzuITI^&8YfjiVZh4^Y^$}aSYIyLO2(MXyiQhHVu(eAvl@a!v9y
Xhf30<<5G}znx?4<5>jV;#5gP7rDk|$4KS9*4r!yrpFOZDoB4S8r^JvDmC>WnWo2M4#boyT8C(JWNiV
vVNmFf~?lc;t)pi>lOuGiqGdPIQU1m(z`i@4Wv>-Rl579CAF*VGq}N5$|EOFUu!%wan4t7<>GPnzWOW
*T;0KJp8cFQBic>_L%)?E&ipLdh|m1A=)N%8`c?;)}Ed=3)$YOz*^uBLiEt~?N?j(N|pUFEx0v7Xo&#
+4kr*6xMz9@?&*#~d$6=?$k!1gi&w_BHG3aZ_qv8#lVAsN8hFBw<-y7=Vz`n-a%qg@W@eY~QuJ~&D?I
Gbb@xksiDyx*B*(}cqQOHDM=h-920enp;fe#&bHZd#@|DM7JtPsIRUh~HmXo^ILoP>VX;9sGoT>{ek4
XNQS0f=bjy-54g9!?!TZRtqVK~?G9`EJ4;R)($r1feN8E6qPD`^KnCM9?l6{r)fg;lLs$bpe{2~s(OC
$>IIHUfy&Os71^LY0l|5l*(`5+B1B7XihAS2oH+aQnju#m*NF>s~Fv;F#usl^qzFgDULfR*bBhXZ68I
R`5MSBY;y$6oh#8s(3E-x%<U0!Dm@u;U)He;4_7geb;_lKZ*Mhj@;0k$kUZ}PoXv~Tf4dEu<o@iJy0Y
KbV+r~4m=)7pnrzD;gC}Ziu@eU(mfa^9Fh24&o!ufJ&A%Q`r#qO5-AV>9USi+sWvAoWMv}o^FgiTf&P
6ME0)=q(m>Vj7r%skvGCZ|KBa+EC*d_|h-x@J3}`NM+fw55u`|>Re>;`*vN<ADyXB0SRWrh=fa!S#4E
9mhP#9i&Qq@Cn?DEusoE}hNZOVVZyIY?P>R$Uz5o<Qx!}{@4@yBP{4|KI`$<_fgd-x%oFB8B9*w%PG@
A1M*2y{<S>bZ;&Tx@C#s3#c9phVrNUj$Yh9ty%x*A8KcO$-q3b))X}+?fY`P4mZ8lQGF_=m8QD?2zAc
tV6hQF~7JN<S?HW<d*Zb*Uh?DUg*R;4Jh&0RX*|(Wm*RSFaU{N<dl1Uk#lY7c9DU2=AHI^3WK`WMST4
542Ko7J2Jr$n4&Xv21e2HcQDSW@}UNQK0S_Sjkx6)`@V`n-Roes9#qJjhaq|ibUYD=AvvY`?ClFHY~h
lJ3<(R?_Kw-_mo#PT2kKr=Y3?@ch8CCM3HUD+Q<hz-FY}?JV^`!c$r44*e|WCLv=aStPS^@tPbNaV&c
n*Ua%@gA(Z^{cVkD1yPwTT-)$&9ag&9zRvGcKmy4M51wyX)WJWmj36n*Y(%}i@U@bTbQCoaZR6mZB6&
sxJV*WCHoLEY<#ayu-&H8c%R6@rhE@<lo2Vg;u)#6)+K+Lv=zojr~7^p)7Fb<Z#7aiAZADy}s>BIXf(
N{tMN`TPTjHgTj+Ho^ejFJ^>75+Yv-658v`-7n{H%t42z;jJz5(CIYV#kaBmQV6i^CaE_=Sj^qisxvD
i$>1K_ZsK^qoQG*H*3Dfuy+Fom1vEiBQtsWm&($Fw9AjBj^bgV=Gqz+hzn}VTzvLA5&%@FZb~JgEsfs
-O$u2QQ9=T1QPe4AET6Y=wSX{X0=GDWxS5E*u_k}wS#+)uu69MD)3Xz{_slVsGsA=>-qcF(YU2NDK=i
M*oajt!A7A=AcQ(KYpgwxJ_Q%uld-qiA1*e%dxA5I0cOhtU3Cxb)7qcBg0%VQxV5d`@p(mD(J-Ys1MJ
yC>>D2&X+k<KBmA<X}{&q***y)TS$DQ<Y0+%pw06?$i|MVHuT;NcFIeG>buX=Y%0F3KB*2$c4DkwM+-
Fo;>EKeSdl!NVo?{XB{0JWzSR93ZI(Tuun{nyPek{oLofhjp*R(=wL7E89?Y4)L6X7KiGa(%<0?N|Xo
>ue>R#Qd!~Vbp`lJ_dHnlYSCqx3PnuzickL&{~j9xvpk4^&!?thA1To+vIIJ?66SrM0{02Lj8nJ9i=d
{WPS|sKc@oCJLJFZO``DUm&-)X~A2{K|v%`2pYmR$<&EpWQSjc9HuKJgnleLqa(qvTA+T}6Ms(znR;I
!BQW<T!vE%uuiB^hm#TjuP*INV?)b10P<<xx}jG1}3}PgKa_1n!!~Z>p;ucVi=4?^vAfsi@(Z8j5wpQ
_{*5Rh~v4lqgtnZkQ<H_NEw4pPXrA|GfL9z6AH`ap@QmZ+cj4njt1U+EpTW!W<x*7U&68!}!8tVcbPU
hJ>p94%f}Wz_*`vWK4xOfOVfb`ECT$e8iSZE_WJ*u?{%F9v!{*{V;>N*GbqsJl;y3!qR=FiuU2eUmJ!
{ZU+ye6!CHCL#v;xZSp7?7AbFkox0aGO|*L~<1m@xkxblYlj)cDDd6Z?u{AyTjafpESk&bWRm-Sm$H$
Z%b{y-`LUs>;Vx&9OdLQelQV)exp<2}IL_&+?J3t+tR=B~#?ta7jOE{nPRJt%Sxls_3eEKX-?x7@>7S
|0%?$?AorKyA1dU`T)ZGMLBeL1W_U*0hw-ZZj4TsP-|ok#H%&|+@>fnW0Qq`<C{_6@Nx`#k!v?iB(#@
E<56gu0?YtSa$Buw7YTRVwC2WetS3GKPp`5>QQ}girRuy4R2iP^uOREGLnto&=H9+|%gqoPB>{roA|Z
Xvu4zrm__GJdnr1L0;3k*V9AGo>Sl?+G%MjONME)B+08i9#koNOrNOyAiJ>kWW<&;>Ry+4oFl@Ee-4T
^j>Do>(vrd(uE03bECk{GcC)=;#S;Yp1YOy6$8XfVKD>6$TY@g(9EF%<!VU&FLW>a2pwfaq!{O$*)`<
stEdS9Q-2GDbx;U8dFtjL(0)Y?&8NEijxvn!JmbUb#;4#?k!#LIwb1nYXlhnN~%Yw0yhbNy135S&sR-
p{ngXoTA<TOp;wP7CYoE8SdgpC#R*1y!fo>Qe_N%62HX4lGs)7^_lMTU=D{KRM-USVKyrqgE%AN6(|H
z(M2ub%%!b8g~Kd`uj0ramT4=+leF3}%OUd~0Eg$FST$M|kyo?z+rD-Rp^=THZBAG<d>J5AV_1R0qC-
H!`W9K2+bb>1hPD-_^y?Te#<e`Vz|qrl;(;9df)Zd#SYbj_LPsmfVB>C;Lqw3_*SF1jv>L>RumKag`k
rSx<vm5qN692?o6KX2)4*1^r}fnV0Q3H-~y}*BcG%UiWPSo@nys6L$}4s4R9-ekmwq$=396YAK573~i
&5Nn{k`9&h_46DoNcoQaRUWQY|%D8)Xfj>xo@&+G;y7&$jfSo`K8d}4X^r+)EEKy4>!tD*X&HtzH=9v
;m+43zde;ALU2kb*PzMJ()h&mNimy!|NZUWaE1A<~25y)`WZz*n$J7&rSImJ#A1xS7o^59|BzAMhEM#
kcE@v#5K0l!d0J6D95@&`qm408oaXKohbzQ;d%kjKd2x%p8_oQYJLEUrpWXNlJK>JZN9yhc~jkt_9I0
nL~`futU?kxXfDY5-~F0)DJD9+<DyNrSA2yjm(l)YdLflSuLVAYM2)x-lSG&4ok+D@8v~JR3e{#r1)p
=3+i6a^n8mKJ^<$|ZkYS&K9E2gC&D7tWo;)GiJLR#kT8?ZSe7H-ekygZ)05ex7${rd1Kv7@b0X`N4<b
L8SAm=i3!jN)JS_FMf(DDftVX3@>R$1o&(o9PQyE01pH8xh1|w%3lVBE4X;^jfv<k+N1phcy_qvhC8E
Ve$krN7`F35aODlcbB`Mg1tuwZ(>(Q?p;QEH5kOnkQc+zbb3d%U<cyvs>#(I6FiT>E|&ug){is{ml`_
KO?OlMbZX;IOj6GXtA@Qls7Rkh3cI(2SAaWaq8r!C93RI?>w`mGclThad5kP)LWlu-yGpU&4b2$CnT5
ye)!Q`<670V4HmM1{j!6sm0&~+_JSe6+1lBM7h+w>+q&^uTS&XM!OOY)Q|^S@G|CMu;o=Y9DO53Iyra
t5Yqv}*V1t`OZmL#mpsn$#5e4eg1(caz#-x~U7k}N&b0zhufgTfJICZuA%x}35x4ApF|B)5!+L9zM^+
fjDZ27Lv1=a#@PMiHo}5lrh@rlkaSqg+I!t#R2+k#TQ_0h>W(qVn5;DN$PQ4Kk;CURLB4+jnQ#+}gTl
yZuU~kvMOzK`oI={?=wGkE`do;>2ol@_R*1@VRHuJEcC9HPc)8}<;_$9aeTK7ssH-~4jw7sXN(@5`Q=
e=}=619V>tT}Y%%!boZnDRp60n;-#KbzFOo|JR1rGlQy6#LT&^+s2A4b1X5_GA38lBx1xRlT;yJpQ&9
le*W%<qFGtKFFpm3#d#)<K;}ryu}Ja3my4m|Kmd8gBjx!i000lPVakNo=KxXf}mvXW5(&T+AH%SpN9z
{^r`v3<wc8lR7<CT&bQH6_xxI4;!zl*1$K}3&Z550wEh=Aio%*nM&+FQq9z<6d{S#+t>&Om@|-(A&yA
QJXL(7$>Dau1mW=D=@Ua(%?}x&Nwvu06-oT*0ZY2gF=LoYP$KCJAJ-u4orGo>o^2)kY3J`2m^<#JG6a
YwE2lL{d7^YIzwDa2asoWXxa^RPcDdMA~q=!}ZnteJ_F{-;Lb@Fb^eR|a;pq}^Kmv>;OciheS$=2(8Z
1A(8lw)|<Z)BSu)}mfoW@?KpH-R86Fvo<(EyB-b$rnih`=!3b+AYhQtZA_<BTbGR{-@K37M)@}LI7e3
t81=(2{DH3P^z|^QTKYz{VAeBcZlMj>TqVzc_8Tw4Lqkd(o3NTB3X>ZY1G9*)S0*5vF;Vk^1xaxPI*p
g4a9a5Odgk0s|JE7;!!P6LND(N@=9ZGV8Di5`<x}%oj6N!p<qq=HDQ3jf&;Lnr{z_G!^<$jTa~EWUOQ
f3B;F#i^DV#|?iE(+Vr(tPJuUbm|3+Z9m3DdA9ooZlzrtmLUQg+*E$le*$2||^aXfe6t>A~E!+})Krd
SXQ@EF@@s4PtlIaE)Jd-IjYPg9+|?FDtOC)w+18UEOFPtbW;>}cl2CBvmAh|+!b0KCN5&>}pVkox-DZ
c_KUq(GDlodlTYX|RLF@=hmH*i$DI4X|&Ikqa_F)CH%4c{G-5*JV!YUO^f&ExI(+G&7psyzRx1{*}jY
Y{6T$$dwSI^=oQ}_Eo-I8FK3f>RuPqe(F|GWpo(e?fXEyQUdQ-9`F6Q;NwZYa(Sskdiy3`w;*!ud%q@
iuji(c)_Fq*rV311#fiX>OcR=Ecn^dKGe4>jwZeW3xt(3NGO2q#DMNb1zLmufV27kH@K^CFM}bcG-P-
34PN$`%mS&GIHAIp#c7AhG_j-^Vo)*^d`9*R1Nu~9&bUeKm5Sv3<a9Q7tLq^RkzvDC%wgzYF%;R1+&I
up7a?-<TZI5+CUcb$@-j|9w7=Xv7od_1#0IRk<&G$5avd>>k>Rt!+b;AodxTod;SzQ)6TW?7gcHX~py
lq!P*M;krEjsdrL9Q!qd7$ofkXxDX$<rIMvDJ&T!$_~9L%N=pmO$6iL;*1<#&Ag<z32v_xnkdE!!@O?
*ZtA~vH*mO=jqL)Qc2Y2_NF<Na4#N#>rfOK1WqN8@<Eh4$L;S>_lncQ*vPx5XXs3(bHk3Mzn1WuVbi_
y)-&R)5Fl{MbnNHruWvb9p2xWq1y7lJ89h?t8Bh-8fJj&9_$$*Sd&4W`*@$=Am#MW5`qMnXOOViIzh3
)6(q)jm9NwiQnFofS7NwkKxixLx8H0~2bNA-VyN;hT#4n4OYKag5hYQL#O$s2Z%ffQs-cuqN%G2X;@Z
6am<}$ItaE_fX<lNrN^!o;KrvQ;3FS0Bz7z7|-AoOs<vShc8$`Up2ow)>^r?=Oxo$uzXLywnu$mmfa@
?NU7e{!*TKf^gJC^CIM-6pt(q7u*75X(?+wflvanBv7ToIur+q~RdfcY0;Lr^*THPobvjjSygZPmlhu
7ryPI&vWZ_>Runh2u8H<)RrX`oUWOkskh8+X+gb)KtMvO5}#sl2g~sGq055UeV&YL`^&?^8r2qeKpi-
|%UW&;8JX|XDjbg}A9^ii;hk4#;UVqs+CZ7y{-kxUmmA$<agY<iC~9`;;CP)L+GBd*&*f#H`yi^}nRb
P;UBbTm{xi_)%kW}GPc#vp%=9if{E}&o-+MT5PFx;J#)seGQJxgI920pFZ;9LdfiQ`6b1>cygD>W>!0
@XX93U=<AjKO$j9J+i$9^xD(ONLvnOmPx_j+(rX?f;@kY##hhhead{2GXT%$PStV;;v={XUSDRs$|iA
Kv5TzE|&lK8)Y245#)mWR`wS!08|8Xdjuxx?9u$c_h8IC}|s>nVq-4L*45M$r{5NCr+7$ipI^cpMch1
nrv6xn}f_A`I>lYc8<35RvP*(?!!|Z5ftq!>w$A5iRLu6W%C1B9@J5d%L~4-Lzl(3z*jc-@>>XCBJ@k
$>+mR~H=MD(r}u+T&5hsGaCmVn2-EZB9BUF)d)NE6Z!QoCg}csXQun%Wx5wO9!}8$NU+$+{KyVpei!j
q|f=(RX_ey@1*jA^@@`C&Rok`v6vF$AGiq}_q3GeWRKJt*bI)gHnd3d9sMfbv>aO8yH67FH=+g_Bs1n
2Tn@2JQvs+AoOav$Dvx-VbE8xcU6Avaw={qhpX)c!h-ZQrbWjs5oQ0TV*bR$58!l~5jxbIF+V^snqoL
ZJ|l6Okav<NUO4+^a?<!V0~NX%!$KL-Xtd%daHBHS>Et$l3etIiW(*cU6Hi@tOBL@clT{Fs#_0r|N58
9*U|yRV8fj;VBhF(R1T|Uq^aSQu!rDb2r}hg1Xmp7fkAF63LOIAD8x!d_bBM@RmcbL>WF14McL<M7ZY
@yka%>eRz|)*CE#Pu<(?pUb@e|vtMYUjNsrnUx0dR7rc^iZMNxsFWy6c_X{t1>b-bLt;hXb9uoi(TQf
RZ&|Q;@|6-8~&XmD`;D==MIc~j9-Rof99-1ug5pbi6O)dWkJt_}_Oy_~%UwL#3`~4=QJ;-LRxb*{duY
=^k;WrOh95g*rM{bf>Vwjb(0@lJiFI8YxSE?)tqcF15;4q)}c)3?iPoF?xc{APVeJlGrb5Qf)K4Pm2m
yuP$C8}xdi?GVJ{-b_a*1hJI?TcR{0AxrwAUC~VZr}0^IZ=r4L6%p;l(!s0MZK2(u!7}Nzwi<YXix8Y
*k29<(Gw|qGk<6gy~fkmr95zZZ`dI>3>0jl*H>=6&bL{-oJyC(2S;}KEk%A+$K{<ovT@(W3kHNM!vnc
&$@2O56qh$J+~b9pq}Tahet_-jfpzz>C%eKC`7Cw_`F4p#N_IVT%48hdZr<Z1kAo^ZfMe4$C!YVcgve
qH>KBjuD}vPjSXC2P)7~)DLTDA&xX0Um$r3)UJ#T<f4=9H-h~&H2)=+o_lJ|HK5_)mV)CXcWdVAv7->
bnTxGx8G;NkUj7VBCpV6m7-NIhUGx%S&Jyb_Sua>3M=D9n5QF26qMy8Go`HID!q%#vJNxwFC055soPG
IAgQ6m{Yc9B{T}K`Kt#vS4U=so1A}y}!g+HD>i*GtX*zV2J#i>OugO`^(RG^zcp|{NKy3Um(cw?vZ_u
_uBWpx=FP|7HEJJmi!ff;CYSmq9#ctY5?@H(%DyxG;JQV*nSjO*7bN5PO5y;d-l=(>0*2C0QF*!?2YB
#`tI?>%a`-ikmrd_oot@UO=Ru&VGN*F6S+JM|Ae~+R^E?jnVHlMnHroQU3kpX+p{FQyApZxKCWrv9H3
wL<9<Vk#SvcPA=|tB2XQh05=*;`mLE-@iU!1FUt6DXCr-zk%cnDC(=S|OiHUa8#ddFV4*S?o=s}moq1
HsG70mT{x_;*axCn)FYN|s%wNs1U_T@=gE6k8pA5A=_wKg-$$)IKMMASCIn@RGX2hQU-zqP+Q3&^8_*
8hF_O&^Y&7bngluv)3=wGITEun%KH*K*&x$jt(6H<`RrcNpLi3e~RGwm0u#!+4gx@zk&n+*_8myr`7w
p1b~m1M4rd{0-g!)OS+eHT{wVj}%k8H4oikn3i6S4vrVTm*pdxC1S<goR&kwy^ozn#Z+UIPM%*%r4)E
!3ah%mFAqbqlsG;Nijpx{pPHM)aES5carqrs9)OW6cu%Ct-Akc8edvq(4KdR%)^b{aV#CSs=6av7$2&
YHOa_tj>(k3PmBz~xc`CK?34YO}o%=RSJpMy@dknF-y5+h32aZd%ed9Me*L1$NDj~4)8Vww*r4NM5cY
1ioFB=R6TMg)z6q4@qn;fEfIZv;^v~rEG(lRV7k03I0?pbohO$%zWonOc6P<bVF@@?Nn#^dp$Z(o1^(
XS%<(J%h}&4<5!{L|Za|MvL9n{VI$g)ioP&o{|F-oE?z=EIx*9A9bs&6|&JzV>@Yzx(0CckjP{!<XS8
$XIa`Yv~bgV{Qva$h5OdC-!FfWuFoR?<}RlXqIsSp2eNa<QM^8R_OFn#DLoM@Qrefj+#)_Wtp%yB_Yb
oVnXC@xm>K&^7U&w{S<J&EFQOZbDTHg@kJoHi24@p)>2};3Z1LSmS4$%Jzrd;wYVZ`aoT>>E;ge=xck
MdP*=IET~vvivm_y~jEcApaB+>zqT*t4gW2M0o5jrx%j;WERjY2}OY!XDr0eqDE)H2O?<Dao4rR29I@
?8g<FZhef|x}_ybM}ZZGM*!G54z5n0aZeh4dbl*8-vu7C3A{u@+2WvF8^Rtjn*g;1JZ}2*Tn_((*(LA
?>Q2te`lo`$YvH^^1cm%X^nN>ajR|u)M3s8zQLQUKV77yq0A{6xA$t(Sp{lJNZg&QuoUS!MrXs?o!<d
J&5WT@%SS8UPKBDFLYsBmRB373fUctoawr5r_@Vh$$~A?Udv>cM~wZd4?K}2IfNc9FM9S~ZGg$LVjUE
*4EKrZ*L`Spd1)+R^dj6{9wxM`!$8u=icn(_7c9MCU0l4|r9+8>xX^wJ&uv}%5Gd*H?iX1>_bru-_ZW
MtqFacn+64()6o)J>o>`RMFYg}qYF!J$tyH=8m$H$B?S7FJZZcb5zh(uksW6=Ag;iW!=de7}#wp6hdB
4Tsg+&?dqJ(={vUcqv!DaC*`K5)kyL8?#xl5uWHPJ8kdTFgaHfX7ZDePUijEf49C33s!UN@3KdWIS#z
HDM~55V#}6uiybuL$r~d=C6CPGc`hd;`!FT<Z}O&jxiN@!W@c$YHz$mn{S*@q<guf{Vq1OL2mFw}8$C
"%text.

(** Lines 12615 to 12764. *)
Definition DATA_83 : text := "5Ft1)7o>E8nw0=V2Z%TDj)HJIo*Tje>$~5RmM1MwTAs8#X?fD}q~%G=la_;L4O$FZ3|b6Y3|j0WD>!f
WJ7_s*IcPa)IcYg*IcYg*IcYh0)}+Ox#iYfe#iGUSJW@OxoQV(WzJsEy;LLb%5IZ=S6dXJV$}9sS8I(
8#a53<Ng5vX_G(4zMjpv3>5U%bwXqmK3S|%-%mPyN`WzsTfnLI0LQM4#p6fKGtb+22oZbi$YWzn)|S+
u-pdC~Hs<weVjXI-?oXmQcvq6IQ?JnwaD=O(Ck3%F$fgo2u~pdKtJnF@+^f)bXXrXoPhL8KD+*@6EY)
E5NB0CDVO1<`N!i>#1i4Kk$xunmB9kkty3R{_HdAV%Q22VQ7^x&ss(AejK7#C_>J@l^MVtblF<f*BCO
0N(}FEx>F6HVd#>z^4NI5=84kkRJs3LC_jEq$fz|evuV|yCC!mqMaZ<3B3Hkbq~DNz=I5YzQD-~JgmT
D2^@gHTE}rayA;m`XX1mbZ&2JBoc#@sWCX=tL5euYgakookO&Nt)j^SMP^ub~ss;oq?k`csAMJjT6-r
2gbbr8cf=D6oz5+BAV5oo;1>h!#;DZo62uFjkF>p5GxbAhkST|&a3vh#Ln1Xw2gIrQ@{xUdc9ONznG!
>M{2X18Gz6Ax5L77uf>=5^ty5h6E1QB6yfnIP*H8?vNToM{wml4#z2PI>HuO8f66PAhsZ-Z+b0#q54`
Nz4FO!zF_F9Ji^L6GhblIB4MDM;!D*G~j@Is}{{III~Q(+;q6a1=PG91RZG#JMj!!)NJ!5g4NCpae9?
;0KA}Ai)^m&Y)&HD2@*5FM~S5Ad4Fmn+4ThL0MLu`%)ZymhKmUAq5}g`+|f{kQfOv76G^qU~51vf><w
3rvO3WqK4prcW@a&oOh5y@oZ4gAC$HRMWaD6Xiy9qRNe)t?;vp+P_*Fq{w&u4X`yO403bnef1JDc5TB
*{MQSK>gst-veIPniJOp?@z?cCK2t4`VKAzyHVZet1)Dy6p82iu(KFdpRZ$WVIDyS?EDsF?i*`Pvg`W
2setU=~H$Y=)HoPbCMm?k*R9K>C-_GJ(FEZr}XM5;VEQ5c-Y3r^z&r`v+VFTpvMpd3Dc^g#(<5NZTyK
7i8!H;u6mP2sb2zX%cO)gZ$%%O@a7qzD3J8j!dE6a-Of5S;~~LQwD&lqv=F)-mQi-u6p^ymnBb7F1dV
bv;3{BB;L!=wpBsgLo>aTn&ozg3^?rbR(#k49W^)#67?5mjv~BK|x-Syb5Z{f&!@^fg6+*1?50N{ZCN
96I9j&WhDXA4(dpPN{Sf!GDLiq?iWd-)FLQ^2+AIUl7XN+AV}>8>D?e{AEf1joO_Te50c<P!aGQF$Jm
!p;j?tV$PX#vAPpO2V1s;WkjxBHjX|0)NcIKEzJR?3`Jynd!wIq=a}#sx9ekFTAT1N5TY}_Dz)}PJ9Y
E)R9|t%$V6*{y4QOdVL<7(^iD3hL8S}iyi(djp3|LzL%L4Qjps#?M1VAc4P60g%P(TpK20?4=E*&q@G
PmBrXX$>C8jg$w_2j`BvEV#daNH{>xC{y_g3`pGz%MMuDu<8Aa11Co1{C*~{Nl58zlaX`zJO&0)v7@S
U{Hn<q_l$sQIJvz@+3hnAb`k092*>s3CMfQowUJc>3$I%&b@@kS}wmH&GDxH&<8@~g;(A*vtJxB;t)w
t2_L|bIp@7@_$8bR2@ZG!3F?5b1y#{OU2ss>8I*qnl@~$cG(3G!t{@5t#ud<lSli#hXL$*Z2Lu`UprA
h}&<_gqgF5`6u0CL%LFIf<>mJmz2Nml<ZFf+q9n_h{+WrncOZSURLG}ZR6)>iNqXYmU-~>U!E~xGe3L
S&`wV(hks4feNv4YHbtnKgMvvj|R6Djy0OC2P|f*e(l<O#AgL7F8<mIMerAeRA$446^CRD$GLtnKgMv
vj|R6SO~IZ9$=GfT4l{(V##yOjH4%!Y{}z-vKp5*=A6u8PsXU{Us0hEZr|MMU`eyR~eL41|^k26=keV
k7$lyQT!Nwl}b4`NEandK|MsQyyq9cgdBE|J_&$$kTDK&0RaFGzmuSxTE|=d1m*V1=l!2_fGn;3WeoT
%-7hjl<y}xF7nHgMg>6BNOOUP%Xn#;G78HdArC>n;SinJpBCnuQCSuz++?AK0_A02V3d*R0GOD1ADyX
0eE2tnX0a^;Gq=FKt33v&rpMs=ZkWh;_?(yQ6P%0GE1_hNsLAgkPn!{5gxSkRAYez^I^*lipPf%VH<m
-d#nTT!Qa92pS@%iBpXoQ?WvVwY+pl~H9TnVaDBCG|pc!BArRwSqp2`WUwgFf_&UlR6<LfB=K2!+S-%
V8mVUMpV?5CNn{At*%%^6Eh*JV+%+ta~2tOUPaZIl!<Kp?o!DFPs7&gX}?210oub%g~?n<_mrDQ1<Tq
X7MZ_A;_Eune!lD9&-P3%8){G<Kfqk=+eV&12P+=xre?p>7$4pzu}Gac#%Pp+d*<WNJ0l0+aMPj<duU
IaggW@a<@T3Hb}mP=TG5m5q7?luXrObL1s0`tOohiAb}dBOM_f!kOmDhpg{&S$ae+_&LE>1q$z_8Wsr
W1JBf!Q()}WXWEq3BVvqw2GJiojFGxoO$+jRz7Ual+d{~eV3ld*Jx+_R+#a&E|BhvjMek8BLOGvPNL8
2<iQ3c7EAgdH)m4c*EkTeSNMUj3OIWvbd=RLppC1hU$)E#74f(%QLq6m^JL2@NXt^_%hARQ8<LxTKAk
kklL89^!|avz4p5$S$0l%zC*97d3x2yzlZP9n%j1WAY>?+_#vf}}!_R0vWDK`J3gAw=%Wt?)s*UxbK^
L69N{)4>LZqzGa&e&3l5rUC=p2jD(n_5rRBAbsR@kC(&7#+G3C0J#UqJwWaOBo82Y0LcT89iZm`S_f=
8fY1Si4$yPdJ~V~<@e<JIfIbKGIiSx`y6P+*2s%K|0eYVLFUA)H4O34Bmp*jqZ+{)nqx(gs^j<XG8X1
j&+FTW>PE;$YGt?CBcQ$UgFWnrqi{SA$&}V!enSw|ML^>eS0g(=fbU>s7A{`LvC<i^=>NG=^%3kI@Ui
=cUbbzG;EFEC!D8KA-|3n`M7Hm3T(*c_f*mS_81123X>8Q;K@GZJu1PeADu<3wJ2W&cE(*c_f*mS_A1
2!G7>3~hgzKO~OMXG9F=8137{UTie>hO9T{YfZwK&b;t9Z>3kQU{bepwt1S4k&d%sRKG4cXAuwqWeXr
pwt1S4k&d%sRK$KQ0jnE2b4NY@d-RY)d8vwP<4Q+<9goX#V-L>2dFwg)d8vwP<4Q+15_QL>Ht*-s5(H
^0jdsAb%3e^R2|nYa>bA6evu?l^;90<)d8;#cy++51702Q>VQ`VygII({H3kUC=aV$lz_v~{UTEk?0{
TPU3KtvfUg659pLM@teBjBn2z@6_)i21TN>BqlQ<0BFX9Bt4p?@;vIB-4FzkR~2Mjx4*a5>17<Rz01B
M+i?0{j%wfQ7&LidYIT`mPO1<MW?cEGR$h8-~MfMEv=J7CxW!wwjBz_0^`9rxuF_yyfBk_5{RSa!g&1
BM+i?0{hh3_D=h0mB~Q^ARIJb^x;DGBLf2?lAw|Z_89dwG*nHQ0;;5nxO3jZ6`=OLD~t@PLOtjv=gMA
AngQc=l!Ki82y(7Z6|0uLE8!1PSAFOwiC3SAngQcCrCR%+6mH5kamK!6QrHb^B!;eB?;P|=$M3WCwx2
M+X>%J_;$j#6Rw?}q(c`aa66wi^FJre?zoWR*#vSYkUN3g3FJ;7cRrnrMaxCYMa#tl7cCYo7A+Pn7A<
Z+isIP>awm{Gf!qn?P9S#zxf95pK<)%`CvZETo@*-pnlwwACC%=*kmA{dbSI=cA>9e-PDpopJfVEQqI
vlf&5NhnZ_%u1Ry4c)b&6*b+@0X=1a~L6JHg!v?oM!bg1Zyko#5^ScPE%T!Q2VvPB3@gUy6wle@Sq6g
1Zyko#5^ScPF?z!QBb&PH=aEyA#}<VD1ESPeSvAb?052jOp%v5h9p(!n_maoiOi&c_+*}VcrSzPMCMX
yc6b~u<nF)C#*Z~!{=D-?icxic_+*}VcrSzPMCLkv<uUgfbRr+C*V5)-wF6mfOj4adLOF9R(HS158yi
i-wF6mz;^<^6Y!mY?*x1&;5z}|3HVN;kHo`Ioa;Px(I{rR`$c|mP7*tifbRr+C*V5)-wF6mz;^<^6Y!
mY?*x1&z&iondF)FIG0xpDQUmx-z;^<^^RQ4$C*LO&eIPd=@C1P;2s}aH2?9?Lcpf*8qIfoO;}e^jAn
*i%CkQ-2;0Xdx5O{*X69k?h@C1P;2s}aH2?Ec%7z$JTk|6K|fhPz&LEs4jPY`&5z!L<XAn*i%C-gg^-
wFLr=yyWB^St#A#j^?hPUv?+zZ3eM(C>tPC-gg^-wFLr=yyWD6Z)Od?}UCQ)H}~zw2uMqevumJcS64t
`km14gnlRVJE7kR{Z8n2LcbIGozU-uekasB&)cu2cs8Nm3H?s!cS64t`km14gnlRVJE7kR{Z8OfLcbI
GozU-udgpoj)fCSr^gE&73H?s!cS64t`km14gnlRBI|1Jb_)frg0=^UAodEAV_m}BmXS-iy1?HW8kw7
_7C>p?b0=^UQoq+EId?(;L0pAJuPJnj;ymRdQJa+aa0pAJuPQZ79yA#}<;O+!>=g@~<{*~rP3z$2>+z
IARFn8XU7Gh_+U!(@yo#5^ScPF?z!QBb&PH=aEyA#}<;O+!-Czw0I+zH{%y9ge`+WjImknV(ZC!{+e-
3jSVJf(zmC!{+e-3j5&;qZ}`eTfCj2<Eom_Dj-hg3CUTADDN-yc6b~Fz<wUC(Jux-U;(gn0Lau6V{!u
?i_KCxBZfYc_+*}Vct1>F!BTQPMCMXyc6b~Fz<wUC(Jux-3jYXSa*(HWQ95Hevu!TcY1F@`Qiu>;5z}
|3HVOHcLKf>@ST9~1bipJI|1G~H=o3kz9ir~0pAJuPQZ71J_b~g(C>tPC-gg^-wFLrz;^<^6X2Zy@4O
F(U_`rLv<=`p0pAJuPQZ5pz7z1BfbRr+C*V6_-U;(gSa-s@6V{z`$MYD`?icxic_+*}VcrSzPMCMXyc
6b~Fz*EYCSh$7_a^~-5-TPVV$OY-8~fS)B0u=csbN+8VczMX_WLKwA)o%0K9C#0cLKf>;GF>Pyf3%He
s;ge58yii-wF6mz;^<^6Y!mY?*x1&;5(-ikK6#hCvjmyy>o6piOKAKjlrA;Bnj}HfbRr+C%8Mo-3jha
aCbtu6T+Pk?u2kBggfVTj~BlL(w&g*gmfpQJ0aZ(<W3-W0=W~&oxtq`ZV&e$ggYVJ3E|HB%cn4zFA3>
RNOwZI6VjcK?u2wFq&p$q3F%HqcS5)m!krNAgm5Q>n?o%2OYv-iyA#}<;O+!>C%8Mo-3jhaaCd^c6Wp
EP?gVoum^;DT3FgkVFZIVzcE3mxxI4k!3GPmCcY?bU+@0X=1b651?U5ia3-k_rqWA=O=i2@bhO+xbk^
tWc_)frg0=^UGo#5^ScPF?z!QBb&PB3?Zxf9HtVD4OTj~BlL+@0cXeSUCvg1ZykosjN?bSI=cA>9e#P
6&5GxD&#i5bj*NXcR-){USs_?gVltkUK%!3EEE3c7n7Mq@5t`1ZgKoJ3-nB(oT?e-d~c6q3nJUBG7h%
wiC3SpzQ>0CuloC+6mH5kamK!6QrFW?F4BjG&^G-Zo*K$Bvd>7Haf^jLbcP2L(3;1Ng(Y6X(vcKLD~t
@PLOs&vlE(~vFj1Bk=-vs1l3Ncc0#o$SSCT+3EEC*b^@{!kez_+1Y{>5I|11V$j;bt7Ur@0MUueS3C2
$Fb%L)Ge4XJt_!#5{UY+pjgjXlLI^op`ug;rSV;;L-<Og1z@ahCrC#X6>)d{LjP<4W;6I7j`>N$M^a-
;qSOy_;+F-EcbMScL(37byXbi$?+ES+HK1WPAGIw8^tiB3p#LZTBAosj5^o%hEmcE89EL^>hT36V~Sb
V8)l<3Q?gh;%}v6B3<}=u8jEFfHKdyf2l;9=;@4I>FKjmQJvAf~6BIonYw%OXvPV-}EOsLX2S236oBk
bmr!Wn8NNCA%aaOY&v1n37byXbi$?+Hl48PgiR-GI@6m%94cxEFrB&cBACMN7a@X8Cu}-l(+QhS*mT0
C6E>Z&>4Z%uY&yZw364&1bb_NZ_a!Kp!k1xK2b)f>&;%wXfI8E`=nd`vq$6YsN}W*Z^lCgqCQx<e&c9
&*d%Or1s5(K_393#|b%LrBRGpye1XX7`zsOYD8?pqdPEd8`zN8KV*!?0?py~uwCzLv&)Cr(Y0CfVW6F
{8+>I6_HfI0!x36oBkbmn!>FMbJZI$_fZn@-qt!ln~8ooMb<Q^2MZHl48P335#UbpoanFrD|MPFTE`1
W+e{I$_fZn@-qtf~6BIoe=4SNGC)(A<+qmPDpe@q7xFGwK*ad?`1-G6D*xz=>$tBSUSPd36@T<bb_T5
ES+HK1Su!vF`<VE;>y}}uNb=?FOnn{F>E)!&>hyZEYs>f8gbH=sZUjT3XjsVr)Aya#V-LyConpJ(Fu&
s@=H~H0`dcqPKb0uq!SXIkm!U&CnP!{(OG$q7rz7|oe=4SNGC)(A<_wvPKa~@qZ1gNK<ETQClET}&k2
7{_;c32tQxD<{USeb=!8Qj96HO}9qb$-0!Ak=I)TvX7nJdubHC>0KXkD3WLUMA1WTV-yo60BY&v1n37
bx^bb_T5ES=surBex;PMCDUq!T8c_a!J;weI)O3H5J$9>D@oCxAKu)Cr)@OHYX<fKn%vI-%4FrB3K{U
c0^oTh{%aew5}27Jxbd)Cr(Y0CfVW6F{A?>4Z%uI6A@6364%kbY8c8qwX~!(g~4Hh;#y@6BwPq=mbV5
Fgk(J34~6yqp}BtP9St%zQ}FgsC!LdbONIj7@ffA1V$$?I)Tv%j80&50-+NKoj~XWLMIS9fzWw>nKTx
x`$e39(Fu%BU~~eb6Bs=eXNYt{q!S{YqDe?}LZTBAosj6fZu>^vYeJ+GBApQFgh(eaIxoe^w?UFFMW!
XGfY1emE+BNlp9}t6&&?6BTQ3ENE;w|-p$iUOaOi?V7aY3a&;@@k_;bOZxp<79Xm-%-pxNe#n5^#ir1
?p6uJmK$7DT!r(gl$&h;%`u3nE>R=mJ6)5W0ZS1%$5q%R#YL-S6;qHQ4kq=wr~wpbt)<qZ$e<U0~?~O
BXo0z|jScE^u@`?>K<E*8)oySh~Q{1(q(bbb+M{EL~3@xM;a};G#v)!j}tL_~@M{!!mWhLCc_J&@yNl
v`ktiEt8f>%j8)}3+Fd!k+eu!)IGl!>sGWZS{5yfmPN~=Wzn)|S+u-()<uhp78flpT3oc)^|TnJ?)Re
QMN3cgg_*Ga9ay@+(gl_-uylc?3oKpW=mJL<IJ&^mb?nQ5FiI~4mM*Y#fu##9U0~?~OBYzWz|sYgE{O
DmrxrN6z|jScE^u@mw|%4TwZPH^mM*Y#fu##9U0~?~OBYdY;lC7Ey1>!}jxKO?fujo?UB^D;g$e3@5g
o8}L8Qy`)?QD8r775S!KMo~U9jnbO&4ssVA2JXE|_#3w|%4TwP4c)n=aUN!KMo~U9jnbO&4ssVAFMY?
??I(njt}e=>kmGaoacQUJHC&;NyZ-72Z~1g36t`SI`Nyx8i{)r0GZyBPex2r|Y=65p}Nxr7kFSL8%Ki
U9jnbO&4ssVABPgF4%OzrVBP*FzJFx7u2K9eQ5yp<)vWL1)DC|bit+zHeImkf=w4}x?s}<n=aUN!KMo
)T`=i_Nf%7oe%mi8*mS|B3pQP_>4HrcY`S361)DC|bit+zHeImkf=L%lx?s|Ef2km*rTayGVABPgF4%
OzrVBP*u<3$L7i_v<(*>I@*mS|93npDK={k3Q9@EnOA~mq-f=w4}x?s}<o37KFQ|yC<0#Fx#x&YJ#ps
sW4LjDl<c-t>2D0M-p3rby3>Vi@il)9kQ1*NWC;%Jx14XC<6)di{^%h7FKjX~*t5h8eX!K({iUGVCHR
~Njx;ME1ME_ijps|#K|r-Q!yhi3ac83v{MMTmgb1+*@pb-}9(US06&f>#&3y5Q9XuP%6X!K({iUGVBz
agVqCk^){A(7J%u1+*@2H-oAa<hmf&1-UNBbpfplXk9?-0$LZ)y2g2rxBZd=UKh~1fY#-gJmPv5<hmf
&1-UNBbwRERa$S(?f?OBmx**pz#y#HlOA3Nr5bT0n7v#Di*9EyQ$aO)k3vyjhvw~a~<hmf&HGD5*Y3w
f{z;1NE$Q01J;ME1ME_ijps|#LT@alqBmtXOQ4?XAp9c_^%$aRfR^V@z&4c{4=@;Xa=?gC#I_`1N?1-
>rub%C!7d|lw{0$&&Sy1>^pHaEgbbiarb7`wpO1->rub%C!7a$S(?f?OBmx**pDxh}|cL9PpOU1M`23
`F;fBtftXa$S(?f?OBmx**pDv@W1^0j&#YT|nze3{jBlf?U`A<vkdPmx5py1iK*D1-UNBbwRERa$S(?
^6PGZx&^*2@O6Q&3w&MR>ze01Ui=a;c7d@Aj9uXC0$-naj0M9k7<R$13x-`V?1Etz47*_11;ehpZX1i
x{US+f7Fc${vI~Y?FzkY17Yw@~*9Fxn07(&Kl%AKCL%lP%UyU*7evu@lX1^r1402tN>w;Vt<hmf&1-U
NBbxo%hk%3$n<hthet1$-MFQNmquIVMAWh0vV6Y>MJE}(S*tqW*f(^*1pfYt@HuKTiTj6wH{`~a;BXk
9?-0$LZ)x`5UNv@W1^0j&#YT|n!CR~Njx;MH~WYK*~4!K({iUGVCHR~Njx;ME1ME_ijps|#LT@alqB7
reUQ)djDvb?Y7KUJF!Rpy~ou7pS^G)di|9P<4T-3sha8>H<|4sJcMa1*$Gkb*)_&gbC<=5g1T)fvO8s
U7+d$RTrqbK-C4RE>LxWs!Ic*Dg{gzV7k`MlcD&#Ujzm~T>$C=P#1u@0MrGbE&z1_sB3u-Li(RHLt3E
J1)Z+7^JM7!?iZ;6P}lPFT+~QpUr_3TQWuoEpwtDWE+}<DsS8S7Q0jtC*V=VKX!`CKsew`#l)9kQ1*I
-1bwQ~MN?lOuf>IZhx}ekrr7mLjf=*ZLJQ+&<rJ&RWr7kFSL8%K$J!=1F@K5qj@ej=r8BleBs%xL=PY
>YV<HaulUKh~1fYt@CE_ii;stZ(Ipz1*^T=43GR~Njx;ME1ME_ij_yc(6>{US;5>Vj7nyt+Wu1*$Gkb
%Cl2R9&Fz6Ysd-)djCEcy+<6>*m#H^X?aMf>#&3y5Q9XuP%6X!K({iUGVCHR~Njx;MKM7Een4~vwdC!
ZQlKIg#|!o0(1&|UEu2iUsu=&H586A{0My@Sm5gdUl-)MVxN~rk$1ny6a>2<*A;e-OhK*-a$S(?3cYE
cfM9{I3w&MR>jGbw-^oS4_$6TM0%I2#yTI24zAo@}fv*dEUEu2iUl-)MAlC)CF35F3uIs*p3ibU`!0Q
597tp$Z)&;aKp!KQ82)QoEbwRERa$P{{0$LZ)x`5VoUy_gd?tT#`pmhPQ3us+H>jGLA(7J%u1+*@pbp
fplXk9?-f>)Qf03G{$7Mi>JMVx@v1+*@pbpfplXk9?-0$LZ)x`5UNv@W1^0j&#YT|n!~?N_6@yI&*;U
S06&0#z5Nx<J(hr7kFSL8%K$T~O*uCkT;AeIQo)z6=J<-TfjzQ0jtG7nHi7)CHw3D0M-p3rby3>Vi@i
l)BR1kQ?Z9-Iu<hxw~I<5|p~2)CHw3D0M-p3rb!4>JyuL^@)8TJn-uB(j&lS<*oxkb9cW;641JU)&;a
KpmhPQ3us+C-N^GH*QG*2#}wqcfYt@HuG)1VXzrH+UKh~1fYt@HE}(S*tqW*9Aa4b^F35F3t_yNqkn4
h67v#F?yvK`Q0>Lf_b^)ymXk9?-0$LZ)x`5UNv@W1^0j&#YT|nysS{Kl|?z&9$b@z)T0j&#YT|nysS{
Kl|fYt@Ho&ethS{Kl|fYt@HE}(S*t*dVPM%`-xuM3)6<?A9&P`(1mmDmefRYECfN~tHM2m~r+(15R9H
?KxFcfUxIrckSf;xE)&sos=JML{WW+4l-Md?W~7J&dwz$MdM=?iX<aS{Kl|fYt@HE}(V6s|#LT@alqB
7reTl)CHw3D0M-n>%IgKwfs^5>H<&~fVu$G1)wefbpfagHeImkf=w4}x?s}<lP+*{furl%@jQCC`$cN
N(gl_-uyjGB3nE=!Uan^emM*Y#fu#!^UEt^fM;AD{?k@#G^}bB!2sT}?>4HrcY`S361)DC|bit+zHeI
mkf=!?D2f%azrt8}0hfuveUepnQx&YJ#pe_J)0jLW=T>$C=P?tv8Z33V!0CfST3ou>R&Xb{ayI<r7Kw
Xy<s{D!O2oaRJpwtDWE+}<DsS8S7Q0jtG7j(L=JD#WRwV>1mr7kFSL8%KsU6&K&V^Bke8vyD8P#1u@0
MrGTu4^lwEoaod7L>Z6)CHw3D0Km-3qV}}>I*=90jMtk^#!250Mr+N`T|T}fa&Xb>mBM|F97ugpuPaq
7l8T#P+tJ*3qXAVs4v*`1)IKL(-&;|f=N$c*9Dlqp10ni?)8FAU$E&5HhsaSFWB@2o4#Pv7i{{1O<%C
-3pRbhrZ1TE1&O{O(bx0VJJh{i5a|mTeF38{VDtryzJSpeF!};UU%==K2z>#eFCg><guZ~#7ZCb-ZjO
jb?S2<67cCbp7cGO9LCc_}7OePO&^&lx_@6Wjni1pI?UzvZdV!@cu=E9%zQEEKSo#7>UtsAAEPa8cFR
=6lmcGEz*VCyjS`;mAd7$p~dOD7xWzn+!@0#u%*^wpM&9L92xDnTq#|30PpxMZf94VyG{2gultK{&U?
%vGe13Ov7$7J@J={3`9rq@ibnO-wJR(g%}8tF9}nU>I*Z{F$WUehu<Eu+&iIxVBqGCD1z(=s|Oqth}v
EuqsAIxV5o5;`rR(-J!K%{%?vYg$I9Wpr9br#*DqL#I7-+C!&3blN|s{d3wsr~Px<Kd1e3+CS&}vg%H
xf8#ba?V-~iI_;s;9y;xz(;hl}gKj5;w1iGe=(L1ROX#$EPOIm9-v`o(^l#iorxkQsL7z_UX%C(D&}k
2y_Rwknoc7Ndj?mn+e@^@7w13WQkJvf%Z`?+wJ#<<@rxkQsL8ldTT0y7Pb6P#8)pJ@sXE+mo`H^0&k(
uYay{FGxqtkcs>FHqjt!xFIR?uk$omS6j^_=0}Fj^zi>N%~R)9N|jmrZu&{2RB?X$75D&}jvoR?uk$o
mSB4i(*<mpT6*={d3wsr~Px<Kd1e3v_9WS^IzISr#*DqL#I7-`Z|#I&}k2y_Rwknoc7OY|D5*E(RM!l
k%mY5ZtvfDNm@pyWpr9br)6|nMyF+TT1Ka3bXrEIC3IRsrzLb+LZ>BkT0%$b^PMmM#_g2TGCD1z(=s{
&F~UFe>J3pF>9mnfo9MKOPMheoiB6m7Xy=_yk$>YhKkO9MbA_~#P8;d8kxt)V9KNEp=MQN&oz~K69i7
(E5syP-q+RFJDe`aJ#;LV*T1%(3blOOt!;dyot)<giI&GxWCOU1R(<VA?qSGci+Rxi}iu@b5aS~q;+i
<p)PHXA3mQHKwh!pU!aF?1Xar2v{HqmJl9p$^dPoKADs*QBoNT-c-+DNC3blOO#jda>brzLb+LZ>BkT
0*BKblN}1`}wm@jQ`ReI_;s;9y;xz(;hnQq0=5ZYzp5~v$TXxOX#$OPD|*te@^@7ct3C7iScjT#;HAY
+C!&3blO9wJ#^Ybr#*DqKd1e3+CQiLbJ{<r{d3ws$NPEvPK<x!Hc9QFPaD0oj84nww2V&6=(LPZ%jmR
(PD|*tgicH7w1iGe=y<;muM^|nxSft#MyF+TT0y53bXq~D6?Du2o10e8Y3rP}&S4YUp0>t(tMC0i4u9
t*X%C(D&}k2y_RwJqu%6+jWpr9br)6|nLZ>BkT0*BKbXr2EC3O6L<MzCyWpr9br)6|nMyF+T%oD|p;R
v0OT0*BKbXr2EC3IRsrzLdG?|XcEUb347Jp5?CxcK7d-(K_^#MxM=k8ca=w3|-5>9m_pJL$BOPCMzGe
SPap_&08Y)owcNrgQkXM{ipT>a?3qyXmx>PP^%}n@+pwuvubHR?}iS-{-443I2`SbhV&PyXmx>PP^&T
"%text.

(** Lines 12765 to 12914. *)
Definition DATA_84 : text := "hBqy!(}FrJsMCTvEvVCiIxVQvVmd9RbN0Nt^WWdNovd0=rv-J`1DdcM9uXdbMyxG$+ES-2b=p#=Ep-m
Jx0BTO`RY!6f8#b{?Ud5;CVejvrfTLLGTr=Sp91a!Yw&pnJEOF!POIvCpRev*_cw08nm#<mjaaMdw5m
?4>a?m(tLn6>POIv)s!prwuoW`DMD45d_0^r`{>E*@+E=H2b=p^_eRbMbr+sw}Ph)Rj`|7l>PW$S#uT
J~ww6D(BS9gZ{m-f|ZU!C^VX<wc8)oEXy_SI=$o%YpfU!C^VX<wc8)oEXS!m)Of>dtU~<2Ft$t<%yvE
v?hi`h;85OtraAo9nc>PMhnrxlWtww7E{3>s-5@tdrZ{xJ^<U?6kQ~o9nc>PMhnrxlWtww7E{3>$JH}
o9nc>PMhnrxz4xgT_?A{aT}sG*lBZ}HrHu$oi^8LbDcKVX>*-6*J*Q|HrHusotD;VX`SnPee365)ABk
kt<%yvEv?hiI_;~|zB=uz)4n?GtJA(Z?W@ziI_;~|zB*rD-C69PU!KXAi(b9?X=$C7)@f;-mey%$otD
;VX`PnVX=$C7)@f;-Yd?S13G825UZ<sXT3VmJv(LR3rx#Z*?p}~{{_gF?-%;CKr_FWRT<6<#sngcqxL
t1_u0C9Jj3%k2by`}drFB|br+szWSEqe-+E=H2b=p_w>#I9Y{f*oFw69M4>hSsMa045nmey%$otD;VX
`PnVX<wc8)oEXy_SO0N>dsF8PV0-bv`$Oww6so3>$J2^OY5|>PD|^wv`$Oww6so3>$J2^`|5msbtk63
+uJ0yrA}Mww53j4>a?X!Tk5o>PFw1<rA}Mww53j4>hM({oH6&rhH-md(pQAEs!prw+&c~R>JJwkqnV<
w4$oGDbu&=sqW0BkU!AY7?sW7wZZp-sI_;}Zc#0dWmey%$?LBJK)#f^Ft`#1%My&O9T3_c`7wJs&FRi
iD8au7A)A~BCuTMLow8Kt2?6kv9JM6T+&cnYpU9GRv`a0kDfpjMN8@It~jh)umX?>m6*J*v7*4Jr$oz
~ZBeVx|VX?>m6*J*v7*4O#I52W+Y-?*KaT4Sfpb=q8a*N*;Quijv_zE11ww7x#!1~y&ou+t7Z?XdHF=
TZIKYuaU}U3S`Kr(Jg1VTV`zcGzi$op#u1hn;rVX@?#5kqQq%Q}umGe&?URaht9d+G(MkcG+o%op#u1
hn;rVX@{M5*lCBIcGzi$op#u1hn?qpee365(=I#hvePa*?XuGjJMFMf%e=J6PK)fc$WDvww8&12?6kv
9>+5{q2hu6$Z`{U-Z|4usVB^&KI<2qM`Z}$z)A~BCuhaTEZLZViI&H4QtoVH&NavV;X@i|M*lBZ}HrH
u$oi^8LbDcKVX>*;H)@f;-mey%$otD;VX`OdHwsXwixD8QD>$J2^OY5|>PD|^wv`$Oww6so3>$J2^OY
5|>PD|^ww9fZE4V_v3#%+FDTBoITT3V;2by`}drFB|br=@k;SEqe-+E=H2b=p^_eRaORx--k)xQ$Nx>
a?#;`|7l>PW$S#uTJ~ww69M4>a?#;`|7l>PW$Q;9-HsHx}SSZ%j>kXPD|^wv`$Oww6so3>$J2^OY5|>
PD|^wv`$Oww2)0}&3rv#Cy>8!o0>LMq0*pI;B7naWBVTT91hr*Hr{md&WN-Bp3=K12xqq6=c_wy{0pa
MoUU*p!s{C^W4t!;%E8pn+{rx2l*g>Z?>oQN;ni%NtkcHdxXlmI?PGM>T&F*f{lA7NTSN9(orYRur$u
(!VW%B-+F>W(>svqfns(V~mz{RmX_uYW*J*v7*4Jr$oz~ZBeVx|VX?>m6*J*v7*4N2?4^iidzj2!+zU
*UfTjSLFI<2qM`Z}$z)A~BCuhaTEY)eK<(+)fBu#@lgt)F`hZx7mKr(Jg1Wv3l>+F^$dyN^TKVW%B-!
oDXDKho<qP%X0aeSdYQhQD$7fd;FEc3Nnsh4wl7cfI9JSKI8g%}(3ww9QU<%(>A`Rle7^e(p7GwbNER
ZMD-@J8iYoB0DXz(;_=9veP0vEwa-hdwy-QdpTT+%Y9AmXJ7lL!{1$8vj2JadHA*2?j>We0XW;u{n~2
x(p+-g;kv_hhwBd4-8Ds>DS8|+M)MVRzHZNb*y8N>`z{$xj3!1CqlwYj)2?NAFS#Y`l=^L}(0QXrF=M
a^-Osz5J7btJ%ov9;4r3g~I2`|Q-NSVc*F9Xf`w@O$*xnhWhdB&%G0??87Xw`kbTJScOSTK|B?DdDh>
PpqT=(X>?61>GyqDi`x_jWSy?8Gf<7SMTF>c0q7~^4#hcVdlxSe<}x$eVt*&w&QcrUr`0&nM)9_M9@m
oZ+(co~C@(Atmpk|gh6Fwo0D>`ULKyq63R1_%RW=gWSswtr%vFwp)l0}<3As6$YPptd^iC0iX5&>^5~
d;c2(It29lICrO+?m5%#q1g!bH>8!#X?`>NHw;8thqMl9ZJ*vf-?$OtMi5i>hW!oM{65{?38#l4qeDi
AjPAaRLq>;;&hF-G#vq$)7WmuU_l9f^*&MRjlHENY;4ptDNvBQo3BMFWWasP#!3;@c=j^{SBz0FOown
2cGlP@YA+PLN`J3;JWj~PHKk?ZIew6TjyP^`_A-r?#zcLWvWe>gVgFu3Z1kY|wNpjoE|Hpqa3H2x>cu
4S&;32_7g4x9MHzfFb@}AwAl_QYgA;Cj}ThRBC>+<nTCL#75Vhj>IyOkda{vMINn}l}=?-1UW_SQx&d
&vM{0Ft}kYQoIZ!w}vfylwE$d3IOq;Zj_(1$n=+>pc5&7ne7e50`r-{*`&QO+H6CodVc8>c_62KapUO
V3A;vV3A;vV3A;vV3A;vV3A-EB=Mx}cYibG^f)9~B$(a4e<Hym!6L!!_zycT{zQyLjOG0s1|Y^_iWPa
)`JS8ZclZ;zW#_t|$gRk&m}*5@*?0IS(kjv_W>+!0ihzoMihzoMikEmMnI4CrvcLOJ%(5b*BBQ%~s>r
CAT}3uUHbpi?Hbpi?Hn;O<;$&v|*S!n-fb5SmB#{-76_M43VxN5?D<Uf<TfMtSJ=Z0wBC2}#x#{PE`z
OXAvLdn~vSPj!X%%S|X%%TL4D^!gl2S9pnt+;snsWgrl7Icv;qNXk*&mdQnv9x^nv9xr0h3LWO_NQNO
_NQNO_NP?F2Kyu<B(C4QIk=VQIk=VQIk;<HZ}nLna9~=(`3_R(`3_R)8CWxGy^81-i=PlsL80wsL80w
XcggP$0VR8peCRupeCRup!==kOc^~4K{Y`&K{Y`&K`kkGUogF20?cSc*4O?uH;0AD@BS}C-TQmfj~Mq
)3`uU;knCr2YjSIHYjSIHYjSIHYvxoF&>F+ZK5nGc&n8Wr4Vtu?w3@V<w3@V<w3@V<w0iFi6RY=5?p+
|ICZ$D(6K~MO$)Jg>iEI(##QVRyCoQ9qTa(*EZV$OV<n}PJ9`bs~>mje__uU)L1`oMC<o1x;LvGoR_V
BbG!polAze9M>?B73JG5{0nA++p2`8)ca8_otR5+}RyF$q4}|7Rc)%x<N>LxKwvC#3Qaxx>@J7IDAB1
95gR@2jUc7d#~Rkl;gt*%It`NbupTph|JFKS+WP3I6UXrv~r-G@~%jo@;++%$eXJ#)lXmV$2?nzr%cc
m~Ri^J%slV-ore5$n9aCJ>>O}*F#><cP?N~1rNDB<o1x;Lv9bbJ>>R~+e2>m#B<LY4-@OY+V0EhA*$b
f`_2W-x!@tPhsYixdx-2IvWLhXB72DJA+m>w^^np-N)Hq3A)tqVp6u(5IT<_z^&+SjLA?m-MNlt-deI
&71YV@|Vs^cL`!@{0o^d?-7g4?DyEk_;aFN!Fv|gl@UC9q~(=~g^XhilRvKNtM^R?f_JbRJSi<DlZ^!
m;P%<14oS})RiG2dPU^&+SjLA?m-ZuiaB^S_JSU3>os=tV#;0(ucpwu1amexv`L^X^|UaqrJF8fm@uJ
`vQ5pkB<g7XkeqA_965(2Iax1hgo^Q8*pE2<k;pFM@gz)Qg~A1oa}Q7eT$4Sj!~l+p0H07g4>4>P1wq
XV23PXM<G}@9)(`ZZC3sk=u*hUgY+A_GcJ~++O7N+DBs#MqV%SdcFI5b2uHm$n8aLFLHa4+l$;@<n|)
B7rDL2?L}@ca(gkcUgY&AuQz$Uf19+!>EKOnZ*t3K-M^d2-bD5$viEPdnP&{rdUHZ>lhT`%-lX(qPQ3
{z8yo*8zq36KLA?p;O;B%wdK1)}pxy-aCaBewv%k(aDZO{Eds2Fn()E?Iv)bWo@Fuc1k-drRO=NE(dl
T842;M~YCbBn?y*VMcnNDv4dK1u_fZk{CO+SF$KQRVDy$R|~P}!#bcN5f`pt4>ddl;ruHWL4pUi3XTM
D-@B_jfLEaXNSt*_+6+SLu%pNB8~s&BS_>)|<4lY5VVHV!fGIZvuJ~(3^nX1oZyS1uo78Z-ROgRJJJ3
J|3j?e)s<wXrB(!dNaG;r1U1G_ued0dXv&S-@V~vknOmCH)*{|>rGnuruLn(Zz6m1uslST{jYxyQ|v=
jt1~BO|Cf){eD{S@!H4iZg!du558-_XFMCq|N;cg!od0E<+5f+|WB?NUFvUJ3_tEC;;#BY<!ECPldr0
s@g4y`^_mJR+6M~0#4rl+Gfk^N}f*<DDhtNKR_ThU5_{HmC2=7C9AHw?(-iPo$r0U_xdiDX?JGDn6yb
s}hn64f|`w-ga+Bxm!Z15qx58-_X??ZUm{r2~e+lSmf%&rfSedq=DFif!zd40(1LtdZnT;S$xu+nqd?
w;%oy7!VH3GYLAAHvHXv%iP%K7^M|Wq%K|>qBTCLi>Dg)oxA(A9DMU+lSn;Y4`6TVtZQtklTmcKIHZx
x9rdQdzf7x^7@chHlF@H`R)y8gAcPTdl~;8BKs0qHZ=XcMD``JFSF~*?D`T=w%Gl#A@1)bpf3S^3F!N
s3*4L!zGU<zqc0hK$>>W)Uo!fV(U;lvC7UnVWaIE38;}29viXwDmu&84rTj|uIK=ZMo-gryz59VP2Jw
8EQ(t2F63drZzQpn+mM^h<iRDWyck@zyhk6|1`I4KLc)q0JC7v(we3?^UV)+uwmsq~U@+Fopv3!Z;OD
uOYQ+{oF9A?ya_cSM&FUfpK=F5x!%OuK1#=n;wzU1&Fhc7vN$>B>5UvjvcoAPVZ<B-Ri(%Dnamr%aE<
iCXRC5$g&d<kQH>16NmUWr7$B=RMZZ@zoO8R1JZUy}KfO!gK3y(IHxCVffdOCnzq84?*184?*184?*1
ncsJBI3*0p49N`149N`146pkkks*;Gks*;Gks*<#rn4vCA(qk3I4>39(!i=fi04+HTQhF;6khkYbqTT
DckbbJ|JuJ`0J6Dn%<{dLdO0QBw@7;`zNelcqx*uquXFoavabg_QSY1<vbi%=pQ*ENBEAEE^XJPsVF+
pnY6xlwY6xlwYOcL@w?JX8$-S4{5>gsc8d4fkns5GmIVTKh4QUN&4QUN&4QUN&4QUN&Wk>U0NNJcgLq
J17LqPMrmwGuT3_%S+4YOv*X!hychk=Y{?+Muq*$mkX*$mkX*$mmt_g?DdoDjGg;A()Y0j}D+a(TGCx
a__}_x|9+<;x`l41YfiFbpvJ?xUY}@1GcG7^p!V^ol*}d&wAL3^9fnL)-{)U2$D;U2$D;U2Q+qPruJ#
R)bmf-ET9x|I0vTATy8|$P8o#GB@Hdz~Nel8*#YqH-GlS@ck2G9LCtU`g>&tI{g2|K>ZLt(VX9R$!Hh
1<YJVIQ7&%D*Q@rU@h9JpGTJ`wH#h5Mpqqca8R%x9n}Kcyy16Ac*L}F|!!6;*pG{gnDBnLZ(6j%-Ko0
{w4D>M2!$2<sz1)bG8}V}8m+QV<_vN}T*L}Zx^ALf3h{70Qj4(zRBa9Ko2xEjX!tqHdYBi|UpjLxg^%
39W^t^D;t3j^@y&Cjt(5wE3OU59mfYkt2Q?T;8KTb+ft3j=1wpVTLdl=G+UJZIR=+&TCGo%%@8q{h~t
3j;>wHnlFP^&?$X6RM<m_4!YVMr^4H4xT7SOa0rkXEc}u&TkT2CEvZYOt!QRrQkV642Q$s)_G$_&pgi
Is^}#8gOdBsR5@3oEmUyz^PfB+8-gC;M9OqGxv9QdSW<p?@uuh83m^XoEmUyz^MVJ2AmpjYQU)hrv{u
FaB7D4OIt%U+dT{!9Wshg4MH^t)hzSv-5{ti)ldizFAM`y%@9z8Y7nZKeD~%h0|a#lDnc~~)l{g=Te?
B02B8{+YQ&rhPEB#@?6DB4L8xX|oDl4PjaYAyh%7=i2-P4|gHR1ZH3-!pRD)0rLNy50AXI};4MH{2-k
W}czkgy3(uz<GLNy50AXI};4MH_yIt8Z&oEmUyz^MVJ2Amr4jatOG$04ZT)PPe1P7OFU;M9Oq15OP%H
QJeU|AGNXDMB>})rgJLNpTNDTE)|>y&h>rs0N`LglZ6~L8u0y8iZ;PszIm*p&Ep0wDV^J+~W{bNNOOd
fushK8f^*)DkL?K)Id@LNev`5kkmj@BVwtYKbzeihj>C#qm2ylgro+N8c1p&sez;hk{U>AAgO_*29g?
+NbmgF*#7IEF8=Q3^5OF3k}(J)BsGxKKvGkZGX2HiQiDqkE;Vd-yB}XCsyzzv1g8d^8gOdBsR5@3oEm
Uyz^MVJ2AmpjYQU)hrv{vw-Ts!S_Bg~7ml|AZaH+wi2A3LKYD_F4sez;hk{U>ASlY5@Ke*I<F4d&=Fk
}>$8eD2{sllbj#M8`>Xw;xlgGP;aRAOmj2|x`1HU8$$t|sW87=w5MQ3FH`5H&#508s-(4G=XZmKfBS?
M|7o_lN}4&v$QLB0x~ls6nF!jT$s+(5OM928|jtYS5@bqXvx{6HowZ0I2ade~Pn03~FjnXTBe0Akqp%
4G=Xz)BsTfL=6x%K-3&k3P242HD@+!=A^I?bvV7BGkeKE%%4Ei08s-(4G=Xz)BsTfM9m?fhk#;FbH4f
0oD^bEgFy`jH5k+!f(kzk{50^>z)u4|%^{$$)4)yxI}PkK=bJyfGNFHB41$V04e~U|)8G?BIX<A%9I^
>E4cIhb(|}C_HVxP`=X((~Cx)QYfKCHC4d^syA4xI_It}PFhirmP12#>u>12P9fL5H&?h`;Bdlb?NKM
nje2R7Y-i7W;+7}Q`;gFy`jHOR&Q2SZss6q$3j%WnvK7=p^%$Jvv03~Df_Ik4&83(^Wi4G=Xz)BsU)2
q*wG0MuN+y*G!mLLh2@r~#tpBB&VDU{HfW4F)wA(<%Hk7ukfJ26h_QX)dyP%|17W(?aBFkf%YO26-Cf
X^^Kuo(6du<Y_Lli8#&0;w_#^*lA#=*-d;2UJpZ1;irM027Vg&Y2c@Up9X#!_-Wv$xd`Y*K*6Q~n+9x
}-PD)h^*96-bQ;iUK&Jtn26P(GX+WpBm_)&*0h<PF8n9`uy;tP!y7$$fiy}_X<j$VR!A}D}%|&EErva
S?befCl^dg`*)8I^lGY!r(IMZCucW*c?#G3|h8oX)nroo#AZyLO5E+$c&X>g{&nFeQ?I@4+WaQI-<T-
)V0SUn0sz4qRG|ITOx6?qzTW00pop5`W?h|^S@yl=>0r-7a3Ue|A~{`F5Uf5$-m_B$Go!Jr0%8VqVMs
KKBHgBlEKZla1k4fZtH)7<**4JU;d)L>A9K@A2qH<5*(27Vg&Y2c^1nNAU>L7WD08pLT3r@6h)&Ba+E
@-)cPAWwrl4e~U|(;!cSJPq<RH`6KNG>Fq6PJ=iN;xzZQNxL{JM4sj*t)SC@PIHr1ylL>Jxk)R|G&s}
XOmmaXdmnAG2{Fz6>}%V_Ss~OkP}4w7Q))WdD-cw?X>NkLZ%Xz&?IxfQ(?CoEF%85t_q(rcHz$Qq(?C
rFH4W4>_ojzQ^yVd;B|z`Sg>2$XgEP%dHX){gm}VCNk(ht|)9`oV(p(-cFD`E`A1+@m8G}g_Sel1KVo
HN44W=~D?5n}eSs}JGwI%Nq12D})Jb|SFmIhcFU}=D*0hR_>nul0oO7rkZlY392ZcYjTrU94+U>bmF9
x@6n4X`x8(f~`tVj(^hG3e5uOM@;Ax-`3Dh`97H1Qlf(lxa|=L7C<usBG3iQ#sGxVdhkbX&|P7m<D1R
h-r2K5kcu;NGr-TDAS-!gEGxSS|8GiDGjDH&mNPMVoHN44W=}h((HmFGScG^RBUOmrFjS{rZkw+U`m5
24W=}h(qKx1DGjDH53AJn@ZWjI!%5+@k1&%cz%&5UJOs6{bh5XXw4zIcE)BXg=+dA|gDwraG`rl0aQy
3^9{%p-k};S>c@Utcd5J8<G!WB3Oan0u#554oKuiNM&8zR;a83v{4b(JH(?CrFH4W4>FKLCC24WhBX&
|P7n5M+!P7DUaX7?s03Oz~}aMNoK@-)cPAWwrl4e~U|(;!dt5?RD)5T`+$25}n1Y2L4kdN?ISo(6du<
Y|znL7oPA8suq^r$L_PWllw$25}n1X%MGDoaVj1=Z14a<Y|znL7oPA8suq^r+N2@+WSmeU#3&UX<kwa
HVxP`VAH(Y<@b5-aY$>?>Fn9%OJqT(0i6bP8qjH8=2Wn0z@~ZkTBH<g8n9{J{fzXmx@1770i6bP8qjG
#rvaS?bQ;iU!gLBY4cIhb(|}C_HVxP`yK@9j@xT6wF{WqfJR-=`AWwrlO$aLJG+{agn+9weuxY@i0h<
PFnqBC`Gu*=vRM2Tar{SZNgEtM{G<ehS`M$xK24@<aX>g{&nFePXoN0F96VGsuLo)HE!J7te8oUX(8N
6wh61L3WZhq@@oN2cI#F=Kh#ocFu=eCC-p8KAAPrLVx(Z12y_a0#q-4m>R1&5esC+?lac2e5;V}BKQ-
wB@E9%pYc@r0TNY8t3%pr#3vD8w`n(?CoEF-?i-Y_*9q4bC+A`Wu#)4Bj++-`966G735k=rq|Ovj56J
&8EO6flUIN1U3n5((X#ZllrfJy7{|@%a=>W7{(aJ7{(aJ7{=)QDV#|-lW->COv0J;`{qy9mk4hX-Xy$
9c$4rZ;Z4Gu#M&s~Ov0JO+9*Lxf|vv`31ZUE`#ahNCjAp*m@y7x9L6||aTwz;#$k-Z7>DB@u6wxd#dR
;PdvV=se@9tlB7jK%lK>_GOk!D-FePD1`cVZv{PoR1H#g#DfSUns2Dll3FEijt>|t&OdKl>8#ypJiFv
i0e4`V!x@i4|7?cusF*L}I}%XMF_%a<GQB=$HjW4w&<GRDgoFJpu;!WdzUFh)3jxNf*^xNf*EVVphx6
w6G6EeTr^wj@?W2~!fLBuq(|k}xG<O2U+cDG5^&rX&_YY4-e6EHn|UBv?r-h7z14I7x7lhEF;_`;QDn
A~7XlN~$Rx_(8yu#^1f^iJ<@{0Zamz#Ih)1O2U+cDG5^&rX);Bn36ChVM@Z3gehsxcW-)TC~QgClCUM
Q`bn6QFePD1swo|2A^}SRmIN#bSQ4<L!qPeUGSKrvRhfFpXk@g&<aZx-f{HE)T@t#a;mhku0K}x(28y
2}s>8P?@Wk~XL>6ySy~*!BpX3&F((F^RcY@sFOv0IjGYMxBE1?82X|~H3i%bMH32GAjBl=H4O`@UD?5
*CLy3aAWg_tBJQFKY@lF%h-yL_?8L@1M30wsV+0Fzh(C16Rwl7J-vOMI_oFS#z0D6k}8Nx+h{pT!f4O
eB_?@?fA$LYagziFHsymxL|}T@tz^bV=xv&?TWuLYJgH|Lk+|@9?rEs7X+hpe8|0f||rSC_zkum;^D2
?>yrbPdJlsCgDuloj7<BdK7-11hXPac$4rZ;Z4Gu#EK~4Ov0IjGYMznJC=LNb;+x?i|TXG!!Se_KvOL
Wc@pv@<VnbrkS8HeVr`TVCm~KkoP;<Dagw%+5{pcPJPCP{_6gcYaUY7kuX|HSYvt+W`(JJZQH7lZI|+
8u?lR58-op@C_(|m_oxP2F&&VwXB@9X!lrSh^P+~chuqR<p!k)C7PV-p*>z^2d++t9|poBq*Wl@5k1V
0IW63e1gaWdyzf}I3A33k%%LCpi)!;o9}N$`{4C&5pGp9DV%ev<j53BTtUluUTBCt***o@9Ubrl*9$p
oBpQgAxWM3`!W3FeqVAVp){nCz*K`b`tC)*h#RHc8h8r)gFhm!cT&q1V5?#WX?Z@K?#Er1|{z!_5CXY
5K!z%*pqh0Y97xX<}awu{wQe$q69<<h!PMbAW9~!@RL{sCD=)@lVB&oPV#pyz$z2LPlBK1eas0e{3Q5
E@RQ&t!B2vpWC991iKS0MoP;>(eCGnJG7<75<VnbrkS8HeLY{;?sq%C<RTlgt)<22$PePo8I0<pm?r+
Uw*uxN1<VnbrkS8HeLY{;?33(FoBvw5MaT4Mr#7T&g5GU>TvGMTrILxiclaMDNPePuAJgM?z+IGQDf}
g~yC&5mFodi1xcGCII1rBF~@RQ&t!B2vp1V0IW68xmI$03{WlUVB{*h#RHU?;&&I{UeNvCu^Dlgdwrw
<p4&gh2^|5(Xs}JPCdh3!d1Wb-oD-aS{uj1UBjHXW7L{6M;?wopkt|3Hd^vgggm(67nSENqhuVh?CC7
f^Cn8+SviNixLY>MB6920U=M?Q<gnX*_Vg^f9>89<Vh@j65=GpNr;mWCm~L{e&4;}gb;ZW@+9O*$diy
KAx}b{gggm(5^J4=I0<nQ;v~dLh?A~w{$!zvkS8HeLY{;?33(E0odh}wbP{Ww1U3n564)fLNnn$}CSB
echovS0odh}wbQ0(!&`F?^KqrAtVuh2yCV@@5_*4nA1>z*?U|rw*$x0I;PePuAJPCOc@+9O*$diyKAx
~nNlW->COv0IjGYMzXwOzhgYa+Z!c$4rZ;Z4Gugf|IqQoYIh{t|2w*d(w?V3UeX&K~!hKUr!b<Vnbrk
S8HeLY{;?>DotxSmI2=nS?V5XA;iD)}*tmXmo$`Cu>cFHwkYN-XvBy32GA5Bvv>HViLq8RyYY=61pUG
N$8T$CEee9DVCcEWfICHlu0O)P$sd$N$8T$C80|~mxL|}T@tz^bV=xv?zK>{-b5&qP$r>FLYagziFHj
vmxL|}T@tz^bV=xv&?Qxu&i*!+n0gr2n+R$W)Fh}$P?Ml0K}}+DlOQHROoEsMF$rQ4#3YDG5R>kEe@9
twBB)7Flb|L+O@f*PHHp<sf|vv`31SkfnS?G0T@tz^bV>JqmP9N#5y~W#Nhp(0CZSAXA(PN0p-V!Sgf
0nP61pUGNi1Lzu%vrGOCpw>2w)Pxqyp2)cZCkbLMEY0LYIUt30)GpBy>sWlF%igOM3RRBx1#hP$r>FL
Yagz31t#1mxL~fl}iGa1S|<y60js-Nx+hTB^8!94(EmdlK>_GOk&ZJFePD1!jyz52~!fLBuq(|k}xH)
SV?e_p8bvpvEoFql3*pVXi0FA;3UCGf|CR%@x`;f<oJXUNfMGIBuPk;p8YJdSaBjmNi13tk|ZQaNRp5
wAxT1#gd_<`5|Sh&Nl22ABq2$9o}JxTaUw)XtWpw^q)O6hJNdn>$CQLA2~!fLBuq(|k}xH{KH%(Y?X%
wzA(op6U=qM27A=WIOTv_dDG5^&rX);BELIYnBsfWMlHer4NqYA?BE*6d!AgRa#G)m^NrICECkdy~wj
f(pAW1@!gd_<`5|Sh&N$-A^Su8jaq9hhA2}u%?BqT{lk}6534TR~Zg((SB5~d_fNtlu_CB6Ga1Y*63S
iU5dFNx(#0+9qF2}BZzBoIj;l0YPZNCJ@rA_+tih@|&>|IUIFv3yA&l0YPZNCJ@rA_+tih$Ik6Ad)~N
6_L*NEJ%`&B)#AJcNUzm&s8rOXde>NiX;h15|Sh&Nl22ABq2#cl7u7)NfMHzch}O16(>TJ#PTH}Nn-h
uKqP@kDk7adA4HObBne3pk|ZQaNRp5wz2E%Ff)gQ1V)>GgBq2#cl7u7)NfMGIBuPk;kR%~VLXw0e2}x
4+J9fl^6NQzZ+yK@v2~HAgn1mz=NfMGIBuPk;kR%~VLXw0e2}x4E`I7}FLX^bvB_T;dl7u7)NfMGIBu
Pk;kR%~VLXw0e2}u%?q<r%y3r>V6iIq!y$!RYcgLooIVvU(VB!Nf*kpv<ML=uQ35NRj3?*r{(!HEzh@
$qLNNkWo@BxzfXeJ8(f!1u&&e^ZepAxT1#gd{0@oUi{3Cx?iVU_Bv8LU*)4ux<4Ax7+q@CAYoW7H8XQ
"%text.

(** Lines 12915 to 13064. *)
Definition DATA_85 : text := "ZG*Ix$i6eqyT79>I?=w3+7s`6p~jE&1%p`=KT`eZ?3<h-(%E-9NRp8xBS}V*{QKt5E;%{89rEwHytur
%e7JnMWT0W7VW454X47zz;UvRJhLil;b@gJ!iD4zfN@n?z;UvRJhLa2@8BQ{sWH`y?B=bhun36FiV@l
rd+vBG8FlHb#kQvAfWCk*09L6||aTw!pBM#R+T=#I@!*vhW-TBijIWe|mY{}S?S+rzK$(WKcC1Xm)l#
D4EQ!?w63?~^*GMwb!ewNuRIWeqcSjntcGMr>M$#9b4B*RIDlME*rPBNTiILUC5;UxdqS&m!T<GhUVG
RDgoFJrun@iNBC7%yXlF~ae~b;EVTb;EVTb=Tj`q7%bPhLy}xCBsRElME*rPBNTiILUC5;UvRJhLa2@
8BX%dmxG=f8dfr_WL7B|PI5WP{Ia{IboebYuw-D#z>-;~WK7AJk})OEelJOHV}Ez{9~e#CEaHhN8B;Q
*<XyBBPL&vjfTBxAmy9mCx^(hAVyrkZ)MTj1P?Mo1LrsR7%<?5eOoo^YF&Sbq#AJxc5R+N9<lSqXo6+
NtR+PyoldDVzls0Raj4l~nGP-1zFBw=euw-D#vyU)Q-L2QT0X+<ng_X?mCBsSPywl~Rv-1|5WH`xilH
nx7NrsaQCmBxi?!?Zadl+&HE18u`hLa2@8BQ{sWH`xil4sLEZs8=)-hFNnoaEh^oumF6HjSJ8mOis+$
#9a(N!RbY!o%guB?A#&Ov#v%F(qS4#+0mm|8CZs7+W&7WNgVSS~8243?~^*GMr>M$#9a(NvF5{+7|&}
$-t7e7HZa;7+^BMWPr&4lUcrGOv#v%F(qS4t|^&UP6JB@mJBSpu;hFRV6}-^$Yg-Y0FwbGvyjP{k})M
?O2(9oDH&5TresXXn36Fi>;8_@b3$WF#+HmNnKevi4U>^1BT23#`RsxBelWYjNrsaQCmBw%_Om2rwTa
70*S@e~OJ+5bF(qS4#*~aH8B;Q*WK7AJl3C4UILUC5mG9oXB!I}mN@g{a;UvRJW;K(MBqK>il8hu7Np
dC0yzeobWH`zGefOrPgoc$2E14xthLa2@8BQ{sWba5s7EUspWH`xil3BoHB+1^-l9=TtMwHA#CL>8kl
8hu7NpdCWTzgYUE1YCF$*g8Fl4K;wNRqwl>dkT!BT8m9laVANNv<SazkL))E1YCF$#9b4B*RH;o-*t*
(zQ|yaDDftXM~283@e${Ooo#TCmBvMoMcur8A&pdWF*N*l941MNk)>q`^R&Qf7hO+!AfRHlUdSaB*{p
Ukt8EYMv{yq8A&pdWF*N*l943ucJlme?+zJdA(N3LBS}V*j3gOJGLmE@$w-osBqK>il8hu7N%C$l&(H
QaWRx{bMv{yq8A&pdWF*N*l942{hRGn3K_r7n29XRR`LInCKl`tLVhrL5A{j(7h-47SAd*2OgGdIE3?
dmsGKgdl$sm%?H-EC=#4KNO5$RleBZ()H<Vw=f-b-duILRzzGLmE@$w-osBqK>a=eswY5+X|bZGrnmY
x^x<-wE<gV@Q&bBqK>il8hu7NpdCW+Eacw$-6f_|J=inQCP{WW-^>)Rx=q%GLmE@$w-osBv+Eowa*aQ
gp&*>`8?mf;e-%YGOT3QFd0rVoMhH88A&pdWF*N*l941MNk)>4B$>5K{?<~O^(JNwlR+edNCuG%A{j(
7h-47S)Xt{ZGNplee`VfUdEYhd`QL60#NYkv<-^~-Trvh31(6IQ8ALLOWDv<9l0hVcNCuG%A{j*TZf(
!s^*Ce{L^6nE5Xm5tK_r7n29XRR8ALLOWDv<9l0hVcNZzgP`MVy6WP(TrkqjakL^6nE5Xm5tK_r7n29
XRRnH5WHzcss@z@HzPH7CZ8j2{_4GJa(I$oP@*BjZQLkBlD~KQew~{K)u`@gskJWY(M*KQew~{K)u`@
gw6$#*fVR;u$(JbY$qr(2-fEWY#GeE%NuhcxKIsQ6r;9MvaUb88tF$WYoy0kx?U~Mn;W{8W}Y*tCNft
`TJfxv*^UAkx?U~Mn;W{8W}Y*YGl;NsF6`4qee!Jj2f9WNk)tOeJ`F_bz;=WsF6`4qee!Jj2am=GHPV
h$f%J~Bcnz}jm(-PqeZ@VEwWj4V${f}kx?U~Mn;W{8W}Zm)#%!?0y;8uWa!8&Ofn0Tj28L+-oLZ##Hf
+0M%OkS(2=1dLq~>=3>_IdGIV6<$k36YBSS}Kb&~J<yEmL1LPv&<3>_IdGIV6<$k36YBlcY!cB&h;2p
YcearpAM*>6kO1>~$h;5eKeLPv&<3>_IdGIV6<$k36YBSS}qjtm_cIx=)*=*X-|^1a_BX4ah;Ix=gMj
2am=GHPVh$f%J~Bcnz}jf@%@H8N^s)+8A%^0VJ1W)_|pH8N^s)X1ojQ6r;9MvaUb88tF$WYoy0kx?VF
9LZ>rpZ)y2S$SgA$f%J~Bcnz}jf@%@H8N^s)X1ojQ6r;9MvcrOB%?)szSnG)o)|SUYGl;NsF6`4qee!
Jj2am=GHPVh$f%J~BeVX<Xpz75M`rPfQ6r;9MvaUb88tF$WYoy0kx?U~Mn;WHv1-)FRip2n&-1<KVey
HfBSS}K5t0ET14agn3>X<OGGJuD$SguKi;#>F86z@A<Zu0vS$txw$XJoFB4b6yii{N*D>7DOtjJiAu_
Ckd$QTjZzYTlb%(taM|JxW~MY|wx*YxZsX7_`w-+Lyk$XJoFB4b6yip;7bV?@S?j1l?W&wQBGC&r456
`55>Mu?0M86h%4WQ52Fky&+QWXQ;nks%{PMuz<EXFkm86C*@Mh>Q>!Au>W_gvbby5h5c*W|@(ZAtOUZ
hKvju8S?veMl3%uLS%%<2$2yYBSdDIk-;H@LuQ$gK_P=e289d?85A-o<afWz)+|3UIAn0h;E=%~gF^;
~3=SC_GRuq%3K<kKC}dE`ppZc!?|$C>FF7EOxR7xn<3h%Tj0+hTGAoRX2N@4C9%MYoc#!cR<3Y}L?q>
aoaUtVE#)XUv85c4xWL(IsFfuEQ3<VhqG8AMe$WV}>AZN|eEI=_NWJt)6kRc&MLWYFQ;vz#qhJp+Q84
5BKWGKi`kf9)FKXYtWpcoP|BxFd)kdPrELqcY8k)a?%L56}11sMu56l5sKP>{dxuQMx93<(($G9+Y3$
dHg(SHx!E!;Y)7-^9ijdCV^3-_N%0=Q;OdnEUY`yq4o|lDGx&c3NnV(V)Le{TF`f@xOon`5*t|fBm=r
`QP9F`XB%M|NP(o_V51zP)h>@6aWAK2mtey7DxVo83Y>x005K*001)p003}la4%nWWo~3|axZdaadl;
LbaO9oVPk7yXJvCQV`yP=WMy<OVrgeJaB^>AWpXZXd6iU6Z`(K!z57=T>Wc%o+PI4X+YNe<6+1Q7vJJ
^bk&{77Bbz8i8YGoK{q=qHSF()*?CN9==RMAQGoEhu`bWdj!(>L&Niv${BN|TU$v^Z?Znx8=<&J4?<y
LB;C^03Ibd;K(QYnFRT{l`5!W&D4lB_)y$cZ{<=tN5|fxPD@R%XwZOhx_*C-P_PT_N`TidGu!aI|}44
+jv_!q{WHuq-^6v}q5FZ=Vu2aP3<>we!?VZfNl3%U__lnjTTC6lEdTQO1t#6PHINiP7H5O#_)dck?$Q
M5(YpXd%_s%9=hBD)i(HEn2@b`lKILDY>!2w!yW^GLtive@0<<)S8A0p~-S7-H{$fcoMq&!&u;JQ_89
hp+=XG6RP%XYj^hWVYZ?vJ5)*!tl2`%qS+`}06diiYsVxU?L*A%UYr_-Lh@4~G&Z0=xO+z|aUb4(V(S
p0PtoA~+KI7G=ygx{P(Ql455OA~-I78#>=_wdwctf*Nm3tZckmuRKnS7F7%SQ^HIA!B^}&E#`aW5Ho3
EA>&mQS}oMrKB`FMw1IE`EM@5m(UJw~u3sIo%)7KMW#9c9TkAmZU<I$1u3>c^AiY?S9To@W%(BF>hRW
HpU5TCB3gJRe0wIrG`#VCFTGFBVsztPPwj*$b)MQTij=>rkL7X(yf-Z7x`1qDbH`vTy%a50%l|gI+*h
480>+kv6_h&sJh~Fnw>j3znDu_A&HD)Thq_BnkaPp#?eMV_AWEtc<aJ8XD(AY8nH3`)M$^{W$pZc0jb
s5qa;U(d_;|E|qSlQ(03}RBwu%u#WxSnho@$f8kG*Hp<Ik>p8(~&VF&YJz=n2q~1D@QL9C<lbX-4<Zz
RRoAh{dhJfZWcVVVafT7%ezJC>uv5i`XO?0Wwx%zc-o~GDUs?+HdN;r3j9gFK-uNj*HivnX&(RwYhZ`
SLcV^y8v;kyou{+)iw4yR~cpQNVr^@{4=t5V+}-{}1b-@m?VMejEPi>>GpyvW+JU!R(|)}rR$<yrQP)
$}1e@S*byP)h>@6aWAK2mtey7DsuqS6MRz0077d001)p003}la4%nWWo~3|axZdaadl;LbaO9oVPk7y
XJvCQV`yP=WMy<OV`yP=WMy<^V{|TXd6ib%j@vd6eb-k^9R##nTYCZWB0vvCw`l?dL6B}9g3UrpOCy_
Di4;i6j<MK(?+hvV(!HSdgDr7}hcjnp4*lkrv)<XWrP61pH_+|;+UR65nIwOgR&^e>YgMkn%X@TSG=j
0v8jDb?2BDLF?Lg`ZEOy3vb^*UeWuZckrN=5kU7AYil}nO8f6BINFw2qz=<^oJwY1R@oM|y&@`E7^%W
uJNG-a?=x-wh0xVU_GNiTj4rO~yj=nRDO^xfWl50HU$rBY9vFVgcQ`B;NCV-l28XU&G})f|)`QdX3c(
p~SNwx$K=DU~z{1SMgmDC*w#7K;K@%N&4QI@9zXi}*e#SfxF=>C!8s=g@0Klwi>)k5)EB%(&C8I%yq_
?{4SfA<B&4rb9iPJdih9ieiJ-(E&wqVo&Kfw#X(jO$8iwd>ai{gCR+h3TrBz3$<q~Q%@VE(ak~27IP5
@5VI^W%`EWmS0n~BNTP>QT@3(Bexy1utxLJ2(vGbFrY7f5Z90?@8s$8%MgW(_2FZvG*+K{)gKL5ckKh
fgC~?L<f=uHczw2<^@{tMVlL>mc^XQIYIiU<b(>I%kXsAb;21B8EHQ*fK#yu3}N&Y?LPsyClf~_V@Mx
ibmq6*7lTUsMlf#2xcr)6Ut4m&NnzVQUzr|~hYs(LWoh%t9@d%(1@6yo9hF@uMT$0v>daQP@w3aXWU%
Gu1Hft&B){?}&&I-DkMV=CA<d?7{}z_{-us@c$rtyFqSW3kCUllTm6Cxi&UA4qr_YKPLaEo)GqnVkC;
wU4qyZ9?s`=ANReNlSus+FOjB!Kb19_M7J<8%(w9uvE3eY7n;ZtOcKyKBb8ig#(?#-5m{Y%IG&2+3np
OC<nbG9HpH{SsgcPjNxbmPO^Lhe^IYLpJQ+cl3}S&M)^p8AM9U(Wx5aZXt49i^?#N0Q$2?t&o{?j<|l
{li3Oz@EXqbYmp=*c3TsKFcOS6n-jB|Q{oF{6Dt)mImA1K{Rx!;6#q22aR900nQZf}mt;NeNyr#2q@t
$+tu4&p160)Tg(>F}=J+jDf&bH-Bzk<glJY>eW*R(Pfb}448ns()K@#`x9RU{$5;f@LVdizRxi^U-Gf
_gOQR4(=_FP<@Y<l^m=)Oa;>K*P76xTC9M7LVqrsiTGn!Vkyb!Ys~`y|UFTYivjZ?S~ns*{M_IsGz&)
EIWxST!+)ichiSU*Y;X7`$zu;$WFRV$!)ONrSOHS?qCAHJ(J$#kL$0W7FXc6io{LEOCd~pykwS*)c0{
}sGv@*v}}UU3vft{PaAipxAERjd8X+Vwo?1hJaZ2DINTSY77O<Np(pb&S@}?2w05?4k6irg!mVjT8dQ
*FkeDnAexrXFc@Cl|SQLvwL{@`B&XRusP)h>@6aWAK2mtey7DxDy!T=5l000Uk0021v003}la4%nWWo
~3|axZdaadl;LbaO9oVPk7yXJvCQV`yP=WMy<OV`yP=WNCABa%p09bZKvHE^vA6SZ!|_NfQ3fuc(W4I
=ICc9OpK6){y{Xhs4GfFN%Dt2n{n0bTUkno+gC-_4`y0FEh;8m}I5(Nrx=M^i)?>S3ULC2M5_7sx_{f
ExK;j8?8=*YS*{*5A*=-LGFOMV?noCj%48YR9BuL8PbjVL;Ajh=gDLiNY^n+lj}<n7;-^V%B{9G18F3
7UWjkPS5u)$4asEi1bs`G&~>IF##X8z#G{@nZ6Cmx?v#$!T`e3VJQ^%4$FwL%Gq33aqQ-{u^#WB+PhW
#YCV7dfzE5qY4XG_cp}z?)I!RpxM$5qr$IOR?GprEZIQk3SNq?l}gboQB8ZwIR7G|u1<@sSMUk<dR7i
_hm7J@=GG;=8Sh8Ai@t`m?Jo(v=QFoYo|@Q#$m{)zJBaKTHnz{7D^Ya{d|T-ord)uU?>LQ}dDfzUY3-
E81X7n`r8D}qpv6VjB|!tusZm#j!<sR&&vu(#HILqg&`%l;;Gh!r|6RaVlL9E${B=N-fP!<$pySb)+C
^5G4=+F8mp!RDkM$-uH5!}j<AhB)XPu%dyWSty1xzX%SXrH{?-yW3uus;ztaSZ%kft?vCB(8AJq3;#u
&<YWp6dW2JHCol^r4hA=kcKsc8RBO%aX7`@8zif6}jZTLyZ`)L*yK1}JtoN>~ZMy5V?`}Jd5>ZEpm5J
GySw>!)cnFpg1xtFuIMNTJqu;~5Ar$mI8av+v-0TVoM3I9KnJ)J7p|66GJukLw4El!TkOF0jG}jW?0s
2zj1(%I~ivYb_D$=V8h@9Yy4;OT>{ZbCW`qEcQ7pbN~!=yJ=>@6QxD&@n<%W{RN*TKp|A8NENo|se)a
=D>a6Do<BYvu@wuk1MvpM0ZN?|!V09o<zp#n)R6*cZvJ_Tj+mM!(biZ=;x_2R=*6`@3endfmThcDn6m
t=Dbdw)*WVz6u-3U-Y)*5A7_;AKFiq%#=GNj|RstE5`}ZS2bQr$&QwvBz#S~Q~W@VUL}Oru#gg6YhJy
2ir|QDr_j$bOvrrS?4(3u?FkYs)lPY?noK#JMB?V!nf8_Ta=Aw9ws-Zee^KpL``vf#M(5q_^#z?%rF?
vn>-5@<{(Yl^=W^-vG<t5`+Q)JwchhV&Z+bWB%`bDgoa;Lw$`sCYvC40VwkoRIB9!5oJ&Y%Y)bC3aoq
j(b3V&EQTOSfh%9&0jV%#_b-v;tX7_JvzXCiQsE7(Y6Pv=6)@;M(7sY#5{l`z(#`9fj6%F;^x$(GHbd
rJjko2ttibmSjm`JS2DN8~GKppeL{jxmuo$K#LlS`Zp!Ui#+vGePsQbjSFur3fSCeJ2>roRK}@>US~5
3TfZg1=sQ28OjNp1Wbq0gBe7WmSf~&W2R?ENAvl-G>JNrlG3B2saBtbYr-QL82_jjNG?f^&*u+?xex{
~xk8Q2#E)^~G(MbZE`ZBSUP>8fF-2G6$GzO<%$jLSjTXY>3%RxXqlGQszj*P&uA_o7TsRh7U%<y)QDI
FZKoQfjIgDz+(04{`b>0eVcJ&OE*;}2>)>`%+nhCa`>(6XCA3I@;*Fd0hP8=@<f(zbyPM3}!rU9bN(v
}<>7680rf$6yD078PZP;>B8cnO>c3TBf*)C0!I=VQfHbPMfV=TH~9H3(3#j<@w-Ag|Tf7<nj!XKh?0r
#9pNOmr=Rq|KR(5xdeNs;*xGH4h**7@2Y0?5MLVHgtYY$7hNBbU<^2N8m4jTXX@45_BcUhl7Oy?l%&E
Ywno57<iUWmtlgRT85`RC}O;C7xH|ZO;8KC<}7pDVI{72wE7k{N>Zo2`3o}P*16W6KtM|`@p8@jw^Zg
hOJ#2m!-MqpfmHOn<@71NFVo#t&$YkVKARMg8C_<kgIF4&fx~GA))(L53(hfUkDO$fL1Q@8lV0#Ivuf
RJNT&SBNe_&p`Gn9`B~#i`d>}?3usp&!I_#Kb(w_K@0}I(Gb#%PQE<{PwEoClCSnhFQ|2R*{+2RIF<x
{F0Q9hq$c9`N-NIUi4yV7Z)unjea*{VXPVX{20&c*B=C_MpaQMh8B&$CYzyL8TF3V9Q=Mx|W-CxtUDH
d5mTgv1!yl<A8=%|_!sV<uh5n})*$O*uU7B7O1P12Jm^VZ7muyyj_V9?Q+87?(>Pr=xPU$>}HzLZd7p
YfL!3au&6`BxhXKX<Praf8J7N6O;_6DBWywXySk$*@E_f$jcs@l~^KQ2NsVZYBk_<HSjpf*vr8v9vnQ
}!2+nyCaP*%v}`74Su~1-!YsHo@L34!7&n>iLhw$_Lz>KdBd5@9#m-L5PNMw?$DFIV&aDeijGOIoO56
5CW?eOVcGAe|_VN$4frZ_D;6qzW$ql<3yR13tu|{uu!rG(n*)?+Q0WEI8Fqs{8Kdv2D<SfjNlD3@)O`
@Y98cH1+A}+O2>OG_KclU%25Ai(|3EEHqYTg#DQ^}wWR8;Vylpdf}0OA;ZC5+4H$j~#nV+rV>or>Blz
Q0&AuuAo9qkg^~KWzE_z5J;V&&DxIuF&7>Cz*--^aMFGA0s}rv<3QQi+$x&!M>|*3VFIu$OQ9;_Hzbv
YBb*g=ETsxADADV;(q|lAKE_$=0W*?70k8r)4^OT|7Bo~?n0g|nlo>E9)ol09%v6d@4Oe<6VMUArviE
pJpT=FE-r;Wi0xt;k8!x?(|9k~aXTO9Yu{8Wg?&RI&f^DyfUotQZ3txCIX)HuTep#Wz<<a6<euQ?yVI
Y`<<1_B$;mQKeic-F_OY-X3e~MX#txpTpm=bQtGxO(BQUBb*@1z@|GZ4FN=L{KGCwKr6?L8W&Caupy7
aC4V?md^kKZHa9>1dBGvvb0v6=9PLhki4Zcc|bjKm(@)FuLpwC1FqX#}RK(d){x8pU4lz0&v7%dKLxx
;L!6ew`5*;1i31EJ=;>1Ckp1Notf4fiEkMU2$$gZkuKF{b&SlCn0w2<<2YArAYfGJ}|w%`+ubWg^|vq
()+ugEU$m_sPvQ}DOUd;8;@e;?cu@5d0J2SCs0cR1QY-O00;o{l@>=iiKU-(1ONcf4gdf<0001RX>c!
Jc4cm4Z*nhkWpQ<7b98eraA9L>VP|D?FJow7a%5$6FJow7a&u*LXL4_KaBy;OVr6nJaCyyE-*4JT5Ps
*c7zsrImH42ilP*p302ESGAP9)6sCPn(Jr1jyU2Aup$oJRZtZgu0yMcQ;KjGP#Z@>BGhpE@gALtDpMp
GD%`h)3W0KM^J{~J{J)@yZGZV(<7f8l}!(3c(p*D#U)@E~CHzTHNGyUa)hZop9(aLLD^z$|toxZxD~1
z$0cAu5nQm=aL(pQ6z&3-JJ#OQGpig;FIi7I`LBYIhYfgC4Bo1hIG(Qx+?X>8g!^M!yN2+uJ`0qSW1i
ZV<rS`f8Y?M)itbmP%g=qxd?aL>s#Ki7WsUrhdYV2QP|m;RcAJ0V81+n~fB;R6G(Z;A_QHY<2S$B53K
GH)3`Nv5dfF0u*{&r|_hN0VcfPq@wt(^tc~eQzSgf$I>>awt6Sx!}JNpsEH~(pg=|G%%XL`T?!s^7ll
S(8bWK+n_Q})C9=qfz)%u=BJUj_r*nJvD=JME_~>+Yw`GVeplUamvHYo=p$%*j=@<ekhuTH%o8VZ3JX
H_4NN_i#KK&p>%Jhvo3)TpcMn4K#gh0OVeYE`g__T!X^clW)=kxA#`FuydBsHB<1ydxx4XFz~ptKYdC
MM<tFd5AIUn!#78;wWHXG?!LT22Rx1q>hO(1lrdz8v+R#@#v0p60X1#lQhrAnr7_YL=<I*Vre>tt2Tu
G>iv2%l(-OtchXZ!G^se71~8kO$Cg`B#bYrVj#s!k}!qjirxYDK}gerH^r%YsQ(J}C6v6vE$VyMX~7>
Ia$@3VKs8uU_>lVqJq)B&E$B&Ytm~vpvF(qYPWz_wd%FYhv>;2>1B2<8GZ#y}R`ZqIf@3RY=f<UZHdH
ZP%M3c!nTxw&N}~ytT$4cAai5F}G_%B5tJU0qX}z;PC>e$6QRB#w2AAfRisZv;#cBRmtA@tF&+PU&@^
_BC_D=TAS#7(np=wT}E!;!<^e{!xboArz)3Y9G^AJ(RQz!D7N`bXKIYrCI{F>Q;%XzeHi|#ZOCnWPr>
_Z)uIv$(t6CPgPtU6{10lIyuA}lx+Sbn&N&ZP>ypjl;&u@Y>Hr(&g3QGs@xSK^c4N#S!3g^MStT>xeu
g(gxWC0wt_zL?)}MSisNrpfTiBb|a0&0HlP(MyzR0qaGF`drivHu<WKAkhpLCuKg0$=cz}P;E$yEHI&
;5HBr<IiHP1z0a47gULc1l^|5sC*@RC?0pl_1?IGWFesxim1a_+%IORZS)k7tqMO4ZI?Vjk@iQ%j;;j
dm3!4EHsg}mPmwwgx@gV1ecQVFFH&lY3UD%98+qu2n+s`h_KDeC=yr%Y`zl6Tsuuft1S1hlc*Z*Pm$S
co!<>5Mdsc4E=JKE5nPvs>4FdAXy+9?Y!JRjgX;g=HoOI#P@O4D-vd@sDWtl!V9kk$2-h8&Wvy3)iAu
HH|oT96izZWhSxTjw(!7nvP&mh1oL?R3ExD{t@9q1{o*KVnF$=+p5x?Sk)Fz2w?oebf#s{4Y>T0|XQR
000O8^OY7y_!;PfTLS<9ZU+DWHUIzsaA|NaUv_0~WN&gWa%FLKWpi|MFK}UFYhh<)b1!3PVRB?;bT4C
QVRCb2bZ~NSVr6nJaCx0n?{6A85dF?yF;YGRbg&0GRVOv-2OyB5BY;>?m0nLP@9r#EH8!%nNw<IfJ@X
?}2}rqH2?>v9-n@C^nX9YwAN2<JqX~^i{lO$2P;Wf#|3w#kuWDDcSTjwnTuChy^-azs9X*(zQYk@8Eu
Yvr++=HE9ec{zbLNeu46ae_h%nO9OSs+f6DzZ2OQs-y1{(eo_AV1!hH0}YwakQ<Mmrqs*4W(vz%(;<Z
_g|X&pD;l4)JX&VFT8-LaMc=dcQ$8?REzcXWb*}Dn;|)>uAo7?GxwwO8Q27E7KD7)m`HwEJP2&ey5pK
D=RnDA~5vi4b3XQHhSj~uPgk7GU495)VovYAP^)~GPS~1LEXYKlQV^X2J>60Oi7v0WI2~^pC3wj5<36
gSj2BkE{iIdN}Z$LP?l%AaYvEwCrcW$Ln(C6nk~}L%2de=!DE@Rc1*(2HrU+yB;_y=i4R0*XaK*H|CU
(dKI9JVhlOsU&N15ov58u#E_~pRc5g#q1EecbXqP=kMrS2BRhpC3JJ>avgFgU7q0e}Jlroi$i&8a#0A
KntT6~@^7u20R(wFXh-kmHSZ{dqp;1&(uBgxHHNdTiNE3~gb8~_i4dH*vay1mhOw0I2choi-05XUr}&
Z$eY?tC%oFUQ?E&6e}oG#*4~F7r|1Am%xdUnDL7xiL@@Ln5Sd`_doLUI&6Ir?q%uv^ir;RZapgWLy2G
9x9_(yLu6F67-g2LE88xJzI&lgXj6CyFfYhw~499q9%Rlz)9%u3N45cK9mKZhsqe+q@Hm;xIT0d+rH^
^+O5tX?GDj0hUL;ngUQ`Hm(NwLR#*&86dD%BD#NsUG|bfw2GFk6G9?_A1NKkMer8R|_G1lW2bBv-5{d
avlDcD6H1_uJZ4py@@v@k5|Jo%Sqhu3%yjJ>jN*?juZpTTzIw7psCx;c7XtCkfV3vJpHBF4>Q&7R2?;
M*XdgWz$0o(-|7f^p?`ihd#h0IxJmqOc7`xib^VK9?5R$r1rHKSE^o?kdZ6U&h+(|USc|NGmIcDwcM$
DhN08oymPDZQraL)7b(!T2WUVMY_ytFVF+#U5t&-t67hSJC?U|5Lv&FV@ubZh98<Ur<W}1QY-O00;o{
l@>?9*$_0~0{{RH2><{)0001RX>c!Jc4cm4Z*nhkWpQ<7b98eraA9L>VP|D?FJow7a%5$6FJo_HX>Mn
8bYXO5ZDC_*X>MgMaCwzg+m0GJ5Pjz>O5$N)L)anFN}Czw0SHV`xQUA*6pfJSt_CY^8`)-9_Ure!ySZ
eBNwR*T>vDYRRFx^0uODi49(qIS_u8G|v_q}_sQrari7l7PG}|zZtXxYi6tzvvBps#ZU#XO+8@r|mwt
DFp+SAfYM1JBYR%XkVOhWz&2I7b8T_m;)Q=0CyjD(j)JAB%$vDpWJX>4q6k1Pw%F|7_6;>)Xq4OrU)u
G)C2w5!zk@ZoPjTn(>NQz@E+SVt3fY@ayJD`^|;tz7NAu@zUngN0}y>~|VVwYD;)w*-csyrJ>IZ;USL
"%text.

(** Lines 13065 to 13214. *)
Definition DATA_86 : text := "hcrsAtgwfmQev6OnZ)lw?4Ay0N0HEEIhHPmhY+5Gj{h_k`KgIzatNlKj!{lv?b)X8sNutKPJMP@N)N2
rqMGq;rDTNUzKmEqCgErsY;JQ_svC$*3nJ7tfX~#uCzkMsyPw!PSm<57alEZStdX%)5kBxoH@6|N3ep
Es=!QLJ)~`x%t~4g8GuREZ#}5Fa&^^Y8R!lp`$xhXPfLQw4n|&V5XVe@n=xcK_X%1(Ld&EL%c+tNcNv
2yR0gS4w(Eb4802p*8?a#<)wtD^EY!TRZd$VC@I;HMtLQNVsC$nCA-fvE5JfDn5(@vde%6ybKh<Q!ql
f(%iQv)Sq_ChL`m%c!I9SEwJHsXoV=7=RGiUd|<d-z{HR7S6}dXaJ#^qyow+V~pnt;FnL`d)MwDChpx
F!WKqMt?OBB=mQM7EF=el?kA`${1UtmT^9W4w}fleb;E*zHPj}Z4k|;u)KDtGyL?Mk4U*xN~}q#9$|?
+8s$Rg!us&k3+qqbbQ^{uckQj%E{%;#rBbAX3y(r9^%@DD2O`=?&37eiC3=w1aw)Og%Vou}N^0cNYVH
dsnCi=PfLBM+NBEw5+B<7m`_{qp*f@mTz7o;i2;0Z#y@;@QJA9>DI`PR3!S|9#0hSd4s6v8Ms^)+E(g
kNxOmqQJ&PI<>J~kWad!{vqJ;K`<M7jvXq+q?mBP6Z!S$HkP3*}6flmRH#YrnZj8!z5}xg*iqB_UVjQ
CMLXDReayWoC_C#u#A~i;xpS_-L!3;-&82ZZdi^u~K~V`0d!+N>qJ3WrFZkg^m)PRrtN${j7h_xaIaE
yP|~0OVz`G2K!ARba=BV>r$3gyX-{hVD391L?Dni6_;18mHEdty}Ba8AJEO?4>g_7o1@y*U(DE#&}Z5
x_RQ?@7klyMBQ;JTmi^A^YuBA88G0<E+_MZ4W7eLp#8sH0P0xU`?a!Gm(|rGbj#gBwMT$C0{{c`-0|X
QR000O8^OY7yAp6}pQ33z}g#-WqF8}}laA|NaUv_0~WN&gWa%FLKWpi|MFK}UFYhh<)b1!3PVRB?;bT
4CXZE#_9E^v93Q%!H$KoGtAS3HReNDhTWy_EJ~s7b66K(<lDDO%g(dR4P)?Jh+A_Z{;QDkZ7fz1TZ5@
9mqfUhn;bX?Pzkv502jG6^wVtY$y(L2S?KVWyQcGTS?C`gZVzEkGm`+f5;Cu5p7#8waPcZe697*P+r%
TGTQ#!nEMu(h$Mw(!B^n6SR7doJkB7(w^uE(m|-=lQxXs=|YxmXWFZR3|vKUWOf$1JYMdX8!X6L_T7^
rBWkSoSuJx0FJw;25`;z5*=$7xvi69ZcS4f05X?2x3n#UjfF%37w-012TW~uZUtT*i`p^b_;X3^Wy6J
!e7Tuy2tnPvwzFUH8rUj%r(pI|Rv??a#L|<fGBO~lBmHXOf29Cv3ls>FBDT3t|PeB|9%XB;8SgtgC=|
CqYxoc|4#GI88%C#(<2_D0E_P~f>8ZDx9+o_*N=`u_b%vUi2tb;g>W}8J2W4(#jt0Wu(3DKp*T`}J)@
@t7prrc?+WI;~I+MZJ1a(gWctP51)K-}h><bmZ0<hp79tB18#Kacq`<XX@PWC^96j~63(c6j>UbeCDK
{q+&4eCXrzn1h7+RdWjxhR<cm)bm<v<729=>p~v`#*S{s<I&CdZZrlq30poo2$$dgai4mg$DQid#kSV
tOWFMl&vWxERjKh6{W~8cUNzn{WWv%j4-USe&mW)nLFT%kfk(Baw=r4k$ok;hfcXn5xj>?M=4I`RGv(
hN?KY5yRVwR*%Be5>SN1cyJBHleD4a--)~lF5{KESUP)h>@6aWAK2mtey7DxP5z|Xb<001`y001%o00
3}la4%nWWo~3|axZdaadl;LbaO9oVPk7yXJvCQV`yP=WMy<OV{dMAbYX6Eb1rasl~loQ;xG`s^A#g;X
(h@6s~&dI9#R_GXd$2^sNz(aWB{wiMz(2{{rY_l&>l*q-AIw*@tZd@@7Za$FF$k_KO`wll2M%IG2KmO
qu=xew%uw|v1OWBxsh5Z8kveoI+~h4QYk?TEnnF>?37z!9eb+SbLowx63}kz%#dj5C1Cgb%F687l3A0
#Kn;A#-j!m{2<>(UElc60(GE+yH?~=TnC8YF<E3TcxuR9wFn%s2Y~b40D7E!;HM*ujuh$2~MR=DYr6>
znM;SY|uUs7`85!-ZTpcjqmAn3l2+>s77n)18v2sT@gbqD<L-X2ijcyS6w#F-z3H#=K-bSI5K#)|)l@
+!Q>aHy_IkWa}=zK`EIZ!DyS+1lz)`wD_gs#3Bi~OCb<hl-_gRU@d7|XNWxwFU*>4GNgFbX}eW{dLk!
%E2#$rD+!c1*(2KE&MiL&|YzBtJDmV*~m|{vol%eyAPnM}!95{<+$Tv4dIZO8C$}?B0jOYcySxf?f8U
8LYgZ!N;f-N!{>n;SN5)h)LgY{%FN?aJ)XK4j6!?r=)nCEeeX#B|Sx17Nx~<2rRt7E*w5G$=zN_5MwM
Ww6D=Q2&Qp1dPGKamrRmk8QLEwMH=Thjb|A}G>@_(87(GJM)O5BpXG5E?lPY>4r*Rf`Ca2RD0c=@;+6
=h+-deD40h;HRkRha45LfNy{bsyjO^?Ga#0z*X$D5hhoVE0YtqJd=*>!;9vsk5{(|Mh;STOa+3nD6A0
VM$6g<e0K9*}xkCidDLwCmc0G&q2?G5_<-cA2|uTQkd5&7z&IKBVJ-%q>MdaihN*w8QPwOV}N{9L3yu
DNM9@mTa*oEkr6d=7xiy|Dg>iLHg`4I=UGjL08nSut7^&&6XFV==i8=<bi()?ZLd0|XQR000O8^OY7y
s|F^<OalM__67g|GynhqaA|NaUv_0~WN&gWa%FLKWpi|MFK}UFYhh<)b1!3PVRB?;bT4CYIW#$Na&KZ
~axQRrl~mhq+c*$?_g4(+7YA_ExVsB%8uUR{?9_;FkZcrrGH7XJ6QxLlq!OrKzekoYY2pA|K1p*qJac
9^?e^tE{lUX%O5;&9m?i`2k7v;%eGuDjwP~?snpwG#S}2N4#v~mT=9g4T1jcSCg)L|uLq}SAiO73?W@
UD4$>iiOU?6_V-lby4Fcn3qWh%Th+TqvkjNShLnC8Yd_SCZQoYA`4Bfh^%*cxkB;i|2tPIN`R+uMHua
WOogP$`P*SVu8Cw$Ge3l|)8+E7zqrw&Sk8!a_6=_9xAy+E`i8HG!cgZ)jfmt<i`2A&ru2D{NJ(lv`$U
CigEOc1M*dDHWP5XVNwB5W<tt*=J*sUzkkhRc$JDhH`4wo^9cd8a_;yG-d~;^uU@es+pH-B~v7iWy;z
y2}iry=C)_0hBcAoK!k<{@OyRdh$Z~>-Op?tEc7Ml9dA1zcF9=k2w(F@H+Oa76-Za4&<%Uc3@%D=t~4
X5_pn=Nj}HK%&=-smt(i*4d8xWUKrH<jExyl|3ks)C^dpSpaJqQ9LoAer7yWCHWU*5cz^KX!?JE!mz+
@0d-;ojaN8{1rsb)VMEvADcq2Vm1kmg~$7)8r*7}I<i&u7UXAWE2z64zp068R)?4#>hl$&9^_$~C1wp
}h_SRYqI!%xH7U5)(xNPh?m9Q4f{Tn|-}VISYD6GAC_(mtL&I>|pxdbr&e-{&q3+Y0#yAdI%Ewr$P%7
qz`2d=%F&kcByZiuR|vxa&Nx$dN<d-zixU&%LJB>4h^RF|8t47Tdmxhf`Ve5ZiRL1ch;;?Kl)ccqDiT
|>{p&6coX*Xz4wrV?IQKYd5l^i(yi2dOpErOr1nf2&oKosr@5<V`j9YKMvw9RD@TZRR5`4o6FujO6a4
)4@7rWD!M0MZRx4G)xyIP=>s+RdWr1CR$;fH7l2|#bRmZW)5BB<8P7HnzKSkGn!Kye^JE3nE3h%rodr
rlMoh=4m8`kw}6y!=QK6Id-M(A<<7<aLu_G9#$WQRds^DD6CVEz!A=WJQ~;4RH}^8P}fzkMuy=S`s&Y
uLkh5^=+Rb(or!76rc*)3PtErce7CKehe?P)h>@6aWAK2mtey7DuKn(m8Pi0046g001%o003}la4%nW
Wo~3|axZdaadl;LbaO9oVPk7yXJvCQV`yP=WMy<OWpiV2a&KZ~axQRrl~!GE>NpU6=U0r>7m#QcdbQG
RyM3S(TDA}np}Oj>R>&k1ux?^UwrMZ>>vx<l2!w8%Co(>BJagtFTwK&Ya6fn)xiB8}2d+1O`|-5@3}>
(xjSE<85T=T+xnL3WWq`mn#PVMrMa+?E4L;eNMgbiOZa5(y@C_rGpaL0!so@~Ji$?n_K{CbhR&bvgE`
_F7l}MGo5HZZ8%Iv;EW-x%&E@eEuiYd#L?C7eEfo8u2-RtY`L{STOpch3jw^$8x)TrJt$TI0mVH96&j
Z{tDx*-d|gsGn}<I!627%qV#G+-pmc4i|*o<B(w@s(m~XH^OnB4`<!cM9wlc5(|o6QD5QI-@5c3@{P=
CKdU|GT`CPnzkaKbZpcHRjdmQAKe!iqozpV5d|vBX0}~L+$ZNT_fcpBrXjI5z1b@@w1IeeATX3fpQ?K
c$m!hP{f0`D1+JWKaa+#V2C1OQjE$eFnOMgb1-*las-X%`r&fY}rU7t~(r!q5`ay)0=sUF$tPr*u!)?
?i2ExLR(c)?PvVflZ3O{=DdCy(E-V&CSrc<h4#>C?!;zUeYDJIO00w;pWVBUWskKX-gJX*Zk=!c_)JM
cUhPUp~rS#Q1=^<T!lIm}+>v#B?506fG(Vk>5y$fd*~QO1&#4A3wh=`8hEDzByhqX0JS4XMmNa_T5xG
$P6FOErw7Sf}}t%U;l1;2{WU+VHM8^$vC4Np*>3U*9%0z3;T)_b!2$_!&_NJaQlMkf?`|l&TH)QX31M
^vJh!)$MjJyWcupfESM}=N=fi51(8j7mY@!WDJfin4KD*hS^ZTbZ$rO>$o^<KK<oQCbT0Wir$-Eb*`@
Z?y=?1Sz&2F&6A^^=Q*mCU*vC?(r6MTS0sOaVV{g1nptWrfHa9>O+gxrnZMxzOLThT*^^0jQo6*6?dc
5mu2`~^Drhtse#Eqff%YpGH7jqlVr<+2hOk_6T2#wrQ)3k7cKcNDP8C&x?3=TU^B^a12Y*)tI*ooWcd
Pw>(BpD^+M_Jjr#%izSAhSiW~pdln`Wy~3YQr^RP6v#BJ42xg<dotM-tvt0?y{I#NV8BAGNmOVvCKcF
@rnIH?$F`DhqWEQlxcM(O&AARy0D<JPPsz{(uI3+PVF#;mOOD)TyObYc$Jz7?y&?cr2SjvsK~@+YyZv
ArDaaCnO|RJwa8r{H~63eO=ly(s%~d>Fn<h5rg#BHn98c;oWIfZ8@#I%0z!CUcWuxq$l<h#po+Z%hY~
Dc5V7xTR*Z2@}^a3%bg)ABwy;9T#S!9C+mWm?y2$48|jNA{(jo1AxbWRzsxdSb<JXHHT_nrE`|!j-F}
ZdI8aKebMYK^|Bz96Yq7`Oet8GoTHwC7O6(tZ(5a8$fO(&N8M-UYq&^z^98Q95_e`i$buju+pOMj%Gx
a(jS^6O#nUB0q2fdU#8&3O@1-;C_WX+bH0YU%5lJB+D=TffS4u^pM08mQ<1QY-O00;o{l@>?VNd3&o1
pok_9smF?0001RX>c!Jc4cm4Z*nhkWpQ<7b98eraA9L>VP|D?FJow7a%5$6FJ*IMb8RkgdF_~OZ{kJ}
$KUfQMwb_tNSI=q$BX)caFCEA1Od@0_oiCxb+FFZbZv5?Rlj>@`~a8?1lntRssf1|cIG!byX%>M%-I?
Lf~(GTZvg#XyE7Pf;HrP${sen`&kAQSnMt@;?vv{a588n(!3|*^{N{R|C<W>XEF3EpGS{B(MlO1Ol+V
%&7E(drK*YpA|ACA`ODrS~&F4$swM66weuy8{B2e)M3=G3SCF7QoB9b;tS8>FbQwc?}7Au@;7QuP@0`
z9HfgxD;60|%IM&uj9NQP29OFLOfJMbgrPM1-j&clljI0A4d)K?g~-jj0YpaEtWK@`An70m)aT|aJ(=
T4PSE7~PTNeN-#MBgy6OIQU<u!Ijv+HRPH$Bl?U`1VhMLVh0DuCt<{rElYMDC<b7d6@0t_22>eGQ>>b
TKZDqYKF_H=UNE&T}%3*1QEi5#=_ZVr@EBLI86k)0fvuv_Y$OwcAEQHst`xODCya3X~ZG~3eH7D`QvF
W2)w|gSK#4ksEjPJTd-NF4Xz)Do#Ec&9~cl9`VDU*m`YfN(ph>%jDWuIxi`7Ff0#gP@Cct<qfu)xdAv
kl+-bDp`6ZFu`NDHCFs@1oKU!hp7~rlmYTqEyy6W|NlSj(F+nWqJ<1uvaN6>;{Yc%P#ANs8k3?D|r`*
EiPFqSggV%kh@lh<49V90rZJ88>ExL%kn{Sl8h!~{JXX5v}mF<a8bI|>Ar$YOQU8G3>L6t5SN&4ylr>
wq6bMfj#%ym#>KdvUrLWplnoyy>k{5vn>m3ID5yM=(ab>pB>^>ji--!c`DP<a*aawruEnS<}t34)8F>
k$o@d3_c#&M9vBYM+I{zSy;po9#lvtN97~Okx-bA>?lR4$X*oQ$wJ}g%P*D}!q0GC(2M2V8vv6mWBrx
ug)(Prkj-IjI&pf&>3JJ*I?oxz8T@<(aR$$s#F;#25@+&Ug}4gORfwzbT$Q*g&sB-5@?4F$8qd{;tMO
c&xO&D_@V8ntG8=Jq2hT76CR>BJMxD12*WkG(aZR3U64&H8L7d<@L7d>ZDREPtn-VwWIg2=p=PcqZp0
kOwdCn%z<~d26<T**4<T-~phvyvP9H(#*S7R8(#hBJ>R<86ii`iiQlDMQ7Dp?H+Hb1&^iEE#~P+4nO)
H}vJpPN6<t+JV)np(XOk5+T}*K(h#xyv@+(6Bk=N7GOFOWwBTjk0Fc*L<2kyK&rw+KgtThtZx1)tCN6
Og%}bg7udBiJiuGcld9XhxXs!Tb>BR*!}$nNLp(#NhNzFE?r^a|2ybY+cjg?j^tK^FnSSSE2-FLJIh^
XU(Ctr-OU&6`bslQ-FWv$q0k%O8)d_257xck_@R2g`49E}%KxDE@7U7bZxr+I?cUGY(%#S6vfj_y(%#
S6vfj_y(%#S6vfj_y(%#S6vfj_y(%#S6vfj_y(%#S6vfj_y(%#S6vfj_yHobpSlz9ordOz2D_q4E70y
up*;<A>2qeWv^LJ|q!eYhEU2{@=-2lL;Ofa;F+9JT&L0{;5^W?3^|kzh7jc7A3<GxPVvYf7{&No#1YG
UfXJj%4sU)!gHildJ7Jcwf}Kc(Lo-gJx2Oj7E^w9&BmZ?eJtR%WCj@X<41oGLwn<ceSjRDp`ZovL-$m
ylL5+mi-7?hDG_Ewd_<$+oNSCJPsYwveyM}N6S)4Izj|@v}`|7+nqS~>9Cf)z8i<N>?kdawd`aOT%Ui
XtYKf<zNe1X!kir54qubQL_&^|L%n>09>!I0k{;&Qc&r}Y4!891)962cwllYEn`gVqi<sZ%*{+(iy*=
B#>EVy3hgg)S>*2ru_1-}}O7-x-{D(yDsAs#wU(dyQxV@)Gd`q|XeN6+Bwt18W?0$83NCM)6KS=`e%Q
{v9K8;8M@YeIhSK0Uge(<X({0UG?0|XQR000O8^OY7ytbDvh3k3iGUJd{NGynhqaA|NaUv_0~WN&gWa
%FLKWpi|MFK}UFYhh<)b1!3PVRB?;bT4IfV`^}4a&KZ~axQRrrB-ck+DH)o&aW6XA8K^e2dyey6XhgA
NJ9$*@uDi~MQE|duvdE*?XHu!zy4<Z!i#O%^tzv5UY?nGW_H$RXY~iJ`X2{l7!G><@vIM5!@J&RIAMF
%ID`2H;ZE^27c7LH^bxp*NPg#G$Xuz`;E~L26s7~g4JXTMe8f<0QGpD=)L@YP7>)MW7D*IEvEUvvTnb
Hp)mEzX4*|nOs!Z-FWCnd$B`IPx6jK&!n^35Y0jJl5&W8_w5k#%I3*9h;skPNGMUCna{j8Fn6h`q?Y@
~8@^PD6ABc{H=gokUzBX|Rpp#dXdl9-JYdHqC9$XAM~#Ih79M9?xYPn6gNBr*n%2~g;Boxu|k2AJ^wl
#2W#>GL45qFDG;j?LPjigdx@$MFJ&s3}wUhyoQ=Gl^Fr_sDt3Jro*&Y1mqs-t3vWv5Cy`MBqjee9G<x
ASb<z{fJ7F1m3!xB3h2v0;#}Z#^z7m+*-#bC7nP>-B5+6TT8*dQXjZTVK>A*{UAUp^ohm@RtT}iAP!r
EK(_E@Fu%Q9%%MBJhcDgfv^$>PUyv;^O<L+-hQy<7$O)LLQcReH5+{IBf7-hxkM7lAIGEqt>~9A1aep
?0o4YA=VbYz>2ff9xJB7(&I=P$mU4R*4L9r#Xj^rK10YOHRnDo&w9_p<0dup$y1VbM->=CKW9&(x}V0
1;c$uIRVlwzIMOD=mtFMtOiq-nvE;xs!neU<JK%D%rX8hX!d!TSywG4U;=7R<=~h6e<F6H2LCa3!^|r
lT(Tw%>L-?Khow?GC_VMv_wp`s3>tE|IfFgF0oei%xVSP%;7+a*0Rx+EDKbd9?C2OldS*C09gIZZ?WT
!><y9J<`t5Oj2#`LkozDHNhB+n782q3%6dXnOV&!(-bZQvl~r2_PIlU(fc&HK2UUNV<nmw>HWL)gn2%
)wyOf4P05hz&^kIYoQ+1b`NBq{;e|}=Oqdno)YnIghxQIlSpdr=r}ed5IvT?um)leC=pLKztnEK{8Rf
K$;If7x=P=odYlWNd)TGPPyg4<&_k0~VmuM{eDO%5lggZhq!OPe<u>DCk)i`T3%X}o4f<;&ksnEnqz$
+@^&8Nw$y<>prr^YQ{SMi|>8`A!|gb;<3YIX{{SGZl1bXV8tv|Fj^fu}w69^SwEe4c{Z4a;cB(=M<pF
lo_ilPbRQhg3&{E$F_}&dBYKpuBzaDWB4CxPo|Drnkz;A)80uw2O`aF87z&#lBKf9Vfo?DU6mruHtpo
C~Z%oU2W(QRBpQKQYPI>Gn%!|mGcL@hJ2xH=+Qx&9MA)lGWVL)G`J3bIoLnqb=5fMub}gQjIlH$tk|#
UYv$XL6vH2KIxu>KRk}{cO&@}R`TfWwQ>Gf(wj!J5^6aFIij_i<HO$U>l`)FRZKU>z8OT6~OdETjzjh
udQaXz5haWkV@AU2_9)Puq<m;RMgKhV#a2V>Eru{74?8eb&X6KyK#C0BiH{mMa%ci}2c3G4+>8?%fU7
ONHM-d<P#?<oNP0n^pvovehXwWk>M(5>i<D4LDEzJ^zjMtkbefBWNew_N{>JAo&6an{9csBOm2cc)Tc
hh-qF<;Jar+xY}ylyuC&vh%m4dsGMkIO!t($hj3^K5#-;r%LAUMgqjnt$6I`qqxdNq{`{h&?++8m&EQ
v+*BLO9KQH000080P~d=M=Inlk*`w#0GhJ^05Sjo0B~t=FJE?LZe(wAFLGsZb!BsOb1!gVV{2h&Wpgi
MXkl_>WppoPbz^ICW^!e5E^v92-EFUINp&FT@Ap@v#1~sC(`QGlm&mbtB#d!)sWG4e)beN~t0*q!s*A
eJt-@~R*Ux@df<2Pm(hQQ*bxvl)-aBH&+Y@o}e(!t#@&6uw^P~Ur`A;4{{``kO`pM6K^!S?}|MZ9d?e
V|(?DyV%@9~S@zJL7m(}#ch@XeQBKYsY}*Y6)6zJ2`t$N&4o*I$2m|NOh({o$JrUw!%A$4`&1zW(t3o
9`Z9-JkjXyFVxW{F@KoeYjKp?fZXz|Mkb;zyI|3_?yRf|3RMj=YR74yKlex^7rrmU)g^6_|3QXkDq@3
@zeZpXZ-lt$4{@{fA#78m*2hr_2XB6oE-oCrM~<muiyXizSM8Od;G-@|MGD?pXbivKm7RjA3yl|>&F*
9`|ab4_usz%^v~~q{d$rge*EUUPal5uhx;-A;@iLc-|pW$9)JJkr~mQz*@v(H>C=bbJ^t!(-{E(U?>;
_$_Q&sj`|+DUJ^x))Uw`=3r!PPKQK|jr)BE?2Z$JL#yMMWF?5`hx{P>5*S6_bf`1JnQAHIEMe;34ek1
xOZ^?&;K=}!N<kH7x#n?L&1AHMnZ{W$LWyZ4`d_wAp{@W1@zmyaL6|MtGq$A5YM&HGRH)BNlYzxw*aS
9jtcfB5SCH{ZU0eEIF;_kQ>7Z~v{N{?3j3{7*OX_`8pH_EWll{doW3e&4nK`TeJF@83Mu_pd)+?N2#=
_PFc%FTVWF{ol3udkO#YzUe<czP@YY)1OnSssEr1{_RnJ{rK?B<onyZ@bCY)bG)DQU+%bi{ObMV58uB
3%^$x0?9So-?Bl<G{)_+m(_jAL@q?fI!{fjI;EOMQ@RMKs!(ZQ@y^H#O_pZQKP9J{v`#T1I{kR|N)0f
|T_s9Fr?+pI_M_>H#zuqZ+@He0T`14=<gWLbR&wufgAN~C2kH7or7mpu2e)fYee)0JafBEAdeDV0%FT
eQNPk;WS?>`<tfB*i^Wvn#+qf-9YGXBk-<?lY;MfvOZ-+lSv>u>+`?Ei3A@VECJe*NpmZ@>KK_jg5q_
5Q;hQ;#q2M)LbV{{O1QuRnhCPxHWcl7B1FzkYo9&EuPo-+lJ@mroz==(*$X-_`G(%fHp|XLs0t_5IHt
dEFoS@|*wh^<4))zmxynhu_>;|J~OgKYse`@i!m8{mw`K{s(v3w{=}_e|7D*>+$&I&+p&-um1P=(NF&
N|6{lEy?1xUKmSr~-B0zKPal8x`0`h3a=rci9pV4;yT|W@(%m}0y@TYdum5oO5MSTVclQB*xJ&tNAa?
=&?)QHXZr{EC>bKu~{QBcR{ZXdZI*-R+{nh{ec>8`o@1IxJpMQR?`{%sYzy5qmg0~fa{>AedA<bKyfB
V(*Ic@p#U%&tI@wa~tUM=Gb1^W2Uubgr}{?p?xuD|-z4}W?8zW4W+?7p~f_kO^CpZ1&kL+<BJxOTq%)
&1XpIr*)A{<-!1@%MKx`1OBu;m5moKl<el|JxV;_=|t|+2=p}!H@s(Z$JO}FTVKvZ+`iU&wu)pfBfPH
_y4;ytM9-4>*s#(H$VQ-KmPpl|KmsZ@9zsP<@Lkge)&n%+!6DC{q)mxGGG4c>-Ue(9<Nm1|Ha3Dd-p#
-{^Id}zI!~b{n`D0Z}-c3`|R4!`s@+s`t0iKdB5Dhd+c>Sd(_+Wv&XuY-(8<Q`mOKJz1{Dw=X`E`_IR
BB?A@J1`&q7Uafj!w&#vpbf4APYH{$-Ux)aw)|8-}bZ^s+yrMyfA$IYC{a4z8GzRmmPzWf#UOSzFP$y
?qT?vl;EZ)Eb1b7%cnlVZElWDuXddpzU5lzYE_&igZQfBO06zIuM=9`^ma?)xEDOs>b%-X*XVS09D+x
})cv;dR|VKkui1ocrxNYd3f94?fy6Du&B7JLDe<Hxy*}h_uHo)Rf9yknir&b<qeflTQ9suIxc4!@0b4
ch%fEtf|2}!)o_GcO5>GZ+97Xx+S&Hxm?9(QhlV0q>JR8f4zP;pOZt%q1<)3>$=mP`*ZIedv30Ly5_&
+;0_<>si^MD#dR0jd2{P;=^15MvYv{%>*KD8Qa(A4>{2S=y1d<&vUkx|RP9PVbu_=bGt8;cmj6UZ%ep
7+(<2|DJN0-!{2d|_4kFphn&&=3si*qyY*hdKVE28UrxY#MBe1VmhIi@i*DpgPc;q{X?+l+V5^DbbbW
WiOk=k+<_Ulc7tGvG6+<H%j_l-P-;JM~*q<g;kv=1uH)C}6)^mBP*epD7uDV}cODeI>UV_MjAKJ(P{w
&#AjuerJV)7M>l_kSrgH+SwQx!&%Qx{kKImDG8gmpcyc*X=*Ui`#s?Q(oH3QCm;{^_2BI-d!}&b2%Tm
riTy+Pc7wW^yj*>(c3&+<xY3}PH1_?X+l#V@us%i|G6fao@BX&YqHikoVmPKe&!wh(0={yuC09Pfi$6
W_d5^S+|NCI(R^gyP|Q8eRxQ6R_n-?}*W~Kvw6&x2Ion0Hk8JsCGt>7?fn3tQ)qL*0Tur4M75r4X`6?
h6)yKp{f-WI0J!(!_=w;`wpK}ZM8&4swCLWr{UCY;8UJ>Y)9$WMYhtN0eDNVoIn$UBe@xI6-Qs+>vB<
@l-s+)dy--94nf<=QkTINH{9lh+nE9DUe2(fv0Hp`Vfo(A`(eS{7pJXqXybU(7*?daV?L)}XAZOt7jf
jep+uX?;M{Lni;CUSKc_wVM0#aK*V_ck4@XB0L@pu53&c>T$0-Tg$G&hF&grcPzb;<yi8UrtCU;kV<F
"%text.

(** Lines 13215 to 13364. *)
Definition DATA_87 : text := "k2Z92UPO1gP5rM(zK0Gyv5w|Ur&#kj7tx74{Vo*l){eY!Kk|gBs=vIvX;(*|dCEOZ4mH0^Au?}xM*ZQ
@A1d|h=>N{0^}D;L((ybeIHmKT`8E%rfCTKi=8X_uvgvulEiGMIPo-%6Yr@88x#m*y&cu1okFGqur3Q
V(z}-^{5xGtop1GX-=fRF1`&v_(9_1+UX+xsuD87dlu=O!IpGU>KA@G!3rRFHk#peBn&f)RUCA{*Q5z
ajbpk;)6zD;lG4yTXw#x$X=Uzi?S|8dVcWO&!_T`5|{42loIa@F)Z6YL&E9G2*N>ep6JHuG}d|8-5jJ
U<>6nOfGZmRzSnKLv|9#r@oxtU8)%jV0@+f;2$nT=Ui3h2`tH?^?d*%1_n$)B@g&%QF=*WL`$4YwFg+
Uvs&~p0+$?sC}Qgx%-iyms);mB%x2!_1<-6NEYl*y~b1Dx_WvRxoXA}(+2vxkj#esc%7LpXnHemdaC-
Tye=K!Tg@<Mj90C1Z!-az3ky8moWi|B)&0M&<TmdrbBFpS&E;tbsN-$1sqeo3OM{*pUh@*}%jaCv)Zi
{xEyI}m+^;c3Yn?7mo4GU>-QGPhGAc<ov&k^-Kc}eH#F+l$noh(W8L+j#`;qlh(=S|iyM3J3jm&MT1%
ts;E$HO$|5D5HdhVGW&AUoPn}3>cUdH&#czYRq?#^_AG4xy-#B<)A93<8to-uu$`xmOuP%3Ad$C<XQS
sRd+p)XX*Q&l{5<ukvXsns)7wRD%BF|YZsV%8p>y3FUy51$79r~dJ&Q+(zGtg4>sF+YrXsJTea%wbX}
dQtQ=?7ZpW-byX6HE*jfPxkgU1B*5@y{u*ydWh#t7oQVPVpFb{KJuv`b%J+VQ;{`Y(1eH%_NgsDYkt(
ebu`-qZLJCCnYk-#Px4gO(=*mo)ZC%@^quQ;G<qqYiRV<S@oCSe-Pc4~Os6i2yc_yDPjbIl8JN!9Ek|
c0hou>$uzZD9Pc6GI4?0O!Or@BA&h&j|ou2lZ*qjcwgu|OL^3qFPlB{X(lf>L0YkCcrt63J!4bRP~Tf
@n-r$2Xxmr2B$72cj%x^!<dQB@Vs`LrUP$D4Mfm#v8>-Q$cY&nd&1V?WItpE`>*(d_}^^<Q#$O)l>%U
7q{Q<Xa2QYZ`zm6I9o<t$E}#?QtGp`i_Y{#V$^+*B$EVpJs~Br_MB{&?M7>XQ?#vkLPom-g8z8Qz;W)
h9*^U_sse^{keLZhgx%`S8Telap0jd*m}mLr96yq4_)Z}$ohQqk+r6m^}93usBUPY!<E+b@%PBFULB<
&;LPNES&gP{W1GoYU|eqk=sGj>O-0S!OyHT)PgUR9tZ7l&_ru`1G?M$}9`)|m@Sihonk>!4ex~L3r|&
mRDPI4j@hZcf4rxs`ipI<*M4Q#;9fx}Cy36K%TbRxVFZXaw%*jhJJZ3BnpS#DI`$gYvBwx!NUDG9-+g
wJ**N`v+>Yf~|<JIF}#L8Kfd8ljNom^dbx$xb)EHm|G+Im0oT;T30*V_zzli`{d>E?!qI5fwZG35--I
b(x6yu;@Hh+OaLxHH@yV9yZXMrv}fn4gH*GZ8kgpFZ+Aot7)@$;O4J%3_}Lm7#P?uHgZ^v-EhEhPs~f
JFRD8M-bPHj?>6{28~HOouIH8p1G`8^^}jPE>U~OlVYD0s=gvL(QC|P))wOg!m`>k&D7r=K4vBLHnSH
Idd*b9FnT>_wL87|^fr@DSx=!&^~d!7^IzW8Qtns9nJP(l{BZf_Xwx;nGb`NlUwTw8*K0j61u|)8QEu
6CgiTBv5*RT-mh)l?R*LWSG7BaVKRvsp%+h^bbETRW>y1n25Fu=8UIv1uBlBeXrdiJ}A!5ROcOo-=a5
*uMXD(+7JaKowdq484GF_#;{c1?w?x|bl)#_0QK0I=cQoTxj#*2xk$>24NPLkmtBhajBdfryptpuhX=
WYz1=1$A1Y+30n3z22X@HnqZIWjyFPlKMm<JIMOW89;rXO!XG$Ydx6E{o>Z*tVu)DH-ZuXBiU{1p1Td
qOaHTQzt)hKJh#2nWJu>ZsF+`o>OKf(P2!9`##q->t#LhrQ~!amy!K`Ly_h@sA`>ckchnW71vnHB%4`
zuHil{MYRIS`^C(3uIIjHf*|_tH}pWy`LFgemy@-=?z&szx~45_8uyF5E}y=8u650vaq`zyjf$+9plN
#a<i5x(h9(%L(2-dN-x=!3tW%cN$z#y9XH8;EnXxXWKb(d1Ttv*7DlCKNx~6ER7`8#`p?)m3*R=foCh
Hkzj&##ctDamlE1Y-rbrY67qmZU2t)<vqhBfyv-Nt-+o@cH%EyWnT=W_GnZnk%4+Vpy4{o$;SP1+a0U
8XDdiww2=ht6*IERH;*LHANU%dJ05Xrm_C^zl$>SV9@zpBZshB7>r0dS?7Fi<Oyz)x?vfe$Iv6W(<@W
{P#=+T@E`hGv;d&v(G!RlACpxmU0cF>g=xR+<I0Xo<zUqK_4-}F;nN-lcAZN>EnKzcNCRA?3#kqeO>c
-uN$7<$x#1v&DG0=r^~q?@y^hYql;U{fptx9V;Wnp-+9KlrItg>p{ESzzZB9K*$lU4U-vH!$?mWxmS*
y*p-yjLQMj&|k?;9Y)@Pi{eN1GTg6)aTGk5r!t;*|+QW;{v)=UQWRDe01e)BF@xf+*|&3&7mRu6PN$H
{eHGZvLz(2D#1(HQJDwbn;WWzG~#FQo+Tkx-X5i!|$?p81Fw>z;*=;r?z0Qz>eBrr<qSo&|v6Q3rlaF
+3-TRlo#Z&CT6Ux6H`Q^WNRBT8f$hzYlZNWd~rb*NjXbGo!YdyY{iz@M2hNmV-5mC?mAFxC~uD7qrGr
2XBlsAsbk<px7c_3kfYyv#k8Dc)crYy^;mxouQ7$`fOQFE%V|vGc=?9nh{4Qe<vo+dw!HyNa)g*eqm{
oOQX9p+!D|1XbNMJn2NlLW%f>l+ZK#Vzc8zx*~nqA4|Km^|NSzLYyy%@AkNHIU0#=9C|_$j0=*O*yoX
UAR`WWa2L-#E<Mc|CZ1$vP)aYrM6Vqzpn%RYU_Y_|U)w$*@qQ+ZaZOz(f*5eih+Q>af_1uU^dzpiIYf
SZ+<;;WXKekb6={0oa%WPt;xnV8VCdB=s=`Dl9!<5+g_jtv`Oh9HqX$Y9!a^<X_X5BbI=yCLi;|cb&?
vKncI!%3A`NMoyx3rb(><_$6MNM}+b)<)T%(PD@V!U|hrys9Ss;Lz7rXIkZho3Oj>FyyLgWxiYIuji;
fr`0E%g}>Pqfq|+TG0!PYqmdPdV}F!NqQ_t5`z?^yccO&&x;b~!Q?gV+pN<h@!i9WU>UF03kP+kYZg&
*7(<Dv>VfMC+E+HNsdI4uYdVLFY0IWj;9;$~n=@~#sA+n`$<xBjrz{?q<-wXNd#qVt2w#gP^MiW^JB`
NNR*l|W?Fim%4XEI^Sx#9p&g4~xu~C@r_gdrpCMu?Qk5>mf^QN~~gP1E%L8?*R*JE^G=9SZKCj?c$0q
8NicSG27;WN^HrXPKJS|Or^t?3#0<Py&JGEebM+0P2^k=~d=P%qx|<1873&5U)fa=)~f<3;!7x$j$a5
8lwjZIi4$YsrU}sF)wKM>~tOrTdy4*z%w{#k>7k^{e2AF=e*qQsLSKyc5f-$MXyo#?n~}Yb47S-n{_#
c>B!d-KG$KprnC~8QzONjE>LNc#Lz13(KOlU%L}3;lBEPhdNkY$<j3L7a!EY8X51;C=k8uo<YhS<&m?
GtLC}Z+r+>$^4am3?((rG!}+wbnPEC6e~+SqC!R_luwUEYI=plxlkY9!jqVU*J~MYb4ONeX1E!Ia#5F
sodwv{Z9L<`|Lr7w_{g`gLjC%Jk=N=S>{(VAl>(KYy;bf>EwI#A>%F<~qZGO!(z_zQS6Cz%JI6ILz?t
ambW==FPr)QawY9?{}wW}p)XUc5}XRdkQmu}m@wbNQ}W-ohYV>6#NF7GKD^RU@9o0%w?zQfBKHOt89m
8K7yIf_oCEqwMoN=-AKwlEN6FqmAG+>DWXW@NLp9D$rJfr-bgLB`2nm101e(+BaoymzjV#QAYv+^apD
c+P*#^43KRCpP@no|WdzV2!sA*m(!1C(|?TX`UuHyJv7S6`62;4s+hOgqN<jX_LCg+40`9xuB)2S4)}
FR2Z`Z{tCfq5NC35OB3gF>&oysWg&KQdXh73nR{&g;hyd7d6cOcJ&;IPd&=Uq4jN~k6z)s^<P^tp+Th
MrEl&qx7k=4MT(+LpEV;PE!-0rp^Lq__+W)(YW@<h><0SK=0!habmQCR`+e~Yg>(>k?rkORPsyD8A<n
kg;W_Ef_^$*O<KA0saOuG=#H78z-3zyF5B1YHXydG)U4!&}pWNu02&5o;y={@ww|2bzx#t&!3Jx5{Yx
nDEunIKqqSrO+e8y9}%)n1O5;b{f(T63CX+bCSN2iMCwXMae{P4{Ttea+l|Ho3-EOQ&wrY1sf;mR-vh
#beF#)<(s$N3mx78_9zIOCPof=Nh@1*}UHJ;T+Io77w!*H<~>CvY>r;w<d*_GyPRPGsDcu+K)OP^tR0
87R_2y3%0w~aLh=|a4596m$wRS`Y=m~yOib`eOkE1YX^DwQje<J)^3+;-mO#qLdl5m(7mhWS#Qq7Xew
Yj>zUoVa!%Hh!~E#Ura-2w4UD7Eqp|%q5HwF=(6Y8%Gq<rgUDlS5!H7TYV9c_@GHj+`HCG=$GCQ62VE
f}Svk+^nYiQ48V_Di<IptjQqbc!>n*%N}i6>~?hrzj~R(ooBw&LZr=g^qDng4RI=o<2$U3dfIm2=i?V
$59G)O^jHI$q~_dNNc$x}cfc%zU9Hru8fa;>UAhdg9eoZHDBS8NjSdrv_gic4o;TnPnim(Bw7ZWi(r_
nm5?w+|m@yOwe?zQ>1Uxf@k+&ipJ)`V|K7+T^F;Oo4j798)oxZ4o0sz7BmM<N-sN8NPXCY4m{=*QqQJ
;&dm;znM3CETvI@rK~7?kY$5lUja4xIc)l=V%3?k|m0)Q$WSX-~(g8k)g)Ie~LR&NQDP!rJESNb;j`3
czX)`B+<^a`1ygPh6=Z<Hi`}p)EnH<VXdzm+8L8fP%&F@)z*}a>!wk`FQv%fs#F`eD?Qqw_ce-8)5mW
FdDk@Yn%ZbbJu$dI#M>dDoGXL&2M*2KhA=9Gwgc-UcDIq4?DNusN=!?*IaqW3s^g5Bq4FTgRXdje|0`
I^?sdQV%EjdkxRx08;`nTf@d?iac0i*m|(V1Eul^_+`*o7L!SR?hlH(=)ppczDcYX(T*mnQElX$!pf7
W3H|lCY*D^X{MApOF{FIdYyIh@G)R9pLSmcK?B#tWUkl4&kA*RSZBRFU|(-Tj`Oy}DKD`zo8N|j$DB&
3*|{NovlW!)Sl3vv)~_SJdmG&<(q4{CEhnMwm(jV|w41D5N#{0OnUC2Mo^7kyo*k*2N1WBDjn9=+UD_
ksTTa!jeChT4PKH{rBPVN4XE-i+O;r~iaPI4|Um1$fJ=+I!ife{iQ<0pzHb&ZqStN0d&e;LD<`|U){u
<WiN6UzCXE-yVnHtVk$IK56^m_tt?(j_A>OV$)V$PjRHlktnM&D*{I_G$d;bo37K4xj-MvRfT`T?mQX
Ru(7iL9ASPP?7YscJ*abSwtryHaK~H&e1v$=Pmk<;k!{2PRmavp~{q?>Xp-QFH2+`OMLpl%Xx-W%0FU
QsNZXnj?5I2Uv5Kt$<ZDtU0SSWig63Cx$1PUYz~kW%!)8=NWaTbIQi7$_c<V{h`^)Wjk%nMyIoR%bMg
aqnR<y2G*QamZ8&Yj~PbG{Lms{*~nWqGuA}BmDEEJubI|3_q-g1xtp!$R#7Ie%hueTp-u}(t~mw)#MU
&uKb;SpGfRSM99x`dE^ChB=4{u+{OC$^%Jglnrw?<ydDZlpv!Hp-km-Yp>N$6~CdMYk{5Wf2ccfe$bi
MCT3$|mqYHnoBa>UfCrjfhhDYV%Ym>%1r;LMo`ZEFq(l+8&yl=tjw4(UE8!+F~S==N$r$FNYd+xgl$8
=aFlCu`57Q>@p2iNNpuX%{`~-S>X<&+k9|@w?ypV}f73|N7&<_(PMA{xIV4;hXQ?e|rDzck?G2zkdJS
`>*B*{qO(q>GvPMeSbfvPQ=V`Ij^v4%2kKtVb@T-o&Hr*33@b#otKkntEMpZO#0!aZ@4p@Fwr47HMtx
>T8;uPLc3~;Mz`bK_NsYoJ&xj84iB!HnlOBG<U2z>iR0PJ(aGg3%9>r+k#BpP%ldLTI=*J|;*9*7{RY
RR*6hL81mDw4-3hbhIMlL@zZ^_kWMs|y)$!9cHgDE(%>d+>-!jc#_LmljTNV_{nDlO$Yc6rVobO+bp)
Uusms88j0n9a6I_pVCeV5~`i+wCKxU8m@t?6YG>&{RNJ0QCpHC^`F*PQe>jxE#tHC=!MT5C2P$ofLV%
aC;$;FcqzYtHVk5l)NbrE^<OE-X97%Sv|5tY%PThLoPfqQS9{W!Gexg|Ar%&dK=YaQJfeb~!Y(`W2;;
<h)2HCXCX{F}XFn&Gv-WYye=iH4_KJ@|~eM^|b0a>^?^=ET7g)XdK~PCVOkzsdMeip2QkdH9W1+aH6&
5Ap7d6Gtpt*wVV=Jm}^;jF9*%98Q2{!U(WWfIY~ZSmyYZ%XEc|iN6UbAXDCjb!d;Hau9+57;bnhjalq
xI_i{RWIe5HgW78()a{7BY?7T?fa$NS^a@24+kF?Bruh9U<xR+zx%c<+-B;}f3+Yz7Tu)%U{dpS3_9Q
|9)*{wMfv+N2i6XxY8>vD2v&9M_3ertqzI(nV#atv=dw6&b7S#$Wq?%*<iTF#f=843)?f|lbqYxWnZ^
O`ZrN#o@_@p2Ap*(qQ4pcdj?m|!^$xESJ^zkj&$^+D+bhGTzgj{oK)79Df)Hzyk*qC;KNp*kYEY?-f_
Lp%9<-=V;m-5isurQcjms$AE&z&y7Qag1#_kg&M;ng#H*Y6tR`BV_B${KHAz<)rR%q;@$axttzcb6&_
yVL3Fr9GYFu%Pz-dmxG(j`MhQ6y=JC9XZM#QugiheHRo~$gq>Ag&Z;hFRhP4>%URXstm<;uaycTi9D-
R6f2>)ATW{YPiV3Tj<t)&0wqn7?MKhLZ*fJ|vhOFg8=W?82*#%!CdowvT8@<TqouR-OXqt(y!E8Buxt
zUR&R#C(ESGbZ%aOiiUuW4FSaW=GCb|%8IYW78C^{UnT63()NrE*3WkI~2^J&pxbYC+fI~%zii(C#rE
@yL=qZ`Zm`_530Ve4<9=xg?a2;FiTaXC@A91mP`;K(_aWuJc830$+QG*c|6^44<{(uus~@Y=Esx@;ya
ZoQ!10w>F&Z_VPz%xyVSx16b4&eSbu>Xri=%Q=HPLy>^m7TQ@HVp)$bXW5oxY}+xm?fltx>TEj|w4F-
WcKWydnT-!OzIeAyXtv{G+i|h&u+e2Lu^ndFPIhd&!P|b^ew%qw&hIQ@xBM>|EE(XW?cCRP?rS^twH^
D~j(u$>zP1xz+Zm;8mwMaz-EWi4mSRh>rPxy3A#rE8CE1dMBq2#i5|V@@AxTIQE)r6N6gh3)yD6CyC)
@Jr%3+W6>3N>lXXNnuog7jQ<(egNxn{X$Nl{YVadBrjBgrJGd6BNAYw23Lmae61>1Lrb`M1lpWbMa0L
hcNYbVs^b^-X;oiI2p`Z64{4bVs_U%RMD~O7@iEDFv_J4vcJD``gy_w!gS-EpB^D+w6U#$W5R&Y}!^f
+e%|!W3D+Lk&Fv$>!9tt&7PBJ7KR&hZD($_GdFwws_;*rJ6<FfCr;IDhibM%HQS+%J412e$jo+RX4`k
!j?8RFX0~%O+roJ}9ka>Bwl}#QaM^a2w{3-OS9II9zcUmkHf6VsgUygP<K6geTMKW?;B5`Ht(Ue{(tb
Ut0(VqoBcN@|;LcEB*tOnHgzRe`Szy@e-6(I{<=tR++XvYWgKRVI?HI_mTeR)qZbu*P48?@gAKN-;&*
_gnk0&N<T5tQ++y3IVL9)sBwzS_CYTG(`bFw|#jhk@o7aPodi3uk*u07=?Ff8G=V;URhZkn+zz_!B^8
-Q%b0`{Di*p{H%L5a;)HcQ*~zPIxb+j)p>IlFE3Z98JyS%(c(H+SDQsJG4M?U=)zp-8}E+cAd?ptoI_
?U=)M%wgL++KxGF#~il94cpe@wn@4jZrC<%_8e~5YgR-xKT9VZEaSJ$=#BWd?YV8|Y1_cqsCHwz4Usm
$*;r*;Dc>0i2aDfrIk*i0d)lAV0NXCZw$HZh{%`oc?Nx4@_1o^?UUM^|!3N)*p>VL_zU{Sd+w9vm`?i
n1ZJ}>|v~7}a+v6KKY`al=w!(Ar5)HP(?+k^5ZSZXad~=~~M|#@;-}G{0f^Elp+wtCZyf;za_O-VS>T
PR!ujw3YMsK^%+wSwWv%KvrZ#&D|w#BxAyloqA8^+s)@wV-@?YeGzZ`&T!rf=`It(tA4W!pd5c1^b3i
EWc$1MSVIH-Fy1d9&utL^nj(_;3@mO=Ip11%Y|%Hq+Xs6MF`qX)Y7pc22iF(`{>X+w9!-b+*mUZO3KX
?A$gx?+n$yjm~YObKB_LHafSB&TXS}+v40dF}F?3jb%4&-ymj#*KJ#J+mXC8RR4Tx^QvusaWnSobze0
v(uo0Egxl`mCfM7?;I=WiZ3%80fp><2z~0Zcsj}_$ZF_y&2H(a#+XmmZt+#FKZ996~j^4JTcfHC&49s
TUwwbqi_qLh0?c;6xc-ubSwvV^%<8AW2?cQy>ciZmWCgj_e-L_@7ZP~rs$Y$HA+jwl-ircp0HUZxD#<
sn&ZEx(FO0oI1ZFFsWT-zSko_%4pb!R9XfYE+YbWPKiL}1w2+BUT|aoo0fwymsfD{I@t+Vh7t(@yPV-
5H7wy8zcjg8i&*KWoR_jS#UVb>YcvUuxsfZC`5Jm)iEFHb&cs?9Nb}*pu2eqPFd)ZTo54YT9<0cDy7>
lGlr@1q&M7Z0iD{mwx%qaMmPt?{Mh0Z?x?j?b)%QquajGjwyz@O#u{>qUXbs&F6YD6h?FUDqsI4u~4#
ev+dbzdp6si&9-N=?bK}hGu!^mwm-A&%Iw*dxu*HpmD%=Uw!N5bFJ{|t*t1#xHdQ8`?7M7REE~RW+ai
0mJ4o)f+abgI)Al^J{f%vFW82l($bH+a*fuM+&5CWaV%x0Pwj*}V-h%2uQrm9CyG^0Dors;Y-(*#$m2
cY-+a|=Goh?$lXJ-o+Z+j5i9>lf>vF$-@+Yfh!Yu=Vvd?EM^r8iC9%y`4!4Qw}?-Qace!p#CV^4pkh&
q1Y~bH{T_0*YU31hMJErUTo8bz7WnOVVwnvu7GUv+bF|nz3#();mM7G}FhKc+F@(gW!x68qS`EGl4DK
wiw$JV-r*pI};&l=FU)@yb5T_Mx3DZjnemv(&u-AWlmwf-W4$<eFO6i%y-UIgnVzTy@~c_)Ehl-^t`F
_=E@r+Z;re<@@B@H6mLkpdGKbS?=}m*=5B!S2ErQ%Zw$OK@W#NK`)=&JvG2ydoA_?9yTR_pxp#&}Ad<
UD?k2e#-EL~Tf$avio7HYsyHV|>EH<y*y!M&`sp)M9?WVCCyl(Ki!RrREo4IbZy3y)JtDA{#Cc2sEW}
=&k?wY9x6x~pCL(vUIHx%7abVJcyvx+(MhIHZrjBYTx!RQ8~8;sr=3Jfy3$>=7dn~ZKUy2<D!qnnIwG
P=p=2BRB{ZZNvR=&qTH)D*@P!Q6vzAfua%ZZf*b=q96^jBYZz!RQ8~8;ou+x@)E)WOS3!O-45v-8}S~
$tx7yP;^7l-Sed&S_K&0V044gJ>SnU+dS7y(-`Syq??g$M!Fg4W~7^u?l~Vekqk;VDBYlRgVN1OHz$3
!LFopi8<cKFx*6$aq??g$M!Fg4W~3XBZali_=%%Baj_#gO507p<y7B17qZ^NIJi6x#M)vE!q!S&CbTi
V;NH-$gh;$>;J44ZdNB3)M|IB|$CpsAEW~7^uZbrHp>1L#xk?t3fsysw`XDCGQ=*FWPk8V7=@#w~*8;
@>0y7B0q@A;VN6(ik<bR*J@Nbd~ANl#(V&CR962_D^ebd%9dMt4umixV)q=SwyAY^F~N8&R8)Ueo1((
hW*CDBYlRgVGI3Hz?hpbkEmh%(Rb|Zd$r&={~c(o$tVy?hBc2TDocJrlp&fZd$r&>87QdmhSm0>*?^2
>7GAL*7X_nd{EfH(+y8IJl*hg!_z(AU@?6pLEZB;7Smf|)QwR$M%@_ozC#hjQ8!239Cc&VjZrs7-Di$
X#k?z>06O!?b2IaX0Ai_kh9U^2ZkW1Z>V~Nsqi&3PO}EWbH%r|Zbz{^`P&Yx{1a+TL5rn!C>Ygu8nC>
2<Zj8Dy>YndOm?40rZi2cA>L#e0pl*V?&!`AO-3WCf)J;$~LEZDE1T%<W)QwU1naZ205JhLobxLy{LT
_`;kaOnplXzw-He+T4!m8IS1<>j>>jA#H=L-R5WdK<>WZlo15>wVqSvO_flyy_qO<6Z(-IR4x)=gPAW
ZjT;L)HyhH)P$<!8FRcDeHdDpT20psCA>(jaoNq-Kce=)(u&&S>=<~YlczWy611*H*ej%b@SHETQ_gr
ymj-|&0F_)>kPlVb@SGZTQ_dq^Y`hmaT&Vq=akYE&=iX(g0367Zs@w9>weDt3n1vaq3dR@o4M}ite1J
~Ra2%0Dd@VP>xQlyx^C#Yq3edO8@g`jx}ocyzk;4M8+g4l6hY*5lh;jNH+kLUb(7akUN?E&<aLwRO<w
o>soX66@av|pcZSdTSvs+UUpIc;_%-lr;Mc&ffnNi^27V3v8u&HvYtYwsfnNi^27V3l8ss&|YmnC<uK
`_yw+3$w^X|Z{G2aejaT?6^&T!3tO1Gq2(k<z>bX&SD-FBtzN?VF8#g<}Av88}%SIxbLbRk_x7t+PNA
zerp(uH*CN-0H3ky4}-{-7dIYoOLZt$|u&zM7||fJ(ZOuB5XPtSPi|xtfp6kJ8qZVY^;S*V46g?RqT<
Tf<(#TZ6Y=H5Je<e55_n9%;=Sg0}{54c;2_O$(-(0bK*S26PSR8qhVMYrM@xo{~K!d%B$Sz5!hWx(0L
&=o-*9pld+afUW^uW6+f>1#}JQ8Z0%KYcSV$!CQm325$}C8mKi;YoOLZt$|ttwZ{DY9QX^|8n`v)&->
@gL;|`7bPebl&^4fIK-Yk-0bK*S#x;j!a{fy)!9rdGyasr^GZZItdbj4@1q*%+{2KT*@N3}Lz^{Q{1H
T4-4g4C{T*SgB@M~OCEG3CJ!LNZ|1HT4-4g4DTHSlZT*TAoVUjx4eeZ4ajBKS4%YmnC<uR&geyass<@
*3nd$ZL?-Ag@7Q1H1-!y)zUO7WZMw8hYZGz<U+DnBc9!TZ6X-Zw=lWxHWKV;MSOLUJKqDyft`h@Ydk1
!CQm325$}C8oV`lYw*^<tufzIQu8^R{sCPBx(0L&=o-*9pli(EmeH*suUAdhLIS@AehvH@_%-P3ouQZ
@uR&geyass<@*3nd$ZM<_Q|2~fUL+F@_%-lr(APUd;ecNQzXpB{tP@-%%=lx?9g2o&B=|M(Yv9+wuYq
5KzTO!M2mBiNHSlY!*Et!}z{y5nfY<=B0b&Eh28az18w@taV1vO1gAE273^o{SFxX(QF-Ns(>O*vZ*Z
{EsVgtkmhz$^XXDB*AY=GDRu>oQO#0H2B5E~#iKx}~60I>mL1H=Z1jrn7MAh7{r1H=Z14G<e3Hb88E*
Z{EsVgtkmhz$@MAT~g3fY>`jBMFEN5E~#iKx}~60I>mLubTXY1c40j7kn=mT;QZYKzD{>0@Q@{O;|33
iG7%shY53-yoM=Qn0<vgR~XsDkQ_7MO%JrEbC`O>v9V_)nP(IeNH&mcAlaBd-KcqZae-t5$p(@QBpXQ
f&QLfo*<iAPWCO_tk_{vqNH&mcAlX2&fn)>829gaV8%XxfP$b~kps_(?gT@Ap4H_FXHfU_n*r2gNV}r
&9jSU(bH1=KK*ub$tV}r&9jSU(bG&X2#(Ac1{L1P2N#{9(r1qm7(H1^JLeijZOHb89P*TAoVU#}T~7;
G@uV6eepW4`gICat&_gAE273^wp<;Mc&ffnNi^26+wg8sznwzk8gv%wU7T27`?;*kG{1V1vO1gAE273
^o{SFxbGa*F*z@4F($wHe!CK!@#X~hN6SF25OC%=$MBW9lSMoYoOLZt$|vDv<7Jn$QqC}=1-4;vIb=h
"%text.

(** Lines 13365 to 13514. *)
Definition DATA_88 : text := "${Lh4C~HvGpsYbzgR%x?4Za$DHTddfiWHDF=2Ul3)&Q&lSOc&IU=6?;fHl}^P}QKSK~;mQ22~BJ8dNo
?>bt<IfmH*m238HC8bmdKY5>&$s)12s{y>0{1xpQ#8U*!1W_O13jyU0{!BGRF21X5x8W=S&YGBmBsDV
)fqsE-m)@*~N-WduJm>MuOU~0hBV5u?3tj+iXs0L6Cpc+6mfNB8M0IC60?+ir;Q4OLRL^X(N5Y+&x0a
PRB9z-8d4WJr8HGpaW)tIjb4Wb%EHHc~u)vM;=1qN0Psv0@BY5rMLDuM%^2Fwhc7!dK!P;^kMn6t?>#
V15iOwf)%9DyYQG6Y%(Vi24lEYD-Uu8djU843~0;;_&SE8DQL4U59CxC?8zu-J;3;m_oICfYMOp6RZs
Va#dTm`TLU2xb&FxLss4rq7@LcDmK+RHh@Cb~IrlPGZVuilJsqai8(ZL3Ci%z^Xx11E>a24WJr8HGpa
W)c~piR0F6+&4iPv22l;78bmdSY7o@`s@IGNR5hq-P}QKSK~;mQ233ukF@>lGQ4OLRMD?2Cq+T!5i4L
k7R5hq-P}QKSK~;mQ235T?6c|`Fuxen{z^Z{&1FHsA4XPSc^?DVJxIn9cRs*d@%@;bq3Qb@D)&Q(g^9
?WaP@;pf#(Xd0HI=9TAgw`KgR}-|jrjw!psYbzgR%x?4Zs?JH2`Y>)}X3ERb#&Tb7r+@HPC9H)j+Fvh
N1(j238HM8dx>3YGBo%szFtQss>dJsv1-^sA^EvpsII<q64c2Rt>CrP1wwzXV&XoiNy(D4Za$DHTY`q
)tE1E7GrmYf(5V!U=6?;^YzR#o20BkS%b0$WsNzAI#UYL8l*KKYe3dJLlHw+gR(|XHuGu0LRo{d24Ic
(>%EC{$QqC}AZtL@=vk*w)}X9GS%b31DC;y0${Lh4C~HvGfUE&o1F{BW4agdh_0G^hGffJ$25Jq|8mK
i;YoOKutkF}q;smV*S`D-sXf@7EMc8Vv)fiiyhRRlht;T!>@w8jO8hka-YM|9XtASPntp-}XGn^qu?E
%&RtN~bqtp-~Spc+6mfNB8M0IC601E>Z|jWbh`GhdOY<X~#R)PSjR=3eLK=5m6Cr3On4mKrQIFlu1bz
^HeI;)J6HM-7e|7&S0zVAQ~<fl&ja21X5n8U!^6Y7o>QsCR~<1EB^&4T2g3H3(|J(}1S|PXnF?Hw|tY
+%(QSou1^(It82tHw|tY^F^`KXTsB%uX~=}lb{AX4R{*xG~j8#(}1Tj-`N`UH0Wt?)8MATO@o#OC=Es
$j5P3Q;L*UNK}Um*1|5y(*cTp+`JOgCcremnr16|%0}2F`1}F_s8lW^lX@JrIrNK$#Ia3i(8jLg;X)w
}Yq`^pok;WM53>Azt@Mz%Cprb)YgN_Cry)zUOcr@^6Jm)qiv6vvEK}Lg&1{n<|8cZ~pXfV-WqQOM(48
;T#4JaB=G@xie(SV`>MFWb)b4ox+;LyOKfkOj_1`fS56cao&cxdp@nAs5z4IUaOG)QR7mqN}Ei9-X21
`dt+K1jpnouM9M{*Y)!P%;{1G{|U>(IBG%MFWZk6AdOBOf;BiFwtP5?-Gh86iq0aP&A=v&bLn)p>w`C
#4w$BH1TNS(WIkEM{^FRvb#IOOAePD?&wHHnv66VX)@Aeq{&E=ktQQeJeqVg>1fi?q@(XHi^622$w-r
tCL>Konv66VX)@Aeq{&Eg{_xbiB0*^)(wx7;Nk*ECG~Z?qucV84k$4_-(xr4MUAkOKmXcY()a%`nVM>
?MrF7+;lCGpH=}NkJlDS+-QBsr?Ek#SwbB8TSOVX0GB=EfEZd$sQ?nrn1?zqyC>_~PbJCd1-BpFRInq
)M|Xp+$+qe(`Sj3yaPGMZ#G!Dxcf1fvN?6O6t~GMZ#G$!L<%B%=vMbB^Adza<$>>(VsANidpVG{I<s(
Y&r#Ezf^SEIROL;?cyTiAR%+CK*jKnoKn3Uvn@?OfZ^YG{NY7hkJf0o#-H=Nk$WjCKOF5nou;MXfn}c
qKQKjhb9h99C~N?nxjgb^LRd(GwYPsJnh`b>kT=i90Ug)O*)!%H0kJ_q3FP)iANKUCLYae%3`iGS&I%
lns_wvXwuQ7qe(}Tj@}v0=I-m$(uod6nv66VX)@Aeq{&E=ktQQeMw*B;5osdQJ44aINRyE!lS{M7oG<
jMc}5`uN)wdke2bS^deYLQrAbQ@mfp48^BIuoQMhSx)8wW(-_u2P5}xLK0|4Jif|>+132GA5B&hEap(
Z^|c$)Au;c3Ftgr^Bl6P_kFO=OzLG?8f{(?q5@WSYn{k!d2+M5c*M6PYG5O=OzLG-+wl(xjzHOE0UFM
5Z}pn#eSf>1D-o0nmh}2~QKACOpmgju?=YYjO}V1U0EkQkR_Xlgd{PA_k!*K}~|11T_h264YE%)>F(=
q*IWSzlh<cxu(Ykr^!u|n<h8S`J3jN%ZnIzn(#E?X>!x#rpZl{n<h6+ZhB`ZVz_B?)8wYfO_Q4@H@&R
c5}qbJO?aB{G~sE&(}br9Pv0dyO?sN}G~sE&(}br9PZORdJWY6-@HF9R&etZe!6c|Tf8L)6H4$ne)Fh
}$P?Ml0K}~|11T|mZwe0>eY7*2Ws7X+BPDmy~O@x{VH3@3&QT3W1r4uI@H8E;p)WoQXQ4^ykMoo-*XD
Bc@YI4-%sEJV%oaLV4o2+#rmOE)imNQt+h&CPSbXWSPJ3}!s?QfdiG_z@36LYTu5)<$=;c3Ftgr^Bl6
P_kKO?Y}|C>-c%!qbGO2~QKACOl1en(#E?X~NTlrwLE5iD8181od4a)I_L>P?Ml0K}~|11T_h264WH9
Nl<hCSr3c;#Hfi;6QkZ4j-%H6QeuIDQ4^ykMoo;G7&S3!V$>w4Nl=rZCP7VtdS@sm=xM^!gr^Bl6P_k
K&H2h{@Q?&G32GA5B&f+vlba?ty)zUJ+%&mqa?|9d$xV}+CO1uPn%p#zX(H1^rin}wndXpb#+1W6^4x
=PpruJmla?keO<J0?G-+wl(xjzHOOuvn%$O4M4SjQYF@a1InI<w#WSYn{V^%D4IdQ>Flba?tO=Oxwri
n}wnI<w#WSYn{k!d2+M5c*M6PYG5O=OzLG?8f{(;PBQWSYn{k!d2+M5c*M6PYG5O=OzLG?8i2(xjzHO
OumkPUiqh6O<+>O;DPkG(l;C(gdXmN)wbOC{0kBj5HBxBGN>pcZPz1ktQQeMw)mu@o3`F#G{EvuW5vg
G#P0!(nO?*NE4CX8Hxl(nv66VX)@Aeq{&E=ktQQeMw*N?8EG=oM5KvGGv|xaW?lwLlaVGPO-7oGG#P2
;+?UP)k0u^XJeqVg>1fi?%;_A+Xp+$+qe(`Sj3yaPGI~u%gGUpOCLT>NnqV}+XoAtK=^V&tlF=liNk)
^5CK*jKnq)M|Xp+$+qX|Y6jAqTMwdY-TNJf*4CK*jKnq)M|Xp+$+qe(`Sj3yaPFq&XA>0dIwBwTlf!h
u?4&B69F??@*ms7qp&1Se^!pBDIOah;aDY3Y}id1-BTXDB9S-Sy(p`9fBeK1+{T3d|gProS^Cof%oZJ
|eBSm_gid`|hHkIRnykm(w#&S2gYSPwz@M?DhID(`&&(OOuu+ElpT@-=PqprAbSZmS(*=jQO1_PceuS
WSX=zX=&2Zq@_tqlat;ViW5+ppfnk2GSXzEiANKUCLYb2NoY-q`-PDvB27e^J?j)knmtR|p0~?OdpTa
Do5hMJqooN-6O?98#GLsty{HsgnzS@&Y0}c9rAbSZmL@ID`D6VlDrB1TZ}Ta%Ysw6sCOo|}6hZVf;c3
Ftgr^Bl^W~;J|K-90h?^!iO>UapG`VSV)4P^c1vgD@n%p$GX>!v<raAwx+l=SjG`VSV(?q6;OcR;rkZ
B^*M5c*M6PYG5O=OzLG?8f{(|nO>&woiar9Oo_Wg%=XA(B1iFi-aS>Z<vjbgy?M7CYQDdum~BSnP1qY
rp<$Dn$g*(}btVO_Q4@H%)Gu+%&mqa?|9d*>g>?b7oH3^IzIBJ<a(?+$>hFS*&8z#Hfi;lb|L+O@f;6
G~sE&(}br9PxDM~b0!C|15cBiCO1uPn%p$GX>!x#rpZl{n<h6+ZkpUQ&-6CnG`VRa(?q6;OcR+VGEHQ
f$TX2@BGW{siA)ojCNj+-(?q6;OcR+VGEHQf$TX2@o^g*e?@A{`xM_0J<fh3@^UOL0oaX%7UDN#GX~N
T-FTJ1MfS@KpO@f*PH3@1G)Fh}$P?MnE8Hx^sn)5GjO;>Wp%tXSOi%hPsH|D|;zg}Eem|)bLe>W>RYI
4-%sL4?iqb5d8jG7oVF=}Ge#Hfi;6Qd?ZO^ljz$}~A@&c8b~9UDwdn3^m#S!!a`#Hfi;lb|L+O@f*PH
3@1G)H_4bflw2nCP7VtnglfoY7*2Ws7X+hpe8&`c$)Au=burUJ*h;fiBJ=vCP7VtnglfoY7*2Ws7X+h
pe8|0f|>+132GA5J40W<tMk65@1B1JX-t5qCQwbFnm{#yY68^+sySb+H@!VoO{#ils8hkJiB%J;CRR<
XnpicdYEspts!3IoswP!Us+v?a=ik~%teQmivTn)w(#~1Cu+?O%`Fy=Gzmr&qJm+!d=0pfk%{gV7L^X
+O64fNCIo%ggEudOJwSZ~?)dH#oREwn+MlFn5bIP<hYH`%!s6|kVpcX+bf?5Q%2x<}3BB(`Bi=Y-kEr
MDE_0DifGXEB1$ze%1QudT&OT6d5B;FEliMJ1LX}8O5$@bh~ND`8SBq2#i5|V@@AxTIQ?l7fDDN>4*B
BjW=!;~Z?Nl8+YlB6UlNlKEEWFDfVC@D&clA@(>BB;P=ans_a#Z8Nw7B?+qTFA7JX(7`>riDyv{?S2m
jpC-oP45hkbVs@)-BY?LzWLx&x~D5WC3(8iQ;Me)0)d+rH!W`ZuE1$=)8eMZO^cfrH!W^j+_aEsA=5&
pWolkVp)v{;GOZ!gqNPPki<TBGEm~T%v}kG3(xRnBON*8kD6RSD=*+B&mKH3%GZX~0w62+UJm*J=MFK
J{WLoou?IvTzO^cfrH!W^j+_bpqouP2xriDz4mKG>2P+C@%Wu{o5v_NTr(gLLgN(+=0CoN8TXDA#%X@
SxLr3Fe0lolv0P+Fk0Kxu)}0;L5?3zQZoEkt@}C>$7RG16kB#YpR#^{i?Ir3Fe0lolv0P+Fk0Kxti5k
d6!1HN`UNgabAz{b4cEVx+}L3y&5aEj(Iyw7_UF(PE;-MBfz@Ego7tv`}cF&_bbwLJNh~>oBQn;?TmO
g+mL677nd7odXXo9$GxKcxds^;-SSui-#5uEgV`nv~XzQ(88gGLkoxA843a(T0FFPXz|eEp@l*Vg%$}
d5?cJT=3j9#hc5_P5VRoZouNnopann+fEEBP09yR>dX=VVm>v#-76dH_S`f4#Xw4VlKfdQ*QN8mO6)?
15Xu;5ep#?(=h87Dg7FsN{SZJ}(!k~pg3xgI0y)zUL9JDxSanRzR#X$>$76vU0T5IZNo>x3z&?2C<$I
R`<6$dR2diCq=^ip2h%kd(yj)H|23oRB}EVNi?vCx`-c(Y(=!O()C1w)I276&a1S{Sr2XkpO8poKvTg
BAuY3|f2o2n1RPv=C?^&_bX!U)9|6JVFD576vU0TJz6d!@|O#g+XgiAHhM3gBAxZ4q6<vIA~$e!k~pg
3xgI0Eeu*1v@mF4(Av{SaM0qQ#X*aM76&a3S{Sr2XkpO8poKvTgBAuY0#kIN_Vf`}@@4g17K3HoR2Cm
)K2fF;^?EYVfI$m`76vU0S{Sr2Xw7%D7Y8j4S{$?xXd%!dphZB7fEEEQ0$K#L2xt+|BA`V;i-5i>1X}
d->PajT5NHw5f}aIH3w{>-EcjXT$NW84TJs{=^brWO5NILLLZF2}i+~mZEdp8uv<PSs&?2BU0@`!yIt
l`MXDA#HXd%!-poKt-fEEEQ0$K#L2xt+|BA`V;i+~mZt(ZOnfffQS1X>8R5NHw5BA`V;i+~mZEdp8uv
<PSs&?2BkK<^Ai0s<`rS_rfdXc5qYp9Mb)eir;J_*w9?;Ae5q;-1Al?+ir(_$=^Q+_Si6anItO#XXCA
7WXXfS=_U@XK~M(uNBt4y({`z^t0$^(a(aP1wRXZ7W^#uS@5&qXTi^cp9Mb)e%5^BZ_&@9pG7~5eir;
J_*w9?;Ag?lf}aIH3w{>-EcjXQv*72Qp&+22ML&yv7W^#uS@5&qXTi^cp9Mb)eir;J?pfTk=4|LSa?|
s)A_0LG0xbes1hfcf5zr!_ML>&y76B~+S_HHR=zWJG0f80*Ed*K!wBTpK&w`%?KMQ^q{4Drc@U!4&!O
xnrp+!H7eir>K`dRR^;Ag?lf}aIH3w{>-Ebdv{v$$t*&*GkUh9Uuc7WgdgS=_U@XK~Nsp2a<jdlvUB?
pfTkxMy+C;-2pcd=~R8<XOnGkY^#!LY{>@3wajuEaX|pvyf*Y&qAJsJnswz0rM>6S;(`HXVK20omKNE
NFE+}7V<3QS;(`HXCcq35v!i35Dwt8xMy+C;+{o2i*^?6EZSMLvuJ10&Z3<~JBxPScPI!zXMxU|e}}x
MltcpUEZSL&v+!nN#6pBc0t?&~uB-V5(re~z7_R7A@vWj*#f%Dx6yzwXQDCB&MDd400cG`FH3f3!4u!
+4#%A3yGx3>k&$N2xoimr4`H{In&4gga*XiS@+n!!_zURKCkxW6(gObf6n*}usY8KQis98L-cxK_u!k
L9L3uo5+yKu!bi)R+ktnthl+<0d3%%Ye@F$-cA#4Lze5VIg=LCk`f?=FMl^|~)T1j;OwStzqmW}(dMb
=RVUXBNpUl6lR5iZcsm-ghWEcxLg;LYaj!3uP9{ER<O&^O}K}XBN&ZoLM-taAx()9C&8&%;K5FGmB>y
$}E&wD6>#zq0EAq1u+X^7QZZhS@R8~)${KUO?8P5idhu1C}vU20+_`wi(ghx2@8&%r=7bN96hTGfLQ>
u0A>Nq0+<Cbi(MAFEOc4GvVdg)%L0}KENhN@_RJixWns(0mW3?~TNbt~YFX5>sAW;hqLxK1i&_@7ENW
S2W)9f0uw`M(!j^?C3tJYoENWTQvZ!TI%WI}c=(5mdq05?YAT4%T?6TNpvCCqY#V(6o7P>5SS?IFRWu
ePLmxV41UDkX9X<^I4mW3?~TNbt~Y+2N@sAU1m0+t0Vi&Yk@ELK^pvd+vLU}eF|f|Ug;i&Yk@ELK^Vv
Iu1n$|96SC<{&&oGdt5^RJW_oh&$6aI)ZJohcwa1e`25S#Yx8WWmXTlLaSh{tkZHJfVD7h_Vo65y~Qz
1t$wm*8J1%(>V~zdQQ66kCF)lLRo~eo<k3avJhnv$|96SD2q@Qp)5jKgt7=_5y~QzMJS6<7NM;9>-R#
G1t$wm7Mv_NS#Yx8WWmXTlLaRWP8OUjI9YJA;AG7|%wBY|;AA1mqLD=-i$)fWEE-ufvS?({$O4fCB8x
*7hpgw!zCdJw$O4fCA`3(oh%69U^Dlo-2TLQ1Miz}M8d)^5U}QaK<^Up#K^B8723ZWU7-Y>q-aTsu5L
qCyKxBc)0+IEccSQq-yfYLIAhJMYgUCxy-!!smWYfr|kxe6;MmCLX8rd|mVPwO|cTFRkMmCM?x5?|0<
dWo)<dS4bvRq_Iv7}g1EGd>0{_dscpQ-N2VM({8+tO|6wsc#%E#3CH?MmB~wiF>nNZ}}FgUAMv4I&#v
Hi&Ex*&wn(WP`{CkqsgnL^g<Q4%r;CIpm#TN>Y-PBqd2nQj(M;B}qwAE>cpo6fH$d(NdT>G>B{v*&wn
(WP`{CkqsgnL^g<Q5ZMf}8Dt~KMv#pl8$sR~J|%fd@|5H$$y1W2Bu`16l86BY*$lE7WFyE%kc}W4LB4
AS*$lE7WHZQSkj)^QK{kVI2H6a<8DulaMv#pl8$mXLyfak)46+$yGstF;%^;gWHiK*i+4!;XW7Ef`k4
+yNJT`c|GgS5DvB_gY$A*p#9UD3}bZqF@%(0ncGsk9*%^aIKHgmi)RQ1rYp<_eGhK>y#8#*?0Z0Oj`v
6*8t$7YVr9Gf}z{6ljM9UD3}bZqF@(6OOoL&t`W4IP^~Hgjy|*vzq+V>8FbjdzBso;NmcY~I+sv3X<j
#^#NU8yhz^ZfxAxxUm6Qo3^(3$Ghf@%^RCHHgD|LLCoj;c)Uob`k7-h$DT8oCW#Fm8$336yfb|LQaV8
Z9UD3}bZqF@(6OOoGsk9*%^aIKHgjy|*v#?HP!K@JhK>y#8#*?0Z0Oj~v7uu#$7YVr9Gf{db8P0=^M#
=e9UD3}bZqF@(6M=A^Ty_ljT;*`Hg0U(*toHAW8=o2FAQze*w*5W8XGk>YHZZlsId`aBgRIIjTjp-He
zhV*od(a<DH=(V2sTen=v+HY{uA(u@Pe<#zu^d7#lG*Vr<0NYijU0l_CfjV>8BPjLjIEF*aRny4YZ`!
D55O28#_A8!R?h?D<zHd%x=6+v*=LHePJJ*!%T{bgG{&HeGDG*mSY!V$;Q*FAQzG*m$w=V&lcei;WkX
E;e0ky4ZBF>0;Bx28#_A8!YyGVQ7=ZhKdap8!9$aY^K;uv6*5s#b%1l6q_kFQ*5T#OtI$+LmMhKRBWi
&P_da}GsR|#%@ms{HdAb-*i5mRVl%~Nip>=74AnnWY^c~!v6*5s#b%1l6q_kFQ*5T#OtGz@+p?=IpV|
`W&QSfEF}DdqPYY&>%@ms{HdAb-*i5mRVl%~Nip><8DK=Al*HE#cVnfA-ip><8DK<`QoY*+Aabn}d#)
*v+8z(kSY?63qsOnK-lf)*8O%j_VHc4!f*d(z@Vw1!siA@rlBsNKGh<InH>LFr7#D<6s5gQ^lL~MxI5
V0X*L&S!N4G|k6HbiWQcxR~UA!0+shKLOj8zMGDY>3zpu_0nZ#D<6s5gQ^lMC|!~&!&hC5gQ^lL~MxI
5V0X*L&S!N4G|k6HbiWQ*buQHVnf6`LsbtE8zMGDY>3zpu_0nZ#D<6s5gQ^lL~MxI5V0X*L&SH@51Su
0KWu*3{IL09^TXzc%@3O&Ha~2B*!-~hVe`WtKWu*3{IL09^TXzc%@3O&Ha~2B*!-~hVe`Z0hs_V0ANK
fR^TXzc%@3O&Ha~2B*!-~hVe`Z0hs_V0A2vU1e%So5#}AttHZ^Q&*wnD8VN=7VhD{Bd8a6d-YS`4Usb
N#YhK4<VTi(>LsbN#YriM)on;JGXY--rlu&H5F!={E!4VxM^H0=2r#HNN#4VxM^HEe3w)Uc^xQ^Tf)O
%0nGHZ^Q&*wnD0VMD`rO%0nGHZ^Q&*wnD8VN=7VhD{Bd8a6d-YS`4UsbNFIo`aH24VxM^HEe3w)Uc^x
Q^Tf)O%0nGHZ^Q&*wnD8VMD{7gOW`Rn;JGXY--rlu&H4K!v=;83>z3WFl=Dhz_3waqrygocZRB-6*en
uR@khtSz)unW`)fPn-w-IY*yH)uu);7!k(|=Y)sggurXm{!p4M+2^$kOCTvXDn6NQn1HuM`4G0?$_Iw
>@6T&8hO$eJ1HX&?6*o3eNVH3h8gbfHA5H=ueK-hq==j%9|5H=xfLfC|`31Jh$CWK80n-Df3Y(Ut6um
NF%xJGR~5Y)7wAwXNe_N*Icr8bklnE?>OCWK808xS@iY(Ut6u-Rbu4D@iY;b6nThJy_U8xA%cY&h6(u
!&$3!6t%D1e*vp5$v9Uo(47zY#P`gut8vRz~+F>0h<Fh2W$@59I!cHbHGM`-80ZLz-EBW0Gk0e0&E1>
2(S@gBfv(0jQ|?~HUew}*a)zD26_hA46qqsGr&fGP5+wyHT`S)*YvOHU(>&)e@*|I{&mklkN+C~HU4Y
**YvOHU(>&)e@*|I{x$t;`q%WY>0i^oJ~Pnczs7$J{u=x>_-pXj;IF}7gTDrU4gMPZHTY}r*Wj<u4D{
r$$zOxN27e9y8vHf*Yw*|Lufbn~zXpE|{+jtU^XoGMJ@jkl*UYb(Uo*dEe$D)v`8D%v=GV-xnO`%%W`
525`piHN{hIkT^K0hU%&(bWGrwkj&HS4AHS=rc*UYb(Uo*cxGtfi7W`525n)x;JYv$L?ubE#nzh-{T{
F?bS^K0hU%&*T3^w6)FUo*dEe$D)v`8D%v=GV-xnO`%%W`525n)x;J>*2n}eU1AX_ciWo+}F6TabJ_Z
CVfr%n)Eg4Ytq-GuSs7&XP_s2P5PSjHR)^8*QBpWUz5HjeNFnB^fl>g($}P~Nnbx_peKDz`kM4L>1)#
0q_0U|lfEW>P5PSjHR)^8*QBpWU(YebCVfr%n)Eg4Ytq-GuSs8%z9xN5`kM4L>1)#0q_0U|KWCsPeNF
nB^fl>g($}P~Nnb<0hI|eA8uB&dYslA-uNhxIXP}3C4fz`KHRNl^*L<(}Uh}=?d(HQn?=|0RzSnrK@m
|kgZXdpP(B46N2kjlSchKHJdk5_uw0F?nL3;=79kO@G-XVL3?A;k&l3bEpl3bE3NtPr_k|oKKWVy(aV
o9;2SW;{$4D^TU9jbSz-l2Mj>K&?gsNSJ^hw2@wcc|WhdI#zqsCS^=fqHj_AxTJ*lB6UlNlKEEq$DXx
x=2cqQj`=WMM+_xKUD8fy+id5)jL%0P`yL-4%ItU?@+x%^$yfKQ13v!1N9EnyE8nJ97&EON0KASk>p5
nBsr2C7kNtYl;SDHQ;Me)&#9EBBu`16lH65)sNSJ^hw2@wcc|W>dWY&AsCS^=fqDn(9jN#2P`yL-4%I
tU?@+x%^$yiLRPRu|L-h{TJ5cXHy#w_Q)H_h`&QR4;y+id5)jL%0P`yL-4%ItU?@+x%^$yfKQ13v!1N
9EnyE9bvRPRu|L-h{TJ5=vby+id5)jL%0P`v~74%9nP??Al+_3jK+J=Hr@?@+x%^$yiLRPRu|L-h{TJ
5=vLy#w_Q)H_h`K)pLdRZsN})jL%0P`yL-4%ItU?@+x%^$yiLQ13v!1N9EnJM*ti9IAJy-l2Mj>K&?g
sNSJ^hw2@wcc|W>dI#zqsCS^=fqDn(y*ohf0KEhB4$wP5?*P5S@(#;8EbpMagYpi_J1Fm<yo2%%%DXd
E^(^nOyu<Pi%R4OZu)M?a4$C_z@1VSc@(#*7DDR-WgYxbSRXxi)Ebp+q!}1QxJ1p<8yu<Pi$~!3UpuB
_f4$3<y@1VRpLsif64$C_%@36eX@(#;8Ebp+qgYpi_J1Fm<yo2%%$~!3U&QR5}yu<Pi%R4OZu)M?a4$
C_%@1VSc@(#*7DDR-WgYwQC7d$NQu)M?a4$C_%@36eX@(#;8EbpMagYpi_J1Fm<yo2%%%6oTM-eGx%<
sFuHSl(fIhvglXcUay*d57X1igzg9p?HVl9g25nsOmA^!FUJb9gKG{-obbW;~k23DBhuXhvFTIcPQSW
c!%QM8LE1WcQD?;cn9MhjCU~J!FY$_9g24--l2Gh;vI^2DBhuXcZRAS;~k85Fy6s<2jd-#cQD?ec!%O
0igzg9p?HVl9g24--kqVU$9M<h9gKG{-obbW;~k85DBhuXhvFTIcPQSWc!%O0ig#zI>M`EIcn9MhjCU
~J!FUJb9g24--l2Gh;vI^2DBhuXXU{;7@eam281G=bgYgc=I~ea^yhHI0#XA)5P`pF&4#hhZ@66vtAB
=Y}-obbW;~k85Fy6s<2jd-zcPQSWc!%O0igzg9p?GKhLF|L^4#qne?_j)x@eam281G=bL-7v9I~4Cwy
hHI0#XA)5#0>Np?_j)x@eam281G=bgYgc=I~4CwyhHI0#XA)5P`pF&PRu}$@eam281G=bgYgc=I~ea^
yhHI0#XA)5P`pF&4#hhZ@5BuB81G=bgYgc=I~ea^yo2!$#yb@6P`pF&4#hhZ?@+u$@lMP@kMR!1I~ea
^yo2!$#yc4AV7x=|4#hhZ?@+u$@eaj16z}8=^ce48yo2!$#yc4AV7!Cz4#qna?@+u$@eaj16z@>HL-9
_|K#%bb#yc4AV7!Cz4#qne?_j(`@eaj16z@>HL-7v9I~4Ea4D=Z9V7!Cz4#qne?_j)x@eam26z@>HL-
7v9I~4CwyhHI$&Ondx4#qne?_j)x@eam281G=bL-7v9I~4CwyhHI0#XA)5<P7u}?_j)x@eam281G=bg
Ygc=I~4CwyhHI0#XA)5P`pF&&irc=2jd-#cQD?;cn9MhjCU~J!FY$_9g24--l2Gh;vI^2DBh_V=rP{G
"%text.

(** Lines 13515 to 13664. *)
Definition DATA_89 : text := "cn9MhjCU~J!FUJb9gKG<-l2Gh;vI^2DBhuXhvJ?2!q9{94#qne?_j)x@eam281G=bL-7v9I~4CwyhHI
0#XA)5)C}|(?_j)x@eam281G=bgYgc=I~4CwyhHI0#XA)5P`pF&PR&4%@eam281G=bgYgc=I~ea^yhH
I0#XA)5P`pF&4#hhZ@6-(R81G=bgYgc=I~ea^yo2!$#yb@6P`pF&4#hhZ?@+u$@y`5}-NASV<NZG!+p
!75KmY{6{HqWsa_C5dx=~;!78341vG<c}VPW9Jcw#&;o)}MzC&rWFN%5q3QamZ16i<q0-k8OBVmvXP7
*C8R#uMX-@uYZCJSm<OPl_kSlj7NC=wm!Fo)}MzC&m-wiSfjEQamZ16i<pL#gpPm@oY2nF`gJtj3>qu
<NfFP7-L=D=ka;jm+Sr>;|EYn0|XQR000O8^OY7y1+&KF83O<Siv|DyGynhqaA|NaUv_0~WN&gWa%FL
KWpi|MFK}UFYhh<)b1!3PVRB?;bT4IfV{3A7a&KZ~axQRrl~he{+d2@u`&TULivu`n+=mCWFX%y5?9_
<AAlWE#GH7XK6QxLlq!K8<zC(YdZ5-fLCuzAmoS9v1yM6hg{@{KzrST{kOtS&?$Ft;t-pOsZ+O*g*&8
*x=EfgiDV3Lk1^CFcJk+B=f5sO-<)RC56BJ+-)SeYGLG9~#77|5Tpce&UxLRD33nF}wCcKEbAWA`5br
n#|)cy3vEE@<8C5#L@VY{1$zxN7UElUz~n%a_l9xR@SMtQ4go*HOxj?GqOVC5h4A%609H?YOJ|5Fwff
`-A3EZLF;5n!wPLH#Bej*65>tSfk|H3flyiO3O^nl>QmSZmBUf<wBF?Lb?MyjPN9M@zGe+SEi6<6GF8
vASbZ)Y%6#2@P4|aF*`7&d)92BW?rwA%uzg+Icvux9PL8PZC{-l1|r#!2n`M3_wL>jOPq(hpV&G?=u^
}?-F8ImlCjhgKJZ63ccJhKq#IJ`hCNkA7cF>IT9DLx*e$%r3jiVX8Dm6irrL2?t1b|bOW#L}Z?ols;^
`xOkJB`sE*@`@3#W04{vD8HwNnznP-TVo4Tu9^GDwqesEGTc@o4cF*bhgG=^)E!I7=y}d7Lgr$#NX0G
+(CkSvH7>GUk)T!OTl0pDiu{Ss6H4uoqIfgY-wV*MXoaXe*u=ZO&O@qDbHu*)@OFLuK@4uNNh+hTf7a
NgLm#XDcx~n7%jN1<GrGyBPXB>e9bGBnkaPp#>Srhq46pP#I&p)HlwD)Jcrmn@_#o&2{gen;y|JL*%`
O2GhI$xkTEnR%uN|QMJyu!aDXlYu3<@{)L}tQY$a}jpqcX8T<ME^jL%KBK5|3j9Mk~t<-!fOZF#OIGG
$yP9=aj&s~`5W5HmVJfwHO9K={hjl(KB({rx+Ejyb`u&q?9)ykD{?hrii>s+RdWr1CR$tY>Hl2|#bRm
ZU^kMZzaE{uLpKWB%pXjL86PU!0e;hkT}zA1ep`32s8ecz7G9|#t!(Ia>kwqd_Ic5<af#eWL4>}#v(1
8%r}NI$fG0#Hi>1QY-O00;o{l@>=OPoosyKmY(ZhyVaG0001RX>c!Jc4cm4Z*nhkWpQ<7b98eraA9L>
VP|D?FJow7a%5$6FJ*OOba!TQWpOTWd6k`SuO-Ei=HK5>QIfS<TWaIVKUEoJuSdcd&!Dw20<4kujn%-
#w5I81ZZ}5kr{DPfqI$g2c%)rk9QvMfDl029GUACRp3L);pZw$hw%>gC&mVof{r;m5KK%Hz54Yd^{*N
F0&+WhX?oS?mvVH!|<Mzj=7k_>6>iNs<gV$d@ZZF<!e|Y`BU%Y(zJpcao+wWh!`11MN*H7D*FJC;qdb
@p@-+Axh-K8JBdhzx}UisU{zdgQu{oUi!_WJAX?LTNUzyI;$+c#f6|L*bsYWBtJS8wvqr|(`r`A0Uqe
e(LL-v9FH@%h`wueL9Kw8j5?tLIO&_1%wot8d<JKmFimTf45vCjQ~q-`n1Q`EvV|@4neSeSGuy^tZ>a
>PbF${p#)0i!Z*<$NcG=pZzl5*|tACfBLuWlNT@l`t;)4?dMze@a^{Y_4dh+Z@+o{>VEzls+TXmczXW
yBct~9)8pgz=JnTaf5?vgYWwl^_uH4xUu{p1U%hx!&F4V8-JZYt>KCt{^7?OIfA!+)A9?HhS6}7h(Cf
F4Pv5?IH-`WG@t?NeKfcMHZvXuF>hUR`=9BNgc=_VXy!iJozI=T3=5c%eX8Vr!-hA`-k@_7S`Rwk<_P
f{FyrcW8?eRr^&b|Nk`1B^<+4_6!-QDgMpKUqUKYjj|{^x9d$Av%3PXD;Q%-MK)cjbHka0veXq+e|>U
fJw7IrjOFY%m}6hcv70i^uKzH;-R`|MFS3kl)?@^`p=K<&S^*e0%@nKX3o~{->Y5|MBO4{#AZAM>;>v
`Ky**eEVIR;8$Bd)zkA=Z-2~=X9Iuu@Y4_eC9in@Hy{1}qtE|L?|=8v=O2Ig*=O7D{`l$k{`SfHpML(
)2Y>qg`=4%~{OQwA{`lF4?`_*>kB{$$n8Ex<gZv*u{B<_@?du%LuO8n%fAR87J^G(>df#LRUw*ZH^Za
j*In7@_zDSGOp63$z?#KVHIehv0)n9$yyyWi#`m625*W0VtZ=Y>HJiSQUN$dMhvzx8_eSV*%(SP~gv+
Zd4rRT5y?PX5EXL<SWUVNQR|L*1M*H6#3-@JbFmaqQd{k(SXt?fT=V{hB`r_b`8|LVW(!;gRa|L9bH@
{kRG_@@s(|5sMTzkmPu>dQ3C=U=>htd*7qgn4}Z^!nTFix+=AwjW+U{Tr6><M#RU7e73I_21J0<sy0h
l->U%zxA4D%PYTs_2r9~`NjY7&D*!%{qiS2{P4qjk6(TN-rFC38SNL}<`qxB_$Th&dTiUzfBsL~{@(2
UZ249{&UbGeD-PZ|T7UP}n)O!O`@G+ZYsBQjea8LPwT>80{YPItKHq-(&eZALr;Pvh>vwJa;-~HB_dk
EO{kp%WQ~ES}n2-FQuX~jjW^aD+(_`-K=lQRn{d#||?MJP!AHPdS`SKs#?)euikAD0&Y>hs>++M%R_5
0>6tL)qFzx-zVCcT}WCH>H+zy0*#!Fl=1=YRg>qYvKy{a=3j(Py83`q6Lx^!Z1B{P-`QzMucAXE+$f5
59T+gw3VB{rexEbWlv<_Uv6F@BilaAO7XDkN($(c~Rup-K}%o=db^M)vvdoKBPZw&syyJvv%y~v+VTo
tj*D$rN@qE`RSD}(fQZ;Y>l?(2W#c`_Wo>~Ex(*I_^ijCUv7MwGqYxY7;7AP(HPH0pV?Z@cK*5Y4%?j
1(zr+dtL2qf-mABm&syWt^SGXkIJtE{pN+Zam(Mw>-6I|v-O4ZIw??)x_cQM~^Ts{fe7243)^=R^UUu
$TyH0Mi1^u1*uOpt#e)%AL%45>*nmG>n)qK12k{6A(p0%@a(aHzuJ=<;Bx4dEYcjounjGZsfXXD7>8#
|rueKHtVwR`Ok*$tj~^KtWAv2vv6Vlevkj9ce}=TP-HIz7rOW964~<uh{mUh8(pjvcle`}vTMv7Yt)$
cB!c`N+$+GyGQGuyN%@_gnTTpWcyX8i)OD&+-B3)0v;1j1BGf{;+uPKCkT7mGhA=iwDnnz8KYW9=zn>
ox8&r%u&8K#$u@Q4zoVcZpt2F#6u2m{?SKp<B73d7)5r0XKwq|ndj`sN^@#+?z}f?JfCJxTFW`lxx1L
(nzuM|-rCBy_ba>LsJ0xVzUM=xN%?#`)1KyWElf8*$X?|gG_jR`=9dp{!(+bd@7f=>E1S%R^y#w;M?P
Oq-@_nBK3~Vg@*#7c^45z^G`fG}nD?<5^GjpP+l-^^A>w?<p=Dj<SoW2Tw~-^Voti23d(pT3%GM4>Iw
vkCV=$qt!6Rp|t;YEFM)$kzUb({C$l1!l$}ec!Gq22%wv8MS>?a);4QbtZhiwEl!q8%8IRugSI`e^#U
j4mVJfsZ{h8C|d7fXI|cUD7V#_7jNyXj}r7hshA;)dBq+8OqU{kCrJY8_uA=WRK$_UOQ{Sj?SnZ8?pt
rD5gFco9aNgOLkNo61KDe9MdzKaw+@y{>kT{UINmc004%b9~cC^1)d+__$nx_!w8zKKQiJK^#(kxsN0
7HF(U$nD<_GcAe)#K1;eXJY0UC)xeTyhaQMQj=_xQ<mEcau4-%-OOoZ6HqK>?QjT1U93|V0{?Hk>Y?t
X|+<e?C4LsKz%Y=1&&``P)eCNPZ<h=r$YAhYcFw)NF*vo!_+WF1={>o`jm&3X^vCC{I??tz;LOf;y4E
)H&Jmh=%<&N10lc%RRnDe0B{OWuddZ+F>%FA=Y8<#Jx%sb@dV<?R)PaG(wfEAu66N*PUv3OTa?{~W+=
k3f6<`ZOBwZWNJ=8)mp(x&qc!8mwp9(=bAJPMI(&oD!v#uRv(wW{5Dra$X0SJvlZ2D1zKK>6p%gV<zD
Y$R`!mcVS~0&gpABn{B#a=N)!>(%brAF^ATE(?JrH1qj#Vgq|Pc@U;d-x(|zy!p;BZu-gXVB}aF8G`Z
-XSKT``#XFahcIvhIXx3wP3JS|zRyQPX@Gfa{<R!AoX>P!3?fV#&tB_zq$6c~o$-b1%Q-r@F}@&8+7N
rtb5}I$E&Dc%E7xw&TKuU|T-?hz#A?X6iBHmZU=IyPvoYM+4_8z^sgtspvK8D5@0g~{h#1Bv?kYRBqU
<4^Mf!FAXheybD=J4MzkjAvOaJFr36x9}kCdaW`QsSz=7-BPm+&BD<|OUaF1Y0EjyR38TnQC9PZ-;9q
Vj_aBMy8<cWSY?^p<=|s1hh-fXW3stKGyU*(8=vB*zWp<6$0oo3tsHHFwB$(ecyyug+xTgRdIUg@0mL
@N5JI+Xa{4owC!e%0^f)x&wL&jnJ)WkFvFK>K$?EgyJjj-}{lHe=I$G*+WZQlC~Utf6zDvgHJqhOieH
&LMiLQuY;6`Tmy&OoBoVd({l*&UuD1fln-f~t_Gr2Fuv1eg^R*%0T#E*sSRC2P9Es3odn8B+}^_`{h(
F5iA$KhG#&g2vz0@ZkH)g<ETQcH9CYIMIWTdM<-vMe`Sh(37Mb$~8XNOo#~oaf(LODNWd(Fdgc>xSb9
v&~5@KLZ47|Y}<5|OXaRCDz2N(SXk{Q)*;*$K9GXpqDCy@&w2Llv2#n3A!Dlccsh@~s=8I53+jwXQ{w
nV4TCG4p6mTM^2v8y3*-!!IAf)~Di(EUNU>EPc13~a*7E3IYF)e$*B)7az_j<f8cCoX9K&RoK*UP475
Ov*uwB%np$(v2qJ%fM%ViwK5$5T3jE1!rAxC}$^e3D9A?bnYOJ*-1CBRXlt`5&%PRC6JF>=YwRs!Wrg
#x`YQ`Nn5OT6PI)s^+i7hi<#A)u3^W$9NYm+%4{*n=_@Z_HsLOZn*@cNCwNc5RP#2#CH(~I1id_P2zY
p2TGt6T6B?FDI?H@;jJ-Q@`jHc_07&cF&E0O|lF5q7iP9lp8A1m`0H9+|@dl_YjVL<^Fy1w`i(8YP9Y
g{Q`<(YUBrZvi!E^#0*3`MCfv@R2=j4f$GDXYQuzVa+XAR6Djyv#5hgWEOce_CzaM(+{6CfY7m(~U7p
@YZ72_G&}JS+pxFgAS500bw3+QGy`q)~o-T+G|WvPu`3^QQM_7y;u~-Y};J8zEO@HRSR;c%;SCV9A&`
fIt5vD6eWar#Srs2yB7$7Y-MkI>8&HqabGiFCGgwFed{~hS)$^m}h><_qcVhJT~1b@eSl5q&+49P+W3
~!%YOW7Mv^N8^kx@UBm0<z_V8Iu~=N@P33oTvLABcFwfb+d|AvX!(CXnvHXaoq5#Im)EHQ`i50Hhhg+
m>OvZJ$3ocoeqHFo!sKNzAu$o5P=EX#TJI@XvJBdiAaZ}5<cm~|y9XF@A<RpazGYw-7SfOFHe2}AL;@
W5ue~SGs!bgzg7zuFri7q-3>7KWXdBX~@_tDI!PkI@qwM;RC0sd@aVp5hq%DS9T%#M-n`ue@bA+7Ntn
_w20ve`5&7v#d?T!YNaGA}f~Vt}UHX+eXPl%L{q4!?J|3obc$3_|e~hRw@0fO~1W5<HeZZf8ZY2D|Y!
+vsGz%j9rPAjYV;nIJ#&<8;~yARUYY&#jxqx}19;$)2N>)(_V)XbnGkm7U{;rVfb-y>Z`hFmL$Z<6w$
K9s<a&a|grYiTBIQ$nW7)Ph9CCqQgbwCs#->-2F{l(nz`25Mc1x!lq91y`={T>~b&|8S{1~ityOU5GN
^NKBiEB1oyhzO<a<;%31^~9Nn*y4-xE7?iEHq;ye+d1LV_27<ktYZX1-<q(hFg?DtGuGRoJwQuWu42;
pPrUK)0gQPR~kY<tcVibk08hPUG@+q?cIDoej^WWojmRCeS`MhaICi>YHC9f}KkoVY`nh+G5Nb5=+?A
MjydP*HZ48PY?pR2)Bm2)vVh!5!jboZY2i!Rj<EgT=WI5sGdI?>tOn!1Yma=!7rnOi%05B4n9Uz(5GX
Ob-TGD6pH~EXRS=W;yT<nkyPGcNYFV;Y&{a$pD9wYzdkLWO&%T$myXC?0o5t=^(~42vxZN%xxK^8~2^
y5*&Zp3Z&G;KU^T6;lG$r%&s%=mncg(nlJq_WDf1-!gTf1H4f<~m^XkES)2UIWjqFx?gvX4P$>c&@-@
aB%){Ka$Tkw1<HUCtZ<G!r=WUj~vnokXPPnS-CE;dWHpwtvpjeZ=`jdEkF-jNHND_D6ekWmM;>oFF1o
AQL2N?l2l9{z(%={E`Lv%budp;bQoZmCkfblw`#y6woL-)orM=M_%FLoae1Jtl>elQp+rp%-W#+C>QB
Y;1(UC{iyaY$UU3_J<Wv$adhz$Z4=1+0$Amc-$9iBnH}rwgI;flRbt0nOieOFE&<-*A0oO-=SAxckni
f<If6%Q+3Ln16-Vi-rgSxL)FMIzN!aJ9|i6vH&jWoN~z%85cIVW&vK(<&(vapIptn)Oe)>mGB@eVi|-
?_$}K_Oqlo=2Lk$TkTF}6#vyo;Oip=ErhPljANfjjZ|!BKbHoctlcVM>5|?z?*=_(1vE#tNK^}noZC1
$aEFEZOL4i?t7nPBa=Vb#F-J}g@H*rZbW50@#CPM^eu-fzKaZxPNBbRH37+!#$2FIC$nomeX?0}8@6T
0b+^8qf|$c2~D^{^fwIVX3^%Z@L~g*#z=H@x{qh;N{`%r|)v*AHUCjVCjs%Q#=?8+1AZ!6p>=bu5`d&
Zhxo(Igb@kUJ%fnPl<#TxJ9pe!A=-5|>Pq^~)t;h=mSbP<Tx75>r42=Q08F=Thsy(KSU+P1_r|WAeA+
f75mC4>ZmfFiFN9(qcjfWPh=d-2r0F5;VZynUG+1VcaIF?ed7AmK#4@;u6e+z&fD=5-a$mw2NQI9cGF
}^4l>i)`}~H(nUM%xzr?a2r9vL!6i-J$an||OM2bu+h$$j3>P><V2Xz+ZV)fwcwN!}Oaai0@MXIP^?-
t&k~d5l_H(kL513U5j~oZh?xb)2i?KWzG&u>vk~NK}dO&)z`Opb=c{>?i%?UHL2EsgF%hf<K+oeH?%s
bf<FrO594zs%^EnoikN?ej{fcu)hRyG3z7jKY~h2^acp9n%AOUO<*(sq9lG=Lb;puPM<I^7fhU~8l-t
cyhmf@sWPaZ-Z0gd!%#CTUn;!HnQAGJu{*rcN5ZX4SLOh4+WvYCimeV@YSq9b=)C2M&y=l}*vNvT4GM
P=Lh4wDv51GQ&Www<$h@++F%rc)4ZKut}#$d=tdG=pR3Vu~BlGqpq;449i&6ZsL-3Ry>-(>0p5kz6zL
X2H>Vk*R!zHf)VL(|G*z|+ht^?deqyyaahb-uC3`5<32mlb<}9VrFR@N{7$o4&|KS~|5=4DQsYDHp+V
jK4dUDMo?sz)vG7lZ+lM@id8P%pfx{&st3xKqx~#dhfY<a7lS*yAW0Vkv!69R{JuJuBZZ3qvHc~aPYo
zzRxlAz16&6FeqT+Fevcx5$ZpUK2ME^!yY6McLmOoCOUOM1#9>mZt;l^F@g@-w1jc-Ej^pgj}C{u|0h
RtXUa`waTgF%SLBw%w?*j<2jyW_1{d1)y5{CB(5ak`}}@Z6-f(RLvh>l5TY1yd~b3@-fHu`_)POg{}3
l*MOUx1BX{3E`i@)P@bh)zLVt&Y`V3zIX~MA1wM&OBhm&2;PAyi)qZ4S{IEv4p6S&3_8xz{NL(AcR=l
yE(dOL_()LTq-TYR0g04<$TO>5amgt^X;JCqg|#JIgQ;ZPGAIHxSt|iI4N{w<X3!$h;(K_d%ea}&f07
TGdl<Y-|H!ilwim?Zgd~J2*|6G8-!-kRFWm+C0{tB>(^d1<6PJw3x|$#q0_dR0!xc?NOD_j?i9ycV<<
}1wH-YJDx=2_L_^7!?wM!jmTID!>n*hP8EP|v-IO87<M^##cDFY#0AzsHd89_tJ^=>zDNqSu-Thz(Wi
c@98@7Bm5>QmBBptl%)Nk?P*^n5cRpB3NI+cR%G-(@WZRF7DolX7>87@Hmw=470eP(a{zlDKZ!nRzp}
ZRU?<za72=dvAb_NpWP&TADavOMq0dE|&=-(utNAevb)V5LHb!5WqBVy#|c*!=wZ`EI%KDRWnLBS?V~
m8Ig)0VH~<Qq=eLouYuWxWqtoVs@=pT{gjt;qG%2H-mu0TODvzdlO^c@Zyg3|lStOv71r@xrsA`*-~3
08FKD&|1R<<(Fz{zko}{ZAYrA3o8)@Zc5rv{*gK27{r0uBjs_`AvapW4*VO->PfYp9FTiPn_xQSH&*O
rd2P#u9E!RrF#2jziw-TrKVONiguK~)EYF(BVkKXZwpot}#}^yd05+Aw&YvV24ia&|N%wo4snmHlGxq
$d?!O**H=J(5%lQkKoE8xVrJss|?Y)DvI8;oF~O`t`6;*%?qUU1px_d}D=dmqQEtvRmh6QfQ-F>NzE$
!LCq7-K2NF<MHhJNuH0@Zr*^_U`i$qGXk=e<6yl3t`8FZX<Rua3kG9OnrL=8YaAxHWS!0jXj=cr7(uW
#N;89iy5T|=Rjf|kw1WaN51|tSw{k&{YZU$NFSw+ezkz5@Vj1<f*~A-m-}HJof=(U;W0w=a6hiBUTVx
#0+n?oH%yprL0y1w0Bz1xR$t*192(}7ro(@-rjQnPr;_ZCkSE#`duljk91ANJKFa&bmE=T~}u+ll@Qz
w^u8~!}SHoiA_VWbH&S5uQwxa0trs04s)8ofAjXMx0uD100y#11^J>|zNMK31CU#FY*I1v$9PU}!gS$
--k~r!me`V>62;qnxCxJP44eVS5vXVJIzuqgsb$=dK71Ph9+2VkFm_N*cIyX92H^l`oY?pvas>2m~1e
vS-t-3+@RrK7khvu>9m8X_q>Vm8ipdGq<}gnLnski@2^M%yd~rtHL9+cz$JBCLwq?3gOd=1MOPJaUHX
ScERl>CMCpoml}myDvd*qia}edxQ0>@vJY6h?r`^e9H`@1yfj{rnGDjzC3eJ!7QTL($sMY#6yp((0qy
x^orEUN;<)a1(U(LwjbJr&o7CRvIUc@u$Nb;}*h>xDKmr=Fgai+?s^U;}|HO2OCk-eP^;dH~uuJl32D
!`F;?IU0;34+}fW_j6f;R&CY&CLazbADZ?Y&jmKI1VnxLD{*Fb=T5pE80LOh`@(J;56l<3&`xyrR}|T
IfUXrCws5wHm9tbdVBnTUIr}N0=$h7%x1bk%RSv&S&Y1&U<`M_!3rS-WXY2SF~mac{Cp!<J8S}8GM!>
Dwv5qOfv__jfDdrSLp^5Nv5CN<uwSD9RSyqT7t+ytP5}6ES6nVKJd;NDgcQJy$o_g>qhK&`-c;K3HWF
`tFVg`9L7z0S!F@%Syplhk2p}BJFd4Q2<SqWrgE=We;4|aWqQjKG>dD+pJ6p5j4I+zfF=pWhR|RPpWZ
T`r6F~sLz4e)H*v`TS#{iD>tb$Tg36ThvTumiPVWGSnAZ9b35b}Ru_?G0POWqxQ{C&;ur8u7Yo_6bGW
Pl>P6C#X3jE^ohV6}3kxtPDF2@=sP;wQ2HcR)~RmVbZOjneByI4o~9Y&Sf!$3PQC@18oGL6D<pe%&*p
jtfU%|D=f&5Nv=FpRJn(wmy83!&S68JsCt#VDpK9PTe>yPR&!`KmaC?scJD%Zs3PtlCO@QE5Enk|+QZ
LA%M01wRW5<U`{sb)&*y8?Sjo_qr%pj4pO;YA^>6r0mAJ2%vqa^>zJFP&F*kOUUIkT@0`j3Fh5y;*wT
^2lY_^Ju}rq?qIm?oow}!E-(fIsRm@lXyqqK&-ik?^G$TG9d+11EH-%Xg=gt_|Lg*(rfz_ByyWV3jK^
rQT-!jR-Ao5@=ACDudu<r_9L1fIMW3uZOpMfj5@aYG<m1AXAqVbN9!TdiP2i^p^e}ke<B+%{zfT^Z#L
)y(#RAYwSrPneB1xK59me8NdI6uhsE{xC-wx=R5cIZ-?lqKTPKhOq2$Qtfpie$5?1tWhk}c(d!n%|cj
}l?vq>6^EcG0~KShE3&>vG;liC4TFpJ*sn)5uDtlF^hf?ScYq9~ZI?MHn}JK=<0=cP2%Q#qg{{SB8TQ
(Erqu$w85$4UDpp$#ueFe&E^$*PHYncf0T<t(F@6nN>HHN;D4Z&?rOYGh--ZJaEVzN^q1=92Q~dJ5RI
yvNLqAlVVDv2-m=U1MO^=j9#TL5hub&AxCJ&UXtlbfVzJYJ^=DSS=&YTiUyL5fNz29;D6yu8i-~birc
s=!qM4;k}!|A@B<kFe8M4%e3XAc_quHWrwzK9B1V3Jh)X>*4#h68_2Amjrg+lO^;R<CZJ<)o#KpMVy{
MaBPOO~<G&7(l;SLFBpDNUq2%8pMu4B0LL%-v_m_bdvaLIx06&8XlkKB^HxAFjLa+GH~+adaCnb<@{6
(XHzdQ3&Kmgbj>^KKWu1ow@yi$DcmatI~82xsM<2z3hB-Vj@<q(r|%A!fm_3|3yBr3*UHy$(c-V>tFI
0QA?ymrkJz9(q9D3>NsL_|?Fj3nkowI$MWO9opjPce|(SO;?65Q2B#{Ryo0LiX~IX+8z+NgZf*OVpHT
NuBSNOfLh}!{rZ9KwV^;7m)L?z(Irl0K>|O90(<Dy94c?a(}eSeTAO^n>+LY8yMBD2dtK@^hJF>1ofS
4DnNwU6#f`vZ?aCyzTFZQ<saAX)2arVN-G{o@CXH?^G1v#$;2|?a@dv_eNm8=>maNXH^bNnqrV+^PK~
A}-kl1b~zFoRQ76;!_$Jxm!W$zS`%Ox2C0X=;gs_-%WQjO1QbbzWZa-e%{h+|qe*zzxoGjSAhh^cPRI
U<a?=foupYj>D3S-<Y;(SsYF)h=}$5HU*{@8~^=2qErc+|;zIl_!6bAq(jqrc9UuQMI}JTgBr8-Rl%>
b(6SV4ng)qRf(9C!QfteWgTKRcf=r0a;P>t!B^I}=Z*b16a#Vbn643t6)j7wTnRsESrF2=%l$*Q46Lh
(dM{8*S2bVy$phUh)hCdvI{*xxkUaQn3L9g%2MQ|TP~t<lJ1oWOPo?_s`sePg%RhAMIEU{*E*y>nXm(
oC1KTv|RX@c5SjQ~ag+gha64}J#5RMnFKG3~(^T^fo04`>FL;>KG42LRVUr?j*Z7HgCy}>9dkc-lD$&
Z#jsCzZ+!U-(ddbUV3*qX)?p2X+{JBwP43I+LjvklF|vEj>8O;P!s(!G)zOGRB(YKF`sBVbrIs)R%C0
P1<1Qj^vTmk!CNVG+42?6}7_amiE-M7gFBXBVoD1^>Dfv|J)Uctlv5h94P}1t(jga&5AhJ1z%q@hE=s
K=;~Dx0|TV0I4-Yyo`ZQ+9l_Reo~VJ%1gpdCKwZ|^6*sOQtKGqYhH6={?KHnc@B_d2@!dZwPM_~jH(j
hlG!CPQ@$j<q)+y)>=)f@V=GyQ3GHlf8f;1G(|Q0)2;oV_THyX^LZLaGG${!JdQ)aRbrQAS(7kpN$7Y
z`WwPktCHhBe;kF;kvu2*a@?IPq5QDuYO#)0|@F@M{f$nvXE3LD{z2apouE|_LnTtzc{Dt1lvcoVl!W
~<7b^#a@?sb9gwZUoSq!1M0<4a8jGgUiB6ew4wL6kBTV;wII0E;6cEj6|`Z-1bBU8hX`w9}Xv-jPy3K
8R!P?g3XG$Op!B!;iQNhumvpN6G{Nj&|Dvy4Mzxuv#PDv6)`G3#N<IT(gWcG}2`bINdfuCrCes&~VpA
"%text.
