(* ===== verification/PipData11.v ===== *)
(** * The literal of the pip installer, eleventh part

    Lines 13665 to 15014 of tools/eposiotgw/get-pip.py: the characters of its literal
    [DATA] as the source has them, line breaks included. *)

From S2P Require Import Literal.

(** Lines 13665 to 13814. *)
Definition DATA_90 : text := "${x_Y&Q{eMq$Pa+w9Xp}i91(PdV?84JvyvVGnSjG!hB@DqVe#+_xPfFZCKZ={aK3tO?GGqeAbwXbsD8
ENfTV83Xe+QU2010S?Z<tJk-6CgKekv88N>_MjQy}zr*S`0`;I8GM1fyFoUQcNW0no$TT8qxa}9+Ya8
yIU<j1%V4*1d88=pxzSgIaXRG&^S|QP4+GR16?v!5RK=(R8`h)UE7x(q*7Wkgx9u8p&pV50ZiY`Ot-U
V1?Giz@a!i^4<za8ja2mJ3+B<1$Cx)M(ekGJ7+TDQ|08&Meiuue0%i&3R+tCr@f`p|*ywYzx`#mho=v
e1DnS=376*cHqATok>RWj^GIL**%%(Ng{FCX8|0!yzsK%-r+g1`*Y71bd1NC~+G)t=>&sL4_0>#^tUS
l0$cmO1JOD(;nzvCwo4Y+f^+*9%|L62@q>Gv^bV9@lBzO5flLoOfN}>JN(p^-s8Z2oU@#(fd}6;+{Iw
`aU6gd@{z`lpFxlt7lk=fb5i~#uf1?@SM94i(7i52{g?Bm;=9{@+XZw?=_$q>KEV>?>FzjS$E8%dOE?
o`EAKwgy>@E+qZ^OGbEL}?c(;ltt<8&|J@uY?b7Y#Q3S1W_E{FQXwyK_WpnDzWxVv7=5;~-&Nz_zBtl
ph|ObfO6f3*&vq0SoI+;SWKtN616-Rl$<tHHT6Q}@kiZ0azerB#QK`%KwO<(HT44Iu~1q=h?hs}6and
vzVTjxQ^c>IACOctRkQ3X;o&SdAdSU%Ug)Mfdm<3|9LK4|K2VwC=>DSPr`d9r{`_BjN=L-=Wk=X|-g<
VL&@vCKxt2W7a<R1KsO#Pw=62>93b$B6zYX>O!UiRG+3(OLvUJ#b7P3?fPkf{2k}fy*7|@C&3#gq^!5
)-oT~bQRQzj$BKg#(DDP4S-0k5zqKi{>Np3w*Eucx8AeW3CCs=rE^<~=9NjFb`PPfqAg5Cpb}2DOx^p
;QwJy}X0;CuH7)znvWoLK~s!vkBqUtgtFqcL5K$=jryo`QshN*q-hq_nw_LLt+Z4Lsazz;UdOI?P}z5
2D@h-wh}Ds!T|qq!G=yLit7-Roc%?>dFg?!IQWFtKeb?KgCf66{IF#b8kE=)#|!l+;b9T?D%B@kRGaO
`(Ubm$(TwUg-7))v-m<xu5DwRQ>=U-RMBEV+e%UlGF)R>((nD%l$a)32Ul4s5f_q*6mLUy6aD#f!MH{
G94<;si%Qj(0Gj@3wN(Kb+7IpI`uoDR1UpS$WNkmv#@}}wV-(ly}@G5JWHO-{iD+cYQ3R*oss~{(m4E
%`;Q5>jcxsd%w#%cDy2vcJHm*rrZJqBuw#Cu>;c^?B6jEibxgVvfD<-lS)0w{bLv20F5HjK2Ht+UelA
x&b;#Y_u(giSy$%XDov7U@rnH*uoyc)`5%vJfNbzUZT;d}6v(^3&DNhrGb+^07-%c!Fpar$Q3p%ttQz
4N1Y1-aY2Xj}+Ha<YIJ*b8Z=+*fj<ACmUDn+#Te*)+ge7VYu<eD7?H1{Dcp|9G<(+&cWS$=4-#&!Eib
g#?cajL;_ApqB)nUVkH4KXK!B4W~pVz#??f%^}XwJp?$tGBQHkO#Wgp-PQN+SNjp-(lgnW7yrDsy0zB
PvmHuuD7X$1pwe0h8s?<n}0y}+CgBQ?THhW+LAu8zeRMCywKk<mFP0&ZU!V0%t{rkNSgFkeg3%IC(PV
Kh79~eZ}N_;K_qQ+np=`Es%TPqzl;6_EP@lay&J|?`E_)!4Y-{>@&&H7?!esFvK9!*PO$%307>H7T>h
+g_gaG#*Sh^Wy4MZ|*LJB2nLkM^cmj4QFLre=_b?-nTg&CA#E~0PBk0q;wN7L4>nFO`!JrI+!2&rq3v
N}5!ca)SHb}H-<{3gb5FHY{#&B<nfN@Ck*72X{UgxybV(?rdJMGtO7i`79<iX*0npI=B8xnKI?vWuXB
c0Il>*sDANB2T%jKpzK|7!5&y>dmh3#^OffiN`~jHO$4<i4y?EWfg<-NYpwD7WMcPfH>=T)_!E%z|N9
q|n2yuJRf~It?GEtQ3*d&<S7Ve@}I<CZu~ExI>d9Hs(H_`hfC&bOl3)*_C+9dr^P|zZh<j1kF}Dg>zS
5Qrl)N*s>>rVVTYhNfF9r^euR2qN@7XCY!<XTiPCTj&NYs{+1KnYexjoJ&8uq8ew#x&Rqy|7fOi1j@=
>0S!U-EBUafpdonJ0#CxB_iSD(LZ4YWkIXy%xl2pi$si0b!BsJPmf_a%VPHfQOp6>7i#M~P=Y8=qLj;
^+ybpiVCC1eYynBjI`@pR9so0IGypb~zPb7$5v8+A|7ez!{<#{|B%o3N}<(kxCR=^QE1hWqN6Y@{ulw
RrcCK$T1dlkN}OhINssc29J8p3&j@1RF=8bQZ1^R~)lvnk;p!E-OgVS?-wm9WG%2ckK&3(Y+4JjT?@s
d5VncH<X_ZhGPIVnh6_fgAUc$mGg+Lq#t#3t%l|9FLj*m>LHn2W(4{j(94pMaYf<J4!6(gN35(3mp_Y
{T-A-#QTX>n_u4IEny6sqBNR3g?k+bydEAAP?WQ?7KsL^lP5Na1rn@R0@$BLfu$VimlsO!g5hyES385
A|>%bjyq*Iv#j+sGLSi`F6OOH}|#1q|XFAOU%6dP*~=4GynsoTO0ussLc+b-dnX^D~w_rRL;mOk}F_c
}ZZ<gyxl`Dmyc<yR;JEsF@lf59)&H;OLJZOiT<QFv&~yKeu0?sY0i1@|=-B<|rj-6>_DcGvUe5a1Xkl
su0FEy-m$n-atDq>nmh<V5$nmi7G0O&AtaJdlfI%RGxUAd+zN?e3{Yh>+czUC8pX&fqN7_@a9q*5;;B
5GxQJ!iaRJsBX!}J?#=^9!`ai=~0oxVjWa9=TAiO1n2Pl5>Z)!MHd2q7gW?0(fA;WZH%~ZhVXZ7xf%%
GySbE|E<NIj?zPFZDD87gkf#z*o}Gwrhh*)k`0DbRJxYgt1S-oe3!hFN5vJ;IC%V^(e0R7vZkh6W`o(
gha5+QTpJ#wk4Asx5xL{U0;>?Na7YQOySo1c-CD@PjEd|ZBgbr3v$pN*Nih0=TsdbZRmwc`c7m~F0gS
*{}^`@7Wd}IQy+NVGfu2O%e%!h<Q@(?z?nAESQ7eGxe{m$(l(7i785=`tu3DFMs1(^%8z+mQ^vgGAiC
6ZDeL!&ZLlqE2C)8HN7(7kS+Nuv_sa=+6w#lmAv#|A6Vhr3&nsv9N$Wp(*<&w^yQk)!g$6W!~AMV&Iz
>W$oQ@A%?RMyS0Z#FG%OCHycz2|3MMmgx@peAP|QS-6DZQ9bXmR`Q<MWfvxd2Zi`AW(x+XPN^XJPzPP
BHq&DJSK%{sug#U>mI@Polwec#xvS8DK`%CL_XIF|X--A8izlo-yKd@zH@==<V*c-@IoVwPY}F5vUl9
u7S=ZoRa)8B#3cX#*1&kN&NUU=^PIRvW%DhXey7L|&(%sQtiXxn=vbb3<Mo`%SgiB)4<+a9|nm2T>RH
yM6@?wxTqztI?*K+PD8bUsfVi_+-i4vW}u%kp#4c4yh#nYbXUbmwT0>rvpAv*VZ217iQr;2m8aU0z&m
U;9U0c~2kR_auGxf9*%Mtp0Y`6k;~$Ddr@L4=@jVh@+nRG*ooOp0Q;iHVFv*T3%Z^;|XVS1$&RnO!J%
2_o2#b?GGhfLz!ThcZn!z9_GCn{(HKDjuVI<?uSD$8*0x87iXHe#5MWbym9XISr=4-A!#)!0Plj7rl7
0{DZnz;~~2RH`0z_6^op%FYN)_Q+DG46}ZT4mB%Ei$%0L9IC-h@MfbYGZJnx3t=V{z9^+<2AVnWxnHc
E3OZ(%CILK$XrLPW)3>&ZbhVHegVUUWqm@<mf(wsCRoE3Qs;Ccx;A<^0{4X}HjnBC#i+s;n)CAb_Tje
-)@7mD;1!pp+|rWPn`63b>K9v%SVQE>(r7Dv>1Oeeb671C;_l2<bVU_#jg`=y;IFq<2h(Qa)Bt;W#Xb
#G&)!?fIZUEM37m7Pz_u0%3(@98b15zB3`>cNLBHK4Zp%r0R({OQwpS=kx7*Hx1;JqJTQf!>roUZgmZ
UCRRz4y8lbbhry0d`5)v90TTN#U1C-y-qA?_BzDL6B7umpr^~CGlT5j-OCER`U`nXXgApxZG`GokK$o
YbgzxPr6CULhr4jV1<Rr=WK)x%G3+{2aMRsq=GGz~1p6IIdEDo%oakP=@B^-4)#f0&uf!ZR?+VqcIx9
#Mi|OoU9wg~gY(?Fctp<d}@(<`<yIarHI7J<T=0S@f>^dq9Am1G-x21SAB3`UIZM#4Lb{`)5-7fkP3#
$~p8v(7k%O4=!VcI)n*HpIP*$s!r9v0o%szQ2X90VfwdE;MnubYBJ<rY$}ZZCi=ZK6}OP>Z_hJgVn7B
*j-%Xac2oWmODXohNppd)-)?3yOciJ}=LX0X1~<-rAWXI(4&zN<SERw|$b{_o060RP9jq5Y}-3F5Tlf
cfqyp0ucfppeZ#9Zw&`Gd^r7S@C>Y8CGILW?mQOV>tJS@OCH{_?QT@@M9xcRNt1d)iiXN=%0|j7>8>a
vxUsX&c{<g-Qrw!|Z5b{|73ZEmcG%ECx2!2UM-0Z{aVGM_zDMw0uAjTzCC|mEP9F%PXS6)`YkHz96Xj
kksPd&K5uNY|i3!M8b&E#7dGinGUOCg6&$tM()_vobXN2sIIljoF@L>67IZF<d^BgUb7wW-7smM|1V4
R-!diX%9ektUs!5ju7UEd+`W5oB|4xY=iRovkx!`+1#eo*6ZsV~taDP^G(8_H9L`-+FhCV0pvXpiq%!
}DNBIYYA7;n6Uq@aT8D@Fj=BiyA0;<VHFf22Wn$!GXv_T2X>AJZTxg!rXL}IZe(q>U_Bq-RpK4Y<<$=
`7M_1w8mJP`=AYRpRjvN-HL-=dUT69?gNMVIF7qr_TyN(-8JyqpK5W~h|e>eeqckGg6C1g^pm434|(>
q(C{3u(q*3LUZ+d#a3irt^;o(<lj}J|@O^`eraN=kRWoYQk(yh$4-IhnY2gQSugltoWjXxLw6e7-f@1
2blvSWk&t1eQjlHn5l#U5!tbDGhJZqtQ?QX0LH^2Jez9`<q^1GjgeS`ZFM7Z%!7FCN6U+}*bH<!9s8Q
w$3PvQvXUXXLMcJyli1S5)^>@4O_zbs2*X^4qG9IsLBdafEFvozY&r7MgHNorJ0!#yC5;Aufq9ucq{B
7CRT6>_#}_v9Qy&q;9iHBiG-u{=OwXk7+z_ec)=YXF8KfKBnt4@ckX%I$X+y4Q|9G)hU$nu6zMa6VUu
h?~2TOvcv@OP-qt_q04@PB}fy*x0SS7r(yHz4p`NWz4QnzI&XAgs-PbUM}I`u`28oAYO6E$EY)+6=S2
L+SOJSu3qR~m$h2AJBP7>Z$YEaI#8p|2SCVHNBl8p1u<A5?%bx7R@+aDw_oaBLqsDzM2gOgZ_1CP9)L
@Wa}TB)r>GWml}A<_IKz0k+g3OewZCPddtGkkw+P2Bu7*8KPvY$Y&0UZrIFXUTk}0yH#vE#TE*%{Pc<
pz);1b0-aI!<zfz)`p@w#el!|`PyLW@)WZl`IC!P8ynVUxPeyIuAP_d3?kQ(63ihlCS1YZ_6r?H;)>`
4penH4pDEx5+cG`Rms2EOf68q2BCuoL=KI_#NB87kLso66gV&z2F-+N*5haId*r#u>-+F5^f#HLiaj7
!?#4sQ*95kb$R?YVa)S|mbZcOr0CvEln}+RyK;G`<E|0cc`FOu>+tAm0@d(T04UFOxr2o*HY7Wfn)$k
%`{ut`<rIvqWLz~Y7yr831(&#Q<`A~w(uvi}Q0R_+KxIc;IvL-->R$LKvPM=-^Pn4d3}2;VTIgP<XWV
*piB%zFeBBL&P+|+tXR@7V0)%>ZD=#*pW(fvq9@QNX%B=N<?se|&8}w*evjva5l}%6)?Qw}7E^(-)@B
keb2M~@y_NYU%gju}j>h8y>^Yc8b)Whg`=1Lh@h{It7@FHvKj*{E|@uC#&yVRM#-mq63TIybxtH)jbh
exj?R`6`h`hYYM`$bB-LHsmA@dW0#T4gmXe)(>feZp5=&SVd7%w!|XrDn7)Pej(l+#0qdNl7S%v!%Cj
tBUKV)*HIlDQo88)atalX<7*K<qoV(dQ=hAs0Ql+on_q~ajla8R+X-TGkmkZ;95^Pag(9-1GxXrKEQd
u@F3*kY~)*|+FV}Y2QDlS;JbED=go;?Fb@0c31`e36B<fDRM*s@ZI;z_IiO8Kwx=?7S9#&orS8?E#61
@U#&n@0TJA=Ik(q8SRNGI^F^}>it{P^9NVhy+baz)m+3&E9qwLW0rpRtcMViOxlcG=0b=W=LKq3RI;_
)EMBQ+0?snXa<aBDvfXQSo1AS`(90clTHJ1Zv)&$ZyWx)mVs?<990;ZeG^8x>{vuD}Y+R{QlhNh$LHH
@qn^uevm?o#Fx;5*T}|0H(m7Vm4*YVPyckb9rceyW0hqH2DY0``zPkPTd>%Ub$X!3Al8nPW96ahXc<%
oHi+(@I0uyUCu8d>1v3a*CkGcia-3BfI7j5u<P+{?$xCJ=E0E7ut>hE#OJC8?snlz;CB{P@#e`OFopd
x3QOP;^9;6Xo}sgvXJsSFA4_Lx_+s)#)ulPeA>$@{;N409fjMfY6zr068aH2|a~W>)fFYa4Z7tbDJL|
yK-Nvh3bgvy0*=wMdvw+KS`AIPPJ13x)!@Ub?U);23SyUM=g?P_!yGmEVChPPM?!)%SEvOtSmtxo3L{
hOlV##gi9x~@C#U6fuq`9Fu@9eH$6iC;te_(5D`UlUl5EHuOg#^sFf^`#77@6)-{2U83{gnfwrL3KTS
dXt5rPpBFVaEA75r`$M_{oztJ)uty?$pkRLv>yp<&35&_@2W;7}w3$ekXRAJ&fI-C&6vG1M8B_^{_~P
rGw(IiY;T#;XZ7Zt0%g+o5O{LDz@$I9tU)<RFs#sSMupTT~_|o%%Pb=_YeZZ(CQq)6CdIMT$!6rA?!v
keKq?_9$Eo`OZ(Be8+P%v#zTR$KW^bsj&)a?q}t_vbP<)PwDLma@(%&28St3_7da^O3=amw?+k;+eFm
(*=YzzYDB+3t<b@sZIow*a=G|ZPCCl<}9TM)zq=P%Ka1Zb0vZAYiG>;dzQshQDq!%HlCfB{6ce{y8f)
sYBeIZeqZb-Gte3;|A8<eE4&J0g$39_p(>L*D29_ifW&k2-&K=;~B&OCC!Q-ZoG!2DL!dBLimEn=KXj
c`)LQb;tAIipJP>GI)fy`g*U?h&+B3<jC<%Gh*wk2t$1V)qyg1+-8PQ=v*@S{kj%4xfxj@rY=*avV&h
31}XE;BT5tPij%N>n5!<q5#aq?zxubA8c122M{vTsr|gDc4*fwcqN0Un15OQgV3q&d!-|y29!~vU;)_
`(x4O)WAAr=2lFOl2{(e+JPHPaB9R$SM2X?ildZl2=*ig%AW1WO4N1y6CG>9BI?nF7d?2vHHXLs6Kz#
EItf@#9eqCAyE>!(I)KYi~6rOnY;^nBqW`8{+gHSO%4${VlFO2zVKFw`B&Qx**zcZaEVYUZ>dz#RlZ=
!ph>dZY>#S$wlQ1=J{H%Onx&4a=7gc5uwg}K<>u_o20lX9cv?I+Q_4o^3|ToQrRNDYRjLs_t{^e2MMc
csdmX*`NrA(I@5>8cM=Z(tmldoy;Aszhm5OrehP<X+S41DjS(E_1GD^)yX`i#38ehZB;S`lfqS)b+YW
!Shyd64NGSeZ8xX%M1qgIQ<H?RA*(m-SKXBGH+A6M3J1aBzCvuHR}w}dXh2W2X0i9G+`S3)r-kUdt{S
D%DZ+wzeJyO_{``nJ<OGR!B<bD!m;bw$R%*@Apu6|Z7S*tH9GD)DE;K}yjPgx@Qh}~y|v>J#+2g3R4X
5zMJ`i$@$_1)i{o&ReQ^`#-7e><LF)y{Z<y_drfZUFSaK}Oh@k`Yx>YHXowXL`50Cg`I^`eGz0R%@K+
t}<nTcs{x*VUB5j@@O$nv}VVKxSX-S}>C_gs0!SMU58y4NO$QRnPC7$yq!yCt?u+=2$(9a?$fdInM<R
|sGgwRn%(e@x1fxY|jnZn44WWZX`!v|Ec$i6LZ0^Qad$?U_k3XiIYzMc?g$O9YFOZYHx+rIf{Y&-HbB
G^{$83fFMiI5Vgh>;7^RHN?`{fCTxSE0q0;ZN$}!$u17XbA9bEv+Dc?&)|CZ+;I;r>i&kEAKc^1K4Ea
zgt?eyp@2H;EpWHt>EWK8zVzmrbMOovSknA5KEwD{c?+R9{n=t@fe8fmc}PbPFVrpo!RPLw9E}Gz`q+
kgaLR|5)2LzBdLx45I)*re+Y3}aL1}&hRvVllN32o>U>q(pBcBULQw?R46jV7|gnzYam*2-B+vWskR2
}dNZXC_<7?uZQu3-_vGc-NX#beXavW!{hgPWHwzH;}MeZpt?81lWt!(=_E6S#yMB99CYt?YHBFE-A!g
g?kLc@Ml(`~w#Hu!Z^=gFWG<)!7vOq?<p1L|2<9%NPRfr3ZrhfiHs>ApN|@0bGJ?YwLwK>@@JFd5k^&
?DB>bCsd+&^0xSe8R1O7s6hk2wBo`2WzL^`__xQWAK!lS;?-ZbFCJgM{(&Fsea)}SZZBTFeSCU+^VXl
a{p#`U<Cp%#=y%^gefRp!V`i%A;4Bk_{r2ZnoD_fkh}(5N00T;XO67a*5=A)6I@X(|exDdd&-jHxcwp
-XgAweEho__g?{Hw@QI&woU{hqUDJG!NgTtwU-K)X2pJ>I*2Z~u<c!$deeH&akxDwQfkSwS>1&n`yS%
L~?u-77x>j!G$fTxI7J5>Y4EHC*EZmT(o2Umh<AfSQ@S5U=@<~SVO>*NYTaXkZAyJ;;|`3MxVyzmZJY
LYlXeKW2v@DD*y4v5i!ybpB$fp{;Fy#!!9sGvrx6ZZqfEHAvnmBE!RIeZ7j_dr7&h=7AUGANNn4LmEA
5F1UKVwJbrAs;AadEuSB5+zo^tp%E)KwT5iH~~rz#313a!kmK$8ic~2S{szDqF1B|6tleW4p(AR$N_?
ieNb`_%HV<T3W}{kbu}mu23cEB-3V#~0bv%sPVNa5v%KUx*a{p`z_|ouNWcjMkSjn%K`aSkN#OVc4m;
p~gA^}7>CtQFMxdDGg?G3TTY>)!n9YF247kgHZ4B7MfbR?Fw17zqc(H(#3MixKRRIbVv%K&QS7IyV|3
R`IWa2?49;DYn+8iW1L9!KOFhSlBqyPaTk6xKnpqS-_ceoN;5srdH12`BU!4NKicLMYhpqBtx1ehW~4
FLd%e%<qSF>lz4{s#qLpsx!gQh`b%C@Tjg%K#t;ST_Kx0l5%R3PD;Mq*yU3LkkqMVXB2!54=rq0$1?6
H^IrsL8&>|bQ*>mgaJWOAQ0vT(!M~G5XceY-U%EiW_jTquEbW@hZi{4fQ$$Vu)%R_!N#6IWF4G56%<E
;gKmNo5Q5FRF>cR|VwM-);Yw@;kwsA54eGK%!8oWT2IPIf=7yOOu_0h&f(;j8c6I+kR-l;Wg?G3TTcH
jY)Tsg$Z6J9K08XF+4Ag7^ITz@d0=ZJaQU@in7^R2{6tleW4p(9;RF;COMZnAlWN^Us1|(s??FFP;z_
JB|QozFm>`RQe=j~$Nuod$9Fi$5t4^v*U(jaRKQzsIeAR`D-5kWkRn*_>0h#9k#Yk^{x7v5RC1TS2Pj
gSon>f>PhL_p66XUqi0zyu1N;5?8(FBcql5wjFffnt^y-r-7Y#e@RkXppuC;)0+!9aIg1a$Hc+2>@Zh
p#&*buq`|8ljZ}(EHAvnmDmcqeuMqD!T#G|A8WATEl|k?J2ZnmhrzDGKuZ$Ti~`j~sFkE$m=;p9puii
bhXR#NP|pc!XaRv4WM}~u6!JT87-0rXJPuUHfxI<lDUt)lEHC*Ewt|i_pcDc*W1u|@6m)_7Cy?ZXX$(
c@0AU9u;h@eM)EwhJnK@9*^1?e@iLIC(kl2Kz3=k%O0wK9U-W#MWVe$ab3xH4{LW|=@j3{P#;hn+D<m
KSy<Yn;^yl^Ep0>cnOY5}jH4qy}Fm!lZ;Krzb;?{FoyLPa|$ItNwbfM^VgtwD`6sD}mx!k`2g6#N3RK
Pa=sapMvcv%K&QS7IwL{sCDTu;l@n7jR_(5f)@z0q_q<;DG21xX6HpjN`^7C}w%dcd!)*qX0gKTn=na
z^VkSO2BXgY(~HsgcJc;e2}pR*>fB>E<rKN3-53xwnC~Gq<TR%7Gz^#)<p6Wq%1)y5+)v`8$r4e<OXr
vxCF&)h$6v+fmSCF-2|eAppX`Dq9LU~u{Ws92Gyyco)naZf^tSsD2U_6B`9Wj;hnq^);{2&gXAorUIQ
jHAov2BETqIBc>-!DNEm~pFHADd8<(J%<%M^+5?hfPgw_jo9tC>OpfnzwauOU^66}!-G^>F)GsxJ3^e
^sTObZmVyyQFB3I&5e!yDAZg35D1Py|3aP?H5Ri=h4%@Q6X`AMAGuWc_j8xCF&4FTBH**b1eYV9#Gru
@4gvPF)DjQwVk_1&1F5l8S%~5B3@dJ7wd%aS4i9UU-Kqu@!_2fi@zj0SEP@pvDuVZb5PuBvC<?FxaFT
h^hkGAkG_?pqS-_ceoN;K~o-R7(&_!ekIty6YQ=D_S6KMX99*dq)pi|5o~3Mdj~+EnB|3cxDs2T0uxY
vflMb*WCRL>pd=lXF@qXcz}5#8ULX+*O180XT!LbjmwX3XK|2u01_GuzARK}kbWp7f3Y9^9F{s=HmAj
C+fL{-&^;kD9K{3k<?{Foy0worZSOEbPq?JLc7iLQ+27(%RK-mPfwx9+R@ay@~erCIgOCEl*ef{$Jzd
gn;Guiw1=MVn}P)h>@6aWAK2mtey7Dp|jI8+$}004{z001-q003}la4%nWWo~3|axZdaadl;LbaO9oV
Pk7yXJvCQV`yP=WMy<OWp!h8cW`oVVr6nJaCwzfU2ob-5Pj!YjLHj<h#Oj6scqB;<3NfoU&5d$PiV2n
u<Cl(+FcU4zrJU|khURG>nD45=Il9V#?x+JeyBgVA5CdIN(R$(K>hJ7`Jdj%ZMWLA+%e6p+)6DJB_?N
*j!N@GDkUOgx0E3kwN9xcExknM9Y3)$6<aa|`3o4xpR#wEs2HKL+-sQ$FO7Eiw3V@k4*=8L*ke4iEIj
A5sSk*+uM#$3RW+{KdFmur)cgGT6Cf_8M-(eXi;(MR!H(?{=SL-p(ca3<-W%I-S6>hznh5)y=2C5~Ea
{rS(33Ybul>&GMn9}ka$|+9gG+^FCT9x&3}Uxbn>}ShljU5xBRq`oBy|4XSk#v$mqi^yd!0j0VC~tK?
&RV9bVXx!U`qF_*+R{Hzfm$n@mOZ89g}cWg_zsDI5iAJ(uN2P4d4&%-V#fkhr6HHIz;G0)H~hQAa==E
>IfhBqnlMIyaMT(6uMzgm7!A?Jb00slhg;?9n8lI5TW!Lb3_}az2jo9x<EiKJ&cy$W~(K|(?@!U7mIk
he7r?2ti~xCctnzAr6hnM%L?slFbBY7ut>h4BJPjIqvd0uKO8NmgEXb#Y(X*2<Hd56tj6(z=BvegmJT
AKl=<XwaPyMOXO9a&mIhYl?1faW(f)`AJ1|r^?ZgwK(HTq36bbw!RsBz0R7P(Pf>H9~=q<^DwDDbfwi
45W`Fqu0puBXri?Pq5F8$X-lF;83dXS=gC<{Ojl`*zUedBycoy4fU`Oxd#T=zcS^oUj|B5yr3nBM*68
fmv$g*7Eb<tEz+>)2P;Y@i<v48PH2ue|Kno)es=?B|EmrUv^(>aFt_wo+s}srgiv98S`3GC7`{N&s^n
yfD>G!C;jvAMSoRh_R4rhh=o8=Un+)b~>40U#V6rQ^L7p>`1S3nKiZrmIWrGp!Hf}=d9Nq$Es-J;kjH
G{hof#4qwr_Y{X9J>jmANU%9?2eWmyZtpED98=XH8EOw(u@GNZ0e%&;3twqUy3bgF^R?|D&aJ_tZ*ZK
)iO9KQH000080P~d=M>&o34eLSx0IQ4u05bpp0B~t=FJE?LZe(wAFLGsZb!BsOb1!gVV{2h&WpgiMXk
l_>WppoRVlp!^GG=mRaV~Iqm7QIW9mkQT@6WF&Kv=*A+Hz%PL{`-pvw$Sa9%5ukpkxfZHwHzvtj17mO
_Q>r`Slymlhk^F@c_HJpvXSw)X9(dc;k&Xvp@LYAOE*~{ORwXeZGD6?2}JF|LW82<IleM<X^Y{=Di=>
"%text.

(** Lines 13815 to 13964. *)
Definition DATA_91 : text := "KG?qg?tc5?>ESOAZ(h9KK6!j~zdgL&{_yyp53gUpsDFR|{f}=RUcPwu__V!z{c!*0-S)EH^Wp91k3M_
z@a~~L`P=)y-oJkQ;r?lR{C0cy51v`?|NQ>l+m|nXxc|Q%`|$YYZT<7<hsP)XQ4ij}e0*9zfBAI(;@$
nL?VF!`;(z_B7f(Fvho9=JzI(U*;*(!)?Yho-#6NudhucT5UvJNO@7wM9{oDJezuv!EGx_B4&AX?EZ+
@(4{^IQ~|EYemZGU+2^zYl353m37^zi-mtF1=(ZhQB*efiV7?;hX0pMNdY>xXZiUOfH8s(t%(f4{wb{
Px}7YGA+FetP_Id->wc_H_U1;q7{SEyTO+#hX{ZetfFWfB*RE;oG11(T{Il)pQv3yZfi_-~POYzyJJ?
+h_N0Yoy!n@88@%)oi}}@tfBVFYCjfJ-obs^Y(sw@pk)xpS}I=?<@5?2J+SWfo#8ftjD{$zuE2|>UF;
RulG-H>nB_Pu>JgP@1J<L)n5PN#XH7dyZHkj{ACULr|os^#?#NA{O}(x!QW^4YI}I&W527lufNm-Yod
QEv)aD7-+p|1|Lu>j@9GKl-tFI>ef=+A{PFAUqtE}e{o6;+pMUiE*MIs=y|-4nUakFGPkQ+NhcdxeTg
~d}#hZ6O)xhfkfB5wIC;w8P_~_$jpFR8fPmKO|&%XZr)33hTe)q-m?W66>kDh=1?2|u!_R;h0%RfH<@
{6xN{czj9y1)N<iCN5lw8;NwiNCE!e*ai2`Re}Ni-*^5*VO-1+xxZ#`1;lM-HX58*EYYre<+LEUX+Xc
@YDa-9=?8j^B3n^ANl)&{$_jlc6;;q?r!_r(?i)#S>J!z-FnL3_xG-h{^f^vTef=Bi#PxNy0+k}`uOi
2zO6_9?)Bs2)7|#*<J)(<^$#D_XZPOP{;M|jwrzj>s($j{{kMJk`EUOpgUScDdhqW*?xXcuwzu!_i~s
nsLdWZ$*!Nf4%kN%1y?BW&y?gP^>-*(_^)n_|llzY^o?iX@+ICl;e*Av>?my=-2M^AA>h`N&{m*Ux@V
NM!f2kMR-sAlXSAYLP8}&lp<NW!B^Zg6^tQYE$>xK5=zW@9}cR0^p-4i-~wq`u#IZM3#vtQRn{`wc~S
MUG&%lhe9gLq!fUBmsaAAD2qVd%f!eld>B3MlojU;4O~$MU70eyEW655M)rH#kDi|AAGlu|2*iPks9i
fBOE%m)~vQRa`TMl%qZW?ep7h?ZBVE{?nJwKKbagKmYdGS6@GW_VFLTe)h%Ze}4W^{m(DI{{F^~KK|^
}KY#V?e|^eyj=BH*3S0B_<KH*tpSNG!+C19bcEokpBF0@GGw#OK>yL9k>YrohpY5(4d;KhCy=7kY&us
pYWur&G8?AoU`<{2VdO|(0*Asf?dAG$;k3Q<%+f^SPZT9+E?02!x{jOd0k$%ltf5dS&^4#nB{Ozizj5
B&Yu(thfJLh#5y@s@12k$w~yPVz6)i+%^Yy9<1Q6_@h)L8RkaOZi~YS?%E>@}0vue;mUgE#WZQLnV~s
7dYhrR_L^kJQZ0Htx0>&Rwhb@T?l^UQcaV<BF5->`~93HJDn%F>7Y6W_F%6+kVa(X4Vt3#??o!`8eBN
j~Oj$Ehf)zXV#F8`r<KbVrSN?4D(j&Rm&3nWHEX@VXqM$qt<z^5BHilFPt^5TDfsCiBWUfM$KvLSAA?
}k4AlG&7n4BYuWGGJnO4+)EkdcGs~>MZOMS^(f#W6owcy_IhKY+s=3!=X02=O(Ov^iHod;{R+G(oV?8
xG286{#y@@d-yFBkAc>ZY2yOydmy=|-Y8uizjPQPk!gT*~Gn;Q1${1Nrx#`o1|YKeQR<-;b*1_Fzz(d
=h^UF@|MM{Qp13{Nc!N#<D#Iqq&_ufdklH@=?1G4>Oiz{FczHN7l5EXSxPv@*Og(-pvgu+p^&&CP4Ih
FOo<23uX>rao66X$LE?*92<6YkD2~t*^R^+DJB-eXC_C6X<+)ut?=rwf30J$zwF#dUV@sXM!Qs_Dl?~
zL{<9?;W$=+%&w7VY4)~O7+?LrZVi>l-dP$Z`9W})@xoY#(@Xmt+SS8T=lmxds)M%7s{h*5+}=W)$)~
X*4MR;Q?z<uXMbvyFyf1;Ob1sJh^y9O!-#`#a)S^4R{PKUlE>7u5`WmsfVSxfG06%EHHL%5J}>^Mf8)
24O*zUs$|5l(JiW7nd#|D6tQ7%j1$G>tpOx8QtGI0CzxtN5oUq|x0}rV2Pofkr?0gQNWT{%Ray#FCoc
Mfwd(@)UrkwS18394XU8n`xMr}aUWAAdu#96*UaHzOh<C>EpVCMv++zB*UepD8R9kz@8C|fF{V&zV}s
Rp-g#K@hcnq?DhFYhd0!Y6Aq6;rS_0_=uGUii#j)>giZgV%=O^amrXKLW2#OluHK+u_dFG7Ljz!-{-9
f$SvOu);kJU(r}ycJ!*rmxY%HkJFf6e_Ul>We&`d0psb7NMA9GC!B6d#gCnB)R!y24K{$O3@oi4SRRH
$FwvtHvJA$@G-71%b$CC|KQM$NeKf-?w<<d%EF}|7{4vY4+Eu$ymexp8^|NS34dWHdTuW7pR8MVe`eY
$5a~5`3?!g!?ERDf2?@kgNeDlza8+q(xtr>9BjU%y0+!2p0Cmd{JJ#Y~7%WMn|7k<lBb|Tk-C-Tj)*9
zp&oa?D<PhfcEiG(?3axwXH5FBbuWi}cC6VONJX#gzy+S!yCxY<qsXK5zcYp^sY`*G9`#*UZG6JKuZ&
)jQ8Mr~$AsX^YvCa~Ye3&$WPmkSMo`q1Wj<(>*fja4t(2|l}L7`|#Mt}YR&Y28<S{YH+j_w0B8(T22h
)kn65?VO1*vJ6b8Qd=hu1Oc|bFU~TpK``p1{C?=S1WMny*Orwz)ml%&+~Aw)huFy^@AEz~W&?_hgAh8
C4Pej6F6G7KeIgPoTz<ur*-YHOLK=~Tb=`qF7vP0(RZ#<926k-3$L%Q3Y3@G&s*_Ge$01Jlo3PsW68x
_-r?|>W8`-6q0;W^$<`0}C7#Cr+0yw$*a=q$}&a4x$NrIInl9*3~BXeA3*iFy_jHwYO=&O-xE88^oyL
N#mFeJ9HCQ9nS7`JW5^@J?s*G2%Z&{Rf5kSdeAl{K0T43Z=VJa`a2C);zKqBeGcNfE`%^G;%ZeG@xh{
z1qgu91vymHG?`<Y2t@BCk!o8WTSaiYMrZg~TCh<p_9$%raAa1_Uq(#P#Z}A~9J5L+9mAoDN`9!8FYB
BI^+$%4uq%WerWssvN_r)X&Hb6()?!-K<CIAR2&WJ0@Qy0aOS#6T@En*f2|s@f6z-bnA=Tg=KY8QN<>
FnP5kxtoLAA-FQ_~xlF$`kVXtErxV&@UPg%KmI3?9<jTa@w;KO#W3~+stC%8EF_96-7)`reL+r%3W<1
=*Z-6mB7DkOpVyp+28STU-b{SkY2r37ecapF>k!2hBWXHN$m8k>Z4*<u}fupC!h+!8hWaBEn2PR%A%~
-LM#mS5Ws9w*ifJ%f&-`sh^AhqJQjkP|(JN0VWA-0rd3AG&u1qTygqNKi|(-ZspFgjzURexaTe5`&}3
(4PVPPL1e4O_UeRFx4Jp&7!e;}Ehk;0vHVnS7aBeU^z%Z46jR`p`u|owuQv6FWBM-I{2X%>>#u7No{c
2o*))veypm!#F5`S`b+3J!Oa1DM?^U;&dktt?j`bcf3giFl(1L9@xziQ#1^u2-meXJ-TqA7W~%uv+_Q
6f11)jFIG*Abz)x?1PBCV4b0{+K^TxQUt)I+i>Kntoe<h72sYkWSc$aVbWcL9lVTUN?n$CIot%@<L<+
m8)OOMbW>R?>!vn&UBOMraZSXlTXHvP5{t}xV7LSaTB$dg$LAvJe-C}4r+EASi7FM*~*nq3TSLHtv<x
YgCtthZZdDy8a(oz7gt4~y322rM=gNSXooMDYfJ_js|+AcO~cLVqXbFQ7C0<KTQWR4ARf3l>c{6UPY@
YT$9)SE<+296n)eiwxazD5C4PFVjmsOS~Kj2$~X4j=8;H3}b=op9f&0y-br4x#RjIRi&mI>AbJYjjq)
5&`uSCc!YbDVVGg21u@=MhC}GpB)5n61|wK{t9N<K^zQjcdG~K5YQklo?<`payRQ;l&um28u3C2xEV3
IpdvViluTu-om=yCY7kP`ARiTCW#<7)gGDP3#smpfF-@>ygT}gwObkO*tsN6dcV0BX`jh%D)&g`_@sN
spkh#VRdr4t}{hpYXU<21a@ikC-2QZhJLtU^c*iKcS9pm7E)Rx;taG15XWf#;%R9CPAHBl^?5PguLfk
Tb;=~R%7gqnPDX9sJFjZLYw8OG6JDGNgDIPV7R02fy_#He__IP$=VPu@HZB0B-^<jn!ivUQyvJ|;y+i
xmMWo+caC5UU+7^CdDF&_u*|92$sJ^Q4vxYCSe7Nbe&g9zr@p4u$AU<f;v4Tlr!NzU?yQJ24g)%c7VI
vUXwY8q!7$TE(?^lmcHYXpuuo+d-HI$Oq6<#)v0&TtRk&dVEseQ14f8fI%Sk)rRsOmL)Bk>vID%*)Z`
<>gBA#1-YmZL7UJsuow!@azFC&WPh@|kkoL77xGgB;sg1{ZaN{|1|@vWhtg>WtxW21+%d53lkhbg*_f
0-vTm$E**!x7EXC;t!$S~!v_2Ac=VMJ=)IgmFG3>zgDm_wm15)5)DiU|<BBo5XKSfoIFrmc{t$~z0S=
`G)gz@7AfU4VenbNvzNH%W5X3P{+rIqex1Smjwz~M4epG6}lLUV1Wl_suN!AORXVe%2?T@RJtBajX2a
Y{?9VTd}3Ye~MiE-PoMVrtyuB#nYr2Q1Pi4(o)M!^q{zQR@Lu<0O<{12=}2V$mvJ5Pb9u;e&}DL@;pU
(M9gN?hm<1I38Lg`6Fd;h*xd5nkGXBOrl|E!Hn{hxFpWBKJZ~M+et1G$X}3MJ2rg~r)S0KGN1|2hF6(
#Odu0NS|lmpYPzQ&2oI3hBHDDTnpGq4PoKcj;N+VYa}H5Cae)v3fd}B+De16wt=2_b`%OHA6t(2VUAm
O-3OOwO!MgUv@nS&alzs@en92Y{9EL)exIrEOP1ep!Vi0ZkrZYvSwXPTLE+oR=HY$%YY|6Yrd5CLl*n
MBb9PHnIN=CT?2SJNufLG+ex0t-f*aY7MhYm@-kw3;EhLoxTVh}5;^bTO48HWWK764WrqrMJcH?7nlY
>$8yIdFA|rwv}BK1a=d34$nr!}1(BCkqx#ba89edILkiUPITTqQ{nk61!7@ZLskTsM{&Pb94)9m|gw$
5)hokL%s>x12jM6yD34-mkHKQD1zPZ1nbiQQ_Us0=zv%zNd=sB13y=IKZ!dsS7vDQ0KtK0bzKqayMf=
@V$VdwP^R!)1uiU8`R7Uo;1N&`WJEbW-rqzHau8FTZ>3I|gs(}pQchL1D4r@q0J5~cz=gnz{0&9A%G(
3pMy9Mm-WWUNtl?YB<_=tnP$g+hc)X<GQ=*I{i*HfK)k2D*re;ItCH|&$3Z~2RTNhn)sW+ZVfMrt#P_
4EaOE!ivgri<f0cVGU-v}ig6xt<I7tI1xpgmEE(rS^0!{xVQMT7v-VQmUuLfoNvxYb^}ALX*}`5jBHU
0|uG6f7Bm_ycIwL_VaZ5k?I%8UcJGkpzZ(t6(J9$H<7-bJ0d1W+RK80``$zZe+q3?l(jLacyIz+E|=M
MeI(*8}QooEkH1WofPn83b@$sL%xTls--E5AW#z7FGzM^emw=>4XFE#bq36KIKa+|S9ULNT_(5#rGZ=
fu-er?fm^cBw5?9LE>m4#*tU3Nk%&7rdDAqJp5!xmBc|G6KnkGQV#Dyv(5H+Ce?Xi}>lARzfX`1nC4h
zlj;2isD&lA}QL^8ignE$tj|)GN#IWwQ_f~@eaLRL0Osp7#e~_f0dip6#4Duba7M&uHCEY|J01o)1W<
P7Ob23fTVl_Qn56&GXal>r3X^5sgNRrKA8N3{hn9{7hi8c~!P*ofJVdVi_${<X!GPE=z3mJ54vN}_On
17NWE|@Wh*bOYZ*@@t1Ro)WwFHtUOlvYgzJ2Q|Z0O66K`#$arN*OsIa?fr-2ByQIX(*O2+Z&~zF`J!+
90C*@)u)DGtdO1|UtBsg*yaMu(zGeq1fUrrSh-b3h?%z2^vhT;{QD$M2VjguIly!QU>@)sL-5)$>`|l
6W^kYy?PQ29DKok_oWP0aCl5RzPAKNbu20H98Rl%&&`!evIuYX5F`f=8X%t_T*JzeZNor<`DJ9%F)pb
Qn>Np@IwQ9vSNfH3<uq35HL#}8vAS!i0y|Mqt)JGwL{2A_I?}tp%+G=2uZo9OEjgVS6(n8hC65|IB2R
vo5TbG}l*0T_?i|qxx;t-TAsVR+B;1d@x`;Zk$$iYq*O`?WQa3?vJF-p@jd4dnIXy_zFn@-PQ+X#w);
|j!tOrlNOEhccYX=bF2#VZY7vmBaKj#n73%s7zv5n3rk@?pc05VO{>+395KgJs#Mv(sL$bYI8m?OLzy
+CluViDp`mKLlennmcVx*%3<R8=YZ)0cTUTcg1P^gVZ-c98Hw4Taek0mCu98Cod22;VM!2h%_DqYsER
3@Oo<C3svw@L0)z~3<UVHq;!{YwD+Sg!+?;;dKY2JWOUo$*fi6lJ}a9BqXK_%(aH+Q7vLgSBjmKx!2@
>;Rt$VCN(h`U4`s2^HD_|9_*04>q-#$Yl4syn116?ye^mj=KuFG)IbJih6t_o6CM03gtq2hZJj$?%-A
y($4$=nGpiW`sDlyhq;R|Kv1aL(d^s?w4HKO2PH7hg$E+-8W_9I9TfSv~LJHVf}E*RLIPZQ<RhaqUuJ
nr2PDt%ne8+i4=XdAB4D4hlj^M;P19FsK!nshrKyFv|KCI-~*2{VyB;3PoLfWrz<!XN;40Br$GaswlB
$^jizX@Z%tRKa3U$9LP?W5`$0BtJ|sN&@hLgZM#EJSnz_E}KM9^JRJ<O#nh|S)rW>1UsOPLZlUB9H_}
2ixao}wD`3~ATI06W4HZbi9!fH7@@=;3D3@ESpSn9p`Bx~u`p2RI~qWuM!?_pl>#vAL-41x0Ixgc81Y
+`F}(Y*ldVQ3><8fmrar1&*Nn;><Ur#P1iKpP(~?LqLo#q5300)l4d~X-Q*#!`vwYGlv|%WQ3M|Rc@A
jG?>{l$uZ`pZDtTt>1Gc!_0$ezG!hU{g)6|ElaOnGe84Wvv1r%p+wLtT{gK`ZzGMJVQX30zs|scYjiJ
kZvAC0I7aHnLR!h~HhN?i%c9`L{f9E$$(MBb!OL5VC7vhYbQU3^BBNsZ(~^0MJIRoa!975ZOlS*$FaP
=FIjJh?^}vaYbJ+A0C3vV`H$bDL#TZ30-#eQ|!Xy&?<rsxhb5mTP<KVR>|1iu}k)MWeFr7ko!``FthW
Ns-kwK=D`!2gayo4l{=<GqCYLLUE-29$-bgZC}%)BpngH-N|AwWcZgUjsSUQYLtJ;T(`G?Q`?2ac3SF
CYC-Lxry0UfJ2#VXO70HU=DP1uItR9#Y?Z5_Q(=Qnu5T(PUd<xRjErt!*jeKqh1*0})BG42;^^Vy$yJ
iqgU64z46~KoA6FWte8K=u10`#bHr<6P!N46}8r{V!t2V=K+f&F$}50Y=lZQGDR5z?mkFx4vH(A3N2n
S4$<;}i_AM|P~5#;9V0x|Ay8;Ab$e6;RbafWD9$G?qAc%pe#Ic%hn}$QS(9t&ObcNijo}n`%325R(#x
x-u<PR*f2W91F<<5_hRFqXrZ?yc0rzhWaiMRCT~{-|c6alrDv1Y4}ntg>P3bO}neKNH*G=quDA2wWWm
#{D^^)O0eLGvn#WK-Wz25!iSp3vRXFNBt?aXb$5V#qZQk1_z@gBE6`}2b?C%I?-us2>0nfny2Ku+HNY
b>?dLAXPjHZ8wh4@3sPCX27~PJH#hk&KoC4<uOU&n>_D<@jw3&oZZTcm6-D#*DmU(u0ZS}Kn5^)3r5P
mzC7|)8>N(#z9rCQY{h{L;-hk>8HCFgdfNQQ08yu-@Iv_l&%q*XCp6%Ukjeah#m-vf*-rjHE>(Dq5dP
!vJ8Vq=%v<#N$n=qewFg#&Y>>hE-4QcqND)a+VA*#NQ{u{DN4s@r+Qk9HeaT@e&XOGo7+#uGA0KbHtm
;6iMI3bU_g&nRS$i8d4~8#GQwq<IUQi6r8BKCGB}5=aw}Z`c9_fNT;-P?H;+U&f-x<TcfYS(mP|f`Pa
T7M*quEYi_LDULjC&0W^nm?eNvcTuW$*#kKQJ+wb)F*GXH07H(@9L!XgA|I8s_P6Xw5ne7;jan8Fd+i
$`nbK_7>K8V{Mr>1ck)jwZK|)WgJe7ulJrMphyLUD;<ee@xQ75i<+WWJkf2b1>aZnV{Z40Y+n1I0WQW
=WvQ&Ay|nq(kawq_b_fY&l~+qIHPuqh<sVX1lA<yWtXE~MTZ_9fN-8lR9jG*^Wjf;<NFqJYj^YKl>lG
c`ss6`@=WoTTvvZ%PxQ9joKRTI+xEHW*JJ{)#T`rKow(&!#Oyn&^m!JJr=jk79#VXl}|by~HFGab0$A
C2DkoB_>_6ARq=PM<EEQH4Zg!DkL{WP?R#eEVpc&><Naw5T+dsvdwCXE;h*2!3z|f5CfalJH3;xi313
mK*FX?!ohY+8+>Sxxx!{8e;e>GoU;K`Lq<@K51DXD7|3$T4oIYNNjqO^MQCVUHoAA|4be8)n0cRS5<|
82g~NgUsEFdSw|msjRM2!QbDRF6Ld!RBS*qnASEtcHPhqR=Eg5Zu88&DD2_5pR4Ga7!wwX57M4<pGN^
?q$Dlja$%y4W9xH6<eU15YQ7ER`1YTAPDq|r;Ok{u@w<w9*@H5xC6Eh;7MK<OptGI`pTX5~WJt*P6lz
Zz%OaA=X}PRJjfc)LmUgvBq-1?usR{$)&CnXF3MgS1<3gXUTxlvbl2M!#V5>oHgo_=e7CSlg$4Ljqn0
Yp{c3DCWgh;2Ce53MvZ+d*R5&8_k%$+iURAvWCoL$qOg~sbV&W(oJ8^X)_wo9!si%nF`aIG8Fp}qzR0
;918;_AyMUrMGZ-Cld&@@0W0yDs#COy?i&F!t~~)m(6bI70FkKrHrZtQy<1mi#-=w(B}g9eVUtlEih(
w|)-r@$*#mh;sH0lnUIzX_7OG`HG}NUf2qM$8IaKO8N1zGjyzf$6^5i&#+920L(}n8pHXR{TY}Dh4od
(SY{=9X|D+LStDgX?ySnVmdgUdEsb8?nA01Iw)c+}6biSXG~ig(ThDBzOq@c4o)b){&^Kj>mQ{#{zaM
uLcpvO-;1w~NK*p{nX2z<znK0k1Y~V>=y!b-NVyN%f@4R(c4AFV#g$LCRaG7)h;_q)Z)3Fv-}L@=z%u
TXih9G7GAVjXq3g%i5`;kcleFwb<H~x>>OTr8n?Zr`sK{PhFMUYF36!2|6Rgi#6e4Wlq<6w+6AdO98H
lsF{#ZfP#ucvFGZ*k<t#i7CWvM<%TBF9r+3Ghf&!;&A09b+s(V|VnhGnvYjb+xXu7vY}cw?h--Z3#W3
lv#nJ>fRsBsRhKC&p_r%t2PFb2)(;N|7o}5ew)fOn(n_>;hwE-$@rzsNdt5GVa#4IswgQ;#dZ4Nuz*r
AX@K357bkW(_-k%}*k&}@Q7avJJ@0&G+Ty9^uVfQcUp$WO^~Mx!($ZS|{%(a>0Hi3b_S6SE1KjkLE2d
D<-;RP(AAQ}!nr2n~YXW;!H>j)ZVq?G<Ln*`|7+9qRP_g=7I}d-dL_h!2+CmIZkLey5*$0U=?7Hs@GN
s70apy$$90D7A;G3!-i#vo})HMmx3Hv4k9oX}eCH9I;jEmh>^~tFBEkqC&+COnyTHurb0xvvRESJP^c
|VQQT))pm%xNf0EnZi{MR>@XCr(=u47T9L!HD}i%2Is=hBWTVCKoqg%ItP{zO;M6AiLZq~*O^F2`SVN
Dr5aKYAcCLmQHb=fN|0$Lee0$zv*?{;^h3}<nplZeB+t4d$?BG2^Wwta3AMT*S*p<tB=t4aK#WgNe<?
T`$cs>b4V~djDV8KLVs!~I6yvGzqa#kd!64>)XA>&W$@(?VMUI5h_?T?<T{`csGaww9U;P239bO_auw
j>Gs{E;5<Y7~#LWFs;<k^p?^Iw2wek@%C&2b5SS(542Xbh-|OM{o*!SA00cNkHNa7`0vU%)`TRl0J$~
J<Y<G91_U{5tSZ8eU-$Iu$6e&7rwIc#FAI@m?5!-YTyvcY;e}ygM(^4Q}D8y9so>5%u9bLFoGDeDUX>
pM7o8G3GyDOQWk5iM0bZwJCx)s?m!4k`-7q!QWqQmZyF|8LWu_%bjL0aJR}sbG!hpC)rRhJ<1pmd)sV
^6su-tb)h<<<@=!!d(nMG3<Ka6#*Oj0%ovllI$YU=lE2<Pw6kIbpSPV)*-6|neyIbUtQ-~Ex{OHXLsP
3+RyM`78=$KMmOqEe)vzoMUu!ITvxPu(oy7B7N>;-?MQN>J3{76j@Y|R1&oo%P9acfQcHM3KWY>HLEJ
7DFGP`fML^VCaUQUcb{0_n1mN}FL9R-#!Ni>rVx>u!oIT#Ga)a=%10>E?NAU|Q<|>Fr`sa1)g_Xvdne
A|fKT6dHE8Vb0Cg+>*FsMG9pcA!xXrN=A3j*jb2rzy(<X*4LqkHi+3xT?=ro?+R<Roy&=O0!%x>ikj*
!V9as_(TXRz>`>#Q((O|wpG~n}jw&hAV-FI`a*CeZ+dYT~XQ`T6l^z|RMhmIQE?W#wQKt=u6|BuEGEy
pzKxBt{Y4~(NG=x+?JVuCit}R8W0-M#3XE88-NdTt|t{+Isf}(trUTO<T8^Dc!a4V8&v3o?36NSt|MU
cqX_NHazx!PUUdf3y_2`d95oDd97&lZNN`=zQ<#2|ZZqIXgfDazVNzjCm4#qC6~uAV}|d<U#Z1Bcx@w
fLqM(9<86ygYa}JqZP%^%ykSv4ecJTuOG26_WSWa8hBj!ZkueoV2r=K5K^6?!ppe+C8|kl$*eeLwU9y
MO?FC388cByGaUoda9P9j_}Z_C0Cb}u?GqGv-O_R#{^INItpq!n%eFpE{{TZ97A=0Mga9j1cId+EKtw
YLkD=-lJszktv|SrZdcLsd8a}$k4YZNQiu?OGa)NPN{Tavex%G=yaPRo<DUjHLq1RtoLA^;fe1w_yfR
d70$I%@(?eXgWsIZbYS<GQE^569+c%e)5H$-Q-lPuMq)vBu44-8m*JE<Zl&M5uj)z4KEy?ztgkiw;Q>
5+>S?TVXc^PiPws=9U{UP??l<6U4k%0C%nq)cXi-z2}kd>Mxg&>DgV9H_)_EL}5tWXKecFrl9ksHUZQ
q0p=stvGQ1tVxxIkL@)9E!O;<0WrHK8Ls2*O5C5UD6@@Ha+m7E;2kX0t>d<X-z01$4Ce@v3T-(wZTnI
5(wBihi7(`By0dgP(MAiw?Mlm1V~bxmfDC5y{WFXbuF7>$*7nHP{LCOCee>|bXmhDG<o(<g#guPv(XL
4>umJ~li!;vg_IffWDMV_!!;Q-g^7&N<Hn$nwE}vIR}P$>uwK_3kcRA>Pl+0!Z7L_C9F!W73BNoQ<Pj
6Huif)`D4b{znQ#yUC_4ba<lvtjBC8p9=-h3m$Lb~60At(q#EC2dR;pqg(MsdM`lhszX6Ue%^msO=yL
l?}5<qQu0SV8G7}OouE<Y6e$$bHOhh*wh!7<hS8GmWPpk#m>ZgZXgWxqXYzZ+$t=oYW#SqH+G!Xi#ZG
>D+Knyub&u=pM_p=WPx?)jJ|Vc}f?lFKNi(^E&DLgGt77kzQVfUyNY4z;UHuX&J+P<R>uk#-F0AbKF+
NXae4=jF?W=*!byw&JA`)b!D#w=z6DTqf_RP*fp{%b-piR4zp>!+BZDuwEefO|<RlW80RV4n7^+^Z<v
$gwwZHm0KeL;eQ>OPNe{wL_(9LG!UwL%?0_-_8m<$JEF0~c-Bv<+%Q!-Y3k|Vl**UISDSS_-*VaN0P(
MW2RP#p(3-GS?ty4n^;0@@w-;*rhT?Io+SvH+=_T5{9#=84tm`V|ra)01jIqev&0{JO=<v{LnjQ^H&(
u<UwbhhRrD;1y6^vb22!uoFuP47jwYwe*>Qu6=rgAEeQO=3f7<zxBG1+WM+kFYodJdtKfEEm7jP!)~I
_zb`0myAHAQa65Qq)CyOxZ#Xsm<6Gl_(|XMj)zW!YZXxYo0+h9}y^FfH~Ggyds{&%3<nTJ<4OV1T<{%
"%text.

(** Lines 13965 to 14114. *)
Definition DATA_92 : text := "XaHYS8(i)5M2Ktcbr>FB@Yaq?=ORBHDoU+qacFBj%R>*UVUZM%gT%F&eJMO6*U?YL&#|V>n7o=};fZn
Lm6Mw4`>lgXx}o~q0~Vffm0W4`MF?L>Nv-(AN}5*M);v5sm1(g8=r%mHJZwUV8HLw;F_Aac!7=TX(h|
5>aE_!-?_?tmZA7=t2Il2y1G$ziKsWZ0jXg=w?Ke`00(`9&@M;dc@R(*rjDV;6Zp#JxHTV_lrSNK#cM
MBv`~hqU$1s{IJ#U;KJ8xZ)!OHB4h*(3~ymtN%^-q$gP14GfLmn7saMEL^g6Q2NidKs#$c3Jg6DpL~2
~|$&5;auH12a1*xm`>9Ks(#JW#I1MG^he>XrY;~C#7n{J01vWRF&g>3?qO$3F6^WJPd&lvs<}=vSMBG
V2_OnNP9KaYHknGMzl`jSZ7r!6xBcB<hwu{7hRIh%g*D9Cw7p%Lqr9mO$jfrVLoPF@F9G6=eTsY8QNV
#&v$d$N=<uHIwT3cy0^?0VNQ5z%Tt-BH+h`m5l?_wDq-TD{jwcsw_=zAR6uy`1X~Xsu&HL*D7F_*PBU
iRmE%cDV*IY4L+W-Z%sd*j4x-8x(vG}jsaR(@j;26bf}0c8Dh09gzV2-D5)XFSTUx^N4|L5=m9z>W3A
G_5zmE3P=TQr9mH=Tc%~HK@qK=y6x=9;m5|^h<j_rf(^^3RfXu;n;`1G&$Pd~l;?%~Z}wr}oVKmLt7<
{r5eZF_k0?*8eX+r=KAxR~w!rT1n1@Z-}Dk8kg9NhqJ7^05FEnwZO`nMI8!&xVrMgDX}}6d?%H%HO87
DXTo~VWV#4frjLIH|~;9S{X};hHiV27P2!O=PCD2r0`P)4N-1@sS^~F?B^|6i%Dpjz?ks#4e2AP?Gh$
5C~BtEDh4x1_KB+nd{IKTCS1Yn9!=k^y>{jU2pQ`=$ykFb?Bw}Q>fmR-;9Ka^SJIy7OOxU-NPo9r=Yv
Et``Rc!%)XWPOp5$Knx4D&BrtD;f-@BAPOeg@!2~HKXwux0*25%c1&J{@JdyO?l4PG$vY}p<8Yj{4C5
6XetU=Q+XbKEAC1~>AQtqD=oE+1b`1~XZrrJVikASI4@NB{oW-Og3^1y>BmxZLK-oc=^pnW=}P{_jxu
azFDg-Z)MJYi1)$;5yh2*{>@Kn=9RGn8S`+J$br1#mhz-xjbB39mIVhap3N^W-`Q#}fb?p`#ON^Rz>Z
6%lEtx03`dq)B&hf+G|BnW#}GM;e0Q7O(~x>eV^20&oaW(_{@N5jmOs(1C*jV3K<#U4aR}3?TL-YQ%I
twJHH=kxBqKt2n8dCz)cvJq7?d)05<|2m!N@mu7>~ik@AP0Vd3PQ1(u+-=uUIHouS!CvYTH1*z+UlDS
PnZ6dEr1Yx0i42+T#^aBnnU|Iw2JZzYdcoW4;K-MJsrl}Ii0xvwP0~<H#d!|Rby_1XfQ*!n>y8ex0+5
v?>n(1m@EZ?cXQ{m9%2!q*oEQW(h+&=<c9K^M7=+Kjqj=?qb348)3FVj;YU1J0XQ)i_W7yMMfA5B=oN
na{G220eQK(0L36M|PUFU|uY(wo$PL4&94a4K~5J*<7R%;x+6w)0+a<d<Ms-mftHy5yfYA$9>sk0rup
!~ts?t|1lnpa2^X`)LoD5_jS_$qo*Crig!%0z2Rek}gbwnr;c^&0TcIl+ld_lZw>Mm>y?_l1@k9tx0h
exy&9<NnHU>N#Q1OXhJU~h&9u%w~gCf_FyagI$WE$mhvIZDeL`&95@9J0|X~#lG1gW+bDh~X<?cXSlp
!WOmv)6jWJ|qT<Z)PgJHKo0iz53jmcDb;e}y3J$y^Ta7|S&o+DfFoSnxpgW7rmTPJhMupbUw2#Sut-z
RSzDDQ&~`y_v-e-Nb-#2p;vPScJT0^0haJ3Bdtm?#u0IB-4Q;gLAz?HK5_CIwioxX_$!#|}wmp7OkmY
c2?j<dSmt$JA<tz#NlH%EqM4lb1lzz7+q2#0?N$(rKJf))SmPL8FOOBv{hhB#kE4J)0@hs{*GPfh<mg
?_6tt@?jDlHn%%5^a-w%LCU6b0zH#%YQj%tm^ahj5}5>vFm5)?S^mr`9?YA3NlwoaHa7uJnd^aI4|bH
p89|Ad3RY>R&y{B`6Bj9S#X9z_YvN)_-Rf}41k>S~dioz%*Kz1AaZq=n)*Y93d6}BZ#-{Y->175aROv
iAI#qQeP>7W`u}EC%vNz3sqkW!6REq071yzEVa;r&_ouK5T>yt<(3fr8h`gymB5?UqM`Dotmv1ZGVw4
LUc*vF%8lh46B=~oXstZBv;RYA4QT#*tV#lxn7|H4jiauJzeiDr7ln$zS}!!Nt6)i#A6gj(vL2_KfEi
NKN*tUo{)iO?!pi@ChBx#<{kHz<;%5cp1nW5JFl9qBwA&2Enqi`RP?19G%U;XG)NB?vQzDMsH#$Ue*!
R11TyVtBZZY@A$glPI2p5_%4uOK=J13L`epqTfCt(G#k+M(7s|p8#x1rvk}J!p43RI65xp$lBxNL1QS
<@J(of>E)aB2r4*W6VzUbFlHk4?qW^!jFVzFff%Vfs$4%^Brd~*K}!&8yl)#~HtI9!XNK_l5-NmK!N2
)th_VD>Os~K2YKWC=2niexPH5~2mvWmz;>*iL_&yhsj$YE+3tF$!E*uqUG*4}?0Ym4dG7y@dYu=}82u
wRYvCn)?pD_4?%t$#7&zq_}5T^#YE}=puO_bSu6$b+i)fy(7)LAcD#NJzRt#>nvZf!vb4IFN;d_gGee
kZm+yf23V2cB}8^+Kz)3xG{`e>PdUMxyuK2ah4#J5jJ-dL36XTQ9q9rT{lQeIp^rTTNs%*-^w3gGUEE
R>Fzp;elQU7yR=g&w#_IJInPh<Ajis%x+-TlDP=;5OC6+K=U0+=3!pKriPWPgdHc=CYrR0HY6nIl0+b
soP<d3xS1k3&}y(i3H_O9ToYO)k>({t$wbPZbft6Ml9OhePGBA^Rbqkw950@_42nE|x7Z@++N4qIXKN
HTE(ku;yFX$@N+ty?58Nzw!}ikZ=z6}J<i`5Yy-N^ZOry<ZXkz=x%W2Ki4aX~3yWhGx9}%8VJq-0{aE
~E~#?Fm(&{av}Hzcp)FinV{VD2Hxf}?X`QLuXQnEhd_5a$_h6>|~=X{#qqlbAlxb_bCqfs`SAi2gIvY
LqZUzD=Yk6FwmTrb&N4rpV!PFIi2_Kcu}x<S@CL=)qi^e;A0p5^6Pww+ToLXtbm>OQQdjgW0_`QL*Uo
{*=S$21Yfv4r4i)$`i@nO^lsD76hpxHF31{VQo)CDbZ>Kd{M2T=xcaAnoW2&-8tf6JPTBt1dN=5N&FV
TF;!rB?!(iXXt=5xB^q${c@FCv?Mu;Ku!UYTNYFaW!9;&3niw7pvO7O){jgDNN)ke+#&5IRE6q5rkkY
h-y<l(w9S|s=!b8OpBBn!hK8b`OJuI5gv;pash@WTEz793njFlCzK;ET`NnBQ~cKHyPB@EqMg@|B@gf
WC*^kc*H&KwiSorizxUU3WtX6+HFPY-n~I)o{nYSGE$w_(4RPWd27C2UZF&C{k67o<)~nbfP%V@{7Ml
Pq&sz*txj#nDpKE=yP(c<ZDBllA0h)4)uKCUPYpcXEZ@^o}%m>s+@LYCCIJDIS4*>9OS1?hhyGj<O3Y
Q(;Qe!I6L(uO1$sq)Y|hB8Ql;+P6f38Hf0at><)1QoT<kifQdl`z+|GOqvM;>SZ?T0Z;X^^i&H0@la;
NKvt3p3mR{X;vfcjhW<t(;z|<|_1|3N6G0ueI+TcZ-?FYQ@~rj6hfU?w5q$k5<s=1Jn$p<i+}#h$)O4
bVeJ(Qx&;vW1<h9Ht=q8?cmjZ5Ztr!M=vz{fat}2Gy&{p`O5Mk)9rU%RtY38J5G+CvvLqg#m<h5j%W7
;IOn4qB~YL+l0r-WkBbj{FAPkcL151vBayw{JI3`j@^_|pId>88|TNWZP*sZoi@yg!PHp2z03yvb7oK
rruku<ruFMkX0_$ugw_r07U<A@0_8?COdf-cJQ{SkJ<M?6IW(1U6A9Oua{dj^oENMhujqoYSDmnTrYz
(hooY=~ro;5KH;D!+PIk_c4AQ!IUkd13ISH^Kdw7Nmvd~N~0^fR1*P3><8iBi3DqU8qwp27LVfYzOL`
2PYAk$>mLe4(r|Aa>MMDAy3)%f<zpbph>YeUfMY-g22{laS0pGfy-C`ed8Zjv)HCGRErx*|G`0sV=t2
AlaK?mu&$JZxssmsE`lE><j}(e{(Waa-XK5yEY<N!s1;7a7iE31!r&o=Nfx8~dTfEr@2pkZqWrxNgDH
~g!mi64E%3+ouq$RcF^awSozobhtcR3T$_MzU|+jJn)F3UG>p%-RqX-j(|OamtS7EEL}46SHG?53iFG
)|&k&<ugZ@OTnY*Na?<5MJ^u;_rgL(8+;KfY)Ok@->Bd1{7zKRi%=eo{{gCNlM8*#&oEw2K2Zo#KTL@
lA2Ain#4H8Z*rI+Op$a&Iljf2G%x?R(83&KuYomzwq?TdObZj}pP)~e^u~gN7t>8|Yq_ZCVR>R2j;EK
l82CxQWFR=2xm(tIL6wlzXX&h#mMnt|Drfd8N#Q9e-lYQDB~m<>-$Z~|Eq-MMM)f|SP|{E+Z7wsWARV
}V;}?SPrNj=#B{~Ap3{<$`rH!X-(BYkO#uzZlx~2_iKpMr}6B?%;D6}G|OgS0?e_Di4z>xQ6szm_Aak
ausd0#xyT$iE_kK!qqLw^=j0YRf84~btQ1VwuC)IhV6h~p-O!gRJCa~6+Gui4o}qSG}bkx7jKk)W%Ck
e1d##L-wL!ltV~;<BSbAPWQn$x)Z|l9tnh-vq$4n~H{ZLhIz^ohP>O!`cEv;KMek#f<W+Q#!-i9)<`#
X+><$#}fUA`HwDvmp*w`u}PdwzX`BJNPrFv`aIJsL{4FbWj4C=keo=b$mrTMeG-fX=4yH(ZZ5>3F=B!
Ux?$qdE1M4KF=NV<W+B{@FeYms3O>=Z29?g79<E*Z6R6+~*SiG<jWr2+;Liey=4C+qbkF?t3MSM;l)$
?!chYnJ9vQR*@_MW;Xw!TNNF+guxdKaRbfy%L^=49VYkAt9uv(PmwthNHX81CU7bmx-!I^Su;w}}jsq
5H}Nhf~NDNmS^Ny(VpixJ)1Nd3(tL`FJ;lhl;Z^3!v{GJBl0tX-BaL)5YO$|)@OR3U*zH)aj7^NF5na
*jG<y#NCR2u0!?Dc#p(mYU(rJF|T^OFZo4;1HJ>*xz`=^11U<*YIj}a|jXCHk|R@-ILgYqlw`YgzDsq
!y9Y7w5lt`^z5@y5byE0AvN^-UlKslvJ1F-5eh4?FG^F&)P;0$CFcSA!}vjNSgS&R&Tk+7q6PllL_OX
}b=cq_GM>hK95uvdzR%qvyflAH3Jy)3Nd69hZ>^!U)Je=Ylu(17CK1Y!DKiHB8ZtPiZ4#AL(0$%>>}|
#;=}@!js`QqtvxV}Lr}zz6fG^7g&^VgAkyksEc9vAKVv!RCeNEdf$WW3BFTAOMS0+h)3OJ1rsIJqik#
{o=bL9A3s+Xj(Hm7Hd&-HtPR499S0_cSh+P&bA;tthA?$&iABnvleU}|F|h_nXrDz`+75X9EW*`@)y4
|uvc<;gw5=Pj&oYwI397&RKtNfRn@y#zEQ^}ub&D)@U`=$t34LV67{;=6II`;qJx5(vDFlpPHDb%2)`
rAe8AzLFz@!(U^8&rFVOPx@kcd77)a6&fDc##)bVi`R}@=(7ED8sRwgmto!ve<+ivoiL<J^g>V}xlOr
9iMhj+N%0_oP8ke7PpD#CPx6lPGxbNaIQTPcq-#ZZ9XmtcGk05tn1sCs0kgpe$E-9eVQkn2pG=8<;mV
<%>l*xV+6e}0QV(=XAlVZJ=gDZ|4pjgf+<l-f1<=E4hdKwr_wF|lzPuA}F~UB9TF?4eY}Sc3-Q;7{FI
BRFsrgUtz+abSsB)MdX(wl4Hm4SeiPH(5^eJwGwHYWK13ol{MrO5TYVBSH<GpNzJ&7i37cr^5GW;9jH
5n0xjj>3f8LzyS)1C`a#5M-C>)4IF_#a*U7!nlSdi=yQF5XPmyVly^?|_X<nA!XiR*tYu4`B`|y3=A?
cciPuGJEy)YO$daOcOs{p^({~#tuQX4LPsGAj*2Z4HV;~I*ITWJyVQ*1UM`hwTd>wZ-GeZVmd5xx@Wk
*AP&cYBTE|HaoVgh&|4*gvF%A*3Mbf<X<mT58`hhr@DXZZH<0nbDbUuBh(I=uWUj{Y9tLCk!yAK7SIJ
*iVpj_e)0LAx?&cJl1QZH$%G+?`(R=ZuizN49OI<-kXl~we$R6PzFv4k9%T@|aj{#7bkXv)8<)EyW<{
XPZ3OhdRUMQGjdZ9u2+ij>8!xd(5r?0X-_J8r2!)3S}E87TY4}TXKXF{jk6ueNvWQ=B!jvbobSK*@#P
&xs1CRFj1Sy;ak$cp~(`c|xcu?m!o-mFOFJgLf3ba&Yo34cA3v-O|{j}c7r?U#fkmvDvhT*U4Pk_+U_
2@V*${S-wKnAgIQY`<7}+Bmqp#LrK_5)YG`$`#5Ayn0Zy%@t3?g1af%@)J+*zRKo-BTtE5Rs{%Lo3gG
#!%oZ)6jrpPvy1L5%Bd*)I&a&c0t<JG(<+ImXAVi}3n;Q^LP8a(X->~Tfe2{i#T2Vaaj=HuwIscdrgB
;HTE8dDyF@8(!(~YeA>3zpPl=_nhK=Zk!e^!OG~`e++GAmHX+}>u9}-FVa{3FYoRo;1nq+OT1GWXD+}
r7S(XA&yc<L$R;b(yXA!w)eHX7*Va9?RX0Q)rUCNTa8k*>d@N$6=0Wa&UiEKCQ+qeeLORz_p1KTIOX?
aW04sBW!?y`})lMrZ0NPFc&PO+qC#?V*RfJPZg<IC0Og)U+Jo_Ur_kr)x1?9|<D}9ZosSFfwu|W#V;V
rS7;m${$+HLX%=Ax7voBjpyBH#++7p!%>7w0n%`nC(m+$7=w2TtkEb%W5D1yNTu2R5@|@P41Z6WO<&^
^-N@VAZSkr3;n9e7@{+W&Evh-o+Fu51`-YBH1M*{97I=pP71>tX0qV-e4t#63TmZ-~ii?mI_Jmd6c@Y
g^RE2<yW?!&LJ3Mp<QlZJy+i9A05qy}OgDD0$XPreJn7d72&sPXSL9CJ(bFK|=smL~qI#hlGtDwA6Dl
8ll!NKS+X0&Coz>y^hl1tm?r-?@RD>qDNr+=1c;3f^yfFhXw_R+Lk=y@%#l*hbQPs-mtX8&|5{vxx7S
BNkMr0~hzG80B{bgxl!-!LV+;+WF#NEZ^wfR&<!gx5hVA7%~3wtAgW99HC1G}e59P`kbu0idEG@(d?t
rpO^QHwxdpgt0^^D33&-kY1$g9iCde{U9?f$Gj$u&dKH0lPhk6f*9V$aS^$gs6(<y<1pL|c_BMd!el5
dt3Lb0bFIH?2Ge6jPkNtfGf&g|B|2i$d4a@|cuG<Q%v~PBga@4{An1zY)T~I1Pj$mWe9HW3`OH459$j
LZ?&Y+2Fy;lP5vuKUOeA=r#?HHgbNGvBtg*<4UA-gzH~sZq62$)6TV8O}_0!O``K-i-nk6i-(kO`5R)
^~h*O^^t2y~-Dnh-S;eO2Pisi=VJWDuhBGOHdINTgBJkm-C>gWCvGe2Lg>0x3h@ADA4cu4mz9yVic}=
~$J;$}DMQPN2IB#7w?~M#c0ufrxyxH1VhT387kon8F&JzEM)(GeX@TB(G*$5Tq$7OtlexI8g&JphOjq
<09lp#xHryX>edU0UKf4eesUomKLrdxei~r6x(+9gGVbLGTW<R*XNN7=DvD07#Za05{_cx{N9ZT%9&o
?q%4RL&ai%!B4C4eugsG5Tx*zKIzx;hp?cHM@>ZjPH`*(Z^>?U9OX2Qa36qOtNG3UZ$|VfFhcr6YVPh
4YPELC+cC54$QXg?A5eZK3ae?=p{uZ3e+XF$cGdvPEB`w_reTZ_$=9q0ocx-RwBwEhy<uP(oz!(L~u!
NJ#5-K?0YmyioZHwV;DBwO8ZAy6{TA5G~Qyb$<L?}^YRi-Af6pOiZuzr{&R)O37Qj9?6cz04#zJ@&zv
hf^iBgO<Q+pw0DoePV5TbV3DYEafLOSCc_mt;H}9IAemtWmuIBsh?eMC0k53n{Wzt$~~<iMk<Ku(UgD
>uEy5E0m6eC;|VoZkNK8G51$AO>@QW&1GsQ!`Wi6B%5<B9|I=JUbX>-?FfHi8+O6=pZ;b;yA`2BgfzD
oJ7Oo2_&ik|`eE5}xdHB5?bcz_NfBjAo4bP;_7aoYW@6ZfEl>~78*=1eu_xpt6OqT<rG<BwRCI@pvFa
W$n|3*twp7qa3^QlZe4B@j3Sed`=ob|ltO+lt5s1McjUK$E>Scxc7+(0Y7U{v8-7j^OR115d40xnDJ?
7*Q07)y+iqt)rD2Rfyo95D{3U&f2TuNhto0P047la~x$>l8>NN}tFzyrf>y8gbR6u55<gp_IdoGM*$U
S=!ZXY<}RU$c=z9khEs1>iD|CE~+46(|_pyb%ZG4Vh%pMw|}rROH`O>ESLSIXkBcc$%KV*#TuQ>ZLD>
0`<R|NEbBN+r>$w_L#(FTwZT+{h>?`Yu9Oejm`A*M>rbx!vID7?=eUZN_Yx$*cC7jC?y~`A2Lhp%uo9
J2>h0VR}>cc0-?k3MZICubYH({0XKFp?ZDXs<_KH@8qy)5i%l~2R29LY;@M5I{(8$x$Khm{`$j<-CI~
rqX*-n|9zj3?G){lRm03e_LhYQT4a3|$@sP#^e={y^pYCV<cHQIhfqsi!es<a9VD$F_USc1sITRWYTe
Hih@<8u8lX*Lg8g{_#Z+hYD6sw8Q6hYb6-(6BhLxdpWg~uMI`NHE>_K3tqG#BDhL$5i29EqOuF#S$V%
K=jYnPU8fC719=qv9>*3mH!2(|M>aQ+I3JA#2bZolxJ?hQM$~oufyc+<79XbqeV`3CZ(NiE-#=E856I
(H^uU#p@Ik+9|RjFg<C*f~Yt3z@;#Tp84!vU6cw;4}bZ$w*`50i-GXQb;J2OcuL-cO|j|k{nTl!00kQ
1xPGnT;qZqnmA<SFcHI`srU=FvoI<!MmX(h4My<<V??j)<V=bmp8}P`A2Z1x2YW>qyBAra9%mRf6knH
2)_@Wh4FvWucMu?xvDbxG)NDk{|auHzsuo~t0&<%4jP^qzd(8uc!6#4+UjggYNr+9$^Tz);}>b)BWN8
MFj$hVqtNFq~IIIRiUJa-U>_LiI^Pfvsai4rQ#Rqf(%k`d^6M1?^5DUsFJ*+QVmnk}UaKAGyi0N$P58
*p+dMbvHepZ-ow3q|v*PbIv_ge$U|uBJa@xs(`n<%xWF$x1C8F8{#r)O~>~sEDRlNMK4qb1%Ir4z4BD
puRU7t%@{fVCLxOR4#9;#u^Svb{>n7BHNor{jHLEETH7D^{^B{G;-H3OILW{Q8fKqBy_l%gfvpVIvse
MDGpN;<!8yD;jb~6yQP7rsysMhayT4_mh9j><wU?RQ;8w)VEe?E!dm&46fCX#^{78s*xldsJ9J}}l^P
zCKzxY@&rmI@a%?>s<YwjJ8J|n|XnTG|H#lX)WuYF%t8!0e>3+l`WP~A7z-}qSo4t__EL%`y8G)~`d-
6hum<z);#rUfRSw62(TNIr)BzipB8<iE|E8y{dkkb}Be>CM?IEg2R4kahnE-Gnd5~oK92}mrdo@kq|H
sP1I+XvgXuV4K8{rOMZo5%lnar@s;O9KQH000080P~d=M<2D@_8J2K0Fed&05t#r0B~t=FJE?LZe(wA
FLGsZb!BsOb1!gVV{2h&WpgiMXkl_>WppoRVlp!^GH`NlVr6nJaCwzfO>f&c5WV|X4C;#mxY{_y0^1F
GkQF;M)?bip6ge5RG_r|Oq(M>%)L*}kw(M*gcd@IJG@N;S@6Bks-RlnxM~{;^O()4{o{eZYT_k_eFLJ
w`F0J-V3oCb03q^@3n53i1{E$kC$k-j_h((=q>O@N~k@>*StjvKenUee!4CK$*yIdR?p{lC2%!QXmJA
B%MvBwVp)6&>eJhv=77qo4Ti0`iwHeekZT($SqOKxcJ`STxuxSAeOtQ4go*HOxj?K2lAC5h4A%5Ck9?
YWyj5h0oh`<<3j?X0ZmBY~kOZ)n;0z0s|HSfk|D3flyiO3O^nl>P<8?x`^~<wBF?Lb?+?jPN9M@td)z
uS_A!CWLBTKu%!o*;elC;p2QwQ+8lVkF423&9dGqnWK0rbJmVYI68!w+rK(B4n(q+2#pQkkM7<ROPq(
hpV>M@=q?(ZZ)*|zWGwZB5B$;1Lnyof>4p@#Vb7JJQ&&8Am0FP0N8CNk#|sdl^aXQ7Tc+A^S*tz}kW1
ettFMdoisJbbeT&mHp0A$nkqfJFiUyvLWOYyyz>sBy_6?W=U^YsVuc(NJlj&sj6zGp9tNAF)XuL=%re
&P2Cdqmlr?gzB%SASdh%)B0$HC2OE?+z@0a+PXS+EyUxmNoV8tlMO6|@)6j7H}yF;gV)lN_4=)kS6W?
kE@~ua4f6EJ+*Rrxz<RJ($0D{RPTvhx-`&JnGZ$10)IkU7-gV%Ez(<^jH~V`!qDphtye&+S|Lq;P&I-
)9rw0ogwn8heq><|F}lFola>@MNzfQ_rf~%2Wz&_j|PU{XjUsPhmGe1ry2X@@wBbMevx|TJcg|j`Ce*
1mnFxOES$_vC+8BtTm~;pbzAT_y!$k`d-%smjE&SdY@-W5=c>2q*=&Z5r8=El3Fq42iDB<LaV!k%3k*
j|n~lWU*=%}_RoTYFbG<Nnn|{d-U(u#&_0H(a73sY<Y~R(s6a54BfB6?jdOtx}EJ%;wMcR)2rtRiNi;
91iXxZ0R(}&X)A3A>nP)h>@6aWAK2mtey7DwZfttM*{001vE001=r003}la4%nWWo~3|axZdaadl;Lb
aO9oVPk7yXJvCQV`yP=WMy<OXk}t@Wp{9LZ(?O~E^v9hTWxdO#u5ImUvZT`h@6tF<kW5I)Xh+`WOE|Q
8cD9l<9akl;7Fpv3xfkhv%kL2?%n|hl5*^HrkY720e5@*zR&I<&z|l7QK#o`CRgfma&~@od#+9|-<|!
Uo>=?r;F-Ex8uhMB7D=vCbymbiC00#~|0HRu)%!eoG^NFxXsJtUDixc`L{(9$2unu?p28$gsszhkn@5
utD^sdsuBttxvA+4aU2gD?PKyjruZyxuirlKGG`cdenr)cCE@fRBP+M(4d0DC6SzkRrK7IibdzX*YI8
D_Jt+ndLSW`ZlSQtMm@~TW`HN@%J{!3<Us>=s;ourF0$<$D-z?G^Bb-k&UMef9fg3@GG>T*N6nwQ2XT
g<C982d?WidscFSEY#)E94<}rF0(usVK2OE8=9np+|KdLmc9|GG%7H%HCYPSC__uQ}xE=ri3)t^(;*y
Y`#n)lUt*-RV#XCm#wBQh>=^zh`K01UXx0HQYOKBI-87%C+hj=#GmFU4is$K(-rX#<E?08A53pl3Tu>
p=V-4AT1jJ-<V<!6-QyP!grI9UlbRV-TQjfI0VrUt`Y^eB`|kan8ee@>AI3K~<Ey)mKVdC2jkmC$P)f
2@nt(8*Ds^6Mz&Hp@&u`A&V#oM&ayhyCNZemc?yk;nZ`H-S8#Pwf<D0w5+55}!jk<n+bN%l2d<2g(#;
cf=xlhTBisvAi70@JHUMHy)(Lchx77V7bTIxpwGe-t75-W{}SZ%(`hG~&6SYB*t75bA(<|;3$fm)Xdd
<WjQV_i^b?K^<eN27syae_rUe@J11TWr5b<{*8M7DYKwr-iL(>2!>}$Inkrj)x~d9G@ul{uWQ3`cdas
ufH*sJUcj;mqn&VE>o<^Vg~79Jqn>SJiIm4H9zzV5$zQ$YW*T}Ra8@WqIu0pCdn7g%4|iRB+J&NUfma
EeBeFN9TgYG=0}LMsH%0EZpb#pB2WGURl|$(MXeWx97X$V29v5uMINlx(xjAJ94#_FX&oNxP5Rc%O0%
Z$HK|)>4@h;5g_GE5yS3csO~(t_OL5{A6T-zb%;i>DWxgPkD28M^<)p*O?YrTRKfd_e@W(@Bq<<zB(z
*BadY$BPv9`mL=PzE+g3Dr&M4c5af#GETiZ8=VN5dumO)Gx>d211#Fw3U}T#5)Dwmg%L$omneup9IaJ
>(T{Cdr`>suf7332Y6oMk<1yc3DS;+~$N5S+y>ZVCHk|$}3VlnaS4pH=oYg015{a!7(Eh(nbi+lia|}
"%text.

(** Lines 14115 to 14264. *)
Definition DATA_93 : text := "am*%g1r448Dn4Z)b`}&_$6tOt9v*-B+XZD=TVzIMiH(qNb8;-UV1_DT>Gj$mv-xGBs-az(D4BDp$BB*
*#7SgXy5RVuj|u*;%OiySLRU2eh4yyX0W%RX6aR&LHB?R`lTETD)n!MvRuP<OImhT$i&Ta5YJ~ukq&7
wsBMQW&LRKp&P@Lf_^TiR!i%=c}4FWhaWp3gDa#@O)sj0>^enG}-U4coIhLpn<wPUQQ(K)!0g5hG1nQ
S5fC#;rwW~%lql7Tg4HI)CT(;C_UWqSYouYRA?Dya36JWA`B&Y3eLaj*I<jERd3Z{TKLRgpp6s@6to5
&4*x4)Wtkg0z#Al&nbcNwpy}9ZHNIZoN_&q_iTV6#XxpdyvX-R7~nmBzNFodQ=KtLM>35YdS(ntJBHr
iCaOU=yXxQB+G2X5;R+_F}6Jh-be0O>b0eU%xN_>bG8KIDA_G6Ro0|)iqpK|EhiV{qzZ-+zC>-NqX)1
R!+vA987Yi7>?A0)klcuks6!7_<Q@nuabo+FY9zZg&Y*qsq{Lq+UU<JkSP`)CCwx|)*2^L_^4c@iyaq
7}uYKEu>NlMMDxaV|T1P9exx=4D2FF`@H5!eSsiGrwNN30FR67Y`pz=DSGQr%P=L^DXqGPE2QS{`zfb
87pSf{p7hmX#SX!9O}vC|&9H2tKn?Yh}va}G#H5gv2o6%Ii2GV&2;=#i_C;+J-XqMghVKBL(3)`}8@U
8Q>CXz|g^x?puIAQ{MC*ozzAr2|k#Vp@Uyh&tytAoM+Ib*YnncR`KcIHPt_C&iLZv%(6du#hNapoP2u
Tj#Ems3^IC+l!Jrlr;q|1h25xJW^%@pA#f90)w=3Kx#wWW!58K>*d%o52!(6XFJDffufeFdd2z6saDU
5M*yM#PZ01Rdu0ZhC{Jvr9&(g9T8TuDS{Y<u3bJlA4!6-n<Ncz)q54qJ9~@1{+$16=a%tPz)$3)_iAE
B~`4#j<?cpBWv#Lud+qfQ(gz6Hgb3u5NfP0f1H7P>6mvWFWN=!`#t{m#64nassi0&anseK#C40j<@UX
+<m2SEh-U}-&R3q>(zwDrs(oDSL`?RhYo8}aIyQ=tb3l1sTd&J%7(x3LeMKzX2D#DF6>h~mh*eYn@_7
cPjDRZ$V;W1)jx5L1*}Ro#U!bzBHd$2GwlY%Owt1M2bu^n`9`&4tLSUr~Wu(xVog!)^dkNCD1|2&<J8
5Fk}s-i;~;VAz4zZ2C~Jk$PP>4H0=qAZaJSD-L@Kb0`o^m62xZ$%7KIRpU$CkRitBb80upngE+~@)3&
oWg;Fy$e(Ja^fc<3NA>iqAq#C%rifb<0W^Di+G&RzHgx_e&!|Usc>tjnEm;<v4`7Bg<3=Qi4NyiCsF8
W{U+aWX1Ua7}B<=?TAcYfe-;_nY66&tl?_<Sz+h!N0Bou6<bn%9VL`tP_J!ql~CX<{ahX~S&;e9-KkT
k_2fm)ICv`LChrU3}uC?iw_JwtPWtk)p7p&&P9;YFNIToY~F6Q4f!N=PN9EaEz%u0_~Gsa!)Vjrq3JC
8f}nzEmayH1J>q?TV(Ga<Q^VD|gdNDuQ}}a^*`@8#GM`8vquqhvVC`$)ppT;ZnOoLG&0WCrC@UpX)LV
UUP=dH^|orKXOpQDs>bd$Ea9QoTWy{jhv(ow#_9;8I5h;ccluFD%65>5jgdV+7*|1Kxm1`78yL*y^8O
3TIW6z2e)?~z&9N_FQeM^A;~GtP3dn>SrFV7ZNd(MP~-^7=LDogHH900ZEvF_JzzxDObWvMIzTmsEhG
TB1PS>ycdxTLNgZr<&~TePp{62b&1U*RL|y5m92Rru!5~Ah7|M0(?kXXK*qlqTYDG3pU}p0Lzd%Oxe>
KhM*h4(3><lX;!xH&UnM%8LF>`8mitdCURd;kDK2>kF_>>td!k83Fi%BR76UrE2z&5bS){6zz3dfhvF
*2y!<_zH`Vu9RSUkDQWZ)zTm!^W-goqr8HVy)9^YbfKUP|tV*XC$>s1DYBORd+<!=~{0n{s9eusE<d-
$K+Np_*`TG9jGPZA#V;$QnnS_wxcG>V$xV4aC2J$Sqq2U0t<MST)nOMm9`EU@5sph?I%}<R}@9E?~ua
f!_rMq--O}o29~rDU<@_!(KHN4l6+X9WaU*;i)estffoE+ET^-aQoV!$no$#Z<<3N6Dha<3q-iAVh%(
p_j*fE3l+K`HxL-wKbakr@X?n-(14pANNxt-iy--VR=%+HSvd~C^5S6R6G!K)Reqa?@DyczAi&PNupm
st|fWoUVP-lzZ1BDKJWNblKSR(}VqXVvmL5%-NwXZv4Asohjhafz-m|Tr7?|&Izs8{Ovi_r&H?{22yl
bKsGJ)g>h*e_|G7`No={gphJ`z8L#{MaqIK9|3L@GJa-Kf48Yw_`Mi{OE;W6FmD1NjU`^$j~pj{^qgi
raH47F-0)V;fb&4JQ(r7Ix~Yp%t?NLEJnz^q*10VQu>c;33o~JjE|<+M0z^8x)%w~-i~kXUr%oD##d(
~+>5WXEbjBa@(R4hkTDNpX+M+GcdyScL;jG}P7V(KIk|lg=HH&5-kg89zZy^JRp?&_m+#(8&UTk{obu
q{AWD(5I#Ji_RL1_x1A^MInXCJIXr;Qp?@?-W&*`VLe$-vnEaG%}pE)(UeDF$LA**k%5v6}+2_nH%z5
YSNnLOBH%Tc=^M<5p6(YI_m=<&&ga{lhR7BBIzDeSALU2wT#RibhhwRL!H5Nyw`@s4v*c50AQjQmZrS
GfuWs^RLvxQ_@*qfAd6atNqt>80U1NtTe8yCz^}fNvRqyNpF$$F{J1@+)<uj<(+foOR!`_|~)qji#LI
yuH*6q35VI4oq{;9)9n3vY`eZIrvon7+8JRiraqE+58(06jE;4O6)!72**tnoGIzQxxDH{eX_-;Cif0
hlVkm_$ejMy>+{y;Py7VA^K*xzyvU#AO59KIvbwW6PCVArYEcw11<LRuOnb3(;A@@}(KI)pb(ETDSyZ
MvQau{+qlN7I5riN|r2#ssvRF}RoLBz(n+_I;8~S3qR4yCb>_M6t@68uL;imi`x5lp1x^y%DmR6)&5Z
sEy=Q6$3%4l|Wu;^yME);mm)Dog&7Oop`ni70sjStpNGdS8(wTBbehGX^@J?HrZ(zlzt;9UGEUqG0pM
%eRIoer8Ax)Ke8b+3s=ZivUD_M_`!bu>^%=%sYFI^si*ru7VI<{=D20(R&qXv79G3+|ps5$@`!J>#0M
P{B8Fa<L}7D~PHkH8Z)HCzZ<-wv`!Zb(>cJk-AzNG?3P%l?+`)Kun;u&=H@b6!B|KH{+zZ(QgG<i)99
?1uf0*9Aga*2?A$sOzZ+ipVsqE%ya@m<M)kC1RJ{)GIVWNgG7VPm##Nzo1tdZ(tJ$d+VZD5qJUb{8~M
&?%ircjn#z2RTvW6dElu=b;!vWKz8Z_a(?<y$mWYHCC*y!zA@Lt8=nf9@ooN_t_|a6mV&75h43kow#A
N!;ZA4@1E~yUcDvdPu9I)1xC$KkCe>@3IAkZgN$Mf%!aW|?ad6zGjHT?igyfY+%AQ`Bs$>3mhK5&u4N
p{es<US~&7;j>(o2lAnf$kt2L+4*2!yoEw>7M%+>Nx7ucegn$qn?E>6eund3*t<>*KbS+t92=TlL><%
g)@Qc*1Iw?5^W#-@Eg_uUM;I9eU3Tr9?&#utuouRzJp;TyZ`?r4;*nTLS6U@`ls~VabUTtilSPe8miy
2qzc5hJ)KDL_q@D=wS_owp|11-B^daUCwwvhhZDRpmBZOIJAfku<gN<Y%tKd5*10nGr7lb2IOWb&yq^
Z%G*aP6?o>^>i{KjR&_yRba5j`gw=+iGuA%|e5710q6`8Kweaf7%0Goz7p}!7iNe5E*N+Y+6I4YCtjh
32>S^IQjz@sv9%^81WRc_p8kHjmUKUnt}O1c@TPt)<WD;w-La{-JC093ee1+A)AuiU3iZN`-&`D>c3*
@31x(NTjevJqK=KA0g-EEr8Cc^&u@{kYmEr?kva;R04=hD0~_G^@RbTJDQH-SoJ!wd=_aQO&MFZ@TP4
GJ5xl0etsWV-9LE`2y7gw4sMl|E?`3Hxuvd^eXGL34eIv7&$73PYkPK*z`;^lXb9F4u%!OuEe|D6ZCx
AVP5yH@l19QzN6mX&!&)OukWG0ei}Z1NjxxrpFa&xUWOs{`4g1;Qr<mD?W^7AA781Hy*ts%waj;$fo~
V!`91-*YvkuoU!kLZhk#+%yd$4Ut=Z>?SHvSZBB%Ps7x(#HueYZ`WzXyLCo@m+*?Za-c%$l3sE7~upU
|$?><^;Zuen95^}Uq7OKbZ&@__$+YuzevauDRp3+$(9ckDmbL?1xk`8qsC8N5cWN|8i&vYh0rfS6=1)
dL2IQ;$>HL66UG?T4WaPNzic2B!BkM%|v+JX2FY9rkGarMq<8sWm?byWHe$?=(?nX;SUn2V*9usyvWM
98Hyjn#DA1J!>_+KZ1u}vt(Fd8iN0LrJfi%zT8(I_KffLlKuNDHT)jByMx2fQ6|2e?I^24W#!wqcElQ
tEeU1tMM<kkek+>n?Hl57*=?_8di}leGTb-Q+1c6;Rnr{&54Af${XM#F2>xAE{S6equH{<}zP#X>z<{
Bt`=TkB-8j!3s7!BWbYpddJ(j*>?_$YVZ$|q)gGR-_gS%eqvg)|~1i8=u*MZEi={qL*#)`fpEBX}Ox=
!iOPWSA-nfeBGcXEV)v7O{_WB4Oex>J4R|E+>Q%J=ui^L=-249IDDM@3Kj;|>gz67jE4i@m2ja(DAy?
K|YR{j|-O{{>J>0|XQR000O8^OY7ym#>-*zE%JL)3^WtFaQ7maA|NaUv_0~WN&gWa%FLKWpi|MFK}UF
Yhh<)b1!3PVRB?;bT4XYb7pd7aV~IqmAzfBCAXEPd4GOI0Kxz^Dy`o9T8r#LHz2FzYSs7)l8lD?rjVA
7%85#4sxniq*8KY6^Ds0Xpxi*WE<$<s-efSymy2t?>m}o(kN)<5*DpW&$IpLz{rdAyKl|;MpIyKF_3u
9YzpwwrZ$Ena==$o<&)4tXz516|Z(hE>K7ISm^Y!Ze^_#c<&#Tw3U+%xZ`|gJ~ufBfy;qANY>({TI-+
Z{f-oN?y>8GNfzj^iH)h_uD&wqJ-{r3Ckch}o*uMdBt&i(t}K7V-s^~>*{|9{oKdi&=6{`1}UZ{PXHu
K4=>+jr;luirht{P6tE^`{@L@ju?`<vZ&7{>Oc*KYzG>_UX^Bvew*H{LP<#e0}oz_4Nh6eSdxN{Qmjf
U!K1?Px9&8Hy_@;`qK~lF@N^{=l^+sa$Uc9`R-q@-@khOFYjJ`cm3kpE&OnOczgZ+#}9vg`{sWB-Bqt
&{psDycR$i=-@bc(zTUt6_QSvLhW-8Z<J%vuuV22o-aUWw>iwyHcf^P5<(qH*)7y8u{C97^dG+m&eDu
ScZ}#KR>JQKFzI*>uAO7QS|8V{K`TcI`^^ebQp5N`K`TY-ndj0C_UHI3pzJ7l5{`q?O{`#KJ-v9ZpJ@
qRZ^5xx->sN1g_4e-HU(c`h_uTt0&+p#vPp<lL`RQ(VjW4b})<1jsf%fmw{GNh8-;Mt9dc8;E-A^Sy{
+nI!*C+kvdiBO?|GfKt|6^CUAN1chtgb&jUq8Hm{`QC0FLn+4x7UCF{Hy==yFYw&ee&BsUjO}*FTVKX
w_pA7@Aq$aPw#K{_??<wefRx_;5XNPs&_BneE4xUd{^+B&%XHdzwHvA{POc(fBw}UY5lK0|LV7&efj0
}tKWTbeRBQ&lP|vd{L?@D`jaoN-~Zu@-~aB*&py7cFQ1=(>S8+cZ*}tj*TvuND!+TXd-9v-4=-Q6et#
bQk9&CE?*_j9=KAx?zdY|@{`&dVM%49kPm%9`{68AQ*Kgnai_g1@{Ix^>{(AN8_2%t|7uUbPd$qB%(f
1!lch~aQ@qMvD|MkZ&u2J@nUcUL)*Lw)Q+{J(O>f2rQuU@}>`|ic{%eU`8@YCOXvdcbdDUV;2_9)l&h
cEXh|EvG5&wl$4|C>hTqo-Z*moFKt{Z!w+d;8t>@=pw8ef(zQ`+t78z5_^mZoc0b`TF$_+djPB&$lhW
54)51^w=Hv-S<BLwhzx=|M|_^*KhyjNBjJrUVi`b%`-#t?)l$-cz*Ns#{0`Zz22C8`TfDh?xR1w-4FZ
aFaGKCFRkmdKYaR&fBO9~S3hbp-tVb=@cH)Lo_8P9-csjv{o)t@^?H1q`B;5_R7d>u(HvPG`=e3nPam
xsZBX!0`%fR`?nnwg`uypm)myRYpMUd=G5TqKF!#P-(60aTQ)SnGx_(xEasTo2{duV$53Jc2`!RMW{>
QR!_K#@NE?8HLzl-{Jv;EzSU+fQmZpCGtyMOiL_uJh5t^2>&&-s4=*3bXpi>IgEY5)AyAAkS(r=R@#p
a0?WFTeWY^I!hqtIvP;+kgJzll{M4W&8L+cYXTjm+$E7jm3Za-8+pJ<8Zw=HGJ~RUw`(`Uw-~SKHDXF
i)qD_`ReUoOZ=DXXHVDFA1}7CEnMQoRc76n!Da3*>KZR<sk#3($BV1Y@}lusZ;$?>Jz~D-@rW0##CXw
0*(I>tC7$*l<;AY7zNooN?qB7LQdWCWYmFD<kq<tb`!-o#)V1P8seRvO-<Ho7KiO@XV}B7*PQ9%@l^T
`rb_1iV{nOpHwuhLz*WI@E*mqs)Mac)vZ~J$(&RzNHTqY0Fx$Kra`dx3IPy3JhqCEDU_GK5^pK)1SI+
y+Qy)`boqQ~yEVsTo2<xHMoKVcpA%{cW&f2!qSAMF;!zHy0N?{0qM(zy&S_DFJ>FZO8pueFQq4jqp@4
sG$6Yd?tf&d1aK*r5oXo`+nI-L<=?OQ%DNb?mXMV;8Tp?l0P7KXakw*>-dKexw>}*V6KC?~145Cv`u|
evIIfv|~SM-=Nq(-Qxj9>Yi#eb%KJ$?|81sb4{LW@?0~lx0FhIZIQoXbQh1d@3k)s=%VDJ<f7!FM;0X
(CH8=Ba6PybF7?z~=hOb9@k!@0xCEEvGPzKaZY+h88zbF%OQBeySfN;<Sjkgw@4MbY@j~%R@k;Rx=Y6
4MrDUZfa0Z3@LWxR=Mu|p=MhS33y|KrwG)gu~HcB>1HcB>1c1m_ic1m{c)hW>_(J9d>0gMXpq~45O@1
W$M<Q}L!WE3A19~2)H9~2)H9~2+lFenxjV`7z{MD$bd+T+H|-WN&+C4-Vd$)sdbGARkB3z#k`3ilWd=
36kM=kCMZj|XS<F`sr9fx+F%GIwJNINQ})5%*#?l;mF60&LN~aIcNMLf;hdxW{78DeiB*wLfj(4`#Md
#|&&>?e5)xUAuwT+Cx_RgDD(LSEumqf;|jO;YQ0BpY4I)Lw@kE3+#G>dND73Lu~(Q?K!aT&_!qg`32+
`kiUP;g=g4^-|JZ6cWc|pUFCk5)4%(3?9O5yIfWKhtYPr1jo$~xb@yPycI{!?#i^}fi$>X#sDaTvb^{
A^>_g4^w12Mw*|jBg1ok0!v-W4Sl9^ZR?qx-N_ZMdN+Hh`k#x@5PlY<4U$FA2opBnaIo5O7tn2^^sxD
+k-p6%D}!CeKm(?w&C!~U^L%HXrkzp$s&OMg-CUQ3>^!uw+@Fa8T7yzzUrWxWlfO=B)DjT-{fplw&B*
q%Rog>WG|IBWIsgq5I5J|6yy7G2cl>eFcI<q~L>`(LB74uTA(Q^CAlU~fOsU2ofVa@f>8>=$!<<9)Cg
?UJprZrN{zXSR6QRraNw!M%2m6wLh9%E50N_36T5?SI;XG__Jkv6K12*|4m)upToT=+)g6iZM;Fokbg
W<AL>m|FKI}Y-q)X)@?)grE%$81{ZqTPId`Q>fIA;&k}lsR$`<s?qI!hk6UG#))HL|C+qx$>ANy$Ww%
Otnz0P}Yk#vlh|00%`vGaWJu(l@`h#&}Rcj0}rgvL6>ezj`;p0HDk^?pj<HouRH9fL>x;?<&m2_Hg!*
<sB{TTQ=j6FkvC$Yz$A5eS%F($$;M5Fh-*iW?or5Pv(kMx7RM59L>JnRK{_k->dmZ%k<N)Y+<d`9yxy
NX%EQnBl$znB*+P`f#Pi#_XiKWx8b--#9t0d8$R{q_cMp)RaV#lmje727_Y*)T!v{<AUZAH#u9E(Z^N
`z8AiK4xXCtc;cQqOvH`tbG9wMRVc5D9(ylSrIEMVr50FtcbOq^{wNVR942y%BZ7PSsC%b_Jxulw6Ze
dn(YfWWJP2w_a(4^{z<WRw|Dy``wxn<JYux>h2kuabuW(<hh?L=&|bWj{anq}q;7aLT*>_}D#uvsXns
Ve)~EgZ#BJ1pqzQXr?clOAjGeA+6Bmw2+KaOWtB>2!8LeF<4P*7K<KS%Im(;;eS%51GFpl8>6#K%Xu>
e;`h6R|hA9}VG(_e!UEWDM4x5nLG{1S}ozEF|{xcX=;z?B8KvH)YJ_Jxuxqm^Z}VmQF)zEEOPVxDmu_
$9c-0|#<nD9Pegao4cA1NU-YC~2><Xy8&0f`Ne>Iv9dc?ca6$l7U~+FgXpA)95^$&_VDp@RA2U=3wm~
I*=@ZgTWj0{-DqIg%W_Gl{4Q4eo4b)Yv8hh%LXnRxMT^~7fRx(HSpNLV*`&3JT~yyz+(fC?Y0j)9@+J
R%LXnRxNP9E;i)ws+3?gFP;5Z40mTLs8&GU`Y7I}V;i<J7XR-Z~{RbsGCBaI=Q)^(PfsqDA8W?F{q=A
tJMj9BwsO<|Sz(|WTZn6E6fr;D~N`jS!lh(jU10xNLG%(V@NCP7cjNtPRy!pXmzb}-?Gj1^$H?TsycX
_+$Msj<W&HdB;FE85%VjLQixiT1y@MteEn6llbZBB6_+OcPWU$U5LtNAgFnL4X9b)&I|BM1~5P;5Z40
mTLs8&Jfk?F)~z&bqmyklkJ&*??pNl6VdKLP;Rmn4}#jcA(gSVh4)&g8MSK1efG;>`rdKWdA`)AlZQ=
9_zkP5=eGz2Fv5VP!cG1o~H949Vm97*nwiN$KT2Am+U_%2_!p^>_D;u$qpomXa|Aa(9xq;_k|Kbu>-{
p6gyDt_j-}rFWG-k5=eF+*?}aX-o8+h;GqM>4ir03>_8E3dS5636gyDt<E-<!{gV9$C4poIk{w8PAlZ
Rr$82?=*nwgPiXA9+pxA+82Z{uzqu>5|;+J$F*?}Z3)V@#>NOmCEF<TudcFb1CY;}C?4n{f{>0qRTkv
{Knn~WP+>0kwieqSgFMmiYjV5EbQ4n{f{!KEJqj0`X`z{mh2<M!9*_Dl93gHM7>a+zEx2}WQ&228}jk
sq#Qt}6qK3@|dl$N(eb_N(XiOZFd>1S<oq49wO5Be<jcLP;<(z{mh21B?tXg6py`lmH{6opGDnFWG-k
608icGB8^Mj0`X`z{mh21B?tXf`hd$lmH_Gj0`X`#u>M{{gV9$CBe!7D+9ANz{mh21B?tXLbS3k+zX5
hFoNT>FO&cyBhI)@{E`7y23Q$jWni`j7#Uz>fRO=41{fJ&WPlN9j(wp77#Uz>-0{W4FBxEEfE9wMeW4
^68DIo&eqSgFMg|xeU}S)i0Y-EkT<qg<j~jkTfRz9%0agNg5?};gY~T(Lc&-5jG$eFjQ-<+5;n^@A)6
2qjq22{wf?qOlKZe#(!x&&Bz(|0R03$?x`@+4zNPv+5BLPMNj6^%*w(v^=tOQsIuoBpl03!iL0*nM02
{3}y-xo@NkpLqBMgok$WmzwNNr06AD*;vldlFzIzzA;czEBd31Q-c05?};^Z(k?@M&jll7Jf;9l>jRN
RswqxU?jjufRO+r0Y(Ch1Q-c05@002NPv;J<BNq~5@0333PH($oZA;lf)P15*sVcmK8T(Nk?+u{3@{R
4B)~}A@zBCA39u4iCBO<a<h~Rxl}qE&xePABCAmy4lmH_MM)JgkJ7U=52H&<Xlmsh@JxMT<U?jmvf{_
Fx2}Tl(Bp69Bl3*mkNFE*$;(XT&RuZfvSV`<jf{_Fx2}Tl(Bp69B0(-b8BPGB{f{_Fx+54#%za+s*f|
Ud-i9LZY*)y1uU?jmvf{_Fx2}Tl(Bp69Bl3*m`aq7h{NwAV&CBaH!PY5*!G{?SB5{x7mNidRNB*936k
pv?NMl$2nyZw^=2PMHuf|bOcBp69Bl3*mk2yFI%NEvuT14n4!2yH7w2{4lD9yk0F2&jFbBv?u8NrI6C
BMC+(7@1&Xf{_VE;E48Ra0xES<&0awFPUIvf|UtYCiY~4kqJg77@1&Xf{_VECK!Q;+ZRfJkqJiT@k@4
qzsC)#cwZ<9RwniYHe*{<N`jFIMkW}UU}S=k2}ULunP6msk$L=*Qt(SASeamDf|ZFqnP7w%dtWFCMkW
}UU}S=k2}ULunP6msk$L=*Qt(SASb;*^7fNDJCK#DuWP*_iM&R%Eg?oXK2}ULunP6msk$L=*Qt(SASb
?P&FpB#^Nic%{yDyXkBNL2FFfzf&1S1oSOfWLR$ej1M;g?LXGQr9OD-(M%!N>$76O2qSGQr3MBcwC-B
K6=>xKu8U%Ne(dU$Vf;0xJuwEbPewBMXcyFtWhN0wW8IEHJXb$O0n^jKF*DW$=t!#V=W4Wr39iRu=XI
7Ij}J2}a0E44A@!r$6xU2Oj>=!(U(oW_7INmz0WMvcSp$D+{bF?8yQngbe#aNied&$O0n^j4Uv+z{mn
43yiGemz0WMvcSp$D+{bF?8yQn3ydr<0^z$almsISj4Uv+z{mn43yiGemz0WMvcSp$D+{bF><N_ezEB
d3EHJXb$O0n^j4Uv+z{mn43yiFJj~jl;0xJuwEU>b$Cku=$FtWhN0wW8IEHJXb2zjSL%4xv*4hXRAmf
YjE{gVAh;giaxap_zJm*A3ICKpO>j092JzEGl2qEMnx;`k+HhvU26LdinOLdi<WO36yeO36yeO3BK-D
kUl<DkT~v8YPZjQg%4L>ur>5lx&o2lx&o2lx&pjl<bu3+^bWfQ=(I%Q=(Ji_$6hB<GbEY$wA3M$wA3M
$wA3M$wA3M$-%t_C4v$`iJ(MK;`k-ooIQ5ELCK(GP%<bPluSw{C6kg#$>d&1iKIkQA}NuSIDSdl;rOn
1QgTvqQgTvqQgTvqQgTvqQgU&xMTtd;MTtd;MTvEf+hW`nB^M>Z3N&QEa|N7MKxYMXR**#tIL;u87G%
)^PC6hdgDhH<+b`L1@>7sV3leFSp{Vp*$4|XZJ`{?U5U&(-53t{umj>Ywq~3zm+XeMd%DukrIQgkV`&
698iVxDTB0=_~vG85Etqu0@A~q=Ctl^b4g5=7SY!FWsKB||KcPcwhe!5sjD#oW0vtG~!mAIi2z+c2j#
Jew;ocq=rH<j@7GH+^z#Aq9Ltq`hM@AgYB{M1S?S#Wv^Tv;KKYtBkiYJ~vdVx=oGPDEyfUb+ZjFCxjp
GgMdv>)n1y!Q@m})Qg3uK)qfNY=wDrVU;d??TSYQ)3jT;>uoS@)eQMXY98*bGEJ;^`y~ZGs<31>@|y+
A-Ee6ek?MsXUT~%^7T}8|zTxX$Fpn2sRD6UA6;|$icNyeySiB0!$P4GI5Yq$+tc#er4BJ715JOW5gD-
rsN-SKlq7`DTvM_W=KkMCoNyC6t=0JgAE-VlgrZUKXHKtmJAFNQs1unE;Pn#({;?j$><V7TRVREgvsZ
#(7yN*f(Uf^;XcIqNvyl6*ZK`U6yg7qjYZG})F%0V)@JE`)+gYVnb-486z!<--W!YEc~{|dwkxz|GUT
rq+TKkg#tsF=a(!tSaT=28#;yYV)k8U#>KWrYVX%<+OdTES%@o-eG?7Yk3pA*`_P7p`n2cqzCp7a>4d
H_o=tMPAP*pwXT0hVyuktpse79PJ=Ch>8H7qOd$)4Cu8?dyrp+^{6<G)Ene+2)V1-RXDrCVpLct3!!O
{QLpeu<ze=STjQ2@BHC&auK6?pZf?7?G4)i*5Lc{efiAp=LMjR40=renMi+avns9rVgK_qnr(>=%lL$
I%KY6m<BJw!oKFO1nuGRq-^I^7Wx1$boM&~wxCW21JJ`l`ac>mXs(X6JEkA2ur1@8&`3-~4V1!+=E2@
^0DmeB&eS%wK%29F@85X2RESMnzp^kXgeyx4K_whx#&n9w$yWlk%NO2xcXXH)@&pmva57A?nIVLkXUJ
ov?|vEJ>MTr{Dg3ApgF;F16lCWm39FWbY6Iu((MXijG0^NQW8nCMcqZ0*dqKwkpGdf8NB_Y2poLI+fO
"%text.

(** Lines 14265 to 14414. *)
Definition DATA_94 : text := "^)l4~K~l+JHhl#I7Z-V%YGMJ`tPnTVcE<rbPR6b?WTb0gM+^RXA>UH^5x@W}ycV*h0RRf|CVhw?z{xD
^CJgr(w>?Ros+nA~{U{NxIN-!S&~lOpwYvK4rT8Mx(8y<zW80lp=%t5?Aq06p_}y{xQ-#mO6J~mo17=
#0)VknK3r<8W67Niy6zq$HRC8GZVtf8n2!V@ahxKm1qyof(H(LmUFK$y2ArzLo$~ad-rUr>s@fsSwSc
R(YacF!DEw+31yC1e+QlY;(<WX@gA*odu>;kz_A-NlmTZu!OMvZZ+cx4@Tq7beZR+tX^WWC!jDWR>yY
(Z5N*yoFQ<RU_=<RJ@b-%5aR!9W%=zJ-{%sO%zyE%^FZyZzLOz67VLsz__DbPtxS{q!BTrb0V4vKxg=
O@W>-D0BMpcQ9a(q=j@`apqAk`Vy2kb=Vj+Vb}*^;ffh(-Sy&34uD1OmoU8Haa^e!Lq*8R0-tf4=u3t
If`z%?^Q}Tbm*Z_=zFDX*5;uj^Y9;Ym;lVpemy480VdZG#1KQ*06!z-QxY4UDEf=}OOFaxrMIBBitQd
sH1@&-2X<t)=MCJ#=xuQcUWc@BkDeJ{AA(So<O9fp}3B97D*O>G#wthHqaqqgzxq=I=-S#tFuMP_HtQ
R{@-gceNhJ@%%d!l5IL@>)U_udF)?9otE#|@^kK)Dtd5;)d^w_C^2_wDiM=mxP5M4)g=m3(Z0Dyhd;c
{p(y&<C!-9`@E;!4ccIC=)zY=<5q6&3d<AQV1|B*}oRY*R)p`v%x8`zreRCaXdBVPwH&!drc>&BB|z_
y6Z(>qJ{xJs(_>mO0HlmFLDaSX^o}0bRyJhLNGQR7O3Y!pjH@+C^vq$NAXm!>&?Dg$4jS0h+^QpFS0^
~)JcJVE=9;N%gIy`_+SgMop_2+-`2bRlEQl2;K2*Ruudwrk`KLDMlZ5m4WM*b=T=UYe5;=t7DI}Npyk
#v?T+cpW3uhcW3oaGTX2ys3Pg4VhU0>xuP{?(YCw4q9O?2<zoY!~p<=@R-6OfzH~Od&fLw5*751*2K*
i6x<Aw*u$_NoxNVRmb%awTdYT9W=WFDQu_D_fdP<a{;p;GJE=K64L()sf8z_RhU0<i1PCeEj^L5e-xj
`cY8qI)H&)9@&oQAJaPh7*CX2T2kwVo}st1<9m8D)G$)WpuIn)iCTk`EFFwPt`f=+MwD=(VPpgUMF00
AvNDvH;c+Hz+Om!wt9RT8r?Oj?bM6zl~}Z4v@66w;hu$@Q6=)MFg>NK-R&$I2>M9ZSMqwHq6!E0f|9E
(?*83=NxgrMp%G#{Ga+OlX1?J03$#<?4i$&2!G&JBvdAeb6vf4QRqNyK-|d&QX`n(x2^n4tc5pB%dX1
txYD@*ySV@=^e7wR8y)^F7e-#3*f<5X*_u8Of3S@Lq4oeQYz$O%Z1*8uZzPJ~C1uS7d76kxkouM>Xo6
0ymEn&p=cfc93ej{;Sm=e_}6Z+yJ0xsk)D$2Er+@!#bT-HmhS}>&-8iQ+|^`fGCZOq=wh|V>VdscLYr
75*^_JY-+`R<r929E^gwY;!yr|PMB*BjW$RO-n*o~|?xx{;|_@Yhd}frSNKaUvsJDCX>i<N!rVp=_yV
y{PD3FSy=fm;_%^@<cZsCkgYy1sOmQQ)JyL3XcoQ6+r?%7;7V|iK;N_-F``J%By%>;|tUuwHoo*jRa@
yFaZnHviblgR`-Icu#yVCbQJRN%2nMfDW}R}R8j5JA!&kNFb&-vdUk;kBp4t(L50)9`{NWKTPTXvbfu
|x`z45NfD;{R=jmJ{Cr3zemGd<C#1Df3WMdmGtvJE3n25hfJ<{g~zvy1u@js0tu_9r}g6@fbU9NBaSY
6f-jgK7<3SgoOZp!6ait@;Mw_nmBkqRqmK`B*1@&%hvS@tW&y~ZJ9urb&t<4y8N*Kp4O9zJQ@%Hm?Z+
b^kFEK&yri9&VV!jFLk!^~>7+|NMY$R$k&8KobD878`tUaR%^lMDd<8AH}xFK9UiPi5dbu7e<k3WIQ%
$IB{s;*cgo50p?0tDm>sLHAl&M2m7`2tmXa%voj>Q-YLqA-bwKSe*$|(RT-9*_63Wc`Hl<*+lEbFVP9
aZEGZd3f)-4Fj%qf!lcs~I8JRC=qsdC@FpGd(0A1bIygi3dI6`pq`#!(nyi^S8{B_k7_7y@5h08~v2a
1lcP#v6Fd{t1y>1@eD^E`{vccd~4MNrFz_LAza+##?>sK1G;6z~h>%#yHdKZ0asb{|k>jpYqED_NaK6
E9Q*-*w@C>E~JLC1^4Sqxb|mlRZQg$}K_I@dhD{+Y+<UMusWYDn8r;zBVoT`{R8o%b|G7Ay_#(RSkRw
8PvGUAcw;XX-`wT3r+&0Seis=E?{MR}2}@1r;(n1!c+=k`>D}gyDuBLoiex;_>)V$akMA3ckYnR&bX(
v~6dC)vl<PDp`9QOKU*9RHwC^EQ#n204pl83)kOzw_nl>{|Kd9brENNk`^o^ZlH*H8rdIzA}ympnmBK
%-ggC;yt>=F{gQ$f>B1{(51(}DRCX={Zx2O3f_Zlqko9Y1H8C#qK5mM!UzZ*`^9|i=MTT_o(}L?;Nuk
$t-WzA7y$=bX^<bsLudeVwm5#5FwS|oDWfQ4azQm|vxfr=*;YzX|Ba$j^Q&JdApnVziLT{Fb^M~3*GC
HP<RJ-*q);C-Y{rjS>SR+V=1oyI5V_Pmwsz$m+2S+kU(hvFnJS^C0?>Kx3F5*L1u2To$lv5KD3*x;Tv
Q*Xscl2<aLbnPJoGDi3$B6?fy4O<GuhXIEY--U<c83xH7(8uN3XbtXI>L~_<#+j#MQz?jm+1IA=w2&Y
^$VSDQD#6^9wi6QN0&`mGu<!)VyQklsKCxvV|+V}S-b9fgE+t`(Q$4uc-@U*MXFfOokate57Amtt=-S
QGwaoX#RqdW`>DO#FDZBwjqd5FO$&@yA^mbqZH7TARv#y+42vJ$h$+bvLNr_`7OsBsrWM_5nXYe|K6T
!1IICDagz%X8=FTp*S(N2wwZ={mO&;E{!Ss^pIeFfS?)7R0>-c>r5lF7Hc=A)01;U;(Rf8_$<ALJ_P&
C^>%;g!mY%Mn)(7hJaf(7=ubmLQ7i8EtFK;rRY;klM%Of_)TI!j-(c)L$c1A2Hwmcl1QF)$){<TOiqw
YwGOgxtijxDMEzYCZs~RGE3DIq7xM9?q51zvx~I9o5?j`rv<w^(BCih&A|<;>5MRI9<gV$}GExf(kb4
VwGx!)zrKFk_(|qohRwyP6!<rq7@#kpA8q-f+fUYhaZx2fPHDrof3lh;0)bsT|%tMQn;ZHA9|W)!M&t
eC`v1rlID@L)5{@Cyb<?O;-uYvHM-ZUO2?jF<ymx>iXI~^!ahv5wh&nld0Gs<8z@MGROIXzad)Y=oka
IqApsiXc_Wp785O%LY8kUOJCq1wxIYUqf79<|onP+Wa#WeMw_lC!wYlp|t1#S@!zfhg7I#KEpyas9;n
#6VcGos$O-X%RVi~MmK@noT+b^lZfXP4*qdkqWB{iY-iU7c)>Ly|WdQ&(X6g^}(Knr)c`M#R^CGaqk5
H6Gi$rnn|izT*T;V($d+RxAuoOZntmIKxyY1lkF?Cx>feo3%B@WS=HPW}Lg6JDVqMQlhBi|HlAInCAQ
V$oP8@(2~^)k5@B`^gtpbgxB*0gK$yG^V_q=KBF1A!%Y{f&n$f(e?Y-`bP4rObyb2<hgkbbgxyq14Ud
nz=R|$%FfYY6m%;U4y8PtjnceQY-a%mD7v?hQtigWbf2*6#V}RJqrvDEC)fcSPa_LOV~Dfh-B>8`p3d
q6#0BNq*HO{EUfrF`^h|T6vP;jD)0Dvpryq+9L%`H2Mn+ZBO9?kdJF&=IT5qub?Zl$^C3yd`hYttJXg
f5K(x%urR_l98xLV2>$Z!)q-|-u|*A|92$N3@zfJ>Qf##V3NC4BLeFi2;hj577LX)5Bn0{2!PH*bXQw
W<5Zkd|tcxuje4fv`L7p`*`9k#&~^7|`Num`V;H(huiz$Fb;MNk(F)92tIkXeYL7fjC`0G4e3xaFZC3
PMT75@x~p;5xeTyk6zKe7PCm^GTFaVFs{{*1y>o)iiHO{mMXQdWTUTXC`J%x_U1Sn<JezxuSG8dx1v;
YQV*MeCqdWB8?mYuwo6qa0v;18isvG3;nr2D@~v~M=w3_8S``z)q&jrv3<Pl?O>H89F3=(s-F8=wTWy
Z{%3;)~?|jA$-RosmMib@Ovqly3-DjFO>@0Ffc`qYiOh~yC{rJhSmoQk@IQgN9?)5@fR$PzyS4CkKl8
GmurJ0A6V)J0Z6Ru%EeDc@WUsfddL-rHLHgvBw+|FJMh4f?i0aVa55rX^(2EU?aW5*m5!2pvmhD?g=P
o8awk5eyv33=1v2Ib~nRPcj3tP-u1IQ8N{CJxq#wpp!#7`tbiDFc!XRjWk3@Fm2I#UVahdF_Xx905~p
HpFBg69LD+;f6Jwv@)eb?CD`Fb+?y14nn<aoE(G?MAs@~d6<xriC~q0{RtED(|j7vr*Re!?6YRM>%}i
2h0@?{plw+w85z_2?CuHGHFme#7@G<fvzlO9;vHwhtwUqp^}?4dv#|7KJrWz>jAMw7|8fq(i}iBSjc6
iF$YWWT$uDO#rpeg$BLX_(0M<7%@VG{1)a57fK`vA+RXr7g7L<E%b)Maz4umPp%rjGuK*W04CtUR~3D
_`O<!m~|G&B<h*skW&xKL|KX)1il<u-EjPAp{2O~}+s9tWdcki!-hG-4#yEx3l^QV}4DDIA(NQXG0-%
9I#Ygi{6np*tn17rrFVi4-jH!)!lvi^GE<*Vb!tT%b-yy+{sn3B3#a7dh;sM<grr)FnDy6wSYxL3N?(
W{u$otBg$3MJ1yn+4fNB!ZV~9YQoQTw->&IgzZIIu(JKKt69Q_Z<;s67zKOMJnn)Ozu_wsD{qowM$c2
(!s%ahuSFl4lMRAPg+r)CMjX`KSs~J$)xgS0WW5+a)<JZ)t(tl1cfICuLM{+)LI$$QbgSBd_nf->EO$
Hu+0tsxMt*5ZnxB4PtvPWayW}<=w3Ei^#}C)w>Is{xmTobb<3@27K9BJTX9#P*BRJ*sPXD5Nt>LtSdX
SV?vzd+zvABgK0;_nGSBANMxP0Jj^dlgvI1zVy@k`hvc<Bov?W^Q;3(s8GXi$p2f?KM)o<1ISdhUWFh
>IEuR2=Dc>fL@xn7?HeY-s5&My3j9jW%p+V^3OT8Lduhe6docV7h(IB1=!#<5zPU3URmGgq+f%kRz_G
)f2@CA7)c=8-l{4k#X^+<IiUVJ|_+!xZiR2G{>(~>FfdO)#aQG#4=8j_rt`aA~d`wmmqLPXB0y*6*tt
2zJ#3{wVB=@L|0~V@l!dYqvH5?*IslTy-5ON8esbC5`gNRobN|Z+t9r>vXxcdQ9qH8tYMCWdYecZdI-
dp<}ct8iy=SBhHI%W!Gx3(2Q+lA7Ylo}<ZvsxiD-bRY2Xeu6hL-6gOCslPrB;rCkI3diPLMwITwXPWo
WNVvumFmjh-5&ntp)i@8!@#u(+Yx%T<^XF1PB*hSuQj2lx^a;+N?&!oRCqsF;4y1-B##fU2|VV#xU7_
h}2)$ys@b$?;3jy<W_>f?l|w8R{%v^>L_pGb&76Ge86x&7jv@lx`K#E2+%_U)}2QqZ+!`Ldk*$){J;m
v3jV1Iym})eV+SCnO4M)mwXt`bsNX{kn)!j9P`wR?$tDL>I8QQApV7YF!CEFxZyRLygim;x}Dwwn240
62qgXT_Dj&cws|}X0B+>DB&czE7$ZWbG7P7x#3A$r>+8euH6MU!K-yjNp2z53FY|BgyDdwn$A}%Qg7@
YTL`WGfRA;5TCEvUZ>y<5GS3)VK9d5gh?zNgcM3_(&%bKNQ_uZvR*nZ<Igrc;NodV5V)Whf%t02)}p0
}SktEqcEENWsTR8@zQ)YCoW`*idaDKV|NIA=WyWGVD&($}{4^aHxr-efFO8TA6XSY3Hf^2adq6~eiag
$P*c&ck)w{D6F|*!AX$IL~=Zz~reGPoqjl9LI%vLnld09sB}LOggF6wv>E9Y<cz*TwV1Ps<_uTbg$(s
>`811g99DW(Cn8y&KI7rCta{!DAb1L2t`C@-Q*;Yrnbk43mdxELayLas*G;>Qc@f`9TV=r#9VjLaFtL
KVa9j&(v+SG=PCip?Wdx9EpTO5YS%GfN)(u+Eu9Tm*slC%3St6sl=o`VWO1t!U14|QLEWpwx30Z3q`V
Dkw&sx?vcBwms>6eM!v5lsj{M2sUuKo0>^<Mmy%x5G)M<ce_Qot>XmGLhM_{k=5+7c9f#>85lY2_8m;
lw3_+2k~oaIDM`v~Yr05y~Uj2qB_JZe~lW^f9p)s{3j+c7-IjU9ny-18XSYgsDzG%q^51~x8t7+hBC4
xQF;FE2RR!a7*bILQ8JyH$Tb?*83=Nt?&@b+nkXE^V$ale3Acqy?5RRn)^K1NQX9sji*&NGdtugEMun
RSHiZj}ukEdsRM+bf&9`Q0^z|;qDB=+TNttoa*uf3Iy-<7~ShNoX0p$I_QW6>NtvM7j_8`O%rpaSsQ#
`mBPgIn;W(J?)XC8>ypO7Y{4E@gDAvAWD9_Td3OnFB$;f&5YyzKJ2)@Oc1`H6lYeXKUb|-i4s8L*kWi
mS70d>FAjO>Jr10I4K#*+0TDgF?F?~7D`iAbcz{Iwt9z_tT>;mfe)eS1M)6^@~zEm~%#6BU|2oU6OsB
#>=QA787O~qwM8a&U7Ai2WPSNNR@4|6ReBW1Aqf<rUJpHkW~Q|y~5M-S7`y%y5d?HDElc<4%nDmds}9
Z1)d+JlljCspVPKTZ=DPx7EAuh-DMUehs^%0#*0iDl$c+hI%r_SF5*%~i(7)*&d&0v_9Nt{}8+M{m^B
y~>TKAkm9+kBo=lAfdlJ?#MWjU1aT{K+pa<vw?+V*!!+mr@d2siQ)A_rcmm^4KS=6^av|hHQLsnC3LH
(aN0Z~9;Tn>7?1AWr`D$XakOHr19{F_vibNsDndeINw$E{obzewEz*J+t2**ZFF?yZ-_X5Y%D!(&5VY
y>*PXcfm~IV#$e5n01efHrZZ;Zog)HPDztiu2NcEGlF92Y=zSw+R2YZ^Qf!-|2<R1q&xB}BelVOaq1;
^pc<0)S<mD1|y(bQ#HTd)y(VIS~VtE?RXd_CHMrB!fB5~%5kA6-R5_gWvSX!*{((@BMz)13-pF+RgVa
gBD5fu1k`FyFF_TRZ{s%;TkBqHC{)O%1%Ky%75l4Ah6?7J8e8HnNvEZY&>=8%+hS=Ut7HcVdeKJPeVz
p+AYgu4GU-O*Pj?)aE7#^XSc^;!Kl3#-K&;peBVGl5NzhUvicwC^>$mY&H)GthfyJNAn#H8IA>j9i}I
ky(oD~$~N5g4BacyERUvsM<-aBg~D8;ZMR6sd#XajARQW%AQ_b@)31f8;B~hbzXZOoz|1$-A)`mRJwq
0^BI*S+*P$YRr=nF4ltc^)EM`|oD1C(VkbP7bLG?yzFvFnU6cwzb={uAK7o=3dIVtXS(^+07Vyd}Rna
XzR#V?_bYQ|G-1dc#EEGm5ys^rXku<$5{z*00K)E@RZo&@pcHP&74_Diap$eY$&rH5;}QhV1tQJ|*}b
HWCvS|yi-or*joGb*@sHeKB-SZ$sycv#<uD+fn}5t5OQEk|mkH*Z49Y0^z2xLr#<I`BCDPDl4z?0Y1n
4eeid%a_6n68F_DZDvrF*H$yL)(c5mO!g8Vqeg1&@B|&*YeAAzh^az#nAvMc<IBA_RqjhJ{~_}6TBfe
AG>2L&A*P$XPQ43WSvH}Xl~JFniq<WQ`cc^WrRvNFv4M=Lz&37DEzbP8^JGZ-w*6I@Aa&*j5lPsiYG!
#fk>?uXmcB5J%9@^%z-j?-U0{*N(Z$o3>~C?W6pONcDr+ySS(WZqo4k%|rswWagW}9QI+F<Y5K^Jt`^
kDSk8_egSb*xn?(vm^6OyodLzV@#=djsb-k#*`P!(Xk1z+&Q-TmlZ8E2>3JaZPqAErk!60V?f?r!-qH
VD;I#22B;6QFwV=sEwa7xg8|rd;QV2HUZJ?oPlKuzN~f`n4P_jT-*9QLa)38dhW~``upn5>NO&f`fEn
l_JGERT~nzjdC*(fvQJgXK_QzP$+X416Y@%f9U95n`tY~>nX0nrX}4u2N&86Mc|>UO%)GnwB25zU+*l
_MXqtzyZw?XX;D=#84Jr-<Fu2FZbMU++AbMhLZPBc4&%Pui0X;cjQPpGb#$-QV4VbLSKp_<gW|9mV!8
i8rSs!(z3!{?#B1Fj$DIDs%UXB6_$BP~sf3#KY>Y@H4FUlCFh(iu#p-ubCoGgCBU^Ewk;zE+Q5{`;_q
<mu{Y3!ZmG`TiMbT8)(^FY}Y8sL%%Y(cp(ce_y>is*D%Axa)-SNCvBqPnOQ8LogFh(l=#OWj+P0wn(L
PZltgUetU6v;U?=jy2!-D^>MXpRz-Q;s{q)9Z4nRrgd+rKxy!MFk^7T$O4hS}6dk-RIe`=VZq%EP$q~
>xrM#LP-bU*(va>4kHN`vpm&KBlti1d5M1q{@~2>UeRO~$kM6;mcX^?4d|kpo@M_~!HbO|T^QaFXXE5
14dM*Q?|wjE!kXIPayZ_RWx?gf=mzDH>!usJxitc^qHo2P)TZnwl+Vegx4Yh$*Y(lsm+wD##N|hy{pI
=Hk01Wb%K-lL{QB*`^PY&eyx8D+_2$F#yXXBo-mvh^^M~iJJ(vFbAKrcc_WkoyRmcvn*3ylGWE}_`im
FS`UMSiZjv#<22wb(mi-=+<wTM~N1Fw6K6sd3o0iHnMvIRH|1RH?`3-aZiH7E#3f{b5~atL}OATfe9K
A1&OZzF?vHb|%kQCBedfj&FP&;^80m@LNW4>ATpARFxJ4Md}X3^Ak;*j5<#roWDOHdv>F)M&u52aZnw
_+ZEbF-NdcH4q*M?1Dg`u{%FlM1l-qK#7M(B2({nZUTb4<Cz8_S}1oScN=6=;+#e5y*R|8s-y_+iaV_
t9m=}Z^5$J{CyB?N|78y%7AHOkobK>^dRV`}V+ddqRTYg(sBCH22!BV0@El&#5zqF+V~4fDxHg+l;Eh
{$b~SJs2C~$K&a5>zO#xO2kU$g`)e6pG8XfU$a|6UW6synd-FaqC*{IT(F6!W{8tG3v!=HF-oDflUk~
SUjY#UOc<WR7#K}M!COQLG;;kc%VLoHxhbGU7ZBmo;%I{NUan(QOO?B~$f>F?=5pMF{g?MS<Ya6t-`Q
v!%BqIz6E$BR^}v;vErO)?$vY=aN&?$0*Kj?oVfIe@}xLyS!8@HXfnWV?hI3h5%wFka=5$Q|))pvegq
lh%Y2^Aj;rkiqXw04|LTJqX$0@!<%n8uUcqNeBC%qCM_<gCLN8L-G>74}!&^;mt&I3X`;fTL}_tK^Cm
lBa`+sOgCAo;kMj+ULc+gi1UshC7@UX9x$4Us68cuC?oKsJMw^*CvHzZ8(eT8rr6^)M;zA?&qi~1L-%
7UH~0WkP-?Bq@X=MefNbLmSxV24IpT9h#GPB~1g*TpV%Ll9fG!Ew7W}~=EbgADfo~Rga2*|1Cm$EhUc
#6-BFzPs`L^z04e@L=Cjuk01ePs#BjB_)I>QHV{)<)u1vtdcZ0OQ_hA?+h0U7_U7m+K`Z#1h!U62l=E
hj+_9Tx7}h3x3*TRwb{ZoS-fSoz)F!MI81rr%Y*!}E4qHPDsRBE8Vb(zN3ELIpgmhz)QscF|4*boVdL
4H@)a6ob0pD<>P;7=&#nOCvX_GM8si2<?Lpp5`2j025d5dU0;B1@(mZr&npTFSfu8>C8iQSIj_z0_`w
?frH;5sXDrs=1CUqkR$Zl?gvf}!f$N&#ewG(coU)d#yWQsBV+)&9s^c4G_Q)Iv7Le0?0F99=!$1)R$%
oS7B)0s&BsmubfL!hOj~Xs%fC!RINY$|kixCq_6+fCSBp1o0!DDUrAdC%Q*a(0>_e1{!=Y0!Rjy*dbp
LVu0{r$o<a9?o+ws|37g&NKog6#^#{I5b57}^Ah@(1!>NfdmuEn>`w08FcA{7;19Kg_;1eT~_jC>;k>
q|>#1LQb@f=;m56?7S-3^_q;R#|s@@k^Qy#QSPU9EPDuI`1*sP=C=hYL2RH)9SLc694toG+_1b!-+fM
**1M&!ti5CYX6ph(&x)n)jzG=Z+GPwq!7doo*miGp>G}WY*+W<=@n?^0wHCn2Q&RgZYa81VSGdd<oNq
RtQ&+&fwvspp!Hsd5YKk9l0mo`XyZGve<%ZYS1-YEc+`ed4b^=Z48!#WJY5jGML&Ih<^|%}K&}y8f14
RX2;9ip1-qUC?LnaDiEfgB?uK~m>9=l?$Iy|Fi{9>j&@Yi8o_<H8napTI1J^mafbABda&O2&iFUJvwG
q}VAG6=}B2qyC-4HN_`V?kw2L+9dtbsJ8tD7}3(N4XrFvH3*7e10dzR3~Av-QkM8Z$&KP0;!BMIfdGF
}NCXT<_?LLu|hK2@pi2-5z(nh-Yh&a#!?>7DY%FeKD9>l^@8kJ3LZb=U)5^5T`w@yS6;I<M>gCXFDnT
-V{m!Q^moEh#M?cL(vi4&g1Ab2~Ftl)-_;_wT7jb*rt`A>Sa^U5(O9<w>0TlVzI*6K*wXBxM0JZwRs0
dmCDOGz6DU;BoX4-U>8kv1z7rcEOID6`T-jrHp%<&AOS+~AQ%tA#?a9;c!4JG+3)_{eo1%Eo&#lU!n8
^xQ-mjMPOhlEd$IW#3HP%juZfd9!vRR4cn8CXXQK;Um3np*F%?RRfP9ZGJREWFzcjs8<Y%-5!vSRw{T
#kO5YL9Yte0mmbfK^x5;`u}+}TO71v_8@_OrXu9DXQRqeI>R0y;REEKF5VFMbKCz(6_?NXG)=F(6`sN
H@@A1~U6#*HetM4q@EsG%`&AZyV%^dmi#>AfD~+N}<O)HnIDD9i?MUSu=)1_K_`aJ+<rl8F0Ct?B{lM
GiW95dhtufDM<r4<tODP(e{xl@8t4>$h@Hk3nZFdUyvktkaz7Qx5Hg7<A~sS1sR9p@VFQnv`pcSSk*)
jF@YQ>Ncsi2x`0>?Na1j=sj3+EYlV@~ICh6uWbO7cl6sNDLFu;0LeyawU}MOpclT9woitn>R|(SRF?`
@7PUaO^dmif{;9CrD?Bik;Apcv~UZ(KyEh@Nct`{DHGSt|Z{=|gb>kx0p+U>=`@z4}DRrY@T2gvkch_
(34if9p&V>q`5s698t^RXZ9aYH=Y(GHR}-oNstM~;W1<-eHGu6c*b!i$Al4?Ma~7Pq34hc9JD$EjDp#
P$+wK@|p^T(Fm`GRrFDPdoj4zU5FU0gyfjV@U?$p`7E8^t>2r_k*4aYsv5p2TOD8?+IR(PDfA&&!D2v
U0v+qQUk(j-N+jDeh%B=rBc)j-ME~`RK)%@W6+_mlGaB55)HZu$<-aTSfHHhuJcMw))4{mDxh62yEaG
+qut>LFs|;}NdL4Dy+pW?j+=;I`q~aMh;!!O{eXD3b@v)+v^6;dD(5Ub{-u&a?}AiZJBJYB?}SKZ@Xi
T?u&?*#yrFm&Bi{)4(f;Da;cdB-4HpV7spF;uo3q<VG*tg&@dRD&Igl}k$6c?7vteW0M9hAg%8rLX6%
tBb+;!iz+@~blj`6=Cn;X<a6?>_TJBJ+b4wt9qG*o<j0u@jTc^ObPfo`gi#EY;q7<SgHe(vw<G!#fJN
AS!G#Is$OOHBbZYBPu<h1idz9%q%@TSc4^Fz*3t9Z<0yPpy-*4=B*~_^DnFjScN2_tbWT*3nHhip{#U
;mS_4r*x3UlEcG10_<Ua3G%2Mf0B2&&<{Kx{*LFDO}mk(2`8=NCx&hqt6x{s+m)Gm7-IFuR*4UG*3IF
ev7vLo>=kU%ZyqWlf9s(`aEncDk**4lQDC!Bgef)*E!%)14*xI|&+@B4tI%)`ngS($PYRVUoQQOgEH}
*T^z}fbrOr7B55HweiM!tIm$ZIvEZF=314}1+S}&=sAgm2Vbi*Ix6%r|TM8Odbi@kaL9p2$WlGL9H7$
?G@N}dV}>jA)VTvU%a;R`&k5X8D)kXLAI;y!$TcxWtX^dLJMWWgdFx3Do>lvof9gmUe}(9y}M0d*};?
oXr7=Dgvdu_64@S!q*6mlbhCAKb^aS;W{{T}Z!>$&;7E0=9b3W5lyfs#rEI^pB<}@H2p7cuz=}=O=z)
"%text.

(** Lines 14415 to 14564. *)
Definition DATA_95 : text := "y-ZwOoj4cQn&a;vo(=QL2mY>aLK24zLMJ42U}-`|<`6Hqe6TN}s0aGG8ph<~?gzxPP#Pie;>Hor9+NV
cb1@Vm4hW}Oy3xm@70yri7Do)`q~_sEc)7|`Kz9U0MjQ@fieLYvUYH94tANdDdI69SaME1--Q>a@&L(
kQuCnWeCc`TWBKz)EeGaD#bFm73!qu7}nFuWih$D5nNXTNJ;`GBw+VFA}>ZMBDD|4Z#&`=2p)V47lkx
86b!f3@YnwH=;=O=W_NrDW;vj&2YSRpOK>e@Z}+AxA(pnC{5E@z|;8IBNZZ#So*OQM^dM+DEyRd#zFw
==!{7o-%k_w<ebVjkn22Ht7te45%fa=`EF9=)C8Zm)jH^7;I!Mg?!y{>4ec8wwnuZdj`mgVzwO_`&kr
Fiqi_dncL3IW%_qK>psQ(l-1k!y|nrHww@5Ex&W1n5L<lbQ&gj?s1#0Z#XV+$VS#0eoueV!eX&HspLo
<92@}LOE?ieql6<k9m_K>5YGlPwQ`6~FkOS`+6j3(+Uo9U<!6F1t&QhFVfO@cuor+W07~THcX+wVuGc
Q$S=@qpdYUQhGkEs-X}*odl+n~C<%zJP8PnN_`z4;dTxI*!)IpWqqtp3m@PqDTo|<DOqQ|LAoxupT>h
T4@^90jarTZlhyj<le@SH;*R=(mmM5^ftk033YnGEg_ZW->r;ns5#(z3MV-1^`F@oY?0(cupWCczIIV
mfUL6m@|bqd#;p06Pi4;MkN-Q~Sej&u90z!Iw-o6NVpCCGNyS=b-y1?gU-yMwF@R0ANX)$2pvH+0*>w
j<XQY2HL?Ohun}7wuhp-;ja)568@=LgOLu@dwuGp5g^cg%{Q=iALQ_!yj+EP?M5EF_)~AAh=G;ak!k*
m27<Gx7vO29%n*3mu92EY1kcM=cD<MlScgtecQsFXr)E0c%;!n@uG^A>a72wTs<DS44k(1(?f)X4?Tk
^tJ$2}$KHWyZ%!6@i1YiOC6H{>$vmCl7+;Sr$uUbJ`zW>x-@;LZMy`PdnD=p-`u*59X91<6}>Y)Y%c!
W-{4(#;S1|DaV7cW=AkD?Bo2<&7(APPU@`2=A4G~CeHa6Y3-;s6jA-v8co&C6AG|6*uBUauk_Ys1k!F
@1qH;c_+38h%SR+TDaPQ;y6M*qz56A0wXa`VVYqZH6b)+3u{I4x{zbK<o~Q=tfQ>P$f1q83eek+P}B|
i+Hw%UF$pZa2;T^o5j-xvY_E%cNo3UcV+4X!C`0yQ40rRl3wq)5b<nG%?lO_iB4yN1$!1_i8$cAG*-;
F<$)3D3?2Mw|4#nZx!moAFL5Wan^D8p6Em$4iBurjh~2}T_=fGiN&p>qAeV{dU9mfE16t*-cl#yX_dz
UA4j7IgdhX#s5&sXr<*vhu=x(zyxWfP?5H5CS{{51Y;i0iCN`aUolvAXy4Pf1J=g0EEOm5?rCXER>kd
8&^DqZ8Grs$<}m>e%x+4HR#h0t5JylS)?qs4=Fe@{*$ygwc94Y>_8X!xQ-klFh=l#G|FJXOy*)0bx-R
`_y*<!zdBC;G-5S92IK-x^C?bqrWn<FJ$*-255h+3p)#VNtu54O7+?K`c8+aWd9JStwG~F58McEjY0x
IQ^?@=+@0gA)f7?3P*mtOUxo|isf-64!Z`l`^@wbwoCn*s9l0bbLAb*<~&}mLcIdOw@T6kCeyN8m={Z
AU@kl*JVlpdj~Q}rR#g@y#P9eG@oc~VHaBw07A^aYB?xjOmUasI*r;4C33YEnSKqP8ExnC4>-g27coy
?QCWDI$pp~mlb-BUN*uUaeP#{c52N^@B1ZDZGCm!PED!aYu4`?7}mXv$fkdtK&Qo=!YEJ*u?IZ{%UO|
Q@lqnS83;noko!^>6h`zVh055wHxQevIYs1hd$?muAb0}e3Y?_xP__%ucukSl#2yUxp1c6(XGr6o9_J
&B6*VVtwaD2Y6iptB>kNy5K0#FMb&6p<uyXs~v9Z}JKcjfD~EzM%u=E%D9M4WAAVac>LfF<Xi7Hk+im
b{$PmmmtEf_xt5Cyj*3EoB7-GG7%!x<rr}X6VZDt^Pz7Qj-Yf8ou(yLv9LQi@elJ+?ta*QNqX?0>0B2
@_{qe_OFS_4rSLCr!$kC;^7AJ*tbD6;l=R5)qj<T>whsWH+dY*VS9-8guVg{<GtixOGM(lt=9~Yr7(I
86ms+P@^d&54ot^vnFa|tqE<Yvga{H)6D{EfTgPl!1d0t9^3Wp_#^PVZ&PrdLZNMX8!pjkq)7QOlghl
lsFHjms_V&iT63BZ!~WGrPsXWaF|mw0Fv<XBA)f5rtran2CVOhn~(r%D=V@1I7~(}aD)oc2B65YIMMJ
CHHy;b;%tKoQp&6n(r#w{-fl)7_nC=v3Y*29Ywn!?C}p-!>jZ(x8sPm=1~$ic6U%RSxQq8wppsML*a|
zo5z?TF$s3o=wj5&4+Mec;fsEo=Hf;*y^D?&Vi18OM8PVgZ2jX2KSG<-tCv<L%<3@!Im`Dbu(<B{Yy#
PW`EgBnn4wa!-WA&=4~Gk&nD-2Bqup^H?86>C0j+)U6lBE`EW*wvq|OWCsgkF`1bzfcSk&nUTxRQgk+
3baf_zY6}!riaV`-pqC=bSkm2Eo=c~<Gf|!wpyuWpWD8Zh3cN=Taz(tD|En2i_(V|6TwzW%Kon*O5mW
paZlMp&VW}=So^~5cqcoykFItSRGl*Q1=q%)J0vo({0PCKh#3*k>V2jZGz&PiX%$rpLQbP1u=w(CC2q
`0vM<Hp%s$@y^U$z*BllYW+5z!WnY-#LA0jv0?z2Z9!A`#TIVTL^pgZ30GlhA~VSS3lzP?yCn}?uc1C
QphZFLq?-hap*YpayVP{urrojZ8PRLk(DMog(Pd8Cik#U329wn43cdk9Y?yeswI0V`aFk~ATZkX%AkW
9HYy}4@>cBv9X+Q+_fPJHx999Fwzv6(e^SBWH4xoAB{5Z!sZR2yNzx_BAM|P=d&Cx5xmD@|*^*AnF$B
dx?eNt|OSb=OsOPwejA3s<(IUWEXD#zvyk2H6(vto-wfQIa!bp^}$pDSWZm(DgLGOcuspZ}M0(p7Ut~
)vGU%%kFgx#V!1TT*xf=BqV>vbEIW4in)Ywxlj@Pr*pCJc$)EUM$NHY8MA_X{V7%l^3Q-F``uhfH&c#
RGG2<;+XCGC$lc2Cy`s?yuE~7NILfQzDxIJ#itz3+kowbi<g!?h~Sun;WS-41hJA6JGe1XBLVc-5$;m
AkOl2$A!odcD>{~@RU-Cdbjfg0JIacF^l77cl$d#blG$KPR_}*UT*u_&Ev>vVP1;4K^uK8_B0dh{ORi
F(V5n}Te-AFSS9F%tmn{8)Bzi3z{Jc4BD5sDPl9?>v6L)aDxWd8uyKUTN%&h4QTBC8c$?F|=w6e^wtF
4}9&QrCCN5voU1Kq7WJ~+9w&L)x$YFH}C-cNIzV7E9H+8STuPT2eT4@BS={$Cz_$&!Q($iegIwX#CCn
Rkij|1JG?&s_$&r3f2sS~8u@MSd2qh)(NpMxpyVGG2pi3^qZFNxQJmWB)L+7#^G^^6<3*Tiw*_(FbfV
;BXN8?1j~W)lON7{*Q*+)-k5q!+0PVGbsfsK)KDqkB!^w|sD8H5~8ZKy`~#<=Id`ak!^(=8vubE$RM*
r@8Gfy4SwW@4Z+hd{FpP3(<VMmb0rNZ7)A&`Z>#VTTzf_z2^nG*H+KG08Yi0%WGi8K)x^fW8rH+tP`J
S6`8}@C{euws5&oCBPsdR6j~9EceE$nr4W@TTXU$5MhoolHZ;o<;yv!1srE29#KXRI<|O`h|6)=RCM1
dLBoUnCZ~IWGih1#{_37hkw(zUr1p1J#!T3nI)}sp|5BJoO!n7&|g|6yCr{<~BLahC?cZja)XGo2pS+
t_MDfJvqLB4E{TcsVCStK?I)DuXyu;qA9Rc1;kfU^Stw|mjQ!^vFj>4RT%ul?X>YQyo|1<dsK-jH@+#
ZZzr5`Kw-JW-H$+^X&}a}E){@qq5NFF}unf^=>lLQ>X>g%U44tC%iU>9_PglNm`+hY86hd384Ll7HIm
1t!SP6Zv^Iw|3E6O_vKyL!YFwb2yYlah@p76P<asGrs(J4!;X^ujq&pb$OyLPlV;&^JUO?q!M!!Ma}$
$(**0-ka?sBVA6-#JOS$HUP<{pWpg$(zoQU9L}H%J2l1{%ZNBCZS|*zi!vdkzOtj>Qmb^bs{+Ptgt`|
e2k{t3T5s{}mEMRc5+2<CA7FYb0ZYw09f#0dbkA*~6-iIlZTiNvz`T63yb5=WRnI;m|ZK|<F6_uVp<v
tXMqHNyP+Hj7bjItfxh{VaRmti-1ZnUege4Wp%ji<rxG_~BUbnUFxM7eICVr_zB&7al_bgwCUh_Om&y
*x*D0Vm@TeH-F{mU{X=4M7o$VITIPh6DBWIESE+VtA?#yWMa~T#9ltHPDI(c2d){Y(B;W-FBkePSx7J
`DwVm-u@1{*JdJG4h&sT`i23fT89nmnAz@rWPLnT-F>-UoyUZl1W?E!vYk!LknOu4(sxx@2YsLZz<&`
WpNh!+65=)8{b>VnaBRLWW^|Cxz5_UN>ZOmI19IfpS|rdNA}*W#fbl^zoT{Xk*2dZElu#AB{N1rT>Rz
#bsbm@oFVUwa3e;>`7IpkO9o`V<XgIAgA<C3gnhYoSz0RY1?a+FuWYE3#Qafs?mk)_0_P`aDV2G(YY(
^rf%OjtIJR+WN>l{u2ulv-HSEce&GLnhrt-{MC3b#bcmEBbenjt;*mn?w7XG2Xif9XpQ?n4&gRjC)Mf
`!#h;^+a>6BL&%Vx`ePBN3gX^cv~TMyyypbYB0Alvmz)9OzIE1IK-a2f;QcNsNT_OKF*N5=r{FozECD
SB`E={EVfT#iiG~AMi`;c2@qRqmt*#Q%ChPr)%;ryggrF1u2G%F%e5NPpm#CyxhDIy4OVEkczzxY|tb
mB7~-^(~UtjjNNYyPY}(e-=gk0J<VJ_JT08zw(IU^007lQyARa-7w~7{^PQ=_DazC_E=jlh-26onImx
p3o2P|?1HU|Tv)^nv7c6mi1hIr&OX!&>Vx-GGQOwTpK{{P^c%$^tSZKghFpgldE!k1l<7G)qq{n!r5@
CFbeiTBq(kLkXi9a5vUigx3HqYHE_#pi}q{Xe=Z?ThvN5iv_^jLkD8x9L9$d2cg_u(H9MY~=<VUl*0<
jjGpr(}zmjoq$d`YGdfa|iTwc7bwU?#OZ*cmHm`B;j9E7S(h5!dQaE7A~}&?w0bzMB}tKeU+n<BR|#k
cbu!|5T8`{T5SxEyUrw~S$G3ba#hj$Fvm0;Ex)B+d1aqLA52g9%wt%R-CplxjG#T4PB4U4@Mob=oE)u
h-%a<VLHa4l9PWHNmBUjUyAC7qRHqheS|yR6?>c13@;%3>>AFX(sREbZha>84gAbFDEJj1@=iOfT62u
T)uh)El;SpvlyNCS_kGwNlvN&kr^cf|gMVY1pZ!mrMsPxd-B~}3^G<J7Cfja;YT-0fIW9z#D)3h&X1P
g>QFrIrF>fZ4iA@}ZImVdSF>--d60c)d-gfvCs<+N~k3=psd9*JSF=TZ!N+1EKlm|%J1f%VY93PaOnH
r2qB??}TVqQP$FLw6tEvrf}h7(c@!74mrwK_ODzb|<Wt&I>CS3QjNzsYF18%TJP^Aq@tqOo+#3>pNqy
N4e{TFTu4>eEA&byX1n6t3Ig@3C_CpZtxtJ8fu4JP2yaqUi7GUz3?SNCv@3m+(BE5-*w(nCO6K+C1IR
;miULMFNhyC%>3X&<*kb+-g+7jwGMLnjuDHI-pe>PJSYj0nI^?fW1SzG=xJ@f>(OGzPNI9wp(ly~Vck
sEO;)gE1xr^j)|^4|DLoXO%xtnY<gjlr+t}E=4=W)k+4ZufGrf~pnM|-`_6&1ZOoSA$z;2MrN)_@*hf
-+?X~sNbe*AR;ie0ZS{g4>Nr9Ej913`@1P~j%_PLKF6?sZ<CMk^0^SiJA~hVC^<S>_PL#-dnVazQy9#
<UBl$jbK(hpDu2e&=wLRKs1n5ADWp-}UZh4H9m7f&p)%d2>*vzvr28`ON02yoV}Dwdd}o9CpyzH;&`I
@!(v<R0ID+cAkjM8$zpo8tn|(Xc-UZg;Aru<dnn^_zL1W?|#^R$uJ{_usqR}4{~!2J~I)P53+NqrhJ`
$`2_+P7CCx}-Nsy!FOGdc_nL^q69IT408bU)O!+}_uiK5GmJs`Y^xYm-;>l8O2_;A;ZP&-qk>Uhyzt1
X}@&=f`s>atJp*0&M4Kr*iQ$5a~mhgr=CaP{X0@RZi!42E(#XmEng3f!Gb42W&NW2qOccSG^#oKODkY
qx<-H7osoXp;)-SxtkKpH3fSsKrquE9e{-{Pvbhd?gTVW$%8VUO%NJCuk4o?+}4?d}J3ukuldtlM;;^
y<wd_zX;IWz_nPZc@OmXPm=FcsM9{PiPxwpCul`ZZFCzoon4^lxrC$eq#<)KLc^oI+zGP5(WXyNuo6A
zErT@>pZ&GB)K&-{P_2&|6n2-Ob=gYJiQ^7g52a#Fn?BpW#u%V#WRi$gyn|Afh<ldu^k?A=nG`A8NA<
z&)9rheOHm~<<=Sw&*8GGaQNfISs4DOW-bWUwL#o<PyS))9*@%xn3wd1Hr2LqVZI;nwj>%3$gSJPHt+
S#{M)3C=HSsI>4h8OIO%AHGs<bAwNbc_8^~yN&scaIeJZAx!*=+oQ^J)TGTh7ZwA^YPR5?L+6Td92N-
E^7mYg)Vp2z;Gd!@@V9O8*hY!;`zKAJl@H3;V?Hi8lk8U72=cB1~y`=zcJ!R?=EQk@9P3;R$^o8j3#t
O&D(C_E8`50mcUELXp?7>s5u$4;Vq9prBl)p(*BPqgA}jN<~qNH3jt6@@>+Si0MQ4suftY-=}fnzua*
{Sq<{2;YY1OiDSz9VF`V?s*XpTf_>QW+|8Vr{!p5gtI!<vF`Swd#xt=O$d3=0Z>3)*tN-sgN6w=q&o>
uG01?8hdUr1enAP)n&ocq_DhBdFU0AIE<I7BCu;P5%skT-U3#KN&(!1%|7A-wO;mvK%X-%fUxE-lJ<(
{LlG;Cu<Kr>TX-Pa9Q!T^>iI0~o8i~$)JhTRfj{>#3UhE&r^F(K!>ESOP?89_LXP$6yDf5<Eu~U)XGA
tOAaLoJNUi^~ugkT377e@Ck?Hj{H3{v{w_%Fy{6NN>(ztNX-$P=Ke%Ufs8DC~N1W>62MJM3i85q=EPH
64mJ5ojcejB(@$c#-ZbBafblFf#R8?zk{Lzoh!H#r-{Zz^IUo&J=NC1al$Xo-#7ae|c+W2#);Yyrhrr
+3igSipGQ$QLiV!I9G5J+}y!pp9C~bufb_8bK<%C(sX(9Ej;+PlR@7H0C0!112Fv+)azo5&QEBdFKcn
r3X3N(bEeZo+}!p7-D~Rg>K*!48>U~^{Ybl(-DYv3HsneVrUdaLUO-MEPE%PMbDsSo+~lc;@5$0C5a2
a~7oJp0j45kO#AK%C)L{u{jc<l~@EM!<t0m4nM)#Vir4ylaqJvI!(21%!Q8lNU8na#IMTlsVP$-E$lB
Ftff07j`=Xpsr|KIh3hw1Hz8&I1jqR&K^nW!-nHD)5jOvILn>@krzCJM$x!I-EObDn+U{D0TWWI|4u$
o>*(U!vtp#CwTkFHz|wD!oLJm*y*_?x5Y0KtGL3?|tL^f7i?Ujs7c9eI=r<L|K)Js!%E=`lLj3lxSp9
c??pRRMmnQB~f$atvBNTyIw#q3naOq&(9i?NGcK`MIxF=)DfvVLM4PUEL04s+CX{1y!~o)uSq^XrvnQ
RP12M9O7lq)>ZYHi(Iv=b77Q(<8g-L25_g`L|39VFl}TK)wooexS&#<Rrc8-PQpaECT7Ocv&Qu}mcCt
q2t<&ZIyI!zj&QIIrK_q6vG#vN8C=O7_SfwH!vP~(YX@bePWu5#*qI*qKKIU7<sH7PcGbH9k$b6&;3o
{fZAmIKJYCq-j;q4R3KGz)=qI>1SCzJ#*@bL+up7P*u-YJm{bDfgb&?hM!4HKR6&vMP{_IJ>|rVK02U
qU%1j7aK`K^&%}pEMl|UBbqt#2O@8N}@@M$#bpS-$D1vg-<96U?6W&nGoDeDqw(?N$D0T6*&|Fij?|*
@JJbhb@JU4-7A+Dlc0VQwok(ANoYKYg(rdQB;K4vnUnZ&67fwUxk-#RiOeSP*nFIIexiHj!Y7n0lq{6
2l&qAjl&qAjl&svVQle6#Qle6#QR46q6WuEpKA~izWTRxGWTRxGWTRxKWanO;5}gvA5}gvA5{Flw=w7
+-2_*+52PFq32PFq32PFq32lpD37?cP~1SNtJhbNfmUb*lIC4-Vd$)IFVGAWsqOiCvAN=hUpk`hUYq(
t81HW{}`$w|pc$w|pc$w|pc$w|pc$;rJIB^D(XB^D(XCDuJ|i*Z|&T$Egt+*p}t<0jg;i8gMch?}T;C
c2f0V><CWCkdWOCS#HmnC0wenCM=)@ChZs3hV4-jhtxMCK|Sha&00}n+VP(Dzb@+Y@#BYsK_P)vRTeK
PZQlM7e1jRSV0{&(S%JjVG}vnL=HBQgH7aM6FJyK1~!p_O=Msb8Q8qfDVykCx$p@k!3rX<iT-P%|C;E
(CPJ@?25BNcn&?m_X}(FuW5VoC*w%TUlQYr1a@n7N6*#a7r7`hUCW5Sq3~M5}nn<oDYO9IRY9h3nXsa
gLs)=xF-iO&wbgx|agpyzdrPM?uHPJ#%v``Z*)I{$zkvdIOP7{^WMBp?LI86jj^FB9eqI>1SCzJ#$NS
G!PripNAB3GIyl_pB1iBf4IPMYYFCc31F5NV=8n)T?xC%RWId_qaEg4AfDGMc0gCSszAOlTq#n#hDED
wv4`WupF=WaTHx+gT6qInljx;S)-N71)7EbTx^jCQ6=(l4qjinJ9TCN}h>yXCmF1NOvY`ommgBG10wp
*`I(F6d4mS#zb5((LYQi4HL1#L}M_~6HJonlT7v`3p`2oPI9^P*4a#SuUz<ql3<0L%_J)`NxDo@D3g@
PB+oHPSWNN}lYGF0?w`;n6Iy&<%FnHL`z22wUEjWb`LECOKVNU&{@cr^{})h80|XQR000O8^OY7y8-?
V^OA`P9luG~rF8}}laA|NaUv_0~WN&gWa%FLKWpi|MFK}UFYhh<)b1!3PVRB?;bT4XfV{UYKE^v9(Ty
1mPIFkOZUxAx^ID3!r5`4Lxm(5l=j-7bcv0b)PbE#CyMN5#yjYMimDjwgjKY+l4Zjf{~+1ahSiDFp-@
!I|L(~TzKXV0epiI>N(PtV2K>Cy4|^|5$)c5(Dq@kHHcvuEOFrNl*3-j`Le7Dx3$iLw=M>;Em+>q39u
Y<5*SFS@!B^L44JPRw<kgBhBhR%KV}mao)jwXV0S5%p4Z6MgFX=c;Sx#a6Ly%erdy*JfKc{TJP_xU3s
nK5tafsfD<E?0Xy!RWzor?V}!Q)rq~MeIbAN;d|Z1Wc34axL%7ZQ@0gYs#VQrwXiEWs;jOk?{<2bd+q
*@x<rV#Me|8qmh1bb+=%Bw&#)6+EiNCsRb9FDYf-JsyQXL!jntNnQlhPw-GiRkPvWuOiFr|pMlH(LcC
Q7|iK1Hkv2JwxO}!|WkEUo>E%b8CtUJ|gTFCJA`8#o@T0K+oT2-pitGV3Wt;@M?d{)j?)hbc6Vr$CU6
-nyEOyt^4M4Z&R`(C;~303OrX6(<ZX?2N64kSi%Jw`(7davlr{Ixc>rs2Mx^rKj7Z8T_kFew6B=|YrM
-|b4vUVqRX>V-aNScy9&cCA|O){*W(*A>5<-n_YZcOwqZ--}-kudWWyZ{Gi;>uO2st6G1yr*gB^5L^h
os-~#AM?G=f!Q11jqc^(6;mgyr)0_8Z_9v$|=f~IA;^g8=9E!`stDDoKcV~xJ;_}_q<;C^!fe_b9LBv
LwQ$qG4Ug|D4wU*>Ubw#;u?b6?C^|pF~>xEbqpOsegT$LJ8qR=L?ef%aJuIuW)U$1UL0{uypOHtKbBp
#YlV@IQJq+Q($={M4#pC3dbm%36>eOhZ3T<hj1<x+QjvaahU5-;nvGgaRn>b7wrW&B*Gu@vInwJv$;p
Ey2$^_8UZY&Kgq^+p`b>&@1vebd{{LsM*T>t->Voxgi~dvS7mba-?8`r_)ncp?6K_UhvN=Jv1W7r*Fl
&*kj+{Nml~H@8>EXSX+Ru8yzYT%5hqS7aQ|-X8wXRJp!zdVcy=cm3+{<}kRL&45(>e^oZceNh!6c|Kn
ijcC>1cdD9e=@xfu4SplxYPY%5`qI)<#e5~^N`tmh+eULnrMaW*dRy<?J!%v0)P3DN&i=Mdj&zTPOVq
EO9(QlH7f0rmMDf4mC4XbP>GpCzn(ZY~razjW)c?-<m${Pm-%|bAezL#Q{+e{xWt8`y@RRpFrG07Af0
F%s>fdEwlChG^3CpyyFFPySGBXqXEpqs+a{Ss?Vkc_mp1U8rj=Yzsl}+AD4Dy21AUo8{y)5u8bH8OTf
2*h1$=JNxUX#8)N!0e3_dmAOynBiMzkk_@5;pNUcTyWmj%1p-SI#7zJ6YsCeshLG>9LsklH84uN8Cn8
XBMN9WAwMa{@oaj38N&<*h?tsk(Bgnl3v1gz0%17D>v`Z1IgVYP4?)s?}_^y_x0@v7+-pcLKg|x;a`u
@f0Jwpqhxu~bEtH`!KZ0N$d!y!Z424IGRLy9Yh~@->Pz}%Ko3dZN66!ZdRt-^-(ytziqwD`4HQboglk
v;2tV<}LL_7ROWdMj51Yg<%EH4cI%Wom+4PXI66G8^v^=brTRTZKbJuexe@rm-*Wkn8&r&y?bTk5IoX
la=dL{{srVP-a<}6Te7W}}aO4q3zkXP<qs_i9l?}?KxoN68o0Y#LTdC(+eOi4smCmn`tkOB)$yi71GY
&3C9mwGutr5GkOGame8u5Sws8UvzWQ3BCZNKqMEB}tUjNvb8Krw&`G!xvnsboCS0f96ZRr23qx-V=Vp
CTUllI0hptr61|nNm5RulwC`m5x~wvxuy~6E%jr^ekAUhQa7K}hIuH0qB*Hcr&<{p7^abXESn+oh_eC
^7khXR?E^TpL{9h!X8@FpOO#|3dwv8)Ak8EqYLTvs#N!Op1#3v(pJW*2E&<%jrAiPZ59To{BMSAb1Tt
^$_MO{j=Fmn6!xSY8@MM$*whN_aZUSU<p+r+AQ<Um&Phm9m-NsIBKo4v_jZ#)GiQt(tPehm?Svtv*s0
xgc_<G<LB214_E=`gs$E0Kyk5B{B0D%L=VAYUEDP*Q?$<XSt6|p)YKzNCg?C^ugiJMu%KF7W$Py}gZ{
u|nJiw;8#_<G5%$%y<CTqyJP(j$U%8L*joS&<ac3bGuA*WBvKQG^>k;t1#<4?cm|vLTO>UGkkKx(8k$
MN&E9Q9Gb?rP56hI^gmJ?SS@aN5P{2#G@&9q1@Le-g^1aKoy0}NrbHi{mvZ1tzO`hh=!!ccj%cYdP1}
i`_hzx5}K&=19Oi<ERaUzZ^*7QhjEJW$!&nArN_UeeJnPlC+R^WUA?|$$fGn_3d+JsL0KSUqIiorNGc
1Y1*M0?A4e2=lQGeTk%!y^9*x;VL+d8Yk@Z3?xK6%1b3B>&!KXJEiHAdIA2JG=SHhUEqC7%S$8jiom0
DQmtP_fffYoqgoH(45XQItr>OZHxHup@4xB8e%G>nai%DH(-Z@*Z3!c>X)D2!O40lwi&g3p|`s3+nP0
51(wI-Eyy&!fbr3F88IDdGqCEV`aMZ=d>iEQN>(7EW44iVRjGiARTlGl(~Flau~8%EApq;=*TyFBpXQ
6cJX;<VPF5Aw6N4KzBOCC}0c;0X?+agy)9=Axt6u<hv>g_jpQ2MsOTxoibX($Pk?!eGrdQ6h8FRi7yQ
?M;Ii@#U5KSdJ3IXEAgV?Er;`w#G^xoi=9Ub-9fmsk`4}-vfXwM4URJ@?G2=p?euGOg%S`v2{24R@a!
7j@^R&oA;GV34=z0w@jMnn9&Sv0OO6?3L(fF(A&F7|E2A;dU{A%vGy({@O)e*b6tOAS0l8I1gUFP~0Y
zB(AcGlCNSAM&iF6<hPF--sBu@%y@(7VZn5D^mzgA>vn9><WFg(8Dsd7v!4kij}$(Rk(M3Ky)1P1{po
G5J|$=44EpXc!NKzjLLqM4U6Cn8E7<PPb?uN<MYbqN_W33`R`_D&!q{5*=iVt7;^JJOFMQXY?}!oZnQ
"%text.

(** Lines 14565 to 14714. *)
Definition DATA_96 : text := "hIy1lgx@g2CwG}fwBL*)awnO`ujA2hb2oOO^ph|tLl)R36ZPkAfl0)3_+&an`{;{L6xzhn9Sadg`A#s
ry+zYXnChjM9i+!G3d%x0fWjOQJdg0vBR-RB@Sct6X&hxk2|TPtq#sAfP=UhXyD%VPDcXyHwm1L~frj
ZM>R}K)(MDK$WKcMP@QwmFa-11k4o{X75;H#>f@H}ifQ@;`qiD~<!BF+Nx4hhY4ciFO)G#d$G!fe9K2
z#JK%of_^JFx|qdBXAFfSkSC{YB*Cq*?JgWy>nFTs)0BKac7l}f)Xv<?X$dtVq+G8K<XXBs>i$y4NX-
y=*Ka#V5?qP-J;r~FD1j1;pab7Et6?!pZiJajTB8wP|xELkewnEZ3k0Hj{C45ct8vOJK-Fwy}{(cL@{
J<qG~h>0kP?`nCp3B_`*#kK`zm~dkXH&??%F7Y1Td0LY8-vkPtP2pC~f9yoLkCSX<vU}J2Q@0o?G98x
>ztb=@iKj#2FR46c5*}RRJj#=dq3SsVC~+$T8Nx7#@L_^6>p6shZ5t*xDN-Y23J9N@PM9C1j57i@$|i
BEmyz_q;DOyxzM-#5f@ScDa=u_zAI9(FT@=2{QJL*(oc{i{7auzv^)fIf%H@;UBn%j&X2K`3OyLb4eg
hIFNr9qdZ8+rM>#Y|=)|yFFvWixzHd2zF(eQ9V<{Q(k1&YLxsvuvVM5O4k?6Qb64NoU!UL1C$G*mrT<
#1>Hw59&zTHp2>XAk0Gm`ACVjL8Jjq?n2niHL}-*9IgpD<ym93q(|fJ9=c$WQt@t17jkrVpWuIAS9(h
ZIoj&NP}Y$G{v#J;pL!1uV~LEXwN3fDFTomB6n=3Lz0Hnr)cTx;eo!`)Wba!#f9NL3VtIDdz!>6n%~C
Z4;1iSKlkZzM8+59@UfG}?R0D!C$f1&Pl(;a`<^`1pk0q-OBrsW$&pC**;)X$h6Jd@x8zIAh7%>4=WI
xuj3h!r7D(ov3G$HaGn{D{ijZ8%EJ0PFF1)K9-(n1h7>0Y4HI1FBQ-3XqXj_s;l%JkTjpMP*@r_JMbk
Ghf<xlB^dnO)ikk8>yJ=$TYoSx;u;~TgQ4!00KB|;mLsjUdafqnhpxhL+%crq*WHJ}tIZhV)6(hjuqB
rZsqr097lFb+?<6R{2UOxTXV9KxJENfv8Q{6Zi*+R_0kaKOa1Bv;x*67;ZPM3gWJoQFBmrz53lJ`I`k
DewL*uK?L$0)lRs5Jo6!luYHYVgzK^Z-z?)9VJYPaEs)-(kPr->UF}LO6ZyL(GaLk2nttA55W+^;t2W
qFYQ8kI5U)ZGOEEMe0V0{1cXC@o0YH(<d0k2c?4e%R8v%I`=i_7qzRZ9F=p)9B8!M`<uH*;MinM%xC@
1g<K&OWGBHHXe&?PurV~4SO1QIU+geT8@_d{r0pSyu@)RU^6xkDgS0st(h9i#vh=vd_LfZ6<Gwu_TXu
uSXZ^sg~9V7b=I^s_?aw(I<kh;xTDIWXhdw<-Ug1h98x2F-$&Bjse>p8+F#Nj88c>V~SNkIqLmghzA$
QxyhbD!5EUr%@RW49ds<O*OHW}I^#l!SMfGrwA%yC5Uui67ed5rtdh$s&FP1O6RxJl)U<y&})QCQh!u
#{&a=yDXVXrE`wqJ>=Z2odOiT#U_)Z)Hxg}ZBXI}PeDR<2-@uklz@=``0@78&(NJ;iY@VM1b3vg1^ja
2k;lNqqnYoQjXgcl>8#1rwKN!rHoA}=4CpB_qytgJtQY=D#?ccu33`rme2bBu&j;nl0W+i#X9*b*{|=
vJ9^MNLdDJeH@o2bb;`9{WZ=z|C3&7nCP!qTiY)s4%CeVg~Gj1{RnAZZ#sD6Joo3D$u6+ai-qEfAL=i
CmfV*S{b?T<5||1H!~+}@T|+1=jmwQ9ZGx8>%a`Fdc^&~<ydGt{;PQ&n#_H+5I6uhd$+5U~)?L}$L!i
9MXS^v$06!+2s|@AUMVHnK<fO7rDjHMYE^KFX>;&gT#D4Q8MRzb-c0wbE1g5PuYZ5QD>uZ0vF=w17Hs
_t^FQ&UZ~?4ou(emP>P*ur+5n`}2iVtzMerqN}1Q=6Zq=>+L~_N~wi8^!cf(AH+)kY|JTK)2=ne?Wb~
U#;MF{Lp#WD`sccboBCQ;G$#|!cN-(gVWl%Y8*}-hF^7=N@k=wlIow_MC3=qAMtv^pUE5EUP4aYU53D
ZN#l2aeR;8KQO|w&xIW4Q^=2&WfFu1OiIr*#=P|er7{_OFpXjxx(N>zG=3pJeIE7SCaI4RbxBHS$X(t
6lLqIkJ8?`NuF5YpOU?Wx@SYgD&usu>&Htk&sC3;tf~Nzd78s4=JB)gtO=&y=O-`Y2j$3q}Y1@!)Qyz
v#jEqWV7D197VHP_&BFZx&TIqI;-4U@R;+S~#+61H(?s^`S?;)=h|s9xfIzsB4d1`x&#|%vyT<==tbb
Sxl`|qYi}lMfJzl=c~GI`$NZWv~E@Vs)6Pn%=y?}Iz1QIMUtHA-p+c7(jv^U@3u5o3cg6+s6Qxf>}6A
YQev~yHoPc}WQ^5D=Ae6Pj)On;tJs#+J?o{1<e)28+Z<_M*Z1YTpRX=!>d#7SRkN%cEy=k$AOLC1J!M
9|(!;9M+)#=?_wWl*)>}{1PeflsZ}+OZ?XT<^*nTK~EX99`<l}zORF}O#!|=jVU;E3%V9Z{ojJ_1l`$
kW-8FN5TQ)$y1kEbWIXDQ-8OpE<qrhAh;+6v<?*c3e3>!r)die%Eh?q9^{IQaA+Y#_%chNPaXde^Ap)
0bxJ9m9w4*!PF2<$wIpi|OOX>9swfgT4(Bo+hPRRn@!u)$O9_ilNK2oHik#siX9)R}Du^$;)zK3~Sga
9h?8#&T-a*W<5hO#d^Loe-J`YYt3?<c&M9Ct)+zi?<R1In$+Lqsr@Ow_R#XJpO3W>f7};;91i0<8{^n
@?f?8hC>d+0<YmV4el8=eQ5PCr|9pBq2#fZf2$%N1GF~zypuOsCRcs7szq@{OdUA8C$N6rcLssug(BS
pHdad@)Q1qpf(z8M!&@4+$1m;h7AOtd_{-<-OYgOHMD_?tAHm#k$ULO8NgyqJVv7+Icz4+JfrTFs;-b
R0mfBoTPzyG5p@vq16)b*32{Q>t7DJMgI-QzPdt-t>hdOtaQqW34bc&NOi%OBF@yDy-TrX_iF;>2tMR
m-==4RrjkS#UXN0r&FT*VZM&{#)(ItHrdm<<JL>M3Kaa<9H)-vv}U0mBkdvd;C%5=e^dvbDT|?mA__<
>-gQ#&zIkBUB3@#k1%%(%pFc5{^a;80Ik-#>ru}qPc=+`x4_g=$~-cyz{bc-zaE)~@+*<~%<OzVsqcT
(Ao_bT`#(@i0|XQR000O8^OY7yNKy%m3=04N@G$@YI{*LxaA|NaUv_0~WN&gWa%FLKWpi|MFK}UFYhh
<)b1!3PVRB?;bT4dSZf9b3Y-eF|X<=?{Z)9a`E^vA6T3b`wNEUwAujrc8)+AL5qi)&8Cc6)Wfef_-C?
GYJr!8SOpo)+@lAMIu+W)@ak=*Ljx)>AK+Lys4Y`4zkJKwo<L+RD4{vYxF@Wb(`I5|EzJiR;=?@!JS{
wW4zUwN;@)twe+d3+nEQ6dhqg%)ukK4yQ$NfP1v{rxJ9=TVvEVxGi0EyWx%JDyQJPUA9$=CAszPO_!W
MRp^~9-ELq)nze{mYSK3v$Vk1e3|9d7Z?`jSzfQta~+j>A+8@Pi(OYyPPUd0aCKLT*9UKeoXw^%(JQ_
q_LD?hkZd6?bfNRFdQnGmkfmiFU#}46>*CEGR)qK%<zK{koZRN|y?85tuoPt`&L7IVEM3PBs*?CRkMa
j%?Izb+6xmJr4Zz-shioP0Q7Ur1h>O}hh$uyrE`G^!=-+3H_~wC@R_Oxa5b9Fr_l4o`!|5k+q6;7uA9
Sj7M038nPU1O~PvW^w3oW8TENQK{vrHWkkjpg?ag@P)#qK+yW85d-Uv*w!MW`KVysa(z0=a%2m4qMJT
$17&fPN4OvXL9jon8uTqze(JmDxLRj}I`2K)<1^#I+WyLf@<s9~K}hem}nY?d;Q)*gyR&e&4^i*gw7c
{0_2U8h4Su+ERSKL<uegqROMRd;oA5_;`46@EbJt-yfeGUwtO@N5@yEhnJV)=<Gu5i}U@9tK)-DC;J!
T{L{tx+2!Gm5SLmTiiylVk{gO|VDdf#lM7u&aZ=Qwe@1!>08AF*F8ZpG=DChhQ6fT%EFYef!z4>@t9Y
Se34JHx8<A$EFTUk5Y6sQV$u6we{Q4;R`HnBf5<*e>B|!=<p?(zK!1Pg)Ww|fjXGKY(ANQdfC@F)tG7
O{;pDwX7^dk;Wf8BDZyz*dJjmLX+TV;uu-$i*eNAVPOA*_m3lq3&gk?Dd06#6^rh6;wttkmDj%EAa1k
m@+P)xTWma+Rmma=0gohx=>TeZ5?z^Kuo{C0dzoOkV4XRB-k!%NLcR+7kgfc}DmS3?%gVav4MND!NYe
UNt<Bf|9;bMORHqRd*dBQ|Op)aVphVzF#G`5wN9X=_)(R(ZMj~V*tQLmLj}#b$<;9f1ixVP_aS<eT|Z
M;dv*3oR0rBU_<;vy!Jq#zuh(J{VW8s8$7{G|3zjbnF;;pTx3R(8Rc(x4VwvTG-7wx7qbA@%$EV)cNO
00^DZul@Ay1L08@$Y3g0J?9pSsG%!~pLr4Nw_ZclNGR7Sp(Gl)QJhII+mDa^_7Ae!+S%><q%P~8QR2|
P_`Z3<OFh0im*!@CT~G@*hFOp9GvnVAq8c&u*Wnvn{54zWh-_&kF-1gjA25Sm?>Aulk~s|H>axKKc(f
J6ldESTWh#Wlq>tISLh6u7}`zy)!jP!i(A15hdnaS3s7r4-~8<P_u-<P_voT{pA9BleYoih_!Qih@cA
+R1Z>dm+?9sD)4qX$`!L=pFLmv@#RH3`7M)1w_OMvEsHEfl8{-5q$>jV}OS#F@gzFtxS<#P?@<VGZ0a
9i&SxIgwG?a5q)DaLF+I#A!Jye00o(z(7j1zW)3p~s*=EwIoy(zM3_MQLQ?ENil7C!L-XK*SwZS}mvy
EVWCorDnSlzGouUh$6{*7{I1`Fgs7|m>jX?p8$ZU;9!_0)1=>m-vC!l#mHAL^AendggXHY+;+L2YYn?
55mH-Y!Y^EOYmzoyb(Q|X7NQhUm@$BU#fvSGxSsYGqD3tlEf8L7#t&ZXR~M@nl7wMS1gm8R7c;uA<x*
G(x?6K5JVlc<_Xvw9w^r_wIsn<8715R9tk<egY`A-c2f$ZjV#Q|bA`ZT`gJM)zsBp{n_CTfEG0(?2-e
2q_zG^;E(MAAdn6?0lA$I7AovkCjg6y4VAX;BQ#JiE|tx$5Qcov&qgZoGE)BT{mI^;Z87-Q@WjN+~un
D6YQv2t)1#y9NKWs=MuqA5GXirM&?PB-qvtwS_Xdj$V+Wp@g7q*ub@#@>)*2a4Fht(Pg}LSio*60LiZ
)BOZMF9N^TK?>cvM0$b}d5c#>-jf!}wxgFvl`8G6Y<1VN3UpM%GIo0n&-4`cY>BN%30t!u;-kgDiaO`
-=8s4dre>cDueW0xI%)Ea>r;y^wZf$X4hzt<AAcl9(5`g79L3vO>ppEIKx^U8lRf-O1V{jV4fGe#uK!
n%<9VpA+?+4$PJ4#IW*+g)0JGYI4+4#FOvTX4{>0sGGJY}E^W@orrQ28~>EFMTr+6br3`Ksug&uoCT-
QAcV}gliOP9ldmh?o0N9jWldLOLkW^sBA9`>`c$<#&$Los|mLkUak&;HRta1GxbM`CM&Axl1H+z$!Gi
J*=+Z}f;9r(8R{_(`a5p`fnvUR{E{&fG~H3x3J>pP>R{6eK{oy9&V`Lrc{~2sA+)CupTCm%w}&qG{h5
{6K~V3yX74pSQH`MM{RKE+-Dsm$?6;W$b`scW^k^?Up$-g!(6{xc8ecpsJtS_Q@qsMx^AGQH<IPNjp)
j6_py9xtha`)b_vFw<{}R1mvfZ~2D+h_$nfM0y{4BKVAZYev<=bPYJB4_lFMB>PyN*321-{vtZ6z99H
B+AQ%|YH$We@dM$$htEI`hExo{d^E<2INdm<JnAY4-1fa9#O|`D<r^<5Fg8v%|z5Bluya+s@{j7qZH-
Rj7PRZs50Pl47nr>z9+|3fW=C|L9tiX!|hm1Lo0^XXi7gSgqZ7ih1KrY;bT!+{#df1A7WJCo|RY#aE<
nbHlQrn9sgEv`1=_1($=66{+DsF-&e@tvTTSc<Ol3_WeJhsRKKc&FRP8rA%sFlMRAyCA#9~?<dI=I~<
s4(AO@?5x4Li4%(wrH3HpC$QB~!lx7(Sm>92v&_TxPKy5(4eY?hc5V%CS^I)J3-1;{N0^hB__DF5jf$
0Tz+Ht612Z7l^SRL@GY`1!z1&*M1BH4LlOoq%`d#u#&9zRAYCg#ovp48S@w+m)JRvl&jU9mNWKsl;GO
UT90gMcTH4^!^d{%^}Q@)D;s!#wXX>q9nSxm{^$*5mQHRo}NeyOpp;z^lGZXa8{RsRNfTH+}qDPZqjW
zTL~1@i<*P=dS3MS?E)+l=dNLP31Z<cD%QV>vp58Cz5Ru+m%*$I4}o6J7to2*|;-t$bs{_&A0pN?9O)
Amo1;|N^E68b`W&yefW?k?SHbmFE{E(5QHt>+Z?!O7S06gMmJjNyTJ@1a3@fE_PKM|E%`ME-5TK8=uX
5Q4(gj>>vkXHzP0E7)yB`nF5?__e<cQW9oVz4OI5e-H`D=dU%st!RQ;@Yfj?Xa-PH{osFp(i=RpMBZ1
)Ye0R$GVTRd)V+}5@RTb0<y!xnWQ9bfGzALXD=Vf$+Q;hm{5@H}<ajl=&2?GL8Og1i6NTkTRBGUxH(*
*{u&k1EGOl?7gbZJ&Kf-ALk7Qs|ryc=>W6zU2;ei8svtmT7#RI;(@>7vE&M8{hN)oA<^%Y1%xWV4h9*
w<pBUbLaW4pZCP($5MULS<++93wr+HV^rqxcW8AVeyAkxuO621JW9^9BBlo?F6c2`hzC2f2|bcg34PI
ed6?eP<Lf87EOicnqbMn~ZvYm$JdN%()_*#_JbOExj%RPjKY9Q0yx&`ot8I?$k;iub-?0JSBKuanC5%
;c^uS6IebLiBk!F8H-hTm5O9KQH000080P~d=N1UFwWBm&N06j$j06G8w0B~t=FJE?LZe(wAFLGsZb!
BsOb1!gVV{2h&WpgiMXkl_>WppoWVQyz*d2(rNY-wX{Z)9a`E^vA6TWwF=Iu`z(UtwLeYAdCz?T~qCw
I3)KdQo}PKvnhAD$E3kIwW(G&|Y@6|9zj6#Ic=t2Byqas|q4R;v65Jm*+fohRN2J`-i>Te}8zwjt=+s
PtNz*yQ9;+4{V9-mbb+&Zen(tC)Y_D&DmZyi&;{z<Lp1ld>-NY_VzAKrcs&YY&uWkv}9ArY<p_xVVaZ
)M*bdujpx}S&RKTFN{3F!pTuP`jTW(?Hp$Wgm-!;gs|zS*XIWnNPxCk`;~BfWuQc|jigMDmxW`mCC40
H|iiz=f1Qky4ZMHj~vkA!-Y!Vl7{xzP}p6q35nJ1TbaPwvH>J54rJC5=%>@1mI=gBR5&0t~4%8Z@emp
573_>WM{lgm8H?<s0mc^tDMyDGoIu(#|!yJOQRWqCYHidsDaQL-qV{WHrk{x+K>SNGI)m(Ji0SzX5YZ
J}cL{^TP&iVIlE-p6U2!<)0a%Xu=z;G<+3r$x-7f-R`8xY3b1AVba@L)bwE^;LA=vN*wgn)_><7wBPf
Td3I@jXp!JUq&U_k8Cbz;42t?&*sQRu10P<L!dpKu_Ue3-XQikfkHU?4X|RDF}o|`tGl@m4UlD@4ln*
V{dmE4Pd>9xyOYW8$;IclkVT|%7x}9-CASMeaK_+O9;M|y42Oc_{mI@R7_s~A@aXX3Gg*IdcyY3Se$E
a~Cv2CU?M^NZ_dXu&PT1MU$=T`o{x)OhajZg2!E^<=4e=FJ-e!p8EH0yDUevCCMtTbvIG?eb=xdBLPv
ZoLVi8JYalcj$=UIAP`HLYspl?}n#nP<w*|$6ac7VQKcA-V**9YjQ+dc~ggrfAz94R=*@Pp(Est@K_m
iz2oR+J=qyo<413c+8CfD6Vxo}*{k58FTa{gI@y<w5a>)5Fp02_TbR-$mCkVLhHxrQJk%G$kAzM~g)Q
w=bg0dHlws0h52z?ThR*M>*g=`xkrZ$uRUE*LIxejKNL5h8lMxHG<Rx{!<#Mk)%fYk88`-1hq9{N21Z
+9kdW_fHp)Mp^beJax{S^eKv#)4Ie@dF(NfP+!G;PVpxb_A%=w*Ho&j}h7F*80QCb59fV7*32STE5JQ
HTX#jOYTw{p9tZYcv2qUSf&WGru2KB=c`p1=;0r%JdRt#}T-B2M$uw*1~4y#5GA5kCFjFww7gi~W!GK
TmV;$w)9VaXUXkD-1HC&y!7a*ig@5NeL$9Jt|7%LkR35uD;fT#nEnE+8%-E+8%-E+8%-E(U0j6Oa>-l
aP~;ld@7Xh8hWR32{j=fSAM(i6N5CF(kl{07C+(4j>yqHh}5?a>1}t6G2S?@c`mG5Z{3~k}r{biR4Qp
Un2Pu$(KmJMDit)FOhtOB~o*V5KGdCOBl&u0TXl!#zHmLQ1p@i$QrC>aF{WYA!n!%M5Sg5HSnDY5~bv
kN}LNChK5)%#DpOxKs*{`1Nuwqp{jx33~B&3Mn1v`2KX^J#^3-WgW(XP^4lRyVL0N!c1Rxg5ib_hYGS
AfNQ{QiOb|zm7=a$hW&uGF;sd(I-;kz51F`{KV2f93uDJKg^S&jiK-8Yu=$Vav7B+e^4_OSfF8dJecn
|STMQba#$7^dmXzIGH^Fdvdt7;t9c>T%_YH}dbpehcVil%C&N~emaDkp;3Aqy1eRpd0*yhnsZB(;k31
X<8!x}YITB2i*BVmV?sf-^B6F<`}d!-^@1U9gQ#((svFp2_8zTv~E@=7ySJYZCpQ&0ScL%WX8>yU+2I
olKt@=9ytO#V|j<JbwX>``!mP;)IGIekesLhB<t9JPMz;FVE!iw{2et@9UJeNA<l<c~>iL*uWfwQx_I
d92FPQ9MwbEd@e#%M@2?-NA*I6Q}I#7Hay{(M4@=1Dy#~RI~6~6d84Y-0k8POTSg#NDOV(-iNwVtURC
eJyj1hVzEt<bz^q|m^1nki)h8wtlO5WD(MKo555&~O5yaNS6U5lW6=6d(MEOKOv=mS<2clvuk0`4m4W
e&iBU%@TP{M{pXhtFzqWS6*p#JuS$Yn5iCYNV&`E_<KPhPcufvwL^@ocokj_JQp>OW3ftjx-2&WiZYy
EvW3#T#UZ{{#J3NnVryhcxevhuebz7y7>7a>o>q+d(iI)BQZgZSz+3!?y+ELHE=6Ix3T|u`R;4Ip-KZ
xhsk!N{^!Sy0(|-kNd#`2QXrs*MDWxfWn7{n+LCkse|K?N`Z6^kj*fcm9-66WVvr1(&uX)tpzR{mRlg
3h-}6J9noc>Tb3!*uiFB#ehik)u$BelDOoVJ))^7Li9D4j-rle0Uo#7?*m!-P%^9WPZ4F;xfO%~sy6!
%*n4}d0ZPTMI5RbD!Azb!iptGRPM0ISg8oSZ&=S4-`yxJrm^lLymdTJbKR5)U=x(?UCfo!;#H_;YNkE
#XHShJ=D55_=YOwFRBVb+3ZuGT{0nptpFqsqHF3*1Qjt}JNecaJ&>B<4cqrdFmt3)NLGd~Rf+c2ASO#
>FOZz?(VyeyZH_HclEB%C1dVAX^J$gMNib-p*rJqiC)+#YmzP1G6H7HU`p)5O1U7tvjQ`f<6xP`d0^5
bAoyO_wYeC65Q7;q4FXcE1VXrJ|4L;>FQS*4_Y45d{E=Tu;4M?J1wyN7M6CkKT=cZIy4k)APcfx1(g5
7U_FgQ(bk2zPHbwYYDPe@eqcmjuL~NDn?j<^iK^0T)T!T!2Sq#kQVYIwWwH^dqM<TwV_#+AyJE0pr>Y
~}#eu3l-p0k;r#hclp2P>D^;ToER;qV}Y7%|*bWT*53)&Rw*sD5NsbB*Z==>@q*fqg@-o`*0=k=Lq#$
8zEb~ED6kWmYLLA6r$Rdp;-RHZsKb&K8^H+~Dh<wT7w**S!Da6@68FHdwtx<k4Hxo_HKJ-usN6dE-m_
0H6+%#H<p&+UNO5inw)I?Y|OwC3b3Hk55@xHK)`h9#y&vL|6?!V?Dm>R}oYYHw`gK=>veJe#o0_?jVe
;joQ?{X}5SXshTWvCV?CW_01rR$?u#LEB{_!Tz{OWkE$rwu*XLa6xzZRh0$(T+*#|UHyS03RVo<#nR2
Yj*h9u>#xlw&blDC!@Sui7L!h-F+&}LZt`@<8yuKb-bLmz?;9iv1BtvvgPjFaLE!6X7+J8fW)6`Z1zo
1_6x-NrsH>k_b}9U67d<xzYTxbcL?0cVUHvXtao-i<)`D)myC7pmr~B6vEh}qpwXX^peKKjYU@ug57P
{8B)EJCpCs9R3?@rCR^^^t@b;+2Sv2oDl25z&mih)A<@{ec@3%WkLuiR>QZGpPoU!BdcDj8w)8aS{S&
z*CZ6V2LauaD-_fzF3nS_<UV+PJ(Hx~ny}uG(7Yu1BW9vZp|Ek-G2cS-P8hlasm;F>s*QM4N5Y49gSP
xM2EbCafFnz8ax$pjSkt%7(U$e}@Hq%()TSAKb)1KZ$lZ(R9GvJ(-E_?Gw%UZT{=__HdxkuB-o{EVOH
5*UPo4QO~q|7FYBw1y4Dw7;xWS8&@0OGLnmx-R3^Z0+a9TKGPn(b~v&itU0^ZEww<+XmgG$2R6O57Ia
CYE54GIrEjl)57TM~2dgbuo(th~^TD&bz;%htML50x_PJ288cJUOiDaF_cy@N9z#S2@$6J4M+q1yjJ}
Dbqb<q!KWx@CRZ&<*4R&b-Q8v{GRUVrs-hi}=@!+|^QZu2VzuRQNVmW*=sjfDStjJ=pzU(<T=hPhtir
7wTHSkT+iGy1B-aa88XUy$v7&7qRJy|`Z_(`bH{6$yPqVnXjVLzr)mhxF}>O6W@*FZR=GdguKpF3UKF
z(F)GVqY0m#N|nJ8>9cX`bFg5y#IOLr~0)%_5JwOuDIU;{K3w^s9E-{cukg7E*(|x5<Si%=X*y#*rCJ
o)7PU>IDQ>g?i}m47gqbS{56Lk?2zFBJbLSShnKgb!C<vF&Tl>b=*(0$Raqey!th}idfy8F30w$kU~R
FhdGsY7y<utgXXO1KP)h>@6aWAK2mtey7Do{wLmg!a002}m001`t003}la4%nWWo~3|axZdaadl;Lba
O9oVPk7yXJvCQV`yP=WMy<OY+-I^XL4m_Yi)02Wo#~RdF@(lZ`(K${;pp!*kG{@pk_tNj_nlpA<ZV;V
ACXUQWX7kP;5F8sz_c*Zt6SSf4_&4DUy0|okoj$K_f7d$>B3I&kTpOp}oEKKYDxm?);K2&QDG+Z%*m$
#ns6l)FHd)?9uImpsO^z591)BlVmO^%;<gck1&b?e13df#o;W-layvrDB_%EkU4PF)blvZL(Ke5d=XK
y6e%SO%3ClYe<|{87A%DU8zymvkLfZ=iw^*%>m)7vXQ>EsF{itAf!I_Pq!MenhN_30UY+a{n@q-lXca
%8<0zu3l+9==GLe1}^U{-(B+k?DZUr}AW&20yA$lLApXoY`?$hv*UK1?LDNpEnoj)Y;#(z*1g?DL?t|
e=WR0ztFMg9cC-q1Q((JY8574tAF;Xy=BK|KF8NiqL1nTLzD>{`WhxFfC3Mf#X24&PmVpbL?~QhFz1k
;0qn)m;?MF!>^!i8vD!WVDoh*@I^4Od4{tF@(+%z!&VkArWF+>i#0q3_ZjTn9{aEbP2J3739)>L~|)8
?!)LcMTkbKW*)Rspgo;a7#FY);2sYEgriSLE4mZ3%EV$7xj=v{eLTPY{p!Ol9bbN;kH^#L@#XEOH;@I
>7)AU_r0{Wx6r2;hN`p9G!*Bq+Kb@ZZjv2>q&o9nzKS}G)&TlVIZ*J)9YD&j+eLTHAKlyNRJf-Uo)9b
67(*vR#Ar!@u%r=rMiWh)<Ou*z^<Utr^rR$#%-V6ptb9xBA2!weiLSz&LSR%{yvtk$}@qOVhrf5RnP`
IEt$z6I%L*x#!uMu6K==i!w`q_a?Lk6KB{v06$H<*4FE&zQNB}wYi+a$}S==)>L^*CeRYvy~5=)(<qy
8h_&^0ys}%ANyYJ{%sE%PNUz_7J4O49Sy~iLlC6K@_cNo`_63Na8E<Mkb6*vs`@53xoj>5b7|v7r#zL
"%text.

(** Lines 14715 to 14864. *)
Definition DATA_97 : text := "zDnbw+drag{dfo5SIbpA%U3~}q6KsXc_#`|!P!%i&Wnlsh&-(1iL~!TnS^z|T!xUm4elaw<XiwP9{pX
8-zHZn)+Ge!Z}iH6OYUxM(E3aSzP)F_v^NREB#iIAq)8YqVYs_n>xS`5YiP_}=6PrXmnO1}@yuMt4sp
jA!}EBA`v_wk@)&1wUg^}pb7(X{mz;*KF@_GM_yBE!Dd?ME+(X0EE^CGxYevv8@&F?n0~GF)Lo}%oaE
DOCWgn~=p^Y(ii2e=5hte8pAU+<-hT-8DqS6`JBn+(cq=oJLNSIMS0U!4RGuh;g5921@?zu7=SWX2k=
{FdmfuBQA?SrcU+6d31&9q?&!8}QO33KN;s6G&9vSeWjx(9N)%pLg|V@N#$G!4)vVSK0<$S9%tlLBUj
Ncr$@Aag>(L0mdGK;KYCO(uYxJ}LsvIG|+;BF~5eo|W9pVGV~EVVDD1=7tm{sa1;M&ZQ_ClMsNG))Vf
&yblT(0c%Ja26QI7po!#kG%htt%j7f04$(#uPO1Y8A5|1DJZIl=p2C=+=SMaAQH}o3s}agZ-_=No{HR
7fRU@3W@m(%bCnbE%N^%@$Gx6t2#50i{!2<7R^e@5`$GIWn=GbI>z{f+T$FT|rh5$Pld0sJ`3XGal<)
3%p`NN4Ej>SFBXgG135*TKK@z2gX9F9L<1o3@os;rcr`?9Ma03;qRzjm?B-K$2uP2<J?vd8f^NZdf>J
L#@0&^o>9Kd(KNYP1c0rNnuTwl>=wuh7xPfoDANT93A?vfu?Aa0|0}NeNcdt^ON%&_fiwn%-ugIi^@C
IAA+lz_wXXqN)L<iFH_10klQoIaebS>!0~1M?5P|yt1N?)#zKuW=@(MG&6<UdC-dme8Yl@f~nJURrEb
8TK!ny)%0jBddzcmJ>c~y)bs1RD-w4-%kyTn;;y+8`{TewwyTh;R;Fgf0@tgtem#=|JN9Ot`_>q@dib
XGQITFu;`6n(L}6P^)clxP$y5~l7StDIqPbVwW6U+{G2bkJzRm~rn%9;GTEF_-c|K_4<vXI#o{8FmEo
<SK7L>KOenK#7lF5N`mKU@7S&ep0G;2>=Zkkoucl)l&CV{5U^{Du+Zvwp7f_g==t>MPl){12A4d1;Q%
}AS>XJ;S(%Q&d-#mX91Y3IiN%{Pwrn+Im)_bdH>eIDqO_qNr@H^)(KaL{>1`p&(PS4^nN?^|HLYaWVO
arJ#lW3IU_?DL9_Lg_uz06kdHRu9yA^DCXa;)EN_^vQu8JX4?EHC1CKz>6)=mv8v2>w;#ayjWF@Hkqh
Dsua<QTEBaSOl5)kE^c$cEY9_0-?i=OD-RUYyylQ?fgPdp$x)=J4*e~Txn5&x{Tt@S1tqNbHzThzlvf
}MhL;x9qtImE<iEUIQPBIb9d`|&oMaVP2L~n_CJbv>(2<GX8O9d_aDxF&qVL)jQ8`r45yxcTELK{m3D
dB^Jpb8yU)w^m!5l5zp0sUR8zkyex^|>F)efjpm2GO6Wwz#}%MB}x&7WB66Iy?SsjmfZV}}`yZWbKHJ
g?OnGmNJ1t@}b-J?Lh?B@eijiAra4A8MA9zSe?yGHho5w&|?S0jua@u9+KV2pb&e-vjI@sC)aWR8NhH
#A}+GF4)P`LZbbZ>stpdr|xfEugXc@n&`De@~cH-uR(n`&oBM`md2|LYnJsU8?4sXQWI?`oeA9d+!BR
4MfG!lX@|*B%kIoJaQdWTgE#VEoA*t#w{XzrVRt=HBaSA|^t~ITUNsu4vAJy6E*y04KJ9yi#es>rjq%
R4&|L3zZB46c7PLpfu0vgy!9hL3>VNl^TeG0PWz<V-JC)Y&2fP8YJqs#;mt38@^S8)r0PHrQnQX>d`1
Uf=%2@T})HSpPb7u~=N1)wNr#-&r>foJ|cO-GU8_&!Gy*{jp^ervhMr-w;UVXlO^_R-qG_%^1>2$+_u
2kyUIsPlY^8C*O>^qy6N{e?B)O!j4bclYLS?_iIazw3fpSn_XDc>)i%hw&=2YDKPg|PjuLm~BeyIzK~
Ai7SnP`)EEmG8zv)H|4r<=Yp9&}Si*r}4dfXZ%9sxkw>!7DSnFl}(w*FM~&c{-4fou3nGF!^!K>PtLy
_=VSRs+77O?zq|Gy^#vx)lc(&pw5#xDj}}qzS&WY;PW}v>e*;iU0|XQR000O8^OY7yAEJ8-o(TW|HY@
-DH~;_uaA|NaUv_0~WN&gWa%FLKWpi|MFK}UFYhh<)b1!3PVRB?;bT4dSZf9s^Vsd47ZEs{{Y%Xwl)m
mFm<4O{K_pc}&bTlA&IPP{55=N^P!+{yJ+!R2gd0LsI0c(t%V>`oSSNq@hD?3iNZ@H0uSXv$1-PKiJU
Av9Ex7YkfpU=KrT+`*n>Dl$&8GXLIIsFH<(C%4#bpN90Cib8G&<p4^8Y}V>x{Chg2Z2Wqq5o6G31&tw
UYw|u#wt~#G>T~i(nG7@a1r{c53)biPZdNH6;t#?X#;D}FaGZQ*C>RnF!i3Nn7EDN)Q`f1MzQizHKxZ
|#-q;Mixn77W?=r3(*EfINyq7eMI-qkodf|5nKq%JN>uz)jdSd$5FY!FQ)slG92{rpuDtjM-TJ|E?7z
}SngA805#7$xmnh6A?p|i-UJ&tow9qiK$($fcUc4~$Ug$iEA5~JPqy4`h%*_Xb2mWL1#WS}3Q>+vv(N
p>cEkDsLn$pM%DOO`Y$+5zYDS6@ek0{3a*J$iN&3I@Uj$s=%L8{`{q;SEP>j%123Dl-9DpWBb+)f_@e
}u)C{z!$1A}^r{k0meK?B@*RZVm)`fW625`9#XcJj>?bzzE4hQAnF}w4pEUdnw~bFid#i0YJ|vfNSGo
<zb@<w5DV7!;I|<9Elq+graW<PI^={P1Msgu)zVe^zGvQ>&?SGom_vXZzsdy$@TsBPoRa{FpFTwIr*=
Xzz1V!6?<Vi18^|7IvbvT#fp>97nc|J-x>Y+#r^f!-5s6Z4C#b!Plopwrw^AWL%Mw!-rn4u9m3B_6((
k5HW_(g;wP|tjbKTnkmm<UuKIVlHvzz4OfTL~1vifra&Al>qGU4L$cI4`K4<!3i8kmb@}DS-Qk&jlAF
+c_u6Y++w0~`6(CE;nt^ko2{s`cLJ1jr<pTPP&h@#l0&ry;x>D39=I#LMdqi`KT^l*ofwm&+%{&UUJv
}b{_>~@dy9F6i4<c$zKNgfE(Wa<UMjK&f23ks6@g}C8>;V?_puQcP(0SCC+_ny@sLzPbBFdKG{DVe=K
g75xh8jjMbmxpM^dcpEhWk!X~-lBM%EtJRPAe{${@0%ZvqqpRv08j*W_&kLa&PWw-aVY?!q)aA0_}qJ
sfjYL{{E%1tlL_vln;2;e3i=!ETNt+2>z&4XBDllZfK78}HiFr>_Io<Bk<3Qg>-BavZjOd}1DgiIrXy
VY4(=tcJa&YR=U(3yLZI_F`VrO)pin<os^eI61QH1r{T`-q?H$>|k?3I2?_epq<Ko(FMbn+5=|bXB2P
{}JSanz;v*l-ugGM-zJYZUk_iztyQD=~`=>biz2T2a68-_vFVRpFoSxHu^k82lf`mJb=97{;V0F;mbE
*-vyqz<#iGN*@rgwFQ^TS6Q%79I2g^ibH6f{ny5p+X08JFEuoUGxDM3dYIAY%OL2W&&3UX0WD3E}IUL
But4(;qU|&NFK)`5DOqf<YSCG1oT-!W^!a(0x$(H&K5yyjzx({*TF)-b-D9A7`tpK(6}&U7pg%x5U{=
&=&*Bn5=1T}xR8X!1ZL!dDLVC_7KBKbg#tC`Ea~zh^bQk2G7KoeOv0@az7c>a;UCHKu#fEUGnl}g5}{
xbv0uRe5DB&*Vh6D#I2BeVs7J&|fPf87JdS4qE!4J%!xn}jSen>Cf|)@Dj#n6w2%V#aI5tI=HG*w5=w
;Dh9dKE?;sR6@8yt$F6#GS@{+g<Aq>^JWaDK=5lOLmAc7-(O2K~d1<8<^qQlnE^eApfI1<%I{)8<t6=
NvlyBc2Y`GioaKv=RlT9nt;W`l=pd^>&GxnWN?6=h$vTlZ~VKIJ8Gce4xYruFWj+2a!$lH7Ai-6Z0k)
S7$!QlvcB()lJTuCFYPcXJ^sG0;oAse%cy=TSnk!+L;K%8VH>25aev-T(DJGSC*_>w?Q3=*v1C3<N??
8LLph$%QW7?3v%%*7r$DhtlB`>vPEVc&DL?CgFHjv7z1sRb{>gr3&%uYdO;de>X9hdMbK6c@;PDn;~j
C(8i{fZ6v8fyU$cQ33GLaa(XQzQS&2qn;4EiR^F-zxEm5wBi3I|&v^k|;r}Uc@l&Wp3HE~tjDi_Q)&j
nqPHfby4Kp54)^hUAmh~{iu76)bPtUw^<Uav+$p>9hyRuR-?u0+tB6LNtkN9WrAJ1>+yZdza0V_g-O*
2Fb)VVVBIut9-I?+GO@h!qH`Nz{lyR^*k(nleF{URbpgu7RMM15FhvpVQ$tw}D2m$?h!M5SUoph1CmO
=0+gPHF24|@(D_}#yD_Fao`##^iiNzk?JRdw%A({2h|)X_CeRcpbx!<7es>>*1@xKUnuVobw#Xd-CKT
Et~aY{0a>zn@hleF%Q>1-9GDfUDIQjMK`#>(7Ry=XBCX{zRyV8I((C)M`P_c!-wlGY71|E9Eetk8(D=
quue93Z=4)U1^{;r}%w9ZoSeQ~)TO*4D9dXN=iO75b6?GeI+N@;~>#h7!W_V$F2CP8fw#sWqm*=A}<6
vt9%@wIo%glym5gU1-iG}4D6{qZh>JFfz!Ng=W@BACtp!!davW&LMT(UuZPcltr8ntc_t4Y_Uc+~$YD
SN~+xou?wVYfxTDN|>lK9J=Wd4D82l`}{aigGn7D$=eH=p$y`mCKhd_QrRg)|bg^I~A0S_`YUU>wa~o
uF7uAg|cZJyP7!FP1iA=76(o9)l1su;m?eLdP?oW2CIpdMMUkCW}cXI9Vo)u{D0$oYuh}0*6>1E+Oos
ut`JmhAnkH630vn%4MDXIJI1|9T=zt7*rji6YpGzqY}NO`dU0Rrh5FJJ2<p4f7CTd2dUa>2rn!EybcJ
6h`!}$`+FsaxQ)@v`4Jos%=nOS%&{X@{-wrlFAWKU%0$mSE2zG3PayFWq?2<Ux_PE;;iRGQLzSU@J?c
N4;1jW{(ZBvZa;$UZ9D91rrdV?1<#HO^>Y@3m`WaIiO?S5x!-WPP;uI0kc5&VBJkYxs9F<3qYJ9ag7$
|LiG=DSs>*Tl`TW6fNsD`lJyHj&q=LLGr-YaWIhDw26pHM6p9Z(eJ6ewPXxGiVyDo|u}?iTNFWJn=36
G%No)q4+Z4-xkq_QR!o?569H}6&HU5@?pZC@s0VLhbu3Q{a>K2eD9Evz246z{>Te%qr~SgC5HSB8fcx
vL7zXu$cTO@H8~5P`P<A(m8L2N!MPVC$}UhPD!ukz6~=#iGd@WB&H4|24Du9sKUDvi!ssv0`Y%vR0|X
QR000O8^OY7yP`8?X#|i)d_%HwfI{*LxaA|NaUv_0~WN&gWa%FLKWpi|MFK}UFYhh<)b1!3PVRB?;bT
4dSZf9t9Zf9X~X<=?{Z)9a`E^vA6TJLY$I1>G?zhbb#Vq3t?l9Xf1Degm>P21qoBuG*$`stw9Od?c~y
pr71cewxk9xYKMCE9VeJ}eHn8mjeUIDGTw&5#bXx99&y?@m6Pp3~Xs@yYr13B5bJIQ~1WvE2*y=;lGv
MUmVmS)9^wK9iJ`^eO*mlBO}PA0HQ4GL5UeplO=OtfDDw_5(fiG)t-kBY%_MWSY-qLHQk39-pv3msL5
9=hAYU<XMT!VxAYP3pl3Byr}O_3mI2(Mz_nA$Np4tp?uAknChXTSI4i3PbLvuc+L0eC{5`~*_L!AOId
uAvpSOFJgbW2c7ZTom9GzRhv-vWe5K1Iy)TkSdP6{1QI*r>vU<p~CVo(rCbvagEEQ{ag_Kn0chwVsy`
^QoplO^@A!kWhy9W^!#o6rFyukR!e3slT)vZM~LpTa`C5y*WbNJ!>Go8s2Na=&jWPxZd7q@9L#o)7KD
zj2jT+&?KD<2F~?-h{i1_-^+;eN&LTapQ$tGU0)qQo5%`&`e~cpMON{VJ{$eq?j52EGR9C8fwlp-1j}
DKL@FD9KiCAHY3M;1Gd6K~{7tX;I3%MLK{7*wXK(Hy<xP-_X(d7yA9^>gwqH=F3~yf@wTO{%TLj;~Wy
45uz&MtXcv%9DF*tI{t_eNAFJ0PH(;_^zTn^&QGqd>HWnO9ns~{)y?Vg=d+_Ly8L`~d2xNRPjoG%rdW
~bBe|vc4lW;aFgcS|oTOzP`WK|P1i*Ag5AipNG*4v$MNy0rnJ-_I!!*zCSMg$qA@nUJca-JTfS!s3+J
X9d*@YLA-vLBF-5<~ahf$n;O_73Y41b^8!S(wz&x--Q%gaicemcTfCOBtrc*r=>=WE<q_m57_f7`OD>
;-Tv4h|0MvdUAMKEy>lg?P$Z2#azNr|FVrxhz$HB)>y9N-#=hmHb|<JPhFhsZQd1`RkRe7DcwY9UfA-
e7uF<SMx<Strl@D(Ut4g<*i(i3eKMLVzwG64vC?XCko%OhJ-qw&l6bQ#J8zD49?&!6aV<Q$nIlIohie
c{GvdC!jk?*uL8t2*zOp5&xt@hdx0DOq1<rgCLH|8q1*`NMhvz)*1HL7G$f({4H<Me#5aJ30_V6MPH>
KAA-<JeIKn-SZ`g&f8;%D74RLdfn?q%wjxmgJ3^8y7!x6q!^lPxx2naKB7z#M!7))>|@Xc{w00{wsz&
WXB%0`WWbBcgK;9{hVm7(HUg#-s2gGRU>Dd%bs_aop3lK~$w92|$h5#ku)IKVN&F~$+$fZZ5&2$zpxH
-_DK2nS;rj$t^4;TVQv7)CIRU>LzLf?))Q5$qz^MX-xt7r}1A;9vs72@EGNoWO7b!wC#02unGiz<4ql
2*z+A3<fe8;4`R{9e{(edN{%{#u4GbHTV!JW{@aAnBXwx&?2}HAX$KL0geO+4um4?00$ro#WcbYAXW$
r5*Va1GgRjoDAY4WE^I?g5^^|zXaw>vlsFDxpacT)2;>R~M?e=si3vp0NDWrDcn0AKh$^5+r3r(<s2C
~)FpShgq!Vll%uaw$k-7#iky0USKs<riKtQ?zY7~$qx(6P>P&rZ|K#c-&7E0Ek3KfHdy5?<_1h0eODa
kl&{@+dh(rzODr@P6Y>>|2}1l=y8N>OzZRW&>4CZjF7iE0A7=_X;_O;jEK*Sd*n6#Z^8Y`V!o(@hi_(
R7p0>L#jDV0I8$cN5iF#=dScd~r9yW*0xEQoU8d@0`5CezKH*EMzv7<sn4Ie#ZT~q`-dafD8NCWVk;L
N0E8XnHX9I2m4|qLiM<icxn$-|JZ&MO@``mChxIH!j{*zVEc@*$<IOC>dxZqzJ{y192<liKm3{Jf$yg
9+!2jCzB;cz>O3$HeS^7mZCt2twmO3Z*x=891dbH~z6Jqz5QG*2u^R-uM&Re(%*~zqno`!F^&$wLiQE
1-2!!+9&rO{#(Qr^-dl7VJ>Bha51D_svGo!Fnp*aZGaj-3d9tU0F_K}%0)*uVCU)%GhENq1!Y*bdy$u
0i%Id3>vqr~nk&meFkw$;y_I?<VUQ7vr3vZfZg-GO(W>1)>1%ZsaVqZ0j^@YTmN)woHCViN*;HoF@LC
j((4yU<qR_6VL)q7Oq~C3Q85AMXbi0uyC7-*w!4V0w|Rg$)Qc>Ce*>`GEJL?AL;+M`qOm`>}Ol3j{jf
rU%tw@HWt0Am~@3XtPpRot=TOS=M)%1z-HaSp$qN?OJfU^5$7Kp$p91CT_bcYbA0EmqxJLTBudWt@+K
lu%3(Nn>A;<SQpGZW>#jcOuGMu*1WZ=wOM%a%G9p~(K5qZ74oJNaSOvPcWFikhUvN%O#a2dRie7uRTf
;uhl8#r?ERVD6L+D5`i9AZzS7-?wROmvKHzSMcGDAmI~1dNb7e=rlihlo1-%k=XV>4R8|a*9Mz%u0J!
cjIVP)H_5T+WrHE+Ey;cZu5%fSnkXyP%|7PdKOR_tCKn4zL|!`g+zG#c&3U}zRs?OE3WYn88!ZEU=c;
D>c!YQc0n^SemT7dkVGogy%u-_%^#u0OgzYmI0GX6e}#0+UFs1H*x6EnG~N4$R*JT$#E9`@>gKw%NB8
&)T8P8f4sPw}EgVy0dZXS=f1^9R@~!tW|`b)nKc+u(4PO`ZF@?f9?dc1p+(AymRHMv02(gXZCgMn+$a
j=-t1my|9he&5vCNreAtFaFf+%#O5RrZJb8u_H3qo2n&HX3$_m2Zsg~qLBOq5Q2!P%Ixq;_a9BHCV1u
+7w!?Bo)XReLCmiqHYIJ*|erk1P!$W_reqrhJfIHn!?|_Xe4F{n!)X74>TwNU)epu&uQwv=LHt(CV;H
d?dgMK@6F*I4w!qGcHdq-||V=i?D%a3<u;Y8i#z+}P9Zfc^*Lcb@PIQ<;h(h7`UQw8=)%$%Vnsci^0`
=$znGoRa1dK`of2O4mHkh?qC(3O45hr!d+fxY|a)<Wpbg1fv0z8YBHq3yuhS};(%jg0l?>~pil>g;~p
1halm>?+aDPq)c+s*$&;vejm^;AX+%Kn&b|z^!X;Vd$=n7Kz(`JZmHGArKA%SEJosLQ_nAmff=PtB@H
7`k`9`E{?U;Xcj3uPGJpn`*t_2fv^m_D(iCK>cC24SM%#S(#C3Jo>_&1K=(pnU3qlCI{$aunrCg)(d)
mF_^Zw>AtUU-Wx2l}bP>3yoGiFpchkjtPuu;0uNJo3A9RYz-G|ux_rcp|yZF`CC(Xss&xDO8@a+M+ih
HIO{8DkX>2CWR1im$)yP*0Jv>|j;<Nn>)ov*Kzz!xiX&ib-mi@=`2_h(Vxy`T%<Mqs;Mi=ZD>UyB=s<
gPS+4mKiK_fvv7XLdH+`@8xJhOd1v@72aEbah}j>B`%3@H%MT>}=mp(C;SvD<Jx1>b#fr%OP!k4RoN!
%+(veGxh$%r?@JT?-<p8`C(=Gc(a@*(>T4%%S636ai!i^g*n@w4Am<cE2FPc&QG#?^(Ob3tSVW+;HFr
}fyP(L>O6jwxc$@V^~IYgI+(l>KL!5|g5NuDnQabj^E+vOb!b30%b&_O3gRlbJ-SQduQEEMEdL`8{sT
};0|XQR000O8^OY7yOFe&G<q7}*3oHNtHUIzsaA|NaUv_0~WN&gWa%FLKWpi|MFK}UFYhh<)b1!3PVR
B?;bT4dSZfA68VQFn|WMynFaCyaAZEvGU68_GwDDCL9iNt#8#<Am!?n5S<%tn_tB_6HjBeB~F8UkLxG
vhtof4`@JrmHbdoXlx&5C;0C>ZzxytBVZp-u3^Z52qi`uju0Z<n-$9ls;TspZtrqjD6?5qv@lf>pXsl
(<q^nY_2FS=ra2&PLc@EPfx2fo<(Jr(=3TqTG9+-2A-LEp2lU2nZK#8D#?~Ar))uGk4%ieQe`oVmWqj
uv$VitzRdFK0fOl!%j@=8uA)-S>3&^F+*B3iTGnz6RgWd@o$QmCOb#KUcldyglZ0;d*n)0Vq4KY4UR!
dKrDY!9uVCh0v44aXqRS}%LN{^pkjGE-3jtwCWkxsa@-a&r`$1I_-{(=j)~qdZrKrdj<u?F(PwQ+&vn
Zup&EujL4<bs6()q7hj`>g7JYKAI(<+_A9F4kE`BPyy{CM?=E>r=e^iicMhc!2=`y`%W@<lvTX`v`8X
sO$ZN6XZi26EQ`p|cF)D|X+LiqWrie^q&b7Lo&Dv^5fag0J_YQsaj=mwMtpK(8r*H*zy`&`W`}bWU+v
iG2k3xPd?z`VC=4_lj19TC5Tu5-^tjIG_H0{b@?aSD)#R<J;TgtLf+W7z?J+3;)%U;-@7-a89r)kJ54
t;1F<mdVBIaW*mPwzc`<M*67d9r&p(UcXW1rOUHC`d^<fq`E+r7OE;fxZ?5l72Sj&D8HzQTeI&OOFCg
+M1Cw)AMsZTqrhkTe3jj>!^ca0raPv&Xh$xD%M3(DU`7p`Shss_|v4p;-ctL4a`t&W25j%*!4evsV^{
<bhpACFE5EvAtUlO?B4%5%#1w@}ES(f|sAuCEf^zs;U11UuCiwFZj^yv;Q+y2q%)o(i{m3JNl%Y%cXd
Rb)&%^ssXnjv_KIuKUHDoT<y%`;VK14(^H+~|POVOFZ|WhG$<32=2BJ*Z!ARk_O3syRHOV*PXvxqHi1
IxAOE9io-!R^+{^NCju#vV2}mlt&a`B~QF2cP+9c$-c!Hm8)Wvl$E0)B}RlH`=D3NbRaMC><L~?;-^?
Y77^l5(Vn>6A81i0#yX^o<x-2AM)!$2@}}o^BN^!KX?C4sg`=PTNqZj1@pn6iz4t`$T<{7p{ihZqw3y
KUkyDG2T8#8}JGYAoYc%3e`XU(N9ODe|tlNe-5AZB}n&^A<AL{-?oD&~$j8jx%hJhyz(R_&JN#GN%G{
IB>u>ztd0w?Y#`hK_-%|VTZMnj**5+{ZWeGlzIi_-|vekgniR6>lQ1}Fl|86TouR$@khN0SkT;1QZ>3
^dx9K%el!L{GzTAd<m$ZpJ_ZJ0<MIqQ!~fFos~L1S$zc5{M*FNTJ&>R%%XgFEL(9-;)yZButoS4A6b3
pD|HlqQpe02V-IgB_Sq-P!eKH2nFE*1cW1i!Nh6+fJ@y0@M9fLxIz%Y$%F|=L(mRILyS8>-@(}TXov=
Fk&eG1u7F6@AWYEY4l$6>uE~^I5&A}2Aeh4vfB>xtjY1<q#|RzTc0CZB&`_V~6B>=CTaSa_5w4>U0zd
@99*yYK=18p#=MZh+fI_WJa|2G$CWqhwLM713p+=yi3`EgTU!heKq){C}faZj>MqEcY$6BCvt{$TWY7
R!43{8}_4HHNDipgUgtNIGT2yF>2B>0jLEJ3DOJ>I@fJC~@d5|e6B@?<5pmO}lxQt3<;M=&w?2ig~Lj
?{V}B=4KZ!6-Z&*?z?FkPR3QLNOleZe+%i_*DH*3<5-m?oQPMvM+W&J|Y+d!w|x!NTnB1`cNa)i4WoE
hs_b-sIT^yA3@t@`@Ep-szue$vS}5~UHv4RGpI)BKCA#f<s}4RGqn~bt2-}fr`8yZR#D-Rl}1su2hDH
5MhlI=Lf$;2bC{8m^?6~VF=!i&-J;PRwz{_>kPLxv(73w!RW^5?og~^Jq9RE&q>A=lbo2+7gV66Hkv%
$PW1?uqRstl`C|b@r^MdK@9v;`{S{SzOwEDSUY7CwQ6}Bjh_ico7-6n2Y6Rf^&BuYlEXvD}yylL}{^|
F!L^|@%LZXUvLu!+FLyKpQHc16IM=lpN=f{iRAIb^>!B7*kbBJ&LA0YhML7$o5q7B)C=z0H@F@kcivL
KBH0(`j605%lY?aeHRT@cd(1_}bt>6*3`SAG<b3g{>z0-0^~By7^=`y>4b@bMLuwO*B}bf{ESCNP*1<
-K;1Ya$Uch)oG%%U5$LzZSuY?D>sp7q`BLN(P9x8V{8JFwHLUyey{hhMYa}9G6{XNp#-hHVMD3GWu8U
T>KU#LZIXFK^m^XK<%LX>;h(QXo{hP8%y#6-cDhT}wk*_*StlRx%wUr&7jCcZzF-2x@L*S=-7VxZ7@S
D7DW2yj8wo)NOBIPB1LbDr%~;%I#n~IBZ}(<vmT|1x7IG7WZ<9ISm7lYGg9FRFCDSq;wv<|$&Ec8BcI
&o_=4Jg2iL%w`RtE0gXgp%ob-Z8~N!JTI#evO4hENlQHKn}ta7?hdrjPfRdGL7E8Thu`wK2%ib$4gkU
#W5qo?nx~APAWUc&*GUCbMtYc+_*8eSz0T!Z9q^f~Ij}*xKyw!=h;yt=%?9I3!vl44&QAK_kFTXm%}F
kv7D5wI)m)7;SDH!u{b|AGS}Oy^&{Mqc8CJy5w=`tj2Cd@Us6I2gZTCK6QtL&kF3VP+oI*T_@U#)U8l
#iEUF&vpaJH-CD&x`r14@u|If(Z&!*@7Ip<}-+_1Fz<ucoTMfJtF%eNC;3a5VXqv8|rRr4(`0I{+C*!
dxTJiNL8;hP<8n)T>%k~(l=Xlm$o{{YPk=-vgx4dd!aJ8A`WB04RH<yh#aHE~q%A6PJ^cy2~TnnO|uq
6(7ooG_4eGRq4yNf=sb>jB7q8H=9Xt9~e?t*T@H`;lU^ZK=lcH&M5%t|o6wOZ^8piTNbMw&O*KJAv1=
Xvm~T>EZpb@MXZ8pRW@_q>Lky})09ZLw#IUbhJ6ucw_i7OVB;sA#q}tJN*Gjn5^UXrt1OU`h3D2MZ)#
"%text.

(** Lines 14865 to 15014. *)
Definition DATA_98 : text := "3GGg2Pb9t)f!SJRkA0>h;iZoB`SvdQ^TDPcw!JU3f5DKxt2yYfZ{x80a@<6sY<2Rt^lnD%<-qdZg)G@
q{mVVnL0}xoWp`tvKUUf|*IH+{Dzj1Va$wp-{pQN0zcwa4(Gz={xwmV%eP)a4ZMBkT|Bh#+@@&9GKU3
la&H&MghOQaB#j~}KXtnWL!P;$^4_NODd*ky(W`)4iAQoWP7k&P51U%QhgBK*@pr5qow>QTNyX{3C0Y
6e?ZXkG*0OMP`Bk~yBR`f|Oz;y6R^;ITprc}NX_}@!5%b<|g%6|)qn=#=Ccw;2;!bY-R(eX;)^H6K6v
~4@iZU#7i+1};Y^w^I_;@`d&y0m)RS9>3|JsIhTIdK1bWD~55Xv-_l{|Lbw1-y2GEjIpN2)g@tPeKu$
!S3Cw5bR=Jv$@*+mlO3S4qi*@3trgaweNNMdIaoy%|}`K(**Nb!oNMDpJ&cjT0b9A-^W|N9=X&X`pxy
X4wq4x$KUl>{-HxP=xMrM#<M87$%<HiA91U{QNze!Fp>Jpi)zpprIx4ZgZ_5&LY1Y;G2kpp3gsI_g(|
P2Cx!N(faezg`pNr`{`g~&L|@e55vAFmk@sIvO9KQH000080P~d=N9CHTnR^BR0B{rl05t#r0B~t=FJ
E?LZe(wAFLGsZb!BsOb1!gVV{2h&WpgiMXkl_>WppoWVRUJ3F>rEkVr6nJaCwzjTXWhv5PtWs*g3qAm
QoB!NSo6KaB#~U0vrtOWHKGbu|?3tSX36taDM&Sm9Ja_p24wK`|Y<kDUwU2{TH-5-@AS2b*)a{=|H<T
u>OGqx+S9o<2i$Y<j*{G1F(e8fJbmI{^LR5!X)IcOh!23&0QHW1wK>EQ$m7=s#PPk&<(lbsCLI*Ss<2
7f|!BYV;c4QOhul%WGGrJRw4IX#YGt5t6U1HU(hfNg^cB%WUgX9Jgv3GT`E_St>qf2<_gNz1=MRb6HV
+@uR<#bU_`nRj9A3vEA!(>ED<WnpH>)OIlB0Y5`cSGzQB+N&yp|T6QG9*lz`z{%|)m+ocS7mZXjq}Wb
x_@B?-cm2K-67a!uKtNyZ=&Gxdg^-@;m~z;i>8%;!<ekC{^7hW=+E5x)>VpRGx>3Vn>1!ct5wqBP0h`
xEG~2t$GIEMyYthpVT6dkF4vkA)EfH-aU}qIsT5n;dZxN5B?nUZ?*S7{_tqrt+f%>QyskODt9}Rw%oQ
{Ks-H33!1{uOYy4$rM@Ln}R%2A9$$E&apW7fCe$pH*7z6Vz7$XY!y_{0_wuA?)b-GGKN<F0e-bcqgH?
XaErQF3LM1($CmhF8E`a=QAsycYjhk9+;>LS4@9)u-ClS6K;GNkalhj@U=K#nf?;bk?pl*xYXrl|XgF
{>RV*%JX^JVC`;wfcc!nky0yBw|#N|O0hyH-&jnKishq?R8u*@FAS>=O^9kN`XRl`7p&pKX&<O#h6K7
&xG3cN{<y@Tz!Q(d%@*SCVR!mC!`%0wkMd<n1w4#I6dL(_I3gsebYM2b}JTZpaIO|$mNY}8DEiGz|u7
j*h}CoVoE!<b2&G}UBnSxWJQ(PQ;!j#(&lm>Ozfs));h!iq+z66*_f&$7|QlDa1zdXw&QDx_~1_Nepk
)M|~V{mDIigG<Ah+}Ze011RYkHRB=kjluW_3QZCU-TW=bLP4DbZsc)}lXS@y)+Jy{>2U|g8~J#&aD#l
*`blJZ)Wh<r4E`$KSb*aL9KYH#p0X4Ex-cG_PtXpbn>(X1*6N{eNw_zpqXZfD0vG!$GK?N}L1<1X#ba
TS6cx(`u4RB(sGM>mtF;;~c(vyFxEsRRXX8xbGtcKUiO)QruTFgR^ZDw;S3jSxL41w#`5MI6DDYwDzI
P+sCGlOxd?!G19PwS+XXCDj?`kjK(fF>2?`k7H=e--@u8HqD<$D*B<B0FtJ{#90zUE%OqwzI~uUUu>*
QZJv>EJN#hWKu_`vn)4;*++OKWQBC-Nbx3)%$(+h4{Yg@MSLQr<jkPG^xfB-<R{}LyP!Y=g)^0@wLw9
YZG7le7-jEwUd6aepZg%ig~e!&uX58OK%!Sd{)Xg$jlyqWPaWe-`%@>gKa<Wi0>|)52SPWHb`!S>kwb
3c@i$YX&mu&QoccE_5dV{&n7<mUB1D#pEmK?wsB$5P6xgMZa&$w8{nIXZ@7_N<31taFDzK2td6o!$c0
vDqzcJ!{I6C2Prb+ee~|rSEz!&%UunUkMS;>yIVQKr7p+yR9RF!6nP%h2uS8rYYNAJbHO=H#)N~GN)(
d}26y2%p)?h=^++sHi>_3lc7X2JhISsw#fw(B~R<gXYvBX0j8N@vxOs5==iqmO1V!<qt)3u>r-PFpI=
&dU8FsaH&o0^OTTlTc-bkTDoMW)m3S6Z!t3U1*4Sh#7Y)6_S3to?=$P~6NOaIwIeyYkG`G}&iQLwCWp
y^>6=WC(w~@z57<(I>NhRsSo8&lvMHqylbxRRq#2dZ%5U@c@0D(g9`4!e=^cPUG!xRMxNzMMou%PJSf
LjnU;5lCrx|eN6ZDW$)tm1`bcve=<lu0UyhI6aE3RP4dNtnM2pd+_6nwJbT5|c%t~aV=5tc6rPFEyX3
&Kt@R|C`(o_D6<XktSboDtJfrN>-0r8$TVuP%8bJLJkyGXECK2I``z-W!S_A{#hEmXRNSl!-Otosw%<
1Dp2)4><QQi&jqR11g{;dscbw}nNo#3jqY>)*JJEB_NL;2YFjSK%Cxk)pvj@FO0#^>0}4ZjPN+W8ZGF
F}B(y7<FRK}pQ$Qwnx7L?Zq&qK|j+HwHZRtt1wqU?l%G=Z2u%7Y0koh2&~oHTL>Yc=>=1H5=Qlk}DYh
15ir?1QY-O00;o{l@>>(oN;rV1ONcU3;+N)0001RX>c!Jc4cm4Z*nhkWpQ<7b98eraA9L>VP|D?FJow
7a%5$6FKuFDXkl`5Wpr?IZ(?O~E^v9JR$Fi4MihSMR~#u13tE=KR((m7N`#OE6$s*@Rg^|(u#aIBGlO
QvNxi?m-<Uf#Y1&$f6rb~*+jlPb;-dJWoA!ODPu)(d-5<5-ru*3XgU(<tN*6R<Fg+SMmrBIc(jk+y)Y
Cs@91EH#`NqaV6D)+W>?mZ%fzyTpKx?I~hmMj?0(Q%99P1Su(h<1=*TDDL*+8rqqUADCG7wH`W$|iO+
GH<qOapD!^1!fg9MUY!Jmy0Q<9)4CgjzT%w<`3#UT?rfA-qP-IHsY;S{kxt^Ty%2l9pD^$XSB=%C>R|
2~kg&R~pE8Zsd}_5i)e-G!0U>&?-ZW7AgKjti4|E>dhF+00X0Sw9-<!D$)tItbylP&Wtdrr#v#uWOd}
;QO*^mI-x))G8{^~P73rn5-R*f8`v*(D5KPi5*303U#nxYv|Hxy`xEN2MSXP7iVboaB(qosFz(8Lm1P
o^R$gWodw%bHBBM<rbf@7y>&X?dgx<&YGXV*GuQj&OHXf@WfXc%8{4oP7Z&*RnDaGia*;*D;u&*>EsW
P_<bPWH%AqsuROwx=gu^c6F6&`@4AD!{T<77<D{uBLZ4u{SD_~{B*^aomWeeFpuSFwa+RAq#6DH4Z+U
VGSjfJO7B)9s9(eD-&palbtp(cR;anlxw*$DP)s+Z@thG8{aP+BI~Xc}uY;vxwv!#SvUCHJHTa2pQXT
=}%~{MS^ii3-QKibHG@&kOanNmHw+9##+s@dSS9B^onFeN@L{Sjl}F=W^>(zmwkWNvstCz8UP9P8lwd
xnBU0=uJ2;4O_gr6bspMl!nXds(WrlG{911iO-7KMd#K&N{p3ZuD3#DDzhpMGrO05ZYP69AxCRcr+sZ
dLX=U^b1Z_Yq2uJJ&nXptU1+lO=Xi4nkP3rhaT|Rol!ed#{r--IgiL)`CmMzE8M(&>@eC-&u1Npbwba
}g-W^miYMM!@l$!qFs#ivl*Myckb-WhdQSmz@{{amk7{iU=^)Zl)(kFz|0><}1@lhAwXg1k09itLN3E
c8_b%=!K2g6Hg}o4!w#Sn_G@D|CC0j+ny?Q6+Jc9O6V5cj201R^?2yQ}}(A{`_DE=3GX253L;66s(DH
xM^^5%9i54+|+ty=KEQ`RF15{-jRdr{bbj;ZHzu)aA&gxO+%g~^E@b{Fts)7@QYw-+2UvA*K)K~3XOB
mSNcMm{aWAxvrmq2jb~UTsJ;@KT9%)8_NV%i2XFY>(s@8eU%MXX@H2c6ydFt8{*cp-vpvq!bv|x(6+7
<#M~2L}d}QB>^#GpEPS&Wz7*^|s`2o!{hM3Yvs-KyG<28D2ydY9Giddx&3<`I2w?hXWtJ@0lsc~!zsQ
y%t^|Ih2s&OeXERC1y=jQ74+2wZbu7HLuA=w>3#FtX;xcOGBx43fB)!XbN7!A8T-Rts4Mb5RGveL<XF
~v`=DEkkiu&~5~rPV5uA*;Y=@%up%qld@gxHTD1#}C6cUb?rH%6}R0orz(W7?msi<n->-IXS$C=I81^
si*WeP)h>@6aWAK2mtey7DvvEk2_fd006HC001}u003}la4%nWWo~3|axZdaadl;LbaO9oVPk7yXJvC
QV`yP=WMy<OZDM0{XL4_KaBy;OVr6nJaCwzgVQ<<<5dF@t7>O@Lq8!kx)LwKSj0=>OfMpv+(dmR1dkx
zxUTb%q$oK2-t$`2&mF_G>if7)uoq2D(wA;5I8jYv31<hyvcoB_hG++8Z=oi>_t4;Ba(^8AA$eAQxrJ
RJJ2lbDTlF=#`FI*dBk{#2ATS~d*iB*~sKzpqd!z>q80QQx?aH$HeNo8bjPy@f<)+DUp2<`V}E)r&i$
_-w1p>+KMVhWT##1qY#<tc5dn(_K5rX5#N;i#RZj(<nPet!UpoA4faQc~!!hC*(*e&Ok15?|$3i%p67
I_B;VM2H@kex^XktrmOwK<LntRTNZqr}7#R?JE2+sa#&Y&08x}0|Kp7Rw$9%F4{>>szGNdHk#?mNuFu
W$*9b}Vw`)bR7nZTN%K^gLsO8?63f%ylt%qtr6Q|bsLWG{;AXX4@6Ad1>0(85ZZIEBdCoO@3d)TX35w
?;;kn_&3>7YBc4vJju94{22u&2|YftWp3*_C|ZYL0-VQ+9c?a0`L0MudD^^YAWT;Uy>u1LZ|eX6`I!F
ke@L|)VG;28b^AqIWLPSS=`X?Rx3E*OBN$65Ssxr)hKJkg^UhTbB6x(62iAPd(IOk!V10b)$0S#B#d4
uXeq=zl|nH=507@ssO*GK&}ED5A+SB##0wjA#C8?u8Vr!eAMVdvKidlf+KUTOz+noPlz$pd`K=CZsux
{sems8k8yR*b9fv3CE|F62saQ)&KHPs(f3|i;}aT_arjP6;|$53+xVd_R3wboc%rQW|uw<0Al&Ggar}
GCn5v&L@K4bG*ZSo=!1va{%|npe;9o14~SL~BENcQy!iSbZ=`msm1%rQz2k+m)v7ECtu~MV7P_y`M<(
KS>M}u{IhK?*``m=C;>qU*#QYSd35mYXq6UPQ$<K=u$1DGP&;V^W!;gbu6Ez*V*d^DqzT)~3Hb6=7<@
YZaBL)aHKpV0B)WnPsxjf9iUL6)c9zm^EBALP6KJue?+I6nw#Lb6W3k#dkdM$8&uGbyIWp<3a=enrZg
uWr&TW`HTfDHXff4!yLb9Sh6*KK6Z#$0CJ*>RbA@4=0-lk%6TcY0r@&NAQNJBiyl&--_Ca*ZDti}b%x
O9KQH000080P~d=NAcxnnoJA;0ESEe051Rl0B~t=FJE?LZe(wAFLGsZb!BsOb1!gVV{2h&WpgiMXkl_
>WppoXVq<f2Z7y(m?Of4v+DI0C=PSC3ha^>ql>mX5R32;(&N#u23vi|KG$ll1Ye$y6lCZ;W?Z5ABwFI
}N+d?*(&F&<?q>WCW=5|XuhuhsuyG=jX>E!*z6`Nk1O|Iq>b~^oZ_K|7owp(qsxZ~_o?BDvK8?duz#h
IV5`{<v35V+kazGWU9>$Zxj7onf}Q1e&*$b;yC$1Ga2lxPF$U-2~Y+y@Sa?(a9D@42ZTg$cZkAEG#W0
}Zq5D3-^)n7b)ovE?>vvHDSNEZTb5!bjbu?Dg3jW{t-VG(lGHvXdZSGf_8TGoJAHk*{P=&Z01l{pBW&
;@8QWU*HI1mu~zAyY_?I*uQ56g9uZWM(lc<-bG>Fe;As;U&d~{6{EC{IcG_<PM;vKw`?12nCFHp<|{v
u&BH*X%net6i(=s4M=O856^AzA3c4erPI-Kv6l3`Q>V{2u0+F)!JmfL-=6bUXd=JP|-{WDznVYZ&aV)
vpkJPycWS$4Y&Le0(8{M~z`+$qje&lfiM_8|G6`z*3*kMu3Uc0G?AI|23Aija1w=96O5f{uZIRyKju9
zQY&ECP-!ynKfbo2=>BevvhlkoK>=s*ilmwmoi{PyW)!A`Eeu+Jy6*~!)7%Uh@mBMm5=KiQIh{}A}lF
!U;R!*mOQLj#wS+1YQvI61wTUM#+d=+7?}SCjdioqw9K6Lx(vTU?yoOiyO)`et_hX+G&PHs`z;VlkN1
An%5F4NcxhFp?{tx_*$zu782kn?QiUiru-798R;xeYm2S3%AI__F3mJh{D^fzd+d!=v(HmSs0}q_7wY
Y?ZDMnIlIux{`_{}qW8KTW?N9n4gUz>6wHBs?ysTg^B{`i4m*vKR8+k@0j}AzEYq<1rp4IJ9FFK7Y;y
H$LlJ4WTI)EvXI&3&;uKC)BF>z+efT_eV~B@O;#h>jFVf_aw;+zwi}!Y`CI0>03ljE@y>7uR$gGa~WD
G(!;chfX0&crO5Ir&TD;$ISAmFz!x{q$K;T5(C&y4K|_FCJzC0e&e2sc$+@GU*RC-}XQ9vA$cp5GVzz
MkI~{J!M(I_gv41Hm7R^tj*;^n6?JZ9U%>d|S^S3jR>f9}50Z&mRf?h~mrsj|6`t`Gb!76u2Y!&Pb07
zN6=l1%IsPj|G2R@cYVB;I81ilHaFr!FShMd@1-#J%1_qOFiEcd{58!1mDy1SAxIN^H+ku((}3Cb3LC
6KG*Ztg1@HtW(EuTdfj@Hi$#*|v?3RkTw@BUk?j;1RkTghFh@!gd6B78eNi;w7`dj9Q5-JXLWM_JxBO
fC?9Pp+JY2ZTfQ$ZtbXnO8?h!MuGrzoqFIEA-|9a&GZjxlRU;V-g5$$C0pogq>?t1Vo2kP0?3ZT|0SK
3KZq8SvOs8<TON(kM1QSp_i`Rd<7?$55rgK?{s6`A1c6`vGwvqr>8)i!HXTQB3!AV}RV2qoR1ghUGUU
Wjb;WU^2{K`L|c2{uJQ2X;~{2^F0B1gX7}V0MPelMTxUc48|D6`UeSbu9=Z<;nJcI@xnCr;;$z6Y>K)
{j3tk!e4qIBW1&pf~hei%Auq}K7$}7u@S*U8kmWkyhC!8Yr~!LE;~8$#<FD5lSN+^16kOz7|LQK3r7}
X@gWZ}fAphG!m^v5y(831Hrvq)>p&KEQAK`aNAx+XMTzPQ3(;owmu$0vG#@TRoAMhd5vMBBWMq__3n@
6<T;oCr#WB88ZO(4oT%*nocULKGTEelAd&#%Gf}=IDoikM2q-<lBNmNmcthk4$rc^7d^n;)jW|q~JZZ
^3&Gd^6mT2OwtR`M50`1Aawf)}!lGZc!CGn9g<;3z|(_&7r$ag?D@IL=T=9Azka<J0qThC<;uLm_dLp
-?!^P)HnQC=`w}6cR@n3T4YUL&2Dpe*?xD3dP463W=i(#U|_sXDF0i;S7bsafU+TC_|xeoS~4oQ)9@b
428r|hGKTqXE{S5ag?D@IL=U1)GlQxQV&pyA|HLlJo`Hjt+5)EqtyFpjoYClrR<;TC)dRx(-bO>8dl!
VT^o*(%M(+P#+KRcnMQB48{)F_^a`u#XSQP&^|WrY6Yhg<GdyHA#W_E0HkHt8%tkuQ-fce4vMzm`9Y~
%^cJo)C5TkHxHzbbihQhJkkT|j%3deRs;>d0&9NP_vBfFvG3fm2dBfFt+Y&Rs1?8a<tH}r(qpKmur{`
U>-MxXuZ`PgnK9NUeGiY&0~H=qdGDY06y)lP{Wp8cZqn&oa&M5Rv-iW+s|EOqXnI1d_#b2dPY#90mcf
H;4g?ZtWVIqTBmvyuu>=N4<Ta%Kr_rubN!3#Ni2ZKn8Gn@JpLGlgSqCh;G3v7&dBHV^+4ZSGf66|Bwb
bf8tyX3Bf8Hj_BgW^t^a{r7_`R#dbZ1cA_IN}`EkaCo_*abAFzD;lqHs9*3=BG6>=h|VR{Jix9`1E{1
R&jWB2&zvS>?Ve-w_GgIjDHF|IiJYRST4z{N`wtq{sDWW+S4|_sQlqaitgi;&ct-jpE$jVhuW$8QEm<
~Qe*eG7C#ZWCdsaVFBz->dV|f-eeWhFTk$iGZ2zi!%2}sY!o<-r<vq&6y7KLNaB5~wd6plTM#F1xFIQ
A?ON1jFD*t19+c@~9Z&r;EfXXT1;XpNm-8j$zb_ckphUOamx9s`YCG&3z?j!S1@>Sh6CS}$88LZ;Pbi
%9IJb3JbpgK>1S9by3wZ__)m11<9#Hq7=RLN&SlkM+bRxq;YgdAiBA<@t%&XU0PA@gxyj`O-*i<?~|y
-Vep{;F70LJl}?wK1D3?Lr?5IliW?hSJ^JPb<F><;i0!>Zs-Qv1h6O!wjHtOkv;Kj!{(zK_$xoW1vYo
RyKFxxi{0=x+mIJ$I~t#O5Omo*%G*!eb+-F0;aRk)=rYiIOw{k@*Qs{X#O~GGUDI0c-kV_6KbzQh*}!
+V5Z#>W;njYStir}+b!p=BJAa-2{^4TYYR%!_zm$tp_|I)}Iv20b3huxE2)ti$aq3$Vc5w>FE>7ae#o
OjrFm1Sv{Xp)}^h1{X9o~abL_!HV*(Ts5y65b{z2ym8MLdyIFA7sv)Zc(oEVn7|vd<iJ3iKvZ0l6=i3
;h%Vbn8Fzu&W)lA8F~UdA_@!4|rL=o6R@8!QUNn5&Ba%=e=aztMT+@*>88d^F+UDcjw6&O;JtjF@-=M
+MrimYf`->ALD}?^vW^oH|XtLM4HOY*}P|*PFgMT$LT~d6>7Q(n~Iqkf|*T7Ql>)jv8l+TeHBNhLh-S
wm>u;3Et?9($EHH!$W$mCn+k~|Q=xEdDkP3fg~G9^kT^0G3dg2G;{Q`iO;sGrJBcHCr*JIqB#z{r!m+
%QIFfe?$MR0%-)U#VK<sQ#Q^Q;lK;cW98*HiSqoTm+(Qe1Xe{*v~c4$Z!`ppe>tb$CnU)kJH*M?@SP=
ct8sY6Fkwx4H+2ji$+!t0wxf3!c_+HDr5{9{*9>wJ43ArhOzJ1t87x4Q<(##9fi_JAT4K6tY@H>~051
liy;x54R88~ka5KW*@*4eo4kI;n2)Q)PCfy!(DGXqO6lda~?-8W!<R?}F+GI7*>uU+03A=&5Pgyr{Tf
qrTL+;8gE|J;ep5^)5L5rY<;rh6_%g>4MY31>v0oeOsJ6&3~d>`hl+d!~H~;!hfV4iN)-cGPj8Qk=j8
2Eq|g*ZICbTda2;ZA1NIBBZ-&%@q4Zy7Qdx)&~NInKkkw79!LIY!L4Nxud+{Cy^hr{UW1Nhi@R9>s$B
~4(9a6ixE{+tM23XDQar{vZYjp1nvRX#w@>|K_qhe$1M}i0_REPc{1F>oPJD3_JDaR?Q?)2{M7rcrW6
^hve$5$a62-tY21iCQaEyU=EJk!uYQi=R`^YG4$FL7yowZR6O=Eau6hp@tYR6(s7o{dfrZGA)ijiZC8
sDjO6pm>)M@Hc|hNBw`DNNO()Wp~{#z#gmc8u|}#-bX9YZ~s6QMiubHXaMQiKS^QkBnmJ7)x?28vm%Z
?U{ymR1~c3Ifl10H+pHvL@)WPB>Bqz&j2j@F}`rAVcv*7amc@WA6huF4y_#JK74THsN5y}%2AdbK%(#
;P)h>@6aWAK2mtey7DxIT6}Wl^006lX001}u003}la4%nWWo~3|axZdaadl;LbaO9oVPk7yXJvCQV`y
P=WMy<Ob7Es?VRCb2bZ~NSVr6nJaCyB~{cqbi68&9&#Q;HJd+WM(cC$dYn*z3@B*yvcB>NV*o*^(Y9T
SyBm86sU{`!5C<S)t2wZQEf2oRAok27y(o~Vn9(?9CCcfBF?dtG<vyVU8Ay8oavwinI?O_rQSN<4{}M
bwpZPD0Z_{#Qg1qiHOjxzgAPmrQAHXwD4}jZ_rEwBc+Kda*D9W;gtqM>64x<buozXxI<A(IHDXmR75E
EJ9|4j5QurB31eTU>Zx6t%r&;!{_w4NfFCOF=erm4USqGs&;F1*=)7|anig&?I<G8+G_H+=IWWxvrM`
&HcC9MkzZBUe!~jUfT=Gu7SWRuD|$zW(2$Wd-k7C~Qwx8&!5@pH-Iu$3Q-*SaKxrf%6;m6_?m}@+S}x
2BBL7Gmxu%fCr1)Iu?0hg~h{f~wQo(;E=VGz3OY3-!d~I5WtCil8d^em@pKGK-cRc0_$B);KkqF`37a
@-|C#ET}YkIk-^4138=Yi0z1bj;WN8$qe_H0{ztk7knwLL9ItRq*dGGpUMxfAPHL(m(FP%gFgY@DQEp
Xr=LoWd?q9Q*@7B>IB(qeo6_%@^ya4g}cJAHB)_XgZ<x@PYnldtQ4udH4uhlmfdbaE2sSNhAP_tQ3pQ
27v=$;CkJAc(gmcesA(%qrdG<hOY0^?Z~4xjoaR&*PZs;9*w8oc;vec6qoZY#g@!dB=0C*0CFY4B!+~
ENN1@(pu8FZMsr%SXO1$598)zXh7L(KKUBj=#!qR!aM=_3k;H;xY3lT%1bPSUS*k8j_Vuk}D#Avcu39
i+@s|iC@Zo+d7J$Buq*Qh4NNud?pbg*VWvkVE*ZR5HBAWVGIrk%Xc=Mg&bKy9sl$|HN(au6)ej1dogc
y8-+HKc!`AL*~1VOn`7mGeO<8*OrC|8MXq0Hh%u_Tac?l^vXFz&m7-}|>q*YxWzj^7E~;b?kyA9!v*n
B04=e?RKqV6)Y{{KY}}dz0S3;Bi0lCf(`e$fVi$aODi$yY_1)%`3-$7<5Mcpxd4VBk#ubuzq>fbcWMG
$Mu5IZQ#5Aw7Xb8I5Jx(8@(fl+V0fMs_8gR7%{EM7x7cXI~&7~c&Q#eLDZmFXwU@(fq*myK~?i;QMV$
)qdL0N&Mlu`-?GTgc+6HjbG;tQnCJfXcZAzGLaXhJ>{BCH4J<gKO%K^^LKeKKYn%6lQ_L|E=-fO2JI#
=agbB43h}4<ToL|;S@c=Im8)s}YI5=jMiW4S^t-py#SPjZM$&Rc|5sZYw%2g3~xXT~VdoqsA6y74HT6
1>XW(z45=LkD6If&HuIh1Lhy+Bb{lP<B)6weG+ee8}>Q`=Qn#ciK|?PB8LsA2HAIisJ-Jymp?NW&s{>
a?{^ZQ3l3HZS%O>P){E4C0NV+4q8GR*a!q(3vM*M1(|r-2v{{d*UX@2R^Wr7l}l}l&Z7ewLitpTE%6n
MhSXPK1aX5hLZO1=SuEvF)Oou%nP({K1r;zE<_7$E}(qjJaI9vcpdk-0d<wx@!1vxtfXEG5y2wJ-*W-
a{DLTT)YbI7oipp>EqF~4j|&@l9CrVFnwB33uQ?>f&PZtMY4MI-W!`>eiY78`%>hd)v(H-@u7<VQkw0
R}AbzK!R30C6vJ2lrtIxvi_5Li<uKP+rIaq1X{s(R`%5;!Uf*%y5pkSv_Q+p6yErs;cVMsN4n=x<}WR
)xNam5mQDVg&)<O7C#**DZo%uZsYQ(}jHtJ7AQcY<Xf^0wTnc0sRCCM8d2Qq1))ORB7xpHs+Lxp*hEH
zT~HP6wkz*Vp?SO@rU0-%t?6--_K^YMxJY=AKe+lW?aOsmRHAA=2azCi&nbSbw5dE;*;$&^qq&2<H58
{dB%xajR=+18!6!y_Z%iZ#3=WLbPvm-M;$MYcZ>w1uFe2FCxYj`9E=m-h97T^%WtngOFO8s5FhdIczE
EsE+A{x@SsWJjw|EonE;j{%r(5;<NV!*Q+O7{h#@du#B%3WkP&enI&#3%caC8%p3iGX1)IXP_NPX!^I
m)GvNEFJ@*nkzLe~Ts&FMy*^R$dQi0=PZWi9WR{W~1Mibh1LW2%J2xc{UUqURW{Jx-ptH~x2A&bUR3t
N8Ae*aZwwNe;rAHwdn_`dYYE$Wq`PY}pPv)rQ@As;>z30BUZP)h>@6aWAK2mtey7DuGq<-a5Z007$z0
01}u003}la4%nWWo~3|axZdaadl;LbaO9oVPk7yXJvCQV`yP=WMy<Ob7Et2XL4_KaBy;OVr6nJaCxOx
"%text.
