(* ===== verification/PipData12.v ===== *)
(** * The literal of the pip installer, twelfth part

    Lines 15015 to 16364 of tools/eposiotgw/get-pip.py: the characters of its literal
    [DATA] as the source has them, line breaks included. *)

From S2P Require Import Literal.

(** Lines 15015 to 15164. *)
Definition DATA_99 : text := "ZExZ@5dO}u7^z=CVsnHQz13Cs0a&1Dfg%E`s?`da#35FVjcljg+^@fJ5=v6S6?&GC$jm&?ygRwMsXov
fjK(vVjQfL`H-O&cq5lKU*xuA`U>Q+(P;AQt;n0@>1*Tyt|6!aHSPAw*l}3#p5v8etfEwx>slZ25r*>
c%3uYLaeWx#!%RN;fLogN8Xg{My`(#g1wA;mk`NS|OG(M`mROtf}!(6IN?kh?R4PcX`jHj-MvRwNFT}
1}!{RXsKEf*;&%^m1+4hw6mVL>%jFEq$9=}Tc0+r*e(T{r$h3BZ)7XP7g-Rcr@e03$SDB+L^NNs(H3Q
G!3hrPa%~eA5c$1;UbYwoybSwz{FB6toP@D@J|?iHyM~0u&9H&irGg3=k3gAr<0xGGJk1MX?AlUz?Vp
YNroH9?e!Tp&C<x5fxOS`+2<K%t!Eq`BZ2MM8n?7baX7`&<5h=fxu8AeOmrIpbYiaw{1U4pzXK^Z#iQ
VbA>uFHhygP-U1sKbOIdPr4C4^vINIW17IShjj%cR2MICJR~$dsP>3}RW8Optw1vm<^8R79gzoGK9=n
T0ceZ@GLtAVGYO%o?6Wi@MLt@NI5n&Px90{g_MgJZV-QIXIUOw6AhvVgJ;CV27SU?x%-Nka;Uro9Tn6
DP|2XEkDb16NP*cP*@$ZsVMk#Z-olDH&<ah;|9gzeQBAP*oSFBIGCQ{1Wm2u{d8xvGa;ifx)NLXHK!0
~UgirU|c#;q2geo^%&kj{R-oR`^a6IxZR!@yxLW9>Rw#MCu`zQZ=C`wXvqtE@E44*KK`qzqVX}m4}jZ
2L`k67hXO$wOXifX`K9S*(w?D_eyTC1lU5mXnoXp)QqfVo@#Q4-sGUNy~o6s(_Ug|jx2#V5nCT`3653
8oud2zt3NW~wmWV=S5B?62|pzJrn3Jv_~1;iu%h#hU`qV5<U^YAX7}y(Hiz4XPA7e66jIn?U!P0yr_T
QzS$Pi468d@+74VywZ;4_=oN{z}2VIHBEsG0WQ7q1JweJtQ5?8A%E^y)Qvl7j6?A^9oOBA2Dr5i<GOU
4;{=RVaG?K9i*oMcw{aMWr(Ct8Eo>wASstDg=Zz7lMc0vf`4&G5ytUe`6{VJ^4l6y%gm-z@Euv)*M!8
vcf#rRg{`%9W$qXkG+8&hv$UilM#``F`>*gcZjB3dCVYu1Kn|EEmE~HtMPxmKW$Mm+q&qRV#Rv+t#PB
?^d>e`t|lNDl8w4eQ_7-$MxWHi(iKPzHI#8F&DT0<GZ%{3<<a2HpL*1LA@{?|DTv(sbc!c$f_eMN*#P
3uG33#on3djUQxwnMHc67C5QetR0Q>(QHh|6^`oRto&IXn%5D{Yj2j$*e*sWS0|XQR000O8^OY7ymtp
W${R992v<?6OGXMYpaA|NaUv_0~WN&gWa%FLKWpi|MFK}UFYhh<)b1!3PVRB?;bT4yiX>)LLZ(?O~E^
v9JR&8(END%(cuNWyGYE<fjRwrE><s?E#!W|HViK?g<p~W7<UhG}8yH4W%`kS>4IJQaC-hP64d1mIB*
;${QG#@x0UX7+O9u0<5ZwTk(o5A03#P+0h0*ej8jpA!ASOfzZAaD(_{LZ6@xl*mcCz;#YnT`ZEoGdT!
5hJ-p1u_KFfI;?CG}>odBvBkEg8R&HDK!06TdA@?1Pn8&a=EXN84O^RW{CArOj)dLN})CeoIx9UpFjU
W5RK+8^rHyo)>gwDHL6Dp@=69$7{ynKk;>8SFC+n&F!ca49<3FR;R8^H28@JRYBo|7^%FG_Un!<i%Tl
NiLCerQQDUc%$^?8SKw-dj4o^fFU?TWUD)NtIz{Avv5)n{2Hfw__);kWbrnfLgO_{<K3RG0hELla|C+
9KuQD_9FVQXc2b71PyCgK%|z@;SkjNMZ}PI?>r5tSwhd~|!eXa!;iqymQ-n?H4PYaQE^bP5r5L+w1>M
hXs<2EauIyCLrB2LV!{Pc%lbLP#`*Nz@?(vW2gs#r4hY0{YWC_}ZV(`_skUDcKU!q^17lNIc#~oPen+
#e_*IaRQhO=YwnV=%0_qqs5)g{&KXK4m}SpZ|2a4S%1D54Q|K%Im~Y7vm0;d0(gi!iY=K<B=0E>2{M+
%WPpb8Nav;BQF}Ed7zMClk4SCyk<&y0qbssaf2xO(6zi;Baybxs3OocMO$VM7r`e(Dt96%94*l)W(ED
x&e(#YH6Aux!z$5od9uo9rB&F)Wxzxs*PWt5A{n+buKlDCzdjPi{Nsb*DPA}fLL{3^Q>Xf}MI@PUE$r
#*t<!_kMXtqkOh>F5sl0=4|rv?Y4_0Y^RZQ(<UhKsc}G<7laH(cP(ZIEd^tC{4QoeRP2N6?OU;o$u>@
-9m9J}stH^IdlTZhc{%%f@yg;IpaNQ59OpWjk*&q4gFO`klt7?PX{}b*t6#Bc^p`n-}La*Gx-?b`DKg
2+Jj>)wNtY8l$j~+tcjmzBJ!k+kfsdE~uKoSp#cMsf3zmjj!+2x3i;EIt`%@93Fft%vRkL?PWv4JsY{
;ZB&$Oe~?T)&Kk|Kn9-$RF;+t=G>H<&;A-9_<Pb5)&^o}*lQJe7(`Gw^2!)er_6oakxLu%hi`VFMJDF
+8(;olOPXej*+ZB}FGP^t(_BVdte&J24<psdmVQO6*Dkas+XnUWX(K5hQvaTCtq^H`|hTb&gW~(bJzl
o$K=h}G>@1WQl8+t>~CI|GMtY`p8^&V&%9sYK(f5f}Galzk?&Jr0@X(m{+U(v_O!wV@!uW~vvdV+Pjj
>paR`pEqM$Rtyy9@(}cAHeGDWQ|IcLXkJj4rrY*ipg!H?vWYDLB~uRdrQCd?kQ3>irxFy9I97qe|^ee
AL)y%$p6cI=WU&@m)<-wuk63ZWID&;FwzYz|535|eWgk5m8!J=KmBx}+1Z2Kzmn>kDlano0KF`q-Y-y
}oqZP7HN9_ecRwxJlB9_D2V<JN{X)rCT)Q&z7iiEoG|gYCOV2sB!KGQEkjZ+pq>m})*iYV|T3u<6NfG
h@g>Pg3Sqkl4-^>?-+r@HmJs;Aa@kP7+E4RM!;VBhddASbhRNgJpm}fHx%h$Z&?JAYCcP+l8%D#=GaT
K6PJ!a3&E{)CswcYv;P)h>@6aWAK2mtey7Dug|Hab@a006ie0024w003}la4%nWWo~3|axZdaadl;Lb
aO9oVPk7yXJvCQV`yP=WMy<Ob#7^PWpZ<2Y-DA0Wn*-2axQRrwOD;`;y4rkpHDHj)rz18atZWStFF2d
P|~8K6am#etF}TRF~!;tN4B$F?(MVRI3Yk1L%Z#r)k<K`{5<b7=Hx`bpwqkT4`I;n_J)%lbOtxwU*Q1
lN#z8lO9D5XKGM()pv!y$RKPX+od$smw;}yTxWE%{>2g6N_(T#<G7cV+nw1QpA5uw??1FqF0gDI+wg9
PtM*1O<!gC{nTdP$ZQqPr?g#y3wi1FkL0>g;$bl>B|mBfenIzcR7<#L4;t?{a*1fyGnre)a(p(Qt=9R
x5|v;xLN5dMw$sU}?(N>1l7>Su`B8SVgFyZkGRXz<AC3L1bCN{|djYq?}$LNQsc@!t)YI%ivb6ANt&g
eDE>oV$Fjth?ZZfM5&xgpz-PHH*P>L*T@xBE26iCBY5-pBYE~74zw0t+wLOM}3uAlJJ$tjC?t~g#i($
3S5$qaJ+sL&jacq^MHCJ6a-uWk=hf>ohcn9$Ydi3I1J$v^M3+D@m$@l+>blZH0|uR4PqU21;dp}esp)
F7;7l>8Ul0|&p1u333i(LK*I!fiO#_f2#AV4VfewEKrF~24(f=2wD4PhdUbO<h4%0Z{MH_i+r#OXPe_
Zdz*BT^ibPjYKoJ<V;%+F{C^!OK_r~2T<Y;&LgZ}i3lHTc0hrP)JoSQMUVbmT^``z0?dkmx7@#tpKGt
s$(WF}U|)ERke;srvk7+MmO#HE2qRsVwS6)0ff!_xgm(9Isftn$Id2#MA|<imi4kBPp>vNPx>pbH3@t
iuzh7&{oACGR52&cAic3eT*=FE$dn;nx6NFhO>QE)d!Y7~^&5Fd-G`bsKrDrfpjdyJgt`w-eksw4gV<
cwzB5sZ<smlg3mIQ)%U4wo7!FsBAXGdizl&lP5L|7+^HCBhKb%tqs8-*&C&MaDr9}efA_8cJr6!hHW+
X#3N^Ml;^zebSIZ;d&j(r14$e6H5yYDKG#zLjpZ*BK<JSsWh6nv$ABDxBErjq^n}+%!U>T(l>X$V(X^
Y*IuPlZnN85EmFxbne|>vBn_i83ldGG-1)PIrHmwR7#hkQ-N2%JW5QNRX*%fky<u8%x9GaC%#S2^^cG
do3Q{>MoSl%$27ciSqtfRA;AxN;OrTc2BujXutXdNmuHU#Cw^w=t*0Ws#)yZi4St;YR#$9bsM3aqI9A
vWXQYPJ6S`;S_QX;re(ISg4yiexz&fkbx?c@mE0UmCT_R?l=przD<WP$0%1RT5$}qF<|L$*py$V&pEU
kNX7oEYtcc&+8)<ayo7xN-|EQ%N6XD$ECANCNEs+9%Ai>Q7n-^apTV4MY4e_q_PAO&8yYzDb|bw*4$}
+#N=DsWpt|gWsw}}J&*^E@;F-`EC}%v7u3P+#QToOL{|39V{sy59#*z{?f`qiIRqp$5{!Katdz<5afA
(F-V=Ei%*(WP`^rf|IZ~w6xpQ-k#hAd?kUgn(hPC>3>g1RaUrBa%)_Q>R^G$s-k#UBUAM+Qbm-QUzbf
Dva!fJfn-c%wz60h$P*2biN`K}nY_I}u^MS`u2ry3bs&Do%*lhbj)>49abzeLm))~$d_iFJ^KKE+YzH
Bz^lgWkU(bVn<6DlW?HI6I-|^zm&HcU~j$yo#l=r^@C1cgs@$Rjrv5Su-<tCymoO&WEvxadKeTWh72G
YFb3e!DyY@&DwJcl+M-4Y4!hx>O{8n;q*fzxw4^v-_`Y;MZHT@FEB)EfYcaHPiu&c>yoH@)(}nmwDq4
DLIMB#hG-UJ_*lv%ach6bk`3Mvy7q@3OtzAs`ZU{1FeNA^*xRH$lwgNDX|B&^4JEzfZg;_hdVPVBJKV
eF0Y0lXU(<BTO|Q>gqn4(>XxjLGA3rPh3+=FF3gU8aX%t#zLI3=ykWGJOXBx&cLa7&?uZ{B3JeNsU97
Fz>w)K|^n+>idpYF{yNenjZvxgVhH^VELcdy+apNRHk&<vu*Eu*IQV|k)V2A{+>X)bMELncXHZhd(`3
Vnhcy5y0_+2+TbS?I2aQPUT#y_L_eqrh82qxP3xT3vo5p{Ms&7OKa*b!^Do^HupZP<Z*FDT+_H7g%Sv
_Mf0e?IFkb!_)Cb&FHnEu~l3j9?`3#L9Kj5L@y11txSiCWVYs<xL<cK0xw{K6klb}J_hy(pPS^7WM|W
vPv-HXCXCj?6cQ&1ZYIC87}b!aqks03&QJGYwRTLDlJc)^2S;36brpH_+3uanwvY4zarF6^MnHFaUGY
7x*2?`pDwA1-X=qEOgLrKcDfdSQ3b|TnC(K+;ENb*R5bTF@caQtC&Io#u^wugO9%tP$6k~lykxV(dyF
Nqdm!(4uTOWm6(6@J-0@TqG^Gr}5&vI>sN1J}J#CQCPhIAFL@X?Rh%Owl^QpUd^M(?Z#bM>FZYgvK!0
=)eQdM{97c>jEnH{R4C4rEEKR`~}|O9KQH000080P~d=M_>COYaRpu09*<H05bpp0B~t=FJE?LZe(wA
FLGsZb!BsOb1!gVV{2h&WpgiMXkl_>WppofbY?hka&KZ~axQRrrB>T+<2Dd|*H;WSFLvvwb{1PCn`Qy
qu@j@dL6Wh^lORhYn+Qc3B$d?t`VJ-eCOeC6t0!x8&dixJLnc>Ommla2o<>s`kNShDKY-qN*8dYez+O
355UdeqimjN4IP_(Lz%*p?Z^n7#O0|NRVy?4;js!D|kdOF=Ty9W-Ou<~pLHH>e9Y-6aP?qI_#gSoBXn
Iu}sfrg$40EZ<c&soon80#dWIQhwDVuAvrBZ7HjeZk4cXzjx;v(FIF6ZD`tOgG?sy9r^PWn<9#g@5|s
-c@-DFQHw)GN#xUn!QsHIPCBM#6k+)>2gclQo<zRiw7orBoq;mZ^CsVfV0=ImD3wg$dJTdNRU5B$D5x
B7P<lmTqk*7YVgvRU1^9-g)>mUBDPMDTOB#sHmHHzT_+>@|eXaG(x0dV`F-KaB66U_>~YCN=je2dk@I
yyRH3(N>c=G+|I6Am9Yg<K_fC&KTUIEiA@r{1y0jYJEnWlf<vbXFj1skllSz45>lh@v_`N*$Tg-pZ&3
!q!uL_|JX-|NoxZ^LuIF{9!OJ~i$!YpZ^D8s4Y{MBPrmj>Z%$9^xg2}+^KNF+d8;wW7i&Z}y1=E4=!*
J$77v^0r81)z9t_SmlH=p?f7r;l{S!~U`Wb)qPlu~AroJ`O}jO()X7aFf7fjohA^oBI%7#VF8M07+p+
n<^tmts})OO%75_rOvR(zM`RG1?v4zO(64mcx8owDhstf-fBcMdFpy2z;UsSxTvgTuRk~p47%dCtc#U
Z#td!b?0-t1F-NZ^3el>>Epk=M6MhsRWbwD4$PjKm=3d{f$1t9uOp?=Y?NG*D;20uK_AV$2=0J%K*Wl
;2D2z$Gl6?_@x`}aCgqokk}YGcvmI;^3~&9(gl-`2IJ4;>q)qX{xi{;<1GL>Qj^o5U(z*bar5h(g=q{
kEfCisJ7&5w1!my!{r&ZiOCwTW1wFlWZH_R&86RLjRLE}hmjj8CiGL5FQ7gGj)sN@Lpk&J!b+V^Rm&C
*HF=CeK>%C69a)$~FUWms3B(Bw+Mr`)91x1SEY6fr5VEr@#gF~gp%*j^PjehAwqJ~%`w>e2=NWx`@L8
gcW4M~CKw`fyl47Y9m7bz0}B@m;Ya!c>|Gp5d4Dr|I=1iu{LlM@CQZXX+NGdSw28Wr`_tUYR&`ON;5|
N}(vH%uzI&@a+L^&gn<ukGJL52k1CXy@pL(j;dJ`_lO2#L*>8LN4O^vI%Nrp*s{MJk^SeH7xWiF7(9C
edKo|d7k}%!TNhkg{)3p>>gR&9S1hiTySp<7PF?x~em|9JPXV*1fNt#-HrlNVtmb)l`<m5{U*P19JHc
1&b=)@nGgIRC-;wLuZdT|D_YY7@0|XQR000O8^OY7yc()cWf&%~m2M7QFF#rGnaA|NaUv_0~WN&gWa%
FLKWpi|MFK}UFYhh<)b1!vrY;0*_GcR9XX>MtBUtcb8d4*JMkJ~m3{_bBv<Zwug<%D$`FyMd#)^*+Pf
VK#FDfUrNY&sE6mRw0r>izmrk`>!SyZS>AisZxBhpW}9=&e%n@H5=O{$x?qcTO}2mC+h2FO7!I7$x-)
gs#EjUGGR>#fn@D&PDG}#&Ql1uzsy;iv#S?TXTkuh$8Ev_?tV4f6Rqx^yQlTl&nxYOpfoL_TlY})=|L
p_KLmwk^QnRilVWm1vVuV@&Va)#(LNkK;Pqjzk74l??}JBzCV9WF@f=b&Z!4QnImOv{8C{TY}}}5q{7
ZPe>KpRsgbw6^0E`w^Tyb=7G8|@A<<T7aYUP4LJIHG(-wBtd>O7%7o;hj1Yyy2lmKS`P|?TnZ8Yh<RA
l$L$0@T`ydXc(FsY++GXl;gNA&ze#mv=SwrKh*%07w9INlCf|1k(Opc{Bb4>dM|IswWYk6~R-G=D{vd
jsNZWDTni=K9!}Ue_zQ2&>7~v0{WAoeKiK2e^UVK<lO9C-&<Pad0t}9AWhN&@1(raEmlEc#4|0)*5@C
2Cjs2bIZ*L!bZ7FcHyH!09)xd4pp<Im9LDgXZrAU1XmOpgL?Un{t_zZTC}v)B@=a>L(RjMv}Pdysk!q
sAInv8Rd`1AkRktg`}?QA#-M>}ah*|hv3C|e_p*9XLx73YglA9OZ6Bwe`x8P!X7I^j)2rZEqyi6pic&
<G=Ga^9qDvl-Xngoh@Y1tIA~$p@q=Ob|I5lX*+J%q@T2oCZq~cs^={aZJ5H!@Fh@RU+1hmvwKcZ3P8e
{|c6cGTu)W%{B7fFDcj*lS#OO3Byh%YIhR3BZ7{~1Iy%vDX6i+*huR?MOQlb9^LpY6%?vcBC2R|T$=4
sO%jLa->c=p5x&x^-F3a-6Tj7-pfSknaLcLR+Zfv^MM4bxqw6ke23aEKBzHaO>7^3(E%BIO1#_D9adw
HwuM@zGJkKYQdu-6EZV2lDz7z^uyojY3)F$ix?an4Vb2Z!;o(PE3U+LgrkryXY5>ZSZ`;ymHh{H3!>|
2_z!#AV@YA3=+uz~?v(K1z)s<7qt_nJf-cel{RL@>#yjY?;0#<4UJyH4-|r?i>X(^)Bl31}38rt6cO-
c&oj54uIq0Sm9*@Qj53?xYq>sqo=X*kolvnD?m+6eo-M>+)JZd5qRhpA2i+=%7O9KQH000080P~d=M;
Ssahs_KC0M;k~05t#r0B~t=FJE?LZe(wAFLGsZb!BsOb1!gVV{2h&Wpgiea%^mAVlyvaV{dG1Wn*+{Z
*FrgaCx0tZExH*68`RAK{yDcP1i!5eh6S-gUhAOHE5d)()2^&8f&h^wOMN=Rn&TSd$|98&kRY4dhy!6
{SsLk4(E+C&kVD!%Z*6OJXdL>%fbk~smi($zsRc6#m!v&vTfulSMKkVraoMp2>jNxu(_?3%<$eX`|@*
{-kqp@s;WkO<aa;Rby;5s@j`sgWwS2p&6%lGs@FQb5T8oN!w7jVbxvC``!tuvSax<l`ekY@mP=JMs$M
Q*qw@8v`$)eEi%y2*d)+wdxqxKL=1?j7bT9KQ9-CUGY9-UVNp7q%i+^Zt%R;<P-h9(pV8V3&t}|7u?0
cOyQ<mt~CKdLSH_9ZXU9!xuW{S;#+~~ch(y+yyI+!^>u|jzM{QGwhe7Tf)zFdlhxQxE26n4uGzZsRiF
N;R%Le<e+L_dE0`uRsVK-IKUbVchvZSx$f%GIAxEuP_(bH@~uxE~?ThNq{e{O{+wyw{n6d!3`tj9e>0
ik{{APQieVkJ#Pn^j2)}2fZ+2TZyJ*CfC;+xi|W6b$u;JSt899F)Vi!d~zob_)CdgNz<IwPRz3{<g^P
`>QENhkXd45<)V_c+z9u&i-BL{UT?M=QEWFW$XBj~<t$XLHu%>-KD;7n`<yaus?w<CdRwF&yC3dV4Ke
jb30aW4HbNVr?qLdu>CRJNka@fE`a0wovzKSE1(v69vC0x5-s6E{*qL#s;ldl$ID*zE{LuRDeQx0AFw
#!CgQJV!;5g$f&cB`a)LVQi3l*FjqE42M8ob?8|9i*)G~u5o15RCdEbN<5c7$e+I!Cqu9cK*++fEl)f
(+iOgP;h6eu2n7L&zx{C~^UjLS;lQWwwUgOs`duQ4sJWc@2kN<Park8SQj)+lkW8ChYLVP_3jYtC*ze
(GG|%L2!k&#G*%s;M>+VmO^dKSlhX<QPauf0?#HvFy~YMBu$VCOJnpZKUgN#B71EbvX|utJ4M(w>Ma~
@IkW}56tk=>%acsPtWE~veO!wj<(RC98Yd!7TwlUDk!<wMZ6j{wy&@mC$_&_XRuMj{2+k_(&GyW$)Qv
6*;_c$2)2SZ=YcMO~fi5%gwtsH==BD40&GMN25KAOijAY#`KFHjtS!WvTJwALAA>HSSoKlpH^}xm01H
DAlTiH8rnaYoxw`0L|L^pd*jw<w+#A8X}k1>`wCZIcWQ-17a&q<I{OKlWTPXk0?i-^h?7R1p<ERdX2N
)!r25oLESyLi|ZR4fsE2-B7Fm<g3MiGp2IL~8vUU0$FRR0mO&nlKgDGn5PAVFV(%!1_vYOm7?n9C?ds
NRG1=cMxP`nxls~v4TI#w*ZnZR&?RS7$2L*1Ax%M|KokHZo9s(EI<@N9G{7~$fZpZq-IBOGbFef5V(`
n5wu6k5x8wlN8#VJB-j+X%5C0wqV7!#?)pG5Cb9vRbLi%li2`fC;|f$02&DYC)+*1=tZyo*Ym=afKmw
(-;zSc0?5uGDEU_r$Mw!n36n1I3!FI^BsWi4Y7e+Vw9*3Y0w(fSaz6qttGEK)w=3_}Hz$-pd1w9h3f-
$yLCYufpzH{#Zum%W~V$L*WO^Ke&C9J)STlk^VML={Wg#wggk7z@((C1vsB2^rG%<apE_u|d#@4ih$m
l-OLrs+Jcp-^KPw(KaL5xTG+$*N>(c@1}EYdEQYGo;S-br74-+#I0vo>S4T##>{JNjuBNt0UB3TbWPp
VD;j@hAiz-eQVkXCaQEIK0wTXv*i_XM`Kf%26h%Ha$W=MEDE&)pMJbTWU@1AGd?9U%dW4P7q*llFU!h
l3uw@fJ*QE--;^fwk-`T4vry293Bl@Z3NJ%Z+SUis+<^iB3ym+Fzj53ULpB;rxltCOuPm#)G>sGR?c2
BhgyFCb4&`h}LYl_Wuc|qFUzT@TQAf8f%f(98(F4Tr@>$vvujJp0zqb4RnEEoJz(<8TL#exIZX<$Q(V
J*Y_v;T|J;y8l>P47~mi>6ud&m7}$K9@U{M%M#q7`u*xbv8cSFdaW2=cc}gTbP%`k=6Q>pG-EYz9buj
c*inbRc6#J|FmE_CU2k_N@*}LWX{2zw{}fvImx`Jq(hKmqDIkk{hmZHh4-C5TX%V%zCA&qek`Hp}n8Y
Mcl4^MpFfH>MFu2H|9MX%0e-j{0TflmHP7h;_4Z&vZszCo!T;B*p<r1IeOYhSgOBTW+l=<9k7EVDdK|
QVv4z+w#_&@5Xr4HvT17nomwdq%_gA;<NU|BpsANV3j;R%9iHk4?2?gd$Ov(KcRuIHySzKUnsJr6JEt
tmE5%~r$zD74FYjJ^y4PG1EbqWzg?i9nZfDZS9xiL$kVlI^`(voYzGo5|gN(l8C4aOzd;HzLXOfe^u%
Cbb?jo24c6N7IaLmYm>5)Dpb@$C`w?s>b)pc(g=S@c~QE;{$pj-GgfgPhL`rdX>m-7tnID0GZ=dkVu^
<B7WtR0nc1Uj?ZMz*dM@N<#1opadIeq;pgQ|Y=yor56sx8*^d@><-Wj26zjJ8FP_QU~sOn2=hcED2=|
1~V3&kR*Le2}1LXi877Ooci*$)VUGaR{42NRqK25tu;q7;tF)43t1m*!GL+huG|8_sXg@zb`nH=5kW~
?>9?>&$miD*eP9!jwz{~d(I71XepPu#){e~mFKlsnj?v9z?6}yQXH=Fviig?Ud9b>T3kq9xDqVQk-)=
doN64HLq6I91nG1y>`m0pd*<=D8=|0W;sNUUBpLQb*^I$;(YykYHVRK9{+z-7N?jkNrWoRPQf?D>LYa
-V)=#x41)rUYX^m!iM)9)xcBh(Xh$ZJ4v(btEvbg*lh>XNWi)LAC-Fe(a_Y@cC+B^Mz`6BMNOJD@U6X
N>*K_6WlFC#5QP$~PMvC4#;}-T`5kcED93-YKdj;6Kg4@NZ>De_d=j_QOuIbCMNs-pbMgHm!gzh0ybG
M$yvjq$RSWT7^_2xfKFDr%#gP1>)Ws0ZexU(h;*c_wW-aj>m^C5D=<}6&!!Eh7mWty?4q^4kdFM@u5u
;BrAev6s1o<fiJ8v%`K;)6|ru%72kAF{?v&|pczsf)UysUB^*;vF#4oyvjWg^@5kDXSIP2nNnUSjuKt
W74YKKY@HmYPy-zPm;LC5XII_&;xqS#hn**qJ<tsv|lb9Vr{V#<cTc`eJt4;7Es4NZ)P-wnjPl~-gvP
H4WweK=n(QOKJHatpOPuKNcbLuAl?Bj_c5YBDegO+Qbc)LMPph6hgG$3Rp#anScKyEw*{0e>S?C;bWX
(k$ZN5g|gY|s&kb2@E)m~lGtP53*-R$F^1760eIw&KoC6S{7dP29>70B(=_=si3*5P5;kDM&?-OhWC(
0P|>j#Q4u8pcVx(+F`554|P+NGuu2L)T~Jf`Zth+t=nB6+sUC;l&8Ul15AEOpzidM%@UpuKC0dHp2HL
o8qv-@pQKPY@|<R4Ph&Faiidg8=?04CQRr0d$9ed|fWf#FNvDU#%Wc&)EDQZf)jG2SnMAa!x^$#ARdc
XRw7p>=EBk`ZWjYDZ-xTID&uK@GA`*v#F0YO_YpUXK0-gv4&(G!1KIob*6&(~a)FoSwyb%ACDLE4mh=
*v6UTL(!2e$KV(^R=$`Ie}IG0utp16+ihk>27cP19)GQ2AFuD_5&(>e9o?div7DFU{;!ycBWQY$BDC^
OwuH?HoDYC^2kQeWQ>Qd);+6T$yedk017_k%T+Vqbt~v|Be8L?@NlpVpwv?+h#;=h2T>&f&~v$TbKS?
"%text.

(** Lines 15165 to 15314. *)
Definition DATA_100 : text := "GmsUAMox1A1-&+Y*8i9ctT$@#nX22R%g%$XaM0{XTG^{AI@2~%_&S{aFG`W-TkaS$7(u5@iZ8u08u*G
fc+Pq4Tg_bsxr-n^4`VMKcsL)zmA<Af+@7o|w4^0t9T5V2y6R^s`&3<9HCT&d)3Qm|h1XZ@NppGMt^E
gI2W_B2nYGL)XqGO4#A(jT8zXO!&8DUyocaNmeE#5za@o@PROFd>7#AAsg{YYNb@GPuJOh8%nG?`2E4
bs`=a2THV^5Hge8Izgw{5^nt=Br$e1D&auXMHA!pmBn+5do6%bkti?q1)^7jUwo+Kcl&{m-$+-o}I*J
MrkI$}j9PX;3vpFFa^(iVwGGGP-A@AE7k*FDJ-Lbz=ym#&N`P@JAC3M|<=OD*d8uGSAMhMufpPPzL2*
d;{k7A4P-*-n%wUt*dx&r%OK?k?LX_jLjy+uo@r&nmD?E?B{(>ZNqGvr$Cg%?;OCHHhGzDa{fP1O9KQ
H000080P~d=M^e;8_>~I)05c;105bpp0B~t=FJE?LZe(wAFLGsZb!BsOb1!gVV{2h&Wpgiea%^mAVly
veZ*Fd7V{~b6ZZ2?n#aerF+cpyaU!MY(Oh;6z(2kupt)`wE*H(I-y0*_&n(5>^G(<uYYl>h2(6X-6?|
!>@kN_#i$vx&YnVJNF-No*2A6PVBS6nEPQN>igW`o?k%dKo4d3wjxU?KS0J`?)|7w}pUD#?xhFf#*g<
%WtfFPGA+jVqeo(It~^xy&C110}W-LY|YWty=Mt91aNl^!$}lRh$+%D;tJ?o6W9Hcv-Sk<uDoeCgIRn
PnkZXtism;(@*3~FP{p*#Ux}<<nw=<_+XG0R7!GMuh-jlTEyqS!PCfadiGATj3`brreKs%vY>eZL+yf
-!l@*Frq@(Jb<nEjgs&^TWRt5Exw$$2tDc3z+;{>Xbp_G0oUUb|U%#i40R^oJSOLSadv(f+JZ+81u~H
(R*NW-)k+D@l)q;!lOIfirU*ze8TyPXD);xeHkiOt08|ZhVC7*MIFO4FtrgrSyfx=994m44LC4b4QG1
;)8V1#BFK#ZtWE>X*B#YjolOaj;#z?I~Rq_iY+W;MYwBV?;4r;E;rQ^y5RGsy8II+%Dn>nw~uvN7Wb%
uQ%qA@XIiUStfQKiq7kVrv|KZ(Pa_v$Phu+BSouj;F<7ieybyx=L1DDpZW)7>+v0YLypyQ7D*Tk{9<Z
NtsZIV86?8FpLZCnULrs4gtwV&?+(U!VH22aQOlxWug*!sZd~_vtydJ5FX$_GT$aLT``dUi2R|64bgd
r6Y|aexP6x}@cQ-Pc<|?7a6LVlUd)oy<JlAzx$qX_Lv*nJ>h+ksf`6mNi9=V9dafTj^|NP<H)RCyU_(
jVi6P)Oq!Ro-&mign3fY4a6t^dps8a<XLn?Ey7KF-7zD&W>smkYh0ahgi-7*2lRU5`i!ix;vXql0cZQ
#iuQO3r{j=>F(B`wGu+itkX0CEB>tH3UVf}_+n4gvQ?zO2!8oNG(M7us`L#TzF%P7$aqpp}<tQD<y2u
-JY{Zf{{bd8%%2Cjd#NDP=sZ*ATg>)&u;TXf;o6Yf*rr4&#<p#d*<D+!YMn`t*4%QkH<P1LUOPqck7$
h1f3yqLSH2Ed=Hbe?yHg#xaBt#U>Ln!>ED(mL(UkO<e9gJpMW+X9~aave*(@fr0ImgZPa$#9{mpXhDN
L;l{O{lrBaRJC4dg5$h7{S!^+QnT5b^fr7aeEF0s*vXMJu3tAV-n6uzCLvhe~Zf`^N#dc=Wm56LsdAf
2YlqAa~ofjZN!{dT33pNB6#gap4S*=MV8L*t4TqPHmr_=M}Ul2sEMj(HI8V_NE>YB4v4$7g3{D-Zl_q
U)r_CVKF!Nw$CkS(tvrO6c%WF-i~kPZ2fv5FiQ`8~v{Qpa~q*#>u~gmFU_$*l9`O6edwnY0XDmV8n(<
V*4)ScSjHn&sy5Jh{0%`EfcMlV&LSaXP&^K0o_;icw@7EdI5X;8Gaz=oX40z$4ZHTIVd-44H4W@CXJB
6YC1yKbH`HS-gzLVBrtH-rkPlCi)CKKqNY79+5CqelQ`@3iEtIPA%iUiGjN%6}!p6(Cz>1>gxJ(cA0=
}8U=W8!2N@4fj}MY9+A%?)=2z*#Xw8KBzF&FkZaIC4EQjG!EP`$p_@T`H=D?1V&`Qbz*|~K)@Y3+NnY
kENdVl%VoY98v6S%V#ofls*#J=}QRAy$4*M0V``vBgidWIlM8M%#mp!8v0I*E3mlESZ5W^7KDP#|*V#
taD)TxW`mQ9i0F&%^&QYdQNp>l)*ESUlUf)7Ja1l-0}#x_C2#uuD?N1}r<c{2)Xn)vHrYtOs&FGj9*F
1T({K<+B;Adwgoxy%FF9Aob5ki*z!a+j4w#^gQI<(X7S3{n)<Ya0l9Boz#D2l_*YiiZObrCzQON2o@y
1Fn8S7m%l3G>Vn*pA0`x*`c&Uq493xhPv$=88ZoUha-o2oA@(yFCFlq{IM~<nFEpBr{b1iajUiA1qrv
N2Z)ZVwL<$JKxjREw}%FRy{RiEOi=_*!-<anyTF%waCq}&D^~|L@kgA^^GHBOg0|JOJTHW3N2XF?o`O
_Cot8ZqU@ArrD|yDCX2NGgj?T2X@)FQQFjb2ZPAhEFrxW`un`d3JC3hRFJpT-Qs;`krfF8H<Ll-~4;=
!xGda#4KZ=}bm2Zr{j`{ONjJX{5&PzA8a(}Z?Dmb4?$j_im$F!)+zVfGo>XWJM+BRe@gh}nZx&@u=m5
;O<!?>G+i<uI6f=0z#Uv0q5tn}E{1hO#QM`*8h=qc7y>8TsPrE!p`aPj-VKtt$_^m0(aIvlhQ&J;OtB
V-c%p&)?9;6IFwVg+7n9bve`w5(^-VUnQy9!t{_t_c`@wV5*<&?X8xvnH6)f+)K^#o?!QT`-`vM%n$e
JtFI0gBMg}4n?!Qa{>y_ARO}u-4AnY%f^h5D2PPyNl+W&R=nL)w<D?U3XP2j!6Y@5HAZD^XmS>#FatM
D}#Y%mOYLx{3?(%q`LCY>0by)mF#a*vV0OjF61gmx7)2Bvj#lb%qqJO_NrzO!1MAl7=98I(ug(eQ6pg
|BEF};RO6oyI5=@V)?>594?m5f0zt~x?nj4>y}k-K2_H8n?Y_ulgXVhR~M+c}Ia)RG_0FTX!NPfn+Ak
KdiolG)i$)5~|Wrf_PgeLMlQGL9WP^Jj-Rou3oP3ot=w(Kc{f#$;$8!wHQN&>7vcp8~Jh?{$s`LP*Gv
451juW8V*)L*-14t7=*<^OBKQ@wf55JyUV4R5uv5QVN+{depSt0fxWVOe)=_T5@9hruYpa6ds$;q^uc
ve)!ebeN1u1Q;uCV3xNL}Sc3^RU}2ZgYv<^h<51V*j%Hib|7?r!UFg5*!T+P36~Ehwtre6>+BSer=GY
)Low1v9??lifcSpVHW4S)19;CXz6^wbEEq}P*$_g5uXcs6#G&zg;&vnB_Lbt#Q_t<<Zk?ZH#Red>+Y=
r)=cuaqa)oJtGnbK<5J%$rHyMTF}k)6{+GxP_abe8AXKJ!nI_JnDm^Q2FC#ewdJW{IzhUhgyt)ivrb4
^g+H%W6n?1D+6`@|t?)KTP03brRGhUbF15vj}6_<TDGCuyylj&14vy(4w#hlLWmDrNg8Wjr57I**wX2
9{hq$%~`=W|Brg3C3y*^6ma-!ni}T12j9RZ_O`<&5j+=XR8igj3&rl5-`}Qp!jK83(1b4*-R^j-ct*F
;h<r!99=eYpZ*hneci$J|L)5R;hvptbXL0NlZs4$n5=3(b`IV7B_WvBkrYWnN3y}Bbpvf&6_DL0t>UK
6pdf!_K!*hZhj$*u_qAKz>G3p1--pxudBRChohiu~#O|4sX0pG@2f&&OloXdkcU(~=WOYr-y;MXSG<T
I1)({&U6+LY3dQ=dq|C7~dif7)6I%Al?`LAi%dT-}Dcqg`Qg)IU7;^FRpJ{`aUc1GdyE#)MAb^Sq=26
c2DZnu(h2Kv8e6JNdUkgcTs=j%@K4Q)`_}uV=}{<;9fzqsPiLJ9gyC+(aMU=<J;DnLbMF-dz~ka&rTL
Uu;{k*7sh=g~EGKND$GelOFK*l;h)Xc;e;Pm5!C<HY9&LCJPAa=vsIurf;iO3?8uhrsOu|>oqU+Og&U
W%-#_jG&dbZ7K|#q>C(3nNLH{lzc($pHT?}p%mv>_eMJU(g_EdYD4(8i{q}?$eDms?M_K5qUDxA~;g;
b3^*ja<_vDKHlW+FyP1jzIb-mns{p}kqbO!l1FJwF#J_4l9t!{5lXtD4fH$uyecLM}?yXWqSDeRR;yX
qJZnb*_5zdO60o_^E~fZJm=nnkK@q7KkuW#O*)f1-Dc;2mjY4qeKmJCo$zmG`?(6CibGM9=TfdgL@RV
2#&2{l8WG3s6e~1QY-O00;o{l@>=wyhb?lAOHYwb^ri30001RX>c!Jc4cm4Z*nhkWpQ<7b98eraA9L>
VP|D?FLiQkY-wUMFJo_RZe?S1X>V?DZ*OcaaCzlD`H$PynZM6pLCnCA<jNc$-J}?-Qn<F07`0>9M}tK
YNF4D=!!<=}`KTGIi`~C{zw6!9Sd+9xfgJ>nM85NT-+eq)n{C_mnd-WxJ*oIh-LBVFvo>G#UYn0MMc2
R^eR8tu+D)e0<tNo=l^vt)vO;I?>G2EvI?eiOquO2Xo`2v6c654pa?*GEi!3|K-tPOWw#lBHWbj9`{M
SzHl$qpJwQB!@52o3R&9>i9vu}5GeWE@u)wa)GQX`uA!VU13BL=|6(t?}AdgrvBy69JJw|StqYFVwS<
wf>m)s*cG0D+;9^W;_AXfwo^#(P$`T9t3xwq{t+!?#`Ax69xWts`poeXILtS4Fc{rT6qzyDV^`zZUgQ
dCy-LpWi8fU^vfb|NA>tlmdG1>HGJuyl?6ImyK4-U8mkDI0fDR$mc&jnaI|+#qv|JRyx<Zo^OhNc{RU
+l{dx40{ofkdW2ii^NORMrkSoj%bR7}G-`?448e&X=a>7rUS6q<;`Ke>Z8rO7wu8X#!-u!tGy4ACfAC
k;!HQHFzp%Yum=m35e=4-HP|93m-iv`l$M7)=7I3{*fXk(}ZS)p!!~zB<dMD2eD((8J9soe4=kDRW?A
q;Cm425FPv6ZBU;MX*2Iak>K(EEFtIgZB>gfyty+3z|fY}TWC*QQ!aL)Yb<OFyGJQq%pL!VdhQFY__9
M66}pPZb`pQ}}|t9xkIUj8SneGCsz&VZx<)#Z^sS=NQt9$fL|m|sqqhEGpV>Hl~V88=@cqp9o6gVYxK
>1n2S%PXK=>Tp4gFBW--5IDmkE1EKF@IGph+sWwzV;$_}hqh7lg!sg>TEjETRJd)aR@r=BHB~>KkF}~
-(+nXxB@~|F0J1gWI;*T{durew;$K%(u;G;C$EQEE)I1ZGq{{qsa$@_QWmkQ_t*gtdY?W?Cz|gBtfOW
vWuT+!Wz{h4;?@E<jb_FtDph3X2?e$k#QI>$ET4_5Nu0E&9W;AE6`>xuKM?d{CnuLuAd1kal9}3W3fZ
**J&~?`}+321g<Dj#9oxtW^HyLI3vT?uPD(;jUjG6|(x%JO3dg_)o@fW3<UL9T*J`Gxb_6`!5{Tx@vp
RS8q9$k9l(4<S`{^N;vEbn;uZ;KkvwQpg%2Ykjwvxn{Xu&S!4Gbc{sg;7tpGMT~6YbXW(Nca$uAZ4i1
qZLiaUsk%ftYINnikjqu!)$>-kZQ9JR~6ui&idjLAQ7<+M6-+Y^Q(2fC83?S-THjVpU+oSt<JwLip%2
b$B)$I^5OZb>hheWJ+wcoAOG9qllf&04}gQrNdZAp(yAZ-MBnlkPrrNm@`q_A-+p}a@zwJ`y?XQP&%Y
oeVNQ^e_Bi}HjhJ!7R6bmFAQ&I$Vx?kkLR<!DmGPdzez7gOViOT7%Ia(fqMmy62q;{Z$JDa1%GY^z3c
D?8?0h<z5@?}M)%2|$%5Ws1;D~cA!c`zzyH&hJ`uoBvkoDjp0z@i6T|hX*!#_N<t8rWjR&}@4AY)j1>
v>kdVl;5=@_k?QJN>F^2<tBubG8yWA0nTo*TAIU{jxxQ1x;W~e>tFy6&b9!Drr;akMf5Z?DA3m$nXAJ
V2Xcvj;vT+1bp~SQ}45zw);eEQq<GOITHkJT>&#es8;Ky?PzwZ#fBgfIqZgKjo9kQ74jay!jdJNDnOQ
ju324I<*x9hoy-o<vO@vPifmQ4MUQ|104Na0Q(*ZO45E?ABdpC#j3SCLM3fiDU{Sh)L}&oC%~ECU%EA
!z1OVX^RvJW)SjZ&n3KWEF-|n&vfWZ#7f`fUmh9hs73H2RH|7!r5QJQ2?I?tZ25R|wuXb1?kTlTP)t3
rF*1n$GgF=Zr&|BCvi*dvA<SRbns;aO~o&${}Xa%b_wZgUBf!)AR>2?(o;YvhsuSb#U7uR=1*v)8aqe
9>f&a24=ywW~b}$~K_=R6TJR*t@R!9f@+-=*v~MSP=7DEU>RuM2Rb8@Y4`}{%US2;ODS{B@Efake6_j
0Ifa0Ks5qh;(AM9Tub8Z`_Z)up+}1kU_lFUkbuR>dOmb$Cp9gth_|{}2;^YlLrWtLRP>H=>3H+(N7Ox
Fq*bR>D2rg^;<~76ltxoNd=y(eAg;`gwF3cJ!-yWE2HfCXb*fec9gC4vg`5Zg9&{bGT0s{?d{4H4WwP
AWMR)L|P-TMkA=^Y{ia>l*Fx!OD!;>QT2y}uiZUL`Ihk{<)PF*A41yXHG)SW}Yf(z)hCtLUd_B2}C4J
?!dyU-74y}PCcwJmD_c%2!80E;x~c!c^43~*WX^*)>xt%pi^vyugYTUb@=T}PlWJHFhb?m>DzEyOGW@
tx?AbqRm?`4(+aPf`*2X7n`s`0f>GX;<y8E)4<`3YAp{;H$wtM?M5wLS0TJOx+N?12@f2*6-`00SmKR
oDQsJo<RC3Oi2S2-JZ9`3zUYpFVdrWx7gpX$e-`u$HwzdH{JrvvZD3XPVDe0(^}wsm@OcQ>8o2Nk0s#
r2&l#;(!z=deaKK6p}-xnC&cz+dnsJNu}0HWbc`A4!2|Yy2$GpF{`~oiZ=ZgA^<n<u<?9!3K7N=Q;+#
F2GG{qBk{r5BEA+wN(#DKY(l$h|LtX6gdfI!ax8?_7G4aUM*KCs>yadlOB)f!Rh?+KiaBsyBt+YAWvA
}a`JO-1{KsCz5%)HOhESQrLV){;k@dc2`oe?mRy(=$g%zn)2May@S%BS$P8$>=u-AS>Z@n>Vej|D9vg
O)G^+OiCah9TB4lhYn}XAr=)u@69@`S1Vnt@UqF(4p94N9S&v>6Z14vIPNw4w>;JLuXL$2}R^iAXjQP
IqGzCWW(&EvAYVPY@v{EcRd*df$QMIl|r+zL(!&zv$3WKNQNsRvr%2{$mx@9cik3jOr3|@Z+4rxFZ^c
N!?b~w8p&Is3wR-)0t9jZ4tI5yy=cgq{h?UbYJ@7`y6u38Z)gM918`xAOtQFc!HU?D=L1+}vEG0<CJ~
oML;gti2-3u-roA!d3NTwzNzqw?B0z+p_`+MZ+^2YkH@1JLwspb!STsjnp>3HQknBANJxnGTk9dZ;%r
Kf}KmFo6H5zq8aF3lDzBMl%h$0dZiA6Njckpn3H_IN`7InMMt7g@XPr>5r2xDMTY-4yT+xT8NxybJ6)
9hZ#7{^1?Or1w(;$bVcFti*<7<MXoULX=7))jP&C&`EspXV5HI5&Lph;c+>d7O6&%-=s_$92TZgU`Kl
MSrY4R~t`>y@>uveFu101lHn@6{(AI_=!UZQCmC%RulKk;+H5G4(sgfN=0^bv0$c2Ce30&!gaAAogU_
OjEa!YpI*!2tYLzGhm2<YdoN}((DO}Ep+dH5S=~jf0~U&FLN^1(vHXs)hU1)Vc^HOS7<wm(fj$#_jpK
&n4eT4Oro{m&5}dV8WWu#B;$}W#6RSoMzzU0#Ob!)NQ7hrFr#)aC*of>mrtq2*f+B+lT+UJ4N)Ye#t@
I+dW9V|0`3QpHRt(RMOw4e?5b`|Vao%2DREM4tz-W+o)n>QJ$N)nOFqZ4-k)tIzUf1mn@6~UIUM2+Qn
=9b)bv=cDM;MJ@^}8Uh=b<;Ezb|87uAJurZ9@$*08K*IWtzc$K*j^~0J+y7LCQ+YYu`!7z6#pvV2Egp
k0J%Yap`v;>U(0-(%f5tFldkQCK#G{xMfLztOXz*%{|RV#jbBbXsHGy)}u)_1BsvF!I@{Zv#>5h2!b|
bP5sTTXYa>;U>xJ+oA*2DUW4X@&=EOooi`w7Ds+&bN`+S4z(BAEBzbaK?&-vd8=&qnNt*j)J;cvZ>my
J)G40E4P{n*6ADx=dKi=*_-kx0+h$rZ+b&mX)g<|s%=AKiSonzJ`xZHIeA|v@L5OfsRDIAB6!F~aT=o
N54yR!vu);=}jYY_?*pR*P<`dvWP+#xNA_s^3J%y3N5Vp(*hM+28?iH>GewvY>{lKB9#0CKa%ByC4PF
$79z6PWKLsf-Ip4E{?Bn04%3I=Bg5q{zBx57uoru#sUgk%)v)ZD-Q*OxO@31@TZTzE<5Hm<`Z4tg(cd
_fs${8kK)RRzzxQA~y1bA;tq@T17kz5xMcBsB2QBf$=n<m_QzZGBjaZl72Ey$nVs{XR}JiCV?{oAYpF
FFdnn>*tIt{uNnC<oWcO<P5Fp{t>iJ2P9?nMpN<bugadfnk<8#3$S1(3u3BGN6{xUob%4PJOwMUmSg*
QC*wMy=d|S}Zu4)VB3y==mvBRr61EgRy189^jag#{z_w2-Id}I-#!-Pt1xb5tFRc~n{APmIi&zO!<<M
s%JzdO|HOu$8FCQBjlMVLsi)BbC~`*G;dINn(zBgTW7*9wR@rk0OrX-Y(Er#U3kpObsVdASkNh=@QNp
bszG%@%Cg%c`#W{WKcShA%Lcqs(eRfNp4wU-ahCsgddyotx^qX$B`?PY^MB7uhK<S&~Y+*s|XN7Vjla
0A2nl)(S_){k$cVD+mtjYD^D-77*l_#m7Ly#>r5!d|LS_zNE#J8A2f&cjf^q+xPSY^`dZpKD&6YIHq1
)0+jJU(7%A+U;`Y{4g!SPOBYl`A$C=G@tQM=KS|;lfoX|3R;ae15b3YF_9lqy5m0^DfYL<D7y)KPk@O
L(MDRJM@3@>e5dY5x+B4eLw$-{qi_-6`d7BMo5WauKTjUTLs&u|f1yNkHzt%#g1@2fiMV+HNr%~)EFI
(2Yjq=d0d{!oT4VSyM_A?tQt#|6t!^dAg_5nPyn;ud8mSH_XTpg7ahYOG@YXznOL1hv&^phSR=U@HP;
7&BWDLyIVi}M)!G~19%Ii%&8VU>q$v-|f&`8Gp_{_Q}GRUIZ(deW*z&jf|5GG^hv0wp@CmwVFgyg1&G
N^hVy^C%5Pw_&g(mF!4A#H|5*#6Q`ei`Y}7J{aUs)SlEvio~Mm#*|7k4;^F>%fvrV!pm-iOW4O9g{G4
5{;eL8K#)!cWBoylKh|?xynl~yw!!|}os8B&Oddw37Yil>LKp{0pgveRHP9i~=#?~9vL|~<8B5{{)Ft
xx1)g$XEO1zqyrn+(o#dx*u=K{~HEyfJYJH^kk!lrd)8jy>g=wi1WQ~dT@OJ;08Hi?HM=3O6HtXB{6V
s$38&3!5Jm8m(q&_gPnIbMROQrtIhwCI|Y(6llsbNGDN&wK-l)rD@Oby2u{scJejbRYhQrt^a6Ll-2A
+N)vG-Q#>YYM11%E&`xFe?ez;2?YRH$ncC!89A3aU4zQxe1DLK8$|;D}Sb^+imuuSyz&lfH_mBH^2eo
*yy?llz_-1gKb9BEb<`p$W9x1lG$WE=0vP|hzdjgRaO@%sf<!ffxx5TFpYql7Ns+l=oq#wvb)aZvh3-
=K{KvEVG>3Y4JXlcgS17IU1puRs8w-GOy|LM$9~{5)<I1NS|qT&-G<^^u-gM8vl9Wg6AveR&A9F;MLG
MM>RO8pVxa*dlA+`YhuDP{qQs!b?0{}CD4OrAF!=K){=Hyvz*r7M+tVczX(3YO<aZRqfst%&16}6DB%
GKGBsMfrXm^|s7&!?J&Ju1YpxLFWu9cjIB<PcFK$NPwYtKeX*mqR4@;Lu`%1JW2)k<}E%7A~8W5;9bW
WA25$m|^XM2MJ2V>{jq{UQ-ySU`N(Z#_4^Qz!|u+q#TQy<=y-lOUS<r9VSb>FzS*FeWB41eoG5PrODK
JJLAtKu2o0`?+~Fi+SXnU+V@F*nwG&DDCu*UeY@{q$n6ZKK=Rhp3dmMpHKP!NJOFZ@Ta>&DtmHBIp@3
nrXgz8toy4;5_yap#;NAFM3(<f>E>tIb7@yBmzdJ#IoE6>z~(u7+me(HejK{t6RHKt0uvx54f7~0Sdl
5b$lHLQ75@g^d;Vyln-BjEN6SoL={b2=E%YlrNA;h|a-8*d=p;<!2;s&C)dH1yPBbk*buxLb)~sM(Kk
JEsBIFrF!{-Ilz|gE&YfPFOkIqNKo-gv~`ug*m=Wi}BsZDYw3b1u{TZ%TI>~wMgS9iImk}?vllr(9^k
zz0}J&I|WVTDlg=lrOZO@g$U8+J-^o^_Q*{hhN_IVK(^QQ9mNii<RC;fJaCbd;_f#ucp*I`K!}^(UEE
;jlcwZ6gd$I2eK&r(mK;9A{gYmtQEG0bpVnPY^I*ZkKIo^55=~IoByppqz1@F?u>-uNKwi@t55Xh@VD
C*oi3}m@F!JbpO8LYlr<3aq5Iq1&GVgxfs_)6J*ajkF4*J!tgQBR;{j8&1ubuXrcjH=LcmAf%1$&WMe
k6*Kdz3)p0UZQi>ZmjlQUAJy^Nm1BVjS(F55wlt|lSV$>Eh7P<-})soUn8wL~yy?bd*D`<6Hm7zHgD!
MJ13v&+_w(`zI{$y*z<rV&*3;(DVY--?oL0x9~t&wCY@C~#V^xQ(%7W4!3GJws%EPCOG1Wm3s8h^)hM
F<<dK=W7Vv(PQ5%f%l4Pr*Fcv6ps;Z~-laPV|5yK6OqpkV69YvB{jm*g*BW7azc0fAb#y#Y|S!FY`$<
EYe{(=<}j42%S_@a*DRKI;eFvmLz#%fM|-vmJ&|trJ7@2b6Ru-yaMcDtRjt_QX9rWi(iuz7)dHNE!-t
zqYbyyeQR5q4LPL4P|1U*Ycw2#QC_YdAn`wVjW!@d4IRhK5QwDxY<Vv0fcFOZ!@+vWjWivMQx`DRr1x
<hUt8N+anm^6bCPn8f6pZ0p0%XL7NnS@R?J?+j1*%@N`h15PBbL?zXLf=L817<Gnh}pGe<pSu|P0^+C
Zg>XvuT^1$zBDF`Ei&*yP;l3rlgu$~moL;in%ARSE^ekr%P7&=#W7H86R!2cJCM1INtJscOJ!H{&sR4
k>V8af645vLsTmvDBt%rNqL{Y=RLq85{epM2UHqClNX(X>sOkB{u<eU(OI<zoPL^V2T`7&4t$Z1{f2v
@_L_VPix)UY6$|1L67i$0CYnc$*U6#x38QzY|<Boa`X@q7MYJY?<p6tIwy2LL>s(<ix_sIChUL}0H5N
3*cHI4cB|IFGPxjd*_Hs-Cl4P@;h)FhKA${%f=|E3fBrDZvlm!tXE(lV0nx=_%4-*^1c7PN%KhO8K*q
o^!(g&;n{F;va*|D&{J|*?i;@f2Tqh-HctWJEw_f^*tHBA^g++9dTZZlv9*`YJ@%<7~pe2WcB<>d%;v
Y&>J0p3_SYmN1JUjVVt{`u!)(x$5fb|UqQn2RCRI^Ws(7UQsIuOXAR~0BCNni9lznfz3*F=t8XlC+T0
wC#jeC0FUlX5W_lb9m4b!=6Nipxnun6bffA5SV|Ka?1QJ6|mP8G${Uh?7Zqjq@qFup>qcFTcuV@}h1d
N&=3Lx^C4D<mCD)Te4@tA)5##c7s>d$0_kNM3gEO?m5Y?;i^U_bU1UEL=osp$f6m=W$aL06v0*SX<)H
EYbHn^+R&37*=QDM2?nDisw0u>#OeQ{Pyy6YrH47lK;%xba^+7s(q=UwU;htSHiJz}gJlsR$70dt{*j
C)fEH~NZU`D#Sx%WKcLBVoHB}skWzyt8WJEwPlQXo)U>!v;8%>FqPZk68^mAaRh1hkt1WwXq`Vh~>7I
Bdw(N+AbS2)c@TwjYrUJj%64OT9>S|2u{`Ri?!RU$>ET<VlMOoBovS|A*U>tzjRCv1dC&ipE<xcJIp$
e{`>uf;4o_7sCe4)Q+H{W0FuvCy-A6IyNH-U=OCw5maY<!3>p+a1iuJ<DFJZmnD%uT{^v$lqjzR4myj
"%text.

(** Lines 15315 to 15464. *)
Definition DATA_101 : text := "V}wjlq`7vxk8(}SsbkrwEBDFpDhW)~p|x_&78#5gI<k~J$J7&_7o5Q!R<#(pC|mdFdqSa2Tw%Kp@(De
!4SI37(DD#UnmytuQL?sqwcBF!d7M_S1xNcDY_RN;QrjqWb_wbd@udP5hGf|zU+5~5D0qzlsvg0$UOX
NdP@wE<Nsjv1&`5aU4GS(WN44vc(@fmDXQm$VfCq=l>p~mh&gldmZn@UPa*g}R7tWKDq~l%l4Cur)<y
P~_1hpZA#1)sNQ(Vl@)h!X<aOhP!dg{vNt%hl!oTU&Qz-v@ieHViWA#)*7lF}0%$3Q@erw;Oz(hQ|L#
6qHzpLvJyYlb1mC;sCcpDF1uY(RkCC{zd5t>noLt3XKqi^U3a*6RI*u@j@gd>ET(mr)O>SdmF892wXg
TCX=4Hw%X|m8Fy}fyS}7I>|NU5*LZ6mF*6Q`++ox1_RSMGR3VR5#;sszqu`7ab<5F%=k(&!Hbdh6hG8
X&^L#ffj1pyk#~YqgHub<`Jm7r$9VTEFagPac89_x|IeM!EP&Ln7%KE}$KV`FGRD6T!{rLYIqs=O%!4
?sFV#gU^Nn)V$JNH%K@k^{3=C70*!`%`*%{>_P*MZ>sRx+-;aal{Z&ahb9V~JjDt8-4cLPQj9S)~uai
BCNOkfU0WR*#w5(T3$<qk<VCbb*#QFs%xLyC)N8uhuiOoB6bpdkoc^jH=t6DS&XZY9Gd=_$if;$Tgfc
^TI|x<fHQ9IF({=3R2!=&ZJHt?Gd#>nQR4vyppOD4Qc@q+PL8h~)q9O{VA*T(=qDI~iP}>YVKdG3(%p
DWr}yFtMDG<TUMPH<9Z^=zm}&asraCyUfa6XVRDm)0`^A`Fr`Vhh3_oxCH+=#{?wDp-TY>)-a~K3Uxe
s#)W_;Kb8;!-sYek#d$S#GV?e%l;FT7lY?`+>t11c2Y!&y9aiA*%m)lW<JqPHG%O?tlS+s@XLRex-Q~
|5Hn#jk1TfQkjbVa06^2fJdi+aLP)5tpHK_mNM6Udqi~_t&(zsE$xWlDCqD~>zTOnSsX73%jQG8+?IP
7xbHM~vK9hO~k<D9awous~SU@-N0Tj5P^<ioPpZYc49c-h%&)jNvdi<t(7OA6kFb}Y%Hv?40EsSAy?Z
E+~1ut2uB&x&<Xg(BLoo;xM40?t3ahZIEBVcy~n7fYXBb}eS$gM1y`>qe$V*!d+){m*2u9+CEBvIvs=
fvLM`$&B|!RCex<*u(JUzL5nm4YLURFUPFI%Qo=8#90TvJ^g(cx%lIW8;zgLYq|TC7=Z*Q*wHQ;65>z
N+GDOnH___>$_g^e(4+9=;ggic#5Fz3M&G^oFba7<VvO@Xj$~tI1y=p_8QNgBV-V0vXLeT&<(zETHuK
@Al3i<}5XlY@al?E#^XC`R^Uz3B_jLB)8$%efyXXY&Kpjcnm{x{2BUv}M_zMU7B?&mkQPppyq+dlnHq
GtE7HYGY@vgNLybj4hFj3DzIsw<7Q!fi}rhz#I4`&f!9Q4xu{jfWhv%~22EiIh4Yj`kax*dyE13dTtD
IO&R?p-S!T?jr-vtFXRgx_O|B4$9{a_{(*5(#K{34Ku9RotT$r<GK-(Iya?FE(v?vCz6+WbkPxmt?Yh
w^JRs(taTUsnTdI_m@R;A2Xscw`}PwJ;4Akd*IOJ==R#*FHTMO|4ND7Vj(yH`rTS}ThM>{h1@)7-<h8
dSn&1iiv>PF_kjdQ+pgpc4zvEaxcud6a4_g9LCHq?Rw7vOQUsT4i++&B;*;9Xu|fr1Z;Qo}7ae>Bqgu
<?VvbKVuUK}2zl9)~-uRsE4+XPyCwCru=NSZFDd_`?>HG_fqX-toqH%n5dCfUTmV$b_?YaX>j<s8_)Q
FroMME{Te$mr`iyQUfn;X4DKKkm$lwgCq9Pe^<V>*<7m*YSD>PCYe(#hh7{~ZzJP=A9m=1NP4EQfkT2
rV5`dOGH^N&9vnhwtDKnu|B>G1=od&f1jwsuKNPARa^hxIx{nY;zKJ=6nEI&Bw5TJu$3zF`oyT;31kO
_&I7K$A~TDW7xnuSd3%1Z(+0OaG`1RWU#q+>aK_PaNzci<E|8W%dLrz0DE)Xd_mUyG3>~WMYjxq?sQp
KnnfAk$%IVMhOYQFYJVxdy5{*`SdbqOHj!?|HDG9516;<IVgvlR4a*!+hZyt4K1BE-3f<br@PYuPZtD
^Af*~9_qQB2I4&c?mg<la$M_4|1@zvd~k?}F{g~J@i8b4vP=rEz(Uf*ECS|(Ct2cgTo@Rx1mvQ$dG!c
>9_;YQX2IMUh6w-?Cm4pk<(BER3+rvnAuz1%!zs_ER5*a19nJ>S5uO&z!!BAsaN&E(S%`u60A$iJ8U`
z#wjo@QT7v)@m`OpNeq>~Pm#<-b2rOX%hu50{YGeJAm!FLa#_EGx?LFro9{9;M%K7png&5uw&QG{|qd
6!rb!t*9yS-n-MSsD3d~sJ)px=)$MKgQH*38cM&h5t`Fy^b;MP1D&_>@!cy+kI3p#&Aj#6#ZxwBO!~r
bq>Zl!n#&Im+5N`vrS{3<O@RJ`nG(^>An7z576>LgG$FNgzk7s#ewIc6ZoZn<n@^NvZ`^;i>uF=Q9%h
5Y?&*J}d(89>nErUcmS@tL4Bx!rv3&BhSX?Km<BBkLRFGjth(o$DJ>GT)Ls-4MAu!Nyf?>8rwxDYEMR
1x!oX?w#URQd4E!t94|0=)YND+Z?dS$@qV`DlBaeGHWd24hac{WPBVumK(wdci<V}l#;tZmkK<yU!KQ
B>x=QWrymksW$*e(v%&ixR+Gwo6SnGO6YqFEP{oIsHl@R$5*4n|d@!QGfV{4DolQsJz*p+nf?ZV8XH7
`C&^14Pt#qCAEdkJR~8~ICn_o@CklKrviJy`!y+d=c&E|!e2^myBxh_3DJ+;WG0&@EaWtGqBNR>-mnN
uXvoxa9kssjH#=Yy@0TYobz6g;LQEdn1jT)^SO!x9&F_-9<>mZiROqph(%x|JpAoG7?}2E#&0{dRS29
nQ-tPg)M!iZ#JJg|F=2#(S%G{*1l6QfGKtGV@bh_Bab%ra}kMT}kd@iv3%dchp=9_N}-yg!Kkz6abZr
e3Txn;XK_ihuw&YjWZOr{$JT7X%Yh6V+XD0&uV5G9FfFH2NVcgWM}$tBjphzzJ_sKR+;95=-O0Z>Z=1
QY-O00;o{l@>=HHY}u+1pojR5dZ))0001RX>c!Jc4cm4Z*nhkWpQ<7b98eraA9L>VP|D?FLiQkY-wUM
FJ*XRWpH$9Z*FrgaCyB~U2h^c6n*DcSVYkhiKP$whBo_9O1hEKGy=ALBxdFUR%Yy}Ka!xT{q4Qi_Lvz
M67o`{Wy9FM$3FMm<2${J3-&WNz^1PmR8}ZydcCaR#<1^;#luu<r3Y#3YTRS^>H8H>KV{B9&Q?2Sx5B
Ve<*tBH-_NWtP&3}2TuUK0gZO_d-b;A)ZnQeygHlD<U)t%3{jHT|K;wpG+=qV=7+o^XDhv{%=dfnWrI
5ldmjeUEdgw=otOR5D24Zmf(CCN;*|ndO2GUMO2a)=hX3Q>4pIx#+JL*-hfvzEU8N^i$zzcSRXQ)K>R
1ig#)0Hw{Mrncu>$D6TTP{68%jJ*_?v;cgqwlLk+zkG5U~J$nvG@jeX^z39aLcy*85l-Vncx=L{4u*T
?~&;AX(n+DiNx>pI3XVL*yiqkpswEFA&K+(-3jr{xbPC&f}~k218v1xWJncTb5R&Z%9CCzbCxM7AtS2
WB99u^>UDPpj@?2d60?e=O=|;USLk0LQ#qUwn>(vYZbgPf;}Rlq#c33QCQ4e6_VZ#_!D%Qwg;m+fYHf
lURRWbJ+JJ=D3eSThTV7Ql(F{cXSqJg{q`_2ZRtMH_F-CPuUg9F;poPm;&N5yIzjadeif2#gIXRkwDl
0tTN)*EGM!iWQGAz7q2O^jYb_aajVVb}3*BMwHbJnc1`n3I{#FhM2l&)mbl`GIptx1wv01CzUN`xHpQ
PBFh;+mJf490BH&U$j9v88l`Ib*-C@#DX!;X<swjP?t>_fa<X2d27vYyuhF2qi;DxJW-0eJs~FF*$}A
C01}YH%f+;PUfJC9YupcW2B>ZhH->I*S-V~%p(k8lENRoG#X6;NBWqR#A!{azXQU-E)5$@czy3&>ML*
4DG+@cySUmzH1pf-R4v;}1@T=OJK1u%f&8>kS~Vzf-@;h$V07<nz#6Ram=3RJPTwFll5H{k=uBQcDc4
^btTuRC;GnN0RnaC|04@HAu%>^1l$e8zhD=@8+e^GHL<!2-xkWEMVJ7`PYZ6DkK%^moLOx^p=O}4%Vs
DW)#PcdVa;*q<9u7z6%AUZckY3|VWtr0^*6xJc%v+o9Y{G;WQ54ve-~d}G<a3Pj96!#0=S_Iy*MB{H{
Ou9XmB%%)h+E6p*N&&(9!IJ4jt+eYF=+l6vUhcQNJAh12Sq{Vk%4$726ApuO<I+-0`xQJwvD4>AVqC1
bA_6as%}51>tNhko^27Gc#v4vh7v2}7PPPd038<N(T%n5&f;M^$Z4JT<0q`mm6EKw&laGkWo38!4)&-
EYeV{y*AA~hkGO8Qz6nQH*ePpdh5i+Vdcg~$19ehh>yw`iTe}P1@Ssh-55C4<{^IgKx7@H5;QY)7?}E
KksBqltAG~m}Zufr<*?XN0o(aXU?+jkFqHnSv&Nkv1XOR|!tekxd{()-~;g5IJg^eb=^j3%JGolm)*R
g}c<W>~T)6fJz<+()!?Dp9k3>u8qN39*TUiAL!MY|zRPFe>*j1+5M>7ju-;cq{P1x`svtywN4=G@;hG
L~b!ca5v6f^G@_I@M}_VlIB2-cM(@ljU?a`+bHx`D7KUmCIcU6gFZ$`RVhA>E!mNbN=6C-OenjasB6b
b!yE4D-t`o`en26;#r@Lex@q|^jei9EE5+p|1ROLjZkA9qPmrSHbh6Pu@11i@Jjv^ZzLzt9PrfuN5ac
MEVwQa&v)2$mE=wzfHHoOw<=#k&cu!ym9~OVNN=3&q2LyCUVZ?PUUpC{;l)SEwb(cvBq)M;^JmmLU!h
kj?`#pG>&Uf2?-e#nPCh|CXf@(P)=|E3&HggLb7o;RNmS{a%uA7c@qs0Y`{CA$%YRTy0|XQR000O8^O
Y7y^G0R)1qT2C$rb<rF8}}laA|NaUv_0~WN&gWa%FLKWpi|MFK}UFYhh<)b1!vrY;0*_GcRUoWo%?~E
^v9RSZ#0HHW2>qUqN^XByWzoCjC&j5U`+2w*YHb^yR~l1U4;E4jV~SMJkOqY`=YXBqfoOoOH$XB@xAY
?(N~-(Y&Zctq3b9&!a~1T+X;zDtN)vzG8AV%W6@OsG`X&-7!h*2FdSdvsubAvTK->>qL}_m1>PbVa9V
-(t<4sY@ki9;(%6F&J(J*D4&Q#F?B3e&1exURx<+6d_LEIe?c^&ZWx)rG?2$10CG-5MkqnxXr?!=Dq7
Qmw5kjWJ|94~T_s8w`wk#Bl9xNODnz>4bS`fqSAq4Q$G^x(DTY`HEy<P{T`cYVM*SQ6zlCib<=KSoHB
(Jp_R)__aJ`@|E`PixqHa~p9JzMMBqkGeLDl+((UjF|?M-O1a!2!q4Fdlw%PUrstSJ*r5?XEm2rX0cx
e<y%0x(`VBL<UbOr}_EbMltfiYHA@>wFKfWm%IW$Y{GHUv7AE1Agvq6hZ1xUTTC=l*ec9UtU}o8|9MZ
{MO`?pzSh({BjAXc`m+4^6u43a&mI|bV;bx0J7NuOBGAWc5l9(K7UT$Gvm~==$TKSF?BR;fEq}c&fq1
wu4*I;yRQHY@F75uabv6~^S#F!ZM_eymnM*_THNsz0I38mP016HGOKMwnNnar_8|n1mlhHuY~F+U)zw
vfRknx9P(vaSV-g(6czz`30XZTb54x?Y-uH67Y{W`5DGaDgI1l>$>^@<YA|H*(=X%$9U5naBsi>5_Of
K0_iRP}+<@yOFCVKnF>57o=$lJZTf&88HqQ>{w{OwF^RCfH_n%M4e%A4J{uCoML6Y4EXGARb}`aV9A)
8Vp4>lHX|Ne(`eckDAzR=wgZPeZZ&1UwlWvNMuWMO((>af95|MvQDlx_8dV*Ao@aLyM82ZohtkLSGP9
o)|AtrMG)rlFmvZDm*+i@5`!X@nNmz#LH=zlqc#~pKB8&gtG#8s(8s2r@1L1Izmd9^iD?`O)PTjHEv(
8L&@@NNo>~v50{;_@f%UXqSc_^ob!Ql(OP>IYw^LC&gZxT^mpit##*QUp>-)HfBoHk;n_Gg6A~Dr(7r
AV5q{Dn18&@iv~wSu^IA1k&SaS6a%sXeuJUf!3=vlvZngQRsq>s~Pa`cUBbUS*lF>wodav~mk*CnL_f
U$p#xYm%dEZnxAV?%R6tM;hFSgjP(*{~Ppbj1Bam)6WvZgRfa`xtDy^2ZE=0xCB_d?)I^yzR15>1WQ7
q8C=cGZP-<;xALndVvd2_ag_Mjg~Epd-7d1qiKHGcScfCPc6z!Isv+a`1)TGPD6chqz78G3s6gP<!m;
B+*U#DOe2TVN%LFdBAt%Ma9an->`__-!xnd5zwR5f%sEHY<by1*tHG;OydQNd`~`AY&Wt98a2ez0(w6
5Ukn)`7Jc+^!8CF`R<wDMq-d}LvbO(4ldOfq!(jrEik1m$i?>eT!aq&05rEB(1&L#F>VL;)$O(6XZTp
HRG;UpEm`Oo=2IvnA%}#$EDRhbvma*9b8b;qe^PKTOA3!r6!e=NVp;JQ!m2_;QCm$8S^K}7zoWr{cU6
W$>W#JlN+rNV|>&tu1N;|zOuf#u8+<w1fb<I<{)syPMvG$Q+7N5!Hi_iZsDLVLrX|YxC?GxiLA~wj6-
3X@RE^Xj@F(nT~{u?e4PP9MvHwJGD-rf)bDs&>?`Uy8IjEdnI)_TPXxEP#AyQr^HL3=^_nM)AiXiq?F
+Zkop_03Pj8MJ1gCKMdh8Qwyy7T6!4<KiuhcC8It_Qu`Q`tHF&$~L!8<N4jw`3rJ;0{@)AKT#BIrZcB
4f^&I!-B&>%f#!DXnSG#2x?7fdt{B$JX}Cy7HFQoY=EY$PUN~CWQT3f*bmvV(D`+@rXyz;TfV*5Amx$
m638GJem!Y9x&sK|J*`k3D5cHkiX?_l9$z>+Y=^=V3pTpE{)6oxmFz&2j6w&LGv|ILU#Geb?_uqv1Q6
#wb;@o0lkURWQl-;2*+A*k*cI%S7qR>1R;|ypA+6=%IXGQE4rx$fmFWcqo#efNxD<)<3rQ?NXm?hH4d
Iv$@_YS-23mo9qgWesq)^*F5HW%p;3H7p}q2BM%aM1ls)oj~d+VjC)NWAW-mnMB8eQVDxS%!BQm!Yr0
2sy!L2rpD5N;><7ba(EEAZzX!M3`0zi1P_z&zHmB!Jy3dRt-5mcW-&_{qcd;>jr7uA^l@Dyq5O2+X=u
nmJfh-XLA~OGW_1*nJfm^IAx7Vfz2eqhH;EDSMZ+ze~6vpc<B%7fj!WEM;|dQ3<EqI-EKYQE%CNuN51
Y$Hv=v_kpAs@@rdy{S#B6GxsS;7b<&Y*b2$4KP)h>@6aWAK2mtey7DsFm5g<AP008L-001!n003}la4
%nWWo~3|axZdaadl;LbaO9oVPk7yXJvCQb#iQMX<{=kW@&6?aBp*TE^v93RZ(x#Fc5yvuQ&}&O;Bruh
7c;+%fyiSFeU+SfEp*cu4axMY-d|v`0bn>CvDnpY>}p=zVGh7yZd|*b)$`gQdd~oBv~0<L)(f9L}&2t
@4925`@@TkL%X<+aMtkhmfxW5%~m|@Sr{Gl)*{+g0%bM$e8oR4TKCx>Cds`K4h@_~UQB9z+cxQ>b*tH
jN%rIHSCS+ZuAp3NZE;!XR#n_=(rlgpJtrq8;s14O0PBJqZmm!^ax=4(Pa+s>BrmZ><zS@^)S^bGwX|
$6A{)gs=vt$?rlc8L<3r@(=`KS>OI`fN(%H1DZ;#M|aNHs2J1Vb3uq0T%wT*9t1u3ipy@K?13U?W}mi
SuWs)9;T+-Z3AAWNv=Ixi*FH_!jJMoLkf#n!Ujp5`%4Pec%BYKe7Rl^D5BLx#vWfM^0VIp(XQzj`PtA
W&KyV?Azw1dH!&H~^tQ?4S?RPe&TqVd0-mh!JqZ`8fX;wHt<ctu4DArmus4b}+I>X2lp(*cdEnVAXsM
Z`u3gKSTV!M&MN?oY2b8@L7|An%~ld-C9^!wW{>aA(}3%mgtbdf;xqqTGU#Exd+YjL&@b+xL=EM9c5~
tFAj(iUZ_R(a!JJ-l*Wi&AO6kD<EYZ2j-GHE^cJRy%CC%N-AX4KZrqZfb;TVY2=zDn{EJq&H}cEi4Lq
=>F%Zm`pXZ%(p3?wmkI<|Th7@mnikZ&=SBtAlPp;-JwsKAgUPqGKHhdbzkE@W1+BO_F)91}D8)xdv+v
ZxVKxx{_4VHoekcx=Dq9P3qQg1!rUPuWA!VRh*@T#kJ2o#0)=&sDidMI?Yp`{Q%7HQUtWXMN)_cPcs9
W3XEi~ZO>`OnhrNwDxaNsDwco1NO9=BJv#DWrYutQVPox-U=a-LmKxVlsoOqI7GzhG=Y>WrItY{CP)<
`5(z6YtGxIMBMEyw-~@W6CfGDE4ZL9=RG&1ic;4NccKtdxXsg{{S9*X;FfOF;9im=g@t5Ktka#|b<m?
-orH!)<6*mJv&S1=YUSt)9O%XdOpaWukJ~$YYJH?3&}cb?+&Ad%xNI@arlau5KTt~p1QY-O00;o{l@>
=^s&pGR3jhGVBme+30001RX>c!Jc4cm4Z*nhkWpQ<7b98eraA9L>VP|D?FLiQkY-wUMFK};fY;9p~VP
|D>E^v9R8f$OcIP$xH1(BkVTqx=z#qGj?3-og7wzxJelI$H0*+Qme+U7=<bRw0+SL}b^89qc(lGAOk{
t!zfXE^Vd!*_MnNK#ar4KFv7iEQ>WLLQM%d%3Mjaxx+CSvS>=v`ta)Wm?llFv2w$to>f`a>DL&R!j0u
t)4Ya)yx9GQJ{(1O|!fz3YJS=mBJpmU^y#gvHw-D)oE2q%1hRm^LbU4`gmPcg@t%~b@l1A+xY}LiCVi
17azodf3oF16Zw|ym^rFh^ND+3<rEkGMT?dxW)t#(-d`|~oq9Ep4f}7)gmgTq*AEN?yAtM1D|wNEKsp
joP#G-v`we1tXy9csnPeF)iYy~@avdROA81K8tcem5eQK)vz4u<@dxi)RbMzUYk?kxms1QszmI2uprM
GA+WgX4Nr0VvCIdIuO@yBEW_5{d`Rizsy-@_wo;w&raj%C?&GP%5bpZ)XfKmY!C@sCS58%H+`h~x!Bl
5+;C2wp&%LcP!o-{DzN;(sC`itLs(0w{^#hKXX3c+!bOB}}!I9vvO2@7G09-3hX;8bX^TmkkB68!ZZQ
w*_(tES3Vaq|B4tFjfPDxSHRPYOT<KESL}o>&%Rxz%}Z9)ut15a0Ynjj+E^#Q`@tSqw{vRWDOu3qL3B
IDQJr<8DL{%#YIk=m7)Sx3r2<P@HEDcNDGdn5QJB68C`+A+{JJ80^Y*Qyl7X9+;O=jU~8Qu64I6ha7Z
e+u(3EmWQ=V1Eh{@@?7l8|&f)&>*595yacn8pvzt3d!|T<G;|?u|I?tp<ued+~G>l3H(S?a^2R2jMo-
K5oI_dd%8XD;W*b|bLpeaM!**)FW1)I$#9mZF$UXh(P957Jdj5?LgUrdAJc+h}Y|Bs_z&aTjM(Pw5)p
KhvZQ!pTJ_cZ!{fOnJ^-;Q8Uw^cQEdBMuq!YbC>_KQj9Ch9@O6S(TUDw$qcu{FsuUUHdbv0%kIaaKKl
{w%RZGDnbvjOl;s3?OvUw1?QBa^&H1Iz$Kr4i`fp?NRgbbmNpfj5H5?z#r=hV)(i(^Lasc%M~T{jMQm
fz;ZmD`Vxa%Sz|c!1ONfQZAwLBaQfa81LUPl?rWx>ZfRkbmL48083+kY?8Nm5QwXAeLkmdC;7$!YZYY
OmTJ9l8NT7;?^SR8|Crm+ll$GpGNy?C>lL=_55;9R))uYJ<Tl}1AKc)~e?>hhOJL;06*F*es=z!3bxg
~Y(dbQ<(?3B?Ec(TEQ=CXzGwYO0NqvRl}ZUH0S(z@8W+>;q%n=L#uvPpEINB}pgX^B{N##YHYiFb3*D
<bTW0Ub+5Do9QZU#(cFGC|%7S?&1$R5g)~O337CG}7^ueXYMfcMvyswAtYK18&hB<ZEKH{@f<~z|g;j
36|=;XIS__w!rmxN&NIa8#s{04GvhxH+PAOB-2UX%q;V<(>%rw4eR-lw(y=0`BFUF)p8HYZ3qY)@(AQ
rt#(x6ibIx^Xcjw_<}kmYtM)DHj>BeIf$^=^2*AtZb-_1V=~)xx#$~H;?cMn$^B6l;W=YrJ_sV<<c3A
l?Ms-f?c<$LGipU1YPFg11YBkTbjt_|F7Y2-d-3QTmd~J+6;=46jEO37TX;zex)OA5ZxYSYsSAY->Yb
)I$AlAh~;{ljfU@Ky=Ee>V$uv}j(LLvHgj#@yfLp#(lZ&=O8N9UC~PDIUezUFL|9(mT;)yn1pOkRuD^
IC{ebNvOoA)#0e$2LU%{A?QfIuyZJ43C6RM}VrxJmV;;{3c}W5$XV?8sagukX6N$T6R?CTZr>qNUR^L
+AH2Pn!vPi-vsN>K+*t8wN!JTK;+nR7sd;&J#iQyybv(y(e#1dV9rq0Uyl&<Y-D@I1b8)se@KuAY4g(
7h_rnu$I7*3<Fkp#qe1Jin}R7DFNLQAu6W6Jyr2yRq8U~Z2TR(~ytMREnALNQZ4f4RI$B!8MIf~AEu>
*v$fnI9vU)M#a1k#-eWmkzdt2(&*NYBKfP73?E$YEG%`pmftcn_lN`=cd^+IKv>WF57Wt-{;FXRGp^Z
=tjo$-|(6Szuek@;2AGM%FiDHlXRsIaBQ0T~bb?$q4A2%~^5A)vIWgg90)%aVf4H_ugou1ctW1QaAfN
!)Y>$8E!dh=p~G@gEg)F`{}Y&~$fp&#9H{fC!A~bSbK$m6&l_h%0hSu~H+nhK8YTI22#sZDW82F35pH
Q#*0_&GvwIj8rq<We@ndxx0?A8iU|2aHxU65yk~w9{b0vQbx8R0!F5#iBzJ3+R5*REed<)vt_|71c^=
uD%GAr#e&$d0#HU^8Nh1q2-DS3FB>xGTS~!9+hpx64(wbRw(IYKk8ea`+fvXDx9B{F)l$j|lam2WXU@
ojMUM$38=Uq^QIqorNBY#N0AaB@LLQOJwpN+4VFdu*GV<%idp*9fIB~A^AmwJv83zHPJ23TcyLfX-et
L28JRz5+EBRacGJWZ@)3Gijm90Q6o;*7V`7yl@RP)&L2brni3@dpk+A$YLW+fU(j0-y#iOrcrPaLNM(
HWF#H&spqU5|t6LZW@}IL0CK0d(dm<t4OhJLp8?UZB-tnA?Yhs1!a&bMq`y&!dB>Y<Qy*slH0pff+;s
OX)~8f=B+E?Pzz`;{EIxIvft{i$ejC8~9&W@zI4dHu6}I<5%$ah&(2TjA}gj^}TQa*Lk9yn0f=`*vre
kdFkKTmfnKae#iJ<@Ee!R{amhFBAtHxF(TxLrfN5OfTxSLH7{{YiMJ=Z3s4)UAJ5OvPOq$eqZg{VvvS
ICw5Uhjz_8OHW-d5rQ=5*Cx*x}0Yz%%d7JUs}qH;_#)ddeh;_T>CWjfp00H@NFR2p4M-j$HSJOct!kO
AE%VokJUh)zMOw9Y8xPa~+rOrCieRB1{APpxPWy+fxEsjOdtC#O&(x5dgbtmLN%>u}K)KugJUGl>WWq
QR8Vj{a=k4lKpa7}2Z>)o-0VfARBR%K02qv=Yp>Pe@;U4HmzayiBWRGdAJWu)X=_^YD(72k#IMU(&q%
DzpR@L)mm_2s=vRNpA!@GH~ro|H0YoaFiLC{KErUKU;X2!n=7`xb_l9cNWvsV-yGcdCVgWYTaIH8#1?
|Dzm>lhjnmaGiS}$RfyfmK`OL*XnOg;YwmkZy@nWT?Ss43DM&VTK~Z>EZ1x&_T~!hvAG&|6>$XJKZ{l
d0kl%tUqH~~I=+eaoQah!1EKtTiN^hd!%EoywG`KBmBKAo44&mg>9}d~ja;~FHLAcsAyyGxLHmG`oWs
ifl##H4+qePvbx?c|hNx9j+b&mr^|6?a^!OYcYakM5q%+Dwp1IO@Zbc4p_2i)OwVR|NS!QAQ=2Ay;!p
neZD>4qX<ygJlHGpHY|{gsU2?0&gdb_uoC%nt5yockv#6Ti+?MTlL*+sgZe)F4U8N8Kd*cy$oC<pw*V
"%text.

(** Lines 15465 to 15614. *)
Definition DATA_102 : text := "fdqPB5MiM32l+3NzAc)O=*iP3k>?yGlaL(;J!-1ggAk-vLgTP^Tt{zhuW0~%$U*hugQji0f<`<Z{EB9
b!k+sPV-Gv)z@!jgPR9otNjFgFj}g)byLzAFul2T%$Qx7ha8RYL9o?_l2mr;5Rz51({eW-dOo+_P!EN
mo)_QMDbqZx0i=ZM@RV|mS*!QrY*&-}lOSC=-RX-h&TLxFFAM(>N9eRD74Ub7M5(x9o=<r~~1AX87mS
8bDC>V5quEju`3jZS|cC!VoH*;rDTy}|i?oA^81W-!@1QY-O00;o{l@>?l-NJu>2LJ$f761S+0001RX
>c!Jc4cm4Z*nhkWpQ<7b98eraA9L>VP|D?FLiQkY-wUMFLGsZb!BsOE^v9hSYL13HV}XJr#NH}vQt%k
*qZ@k2-0i`&@@5gVh>GV(GnfAkwlH6;<!cj*>^`$lw{d$iWU=sNT$g9f4{qvR@><a@LDOEL#?t*ETfX
Cii5~YsWh$eB9SQ{@u!5B8ZONGnNm^>jt&ov%-d)sGG59`HyiBRMP6rGAUnNSNtLHev(ad@Sg<TxEMN
wof)D(knpgUg>$Oa);0|9W8LKMjzZlEqXP)SZ73k>b$lOn5@yH8-yg20INfdxwz?|n5Y}S&b$#~8S4G
g9^(wfF7x-5ASLvBciP}RxWkYg20&EaYMuT}T=D3L{hjD;*pDYNK&KEFQoOV_v*11nN<d~lXd<g8%#T
t&3?(mu!0$n3vX@=>HH=#sD5qd>_?`kXz8;vN#2=du93EpdZf0Wk(;ZQ>-aJm-`rhR|j$lC?QQN1EL$
!L!slgeYqXb;X?wHzgiji3A<84egRMQ{;{>oF`GK7(``ctaxEaxh=-j7*K{0N~O3VWDll*ZqaKFA3wZ
<G1;2z{MXq$g!8kLw;{Yedv`WJn?&E_zLe?q=hz<;iDR-0{c3DeS47B1DIoRDX7ieY^|g<2Yh*7wiEw
>&g9==Kq<<&#)AIx3dy$=2S+NCtNIUKcL1@^BEQ3tS2dGPu&xT`JDp@MQG;h5}k}*x5Coh65c%u?q%0
~`*BYk+Fr;)EE)=}DtdQk{1SSG%31*kj2Q(RS3r-xaAHD{?=1b3a=1tKkqB&$=7vTHO8%HOyngu2K$r
m#e&s-Z!CfqQ}Z>WT5EG82i=**5ZNZ5}!?w`i1^q1*NNQ((g-2qC~2q8mjK-LJ0a7gz6Zg1gDcCB+IB
3xQfL7UPO%tFRGe_8!ePX_cavQ6uKe3yg02`rOiTxZy}O;DM_lP-q#VeHNkT;5FVs#o1idc&J6mrL2p
TsqKOD$Hxzw$rRu>I9XO&u|)eViV2K|_flUpkjK;U(W%2i{-j;f^l=qgTg-MSc{E_zyN=MKLV?^A5PK
kPkTg2#Sl$K0K5N-L-DfY<&k<dao?ey)@9Db4h(<8)C-5$`o0v37u`h?@%2SJDD-9~KWEG-?v}h5>R%
BeqG)rB|&^2FUO5-0xi0)J$vm1|MZjxw1q0xy@#u-Y<a`daFOvQRov#d>l6(+Qf;6g*f3akW%9br~Z#
k3N-W>je~sSw;V4wWXTpn5@2?vR2mS<*gA%oH_-lzc=0ATjMKhw>g7Hfvr07BS3H3^rQ=5!yU4XU{z)
AUyES0CXF$m^&PeV@)78<f#l7vRzL_dwuMzIcox|E=#V)lhz4h)$Bn_ne^QQ8Pi@YE3RwhHV^e0?~71
-8)o4*t|pw_{fEx>g1?QBtl}@$guL*pRQV}gc9hwLg|6klhY-IU6FNEH_6VL9?Z7jUPjpPkRh^kCzT1
Cg0{ISFnGm>6_6Ih`t>xYKDDs0>GYI|&;8ojNkL}hr6uORYs!`8wFEhFck{`n5Z+iY`Yudr6`G0&()_
A$Icl$o)YftfS0@gU*YZH`VjP78#I0=b&v5U9O;Lr?H(ZMMycEYBF@op09YE`mrCRw__5MtrdRP1R`h
~SF4v<)^7`=yC|JhnU=s{TZP<gt}ArRvSo>pd-W(C6A(?9%t%zCN3tq$!1_RFN@E_lt(XQb^se&_RVh
VwEh|GTXMz99wZW<4|Xf^})8GTI5ucrHtSl3(_N3rt{9(7M4inq49T1NZc35(-%jp_0>tO*B$Y1ur^@
@r&-LEV3u{G&Ue;S{2%!C%_GZdD&q=iS8($FttUlqNkLs>Hx|JO_#d|47}M_psf9ox5W?lf<(V<(1nf
4nmFmZV-$EoB`6Bp}>hlw$wr@He^-|JJQ8V~D$kbpZWiW+c$y6}R<6woENh0EwF>R&iNIz+6&YknkDC
=GYlRY%h6Pc%hd^$7?+_f7fSo>Hyp6sJS3a1@1UksV0C_EXr=Ba$IxCJ7|(f!TmlHc!@yO87<$Fiqw`
^K7f$8yg**nxh;yfw3;@qY-V`ApER5IGo=b5}xPqVyuHo0KLdCSAwFvZnTwzAfN1V8LT)Fizwmd1yaG
Af=^}n+hvHC)RPe;I_rZIu^&SL|~B9Xjjz)0X#Lx2EnN{!RtA?B5>8jjJci~CO8hPYNLe4o%l0hE@xA
YKEfDuy?DAsm9cqMnD#P<rkuDO^7QP-j}9!Nnk9V~Xi$D<_9xKiyF}aUH^iH!yq#2O3hkDcVVUbD{lP
AvnK4mZs*3$~pdCfKlWFS*9Oe|m3Q0*CxVIQ~U!R|Q9rC_T1D6A`ML@vV*4pVHqU|_I-ZLKpDe-JMyq
6jbhS?7rOGH<=4J@zQz(Dh@VR4JeM&^?RS<Or!Tl!uR1(VUPOuKb%C=XE#n;Nn(h&DU?k<qnIq4(=-=
%-1K$FR*l$aT=5g)gapeVrQ@ezM-UL$dU6U{B-YJLB<QYE666Jr9GVa~kI;G!7rTg~?!VvtiIhnuz#*
_u0^yjQ#^qO9KQH000080P~d=M?(S``VSHS082ms05Jdn0B~t=FJE?LZe(wAFLGsZb!BsOb1!gVV{2h
&Wpgiea%^mAVlyvtWpi+EZgXWWaCyx;{d42CmB0J1z-gx=DUlhkeV6vs^Q9ZFxA9Dq-LZX_cG8Rlk)V
W{B6T2WMg8mVy$65<NJw^ixlZ_lEs@~E`@;K{R)_f+gG+9AmC|gZ^)5*ZDN4<FO<xPSIuk#oVyD?1Ex
J{zQiHc}nf>~A@3XAVa#d|vU8PS#yBD<FimIV49_YcNxp8I|CyTTy3Xy7Am9=~4o5#mb-w2)w^<JjhE
;NYw%O-@_CspYRfDo=T_Fkk_ChV7c0AlxR@6<a0A-=2h&88`zM0Pf{8|--c#Mh!uYWb7fqSi{5>xDk-
M2#e@crDDm8C%Jcs{=iou}^=wvS8AxEDb$AIkyh`8T%SwJUsk~5VG$yS{8}2sJYi<y~uZqw5V!8^6V@
vcwGZ|dBL?XRH{j}`Wx&uou3gaGLf^zLY7i57L!^O`P9e`FZ`M;a;a*)(CWah*`sPi?{UU8hbJColWA
`W><BAR?nwqnY<GZm4L4z-hr?QEuC=mg%vi~{!b3(0-Kdh;Rg)I7UD!eDwy=N@Ll2P5Sy^ei+uihbzz
1jj)jd{3Uu;qGsGQK|XEC0Aer>jLkNyF$Zlyhd#9`5$zvFWJz>8W$)*O}8Io<pA-JciVe|`7(Fb&=vV
BW{RClbSe5JnFAQxp+6ftGz&m7>+_KmJ|r{!yhqO6c1!+2^cJ?5|ZzU#}@=XM{fBwa6^Xw(!?(2%F(I
c74spYvAg5K#<RCOND*Xvo6zCJZQq4>72+ax%-G#%<ecEjp#ovY7Hy{JE*xVg-Xm8UxRtwbCuQSNDkL
>RS2dl=TXMtCTs;hLvI9Yt>SXIs<Oj!33id-6%{y$jPWvKh6@?1%JWQY@y>oDN_u^{M4rK0J5}w3(g%
2*@iYZ)iY#I5abv+5I`LsqSIk3kFZG5%eLCn381-7i20#Y`q!pM+Kzt4ipD$&#BuMb3DZnKl9w{#wpp
pVTK&%qL+zkB)2fBF15x&uOCJnyGHSv>XRSsXdCV;sDb=z0!$#U}cC#^W!alEaCs##tsfWP6-vT78m8
mbFAc7SU6oA}(dM{7<na4|A-L3@|F)0exPoWv{;1kj6u0KOCjQf1!;y0QixBa#3vvLP3k1REJSo!AG?
nb_`hje21gvw9~|nah;fx6Xl^RR;TvjW<TA1B)?Os9S)OLOuzr{v?NSW;A;|ZSk(3<ZfpbNbx-#!uDZ
<KDRx-Ko4vX(o!k8Ml-iiEl=J0?~U@wo<{E#hYc0#*jm83AYCB;&*M^R0U8yVF{y!Q;KQ>hDQp8S$uc
b(U=vEnp+x$SiB+>^yGHFGey9_62k&+OVY%8%K&mN`)TBMf^x@{?caOK<Jucqg-h6z2d;b8|^#{YuS;
xsAY3cp#`@8$wo5#h&<GaWIdbp*vR~K(*?CRnY|6Jjp-{PO&{dmNn&q$%J#{k_5@)~`^43C;_>g$Ucd
xo2!PWTZHP7R-E#lXQ(z?N!U*VF22qhX;6nwvu?1L0bPc2!l_k6oBYH=MV!7FgD(G#n28#F8}YMYYq2
TenMrg?)t<g|A?d7ee4}(_Zjq_zA1chw!0gF+8=O!pDZ~@YH<h14gbBVEhn13|S6~!W)Bl$~YevAcPO
e@<gBHyZHTqC}G*)-T>BOb<m<-ppl047lCXE2ecZVkn!G(O^&1o)0nUwE%>j`1JpBkg#UU^yzJuI)4>
424X-I+F-VP(h;bAH;#s)=8}?3tsX_~gwwzp&$&=1&eL!~wj!E&d&Ot=Z6n_;WX<rzGrrpCuA#&Z97X
)Ge5S7SN?F6En$=L1K8GoQ_JWYyfPhm=j{rjpMquWct5hC(C0dfYf4``?8evv2+uDjMGLXD<6lXVIX9
UsX~cimQaUMBE`lzcatl66Hy(PI<JNe!l3Pe!xRbn44tWEnBSr7gIKAUcLoPUeyGJ+L357Ko#Y1IviE
JvWx$+BfGHyO5{LBWowSB$@)bZIKZ@Yf1OITnTmLgbF(YkxhE$HT>#D%ow{Wkx2#WyC|xZqZ0R{dly&
Y^{}a$B16S=uQ40vDU2e&>X<e+v1~m@X6ntMd%^8vvwGwOz*_^Ayj#>Wjd)QUg1bHQLS`+P1cFOcU<^
s~J^;(W0FM76oecA48AE_JO`@!TSA1(OZLToz#K#lR;A}ap#$IM?7n|eT3Jp{QY(I%}Agds?Ci7J(?@
ni_Vpzq@AN*}}x0Mf~Uy=xHqRA@p;U8Sc-{ol#;`I@K!#-g2jLAvWB_}587hDw*>|CP?h|R9pMe?sCS
9?Dhh$M1Qf^;slwe4H^?)W=&tWutC!l1=FOIj4gsiX68h4zC?L)mOsKo1y0@^26x76nGo;PL7C9#oJ)
`jc~&ux~k-9GRn`$0)V4)3A_ltEQwZ#Tg8PGXPs1ARiKXGhZ(KV3r6m3Qv2t;5cka#?gfGEgBP%tY^%
nz9O5(PeZ`pz;S!gCIy==S3YHBgg$R}ghLyLpevP-jSA9nfte#$aa`Vj_GvL6q$+4Q8epukVUS*=aE#
6&co1bRwS30N5_Y=(aKnCkd3E8zd$4+am0Y%WE%ZeTJ?1e7*;3qLwkqhT1)qT@$Rw}*jhw0J=La#@(1
me9p`s7dug91*UJ0ciuFqIrH1);-J0e6=y&xe{PPgNzK8QRyx(XpltWOzeW}$%?7we!TCi5O*1UaC4S
o^Y7uVB@SRlv#JM_ah=>VZ=%AoQ|<Us5OVQXG>*ua-U;&@;M+vjDoAbpZz%&HgTP_8Ulku$(g*!pONq
1JtGaQYRz!n*lvDCZ>Vm3>3jD0=-rut0q4sjGzJ@vc}bW5yIy^2!z#S=t#RVwDF^0(v6n$t+x4OFLJU
;W?=Wp9Urq?aw`k2kdxN>#wrTN2pegby4Jp8Jj)~+8Q$d@U2SQO6|?{~u;Iwt<uX8SxlFte%#=ugxRB
}JRC~5<(v7KZiPm=j(ui1sg&<q+5t*T$%uel!HK7Pa${P%GHAKdu#@KkvpTNut)J1?v2qG<b+}q9I@Z
jD#xW1m#wLBWoaja~GS6jNG%8{*KdHRf7QIy=)s^CrlVR$TU_CG`<;P@##YW^&2E?~VfX>E<X$Fd?lt
3kv_byH|pQw`M?UjwE{Eu6qG<ZQn*B_LTGP(rzE3z<n*Qgs)|599<4$Af#Q8k@pUbvEgjXHjlIpe(^*
V$Bo42f%m^YRRzH3H!qPbeN_9frRSgG5H8#jgnagc@b>9T!KD!<zsi%LMPMckupa+2ps~)*)urSbB1C
W)IK5=k!U~|2iFgmLo0ag2kdwa99Oit1G@re;v2f_4ND&=X}bH^9yY46Is+DcD{y)F&dMsfv`<OUoOI
W)3g)ihWJG&nCvgHQ;%Hgk{L3}FXj5Wp;~+~u6<p_)+Mc@_^_+d(tk(xuK&$bjn65z*g>E=|gB@OH4_
zWd*?d_UbU`%kL>`B8Vh22t21o{n*47X9Xa}s5_`)9sSeQ6<aRMMOkZo9zNXV)Spm-LLy)(@cn=)e13
!I8e#DIiYLr`+^_TOgg^5X3!n;=s2FTPkc>pC&;l1i<=kagXNw_jfV`|qZJzzLA15rTFFV!brRWsC{I
Tw*w0qv670LeD<*L4xT~TYRx)CISa2)cU|pj?21LI$C$+B;XZ24Z&&~9|j{8!=nMo?cJZhy`8hWOi;w
T7vszv++ObhQe4-9>JLp|v=D);Ew|V~Xyi)@k_NryWWpid1ZRk@nHn6_46&`PA$v@)+23~3)dFVBghO
LoLlY(7NgJK`B@2%!{(wa!Rt_0cTS7Rfs7BXfDKMEYr3xCmcX}`2L^`nbS1~h6rB;RtXX;EXreo4YNt
LGwgm6aTb4>r9k6K(hwdO3Mx!qv*sHD*CZ%s|mP;XJBfc_Rv1=Ti7CbD(>puM3NW~>m{N8-<wgb;ZTd
Qt81RiKSgf>Fmcn8bAU|1P~?TIQ(uj7c*JT(i3pBX^)n+*6}2j$<$>G#TG?c3`EdCs9JCqQ;PXh%np0
E7li)9H0<oe<%d6NUAq^O+Fh!0fjmd@O4<(B5XM7LR80QV4|}bZQwENmUMa4;8`MTGo3V<9>FcB7<#F
GjjiylmjhjX_SxGnqe;+_eCM6(p~4Y&ja4kno1hoN42Ee?1xdv_GS9ZPTY$lY$W_ZO_;-P!DT!?`bY9
_ECm~z&6?hHUh9Cr?yzf<N;|Q`}A|(Q+<dcd-Sh-@MDs+DY$kaTrl%uU3GWp(?AKaS-q_{~N6;OhdHj
q6Qhp=7^egb_4h9agN)K%kXo22voh&!e}2UlE2Oao{oF2v%O3uS&qiB?R*+?lXlk`NnIHSqYNEs3G97
IrCylLKAuwL*pm<{(9p5zwv(G>CWi8_aOXnRwHI6K9?xV0~NUV%_UkAUHJiGLK9!h1hqd<_|PaV~${Z
?C~%yY{)rrHHn*|o-xp%&pvZ@W%0B>a_avG?h?y*Y);_gMUEwNZCN<lYPp;_wddYpRc14)l{sLx%-;@
T_MqClvSZA>*m6h@0fIM+gXL^naRlW=tqg`h+Tj?i>G7iSvRf+1ESJOC1BJzv7(2T5ze=|C+E-npB0q
Bo0p9!cm#aCZHYR+(8p!&kiGu{J&bIE?%t(<tu$Qj}n*=J;PBnNH@_@TWMAQ>=6xgmQnRU+Gq(WQN@3
MV2!r;dJKt5x0b39`g9X%)(SmvoOHQKLLWR7G&;I$LPskL_OMcEGD$+d1UM!EToldJ9QjIz@lFJM8FH
0IyQl@X0SxjsDU{aPtLGXj1SnHiLY1RrDUiWz)6Iyq(g%$DQ*wojxVdNzE`8w^E*ne(O?geAv1tHDcC
N0Kc{L8L*UMLSE`?rn0z6YW)F^W*azZDwhV@Sp?g`HK+xYwAv6QAQNrsEK<W&WzcjKXB4((^(>31m+^
lvB{aD_M;EFi%L&8QlFyEKY?>CtDnyu$}ViDW-<ya63~RnF%>3VUTpUv1sF|V;=#zQ9=*U&i~C8MLp&
dC!StN!0d@>^IJOAiO@N(68aUlG;;L#OSMUi2El-u)fv+2R!M|yeoMtjAd)tSM=mo)eNymb2jBC8$%<
XUnfMQ`|RZOAme;TQ9JQEBI4))riUKW_4q;CR3ZNlATsVg_*_)Bhx(QgpdVJ5l?$B*z9uAAa0_(hae7
bmo3^~1b{@FVPnA7U`tMP4Vj*+C>I7H-z7T<d|r->?t(8-^LyFCd`L<+_2$34bYM)?-4%&HPe3spY+F
-ohV1*i5OdHJP6u4QDgF!81?6qV;w6l_GqvR&2|~c-uQ@b`}1!lVGdy?;&P*JN@C}$4+AX()(~44wPk
rP~g=s2c6*m#u0+s;qO7-u)EUCCAo2~oh@^;9W4knSC#4&-a1zjZT&j08dg>aJzvlp5KUnP-KFyb=O}
D$)F1gf)p~F*wA^3RJQs_$dFt_Q8WEzmCH;@POAqGdl+I;UoBrU<{hvNC+bI*Ee=a{qSTRl>9cv`Bj#
U0fe`QFonGuQ8JLpdg_w3&}$30K;g?1d`c|8F3e?|14#OYTNiHQhyFo4ki>;pUv>1QkAKa=)0c=nMFe
NkJUc*W?!tEUW3P8UF;ermWNHe2v3FAAOP3Aas!d$Cv8HP@b#M;}Jx2@)ef^J^o+B-eN_b%6$>fTCK<
^yJWPEV3K^wskV{!#ITD27+V5I4138!)fcedu@zhY^xy|O(UJ_pI1O$*cxqv_1g&rD&uc%-@PCAeViH
VUeWJXY+$wSq)VX!zDIGCsC%ximCFq_s30t@jAZI+D>l`h#6Uk$rk{mTJx9rBZ2MR*$Sj^;MUMB7sHj
uzHSSFv4|O+|$Hl^@5MCsx83uWHt$<mf?+eXY;J^pg+f?;}J_fCPp?G*Q`^PJ2d-(ILMqH%5Z7Ce=qC
F~qRevq#Zd@Nn#a`s+>moSIQ9K{`B-U?w09|3V#0~)#(s3!;YeH*`c#Vf$ry=h#DkqGt*~+|iOky54z
Be5WhV^sEe?dQg?{%{&Jsd?wkx%?U4X@W~Z>*2=zfem91QY-O00;o{l@><;00002000000000v0001R
X>c!Jc4cm4Z*nhkWpQ<7b98eraA9L>VP|D?FLiQkY-wUMFJo_RbaH88FJE72ZfSI1UoLQY0{~D<0|XQ
R000O8^OY7y2&0?NmjwU-n-Ks2IRF3vaA|NaUv_0~WN&gWa%FLKWpi|MFK}UFYhh<)b1!vrY;0*_GcR
LrZgg^KVlQrVY;ACFZ)`4bdCgZ*Z`(Eye)q57QUsDZRk7Fg#egsbnU@Aj)1q<F2PY6@>1?x+MUAAQX2
bsb?nud!ET;j|VVGVlk;jjB-`#zrkB*K;SM$qvEH3p1a?O)i^L)(;Au^vOBG-~HOARSoJ}{8{E`b!J(
lX9RqYI@<U@s<PpDBPT+h|=(Pfik%La-KMok5U@?MZP`$}Ho{*C(77sFM_Q%(Gv38cxQeBlKXT<->Hu
@L5T*H8??%arB4rZ6Ty)Z|Cz5*JmQnA<<mqBlwy?q1lC*ok=O=-g?~cv9-n~6YDhvTHCBaU*ZTzJDcl
l+f32>$PU+WJOcayIU9{eh|Izk(2b%z-a-_4IG1FxQj7@iFLMt-c{U>Ahkh~C47Ny#VsXv}ITJa%$Hd
UDSdm5JYqA41N!?+Z7nN)f6Ww))Gv(OP6jm&Xc+PbcxeBtC&q@W-XGP_kO%dB?FJrk@`1A6vqPN=JuF
Le)=8U7;467zZ8b5u!Wath$k98x_ZG4S2nG{lJbk>#|#Te{>$OAH=Ri8QHRI2exie<da9vHWnzrKHWd
U17gL$gFZTM4<1bqiHg4N!sUsDw<(#0=1y;9wxCEHIhF)KTqcD=*j)w$Dq8fObK{N7yjapO$fD0u7BP
z2KuFmY94y6DX{3?K(F%j?X50dmzU#auIfxEylM&Sx^Lfww>K-%gJru0@(_YvQBB_P(@T$rZzfxf5AS
0B(g2JrbaiIa<z%?z~)#%QcAG%ZDj^*PPHJCJJ21pZK*U{0=uJD7X{?3+VBjRgg;P5s1YQl&~6E7(04
m8w^6%;Vn2p#va`S*4N_Q^YuCBf7&R$@ao6-=w`Xz@u;bKfn?i9rR>#U=$2+9<aSv^4t0UM5rTtz3c;
0A-v4NOG6>0wK@BP7r)0UfaOP%^VK=JA{<M-g~jFFMZE+C6j+(JnHr;&xOkt#Y?RaL#}C<r*MLlgj-?
1_>~QG}g%NCfRSy>$Y5!LA`sSq^KVxfQ1^C>5_^5MJv!1?Tp7bxcYO-$sRlL;^Y*(QtG%JAXgFIGxX;
ceCs3)AO0zZ6MD(l<SYSaGK4hHFo{!_2LieDs!Fl+1%+T&u3R62Y<MbN;|a6@c<ygu?E2H8EjIbKjn#
b@r&$g822%!EecaQ)}?W}_S>wtqdp;{%dryq6EJ(hTaUiIB#m`!_FV))a9gjU-BNcl9(%pae}t{L2h-
pZRv;ly@Jm>=Hyw^#idykCOJeFV)8<Jglu`Z;nuV#|5X&!EiOj8lRWaTT5cLk5p#yDHqQ`cyDv)hTSH
C>Xv7<Jk%+h*;lvP}B@RUk6ah5^8hC$I%`s-?q?&GX9*|r2OI^A{KsI$);@A1WrUyT8sL5dEs;WpD=U
+@)Ei|HF|n6T~<XF3q1L))pvn`x`=2s1RogOQx-<H?vK{WEjtA|Y@-<?ywz2Q^lO?3Y$uSqCJtecTRR
{viszp`7epclMKGb9&Y!4|}whANVbc*OaN7o=Zki@W@lOpq#xuy}X=VowtHAU}rCxTSYg$fij(bn!lZ
0%`eWn;<WGGH`)2-vpcrG7sFl?z83}WgwIFlr^tKabm*Q3O#=R(GXLMn_u+Ho*>dhJrl{z*URNYqH`x
y%`)NELs8PoPCF$q!WGF`i38^Jm!WXL}bsnayk^*mI&XYyu?C$rdo6SYOqqhfl{cONhv$rLr&B>FRbv
R#-95@GZ(B7sP28;h%xY|J1YYDoPxv8!8#*MW|2V4DLY>Sx|sn1M>E=Bqf_R6&WLLkXOg|CP0DIw(&y
$I*BL`$R&q>dE*OEp(K8tz={F~Q9Z_2B97Z(LtZ&`<rvYG@b`@N5ODz1*?&Y@mkHX9Mgf!5jSpP)h>@
6aWAK2mtey7Dqx+F@<#u003?z0024w003}la4%nWWo~3|axZdaadl;LbaO9oVPk7yXJvCQb#iQMX<{=
kV{dMBa%o~OaCvWVWo~nGY%XwlwOMU*+qe<_&R>C!=SGxIX5ysnOx5ax&ygqU*pg~F$z0P6O_7j<Gez
(K(6)MW{q5ZaKoWeBlipl4_DCcbyNlgt-@w6Ouv%S{C#H5}HJ^oNvdD8T6xnb=mIt-t8F>?sE1stOiK
rcwl(0-HQN)VzOcJ&s2VRgTUZjbavIj~OCy!LH&4D22m<q)<ERGZf;>_VW=ZcPyB}wQeDpEyKwic0KK
$vjvG~?<Nez+V+yrc00%eH^jLNiJe6bD36k}y;#N<kIzpp}SHmcSyfp#rQElBS!$^X_&`Y93N+vC(@3
<|L2ehiI$yl`2Y8nv6Z~l;np+PBYw;51bUp)@FMhoWC8y<1E>p?Uc%8oHClJHqqPQ%}_ImWOm-+5d3-
Qc|XFQ;wUS{qE>rD(bO;I`+bz5QUpFZ%c~XnfrE-trX6jJT-Y?&3S9T7t=VJQ5onO6-gr}F@%a8fg-F
3GZ-ba;O0acM2?$vB6OC2KGQ~qnbx$^e@3o0bKgT?w-kJiMsCL<!ZUF@Q2t|?icXvx7=+6b%LIy<p1N
XlMNbn4SMj~>5FPWloAr;@Vf7APWZ_kq=1?T`mBSoU@KseY(5XJVC)Ux1do~O7wz=aVkNg+}2{e7wN{
m6nAWRI;ul{k#`5B#vb4u_+5s0jZjOZh{+jy}gUS7fGTOoia07Mw>?dfptO?qFe2K<tfS^W#c;5=j#X
T<pPX2NQ-Put`Fg0_XrF%7BLG_MUb$(^x{IGXeNBwv;3iv_?C`#)ZKM8VgNh=}44HPIi$An4E)W*dry
9C6v(326jpKh9pcz>lBwlth~CrUU>l6Tu>>|5l#*uzND1gU*67crr=5iVRs)6LHf)ll?Z?fkqjo?ux%
k|D_ck{&TbGk6SEv~APWGD9F=zSBvpE0<@FvPy_;TLe7L>~LF4dpwtPRm4X<abyZd`cBZ9$pD5!N~jP
TLkk=|MB<9TBsCr6l#0pYYqZEK~b`XDX{NGLNlCOVGCuU^qCcw!GMrwNM!F1D}m>eY%0$hYA<+S72BB
^K~{bu2I>jAg&ZMtdOykHm#w>JZZBJmpM5S{e)no>v8h4spmXfs<VVFkzTe&_ZYaGUjaTtUmnk_wWMj
"%text.

(** Lines 15615 to 15764. *)
Definition DATA_103 : text := "F~0x_s}IZN;`Z(ZUd8&SFiKUJ!Hy~(a1-Elkt*CL;{Jz7(&k;yhSTbhspwgU6B1IRw}=?Tj}vM>g}qt
!Hn9ir?`fq>x(qOV#X$mIv4n8R@e=sLS7<LAYt$jH)GjjiI70kF#f%^U7(&V82f(DI2{$aITyJEga~L
mFsTU@g@+VD!!ZRGex%M{j&Zw@%?I(p|spo}Y$}|kggnS<KB%;BH4Cpf`2lsJ(b^nX!onX!&JcGP)Dk
$ccQ(atj(SM>kC&B$h2bXL*2mtPu-N1W)u?msh<Om!<+D()jL|7d#^p{o5#T){#g1Cd!C_sjy;tXnhf
!sqI$A~|v`;rOyMY|n?dwILKTU;)#F(4n`ydAsl4$QsqW_tI2@ov;z1CjZ7-dv(@RV#jVf}^8HP~_Ny
_`h`Y=uxB8;@4pb<qL&*s!-G^4yG`;lCalu_j@_L1?w*6)24`z)7#nAkNUx=NxN9y%@*^E>t6chbb8y
Ozn%W$!|ZnY?kIg##af^5`xabX%&x=P6)2|HhA2Xt^++Cty&|@C(y0=+dA{;Ij|;X9ksz!wr|IpbA*k
afL_SX<%0nBM6DO#G)<fVA^@sG9bmN}E4bL9v;S9hU?<y$kF0KOe*%}hE$^2!*9SltKaa=U$)mBFL9n
RK(q}-&@voEwOML%TFIPV>8v1G3g#P)uD4c<3t`4#*2Y2EP|=znr@qGyD$X$;{nA~I#$oq~k4F1BYI_
6#<(k)}&3W}dR9xZQ8y#VJHhtBUyD5>lFGFt}LFgL6!!Dcu7HQ_yfIY9=~a)^S}VaqS6KdF-ZOw%}0h
_e}RNJ80zg*sHEC=FOofYV_gz=l~7YBOO_01Xt2WY;T=$g=-opBztN_KwtJm2iWgX?1`bFTQh~z6c}p
<MyuFq^1#G1^wX=H#uy+_sDc%?;#o`=o1l91J^5D^%yk_LK4Ris0nuf3&p#iL^Ve_wIQ+eRhd|y^6*d
|JU$+}*IqNg1Rx}bZ&Psw8+Z|#bG9)Hp{XEH}=_sHQe$jWJiouN8UytfOTu@brtXgiIyrmfxQL67?t!
V+vboYoBhW)OHvaO?VfSakbgGedBc*9{W5}pCiBlJESx`gGP;HRdOI{>4xP))}+HR&HFWYEO$VBAR8*
c`L0usb!Tt;?`6hpeqjpuR=8OA|4GALxh@-2A?wCy+U6;vz>u(?=zi$my&C^X*#>qhp1o`@voe5j<)5
YFO_I-D6tJ%$46XhQ$bzdN_jE@NvnA^rnqoE4nvPBtTjmYE+~&(=3O*JfM@yaC)C;P0@0f<-H#cOFe%
9A~efkXF2FzaloYpni>GfeAVOm7j?%^83X}L)-+3eh<v{xqS6lVY)##XADfFm31pJ2bWQM0|LdgR<?O
8N_*e?_2zk=<!abO>m>fuQSyh`e%{?%(O$rM4(F4UMI}~&Sb77bWo`WH9N`_l7R^tVvY)q~Oy1J#^LJ
p0#)E2xH+i!RRxhg;8hoIEdNWvTyLak&f#2G5xjGP)dvK{|O7YiJOLlJGafH%rFa&jjM7eV@Ts$Se^N
18-+Ur-m;`eBbKB<;D~T-Y=hEO}jT5pQQ)Z*bU2k&aG*B^=gEORm;Bdx*CYl!6Ubn#tLD+W;*szMqiu
wmfHW>SGEXNV%lOytN*J#*dc#G!k3D!|Cb66aI2kXdD6Qm6+rvZQlf%S(}ZM_H+~9X!8&95+<qkaO#B
YapxgkA@o25nM{a(2K5$tIGEEx8G!9{aW&{kBGy=IK&pG2rjqs$<B<H4{{N(c-)fFu+k#^yQ<n;r@TU
wy4U~6T-cB#4vyanv;p+W|yLXFE^Z)lAK1G?jg}JqL;HK9mBk~0QV9tr1xC8U$cjSC_@cv~4O@;Y)qX
0H;2YSedeRV}7NAxcb0{p?9KCXi)8wNgM+E9E3*M%Akzr`L-bbbY|o%Ln%2K3hvB<o$7II>qSX9Q<eN
$;di3FRb&J_sfNJo>eaQLe-FX$JvMFrJ%QcA~Ydf;+BY-O_xUrt62vC&3!CxBCeJDtMR&1*HQP4TcUr
zP))N<Qs8>AB!ceOn*UdLaNK5+4315X9?t~m;8X8OY4ErTlXs_iMQR_HM~u%`1Ki=j=$7O==|L-Hf4T
k6^Or)^Iqt7{9omv7hvBf;0!BJr5bny`*Up1t&P?!i^L(szISpJ0ZT{c=RdvvOHcK{yjXSlb^!F94%I
pqSNHA>A2g^P9eNj(@Q%eHS3F3Hecq7W0Y+=V)$DqD_v3OJLa%?`g){2osBeY-(x5A6kHMI9#rggK-)
-?sH>V@bFepbqjH_XAIUkOOP0_8(&U8aQcLfdJ%~v2mpC5MP0Xsnb2>bNz=xO%pF8ESi{put&(_6Oid
$hZ$*XjQBH^SavOb5<yL%1Hd?Wtmj?*j3x%8#>W;|{2eLWCJN-w7nm-N<@6#2Lz}Y<+KNvEskBoLh%M
K7NhJ13jP~lQ|@bkv<P;U4n)`OLN^nvP2rlmISt^--+zFROqo67CMKun#$@Qt7p<|Q((kUFopV^Bi_%
>#g}1uvQX}!HoM&;uq}T9%1SaEvTyW>;hOHEM~1I2VbZ`c#Jt>tp+nC+_-@y{CqLBZGU_=1q`9H2dt<
-kUTI||k2_0qp<fBZbF<PCHnyXEfa7EHjJd%Js=URH-#VfGT(N*+*v3~a$NKSwRvg8oJW5I)DL1d1q+
c!`5$(yBdcb4dtErT@L7+0Pi3V$EzAC-QcVa-kBef_irx{|UDeSw-QdJmdce2dzC*+-eQ3@RmzWj4uk
t$C1Y|9j$2f8muiO-~jq;&GO%s-1Io|<1SZkD&x)oQkw<GA+x<~4jgR}Y>W3w7u#T~_q?8`biSq|4Df
32}*k<ec8}hSbpwC0hc0U}vV|VM(jGE3oFX((!9jZY!Xh)V8FCQkepZ&-!}BE|h>l!owX*R&ocq(0>s
#Uzr=i-bN7j=1vE2`MZn-hX2t~pmT)tJH$X`ra^^z{H$R*d1##VG>>+4=`b$-FHlPZ1QY-O00;o{l@>
?8)D0j%0000=0000w0001RX>c!Jc4cm4Z*nhkWpQ<7b98eraA9L>VP|D?FLiQkY-wUMFK}UFYhh<)b1
z?CX>MtBUtcb8c}pwG&sB(zPb)1cElQ1#SIEpQ$S*2UNK7iu&nYcQjfe2LxY9uC^kCA(#X0f0i6zMy@
frEWC3%Utsa#wDP)h>@6aWAK2mtey7Dq<Grf2X9008GA002G!003}la4%nWWo~3|axZdaadl;LbaO9o
VPk7yXJvCQb#iQMX<{=kaA9L>VP|D?FK=>WWpZU?Uu0=xbS`jtwOVa&+c*;bo?k&UC~PkjC+Xd`*x<a
l-EE2scDE_oUU3H_FldRkd6q;iDcSWc_P^iEkd&ymv{~TtA(6=8aNhXL43%^CBaiom(j`+HcCQnmMe<
t4<#fj4lpDj!9WR-#a>G>4-kr)F{CP3|YXrZ(#a}P+*DJ>JgcYaaG(S6M?_ixUju<8<z(tsnnM#&|C}
kci4ZCs}XFN?|7r|0aR8^7S12Xza6(=pXyOO=Qy84d2=ci1;>VJr`l=)WZh-r}uZbZVW97HEJzutXhz
sOkRMj($}Sr#{!m$6F3oX4d+z#hPV9;@t9i&z%ITz>oN<;(B>a(Pzj)6E%!pN&=-Fw=sAtQnbSE6SBj
L|!s(*s6Xz6Q5&Il<bbEZnaiAV3AZ=c3OQMqt5OtzK#`G#;y8UoXjUFjuHFB(@MDKyHaHII4VW~zBoH
Ov%U=do4~J`rJ3M>R5{lt=WdaSY%R0_M;W1UjwxI_A^LOnLk=@Lp~0UCLryH?g<*RTl9h@bNW{4#{s>
O#P#0PqKx@z+4FKcWY8AmtDsuY}tGwi}Ilf`Q09D8i1cX_L0hS2}vIK%i3oGIUKf<#o{!wl(?lF9cxR
e>}xlx*8E?kO%V|XUeCpfRgwo17sX~{AY^=T<o3Z3(m8If-0s}<<q5TDxSNM*i9Q!>sHRjtz#jespuX
<BN<Qpa}N9vOqE)ukb0h#aIo%5nz`4TO%&MatkHWbhoa>&~%U9N>_EEe%Ux4Bas;chWEeQI^ULC`p#!
=~jWacG=9cyXEnY#9>HXDu^O96}Pehbb#l!AP|PSxM6Jh?)~kjh`qi2*T;zceEaVQXS_sgz`NkOa<!V
G=_2+G*INUBzS$oW<06uxax%FCI>}S{UqlV-UKc^u%yY&*$ZgKc3S1~n*NZi)A#X-(U6tsfBk+Y7*j8
vF8x6U_GXMwyLy1UgK5G&4%22dO-8~y90M~0-YLx6O)T4fuWT+`>JY(Op>qc7=lS^R!@l*&pz|)ENT!
<LG1ZOf+VCd^c(1>k8%IC?1J#To<YJN4C_#YRiTB))gccAe@S!xN^5CLusEMp7i{wyEZ(9d}jaXG+kT
Q^v_ym`RI_!u$!`>o2w!_bC!o)+x)Kh8SiHakq)K@-N7@p$6G3p^ZIK#Iu!o?wA5^MF1KJ(YwrQyH<-
jQwq~_@1d`DIXT6#--=%gH1<p7;<rBxP-+3_>|gch|bM%C*cTf6^@n^sSsOuawzrDK@WK1v9icl_R!N
o41}9CMq;r532`@2_>%Mm?3a2T#vV*jYy%Xbac+7Z0+SEL3I0F=@e#1Rdgx6puOFJ(h7GuJ3A>Wtk<9
xY$7&v-TY6q=ITui??_65$X1rHx!k$+f7T%>Wf^I!Mgid{p_()#O;h2Co@R@vDVQmvcDFFONI!6VbmL
}i^b2%n0bpUUzPu6jik=!Cm5BO35!iiWIgGmawnksg0c%;m{Z8WD$V~qv?kn0M#9U}Xfi_g~XE$7S&R
ZNH1S&!Ch+XOgb9bMD603MQ~b5hR%Zq6AW-=->=HMV~w4&zE|A7$4~{D8qzVJG2G5O@PcJGxI&qzTb1
U$mpwF{LSB8fc+0T|#j=rb#gGwDBW<N~5d)helU{MlsaNdPo&JF=H3s6CguceNVAUWfBIMu{9}>Hd^&
E%*F+&hZh%N=wVwBPG{`}RxX<?AU8Y(js8SB@mfA5`%(2=i;B<^*sw7y9HQVDBF-&7YJjd*F$2c)bY$
u29uRJZEew<|IURQGtj?wZ{&isd9lY5p#V!=sO|f6@-rV~#WMi=!>md*VM%kOz?1rb<8jTew7;OXDfo
c=zLR@LmPDCOr%F|@_H4*Q`YjY>u97!%7UmVtq&NmsTA1NKAsv`glF)qmUz($CBUXbg4#ExNRYrU1GC
8&jE;u@S~JR6-nTF==Gzpz1xAU==+Tx2z|<Qtfa3(7Sc=r7eV?4lAy?oUKP#Yyg}58vuQJjGONUtBc7
k6q3XsL(h?y6+LFAA(?2$)qbIl5|g%1C0UJ9!^5$c5H<G5}DXS1W^jj?LaDkM*_N`?d(Krx84CA-Puy
s`_CR1K#y6oo+B}!D8T^^jTlo0ck%Ivc`3_w%p2hH$bQbGWBUzToYWhxFm1-Nrs$~snC<Q4s2D9*Skk
A8gi!3n3Jf&ZYIGsp5#1uen=pg^lO{k8cM}BX^pb>MLuS7vxPKFX@ZAOmv4gZ1B+y%yJdd$wfsWxOkh
oUn_6DogJz~i%+Ox%JN6ooEgZ6lLc{Q9I-3Y^b${JQW=K$0}xf9c{C5GUNj&u#)-a#!5tqM3U<_2`5y
9a3;5K(D-(}?Ccz47NS<oGq+^@}fb*Uoh_R`R{=%BaVF0qNXGN^U8ev{-b1Ce5|M^m)Rz@*wgVHssS<
jwtBKp;))+6=$9-9A0#WHvnvU<#%khz$gX-;Ra!%JZHZG8@zVgYUn0lReEAa0b|f*7*j#|27O_hwW><
?OrejS)vM_hxCXUT%hZcS*VcXo$r0p9SSF2+?I}^&{%zJTB^^c*QNM0%0DWOe+Ub!@4Tpe3ap(7$V3b
e3u#-OuPv5XxN;u9An!ZvMo2JKEAO_Xvp;zd(xzMz~F@aI{fVT?*FXPvADGb4dP^u*q?v4Vl6EF_e8X
^SC1Ak-ZS!P`C$-ip-AA#QrTBUHSHy0aTrRBn}87hgV`(>0o5Oy9SUjv&$#CRc@kauixOsNbZKUNyTx
KMe5(vi0F5dX-bwr|>~Do5nQ_oiUp*pm}kmmI^=mI(1QCgUY?kiI*|SQyaORle;2u?9*<W}I?%eYlk~
AYHrqQV<RKXmvhR1v*BJr;I4w*pS08i*-_Qu%Pi6jBf=DL<zJq&{!zsYk_(}hTi)dr!XTwZbOo{Z>KQ
Ay*6J`5}Wiw*Y`#C&3z77{Qk#4OJC@)oi93<6ESqeD_gD0#MUcO@DZntkTo&r+1hzf;mLd+bk{BVrRR
jIUypa-qupD$&2xYb%26(!2nALvc*=PuR;y?>C><<&t{-1$Bh;Z&!(}5OlcpU}@hFVw*!Esh#bV$B=D
mv&{FVpy1*FV4-Nhqj7Bb#LGqnu@j_Se%TP~YY@1b2723ZOc)QZY5gi`J5(s`_kQ{dowF_E-BopzwP=
4a8)UQ@IprKT8+jE=!0HnoKpgkHU{cizX=1lK{R&(LiU=}GlAGdqr@8PQ_JH_%(OHwwFqztfm4KI>hv
8m1f@r%*cjYSN{+9_&me_pj&mk`GIuv$*qC90xuK*_&``gsAHNP;<fz;u;q5TLqOJex_todspjVgFe=
g1S8O&;H_F}x<O!1xL2hU=fj!Z<5d{z;<p;7C@uAJr6XxRMJyKh3G6486<kY$?YaU*ZSi&g8gqvIBx*
#C744zf-(4`aSJvOjGF}vP-|ZRTr!L20JS+AqyWmjF1|u75ND7$60w1l~_TD>y5-c!napnekX0(_7Jp
+c;&Bds79TyLs^>$ypE}@UkIh4|svDa|*|3|!PU6CB5I1V-T&+sn8&-oK4%8OJ&v2JTC_o>`|UqV{Em
4Q=ezb-%P>frxPpm&!7W5dn9mm$1U!H=z9*xi!%_HX_<VMv0(F5e3f+_F5u3bd*xM*V*gPKy5lP)h>@
6aWAK2mtey7Dv-q9<f{w003+)001=r003}la4%nWWo~3|axZdaadl;LbaO9oVPk7yXJvCQb#iQMX<{=
kaA9L>VP|D?FLP;lE^v9R8f$OkxbeGx1*@Q_e5Z9c$>9ndHbtGp*|?Y3sqMYp?R6p0GHr7si>^q=@fH
2=of%S3%TBtj5kw^CJsggPq&(02U}P+f6q?Od%C;%AlLd>^Ofa+LhNYWCGnKH1oms-;jPYc~&OOg-wN
9?odY8(@(l9@2v$MCSZ{NVbQ+6qmuY4teNEnf7l>qL8NLNy82|T1`OOcA{jxAE27%>ajJQaeeIg6G&U
5J1g1#)(5P1H<H4VMY(#X+<64lr9MW(j<>nwu?81!={#R*~eukj+%IS&77Og97I=2K#)o6wDht3a?F4
W`f5|Cdf{(492z+jNO3oLYq`Z$Rq%)DBjFaiwqpgm2@JIoLr%SYwKjA!3b0}U@J9~b9@T2Y`vMrQZEB
GlgN9zF)*lcFcJw;fhB*0nb0DRkps?*HMh`@kWl+II@LHgp=7pQsuio)0$!SL(gb7*qM0f1TF^QHnO{
X@a0v0|Dvs6G&V4eIXq5g5=4}EnK2=YG%(1hbC<EGBC2$tj#oRiOUUE=>DxA|mGDHImwN5gVQZ!l{n1
2Z~uvRHa#26@R-$4y-du%+snSAVydaOTY52N8P{p;Q}^SWc`djb2{pWF^VOc-E{x`WAQHoRfo!Dse!e
{dbJ-lvCAZ#-thQR}3C|8Upu!C-%Ib@$=AKX}hBfp9RKu)F?!e*#=5LxvI^uYPZg-0pj$t6S)HFZ*}>
$>)IG^d|#g+B&%zj#!sHbVrl^)rY(8h&_B5Jq*V^P~aN)4*G+e5s2yC_Xd*=h=noM`vp2|eA~UdBU#-
Kp#R8fcr|?ZJnFx{ov_>C-E|K}FMFU{_wugCNEX<2b=U3R2kg3g-+hnzjo1*_j0nx?_wlxeLtya$NLc
r3(jN}clB?lhGJ<XZhK?pV?Z^JO7qITAKSrP2jE2A;T?!O{(jTB=gF(--L4UK#v;YqFKa6{YHrKuG9W
WcC(Pd<qQ@O$kX9@y`8<l2#z0+CK?AAiJT4BgHu-4KrWEafa%PZ{N)D8V*P5G&#(#4-WAbSEh1eB#a?
VNSqdW@a0k$936r$3xVfBIoA=4TL_EeJ9;NjDI!bGC)JhE)S;j}lIi`OZ77htKE04z%oK>}4`nzrOv#
E-u(Pm^EjB@>7e!4;Oc`2+0m4GHF2L5)$4*q&Wck77)ddzw%*x+HoVE4Gmi^G&Yq9Pj}hqbZ5|42)OT
l8u$O+b6T$WvzEV!mWZ`z)N0DLutUwt`KTR>RkCO|=;)J@cB(p82%12%y{Gjik@!Ao&>Zctg6E|0I_3
smL#qxXhSX@xv%dG0KXI>Z^~c`{`>UN19&h<hGsv}?ou2_~qdPfP;R&$8_fOfockKMM&EBw6t6||3%d
~I)0GUid8k@!fv*MCN(nJ5Lxlb-&zq`o#54%ufGc@f&BzcE@@)af4lE(O(i8%|ySU^bnklW`qF#b|uA
W<`?Y7RE(u8Ipx{7-(noezrVNURMTLR8KniTBb}rB#v>aL^lYP-XB%7wx;r^7`?ISMmDsyvED=A!eUo
#gRYwY!<?++MjQdD8QGt^9qy~-C6xDjx_;8Ozd^A0zp(9=!D3H);c^h<~Ear@c!Mz!cX{06x{nZ%UD?
8Jdf)gUp{t}@i`<J8i08<z}e(N!;E=o`L;^aM+=WQ=wA`|1@y6z5#I6NcGp5jX%Ql=A~vAHF)la)R#F
##IM~54FcBYRx`imnfG;e_b%_#6m`!YOts#pLx+;DWe!IjP{A)<1ppX+d!ggteOz>R~e;k(@+bm+JYM
_2$(BV%?&UBtNsVd+LDB6nE0TWMh%(^6|UDA`hXQk#YyNAMKc5i2}aNi4l12@D_Qzl}2F;GdxjT?C5_
$8)Rm3AlRQdO#)&`V>$8U29F_g66j-6WNV$z+HNgo*8u<yAriGfIYLQ&-C#&T+MH&$zU!uIw6DbN-j!
M7HEn+rSZ=O!BWC&%4d;&INz7$5HZ8uZPaN$32f&P25rc!|VYmv-vPmrUzj)DAGLN4V0OveKRuF4)@h
z)MWL`2IUxsyjs`y#b9-*_2O{2W|%Il7cM)kO3RhRVqj-^l_IQf#7g_N7_p0+s*yb9W4uEt!)XTx+l&
<wF`I}r?Ppsdjgcu7t61dxYU`@%;_;#}RZaaN>^`a;sqlY3(heHwVMhut7s7|9Q7YEhnQmZQCe)S%j%
yv@C6o2WAX*qY`Y^0BOZhg;@oeJ&w-sL>SIZ&b;{c0Ppqt&)HYf&DPdX9WVJ5Rp)I?1c0BLrBvOF8Ln
K?l5obqJRB&%$Afn*y8c>N|{@Sj7#2e2r3xVKydxvWlEUWN->^|@TEd8%!oTv7kQ_L~V{4=)xJwa^T)
-GsL^W*tUKJxcMFrxqPMv7BND!JPv90tanX!)A?GA0S=DA(VY|EM+NHG4*$lTk?@kj&hJm;hEdX{oO;
}Bl7iOH(BLl2@*1mE0$YG6XhlBsBR~dhp|YXtgQVJ;-PJ~iO1FZewAQv;3W=YSYmNaYSY+De4+;#J=!
%~YOZaoiQu0bu_2tlQKJbZ73<VF6Pt}VT1Ah-=t6huj}I$q9&zhRxD(erf)>ssj}@(g>%8S)9S1u`j^
~L5iyP?evnk;mV+Hk>iUAY%%VeqRPh3A^SHU~VkfyoN&QANjeigi942^syx7tTWj-$t@AT!b7p0-m`>
1I5N!J~7P%q$Pr$mc1Uy`Vv?(rBraTl41e3P-N8k-ciCq*saZxQNvX4@(Q*UeQSA?PDTJlt;b)SPeGw
_&<f)TqQ27Zt|96pbliTjC3Wm<_j@ZE)MQ(|58=rqJ(wata_Z9$7-Y=_T7t-yGdh6Fkz~u$`o&aTGt|
V%A-xZwlZ<=%g{9e>q`soN^I>6JFj}x=#JW4<yxvv1EO*JYg@$PafmIQk&Dg_?%er77$R;MvhSJKAq4
LW7SE-E*R#WIcj|#BDmdcfzv^iUPhh7mR(Ou0<+Ej%pJ+5{izrT8V&`O}0((|W^;l&@5G!V$s#Sxa%4
t@1CQy-DYzW=CR$g7z4z~6V#?YBoS_mmVg59M%fyodY!=J^j;fyThQj3}}-%G$-n`lXV1NQsWW4~u)b
<jqCl=rK!M9eb8`V<eHLux_cR)XQ~#lo<KFbgD1x^p8SwsJy(f!p~eHrm3oUcms%%}22#I6l2%_=(3G
3M|jIN+6skf>6UNofB70kt=F8SppzzHX4$54p~weXfh>hH=0xQ4w#fWvs$e@QuyqNCy^jjym_F#^s{N
Xz!<>1mLkJ0s49go&HmwwG#zB)w_ErCrgf@Xq#$EFw%a6AwMk}ScB<*Sfqe-MV13jtw72`$V&fh0IOb
ExTmabT!jqkk@dZc_JD9v4aR;3*7rFzcA%x*xn)m>Gm8vjomm=hwP3X92vO3!xd}dJXTr`tIzHK-(cZ
^BT>{JPHvm<sV!np*zl{H)W$#atlrFRcxt@py%3sMJVc=M|uFtW>nU1nL10#ukAkT)(CRj|exbC+Ipi
UBBKx?e1}cA3g8vcnYCN~FjHWQ(tnCSQ;>n$ns)OqU^LZ-H!W`m=KWcVWiz1qNx;9-`BlCcn+>jXF<v
`CB1hM<6ac@|guiGHBy<M=sW``qv6}8RJ_-Thgj<N-D3F?St}x)u7GRT&CZq2g$T*?B$WEulLuQhRrc
fwC}+SRwi#wy>?EpX(XTlcMVs$-8}um-d(WMpDHU7DzP)XcJyWQlB6q1-<LtV`LZp)N|@qmI(uewuI+
6Lx8G7wjaS_L*e?+17WVA>;;`6hQI1=?ba0`AA3dW&QUwaQQ#^=~3+D)T%`6r5vST8=zEYj6N1#h2&m
gW-OM}fbaNOVSPSn>}irRK4bi~&pQ?RftTBc>4E9#XrFEq^t3rq5RHw`dk5tYRht}!L69KInq?mjE<Y
S=kNvXd%TtBD9N;Ih!ofWQwy#3S=aDyY_?s~}n%0W;J3<pBsJ802)5@<>d1^ayV#2%1DeMxHhmZ<YYB
jSCvzOiQQA1)9@m4IVNF6en1|a^k|^S^$vkKF(pl7O|RYcP|pFNY~8*clH1s3QYTv6@C{(C9htC!g)4
u9w2Vb2lVsQUI*fW#XCUi`?cFvOMhXJJM$3xJk}K)5QB;yz6Ky@!2`N=7U&!T7nOE=l&xb)>XoW<5&7
T%eCEy}6zfVCiFvdk?yJJd&UyvhDltPIHVpjlc)9>--+lME#a4CR@KdNnY~N_JgKB~(_V1%<YSv(z<<
MEHH68cksTfX`HZw?hl?yLGZ*-DP6_vb;-{%Q`#tpCKUA)DDWg)esGnL391*I=M8a_Bc6#Es1Wm%1{b
*CgP2W@$R6_a#z#tno*G3#2?Er$^>oaUlzG9tQ_yl*$aOLhQikfqB88*2LCXFL@g3dEXgh$UFv^bH1u
3f>&K{U2(&+Gv9xv!SZ^<r;V2(RiiLB$8RpazV#cdzK^OD=i1q|F`AD@|BjOrmwIZgjlni5^{;1OknZ
J8P<VYmChKD(8nG0*&;0_zg=aEx|fZt<v&y>T~GqulfLgvz&Ym3*Elr$O;f=i%ZeUW64FI1lhQ{}zW0
yBt1dK3{ACR09sB&IV2P|6IRS@;#kL=AcDWK&Lx}F<+aPxe6xj|YLI&Afhy-R8N-^@d-p^99A&@D}fH
GCT*kRyON<K6MYC!7FOBR>@16zyRxPvOvZs}cW&NeMn8bFE2Y2WE%%jU?7%12v3aRrkM?`Td?w@pQA7
|H4DwL1cQZy>gK=L3u1N7|qruz&r#-TDtuO9KQH000080P~d=M-Z@R<=p@P0L%dZ08Ib@0B~t=FJE?L
Ze(wAFLGsZb!BsOb1!gVV{2h&Wpgiea%^mAVlyvrVPk7yXJvCQb8~E8ZDDj{XkTb=b98QDZDlWCUukY
>bYEXCaCwc6!Ait15Qgu4iXZk+#nOY`1TV@Syr^#wvdPp2lT1h_yY}tvrYckrHpj`#_kEJ*`v%L~;cb
?YBkua!n>raX2TYTP3yHJfiL$uC87;KWnRADr#f)m?Numza(5Im!c&_VpWkt)6WA!|0^HG63Kt{q)q7
k>4t574&$sw>Uo_??D*Wvqc>X$0Dm0uirru`SX_Pv&jBSp)ZEDWc4ThXgU<tb1UU9&GWH#@wrAQD-!9
S%ic*_1QL#dn-WEjSTU=A*OJH%e*mmBItA+Q0C&L%YSd*UcADO9KQH000080P~d=N3GPH8w3Ub0KyIc
"%text.

(** Lines 15765 to 15914. *)
Definition DATA_104 : text := "08{_~0B~t=FJE?LZe(wAFLGsZb!BsOb1!gVV{2h&Wpgiea%^mAVlyvrVPk7yXJvCQb8~E8ZDDj{XkTb
=b98QDZDlWCX>D+9Wo>0{bYXO9Z*DGdd97FdZxcrl{oQ}X$Wi1w<6H=7DYcYJQGgbSCJ_dT3e;NP?Zs
QpyQkfCjQiL3&F-CjjssL}gG8MDn2$Ga-j4hI{_DA<h4A@&IycU1v5-kh<x=Nf8BL`%3%XwWIX<6e_%
|ZyoYY>4idJ)}Y3Y={p~>WB*6;Uwy#u;5UXJPYTsbOLB?-Tmx{#JUJY7$oQ>AjLoh0GHQf><VZy{au#
%p!(2xHC{m6~NlH21z9A0HPccUj!djJ-KNJ#NfpbHAv1J+-Kf^<-tQH=W)}>yX8CN@p}U&A!VXW{(EF
US0|3=t5erN|g&QpIK{c@>W#K_%R*#;E`$^>-BntENNP3$Jk5*R7s&n)WS6ae4nQ)RTa6gg*!WGZUc^
A`7pyH^4!>hKY2s1o?p=8lSki=$jONEV}y3v3%8myy)l)`l=NlDl5;z@WzN?Qnp;QlR^zG(*gK^9{$u
z{m86ZQLdSUc$4bAnnx2cw$>{HZu7Q^<BK8s3(<8UmUVI)mCn{O`1+pE{(8`5Sp_*qfoVmJEKCy#rkT
wC>5WziLtr6^oQ|}+fD7zNp#>x0&jBSG{w%Y4iZkF07gJEM9Np6q*v|Ea8-Usx;xuv9olOKM3@^DPz)
~JFCsX=2$rbH#|EqFw;H3BLlrxyk++FI~)p~+~u@kcd+F0Hs(pdUcdb8<_2E7xpKIxl9Ga&uX9Ow<Ns
U6WXt*fIpRR+6s^uBan7H!IXadFIIsEz-GcrEo^WD!OHE5Nx(Bt5E2tJwk8x14lq9z@yh4yp*PVdx@T
2PKX&jranD@zuJQ6Y1$IS)e^BSYi?F#K)Ha^)v?(c?9%R@Dm3f^IVz-Sp)+S^n>K3KT5n(I68yQGDK8
gvk~Jq;!SYH0MVkC__2%VMy1aT#!sAdKfDAoLf@&*Sx)|VsC9G5^ATU_XRX*>vRqhlxp9?E;k5fpwwg
B0|OeJQrB7>7Ql7jCrKaT>x!*<p}v86pEXgKIn@;8=Gtg%9h4Uw3F$~#$=Bj!PfJ-F3qdCq7}h4B?sx
MOO=!p#~>K_=>2>LMAu|0DbOplKLcb)w2ZQ?%Sl`FS$<tdEWcDH*%1$^LdXfp3=RH0zxHPi5-Z!K-8C
m+Ay4<zgm_0=GGAR2Kz0KWb{$wezN3Ecu9nL#sm@ic0;3>xE%q3Jq~TtX5{y<)W5J3uoFw>|__GE2hc
{>=}h}Z%V2+rNldDAvt(lvzv@otJUzIdd$$KmB=NO_QP-h2V852<ED>9Q3SA}&a$qxWN{$ajfTk4jw*
zErHRtU?Xgkl@i&6v3$0_EfNEopI|pL`$9FzpSs8rD2HBrR>4dGMap`x2j>9j0zPx(%?Baa#EbVm^0|
&GC@V3lMn|Jxn<icvUeVMlp@mpzCx#n*5G~`1=N|0G0dH5(eTNvVjBs#>>Y#r`Gq$ei-Bz<-xJ@n7=<
s?lvMPz7)t-~Q+0d9&%Pfnfy)MC>iF_~q>RR`XssaWlb5zUsKUR-mLEYDSOo8=P|gRFgwt?MA7dsph2
_u&yJh=(?zswL2*D~(o!A%{|PpzT=K!Pc=io>8)$Num*P&bFi9;hEWvNl8EI5&Ub@eM$PUdd<w#8A%*
E?JS&RJd**0;!jA&dF3y05FALF7UHZw$@PeC*&DMESGSQMJnRNd#iP|x)n@a~xE74;@uK?^!Pr@Dqi=
a0jHF$3+7shDD%WJiMKQWsL!KlkRK$7N2l-NrI~A7`&YRGTcHJ?;>Fyx2*<)O=)xO+2C`R~pbGrw}<!
nFw1A6!F-TsuyJdVr>PZ$P(oGVNhaRAtfY-?(<#90h4OVBaf+wYVv&Jm&V`yu_?N`9rH?a$XMTS=X?C
sK@*CwCiQZ_ets;n1O_{_fOO80qw&dB;hrFg4)GIdr=R4=LGxp<o@461fm{!h_go6LgxUI}dp`Sb+L}
Mtf+#5@YKXbNs!}-j}?C_JG|Qj8i;wZaKg*awnYKCcxK8Sz&5j$snQlQVE^;8&FFF1QY-O00;o{l@>?
5sq};c0RRBz0RR9t0001RX>c!Jc4cm4Z*nhkWpQ<7b98eraA9L>VP|D?FLiQkY-wUMFLiWjY%gD5X>M
tBUtcb8c~y}?PQ)+_MfY<GOKccvG<QHq2qeUU!a7P*cN(>ggY9;h+mq0=(CqB@{r#=n!4omm*7aA*je
w&uTJ^ObyxvX_nP%T0_%RZzfOb}45^O*TYJ?6M&xe+2gtMa%(5a_T<lx2pHBG}5BQ{0N_%)&EDjjW)r
bF8x%chV>LGYhj8;u)CHWQJ-toZ%_=~dP1BL&58J^j|t50$CjUY5d&AggJ8xFARNp@`BZ8fG*u(-chh
?Yw19xzZ5}$c-!8XoOsk$>dn_s2`Cg-A8g0GX^yoF7qFYEYEGXD&N+z_goY(@vwKhpqh@PB#)K_O%j!
0F@0OQk5~Sg$?@<5P)h>@6aWAK2mtey7DxJZI#dh=007+#001}u003}la4%nWWo~3|axZdaadl;LbaO
9oVPk7yXJvCQb#iQMX<{=kb#!TLFJo_RZe?S1X>V>WaCwbZQE%He5PtWsI3y2|3|9!chXDfe;C0RxEK
P#O1qK9#MN5>;g(d}(O6z~$JCc$t$1Y|dku4s-yZi3$BgL-K#(~x4D|ZuT_W1<xQyaYl%Ox)zh+xuaD
QEEXcz=KQFyTK+-Z;4POABMP$pJ2*Afo~*&8@m}z<&tqKr48B{uh|4K)WqB&`9QLZFbhXqAhR(w@g~@
U-Uto2_*dT7U#kUCMN=!H_bwAgyLE6A%b@iOePhtLD*HPmBIy~)v7YOX?T^;tJHgViYa`s4KGD4N)LB
&ap9j|xND8Furw_PQ3GZT0~~@wMD(QCt!`xnYqXKt@+zBnki21r?fkxhj=Yr2+Pv60*GRF>{$4JhKJ~
~2==Fd2H6lD{$8)&V2aJOhuY6!(hM{3J-vyR{$?t4$!T8vrC_EiS0Zw}`$(_%mgMux_E=PG8UhYdN)C
Nn)l*RbDa&ix74z0~b6j8$==Ns;rbH+0}gDZM_H4BwUy&baWO)*OU_B8wXkWx=oOl0V*1E>eB0@A=8=
5IKw_OS?%*tXmPv#{PnWIN4{!KuKL4qWLlBty00%g|x}Kk|3c_ba2(I4}zyk{8PF+YDaf-*tAKzFdFn
cf@fC!=7<JFQ?#!v@T&u4f4i~jh(yZ&fyH>kD;mDmLY1}`0*4j(9~dgiH;-`vdIkJ;1qI`kpE6e!XkA
@QY$?J{+5D3?96Ya1V(hC4cy%L46<5Cu5^-)Q@DhM@G4U=$9%wTU2{VfU9&2k0lGRnkJ))PCXtG|RsF
6~Hv)l!Mg>xvJ%vvWp7w5wW*@WP!8)83W-7$MHZsiY!EsBJ3CA;-R~4c-jnrANVxt)P<>Wvs9G@aUuX
ICxZIO9}DzRG~KTxTJRh8k^;!KMj*R8vWA+7$pfBa*9zxs1=JO6sWTrKZDFCM=xXQNz)kJYUy`6{B_(
5TE{9D;utdB=f{Lqr)&<F=_+wn!kc5dg;eg!|sO5?qzMr!@mO370VV_`$UeDo#-(TW#Geo*u@fMUnp6
AHWmJrdK9h3t2Gf0j80yDR{l*)ZAVVZ4|t?P91*$EEE;B3`4u-*uWf6$@mVj$&KzB41M2`3>-MZ!qTu
v>>U!|fU%K!%_LxHSu0)d6{GNgAvJ6hl%t%;$_v!aXdR7<phOnM7F*f-osO#+d{g)ib}e=w9y$yHt-6
N5Yv8n>%Y&pbtF=I$Q59M26Ntzi2RruK(LA(f7^}Gg!Y4;pS2TuRF0OGDq_lp=<1@Ly=>4yl+;DFAFG
Gl^FVT6p3mAiMs5AS}agC-i&H<e@XfIT)4-!R{?Akkfe*E;$>UsHPG5>s^Dy$9$Zr|V}G)6nrsgfy75
Bmkz82Uw5!;K=GZG9*wl{*?m&*71raFtGu<PEEe3vZ&L?x9-7;z<6+W$f*~99<36COd-hVkQFbUS^OR
;f1X=5>@IqDkbuV1#ySEH^y0E0IRV$M0p>-Jj#OZM6tmU+MkiX)T;cQR{0aa4~K_I;xj#VGw%O0IMme
1*fM=rtSoYwSeBkTCdg*U^2AX~W3w7Z5PEj?KIm{wA!7Vh<#gEorjn#57rXxJE+^#aB%)yg=M9&`5YZ
LuXzehE<l<n8V&*6Y3P||&c)D44k;Xgp`QGT7BJZN>y0*KT9o@4g{Y0Z7O?0%+M<Yk=Ku=suruZ+N`~
*--0|XQR000O8^OY7yt*Rrv#{vKVDF^@nH2?qraA|NaUv_0~WN&gWa%FLKWpi|MFK}UFYhh<)b1!vrY
;0*_GcR>?X>2cYWpQ<7b963nd8JidPunmQeb2AB>Pv{01g0T0MFMGbXhNFUBzW7V)JblMM`CBT0~Ex6
$97uhgBGT(FBIQ<&OP_DOTlZ%h{U5qpmoEAg6!xJS<Vaeyrr?maYOPOa*Z;U^xk=S-lzHe?E6)Eb}|3
<`TXJw9D{%TK%20@WknSFp6BVWP?H->OC$vfxp#xuq@<#^cznSbhCuQh8<pCKlwGf1TZtmoA(`qPJeY
p8W}2s@RplDe2!6jxUpyC7lB~isCwbY$3=+#Wo6YRs%TlM4w@Sj23(z4^5T%uXz&|ZY1#9WCXWf&A2v
S3zN8+@dFJZB`5-lzkI<KOT;OCq%%oXJ<v5?3@{59v8a#D$&cTN~&2m~_DD<mw0ib@rNmMfLeuCa67#
0Mn^lcoz26rc2^cmJw+;Eq<6&RfB6P8k-Etsv)hO?tOW8>Ms9LUeNqAktL)mKIoy)9725ObG-w0;RT?
e^hCiL}Yzo#ap-|Os6H=ywvm#JZn~}<Sc4MRnhFj{y}^+8%6AUKByV5G(@8DP+G2u#7K=ABIO+y#kzF
1>At~oK_5uhDNCs5KK31-@z~n6>Dc|N1j`fshmg^rzdn@4BhsU(1g{ccJhCs7sXV(UbyH!Ic#iAj<Ye
bIn-HVDot+X@6Sn_8K9~iL;&HGNegghrDMIl3c`&w~z<=7UVR}G}kYT*e9&PM~c(e^qqie8c)wk@iGt
lMk#nd(`DU*t@9H&A;)7~H%T`tpk_kh(Kc(dgbf{BkgxuGAM#ht=~K^%#1u}n_6^In(Z$BQcd(x3^Ax
2e~*3*d+bEjApzuY+$ptqwkz9s?iFk0aQ&jC~@*4eK~g?UwoQ4t|cx<bDYEvb~-&2;u_mtKX_+^wAGo
;N7>th2OH~e=lOn|B93y*PyTC@CI}W+#Tph1gciB4Z?c{P)h>@6aWAK2mtey7Ds3Q;WQBe001@u001@
s003}la4%nWWo~3|axZdaadl;LbaO9oVPk7yXJvCQb#iQMX<{=kb#!TLFLGsbaBpsNWiD`em65?}!!Q
s;@BWI#y~Ky;19B^+&{HYF?KQ0Bm90jRgtShYzprEkyO2_-E*8i$^Jcdv1v(y-KS<*u^&8iHHoFSasq
1?FK8+-g5iTR~NC6NAeI^S^8`>IuBuEmHoNS<Yh-%jDJO(`F*W#B?JJP+79mt#^me~2i;kpVR3I?1tL
c##2l$ILJ>bAYPUGORvSs<Q*%|W8D%`fyN$um4M2i;9f&mp+5W_gV94+O0W!O|K*I?JeSnvQa5Le|Zb
x-U8+|F9c~V<I$!2@IS~Tq91Ab-Hdy3<6%-_H9qmI~%F_wUzRj;MH0BU$cNZ5`3VU%0HX>-C}1bFQX@
>a7uNSotKo`cI&4422e`_1QY-O00;o{l@>?P)Y~Lb3;+PcCIA340001RX>c!Jc4cm4Z*nhkWpQ<7b98
eraA9L>VP|D?FLiQkY-wUMFLiWjY%g+UbaHtvaCx;_dvDvw5&z$xVv!&a>B@{8_s~{2HFXl@Vl;^ZM~
5qLxKb-}CGkRWRX!rChWpt&GyC8!N#`zyJ0Vaga(8y-H}9dd-CmY8tFxUr$<%c&H=C^3oSdvnxnofzZ
WFPuGg(wjuLw>Ud|t|;5J|m&t+J`-Whu)sJ$T1&Z$w=lom(GDS<6J`&aE54)BfHYQSIR*p>KtTi9Js~
@r|%7RN3vx$qBH^W`^NtBkH$sDas&@3%(O^9KxC;=T*gsp+K&F29Coi9rftZBXyf4vRG%ErsODPbV5(
(JlV369`m{uyM4_LS)Q|`6ucIUvqBv7c10B)*IU-?Q+S-R&pdBLHD;A0YV}sYF}z?a!79EM`4MP0l}P
nzNGJp8^paGpvjV8_3J!uFyvb{}mL>e!OPNonY8QS=y>q5TOq5n;-;CiAPiN2Y|1>M<UTC*%>v|7+J^
;0Myx<6$rZm(4ht3g7C$Jv3MWy%;$W{lV@8*lqn2qq}^yyP^%Xj-+M2Xxz9fgX+>yqt7d8T);;IPdAR
{2?!WtIZhfQu&|{zeHyU&OCJe{6u6DOk=YVK@wRR`FF1Sg($350(Ok#Fop~Jg>xZ`TKD}1T_a_+m$jW
;NVd5{T>*|3N|HUoi6{^lzE=5E*#&BJg-`^rpQHAowz2z%T}B*l2d3W9GFI66W)+`mZ)W+<XLNr(>*W
w4)#M>kTuVz7J>!-WJR-EiIT~+J-C*P=eayYY{5Ul?>$(XNJWtdQZ<usdI?_E6m=D~h<+4!0-*g~763
M0mtqGyfZMD>udHg|4EW$h%GMltg)qQ?aiVAmY0B)X9-+f*qy#im!I5Hxhafq;mOF4iQB>I~Kb~!~%~
ts-JhQZTLe$6_n?l^~!Er!2BHai=vLa^qXPKeKz)drV1}aYEQtk)kn<(MdJj;=J)Wte0!5?Vf&<<^X_
(N-yj)mX{kz=_eeZ{hft!wKIeHH3>&?@nbJg^-vj^+v20r+Q5QA;SxBt=kUD;(w)TLFfIMy8i3s{#7~
tdxZrKL@x0W|BqS-pLw~FTondmY_1v1JJCh1~jvUa92p!Rc08)fi!MbyO7krlnL0pd(zjVjdrW-;kXx
lxG-i8V1@b7!-W=VAbJ>Sd=M&)5ntD$^dLHLA0rJ8*eL#VqK;a=<43>;T%!WRJ`?LTXzn-I+Am74%xM
4t^N3J@m<~GMMeJ?1%Ub{Hd4<|yiFF<1(k?-Z;q1*~@u7{glutRUYF;-O4N}1_Cg)@LdWK&Y`1Kbi+c
0o3`Rnh4$RFW~pnuxC6ZKZ6G1z`B@~m>8#uI^=29iOEktS7ms0|E^V}+*AYxJ0EE1NtW^3oSalTgRFP
!?2bXrooMD(!h_pBQApqR81KxU!{_6)6-w;I?2E!4Ak}kkyPiR!TW!w@_#?l2L$&6%&Asd1#5zB2=UZ
Bal<DDb!TubV&&<dNqH2`Tg5P{BFK@bNwp*;my@z{`TtQ;voo?MZ{o%Ne9A93ikjaA?H|54>{Tl*7XY
rl4Za@TP2WaCS&>ht#b)SV1|<Gb-d<DElZa*{e-C}<S%=)p_Ql)LKLRVggmCRze>+lF2o-Bb&C=F-1!
9W*(nR2v46ARuFcStz)haMXJ_o(ltH8x0qRdNajr?1KJO^^BsxbBfV=6sDU#_jB6gMzYnB>j%pYL`RK
1hv8GZj5zN0Am$;zlX!BnkC6as@glpwh*Hcm<hbrrsqyu18Y{NnQEKd)cEUOu2L1Bk1zpi+)J34Lv?p
vq)D=bf@2wgPJlsGk%jZna|~U{=}V#qAcVsu~L}%nnEotjh0zn9?@L-joH|oEPEx6(+^HOogh8+gl(D
*hHpjQDQvgG*F&G%k*C;azq{cXlak$%r9SInX0SR58u;&ujX&(i#c9he^^{yzyFAri<`@r^U+V*P##Z
FoNU+ZEWVfx6+2oXF(?NPK7Te*dq5*Bjxh_wF(@EkkCi3P&L?A2cg)a-bdzE(bp)lKo~_fT8#-qXVKD
B6h=)k}7C!^-`tf{GHo#mgSCpdDSY`LwB%HdQl&>S@Y%?XQ|47RW5A~J*n2L!RVbRje)?Rv~w4zK2k1
=<qo=|qfj7|IpU9n&V?LX;qVjuU?H!bKQ3k!R<fJwBz(BIirAMEVj@;7wC(X6Ab4&ws?_U`#xx+;Yoy
<3mj;`-I~ltHh~B1i^s?h#xQJf5e|TVpT8LEHK1>8C^3Dusd#Qckm^4m_18k7zB&H&5dwuK8$hu_oiV
jHf)GQqOG$wc+pS`Ol#4{XHFD8c^Z*%O*J+R;0hH=ZAx;Z1;p6RYYn+6M&Z7845;btN=-iVQ_k?R_hq
}59-SmWLD=mnSvNs2T5MpM&D71iW@pPQ2=u60*6m80GtCa)9NgdyFIV7RhDP<(GEhSuJEwM#&Vn25r%
(5B5NCP2nI;M8w<>2$V^yZhrLv-7VcsK0}BXY3NbGPWffXGhh9FgB2sP(d#53WdW}0avF?Z|H!#0Ls-
p3HyA+%#ZkYy#f<CBryVF!`qExJ!P4MWYETEdeM%Iv__I}Eql<e&9@coEAVJ%VTys&2s&coKtH=>S>N
n;XJ*5YgRHE62IIcX8~+SE96q4`TwmRL?}3N1#{5>0QaDoB@@tBB!{^(|!GK}Aej@`htI>zEA&SE?OP
PgyX0j4B*EN9?jfEqAJbv42|FVn@Z|5MUpvz;!D`J94d<npi<CC~l!P0`xMTn<E~q*+sY3#!8m#jp}*
bQBnP=L}_u}?ZChwKIF$}P!Wc(MzLoQp{p{p7?d;_Qc_#(VnL+<(t8}>;;f3>S&h<&PBw7e0n^MDv1C
7p5p;Oa_m<FQR1M8&c<l~VQfSvP4B)&jqq$pe@<0;_=<#*mr03Um6f%sGHV`Lv0H@=jHwGO!F{}ML2}
u;0fKLq!S8$TFLTiH4ODfJm2;2O%vpzL<>Y}m|8!$LMZ9?<Q>aP+r=)KzT-+zRT(3wuBDFvIOmReb;E
n~4C=%8>_xwib&9g+|sY<`}z;04VQZ0G+}^};skJ461VXw$3M(1p~^h{hB_Nah2r%HaCJz|^Ta_1)px
63=rmum^P)dU)EFY$(`Vf*0Ueq^X?&_Vcb*%VVr&%HZdLQ=u`x8gmLUul@=jqJ_K$>nsO*4NT9|E(pE
gq5QIa`W0YeVD<>JZ<*7XWkpho9mG=4+H@1vl(}ukR6DAFl2_{M7~j#DYfwh=sV;dUhKigU)AbI&FSE
P|GtDBFg*R2zExTc8N`ph)D=T8uV=I1i-|k1aA?(^ly!GxWCSvEH-U}JK1t(1AW#zKV>D<0yA=H3jeZ
@qf<pX)srZlC24Yp2OgCDBTv_$RL0HT|Y*x(*bf?;ai<hlDMVXA~gs1W$28lo(h8n5AaX8hjoFv$y*9
3F3v*(>K|6ZALuUX=2}nVN$j)3h)0;irdHb_-zAbwGtTtqirDd1mEItW1mDvgtB!`8K7k&#-!Y1{G6F
aG(bqtbpu>wv%^bf#ZSH$=k><R0n&pq9x25dbv1iicf_+6eF(;SJp%Ekk}il2^4}|CF!KAyz9C55a=3
lhQ|rNQC;qKh|k_B!>VzSB?Y+;dOG@(r$Rbm03WB87)A!u^aHSv8vj^K%n=U*LMwg~8a7lQAU0%Sv1-
gN&SgS>?hp*XqAm3yXxf?7mw4B!di+~Euchp~S{k`xba8*ou1v1LsJRk~5M*&~g1s_=Jo|(**l#8i2u
mFjgB1p+NVS1*YU(7EP0wHZv#E!bFeIk;2QATe^Y`<ctC#Wo=H~jQkL-}v6w3qdGI+qp5A&B-ugwXO8
XE+?&G>N&t6AqXC*qnu_-Fzbj=BcsSYH@n`O~Y;;ObXSdAc`3FFIN#Bd`AJjwr}$z1e&~l?+uq+HJ9r
@E{EcX!o^=GjX_b$`@7KVA~&H5jA>Jjl!uJI?w@@O_y3{-f%o|N9d*4mwJTm2&1<IqdT11m_K&950ob
E+T?iOPTTL?bOrZEJ)0PjdhTrMx_7j6=jE*Xa1?&gw1BNyJ55v7F%9bQ53(NPh=h7$8h$Z<_!U4Ulzr
y8el@;_YU1;G^f!>+ds%4z-svJd`9Dxg0|XQR000O8^OY7y-RBv$f(-xwH75W7G5`PoaA|NaUv_0~WN
&gWa%FLKWpi|MFK}UFYhh<)b1!vrY;0*_GcR>?X>2cZb8KHOaCyyIZExeo5&o`Uv9W<j%E|QEYLZrsQ
8=<LXW-6uEgud+QAjItWo=E7DwniQO|QSb&+H4iq$uA7{Zb)_$>r?q?Ci`lFMG=@U9*KuxC*6Ya=l5j
oUO#CST1)1RwVYZvn09|SF2bq9N9Yhe!$d<pXvXffB!?rkOhJG6pBqQ(?mJi>Ga(s%hGJXt`jA~A`^E
p&zEVo{>ZaLCXby?2Q=d}$;GFfU9g)p5uLY})7kXq8n177tVAcw1kc4R5=&mh`7EqcckEgs%aYW+Yz=
$W>EzjN#Mm)=5GrR_nPg&1FoZCw!|=0Hl#2DM-V9#c_%`F4nM%Vakq_8-a{n;9xxJYT*xmi@!|nL?-3
$z$&xfsZ-A=InTdo)$|I#s9V%M5NYiFeAZn%QDTHaP(w|7|BEH?07hVEs2`~L2JGM!%E-W*)x5D)0`^
{2Df`ZvJixq0;Fc-%Fyrs#Bz*(Eav%k1$47@MX=77C@+y-x8>CUoYUY=hyyhj&vJ%FRk-YScN#gcG*P
^Nkvvo^Iun4A$wtWE}G#%^pvu#9ih)JY>%zn@wdTW?)dCwcQ3#Rm>ME2-EfHCQJVz!d#s$aOx+UjEA{
|K&LW^#HV1DujAVE)h-cF!CIX140JIFS3HXZS<uN2dpX&P#fj4Es}rnqVue4|!auA8dlZStIL->DndD
5;zOcYuCYB<zdu6JSIkb|mc+S!#eb|U>2{}nou-J%HnTc@6dRK2Jr;{=M-ydj38^cHsu@rJJdLaESM4
nqtq~atLwHZ9wvCGNy<d^Y#GtUi-e;yy050c0nD%5V66-uz-)nv+G#7iE>3m!hP?Mj9#Y}FaSqJR^{>
DEk%q~eQMu$vF>-Z5U}E9gar+5`sd{nhvE{pDEcrLLw^Es0x_!QB-=B<NgC-duio_b?k@-@TpOPhogH
ZIWHm!z=6pyBbwbZWNd_s-E2F+4&#ss2O^D{ma`?*YI<%`U7or<o@1IFCBaPsQ+qedeB7QaN4C~_Knb
Q-(Zv7PX7gu_K*(%@ji`2meAl~jBrr315(g?7y~psKD~57cHh^C=b-jPZA2)SG90nHUA}_<owIM*FgV
jJ=%<Pe@l`V=0I$ZjN!dN1#E*UU(*>;<koDvAX5`H5C)OJd`Yg>#CWn5YW9O|*`kitzz=O>&DD&B@r$
oFQz<|>{4bymLr}Rg)rHCkSG!V8)UL!tcA5@7@?3u>}p%WbkCu@s6749z*u0;4WTcs*b_*#@vX^##IB
WBLlI7blSoP#o2v@qqfP(bA_itQ1kHj)BtTV`YGQpV!o>?g5%@q2a1CWiXw5T`uS!p*`Jmx(<Nx8#6X
-fidM$>knjlFdG~EN^ugrv@>U6~eu@u3c%=k<}S{#_jf`-)0(@8!Y9LC24Lrx4Fk?&+aoWVPg-wjnEF
;Yjuq7uLvj1nka&R^T;TLLFxs~S|n_a@WZ<8Y&Z)GmBW7h&=SDq0iA*so5zg93iH(QKfvZZ_;COvfSU
t<0T<wejU(i-M2HBH3h2Hpl8}_iV_<Wz&#3>Bb@>{upN5xK+0$@2mI<__!(EVtHcrQ-cL6=@Yr1>M@~
jX(z#3qrXhmA)&s@e7o&rQ~j3HP)BR;7XJ#~vLM)o^2aDm)&DIXE0a5R)i@(pljlS!y9-sxzz<~tU03
Yaat$UxyzdMa2YA~a5pgIYqOfW2wSm`Ee7++6x%B@BRM5#nr=hDxVSA~~fqRr#q4tvdB-;dCr*dcLtS
!zwuF4)%x-W%7q@;tAXy$r^s!U)e%HcT~fM{Z+dTPaI{5M=hil2})A?et_#N6aOq}JrHjp2dKOF;wHG
bQ>Xsi1e3!+@`X?x{P=1gY6Pm6r0zo2c`Vlp-wy}uyYI{y)XzmAjD2zWAAZm3)jFLHIXSWuQt%S?Au_
m0lJ`jC1Llob*FHKr(tpPkZ565PQNkyEO88ceU`!db&_EeWfD|z#nPKUHftb;TXMC+cRIo9w$S8|l>?
jpCs1W$Gy!EQdZ#*F|S>+l40N*H-Bl##{TX6aW$+WHjGUzc=kZl1hNMoJLx;^R#WP5yL_7RKZF<%icj
-2_Cs#Kr>XPZ<hNeMKS-z5lBniCbF^S5II(Po}mgUE?`w&t6f%boo&(zSazaQ=E^>iBYGcs{Z<y&3y#
"%text.

(** Lines 15915 to 16064. *)
Definition DATA_105 : text := "r1g*B!hZ`iV1%OA9d!q++wBKP|3%g_W@e<CnGGVsL=k33@)^F>!(h+10ZI|gVmNrB1P<2bYuE;I`rE6
{$HZROZRmCV^MZb$T$v#2laW<-(Cxc}_$W-Q6G;f4@AYw{fM2RdHoM{ZpV>CeV2-5u-MI$%&2Shr)iN
{YbWycV{M`kPw_Vij0rdWM{#M)Y-))9Z{$uT;BG+Ej56pP4(i|zNHsfMn%CFKI*;J(2X`c(&<P)GFhn
|jpd;R%nz#j4G=(n@aM=cqF{RJk1^;$GyB<b%XY~$yqdVA{k9k^sdrSY?vl^EWG3qovOCUXu`?hU1JI
N(#UrXpRtS%T+Gh7^re&J#eBDQm4aQ&WZ#p;Yss=^pHrUU|9}K+DLa2pXJF<iX4fBp7<)m8m>*pdUd%
KAP9+gSjEQcA&={#7J$w5CUS77$g%dpeqrWH9b4g$vyCHzznPFHRe_hawxzQ<BJ7y9i3O0HG9)kCw#P
F1OGcVzn}c|!}a~-Y7U+%M_NH^&9%7Yr&45@cac>InNuP<r)+Hw%gL%uY=zx{+fGcG%Fb-W=-=47+em
c;k<4IrNUi*{@XsKq9W-2^v;kU)gz@a%1g@$ob91DUdSxJ4IekFV_x;J_-;W~ad7ky4*#Yxtb&gunN^
P9`0vzDe)e?2ttBPa4DKs@JJKlRq*>DCgLpkUUv3wHy-t+qv+3bM+zo@g6>wi<JZ9CiS+O?f~o`!X4V
oGDJLi7F-sM)ICO|;3HSK;6QF5|caDFw)XHZHHo<=28!vQ0_IoZNfnxx##I^Piu0uGKN9mvE-c<fxBx
2OgR$#W>xT)YCQNpuOonpBo<FWi!NK@P}6cyGF94C!eq@)A-YEDQYv@CN+i5FkPe4Qe}JQgiQru5*-D
gLdO@R#w4350-c6B4r>Uhwh{>uP(UQQ!D#tA42#mysH!wIBD?yi$Ytzx`)4Ipb)!JT!GVMCH|fhB&9@
iqKYFIuQa3XET1r)EyAs{g2kWU~p>mlQy6m6Ny@vaIZt@La>U^%5&*v8GQM4n>$1(xLF4AYwucyGCty
XSB{pv_4AZt{1&B~SpghTCW%i^tsDY~wije+!QIKIVeO`Qm222>7f=~nV_MR`cMjP89e(tK6&(rPh>O
(sI^b{%wh9NYVXCA-~-gi2;xKh^T}()p?leq0G1i?A1bD6mlzC%p<lmwC1wZ8sZLF}mb5uflX0_vW?b
tqD|%Pi+ZR3T-K972!1@A)Mjv-O0@7gT~UHLE&R<ux222l{8yaA5A>1-$Ee!iIJ}R2Y@luja5ZtfYD<
#rU;!C+EMqLD_f)hHiw|X%x>JW%6A(Sn~grJ3pbSmdcADVcqx0Koi_}xOyZ}uTb8dX1ydeBAfQD0K}{
JAq)F=KW`tq}4ysg}EXnWQx?|T7u_UmeNLSF+a8<y#ThM02YHR8q8=xd&!Ih+3Crh6w34}Xfkg_5f3G
&tz&(_N#)?Xq{*>qZ{J?8(u@bCE=>kO%ez$riL>nivqaA>XES_$moD;W<x#uoBxcm`XtT{SkozkWYq2
+*7=dxA0N8)w1mS0109M4Bkr@$mJZ`iEEdFFJke2|P+?d+tPBf?!FJB((KnP{clDh4|w2iPscyYx~V*
*Z#yt8#h?}y1?}tgL)>`Ds=rSqH7Z+*VWXv_Oj^1z&8lgz6eZ&xal^jVd4N79L7aNPPO#QLNXK{=ORl
$_bfbSPAVWBN(y)VCygWS>Fb3{6_<`#oG{5)BiGR#r}8So%flM4UrNhdYtT+<YdyD5Y{>$>WNx6p+Z{
C0JN>tw<Js#za|v3Lz}&@Fyz1$oX62=X7~j!}ZdZVhLec1maz9gT`l(_gO{gzgi=+wts|9__YaB*I1H
Ha*4S`ZrSB_R;wwa39O;r3Z2_sI{bXPIbcbTJk6#(Y0Jx7UOLU5})_31Ov5JJ!Zr5q(Ql!zvCi|TuCP
v^c6GB3R*pY!Lfu(>DgGM2W7;F1!PMHp8s*_2B2GG@SsJuE*K?cD&$Mr~V9QbR9_QfRUt_aaU;>&xYg
=Q3aH%y=$j?cV;ano-WTDq+f-@P>3j`<<U-P{jgwFMg{#R;0zRXkZVRyXLA_j`i-BS094kZa6dqioF4
%+@$%Nv`8YetVwr~uWOS9$?a5s@EDj}k7q(3DJ7xLJSKxF5|l>Tlr#bwSE7HpMDa0`iy{}z-CFKnv)f
@X)QGVVyEKVv+r@#1z^rs}VU`RgH@B0UheKDHZK^51mWOOHchBO2<~8#E1+wE||CQ9Cy}4vTr<bO3iU
^dN^}JhnKTI@Xz46{}2|IgS`kns*P)h>@6aWAK2mtey7Dwy~a9}zM002lO001=r003}la4%nWWo~3|a
xZdaadl;LbaO9oVPk7yXJvCQb#iQMX<{=kb#!TLFLY^bWp8zKE^v9(T5Xftwh{iWUxB$B&q*^1?;6)l
%jP<9ZO6@w6MO1&`cZ;NNJ32!3ILw0e&}!S?&5`jNS)7VJJa45OCqpX>^}SK3w_D%wu04S&AY}jqpFX
>GAnmNb#~4=BWkufvaPlIMy{AuOt!VGxE0K9xn->ii`jvj$t5#;QOUJ*+boC%5qh%LY8Qmd-Ck+S7O&
sD{qyrTi<hsyfBxak-Qw<tA78!wa5wRfQR>9)D+=+c5_>CEYr^h3cj$Wyn!M6l=?R?uoEgzt*@}kU^Q
IG@Q+Hfh*aEUT-N1#PP8Kh{X>OTX{asXcI-5+uT&(J}hSL@(Z#pX{4E`=IF6iIC3ah2K7bMd!q=O5vw
lr+rwH026!RH-XrDmv-Y+2VzSSbwLVpC)?wXmITofLQGWHPB5ZcH%7)G65O5+1NhwQITQG{-}W2|f4E
46As{Rs;dCT+P5NJmO)kG<@4D)s&^%hJV3?xA9~+poODvzb<a(pee6!zbS5JaRb5!R=)!|Kk}Augr0g
CxBlOLtrlhvjux;Uw-s9a(t$muSFc~)UCr4Q{#agLi%)#FZ$we4-SySX>GoE$z0hCz9c+5o%4*Bhz0g
|L!jL!8o8fo7+bq4@uQ`7nOmZ6x@|&C4?2MhI;j6|$&IpT+X1r;fGF<bWutFPz?sEB)YQ=JyYS*g8dF
$hHZ+`svZ`riJQhy{O4#kzEC#Yz7Q^rFG*|2p5Fmkr`dNJPCq*V|JQQX4)K*c}Oy7XBTcaUHdu$MtTQ
nU`2utuycx|9(&WXD)5c6(c}A6oo9N`gSd@Wc3DDZ2$ghaJI`s33RuVO)!z7v_ut02Lgd|A9@YmDvJM
ftrzT{C)Tym{in7?^Dk(<a6|!e^lDzUU(y;!32cOoUI$hEvbb|Gk^G7r5+J%$3Mwkw_|*#I<SITJ1fF
b2QEW^`<=*0-iWw>gY7j~y1%(%rmHFe+OxMi>9CvO*4;A1Sn8Z$2CI5;Xr-fp^TLif+iSIg@Hnz1KHW
6%Es^JC08hGHQtXdW+P5CW+YS6`x4?5sZ>}r%`FbrIas9iSr>o!A&;IcAn`ghjej``cQOafW?CG;VEf
+-;ht_qsK>$MNN}y06XA!kP(+v%0GVcYKJj#EFvM+MpO4x%CEuLaT)meEjl8}d(Qb32?<;}GRvL}KVJ
kG_vKQr$<;MX)}Lwq`CMhX9iPR*Q0{&?7PMFEU#Mas~S;Ers~E335Qe7;^&0Bl7di`<*&8DDLnAzhx2
;y}P(?(W`2&n3L^J#6%pJ!kL8Bv*#L{OLU|Rt<7wt$>O_L#SQEF>)xHJF-<2r&{MkXFm28zUX)nV$bw
8bd!*2=^nDJny&5<xRskNd-3iA1G@ny(pPifdq<Cei4B3iYg<Zz;15`NfCo}(X^%kk_oA8i>S?A(rIp
z7dst%<Qvl=hx|Rs_c@IxyXs2jQJgNm4?gTfT7JW|ffpj)_GSkGM_vBXrowqI>^a0iDjn;qA_fB1J$l
!k>W%R5~L)t@tJik-0-tRN>%(sw-HJ4Pni;6={n<&=1hdX2#mmEPCsX^lEXwj8!M=Xz%+Eu!3ygBfr$
=IUe1`@hl$Hc*m1xxPGe!>X`muiR(xwgn#Kw7G;L3uvN{$QZ5Z^8l>vSdgtHx!JR)8SCn0jN>~(n`xe
_Es}^CRlza+s+C~vca+`fY$7&I?Xl;mP)s(LqEZ7AfAJGzD6?Sjy|F*4_Lod4WJ_{66QqAP<d*Gh((b
58?lQ6w-tc-0+e@5nw-ZB#6jY9I=XKL=)+~1b~~={hoyVK2>rOpiroMV>WXOpN!JC1;kkZn;;Ec17D$
zg#ngyqJ$HEaC1)r=L$l<I(C~FuCf;b)#Ud01xBffmC2MHXLZKNdS}0BZr>ohC2(sGQ{rD6%<3Fc6T^
yd>NsnPG{X00-SgviNexC`Pg#hs0K*^nbL|;8Iu~L7cy@~LHv*Z&!yJAn+G;SjpK^}7Aip8RZT)bG!a
~sYRd(4v?`tIX9>JTA^Z&lsvIka~JQAp^RGdw2I9{b1_TTy*<Ie_=|uZ3t_bx0S6k;EjPd`UwhOR8lu
3?klx5~q9ce76NZ5mhGJ`%@DUk(x5&(eMImR-&;ZvYNnA0r0;u(1e=4Fesgm+_6EbOCZ2%_z_6NV43I
D*+?WHx=ShrS=X?i@n@P!lt?V3J{A;#I@?fGxbC7aEPy+u&F&zv8*jUv(6aKTYe0MSMa%vnv?@|Z#m^
wfEr$Ie3d>Be2PHVZ7>)Q-DO5Uvit&e$ouel>&gqF!AM<5&`zfvJqs<L`*z^v}MuwaxMxC9UgGNstPc
QB=s68<>>v;kQUtw~zY}a9;6X=MGOw{1-LL$R!r(|(~@rj`Hu@YMR(R)SXeamjj!6`$fpS%9SLl*K2=
$+KpL45?%XOt$z!&a!-5OaMa%~KdXN)kftX6*7|iT74?RtfpZ7o_az|Ddmi$Q-3f?2#4@p2Uw~3Ub1Y
z`Vdl5T)V}2X53}K|L!rygKI8myqO;7Ek7_(8QqI+%&}?8;0d7A946(FrCf)u%)`6&O*H!ibT(n6)B9
oQqrx<rPq4dS6{B4Ai|I5<0SQ7)?Hdo`^Im%^uH{ZNsWPjdpN*B+NOigVW#i`90QNrE$(oGk+9*kL5o
#UsD9jS`pzxNiKHKlN(+<ccu;xXOey1fOx+~~NSJN*^-(`Z3mAi{u@$EULk6o#0SHc#pjWg9lK&l=Dr
j1)MDOB63R*WXKF&mO%t;|7c(sk?Y%4^KKv+ZBxE)9fC{Rqa)GyIq%mdgvNbIH#P{d<NbPY%C<Cr;{Z
bd6Uc$Hse^Go(O>^j;ji-AMpi&}_1ozu5I+_we1G0LOghwI7Vm(-7)DTL?Djg#Ye0napUTpl5pOt&t<
zcw`f^j^W^u{ejBfRdB?j-ZqjdFNQrm63xA5K)$utz&3=j|(!tP&?ya0M(s#-AkmIFzrg+>}nrB$w*$
=6oYp)B_>B`x1yB%8ctnbX=>*{MBIvcMtp{)S%bzno-KdI>UCd#Aqk9?5Cc8??Bp~-CH%RWGR4K``h@
&t(J25%_Vm8ni1_28_OEcpT=+WhGz}I+!}sVqBiqWqhN71Yij|n<%4K%iax7k7c@fn64+50P_P^qNxG
)PB^<&E%2pI2~`M(eYU*P{2L@t|t=#y*a^m;@Q#ata_`>D$iIiVuYpu)a7kB;v=-5>jG;&Bq%x^b8g9
AX=W9C_H%G{(P-N~hZSTonJPhKMgS*j^clgJ%Z_YGOh@?vKgR?zF{;Osu9TFQ>x_|4LwZazy5f{GGxO
oS;H12TJT1V<I_iS(byUU<^ZUW-tz&G=wwvWFS0&AD%jRKtDXDrRsGW)U-S4$l-K8kj(@JxIs#LJZSo
%W&aA`6d;hip=pIXDPOb_@&haR`Qi{~SiL4i?QZWzcBk(f_#UsIB?M}7%%^y{zW~$o;dXdXi@j)T9DV
xPZk*<2BRm=<w&8yVoV?2_LUVs|j~L{ubfygT7GE{eZ1Dvl)ZRdm<?^48A<Sh6x8B(_-5m>!pVP1&ch
r9}SiX$+!Ca%+C&PF!-cfj#$HayIL85gngsa)ka{e?2K*;wQu<&oVY%Ki7x4GftXQgM$#-yJNGA{8o1
`g3jUz`r?k^rj6<a|lyBQ&KHmc8mup6>Xk>CL?77iT)3oknYv+1W~UV5D@G&<sd7welnVHcFfR3XfGk
)yX`>`ed?y0Z>Z=1QY-O00;o{l@>?a;^|rc2LJ%f761S-0001RX>c!Jc4cm4Z*nhkWpQ<7b98eraA9L
>VP|D?FLiQkY-wUMFLiWjY%g_kY%XwlrC4o`+cpyZ?q5Ny5lBWHdD8$z&gf=0O_N@MpxDbL=!eC^OG}
hZgc4Pf+Kunm-^`GbD8IxlDqz<VHSe5xW~kEWisf1<kvpkt%VgDP<5<lrQMk5IVlpX_Cd<UPTr?x1k2
>eLaLbJq?~T!BGMThSt+;c>vMY9%*nBH0k<3}bTerpEt+oz-Q3CyPzy4<{%nol#!#9<vU2+f7a>cD>U
yMozi_!$1fwI>$n=K~{u8WHc`u&AFZk=g!*BZe}ZI}^_5f+5Xdc%0l{{8v$E&KB6W5&K%Q7~>92O1!+
*&|miF_EZc+1B~;p+OH<pzt9ZX|hT?bTpk!=(!LjTdivGv|6RPvUBGBzxrL*V$LuG;TEG1ZZQzuE$;|
OT6|G>0$CR!dJMkfB}<Y34i>D|jvg}WxN-JLx^0>)l872FBEMqrf<32){%wecZ5v@yi1(a<KeOzJbKW
oSlJ~|ta_GZ}i(DJL3ZcAdj0W9q*9R6AU>2lSs4{W{Hsb^A@tWsfpSUUPi(FS=fLu!@-HxH_m@Bl08T
&&dkQBAd1yk~?U~bD@*6nBPIVj0c<tcNF0K=_=tdK`6db_q-wNCgD%Q{zWfyw8#!aK|$Lt$a08brZvk
Y-{7uV8B?@dndNFF;z_WlVzcuA-Rdu&dX&s{_Mi-$kH1<y<YC()kg;ei!aZo3BiT+K*hrU{UU24#aMC
X5;$U(qKsP%r2i5346xUKJ4>>XZE-E2DbZ%?fv~bT|WXn$pHtPhVloNAwZwE5L_&Ma?x&es|r?WNF3M
_B><9)ZtLO&Y+>UQEC59oAq7YgdzJ&%z$;eq9c|rOF!7D&PVFc!EF?E#5#A%2tee(3;BmT_bEs#|)~#
dGb!MW_KU)bn2F1kIUi7CA?^r6bO-8V3dvRntXKTglue5Klq7>WmN5Ph0bfq6fG0TR?y#K~4z~CiYE+
?a{eDmfF`vTe98<r+p=bGhWvC(>?L<Uv4sJK)BLWhhQhCg0C$$ZG$slw*bT44|)mJRd`NYtWhIVb_{U
tf-4Da$e_vC}<hcG9o|O*fsI<?Bn5cunG_y{x0Dcm_lF!7;!?gcu6(JHm)5ARGhZ*hPd77wk!}Cl35>
3#AGvreTkpM$|q7MAf(skt|Cg$uHTs^00=<)bGKLLf8pp&shRdN@4-%<5_kh0_K|$D`CqyRzie`iSqd
zQ?ewKbS6D;*hBXj{!!NirnA_r25k1Q95MIXe3pNT{2lobWLNP(0^UK--UGxKONkz7Z38`XRZ3%B3LU
->N>+Any!ur>Lf-I@E`<0nQb{KaUn@Y!(zD?L4hblc0g56Fkzg3E06T+ufiPpAygATa0!xE)3rR=Lia
W@wBI584{#H_;NaP$TV?`(eLrE*G3W(ZuUN4{nv<S`+RpLM-rPhlzH`i<aKSYP?#Z`o1^ct5ViWuY0N
qhOjt9@zlYxtuv&ztw(9AMqT<WdW6R2XjRwpt6*2i|7D0e%;PE1G^4Hyd$CHQLll)+<?j1292t{SuMJ
izu&vI0hln@JY-zD`j1z#i)+()lckloXEMxX}lGq>87&+_6#**xAn~7#aP5(GyFez)0tj)4acQ-OC$5
T${3>WMRe<T%fNOI>3tXOpTAtfW3PDP>uKnQ@OPq)TAZ$fZ0<P<wxp8}G<s-n57BWfV?V>t`9hSX2RD
)g!w)=GG%0uiIF@P5Ye%C5q{Ig)RN+wt#-&Hdj>7kPm>1B+P!4dG!*S$rn1;&sgHEN3<wG}5KYYK6{?
;&njXa!}x_(Z_q-5Yp4v$MokTb_#K0Bp-5CPr!xX$Qcc0?l#4$<-KySf%o!BD;CteWHJKjKe9=f6T!i
G9Q5p&RJ)TdDB;0_mLVLO?^e48}F1c$i78E0kO(wm<#MaZCjAs?E1Sh=sGflBI-fz|z*Of!SXa9(ZZe
<#nxhgqNP<ZBa-Zi@8#}xmS-e1U4e>zYi1|Fv>!5?V@=D@=P~QR$K)^&=cO>?%Y<_Szn@<o?z`zi&OR
<XOsQf#DE4!4D&{WQ8YqC&on$l&omdr&wNZD4O{)1Z|heP8cYF<QFCWHjXQ{pBm2Ag&JSwvKcild67`
(DoOQxJ$k6E!*d^3Bdkb!8gGboU!T_*v7d}c%SsJRzX$`e4g)1{{HjAyR)WVectAD-zaccc1ofogNAA
IT%&Y-WW(AW{LqsBz<?~(<zIQ%zF?q~hZ5J$W(p9BDusMeH&Vmt?hh<Yvl%fhO26y54$c5@i9Df`I5d
wf+0$OlLz0in@he#D;M)B34-h^-01y%~k}x7)`bJB>(-sSUq(m-p-nMyb1GQ0@otgU!14@?t8Q!tRq!
$E^-#Q6?OEwHikIy*!9ajfw!t$K5Vu@oG5t2J*vW^%TdV4Yn7r5i8!(aT5-^VgqwoHlhzYku;OGkQ*>
;?@JM0hD+!yhhP1uw~eTSo1krPsus$MeOrI-51#-waKz3bsR3BD&RBXRnX^|%bq$3HNjJo>+wAcc`z;
uu4(8~=2r%IGUp}D?1>FtjT~<sfE5>@fhzM}}H#?si(@_@xr#~#9u<Mh;I;4svT}P7sk!v{9Y=omEJT
lV!g5OyoJw!oYR*!tG0IRJNyckcP&FI5HpH9KlCJPvk-^0RW&}7}`K)gqzC;tafO9KQH000080P~d=N
8pYFHH-oP0M`cq02lxO0B~t=FJo_QZDDR?b1z?CX>MtBUtcb8d3}{li`y^|hVT9rBE7_rn(cKVr=?2^
Jrw#y3BhQsaUxchf+UlqrT@L7FWZWp&0*J?Jo9Geor$tqt%|R-d8G#+jgppf$>o7iA;^iJFw}KaGE=O
OYqjb~UAMjMHPkiX-AQRn=!;RJw@`<35jf1QQnq_I39wwrl=L)2o&vOx)oOr0kTRbA={|h~aZ2nbe7;
W#ZfqjI;PZXb0M*SgvETgZ4f?3g1B=i1NiL0b7DxDVINs-bd6V%Y1@7mZj{pPz%N-J16bY&sZ!Fo8zX
ie9Y$lbY9X!tC8;@rLiD(uJ*kl$FnnVJU85^N27O~OO1dWk^<W5E^4+ikoz=+<413X!h$W0;vnHn6KX
=qdYo7%241C74#7K&c3Z^80eZ8Mh^+?`iDo6@G(W33EYasXSK9)p^LS@VNb_`N@J#z1br>mD}5Hv-I`
%15t+H^pxbf*E3P^MH|cY@0Y+Ht9+sLHJq{+v9eb%H1$tfVW9D2)b9(F>awV=vnP#>tyA+nXdAn9xX1
t00;w%Qdw^0qw6vh(JGzSTQ`ClL%19SMoFwVGl#hTvb-w1F{b!R@V@1;hhm6copEHn@WEBGYdRX<aY6
Oyh07bK@HDZV(B7)|jnW#hQ)jhr(p?&ix2@nW>85bPjZg;aj@sr3CRFD|w*Frw)ERU#DzK>pL}mhcJJ
IY{xT4qPF!5Yw^hpE$*vOl=cMto8!AA6%Vl=vRyDJ?FTN0Kdq&g0(Y2_OKmZO~2*L+-2-{;~D&fwxQb
|3cTfWf7KlO;c?=;5Q*O6LmiNH61RldyyMlhF&mD?o6}cIg8jE^Qlpih=OGO5LQr-MB8czLT=}4^T@3
1QY-O00;o{l@>=65Bi<>0ssKV2LJ#X0001RX>c!NZ*6U1Ze(*WV{dJ6Y-Mz5Z*DGdd977#Z<{a>{_bC
K%2EMcK<n2?e8{p)s`ip7$uw1MWl=B*D_~@sRY{fqzOzk2NZLuA#s{$Po_l-lY*N7spfs&jEf}Sc6%`
i>q6f+IS}|((gfw!wktEe7RaONLkz_G1il|KXc4NCG<l|^Dq2uYd+1JVPdiotg==FN!owkDuSFTx}dl
JyP%9+Y|2~tHup(Yktr9Al;Bt!q&8EM_q#dv-_TP`rnGXZ=Y%x&!qO;C!SXlw6!#A3Ahd@}ob6S~lM&
6fV0&Oa@}UjMn>-Co}BdT@7VY)&478f#eCZ`ZGYXV)`2`mvnuX_<sq(7yr?JhCHAehhpL2}`3oSKxn!
liW2ay7mD$+e3Y6UB*Uv3f5)jJdSdB;vzu~^#^5wMG5$$*oqH=xI98s`Q`;$i~$mI&c`tmu4^6nSe$o
;e31t0`0D<MjacR2e|e389U&ynBPsRBHM(Z_+~(^IO<)9%0H>&80`}9YI6N?@B}*XXt+)*nXkxW>85I
nt%4t=Ok;@uQ#73*$?%ldrXGy|J^sp2)BSwUs$HSPFnWEH{EKdh;8Hts|&*kG&Q;-dh0o}9G2cV6-;N
aufnjEa-BB8ue5@Tz8u-~5}f+#TyeQr8!bbQ|&F`PvI!5MUPkr~I(k&5G;67y236NHh4_K<cp3DXL5>
Q6M9<j|QEnL54<VxBO=vhn4;seo;h|Mp+=-~PY!w<i0xzq&0|BqS3-R^nSVMbMStb>)5-94hqM(Ghjo
OpOI&=XL*&<_5=lCbAM+uh#4=5uO_HD*KIdX^Pk%1Cx^$=$SdccY{Z^k*?Q;HW_P+TV&gT_f~G|wW|!
n;BSK^_MVsC{lP_+?u!UotN{%>yxJee%UP|Mayw42+eb5^pGvdgp8l;a;MuW`@s70%G_`FVcJtb`{#Y
*ANpc%Rse}m;Jc&%P?g*MOoXqFb`4Db+4Mi;#RQgW4kawknSvY`HIl(WUm2QXAZV?{&15ir?1QY-O00
;o{l@>=m_|e-o0{{RT2><{V0001RX>c!NZ*6U1Ze(*WW^!d^dSxzfd8JlOi`y^|z57>)K(UiL-kukHT
39HQE)<p?wu{i(V@E`mTuDwg{q-G5c5ElkVOt*}X}+ZQW;9BrRYNGPI@@WWl<=li+7k9=l;|wbu#Tc$
ZcgSrZ+RP4&K)P&8#7R-reU%iVmyT9Xro%t%yK17R%w7gFj$7wXn5QKh(Y<&Ego30gD8p$!Hgk~-oB5
Y^yB(IBKWOVD?dJUw(Tt8(pV-0l%!?Fp4DJbL^S;FxP}I#HKbCyVK$4r+u4d~Ac7l<p6I|xfdID{4W!
|gAAlG<94eJAL1(kAC2N4>Bo44*FY63OMd4sW$fs7Tn!KpiGx9npOowRn$@za6LfA^Eni{KtH3p+3D|
ol}cXyb%%ve0DUZvz(whr)1sIVHi<d)LJfT&WkVY)UrZ1%^V;&4n%W-?1eN}R(wJNr*PqtO$MvZ5&|A
~zW;{RAmU&KB;Aw>nPocRRrur!$ihjLqZQdRDlwd2FoGaOGREPT2grk}%gaVA+A`Jg&I7^xA=F^VPEf
Vs{WS?^59wHI~F>QZNAV_W>8HSs?$d+<ozuSnrb5ApP}_HBmnC87AeUq*Z~mipz2<xZImX&YYSqsRzn
f+kz}_aQ5<ggR$oy-<Ak-a#x|mZR_9-Wt<{#UhK$`3qjtHtFpu*x5^V5UlSJhyu=^pMFd`iDwtTLWJx
nCAZm4YtBM|(FtCLDYZaQufot0_0rG&@m?b-ANG;SG6SzqM2B|0&k;?X|Uql}q#A$oo5dMXdZD&9)a<
QQJe=44&I1T6~eQZF2G`VfJ*j&M(nZs$BMrG#OueLoNT5Hv{$(MAFc+$vpC;J}OH`$c9jx_0Fp>NVcN
voB>Zs}ehtWtQ-9=+-zXfTXT)@~;pMymZgMGN;fq3`%mCH;PxSJ9H|^kS<qMtCIX{^*W|QA%Fed8#H&
B_9G$WOK5|t9`Z|MRQYM@>F47&Zb^8w{lsT8#&3`#_V}ZHPrBaHtI!VI}G}{AICo#3?I?6*C3#cDle*
N!gW5GPb$T=7=#I~mIABEW;3IAl6imZ@cdy>W=D;6mw4~bB>p9_0{;R~O9KQH000080P~d=M;;c?ovH
x<0M-Kl02BZK0B~t=FJo_QZDDR?b1!IRY;Z1cd2Lcli`y^|zUx;EE<p~YX3wSRB`j>up{KA2#U9)0S`
Q?dtpEMWvgJf!busdMFU?GAwFJi6(T^4x10jvJ9{APiVf4tBJ0b0iGs09??y%NUa@8d8X}KQY{O@#nJ
)iGj{H)P<p_O~WzFMm-A*3F-bMS_PSqtU*-TxvGPEi!+Uf-Y(2xzs1)!KzZ1Sl>MjzDJsjekbRyZKi_
"%text.

(** Lines 16065 to 16214. *)
Definition DATA_106 : text := "0PKv_9sFLYe^SAX;clmy{k=y;Ndz|7f*n=qaA*&pmj@ky+s>^q=d(RJ(bJRDoi(EN2k6i<C!`p-WvN6
q6>q1z<a~Yr4Wcm|g`4m_C>^aqIOqd;zy_{UbY@H_;Tfw8w+=(la-V6{vSDk(W`)bk`>gMKOc~*ZpfC
ugUTpMblJHkG_!)<nr?eRMM{NtR)kJ$YRoa74c{_5IZp5$+$8TFyCY?RWIMQ{2aiOF7Q2MsXL$PxOh2
3WVp0Pr%XqNl0dKEVY!zxnArz^swN07*s-!vojDTn34VYc2Sg`YsH|5~UrsO}#KDdaKl#$^lpFt`=5%
+yxK3gy{6pYlQQssCS4O9KQH000080P~d=M*}W(qBjlz07E$d02crN0B~t=FJo_QZDDR?b1!Lbb97;B
Y%Xwl%^O{B<2Ld=zk+bFu)Vdl_jm~E0=wDmU4TOoG`qJCxj>*L+EycrDoG{r%l-D7;fF*@lt0owoKSQ
vab`4}?-?o^!S^IhH;rlpOH)$pYc3R_Yst$-vDDmOUD@X)-)@U)>u!0?1XWzL_tO1RY+rARlDT`iYgA
FXyB8`dAS17oI9y*5xZJ{yvGR(&W~^4^RzLe91Q!NKuaXt{l~?TQYJ;rTMV$!thr|Dk{m~SH?OCPnnd
(5+RI-fk_q56*pf_fv121_-RlzIifS(JY8d|dIIjwlQE%}<33z8R7;kINdvmH?C2ozP$ULEos&7SC%{
ellg2V-{Wzh$O(d0R<E%ThC-H@_g3L3?*6*mJ=f`Kc+&{Bt49<Ewc~+R@AQIX7?U-m3X^0IZUz_Ph{1
fMkud9hiF&%RtwMK4{KrSkdfuvfcA%mfu!)Mg8~hM%jHdv<`WYU??rSJC;4AHC4Nmzf``cjN&cWcf7f
w0KG83HG2Slb%o~11Xzf*(`3ukzx1<NnpSiV7Cr~CtfW#pIa}GzhW0QwRyUbUe7%s`s8bST@A^uwEy>
;C?v~8ZzPQ=}5848loRdZZBSdu6iL6;xYzii1Vv+xSb5Cl)e+L1RMwIRIe}NsA?MiMnP_P~V7eIf{6(
f>2B4dP#Y*#!Zn1(}>przzQHZ_V6^l$cpoM|CXJpN!~sG7+F{H@4#`1<D}XPOeN2&3`<4tyYr+npQ;1
yEixuqSX7Ug=%J@|w99u{;T6iMjwaP3`j3@YzU^D?D~kguH{7Z^?tT;z#mRRE|HB2dk8&7W=Y=Pm*MW
(ozJ(%%<N$=wZo#ujfqq8vOYrLK&zQjs6(UPgbKy`$G$ia?%L00fQ9>lxW{d6D!-CZ6MAURiV;!CRw>
zkoQz<CH(XL>BXA5p#?#G7COg*AjUjt3HYd2Eh@yD6j+wP2f`=reh87!T>pUG&AKR+Wbi*FXaV||&FA
N0vAj@pU9t;Me9d2grlTT;OT;;f)Gp#RU8?B<{=ZZpHU__g)tpJSnwlk~-CN!>MW3lyO@~XMQ`(ejh5
0aC*|D--4Qv6t5xnvzAoO!WrU8QC^V7l6Bx+Yk@=^eH#TA5?x}*?T*ej$w9W^jSeAsXdyht}n&c5lJW
MsK)>aCzT!?-Y@<}qm4i;{aO)Q(i_g*?MMwLUti%hZt@b>xs{N=|!sOD*XB6O;R*s&im}sq$u%&z5XV
eLAi(SmPT%mP6**FUVvlI}Gq!DsoVoM4Xo$RZ|H`K>(417o{ij#kn%|{GydWhH3c%hms<@)Rn#&-B@#
qDkQ!}GbFc~N>C(Am1z0^#%aD;J4MHF8OGBAXaJ;)W(cn$pxmOw*b_BaYo`hMip~TfJwx%sPq3y2mLQ
(@)xvb~5F<umb2WpkRAmRG;dCdV@{-8oo4sMV;ZQUz1#{UrCQ}WQj=`KMTPW8mVzdM1x*#n%5`-!C3}
D3u1r4=@hzr;4zp0msFLSC`GQDiyx5ko+Z3Rp(TOWvS-vFg!Kxgj%R#VXi)KcoUJ!{2*zHB{wesWiyJ
3(&(Mj}tTl!s#9Xjd*thNcVh5ic^jMzUc@)ZQyuii@c%)Z2V`;u4>A*1Ln+L34sco!r}E`ar<4$pPx-
SlpaIqEY~`2OmDv1(a;%f&BM_ZV<~43#`1~eZ0H-{PF9@cmJ`kf&XHZzC%UHUt~gN_l)^$<veS!5HTG
Ta)TRBzTJQME&cTI{!5e^f^8by2V@v*r{<Fj<<GX;sQ9T&hf5dAy)|hH&b-A+5sQfF280PdR~Ao9_ax
v9do9t}4s#C0tBIUu2N?8_3|;d^`C0EhwlMGYi;^g*+4qmX{d)WBKd#9qXjH)rOm$<)LZ>POG&mA@no
7%+dqIpIwwFb=Aj77K?4dD2Cf967A-v=MUm=Mo2+tR5NN^sn6>&lL$$we3(P|DtuK=?&Ei29-o|*9?o
pBTs6$Dy>48)b@yehe9vy<gA<NF#UIEmWbq_ew8L?DwmvfJ}lK#T49#$b{9V3h|Otq<Ac><XyAhl-!I
jSckTm+ZrE`<ZLQ%Kj|VUIfQTt4AvrM14pxZ$w)c74)bV;P9$Ecvu(tPAx7@9nM^SLG{FaBr6-J41qQ
jOC_TaNO0hjgVU6})-#E=H6dLu6|Kl87yxmHpvEefMCul{!$0Lep=>kYrV50l=NGOU_kj2GiCG%yR`8
|{MHf^CNI}Dd($KwqO$DUWsMUGvSY9xp!WaH+;c+*=1kDLz?#(nzPi`|#y3s>cJK(T8aj(P48cs4KO4
yrtbmJyMZlI`y07qR4BZeTMHI(nQC~(omLsv@J!E(|P(Mbz}@s8(2|Dx?Y%qAPC;>j9n_hzkUk<4VsP
T{69G|{v?BvDocQ;n#?>2jz{<UNHH`6O3PsokScr&!}qm1ewBf|nh5@Hj;2gu3$N8~R*X@|Tpo>b%iW
4Ijr)nhNBkJFgy6w-7_aLU!bB{!)kvp#UoFJl%1rIza_b$KC~zzy^X25uSzMw(m>3_N}LrF@V0;X}ew
7e+Qn2&LEnqZ~8c>^K3nsfk|FI+fbg`xNgI(g_+0j%$VNw4aWUUFVLZNVQAx6N&GR%b+ENI;`Ev<h+L
Svqtx0_T%1(93^X{17>cEYt|k6E8^Cz{dV`4**cM{$Mckm1LezMVg<ZqLV{B7F>l1Dapkjwmvv~-Hm!
Jh?rol1NYygPY<c3zdu&9|pZ->z5nlrZ}J;5_w$+E5NV?!pOhTS?+doE;w`K+i+tn7GChM4nSTnVI=K
<EXxm^rS_1qMId6t644d&Wb_v>UX#lf;N3I-tue)rTFv%^iv+`==a#&*o9$0nV8DbwKmJoy;7Lp0COn
imqGyj1%x-(F=)_?g;j%&H3k)Bj)y1lhFqrX8tS58rwPB+jV{UqMJUC*cxV~qH5Tmu&5p1v(=RR*jJW
kG~t-T^XlG0&#Bvt2pA7tAh1s#;g#+2#j6rD?GR%22>z}CLcyEkPN2HsGc#K<gCl+Ncun3(9B?hB$?v
?VX59<sed+kDJ|2(VdcYfU;STc?{4vz}#G9jQY_fx{c+H>!awo^&KWL9y-)pANGN0jD5gVjTaB^ZkS4
ha69wNLD+9(cnik;6un2?$v7|5pB0wmOGDi*RPnxUlEZ{Za?!49E36VV3~x_q_i(B|kiAL1OqKD)jOs
Mzvy6`=Qu*`sA_K+R?}C`lBaqt4KIW}Xe{HUTYlm;ysWrY11zT6rh#Eit`>h;6CSs}%=PX@Kcs(BRyE
_>xG#v9@oGZ!FjV``w^#3J!srM_YhC1KYK3(FP!7ARh}jP_d)+WsT6tdY-854ERLP(^8Y2eUFgI3yHm
6o|v6$nvi|>h1RGsT`dSa5>Puj8UVX#3%T7uG-X+1j?=&`j7>H<U*K?4&!t|l4H+SYkW)#P|0J7|Zet
#S*HHT>B5xF_{es7b()@-WnhXoII9L8<Y=7lDg7&_VauF|YiU*FXfV=Q3qPT6f1Xm}xvvuOCS2xCi{T
g{S2)?6e_Q0#fu=jCbGvMvoBYhhO?Uy;LvHIsIdfV3&UYitIixcS`Jo&Au|9nI+enH)d$A20}>`H-Eu
QV9Z@>qA~U-iLG?^;gm{fPLWKf~nM$;>`T_k2vbUf^DNzhizncw`1Jyl(I%Y0oX<UeE(F?WWg#nhe%v
EAt&mf?xlfWd9tFA+4CN69O(02*5u3a_IAhcbuOLiMHP)M&34y`6T8PWW#)=W^RrKs&n$2yMDm)q-73
~p_)Rz;(7pFvR9&q^wJ!r=n#b8*o{*$xoKermYNpqQxB!|mwq;Nz2E_@{n}0*p@!S-ecBbf`ig;a4-;
>yC)YD$9K(cx7cj$)2_@iq%{F+f>e|&&w3oFjX6z?}aibpL{&@1SmVOk*WD2YO)x+a)=&-*y3LcjsUO
y1;%oz&drc~F^Wo>AIU8~Wwt-FuV==xm!wII@x`0?up{Ok?CCBb8(V{$hse1>(pvsHa86Y*)htY4p=9
Qjw@*euh>b=+$WFVV<xSUe(Y19y91_ZAhxzVsJ$TtMi*$YK-OWH?#GgW|)fWbLjec38RZx)Z7t<~;?j
GR3GposaVgxpZ$^$T5(O{!;Z1?Cfw?<GOV8fE)nogmDyhG-d|`H&~kEmS#Y7(SCgj3Dq9EOpgTO9wlU
JfPWr#ySX1%WV*!ZLzLK2TJ{t9FYX)i({HY+9FORZrFJ%gH%C<M&Aq0?4Hyvr2+pQMJI-w|*0}df*n6
*@ZM3&<$ssPNgqwIc<zJ_5F*NdVf9x0-CHHt#oE?Gl<$2OfLV<fi(h@&|XS{}NTYHWE=|Y_Q!Pp`)Vs
)3EJ`PqOCF49OPW}gSqp3FaIT^??aensE;7x5yo%o5!*p#{ZvyAAtH=F?$Yui)z{~BdB1%>GWXMec)F
s*?;U``)<(<nV1!N16;a0*-kMP$OhBN7}fQN-!ZtF<=`xnGcYWI?HfQ|lh-k;vTBlWly*)pX9-$X!!A
tL}zG@4C+}4VMYIw|@c=`9#qt6@34!TUYlLG+InDJ)V<$vUo!g;b!GyLhNS#c=ULt@bUVK1*-d#LY@*
QCCH{30Jp~k;S|_?WPXB@IcX)e`JBUyo=tvlwQ~kPIg_xb{QpUh=(y*r(foa0BKAr!Ho$vBdgXY)jKU
le8x9`K%QbX77x+QNMk5<Zj*f3e1s(3FxB322kOQ+HT=XLS)&BrcO9KQH000080P~d=M{$pn5HJS-08
<<Q02BZK0B~t=FJo_QZDDR?b1!UZb963ndCghfYveW%f8W1Cqy*bnujzAO`_Pm?;JB8y(1#-k#nx_o(
ON!9PO|@fXY^rP{@7f&9Mlh4TbdcojDGVWWv}FsP`d9-r#PjgKDJUB!tS*co#E7dZ#I5h$ity-4x7y$
`P#ZI=o4=$sRCpBc%X`F*{PE25!pS{yp+cyYpOtc?LG$@{!;SR)Uwfm<o8+|Ro{0w_(_@@*^TMzrs6M
w^hT;9GuN^)N{XE9kA{{;(7hejIr)>7kL<v2kV)m_Z_ZTtFvwE;Ymju?Xv2i~i+}BE#gDu(0~u%{dhH
I}(Ap96idG|CVLkk$wWhqP4Z9b7kn#M$xd<};#gA)NK8y&;V<lrh9N8nMZj2t3?An}I<K4$*v%!7git
NG$6`<QkJC;(~up?}324tmRT9c2Uns<Kcf3vF%f#>4l!u}!!=}jZ8^PR?3OVL%Z010;KVq;mne>Gu>6
9N3dS2u)_5_WzIvUsCwQ$KN{!6KNH3O1sMmPJLuh6LFYJJM;82}6N`kjqxd1NrP7bQdOc2X?3va<3>~
Bu>$a?*Z_2QyWTC&BZ<^ADB9TaUVWBK6^(vkuA7y<gA<^c~<n?W4=w#2iu2xr9l^@FT(enqF`0!w>9l
2@kzEa$>Hx-cBW$Btt5};S&2NmL>mcFYgET41YjiVgxTFNp?N&@z(u=rP72a{ACVMdaJs=+lD$Rq&S~
DYMxyW^qj`}2u9|bFd0_uBng{6waQuarpwQct6i!JYOD5i1!!)_wyP$olmFbw^%@Z*X%#a7B$wA0_CS
VoF?3myrX{52CPLfELSJlyr({?Eqvtjwc{3u+`_+Z;<u4cArvr85xzJK5TXv7I)rR~gsx4|fI7%sbo^
u}>B-?E$AR=qpU(u-T0r4eF$tGM8hfe9Agia&87TP$hhi7Sm6v>?Bog2<d)ENtWj)FdL&2YV<wnrMgL
Ucg1Pm;I|NP(BgP3RpU-UoNi}EmPpek%ZA`fdxdFSi~>+Xp!tKY++}zQAxP(YEe<YzjSZ=1YaL~u?fp
{N@&zsqy3|TF%&66t`*1h!~$T56G&JKao?&MCyj*Qs<jIt-y9W-(iDgGtciP=7)mIfin@8!JFjgq48<
TBjM$Cri7_aIe5U-xaMdu;ON@t?Sh@yaQSWPBO_+v>B{ulGw%T}VjTLb2VLn(7V=*~I5;i6DL25IQMW
ZnTY!qfXTJaWIT;7zYiG$Y&Vlf^kJO4Y26$GE^nkm$<wHRTm-iN6oRPC$DGJtxJL&J3H>4(7JVk9M0&
=o0R`V}dmnypCbEAf&Ty~c&{0Cjxe8T)ClFLKz(RnYR=?mG`DDktXDVw$!q*sus`oC**Hje1CC>0F%m
zNa9+TG=kYRDthmmNs2O4*6#<)7d0G$tCnG*PT+3jIRiMe6*U_*Uy*wE}LZi@VM1o?_fK7cho3)TgOJ
vMU0$z-Vtlw9a09Q_0WbF{pcO}c>u?YQH%}@OJHuKBZxgX_Fi&(Xr#iv&JuEsF2W`#Pl_+HZqi|aEL%
x*sOsHNSf&B%rl<Hp#GE<erM3m5SQz_^V276X?c9UyLo5hK<`}da4XqeGa>F19Sei^tDa?yWvN;}Sbe
L1&{I`xVG(D_?JP^bytF598pXb^<xWMxj*5|=K(g?Jcek@koSIk|+J*m%UEAxUh+lo!CNT&lM^{wZ70
QBA8?kqAEvcb1PWf=-{I(HD~Lxx>y2PYn|S0S`?S0rFUbY%hoZ_*5%2R|{Ry|ADqUQz(paAOg?U)U+|
fyyU~%oOMYYwpuIX7NsDw{RU(;7y5z<Qe!r@>5Pe$p-RcttDo+p(P0e^e8L79Ihjqccb?Oq)$h%*6c{
qHII#aZssQ=qfT>E@j>VTrw6Ld&T23^h4-BN1IK|0I>Yl5fy0}X0WGC7{K#1|KB<Hn1_VdwcUHu7?bg
UG*4RaYI$mYj7JLu`b<@qIxO=|E%e`f3>yl<oM9;z++0+<y{!%Hrm@G8gb321>E$}6Sh<t{OGT%^q{5
2wOPkgbM#(>W!3olF4_VN*gxm(C(6yp<=TQ4c`a_e+n-DQ0MVbbtW`v(l#Y}lvVzBO1~1j%!6T^2f$b
0C69q&B+NQRKtPQY~FGoCCp#UswH|;`lk$TvWbWjJ;s{r?~SBed&5@^gVUr+iJvX^<i=hcDEM&76uFE
nogSRp>h8|8*6tzXzB<tLB6XuR(PCS7C2w=kh}bjoiQhjO@vam6YO|jF^klz`57SOt|iOgQgwZgIsU&
ziUSJ`C6-?dEIh_sLeq7rvxHodGZi^Hw5*eb_*<tyq?kpLIK3?=hFEc@^ecy|Y=Yh4aDu`nq0^t7*CM
CCyIwqXyzi-X;jBt_JF<Fg4Z0Pq#g^D@{x=0t;LJAv0Z>Z=1QY-O00;o{l@>?Y>*thL1^@v35dZ)d00
01RX>c!NZ*6U1Ze(*Wb7f(2V`wgLd97GmZ`(E$e)q2+S_G0>M<}rEC71_vX@(WZ(qMM50iGc+5^b}QN
R^~wdqw~I&Y?)^=5BqM1K1LI&c}28NM@^KMY3$$m`1TIBfP4mGK4;ASvH1c?fY!z#!I=|ak2BS`lS7%
VMlXNw4Tkj2wC$weWaS@vZ|;kJnnV-Iw#AA>+754vJ)=kL6njP$$MV^S(U2JSBeU4jR>+_6zmuTPxtS
;smAb9`>7o>nPIBpf|i-)f3uNX>fG`2h$~D6qn#i-=Bzec3O(}SMk%Q}Ic=zEbe7A41<AV)*>7)G*T3
E@vtK?u+`a3hvu7p>sk~tQw96FJvQatH6RA}5V_M1Q4)|yzljS7`duOv5`oR=g`23{c`K=v`vrNzmGM
j){UQ(^el2MiKofonDO|E7HJ}+LpXs5{*ti#Zfn&wY*2WubpQZs^R1m<)Ddg?@SDGcQhogY6nOr3s80
m4FA!3Bx5#f$7%qX7v9y$m52wURrsmTibP9>ojzRRG7?Wo<&^yj^KDv!VstLLqa(O_s%)mD@RaMb%Ej
&#R|{^RLCMAufX`%n2$aY0&R$c8VaA=2ek_wK}DReE_rLAc3Fg^3v94G#?B@S(rt1Zl+>}K2x=b9)7=
_C~av|ngu$Y)~A|hjVgyCdsfzq=x1m(0{TR5Awp&^1-WnIL*CnFi5(QVa1Tk8%!Z!TRB5K5x!~J4*Rq
|GO&!0P51miCkgG<xXuBNF3C6A$Z@wi$8asM5FkMj&R`=T}j(+1>V@E3Xso{zhsMb_a<s@zkiP!>3(x
}Ue9f1<T6~ds6)}9*;6V~=tJ+{KZ*bc;r8e|(NugdDi0i_qLz$gb^m_6v+Nx}Nw0xJR?6tXcX*VLF(o
D3bGAWVoVPS$TW-IBH9z)QdokT@NqJ@XOBV)&Z$?Fmkd!q0&7MPTC5@PxZU#$6!Wq>sYc%Q}`FmMggD
W?SA45(f^x+tg%_4KIsKGsr!(lLsSI6E`-BpWhMyd%91=Vd=S7PX_8356~QtXu4$TnW=jvkEcFBSZWC
2ss)jJVSSE}@uDjqlE`tFANc}9QbozR93UL<Ge&n*fVTDmH{0LUo{^GkL)v`;o#7ggXjz^JZKr?+z#D
C&PX1uzK%s-eoQ3Il9rIv3Xit-9Be4a!D7j!MEDY-a-@`n34;mI{Y>F_FKtqrNBRLg7`79lnAJ$!v&t
L2avN`w(s$^KDZVQ3IbsOAGkHr1PU}t@-I|1i}7jUnAgdCjn)0yoNsR{<2w(Ch@J6l0;9s7J(h#uq3Y
`}JCHc}oq6n3d6cG6=W@RMuQ*kC{g)A;d4g+KG@Y*%CM>5Pm|CkU<G^X42B`hr0CJDmR#-dL&GzxlB4
R@<bsuHpO=yOAD);^!qs%3wutTT76K-5&NxpSU?xbY0S%g;e7)(i%6w;oC0N3lEaHq4?|8jZ$&Wl~7c
;g|yHAtz)BTHLR(#)>lSh=TdMQRt4Dutx?hl4z%EF<p5MAv1JatEPapJuoOHuZBtQ)WgAWdB|&RGo_Z
m1wq#ad;Y7N_Nhrl<S~d)du}d-(=c1(5V?oLBiX4L*orGc-I<{D;#uZ0PWRAf4OFJSvw`bX-Xbv}vO1
Nzcdup<m;h@WpJ3I_|p<Oi0k3pxsIu%)viXP**WFqd-OETu7Bq6WK_w7moj`(HCimb<A>pF!4>_?Uxd
(3VRrnc|<C;Idt)f4av>~LoDzf&Hb#-pfDK%?^ogaczZrLUI+Z)~=)+N)1k1Ilg7O#m8_Ua-U8`BMCf
C%y4iN*dXBc_u%X<cFbN@)aB6=r0jLk|OwfMdB&aYw}%^q#q@Rb84&ALE*lJcZ&-R3ts4mT(k&j`LWS
v3YN^t1jDG)Fskik3=TV68RG)Un6GS(A@kFUnsQRn_VTct@VJN*ia$2?0)mLiMAvTY-JN#4`viNbVRn
%*dG<F>WX!YL;18OT_DHw|JipjDK+*fV<?8M2?ajL@NC1gj-6Wb1P|q(t-Hg6%m2U!{K-|7v-7HsEIB
p@FrQOzO|4~351jqjY+z9)Pmzwc@sr^xJ9B&_LmnTQ90-7x5&@x?vIcE3rbIaeu60w)LthbkT^xc}AB
(r}2P)h>@6aWAK2mtey7DrNv&_*E!003?i000yK003}la4%zTZEaz0WOFZbXm58eaCyC0-EZ4A5P$by
LAWR+6}Hf4W8N0zqbt@nL6YsoFjz*SZPl`<l2p=Q*#Eveilju#O52zDA+o9a9q;3J$742990;YGMmLg
EN{T}*q$cb^iL%k0w!bHn4a)HYE6TKHQgP`duQ<<d%*w>Blw!Lrs;&DelttG?ojx$dGjTYuDt8Lb+n=
3`(o8psW+Lax3Elm5etvm(HzSv~x7W9wEPdovF1#`IeoG}+qLCSgZ6|07n7VW}rCY8)n6;SFiXFh?1j
MqEDMjvf;>j8l+h?+v5co`|Q+!E^Y9r)<=|WTxA<=+y6(_L$K}Zg7!Sb@?IjLE;XIrjP02&3j6<84|&
=Q%IMu7k<ISE2u*HUcBO4O)ct;sJ|%daF&y&~0sUGf=qjaYQTifCf6Ip090i>lC+#)_Al8F|CxR>9-V
{>i%9Zc;;ldf}K66i-r*?&CTb$fVgJr{IE0S#G|7VX>FMPc+{|Gx$5-6eU;DEO-eS*URYC8<wG}Wu!E
Onrhkb0d&KfQZKJqsd)Hm$IE)z#!K%w*)(NI%0fZ*Hob6}T?vGfaF*>{^wKDqgdVo^PXWlKwl31G6ip
q!orOV2y1>h(vN5*_o)L^;FY3jHR6?88MPPnQ;`E8h3Md>$rUVw`rsPme1X%M}<eV^PaZ5IE1D^`*?<
<oW3ca#r<QBg++;9r_?!1LUf`BSmSDeXgM;)OkvMx5D<k<XL7L}$J8r!FLIyFH~7T-6?F50?>8pR;KV
23YM^L)o3(Gmi$p<zK%v0ZeT&LQ`*cxYOa$PJntESk`@9D3wZ!O9G>keM=rykYMOX_J!oM?8}JYg2&x
gc&u^tH_pDTrv$Jk%zZckm_$b0-c7QfpsKG`F1-;N87%UgVGFY;5iK(?(A8DNT$1*Tg7z>9Qgt$)A7<
$JVA9QGg2pp?KN&3G|u!%$URVvDz4XUhE0$S9{I59D>6z9=Rl8<TN?;2qc6C;^7gG@r**sUe(ModGjP
bRdiiz7702%-`6uis2#ywJv%uA`3q&@RPSRyI6mn^HQa<gWm`g8+t#Telxb>WyxEdW!I8N4`nt%N_qy
RPjXh}Z7f#P2rfWA4??06l*R45anD&sM3F*{1&1+2XX&Rq1kbX0Y($nE9%_3ecsa40opP9C6_Flm}%i
aHJHybUS<g9XO39aGdv#8Im-I@$<7Wl<U87!aJn9z@NX4mv>AP|1dJWvc43&~Y@2lGWRmLM4XSXjqQ}
g-Y>z`b88~9Og7E0R#;7^t0o2NjOp98P~IrB|~*T5Vnt(_h%Pp_h+X9*Q3B7c73D=ayb2t6Mc=%@Tq{
qqQL{Bs3V1kim|n8FF%suQ+?}%)h_m<={~9FXHp1Oo9_RAr11M;;gyCSR)ckVG$wtSmqIhtbs{dN5v~
H+XboEX3qL}=n?K*p-+#Kg{(0(k$Znrk<aaG{vA{_hJIb&p`2%*x9=SalTjXa{j{wZ-XWV=z^54213A
YStFCNR@og+?8iKO^FcE)xhPCvyX67=*TSt%6ns{<D7`7`n$j-0BwJ40ZCwWIja80tRJP8|5WhBTopY
rq}ZeVdz`6#g!YjKd^(oB)?%umJNK7>=2U;YAR6tZW=ipqWcO&kC6}g(g~%Y{#>`@g_J!Jcrt08#n37
#3%wi5JbP&MdrESrN3R+$t)cEf)QqBW^D@PPW#iJn_SxI3kRRxUFPMH4ZLZpJRE@R*3=kc#vpSM7)&C
8qAun`_&r=P{A)Xcn|X6OpU<bs=~o{ePyTLsvLLV3l)Ux@bb?9Ah^kL8N%Y~XcFb9ih@aSS<tLso&|O
R6p_Pu?W5)gA$UTI1ydMLfnGzTxZIQeTYb$3AZ0l-F#fP@ohG<`fV?cX2gyHqG;#hod?cnENSn%B;w(
6$HbrM{p!h$(@8*DeYGViC!saD^WcA?DG4C{Z`=FJ=hM~^EG4;zXOwkOsv#HUzSb)1B@49Agyl5<v}b
tag-f1-4g!8C|Xc<4E+Ux?8q%FkQ*<4_Hq50BLEm_F{my}ll`mC1ilO9KQH000080P~d=N2`e$KhOgJ
07MG_02u%P0B~t=FJo_QZDDR?b1!vnX>N0LVQg$JaCwzhZHwbJ5dQ98F$5OJhu8G;a=tIy7D}O%UP~#
*p(yq^7As3WN#0!keMj<poa}OfMAm3tAB|>I8QlP5Rp&Z`jDcucZ5;5U)v|NQ`gIfy^j5S{<wfWtJJ*
PEl=#;#o_SH@%wX`_xc!^5j!XF$e(Qw629--;vG|O%Zn?3@%uKbjsw1~p=%(SS992H|%b5qi7uY(XmA
$gcJ@FS~w27jqklb4MM~QxK(6S%q<S7CgyWK9#6B{{Kyzmp+ED9TB4}>M0B!bh>O?-{E4u%Dmvl#rY^
jX2eM{e+`SM~^h68caI>pCZ-oun3u&cfAjIJ6g6YXufv*JkZyWH=mBIM<@6gFXO>{1xGdwIIBdh6Wuk
"%text.

(** Lines 16215 to 16364. *)
Definition DATA_107 : text := "x#Ql~5*?aGC?pB)pc0Y{osk@vtYw2+p9>>e2WP|E7R}O~<K>1kCBCB6?ctEEKvcXz$RVCUiUYZ`6e7_
_Hh_oL=o5U=JwRXK<AB2_$g=DX&!d5l%ajT61c6bn?dW99#d~n$IOF~ZO04J_2qhe2dyBG4;R81(OVf
v!^N<z2HbP>5ojxgenIxN3EQM!T;>n7pWaPcgco{w@jQzynNBn5wl>Q$VVa4f+r9|uUcp3H;124SZJo
e|N%8hizJL&Q-U)OY>B(L1$v4`+VrbgN33;g`g)i`IWq~xW%5Gs&Q;uRIF&Lv*y>m&7sGJwBpx=KA1P
;f<gOUXgX8uC)K{)UOhAJy#Ak7Ii2F}>h5R6Ukk`Us(Qnku6+-Azb#KWi0Jy|gb-X#<5;l`u^xIH0RV
T_{mvNZD+cL~HLu-7^_+qH%-!>|}J;?te<x0VZ>{nobRgI^2a6e9kRWHI$4X&W@dsC9`O)hh`8+$ZZ&
CPpi-<6pDdSG|p&AH^-M(Dkb<m`!#Gm_dDc(+b7;fnv#`@&>UFd8v@DC-C;DIg)LSJlU|uy>sjOw`R_
>Ax^3(?Y1PL{it|6T!gRB5P4UKVNmW{E{+0qky^&M0=VK@%fi=3kWw3`hALcE?0;_!Sy=F|VPpGe}bm
9E5KW&s=0T-^ug0{uYk8PXIe0yb*+Qn@NKfEL955w|K^f&pF4Rs5PFDfH6qbtiww1vt`g|~{j@dmjc_
GsvSXoL9?k^7AArpP$%fR${6^5eZ6pzk$)qN3M=+sM`2vbP~LTv*(`w{C+M|ED`D?(|UdeFEqaLhlt?
(QR9r_K%f^y+=5)K&1w6^$@Ra=U-#K98c`KB!&liP!%o^@=yiC);kGw9r;wi_q=nO4fTCWacUb$^gmE
b0|XQR000O8^OY7ycz{pFGY9|x5*+{l6#xJLaA|NaV{dJ3VQyq|FL!8VWo#~Rd8Jw1kJ~m9fA?QOxF~
GrENvfyMYO=R*~Kjo9D-gBc?bf5mMEKDSyV~NUiYuR8IqDneK_l$9&DMM8P3O#Gei0(61|H^CURcw?@
6PJ=sk`s3Mq~xO^Zf1lBFr($682D=uU~U(JZyU7YjFDiv1oWv_FMv-_BH4FrgM!V$JJ#M-|J&@kpz@7
5h8;v*D5*S*3roGd(%4a`xI1ex}(A-Loeglsyf5%~-9us8mbn#5_tV<d%Gv?8HT*er<S}f8^2(_w17W
IibmanC?j$&C5=>{Yr&QCFP23NhRcwmi#Z4)>Iz`T=5Q9ZFyT2Sf+)%3`uiV!wf}JdX0|a#Pa9rGq2x
&weIZM&IiWImh>zB_>E=<P|3WT#XLu~gxN6{)?bUo$H%9C{`b?D^y|MKA3voZpMNI_#4koe;y(nh)}e
80n9CZObGg})m0A7(o@J}eVzEFNFbM)29^yUIpUl`gO)Gi?Bq3Q=Ql*@>Hcsm?0yg&x0?%@}G~dP)%R
{Kl4*bLvDTE{!(MTeDc0~|a;7A4-sWQ$~yf6|hFNb-85z$d?!GuzdRBsKRC<-PO(FaCoexj8|0#QJOw
Gko_x-~DsIJ>eEg$9r_k~b0u*@?*u;g!;~EMxKn8Xg5sGfg4FTcQ|4@kW}BUM@0qPYznw_jh+@2oOng
Ai|kg$o(Cw?n<he(#{soUBIfCZfY$=sUDJF;`i1PE69?sF!p9(MIctzzFp3hPOS>P1j1f5s}uszpav-
ojS<wkObg;rUFH15^M;m|s&zJo&AedL0T31`D>Kw66p?hHCFJK?iaq(}F!`N)@Zw2S%`#qaCLc%~$1@
y}4442KykyrHzC{eyIc18##2>I5Nh8Z2Gn66&Q(G3?5Z8D<IHaQNyN<Z?jcNetfEI9%g|~H~b^Hj|@y
c@LtbokSE3VUYtyo!X$vZ0d0IhfLUe0dYSn)M%Jb#-Z`pRMxckDjnqGN>gkb(^g6hr#B{XM3LX>MM?+
;ul;5Eq?SkRPJRm=r;}SZxD>9Kf7dRHWnCBkYzFmC0&~v7k+<lTqFZ$quZnll3z2E3W{zA3)^87KfzS
h^;`(49h@-eU_^a**Sl>^HN>B-1LiWt~#a9v@vkn-L~GmnWqxz-(=hI3ZQiZkEqJa8@UFNj!Y_u?Bry
a4T0lUbD^G|rWuYVD_UbhUrhvg`S_|Og`%);?AFKR#1Q>;$yts+S0=y3^~Fzm7{<3cCxZ`I1OTLNa4E
~Vrn{2ez~XQC8`yGju1Z1kG{fqD1EZ4JZMcHMdW&K<^04KQ=O$3?OR=NnHB?!O8CYG#%?~i=!^$o~9N
`4EFoksR3KPf@YDEe3g>b26<-?D-CKzFOlV_ksoH15GPsvg(n;}7)G@ob*{pwVre6F&x$r+S37D-kzX
wqFHbz-HcO(llbMwzIRUoWl5?R3(_h66JS)Zr>uM45fi3kVbF4e-lAvns%nIUls;$|F9~7v^N7dnuYa
^rJ^<B^a8}HKzF0R4OJX)%E5<2z=^r!C$tXcAHz+T1Ra9k`Mbjdr4h>$WzyeDboRXMSpNM8Gy$&g+2;
Hi-TiRh-JTrbXwRx(zSMNZy1v=0;2v3a~xU=*;Mz#ZDCF#wnMfOm!5aqxB6ud)+*?NGKQhOZdgG5e;V
aA!w(68hT5Dn&}R{^3So9Xs1gsXny}k9G>V#fFKNy^`BQdtbJ!pUs;Jg-9T)~3)kjd{8MMG}$#;#(j$
ZunF%AmMUXS+Z-!px@*O#p~-faGqj0uleuXOMSfv(wg+jff;U-|8>X;o)-Nl>u*Vyi@Xa_v>>dM(!iI
hsj6yNI(awI$BhiJoncpWpz1ApRES92osh{?S?#Gpsmi&){Ri%YlX<jJQ2`#~7pa>Uj@Gc07w3LIwxK
pA|Oa+m$`g_X~J+e5~sC#nk#?rx9w=UiQTJG6A_LYPloBjUb2e$STs_dq7DwXIF0OCg9TCeSl(9sKMl
8FQ{Vj8K72)Gog(ZaG2*<c`x>?ivpp4EBL-ah;u#F=P!*y@p3zwnYw@3PN8(*sIKz~eKeZ(u3P9%*(;
VIjkm&?>w|^510I-&HMK(?p}39B*!?0{x-hq9uwHPBHjWe0r6sRkRMKkF4~-pUuTN5Nv6iCjS%Tp)TM
xFRe;t!S9K|`sO9@%gUV1n@$JSKPap2uSK49!8=2&rO&#dZCU1JAGyH2WiB#ez&pkY%0{q!J|?n#5uF
;guCR0NfFH(i%O%;pHjq8wZj_dSbld>kghE{%6MYphl4VS`4XXpBJ|CL5b{Z5~LxtIJN9nL@@c<qt45
kcS&1yj>k{q_OS8$6A*7W|}QEvz_tr&TOz7HCPkgB9C{N=SVJ-A7}?hG(+Yc+2)D6^o$(;7S#mW@Zne
@SnA)BcJe3Yt_pE=5cb#?IC#vELZQX%-Y?<?(xb>{c&?(deLNH;-upG;z(uV--9^-hae#lT88+~uZqS
5u5dP_C4~T5@;`K5%H*Z^`?L}RTm#06p`z;!~rgES~4E5JnUyZSCb%z>TjfHA?nP&LOT@Kr8w`u)%?W
TACQB1qdE+4vXmeBcdc0Ra;O2XXGp6?-XefvHyBD`|wWQ4=lglwj_hYinpXSG>xru}NX@rK^sf0j>_m
-eQ@1_g2gY5$b40h&6%&uMG_X`B8-ZCdG3ZAb{_iD{&vaZ~*Wc5~C>o$H3HTyfxF4;b>MPVo-|JSY4Q
P)h>@6aWAK2mtey7Ds#jtz(o0002r2000&M003}la4%zTZE#_9FJE72ZfSI1UoLQYl~!$U+cpsXu3vF
bP{{5aIZOJs3>nZZ?T{g`i=;(16ahnvlubk?1(LEWU_X9GQnI8t?$CU2MDp%<_wc!wIF4^^mFHkr)B+
QE&b0v{n@=t+e5&nAN!Z|lP|^UE49bGqT<LYhgt1yID(jBYIF6%St2GdkSGLle5D@E9X$y2=R8d(@!g
_)iY=koyMU8|q?U$)d6zr6uOv#2zrgUn=x7L{D-z>3p$)m{X`aA;s^YVpSE`?mCnUc9!w&F}=_K&bbO
)EpX-H3n7cxmCvi+|8s>7GsJL#EaxwW(A2LDQXsjfN;GW11Ut@YbEiz=Z~eeKSt#kg2_UotHyZFVgO$
q9n~HT=cfDKE3~*isW{y^y3qiS=f!Dh!9#7$b}2|>J7yEK*bY?cgk*28E!~fXEa-Jw?^ENL7Z4ckaF=
P7?RYA4G%jIFS#Z7PAgIg=GMltLM%x6xb!CPu4b3>yIa(~N2f&Yh?X|ICPL;4e!GCt*#usV1AKiS(D~
20;vFvnu4q3+_7^S8UY0lkVpOFw9`VBPAp_RsbJkbXP;2!Fk0+4q*-6I1Mn2H%o_SBfy~Y};yXTN6%+
9Gpx-%vDcTs9EVmyc8+l<V(Gd&=)`_mi?g9MW@o+-vh&N@LgrYcKF$|de1HO4!ohTC7HaPpU4>j}l5v
zt^lC+`rootGU~MrMNYSi~}Z@sT1FJ%=%1tV_~ZDl_f`7q#X6hz?zL{4T+FYs@CjPV?=-hQt-h%qCr6
t&yllk^e!nQ~9x=j^L*8MPU9frP7?i@i9~ZRIm!ZeExX+4w)bm3po|VVL*1(_Yf%l4R@eC7jWcUx60C
j7(`GqGqS8PhxfIqU>RoZKrG$|!?JW}Y5WYsH?%-bqv%>>S~ZgJ6W|qTx55RZwSkv#`U-!}-kh9_@&C
^!@bV?Rd3v$4Io%zGnEDlH<USgIU1xOvZ-S~jNerM+8lLh}aRX8z^r|S-7ISW02>EEb2v*jX=6pI`3c
IQnt|Lv$x};O=4b!qJis>(BuaB@DXO;1ps$ZX-ygfNN3-&*`$7k5(@%{5kX0BhmHXj-ru*!3wZTcBHg
XizB{&wBo8~Dpl0h2H%n3bvu1{_<Gt+2G$uv9>|v~Hp~*HmDUg86MoRJdF55VYeTZKDHhXMu1Fj-XNm
qmNaO2nuPJ%*ky2aejS0ze{>7$QeGYGN~%L^oUQ~YEEu0=d<g7;NP%nH9Ioq0#ghhAZX`EZ#&A_I5pP
o?!@pcE08emtmBo-s0N(|nO>^hy}y}V&Hg+GE7lwoCiIGDkFco<$u(UFTVqkFT+qhCmOBW5DcDXGv~K
p3&#?l%aG|BbINbWg>aJA<<GLHu@ZR7V+IA4H=!U~X8|uSAd5DFF!e8+ejA2fNYyDHVFOBro_|6(*ge
?+v2tE#hYQu*$qpv+09C<3dFayT?3U{I?JS0sLI<MWOZNkLx!V_&^D!g2y(FThddxWCdBVBSo@>*=eV
PXg@U(-6E=8Io}Bd<%EHMf*eOT!yBncy5+aJ1)Yx4?J6TuT}?&XN>D=HU%kd9BEN&SYK{sn59OdMzX>
EvUg?q|*_&(K;<u7OowY_37L52ke$%08QIUgZ1uf65LMiA0{rQ`t;5DP%wOw4b^6pTwncu`Qi3+G9HH
*a!&PbqQ|PHMH4Bl(b}3m^58u>h~*)3{bmA2AvT&Fhi)D9CM`GRC8ejHYlvI36q@JB{lQV<bOLW1Huu
b=*ky3y9equxULvIoPwvP5&9(vu;jQto`9d~9D4kWv!nHmvg;p{wqh{_y$NaR>hU$o}t#LdZ#b`7hV?
pZkW*`k07dVv_BJtLd*OFp(yG@BreH{G<P)h>@6aWAK2mtey7Ds}jrI$?=001~z000;O003}la4%zTZ
E#_9FJx(BbYpLBW@%?GaCz-KYjfMkk>B+zCQ@7kZ5pwCANHb(F2$87n<<&nk+i*AGQ$FaA&C_TZ~;&f
?<)WOx_cfN00WY;y?eV!P%euEW_o)1-8~JSu<<g?82s~?pRBhmnX`P!+08azCNYbW#UhLsuAjv7aN!1
_pNo%dl?0oJcaBb2%GW7;@p-@=!hFfrJY9uZ7ACRF`Z<Dz=l5X%&zC&qY@VcS=J|IIUK(UD-%nO+FAr
y76y{rcDi^=!DMG>dA>7Rq_Qw6rJvxCo=YVP&E|xia^Xk=~U%q+u`W2gP*~c*Uwru466s}#?jUqP0F&
P{3jHmZJ5R-2-f(Uby@eXahgL?|+@Yjn27KB-zhO<r1fgZ4jEScwkF{g)Nj)(_|zgh7(2jl@1BJRaow
%(-cBopJ19?2$WbIy?txP8EKk$Q2?1Eig%OuqDTBD^<C?m6Kj_7^94=)>*xntLe=W9GrO;Bm+^S^_5m
pjiTxCm{8yGz!^J?7IpTAY_~MI!SZjc6nnRy$s<Odn=AYVvrgp13Wh4NXvk541jlem?1DA%X%}5LLa#
cDCAxk<9#5#rZFr7K&0qtN-OGRYwm~h(C@H^G|Y1zOMx&14Q7Ar54u0HQTK2C8+OqjonLkP??<eAb;U
k)hr{k*-0zLpr~ddI8}{CIhZk&o&BpKgBR0Ce9K(=ahxG^NS066=gSP+<C-&dpT=jbwCV=Zp_P#efe+
OT?-}kTj;~!afaKSG7<3VpU0)Zc}!8PlB><z|j^bUYjF#Ep8uKL~YuX^nAdI(eD{!Q<^-@U@sFZ#pY`
Iy0j^XtK=_un4?3Or&L-S^$MxcCqegE{KPr+3})=o(fV!lp(auEu~nyBuD>XIIxFLiWQ5_I1%6cM<B%
@EQ;ubzoj^{H}-40N*bBJ0JJ22RI%U9uMJbhYfmfuljF$gYzCvy~goCvLOuoFp?8GtUK(FaLwxvV*m#
8VJLtED1)AWNfd|4hza4)8^X@tcM0xgnFH?8JWW<?I-PIwP0FWJ7OqexK`F8%0#%%f??*@SzA{fs5YY
&%g}R?|^(ouxoB4Llvm>#@8Vtnrp2q=*ks2939>E^wk$1=c^AsfdXYc5!e}OEx?8DyA0IG|&DvY?(`u
nZ-@_(ii{QuR<KTjvm|Jdr_fPVYv=qTWGcJD=DFa_O?b0=$`9x=F90HlEEuDsk|!b5r%&Pj<@VkBOv7
lIl2=tUdeOVcEES_2s13CPMu(gL6yJUwO4(iVHhB)pUZ31c=+H~fgK9@+W%Cicl%!DqlSjD@~RI<h2=
w)j2eK7cI@FleS&4<O~~R^Uj4R5K+Jr~Z=rcUSzLM@Rh8=j)vH=?U#X%tPuJ<D3ZpZx{OpN}%P)axeC
|c-jG^a$^W>@E)j1PxWmc!CWvY5+pm51IiO&4BaJq7n^sdbaw#uEh|s3Gvh;i7bg#~TtO0FENsEEzQ!
$moEXSwys|@Da|~iDm%P$wdofakFL;Xf)nlz1!sgWyB7?>@UNoR8<t4p8B3a?!Vq-Gm@#2Rceqes&Wf
{60w96^_jTFBmn;7AO`hhc7G6@j^8hIFjE>3t4zGdWs(d_#IGI`5v6XxD5;waS{fDimYAD}_FhzkV?v
6MzNJ%b<u$b%tC)?pF266p{(>j(hBIshn4CAI;;;6HCdSOz2;COn`s_A*J748Di{l95VMD5RGIzYce4
<8oyJ20+sU{E(OPXe;81o(FR!aaabfD}so}gFO>G2%0vjmm|A!6<I8kC?H>mj^EEWUL>|!j1>V21s4T
QF4!1ih{2=_po4?NkZN*#eB4zClTQyx@x64bP;_C)QK6C31<%8ruclKc<I%js?)cVFIpPmUGQx4~gAG
~AHc<|P@tJGx$CVg41g@9?j%cnJFGwsGL^~DE=fJBt@30K1iL{9MBN+5>#Z9ZBXP|}%9LfrX=-dLP6E
f!bylNQGM>yh98)eZc6S!j#{0bzlvs3NxD#njdF54E%LaVuJ54R|3)-(ukhY|39O>M<)G&g}g1!FpR%
Y)}<gCyonJhe~xH&cH*OkF4Ir!v((<!hLF2uuD6XkN3gh^2#Groq1AqmpG+TszdTB7lDz*59f;C~g)C
6$X!IFJCt?vNY~rP~Y~c69IK{19VlP=-F3k6hZj*D)l?%NM+EW7Vvurvd;~wILYiMZbq5(cPuPS5w}u
oE+B}=T4bA8M_W;yXugS*JIY)Qi$0uR4?gyW<LOOzJnjt#<;**6{oVQN&0p3jz<c~J%)ciu+NXc|6W+
`=bG+$3Z~w8?7O*~D4=)-4ea@acpC4Yd;crXu_u{&F+0Sl$e1CA!`=NQptuf>C#8{^Pw!dSc;DyGYBy
FmUH{@Jr?0+@KT41bO?3DhhF|9(7TK;@NkKu3S@jnFg6ZVO-6%`8~JP;X~ZFq%iU=Un%7<U)0O!1>|C
h8UR4HBI*&`0rQIyKXYFb;FAazZu?ku|gpAXL&AIodY3q@ha0^{ODdNp#QUqM5Ot5>&i~Vw6t(VAn#Z
GuS<v9-Yvt@)M+$I%zAg+Cq-{=vtScDk)&+X6q=-otE1wc0)zdGa5o};#KiT*H+XurvzIXCq;4xA+#&
wQZ`S$1sWOzT(=Fh>Wec5sIV6_wl<`;dKC*Wq(}ybzIO;nyEZ|VeY%QXM&+k^?c3Fp*Ow-Yo)?9chB}
mf-eLI+X}rx`7z=_sPn`Dc>(fbT7?yF&`p>x+OY2X<^b8Ad85UNY3>2naM(iHkknh0`r_&C7$y3kgcn
UI|0$f7DQv10tMB7ktDc-^@l|=kP7*rkXr6d>_{=sxGl6c;bCw>ySrm#w?5jT_uNuQ^eH%!QvEDzInE
T5sXB6#}dN(sGbz-7f0CzRar3SBX#LALst!L#EJG1Z!k8q~A&7+6;E@Rm}Xz!Cr4u3R1mPP-x=K{<qg
QHwO$tTT|LSCjHkJoX8}v<4jlSb7G|5)j1Ob(PUHF}#$OBqnL>nupj1yKuCVp@vDx|Lw$OH$L<<cm%K
|oSMgqYPq0>=}aXK7<4zUR8RoMH80Y<e|0rlO!JCiC15w<gv^IY%!ANzvznoXgei!Yvr6FqD7@p*)=s
-R?r}5bguO6(x_rDJ(H$gd=G=bGAY>XzX)CN(m2`J?TVJhbSX-6lZDGNLhPBOnm=KoL*%=td)jF@mz=
2`-_8C3>Sq3qxk`4HKu~{ajjKFOySVPcmps|iTJW!u)Wfj{<jJyaeYwYFWJ<nV=l0gjBr}0n)50eukb
mEkZU;)0UMOSOv7~h!nZ9OGO?D37%KjWN6lDizqwZ&<9ZIn@`R+mcJDxqM-GV77nI8cqCbD(|rVbaxv
pHb&&#*ZpOzZ`xd$wLG`*Tug+F}LJ|b(}@o{pCp4*UiF5R|L{iI$&*|qLRTK^8M@Wf83SU(VnA{<Vm}
2!OU)Yg2GjxFgbOjDKbPdX)W=&Rkuq;q$1I(=37)27t=cwVpzSb9^Vk>QeG-h5uYunRMAnvu1=uD6T5
d%oYun}u}<xLPefU!bt8tumN!|RteVm_(0x?|z=jf;FNuC14|9w3CH9X*A=r+&=Y#lcOEI1=aKi)+Q=
XR7Zndk%Wa(wJVZXy#7%fN9blMUcsvePq!Q*o*ETCtT&#Bhpx7i=g#3{e42b3A&D>kbz*DtU@JDpX~b
X!%XpRjW@vLxK%RJAyP&-5tlZCYfq2=6#|ilVo7lQvDg!$eJ{zhSvq;I3^cPWjIB=K^SnY=m<)V@xRn
?5HADEJnFl0)wckE}@weG_hF6oLxU2u9QQ)Y)Xcw**$*9WnY)-JP_p|eTXakAfDEe8+0pP=1I0Ww^_H
c;LEBO`j%2vt6Ju&)VB)ZR}BxMQs5cqsxL8oQ<{O@O+51<1;+j{;n@r8N@utVeq9-fnw8WlQB`~cgq~
eMFJ~bpC0o+zw^ZMQ7_u*AGR}>IglBO}^<!<Z6-9tNE(xU+b-msM)$;ZJ)J!&@;R%J9i3v4kXElJva<
QLsYE_FWs%ty}CBF0^04=8V-rtOWoL=<L$5>DMhrX}dG(7+3O_=hl#J_WPlxI*ti*@R%rTUTz+|Zr0)
NMelz@%>2PfFX9lN6sttIk~CMy<6#$V1swkrbQLSUIv`<Bj{B)vaMgL=v5<BDbe+CfHQtyy>v-8uBY;
e{fN?(2ksME(TXyarV!|%hn;K2_lL{<e?7CAJo+%lrW6|;lt0(8QC{V5f#p7bqd@f0=qLk1Hx2WfhW!
v9Z_c$I6_?MS<MqRU8=om|E>+ZU2sC88?4?LwtGpL=8j~^mgE4_>pg72YftJa4Zh;d6NLz`mQfTGUbR
{m#0yzow-NI09ur||o19_a_f9b^9ewes03<P%P=y$EsGrczkS}1wVGIx$Jca&;(LGI)yh3!m)hOs7*!
cYG>5EVt{O|vToV4wy5L3`!5wwD?-2et*h6_*mBLr(0CzXA3_3^Y2c0mxUj+D%z>qp#6Eool>W~@3IG
xgikNgeD7gSbi*LFjNz6ysj1+6M+Zkoxgd6m!5?;$CpeHbqoG$|6-fc!DYylfFROipfH0t7qGMsz*3a
w`n^T`jrLwDKe~4We1st6E@(Fpq>FpM;H-T4-g7~1<?ji>#UV9Dv}}YK1D3Vj4zQ1F|$!1=&@58^;_m
9;b~{(E?(-uS29zx(a>HjCrCP2Ky|YMi0{P(gajF{pLJM9ZyZ3zcE`6iKqxy=lssSt$#Z;>B}QB5vm_
0$se4{d^}catVG317IhUhmHiY#%rK<>ED{>_tIOSlpIiOR~pgcae<}_6bXqlEbeqFKsg6QzD=)@3P6(
ClnR?C1Xvlc)PT$(M_;}PNeY2s8^`e(UBy$R`rWsrn&Dc|`r<zA4nl_yUV)(O6bkg9h3m1_Z@7s0pac
rNLO?fvvF+aWm60Y!!zS>QTpvRN#}+i3iutSB(XG9Qv?e5(#$I1uG0dD<bE7`Ut}l$FPUZTW|#m$x!V
Yvz=tnj4}Q)?ibhuo8dkd|dMZUw)MDH>^{BA10fug8XcgH%>>CWtwc=d7bn!z*W%@eyxo$A~Y<lQCRA
(yx4=SxMD|ikYhm$d%mdaHRe1Z37BzdP2i7sV-Pq7X41yd`y>oxoQTW&%P<PGq$k+#u%>qgqpf8&s*N
7)vQMH6E!QTTLVEF(ds%3)2xNZep?EQ+ymXz4ib5`ew*;KnL)8K~zT<pN@MwM7L0PbOa+Z)td5jZFyQ
7yzUAK-G&6pO+<83|3$M-THNIW-dEi{nZWHxxeN*b!_J%$$TC=Ov~jG{hpi$6NMt1;r7Mt4`S7wp(QZ
XP|4cuen*#g3ZU3_ISe%yb4PsjtnGa0elv@fvv%CCMH0l%b(6fO+0jxl@<u2XR97ml6g|=Ypk6BX}E5
Zck~uRKC-j-CZIn37Cs*xN%^D++CN^TW_wNDb@<>yo0yjrg-r?EnC=<R*^rGKT8bTg(f-WEo@5`o*A=
Yjx@HJKycT%(Yj|x?;OS(+7G^=CL#_FVSvqsp>LjT4O5PQJ8YY5Se7Siu}+ZCX$jz~ypaXcyX1l2^Ry
$Q6<H-{HjN!bKPTU8fwoSQ8O-03(|jOj<Yn~MWE|+u3Oc&1<AU}K7TIs6B$LlrgWtS`kM`ngI9Dr_^s
HIx!~j<nY84#^*W*!dyl<9~E?E3TWiXx>dJF7WITP;>+s0BmK(&yw7kfD&P>^jY76r30goay+evwNQ$
p{d?!7|?Owty$eTt-M2&r+}*UZ&2#XiT|fpeQ39)HP6K+2Yl4^X#;G?28QoO=py{zd-Z+76(sIbWm-v
f1T78sgE(WEiJUN+5RSo?u@85rQ=oYu_J?IVKD6ISk|Cg$0~})7u9pyYaE0Oih?aEls~_*_EPwSwDe(
v3v9bUn$A~wQO~g1*dfQjgHFZJvQrbfHMSQ&3Zvq9KM5$3*FW;1An@9+wbY?G^!fl8+>4(8)ugU2ijR
POYf`BdOR6<bBIchdsrXv1*6Z0wQd>#aYG8u;=l~2UZp=1ZBd3(^QmYh9=@7WRJs7nz-htXEifCV@ie
F7!S?Dq8g|~oMt=2wLiOrUy#-=uvAdtk#Bz43$3^wHbGNHPGuBcF{PLEggQb`^zUv65VS1}r^wN}fcf
V+U_Wx+#N>xHZoPj2TEs{uO1$?S42p5CrmRGk|EXj#xyUGFeS(<kyfMXm4-HUj|nYZ?T?sUIFfWn+Od
d5a?&ps@Nf`6URAxp;xc0Z!b^3G~Er#ZX0rCeiFi_O){eL129jQ6ujz-QU^LC+Gi4ZG8%zrq({%dl5D
4ut#^)9ae>8?2_8YT9tb32^(Qclox@Elt0#?WL{KwD1nkK;iZ#;D#5}m+stSUhfwL%e&Wb|57~0MeJ8
#))B#$#mx3{E<Q-m(p{`O331d=K7k$PsxvdVhH2yy=3f`wXVxgy2-AyH`qFk@O%SPwDj2OKi-|S(-$_
t}qlI>=M!blI+6xZFA^&ww~@;19l7JHBeX8@9)9fY$Q+l;av(WH)qtA6&aI%jLrt>Xu|vZbN+kZ7JFd
5GM(w>lt_uSfBsY!2(v5A2Efrxd{htQAQ+tx=h~H+uhek^AnbU6Ae;DX}8viyOj5O7b+sZ_V^?_UH1Q
"%text.
