(* ===== verification/PipData13.v ===== *)
(** * The literal of the pip installer, thirteenth part

    Lines 16365 to 17714 of tools/eposiotgw/get-pip.py: the characters of its literal
    [DATA] as the source has them, line breaks included. *)

From S2P Require Import Literal.

(** Lines 16365 to 16514. *)
Definition DATA_108 : text := "b+7<NfUG{100?I&-^{nX5~u;~?>0kpY$2SGb0eZujngWUJR}-bDk(!Kk)n5)<rG#%qq>4a;i#-T9Tbc
%n_DrhK0uag0Lynqm}fKp%U>=URTkc`+{;=xx>_Z%ES$-P#R@sa&5qeednQ_e?XPg%@D#<WdZb7`Jj~
>Zh$7WsFhq%y_@z;u%IvR8RYJ5KU6uPqShD9(5f&z@p+^}liar_DryKg$6wRSpk}4I&+tW#-2#LbJlA
>i<SoU`?)br({-`P?q)q1IQtEN@u9qsALu`b`(f>W~!YH@89EP0eXtPnygO8y6mteIa`WN=TOrAyW-I
)H6o6^ACZUtO>$*$(w8zfYs8$R>gHeVgnTllIBK30{A;(U{7#W}^Be+8$2V%4vH+)k7#Mx<Re<JPP!?
D(5mgslL4;e{!@Ks46e|C6+_pUnzcLr@Wv7R@8T3OaBK@O9KQH000080P~d=N2(fUyg>i}07n1-02Tl
M0B~t=FKusRWo&aVUtei%X>?y-E^v8EE6UGRD99|(%gs+o%_-K)%u7kFP{_<J$S*2U@C0#m6ap#(Jh`
~I;^Px@a^m9^Y!#xFz%oiY3Q8b3rC2TiP)h>@6aWAK2mtey7Ds4KGHu}i008F!000vJ003}la4&6dWM
yn~FKKRMWq2-dd3{hpj>0euy!REkHAt)Ej>H4F@q?(e>DE;mN3lWhd*V$&REYH{@yvMa88a>_K{D>@<
AB)^+{}VkPv(+CfU|-nVP=)OOkQ=QYTNz&o2KbQN2HE%@HdU;+4sELH>%X&N97zuVCOXXF#d>i1*N1X
Ch8!-wjDhO>?`te6EdX$tYy&3+3Kil8@#Jip9YSx4B$z(6>fK1QMxDiDiQEQ0LjgS@n4ZGEGw*{eg*Q
*s+q|1EtKr}lH<qOGeXo)pH)=CKiyBqvOrD0otP8ttrhoj6i*lp=3iSDcmPmK0|XQR000O8^OY7y000
000ssI2000008UO$QaA|NaZ*XODVRUJ4ZgVeRUukY>bYEXCaCrj&P)h>@6aWAK2mtey7Dv)CZ&hRj00
58=000;O003}la4&CgWpZJ3X>V?GFJ^LOWqM^UaCx;?TaTkQ6n^JdSTkAyYT%)dk@C9IN~=}1ZC^TyE
C&vW6$dl6nIu#7zxUYOOae?=?ec=LzjMF%P$+pKloqwA6;Mj}sglYNw$oD7259pg1ns_%`#mrB-KT>7
q~cXjSZ26LGkL0*>6mGg3%;Y(ajyr6g4gc+OQ{VL;yb+7T)_!SGr(%Yh3<fRFqAi7$Z5{CQGAC8S$d4
=8<e?J9SusQ3bd?M2091=YXK;-=}bwH=~uTGQChMSIw1~%XHv23$o8O#kpwQ8sB<7rMxg-SfymlawN=
!9(H5bRuV*d!g}j6sOkEi%g$`FFL=Ek$*B!zwDwRXg@{I!0K5B5s=9?^G)t?l+%&FkzQ8x!@O2!10rM
R{mwFc#X>m#qw3wyXsu`+D0H=mi%-T`XFYGLSGrf*0%W(G5m-%^|p0D@*LJAk8z*TGm>^o{p{5qjA=g
j4RsOm;wor3~CQFFdu^y_gYNflD<mAR4f7L!U#1i2!AG?Zu<OMkf?*BS3gL&X4pg)e)0|V$cSWsEI|V
2d3!>49l5eQFzNgH5U`c1J#rcDO?P0L?e&`TK+b@JN_0AdQQrSKJIO@2y4^e=8+NMGwk=9&?4;N2dc8
lZbbIuF$q@=A}3)|kWV@!pB%P{WK*)t6)J||?|<&1uu$2Nm)*m1b?3sR$0o<-rd0nMhoPeSl^1K<%r>
t3d{*)uO0SirwrMzv#!<IBtHlV6PlrnFR|8;3h>@>fP_NYXw5_X^*S@g4-ZB_*=H@^o>JWLyF=5)mX@
NyH&X_hIz{YPH(MpR-X&f@OVXdMVi+|SnJ`UeZ8EqAd!sl?2F7g@!D|4?;q#BsY4mOh^enfUJ^S(~~C
rp%W<w@eXD_qX1F!`$?VdBiLI;qQddmns2Q#3R-?upBc4=H#<fdp_#Y9&4-NU$*}<`Kkkd>>2uG*#|A
rP?q};xbtpUe;|h_aDrNTStcpxadwCB#?8%b^>mD>qqRS(e`mkyK%3VU)S4o$qc|d?lDdR3umlu&p8#
%BHV=2QY-`7G?DvZsOcab-}#)hOy=Y4U+CU?o}j<yyTv@zzxuuPG{L<G=6(EtUo7PR`sC-CIF<BW7o=
TRp0U{tqbV;7Id9j~@7UfdoK%_=+(E|hULxFt+R4cT_B>SD4&jD8&GR|S8q2x8HP(1@Kh68VZ_SU!_H
m1_g|j>-Zbtd78NR=vlkEI$4nY3={?#too8<X|J&5I+oS7=oIq@`bDg)at(#OVm5ihpUeYzO1R_20*U
hWcmS-Kv{Py)JrMR43f<uPFGp9f~=lAVoy?ZothgEn7~P4`E3(Rk1p`EDC8Uky13vP3>qj}tfcX!!h0
{=j@Fq!99KE5N&cG4h~*U>-qEc2^RPNpV1Hf3w!Z$uQjdI@#E3{C|WS@gu#{HzsPF(&H650#2vww96T
}tjWb0lA?n6Tj}4V)Bf}P^)FCM0|XQR000O8^OY7yTxrr7fB*mh6afGL6951JaA|Naa%FKZUtei%X>?
y-E^v8ejzJ2<APhzKo+7xG-e3+e+s<+*!GQ>Z);5XvABzZ<X7`i#^MBxy0WnmqOo$NkQCPwMq@=2ZT^
kcFZecnx?xH@WLB6|O>8z0{)2<UMq=TD)52>5AOpXu}4a?zK2zdq#Vhd|MU+^{1#@_#0ciYINpAD_+-
e*9&Y~~M8O9KQH000080P~d=N8H>qutp020LCQ%022TJ0B~t=FLGsZFLGsZUuJ1+WiD`ets4Dr+s5^G
{S^mi1;th2(w_!s5C$}HHV;VbCLS`tahVf&vTmkG_KviyHvQlC-hCfGTz9C@#^T+*ckla)Iy*aCd|*H
IT(ASHJ4trDVx*-)^7?LZ2D^)$XbvRLcYW6jmgj^Y+D3GQZe>&T9n1CeVqw-BX}<|(zsY^Y9^HYqL;T
EOZh4#K53DX5kxBlT9hwIwvtCpc-`cy>c|s-8%ejW12e)v*Ovl8IR(PAm#aj<qHpjYZXlViNSeK&&@}
j9bkcU4h*iZO>&THAxs<HqV`Y{lp2Vsu|YdhZ5j-F*G>bG#u6*6)zL?coU*LS>fAax@SwBkRryru`wv
)wKZWuxy{Eb<&E0R?TyO`;@}i{QHCcCq;Q`k&|T&hroFa7M7KXbvq9u@uRV%YE0iU-2LL6$Oy4lNBDh
NEfd!-@QA3e?0-U{PF8&nST2s`}3cY6tMsM>gw{t_4%9p^6L8H^8H7oWI^ELsRU?{n4laeS`GJD$ve8
O*k~i<W3*W}pp=q5jyBY44kk0&*}+y`@%ny(hDV?-p9cjIH^&@KF;UaGZPdf;5uo>3NcvjR-B=b5d}h
A~y&w0CO<p{|Nvk70NkIBDZ>J!)yr$wb+G*<Q<o3YAUJ$cGx`u2ql1Rx)d<b<oHWje0AEwO3xLa<XNB
7@V&6c`tO+mM3Bq^Ef5(1_Mag03Bs%JB|=5NkFUgOoxGR+W*>>5ED!fP^l9<ErFY)8f(wnWE4FI^EdF
eWzdn;IU#VVKO(bIpRGRzE3@CO(o$38x$m>o%LW7|vEisWC5Tv1jT`x>lGVWMAoM8A)8nby}C?#938N
#4VykT^A617YfrFIHU(+nOfu8747x}!~>o|n%($@EQUlOtTj6q20MabkW(I(UD4v6-m$mpWCZMm1_&+
%zXN@Mb_&6j@P@ZXutvW6=6@&)v1`#eBjWWWfi^W{SG@hG4-N>l8Ugr=9qB|5S}~aur0@5&>;;I92{2
AtJC#2zzd*z55qWAe`-K0##uHZg>M!3}-Uycjtz+%)q#Uf{`qb*YvyANTY{IHja^O-i^_?ZSB=_ueY(
z<@xa;xQnw-Um5<@`Z*Hdj*xw2-=uHbdUgzL%i&J_5M|GIJxV*W0ID<HH(5wNlMWU{SzrxurKbb#MMe
#OfVnpd?RANg;?>s-T5?8<xIg1GM3quzDSZ79K5f*X0=AGS=a)C0yA1`7;qf?2rl(sgJTIfvu`7qp@Q
mz0VEb#xU-Cc>=UZ8n~`PbfnhR;@6ju<{&KE-Lx2saGK|53C@&mZNoqQ^z9MvoZB|GCLDs$8<*#cMw{
Kfph|V7=43St0@M5M-M?a4_z8b{u{a8gA*1Mg&_M111%{8qa6VJMM(flZKHNy=BO~+mg<;FX*&}n)zP
=ct|SJOP8mAYVh%7M6eeh&lkx1HK42ywY`0@Yr?620=&`b#%y=u6Hvrj59h61W>XhD@uoK*xkxLck?2
Xe{$$_3!bpR3ppcUEn9pcu(OZj9u&1l&`Mf`v9tFURFpWqkhf0A-lrvUW|+XM%WdeA!T7}AklOY#9sf
VW^Nwq`+0OImgNroV&a+6!Q^Q1w4@qS(QZA&Kl;tod1)YK>qUg2z?NE^$dKQ}Z}7nTfmwY3q76ZG{=h
CKh!ShNW%Kt5Wx2!o*Z?U<$lpRMhJk26wZX>k@2m)R*W0guZ99mnj{bC%zzG3@<zEhdPxmL{ohsM-EZ
|MJQJRDU`jc_-qGj5x5&;c(`^FukngInS(G~n8XL<9h~<*SG#6I#VXAjtbirvUI;p);_0PogLN`m1}H
(DmOPU+UTC`#V7M4VQI%ju$X?NuSX6g=mxXd4{ovB%8%f|lMG$;R6Y>r5IW>7%Bq-jXHenFXU|l3Lq1
I8PV>Q(YEbu$4GAk{wG%lM;>15-oFT0c<kPm>eo~p=DvDJgS-8gB4&E%dH_qHX^wN2`dVCga&DkKdI3
5-$)iZDjd7M*R_rC1<LUiSEg{PJs*;8e>n*DR>!A|@Z$vLHxWmggleI%wO`rK6P_Ja-#I56IC+w19_z
4sNdE&(LOcu8r>Sc0aJM)pWv-6Q))1#(werPC$5^c7yN3YS9@UBrG!?7+D{yw5|9Fg8aj*(8aGp1{lK
CA-s!Yzb$)9ZY=+plbct!QH3+qN$eYw`U#oX1m9N^%8JlETSsO<XQR}puNkN*+HZtj3^LDp5Cmd~*dx
%WFd$kd2v36SqO+R3JP3cAfx1zHPvZ~Bd=7fduR-)_R3{7lsOkwJsW%UhPjT)Rvh3z`nPgNHdpB7~W7
=L|Jw#PEj%^B&7{EY}{6QxPNuWu)pJOK+rsBXAQ3Nv#dorCRA0w90xPBJq+CZGZ4Hj%8jvV$$j(!g}C
C8-P$PCY9@Py=hiOnk004T0!p{K=gefj2cO+M{Uinkt2|4ZPZkWC>;m>m4euW9myKuN6T*GE=We|Lyn
H8s(7Pm=ALyr-MExsWij&*wy8`z>hZG~KhUoR*PfouM|Wbd^O6%RB4kt{jYUn-b0KN;R&F0B%RP+^7@
1OgZ@^Qh#h13Y3Q2q-uA7;;^goaEQ8`tR2%4DRx4Qlwdq~26tnA#*^hqG~;77aE*6HcMOK#@;3;@^Q<
nHldxkk#8dAlsCSfq-Jlu8zJQ;b_^rtDA<X~|I}v5353ab1@!ihR)YlM&`Hr)47>zzKe4zwA6;5ORn!
TDQ+T-}6$o3c~2=}irh9tke_|LoZHQ^nE%N~3ZnxmQ*46ECF###buD(-QNh*hwJ2C`rS3}!F5!uFmJn
sN1|S|wFefRbD{;t{y8-8EBl=qx&}Izwxu{?1`?oe%Z)nQkTi^}%}>`!!K{*I=lXYVJ5p1m>2NrYc5&
qBm#RBbN}QCsC&3irum}d49^IycjZQP0+^-J$g<y*MYjR)c1G*dSazVGjc>-)T+3*t%j;u^(&H$kWXf
Ka->kWz+wH;77;GZ{HJ#BZqu-ZTB$6E3y3_^4TKtaxtRwQ_e|&naNP4^uS$iY5u$Igdf1-yZSk<7Ywn
rqxR3$UHYX%WU32aOrSHx((9QbRjbGIYx|ZIGvW{BHpg0$uJaVv|<Ykf)3lwj_POMp_g(oUUB@LrKg)
cTI+e@@fyL^?JL0Z>~ngEm98W97OAnw`EmbDo~Lzs0Wybl@`wM7O>!cKVthtvbA=^2kzcBV&SSNa}Wm
ieAlt+6~a5M2an$al2ppi)!=^6~8N+v!%>=_^8VGBGhi>&2{hTw`W|mR{0k3WHSZGe(H6b@~2e+at#?
ktfV&9GjEcNsZy_5-@M@6YC;JL0f}HjS-O69ymBcvua=dXLjOcNXZfLQnG5dA_sYw4&Tho|3qMk#{(5
965XIl;a!Agq}PqD1g|l04o^W$1B>|=oRD_F12&6114GH@grEl~2X6&?;7zY5+p)LWHzGIQ^X$70dtu
~y7&8<WxXQTL=g&hIgL4Y+IHam&>s@~Q7JhU|ni$^+UfzuG#1$8Q#@_5PBFGbNKcXzd5Zh|@oZ0CXVh
@oOk`Uyr!WJ1I?`-M}>H(~=qSDCCD0cV?Yeu^tkp><4^{-+iVTZOmVX!l>tTePofKMw@?QDqujYuZ@?
J`O9>?j?c3&atXG`K$1Pbg7qKIh-G#f<7;1r^i@eX#0F7QR1#IvuhP1an09GOSEqD%?qg%ikHye$1kW
G$&@~Ks+Qq7M)ZBX!j$fW$^PF50aXmS<6&LsX~YE{{c`-0|XQR000O8^OY7y8ZA@;-zfk9Sf~I1761S
MaA|Naa%FKZa%FK}X>N0LVQg$JaCzlD{g>Oualh-YK<|11m?NQ&CT`z3jN@8Tsux?)ldQPu-5CbS<q<
s)fC2DM=QRI&XJ)^@NXk{(z8Abi<^j92yR);i^R=_<zTGB8vEGflo)tw>ZM(J~lX5Y%^=@PZ|NGG+@x
E?vZmQ-+{@D)lSI^|HVY3^nTK)B)ii~XAt*crUyf6C(V5#pvRs8d#HTG#$4I=^?a{O2JYq=?#8&>pfJ
37S@-Qcoq*3}LF&bDP$=Uv$ktd~VzGPZg{Z$w*N)#b$<YgVl))7{<_Jsa9xzhuKS8LAIn(Hz^Zt3|#o
`&-tl9#qZ9`mSey#UT;j3iZ+l1F-XLd&d+2-v3VYP<9Av+;14GjXp2iZC8%6T2qeI9V>>hpC;eEdj0&
5-@VgCSM7aMx8+K8awv9vJx$=BVr&ZlvzaFNFaAYephVd(HwcoZMS)@;maH4Awox6<9wqR+YKF0_>k>
b`==&DB@g62P@N(F7SdXo~!vRenO*HVjU6ujZi>fKQhiTI98l;(G*Q{7y+*SR!D{I!=O_MjT-W1PYeE
s6v7sWSUzWu|Cx5dj>U%z<$<u@;;RC@==v|6&LhPMI}+STQQz(&6vd&Z_Pi?{TqU>{(@ffyF$@^;r1t
Ewj~$ssOkM(-r3u@KD;)d*nZ8~h94EpN*kq%3xGQ`A*+D;nLFw~V*evzjK9!&^cN#jsm+eG3E$^?FvW
ijjR7X?CW`OQ`sgeiZ~`v8(D8?;`_*_eS4t*eE;ARzQW&!M5>Gldl-iE1wOCrnd|Ub@i%wQ+5CH9bdn
0HNhhEYFM#mEa0s!*s~w;|1gW98?vyXmp6cccjjWbTdKK&pZYy53Hb#(SI`?m3Sfx{%wKXG{m{!?j9x
<clR(C!M>q^%8FR_<a=_Zx^e!ukrrZLvoItS^TPL{Wst(9w?8_m;$(vjdqPI}JXTTrE<tFRX@3Z`Tl3
iV1et&g+eSUR4`Nx#6xe1l#^`Xk^wqf+9S|?i$2_K@0rY%&tZGO|YyDob=QDwYu&jjpxV0$3pi%0YsI
Ml9hoDx$37sk7+%VCg9{Vn@(SM_WQ6P&e+|76P%2F}SJ(E>zPjYW|StX?C*{x}8Jwq-+s^8q}Sm@AUy
97ha|tf~=L(fnlz-JPoLst4DJC|eE%tQ=7?*>$UOWb<$PodKq3IhW!!d}!SR@=u@>QBSaH(Le<oAi!M
7CJq4ORJSab8zuk%7YDj1f$?(?6ODgFNUo5d>FI+BuLfEI&5~t=G29)HzJTeC4;>o}Fnqp##Q8IKtK6
6tzVjiZiB-++0j@_m!&V6n9sadn>sf@a`VY5|96uG3f7pdI4L~9Nhl43Gp-@Erd}N}`op8V*tsxszUa
5KVm%ly=w`7!YU)dE3W8R^#@t0i=DHnMO{Kx*l=@>roANEHnSj;7DI*sGrQ8jD6eVdE}pVQ>q4IpCE)
~g{Ip?fxwJg<<d7CU0^eDNYKN37Fp0y4nChqA_P=OHQYK&nElI5a)LZZWJY*i{w}d;0T9x`R?uT`k8U
xvyaKWzzywkl*CSMjNgKdEwC}uUk-Ezo!hhgR*}}Xd6wWRN~+tC0f1F`e5D<(2cQ8hOzA#4f>{T7iA4
ygPj##J|M-2PcF1!)9&h(0c}&>v1GwmlPqBtfHmdGSHNYLZI8f2P1)0A%f?N+%AFopD^}J8??t%J$O}
2<nWBBs7ie5?+LeP({uY4o9|kzs#1R7owOoS?oD91qN-*nPotVO*4N!b3s4!ar8hzwCvO?0X6D3eM)1
PE(5be8m7%Ci2-_|t>aT8}0Ms24#{(WF1&yffRC5WxtMaHs6=_-I(`mEWCVpVJP6ZdFjNmdQDNg<b)z
mLT)$Zx>^IX$#{787rY3e(W}z?>No`yqUmKY5AYkx0PFP3`@-9Tbv$vSmFO+p;4Fi0u+;mAiT@K)Q?V
vGnZSm;G%x0%gzUtb|3BTt7&`@N4AUstn41q&rE;r~t{c?_qWM;s=RWunB8)gtsL^i-848DuAXy3Ml(
=K!%m2DBfPAjx1npriNmd!EZxEv_wI#9uckj3=A4~?|R7ikR$S&{ux5JlIuv$3KSr@4lztU4V5tFOaI
*0mJ<Hl7okdursR)MAqg<PaznLDf;4_lYyrlmA>3(UHw(xxFdbTIb84BBMlw7UKD0ss@eVoCQg!G0qe
bG6l7>%CPQIcI4dja^pjz-1S&ClWZ>r@c*;Y535%;6g7`3V~H8xmic!XwABTWZDOb09#)Gk~=93X5A@
85o%o89>+UO+NCnoMYkI7^btZN<Pkn6UKoB;B(NowBLfg7K|t2orW)J`^o4;@|nu)zz5ks?+4@B+#NE
Uy`QLWp*iO9;s0jx$uZwL$Nlz*Z{qP*jLqMr+uz~SjB~`+YUMY%A2;|5|fiJ%Edr`(`;x+LIStDXldN
X&8UDw+=@Q$8E`k%O$3YtE|%30ssZRX>n5-sRvx<XQ6&w6KtdKc)cZu9P9{<(cUr?a^{rRXsz1Xt6J-
TV&a?4l!NT~QJXdS*td}g!Xf03BTxBfE<RlIY>#o~fv&v7BGa6>F?8JL(PM2ZcgkjocS<PqNG<gPbAu
y+>Dq517CyP-oOx<y0r6#`vbk%KpJ3!}efx{WR3Zz*Q%+oj^ES#)b#_>%i%QPkhC7%kDrj|ISz{g2rs
uOOSBqJnHCzLkV7y`7hcAESfP&^9g!uCl3kUbCXTEWWs0Q(E_jyWH8it7apZUe(<%=+{yzses2x2Mu5
TllkN4l9TWbF2rM4mCuJd*Tq-Dc=-nM8UxT@lgrCi@f5T8#8$mk|ZXi3B$H2m*-tsSKO@rQWS|%FhR|
gDL&h~?p>Sxo@IYF$i-eJs*)H3=pm$pbTGZ3k!^7`M<MYJu4BW%$EQ-hVL&J5^RoeYMaIEM;Q@aOo3G
0NT<(p}DJVaD$su4+v`8(!xdF+bydeV{^|Rq*kAp@d1hj<13_!cD>Keor6s=I$Np}r)Y?TJpGJ8xk?`
ZLnO`EH(Gyx<-$ClN)V%m=8kB$Q+%&PYvrJiclz_aX<JdgiqqpJAtaniRdYk!1bJq@c0A$fa`Xnn|@n
id6+@RFf13uLPzP0piaeDL9|PCN^&E5>u1It)md)QtrTW0Lk-N3}z<>ey%Ut0!|P>!eTnLvjv`mCL|q
Lkeq270yjo9#AN;RkN(s5~n0f5R;!R`(acI5*-7%hj+_#+hrac<x-q@&1sswaPeZ8;hmxfP4f6y7IFu
`5o~8)^_(;}8ml*(u>l!a%fx(65OaY}397Sbu4i3<=tRl%H^A|^#r6W=YHk0l|1Gv*Zx!4OS&&9r6uE
SzO%;_+rnV`5qC3*H-3}Q9`AdaYX^om$j~<|#zFawK<qL9r0xvGfm|XJB9=A)-97&u^&@PC)dMZkxOe
`c#y%Jxyqky7`cw0U|pE)}x8ck-{#(UlmghF~Qi6o=p4lwz&VNq9>$FL%5t)HNK!*nxnq~!RY!e~#RO
rlB{2fDuPSU)}}G%M`-bIoV3R{HPnxERL9QS3EVeZCPGP)?JtL9X3(FcZYAg;+4f;Ys6c?v2^<vBbw-
gnTRk-ei{b;OD$w{8h%cFe+rLdRF%c)<4Vx@+>|=16Z-e?j}p$4`_%m2hXb^Cz~4ZqLZVx_I)#i{yZ%
M*d`yvB*WWB7{LO#ZP1QxEq}-Cbp|Z&{5ZC1`)kC4QSP6>?6?l1Jyt?vvD%f6pYl^;jV8Cct4dh7WPS
lbxYRbb3zCYt4PtFEI}S($yC}6lIuDZvkgbO{xo5(o1wgU88nOfEk3cUN0;C+DT%IP!7`z7go~4{2la
JW041Hc#ACSZ2Kq79l0ITqvd@_zL-`=k9cb3lRGc4e=tGZblaJ37^n+e9BlaHM{xkdV>KuOkQ531XHU
>E!BRBjc6VZVI!@87(*NL~$Gv4I&{5VucA{zasUsY4P_UHu}-HaE2OEq>|^XbnS$C~UVDvoP%`JjN;u
tpj{)Zc1ijWT@KQOMFz<wkkV;QCXmvK)>wGf3{VV8Ie?c7toSXn222V3LE)1Es$uCp3prUqL9amliND
lOIVcys*lFf9FmOXH+gt<PNvc28C{sW24gPoX;me1v7yJum}YOu&{`A-<O`X*(DmdXL1<sNJ7PoNqDT
SwU)$6V6#52a0~!IRdMoHbtZIZe+D>}~OtrsXv@*P42RN&G1u`t_M~jildciWW1#Ojau%eZ7)4M<45A
c}qgofRF@B(z~b;w$}&ayROx`9f^+K<yO6<tc<m_z3Z-{-)2SUDj5W4Iskb7Vp-P;9efzG2i+53L>=-
T{-ZSTIspy2xT=pFqPA8Wgq*;8bu3@g9%$Pwn>2S)5Gw^i4xDq7*2!nu3KbKvQcnCx^(uEbNr^w<$k}
!EzVxffbBSiiowyoj!?FD&FZ>XeFQK&?qXYg~7xF@-=!RitfSfjJZS&Z+CL?x)qLa<TE5Qal0dyRJBJ
Cl5Am81gm3fW82mP?T+n_+MUUxtdmz%kd}%opS{zST?YR1R^Exxo$YQQ|Ei9N0cw}gy22qV#_hXpPR!
UF`}4#MD?wDRd2EYz13mHxz>BEBeIy-r3&q*V7!)k)Dt~--4gVo+@$R%9Wy}k<cWL+Q`dCmB6$XAny6
bV>55qf6-aL$(wt0r<J>XMO$ha<~9gOX2s%5*ft#Y7?z4`Mq!nmcg@s4n1jiS&|RdeG}ba&;?oHf`)H
arX%P)$+V55tI347^7dndwbZ!Z5F_1us(vIBunSMCJR?<9h%;>05sEAd!TckQeOYY?vqsiI%_KC<1;r
-Ybng*^{ZWNa8f`iF+xnyT^5v3?i}hOrexI+~0L54a>gjMkTr66sn00m!luRx=GbQoBO*L-@boSy!mr
cq!>@$3Fa=rI3Bk>fZqJ!_XQpeaR50X1NbaJ)F_r)412poqGcc0az`s3w7uC9jWz`RI%pe`9u41Ipx~
YZ;FH;`X=fN(I9sl7PHb3e8|A&w6_d+UeoO5tr^$B=&7A3&bi!kdV)Km8KCZc>6ke^i9jEA!Dxr0J(*
*Q)!RK+|N(WZ51r86|R71p6HpV^y4NVh-hi5}<K(N~a;<lbMcaJtJF+juSJQk<IK~d1kqY%d>mHix(G
<S)k)b}guGc=hAH&D>;Y&s*z_%?N0vInxfU&#d$U|k_>S$pDDaI^VYJEiW8g*SLLJ#OQ(G2<Lx@)?&!
<>xLIeeMJunPX>swzX;RLGD|%yD@f-WZ7=FfUcrucdVYv^F7aB{OkMQ#|y96u$-qI?Vy^wss(5}7;!@
lJLGKJXK=o3=Od3D6)tN|w^)F7zRBf@IIwhb9SoaH<bkGu4YkEEvy=J!<cOst%Q}UPGa`pProN1L!YS
%9*lll|uYon6M5L*<3%`#e%P)WJZXUErMeI9bvXymAnk&krMk~t(_EtP~Hv$Uk2jY-#N)U41@ePSbFm
B3004b@l87z&v3M1X2V*ikIEuNeqrxP*ffk#f1_qX?DziMC+QFUt{#Ys9jd8EX<d1CIF{1}{;@pD1iQ
W=r7{3vt;)<5w(w!r?YpBNp16MHL8IQGbt$@oc@TkV{c?Qn$4jiZ;0&(t0AH5->3fqr>B2Jy+m-fW_)
"%text.

(** Lines 16515 to 16664. *)
Definition DATA_109 : text := "M%EXEyn>K7WNLrR?|b|@q?R*ESkO3|!1==+k)JR|OLEWfG$ybHU5A6g*jqfQTCOq+gk>4wMeU`;-w9J
cfDi$w-o~UXZla8!P5MSoJuze;L^VS715I{wcS0Va+>(jo1AH-p_+5^mAIo`!oe6Z|CdKFr)=V-<MUx
zjFxf=QPghs{)fE;@@jrs`$m0C36x&N5LC29GmE5kk&T=f32UmnL`I`T6;Q%JTwH*Jj#ELD9k{Sy%Bc
G5R!FcZj#v>j+;A1rqSwRxKWhV)M3tPw|;|YxgyGbNro)``^B<f=Ez?7*4ym!hRt548wb6DcTt^a@^6
yB&r#h)+h$)OD#N)5OsS3x;M+`sWbn4lbil|G|;jl^$gV3-QIydvkreOce~Hp4-ASeFdd4W5Pumf2H7
;liS~qC7ShFNY77$hmbj3yQe-oF=b;m7(JY&mW*ezlHs$T_->Mfc1a)0ZjwwuG@mPG`gyQhJrB}1MP`
5+Hw&js;>mJ8Yxyo=q7!;v%&*xIN3V}8}B%F!^PvrH=v2`7P!AX?jE}GG0gYlZdccjfA!h3JUku)qu3
!Fc*yar8+_iPdc`A6u~ylDXoy{>E!&FU)oBX$z=N+<-!{PjK>1*d_(6M;!zYfiKUwQV5hbjYMMZp`i@
gE0$bBYB+yCu*cvKC1%%O1U3*Cb$w}YWB9}lE9pCiV-hgR@8YE9vDntWLgZL%_{Yuo_s-@tzvpetIFB
G^gQohK<4O%p-W^2LyTf=()~hVhE5S!I`D;yH{n4o<H-Z2sD>X0g#VRaj$j{T{{*e7IT3GY^`zUq5nr
HXS68H3Oo+$DDFVUkhu>W2yI6On9m6Fgs%9#<uA}v)>5$L3MK)Q0z~RY5OG9wquh)QI+u!iY@od0?Wm
4Hp*IoAr(niEpNGpwe3h}#_u`z(mK$PU$b(kK<!y@FYgj}WPYBwXIx1_2_NPWLuZ9DBo1l0&=42~#V#
>|d@TC~IUg`$52%@(a=X53K{v|XX@<cn0cV&bzfGR**`Gl;=*RFB-?E1}=yZ!!nS8iNKERf;!(12o^v
xs^`KwO`)FU3!K|RZ@&Oaf`Or9K~iLgt}j#IEEdboUYy+5uY0Merq3cI`w8`{w(pi?Os0VYD;w1r!em
D4wW`2FnF>z98_J@FR52QA&vvopB-Bs_jlgokui0Z%M-%L@~>Wm}_jlbAie1C5leG8!RFTbg<(?($^~
Bq?nKX8h#<iuw|H3cTc*VWdLVr&pI*{>v{WSJ!FOHR+}7iG%<K)B6|(ZauS{(Fkp_pasu{81w^LjZCC
7_slM-_+;2RVa{cFekv?tEjvg8XlMdn0PNvx;K!rH$dNn9CZg_*h||ME-Y4_UyyKR1&Za><HM%HIwn|
0QI;npwLF;)5m;-}@38TWG5uVXOA71AgV7owmO$WMdB~WSNel+ZU+?;$>HdtAtlIR&Q_KHUhjTH7_yi
pMsu$=_F&%5TfY44kpm`^L>=d~H`o=_i^geLTHkION5X3g{Jqq?-DK(0ZEfv})u-i;%=n4W7JzdV02O
->f&3J>62Bxn6e^eBfpfxN}N@lSV4a{E#y1oy~?IDHJgv5p;M+6@rZpfoD3$g0GfOaQYs2Jy}A1XL_E
7+KwF+*8##z4|hM0W0TayoGdx)xm_qKA?3p4#kHc=IzNepxmYJ8vw{i0Ft}{g{8i&6U0`M5iglg0J&E
iq(AMpm9sT57q`rKB9?Wz8{2}?5BA&8Ieqn8C0`*K&q}qj-1R-MERX;>D|_Hdv7LIvi1m8|!Yb%xATO
>_{v`c_OaMIyq^pY8=f;s;Q%k!yK0o|m_V<S$kR2dLGJwBjYi>ISm5SADWE!l1+3v;xb1snS0zJH4&(
_rkfHqT5#?5ZfxZ<n_bq!SerFL&B@FWIf?4p7onk3smpu#i(vAU6IceK4AF$8R!L>`7Ck_cfInwd-_X
pGqjZd3~z7|-&ysMaEnq3fTQ2R*%vjeB^tq5^xbnwn?5+3G|QA{o5x6=jHxs20ovmS2o`<w5#p)+Rk*
;+1$rSA+!4z1%<<!Zun$C8q5PnR^ip`equ&1I2atIWY0RJo&3uICDJIS~|Lf?WKTjN*SA)vBS~~J|Sg
O5&SqO{3wx?6bi?XVinMkU{ArbAV4vsi*b!xWldFndqGLobWj;{xYB7rO%=jrMJ83~2XJ~c_F5rFno(
fmu-tmo`c^Hfm*`3<NoiGzBCNt^vQL8>u6zm{1-4Gn(J3b8ponr>-aCsUX(qISMQ^fCb7^EQk`bvE7Q
<$RU|t4NV#0N!1mv2HPPw7>BY~ij?rP3GNtx?%IZFI`M2`r!3DsUldAVA}Xi6ZEzFKaUR1wsS_-j6X7
~MQY_#hQ(Ih(XMG64ZR%exY_B83~`QU|8B@%WoL%2580XiJvTY~f?-3?Xdu3cn2@+s_K3T+DQGq9ntI
I<v@4ehZL>Z=Fi*5*C0+j5nKMBu>p{Vgbz1Zr3-^>xbF4Y+xm=9?xbyTf)+myP*qijcd&jgu>H50)>%
{C^qroYGkp1g{?E=#_HpvN-MT#(M%MY2P`bkc}+yTH)^Z}uy`cja4Z8p9S^#Teh<>Vi%g5S<Dg)&h>>
+tx7K61K59v5Le~N2)>!{16n&_4a-O6Z2K=*XEmJFgR?wQgi#aZNk%XLV3;{_;?O!N`mf?+)Z{SG=qQ
Hc-dP>q53X2vQm2oM<1j$%BJ{B@ul?l(pE_bV3#g>G??U+nSL5!ZH%U!I)vYXUu02-aO>B@erkTp2_s
i>TvNC`)qlYA{ZlqGtfsvX;R?0E~#tRhfnpLQ9CaRyOM8wi%H93G^p%qh<UD0$wiak;_FC5rWv^IpbG
3Mb`IV@5K-+g<4$TdZ=H8*w+YC;4Z~r%z|y!?XM|1en|n&gb6xe%vPQAO9d!8ABAAW|j4t6m+}p<<sk
U_0H!K@(<yGcAy;>{4Spq8=Hy7a%e0)NG8~&%<UscqxoYzhU<>qqaa5ja%o0<PuwY>Z54xLJedrd?om
7(lJzE>YKVs>vEGqDP!`M98w$0dq<j;Z3N7dw%4|^c#KC*WlJEk=SCaeA2Av;@6SrOz%CZJqK9uuK3T
Z~>IPTUmdtnB%CwmC;h^6l!bq_%wLy<1D|0|+&aAK3<M=2usL1-d2k@3KOio(~)@pId7K?*L{6$8>$d
=LNmM(@{XfWSR%)81Q}8l?-FC10Uk;v#C|9^<GxrA!yb9>-(x2O09OjVEELQ<UNg9WNk17CZ-^F5+Wa
oG*}~o2n^ehGKP%{+KsJ#HIuvyud=78W%M_LX@>DJEtx12~E1~S>zDpS%--)o56U*l_PNp^P`#|fo@T
bsXyJA)v2vnaoil60ihwCf?u}6Q`D<lSMqn|nteqtJnyEiMBIAa`6Msz;>bLizTnb(pjZ32B&D997IA
FCiI}AhB4TPbXUTVEy(1l4Kmv-}4oAT-aC<Dh;&TMe;uEJ^A4q_9@j0Hj0tbAI5$>hnSVMbvlRdp40^
b{f6j$;77X8S#WmBy&Z0P?%hi2l)79IzU_a<flmN87GcVKU-cc;E_&QK(ZFKkCiAnw%w7|1tde9a}yy
%{;gmdfJx_jFXflNNUhKQx;<5ki@1Vvag`@iag+e#((@i2w6(ayXx6lp??Do^(40oVh&RiOdrV#Dg9u
U0I}$74hBa*)TgB@}H_MwS6G|*_1nVkjDcS4EE7UNz69)C1)_fc~Rp-2O9ySdq}L?t^)Ghw;Pd{6_dS
Dp*+c|$qnc+FtF@?QlU#YTTJMhtRxMj__QJytbReow89w8d;DkN?u*sh=qup23WPLzGi2Y>fDg&s7NG
k8ASe1HeU2VPq&`YA6CZ=mCtDR)X%#%sr$wMoE8x)b%)GvbY!BGLK!Pka{a1iSORE#PErJ3$^&vichs
&!01Pc2-H#1(CElo8dERwh9-bNp+LO`0hWibDbs(V?vmoeaDH$!x&>d+l?FTeis+ZWIM-UByk?*Z&*z
nWV-!5^7@AXVxAZZcsvhQK+gz$0e`HpB^lsTmflj}rKalmx!)qYxqrch6Y@`Bjqhp<}b6lf({>1@2p-
?Lmgc5c5P$v8-9y6fkXtuuApPE)j`KhN65@4Dxs-V;+fRqgX;#CH==fP`UK76zDGnz)wCreepc`&2N&
YpP?r6r2Xe#|2kHmA6LWVB^=n)3N$ovtIiUc0nt$rUY|Ug@3}8AF8|6bJHZ0Rv8M3!#lxTR**AYW0s6
iP<XAHbhv#nMG6fZ|X}%XMlXmCyU3o_lh6lL55;ENWb76ybiiel@@`jtbpO=F^o59AeVef=Sch-|Zk4
_9A0B)cZ0C>1pW;L#0=wHSq43`)@ElNWBPcN=RrPOgiqkmI-Rj6D%TSKHKi(?_uLC0iFb))Km6o=mJs
+n1RpWrC~5TjOovxA|e^-d<C7I8P~W|_<DDIGAO8%_d)2%iiyBTRKv<$<>Lh9>G{6QKn1IxbgR1bM<!
D>671@TM#A@F9NXY_+KBYJA9KNU514)gP^UEvJ7XkI;z!1cKf}SAlu^t3ZiiDtbYuQ^<KmC(PQljGLk
(&%(DQvnO=83Rje$zBPbgZFSZka~SZYg|A`GMJ6zj9bPBnqYcD>@<-8#Ovy@~KCeciuKyV~?O;W{sCu
mkl@SNG(U>I9+0j5t94OB_aRZF0F^AIXk%*(tc*=ukJsy(XV5T0nsSk6M&{T-O(V~^5b{Sxemxk)%&~
q4qQ%Haa&~+$@iqpk8Kep#A8%&boC09{kC^4Fm0xyu*lZQnFGJEn5MQqcvKu=Y$ih$=tBly|D1Y*kmX
7CfwTu001W!GUWEGDLz94zIl+g?_(sXFEVxjf%JKkGjac#o~~<sW;rJOD3#+FYMB7pKf86BW=LOehq`
1d?ThZ2S{fmvR!ZD>F?Q4kd(-oKf%i6`uh)-02b~j5!#ylll!I1C4K)v6iq_%2}`vlA9^yy@N*pgw-Y
ryJ?JqcHU5ZSgjg_H^#^X;Gt-*?g95WOah3e7;%Ob=2l%1Po{bPUhRef-$npway@T=elf4a5l%(>?3D
^MCg!lLcPq*bgogEFfJMe>Zp1eFEqT^U5~dRSQToC(n)CcXiZ6T)X8Q3_>PcF`I+*e2s62f~WB{537p
Y?}a~5{!?jS20@mn53CrxAO$||2ngs!czL^>MA(ZY{hr!oF=$`4=C1vSZRR@V3B!!X-5Xb=(7!aaq%k
QihndJI64q6bggy=y34Fv=EqfE0y_Kv-sMw6;wIPZ|Q#XLx4;@S-eWrWAvfe2#8iKnIs~A6K~;Vs&-f
{Kj+lTih2VYVqVSynp<pv*R4cM~8>F(@udQVJ97ma-_sZO(P<QvKBOCgacNM`m}WN<6tCnT-SH9r&&{
@b4y37FJNcC{RjjfeNoz1Dq|%%gLPgzjiO4WqZ12n&vj{v<wc8x4+`QF%ZwpHc4g{45n78$yXm&){k2
3&PKxhc&?Qmi9Qk4oSz4bcAul?a{kYY?1z{QjFqRBnASoZiCBdUB_OMnD{`uUrgoI5<a_CVBS3Z;op1
d6Lrn&v@N{jkcucy``IVSiU$&%~9L8p!hZW@VjkIbk8nGDy_X%&{T6y#~%u)-X9U$4weAF#?$?DR7De
Dr3ieIR>x!+tyVjM)m5VOkS;7%2`y$pOM(gV$F#qvOtVt^q2|+m0)WyL9u;Q-G{>A%%GrJk?vfDfNT*
w^d}4qqC@Z)rHZ{1zyX&H9Cwr<Y1X$_H8=WqQ8h}e`fUC&UWy7*07#Jc87kcYDmix4<*wHy(w^MMNT{
28_q^9qCU^V>GC6Y@>r?D>5Y>~&zLgTZ0L4IkpQQnLQRYygutx}JP_Hyo;dR-%r^Fs#HpCp2Rb}MCPa
P6hx{1i{%e~9*a#fV3ay1b`KjWjdH1}KD}aillY?>0Tnh6s1D{xL(K7x#25)Y2v&;vu5Gv>Tp^eVCCG
8$XE;n#Zx$e33LpI&a#PEKdNk#{Ubf*738`c4h%oQu{@ow0}(_a%x&N8;GEoS`vrlXByCAAYkhlhtrp
@U!cn%5H3zLr?lwD7gaCqFlTV+7nMFtp)w9mt0hrs{x!O)M#HU;~0*v2IAC5S_I=nfljUAD<=Ix|d*|
;;lH0dz{+eeqN%2V&%rR4$AWj1y#BaU?b{)v%S3ior*MY7RY&Nre6!3nNC13?%S@ffEU#V?!!5B?S>s
y<JqwNuDMBq(fDQ}Byf|QxCFzl_uQ!Sx*cDljpc|Q24RVez+VY0*<fg5(by<XrXT3OPh?^|R%F^f)3l
7R8yLmQ7HADTE_U4NYDAq1(Zk#xWI$oZW72V>YxIVCd}J@Nhw3Dz)74LQ+x&MZwHs*%<jFWh5v58nPi
#fbz$sugMpcrHw&b4lC9r^o-*<K<(yZ;fy4oJ39hqojJaS4#KF4Gq`Ive2+}?pSQ^JkB?}AA>N5q+s%
(^108J_--+gIGdt-ZdE^W3ZCGZiDagKnNy0Ii}p?{j}S*@ZUkmhnPk+4BYMfKi@l`?Ye3%xw>eT}s_-
ZOMS<%}xqglA8pz7;&XqoDGtKHzp#%x0~6_<nBf;hfoT%6vPB>!m%PbC>6gQwI;2Per^DH*1_YLn2h5
ac`!qQ)J7CL6G-8>Rq3=M`=GPuAppAvlglU9F1f~WW>Z#lSkAl~D|xQEX_t}XpUWRG&6Fg)Aj}qBJB;
h<1Lh7F6Kzh=J1j%Dvx{;`mVh91H%*@8&j4BDQZNNsNs0K#+XR>8vFu7<;8Hz5>qmL#cw*74Prs+EbJ
-Uc*u;O$u2%UkC;vze3$Y7VB4S5V<f-UlyIzZq&1BDV1N(R>0M*QI`gYf4A_tVZ)ci+@6t2U;3%W41*
!6XW8JsTo+Q0+JWXcpL=#lpt*`-b?yA;g3d;wHTC*XyO#QUK%R{VkhFK5rL5mJ_p<qf5TUG!yx+3)Z-
ywk5ziv`kE2OPpbaayAtQoMS4&2z27etDZlsy(~jiw9Sa5me%l30bOuz&7m)ct=C2n0anZIvj-dDq)%
WamRYRs=7CmFq8d>VM=_NdsCi2r??SiK1$xd{W`ZA@7WFe&^hS~PcE;%IQ_+S_Qjju;ClG&<@djsU!P
Cr_<{}|$u}nxO^PH_b8wW^9wV=a?kvJHb!I>sC45+#hYFA^gcqx7{5tq##u2Cq@|4cI>$T!{(DBHe(c
fgbK=OiQNMs%-c<DKBRo+qvvxsO!9VuYeWaA};2Vmwi?1#&!;6El|aBBup2EPGB88Q@w(B=mP%3VDcc
gw-tN@2F>;MzbA1UZ@3-Q&$@q(Yd%%$r{=Np*%mfDnuql$LccU&uBD-O{HomxwNyXEWGIH#*!k=a{nl
;_>4}U2gFIzw6oEDe&I;%NEqd{&G?Nbo~oclb;JeeZgNUSotOTR|@LawIW#h!IRUOXyXf)hF}?vPLo%
7OFVgSW%_y@d_{s4uSM6@3m%ATjKAdzWy{wF5hCZX=acN}^78wu>+AEYYhte|MIBPPMhLtvnzm3q+uF
R->b3m#Y$Di@DH^(fFvp*4&vwCBCH+*6jtS2)zF1YK#tnY1P=EXdgwORozUmfMd3YI<zb6>7Z?vSH?0
HBWw|W>+yiP$F7Pkn4Vo(nJnk&-HF_nj0+?3LTRDMQTa-ygvuM%v(VjnY*t7gD@Ew5)bV}B_#<V9*v2
QMB}bbU-BP5V|4d&a!aAAN@pK50>qS!qN0oQr}IFZc*2r021g|MJ)4Q>+>ca_Wpoy!^{wIjV7IknBPx
P2@KwScpY&A~XqS!v&t&av(Ug&6x|7JwF@hjF(f~SnKlPu5n2Wn66Xg>B01zX2%TP9%|J1j9$BQ#Jri
zGl06I@8E^qO<0Usg~21_iZ*VSMy<70DP`~qxa3b?y`zo=az-rJO~tL}#6ywqPeITa;or>-`~&qDKlS
IKlVTp*mXBCYBB>?kadys8lnUkD=Mvk9=~&`XjVtoF7h5(Am@)>Y7cbqO&17HZXX0jRoN%*)Ufdvxk>
Z*wnIBZ1M>vNKl}8`QT&ChO5Ao-4?S~<z$P<nHn!64S%FKvwh|RDyB7qLeWT$-)F+tQEsMvG3MNJ7s$
UWiR#lha#gR&7zJw;r&62*mBV7B}N?YYMp<klrdglW1lC6HWYo_~Rh=OI1BAF=`8OICgS>as^H_Brw*
V-lf+r&#(N_anN7my+`bmK6y~Z@9+il45|J+WdfzT6s$lL)TK};;EA6A%)eHQB@*F$}r4%uN43O8&FF
F1QY-O00;o{l@>=`7|$3%8vp<_YXATe0001RX>c!cWpOWZWpQ6~WpplZdCfg*ljAmW-}hG_Gc}QPrQy
b@e41o@-do#sTe)*w=S|jCds93}ge2ZjB#$6R)?M9yPj>?#@uW0%QVGj0k4T`=Xf*l_c-J*Ymgl>nA3
BletUR_&*E7D6O*Ql)SHIu9*<rhFQ&nQymrX5A!$R!%Q1wN*?ceBEyP@9pO;btpqU=TIyr`P}zO47=X
CpQIwrsQfMbt&p8Tjq<KJSEVhHfilvQ;PkG6>n*aEj(sR}C*rljYD=dEewM?+<G>)GgmW=kRVdbrC;p
MeEFN`Jt9QuPTmjzv;TBTeIK5K>sB=32)w2o#4e;HxkAA4V!tsE@j`9n*m{c*Yw{uLtU)d_nmktn?e3
&D68V@vZGNfq+n|JZ(gcF3}$-FKfuJxP8>zuPhDVyYMKJ!RFtx<_*u^$e)Rw_A0*DB7i%VJiR)jKFu}
U%j=U=WDya3!gPZBaGw{p0fWdQkJ2iaSj>E&BZ{EDYKB8lfX63WJ=zmA=mU&+DBXHgdnr$mCC9~!vm(
AwSz;UaGH)<MU2h3X5WuNCuDXJZOFyzIbS^g}}62|%b<h@4*h4+8^`veG^`an7X`=GX9P0e3;1w5AM@
Oc{LGjw}mJ77-u1IS|md$MP-ZR(!Gs_L1nahn`N$oSTUVgr$)#|9$|_`X({T98VbE39kp0(x-Rb$Xxi
wuSArguho2GO7tas$pzo_8~GU(vEQK{+(#Ma9tJMaZML@@`2sS1-oNQY`c73tr`7+T|PfQtyYTe<1}f
BS5H0;3x~!2b|?S7LZFK^TV#K3%6h5BoLCaK?z;_aUry3*;z|U1b8}<9N!AQK>kopR4nkDyMFQ39d-b
CQR5@(2U0K0=U?-H@OilkIbm%OUXcoLa_XpZ&S_W+@!Jt3m_`Rx{lUcxfb`tD3$ewNBD>myJASp=QV_
6GA$AZpqzZr@wVIb(d<@KTm@!oYXt?JAUye=x$6Y(F~ea8!ICdDe78FVjd(eWN$unI`VnjPzg`o1rZ0
uVx`67{wOL9T~CmHh!Jrl*Lrg=sTh6eZG`1JOWC^F7c@V|r?asxaLT{Dp=U00zX%2G^Fx+MHR@AT(e{
5JS9!jR*=2Fe}VhBMwOF3TRb>kbe;{c@W3g5+#{ri=si&K$p%zbEshvM;IuWodu+Idf_Fl+5(6G^tor
XMij_$I+WW3HZvd!A<GV1PXtCT80U|q0;cYV)){F%E(5P*W7fg|_4%OeTr^|!A8BuZOiO?WAx}u)AOO
T=QzJJ<mv}Y9CR^xBOk%4<rZyE5KedgdwL6US;F|_k`Y3u{@SbO8+a;6&3WdL*uGiD@m4y2hB#ZlEf{
J=lL)@XB>nunx{2!Dw;c8jP!l4=InPiCJD0z4(1p~GJ;n-G0eNm9AC-@nTw3-G+QIP|+^AQ7g<Znn_1
BH06w=ZnHUK5n5Wh$k;);|N8H;BoRKZ~4e@utv;5*NUK3oRPhX|TZ93wAOy9f^{LENYry_kadeyar<Z
8?`f_kAQc?C@_xVdLS^_f66?8$w}C%a#xBXhmGEJ1dnTx3rze>jW~&}d1xA!2c;Jt*gKGcHE<^|rzi3
!p2PowMs=x>nQ;Pr_d)*fb%bivOjIEt#2?5|#NKD6%xRX9Q9j}O#3=H5w2a0x06j9;hS=Qh(4(LdSUM
(rhE0i&%)Xb)&<yeBJ}ua4_4%KkuG}ZL?As4N{{EYXL*KXZ;qBW!tp2dcw$1Tvdv5t#kne9xDM8V{{o
;!+{(0=z!u%~dC_4R2IuPGKMkfUuR-wHLFlO?AY7P|-NX>oKY@h?FMNv3r9rn)-T;@hJE*GN=KIh0XG
V6cp7c1A)Q)p%YFZY|fi(#ff$eJ;*AsE7mk(~Z3pCJ&~mCF~S8EBeZ?Dz0{*DP1FO=0oC>&!Ll9C^Pz
2nlW@Ic`gf(T(%=3t2tNx0al`a@G#>S!U`FqQB$|t-$~SA5uw4*=^My#t&A%v?cfWEm#X8;;xo^@cx9
EfGBiB(DF!k^9zh2#l79*cTGJ5$2JH|XP7xGNGJ3dNmRf&B?mP}57l&*V06LSs9{-qhRxi9IsN#t8=`
1vqtA3F;hEbcNliet+;ZR=YU1kO_r`#6S4gW9d>+8m=f}u^4-5n==xzzlbajum71*TN=}<A{7pScd``
*Fn)RlcNz`AWR_F=~mBeajsWN1zw$vU$~V}u5pfSCjD2XsYn3TPqP?csNe_9AHO8br>s5G~qbO1JWEd
jK1m{1XQph*H%g^9higI@41hVU82GC+mz7OdLI02|hrvCXI=&3Q-BN@{dPQ$uL8dn>(1l14)H{Fc1-6
Fk1Hq^2^4lF?zYyR=HFrYU3gp1Z6UtYi!A_85uZ~=H$v}WuJXKw?bKE0ejwfl3~S;rNZb7WAqj1exI5
S$+91?;RCw~0WCBliyKdHyTWypETGKBzuhKU;-I!ue_3kn#~*)uaQO_^E8H9m%>1t6EkHc-x-Yj%??K
xmKU?sCNnq!1Ko1p2%#&E)HYk+`11wCA;pBObJO-jyq6=Ks7O>G>2L=SPgFn=QO9YnXVqE)0=FZi@`O
%q~+t7H<k4EykpM7x)?fh462TyoHd+$x46DMcy(T%LxX2<V&OWPbAQ(l!E>~RoqRc=QL0)RQSq{z(Q{
_f4X#-2s)4etl#B1&Q+KrCFK8Ex2tAt`qQ@W#kJL_2=~r=?9~zabzhQE_i8!E5la!xl;b!Uy$-H(y&-
;ac0j-KLZ3gm%^sSOoAQ8HG^q@6`v^P&C?`lNKD0MufPZN0kT-#=kwXn@Gsxs2^>~6j52ODhhY)qZcz
?hHX4!Eea%j=|vwc;XF2{UoI<4MMk~g$c60wOD8yyH@n>W><2krhO|-~%gXiB^Bl~@Fl34Bggk^Jqq@
NVmUXx#GaXZQjb^<LsN6944{Hbr<BXo10l+KjdW_LNR{XdrIKF(K9=Q3ksyT^nxe6@sg^6)~2Go~2yR
fp+MBq=W%YoTf&+?bz4|^1Fh9Rdw?WIY0lV2|W?M~`A#J{q;!j6zE<qD(AUoL{hxMM0VlILWW=Xqw57
Hd|C8poFuiB<@%EZU)q<&2>s{S)i0(LzIMimn3!jaZxSio#)LE*W<sx}fol%Mn<h9(ZNc;9n^0{m?K4
lxiVRoMHsYAqBag+0-9Q7Z7r2v28gjPS}q%JHk#WTM$252RQLY*T@kdd{q2)j45IlifC@h7HlvkbV6G
Q_9JLe6~LMNP6r<OplSv!uttxHT$Y83V%wSz1#M>0g~F5WOjTZwLY8XM-!;7sw~+-}9@`3q1HGY8TZw
CeGT#km3@tWvsIbPY00+yj-iZ$FGyrIsp<^g&ih(<76v!pFyvB8av0+#pQ~vw}Lc<x{U))lXOyP*q7G
qTuCi`r07J{(Du4doaAg1nQmmPo^|E$8hu=<KxQJa@o=F#Tk%rP&t#IwJX(+;kC_Y7Y9(u-lJlwx+`T
@9AY^5z4Y4QRt)l1TSqcO6sldjiGI&Co@RVC%UN^-I|`HO}^C9bh|~;B`?a1Xdm;Rj%-9+N5@$(ZsL}
j%Y*Q+z4%uXgA07@QjgY2iul#jSGL(NU}I{y=6mJF>;k)%i272dfQN#7pA)F_?}YNcF&{*Y0{DwigEh
d96dI0qoDZo-T5I{Pw^9Icwi$E40_r~BU^|gYVOFYa)AB2IFrM65iAN3rw!0?=}Bti8qzj%`r`|rdXy
LKhG06>7|sG=xC&8HPG(Tx5IURqEWU0A9Yr4(at|(5jVhBZjlcxOdneb#4v%-;DpaNTfI4*)ppCNXyI
T3gK_;`?h10o3iD}~(v<M87&p6hTE0iK|bxihz@|JHfT}FCow0Vhk^4E-glkKxL%R#<p?EcqLo6fRq*
grf*_Du>|<86JmK_Kpq5H%0zR?x#}oJIEnKH+{yklNy+II6e6reri2-Gmx^0h--#1*qy~sC&_At0D*=
"%text.

(** Lines 16665 to 16814. *)
Definition DATA_110 : text := "O^~pA?Zjo`(|QVbSQXJAmr?&<q6c+za?+q|>boX=Li*GYCIL;SFqIt&n!B`iSA0qdO2Zr}WSJP}9Z7%
_T1qzIiMp3aXO9??@s_>kbyH*H1;v9l&h$#&lYX~ni61w7``n3L1Qd8?+h?#0fL%kZY>W2Mp@YBqeG@
hSW!Z8Gk?ny99j?&x`#kk|x>oflDo^G=re;F(zwH_%pu%LD4boEy{@Q8cb})PYArO(eYZ&;k;HJb%L_
Me(VPM_&q7-M++phq%R&@P2HRV*nRHc)T*LjXwE+shIQFN3aPMHuXq)R!59ejK#R_lfQB85|4D5H@X8
a|o$sReC~cG)s$7AU!?6A(v6I$XC(_{62VwwbqGNukx{;yt-pC^a#yHO4U+3??X<zX*5AtL%mwZv@QC
Q%o*07F*oOMcg{Sa|#$ElnFe2i$`&ReR=SIvJsQZm#|E(1$=Q6hwx|3izh2kLyK+f+T{&sdQAi6i}xl
NaM#_yDmet5s6W(NaB8~q0b{LAy(_z;O3iuHzbFs_qF>VXSZ!I>L*UwG6K)Px_77jwQ%vqy_W9J;4ws
#H^_;tzU_EbDR_9d_y~jAd{-O&1FgXU=2F(x(lm#&z-THz3R@LcohPfZtJkQt<Dxua>El$!hwqi%9`g
P2i@-CWtI2EB%Z5kyAf&wvm!rT|dDz=!>iAMx(DU?KtV8tjgSW*}M(v$^jn;u}4U_>2<p7-MZbO6Wmo
-jc}fo+DpW$S=^prMq&_p%N8%~*$?Z4baDuEeTLGCry}R%@$4lp|MeY{0{3<+Hb4fTqKhF4G<{38E3#
>m9A`F%Rs4u}jGQ9y*|6dbDT89$xL)Sf)Bt{Wkvnz3PCQA0<1mk;;x^?d2%l!JwLI5zvEu3v^IvSe5u
r@d%ZYxhc9pH(yFwOx5knM0-Eq8QsJV%<+^1=<E*pRL6*I@{NSE#RD0|xqL3$DJ2yxTa1(aJ=xSj-I$
d=N6;;X;l^$s(dokUsJ6(<G4hLBZp313va;mff^VT=`l(Ce;E{QItOt2kh03^lx8&@R6jOs#;)TNtG=
j8ru|?WDOwO~dcDqd3qCGQ0oT?Eht?Ly3Vb07-!mHryI6G&Pk!%6-=-Cu+$2ovYBl>LyUey#)RxUnmZ
iN8Gf>k*e7A|&$u25y$q3cxW+^W?kN0(26*5EAtpsYoRDa4E-0*_D(T_tHrdXkf{55`h$tZo7$ik4c9
>&EN5X6Uizm&$J?hO5u4#Df~;?mU)_8rQKM^jfJo;J%oIS&vbDOcKK4p&~#+Vh5qjMZymjzH4L)8(jg
^*l9|?wdAlVz9xcOdTlDe>_Ie{+F~Tc>2StTPh1+trm*#QPSo5L8ET6dJ_dXYA`{mdJ|o|#vC1@DuF2
G9EqA%L$yc`Q>C)9+o`-;&UC-%}EyjjyiFuRzvA%vn)eD^&L8rfl@_i%dM9-Arjz<q}*|#uZDly$~>1
Ah-B}_%VVTlNYz7xV;dRljD)sc~OnH{@bGucF7lrWl7Y9Md;nZQLN1S+7jj8;AbYLqHuBQ6p?(NM2>b
TuRurrJJ&FOBUL2;CxlbQpN%gjgC2k4J{~zHjae*mv<DDn7xY2X3H;SnLE^8Y7D9*_FDmAL+=NY)Gp7
W#IA<Ws(VkK(_&;5bj_tMaiWov`C?x;b{&+C+=bObaSd!BMuw$o#~#R4riVH0c<HprMww5HN)tvc~k+
W|5mf2OYu}pQ4Kme2k3k3Dm;G%P)G}!53mCgAf_%VX=itfc5(KKn;@D?7nsLC5xAU@ZL7p4!^an&dKx
k(Z}E}+aTbf2K~tfhRQp(x#dyQhP8&am@e<vbfK0}lZQVJx@ywYMP)^1~jyY=5*uODtXiiZXrz_=V(c
zz9Pk7#z0G1<0I%xxd3MT2CRP4xzT}j_;@T?+Rnqv;&4;kBIZ47^ev#c60<<N407UsCH6)wNUlY2+Bb
jI``9WG*SR5nzuR%kqw{CZW2=nC5D)<i!eI%mcY&v)RX18P)`zW5KKkxD@?0)CibwOiMwg;gMHSD^Jt
g<9~^7|2ogVeNx!P~e(VS7a2U&~t^QDv+PuLplQ)#G$b4HdekE$^}=eDGw>?09~=aM}O#zkI>bIm^E)
3Gc9CQQF$T(8bw?482mv*1~tjz>Uwd3%*u~pcU>}NIs;(63e6FlGvgRpB4o_e=>xWFn>z8Dhq+KhGPU
SW!kl%wR-MopC<zOJr6gb^q2Tn-wwQ<N4j!3x>OVGmMmGS&`a4_u`$@tPd7Nl8ostiM#HkQ~em@GyxY
!sWkOrMj+xs!lTXuWlVYhw<<z=>LWwI$8qpPJ^q{Hh*xK@frR$51FFqt$R{#x2~=8?pN3qs8+H$yHbs
Wl~gLLkmjN8q2!=O5=mWbSF7Xr-r*Rh(<Q>FHIvlvauzF}xrjJqk<*q+Y-0Z`oI0;S9;bIZM3CU_4E1
4scMZR44*&r-Ptnt>V{fb*6JX(u^77t#UCU-J9)p=%n&6sK9XBmEZ&M9^;bAYSIiJ_jBo(!<3!+1spp
bm<U&&3J|yo%VA}S3Nzqc5DVCu^-1U8@fZ%<qotNH<6Otw>Ke@?fS_xak;Eiyw7az?4Fw()<>Ppna`E
TO7RHJgG8j+F+0hXUL+ws1sK_x{FL66sergfuU_Sek&#5CN{}kIeUcxk~Moc>@8BPwdW(zvVowesh%E
wV2Wc1FK^zb)$jzq=n$W+FlN9k6@NlJdQVxZ;b=^DiwjL+X2vieNQmUnWMsdz8^GXn<0iC|-z0TC)q$
ys|Hjs!*##SE;B4oSgy8=-PmvPCvDC8AVxD&=sbKxIFN71pq*6I`m4g?(Rv4Ps7pVP^`5!bJHVZ0#%!
DzKP*&1xSijzYPpVA`e~a9h#o*QId-=c7co?2`%M9!gz04Akm%EiGtW2deFb#x~*=#=FX_Eyp5lEOv@
O+7G-dM6n`7%x=cw-nzkRXHFM0P!Nf>_^fMwYa7%tv_B#UKpLyF{jl3q31n3o-+!45XnsI{gw^6?<f0
OLI#d;lcp-Kw2o;*Pw^q$LH$_v>9?8S&Uf9*m=7~E}xO_p=WE|2f9|@FtB24rNOS4Y=EX@uXg{egCE!
ELS+Ma-ZJXnUAZq+*<d(VUt<2M$JHxpcl@E~_xm9lf^Nj#?_71N=-KVb-COexYU6$_aG1S}3Lg+4Xi{
*Y=ITaKC2Nw1(!dX{*c|0;5*nS4?tQ5`4@1Jt0nfwpQUg6ze7@bA{USta$nl2h<WJ3-z|oYG4|ohF1L
3yn83-UU$J8RY9HkuJ8JZi-7Q_{f6KsGIa50{5(b1k-d^b1>dMBN*{Xl?d<jb$QuuKYsk4j2App1RrP
p)v;_WiG)>8W<uPyWWST+S)p`NW6|t%)&Sk%D@mSi2a}3_j4S<D6}SCQP8nBXoHvDI|ML&OQ<t43`vn
#bPBxkqyOIL`f1O`E*GXke*<V5Y>yvBKmZD&`j$x_Gr6PJ-4>%K30uSV6D>JO{Rc|7dH0Jqv?zozZ*H
_nJknpBU!?fBq<uQsGVlLG49wYWGOqh9@YUSSQ5$>lu+#*nxw_p5A@&xLYaoz|;(y8<GV$4S-bRXwny
{Y!S4n;NLU!0#)U|yZ0v&i~$^K|$Gxw?xz@cEeuy-3$rCiN~1e(eUkl-x7Vyv1=bEN-4?c-$-8NK15r
5UuNYm{)7z#M5oPJV+`$8wvZiyp!&2eOCv2y=GcbxKf{ly~)+st?imdJ1s|$rqj|(Ic)HRMI@axZ0vL
UQ*_c=t@yg)IdKj4nuJEY&3K)VbB{v2t$l$|aC<@6C6taMu}rb1Iu`03D34FpB~xG%=reZSf`6jZ&VJ
q8Mu7eiRIy_-3{`>XLNX5y25~yEQ{@_^4j5np8*9rf5Uz%{^^JdQCWd}2*u2oCy9=+b2`f+NendLHga
MI|vtq>c?JGK(A7meWHEGZBsx%m^Z^vaq2y2N|h|RE{2{C?{{3inEP~ZW}^V5Q4v0g+&qZ+Sk?Pq-jQ
LeoU@~iNUhg5b~ieP2+i0qy|k}%P)uGlbWCz)%Iz>*8lnWe8eN1i6q9iCYcO4YYr^J1<RP~`q2eE;KO
MzZ5%)&{8rMMG=aTp{}^qS|z0|2RYED~YP)CeoB3YtE9(2zCi3_5`~xdCavt{jtT%qnxj?`+3Z9ykxE
vpXmyfSO#*8Ouxzk)i+t)-`CB(5s-jVAyp(7<Q-V!c<uS(2kYvg2$<>Gq6LwdY=8g0QV_D@h4LxQus@
)W(>F~RRJ>*C!a_y?dvOdspSf$3F49tmphtByRYU33uuckirRw+{ukD})sD+MrjW6Xaq;nyyBjgs;k1
knmvn;cYpj}9TM@|meToX+?X9}r&yeL{{@0=4o-a($|U4T|mqRO2#9afdvMfkA>sxG~4=sIv-f#h>k7
lyJ&pJoK5b@Eh8u1n`JJqTJH_85O=+w&Ih6U0O7pnkhe+0#APbT`T*rqtbP&zOqUHSc4nJ9#AIqgD1^
nj3^^PHTOyHQxEm!4*I7dM^|TdSnaCSPM=8K6IY2l(;1OnkFMvS-a4bqWcEcb{fJ0<`}b7`Gof-F~Pg
4RF(+XU8SJv=84*RjSLtyj&pQ~UQLIJP?lPI1Gxhu1;tQN$z=Rons;5X;ZYlO>gZk!+}ts@NH2RBv~U
Q|VBY}!rvEvBa|{}qKSeBYGizwO3dgggihK0Qw%%WH!fzbT>K~l>q>-m>Yj4@<Di?hMWv#E(HNPL1t2
O%-@AmNJSHF5b;a`dKPTJH$+1!m+^y^d}7@12IygBd}bC^QkPe++GKaP#;ZAv0m(czq%%GLT<@@VB0E
lwZOb&A1KE-c$omuv#I2C0O@YF)wA>C16!`8y%<<k^qcS2SsG)8#{Ta(;UHR%<Uxak&sHZTP9A;h1u_
W%vbeK8??7V$v7Llo~K`uocra;W){}qz%!)O9!{SJ(g_f?!9z7wIS1=^+vstm`Zb`0?g$oF~H1Kwjr5
Jc;KjmZGqQZOl1-ybyHEwWqR?iiu6SYpKE-QX13qYpzRz~j&{PdM@X+^DDCq6{@3RgIf6Y)ig_~+pZP
08t^Ys7e*;iU0|XQR000O8^OY7yxkxk!UkCsI-x~k`7ytkOaA|Naa%FKZa%FK}b#7^Hb97;BY%Xwlty
x=d+_)8fpI<>ZFeIU4x!t}LE(S%h-2w{~*+sJ3JUD^Okth$>8d4=GkEccdd(YuTq9jh71l2=463KJ@&
W&l6Jd&zv2Qw&ERfHdVsSKfeExW<6%Drzk{(C1MAGvr8uTqC!`aJ$L?AW)wW1CHj#CzVCwLJFJ1mc5c
y6Vq0tq*KVKK%IhZ$Eu_za{p)!ZVeYgR0qdp1stpH(UxGX#6U;(1vy$#m_$|CDpWjFuWUg=IUq^14dL
oZ3)*^Cu`bmNyD|NrdP!TJu<!Bkn|&@I?|5+n^mC6p;$00y<q}VE*d5b(0<%(Hn_$V*#+yBkIekTe#@
&0xmHyH+v<*LJt_7xuzAl+F89B&+7x$Iu&b-9zY@*B@-0Cd6BI@hBgvkD3P<_O8emS$fstWmB0NDY4a
NR7aM%k1mO#&bYgh{?;DVc~$~Eg+XCKcMAN*K4Zab79FXl^?Vl6l}z1W)rEd1xc^RLJOKI5PHf~L=`Y
B-wgtrTp*$SPR{QSLu&CJlO~j@%g5cpa>(CLMyd_`G9)ctL(q10%e(27BbsOxQC369SCMi4m&6$bl>v
dL-bieS4G*Z_iuuciMsW66mNC*R0$mxhlssz%F-KniQz1s7Ak8B_i=bOd-u2xcO+wXd^xjbR`$9%vYG
cdJA+$K8V|EO&~z8^_IxNXx=cw#4}e?AWY!<)jBXn&SkG8V$@=Jy>A{llfWe^fY2-ww9gu-vX;Nh*NW
Mjx284y(!}W4$*{D!014~u-BL#U2U7whK|rEDAHhaXdS@9GOMggh;{uWtD5diSgGr?LoI~;i*TkVI;7
XL<Atfv_5G1kP2Vrzz-17$F+vi+J^O!p{WL!b?L7vFa6WSWcQJIGXYi{h8(!7`qqoG!ef}q=oUIUQ>i
N|F;9cvdXqWg{;_F|kY_kZ|Ab~}=l{W&94G_yL8PzIG))dWYXn0dD9J*>dH=1`&FTY#@o=h)GHCE;wp
Qhe4yVbfet*f|nLEI{fF3GXf)FtBnTj(|O)d~XgvfXtlfghc7%)<jOxuR_L1ezc-3(6xzTM9=f)_ih8
BE@H3*f$wW64E5#a2-O43O2ly71CpTJSTZ9K!D^;8Rp<C1=<Q3Grvija@?%SG=`DW0MWBo%!bc<F7ix
g;v>AFYF=>w^wxnZFLm-EDXZ$u*kON>9q_gmh6SG~Y()F#C%2x&OE}nP61-bHxop&7*YfvB-s5s~M$#
x=l(P1dW&50v;k-J6qOyAjq%lE)++FU9Pc<J*o+*n@}Hpb#FNouIlNXP0m>Hn!nKzCYBWFwz)qfJps1
2y#_oqYYdAnk9Gi+l~;&<$+od8JWMuE)$$b_rWdQn+I6rJ#e66(F$X>gaR&4D0Xg<_VV%4^u9Fcp&I8
;*Y!5Djx*o$_eTZ4>1ck0tpoBQ89y@hlvZ%dEtMxevAjLP+wE|zo#OLYCp-Ybyh-~<x9eeK{T~;5ZLQ
X+sbdO|EYRCe!3`V_UpVgxw+PN*>;VLHS_5EGgBIzGoFfSq4nU@qA$%oW&s!LmSmhDozaVkp!Z7b^>q
wEJJG`ggB2({XS3yX(#9vwI|)Ch%s7wB1ZNn6^6Y0NYX;qHe!dmOUr4qkIY_i6naGM_sZ?A()&j)LGw
dpDq@mkDc-I@_OCGvPEDN@;EAFzjptDT7GP@Tdk)B>R18*ZMSO;9F&(Z7=2HEoX)Zp)24=qT(%WlTF$
S%%{mmjD9E`#Cm<`o-!#_NKeD&M?1<G4JV20&z=hV6&PJbM@1WLp<t2`WPrNhr^d5PYUi(pe2*CGC4A
mNg-M{A}&p>LB?A)g$l2@A8>;1022Jbll-{`<mQm6Cpm?`=Q3Bq#Ziw6Go>(WZ0Z@!MR_bdcqSIB-wR
)T0bpkJS;zc$u=|ffr>}S%K(~ZE(Z;A9x24p{v2xBs;JCi45bHW=wyjtcx`gAMxcnq3UaOgOionWsuN
l1|5y_iGu$kzpgj<&R+Oo5K_;<CO|!hvy)CgjH;Xy;Ulvo#Sn4}kyHb@5oq+#9f4S$&ac}V+pfm5^VN
gkd$@MarzNEtD8-anrem6o8$|0CjNYF~)J=GpsAE`CpL*{!8T8M}>yxfgjKHHs`WiDOwj2jYHJ*!)?X
=<8XlqD{-5+mGVg6A67FU@+2awr~&i^p^XiBJrgokc-HV($zEsERiQc&}oU@3p=n*Q0b7LdDv{&#$Yk
b}=wX-_D_}n+oE{?y%-gT#hV<X8TU2c>*WrnrgNjI^U3=1o;3Rl|1R~YBx5^kP?ly8O_ne<}wQSH#WL
8`1ZhbNysk;02f|6NQGs|Mo3W59H;@gb*(r+HQZE3q#RzNjze?9ZlI5NqL50rWIq@?c%n4+!cL<s$m2
v+6A=pX#CY-7)%F4-#!fVoIOE*^{?i;k!I<_hR4q&zEYCiE#LnwBE0XSvNBq<@6FKWbfycx$1E6iDCq
PYnZCfmR95KTpNT&7~Or>ykaij4D_FISBdmNH|R3Am=X!PelJ~=b{rD@^2@@1Y$JtAAI<Fv7_c_LRV0
BrxpZoy%D?`42Ait83M_J{wVi={&>KkUct!Oz^G#9O0{0hZ@6b$d%M>WVsF?3|bGvgGbuC0Rt-%x0nO
ao`}o3nCUELM<DXUk#?c`P0>+p?Ck2LjH->#U`({U_FgS*)%3j7cc={JShk^=SFAq*L$9E$cTOX4Sh=
%vhLWpgzgEl4PI>vcc%{%F7{Ay5PV~U5}YT;OLW(`$+2G}P%8}knt1y%+pY|@x{a|H;Qs?qO9KQH000
080P~d=M?@=AP_Q2W0KRAd02KfL0B~t=FLiWjY;!MPUukY>bYEXCaCz-LYjfL1lHc_!Ci3|J+7u)?$!
1F%*>P+or#i=SS@L-|wgQ8|kVFIm2mtEg+8=-Ym?r>AN;Y?OA5Mua5}4`f>FMW8_juk^D-p-@b+>M09
E*HaS4}69Sz8tBPR9IwYfC*(tFn{VU6If96WKInrN0zaniSH0TP*T&p}#ifMb+w0b=BtAb<!>MgLb*@
^1^)UlFocy&+4X1WotUOH|ArPH1ph!{5h}b>((5nSLbykuTxofc~!Q0ipM2DFNy>o9yLwX*v4tK0-S`
MGY~_@T@|-oGX<nFn15VfELz(IXYPRyw*>sOInc09(u-sv+o@Q$vWfB8R5a_d1meW&GJ|KAdDE?dbmi
q#*w1lU#fzevCB>AWT{Q?UlZAv|tE9Pro;c6x*2H2GU&=D88jS~_88@=6)(wzu&?*A*N2}^m8ocweUU
#GIbc;9tcrtw7$ga78`3SSv@EzD@j?E7Ud+L){y2bZ5ootU!MAC}Wu7R${CtI>;<!EEmVk?ee(ST78#
fP9-b&Zt4R0LVx)<tp?BP-$e8IXKk$64M4Ogi-wB<%&hKQ8C^tE`$;QskdyTqY|51YmOH@Lsn$Htb;O
K2xi_jdR65GvJKjFwmgAECHPbwZ}z@Np{Mv?KPzl<3c7GvIBt<!7^$6M_!jzav^D|u(HU&m(rgMQ^D)
fNStAd?H00&JK3!AGAYcA@F9rTqStL*f+!J>VWV{ka^`$P#x`G5To)^(JwRzvqlU>qgtBVgVTVQ{<Hc
Q*q!QPQkdtMLifB0J=Wk#9$MJt1#YcZXJ9>S3eDeAfo1eaW^XBC3+0jeyxz`bArWOl^zm!c2Vj7%pZE
c}`k_~W@QdAK%eMQg0m>43CC(!KspPx9;p?MfYK!<4d`3a&Bb+gaGWb5bSH-lC{J8E&YETF~N^S7gL7
M~f6{+%??csO0?&>Q2i=%Myl_+xB=46-;WF#?o@cp%E^w}c*#k?)U;!`f9G(<r1&d03`!l*!q85e7K=
s>;@d6nP6sfSI{WauOk!@$bQ>H~iLCCg*C7an;04lD9HM%?Dq2L{#0d#8Yvk4Z+z>4QlvN(kwtRKYDa
=g`Xyjx1k&UfGS%zB^XIHKs*YWC$NbS1P8J5#}E6%tEpHi2vL?5R@>X#RU6@h2sHq_ZN*jIEkT~d(b3
<JPtPJ~GMoT(((M_Xi|WZKp^0i(+Ag5CWkjZ3d~wJ&KH?z`T;bw5DWtUu3CD;C05$Hjq$On(g8hzQ)|
Vgl&L?1ZKptYSYIzyQQGJ85u#*Op-gvwg+Yei@Lk4JDJVZYL?7K|Y9kP-;x$t=hi!%d9h9)@`NObk_7
!2<<eRjsE6L2q_fdUvJfcZTTZ_%I$3HswkER$j`S_uk06JQy{x)xm}zEqFet?$VCg>6^WFrjO-*vZY|
mwS7AQ*o7mwx8$MGCTZwZ*M}BV>=eY0!>A}06i{aiHNm_KO|rg6@Kg*MVlLY-#jI#8KI<ihYW%nE|W4
VWTQE6<W)Fdm+4gC+D(zLpiSqMWyzCLywAZ0xB@=zmQtWSXmL3suz(_IB+xR+cB-<t0pF<-S4&yy8Bc
&oa%kOEis)z&5Xx#Ql2RC_4fRF0Y^tj=65_oS;A^Ezcmht^Qa0#KnVt%e8c`&g0T5s&mQ^k1>jGY&HO
|YmG!g`?3*576jSM|Nrp4Ka4!B07>jsQy2VD`mK<HbRv(Zy!;ewB-8Kn4ka$lp<`1tM7^Ou&#9^lx(M
;$T^!rCRj&K1{m2@pc2xCZk6?eW>s#DN0NBoVx7@&(#*f$K!nBDl2#>d^aIHsqU{zSz*w1eV`fc8n9&
mvGn1>M5olbMzr`IMqm8CIwIz#Ul|5cv~tC0#!tQBKnBzydb{mRi>#4F+rQdQkaFneqaT({y;w`1sxL
V2N0}Sj3yckY6WHOiDN;_h{Hqi#1(deOE5AJ-HcTd=rQ8qo3@iHS;BL`H=K~i0y9gsvFd}MrUnGiD_I
xaE&Xw-*bf%C=~`q%oDp;dT7YCcHWO}TJsDsfL;*CxFCQROaC=S;&RrEo(G{<s^@>@2fS-F9fIhwm>_
YyKFTnH&ln7i+RMeuH!x};lnRXSZKUgk=L~0M3@Z!R2EyiJz;gkhJp3>h>V5}~k=mjkS|9z#WfkL=M@
B}_{l(R&c)03CidE2#!FHF}ocj!@y#~RuQMCb(eIV>kGNqWE(bs#igr&<jO?s5zM`xFF-B0DuEaWu;r
C^<kA0=2xUN~C`nydhTw?Br?u{KXk~Cuqk4PzvbfhZD~rI#76oQCr8YT=W6aA#!#Sn-B-;KW{H+$y5s
%8Ug_v;8LP?MjmvQR0|@E+tvU_wt4}1iT3;EeL#uVC-L#?H}B2{X54p$!hx*{URNB6g1rRC<hlmdlbH
zr&4mi~wwwG-{I-@YLOBo*+dw=Vz*3X-p1X>V=LYOT18VAxw$L9V^!e&=0%89Z7|4lB2h$uK+)Zm+gU
i^BO#2@Yr&|c&!)8JRKu}=3Q4n!?3_Z-k9Ee~DjL0EE-3S;F<BMOb9Mpy4jL8P7_%?v4K)k1c0lTFII
7=diP&%w;zXC#*&yGd160@AbE3ncf`%T>vw89t2L(~r0HIC(P;83@+m;<}Q+!|j*@C6!wdNqpBS+kaR
qfLI4J8UU84y(E#&9OnGaO7q#jH0^>#$edu&S3{#7I%(9ByfA&IY_?;7^X(`88)WP5?F8e1tLJ}Jwg8
imJ=3+R$j+*)<**8B*T~@0hg~Kzno+NxEqZmsH%b>0od5?TQn?VwEqSQCTxNaza%@K&jWPuqGPS&{9T
(6|58}%P|XDywd+|J>;MdGs3lgzayE9t8SY3aNWgpaRXi2@;J1rM^lM0)htdB0r|(J5xcx3QjP}$A6>
Ak9yv@+^iy^F05Swrr=^q&go?mB%q_)_LKImY2u*21J_}*GhLSlWwx1W#?Tu%X=YzXMk8AwoDuWN|x$
fq{WT|Q^+rp$fb_J$gW20kEAF@UmOA*nU?Fatf3b+jya96Z$hH%P`%95qe!re3)0R)r-7{bq`Q6Rb#r
ni|`Rqy}HSX~}P5mp#YWlV755RSFE1KnSZgN4j}n6(S*WGJr{!AQs<tc~{7%AAb4v{Lx!^nUlZsF?)O
fTuzu_u+!6nw)Yzp0T9pGjR>C|e4Bju<>~pOXHO^3PS-QNKgMvB+!<kUw=qNf=Exp74-jjV<^_7ZvtW
X1U|tU>J+C7Se!z$--#b`$^PRs2da%L1sLK_~2}ak>#xbrlUa*A@cER`3pFe)I3;{1tAyF3$3`2VDJt
8=BSSo@dzI7iUs0l<~BSAL*5H#fhjB_))_T&}<{HfS?<lM#O){fB5={X|bN+JS9)ZV@_5wGnFwPj%tf
5pbo3_5d&Em{l;6d0x#E;sxBc_gE$WA9NVpymhf1r)JW4e%_%?SXU&zNU!`K=ZF4UaK29&#z%EUqe6R
b<;?SDvm$JjgeK`4tZjnZ(Oee*M)oC;w<Qgv>-lSFeOCH@7zb7KlotO%P$W7)^}jx8Esm|;Q@eBeegB
zs-9x{30i~x)naMl?kVoYG}7$a&`XAc{GX#)R|wcZok!R*7(adbbPSzfcilF-?J{ZPZd<J+@xpGhL%P
5Ajwhlh8kHaiLQ;|=vqRzYZrh~0FEt}M!FUiwyZry?i2oZXFQMNqp7PxT$vZ~-J?OefdW3Ta?!$JsS7
NjNhr@l^friyBK)7yifPNTl&D^q8!whwwPKvqhNI;RMYqiQ}E$?ocC@twea)va$`RniK&*86w0g8(UR
ND{!s<xio7Vya5(&5KZUDe^98++O=?mOJWH28l2o(j&vsl<&Sx5q^75UG}r#RqS#&$Tghp&_{7eCQ|A
c9TO1S2H<}*$=Y-hd#Smf6~}haVg{WW>w_nMSF-UuBW_SsJ+sJc?&ot2Q*XA2xXoo;Gy7F;En;GO-=5
CP`*sGHDGs#+aQ*P#X^yF*qFn354XVvoCW|+OksI?#1i+~dm=DKMYF%jEgWx1UUxk&{8fHox5{*zshH
vJ9cuk*J{NeR2z0A70Z^`K?+*n>=U+tr044^4wmM{rWSQ|cr8=avQ)FP+_`}Xu2j{%GX5Qj+{rX_%D{
ptwAfwM8_?$Yd3RuZfUJa+JTTFPGd`Qu9M+!93rfORVY%lXvy1V(utGd7q-HtZH#jI)?m{`WC1}@-;I
xNA1m;x2^!dX042#A-a5H=%mr<VA^4QJF=A~tf!<sQh<E9Ovjz=J0lcK%y;Ap<SPk+I`>Cvge^J~44n
"%text.

(** Lines 16815 to 16964. *)
Definition DATA_111 : text := "uxsg_3--3H@OaDwLzL~)V@M|wGO;21ZG2V<?i+59Yo86?UdaH@h&UaF+(IV<M#=86Zl*kHx5<>eRQ6E
uv<cI7@{9tUZNf0x_7#9~05>Jzgm(vpBg$;zZsYgf+X<UUDg(BN4GHnv?Ih$4*_V0Cr&-9qcIU-pH*o
%yI+r3(T+>`_%s6D5DAGPJu9BP9478EVJuRvz;Y}gdNl-i?f39VWIu>)E{@8TAc>-<-jnb<k4-k?*Rv
Ndr45KLaRyFRQ$n;>C1g^pCyiBh@Ws1B%2Mtgwv=ML-u=YHsG?lo9=nCS8BA;n})mxb!;)bP1s6g*-W
ng!110Dt?LK}R&Ngub=!pshLfmKUA&1Y6QpPjrsIS}&%-DNs_$|UC~p;FNON(qV`UsiMRLsNa0<y-mN
8k}s@>g*S(yfmHgGTy3@zX5v;-bL6uMx<#fQ}N;4V-V;TX;hq?2b)~v&bJLoFk(C>CckFvK;HjpFY@}
($u7LRM_#7II+JDz+Ix;<+B13-YTn(8nBR67=kG)mKm}YO%gZBrtF@Z_(<e)*Pqc+dG7_p2RIu}OlCL
$6leWpxDfLFj5aZaPq9Y?SuFO7tLXyLnNwZiZ2hjc{jDe?O$fqz1a(;HuAHxg*Qn}<N=)+D<y7-$=*w
QYan;~jvX^75~WTK0#Dua&p{xF$VH;Kmj^(kZsv$?NXvW?w5dLo^Wir9@^5+H@$&y5C#)UKR0n*6Ne-
5Af%jX1|BM7Bei^$!aB=M}V;J*M}e>Bn~i9LMHf{n0=U_20zc=&#xM0Q~OOVaA5I9qW4l^@wR0#5Scz
-tt-7y<v3I<?b=ngAbfJMW)<KQI4*v1`|Z$R(2kwyvHbmE$%G3kT=?OLBSrh=r8TY20j%B&D`mFFV1!
T-eM7B)My=#ab>CZR*4q)C4!zi*pm~FklR7BDTq*qc~?1V4cvZI(s+h@ctMNlXDLK5O<pO1*q@B~aT?
!_6FG1@o9Km})VtH8xAE!m*%4)Om45a*b$l{mcxAQ2iRt%)>;w5y0lAUwAA{ncXK~gYL)NH8Rb605HG
uYbl!*QS^nS2Uq0)md2^>WZ>mtJ=nkvg^TcLG!NQuVi!{`M9*iVf8A?;}v1T-yf=v5iG-w>Ppx^6qo_
q^BIw0xdFuORyH-8Y;RZR(ianfnAP&}^)1AnZva0gv!Js?2&`osItnXXy9orI0ZGu@7MY#rn}B8f7z_
+hE*<Df@>N2MwB~9NPg4OY7P@Qsin46yZqOe>!!>t+l{NYvAJEJ8M*M$MvFm>3Y<@Z|<v&A0=mHAyPY
fYK8$hJtX)2?g%=S;Lhl<kQ%5qrfOxXqkd)o$=v~HnY@%mRqq&AjzCy3Wa;ogajGVuNa~zU`-L3_1@4
Ni$W>BO2INIqT{#C4Jq6hId=9NyF}rK1WR3Y%uLhC4e&L!T4}Hh4_i7}<;UQTfx^)dWhSyVZGeLg}jF
`l%(gn@rD$f9~>j`hjz=NgC7t0QwFq#mRFB8nZ0@JE9d-Ryl8B=P_?iKC0RB2blKfXVHefo1acMa`ee
@8_>^R(=Wu@^K<)sDRa&RM6v<xLwtYK7+!7k!LmE-iZ%C-g%IM1(kCJk{eyXU8Wmcp_5~>_7SPtH9SJ
{oSZh*)eB>YS9tRLlN#x#ooBEc^%ZVl>J<qqDSC8Jl^#m?GGP4F)T;vFU>7$GS67G&=EQ2_!2QP+{c7
(C-K{tC$C@qV=|<Cf8D(n2&kx9>Ae^un#pV*!Ig#y`w4unj$a>Pk<F8@8Ab2qi<4LHexe$jzwY_lD45
umHXruSp_lr+cdqvgRCpGzSD2{iqz@~_ro%USkLN5Yp7>tkPCT7IlWbL(|ACHCCy{5t<tc8Aq)<m9G>
@SUOw4!u%flBRDC}&tlas?>mDe1iq)wJ&rxfq7r#VO!AtghQXZJ}%`ZUooYKHlWC2Px18vLgS_u^PuI
fWiKGchw9hNNwB%sCgFm29I;)GbUb-tViCsoIu;IRHT5)NwbM%S)L}jIO8j`9?0*Mba?ZE4i9URa63y
Zv<CWFccRu+1{yGG}XGEqELX-UVx)a83Nmsy)GVKZ)4_5kz*p*9GD$EE35`ZSZZ1kh-4=j5wy%#x{km
Z8<k{<R&L$m;_KviXL37L-6D4EP1C*@MAd2Q`&CX!jr9fb1=fnz$T1_SD_a9e#$`U#^`+6zdHn-&3&E
g`=;{id{pBm>5gQV#T#3U$0tWPqa6sHN2`6kT6rY*iNE*ywN0Wi=@iVvgMO>ZV;_FCH#E+1YE@A9B^@
bc7UrAxw^q?PxUX1h5t)m{poC^XCN?-`x^R67>Dt$~aM|*hE+;4@4m!)$sg^4;qE$<oT>J0IIAfDTej
lo-oTlzx|{o`H-_%j)j$+8$sHn^Gv!!`qxVLL}uA`;>Pj=)Bbq1fD)4aBe?{!pcg;u%bcZ_wevq8ah@
so4L^Xdfz!p^kj+?Pw5u;0mv+H0B%9rKpmn*(GJNON!*#XghaMT@-Wr_UOkDpR(krx|_Xfe}8|R96TV
NzL6SctVwNYl&PSrhtMscLaps4tcp-cD?LU^$x%ofp_qyv<c)Bz`sSN&#7^H<ihuIFl(ii!I_V&@*4m
)yg542=HZWmyPW&&KFaiWt>`$^_1TInMQU6CR*#89+rs~w({ATyCe(_mp#ar57^|7NRm0Adz19+}N^j
k;qD}+ZOVZHQyKn=1B3<%xbRlusm_$p~|lf(~9f)`0iJGJU83B%D9@)70BQdQqv(FJQqrUoe+$xKEj@
`&+3aXHjCPeeWUfppT)eZbo5P9CT={`T-m^ffHBY;nh`l^_;6AWmjflbBr7nLe;IA=fdBtnT4heDEm2
azUO3O_{$_xQ`X+vQvT+4$Q0D^9z_hprkgJV#dtweVp6Qw~x^ajL<7^h8Y@ojO#`Q9%^`9)cLP^FJSZ
gzDqBQ=ML}15{?tvM;wrTjd#z<a3Qoet1$>0{RO0V4AvYs7h;AI@-Hsq9l8Qap_+;;DhIz#$H6}kr_~
B&scF_V-Mympz2@M$sj_t{X|HJmgs`n;n$L5}R{-MxCS4_3jr%FLiMjg|9P<vAMhfIwRlE^1K5Y4v{W
2-?j0(m!AA35&Y?+g6&v>74#79|j+=sly|6@fHsWl~o&PZ)s%J4tsjjD9_i{K~!zqbFQYl}aQY>(#34
#A;AWn%=Dwg3B~1eHFPR`m@|ubTZDVo=JEe`nOdoi;`ex4e3wmxDa1TVjEGc>Puf-tE}`NlyKPKjy{v
YWDxA505h5_u$PXJEMD2sv0Nm=r$AQpkXAT+hnSm${p=JhAtSgw&eHnAiH>tO~2M<v-{>>)-ouP(OV~
Z8>^2N9mmEwTXCb~`eJJ6;kQ-$b?5>bd>uEFujSFLo${O8$#K227^8@G1Yu(8qn+6Osn@$CsDJg2Pom
p`yG^sfaLaw*rhNsN0KAKZU%~Lu+pT`vPzdH?_W<wd(8(=i2vUsX*st}Bhq+7a5(1vql%ScbzswWU!#
)ZF!09ojrX%Y|>!z6KBZ@vHT#Nfa{BZpDpN<Yx_VBaei&e77Q_<!N2y#J{x3-D0Rw)F4XyL{q4#vS)s
Sp%NSybS)s&wOrtr6WFTm>{&lfU(fxP#P&FKMT1rBumk&$!*G8%81;uEHPOgLhX9<>P@TS6parj?nB#
I;XpL(N_pOP_OmjW{pzXpd%hOLHO+8<NL?BsVcVNbM$DkO=?XF{su42hmXI&Uz2Bp%J(KXy#d*{hK4k
uf4*nWVsfB>D5+;Gxa1g%gcTxKE;m&#jfOP0*wFwgVV|08G2f_~WuT-kUncWE;ZlD*Z=KI2oo%QK26U
!aWk5ir^oH%sms`#-3cF_e<0Je}@O@1@2*!SfOfK5$xW&JdElgM06#RthN?pUo>4JFq${`+(jr%^tCU
I59j1QjZ-jZgBg>4{I5Kdjn;!xkL_VVcacRx<eOR&=EEhCbf8>{msYG<pmT@b@UJeZ&@i?IP5R}WIQ8
#d`3md-^WRJkQyPT7dyW9fh2_P%Zh+xqL!7okRAF}5GJ+b9+IJyI9HgaBxY#hu$dzs{hoa~JT7ZQ{-O
5V7U>({!_!-q^LZsPT8Vn$p*X=Dp>V=*{sP&Ztr94t|B+(oV(pTa~k~o`V|L_Lo?x-tv;25Pg7%9%^X
M>fOb5(lN@*XkBMXCqu8r$fgS7+{2!{=st<*>Q31-hfd4WvzI6D&gf0ftTt8jIOJbGhoYpwpDChuh*|
VJ!@HvATW!WR3pAJst}A1obwF5*O+4yuRO$2$CEqAGn@ptETHV*+3l9&EqV2Oaso%riJ*Xj4Fk*0Ynu
M*w$zU4<hrw4vNtr>fi?M<5SJbF0R=fswQd&@`%VUyQzo~ciAhz;O>MfwYRyS8vPQ3@fHdNCKbH+7TW
ARz%#y>v2d$34}1iT0Y18;$|B0!I<cJ(r$MzrrheT~hgM+ZFM8IP=k7ZnypbyC|ya!@Sm;hh5GY^Q&Q
LEznkDh*~apNPlfEkBk!_xu@Nf#YL#FMmgqgl3OQT+EXkli2A<K`Psuky{5w09>Cz_lF|%2-aU;GPsV
U40nU>+7a;)TqfBlV#AfX8!f-j<UVS{xG8-vZ)B0JOPFLaMjL+oGPquZaza#`fu80g-SUx6w&XNXzCy
yDUYS0$YILy#-%f~iSU@Y8>2oN3K^s8}WweNZ4)y+%ub<Fi6>f&9>kT0$0LQnK?S%8#kcG<qDd)_gBi
w+N;1ipdl7WhZE>#hHMJOY~-8eI}#CsAHUt(@4E@C9qHrG`JI*`DnR3wSdv|h0g0gAe1g^^t(%?$4qv
AJcv47z*Y)1k5j%sm}j%9``kxbT>-?3k*Hzj2e_5ZK&&$HgKr2+v%pL3GKW2~y91yd`@|A%nm4eId|o
P__6D^fJ67`pc05#=(vq8zHusZA+Ij;=QbN(2nOFe31?~=dXC#z`?>KVcJ~6Om(T!cXciy^iwPzQ_cQ
tofjEJ0_Kxqa<>T7zT+j@aL>2fPT#-v1Hhmhl>QxD@0+A{s&UW+w(8amRXRwVU`;p55n@CDUQnsoo1|
%JE3d9^yj;XM&dc0hOhv$*;Ggf!T1X1&3R>#|$L4nS<|#9H@8+q&@{ewM>RJq}S~es0&QX{xUIUkpaD
xNH^p6PKfU!=ysy^=2MVh18g?Pt`Lmp_m@kT8(m|4Zs4oI=WC97o<>f6qtCw2Xf8gWXw8H0+|TIv_31
(pXi`9eK#hJ;s<^9DU}`>l@{G}dx{OGH~rnYGF!L|S<HY#`^HUMH;m4y+8!sk<?V8^v%7aU2}Y2tcgw
?7u${sgGdKK;1Pe+*Oy1v$Y8sKs;($68&!(2nB(!ESuek-c{wh6dLTZ56Hm>YI`U5P^j=uB|hIEZHU&
790VSzoCI@~y*6MVaV7g)ukzV$yRLE9YgY>x-j}74vR|mp0W93|69W{rR1^nF7!!D~?070%5^S+(j=!
DyJQ%s`<-nhe#9ueL1eJLEu!F7c&3L$@nSBgzNu0#d7yO1Vx@G^h;=5mU6s$)i@(%!^(d);{Lf_9AEM
-wtHn1SpWHWK}+Zy6HB?B;Zy6u)Od8IxSj{IrstEIEY-hsMH-x`AyJQR4ZMQ&gdo(uhonHVqdE9o-i6
#%6CoRkh~xGWIAsO0t1Fu5j1-qGcZD$@qNA6VkXxp6rHHwY}4PKP(o@oEj(wdS&BA~$0dnbkU_@__@f
?7F%=*xg;gFl!Y0)$Xk7x<b}B>cj4=sAju+(f)q)wR!|Zeei1ko39NKH`y(`2zg+(;;c&PADGY_&G%m
i>V*?$QhR)hZW8?RFJW}<ZJhl&McwKb?7-9Uo1}2-9INmt+ejoSZdB-vV{(XTt(pE)a>(hGG3;a33EP
_Id^PhSHpl7aDWLknOeWI*_`x}Ds_3W4Oa1Gj8PI4cwBDbmk``Y9>s)VJAFOx$D^&tR=T^yOmGcE-Zh
0WHxUCz10g9u;+pQW~$IZNbC4-{iGB8e{#akgrIpF1gT~!sWcHOWV+%H0OtHNt^f}DwH`}kg(8WzIU<
fmhW4ND?lcrM9e(k<6j$#oQ1LMN{jAXV{5S?w~xi_P<uy4Juch8*Ddp5L9y&f4rDZM_<NzUpM%xI;3}
=2Y(K496GU0c{NI7fYF5aQ3~rDncx9E2Z2t8c-dWQ(f`_uQEMfOE_IK&;_l%uE$|8s?9M6Ld+f%FY{j
Je*;iU0|XQR000O8^OY7y^O&Vq2nqlI)gu4^6aWAKaA|Nab#!TLb1z|VaAaw6b1ras?OI!N+Da0B=U2
=sTLrkVaGaAH6?==qcI-O7t#RUP1(z~N1I)3|=x9a(c5BaX-|iV*L0p{8R-K2X`~Ya?>&tY1-96Z{tl
IsAOX3QTkr|al(I*y=Q6#2hqEsk5?e>_fNj$V&F>QBU#lN$@qKdU?7<xRCga#g&3XhLC^J+>E8FR&mh
$9llQ79yncFh7g8q;w`v5F(+ID}6_5h+54QuwiAj`>`xCEp8~zLN`CGrL0`q8cGp>F$S%>yw*@eyvvX
*oefEMUG3|33EWT251=2DQk9W1YQv;fp6{@XaF|GzE1#ZLO^LXVS4wz44Dh2xJ1JcfFUCh!E<mD;Q8F
8ii^OmX()VIi5QE(62!p|M2sqy-!DS=!q<{=0nAk*;tcR3*2!S6s7r48<Vy$M|IxnW!-z(Ub`Lkn_J?
j5UW1t9Z26~v&pXNcKiaki&zF(Lmy?eKTts7EHM30*Jn+O!Ci{Aw!6#5m4nClMXvOgW08Xf)gG&K=4>
G)g*25Te6QnrWdJ*^wh=K8#Nwl2sK!1JJKe;BJaHa7QoS=`8L^7p#FqUL2G+MI!Td#j{a_L;&^tzW$_
xARrd*A(*Ics4P9kux9u|R33np4yufe7{^L8kzWr$9U~K_6uUu@g6tNXG&5$Z$cv>CnM-7&+gXHUU$m
22<wHz^X7->8T;06jL^vu!xbpIPh4sr!^l#f&^L^KC($4R%skIr_<19GCyM5wg*?@pWOH9;0#O~iTU6
*5+e?)1|O1lMSmAJcHJo(^y834ps9I2cxfLbXL5USeQ|T$F>V^gfve8~e8B=w5=$?)(!j5F_IK*X%+_
#e=I~LPaJdmL$Va9$%#cc^6DoVAv+D>_*~WKvAR^4&Ny8a4<;-~CjD!!4YgiQuSj}dwAf)Sgnp5yNb%
G)7^hznTKzq1aC;d0Ug9g59ktAbVsUu8AFdys#vav&-DoFY%IXWViM<dYG`XPhaJOni{v>MiO4qKbed
!{L=1(H2iQ8)?~d~aAl5Kgb#J3n>KZ>~<Q)*2%Wvurz@XKQa5+7Po=v_R--RyML@OLF_@jDo=ly+4oL
Ge-C+<W35&ixIgN0Vw%fERFXeq!gPL!W5uV?#cIBiBT4542AF+4O$sf89RY{0y1PsndCl-wU@yvEhAy
zk|qTPOwG;N69{+;G7>IEFQ9`YL6)dQ3z(XT=n19Aq27?<hY4l1j3ae%(*kF}Y@l!nMlJ%k?x7f8jCl
b3$jS>oVA}y*hhpvoWZF~iMnZ~_(hUd;_G8)hlT32mw{PD3^6q`(p>MxDXxdbU^Wzd4>WP+1H<l795R
Q&Z8DmqjT9Qj{+E|f`uROE6c~B6bX6#V5l<G2$t!rXiPC#y<coWPqFoXxSifyIWUonl5K6Mtikg*|%I
7C{p=#wwEq!9>}9$^#Jf%1PM+;|H0)HHSdq%;@%0W3XRm4G!xPv{0>)eWg0MIFeldgy*+S7kDQ9kqH(
D!sFFceDalVd8qQJF~a|r}54p05Eb|WX2$@eP7IU=3`@rw5DApP0%fcfpJov^DXRnQf{%<g`Ks%_PZh
gjyuYk22@CDd0NFWZY#_C#_F)OW6+YD&6WDMQw6V*Sc;>H(pTS{<@IK(gpii1?8~YGy^9`6d9IfZw7#
}F7fupt^j4iVm0jTHiYe-OWfn00998xwjbE2y{QTjojb1PeuIB`koq4YXsa45h)x>S&JcA^&Cu`|)BV
P~D=4{(%E)~t^#oY%+jq(%cMGZ9;JI{-aYoS<&T-2wqMZshS(c+~QH66_`<Yp)fM>}X=jFu3Dx~oZ=2
{=uO$aZtLSqm-SJZfneJ#J|csdw;LGZc_&6?1IqegY$KJ6~53PGyS?#A@{ZuX%Mdm7<LLDvNI;$u;*p
E#s!mv<8)9#K+b11a{Rq&+T|mr1Ab7ESE{zFiU6~i=%`dF3>h?d6Ideq(vH!KRi!VqWyoKST|2deZ3*
e!|yKBg9*io`h=BZuVPcRq#tZIdpFl-7aun@oOF~noXeW-&}$|<u;oS|?X-V@wyKG6BO?`?vx52S+cR
S~-kz+2J?C!ZMZz_#7>W@a)5yaNl3cL@(Mer9kzOS1l#H3ASi0K}7a?tjJZzhIZoho{>eaF4&1JaNmN
218D2~t{U`~WkZ3D%VMA+92saN1i`9Hf=&qQoby4~jXc4g|dnR2nCD~A5b#a;g^e=Ka(Rx&75NqJv0!
7qb6v*qgoEt*EGXvl_cZ>htp?Cu(8l>2{y*{y?j(&LCuahE<0N+#U%7;uUyM|*iGsFVoGXk@$e%L93v
NIKVGz!9+`vj}314t?wklSP$~Wv!NNc}5Sk?M}LPb9HrdUA&Yo0_ku+B40P8@8fzZsv9b*ceZ2JH^pj
wRa*HTSV5!U3-N^906twCZgX#3qK$PVhnqlX9h0C9o9ek&z|19-@&OhtTsc{gCRu1K{#rqy^So7jY_9
CaT$`hPOA6Q$Jf_l46a<vFK4zcFZd=y&v3TQ6{TW?I?NpSg*}x<LOfyhXXUz9kPSrNud_()KzDn%4Mw
9#ge%2<XB{rQaBs?_T>{7rw_zS56H2^@OMZ=Zc^PP&pJ^kT~k`eX&A$6aKZjJcwz)w)HhcFr0dQQTAP
{t9%GmRz2PTCo!QgRX>$26iaS21iRG+(<SLU#aD$r&@fF~}n(tM)VuYA2T}zxi1g?E)djLvjMnOs&*q
;E4PyFBIkbrVg=^5!7leuUX1vSlScQDdf@G9px*l4h}_FY0B&W{WW)X5+qM-0ZJxT*f((Mzp_Psx060
N|Mm1APVdv*-Rbqc^QnJ&mn#riedtkVP`d_KX~#N9f@08%!MB0>43rNcF*u!vzKB>f=%c5gbwf`{<4_
ap89%p(qZT16DEIf6MT^f^olfTs(7Uzj?`APjbE>Zn!x?lGj*CL%Y7m+)(rd#Fhj{pA`{})Uz4g2f->
p5OVLSpAjH0$1F$z6S9B}+c2nU{xfNowM9R6Z#PnO}0fbZMdL9Y(&{`p6yjJIzgeIFWTSSuLWO6Io%t
Zt(u<6n>yF$<t}d3x-U6O4FWmUM7KwoT}F1~qm(8FEEj=$&Lf*SyFknqfSaHr4-;A@M&lbQcF`Gthr*
yJP-0?j5~*eenMMu}QKCl@6jh2nojP$*-1Dr;9`eTILK0nuy42xJ`0Q4qv}6Q{yri&XuJFL-6TST82x
jb083Rxcez2SmncbVleySX~0?Z(Uo`<*b6)~0KnFLm-hZ)i)g5_872(yafyzzt+m>669K$eaFO9Fqf(
yV<($B5Tc0J#4V245MJ_blX%vZqleVLksK53fP)h>@6aWAK2mtey7DvqtO)dZe001Bb000sI003}la4
&UqX>4;ZVs&Y3WG--drBuOg+b|5h`zyHgFb8n`0mHJxu*)tz73firZK`1_OM)b)$%_8_DA`WzpzUEZ0
z?wY$Hym9%G(}<P(vI%3IWtR>m$e}SUp4(<Gv`Sa~o<W<9^;o?42TwMWGUoBUcZRbeLg$A3d_QXtfLh
eh#F&U*xfk)}Kn-Jn?G#ttf!M4iyt2Ls5t_pjH(a+2iic8m!o=F^(G!fa$w|-wIxke;&cu2#<6?1JVE
<ou-x|baT3jkGprB7jT!boDZyvWK9Ke&z>*%RqMo44w`GXqZ66O`iwv-lLiWqsOFRt)O2(qKNg*BJGl
1)79YW^V{YI9!K2jaCSaecX|R<;KnRwD!YS~*1lY?1CgS8ToO{Q5T%m<iugN@Pmr9Z>3`1UIs{!u!%p
;=dLh@*>Q7KoGF7q0y_2goxm`GB(Wi&&r)buAafy}r$LG;Yc2bK<;W#mXwzt1Y<0_&AAOS7AMv7V(U=
WeX~=Ps>F=TXsdx8c6L&2(=!+wE1J|8AfwyjAGGHPO@opY_cry^}_#o+L_tYr{EcTr5Y=qw~|~Ek?{E
zYGR8-(TP0^^1S|v8k2yy^Pth79x+f5WGs+gs3hIwo7=vW&9Zb9J2~JE*=9swiO(t9{4qg%>p5Zwi=}
wT)9X&A6+G6Wfw}UWgXwEa#6rvP)h>@6aWAK2mtey7Dv9ThG^dc003wR000;O003}la4&UqX>4;ZWMy
!2Wn*D<X>V>WaCyB|O>5gg5WVYH3@QN`TpxOBLtO|>4uOyaH_$^VVr7k_EvsFzv$E@d-`SPqSh7rdC=
~{4cV^za`BWUo(GAolZxw>8gacVOsz&VyoH0u3lK%m<$XEdd9bhl4=4%3xnbtv$jm52S(r8*mG2<21)
R3k{>spIx>Jg1~tWHL?4%6-&Mg6@pWyyHMae$AaXsZMfJj>?x)yMZvob>;T>j?O1Sn+7E!P@LFzt?Q}
anPSdS;8~woL|mGZvlV$H^8@d&zrliH!t^3kKbSoKjyeEXC41!>v!;dD8}daU*Mt3B;0F<r43G5DIGG
JQf2o2fqgw1jV#WwfKy3QBatX^2}~PHV-HIxq~Z>!`HmX`wdrow9-+GmuYF{)2vU#)+PL7R6ZFD)KC{
~XnN?3lD*pLv*4=420$79-DjGADL~RyIpS+^Z)_XDL%ymI%2|)lgxRpYw19&QV=ytTQujICZy;KS+p>
s|b>wqbE25|y)GGIfL1ckBC$YwRt?XlOxNUchA58*C}z4Ga(#*1j;=cVEr@ULlYV+fgXOJV#gge&i`7
S1tzg_et}$)U(SV};K7`5mKqtDeTNUiv`2L~@6+7Ztdyj;=Fi=hL>I=3p;0Zzktgk!Tte76kbUk*Se8
2Hc_H+&T}#t4lJ$K2yLe>MTj=AY4OyGJw}`MKOokOK0-q2Q4f~!5+@LfVzTa2(}wojx&V2LwlH@Y5eW
{J^8Y77JYqu*MvyfhO@xIGE{BYm&tb0w8ZhA=f)?@JGt9zo;JsvE8L;-ZPsV};y$7YoDYp$*O)tQOJ2
~t_8oi}*!m9xlm=Q(wDQ=8VAF>@L1V%}V=FZLY8fWO<AxvC<<h*pIc%?;zd~z`O-?Gj7-^0Nd}2FnmR
aj_%m1^My7labjn~8AGVK^AeI80>GNI-PMZ-qExOB%0_tLlGSh7>>!Dvp%HX|N?08mQ<1QY-O00;o{l
@>?xL+!w%0RRAl0{{RQ0001RX>c!fbZKmJFJ@_MWpjCRbY*QWaCvP~!EW0y488j+-r7S`ATxFz;M1^S
!+`bB0Xqh&Ovl=6(V(Qd`TNnb(ll^&Fl6$*NAihooLC|_RPKDMClmXs>V!v3ZmKPh8bQe)DIONUA-T4
ys+Ky~p6tIh$g?NeE!X?c74+QVM~9ivvcHSy%`?GZHYY@0d5ArMx{hpgnp9PAr$HAm30n$bzd(FZo9S
*C@Hd4B6G9qEliHkC(9&6}b)s4<r#e$y2hU68U}BUVtK5ywKw9Xg^tc?Mn8f3^B&u?75_)!=0vh~cPd
PUCZXhhv;Y0I^xQJ-2VqZPbiwiNlwc>nk@g)zg=q#m^&f=nZQthV`Y!V?KkpfA5MO@`e^SgUA4L)5<u
kw!*S!V{F*|&r9M|3O@=2a8UgQeArK0$`i;`Br^oZb<$CXhDRlTfCI<%^J7#_VFxDdOXIbb~q88+Me_
w!ds{Ss*p{?LMt;Z5Z@oX^MDw{3^oozG8X5Z)OOz0hHvWsv36%B4urL3r#&Yc3H&S-hTQ2b9nf9>2u3
Iuf~3T;RdhFyd1is-i%bn{SQz}0|XQR000O8^OY7yVN$wcvjhMD{tN&B6aWAKaA|Nab#!TLb1!UfXJ=
_{XD)DgjaFN4+cp$_*RLR)hf1wS6y4h}5AzatGvGRa9UvHrK%gbc=0=eMNhNWA{SGgZC|g;p7t7?ieC
K@UqDsjc<$2YbR?$31tZt+-h#a)!t)aR9pCsYDkiyVc!`Y!b;qrK7;&|~FpNJ?qRk}NuI!TN=|B@hh!
kIZKN=mCtUkln8w07q!rKB1OmTg_1^IjYg9qA^O4WVHTE@a&h(<wc!w|DoC`{BAZjO*@}3T*=}nTl}r
"%text.

(** Lines 16965 to 17114. *)
Definition DATA_112 : text := "qWLowrBtYonoC7$lH8z;G#beYm8`0$q5>>gxEd8ifLu+z5p!aCj+iKT>k#kH+R)lXh9EOwD2f$#@vqz
ulfuL4+@b~AN<ot($sxVDHpEak>r;TaEC^4t=o&Lo0ytugf#^rj{e9pLhu4}2a-=FLX@$IkwUCOoUVO
?thS_Z9ewQ8fC@7(q6Dv;Wg>eqCx0(VTYUxL^HBAfbN_3#XEG<#xB0oE0R;s32gB^`%&FnoBnw21L@W
}5QA$?dNK<OlU_Uv<Jl$V}MCJ5)z)f<+6@|F^pgd;V1beV=EC<@&n>@6`yrGuq8dKZbmo1>2zSSmQt8
m-+0(DPZU8uX}2yXNRmz`k=}eOK-<)s$Cr@K{JyW&`>zANIM0z_d#@fDk27Wl#o-b98{*J61e01j4pp
J9fIf_tp+)U`(N+Rj!=l+;I9#IiAGOIV_>NuEN4ou}rGYX80e;MEbSAwNE-jGxYwNjSPK2oIxkV!nUy
NAs`=2W8H9O?6FQCR7(f%Ps3}VwO0y7kh{LiUleK5_wHQ>BJ8a_ZfKb@(M0qFQ(ZWmX_E$3!2A`2=Y2
cly*YD=cdPyCAzyAb0Z}j!?Du7KYqi)nTJ8<Bd;OQ6t9>brPP=ltL3dD%21<eP615E?$Re_3;6Wh<fl
yRBsS|mo!-#WZx9a~7A>Q6^?st3OY|PaSdVpDn1f`|!dmaJdFe2P2Jh9`6>V7l$qOy`)zQ8#iGvCFv+
U@Rl^AQ(){-Dlm`tGu9KCS$?+-=v}KmSkt@6~2={}@|%a&MGtIu-NN(5N{SB{O**%3C`I7Is2M1u@AF
o>a|}UJDW*)|TB86C~Kj>SC`7$ojCBFhC#VBNIP=N+XeM0IpB6<)zPw6N&J4B~yfQvl~ntheAO@PE|?
(Z7-+6hN}KdAg@W(E`;ZO2<e;Q1=CE!c7Rb=&^WUBWbE0<n58qeh`aXc1ft}_POidK_0Bc)jWK7N0G~
SV5O!1?`-y0`6{48tXvXZ}d6qdIqbuw$(rhwKc2r#e0_QI6@OiP^Z`TOMYyBNWQe!HfnUVs-2u)`XtK
AnsvVd{B-0s)2A9W4u+Eszi;^4DqJNA1`^!Jxqt&h?A7`Mvg3W=liti~mMkyE!A?68@4XoXkuT|E{KM
!h5K)PzL8Exd(m*#W-y4e!~c&;f$_H@Qp`i1!oz4{CSjPTDO8Uki-W%OT%=Oydcm_!A<R4HcK2J$&h=
P#Exme8TW9NFAE#Ks2@X>`8XD9Df7?j{NpfeIc(Kn>vsiefqe+BhcfS=<*%GcNqQ72xLUn<!!%FT_J)
CN`H+kCjS9YO9KQH000080P~d=N45Jl@sS1q0J9YU02KfL0B~t=FLiWjY;!Mfb#!E5bY)~NaCy~OZEx
E)5dQ98!KpAJ54QG#VFQBZLy)9v&@?TYtVNdv0wbMcCK9QUlpUk!f8QPTVo`EZ18qM{9}<b=9gp|&+(
XZ`%2^!GOIvD)V<z%KY0LPHQCVpruD(a3dOYP8tjMAHzB5WT@0q&274o+ER3<98T{NF&ZAPOx?N*2)i
kBc$rCBSQ+|NY@g9WG}x#y&|S-J#mgp!OK*3QNCU}u9w<+ytzWR>MvY#>oGHB<KC^!)hEhl|Z>Ayas0
7QbD;J>5*9Y22c2(@g($aq=!cIy`!L5+9$wn=)NWNj8+IL&r;@ZOJo`%Z-ZCimVj}X~@&5&{K8`HWt#
LZ5gEPA$+-r{DRK2kT)ul1tj+|IX6}-33@adU7Vb~K#PuE#m9%2C-IBdm+XKA<Bzj(J{zZ(<Cpv6*Zb
p(zXM!LaRQC=b-*Gt<IIhPaV&X`X)wWMNyd#~@7wcSKsG<3oi8jVL8xx-AhDDE5yK~iIVO>i!p3oEaA
7@84}C_4WauQ$Y}~ufj_6Ja8RGGxLgW0ylm&S58OgX)MwDOyn$u`|#?BN^nOy*b2VpE_hEv|IuzJ1Oo
Sv1y9aRA`++xav5~&^X1%2z$Xfg&9f~R3CF=-{>A%ViO@bt}z)(WHho@XVv_ld99)A{N1sCA*?OK?U`
S+OoelMz#vlv;zdF_m6N*)w)%F)s>AaJJF{6{->|uheasI4?3+TRZs!1F#C7a*FdoTINMK@YScm2t5J
jk&T@l!M=AA+*;4+B^;*jWV&5h*Dt8fbJIZL^Khs=)s`u&t@s|+=HOD7+vcI*np>sKK^RN}^wfSZ@m6
ih=Fd#s@a#L5Odo}U|53?YZR-7cm-3miSFrxhh2+9SWt8)KU<A?VFl-<zEUA@r&O^w?@F~4+#l)ORHN
@kvi4;l@o^Eww?<g9u0n2XC&ef_hVQ&d_-$;E+m@s4>4&SVC2ER%J=r0t>GIpyv>i7aM3AjxAC&cFC5
Tj8lz%Y)Ji3T({jW!W#JJ)Up9DNI%YM4QEhA%JhW$RwPFEK2QfiB_A4l-Yz^)4TG=@ZVCnb}r2y-fDT
yG2852GZXQXLrZgo}FLUSm@a_7q@8If$J~AbH`uXfSRzGpn<{?w_q8!8-#U2VDdc1=)z9URQ38eJ*wj
E$GMi-+8Y}4ko`2iu40M4H1t*P9RxuIRdZy|T(YttO76ahGFAaO6S=SsDdrmfEkP!0rsh?R8LB}g6JQ
0Bz!kuK#GDC)B?g^_U;-FOoD|Y&BRxE^0zqiw3r6I<!bO6dJ=5dG3?qe_)O_yNREg`<sd_{d%p_VMD7
Z>(PFDq?Pl_?)x02<M=wjW4F>*sWJk+_8gCJCX>Np!W7+fb1LbQQ!ptRbqTNWryyHr}eZrarJ<7v04p
>EBhNORYU+LzKMQmw*C2Uw56g3g5mIzBcl3DhGL9uq@v7S7dvv&VH^sGumi1$85(4&fs}Z-rmA8%<j+
M&v0R@@xmYO5;`6p6g*{4^gYfy1HL@Jnyy_dS0D%44$y(><{)M`}H^c^ZU>4&k&M&VfM`S+;rXTckep
xZ&T3=5Z2FKY4BbQ{m`wrmfdK177X&a%4t)OZ52|`eQxM)y46OM@Px5(sk5P<i6P)N2cLq&gvc0Tf53
|(6V(m)Cr2!MoO&`aB+^_Mh!K%omX{{<*Yq5EH85l8&}`|_4ly6n;bG{>u(OA5L$WKJTm>33;OK<l`j
OiMV$#7QRX!A$3`T0Y_ZUtrCy_8QB3*5VCx3l4`{mkim(Ltc?Q%RsWITF~X}~M69@2owQQId-?Wluvx
w5bWz;(5Gtjz-#Vr%_WR2e2rH&??hq(1MPfY>suuZ=)-gI;SF|8UR~_ojRF4H;&-#Iz&mvI~@+xt~x1
>~!pdkf~a^zQ>nJq-eM)!Sv)S@`BolpVAeH+9^Ch)JK>4$D=JsfhS4wlzw>ejo5+ub!Gb!)$cVC!2;S
fEQa8tDjj1lO>K7zIb$<r3$+6L?u=37f}t9|<RarY$hH5Gq|z)@nWYR-)CdeSQjJ^9Q`%xFxI?xrO7=
*7)iBv?R*AS~zlVzQ95Wya*x1XHr>NW)o~N(>yQ`_ZKe)`(zxrN!;{M?_o7mNHN#UmKMJ2dI`UD8%hA
0})&9$m$avnJ@!%8-r-!hfseSv=h+!*=JT=nSgWb_|UO9KQH000080P~d=N1-nT+Zzc00CpMx01p5F0
B~t=FLiWjY;!MlX)bVi#aT^{+c*-v`&SSS8f|5?$|Q3O(7+~{>~3RcvxDtk<PZb~Em1bpGAWQ$yFI^t
U-3g<wtJA7!}^f6rDCz_RlTYrQyaZ!>vi3^&WQDz$$hJhV|-(E(>bvYzZdm+u}VHlE45lI;sfb~aauP
vJ+Ma`7F)Shyh#hgubkc8{{8mTea<RT^R97gsoZ+URn-Wy2<uwe7Ny>|+@-ajZ$JI~@6UI`>(0r>rnj
{=d+yd&{w8J;MWeS{skTXSD`>w;D90W7&`Yl$g{rg}Y<)U;SF}cNjj*=Z@LupeH#xgir4f5l+Tiyy3w
NSvh3W17Y=B*({w1H}sVT!M+e)QGzvW%{xmY-Je7j)yT=JsSjW&GG7cbZ^+F7P+M6a%efvHRwqhU(P7
3B6JC~-S!b0$^UbQQsNceGCIKawazh@j}!tM*Tdg?K7O>)1#C2Y3c^(zfh|ebP!S77K)$t*vN8>DI}u
b=h!hSFI5+$cQRuHE)^?FCVg?MyOJIBW@^c+&MD{7qx6e&X!4LnftA>g<lCPYjzN<((2l=2c-|}utPH
S8p%yYDj5DsmE(a>SaIDn>|1BS1#7##h{_zTmB@T8EGe{I>*4K`gg!yQu+9on!rt9|xV>dakisvPHB)
-nI5<WhBfu)vyPWL)pc?{-;W0&vG`8AWxq+$WjvHP&${+Z4;E18qe&d65yC9qJiRyYgMr&`_m)?pKTn
W;B>yB%H(*RWPpm5^Jt=+K|t1Qc(UHa^zuX96wxM7X7ZgoymyW>_^==$<C>w|i4j^uGAJnH1{1d?kbf
ChyZ^}xR-o`xs%D+M8Hi|}qGIKx6Z$vR}lL7N9V&WVr?ArXK*aV7>lDyz9FB`8WeQaZ%Aht(8hMo}i~
eV7`Kq6dVA0QFp^&kVrgo0e)d_?i{o6|qVlWq~h&jQ<T;`O%Abo?gy6zpSz1L}Ey!#bW&)u|Qoz=3L<
LwEpE(6cMzAe~ID<n@xxMfF$;%ZlyQhpe53Lxm^0c|M0buAQH-=;{>#^VGXh?X?LrPl8!1CI8rgK*n>
E3G&g`d?NNkWxu+;XOdl**dr*z$l_k|1F~~v(5l459HG)6-G!azYIP%OQCqr;ojeHPnCo6OfR(8gsYG
zQhLmwG$7rez6EBCVDrVn<+3dz19)z=o0Lf-rGDz|_q)PGVG`a{k(9hD$T(MQA^g_XT7-sAz1Aj3cqu
fEpgCMm;4KzMK82BTgV?ACd(EOq1pn>yr@fA_|}tE4S~UeGhx<l8fg9hrJV+X%F&V_5o=UrK-pcuP&?
pn74cD7Q;!BU14iNHgM!8iO99*;kUoPL?}F0vy>vDTKvSi}ZkGB^rLjUxA)gVk;Ra3+e$~Bez>3K37R
orwkU*!qdcHmU^6%_$Qjx2j(xp0ahPVX}~Atj7OO_M)2y`BSD=C1x7q^`d#!%?7#R<hY>@%^?F6go3o
ePY|&I-zI-^)w`?F=N`3m=k?-W4hGUY(rdc3pPx3AnjQM&rC1F;lWXnB;vZ6O?Zq8y*L0n7Qr;!Y-4}
;q(&23&Ryv4``VK>s@TW?&D#cE=GZ_ZPPdX&1ey;}z$Or=sPP|g#Z29c4zUytA@+@P`=YA=Z+a89F0N
LK{<QTFpq1LlI!P33j&c-sn<kCYLykVUbX=cI5?{XVIqEI|tZ4J@jVZ@Xj|;tvCS+FMtQ^xeZH{}7cN
CCLv#$pX}xU^^HeXWdy$^N{=_eSY{bT%!50f5s%f9g15LgbU|`B?Hz&iai(Cvjcca;#hNi@|@4u|3u8
5OWMG-pbMxLL!$VgMWjNU5QHt<ZKzhF@*Q@FgfP<@8mSsJ3frqwbOdOcV-8b7n;4axKgO8Ubw+LZlm~
NIvjM>gMPe-=72O^M1oN@Dfa?bu7p8r0BWgk#^$-yGDjl241>EO2r*K5PwE|CkD~#nDY1oMKNXr3ZOd
lAQE`T|<_xXylnu5>|3O~o9`)f2|HY<F8c?|(RtM>P+;>3kL*72<XXI4wLWG~rjc92Ajeqe7h`ggn_8
2wj(3QOFvcOmr`QOyaKCbZ#1>m>@>>nZy^eQVo_Q=Ko^yGJc6_M0%eKfcHFUs0S^75<1b*A4rz_;FfC
qHRm8Sw3g*Yxb&FM2IY3+2tk6(GMJs8#n^Ytxne9)p;}Uf?e4qyXxiEuA195?#pyh5tBx`oT;1FqwT1
@J`p3Nn{IcM0+e|=t*Dq&+)8B^D3G%HGa`pE^iL;q=rvIr23527yr(widtEw|5{WUaidW$JA<nDp-KV
=-M&|)L(&uM1e{@U-_JZB%cxD;T;G}LHHKCaNjpM|C8ZuH9&6;*b8Af%cM3}v|I@K|<F_1I!B4DFF*=
nSVI)$JS!4GhSM`D9R$xyB6+!gRX(49&cX_ureLa-dE3&+P$Kzks4<f&^=YQP*hx<R1L{lU=ciQ7WyZ
oBhS1nL1sO26YWfT}b$!V${0TKP+dB}HU8BV4@L^3zQitOf+mbn$U0ZbBp$vwAm9xbGPLUa${4fg@`0
n<Gl5Q;O_Htw?DXXRuwGRr{Nsy{<Z(pvN(b_{C$i;Vsjh370M&AL%Xvk<^|6z^}g<GWH#&w0jNvetNU
&1+vMyz??o+eDuQ+BOM7j&3X7*jyf+Uducgp(`v4bX2`Mg6B{xXINo0tMXY$pDo?JNK3-K5Febi6Bj9
qw_nV5p9lat@TTC|>?EHgX*G)I+;r|b(y$#R$oUFVwJiO;~CY%}cCc95R7p8`E7m`YNOh-CjTUY7M`K
QCUu)JD<lO@K4th%}iMaXt_EuX^6VGzhH8-9j9?jH>eGNUef!QFT#{HI)g#_jP%b)GJupU2=kyd1S?>
Zxmg`FCa<2uC{WFAGDvTn1UQ%+8dG_zouY|3guf$FhkNRk&gt@;nX<zN?Sdk0$!At#AOJTQ)>{GAo9$
q?hu_lFZ1>(fp7Q^CI!rOiLpbDY?E5cY<FgUdNrMF{XJH*d?pzwhu$mRK{C!c3HII?5gl?c=mOEm2e1
Ivm&Fj#s2_MO9KQH000080P~d=M?a&4R8b880PrmU022TJ0B~t=FLq;dFJE72ZfSI1UoLQYr5gQj+cx
%h{}n`v!1C%TYkR;Qilx_U+U*8x-LSN~AG$)JCEDg9iykT2@rwTM_ueBZQD2VJ89^*l<m3DPBG1mw{>
zIj7l!dXXTM!tvuG!@k*Z*+DoU;L88g*(t8{sGb~agRwP8uJtjbD@Bw=!cZx~+~l~<)m?C;6MjSH;{<
$vUAwUWik|5V05nRQjld}4ub<u*=sqR5nvjl7FDY9~xw={%PUzulH=BN#W#4kz?GSTF8Uu`PiH<5#@m
*_GOCfYfFdZdy->GHJFsKLD(9J!cD^-d5WrlX}il;7nqw#a63S7&D)+;g8;wT8KH|bxTkZaVJe_W|PS
zNf1WDF4>3aE;Z9Ro32Ee7@a0s{8>pYHliq}A7LtTNobhq*cHRXA89N~l7er5>j*K;xiRdw)LdKPL~8
MeNXyxC!VaLWU~hc@IG;Y#kV)6Di6In>SrZDf#IN-V|1bX1_+^&mmcDldqJt|lu>_IJLY7Gq8IdpDCi
r>8ex;oN<Bigy-eoV#HA=@yYN<5aaV=G4SVy}8Nag@=Hl`j4g&S8!n4}P8u2K+h3Hm{(#BRe`0OyxOx
rPm1T(YO}KjVMQ*|Yc=%akz1v}9|(6O4c@HD4ju>y>iJfY-b%brfz5%xKLA?z~ln2$(R8te<}zU9c^X
Y$L}xBM!$k!)Gla0Hgat&;qQnpoMWQ`M93#AiM<qg}ur{4G)zZFf$|Ya)1+cfbMu+2@}mmVS>e=l8(X
r;P#B&JW>re#-yXc<MnZD6EaB4$?iUZnt!YZk8RQxqg(D}=CSRG&9mH&HzLx`8VD_L9k~f`0|hG-s-P
hygO{LN$c1S~nXC_p_goj?0ix*@FL0p;PHy@fy$FDa8?O+8un2}*<6L4nf|6Zz>9C>o?t@?Y5!edPL%
3#QQ30mj8;FdMbo_hXV2fY^m9C0D$1c&l<_u?Eb}S7!h$P&DekSrR350$<N#vFxeL%H_-wUy3N&wY}l
LXmN%@!i%;4VNY%(`??RU&aEAqY+bR$;(!{3MAxhJi!m80rFqF;M&GU#+5+Yhl5vB|Ue%aAO@yFqR4)
cxf@1G^E&l=1jz^m_Zbadl*eGFz#KH>H=P0fNi9=sw$_mLCh#9q)B<$4#;yv3~gn*!VQ40xcuA@K=_K
z%`A@N>1dn|X>ka6chn46Jq;HjX`uhg#P}5dp=1$_0%|V>uKHy*Cy4O5LtCG|*8((TBMSi{19<>#7+B
D-tU-+vI80<8G5k1J7EbEAIkdt-MRYnyfE#K^(JtvL&ea}ld-hNZ9t>&DhzBhKv%18SJZ>6Z;Vv!co(
9)TLWJF-aSTI_xXHaxVR<+K!+_0$ye&xPtW927lWZq+j-}J7CEf+kdf*ZJ5jcd#?Q(VSzdjP8S(Iy8!
)I4P=GBDDPNLCddvnZfoKOCW>lFm8ufDq7<5L)Skq<BtAi@7`defq;m*RAx28c*QLd`)3w#vv->4QTG
2S$7zd~otzU6zpT8fHoknLeea-W-kCw#;ZRi)T+6&}!_zU`eLIAF?Qyw}Pe5fB$`{@=WMq-$rxitmHB
eTm}>vvZPlLVc%5|9E@p4gF8k6k~548v~=PGel5U=jHv{B^yHg=JtHyi*9R-=jerz5V|$Jf4tSnbsmP
wYmFu$Hn&%f6kp8c$MVzY5#rCk}7f=&j5JYo<5NjcnninSLP~C~u3JM_|L?8F7RS|p#n20;R+2+84*M
IP0r7-7V3xEUaW_%0+j5q8I=w0OE;t8bccV}@g!LsmUU`@_bj4)W7Bw<_>cVtH=MZ-5Vmv(Oy3S%9Pp
!SxE9y4J|SrDWeWaANH5rcN*2Pi7`MXq>e$&pY+&q-Gx=wW~a-Xo2)+6>~OxrEsNR+T>>x3F3e*&D5u
ZaX=^3=Ck`&2{^6-Vi3K(i&VxNaFine`HYn!q85V6IdLmipJ=POWLu%y>M_pfmkNsIt*W-BZ^wi@$4E
<IDn)eOo5g%&Ne(pUbwsv2#VQRd&xVe5+Ds&@h$N0#p7=w^)FSb@)w}5-@>XF^X@XrMxa`KjA{+DHV4
H10!A)=I{at5eFRE-Nl(qf#`3`LLS@0GkEeA+f?ehv^3LlwVR7n%2ogi49RZj*doug*q{#`bgM|=DrR
$v8_QIc)K=xpXXdPxyJL=p5gNM*V>|i3rkXj9wZ2FSWMwsp3WOuQP$c1Q!;7dZVLq&K0s<5-8qsULEv
z`Yd-odtQ^+hvyNVW<&oCie8Is>a(LruXJ3j8p~HbbdFbBArpi4^l}zZ;Mb3%2MzW-%6h<X%a5K3|)&
-&-7<z5=s`mtaR=29$4s8uWZYHwyr~n;c@^jC)do1fynAfl8mtzXYwWL+%KR-ul^KRA|-c_rZmO@T9S
JT@`;;s-(QQbVk2XJN(UyLk$PKy3BD9T)SDv!|th;YM>tkU66W)d~N8l*bp_QA?FGGe>y_dm0iQiy&~
^}q}kL(X5bZN2?{4yz$u&Vr!>lQkkE1ono*=svmYbD3cJl|L~6z^ofY@qJ)H$KsRhJxpI2gZ7^8#dIr
unG*8<Rl*p?HIfsSgM@zM%`iA++|1A|I$!NFjra4X1pH;zM9I<=XL517878lm+5Sb}<=t^+FOwZ$gNH
cUt8x~7$N;KY!5bAu3WZZKwUp%^Oh;pPSecXRW_7!sF63&Z=7drymyu{_s;XNRw;%0gxnvM#7oi~|e<
fPVv15=Igv3P;&$f4Cm=2pPWsvS<Umb~A`Mcp!m^C$GhSk>(Hw;z_s0f2ScClvY)02oOq%C1gvH^#;^
%HZ#U+2yM`F_8rfGe(<(J?|~D;O!A8$g5cKmIK=GD7Dow67_T}-aL0~1Fx#t#A+(Bd%lVd9A1JZCY9v
7f_nw;&>aBonX;#axg<!hwI{dUM`q6?N@+8;9u!POYZ)4Kzb2)VN*x5Kz^%Ih)@Knmi;52g)&Bo`4Cm
xpc@wrIl;LAR{0;(zSj}!ggyF{S-+#Ky_JOtM^AI9ee7Woj`Y|dx>RNq7O^{v+w^q)?1@ThWh^ut!9s
1rxIW&_(%CY;KwhX|l$8xP=Y?Kq-oWM&j`<}8vkjQik}qWw&6@q00&(>Zou2MplQQJchndphI_b5=ri
P&%hbX8PJEhbR^ocv|KQt{0O~Zq<9NAxSDUu4v;@xleL^9*6ur##MMf!ZL7$7Rb>ycW>h<)^?yi6pkR
Kxy*<n)wv1F%|UfO!ib)Rbx%Re7OWBr)Xu4FH2oj;Q~{Yx{hPV;-qQBrn~(P?R)?if@XaQzC2|?;eaS
!%N40F+NltCnReMOp_K2T6#gtDq<59~!>NNW*XAeDX+BuSNcI>gsIXS?&M<6t`Eo4n!%b@_g2j+fU8u
d}lYmo~VoWKnFd>d$_)A|2M5;2x64I{W1KoH^Lg#>`m+)fzT?IZ{Girdo@uz9argOtwetxu9TUFM)`8
&2YW_32D;MVo&e9v5Q8bXqUrDi`2zfVi}R6sl;t0py%ptvgHw8z)plpmf>y@gQG@8b|e80O6kf40QlW
qR{F}|G0q+##NgGy@G*TBfjpC$m{0NXDN#;Df!A=QX+l)c#yk}3UUDy5i4%j7z{RIg%BAOx1|aM)o+1
%e&+|~U}5UgAZ8SHr$fudmU_sZPmL@vh4}pPlW(7Vrf%LR@Va<5LVoV^*Pq;BW@1|fODXi{8rl!bh7%
ZlP|u*;hEM~t#5X`Yyki^gJgp_#Zuh0Np|2+%dP0kOSQ$a5uRT3`k1v3ezN3asg<cW*cQCGdR1Zbl8(
7_3_6>eghf`?zQnYndB&ogE<?jz{GElL#+9#&Wz;|3)fv5Y-9$^g!HQXry4YH0WRhh8s24}kslU(dXe
(A4iy?*oR{rB_wCCDT_vZJ^wHBUsblUfzsTMjKYS7@EsGdI=30k2=a!?PavGZHv-fO&h(w_BkZ*K~;A
xw&SKk$INcV*&u$)bbWGvxngLM5^VMxY^Xn-*K5^?`pUuu*vY|O`WiPWRG#Iem{23+d(wyN|6M3Qc^Y
`%6VI2CxHpYIB!d<@zwU4A^Z87v=Z+lc4~=7_5x)5=IzgK-oC>laRp*b*JK%VqUURf&axj0+k9brr86
ieya2?VNGsbqlyse~FAn@b7!omUjoCzqLqDysR@U5)tS_mMbM$&~uBZMKq<@QGxQMcVffy~mw$JsoOh
k~^z1z~BwlI}~BN5qTG8v0>qcP4Ij}HX?R?B7Yno9ecKs)^6Nq-x_^LrJyvmlzqqj;ZMQuIGH!Cwxd;
Z#?98_7Sgrc14wWc4K#f2Rn%f8F4AU2NOCnD&80=ce&JsC4AF+?m!;vum6e9Z?Jvj6*l%C~u0nY01k@
9OJ+jP#(En!1Zr$11?N`f;(s5%aXa?>rX<19Y~(r0dy0u_+OlBcYq#prOgeC_EEb24^T@31QY-O00;o
{l@>?qnThqw1poj`5dZ)Y0001RX>c!gV{<QJVR~U<axQRrl~-GD+cp$__pczD1(Fh3ZQ20?0(cnKbwh
z-9g1x)Za^>+WpR;2m84>)zkcUXqC{Pst$r~thv)j8i*h9^LTTQbR&h#+s2ZsZVfR{=t>LuWZ#MmTDG
vuxAKX@Iw=%qHa#3=(SA4U%Ab)=R<>M{+jl+E*G!eCtM2k~W$w#h}R+Xi=Pa38)-x&3DyCLw)QKRn4X
=5n})BQ2+Uhq@O8$;e(ns-V`)iLNF0qy#`jg`=dCTWc*wWC*+QJlvl6S^tc6A+tXBz;T=LRiM+Z?3eE
^;=mRCCia6lgGN0EE`of1vQd_2Aj<W-NzN#IX@-`Za&zvkkXn}5P=BD(voRSer8`8Q{hxn)Y*u%z$Uo
=ssekE3FXd`;ZX5L(t%X5IxV^joff>}8jeG|$DidD+rR6=n8sggx6!&7mib6ymlICcr8@zGtb#lToQY
Z(N<+=dJjST(ewQ`){EDdqIQ8o4;fSl=NULevfO9%m#01|($-o8}EZ+`KFUTKHrjRxHaYtS!KP2DB<W
2I1WRmMTFr;9QoV1#2nk#mwcnxq?q?R=;1XoO@g-BWHar?v%LK_HQ*^v9z03)C_gr6GOp^Wu@C5ZC2v
GMO*kqm4^P9WyY7!~@U1V2tx0mq_eJV)Tqf00b+6Mizh&cb~Fe!q*(zna@Oe>lVn%~Gb1R4G$t0EC`C
FJ8PD*6&VT4JddIT8lg_j8spAbr+xo`URI6*GANq;lO#7FBTOF$OfFc`jS)+8Lq=%+i8dpgv8qhqtU2
y($)=2A410>@*^O1f_VwHLqK)7Vx5aP7AmW=qd^-g_P`;)YOpqCb?+}C3`wO@JT>Lhgj-i$Mp>hguJB
FNS8YvGSyjx&W-!$~zl%wF%y!PYc*0=u(}g@zZ8F)K-LI_Fe3YI;Aj)#4L9grRy8#vYC`?-PsK7YdER
G@Gk5o3O*(7<FmUIjP`>Zzt*?1z_CS!(AMEq~=O<R@-i0zl)j$HfiRz=Bs!$j?g^0+&*0DD#tWGxnP3
P<4tOmHys-Y69w?}IItRXDs`Q1z__t1}4!Sa2q=){{#e1>_R<!y67^dsfb~>;qq8YY$Ya^nrS*7_Nsi
"%text.

(** Lines 17115 to 17264. *)
Definition DATA_113 : text := "_F2s`q-$r1sB;-E5E#5g3DD#Szz!_B)R;S$I#_}gWiAdqvCB)pNn6FEDNXcW8P#{gRjj~nZ{2{5{hH`
wz_y~%9T%jKCKo4LEdKiR!L<UGW5-ZfNYEA74!Q}a@20meU&1ZRU|=w-*jwp;XQ2p(i8f3b%(5a3I{v
}3i}a(zbpWQ~WHS03#=v@zzp(s#JAg~=Qf2CCL`MLrz9>RnN-hgx4sEy;HHUH0vP~e=!r+Mx=Kw^qo&
5vDm1x3g;E~k{`GkSRJ0el$qznEnS%G5r3!quzKrj%_<o5pV<qi%%t&nwYZRDUP8UvL3o4Zw7m!DK<i
oU@xyIvaN@{9~GeBR92y*Q(kB}RgI{BiV{#@<z?^8grX*9r(G^7jFd*53w+LDx>k1QGi!cygkwVFy%L
pH~(rR?#|B6v@6xPbYa=k9|NR%Vz+M*R*2LB7ubhv~V2MLKTGj<nwWRcO8A!S7CA$eTTyUaG1sxz%z1
K;sow+lo}|KgOY6%-Yfyq6`uv=>m{W#IbltMgCrpC(dA-{w{8<H!kLNGgzo*U%xaaw@t0OW>4Z#lJz8
Lka(<6-ddV={dICh7Y<|;TnYzGJIJ_hAysM5WutJ=a@(2Yvn$%e+rML4E(W^0(*-4)9!+|zR{sUv8`#
wX{5<JH}^0##&*g~9dqW!B8O=+vJHqqH^GGyqps2s?L92v=dbA2HlYAyAAKz?rm{Op12Y1xG_j5=G;3
72{cjUOhOaBg`#@ZNhey)T&M+_T0#gYK<*5i?K5zA+07!sDMV^#zdc`sWy^$(wj85kJr$Q=O>(bFgpD
(dJ)JO9KQH000080P~d=N7IP3k3R_j0Jt3h01f~E0B~t=FLq;dFK20VE^v938C{R#w(;G+g1E&(@~tf
26>T3}ERgh?^a=z`kxSbL#}H_VvY3@bg{16V6#4I+At{Oauy=1Cyc9K@8P4~Naw#g3Bzdb_$&!Tdsu5
BXdQ_rpHB0RCYUTDzaXRt()IDleH90R?_bgQ0P+hE6IihWN6DMa@XF|q`KgX3gGZnY8Ecvk`)KIAyp^
Dh;#5}+KxMaVzOlc2++woXvH7`|nAmgej=}UraMnqOxGLPIj?EzsKk^eBMxTrsgT1!!`Rx2O^=eZ`2B
ZlK{9|79>8i;!Xcu<Z^0*Di6d}8_svlk{wO)F5v8o<($Dn<UzbvWi^y;~9ZLqNb0oVX6mM#g2g7x$Zz
H6rP@(^AyT?yIz56;rSqnrHkos3P<4q0qYV*Q$F^s_2#;INCuF8BD;s;fCd4TD;~uNkYZSJVJ>){u4N
e$a^YJAmR7#pDwt98}&@wk^c($qzILwtusPvLK~1Ft2K&(9NUuz3Wym&_IBGXm71p|i%%7;SuEsfYge
hLK(|(co79RB<+J_x$3Oq+!-sW`j_1hXu74iH6p@<gQlt^FmIFp6Um}uAda95yqimzy5EknZ2Eb~O#9
++o!gUb_Mq2AJB?Al6;<QW@XudGYL3;b$ret-9%eYip@+J(n!Fqj|ov+yip+-u*h5um@YV1pBx_>~dX
hepI_2Q`*EUly|3xi*NL8|}`eQsxG<~u;hO44~s7*3_{?l)7wdX9|dn#rUoTa=<xK+fwd3?70tc_1IJ
khh@w-EjT@&>mBZmv@}*hf}-58`zE(q|$Gxwt;{EHXjjmpLN`O6L2$kp~36eGsZCIbHD)AVELZ4y?gi
WyJs803uc@OgM{K*$QMHGE(${nv&_H<cx{mM*Z@V34%0vau?K|LWrVnT%5WV98_NtD1cca)X9vh$+|~
_EpTZ8s@K(#0-PDb0p?d~AXWA}#QU_;(tXn>yQI5SEd5~?LK#YJ`k<FF64?wZ$lW6q@jE6nrMK;v@=H
_?PNS1Tl@8}%nT2+O(BuZz1=J9)4DlqBvl0D9^4Hinva&mQ>r#vC`nl`+Fqn;DdAZg{44m*+2n^|@*$
0qOz&l&{-2*=<^92_~aTu4T`o1-CM5M{NZn!ypY5qeTRHjo@SN?NBFQ!4rb2G24gB!}d-#q3Opl~UXv
`H4Zv0i=-rm(SmRBqBF!iw4dj1yp*DSs?Zq@7EpQ#=}vQkVZimxeD>>o+nvOP)?Wx9bfk<AoqyFkN+M
duLlBSecZu|O6ZQ+v98R$$i6?iA5b2KfXzxE_8JvxOsX`J0D(BsU>JUd<dl|TW7M|(h#_v&P<_me{@o
|hmYMN444J^ln1$dTs{trZ+6vC2ZB$&x@2uU8u&tLk^-OXwWpw7WaQ16W*Mzxc`<*#1_^GIKenOwL+K
H{;F?|IF*TFiSwT)YdoY@=q{w=`p?=j&cnZ&Xt1NTT&d#ps(mTY8(ctr~^y5jQf?#TCCLS36P5DB;;t
xw=srcSj1Ij3!@ofY1?ib2rbW9j;L<mZB+Miet{exbDn*X<)hSkdDPVNi#6?p#p?DQ;9Wd6$?3uHi-J
qVtF~vp(<T{=;EGQrApuK>+4rHcl5*X0NNX7tGG7iwyewN_C5)ro8sl?P<6(Z9j6s9ttL$%J!B_jjPY
zyEX@d9SK3J_i8<jb@QMwK^%<q9o!@m_#As`_9};P*`*^N)p{{X@j4fCBMCl1D}%x3UfnBV?ihIJ9mZ
(X@mU4k3Q$YYz_d)(ZX5wbbMU<XnyThfz2X8_()A449r>{?Uq~h(BKOI8?0|6LJcnM#MvKqiefzh0lV
K|<FJoF~x8jMFhDOSkR%1_GsInGiwg`oPuZGsECp-UKh8PP9JQvGZQ-@%;2R^vu!#(S-`myuP>-Ds29
B#_tc7B?aj91FVp0rm1nS=@`V%up=*zQ$(mG`uj*jguEEV^+AfZCXO23`Y=3$x1Ca_f=2#&xc4b}zPg
1PwP>Hex}9DJxeb?5j{)K&rK?U7<c9h3R=?zk&pon^rGfd>`PoHh^`ioaMi_3jyW)zu$+7A2=;}&9D-
*>~unjO}~lnR5<ZHdn1e%IW{-|Vu8befMz~Ut1bkB-(K32x7~OMM>F%FmirMQKrwHv0jtHv%fkoDJq|
8rhsMdo)xryO3P!W9q|zUGD-E=guOrc&I4sD@p5V$vSd`}i-t)c#JOFN2JWo~AmCEO_YbcqTxeNzsf)
91Y1;^CU*;-_Z_QaU~&O-<>aa?VLbL(`u0fFOET$l_;2?0layQ#1oW-|s1Ohj+QP-mP@Nh8ItEY+Pfk
=q#e%|L10S?<PIF65adW~LO4a7OmJ5XeRma48(+^UiS&c4q-0*eDZf)GVa@g<P0zd9ga@HO?BDcOLFh
LA}nKk~s_*xin^R1tkpZcK!@_8t%IC+_V7x6`><6n}Qyh<|$4I`WFUia(qb~TeAQIH;6i(F&zpCRep%
~in(SL#FzDK+Ty@b18`(QVs6$GfW7^9u->!sb?R&CHOzP9A39Le1~gtxDFc}q0|S|{r{-;0CY}8)j!L
1w-PrL!IJI9pi;Fezp-QY95J0tN@E+pNWE43(%`5IHBS<!5XQVqNyP5_Dfc@rP-2vRA;}qQ_@`W3X3C
t@R(`}g1;wZcJ>wlS<4VbIa?UDTZrymrgnkPnrRx$ZaA(TeEJAB%jh=Jb&2nGrgC{^sX+hEYt&jm$Iy
5N<OBTH$EAAd?+i1t*V&A$-b`SRtneNdtTQ%8Tv1XFdOdt?_OpDZD8Aw$W{Z9!r2DaM&*(H_?^`731i
&N*oZ10K<1!fFP;z>v?ZP8q^to;rgYYeG+0JDQR11)4`?=3GwxT-&)8ie`B_1(qJ52s#h4#pd+;0#zV
AP0Sa8-3)f2S{-Ultor(yy9vI-7aAlyHblSUoDP<kyH9t@j^qbQ4m;2aZW;I6=`B>V=Hzs6;+N=Gt3#
JF+^5KxJwvilVfXl};6o;e>}N8EGMI)y%gy!S!lX3rnM27~hV9$|XZCg_8F;7SXVy<-#zmc1FAi@&KI
c?{_)i=gaTMcv^?y)H0|XQR000O8^OY7y7@M0oj|Bh#ZW90i6aWAKaA|Nac4KodZDn#}b#iH8Y%Xwlw
ODP7+%^#YzQ01f^st?HP1BDD3x$x<LYo#2`eko1iY?npypkiyyBA9SduL?JmS6Vv(xwXsmNc4qX6Dh1
bcK>flBPv#TE)_o@M9yDA@seLb!%AKjW?TqzLsUlMd^l8yD!6zO~GsC#)@q=1?p~ileC7{+NsXDZfg2
DZK$bYqK-x}Hj19IK@dJ;@)uK@OYueuqhvkG<?<|QNpmNR+EOFaR(V3{iHTgQMDxewC{Juqok>yfvY|
>dwb^XYE2hZKxtEm8{ATCEG!^s+fr&sYtEtxHcc!vdaaxB{Y|-6@zz@YiQ&5$G9p_xRsl?4G*2vV&X0
;Too7Y*zj(~DULfjvtmRFTAjrXbhZ>=l$WvJoV*2)1)Ym^m)J)*0jW_1yRV;KlZ(SyX_&CSi*$1ZmjB
fpdumF7mO&xCf95KLmE{mhv*Tv#20GSDz+!~Cb<D`0n2NRA(K{0@U{hXwIMTDE}FZ9{ZPD;k=844sN`
)u_)S-a%ZoBF*ISNJSn_R`ItFsLCpSV!`P2Att(#=Tw_qwr2M;tu>2DcFuQ8lLa_g*E6#nNj-o=koB3
Htm=b|F^Vy0Kx=kNWrN1G7jm2Tj(ZR%sS{*v@<DPDc6+UVJ!5QgRpte2*y+<Zxu*qtV<-N!6X6r_>oz
8e(LD6PL~BBtnJ_?rmT}-LZEH*+_&1e@5L84qO!z8c%Q=V$)xEkD8F9BrS8waAxM86uIa*+k8EXs)|G
0mvlvMH5`FHZ3Wf*3=Xzjs<sh#e0Cugbzob4rLf;Y0Qb0Vba(>We-|4hI^xYc*?7xXy>L-9nJ2O1c5g
}M8nZE|Xmr@{79a3HUI(scAhQg~$RHcZI2&a)L`O<UK_l&}0-;*;+U1uBpDJV@?T0DG+|sIXY8Q<(Ay
%L|m59lp^jY~I80uvqVV3YJq6LZV=fV`+wLMFF|R@e{e3S$I-?;A6F(K+VoRre1vv*Xuy+tBO`B%0(g
9_z4{Xm`kb>{JGT~6N7jmh!z)<p3&u^--|8m=n|vxx5AOGc_Br%LQV+N2LP2GuB!QJs`d1_+}*Hs?XL
8TeSmGDt0%TMVX;eGr8`VRaiN0@rW0)xZ>C(f=2NayltQk%ViIBzol>9!>|JBRNugB?E@%R!21Aoz7+
T_4(w8Fw5_&Bp`v6yh%T037<*TyBrl+Nliqu>%!i6=K0Jpfo86D1?#pU!!vDWUuHRv_iwL=wz`-k&G{
*Y`Buc8P25{5Z^-6b!-$9@i~rc{C$kE)j41=jFBGDsw)0+NQWqqS4ACi&x15=`D0-rSJyto+ibAE1Ob
&=>O%I^)UZEyh(hh!z>nd1gYlf0pF;ii)hdlIKo{t>$`0e<%7?$@f59&cD<A1P7eRH{!um-7+oRI+&R
XUZcdS^aWb<mBUh_+qcdRFM{g?=>)ED#M3gPiR*rsIRdvE#l$H246eY13wG$P*5ggMhKjxW8#H|R&!w
_=YmRE&tF)rJdX{Te^545AWX}E%-z==DZ(3!r@~Pzt-haY9+Mqj|(Z?9yCOH=R`IBOHrwW&67TAf`TN
F-edB#Tq0Hw;{g}1`T=3NlYFGW@{J}?8@kQ+H(p~^CCl>7i!Z}*HvtO?HJ7`5ZMhnF7&^>wuW;jji}Z
qNqm9b72ZlIc4+5Pa$BrSvZu^kiEb_6&XXS|J>E_(gg(6TVYjtF*$?XuKf5nm`kZ%aeryF7l}hG$!a)
Z{aowm)vlkmUz&;_iP^gXUY<e2Y(e2{xbmjACU!s>x7?+Z&3^vfG<?-r4P@4c&*{d*$Dy7&Cky)i2ih
|Ux3)I_W)TNFE|!YjX*U%Wf~sYC7cO3YQt+X+WZ4hO9KQH000080P~d=M?<@N5j_k50OTkD02KfL0B~
t=FLq;dFLQNbc4cyNX>V>WaCy~QZI9cy5&rI9!R}%q>DJa}uPE9W+1#~ht_YA`i?qEK@VbI*(YDUA<R
dBXE{gv5&J0P36lEv(p#>@g8=D*shx77qX5@`%4lK(yt!f3&GFBdrjZiFK$);)*&-C}n#Ee(Xc3ak4`
?Znwli-ud26-LJW15|KT{I$<<#T#yPF$v~sH$>hxgT>OIm;!}!x?>d)|Yj`pDppnvflSottu;Nr^G=C
&Zn#><*~|NfREY@NK+%RU4pD@mBDCFcv^QH;p3G3z=bTE`dw2i(NvR3CQo(te5f)IHxryaz-iNUb2ye
2k0Tg-xQZA5yjtESS5cy=1wVz9@ZnG@#fuqC!<xs!Suw_2M1TAAan9oOHgOo2DBK9`Co|<QDC<o_!jF
k0qDT3aWjU0nTRAS;8yJ2Yr(Y#+?(h?=noLmHTmYrfdb;K6BaOvbR_6!sFeF=7xs>cL?dqg89s3$j<`
V`F(gUjqWQk~?D1{wMyFtN^O=gGJJHFmGt<qBxz8<)QiI|v7iPx=^JNt2`)Y1JcI~pJdNoiNUVQ>smM
=W`@nZoJTxdM5Op!i%}U47yZL$zcvsAI~kR+A}v+Hp|ds!=<Z!w0DZs7AtyZZ)WbgZI^q>UgID>5g%9
7bPi#lYA=Gj`mND9)R;>#{r+{cX@$I;%n82mpQwU5xeOacBG)6W2-<b#7wkxhK`xnMeK1~M0nz;Kkah
r&C6Z$lu1<pyNB=cN^*aiKP!=EygrozT<c%a$KQVchiJ~CchSFl!le6j$kloWGC8r3N}h}LF4pq)q~(
SbMJwjsp4$D=r(D#aVgER!pm%wVOAD^JIFvPK5MQj>FxZq?-$AuagQYIS#GU<px@1h4g0I?b9Q{cvUF
~wk)>?`c*Fadz*<+2Hvf)Yb5#&|u`=$n<!@u1uXbBWXYDl-DX^-)Jl4_?pqgMw!{uj!%+x>rNn4;EGu
sh+axkm>6jQ7SxTzF3;AQ&etAYjQ7Bb4QO6b-2w`dDzO%9@yT++3ir&|;$(fk{Wp$uT-YeRIUM2!2T8
jCAnS(;Gz+!bMtKyfO#U-bj>^)JQD4({_9iqMRExPJ9mn-)dxv_D%V7DV2;z6lR}m=YC*C!(|--IF@^
kLXan+F&ShRg5@<MhM1Xzd^$vAv)QH*YtA<1Gh7R5SHfk#0wzz8iZpcv1}O?&zzOK+_vx<!ZaU+L!=v
MK8Bg(9MA~1XCA;;kbjuc=PM2YP1bFLsAzlvao$*5Sp=swSb_++vft-s-GdL?2vRpd*wZ|e?+}rPqx6
*6Jwi@oztW;js&Mpq)|4tx)hr;*y03J@6!6r;GSPcHxA=`~i@Q#J=-5L(2xyT`Mw<F=noiiu)<8d2KT
~^5`JW~vhU^DK3F|FaZ59NRq_YB>>-}W=WO=h|T+9Mv(Wo?jr&3^h~Cq#4Fc(G1WqS^|6<Oo9Rm#l)~
!SzRoe}Y>G@gbG3PQKk{8<B4hfMsAbEJDy<AQf{ahUkWOjyoTs+8Q$4vTpfsWi*RWrpt@3*>@lQ@yGX
bz}c!I_+n3u*kgWKvmCCv^*-NnwgWVqAve5GFj4#_;I!xDiL)sEv4IG4w@tyArHWxLS<Gkm%LFQ@C&=
G@D~3+qv%RDtqIe)XrSLgq(cigNkZW*@`(*KIIlPzYuJ*jahULZUxcjX0b<)xye=ZO0p^t0ylN^-1fm
#R3RPYn{&bB2KwqZi;GQ9?|6rVGd?}3y`ObPoORntH*YJ8rY2qV=6D!uUodo}UAb(Kr1a0NuamIf>f*
XUDT?a$qx7FTS+gno%04@^Rh<LF|(gq;`5v;L}&RyV-6hSD83M>J{cwJzBzxHe_GLSB<0^Hgwb0{FFy
?@hp?<TBgf`E80oo~cjot^|xQ<WVvfe}fF8XFZx@n1F)2wXF*FgeMbq7%yGe4iDE|+Ldz`W$2529dn{
nB$J`EIEukwjTp*@6q!!*^<IF5P!E#iGCy(hUD3d)VQvtgMjd7yI8y%&iiBJ!T~OLBMzr&@9D|xV3Nw
AmbJ6QChtmBSxi62b^ufUKc!<8(e(klH4CCFB_%UyFjGA{2am{v(f;^AJ!75KT16aO+>V%O;niTieM5
*o!%<t}C7V<z>UN_ljj{t^!YO0+xIg@{Y5eE8>^d8Yb-`dF3dWgWtt~uQ*1oMpH>Cc1RHTwWX7Z_NY7
6h55X)y&Z2}g1hv^qbYk{$D^skgE$xWk7aEIqzpgzU)i8rZPeLn3G|8oNJWf+{N{+(0D&JAgK;5mtRW
LX_L?9%m0Byguy!_Qqn{LkhbL8#rc*C>iERxl|XoBBFlYZeXD2Oxh1d?$<o{n~Y)3-+6=@6gj#O;3nw
MRDTr8CWHv<U!>v(Dytwp8exShCN~}`wLi?|q8*>BcLaW@U@}=}Y`lK@;t6ub7_qdVi}7ll6@UOHOm-
C@Z*mo8jQDtF4@r_>B)IjR!ExB_%!SEA7d8Re+4$)i#Qb^9O)_fw#2;#i>8hd??}cbYFA^2O4dj;R{P
WyxmS9JG<9iI0N;x<pWXym`KCr|%=RwPFq6E|$;`os6^%v6JzX~GA$WuZ5#fSVDOC@xk1}QX$3`O(Mi
Q8lS`21@9SOXK^ngy?j5X=Jq(2v0+Oq7N7eK^SoI@%?_^lu|DAr^OwvQ}}ic)d)t-%`SZ(qedmF^Yt}
Wv>}zUks_R$Z&H?x-bI`y!qz&Pz|x#YpM19aobTtCZn0jNKcLA&r8Sye#onqlPAU4#;qv&V1<HsLymK
HBe2p8xsSC0aolLN@87^Jcvf+TZmCw^0oCWc$w&!l;Of-J3$-^a2b35|?yvE>u|1u)59~hubwC3O{cL
O6K3$7Cn$6Hq7yBppe5PlOPY66(!DFvPtjS>{>3f62^;XZL5?xmQ;N?wk1>7;<=f{Nxtq`d~v)I%ErP
O`q#d6|84bBBEjXrUc$puHyl&=EF9?xe~zQwaj1Inla9P$%XZNM=vSwt1R!kL{SZ}D<E);{Ycl5M4=p
Xj0?5Y(s}NXs0c8+JA^_mzZ;H8=1#>@lMj(AY!@vE$E!oG`EFpy*EfcRvF*Bx#x-v3C*2uuONbMv`Ts
?6r%oL+T);F#3h1Q)YGUoN2`&hatjDOYZf>X;w?@jibs)BEykVL&H2MP-9E<mXrh58;y^6APVHIxF;4
ggPFH>ui>4APgm)Ekj}b(4P~hSx&W54Tva12lWW`(vu1@^bGZetXbxQM=-o0T*!g<@60QmqY4#f@)H;
Q~Lu=YuKUkz#1FxT2NVc%o;`PA#bi*268n>T2%#Y2We>#%lQv3s<(flyF`=rc{*<ip`HWzRmxo>0bUU
cOsnjaxu9Q3NNM`C8|`(0`q;W%aEN#CjpJ49Y%xa$jzp3X$w*Gu%*I6_q+hQR;Bn;!})6-lr^c{vn<8
xZan9?7Pys?3UrCEbmj>G!bl@Icc(-dz9<C0dERhU%51(x1-?rl;9F{sN(9!U#4{t0UK-J?;v3zr<oE
QUJgEXeiBJag@zxcb^rbz>Dpi9Ny-}TAe$GL2kevIp3MirWTg^nAAHV<Bl#g_h08T-A!cgpJ0{E18K<
sUVUH<mclvCWP|uzY~|ZWYu<gQ3WD$hHTGAWAuOEo3X3r;E&*6ZyZzo-#-~H+@iEu|CcHD&GkP+wO2=
3Itmqi<2~&$}_WK6k3hwLX3BV**2+pP7fc)%RYwS{Ce+XYOni?2?hyl5Gg}>Bj*Z9LII-R_;fp|x{Pv
$IirD#;msI5ycMLri9p>oC=WYj*ok>B3PYgq7L*3#bkruVkNAL2NT^YE>hR`&3fnEy&`5zRzI<QjZ^B
MoRxQi;D0a)0=RKMvDK-h~-#y2~Y0KOz<YdadMCEk|B+3krxozo=bP&%Sov)LL3ZF)5!KQQ%dS_QN8z
6C)DWT)`cID;D?tb%HNwzNHs5dfs=#yj2JTddl8O-$verWVy_V3$7SR!^b2?Qp<Br_ne>PkG_XF%W3c
fhj8`iO6RvH);gAM+}5|`7_-i7(~f>=8Cdog8CasI7e_PbJHmDeIP+<ZuNt;+iFh5_Wbz+SO9KQH000
080Qi*_NBv~N`E>yR06hZ$03!eZ0B~t=EjKPPE;24;X>)WfX>Mk3FGNLCLsCglR7p=xE^>2pm6E|u!!
Qhn?|F(y+>n~wD+WSCpxr7o&Ma+B8j&VZ;uh`gaoUbDG=a!1vH#EZ9|sfIX0u^z-vK{V$LgL(Xnfy;Y
oTQ~9b!nOl;Mb-cSTUmyVAz#Vn`4RJ(w0m1l3{(t#6X>QA=>rDujfx8Da#7qQl<a9$p!GZ~2>#+_;3w
S_1KEBJ-IHNicTJ54$<8&`@Y?!UPeHK?&n?5lX2o$d&a~hX@b88E6Rn1+ipqJLNQ3um39K;3Iu6@no<
YYF<&>t5i>qf-IDokWoweE~NqZKGL9h?%x#B<lM9fU&w0SD>K<;O~P55rO^)|3GKbMFcGGg({GI?;-D
<J@ni~&{{;nAw6N%>Mt0BJl3(QjCu1KYfb+Bj6wdTDnq}u1j0wR_Pj;0hUl%KzZJZpZ!E4oO5W#82ms
6sO8t_~p<_V{D%lE9kh)+N}2m+%TO)465QmFZloxZE1a!t3PZfOSs`&p3~m&G*BCs0cR1QY-O00;p1l
@>=C)Al7Q0000)0000a0001RX>ct!E-@}LE@WwQbS-IaW^XTLZgg^aUvO_}Zgg`lba-@&PR`FO&d*7W
FHSDXEGQ|C<toT5P_R`1l2*BinRy_tF*;w*1X+X&08mQ<1QY-O00;p1l@>>(4j9~H0ssKh1pojc0001
RX>ct!E-@}LE@WwQbS-IaW^XTTWprU=VRT_GYIARHtyEoa6EP6{E0&*%M4dJ%REh+mP$VK18j-xA>g3
wni|L(h{E;+@^546AzK9g@a1uP_GCSTG?|OH~;VFTQ#@WcHY{&gJt(+Aak~B>Z1@{wFs&eRoFRlgr;H
#8;oQ_7`c;UBR3gbq6|C({-Y?3Mw`^S!3S?J3ZFr+dKYiOK@5IJ(8MIj0o<<qqZDa!`z`a>OD_EFT%)
eQ*cTH*)SblGG^df@vz#I#en1)D08DjqdN6^u`KF=AhTUVQpKn=fa#-$aOs@5yF=S4`YWtIN4fkiJ6y
vB==<jh}S(jGv-aOCAUl7k@!tK*t*J<XuQbqR(CxgYlnLNM?=I?5}z$&c&FRhq}`V{M#6XjqZ@Ivn3&
_kujPFL!H1*@$1qUsw7(^nQ~;)DSN|C**rL%6%})YfqN_s9-mo!IT|#(%G!WcK<w)m&Alm_6u4c?*p<
h(w8j(oA3d->Ow6V8MiIVn4{0L<uwyrff6S)QZ0TInWkyGJkZo&h&2FTvv#dLrc~@`x8V{t2w?m1S!-
$iCG%?WOL=4V&F^o8CeFIcjNi8k0`Igft;W`MiJck4^VU7-t8D}JH4`Yn<D;9tzr#yj#ePItSFk@qqO
+(tfo|ozo9YjIiYOoMw!okH%_u9l%ZB_scJ2?~M3vu>}NRP1HxS)#*ka1h}St&?oax&!=L`d1E!<&G*
rk~#%q_f`QD$_E_>S#vB;;h>x*;WC5WfP#^Ro(T8akxCOju<r07<nnfPTs#e7w5%%nQ9^xc+#P*Q;+<
vTUHeML-l_u?4JQpO9KQH000080Qi*_N2NX~o-Y6Z04@Lk02}}S0B~t=EjKPPE;24;X>)WfX>Mk3FK}
XVE^2dcZmU+xERHWq%}GrxPF1o}C@CsU)lpDN&n$^AOD!tS%+CV~Dw$iPBqk>(E7bx3P)h>@6aWAK2m
tt%7DvY)m%;`B000C4001EX003}la4k13F)lJLWNCABEop9MZ!dIja9?a?c4cfXba-?t$SmLj08mQ<1
QY-O00;p1l@>>bGk<Si0001P0000P0001RX>ct!E-@}LE@WwQbS-IaW^XT7NJT|V3(rVR&Cv}@Eh^5;
&$Ci6)HC36Pt8j$N-W7QvQkJ&$t*63F9)en&@j+5GSM^8<O<5qFVXcZ)(t2vO3lekvQj81Doy1INldp
=D5x~j&CAbA)lJN+gozj<M7RJ@O9KQH000080Qi*_M{ckU>FELh0KEqQ02}}S0B~t=EjKPPE;24;X>)
WfX>Mk3FHJ>MK}11RL6ue8Zqq;zec!JbiH8D`*S!FhOj8IAm#A$TH7Pu{8+&T6u)WJ(Qu6oA+HTT>2%
0=OGv~~GW-rl+OgIsJM`NX`6FB7iY$Pg7KugV*;$wcm581?5l`xA0rUk-yG46xGR8<w$8D`*=D&bxkk
hOK9EM=V&$Q7yvEz+MNN6XnaRbiy*JAuMEZId`AM_ezo;8Mk`?}=bq52Sz$=U6IDadfH(D<Mk?udy7>
"%text.

(** Lines 17265 to 17414. *)
Definition DATA_114 : text := "rEy-ASkFJ^MtN;{u2fzkr?}XKOtH4)>T)<`=eT%KCbJ2ku#4L+NXVph-pSH}Mdx)$!UE<wtSqx}DI6t
MC2%u3A6@+zv9nTGEAJ&zsDm~{s)B=w6V6*m5_k&{jE%~C>ZpP-DP|?E@rJc)3)lCV#5%=58?5quitR
E9h^xsE`dS+`Cu-8<_NZQ?OqG^t08G@qdk_ZK0wwt;FUyQzl<*pnqRx$|s?fg+QRkkz74Tgz>FaP;Jb
$+{<9J8L(XM#DYZga*cOP$dWDF}^VrY;EQ`73k3r57b%+N-ke>)=*aA+MFVb}P}OGEMjO>wgmq<9Y)P
|)kaUI*OUM6QM#UY_<2_`&|G=g@3wq;^5u(vF_Rs#N-OD~^R5)9dvZ3+sNjc~RKO@<g=D-kuSnM&6={
a!)nk21Vuy%v5T*GI@-3OzTQ6;?x^MrR0UH%G0}B_N)WNUc=q6)wex3*><PMiETDIUfEjuAqxYQ`c)g
Zn&^;c1q}kNW&S@$H9pv<F1|`v_!*4D3@xd7BMiqc4i<u`4nDNjBTNk?8uI=ZBbEVcJK_zM8p6#Dw2~
Uyaszeq;I@+ZuhaZk6rAsBNQ;PGfR^6`GQ2)Z;6+dX750lktQ8Fbse|>EHqh1)jByUK3Qy0Iw`UQGE$
evRBt8>aj$G4bLHA3XFgdz)25&QL#x490+^yy<(hMS}!JkVTrSg#>+8)>WhnW#|TJ*YSj%|7*8{5g0&
L2=q0|XQR000O8_>~q%jg!*R`zZhbR96518UO$QaA|NYH!d+QGA?9kb960fZf0*UQbj{gQbe_U$&#bW
66L<l`cK4b=3&tb#2|z~3=$x;!I<Y6#PIcv>fWlWRA$z#*VesAQ!3N!93tGq{kTU2P1^h~$4RSnaGd`
%%dSsc7{mW}NvLfqcx}hA3B=QTyVKO$0#%1~ANLb<p84_?MJUec#~lQs5c)s=NAm-zbkphsl8K)Z;K;
EY-wcrNCOU`9Zf5WfgtnsYX#Jx?<;=R@R&Ixpf8%&=ANqA!x>fK3Rmay6HGpgg=upXq$(0+r-~!9x_7
}q#qyuHKBwL#9@O&s7BK`qu+^!G17p!yP6GlbF?f?_>u!qr0b&?#Ux!;vK!QuFP)`JT^u=?G84iLxw!
t%?YZick3`WLKIU-6cbCpF9~x;Wbtb!AP;?xB|0^UD}Ex_GHULX>542cZNA{e>0OQ&rUN>j=+|EuOpu
>L2_2!U+QsAV>R<XckxtxJh;guF|ls3)(W@ArOV&e<6jlAAWi&GKm%m&#J*{2sg~QoaN;ZO#>b}9(g-
81a?1~y1rK);0}VZzb7lLf^dF8iSYFRBehwgJ{B_xJTnp08S4Xvb8)tAY?J{)K+0Z1qdSx!(Z6Ae+IQ
a{2v;uwm$(!X=dg9k4l6*<`(Qp-J`J&^CgE3!4aNFujM@&z(Z5}x2^$o~1~-0%%7Wum%G2l_@#%^+6R
}pJDi1+IS^3$}QbnKeYNbfxCht%b{`;Z&!5zll@#`Rb1>^CNJ>Z9o(9b7LG}tO23GLJ#A>8PJ0oa3+$
~&kgH<rJHu)n8#O2V*sohOvC8z2yc_Hx!Eiz|cmHmN>)>iI)`_15J=(GnjoxQ6Z!5F-DEaUNk6)ZJH0
kY5Z)n#V4d<24pj`q8^lagk*uE&|ayseoE0R2E$nk>0@=NPYxN8#f5LuzwvWv@MJT_RVe@vW{}#F1}3
ns}@MQ><5kAPSc%(Ce7FC<Bp(kjQR-Kg}`6Gy+Epda7V!atP{Bp#F9n_kPd0fQ*S9W@co0HXzavc{2{
b=1cAH*4&9Pg@e5v#L{Sl8j$DE_|0vqYp15WR>a`4`CI*|^-VB`|7R;;Mj-m+oBVeDty6$?KE#{Pk*r
Dk_{CKp^u_loKc@U{?qQ`;**~;3V)-vICFtvHyn@LKy%fqfny|1hTC-I<<Hmh`LdFLsBJ2QEwl5r(sl
yK*UA_vy`$~`K`-eJFi{_D3_E7>F8fI!`k5r3@PYCRwlc!wjFnNhQ-5Yu48n+UVC108n=MZ6iwcl~4w
oz>9Q#aGYG;-yten!y<drUx5~&56TsF84y`^b0?#QJOWDM56Ke>8J2-z}>)Yh7U0{OjpYiC#5=I*K0j
Xz%AvLN#!Cqhd}@c0gS;%e4@Fb-=PqN{|5ZWmlx=HC;$^^I_h*8DD%OyI<u#iPEff=`|xrAlc5KFtnM
C`Z>|ge4!JHHcX)NVtTjFDaGThYocldLRMH?~psCdgZLG2Mcwk;OcWXS#Tg-)i3;pA>_?T!G2B+KuT+
3|{&crG>Lz-k@CzaNEsp1TIOvGW8w@71bi3Wnv-w;G;5l)@kG#?nUoB<C?-FeorStw>z5p|j`!i<S9b
KBGN**ge0DU>QC?_dZge?yRjW0&?r>c2W9tm2_oV||4_aBf7*l}B>&5*24-bg!4xMq4L?TO?C8e}{q?
@*Dgu2d8e4uCJ!WxP2u!gwUDmULe7RZT$z*!#3{wkJ;@N)`D{v>Gv(n?Qn?voxgvcn^U`t4sx{|485^
qkhmxy@G$gPIE5C`d!^s_rN5?9d82nI^}DJ0@umN2NsU%z42%2_Y)3LAS8`D2s6)IntMLh2g-BfVYTu
%4wZ$w1|K0Qd&G9s|^S%Q3o*iSvn+#e*>O9M$!#WqNyN}>#GA|XB?oaYn!Y|9g*dZA5yOsMlO&11f|B
2_eOzoUsC^=`gd~;Q7XUaMbgsborEYqH{r$X6#Dq&Clj(U&ieqGd^Te@FOlk6VOfq=N~p}l!ZR{<sl*
4f>k)!C8U9I<kiLJ=oEAoUK0v2TFgs!v})wYIy|+^sd0rtMddNxVxtYe<vpXRj-RW=whgdLul4%Revz
zAvs<)S;fz3V~n1_mSujfbHUSP-YLMXpRVcGOjj!f;H<H@?{cZ^?51HUfxkK{yybD!Jjkn^!omFni+k
Hvr}+6B<UlG_Qz|pryh&eo3W2y7v}KbTXQMf`9y8%45Nr|u-_lKDajyF2bW<x(t=IG13gnTgmDEsQzj
{V#g&K#Qr(2n9R|Vg(d-3w3+?5rcst3?gJ|s<a1JtY=NL~l$-7Oa(xd`d$+x1w91cnYLGcbF-ra9=wB
egXnrhJ_T$2emXyMTam6-|GCQg&w3>1Ct-KMx6N$e1)v9{F*(AT)1g1WCYfl?qog=Wf3oV446UD+&P-
F9AkFb}GO9b$#tH}o@R;W+p;Zr~2?vwV0hLS_^aVSl<=un2nhN9>-WZO%)CjmDJG(Hctq0&6?U-vsgI
739~*?>f6R5K?6HBeoSrcR(wbAgz6t!^i+VJ%sg?U7RZz?0dC{cQ8m1_}8#Mba(whPlyBz$`{49kOIN
n2#K&`(;IfWLR?%L^L3E#-~#PS<ecv?5J8Erk+)hbjl%wQl0_clHcibaYSmltU<5ZN$c}sk-17(}*>(
c2{(Q>DD&2e-!QR8`KgjPADAhaDnwrI&viu}oZseKMDA<v8d1`dUkIsh^!vahKY4Q$-$#0yk3<vjVz!
zZQ(a*85H-b(Kk*3l$W?{_X)ZMVdaRMKi%B_#8WH4_5cL<3<=-0@buCB+<|4>EL8b&6fjE8Z0c!Z#e8
*6a69v&vPAIQ$N9JX*_iRl!p|52P`UqknPmo~#I@Pa)kjT0v44n>jyaM#SBRtKoGdvV&2DAj>wXcQUL
Ht1GeLL~Av@UX>+a1MW>c8bX2A#3L(c@?oj9F_qixdN!{bK0QBqq2{z2yf-ex!;i#NPc6x0Y_g^TXwI
F)Tj!K8SHr(r_V8PYpBY{tkp^R>QeU1^$~Dd_)H!I^^N7mA$_f_paFHR3Ml!vHMR^*c%aI?(@Pds0kN
BJ;B_2qkdzz<nzo>ZLEk*<V{@{tBz*zis*?M>(qN9S%b@NR2Gem}OASk}k2>sjM%PS6nCXVKr6h!S7k
@v2r;k%Bb=B?Go&ei}hV=p#^HM%EHI<88yIb@g3<Vj>DhVv<d`Du~ds6y^`f+Lx-l;|FeYpzvTi`dYG
&UzGtV)d~9QM}RH&SI)t9A@zOGYUCUJw34eXCpNhkG8d!4{zQ2mo14lm~*-VnHSk9>UCl#Ufsl_Y1f!
HG~4uZ@kO#Tt9E>Zulz1d+o&uu8M$<7L^|2036q-QL`F<+|jvF??k>tcM*P^-Dw9C-%Q6p3}xE;uM*D
+{o^_C__H!!6cvgNJWhg)Sh);-L8HAMbAxMNCoqjSpZmsy|DgBDoA=R1N)iy6>a|FnV7$~*pj)P4AP+
OK<d5#*8Q#5Lv&i1cNDRlmNhL1~OTQ_xD2@N)NAXXVe!8FLmeOr3q&h^sF<r4ajod$!AhquMs~~aPG?
J1i89Vq_YwJ%){uv2j1-1%K-bALW0EIMnIMaY|GZwK+)+2p5IZ~AxJ!+hf8wZ7b<3j(C3~u+-s;{Qbm
g`wL-#x(QZk@nO+^k$iHy$oZt-8utg$<*gr<`uNACl>99LZ1?*f&C<cO;^}8|39aEH>oZo0uGV(DG>*
y0K}UJyPz1%lk}X$Q|(>xqks~ld`3(>O+LxW6~LBWfi~+uA!zzIisO}LryaYRgUk;*?0(WdI-~*+mSf
=E_#1q|M=xor?IAZrAq?oU@L=>^kYc(<82DYC2(W<@|b23ER5!0cXqskAmUR3{so^V?hwx9t8dCz2=>
hzeR3^;mW<p8&k%tLjiD0Ad?F|M*r=;U`f+sJLHH;6^bd5^j6*+kq5G=&`W~6Gp-?=<tj&YP_xp9QgQ
hZC-3`}81pDhP3OrO=(5*7YaqJuP-hC?I^~0<jbU^bV<>Y$FNg(bp3`Wyd=Y<ag%A{u9n@E}>E-X{vr
X7e+0__*}Q0HOwhK(B$*|SFeI9E6hdH(*gw+-eR-PTJ_aSL-zRX@X2I<t>E0;gc=8|-Hwc=Z$YVm_cW
rfT}`0;~by>=pGrFOI7NaY9<{n5!i|il>>6cL<DsXUA>HY~uRMQW7OtPHQq!*k4@0xgJXkz(gh-wNTG
X>?}8;bw41<W#o<BcQf(}{!O^9z|o-Yw4F7**|()R5cy~^IFjiQl(2G#GiLV~-I}z(9sJ&({DkfnP2z
gtkos=n4nvoE<M2TbMU5_bD}H4{Y`Jmyp<LubBtbsRt^TS5y^texRf7g4X`6=oZn^%XORFsO2j?m296
xz3u~#8F7sUfQ5@R(d{&K%Yh;;2A2skD1mSeBPR9^2hu^y9Vw4Vv)-^NyK)z51qJrry3a$|iP1(l>f2
Otv-2%Z}^=8g>j0+wg~VnnD^al6ln_Y?YG`v-3E*3w4nRhss(th;kar0pC=lGd<EgQVSwu!WkE;>)3b
+--T<^dkoToB6+5bn@e1^v(kwTuY4)NjCSBelb!Zn!8rsV$)e&f$$O<wxR714E`5}DM>ezH?IHcWs;{
DJ_D{AwGtq5I^R3GQ#vp=_X?rNw`?m1eAYr>$=K8?gnq~It5Ni2YkcN!yb7e1dp#Fk<&Kz-v4>7@6mn
5ZfWZaJ6XzzqwESj~_io@<9M8Y~^Yt}M0j?>Og-(pJ4nk0-fZ=1yLXX@O8mU8+PP*9gohVXsQ}yts=D
rJ4T^Rn|F#Z3w@IP?$?rU|4)Dil4xQ2bCQ=e$6IP@mbgwdo?F2p^i;#hPYOAF&Il5c_hyEO4+@W!+Vz
8S@BMQ`{XV`)eSu*0IeD4K!2I7I~>80W<U&-;-Ai2j5aI|K!PH(CGCyoIq_1oC&&H>aa^!3VAn#UR6`
lV^{<cV;S&?yLTQ7Rou@Eb>{ie@zn9uX!(fl*6Oq^r4w=jqupVX$$eqN*gv!uXSB0*V$p~+jQWLI}&~
G=zYx)KEJ*8$_G!u7p+)K6z{Aeqsq%-wwhvfaV^AKZiTk01}&_6o^OtYzjtbWL*f)4HNuMQtEhzKe&9
IIDLj`BpB;(<a6MeUXfCEf_j?zf2-V-}M-cfP)8rQUH?}Wf0Ch1H4dip7c`z=Yk4c>2RD+j2lma3P3o
6?Y={4Glv@N0k3Co-5sp>Y|hIsS>>%<qQIWbqu?Kn_KAIKFo8N#s!YAnok5AF!?TM76|@zL;-ha=~4C
50h=<m33blm;d#i;;7iI1;elRaH91<}=zoH*$Y#lb;0db`KN>2}o!N_#wMqb<}6}a)RZ1XMa9F+TcnY
=8oBm#F3YGDE4jadZmcNs!!5S>h0+5`L2jl0Hc7-xX@aH0deP#d9^>IKE`2$Du`@8BUHbGVdA^A^~&`
0toH%AB|bQ!kT`r(LLjpV(Uo-%hn}6T>IqTZp1A7!aOHb+vpe-(@qbCvj79O$FqDO-<YEoR>MkbEO*f
#<P1hd=!EGDuJ_UQmhcC!2)X-;}_j{5w{L*(rAKUaSHXTp8Op*{4AN^x*Yg6UN6x4C0IvoTkI3Pm3gQ
4G}zxk|nu*u7z8TfKW70^9NB8INrQB&$=d?XjJifIIY(Eic)w}R+9$@l|0aGxJ9*jvVEFHwHi$E(Ky?
3h@@EC(h#2lw-R6Deh7M*{62>nuMji|;MGfj7$w@N_FRsk`eDDlgV~iNO*{NT{TaRU+xcK?Fg#JRa`}
K-QZ$C*I<CQTzF`Ec|Mw2fZ&+<}e=*dZal@PjfX*fQCEhUT{p!1XS*wEjjbC0(TVj-ctXCyeYK&=a<*
+w`6FKp~CmlIa;{|GXv)$ka#&`iGti3lO3U%4lbeoY&75~^$mKN2Wj^OJd2e*{V3r4Hardq79>K1P@$
Uu#3{Y&J+0E69$9<ZF3BANzPCGn!8d8}1$fj=3RaJE5XJ^k#{2~+l!tLTdM$amN<IoDg2ko>YN7K@FT
cm0U*LUPY^v<5hrbPN<~3-`uUiUG@s6b1lo1GPKNZM%jigD2`i_AVPu^h|3Vw&bl;2Fg0u``5-g`*bM
(ZHxGa4)!Eao11zN{yDPMZtzIAcsQJSQJ|E21|UnY(dX#hcf-UOj$v8+#2p3xEo%T$nw(bpAQNdt!|a
DQn%DI&IY~S{PeikK87X-wX6t?9UtdCRqU?*IeTLcq>dYDdaLSh<jc%eb<e>CEw2t95blU?<f%e7WvZ
_#8gLhOs012tYa`Z5SZd(dOHbhj~x<byfGlPeO$!!fj-aQeE-Z_WFP%u>^_uN6k<Q(j^kh<<{Od@ZVT
8<jBZx<a2#|&ae!tNi7V)<Te(1j)OYB86Z&bCe(b*+CUpfNCqET6O{$krJ|e=^-d{uqJxM(XF4Chb{P
d12##SnV?`IJHLI2!x4Y)&R-NifJhY>W(^Ce=LFs|X`f@mb}Ens3Cc{2y-!=^?c>V1tidF=e^zJDn}=
OsCr&LvPAzM!S@q=aaUW_cG^o6eeH=qhL`3RHLP#~Cs7U5GSY9Y2rFe1&aQn{T0#!QSgffUZ$(+I3c`
`&jXDe-J$FMs$tSkcCb^&rZBs^e3|CzE&8XK)`I6?BiHDJnsDiB@xPk8-OAqhgL2O84~w2nKdNd=9&P
BZ$SNetUjK`Fz$Yp<D`)96-Lii7_&&Z6l@@T!23f5^tRROKzfO^U=zyNdlTdra1s{HNAGaex+YQflGr
ysgz0uFDJuiw0g*ClFWMB~O$^GwK72fG-a(<?0QXH=RUe*M(#?5pWC-Bym?(z8Vs~jOSnAcjSFUZ$y*
DqsrJ0Jh`38c%g}^Rs$FLv1v>b931<9xMyMt(qW~VCHQAMAul6(xL5{fHuGN*Iv-phDfE${WuFXW%q)
oV%3g@Fq6#jTy$$_`RgoJWR37WjNk*Guw{oJ*u4n~n&dl@$qr-$6I8+uAqsUL_>l<FJG9dzH^yH#%z-
(W4T8wIpzm{6adNgdREWF!X&d=^xN>NM6$;3lG6oxd;VdTbg#f=Ga}moU&fWoPIy+c^}&H3{?b(?r`G
WaKBLft>W*tNEepBJR&DrrzPuE2sA2+V8Q@6=)s&jDeZY(yT}W*ih0mzg}f~c5=Fj+-hf|cSHEEb<X_
S~1`A%6IPC)oWs6K&f#aPH)zXK9(o?jiqp|yxQvN}G56wwSFejm2@^eov>q(`>RLKQRRO@p?(Ih30(K
Sd4rb_Ki=f4+tFSvD{eu&CO2^BZGF$@I+RNR2B${5^6$hXbgo<9>r1mOxlr$>6&3J3zCzH_uM4|J~gL
`cJ1tV2WCdXKSoD5aZNS*W^)K8%G$5oWZGrM4v$7<=C$_=TNpPyHd2JkIHu>Vh6%+Jf(I4%k2fa_)_l
ts&VFTwaH1UP7U3yd&Z7{I{%w@I$lIdCYs{j%aLdI)d%r`Ihh07J;tiRCjV{b23Pw8f8WxxPvL^eM9>
faKFWhw~5HDXly*|>=?-i@F$h?i3K_@k3~CkSk^5gjTvqL+Y7jbOcZ|Kk@*Mu>+_(jNh8RB8bfkS?}>
`0_Jv72D;twev>ql6qHPgU)s(^74uRhraWCj!r0o=0WY=ZA0(IiEcnbUzlCx!ak?I=kFzUt~t=f0m;k
;~>21R^l!}regl3;F0u~c<%YT90G10I|Fb{rB|Q&LD0lT^6OSa31DO?yGex9jh(%>8v{b#J+MW-{5al
5WxWwa=lnOFIn#FxOey>f~{-iQ9TA(SG+X+&>dMo47&v<#yq1yq*|a(Ft+tYhiBhS9=rjlDWvN#~zU$
>OsqC>jSsn${LvZF8F<-^3oWKwtv5xnyjzE3LIoYjLB>7S|VHG*h6*{Nnnt9^zhaYkxq$wZS#HX+mQG
r*OuwL5BcqOqi_ZQaO-4S2wqCSN;Kky9()L=?&SSg?iWTy8}3Ze&s_1xWPg8#{%eejP?(~O`vD)V07;
R~IfF{j@fqCHl*k`3RHaK+qWRMLaeVl{BYSomo*n;>+Ris<UE@2bzDl=HWLT|Z_1sVif}|f8c}*@%bs
$ZNF)?zhb>Z(;{Fjt{IK*8&HlHRHEKWILau|e1u{>>(aX5z&-%84SijEv*MM2&iuQ;Wgj2%LJ8*#rQ{
ls@i$r?VTN(LkRx!pXIZ`VY?N~jG=q&t$Ve=T9V9r9w664ZMu;x~MCuqozeND52WPtxi`rB7m=od~8p
Q8UYlW}IqC11gnt=<pQoNQclAOFmr%klew@`vHjGk-lX{tSs@R6Q)g^i`)TI=3EtvON$kGCYcR)NRU*
G`F-Bx&z1uAU3~h2=<~KKU{p3~5S&V^RCHYekXl*<+jIGa=V*gYA5@(L5NkpGCY=!EkJq{1Y-PhIyYc
cPkd{3Wg_(NO`>W@>gmi*bL^mFfzArQ5ytrJnlIxc9iT5)_-?N3i|B0)`uD*5(%`M$ob7v8k2f1X;J<
qt>6%_J9!JK%fk~&!W-Da&np2dx;e{G8qX_0ZKGg;iO2`Tb7)woPW>d94&>v-O`X!ww3FJGgs-Vs|}@
y9%)pM73w*s+N&Tt<6Df+YSy4)7p1NKm0bkb%$moR2Ws1vY;g{T+h8x0`;;mUnM~`HJ=K2`i7~ayej2
tf@oa;59s+#-bjX$u428P!>KHTjSX#{V&Nr4b7^Fpt@sRH#yZF6@U_R3prJ0WfYC_AQTgGaStswv-f9
Yes6gFmTj2chIVj{;NGHAXabdU7#h>jZcV~5K*}4BLeM6_bQVmvEr{a|LCN<!4*x>-X=r0}fmQr4Ua>
J#=9@hMx+wWqf=1QrSi{8WV4MupxHm`bIkZ0x%CWZv8u)E&G92?k?X;S+?~BX8`AMf*7}KfTopXH#92
Zua&^iZldvg)+eRJmD*gg%;w5qJuT@tZz6R-VMcIU<DHX4*nnTmm{HK*2yJL-b}qx$+&x+L_v@bg@fO
;8(AZ{8wDLid#zgw8&kF1P?M$I8TTk_<<%;uA@*e?+W5UT|63zs=;`mrxxGb3yP_c#}g1H#g;dpPt(L
{Z7;SHJMUi)N`fjcPN2;TLONjYW!+=-5Xq@p=?0S<#An9u#4D}M?x|%nn$}yg^|z;8EqS_3@O{7sLdn
)l&Ns5*c*%3?NYb;Q6IdHZ&7=ipm6zOCUy{6iOj?&%g@J#KGD^wwR{d?3M9<%dJ}oXpNpX<tG{$<QKb
GmX_Wf`rabD{Xn;d^W-a=z#<|^JbcTiNvL0ye(Pl*{ow#RT`~495?@8k>4D)wJO^_D^Vg#oiaKd1Qa_
kuH)ShP8nripdO|Z?__WlG*(~oVw|7vpo^3r!ol)e<$V?Bv#6{Es7b*69{bejQ@Yoj$`RS4HDi`)gM+
Xe~!7h>TD<yd`f&&zEZjWt0j$KQwYE$I_o2)d-mSMW+Y&D}DcCTRDkGoSzHcK&gkd9n_Po4ykQIT2(D
5*$udOdqNN*^0tiJQJ?Z`j%e`v|4A0YXn65JZJ#_dCV@{A+4ZKYad2PQBY=qboDV1ZTP%ZZ4ay`Qcw$
#!<ZLG0}%>)@gDIGgWnIpe@|C>-ziP1Q<#i3`|=_;cu2HxzqD=+!x>R@o^emaL=HnZ_Dl(U9yj`9J8q
2q*IN1_=<8XP8uk{+qC}HT!U(1TT5;>eEOVY&O|FZ>%^{Y}h}8Q5r{6Pv5H82lB;J;JM9>O9*I7B6Gl
PS&#1G=B1d?MkyF6EU$hhC~E%j*|^n0fM+u6LeV4<+BSh4XO7yDE@qWkvBr>a-s2mrd+?M!1pVvfY7C
<yAiUeZ^L-^?bNNQ*$~^Z{_|WM31tbMjNmjP)9Y@0_!8!+1VGqO99nqKE&yGU>N$@rlf^l`@stbr|ep
eqn2650VDw#_2<BjN6J1qm^3gHB~xtD}&xIBz{jeR_U{e?-qX*m>({GCIAP|`0c{1#W`Di+d6=Jh%ym
$IRx%;HO?a}Fiq0Pn`+w1**`YoI7H;90TM%Sz8^Z#CbGM+XHgP49OOJz!Rt)&4d5RhmQd4uS_ttD#@`
PweI^^bEkk(7mwo=AVWb($#(gc*-Cp+0>lU*1EO~jHfMY<3Jw~Y4YE#4g4hG-P{QQQ>e_jss-}`!7$#
)aVGe%cPJOOTT!O6Bq7R7l?p-6`O)hH+V_9#w`_PmOY{j2SM@@+*|^%vc%9&D%HL@<cHw<ZXZkw+-K&
wI;#zym$?GfnFZ8a#neI_;=GP-vgYn!0`s)cK)k=E;W(-JL;^h~R-Yt?U*?%rQ7xizKuH>*8*CCZ4+{
2=uR_=_ljYO;Q)|xoO|d`;*ePr>lE3X*m#(460bYO#yib>MUps)be*I@_yL-d$K4Ei{O<A#BcFFyFR$
Zv<-^}G6!FiD!R!{037FguwF^5X=pyOw|qb%{~AyJAu7VA{&3Ic$~Bs!$_iN2s>bP3hjN7J$DSM|=Sg
Aaf%L~9>9(32+`;g_tK6SdPeYY%wf*gNp=lFjTn7E7Cb%wOd*w>Z=-DO??ehf(Rc3Q++UAtA6(;14Lf
>~pzi0dVKQBz@tdh*uKi$oGC{=S4%q2<Ct<3K)0%$sA0T0SyK3z`wafcDuACIdG`)2cs*9OXfss%2Z8
kN~MuS-YJ*CH&?NBz>w7nQP$A(lr36M1!$n>hOK%KgRdpRKU}$7lNfov#{-@@=8<FtyK`qkIhDk=jq?
0(xakhOB*hX!rCc_4n`u`|Q~tw5?`--%0#;%4VrI`PlcboOOMc<*1>2F6|DBr29t>h=4W?G&NuwINuk
*38N)NT#Oxs{Cmsqmuvo}5zU>LE3IVrLDe0B!N8EXk;w(iP%r26GfCX;$`#mRcr^CAKVRU#{!ni@s0#
xpNI&#bP0dx6bCj5J?~!{Pxy8g?Spu;=a!$5}a$=qlHT3a1o^~Yl@7=0TydPg)U;v#0So@B@km@XiZh
0y2IzKU4tMU+ePSU#vw(1>!zTpCb{-AL9%-0uA=?;G4BwM(t-15r<JHBGc#|o;uSgdITYw+f>Dh|N<c
&gkeHYsox?j_1|;ChF?pVI%oe2TPeim(i;!F|hJ(FrDVgh(U;U<v9$r7|1|@%cn)kUD`f(VDu1c6r2S
+9q=Ty(#qbX`b6DUk!fk_RyZco)yEIW6pfsx0>=qj+_D0W^;wEd}-BitQ{hj-l6YD=KqE6%jB$HXFpe
?e&~3UR_VyDAUJpLHW$@e1u!gA!)ABft3y*iCF36_l^=|s1Mq6YGdApR>m!z|m`84U?l4>q+(?bwY}z
*5rL`&uIXYWn0pG9Q|0~_6D6Gkyvfz}Z=5>g|oB`TcHtFYf9|04@^W;Ia=o!j1wtT)c<G-8FA1@PmJy
+rD9-=Xj#L9v+lkuKq4}5z^f>V!sw%<h7T}1dsk%#A-MBXnT{0rIBYhP;%v}^#L21M5%h&$4A>l{`ZP
Kni2tT1pO;!M0r5F-cAv-=?O$D#KJ*^riDJ-*rvmRr$eorePs(j1qt+&Q7z+GSMju{FEjnxr^}vsL>i
"%text.

(** Lines 17415 to 17564. *)
Definition DATA_115 : text := "c}HRBe>b-6%d1>e{lzJ^Coi=msG}+@ttGQFp;txs4w`9CpI!LjG9B_m=KO85zu(>TW%wql3T?tZj`L-
IbQWF|^K;Vby_ek3BpNUh9^nI_T^0AZIo;1R^$YR2Wl@B0>xK|>DUA@82em_!$*z$J51z~`5jl>f&#`
c9=?__N_yyeR$)BaxFU+V5!w>JIa3-M|1^dRJCb;e;mXIPgiI0wFN%$%7nRs0_%DYW$ZtP$L0pIYRXJ
%dtK~%7EE~pNwLvwqfs>oPW;cE!qt~dR}*SGdoH=c68p6ea;bLZg~So+*KDPC=&9tEE41pR9BVR(t`(
8^9Ug@n_whE*-VLInq`T=3wye;!}>DQ12l7U_p5kj`;E1})*L5p*&&1>U<0&Ga6?MZ81qXS!l}5{U(;
M0W&?y-!{rx}E=e%w$!%ecdFh<@8Q0$UNPqp0xs5A&o$xCLnn}dOAQxtYSP<2KtVd)YI#(!=A_&^0Gf
m3s&;-a*N<_NJ4zoHceb~a6%qf>+FVHPVP{Oct_jn*H7~|tfaq{#G6Dgf@(nYM-yn1fIFA7yx-(Ryg%
M87Ye4x_jfQ!zC*rWp|uz{k{$IR%qc=^UK(+Gk$@+&rxBRTq!D!JtNH-bgZR`V=s)&t+%NaP&t>9QqE
Zq7dbu&;z8cne)}%{{4q=0~Do_k1NlRpQC7-t_KH@!9%cqN<f!>9M%37TtvX_;=Vvv62OdCFoGGVZbj
~(O087h>2<j>>NKi|yr*O`v59ud@g!qI7zokJzJt{BszjJC4fg-af`e@3nX?7M46z$&-<dFA$RwD%Vu
G)Ckpj`KiDmdXIQa+qRLFJxmbGg`pYaatbMKptd9f9BY~qroObyT9Hq_WwwDzW{y;24P8>6U4yDopR0
Sa#)Tgx8Y-_)2i>62^}WhdU)I!<N6&!{dAWt%6|214}QAaq+|M!Wk4%WZ%HzS<i+VWCqXL0KZ6z(-aw
9TH&guFjd@~iKhE2UTf@%p!aAICHlxp8R+0zoSk>}9PAv!15r0;jF%9_@)3qIi6W~X%&+9@0<J!04x>
=7R(v~-ur5uh?K|@n-tjwRHia$1xvk5G4tDS$j$xpzKck=Gnu#DG!5IS;-%LKmLInZg9Oi>R#1pPC#o
&fX|oRG8sypxBbAHlv_w;kS40?r-9B)oVjl~zZSOc^Werqbm1QbQYPCnMnGl3SpHeoF8kXJx)J#nfXl
)sw5+!iVLS9PaHMMHHFp@4*43TIxO?JgYC}CbM@iPX4@4@)w@lG(q~|Bp}-dTqZ<0e>jW8xny<cVrih
dDz|&EwCpOFXPiJvsin3k5B)r&{1@7f8$7Qb+?SHxMHi;Ll^Iu=mCPsbu;-eyf06VM7r`*Qi@;=w+zv
v1-bnZhD+rq|^xvhkI!sy^pELGShF7P=u_o{z)rrf8YvW<G_y`xgKvcZcwyX<b9}u5z*Dw7LzP51hoV
g!u8Hw5sc8XZxE(vNAk;?b$fkg>)HA_cEWDmRMTRlX*;uUoqe|+tmhfG5rGMP`qwldOYr`jx^TqS}KJ
X{LTGE-kzM=PL+-XXur$iL7wX%x6a_&R<4tvkETmBr7uK&Cbk06}SBFKkJKx3%`X!|FMPu6A>?=}Zj!
;3(tkIm~z@gd^(RK`t!nIiUeYf~)vw-rO_c09R;py|bc|GSJIAocNi19{!j9RypwPq%B#nN{b>6aAOT
c-`=iE)xg~mCDSw7JH8>x`SE#O<7YATMDyI${cvhH^i4>+oG%j>F8quN&aCcz_#88bE-{wUtfhW+O{}
Yo`sD?PPpCNkuu6;gq08y!E02tq8EDvVE~Z{BWtgET(vME)7}x7qjD)<~o{0PhrwluPeBPLRJtEc|q^
6(M%c|wGKKrNRd2twUN=A_C@}=|SW7McoSdH~du70BRqxZ$@IUZIxkp!P#GflgjRofbdz6G`07>R0h-
<Q&SE001;UVglU^zR)IfcOveANW7dGfF^OMfLw;xeKEo)$36?|EKGRpXeEJs2$M6vSd^5`uz&m_~Gy%
Y{H8H_R8Ta!6i7VU;Sn)=>I+*{Rw+3QoF@z>hyWEWte|~LqLdHdxsCn(h@p3g>0>MdMvNJ1T02p)XRX
hJX{tdd-vUQ%iNV_=_~z9XPg?8L7SV-%8`eaYVzRy6^`d^{-_wutdQr;K%v$$MK_WAcN_2%>aVxrWPM
%zgf0OcVr*kAvkV?ifimP=%%nI?pmj<cZr=@N+4x{gQpTnzsc)bguls;{rS5Yha;(VRFDxl($Jnt2G2
gyOV40r`vgZJQzdmx=-~D|l`xB<lF^bOac3=N@s2isUADbL|nfrAd#}Lh{dJzF*Qq@~bM&WuPOs2buT
1TtI8lK1L!E5mj{TkO2I8OSBM?ZAX3a<_8&Q~18yaMC3**M{6wZ9fUJPeJ05Mv~RZqFAuY^(PF08mQ-
0u%!j000080P~d=M}*7(0hSE_0Inzi01p5F00000000000HlEc0001RX>c!JUukY>bYEXCaCuNm0Rj{
Q6aWAK2mtey7Dr1-q-8S!002k=000jF0000000000005+c!wmocaA|NaUteuuX>MO%E^v8JO928D0~7
!N00;o{l@>>yz1OOy3jhFlDF6Tx00000000000001_fg=w90B~t=FJfVHWn*t`ZDDR?E^v8JO928D0~
7!N00;o{l@>?ZFvLBk3;+P(C;$Kv00000000000001_f%zH$0B~t=FJfVHWpH6~b7gWaaCuNm0Rj{Q6
aWAK2mtey7DrVyt(^l9003<{000pH0000000000005+c&L;o>aA|NaV{K$_aCB*JZgVbhc~DCM0u%!j
000080P~d=M*_3X#M2@G0Kj|z01p5F00000000000HlEcH~;`}X>c!OZ+C8NZ((FEaCuNm0Rj{Q6aWA
K2mtey7Dw4?P5ssZ008L(000pH0000000000005+c09yb6aA|NaWq4y{aCB*JZgVbhc~DCM0u%!j000
080P~d=M}lBlphYnN0Oz^@01N;C00000000000HlEhT>t=ZX>c!TZe(S6E^v8JO928D0~7!N00;o{l@
>=!`MGmE3IG7~82|tf00000000000001_fpm@l0B~t=FKlmPVRUJ4ZgVbhc~DCM0u%!j000080P~d=N
AFROtn~!|080@701*HH00000000000HlH5m;eB9X>c!aWpFeyHFRNTb1rasP)h*<6ay3h000O8^OY7y
+pKr?eE<LeoB#j-6951J0000000000q=5pT003}la4&OoVRUtKUt@1%WpgfYc~DCM0u%!j000080P~d
=N22h{*OVjx0P1xB01N;C00000000000HlGip8x=GX>c!hXk}$=E^v8JO928D0~7!N00;o{l@>>tv|7
Pq1ONcc2><{W00000000000001_fo{YA0B~t=FJE?LZe(wAFJE72ZfSI1UoLQYP)h*<6ay3h000O8^O
Y7yhqJe*GdlnPD>nfE7ytkO0000000000q=5#>003}la4%nWWo~3|axZCcVPs@-Wpi^baCuNm0Rj{Q6
aWAK2mtey7Dr$n2aRR{000F8000;O0000000000005+cZv+7VaA|NaUv_0~WN&gWa%C-cWo~3|axQRr
P)h*<6ay3h000O8^OY7yA$z<E&j|nk^d<lR7XSbN0000000000q=5?t0RV7ma4%nWWo~3|axZdabaHu
VZf7oVc~DCM0u%!j000080P~d=M`CG)PT?E?0N`@~01^NI00000000000HlEr5CH&iX>c!Jc4cm4Z*n
hlX?QMhc~DCM0u%!j000080P~d=M|TE-#sUEV05k#s03rYY00000000000HlE+Edc;<X>c!Jc4cm4Z*
nhRZDDe2WpZq3VlQ7`X>MtBUtcb8c~DCM0u%!j000080P~d=M=lfGq{amR0E-U*03iSX00000000000
HlFpE&%{=X>c!Jc4cm4Z*nhRZDDe2WpZq3VlQoBa%*LBb1rasP)h*<6ay3h000O8^OY7yocgHmt^fc4
E&%`lBme*a0000000000q=9EN0RV7ma4%nWWo~3|axY_HV`yb#Z*FvQZ)`7LUukY>bYEXCaCuNm0Rj{
Q6aWAK2mtey7Dw@rbX@ra003kV001KZ0000000000005+cS2Y0uaA|NaUv_0~WN&gWV_{=xWn*t{baH
QOFJWY1aCBvIE^v8JO928D0~7!N00;o{l@>=5s>bjv0RR9N0{{Ra00000000000001_fsr}^0B~t=FJ
E?LZe(wAFJob2Xk}w>Zgg^QY%gPBV`ybAaCuNm0Rj{Q6aWAK2mtey7DvLpK6;V>001`u001HY000000
0000005+c{5t^vaA|NaUv_0~WN&gWV_{=xWn*t{baHQOFJo_QaA9;VaCuNm0Rj{Q6aWAK2mtey7DvlK
7a~Fo004|9001Tc0000000000005+c&O8ACaA|NaUv_0~WN&gWV_{=xWn*t{baHQOFJo_RbaHQOY-Ms
TaCuNm0Rj{Q6aWAK2mtey7Dqt>BlV#J004Lh001Wd0000000000005+cR7n8<aA|NaUv_0~WN&gWV_{
=xWn*t{baHQOFJ@_MWp{F6aByXEE^v8JO928D0~7!N00;o{l@>>v9aWsL1polm4*&or000000000000
01_fjUhA0B~t=FJE?LZe(wAFJob2Xk}w>Zgg^QY%geKb#iHQbZKLAE^v8JO928D0~7!N00;o{l@><~C
W4j62LJ#q7ytkz00000000000001_fi6=40B~t=FJE?LZe(wAFJob2Xk}w>Zgg^QY%g<Va%o{~X?kTY
aCuNm0Rj{Q6aWAK2mtey7DtPF#X`IQ008m<001KZ0000000000005+cI9mY#aA|NaUv_0~WN&gWV_{=
xWn*t{baHQOFL!cbaByXEE^v8JO928D0~7!N00;o{l@>>y9aj9y0001S0RR9i00000000000001_fi+
wK0B~t=FJE?LZe(wAFJob2Xk}w>Zgg^QY%gPBV`yb_FJE72ZfSI1UoLQYP)h*<6ay3h000O8^OY7y!K
ViQTLl0B%nbklEdT%j0000000000q=89Y0RV7ma4%nWWo~3|axY_HV`yb#Z*FvQZ)`7PVPj}zb1!CTY
-L|#VPj}zE^v8JO928D0~7!N00;o{l@>?Sh{jZ=0RRBa0{{Rn00000000000001_f$w4g0B~t=FJE?L
Ze(wAFJob2Xk}w>Zgg^QY%gPBV`yb_FLGsMX>(s=VPj}zE^v8JO928D0~7!N00;o{l@>=YN2j8v0002
t0000W00000000000001_f#GBU0B~t=FJE?LZe(wAFJo_PZ*pO6VJ}}_X>MtBUtcb8c~DCM0u%!j000
080P~d=N0+05?KA@b000R902}}S00000000000HlG&WdQ(iX>c!Jc4cm4Z*nhVZ)|UJVQpbAVQzD2E^
v8JO928D0~7!N00;o{l@>?-akwnw2><{tBme*-00000000000001_fi!6W0B~t=FJE?LZe(wAFJo_PZ
*pO6VJ~5Bb7^#McWG`jGA?j=P)h*<6ay3h000O8^OY7y?qbWv3IYHCJq7>(A^-pY0000000000q=8s-
0RV7ma4%nWWo~3|axY_VY;SU5ZDB8IZfSIBVQgu0WiD`eP)h*<6ay3h000O8^OY7yv#FkMF9iSq0Tci
L9RL6T0000000000q=BM!0RV7ma4%nWWo~3|axY_VY;SU5ZDB8WX>KzzE^v8JO928D0~7!N00;o{l@>
>ovL_)c1pokK761Sr00000000000001_fed>A0B~t=FJE?LZe(wAFJo_PZ*pO6VJ~-SZggdGZ7y(mP)
h*<6ay3h000O8^OY7ygBg4GT>$_9MFIc-9{>OV0000000000q=9sR0RV7ma4%nWWo~3|axY|Qb98KJV
lQ7`X>MtBUtcb8c~DCM0u%!j000080P~d=N4dg6YELQv0MwoU0384T00000000000HlEqf&l<<X>c!J
c4cm4Z*nhWX>)XJX<{#9Z*6d4bS`jtP)h*<6ay3h000O8^OY7y&X<4#el7q2bie=r9{>OV000000000
0q=A^M0RV7ma4%nWWo~3|axY|Qb98KJVlQN2bYWs)b7d}Yc~DCM0u%!j000080P~d=N8$#~TnQBb0Ps
-&02}}S00000000000HlFa+W`P@X>c!Jc4cm4Z*nhWX>)XJX<{#FZe(S6E^v8JO928D0~7!N00;o{l@
>>zUvLR8G5`Rp!~g&v00000000000001_ftK(A0B~t=FJE?LZe(wAFJx(RbZlv2FKlmPVRUbDb1rasP
)h*<6ay3h000O8^OY7yp$jB<Ko0-_9yI^}9{>OV0000000000q=5n>0swGna4%nWWo~3|axY|Qb98KJ
VlQoBZfRy^b963nc~DCM0u%!j000080P~d=M?Dd)0*wa%0E!p@03HAU00000000000HlF`G6Dc_X>c!
Jc4cm4Z*nhWX>)XJX<{#JVRCC_a&s<lc~DCM0u%!j000080P~d=NBEuZi)$kQ0IHP$03QGV00000000
000HlFPIsyQ2X>c!Jc4cm4Z*nhWX>)XJX<{#JWprU=VRT_GaCuNm0Rj{Q6aWAK2mtey7DsQxo_Tr;00
4I>001BW0000000000005+c@Ld7`aA|NaUv_0~WN&gWWNCABY-wUIa%FRGb#h~6b1rasP)h*<6ay3h0
00O8^OY7ymRfBkJP`l@XEy)<9smFU0000000000q=Beu0swGna4%nWWo~3|axY|Qb98KJVlQ)Ja%pgM
b1rasP)h*<6ay3h000O8^OY7y;{G(?r>Xz|09*k88vp<R0000000000q=6uN0swGna4%nWWo~3|axY|
Qb98KJVlQ+vGA?C!Wl&220u%!j000080P~d=M{H`n3{|)Q004dg02=@R00000000000HlEcCIbL)X>c
!Jc4cm4Z*nhWX>)XJX<{#QHZ(3}cx6ya0Rj{Q6aWAK2mtey7Ds=j6_hMF002J8000{R000000000000
5+cj@|<RaA|NaUv_0~WN&gWWNCABY-wUIb#!TLE^v8JO928D0~7!N00;o{l@>=C7H%S}82|vETmS$b0
0000000000001_f%6vx0B~t=FJE?LZe(wAFJx(RbZlv2FLq^eb7^mGE^v8JO928D0~7!N00;o{l@>>S
MSulFrT_o{P5}TL00000000000001_f!i?z0B~t=FJE?LZe(wAFJx(RbZlv2FLyICE@gOSP)h*<6ay3
h000O8^OY7y)W-_X6}12W0B`{S8vp<R0000000000q=8u21ORYpa4%nWWo~3|axY|Qb98KJVlQ_#G%j
U$Wl&220u%!j000080P~d=M^Il|Ed3+^0E3tS02}}S00000000000HlGYjRgR3X>c!Jc4cm4Z*nhWX>
)XJX<{#TXk}$=E^v8JO928D0~7!N00;o{l@>=M?`QnO0000I0RR9g00000000000001_f!(qN0B~t=F
JE?LZe(wAFJx(RbZlv2FJEF|V{344a&#|WUukY>bYEXCaCuNm0Rj{Q6aWAK2mtey7Dum&FJ;aF007Ga
001Qb0000000000005+c=d%R>aA|NaUv_0~WN&gWWNCABY-wUIUt(cnYjAIJbT4gbb7L-Wc~DCM0u%!
j000080P~d=M>MI?%19gl05W6%04D$d00000000000HlHVwFLlhX>c!Jc4cm4Z*nhWX>)XJX<{#5Vqs
%zaBp&SFLP*hbZKlZaCuNm0Rj{Q6aWAK2mtey7DsOu0Il``0021(001ih0000000000005+ch0+B8aA
|NaUv_0~WN&gWWNCABY-wUIUt(cnYjAIJbT4yxb7OCAW@%?GV`gViO928D0~7!N00;o{l@>=4KS&_x9
smGNX#fB!00000000000001_fyC4W0B~t=FJE?LZe(wAFJx(RbZlv2FJEF|V{344a&#|qd2?fLZf0p`
E^v8JO928D0~7!N00;o{l@>>#LpWPwSpWdjX#oHz00000000000001_f%NkQ0B~t=FJE?LZe(wAFJx(
RbZlv2FJEF|V{344a&#|rVRB|^Y-KKRc~DCM0u%!j000080P~d=N2Z$lEQ$dD0LlUY03ZMW00000000
000HlGPO$GpPX>c!Jc4cm4Z*nhabZu-kY-wUIUtei%X>?y-E^v8JO928D0~7!N00;o{l@>>jmU58HNd
N#@Qvm=W00000000000001_fn`qy0B~t=FJE?LZe(wAFKBdaY&C3YVlQKFZgX^DZgg`laCuNm0Rj{Q6
aWAK2mtey7Dokc9IXFD003jk0RSTa0000000000005+caG3@GaA|NaUv_0~WN&gWXmo9CHEd~OFKBda
Y&CFUa&u*JE^v8JO928D0~7!N00;o{l@>=j&nXNA6aWClKmY(B00000000000001_fw0~N0B~t=FJE?
LZe(wAFKBdaY&C3YVlQcEVRU79ZEP-Zc~DCM0u%!j000080P~d=N1bYj3DX_`0I_=j03!eZ00000000
000HlHQ@&*8KX>c!Jc4cm4Z*nhabZu-kY-wUIX>M?JbaQlaWnpbDaCuNm0Rj{Q6aWAK2mtey7Dve{3;
RYC008_%001EX0000000000005+c2NDMWaA|NaUv_0~WN&gWXmo9CHEd~OFLPmTX>@6NWpXZXc~DCM0
u%!j000080P~d=M^Yzq><b+L0D&w403iSX00000000000HlG8CI<j;X>c!Jc4cm4Z*nhabZu-kY-wUI
bZ={AZfSaDaxQRrP)h*<6ay3h000O8^OY7y9v<BwV+8;J!wdib9RL6T0000000000q=D8$2LNzsa4%n
WWo~3|axZ9fZEQ7cX<{#RbZKmJE^v8JO928D0~7!N00;o{l@><;00002000000000e0000000000000
1_fpkd+0B~t=FJE?LZe(wAFKBdaY&C3YVlQTCY;<LEb1z?CX>MtBUtcb8c~DCM0u%!j000080P~d=M<
Rgx#FYR503HDV03`qb00000000000HlGuNe2LMX>c!Jc4cm4Z*nhabZu-kY-wUIW@&76WpZ;bUt(c%W
iD`eP)h*<6ay3h000O8^OY7ye-4mNAOQdXZ~_1THUIzs0000000000q=A%52LNzsa4%nWWo~3|axZ9f
ZEQ7cX<{#CX>4?5a&s?XY;b5{Vr6t`V_|GzbaZlQVs&(7b1rasP)h*<6ay3h000O8^OY7y6?b_$xB>t
Gx(WaQGXMYp0000000000q=5)b2LNzsa4%nWWo~3|axZ9fZEQ7cX<{#CX>4?5a&s?fZfa#?bYE>{bYW
j(Xkl`5WpplZc~DCM0u%!j000080P~d=M-Z9Hz@P&F0B{fh03-ka00000000000HlEtPX_>SX>c!Jc4
cm4Z*nhabZu-kY-wUIW@&76WpZ;bY-w(EE^v8JO928D0~7!N00;o{l@>?QlWz#g1^@sADF6U0000000
00000001_f%8%a0B~t=FJE?LZe(wAFKBdaY&C3YVlQTCY;<LEb1!djbZKvHVQh3^XLBxac~DCM0u%!j
000080P~d=M>wzKp|Jn}0AK+C04V?f00000000000HlEiS_c4dX>c!Jc4cm4Z*nhabZu-kY-wUIW@&7
6WpZ;bb75|2bZL5JaxQRrP)h*<6ay3h000O8^OY7yW3^fp&;bAdb_4(bDgXcg0000000000q=Eig2LN
zsa4%nWWo~3|axZ9fZEQ7cX<{#CX>4?5a&s?tXlZn1b8ul}WiD`eP)h*<6ay3h000O8^OY7y0x`qn5C
H%H>Hz=%D*ylh0000000000q=6P)2LNzsa4%nWWo~3|axZ9fZEQ7cX<{#PWpZg@Y-xIBaxY(BX>MtBU
tcb8c~DCM0u%!j000080P~d=NB8lKOLh$a05>uK05Jdn00000000000HlF$UIzehX>c!Jc4cm4Z*nha
bZu-kY-wUIb7gXAVQgu7WpXcQbZu;NWpZg@Y-xIBaxQRrP)h*<6ay3h000O8^OY7y000000ssI20000
0EdT%j0000000000q=7VS2LNzsa4%nWWo~3|axZ9fZEQ7cX<{#Qa%E*<WMOc0WpZ;bUtei%X>?y-E^v
8JO928D0~7!N00;o{l@>?jTwf3x0ssJg1^@sk00000000000001_fq`rX0B~t=FJE?LZe(wAFKBdaY&
C3YVlQ-ZWo2PxVQ_S1a&s?pVR$ZZc~DCM0u%!j000080P~d=N1#lH<>CYY08I@504)Fj00000000000
HlH8ZU+ExX>c!Jc4cm4Z*nhabZu-kY-wUIbaG{7Vs&Y3WMy)5FJE72ZfSI1UoLQYP)h*<6ay3h000O8
^OY7yy9}waLk<7{k2L@QDgXcg0000000000q=61}2LNzsa4%nWWo~3|axZ9fZEQ7cX<{#Qa%E*=b!lv
5WpZ;bUt(c%WiD`eP)h*<6ay3h000O8^OY7yVJa~kmj?g<6(IlsC;$Ke0000000000q=A`&2LNzsa4%
nWWo~3|axZ9fZEQ7cX<{#Qa%E*=b!lv5WpZ;bWN&RQaCuNm0Rj{Q6aWAK2mtey7Dr&udnW`6002!f00
1fg0000000000005+cc8Ui8aA|NaUv_0~WN&gWXmo9CHEd~OFLZKcWny({Y-D9}b1!9da%E*MaCuNm0
Rj{Q6aWAK2mtey7DtnxCHo}}007T6001ul0000000000005+c!juO9aA|NaUv_0~WN&gWXmo9CHEd~O
FLZKcWny({Y-D9}b1!9da%E*-Y<O*KE^v8JO928D0~7!N00;o{l@>>zHhndQ1^@tt761S&000000000
00001_fi$8A0B~t=FJE?LZe(wAFKBdaY&C3YVlQ-ZWo36^Y-?q5b1z?CX>MtBUtcb8c~DCM0u%!j000
080P~d=N6o`DuL1@D0A?Ei04V?f00000000000HlEgsRsaXX>c!Jc4cm4Z*nhabZu-kY-wUIbaG{7cV
TR6WpZ;bUt(c%WiD`eP)h*<6ay3h000O8^OY7yov#Vw`2hd`jRgPzCjbBd0000000000q=8MZ2LNzsa
4%nWWo~3|axZ9fZEQ7cX<{#Qa%E+AVQgz<a&s?aZ*4Acc~DCM0u%!j000080P~d=M+5NmDCPtJ0PYb0
04V?f00000000000HlG7u?GNfX>c!Jc4cm4Z*nhabZu-kY-wUIbaG{7cVTR6WpZ;bWpr|7WiD`eP)h*
<6ay3h000O8^OY7yEf}!Z!2$pP<_G`)FaQ7m0000000000q=C4$2LNzsa4%nWWo~3|axZ9fZEQ7cX<{
#Qa%E+AVQgz<a&s?dWo~n5X>)XPWnpbDaCuNm0Rj{Q6aWAK2mtey7DqE4*c~Yb003wg001oj0000000
000005+c$GHapaA|NaUv_0~WN&gWXmo9CHEd~OFLZKcWp`n0Yh`kCFKl>iY-MzEWo0gKc~DCM0u%!j0
00080P~d=M|C+zP`m;F0R9L704o3h00000000000HlFCzy|<uX>c!Jc4cm4Z*nhabZu-kY-wUIbaG{7
cVTR6WpZ;baCK~KWN&RQaCuNm0Rj{Q6aWAK2mtey7DuU7-Kd5D007hg001Qb0000000000005+cK*I+
BaA|NaUv_0~WN&gWXmo9CHEd~OFLZKgWiMY}X>MtBUtcb8c~DCM0u%!j000080P~d=NAzNalYIdI0G|
T@03rYY00000000000HlEl#0LOyX>c!Jc4cm4Z*nhabZu-kY-wUIbaH8BFJEF|b7d}Yc~DCM0u%!j00
0080P~d=M<i99sipw{0Gb2<03!eZ00000000000HlG&#RmXzX>c!Jc4cm4Z*nhabZu-kY-wUIbaH8BF
JxhKa%p8QaCuNm0Rj{Q6aWAK2mtey7Dr1@Zq6M7008d>0018V0000000000005+ct;YudaA|NaUv_0~
"%text.

(** Lines 17565 to 17714. *)
Definition DATA_116 : text := "WN&gWXmo9CHEd~OFLZKgWiN1fE^v8JO928D0~7!N00;o{l@>?!f28$T3IG7gBLDy(00000000000001
_fd|S50B~t=FJE?LZe(wAFKlmPYi4O|WiMY}X>MtBUtcb8c~DCM0u%!j000080P~d=M?w%8Hy;B409g
tE03-ka00000000000HlGP)CT}?X>c!Jc4cm4Z*nheZ)0m_X>4ULY-w(5Y;R+0W@&6?E^v8JO928D0~
7!N00;o{l@>?dx-=4S0{{RT3;+Nn00000000000001_f&SMA0B~t=FJE?LZe(wAFKlmPYi4O|WiM@OW
NC72Z)0m_X>4UKaCuNm0Rj{Q6aWAK2mtey7DuGbAQDCh002!G001KZ0000000000005+cvD*g#aA|Na
Uv_0~WN&gWY;R+0W@&6?FK}sOY;R+0W@&6?E^v8JO928D0~7!N00;o{l@>?mQhD|d1pok~6#xJx0000
0000000001_fjHy`0B~t=FJE?LZe(wAFKlmPYi4O|WiNAaY-x05Y;R+0W@&6?E^v8JO928D0~7!N00;
o{l@>==Q$=h%0{{Ru3IG5n00000000000001_fs5$}0B~t=FJE?LZe(wAFKlmPYi4O|WiNAiZER_7Yi
w_0Yi4O|WiD`eP)h*<6ay3h000O8^OY7yh-{tOM*;u<F$4erA^-pY0000000000q=5|W2LNzsa4%nWW
o~3|axZXUV{2h&X>MmPUteKjZ*_EEUoLQYP)h*<6ay3h000O8^OY7ySk>pY`~d&}iUR-uApigX00000
00000q=A#~2LNzsa4%nWWo~3|axZXUV{2h&X>MmPUtei%X>?y-E^v8JO928D0~7!N00;o{l@>>5N4=Y
{0ssKz1ONaa00000000000001_fzI&<0B~t=FJE?LZe(wAFK}UFYhh<;Zf7rFV{dJ6VRSBVc~DCM0u%
!j000080P~d=N3N1NwN(ND01*cO03-ka00000000000HlGu^alWNX>c!Jc4cm4Z*nhiVPk7yXK8L{FJ
E(Xa&=>Lb#i5ME^v8JO928D0~7!N00;o{l@>>gf||7z82|vUZ2$lx00000000000001_fm8Pf0B~t=F
JE?LZe(wAFK}UFYhh<;Zf7rZaAjj@W@%+|b1rasP)h*<6ay3h000O8^OY7y=mr%YMh*Y~tu6onAOHXW
0000000000q=Bgr2mo+ta4%nWWo~3|axZXUV{2h&X>MmPc4cyNX>V>WaCuNm0Rj{Q6aWAK2mtey7Dt#
=rN?M+0082j0RSZc0000000000005+cEguK~aA|NaUv_0~WN&gWaBF8@a%FRGb#h~6b1z?CX>MtBUtc
b8c~DCM0u%!j000080P~d=NBUZEjFJQZ0M82m03ZMW00000000000HlG~j|c#8X>c!Jc4cm4Z*nhia&
KpHWpi^cUtei%X>?y-E^v8JO928D0~7!N00;o{l@><>ChsIh1ONb&3IG5b00000000000001_fvA)S0
B~t=FJE?LZe(wAFK}{iXL4n8b1!0HaxQRrP)h*<6ay3h000O8^OY7yE=aa)B?ABe`2_#~9{>OV00000
00000q=6@y2mo+ta4%nWWo~3|axZXlZ)b94b8|0aZ*^{TWpXZXc~DCM0u%!j000080P~d=M;w`>M+gJ
}08R@403QGV00000000000HlG5oCpALX>c!Jc4cm4Z*nhia&KpHWpi^cXk~10WpZ;aaCuNm0Rj{Q6aW
AK2mtey7DtLR+g|<x002D&0018V0000000000005+c&Y%bYaA|NaUv_0~WN&gWaB^>Fa%FRKFLQ8dZf
<3AE^v8JO928D0~7!N00;o{l@>=vjs?i30{{R;2LJ#d00000000000001_feEAt0B~t=FJE?LZe(wAF
LGsZb!BsOb1z?CX>MtBUtcb8c~DCM0u%!j000080P~d=M^Wr;Om`6g0IER%03ZMW00000000000HlHK
rw9OWX>c!Jc4cm4Z*nhkWpQ<7b98erVPs)&bY*gLE^v8JO928D0~7!N00;o{l@>?Jp62K~1poji6#xJ
m00000000000001_fugwx0B~t=FJE?LZe(wAFLGsZb!BsOb1z|VX)bViP)h*<6ay3h000O8^OY7yDP{
LPeh2^niW&d_8~^|S0000000000q=6Q{2mo+ta4%nWWo~3|axZdaadl;LbaO9Zb#!PhaCuNm0Rj{Q6a
WAK2mtey7Dv-iT7FD<0szvq1OOiZ0000000000005+c&c_G<aA|NaUv_0~WN&gWa%FLKWpi|MFJob2W
pZ>baAj>!O928D0~7!N00;o{l@>>>F)xm00RRAH0ssIV00000000000001_fmcBb0B~t=FJE?LZe(wA
FLGsZb!BsOb1!3Ma&&VpaCuNm0Rj{Q6aWAK2mtey7DrUx#oRCg006xO0015U0000000000005+c_(BT
+aA|NaUv_0~WN&gWa%FLKWpi|MFJo_QaA9;VaCuNm0Rj{Q6aWAK2mtey7DvoU5zOBb001XL0018V000
0000000005+cWJL=AaA|NaUv_0~WN&gWa%FLKWpi|MFJo_SYiVV3E^v8JO928D0~7!N00;o{l@>?R9v
nbq0{{Tk2><{h00000000000001_fq+;G0B~t=FJE?LZe(wAFLGsZb!BsOb1!9hV`Xr3X>V?GE^v8JO
928D0~7!N00;o{l@>=AcKy7I0RR9r0{{RW00000000000001_fh1fD0B~t=FJE?LZe(wAFLGsZb!BsO
b1!IbZ)<ZdaCuNm0Rj{Q6aWAK2mtey7Dx3e?fB*(008)L0015U0000000000005+c>Rk%}aA|NaUv_0
~WN&gWa%FLKWpi|MFKusRWo&aUaCuNm0Rj{Q6aWAK2mtey7Ds(S{wRtX006pP001BW0000000000005
+c41Ws%aA|NaUv_0~WN&gWa%FLKWpi|MFLPycb7^mGb1rasP)h*<6ay3h000O8^OY7yDw@gO<pcl#fD
8ZtBme*a0000000000q=D3#3jlCwa4%nWWo~3|axZdaadl;LbaO9rbYXOLb6;a`WMy+MaCuNm0Rj{Q6
aWAK2mtey7DsH838QTU005y2001HY0000000000005+c`<@E`aA|NaUv_0~WN&gWa%FLKWpi|MFLQKq
bz^jOa%FQaaCuNm0Rj{Q6aWAK2mtey7DwZ>xD{O+0034~0012T0000000000005+csG|!2aA|NaUv_0
~WN&gWa%FLKWpi|MFLiWjY;!Jfc~DCM0u%!j000080P~d=M~^A$<ud>P06qW!04V?f00000000000Hl
FHzY73xX>c!Jc4cm4Z*nhkWpQ<7b98eraA9L>VP|D?FJE72ZfSI1UoLQYP)h*<6ay3h000O8^OY7yac
oNbjRF7w4+Q`KF#rGn0000000000q=CA>3jlCwa4%nWWo~3|axZdaadl;LbaO9oVPk7yXJvCQV`yP=W
My<OUtei%X>?y-E^v8JO928D0~7!N00;o{l@>>FoWC)5kpKXqLID6V00000000000001_ftJDx0B~t=
FJE?LZe(wAFLGsZb!BsOb1!gVV{2h&WpgiMXkl_>WppoMX=gQNa%FKYaCuNm0Rj{Q6aWAK2mtey7DxV
o83Y>x005K*001)p0000000000005+cTvQAIaA|NaUv_0~WN&gWa%FLKWpi|MFK}UFYhh<)b1!3PVRB
?;bT49QXEktgZ(?O~E^v8JO928D0~7!N00;o{l@>>NvR7F%1ONcY2><{y00000000000001_fyh@30B
~t=FJE?LZe(wAFLGsZb!BsOb1!gVV{2h&WpgiMXkl_>WppoNXkl_>Wprg@bS`jtP)h*<6ay3h000O8^
OY7y_>jT?4haAN3M2pkIRF3v0000000000q=8Ia3;=Lxa4%nWWo~3|axZdaadl;LbaO9oVPk7yXJvCQ
V`yP=WMy<OV`yP=WNCABa%p09bZKvHE^v8JO928D0~7!N00;o{l@>=iiKU-(1ONcf4gdf<000000000
00001_fw5%_0B~t=FJE?LZe(wAFLGsZb!BsOb1!gVV{2h&WpgiMXkl_>WppoNXkl`5Wprn9Z*_2Ra&K
Z~axQRrP)h*<6ay3h000O8^OY7y_!;PfTLS<9ZU+DWHUIzs0000000000q=9~F3;=Lxa4%nWWo~3|ax
Zdaadl;LbaO9oVPk7yXJvCQV`yP=WMy<OV`yP=b7gdJa&KZ~axQRrP)h*<6ay3h000O8^OY7yz}XNq-
~#{v4haANI{*Lx0000000000q=7AN3;=Lxa4%nWWo~3|axZdaadl;LbaO9oVPk7yXJvCQV`yP=WMy<O
V{c?>ZfA3JVRU6}VPj}%Ze=cTc~DCM0u%!j000080P~d=M<Dy%IZ*-t0EGkq051Rl00000000000HlF
tatr`)X>c!Jc4cm4Z*nhkWpQ<7b98eraA9L>VP|D?FJow7a%5$6FJo_QaA9;VaCuNm0Rj{Q6aWAK2mt
ey7DxP5z|Xb<001`y001%o0000000000005+c1a%AmaA|NaUv_0~WN&gWa%FLKWpi|MFK}UFYhh<)b1
!3PVRB?;bT4CXZgX^DZgg`laCuNm0Rj{Q6aWAK2mtey7DuZFCdNzy008y|001-q0000000000005+c3
U~|vaA|NaUv_0~WN&gWa%FLKWpi|MFK}UFYhh<)b1!3PVRB?;bT4CYIW#$Na&KZ~axQRrP)h*<6ay3h
000O8^OY7yrY+JraRdMWa|{3gG5`Po0000000000q=Be=3;=Lxa4%nWWo~3|axZdaadl;LbaO9oVPk7
yXJvCQV`yP=WMy<OWpiV2a&KZ~axQRrP)h*<6ay3h000O8^OY7y)=2%#$pruapB?}JE&u=k00000000
00q=9LG3;=Lxa4%nWWo~3|axZdaadl;LbaO9oVPk7yXJvCQV`yP=WMy<OWpiV5Z7y(mP)h*<6ay3h00
0O8^OY7ytbDvh3k3iGUJd{NGynhq0000000000q=9~h3;=Lxa4%nWWo~3|axZdaadl;LbaO9oVPk7yX
JvCQV`yP=WMy<OWp!g}aBy;OVr6nJaCuNm0Rj{Q6aWAK2mtey7Dp=NE|ITO005e^001%o0000000000
005+c+lveUaA|NaUv_0~WN&gWa%FLKWpi|MFK}UFYhh<)b1!3PVRB?;bT4IfV{39|a%FKYaCuNm0Rj{
Q6aWAK2mtey7DolM#^f0T004^y001-q0000000000005+c+TRQSaA|NaUv_0~WN&gWa%FLKWpi|MFK}
UFYhh<)b1!3PVRB?;bT4IfV{3A7a&KZ~axQRrP)h*<6ay3h000O8^OY7yB~POi-#`EWIEVlMG5`Po00
00000000q=7}_3;=Lxa4%nWWo~3|axZdaadl;LbaO9oVPk7yXJvCQV`yP=WMy<OWp!h8cV=>BaV~IqP
)h*<6ay3h000O8^OY7yEuuJ783O<Sj0OMzGynhq0000000000q=9rK4FGUya4%nWWo~3|axZdaadl;L
baO9oVPk7yXJvCQV`yP=WMy<OWp!h8cW`oVVr6nJaCuNm0Rj{Q6aWAK2mtey7DqXa^bPAm0066u001)
p0000000000005+c-zN<KaA|NaUv_0~WN&gWa%FLKWpi|MFK}UFYhh<)b1!3PVRB?;bT4OOGBYtUW^!
e5E^v8JO928D0~7!N00;o{l@>=IwcGX@0{{S#1^@sx00000000000001_fg5WL0B~t=FJE?LZe(wAFL
GsZb!BsOb1!gVV{2h&WpgiMXkl_>WppoRVlp!^GH`NlVr6nJaCuNm0Rj{Q6aWAK2mtey7DwZfttM*{0
01vE001=r0000000000005+ch;9u4aA|NaUv_0~WN&gWa%FLKWpi|MFK}UFYhh<)b1!3PVRB?;bT4RS
Vsd47aB^>AWpXZXc~DCM0u%!j000080P~d=N0+af4!%|Z0Mobt05AXm00000000000HlFNfeip~X>c!
Jc4cm4Z*nhkWpQ<7b98eraA9L>VP|D?FJow7a%5$6FKTIXW^!e5E^v8JO928D0~7!N00;o{l@>=Eh2+
Rf6952|O8@{b00000000000001_fl}BF0B~t=FJE?LZe(wAFLGsZb!BsOb1!gVV{2h&WpgiMXkl_>Wp
poUaAR(CcrI{xP)h*<6ay3h000O8^OY7yNKy%m3=04N@G$@YI{*Lx0000000000q=D+|4FGUya4%nWW
o~3|axZdaadl;LbaO9oVPk7yXJvCQV`yP=WMy<OY+-I^Vs&h1VRC6<Zf$R5Wo#~Rc~DCM0u%!j00008
0P~d=N1UFwWBm&N06j$j06G8w00000000000HlFW_YDAWX>c!Jc4cm4Z*nhkWpQ<7b98eraA9L>VP|D
?FJow7a%5$6FKl6MXJdJCX>4q1V{LC_Wo#~Rc~DCM0u%!j000080P~d=M-d@I9c2js08}vm05<>t000
00000000HlGW0}cRiX>c!Jc4cm4Z*nhkWpQ<7b98eraA9L>VP|D?FJow7a%5$6FKl6MXJ>L{WovD3WM
ynFaCuNm0Rj{Q6aWAK2mtey7DpeVdkUTj001^D001}u0000000000005+cUJVWaaA|NaUv_0~WN&gWa
%FLKWpi|MFK}UFYhh<)b1!3PVRB?;bT4dSZf9s^Vsd47ZEs{{Y%XwlP)h*<6ay3h000O8^OY7yP`8?X
#|i)d_%HwfI{*Lx0000000000q=8Zw4ghdza4%nWWo~3|axZdaadl;LbaO9oVPk7yXJvCQV`yP=WMy<
OY+-I^XmxI9VRC6<Zf$R5Wo#~Rc~DCM0u%!j000080P~d=M@v0_UF8Y@01GSt05$*s00000000000Hl
F(A`Sp>X>c!Jc4cm4Z*nhkWpQ<7b98eraA9L>VP|D?FJow7a%5$6FKl6MXLM*`X>D(0Wo#~Rc~DCM0u
%!j000080P~d=N9CHTnR^BR0B{rl05t#r00000000000HlGdEe-&1X>c!Jc4cm4Z*nhkWpQ<7b98era
A9L>VP|D?FJow7a%5$6FKl6SX>Kuaa&KZ~axQRrP)h*<6ay3h000O8^OY7yrJQkdodf^?#0&rcH~;_u
0000000000q=9)f4ghdza4%nWWo~3|axZdaadl;LbaO9oVPk7yXJvCQV`yP=WMy<OZDM0+VRCb2bZ~N
SVr6nJaCuNm0Rj{Q6aWAK2mtey7DvvEk2_fd006HC001}u0000000000005+cY&i}9aA|NaUv_0~WN&
gWa%FLKWpi|MFK}UFYhh<)b1!3PVRB?;bT4gUV{>P6Z*_2Ra&KZ~axQRrP)h*<6ay3h000O8^OY7y@#
SZlObh@3hD-neF8}}l0000000000q=6ef4ghdza4%nWWo~3|axZdaadl;LbaO9oVPk7yXJvCQV`yP=W
My<OZDM0{b8Rkgc~DCM0u%!j000080P~d=NBSBSxOxTv0J#zX05|{u00000000000HlGmNe%#TX>c!J
c4cm4Z*nhkWpQ<7b98eraA9L>VP|D?FJow7a%5$6FLPpJXkl`5Wpr?IZ(?O~E^v8JO928D0~7!N00;o
{l@>>&+~vO{1ONcr3;+N)00000000000001_frL;F0B~t=FJE?LZe(wAFLGsZb!BsOb1!gVV{2h&Wpg
iMXkl_>WppodVq<e>a&L8TaB^>AWpXZXc~DCM0u%!j000080P~d=N0(vnR{aD30JIJO05bpp0000000
0000HlHbR1N@eX>c!Jc4cm4Z*nhkWpQ<7b98eraA9L>VP|D?FJow7a%5$6FLP>Xb8vERVr6nJaCuNm0
Rj{Q6aWAK2mtey7Dug|Hab@a006ie0024w0000000000005+cOj-^AaA|NaUv_0~WN&gWa%FLKWpi|M
FK}UFYhh<)b1!3PVRB?;bT4&oX?A6Db75>`Wprg@bZ>GlaCuNm0Rj{Q6aWAK2mtey7Dr$EAZs23003M
H001)p0000000000005+c`(X|MaA|NaUv_0~WN&gWa%FLKWpi|MFK}UFYhh<)b1!3PVRB?;bT4&uW;k
$iZ(?O~E^v8JO928D0~7!N00;o{l@>>Mw-zsg0{{RA2mk;v00000000000001_fof(B0B~t=FJE?LZe
(wAFLGsZb!BsOb1!gVV{2h&Wpgiea%^mAVlyvaUukY>bYEXCaCuNm0Rj{Q6aWAK2mtey7DpLEEQieu0
07n~001=r0000000000005+cJ8BL9aA|NaUv_0~WN&gWa%FLKWpi|MFK}UFYhh<)b1!vrY;0*_GcR9b
Z)|L3V{~b6ZgVbhc~DCM0u%!j000080P~d=M^e;8_>~I)05c;105bpp00000000000HlFicMbq>X>c!
Jc4cm4Z*nhkWpQ<7b98eraA9L>VP|D?FLiQkY-wUMFJo_RZe?S1X>V>WaCuNm0Rj{Q6aWAK2mtey7Dq
?CMmX~z003`x001`t0000000000005+cL4yteaA|NaUv_0~WN&gWa%FLKWpi|MFK}UFYhh<)b1!vrY;
0*_GcRLrZf<2`bZKvHaBpvHE^v8JO928D0~7!N00;o{l@>=HHY}u+1pojR5dZ))00000000000001_f
r+FJ0B~t=FJE?LZe(wAFLGsZb!BsOb1!gVV{2h&Wpgiea%^mAVlyvgcw=R7bZKvHb1rasP)h*<6ay3h
000O8^OY7y^G0R)1qT2C$rb<rF8}}l0000000000q=9a#4ghdza4%nWWo~3|axZdaadl;LbaO9oVPk7
yXJvCQb#iQMX<{=kW@%+?WOFWXc~DCM0u%!j000080P~d=M{E%hAUXp80O<$-05Jdn00000000000Hl
Gyu?_%mX>c!Jc4cm4Z*nhkWpQ<7b98eraA9L>VP|D?FLiQkY-wUMFJ@_MWpHnEbS`jtP)h*<6ay3h00
0O8^OY7yTdH&$HVXg%z9awuGynhq0000000000q=8Ab4ghdza4%nWWo~3|axZdaadl;LbaO9oVPk7yX
JvCQb#iQMX<{=kaBpvHZDDR<XJv9OaCuNm0Rj{Q6aWAK2mtey7DwjY!he7V004Iu001xm0000000000
005+c(ZCJ>aA|NaUv_0~WN&gWa%FLKWpi|MFK}UFYhh<)b1!vrY;0*_GcR&wadl;LbS`jtP)h*<6ay3
h000O8^OY7yLjoE44-x<XOF#esF#rGn0000000000q=BEv4ghdza4%nWWo~3|axZdaadl;LbaO9oVPk
7yXJvCQb#iQMX<{=ka%FRHZ*FsCE^v8JO928D0~7!N00;o{l@><;00002000000000v000000000000
01_f&JPJ0B~t=FJE?LZe(wAFLGsZb!BsOb1!gVV{2h&Wpgiea%^mAVlyveZ*FvQX<{#5UukY>bYEXCa
CuNm0Rj{Q6aWAK2mtey7Dou9o6na8005g20021v0000000000005+cR@)8$aA|NaUv_0~WN&gWa%FLK
Wpi|MFK}UFYhh<)b1!vrY;0*_GcRLrZgg^KVlQrVY;ACFZ)`4bc~DCM0u%!j000080P~d=M?z6Cg>?)
70B$4z06G8w00000000000HlFL;SK<BX>c!Jc4cm4Z*nhkWpQ<7b98eraA9L>VP|D?FLiQkY-wUMFJo
_RbaH88FK~HpaAj_Db8Iefc~DCM0u%!j000080P~d=N59k!AU^;A07?J=06G8w00000000000HlEt?h
XKOX>c!Jc4cm4Z*nhkWpQ<7b98eraA9L>VP|D?FLiQkY-wUMFK}UFYhh<)b1z?CX>MtBUtcb8c~DCM0
u%!j000080P~d=M@GS>XYdLD0OukA06qW!00000000000HlGa?hXKOX>c!Jc4cm4Z*nhkWpQ<7b98er
aA9L>VP|D?FLiQkY-wUMFK}UFYhh<)b1!dlWMy(?WM5=yV{|TXc~DCM0u%!j000080P~d=N7Gmyv0M%
S0BkJ)05t#r00000000000HlHR`3?YZX>c!Jc4cm4Z*nhkWpQ<7b98eraA9L>VP|D?FLiQkY-wUMFK}
UFYhh<)b1!pgcrI{xP)h*<6ay3h000O8^OY7y5U^<F-2eap%mDxZO#lD@0000000000q=BOd4*+m!a4
%nWWo~3|axZdaadl;LbaO9oVPk7yXJvCQb#iQMX<{=kaA9L>VP|D?FLQHjUu|J@V`yJ!Z*z2RVQpnEU
tei%X>?y-E^v8JO928D0~7!N00;o{l@>>>)SMdx1^@uU4gdgD00000000000001_f$Iqm0B~t=FJE?L
Ze(wAFLGsZb!BsOb1!gVV{2h&Wpgiea%^mAVlyvrVPk7yXJvCQb8~E8ZDDj{XkTb=b98QDZDlWCX>D+
9Wo>0{bYXO9Z*DGdc~DCM0u%!j000080P~d=N4%-@gaZKp0OkPz05$*s00000000000HlFo5Dx%wX>c
!Jc4cm4Z*nhkWpQ<7b98eraA9L>VP|D?FLiQkY-wUMFLiWjY%gD5X>MtBUtcb8c~DCM0u%!j000080P
~d=NBVU-R15_G0No4#05|{u00000000000HlGq5f1=xX>c!Jc4cm4Z*nhkWpQ<7b98eraA9L>VP|D?F
LiQkY-wUMFLiWjY%gPPZf<2`bZKvHE^v8JO928D0~7!N00;o{l@>>>sw2I}0ssIh2mk;z0000000000
0001_ff^SN0B~t=FJE?LZe(wAFLGsZb!BsOb1!gVV{2h&Wpgiea%^mAVlyvwbZKlaa%FLKWpi{caCuN
m0Rj{Q6aWAK2mtey7Ds3Q;WQBe001@u001@s0000000000005+cG#U>8aA|NaUv_0~WN&gWa%FLKWpi
|MFK}UFYhh<)b1!vrY;0*_GcR>?X>2cYWpi+EZgXWWaCuNm0Rj{Q6aWAK2mtey7Dv$3+ayp7006`$00
1)p0000000000005+cnHvuPaA|NaUv_0~WN&gWa%FLKWpi|MFK}UFYhh<)b1!vrY;0*_GcR>?X>2cYW
pr|RE^v8JO928D0~7!N00;o{l@>?c=NYzw4FCW&CjbC400000000000001_fjTG;0B~t=FJE?LZe(wA
FLGsZb!BsOb1!gVV{2h&Wpgiea%^mAVlyvwbZKlab8~E8E^v8JO928D0~7!N00;o{l@>?r3UFXL3jhE
}B>(_500000000000001_febbe0B~t=FJE?LZe(wAFLGsZb!BsOb1!gVV{2h&Wpgiea%^mAVlyvwbZK
labZKp6Z*_DoaCuNm0Rj{Q6aWAK2mtey7DwCS=~@2=007Ju001!n0000000000005+cnL!T#aA|NaUv
_0~WN&gWa%FLKWpi|MFK}UFYhh<)b1!vrY;0*_GcR>?X>2cba%?Vec~DCM0u%!j000080P~d=N8pYFH
H-oP0M`cq02lxO00000000000HlHENe=*UX>c!NZ*6U1Ze(*WUtei%X>?y-E^v8JO928D0~7!N00;o{
l@>=65Bi<>0ssKV2LJ#X00000000000001_fvHRn0B~t=FJo_QZDDR?b1!3WZE$R5bZKvHE^v8JO928
D0~7!N00;o{l@>=m_|e-o0{{RT2><{V00000000000001_f!R+F0B~t=FJo_QZDDR?b1!CcWo3G0E^v
8JO928D0~7!N00;o{l@>=H7SNrl0RRBj0{{RN00000000000001_fkRUd0B~t=FJo_QZDDR?b1!IRY;
Z1cc~DCM0u%!j000080P~d=M*}W(qBjlz07E$d02crN00000000000HlE*RSy7gX>c!NZ*6U1Ze(*WX
>N0LVQg$JaCuNm0Rj{Q6aWAK2mtey7DsW9lMpZm002`Q000yK0000000000005+ci(?M}aA|NaV{dJ3
"%text.
