(* ===== verification/PipData14.v ===== *)
(** * The literal of the pip installer, last part

    Lines 17715 to 17754 of tools/eposiotgw/get-pip.py: the characters of its literal
    [DATA] as the source has them, line breaks included. *)

From S2P Require Import Literal.

(** Lines 17715 to 17754. *)
Definition DATA_117 : text := "VQyq|FKlUZbS`jtP)h*<6ay3h000O8^OY7y+3V+&R|Wt8{1E^E761SM0000000000q=D^f4*+m!a4%z
TZEaz0WOFZbWnpq-XfAMhP)h*<6ay3h000O8^OY7yQi;$;AqD^dZW90i6aWAK0000000000q=9&G4*+
m!a4%zTZEaz0WOFZbXm58eaCuNm0Rj{Q6aWAK2mtey7Duaz89&ei002Y_000>P0000000000005+c%X
bd|aA|NaV{dJ3VQyq|FLiEdZgX^DY-}!Yc~DCM0u%!j000080P~d=M|glw#xn>201_Pl02KfL000000
00000HlG^dk+9`X>c!NZ*6U1Ze(*WcW7m0Y%XwlP)h*<6ay3h000O8^OY7yd;YCslm!3)N(}%2761SM
0000000000q=7hu4*+m!a4%zTZE#_9FJE72ZfSI1UoLQYP)h*<6ay3h000O8^OY7yf}*9DO%(tDI9dP
z7ytkO0000000000q=5j64*+m!a4%zTZE#_9FJx(BbYpLBW@%?GaCuNm0Rj{Q6aWAK2mtey7DuWYXS_
iG002h-000&M0000000000005+cgP#uoaA|NaZEs{{Y;!MPUukY>bYEXCaCuNm0Rj{Q6aWAK2mtey7D
s4KGHu}i008F!000vJ0000000000005+c_@55|aA|NaZEs{{Y;!MZZe(S6E^v8JO928D0~7!N00;o{l
@><;00002000000000Q00000000000001_feN7y0B~t=FK=*Va$$67Z*FrhUtei%X>?y-E^v8JO928D
0~7!N00;o{l@>?RF>h651ONb#4*&od00000000000001_fkdGX0B~t=FK=*Va$$67Z*FrhW^!d^dSxz
fc~DCM0u%!j000080P~d=M_g&r8Grx)02BcL022TJ00000000000HlH5r4ImbX>c!cWpOWGUukY>bYE
XCaCuNm0Rj{Q6aWAK2mtey7DwFNGq6Sr0071%000vJ0000000000005+ckERa*aA|Naa%FKZa%FK}W@
&6?E^v8JO928D0~7!N00;o{l@>=DEmQ*EDF6Uir~m*K00000000000001_fd;Y<0B~t=FLGsZFLGsZU
ukZ0bYX04E^v8JO928D0~7!N00;o{l@>=`7|$3%8vp<_YXATe00000000000001_ff?Kn0B~t=FLGsZ
FLGsZUvp)2E^v8JO928D0~7!N00;o{l@>?2NHhpv2mk=z8vp<p00000000000001_fr|GJ0B~t=FLGs
ZFLGsZUv+M2ZgX^DY-}!Yc~DCM0u%!j000080P~d=M?@=AP_Q2W0KRAd02KfL00000000000HlE*01y
ChX>c!fbZKmJFJE72ZfSI1UoLQYP)h*<6ay3h000O8^OY7y^O&Vq2nqlI)gu4^6aWAK0000000000q=
5n;5CCv#a4&UqX>4;ZVQ_F{X>xNeaCuNm0Rj{Q6aWAK2mtey7DvqtO)dZe001Bb000sI00000000000
05+cJSq?XaA|Nab#!TLb1!0bX>4RJaCuNm0Rj{Q6aWAK2mtey7Dv9ThG^dc003wR000;O0000000000
005+cY%CA}aA|Nab#!TLb1!6NaB^j1VRUJ4ZZ2?nP)h*<6ay3h000O8^OY7y@<Z*wqyYc`g988n7XSb
N0000000000q=A7i5CCv#a4&UqX>4;ZW@&6?b9r-gWo<5Sc~DCM0u%!j000080P~d=M`2RBVzUGQ0R9
XB02BZK00000000000HlFhF%ST7X>c!fbZKmJFKlmTXK8L{E^v8JO928D0~7!N00;o{l@>>}`!?~B1^
@uF6#xJg00000000000001_fj>470B~t=FLiWjY;!Mfb#!E5bY)~NaCuNm0Rj{Q6aWAK2mtey7Du5k1
=|}5004Fx000jF0000000000005+c13eG`aA|Nab#!TLb1!viE^v8JO928D0~7!N00;o{l@>=oql8pZ
4FCY}EdT%$00000000000001_flEdZ0B~t=FLq;dFJE72ZfSI1UoLQYP)h*<6ay3h000O8^OY7y>zRr
5%LM=cOA!D75dZ)H0000000000q=C&-5CCv#a4&Xab1!0HdSPL5E^v8JO928D0~7!N00;o{l@>?Sh_s
JC2><}N9RL6h00000000000001_fyY@80B~t=FLq;dFK20VE^v8JO928D0~7!N00;o{l@>=Bo0~X~1p
okU6951d00000000000001_fihzd0B~t=FLq;dFKuOVV|8+AVQemNc~DCM0u%!j000080P~d=M?<@N5
j_k50OTkD02KfL00000000000HlHQXb=E!X>c!gV{<Qabz*j9a&u{KZZ2?nP)h*<6ay3h000O8_>~q%
{ba)VbpZeXJp%v$BLDyZ0000000000q=92~5CCv#a4k13F)lJLWNCABEop9MZ!bheQ$tcoP*h1zPA+n
DbWlqH0u%!j000080Qi*_M;X)hB`N>_07L))03-ka00000000000HlE#cMt$@X>ct!E-@}LE@WwQbS-
IaW^XTLZgg^aUvO_}Zgg`lba-@7O928D0~7!N00;p1l@>>(4j9~H0ssKh1pojc00000000000001_fr
WPv0B~t=EjKPPE;24;X>)WfX>Mk3FKuOXVPs)+VJ>QOZ*EXa0Rj{Q6aWAK2mtt%7DuH%DV{F?001rk0
00~S0000000000005+cCwdS7aA|NYH!d+QGA?9kb960fZf0*UaAI;UYIARHP)h*<6ay3h000O8_>~q%
#~+u%1^@s61ONa4ApigX0000000000q=Arn5CCv#a4k13F)lJLWNCABEop9MZ!dIja9?a?c4cfXba-@
7O928D0~7!N00;p1l@>>bGk<Si0001P0000P00000000000001_fz^5t0B~t=EjKPPE;24;X>)WfX>M
k3FIPxKMNCjj0Rj{Q6aWAK2mtt%7DsNd4e99u006xQ000~S0000000000005+cYkLp?aA|NYH!d+QGA
?9kb960fZf0*UO+{2eL_t(RP)h*<6ay3h000O8_>~q%jg!*R`zZhbR96518UO$Q0000000000q=Alp5
CCv#a4k13F)lJLWNCABEop9MZ!c0sLr+pfP)h{{00000>;UWlXG{P9!Ke@b000
"%text.
