(* ===== verification/PipText.v ===== *)
(** * The literal of the pip installer

    [DATA] of tools/eposiotgw/get-pip.py, put together from its lines. *)

From stdpp Require Import base list.
From S2P Require Import Prelude PyStr Literal.
From S2P Require Import PipData1 PipData2 PipData3 PipData4 PipData5 PipData6 PipData7 PipData8 PipData9 PipData10 PipData11 PipData12 PipData13 PipData14.

Definition opening_lines : list text := [
   DATA_00; DATA_01; DATA_02; DATA_03; DATA_04; DATA_05; DATA_06; DATA_07; DATA_08;
   DATA_09; DATA_10; DATA_11; DATA_12; DATA_13; DATA_14; DATA_15; DATA_16; DATA_17].
Definition body_lines : list text := [
   DATA_18; DATA_19; DATA_20; DATA_21; DATA_22; DATA_23; DATA_24; DATA_25; DATA_26;
   DATA_27; DATA_28; DATA_29; DATA_30; DATA_31; DATA_32; DATA_33; DATA_34; DATA_35;
   DATA_36; DATA_37; DATA_38; DATA_39; DATA_40; DATA_41; DATA_42; DATA_43; DATA_44;
   DATA_45; DATA_46; DATA_47; DATA_48; DATA_49; DATA_50; DATA_51; DATA_52; DATA_53;
   DATA_54; DATA_55; DATA_56; DATA_57; DATA_58; DATA_59; DATA_60; DATA_61; DATA_62;
   DATA_63; DATA_64; DATA_65; DATA_66; DATA_67; DATA_68; DATA_69; DATA_70; DATA_71;
   DATA_72; DATA_73; DATA_74; DATA_75; DATA_76; DATA_77; DATA_78; DATA_79; DATA_80;
   DATA_81; DATA_82; DATA_83; DATA_84; DATA_85; DATA_86; DATA_87; DATA_88; DATA_89;
   DATA_90; DATA_91; DATA_92; DATA_93; DATA_94; DATA_95; DATA_96; DATA_97; DATA_98;
   DATA_99; DATA_100; DATA_101; DATA_102; DATA_103; DATA_104; DATA_105; DATA_106; DATA_107;
   DATA_108; DATA_109; DATA_110; DATA_111; DATA_112; DATA_113; DATA_114].
Definition closing_lines : list text := [
   DATA_115; DATA_116; DATA_117].

(** The bytes between the quotes. *)
Definition DATA : pybytes := concat (bytes_of <$> (opening_lines ++ body_lines ++ closing_lines)).

Lemma DATA_parts : DATA = concat (bytes_of <$> opening_lines) ++ concat (bytes_of <$> body_lines) ++ concat (bytes_of <$> closing_lines).
Proof. unfold DATA. by rewrite !fmap_app, !concat_app. Qed.

(** A million characters are only a name in proofs. *)
#[global] Opaque DATA.
