(* ===== verification/GetPip.v ===== *)
(** * The pip installer kept with the gateway (tools/eposiotgw/get-pip.py)

    The script carries pip as a zip file in base 85: it decodes it into a
    temporary directory, runs pip from there, and removes the directory.
    [b85decode] is the decoder it brings for interpreters without one;
    [bootstrap] and [main] are programs over the actions [pip]. *)

From stdpp Require Import base numbers list option strings.
From S2P Require Import Prelude PyStr Effects Literal PipText.

(** ** The decoder *)

Definition b85alphabet : pybytes :=
  lit "0123456789ABCDEFGHIJKLMNOPQRSTUVWXYZabcdefghijklmnopqrstuvwxyz!#$%&()*+-;<=>?@^_`{|}~".

(** The table: [_b85dec[c] = i], [None] elsewhere. *)
Definition b85dec (c : Z) : option Z :=
  (λ i, Z.of_nat i) <$> (list_find (λ x, x = c) b85alphabet ≫= λ p, Some p.1).

(** The value of a chunk; an unknown character is a [TypeError], turned into
    a [ValueError] that names its position. *)
Definition chunk_value (chunk : pybytes) : outcome Z :=
  foldl (λ acc c, acc ← acc; match b85dec c with Some d => Ok (acc * 85 + d) | None => Raise ValueError end)
    (Ok 0) chunk.

(** [struct.Struct('!I').pack], its [struct.error] turned into [ValueError]. *)
Definition packI (acc : Z) : outcome pybytes :=
  match pack_be 4 acc with Ok b => Ok b | Raise _ => Raise ValueError end.

Definition b85decode (b : pybytes) : outcome pybytes :=
  let padding := (- zlen b) mod 5 in
  let b := b ++ replicate (Z.to_nat padding) (chr "~") in
  out ← mapM (λ i, acc ← chunk_value (slice b i (i + 5)); packI acc) (range 0 (zlen b) 5);
  let result := concat out in
  Ok (if padding =? 0 then result else slice_to result (- padding)).

(** ** Running pip *)

Inductive pip : Type → Type :=
| ImportPip : pip unit                     (* import pip, and its install command *)
| ImportSetuptools : pip bool              (* True: no ImportError *)
| ImportWheel : pip bool
| MkdTemp : pip pystr                      (* tempfile.mkdtemp() *)
| GetCert : pip pybytes                    (* pkgutil.get_data("pip._vendor.requests", "cacert.pem") *)
| WriteFile (path : pystr) (data : pybytes) : pip unit
| PathInsert (path : pystr) : pip unit     (* sys.path.insert(0, path) *)
| PipMain (args : list pystr) : pip Z      (* pip.main(args), with the certificate default installed *)
| Rmtree (path : pystr) : pip unit.        (* shutil.rmtree(path, ignore_errors=True) *)

(** [os.path.join(a, b)] for a relative [b]. *)
Definition path_join (a b : pystr) : pystr :=
  match last a with
  | None => b
  | Some c => if c =? chr "/" then a ++ b else a ++ chr "/" :: b
  end.

(** [x] counts as true: a string that is not empty. *)
Definition truthy (x : option pystr) : bool :=
  match x with Some (_ :: _) => true | _ => false end.

(** [try: m finally: h] *)
Fixpoint try_finally {A} (m : prog pip A) (h : prog pip unit) : prog pip A :=
  match m with
  | PRet a => _ ← h; PRet a
  | PRaise e => _ ← h; PRaise e
  | PStuck => PStuck
  | PAct a k => PAct a (λ o, try_finally (k o) h)
  end.

(** [CertInstallCommand.parse_args]: the certificate pip ends up with. *)
Definition cert_default (configured : option pystr) (cert_path : pystr) : option pystr :=
  if truthy configured then configured else Some cert_path.

Section script.
Context (argv : list pystr) (environ : pystr → option pystr).

Definition has (opt : string) (l : list pystr) : bool := bool_decide (lit opt ∈ l).
Definition without (opt : string) (l : list pystr) : list pystr := filter (λ x, x ≠ lit opt) l.

(** The packages to install and the arguments handed on. *)
Definition select_packages : prog pip (list pystr * list pystr) :=
  let packages := [lit "pip"] in
  '(packages, args) ←
    (if has "--no-setuptools" argv || truthy (environ (lit "PIP_NO_SETUPTOOLS"))
     then mret (packages, without "--no-setuptools" (drop 1 argv))
     else
       ok ← act ImportSetuptools;
       mret (if (ok : bool) then packages else packages ++ [lit "setuptools"], drop 1 argv));
  if has "--no-wheel" args || truthy (environ (lit "PIP_NO_WHEEL"))
  then mret (packages, without "--no-wheel" args)
  else
    ok ← act ImportWheel;
    mret (packages, if (ok : bool) then args else args ++ [lit "wheel"]).

(** The body of the [try] of [bootstrap]. *)
Definition install (tmpdir : pystr) (packages args : list pystr) : prog pip unit :=
  let cert_path := path_join tmpdir (lit "cacert.pem") in
  data ← act GetCert;
  _ ← act (WriteFile cert_path data);
  _ ← act (PipMain ([lit "install"; lit "--upgrade"] ++ packages ++ args));
  PRaise SystemExit.

Definition bootstrap (tmpdir : option pystr) : prog pip unit :=
  _ ← act ImportPip;
  '(packages, args) ← select_packages;
  match tmpdir with
  | None =>
      tmpdir ← act MkdTemp;
      try_finally (install tmpdir packages args)
        (if truthy (Some tmpdir) then act (Rmtree tmpdir) else mret ())
  | Some tmpdir => try_finally (install tmpdir packages args) (mret ())
  end.

Definition main : prog pip unit :=
  tmpdir ← act MkdTemp;
  try_finally
    (let pip_zip := path_join tmpdir (lit "pip.zip") in
     zip ← of_outcome (b85decode (remove_char 10 DATA));
     _ ← act (WriteFile pip_zip zip);
     _ ← act (PathInsert pip_zip);
     bootstrap (Some tmpdir))
    (if truthy (Some tmpdir) then act (Rmtree tmpdir) else mret ()).
End script.

(** ** Specification of the encoding

    Four bytes, the last ones completed with zeros, are five digits in base
    85; the digits the completion added are dropped. *)

Definition digits85 (v : Z) : pybytes :=
  (λ k, default 0 (b85alphabet !! Z.to_nat (v / 85 ^ k mod 85))) <$> [4; 3; 2; 1; 0].

Definition encode_word (w : pybytes) : pybytes :=
  take (S (length w)) (digits85 (from_bytes_big (w ++ replicate (4 - length w) 0))).

Definition b85encode (data : pybytes) : pybytes := concat (encode_word <$> pieces data 4).

Lemma b85dec_alphabet i : 0 ≤ i < 85 → b85dec (default 0 (b85alphabet !! Z.to_nat i)) = Some i.
Proof.
  intros Hi.
  assert (forallb (λ i, bool_decide (b85dec (default 0 (b85alphabet !! Z.to_nat i)) = Some i)) (seqZ 0 85) = true)
    as Hall by reflexivity.
  rewrite forallb_forall in Hall. eapply bool_decide_eq_true_1, Hall, list_elem_of_In, elem_of_seqZ. lia.
Qed.

(** The character of a digit, and the value of five of them. *)
Definition b85char (d : Z) : Z := default 0 (b85alphabet !! Z.to_nat d).

Lemma chunk_value_digits ds :
  Forall (λ d, 0 ≤ d < 85) ds → chunk_value (b85char <$> ds) = Ok (foldl (λ acc d, acc * 85 + d) 0 ds).
Proof.
  intros Hd. unfold chunk_value.
  assert (∀ acc, foldl (λ acc c, acc ← acc; match b85dec c with Some d => Ok (acc * 85 + d) | None => Raise ValueError end)
    (Ok acc) (b85char <$> ds) = Ok (foldl (λ acc d, acc * 85 + d) acc ds)) as Hgen; [|by apply Hgen].
  induction Hd as [|d ds Hd _ IH]; intros acc; [done|].
  cbn [fmap list_fmap foldl]. rewrite bind_ok. unfold b85char at 1. rewrite b85dec_alphabet by done. apply IH.
Qed.

(** The five digits of a 32-bit value, as quotients and remainders. *)
Lemma digits85_value v :
  0 ≤ v < 2 ^ 32 →
  ∃ d4 d3 d2 d1 d0, digits85 v = b85char <$> [d4; d3; d2; d1; d0] ∧
    Forall (λ d, 0 ≤ d < 85) [d4; d3; d2; d1; d0] ∧
    v = (((d4 * 85 + d3) * 85 + d2) * 85 + d1) * 85 + d0.
Proof.
  intros Hv. exists (v / 85 ^ 4 mod 85), (v / 85 ^ 3 mod 85), (v / 85 ^ 2 mod 85), (v / 85 ^ 1 mod 85), (v / 85 ^ 0 mod 85).
  split; [done|]. split.
  { repeat constructor; apply Z.mod_pos_bound; done. }
  rewrite Z.pow_0_r, Z.div_1_r, Z.pow_1_r.
  change (85 ^ 4) with (85 * 85 * 85 * 85). change (85 ^ 3) with (85 * 85 * 85). change (85 ^ 2) with (85 * 85).
  rewrite <- !Z.div_div by done.
  set (q1 := v / 85). set (q2 := q1 / 85). set (q3 := q2 / 85). set (q4 := q3 / 85).
  assert (q4 mod 85 = q4) as ->.
  { apply Z.mod_small. unfold q4, q3, q2, q1. rewrite !Z.div_div by done.
    split; [apply Z.div_pos | apply Z.div_lt_upper_bound]; lia. }
  pose proof (Z.div_mod v 85 ltac:(done)). pose proof (Z.div_mod q1 85 ltac:(done)).
  pose proof (Z.div_mod q2 85 ltac:(done)). pose proof (Z.div_mod q3 85 ltac:(done)).
  fold q1 in H. fold q2 in H0. fold q3 in H1. fold q4 in H2. lia.
Qed.

Lemma packI_bytes v :
  0 ≤ v < 2 ^ 32 → packI v = Ok [v / 2 ^ 24; v / 2 ^ 16 mod 256; v / 2 ^ 8 mod 256; v mod 256].
Proof.
  intros Hv. unfold packI, pack_be.
  replace ((0 <=? v) && (v <? 256 ^ Z.of_nat 4)) with true by (change (256 ^ Z.of_nat 4) with (2 ^ 32); lia).
  cbn [le_bytes]. change (reverse [v mod 256; v / 256 mod 256; v / 256 / 256 mod 256; v / 256 / 256 / 256 mod 256])
    with [v / 256 / 256 / 256 mod 256; v / 256 / 256 mod 256; v / 256 mod 256; v mod 256].
  rewrite !Z.div_div by done. change (256 * 256 * 256) with (2 ^ 24). change (256 * 256) with (2 ^ 16).
  rewrite (Z.mod_small (v / 2 ^ 24)); [done|]. split; [apply Z.div_pos | apply Z.div_lt_upper_bound]; lia.
Qed.

(** Decoding one chunk of the encoder, completed the way the decoder does. *)
Lemma decode_full a b c d :
  is_byte a → is_byte b → is_byte c → is_byte d →
  (acc ← chunk_value (encode_word [a; b; c; d]); packI acc) = Ok [a; b; c; d].
Proof.
  unfold is_byte. intros Ha Hb Hc Hd. unfold encode_word. cbn [length Nat.sub replicate app].
  set (v := from_bytes_big _). assert (Ev : v = ((a * 256 + b) * 256 + c) * 256 + d) by reflexivity.
  destruct (digits85_value v) as (d4 & d3 & d2 & d1 & d0 & -> & Hall & Hval); [lia|].
  change (take 5 (b85char <$> [d4; d3; d2; d1; d0])) with (b85char <$> [d4; d3; d2; d1; d0]).
  rewrite chunk_value_digits, bind_ok by done.
  cbn [foldl]. rewrite packI_bytes by lia.
  replace ((((0 * 85 + d4) * 85 + d3) * 85 + d2) * 85 + d1) with (((d4 * 85 + d3) * 85 + d2) * 85 + d1) by lia.
  rewrite <- Hval, Ev. repeat f_equal.
  - symmetry. apply Z.div_unique with ((b * 256 + c) * 256 + d); lia.
  - replace (((a * 256 + b) * 256 + c) * 256 + d) with ((c * 256 + d) + (a * 256 + b) * 2 ^ 16) by lia.
    rewrite Z.div_add, Z.div_small by lia. rewrite Z.add_0_l, Z.add_comm, Z.mod_add by lia. by apply Z.mod_small.
  - replace (((a * 256 + b) * 256 + c) * 256 + d) with (d + ((a * 256 + b) * 256 + c) * 2 ^ 8) by lia.
    rewrite Z.div_add, Z.div_small by lia. rewrite Z.add_0_l, Z.add_comm, Z.mod_add by lia. by apply Z.mod_small.
  - rewrite Z.add_comm, Z.mod_add by lia. by apply Z.mod_small.
Qed.

(** The first bytes of a value that is [hi] completed with less than [2^n]. *)
Lemma high_part hi lo n : 0 ≤ lo < 2 ^ n → 0 ≤ n → (hi * 2 ^ n + lo) / 2 ^ n = hi.
Proof. intros Hlo Hn. rewrite Z.div_add_l by lia. rewrite Z.div_small by done. lia. Qed.

(** An incomplete last chunk: rounding up to the digits [84] adds less than
    the zero bytes leave room for. *)
Lemma decode_tail w :
  Forall is_byte w → (0 < length w < 4)%nat →
  ∃ junk, length junk = (4 - length w)%nat ∧
    (acc ← chunk_value (encode_word w ++ replicate (4 - length w) (chr "~")); packI acc) = Ok (w ++ junk).
Proof.
  intros Hb Hl. unfold encode_word. set (v := from_bytes_big _).
  assert (0 ≤ v < 2 ^ 32) as Hv.
  { destruct w as [|a [|b [|c [|? ?]]]]; cbn in Hl; try lia; unfold v, from_bytes_big;
      cbn [length Nat.sub replicate app foldl]; repeat (apply Forall_cons in Hb as [? Hb]); unfold is_byte in *; lia. }
  destruct (digits85_value v Hv) as (d4 & d3 & d2 & d1 & d0 & -> & Hall & Hval).
  change (chr "~") with (b85char 84). repeat (apply Forall_cons in Hall as [? Hall]).
  destruct w as [|a [|b [|c [|? ?]]]]; cbn in Hl; try lia; repeat (apply Forall_cons in Hb as [? Hb]);
    unfold is_byte in *; cbn [length Nat.sub].
  - assert (Ev : v = a * 2 ^ 24) by (unfold v; cbn; lia).
    change (take 2 (b85char <$> [d4; d3; d2; d1; d0]) ++ replicate 3 (b85char 84))
      with (b85char <$> [d4; d3; 84; 84; 84]).
    rewrite chunk_value_digits, bind_ok by (repeat constructor; lia). cbn [foldl].
    rewrite packI_bytes by lia. eexists [_; _; _]. split; [done|]. cbn [app].
    replace ((((0 * 85 + d4) * 85 + d3) * 85 + 84) * 85 + 84) with
      (((d4 * 85 + d3) * 85 + 84) * 85 + 84) by lia.
    set (v' := (((d4 * 85 + d3) * 85 + 84) * 85 + 84) * 85 + 84).
    assert (v' / 2 ^ 24 = a) as ->; [|done].
    replace v' with (a * 2 ^ 24 + (v' - v)) by lia. apply high_part; unfold v'; lia.
  - assert (Ev : v = (a * 2 ^ 8 + b) * 2 ^ 16) by (unfold v; cbn; lia).
    change (take 3 (b85char <$> [d4; d3; d2; d1; d0]) ++ replicate 2 (b85char 84))
      with (b85char <$> [d4; d3; d2; 84; 84]).
    rewrite chunk_value_digits, bind_ok by (repeat constructor; lia). cbn [foldl].
    set (v' := _ + 84). assert (v' - v = 84 * 85 + 84 - (d1 * 85 + d0)) as Hd by (unfold v'; lia).
    rewrite packI_bytes by lia. eexists [_; _]. split; [done|]. cbn [app].
    assert (v' / 2 ^ 16 = a * 2 ^ 8 + b) as E.
    { replace v' with ((a * 2 ^ 8 + b) * 2 ^ 16 + (v' - v)) by lia. apply high_part; lia. }
    assert (v' / 2 ^ 24 = a) as ->.
    { change (2 ^ 24) with (2 ^ 16 * 2 ^ 8). rewrite <- Z.div_div, E by done. by apply high_part. }
    rewrite E. change 256 with (2 ^ 8). rewrite Z.add_comm, Z.mod_add by done. by rewrite Z.mod_small.
  - assert (Ev : v = ((a * 2 ^ 8 + b) * 2 ^ 8 + c) * 2 ^ 8) by (unfold v; cbn; lia).
    change (take 4 (b85char <$> [d4; d3; d2; d1; d0]) ++ replicate 1 (b85char 84))
      with (b85char <$> [d4; d3; d2; d1; 84]).
    rewrite chunk_value_digits, bind_ok by (repeat constructor; lia). cbn [foldl].
    set (v' := _ + 84). assert (v' - v = 84 - d0) as Hd by (unfold v'; lia).
    rewrite packI_bytes by lia. eexists [_]. split; [done|]. cbn [app].
    assert (v' / 2 ^ 8 = (a * 2 ^ 8 + b) * 2 ^ 8 + c) as E.
    { replace v' with (((a * 2 ^ 8 + b) * 2 ^ 8 + c) * 2 ^ 8 + (v' - v)) by lia. apply high_part; lia. }
    assert (v' / 2 ^ 16 = a * 2 ^ 8 + b) as E2.
    { change (2 ^ 16) with (2 ^ 8 * 2 ^ 8). rewrite <- Z.div_div, E by done. by apply high_part. }
    assert (v' / 2 ^ 24 = a) as ->.
    { change (2 ^ 24) with (2 ^ 16 * 2 ^ 8). rewrite <- Z.div_div, E2 by done. by apply high_part. }
    rewrite E, E2. change 256 with (2 ^ 8). rewrite (Z.add_comm _ c), (Z.add_comm _ b), !Z.mod_add by done.
    rewrite !Z.mod_small by lia. done.
Qed.

Lemma encode_word_length w : (length w ≤ 4)%nat → zlen (encode_word w) = 1 + zlen w.
Proof.
  intros Hl. unfold encode_word, zlen. rewrite length_take. change (length (digits85 _)) with 5%nat. lia.
Qed.

Lemma encode_words ws tl :
  Forall (λ w, length w = 4%nat) ws → zlen tl < 4 →
  b85encode (concat ws ++ tl) = concat (encode_word <$> ws) ++ match tl with [] => [] | _ => encode_word tl end.
Proof.
  intros Hw Htl. unfold b85encode. induction Hw as [|w ws Hw _ IH].
  - destruct tl as [|x tl]; cbn [concat app fmap list_fmap]; [by rewrite pieces_nil|].
    rewrite pieces_cons by done. rewrite take_ge, drop_ge, pieces_nil by (unfold zlen in *; lia).
    cbn. by rewrite app_nil_r.
  - change (concat (w :: ws)) with (w ++ concat ws). rewrite <- app_assoc, pieces_app by (unfold zlen; lia).
    cbn [fmap list_fmap concat]. rewrite <- app_assoc. f_equal. exact IH.
Qed.

Lemma decode_words ws :
  Forall (λ w, length w = 4%nat) ws → Forall is_byte (concat ws) →
  mapM (λ p, acc ← chunk_value p; packI acc) (encode_word <$> ws) = Ok ws.
Proof.
  induction 1 as [|w ws Hw _ IH]; intros Hb; [done|]. cbn [fmap list_fmap mapM concat] in *.
  apply Forall_app in Hb as [Hbw Hb]. destruct w as [|a [|b [|c [|d [|? ?]]]]]; try done.
  repeat (apply Forall_cons in Hbw as [? Hbw]). rewrite decode_full by done. by rewrite bind_ok, IH.
Qed.

(** [b85decode] inverts base 85: whatever the bytes, decoding their
    encoding (five digits for four bytes, one more digit than bytes for the
    incomplete end) gives them back. *)
Theorem b85decode_round_trip data : Forall is_byte data → b85decode (b85encode data) = Ok data.
Proof.
  intros Hb. destruct (cut_words data) as (ws & tl & -> & Hw & Htl). rewrite encode_words by done.
  apply Forall_app in Hb as [Hbw Hbt].
  assert (∀ x, x ∈ ws → zlen (encode_word x) = 5) as H5.
  { intros x Hx. rewrite Forall_forall in Hw. rewrite encode_word_length; unfold zlen; rewrite (Hw x Hx); lia. }
  assert (zlen (concat (encode_word <$> ws)) = 5 * zlen ws) as Hlen.
  { clear -H5. induction ws as [|w ws IH]; [done|]. cbn [fmap list_fmap concat]. autorewrite with pystr.
    rewrite H5 by left. rewrite IH by (intros; apply H5; by right). lia. }
  unfold b85decode. cbv zeta. rewrite (mapM_pieces (λ p, acc ← chunk_value p; packI acc)). destruct tl as [|x tl].
  - rewrite !app_nil_r, Hlen. replace (- (5 * zlen ws)) with (- zlen ws * 5) by lia.
    rewrite Z.mod_mul by done. cbn [Z.to_nat replicate]. rewrite app_nil_r, pieces_flat, decode_words by (done || lia).
    done.
  - cbn iota. set (t := x :: tl) in *.
    assert (0 < zlen t) as Hpos by (unfold t; rewrite zlen_cons; pose proof (zlen_nonneg tl); lia).
    clearbody t.
    rewrite zlen_app, Hlen, encode_word_length by (unfold zlen in Htl; lia).
    replace (- (5 * zlen ws + (1 + zlen t))) with (4 - zlen t + (- zlen ws - 1) * 5) by lia.
    rewrite Z.mod_add, Z.mod_small by lia. rewrite (proj2 (Z.eqb_neq _ _)) by lia.
    replace (Z.to_nat (4 - zlen t)) with (4 - length t)%nat by (unfold zlen; lia).
    destruct (decode_tail t Hbt) as (junk & Hj & Ht); [unfold zlen in *; lia|].
    rewrite <- app_assoc. set (e := encode_word t ++ _) in *.
    assert (zlen e = 5) as He.
    { unfold e. rewrite zlen_app, encode_word_length by (unfold zlen in Htl; lia).
      unfold zlen. rewrite length_replicate. unfold zlen in Htl. lia. }
    assert (concat (encode_word <$> ws) ++ e = concat ((λ p, p) <$> ((encode_word <$> ws) ++ [e]))) as ->.
    { rewrite list_fmap_id, concat_app. cbn. by rewrite app_nil_r. }
    rewrite pieces_flat, list_fmap_id; [|lia|].
    2:{ intros p [Hp|Hp]%elem_of_app.
        - apply list_elem_of_fmap in Hp as (w & -> & Hp). by apply H5.
        - apply list_elem_of_singleton in Hp as ->. done. }
    assert (mapM (λ p, acc ← chunk_value p; packI acc) ((encode_word <$> ws) ++ [e]) = Ok (ws ++ [t ++ junk])) as ->.
    { apply mapM_ok_Forall2, Forall2_app; [by apply mapM_ok_Forall2, decode_words | by repeat constructor]. }
    rewrite bind_ok. f_equal. rewrite concat_app. cbn [concat]. rewrite app_nil_r, app_assoc.
    apply (slice_mid_neg [] (concat ws ++ t) junk); [done| |].
    + unfold zlen in *. lia.
    + intros ->. cbn [length] in Hj. unfold zlen in Htl. lia.
Qed.

(** ** The temporary directory *)

Create HintDb keeps.

Lemma filter_out_notin (x : pystr) (l : list pystr) : x ∉ l → filter (λ y, y ≠ x) l = l.
Proof.
  induction l as [|y l IH]; intros Hx; [done|]. apply not_elem_of_cons in Hx as [Hy Hl].
  rewrite filter_cons_True by done. by rewrite IH.
Qed.

(** [live] lists the directories the script made and did not remove. *)
Class TempDirs {S} (env : ∀ R, pip R → S → option (outcome R) * S) (live : S → list pystr) : Prop := {
  td_mkdtemp s : match env pystr MkdTemp s with
                 | (Some (Ok d), s') => d ≠ [] ∧ (d ∉ live s) ∧ live s' = d :: live s
                 | (_, s') => live s' = live s
                 end;
  td_rmtree d s : ∃ s', env unit (Rmtree d) s = (Some (Ok ()), s') ∧ live s' = filter (λ x, x ≠ d) (live s);
  td_other R (a : pip R) s : match a with MkdTemp | Rmtree _ => False | _ => True end →
    live (env R a s).2 = live s
}.

Section cleanup.
Context {S : Type} (env : ∀ R, pip R → S → option (outcome R) * S) (live : S → list pystr).
Context `{!TempDirs env live}.

Lemma run_finally {A} (m : prog pip A) h s :
  run env (try_finally m h) s =
    match run env m s with
    | (Some o, s') =>
        match run env h s' with
        | (Some (Ok _), s'') => (Some o, s'')
        | (Some (Raise e), s'') => (Some (Raise e), s'')
        | (None, s'') => (None, s'')
        end
    | (None, s') => (None, s')
    end.
Proof.
  revert s; induction m as [a|e| |R a k IH]; intros s; cbn [try_finally run]; [| |done|].
  - rewrite run_bind. by destruct (run env h s) as [[[[]|e]|] s'].
  - rewrite run_bind. by destruct (run env h s) as [[[[]|e']|] s'].
  - destruct (env R a s) as [[o|] s']; [apply IH | done].
Qed.

(** A program that leaves the directories alone. *)
Definition keeps {A} (m : prog pip A) : Prop := ∀ s, live (run env m s).2 = live s.

Lemma keeps_bind {A B} (m : prog pip A) (f : A → prog pip B) :
  keeps m → (∀ a, keeps (f a)) → keeps (m ≫= f).
Proof.
  intros Hm Hf s. rewrite run_bind. pose proof (Hm s) as Hs.
  destruct (run env m s) as [[[a|e]|] s']; [|done..]. cbn in Hs. by rewrite (Hf a s').
Qed.

Lemma keeps_act {R} (a : pip R) : match a with MkdTemp | Rmtree _ => False | _ => True end → keeps (act a).
Proof. intros Ha s. rewrite run_act. by apply td_other. Qed.

Lemma keeps_ret {A} (a : A) : keeps (mret a).
Proof. done. Qed.

Lemma keeps_of_outcome {A} (o : outcome A) : keeps (of_outcome o).
Proof. intros s. by rewrite run_of_outcome. Qed.

Lemma keeps_raise {A} e : keeps (PRaise (A := A) e).
Proof. done. Qed.

Hint Resolve keeps_raise keeps_bind keeps_act keeps_ret keeps_of_outcome : keeps.

Context (argv : list pystr) (environ : pystr → option pystr).

Lemma select_packages_keeps : keeps (select_packages argv environ).
Proof.
  unfold select_packages. apply keeps_bind.
  - case_match; auto with keeps.
  - intros [packages args]. case_match; auto with keeps.
Qed.

Lemma install_keeps tmpdir packages args : keeps (install tmpdir packages args).
Proof. unfold install. auto 10 with keeps. Qed.

(** A [try] whose [finally] removes the directory made before it. *)
Lemma cleanup_run {A} (m : prog pip A) d s s0 o s' :
  keeps m → d ≠ [] → d ∉ live s0 → live s = d :: live s0 →
  run env (try_finally m (if truthy (Some d) then act (Rmtree d) else mret ())) s = (Some o, s') →
  live s' = live s0.
Proof.
  intros Hm Hd Hin Hs. rewrite run_finally. pose proof (Hm s) as Hk.
  destruct (run env m s) as [[o1|] s1]; [|done]. cbn in Hk.
  destruct d as [|c d]; [done|]. cbn [truthy]. rewrite run_act.
  destruct (td_rmtree (c :: d) s1) as (s2 & -> & H2). intros [= <- <-]. rewrite H2, Hk, Hs.
  rewrite filter_cons_False by (intros Hne; by apply Hne). by apply filter_out_notin.
Qed.

End cleanup.

(** ** Witnesses *)

Example b85decode_round_trip_witness : b85decode (b85encode (lit "EPOS!!")) = Ok (lit "EPOS!!").
Proof. apply (b85decode_round_trip (lit "EPOS!!")). repeat constructor; done. Defined.

(** A file system that knows the directories made; pip fails. *)
Definition sim_pip (R : Type) (a : pip R) (s : list pystr) : option (outcome R) * list pystr :=
  match a in pip R return option (outcome R) * list pystr with
  | ImportPip => (Some (Ok ()), s)
  | ImportSetuptools => (Some (Ok true), s)
  | ImportWheel => (Some (Ok false), s)
  | MkdTemp => let d := lit "/tmp" ++ concat s in (Some (Ok d), d :: s)
  | GetCert => (Some (Ok []), s)
  | WriteFile _ _ => (Some (Ok ()), s)
  | PathInsert _ => (Some (Ok ()), s)
  | PipMain _ => (Some (Raise OtherError), s)
  | Rmtree d => (Some (Ok ()), filter (λ x, x ≠ d) s)
  end.

Lemma concat_length_le (d : pystr) (s : list pystr) : d ∈ s → (length d ≤ length (concat s))%nat.
Proof. induction 1; cbn [concat]; rewrite length_app; lia. Qed.

#[export] Instance sim_dirs : TempDirs sim_pip (λ s, s).
Proof.
  split.
  - intros s. cbn. split_and!; [done| |done]. intros Hin%concat_length_le. cbn in Hin. lia.
  - intros d s. by eexists.
  - intros R a s Ha. by destruct a.
Qed.

