(* ===== verification/Bignum.v ===== *)
(** * Big numbers modulo a prime (include/utility/bignum.h)

    Class [Bignum<SIZE>]: an array of 32-bit digits, least significant first,
    with arithmetic modulo the class attribute [_mod]; [_barrett_u] is the
    constant its reduction multiplies by (src/utility/bignum.cc gives both
    for the two sizes in use).  An array is a list of [Z], and an operation
    on [*this] a function of its old digits; the arithmetic on [Digit] and
    [Double_Digit] wraps at 32 and 64 bits as in the code.  What the class
    prints when debugged is left out. *)

From stdpp Require Import base numbers list option strings.
From Stdlib Require Import Znumtheory.
From S2P Require Import Prelude PyStr Digits.

Abbreviation word := (list Z).

Definition u32 (x : Z) : Z := x mod 2 ^ 32.
Definition u64 (x : Z) : Z := x mod 2 ^ 64.

(** The attributes of an instance of the template. *)
Class Bignum := { DIGITS : nat; _mod : word; _barrett_u : word }.

(** ** Digit loops *)

(** [for i: anow = a[i]; bnow = b[i] + borrow; ...] *)
Fixpoint sub_loop (a b : word) (borrow : Z) : word * Z :=
  match a, b with
  | anow :: a', bi :: b' =>
      let bnow := u64 (bi + borrow) in
      let borrow := Z.b2z (anow <? bnow) in
      let r := u32 (if borrow =? 0 then u64 (anow - bnow) else u64 (u64 (2 ^ 32 - bnow) + anow)) in
      let '(res, borrow) := sub_loop a' b' borrow in
      (r :: res, borrow)
  | _, _ => ([], borrow)
  end.
Definition simple_sub (size : nat) (a b : word) : word * bool :=
  let '(res, borrow) := sub_loop (take size a) (take size b) 0 in (res, negb (borrow =? 0)).

Fixpoint add_loop (a b : word) (carry : bool) : word * bool :=
  match a, b with
  | ai :: a', bi :: b' =>
      let tmp := u64 (u64 (Z.b2z carry + ai) + bi) in
      let '(res, carry) := add_loop a' b' (negb (Z.shiftr tmp 32 =? 0)) in
      (u32 tmp :: res, carry)
  | _, _ => ([], carry)
  end.
Definition simple_add (size : nat) (a b : word) : word * bool := add_loop (take size a) (take size b) false.

(** From the most significant digit down. *)
Fixpoint cmp_loop (a b : word) : Z :=
  match a, b with
  | ai :: a', bi :: b' => if ai >? bi then 1 else if ai <? bi then -1 else cmp_loop a' b'
  | _, _ => 0
  end.
Definition cmp (a b : word) (size : nat) : Z := cmp_loop (reverse (take size a)) (reverse (take size b)).

(** ** Products by columns *)

(** The body of the inner loop: [r2 r1 r0] accumulate [aj * bk]. *)
Definition mac (r : Z * Z * Z) (p : Z * Z) : Z * Z * Z :=
  let '(r0, r1, r2) := r in
  let '(aj, bk) := p in
  let prod := u64 (aj * bk) in
  let r0 := u64 (r0 + u32 prod) in
  let r1 := u64 (r1 + u64 (Z.shiftr prod 32 + Z.shiftr r0 32)) in
  let r0 := u32 r0 in
  let r2 := u64 (r2 + Z.shiftr r1 32) in
  let r1 := u32 r1 in
  (r0, r1, r2).

(** One column after the other, each leaving its low digit; what is left of
    the accumulators comes second. *)
Fixpoint product_scan (columns : list (list (Z * Z))) (r : Z * Z * Z) : word * (Z * Z * Z) :=
  match columns with
  | [] => ([], r)
  | ps :: columns' =>
      let '(r0, r1, r2) := foldl mac r ps in
      let '(res, r) := product_scan columns' (r1, r2, 0) in
      (u32 r0 :: res, r)
  end.

(** [for(j = 0; (j < size) && (j <= i); j++) { k = i - j; if(k < size) ... }] *)
Definition column (size : nat) (a b : word) (i : nat) : list (Z * Z) :=
  (λ j, (digit a j, digit b (i - j))) <$> filter (λ j, (i - j < size)%nat) (seq 0 (min size (S i))).

Definition simple_mult (a b : word) (size : nat) : word :=
  let '(res, (r0, _, _)) := product_scan (column size a b <$> seq 0 (size * 2 - 1)) (0, 0, 0) in
  res ++ [u32 r0].

Section bignum.
Context `{Bignum}.

(** [for(j = 0; j <= i; j++)], [k == size ? 0 : _mod.data[k]] *)
Definition mod_column (size : nat) (q : word) (i : nat) : list (Z * Z) :=
  (λ j, (digit q j, if (i - j =? size)%nat then 0 else digit _mod (i - j))) <$> seq 0 (S i).

(** [while((r[size] > 0) || (cmp(r, _mod.data, size) >= 0))] *)
Fixpoint barrett_loop (fuel : nat) (r : word) (size : nat) : option word :=
  if (digit r size >? 0) || (cmp r _mod size >=? 0) then
    match fuel with
    | O => None
    | S fuel' =>
        let '(low, borrow) := simple_sub size r _mod in
        let top := if borrow then u32 (digit r size - 1) else digit r size in
        barrett_loop fuel' (low ++ [top]) size
    end
  else Some r.

(** [q], the estimated quotient, then [r = (a - q * _mod) % base^(size+1)]. *)
Definition barrett_quotient (a : word) (size : nat) : word :=
  let '(res, (r0, _, _)) :=
    product_scan (column (size + 1) (drop (size - 1) a) _barrett_u <$> seq 0 (2 * (size + 1) - 1)) (0, 0, 0) in
  drop (size + 1) res ++ [u32 r0].

Definition barrett_remainder (a : word) (size : nat) : word :=
  let q := barrett_quotient a size in
  let '(r, _) := product_scan (mod_column size q <$> seq 0 (size + 1)) (0, 0, 0) in
  (simple_sub (size + 1) a r).1.

Definition barrett_reduction (a : word) (size : nat) : option word :=
  take size <$> barrett_loop 3 (barrett_remainder a size) size.

(** ** The operators *)

(** [operator=(unsigned int)]; an [unsigned int] is one digit. *)
Definition of_uint (n : Z) : word := u32 n :: replicate (DIGITS - 1) 0.

(** The constructor from bytes: four of them a digit, as far as they go. *)
Fixpoint bytes_digit (bytes : list Z) : Z :=
  match bytes with [] => 0 | x :: bytes' => x + Z.shiftl (bytes_digit bytes') 8 end.
Fixpoint of_bytes (digits : nat) (bytes : list Z) : word :=
  match digits with
  | O => []
  | S digits' => u32 (bytes_digit (take 4 bytes)) :: of_bytes digits' (drop 4 bytes)
  end.

Definition is_even (a : word) : bool := digit a 0 mod 2 =? 0.
Definition to_uint (a : word) : Z := digit a 0.
Definition xor_assign (a b : word) : word := zip_with Z.lxor a b.

Definition eqb (a b : word) : bool := cmp a b DIGITS =? 0.
Definition geb (a b : word) : bool := cmp a b DIGITS >=? 0.

Definition mul_assign (a b : word) : option word :=
  if eqb b (of_uint 1) then Some a
  else barrett_reduction (simple_mult a b DIGITS) DIGITS.

Definition add_assign (a b : word) : word :=
  let '(a, carry) := simple_add DIGITS a b in
  let a := if carry then (simple_sub DIGITS a _mod).1 else a in
  if cmp a _mod DIGITS >=? 0 then (simple_sub DIGITS a _mod).1 else a.

Definition sub_assign (a b : word) : word :=
  let '(a, borrow) := simple_sub DIGITS a b in
  if borrow then (simple_add DIGITS a _mod).1 else a.

(** [_data[i] <<= 1; _data[i] += carry], upwards. *)
Fixpoint multiply_by_two (a : word) (carry : bool) : word * bool :=
  match a with
  | [] => ([], carry)
  | d :: a' =>
      let next_carry := negb (Z.shiftr d 31 =? 0) in
      let '(res, c) := multiply_by_two a' next_carry in
      (u32 (u32 (Z.shiftl d 1) + Z.b2z carry) :: res, c)
  end.

(** [_data[i] >>= 1; _data[i] += carry << 31], downwards. *)
Fixpoint divide_by_two (a : word) (carry : bool) : word * bool :=
  match a with
  | [] => ([], carry)
  | d :: a' =>
      let '(res, carry) := divide_by_two a' carry in
      (u32 (Z.shiftr d 1 + u32 (Z.shiftl (Z.b2z carry) 31)) :: res, negb (d mod 2 =? 0))
  end.

(** The generator of include/utility/random.h, with a 32-bit [unsigned long]:
    the new seed is also the result, an [int] that [randomize] converts back
    to [unsigned int]. *)
Definition random (seed : Z) : Z * Z :=
  let seed := u32 (u32 (u32 seed * 1103515245) + 12345) mod 4294967295 in (seed, seed).

(** [randomize], from the top digit down: zeros where the modulus has them,
    the first other digit reduced by the modulus's, the rest as they come. *)
Fixpoint random_digits (n : nat) (seed : Z) : word * Z :=
  match n with
  | O => ([], seed)
  | S n' =>
      let '(x, seed) := random seed in
      let '(res, seed) := random_digits n' seed in (u32 x :: res, seed)
  end.
Fixpoint randomize_loop (m : word) (seed : Z) : word * Z :=
  match m with
  | [] => ([], seed)
  | d :: m' =>
      if d =? 0 then let '(res, seed) := randomize_loop m' seed in (0 :: res, seed)
      else
        let '(x, seed) := random seed in
        let '(res, seed) := random_digits (length m') seed in
        (u32 x mod d :: res, seed)
  end.
Definition randomize (seed : Z) : word * Z :=
  let '(res, seed) := randomize_loop (reverse _mod) seed in (reverse res, seed).

(** [while(u.is_even()) { u /= 2; A /= 2 modulo _mod }] *)
Definition halve (A : word) : word :=
  if is_even A then (divide_by_two A false).1
  else let '(A, carry) := simple_add DIGITS A _mod in (divide_by_two A carry).1.
Fixpoint halve_loop (fuel : nat) (u A : word) : option (word * word) :=
  if is_even u then
    match fuel with
    | O => None
    | S fuel' => halve_loop fuel' (divide_by_two u false).1 (halve A)
    end
  else Some (u, A).

Fixpoint invert_loop (fuel inner : nat) (u v A self : word) : option word :=
  if negb (eqb u (of_uint 0)) then
    match fuel with
    | O => None
    | S fuel' =>
        '(u, A) ← halve_loop inner u A;
        '(v, self) ← halve_loop inner v self;
        if geb u v then invert_loop fuel' inner (sub_assign u v) v (sub_assign A self) self
        else invert_loop fuel' inner u (sub_assign v u) A (sub_assign self A)
    end
  else Some self.
Definition invert (a : word) : option word :=
  invert_loop (64 * DIGITS + 2) (32 * DIGITS + 1) a _mod (of_uint 1) (of_uint 0).
End bignum.

(** ** The two instances *)

#[export] Instance Bignum_16 : Bignum := {|
  DIGITS := 4;
  _mod := [0xffffffff; 0xffffffff; 0xffffffff; 0xfffffffd];
  _barrett_u := [17; 8; 4; 2; 1]
|}.

(** 2^130 - 5, used by Poly1305. *)
Definition Bignum_17 : Bignum := {|
  DIGITS := 5;
  _mod := [0xfffffffb; 0xffffffff; 0xffffffff; 0xffffffff; 0x3];
  _barrett_u := [0; 0x50000000; 0; 0; 0; 0x40000000]
|}.


(** ** Digit loops on values *)

Abbreviation value := (bignum_value 32).
Abbreviation digits := (is_digits 32).

Lemma u32_digit x : 0 ≤ u32 x < 2 ^ 32.
Proof. unfold u32. by apply Z.mod_pos_bound. Qed.

Lemma u32_small x : 0 ≤ x < 2 ^ 32 → u32 x = x.
Proof. apply Z.mod_small. Qed.

Lemma u64_small x : 0 ≤ x < 2 ^ 64 → u64 x = x.
Proof. apply Z.mod_small. Qed.

Lemma shiftr_32 x : Z.shiftr x 32 = x / 2 ^ 32.
Proof. by apply Z.shiftr_div_pow2. Qed.

Lemma zlen_same {A B} (a : list A) (b : list B) : length a = length b → zlen a = zlen b.
Proof. unfold zlen. congruence. Qed.

(** One step of the weight of a digit list. *)
Lemma weight_cons {A} (x : A) (a : list A) : 2 ^ (32 * zlen (x :: a)) = 2 ^ 32 * 2 ^ (32 * zlen a).
Proof. rewrite zlen_cons. rewrite Z.mul_add_distr_l. apply Z.pow_add_r; [done|]. pose proof (zlen_nonneg a). lia. Qed.

Lemma sub_loop_spec a b br res br' :
  digits a → digits b → length a = length b → br = 0 ∨ br = 1 → sub_loop a b br = (res, br') →
  digits res ∧ length res = length a ∧ (br' = 0 ∨ br' = 1) ∧
  value a - value b - br = value res - br' * 2 ^ (32 * zlen a).
Proof.
  intros Ha; revert b br res br'; induction Ha as [|x a Hx Ha IH];
    intros [|y b] br res br' Hb Hl Hbr; cbn in Hl; try done; cbn [sub_loop].
  - intros [= <- <-]. change (zlen (@nil Z)) with 0. cbn [bignum_value]. rewrite Z.mul_0_r, Z.pow_0_r.
    repeat split; [constructor | done | lia].
  - apply Forall_cons in Hb as [Hy Hb].
    assert (u64 (y + br) = y + br) as -> by (apply u64_small; lia).
    destruct (sub_loop a b (Z.b2z (x <? y + br))) as [res' c'] eqn:E. intros [= <- <-].
    apply IH in E as (D & L & C & V); [|done|by injection Hl|by destruct (x <? y + br); [right|left]].
    rewrite weight_cons. cbn [bignum_value length].
    set (d := u32 _). assert (0 ≤ d < 2 ^ 32 ∧ x - (y + br) = d - Z.b2z (x <? y + br) * 2 ^ 32) as [Hd Hd'].
    { unfold d. destruct (Z.ltb_spec x (y + br)) as [Hlt|Hge]; cbn [Z.b2z].
      - change (1 =? 0) with false. cbn iota.
        rewrite (u64_small (2 ^ 32 - _)), u64_small, u32_small by lia. lia.
      - change (0 =? 0) with true. cbn iota. rewrite u64_small, u32_small by lia. lia. }
    split_and!; [by constructor | by rewrite L | done | nia].
Qed.

Lemma add_loop_spec a b c res c' :
  digits a → digits b → length a = length b → add_loop a b c = (res, c') →
  digits res ∧ length res = length a ∧
  value a + value b + Z.b2z c = value res + Z.b2z c' * 2 ^ (32 * zlen a).
Proof.
  intros Ha; revert b c res c'; induction Ha as [|x a Hx Ha IH];
    intros [|y b] c res c' Hb Hl; cbn in Hl; try done; cbn [add_loop].
  - intros [= <- <-]. change (zlen (@nil Z)) with 0. cbn [bignum_value]. rewrite Z.mul_0_r, Z.pow_0_r.
    repeat split; [constructor | lia].
  - apply Forall_cons in Hb as [Hy Hb].
    assert (0 ≤ Z.b2z c ≤ 1) as Hc by (destruct c; cbn; lia).
    rewrite (u64_small (Z.b2z c + x)), u64_small by (try rewrite u64_small; lia). rewrite shiftr_32.
    set (t := Z.b2z c + x + y).
    destruct (add_loop a b (negb (t / 2 ^ 32 =? 0))) as [res' c''] eqn:E. intros [= <- <-].
    apply IH in E as (D & L & V); [|done|by injection Hl].
    assert (Z.b2z (negb (t / 2 ^ 32 =? 0)) = t / 2 ^ 32) as Hq.
    { assert (0 ≤ t / 2 ^ 32 < 2) by (split; [apply Z.div_pos | apply Z.div_lt_upper_bound]; unfold t; lia).
      destruct (Z.eqb_spec (t / 2 ^ 32) 0); cbn; lia. }
    rewrite Hq in V. rewrite weight_cons. cbn [bignum_value length].
    pose proof (Z.div_mod t (2 ^ 32) ltac:(done)) as Hdm. fold (u32 t) in Hdm.
    split_and!; [constructor; [apply u32_digit | done] | by rewrite L | unfold t in *; nia].
Qed.

Lemma simple_sub_spec n a b :
  digits a → digits b → (n ≤ length a)%nat → (n ≤ length b)%nat →
  let '(res, borrow) := simple_sub n a b in
  digits res ∧ length res = n ∧
  value (take n a) - value (take n b) = value res - Z.b2z borrow * 2 ^ (32 * Z.of_nat n).
Proof.
  intros Ha Hb Hla Hlb. unfold simple_sub. destruct (sub_loop _ _ _) as [res br] eqn:E.
  apply sub_loop_spec in E as (D & L & Hbr & V);
    [|by apply Forall_take|by apply Forall_take|rewrite !length_take; lia|by left].
  unfold zlen in V. rewrite length_take, Nat.min_l in L, V by done.
  split_and!; [done|done|]. destruct Hbr as [->| ->]; cbn [negb Z.eqb Z.b2z]; lia.
Qed.

Lemma simple_add_spec n a b :
  digits a → digits b → (n ≤ length a)%nat → (n ≤ length b)%nat →
  let '(res, carry) := simple_add n a b in
  digits res ∧ length res = n ∧
  value (take n a) + value (take n b) = value res + Z.b2z carry * 2 ^ (32 * Z.of_nat n).
Proof.
  intros Ha Hb Hla Hlb. unfold simple_add. destruct (add_loop _ _ _) as [res c] eqn:E.
  apply add_loop_spec in E as (D & L & V);
    [|by apply Forall_take|by apply Forall_take|rewrite !length_take; lia].
  unfold zlen in V. rewrite length_take, Nat.min_l in L, V by done. cbn [Z.b2z] in V.
  split_and!; [done|done|lia].
Qed.

(** [cmp] is the sign of the difference. *)
Lemma cmp_loop_app a b x y :
  length a = length b →
  cmp_loop (a ++ [x]) (b ++ [y]) =
    if cmp_loop a b =? 0 then (if x >? y then 1 else if x <? y then -1 else 0) else cmp_loop a b.
Proof.
  revert b; induction a as [|u a IH]; intros [|v b] Hl; try done; cbn [app cmp_loop].
  destruct (u >? v); [done|]. destruct (u <? v); [done|]. apply IH. by injection Hl.
Qed.

Lemma cmp_sgn a b n :
  digits a → digits b → (n ≤ length a)%nat → (n ≤ length b)%nat →
  cmp a b n = Z.sgn (value (take n a) - value (take n b)).
Proof.
  intros Ha Hb Hla Hlb. unfold cmp.
  assert (digits (take n a) ∧ digits (take n b)) as [Da Db] by (split; by apply Forall_take).
  assert (length (take n a) = length (take n b)) as Hl by (rewrite !length_take; lia).
  revert Da Db Hl. generalize (take n a) (take n b). clear. intros a b Ha; revert b.
  induction Ha as [|x a Hx Ha IH]; intros [|y b] Hb Hl; cbn in Hl; try done.
  apply Forall_cons in Hb as [Hy Hb]. injection Hl as Hl. rewrite !reverse_cons, cmp_loop_app by (by rewrite !length_reverse).
  rewrite IH by done. cbn [bignum_value].
  destruct (Z.eqb_spec (Z.sgn (value a - value b)) 0) as [E|E].
  - apply Z.sgn_null_iff in E. replace (value a) with (value b) by lia.
    destruct (Z.gtb_spec x y); [symmetry; apply Z.sgn_pos; lia|].
    destruct (Z.ltb_spec x y); [symmetry; apply Z.sgn_neg; lia|]. symmetry. apply Z.sgn_null_iff. lia.
  - destruct (Z.sgn_spec (value a - value b)) as [[? ->]|[[? ->]|[? ->]]];
      [|exfalso; apply E, Z.sgn_null_iff; lia|].
    + symmetry. apply Z.sgn_pos. nia.
    + symmetry. apply Z.sgn_neg. nia.
Qed.

(** ** Products on values *)

(** The accumulators: a 96-bit number whose top part is small. *)
Definition acc (r : Z * Z * Z) : Z := let '(r0, r1, r2) := r in r0 + 2 ^ 32 * (r1 + 2 ^ 32 * r2).
Definition small_acc (k : Z) (r : Z * Z * Z) : Prop :=
  let '(r0, r1, r2) := r in 0 ≤ r0 < 2 ^ 32 ∧ 0 ≤ r1 < 2 ^ 32 ∧ 0 ≤ r2 ≤ k.

Definition digit_pair (p : Z * Z) : Prop := 0 ≤ p.1 < 2 ^ 32 ∧ 0 ≤ p.2 < 2 ^ 32.
Fixpoint sum_pairs (ps : list (Z * Z)) : Z :=
  match ps with [] => 0 | p :: ps' => p.1 * p.2 + sum_pairs ps' end.

Lemma mac_spec k r p :
  small_acc k r → digit_pair p → 0 ≤ k < 2 ^ 63 →
  small_acc (k + 1) (mac r p) ∧ acc (mac r p) = acc r + p.1 * p.2.
Proof.
  destruct r as [[r0 r1] r2], p as [x y]. unfold small_acc, digit_pair. cbn [fst snd].
  intros (H0 & H1 & H2) [Hx Hy] Hk. unfold mac. rewrite !shiftr_32.
  assert (0 ≤ x * y ≤ (2 ^ 32 - 1) * (2 ^ 32 - 1)) as Hp by nia.
  rewrite (u64_small (x * y)) by lia. generalize dependent (x * y). intros p Hp.
  pose proof (Z.div_mod p (2 ^ 32) ltac:(done)) as Ep. fold (u32 p) in Ep.
  pose proof (u32_digit p) as Hpl. assert (0 ≤ p / 2 ^ 32 ≤ 2 ^ 32 - 2) as Hph.
  { split; [apply Z.div_pos; lia|]. apply Z.lt_succ_r, Z.div_lt_upper_bound; lia. }
  generalize dependent (u32 p). generalize dependent (p / 2 ^ 32). intros ph Hph pl Ep Hpl.
  rewrite (u64_small (r0 + pl)) by lia.
  pose proof (Z.div_mod (r0 + pl) (2 ^ 32) ltac:(done)) as E0. fold (u32 (r0 + pl)) in E0.
  pose proof (u32_digit (r0 + pl)) as Hl0. assert (0 ≤ (r0 + pl) / 2 ^ 32 ≤ 1) as Hc0.
  { split; [apply Z.div_pos; lia|]. apply Z.lt_succ_r, Z.div_lt_upper_bound; lia. }
  generalize dependent (u32 (r0 + pl)). generalize dependent ((r0 + pl) / 2 ^ 32). intros c0 Hc0 l0 E0 Hl0.
  rewrite (u64_small (ph + c0)), (u64_small (r1 + _)) by lia.
  pose proof (Z.div_mod (r1 + (ph + c0)) (2 ^ 32) ltac:(done)) as E1. fold (u32 (r1 + (ph + c0))) in E1.
  pose proof (u32_digit (r1 + (ph + c0))) as Hl1. assert (0 ≤ (r1 + (ph + c0)) / 2 ^ 32 ≤ 1) as Hc1.
  { split; [apply Z.div_pos; lia|]. apply Z.lt_succ_r, Z.div_lt_upper_bound; lia. }
  rewrite (u64_small (r2 + _)) by lia. unfold acc. split; [lia|]. lia.
Qed.

Lemma fold_mac_spec k r ps :
  small_acc k r → Forall digit_pair ps → 0 ≤ k → k + zlen ps < 2 ^ 63 →
  small_acc (k + zlen ps) (foldl mac r ps) ∧ acc (foldl mac r ps) = acc r + sum_pairs ps.
Proof.
  intros Hr Hps; revert k r Hr; induction Hps as [|p ps Hp _ IH]; intros k r Hr Hk Hl.
  - change (zlen (@nil (Z * Z))) with 0. cbn. rewrite !Z.add_0_r. done.
  - rewrite zlen_cons in *. pose proof (zlen_nonneg ps).
    destruct (mac_spec k r p Hr Hp ltac:(lia)) as [H1 E1]. cbn [foldl sum_pairs].
    destruct (IH (k + 1) (mac r p) H1 ltac:(lia) ltac:(lia)) as [H2 E2].
    rewrite E2, E1. replace (k + (1 + zlen ps)) with (k + 1 + zlen ps) by lia. split; [done | lia].
Qed.

Fixpoint columns_sum (columns : list (list (Z * Z))) : Z :=
  match columns with [] => 0 | ps :: columns' => sum_pairs ps + 2 ^ 32 * columns_sum columns' end.

Lemma product_scan_spec columns r res r' :
  small_acc 0 r → Forall (λ ps, Forall digit_pair ps ∧ zlen ps < 2 ^ 32) columns →
  product_scan columns r = (res, r') →
  digits res ∧ length res = length columns ∧ small_acc 0 r' ∧
  acc r + columns_sum columns = value res + 2 ^ (32 * zlen columns) * acc r'.
Proof.
  intros Hr Hc; revert r Hr res r'; induction Hc as [|ps columns [Hps Hl] _ IH]; intros r Hr res r'; cbn [product_scan].
  - intros [= <- <-]. change (zlen (@nil (list (Z * Z)))) with 0. cbn [columns_sum bignum_value].
    rewrite Z.mul_0_r, Z.pow_0_r. split_and!; [constructor | done | done | lia].
  - destruct (fold_mac_spec 0 r ps Hr Hps ltac:(done) ltac:(lia)) as [H1 E1].
    destruct (foldl mac r ps) as [[r0 r1] r2]. destruct H1 as (B0 & B1 & B2).
    destruct (product_scan columns (r1, r2, 0)) as [res' r''] eqn:E. intros [= <- <-].
    apply IH in E as (D & L & G & V); [|cbn; lia].
    rewrite u32_small, weight_cons by done. cbn [columns_sum bignum_value length].
    split_and!; [by constructor | by rewrite L | done |]. cbn [acc] in V, E1.
      rewrite <- Z.mul_assoc. lia.
Qed.

Lemma columns_sum_fmap (f : nat → list (Z * Z)) s n :
  columns_sum (f <$> seq s n) = columns_value 32 (λ i, sum_pairs (f (s + i)%nat)) n.
Proof.
  revert s; induction n as [|n IH]; intros s; cbn [seq fmap list_fmap columns_sum columns_value]; [done|].
  rewrite Nat.add_0_r. f_equal. f_equal. etrans; [apply IH|]. apply columns_ext. intros i _.
  by rewrite Nat.add_succ_r.
Qed.

(** The pairs of a column add up to the column of the product. *)
Lemma sum_pairs_conv (a b : word) i :
  sum_pairs ((λ j, (digit a j, digit b (i - j))) <$> seq 0 (min (length a) (S i))) = conv a b i.
Proof.
  revert i; induction a as [|x a IH]; intros i; [done|].
  cbn [length]. rewrite <- Nat.succ_min_distr. cbn [seq fmap list_fmap sum_pairs conv fst snd].
  rewrite Nat.sub_0_r. f_equal. destruct i as [|i].
  - rewrite Nat.min_0_r. done.
  - rewrite <- IH, <- fmap_S_seq, <- list_fmap_compose. f_equal.
Qed.

Lemma digit_out (b : word) k : (length b ≤ k)%nat → digit b k = 0.
Proof. intros Hk. unfold digit. by rewrite lookup_ge_None_2. Qed.

Lemma sum_pairs_column (a b : word) i :
  (length b ≤ length a)%nat → sum_pairs (column (length a) a b i) = conv a b i.
Proof.
  intros Hl. rewrite <- sum_pairs_conv. unfold column. generalize (seq 0 (min (length a) (S i))). intros l.
  induction l as [|j l IH]; [done|]. rewrite filter_cons. case_decide as Hj; cbn [fmap list_fmap sum_pairs fst snd].
  - by rewrite IH.
  - rewrite IH, (digit_out b (i - j)) by lia. lia.
Qed.

Lemma column_pairs size (a b : word) i :
  digits a → digits b → Z.of_nat size < 2 ^ 32 →
  Forall digit_pair (column size a b i) ∧ zlen (column size a b i) < 2 ^ 32.
Proof.
  intros Ha Hb Hs. unfold column. split.
  - apply Forall_fmap, Forall_true. intros j. split; by apply digit_nonneg.
  - unfold zlen. rewrite length_fmap.
    pose proof (length_filter (λ j, (i - j < size)%nat) (seq 0 (min size (S i)))) as Hf.
    rewrite length_seq in Hf. lia.
Qed.

Lemma simple_mult_spec a b size :
  digits a → digits b → length a = size → length b = size → (0 < size)%nat → Z.of_nat size < 2 ^ 32 →
  digits (simple_mult a b size) ∧ length (simple_mult a b size) = (2 * size)%nat ∧
  value (simple_mult a b size) = value a * value b.
Proof.
  intros Ha Hb Hla Hlb H0 Hs. unfold simple_mult.
  destruct (product_scan _ _) as [res [[r0 r1] r2]] eqn:E.
  apply product_scan_spec in E as (D & L & G & V); [|cbn; lia|].
  2:{ apply Forall_fmap, Forall_true. intros i. by apply column_pairs. }
  rewrite length_fmap, length_seq in L. unfold zlen in V. rewrite length_fmap, length_seq in V.
  rewrite columns_sum_fmap in V.
  assert (columns_value 32 (λ i, sum_pairs (column size a b (0 + i))) (size * 2 - 1) = value a * value b) as Hc.
  { rewrite (columns_ext 32 _ (conv a b)).
    - destruct (columns_conv 32 ltac:(done) a b (size * 2 - 1)) as (e & -> & He). rewrite He by lia. lia.
    - intros i _. cbn. rewrite <- Hla. apply sum_pairs_column. lia. }
  rewrite Hc in V. destruct G as (G0 & G1 & G2). cbn [acc] in V.
  assert (value res + 2 ^ (32 * Z.of_nat (size * 2 - 1)) * r0 = value a * value b) as Hv.
  { pose proof (value_bounds 32 ltac:(done) a Ha). pose proof (value_bounds 32 ltac:(done) b Hb).
    pose proof (value_bounds 32 ltac:(done) res D) as Hres. unfold zlen in *. rewrite Hla, Hlb, L in *.
    set (W := 2 ^ (32 * Z.of_nat (size * 2 - 1))) in *.
    assert (2 ^ (32 * Z.of_nat size) * 2 ^ (32 * Z.of_nat size) = W * 2 ^ 32) as HW.
    { unfold W. rewrite <- !Z.pow_add_r by lia. f_equal. lia. }
    assert (0 < W) by (apply Z.pow_pos_nonneg; lia). clearbody W.
    assert (value a * value b < W * 2 ^ 32) by (rewrite <- HW; nia).
    assert (r2 = 0) as -> by lia. assert (r1 = 0) as -> by nia. lia. }
  rewrite u32_small by done. split_and!.
  - apply Forall_app. split; [done|]. apply Forall_cons. by split; [|constructor].
  - rewrite length_app, L. cbn. lia.
  - rewrite value_app by done. unfold zlen. rewrite L. cbn [bignum_value]. lia.
Qed.

(** ** Barrett's reduction *)

(** What an instance of the template has to satisfy. *)
Class BignumLaws (HB : Bignum) : Prop := {
  bl_size : (0 < DIGITS)%nat ∧ Z.of_nat DIGITS < 2 ^ 31;
  bl_mod : digits _mod ∧ length _mod = DIGITS;
  bl_u : digits _barrett_u ∧ length _barrett_u = (DIGITS + 1)%nat;
  bl_u_value : value _barrett_u = 2 ^ (64 * Z.of_nat DIGITS) / value _mod;
  bl_mod_value : 1 < value _mod ∧ 2 ^ (32 * (Z.of_nat DIGITS - 1)) ≤ value _mod
}.

#[export] Instance Bignum_16_laws : BignumLaws Bignum_16.
Proof.
  split; [by split; [cbn; lia|] | | | reflexivity | by split];
    (split; [|done]; apply (bool_decide_unpack _); vm_compute; exact I).
Qed.

#[export] Instance Bignum_17_laws : BignumLaws Bignum_17.
Proof.
  split; [by split; [cbn; lia|] | | | reflexivity | by split];
    (split; [|done]; apply (bool_decide_unpack _); vm_compute; exact I).
Qed.

(** The estimate is the quotient, one or two less. *)
Lemma barrett_estimate (P R m u a : Z) :
  0 < P → 0 < R → 0 < m → 0 ≤ a < P * R → P ≤ m → u = P * R / m →
  let q := a / P * u / R in 0 ≤ a - q * m < 3 * m.
Proof.
  intros HP HR Hm Ha HPm Hu. cbn zeta.
  pose proof (Z.div_mod (P * R) m ltac:(lia)) as Du. rewrite <- Hu in Du.
  pose proof (Z.mod_pos_bound (P * R) m Hm) as Bu.
  pose proof (Z.div_mod a P ltac:(lia)) as Da. pose proof (Z.mod_pos_bound a P HP) as Ba.
  set (a1 := a / P) in *. assert (0 ≤ a1 < R) as Ha1.
  { unfold a1. split; [apply Z.div_pos; lia|]. apply Z.div_lt_upper_bound; lia. }
  assert (0 ≤ u ≤ R) as Hu1.
  { rewrite Hu. split; [apply Z.div_pos; nia|]. apply Z.div_le_upper_bound; nia. }
  pose proof (Z.div_mod (a1 * u) R ltac:(lia)) as Dq. pose proof (Z.mod_pos_bound (a1 * u) R HR) as Bq.
  set (q := a1 * u / R) in *. generalize dependent ((P * R) mod m). intros x Du Bu.
  generalize dependent (a mod P). intros y Da Ba. generalize dependent ((a1 * u) mod R). intros z Dq Bq.
  clearbody a1 q. clear Hu. split.
  - assert (q * m * (P * R) ≤ a * (P * R)); [|nia].
    assert (q * R ≤ a1 * u) by lia. assert (a1 * P ≤ a) by lia. assert (m * u ≤ P * R) by lia.
    transitivity (a1 * u * (P * m)); [|].
    { replace (q * m * (P * R)) with (q * R * (P * m)) by ring. apply Z.mul_le_mono_nonneg_r; nia. }
    replace (a1 * u * (P * m)) with (a1 * P * (m * u)) by ring. apply Z.mul_le_mono_nonneg; nia.
  - assert (a * R < (q + 3) * m * R); [|nia].
    assert (a * (P * R) < (a1 + 1) * P * ((u + 1) * m)) as H1.
    { apply Z.mul_lt_mono_nonneg; nia. }
    assert (a * R < (a1 + 1) * ((u + 1) * m)) as H2 by nia.
    assert ((a1 + 1) * (u + 1) ≤ (q + 3) * R) as H3 by nia. nia.
Qed.

(** Two numbers below [w] that differ by a multiple of it are equal. *)
Lemma mod_unique_eq w x y k : 0 ≤ x < w → 0 ≤ y < w → x = y + w * k → x = y.
Proof. intros Hx Hy E. assert (k = 0) by nia. lia. Qed.

Section laws.
Context `{HB : Bignum, HL : !BignumLaws HB}.

Let n := DIGITS.
Let m := value _mod.
Let W : Z := 2 ^ (32 * Z.of_nat n).

Lemma W_pos : 0 < W.
Proof. apply Z.pow_pos_nonneg; lia. Qed.

Lemma m_bounds : 1 < m < W.
Proof.
  split; [apply bl_mod_value|]. destruct bl_mod as [Hd Hl].
  pose proof (value_bounds 32 ltac:(done) _mod Hd) as Hb. unfold zlen in Hb. rewrite Hl in Hb. apply Hb.
Qed.

Lemma W_succ : 2 ^ (32 * Z.of_nat (n + 1)) = W * 2 ^ 32.
Proof. unfold W. rewrite <- Z.pow_add_r by lia. f_equal. lia. Qed.

Lemma barrett_quotient_spec a :
  digits a → length a = (2 * n)%nat →
  digits (barrett_quotient a n) ∧ length (barrett_quotient a n) = (n + 1)%nat ∧
  value (barrett_quotient a n) =
    value a / 2 ^ (32 * (Z.of_nat n - 1)) * value _barrett_u / (W * 2 ^ 32).
Proof.
  intros Ha Hl. destruct bl_size as [Hn0 Hn]. fold n in Hn0, Hn. destruct bl_u as [Du Lu]. fold n in Lu.
  destruct (simple_mult_spec (drop (n - 1) a) _barrett_u (n + 1)) as (D & L & V);
    [by apply Forall_drop | done | rewrite length_drop; lia | done | lia | lia |].
  assert (barrett_quotient a n = drop (n + 1) (simple_mult (drop (n - 1) a) _barrett_u (n + 1))) as ->.
  { unfold barrett_quotient, simple_mult in *. rewrite (Nat.mul_comm (n + 1) 2) in *.
    destruct (product_scan _ _) as [res [[r0 r1] r2]]. rewrite length_app in L. cbn [length] in L.
    rewrite drop_app. replace (n + 1 - length res)%nat with 0%nat by lia. by rewrite drop_0. }
  split_and!; [by apply Forall_drop | rewrite length_drop; lia |].
  rewrite value_drop by (done || lia). rewrite V, value_drop by (done || lia).
  rewrite W_succ. by rewrite Nat2Z.inj_sub.
Qed.

Lemma mod_column_pairs q i :
  digits q → (i < n + 1)%nat → Forall digit_pair (mod_column n q i) ∧ zlen (mod_column n q i) < 2 ^ 32.
Proof.
  intros Hq Hi. destruct bl_mod as [Dm _]. destruct bl_size as [_ Hn]. fold n in Hn. unfold mod_column. split.
  - apply Forall_fmap, Forall_true. intros j. split; cbn; [by apply digit_nonneg|].
    case_match; [lia | by apply digit_nonneg].
  - unfold zlen. rewrite length_fmap, length_seq. lia.
Qed.

Lemma sum_mod_column q i :
  length q = (n + 1)%nat → (i < n + 1)%nat → sum_pairs (mod_column n q i) = conv q _mod i.
Proof.
  intros Hl Hi. rewrite <- sum_pairs_conv. rewrite Nat.min_r by lia. unfold mod_column. f_equal.
  apply list_fmap_ext. intros k j _. f_equal. destruct (Nat.eqb_spec (i - j) n) as [E|E]; [|done].
  symmetry. apply digit_out. destruct bl_mod as [_ ->]. fold n. lia.
Qed.

Lemma barrett_remainder_spec a :
  digits a → length a = (2 * n)%nat →
  let r := barrett_remainder a n in
  digits r ∧ length r = (n + 1)%nat ∧
  ∃ q, value r = value a - q * m ∧ 0 ≤ value r < 3 * m.
Proof.
  intros Ha Hl. cbn zeta. unfold barrett_remainder.
  destruct (barrett_quotient_spec a Ha Hl) as (Dq & Lq & Vq). set (q := barrett_quotient a n) in *.
  destruct (product_scan _ _) as [r r'] eqn:E.
  apply product_scan_spec in E as (D & L & G & V); [|cbn; lia|].
  2:{ apply Forall_fmap, Forall_forall. intros i Hi%elem_of_seq. apply mod_column_pairs; [done | lia]. }
  rewrite length_fmap, length_seq in L. unfold zlen in V. rewrite length_fmap, length_seq in V.
  rewrite columns_sum_fmap, (columns_ext 32 _ (conv q _mod)) in V.
  2:{ intros i Hi. cbn. by apply sum_mod_column. }
  destruct (columns_conv 32 ltac:(done) q _mod (n + 1)) as (e & Ec & _). rewrite Ec in V. fold m in V.
  assert (acc (0, 0, 0) = 0) as E0 by done. rewrite E0 in V.
  destruct bl_mod as [Dm Lm].
  pose proof (simple_sub_spec (n + 1) a r Ha D ltac:(destruct bl_size; lia) ltac:(lia)) as Hs.
  destruct (simple_sub (n + 1) a r) as [s bw]. destruct Hs as (Ds & Ls & Vs). cbn [fst].
  split_and!; [done|done|]. rewrite W_succ in *.
  rewrite (take_ge r) in Vs by lia. rewrite value_take, W_succ in Vs by (done || (destruct bl_size; lia)).
  assert (0 ≤ value a - value q * m < 3 * m) as Hest.
  { rewrite Vq. pose proof W_pos. pose proof m_bounds. destruct bl_mod_value as [_ HP]. fold n m in HP.
    destruct bl_size as [Hn0 _]. fold n in Hn0.
    assert (2 ^ (32 * (Z.of_nat n - 1)) * (W * 2 ^ 32) = 2 ^ (64 * Z.of_nat n)) as HPR.
    { unfold W. rewrite <- !Z.pow_add_r by lia. f_equal. lia. }
    apply barrett_estimate; [apply Z.pow_pos_nonneg; lia | lia | lia | | done |].
    - pose proof (value_bounds 32 ltac:(done) a Ha) as Hb. unfold zlen in Hb. rewrite Hl in Hb.
      rewrite HPR. replace (64 * Z.of_nat n) with (32 * Z.of_nat (2 * n)) by lia. done.
    - rewrite HPR. apply bl_u_value. }
  pose proof (value_bounds 32 ltac:(done) s Ds) as Bs. unfold zlen in Bs. rewrite Ls, W_succ in Bs.
  assert (value s = value a - value q * m) as Es; [|exists (value q); by rewrite Es].
  pose proof m_bounds. pose proof W_pos.
  pose proof (Z.div_mod (value a) (W * 2 ^ 32) ltac:(lia)) as Hda.
  apply (mod_unique_eq (W * 2 ^ 32) _ _ (Z.b2z bw - value a / (W * 2 ^ 32) + e + acc r')); [done | lia | lia].
Qed.

Lemma mod_take : value (take n _mod) = m.
Proof. destruct bl_mod as [_ Lm]. fold n in Lm. rewrite take_ge by lia. done. Qed.

(** The top digit and the rest. *)
Lemma split_top r :
  digits r → length r = (n + 1)%nat → value r = value (take n r) + W * digit r n ∧ 0 ≤ value (take n r) < W.
Proof.
  intros Hr Hl. split.
  - rewrite <- (take_drop n r) at 1. rewrite value_app by done. unfold zlen.
    rewrite length_take, Nat.min_l by lia. fold W. do 2 f_equal. unfold digit.
    destruct (lookup_lt_is_Some_2 r n ltac:(lia)) as [d Hd]. rewrite Hd. cbn.
    rewrite (drop_S r d n Hd), drop_ge by lia. cbn. lia.
  - pose proof (value_bounds 32 ltac:(done) (take n r) ltac:(by apply Forall_take)) as Hb.
    unfold zlen in Hb. by rewrite length_take, Nat.min_l in Hb by lia.
Qed.

(** One subtraction of the loop. *)
Lemma barrett_step r :
  digits r → length r = (n + 1)%nat → m ≤ value r →
  let '(low, borrow) := simple_sub n r _mod in
  let r' := low ++ [if borrow then u32 (digit r n - 1) else digit r n] in
  digits r' ∧ length r' = (n + 1)%nat ∧ value r' = value r - m.
Proof.
  intros Hr Hl Hv. destruct bl_mod as [Dm Lm]. fold n in Lm.
  destruct (split_top r Hr Hl) as [Et Bt]. pose proof (digit_nonneg 32 ltac:(done) r n Hr) as Hd.
  pose proof (simple_sub_spec n r _mod Hr Dm ltac:(lia) ltac:(lia)) as Hs. rewrite mod_take in Hs.
  destruct (simple_sub n r _mod) as [low bw]. destruct Hs as (Dl & Ll & Vl). fold W in Vl. cbn zeta.
  pose proof (value_bounds 32 ltac:(done) low Dl) as Hlow. unfold zlen in Hlow. rewrite Ll in Hlow. fold W in Hlow.
  assert ((if bw then u32 (digit r n - 1) else digit r n) = digit r n - Z.b2z bw ∧ 0 ≤ digit r n - Z.b2z bw)
    as [-> Ht].
  { destruct bw; cbn [Z.b2z] in *; [|lia]. assert (0 < digit r n) by nia. rewrite u32_small; lia. }
  split_and!.
  - apply Forall_app. split; [done|]. apply Forall_cons. split; [|constructor]. destruct bw; cbn in *; lia.
  - rewrite length_app, Ll. cbn. lia.
  - rewrite value_app by done. unfold zlen. rewrite Ll. fold W. cbn [bignum_value]. lia.
Qed.

(** The loop's condition compares with the modulus. *)
Lemma barrett_cond r :
  digits r → length r = (n + 1)%nat →
  (digit r n >? 0) || (cmp r _mod n >=? 0) = bool_decide (m ≤ value r).
Proof.
  intros Hr Hl. destruct bl_mod as [Dm Lm]. fold n in Lm. pose proof m_bounds as Hm.
  destruct (split_top r Hr Hl) as [Et Bt]. pose proof (digit_nonneg 32 ltac:(done) r n Hr) as Hd.
  rewrite (cmp_sgn r _mod n) by (done || lia). rewrite mod_take.
  destruct (Z.gtb_spec (digit r n) 0) as [Hp|Hz]; cbn [orb]; [rewrite bool_decide_true by nia; done|].
  assert (digit r n = 0) as E0 by lia. rewrite E0 in Et.
  destruct (Z.sgn_spec (value (take n r) - m)) as [[? ->]|[[? ->]|[? ->]]]; cbn;
    [rewrite bool_decide_true by lia | rewrite bool_decide_true by lia | rewrite bool_decide_false by lia]; done.
Qed.

Lemma barrett_loop_spec k r :
  digits r → length r = (n + 1)%nat → value r < (Z.of_nat k + 1) * m →
  ∃ r', barrett_loop k r n = Some r' ∧ digits r' ∧ length r' = (n + 1)%nat ∧ value r' = value r mod m.
Proof.
  pose proof m_bounds as Hm.
  revert r; induction k as [|k IH]; intros r Hr Hl Hv; cbn [barrett_loop]; rewrite barrett_cond by done;
    pose proof (value_bounds 32 ltac:(done) r Hr) as Hb.
  - rewrite bool_decide_false by lia. exists r. by rewrite Z.mod_small by lia.
  - case_bool_decide as Hc.
    + pose proof (barrett_step r Hr Hl Hc) as Hs. destruct (simple_sub n r _mod) as [low bw].
      destruct Hs as (D & L & V). destruct (IH _ D L ltac:(lia)) as (r' & E & D' & L' & V').
      exists r'. split_and!; [done..|]. rewrite V', V. rewrite <- (Z.mod_add (value r - m) 1) by lia. f_equal. lia.
    + exists r. by rewrite Z.mod_small by lia.
Qed.

Lemma barrett_reduction_spec a :
  digits a → length a = (2 * n)%nat →
  ∃ r, barrett_reduction a n = Some r ∧ digits r ∧ length r = n ∧ value r = value a mod m.
Proof.
  intros Ha Hl. destruct (barrett_remainder_spec a Ha Hl) as (D & L & q & V & Hb).
  destruct (barrett_loop_spec 3 _ D L ltac:(lia)) as (r & E & Dr & Lr & Vr).
  exists (take n r). unfold barrett_reduction. rewrite E. cbn. pose proof m_bounds as Hm.
  split_and!; [done | by apply Forall_take | rewrite length_take; lia |].
  rewrite value_take by (done || lia). fold W. rewrite Vr, V.
  rewrite Z.mod_small by (pose proof (Z.mod_pos_bound (value a - q * m) m); lia).
  rewrite <- (Z.mod_add (value a - q * m) q) by lia. f_equal. lia.
Qed.

(** ** The operators on values *)

(** A number as the class keeps it. *)
Definition wf (a : word) : Prop := digits a ∧ length a = n.
Definition reduced (a : word) : Prop := wf a ∧ value a < m.

Lemma wf_value a : wf a → 0 ≤ value a < W.
Proof. intros [Hd Hl]. pose proof (value_bounds 32 ltac:(done) a Hd) as Hb. unfold zlen in Hb. by rewrite Hl in Hb. Qed.

Lemma wf_take a : wf a → take n a = a.
Proof. intros [_ Hl]. by rewrite take_ge by lia. Qed.

Lemma wf_inj a b : wf a → wf b → value a = value b → a = b.
Proof. intros [Da La] [Db Lb]. apply value_inj; [done..|congruence]. Qed.

Lemma mod_wf : wf _mod.
Proof. destruct bl_mod. by split. Qed.

Lemma cmp_wf a b : wf a → wf b → cmp a b n = Z.sgn (value a - value b).
Proof. intros Ha Hb. destruct Ha, Hb. rewrite cmp_sgn by (done || lia). by rewrite !take_ge by lia. Qed.

Lemma eqb_wf a b : wf a → wf b → eqb a b = bool_decide (value a = value b).
Proof.
  intros Ha Hb. unfold eqb. fold n. rewrite cmp_wf by done.
  destruct (Z.sgn_spec (value a - value b)) as [[? ->]|[[? ->]|[? ->]]]; cbn;
    [rewrite bool_decide_false by lia | rewrite bool_decide_true by lia | rewrite bool_decide_false by lia]; done.
Qed.

Lemma geb_wf a b : wf a → wf b → geb a b = bool_decide (value b ≤ value a).
Proof.
  intros Ha Hb. unfold geb. fold n. rewrite cmp_wf by done.
  destruct (Z.sgn_spec (value a - value b)) as [[? ->]|[[? ->]|[? ->]]]; cbn;
    [rewrite bool_decide_true by lia | rewrite bool_decide_true by lia | rewrite bool_decide_false by lia]; done.
Qed.

Lemma of_uint_spec x : 0 ≤ x < 2 ^ 32 → wf (of_uint x) ∧ value (of_uint x) = x.
Proof.
  intros Hx. unfold of_uint. fold n. rewrite u32_small by done. destruct bl_size as [Hn _]. fold n in Hn. split.
  - split; [|cbn; rewrite length_replicate; lia]. apply Forall_cons. split; [done|]. by apply digits_zeros.
  - cbn [bignum_value]. rewrite value_zeros. lia.
Qed.

(** Addition and subtraction of whole numbers, with the bit that is lost. *)
Lemma add_wf a b :
  wf a → wf b →
  let '(r, c) := simple_add n a b in wf r ∧ value a + value b = value r + Z.b2z c * W.
Proof.
  intros Ha Hb. pose proof (wf_take a Ha) as Ta. pose proof (wf_take b Hb) as Tb. destruct Ha as [Da La], Hb as [Db Lb].
  pose proof (simple_add_spec n a b Da Db ltac:(lia) ltac:(lia)) as Hs. rewrite Ta, Tb in Hs.
  destruct (simple_add n a b) as [r c]. destruct Hs as (D & L & V). fold W in V. by repeat split.
Qed.

Lemma sub_wf a b :
  wf a → wf b →
  let '(r, c) := simple_sub n a b in wf r ∧ value a - value b = value r - Z.b2z c * W.
Proof.
  intros Ha Hb. pose proof (wf_take a Ha) as Ta. pose proof (wf_take b Hb) as Tb. destruct Ha as [Da La], Hb as [Db Lb].
  pose proof (simple_sub_spec n a b Da Db ltac:(lia) ltac:(lia)) as Hs. rewrite Ta, Tb in Hs.
  destruct (simple_sub n a b) as [r c]. destruct Hs as (D & L & V). fold W in V. by repeat split.
Qed.

Lemma add_assign_value a b :
  reduced a → reduced b → reduced (add_assign a b) ∧ value (add_assign a b) = (value a + value b) mod m.
Proof.
  intros [Ha Hav] [Hb Hbv]. pose proof (wf_value a Ha). pose proof (wf_value b Hb). pose proof m_bounds as Hm.
  unfold add_assign. fold n. pose proof (add_wf a b Ha Hb) as H1.
  destruct (simple_add n a b) as [r c]. destruct H1 as [Hr Vr]. pose proof (wf_value r Hr).
  pose proof (sub_wf r _mod Hr mod_wf) as H2. fold m in H2.
  destruct (simple_sub n r _mod) as [s d] eqn:Es. destruct H2 as [Hs Vs]. pose proof (wf_value s Hs). cbn [fst].
  destruct c; cbn [Z.b2z] in Vr.
  - assert (value s = value a + value b - m) as E by (destruct d; cbn [Z.b2z] in Vs; lia).
    rewrite cmp_wf by (done || apply mod_wf). fold m.
    destruct (Z.geb_spec (Z.sgn (value s - m)) 0) as [Hc|Hc]; [apply Z.sgn_nonneg in Hc; lia|].
    split; [split; [done|lia]|]. rewrite E. apply (Z.mod_unique _ _ 1); lia.
  - rewrite cmp_wf by (done || apply mod_wf). fold m.
    destruct (Z.geb_spec (Z.sgn (value r - m)) 0) as [Hc|Hc]; [apply Z.sgn_nonneg in Hc | apply Z.sgn_neg_iff in Hc].
    + rewrite Es. cbn [fst]. assert (value s = value a + value b - m) as E by (destruct d; cbn [Z.b2z] in Vs; lia).
      split; [split; [done|lia]|]. rewrite E. apply (Z.mod_unique _ _ 1); lia.
    + split; [split; [done|lia]|]. rewrite Z.mod_small; lia.
Qed.

Lemma sub_assign_value a b :
  reduced a → reduced b → reduced (sub_assign a b) ∧ value (sub_assign a b) = (value a - value b) mod m.
Proof.
  intros [Ha Hav] [Hb Hbv]. pose proof (wf_value a Ha). pose proof (wf_value b Hb). pose proof m_bounds as Hm.
  unfold sub_assign. fold n. pose proof (sub_wf a b Ha Hb) as H1.
  destruct (simple_sub n a b) as [r c]. destruct H1 as [Hr Vr]. pose proof (wf_value r Hr).
  destruct c; cbn [Z.b2z] in Vr.
  - pose proof (add_wf r _mod Hr mod_wf) as H2. fold m in H2.
    destruct (simple_add n r _mod) as [s d]. destruct H2 as [Hs Vs]. pose proof (wf_value s Hs). cbn [fst].
    assert (value s = value a - value b + m) as E by (destruct d; cbn [Z.b2z] in Vs; lia).
    split; [split; [done|lia]|]. rewrite E. apply (Z.mod_unique _ _ (-1)); lia.
  - split; [split; [done|lia]|]. rewrite Z.mod_small; lia.
Qed.

Lemma mul_assign_value a b :
  reduced a → wf b →
  ∃ r, mul_assign a b = Some r ∧ reduced r ∧ value r = (value a * value b) mod m.
Proof.
  intros [Ha Hav] Hb. unfold mul_assign. destruct (of_uint_spec 1 ltac:(done)) as [W1 V1].
  pose proof (wf_value a Ha). pose proof m_bounds as Hm.
  rewrite eqb_wf, V1 by done. case_bool_decide as Hc.
  - exists a. split_and!; [done | done |]. rewrite Hc, Z.mul_1_r, Z.mod_small; lia.
  - destruct Ha as [Da La], Hb as [Db Lb]. destruct bl_size as [Hn0 Hn]. fold n in Hn0, Hn |- *.
    destruct (simple_mult_spec a b n) as (D & L & V); [done..|lia|].
    destruct (barrett_reduction_spec _ D L) as (r & E & Dr & Lr & Vr). rewrite V in Vr.
    exists r. split_and!; [done | | done]. split; [by split|]. rewrite Vr. apply Z.mod_pos_bound. lia.
Qed.

(** ** Halving and inversion *)

Lemma multiply_by_two_spec a c res c' :
  digits a → multiply_by_two a c = (res, c') →
  digits res ∧ length res = length a ∧
  2 * value a + Z.b2z c = value res + Z.b2z c' * 2 ^ (32 * zlen a).
Proof.
  intros Ha; revert c res c'; induction Ha as [|x a Hx Ha IH]; intros c res c'; cbn [multiply_by_two].
  - intros [= <- <-]. change (zlen (@nil Z)) with 0. cbn [bignum_value]. rewrite Z.mul_0_r, Z.pow_0_r.
    split_and!; [constructor | done | lia].
  - destruct (multiply_by_two a _) as [res' c''] eqn:E. intros [= <- <-]. apply IH in E as (D & L & V).
    rewrite weight_cons. cbn [bignum_value length]. rewrite Z.shiftr_div_pow2 in V by done.
    rewrite Z.shiftl_mul_pow2 by done. change (2 ^ 1) with 2.
    assert (0 ≤ x / 2 ^ 31 < 2) as Hq by (split; [apply Z.div_pos | apply Z.div_lt_upper_bound]; lia).
    assert (Z.b2z (negb (x / 2 ^ 31 =? 0)) = x / 2 ^ 31) as E by (destruct (Z.eqb_spec (x / 2 ^ 31) 0); cbn; lia).
    rewrite E in V. pose proof (Z.div_mod x (2 ^ 31) ltac:(done)) as Hx'. pose proof (Z.mod_pos_bound x (2 ^ 31) ltac:(done)) as Hm.
    assert (u32 (x * 2) = 2 * (x mod 2 ^ 31)) as ->.
    { symmetry. apply (Z.mod_unique _ _ (x / 2 ^ 31)); lia. }
    assert (0 ≤ Z.b2z c ≤ 1) by (destruct c; cbn; lia). rewrite u32_small by lia.
    split_and!; [constructor; [lia | done] | by rewrite L | lia].
Qed.

Lemma divide_by_two_spec a c res c' :
  digits a → divide_by_two a c = (res, c') →
  digits res ∧ length res = length a ∧
  value a + Z.b2z c * 2 ^ (32 * zlen a) = 2 * value res + Z.b2z c'.
Proof.
  intros Ha; revert c res c'; induction Ha as [|x a Hx Ha IH]; intros c res c'; cbn [divide_by_two].
  - intros [= <- <-]. change (zlen (@nil Z)) with 0. cbn [bignum_value]. rewrite Z.mul_0_r, Z.pow_0_r.
    split_and!; [constructor | done | lia].
  - destruct (divide_by_two a c) as [res' c''] eqn:E. intros [= <- <-]. apply IH in E as (D & L & V).
    rewrite weight_cons. cbn [bignum_value length].
    rewrite Z.shiftr_div_pow2, Z.shiftl_mul_pow2 by done. change (2 ^ 1) with 2.
    assert (0 ≤ Z.b2z c'' ≤ 1) by (destruct c''; cbn; lia).
    assert (0 ≤ x / 2 < 2 ^ 31) by (split; [apply Z.div_pos | apply Z.div_lt_upper_bound]; lia).
    rewrite (u32_small (Z.b2z c'' * _)), u32_small by lia.
    pose proof (Z.div_mod x 2 ltac:(done)) as Hx'. pose proof (Z.mod_pos_bound x 2 ltac:(done)) as Hm.
    assert (Z.b2z (negb (x mod 2 =? 0)) = x mod 2) as -> by (destruct (Z.eqb_spec (x mod 2) 0); cbn; lia).
    split_and!; [constructor; [lia | done] | by rewrite L | lia].
Qed.

Lemma is_even_value a : is_even a = Z.even (value a).
Proof.
  unfold is_even. destruct a as [|x a]; [done|]. unfold digit. cbn [lookup list_lookup default bignum_value].
  rewrite Z.even_add, Z.even_mul. change (Z.even (2 ^ 32)) with true. cbn [orb].
  rewrite Zmod_even. unfold id. by destruct (Z.even x).
Qed.

Lemma divide_even a : wf a → Z.even (value a) = true → wf (divide_by_two a false).1 ∧ value a = 2 * value (divide_by_two a false).1.
Proof.
  intros [Da La] He. destruct (divide_by_two a false) as [r c] eqn:E.
  apply divide_by_two_spec in E as (D & L & V); [|done]. cbn [fst Z.b2z] in *. split; [split; congruence|].
  destruct c; cbn [Z.b2z] in V; [|lia]. exfalso.
  assert (value a = 2 * value r + 1) as E by lia. rewrite E, Z.even_add, Z.even_mul in He. done.
Qed.

Context (Hodd : Z.odd m = true).

Lemma halve_value A : reduced A → reduced (halve A) ∧ ∃ k, 2 * value (halve A) = value A + k * m.
Proof using Hodd HL.
  intros [HA HAv]. unfold halve. rewrite is_even_value. pose proof (wf_value A HA).
  destruct (Z.even (value A)) eqn:He.
  - destruct (divide_even A HA He) as [Hw Hv]. pose proof (wf_value _ Hw). split; [split; [done|lia]|]. exists 0. lia.
  - pose proof (add_wf A _mod HA mod_wf) as Ha. fold n. fold m in Ha. destruct (simple_add n A _mod) as [s c].
    destruct Ha as [Hs Vs]. destruct (divide_by_two s c) as [r d] eqn:Ed.
    pose proof Hs as [Ds Ls]. apply divide_by_two_spec in Ed as (D & L & V); [|done]. cbn [fst].
    unfold zlen in V. rewrite Ls in V. fold W in V.
    assert (Z.even (value A + m) = true) as Hev.
    { rewrite Z.even_add, He. by rewrite <- Z.negb_odd, Hodd. }
    assert (d = false) as ->.
    { destruct d; [|done]. exfalso. cbn [Z.b2z] in V. assert (value A + m = 2 * value r + 1) as E by lia.
      rewrite E, Z.even_add, Z.even_mul in Hev. done. }
    cbn [Z.b2z] in V. split; [split; [split; congruence|lia]|]. exists 1. lia.
Qed.

Lemma odd_coprime : Z.gcd m 2 = 1.
Proof using Hodd.
  rewrite Z.gcd_comm. apply (Z.coprime_prime_l 2 m Z.prime_2). intros [k Hk].
  rewrite Hk, Z.odd_mul in Hodd. by rewrite andb_false_r in Hodd.
Qed.

(** The invariant of the inversion of [a0]: [A] is [u] over [a0], [self] is
    [v] over [a0], and [u] and [v] have no common divisor. *)
Definition half_inv (a0 : Z) (u A : word) : Prop := wf u ∧ reduced A ∧ (m | value A * a0 - value u).

Lemma half_step a0 u A :
  half_inv a0 u A → Z.even (value u) = true → half_inv a0 (divide_by_two u false).1 (halve A).
Proof using Hodd HL.
  intros (Hu & HA & Hd) He. destruct (divide_even u Hu He) as [Hw Hv].
  destruct (halve_value A HA) as [Hr (k & Hk)]. split_and!; [done..|].
  apply (Z.gauss m 2); [|apply odd_coprime].
  replace (2 * (value (halve A) * a0 - value (divide_by_two u false).1))
    with (value A * a0 - value u + (k * a0) * m) by lia.
  apply Z.divide_add_r; [done | by exists (k * a0)].
Qed.

Lemma halve_loop_spec a0 fuel u A :
  half_inv a0 u A → 0 < value u < 2 ^ Z.of_nat fuel →
  ∃ u' A', halve_loop fuel u A = Some (u', A') ∧ half_inv a0 u' A' ∧
    Z.odd (value u') = true ∧ 0 < value u' ∧ (value u' | value u) ∧
    (if Z.even (value u) then 2 * value u' ≤ value u else value u' = value u).
Proof using Hodd HL.
  revert u A; induction fuel as [|fuel IH]; intros u A HI Hu; cbn [halve_loop]; rewrite is_even_value.
  { change (2 ^ Z.of_nat 0) with 1 in Hu. lia. }
  destruct (Z.even (value u)) eqn:He.
  - pose proof HI as (Hw & _). destruct (divide_even u Hw He) as [_ Hv].
    rewrite Nat2Z.inj_succ, Z.pow_succ_r in Hu by lia.
    destruct (IH _ _ (half_step a0 u A HI He) ltac:(lia)) as (u' & A' & E & HI' & Ho & Hp & Hdv & Hle).
    exists u', A'. split_and!; [done..| |].
    + rewrite Hv. by apply Z.divide_mul_r.
    + destruct (Z.even (value (divide_by_two u false).1)); lia.
  - exists u, A. split_and!; [done | done | by rewrite <- Z.negb_even, He | lia | done | done].
Qed.

(** Subtracting a smaller number, reduced or not. *)
Lemma sub_exact a b :
  wf a → wf b → value b ≤ value a → wf (sub_assign a b) ∧ value (sub_assign a b) = value a - value b.
Proof.
  intros Ha Hb Hle. pose proof (wf_value a Ha). pose proof (wf_value b Hb).
  unfold sub_assign. fold n. pose proof (sub_wf a b Ha Hb) as H1.
  destruct (simple_sub n a b) as [r c]. destruct H1 as [Hr Vr]. pose proof (wf_value r Hr).
  destruct c; cbn [Z.b2z] in Vr; [lia|]. split; [done|lia].
Qed.

Lemma half_inv_sub a0 u v A C :
  half_inv a0 u A → half_inv a0 v C → value v ≤ value u → half_inv a0 (sub_assign u v) (sub_assign A C).
Proof.
  intros (Hu & HA & [k Hk]) (Hv & HC & [l Hl]) Hle. destruct (sub_exact u v Hu Hv Hle) as [Hw Ev].
  destruct (sub_assign_value A C HA HC) as [Hr Er]. split_and!; [done..|].
  rewrite Ev, Er, Z.mod_eq by (pose proof m_bounds; lia).
  exists (k - l - (value A - value C) / m * a0). lia.
Qed.

(** What the outer loop keeps: besides the invariants of both sides, [v] is
    positive and coprime with [u], and both fit in [p] and [q] bits. *)
Definition inv_state (a0 : Z) (p q : nat) (u v A C : word) : Prop :=
  half_inv a0 u A ∧ half_inv a0 v C ∧ 0 < value v ∧ Z.gcd (value u) (value v) = 1 ∧
  value u < 2 ^ Z.of_nat p ∧ value v < 2 ^ Z.of_nat q.
Definition one_even (u v : word) : Prop := Z.even (value u) = true ∨ Z.even (value v) = true.

Lemma gcd_divides (x y x' y' : Z) : Z.gcd x y = 1 → (x' | x) → (y' | y) → Z.gcd x' y' = 1.
Proof.
  intros Hg Hx Hy. pose proof (Z.gcd_nonneg x' y'). assert (Z.gcd x' y' | 1) as Hd.
  { rewrite <- Hg. apply Z.gcd_greatest; etrans; [apply Z.gcd_divide_l | done | apply Z.gcd_divide_r | done]. }
  apply Z.divide_1_r_nonneg in Hd; lia.
Qed.

Lemma half_bits x x' p :
  0 < x < 2 ^ Z.of_nat p → (if Z.even x then 2 * x' ≤ x else x' = x) →
  x' < 2 ^ Z.of_nat p ∧ (Z.even x = true → ∃ p', p = S p' ∧ x' < 2 ^ Z.of_nat p').
Proof.
  intros Hx Hh. split; [destruct (Z.even x); lia|]. intros He. rewrite He in Hh.
  destruct p as [|p]; [change (2 ^ Z.of_nat 0) with 1 in Hx; lia|].
  rewrite Nat2Z.inj_succ, Z.pow_succ_r in Hx by lia. exists p. split; [done|lia].
Qed.

(** One iteration of the outer loop, up to its two subtractions. *)
Lemma invert_halves a0 inner p q u v A C :
  inv_state a0 p q u v A C → 0 < value u → (p ≤ inner)%nat → (q ≤ inner)%nat →
  ∃ u' A' v' C', halve_loop inner u A = Some (u', A') ∧ halve_loop inner v C = Some (v', C') ∧
    ∃ p' q', inv_state a0 p' q' u' v' A' C' ∧ 0 < value u' ∧
      Z.odd (value u') = true ∧ Z.odd (value v') = true ∧ (p' ≤ p)%nat ∧ (q' ≤ q)%nat ∧
      (one_even u v → (p' + q' < p + q)%nat).
Proof using Hodd HL.
  intros (Iu & Iv & Hv & Hg & Bu & Bv) Hu Hp Hq.
  assert (∀ k, (k ≤ inner)%nat → 2 ^ Z.of_nat k ≤ 2 ^ Z.of_nat inner) as Hpow by (intros; apply Z.pow_le_mono_r; lia).
  pose proof (Hpow p Hp). pose proof (Hpow q Hq).
  destruct (halve_loop_spec a0 inner u A Iu ltac:(lia)) as (u' & A' & E1 & I1 & O1 & P1 & D1 & L1).
  destruct (halve_loop_spec a0 inner v C Iv ltac:(lia)) as (v' & C' & E2 & I2 & O2 & P2 & D2 & L2).
  exists u', A', v', C'. split_and!; [done..|].
  destruct (half_bits _ _ p ltac:(split; [exact Hu | exact Bu]) L1) as [B1 S1].
  destruct (half_bits _ _ q ltac:(split; [exact Hv | exact Bv]) L2) as [B2 S2].
  pose proof (gcd_divides _ _ _ _ Hg D1 D2) as Hg'.
  assert (∀ p' q', value u' < 2 ^ Z.of_nat p' → value v' < 2 ^ Z.of_nat q' → inv_state a0 p' q' u' v' A' C') as Hst.
  { intros p' q' Hp' Hq'. exact (conj I1 (conj I2 (conj P2 (conj Hg' (conj Hp' Hq'))))). }
  destruct (Z.even (value u)) eqn:Eu, (Z.even (value v)) eqn:Ev.
  - destruct (S1 eq_refl) as (p' & -> & B1'). destruct (S2 eq_refl) as (q' & -> & B2').
    exists p', q'. split; [by apply Hst | split_and!; (done || lia)].
  - destruct (S1 eq_refl) as (p' & -> & B1'). exists p', q. split; [by apply Hst | split_and!; (done || lia)].
  - destruct (S2 eq_refl) as (q' & -> & B2'). exists p, q'. split; [by apply Hst | split_and!; (done || lia)].
  - exists p, q. split; [by apply Hst | split_and!; try done]. unfold one_even. rewrite Eu, Ev. by intros [?|?].
Qed.

Lemma gcd_sub x y : Z.gcd x y = 1 → Z.gcd (x - y) y = 1.
Proof. intros Hg. rewrite Z.gcd_comm, Z.gcd_sub_diag_r, Z.gcd_comm. exact Hg. Qed.

Lemma invert_loop_spec a0 fuel inner p q u v A C :
  inv_state a0 p q u v A C → (p ≤ inner)%nat → (q ≤ inner)%nat →
  (p + q < fuel)%nat ∧ one_even u v ∨ (p + q + 1 < fuel)%nat →
  ∃ r, invert_loop fuel inner u v A C = Some r ∧ reduced r ∧ (m | value r * a0 - 1).
Proof using Hodd HL.
  revert p q u v A C; induction fuel as [|fuel IH]; intros p q u v A C HI Hp Hq Hf; [lia|].
  pose proof HI as ((Wu & HA & HdA) & (Wv & HC & HdC) & Hv & Hg & Bu & Bv).
  destruct (of_uint_spec 0 ltac:(done)) as [W0 V0]. pose proof (wf_value u Wu).
  cbn [invert_loop]. rewrite eqb_wf, V0 by done. case_bool_decide as Hz; cbn [negb].
  - exists C. split_and!; [done..|]. rewrite Hz, Z.gcd_0_l, Z.abs_eq in Hg by lia. by rewrite Hg in HdC.
  - destruct (invert_halves a0 inner p q u v A C HI ltac:(lia) Hp Hq)
      as (u' & A' & v' & C' & E1 & E2 & p' & q' & HI' & Pu & Ou & Ov & Lp & Lq & Hlt).
    assert (p' + q' < fuel)%nat as Hf' by (destruct Hf as [[Hf Hone]|Hf]; [specialize (Hlt Hone)|]; lia).
    rewrite E1. cbn. rewrite E2. cbn.
    pose proof HI' as (Iu & Iv & Pv & Hg' & Bu' & Bv'). destruct Iu as (Wu' & ? & ?). destruct Iv as (Wv' & ? & ?).
    assert (∀ x y, Z.odd x = true → Z.odd y = true → Z.even (x - y) = true) as Hsub.
    { intros x y Hx Hy. rewrite Z.even_sub, <- !Z.negb_odd, Hx, Hy. done. }
    rewrite geb_wf by done. case_bool_decide as Hge.
    + destruct (sub_exact u' v' Wu' Wv' Hge) as [Ws Es].
      apply (IH p' q'); [|lia|lia|left; split; [done|]; left; rewrite Es; by apply Hsub].
      split_and!; [by apply half_inv_sub | by split_and! | done | rewrite Es; by apply gcd_sub | lia | done].
    + destruct (sub_exact v' u' Wv' Wu' ltac:(lia)) as [Ws Es].
      apply (IH p' q'); [|lia|lia|left; split; [done|]; right; rewrite Es; by apply Hsub].
      split_and!; [by split_and! | apply half_inv_sub; [by split_and! | by split_and! | lia] | lia | | done | lia].
      rewrite Es, Z.gcd_comm. apply gcd_sub. by rewrite Z.gcd_comm.
Qed.

Lemma invert_value a :
  reduced a → Z.gcd (value a) m = 1 →
  ∃ r, invert a = Some r ∧ reduced r ∧ (value r * value a) mod m = 1.
Proof using Hodd HL.
  intros Ha Hg. pose proof m_bounds as Hm. unfold invert. fold n.
  destruct (of_uint_spec 1 ltac:(done)) as [W1 V1]. destruct (of_uint_spec 0 ltac:(done)) as [W0 V0].
  assert (2 ^ Z.of_nat (32 * n) = W) as HW by (unfold W; f_equal; lia).
  destruct (invert_loop_spec (value a) (64 * n + 2) (32 * n + 1) (32 * n) (32 * n) a _mod (of_uint 1) (of_uint 0))
    as (r & E & Hr & [k Hk]); [|lia|lia|right; lia|].
  - pose proof (wf_value a (proj1 Ha)). split_and!; rewrite ?HW.
    + split_and!; [exact (proj1 Ha) | split; [done|lia] | exists 0; rewrite V1; lia].
    + split_and!; [apply mod_wf | split; [done|lia] | exists (-1); rewrite V0; fold m; lia].
    + fold m. lia.
    + done.
    + lia.
    + fold m. lia.
  - exists r. split_and!; [done..|]. replace (value r * value a) with (1 + k * m) by lia.
    rewrite Z.mod_add, Z.mod_small by lia. done.
Qed.

Lemma invert_zero a : wf a → value a = 0 → ∃ r, invert a = Some r ∧ reduced r ∧ value r = 0.
Proof using HL.
  intros Ha Hz. destruct (of_uint_spec 0 ltac:(done)) as [W0 V0]. exists (of_uint 0).
  unfold invert. replace (64 * DIGITS + 2)%nat with (S (64 * DIGITS + 1)) by lia. cbn [invert_loop].
  rewrite eqb_wf, V0 by done. rewrite bool_decide_true by done. cbn [negb].
  split_and!; [done | split; [done|] | done]. pose proof m_bounds. lia.
Qed.

(** ** Random numbers *)

Lemma random_digits_spec k seed :
  digits (random_digits k seed).1 ∧ length (random_digits k seed).1 = k.
Proof.
  revert seed; induction k as [|k IH]; intros seed; cbn [random_digits]; [by split; [constructor|]|].
  destruct (random seed) as [x s]. specialize (IH s). destruct (random_digits k s) as [res s']. destruct IH as [D L].
  split; [|cbn in *; lia]. apply Forall_cons. split; [apply u32_digit | done].
Qed.

(** Most significant digit first. *)
Lemma randomize_loop_spec (md : word) seed :
  digits md → value (reverse md) ≠ 0 →
  let res := (randomize_loop md seed).1 in
  digits res ∧ length res = length md ∧ value (reverse res) < value (reverse md).
Proof.
  intros Hd. revert seed; induction Hd as [|x md Hx Hd IH]; intros seed Hv; [done|]. cbn [randomize_loop].
  assert (∀ y l, value (reverse (y :: l)) = value (reverse l) + 2 ^ (32 * zlen l) * y) as Hrev.
  { intros y l. rewrite reverse_cons, value_app by done. unfold zlen. rewrite length_reverse. cbn [bignum_value]. lia. }
  rewrite !Hrev in *. destruct (Z.eqb_spec x 0) as [E|E].
  - subst x. rewrite Z.mul_0_r, Z.add_0_r in *. specialize (IH seed Hv).
    destruct (randomize_loop md seed) as [res s]. destruct IH as (D & L & V). cbn [fst] in *.
    split_and!; [by apply Forall_cons | cbn; lia |]. rewrite Hrev. lia.
  - destruct (random seed) as [y s]. pose proof (random_digits_spec (length md) s) as Hr.
    destruct (random_digits (length md) s) as [res s']. destruct Hr as [D L]. cbn [fst] in *.
    pose proof (Z.mod_pos_bound (u32 y) x ltac:(lia)) as Hm.
    split_and!; [apply Forall_cons; split; [lia|done] | cbn; lia |]. rewrite Hrev.
    assert (digits (reverse res)) as Dr by (by apply Forall_reverse).
    assert (digits (reverse md)) as Dm by (by apply Forall_reverse).
    pose proof (value_bounds 32 ltac:(done) _ Dr) as B1. pose proof (value_bounds 32 ltac:(done) _ Dm) as B2.
    unfold zlen in *. rewrite length_reverse, L in *. nia.
Qed.

Lemma randomize_value seed : reduced (randomize seed).1.
Proof.
  unfold randomize. destruct bl_mod as [Dm Lm]. pose proof m_bounds as Hm.
  pose proof (randomize_loop_spec (reverse _mod) seed) as Hr. rewrite reverse_involutive in Hr.
  destruct (randomize_loop (reverse _mod) seed) as [res s]. cbn [fst] in *. fold m in Hr.
  destruct Hr as (D & L & V); [by apply Forall_reverse | lia |]. split; [split|done].
  - by apply Forall_reverse.
  - by rewrite length_reverse, L, length_reverse.
Qed.
End laws.

(** ** Properties *)

Section properties.
Context `{HB : Bignum, HL : !BignumLaws HB}.

(** C28 Arithmetic modulo: for every instance of the class whose constants
    satisfy their laws, and every pair of numbers below the modulus, [+=],
    [-=] and [*=] give the sum, the difference and the product modulo the
    modulus, below the modulus; no digit is out of 32 bits, no accumulator
    overflows, and the loop of the reduction ends in three rounds. *)
Theorem modular_operations a b :
  reduced a → reduced b →
  (reduced (add_assign a b) ∧ value (add_assign a b) = (value a + value b) mod value _mod) ∧
  (reduced (sub_assign a b) ∧ value (sub_assign a b) = (value a - value b) mod value _mod) ∧
  ∃ r, mul_assign a b = Some r ∧ reduced r ∧ value r = (value a * value b) mod value _mod.
Proof.
  intros Ha Hb. split; [by apply add_assign_value|]. split; [by apply sub_assign_value|].
  apply mul_assign_value; [done | apply Hb].
Qed.

(** Barrett's reduction is the remainder: for any array of twice as many
    digits, whatever its value, the two truncated products and at most two
    subtractions leave its value modulo the modulus. *)
Theorem barrett_reduction_correct a :
  digits a → length a = (2 * DIGITS)%nat →
  ∃ r, barrett_reduction a DIGITS = Some r ∧ length r = DIGITS ∧ value r = value a mod value _mod.
Proof. intros Hd Hl. destruct (barrett_reduction_spec a Hd Hl) as (r & ? & _ & ? & ?). by exists r. Qed.

(** Inversion modulo a prime: [invert] ends, within [64 * DIGITS + 2]
    rounds, and the product of a number and its inverse is 1 modulo the
    modulus; zero, which has no inverse, gives zero. *)
Theorem invert_correct a :
  Z.prime (value _mod) → Z.odd (value _mod) = true → reduced a →
  ∃ r, invert a = Some r ∧ reduced r ∧
    if decide (value a = 0) then value r = 0 else (value r * value a) mod value _mod = 1.
Proof.
  intros Hp Ho Ha. case_decide as Hz.
  - destruct (invert_zero a (proj1 Ha) Hz) as (r & ? & ? & ?). by exists r.
  - pose proof (wf_value a (proj1 Ha)). destruct Ha as [Hw Hlt].
    apply invert_value; [done | by split |]. rewrite Z.gcd_comm. apply Z.coprime_prime_small; [done | lia].
Qed.

(** Randomness: [randomize] gives a number below the modulus, whatever the seed. *)
Theorem randomize_reduced seed : reduced (randomize seed).1.
Proof. apply randomize_value. Qed.
End properties.

(** ** Witnesses *)

Lemma reduced_16 a : wf (HB := Bignum_16) a → (value a <? value (_mod (Bignum := Bignum_16))) = true → reduced (HB := Bignum_16) a.
Proof. intros Hw Hlt. split; [done | by apply Z.ltb_lt]. Qed.

Definition a16 : word := [0xffffffff; 0xffffffff; 0; 0xfffffff0].
Definition b16 : word := [5; 0; 0xffffffff; 0x80000000].

Lemma a16_reduced : reduced (HB := Bignum_16) a16.
Proof. apply reduced_16; [|reflexivity]. split; [|reflexivity]. apply (bool_decide_unpack _); vm_compute; exact I. Qed.
Lemma b16_reduced : reduced (HB := Bignum_16) b16.
Proof. apply reduced_16; [|reflexivity]. split; [|reflexivity]. apply (bool_decide_unpack _); vm_compute; exact I. Qed.

Example modular_operations_witness :
  value (add_assign (H := Bignum_16) a16 b16) = (value a16 + value b16) mod (2 ^ 128 - 2 ^ 97 - 1).
Proof. exact (proj2 (proj1 (modular_operations (HB := Bignum_16) a16 b16 a16_reduced b16_reduced))). Defined.

Example barrett_reduction_correct_witness :
  ∃ r, barrett_reduction (H := Bignum_16) (a16 ++ b16) 4 = Some r ∧ length r = 4%nat ∧
    value r = value (a16 ++ b16) mod (2 ^ 128 - 2 ^ 97 - 1).
Proof.
  apply (barrett_reduction_correct (HB := Bignum_16) (a16 ++ b16)); [|reflexivity].
  apply (bool_decide_unpack _); vm_compute; exact I.
Defined.

(** A small instance, its modulus one digit. *)
Definition Bignum_7 : Bignum := {| DIGITS := 1; _mod := [7]; _barrett_u := [2454267026; 613566756] |}.

#[export] Instance Bignum_7_laws : BignumLaws Bignum_7.
Proof.
  split; [by split; [cbn; lia|] | | | reflexivity | by split];
    (split; [|done]; apply (bool_decide_unpack _); vm_compute; exact I).
Qed.

Example invert_correct_witness :
  ∃ r, invert (H := Bignum_7) [3] = Some r ∧ (value r * 3) mod 7 = 1.
Proof.
  destruct (invert_correct (HB := Bignum_7) [3] prime_7 eq_refl) as (r & E & _ & H).
  - split; [split; [|reflexivity] | reflexivity]. apply (bool_decide_unpack _); vm_compute; exact I.
  - exists r. split; [exact E | exact H].
Defined.
