(* ===== verification/SelfTest.v ===== *)
(** * The big-number self test and its checker together

    tests/bignum_test/bignum_test.cc prints random operations of the C++
    class; tools/epossectst/eposbignumtst.py recomputes them.  [test_main] is
    the list of lines the first prints; the theorem composes the two sides,
    each through its own specification. *)

From Stdlib Require Import ZArith Znumtheory Zmod.
From stdpp Require Import base numbers list option strings.
From S2P Require Import Prelude PyStr Digits Bignum BignumTest.

(** [<< endl] *)
Definition endl (s : pystr) : pystr := s ++ [10].

Section test_program.
Context `{Bignum}.

(** One pass of the loop: four operations on random numbers. *)
Definition iteration (seed : Z) : option (list operation * Z) :=
  let '(a, seed) := randomize seed in let '(b, seed) := randomize seed in
  let plus := Operation (chr "+") a b (add_assign a b) in
  let '(a, seed) := randomize seed in let '(b, seed) := randomize seed in
  let minus := Operation (chr "-") a b (sub_assign a b) in
  let '(a, seed) := randomize seed in let '(b, seed) := randomize seed in
  times ← mul_assign a b;
  let times := Operation (chr "*") a b times in
  let '(a', seed) := randomize seed in let '(b', seed) := randomize seed in
  inv ← invert b';
  quot ← mul_assign a' inv;
  let quot := Operation (chr "/") a' b' quot in
  Some ([plus; minus; times; quot], seed).

Fixpoint iterations (n : nat) (seed : Z) : option (list operation) :=
  match n with
  | O => Some []
  | S n' => '(os, seed) ← iteration seed; os' ← iterations n' seed; Some (os ++ os')
  end.

Definition pair_line (a b : word) : pystr :=
  endl (lit "a = " ++ bignum_text a ++ lit ", b = " ++ bignum_text b).

(** [a + b] and [a * b] of two [Bignum]s: there is no such operator, the
    operands are converted to [unsigned int]. *)
Definition sum_line (a b : word) : pystr := endl (lit "a + b = " ++ str_int (u32 (to_uint a + to_uint b))).
Definition product_line (a b : word) : pystr := endl (lit "a * b = " ++ str_int (u32 (to_uint a * to_uint b))).

Definition head_lines : list pystr :=
  [endl (lit "Bignum Utility Test");
   endl (lit "sizeof(Bignum<16>) = " ++ str_int (4 * Z.of_nat DIGITS) ++ lit " bytes.")].

Definition middle_lines (seed : Z) : list pystr :=
  let a := of_uint 0 in let b := of_uint 1 in
  let a2 := of_uint 100000000 in let b2 := of_uint 200000000 in
  let a3 := of_bytes DIGITS (take 16 (lit "10000000000000000000000000000000")) in
  let b3 := of_bytes DIGITS (take 16 (lit "20000000000000000000000000000000")) in
  [pair_line a b; sum_line a b; product_line a b;
   pair_line a2 b2; sum_line a2 b2;
   pair_line a3 b3; endl (lit "a + b = " ++ bignum_text (add_assign a3 b3));
   endl (lit "Random seed = " ++ str_int (u32 seed))].

(** The lines in order; [seed] is the generator's when the program starts and
    [n] is [ITERATIONS]. *)
Definition test_main (n : nat) (seed : Z) : option (list pystr) :=
  let '(seed, _) := random seed in
  os ← iterations n seed;
  Some (head_lines ++ [endl (lit "sizeof(Bignum<16>::Digit) = 4 bytes.")] ++
        middle_lines seed ++
        [endl (lit "Modulo = " ++ bignum_text (sub_assign (of_uint 0) (of_uint 1)) ++ lit " + 1")] ++
        concat (operation_lines <$> os) ++ [endl (lit "Done!")]).
End test_program.

(** ** The operations are right *)

Section operations.
Context `{HB : Bignum, HL : !BignumLaws HB}.
Context (Hprime : Z.prime (value _mod)) (Hodd : Z.odd (value _mod) = true).

Definition right (o : operation) : Prop := good_operation o ∧ ¬ wrong (value _mod) o.

Lemma wf_good a : wf a → good_digits a.
Proof using HL.
  intros [Hd Hl]. split.
  - intros ->. destruct bl_size. cbn in Hl. lia.
  - eapply Forall_impl; [exact Hd|]. cbn. lia.
Qed.

Lemma right_operation op a b c :
  known_op op → reduced a → reduced b → reduced c →
  correct_result (value _mod) op (value a) (value b) = value c → right (Operation op a b c).
Proof using HL.
  intros Hop [Ha _] [Hb _] [Hc _] E. split; [split_and!; [done | by apply wf_good..]|]. intros Hw. by apply Hw.
Qed.

(** The quotient by [invert], zero divisor included, is the one the checker
    computes by Fermat's theorem. *)
Lemma quotient_right a b inv q :
  reduced a → reduced b → reduced inv →
  (if decide (value b = 0) then value inv = 0 else (value inv * value b) mod value _mod = 1) →
  value q = (value a * value inv) mod value _mod → reduced q →
  right (Operation (chr "/") a b q).
Proof using HL Hprime Hodd.
  intros Ha Hb Hi Hinv Hq Hrq. apply right_operation; [by right; right; right | done..|].
  pose proof m_bounds as Hm. rewrite Hq. change (correct_result (value _mod) (chr "/") (value a) (value b))
    with ((value a * value b ^ (value _mod - 2)) mod value _mod).
  pose proof (wf_value b (proj1 Hb)) as Bb. destruct Hb as [_ Hlt]. case_decide as Hz.
  - rewrite Hinv, Hz. destruct (Z.eq_dec (value _mod) 2) as [E2|E2].
    + rewrite E2 in Hodd. done.
    + rewrite Z.pow_0_l by lia. done.
  - pose proof (Z.fermat_nz (value _mod) (value b) Hprime) as Hf. rewrite Z.mod_small in Hf by lia.
    specialize (Hf Hz). set (m := value _mod) in *. set (x := value b) in *.
    replace (m - 1) with (m - 2 + 1) in Hf by lia. rewrite Z.pow_add_r, Z.pow_1_r in Hf by lia.
    generalize dependent (x ^ (m - 2)). intros p Hp.
    assert (p mod m = value inv mod m) as E.
    { rewrite <- (Z.mul_1_r p), <- Hinv, Z.mul_mod_idemp_r by lia.
      replace (p * (value inv * x)) with (value inv * (p * x)) by lia.
      rewrite <- Z.mul_mod_idemp_r, Hp, Z.mul_1_r by lia. done. }
    rewrite <- (Z.mul_mod_idemp_r _ p), E, Z.mul_mod_idemp_r by lia. done.
Qed.

Ltac next_random a s R :=
  match goal with |- context [randomize ?x] =>
    pose proof (randomize_value x) as R; destruct (randomize x) as [a s]; cbn [fst] in R
  end.

Lemma iteration_right seed :
  ∃ os seed', iteration seed = Some (os, seed') ∧ Forall right os ∧ zlen os = 4.
Proof using HL Hprime Hodd.
  unfold iteration.
  next_random a1 s1 A1. next_random b1 s2 B1. next_random a2 s3 A2. next_random b2 s4 B2.
  next_random a3 s5 A3. next_random b3 s6 B3.
  destruct (mul_assign_value a3 b3 A3 (proj1 B3)) as (t & -> & Rt & Vt). cbn [mbind option_bind].
  next_random a4 s7 A4. next_random b4 s8 B4.
  assert (∃ inv, invert b4 = Some inv ∧ reduced inv ∧
    if decide (value b4 = 0) then value inv = 0 else (value inv * value b4) mod value _mod = 1) as (inv & -> & Ri & Vi).
  { case_decide as Hz; [by apply (invert_zero b4 (proj1 B4))|]. pose proof (wf_value b4 (proj1 B4)).
    apply invert_value; [done..|]. rewrite Z.gcd_comm. apply Z.coprime_prime_small; [done | destruct B4; lia]. }
  cbn [mbind option_bind].
  destruct (mul_assign_value a4 inv A4 (proj1 Ri)) as (q & -> & Rq & Vq). cbn [mbind option_bind].
  destruct (add_assign_value a1 b1 A1 B1) as [Ra Va]. destruct (sub_assign_value a2 b2 A2 B2) as [Rs Vs].
  do 2 eexists. split; [done|]. split; [|done]. repeat (apply Forall_cons; split); [..|constructor].
  - apply right_operation; [by left | done..|]. by rewrite Va.
  - apply right_operation; [by right; left | done..|]. by rewrite Vs.
  - apply right_operation; [by right; right; left | done..|]. by rewrite Vt.
  - by apply (quotient_right a4 b4 inv q).
Qed.

Lemma iterations_right n seed :
  ∃ os, iterations n seed = Some os ∧ Forall right os ∧ zlen os = 4 * Z.of_nat n.
Proof using HL Hprime Hodd.
  revert seed; induction n as [|n IH]; intros seed; cbn [iterations].
  - exists []. split_and!; [done | constructor | done].
  - destruct (iteration_right seed) as (os & seed' & -> & Hr & Hl). cbn [mbind option_bind].
    destruct (IH seed') as (os' & -> & Hr' & Hl'). cbn [mbind option_bind].
    exists (os ++ os'). rewrite zlen_app, Hl, Hl'. split_and!; [done | by apply Forall_app | lia].
Qed.

Lemma right_count os : Forall right os → wrong_count (value _mod) os = 0 ∧ Forall good_operation os.
Proof.
  unfold wrong_count. induction 1 as [|o os [Hg Hw] _ [IH1 IH2]]; [by split|].
  rewrite filter_cons_False by done. split; [done | by constructor].
Qed.

(** Zero less one is the modulus less one. *)
Lemma minus_one : reduced (sub_assign (of_uint 0) (of_uint 1)) ∧
  value (sub_assign (of_uint 0) (of_uint 1)) = value _mod - 1.
Proof using HL.
  destruct (of_uint_spec 0 ltac:(done)) as [W0 V0]. destruct (of_uint_spec 1 ltac:(done)) as [W1 V1].
  pose proof m_bounds as Hm.
  destruct (sub_assign_value (of_uint 0) (of_uint 1)) as [Hr Hv]; [split; [done|lia] | split; [done|lia] |].
  split; [done|]. rewrite Hv, V0, V1. symmetry. apply (Z.mod_unique _ _ (-1)); lia.
Qed.
End operations.

(** ** The lines without interest *)

Section lines.
Context `{Unicode}.

Lemma find_from_none k (s : pystr) c sub : c ∉ s → find_from k s (c :: sub) = -1.
Proof.
  revert k; induction s as [|x s IH]; intros k Hc; cbn; [done|].
  apply not_elem_of_cons in Hc as [Hx Hc]. rewrite (proj2 (Z.eqb_neq c x)) by done. by apply IH.
Qed.

(** A line whose last character is not a space, and what the checker's two
    searches think of it. *)
Lemma plain_line c (s : pystr) x :
  c ≠ chr "M" → c ≠ chr "D" → is_space x = false → no_modulo (endl (c :: s ++ [x])).
Proof.
  intros Hm Hd Hx. assert (rstrip (endl (c :: s ++ [x])) = c :: s ++ [x]) as Hr
    by exact (rstrip_nl (c :: s) x Hx).
  unfold no_modulo, ordinary. rewrite Hr, !slice_nonneg by done.
  split_and!; [done | | |]; intros [= E _]; done.
Qed.

Lemma str_int_last n : 0 ≤ n → ∃ s x, str_int n = s ++ [x] ∧ is_space x = false.
Proof.
  intros Hn. unfold str_int. rewrite (proj2 (Z.ltb_ge n 0)) by done.
  destruct (exists_last (render_nonempty 10 n)) as (s & x & E). exists s, x. split; [done|].
  pose proof (render_digits 10 n ltac:(done) Hn) as Hd. rewrite E in Hd.
  apply Forall_app in Hd as [_ Hx]. apply Forall_cons in Hx as [Hx _].
  apply is_digit_plain in Hx as (Hx & _ & _). unfold is_space, ascii_space.
  rewrite (proj2 (Z.ltb_lt x 128)) by lia. repeat (rewrite (proj2 (Z.leb_gt x _)) by lia).
  rewrite (proj2 (Z.eqb_neq x 32)) by lia. rewrite !andb_false_r. done.
Qed.

Lemma plain_number c s n :
  c ≠ chr "M" → c ≠ chr "D" → 0 ≤ n → no_modulo (endl (c :: s ++ str_int n)).
Proof.
  intros Hm Hd Hn. destruct (str_int_last n Hn) as (t & x & -> & Hx). rewrite app_assoc. by apply plain_line.
Qed.

Lemma plain_bignum c s (b : word) :
  c ≠ chr "M" → c ≠ chr "D" → no_modulo (endl (c :: s ++ bignum_text b)).
Proof. intros Hm Hd. unfold bignum_text. rewrite !app_assoc. by apply plain_line. Qed.

Lemma plain_pair (a b : word) : no_modulo (pair_line a b).
Proof.
  unfold pair_line. rewrite (app_assoc (bignum_text a)), app_assoc.
  apply (plain_bignum (chr "a") (lit " = " ++ bignum_text a ++ lit ", b = ")); done.
Qed.

Lemma u32_nonneg x : 0 ≤ u32 x.
Proof. apply u32_digit. Qed.

Lemma middle_lines_plain `{Bignum} seed : Forall no_modulo (middle_lines seed).
Proof.
  unfold middle_lines, sum_line, product_line.
  repeat (apply Forall_cons; split); [..|constructor].
  1, 4, 6: apply plain_pair.
  - by apply (plain_number (chr "a") (lit " + b = ")), u32_nonneg.
  - by apply (plain_number (chr "a") (lit " * b = ")), u32_nonneg.
  - by apply (plain_number (chr "a") (lit " + b = ")), u32_nonneg.
  - by apply (plain_bignum (chr "a") (lit " + b = ")).
  - by apply (plain_number (chr "R") (lit "andom seed = ")), u32_nonneg.
Qed.

Lemma head_lines_plain `{Bignum} :
  Forall (λ x, ordinary x ∧ announces_size (rstrip x) = false) head_lines.
Proof.
  unfold head_lines. repeat (apply Forall_cons; split); [..|constructor].
  - split; [|reflexivity]. apply (plain_line (chr "B") (lit "ignum Utility Tes") (chr "t")); done.
  - set (s := lit "izeof(Bignum<16>) = " ++ str_int (4 * Z.of_nat DIGITS) ++ lit " bytes").
    assert (lit "sizeof(Bignum<16>) = " ++ str_int (4 * Z.of_nat DIGITS) ++ lit " bytes." = chr "s" :: s ++ [chr "."]) as ->.
    { unfold s. rewrite <- !app_assoc. done. }
    split; [by apply plain_line|]. 
    assert (rstrip (endl (chr "s" :: s ++ [chr "."])) = chr "s" :: s ++ [chr "."]) as ->
      by exact (rstrip_nl (chr "s" :: s) (chr ".") eq_refl).
    assert (find (chr "s" :: s ++ [chr "."]) (lit "::Digit") = -1) as Hn.
    { apply (find_from_none 0 _ (chr ":") (lit ":Digit")). unfold s.
      rewrite not_elem_of_cons, !not_elem_of_app. split; [done|].
      split; [split; [|split; [apply str_int_not_in; [lia|done]|]]|];
        apply (bool_decide_unpack (_ ∉ _)); reflexivity. }
    unfold announces_size. rewrite Hn. by rewrite andb_false_r.
Qed.
End lines.

(** C27 The self test passes its own check.  For every instance of the class
    whose constants satisfy their laws and whose modulus is an odd prime, any
    number of rounds and any seed, the program terminates, its printed output
    is read by the checker to the end, every operation is counted, and the
    checker reports no error: the C++ arithmetic, the way numbers are
    printed, the script's parser and its own arithmetic agree. *)
Theorem self_test_passes `{Unicode, NegativePow} `{HB : Bignum, HL : !BignumLaws HB} n seed :
  Z.prime (value _mod) → Z.odd (value _mod) = true →
  ∃ lines s', test_main n seed = Some lines ∧ check_file lines = (Some (Raise SystemExit), s') ∧
    errors s' = 0 ∧ op_count s' = 4 * Z.of_nat n ∧ last (report s') = Some (Verification_done 0).
Proof.
  intros Hp Ho. unfold test_main. destruct (random seed) as [seed1 x].
  destruct (iterations_right Hp Ho n seed1) as (os & -> & Hr & Hl). cbn [mbind option_bind].
  destruct (right_count os Hr) as [Hc Hg]. destruct minus_one as [Rm Vm]. pose proof m_bounds as Hm.
  destruct (checker_counts head_lines (middle_lines seed1) (sub_assign (of_uint 0) (of_uint 1)) os)
    as (s' & E & H1 & H2 & H3).
  - apply head_lines_plain.
  - apply middle_lines_plain.
  - apply wf_good, Rm.
  - rewrite Vm. lia.
  - done.
  - rewrite Vm in H1. replace (value _mod - 1 + 1) with (value _mod) in H1 by lia. rewrite Hc in H1.
    eexists _, s'. split; [done|]. split_and!; [|done|congruence|congruence].
    rewrite <- E. unfold epos_output, endl, size_line, value_line. f_equal.
    by rewrite <- !app_assoc.
Qed.

Example self_test_passes_witness :
  ∃ lines s', test_main (H := Bignum_7) 3 42 = Some lines ∧
    check_file (H := ascii_only) (H0 := λ _ _ _, Raise ValueError) lines = (Some (Raise SystemExit), s') ∧ errors s' = 0.
Proof.
  destruct (self_test_passes (H := ascii_only) (H0 := λ _ _ _, Raise ValueError) (HB := Bignum_7) 3 42 prime_7 eq_refl)
    as (lines & s' & H1 & H2 & H3 & _).
  exists lines, s'. split_and!; [exact H1 | exact H2 | exact H3].
Defined.
