(* ===== verification/StateM.v ===== *)
(** * Programs on a state that may be stuck

    The methods of the kernel's classes are functions of a state that fail
    where the code would follow a null or dangling pointer, or stop at an
    assertion: [ST S A].  [wp c Q s] is total correctness: [c] returns from
    [s], in a state and with a result of [Q]. *)

From stdpp Require Import base option.
From S2P Require Import Prelude.

Definition ST (S A : Type) : Type := S → option (A * S).
#[export] Instance ST_ret S : MRet (ST S) := λ A a s, Some (a, s).
#[export] Instance ST_bind S : MBind (ST S) := λ A B k c s, '(a, s) ← c s; k a s.

Section programs.
Context {S : Type}.
Implicit Types s : S.

Definition stuck {A} : ST S A := λ _, None.
(** A pointer about to be followed. *)
Definition deref {A} (p : option A) : ST S A := λ s, e ← p; Some (e, s).

Definition wp {A} (c : ST S A) (Q : A → S → Prop) s : Prop :=
  match c s with Some (a, s') => Q a s' | None => False end.

Lemma wp_seq {A B} (c : ST S A) (k : A → ST S B) Q s : wp c (λ a, wp (k a) Q) s → wp (c ≫= k) Q s.
Proof. unfold wp, mbind, ST_bind. simpl. destruct (c s) as [[a s']|]; done. Qed.

Lemma wp_ret {A} (a : A) (Q : A → S → Prop) s : Q a s → wp (mret a) Q s.
Proof. done. Qed.

Lemma wp_deref {A} (e : A) (Q : A → S → Prop) s : Q e s → wp (deref (Some e)) Q s.
Proof. done. Qed.

Lemma wp_weaken {A} (c : ST S A) (P Q : A → S → Prop) s :
  wp c P s → (∀ a s', P a s' → Q a s') → wp c Q s.
Proof. unfold wp. destruct (c s) as [[a s']|]; [|done]. intros H HPQ. by apply HPQ. Qed.

Lemma wp_assoc {A B C} (c : ST S A) (k : A → ST S B) (k' : B → ST S C) Q s :
  wp ((c ≫= k) ≫= k') Q s → wp (c ≫= λ a, k a ≫= k') Q s.
Proof. unfold wp, mbind, ST_bind. simpl. by destruct (c s) as [[a s']|]. Qed.

Lemma wp_total {A} (c : ST S A) (Q : A → S → Prop) s : wp c Q s → ∃ a s', c s = Some (a, s') ∧ Q a s'.
Proof. unfold wp. destruct (c s) as [[a s']|]; [|done]. eauto. Qed.

Lemma wp_result {A} (c : ST S A) (Q : A → S → Prop) s a s' : c s = Some (a, s') → wp c Q s → Q a s'.
Proof. unfold wp. by intros ->. Qed.
Lemma wp_returns (c : ST S unit) (Q : S → Prop) s : wp c (λ _ s', Q s') s → ∃ s', c s = Some ((), s') ∧ Q s'.
Proof. intros ([] & s' & E & H)%wp_total. by exists s'. Qed.
End programs.
Arguments wp : simpl never.
