(* ===== verification/DList.v ===== *)
(** * Doubly-linked lists (include/utility/list.h, class List)

    The list class under every queue of the kernel, as a program over a
    memory of elements: [elements] maps the address of an element to its
    fields, [this] is the list object.  A method is a function of the memory
    that fails where the code would follow a null or dangling pointer.
    [Repr l] says that the memory holds exactly the list [l] of addresses;
    each method is proved to be the corresponding operation on [l].
    The debug output is left out. *)

From stdpp Require Import base numbers list option gmap.
From S2P Require Import Prelude StateM.
#[local] Set Warnings "-clear-no-such-hyp".

Abbreviation loc := positive.

(** Doubly_Linked, Doubly_Linked_Ordered, Doubly_Linked_Scheduling and
    Doubly_Linked_Grouping differ in one field: nothing, a rank, a criterion,
    a size. *)
Record element (R : Type) := Element {
  object : Z; rank : R; prev : option loc; next : option loc
}.
Arguments Element {R} _ _ _ _.
Arguments object {R} _.
Arguments rank {R} _.
Arguments prev {R} _.
Arguments next {R} _.

Definition set_prev {R} (p : option loc) (x : element R) : element R := Element (object x) (rank x) p (next x).
Definition set_next {R} (n : option loc) (x : element R) : element R := Element (object x) (rank x) (prev x) n.
Definition set_rank {R} (r : R) (x : element R) : element R := Element (object x) r (prev x) (next x).

(** The attributes of the class; [_size] is an [unsigned int]. *)
Record list_object := List { _size : Z; _head : option loc; _tail : option loc }.
Definition new_list : list_object := List 0 None None.

Record memory (R : Type) := Memory { elements : gmap loc (element R); this : list_object }.
Arguments Memory {R} _ _.
Arguments elements {R} _.
Arguments this {R} _.

(** ** Methods *)

Abbreviation M R := (ST (memory R)).

Section methods.
Context {R : Type}.
Implicit Types (e : loc) (m : memory R).

(** [e->field()] and [e->field(v)]. *)
Definition get {A} (f : element R → A) e : M R A := λ m, x ← elements m !! e; Some (f x, m).
Definition put (f : element R → element R) e : M R unit := λ m,
  _ ← elements m !! e; Some ((), Memory (alter f e (elements m)) (this m)).
Definition field {A} (f : list_object → A) : M R A := λ m, Some (f (this m), m).
Definition assign (f : list_object → list_object) : M R unit := λ m, Some ((), Memory (elements m) (f (this m))).

Definition set_head (p : option loc) : M R unit := assign (λ t, List (_size t) p (_tail t)).
Definition set_tail (p : option loc) : M R unit := assign (λ t, List (_size t) (_head t) p).
Definition resize (d : Z) : M R unit := assign (λ t, List ((_size t + d) mod 2 ^ 32) (_head t) (_tail t)).

Definition empty : M R bool := s ← field _size; mret (s =? 0).
Definition last : M R bool := s ← field _size; mret (s =? 1).

Definition insert_first e : M R unit :=
  _ ← put (set_prev None) e;
  _ ← put (set_next None) e;
  _ ← set_head (Some e);
  _ ← set_tail (Some e);
  resize 1.

Definition insert_head e : M R unit :=
  b ← empty;
  if b : bool then insert_first e else
  _ ← put (set_prev None) e;
  h ← field _head;
  _ ← put (set_next h) e;
  p ← deref h;
  _ ← put (set_prev (Some e)) p;
  _ ← set_head (Some e);
  resize 1.

Definition insert_tail e : M R unit :=
  b ← empty;
  if b : bool then insert_first e else
  t ← field _tail;
  p ← deref t;
  _ ← put (set_next (Some e)) p;
  t ← field _tail;
  _ ← put (set_prev t) e;
  _ ← put (set_next None) e;
  _ ← set_tail (Some e);
  resize 1.

(** [insert(e, p, n)]: between two elements. *)
Definition insert_between e (p n : option loc) : M R unit :=
  p' ← deref p;
  _ ← put (set_next (Some e)) p';
  n' ← deref n;
  _ ← put (set_prev (Some e)) n';
  _ ← put (set_prev p) e;
  _ ← put (set_next n) e;
  resize 1.

Definition remove_last : M R (option loc) :=
  e ← field _head;
  _ ← set_head None;
  _ ← set_tail None;
  _ ← resize (-1);
  mret e.

Definition remove_head : M R (option loc) :=
  b ← empty;
  if b : bool then mret None else
  b ← last;
  if b : bool then remove_last else
  h ← field _head;
  e ← deref h;
  n ← get next e;
  _ ← set_head n;
  n ← deref n;
  _ ← put (set_prev None) n;
  _ ← resize (-1);
  mret (Some e).

Definition remove_tail : M R (option loc) :=
  b ← empty;
  if b : bool then mret None else
  b ← last;
  if b : bool then remove_last else
  t ← field _tail;
  e ← deref t;
  p ← get prev e;
  _ ← set_tail p;
  p ← deref p;
  _ ← put (set_next None) p;
  _ ← resize (-1);
  mret (Some e).

(** [remove(Element * e)]; the result is the argument. *)
Definition remove e : M R loc :=
  b ← last;
  _ ← (if b : bool then remove_last else
       p ← get prev e;
       match p with
       | None => remove_head
       | Some p' =>
           n ← get next e;
           match n with
           | None => remove_tail
           | Some n' =>
               _ ← put (set_next n) p';
               _ ← put (set_prev p) n';
               _ ← resize (-1);
               mret None
           end
       end);
  mret e.

(** [for(e = _head; e && (e->object() != obj); e = e->next());]; a list that
    does not end within the elements there are never ends. *)
Fixpoint search_loop (fuel : nat) (p : option loc) (obj : Z) : M R (option loc) :=
  match p with
  | None => mret None
  | Some e =>
      o ← get object e;
      if o =? obj then mret (Some e)
      else match fuel with
           | O => stuck
           | S fuel' => n ← get next e; search_loop fuel' n obj
           end
  end.
Definition search (obj : Z) : M R (option loc) := λ m,
  search_loop (size (elements m)) (_head (this m)) obj m.

(** [remove(const Object_Type * obj)] *)
Definition remove_object (obj : Z) : M R (option loc) :=
  p ← search obj;
  match p with Some e => e ← remove e; mret (Some e) | None => mret None end.
End methods.

(** ** Total correctness of a method *)

Section wp.
Context {R : Type}.
Implicit Types (e : loc) (m : memory R).

Lemma wp_get {A} (f : element R → A) e x (Q : A → memory R → Prop) m : elements m !! e = Some x → Q (f x) m → wp (get f e) Q m.
Proof. intros E HQ. unfold wp, get. by rewrite E. Qed.
Lemma wp_store (f : element R → element R) e (Q : unit → memory R → Prop) m :
  is_Some (elements m !! e) → Q () (Memory (alter f e (elements m)) (this m)) → wp (put f e) Q m.
Proof. intros [x E] HQ. unfold wp, put. by rewrite E. Qed.
Lemma wp_field {A} (f : list_object → A) (Q : A → memory R → Prop) m : Q (f (this m)) m → wp (field f) Q m.
Proof. done. Qed.
Lemma wp_assign f (Q : unit → memory R → Prop) m : Q () (Memory (elements m) (f (this m))) → wp (assign f) Q m.
Proof. done. Qed.
End wp.

(** ** What no method does

    No method takes an element out of the memory. *)

Section steady.
Context {R : Type}.
Implicit Types (e : loc) (m : memory R).

Definition steady {A} (c : M R A) : Prop :=
  ∀ m a m' e, c m = Some (a, m') → is_Some (elements m !! e) → is_Some (elements m' !! e).

Lemma steady_bind {A B} (c : M R A) (k : A → M R B) : steady c → (∀ a, steady (k a)) → steady (c ≫= k).
Proof.
  intros Hc Hk m b m'' e. unfold mbind, ST_bind. simpl. destruct (c m) as [[a m']|] eqn:E; [|done].
  intros E' H. eapply Hk; [done|]. by eapply Hc.
Qed.
Lemma steady_ret {A} (a : A) : steady (mret a).
Proof. by intros m b m' e [= <- <-]. Qed.
Lemma steady_get {A} (f : element R → A) e : steady (get f e).
Proof. intros m b m' e'. unfold get. destruct (elements m !! e); [|done]. by intros [= <- <-]. Qed.
Lemma steady_field {A} (f : list_object → A) : steady (field f).
Proof. by intros m b m' e' [= <- <-]. Qed.
Lemma steady_deref {A} (p : option A) : steady (deref p).
Proof. intros m b m' e'. destruct p; [|done]. by intros [= <- <-]. Qed.
Lemma steady_assign f : steady (assign f).
Proof. by intros m b m' e' [= <- <-]. Qed.
Lemma steady_put f e : steady (put f e).
Proof.
  intros m b m' e'. unfold put. destruct (elements m !! e); [|done]. intros [= <- <-]. cbn. by rewrite lookup_alter_is_Some.
Qed.

Lemma wp_steady {A} (c : M R A) (Q : A → memory R → Prop) m :
  steady c → wp c Q m → wp c (λ a m', Q a m' ∧ ∀ e, is_Some (elements m !! e) → is_Some (elements m' !! e)) m.
Proof. intros Hs. unfold wp. destruct (c m) as [[a m']|] eqn:E; [|done]. intros HQ. split; [done|]. intros e. by eapply Hs. Qed.
End steady.
Create HintDb steady.
#[export] Hint Resolve steady_bind steady_ret steady_get steady_field steady_deref steady_assign steady_put : steady.

Lemma remove_head_steady {R} : steady (R := R) remove_head.
Proof.
  unfold remove_head, remove_last, empty, last, set_head, set_tail, resize.
  repeat (apply steady_bind; [auto 10 with steady|intros ?]). case_match; [auto with steady|].
  repeat (apply steady_bind; [auto 10 with steady|intros ?]). case_match; auto 20 with steady.
Qed.
#[export] Hint Resolve remove_head_steady : steady.

(** One statement of a method; elements are known by their presence. *)
Ltac wp_step :=
  cbn beta iota;
  lazymatch goal with
  | |- wp (mbind _ _) _ _ => apply wp_seq
  | |- wp (mret _) _ _ => apply wp_ret
  | |- wp (put _ _) _ _ => apply wp_store; [cbn [elements]; rewrite ?lookup_alter_is_Some; eauto | cbn [elements this]]
  | |- wp (deref _) _ _ => apply wp_deref
  | |- wp (field _) _ _ => apply wp_field; cbn [this _size _head _tail]
  | |- wp (resize _) _ _ => apply wp_assign; cbn [elements this _size _head _tail]
  | |- wp (set_head _) _ _ => apply wp_assign; cbn [elements this _size _head _tail]
  | |- wp (set_tail _) _ _ => apply wp_assign; cbn [elements this _size _head _tail]
  end.

(** ** Segments *)

Section segments.
Context {R : Type}.
Implicit Types (e : loc) (h : gmap loc (element R)) (a b c : option loc) (l : list loc).

Definition first_of l b : option loc := match l with [] => b | e :: _ => Some e end.
Definition last_of a l : option loc := match list.last l with Some e => Some e | None => a end.

(** The elements [l], linked both ways, after [a] and before [b]. *)
Fixpoint seg h a l b : Prop :=
  match l with
  | [] => True
  | e :: l' => (∃ x, h !! e = Some x ∧ prev x = a ∧ next x = first_of l' b) ∧ seg h (Some e) l' b
  end.

Lemma last_of_cons a e l : last_of a (e :: l) = last_of (Some e) l.
Proof. unfold last_of. rewrite last_cons. by destruct (list.last l). Qed.
Lemma last_of_snoc a l e : last_of a (l ++ [e]) = Some e.
Proof. unfold last_of. by rewrite last_snoc. Qed.
Lemma first_of_app l l' b : first_of (l ++ l') b = first_of l (first_of l' b).
Proof. by destruct l. Qed.

Lemma seg_app h a l l' b : seg h a (l ++ l') b ↔ seg h a l (first_of l' b) ∧ seg h (last_of a l) l' b.
Proof.
  revert a; induction l as [|e l IH]; intros a; cbn [app seg]; [tauto|].
  rewrite IH, first_of_app, last_of_cons. tauto.
Qed.

Lemma seg_in h a l b e : seg h a l b → e ∈ l → is_Some (h !! e).
Proof.
  revert a; induction l as [|y l IH]; intros a; cbn; [by intros _ ?%not_elem_of_nil|].
  intros [(x & E & _) Hs] [->|He]%elem_of_cons; eauto.
Qed.

Lemma seg_frame h h' a l b : (∀ e, e ∈ l → h' !! e = h !! e) → seg h a l b → seg h' a l b.
Proof.
  revert a; induction l as [|y l IH]; intros a Hf; cbn; [done|]. intros [(x & E & Hp) Hs]. split.
  - exists x. rewrite Hf by (by left). done.
  - apply IH; [|done]. intros e He. apply Hf. by right.
Qed.

Lemma seg_alter f h a l b e : e ∉ l → seg h a l b → seg (alter f e h) a l b.
Proof. intros He. apply seg_frame. intros y Hy. apply lookup_alter_ne. by intros ->. Qed.

(** Relinking the ends. *)
Lemma seg_set_next h a l b c e : e ∉ l → seg h a (l ++ [e]) b → seg (alter (set_next c) e h) a (l ++ [e]) c.
Proof.
  intros He. rewrite !seg_app. intros [Hl [(x & E & Hp & _) _]]. cbn in *. split; [by apply seg_alter|].
  split; [|done]. exists (set_next c x). by rewrite lookup_alter_eq, E.
Qed.
Lemma seg_set_prev h a l b c e : e ∉ l → seg h a (e :: l) b → seg (alter (set_prev c) e h) c (e :: l) b.
Proof.
  intros He [(x & E & _ & Hn) Hs]. split; [|by apply seg_alter].
  exists (set_prev c x). by rewrite lookup_alter_eq, E.
Qed.
Lemma seg_new h a b e :
  is_Some (h !! e) → seg (alter (set_next b) e (alter (set_prev a) e h)) a [e] b.
Proof. intros [x E]. split; [|done]. exists (set_next b (set_prev a x)). by rewrite !lookup_alter_eq, E. Qed.

(** Whatever links change, objects and ranks do not, and nothing outside [l]
    does. *)
Definition payload (x : element R) : Z * R := (object x, rank x).
Definition keeps l h h' : Prop :=
  (∀ e, e ∉ l → h' !! e = h !! e) ∧ (∀ e, payload <$> h' !! e = payload <$> h !! e).

Lemma keeps_refl l h : keeps l h h.
Proof. done. Qed.
Lemma keeps_trans l h h' h'' : keeps l h h' → keeps l h' h'' → keeps l h h''.
Proof.
  intros [H1 H2] [H3 H4]. split; [|intros e; by rewrite H4].
  intros e He. by rewrite H3, H1.
Qed.
Lemma keeps_weaken l l' h h' : l ⊆ l' → keeps l h h' → keeps l' h h'.
Proof. intros Hl [H1 H2]. split; [|done]. intros e He. apply H1. set_solver. Qed.
Lemma keeps_alter l f h h' e :
  e ∈ l → (∀ x, payload (f x) = payload x) → keeps l h h' → keeps l h (alter f e h').
Proof.
  intros He Hf [H1 H2]. split.
  - intros y Hy. rewrite lookup_alter_ne by (by intros ->). by apply H1.
  - intros y. rewrite <- H2. destruct (decide (e = y)) as [->|Hn]; [|by rewrite lookup_alter_ne].
    rewrite lookup_alter_eq. destruct (h' !! y); [|done]. cbn. by rewrite Hf.
Qed.
End segments.

(** ** The list a memory holds *)

Record Repr {R} (l : list loc) (m : memory R) : Prop := {
  repr_seg : seg (elements m) None l None;
  repr_nodup : NoDup l;
  repr_small : Z.of_nat (length l) < 2 ^ 32;
  repr_this : this m = List (Z.of_nat (length l)) (first_of l None) (last_of None l)
}.

Ltac keeps_links :=
  repeat (apply keeps_alter; [clear; set_solver | done |]); apply keeps_refl.

Section lists.
Context {R : Type}.
Implicit Types (e : loc) (m : memory R) (l : list loc).

Lemma wp_empty l m (Q : bool → memory R → Prop) : Repr l m → Q (bool_decide (l = [])) m → wp empty Q m.
Proof.
  intros [_ _ _ E] HQ. unfold empty. wp_step. wp_step. wp_step. rewrite E. cbn. destruct l; [done|].
  by rewrite (proj2 (Z.eqb_neq _ 0)) by (cbn; lia).
Qed.

Lemma wp_last l m (Q : bool → memory R → Prop) : Repr l m → Q (bool_decide (length l = 1%nat)) m → wp last Q m.
Proof.
  intros [_ _ _ E] HQ. unfold last. wp_step. wp_step. wp_step. rewrite E. cbn.
  replace (Z.of_nat (length l) =? 1) with (bool_decide (length l = 1%nat)); [done|].
  case_bool_decide as H; symmetry; [apply Z.eqb_eq | apply Z.eqb_neq]; lia.
Qed.

(** An element that may be inserted. *)
Definition fresh_for l m e : Prop := (e ∉ l) ∧ is_Some (elements m !! e) ∧ Z.of_nat (length l) + 1 < 2 ^ 32.

Lemma size_add n d k : n + d = k → 0 ≤ k < 2 ^ 32 → (n + d) mod 2 ^ 32 = k.
Proof. intros -> H. by apply Z.mod_small. Qed.

Lemma insert_first_spec e m :
  Repr [] m → fresh_for [] m e →
  wp (insert_first e) (λ _ m', Repr [e] m' ∧ keeps [e] (elements m) (elements m')) m.
Proof.
  destruct m as [h t]. intros [Hs Hn Hl E] (He & Hin & Hsz). cbn in *. subst t.
  unfold insert_first. repeat wp_step. split; [split|].
  - by apply seg_new.
  - apply NoDup_singleton.
  - done.
  - done.
  - cbn. keeps_links.
Qed.

Lemma insert_head_spec e l m :
  Repr l m → fresh_for l m e →
  wp (insert_head e) (λ _ m', Repr (e :: l) m' ∧ keeps (e :: l) (elements m) (elements m')) m.
Proof.
  destruct m as [h t]. intros Hr Hf. unfold insert_head. wp_step. apply (wp_empty l); [done|]. case_bool_decide as El.
  { subst. by apply insert_first_spec. }
  destruct Hr as [Hs Hn Hl E], Hf as (He & Hin & Hsz). cbn in *. subst t. destruct l as [|y l]; [done|].
  apply not_elem_of_cons in He as [Hey He]. assert (is_Some (h !! y)) as Hy by (eapply seg_in; [done|by left]).
  repeat wp_step. apply NoDup_cons in Hn as [Hyl Hn]. split; [split|].
  - change (seg ?h ?a (e :: y :: l) ?b) with (seg h a ([e] ++ (y :: l)) b). rewrite seg_app. split.
    + apply seg_alter; [by apply not_elem_of_cons; split; [done|apply not_elem_of_nil]|]. by apply seg_new.
    + apply (seg_set_prev _ None); [done|]. do 2 (apply seg_alter; [by apply not_elem_of_cons|]). done.
  - apply NoDup_cons. split; [by apply not_elem_of_cons | by apply NoDup_cons].
  - cbn in *. lia.
  - cbn. f_equal. apply size_add; cbn in *; lia.
  - cbn. keeps_links.
Qed.

Lemma insert_tail_spec e l m :
  Repr l m → fresh_for l m e →
  wp (insert_tail e) (λ _ m', Repr (l ++ [e]) m' ∧ keeps (e :: l) (elements m) (elements m')) m.
Proof.
  destruct m as [h t]. intros Hr Hf. unfold insert_tail. wp_step. apply (wp_empty l); [done|]. case_bool_decide as El.
  { subst. by apply insert_first_spec. }
  destruct Hr as [Hs Hn Hl E], Hf as (He & Hin & Hsz). cbn in *. subst t.
  destruct l as [|y l _] using rev_ind; [done|].
  apply not_elem_of_app in He as [He Hey]. apply not_elem_of_cons in Hey as [Hey _].
  assert (is_Some (h !! y)) as Hy by (eapply seg_in; [done|set_solver]).
  rewrite last_of_snoc. repeat wp_step.
  rewrite length_app in *. cbn [length] in *.
  apply NoDup_app in Hn as (Hn & Hyl & _).
  assert (y ∉ l) as Hyl' by (intros H; by apply (Hyl y H), list_elem_of_singleton). split; [split|].
  - rewrite seg_app. cbn [first_of app]. split.
    + do 2 (apply seg_alter; [set_solver|]). by apply (seg_set_next _ _ _ None).
    + rewrite last_of_snoc. apply seg_new. cbn. rewrite lookup_alter_is_Some. done.
  - apply NoDup_app. split_and!; [| set_solver |apply NoDup_singleton]. apply NoDup_app. split_and!; [done|set_solver|apply NoDup_singleton].
  - rewrite !length_app. cbn. lia.
  - cbn. f_equal; [rewrite !length_app; apply size_add; cbn; lia | by rewrite <- app_assoc; destruct l | by rewrite last_of_snoc].
  - cbn. keeps_links.
Qed.

Lemma insert_between_spec e l1 p n l2 m :
  let l := l1 ++ p :: n :: l2 in
  Repr l m → fresh_for l m e →
  wp (insert_between e (Some p) (Some n))
    (λ _ m', Repr (l1 ++ p :: e :: n :: l2) m' ∧ keeps (e :: l) (elements m) (elements m')) m.
Proof.
  destruct m as [h t]. intros l [Hs Hn Hl E] (He & Hin & Hsz). cbn in *. subst l t.
  assert (is_Some (h !! p) ∧ is_Some (h !! n)) as [Hp Hnn]
    by (split; (eapply seg_in; [done|set_solver])).
  unfold insert_between. repeat wp_step.
  rewrite (app_assoc l1 [p] (n :: l2) : l1 ++ p :: n :: l2 = _) in *.
  apply NoDup_app in Hn as (Hn1 & Hn12 & Hn2). apply NoDup_app in Hn1 as (Hn1 & Hp1 & _).
  apply NoDup_cons in Hn2 as [Hnl2 Hn2]. rewrite !not_elem_of_app, !not_elem_of_cons in He.
  assert (p ∉ l1) as Hpl1 by (intros H; by apply (Hp1 p H), list_elem_of_singleton).
  assert (n ∉ l1 ++ [p]) as Hnp by (intros H; apply (Hn12 n H); by left).
  assert (p ∉ n :: l2) as Hpn by (apply Hn12; set_solver).
  apply seg_app in Hs as [S1 S2]. rewrite last_of_snoc in S2. split; [split|].
  - rewrite (app_assoc l1 [p] (e :: n :: l2) : l1 ++ p :: e :: n :: l2 = _), seg_app, last_of_snoc.
    cbn [first_of]. split.
    + do 2 (apply seg_alter; [set_solver|]). apply seg_alter; [done|]. by apply (seg_set_next _ _ _ (Some n)).
    + change (e :: n :: l2) with ([e] ++ n :: l2). rewrite seg_app. cbn [first_of last_of list.last]. split.
      * apply seg_new. cbn. by rewrite !lookup_alter_is_Some.
      * do 2 (apply seg_alter; [set_solver|]). apply (seg_set_prev _ (Some p)); [done|].
        by apply seg_alter.
  - rewrite (app_assoc l1 [p] (e :: n :: l2) : l1 ++ p :: e :: n :: l2 = _).
    apply NoDup_app. split_and!.
    + apply NoDup_app. split_and!; [done|set_solver|apply NoDup_singleton].
    + set_solver.
    + apply NoDup_cons. split; [set_solver | by apply NoDup_cons].
  - rewrite !length_app in *. cbn in *. lia.
  - cbn. f_equal.
    + rewrite !length_app in *. apply size_add; cbn in *; lia.
    + rewrite <- app_assoc. by destruct l1.
    + rewrite <- app_assoc. cbn [app]. unfold last_of. by rewrite !last_app.
  - cbn. keeps_links.
Qed.

(** Removing leaves the removed element's own links alone. *)
Lemma remove_last_spec e m :
  Repr [e] m → wp remove_last (λ r m', r = Some e ∧ Repr [] m' ∧ elements m' = elements m) m.
Proof.
  destruct m as [h t]. intros [Hs Hn Hl E]. cbn in *. subst t. unfold remove_last. repeat wp_step.
  split_and!; [done| |done]. split; [done | constructor | done | done].
Qed.

Lemma remove_head_spec l m :
  Repr l m →
  wp remove_head (λ r m', r = head l ∧ Repr (tail l) m' ∧ keeps (tail l) (elements m) (elements m')) m.
Proof.
  destruct m as [h t]. intros Hr. unfold remove_head. wp_step. apply (wp_empty l); [done|].
  case_bool_decide as El; [subst; wp_step; split_and!; [done | done | apply keeps_refl]|].
  wp_step. apply (wp_last l); [done|]. case_bool_decide as H1.
  { destruct l as [|e [|? ?]]; try done. eapply wp_weaken; [by apply remove_last_spec|].
    intros r m' (-> & ? & ->). split_and!; [done | done | apply keeps_refl]. }
  destruct Hr as [Hs Hn Hl E]. cbn in *. subst t. destruct l as [|e [|y l]]; [done..|].
  destruct Hs as [(x & Ex & _ & Hx) Hs]. cbn in Hx. pose proof Hs as [(x' & Ey & _) _].
  repeat wp_step. eapply wp_get; [done|]. rewrite Hx. repeat wp_step.
  apply NoDup_cons in Hn as [Hey Hn]. pose proof Hn as [Hyl _]%NoDup_cons. split_and!; [done|split|].
  - by apply (seg_set_prev _ (Some e)).
  - done.
  - cbn in *. lia.
  - cbn. f_equal. apply size_add; cbn in *; lia.
  - cbn. keeps_links.
Qed.

Lemma remove_tail_spec l e m :
  Repr (l ++ [e]) m →
  wp remove_tail (λ r m', r = Some e ∧ Repr l m' ∧ keeps l (elements m) (elements m')) m.
Proof.
  destruct m as [h t]. intros Hr. unfold remove_tail. wp_step. apply (wp_empty (l ++ [e])); [done|].
  case_bool_decide as El; [by destruct l|]. clear El.
  wp_step. apply (wp_last (l ++ [e])); [done|]. case_bool_decide as H1.
  { destruct l as [|? l]; [|rewrite length_app in H1; cbn in H1; lia].
    eapply wp_weaken; [by apply remove_last_spec|]. intros r m' (-> & ? & ->). split_and!; [done | done | apply keeps_refl]. }
  destruct Hr as [Hs Hn Hl E]. cbn in *. subst t. destruct l as [|y l _] using rev_ind; [done|].
  rewrite length_app in *. cbn [length] in *.
  apply seg_app in Hs as [Hs [(x & Ex & Hx & _) _]]. rewrite last_of_snoc in *. cbn [first_of] in Hs.
  assert (is_Some (h !! y)) as Hy by (eapply seg_in; [done|set_solver]).
  repeat wp_step. eapply wp_get; [done|]. rewrite Hx. repeat wp_step.
  apply NoDup_app in Hn as (Hn & Hy' & _). assert (y ∉ l) as Hyl.
  { apply NoDup_app in Hn as (_ & Hd & _). intros H. by apply (Hd y H), list_elem_of_singleton. }
  split_and!; [done|split|].
  - by apply (seg_set_next _ _ _ (Some e)).
  - done.
  - rewrite length_app in *. cbn in *. lia.
  - cbn. f_equal.
    + rewrite length_app in *. apply size_add; cbn in *; lia.
    + rewrite <- app_assoc. by destruct l.
    + by rewrite last_of_snoc.
  - cbn. keeps_links.
Qed.

Lemma remove_spec l1 e l2 m :
  Repr (l1 ++ e :: l2) m →
  wp (remove e) (λ r m', r = e ∧ Repr (l1 ++ l2) m' ∧ keeps (l1 ++ l2) (elements m) (elements m')) m.
Proof.
  intros Hr. unfold remove. wp_step. apply (wp_last (l1 ++ e :: l2)); [done|]. wp_step. case_bool_decide as H1.
  { rewrite length_app in H1. destruct l1, l2; cbn in H1; try lia. cbn.
    eapply wp_weaken; [by apply remove_last_spec|]. intros r m' (-> & ? & E). cbn beta. wp_step.
    rewrite E. split_and!; [done | done | apply keeps_refl]. }
  pose proof (repr_seg _ _ Hr) as Hs. apply seg_app in Hs as [S1 [(x & Ex & Hp & Hn) S2]].
  wp_step. eapply wp_get; [done|]. rewrite Hp. destruct l1 as [|p l1 _] using rev_ind.
  { cbn. eapply wp_weaken; [by apply (remove_head_spec (e :: l2))|]. intros r m' (-> & ? & ?). cbn beta. wp_step. by split_and!. }
  rewrite last_of_snoc. wp_step. eapply wp_get; [done|]. rewrite Hn. destruct l2 as [|n l2].
  { cbn. eapply wp_weaken; [by apply remove_tail_spec|]. intros r m' (-> & ? & ?). cbn beta. wp_step. by rewrite app_nil_r. }
  cbn [first_of]. rewrite last_of_snoc in Hp. cbn [first_of] in Hn, S1.
  destruct m as [h t], Hr as [_ Hnd Hl E]. cbn in *. subst t.
  assert (is_Some (h !! p) ∧ is_Some (h !! n)) as [Ip In].
  { split; [eapply (seg_in _ _ (l1 ++ [p])); [done|set_solver] | eapply (seg_in _ _ (n :: l2)); [exact S2|by left]]. }
  repeat wp_step. rewrite (app_assoc _ [e] (n :: l2) : (l1 ++ [p]) ++ e :: n :: l2 = _) in *.
  apply NoDup_app in Hnd as (Hn1 & Hd & Hn2). apply NoDup_app in Hn1 as (Hn1 & He & _).
  pose proof Hn1 as (Hn1' & Hpl & _)%NoDup_app. pose proof Hn2 as [Hnl2 _]%NoDup_cons.
  assert (p ∉ l1) as Hpl1 by (intros H; by apply (Hpl p H), list_elem_of_singleton).
  assert (∀ y, y ∈ l1 ++ [p] → y ∉ n :: l2) as Hdis by (intros y H; apply Hd; apply elem_of_app; by left).
  assert (n ∉ l1 ++ [p]) as Hnp by (intros H; apply (Hdis n H); by left).
  assert (p ∉ n :: l2) as Hpn by (apply Hdis, elem_of_app; right; by left).
  split_and!; [done|split|].
  - rewrite seg_app, last_of_snoc. split.
    + apply seg_alter; [done|]. by apply (seg_set_next _ _ _ (Some e)).
    + apply (seg_set_prev _ (Some e)); [done|]. by apply seg_alter.
  - by apply NoDup_app.
  - rewrite !length_app in *. cbn in *. lia.
  - cbn. f_equal.
    + rewrite !length_app in *. apply size_add; cbn in *; lia.
    + rewrite <- !app_assoc. by destruct l1.
    + unfold last_of. rewrite !(last_app _ (n :: l2)), !last_cons. by destruct (list.last l2).
  - cbn. keeps_links.
Qed.

(** Nothing tells an element of the list from another: when the list has one
    element, removing any other empties it. *)
Lemma remove_absent e y m :
  Repr [y] m → wp (remove e) (λ r m', r = e ∧ Repr [] m' ∧ elements m' = elements m) m.
Proof.
  intros Hr. unfold remove. wp_step. apply (wp_last [y]); [done|]. cbn. wp_step.
  eapply wp_weaken; [by apply remove_last_spec|]. intros r m' (-> & ? & E). cbn beta. wp_step. by split_and!.
Qed.

(** The first element for an object. *)
Definition find_object (obj : loc → option Z) (o : Z) l : option loc := head (filter (λ e, obj e = Some o) l).

Lemma search_loop_spec fuel a l m o :
  seg (elements m) a l None → (length l ≤ fuel)%nat →
  wp (search_loop fuel (first_of l None) o)
    (λ r m', r = find_object (λ e, object <$> elements m !! e) o l ∧ m' = m) m.
Proof.
  revert fuel a; induction l as [|e l IH]; intros fuel a Hs Hf; [by destruct fuel|].
  destruct Hs as [(x & Ex & _ & Hx) Hs]. destruct fuel as [|fuel]; [cbn in Hf; lia|].
  cbn [search_loop first_of]. wp_step. eapply wp_get; [done|]. cbn beta. unfold find_object.
  destruct (Z.eqb_spec (object x) o) as [<-|Hn].
  - wp_step. rewrite filter_cons_True by (by rewrite Ex). done.
  - rewrite filter_cons_False by (rewrite Ex; by intros [= ?]). wp_step. eapply wp_get; [done|]. cbn beta. rewrite Hx.
    eapply IH; [done|]. cbn in Hf. lia.
Qed.

Lemma repr_size l m : Repr l m → (length l ≤ size (elements m))%nat.
Proof.
  intros [Hs Hn _ _]. rewrite <- size_dom, <- (size_list_to_set (C := gset loc) l) by done.
  apply subseteq_size. intros e He%elem_of_list_to_set. apply elem_of_dom. by eapply seg_in.
Qed.

Lemma search_spec l m o :
  Repr l m → wp (search o) (λ r m', r = find_object (λ e, object <$> elements m !! e) o l ∧ m' = m) m.
Proof.
  intros Hr. pose proof (repr_size _ _ Hr) as Hsz. destruct Hr as [Hs _ _ E]. unfold wp, search.
  rewrite E. cbn [_head].
  by eapply search_loop_spec.
Qed.

Lemma find_object_in obj o l e : find_object obj o l = Some e → e ∈ l.
Proof.
  unfold find_object. destruct (filter _ l) as [|y s] eqn:E; [done|]. intros [= ->].
  assert (e ∈ filter (λ e, obj e = Some o) l) as H by (rewrite E; by left). by apply list_elem_of_filter in H as [_ H].
Qed.

(** ** The class as an abstract data type *)

Inductive list_op :=
| Insert_head (e : loc) | Insert_tail (e : loc) | Remove_head | Remove_tail
| Remove (e : loc) | Remove_object (o : Z) | Search (o : Z).

Definition call (c : list_op) : M R (option loc) :=
  match c with
  | Insert_head e => _ ← insert_head e; mret None
  | Insert_tail e => _ ← insert_tail e; mret None
  | Remove_head => remove_head
  | Remove_tail => remove_tail
  | Remove e => e ← remove e; mret (Some e)
  | Remove_object o => remove_object o
  | Search o => search o
  end.

(** What a call promises on a list [l] of elements with objects [obj]: its
    result and the new list.  [None]: the call is not allowed. *)
Definition without e l : list loc := filter (λ y, y ≠ e) l.
Definition promise (obj : loc → option Z) (c : list_op) l : option (option loc * list loc) :=
  match c with
  | Insert_head e => if decide ((e ∉ l) ∧ is_Some (obj e) ∧ Z.of_nat (length l) + 1 < 2 ^ 32) then Some (None, e :: l) else None
  | Insert_tail e => if decide ((e ∉ l) ∧ is_Some (obj e) ∧ Z.of_nat (length l) + 1 < 2 ^ 32) then Some (None, l ++ [e]) else None
  | Remove_head => Some (head l, tail l)
  | Remove_tail => Some (list.last l, take (pred (length l)) l)
  | Remove e => if decide (e ∈ l) then Some (Some e, without e l) else None
  | Remove_object o =>
      match find_object obj o l with Some e => Some (Some e, without e l) | None => Some (None, l) end
  | Search o => Some (find_object obj o l, l)
  end.

Fixpoint calls (cs : list list_op) : M R (list (option loc)) :=
  match cs with [] => mret [] | c :: cs' => r ← call c; rs ← calls cs'; mret (r :: rs) end.
Fixpoint promises (obj : loc → option Z) (cs : list list_op) l : option (list (option loc) * list loc) :=
  match cs with
  | [] => Some ([], l)
  | c :: cs' => '(r, l) ← promise obj c l; '(rs, l) ← promises obj cs' l; Some (r :: rs, l)
  end.

Lemma without_absent e l : e ∉ l → without e l = l.
Proof.
  unfold without. induction l as [|y l IH]; [done|]. intros [Hy Hl]%not_elem_of_cons.
  rewrite filter_cons_True by done. by rewrite IH.
Qed.

Lemma without_mid l1 e l2 : NoDup (l1 ++ e :: l2) → without e (l1 ++ e :: l2) = l1 ++ l2.
Proof.
  intros (_ & Hd & [He _]%NoDup_cons)%NoDup_app. unfold without. rewrite filter_app, filter_cons_False by naive_solver.
  f_equal; apply without_absent; [|done]. intros H. apply (Hd e H). by left.
Qed.

Definition objects m e : option Z := object <$> elements m !! e.

Lemma keeps_objects l m m' e : keeps l (elements m) (elements m') → objects m' e = objects m e.
Proof.
  intros [_ H]. specialize (H e). unfold objects. unfold payload in H.
  destruct (elements m' !! e), (elements m !! e); cbn in *; congruence.
Qed.

Lemma remove_in l e m :
  Repr l m → e ∈ l →
  wp (remove e) (λ r m', r = e ∧ Repr (without e l) m' ∧ keeps l (elements m) (elements m')) m.
Proof.
  intros Hr He. apply list_elem_of_split in He as (l1 & l2 & ->). pose proof (repr_nodup _ _ Hr) as Hn.
  rewrite without_mid by done. eapply wp_weaken; [by apply remove_spec|]. intros r m' (-> & ? & ?).
  split_and!; [done..|]. eapply keeps_weaken; [|done]. clear. set_solver.
Qed.

Lemma objects_is_Some m e : is_Some (objects m e) ↔ is_Some (elements m !! e).
Proof. unfold objects. by rewrite fmap_is_Some. Qed.

Lemma remove_tail_take l m :
  Repr l m →
  wp remove_tail (λ r m', r = list.last l ∧ Repr (take (pred (length l)) l) m' ∧ keeps l (elements m) (elements m')) m.
Proof.
  intros Hr. destruct l as [|e l _] using rev_ind.
  - unfold remove_tail. wp_step. apply (wp_empty []); [done|]. rewrite bool_decide_true by done. wp_step.
    split_and!; [done | done | apply keeps_refl].
  - eapply wp_weaken; [by apply remove_tail_spec|]. intros r m' (-> & H & K).
    rewrite last_snoc, length_app, Nat.add_comm. cbn [length Nat.add pred]. rewrite take_app_length.
    split_and!; [done..|]. eapply keeps_weaken; [|done]. clear; set_solver.
Qed.

(** One call keeps its promise, and touches only the list and its argument. *)
Definition argument (c : list_op) : list loc :=
  match c with Insert_head e | Insert_tail e | Remove e => [e] | _ => [] end.

Lemma call_promise c l m r l' :
  Repr l m → promise (objects m) c l = Some (r, l') →
  wp (call c) (λ r' m', r' = r ∧ Repr l' m' ∧ keeps (argument c ++ l) (elements m) (elements m')) m.
Proof.
  intros Hr. destruct c as [e|e| | |e|o|o]; cbn [promise call argument app].
  - intros Hp. case_decide as H; [|done]. injection Hp as <- <-. destruct H as (H1 & H2%objects_is_Some & H3).
    wp_step. eapply wp_weaken; [by apply insert_head_spec|]. intros [] m' [? ?]. cbn beta. wp_step. by split_and!.
  - intros Hp. case_decide as H; [|done]. injection Hp as <- <-. destruct H as (H1 & H2%objects_is_Some & H3).
    wp_step. eapply wp_weaken; [by apply insert_tail_spec|]. intros [] m' [? ?]. cbn beta. wp_step. by split_and!.
  - intros [= <- <-]. eapply wp_weaken; [by apply remove_head_spec|]. intros r' m' (-> & ? & ?). split_and!; [done..|].
    eapply keeps_weaken; [|done]. clear. destruct l; set_solver.
  - intros [= <- <-]. by apply remove_tail_take.
  - intros Hp. case_decide as H; [|done]. injection Hp as <- <-. wp_step.
    eapply wp_weaken; [by apply remove_in|]. intros r' m' (-> & ? & ?). cbn beta. wp_step. split_and!; [done..|].
    eapply keeps_weaken; [|done]. clear. set_solver.
  - intros Hp. unfold remove_object. wp_step. eapply wp_weaken; [by apply search_spec|]. intros r' m' [-> ->].
    cbn beta. fold (objects m). change (λ e, object <$> elements m !! e) with (objects m).
    destruct (find_object (objects m) o l) as [e|] eqn:E; injection Hp as <- <-.
    + apply find_object_in in E. wp_step. eapply wp_weaken; [by apply remove_in|].
      intros r' m' (-> & ? & ?). cbn beta. wp_step. by split_and!.
    + wp_step. split_and!; [done | done | apply keeps_refl].
  - intros [= <- <-]. eapply wp_weaken; [by apply search_spec|]. intros r' m' [-> ->]. split_and!; [done | done | apply keeps_refl].
Qed.

Lemma promise_ext obj obj' c l : (∀ e, obj e = obj' e) → promise obj c l = promise obj' c l.
Proof.
  intros H. assert (∀ o, find_object obj o l = find_object obj' o l) as Hf.
  { intros o. unfold find_object. f_equal. apply list_filter_iff. intros e. by rewrite H. }
  destruct c as [e|e| | | | |]; cbn [promise]; rewrite ?Hf; try done;
    by rewrite (decide_ext _ ((e ∉ l) ∧ is_Some (obj' e) ∧ Z.of_nat (length l) + 1 < 2 ^ 32)) by by rewrite H.
Qed.
Lemma promises_ext obj obj' cs l : (∀ e, obj e = obj' e) → promises obj cs l = promises obj' cs l.
Proof.
  intros H. revert l; induction cs as [|c cs IH]; intros l; cbn [promises]; [done|].
  rewrite (promise_ext obj obj') by done. destruct (promise obj' c l) as [[r l']|]; cbn; [|done]. by rewrite IH.
Qed.

(** C32 Class List refines a sequence: whatever calls are made, as long as each
    is allowed (an element inserted is not in the list yet, an element removed
    is in it), no pointer is ever followed out of place, every call returns,
    with the result the sequence gives, the links and the counter are those of
    the sequence in the end, and no object or rank has changed. *)
Theorem list_refines_sequence cs l m rs l' :
  Repr l m → promises (objects m) cs l = Some (rs, l') →
  ∃ m', calls cs m = Some (rs, m') ∧ Repr l' m' ∧ ∀ e, payload <$> elements m' !! e = payload <$> elements m !! e.
Proof.
  intros Hr Hp. assert (wp (calls cs) (λ r m', r = rs ∧ Repr l' m' ∧
    ∀ e, payload <$> elements m' !! e = payload <$> elements m !! e) m) as Hwp.
  { revert l m rs Hr Hp; induction cs as [|c cs IH]; intros l m rs Hr; cbn [promises calls].
    - intros [= <- <-]. by wp_step.
    - intros Hp. destruct (promise _ c l) as [[r l1]|] eqn:E; [|done]. cbn in Hp.
      destruct (promises _ cs l1) as [[rs1 l2]|] eqn:E'; [|done]. injection Hp as <- ->.
      wp_step. eapply wp_weaken; [by eapply call_promise|]. intros r' m' (-> & Hr1 & K). cbn beta. wp_step.
      rewrite (promises_ext _ (objects m')) in E' by (intros e; symmetry; by eapply keeps_objects).
      eapply wp_weaken; [by eapply IH|]. intros rs' m'' (-> & Hr2 & P). cbn beta. wp_step. split_and!; [done..|].
      intros e. rewrite P. apply K. }
  apply wp_total in Hwp as (r & m' & E & -> & ?). eauto.
Qed.
End lists.

Lemma new_list_repr {R} (h : gmap loc (element R)) : Repr [] (Memory h new_list).
Proof. split; [done | constructor | done | done]. Qed.

Definition three : memory unit :=
  Memory {[1%positive := Element 10 () None None; 2%positive := Element 20 () None None;
           3%positive := Element 30 () None None]} new_list.

Example list_refines_sequence_witness :
  ∃ m', calls [Insert_tail 1; Insert_head 2; Insert_tail 3; Remove_object 10; Search 30; Remove_tail] three =
      Some ([None; None; None; Some 1%positive; Some 3%positive; Some 3%positive], m') ∧ Repr [2%positive] m'.
Proof.
  destruct (list_refines_sequence [Insert_tail 1; Insert_head 2; Insert_tail 3; Remove_object 10; Search 30; Remove_tail]
    [] three [None; None; None; Some 1%positive; Some 3%positive; Some 3%positive] [2%positive]
    (new_list_repr _) eq_refl) as (m' & E & Hr & _).
  exists m'. exact (conj E Hr).
Defined.
