(* ===== verification/OrderedList.v ===== *)
(** * Ordered and relative lists (include/utility/list.h)

    Classes Ordered_List and Relative_List over class List: an element goes
    before the first one of greater rank.  In a relative list the rank of an
    element counts from the element before it.  A relative rank is an [int]:
    arithmetic out of 32 bits is undefined and makes a method fail.
    [place] and [rel_place] are the two insertions on sequences. *)

From stdpp Require Import base numbers list option gmap sorting.
From S2P Require Import Prelude StateM DList.
#[local] Set Warnings "-clear-no-such-hyp".

(** What [Rank_Type] must offer: the order ([operator int()]) and, for
    relative lists, the arithmetic. *)
Class Ranked (R : Type) := {
  to_int : R → Z;
  rank_add : R → R → option R;
  rank_sub : R → R → option R
}.

Definition int32 (x : Z) : option Z := if decide (-2 ^ 31 ≤ x < 2 ^ 31) then Some x else None.
#[export] Instance int_ranked : Ranked Z := {|
  to_int := id; rank_add x y := int32 (x + y); rank_sub x y := int32 (x - y)
|}.

Section methods.
Context {R : Type} `{!Ranked R} (relative : bool).
Implicit Types (e : loc).

Definition defined {A} (o : option A) : M R A := λ m, x ← o; Some (x, m).

(** [a->rank(a->rank() - b->rank())] and its sum, in relative lists only. *)
Definition rank_minus (a b : loc) : M R unit :=
  if relative then
    ra ← get rank a; rb ← get rank b; r ← defined (rank_sub ra rb); put (set_rank r) a
  else mret ().
Definition rank_plus (a b : loc) : M R unit :=
  if relative then
    ra ← get rank a; rb ← get rank b; r ← defined (rank_add ra rb); put (set_rank r) a
  else mret ().

(** [for(next = head(); (next->rank() <= e->rank()) && next->next(); next = next->next())] *)
Fixpoint insert_loop (fuel : nat) e (next' : loc) : M R loc :=
  rn ← get rank next';
  re ← get rank e;
  n ← get next next';
  if (to_int rn <=? to_int re) && bool_decide (is_Some n) then
    match fuel with
    | O => stuck
    | S fuel' => _ ← rank_minus e next'; n ← deref n; insert_loop fuel' e n
    end
  else mret next'.

Definition insert_within (fuel : nat) e : M R unit :=
  b ← empty;
  if b : bool then insert_first e else
  h ← field _head;
  h ← deref h;
  next' ← insert_loop fuel e h;
  rn ← get rank next';
  re ← get rank e;
  if to_int rn <=? to_int re then _ ← rank_minus e next'; insert_tail e
  else
    p ← get prev next';
    _ ← rank_minus next' e;
    match p with
    | None => insert_head e
    | Some _ => insert_between e p (Some next')
    end.
(** A list that does not end within the elements there are never ends. *)
Definition insert e : M R unit := λ m, insert_within (size (elements m)) e m.

(** [remove()] *)
Definition remove_first : M R (option loc) :=
  r ← remove_head;
  _ ← match r with
      | Some e =>
          n ← get next e;
          match n with Some n => rank_plus n e | None => mret () end
      | None => mret ()
      end;
  mret r.

(** [remove(Element * e)] *)
Definition remove_element e : M R loc :=
  _ ← remove e;
  n ← get next e;
  _ ← match n with Some n => rank_plus n e | None => mret () end;
  mret e.

(** [remove(const Object_Type * obj)] *)
Definition remove_by_object (obj : Z) : M R (option loc) :=
  p ← search obj;
  match p with Some e => e ← remove_element e; mret (Some e) | None => mret None end.

Fixpoint search_rank_loop (fuel : nat) (p : option loc) (r : R) : M R (option loc) :=
  match p with
  | None => mret None
  | Some e =>
      re ← get rank e;
      if to_int re =? to_int r then mret (Some e)
      else match fuel with
           | O => stuck
           | S fuel' => n ← get next e; search_rank_loop fuel' n r
           end
  end.
Definition search_rank (r : R) : M R (option loc) := λ m,
  search_rank_loop (size (elements m)) (_head (this m)) r m.
Definition remove_rank (r : R) : M R (option loc) :=
  p ← search_rank r;
  match p with Some e => e ← remove_element e; mret (Some e) | None => mret None end.
End methods.

(** [promote] and [demote] of an element. *)
Definition promote (e : loc) (n : Z) : M Z Z := r ← get rank e; r ← defined (int32 (r - n)); _ ← put (set_rank r) e; mret r.
Definition demote (e : loc) (n : Z) : M Z Z := r ← get rank e; r ← defined (int32 (r + n)); _ ← put (set_rank r) e; mret r.

(** ** Insertion in a sequence *)

Section place.
Context {A : Type} (rk : A → Z).
Implicit Types (e : A) (l : list A).

Fixpoint place e l : list A :=
  match l with
  | [] => [e]
  | y :: l' => if rk y <=? rk e then y :: place e l' else e :: l
  end.

Definition in_order (x y : A) : Prop := rk x ≤ rk y.

Lemma place_split e l :
  ∃ l1 l2, l = l1 ++ l2 ∧ place e l = l1 ++ e :: l2 ∧
    Forall (λ y, rk y ≤ rk e) l1 ∧ (∀ y, head l2 = Some y → rk e < rk y).
Proof.
  induction l as [|y l (l1 & l2 & -> & E & H1 & H2)]; [by exists [], []|]. cbn [place].
  destruct (Z.leb_spec (rk y) (rk e)).
  - exists (y :: l1), l2. rewrite E. by repeat constructor.
  - exists [], (y :: l1 ++ l2). split_and!; [done..|]. by intros z [= <-].
Qed.

Lemma place_perm e l : place e l ≡ₚ e :: l.
Proof. destruct (place_split e l) as (l1 & l2 & -> & -> & _). by rewrite Permutation_middle. Qed.

Lemma place_length e l : length (place e l) = S (length l).
Proof. by rewrite place_perm. Qed.

#[local] Instance in_order_trans : Transitive in_order.
Proof. intros x y z. unfold in_order. lia. Qed.

(** Order is kept, and the newcomer comes after its equals. *)
Lemma place_sorted e l : StronglySorted in_order l → StronglySorted in_order (place e l).
Proof.
  induction 1 as [|y l Hs IH Hy]; [by repeat constructor|]. cbn [place].
  destruct (Z.leb_spec (rk y) (rk e)).
  - constructor; [done|]. rewrite place_perm. by constructor.
  - constructor; [by constructor|]. constructor; [unfold in_order; lia|].
    eapply Forall_impl; [exact Hy|]. unfold in_order. lia.
Qed.

Lemma place_last_of_equals e l :
  StronglySorted in_order l →
  ∃ l1 l2, place e l = l1 ++ e :: l2 ∧ l = l1 ++ l2 ∧
    Forall (λ y, rk y ≤ rk e) l1 ∧ Forall (λ y, rk e < rk y) l2.
Proof.
  intros Hs. destruct (place_split e l) as (l1 & l2 & -> & E & H1 & H2). exists l1, l2. split_and!; [done..|].
  destruct l2 as [|y l2]; [constructor|]. specialize (H2 y eq_refl).
  assert (StronglySorted in_order (y :: l2)) as [_ Hy]%StronglySorted_inv.
  { clear -Hs. induction l1 as [|x l1 IH]; [done|]. apply IH. by apply StronglySorted_inv in Hs as [? _]. }
  constructor; [done|]. eapply Forall_impl; [exact Hy|]. unfold in_order. lia.
Qed.
End place.

Lemma place_ext {A} (rk rk' : A → Z) e l :
  rk e = rk' e → (∀ y, y ∈ l → rk y = rk' y) → place rk e l = place rk' e l.
Proof.
  intros He Hl. induction l as [|y l IH]; [done|]. cbn [place]. rewrite He, (Hl y) by by left.
  rewrite IH; [done|]. intros z Hz. apply Hl. by right.
Qed.

(** ** Ordered_List implements [place] *)

Lemma place_end {A} (rk : A → Z) e l : Forall (λ y, rk y ≤ rk e) l → place rk e l = l ++ [e].
Proof.
  induction 1 as [|y l Hy _ IH]; [done|]. cbn [place app]. by rewrite (proj2 (Z.leb_le _ _) Hy), IH.
Qed.
Lemma place_before {A} (rk : A → Z) e l1 n l2 :
  Forall (λ y, rk y ≤ rk e) l1 → rk e < rk n → place rk e (l1 ++ n :: l2) = l1 ++ e :: n :: l2.
Proof.
  intros H1 Hn. induction H1 as [|y l Hy _ IH]; cbn [place app].
  - by rewrite (proj2 (Z.leb_gt _ _) Hn).
  - by rewrite (proj2 (Z.leb_le _ _) Hy), IH.
Qed.

(** The last step of an insertion, once the place is known. *)
Section put_in_place.
Context {R : Type}.
Implicit Types (m : memory R) (l : list loc).

Lemma repr_middle l1 n l2 m :
  Repr (l1 ++ n :: l2) m → ∃ x, elements m !! n = Some x ∧ prev x = last_of None l1 ∧ next x = first_of l2 None.
Proof. intros Hr. pose proof (repr_seg _ _ Hr) as [_ [Hx _]]%seg_app. exact Hx. Qed.

Lemma put_before_spec e l1 n l2 m :
  Repr (l1 ++ n :: l2) m → fresh_for (l1 ++ n :: l2) m e →
  wp (match last_of None l1 with
      | None => insert_head e
      | Some _ => insert_between e (last_of None l1) (Some n)
      end) (λ _ m', Repr (l1 ++ e :: n :: l2) m' ∧ keeps (e :: l1 ++ n :: l2) (elements m) (elements m')) m.
Proof.
  intros Hr Hf. destruct l1 as [|p l1 _] using rev_ind; [by apply insert_head_spec|].
  rewrite last_of_snoc. rewrite <- !app_assoc in *. by apply insert_between_spec.
Qed.
End put_in_place.

Section ordered.
Context {R : Type} `{!Ranked R}.
Implicit Types (e : loc) (m : memory R) (l : list loc).

Lemma wp_insert relative e (Q : unit → memory R → Prop) m :
  wp (insert_within relative (size (elements m)) e) Q m → wp (insert relative e) Q m.
Proof. done. Qed.

(** The order of an element in a memory. *)
Definition rank_of m e : Z := default 0 ((λ x, to_int (rank x)) <$> elements m !! e).

Lemma rank_of_in m e x : elements m !! e = Some x → rank_of m e = to_int (rank x).
Proof. unfold rank_of. by intros ->. Qed.

Lemma wp_rank_minus_absolute a b (Q : unit → memory R → Prop) m : Q () m → wp (rank_minus false a b) Q m.
Proof. done. Qed.

Lemma insert_loop_spec fuel a y l m e :
  seg (elements m) a (y :: l) None → is_Some (elements m !! e) → (length l ≤ fuel)%nat →
  wp (insert_loop false fuel e y)
    (λ n m', m' = m ∧ ∃ l1 l2, y :: l = l1 ++ n :: l2 ∧
      Forall (λ z, rank_of m z ≤ rank_of m e) l1 ∧ (rank_of m n ≤ rank_of m e → l2 = [])) m.
Proof.
  intros Hs [z Ez]. revert a y l Hs; induction fuel as [|fuel IH]; intros a y l Hs Hf;
    destruct Hs as [(x & Ex & _ & Hx) Hs]; cbn [insert_loop];
    wp_step; (eapply wp_get; [done|]); cbn beta; wp_step; (eapply wp_get; [done|]); cbn beta;
    wp_step; (eapply wp_get; [done|]); cbn beta; rewrite Hx;
    rewrite <- (rank_of_in m y x), <- (rank_of_in m e z) by done.
  - destruct l; [|cbn in Hf; lia]. cbn [first_of]. rewrite bool_decide_false by (by intros [? ?]).
    rewrite andb_false_r. wp_step. split; [done|]. by exists [], [].
  - destruct (Z.leb_spec (rank_of m y) (rank_of m e)) as [Hle|Hgt]; cbn [andb].
    + destruct l as [|y' l]; cbn [first_of].
      * rewrite bool_decide_false by (by intros [? ?]). wp_step. split; [done|]. by exists [], [].
      * rewrite bool_decide_true by done. wp_step. apply (wp_rank_minus_absolute e y). wp_step. wp_step.
        eapply wp_weaken; [eapply IH; [done | cbn in Hf; lia]|]. intros n m' (-> & l1 & l2 & -> & H1 & H2).
        split; [done|]. exists (y :: l1), l2. split_and!; [done | by constructor | done].
    + wp_step. split; [done|]. exists [], l. split_and!; [done | done | lia].
Qed.

Lemma insert_spec e l m :
  Repr l m → fresh_for l m e →
  wp (insert false e)
    (λ _ m', Repr (place (rank_of m) e l) m' ∧ keeps (e :: l) (elements m) (elements m')) m.
Proof.
  intros Hr Hf. apply wp_insert. unfold insert_within.
  wp_step. apply (wp_empty l); [done|]. case_bool_decide as El; [subst; by apply insert_first_spec|].
  wp_step. wp_step. rewrite (repr_this _ _ Hr). cbn [_head]. destruct l as [|y l]; [done|]. cbn [first_of].
  wp_step. wp_step. wp_step. pose proof (repr_size _ _ Hr) as Hsz. destruct Hf as (He & [z Ez] & Hlen).
  eapply wp_weaken; [eapply insert_loop_spec; [exact (repr_seg _ _ Hr) | done | cbn in Hsz; lia]|].
  intros n m' (-> & l1 & l2 & E & H1 & H2). cbn beta. rewrite E in *.
  destruct (repr_middle _ _ _ _ Hr) as (x & Ex & Hp & _).
  wp_step. eapply wp_get; [done|]. cbn beta. wp_step. eapply wp_get; [done|]. cbn beta.
  rewrite <- (rank_of_in m n x), <- (rank_of_in m e z) by done.
  assert (fresh_for (l1 ++ n :: l2) m e) by (split_and!; [done | by exists z | done]).
  destruct (Z.leb_spec (rank_of m n) (rank_of m e)) as [Hle|Hgt].
  - rewrite (H2 Hle) in *. wp_step. apply (wp_rank_minus_absolute e n).
    rewrite place_end by (apply Forall_app; split; [done | by constructor]). by apply insert_tail_spec.
  - wp_step. eapply wp_get; [done|]. wp_step. apply (wp_rank_minus_absolute n e). rewrite Hp.
    rewrite place_before by done. by apply put_before_spec.
Qed.
End ordered.

(** ** Relative lists *)

(** A relative list as a sequence: elements with their offsets. *)
Abbreviation offsets := (list (loc * Z)).

Fixpoint rel_place (e : loc) (r : Z) (ls : offsets) : offsets :=
  match ls with
  | [] => [(e, r)]
  | (y, d) :: ls' => if d <=? r then (y, d) :: rel_place e (r - d) ls' else (e, r) :: (y, d - r) :: ls'
  end.

(** Removing gives the offset to the next element. *)
Fixpoint rel_remove (e : loc) (ls : offsets) : offsets :=
  match ls with
  | [] => []
  | (y, d) :: ls' =>
      if decide (y = e) then match ls' with [] => [] | (z, d') :: ls'' => (z, d' + d) :: ls'' end
      else (y, d) :: rel_remove e ls'
  end.

(** The times the offsets stand for, from [t] on. *)
Fixpoint times (t : Z) (ls : offsets) : offsets :=
  match ls with [] => [] | (y, d) :: ls' => (y, t + d) :: times (t + d) ls' end.

Lemma rel_place_times e r t ls : times t (rel_place e r ls) = place snd (e, t + r) (times t ls).
Proof.
  revert r t; induction ls as [|[y d] ls IH]; intros r t; [done|]. cbn [rel_place times place snd].
  replace (t + d <=? t + r) with (d <=? r) by (destruct (Z.leb_spec d r), (Z.leb_spec (t + d) (t + r)); lia).
  destruct (d <=? r); cbn [times]; [|by replace (t + r + (d - r)) with (t + d) by lia].
  rewrite IH. by replace (t + d + (r - d)) with (t + r) by lia.
Qed.

Lemma rel_remove_times e t ls :
  NoDup ls.*1 → times t (rel_remove e ls) = filter (λ p, p.1 ≠ e) (times t ls).
Proof.
  revert t; induction ls as [|[y d] ls IH]; intros t; [done|]. cbn [fmap list_fmap]. intros [Hy Hn]%NoDup_cons.
  cbn [rel_remove times fst]. case_decide as E.
  - subst y. rewrite filter_cons_False by naive_solver. rewrite <- IH by done.
    assert (rel_remove e ls = ls) as ->.
    { clear -Hy. induction ls as [|[z d'] ls IH]; [done|]. apply not_elem_of_cons in Hy as [Hz Hy]. cbn [fst] in Hz.
      cbn [rel_remove]. rewrite decide_False by done. by rewrite IH. }
    destruct ls as [|[z d'] ls]; [done|]. cbn [times]. by replace (t + (d' + d)) with (t + d + d') by lia.
  - rewrite filter_cons_True by done. cbn [times]. by rewrite IH.
Qed.

Lemma rel_place_elements e r ls : ∃ l1 l2, ls.*1 = l1 ++ l2 ∧ (rel_place e r ls).*1 = l1 ++ e :: l2.
Proof.
  revert r; induction ls as [|[y d] ls IH]; intros r; [by exists [], []|]. cbn [rel_place fmap list_fmap fst].
  destruct (d <=? r); [|by exists [], (y :: ls.*1)].
  destruct (IH (r - d)) as (l1 & l2 & E1 & E2). exists (y :: l1), l2. cbn [fmap list_fmap fst]. by rewrite E1, E2.
Qed.

(** No offset computed on the way is out of an [int]. *)
Definition fits (x : Z) : Prop := -2 ^ 31 ≤ x < 2 ^ 31.
Fixpoint place_fits (r : Z) (ls : offsets) : Prop :=
  match ls with
  | [] => True
  | (_, d) :: ls' => if d <=? r then fits (r - d) ∧ place_fits (r - d) ls' else fits (d - r)
  end.

(** Half the range is enough: an alarm up to 2^30 ticks away, the first one up
    to 2^30 ticks late. *)
Lemma place_fits_bound r ls :
  0 ≤ r < 2 ^ 30 → (∀ p, head ls = Some p → -2 ^ 30 ≤ p.2 < 2 ^ 31) → Forall (λ p, 0 ≤ p.2 < 2 ^ 31) (tail ls) → place_fits r ls.
Proof.
  intros Hr Hh Ht. assert (∀ r', 0 ≤ r' < 2 ^ 31 → ∀ ls, Forall (λ p, 0 ≤ p.2 < 2 ^ 31) ls → place_fits r' ls) as Hall.
  { clear. intros r Hr ls; revert r Hr; induction ls as [|[y d] ls IH]; intros r Hr; [done|].
    intros [Hd Hls]%Forall_cons. cbn [place_fits snd] in *.
    destruct (Z.leb_spec d r); [split; [unfold fits; lia | by apply IH; [lia|]] | unfold fits; lia]. }
  destruct ls as [|[y d] ls]; [done|]. specialize (Hh _ eq_refl). cbn [place_fits snd tail] in *.
  destruct (Z.leb_spec d r); [split; [unfold fits; lia | by apply Hall; [lia|]] | unfold fits; lia].
Qed.

(** The memory holds the offsets. *)
Definition RelRepr (ls : offsets) (m : memory Z) : Prop :=
  Repr ls.*1 m ∧ Forall (λ p, rank <$> elements m !! p.1 = Some p.2) ls.

Section relative.
Implicit Types (m : memory Z) (e : loc) (ls : offsets) (h : gmap loc (element Z)).

Lemma wp_int32 x (Q : Z → memory Z → Prop) m : fits x → Q x m → wp (defined (int32 x)) Q m.
Proof. intros Hx HQ. unfold wp, defined, int32. by rewrite decide_True by done. Qed.

(** Ranks do not matter to the links. *)
Lemma seg_set_rank h r e a l b : seg h a l b → seg (alter (set_rank r) e h) a l b.
Proof.
  revert a; induction l as [|y l IH]; intros a; [done|]. intros [(x & Ex & Hp & Hx) Hs]. split; [|by apply IH].
  destruct (decide (e = y)) as [->|Hne].
  - exists (set_rank r x). by rewrite lookup_alter_eq, Ex.
  - exists x. by rewrite lookup_alter_ne.
Qed.
Lemma repr_set_rank r e l h t : Repr l (Memory h t) → Repr l (Memory (alter (set_rank r) e h) t).
Proof. intros [Hs Hn Hl E]. split; [by apply seg_set_rank | done..]. Qed.

Lemma wp_rank_minus a b ra rb h t (Q : unit → memory Z → Prop) :
  rank <$> h !! a = Some ra → rank <$> h !! b = Some rb → fits (ra - rb) →
  Q () (Memory (alter (set_rank (ra - rb)) a h) t) → wp (rank_minus true a b) Q (Memory h t).
Proof.
  intros (x & Ex & ->)%fmap_Some (y & Ey & ->)%fmap_Some Hf HQ. unfold rank_minus.
  wp_step. eapply wp_get; [done|]. wp_step. eapply wp_get; [done|]. wp_step. apply wp_int32; [done|].
  cbn beta. apply wp_store; [by exists x | done].
Qed.

Definition ranks_are (ls : offsets) (h : gmap loc (element Z)) : Prop := Forall (λ p, rank <$> h !! p.1 = Some p.2) ls.

Lemma ranks_alter r e ls h : e ∉ ls.*1 → ranks_are ls h → ranks_are ls (alter (set_rank r) e h).
Proof.
  intros He. unfold ranks_are. rewrite !Forall_forall. intros H [y d] Hy. cbn. rewrite lookup_alter_ne; [by apply (H (y, d))|].
  intros ->. by apply He, (list_elem_of_fmap_2 fst _ (y, d)).
Qed.

Lemma same_rank e x h : h !! e = Some x → alter (set_rank (rank x)) e h = h.
Proof. intros Ex. apply alter_id. intros z Ez. rewrite Ex in Ez. injection Ez as <-. by destruct x. Qed.

Lemma set_rank_twice r s e h : alter (set_rank r) e (alter (set_rank s) e h) = alter (set_rank r) e h.
Proof.
  apply map_eq. intros i. destruct (decide (e = i)) as [->|Hn]; [|by rewrite !lookup_alter_ne].
  rewrite !lookup_alter_eq. by destruct (h !! i).
Qed.

Lemma insert_loop_rel fuel e r a y d ls h t :
  seg h a (y :: ls.*1) None → ranks_are ((y, d) :: ls) h → e ∉ y :: ls.*1 → rank <$> h !! e = Some r →
  place_fits r ((y, d) :: ls) → (length ls ≤ fuel)%nat →
  wp (insert_loop true fuel e y)
    (λ n m', ∃ ls1 dn ls2 r', (y, d) :: ls = ls1 ++ (n, dn) :: ls2 ∧
      m' = Memory (alter (set_rank r') e h) t ∧ rel_place e r ((y, d) :: ls) = ls1 ++ rel_place e r' ((n, dn) :: ls2) ∧
      place_fits r' ((n, dn) :: ls2) ∧ (dn ≤ r' → ls2 = [])) (Memory h t).
Proof.
  revert a y d ls r h. induction fuel as [|fuel IH]; intros a y d ls r h Hs Hr He (x & Ex & ->)%fmap_Some Hf Hlen;
    destruct Hs as [(xy & Ey & _ & Hx) Hs]; apply Forall_cons in Hr as [Hd Hr]; cbn [fst snd] in Hd;
    rewrite Ey in Hd; injection Hd as <-; cbn [insert_loop];
    do 3 (wp_step; eapply wp_get; [done|]); cbn beta; rewrite Hx; cbn [to_int int_ranked id].
  - destruct ls; [|cbn in Hlen; lia]. cbn [fmap list_fmap first_of]. rewrite bool_decide_false by (by intros [? ?]).
    rewrite andb_false_r. wp_step. exists [], (rank xy), [], (rank x). by rewrite same_rank.
  - destruct (Z.leb_spec (rank xy) (rank x)) as [Hle|Hgt]; cbn [andb].
    + destruct ls as [|[y' d'] ls]; cbn [fmap list_fmap first_of fst] in *.
      * rewrite bool_decide_false by (by intros [? ?]). wp_step. exists [], (rank xy), [], (rank x). by rewrite same_rank.
      * rewrite bool_decide_true by done. cbn [place_fits] in Hf. rewrite (proj2 (Z.leb_le _ _) Hle) in Hf.
        destruct Hf as [Hf1 Hf]. apply not_elem_of_cons in He as [Hey He].
        wp_step. eapply wp_rank_minus; [by rewrite Ex | by rewrite Ey | done |]. wp_step. wp_step.
        eapply wp_weaken; [eapply (IH (Some y) y' d' ls (rank x - rank xy))|].
        -- by apply seg_set_rank.
        -- by apply ranks_alter.
        -- done.
        -- by rewrite lookup_alter_eq, Ex.
        -- done.
        -- cbn in Hlen. lia.
        -- intros n m' (ls1 & dn & ls2 & r' & E & -> & Ep & Hf' & Hl2).
           exists ((y, rank xy) :: ls1), dn, ls2, r'. rewrite E in Ep |- *. split_and!; [done | | | done | done].
           ++ by rewrite set_rank_twice.
           ++ rewrite <- E in Ep |- *. cbn [rel_place] in *. by rewrite (proj2 (Z.leb_le _ _) Hle), Ep.
    + wp_step. exists [], (rank xy), ls, (rank x). rewrite same_rank by done. split_and!; [done..|lia].
Qed.

Lemma ranks_keep ls l h h' : keeps l h h' → ranks_are ls h → ranks_are ls h'.
Proof.
  intros [_ Hk]. unfold ranks_are. rewrite !Forall_forall. intros H p Hp. rewrite <- (H p Hp). specialize (Hk p.1).
  unfold payload in Hk. destruct (h' !! p.1), (h !! p.1); cbn in *; congruence.
Qed.

Lemma rank_alter r e h : is_Some (h !! e) → rank <$> alter (set_rank r) e h !! e = Some r.
Proof. intros [x Ex]. by rewrite lookup_alter_eq, Ex. Qed.

Lemma fresh_alter f l e y h t t' : fresh_for l (Memory h t) e → fresh_for l (Memory (alter f y h) t') e.
Proof. intros (H1 & H2 & H3). split_and!; [done | | done]. cbn. by rewrite lookup_alter_is_Some. Qed.

(** Insertion in a relative list. *)
Lemma relative_insert_spec ls e r m :
  RelRepr ls m → fresh_for ls.*1 m e → rank <$> elements m !! e = Some r → place_fits r ls →
  wp (insert true e) (λ _ m', RelRepr (rel_place e r ls) m') m.
Proof.
  intros [Hr Hk] Hf Ee Hfit. apply wp_insert. unfold insert_within. wp_step. apply (wp_empty ls.*1); [done|].
  case_bool_decide as El.
  { destruct ls; [|done]. eapply wp_weaken; [by apply insert_first_spec|]. intros _ m' [Hr' K]. split; [done|].
    eapply (ranks_keep [(e, r)]); [done|]. by repeat constructor. }
  destruct ls as [|[y d] ls]; [done|]. wp_step. wp_step. rewrite (repr_this _ _ Hr). cbn [fmap list_fmap fst _head first_of].
  wp_step. wp_step. wp_step. pose proof (repr_size _ _ Hr) as Hsz. destruct m as [h t]. cbn [elements] in *.
  eapply wp_weaken; [eapply (insert_loop_rel _ e r None y d ls)|].
  - exact (repr_seg _ _ Hr).
  - done.
  - apply Hf.
  - done.
  - done.
  - cbn [fmap list_fmap length] in Hsz. rewrite length_fmap in Hsz. lia.
  - intros n m' (ls1 & dn & ls2 & r' & E & -> & -> & Hf' & Hl2). rewrite E in *. clear E y d ls El Hfit Hsz.
    rewrite fmap_app in *. cbn [fmap list_fmap fst] in *. pose proof Hf as (He & Hin & Hlen). cbn [elements] in Hin.
    assert (e ≠ n) as Hen by (intros ->; apply He; clear; set_solver).
    apply (repr_set_rank r' e) in Hr. pose proof (ranks_alter r' e (ls1 ++ (n, dn) :: ls2) h) as Hk1.
    rewrite fmap_app in Hk1. specialize (Hk1 He Hk). apply (rank_alter r') in Hin.
    apply (fresh_alter (set_rank r') _ _ e _ _ t) in Hf. generalize dependent (alter (set_rank r') e h). clear h Ee Hk.
    intros h Hr Hf Ee Hk. destruct (repr_middle _ _ _ _ Hr) as (x & Ex & Hp & _). cbn [elements] in Ex.
    pose proof (proj1 (Forall_app _ _ _) Hk) as [Hk1 [Hd Hk2]%Forall_cons]. cbn [fst snd] in Hd.
    rewrite Ex in Hd. injection Hd as <-. pose proof Ee as (z & Ez & Ez')%fmap_Some. subst r'.
    wp_step. eapply wp_get; [done|]. wp_step. eapply wp_get; [done|]. cbn [to_int int_ranked id].
    cbn [place_fits rel_place] in *. destruct (Z.leb_spec (rank x) (rank z)) as [Hle|Hgt].
    + rewrite (Hl2 Hle) in *. destruct Hf' as [Hf' _].
      wp_step. eapply wp_rank_minus; [done | by rewrite Ex | done |]. cbn beta.
      eapply wp_weaken; [apply (insert_tail_spec e (ls1.*1 ++ [n]))|].
      * by apply repr_set_rank.
      * by eapply fresh_alter.
      * intros _ m' [Hr' K]. split; [by rewrite fmap_app, (app_assoc _ [n] [e] : _ ++ [n; e] = _)|].
        eapply ranks_keep; [done|]. apply (Forall_app _ ls1 [(n, rank x); (e, rank z - rank x)]). cbn [elements].
        apply (ranks_alter (rank z - rank x) e (ls1 ++ [(n, rank x)])) in Hk; [|by rewrite fmap_app].
        apply Forall_app in Hk as [Hk Hn]. split; [done|]. apply Forall_cons in Hn as [Hn _].
        constructor; [done|]. constructor; [|done]. cbn. rewrite rank_alter; [done | by rewrite Ez].
    + wp_step. eapply wp_get; [done|]. wp_step. eapply wp_rank_minus; [by rewrite Ex | done | done |]. cbn beta.
      rewrite Hp. eapply wp_weaken; [apply (put_before_spec e ls1.*1 n ls2.*1)|].
      * by apply repr_set_rank.
      * by eapply fresh_alter.
      * intros _ m' [Hr' K]. split; [by rewrite fmap_app|]. eapply ranks_keep; [done|]. cbn [elements].
        pose proof (repr_nodup _ _ Hr) as (_ & Hd1 & [Hd2 _]%NoDup_cons)%NoDup_app.
        apply (Forall_app _ ls1 ((e, rank z) :: (n, rank x - rank z) :: ls2)). split; [|constructor; [|constructor]].
        -- apply ranks_alter; [|done]. intros H. apply (Hd1 n H). by left.
        -- cbn. rewrite lookup_alter_ne by done. exact Ee.
        -- cbn. rewrite rank_alter; [done | by exists x].
        -- by apply ranks_alter.
Qed.

(** Removal from a relative list. *)
Definition after (d : Z) (ls : offsets) : offsets :=
  match ls with [] => [] | (z, d') :: ls' => (z, d' + d) :: ls' end.
Definition sum_fits (d : Z) (ls : offsets) : Prop := match ls with [] => True | (_, d') :: _ => fits (d' + d) end.

Lemma rel_remove_middle ls1 e d ls2 : e ∉ ls1.*1 → rel_remove e (ls1 ++ (e, d) :: ls2) = ls1 ++ after d ls2.
Proof.
  induction ls1 as [|[y d1] ls1 IH]; intros He; cbn [app rel_remove].
  - by rewrite decide_True by done.
  - apply not_elem_of_cons in He as [Hy He]. cbn [fst] in Hy. rewrite decide_False by done. by rewrite IH.
Qed.

Lemma wp_rank_plus a b ra rb h t (Q : unit → memory Z → Prop) :
  rank <$> h !! a = Some ra → rank <$> h !! b = Some rb → fits (ra + rb) →
  Q () (Memory (alter (set_rank (ra + rb)) a h) t) → wp (rank_plus true a b) Q (Memory h t).
Proof.
  intros (x & Ex & ->)%fmap_Some (y & Ey & ->)%fmap_Some Hf HQ. unfold rank_plus.
  wp_step. eapply wp_get; [done|]. wp_step. eapply wp_get; [done|]. wp_step. apply wp_int32; [done|].
  cbn beta. apply wp_store; [by exists x | done].
Qed.

(** The two steps after an element is unlinked. *)
Lemma relative_pass_on ls1 e d ls2 m m' :
  RelRepr (ls1 ++ (e, d) :: ls2) m → Repr (ls1.*1 ++ ls2.*1) m' →
  keeps (ls1.*1 ++ ls2.*1) (elements m) (elements m') → sum_fits d ls2 →
  wp (n ← get next e; match n with Some n => rank_plus true n e | None => mret () end)
    (λ _ m'', RelRepr (ls1 ++ after d ls2) m'') m'.
Proof.
  intros [Hr Hk] Hr' K Hs. rewrite fmap_app in Hr. cbn [fmap list_fmap fst] in Hr.
  destruct (repr_middle _ _ _ _ Hr) as (x & Ex & _ & Hx). pose proof (repr_nodup _ _ Hr) as (_ & Hd & [He2 Hn2]%NoDup_cons)%NoDup_app.
  assert (e ∉ ls1.*1) as He1 by (intros H; apply (Hd e H); by left).
  assert (elements m' !! e = Some x) as Ex' by (rewrite (proj1 K e); [done | rewrite not_elem_of_app; done]).
  apply Forall_app in Hk as [Hk1 [Hde Hk2]%Forall_cons]. cbn [fst snd] in Hde. rewrite Ex in Hde. injection Hde as <-.
  apply (ranks_keep _ _ _ _ K) in Hk1. apply (ranks_keep _ _ _ _ K) in Hk2.
  wp_step. eapply wp_get; [done|]. cbn beta. rewrite Hx. destruct ls2 as [|[z d'] ls2]; cbn [fmap list_fmap first_of fst after].
  - wp_step. split; [by rewrite app_nil_r in *|]. by rewrite app_nil_r.
  - destruct m' as [h' t']. cbn [elements] in *. pose proof Hk2 as [Hz Hk2']%Forall_cons. cbn [fst snd] in Hz.
    eapply wp_rank_plus; [done | by rewrite Ex' | done |]. cbn [fmap list_fmap fst] in *.
    split; [rewrite fmap_app; by apply repr_set_rank|]. cbn [elements]. apply NoDup_cons in Hn2 as [Hz2 _].
    apply (Forall_app _ ls1 ((z, d' + rank x) :: ls2)). split; [|constructor].
    + apply ranks_alter; [|done]. intros H. apply (Hd z H). by right; left.
    + cbn. apply rank_alter. by destruct (h' !! z).
    + by apply ranks_alter.
Qed.

Lemma relative_remove_spec ls1 e d ls2 m :
  RelRepr (ls1 ++ (e, d) :: ls2) m → sum_fits d ls2 →
  wp (remove_element true e) (λ r m', r = e ∧ RelRepr (rel_remove e (ls1 ++ (e, d) :: ls2)) m') m.
Proof.
  intros Hr Hs. pose proof Hr as [Hl _]. rewrite fmap_app in Hl. cbn [fmap list_fmap fst] in Hl.
  assert (e ∉ ls1.*1) as He.
  { pose proof (repr_nodup _ _ Hl) as (_ & Hd & _)%NoDup_app. intros H. apply (Hd e H). by left. }
  rewrite rel_remove_middle by done. unfold remove_element. wp_step.
  eapply wp_weaken; [by apply remove_spec|]. intros r m' (-> & Hr' & K). cbn beta.
  apply wp_assoc, wp_seq. eapply wp_weaken; [by eapply relative_pass_on|]. intros [] m'' H. cbn beta. by wp_step.
Qed.

Lemma relative_remove_first_spec e d ls m :
  RelRepr ((e, d) :: ls) m → sum_fits d ls →
  wp (remove_first true) (λ r m', r = Some e ∧ RelRepr (after d ls) m') m.
Proof.
  intros Hr Hs. pose proof Hr as [Hl _]. unfold remove_first. wp_step.
  eapply wp_weaken; [by apply remove_head_spec|]. intros r m' (-> & Hr' & K). cbn [head fmap list_fmap fst tail] in *.
  wp_step. eapply wp_weaken; [by eapply (relative_pass_on [])|]. intros [] m'' H. cbn beta. by wp_step.
Qed.

(** Letting a tick go by: the first offset shrinks. *)
Lemma promote_spec e d ls n m :
  RelRepr ((e, d) :: ls) m → fits (d - n) →
  wp (promote e n) (λ r m', r = d - n ∧ RelRepr ((e, d - n) :: ls) m') m.
Proof.
  intros [Hr Hk] Hf. apply Forall_cons in Hk as [Hd Hk]. cbn [fst snd] in *.
  apply fmap_Some in Hd as (x & Ex & ->). destruct m as [h t]. cbn [elements] in *.
  unfold promote. wp_step. eapply wp_get; [done|]. wp_step. apply wp_int32; [done|]. cbn beta. wp_step.
  apply wp_store; [by exists x|]. wp_step. split; [done|]. split; [by apply repr_set_rank|]. cbn [elements].
  pose proof (repr_nodup _ _ Hr) as [He _]%NoDup_cons. constructor; [cbn; apply rank_alter; by exists x | by apply ranks_alter].
Qed.
End relative.

(** ** What the classes promise *)

(** Ordered_List keeps its order: inserting an element in a list sorted by
    rank returns, puts it after every element of smaller or equal rank and
    before every element of greater rank, with all links right, moves nothing
    else and changes no object or rank. *)
Theorem ordered_insert_in_order {R} `{!Ranked R} e l (m : memory R) :
  Repr l m → fresh_for l m e → StronglySorted (in_order (rank_of m)) l →
  ∃ m' l1 l2, insert false e m = Some ((), m') ∧ l = l1 ++ l2 ∧ Repr (l1 ++ e :: l2) m' ∧
    Forall (λ y, rank_of m y ≤ rank_of m e) l1 ∧ Forall (λ y, rank_of m e < rank_of m y) l2 ∧
    StronglySorted (in_order (rank_of m')) (l1 ++ e :: l2) ∧
    ∀ y, payload <$> elements m' !! y = payload <$> elements m !! y.
Proof.
  intros Hr Hf Hs. pose proof (insert_spec e l m Hr Hf) as ([] & m' & E & Hr' & K)%wp_total.
  destruct (place_last_of_equals (rank_of m) e l Hs) as (l1 & l2 & Ep & -> & H1 & H2).
  exists m', l1, l2. rewrite <- Ep. split_and!; [done..| | apply K].
  assert (∀ y, rank_of m' y = rank_of m y) as Hrk.
  { intros y. destruct K as [_ K]. specialize (K y). unfold rank_of, payload in *.
    destruct (elements m' !! y), (elements m !! y); cbn in *; congruence. }
  apply (place_sorted _ e) in Hs. revert Hs. clear -Hrk. generalize (place (rank_of m) e (l1 ++ l2)). intros l Hs.
  induction Hs as [|y l Hs IH Hy]; constructor; [done|]. eapply Forall_impl; [exact Hy|].
  intros z. unfold in_order. by rewrite !Hrk.
Qed.

(** A relative list keeps absolute times.  Insertion puts the element at the
    time its rank says, after those of the same time, without changing the
    time of any other; removal takes it out and changes no other time; ranks
    up to 2^30 overflow nothing. *)
Theorem relative_list_times ls (m : memory Z) :
  RelRepr ls m → (∀ p, head ls = Some p → -2 ^ 30 ≤ p.2 < 2 ^ 30) → Forall (λ p, 0 ≤ p.2 < 2 ^ 30) (tail ls) →
  (∀ e r, fresh_for ls.*1 m e → rank <$> elements m !! e = Some r → 0 ≤ r < 2 ^ 30 →
    ∃ m' ls', insert true e m = Some ((), m') ∧ RelRepr ls' m' ∧ ∀ t, times t ls' = place snd (e, t + r) (times t ls)) ∧
  (∀ e, e ∈ ls.*1 →
    ∃ m' ls', remove_element true e m = Some (e, m') ∧ RelRepr ls' m' ∧ ∀ t, times t ls' = filter (λ p, p.1 ≠ e) (times t ls)).
Proof.
  intros Hr Hh Ht. split.
  - intros e r Hf Er Hb. assert (place_fits r ls) as Hfit.
    { apply place_fits_bound; [done | | ].
      - intros p Hp. specialize (Hh p Hp). lia.
      - eapply Forall_impl; [exact Ht|]. cbn. lia. }
    pose proof (relative_insert_spec ls e r m Hr Hf Er Hfit) as ([] & m' & E & Hr')%wp_total.
    exists m', (rel_place e r ls). split_and!; [done..|]. intros t. apply rel_place_times.
  - intros e ((y & d) & -> & Hin)%list_elem_of_fmap. apply list_elem_of_split in Hin as (ls1 & ls2 & ->). cbn [fst].
    assert (sum_fits d ls2) as Hs.
    { destruct ls2 as [|[z d'] ls2]; [done|]. assert (-2 ^ 30 ≤ d < 2 ^ 30 ∧ 0 ≤ d' < 2 ^ 30) as [Hd Hd'].
      - destruct ls1 as [|p ls1]; cbn [app tail] in Ht.
        + specialize (Hh _ eq_refl). apply Forall_cons in Ht as [? _]. done.
        + apply Forall_app in Ht as [_ [H1 [H2 _]%Forall_cons]%Forall_cons]. cbn in *. lia.
      - cbn. unfold fits. lia. }
    pose proof (relative_remove_spec ls1 y d ls2 m Hr Hs) as (r & m' & E & -> & Hr')%wp_total.
    exists m', (rel_remove y (ls1 ++ (y, d) :: ls2)). split_and!; [done..|].
    intros t. apply rel_remove_times, (repr_nodup _ _ (proj1 Hr)).
Qed.

(** Two elements at 4 and 9, and a third for 9, in both kinds of list. *)
Definition four_nine (offset : Z) : memory Z :=
  Memory {[1%positive := Element 10 4 None (Some 2%positive);
           2%positive := Element 20 offset (Some 1%positive) None;
           3%positive := Element 30 9 None None]} (List 2 (Some 1%positive) (Some 2%positive)).

Lemma four_nine_repr o : Repr [1%positive; 2%positive] (four_nine o).
Proof.
  split; [|by apply (bool_decide_unpack (NoDup _)); vm_compute | done | done].
  cbn [seg first_of elements four_nine]. split_and!; [| |done]; eexists; (split; [reflexivity|done]).
Qed.

Lemma four_nine_fresh o : fresh_for [1%positive; 2%positive] (four_nine o) 3%positive.
Proof. split_and!; [by apply (bool_decide_unpack (_ ∉ _)); vm_compute | by eexists | done]. Qed.

Example ordered_insert_in_order_witness :
  ∃ m', insert false 3%positive (four_nine 9) = Some ((), m') ∧ Repr [1%positive; 2%positive; 3%positive] m'.
Proof.
  destruct (ordered_insert_in_order 3%positive [1%positive; 2%positive] (four_nine 9)
    (four_nine_repr 9) (four_nine_fresh 9)) as (m' & l1 & l2 & E & El & Hr & _ & H2 & _).
  - repeat constructor; unfold in_order; vm_compute; discriminate.
  - exists m'. split; [exact E|].
    destruct l2 as [|y l2]; [rewrite app_nil_r in El; by subst|].
    exfalso. apply Forall_cons in H2 as [Hy _].
    assert (y ∈ [1%positive; 2%positive]) as Hin by (rewrite El; apply elem_of_app; right; by left).
    apply elem_of_cons in Hin as [->|Hin]; [by vm_compute in Hy|].
    apply list_elem_of_singleton in Hin as ->. by vm_compute in Hy.
Defined.

Example relative_list_times_witness :
  ∃ m' ls', insert true 3%positive (four_nine 5) = Some ((), m') ∧ RelRepr ls' m' ∧
    times 0 ls' = [(1%positive, 4); (2%positive, 9); (3%positive, 9)].
Proof.
  destruct (relative_list_times [(1%positive, 4); (2%positive, 5)] (four_nine 5)) as [Hi _].
  - split; [apply four_nine_repr | by repeat constructor].
  - intros p [= <-]. done.
  - by repeat constructor.
  - destruct (Hi 3%positive 9 (four_nine_fresh 5) eq_refl ltac:(done)) as (m' & ls' & E & Hr & Ht).
    exists m', ls'. split; [exact E|]. split; [exact Hr|]. rewrite Ht. reflexivity.
Defined.
