(* ===== verification/Sched.v ===== *)
(** * Scheduling lists (include/utility/list.h)

    Class Scheduling_List over Ordered_List: the element chosen to run is kept
    outside the list.  [ready] is the list as the scheduler sees it, and
    [perform] each operation on it.  Whether the object of an element is
    eligible ([criterion().eligible()]) and the rank of an idle thread are
    given by the scheduling criterion: they are parameters.  Class Scheduler
    (include/utility/scheduler.h) passes its calls on to the list. *)

From stdpp Require Import base numbers list option gmap sorting.
From S2P Require Import Prelude StateM DList OrderedList.
#[local] Set Warnings "-clear-no-such-hyp".

(** ** Methods

    [_chosen] is passed in and out. *)

Section methods.
Context {R : Type} `{!Ranked R} (eligible : loc → bool) (IDLE : Z).
Implicit Types (e : loc) (c : option loc).

Definition sched_insert c e : M R (option loc) :=
  match c with
  | Some _ => _ ← insert false e; mret c
  | None => mret (Some e)
  end.

Definition sched_remove c e : M R (option loc) :=
  if decide (c = Some e) then remove_head
  else _ ← remove_element false e; mret c.

Definition head_eligible : M R bool := h ← field _head; h ← deref h; mret (eligible h).

Definition choose c : M R (option loc) :=
  b ← empty;
  ok ← (if b : bool then mret false else head_eligible);
  if ok : bool then e ← deref c; _ ← insert false e; remove_head
  else mret c.

Definition head_rank : M R Z := h ← field _head; h ← deref h; r ← get rank h; mret (to_int r).

Definition choose_another c : M R (option loc) :=
  b ← empty;
  ok ← (if b : bool then mret false else
        el ← head_eligible;
        if el : bool then r ← head_rank; mret (negb (r =? IDLE)) else mret false);
  if ok : bool then
    c' ← remove_head;
    tmp ← deref c;
    _ ← insert false tmp;
    mret c'
  else mret c.

(** [choose(Element * e)] *)
Definition choose_element c e : M R (option loc) :=
  if decide (c = Some e) then mret c
  else
    o ← deref c;
    _ ← insert false o;
    e ← remove_element false e;
    mret (Some e).
End methods.

(** ** What the scheduler sees *)

Record ready := Ready { chosen : option loc; queue : list loc }.

Definition members (s : ready) : list loc :=
  match chosen s with Some c => c :: queue s | None => queue s end.

Inductive sched_op :=
| Op_insert (e : loc) | Op_remove (e : loc) | Op_choose | Op_choose_another | Op_choose_element (e : loc).

Section perform.
Context (eligible : loc → bool) (IDLE : Z) (rk : loc → Z) (known : loc → Prop) {known_dec : ∀ e, Decision (known e)}.

Definition hand_over (q : list loc) : ready := Ready (head q) (tail q).

(** [None]: the operation is not allowed. *)
Definition perform (op : sched_op) (s : ready) : option ready :=
  match op, chosen s with
  | Op_insert e, c =>
      if decide ((e ∉ members s) ∧ known e ∧ Z.of_nat (length (queue s)) + 1 < 2 ^ 32) then
        Some (match c with Some _ => Ready c (place rk e (queue s)) | None => Ready (Some e) (queue s) end)
      else None
  | Op_remove e, c =>
      if decide (c = Some e) then Some (hand_over (queue s))
      else if decide (e ∈ queue s) then Some (Ready c (without e (queue s))) else None
  | Op_choose, c =>
      match head (queue s) with
      | Some y =>
          if eligible y then
            match c with
            | Some e => if decide (Z.of_nat (length (queue s)) + 1 < 2 ^ 32) then Some (hand_over (place rk e (queue s))) else None
            | None => None
            end
          else Some s
      | None => Some s
      end
  | Op_choose_another, c =>
      match head (queue s) with
      | Some y =>
          if eligible y && negb (rk y =? IDLE) then
            match c with Some e => Some (Ready (Some y) (place rk e (tail (queue s)))) | None => None end
          else Some s
      | None => Some s
      end
  | Op_choose_element e, c =>
      if decide (c = Some e) then Some s
      else match c with
           | Some o =>
               if decide (e ∈ queue s ∧ Z.of_nat (length (queue s)) + 1 < 2 ^ 32)
               then Some (Ready (Some e) (without e (place rk o (queue s)))) else None
           | None => None
           end
  end.

Fixpoint performs (ops : list sched_op) (s : ready) : option ready :=
  match ops with [] => Some s | op :: ops' => s ← perform op s; performs ops' s end.
End perform.

Definition sched_call {R} `{!Ranked R} (eligible : loc → bool) (IDLE : Z) (op : sched_op) (c : option loc) : M R (option loc) :=
  match op with
  | Op_insert e => sched_insert c e
  | Op_remove e => sched_remove c e
  | Op_choose => choose eligible c
  | Op_choose_another => choose_another eligible IDLE c
  | Op_choose_element e => choose_element c e
  end.

Fixpoint sched_calls {R} `{!Ranked R} (eligible : loc → bool) (IDLE : Z) (ops : list sched_op) (c : option loc) : M R (option loc) :=
  match ops with [] => mret c | op :: ops' => c ← sched_call eligible IDLE op c; sched_calls eligible IDLE ops' c end.

(** ** The list refines what the scheduler sees *)

Section refinement.
Context {R : Type} `{!Ranked R} (eligible : loc → bool) (IDLE : Z).
Implicit Types (e : loc) (m : memory R) (l : list loc).

(** The chosen element is outside the list. *)
Definition SchedRepr (s : ready) m : Prop :=
  Repr (queue s) m ∧ NoDup (members s) ∧ ∀ e, e ∈ members s → is_Some (elements m !! e).

Definition same_payload m m' : Prop := ∀ e, payload <$> elements m' !! e = payload <$> elements m !! e.

Lemma same_payload_known m m' e : same_payload m m' → is_Some (elements m !! e) ↔ is_Some (elements m' !! e).
Proof. intros H. rewrite <- !(fmap_is_Some payload), H. done. Qed.

Lemma same_payload_rank m m' e : same_payload m m' → rank_of m' e = rank_of m e.
Proof.
  intros H. specialize (H e). unfold rank_of, payload in *.
  destruct (elements m' !! e), (elements m !! e); cbn in *; congruence.
Qed.

Lemma insert_ready s o m (Q : unit → memory R → Prop) :
  Repr (queue s) m → o ∉ queue s → is_Some (elements m !! o) → Z.of_nat (length (queue s)) + 1 < 2 ^ 32 →
  (∀ m', Repr (place (rank_of m) o (queue s)) m' → same_payload m m' → Q () m') →
  wp (insert false o) Q m.
Proof.
  intros Hr Ho Hk Hl HQ. eapply wp_weaken; [by apply insert_spec|]. intros [] m' [Hr' K]. apply HQ; [done|exact (proj2 K)].
Qed.

Lemma remove_element_ready l e m :
  Repr l m → e ∈ l →
  wp (remove_element false e) (λ r m', r = e ∧ Repr (without e l) m' ∧ same_payload m m') m.
Proof.
  intros Hr He. unfold remove_element. wp_step. eapply wp_weaken; [by apply remove_in|]. intros r m' (-> & Hr' & K).
  cbn beta. assert (is_Some (elements m' !! e)) as [x Ex].
  { apply (same_payload_known m m'); [exact (proj2 K)|]. eapply seg_in; [apply Hr|done]. }
  wp_step. eapply wp_get; [done|]. cbn beta. wp_step. destruct (next x); [unfold rank_plus|]; wp_step; wp_step; (split_and!; [done..|exact (proj2 K)]).
Qed.

Lemma wp_head_eligible y l m (Q : bool → memory R → Prop) :
  Repr (y :: l) m → Q (eligible y) m → wp (head_eligible eligible) Q m.
Proof. intros Hr HQ. unfold head_eligible. do 2 wp_step. rewrite (repr_this _ _ Hr). cbn [_head first_of]. do 2 wp_step. by wp_step. Qed.

Lemma wp_head_rank y l m (Q : Z → memory R → Prop) :
  Repr (y :: l) m → Q (rank_of m y) m → wp head_rank Q m.
Proof.
  intros Hr HQ. unfold head_rank. do 2 wp_step. rewrite (repr_this _ _ Hr). cbn [_head first_of]. do 3 wp_step.
  destruct (repr_seg _ _ Hr) as [(x & Ex & _) _]. eapply wp_get; [done|]. wp_step. by rewrite <- (rank_of_in m y x).
Qed.

Lemma sched_repr_later l s' m m' :
  Repr (queue s') m' → same_payload m m' → members s' ≡ₚ l → NoDup l → (∀ e, e ∈ l → is_Some (elements m !! e)) →
  SchedRepr s' m' ∧ same_payload m m'.
Proof.
  intros Hr K Hp Hn Hk. split; [|done]. split_and!; [done|by rewrite Hp|]. intros e He.
  apply (same_payload_known m m'); [done|]. apply Hk. by rewrite <- Hp.
Qed.

Lemma hand_over_members l : members (hand_over l) = l.
Proof. by destruct l. Qed.

Lemma without_members e l : NoDup l → e ∈ l → l ≡ₚ e :: without e l.
Proof.
  intros Hn He. apply list_elem_of_split in He as (l1 & l2 & ->). rewrite without_mid by done.
  by rewrite Permutation_middle.
Qed.

Lemma insert_call_spec e c q m s' :
  SchedRepr (Ready c q) m →
  perform eligible IDLE (rank_of m) (λ e, is_Some (elements m !! e)) (Op_insert e) (Ready c q) = Some s' →
  wp (sched_insert c e) (λ c m', c = chosen s' ∧ SchedRepr s' m' ∧ same_payload m m') m.
Proof.
  intros (Hr & Hn & Hk). cbn [perform chosen queue] in *. case_decide as Hd; [|done]. intros [= <-].
  destruct Hd as (He & Hke & Hl). destruct c as [o|]; cbn [sched_insert members chosen queue] in *.
  - wp_step. apply not_elem_of_cons in He as [Heo He].
    apply (insert_ready (Ready (Some o) q)); [done..|]. intros m' Hr' K. cbn [queue] in *. wp_step. split; [done|].
    apply (sched_repr_later (e :: o :: q)); [done..| |constructor; [set_solver|done]|].
    + cbn [members chosen queue]. rewrite place_perm. apply Permutation_swap.
    + by intros y [->|Hy]%elem_of_cons; [|apply Hk].
  - wp_step. split; [done|]. apply (sched_repr_later (e :: q)); [done..|by constructor|].
    by intros y [->|Hy]%elem_of_cons; [|apply Hk].
Qed.

Lemma remove_call_spec e c q m s' :
  SchedRepr (Ready c q) m →
  perform eligible IDLE (rank_of m) (λ e, is_Some (elements m !! e)) (Op_remove e) (Ready c q) = Some s' →
  wp (sched_remove c e) (λ c m', c = chosen s' ∧ SchedRepr s' m' ∧ same_payload m m') m.
Proof.
  intros (Hr & Hn & Hk). cbn [perform chosen queue] in *. unfold sched_remove. case_decide as Hc.
  - intros [= <-]. subst c. cbn [members chosen queue] in *. eapply wp_weaken; [by apply remove_head_spec|].
    intros r m' (-> & Hr' & K). split; [done|]. apply NoDup_cons in Hn as [_ Hn].
    apply (sched_repr_later q); [done|exact (proj2 K)|by rewrite hand_over_members|done|]. intros y Hy. apply Hk. by right.
  - case_decide as He; [|done]. intros [= <-]. wp_step. eapply wp_weaken; [by apply remove_element_ready|].
    intros r m' (_ & Hr' & K). cbn beta. wp_step. split; [done|].
    assert (members (Ready c q) ≡ₚ e :: members (Ready c (without e q))) as Hp.
    { assert (NoDup q) as Hq by (destruct c; [by apply NoDup_cons in Hn as [_ Hn]|done]).
      pose proof (without_members e q Hq He) as Hw. destruct c; cbn [members chosen queue] in *; [|done].
      rewrite Hw at 1. apply Permutation_swap. }
    apply (sched_repr_later (members (Ready c (without e q)))); [done..| |].
    + rewrite Hp in Hn. by apply NoDup_cons in Hn as [_ Hn].
    + intros y Hy. apply Hk. rewrite Hp. by right.
Qed.

Lemma choose_call_spec c q m s' :
  SchedRepr (Ready c q) m →
  perform eligible IDLE (rank_of m) (λ e, is_Some (elements m !! e)) Op_choose (Ready c q) = Some s' →
  wp (choose eligible c) (λ c m', c = chosen s' ∧ SchedRepr s' m' ∧ same_payload m m') m.
Proof.
  intros HS Hp. pose proof HS as (Hr & Hn & Hk). cbn [perform chosen queue] in *. unfold choose.
  wp_step. apply (wp_empty q); [done|]. destruct q as [|y q]; cbn [head] in Hp.
  { rewrite bool_decide_true by done. injection Hp as <-. wp_step. by wp_step. }
  rewrite bool_decide_false by done. wp_step. apply (wp_head_eligible y q); [done|].
  destruct (eligible y); [|by injection Hp as <-; wp_step]. destruct c as [o|]; [|done]. case_decide as Hl; [|done].
  injection Hp as <-. cbn [members chosen queue] in *. apply NoDup_cons in Hn as [Ho Hn']. wp_step. wp_step. wp_step.
  apply (insert_ready (Ready (Some o) (y :: q))); [done|done|apply Hk; by left|done|]. intros m1 Hr1 K1. cbn [queue] in *.
  eapply wp_weaken; [by apply remove_head_spec|]. intros r m' (-> & Hr' & K). split; [done|].
  apply (sched_repr_later (o :: y :: q)); [done| |rewrite hand_over_members; exact (place_perm (rank_of m) o (y :: q))|by constructor|done].
  intros e. by rewrite (proj2 K).
Qed.

Lemma choose_another_call_spec c q m s' :
  SchedRepr (Ready c q) m →
  perform eligible IDLE (rank_of m) (λ e, is_Some (elements m !! e)) Op_choose_another (Ready c q) = Some s' →
  wp (choose_another eligible IDLE c) (λ c m', c = chosen s' ∧ SchedRepr s' m' ∧ same_payload m m') m.
Proof.
  intros HS Hp. pose proof HS as (Hr & Hn & Hk). cbn [perform chosen queue] in *. unfold choose_another.
  wp_step. apply (wp_empty q); [done|]. destruct q as [|y q]; cbn [head tail] in Hp.
  { rewrite bool_decide_true by done. injection Hp as <-. wp_step. by wp_step. }
  rewrite bool_decide_false by done. wp_step. wp_step. apply (wp_head_eligible y q); [done|].
  destruct (eligible y); [|by injection Hp as <-; wp_step; wp_step]. cbn [andb] in Hp. wp_step.
  apply (wp_head_rank y q); [done|]. wp_step. destruct (negb (rank_of m y =? IDLE)); [|by injection Hp as <-; wp_step].
  destruct c as [o|]; [|done]. injection Hp as <-. cbn [members chosen queue] in *. apply NoDup_cons in Hn as [Ho Hn'].
  wp_step. eapply wp_weaken; [by apply remove_head_spec|]. intros r m1 (-> & Hr1 & K1). cbn [head tail] in *.
  wp_step. wp_step. wp_step. apply not_elem_of_cons in Ho as [Hoy Ho].
  apply (insert_ready (Ready (Some y) q)); [done|done| | |]; cbn [queue].
  - apply (same_payload_known m m1); [exact (proj2 K1)|]. apply Hk. by left.
  - pose proof (repr_small _ _ Hr) as Hs. cbn [length] in Hs. lia.
  - intros m' Hr' K. wp_step. split; [done|].
    rewrite (place_ext (rank_of m1) (rank_of m)) in Hr' by (intros; apply (same_payload_rank m); exact (proj2 K1)).
    apply (sched_repr_later (o :: y :: q)); [done| | |by constructor; [set_solver|]|done].
    + intros e. rewrite K. apply (proj2 K1).
    + cbn [members chosen queue]. rewrite place_perm. apply Permutation_swap.
Qed.

Lemma choose_element_call_spec e c q m s' :
  SchedRepr (Ready c q) m →
  perform eligible IDLE (rank_of m) (λ e, is_Some (elements m !! e)) (Op_choose_element e) (Ready c q) = Some s' →
  wp (choose_element c e) (λ c m', c = chosen s' ∧ SchedRepr s' m' ∧ same_payload m m') m.
Proof.
  intros HS Hp. pose proof HS as (Hr & Hn & Hk). cbn [perform chosen queue] in *. unfold choose_element.
  destruct (decide (c = Some e)) as [Hc|Hc]; [by injection Hp as <-; wp_step|]. destruct c as [o|]; [|done]. case_decide as Hd; [|done].
  destruct Hd as [He Hl]. injection Hp as <-. cbn [members chosen queue] in *. apply NoDup_cons in Hn as [Ho Hn'].
  wp_step. wp_step. wp_step.
  apply (insert_ready (Ready (Some o) q)); [done|done|apply Hk; by left|done|]. intros m1 Hr1 K1. cbn [queue] in *.
  assert (e ∈ place (rank_of m) o q) as He' by (rewrite place_perm; by right).
  wp_step. eapply wp_weaken; [by apply remove_element_ready|]. intros r m' (-> & Hr' & K). cbn beta. wp_step. split; [done|].
  apply (sched_repr_later (o :: q)); [done| | |by constructor|done].
  - intros y. rewrite K. apply K1.
  - cbn [members chosen queue]. rewrite <- without_members; [by rewrite place_perm| |done].
    rewrite place_perm. by constructor.
Qed.

(** Every operation keeps its promise. *)
Lemma sched_call_spec op s s' m :
  SchedRepr s m →
  perform eligible IDLE (rank_of m) (λ e, is_Some (elements m !! e)) op s = Some s' →
  wp (sched_call eligible IDLE op (chosen s)) (λ c m', c = chosen s' ∧ SchedRepr s' m' ∧ same_payload m m') m.
Proof.
  destruct s as [c q]. destruct op; cbn [sched_call chosen].
  - apply insert_call_spec.
  - apply remove_call_spec.
  - apply choose_call_spec.
  - apply choose_another_call_spec.
  - apply choose_element_call_spec.
Qed.
End refinement.

(** ** Scheduling policy

    [rk] orders the elements: the smaller the sooner. *)

Section policy.
Context (eligible : loc → bool) (IDLE : Z) (rk : loc → Z) (known : loc → Prop) {known_dec : ∀ e, Decision (known e)}.

Definition sorted (s : ready) : Prop := StronglySorted (in_order rk) (queue s).

Lemma sorted_tail l : StronglySorted (in_order rk) l → StronglySorted (in_order rk) (tail l).
Proof. destruct l; [done|]. by intros [? _]%StronglySorted_inv. Qed.

Lemma sorted_without e l : StronglySorted (in_order rk) l → StronglySorted (in_order rk) (without e l).
Proof.
  unfold without. induction 1 as [|y l Hs IH Hy]; [constructor|]. rewrite filter_cons. case_decide; [|done].
  constructor; [done|]. rewrite Forall_forall in Hy |- *. intros z Hz. apply Hy. by apply list_elem_of_filter in Hz as [_ Hz].
Qed.

(** Every operation leaves the list in order. *)
Lemma perform_sorted op s s' :
  sorted s → perform eligible IDLE rk known op s = Some s' → sorted s'.
Proof.
  unfold sorted, perform. intros Hs Hp.
  destruct op, (chosen s) as [c|]; repeat case_decide; try case_match; try case_match; simplify_eq/=;
    try done; auto using place_sorted, sorted_tail, sorted_without.
Qed.

Lemma in_order_head y l z : StronglySorted (in_order rk) (y :: l) → z ∈ l → rk y ≤ rk z.
Proof. intros [_ H]%StronglySorted_inv Hz. rewrite Forall_forall in H. by apply H. Qed.

(** Choosing among the chosen element and a list headed by an eligible one. *)
Lemma choose_step c y q :
  eligible y = true → Z.of_nat (length (y :: q)) + 1 < 2 ^ 32 →
  perform eligible IDLE rk known Op_choose (Ready (Some c) (y :: q)) =
    Some (if rk y <=? rk c then Ready (Some y) (place rk c q) else Ready (Some c) (y :: q)).
Proof.
  intros He Hl. cbn [perform chosen queue head]. rewrite He. case_decide; [|done]. cbn [place].
  by destruct (rk y <=? rk c).
Qed.

(** The elements of the rank of [c] in front of the list. *)
Lemma choose_rotates c l1 l2 :
  Forall (λ y, rk y = rk c) l1 → (∀ z, z ∈ l2 → rk c < rk z) → (∀ y, y ∈ c :: l1 ++ l2 → eligible y = true) →
  Z.of_nat (length (l1 ++ l2)) + 1 < 2 ^ 32 →
  perform eligible IDLE rk known Op_choose (Ready (Some c) (l1 ++ l2)) =
    Some (match l1 with [] => Ready (Some c) l2 | y :: l1' => Ready (Some y) (l1' ++ c :: l2) end).
Proof.
  intros H1 H2 He Hl. destruct l1 as [|y l1]; cbn [app] in *.
  - destruct l2 as [|z l2]; [done|]. rewrite choose_step by (try done; apply He; by right; left).
    by rewrite (proj2 (Z.leb_gt _ _)) by (apply H2; by left).
  - apply Forall_cons in H1 as [Hy H1]. rewrite choose_step by (try done; apply He; by right; left).
    rewrite Hy, Z.leb_refl. do 2 f_equal. destruct l2 as [|z l2].
    + rewrite !app_nil_r. apply place_end. eapply Forall_impl; [exact H1|]. cbn. lia.
    + apply place_before; [eapply Forall_impl; [exact H1|]; cbn; lia|]. apply H2. by left.
Qed.

Lemma choose_members c q s' :
  perform eligible IDLE rk known Op_choose (Ready (Some c) q) = Some s' → members s' ≡ₚ c :: q.
Proof.
  cbn [perform chosen queue]. destruct q as [|y q]; cbn [head]; [by intros [= <-]|].
  destruct (eligible y); [|by intros [= <-]]. case_decide; [|done]. intros [= <-].
  rewrite hand_over_members. exact (place_perm rk c (y :: q)).
Qed.

Lemma choose_allowed c q :
  Z.of_nat (length q) + 1 < 2 ^ 32 →
  ∃ s' x, perform eligible IDLE rk known Op_choose (Ready (Some c) q) = Some s' ∧ chosen s' = Some x.
Proof.
  intros Hl. destruct q as [|y q]; [by eexists _, _|]. destruct (eligible y) eqn:Ey.
  - rewrite choose_step by done. by destruct (rk y <=? rk c); eexists _, _.
  - cbn [perform chosen queue head]. rewrite Ey. by eexists _, _.
Qed.
End policy.

Lemma perform_ext eligible IDLE rk rk' (known known' : loc → Prop) (d : ∀ e, Decision (known e)) (d' : ∀ e, Decision (known' e)) op s :
  (∀ e, rk e = rk' e) → (∀ e, known e ↔ known' e) →
  perform eligible IDLE rk known op s = perform eligible IDLE rk' known' op s.
Proof.
  intros Hrk Hk. assert (∀ e l, place rk e l = place rk' e l) as Hp by (intros; apply place_ext; auto).
  unfold perform. destruct op, (chosen s); rewrite ?Hp; try done;
    try (erewrite decide_ext; [reflexivity|by rewrite Hk]); destruct (head (queue s)); rewrite ?Hrk, ?Hp; done.
Qed.

(** ** Taking turns *)

Section turns.
Context {A : Type}.
Implicit Types t : list A.

Definition turn t : list A := match t with [] => [] | x :: t' => t' ++ [x] end.

Lemma turn_perm t : turn t ≡ₚ t.
Proof. destruct t as [|x t]; [done|]. cbn. by rewrite Permutation_app_comm. Qed.

Lemma turns_perm n t : Nat.iter n turn t ≡ₚ t.
Proof. induction n as [|n IH]; [done|]. rewrite Nat.iter_succ. by rewrite turn_perm. Qed.

Lemma turns_split n t :
  t ≠ [] → Nat.iter n turn t = drop (n mod length t) t ++ take (n mod length t) t.
Proof.
  intros Ht. assert (length t ≠ 0)%nat as Hl by by destruct t. induction n as [|n IH].
  - rewrite Nat.Div0.mod_0_l. cbn. by rewrite app_nil_r.
  - rewrite Nat.iter_succ, IH. pose proof (Nat.mod_upper_bound n (length t) Hl) as Hk.
    assert (S n `mod` length t = if decide (S (n `mod` length t) = length t) then 0 else S (n `mod` length t))%nat as E.
    { replace (S n) with (n + 1)%nat by lia. rewrite <- Nat.Div0.add_mod_idemp_l. case_decide as Hd.
      - replace (n mod length t + 1)%nat with (length t) by lia. by rewrite Nat.Div0.mod_same.
      - rewrite Nat.mod_small by lia. lia. }
    rewrite E. set (k := (n `mod` length t)%nat) in *. destruct (lookup_lt_is_Some_2 t k Hk) as [x Hx].
    rewrite (drop_S t x k Hx). cbn [app turn]. rewrite <- app_assoc, <- (take_S_r t k x Hx). case_decide as Hd.
    + rewrite Hd, drop_all, firstn_all. cbn. by rewrite app_nil_r.
    + done.
Qed.

Lemma turns_head n t : t ≠ [] → head (Nat.iter n turn t) = t !! (n mod length t)%nat.
Proof.
  intros Ht. rewrite turns_split by done. assert (length t ≠ 0)%nat as Hl by by destruct t.
  destruct (lookup_lt_is_Some_2 t (n mod length t)) as [x Hx]; [by apply Nat.mod_upper_bound|].
  by rewrite Hx, (drop_S t x _ Hx).
Qed.
End turns.

Lemma turns_performed eligible IDLE rk known {dec : ∀ e, Decision (known e)} n : ∀ c t l2,
  Forall (λ y, rk y = rk c) t → (∀ z, z ∈ l2 → rk c < rk z) → (∀ y, y ∈ c :: t ++ l2 → eligible y = true) →
  Z.of_nat (length (t ++ l2)) + 1 < 2 ^ 32 →
  performs eligible IDLE rk known (replicate n Op_choose) (Ready (Some c) (t ++ l2)) =
    Some match Nat.iter n turn (c :: t) with [] => Ready None [] | x :: r => Ready (Some x) (r ++ l2) end.
Proof.
  induction n as [|n IH]; intros c t l2 Ht H2 He Hl; [done|]. cbn [replicate performs].
  rewrite choose_rotates by done. rewrite Nat.iter_succ_r. destruct t as [|y t]; cbn [turn app].
  - by apply (IH c []).
  - apply Forall_cons in Ht as [Hy Ht]. change (t ++ c :: l2) with (t ++ [c] ++ l2). rewrite app_assoc. apply IH.
    + rewrite Hy. apply Forall_app. by repeat constructor.
    + intros z Hz. rewrite Hy. by apply H2.
    + intros z Hz. apply He. revert Hz. clear. set_solver.
    + rewrite !length_app in *. cbn [length] in *. lia.
Qed.

(** ** What the class promises *)

Lemma sched_calls_spec {R} `{!Ranked R} eligible IDLE ops s (m : memory R) s' :
  SchedRepr s m → sorted (rank_of m) s →
  performs eligible IDLE (rank_of m) (λ e, is_Some (elements m !! e)) ops s = Some s' →
  ∃ m', sched_calls eligible IDLE ops (chosen s) m = Some (chosen s', m') ∧ SchedRepr s' m' ∧
    sorted (rank_of m) s' ∧ same_payload m m'.
Proof.
  intros HS Hs Hp.
  assert (wp (sched_calls eligible IDLE ops (chosen s))
    (λ c m', c = chosen s' ∧ SchedRepr s' m' ∧ sorted (rank_of m) s' ∧ same_payload m m') m) as Hwp.
  { assert (∀ ops s m1, SchedRepr s m1 → same_payload m m1 → sorted (rank_of m) s →
      performs eligible IDLE (rank_of m) (λ e, is_Some (elements m !! e)) ops s = Some s' →
      wp (sched_calls eligible IDLE ops (chosen s))
        (λ c m', c = chosen s' ∧ SchedRepr s' m' ∧ sorted (rank_of m) s' ∧ same_payload m m') m1) as Hall;
      [|by apply Hall].
    clear s HS Hs Hp ops. induction ops as [|op ops IH]; intros s m1 HS K Hs Hp; cbn [performs sched_calls] in *.
    - injection Hp as <-. by wp_step.
    - destruct (perform _ _ _ _ op s) as [s1|] eqn:E; [|done]. cbn in Hp. wp_step.
      pose proof (perform_sorted _ _ _ _ op s s1 Hs E) as Hs1.
      assert (perform eligible IDLE (rank_of m1) (λ e, is_Some (elements m1 !! e)) op s = Some s1) as E1.
      { rewrite <- E. apply perform_ext; intros e; [by apply same_payload_rank|]. symmetry. by apply same_payload_known. }
      eapply wp_weaken; [by apply (sched_call_spec eligible IDLE op s s1)|]. intros c m2 (-> & HS2 & K2). cbn beta.
      apply IH; [done| |done|done]. intros e. rewrite K2. apply K. }
  apply wp_total in Hwp as (c & m' & E & -> & HS' & Hs' & K). by exists m'.
Qed.

(** Choosing, and choosing over and over, on what the scheduler sees. *)
Lemma choose_policy eligible IDLE rk known (dec : ∀ e, Decision (known e)) c t q :
  StronglySorted (in_order rk) q → Z.of_nat (length q) + 1 < 2 ^ 32 →
  (∀ s', perform eligible IDLE rk known Op_choose (Ready (Some c) q) = Some s' →
    members s' ≡ₚ c :: q ∧ sorted rk s' ∧
    match head q with
    | Some y =>
        if eligible y then
          ∃ x, chosen s' = Some x ∧ (∀ z, z ∈ c :: q → rk x ≤ rk z) ∧ (rk y ≤ rk c → x = y)
        else s' = Ready (Some c) q
    | None => s' = Ready (Some c) q
    end) ∧
  (∀ l2, q = t ++ l2 → Forall (λ y, rk y = rk c) t → (∀ z, z ∈ l2 → rk c < rk z) →
    (∀ y, y ∈ c :: q → eligible y = true) →
    ∀ n, ∃ s', performs eligible IDLE rk known (replicate n Op_choose) (Ready (Some c) q) = Some s' ∧
      chosen s' = (c :: t) !! (n mod S (length t))%nat ∧ members s' ≡ₚ c :: q).
Proof.
  intros Hq Hl. split.
  - intros s' Hp. split_and!.
    + by eapply choose_members.
    + by refine (perform_sorted eligible IDLE rk known Op_choose (Ready (Some c) q) s' _ Hp).
    + destruct q as [|y q]; cbn [head]; [by injection Hp as <-|].
      destruct (eligible y) eqn:Ey; [|cbn in Hp; rewrite Ey in Hp; by injection Hp as <-].
      rewrite choose_step in Hp by done. injection Hp as <-.
      destruct (Z.leb_spec (rk y) (rk c)) as [Hle|Hgt].
      * exists y. split_and!; [done| |done]. intros z Hz. rewrite !elem_of_cons in Hz.
        destruct Hz as [->|[->|Hz]]; [done|done|]. by eapply in_order_head.
      * exists c. split_and!; [done| |lia]. intros z Hz. rewrite !elem_of_cons in Hz.
        destruct Hz as [->|[->|Hz]]; [done|lia|]. pose proof (in_order_head _ _ _ _ Hq Hz). lia.
  - intros l2 -> Ht H2 He n.
    pose proof (turns_performed eligible IDLE rk known n c t l2 Ht H2 He Hl) as Hn.
    assert (c :: t ≠ []) as Hne by done. pose proof (turns_head n (c :: t) Hne) as Hh.
    pose proof (turns_perm n (c :: t)) as Hperm. cbn [length] in Hh.
    destruct (Nat.iter n turn (c :: t)) as [|x r]; [by apply Permutation_nil_cons in Hperm|].
    exists (Ready (Some x) (r ++ l2)). split_and!; [exact Hn|by rewrite <- Hh|].
    cbn [members chosen queue]. by rewrite (Permutation_app_tail l2 Hperm : (x :: r) ++ l2 ≡ₚ (c :: t) ++ l2).
Qed.

(** C29 The scheduling list refines what the scheduler sees: an element chosen
    and an ordered list of the others.  Whatever the operations, as long as
    each is allowed, every one returns, with the element chosen that [perform]
    says, the links are those of the list, the list stays in order, and no
    object or rank has changed. *)
Theorem scheduling_list_refines {R} `{!Ranked R} eligible IDLE ops s (m : memory R) s' :
  SchedRepr s m → sorted (rank_of m) s →
  performs eligible IDLE (rank_of m) (λ e, is_Some (elements m !! e)) ops s = Some s' →
  ∃ m', sched_calls eligible IDLE ops (chosen s) m = Some (chosen s', m') ∧ SchedRepr s' m' ∧
    sorted (rank_of m) s' ∧ same_payload m m'.
Proof. apply sched_calls_spec. Qed.

(** The scheduler chooses by rank and takes turns.  [choose] returns: if the
    first of the list is eligible, with an element, among the one chosen and
    those of the list, that no other comes before, and that is the first of
    the list if this has the rank of the one chosen; if it is not, with the
    one chosen; no element is lost.  And when n elements of the foremost rank
    are ready, choosing over and over gives them the turn one after the
    other, each once every n times. *)
Theorem choose_takes_turns {R} `{!Ranked R} eligible IDLE c q (m : memory R) :
  SchedRepr (Ready (Some c) q) m → StronglySorted (in_order (rank_of m)) q → Z.of_nat (length q) + 1 < 2 ^ 32 →
  (∃ x m' q', choose eligible (Some c) m = Some (Some x, m') ∧ SchedRepr (Ready (Some x) q') m' ∧
    x :: q' ≡ₚ c :: q ∧ StronglySorted (in_order (rank_of m)) q' ∧
    if default false (eligible <$> head q)
    then (∀ z, z ∈ c :: q → rank_of m x ≤ rank_of m z) ∧
         ∀ y, head q = Some y → rank_of m y ≤ rank_of m c → x = y
    else x = c ∧ q' = q) ∧
  (∀ t l, q = t ++ l → Forall (λ y, rank_of m y = rank_of m c) t → (∀ z, z ∈ l → rank_of m c < rank_of m z) →
    (∀ y, y ∈ c :: q → eligible y = true) →
    ∀ n, ∃ x m' q', sched_calls eligible IDLE (replicate n Op_choose) (Some c) m = Some (Some x, m') ∧
      (c :: t) !! (n mod S (length t))%nat = Some x ∧ SchedRepr (Ready (Some x) q') m' ∧ x :: q' ≡ₚ c :: q).
Proof.
  intros HS Hs Hl. pose proof (choose_policy eligible IDLE (rank_of m) (λ e, is_Some (elements m !! e)) _ c) as Hpol. split.
  - destruct (Hpol [] q Hs Hl) as [Hc _].
    destruct (choose_allowed eligible IDLE (rank_of m) (λ e, is_Some (elements m !! e)) c q Hl) as (s' & x & Hp & Ex).
    destruct (Hc s' Hp) as (Hperm & Hs' & Hcase). destruct s' as [c' q']. cbn in Ex. subst c'.
    pose proof (sched_call_spec eligible IDLE Op_choose _ _ m HS Hp) as (r & m' & E & -> & HS' & _)%wp_total.
    exists x, m', q'. split_and!; [exact E|exact HS'|exact Hperm|exact Hs'|].
    destruct q as [|y q]; cbn in *; [by injection Hcase as -> ->|].
    destruct (eligible y); [|by injection Hcase as -> ->]. destruct Hcase as (x' & [= <-] & H1 & H2).
    split; [done|]. by intros ? [= <-].
  - intros t l Eq Ht Hl2 He n. destruct (Hpol t q Hs Hl) as [_ Hn]. destruct (Hn l Eq Ht Hl2 He n) as (s' & Hp & Ec & Hperm).
    destruct (lookup_lt_is_Some_2 (c :: t) (n mod S (length t))) as [x Hx]; [by apply Nat.mod_upper_bound|].
    rewrite Hx in Ec. destruct s' as [c' q']. cbn in Ec. subst c'.
    destruct (sched_calls_spec eligible IDLE _ _ m _ HS Hs Hp) as (m' & E & HS' & _). by exists x, m', q'.
Qed.

(** ** Examples *)

Definition three_ready : ready := Ready (Some 3%positive) [1%positive; 2%positive].

Lemma three_ready_repr : SchedRepr three_ready (four_nine 9).
Proof.
  split; [apply four_nine_repr|]. split; [by apply (bool_decide_unpack (NoDup _)); vm_compute|].
  intros e He. cbn in He. rewrite !elem_of_cons, elem_of_nil in He. destruct He as [->|[->|[->|[]]]]; by eexists.
Qed.

Example scheduling_list_refines_witness :
  ∃ m', sched_calls (λ _, true) 100 [Op_choose; Op_choose_another] (Some 3%positive) (four_nine 9) =
      Some (Some 2%positive, m') ∧ Repr [1%positive; 3%positive] m'.
Proof.
  destruct (scheduling_list_refines (λ _, true) 100 [Op_choose; Op_choose_another] three_ready (four_nine 9)
    (Ready (Some 2%positive) [1%positive; 3%positive])) as (m' & E & (Hr & _) & _).
  - exact three_ready_repr.
  - repeat constructor; unfold in_order; vm_compute; discriminate.
  - vm_compute. reflexivity.
  - exists m'. split; [exact E|exact Hr].
Defined.

(** Elements 1 and 2 of the same rank, the first one chosen. *)
Definition same_rank_memory : memory Z :=
  Memory {[1%positive := Element 10 7 None None; 2%positive := Element 20 7 None None]}
    (List 1 (Some 2%positive) (Some 2%positive)).

Example choose_takes_turns_witness :
  ∃ m', sched_calls (λ _, true) 100 (replicate 3 Op_choose) (Some 1%positive) same_rank_memory = Some (Some 2%positive, m').
Proof.
  destruct (choose_takes_turns (λ _, true) 100 1%positive [2%positive] same_rank_memory) as [_ H].
  - split; [|split].
    + split; [cbn; split; [by eexists|done]|by apply (bool_decide_unpack (NoDup _)); vm_compute|done|done].
    + by apply (bool_decide_unpack (NoDup _)); vm_compute.
    + intros e He. cbn in He. rewrite !elem_of_cons, elem_of_nil in He. destruct He as [->|[->|[]]]; by eexists.
  - repeat constructor.
  - cbn. lia.
  - destruct (H [2%positive] []) with (n := 3%nat) as (x & m' & q' & E & Ex & _).
    + done.
    + by repeat constructor.
    + by intros z ?%elem_of_nil.
    + done.
    + injection Ex as <-. exists m'. exact E.
Defined.
