(* ===== verification/Alarm.v ===== *)
(** * Alarms (include/time.h, src/api/alarm.cc)

    Class Alarm: a request list ordered by relative ticks, and the timer
    handler that lets a tick go by.  The methods work on the relative list of
    OrderedList.v and on the table of the alarms' other attributes; an alarm
    is named by the address of its link, which is also its object.  [tick]
    is the handler on the sequence of offsets, which it is proved to refine;
    [dues] turns offsets into absolute times, where what the calls of the
    handler ([interrupts]) promise is stated.  Calling the
    handler object of an alarm is the result of a method. *)

From stdpp Require Import base numbers list option gmap sorting.
From S2P Require Import Prelude StateM DList OrderedList.
#[local] Set Warnings "-clear-no-such-hyp".

(** [INFINITE = -1U] *)
Definition INFINITE : Z := 2 ^ 32 - 1.

Record alarm := Alarm { _time : Z; _handler : Z; _times : Z; _ticks : Z }.
Abbreviation alarms := (gmap loc alarm).

(** A [Tick] is an [int]; a [Microsecond] has 64 bits.  A division by zero, of a
    timer that stands still or of one of more than a million ticks a second,
    is undefined. *)
Definition to_tick (x : Z) : Z := (x + 2 ^ 31) mod 2 ^ 32 - 2 ^ 31.
Definition quotient (x y : Z) : option Z := if y =? 0 then None else Some (x / y).
Definition timer_period (frequency : Z) : option Z := quotient 1000000 frequency.
Definition ticks (frequency time : Z) : option Z :=
  period ← timer_period frequency;
  half ← quotient period 2;
  to_tick <$> quotient ((time + half) mod 2 ^ 64) period.

(** ** Methods *)

Definition construct_link (e : loc) (x : element Z) : M Z unit := λ m,
  Some ((), Memory (<[e := x]> (elements m)) (this m)).
Definition attributes (e : loc) (al : alarms) : M Z alarm := defined (al !! e).

(** The constructor; the result is the handler to call at once, if any. *)
Definition construct (frequency : Z) (e : loc) (time handler times : Z) (al : alarms) : M Z (alarms * option Z) :=
  t ← defined (ticks frequency time);
  let al := <[e := Alarm time handler times t]> al in
  _ ← construct_link e (Element (Zpos e) t None None);
  if t =? 0 then mret (al, Some handler) else _ ← insert true e; mret (al, None).

Definition destroy (e : loc) : M Z unit := _ ← remove_by_object true (Zpos e); mret ().

Definition reset (e : loc) (al : alarms) : M Z unit :=
  a ← attributes e al;
  _ ← remove_by_object true (Zpos e);
  _ ← put (set_rank (_ticks a)) e;
  insert true e.

(** [period(p)]: the link keeps its rank. *)
Definition period (frequency : Z) (e : loc) (p : Z) (al : alarms) : M Z alarms :=
  a ← attributes e al;
  _ ← remove_by_object true (Zpos e);
  t ← defined (ticks frequency p);
  let al := <[e := Alarm p (_handler a) (_times a) t]> al in
  _ ← insert true e;
  mret al.

(** [if(alarm->_times != INFINITE) alarm->_times--;] on an [unsigned int]. *)
Definition count_down (times : Z) : Z := if times =? INFINITE then times else (times - 1) mod 2 ^ 32.
Definition fired (a : alarm) : alarm := Alarm (_time a) (_handler a) (count_down (_times a)) (_ticks a).

(** [handler(IC::Interrupt_Id)], called at every tick; the result is the new
    count of ticks, the alarms, and the alarm whose handler is called. *)
Definition handler (elapsed : Z) (al : alarms) : M Z (Z * alarms * option loc) :=
  elapsed ← defined (int32 (elapsed + 1));
  b ← empty;
  if b : bool then mret (elapsed, al, None) else
  h ← field _head;
  h ← deref h;
  r ← promote h 1;
  if r <=? 0 then
    p ← remove_first true;
    e ← deref p;
    a ← attributes e al;
    _ ← (if 0 <? _times (fired a) then _ ← put (set_rank (_ticks a)) e; insert true e else mret ());
    mret (elapsed, <[e := fired a]> al, Some e)
  else mret (elapsed, al, None).

(** [n] interrupts of the timer: the handler's calls one after the other, and
    when each alarm was handed over to be called. *)
Fixpoint interrupts (n : nat) (elapsed : Z) (al : alarms) : M Z (list (Z * loc) * (Z * alarms)) :=
  match n with
  | O => mret ([], (elapsed, al))
  | S n' =>
      '(elapsed, al, alarm) ← handler elapsed al;
      '(fs, last) ← interrupts n' elapsed al;
      mret (option_list (pair elapsed <$> alarm) ++ fs, last)
  end.

(** ** The handler on sequences *)

Record clock := Clock { elapsed : Z; table : alarms; request : offsets }.

Definition tick (s : clock) : clock * option loc :=
  let now := elapsed s + 1 in
  match request s with
  | [] => (Clock now (table s) [], None)
  | (e, d) :: ls =>
      if d - 1 <=? 0 then
        match table s !! e with
        | Some a =>
            let ls := after (d - 1) ls in
            (Clock now (<[e := fired a]> (table s)) (if 0 <? _times (fired a) then rel_place e (_ticks a) ls else ls), Some e)
        | None => (Clock now (table s) ((e, d - 1) :: ls), None)
        end
      else (Clock now (table s) ((e, d - 1) :: ls), None)
  end.

(** When each alarm is due. *)
Definition dues (s : clock) : offsets := times (elapsed s) (request s).

(** The due times of at most [N] alarms of at most [B] ticks each: in order, and
    none later than its place among the [N] allows. *)
Definition on_time (N B now : Z) (ds : offsets) : Prop :=
  StronglySorted (in_order snd) ds ∧ Z.of_nat (length ds) ≤ N ∧
  ∀ i p, ds !! i = Some p → now - (N - Z.of_nat i) < p.2 ≤ now + B.

Record Inv (N B : Z) (s : clock) : Prop := {
  inv_on_time : on_time N B (elapsed s) (dues s);
  inv_nodup : NoDup (request s).*1;
  inv_table : ∀ e, e ∈ (request s).*1 → ∃ a, table s !! e = Some a ∧ 0 < _ticks a ≤ B
}.

(** ** The handler on due times *)

Lemma times_elements t ls : (times t ls).*1 = ls.*1.
Proof. revert t; induction ls as [|[e d] ls IH]; intros t; [done|]. cbn [times fmap list_fmap fst]. f_equal. apply IH. Qed.

Lemma times_length t ls : length (times t ls) = length ls.
Proof. rewrite <- (length_fmap fst), times_elements. by rewrite length_fmap. Qed.

Lemma times_after t d ls : times t (after d ls) = times (t + d) ls.
Proof. destruct ls as [|[e d'] ls]; [done|]. cbn [times after]. by replace (t + (d' + d)) with (t + d + d') by lia. Qed.

Section steps.
Context (N B : Z).

(** What a tick does to the due times: the first alarm, if its time has come,
    leaves, or moves to its next time. *)
Lemma tick_dues s :
  Inv N B s →
  elapsed (tick s).1 = elapsed s + 1 ∧
  match dues s with
  | [] => tick s = (Clock (elapsed s + 1) (table s) [], None)
  | (e, D) :: ds =>
      if D <=? elapsed s + 1 then
        ∃ a, table s !! e = Some a ∧ 0 < _ticks a ≤ B ∧ (tick s).2 = Some e ∧
          table (tick s).1 = <[e := fired a]> (table s) ∧
          dues (tick s).1 =
            if 0 <? _times (fired a) then place snd (e, elapsed s + 1 + _ticks a) ds else ds
      else (tick s).2 = None ∧ table (tick s).1 = table s ∧ dues (tick s).1 = dues s
  end.
Proof.
  intros HI. unfold dues, tick. destruct (request s) as [|[e d] ls] eqn:El; [by split|]. cbn [times].
  destruct (inv_table _ _ _ HI e) as (a & Ea & Ha1 & Ha2); [rewrite El; by left|]. rewrite Ea.
  replace (elapsed s + d <=? elapsed s + 1) with (d - 1 <=? 0)
    by (destruct (Z.leb_spec (d - 1) 0), (Z.leb_spec (elapsed s + d) (elapsed s + 1)); lia).
  destruct (d - 1 <=? 0); cbn [fst snd elapsed table request].
  - split; [done|]. exists a. split_and!; [done..|].
    replace (elapsed s + d) with (elapsed s + 1 + (d - 1)) by lia. rewrite <- (times_after (elapsed s + 1) (d - 1)).
    destruct (0 <? _times (fired a)); [apply rel_place_times | done].
  - split_and!; [done..|]. cbn [times]. by replace (elapsed s + 1 + (d - 1)) with (elapsed s + d) by lia.
Qed.

(** A place in the list of due times after a tick that fired. *)
Lemma replaced_lookup now t e (ds : offsets) i p :
  StronglySorted (in_order snd) ds → 0 < t → place snd (e, now + t) ds !! i = Some p →
  (p = (e, now + t) ∧ (i ≤ length ds)%nat) ∨ (ds !! i = Some p) ∨ (∃ j, i = S j ∧ ds !! j = Some p ∧ now + t < p.2).
Proof.
  intros Hs Ht. destruct (place_last_of_equals snd (e, now + t) ds Hs) as (l1 & l2 & -> & -> & H1 & H2).
  destruct (decide (i < length l1)%nat) as [Hi|Hi].
  - rewrite lookup_app_l by done. intros Hp. right; left. by rewrite lookup_app_l.
  - rewrite lookup_app_r by lia. destruct (i - length l1)%nat as [|k] eqn:Ek; cbn.
    + intros [= <-]. left. split; [done|]. rewrite length_app. lia.
    + intros Hp. right; right. exists (length l1 + k)%nat. split; [lia|]. split.
      * rewrite lookup_app_r by lia. by replace (length l1 + k - length l1)%nat with k by lia.
      * rewrite Forall_forall in H2. apply list_elem_of_lookup_2 in Hp. by apply (H2 p).
Qed.

Lemma on_time_later now ds :
  on_time N B now ds → (∀ p, head ds = Some p → now + 1 < p.2) → on_time N B (now + 1) ds.
Proof.
  intros (Hs & Hn & Hl) Hh. split_and!; [done..|]. intros i p Hi. pose proof (Hl i p Hi).
  assert (now + 1 < p.2) as Hp.
  { destruct ds as [|q ds]; [done|]. specialize (Hh q eq_refl). destruct i as [|i]; [by injection Hi as <-|].
    apply StronglySorted_inv in Hs as [_ Hs]. cbn in Hi. rewrite Forall_forall in Hs. apply list_elem_of_lookup_2, Hs in Hi.
    unfold in_order in Hi. lia. }
  apply lookup_lt_Some in Hi. lia.
Qed.

Lemma on_time_tail now q ds : on_time N B now (q :: ds) → on_time N B (now + 1) ds.
Proof.
  intros ([Hs _]%StronglySorted_inv & Hn & Hl). cbn [length] in Hn. split_and!; [done|lia|].
  intros i p Hi. specialize (Hl (S i) p Hi). lia.
Qed.

Lemma on_time_place now t e ds :
  on_time N B now ds → Z.of_nat (length ds) < N → 0 < t ≤ B → on_time N B now (place snd (e, now + t) ds).
Proof.
  intros (Hs & _ & Hl) Hn Ht. split_and!; [by apply place_sorted | rewrite place_length; lia |].
  intros i p Hi. pose proof (lookup_lt_Some _ _ _ Hi) as Hlt. rewrite place_length in Hlt.
  apply replaced_lookup in Hi as [[-> _]|[Hi|(j & -> & Hj & Hp)]]; [cbn; lia|by apply Hl| |done|lia].
  specialize (Hl j p Hj). lia.
Qed.

(** The invariant is kept by every tick. *)
Lemma tick_inv s : Inv N B s → Inv N B (tick s).1.
Proof.
  intros HI. pose proof (tick_dues s HI) as [En Hd]. destruct HI as [Hot Hnd Ht].
  assert (∀ s', request s' = request s' → (request s').*1 = (dues s').*1) as Eq by (intros; symmetry; apply times_elements).
  rewrite Eq in Hnd, Ht by done.
  destruct (dues s) as [|[e D] ds] eqn:Ed.
  { rewrite Hd. split; cbn; [|constructor|by intros ? ?%elem_of_nil]. by apply on_time_later. }
  destruct (Z.leb_spec D (elapsed s + 1)) as [HD|HD].
  - destruct Hd as (a & Ea & Ha & _ & E1 & E2). cbn [fmap list_fmap fst] in *. apply NoDup_cons in Hnd as [He Hnd].
    pose proof (on_time_tail _ _ _ Hot) as Hot'. destruct Hot as (_ & Hlen & _). cbn [length] in Hlen.
    assert (∀ y, y = e ∨ y ∈ ds.*1 → ∃ a, table (tick s).1 !! y = Some a ∧ 0 < _ticks a ≤ B) as Htab.
    { intros y Hy. rewrite E1. destruct (decide (y = e)) as [->|Hye]; [exists (fired a); by rewrite lookup_insert_eq|].
      rewrite lookup_insert_ne by done. apply Ht. destruct Hy; [done|by right]. }
    split; rewrite ?Eq by done; rewrite E2, ?En.
    + destruct (0 <? _times (fired a)); [apply on_time_place; [done|lia|done]|done].
    + destruct (0 <? _times (fired a)); [|done].
      rewrite (place_perm snd (e, elapsed s + 1 + _ticks a) ds). cbn. by apply NoDup_cons.
    + intros y Hy. apply Htab. destruct (0 <? _times (fired a)); [|by right].
      rewrite (place_perm snd (e, elapsed s + 1 + _ticks a) ds) in Hy. cbn in Hy. by apply elem_of_cons in Hy.
  - destruct Hd as (_ & E1 & E2). split; rewrite ?Eq by done; rewrite ?E2, ?En, ?E1; [|done..].
    apply on_time_later; [done|]. by intros p [= <-].
Qed.
End steps.

Lemma remove_first_steady : steady (remove_first (R := Z) true).
Proof.
  unfold remove_first, rank_plus. apply steady_bind; [auto with steady|]. intros r.
  apply steady_bind; [|auto with steady]. intros. destruct r as [e|]; [|auto with steady].
  apply steady_bind; [auto with steady|]. intros [n|]; [|auto with steady].
  do 2 (apply steady_bind; [auto with steady|]; intros ?). apply steady_bind; [|auto with steady].
  intros m r m' y. unfold defined. destruct (rank_add _ _); [|done]. by intros [= <- <-].
Qed.

(** ** The handler on memory *)

Section handler.
Context (N B : Z).

(** Offsets of due times that are close together. *)
Lemma offsets_bounds lo hi ls : ∀ t,
  lo ≤ t → StronglySorted (in_order snd) (times t ls) → (∀ p, p ∈ times t ls → t ≤ p.2 ≤ hi) →
  Forall (λ p, 0 ≤ p.2 ≤ hi - lo) ls.
Proof.
  induction ls as [|[e d] ls IH]; intros t Ht; [constructor|]. cbn [times].
  intros [Hs Hh]%StronglySorted_inv Hb. rewrite Forall_forall in Hh.
  pose proof (Hb (e, t + d) ltac:(by left)) as Hd. cbn [snd] in Hd.
  constructor; [cbn; lia|]. apply (IH (t + d)); [lia|done|]. intros p Hp. split; [by apply (Hh p)|].
  apply Hb. by right.
Qed.

Lemma on_time_offsets now ls :
  on_time N B now (times now ls) →
  (∀ p, head ls = Some p → - N < p.2 ≤ B) ∧ Forall (λ p, 0 ≤ p.2 ≤ N + B) (tail ls).
Proof.
  intros (Hs & Hlen & Hl). destruct ls as [|[e d] ls]; [by split|]. cbn [times head tail] in *.
  pose proof (Hl 0%nat _ eq_refl) as Hd. cbn [snd] in Hd. split.
  - intros p [= <-]. cbn. lia.
  - apply StronglySorted_inv in Hs as [Hs Hh]. rewrite Forall_forall in Hh.
    eapply Forall_impl; [apply (offsets_bounds (now - N) (now + B) ls (now + d)); [lia|done|]|cbn; intros; lia].
    intros p Hp. split; [by apply (Hh p)|]. apply list_elem_of_lookup_1 in Hp as [i Hi]. specialize (Hl (S i) p Hi). lia.
Qed.

(** Bounds within which no relative rank overflows. *)
Definition small : Prop := 0 ≤ N ∧ 0 ≤ B ∧ N + B < 2 ^ 30.

Lemma wp_defined {A} (o : option A) a (Q : A → memory Z → Prop) m : o = Some a → Q a m → wp (defined o) Q m.
Proof. by intros ->. Qed.

Lemma remove_first_spec e d ls m :
  RelRepr ((e, d) :: ls) m → sum_fits d ls →
  wp (remove_first true)
    (λ r m', (r = Some e ∧ RelRepr (after d ls) m') ∧ ∀ y, is_Some (elements m !! y) → is_Some (elements m' !! y)) m.
Proof. intros Hr Hs. apply wp_steady; [apply remove_first_steady|]. by apply relative_remove_first_spec. Qed.

Lemma requeue_spec e t ls m :
  RelRepr ls m → e ∉ ls.*1 → is_Some (elements m !! e) → Z.of_nat (length ls) + 1 < 2 ^ 32 → place_fits t ls →
  wp (_ ← put (set_rank t) e; insert true e) (λ _ m', RelRepr (rel_place e t ls) m') m.
Proof.
  intros [Hr Hk] He Hin Hlen Hf. wp_step. apply wp_store; [done|]. destruct m as [h th]. cbn [elements this] in *.
  apply relative_insert_spec; [|split_and!| |done]; cbn [elements].
  - split; [by apply repr_set_rank|]. by apply ranks_alter.
  - done.
  - by rewrite lookup_alter_is_Some.
  - by rewrite length_fmap.
  - by apply rank_alter.
Qed.

Lemma handler_spec s m :
  small → Inv N B s → RelRepr (request s) m → fits (elapsed s + 1) →
  wp (handler (elapsed s) (table s))
    (λ r m', r = (elapsed (tick s).1, table (tick s).1, (tick s).2) ∧ RelRepr (request (tick s).1) m') m.
Proof.
  intros (HN & HB & Hsm) HI Hr Hf. destruct (on_time_offsets (elapsed s) (request s)) as [Hh Ht]; [apply HI|].
  unfold handler, tick. wp_step. apply wp_int32; [done|]. wp_step. apply (wp_empty (request s).*1); [apply Hr|].
  pose proof (inv_nodup _ _ _ HI) as Hnd. destruct (inv_on_time _ _ _ HI) as (_ & Hlen & _).
  unfold dues in Hlen. rewrite times_length in Hlen.
  destruct (request s) as [|[e d] ls] eqn:El; [rewrite bool_decide_true by done; by wp_step|].
  rewrite bool_decide_false by done. pose proof Hr as [Hl _]. wp_step. wp_step. rewrite (repr_this _ _ Hl).
  cbn [fmap list_fmap fst _head first_of] in *. wp_step. wp_step. wp_step. specialize (Hh _ eq_refl). cbn [tail snd length] in *.
  eapply wp_weaken; [apply promote_spec; [exact Hr|unfold fits; lia]|]. intros r m1 (-> & Hr1). cbn beta.
  destruct (d - 1 <=? 0) eqn:E0; [|by wp_step]. apply Z.leb_le in E0.
  destruct (inv_table _ _ _ HI e) as (a & Ea & Ha); [rewrite El; by left|]. rewrite Ea.
  assert (Forall (λ p, 0 ≤ p.2 < 2 ^ 30) ls) as Hls by (eapply Forall_impl; [exact Ht|cbn; intros; lia]).
  wp_step. eapply wp_weaken; [apply (remove_first_spec e (d - 1) ls); [exact Hr1|]|].
  { destruct ls as [|[y d'] ls]; [done|]. apply Forall_cons in Hls as [Hd' _]. cbn in *. unfold fits. lia. }
  intros r m2 [[-> Hr2] Hkeep]. cbn beta. wp_step. wp_step. unfold attributes. wp_step. apply (wp_defined _ a); [done|].
  apply NoDup_cons in Hnd as [He Hnd].
  assert ((after (d - 1) ls).*1 = ls.*1) as Eaf by by destruct ls as [|[y d'] ls].
  destruct (0 <? _times (fired a)); wp_step; [|wp_step; by wp_step].
  eapply wp_weaken; [apply (requeue_spec e (_ticks a)); [exact Hr2|by rewrite Eaf| | |]|].
  - apply Hkeep. destruct Hr1 as [_ [H1 _]%Forall_cons]. cbn in H1. by apply fmap_Some in H1 as (x & -> & _).
  - rewrite <- (length_fmap fst), Eaf, length_fmap. lia.
  - apply place_fits_bound; [lia| |]; destruct ls as [|[y d'] ls]; cbn [after head tail]; try done.
    + intros p [= <-]. apply Forall_cons in Hls as [Hd' _]. cbn in *. lia.
    + apply Forall_cons in Hls as [_ Hls]. eapply Forall_impl; [exact Hls|cbn; intros; lia].
  - intros [] m3 Hr3. cbn beta. by wp_step.
Qed.
End handler.

(** ** What the alarms promise *)

(** An alarm created: the state of the handler after the constructor. *)
Definition arm (e : loc) (a : alarm) (s : clock) : clock :=
  Clock (elapsed s) (<[e := a]> (table s)) (if _ticks a =? 0 then request s else rel_place e (_ticks a) (request s)).

Section promises.
Context (N B : Z).

Lemma tick_elapsed s : elapsed (tick s).1 = elapsed s + 1.
Proof. unfold tick. destruct (request s) as [|[e d] ls]; [done|]. destruct (d - 1 <=? 0); [|done]. by destruct (table s !! e). Qed.

Lemma dues_nodup s e D D' ds :
  Inv N B s → dues s = (e, D) :: ds → (e, D') ∈ dues s → D' = D.
Proof.
  intros [_ Hn _] E Hin. rewrite <- (times_elements (elapsed s)) in Hn. unfold dues in *. rewrite E in *.
  apply elem_of_cons in Hin as [[= ->]|Hin]; [done|]. cbn in Hn. apply NoDup_cons in Hn as [He _].
  destruct He. by apply (list_elem_of_fmap_2 fst) in Hin.
Qed.

Lemma tick_fires s e :
  Inv N B s → (tick s).2 = Some e → ∃ D ds, dues s = (e, D) :: ds ∧ D ≤ elapsed s + 1 ≤ D + N.
Proof.
  intros HI Hf. pose proof (tick_dues N B s HI) as [_ Hd].
  destruct (inv_on_time _ _ _ HI) as (_ & _ & Hl). destruct (dues s) as [|[e' D] ds]; [by rewrite Hd in Hf|].
  destruct (Z.leb_spec D (elapsed s + 1)) as [HD|HD]; [|destruct Hd as [Hd _]; congruence].
  destruct Hd as (a & _ & _ & Hd & _). rewrite Hf in Hd. injection Hd as ->. exists D, ds.
  specialize (Hl 0%nat _ eq_refl). cbn in Hl. split_and!; [done|lia|lia].
Qed.

Lemma due_stays s e D :
  Inv N B s → (e, D) ∈ dues s → (tick s).2 ≠ Some e → (e, D) ∈ dues (tick s).1.
Proof.
  intros HI Hin Hf. pose proof (tick_dues N B s HI) as [_ Hd]. destruct (dues s) as [|[e' D'] ds]; [by apply elem_of_nil in Hin|].
  destruct (D' <=? elapsed s + 1); [|by destruct Hd as (_ & _ & ->)].
  destruct Hd as (a & _ & _ & Hf' & _ & ->). apply elem_of_cons in Hin as [[= -> ->]|Hin]; [done|].
  destruct (0 <? _times (fired a)); [|done]. rewrite (place_perm snd (e', elapsed s + 1 + _ticks a) ds). by right.
Qed.

Lemma rel_repr_insert e x ls m :
  e ∉ ls.*1 → RelRepr ls m → RelRepr ls (Memory (<[e := x]> (elements m)) (this m)).
Proof.
  intros He [[Hs Hn Hl Et] Hk]. split; [split; [|done..]|].
  { apply (seg_frame (elements m)); [|done]. intros y Hy. cbn. rewrite lookup_insert_ne; [done|]. by intros ->. }
  rewrite Forall_forall in Hk |- *.
  intros p Hp. cbn [elements]. rewrite lookup_insert_ne; [by apply Hk|]. intros ->. by apply He, (list_elem_of_fmap_2 fst).
Qed.

Lemma arm_dues e a s :
  _ticks a ≠ 0 → dues (arm e a s) = place snd (e, elapsed s + _ticks a) (dues s).
Proof. intros Ha. unfold dues, arm. cbn. rewrite (proj2 (Z.eqb_neq _ _) Ha). apply rel_place_times. Qed.

Lemma arm_inv e a s :
  Inv N B s → e ∉ (request s).*1 → Z.of_nat (length (request s)) < N → 0 ≤ _ticks a ≤ B → Inv N B (arm e a s).
Proof.
  intros HI He Hlen Ha. destruct HI as [Hot Hnd Ht].
  assert (∀ y, y ∈ (request s).*1 → ∃ a', table (arm e a s) !! y = Some a' ∧ 0 < _ticks a' ≤ B) as Hold.
  { intros y Hy. cbn. rewrite lookup_insert_ne by (by intros ->). by apply Ht. }
  destruct (Z.eqb_spec (_ticks a) 0) as [E|E].
  { assert (request (arm e a s) = request s) as Er by (unfold arm; cbn; by rewrite E).
    split; unfold dues; rewrite ?Er; [exact Hot|done|done]. }
  split.
  - rewrite arm_dues by done. apply on_time_place; [done| |lia]. unfold dues. by rewrite times_length.
  - rewrite <- (times_elements (elapsed (arm e a s))). fold (dues (arm e a s)). rewrite arm_dues by done.
    rewrite (place_perm snd). cbn. unfold dues. rewrite times_elements. by apply NoDup_cons.
  - intros y. rewrite <- (times_elements (elapsed (arm e a s))). fold (dues (arm e a s)). rewrite arm_dues by done.
    rewrite (place_perm snd). cbn [fmap list_fmap fst]. unfold dues. rewrite times_elements.
    intros [->|Hy]%elem_of_cons; [|by apply Hold]. exists a. cbn. rewrite lookup_insert_eq. split; [done|lia].
Qed.

Lemma wp_construct_link e x (Q : unit → memory Z → Prop) m :
  Q () (Memory (<[e := x]> (elements m)) (this m)) → wp (construct_link e x) Q m.
Proof. done. Qed.

(** The constructor arms the alarm. *)
Lemma construct_spec frequency e time h times t s m :
  let a := Alarm time h times t in
  ticks frequency time = Some t → small N B → Inv N B s → RelRepr (request s) m → e ∉ (request s).*1 → Z.of_nat (length (request s)) < N →
  0 ≤ _ticks a ≤ B →
  wp (construct frequency e time h times (table s))
    (λ r m', r = (table (arm e a s), if _ticks a =? 0 then Some h else None) ∧ RelRepr (request (arm e a s)) m') m.
Proof.
  intros a Et (HN & HB & Hsm) HI Hr He Hlen Ha. destruct (on_time_offsets N B (elapsed s) (request s)) as [Hh Ht]; [apply HI|].
  unfold construct, arm. wp_step. apply (wp_defined _ t); [done|]. cbv zeta. change (t =? 0) with (_ticks a =? 0). fold a. cbn [table request].
  wp_step. apply wp_construct_link. cbn beta.
  destruct (Z.eqb_spec (_ticks a) 0) as [E|E]; [wp_step; split; [done|by apply rel_repr_insert]|].
  wp_step. eapply wp_weaken; [apply (relative_insert_spec (request s) e (_ticks a))|].
  - by apply rel_repr_insert.
  - split_and!; [done| |rewrite length_fmap; lia]. cbn. by rewrite lookup_insert_eq.
  - cbn. by rewrite lookup_insert_eq.
  - apply place_fits_bound; [lia| |].
    + intros p Hp. specialize (Hh p Hp). lia.
    + eapply Forall_impl; [exact Ht|cbn; intros; lia].
  - intros [] m' Hr'. cbn beta. by wp_step.
Qed.
End promises.

(** C30 The timer handler does one tick of the schedule.  On up to N alarms of up
    to B ticks, N + B < 2^30, it returns without overflow, moves the first
    alarm's offset, and, if its time has come, takes it out, counts it down,
    puts it back at its next time unless it was its last, and hands it over
    to be called; and the schedule stays in order, with no alarm later than
    its place allows. *)
Theorem handler_refines_tick N B s m :
  small N B → Inv N B s → RelRepr (request s) m → fits (elapsed s + 1) →
  ∃ m', handler (elapsed s) (table s) m =
      Some ((elapsed (tick s).1, table (tick s).1, (tick s).2), m') ∧
    RelRepr (request (tick s).1) m' ∧ Inv N B (tick s).1.
Proof.
  intros Hs HI Hr Hf. pose proof (handler_spec N B s m Hs HI Hr Hf) as (r & m' & E & -> & Hr')%wp_total.
  exists m'. split_and!; [done..|by apply tick_inv].
Qed.

(** Each alarm that goes off was due, by the times [ds], and at most [N] ticks
    before; one that goes on is due again its ticks later. *)
Fixpoint punctual (N : Z) (al : alarms) (ds : offsets) (fs : list (Z * loc)) : Prop :=
  match fs with
  | [] => True
  | (t, e) :: fs' =>
      ∃ D a, (e, D) ∈ ds ∧ D ≤ t ≤ D + N ∧ al !! e = Some a ∧
        let others := filter (λ p, p.1 ≠ e) ds in
        punctual N (<[e := fired a]> al) (if 0 <? _times (fired a) then (e, t + _ticks a) :: others else others) fs'
  end.

Lemma punctual_perm N fs : ∀ al ds ds', ds ≡ₚ ds' → punctual N al ds fs → punctual N al ds' fs.
Proof.
  induction fs as [|[t e] fs IH]; intros al ds ds' Hp; [done|]. cbn [punctual]. intros (D & a & Hin & HD & Ea & Hfs).
  exists D, a. split; [by rewrite <- Hp|]. split; [done|]. split; [done|]. cbv zeta in *. eapply IH; [|exact Hfs].
  destruct (0 <? _times (fired a)); by rewrite Hp.
Qed.

Lemma filter_head e D (ds : offsets) : e ∉ ds.*1 → filter (λ p : loc * Z, p.1 ≠ e) ((e, D) :: ds) = ds.
Proof.
  intros He. rewrite filter_cons_False by (cbn; tauto). induction ds as [|[y d] ds IH]; [done|]. cbn in He. apply not_elem_of_cons in He as [Hy He].
  rewrite filter_cons_True by (cbn; congruence). f_equal. by apply IH.
Qed.

Lemma interrupts_spec N B n : small N B → ∀ s m, Inv N B s → RelRepr (request s) m → fits (elapsed s + Z.of_nat n) → 0 ≤ elapsed s →
  ∃ fs s' m', interrupts n (elapsed s) (table s) m = Some ((fs, (elapsed s', table s')), m') ∧ RelRepr (request s') m' ∧ Inv N B s' ∧
    elapsed s' = elapsed s + Z.of_nat n ∧ punctual N (table s) (dues s) fs ∧
    ∀ e D, (e, D) ∈ dues s → D + N ≤ elapsed s' → ∃ t, (t, e) ∈ fs ∧ D ≤ t ≤ D + N.
Proof.
  intros Hsm. induction n as [|n IH]; intros s m HI Hr Hf H0.
  { exists [], s, m. split_and!; [done..|lia|done|]. intros e D Hin Hlate. apply list_elem_of_lookup_1 in Hin as [i Hi].
    apply (inv_on_time _ _ _ HI) in Hi. cbn in Hi. lia. }
  assert (fits (elapsed s + 1)) as Hf1 by (unfold fits in *; lia).
  pose proof (handler_spec N B s m Hsm HI Hr Hf1) as (r & m1 & Eh & -> & Hr1)%wp_total. pose proof (tick_inv N B s HI) as HI1.
  pose proof (tick_elapsed s) as En.
  destruct (IH (tick s).1 m1 HI1 Hr1) as (fs & s' & m' & E & Hr' & HI' & En' & Hp & Hdue); [rewrite En; by replace (elapsed s + 1 + Z.of_nat n) with (elapsed s + Z.of_nat (S n)) by lia|lia|].
  exists (option_list (pair (elapsed (tick s).1) <$> (tick s).2) ++ fs), s', m'. split.
  { cbn [interrupts]. unfold mbind, ST_bind. rewrite Eh. cbn. unfold mbind, ST_bind. rewrite E. done. }
  split; [done|]. split; [done|]. split; [lia|]. split.
  - pose proof (tick_dues N B s HI) as [_ Hd]. destruct (tick s).2 as [e|] eqn:Eo; cbn [fmap option_fmap option_map option_list app].
    + destruct (tick_fires N B s e HI Eo) as (D & ds & Ed & HD). rewrite Ed in Hd. destruct (Z.leb_spec D (elapsed s + 1)); [|lia].
      destruct Hd as (a & Ea & _ & _ & Et & Eds). cbn [punctual]. exists D, a. rewrite Ed, En. split; [by left|]. split; [done|]. split; [done|].
      cbv zeta. rewrite filter_head.
      * rewrite <- Et. eapply punctual_perm; [|exact Hp]. rewrite Eds. destruct (0 <? _times (fired a)); [apply place_perm|done].
      * pose proof (inv_nodup _ _ _ HI) as Hn. rewrite <- (times_elements (elapsed s)) in Hn. change (NoDup (dues s).*1) in Hn.
        rewrite Ed in Hn. by apply NoDup_cons in Hn as [Hn _].
    + assert (table (tick s).1 = table s ∧ dues (tick s).1 = dues s) as [<- <-]; [|done].
      destruct (dues s) as [|[e D] ds] eqn:Ed; [rewrite Hd; cbn; split; [done|]; by unfold dues|].
      destruct (D <=? elapsed s + 1); [by destruct Hd as (a & _ & _ & ? & _)|by destruct Hd as (_ & ? & ?)].
  - intros e D Hin Hlate. destruct (decide ((tick s).2 = Some e)) as [Eo|Eo].
    + destruct (tick_fires N B s e HI Eo) as (D' & ds & Ed & HD). assert (D = D') as -> by (exact (dues_nodup N B s e D' D ds HI Ed Hin)).
      exists (elapsed s + 1). rewrite Eo, En. split; [by left|done].
    + destruct (Hdue e D) as (t & Ht & HD); [by apply (due_stays N B)|done|]. exists t. split; [|done]. apply elem_of_app. by right.
Qed.

(** C31 Alarms go off in time.  A new alarm of t > 0 ticks is due t ticks from
    now and changes no other due time (one of 0 ticks is called at once).
    Then let the timer interrupt [n] times, while its count fits an [int]:
    the handler returns every time; each alarm it hands over to be called
    was due and, of up to N alarms, at most N ticks before, and is due again
    its ticks later unless it was for the last time; and every alarm whose
    time came N ticks before the end, or earlier, has gone off. *)
Theorem alarms_on_time N B s m n :
  small N B → Inv N B s → RelRepr (request s) m → 0 ≤ elapsed s → fits (elapsed s + Z.of_nat n) →
  (∀ frequency e time h times t,
    let a := Alarm time h times t in
    ticks frequency time = Some t → e ∉ (request s).*1 → Z.of_nat (length (request s)) < N → 0 ≤ _ticks a ≤ B →
    ∃ m', construct frequency e time h times (table s) m =
        Some ((table (arm e a s), if _ticks a =? 0 then Some h else None), m') ∧
      RelRepr (request (arm e a s)) m' ∧ Inv N B (arm e a s) ∧
      dues (arm e a s) = if _ticks a =? 0 then dues s else place snd (e, elapsed s + _ticks a) (dues s)) ∧
  ∃ fs al m', interrupts n (elapsed s) (table s) m = Some ((fs, (elapsed s + Z.of_nat n, al)), m') ∧
    punctual N (table s) (dues s) fs ∧
    ∀ e D, (e, D) ∈ dues s → D + N ≤ elapsed s + Z.of_nat n → ∃ t, (t, e) ∈ fs ∧ D ≤ t ≤ D + N.
Proof.
  intros Hs HI Hr H0 Hf. split.
  - intros frequency e time h times t a Et He Hl Ha.
    pose proof (construct_spec N B frequency e time h times t s m Et Hs HI Hr He Hl Ha) as (r & m' & E & -> & Hr')%wp_total.
    exists m'. split_and!; [exact E|exact Hr'|by apply arm_inv|].
    destruct (Z.eqb_spec (_ticks a) 0) as [E0|E0]; [|by apply arm_dues]. unfold dues, arm. by rewrite E0.
  - destruct (interrupts_spec N B n Hs s m HI Hr Hf H0) as (fs & s' & m' & E & _ & _ & En & Hp & Hdue).
    exists fs, (table s'), m'. rewrite En in E, Hdue. done.
Qed.

(** ** An example *)

(** Alarms at 4 and 9 ticks, the second for ever. *)
Definition two_alarms : alarms :=
  {[1%positive := Alarm 4 10 1 4; 2%positive := Alarm 9 20 INFINITE 9]}.
Definition two_links : memory Z :=
  Memory {[1%positive := Element 1 4 None (Some 2%positive); 2%positive := Element 2 5 (Some 1%positive) None]}
    (List 2 (Some 1%positive) (Some 2%positive)).
Definition two_clock : clock := Clock 0 two_alarms [(1%positive, 4); (2%positive, 5)].

Lemma two_links_repr : RelRepr (request two_clock) two_links.
Proof.
  split; [|by repeat constructor]. split; [|by apply (bool_decide_unpack (NoDup _)); vm_compute | done | done].
  cbn. split_and!; [| |done]; eexists; (split; [reflexivity|done]).
Qed.

Lemma two_clock_inv : Inv 3 9 two_clock.
Proof.
  split.
  - split_and!; [repeat constructor; unfold in_order; cbn; lia|done|].
    intros [|[|i]] p; cbn; [intros [= <-]; cbn; lia..|done].
  - by apply (bool_decide_unpack (NoDup _)); vm_compute.
  - intros e He. cbn in He. rewrite !elem_of_cons, elem_of_nil in He.
    destruct He as [->|[->|[]]]; eexists; (split; [reflexivity|cbn; lia]).
Qed.

Example handler_refines_tick_witness :
  ∃ m', handler 0 two_alarms two_links = Some ((1, two_alarms, None), m') ∧
    RelRepr [(1%positive, 3); (2%positive, 5)] m'.
Proof.
  destruct (handler_refines_tick 3 9 two_clock two_links) as (m' & E & Hr & _).
  - unfold small. lia.
  - exact two_clock_inv.
  - exact two_links_repr.
  - unfold fits. cbn. lia.
  - exists m'. split; [exact E|exact Hr].
Defined.

(** Twelve interrupts: the first alarm at 4, the second at 9. *)
Example alarms_on_time_witness :
  ∃ fs al m', interrupts 12 0 two_alarms two_links = Some ((fs, (12, al)), m') ∧ punctual 3 two_alarms (dues two_clock) fs ∧
    fs = [(4, 1%positive); (9, 2%positive)] ∧ ∃ t, (t, 2%positive) ∈ fs ∧ 9 ≤ t ≤ 12.
Proof.
  destruct (alarms_on_time 3 9 two_clock two_links 12) as (_ & fs & al & m' & E & Hp & H).
  - unfold small. lia.
  - exact two_clock_inv.
  - exact two_links_repr.
  - done.
  - unfold fits. cbn. lia.
  - exists fs, al, m'. split; [exact E|]. split; [exact Hp|]. split; [|by apply (H 2%positive 9); [cbn; right; left|]].
    vm_compute in E. by injection E as <- _ _.
Defined.

(** [period(p)] puts the alarm back with the offset its link was left with: the
    second alarm, due at 9, given a period of 20 ticks (of a microsecond), is
    due at 5, neither where it was nor where asked. *)
Lemma period_keeps_offset :
  ∃ al m', period 1000000 2%positive 20 two_alarms two_links = Some (al, m') ∧
    _ticks <$> al !! 2%positive = Some 20 ∧
    (λ e, rank <$> elements m' !! e) <$> [1%positive; 2%positive] = [Some 4; Some 1].
Proof.
  eexists _, _. split; [vm_compute; reflexivity|]. split; vm_compute; reflexivity.
Qed.
