(* ===== verification/Thread.v ===== *)
(** * Threads (include/process.h, src/api/thread.cc, src/api/thread_init.cc)

    Class Thread on one processor, with a criterion of one queue and a fixed
    rank (Priority, RR, FCFS): smp, monitored and multitask are false.  A
    thread is named by the address of its link; [kernel] holds the threads,
    the scheduler (Sched.v: [perform]), the waiting queues of the
    synchronizers and the interrupt flag, which is the lock.  A method runs
    from [lock] to [switch_context] or [unlock] at once; what the code does
    after the context is switched back is the end of [dispatch], which
    enables interrupts, and the result of [join].  A failed assertion, a
    dangling pointer, a list operation that is not allowed and a context
    switch from a thread that is not on the processor are [stuck]. *)

From stdpp Require Import base numbers list option gmap sorting.
From S2P Require Import Prelude StateM DList OrderedList Sched.
#[local] Set Warnings "-clear-no-such-hyp".

(** ** State *)

Inductive State := RUNNING | READY | SUSPENDED | WAITING | FINISHING.
#[export] Instance State_eq_dec : EqDecision State.
Proof. solve_decision. Defined.

(** [_stack] is the first word of the stack, where [exit] leaves the status;
    [_rank] is the rank of [_link]. *)
Record thread := Thread {
  _stack : option Z; _state : State; _waiting : option loc; _waiting_fifo : option loc;
  _joining : option loc; _rank : Z
}.

(** Priorities of Scheduling_Criteria::Priority. *)
Definition ISR : Z := -1000.
Definition MAIN : Z := 0.
Definition HIGH : Z := 1.
Definition NORMAL : Z := 2 ^ 31 - 3.
Definition LOW : Z := 2 ^ 31 - 2.
Definition IDLE : Z := 2 ^ 31 - 1.

(** A waiting queue: a Thread_Queue ([true]) or a FIFO_Queue ([false]), as the
    argument of Synchronizer_Common, and its address. *)
Abbreviation waitq := (bool * loc)%type.

(** [cpu] is the thread whose context is on the processor. *)
Record kernel := Kernel {
  threads : gmap loc thread; _scheduler : ready; queues : gmap waitq (list loc);
  _thread_count : Z; int_enabled : bool; cpu : option loc
}.

Definition set_state (s : State) (h : thread) : thread := Thread (_stack h) s (_waiting h) (_waiting_fifo h) (_joining h) (_rank h).
Definition set_stack (v : Z) (h : thread) : thread := Thread (Some v) (_state h) (_waiting h) (_waiting_fifo h) (_joining h) (_rank h).
Definition set_joining (j : option loc) (h : thread) : thread := Thread (_stack h) (_state h) (_waiting h) (_waiting_fifo h) j (_rank h).
Definition set_thread_rank (r : Z) (h : thread) : thread := Thread (_stack h) (_state h) (_waiting h) (_waiting_fifo h) (_joining h) r.
Definition set_waiting (b : bool) (q : option loc) (h : thread) : thread :=
  if b then Thread (_stack h) (_state h) q (_waiting_fifo h) (_joining h) (_rank h)
  else Thread (_stack h) (_state h) (_waiting h) q (_joining h) (_rank h).

Definition with_threads (f : gmap loc thread → gmap loc thread) k := Kernel (f (threads k)) (_scheduler k) (queues k) (_thread_count k) (int_enabled k) (cpu k).
Definition with_scheduler s k := Kernel (threads k) s (queues k) (_thread_count k) (int_enabled k) (cpu k).
Definition with_queue q l k := Kernel (threads k) (_scheduler k) (<[q := l]> (queues k)) (_thread_count k) (int_enabled k) (cpu k).
Definition with_count n k := Kernel (threads k) (_scheduler k) (queues k) n (int_enabled k) (cpu k).
Definition with_int b k := Kernel (threads k) (_scheduler k) (queues k) (_thread_count k) b (cpu k).
Definition with_cpu c k := Kernel (threads k) (_scheduler k) (queues k) (_thread_count k) (int_enabled k) c.

Definition queue_of (k : kernel) (q : waitq) : list loc := default [] (queues k !! q).
Definition rank_in (k : kernel) (t : loc) : Z := default 0 (_rank <$> threads k !! t).

(** ** Methods *)

Abbreviation T := (ST kernel).

Definition read {A} (f : kernel → A) : T A := λ k, Some (f k, k).
Definition change (f : kernel → kernel) : T unit := λ k, Some ((), f k).
(** What follows a failed assertion is left out: [Assert::fail] prints a line,
    where the debugging level asks for it, and the method goes on.  That a
    method returns says that none of its assertions fails. *)
Definition assert (b : bool) : T unit := if b then mret () else stuck.
(** A thread through its address. *)
Definition at_ {A} (f : thread → A) (t : loc) : T A := λ k, h ← threads k !! t; Some (f h, k).
Definition update (f : thread → thread) (t : loc) : T unit := λ k,
  _ ← threads k !! t; Some ((), with_threads (alter f t) k).

Definition lock : T unit := change (with_int false).
Definition unlock : T unit := change (with_int true).
Definition locked : T bool := read (λ k, negb (int_enabled k)).

(** [_thread_count] is an unsigned int. *)
Definition count (d : Z) : T unit := change (λ k, with_count ((_thread_count k + d) mod 2 ^ 32) k).

(** Scheduler, with a criterion whose threads are always eligible. *)
Definition schedule (op : sched_op) : T unit := λ k,
  s ← perform (λ _, true) IDLE (rank_in k) (λ t, is_Some (threads k !! t)) op (_scheduler k);
  Some ((), with_scheduler s k).
Definition running : T loc := c ← read (λ k, chosen (_scheduler k)); deref c.
Definition sched_choose : T loc := _ ← schedule Op_choose; running.
Definition sched_choose_another : T loc := _ ← schedule Op_choose_another; running.
Definition sched_choose_thread (t : loc) : T loc := _ ← schedule (Op_choose_element t); running.
Definition schedulables : T Z := read (λ k, Z.of_nat (length (queue (_scheduler k)))).

(** The waiting queues: [insert(&_link)], [remove()->object()], [remove(this)],
    [empty()]. *)
Definition enqueue (q : waitq) (t : loc) : T unit := λ k,
  let l := queue_of k q in
  if decide ((t ∉ l) ∧ Z.of_nat (length l) + 1 < 2 ^ 32) then
    Some ((), with_queue q (if q.1 then place (rank_in k) t l else l ++ [t]) k)
  else None.
Definition dequeue (q : waitq) : T loc := λ k,
  t ← head (queue_of k q); Some (t, with_queue q (tail (queue_of k q)) k).
Definition unqueue (q : waitq) (t : loc) : T unit := change (λ k, with_queue q (without t (queue_of k q)) k).
Definition queue_empty (q : waitq) : T bool := read (λ k, bool_decide (queue_of k q = [])).

(** [CPU::switch_context(&prev->_context, next->_context)] *)
Definition switch_context (prev next : loc) : T unit :=
  c ← read cpu;
  _ ← assert (bool_decide (c = Some prev));
  change (with_cpu (Some next)).

Definition dispatch (prev next : loc) : T unit :=
  _ ← (if decide (prev = next) then mret () else
    s ← at_ _state prev;
    _ ← (if decide (s = RUNNING) then update (set_state READY) prev else mret ());
    _ ← update (set_state RUNNING) next;
    switch_context prev next);
  unlock.

Definition reschedule : T unit :=
  l ← locked;
  _ ← assert l;
  prev ← running;
  next ← sched_choose;
  dispatch prev next.

(** [reschedule(unsigned int cpu)], without SMP. *)
Definition reschedule_on (cpu : Z) : T unit := reschedule.

Definition rescheduler : T unit := _ ← lock; reschedule.
Definition time_slicer : T unit := _ ← lock; reschedule.

Section preemptive.
Context (preemptive : bool).

(** [_link.rank().queue()]: there is one. *)
Definition QUEUES : nat := 1.
Definition queue_index (t : loc) : T Z := at_ (λ _, 0) t.

Definition constructor_prologue (t : loc) (conf : State) (criterion : Z) : T unit :=
  _ ← change (with_threads (<[t := Thread None conf None None None criterion]>));
  _ ← lock;
  _ ← count 1;
  schedule (Op_insert t).

Definition constructor_epilogue (t : loc) : T unit :=
  s ← at_ _state t;
  _ ← (if decide (s ≠ READY ∧ s ≠ RUNNING) then schedule (Op_remove t) else mret ());
  r ← at_ _rank t;
  if preemptive && bool_decide (s = READY) && negb (r =? IDLE) then i ← queue_index t; reschedule_on i
  else unlock.

Definition constructor (t : loc) (conf : State) (criterion : Z) : T unit :=
  _ ← constructor_prologue t conf criterion; constructor_epilogue t.

Definition resume (t : loc) : T unit :=
  _ ← lock;
  s ← at_ _state t;
  if decide (s = SUSPENDED) then
    _ ← update (set_state READY) t;
    _ ← schedule (Op_insert t);
    if preemptive then i ← queue_index t; reschedule_on i else unlock
  else unlock.

(** The part of [~Thread] in the switch. *)
Definition leave_lists (t : loc) : T unit :=
  s ← at_ _state t;
  match s with
  | RUNNING => stuck
  | READY => _ ← schedule (Op_remove t); count (-1)
  | SUSPENDED => _ ← schedule (Op_insert t); _ ← schedule (Op_remove t); count (-1)
  | WAITING =>
      w ← at_ _waiting t;
      _ ← (match w with Some q => unqueue (true, q) t | None => mret () end);
      w ← at_ _waiting_fifo t;
      _ ← (match w with Some q => unqueue (false, q) t | None => mret () end);
      _ ← schedule (Op_insert t);
      _ ← schedule (Op_remove t);
      count (-1)
  | FINISHING => mret ()
  end.

(** [~Thread]; nothing but the end of the destructor refers to the thread once
    [_joining] is read, so it ceases to exist there. *)
Definition destructor (t : loc) : T unit :=
  _ ← lock;
  s ← at_ _state t;
  _ ← assert (negb (bool_decide (s = RUNNING)));
  _ ← leave_lists t;
  j ← at_ _joining t;
  _ ← change (with_threads (delete t));
  _ ← (match j with Some j => resume j | None => mret () end);
  unlock.

Definition priority (t : loc) (c : Z) : T unit :=
  _ ← lock;
  s ← at_ _state t;
  _ ← (if decide (s ≠ RUNNING) then
         _ ← schedule (Op_remove t);
         _ ← update (set_thread_rank c) t;
         schedule (Op_insert t)
       else update (set_thread_rank c) t);
  unlock.

(** [setPriority(int p)] (process.h) *)
Definition setPriority (t : loc) (p : Z) : T unit :=
  _ ← lock;
  _ ← update (set_thread_rank p) t;
  unlock.

(** [suspend(bool locked)] *)
Definition suspend (t : loc) (is_locked : bool) : T unit :=
  _ ← (if is_locked then mret () else lock);
  prev ← running;
  _ ← update (set_state SUSPENDED) t;
  _ ← schedule (Op_remove t);
  next ← running;
  dispatch prev next.

(** [join], as far as the context switch or the unlock; then
    [join_result]. *)
Definition join (t : loc) : T unit :=
  _ ← lock;
  r ← running;
  _ ← assert (negb (bool_decide (r = t)));
  j ← at_ _joining t;
  _ ← assert (bool_decide (j = None));
  s ← at_ _state t;
  if decide (s ≠ FINISHING) then
    r ← running;
    _ ← update (set_joining (Some r)) t;
    suspend r true
  else unlock.
Definition join_result (t : loc) : T Z := v ← at_ _stack t; deref v.

Definition pass (t : loc) : T unit :=
  _ ← lock;
  prev ← running;
  next ← sched_choose_thread t;
  dispatch prev next.

Definition yield : T unit :=
  _ ← lock;
  prev ← running;
  next ← sched_choose_another;
  dispatch prev next.

Definition exit (status : Z) : T unit :=
  _ ← lock;
  prev ← running;
  _ ← schedule (Op_remove prev);
  _ ← update (set_state FINISHING) prev;
  _ ← update (set_stack status) prev;
  _ ← count (-1);
  j ← at_ _joining prev;
  _ ← (match j with
       | Some j =>
           _ ← update (set_state READY) j;
           _ ← schedule (Op_insert j);
           update (set_joining None) prev
       | None => mret ()
       end);
  next ← sched_choose;
  dispatch prev next.

(** [sleep] on a Thread_Queue and on a FIFO_Queue; so below. *)
Definition sleep (q : waitq) : T unit :=
  l ← locked;
  _ ← assert l;
  prev ← running;
  _ ← schedule (Op_remove prev);
  _ ← update (set_state WAITING) prev;
  _ ← update (set_waiting q.1 (Some q.2)) prev;
  _ ← enqueue q prev;
  next ← running;
  dispatch prev next.

(** The first of a queue made ready. *)
Definition awaken (q : waitq) : T loc :=
  t ← dequeue q;
  _ ← update (set_state READY) t;
  _ ← update (set_waiting q.1 None) t;
  _ ← schedule (Op_insert t);
  mret t.

Definition wakeup (q : waitq) : T unit :=
  l ← locked;
  _ ← assert l;
  b ← queue_empty q;
  if b : bool then unlock else
  t ← awaken q;
  if preemptive then i ← queue_index t; reschedule_on i else unlock.

(** [while(!q->empty())]; [fuel] is the length of the queue. *)
Fixpoint awaken_all (fuel : nat) (q : waitq) (cpus : Z) : T Z :=
  b ← queue_empty q;
  if b : bool then mret cpus else
  match fuel with
  | O => stuck
  | S fuel =>
      t ← awaken q;
      i ← queue_index t;
      awaken_all fuel q (Z.lor cpus (Z.shiftl 1 i))
  end.

(** [for(unsigned int i = 0; i < Criterion::QUEUES; i++)] *)
Fixpoint reschedule_all (n : nat) (i cpus : Z) : T unit :=
  match n with
  | O => mret ()
  | S n =>
      _ ← (if negb (Z.land cpus (Z.shiftl 1 i) =? 0) then reschedule_on i else mret ());
      reschedule_all n (i + 1) cpus
  end.

Definition wakeup_all (q : waitq) : T unit :=
  l ← locked;
  _ ← assert l;
  b ← queue_empty q;
  if b : bool then unlock else
  n ← read (λ k, length (queue_of k q));
  cpus ← awaken_all n q 0;
  if preemptive then reschedule_all QUEUES 0 cpus else unlock.

(** One turn of the loop of [idle]; the result is whether there is another. *)
Definition idle_turn : T bool :=
  n ← read _thread_count;
  if 1 <? n then
    _ ← unlock;
    s ← schedulables;
    _ ← (if 0 <? s then yield else mret ());
    mret true
  else _ ← change (with_int false); mret false.

(** [Thread::init], and Init_First (src/init/init_first.cc). *)
Definition init (main idle : loc) : T unit :=
  _ ← constructor main RUNNING MAIN;
  constructor idle READY IDLE.
Definition Init_First : T unit :=
  first ← running;
  _ ← unlock;
  change (with_cpu (Some first)).
End preemptive.

Definition power_on : kernel := Kernel ∅ (Ready None []) ∅ 0 false None.

Definition boot (preemptive : bool) (main idle : loc) : T unit :=
  _ ← init preemptive main idle; Init_First.

Example boot_example :
  snd <$> boot true 1 2 power_on =
  Some (Kernel {[1%positive := Thread None RUNNING None None None 0; 2%positive := Thread None READY None None None IDLE]}
    (Ready (Some 1%positive) [2%positive]) ∅ 2 true (Some 1%positive)).
Proof. vm_compute. reflexivity. Qed.
