(* ===== verification/ThreadInv.v ===== *)
(** * What holds of the threads

    [card_of] is what a thread's record says outside the method that changes
    it: where the thread must be found, its rank, who joins it, its status.
    [Filed] says that the scheduler and the queues hold each thread where its
    card says, once, and in order; [Valid] adds the counter, the joiners, the
    idle thread, and that the thread chosen, the one on the processor and the
    only one RUNNING are the same.  Every method keeps [Valid]. *)

From stdpp Require Import base numbers list option gmap sorting.
From S2P Require Import Prelude StateM DList OrderedList Sched Thread.
#[local] Set Warnings "-clear-no-such-hyp".

(** ** Where a thread is *)

Inductive position := In_scheduler | In_queue (q : waitq) | Aside | Ended.
#[export] Instance position_eq_dec : EqDecision position.
Proof. solve_decision. Defined.

(** [None]: the record contradicts itself. *)
Definition where_is (h : thread) : option position :=
  match _state h, _waiting h, _waiting_fifo h with
  | (RUNNING | READY), None, None => Some In_scheduler
  | SUSPENDED, None, None => Some Aside
  | FINISHING, None, None => Some Ended
  | WAITING, Some q, None => Some (In_queue (true, q))
  | WAITING, None, Some q => Some (In_queue (false, q))
  | _, _, _ => None
  end.

Record card := Card {
  card_place : option position; card_rank : Z; card_joining : option loc; card_stack : option Z
}.
Definition card_of (h : thread) : card := Card (where_is h) (_rank h) (_joining h) (_stack h).
Definition cards (k : kernel) : gmap loc card := card_of <$> threads k.

Definition place_of (m : gmap loc card) (t : loc) : option position := m !! t ≫= card_place.
Definition whereabouts (k : kernel) (t : loc) : option position := place_of (cards k) t.

Lemma cards_lookup k t h : threads k !! t = Some h → cards k !! t = Some (card_of h).
Proof. intros E. unfold cards. by rewrite lookup_fmap, E. Qed.

Lemma whereabouts_lookup k t h : threads k !! t = Some h → whereabouts k t = where_is h.
Proof. intros E. unfold whereabouts, place_of. by rewrite (cards_lookup _ _ _ E). Qed.

Lemma whereabouts_known k t p : whereabouts k t = Some p → ∃ h, threads k !! t = Some h ∧ where_is h = Some p.
Proof.
  unfold whereabouts, place_of, cards. rewrite lookup_fmap. destruct (threads k !! t) as [h|]; [|done]. cbn. intros E. by exists h.
Qed.

Lemma rank_cards k t : rank_in k t = default 0 (card_rank <$> cards k !! t).
Proof. unfold rank_in, cards. rewrite lookup_fmap. by destruct (threads k !! t). Qed.

Lemma rank_cards_ext k k' t : cards k' !! t = cards k !! t → rank_in k' t = rank_in k t.
Proof. intros E. by rewrite !rank_cards, E. Qed.

Lemma threads_at f t k h : threads k !! t = Some h → threads (with_threads (alter f t) k) !! t = Some (f h).
Proof. intros E. cbn. by rewrite lookup_alter_eq, E. Qed.

Lemma threads_off f t k x : x ≠ t → threads (with_threads (alter f t) k) !! x = threads k !! x.
Proof. intros Hx. cbn. by rewrite lookup_alter_ne. Qed.

Lemma cards_with_threads f t k h :
  threads k !! t = Some h → cards (with_threads (alter f t) k) = <[t := card_of (f h)]> (cards k).
Proof.
  intros E. apply map_eq. intros x. unfold cards. cbn. rewrite lookup_fmap. destruct (decide (x = t)) as [->|Hx].
  - by rewrite lookup_alter_eq, E, lookup_insert_eq.
  - by rewrite lookup_alter_ne, lookup_insert_ne, lookup_fmap by done.
Qed.

Lemma cards_same f t k h :
  threads k !! t = Some h → card_of (f h) = card_of h → cards (with_threads (alter f t) k) = cards k.
Proof. intros E Ef. rewrite (cards_with_threads f t k h E), Ef. apply insert_id. by apply cards_lookup. Qed.

(** ** The lists hold what the cards say

    [e] is a thread that is in no list, whatever its card says: the one being
    moved. *)
Record Filed (e : option loc) (k : kernel) : Prop := {
  filed_ready t : t ∈ members (_scheduler k) ↔ e ≠ Some t ∧ whereabouts k t = Some In_scheduler;
  filed_waiting q t : t ∈ queue_of k q ↔ e ≠ Some t ∧ whereabouts k t = Some (In_queue q);
  filed_known t : e ≠ Some t → is_Some (cards k !! t) → is_Some (whereabouts k t);
  filed_ready_nodup : NoDup (members (_scheduler k));
  filed_waiting_nodup q : NoDup (queue_of k q);
  filed_ready_sorted : sorted (rank_in k) (_scheduler k);
  filed_waiting_sorted q : StronglySorted (in_order (rank_in k)) (queue_of k (true, q));
  filed_size : Z.of_nat (size (cards k)) < 2 ^ 31
}.

Lemma sorted_ranks (rk rk' : loc → Z) l :
  (∀ t, t ∈ l → rk' t = rk t) → StronglySorted (in_order rk) l → StronglySorted (in_order rk') l.
Proof.
  intros E. induction 1 as [|y l Hs IH Hy]; [constructor|]. constructor.
  - apply IH. intros t Ht. apply E. by right.
  - rewrite Forall_forall in Hy |- *. intros z Hz. unfold in_order. rewrite !E by (by left) || (by right). by apply Hy.
Qed.

Section filed.
Implicit Types (k : kernel) (t : loc) (q : waitq) (l : list loc).

Lemma known_bound k l :
  Z.of_nat (size (cards k)) < 2 ^ 31 → NoDup l → (∀ t, t ∈ l → is_Some (cards k !! t)) → Z.of_nat (length l) < 2 ^ 31.
Proof.
  intros Hs Hn Hl. enough (length l ≤ size (cards k))%nat by lia.
  rewrite <- (size_list_to_set (C := gset loc) l Hn), <- size_dom. apply subseteq_size.
  intros t Ht. rewrite elem_of_list_to_set in Ht. apply elem_of_dom. by apply Hl.
Qed.

Lemma place_known k t p : whereabouts k t = Some p → is_Some (cards k !! t).
Proof. unfold whereabouts, place_of. destruct (cards k !! t); [by eexists|done]. Qed.

Lemma filed_ready_bound e k : Filed e k → Z.of_nat (length (members (_scheduler k))) < 2 ^ 31.
Proof.
  intros H. apply (known_bound k); [apply H..|]. intros t [_ Ht]%(filed_ready _ _ H). by eapply place_known.
Qed.

Lemma filed_waiting_bound e k q : Filed e k → Z.of_nat (length (queue_of k q)) < 2 ^ 31.
Proof.
  intros H. apply (known_bound k); [apply H..|]. intros t [_ Ht]%(filed_waiting _ _ H). by eapply place_known.
Qed.

(** [Filed] looks at where each thread is, at its rank, at the scheduler and
    the queues. *)
Lemma filed_places e k k' :
  (∀ t, whereabouts k' t = whereabouts k t) → (∀ t, rank_in k' t = rank_in k t) → dom (cards k') = dom (cards k) →
  _scheduler k' = _scheduler k → queues k' = queues k → Filed e k → Filed e k'.
Proof.
  intros Ew Er Ed Es Eq H.
  assert (∀ q, queue_of k' q = queue_of k q) as EQ by (intros; unfold queue_of; by rewrite Eq).
  constructor; intros; rewrite ?Es, ?EQ, ?Ew in *; try (by apply H).
  - apply (filed_known _ _ H); [done|]. apply elem_of_dom. rewrite <- Ed. by apply elem_of_dom.
  - eapply sorted_ranks; [by intros; apply Er|]. apply H.
  - eapply sorted_ranks; [by intros; apply Er|]. apply H.
  - rewrite <- size_dom, Ed, size_dom. apply H.
Qed.

Lemma filed_ext e k k' :
  cards k' = cards k → _scheduler k' = _scheduler k → queues k' = queues k → Filed e k → Filed e k'.
Proof.
  intros Ec. apply filed_places; [intros; unfold whereabouts|intros; apply rank_cards_ext|]; by rewrite Ec.
Qed.

(** The thread being moved can become anything. *)
Lemma filed_update f t k : is_Some (threads k !! t) → Filed (Some t) k → Filed (Some t) (with_threads (alter f t) k).
Proof.
  intros [h E] H. pose proof (cards_with_threads f t k h E) as Ec.
  assert (∀ x, x ≠ t → cards (with_threads (alter f t) k) !! x = cards k !! x) as Ex
    by (intros; by rewrite Ec, lookup_insert_ne).
  assert (∀ x, x ≠ t → whereabouts (with_threads (alter f t) k) x = whereabouts k x) as Ew
    by (intros; unfold whereabouts, place_of; by rewrite Ex).
  constructor; try (by apply H).
  - intros x. cbn [with_threads _scheduler]. rewrite (filed_ready _ _ H). split; intros [Hx Hp]; (split; [done|]);
      rewrite Ew in * by congruence; done.
  - intros q x. change (queue_of (with_threads _ k) q) with (queue_of k q). rewrite (filed_waiting _ _ H).
    split; intros [Hx Hp]; (split; [done|]); rewrite Ew in * by congruence; done.
  - intros x Hx. rewrite Ex, Ew by congruence. by apply (filed_known _ _ H).
  - eapply sorted_ranks; [|apply H]. intros x Hx. apply rank_cards_ext, Ex. intros ->.
    assert (t ∈ members (_scheduler k)) as Ht by (destruct (chosen (_scheduler k)) eqn:Ech; unfold members; rewrite Ech; [by right|done]).
    apply (filed_ready _ _ H) in Ht as [? _]. done.
  - intros q. eapply sorted_ranks; [|apply (filed_waiting_sorted _ _ H)]. intros x Hx. apply rank_cards_ext, Ex. intros ->.
    apply (filed_waiting _ _ H) in Hx as [? _]. done.
  - rewrite Ec, map_size_insert_Some by (eexists; by apply cards_lookup). apply H.
Qed.

(** Out of every list. *)
Definition off (p : option position) : bool :=
  match p with Some Aside | Some Ended => true | _ => false end.

Lemma filed_settle t k : off (whereabouts k t) = true → Filed (Some t) k ↔ Filed None k.
Proof.
  intros Hoff. assert (∀ x, whereabouts k x = Some In_scheduler → Some t ≠ Some x) as H1 by (intros x Hx [= ->]; by rewrite Hx in Hoff).
  assert (∀ q x, whereabouts k x = Some (In_queue q) → Some t ≠ Some x) as H2 by (intros q x Hx [= ->]; by rewrite Hx in Hoff).
  split; intros H; constructor; try (by apply H); intros.
  - rewrite (filed_ready _ _ H). naive_solver.
  - rewrite (filed_waiting _ _ H). naive_solver.
  - destruct (decide (t0 = t)) as [->|Hne]; [by destruct (whereabouts k t)|]. apply (filed_known _ _ H); [congruence|done].
  - rewrite (filed_ready _ _ H). naive_solver.
  - rewrite (filed_waiting _ _ H). naive_solver.
  - by apply (filed_known _ _ H).
Qed.
End filed.

(** ** Rules of the primitives *)

Section rules.
Implicit Types (k : kernel) (t : loc) (q : waitq).

Lemma wp_read {A} (f : kernel → A) (Q : A → kernel → Prop) k : Q (f k) k → wp (read f) Q k.
Proof. done. Qed.

Lemma wp_change f (Q : unit → kernel → Prop) k : Q () (f k) → wp (change f) Q k.
Proof. done. Qed.

Lemma wp_assert b (Q : unit → kernel → Prop) k : b = true → Q () k → wp (assert b) Q k.
Proof. by intros ->. Qed.

Lemma wp_at {A} (f : thread → A) t h (Q : A → kernel → Prop) k : threads k !! t = Some h → Q (f h) k → wp (at_ f t) Q k.
Proof. intros E HQ. unfold wp, at_. by rewrite E. Qed.

Lemma wp_update f t (Q : unit → kernel → Prop) k :
  is_Some (threads k !! t) → Q () (with_threads (alter f t) k) → wp (update f t) Q k.
Proof. intros [h E] HQ. unfold wp, update. by rewrite E. Qed.

Lemma wp_running c (Q : loc → kernel → Prop) k : chosen (_scheduler k) = Some c → Q c k → wp running Q k.
Proof. intros E HQ. apply wp_seq, wp_read. rewrite E. by apply wp_deref. Qed.

(** A field that does not change the rank commutes with the scheduler. *)
Lemma schedule_ext op k k' s' :
  (∀ t, rank_in k' t = rank_in k t) → (∀ t, is_Some (threads k' !! t) ↔ is_Some (threads k !! t)) → _scheduler k' = _scheduler k →
  schedule op k = Some ((), with_scheduler s' k) → schedule op k' = Some ((), with_scheduler s' k').
Proof.
  intros Hr Hk Hs. unfold schedule. rewrite Hs.
  rewrite (perform_ext (λ _, true) IDLE (rank_in k') (rank_in k) (λ t, is_Some (threads k' !! t)) (λ t, is_Some (threads k !! t)) _ _ op (_scheduler k)) by done.
  destruct (perform _ _ _ _ op (_scheduler k)) as [s|]; [|done]. cbn. by intros [= ->].
Qed.

Lemma scheduler_members_queue k x : x ∈ queue (_scheduler k) → x ∈ members (_scheduler k).
Proof. unfold members. destruct (chosen (_scheduler k)); [by right|done]. Qed.

(** The thread chosen comes before the others. *)
Definition Foremost k : Prop :=
  ∀ c t, chosen (_scheduler k) = Some c → t ∈ members (_scheduler k) → rank_in k c ≤ rank_in k t.

Lemma foremost_head k l s :
  StronglySorted (in_order (rank_in k)) l → s = hand_over l → Foremost (with_scheduler s k).
Proof.
  intros Hl -> c t Hc Ht. cbn in *. rewrite hand_over_members in Ht. destruct l as [|y l]; [done|].
  injection Hc as ->. apply elem_of_cons in Ht as [->|Ht]; [done|]. by eapply (in_order_head (rank_in k)).
Qed.

(** Out of the scheduler. *)
Lemma schedule_remove t k :
  Filed None k → t ∈ members (_scheduler k) →
  ∃ s', schedule (Op_remove t) k = Some ((), with_scheduler s' k) ∧ Filed (Some t) (with_scheduler s' k) ∧
    members (_scheduler k) ≡ₚ t :: members s' ∧
    (if decide (chosen (_scheduler k) = Some t) then Foremost (with_scheduler s' k)
     else chosen s' = chosen (_scheduler k)) ∧
    (is_Some (chosen (_scheduler k)) → members s' ≠ [] → is_Some (chosen s')).
Proof.
  intros H Ht. pose proof (filed_ready_nodup _ _ H) as Hn.
  assert (∃ s', perform (λ _, true) IDLE (rank_in k) (λ t, is_Some (threads k !! t)) (Op_remove t) (_scheduler k) = Some s' ∧
    members (_scheduler k) ≡ₚ t :: members s' ∧ (if decide (chosen (_scheduler k) = Some t) then Foremost (with_scheduler s' k)
     else chosen s' = chosen (_scheduler k)) ∧
    (is_Some (chosen (_scheduler k)) → members s' ≠ [] → is_Some (chosen s'))) as (s' & Hp & Hm & Hf).
  { cbn [perform]. case_decide as Hc.
    - eexists. split; [done|]. split.
      + rewrite hand_over_members. unfold members. by rewrite Hc.
      + split; [eapply foremost_head; [|done]; apply (filed_ready_sorted _ _ H)|].
        intros _. rewrite hand_over_members. by destruct (queue (_scheduler k)).
    - assert (t ∈ queue (_scheduler k)) as Hq.
      { unfold members in Ht. destruct (chosen (_scheduler k)); [|done]. apply elem_of_cons in Ht as [->|]; done. }
      rewrite decide_True by done. eexists. split; [done|]. split; [|done].
      unfold members in *. cbn [chosen queue]. destruct (chosen (_scheduler k)) as [c|].
      + apply NoDup_cons in Hn as [_ Hn]. rewrite (without_members t (queue (_scheduler k))) at 1 by done. apply Permutation_swap.
      + by apply without_members. }
  exists s'. split; [unfold schedule; by rewrite Hp|]. split; [|done].
  rewrite Hm in Hn. apply NoDup_cons in Hn as [Hnt Hn].
  constructor; try (by apply H); cbn [with_scheduler _scheduler].
  - intros x. split.
    + intros Hx. split; [congruence|]. apply (filed_ready _ _ H). rewrite Hm. by right.
    + intros [Hx Hw]. assert (x ∈ members (_scheduler k)) as Hx' by (by apply (filed_ready _ _ H)).
      rewrite Hm in Hx'. apply elem_of_cons in Hx' as [->|]; done.
  - intros q x. change (queue_of (with_scheduler s' k) q) with (queue_of k q). rewrite (filed_waiting _ _ H).
    split; [|naive_solver]. intros [_ Hw]. split; [|done]. intros [= <-]. apply (filed_ready _ _ H) in Ht as [_ Ht].
    change (whereabouts k t = Some (In_queue q)) in Hw. congruence.
  - intros x _. by apply (filed_known _ _ H).
  - exact Hn.
  - eapply perform_sorted; [|exact Hp]. apply H.
Qed.

(** Into the scheduler, where the card says the thread is. *)
Lemma schedule_insert t c k :
  Filed (Some t) k → whereabouts k t = Some In_scheduler → chosen (_scheduler k) = Some c →
  let s' := Ready (Some c) (place (rank_in k) t (queue (_scheduler k))) in
  schedule (Op_insert t) k = Some ((), with_scheduler s' k) ∧ Filed None (with_scheduler s' k).
Proof.
  intros H Hw Hc s'. pose proof (filed_ready_bound _ _ H) as Hb.
  assert (t ∉ members (_scheduler k)) as Ht by (intros [? _]%(filed_ready _ _ H); done).
  assert (perform (λ _, true) IDLE (rank_in k) (λ t, is_Some (threads k !! t)) (Op_insert t) (_scheduler k) = Some s') as Hp.
  { cbn [perform]. rewrite decide_True; [by rewrite Hc|]. split_and!; [done| |].
    - apply whereabouts_known in Hw as (h & E & _). by eexists.
    - unfold members in Hb. rewrite Hc in Hb. cbn [length] in Hb. lia. }
  split; [unfold schedule; by rewrite Hp|].
  assert (members s' ≡ₚ t :: members (_scheduler k)) as Hm.
  { unfold members, s'. cbn [chosen queue]. rewrite Hc, place_perm. apply Permutation_swap. }
  constructor; try (by apply H); cbn [with_scheduler _scheduler].
  - intros x. rewrite Hm, elem_of_cons, (filed_ready _ _ H). change (whereabouts (with_scheduler s' k) x) with (whereabouts k x).
    destruct (decide (x = t)) as [->|]; naive_solver.
  - intros q x. change (queue_of (with_scheduler s' k) q) with (queue_of k q). rewrite (filed_waiting _ _ H).
    change (whereabouts (with_scheduler s' k) x) with (whereabouts k x). split; [naive_solver|].
    intros [_ Hx]. split; [|done]. intros [= <-]. congruence.
  - intros x _ Hx. change (is_Some (whereabouts k x)). destruct (decide (x = t)) as [->|Hne]; [by rewrite Hw|]. apply (filed_known _ _ H); [congruence|done].
  - rewrite Hm. constructor; [done|apply H].
  - eapply perform_sorted; [|exact Hp]. apply H.
Qed.
(** The waiting queues. *)
Definition queued q t k (l : list loc) : list loc := if q.1 then place (rank_in k) t l else l ++ [t].

Lemma queued_perm q t k l : queued q t k l ≡ₚ t :: l.
Proof. unfold queued. destruct q.1; [apply place_perm|]. by rewrite Permutation_app_comm. Qed.

Lemma queue_of_with q l k q' : queue_of (with_queue q l k) q' = if decide (q' = q) then l else queue_of k q'.
Proof.
  unfold queue_of. cbn. case_decide as E; [by subst; rewrite lookup_insert_eq|]. by rewrite lookup_insert_ne by done.
Qed.

(** One queue changes by the thread being moved. *)
Lemma filed_requeue e e' q l k :
  Filed e k → NoDup l → (q.1 = true → StronglySorted (in_order (rank_in k)) l) →
  (∀ x, x ∈ members (_scheduler k) ↔ e' ≠ Some x ∧ whereabouts k x = Some In_scheduler) →
  (∀ q' x, x ∈ (if decide (q' = q) then l else queue_of k q') ↔ e' ≠ Some x ∧ whereabouts k x = Some (In_queue q')) →
  (∀ x, e' ≠ Some x → is_Some (cards k !! x) → is_Some (whereabouts k x)) →
  Filed e' (with_queue q l k).
Proof.
  intros H Hn Hs Hm Hq Hk. constructor; try (by apply H); try done.
  - intros q' x. rewrite queue_of_with. apply Hq.
  - intros q'. rewrite queue_of_with. case_decide; [done|apply H].
  - intros q'. rewrite queue_of_with. case_decide as E; [|apply (filed_waiting_sorted _ _ H)]. subst q. by apply Hs.
Qed.

Lemma queue_enqueue q t k :
  Filed (Some t) k → whereabouts k t = Some (In_queue q) →
  enqueue q t k = Some ((), with_queue q (queued q t k (queue_of k q)) k) ∧
  Filed None (with_queue q (queued q t k (queue_of k q)) k).
Proof.
  intros H Hw. assert (t ∉ queue_of k q) as Ht by (intros [? _]%(filed_waiting _ _ H); done). split.
  { unfold enqueue. rewrite decide_True; [done|]. pose proof (filed_waiting_bound _ _ q H). split; [done|lia]. }
  apply (filed_requeue (Some t)); [done| | | | |].
  - rewrite queued_perm. constructor; [done|apply H].
  - intros E. unfold queued. rewrite E. destruct q as [b q]. cbn in E. subst b. apply place_sorted. apply (filed_waiting_sorted _ _ H).
  - intros x. rewrite (filed_ready _ _ H). split; [naive_solver|]. intros [_ Hx]. split; [|done]. intros [= <-]. congruence.
  - intros q' x. case_decide as E.
    + subst q'. rewrite queued_perm, elem_of_cons, (filed_waiting _ _ H). destruct (decide (x = t)) as [->|]; naive_solver.
    + rewrite (filed_waiting _ _ H). split; [naive_solver|]. intros [_ Hx]. split; [|done]. intros [= <-]. congruence.
  - intros x _ Hx. destruct (decide (x = t)) as [->|Hne]; [by rewrite Hw|]. apply (filed_known _ _ H); [congruence|done].
Qed.

(** A thread leaves its queue. *)
Lemma filed_unqueue q t k l :
  Filed None k → queue_of k q ≡ₚ t :: l → (q.1 = true → StronglySorted (in_order (rank_in k)) l) →
  Filed (Some t) (with_queue q l k).
Proof.
  intros H Hp Hs. pose proof (filed_waiting_nodup _ _ H q) as Hn. rewrite Hp in Hn. apply NoDup_cons in Hn as [Ht Hn].
  assert (whereabouts k t = Some (In_queue q)) as Hw by (apply (filed_waiting _ _ H); rewrite Hp; by left).
  apply (filed_requeue None); [done..| | |].
  - intros x. rewrite (filed_ready _ _ H). split; [|naive_solver]. intros [_ Hx]. split; [|done]. intros [= <-]. congruence.
  - intros q' x. case_decide as E.
    + subst q'. transitivity (x ≠ t ∧ x ∈ queue_of k q).
      * rewrite Hp, elem_of_cons. split; [|naive_solver]. intros Hx. split; [|by right]. by intros ->.
      * rewrite (filed_waiting _ _ H). naive_solver.
    + rewrite (filed_waiting _ _ H). split; [|naive_solver]. intros [_ Hx]. split; [|done]. intros [= <-]. congruence.
  - intros x _. by apply (filed_known _ _ H).
Qed.

Lemma queue_dequeue q t l k :
  Filed None k → queue_of k q = t :: l →
  dequeue q k = Some (t, with_queue q l k) ∧ Filed (Some t) (with_queue q l k).
Proof.
  intros H E. split; [unfold dequeue; by rewrite E|]. apply filed_unqueue; [done|by rewrite E|].
  intros Hq. destruct q as [b q]. cbn in Hq. subst b. pose proof (filed_waiting_sorted _ _ H q) as Hs. rewrite E in Hs.
  by apply StronglySorted_inv in Hs as [? _].
Qed.

Lemma queue_unqueue q t k :
  Filed None k → whereabouts k t = Some (In_queue q) →
  Filed (Some t) (with_queue q (without t (queue_of k q)) k).
Proof.
  intros H Hw. apply filed_unqueue; [done| |].
  - apply without_members; [apply H|]. by apply (filed_waiting _ _ H).
  - intros Hq. destruct q as [b q]. cbn in Hq. subst b. apply sorted_without. apply (filed_waiting_sorted _ _ H).
Qed.
End rules.

Lemma wp_of {S A} (c : ST S A) a s s' (Q : A → S → Prop) : c s = Some (a, s') → Q a s' → wp c Q s.
Proof. unfold wp. by intros ->. Qed.

(** ** The invariant *)

Definition alive (p : loc * card) : Prop := card_place p.2 ≠ Some Ended.
#[export] Instance alive_dec p : Decision (alive p).
Proof. unfold alive. apply _. Defined.

Definition alive_num (m : gmap loc card) : Z := Z.of_nat (size (filter alive m)).

(** What the lists do not show: the counter of threads, the joiners (each
    SUSPENDED, for one thread that has not exited) and the idle thread. *)
Record Ledger (idle : loc) (m : gmap loc card) (n : Z) : Prop := {
  ledger_count : n = alive_num m;
  ledger_joiner t c j : m !! t = Some c → card_joining c = Some j →
    card_place c ≠ Some Ended ∧ place_of m j = Some Aside;
  ledger_join t t' c c' j : m !! t = Some c → m !! t' = Some c' →
    card_joining c = Some j → card_joining c' = Some j → t = t';
  ledger_idle : ∃ c, m !! idle = Some c ∧ card_place c = Some In_scheduler ∧ card_rank c = IDLE
}.

Definition Lists (idle : loc) (k : kernel) : Prop :=
  Filed None k ∧ Ledger idle (cards k) (_thread_count k).

Section ledger.
Context (idle : loc).
Implicit Types (m : gmap loc card) (t : loc) (c : card).

Definition lives c : Z := if decide (card_place c = Some Ended) then 0 else 1.

Lemma alive_delete t c m : m !! t = Some c → alive_num (delete t m) = alive_num m - lives c.
Proof.
  intros E. unfold alive_num, lives. rewrite <- (insert_delete_id m t c E) at 2.
  case_decide as Hc.
  - rewrite map_filter_insert_False, delete_delete_eq by (intros H; by apply H). lia.
  - rewrite map_filter_insert_True by done. rewrite map_size_insert_None; [lia|].
    apply map_lookup_filter_None_2. left. apply lookup_delete_eq.
Qed.

Lemma alive_insert t c m : m !! t = None → alive_num (<[t := c]> m) = alive_num m + lives c.
Proof.
  intros E. pose proof (alive_delete t c (<[t := c]> m) (lookup_insert_eq _ _ _)) as H.
  rewrite delete_insert_id in H by done. lia.
Qed.

Lemma alive_update t c c' m : m !! t = Some c → alive_num (<[t := c']> m) = alive_num m - lives c + lives c'.
Proof.
  intros E. rewrite <- (insert_delete_eq m t c'), alive_insert by apply lookup_delete_eq. by rewrite (alive_delete t c).
Qed.

(** Nobody is waiting to be resumed by the exit of a thread in a list. *)
Definition no_joiner t m : Prop := ∀ x c, m !! x = Some c → card_joining c ≠ Some t.

Lemma in_list_no_joiner m n t : Ledger idle m n → place_of m t ≠ Some Aside → no_joiner t m.
Proof. intros H Ht x c E Hj. by destruct (ledger_joiner _ _ _ H x c t E Hj). Qed.

(** A thread moves, and may stop waiting for another. *)
Lemma ledger_move t c c' m n n' :
  Ledger idle m n → m !! t = Some c → no_joiner t m → t ≠ idle →
  n' = n - lives c + lives c' →
  card_joining c' = None ∨ (card_joining c' = card_joining c ∧ card_place c' ≠ Some Ended) →
  Ledger idle (<[t := c']> m) n'.
Proof.
  intros [Hn Hj Hj' Hi] Et Hno Hti -> Hc. constructor.
  - by rewrite (alive_update t c), <- Hn.
  - intros x cx j. rewrite lookup_insert_Some. intros Hx Ej.
    assert (j ≠ t ∧ place_of m j = Some Aside ∧ card_place cx ≠ Some Ended) as (Hjt & Hpj & Hcx).
    { destruct Hx as [[-> <-]|[Hne Ex]].
      - destruct Hc as [Hc|[Hc Hp]]; [congruence|]. rewrite Hc in Ej. split_and!; [|by apply (Hj x c)|done].
        intros ->. by apply (Hno x c).
      - split_and!; [intros ->; by apply (Hno x cx)|by apply (Hj x cx)|by apply (Hj x cx j)]. }
    split; [done|]. unfold place_of. by rewrite lookup_insert_ne by done.
  - intros x x' cx cx' j. rewrite !lookup_insert_Some.
    intros [[-> <-]|[Hne Ex]] [[E' <-]|[Hne' Ex']] Ej Ej'; try done.
    + destruct Hc as [Hc|[Hc _]]; [congruence|]. by apply (Hj' x x' c cx' j); congruence.
    + subst x'. destruct Hc as [Hc|[Hc _]]; [congruence|]. by apply (Hj' x t cx c j); congruence.
    + by apply (Hj' x x' cx cx' j).
  - destruct Hi as (ci & Ei & ?). exists ci. by rewrite lookup_insert_ne by done.
Qed.

Lemma ledger_delete t c m n :
  Ledger idle m n → m !! t = Some c → no_joiner t m → t ≠ idle → Ledger idle (delete t m) (n - lives c).
Proof.
  intros [Hn Hj Hj' Hi] Et Hno Hti. constructor.
  - by rewrite (alive_delete t c), <- Hn.
  - intros x cx j. rewrite lookup_delete_Some. intros [Hne Ex] Ej. destruct (Hj x cx j Ex Ej) as [? Hp]. split; [done|].
    unfold place_of. rewrite lookup_delete_ne; [done|]. intros ->. by apply (Hno x cx).
  - intros x x' cx cx' j. rewrite !lookup_delete_Some. intros [_ Ex] [_ Ex']. by apply Hj'.
  - destruct Hi as (ci & Ei & ?). exists ci. by rewrite lookup_delete_ne by done.
Qed.

(** A thread exits and resumes the one that joins it. *)
Lemma ledger_exit t r oj st st' m n :
  Ledger idle m n → m !! t = Some (Card (Some In_scheduler) r oj st) → t ≠ idle →
  Ledger idle (<[t := Card (Some Ended) r None st']>
    (match oj with Some j => alter (λ c, Card (Some In_scheduler) (card_rank c) (card_joining c) (card_stack c)) j m | None => m end)) (n - 1).
Proof.
  intros H Et Hti. assert (no_joiner t m) as Hno by (eapply in_list_no_joiner; [done|]; unfold place_of; by rewrite Et).
  destruct oj as [j|]; [|eapply ledger_move; [done..| |by left]; unfold lives; cbn; rewrite decide_False, decide_True by done; lia].
  destruct (ledger_joiner _ _ _ H t _ j Et eq_refl) as [_ Hj]. unfold place_of in Hj.
  destruct (m !! j) as [cj|] eqn:Ej; [|done]. cbn in Hj. assert (j ≠ t) as Hjt by (intros ->; rewrite Et in Ej; by simplify_eq).
  assert (alter (λ c, Card (Some In_scheduler) (card_rank c) (card_joining c) (card_stack c)) j m =
    <[j := Card (Some In_scheduler) (card_rank cj) (card_joining cj) (card_stack cj)]> m) as ->.
  { apply map_eq. intros x. destruct (decide (x = j)) as [->|]; [by rewrite lookup_alter_eq, lookup_insert_eq, Ej|].
    by rewrite lookup_alter_ne, lookup_insert_ne by done. }
  assert (Ledger idle (<[t := Card (Some In_scheduler) r None st]> m) n) as H1.
  { eapply ledger_move; [done..| |by left]. unfold lives. cbn. lia. }
  assert (no_joiner j (<[t := Card (Some In_scheduler) r None st]> m)) as Hnj.
  { intros x cx. rewrite lookup_insert_Some. intros [[-> <-]|[Hne Ex]] E'; [done|]. apply Hne.
    exact (ledger_join _ _ _ H t x _ cx j Et Ex eq_refl E'). }
  assert (j ≠ idle) as Hji.
  { intros ->. destruct (ledger_idle _ _ _ H) as (ci & Ei & Hp & _). rewrite Ej in Ei. injection Ei as ->. congruence. }
  eapply (ledger_move j cj (Card (Some In_scheduler) (card_rank cj) (card_joining cj) (card_stack cj))) in H1;
    [|by rewrite lookup_insert_ne|done|done|reflexivity|by right].
  eapply (ledger_move t _ (Card (Some Ended) r None st')) in H1; [| |eapply in_list_no_joiner; [exact H1|]|done|reflexivity|by left];
    [|rewrite lookup_insert_ne, lookup_insert_eq by done; reflexivity|unfold place_of; rewrite lookup_insert_ne, lookup_insert_eq by done; done].
  rewrite (insert_insert_ne _ t j) in H1 by done. rewrite insert_insert_eq in H1. rewrite (insert_insert_ne m t j) by done.
  revert H1. unfold lives. cbn [card_place]. rewrite Hj, (decide_True (P := Some Ended = Some Ended)), !decide_False by done. by replace (n - 1 + 1 - 1 + 0) with (n - 1) by lia.
Qed.
End ledger.

(** [c] is the running thread. *)
Record Current (c : loc) (k : kernel) : Prop := {
  current_chosen : chosen (_scheduler k) = Some c;
  current_cpu : cpu k = Some c;
  current_running t h : threads k !! t = Some h → _state h = RUNNING ↔ t = c
}.

Definition Sound (idle c : loc) (k : kernel) : Prop := Lists idle k ∧ Current c k.

(** Between two methods. *)
Definition Valid (idle : loc) (k : kernel) : Prop := (∃ c, Sound idle c k) ∧ int_enabled k = true.

Section invariant.
Context (idle : loc).
Implicit Types (k : kernel) (t c : loc).

Lemma lists_ext k k' :
  cards k' = cards k → _scheduler k' = _scheduler k → queues k' = queues k → _thread_count k' = _thread_count k →
  Lists idle k → Lists idle k'.
Proof. intros Ec Es Eq En [Hf HJ]. split; [by apply (filed_ext None k)|by rewrite Ec, En]. Qed.

Lemma sound_current k c : Sound idle c k → ∃ h, threads k !! c = Some h ∧ _state h = RUNNING ∧ where_is h = Some In_scheduler.
Proof.
  intros [HL HC]. assert (c ∈ members (_scheduler k)) as Hc by (unfold members; rewrite (current_chosen _ _ HC); by left).
  apply (filed_ready _ _ (proj1 HL)) in Hc as [_ (h & E & Hw)%whereabouts_known].
  exists h. split_and!; [done| |done]. by apply (current_running _ _ HC _ _ E).
Qed.

(** What a context switch leaves alone. *)
Record Switched k k' : Prop := {
  switched_cards : cards k' = cards k;
  switched_queues : queues k' = queues k;
  switched_int : int_enabled k' = true
}.

(** [prev] is on the processor and about to leave it, or to stay. *)
Record Leaving (prev : loc) k : Prop := {
  leaving_cpu : cpu k = Some prev;
  leaving_running t h : threads k !! t = Some h → _state h = RUNNING → t = prev;
  leaving_state : ∃ h, threads k !! prev = Some h ∧ (where_is h = Some In_scheduler → _state h = RUNNING)
}.

Lemma current_leaving c k : Sound idle c k → Leaving c k.
Proof.
  intros HS. pose proof (sound_current k c HS) as (h & E & Hr & _). destruct HS as [_ HC]. constructor.
  - apply HC.
  - intros t h' Et. by apply (current_running _ _ HC).
  - by exists h.
Qed.

Lemma dispatch_spec prev next k (Q : unit → kernel → Prop) :
  Lists idle k → chosen (_scheduler k) = Some next → Leaving prev k →
  (∀ k', Valid idle k' → Switched k k' → _scheduler k' = _scheduler k → Current next k' → Q () k') →
  wp (dispatch prev next) Q k.
Proof.
  intros HL Hch [Hcpu Hrun (hp & Ep & Hsame)] HQ.
  assert (next ∈ members (_scheduler k)) as Hn by (unfold members; rewrite Hch; by left).
  apply (filed_ready _ _ (proj1 HL)) in Hn as [_ (hn & En & Hwn)%whereabouts_known].
  unfold dispatch. apply wp_seq. case_decide as Hpn.
  - subst next. apply wp_ret, wp_change. assert (Current prev (with_int true k)) as HC.
    { constructor; [done..|]. intros t h Et. cbn in Et. split; [by apply Hrun|]. intros ->. rewrite Et in *. simplify_eq. by apply Hsame. }
    assert (Lists idle (with_int true k)) as HL' by by apply (lists_ext k).
    apply HQ; [by split; [exists prev|]|by constructor|done|done].
  - apply wp_seq. apply (wp_at _ _ hp); [done|]. apply wp_seq.
    set (k1 := if decide (_state hp = RUNNING) then with_threads (alter (set_state READY) prev) k else k).
    assert (cards k1 = cards k ∧ threads k1 !! next = Some hn ∧ cpu k1 = Some prev ∧ _scheduler k1 = _scheduler k ∧
      queues k1 = queues k ∧ _thread_count k1 = _thread_count k ∧
      (∀ t h, threads k1 !! t = Some h → _state h ≠ RUNNING)) as (Ec & En1 & Hcpu1 & Es1 & Eq1 & Et1 & Hno).
    { unfold k1. case_decide as Hs; cbn; [|split_and!; try done; intros t h Et Hr; destruct (Hrun t h Et Hr); congruence].
      split_and!; try done.
      - apply (cards_same _ _ _ hp); [done|]. unfold card_of, where_is. cbn. by rewrite Hs.
      - by rewrite lookup_alter_ne.
      - intros t h. rewrite lookup_alter_Some. intros [(<- & h' & Et & ->)|[Hne Et]]; [done|].
        intros Hr. pose proof (Hrun t h Et Hr). congruence. }
    assert (wp (if decide (_state hp = RUNNING) then update (set_state READY) prev else mret ()) (λ _ k', k' = k1) k) as Hw1.
    { unfold k1. case_decide; [apply wp_update; [by eexists|done]|by apply wp_ret]. }
    eapply wp_weaken; [exact Hw1|]. intros [] k' ->. cbn beta. clear Hw1.
    apply wp_seq, wp_update; [by eexists|]. unfold switch_context. apply wp_seq, wp_read. cbn [with_threads cpu].
    apply wp_seq, wp_assert; [by apply bool_decide_eq_true|]. apply wp_change, wp_change.
    set (k2 := with_int _ _). assert (cards k2 = cards k) as Ec2.
    { rewrite <- Ec. apply (cards_same (set_state RUNNING) next k1 hn En1). unfold card_of, where_is in *. cbn.
      by destruct (_state hn), (_waiting hn), (_waiting_fifo hn). }
    assert (Current next k2) as HC.
    { constructor; [by cbn; rewrite Es1|done|]. cbn. intros t h. rewrite lookup_alter_Some.
      intros [(<- & h' & Et & ->)|[Hne Et]]; [done|]. split; [|done]. intros Hr. by destruct (Hno t h Et). }
    assert (Lists idle k2) as HL2 by by apply (lists_ext k).
    apply HQ; [by split; [exists next|]|by constructor|done|done].
Qed.
End invariant.
