(* ===== verification/ThreadOps.v ===== *)
(** * The methods of Thread keep the invariant

    Each method as what it does to the cards, to the queues and to who runs;
    then the calls of a running system, the invariant over them, and what
    follows for priorities and for [join]. *)

From stdpp Require Import base numbers list option gmap sorting.
From S2P Require Import Prelude StateM DList OrderedList Sched Thread ThreadInv.
#[local] Set Warnings "-clear-no-such-hyp".

(** ** Cards moving *)

Definition move (p : position) (c : card) : card := Card (Some p) (card_rank c) (card_joining c) (card_stack c).

Lemma cards_alter f g t k :
  (∀ h, threads k !! t = Some h → card_of (f h) = g (card_of h)) → cards (with_threads (alter f t) k) = alter g t (cards k).
Proof.
  intros H. apply map_eq. intros x. unfold cards. cbn. rewrite lookup_fmap. destruct (decide (x = t)) as [->|Hx].
  - rewrite !lookup_alter_eq, lookup_fmap. destruct (threads k !! t) as [h|]; [|done]. cbn. by rewrite H.
  - by rewrite !lookup_alter_ne, lookup_fmap by done.
Qed.

Lemma alter_is_insert (g : card → card) t cd (m : gmap loc card) : m !! t = Some cd → alter g t m = <[t := g cd]> m.
Proof.
  intros E. apply map_eq. intros x. destruct (decide (x = t)) as [->|Hx].
  - by rewrite lookup_alter_eq, lookup_insert_eq, E.
  - by rewrite lookup_alter_ne, lookup_insert_ne by done.
Qed.

Section ops.
Context (idle : loc).
Implicit Types (k : kernel) (t c : loc) (q : waitq).

Lemma alive_bound k t cd : Lists idle k → cards k !! t = Some cd → card_place cd ≠ Some Ended → 1 ≤ _thread_count k < 2 ^ 31.
Proof.
  intros [HF HJ] E Hc. rewrite (ledger_count _ _ _ HJ). pose proof (filed_size _ _ HF) as Hs.
  assert (size (filter alive (cards k)) ≤ size (cards k))%nat as Hle.
  { rewrite <- !size_dom. apply subseteq_size, subseteq_dom, map_filter_subseteq. }
  enough (size (filter alive (cards k)) ≠ 0%nat) by (unfold alive_num; lia).
  apply map_size_ne_0_lookup. exists t, cd. by apply map_lookup_filter_Some_2.
Qed.

(** A thread has moved. *)
Lemma lists_move t p cd k k' :
  Lists idle k → cards k !! t = Some cd → no_joiner t (cards k) → t ≠ idle → p ≠ Ended → card_place cd ≠ Some Ended →
  cards k' = alter (move p) t (cards k) → _thread_count k' = _thread_count k → Filed None k' → Lists idle k'.
Proof.
  intros [HF HJ] E Hno Ht Hp Hcd Ec En HF'. split; [done|]. rewrite Ec, En, (alter_is_insert _ _ _ _ E).
  eapply ledger_move; [done..| |].
  - unfold lives. cbn. rewrite !decide_False by congruence. lia.
  - right. split; [done|]. cbn. congruence.
Qed.

Lemma sound_card c k : Sound idle c k →
  ∃ j r st, threads k !! c = Some (Thread st RUNNING None None j r) ∧
    cards k !! c = Some (Card (Some In_scheduler) r j st) ∧ c ∈ members (_scheduler k) ∧ no_joiner c (cards k).
Proof.
  intros HS. pose proof (sound_current _ k c HS) as ([st s w wf j r] & E & Hr & Hw). cbn in Hr. subst s.
  unfold where_is in Hw. cbn in Hw. destruct w; [done|]. destruct wf; [done|]. exists j, r, st.
  pose proof (cards_lookup _ _ _ E) as Ec. split_and!; [done|done| |].
  - destruct HS as [_ HC]. unfold members. rewrite (current_chosen _ _ HC). by left.
  - destruct HS as [[_ HJ] _]. eapply in_list_no_joiner; [done|]. unfold place_of. by rewrite Ec.
Qed.

Lemma rank_move p c k k' t : cards k' = alter (move p) c (cards k) → rank_in k' t = rank_in k t.
Proof.
  intros E. rewrite !rank_cards, E. destruct (decide (t = c)) as [->|].
  - rewrite lookup_alter_eq. by destruct (cards k !! c).
  - by rewrite lookup_alter_ne.
Qed.

Lemma queued_ranks q t k k' l : (∀ x, rank_in k' x = rank_in k x) → queued q t k' l = queued q t k l.
Proof. intros E. unfold queued. destruct q.1; [|done]. by apply place_ext. Qed.

(** The idle thread is left when another leaves the scheduler. *)
Lemma idle_remains t k s' :
  Filed None k → whereabouts k idle = Some In_scheduler → t ≠ idle → members (_scheduler k) ≡ₚ t :: members s' → members s' ≠ [].
Proof.
  intros HF Hw Ht Hm E. rewrite E in Hm.
  assert (idle ∈ members (_scheduler k)) as Hi by by apply (filed_ready _ _ HF).
  rewrite Hm in Hi. apply elem_of_cons in Hi as [->|Hi]; [done|]. by apply elem_of_nil in Hi.
Qed.

Lemma idle_place k : Lists idle k → whereabouts k idle = Some In_scheduler.
Proof. intros [_ HJ]. destruct (ledger_idle _ _ _ HJ) as (ci & Ei & Hp & _). unfold whereabouts, place_of. by rewrite Ei. Qed.

(** ** Choosing *)

Lemma filed_reorder e k s' :
  Filed e k → members s' ≡ₚ members (_scheduler k) → sorted (rank_in k) s' → Filed e (with_scheduler s' k).
Proof.
  intros H Hm Hs. constructor; try (by apply H); cbn [with_scheduler _scheduler].
  - intros x. rewrite Hm. apply (filed_ready _ _ H).
  - rewrite Hm. apply H.
  - done.
Qed.

Lemma schedule_reorder op k s' :
  Filed None k → perform (λ _, true) IDLE (rank_in k) (λ t, is_Some (threads k !! t)) op (_scheduler k) = Some s' →
  members s' ≡ₚ members (_scheduler k) →
  schedule op k = Some ((), with_scheduler s' k) ∧ Filed None (with_scheduler s' k).
Proof.
  intros H Hp Hm. split; [unfold schedule; by rewrite Hp|]. apply filed_reorder; [done..|].
  eapply perform_sorted; [|done]. apply H.
Qed.

Lemma schedule_choose c k :
  Filed None k → chosen (_scheduler k) = Some c →
  ∃ s' x, schedule Op_choose k = Some ((), with_scheduler s' k) ∧ chosen s' = Some x ∧
    Filed None (with_scheduler s' k) ∧ Foremost (with_scheduler s' k).
Proof.
  intros H Hc. pose proof (filed_ready_bound _ _ H) as Hb. pose proof (filed_ready_sorted _ _ H) as Hs.
  destruct (_scheduler k) as [c' l] eqn:Es. cbn in Hc. subst c'. unfold members, sorted in *. cbn [chosen queue length] in *.
  destruct (choose_allowed (λ _, true) IDLE (rank_in k) (λ t, is_Some (threads k !! t)) c l) as (s' & x & Hp & Hx); [lia|].
  destruct (choose_policy (λ _, true) IDLE (rank_in k) (λ t, is_Some (threads k !! t)) _ c [] l Hs) as [Hpol _]; [lia|].
  destruct (Hpol s' Hp) as (Hm & _ & Hcase). rewrite <- Es in Hp.
  destruct (schedule_reorder Op_choose k s' H Hp) as [E HF]; [by rewrite Hm, Es|].
  exists s', x. split_and!; [done..|]. intros y t Hy Ht. cbn in Hy, Ht. assert (x = y) as -> by congruence.
  change (rank_in (with_scheduler s' k)) with (rank_in k). destruct l as [|z l]; cbn in Hcase.
  - subst s'. cbn in Hx, Ht. injection Hx as ->. apply elem_of_cons in Ht as [->|Ht%elem_of_nil]; done.
  - destruct Hcase as (x' & Hx' & Hle & _). assert (x' = y) as -> by congruence. apply Hle. by rewrite <- Hm.
Qed.

(** [next = _scheduler.choose(); dispatch(prev, next)] *)
Lemma choose_dispatch_spec prev c k (Q : unit → kernel → Prop) :
  Lists idle k → chosen (_scheduler k) = Some c → Leaving prev k →
  (∀ k', Valid idle k' → Switched k k' → Foremost k' → Q () k') →
  wp (next ← sched_choose; dispatch prev next) Q k.
Proof.
  intros [HF HJ] Hc Hl HQ. destruct (schedule_choose c k HF Hc) as (s' & x & Hs & Hx & HF' & Hfo).
  apply wp_seq. unfold sched_choose. apply wp_seq. eapply wp_of; [exact Hs|]. apply (wp_running x); [done|].
  apply (dispatch_spec idle _ x); [by split|done|by destruct Hl|]. intros k' HV [Ec Eq Ei] Es HC.
  apply HQ; [done|by constructor|]. intros y t. rewrite Es. cbn. intros Hy Ht.
  rewrite !(rank_cards_ext (with_scheduler s' k) k') by by rewrite Ec. by apply Hfo.
Qed.

Lemma reschedule_spec c k (Q : unit → kernel → Prop) :
  Sound idle c k → int_enabled k = false →
  (∀ k', Valid idle k' → Switched k k' → Foremost k' → Q () k') →
  wp reschedule Q k.
Proof.
  intros HS Hi HQ. unfold reschedule. apply wp_seq, wp_read. rewrite Hi. apply wp_seq, wp_assert; [done|].
  pose proof (current_chosen _ _ (proj2 HS)) as Hc. apply wp_seq, (wp_running c); [done|].
  apply (choose_dispatch_spec c c); [apply HS|done|by eapply current_leaving|done].
Qed.

(** ** A thread leaves the processor *)

(** Out of the scheduler, on to somewhere else. *)
Lemma sleep_spec q c k (Q : unit → kernel → Prop) :
  Sound idle c k → int_enabled k = false → c ≠ idle →
  (∀ k', Valid idle k' → cards k' = alter (move (In_queue q)) c (cards k) →
    (∀ q', queue_of k' q' = if decide (q' = q) then queued q c k (queue_of k q) else queue_of k q') →
    Foremost k' → Q () k') →
  wp (sleep q) Q k.
Proof.
  intros HS Hi Hc HQ. pose proof HS as [[HF HJ] HC]. pose proof (sound_card c k HS) as (j & r & st & E & Ec & Hm & Hno).
  unfold sleep. apply wp_seq, wp_read. rewrite Hi. apply wp_seq, wp_assert; [done|].
  apply wp_seq, (wp_running c); [apply HC|].
  destruct (schedule_remove c k HF Hm) as (s' & Hs & HF1 & Hm' & Hfo & Hsome).
  rewrite decide_True in Hfo by apply HC.
  assert (is_Some (chosen s')) as [x Hx].
  { apply Hsome; [exists c; apply HC|]. eapply idle_remains; [exact HF|by apply idle_place|exact Hc|exact Hm']. }
  apply wp_seq. eapply wp_of; [exact Hs|].
  apply wp_seq, wp_update; [by eexists|]. apply (filed_update (set_state WAITING) c) in HF1; [|by eexists].
  set (k2 := with_threads _ (with_scheduler s' k)) in *.
  assert (threads k2 !! c = Some (Thread st WAITING None None j r)) as E2 by (cbn; by rewrite lookup_alter_eq, E).
  apply wp_seq, wp_update; [by eexists|]. apply (filed_update (set_waiting q.1 (Some q.2)) c) in HF1; [|by eexists].
  set (k3 := with_threads _ k2) in *.
  assert (threads k3 !! c = Some (set_waiting q.1 (Some q.2) (Thread st WAITING None None j r))) as E3 by (cbn; by rewrite lookup_alter_eq, lookup_alter_eq, E).
  assert (cards k3 = alter (move (In_queue q)) c (cards k)) as Ec3.
  { unfold k3. rewrite (cards_alter _ (move (In_queue q))).
    - unfold k2. rewrite (cards_alter _ (λ cd, Card None (card_rank cd) (card_joining cd) (card_stack cd))).
      + by rewrite alter_alter_eq.
      + intros h Eh. cbn in Eh. rewrite E in Eh. by injection Eh as <-.
    - rewrite E2. intros h [= <-]. by destruct q as [[] q]. }
  destruct (queue_enqueue q c k3 HF1) as [Hq HF3]; [rewrite (whereabouts_lookup _ _ _ E3); by destruct q as [[] q]|].
  apply wp_seq. eapply wp_of; [exact Hq|]. set (k4 := with_queue _ _ k3) in *.
  apply wp_seq, (wp_running x); [done|].
  assert (Lists idle k4) as HL4 by by eapply (lists_move c (In_queue q)); [split; [exact HF|exact HJ]|..].
  apply (dispatch_spec idle c x); [done|done| |].
  - constructor; [apply HC| |].
    + intros t h. cbn. rewrite !lookup_alter_Some. intros [(<- & h' & _ & ->)|[Hne [(<- & _)|[_ Et]]]]; [done..|].
      by apply (current_running _ _ HC).
    + eexists. split; [exact E3|]. by destruct q as [[] q].
  - intros k' HV [Ec' Eq' Ei'] Es HC'. assert (∀ t, rank_in k' t = rank_in k t) as Er
      by (intros t; eapply (rank_move (In_queue q) c); by rewrite Ec').
    apply HQ; [done|by rewrite Ec'| |].
    + intros q'. unfold queue_of at 1. rewrite Eq'. fold (queue_of k4 q'). unfold k4. rewrite queue_of_with.
      case_decide; [|done]. apply queued_ranks. intros x'. by eapply (rank_move (In_queue q) c).
    + intros y t. rewrite Es, !Er. apply Hfo.
Qed.

(** [_state = SUSPENDED; _scheduler.suspend(this)] and what follows. *)
Lemma suspended_cards t h k :
  threads k !! t = Some h → where_is h = Some In_scheduler →
  cards (with_threads (alter (set_state SUSPENDED) t) k) = alter (move Aside) t (cards k).
Proof.
  intros E Hwh. rewrite (cards_alter _ (move Aside)); [done|]. intros h' Eh'. rewrite E in Eh'. injection Eh' as <-.
  unfold move, card_of, where_is in *. cbn. by destruct (_state h), (_waiting h), (_waiting_fifo h).
Qed.

(** The running thread still leaves when the thread at [t] has been suspended, itself or another. *)
Lemma suspended_leaving t c s k : Leaving c k → Leaving c (with_scheduler s (with_threads (alter (set_state SUSPENDED) t) k)).
Proof.
  intros [Hcpu Hrun (hc & Ehc & Hst)]. constructor; [done| |].
  - intros y hy. cbn. rewrite lookup_alter_Some. intros [(<- & h' & _ & ->)|[_ Ey]]; [done|]. by apply Hrun.
  - cbn. destruct (decide (t = c)) as [->|Hne].
    + rewrite lookup_alter_eq, Ehc. eexists. split; [done|]. unfold where_is. cbn. by destruct (_waiting hc), (_waiting_fifo hc).
    + rewrite lookup_alter_ne by done. by exists hc.
Qed.

Lemma suspend_core t c b k (Q : unit → kernel → Prop) :
  Filed None k → Current c k → Leaving c k → whereabouts k t = Some In_scheduler → t ≠ idle →
  Ledger idle (alter (move Aside) t (cards k)) (_thread_count k) →
  (∀ k', Valid idle k' → cards k' = alter (move Aside) t (cards k) → queues k' = queues k →
    (t = c ∨ Foremost k → Foremost k') → Q () k') →
  wp (suspend t b) Q k.
Proof.
  intros HF HC HLe Hw Ht HJ HQ. unfold suspend.
  assert (Filed None (if b then k else with_int false k)) as HF0 by (destruct b; [done|by apply (filed_ext None k)]).
  assert (wp (if b then mret () else lock) (λ _ k0, k0 = if b then k else with_int false k) k) as Hl by by destruct b.
  apply wp_seq. eapply wp_weaken; [exact Hl|]. intros [] k0 ->. cbn beta. clear Hl. set (k0 := if b then k else _) in *.
  assert (threads k0 = threads k ∧ _scheduler k0 = _scheduler k ∧ queues k0 = queues k ∧ cpu k0 = cpu k ∧ _thread_count k0 = _thread_count k)
    as (Et0 & Es0 & Eq0 & Ec0 & En0) by by destruct b.
  assert (cards k0 = cards k) as Ecards0 by (unfold cards; by rewrite Et0).
  apply wp_seq, (wp_running c); [rewrite Es0; apply HC|].
  pose proof (whereabouts_known _ _ _ Hw) as (h & E & Hwh). rewrite <- Et0 in E.
  apply wp_seq, wp_update; [by eexists|].
  assert (t ∈ members (_scheduler k0)) as Hm by (rewrite Es0; by apply (filed_ready _ _ HF)).
  destruct (schedule_remove t k0 HF0 Hm) as (s' & Hs & HF1 & Hm' & Hfo & Hsome).
  set (k1 := with_threads (alter (set_state SUSPENDED) t) k0).
  assert (cards k1 = alter (move Aside) t (cards k)) as Ec1 by (unfold k1; by rewrite (suspended_cards t h), Ecards0).
  apply wp_seq. eapply wp_of.
  { eapply (schedule_ext _ k0 k1); [| |done|exact Hs]; intros x.
    - eapply (rank_move Aside t). by rewrite Ec1, Ecards0.
    - cbn. by rewrite lookup_alter_is_Some. }
  apply (filed_update (set_state SUSPENDED) t) in HF1; [|by eexists].
  change (with_threads _ (with_scheduler s' k0)) with (with_scheduler s' k1) in HF1.
  assert (whereabouts (with_scheduler s' k1) t = Some Aside) as Hw1.
  { change (place_of (cards k1) t = Some Aside). unfold place_of. rewrite Ec1, lookup_alter_eq, <- Ecards0.
    by rewrite (cards_lookup _ _ _ E). }
  apply filed_settle in HF1; [|by rewrite Hw1].
  rewrite Es0 in *.
  assert (is_Some (chosen s')) as [x Hx].
  { apply Hsome; [exists c; apply HC|]. eapply idle_remains; [exact HF| |exact Ht|exact Hm'].
    destruct (ledger_idle _ _ _ HJ) as (ci & Ei & Hp & _). rewrite lookup_alter_ne in Ei by done. unfold whereabouts, place_of. by rewrite Ei. }
  apply wp_seq, (wp_running x); [done|].
  assert (Lists idle (with_scheduler s' k1)) as HL1.
  { split; [done|]. change (Ledger idle (cards k1) (_thread_count k0)). by rewrite Ec1, En0. }
  apply (dispatch_spec idle c x); [done|done| |].
  - apply suspended_leaving. by destruct b, HLe.
  - intros k' HV [Ec' Eq' Ei'] Es HC'. apply HQ; [done|by rewrite Ec', <- Ec1|by rewrite Eq'|].
    intros Hcase y z. rewrite Es. cbn. assert (∀ u, rank_in k' u = rank_in k u) as Er.
    { intros u. eapply (rank_move Aside t). by rewrite Ec', <- Ec1. }
    rewrite !Er. assert (∀ u, rank_in k0 u = rank_in k u) as Er0 by (intros u; by rewrite !rank_cards, Ecards0).
    intros Hy Hz. destruct (decide (chosen (_scheduler k) = Some t)) as [Hd|Hd].
    + rewrite <- !Er0. by apply Hfo.
    + destruct Hcase as [->|HFo]; [by rewrite (current_chosen _ _ HC) in Hd|]. apply HFo; [by rewrite <- Hfo|].
      rewrite Hm'. by right.
Qed.

Lemma suspend_spec t c b k (Q : unit → kernel → Prop) :
  Sound idle c k → whereabouts k t = Some In_scheduler → t ≠ idle →
  (∀ k', Valid idle k' → cards k' = alter (move Aside) t (cards k) → queues k' = queues k →
    (t = c ∨ Foremost k → Foremost k') → Q () k') →
  wp (suspend t b) Q k.
Proof.
  intros HS Hw Ht HQ. apply (suspend_core t c); [apply HS|apply HS|by eapply current_leaving|done..| |done].
  pose proof (place_known _ _ _ Hw) as [cd E]. rewrite (alter_is_insert _ _ _ _ E).
  assert (card_place cd = Some In_scheduler) as Hp by (unfold whereabouts, place_of in Hw; by rewrite E in Hw).
  eapply ledger_move; [apply HS|done| |done| |].
  - eapply in_list_no_joiner; [apply HS|]. change (whereabouts k t ≠ Some Aside). by rewrite Hw.
  - unfold lives. cbn [move card_place]. rewrite Hp, !decide_False by done. lia.
  - by right.
Qed.

(** ** A thread becomes ready *)

Section preemptive.
Context (preemptive : bool).

(** [if(preemptive) reschedule(...); else unlock();] *)
Lemma finish_spec t c k (Q : unit → kernel → Prop) :
  Sound idle c k → int_enabled k = false → is_Some (threads k !! t) →
  (∀ k', Valid idle k' → Switched k k' → (preemptive = true → Foremost k') → Q () k') →
  wp (if preemptive then i ← queue_index t; reschedule_on i else unlock) Q k.
Proof.
  intros HS Hi [h E] HQ. destruct preemptive.
  - apply wp_seq. apply (wp_at _ _ h); [done|]. apply (reschedule_spec c); [done..|]. intros k' HV Hsw HFo. by apply HQ.
  - apply wp_change. apply HQ; [|by constructor|done]. destruct HS as [HL HC]. split; [|done]. exists c. split; [by apply (lists_ext idle k)|].
    by constructor; destruct HC.
Qed.

(** The thread being moved, whose card now says so, enters the scheduler. *)
Lemma ready_spec t c cd k k1 :
  Sound idle c k → cards k !! t = Some cd → card_place cd ≠ Some Ended → whereabouts k t ≠ Some In_scheduler → no_joiner t (cards k) →
  cards k1 = alter (move In_scheduler) t (cards k) → Filed (Some t) k1 → _scheduler k1 = _scheduler k →
  _thread_count k1 = _thread_count k → cpu k1 = cpu k →
  (∀ x h, threads k1 !! x = Some h → _state h = RUNNING ↔ x = c) →
  ∃ s', schedule (Op_insert t) k1 = Some ((), with_scheduler s' k1) ∧ Sound idle c (with_scheduler s' k1).
Proof.
  intros HS E Hcd Hnw Hno Ec HF1 Es En Ecpu Hrun. pose proof HS as [HL HC].
  assert (whereabouts k1 t = Some In_scheduler) as Hw1.
  { unfold whereabouts, place_of. by rewrite Ec, lookup_alter_eq, E. }
  destruct (schedule_insert t c k1 HF1 Hw1) as [Hs HF2]; [rewrite Es; apply HC|].
  eexists. split; [exact Hs|]. split.
  - eapply (lists_move t In_scheduler cd k); try done. intros ->.
    destruct (ledger_idle _ _ _ (proj2 HL)) as (ci & Ei & Hp & _). apply Hnw. unfold whereabouts, place_of. by rewrite Ei.
  - constructor; [done|by rewrite <- (current_cpu _ _ HC), <- Ecpu|done].
Qed.

Lemma resume_spec t c k (Q : unit → kernel → Prop) :
  Sound idle c k → whereabouts k t = Some Aside → no_joiner t (cards k) →
  (∀ k', Valid idle k' → cards k' = alter (move In_scheduler) t (cards k) → queues k' = queues k →
    (preemptive = true → Foremost k') → Q () k') →
  wp (resume preemptive t) Q k.
Proof.
  intros HS Hw Hno HQ. pose proof HS as [[HF HJ] HC]. unfold resume. apply wp_seq, wp_change.
  pose proof (whereabouts_known _ _ _ Hw) as (h & E & Hwh).
  assert (∃ j r st, h = Thread st SUSPENDED None None j r) as (j & r & st & ->).
  { destruct h as [st [] [] [] j r]; try done. by eexists _, _, _. }
  apply wp_seq. eapply wp_at; [exact E|]. cbn [_state]. rewrite decide_True by done.
  apply wp_seq, wp_update; [by eexists|].
  set (k0 := with_int false k). assert (Filed (Some t) k0) as HF0.
  { apply (filed_ext (Some t) k); [done..|]. apply filed_settle; [by rewrite Hw|done]. }
  apply (filed_update (set_state READY) t) in HF0; [|by eexists]. set (k1 := with_threads _ k0) in *.
  assert (cards k1 = alter (move In_scheduler) t (cards k)) as Ec1.
  { unfold k1. rewrite (cards_alter _ (move In_scheduler)); [done|]. intros h' Eh'. cbn in Eh'. rewrite E in Eh'. by injection Eh' as <-. }
  destruct (ready_spec t c _ k k1 HS (cards_lookup _ _ _ E)) as (s' & Hs & HS'); try done.
  { by rewrite Hw. }
  { intros x hx. cbn. rewrite lookup_alter_Some. intros [(<- & h' & Eh' & ->)|[_ Ex]]; [|by apply (current_running _ _ HC)].
    split; [done|]. intros ->. pose proof (proj2 (current_running _ _ HC _ _ E) eq_refl). done. }
  apply wp_seq. eapply wp_of; [exact Hs|].
  apply (finish_spec t c); [done|done|cbn; rewrite lookup_alter_is_Some; by eexists|].
  intros k' HV [Ec' Eq' _] HFo. by apply HQ; [|rewrite Ec', <- Ec1|rewrite Eq'|].
Qed.

(** [resume] of a thread that is not SUSPENDED. *)
Lemma resume_other_spec t c k h (Q : unit → kernel → Prop) :
  Sound idle c k → threads k !! t = Some h → _state h ≠ SUSPENDED → Q () (with_int true k) → wp (resume preemptive t) Q k.
Proof.
  intros HS E Hs HQ. unfold resume. apply wp_seq, wp_change, wp_seq, (wp_at _ _ h); [done|].
  rewrite decide_False by done. by apply wp_change.
Qed.

Lemma awaken_spec q t l c k (Q : loc → kernel → Prop) :
  Sound idle c k → queue_of k q = t :: l →
  (∀ k', Sound idle c k' → cards k' = alter (move In_scheduler) t (cards k) →
    (∀ q', queue_of k' q' = if decide (q' = q) then l else queue_of k q') → int_enabled k' = int_enabled k →
    is_Some (threads k' !! t) → Q t k') →
  wp (awaken q) Q k.
Proof.
  intros HS Eq HQ. pose proof HS as [[HF HJ] HC].
  assert (whereabouts k t = Some (In_queue q)) as Hw by (apply (filed_waiting _ _ HF); rewrite Eq; by left).
  pose proof (whereabouts_known _ _ _ Hw) as (h & E & Hwh).
  destruct (queue_dequeue q t l k HF Eq) as [Hd HF0]. unfold awaken. apply wp_seq. eapply wp_of; [exact Hd|].
  apply wp_seq, wp_update; [by eexists|]. apply (filed_update (set_state READY) t) in HF0; [|by eexists].
  set (k1 := with_threads _ _) in *.
  assert (threads k1 !! t = Some (set_state READY h)) as E1 by (cbn; by rewrite lookup_alter_eq, E).
  apply wp_seq, wp_update; [by eexists|]. apply (filed_update (set_waiting q.1 None) t) in HF0; [|by eexists].
  set (k2 := with_threads _ k1) in *.
  assert (cards k2 = alter (move In_scheduler) t (cards k)) as Ec2.
  { unfold k2. rewrite (cards_alter _ (move In_scheduler)).
    - unfold k1. rewrite (cards_alter _ (λ cd, Card (where_is (set_state READY h)) (card_rank cd) (card_joining cd) (card_stack cd))).
      + by rewrite alter_alter_eq.
      + intros h' Eh'. cbn in Eh'. rewrite E in Eh'. by injection Eh' as <-.
    - rewrite E1. intros h' [= <-]. unfold where_is in Hwh. destruct h as [st s w wf j r]. cbn in *.
      by destruct s, w, wf; simplify_eq. }
  destruct (ready_spec t c _ k k2 HS (cards_lookup _ _ _ E)) as (s' & Hs & HS'); try done.
  { cbn. by rewrite Hwh. }
  { by rewrite Hw. }
  { eapply in_list_no_joiner; [done|]. change (whereabouts k t ≠ Some Aside). by rewrite Hw. }
  { intros x hx. destruct (decide (x = t)) as [->|Hne].
    - replace (threads k2 !! t) with (Some (set_waiting q.1 None (set_state READY h))) by (cbn; by rewrite !lookup_alter_eq, E).
      intros [= <-]. split; [by destruct q as [[] q]|]. intros ->.
      pose proof (proj2 (current_running _ _ HC _ _ E) eq_refl) as Hr. unfold where_is in Hwh. rewrite Hr in Hwh.
      by destruct (_waiting h), (_waiting_fifo h).
    - cbn. rewrite !lookup_alter_ne by done. by apply (current_running _ _ HC). }
  apply wp_seq. eapply wp_of; [exact Hs|]. apply wp_ret. apply HQ; [done|done| |done|].
  - intros q'. change (queue_of (with_scheduler s' k2) q') with (queue_of (with_queue q l k) q'). apply queue_of_with.
  - cbn. rewrite !lookup_alter_is_Some. by eexists.
Qed.

Lemma wakeup_spec q c k (Q : unit → kernel → Prop) :
  Sound idle c k → int_enabled k = false →
  (queue_of k q = [] → Q () (with_int true k)) →
  (∀ t l k', queue_of k q = t :: l → Valid idle k' → cards k' = alter (move In_scheduler) t (cards k) →
    (∀ q', queue_of k' q' = if decide (q' = q) then l else queue_of k q') → (preemptive = true → Foremost k') → Q () k') →
  wp (wakeup preemptive q) Q k.
Proof.
  intros HS Hi Hnil Hcons. unfold wakeup. apply wp_seq, wp_read. rewrite Hi. apply wp_seq, wp_assert; [done|].
  apply wp_seq, wp_read. destruct (queue_of k q) as [|t l] eqn:Eq; [by apply wp_change, Hnil|].
  rewrite bool_decide_false by done. apply wp_seq. apply (awaken_spec q t l c); [done..|].
  intros k1 HS1 Ec Eq1 Ei Hk. apply (finish_spec t c); [done|by rewrite Ei|done|].
  intros k' HV [Ec' Eq' _] HFo. apply (Hcons t l); [done..|by rewrite Ec'| |done].
  intros q'. rewrite <- Eq1. unfold queue_of. by rewrite Eq'.
Qed.

Definition moved_all (l : list loc) (m : gmap loc card) : gmap loc card := foldl (λ m t, alter (move In_scheduler) t m) m l.

Lemma moved_all_place t l : ∀ m, place_of m t = Some In_scheduler → place_of (moved_all l m) t = Some In_scheduler.
Proof.
  induction l as [|x l IH]; intros m Hp; [done|]. apply IH. unfold place_of in *. destruct (decide (x = t)) as [->|].
  - rewrite lookup_alter_eq. by destruct (m !! t).
  - by rewrite lookup_alter_ne.
Qed.

Lemma moved_all_in t l : ∀ m, t ∈ l → is_Some (m !! t) → place_of (moved_all l m) t = Some In_scheduler.
Proof.
  induction l as [|x l IH]; intros m Ht Hm; [by apply elem_of_nil in Ht|]. destruct (decide (x = t)) as [->|Hx].
  - apply (moved_all_place t l). unfold place_of. rewrite lookup_alter_eq. by destruct Hm as [? ->].
  - apply IH; [|by rewrite lookup_alter_ne]. by apply elem_of_cons in Ht as [->|].
Qed.

Lemma awaken_all_spec q : ∀ l cpus c k (Q : Z → kernel → Prop),
  Sound idle c k → queue_of k q = l →
  (∀ k', Sound idle c k' → cards k' = moved_all l (cards k) →
    (∀ q', queue_of k' q' = if decide (q' = q) then [] else queue_of k q') → int_enabled k' = int_enabled k →
    Q (if decide (l = []) then cpus else Z.lor cpus 1) k') →
  wp (awaken_all (length l) q cpus) Q k.
Proof.
  induction l as [|t l IH]; intros cpus c k Q HS Eq HQ.
  - apply wp_seq, wp_read. rewrite bool_decide_true by done. apply wp_ret. apply (HQ k); [done..| |done].
    intros q'. by destruct (decide (q' = q)) as [->|].
  - apply wp_seq, wp_read. rewrite bool_decide_false by (by rewrite Eq). apply wp_seq.
    apply (awaken_spec q t l c); [done..|]. intros k1 HS1 Ec Eq1 Ei [h Hk].
    apply wp_seq. apply (wp_at _ _ h); [done|]. apply (IH _ c); [done|by rewrite Eq1, decide_True|].
    intros k' HS' Ec' Eq' Ei'.
    replace (if decide (l = []) then _ else _) with (Z.lor cpus 1).
    + apply HQ; [done|by rewrite Ec', Ec| |by rewrite Ei'].
      intros q'. rewrite Eq', Eq1. by destruct (decide (q' = q)).
    + change (Z.shiftl 1 0) with 1. destruct (decide (l = [])); [done|]. by rewrite <- Z.lor_assoc.
Qed.

Lemma wakeup_all_spec q c k (Q : unit → kernel → Prop) :
  Sound idle c k → int_enabled k = false →
  (∀ k', Valid idle k' → cards k' = moved_all (queue_of k q) (cards k) →
    (∀ q', queue_of k' q' = if decide (q' = q) then [] else queue_of k q') →
    (queue_of k q ≠ [] → preemptive = true → Foremost k') → (queue_of k q = [] → k' = with_int true k) → Q () k') →
  wp (wakeup_all preemptive q) Q k.
Proof.
  intros HS Hi HQ. unfold wakeup_all. apply wp_seq, wp_read. rewrite Hi. apply wp_seq, wp_assert; [done|].
  apply wp_seq, wp_read. destruct (queue_of k q) as [|t l] eqn:Eq.
  { apply wp_change. apply HQ; [|done| |done|done].
    - split; [|done]. exists c. destruct HS as [HL []]. split; [by apply (lists_ext idle k)|by constructor].
    - intros q'. change (queue_of (with_int true k) q') with (queue_of k q'). by destruct (decide (q' = q)) as [->|]. }
  rewrite bool_decide_false by done. apply wp_seq, wp_read. rewrite Eq. apply wp_seq.
  apply (awaken_all_spec q (t :: l) 0 c); [done..|]. intros k1 HS1 Ec Eq1 Ei. rewrite decide_False by done.
  destruct preemptive.
  - cbn [reschedule_all QUEUES]. change (negb (Z.land (Z.lor 0 1) (Z.shiftl 1 0) =? 0)) with true. cbn iota.
    apply wp_seq. apply (reschedule_spec c); [done|by rewrite Ei|]. intros k' HV [Ec' Eq' Ei'] HFo. apply wp_ret.
    apply HQ; [done|by rewrite Ec'| |done|done]. intros q'. rewrite <- Eq1. unfold queue_of. by rewrite Eq'.
  - apply wp_change. apply HQ; [|done|done|done|done].
    split; [|done]. exists c. destruct HS1 as [HL []]. split; [by apply (lists_ext idle k1)|by constructor].
Qed.
End preemptive.

(** ** Exit and join *)

(** The thread that exits, up to the one that joins it. *)
Definition exit_rest (prev : loc) : T unit :=
  j ← at_ _joining prev;
  _ ← (match j with
       | Some j => _ ← update (set_state READY) j; _ ← schedule (Op_insert j); update (set_joining None) prev
       | None => mret ()
       end);
  next ← sched_choose;
  dispatch prev next.

Lemma finishing_spec status c r oj st k (Q : unit → kernel → Prop) :
  Sound idle c k → cards k !! c = Some (Card (Some In_scheduler) r oj st) → c ≠ idle →
  (∀ x k', Filed None k' → cards k' = <[c := Card (Some Ended) r oj (Some status)]> (cards k) → _thread_count k' = _thread_count k - 1 →
    queues k' = queues k → cpu k' = cpu k → chosen (_scheduler k') = Some x →
    threads k' !! c = Some (Thread (Some status) FINISHING None None oj r) →
    (∀ y h, threads k' !! y = Some h → _state h = RUNNING → y = c) → wp (exit_rest c) Q k') →
  wp (exit status) Q k.
Proof.
  intros HS Ecd Hc HQ. pose proof HS as [[HF HJ] HC]. pose proof (sound_card c k HS) as (oj' & r' & st' & E & Ecd' & Hm & Hno).
  assert (oj' = oj ∧ r' = r ∧ st' = st) as (-> & -> & ->) by (rewrite Ecd in Ecd'; by injection Ecd').
  pose proof (alive_bound k c _ (conj HF HJ) Ecd ltac:(done)) as Hcount.
  unfold exit. apply wp_seq, wp_change. set (k0 := with_int false k). assert (Filed None k0) as HF0 by by apply (filed_ext None k).
  apply wp_seq, (wp_running c); [apply HC|]. destruct (schedule_remove c k0 HF0 Hm) as (s' & Hs & HF1 & Hm' & _ & Hsome).
  assert (is_Some (chosen s')) as [x Hx].
  { apply Hsome; [exists c; apply HC|]. eapply idle_remains; [exact HF0|by apply idle_place|exact Hc|exact Hm']. }
  apply wp_seq. eapply wp_of; [exact Hs|].
  apply wp_seq, wp_update; [by eexists|]. apply (filed_update (set_state FINISHING) c) in HF1; [|by eexists]. set (k1 := with_threads _ _) in *.
  pose proof (threads_at (set_state FINISHING) c (with_scheduler s' k0) _ E : threads k1 !! c = Some (Thread st FINISHING None None oj r)) as E1.
  apply wp_seq, wp_update; [by eexists|]. apply (filed_update (set_stack status) c) in HF1; [|by eexists]. set (k2 := with_threads _ k1) in *.
  pose proof (threads_at (set_stack status) c k1 _ E1 : threads k2 !! c = Some (Thread (Some status) FINISHING None None oj r)) as E2.
  apply filed_settle in HF1; [|by rewrite (whereabouts_lookup _ _ _ E2)]. apply wp_seq, wp_change. apply (HQ x); try done.
  - by apply (filed_ext None k2).
  - change (cards k2 = <[c := Card (Some Ended) r oj (Some status)]> (cards k)). unfold k2. rewrite (cards_with_threads _ _ _ _ E1). unfold k1.
    by rewrite (cards_with_threads _ _ (with_scheduler s' k0) _ E), insert_insert_eq.
  - cbn. rewrite Z.mod_small by lia. lia.
  - intros y h. cbn. rewrite lookup_alter_Some. intros [(<- & h' & Eh & ->)|[Hne Ey]]; [done|].
    rewrite lookup_alter_ne in Ey by done. by apply (current_running _ _ HC).
Qed.

(** The thread that joins becomes ready. *)
Lemma joiner_spec status c r j x k (Q : unit → kernel → Prop) :
  Filed None k → threads k !! c = Some (Thread (Some status) FINISHING None None (Some j) r) → j ≠ c → whereabouts k j = Some Aside →
  chosen (_scheduler k) = Some x →
  (∀ k', Filed None k' → cards k' = <[c := Card (Some Ended) r None (Some status)]> (alter (move In_scheduler) j (cards k)) →
    _thread_count k' = _thread_count k → queues k' = queues k → cpu k' = cpu k → chosen (_scheduler k') = Some x →
    threads k' !! c = Some (Thread (Some status) FINISHING None None None r) →
    (∀ y h, threads k' !! y = Some h → _state h = RUNNING → y = c ∨ threads k !! y = Some h) → Q () k') →
  wp (_ ← update (set_state READY) j; _ ← schedule (Op_insert j); update (set_joining None) c) Q k.
Proof.
  intros HF E Hjc Hj Hx HQ. pose proof (whereabouts_known _ _ _ Hj) as (hj & Ej & Hwj). apply (filed_settle j) in HF; [|by rewrite Hj].
  apply wp_seq, wp_update; [by eexists|]. apply (filed_update (set_state READY) j) in HF; [|by eexists]. set (k4 := with_threads _ k) in *.
  assert (cards k4 = alter (move In_scheduler) j (cards k)) as Ec4.
  { unfold k4. apply cards_alter. intros h Eh. rewrite Ej in Eh. injection Eh as <-. unfold move, card_of, where_is in *. cbn.
    by destruct (_state hj), (_waiting hj), (_waiting_fifo hj). }
  destruct (schedule_insert j x k4 HF) as [Hs5 HF5]; [|done|].
  { unfold whereabouts, place_of. by rewrite Ec4, lookup_alter_eq, (cards_lookup _ _ _ Ej). }
  apply wp_seq. eapply wp_of; [exact Hs5|]. set (k5 := with_scheduler _ k4) in *.
  assert (threads k5 !! c = Some (Thread (Some status) FINISHING None None (Some j) r)) as E5
    by (change (threads k4 !! c = Some (Thread (Some status) FINISHING None None (Some j) r)); unfold k4; by rewrite threads_off).
  apply wp_update; [by eexists|]. apply (filed_settle c) in HF5; [|by rewrite (whereabouts_lookup _ _ _ E5)].
  apply (filed_update (set_joining None) c) in HF5; [|by eexists]. set (k6 := with_threads _ k5) in *.
  pose proof (threads_at (set_joining None) c k5 _ E5 : threads k6 !! c = Some (Thread (Some status) FINISHING None None None r)) as E6.
  apply filed_settle in HF5; [|by rewrite (whereabouts_lookup _ _ _ E6)]. apply HQ; try done.
  - unfold k6. rewrite (cards_with_threads _ _ _ _ E5). change (cards k5) with (cards k4). by rewrite Ec4.
  - intros y h. cbn. rewrite lookup_alter_Some. intros [(<- & h' & Eh & ->)|[Hne Ey]]; [by left|].
    apply lookup_alter_Some in Ey as [(<- & h' & Eh & ->)|[_ Ey]]; [done|by right].
Qed.

Lemma exit_spec status c r oj st k (Q : unit → kernel → Prop) :
  Sound idle c k → cards k !! c = Some (Card (Some In_scheduler) r oj st) → c ≠ idle →
  (∀ k', Valid idle k' → cards k' = <[c := Card (Some Ended) r None (Some status)]>
      (match oj with Some j => alter (move In_scheduler) j (cards k) | None => cards k end) →
    queues k' = queues k → Foremost k' → Q () k') →
  wp (exit status) Q k.
Proof.
  intros HS Ecd Hc HQ. pose proof HS as [[HF HJ] HC]. pose proof (ledger_exit idle c r oj st (Some status) _ _ HJ Ecd Hc) as HJ'.
  apply (finishing_spec status c r oj st k); [done..|]. intros x k3 HF3 Ec3 En3 Eq3 Ecpu3 Hx E3 Hrun3.
  unfold exit_rest. apply wp_seq. eapply wp_at; [exact E3|]. cbn [_joining]. destruct oj as [j|].
  - destruct (ledger_joiner _ _ _ HJ c _ j Ecd eq_refl) as [_ Hj]. assert (j ≠ c) as Hjc.
    { intros ->. unfold place_of in Hj. by rewrite Ecd in Hj. }
    apply wp_seq, (joiner_spec status c r j x); [done|done|done| |done|].
    { unfold whereabouts, place_of. by rewrite Ec3, lookup_insert_ne. }
    intros k6 HF6 Ec6 En6 Eq6 Ecpu6 Hx6 E6 Hrun6. rewrite Ec3, alter_insert_ne, insert_insert_eq in Ec6 by done.
    apply (choose_dispatch_spec c x); [|done| |].
    + split; [done|]. by rewrite Ec6, En6, En3.
    + constructor; [by rewrite Ecpu6, Ecpu3; apply HC| |by eexists].
      intros y h Ey Hst. destruct (Hrun6 y h Ey Hst) as [?|Ey']; [done|by apply (Hrun3 y h)].
    + intros k' HV [Ec' Eq' _] HFo. apply HQ; [done|by rewrite Ec', Ec6|by rewrite Eq', Eq6, Eq3|done].
  - apply wp_seq, wp_ret. apply (choose_dispatch_spec c x); [|done| |].
    + split; [done|]. rewrite Ec3, En3. exact HJ'.
    + constructor; [by rewrite Ecpu3; apply HC|done|by eexists].
    + intros k' HV [Ec' Eq' _] HFo. apply HQ; [done|by rewrite Ec', Ec3|by rewrite Eq', Eq3|done].
Qed.
End ops.
