(* ===== verification/ThreadApi.v ===== *)
(** * The calls of a running system

    The remaining methods of Thread, [call] with every call a program can
    make, what each must not be asked for ([allowed]), and the properties of
    what is reached by calls. *)

From stdpp Require Import base numbers list option gmap sorting.
From S2P Require Import Prelude StateM DList OrderedList Sched Thread ThreadInv ThreadOps.
#[local] Set Warnings "-clear-no-such-hyp".

Section ops.
Context (idle : loc).
Implicit Types (k : kernel) (t c : loc) (q : waitq).

Lemma valid_int k c : Sound idle c k → Valid idle (with_int true k).
Proof. intros [HL []]. split; [|done]. exists c. split; [by apply (lists_ext idle k)|by constructor]. Qed.

Lemma sound_int b k c : Sound idle c k → Sound idle c (with_int b k).
Proof. intros [HL []]. split; [by apply (lists_ext idle k)|by constructor]. Qed.

(** ** Join *)

Definition join_card (j : loc) (c : card) : card := Card (card_place c) (card_rank c) (Some j) (card_stack c).

Lemma join_ledger t c cd m n :
  Ledger idle m n → m !! t = Some cd → card_joining cd = None → card_place cd ≠ Some Ended →
  place_of m c = Some In_scheduler → c ≠ idle → c ≠ t →
  Ledger idle (alter (move Aside) c (alter (join_card c) t m)) n.
Proof.
  intros H Et Ej Hp Hc Hci Hct. unfold place_of in Hc. destruct (m !! c) as [cc|] eqn:Ec; [|done]. cbn in Hc.
  rewrite (alter_is_insert _ t cd) by done. rewrite (alter_is_insert _ c cc) by by rewrite lookup_insert_ne.
  assert (no_joiner c m) as Hno by (eapply in_list_no_joiner; [done|]; unfold place_of; by rewrite Ec; cbn; rewrite Hc).
  assert (∀ x cx j, <[c := move Aside cc]> (<[t := join_card c cd]> m) !! x = Some cx → card_joining cx = Some j →
    (x = t ∧ j = c ∧ card_place cx = card_place cd) ∨
    (x ≠ t ∧ j ≠ c ∧ ∃ cx', m !! x = Some cx' ∧ card_joining cx' = Some j ∧ card_place cx ≠ Some Ended)) as Hall.
  { intros x cx j. rewrite lookup_insert_Some. intros [[<- <-]|[Hxc Hx]].
    - cbn. intros Ej'. right. split; [congruence|]. split; [intros ->; by apply (Hno c cc)|]. by exists cc.
    - apply lookup_insert_Some in Hx as [[<- <-]|[Hxt Ex]]; [intros [= <-]; by left|].
      intros Ej'. right. split; [congruence|]. split; [intros ->; by apply (Hno x cx)|]. exists cx. split_and!; [done..|].
      by apply (ledger_joiner _ _ _ H x cx j). }
  constructor.
  - rewrite (alive_update c cc) by by rewrite lookup_insert_ne. rewrite (alive_update t cd), (ledger_count _ _ _ H) by done.
    unfold lives. cbn [move join_card card_place]. rewrite Hc, !decide_False by done. lia.
  - intros x cx j Hx Hj. destruct (Hall x cx j Hx Hj) as [(-> & -> & Hpl)|(Hxt & Hjc & cx' & Ex & Ej' & Hpl)].
    + split; [congruence|]. unfold place_of. by rewrite lookup_insert_eq.
    + split; [done|]. destruct (ledger_joiner _ _ _ H x cx' j Ex Ej') as [_ Hja]. unfold place_of in *.
      rewrite lookup_insert_ne by done. destruct (decide (j = t)) as [->|]; [rewrite lookup_insert_eq; by rewrite Et in Hja|].
      by rewrite lookup_insert_ne by done.
  - intros x x' cx cx' j Hx Hx' Hj Hj'.
    destruct (Hall x cx j Hx Hj) as [(-> & -> & _)|(? & ? & y & Ey & Ejy & _)], (Hall x' cx' _ Hx' Hj') as [(-> & ? & _)|(? & ? & y' & Ey' & Ejy' & _)]; try done.
    by apply (ledger_join _ _ _ H x x' y y' j).
  - destruct (ledger_idle _ _ _ H) as (ci & Ei & Hpi & Hri). rewrite lookup_insert_ne by done.
    destruct (decide (t = idle)) as [->|]; [|exists ci; by rewrite lookup_insert_ne by done].
    rewrite lookup_insert_eq. rewrite Et in Ei. injection Ei as <-. by eexists.
Qed.

Lemma join_spec t c cd k (Q : unit → kernel → Prop) :
  Sound idle c k → cards k !! t = Some cd → card_joining cd = None → t ≠ c → c ≠ idle →
  (card_place cd = Some Ended → Q () (with_int true k)) →
  (∀ k', card_place cd ≠ Some Ended → Valid idle k' → cards k' = alter (move Aside) c (alter (join_card c) t (cards k)) →
    queues k' = queues k → Foremost k' → Q () k') →
  wp (join t) Q k.
Proof.
  intros HS Ecd Ej Htc Hci Hend Hwait. pose proof HS as [[HF HJ] HC].
  pose proof (sound_card idle c k HS) as (oj & r & st & E & Ecc & Hm & Hno).
  assert (∃ h, threads k !! t = Some h ∧ card_of h = cd) as (h & Eh & <-).
  { unfold cards in Ecd. rewrite lookup_fmap in Ecd. destruct (threads k !! t) as [h|]; [|done]. injection Ecd as <-. by exists h. }
  cbn in Ej. unfold join. apply wp_seq, wp_change. apply wp_seq, (wp_running c); [apply HC|].
  apply wp_seq, wp_assert; [by rewrite bool_decide_false|]. apply wp_seq, (wp_at _ _ h); [done|]. rewrite Ej.
  apply wp_seq, wp_assert; [done|]. apply wp_seq, (wp_at _ _ h); [done|].
  assert (is_Some (where_is h)) as [p Hp].
  { rewrite <- (whereabouts_lookup k t h Eh). apply (filed_known _ _ HF); [done|]. by rewrite Ecd. }
  assert (_state h = FINISHING ↔ p = Ended) as Hfin.
  { unfold where_is in Hp. by destruct (_state h), (_waiting h), (_waiting_fifo h); simplify_eq. }
  case_decide as Hs; [|by apply wp_change, Hend; cbn; rewrite Hp; f_equal; apply Hfin; destruct (_state h)].
  assert (card_place (card_of h) ≠ Some Ended) as Hne by (cbn; rewrite Hp; intros [= ->]; by apply Hs, Hfin).
  apply wp_seq, (wp_running c); [apply HC|]. apply wp_seq, wp_update; [by eexists|].
  set (k1 := with_threads _ (with_int false k)).
  assert (cards k1 = alter (join_card c) t (cards k)) as Ec1.
  { unfold k1. rewrite (cards_alter _ (join_card c)); [done|]. intros h' Eh'. cbn in Eh'. rewrite Eh in Eh'. by injection Eh' as <-. }
  assert (∀ x, whereabouts k1 x = whereabouts k x) as Ew.
  { intros x. unfold whereabouts, place_of. rewrite Ec1. destruct (decide (x = t)) as [->|]; [|by rewrite lookup_alter_ne].
    by rewrite lookup_alter_eq, Ecd. }
  assert (∀ x hx, threads k1 !! x = Some hx → ∃ hx', threads k !! x = Some hx' ∧ _state hx = _state hx' ∧ where_is hx = where_is hx') as Hth.
  { intros x hx. cbn. rewrite lookup_alter_Some. intros [(<- & h' & Eh' & ->)|[_ Ex]]; [exists h'|exists hx]; done. }
  apply (suspend_core idle c c); [|constructor|constructor| |done| |].
  - apply (filed_places None k); [done| | |done..|done].
    + intros x. rewrite !rank_cards, Ec1. destruct (decide (x = t)) as [->|]; [|by rewrite lookup_alter_ne]. by rewrite lookup_alter_eq, Ecd.
    + rewrite Ec1. by rewrite dom_alter_L.
  - apply HC.
  - apply HC.
  - intros x hx Ex. destruct (Hth x hx Ex) as (hx' & Ex' & -> & _). by apply (current_running _ _ HC).
  - apply HC.
  - intros x hx Ex. destruct (Hth x hx Ex) as (hx' & Ex' & -> & _). by apply (current_running _ _ HC).
  - eexists. split; [unfold k1; rewrite threads_off by done; exact E|done].
  - rewrite Ew. by rewrite (whereabouts_lookup _ _ _ E).
  - rewrite Ec1. apply (join_ledger t c (card_of h)); try done. unfold place_of. by rewrite Ecc.
  - intros k' HV Ec' Eq' HFo. apply Hwait; [done|done|by rewrite Ec', Ec1|done|]. apply HFo. by left.
Qed.

(** ** The processor is passed on *)

Lemma turn_spec op c x s' k (Q : unit → kernel → Prop) :
  Sound idle c k →
  perform (λ _, true) IDLE (rank_in k) (λ t, is_Some (threads k !! t)) op (_scheduler k) = Some s' →
  members s' ≡ₚ members (_scheduler k) → chosen s' = Some x →
  (∀ k', Valid idle k' → Switched k k' → chosen (_scheduler k') = Some x → Q () k') →
  wp (_ ← lock; prev ← running; next ← (_ ← schedule op; running); dispatch prev next) Q k.
Proof.
  intros HS Hp Hm Hx HQ. apply wp_seq, wp_change. pose proof (sound_int false k c HS) as HS0. pose proof HS0 as [[HF HJ] HC].
  apply wp_seq, (wp_running c); [apply HC|].
  destruct (schedule_reorder op (with_int false k) s' HF Hp Hm) as [Hs HF'].
  apply wp_seq, wp_seq. eapply wp_of; [exact Hs|]. apply (wp_running x); [done|].
  apply (dispatch_spec idle c x); [by split|done| |].
  - pose proof (current_leaving _ _ _ HS0) as []. by constructor.
  - intros k' HV [] Es _. apply HQ; [done|by constructor|]. by rewrite Es.
Qed.

Lemma yield_spec c k (Q : unit → kernel → Prop) :
  Sound idle c k →
  (∀ k', Valid idle k' → Switched k k' →
    (∀ y l, queue (_scheduler k) = y :: l → chosen (_scheduler k') = Some (if rank_in k y =? IDLE then c else y)) → Q () k') →
  wp yield Q k.
Proof.
  intros HS HQ. pose proof HS as [[HF HJ] HC]. pose proof (current_chosen _ _ HC) as Hc. unfold yield.
  assert (∃ s', perform (λ _, true) IDLE (rank_in k) (λ t, is_Some (threads k !! t)) Op_choose_another (_scheduler k) = Some s' ∧
    members s' ≡ₚ members (_scheduler k) ∧
    chosen s' = Some (match queue (_scheduler k) with y :: _ => if rank_in k y =? IDLE then c else y | [] => c end)) as (s' & Hp & Hm & Hx).
  { destruct (_scheduler k) as [c' [|y l]]; cbn in Hc; subst c'; cbn [perform chosen queue head tail]; [by eexists|].
    destruct (rank_in k y =? IDLE); cbn; [by eexists|]. eexists. split; [done|]. split; [|done].
    unfold members. cbn. rewrite place_perm. apply Permutation_swap. }
  eapply (turn_spec Op_choose_another); [done..|]. intros k' HV Hsw Hk'. apply HQ; [done..|].
  intros y l E. by rewrite Hk', E.
Qed.

Lemma pass_spec t c k (Q : unit → kernel → Prop) :
  Sound idle c k → whereabouts k t = Some In_scheduler →
  (∀ k', Valid idle k' → Switched k k' → chosen (_scheduler k') = Some t → Q () k') →
  wp (pass t) Q k.
Proof.
  intros HS Hw HQ. pose proof HS as [[HF HJ] HC]. pose proof (current_chosen _ _ HC) as Hc.
  assert (t ∈ members (_scheduler k)) as Ht by by apply (filed_ready _ _ HF).
  pose proof (filed_ready_bound _ _ HF) as Hb. pose proof (filed_ready_nodup _ _ HF) as Hn.
  assert (∃ s', perform (λ _, true) IDLE (rank_in k) (λ t, is_Some (threads k !! t)) (Op_choose_element t) (_scheduler k) = Some s' ∧
    members s' ≡ₚ members (_scheduler k) ∧ chosen s' = Some t) as (s' & Hp & Hm & Hx).
  { destruct (_scheduler k) as [c' l]; cbn in Hc; subst c'. unfold members in *. cbn [perform chosen queue length] in *.
    case_decide as Ec; [simplify_eq; by eexists|]. apply elem_of_cons in Ht as [->|Ht]; [done|].
    rewrite decide_True by (split; [done|lia]). eexists. split; [done|]. split; [|done]. cbn [chosen queue].
    rewrite <- (without_members t (place (rank_in k) c l)).
    - by rewrite place_perm.
    - by rewrite place_perm.
    - rewrite place_perm. by right. }
  eapply (turn_spec (Op_choose_element t)); [done..|]. intros k' HV Hsw Hk'. by apply HQ.
Qed.

(** ** Priorities *)

Definition rerank (r : Z) (c : card) : card := Card (card_place c) r (card_joining c) (card_stack c).

Lemma cards_rerank r t k : cards (with_threads (alter (set_thread_rank r) t) k) = alter (rerank r) t (cards k).
Proof. by apply cards_alter. Qed.

Lemma rank_rerank r t k x : x ≠ t → rank_in (with_threads (alter (set_thread_rank r) t) k) x = rank_in k x.
Proof. intros Hx. apply rank_cards_ext. by rewrite cards_rerank, lookup_alter_ne. Qed.

(** The rank of a thread in no ordered list. *)
Lemma filed_rerank r t e k :
  Filed e k → t ∉ queue (_scheduler k) → (∀ q : loc, t ∉ queue_of k (true, q)) →
  Filed e (with_threads (alter (set_thread_rank r) t) k).
Proof.
  intros H Hq Hw. set (k' := with_threads _ k).
  assert (∀ x, whereabouts k' x = whereabouts k x) as Ew.
  { intros x. unfold whereabouts, place_of, k'. rewrite cards_rerank. destruct (decide (x = t)) as [->|]; [|by rewrite lookup_alter_ne].
    rewrite lookup_alter_eq. by destruct (cards k !! t). }
  constructor; intros; rewrite ?Ew; try (by apply H).
  - apply (filed_known _ _ H); [done|]. unfold k' in *. rewrite cards_rerank, lookup_alter_is_Some in *. done.
  - eapply sorted_ranks; [|apply H]. intros x Hx. apply rank_rerank. by intros ->.
  - eapply sorted_ranks; [|apply (filed_waiting_sorted _ _ H)]. intros x Hx. apply rank_rerank. intros ->. by apply (Hw q).
  - unfold k'. rewrite cards_rerank, <- size_dom, dom_alter_L, size_dom. apply H.
Qed.

Lemma ledger_rerank r t m n : Ledger idle m n → t ≠ idle → Ledger idle (alter (rerank r) t m) n.
Proof.
  intros H Ht. assert (∀ x, place_of (alter (rerank r) t m) x = place_of m x) as Ep.
  { intros x. unfold place_of. destruct (decide (x = t)) as [->|]; [|by rewrite lookup_alter_ne].
    rewrite lookup_alter_eq. by destruct (m !! t). }
  assert (∀ x (c : card), alter (rerank r) t m !! x = Some c → ∃ c' : card, m !! x = Some c' ∧ card_joining c = card_joining c' ∧ card_place c = card_place c') as Hx.
  { intros x c. rewrite lookup_alter_Some. intros [(<- & c' & E & ->)|[_ E]]; by eexists. }
  constructor.
  - rewrite (ledger_count _ _ _ H). destruct (m !! t) as [c|] eqn:E; [|by rewrite alter_id by (intros; congruence)].
    rewrite (alter_is_insert _ t c) by done. rewrite (alive_update t c) by done. unfold lives. cbn. lia.
  - intros x cx j (c' & E & -> & ->)%Hx Hj. rewrite Ep. by apply (ledger_joiner _ _ _ H x c').
  - intros x x' cx cx' j (c1 & E1 & -> & _)%Hx (c2 & E2 & -> & _)%Hx. by apply (ledger_join _ _ _ H).
  - destruct (ledger_idle _ _ _ H) as (ci & Ei & ?). exists ci. by rewrite lookup_alter_ne.
Qed.

Lemma current_rerank r t c k : Current c k → Current c (with_threads (alter (set_thread_rank r) t) k).
Proof.
  intros [? ? Hrun]. constructor; [done..|]. intros x h. cbn. rewrite lookup_alter_Some.
  intros [(<- & h' & E & ->)|[_ E]]; [|by apply Hrun]. by apply (Hrun _ h').
Qed.

Lemma queue_sched_in k c t : Sound idle c k → t ∈ queue (_scheduler k) ↔ whereabouts k t = Some In_scheduler ∧ t ≠ c.
Proof.
  intros [[HF _] HC]. pose proof (filed_ready_nodup _ _ HF) as Hn. pose proof (filed_ready _ _ HF t) as Ht.
  unfold members in *. rewrite (current_chosen _ _ HC) in *. apply NoDup_cons in Hn as [Hc _]. rewrite elem_of_cons in Ht.
  split; [|naive_solver]. intros H. split; [by apply Ht; right|]. by intros ->.
Qed.

Lemma priority_spec t r c k (Q : unit → kernel → Prop) :
  Sound idle c k → whereabouts k t = Some In_scheduler → t ≠ idle →
  (∀ k', Valid idle k' → cards k' = alter (rerank r) t (cards k) → queues k' = queues k →
    chosen (_scheduler k') = Some c → Q () k') →
  wp (priority t r) Q k.
Proof.
  intros HS Hw Ht HQ. unfold priority. apply wp_seq, wp_change. pose proof (sound_int false k c HS) as HS0.
  set (k0 := with_int false k) in *. change (whereabouts k0 t = Some In_scheduler) in Hw.
  pose proof HS0 as [[HF HJ] HC]. pose proof (whereabouts_known _ _ _ Hw) as (h & E & Hwh).
  apply wp_seq, (wp_at _ _ h); [done|].
  assert (_state h = RUNNING ↔ t = c) as Hrun by by apply (current_running _ _ HC).
  assert (∀ q : loc, t ∉ queue_of k0 (true, q)) as Hnw by (intros q [_ Hq]%(filed_waiting _ _ HF); congruence).
  case_decide as Hs.
  - assert (t ∈ members (_scheduler k0)) as Hm by by apply (filed_ready _ _ HF).
    destruct (schedule_remove t k0 HF Hm) as (s' & Hs' & HF1 & _ & Hch & _).
    rewrite decide_False in Hch by (rewrite (current_chosen _ _ HC); naive_solver).
    apply wp_seq, wp_seq. eapply wp_of; [exact Hs'|]. apply wp_seq, wp_update; [by eexists|].
    apply (filed_update (set_thread_rank r) t) in HF1; [|by eexists].
    destruct (schedule_insert t c _ HF1) as [Hs2 HF2].
    { rewrite (whereabouts_lookup _ _ (set_thread_rank r h)); [done|]. by apply threads_at. }
    { cbn. rewrite Hch. apply HC. }
    eapply wp_of; [exact Hs2|]. apply wp_change. apply HQ; [|by rewrite <- cards_rerank|done|done].
    eapply valid_int. split; [split; [exact HF2|]|].
    + change (cards (with_scheduler _ (with_threads ?f _))) with (cards (with_threads f k0)). rewrite cards_rerank. by apply ledger_rerank.
    + destruct (current_rerank r t c k0 HC) as [? ? Hr]. by constructor.
  - apply wp_seq, wp_update; [by eexists|]. apply wp_change.
    assert (t = c) as -> by (apply Hrun; by destruct (_state h)).
    apply HQ; [|by rewrite <- cards_rerank|done|apply HC].
    eapply valid_int. split; [split|by apply current_rerank].
    + apply filed_rerank; [done| |done]. intros Hq. by apply (queue_sched_in k0 c c) in Hq as [_ ?].
    + rewrite cards_rerank. by apply ledger_rerank.
Qed.

Lemma setPriority_spec t p c k (Q : unit → kernel → Prop) :
  Sound idle c k → is_Some (threads k !! t) → t ≠ idle → t = c ∨ off (whereabouts k t) = true →
  (∀ k', Valid idle k' → cards k' = alter (rerank p) t (cards k) → queues k' = queues k → _scheduler k' = _scheduler k → Q () k') →
  wp (setPriority t p) Q k.
Proof.
  intros HS Hk Ht Hw HQ. unfold setPriority. apply wp_seq, wp_change. pose proof (sound_int false k c HS) as HS0.
  pose proof HS0 as [[HF HJ] HC]. apply wp_seq, wp_update; [done|]. apply wp_change.
  apply HQ; [|by rewrite <- cards_rerank|done|done]. eapply valid_int. split; [split|by apply current_rerank].
  - apply filed_rerank; [done| |].
    + intros [Hq ?]%(queue_sched_in _ _ _ HS0). destruct Hw as [->|Hw]; [done|].
      change (whereabouts k t = Some In_scheduler) in Hq. by rewrite Hq in Hw.
    + intros q [_ Hq]%(filed_waiting _ _ HF). change (whereabouts k t = Some (In_queue (true, q))) in Hq.
      destruct Hw as [->|Hw]; [|by rewrite Hq in Hw]. pose proof (sound_card idle c k HS) as (j & r & st & E & _).
      by rewrite (whereabouts_lookup _ _ _ E) in Hq.
  - rewrite cards_rerank. by apply ledger_rerank.
Qed.

(** ** Threads come and go *)

Lemma insert_remove t c k :
  chosen (_scheduler k) = Some c → t ∉ members (_scheduler k) → is_Some (threads k !! t) →
  Z.of_nat (length (members (_scheduler k))) < 2 ^ 31 →
  ∃ s', schedule (Op_insert t) k = Some ((), with_scheduler s' k) ∧
    schedule (Op_remove t) (with_scheduler s' k) = Some ((), k).
Proof.
  intros Hc Ht Hk Hb. destruct (_scheduler k) as [c' l] eqn:Es. cbn in Hc. subst c'. unfold members in *. cbn [chosen queue length] in *.
  apply not_elem_of_cons in Ht as [Htc Ht]. exists (Ready (Some c) (place (rank_in k) t l)). split.
  - unfold schedule. rewrite Es. cbn [perform members chosen queue]. rewrite decide_True; [done|].
    split_and!; [by apply not_elem_of_cons|done|lia].
  - unfold schedule. cbn [perform with_scheduler _scheduler chosen queue]. rewrite decide_False by congruence.
    rewrite decide_True by (rewrite place_perm; by left). cbn. do 2 f_equal.
    destruct (place_split (rank_in k) t l) as (l1 & l2 & -> & -> & _).
    assert (without t (l1 ++ t :: l2) = l1 ++ l2) as ->; [|destruct k; cbn in *; by subst].
    unfold without. rewrite filter_app, filter_cons_False by naive_solver. rewrite <- filter_app. by apply without_absent.
Qed.

Lemma filed_new t h k :
  Filed None k → threads k !! t = None → Z.of_nat (size (cards k)) + 1 < 2 ^ 31 →
  Filed (Some t) (with_threads (<[t := h]>) k).
Proof.
  intros H E Hs. assert (cards (with_threads (<[t := h]>) k) = <[t := card_of h]> (cards k)) as Ec by (unfold cards; cbn; by rewrite fmap_insert).
  assert (cards k !! t = None) as Ek by (unfold cards; by rewrite lookup_fmap, E).
  assert (∀ x, x ≠ t → whereabouts (with_threads (<[t := h]>) k) x = whereabouts k x) as Ew.
  { intros x Hx. unfold whereabouts, place_of. by rewrite Ec, lookup_insert_ne. }
  assert (∀ x, is_Some (whereabouts k x) → x ≠ t) as Hne.
  { intros x Hx ->. unfold whereabouts, place_of in Hx. rewrite Ek in Hx. by destruct Hx. }
  assert (∀ x, x ≠ t → rank_in (with_threads (<[t := h]>) k) x = rank_in k x) as Er.
  { intros x Hx. apply rank_cards_ext. by rewrite Ec, lookup_insert_ne. }
  assert (∀ x p, None ≠ Some x ∧ whereabouts k x = Some p ↔ Some t ≠ Some x ∧ whereabouts (with_threads (<[t := h]>) k) x = Some p) as Hiff.
  { intros x p. destruct (decide (x = t)) as [->|Hx]; [|rewrite Ew by done; naive_solver].
    split; [|naive_solver]. intros [_ Hp]. by destruct (Hne t). }
  constructor; try (by apply H).
  - intros x. rewrite <- Hiff. apply (filed_ready _ _ H).
  - intros q x. rewrite <- Hiff. apply (filed_waiting _ _ H).
  - intros x Hx. rewrite Ew, Ec, lookup_insert_ne by congruence. by apply (filed_known _ _ H).
  - eapply sorted_ranks; [|apply H]. intros x Hx. apply Er, Hne. apply scheduler_members_queue, (filed_ready _ _ H) in Hx as [_ ->]. by eexists.
  - intros q. eapply sorted_ranks; [|apply (filed_waiting_sorted _ _ H)]. intros x Hx. apply Er, Hne.
    apply (filed_waiting _ _ H) in Hx as [_ ->]. by eexists.
  - rewrite Ec, map_size_insert_None by done. lia.
Qed.

Lemma filed_delete t k : Filed (Some t) k → Filed None (with_threads (delete t) k).
Proof.
  intros H. assert (cards (with_threads (delete t) k) = delete t (cards k)) as Ec by (unfold cards; cbn; by rewrite fmap_delete).
  assert (∀ x, x ≠ t → cards (with_threads (delete t) k) !! x = cards k !! x) as Ex by (intros; by rewrite Ec, lookup_delete_ne).
  assert (∀ x p, Some t ≠ Some x ∧ whereabouts k x = Some p ↔ None ≠ Some x ∧ whereabouts (with_threads (delete t) k) x = Some p) as Hiff.
  { intros x p. unfold whereabouts, place_of. destruct (decide (x = t)) as [->|Hx]; [rewrite Ec, lookup_delete_eq|rewrite Ex by done]; naive_solver. }
  constructor; try (by apply H).
  - intros x. rewrite <- Hiff. apply (filed_ready _ _ H).
  - intros q x. rewrite <- Hiff. apply (filed_waiting _ _ H).
  - intros x _. unfold whereabouts, place_of. destruct (decide (x = t)) as [->|Hx]; [rewrite Ec, lookup_delete_eq; by intros []|].
    rewrite Ex by done. apply (filed_known _ _ H). congruence.
  - eapply sorted_ranks; [|apply H]. intros x Hx. apply rank_cards_ext, Ex. intros ->.
    apply scheduler_members_queue, (filed_ready _ _ H) in Hx as [? _]. done.
  - intros q. eapply sorted_ranks; [|apply (filed_waiting_sorted _ _ H)]. intros x Hx. apply rank_cards_ext, Ex. intros ->.
    apply (filed_waiting _ _ H) in Hx as [? _]. done.
  - rewrite Ec. pose proof (filed_size _ _ H). enough (size (delete t (cards k)) ≤ size (cards k))%nat by lia.
    rewrite <- !size_dom. apply subseteq_size. rewrite dom_delete_L. set_solver.
Qed.

Lemma ledger_new t cd m n :
  Ledger idle m n → m !! t = None → card_joining cd = None → card_place cd ≠ Some Ended → Ledger idle (<[t := cd]> m) (n + 1).
Proof.
  intros H E Hj Hp. constructor.
  - rewrite (alive_insert t) by done. rewrite (ledger_count _ _ _ H). unfold lives. by rewrite decide_False.
  - intros x cx j. rewrite lookup_insert_Some. intros [[<- <-]|[Hne Ex]] Hx; [congruence|].
    destruct (ledger_joiner _ _ _ H x cx j Ex Hx) as [? Hjp]. split; [done|]. unfold place_of in *.
    rewrite lookup_insert_ne; [done|]. intros ->. by rewrite E in Hjp.
  - intros x x' cx cx' j. rewrite !lookup_insert_Some. intros [[<- <-]|[_ Ex]] [[<- <-]|[_ Ex']] Hx Hx'; try congruence.
    by apply (ledger_join _ _ _ H x x' cx cx' j).
  - destruct (ledger_idle _ _ _ H) as (ci & Ei & ?). exists ci. rewrite lookup_insert_ne; [done|]. intros ->. congruence.
Qed.

Section preemptive.
Context (preemptive : bool).

Lemma constructor_spec t conf r c k (Q : unit → kernel → Prop) :
  Sound idle c k → threads k !! t = None → Z.of_nat (size (cards k)) + 1 < 2 ^ 31 → conf = READY ∨ conf = SUSPENDED →
  (∀ k', Valid idle k' →
    cards k' = <[t := Card (Some (if decide (conf = READY) then In_scheduler else Aside)) r None None]> (cards k) →
    queues k' = queues k →
    (preemptive = true → r ≠ IDLE → conf = READY ∨ Foremost k → Foremost k') → Q () k') →
  wp (constructor preemptive t conf r) Q k.
Proof.
  intros HS E Hs Hconf HQ. pose proof HS as [[HF HJ] HC]. unfold constructor, constructor_prologue.
  set (h := Thread None conf None None None r).
  apply wp_seq, wp_seq, wp_change, wp_seq, wp_change, wp_seq, wp_change.
  pose proof (filed_new t h k HF E Hs) as HF1. set (k1 := with_count _ _).
  assert (cards k1 = <[t := Card (where_is h) r None None]> (cards k)) as Ec by (unfold cards; cbn; by rewrite fmap_insert).
  assert (Filed (Some t) k1) as HF1' by by apply (filed_ext (Some t) (with_threads (<[t := h]>) k)).
  assert (cards k !! t = None) as Ek by (unfold cards; by rewrite lookup_fmap, E).
  assert (threads k1 !! t = Some h) as E1 by (cbn; by rewrite lookup_insert_eq).
  assert (whereabouts k1 t = where_is h) as Hw1 by by apply whereabouts_lookup.
  assert (_thread_count k1 = _thread_count k + 1) as En.
  { cbn. destruct (ledger_idle _ _ _ HJ) as (ci & Ei & Hp & _).
    pose proof (alive_bound idle k idle ci (conj HF HJ) Ei) as Hb. rewrite Z.mod_small; [done|]. rewrite Hp in Hb. specialize (Hb ltac:(done)). lia. }
  assert (Ledger idle (cards k1) (_thread_count k1)) as HJ1.
  { rewrite En, Ec. apply ledger_new; [done..|]. by destruct Hconf as [-> | ->]. }
  assert (Current c k1) as HC1.
  { destruct HC as [? ? Hrun]. constructor; [done..|]. intros x hx. cbn. rewrite lookup_insert_Some.
    intros [[<- <-]|[_ Ex]]; [|by apply Hrun]. assert (t ≠ c) as Htc.
    { intros ->. pose proof (sound_card idle c k HS) as (? & ? & ? & ? & _). congruence. }
    by destruct Hconf as [-> | ->]. }
  destruct Hconf as [-> | ->].
  - destruct (schedule_insert t c k1 HF1') as [Hs1 HF2]; [done|apply HC1|]. eapply wp_of; [exact Hs1|]. set (k2 := with_scheduler _ k1) in *.
    assert (Sound idle c k2) as HS2 by (split; [by split|by destruct HC1; constructor]).
    unfold constructor_epilogue. apply wp_seq, (wp_at _ _ h); [done|]. apply wp_seq. rewrite decide_False by naive_solver.
    apply wp_ret, wp_seq, (wp_at _ _ h); [done|]. rewrite bool_decide_true, andb_true_r by done.
    destruct (preemptive && negb (_rank h =? IDLE)) eqn:Ep.
    + apply wp_seq, (wp_at _ _ h); [done|]. apply (reschedule_spec idle c); [done..|].
      intros k' HV [Ec' Eq' _] HFo. apply HQ; [done|by rewrite Ec'|done|done].
    + apply wp_change. apply HQ; [by eapply valid_int|done|done|]. intros -> Hr _. apply andb_false_iff in Ep as [?|Ep]; [done|].
      apply negb_false_iff, Z.eqb_eq in Ep. done.
  - assert (off (whereabouts k1 t) = true) as Hoff by by rewrite Hw1.
    destruct (insert_remove t c k1) as (s' & Hs1 & Hs2).
    { apply HC1. } { intros [? _]%(filed_ready _ _ HF1'). done. } { by eexists. } { by apply (filed_ready_bound (Some t)). }
    eapply wp_of; [exact Hs1|]. unfold constructor_epilogue. apply wp_seq, (wp_at _ _ h); [done|]. apply wp_seq.
    rewrite decide_True by done. eapply wp_of; [exact Hs2|]. apply wp_seq, (wp_at _ _ h); [done|].
    rewrite bool_decide_false, andb_false_r by done. apply wp_change.
    apply HQ; [|done|done|].
    + eapply (valid_int k1 c). split; [split; [by apply (filed_settle t)|done]|done].
    + intros _ Hr [?|HFo]; [done|]. intros y x Hy Hx. cbn in Hy, Hx.
      assert (∀ z, z ∈ members (_scheduler k) → rank_in (with_int true k1) z = rank_in k z) as Er.
      { intros z [_ Hz]%(filed_ready _ _ HF). apply rank_cards_ext. change (cards (with_int true k1)) with (cards k1). rewrite Ec, lookup_insert_ne; [done|].
        intros <-. unfold whereabouts, place_of in Hz. by rewrite Ek in Hz. }
      rewrite !Er; [by apply HFo|done|]. unfold members. rewrite Hy. by left.
Qed.

(** What [leave_lists] leaves: the thread in no list. *)
Record Left (t : loc) (cd : card) k k' : Prop := {
  left_filed : Filed (Some t) k';
  left_threads : threads k' = threads k;
  left_count : _thread_count k' = _thread_count k - lives cd;
  left_chosen : chosen (_scheduler k') = chosen (_scheduler k);
  left_members x : x ∈ members (_scheduler k') → x ∈ members (_scheduler k);
  left_queues q : queue_of k' q = without t (queue_of k q);
  left_cpu : cpu k' = cpu k
}.

Lemma queue_without t p q k : Filed None k → whereabouts k t = Some p → p ≠ In_queue q → without t (queue_of k q) = queue_of k q.
Proof. intros H Hw Hp. apply without_absent. intros [_ Hq]%(filed_waiting _ _ H). congruence. Qed.

(** A thread that is in no list of the scheduler goes through it. *)
Lemma gone_spec t c p h k k1 (Q : unit → kernel → Prop) :
  Current c k → threads k !! t = Some h → where_is h = Some p → p ≠ Ended → 1 ≤ _thread_count k < 2 ^ 32 → t ∉ members (_scheduler k) →
  Filed (Some t) k1 → threads k1 = threads k → _scheduler k1 = _scheduler k → _thread_count k1 = _thread_count k → cpu k1 = cpu k →
  (∀ q, queue_of k1 q = without t (queue_of k q)) → (∀ k', Left t (card_of h) k k' → Q () k') →
  wp (_ ← schedule (Op_insert t); _ ← schedule (Op_remove t); count (-1)) Q k1.
Proof.
  intros HC E Hp Hpe Hb Htm HF1 Et Es En Ecpu Eq HQ. pose proof (filed_ready_bound _ _ HF1) as Hb1.
  destruct (insert_remove t c k1) as (s' & Hs1 & Hs2); [rewrite Es; apply HC|by rewrite Es|rewrite Et; by eexists|done|].
  apply wp_seq. eapply wp_of; [exact Hs1|]. apply wp_seq. eapply wp_of; [exact Hs2|]. apply wp_change. apply HQ.
  constructor; [by apply (filed_ext (Some t) k1)|done| |cbn; by rewrite Es|cbn; by rewrite Es|done|done].
  cbn. unfold lives. cbn. rewrite Hp, decide_False, En by congruence. rewrite Z.mod_small; lia.
Qed.

Lemma leave_lists_spec t c cd k (Q : unit → kernel → Prop) :
  Sound idle c k → cards k !! t = Some cd → t ≠ c → t ≠ idle →
  (∀ k', Left t cd k k' → Q () k') → wp (leave_lists t) Q k.
Proof.
  intros [[HF HJ] HC] Ecd Htc Hti HQ. pose proof (alive_bound idle k t cd (conj HF HJ) Ecd) as Hb.
  assert (∃ h, threads k !! t = Some h ∧ card_of h = cd) as (h & E & <-).
  { unfold cards in Ecd. rewrite lookup_fmap in Ecd. destruct (threads k !! t) as [h|]; [|done]. injection Ecd as <-. by exists h. }
  pose proof (whereabouts_lookup k t h E) as Hw. assert (is_Some (where_is h)) as [p Hp].
  { rewrite <- Hw. apply (filed_known _ _ HF); [done|]. by rewrite Ecd. }
  rewrite Hp in Hw. cbn [card_of card_place] in Hb. rewrite Hp in Hb.
  assert (∀ k1, p ≠ Ended → Filed (Some t) k1 → threads k1 = threads k → _scheduler k1 = _scheduler k → _thread_count k1 = _thread_count k →
    cpu k1 = cpu k → (∀ q, queue_of k1 q = without t (queue_of k q)) → t ∉ members (_scheduler k) →
    wp (_ ← schedule (Op_insert t); _ ← schedule (Op_remove t); count (-1)) Q k1) as Hgone.
  { intros k1 Hpe **. apply (gone_spec t c p h k); try done. specialize (Hb ltac:(congruence)). lia. }
  unfold leave_lists. apply wp_seq, (wp_at _ _ h); [done|]. destruct h as [st [] w wf j r]; cbn [_state].
  - by destruct (proj1 (current_running _ _ HC _ _ E) eq_refl).
  - assert (p = In_scheduler) as -> by (destruct w, wf; cbn in Hp; congruence).
    assert (t ∈ members (_scheduler k)) as Hm by by apply (filed_ready _ _ HF).
    destruct (schedule_remove t k HF Hm) as (s' & Hs & HF1 & Hm' & Hch & _).
    rewrite decide_False in Hch by (rewrite (current_chosen _ _ HC); congruence).
    apply wp_seq. eapply wp_of; [exact Hs|]. apply wp_change. apply HQ.
    constructor; [by apply (filed_ext (Some t) (with_scheduler s' k))|done| |done| | |done].
    + cbn. unfold lives. cbn [card_place card_of]. rewrite Hp, decide_False by done. specialize (Hb ltac:(congruence)). rewrite Z.mod_small; lia.
    + intros x Hx. rewrite Hm'. by right.
    + intros q. symmetry. by apply (queue_without t In_scheduler q k).
  - assert (p = Aside) as -> by (destruct w, wf; cbn in Hp; congruence).
    apply (Hgone k); try done; [by apply filed_settle; [rewrite Hw|]| |].
    + intros q. symmetry. by apply (queue_without t Aside q k).
    + intros [_ ?]%(filed_ready _ _ HF). congruence.
  - assert (∃ q : waitq, p = In_queue q ∧ (if q.1 then w = Some q.2 ∧ wf = None else w = None ∧ wf = Some q.2)) as (q & -> & Hq)
      by (destruct w as [q|], wf as [q'|]; cbn in Hp; simplify_eq; [by exists (true, q)|by exists (false, q')]).
    assert (t ∉ members (_scheduler k)) as Htm by (intros [_ ?]%(filed_ready _ _ HF); congruence).
    pose proof (queue_unqueue q t k HF Hw) as HF1.
    assert (∀ q', queue_of (with_queue q (without t (queue_of k q)) k) q' = without t (queue_of k q')) as Hqs.
    { intros q'. rewrite queue_of_with. case_decide as Eq; [by rewrite Eq|]. symmetry. apply (queue_without t (In_queue q)); [done..|congruence]. }
    destruct q as [[] q]; cbn in Hq; destruct Hq as [-> ->].
    + apply wp_seq. eapply wp_at; [exact E|]. apply wp_seq, wp_change, wp_seq. eapply wp_at; [exact E|]. apply wp_seq, wp_ret. by apply Hgone.
    + apply wp_seq. eapply wp_at; [exact E|]. apply wp_seq, wp_ret, wp_seq. eapply wp_at; [exact E|]. apply wp_seq, wp_change. by apply Hgone.
  - assert (p = Ended) as -> by (destruct w, wf; cbn in Hp; congruence).
    apply wp_ret, HQ. constructor; try done; [by apply filed_settle; [rewrite Hw|]| |].
    + unfold lives. cbn [card_place card_of]. rewrite Hp, decide_True by done. lia.
    + intros q. symmetry. by apply (queue_without t Ended q k).
Qed.

Lemma destructor_spec t c cd k (Q : unit → kernel → Prop) :
  Sound idle c k → cards k !! t = Some cd → t ≠ c → t ≠ idle → no_joiner t (cards k) →
  (∀ k', Valid idle k' →
    cards k' = (match card_joining cd with Some j => alter (move In_scheduler) j (delete t (cards k)) | None => delete t (cards k) end) →
    (∀ q, queue_of k' q = without t (queue_of k q)) →
    (preemptive = true → card_joining cd ≠ None ∨ Foremost k → Foremost k') → Q () k') →
  wp (destructor preemptive t) Q k.
Proof.
  intros HS Ecd Htc Hti Hno HQ. pose proof (sound_int false k c HS) as HS0. unfold destructor. apply wp_seq, wp_change.
  set (k0 := with_int false k) in *. change (cards k0 !! t = Some cd) in Ecd. pose proof HS0 as [[HF HJ] HC].
  assert (∃ h, threads k0 !! t = Some h ∧ card_of h = cd) as (h & E & Eh).
  { unfold cards in Ecd. rewrite lookup_fmap in Ecd. destruct (threads k0 !! t) as [h|]; [|done]. injection Ecd as <-. by exists h. }
  apply wp_seq, (wp_at _ _ h); [done|].
  apply wp_seq, wp_assert; [rewrite bool_decide_false; [done|]; intros Hr; by apply Htc, (current_running _ _ HC _ _ E)|].
  apply wp_seq, (leave_lists_spec t c cd); [done..|]. intros k1 [HF1 Et En Hch Hm Hqs Hcpu].
  apply wp_seq, (wp_at _ _ h); [by rewrite Et|]. apply wp_seq, wp_change. apply filed_delete in HF1. set (k2 := with_threads _ k1) in *.
  assert (cards k2 = delete t (cards k)) as Ec2 by (unfold cards; cbn; by rewrite fmap_delete, Et).
  assert (Sound idle c k2) as HS2.
  { split; [split; [done|]|].
    - rewrite Ec2. change (_thread_count k2) with (_thread_count k1). rewrite En. by apply ledger_delete.
    - constructor; [cbn; rewrite Hch; apply HC|cbn; rewrite Hcpu; apply HC|]. intros x hx. cbn. rewrite Et, lookup_delete_Some.
      intros [_ Ex]. by apply (current_running _ _ HC). }
  assert (Foremost k → Foremost k2) as HFo2.
  { intros HFo y x Hy Hx.
    assert (∀ z, z ∈ members (_scheduler k2) → rank_in k2 z = rank_in k z) as Er.
    { intros z [_ (hz & Ez & _)%whereabouts_known]%(filed_ready _ _ (proj1 (proj1 HS2))). cbn in Ez. apply lookup_delete_Some in Ez as [Hz _].
      apply rank_cards_ext. by rewrite Ec2, lookup_delete_ne. }
    rewrite !Er; [|done|unfold members; rewrite Hy; by left].
    apply HFo; [by rewrite <- Hy; cbn; rewrite Hch|by apply Hm]. }
  assert (_joining h = card_joining cd) as -> by by rewrite <- Eh.
  destruct (card_joining cd) as [j|] eqn:Ej.
  - destruct (ledger_joiner _ _ _ HJ t cd j Ecd Ej) as [_ Hj]. assert (j ≠ t) as Hjt by (intros ->; by apply (Hno t cd)).
    apply wp_seq, (resume_spec idle preemptive j c); [done| | |].
    + unfold whereabouts, place_of. rewrite Ec2, lookup_delete_ne by done. done.
    + rewrite Ec2. intros x cx. rewrite lookup_delete_Some. intros [Hxt Ex] Hjx. by apply Hxt, (ledger_join _ _ _ HJ t x cd cx j).
    + intros k' [[c' HS'] Hi'] Ec' Eq' HFo'. apply wp_change. apply HQ; [by eapply valid_int|by rewrite <- Ec2, <- Ec'| |].
      * intros q. change (queue_of (with_int true k') q) with (queue_of k' q). unfold queue_of at 1. rewrite Eq'. apply Hqs.
      * intros Hpre _. by apply HFo'.
  - apply wp_seq, wp_ret, wp_change. apply HQ; [by eapply valid_int|done|apply Hqs|]. intros _ [?|HFo]; [done|]. by apply HFo2.
Qed.
End preemptive.
End ops.
