(* ===== verification/ThreadCalls.v ===== *)
(** * The calls of a running system

    [call] is every call of class Thread a program, an interrupt handler or a
    synchronizer can make; [allowed] what must not be asked for; [effect] and
    [effect_queues] what a call does to the cards and to the waiting queues.
    Every allowed call returns, does that, and keeps [Valid]; the properties
    of a running system are about what is reached by allowed calls. *)

From stdpp Require Import base numbers list option gmap sorting.
From S2P Require Import Prelude StateM DList OrderedList Sched Thread ThreadInv ThreadOps ThreadApi.
#[local] Set Warnings "-clear-no-such-hyp".

Inductive call :=
| Create (t : loc) (conf : State) (criterion : Z) | Delete (t : loc)
| Priority (t : loc) (c : Z) | SetPriority (t : loc) (p : Z)
| Join (t : loc) | Pass (t : loc) | Suspend (t : loc) | Resume (t : loc)
| Yield | Exit (status : Z)
| Sleep (q : waitq) | Wakeup (q : waitq) | Wakeup_all (q : waitq)
| Time_slice.

Definition run_call (preemptive : bool) (c : call) : T unit :=
  match c with
  | Create t s r => constructor preemptive t s r
  | Delete t => destructor preemptive t
  | Priority t r => priority t r
  | SetPriority t p => setPriority t p
  | Join t => join t
  | Pass t => pass t
  | Suspend t => suspend t false
  | Resume t => resume preemptive t
  | Yield => yield
  | Exit v => exit v
  | Sleep q => _ ← lock; sleep q
  | Wakeup q => _ ← lock; wakeup preemptive q
  | Wakeup_all q => _ ← lock; wakeup_all preemptive q
  | Time_slice => time_slicer
  end.

Definition state_of (k : kernel) (t : loc) : option State := _state <$> threads k !! t.
Definition ready_state (s : option State) : Prop := s = Some RUNNING ∨ s = Some READY.
Definition nobody_joins (k : kernel) (t : loc) : Prop := ∀ x h, threads k !! x = Some h → _joining h ≠ Some t.
Definition idle_rests (idle : loc) (k : kernel) : Prop := chosen (_scheduler k) ≠ Some idle.

(** What the code relies on: a new thread is new, and there are fewer than
    2^31; the threads named exist; the idle thread is not made to wait, nor
    deleted nor given a rank; the running thread does not delete or join
    itself; a thread that joins another is neither deleted nor resumed; and
    what only makes sense for a thread in the scheduler is asked of one. *)
Definition allowed (idle : loc) (c : call) (k : kernel) : Prop :=
  match c with
  | Create t s r => threads k !! t = None ∧ Z.of_nat (size (threads k)) + 1 < 2 ^ 31 ∧ (s = READY ∨ s = SUSPENDED)
  | Delete t => is_Some (threads k !! t) ∧ chosen (_scheduler k) ≠ Some t ∧ t ≠ idle ∧ nobody_joins k t
  | Priority t r => ready_state (state_of k t) ∧ t ≠ idle
  | SetPriority t p => (state_of k t = Some RUNNING ∨ state_of k t = Some SUSPENDED ∨ state_of k t = Some FINISHING) ∧ t ≠ idle
  | Join t => chosen (_scheduler k) ≠ Some t ∧ (_joining <$> threads k !! t) = Some None ∧ idle_rests idle k
  | Pass t => ready_state (state_of k t)
  | Suspend t => ready_state (state_of k t) ∧ t ≠ idle
  | Resume t => is_Some (threads k !! t) ∧ nobody_joins k t
  | Exit _ | Sleep _ => idle_rests idle k
  | Yield | Wakeup _ | Wakeup_all _ | Time_slice => True
  end.

(** What a call of the running thread [c] does. *)
Definition effect (op : call) (c : loc) (k : kernel) : gmap loc card :=
  let m := cards k in
  match op with
  | Create t s r => <[t := Card (Some (if decide (s = READY) then In_scheduler else Aside)) r None None]> m
  | Delete t =>
      match m !! t ≫= card_joining with Some j => alter (move In_scheduler) j (delete t m) | None => delete t m end
  | Priority t r | SetPriority t r => alter (rerank r) t m
  | Join t => if decide (whereabouts k t = Some Ended) then m else alter (move Aside) c (alter (join_card c) t m)
  | Suspend t => alter (move Aside) t m
  | Resume t => if decide (whereabouts k t = Some Aside) then alter (move In_scheduler) t m else m
  | Exit v =>
      <[c := Card (Some Ended) (rank_in k c) None (Some v)]>
        (match m !! c ≫= card_joining with Some j => alter (move In_scheduler) j m | None => m end)
  | Sleep q => alter (move (In_queue q)) c m
  | Wakeup q => match queue_of k q with t :: _ => alter (move In_scheduler) t m | [] => m end
  | Wakeup_all q => moved_all (queue_of k q) m
  | Pass _ | Yield | Time_slice => m
  end.

Definition effect_queues (op : call) (c : loc) (k : kernel) (q' : waitq) : list loc :=
  match op with
  | Delete t => without t (queue_of k q')
  | Sleep q => if decide (q' = q) then queued q c k (queue_of k q) else queue_of k q'
  | Wakeup q => if decide (q' = q) then tail (queue_of k q) else queue_of k q'
  | Wakeup_all q => if decide (q' = q) then [] else queue_of k q'
  | _ => queue_of k q'
  end.

(** Calls that do not choose a thread by other means than the ranks, nor
    change a rank. *)
Definition by_rank (op : call) : Prop :=
  match op with
  | Yield | Pass _ | Priority _ _ | SetPriority _ _ => False
  | Create _ _ r => r ≠ IDLE
  | _ => True
  end.

Section calls.
Context (preemptive : bool) (idle : loc).
Implicit Types (k : kernel) (t c : loc) (q : waitq).

Lemma card_of_thread k t : is_Some (threads k !! t) → ∃ h, threads k !! t = Some h ∧ cards k !! t = Some (card_of h).
Proof. intros [h E]. exists h. split; [done|]. by apply cards_lookup. Qed.

Lemma state_place k t s :
  Filed None k → state_of k t = Some s →
  match s with
  | RUNNING | READY => whereabouts k t = Some In_scheduler
  | SUSPENDED => whereabouts k t = Some Aside
  | WAITING => ∃ q, whereabouts k t = Some (In_queue q)
  | FINISHING => whereabouts k t = Some Ended
  end.
Proof.
  intros HF E. unfold state_of in E. destruct (threads k !! t) as [h|] eqn:Et; [|done]. injection E as <-.
  rewrite (whereabouts_lookup _ _ _ Et).
  assert (is_Some (where_is h)) as [p Hp].
  { rewrite <- (whereabouts_lookup _ _ _ Et). apply (filed_known _ _ HF); [done|]. eexists. by apply cards_lookup. }
  unfold where_is in *. destruct (_state h), (_waiting h), (_waiting_fifo h); simplify_eq; eauto.
Qed.

Lemma ready_place k t : Filed None k → ready_state (state_of k t) → whereabouts k t = Some In_scheduler.
Proof. intros HF [E|E]; by apply (state_place k t _ HF E). Qed.

Lemma nobody_no_joiner k t : nobody_joins k t → no_joiner t (cards k).
Proof.
  intros H x cx Ex. unfold cards in Ex. rewrite lookup_fmap in Ex. destruct (threads k !! x) as [h|] eqn:Eh; [|done].
  injection Ex as <-. by apply (H x).
Qed.

Definition call_post (op : call) (c : loc) k k' : Prop :=
  Valid idle k' ∧ cards k' = effect op c k ∧ (∀ q, queue_of k' q = effect_queues op c k q) ∧
  (preemptive = true → by_rank op → Foremost k → Foremost k').

Lemma same_post c k k' op :
  Sound idle c k → Valid idle k' → Switched k k' → (preemptive = true → by_rank op → Foremost k → Foremost k') →
  effect op c k = cards k → (∀ q, effect_queues op c k q = queue_of k q) → call_post op c k k'.
Proof.
  intros HS HV [Ec Eq _] HFo He Heq. split; [done|]. split; [by rewrite Ec, He|]. split; [|done].
  intros q. rewrite Heq. unfold queue_of. by rewrite Eq.
Qed.

Lemma stay_post c k op :
  Sound idle c k → effect op c k = cards k → (∀ q, effect_queues op c k q = queue_of k q) → call_post op c k (with_int true k).
Proof.
  intros HS He Heq. apply same_post; [done|by eapply valid_int|by constructor|by intros _ _|done|done].
Qed.

Lemma kept_post c k k' op :
  Valid idle k' → cards k' = effect op c k → queues k' = queues k → (∀ q, effect_queues op c k q = queue_of k q) →
  (preemptive = true → by_rank op → Foremost k → Foremost k') → call_post op c k k'.
Proof. intros HV Ec Eq He HFo. split; [done|]. split; [done|]. split; [|done]. intros q. rewrite He. unfold queue_of. by rewrite Eq. Qed.

Lemma call_priority t p c k :
  Sound idle c k → allowed idle (SetPriority t p) k → wp (run_call preemptive (SetPriority t p)) (λ _ k', call_post (SetPriority t p) c k k') k.
Proof.
  intros HS [Hr Hti]. pose proof HS as [[HF _] HC]. cbn [run_call]. apply (setPriority_spec idle t p c); [done| |done| |].
  - destruct Hr as [Hr|[Hr|Hr]]; unfold state_of in Hr; by destruct (threads k !! t).
  - destruct Hr as [Hr|[Hr|Hr]]; [left|right; by rewrite (state_place k t _ HF Hr)..].
    unfold state_of in Hr. destruct (threads k !! t) as [h|] eqn:Eh; [|done]. injection Hr as Hr. by apply (current_running _ _ HC _ _ Eh).
  - intros k' HV Ec Eq _. by apply kept_post.
Qed.

Lemma call_join t c k : Sound idle c k → allowed idle (Join t) k → wp (run_call preemptive (Join t)) (λ _ k', call_post (Join t) c k k') k.
Proof.
  intros HS Ha. pose proof (current_chosen _ _ (proj2 HS)) as Hch. cbn [run_call allowed] in *.
  destruct Ha as (Htc & Hj & Hidle). unfold idle_rests in Hidle.
  destruct (card_of_thread k t) as (h & Eh & Ecd); [by destruct (threads k !! t)|]. rewrite Eh in Hj. injection Hj as Hj.
  apply (join_spec idle t c (card_of h)); [done|done|done|congruence|congruence| |].
  - intros He. apply stay_post; [done| |done]. cbn. unfold whereabouts, place_of. by rewrite Ecd; cbn; rewrite decide_True.
  - intros k' Hne HV Ec Eq HFo. apply kept_post; [done| |done..]. cbn. rewrite decide_False; [done|]. unfold whereabouts, place_of. by rewrite Ecd.
Qed.

Lemma call_resume t c k : Sound idle c k → allowed idle (Resume t) k → wp (run_call preemptive (Resume t)) (λ _ k', call_post (Resume t) c k k') k.
Proof.
  intros HS [Hk Hnj]. pose proof HS as [[HF _] _]. cbn [run_call].
  destruct (card_of_thread k t Hk) as (h & Eh & Ecd). destruct (decide (_state h = SUSPENDED)) as [Hs|Hs].
  - assert (whereabouts k t = Some Aside) as Hw by (apply (state_place k t SUSPENDED HF); unfold state_of; by rewrite Eh; cbn; rewrite Hs).
    apply (resume_spec idle preemptive t c); [done|done|by apply nobody_no_joiner|]. intros k' HV Ec Eq HFo.
    apply kept_post; [done| |done..|by intros ? _ _; apply HFo]. cbn. by rewrite decide_True.
  - apply (resume_other_spec idle preemptive t c k h); [done..|]. apply stay_post; [done| |done]. cbn. rewrite decide_False; [done|].
    rewrite (whereabouts_lookup _ _ _ Eh). intros Hw. apply Hs. unfold where_is in Hw. by destruct (_state h), (_waiting h), (_waiting_fifo h).
Qed.

Lemma call_wakeup q c k : Sound idle c k → wp (run_call preemptive (Wakeup q)) (λ _ k', call_post (Wakeup q) c k k') k.
Proof.
  intros HS. cbn [run_call]. apply wp_seq, wp_change. apply (wakeup_spec idle preemptive q c); [by apply sound_int|done| |].
  - intros Eq. change (queue_of k q = []) in Eq. change (call_post (Wakeup q) c k (with_int true k)). apply stay_post; [done|cbn; by rewrite Eq|].
    intros q'. cbn. case_decide as Eq'; [by rewrite Eq', Eq|done].
  - intros t l k' Eq HV Ec Eq' HFo. change (queue_of k q = t :: l) in Eq. split; [done|]. split; [cbn; by rewrite Eq|].
    split; [intros q'; rewrite Eq'; cbn; by rewrite Eq|]. intros Hp _ _. by apply HFo.
Qed.

Lemma call_spec op c k :
  Sound idle c k → allowed idle op k → wp (run_call preemptive op) (λ _ k', call_post op c k k') k.
Proof.
  intros HS Ha. pose proof HS as [[HF HJ] HC]. pose proof (current_chosen _ _ HC) as Hch.
  pose proof (sound_card idle c k HS) as (oj & r & st & E & Ecc & Hm & Hno).
  destruct op as [t s r'|t|t r'|t p|t|t|t|t| |v|q|q|q|].
  - destruct Ha as (Et & Hs & Hconf). apply (constructor_spec idle preemptive t s r' c); [done|done| |done|].
    { unfold cards. by rewrite map_size_fmap. }
    intros k' HV Ec Eq HFo. apply kept_post; [done..|]. intros Hp Hr HF0. apply HFo; [done|exact Hr|by right].
  - destruct Ha as (Hk & Htc & Hti & Hnj). destruct (card_of_thread k t Hk) as (h & Eh & Ecd).
    apply (destructor_spec idle preemptive t c (card_of h)); [done|done|congruence|done|by apply nobody_no_joiner|].
    intros k' HV Ec Eq HFo. split; [done|]. split; [cbn [effect]; by rewrite Ecd|]. split; [done|].
    intros Hp _ HF0. apply HFo; [done|by right].
  - destruct Ha as (Hr & Hti). apply (priority_spec idle t r' c); [done|by apply ready_place|done|].
    intros k' HV Ec Eq _. by apply kept_post.
  - by apply call_priority.
  - by apply call_join.
  - apply (pass_spec idle t c); [done|by apply ready_place|]. intros k' HV Hsw _. by apply same_post.
  - destruct Ha as [Hr Hti]. apply (suspend_spec idle t c); [done|by apply ready_place|done|].
    intros k' HV Ec Eq HFo. apply kept_post; [done..|]. intros _ _ ?. apply HFo. by right.
  - by apply call_resume.
  - apply (yield_spec idle c); [done|]. intros k' HV Hsw _. by apply same_post.
  - apply (exit_spec idle v c r oj st); [done|done|unfold allowed, idle_rests in Ha; congruence|]. intros k' HV Ec Eq HFo.
    apply kept_post; [done| |done..]. rewrite Ec. cbn. rewrite Ecc. cbn. do 3 f_equal. unfold rank_in. by rewrite E.
  - apply wp_seq, wp_change. apply (sleep_spec idle q c); [by apply sound_int|done|unfold allowed, idle_rests in Ha; congruence|].
    intros k' HV Ec Eq HFo. by split_and!.
  - by apply call_wakeup.
  - apply wp_seq, wp_change. apply (wakeup_all_spec idle preemptive q c); [by apply sound_int|done|].
    intros k' HV Ec Eq HFo Hnil. change (queue_of (with_int false k) q) with (queue_of k q) in *. split; [done|]. split; [done|]. split; [done|].
    intros Hp _ HF0. destruct (queue_of k q) eqn:Eqq; [|by apply HFo]. by rewrite Hnil.
  - unfold run_call, time_slicer. apply wp_seq, wp_change. apply (reschedule_spec idle c); [by apply sound_int|done|].
    intros k' HV [Ec Eq Ei] HFo. apply same_post; [done|done|by constructor|done|done|done].
Qed.

Lemma valid_call op k :
  Valid idle k → allowed idle op k →
  ∃ c k', Sound idle c k ∧ run_call preemptive op k = Some ((), k') ∧ call_post op c k k'.
Proof.
  intros [[c HS] _] Ha. pose proof (call_spec op c k HS Ha) as ([] & k' & E & HP)%wp_total. by exists c, k'.
Qed.

Lemma sound_unique c c' k : Sound idle c k → Sound idle c' k → c = c'.
Proof. intros [_ HC] [_ HC']. pose proof (current_chosen _ _ HC). pose proof (current_chosen _ _ HC'). congruence. Qed.
End calls.

(** ** A running system *)

Definition booted (main idle : loc) : kernel :=
  Kernel (<[idle := Thread None READY None None None IDLE]> {[main := Thread None RUNNING None None None MAIN]})
    (Ready (Some main) [idle]) ∅ 2 true (Some main).

Lemma boot_booted preemptive main idle : main ≠ idle → boot preemptive main idle power_on = Some ((), booted main idle).
Proof.
  intros Hne. assert (wp (boot preemptive main idle) (λ _ k, k = booted main idle) power_on) as ([] & k & E & ->)%wp_total; [|done].
  unfold boot, init, constructor, constructor_prologue, constructor_epilogue.
  apply wp_seq, wp_seq, wp_seq, wp_seq, wp_change, wp_seq, wp_change, wp_seq, wp_change.
  eapply wp_of.
  { unfold schedule. cbn [perform chosen queue _scheduler power_on with_count with_int with_threads].
    rewrite decide_True; [done|]. split_and!; [by apply not_elem_of_nil|cbn; rewrite lookup_insert_eq; by eexists|done]. }
  apply wp_seq. eapply wp_at; [cbn; by rewrite lookup_insert_eq|]. cbn [_state].
  apply wp_seq, wp_ret, wp_seq. eapply wp_at; [cbn; by rewrite lookup_insert_eq|].
  rewrite (bool_decide_false (RUNNING = READY)), andb_false_r by done. apply wp_change.
  apply wp_seq, wp_seq, wp_change, wp_seq, wp_change, wp_seq, wp_change.
  eapply wp_of.
  { unfold schedule. cbn [perform chosen queue _scheduler power_on with_count with_int with_threads with_scheduler].
    rewrite decide_True; [done|]. split_and!; [by cbn; rewrite list_elem_of_singleton|cbn; rewrite lookup_insert_eq; by eexists|done]. }
  apply wp_seq. eapply wp_at; [cbn; by rewrite lookup_insert_eq|]. cbn [_state].
  apply wp_seq, wp_ret, wp_seq. eapply wp_at; [cbn; by rewrite lookup_insert_eq|].
  cbn [_rank]. rewrite (Z.eqb_refl IDLE), andb_false_r. apply wp_change.
  unfold Init_First. apply wp_seq. eapply (wp_running main); [done|]. apply wp_seq, wp_change, wp_change.
  done.
Qed.

Lemma booted_valid main idle : main ≠ idle → Valid idle (booted main idle) ∧ Foremost (booted main idle).
Proof.
  intros Hne. set (k := booted main idle).
  assert (cards k = <[idle := Card (Some In_scheduler) IDLE None None]> {[main := Card (Some In_scheduler) MAIN None None]}) as Ec
    by (unfold cards; cbn; by rewrite fmap_insert, map_fmap_singleton).
  assert (∀ t, whereabouts k t = if decide (t ∈ [main; idle]) then Some In_scheduler else None) as Ew.
  { intros t. unfold whereabouts, place_of. rewrite Ec. destruct (decide (t = idle)) as [->|H1].
    - rewrite lookup_insert_eq, decide_True by set_solver. done.
    - rewrite lookup_insert_ne by done. destruct (decide (t = main)) as [->|H2].
      + rewrite lookup_singleton_eq, decide_True by set_solver. done.
      + rewrite lookup_singleton_ne, decide_False by (done || set_solver). done. }
  assert (∀ t, is_Some (cards k !! t) → t ∈ [main; idle]) as Hdom.
  { intros t [cd Et]. rewrite Ec, lookup_insert_Some, lookup_singleton_Some in Et. set_solver. }
  assert (queue_of k = λ _, []) as Eq by done.
  split; [split; [exists main; split; [split|]|done]|].
  - constructor.
    + intros t. rewrite Ew. cbn. case_decide; naive_solver.
    + intros q t. rewrite Ew. cbn. split; [by intros ?%elem_of_nil|]. case_decide; naive_solver.
    + intros t _ Ht%Hdom. rewrite Ew, decide_True by done. by eexists.
    + cbn. repeat constructor; set_solver.
    + intros q. constructor.
    + repeat constructor.
    + intros q. constructor.
    + rewrite Ec, map_size_insert_None, map_size_singleton; [done|by rewrite lookup_singleton_ne].
  - assert (∀ t cd, cards k !! t = Some cd → card_joining cd = None) as Hnj.
    { intros t cd. rewrite Ec, lookup_insert_Some, lookup_singleton_Some. naive_solver. }
    constructor.
    + rewrite Ec. rewrite alive_insert by by rewrite lookup_singleton_ne. rewrite <- insert_empty, alive_insert by done. done.
    + intros t cd j E Hj. by rewrite (Hnj t cd E) in Hj.
    + intros t t' cd cd' j E _ Hj. by rewrite (Hnj t cd E) in Hj.
    + rewrite Ec, lookup_insert_eq. by eexists.
  - constructor; [done..|]. intros t h. cbn. rewrite lookup_insert_Some, lookup_singleton_Some. naive_solver.
  - intros c t [= <-] Ht. rewrite !rank_cards, Ec. rewrite lookup_insert_ne, lookup_singleton_eq by done. cbn in Ht |- *.
    rewrite elem_of_cons, list_elem_of_singleton in Ht. destruct Ht as [-> | ->].
    + by rewrite lookup_insert_ne, lookup_singleton_eq by done.
    + by rewrite lookup_insert_eq.
Qed.

(** What is reached by allowed calls of [P]. *)
Inductive reached (preemptive : bool) (main idle : loc) (P : call → Prop) : kernel → Prop :=
| reached_boot k : boot preemptive main idle power_on = Some ((), k) → reached preemptive main idle P k
| reached_call op k k' :
    reached preemptive main idle P k → P op → allowed idle op k → run_call preemptive op k = Some ((), k') →
    reached preemptive main idle P k'.

Lemma reached_valid preemptive main idle P k : main ≠ idle → reached preemptive main idle P k → Valid idle k.
Proof.
  intros Hne. induction 1 as [k E|op k k' Hr IH HP Ha E].
  - rewrite boot_booted in E by done. injection E as <-. by apply booted_valid.
  - destruct (valid_call preemptive idle op k IH Ha) as (c & k1 & _ & E1 & HV & _). rewrite E in E1. by injection E1 as <-.
Qed.

Lemma reached_foremost main idle k : main ≠ idle → reached true main idle by_rank k → Foremost k.
Proof.
  intros Hne Hr. induction Hr as [k E|op k k' Hr IH HP Ha E].
  - rewrite boot_booted in E by done. injection E as <-. by apply booted_valid.
  - pose proof (reached_valid _ _ _ _ _ Hne Hr) as HV.
    destruct (valid_call true idle op k HV Ha) as (c & k1 & _ & E1 & _ & _ & _ & HFo). rewrite E in E1. injection E1 as <-. by apply HFo.
Qed.

(** Where the state says a thread is. *)
Lemma place_state k t p :
  whereabouts k t = Some p →
  match p with
  | In_scheduler => ready_state (state_of k t)
  | In_queue _ => state_of k t = Some WAITING
  | Aside => state_of k t = Some SUSPENDED
  | Ended => state_of k t = Some FINISHING
  end.
Proof.
  intros (h & E & Hw)%whereabouts_known. unfold ready_state, state_of. rewrite E. cbn. unfold where_is in Hw.
  destruct (_state h), (_waiting h), (_waiting_fifo h); simplify_eq; cbn; auto.
Qed.

Lemma alive_threads k : Filed None k → alive_num (cards k) = Z.of_nat (size (filter (λ p, _state p.2 ≠ FINISHING) (threads k))).
Proof.
  intros HF. unfold alive_num. f_equal. unfold cards. rewrite map_filter_fmap, map_size_fmap. f_equal. apply map_filter_strong_ext.
  intros t h. cbn. unfold alive. cbn. split; intros [H E]; (split; [|done]); intros Hs; apply H.
  - pose proof (state_place k t FINISHING HF) as Hp. unfold state_of in Hp. rewrite E, (whereabouts_lookup _ _ _ E) in Hp. apply Hp. cbn. by rewrite Hs.
  - unfold where_is in Hs. by destruct (_state h), (_waiting h), (_waiting_fifo h).
Qed.

Section joining.
Context (preemptive : bool) (idle : loc).

(** [j] waits for [t] to exit. *)
Definition waits_for (j t : loc) (m : gmap loc card) : Prop := place_of m j = Some Aside ∧ (m !! t ≫= card_joining) = Some j.

Lemma waits_move j t x p m : x ≠ j → waits_for j t m → waits_for j t (alter (move p) x m).
Proof.
  intros Hx [Hp Hj]. split; [unfold place_of in *; by rewrite lookup_alter_ne|].
  destruct (decide (x = t)) as [->|]; [|by rewrite lookup_alter_ne]. rewrite lookup_alter_eq. by destruct (m !! t).
Qed.

Lemma waits_rerank j t x r m : waits_for j t m → waits_for j t (alter (rerank r) x m).
Proof.
  intros [Hp Hj]. unfold waits_for, place_of in *. split.
  - destruct (decide (x = j)) as [->|]; [rewrite lookup_alter_eq; by destruct (m !! j)|by rewrite lookup_alter_ne].
  - destruct (decide (x = t)) as [->|]; [rewrite lookup_alter_eq; by destruct (m !! t)|by rewrite lookup_alter_ne].
Qed.

Lemma waits_insert j t x cd m : x ≠ j → x ≠ t → waits_for j t m → waits_for j t (<[x := cd]> m).
Proof. intros Hj Ht [Hp Hw]. unfold waits_for, place_of. by rewrite !lookup_insert_ne. Qed.

Lemma waits_delete j t x m : x ≠ j → x ≠ t → waits_for j t m → waits_for j t (delete x m).
Proof. intros Hj Ht [Hp Hw]. unfold waits_for, place_of. by rewrite !lookup_delete_ne. Qed.

Lemma waits_moved_all j t l : ∀ m, j ∉ l → waits_for j t m → waits_for j t (moved_all l m).
Proof.
  induction l as [|x l IH]; intros m Hj Hw; [done|]. apply not_elem_of_cons in Hj as [Hx Hl]. apply IH; [done|]. by apply waits_move.
Qed.

(** The joiner of another thread is another joiner. *)
Lemma other_joiner m n j t x j' :
  Ledger idle m n → waits_for j t m → x ≠ t → (m !! x ≫= card_joining) = Some j' → j' ≠ j.
Proof.
  intros HJ [_ Hj] Hx Hj' ->. destruct (m !! t) as [ct|] eqn:Et; [|done]. destruct (m !! x) as [cx|] eqn:Ex; [|done].
  by apply Hx, (ledger_join _ _ _ HJ x t cx ct j).
Qed.

Lemma waits_effect op c k j t :
  Sound idle c k → allowed idle op k → waits_for j t (cards k) →
  op ≠ Delete t → (c = t → ∀ v, op ≠ Exit v) → waits_for j t (effect op c k).
Proof.
  intros HS Ha Hw Hd He. pose proof HS as [[HF HJ] HC]. pose proof Hw as [Hp Hj].
  assert (∀ x p, whereabouts k x = Some p → p ≠ Aside → x ≠ j) as Hne by (intros x p Hx Hpa ->; apply Hpa; unfold whereabouts in Hx; congruence).
  assert (whereabouts k c = Some In_scheduler) as Hc.
  { pose proof (sound_card idle c k HS) as (? & ? & ? & E & _). by rewrite (whereabouts_lookup _ _ _ E). }
  assert (∃ hj, threads k !! j = Some hj) as [hj Ehj] by (apply whereabouts_known in Hp as (hj & ? & _); by exists hj).
  assert (∃ ht, threads k !! t = Some ht ∧ _joining ht = Some j) as (ht & Eht & Hjt).
  { unfold cards in Hj. rewrite lookup_fmap in Hj. destruct (threads k !! t) as [ht|]; [|done]. by exists ht. }
  destruct op as [x s r|x|x r|x r|x|x|x|x| |v|q|q|q|]; cbn [effect allowed] in *; try done.
  - destruct Ha as (Hx & _). apply waits_insert; [congruence..|done].
  - destruct Ha as (Hk & _ & _ & Hnj). assert (x ≠ t) as Hxt by congruence. assert (x ≠ j) as Hxj by (intros ->; by apply (Hnj t ht)).
    destruct (cards k !! x ≫= card_joining) as [j'|] eqn:Ej; [|by apply waits_delete].
    apply waits_move; [by eapply other_joiner|]. by apply waits_delete.
  - by apply waits_rerank.
  - by apply waits_rerank.
  - destruct Ha as (_ & Hx & _). case_decide; [done|]. assert (x ≠ t) as Hxt by (intros ->; rewrite Eht in Hx; cbn in Hx; congruence).
    apply waits_move; [by eapply Hne|]. split; [|by rewrite lookup_alter_ne]. unfold place_of in *.
    destruct (decide (x = j)) as [->|]; [|by rewrite lookup_alter_ne]. rewrite lookup_alter_eq. by destruct (cards k !! j).
  - destruct Ha as [Hr _]. apply waits_move; [|done]. eapply Hne; [by apply ready_place|done].
  - destruct Ha as [_ Hnj]. case_decide; [|done]. apply waits_move; [|done]. intros ->. by apply (Hnj t ht).
  - assert (c ≠ t) as Hct by (intros ->; by apply (He eq_refl v)). assert (c ≠ j) as Hcj by by eapply Hne.
    apply waits_insert; [done..|]. destruct (cards k !! c ≫= card_joining) as [j'|] eqn:Ej; [|done].
    apply waits_move; [by eapply other_joiner|done].
  - apply waits_move; [by eapply Hne|done].
  - destruct (queue_of k q) as [|x l] eqn:Eq; [done|]. apply waits_move; [|done].
    apply (Hne x (In_queue q)); [|done]. apply (filed_waiting _ _ HF). rewrite Eq. by left.
  - apply waits_moved_all; [|done]. intros [_ Hjq]%(filed_waiting _ _ HF). by destruct (Hne j (In_queue q)).
Qed.

Lemma cards_joining k t j : (cards k !! t ≫= card_joining) = Some j ↔ (_joining <$> threads k !! t) = Some (Some j).
Proof.
  unfold cards. rewrite lookup_fmap. destruct (threads k !! t) as [h|]; [|done]. cbn. split; [by intros ->|by intros [= ->]].
Qed.

Lemma waits_states k j t :
  waits_for j t (cards k) → state_of k j = Some SUSPENDED ∧ (_joining <$> threads k !! t) = Some (Some j).
Proof. intros [Hp Hj%cards_joining]. split; [by apply (place_state k j Aside)|done]. Qed.

Lemma join_starts k t h c :
  Valid idle k → threads k !! t = Some h → chosen (_scheduler k) = Some c → allowed idle (Join t) k → _state h ≠ FINISHING →
  ∃ k', join t k = Some ((), k') ∧ state_of k' c = Some SUSPENDED ∧ (_joining <$> threads k' !! t) = Some (Some c).
Proof.
  intros HV Et Hc Ha Hs. destruct (valid_call preemptive idle (Join t) k HV Ha) as (c' & k' & HS & E & _ & Ec & _).
  assert (c' = c) as -> by (pose proof (current_chosen _ _ (proj2 HS)); congruence). exists k'. split; [done|].
  assert (whereabouts k t ≠ Some Ended) as Hw.
  { intros Hw%place_state. unfold state_of in Hw. rewrite Et in Hw. by injection Hw as Hw. }
  cbn in Ec. rewrite decide_False in Ec by done. destruct Ha as (Htc & _ & _). pose proof (sound_card idle c k HS) as (? & ? & ? & _ & Ecc & _).
  apply waits_states. unfold waits_for, place_of. rewrite Ec. rewrite lookup_alter_eq, !lookup_alter_ne by congruence.
  by rewrite Ecc, lookup_alter_eq, (cards_lookup k t h Et).
Qed.

Lemma join_ends_by_exit v k k' j t :
  Sound idle t k → allowed idle (Exit v) k → run_call preemptive (Exit v) k = Some ((), k') → waits_for j t (cards k) →
  ready_state (state_of k' j) ∧ state_of k' t = Some FINISHING ∧ join_result t k' = Some (v, k').
Proof.
  intros HS Ha E [Hp Hj]. pose proof (wp_result _ _ _ _ _ E (call_spec preemptive idle _ t k HS Ha)) as (_ & Ec & _).
  pose proof (sound_card idle t k HS) as (? & ? & ? & _ & Ett & _).
  assert (j ≠ t) as Hjt by (intros ->; unfold place_of in Hp; by rewrite Ett in Hp).
  cbn [effect] in Ec. rewrite Hj in Ec. unfold place_of in Hp. destruct (cards k !! j) as [cj|] eqn:Ecj; [|done]. split_and!.
  - apply (place_state k' j In_scheduler). unfold whereabouts, place_of. by rewrite Ec, lookup_insert_ne, lookup_alter_eq, Ecj.
  - apply (place_state k' t Ended). unfold whereabouts, place_of. by rewrite Ec, lookup_insert_eq.
  - assert (cards k' !! t ≫= card_stack = Some v) as Ht by by rewrite Ec, lookup_insert_eq.
    unfold cards in Ht. rewrite lookup_fmap in Ht. unfold join_result, at_, deref, mbind, ST_bind. cbn.
    destruct (threads k' !! t) as [h'|]; [|done]. cbn in Ht |- *. by rewrite Ht.
Qed.

Lemma join_ends_by_delete c k k' j t :
  Sound idle c k → allowed idle (Delete t) k → run_call preemptive (Delete t) k = Some ((), k') → waits_for j t (cards k) →
  ready_state (state_of k' j) ∧ threads k' !! t = None.
Proof.
  intros HS Ha E [Hp Hj]. pose proof (wp_result _ _ _ _ _ E (call_spec preemptive idle _ c k HS Ha)) as (_ & Ec & _).
  destruct Ha as (_ & _ & _ & Hnj%nobody_no_joiner).
  assert (j ≠ t) as Hjt by (intros ->; destruct (cards k !! t) as [ct|] eqn:Et; [by apply (Hnj t ct)|done]).
  cbn [effect] in Ec. rewrite Hj in Ec. unfold place_of in Hp. destruct (cards k !! j) as [cj|] eqn:Ecj; [|done]. split.
  - apply (place_state k' j In_scheduler). unfold whereabouts, place_of. by rewrite Ec, lookup_alter_eq, lookup_delete_ne, Ecj.
  - assert (cards k' !! t = None) as Ht by by rewrite Ec, lookup_alter_ne, lookup_delete_eq by done.
    unfold cards in Ht. rewrite lookup_fmap in Ht. by destruct (threads k' !! t).
Qed.
End joining.

(** ** Properties *)

(** C1 Every allowed call of a valid kernel returns and does what its effect
    says: each thread is then where the card says, in the queue the effect
    says and in that order, and the kernel is valid again.  No assertion
    fails, no list operation is out of place, and no context is saved into
    another thread. *)
Theorem calls_have_effect preemptive idle op k :
  Valid idle k → allowed idle op k →
  ∃ c k', chosen (_scheduler k) = Some c ∧ run_call preemptive op k = Some ((), k') ∧ Valid idle k' ∧
    cards k' = effect op c k ∧ ∀ q, queue_of k' q = effect_queues op c k q.
Proof.
  intros HV Ha. destruct (valid_call preemptive idle op k HV Ha) as (c & k' & [_ HC] & E & HV' & Ec & Eq & _).
  exists c, k'. split; [apply HC|done].
Qed.

(** C2 In a running system every thread is accounted for.  One thread is
    chosen, is on the processor and is the only one RUNNING; the others that
    are READY are on the scheduler's list, once, by rank; a WAITING thread is
    in one queue, once, and an ordered queue is by rank; a SUSPENDED or
    FINISHING thread is nowhere; the counter is the number of threads that
    have not exited; and interrupts are enabled. *)
Theorem threads_accounted preemptive main idle P k :
  main ≠ idle → reached preemptive main idle P k →
  ∃ c, chosen (_scheduler k) = Some c ∧ cpu k = Some c ∧ state_of k c = Some RUNNING ∧ int_enabled k = true ∧
    NoDup (c :: queue (_scheduler k)) ∧ StronglySorted (in_order (rank_in k)) (queue (_scheduler k)) ∧
    (∀ q, NoDup (queue_of k q)) ∧ (∀ q, StronglySorted (in_order (rank_in k)) (queue_of k (true, q))) ∧
    _thread_count k = Z.of_nat (size (filter (λ p, _state p.2 ≠ FINISHING) (threads k))) ∧
    ∀ t h, threads k !! t = Some h →
      (_state h = RUNNING ↔ t = c) ∧
      (_state h = READY ↔ t ∈ queue (_scheduler k)) ∧
      (_state h = WAITING ↔ ∃ q, t ∈ queue_of k q) ∧
      (∀ q q', t ∈ queue_of k q → t ∈ queue_of k q' → q = q').
Proof.
  intros Hne Hr. destruct (reached_valid _ _ _ _ _ Hne Hr) as [[c HS] Hi]. pose proof HS as [[HF HJ] HC]. exists c.
  pose proof (sound_current idle k c HS) as (hc & Ec & Hrun & _). pose proof (filed_ready_nodup _ _ HF) as Hn.
  unfold members in Hn. rewrite (current_chosen _ _ HC) in Hn.
  split_and!; [apply HC|apply HC|unfold state_of; by rewrite Ec; cbn; rewrite Hrun|done|done|apply HF|apply HF|apply HF|..].
  { rewrite (ledger_count _ _ _ HJ). by apply alive_threads. }
  intros t h E. assert (state_of k t = Some (_state h)) as Es by (unfold state_of; by rewrite E).
  pose proof (current_running _ _ HC t h E) as Hcur. split_and!; [done|..].
  - rewrite (queue_sched_in idle k c t HS). rewrite <- Hcur. split.
    + intros Hs. rewrite Hs in *. split; [by apply (state_place k t READY HF)|done].
    + intros [Hw Hnr]. apply place_state in Hw as [Hw|Hw]; rewrite Es in Hw; congruence.
  - split.
    + intros Hs. rewrite Hs in Es. destruct (state_place k t WAITING HF Es) as [q Hq]. exists q. by apply (filed_waiting _ _ HF).
    + intros [q [_ Hq]%(filed_waiting _ _ HF)]. apply place_state in Hq. rewrite Es in Hq. by injection Hq.
  - intros q q' [_ Hq]%(filed_waiting _ _ HF) [_ Hq']%(filed_waiting _ _ HF). congruence.
Qed.

(** C5 With a preemptive criterion the running thread is never outranked: as
    long as no program yields, passes or changes ranks, no ready thread comes
    before the one that runs, whoever is created, resumed, woken up,
    suspended or deleted, and whoever sleeps, joins or exits. *)
Theorem highest_priority_runs main idle k c t h hc :
  main ≠ idle → reached true main idle by_rank k →
  threads k !! c = Some hc → _state hc = RUNNING → threads k !! t = Some h → _state h = READY → _rank hc ≤ _rank h.
Proof.
  intros Hne Hr Ec Hrun Et Hs. pose proof (reached_foremost main idle k Hne Hr) as HFo.
  destruct (reached_valid _ _ _ _ _ Hne Hr) as [[c' [[HF _] HC]] _].
  assert (c = c') as <- by by apply (current_running _ _ HC c hc Ec).
  assert (t ∈ members (_scheduler k)) as Ht.
  { apply (filed_ready _ _ HF). split; [done|]. apply (state_place k t READY HF). unfold state_of. by rewrite Et; cbn; rewrite Hs. }
  pose proof (HFo c t (current_chosen _ _ HC) Ht) as Hle. unfold rank_in in Hle. by rewrite Ec, Et in Hle.
Qed.

(** C6 A joiner waits for the exit.  To join a thread that has not exited
    suspends the caller until then: whatever is called meanwhile, the joiner
    stays SUSPENDED and the joined thread keeps its address, unless the
    thread exits or is deleted.  When it exits the joiner is ready and finds
    the status; when it is deleted the joiner is ready too. *)
Theorem join_waits_for_exit preemptive idle k t h :
  Valid idle k → threads k !! t = Some h →
  (∀ c, chosen (_scheduler k) = Some c → allowed idle (Join t) k → _state h ≠ FINISHING →
    ∃ k', join t k = Some ((), k') ∧ state_of k' c = Some SUSPENDED ∧ (_joining <$> threads k' !! t) = Some (Some c)) ∧
  (∀ j op k', _joining h = Some j → allowed idle op k → run_call preemptive op k = Some ((), k') →
    state_of k j = Some SUSPENDED ∧
    match op with
    | Exit v =>
        if decide (chosen (_scheduler k) = Some t)
        then ready_state (state_of k' j) ∧ state_of k' t = Some FINISHING ∧ join_result t k' = Some (v, k')
        else state_of k' j = Some SUSPENDED ∧ (_joining <$> threads k' !! t) = Some (Some j)
    | Delete x =>
        if decide (x = t) then ready_state (state_of k' j) ∧ threads k' !! t = None
        else state_of k' j = Some SUSPENDED ∧ (_joining <$> threads k' !! t) = Some (Some j)
    | _ => state_of k' j = Some SUSPENDED ∧ (_joining <$> threads k' !! t) = Some (Some j)
    end).
Proof.
  intros HV Et. split; [intros c; by eapply join_starts|]. intros j op k' Hj Ha E.
  destruct (valid_call preemptive idle op k HV Ha) as (c & k1 & HS & E1 & _ & Ec & _).
  rewrite E in E1. injection E1 as <-. pose proof HS as [[HF HJ] HC].
  assert (waits_for j t (cards k)) as Hw.
  { pose proof (cards_lookup k t h Et) as Ect. split; [by apply (ledger_joiner _ _ _ HJ t _ j Ect)|by rewrite Ect]. }
  split; [by apply (waits_states k j t)|].
  assert (op ≠ Delete t → (c = t → ∀ v, op ≠ Exit v) → state_of k' j = Some SUSPENDED ∧ (_joining <$> threads k' !! t) = Some (Some j)) as Hkeep.
  { intros Hd He. apply waits_states. rewrite Ec. by apply (waits_effect idle). }
  destruct op as [x s r|x|x r|x r|x|x|x|x| |v|q|q|q|]; try (by apply Hkeep).
  - case_decide as Hx; [subst x|apply Hkeep; congruence]. by eapply join_ends_by_delete.
  - rewrite (current_chosen _ _ HC). case_decide as Hx; [injection Hx as ->|apply Hkeep; congruence]. by eapply join_ends_by_exit.
Qed.

(** ** Examples *)

(** Thread 3 of rank 5 beside main (1) and idle (2). *)
Definition after_calls (ops : list call) (k : kernel) : kernel :=
  foldl (λ k op, from_option snd k (run_call true op k)) k ops.
Definition with_worker : kernel := after_calls [Create 3 READY 5] (booted 1 2).

Lemma with_worker_reached : reached true 1 2 by_rank with_worker.
Proof.
  apply (reached_call true 1 2 by_rank (Create 3 READY 5) (booted 1 2)).
  - by apply reached_boot, boot_booted.
  - done.
  - split_and!; [done|done|by left].
  - vm_compute. reflexivity.
Qed.

Lemma with_worker_valid : Valid 2 with_worker.
Proof. exact (reached_valid true 1 2 by_rank _ ltac:(done) with_worker_reached). Qed.

(** Main waits in queue 9: the worker runs. *)
Definition main_sleeps : kernel := after_calls [Sleep (true, 9%positive)] with_worker.

Lemma main_sleeps_reached : reached true 1 2 by_rank main_sleeps.
Proof.
  apply (reached_call true 1 2 by_rank (Sleep (true, 9%positive)) with_worker).
  - exact with_worker_reached.
  - done.
  - done.
  - vm_compute. reflexivity.
Qed.

Example calls_have_effect_witness :
  ∃ k', run_call true (Sleep (true, 9%positive)) with_worker = Some ((), k') ∧ queue_of k' (true, 9%positive) = [1%positive].
Proof.
  destruct (calls_have_effect true 2 (Sleep (true, 9%positive)) with_worker) as (c & k' & Hc & E & _ & _ & Eq).
  - exact with_worker_valid.
  - done.
  - exists k'. split; [exact E|]. rewrite Eq. vm_compute in Hc. injection Hc as <-. vm_compute. reflexivity.
Defined.

Example threads_accounted_witness : ∃ c, chosen (_scheduler main_sleeps) = Some c ∧ state_of main_sleeps c = Some RUNNING.
Proof.
  destruct (threads_accounted true 1 2 by_rank main_sleeps) as (c & Hc & _ & Hs & _).
  - done.
  - exact main_sleeps_reached.
  - by exists c.
Defined.

Example highest_priority_runs_witness : 5 ≤ IDLE.
Proof.
  apply (highest_priority_runs 1 2 main_sleeps 3 2 (Thread None READY None None None IDLE) (Thread None RUNNING None None None 5)).
  - done.
  - exact main_sleeps_reached.
  - vm_compute. reflexivity.
  - done.
  - vm_compute. reflexivity.
  - done.
Defined.

Example join_waits_for_exit_witness :
  ∃ k k', join 3 with_worker = Some ((), k) ∧ state_of k 1%positive = Some SUSPENDED ∧
    run_call true (Exit 42) k = Some ((), k') ∧ ready_state (state_of k' 1%positive) ∧ join_result 3 k' = Some (42, k').
Proof.
  set (k := after_calls [Join 3] with_worker).
  assert (run_call true (Join 3) with_worker = Some ((), k)) as E1 by (vm_compute; reflexivity).
  destruct (calls_have_effect true 2 (Join 3) with_worker) as (c & k1 & _ & E & HV & _); [exact with_worker_valid|done|].
  rewrite E1 in E. injection E as <-.
  exists k, (after_calls [Exit 42] k). split; [exact E1|].
  destruct (join_waits_for_exit true 2 k 3%positive (Thread None RUNNING None None (Some 1%positive) 5)) as [_ Hend].
  - exact HV.
  - vm_compute. reflexivity.
  - assert (run_call true (Exit 42) k = Some ((), after_calls [Exit 42] k)) as E2 by (vm_compute; reflexivity).
    destruct (Hend 1%positive (Exit 42) _ eq_refl ltac:(done) E2) as [Hs Hx]. cbn in Hx.
    rewrite decide_True in Hx by (vm_compute; reflexivity). destruct Hx as (Hr & _ & Hj). by split_and!.
Defined.

(** ** What is not allowed *)

(** A joiner that is resumed by another thread returns from [join] before the
    exit, which then inserts it in the scheduler a second time. *)
Example resumed_joiner_inserted_twice :
  run_call true (Exit 0) (after_calls [Join 3; Resume 1; Pass 3] with_worker) = None ∧
  state_of (after_calls [Join 3; Resume 1; Pass 3] with_worker) 1%positive = Some READY.
Proof. split; vm_compute; reflexivity. Qed.

(** [pass] to a thread that is not ready takes it out of a list it is not in;
    so does [suspend] of a thread that waits, and [priority] of one that is
    suspended. *)
Example not_in_the_scheduler :
  run_call true (Pass 4) (after_calls [Create 4 SUSPENDED 7] with_worker) = None ∧
  run_call true (Suspend 1) main_sleeps = None ∧
  run_call true (Priority 4 1) (after_calls [Create 4 SUSPENDED 7] with_worker) = None.
Proof. split_and!; vm_compute; reflexivity. Qed.

(** [setPriority] of a ready thread does not move it: it is not chosen next,
    though its rank is now the smallest of those ready. *)
Example setPriority_leaves_in_place :
  let k := after_calls [Create 4 READY 7; SetPriority 4 1; Sleep (true, 9%positive)] with_worker in
  chosen (_scheduler k) = Some 3%positive ∧ rank_in k 3 = 5 ∧ rank_in k 4 = 1.
Proof. vm_compute. done. Qed.

(** [priority] of the running thread does not give the processor up. *)
Example priority_keeps_running :
  let k := after_calls [Priority 1 9] with_worker in
  chosen (_scheduler k) = Some 1%positive ∧ rank_in k 1 = 9 ∧ rank_in k 3 = 5 ∧ state_of k 3%positive = Some READY.
Proof. vm_compute. done. Qed.
