(* ===== verification/Sync.v ===== *)
(** * Synchronizers (include/synchronizer.h, src/api/semaphore.cc,
    src/api/mutex.cc, src/api/condition.cc)

    Semaphore (and Semaphore_Template, the same code over either queue), Mutex
    and Condition over the threads: [system] is the kernel with the
    synchronizers by address, and the waiting queue of a synchronizer is the
    kernel's queue of the same name.  A method is [begin_atomic], which locks,
    and what follows up to the context switch or [end_atomic].  [trace] is a
    history of calls with their callers; the properties count and compare
    what it says with the state it leads to. *)

From stdpp Require Import base numbers list option gmap sorting.
From S2P Require Import Prelude StateM DList OrderedList Sched Thread ThreadInv ThreadOps ThreadApi ThreadCalls.
#[local] Set Warnings "-clear-no-such-hyp".

(** ** State *)

Inductive synchronizer := Semaphore (value : Z) | Mutex (is_locked : bool) | Condition.

Record system := System { kern : kernel; objects : gmap waitq synchronizer }.

(** An [int]. *)
Definition int32_wrap (x : Z) : Z := (x + 2 ^ 31) mod 2 ^ 32 - 2 ^ 31.

(** ** Methods *)

Abbreviation S := (ST system).

Definition on_kernel {A} (c : T A) : S A := λ s, '(a, k) ← c (kern s); Some (a, System k (objects s)).
Definition object_at (q : waitq) : S synchronizer := λ s, o ← objects s !! q; Some (o, s).
Definition set_object (q : waitq) (o : synchronizer) : S unit := λ s, Some ((), System (kern s) (<[q := o]> (objects s))).

Definition begin_atomic : S unit := on_kernel lock.
Definition end_atomic : S unit := on_kernel unlock.

(** [finc(_value)], [fdec(_value)]: the value before. *)
Definition fadd (d : Z) (q : waitq) : S Z :=
  o ← object_at q;
  match o with Semaphore v => _ ← set_object q (Semaphore (int32_wrap (v + d))); mret v | _ => stuck end.
Definition finc := fadd 1.
Definition fdec := fadd (-1).
(** [tsl(_locked)] *)
Definition tsl (q : waitq) : S bool :=
  o ← object_at q;
  match o with Mutex l => _ ← set_object q (Mutex true); mret l | _ => stuck end.

Section preemptive.
Context (preemptive : bool).

Definition p (q : waitq) (is_locked : bool) : S unit :=
  _ ← (if is_locked then mret () else begin_atomic);
  v ← fdec q;
  if v <? 1 then on_kernel (sleep q) else if is_locked then mret () else end_atomic.

Definition v (q : waitq) (is_locked : bool) : S unit :=
  _ ← (if is_locked then mret () else begin_atomic);
  v ← finc q;
  if v <? 0 then on_kernel (wakeup preemptive q) else if is_locked then mret () else end_atomic.

(** Mutex and Condition have a Thread_Queue. *)
Definition mutex_lock (m : loc) : S unit :=
  _ ← begin_atomic;
  l ← tsl (true, m);
  if l : bool then on_kernel (sleep (true, m)) else end_atomic.

Definition mutex_unlock (m : loc) : S unit :=
  _ ← begin_atomic;
  b ← on_kernel (queue_empty (true, m));
  if b : bool then _ ← set_object (true, m) (Mutex false); end_atomic
  else on_kernel (wakeup preemptive (true, m)).

Definition wait (c : loc) : S unit := _ ← begin_atomic; on_kernel (sleep (true, c)).
Definition signal (c : loc) : S unit := _ ← begin_atomic; on_kernel (wakeup preemptive (true, c)).
Definition broadcast (c : loc) : S unit := _ ← begin_atomic; on_kernel (wakeup_all preemptive (true, c)).

(** [~Synchronizer_Common] *)
Definition synchronizer_destructor (q : waitq) : S unit := _ ← begin_atomic; on_kernel (wakeup_all preemptive q).

(** ** Calls *)

Inductive sync_call :=
| P (q : waitq) | V (q : waitq) | Lock (m : loc) | Unlock (m : loc)
| Wait (c : loc) | Signal (c : loc) | Broadcast (c : loc)
| Call (op : call).

Definition run_sync (op : sync_call) : S unit :=
  match op with
  | P q => p q false
  | V q => v q false
  | Lock m => mutex_lock m
  | Unlock m => mutex_unlock m
  | Wait c => wait c
  | Signal c => signal c
  | Broadcast c => broadcast c
  | Call op => on_kernel (run_call preemptive op)
  end.
End preemptive.

(** The synchronizers exist and are of the class, the idle thread never
    waits, a count does not overflow, the queues are used through the
    synchronizers only, and a waiting thread is not deleted. *)
Definition permitted (idle : loc) (op : sync_call) (s : system) : Prop :=
  match op with
  | P q => (∃ n, objects s !! q = Some (Semaphore n)) ∧ idle_rests idle (kern s)
  | V q => ∃ n, objects s !! q = Some (Semaphore n) ∧ n < 2 ^ 31 - 1
  | Lock m => (∃ l, objects s !! (true, m) = Some (Mutex l)) ∧ idle_rests idle (kern s)
  | Unlock m => ∃ l, objects s !! (true, m) = Some (Mutex l)
  | Wait c => objects s !! (true, c) = Some Condition ∧ idle_rests idle (kern s)
  | Signal c | Broadcast c => objects s !! (true, c) = Some Condition
  | Call op =>
      allowed idle op (kern s) ∧
      match op with
      | Sleep _ | Wakeup _ | Wakeup_all _ => False
      | Delete t => state_of (kern s) t ≠ Some WAITING
      | _ => True
      end
  end.

(** A history: who called what, the last call first. *)
Inductive trace (preemptive : bool) (idle : loc) (s0 : system) : list (loc * sync_call) → system → Prop :=
| trace_start : trace preemptive idle s0 [] s0
| trace_call tr s c op s' :
    trace preemptive idle s0 tr s → chosen (_scheduler (kern s)) = Some c → permitted idle op s →
    run_sync preemptive op s = Some ((), s') → trace preemptive idle s0 ((c, op) :: tr) s'.

(** A system with synchronizers nobody has used. *)
Definition fresh (s : system) : Prop :=
  ∀ q o, objects s !! q = Some o →
    queue_of (kern s) q = [] ∧ match o with Semaphore n => 0 ≤ n < 2 ^ 31 | Mutex l => l = false | Condition => True end.

(** ** A call on the kernel *)

Section sync.
Context (preemptive : bool) (idle : loc).
Implicit Types (k : kernel) (s : system) (q : waitq) (m : gmap waitq synchronizer).

Lemma with_int_true k : int_enabled k = true → with_int true k = k.
Proof. destruct k. cbn. by intros ->. Qed.

Lemma p_call q n k m :
  m !! q = Some (Semaphore n) →
  p q false (System k m) =
    if n <? 1 then '(u, k') ← run_call preemptive (Sleep q) k; Some (u, System k' (<[q := Semaphore (int32_wrap (n - 1))]> m))
    else Some ((), System (with_int true k) (<[q := Semaphore (int32_wrap (n - 1))]> m)).
Proof.
  intros E. unfold p, begin_atomic, fdec, fadd, object_at, mbind, ST_bind. cbn. rewrite E. cbn. destruct (n <? 1); [|done].
  change (n + -1) with (n - 1). unfold on_kernel. reflexivity.
Qed.

Lemma v_call q n k m :
  m !! q = Some (Semaphore n) →
  v preemptive q false (System k m) =
    if n <? 0 then '(u, k') ← run_call preemptive (Wakeup q) k; Some (u, System k' (<[q := Semaphore (int32_wrap (n + 1))]> m))
    else Some ((), System (with_int true k) (<[q := Semaphore (int32_wrap (n + 1))]> m)).
Proof.
  intros E. unfold v, begin_atomic, finc, fadd, object_at, mbind, ST_bind. cbn. rewrite E. cbn. by destruct (n <? 0).
Qed.

Lemma lock_call a l k m :
  m !! (true, a) = Some (Mutex l) →
  mutex_lock a (System k m) =
    if l then '(u, k') ← run_call preemptive (Sleep (true, a)) k; Some (u, System k' (<[(true, a) := Mutex true]> m))
    else Some ((), System (with_int true k) (<[(true, a) := Mutex true]> m)).
Proof. intros E. unfold mutex_lock, begin_atomic, tsl, object_at, mbind, ST_bind. cbn. rewrite E. cbn. by destruct l. Qed.

Lemma unlock_call a k m :
  mutex_unlock preemptive a (System k m) =
    if decide (queue_of k (true, a) = []) then Some ((), System (with_int true k) (<[(true, a) := Mutex false]> m))
    else '(u, k') ← run_call preemptive (Wakeup (true, a)) k; Some (u, System k' m).
Proof.
  unfold mutex_unlock, begin_atomic, mbind, ST_bind. cbn. change (queue_of (with_int false k)) with (queue_of k).
  case_decide; [by rewrite bool_decide_true|by rewrite bool_decide_false].
Qed.

(** The call on the kernel a call makes, if any, and the synchronizers after. *)
Definition kernel_call (op : sync_call) (s : system) : option call :=
  match op with
  | P q => match objects s !! q with Some (Semaphore n) => if n <? 1 then Some (Sleep q) else None | _ => None end
  | V q => match objects s !! q with Some (Semaphore n) => if n <? 0 then Some (Wakeup q) else None | _ => None end
  | Lock a => match objects s !! (true, a) with Some (Mutex l) => if l then Some (Sleep (true, a)) else None | _ => None end
  | Unlock a => if decide (queue_of (kern s) (true, a) = []) then None else Some (Wakeup (true, a))
  | Wait c => Some (Sleep (true, c))
  | Signal c => Some (Wakeup (true, c))
  | Broadcast c => Some (Wakeup_all (true, c))
  | Call op => Some op
  end.

Definition objects_after (op : sync_call) (s : system) : gmap waitq synchronizer :=
  match op with
  | P q => match objects s !! q with Some (Semaphore n) => <[q := Semaphore (int32_wrap (n - 1))]> (objects s) | _ => objects s end
  | V q => match objects s !! q with Some (Semaphore n) => <[q := Semaphore (int32_wrap (n + 1))]> (objects s) | _ => objects s end
  | Lock a => <[(true, a) := Mutex true]> (objects s)
  | Unlock a => if decide (queue_of (kern s) (true, a) = []) then <[(true, a) := Mutex false]> (objects s) else objects s
  | _ => objects s
  end.

Lemma kernel_call_allowed op s kc : permitted idle op s → kernel_call op s = Some kc → allowed idle kc (kern s).
Proof.
  destruct op as [q|q|a|a|c|c|c|op]; cbn [permitted kernel_call].
  - intros [[n ->] Hi]. destruct (n <? 1); [|done]. by intros [= <-].
  - intros (n & -> & _). destruct (n <? 0); [|done]. by intros [= <-].
  - intros [[l ->] Hi]. destruct l; [|done]. by intros [= <-].
  - intros _. case_decide; [done|]. by intros [= <-].
  - intros [_ Hi]. by intros [= <-].
  - intros _. by intros [= <-].
  - intros _. by intros [= <-].
  - intros [Ha _]. by intros [= <-].
Qed.

(** Every permitted call comes down to a call on the kernel, or to none. *)
Lemma sync_runs op s :
  int_enabled (kern s) = true → permitted idle op s →
  match kernel_call op s with
  | Some kc => ∀ k', run_call preemptive kc (kern s) = Some ((), k') → run_sync preemptive op s = Some ((), System k' (objects_after op s))
  | None => run_sync preemptive op s = Some ((), System (kern s) (objects_after op s))
  end.
Proof.
  destruct s as [k m]. cbn [kern]. intros Hi Hp. pose proof (with_int_true k Hi) as Hk.
  destruct op as [q|q|a|a|c|c|c|op]; cbn [permitted kernel_call objects_after run_sync objects kern] in *.
  - destruct Hp as [[n E] _]. rewrite E, (p_call q n k m E). destruct (n <? 1); [by intros k' ->|by rewrite Hk].
  - destruct Hp as (n & E & _). rewrite E, (v_call q n k m E). destruct (n <? 0); [by intros k' ->|by rewrite Hk].
  - destruct Hp as [[l E] _]. rewrite E, (lock_call a l k m E). destruct l; [by intros k' ->|by rewrite Hk].
  - rewrite unlock_call. case_decide; [by rewrite Hk|by intros k' ->].
  - intros k' E. cbn in E. unfold wait, begin_atomic, on_kernel, mbind, ST_bind. cbn.
    unfold mbind, ST_bind in E. cbn in E. by rewrite E.
  - intros k' E. unfold signal, begin_atomic, on_kernel, mbind, ST_bind. cbn.
    cbn in E. unfold mbind, ST_bind in E. cbn in E. by rewrite E.
  - intros k' E. unfold broadcast, begin_atomic, on_kernel, mbind, ST_bind. cbn.
    cbn in E. unfold mbind, ST_bind in E. cbn in E. by rewrite E.
  - intros k' E. unfold on_kernel, mbind. cbn. by rewrite E.
Qed.

(** What a permitted call of the running thread [c] does. *)
Definition queues_after (op : sync_call) (c : loc) (s : system) (q : waitq) : list loc :=
  match kernel_call op s with Some kc => effect_queues kc c (kern s) q | None => queue_of (kern s) q end.

Definition cards_after (op : sync_call) (c : loc) (s : system) : gmap loc card :=
  match kernel_call op s with Some kc => effect kc c (kern s) | None => cards (kern s) end.

Lemma sync_spec op s c :
  Valid idle (kern s) → chosen (_scheduler (kern s)) = Some c → permitted idle op s →
  ∃ s', run_sync preemptive op s = Some ((), s') ∧ Valid idle (kern s') ∧ Sound idle c (kern s) ∧
    objects s' = objects_after op s ∧ cards (kern s') = cards_after op c s ∧ ∀ q, queue_of (kern s') q = queues_after op c s q.
Proof.
  intros HV Hc Hp. pose proof (sync_runs op s (proj2 HV) Hp) as Hrun. unfold queues_after, cards_after.
  destruct (kernel_call op s) as [kc|] eqn:Ek.
  - destruct (valid_call preemptive idle kc (kern s) HV (kernel_call_allowed op s kc Hp Ek)) as (c' & k' & HS & E & HV' & Ec & Eq & _).
    assert (c' = c) as -> by (pose proof (current_chosen _ _ (proj2 HS)); congruence).
    exists (System k' (objects_after op s)). split; [by apply Hrun|done].
  - exists (System (kern s) (objects_after op s)). split; [done|]. split; [done|]. split; [|done].
    destruct HV as [[c' HS] _]. by assert (c' = c) as -> by (pose proof (current_chosen _ _ (proj2 HS)); congruence).
Qed.

Lemma trace_valid s0 tr s : Valid idle (kern s0) → trace preemptive idle s0 tr s → Valid idle (kern s).
Proof.
  intros HV. induction 1 as [|tr s c op s' Htr IH Hc Hp E]; [done|].
  destruct (sync_spec op s c IH Hc Hp) as (s1 & E1 & HV1 & _). rewrite E in E1. by injection E1 as <-.
Qed.

(** The synchronizer a call is for. *)
Definition target (op : sync_call) : option waitq :=
  match op with P q | V q => Some q | Lock a | Unlock a | Wait a | Signal a | Broadcast a => Some (true, a) | Call _ => None end.

Lemma other_synchronizer op s c q :
  Sound idle c (kern s) → permitted idle op s → target op ≠ Some q →
  objects_after op s !! q = objects s !! q ∧ queues_after op c s q = queue_of (kern s) q.
Proof.
  intros [[HF _] _] Hp Ht. unfold queues_after. destruct op as [x|x|a|a|a|a|a|op]; cbn [permitted target kernel_call objects_after] in *.
  - destruct Hp as [[n E] _]. rewrite E, lookup_insert_ne by congruence. split; [done|].
    destruct (n <? 1); cbn; [by rewrite decide_False by congruence|done].
  - destruct Hp as (n & E & _). rewrite E, lookup_insert_ne by congruence. split; [done|].
    destruct (n <? 0); cbn; [by rewrite decide_False by congruence|done].
  - destruct Hp as [[l E] _]. rewrite E, lookup_insert_ne by congruence. split; [done|].
    destruct l; cbn; [by rewrite decide_False by congruence|done].
  - case_decide; cbn; [by rewrite lookup_insert_ne by congruence|]. by rewrite decide_False by congruence.
  - cbn. by rewrite decide_False by congruence.
  - cbn. by rewrite decide_False by congruence.
  - cbn. by rewrite decide_False by congruence.
  - split; [done|]. destruct Hp as [Ha Hno]. destruct op; cbn; try done.
    apply without_absent. intros [_ Hw]%(filed_waiting _ _ HF). by apply Hno, (place_state _ _ _ Hw).
Qed.
End sync.

(** ** Semaphores *)

Fixpoint calls (f : sync_call → bool) (tr : list (loc * sync_call)) : Z :=
  match tr with [] => 0 | (_, op) :: tr' => (if f op then 1 else 0) + calls f tr' end.
Definition is_p (q : waitq) (op : sync_call) : bool := match op with P q' => bool_decide (q' = q) | _ => false end.
Definition is_v (q : waitq) (op : sync_call) : bool := match op with V q' => bool_decide (q' = q) | _ => false end.

Section semaphores.
Context (preemptive : bool) (idle : loc).
Implicit Types (s : system) (q : waitq).

(** The value and the waiters. *)
Definition counted (q : waitq) (n : Z) (s : system) : Prop :=
  objects s !! q = Some (Semaphore n) ∧ n < 2 ^ 31 ∧ Z.of_nat (length (queue_of (kern s) q)) = Z.max 0 (- n).

Lemma int32_wrap_id x : -2 ^ 31 ≤ x < 2 ^ 31 → int32_wrap x = x.
Proof. intros H. unfold int32_wrap. rewrite Z.mod_small; lia. Qed.

Lemma counted_step op s c q n s' :
  Sound idle c (kern s) → permitted idle op s → counted q n s →
  objects s' = objects_after op s → (∀ q, queue_of (kern s') q = queues_after op c s q) →
  counted q (n + (if is_v q op then 1 else 0) - (if is_p q op then 1 else 0)) s'.
Proof.
  intros HS Hp (Eo & Hn & Hl) Eobj Eq. pose proof (filed_waiting_bound _ _ q (proj1 (proj1 HS))) as Hb.
  assert (target op ≠ Some q → counted q n s') as Hother.
  { intros Ht. destruct (other_synchronizer idle op s c q HS Hp Ht) as [E1 E2]. unfold counted. by rewrite Eobj, E1, Eq, E2. }
  destruct (decide (target op = Some q)) as [Ht|Ht].
  2: { replace (n + _ - _) with n; [by apply Hother|].
       destruct op; cbn in *; try lia; rewrite bool_decide_false by congruence; lia. }
  unfold counted. rewrite Eq, Eobj. unfold queues_after.
  destruct op as [x|x|a|a|a|a|a|op]; cbn [target] in Ht; try done; injection Ht as <-; cbn [is_v is_p permitted kernel_call objects_after] in *.
  - rewrite bool_decide_true, Eo, lookup_insert_eq, int32_wrap_id by (done || lia). split; [do 2 f_equal; lia|]. split; [lia|].
    destruct (Z.ltb_spec n 1); cbn; [rewrite decide_True, queued_perm by done; cbn [length]|]; lia.
  - destruct Hp as (n' & E' & Hmax). assert (n' = n) as -> by congruence.
    rewrite bool_decide_true, Eo, lookup_insert_eq, int32_wrap_id by (done || lia). split; [do 2 f_equal; lia|]. split; [lia|].
    destruct (Z.ltb_spec n 0); cbn; [rewrite decide_True by done; destruct (queue_of (kern s) x); cbn [length tail] in *|]; lia.
  - destruct Hp as [[l E] _]. congruence.
  - destruct Hp as [l E]. congruence.
  - destruct Hp as [E _]. congruence.
  - congruence.
  - congruence.
Qed.

Lemma counted_trace s0 tr s q n :
  Valid idle (kern s0) → fresh s0 → objects s0 !! q = Some (Semaphore n) → trace preemptive idle s0 tr s →
  counted q (n + calls (is_v q) tr - calls (is_p q) tr) s.
Proof.
  intros HV Hf E. induction 1 as [|tr s c op s' Htr IH Hc Hp Er].
  - destruct (Hf q _ E) as [Eq Hn]. cbn. replace (n + 0 - 0) with n by lia. split; [done|]. rewrite Eq. cbn. lia.
  - pose proof (trace_valid preemptive idle s0 tr s HV Htr) as HVs.
    destruct (sync_spec preemptive idle op s c HVs Hc Hp) as (s1 & E1 & _ & HS & Eo & _ & Eq). rewrite Er in E1. injection E1 as <-.
    cbn [calls]. pose proof (counted_step op s c q _ s' HS Hp IH Eo Eq) as H.
    by replace (n + ((if is_v q op then 1 else 0) + calls (is_v q) tr) - ((if is_p q op then 1 else 0) + calls (is_p q) tr)) with
      (n + calls (is_v q) tr - calls (is_p q) tr + (if is_v q op then 1 else 0) - (if is_p q op then 1 else 0)) by lia.
Qed.
End semaphores.

(** ** Mutexes *)

(** The threads that have called [lock] and not [unlock] since. *)
Fixpoint claims (a : loc) (tr : list (loc * sync_call)) : list loc :=
  match tr with
  | [] => []
  | (c, op) :: tr' =>
      match op with
      | Lock b => if decide (b = a) then c :: claims a tr' else claims a tr'
      | Unlock b => if decide (b = a) then without c (claims a tr') else claims a tr'
      | _ => claims a tr'
      end
  end.

(** Nobody locks a mutex again before unlocking it, nor unlocks one he has not
    locked. *)
Fixpoint disciplined (a : loc) (tr : list (loc * sync_call)) : Prop :=
  match tr with
  | [] => True
  | (c, op) :: tr' =>
      match op with
      | Lock b => b = a → c ∉ claims a tr'
      | Unlock b => b = a → c ∈ claims a tr'
      | _ => True
      end ∧ disciplined a tr'
  end.

Section mutexes.
Context (preemptive : bool) (idle : loc).
Implicit Types (s : system) (a : loc).

(** Free, and nobody claims it; or held by one of those that claim it, while
    the others wait. *)
Definition held (a : loc) (l : list loc) (s : system) : Prop :=
  NoDup l ∧ ∃ b, objects s !! (true, a) = Some (Mutex b) ∧
    if b : bool then ∃ h, l ≡ₚ h :: queue_of (kern s) (true, a) else l = [] ∧ queue_of (kern s) (true, a) = [].

Lemma held_lock c s s' a l :
  Sound idle c (kern s) → held a l s → c ∉ l → objects s' = objects_after (Lock a) s →
  (∀ q, queue_of (kern s') q = queues_after (Lock a) c s q) → held a (c :: l) s'.
Proof.
  intros HS (Hn & b & Eb & Hb) Hc Eo Eq. split; [by constructor|]. exists true. rewrite Eo, Eq. split; [apply lookup_insert_eq|].
  unfold queues_after. cbn [kernel_call]. rewrite Eb. destruct b.
  - destruct Hb as [h Hh]. exists h. cbn [effect_queues]. rewrite decide_True, queued_perm, Hh by done. apply Permutation_swap.
  - destruct Hb as [-> ->]. by exists c.
Qed.

Lemma held_unlock c s s' a l :
  Sound idle c (kern s) → held a l s → c ∈ l → objects s' = objects_after (Unlock a) s →
  (∀ q, queue_of (kern s') q = queues_after (Unlock a) c s q) → held a (without c l) s'.
Proof.
  intros HS (Hn & b & Eb & Hb) Hc Eo Eq. pose proof HS as [[HF _] _].
  assert (c ∉ queue_of (kern s) (true, a)) as Hcq.
  { intros [_ Hw]%(filed_waiting _ _ HF). pose proof (sound_card idle c _ HS) as (? & ? & ? & E & _).
    by rewrite (whereabouts_lookup _ _ _ E) in Hw. }
  destruct b; [|destruct Hb as [-> _]; by apply elem_of_nil in Hc]. destruct Hb as [h Hh].
  assert (h = c) as -> by (rewrite Hh in Hc; apply elem_of_cons in Hc as [->|]; done).
  assert (without c l ≡ₚ queue_of (kern s) (true, a)) as Hl.
  { apply (Permutation_cons_inv (a := c)). by rewrite <- (without_members c l). }
  split; [by apply NoDup_filter|]. rewrite Eo, Eq. unfold queues_after. cbn [kernel_call objects_after].
  case_decide as Hq.
  - exists false. split; [apply lookup_insert_eq|]. split; [|done]. rewrite Hq in Hl. by apply Permutation_nil_r.
  - exists true. split; [done|]. cbn. rewrite decide_True by done.
    destruct (queue_of (kern s) (true, a)) as [|h r]; [done|]. by exists h.
Qed.

Lemma held_other op c s s' a l :
  Sound idle c (kern s) → permitted idle op s → held a l s → target op ≠ Some (true, a) → objects s' = objects_after op s →
  (∀ q, queue_of (kern s') q = queues_after op c s q) → held a l s'.
Proof.
  intros HS Hp (Hn & Hb) Ht Eo Eq. destruct (other_synchronizer idle op s c (true, a) HS Hp Ht) as [E1 E2].
  split; [done|]. by rewrite Eo, E1, Eq, E2.
Qed.

Lemma held_trace s0 tr s a :
  Valid idle (kern s0) → fresh s0 → (∃ b, objects s0 !! (true, a) = Some (Mutex b)) → disciplined a tr →
  trace preemptive idle s0 tr s → held a (claims a tr) s.
Proof.
  intros HV Hf [b0 E] Hd Htr. induction Htr as [|tr s c op s' Htr IH Hc Hp Er].
  - split; [constructor|]. destruct (Hf _ _ E) as [Eq ->]. by exists false.
  - destruct Hd as [Hop Hd]. specialize (IH Hd). pose proof (trace_valid preemptive idle s0 tr s HV Htr) as HVs.
    destruct (sync_spec preemptive idle op s c HVs Hc Hp) as (s1 & E1 & _ & HS & Eo & _ & Eq). rewrite Er in E1. injection E1 as <-.
    destruct (decide (target op = Some (true, a))) as [Ht|Ht].
    + pose proof IH as (_ & b & Eb & _). destruct op as [x|x|x|x|x|x|x|op]; cbn [target] in Ht; try done; injection Ht as ->;
        cbn [permitted claims] in *; rewrite ?decide_True by done; [naive_solver|naive_solver| | |naive_solver..].
      * apply (held_lock c s); [done|done|by apply Hop|done|done].
      * apply (held_unlock c s); [done|done|by apply Hop|done|done].
    + assert (claims a ((c, op) :: tr) = claims a tr) as -> by (destruct op; cbn in *; try done; by rewrite decide_False by congruence).
      by apply (held_other op c s).
Qed.
End mutexes.

(** ** Properties *)

(** C34 A call of a synchronizer returns.  Whatever has been called before, a
    permitted call passes every assertion on the lock, does no list operation
    out of place, and leaves a valid kernel with interrupts enabled. *)
Theorem synchronizers_return preemptive idle s0 tr s op :
  Valid idle (kern s0) → trace preemptive idle s0 tr s → permitted idle op s →
  ∃ s', run_sync preemptive op s = Some ((), s') ∧ Valid idle (kern s') ∧ int_enabled (kern s') = true.
Proof.
  intros HV Htr Hp. pose proof (trace_valid preemptive idle s0 tr s HV Htr) as HVs.
  destruct HVs as [[c HS] Hi]. pose proof (current_chosen _ _ (proj2 HS)) as Hc.
  destruct (sync_spec preemptive idle op s c (conj (ex_intro _ c HS) Hi) Hc Hp) as (s' & E & HV' & _).
  exists s'. split_and!; [done|done|apply HV'].
Qed.

(** C4 A semaphore lets through as many as it has units.  After any history of
    calls, of which [Ps] were p and [Vs] were v, the value is the initial one
    plus [Vs] minus [Ps], and the callers of p still waiting are as many as
    the value is below zero: the calls of p that have come through are the
    smaller of [Ps] and the initial value plus [Vs]. *)
Theorem semaphore_counts preemptive idle s0 tr s q n :
  Valid idle (kern s0) → fresh s0 → objects s0 !! q = Some (Semaphore n) → trace preemptive idle s0 tr s →
  let Ps := calls (is_p q) tr in
  let Vs := calls (is_v q) tr in
  let waiting := Z.of_nat (length (queue_of (kern s) q)) in
  objects s !! q = Some (Semaphore (n + Vs - Ps)) ∧ waiting = Z.max 0 (Ps - Vs - n) ∧ Ps - waiting = Z.min Ps (n + Vs).
Proof.
  intros HV Hf E Htr Ps Vs waiting. destruct (counted_trace preemptive idle s0 tr s q n HV Hf E Htr) as (Eo & _ & Hl).
  fold Ps Vs waiting in Eo, Hl. split; [done|]. lia.
Qed.

(** C3 A mutex excludes.  After any history in which nobody locks it twice or
    unlocks it without having locked it, either the mutex is free and nobody
    claims it, or exactly one of the threads that have called lock and not
    unlock holds it, and the others are the ones that wait in its queue. *)
Theorem mutual_exclusion preemptive idle s0 tr s a b0 :
  Valid idle (kern s0) → fresh s0 → objects s0 !! (true, a) = Some (Mutex b0) → disciplined a tr →
  trace preemptive idle s0 tr s →
  let waiting := queue_of (kern s) (true, a) in
  (objects s !! (true, a) = Some (Mutex false) ∧ claims a tr = [] ∧ waiting = []) ∨
  (objects s !! (true, a) = Some (Mutex true) ∧
   ∃ h, claims a tr ≡ₚ h :: waiting ∧ ∀ t, t ∈ claims a tr → t ∉ waiting → t = h).
Proof.
  intros HV Hf E Hd Htr waiting.
  destruct (held_trace preemptive idle s0 tr s a HV Hf (ex_intro _ b0 E) Hd Htr) as (Hn & [] & Eb & Hb).
  - right. split; [done|]. destruct Hb as [h Hh]. exists h. split; [done|]. intros t Ht Hw. rewrite Hh in Ht.
    by apply elem_of_cons in Ht as [->|?].
  - by left.
Qed.

(** A condition variable wakes in order.  [wait] always makes the caller
    wait, behind the waiters of its rank and before those of greater rank;
    [signal] makes the first waiter ready and [broadcast] all of them, and
    nobody else moves; with no waiter nothing happens and nothing is kept. *)
Theorem condition_wakes_in_order preemptive idle s a c :
  Valid idle (kern s) → chosen (_scheduler (kern s)) = Some c → objects s !! (true, a) = Some Condition →
  let waiting := queue_of (kern s) (true, a) in
  (c ≠ idle → ∃ s', wait a s = Some ((), s') ∧ Valid idle (kern s') ∧ state_of (kern s') c = Some WAITING ∧
     queue_of (kern s') (true, a) = place (rank_in (kern s)) c waiting) ∧
  (∃ s', signal preemptive a s = Some ((), s') ∧ Valid idle (kern s') ∧
     queue_of (kern s') (true, a) = tail waiting ∧ (waiting = [] → cards (kern s') = cards (kern s)) ∧
     ∀ t, head waiting = Some t → ready_state (state_of (kern s') t)) ∧
  (∃ s', broadcast preemptive a s = Some ((), s') ∧ Valid idle (kern s') ∧
     queue_of (kern s') (true, a) = [] ∧ ∀ t, t ∈ waiting → ready_state (state_of (kern s') t)).
Proof.
  intros HV Hc Eo waiting. split_and!.
  - intros Hci. destruct (sync_spec preemptive idle (Wait a) s c HV Hc) as (s' & E & HV' & HS & _ & Ec & Eq).
    { split; [done|]. unfold idle_rests. congruence. }
    exists s'. split; [exact E|]. split; [done|]. split.
    + apply (place_state _ _ (In_queue (true, a))). unfold whereabouts, place_of. rewrite Ec. cbn.
      pose proof (sound_card idle c _ HS) as (? & ? & ? & _ & Ecc & _). by rewrite lookup_alter_eq, Ecc.
    + rewrite Eq. cbn. by rewrite decide_True.
  - destruct (sync_spec preemptive idle (Signal a) s c HV Hc Eo) as (s' & E & HV' & HS & _ & Ec & Eq).
    exists s'. split; [exact E|]. split; [done|]. split; [rewrite Eq; cbn; by rewrite decide_True|].
    cbn in Ec. unfold waiting. destruct (queue_of (kern s) (true, a)) as [|t l] eqn:El; [done|]. split; [done|].
    intros t' [= <-]. apply (place_state _ _ In_scheduler). unfold whereabouts, place_of. rewrite Ec, lookup_alter_eq.
    assert (whereabouts (kern s) t = Some (In_queue (true, a))) as Hw by (apply (filed_waiting _ _ (proj1 (proj1 HS))); rewrite El; by left).
    unfold whereabouts, place_of in Hw. by destruct (cards (kern s) !! t).
  - destruct (sync_spec preemptive idle (Broadcast a) s c HV Hc Eo) as (s' & E & HV' & HS & _ & Ec & Eq).
    exists s'. split; [exact E|]. split; [done|]. split; [rewrite Eq; cbn; by rewrite decide_True|].
    intros t Ht. apply (place_state _ _ In_scheduler). unfold whereabouts. rewrite Ec. cbn. apply moved_all_in; [done|].
    apply (filed_waiting _ _ (proj1 (proj1 HS))) in Ht as [_ Hw]. by eapply place_known.
Qed.

(** ** Examples *)

(** Main (1), idle (2) and a worker (3), with a semaphore of one unit (10), a
    mutex (11) and a condition variable (12). *)
Definition three_synchronizers : system :=
  System with_worker {[(true, 10%positive) := Semaphore 1; (true, 11%positive) := Mutex false; (true, 12%positive) := Condition]}.

Lemma three_fresh : fresh three_synchronizers.
Proof.
  intros q o E. split; [done|]. cbn [objects three_synchronizers] in E. rewrite !lookup_insert_Some, lookup_singleton_Some in E.
  destruct E as [[_ <-]|[_ [[_ <-]|[_ [_ <-]]]]]; [split; lia|done|done].
Qed.

Definition after_sync (ops : list sync_call) (s : system) : system :=
  foldl (λ s op, from_option snd s (run_sync true op s)) s ops.

(** Main takes the unit and then waits for another. *)
Lemma two_p_trace :
  trace true 2 three_synchronizers [(1%positive, P (true, 10%positive)); (1%positive, P (true, 10%positive))]
    (after_sync [P (true, 10%positive); P (true, 10%positive)] three_synchronizers).
Proof.
  apply (trace_call true 2 _ _ (after_sync [P (true, 10%positive)] three_synchronizers)).
  - apply (trace_call true 2 _ _ three_synchronizers).
    + apply trace_start.
    + done.
    + split; [by eexists|done].
    + vm_compute. reflexivity.
  - done.
  - split; [by eexists|done].
  - vm_compute. reflexivity.
Qed.

Example synchronizers_return_witness :
  ∃ s', run_sync true (V (true, 10%positive)) (after_sync [P (true, 10%positive); P (true, 10%positive)] three_synchronizers) = Some ((), s').
Proof.
  destruct (synchronizers_return true 2 three_synchronizers _ _ (V (true, 10%positive)) with_worker_valid two_p_trace) as (s' & E & _).
  - by eexists.
  - by exists s'.
Defined.

Example semaphore_counts_witness :
  queue_of (kern (after_sync [P (true, 10%positive); P (true, 10%positive)] three_synchronizers)) (true, 10%positive) ≠ [].
Proof.
  destruct (semaphore_counts true 2 three_synchronizers _ _ (true, 10%positive) 1 with_worker_valid three_fresh eq_refl two_p_trace) as (_ & Hw & _).
  intros E. rewrite E in Hw. vm_compute in Hw. discriminate.
Defined.

(** Main locks the mutex and sleeps on the semaphore; the worker waits for the
    mutex. *)
Definition contended : list sync_call := [Lock 11; P (true, 10%positive); P (true, 10%positive); Lock 11].
Definition contended_history : list (loc * sync_call) :=
  [(3%positive, Lock 11); (1%positive, P (true, 10%positive)); (1%positive, P (true, 10%positive)); (1%positive, Lock 11)].

Lemma contended_trace : trace true 2 three_synchronizers contended_history (after_sync contended three_synchronizers).
Proof.
  apply (trace_call true 2 _ _ (after_sync (take 3 contended) three_synchronizers)).
  - apply (trace_call true 2 _ _ (after_sync (take 2 contended) three_synchronizers)).
    + apply (trace_call true 2 _ _ (after_sync (take 1 contended) three_synchronizers)).
      * apply (trace_call true 2 _ _ three_synchronizers); [apply trace_start|done|split; [by eexists|done]|vm_compute; reflexivity].
      * done.
      * split; [by eexists|done].
      * vm_compute. reflexivity.
    + done.
    + split; [by eexists|done].
    + vm_compute. reflexivity.
  - done.
  - split; [by eexists|done].
  - vm_compute. reflexivity.
Qed.

Example mutual_exclusion_witness :
  ∃ h, claims 11 contended_history ≡ₚ h :: queue_of (kern (after_sync contended three_synchronizers)) (true, 11%positive).
Proof.
  destruct (mutual_exclusion true 2 three_synchronizers contended_history (after_sync contended three_synchronizers) 11 false) as [(_ & E & _)|(_ & h & Hh & _)].
  - exact with_worker_valid.
  - exact three_fresh.
  - done.
  - split; [|split; [done|split; [done|split; [|done]]]].
    + intros _. change (3%positive ∉ [1%positive]). by rewrite list_elem_of_singleton.
    + intros _. apply not_elem_of_nil.
  - exact contended_trace.
  - discriminate E.
  - by exists h.
Defined.

Example condition_wakes_in_order_witness :
  ∃ s', wait 12 three_synchronizers = Some ((), s') ∧ state_of (kern s') 1%positive = Some WAITING.
Proof.
  destruct (condition_wakes_in_order true 2 three_synchronizers 12 1) as [Hw _].
  - exact with_worker_valid.
  - done.
  - done.
  - destruct Hw as (s' & E & _ & Es & _); [done|]. by exists s'.
Defined.

(** A thread deleted while it waits takes the unit of the next [v] with it:
    nobody has the semaphore and no [p] comes through. *)
Example deleted_waiter_loses_unit :
  let s := after_sync [P (true, 10%positive); P (true, 10%positive); Call (Delete 1); V (true, 10%positive)] three_synchronizers in
  objects s !! (true, 10%positive) = Some (Semaphore 0) ∧ queue_of (kern s) (true, 10%positive) = [] ∧
  state_of (kern s) 1%positive = None.
Proof. vm_compute. done. Qed.
