(* ===== verification/RtSemaphore.v ===== *)
(** * Real-time semaphores (include/synchronizer.h, src/api/semaphore.cc)

    Semaphore_PIP, Semaphore_IPCP and Semaphore_PCP over Semaphore_Template:
    a semaphore with an owner, the rank the owner had, and a ceiling, which is
    what the constructor is given (it stores it through a pointer it never
    sets: it has the value it was given only if that write does no harm).
    [p] and [v] call [setPriority] of a thread between [begin_atomic]
    and the operation on the semaphore; what follows a context switch in [p]
    is [end_atomic], which finds interrupts enabled.  As in Thread.v there is
    one processor, where the lock is the interrupt flag. *)

From stdpp Require Import base numbers list option gmap sorting.
From S2P Require Import Prelude StateM DList OrderedList Sched Thread ThreadInv ThreadOps ThreadApi ThreadCalls Sync.
#[local] Set Warnings "-clear-no-such-hyp".

(** ** State *)

Record rt := Rt { _owner : option loc; _priority : Z; _ceiling : Z }.

Record rt_system := RtSystem { base : system; rts : gmap loc rt }.

Inductive protocol := PIP | IPCP | PCP.

(** ** Methods *)

Abbreviation R := (ST rt_system).

Definition on_system {A} (c : ST system A) : R A := λ s, '(a, b) ← c (base s); Some (a, RtSystem b (rts s)).
Definition rt_at (a : loc) : R rt := λ s, x ← rts s !! a; Some (x, s).
Definition set_rt (a : loc) (x : rt) : R unit := λ s, Some ((), RtSystem (base s) (<[a := x]> (rts s))).

Definition owner (a : loc) : R (option loc) := x ← rt_at a; mret (_owner x).
Definition set_owner (a : loc) (o : option loc) : R unit := x ← rt_at a; set_rt a (Rt o (_priority x) (_ceiling x)).
Definition rt_priority (a : loc) : R Z := x ← rt_at a; mret (_priority x).
Definition set_rt_priority (a : loc) (r : Z) : R unit := x ← rt_at a; set_rt a (Rt (_owner x) r (_ceiling x)).
Definition ceiling (a : loc) : R Z := x ← rt_at a; mret (_ceiling x).

Definition currentThread : R loc := on_system (on_kernel running).
Definition thread_priority (t : loc) : R Z := on_system (on_kernel (at_ _rank t)).
Definition thread_setPriority (t : loc) (r : Z) : R unit := on_system (on_kernel (setPriority t r)).
(** [nextThread()] *)
Definition nextThread (a : loc) : R (option loc) := on_system (on_kernel (read (λ k, head (queue_of k (true, a))))).
Definition owner_thread (a : loc) : R loc := o ← owner a; deref o.

(** [toCeiling()] of Semaphore_IPCP and of Semaphore_PCP. *)
Definition ipcp_toCeiling (a : loc) : R unit :=
  o ← owner_thread a; r ← thread_priority o; _ ← set_rt_priority a r;
  o ← owner_thread a; c ← ceiling a; thread_setPriority o c.
Definition pcp_toCeiling (a : loc) : R unit :=
  c ← ceiling a; o ← owner_thread a; r ← thread_priority o;
  if c <? r then o ← owner_thread a; c ← ceiling a; thread_setPriority o c else mret ().

(** [priority(owner()->priority())] *)
Definition save_priority (a : loc) : R unit := o ← owner_thread a; r ← thread_priority o; set_rt_priority a r.
Definition take_ownership (a : loc) : R unit := c ← currentThread; set_owner a (Some c).
Definition disown (a : loc) : R unit := _ ← set_owner a None; set_rt_priority a 0.

Section preemptive.
Context (preemptive : bool).

Definition pip_p (a : loc) : R unit :=
  _ ← on_system begin_atomic;
  o ← owner a;
  _ ← (match o with
       | None => _ ← take_ownership a; save_priority a
       | Some o =>
           c ← currentThread; rc ← thread_priority c; ro ← thread_priority o;
           if rc <? ro then rc ← thread_priority c; thread_setPriority o rc else mret ()
       end);
  _ ← on_system (p (true, a) true);
  on_system end_atomic.

Definition pip_v (a : loc) : R unit :=
  _ ← on_system begin_atomic;
  o ← owner a;
  c ← currentThread;
  _ ← (if decide (o = Some c) then
         r ← rt_priority a;
         _ ← thread_setPriority c r;
         n ← nextThread a;
         match n with
         | Some t => _ ← set_owner a (Some t); save_priority a
         | None => disown a
         end
       else mret ());
  _ ← on_system (v preemptive (true, a) true);
  on_system end_atomic.

Definition ipcp_p (a : loc) : R unit :=
  _ ← on_system begin_atomic;
  o ← owner a;
  _ ← (match o with None => _ ← take_ownership a; ipcp_toCeiling a | Some _ => mret () end);
  _ ← on_system (p (true, a) true);
  on_system end_atomic.

Definition ipcp_v (a : loc) : R unit :=
  _ ← on_system begin_atomic;
  o ← owner a;
  c ← currentThread;
  _ ← (if decide (o = Some c) then
         o ← owner_thread a;
         r ← rt_priority a;
         _ ← thread_setPriority o r;
         n ← nextThread a;
         match n with
         | Some t => _ ← set_owner a (Some t); ipcp_toCeiling a
         | None => disown a
         end
       else mret ());
  _ ← on_system (v preemptive (true, a) true);
  on_system end_atomic.

Definition pcp_p (a : loc) : R unit :=
  _ ← on_system begin_atomic;
  o ← owner a;
  _ ← (match o with None => _ ← take_ownership a; save_priority a | Some _ => pcp_toCeiling a end);
  _ ← on_system (p (true, a) true);
  on_system end_atomic.

Definition pcp_v (a : loc) : R unit :=
  _ ← on_system begin_atomic;
  o ← owner a;
  c ← currentThread;
  _ ← (if decide (o = Some c) then
         o ← owner_thread a;
         r ← rt_priority a;
         _ ← thread_setPriority o r;
         n ← nextThread a;
         match n with
         | Some t => _ ← set_owner a (Some t); save_priority a
         | None => disown a
         end
       else mret ());
  _ ← on_system (v preemptive (true, a) true);
  on_system end_atomic.

Definition rt_p (proto : protocol) : loc → R unit := match proto with PIP => pip_p | IPCP => ipcp_p | PCP => pcp_p end.
Definition rt_v (proto : protocol) : loc → R unit := match proto with PIP => pip_v | IPCP => ipcp_v | PCP => pcp_v end.
End preemptive.

(** ** Rules *)

Lemma seq_fails {St A B} (c : ST St A) (k : A → ST St B) s : wp c (λ a s', k a s' = None) s → (c ≫= k) s = None.
Proof. unfold wp, mbind, ST_bind. destruct (c s) as [[a s']|]; [done|]. done. Qed.

Lemma first_fails {St A B} (c : ST St A) (k : A → ST St B) s : c s = None → (c ≫= k) s = None.
Proof. unfold mbind, ST_bind. by intros ->. Qed.

Lemma on_system_fails {A} (c : ST system A) s : c (base s) = None → on_system c s = None.
Proof. unfold on_system, mbind. by intros ->. Qed.

Section rules.
Implicit Types (s : rt_system) (a t c : loc).

Lemma wp_on_system {A} (c : ST system A) (Q : A → rt_system → Prop) s :
  wp c (λ u b, Q u (RtSystem b (rts s))) (base s) → wp (on_system c) Q s.
Proof. unfold wp, on_system, mbind. destruct (c (base s)) as [[u b]|]; done. Qed.

Lemma wp_on_kernel {A} (c : T A) (Q : A → system → Prop) b :
  wp c (λ u k, Q u (System k (objects b))) (kern b) → wp (on_kernel c) Q b.
Proof. unfold wp, on_kernel, mbind. destruct (c (kern b)) as [[u k]|]; done. Qed.

Lemma wp_rt_at a x (Q : rt → rt_system → Prop) s : rts s !! a = Some x → Q x s → wp (rt_at a) Q s.
Proof. intros E HQ. unfold wp, rt_at. by rewrite E. Qed.

Lemma wp_set_rt a x (Q : unit → rt_system → Prop) s : Q () (RtSystem (base s) (<[a := x]> (rts s))) → wp (set_rt a x) Q s.
Proof. done. Qed.

Lemma wp_thread_priority t (Q : Z → rt_system → Prop) s :
  is_Some (threads (kern (base s)) !! t) → Q (rank_in (kern (base s)) t) s → wp (thread_priority t) Q s.
Proof.
  intros [h E] HQ. apply wp_on_system, wp_on_kernel, (wp_at _ _ h); [done|]. unfold rank_in in HQ. rewrite E in HQ. by destruct s as [[]].
Qed.

Lemma wp_currentThread c (Q : loc → rt_system → Prop) s : chosen (_scheduler (kern (base s))) = Some c → Q c s → wp currentThread Q s.
Proof. intros E HQ. apply wp_on_system, wp_on_kernel, (wp_running c); [done|]. by destruct s as [[]]. Qed.

(** [setPriority] leaves interrupts enabled, whatever the lock was. *)
Definition reranked (t : loc) (r : Z) (k : kernel) : kernel := with_int true (with_threads (alter (set_thread_rank r) t) k).

Lemma wp_thread_setPriority t r (Q : unit → rt_system → Prop) s :
  is_Some (threads (kern (base s)) !! t) →
  Q () (RtSystem (System (reranked t r (kern (base s))) (objects (base s))) (rts s)) → wp (thread_setPriority t r) Q s.
Proof. intros Hk HQ. apply wp_on_system, wp_on_kernel. apply wp_seq, wp_change, wp_seq, wp_update; [done|]. apply wp_change. exact HQ. Qed.

(** The locked operations of the semaphore. *)
Lemma wp_p_locked q n k m (Q : unit → system → Prop) :
  m !! q = Some (Semaphore n) → 1 ≤ n < 2 ^ 31 → Q () (System k (<[q := Semaphore (n - 1)]> m)) → wp (p q true) Q (System k m).
Proof.
  intros E Hn HQ. unfold p, fdec, fadd, object_at, wp, mbind, ST_bind. cbn. rewrite E. cbn. destruct (Z.ltb_spec n 1); [lia|].
  unfold wp. cbn. by rewrite int32_wrap_id by lia.
Qed.

Lemma wp_v_locked preemptive q n k m (Q : unit → system → Prop) :
  m !! q = Some (Semaphore n) → 0 ≤ n < 2 ^ 31 - 1 → Q () (System k (<[q := Semaphore (n + 1)]> m)) → wp (v preemptive q true) Q (System k m).
Proof.
  intros E Hn HQ. unfold v, finc, fadd, object_at, wp, mbind, ST_bind. cbn. rewrite E. cbn. destruct (Z.ltb_spec n 0); [lia|].
  unfold wp. cbn. by rewrite int32_wrap_id by lia.
Qed.

(** [assert(locked())] in [sleep] and [wakeup]. *)
Lemma p_needs_lock q n k m : m !! q = Some (Semaphore n) → n < 1 → int_enabled k = true → p q true (System k m) = None.
Proof.
  intros E Hn Hi. unfold p, fdec, fadd, object_at, mbind, ST_bind. cbn. rewrite E. cbn. destruct (Z.ltb_spec n 1); [|lia].
  unfold on_kernel, sleep, locked, mbind, ST_bind. cbn. by rewrite Hi.
Qed.

Lemma v_needs_lock preemptive q n k m : m !! q = Some (Semaphore n) → n < 0 → int_enabled k = true → v preemptive q true (System k m) = None.
Proof.
  intros E Hn Hi. unfold v, finc, fadd, object_at, mbind, ST_bind. cbn. rewrite E. cbn. destruct (Z.ltb_spec n 0); [|lia].
  unfold on_kernel, wakeup, locked, mbind, ST_bind. cbn. by rewrite Hi.
Qed.
End rules.

(** One statement of a method; what is read is computed. *)
Ltac rt_step :=
  cbn beta iota;
  lazymatch goal with
  | |- (mbind _ (on_system (p _ _))) _ = None => apply first_fails, on_system_fails
  | |- (mbind _ (on_system (v _ _ _))) _ = None => apply first_fails, on_system_fails
  | |- (mbind _ _) _ = None => apply seq_fails
  | |- wp (mbind _ _) _ _ => apply wp_seq
  | |- wp (mret _) _ _ => apply wp_ret
  | |- wp (on_system begin_atomic) _ _ => apply wp_on_system, wp_on_kernel, wp_change; cbn [base rts kern objects]
  | |- wp (on_system end_atomic) _ _ => apply wp_on_system, wp_on_kernel, wp_change; cbn [base rts kern objects]
  | |- wp (rt_at _) _ _ => eapply wp_rt_at; [cbn [base rts]; rewrite ?lookup_insert_eq; eassumption || reflexivity|cbn [_owner _priority _ceiling]]
  | |- wp (set_rt _ _) _ _ => apply wp_set_rt; cbn [base rts]; rewrite ?insert_insert_eq; cbn [_owner _priority _ceiling]
  | |- wp (deref (Some _)) _ _ => apply wp_deref
  | |- wp currentThread _ _ => eapply wp_currentThread; [eassumption|]
  | |- wp (thread_priority _) _ _ => apply wp_thread_priority; [cbn; rewrite ?lookup_alter_is_Some; by eauto|cbn [base kern]]
  | |- wp (thread_setPriority _ _) _ _ => apply wp_thread_setPriority; [cbn; rewrite ?lookup_alter_is_Some; by eauto|cbn [base rts kern objects]]
  | |- wp (owner _) _ _ => unfold owner
  | |- wp (set_owner _ _) _ _ => unfold set_owner
  | |- wp (rt_priority _) _ _ => unfold rt_priority
  | |- wp (set_rt_priority _ _) _ _ => unfold set_rt_priority
  | |- wp (ceiling _) _ _ => unfold ceiling
  | |- wp (owner_thread _) _ _ => unfold owner_thread
  | |- wp (ipcp_toCeiling _) _ _ => unfold ipcp_toCeiling
  | |- wp (pcp_toCeiling _) _ _ => unfold pcp_toCeiling
  | |- wp (save_priority _) _ _ => unfold save_priority
  | |- wp (take_ownership _) _ _ => unfold take_ownership
  | |- wp (disown _) _ _ => unfold disown
  end.

Section protocols.
Context (preemptive : bool) (idle : loc).
Implicit Types (s : rt_system) (a t c : loc).

(** The rank of the running thread is changed with interrupts enabled after. *)
Lemma reranked_valid c r k :
  Sound idle c k → c ≠ idle → Valid idle (reranked c r (with_int false k)) ∧ rank_in (reranked c r (with_int false k)) c = r.
Proof.
  intros HS Hci. destruct (sound_card idle c k HS) as (? & ? & ? & E & _).
  assert (setPriority c r k = Some ((), reranked c r (with_int false k))) as Er.
  { unfold setPriority, lock, unlock, change, update, mbind, ST_bind. cbn. by rewrite E. }
  assert (wp (setPriority c r) (λ _ k', Valid idle k') k) as Hwp.
  { apply (setPriority_spec idle c r c); [done|by eexists|done|by left|done]. }
  split; [exact (wp_result _ _ _ _ _ Er Hwp)|]. unfold rank_in. cbn. by rewrite lookup_alter_eq, E.
Qed.

Section call.
Context (a c : loc) (k : kernel) (m : gmap waitq synchronizer) (r : gmap loc rt) (x : rt) (n : Z).
Context (HS : Sound idle c k) (Ex : r !! a = Some x) (En : m !! (true, a) = Some (Semaphore n)).

Lemma running_known : chosen (_scheduler (with_int false k)) = Some c ∧ is_Some (threads (with_int false k) !! c).
Proof.
  destruct (sound_card idle c k HS) as (? & ? & ? & E & _). split; [exact (current_chosen _ _ (proj2 HS))|by eexists].
Qed.

Lemma free_p proto (Q : unit → rt_system → Prop) :
  _owner x = None → 1 ≤ n < 2 ^ 31 →
  (let k' := match proto with IPCP => reranked c (_ceiling x) (with_int false k) | _ => with_int false k end in
   Q () (RtSystem (System (with_int true k') (<[(true, a) := Semaphore (n - 1)]> m)) (<[a := Rt (Some c) (rank_in k c) (_ceiling x)]> r))) →
  wp (rt_p proto a) Q (RtSystem (System k m) r).
Proof.
  intros Ho Hn HQ. destruct running_known as [Hc Hk]. destruct x as [o pr ce]. cbn in Ho, HQ. subst o.
  destruct proto; cbn [rt_p]; unfold pip_p, ipcp_p, pcp_p; cbn in HQ; repeat rt_step;
    (apply wp_on_system, (wp_p_locked _ n); [done|lia|]); rt_step; exact HQ.
Qed.

Lemma release_v proto (Q : unit → rt_system → Prop) :
  _owner x = Some c → 0 ≤ n < 2 ^ 31 - 1 → queue_of k (true, a) = [] →
  Q () (RtSystem (System (with_int true (reranked c (_priority x) (with_int false k))) (<[(true, a) := Semaphore (n + 1)]> m))
    (<[a := Rt None 0 (_ceiling x)]> r)) →
  wp (rt_v preemptive proto a) Q (RtSystem (System k m) r).
Proof.
  intros Ho Hn Hq HQ. destruct running_known as [Hc Hk]. destruct x as [o pr ce]. cbn in Ho, HQ. subst o.
  destruct proto; cbn [rt_v]; unfold pip_v, ipcp_v, pcp_v; do 4 rt_step; repeat rt_step; rewrite decide_True by done; repeat rt_step;
    (apply wp_on_system, wp_on_kernel, wp_read; cbn [base kern];
     change (queue_of (reranked c pr (with_int false k)) (true, a)) with (queue_of k (true, a)); rewrite Hq; cbn [head]);
    repeat rt_step; (apply wp_on_system, (wp_v_locked _ _ n); [done|lia|]); rt_step; exact HQ.
Qed.

Lemma contended_v proto t l :
  _owner x = Some c → n < 0 → queue_of k (true, a) = t :: l → rt_v preemptive proto a (RtSystem (System k m) r) = None.
Proof.
  intros Ho Hn Hq. destruct running_known as [Hc Hk]. destruct x as [o pr ce]. cbn in Ho. subst o.
  assert (is_Some (threads (with_int false k) !! t)) as Hkt.
  { pose proof (filed_waiting _ _ (proj1 (proj1 HS)) (true, a) t) as Hw. rewrite Hq in Hw. destruct Hw as [Hw _].
    destruct Hw as [_ (h & E & _)%whereabouts_known]; [by left|by eexists]. }
  destruct proto; cbn [rt_v]; unfold pip_v, ipcp_v, pcp_v; do 4 rt_step; repeat rt_step; rewrite decide_True by done; repeat rt_step;
    (apply wp_on_system, wp_on_kernel, wp_read; cbn [base kern];
     change (queue_of (reranked c pr (with_int false k)) (true, a)) with (queue_of k (true, a)); rewrite Hq; cbn [head]);
    repeat rt_step; by apply (v_needs_lock _ _ n).
Qed.

(** A thread that contends changes the rank of the owner and then waits. *)
Lemma contended_p proto o :
  _owner x = Some o → is_Some (threads k !! o) → n < 1 →
  match proto with PIP => rank_in k c < rank_in k o | PCP => _ceiling x < rank_in k o | IPCP => False end →
  rt_p proto a (RtSystem (System k m) r) = None.
Proof.
  intros Ho Hko Hn Hr. destruct running_known as [Hc Hk]. destruct x as [o' pr ce]. cbn in Ho, Hr. subst o'.
  change (is_Some (threads (with_int false k) !! o)) in Hko.
  destruct proto; cbn [rt_p]; unfold pip_p, pcp_p; [|done|]; repeat rt_step;
    change (rank_in (with_int false k)) with (rank_in k); rewrite (proj2 (Z.ltb_lt _ _) Hr); repeat rt_step; by apply (p_needs_lock _ n).
Qed.

(** With the immediate ceiling, and with inheritance from a thread that does
    not outrank the owner, the caller just waits. *)
Lemma waiting_p proto o (Q : unit → rt_system → Prop) :
  _owner x = Some o → is_Some (threads k !! o) → - 2 ^ 31 < n < 1 → c ≠ idle →
  match proto with PIP => rank_in k o ≤ rank_in k c | PCP => rank_in k o ≤ _ceiling x | IPCP => True end →
  (∀ k', Valid idle k' → cards k' = alter (move (In_queue (true, a))) c (cards k) →
    Q () (RtSystem (System k' (<[(true, a) := Semaphore (n - 1)]> m)) r)) →
  wp (rt_p proto a) Q (RtSystem (System k m) r).
Proof.
  intros Ho Hko Hn Hci Hr HQ. destruct running_known as [Hc Hk]. destruct x as [o' pr ce]. cbn in Ho, Hr. subst o'.
  change (is_Some (threads (with_int false k) !! o)) in Hko.
  assert (∀ P : unit → rt_system → Prop, (∀ k', Valid idle k' → cards k' = alter (move (In_queue (true, a))) c (cards k) →
    P () (RtSystem (System k' (<[(true, a) := Semaphore (n - 1)]> m)) r)) →
    wp (on_system (p (true, a) true)) P (RtSystem (System (with_int false k) m) r)) as Hp.
  { intros P HP. apply wp_on_system. unfold p, fdec, fadd, object_at, wp, mbind, ST_bind. cbn. rewrite En. cbn.
    destruct (Z.ltb_spec n 1); [|lia]. rewrite int32_wrap_id by lia. apply wp_on_kernel. cbn [kern objects].
    apply (sleep_spec idle (true, a) c); [by apply sound_int|done|done|]. intros k' HV Ec _ _. by apply HP. }
  assert (∀ k', Valid idle k' → with_int true k' = k') as Hid by (intros k' [_ Hi]; by apply with_int_true).
  destruct proto; cbn [rt_p]; unfold pip_p, ipcp_p, pcp_p; repeat rt_step;
    change (rank_in (with_int false k)) with (rank_in k); try rewrite (proj2 (Z.ltb_ge _ _) Hr); repeat rt_step;
    apply Hp; intros k' HV Ec; rt_step; rewrite Hid by done; by apply HQ.
Qed.
End call.
End protocols.

(** ** What they do on one processor *)

(** The real-time semaphores hold their owner's rank, but not when they are
    contended.  A free one makes the caller its owner and keeps its rank,
    which the immediate ceiling then raises; released with nobody waiting it
    is free again and the rank is back.  But [setPriority] unlocks: when the
    owner releases it with a thread waiting, or a thread that outranks the
    owner comes (with inheritance; with the ceiling protocol, when the
    ceiling outranks the owner), [wakeup] and [sleep] find interrupts
    enabled and their assertion on the lock fails; the model ends there
    ([assert] in Thread.v), where the program prints and goes on without the
    lock.  The other callers wait. *)
Theorem rt_semaphores_on_one_processor preemptive idle proto a c s x n :
  Valid idle (kern (base s)) → chosen (_scheduler (kern (base s))) = Some c → c ≠ idle →
  rts s !! a = Some x → objects (base s) !! (true, a) = Some (Semaphore n) →
  let k := kern (base s) in
  (_owner x = None → 1 ≤ n < 2 ^ 31 →
   ∃ s', rt_p proto a s = Some ((), s') ∧ Valid idle (kern (base s')) ∧
     rts s' !! a = Some (Rt (Some c) (rank_in k c) (_ceiling x)) ∧ objects (base s') !! (true, a) = Some (Semaphore (n - 1)) ∧
     rank_in (kern (base s')) c = match proto with IPCP => _ceiling x | _ => rank_in k c end) ∧
  (_owner x = Some c → 0 ≤ n < 2 ^ 31 - 1 → queue_of k (true, a) = [] →
   ∃ s', rt_v preemptive proto a s = Some ((), s') ∧ Valid idle (kern (base s')) ∧
     rts s' !! a = Some (Rt None 0 (_ceiling x)) ∧ objects (base s') !! (true, a) = Some (Semaphore (n + 1)) ∧
     rank_in (kern (base s')) c = _priority x) ∧
  (_owner x = Some c → n < 0 → queue_of k (true, a) ≠ [] → rt_v preemptive proto a s = None) ∧
  (∀ o, _owner x = Some o → is_Some (threads k !! o) → - 2 ^ 31 < n < 1 →
   if match proto with PIP => rank_in k c <? rank_in k o | PCP => _ceiling x <? rank_in k o | IPCP => false end
   then rt_p proto a s = None
   else ∃ s', rt_p proto a s = Some ((), s') ∧ Valid idle (kern (base s')) ∧ state_of (kern (base s')) c = Some WAITING).
Proof.
  intros [[c' HS] Hi] Hc Hci Ex En k. assert (c' = c) as -> by (pose proof (current_chosen _ _ (proj2 HS)); subst k; congruence).
  destruct s as [[k0 m] r]. cbn in *. subst k. pose proof (valid_int idle k0 c HS) as HV. split_and!.
  - intros Ho Hn. apply wp_returns. apply (free_p idle a c k0 m r x n HS Ex En proto); [done..|]. cbn. rewrite !lookup_insert_eq.
    destruct (reranked_valid idle c (_ceiling x) k0 HS Hci) as [HV2 Hr2]. destruct proto; split_and!; try done; exact HV.
  - intros Ho Hn Hq. apply wp_returns. apply (release_v preemptive idle a c k0 m r x n HS Ex En proto); [done..|]. cbn. rewrite !lookup_insert_eq.
    destruct (reranked_valid idle c (_priority x) k0 HS Hci) as [HV2 Hr2]. done.
  - intros Ho Hn Hq. destruct (queue_of k0 (true, a)) as [|t l] eqn:El; [done|]. by eapply contended_v.
  - intros o Ho Hko Hn. destruct (match proto with PIP => _ | IPCP => _ | PCP => _ end) eqn:Ecmp.
    + apply (contended_p idle a c k0 m r x n HS Ex En proto o); [done|done|lia|]. destruct proto; [by apply Z.ltb_lt|done|by apply Z.ltb_lt].
    + apply wp_returns. apply (waiting_p idle a c k0 m r x n HS Ex En proto o); [done..|destruct proto; [by apply Z.ltb_ge|done|by apply Z.ltb_ge]|].
      intros k' HV' Ec'. split; [done|]. apply (place_state _ _ (In_queue (true, a))). unfold whereabouts, place_of. cbn.
      destruct (sound_card idle c k0 HS) as (? & ? & ? & _ & Ecc & _). by rewrite Ec', lookup_alter_eq, Ecc.
Qed.

(** ** Examples *)

(** Semaphore 10 of three_synchronizers with a ceiling of -5. *)
Definition ceiling_system : rt_system := RtSystem three_synchronizers {[10%positive := Rt None 0 (-5)]}.

Example rt_semaphores_on_one_processor_witness :
  ∃ s', rt_p IPCP 10 ceiling_system = Some ((), s') ∧ rank_in (kern (base s')) 1 = -5.
Proof.
  destruct (rt_semaphores_on_one_processor true 2 IPCP 10 1 ceiling_system (Rt None 0 (-5)) 1) as [Hfree _].
  - exact with_worker_valid.
  - done.
  - done.
  - done.
  - done.
  - destruct Hfree as (s' & E & _ & _ & _ & Hr); [done|lia|]. by exists s'.
Defined.

(** Inheritance, where it is meant to help: the worker owns the semaphore, main
    outranks it and contends. *)
Example inheritance_fails :
  let s := RtSystem (System with_worker {[(true, 10%positive) := Semaphore 0]}) {[10%positive := Rt (Some 3%positive) 5 0]} in
  rt_p PIP 10 s = None.
Proof. vm_compute. done. Qed.
