(* ===== verification/Delay.v ===== *)
(** * Delays (src/api/alarm.cc, Alarm::delay)

    Threads, synchronizers and alarms together.  [machine] is the system of
    Sync.v with the alarms of Alarm.v, the count of ticks and the handler
    objects by address.  [delay] puts a semaphore, a handler and an alarm
    on the stack of the caller and waits on the semaphore; [delay_return] is
    what runs when it wakes, the destructors of the three; [timer] is the
    interrupt handler of the timer with the handler object it calls.

    None of them is atomic: each locks and unlocks more than once, and in
    between other threads run and the timer ticks.  They are sequences of
    the parts [delay_enter], [p]; [timer_interrupt], [call_alarm];
    [alarm_destructor], [delay_leave], which lock once each, and [history] is
    what can happen on a machine where alarms are made by [delay], one
    part, or one call of another method, at a time. *)

From stdpp Require Import base numbers list option gmap sorting.
From S2P Require Import Prelude StateM DList OrderedList Alarm Sched Thread ThreadInv ThreadOps ThreadApi ThreadCalls Sync.
#[local] Set Warnings "-clear-no-such-hyp".

(** ** State *)

(** The handlers of the kernel's objects; [Function_Handler] is left out. *)
Inductive handler_object :=
| Semaphore_Handler (q : waitq) | Mutex_Handler (m : loc) | Condition_Handler (c : loc) | Thread_Handler (t : loc).

(** What [operator()] calls. *)
Definition handler_call (h : handler_object) : sync_call :=
  match h with
  | Semaphore_Handler q => V q
  | Mutex_Handler m => Unlock m
  | Condition_Handler c => Signal c
  | Thread_Handler t => Call (Resume t)
  end.

Record machine := Machine { sys : system; links : memory Z; ticked : Z; attrs : alarms; handlers : gmap Z handler_object }.

(** ** Methods *)

Abbreviation W := (ST machine).

Definition on_sys {A} (c : ST system A) : W A := λ s,
  '(a, b) ← c (sys s); Some (a, Machine b (links s) (ticked s) (attrs s) (handlers s)).
(** A method of Alarm.v on the alarms. *)
Definition on_alarms {A} (c : alarms → M Z (alarms * A)) : W A := λ s,
  '(r, m) ← c (attrs s) (links s); Some (r.2, Machine (sys s) m (ticked s) r.1 (handlers s)).
Definition on_clock (c : Z → alarms → M Z (Z * alarms * option loc)) : W (option loc) := λ s,
  '(r, m) ← c (ticked s) (attrs s) (links s); Some (r.2, Machine (sys s) m r.1.1 r.1.2 (handlers s)).

Definition new_object (q : waitq) (o : synchronizer) : W unit := on_sys (λ b, Some ((), System (kern b) (<[q := o]> (objects b)))).
Definition drop_object (q : waitq) : W unit := on_sys (λ b, Some ((), System (kern b) (base.delete q (objects b)))).
Definition new_handler (h : Z) (o : handler_object) : W unit := λ s,
  Some ((), Machine (sys s) (links s) (ticked s) (attrs s) (<[h := o]> (handlers s))).
Definition drop_handler (h : Z) : W unit := λ s,
  Some ((), Machine (sys s) (links s) (ticked s) (attrs s) (base.delete h (handlers s))).

Section preemptive.
Context (preemptive : bool) (frequency : Z).

(** [( *handler)()] *)
Definition call_handler (h : Z) : W unit :=
  o ← (λ s, o ← handlers s !! h; Some (o, s));
  on_sys (run_sync preemptive (handler_call o)).

(** The constructor of an alarm up to [unlock()]; the result is the handler it
    goes on to call. *)
Definition alarm_insert (e : loc) (time h times : Z) : W (option Z) :=
  _ ← on_sys begin_atomic;
  now ← on_alarms (construct frequency e time h times);
  _ ← on_sys end_atomic;
  mret now.

Definition alarm_constructor (e : loc) (time h times : Z) : W unit :=
  now ← alarm_insert e time h times;
  match now with Some h => call_handler h | None => mret () end.

Definition alarm_destructor (e : loc) : W unit :=
  _ ← on_sys begin_atomic;
  _ ← on_alarms (λ al, _ ← destroy e; mret (al, ()));
  on_sys end_atomic.

(** [Alarm::handler] up to [unlock()], and [( *alarm->_handler)()]. *)
Definition timer_interrupt : W (option loc) :=
  _ ← on_sys begin_atomic;
  alarm ← on_clock handler;
  _ ← on_sys end_atomic;
  mret alarm.

Definition call_alarm (e : loc) : W unit :=
  h ← on_alarms (λ al, a ← attributes e al; mret (al, _handler a));
  call_handler h.

Definition timer : W unit :=
  alarm ← timer_interrupt;
  match alarm with Some e => call_alarm e | None => mret () end.

(** Where the local objects of [delay] are. *)
Record delay_frame := Frame { semaphore_at : loc; handler_at : Z; alarm_at : loc }.
Definition semaphore_of (f : delay_frame) : waitq := (true, semaphore_at f).

(** The semaphore and the handler, and the alarm's constructor up to [unlock()]. *)
Definition delay_enter (f : delay_frame) (time : Z) : W (option Z) :=
  _ ← new_object (semaphore_of f) (Semaphore 0);
  _ ← new_handler (handler_at f) (Semaphore_Handler (semaphore_of f));
  alarm_insert (alarm_at f) time (handler_at f) 1.

Definition delay (f : delay_frame) (time : Z) : W unit :=
  now ← delay_enter f time;
  _ ← match now with Some h => call_handler h | None => mret () end;
  on_sys (p (semaphore_of f) false).

(** The destructors of the handler and of the semaphore. *)
Definition delay_leave (f : delay_frame) : W unit :=
  _ ← drop_handler (handler_at f);
  _ ← on_sys (synchronizer_destructor preemptive (semaphore_of f));
  drop_object (semaphore_of f).

Definition delay_return (f : delay_frame) : W unit :=
  _ ← alarm_destructor (alarm_at f);
  delay_leave f.
End preemptive.

(** ** Histories *)

(** A thread in [delay]: how far it has come, what has become of its alarm, and
    the tick the alarm is due at.  [Self_call] is an alarm of no ticks, whose
    handler the constructor is to call; [Gone_off] and [Called] have the tick
    the alarm went off at. *)
Inductive stage := Before_p | In_p | Disarmed.
Inductive bell := Self_call | Ringing | Gone_off (t : Z) | Called (t : Z).
Record sleeper := Sleeper { who : loc; on_stack : delay_frame; due : Z; at_stage : stage; alarm_bell : bell }.
Abbreviation sleepers := (gmap loc sleeper).

Definition called (w : sleeper) : bool := match alarm_bell w with Called _ => true | _ => false end.
Definition in_p (w : sleeper) : bool := match at_stage w with Before_p => false | _ => true end.
Definition went_off (w : sleeper) : option Z :=
  match alarm_bell w with Self_call => Some (due w) | Ringing => None | Gone_off t | Called t => Some t end.
Definition to_stage (g : stage) (w : sleeper) : sleeper := Sleeper (who w) (on_stack w) (due w) g (alarm_bell w).
Definition to_bell (r : bell) (w : sleeper) : sleeper := Sleeper (who w) (on_stack w) (due w) (at_stage w) r.

(** The objects on the stack are new. *)
Definition unused (f : delay_frame) (s : machine) (ws : sleepers) : Prop :=
  objects (sys s) !! semaphore_of f = None ∧ queue_of (kern (sys s)) (semaphore_of f) = [] ∧
  handlers s !! handler_at f = None ∧ ws !! alarm_at f = None.

(** An interrupt that came back with [o]. *)
Definition ring (o : option loc) (t : Z) (ws : sleepers) : sleepers := from_option (λ e, alter (to_bell (Gone_off t)) e ws) ws o.

(** ** Objects of elements

    No method changes the object of an element. *)

Definition lasting {A} (c : M Z A) : Prop :=
  ∀ m a m', c m = Some (a, m') → ∀ y, object <$> elements m' !! y = object <$> elements m !! y.

Section lasting.
Implicit Types (e : loc) (m : memory Z).

Lemma lasting_bind {A B} (c : M Z A) (k : A → M Z B) : lasting c → (∀ a, lasting (k a)) → lasting (c ≫= k).
Proof.
  intros Hc Hk m b m''. unfold mbind, ST_bind. cbn. destruct (c m) as [[a m']|] eqn:E; [|done]. intros E' y.
  rewrite (Hk _ _ _ _ E'). by apply (Hc _ _ _ E).
Qed.
Lemma lasting_ret {A} (a : A) : lasting (mret a).
Proof. by intros m b m' [= <- <-]. Qed.
Lemma lasting_stuck {A} : lasting (stuck (A := A)).
Proof. by intros m b m'. Qed.
Lemma lasting_get {A} (f : element Z → A) e : lasting (get f e).
Proof. intros m b m'. unfold get. destruct (elements m !! e); [|done]. by intros [= <- <-]. Qed.
Lemma lasting_field {A} (f : list_object → A) : lasting (field f).
Proof. by intros m b m' [= <- <-]. Qed.
Lemma lasting_deref {A} (p : option A) : lasting (deref p).
Proof. intros m b m'. destruct p; [|done]. by intros [= <- <-]. Qed.
Lemma lasting_defined {A} (p : option A) : lasting (defined p).
Proof. intros m b m'. destruct p; [|done]. by intros [= <- <-]. Qed.
Lemma lasting_assign f : lasting (assign f).
Proof. by intros m b m' [= <- <-]. Qed.
Lemma lasting_put f e : (∀ x, object (f x) = object x) → lasting (put f e).
Proof.
  intros Hf m b m'. unfold put. destruct (elements m !! e) as [x|] eqn:E; [|done]. intros [= <- <-] y. cbn.
  destruct (decide (e = y)) as [<-|Hne]; [rewrite lookup_alter_eq, E; cbn; by rewrite Hf|by rewrite lookup_alter_ne].
Qed.
End lasting.

Ltac lasts :=
  repeat first
    [ apply lasting_bind; [|intros ?] | apply lasting_ret | apply lasting_stuck | apply lasting_get | apply lasting_field
    | apply lasting_deref | apply lasting_defined | apply lasting_assign | apply lasting_put; done | progress case_match ].

Lemma insert_loop_lasting fuel e n : lasting (insert_loop (R := Z) true fuel e n).
Proof. revert n; induction fuel as [|fuel IH]; intros n; cbn [insert_loop]; unfold rank_minus; lasts; apply IH. Qed.

Lemma insert_lasting e : lasting (insert (R := Z) true e).
Proof.
  intros m. unfold insert. generalize (size (elements m)). intros fuel. generalize m. clear m.
  change (lasting (insert_within (R := Z) true fuel e)). unfold insert_within, insert_first, insert_tail, insert_head, insert_between,
    insert_first, rank_minus, empty, set_head, set_tail, resize. lasts; apply insert_loop_lasting.
Qed.

Lemma remove_first_lasting : lasting (remove_first (R := Z) true).
Proof. unfold remove_first, remove_head, remove_last, rank_plus, empty, last, set_head, set_tail, resize. lasts. Qed.

Lemma handler_lasting n al : lasting (handler n al).
Proof.
  unfold handler, promote, attributes, empty. lasts; first [apply remove_first_lasting|apply insert_lasting].
Qed.

(** ** Rules *)

Section rules.
Implicit Types (s : machine).

Lemma wp_on_sys {A} (c : ST system A) (Q : A → machine → Prop) s :
  wp c (λ a b, Q a (Machine b (links s) (ticked s) (attrs s) (handlers s))) (sys s) → wp (on_sys c) Q s.
Proof. unfold wp, on_sys, mbind. destruct (c (sys s)) as [[u b]|]; done. Qed.

Lemma wp_on_alarms {A} (c : alarms → M Z (alarms * A)) (Q : A → machine → Prop) s :
  wp (c (attrs s)) (λ r m, Q r.2 (Machine (sys s) m (ticked s) r.1 (handlers s))) (links s) → wp (on_alarms c) Q s.
Proof. unfold wp, on_alarms, mbind. destruct (c (attrs s) (links s)) as [[u b]|]; done. Qed.

Lemma wp_on_clock c (Q : option loc → machine → Prop) s :
  wp (c (ticked s) (attrs s)) (λ r m, Q r.2 (Machine (sys s) m r.1.1 r.1.2 (handlers s))) (links s) → wp (on_clock c) Q s.
Proof. unfold wp, on_clock, mbind. destruct (c (ticked s) (attrs s) (links s)) as [[u b]|]; done. Qed.

(** Under the lock nothing happens to the threads. *)
Lemma wp_locked {A B} (c : W A) (k : A → W B) (Q : B → machine → Prop) s :
  int_enabled (kern (sys s)) = true →
  (∀ b, wp c (λ a s', sys s' = b ∧ wp (k a) Q (Machine (sys s) (links s') (ticked s') (attrs s') (handlers s')))
     (Machine b (links s) (ticked s) (attrs s) (handlers s))) →
  wp (_ ← on_sys begin_atomic; a ← c; _ ← on_sys end_atomic; k a) Q s.
Proof.
  intros Hi Hc. apply wp_seq, wp_on_sys. destruct s as [[ke m] li n al h]. cbn [sys links ticked attrs handlers kern] in *.
  unfold wp at 1. cbn. apply wp_seq. eapply wp_weaken; [apply Hc|]. intros a [b' li' n' al' h']. cbn [sys links ticked attrs handlers].
  intros [-> HQ]. cbn beta. apply wp_seq, wp_on_sys. unfold wp at 1. cbn.
  change (with_int true (with_int false ke)) with (with_int true ke). by rewrite with_int_true.
Qed.

Lemma wp_call_handler preemptive h o (Q : unit → machine → Prop) s :
  handlers s !! h = Some o → wp (on_sys (run_sync preemptive (handler_call o))) Q s → wp (call_handler preemptive h) Q s.
Proof. intros E HQ. unfold call_handler. apply wp_seq. unfold wp at 1. cbn. by rewrite E. Qed.
End rules.

(** ** The invariant *)

Section delays.
Context (preemptive : bool) (frequency : Z) (idle : loc) (N B : Z).
Implicit Types (s : machine) (ws : sleepers) (w : sleeper) (f : delay_frame) (c e : loc).

(** A sleeper's semaphore counts what has become of its alarm and whether it
    waits, and it waits there alone; the alarm and the handler are on the
    stack. *)
Record Asleep (s : machine) (e : loc) (w : sleeper) : Prop := {
  asleep_object : objects (sys s) !! semaphore_of (on_stack w) =
    Some (Semaphore (match called w, in_p w with true, false => 1 | false, true => -1 | _, _ => 0 end));
  asleep_queue : queue_of (kern (sys s)) (semaphore_of (on_stack w)) = if in_p w && negb (called w) then [who w] else [];
  asleep_handler : handlers s !! handler_at (on_stack w) = Some (Semaphore_Handler (semaphore_of (on_stack w)));
  asleep_alarm : alarm_at (on_stack w) = e;
  asleep_attrs : ∃ time n t, attrs s !! e = Some (Alarm time (handler_at (on_stack w)) n t) ∧ (alarm_bell w = Ringing → n = 1);
  asleep_who : who w ≠ idle;
  asleep_stage : match at_stage w with Before_p => True | In_p => alarm_bell w ≠ Self_call | Disarmed => called w = true end;
  asleep_time : ∀ t, went_off w = Some t → due w ≤ t ≤ due w + N ∧ t ≤ ticked s
}.

Record Delays (s : machine) (ls : offsets) (ws : sleepers) : Prop := {
  delays_valid : Valid idle (kern (sys s));
  delays_clock : Inv N B (Clock (ticked s) (attrs s) ls);
  delays_links : RelRepr ls (links s);
  delays_objects : ∀ e, e ∈ ls.*1 → object <$> elements (links s) !! e = Some (Zpos e);
  delays_request : ∀ e D, (e, D) ∈ times (ticked s) ls ↔ ∃ w, ws !! e = Some w ∧ alarm_bell w = Ringing ∧ due w = D;
  delays_asleep : ∀ e w, ws !! e = Some w → Asleep s e w;
  delays_distinct : ∀ e e' w w', ws !! e = Some w → ws !! e' = Some w' → semaphore_of (on_stack w) = semaphore_of (on_stack w') → e = e'
}.

Lemma delays_known s ls ws e : Delays s ls ws → e ∈ ls.*1 → ∃ w, ws !! e = Some w ∧ alarm_bell w = Ringing.
Proof.
  intros HD He. rewrite <- (times_elements (ticked s)) in He. apply list_elem_of_fmap in He as ([e' D] & -> & Hin).
  apply (delays_request _ _ _ HD) in Hin as (w & E & Hw & _). by exists w.
Qed.

Lemma delays_length s ls ws : Delays s ls ws → (length ls ≤ size ws)%nat.
Proof.
  intros HD. rewrite <- (length_fmap fst), <- size_dom, <- (size_list_to_set (C := gset loc) ls.*1) by apply (inv_nodup _ _ _ (delays_clock _ _ _ HD)).
  apply subseteq_size. intros e He%elem_of_list_to_set. apply elem_of_dom. by destruct (delays_known _ _ _ _ HD He) as (w & -> & _).
Qed.

Lemma asleep_waits s ls ws e w :
  Delays s ls ws → ws !! e = Some w → in_p w = true → called w = false →
  whereabouts (kern (sys s)) (who w) = Some (In_queue (semaphore_of (on_stack w))).
Proof.
  intros HD E Hp Hw. destruct (delays_valid _ _ _ HD) as [[c [[HF _] _]] _]. apply (filed_waiting _ _ HF).
  rewrite (asleep_queue _ _ _ (delays_asleep _ _ _ HD _ _ E)), Hp, Hw. by left.
Qed.

(** The thread that runs does not wait. *)
Lemma chosen_called s ls ws e w :
  Delays s ls ws → ws !! e = Some w → in_p w = true → chosen (_scheduler (kern (sys s))) = Some (who w) → called w = true.
Proof.
  intros HD E Hp Hc. destruct (called w) eqn:Hw; [done|]. pose proof (asleep_waits _ _ _ _ _ HD E Hp Hw) as Hq.
  destruct (delays_valid _ _ _ HD) as [[c HS] _]. pose proof (current_chosen _ _ (proj2 HS)) as Hc'. rewrite Hc in Hc'. injection Hc' as <-.
  destruct (sound_card idle _ _ HS) as (j & r & st & _ & Ec & _). unfold whereabouts, place_of in Hq. rewrite Ec in Hq. by cbn in Hq.
Qed.

(** A call of a synchronizer that is not the sleeper's. *)
Lemma asleep_other op c s b e w :
  Sound idle c (kern (sys s)) → permitted idle op (sys s) → target op ≠ Some (semaphore_of (on_stack w)) →
  objects b = objects_after op (sys s) → (∀ q, queue_of (kern b) q = queues_after op c (sys s) q) →
  Asleep s e w → Asleep (Machine b (links s) (ticked s) (attrs s) (handlers s)) e w.
Proof.
  intros HS Hp Ht Eo Eq [H1 H2 H3 H4 H5 H6 H7 H8]. destruct (other_synchronizer idle op (sys s) c _ HS Hp Ht) as [E1 E2].
  split; cbn; [by rewrite Eo, E1|by rewrite Eq, E2|done..].
Qed.

(** Sleepers do not look at the clock. *)
Lemma asleep_frame s s' e w :
  sys s' = sys s → handlers s' = handlers s → ticked s ≤ ticked s' → attrs s' !! e = attrs s !! e → Asleep s e w → Asleep s' e w.
Proof.
  intros E1 E2 E3 E4 [H1 H2 H3 H4 H5 H6 H7 H8]. split; rewrite ?E1, ?E2, ?E4; try done. intros t Ht. destruct (H8 t Ht). lia.
Qed.

(** A sleeper that goes on while its alarm, set or not, stays so. *)
Lemma delays_update s s' ls ws e w w' :
  Delays s ls ws → ws !! e = Some w →
  links s' = links s → ticked s' = ticked s → attrs s' = attrs s → Valid idle (kern (sys s')) →
  on_stack w' = on_stack w → due w' = due w → (alarm_bell w' = Ringing ↔ alarm_bell w = Ringing) →
  (∀ e' x, semaphore_of (on_stack x) ≠ semaphore_of (on_stack w) → Asleep s e' x → Asleep s' e' x) →
  Asleep s' e w' → Delays s' ls (<[e := w']> ws).
Proof.
  intros HD Ew El En Ea HV Es Ed Hb Hoth HA. pose proof HD as [_ HI Hr Hobj Hreq Has Hd].
  split; rewrite ?El, ?En, ?Ea; [done..| | |].
  - intros y D. rewrite Hreq. destruct (decide (e = y)) as [<-|Hne]; [|by setoid_rewrite lookup_insert_ne; [|done]].
    rewrite lookup_insert_eq, Ew. split; intros (x & [= <-] & Hx & Hd'); [exists w'|exists w]; split_and!; try done; [by apply Hb|congruence|by apply Hb|congruence].
  - intros y x [[<- <-]|[Hne Ex]]%lookup_insert_Some; [done|]. apply Hoth; [|by apply Has]. intros Hq. apply Hne. symmetry. by apply (Hd y e x w).
  - intros y y' x x'. rewrite !lookup_insert_Some. intros [[<- <-]|[Hy Ex]] [[<- <-]|[Hy' Ex']] E; rewrite ?Es in E.
    + done.
    + by apply (Hd e y' w x').
    + by apply (Hd y e x w).
    + by apply (Hd y y' x x').
Qed.

(** ** The semaphore of a sleeper *)

(** [v()], when its handler is called. *)
Lemma sleeper_v s ls ws e w :
  Delays s ls ws → ws !! e = Some w → called w = false →
  ∃ b, run_sync preemptive (V (semaphore_of (on_stack w))) (sys s) = Some ((), b) ∧ Valid idle (kern b) ∧
    objects b !! semaphore_of (on_stack w) = Some (Semaphore (if in_p w then 0 else 1)) ∧ queue_of (kern b) (semaphore_of (on_stack w)) = [] ∧
    (if in_p w then ready_state (state_of (kern b) (who w)) else kern b = kern (sys s)) ∧
    ∀ e' x, semaphore_of (on_stack x) ≠ semaphore_of (on_stack w) → Asleep s e' x → Asleep (Machine b (links s) (ticked s) (attrs s) (handlers s)) e' x.
Proof.
  intros HD Ew Hc. pose proof (delays_asleep _ _ _ HD _ _ Ew) as [A1 A2 _ _ _ _ _ _]. rewrite Hc in A1, A2.
  pose proof (delays_valid _ _ _ HD) as HV. pose proof HV as [[c HS] Hint]. pose proof (current_chosen _ _ (proj2 HS)) as Ecur.
  set (q := semaphore_of (on_stack w)) in *.
  assert (permitted idle (V q) (sys s)) as Hp by (eexists; split; [exact A1|destruct (in_p w); lia]).
  destruct (sync_spec preemptive idle (V q) (sys s) c HV Ecur Hp) as (b & E & HV' & _ & Eob & Ec & Equ).
  exists b. split; [done|]. split; [done|]. split; [|split; [|split]].
  - rewrite Eob. cbn. rewrite A1, lookup_insert_eq. by destruct (in_p w).
  - rewrite Equ. unfold queues_after. destruct (in_p w); cbn in A1, A2; cbn; rewrite A1; cbn; [by rewrite decide_True, A2|exact A2].
  - destruct (in_p w) eqn:Hin; cbn in A1, A2.
    + apply (place_state _ _ In_scheduler). unfold whereabouts, place_of. rewrite Ec. unfold cards_after. cbn. rewrite A1. cbn. rewrite A2, lookup_alter_eq.
      pose proof (asleep_waits _ _ _ _ _ HD Ew Hin Hc) as Hw. unfold whereabouts, place_of in Hw. by destruct (cards (kern (sys s)) !! who w).
    + cbn [run_sync] in E. destruct (sys s) as [k m]. cbn [kern objects] in *. rewrite (v_call preemptive q 0) in E by done. cbn in E.
      injection E as <-. cbn. by apply with_int_true.
  - intros e' x Hx HA. apply (asleep_other (V q) c); try done. cbn. congruence.
Qed.

(** [p()] *)
Lemma sleeper_p s ls ws e w :
  Delays s ls ws → ws !! e = Some w → at_stage w = Before_p → chosen (_scheduler (kern (sys s))) = Some (who w) →
  ∃ b, p (semaphore_of (on_stack w)) false (sys s) = Some ((), b) ∧ Valid idle (kern b) ∧
    objects b !! semaphore_of (on_stack w) = Some (Semaphore (if called w then 0 else -1)) ∧
    queue_of (kern b) (semaphore_of (on_stack w)) = (if called w then [] else [who w]) ∧
    (if called w then kern b = kern (sys s) else state_of (kern b) (who w) = Some WAITING) ∧
    ∀ e' x, semaphore_of (on_stack x) ≠ semaphore_of (on_stack w) → Asleep s e' x → Asleep (Machine b (links s) (ticked s) (attrs s) (handlers s)) e' x.
Proof.
  intros HD Ew Hst Hc. pose proof (delays_asleep _ _ _ HD _ _ Ew) as [A1 A2 _ _ _ A6 _ _]. assert (in_p w = false) as Hin by (unfold in_p; by rewrite Hst).
  rewrite Hin in A1, A2. cbn in A2. pose proof (delays_valid _ _ _ HD) as HV. set (q := semaphore_of (on_stack w)) in *.
  assert (permitted idle (P q) (sys s)) as Hp by (split; [by eexists|unfold idle_rests; congruence]).
  destruct (sync_spec preemptive idle (P q) (sys s) _ HV Hc Hp) as (b & E & HV' & HS & Eob & Ec & Equ).
  exists b. split; [exact E|]. split; [done|]. split; [|split; [|split]].
  - rewrite Eob. cbn. rewrite A1, lookup_insert_eq. by destruct (called w).
  - rewrite Equ. unfold queues_after. destruct (called w); cbn in A1; cbn; rewrite A1; cbn; [exact A2|by rewrite decide_True, A2 by done].
  - destruct (called w) eqn:Hw; cbn in A1.
    + cbn [run_sync] in E. destruct (sys s) as [k m]. cbn [kern objects] in *. rewrite (p_call preemptive q 1) in E by done. cbn in E.
      injection E as <-. cbn. apply with_int_true, HV.
    + apply (place_state _ _ (In_queue q)). unfold whereabouts, place_of. rewrite Ec. unfold cards_after. cbn. rewrite A1. cbn.
      destruct (sound_card idle _ _ HS) as (? & ? & ? & _ & Ecc & _). by rewrite lookup_alter_eq, Ecc.
  - intros e' x Hx HA. apply (asleep_other (P q) (who w)); try done. cbn. congruence.
Qed.

(** Its handler called, the alarm having gone off at [t]. *)
Lemma sleeper_called s ls ws e w t :
  Delays s ls ws → ws !! e = Some w → alarm_bell w ≠ Ringing → called w = false → due w ≤ t ≤ due w + N → t ≤ ticked s →
  wp (call_handler preemptive (handler_at (on_stack w))) (λ _ s', Delays s' ls (<[e := to_bell (Called t) w]> ws) ∧
    if in_p w then ready_state (state_of (kern (sys s')) (who w)) else kern (sys s') = kern (sys s)) s.
Proof.
  intros HD Ew Hb Hc Ht Hn. pose proof (delays_asleep _ _ _ HD _ _ Ew) as [A1 A2 A3 A4 A5 A6 A7 A8].
  destruct (sleeper_v s ls ws e w HD Ew Hc) as (b & E & HV & B1 & B2 & Hst & Hoth).
  eapply wp_call_handler; [exact A3|]. apply wp_on_sys. eapply wp_of; [exact E|]. split; [|exact Hst].
  apply (delays_update s _ ls ws e w); try done.
  split; cbn; [rewrite B1; unfold in_p; cbn; by destruct (at_stage w)|rewrite B2; by rewrite andb_false_r|done|done| |done| |].
  - destruct A5 as (time & n & k & Ea & _). by exists time, n, k.
  - by destruct (at_stage w).
  - by intros t' [= <-].
Qed.

Lemma p_spec s ls ws e w :
  Delays s ls ws → ws !! e = Some w → at_stage w = Before_p → alarm_bell w ≠ Self_call → chosen (_scheduler (kern (sys s))) = Some (who w) →
  wp (on_sys (p (semaphore_of (on_stack w)) false)) (λ _ s', Delays s' ls (<[e := to_stage In_p w]> ws) ∧
    if called w then kern (sys s') = kern (sys s) else state_of (kern (sys s')) (who w) = Some WAITING) s.
Proof.
  intros HD Ew Hst Hb Hc. pose proof (delays_asleep _ _ _ HD _ _ Ew) as [A1 A2 A3 A4 A5 A6 A7 A8].
  destruct (sleeper_p s ls ws e w HD Ew Hst Hc) as (b & E & HV & B1 & B2 & Hk & Hoth).
  apply wp_on_sys. eapply wp_of; [exact E|]. split; [|exact Hk]. apply (delays_update s _ ls ws e w); try done.
  split; cbn; [rewrite B1; unfold called; cbn; by destruct (alarm_bell w)|rewrite B2; unfold called; cbn; by destruct (alarm_bell w)|done..].
Qed.

(** ** The timer *)

(** A tick, for the sleepers. *)
Lemma tick_sleepers s ls ws :
  Delays s ls ws →
  let clk := Clock (ticked s) (attrs s) ls in
  elapsed (tick clk).1 = ticked s + 1 ∧ Inv N B (tick clk).1 ∧
  match (tick clk).2 with
  | None => dues (tick clk).1 = dues clk ∧ table (tick clk).1 = attrs s
  | Some e => ∃ w time t, ws !! e = Some w ∧ alarm_bell w = Ringing ∧ due w ≤ ticked s + 1 ≤ due w + N ∧
      table (tick clk).1 = <[e := Alarm time (handler_at (on_stack w)) 0 t]> (attrs s) ∧
      dues clk = (e, due w) :: dues (tick clk).1
  end.
Proof.
  intros HD clk. pose proof (delays_clock _ _ _ HD) as HI. fold clk in HI. pose proof (tick_dues N B clk HI) as [En Hd].
  split; [done|]. split; [by apply tick_inv|]. destruct (dues clk) as [|[e D] ds] eqn:Ed.
  { rewrite Hd. cbn. split; [|done]. by unfold dues. }
  destruct (Z.leb_spec D (elapsed clk + 1)) as [HDt|HDt]; [|destruct Hd as (-> & -> & ->); done].
  destruct Hd as (a & Ea & _ & Hf & Et & Edd). rewrite Hf.
  destruct (proj1 (delays_request _ _ _ HD e D)) as (w & Ew & Hw & <-).
  { change (times (ticked s) ls) with (dues clk). rewrite Ed. by left. }
  destruct (asleep_attrs _ _ _ (delays_asleep _ _ _ HD _ _ Ew)) as (time & n & t & Ea' & Hn). rewrite (Hn Hw) in Ea'. change (table clk) with (attrs s) in Ea, Et.
  rewrite Ea' in Ea. injection Ea as <-. destruct (tick_fires N B clk e HI Hf) as (D' & ds' & E' & HD'). rewrite Ed in E'. injection E' as <- <-.
  exists w, time, t. split_and!; [done|done|exact (proj1 HD')|exact (proj2 HD')|done|by rewrite Edd].
Qed.

Lemma ring_lookup o t ws e w' :
  ring o t ws !! e = Some w' → ∃ w, ws !! e = Some w ∧ (w' = w ∧ o ≠ Some e ∨ w' = to_bell (Gone_off t) w ∧ o = Some e).
Proof.
  destruct o as [y|]; cbn; [|by exists w'; auto]. destruct (decide (y = e)) as [->|Hne].
  - rewrite lookup_alter_eq. destruct (ws !! e) as [w|]; [|done]. intros [= <-]. exists w. auto.
  - rewrite lookup_alter_ne by done. intros E. exists w'. split; [done|]. left. split; congruence.
Qed.

(** The alarms and the sleepers that are left after a tick. *)
Lemma tick_request s ls ws t :
  Delays s ls ws → let clk := Clock (ticked s) (attrs s) ls in
  ∀ e D, (e, D) ∈ dues (tick clk).1 ↔ ∃ w, ring (tick clk).2 t ws !! e = Some w ∧ alarm_bell w = Ringing ∧ due w = D.
Proof.
  intros HD clk e D. destruct (tick_sleepers s ls ws HD) as (_ & _ & Ht). fold clk in Ht. pose proof (delays_request _ _ _ HD e D) as Hreq.
  change (times (ticked s) ls) with (dues clk) in Hreq. destruct (tick clk).2 as [y|]; [|destruct Ht as [-> _]; exact Hreq].
  destruct Ht as (w & time & k & Ew & Hw & _ & _ & Ed). rewrite Ed, elem_of_cons in Hreq.
  assert (y ∉ (dues (tick clk).1).*1) as Hy.
  { pose proof (inv_nodup _ _ _ (delays_clock _ _ _ HD)) as Hn. rewrite <- (times_elements (ticked s)) in Hn. change (NoDup (dues clk).*1) in Hn.
    rewrite Ed in Hn. by apply NoDup_cons in Hn as [Hn _]. }
  destruct (decide (y = e)) as [<-|Hne].
  - split; [intros H%(list_elem_of_fmap_2 fst); done|]. cbn. rewrite lookup_alter_eq, Ew. cbn. by intros (w' & [= <-] & Hw' & _).
  - cbn. rewrite lookup_alter_ne by done. rewrite <- Hreq. split; [by right|]. intros [[= -> _]|H]; done.
Qed.

Lemma tick_links s ls ws (m' : memory Z) e :
  Delays s ls ws → (∀ y, object <$> elements m' !! y = object <$> elements (links s) !! y) →
  e ∈ (request (tick (Clock (ticked s) (attrs s) ls)).1).*1 → object <$> elements m' !! e = Some (Zpos e).
Proof.
  intros HD Hobj He. set (clk := Clock (ticked s) (attrs s) ls) in *. rewrite Hobj. apply (delays_objects _ _ _ HD).
  rewrite <- (times_elements (elapsed (tick clk).1)) in He. fold (dues (tick clk).1) in He. apply list_elem_of_fmap in He as ([y D] & -> & Hin).
  destruct (tick_sleepers s ls ws HD) as (_ & _ & Ht). fold clk in Ht. rewrite <- (times_elements (ticked s)).
  change (times (ticked s) ls) with (dues clk). apply (list_elem_of_fmap_2 fst). destruct (tick clk).2.
  - destruct Ht as (w & time & t & _ & _ & _ & _ & ->). by right.
  - by destruct Ht as [<- _].
Qed.

Lemma ring_distinct o t ws :
  (∀ e e' w w', ws !! e = Some w → ws !! e' = Some w' → semaphore_of (on_stack w) = semaphore_of (on_stack w') → e = e') →
  ∀ e e' w w', ring o t ws !! e = Some w → ring o t ws !! e' = Some w' → semaphore_of (on_stack w) = semaphore_of (on_stack w') → e = e'.
Proof.
  intros Hd e e' w w' (x & Ex & Hx)%ring_lookup (x' & Ex' & Hx')%ring_lookup E. apply (Hd e e' x x'); [done..|].
  by destruct Hx as [[-> _]|[-> _]], Hx' as [[-> _]|[-> _]].
Qed.

Lemma interrupt_spec s ls ws :
  small N B → Delays s ls ws → fits (ticked s + 1) →
  wp timer_interrupt (λ o s', (∃ ls', Delays s' ls' (ring o (ticked s') ws)) ∧ ticked s' = ticked s + 1 ∧ sys s' = sys s ∧
    ∀ e, o = Some e → ∃ w, ws !! e = Some w ∧ alarm_bell w = Ringing ∧ due w ≤ ticked s' ≤ due w + N) s.
Proof.
  intros Hsm HD Hf. set (clk := Clock (ticked s) (attrs s) ls). pose proof (delays_clock _ _ _ HD) as HI. pose proof (delays_links _ _ _ HD) as Hr.
  pose proof (handler_spec N B clk (links s) Hsm HI Hr Hf) as (r & m' & Eh & -> & Hr')%wp_total.
  change (elapsed clk) with (ticked s) in Eh. change (table clk) with (attrs s) in Eh. pose proof (handler_lasting _ _ _ _ _ Eh) as Hobj.
  destruct (tick_sleepers s ls ws HD) as (En & HI' & Ht). fold clk in En, HI', Ht.
  pose proof (tick_request s ls ws (ticked s + 1) HD) as Hreq. cbv zeta in Hreq. fold clk in Hreq.
  pose proof (λ e, tick_links s ls ws m' e HD Hobj) as Hlk. fold clk in Hlk.
  pose proof (ring_distinct (tick clk).2 (ticked s + 1) ws (delays_distinct _ _ _ HD)) as Hdist.
  assert (Inv N B (Clock (elapsed (tick clk).1) (table (tick clk).1) (request (tick clk).1))) as HI2 by (by destruct ((tick clk).1)).
  unfold timer_interrupt. apply wp_locked; [apply (delays_valid _ _ _ HD)|]. intros b. apply wp_on_clock. cbn [ticked attrs links]. unfold wp at 1. rewrite Eh.
  cbn [fst snd sys links ticked attrs handlers]. split; [done|]. unfold dues in Hreq. rewrite En in Hreq, HI2 |- *. apply wp_ret. cbn [ticked sys].
  split_and!; [|done|done|].
  - exists (request (tick clk).1). split; cbn [sys links ticked attrs handlers]; [apply (delays_valid _ _ _ HD)|done|done|done|exact Hreq| |exact Hdist].
    intros y w' (w & Ew & Hw)%ring_lookup. pose proof (delays_asleep _ _ _ HD _ _ Ew) as HA.
    destruct (tick clk).2 as [e|]; [|destruct Hw as [[-> _]|[_ ?]]; [|done]].
    + destruct Ht as (x & time & t & Ex & Hx & Hdue & Et & _). destruct Hw as [[-> Hne]|[-> [= <-]]].
      * eapply (asleep_frame s); [done|done|cbn; lia| |done]. cbn. rewrite Et. apply lookup_insert_ne. congruence.
      * rewrite Ex in Ew. injection Ew as ->. destruct HA as [A1 A2 A3 A4 A5 A6 A7 A8]. unfold called in *. rewrite Hx in *.
        split; cbn [sys links ticked attrs handlers on_stack due who at_stage alarm_bell to_bell called went_off]; try done.
        -- rewrite Et, lookup_insert_eq. by exists time, 0, t.
        -- by destruct (at_stage w).
        -- intros t' [= <-]. split; [done|lia].
    + destruct Ht as [_ Et]. eapply (asleep_frame s); [done|done|cbn; lia| |done]. cbn. by rewrite Et.
  - intros e Eo. rewrite Eo in Ht. destruct Ht as (w & time & t & Ew & Hw & Hdue & _). by exists w.
Qed.

(** ** Other calls *)

Lemma sync_step op c s ls ws b :
  Delays s ls ws → chosen (_scheduler (kern (sys s))) = Some c → permitted idle op (sys s) →
  (∀ e w, ws !! e = Some w → target op ≠ Some (semaphore_of (on_stack w))) → run_sync preemptive op (sys s) = Some ((), b) →
  Delays (Machine b (links s) (ticked s) (attrs s) (handlers s)) ls ws.
Proof.
  intros [HV HI Hr Hobj Hreq Has Hd] Hc Hp Ht E. destruct (sync_spec preemptive idle op (sys s) c HV Hc Hp) as (b' & E' & HV' & HS & Eo & _ & Eq).
  rewrite E in E'. injection E' as <-. split; cbn [sys links ticked attrs handlers]; [done..| |done].
  intros e w Ew. eapply (asleep_other op c); [done|done|by eapply Ht|done|done|by apply Has].
Qed.

(** ** Starting a delay *)

Lemma construct_objects e time h times al m r m' :
  construct frequency e time h times al m = Some (r, m') →
  ∀ y, object <$> elements m' !! y = if decide (y = e) then Some (Zpos e) else object <$> elements m !! y.
Proof.
  unfold construct, mbind at 1, ST_bind at 1. unfold defined. destruct (ticks frequency time) as [t|]; [|done]. cbn.
  intros E y. transitivity (object <$> <[e := Element (Zpos e) t None None]> (elements m) !! y).
  - revert E. unfold construct_link, mbind at 1, ST_bind at 1. cbn. destruct (t =? 0); [by intros [= _ <-]|]. intros E. refine (lasting_bind _ _ (insert_lasting e) _ _ _ _ E y). intros []. apply lasting_ret.
  - case_decide as Hy; [subst; by rewrite lookup_insert_eq|by rewrite lookup_insert_ne].
Qed.

(** The sleepers with one more. *)
Definition entered c f now t : sleeper := Sleeper c f (now + t) Before_p (if t =? 0 then Self_call else Ringing).

Lemma delays_add s s' ls ls' ws c f t :
  Delays s ls ws → unused f s ws → ticked s' = ticked s → 0 ≤ t →
  Valid idle (kern (sys s')) → Inv N B (Clock (ticked s) (attrs s') ls') → RelRepr ls' (links s') →
  (∀ y, object <$> elements (links s') !! y = if decide (y = alarm_at f) then Some (Zpos (alarm_at f)) else object <$> elements (links s) !! y) →
  times (ticked s) ls' ≡ₚ (if t =? 0 then times (ticked s) ls else (alarm_at f, ticked s + t) :: times (ticked s) ls) →
  let w := entered c f (ticked s) t in
  (∀ e x, ws !! e = Some x → Asleep s' e x) → Asleep s' (alarm_at f) w → Delays s' ls' (<[alarm_at f := w]> ws).
Proof.
  intros HD (Hu1 & _ & _ & Hu4) En Ht HV HI Hr Hobj Hls w Hold Hnew. split; [done|by rewrite En|done| | | |].
  - intros e He. rewrite Hobj. destruct (decide (e = alarm_at f)) as [->|Hne]; [done|]. apply (delays_objects _ _ _ HD). rewrite <- (times_elements (ticked s) ls') in He.
    rewrite <- (times_elements (ticked s) ls). rewrite Hls in He. destruct (t =? 0); [done|]. cbn in He. by apply elem_of_cons in He as [?|?].
  - intros e D. rewrite En, Hls. assert ((alarm_at f, D) ∉ times (ticked s) ls) as Hno.
    { intros Hin%(delays_request _ _ _ HD). destruct Hin as (x & Ex & _). congruence. }
    destruct (decide (alarm_at f = e)) as [<-|Hne].
    + setoid_rewrite lookup_insert_eq. unfold w, entered. destruct (t =? 0).
      * split; [done|]. by intros (x & [= <-] & Hx & _).
      * rewrite elem_of_cons. split; [intros [[= ->]|?]; [|done]; by eexists|]. intros (x & [= <-] & _ & <-). by left.
    + setoid_rewrite (lookup_insert_ne ws _ e); [|done]. rewrite <- (delays_request _ _ _ HD e D). destruct (t =? 0); [done|].
      rewrite elem_of_cons. split; [intros [[= E _]|?]; [by destruct Hne|done]|auto].
  - intros e x. destruct (decide (alarm_at f = e)) as [<-|Hne]; [rewrite lookup_insert_eq; by intros [= <-]|rewrite lookup_insert_ne by done; apply Hold].
  - assert (∀ e x, ws !! e = Some x → semaphore_of (on_stack x) ≠ semaphore_of f) as Hne.
    { intros e x Ex E. pose proof (asleep_object _ _ _ (delays_asleep _ _ _ HD _ _ Ex)) as Ho. congruence. }
    intros e e' x x'. rewrite !lookup_insert_Some. intros [[<- <-]|[_ Ex]] [[<- <-]|[_ Ex']] E; cbn in E.
    + done.
    + by destruct (Hne _ _ Ex').
    + by destruct (Hne _ _ Ex).
    + by apply (delays_distinct _ _ _ HD e e' x x').
Qed.

(** The constructor of the alarm, on the sleepers. *)
Lemma construct_sleepers s ls ws f time t :
  let a := Alarm time (handler_at f) 1 t in
  ticks frequency time = Some t → small N B → Delays s ls ws → unused f s ws → Z.of_nat (size ws) < N → 0 ≤ t ≤ B →
  wp (construct frequency (alarm_at f) time (handler_at f) 1 (attrs s)) (λ r m', r = (<[alarm_at f := a]> (attrs s), if t =? 0 then Some (handler_at f) else None) ∧
    ∃ ls', RelRepr ls' m' ∧ Inv N B (Clock (ticked s) (<[alarm_at f := a]> (attrs s)) ls') ∧
      (∀ y, object <$> elements m' !! y = if decide (y = alarm_at f) then Some (Zpos (alarm_at f)) else object <$> elements (links s) !! y) ∧
      times (ticked s) ls' ≡ₚ (if t =? 0 then times (ticked s) ls else (alarm_at f, ticked s + t) :: times (ticked s) ls)) (links s).
Proof.
  intros a Et Hsm HD Hu Hsz Ht. set (clk := Clock (ticked s) (attrs s) ls).
  assert (alarm_at f ∉ ls.*1) as Hnew by (intros (x & Ex & _)%(delays_known _ _ _ _ HD); destruct Hu as (_ & _ & _ & Hu); congruence).
  pose proof (delays_length _ _ _ HD) as Hlen. pose proof (delays_clock _ _ _ HD) as HI.
  pose proof (construct_spec N B frequency (alarm_at f) time (handler_at f) 1 t clk (links s) Et Hsm HI (delays_links _ _ _ HD) Hnew) as Hc.
  cbn zeta in Hc. change (request clk) with ls in Hc. fold a in Hc. specialize (Hc ltac:(lia) Ht).
  apply wp_total in Hc as (r & m' & E & -> & Hr). unfold wp. change (attrs s) with (table clk) at 1. rewrite E. split; [done|].
  exists (request (arm (alarm_at f) a clk)). split; [done|]. split; [|split].
  - by apply (arm_inv N B (alarm_at f) a clk); [|done|unfold clk; cbn; lia|].
  - by apply (construct_objects _ _ _ _ _ _ _ _ E).
  - change (times (ticked s) (request (arm (alarm_at f) a clk))) with (dues (arm (alarm_at f) a clk)).
    destruct (Z.eqb_spec t 0) as [H0|H0]; [|rewrite arm_dues by done; apply place_perm].
    unfold dues, arm. cbn. by rewrite (proj2 (Z.eqb_eq _ _) H0).
Qed.

Lemma enter_spec s ls ws c f time t :
  ticks frequency time = Some t → small N B → Delays s ls ws → c ≠ idle → unused f s ws → Z.of_nat (size ws) < N → 0 ≤ t ≤ B →
  wp (delay_enter frequency f time) (λ now s', now = (if t =? 0 then Some (handler_at f) else None) ∧
    (∃ ls', Delays s' ls' (<[alarm_at f := entered c f (ticked s) t]> ws)) ∧ ticked s' = ticked s ∧ kern (sys s') = kern (sys s)) s.
Proof.
  intros Et Hsm HD Hci Hu Hsz Ht. pose proof (delays_valid _ _ _ HD) as HV. pose proof Hu as (Hu1 & Hq & Hu3 & Hu4).
  unfold delay_enter. apply wp_seq, wp_on_sys. unfold wp at 1. cbn. apply wp_seq. unfold wp at 1. cbn. fold (semaphore_of f).
  unfold alarm_insert. apply wp_locked; [apply HV|]. intros b. apply wp_on_alarms. cbn [links attrs].
  eapply wp_weaken; [by apply (construct_sleepers s ls ws f time t)|]. intros r m' (-> & ls' & Hr & HI & Hobj & Hls). cbn [fst snd sys links ticked attrs handlers].
  split; [done|]. apply wp_ret. split; [done|]. split; [|done]. exists ls'.
  apply (delays_add s _ ls); try done; [lia| |].
  - intros e x Ex. pose proof (delays_asleep _ _ _ HD _ _ Ex) as [A1 A2 A3 A4 A5 A6 A7 A8].
    assert (semaphore_of (on_stack x) ≠ semaphore_of f) as Hne by congruence. assert (handler_at (on_stack x) ≠ handler_at f) as Hnh by congruence.
    split; cbn; [by rewrite lookup_insert_ne|done|by rewrite lookup_insert_ne|done| |done..]. rewrite lookup_insert_ne by congruence. exact A5.
  - split; cbn; [|by rewrite Hq|by rewrite lookup_insert_eq|done| |done|done|].
    + rewrite lookup_insert_eq. unfold called. cbn. by destruct (t =? 0).
    + rewrite lookup_insert_eq. by exists time, 1, t.
    + intros t'. unfold went_off. cbn. destruct (Z.eqb_spec t 0); [|done]. intros [= <-]. lia.
Qed.

(** ** Returning from a delay *)

Lemma destroy_absent ls m e :
  RelRepr ls m → (∀ y, y ∈ ls.*1 → object <$> elements m !! y = Some (Zpos y)) → e ∉ ls.*1 → wp (destroy e) (λ _ m', m' = m) m.
Proof.
  intros [Hr _] Hobj He. unfold destroy, remove_by_object. apply wp_seq, wp_seq. eapply wp_weaken; [by apply search_spec|]. intros r m' [-> ->]. cbn beta.
  destruct (find_object _ _ _) as [y|] eqn:Ef; [|done]. exfalso. unfold find_object in Ef. destruct (filter _ _) as [|y' l] eqn:El; [done|].
  injection Ef as ->. assert (y ∈ y :: l) as Hy by (by left). rewrite <- El in Hy. apply list_elem_of_filter in Hy as [Ho Hy].
  rewrite (Hobj y Hy) in Ho. by injection Ho as ->.
Qed.

Lemma destructor_returns q (b : system) :
  Valid idle (kern b) → queue_of (kern b) q = [] →
  ∃ k', synchronizer_destructor preemptive q b = Some ((), System k' (objects b)) ∧ Valid idle k' ∧ cards k' = cards (kern b) ∧ ∀ x, queue_of k' x = queue_of (kern b) x.
Proof.
  intros HV Hq. destruct (valid_call preemptive idle (Wakeup_all q) (kern b) HV I) as (c & k' & HS & E & HV' & Ec & Eq & _).
  exists k'. split_and!; [|done| |].
  - unfold synchronizer_destructor, begin_atomic, on_kernel, mbind, ST_bind. cbn. cbn in E. unfold mbind, ST_bind in E. cbn in E. by rewrite E.
  - rewrite Ec. cbn. by rewrite Hq.
  - intros x. rewrite Eq. cbn. case_decide as Hx; [by rewrite Hx|done].
Qed.

Lemma disarm_spec s ls ws e w :
  Delays s ls ws → ws !! e = Some w → at_stage w = In_p → called w = true →
  wp (alarm_destructor (alarm_at (on_stack w))) (λ _ s', Delays s' ls (<[e := to_stage Disarmed w]> ws) ∧ kern (sys s') = kern (sys s)) s.
Proof.
  intros HD Ew Hst Hc. pose proof (delays_asleep _ _ _ HD _ _ Ew) as HA. pose proof HA as [A1 A2 A3 A4 A5 A6 A7 A8]. rewrite A4.
  assert (e ∉ ls.*1) as He.
  { intros (x & Ex & Hx)%(delays_known _ _ _ _ HD). rewrite Ew in Ex. injection Ex as <-. unfold called in Hc. by rewrite Hx in Hc. }
  unfold alarm_destructor. apply wp_seq, wp_on_sys. unfold wp at 1. cbn. apply wp_seq, wp_on_alarms. cbn [links attrs].
  apply wp_seq. eapply wp_weaken; [apply (destroy_absent ls); [apply HD|apply HD|done]|]. intros [] m' ->. apply wp_ret. cbn [fst snd sys links ticked attrs handlers].
  apply wp_on_sys. unfold wp at 1. cbn. change (with_int true (with_int false (kern (sys s)))) with (with_int true (kern (sys s))). rewrite with_int_true by apply HD.
  split; [|done]. apply (delays_update s _ ls ws e w); try done; [apply HD| |].
  - intros e' x _. apply asleep_frame; [cbn; by destruct (sys s)|done..].
  - unfold in_p in A1, A2. rewrite Hst in A1, A2. split; cbn; done.
Qed.

Lemma leave_spec s ls ws e w :
  Delays s ls ws → ws !! e = Some w → at_stage w = Disarmed →
  wp (delay_leave preemptive (on_stack w)) (λ _ s', Delays s' ls (base.delete e ws) ∧
    cards (kern (sys s')) = cards (kern (sys s)) ∧ objects (sys s') !! semaphore_of (on_stack w) = None ∧ handlers s' !! handler_at (on_stack w) = None) s.
Proof.
  intros HD Ew Hst. pose proof (delays_asleep _ _ _ HD _ _ Ew) as [A1 A2 A3 A4 _ _ A7 _]. rewrite Hst in A7. unfold in_p in A2. rewrite Hst, A7 in A2. cbn in A2.
  pose proof (delays_valid _ _ _ HD) as HV. assert (e ∉ ls.*1) as He.
  { intros (x & Ex & Hx)%(delays_known _ _ _ _ HD). rewrite Ew in Ex. injection Ex as <-. unfold called in A7. by rewrite Hx in A7. }
  unfold delay_leave. apply wp_seq. unfold wp at 1. cbn. apply wp_seq, wp_on_sys. cbn [sys].
  destruct (destructor_returns (semaphore_of (on_stack w)) (sys s) HV A2) as (k' & E & HV' & Ec & Eq).
  eapply wp_of; [exact E|]. cbn beta. apply wp_on_sys. unfold wp. cbn. split_and!; [|done|by rewrite lookup_delete_eq|by rewrite lookup_delete_eq].
  split; cbn [sys links ticked attrs handlers kern]; [done|apply HD|apply HD|apply HD| | |].
  - intros y D. rewrite (delays_request _ _ _ HD y D). destruct (decide (e = y)) as [<-|Hne]; [|by rewrite lookup_delete_ne].
    rewrite lookup_delete_eq. split; [|by intros (x & ? & _)]. intros (x & Ex & Hx & _). rewrite Ew in Ex. injection Ex as <-. unfold called in A7. by rewrite Hx in A7.
  - intros y x [Hne Ex]%lookup_delete_Some. pose proof (delays_asleep _ _ _ HD _ _ Ex) as [B1 B2 B3 B4 B5 B6 B7 B8].
    assert (semaphore_of (on_stack x) ≠ semaphore_of (on_stack w)) as Hq by (intros Hq; apply Hne; symmetry; by apply (delays_distinct _ _ _ HD y e x w)).
    split; cbn; [by rewrite lookup_delete_ne|by rewrite Eq|rewrite lookup_delete_ne; [done|congruence]|done..].
  - intros y y' x x' [_ Ex]%lookup_delete_Some [_ Ex']%lookup_delete_Some. by apply (delays_distinct _ _ _ HD).
Qed.

Lemma call_alarm_spec s ls ws e w t :
  Delays s ls ws → ws !! e = Some w → alarm_bell w = Gone_off t →
  wp (call_alarm preemptive e) (λ _ s', Delays s' ls (<[e := to_bell (Called t) w]> ws) ∧
    if in_p w then ready_state (state_of (kern (sys s')) (who w)) else kern (sys s') = kern (sys s)) s.
Proof.
  intros HD Ew Hb. pose proof (delays_asleep _ _ _ HD _ _ Ew) as [_ _ _ _ (time & n & k & Ea & _) _ _ A8].
  unfold went_off in A8. rewrite Hb in A8. destruct (A8 t eq_refl) as [Ht Hn].
  unfold call_alarm. apply wp_seq, wp_on_alarms. unfold attributes. apply wp_seq, (wp_defined _ _ _ _ Ea), wp_ret. cbn [fst snd _handler].
  replace (Machine (sys s) (links s) (ticked s) (attrs s) (handlers s)) with s by (by destruct s).
  apply (sleeper_called s ls ws e w t HD Ew); [congruence|unfold called; by rewrite Hb|done|done].
Qed.

(** ** Histories *)

(** What may happen, one lock at a time.  A running thread enters [delay],
    calls the handler of an alarm of no ticks, calls [p()], and runs the
    destructors once [p()] has returned to it; the timer interrupts; the
    handler of an alarm that has gone off is called, at once or after other
    interrupts and by whichever thread then runs; and the running thread
    makes another call, on anything but the sleepers' semaphores. *)
Inductive history (s0 : machine) : machine → sleepers → Prop :=
| history_start : history s0 s0 ∅
| history_enter s ws c f time t now s' :
    history s0 s ws → chosen (_scheduler (kern (sys s))) = Some c → c ≠ idle → unused f s ws → Z.of_nat (size ws) < N →
    ticks frequency time = Some t → 0 ≤ t ≤ B → delay_enter frequency f time s = Some (now, s') →
    history s0 s' (<[alarm_at f := entered c f (ticked s) t]> ws)
| history_self_call s ws e w s' :
    history s0 s ws → ws !! e = Some w → alarm_bell w = Self_call → chosen (_scheduler (kern (sys s))) = Some (who w) →
    call_handler preemptive (handler_at (on_stack w)) s = Some ((), s') → history s0 s' (<[e := to_bell (Called (due w)) w]> ws)
| history_p s ws e w s' :
    history s0 s ws → ws !! e = Some w → at_stage w = Before_p → alarm_bell w ≠ Self_call → chosen (_scheduler (kern (sys s))) = Some (who w) →
    on_sys (p (semaphore_of (on_stack w)) false) s = Some ((), s') → history s0 s' (<[e := to_stage In_p w]> ws)
| history_interrupt s ws o s' :
    history s0 s ws → fits (ticked s + 1) → timer_interrupt s = Some (o, s') → history s0 s' (ring o (ticked s') ws)
| history_call_alarm s ws e w t s' :
    history s0 s ws → ws !! e = Some w → alarm_bell w = Gone_off t → call_alarm preemptive e s = Some ((), s') →
    history s0 s' (<[e := to_bell (Called t) w]> ws)
| history_call s ws c op b :
    history s0 s ws → chosen (_scheduler (kern (sys s))) = Some c → permitted idle op (sys s) →
    (∀ e w, ws !! e = Some w → target op ≠ Some (semaphore_of (on_stack w))) → run_sync preemptive op (sys s) = Some ((), b) →
    history s0 (Machine b (links s) (ticked s) (attrs s) (handlers s)) ws
| history_disarm s ws e w s' :
    history s0 s ws → ws !! e = Some w → at_stage w = In_p → chosen (_scheduler (kern (sys s))) = Some (who w) →
    alarm_destructor (alarm_at (on_stack w)) s = Some ((), s') → history s0 s' (<[e := to_stage Disarmed w]> ws)
| history_leave s ws e w s' :
    history s0 s ws → ws !! e = Some w → at_stage w = Disarmed → chosen (_scheduler (kern (sys s))) = Some (who w) →
    delay_leave preemptive (on_stack w) s = Some ((), s') → history s0 s' (base.delete e ws).

(** A machine on which no alarm has been set. *)
Definition quiet (s : machine) : Prop := Valid idle (kern (sys s)) ∧ this (links s) = new_list.

Lemma quiet_delays s : 0 < N → quiet s → Delays s [] ∅.
Proof.
  intros HN [HV Hl]. split; [done| | | | | |].
  - split; [split_and!; [constructor|cbn; lia|by intros i p ?]|constructor|by intros e ?%elem_of_nil].
  - destruct s as [? [h t] ? ? ?]. cbn in Hl |- *. subst t. split; [apply new_list_repr|constructor].
  - by intros e ?%elem_of_nil.
  - intros e D. cbn. setoid_rewrite lookup_empty. split; [by intros ?%elem_of_nil|by intros (? & ? & _)].
  - by intros e w; rewrite lookup_empty.
  - by intros e e' w w'; rewrite lookup_empty.
Qed.

Lemma self_call_spec s ls ws e w :
  Delays s ls ws → ws !! e = Some w → alarm_bell w = Self_call →
  wp (call_handler preemptive (handler_at (on_stack w))) (λ _ s', Delays s' ls (<[e := to_bell (Called (due w)) w]> ws) ∧ kern (sys s') = kern (sys s)) s.
Proof.
  intros HD Ew Hb. pose proof (delays_asleep _ _ _ HD _ _ Ew) as [_ _ _ _ _ _ A7 A8].
  unfold went_off in A8. rewrite Hb in A8. destruct (A8 _ eq_refl) as [Ht Hn].
  assert (in_p w = false) as Hin by (unfold in_p, called in *; rewrite Hb in A7; by destruct (at_stage w)).
  eapply wp_weaken; [apply (sleeper_called s ls ws e w (due w) HD Ew); [congruence|unfold called; by rewrite Hb|done|done]|].
  intros [] s'. by rewrite Hin.
Qed.

Lemma history_delays s0 s ws : small N B → 0 < N → quiet s0 → history s0 s ws → ∃ ls, Delays s ls ws.
Proof.
  intros Hsm HN Hq0.
  induction 1 as [|s ws c f time t now s' _ [ls IH] Hc Hci Hu Hsz Et Ht E|s ws e w s' _ [ls IH] Ew Hb Hc E|s ws e w s' _ [ls IH] Ew Hst Hb Hc E
    |s ws o s' _ [ls IH] Hf E|s ws e w t s' _ [ls IH] Ew Hb E|s ws c op b _ [ls IH] Hc Hp Ht E|s ws e w s' _ [ls IH] Ew Hst Hc E|s ws e w s' _ [ls IH] Ew Hst Hc E].
  - exists []. by apply quiet_delays.
  - by pose proof (wp_result _ _ _ _ _ E (enter_spec s ls ws c f time t Et Hsm IH Hci Hu Hsz Ht)) as (_ & Hls & _).
  - pose proof (wp_result _ _ _ _ _ E (self_call_spec s ls ws e w IH Ew Hb)) as [Hls _]. by exists ls.
  - pose proof (wp_result _ _ _ _ _ E (p_spec s ls ws e w IH Ew Hst Hb Hc)) as [Hls _]. by exists ls.
  - by pose proof (wp_result _ _ _ _ _ E (interrupt_spec s ls ws Hsm IH Hf)) as [Hls _].
  - pose proof (wp_result _ _ _ _ _ E (call_alarm_spec s ls ws e w t IH Ew Hb)) as [Hls _]. by exists ls.
  - exists ls. by apply (sync_step op c).
  - assert (called w = true) as Hcl by (apply (chosen_called s ls ws e w IH Ew); [unfold in_p; by rewrite Hst|done]).
    pose proof (wp_result _ _ _ _ _ E (disarm_spec s ls ws e w IH Ew Hst Hcl)) as [Hls _]. by exists ls.
  - pose proof (wp_result _ _ _ _ _ E (leave_spec s ls ws e w IH Ew Hst)) as [Hls _]. by exists ls.
Qed.

(** What a sleeper can count on. *)
Record Promised (s : machine) (e : loc) (w : sleeper) : Prop := {
  promised_set : alarm_bell w = Ringing → ticked s < due w + N;
  promised_time t : went_off w = Some t → due w ≤ t ≤ due w + N;
  promised_waiting : at_stage w = In_p → called w = false → state_of (kern (sys s)) (who w) = Some WAITING;
  promised_self_call : alarm_bell w = Self_call →
    ∃ s', call_handler preemptive (handler_at (on_stack w)) s = Some ((), s') ∧ kern (sys s') = kern (sys s);
  promised_p : at_stage w = Before_p → alarm_bell w ≠ Self_call → chosen (_scheduler (kern (sys s))) = Some (who w) →
    ∃ s', on_sys (p (semaphore_of (on_stack w)) false) s = Some ((), s') ∧
      if called w then kern (sys s') = kern (sys s) else state_of (kern (sys s')) (who w) = Some WAITING;
  promised_call t : alarm_bell w = Gone_off t →
    ∃ s', call_alarm preemptive e s = Some ((), s') ∧
      if in_p w then ready_state (state_of (kern (sys s')) (who w)) else kern (sys s') = kern (sys s);
  promised_return : at_stage w = In_p → chosen (_scheduler (kern (sys s))) = Some (who w) →
    called w = true ∧ ∃ s', alarm_destructor (alarm_at (on_stack w)) s = Some ((), s') ∧ kern (sys s') = kern (sys s);
  promised_leave : at_stage w = Disarmed →
    ∃ s', delay_leave preemptive (on_stack w) s = Some ((), s') ∧ cards (kern (sys s')) = cards (kern (sys s))
}.

Lemma delays_promised s ls ws e w : Delays s ls ws → ws !! e = Some w → Promised s e w.
Proof.
  intros HD Ew. split.
  - intros Hb. assert ((e, due w) ∈ times (ticked s) ls) as Hin by (apply (delays_request _ _ _ HD); by exists w).
    apply list_elem_of_lookup_1 in Hin as [i Hi]. apply (inv_on_time _ _ _ (delays_clock _ _ _ HD)) in Hi. cbn in Hi. lia.
  - intros t Ht. by apply (asleep_time _ _ _ (delays_asleep _ _ _ HD _ _ Ew)).
  - intros Hst Hc. apply (place_state _ _ (In_queue (semaphore_of (on_stack w)))), (asleep_waits s ls ws e w HD Ew); [unfold in_p; by rewrite Hst|done].
  - intros Hb. apply wp_returns. eapply wp_weaken; [by apply (self_call_spec s ls ws e w)|]. by intros [] s' [_ Hk].
  - intros Hst Hb Hc. apply wp_returns. eapply wp_weaken; [by apply (p_spec s ls ws e w)|]. by intros [] s' [_ Hk].
  - intros t Hb. apply wp_returns. eapply wp_weaken; [by apply (call_alarm_spec s ls ws e w t)|]. by intros [] s' [_ Hk].
  - intros Hst Hc. assert (called w = true) as Hcl by (apply (chosen_called s ls ws e w HD Ew); [unfold in_p; by rewrite Hst|done]).
    split; [done|]. apply wp_returns. eapply wp_weaken; [by apply (disarm_spec s ls ws e w)|]. by intros [] s' [_ Hk].
  - intros Hst. apply wp_returns. eapply wp_weaken; [by apply (leave_spec s ls ws e w)|]. by intros [] s' (_ & Hk & _).
Qed.
End delays.

(** ** What a delay promises *)

(** C10 Delays end, and on time, whatever happens between the locks.  On a machine
    where up to N threads may be in [delay] at once, entering returns, and a
    tick returns, leaves all threads as they are, and lets no alarm go off
    before it is due or more than N ticks after.  Of every thread in [delay]:
    its alarm, while set, is less than N ticks late, so it goes off by then;
    if the handler has not been called when the thread comes to [p()], [p()]
    makes it wait, and it waits until the handler is called; if the handler
    has been called (a tick may come in between), [p()] does not wait;
    calling the handler of an alarm that has gone off returns, and makes a
    waiting thread ready; [p()] comes back only after that call; and the
    destructors return and leave all threads as they are. *)
Theorem delays_end_on_time preemptive frequency idle N B s0 s ws :
  small N B → 0 < N → quiet idle s0 → history preemptive frequency idle N B s0 s ws →
  (∀ c f time t, chosen (_scheduler (kern (sys s))) = Some c → c ≠ idle → unused f s ws → Z.of_nat (size ws) < N →
    ticks frequency time = Some t → 0 ≤ t ≤ B →
    ∃ s', delay_enter frequency f time s = Some (if t =? 0 then Some (handler_at f) else None, s') ∧ kern (sys s') = kern (sys s)) ∧
  (fits (ticked s + 1) → ∃ o s', timer_interrupt s = Some (o, s') ∧ ticked s' = ticked s + 1 ∧ kern (sys s') = kern (sys s) ∧
    ∀ e, o = Some e → ∃ w, ws !! e = Some w ∧ alarm_bell w = Ringing ∧ due w ≤ ticked s' ≤ due w + N) ∧
  ∀ e w, ws !! e = Some w → Promised preemptive N s e w.
Proof.
  intros Hsm HN Hq Hh. destruct (history_delays preemptive frequency idle N B s0 s ws Hsm HN Hq Hh) as [ls HD]. split_and!.
  - intros c f time t Hc Hci Hu Hsz Et Ht.
    pose proof (enter_spec frequency idle N B s ls ws c f time t Et Hsm HD Hci Hu Hsz Ht) as (now & s' & E & -> & _ & _ & Hk)%wp_total. by exists s'.
  - intros Hf. pose proof (interrupt_spec idle N B s ls ws Hsm HD Hf) as (o & s' & E & _ & En & Es & Ho)%wp_total.
    exists o, s'. split_and!; [done|done|by rewrite Es|done].
  - intros e w Ew. by apply (delays_promised preemptive idle N B s ls ws e w HD).
Qed.

(** ** An example *)

(** Main (1) delays for three ticks of a microsecond, on the threads of
    three_synchronizers; all three come before it has called [p()]. *)
Definition quiet_machine : machine := Machine three_synchronizers (Memory ∅ new_list) 0 ∅ ∅.
Definition main_frame : delay_frame := Frame 20 7 30.
Definition from {A} (r : option (A * machine)) : machine := from_option snd quiet_machine r.
Definition main_entered : machine := from (delay_enter 1000000 main_frame 3 quiet_machine).
Definition tick_on (s : machine) : machine := from (timer_interrupt s).
Definition main_late : machine := tick_on (tick_on (tick_on main_entered)).
Definition main_called : machine := from (call_alarm true 30 main_late).
Definition main_sleeper (r : bell) : sleepers := {[30%positive := Sleeper 1 main_frame 3 Before_p r]}.

Lemma main_late_history : history true 1000000 2 4 100 quiet_machine main_late (main_sleeper (Gone_off 3)).
Proof.
  replace (main_sleeper (Gone_off 3)) with (ring (Some 30%positive) (ticked main_late) (ring None 2 (ring None 1 (main_sleeper Ringing)))) by (vm_compute; reflexivity).
  apply (history_interrupt true 1000000 2 4 100 quiet_machine (tick_on (tick_on main_entered))); [|split; vm_compute; done|vm_compute; reflexivity].
  apply (history_interrupt true 1000000 2 4 100 quiet_machine (tick_on main_entered) _ None); [|split; vm_compute; done|vm_compute; reflexivity].
  apply (history_interrupt true 1000000 2 4 100 quiet_machine main_entered _ None); [|split; vm_compute; done|vm_compute; reflexivity].
  apply (history_enter true 1000000 2 4 100 quiet_machine quiet_machine ∅ 1 main_frame 3 3 None main_entered); try done. apply history_start.
Qed.

Lemma main_called_history : history true 1000000 2 4 100 quiet_machine main_called (main_sleeper (Called 3)).
Proof.
  apply (history_call_alarm true 1000000 2 4 100 quiet_machine main_late (main_sleeper (Gone_off 3)) 30 (Sleeper 1 main_frame 3 Before_p (Gone_off 3))); try done.
  exact main_late_history.
Qed.

Example delays_end_on_time_witness :
  ∃ s', on_sys (p (semaphore_of main_frame) false) main_called = Some ((), s') ∧ kern (sys s') = kern (sys main_called).
Proof.
  destruct (delays_end_on_time true 1000000 2 4 100 quiet_machine main_called (main_sleeper (Called 3))) as (_ & _ & Hp).
  - unfold small. lia.
  - lia.
  - split; [exact with_worker_valid|done].
  - exact main_called_history.
  - by apply (promised_p _ _ _ _ _ (Hp 30%positive (Sleeper 1 main_frame 3 Before_p (Called 3)) eq_refl)).
Defined.

(** Without the ticks main waits, and after the third it runs again, ahead of the
    worker. *)
Example main_wakes :
  let run := '(_, s) ← delay true 1000000 main_frame 3 quiet_machine; '(_, s1) ← timer true s; '(_, s1) ← timer true s1; '(_, s1) ← timer true s1;
    '(_, s2) ← delay_return true main_frame s1; Some (s, s2) in
  (λ r, (state_of (kern (sys r.1)) 1%positive, state_of (kern (sys r.2)) 1%positive, state_of (kern (sys r.2)) 3%positive, ticked r.2)) <$> run =
    Some (Some WAITING, Some RUNNING, Some READY, 3).
Proof. vm_compute. reflexivity. Qed.
