(* ===== verification/Heap.v ===== *)
(** * The heap (include/utility/heap.h, class Grouping_List of list.h)

    A free block of memory holds, in its first 16 bytes, the list element that
    describes it: its address and its size.  [heap] is the memory of DList.v,
    whose addresses are those of the blocks, with the size of the groups, the
    words written before the blocks handed out, and whether [_panic] was
    called.  Elements and words share the memory: a word written over an
    element, or an element built over words, destroys them, and what is
    destroyed cannot be read.  Integers and pointers have 32 bits; [typed] and
    [unaligned_memory_access] are traits, [self] is the address of the heap.
    Arena.v says what the heap does to blocks, HeapSpec.v proves it. *)

From stdpp Require Import base numbers list option gmap.
From S2P Require Import Prelude StateM DList OrderedList.
#[local] Set Warnings "-clear-no-such-hyp".

Definition wrap (x : Z) : Z := x mod 2 ^ 32.
Definition sizeof_Element : Z := 16.
Definition sizeof_pointer : Z := 4.
Definition sizeof_int : Z := 4.

(** The element at an address. *)
Definition at_address (a : Z) : loc := Z.to_pos a.

Record heap := Heap { free_list : memory Z; _grouped_size : Z; words : gmap Z Z; panicked : bool }.

Abbreviation H := (ST heap).

(** ** Memory *)

(** [n] bytes at [a] and [n'] bytes at [a'] share a byte. *)
Definition overlap (a n a' n' : Z) : Prop := a < a' + n' ∧ a' < a + n.
Definition erase_elements (a n : Z) (h : gmap loc (element Z)) : gmap loc (element Z) :=
  filter (λ p, ¬ overlap (Z.pos p.1) sizeof_Element a n) h.
Definition erase_words (a n : Z) (w : gmap Z Z) : gmap Z Z := filter (λ p, ¬ overlap p.1 sizeof_int a n) w.

Definition store_word (a v : Z) : H unit := λ s,
  Some ((), Heap (Memory (erase_elements a sizeof_int (elements (free_list s))) (this (free_list s))) (_grouped_size s)
    (<[a := v]> (erase_words a sizeof_int (words s))) (panicked s)).
Definition load_word (a : Z) : H Z := λ s, v ← words s !! a; Some (v, s).

(** [new (ptr) Element(ptr, bytes)] *)
Definition new_element (ptr bytes : Z) : H loc := λ s,
  let h := erase_elements ptr sizeof_Element (elements (free_list s)) in
  Some (at_address ptr, Heap (Memory (<[at_address ptr := Element ptr bytes None None]> h) (this (free_list s))) (_grouped_size s)
    (erase_words ptr sizeof_Element (words s)) (panicked s)).

(** ** Grouping_List *)

Definition in_list {A} (c : M Z A) : H A := λ s,
  '(x, m) ← c (free_list s); Some (x, Heap m (_grouped_size s) (words s) (panicked s)).
Definition group (d : Z) : H unit := λ s,
  Some ((), Heap (free_list s) (wrap (_grouped_size s + d)) (words s) (panicked s)).

(** [e->object() + e->size()], [e->shrink(n)], [e->size(n)] *)
Definition end_of (x : Z * Z) : Z := wrap (x.1 + x.2).
Definition element_size (e : loc) : H Z := in_list (get rank e).
Definition element_end (e : loc) : H Z := in_list (get (λ x, end_of (payload x)) e).
Definition element_object (e : loc) : H Z := in_list (get object e).
Definition set_element_size (e : loc) (n : Z) : H unit := in_list (put (set_rank n) e).
Definition shrink (e : loc) (n : Z) : H unit := in_list (put (λ x, set_rank (wrap (rank x - n)) x) e).

(** [for(; e && !stop(e); e = e->next());] *)
Fixpoint scan (stop : Z * Z → bool) (fuel : nat) (p : option loc) : M Z (option loc) :=
  match p with
  | None => mret None
  | Some e =>
      x ← get payload e;
      if stop x then mret (Some e)
      else match fuel with
           | O => stuck
           | S fuel' => n ← get next e; scan stop fuel' n
           end
  end.
Definition scan_list (stop : Z * Z → bool) : M Z (option loc) := λ m, scan stop (size (elements m)) (_head (this m)) m.

Definition fits_size (s : Z) (x : Z * Z) : bool := negb ((x.2 <? wrap (sizeof_Element + s)) && negb (x.2 =? s)).
Definition search_size (s : Z) : M Z (option loc) := scan_list (fits_size s).
Definition search_left (obj : Z) : M Z (option loc) := scan_list (λ x, end_of x =? obj).

(** The elements merged are the result. *)
Definition insert_merging (e : loc) : H (option loc * option loc) :=
  n ← element_size e;
  _ ← group n;
  o ← element_end e;
  r ← in_list (search o);
  o ← element_object e;
  l ← in_list (search_left o);
  _ ← (match l with None => in_list (insert_tail e) | Some _ => mret () end);
  m1 ← (match r with
        | Some r => n ← element_size e; nr ← element_size r; _ ← set_element_size e (wrap (n + nr));
                    _ ← in_list (remove r); mret (Some r)
        | None => mret None
        end);
  m2 ← (match l with
        | Some l => nl ← element_size l; n ← element_size e; _ ← set_element_size l (wrap (nl + n)); mret (Some e)
        | None => mret None
        end);
  mret (m1, m2).

Definition search_decrementing (s : Z) : H (option loc) :=
  e ← in_list (search_size s);
  match e with
  | Some e =>
      _ ← shrink e s;
      _ ← group (- s);
      n ← element_size e;
      _ ← (if n =? 0 then _ ← in_list (remove e); mret () else mret ());
      mret (Some e)
  | None => mret None
  end.

(** ** Simple_Heap *)

Definition out_of_memory : H unit := λ s, Some ((), Heap (free_list s) (_grouped_size s) (words s) true).

(** [while((bytes % sizeof(void * ))) ++bytes;], at most three times round. *)
Fixpoint round_up (fuel : nat) (bytes : Z) : Z :=
  match fuel with
  | O => bytes
  | S fuel' => if bytes mod sizeof_pointer =? 0 then bytes else round_up fuel' (wrap (bytes + 1))
  end.

Section traits.
Context (typed unaligned_memory_access : bool) (self : Z).

(** The bytes taken for a request. *)
Definition block_size (bytes : Z) : Z :=
  let bytes := if unaligned_memory_access then bytes else round_up 4 bytes in
  let bytes := if typed then wrap (bytes + sizeof_pointer) else bytes in
  let bytes := wrap (bytes + sizeof_int) in
  if bytes <? sizeof_Element then sizeof_Element else bytes.

(** The null pointer is 0. *)
Definition alloc (bytes : Z) : H Z :=
  if bytes =? 0 then mret 0 else
  let bytes := block_size bytes in
  e ← search_decrementing bytes;
  match e with
  | None => _ ← out_of_memory; mret 0
  | Some e =>
      addr ← element_end e;
      addr ← (if typed then _ ← store_word addr self; mret (wrap (addr + sizeof_int)) else mret addr);
      _ ← store_word addr bytes;
      mret (wrap (addr + sizeof_int))
  end.

Definition free (ptr bytes : Z) : H unit :=
  if negb (ptr =? 0) && (sizeof_Element <=? bytes)
  then e ← new_element ptr bytes; _ ← insert_merging e; mret ()
  else mret ().

(** The header names the heap the block goes back to; there is one. *)
Definition typed_free (ptr : Z) : H unit :=
  let addr := wrap (ptr - sizeof_int) in
  bytes ← load_word addr;
  let addr := wrap (addr - sizeof_int) in
  heap ← load_word addr;
  if heap =? self then free addr bytes else stuck.

Definition untyped_free (ptr : Z) : H unit :=
  let addr := wrap (ptr - sizeof_int) in
  bytes ← load_word addr;
  free addr bytes.

(** [free] of include/system.h *)
Definition release (ptr : Z) : H unit := if typed then typed_free ptr else untyped_free ptr.
End traits.

(** [Simple_Heap(addr, bytes)] *)
Definition no_heap : heap := Heap (Memory ∅ new_list) 0 ∅ false.
Definition Simple_Heap (addr bytes : Z) : option heap := '(_, s) ← free addr bytes no_heap; Some s.
