(* ===== verification/Arena.v ===== *)
(** * Free and allocated blocks, abstractly

    What the heap of Heap.v does to its blocks of memory, pairs of an address
    and a size: [take_block] and [give_block] on the list of free ones.  An
    arena is [Accounted] when its blocks tile it, each has room for an element
    of the list and no two free ones touch; both operations keep it so. *)

From stdpp Require Import base numbers list option gmap.
From S2P Require Import Prelude Heap.
#[local] Set Warnings "-clear-no-such-hyp".

(** ** Blocks *)

Abbreviation block := (Z * Z)%type.

Definition stop_at (b : block) : Z := b.1 + b.2.

(** Arithmetic on blocks. *)
Ltac size_lia := unfold stop_at, sizeof_Element, sizeof_int, sizeof_pointer in *; cbn [fst snd] in *; lia.

(** The list cut at the first block that satisfies [P]. *)
Fixpoint cut (P : block → bool) (fl : list block) : option (list block * block * list block) :=
  match fl with
  | [] => None
  | b :: fl' => if P b then Some ([], b, fl') else '(l1, x, l2) ← cut P fl'; Some (b :: l1, x, l2)
  end.
Definition found (P : block → bool) (fl : list block) : option block := '(_, x, _) ← cut P fl; Some x.

(** What the heap does to its list of free blocks. *)
Definition usable (s : Z) (b : block) : bool := (b.2 =? s) || (s + sizeof_Element <=? b.2).
Definition take_block (s : Z) (fl : list block) : option Z * list block :=
  match cut (usable s) fl with
  | None => (None, fl)
  | Some (l1, (a, n), l2) => if n =? s then (Some a, l1 ++ l2) else (Some (a + n - s), l1 ++ (a, n - s) :: l2)
  end.
Definition drop_block (b : block) (fl : list block) : list block := filter (λ x, x ≠ b) fl.
Definition give_block (b : block) (fl : list block) : list block :=
  let r := found (λ x, x.1 =? stop_at b) fl in
  let n := b.2 + from_option snd 0 r in
  let rest := from_option drop_block id r in
  match cut (λ x, stop_at x =? b.1) fl with
  | None => rest (fl ++ [(b.1, n)])
  | Some (l1, (a, m), l2) => rest l1 ++ (a, m + n) :: rest l2
  end.

Section cut.
Implicit Types (P : block → bool) (fl : list block).

Lemma cut_some P fl l1 x l2 : cut P fl = Some (l1, x, l2) → fl = l1 ++ x :: l2 ∧ P x = true ∧ Forall (λ y, P y = false) l1.
Proof.
  revert l1; induction fl as [|b fl IH]; intros l1; cbn [cut]; [done|]. destruct (P b) eqn:E; [by intros [= <- <- <-]|].
  destruct (cut P fl) as [[[k y] k']|]; [|done]. intros [= <- <- <-]. destruct (IH k eq_refl) as (-> & ? & ?). split_and!; [done..|].
  by constructor.
Qed.

Lemma cut_none P fl : cut P fl = None → Forall (λ y, P y = false) fl.
Proof.
  induction fl as [|b fl IH]; cbn [cut]; [constructor|]. destruct (P b) eqn:E; [done|].
  destruct (cut P fl) as [[[k y] k']|]; [done|]. intros _. constructor; auto.
Qed.

Lemma found_some P fl x : found P fl = Some x → x ∈ fl ∧ P x = true.
Proof.
  unfold found. destruct (cut P fl) as [[[k y] k']|] eqn:E; [|done]. intros [= <-]. apply cut_some in E as (-> & ? & _).
  split; [|done]. apply elem_of_app. right. by left.
Qed.

Lemma found_none P fl : found P fl = None → Forall (λ y, P y = false) fl.
Proof. unfold found. destruct (cut P fl) as [[[k y] k']|] eqn:E; [done|]. intros _. by apply cut_none. Qed.

Lemma found_cut P fl l1 x l2 : cut P fl = Some (l1, x, l2) → found P fl = Some x.
Proof. unfold found. by intros ->. Qed.

Lemma drop_absent b fl : b ∉ fl → drop_block b fl = fl.
Proof.
  unfold drop_block. induction fl as [|y fl IH]; [done|]. intros [Hy Hl]%not_elem_of_cons. rewrite filter_cons_True by done. by rewrite IH.
Qed.
End cut.

(** *** Tilings of the arena *)

(** Blocks one after the other from [lo] to [hi]. *)
Fixpoint tiles (lo : Z) (bs : list block) (hi : Z) : Prop :=
  match bs with [] => lo = hi | b :: bs' => b.1 = lo ∧ 0 < b.2 ∧ tiles (stop_at b) bs' hi end.

Definition total (bs : list block) : Z := foldr (λ b t, b.2 + t) 0 bs.
Arguments total : simpl never.
(** In some order. *)
Definition tiling (lo hi : Z) (bs : list block) : Prop := ∃ bs', bs' ≡ₚ bs ∧ tiles lo bs' hi.

#[export] Instance tiling_proper lo hi : Proper ((≡ₚ) ==> iff) (tiling lo hi).
Proof. intros bs bs' E. unfold tiling. by setoid_rewrite E. Qed.

Lemma total_app bs bs' : total (bs ++ bs') = total bs + total bs'.
Proof. unfold total. induction bs; cbn; lia. Qed.
#[export] Instance total_proper : Proper ((≡ₚ) ==> (=)) total.
Proof. unfold total. intros bs bs' E. induction E; cbn; lia. Qed.

Lemma total_nonneg bs : Forall (λ b, 0 < b.2) bs → 0 ≤ total bs.
Proof. unfold total. induction 1; cbn [foldr]; lia. Qed.

Lemma length_total bs : Forall (λ b, 0 < b.2) bs → Z.of_nat (length bs) ≤ total bs.
Proof. unfold total. induction 1; cbn [foldr length]; lia. Qed.

Section tilings.
Implicit Types (lo hi : Z) (b c : block) (bs : list block).

Lemma tiles_app lo bs bs' hi : tiles lo (bs ++ bs') hi ↔ ∃ mid, tiles lo bs mid ∧ tiles mid bs' hi.
Proof.
  revert lo; induction bs as [|b bs IH]; intros lo; cbn [app tiles].
  - split; [by exists lo|]. by intros (? & <- & ?).
  - rewrite IH. naive_solver.
Qed.

Lemma tiles_total lo bs hi : tiles lo bs hi → hi = lo + total bs ∧ Forall (λ b, lo ≤ b.1 ∧ 0 < b.2 ∧ stop_at b ≤ hi) bs.
Proof.
  revert lo; induction bs as [|b bs IH]; intros lo; cbn [tiles]; [intros <-; unfold total; cbn; split; [lia|done]|].
  intros (<- & Hn & [E Hf]%IH). unfold stop_at, total in *. cbn [foldr]. split; [lia|].
  assert (0 ≤ foldr (λ b t, b.2 + t) 0 bs) as Hp by (apply total_nonneg; eapply Forall_impl; [exact Hf|]; cbn; tauto).
  constructor; [lia|]. eapply Forall_impl; [done|]. cbn. lia.
Qed.

Lemma tiling_total lo hi bs : tiling lo hi bs → hi = lo + total bs ∧ Forall (λ b, lo ≤ b.1 ∧ 0 < b.2 ∧ stop_at b ≤ hi) bs.
Proof. intros (bs' & E & [Ht Hf]%tiles_total). by rewrite <- E. Qed.

Lemma tiles_apart lo bs b bs' hi : tiles lo (bs ++ b :: bs') hi → Forall (λ c, stop_at c ≤ b.1) bs ∧ Forall (λ c, stop_at b ≤ c.1) bs'.
Proof.
  intros (mid & H1 & <- & _ & H2)%tiles_app. apply tiles_total in H1 as [_ H1]. apply tiles_total in H2 as [_ H2].
  split; (eapply Forall_impl; [done|]); cbn; lia.
Qed.

(** Two blocks of a tiling do not meet. *)
Lemma tiling_apart lo hi b bs : tiling lo hi (b :: bs) → Forall (λ c, stop_at c ≤ b.1 ∨ stop_at b ≤ c.1) bs.
Proof.
  intros (bs' & E & Ht). assert (b ∈ bs') as (l1 & l2 & ->)%list_elem_of_split by (rewrite E; by left).
  rewrite <- Permutation_middle in E. apply Permutation_cons_inv in E. rewrite <- E. apply tiles_apart in Ht as [H1 H2].
  apply Forall_app. split; (eapply Forall_impl; [done|]); tauto.
Qed.

Lemma tiling_nodup lo hi bs : tiling lo hi bs → NoDup bs.*1.
Proof.
  intros (bs' & <- & Ht). revert lo Ht; induction bs' as [|b bs' IH]; intros lo; cbn; [constructor|].
  intros (<- & Hn & Ht). constructor; [|by eapply IH]. intros ([a n] & E & He)%list_elem_of_fmap.
  apply tiles_total in Ht as [_ Hf]. rewrite Forall_forall in Hf. specialize (Hf _ He). unfold stop_at in *. cbn in *. lia.
Qed.

Lemma tiling_split lo hi a n s bs : 0 < s < n → tiling lo hi ((a, n) :: bs) → tiling lo hi ((a, n - s) :: (a + n - s, s) :: bs).
Proof.
  intros Hs (bs' & E & Ht). assert ((a, n) ∈ bs') as (l1 & l2 & ->)%list_elem_of_split by (rewrite E; by left).
  rewrite <- Permutation_middle in E. apply Permutation_cons_inv in E. exists (l1 ++ (a, n - s) :: (a + n - s, s) :: l2). split.
  { rewrite <- E. solve_Permutation. }
  apply tiles_app in Ht as (mid & H1 & <- & Hn & H2). apply tiles_app. exists a. cbn [tiles fst snd] in *. unfold stop_at in *. cbn [fst snd] in *.
  split_and!; [done|done|lia|lia|lia|]. by replace (a + n - s + s) with (a + n) by lia.
Qed.

Lemma tiling_merge lo hi b c bs : c.1 = stop_at b → tiling lo hi (b :: c :: bs) → tiling lo hi ((b.1, b.2 + c.2) :: bs).
Proof.
  intros Hc (bs' & E & Ht). assert (b ∈ bs') as (l1 & l2 & ->)%list_elem_of_split by (rewrite E; by left).
  pose proof Ht as [H1 H2]%tiles_apart. rewrite <- Permutation_middle in E. apply Permutation_cons_inv in E.
  apply tiles_app in Ht as (mid & Ht1 & <- & Hn & Ht2).
  assert (c ∈ l1 ++ l2) as Hin by (rewrite E; by left). apply tiles_total in Ht2 as HF2. apply tiles_total in Ht1 as HF1.
  destruct l2 as [|c' l2].
  { rewrite app_nil_r in Hin. destruct HF1 as [_ HF]. rewrite Forall_forall in HF. specialize (HF _ Hin). unfold stop_at in *. lia. }
  destruct Ht2 as (Hc' & Hn' & Ht2). assert (c = c') as <-.
  { apply elem_of_app in Hin as [Hin|[->|Hin]%elem_of_cons]; [|done|].
    - destruct HF1 as [_ HF]. rewrite Forall_forall in HF. specialize (HF _ Hin). unfold stop_at in *. lia.
    - apply tiles_total in Ht2 as [_ HF]. rewrite Forall_forall in HF. specialize (HF _ Hin). unfold stop_at in *. lia. }
  rewrite <- Permutation_middle in E. apply Permutation_cons_inv in E. exists (l1 ++ (b.1, b.2 + c.2) :: l2). split.
  { by rewrite <- Permutation_middle, E. }
  apply tiles_app. exists b.1. cbn [tiles] in *. unfold stop_at in *. cbn [fst snd] in *. split_and!; [done|done|lia|].
  by replace (b.1 + (b.2 + c.2)) with (c.1 + c.2) by lia.
Qed.
End tilings.

(** ** The abstract heap *)

(** The blocks that are free, in the order of the list, and those handed out. *)
Record arena := Arena { free_blocks : list block; live_blocks : list block }.

Definition separated (fl : list block) : Prop := ∀ x y, x ∈ fl → y ∈ fl → stop_at x ≠ y.1.

#[export] Instance separated_proper : Proper ((≡ₚ) ==> iff) separated.
Proof. intros fl fl' E. unfold separated. by setoid_rewrite E. Qed.

Record Accounted (lo hi : Z) (A : arena) : Prop := {
  accounted_tiling : tiling lo hi (free_blocks A ++ live_blocks A);
  accounted_room : Forall (λ b, sizeof_Element ≤ b.2) (free_blocks A ++ live_blocks A);
  accounted_merged : separated (free_blocks A)
}.

Lemma drop_perm b fl : NoDup fl → b ∈ fl → fl ≡ₚ b :: drop_block b fl.
Proof.
  intros Hn (l1 & l2 & ->)%list_elem_of_split. apply NoDup_app in Hn as (_ & Hd & [H2 _]%NoDup_cons).
  transitivity (b :: l1 ++ l2); [apply Permutation_sym, Permutation_middle|]. constructor. unfold drop_block. rewrite filter_app, filter_cons_False by naive_solver.
  fold (drop_block b l1) (drop_block b l2). rewrite !drop_absent; [done|done|]. intros H1. apply (Hd _ H1). by left.
Qed.

Section arenas.
Context (lo hi : Z).
Implicit Types (b : block) (fl live : list block).

Lemma free_nodup fl live : tiling lo hi (fl ++ live) → NoDup fl.
Proof. intros H%tiling_nodup. rewrite fmap_app in H. apply NoDup_app in H as [H _]. by apply (NoDup_fmap_1 fst). Qed.

Lemma take_block_some s fl a fl' :
  take_block s fl = (Some a, fl') → sizeof_Element ≤ s →
  ∃ b rest, fl ≡ₚ b :: rest ∧ stop_at b = a + s ∧
    (b.2 = s ∧ fl' ≡ₚ rest ∨ sizeof_Element ≤ b.2 - s ∧ fl' ≡ₚ (b.1, b.2 - s) :: rest).
Proof.
  unfold take_block. destruct (cut _ fl) as [[[l1 [a' n]] l2]|] eqn:E; [|done]. apply cut_some in E as (-> & Hu & _).
  intros Ht Hs. exists (a', n), (l1 ++ l2). split; [by rewrite Permutation_middle|]. unfold stop_at, usable in *. cbn in *.
  destruct (Z.eqb_spec n s) as [->|Hn]; injection Ht as <- <-; [by split; [lia|left]|]. split; [lia|]. right.
  split; [|by rewrite Permutation_middle]. cbn in Hu. apply Z.leb_le in Hu. lia.
Qed.

Lemma take_accounted s fl live a fl' :
  Accounted lo hi (Arena fl live) → sizeof_Element ≤ s → take_block s fl = (Some a, fl') →
  Accounted lo hi (Arena fl' ((a, s) :: live)).
Proof.
  intros [Ht Hr Hm] Hs Ha. cbn in *. unfold sizeof_Element in *. apply take_block_some in Ha as ([a' n] & rest & E & Hst & Hc); [|done].
  unfold stop_at in Hst. cbn in *. rewrite E in Ht, Hr. cbn in Ht, Hr. apply Forall_cons in Hr as [Hn Hr]. cbn in Hn.
  assert (∀ x, x ∈ rest → x ∈ fl) as Hin by (intros x Hx; rewrite E; by right).
  destruct Hc as [[-> Ef]|[Hl Ef]].
  - assert (a' = a) as -> by lia. split; cbn.
    + rewrite Ef, <- Permutation_middle. done.
    + rewrite Ef, <- Permutation_middle. by constructor.
    + intros x y Hx Hy. rewrite Ef in Hx, Hy. auto.
  - unfold sizeof_Element in Hl. apply (tiling_split _ _ _ _ s) in Ht; [|lia]. replace (a' + n - s) with a in Ht by lia. split; cbn.
    + rewrite Ef, <- Permutation_middle. cbn. by rewrite (Permutation_swap (a', n - s)).
    + rewrite Ef, <- Permutation_middle. constructor; [done|]. by constructor.
    + assert ((a', n) ∈ fl) as Hb by (rewrite E; by left). apply tiling_nodup in Ht. cbn in Ht.
      apply NoDup_cons in Ht as [_ [Ha _]%NoDup_cons]. rewrite fmap_app, not_elem_of_app in Ha. destruct Ha as [Ha _].
      intros x y Hx Hy. rewrite Ef in Hx, Hy. apply elem_of_cons in Hy as [->|Hy].
      * apply elem_of_cons in Hx as [->|Hx]; [unfold stop_at; cbn; lia|]. apply (Hm x (a', n)); auto.
      * apply elem_of_cons in Hx as [->|Hx]; [|by apply Hm; auto]. unfold stop_at. cbn. intros Hc. apply Ha.
        replace a with y.1 by lia. by apply list_elem_of_fmap_2.
Qed.

(** A block given back, with the free blocks [left] and [right] that touch it. *)
Definition merged (left right : option block) (b : block) : block :=
  (from_option fst b.1 left, from_option snd 0 left + (b.2 + from_option snd 0 right)).
Definition touches (b : block) (fl : list block) (left right : option block) : Prop :=
  match left with Some l => l ∈ fl ∧ stop_at l = b.1 | None => Forall (λ x, stop_at x ≠ b.1) fl end ∧
  match right with Some r => r ∈ fl ∧ r.1 = stop_at b | None => Forall (λ x, x.1 ≠ stop_at b) fl end.

Lemma found_touch (f : block → Z) z fl :
  match found (λ x, f x =? z) fl with Some x => x ∈ fl ∧ f x = z | None => Forall (λ x, f x ≠ z) fl end.
Proof.
  destruct (found _ fl) as [x|] eqn:E; [apply found_some in E as [? ?%Z.eqb_eq]; done|].
  apply found_none in E. eapply Forall_impl; [done|]. cbn. by intros x ?%Z.eqb_neq.
Qed.

Lemma give_block_perm b fl :
  NoDup fl → Forall (λ c, 0 < c.2) (b :: fl) →
  ∃ left right rest, touches b fl left right ∧ fl ≡ₚ option_list left ++ option_list right ++ rest ∧
    give_block b fl ≡ₚ merged left right b :: rest.
Proof.
  intros Hn [Hb Hp]%Forall_cons. unfold give_block.
  pose proof (found_touch fst (stop_at b) fl) as Hr. pose proof (found_touch stop_at b.1 fl) as Hl.
  unfold found in Hl. set (r := found (λ x, x.1 =? stop_at b) fl) in *. clearbody r. unfold stop_at in Hr.
  destruct (cut _ fl) as [[[l1 l] l2]|] eqn:El; cbn in Hl.
  - apply cut_some in El as (Efl & _ & _). exists (Some l), r. destruct Hl as [Hl El]. unfold stop_at in El.
    assert (fl ≡ₚ l :: l1 ++ l2) as Ep by (by rewrite Efl, Permutation_middle).
    rewrite Ep in Hn. apply NoDup_cons in Hn as [_ Hn]. destruct l as [a m]. destruct r as [r|]; cbn in *.
    + destruct Hr as [Hr Er]. pose proof Hr as Hr'. rewrite Ep in Hr'. rewrite Forall_forall in Hp. pose proof (Hp _ Hl). pose proof (Hp _ Hr). cbn in *.
      apply elem_of_cons in Hr' as [->|Hr']; [cbn in *; lia|]. exists (drop_block r (l1 ++ l2)). split; [by repeat split|].
      split; [by rewrite Ep, <- (drop_perm r) |]. unfold merged. cbn. unfold drop_block. by rewrite filter_app, Permutation_middle.
    + exists (l1 ++ l2). split; [by repeat split|]. split; [done|]. unfold merged. cbn. by rewrite Permutation_middle.
  - exists None, r. destruct r as [r|]; cbn in *.
    + destruct Hr as [Hr Er]. exists (drop_block r fl). split; [by repeat split|]. split; [by apply drop_perm|].
      unfold drop_block, merged. cbn. rewrite filter_app, filter_cons_True, filter_nil.
      * by rewrite Permutation_app_comm.
      * intros Hc%(f_equal fst). cbn in Hc. lia.
    + exists fl. split; [by repeat split|]. split; [done|]. unfold merged. cbn. by rewrite Permutation_app_comm.
Qed.

Lemma merged_tiling left right b rest fl :
  touches b fl left right → tiling lo hi (b :: option_list left ++ option_list right ++ rest) → tiling lo hi (merged left right b :: rest).
Proof.
  intros [Hl Hr] Ht. assert (tiling lo hi (merged None right b :: option_list left ++ rest)) as Ht'.
  { destruct right as [r|]; unfold merged; cbn in *.
    - rewrite Permutation_app_comm in Ht. cbn in Ht. apply tiling_merge in Ht; [|apply Hr]. cbn in Ht. by rewrite (Permutation_app_comm (option_list left)).
    - rewrite Z.add_0_r. by destruct b. }
  destruct left as [l|]; [|done]. cbn in *. rewrite Permutation_swap in Ht'. apply tiling_merge in Ht'; [done|].
  cbn. symmetry. apply Hl.
Qed.

Lemma merged_room left right b rest fl :
  touches b fl left right → Forall (λ c, sizeof_Element ≤ c.2) (b :: option_list left ++ option_list right ++ rest) →
  Forall (λ c, sizeof_Element ≤ c.2) (merged left right b :: rest).
Proof.
  intros _ [Hb [Hl [Hr Hrest]%Forall_app]%Forall_app]%Forall_cons. constructor; [|done]. unfold merged, sizeof_Element in *. cbn.
  destruct left, right; cbn in *; rewrite ?Forall_singleton in *; lia.
Qed.

Lemma merged_separated left right b rest fl :
  touches b fl left right → fl ≡ₚ option_list left ++ option_list right ++ rest → 0 < (merged left right b).2 →
  separated fl → separated (merged left right b :: rest).
Proof.
  intros [Hl Hr] Efl Hpos Hm. assert (∀ x, x ∈ rest → x ∈ fl) as Hin by (intros x Hx; rewrite Efl, !elem_of_app; tauto).
  intros x y [->|Hx]%elem_of_cons [->|Hy]%elem_of_cons; [unfold stop_at; lia| | |by apply Hm; auto].
  - assert (stop_at (merged left right b) = from_option stop_at (stop_at b) right) as ->.
    { unfold merged, stop_at. destruct left as [l|], right as [r|]; cbn; unfold stop_at in *; lia. }
    destruct right as [r|]; cbn; [apply Hm; [apply Hr|auto]|]. rewrite Forall_forall in Hr. intros E. by apply (Hr y (Hin _ Hy)).
  - destruct left as [l|]; cbn; [apply Hm; [auto|apply Hl]|]. rewrite Forall_forall in Hl. exact (Hl x (Hin _ Hx)).
Qed.

Lemma give_accounted b fl live : Accounted lo hi (Arena fl (b :: live)) → Accounted lo hi (Arena (give_block b fl) live).
Proof.
  intros [Ht Hr Hm]. cbn in *. pose proof (free_nodup _ _ Ht) as Hn. rewrite <- Permutation_middle in Ht, Hr.
  destruct (give_block_perm b fl Hn) as (left & right & rest & Hto & Efl & Eg).
  { pose proof Hr as [Hb [Hf _]%Forall_app]%Forall_cons. unfold sizeof_Element in *. constructor; [lia|]. eapply Forall_impl; [done|]. cbn. lia. }
  assert (b :: fl ++ live ≡ₚ b :: option_list left ++ option_list right ++ rest ++ live) as Ep by (rewrite Efl; by rewrite <- !app_assoc).
  rewrite Ep in Ht, Hr. eapply merged_tiling in Ht; [|done]. eapply merged_room in Hr; [|done].
  split; cbn; rewrite Eg; [done|done|].
  apply (merged_separated _ _ _ _ fl); [done..| |done]. apply Forall_cons in Hr as [Hb _]. unfold sizeof_Element in Hb. lia.
Qed.

(** With nothing handed out, one block is left. *)
Lemma all_free_one_block fl : lo < hi → Accounted lo hi (Arena fl []) → fl = [(lo, hi - lo)].
Proof.
  intros Hlt [(bs & E & Ht) _ Hm]. cbn in *. rewrite app_nil_r in E. destruct bs as [|b [|c bs]]; cbn in Ht.
  - lia.
  - destruct Ht as (<- & _ & <-). apply Permutation_singleton_l in E as <-. destruct b as [a n]. unfold stop_at. cbn. repeat f_equal. lia.
  - destruct Ht as (<- & _ & Hc & _). exfalso. apply (Hm b c); [rewrite <- E; by left|rewrite <- E; by right; left|done].
Qed.

(** Giving back what was just taken. *)
Lemma cut_here P l1 x l2 : Forall (λ y, P y = false) l1 → P x = true → cut P (l1 ++ x :: l2) = Some (l1, x, l2).
Proof. intros Hl Hx. induction Hl as [|y l Hy _ IH]; cbn; [by rewrite Hx|]. by rewrite Hy, IH. Qed.

Lemma cut_nowhere P l : Forall (λ y, P y = false) l → cut P l = None.
Proof. induction 1 as [|y l Hy _ IH]; cbn; [done|]. by rewrite Hy, IH. Qed.

Lemma found_nowhere P l : Forall (λ y, P y = false) l → found P l = None.
Proof. intros H. unfold found. by rewrite cut_nowhere. Qed.

Lemma separated_right fl b z : separated fl → b ∈ fl → z = stop_at b → Forall (λ x, (x.1 =? z) = false) fl.
Proof. intros Hm Hb ->. apply Forall_forall. intros x Hx. apply Z.eqb_neq. intros E. by apply (Hm b x). Qed.

Lemma separated_left fl b : separated fl → b ∈ fl → Forall (λ x, (stop_at x =? b.1) = false) fl.
Proof. intros Hm Hb. apply Forall_forall. intros x Hx. apply Z.eqb_neq. intros E. by apply (Hm x b). Qed.

Lemma take_give s fl live a fl' :
  Accounted lo hi (Arena fl live) → sizeof_Element ≤ s → take_block s fl = (Some a, fl') → give_block (a, s) fl' ≡ₚ fl.
Proof.
  intros [Ht Hr Hm] Hs Ha. cbn in *. unfold take_block in Ha. destruct (cut (usable s) fl) as [[[l1 [a' n]] l2]|] eqn:Ec; [|done].
  apply cut_some in Ec as (-> & Hu & _). rewrite <- Permutation_middle in Ht. cbn in Ht.
  assert (((a', n) : block) ∈ l1 ++ (a', n) :: l2) as Hin by (apply elem_of_app; right; by left).
  pose proof (separated_right _ _ _ Hm Hin eq_refl) as HR. pose proof (separated_left _ _ Hm Hin) as HL.
  unfold give_block. destruct (Z.eqb_spec n s) as [->|Hn]; injection Ha as <- <-; cbn [fst snd].
  - apply Forall_app in HR as [HR1 [_ HR2]%Forall_cons]. apply Forall_app in HL as [HL1 [_ HL2]%Forall_cons].
    rewrite (found_nowhere _ (l1 ++ l2)), (cut_nowhere _ (l1 ++ l2)) by (apply Forall_app; by split). cbn. rewrite Z.add_0_r.
    by rewrite <- (Permutation_middle l1 l2), (Permutation_app_comm (l1 ++ l2)).
  - assert (0 < n - s) as Hpos by (unfold usable in Hu; cbn in Hu; destruct (Z.eqb_spec n s), (Z.leb_spec (s + sizeof_Element) n); [done..|size_lia|done]).
    apply tiling_apart in Ht. apply Forall_app in Ht as [Ht _]. apply Forall_app in Ht as [Ht1 _].
    rewrite found_nowhere.
    + rewrite (cut_here _ l1); [cbn; rewrite Z.add_0_r; by replace (n - s + s) with n by lia| |cbn; apply Z.eqb_eq; size_lia].
      apply Forall_forall. intros x Hx. apply Z.eqb_neq. rewrite Forall_forall in Ht1. specialize (Ht1 _ Hx). 
      assert (0 < x.2) as Hxp by (rewrite Forall_forall in Hr; specialize (Hr x ltac:(set_solver)); size_lia). size_lia.
    + apply Forall_app in HR as [HR1 [_ HR2]%Forall_cons]. replace (stop_at (a' + n - s, s)) with (stop_at (a', n)) by size_lia.
      apply Forall_app. split; [done|]. constructor; [|done]. cbn. apply Z.eqb_neq. size_lia.
Qed.

(** Addresses and sizes stay multiples of a word. *)
Definition aligned (A : arena) : Prop := Forall (λ b, b.1 mod 4 = 0 ∧ b.2 mod 4 = 0) (free_blocks A ++ live_blocks A).

Lemma take_aligned s fl live a fl' :
  aligned (Arena fl live) → sizeof_Element ≤ s → s mod 4 = 0 → take_block s fl = (Some a, fl') → aligned (Arena fl' ((a, s) :: live)).
Proof.
  unfold aligned. cbn. intros HA Hs Hm Ht. apply take_block_some in Ht as (b & rest & E & Hst & Hc); [|done]. rewrite E in HA.
  apply Forall_cons in HA as [[H1 H2] HA]. unfold stop_at in Hst. replace a with (b.1 + b.2 - s) by lia. rewrite <- Permutation_middle.
  constructor; [cbn; split; [|done]; Z.to_euclidean_division_equations; lia|].
  destruct Hc as [[_ ->]|[_ ->]]; [done|]. constructor; [cbn; split; [done|]; Z.to_euclidean_division_equations; lia|done].
Qed.

Lemma give_aligned b fl live :
  Accounted lo hi (Arena fl (b :: live)) → aligned (Arena fl (b :: live)) → aligned (Arena (give_block b fl) live).
Proof.
  intros [Ht Hr _] HA. unfold aligned in *. cbn in *. pose proof (free_nodup _ _ Ht) as Hn. rewrite <- Permutation_middle in HA, Hr.
  destruct (give_block_perm b fl Hn) as (left & right & rest & _ & Efl & Eg).
  { pose proof Hr as [Hb [Hf _]%Forall_app]%Forall_cons. constructor; [size_lia|]. eapply Forall_impl; [done|]. cbn. size_lia. }
  rewrite Eg. apply Forall_cons in HA as [[Hb1 Hb2] HA]. rewrite Efl, <- !app_assoc in HA. apply Forall_app in HA as [Hl HA]. apply Forall_app in HA as [Hrt HA].
  constructor; [|done]. unfold merged. destruct left as [l|], right as [r|]; cbn in *; rewrite ?Forall_singleton in *; Z.to_euclidean_division_equations; lia.
Qed.
End arenas.
