(* ===== verification/HeapSpec.v ===== *)
(** * What the heap does (Heap.v)

    [Blocks] says which free blocks the list in memory describes; the methods
    of the list and of the heap are proved to do to it what Arena.v says, and
    the headers of the blocks handed out to be kept. *)

From stdpp Require Import base numbers list option gmap.
From S2P Require Import Prelude StateM DList OrderedList Heap Arena.
#[local] Set Warnings "-clear-no-such-hyp".

(** ** The list of free blocks in memory *)

Definition place_of (b : block) : loc := at_address b.1.
Definition places (fl : list block) : list loc := place_of <$> fl.

Definition described (h : gmap loc (element Z)) (b : block) : Prop := payload <$> h !! place_of b = Some b.

Record Blocks (fl : list block) (m : memory Z) : Prop := {
  blocks_repr : Repr (places fl) m;
  blocks_described : Forall (described (elements m)) fl;
  blocks_positive : Forall (λ b, 0 < b.1) fl
}.

Lemma place_address b : 0 < b.1 → Z.pos (place_of b) = b.1.
Proof. apply Z2Pos.id. Qed.
Lemma place_inj b c : 0 < b.1 → 0 < c.1 → place_of b = place_of c → b.1 = c.1.
Proof. apply Z2Pos.inj. Qed.

Lemma described_element h b : described h b → ∃ x, h !! place_of b = Some x ∧ payload x = b.
Proof. unfold described. intros (x & E & Ex)%fmap_Some. by exists x. Qed.

Lemma described_keeps l h h' b : keeps l h h' → described h b → described h' b.
Proof. unfold described. intros [_ K]. by rewrite K. Qed.

Section blocks.
Implicit Types (b : block) (fl : list block) (m : memory Z).

Lemma found_cons P b fl : found P (b :: fl) = if P b then Some b else found P fl.
Proof. unfold found. cbn. destruct (P b); [done|]. by destruct (cut P fl) as [[[? ?] ?]|]. Qed.

Lemma found_ext P P' fl : Forall (λ b, P b = P' b) fl → found P fl = found P' fl.
Proof. induction 1 as [|b fl E _ IH]; [done|]. by rewrite !found_cons, E, IH. Qed.

Lemma cut_ext P P' fl : Forall (λ b, P b = P' b) fl → cut P fl = cut P' fl.
Proof. induction 1 as [|b fl E _ IH]; [done|]. cbn. by rewrite E, IH. Qed.

(** The loops [search_size] and [search_left]. *)
Lemma scan_spec stop fl fuel a m :
  seg (elements m) a (places fl) None → Forall (described (elements m)) fl → (length fl ≤ fuel)%nat →
  wp (scan stop fuel (first_of (places fl) None)) (λ r m', r = place_of <$> found stop fl ∧ m' = m) m.
Proof.
  revert fuel a; induction fl as [|b fl IH]; intros fuel a Hs Hd Hf; [by destruct fuel|].
  destruct Hs as [(x & Ex & _ & Hx) Hs]. apply Forall_cons in Hd as [Hb Hd]. apply described_element in Hb as (x' & Ex' & <-).
  assert (x' = x) as -> by (unfold places in Ex; congruence).
  destruct fuel as [|fuel]; [cbn in Hf; lia|]. cbn [scan first_of places fmap list_fmap]. wp_step. eapply wp_get; [done|]. cbn beta.
  rewrite found_cons. destruct (stop (payload x)); [by wp_step|]. wp_step. eapply wp_get; [done|]. cbn beta. rewrite Hx.
  eapply IH; [done|done|]. cbn in Hf. lia.
Qed.

Lemma scan_list_spec stop fl m : Blocks fl m → wp (scan_list stop) (λ r m', r = place_of <$> found stop fl ∧ m' = m) m.
Proof.
  intros [Hr Hd _]. pose proof (repr_size _ _ Hr) as Hsz. destruct Hr as [Hs _ _ E]. unfold wp, scan_list. rewrite E. cbn [_head].
  eapply scan_spec; [done|done|]. unfold places in Hsz. by rewrite length_fmap in Hsz.
Qed.

Lemma search_block fl m o : Blocks fl m → wp (search o) (λ r m', r = place_of <$> found (λ x, x.1 =? o) fl ∧ m' = m) m.
Proof.
  intros [Hr Hd _]. eapply wp_weaken; [by apply search_spec|]. intros r m' [-> ->]. split; [|done]. clear Hr.
  unfold find_object. induction Hd as [|b fl Hb _ IH]; [done|]. cbn [places fmap list_fmap]. rewrite found_cons.
  apply described_element in Hb as (x & Ex & Hx). rewrite filter_cons. cbn beta. rewrite Ex. cbn [fmap option_fmap option_map].
  replace b.1 with (object x) by (by rewrite <- Hx). destruct (Z.eqb_spec (object x) o) as [->|Hne].
  - by rewrite decide_True.
  - by rewrite decide_False by congruence.
Qed.

Lemma places_fresh b fl : 0 < b.1 → Forall (λ b, 0 < b.1) fl → b.1 ∉ fl.*1 → place_of b ∉ places fl.
Proof.
  intros Hb Hp Hn (c & E & Hc)%list_elem_of_fmap. apply Hn. rewrite Forall_forall in Hp. apply place_inj in E; [|done|by apply Hp].
  rewrite E. by apply list_elem_of_fmap_2.
Qed.
End blocks.

(** Two free blocks do not start at the same address. *)
Lemma blocks_nodup fl m : Blocks fl m → NoDup fl.*1.
Proof.
  intros [Hr _ Hp]. pose proof (repr_nodup _ _ Hr) as Hn. clear Hr. unfold places in Hn.
  induction Hp as [|b fl Hb Hp IH]; cbn in *; [constructor|]. apply NoDup_cons in Hn as [Hn1 Hn]. constructor; [|auto].
  intros (c & E & Hc)%list_elem_of_fmap. apply Hn1. unfold place_of. rewrite E. by apply (list_elem_of_fmap_2 place_of).
Qed.

Lemma without_places b fl :
  0 < b.1 → Forall (λ c, 0 < c.1) fl → NoDup fl.*1 → b ∈ fl → without (place_of b) (places fl) = places (drop_block b fl).
Proof.
  intros Hb Hp Hn Hin. apply list_elem_of_split in Hin as (l1 & l2 & ->). unfold places, drop_block.
  rewrite fmap_app in Hn. cbn in Hn. apply NoDup_app in Hn as (_ & Hd & [H2 _]%NoDup_cons).
  apply Forall_app in Hp as [Hp1 [_ Hp2]%Forall_cons].
  assert (b.1 ∉ l1.*1) as H1 by (intros H; apply (Hd _ H); by left).
  rewrite filter_app, filter_cons_False by naive_solver. unfold without. rewrite !fmap_app, fmap_cons, filter_app, filter_cons_False by naive_solver.
  fold (drop_block b l1) (drop_block b l2). fold (without (place_of b) (place_of <$> l1)) (without (place_of b) (place_of <$> l2)).
  rewrite !drop_absent by (intros H%(list_elem_of_fmap_2 fst); done).
  by rewrite !without_absent by (by apply (places_fresh b)).
Qed.

(** What the methods do to the blocks.  An element outside the list keeps what
    it says. *)
Lemma set_size_blocks l1 a n l2 f n' m :
  Blocks (l1 ++ (a, n) :: l2) m → (∀ x, payload x = (a, n) → f x = set_rank n' x) →
  wp (put f (at_address a)) (λ _ m', Blocks (l1 ++ (a, n') :: l2) m' ∧ ∀ e, e ≠ at_address a → elements m' !! e = elements m !! e) m.
Proof.
  intros HB Hf. pose proof (blocks_nodup _ _ HB) as Hn. destruct HB as [Hr Hd Hp]. destruct m as [h t].
  apply Forall_app in Hd as [Hd1 [Hd Hd2]%Forall_cons]. apply Forall_app in Hp as [Hp1 [Hp Hp2]%Forall_cons]. cbn in Hd, Hp.
  apply described_element in Hd as (x & Ex & Hx). cbn in Ex. change (place_of (a, n)) with (at_address a) in Ex.
  apply wp_store; [by exists x|]. cbn [elements this].
  assert (alter f (at_address a) h = alter (set_rank n') (at_address a) h) as ->.
  { apply alter_ext. cbn. intros y Ey. rewrite Ex in Ey. injection Ey as <-. by apply Hf. }
  rewrite fmap_app in Hn. cbn in Hn. apply NoDup_app in Hn as (_ & Hn1 & [Hn2 _]%NoDup_cons).
  assert (∀ c, 0 < c.1 → a ≠ c.1 → alter (set_rank n') (at_address a) h !! place_of c = h !! place_of c) as Hfr.
  { intros c Hc Hac. apply lookup_alter_ne. intros E. apply Hac. by apply (place_inj (a, n) c). }
  split; [split|].
  - apply (repr_set_rank n' (at_address a)) in Hr. unfold places in *. rewrite fmap_app in *. cbn in *. exact Hr.
  - assert (∀ l, a ∉ l.*1 → Forall (λ c, 0 < c.1) l → Forall (described h) l → Forall (described (alter (set_rank n') (at_address a) h)) l) as Hl.
    { intros l Hal Hpl Hdl. rewrite Forall_forall in *. intros c Hc. unfold described. rewrite Hfr; [by apply Hdl|by apply Hpl|].
      intros ->. apply Hal. by apply list_elem_of_fmap_2. }
    apply Forall_app. split; [apply Hl; [|done..]|constructor; [|by apply Hl]].
    + intros H. apply (Hn1 _ H). by left.
    + unfold described. change (place_of (a, n')) with (at_address a). cbn. rewrite lookup_alter_eq, Ex. cbn. f_equal. unfold payload in *. cbn. congruence.
  - apply Forall_app. split; [done|]. by constructor.
  - intros e He. by apply lookup_alter_ne.
Qed.

Lemma remove_block b fl m :
  Blocks fl m → b ∈ fl →
  wp (remove (place_of b)) (λ _ m', Blocks (drop_block b fl) m' ∧ ∀ e, payload <$> elements m' !! e = payload <$> elements m !! e) m.
Proof.
  intros HB Hb. pose proof (blocks_nodup _ _ HB) as Hn. destruct HB as [Hr Hd Hp].
  eapply wp_weaken; [apply (remove_in (places fl)); [done|by apply list_elem_of_fmap_2]|]. intros r m' (_ & Hr' & K). split; [|apply K].
  rewrite Forall_forall in Hp. pose proof (Hp _ Hb) as Hpb. rewrite without_places in Hr' by (done || by rewrite Forall_forall). split; [done|..].
  - apply Forall_forall. intros c [_ Hc]%list_elem_of_filter. rewrite Forall_forall in Hd. by eapply described_keeps, Hd.
  - apply Forall_forall. intros c [_ Hc]%list_elem_of_filter. by apply Hp.
Qed.

Lemma insert_block b fl m :
  Blocks fl m → described (elements m) b → 0 < b.1 → b.1 ∉ fl.*1 → Z.of_nat (length fl) + 1 < 2 ^ 32 →
  wp (insert_tail (place_of b)) (λ _ m', Blocks (fl ++ [b]) m') m.
Proof.
  intros [Hr Hd Hp] Hb Hpos Hn Hlen. eapply wp_weaken; [apply (insert_tail_spec _ (places fl)); [done|]|].
  - split_and!; [by apply places_fresh| |unfold places; by rewrite length_fmap]. apply described_element in Hb as (x & E & _). by eexists.
  - intros _ m' [Hr' K]. split.
    + unfold places. by rewrite fmap_app.
    + apply Forall_app. split; [|constructor; [by eapply described_keeps|constructor]]. eapply Forall_impl; [exact Hd|]. intros c. by eapply described_keeps.
    + apply Forall_app. split; [done|]. by constructor.
Qed.

(** Blocks survive what happens elsewhere in memory. *)
Lemma blocks_frame fl h h' t : (∀ b, b ∈ fl → h' !! place_of b = h !! place_of b) → Blocks fl (Memory h t) → Blocks fl (Memory h' t).
Proof.
  intros Hf [[Hs Hn Hl E] Hd Hp]. split; [split; [|done..]|..|done].
  - cbn in *. eapply seg_frame; [|done]. intros e (b & -> & Hb)%list_elem_of_fmap. by apply Hf.
  - cbn in *. rewrite Forall_forall in *. intros b Hb. unfold described. rewrite Hf by done. by apply Hd.
Qed.

(** ** Words and elements *)

Lemma erase_elements_other h a n b :
  0 < b.1 → sizeof_Element ≤ b.2 → stop_at b ≤ a ∨ a + n ≤ b.1 → erase_elements a n h !! place_of b = h !! place_of b.
Proof.
  intros Hb Hs Hap. unfold erase_elements. destruct (h !! place_of b) as [x|] eqn:E.
  - apply map_lookup_filter_Some. split; [done|]. cbn. rewrite place_address by done. unfold overlap, stop_at in *. lia.
  - apply map_lookup_filter_None. by left.
Qed.

Lemma erase_words_other w a n p : p + sizeof_int ≤ a ∨ a + n ≤ p → erase_words a n w !! p = w !! p.
Proof.
  intros Hap. unfold erase_words. destruct (w !! p) as [v|] eqn:E.
  - apply map_lookup_filter_Some. split; [done|]. cbn. unfold overlap, sizeof_int in *. lia.
  - apply map_lookup_filter_None. by left.
Qed.

Lemma wp_in_list {A} (c : M Z A) (Q : A → heap → Prop) s :
  wp c (λ u m, Q u (Heap m (_grouped_size s) (words s) (panicked s))) (free_list s) → wp (in_list c) Q s.
Proof. unfold wp, in_list, mbind. destruct (c (free_list s)) as [[u m]|]; done. Qed.
Lemma wp_group d (Q : unit → heap → Prop) s :
  Q () (Heap (free_list s) (wrap (_grouped_size s + d)) (words s) (panicked s)) → wp (group d) Q s.
Proof. done. Qed.
Lemma wp_store_word a v (Q : unit → heap → Prop) s :
  Q () (Heap (Memory (erase_elements a sizeof_int (elements (free_list s))) (this (free_list s))) (_grouped_size s)
    (<[a := v]> (erase_words a sizeof_int (words s))) (panicked s)) → wp (store_word a v) Q s.
Proof. done. Qed.
Lemma wp_load_word a v (Q : Z → heap → Prop) s : words s !! a = Some v → Q v s → wp (load_word a) Q s.
Proof. intros E HQ. unfold wp, load_word. by rewrite E. Qed.

Lemma wrap_id x : 0 ≤ x < 2 ^ 32 → wrap x = x.
Proof. apply Z.mod_small. Qed.

(** An element whose block is known. *)
Lemma wp_get_described {A} (f : element Z → A) g (Q : A → memory Z → Prop) b m :
  described (elements m) b → (∀ x, payload x = b → f x = g) → Q g m → wp (get f (place_of b)) Q m.
Proof. intros (x & E & Hx)%described_element Hf HQ. eapply wp_get; [done|]. by rewrite Hf. Qed.

Section heap.
Context (typed unaligned_memory_access : bool) (self lo hi : Z) (Hlo : 0 < lo) (Hhi : hi < 2 ^ 32).
Implicit Types (b c : block) (fl live : list block) (A : arena) (s : heap).

(** ** The invariant *)

(** What is written at the start of a block handed out. *)
Definition header_size : Z := if typed then 8 else 4.
Definition header b : list (Z * Z) := if typed then [(b.1, self); (b.1 + sizeof_int, b.2)] else [(b.1, b.2)].
Definition headed (w : gmap Z Z) b : Prop := Forall (λ p, w !! p.1 = Some p.2) (header b).

Record Holds A s : Prop := {
  holds_accounted : Accounted lo hi A;
  holds_blocks : Blocks (free_blocks A) (free_list s);
  holds_size : _grouped_size s = total (free_blocks A);
  holds_headers : Forall (headed (words s)) (live_blocks A)
}.

Lemma headed_erase w a n b : b.1 + header_size ≤ a ∨ a + n ≤ b.1 → headed w b → headed (erase_words a n w) b.
Proof.
  unfold headed, header, header_size. destruct typed; rewrite ?Forall_cons; cbn; intros Hap Hh; destruct_and?; split_and?; try done;
    rewrite erase_words_other by size_lia; done.
Qed.

Lemma headed_write w a v b : b.1 + header_size ≤ a ∨ a + sizeof_int ≤ b.1 → headed w b → headed (<[a := v]> (erase_words a sizeof_int w)) b.
Proof.
  intros Hap Hh%(headed_erase _ a sizeof_int); [|done]. unfold headed, header, header_size in *. destruct typed; rewrite ?Forall_cons in *; cbn in *;
    destruct_and?; split_and?; try done; rewrite lookup_insert_ne by size_lia; done.
Qed.

(** The blocks of an arena keep clear of each other. *)
Lemma accounted_block fl live b :
  Accounted lo hi (Arena fl live) → b ∈ fl ++ live → lo ≤ b.1 ∧ sizeof_Element ≤ b.2 ∧ stop_at b ≤ hi.
Proof.
  intros [Ht Hr _] Hb. apply tiling_total in Ht as [_ Hf]. rewrite Forall_forall in Hf, Hr. cbn in *. specialize (Hf _ Hb). specialize (Hr _ Hb). tauto.
Qed.

Lemma accounted_apart fl live b :
  Accounted lo hi (Arena fl (b :: live)) → Forall (λ c, stop_at c ≤ b.1 ∨ stop_at b ≤ c.1) (fl ++ live).
Proof. intros [Ht _ _]. cbn in Ht. rewrite <- Permutation_middle in Ht. by apply tiling_apart in Ht. Qed.

Lemma accounted_total fl live : Accounted lo hi (Arena fl live) → 0 ≤ total fl ∧ 0 ≤ total live ∧ lo + total fl + total live = hi.
Proof.
  intros [Ht _ _]. apply tiling_total in Ht as [E Hf]. rewrite total_app in E. cbn [free_blocks live_blocks] in *. apply Forall_app in Hf as [H1 H2].
  split_and!; [apply total_nonneg; eapply Forall_impl; [done|]; cbn; tauto..|lia].
Qed.

Lemma accounted_new fl live b : Accounted lo hi (Arena fl (b :: live)) → b.1 ∉ fl.*1.
Proof.
  intros Hn%accounted_tiling%tiling_nodup H. cbn in Hn. rewrite fmap_app in Hn. apply NoDup_app in Hn as (_ & Hn & _). apply (Hn _ H). by left.
Qed.

Lemma accounted_length fl live b : Accounted lo hi (Arena fl (b :: live)) → Z.of_nat (length fl) + 1 < 2 ^ 32.
Proof.
  intros HA. pose proof (accounted_total _ _ HA) as (_ & _ & Ht). change (total (b :: live)) with (b.2 + total live) in Ht.
  assert (∀ c, c ∈ fl ++ b :: live → 0 < c.2) as Hpos by (intros c Hc; destruct (accounted_block _ _ c HA Hc) as (_ & ? & _); size_lia).
  assert (Z.of_nat (length fl) ≤ total fl) by (apply length_total, Forall_forall; intros c Hc; apply Hpos; set_solver).
  assert (0 ≤ total live) by (apply total_nonneg, Forall_forall; intros c Hc; apply Hpos; set_solver).
  pose proof (Hpos b ltac:(set_solver)). lia.
Qed.

(** Nothing written inside a block handed out reaches a free one. *)
Lemma blocks_beside fl live b a n m :
  Accounted lo hi (Arena fl (b :: live)) → b.1 ≤ a → a + n ≤ stop_at b → Blocks fl m →
  Blocks fl (Memory (erase_elements a n (elements m)) (this m)).
Proof.
  intros HA Ha Hn HB. destruct m as [h t]. cbn. eapply blocks_frame; [|done]. intros c Hc.
  pose proof (accounted_apart _ _ _ HA) as Hap. apply Forall_app in Hap as [Hap _]. rewrite Forall_forall in Hap. specialize (Hap _ Hc).
  destruct (accounted_block _ _ c HA) as (? & ? & ?); [apply elem_of_app; by left|]. apply erase_elements_other; [lia|done|lia].
Qed.

Lemma headers_beside fl live b a v w :
  Accounted lo hi (Arena fl (b :: live)) → b.1 ≤ a → a + sizeof_int ≤ stop_at b →
  Forall (headed w) live → Forall (headed (<[a := v]> (erase_words a sizeof_int w))) live.
Proof.
  intros HA Ha Hn. rewrite !Forall_forall. intros Hh c Hc. apply headed_write; [|by apply Hh].
  pose proof (accounted_apart _ _ _ HA) as Hap. apply Forall_app in Hap as [_ Hap]. rewrite Forall_forall in Hap. specialize (Hap _ Hc).
  destruct (accounted_block _ _ c HA) as (? & ? & ?); [apply elem_of_app; right; by right|].
  unfold header_size, sizeof_Element, stop_at in *. destruct typed; lia.
Qed.

(** ** Allocation *)

Lemma fits_usable req fl live :
  Accounted lo hi (Arena fl live) → 0 ≤ req → req + sizeof_Element < 2 ^ 32 → Forall (λ b, fits_size req b = usable req b) fl.
Proof.
  intros HA H1 H2. apply Forall_forall. intros b Hb. unfold fits_size, usable. rewrite wrap_id by size_lia.
  destruct (Z.eqb_spec b.2 req); cbn; [by rewrite andb_false_r|]. rewrite andb_true_r, (Z.add_comm req).
  by destruct (Z.ltb_spec b.2 (sizeof_Element + req)), (Z.leb_spec (sizeof_Element + req) b.2); try lia.
Qed.

Lemma shrink_blocks l1 a n l2 req m :
  Blocks (l1 ++ (a, n) :: l2) m → 0 ≤ n - req < 2 ^ 32 →
  wp (put (λ x, set_rank (wrap (rank x - req)) x) (at_address a)) (λ _ m', Blocks (l1 ++ (a, n - req) :: l2) m') m.
Proof.
  intros HB Hn. eapply wp_weaken; [apply (set_size_blocks l1 a n l2 _ (n - req)); [done|]|by intros _ m' [? _]].
  intros x Hx. cbn. f_equal. injection Hx as _ ->. by apply wrap_id.
Qed.

Lemma total_middle l1 b l2 : total (l1 ++ b :: l2) = b.2 + total (l1 ++ l2).
Proof. by rewrite <- Permutation_middle. Qed.

(** The element found describes what is left of the block, and the block taken
    is what follows it. *)
Lemma search_decrementing_spec req fl live s :
  Accounted lo hi (Arena fl live) → Blocks fl (free_list s) → _grouped_size s = total fl →
  sizeof_Element ≤ req → req + sizeof_Element < 2 ^ 32 →
  wp (search_decrementing req) (λ r s',
    match take_block req fl with
    | (None, _) => r = None ∧ s' = s
    | (Some a, fl') => ∃ b m', r = Some (place_of b) ∧ s' = Heap m' (total fl') (words s) (panicked s) ∧
        described (elements m') b ∧ end_of b = a ∧ Blocks fl' m'
    end) s.
Proof.
  intros HA HB Hg H1 H2. pose proof (accounted_total _ _ HA) as Htot. unfold search_decrementing, take_block. wp_step.
  apply wp_in_list. eapply wp_weaken; [by apply scan_list_spec|]. intros r m' [-> ->]. cbn beta.
  rewrite (found_ext _ (usable req)) by (eapply fits_usable; [done|size_lia|done]). unfold found.
  destruct (cut (usable req) fl) as [[[l1 [a n]] l2]|] eqn:Ec; cbn [mbind option_bind fmap option_fmap option_map]; [|wp_step; by destruct s].
  apply cut_some in Ec as (-> & Hu & _). destruct (accounted_block _ _ (a, n) HA) as (Ha & Hn & Hst); [set_solver|]. unfold stop_at in Hst. cbn in Ha, Hn, Hst.
  assert (0 ≤ total (l1 ++ l2)) as Hrest.
  { apply total_nonneg, Forall_forall. intros c Hc. destruct (accounted_block _ _ c HA) as (_ & Hc' & _); [set_solver|]. size_lia. }
  assert (req ≤ n ∧ (n =? req) = (n - req =? 0)) as [Hle Heq].
  { unfold usable, sizeof_Element in *. cbn in Hu. destruct (Z.eqb_spec n req), (Z.leb_spec (req + 16) n), (Z.eqb_spec (n - req) 0); cbn in Hu; lia || done. }
  unfold shrink, element_size. wp_step. apply wp_in_list. change (place_of (a, n)) with (at_address a).
  eapply wp_weaken; [apply shrink_blocks; [done|size_lia]|]. intros [] m1 HB1. cbn beta. wp_step. apply wp_group. wp_step. apply wp_in_list.
  pose proof (blocks_described _ _ HB1) as Hd. apply Forall_app in Hd as [_ [Hd _]%Forall_cons]. cbn [free_list].
  rewrite total_middle in *. cbn [snd] in *. change (at_address a) with (place_of (a, n - req)).
  eapply (wp_get_described _ (n - req)); [done|by intros x [= _ ->]|]. rewrite <- Heq. destruct (Z.eqb_spec n req) as [->|Hne]; wp_step.
  - wp_step. apply wp_in_list. cbn [free_list]. rewrite Z.sub_diag in *.
    eapply wp_weaken; [apply (remove_block (a, 0)); [done|set_solver]|]. intros r2 m2 [HB2 K]. cbn beta. do 2 wp_step.
    exists (a, 0), m2. split_and!; [done| | |unfold end_of; cbn; rewrite wrap_id by size_lia; lia|].
    + cbn. f_equal. rewrite Hg, wrap_id; size_lia.
    + unfold described. by rewrite K.
    + pose proof (blocks_nodup _ _ HB1) as Hnd. unfold drop_block in HB2. rewrite filter_app, filter_cons_False in HB2 by naive_solver.
      rewrite fmap_app in Hnd. cbn in Hnd. apply NoDup_app in Hnd as (_ & Hd1 & [Hd2 _]%NoDup_cons).
      fold (drop_block (a, 0) l1) (drop_block (a, 0) l2) in HB2. rewrite !drop_absent in HB2; [done| |].
      * by intros H%(list_elem_of_fmap_2 fst).
      * intros H%(list_elem_of_fmap_2 fst). apply (Hd1 _ H). by left.
  - do 2 wp_step. exists (a, n - req), m1. split_and!; [done| |done|unfold end_of; cbn; rewrite wrap_id by size_lia; lia|done].
    cbn. f_equal. rewrite Hg, total_middle. cbn [snd]. rewrite wrap_id; size_lia.
Qed.

#[local] Ltac Zify.zify_post_hook ::= Z.to_euclidean_division_equations.

Lemma round_up_spec fuel bytes :
  0 ≤ bytes → bytes + (4 - bytes mod 4) mod 4 < 2 ^ 32 → (4 - bytes mod 4) mod 4 < Z.of_nat fuel →
  bytes ≤ round_up fuel bytes ≤ bytes + (4 - bytes mod 4) mod 4 ∧ round_up fuel bytes mod 4 = 0.
Proof.
  revert bytes; induction fuel as [|fuel IH]; intros bytes H0 Hb Hf; [exfalso; revert Hf; change (Z.of_nat 0) with 0; lia|].
  cbn [round_up]. unfold sizeof_pointer. destruct (Z.eqb_spec (bytes mod 4) 0) as [E|E]; [lia|].
  rewrite wrap_id by lia. assert ((4 - bytes mod 4) mod 4 = (4 - (bytes + 1) mod 4) mod 4 + 1) as Hm by lia.
  destruct (IH (bytes + 1)); lia.
Qed.

Lemma block_size_bounds bytes :
  let n := block_size typed unaligned_memory_access bytes in
  0 < bytes → bytes < 2 ^ 32 - 32 →
  bytes + header_size ≤ n ∧ sizeof_Element ≤ n ∧ n + sizeof_Element < 2 ^ 32 ∧ (unaligned_memory_access = false → n mod 4 = 0).
Proof.
  intros n Hb H32. subst n. unfold block_size, header_size, sizeof_Element, sizeof_int, sizeof_pointer.
  pose proof (round_up_spec 4 bytes) as Hr. change (Z.of_nat 4) with 4 in Hr. specialize (Hr ltac:(lia) ltac:(lia) ltac:(lia)).
  set (k := if unaligned_memory_access then bytes else round_up 4 bytes).
  assert (bytes ≤ k ≤ bytes + 3 ∧ (unaligned_memory_access = false → k mod 4 = 0)) as [Hk Hm] by (subst k; destruct unaligned_memory_access; [split; [lia|done]|lia]).
  assert (wrap ((if typed then wrap (k + 4) else k) + 4) = k + if typed then 8 else 4) as ->.
  { destruct typed; [rewrite (wrap_id (k + 4)) by lia|]; rewrite wrap_id; lia. }
  clear Hr. clearbody k. destruct typed, (Z.ltb_spec (k + 8) 16), (Z.ltb_spec (k + 4) 16); split_and!; try lia; intros; lia.
Qed.
#[local] Ltac Zify.zify_post_hook ::= idtac.

Lemma alloc_spec bytes fl live s :
  let n := block_size typed unaligned_memory_access bytes in
  Holds (Arena fl live) s → bytes ≠ 0 → sizeof_Element ≤ n → n + sizeof_Element < 2 ^ 32 →
  wp (alloc typed unaligned_memory_access self bytes) (λ p s',
    match take_block n fl with
    | (None, _) => p = 0 ∧ s' = Heap (free_list s) (_grouped_size s) (words s) true
    | (Some a, fl') => p = a + header_size ∧ Holds (Arena fl' ((a, n) :: live)) s' ∧ panicked s' = panicked s
    end) s.
Proof.
  intros n [HA HB Hg Hh] Hb Hn1 Hn2. cbn in HB, Hg, Hh. unfold alloc. rewrite (proj2 (Z.eqb_neq _ _) Hb). wp_step.
  eapply wp_weaken; [by apply (search_decrementing_spec _ fl live)|]. intros r s'. cbn beta. fold n.
  destruct (take_block n fl) as [[a|] fl'] eqn:Et; [|by intros [-> ->]; wp_step].
  intros (b & m & -> & -> & Hd & Hend & HB'). pose proof (take_accounted _ _ _ _ _ _ _ HA Hn1 Et) as HA'. cbn iota.
  destruct (accounted_block _ _ (a, n) HA') as (Ha & _ & Hst); [set_solver|]. cbn in Ha.
  unfold element_end. wp_step. apply wp_in_list. cbn [free_list].
  eapply (wp_get_described _ a); [done|by intros x ->|]. cbn beta.
  unfold header_size. wp_step. destruct typed eqn:Ety.
  - wp_step. apply wp_store_word. cbn [elements this free_list _grouped_size words panicked]. do 2 wp_step. apply wp_store_word.
    cbn [elements this free_list _grouped_size words panicked]. wp_step. rewrite (wrap_id (a + sizeof_int)) by size_lia.
    split_and!; [rewrite wrap_id by size_lia; size_lia| |done]. split; [done| |done|]; cbn.
    + eapply (blocks_beside fl' live (a, n) (a + 4) 4 (Memory _ _)); [done|size_lia..|]. eapply (blocks_beside fl' live (a, n) a 4); [done|size_lia..|done].
    + constructor.
      * unfold headed, header. cbn. rewrite Ety. rewrite !Forall_cons. cbn. split_and!; [|by rewrite lookup_insert_eq|done].
        rewrite lookup_insert_ne by size_lia. rewrite erase_words_other by size_lia. by rewrite lookup_insert_eq.
      * eapply headers_beside; [done|size_lia..|]. eapply headers_beside; [done|size_lia..|done].
  - do 2 wp_step. apply wp_store_word. cbn [elements this free_list _grouped_size words panicked]. wp_step.
    split_and!; [rewrite wrap_id by size_lia; size_lia| |done]. split; [done| |done|]; cbn.
    + eapply (blocks_beside fl' live (a, n) a 4); [done|size_lia..|done].
    + constructor; [|eapply headers_beside; [done|size_lia..|done]].
      unfold headed, header. rewrite Ety. rewrite Forall_cons. cbn. by rewrite lookup_insert_eq.
Qed.

(** ** Release *)

(** The size of an element is changed, in the list or out of it. *)
Lemma set_size_outside b n' fl m :
  Blocks fl m → described (elements m) b → 0 < b.1 → b.1 ∉ fl.*1 →
  wp (put (set_rank n') (place_of b)) (λ _ m', Blocks fl m' ∧ described (elements m') (b.1, n')) m.
Proof.
  intros HB Hb Hpos Hn. pose proof (blocks_positive _ _ HB) as Hp. destruct m as [h t]. apply described_element in Hb as (x & Ex & Hx). cbn in Ex.
  apply wp_store; [by exists x|]. cbn [elements this]. split.
  - eapply blocks_frame; [|done]. intros c Hc. apply lookup_alter_ne. intros E. rewrite Forall_forall in Hp. apply place_inj in E; [|done|by apply Hp].
    apply Hn. rewrite E. by apply list_elem_of_fmap_2.
  - unfold described. change (place_of (b.1, n')) with (place_of b). rewrite lookup_alter_eq. cbn. rewrite Ex. cbn. by rewrite <- Hx.
Qed.

Lemma set_size_tail b n' fl m :
  Blocks (fl ++ [b]) m → wp (put (set_rank n') (place_of b)) (λ _ m', Blocks (fl ++ [(b.1, n')]) m' ∧ described (elements m') (b.1, n')) m.
Proof.
  intros HB. destruct b as [a n]. eapply wp_weaken; [apply (set_size_blocks fl a n [] _ n'); [done|done]|]. intros [] m' [HB' _]. split; [done|].
  pose proof (blocks_described _ _ HB') as Hd. by apply Forall_app in Hd as [_ [Hd _]%Forall_cons].
Qed.

(** [e] takes the size of the block at its right, which leaves the list. *)
Lemma absorb_right b r fl fl' s :
  Blocks fl (free_list s) → described (elements (free_list s)) b → r ∈ fl → r ∈ fl' → 0 ≤ b.2 + r.2 < 2 ^ 32 →
  wp (put (set_rank (b.2 + r.2)) (place_of b)) (λ _ m', Blocks fl' m' ∧ described (elements m') (b.1, b.2 + r.2)) (free_list s) →
  wp (n ← element_size (place_of b); nr ← element_size (place_of r); _ ← set_element_size (place_of b) (wrap (n + nr));
      _ ← in_list (remove (place_of r)); mret (Some (place_of r)))
    (λ _ s', ∃ m', s' = Heap m' (_grouped_size s) (words s) (panicked s) ∧ Blocks (drop_block r fl') m' ∧ described (elements m') (b.1, b.2 + r.2)) s.
Proof.
  intros HB Hd Hr Hr' Hn Hput. destruct s as [m g w p]. cbn in *. pose proof (blocks_described _ _ HB) as Hdr. rewrite Forall_forall in Hdr. specialize (Hdr _ Hr).
  unfold element_size, set_element_size. wp_step. apply wp_in_list. eapply (wp_get_described _ b.2); [done|by intros x <-|]. cbn beta.
  wp_step. apply wp_in_list. eapply (wp_get_described _ r.2); [done|by intros x <-|]. cbn beta. rewrite wrap_id by done.
  wp_step. apply wp_in_list. eapply wp_weaken; [exact Hput|]. intros [] m1 [HB1 Hd1]. cbn beta. wp_step. apply wp_in_list.
  eapply wp_weaken; [by apply (remove_block r)|]. intros y m2 [HB2 K]. cbn beta. wp_step. exists m2. split_and!; [done|done|].
  unfold described. by rewrite K.
Qed.

(** The block at its left takes the size of [e]. *)
Lemma absorb_left b l1 a k l2 s :
  Blocks (l1 ++ (a, k) :: l2) (free_list s) → described (elements (free_list s)) b → 0 ≤ k + b.2 < 2 ^ 32 →
  wp (nl ← element_size (at_address a); n ← element_size (place_of b); _ ← set_element_size (at_address a) (wrap (nl + n)); mret (Some (place_of b)))
    (λ _ s', ∃ m', s' = Heap m' (_grouped_size s) (words s) (panicked s) ∧ Blocks (l1 ++ (a, k + b.2) :: l2) m') s.
Proof.
  intros HB Hd Hn. destruct s as [m g w p]. cbn in *. pose proof (blocks_described _ _ HB) as Hda. apply Forall_app in Hda as [_ [Hda _]%Forall_cons].
  unfold element_size, set_element_size. wp_step. apply wp_in_list. change (at_address a) with (place_of (a, k)).
  eapply (wp_get_described _ k); [done|by intros x [= _ ->]|]. cbn beta. wp_step. apply wp_in_list.
  eapply (wp_get_described _ b.2); [done|by intros x <-|]. cbn beta. rewrite wrap_id by done. wp_step. apply wp_in_list.
  eapply wp_weaken; [by apply (set_size_blocks l1 a k l2 _ (k + b.2))|]. intros [] m1 [HB1 _]. cbn beta. wp_step. by exists m1.
Qed.

(** The free blocks with one put in, as [give_block] has them. *)
Lemma left_found fl live b :
  Accounted lo hi (Arena fl live) → found (λ x, end_of x =? b.1) fl = found (λ x, stop_at x =? b.1) fl.
Proof.
  intros HA. apply found_ext, Forall_forall. intros c Hc. destruct (accounted_block _ _ c HA) as (? & ? & ?); [apply elem_of_app; by left|].
  unfold end_of. rewrite wrap_id by size_lia. done.
Qed.

Lemma insert_merging_spec b fl live s :
  Accounted lo hi (Arena fl (b :: live)) → Blocks fl (free_list s) → described (elements (free_list s)) b →
  wp (insert_merging (place_of b)) (λ _ s',
    ∃ m', s' = Heap m' (wrap (_grouped_size s + b.2)) (words s) (panicked s) ∧ Blocks (give_block b fl) m') s.
Proof.
  intros HA HB Hd. destruct s as [m g w p]. cbn in *.
  destruct (accounted_block _ _ b HA) as (Hb1 & Hb2 & Hb3); [set_solver|].
  pose proof (accounted_new _ _ _ HA) as Hn.
  unfold insert_merging, element_size at 1, element_end, element_object. wp_step. apply wp_in_list.
  eapply (wp_get_described _ b.2); [done|by intros x <-|]. cbn beta. wp_step. apply wp_group. wp_step. apply wp_in_list.
  eapply (wp_get_described _ (stop_at b)); [done| |].
  { intros x ->. unfold end_of. rewrite wrap_id; size_lia. }
  cbn beta. wp_step. apply wp_in_list. eapply wp_weaken; [by apply search_block|]. intros r m' [-> ->]. cbn beta. wp_step. apply wp_in_list.
  eapply (wp_get_described _ b.1); [done|by intros x <-|]. cbn beta. wp_step. apply wp_in_list.
  eapply wp_weaken; [by apply scan_list_spec|]. intros r m' [-> ->]. cbn beta. rewrite (left_found _ _ _ HA).
  pose proof (found_touch fst (stop_at b) fl) as Hr. pose proof (found_touch stop_at b.1 fl) as Hl. unfold give_block.
  set (R := found (λ x, x.1 =? stop_at b) fl) in *. clearbody R. cbn [free_list _grouped_size words panicked].
  assert (∀ c, c ∈ fl → lo ≤ c.1 ∧ 0 < c.2 ∧ stop_at c ≤ hi) as Hin.
  { intros c Hc. destruct (accounted_block _ _ c HA) as (? & ? & ?); [apply elem_of_app; by left|size_lia]. }
  destruct (cut (λ x, stop_at x =? b.1) fl) as [[[l1 [a k]] l2]|] eqn:El.
  - rewrite (found_cut _ _ _ _ _ El) in *. apply cut_some in El as (-> & _ & _). destruct Hl as [Hl1 Hl2].
    pose proof (Hin _ Hl1) as (Ha & Hk & _). cbn [fmap option_fmap option_map]. wp_step. wp_step. change (place_of (a, k)) with (at_address a).
    destruct R as [r|]; cbn [fmap option_fmap option_map from_option].
    + destruct Hr as [Hr1 Hr2]. pose proof (Hin _ Hr1) as (_ & Hr3 & Hr4). wp_step. cbn beta.
      eapply wp_weaken; [apply (absorb_right b r (l1 ++ (a, k) :: l2) (l1 ++ (a, k) :: l2)); [done|done|done|done|size_lia|apply set_size_outside; [done|done|size_lia|done]]|].
      cbn beta. intros r' s' (m1 & -> & HB1 & Hd1). cbn beta. wp_step. cbn [free_list _grouped_size words panicked].
      unfold drop_block in HB1. rewrite filter_app, filter_cons_True in HB1 by (intros <-; size_lia).
      eapply wp_weaken; [apply (absorb_left (b.1, b.2 + r.2) (drop_block r l1) a k (drop_block r l2)); [done|done|size_lia]|].
      intros r'' s' (m2 & -> & HB2). cbn beta. wp_step. by exists m2.
    + do 3 wp_step. eapply wp_weaken; [apply (absorb_left b l1 a k l2); [done|done|size_lia]|]. intros r'' s' (m2 & -> & HB2). cbn beta. wp_step.
      exists m2. split; [done|]. by rewrite Z.add_0_r.
  - assert (found (λ x, stop_at x =? b.1) fl = None) as -> by (unfold found; by rewrite El). cbn [fmap option_fmap option_map]. wp_step.
    apply wp_in_list. cbn [free_list]. eapply wp_weaken; [apply (insert_block b fl); [done|done|size_lia|done|by eapply accounted_length]|].
    intros [] m1 HB1. cbn beta. cbn [free_list _grouped_size words panicked]. destruct R as [r|]; cbn [fmap option_fmap option_map from_option].
    + destruct Hr as [Hr1 Hr2]. pose proof (Hin _ Hr1) as (_ & Hr3 & Hr4). wp_step.
      eapply wp_weaken; [apply (absorb_right b r (fl ++ [b]) (fl ++ [(b.1, b.2 + r.2)])); [done| |set_solver|set_solver|size_lia|by apply set_size_tail]|].
      { cbn. pose proof (blocks_described _ _ HB1) as Hd1. by apply Forall_app in Hd1 as [_ [Hd1 _]%Forall_cons]. }
      intros r' s' (m2 & -> & HB2 & _). cbn beta. do 3 wp_step. by exists m2.
    + do 5 wp_step. exists m1. split; [done|]. rewrite Z.add_0_r. by destruct b.
Qed.

Lemma give_total fl live b : Accounted lo hi (Arena fl (b :: live)) → total (give_block b fl) = total fl + b.2.
Proof.
  intros HA. pose proof (give_accounted _ _ _ _ _ HA) as HA'. pose proof (accounted_total _ _ HA) as Ht. pose proof (accounted_total _ _ HA') as Ht'.
  change (total (b :: live)) with (b.2 + total live) in Ht. lia.
Qed.

(** A header is enough to give a block back. *)
Lemma new_element_spec b fl live s :
  Accounted lo hi (Arena fl (b :: live)) → Blocks fl (free_list s) → Forall (headed (words s)) live →
  wp (new_element b.1 b.2) (λ e s', e = place_of b ∧ Blocks fl (free_list s') ∧ described (elements (free_list s')) b ∧
    _grouped_size s' = _grouped_size s ∧ Forall (headed (words s')) live ∧ panicked s' = panicked s) s.
Proof.
  intros HA HB Hh. destruct (accounted_block _ _ b HA) as (Hb1 & Hb2 & Hb3); [set_solver|]. unfold wp, new_element. cbn. split_and!; [done| | |done| |done].
  - pose proof (accounted_new _ _ _ HA) as Hn.
    pose proof (blocks_positive _ _ HB) as Hp. rewrite Forall_forall in Hp.
    eapply blocks_frame; [|eapply (blocks_beside fl live b b.1 sizeof_Element); [done|size_lia..|done]]. intros c Hc. apply lookup_insert_ne.
    intros E. apply place_inj in E; [|lia|by apply Hp]. apply Hn. rewrite E. by apply list_elem_of_fmap_2.
  - unfold described. change (at_address b.1) with (place_of b). rewrite lookup_insert_eq. cbn. unfold payload. cbn. by destruct b.
  - rewrite Forall_forall in Hh |- *. intros c Hc. apply headed_erase; [|by apply Hh].
    pose proof (accounted_apart _ _ _ HA) as Hap. rewrite Forall_forall in Hap. specialize (Hap c ltac:(apply elem_of_app; by right)).
    destruct (accounted_block _ _ c HA) as (? & ? & ?); [apply elem_of_app; right; by right|]. unfold header_size. destruct typed; size_lia.
Qed.

Lemma free_spec b fl live s :
  Holds (Arena fl (b :: live)) s → wp (free b.1 b.2) (λ _ s', Holds (Arena (give_block b fl) live) s' ∧ panicked s' = panicked s) s.
Proof.
  intros [HA HB Hg Hh]. cbn in *. apply Forall_cons in Hh as [_ Hh]. destruct (accounted_block _ _ b HA) as (Hb1 & Hb2 & Hb3); [set_solver|].
  unfold free. rewrite (proj2 (Z.eqb_neq _ _)) by lia. rewrite (proj2 (Z.leb_le _ _)) by done. cbn [negb andb]. wp_step.
  eapply wp_weaken; [by apply (new_element_spec b fl live)|]. intros e s' (-> & HB' & Hd & Eg & Hh' & Ep). cbn beta. wp_step.
  eapply wp_weaken; [by apply (insert_merging_spec b fl live)|]. intros r s'' (m & -> & HB''). cbn beta. wp_step.
  pose proof (give_accounted _ _ _ _ _ HA) as HA'. pose proof (accounted_total _ _ HA') as Ht. split; [|done]. split; [done|done| |done].
  cbn. rewrite Eg, Hg, (give_total _ _ _ HA) in *. apply wrap_id. lia.
Qed.

Lemma release_spec b fl live s :
  Holds (Arena fl (b :: live)) s →
  wp (release typed self (b.1 + header_size)) (λ _ s', Holds (Arena (give_block b fl) live) s' ∧ panicked s' = panicked s) s.
Proof.
  intros HH. pose proof (holds_accounted _ _ HH) as HA. destruct (accounted_block _ _ b HA) as (Hb1 & Hb2 & Hb3); [set_solver|].
  pose proof (holds_headers _ _ HH) as Hh. apply Forall_cons in Hh as [Hh _]. unfold headed, header in Hh.
  unfold release, typed_free, untyped_free, header_size. destruct typed eqn:Ety.
  - rewrite !Forall_cons in Hh. cbn in Hh. destruct Hh as (Hw1 & Hw2 & _). cbn zeta.
    replace (wrap (b.1 + 8 - sizeof_int)) with (b.1 + sizeof_int) by (rewrite wrap_id; size_lia). wp_step. eapply wp_load_word; [done|]. cbn beta.
    replace (wrap (b.1 + sizeof_int - sizeof_int)) with b.1 by (rewrite wrap_id; size_lia). wp_step. eapply wp_load_word; [done|]. cbn beta.
    rewrite Z.eqb_refl. by apply free_spec.
  - rewrite Forall_cons in Hh. cbn in Hh. destruct Hh as (Hw & _). cbn zeta.
    replace (wrap (b.1 + 4 - sizeof_int)) with b.1 by (rewrite wrap_id; size_lia). wp_step. eapply wp_load_word; [done|]. by apply free_spec.
Qed.

(** A client writes into its block, after the header. *)
Lemma store_spec b a v fl live s :
  Holds (Arena fl (b :: live)) s → b.1 + header_size ≤ a → a + sizeof_int ≤ stop_at b →
  wp (store_word a v) (λ _ s', Holds (Arena fl (b :: live)) s' ∧ panicked s' = panicked s) s.
Proof.
  intros [HA HB Hg Hh] Ha Hst. cbn in *. apply wp_store_word. assert (b.1 ≤ a) as Hba by (unfold header_size in Ha; destruct typed; lia).
  split; [|done]. apply Forall_cons in Hh as [Hh1 Hh2]. split; cbn; [done|by apply (blocks_beside fl live b)|done|].
  constructor; [apply headed_write; [by left|done]|by eapply headers_beside].
Qed.

(** [Accounted] and [Holds] do not depend on the order of the blocks handed out. *)
Lemma holds_perm fl live live' s : live ≡ₚ live' → Holds (Arena fl live) s → Holds (Arena fl live') s.
Proof. intros E [[Ht Hr Hm] HB Hg Hh]. cbn in *. split; cbn; [split; cbn; [by rewrite <- E..|done]|done|done|by rewrite <- E]. Qed.

(** The constructor hands the heap its arena. *)
Lemma heap_constructor_spec : sizeof_Element ≤ hi - lo → ∃ s, Simple_Heap lo (hi - lo) = Some s ∧ Holds (Arena [(lo, hi - lo)] []) s ∧ panicked s = false.
Proof.
  intros Hroom. assert (Accounted lo hi (Arena [] [(lo, hi - lo)])) as HA.
  { split; cbn.
    - exists [(lo, hi - lo)]. split; [done|]. cbn. unfold stop_at. cbn. split_and!; [done|size_lia|lia].
    - constructor; [size_lia|constructor].
    - by intros x y ?%not_elem_of_nil. }
  assert (wp (free lo (hi - lo)) (λ _ s', Holds (Arena [(lo, hi - lo)] []) s' ∧ panicked s' = false) no_heap) as (u & s & E & HH)%wp_total.
  { unfold free. rewrite (proj2 (Z.eqb_neq _ _)) by lia. rewrite (proj2 (Z.leb_le _ _)) by lia. cbn [negb andb]. wp_step.
    eapply wp_weaken; [apply (new_element_spec (lo, hi - lo) [] []); [done| |constructor]|].
    - split; [apply new_list_repr|constructor..].
    - intros e s' (-> & HB' & Hd & Eg & Hh' & Ep). cbn beta. wp_step.
      eapply wp_weaken; [by apply (insert_merging_spec (lo, hi - lo) [] [])|]. intros r s'' (m & -> & HB''). cbn beta. wp_step.
      pose proof (give_accounted _ _ _ _ _ HA) as HA'. unfold give_block in *. cbn in *. rewrite Z.add_0_r in *. split; [|done].
      split; cbn; [done|done| |constructor]. rewrite Eg. unfold total. cbn. rewrite wrap_id; size_lia. }
  exists s. unfold Simple_Heap. by rewrite E.
Qed.
End heap.
