(* ===== verification/HeapCalls.v ===== *)
(** * Histories of a heap

    Sequences of allocations, releases and writes of clients into their blocks,
    from the constructor on: what the heap of Heap.v returns, and which memory
    is whose. *)

From stdpp Require Import base numbers list option gmap.
From S2P Require Import Prelude StateM DList Heap Arena HeapSpec.
#[local] Set Warnings "-clear-no-such-hyp".

(** ** Calls *)

Inductive heap_call :=
| Alloc (bytes : Z)
| Release (ptr : Z)
| Store (addr v : Z).

Section calls.
Context (typed unaligned_memory_access : bool) (self : Z).

Abbreviation header_size := (header_size typed).
Abbreviation block_size := (block_size typed unaligned_memory_access).

Definition call (c : heap_call) : H Z :=
  match c with
  | Alloc bytes => alloc typed unaligned_memory_access self bytes
  | Release ptr => _ ← release typed self ptr; mret 0
  | Store addr v => _ ← store_word addr v; mret 0
  end.
Fixpoint calls (cs : list heap_call) : H (list Z) :=
  match cs with [] => mret [] | c :: cs' => r ← call c; rs ← calls cs'; mret (r :: rs) end.

(** The part of a block that its client may write. *)
Definition within (addr : Z) (b : block) : bool := (b.1 + header_size <=? addr) && (addr + sizeof_int <=? stop_at b).

(** The result of a call and the arena after it.  [None]: the call is not
    allowed (a pointer that was not handed out, a write outside the blocks
    handed out, a request within 32 bytes of the largest integer). *)
Definition promise (c : heap_call) (A : arena) : option (Z * arena) :=
  match c with
  | Alloc bytes =>
      if decide (0 ≤ bytes < 2 ^ 32 - 32) then
        if bytes =? 0 then Some (0, A) else
        match take_block (block_size bytes) (free_blocks A) with
        | (None, _) => Some (0, A)
        | (Some a, fl) => Some (a + header_size, Arena fl ((a, block_size bytes) :: live_blocks A))
        end
      else None
  | Release ptr =>
      b ← found (λ b, b.1 =? ptr - header_size) (live_blocks A);
      Some (0, Arena (give_block b (free_blocks A)) (drop_block b (live_blocks A)))
  | Store addr v => _ ← found (within addr) (live_blocks A); Some (0, A)
  end.
Fixpoint promises (cs : list heap_call) (A : arena) : option (list Z * arena) :=
  match cs with
  | [] => Some ([], A)
  | c :: cs' => '(r, A) ← promise c A; '(rs, A) ← promises cs' A; Some (r :: rs, A)
  end.

(** What the constructor is given. *)
Definition whole (lo hi : Z) : arena := Arena [(lo, hi - lo)] [].

Section arena.
Context (lo hi : Z) (Hlo : 0 < lo) (Hhi : hi < 2 ^ 32).

Abbreviation Holds := (Holds typed self lo hi).


Lemma live_without fl live b : Accounted lo hi (Arena fl live) → b ∈ live → live ≡ₚ b :: drop_block b live.
Proof.
  intros Hn%accounted_tiling%tiling_nodup Hb. apply drop_perm; [|done]. cbn in Hn. rewrite fmap_app in Hn.
  apply NoDup_app in Hn as (_ & _ & Hn). by eapply NoDup_fmap_1.
Qed.

Lemma heap_call_spec c A r A' s :
  Holds A s → promise c A = Some (r, A') → wp (call c) (λ r' s', r' = r ∧ Holds A' s') s.
Proof.
  intros HH. destruct A as [fl live], c as [bytes|ptr|addr v]; cbn [promise call free_blocks live_blocks].
  - intros Hp. case_decide as Hb; [|done]. destruct (Z.eqb_spec bytes 0) as [->|Hne]; [by injection Hp as <- <-|].
    destruct (block_size_bounds typed unaligned_memory_access bytes) as (H1 & H2 & H3 & _); [lia|lia|].
    eapply wp_weaken; [by apply (alloc_spec typed unaligned_memory_access self lo hi Hlo Hhi bytes fl live)|]. intros p s'. cbn beta.
    destruct (take_block _ fl) as [[a|] fl']; injection Hp as <- <-; [naive_solver|]. intros [-> ->]. split; [done|].
    destruct HH as [HA HB Hg Hh]. by split.
  - intros Hp. destruct (found _ live) as [b|] eqn:E; [|done]. injection Hp as <- <-. apply found_some in E as [Hb E%Z.eqb_eq].
    pose proof (live_without fl live b (holds_accounted _ _ _ _ _ _ HH) Hb) as Ep.
    apply (holds_perm _ _ _ _ _ _ _ _ Ep) in HH. wp_step. replace ptr with (b.1 + header_size) by lia.
    eapply wp_weaken; [by apply (release_spec typed self lo hi Hlo Hhi b fl (drop_block b live))|]. intros [] s' [HH' _]. cbn beta. by wp_step.
  - intros Hp. destruct (found _ live) as [b|] eqn:E; [|done]. injection Hp as <- <-.
    apply found_some in E as [(l1 & l2 & ->)%list_elem_of_split [E1%Z.leb_le E2%Z.leb_le]%andb_prop].
    apply (holds_perm _ _ _ _ _ _ _ _ (Permutation_sym (Permutation_middle l1 l2 b))) in HH. wp_step.
    eapply wp_weaken; [by apply (store_spec typed self lo hi Hlo b)|]. intros [] s' [HH' _]. cbn beta. wp_step. split; [done|].
    eapply holds_perm; [apply Permutation_middle|done].
Qed.

Lemma calls_spec cs A rs A' s :
  Holds A s → promises cs A = Some (rs, A') → wp (calls cs) (λ rs' s', rs' = rs ∧ Holds A' s') s.
Proof.
  revert A rs s; induction cs as [|c cs IH]; intros A rs s HH; cbn [promises calls]; [by intros [= <- <-]|].
  intros Hp. destruct (promise c A) as [[r A1]|] eqn:E1; [|done]. cbn in Hp. destruct (promises cs A1) as [[rs1 A2]|] eqn:E2; [|done].
  injection Hp as <- <-. wp_step. eapply wp_weaken; [by eapply heap_call_spec|]. intros r' s1 [-> HH1]. cbn beta. wp_step.
  eapply wp_weaken; [by eapply IH|]. intros rs' s2 [-> HH2]. cbn beta. by wp_step.
Qed.

Lemma whole_calls cs rs A :
  sizeof_Element ≤ hi - lo → promises cs (whole lo hi) = Some (rs, A) →
  ∃ s s', Simple_Heap lo (hi - lo) = Some s ∧ calls cs s = Some (rs, s') ∧ Holds A s'.
Proof.
  intros Hroom Hp. destruct (heap_constructor_spec typed self lo hi Hlo Hhi Hroom) as (s & E & HH & _). exists s.
  pose proof (calls_spec cs _ _ _ _ HH Hp) as (r & s' & E' & -> & HH')%wp_total. by exists s'.
Qed.

(** On a machine without unaligned accesses. *)
Lemma promise_aligned c A r A' :
  unaligned_memory_access = false → Accounted lo hi A → aligned A → promise c A = Some (r, A') → aligned A'.
Proof.
  intros Hun HA Hal. destruct A as [fl live], c as [bytes|ptr|addr v]; cbn [promise free_blocks live_blocks]; intros Hp.
  - case_decide as Hb; [|done]. destruct (Z.eqb_spec bytes 0) as [->|Hne]; [by injection Hp as <- <-|].
    destruct (block_size_bounds typed unaligned_memory_access bytes) as (_ & H2 & _ & H4); [lia|lia|].
    destruct (take_block _ fl) as [[a|] fl'] eqn:Et; injection Hp as <- <-; [|done]. by eapply (take_aligned _ fl); auto.
  - destruct (found _ live) as [b|] eqn:E; [|done]. injection Hp as <- <-. apply found_some in E as [Hb _].
    pose proof (live_without fl live b HA Hb) as Ep.
    eapply (give_aligned lo hi).
    + destruct HA as [Ht Hr Hm]. split; cbn in *; [by rewrite <- Ep..|done].
    + unfold aligned in *. cbn in *. by rewrite <- Ep.
  - destruct (found _ live); [|done]. by injection Hp as <- <-.
Qed.

Lemma promises_aligned cs A rs A' s :
  unaligned_memory_access = false → Holds A s → aligned A → promises cs A = Some (rs, A') → aligned A'.
Proof.
  intros Hun. revert A rs s; induction cs as [|c cs IH]; intros A rs s HH Hal; cbn [promises]; [by intros [= <- <-]|].
  intros Hp. destruct (promise c A) as [[r A1]|] eqn:E1; [|done]. cbn in Hp. destruct (promises cs A1) as [[rs1 A2]|] eqn:E2; [|done].
  injection Hp as <- <-. pose proof (heap_call_spec _ _ _ _ _ HH E1) as (r' & s1 & _ & _ & HH1)%wp_total.
  eapply IH; [done| |done]. eapply promise_aligned; [done|apply HH|done|done].
Qed.

(** Every address of the arena is in one block. *)
Lemma tiling_covers bs x : tiling lo hi bs → lo ≤ x < hi → ∃ b, b ∈ bs ∧ b.1 ≤ x < stop_at b ∧ ∀ c, c ∈ bs → c.1 ≤ x < stop_at c → c = b.
Proof.
  intros Ht Hx. assert (∃ b, b ∈ bs ∧ b.1 ≤ x < stop_at b) as (b & Hb & Hbx).
  { destruct Ht as (bs' & E & Ht). setoid_rewrite <- E. clear E. destruct Hx as [Hx1 Hx2]. revert Hx1 Ht. generalize lo.
    induction bs' as [|b bs' IH]; intros l Hl; cbn [tiles]; [lia|]. intros (<- & Hn & Ht).
    destruct (Z_lt_le_dec x (stop_at b)) as [Hlt|Hle]; [by exists b; split; [left|]|].
    destruct (IH (stop_at b)) as (c & Hc & Hcx); [done|done|]. exists c. split; [by right|done]. }
  exists b. split_and!; [done|lia|lia|]. intros c Hc Hcx. apply list_elem_of_split in Hb as (l1 & l2 & ->).
  rewrite <- Permutation_middle in Ht. apply tiling_apart in Ht. rewrite Forall_forall in Ht.
  assert (c = b ∨ c ∈ l1 ++ l2) as [?|Hc'] by (rewrite elem_of_app, elem_of_cons in Hc; rewrite elem_of_app; tauto); [done|].
  specialize (Ht _ Hc'). lia.
Qed.
End arena.
End calls.

(** ** What the heap guarantees *)

(** C9 The heap is a first-fit allocator over its list of blocks.  Whatever is
    asked for after the constructor, as long as what is released was handed
    out, clients write within their blocks and no request is within 32 bytes
    of 2^32: every call returns; it returns what first fit gives, or null when
    no free block will do; the elements linked in memory describe the free
    blocks, in order, the group size counts their bytes, and the header of
    each block handed out has its size (and its heap). *)
Theorem heap_refines_first_fit typed unaligned_memory_access self lo hi cs rs A :
  0 < lo → hi < 2 ^ 32 → sizeof_Element ≤ hi - lo →
  promises typed unaligned_memory_access cs (whole lo hi) = Some (rs, A) →
  ∃ s s', Simple_Heap lo (hi - lo) = Some s ∧ calls typed unaligned_memory_access self cs s = Some (rs, s') ∧
    Blocks (free_blocks A) (free_list s') ∧ _grouped_size s' = total (free_blocks A) ∧ Forall (headed typed self (words s')) (live_blocks A).
Proof.
  intros Hlo Hhi Hroom Hp. destruct (whole_calls typed unaligned_memory_access self lo hi Hlo Hhi cs rs A Hroom Hp) as (s & s' & E & E' & HH).
  exists s, s'. split_and!; [done|done|apply HH..].
Qed.

(** C7 No byte is lost and none is given twice.  After any such history every
    address of the arena lies in one block, free or handed out; each block has
    room for an element of the list, so that it can be given back; no two free
    blocks touch; the group size is what has not been handed out; and when
    everything has been released the arena is one free block again. *)
Theorem heap_accounts_for_memory typed unaligned_memory_access self lo hi cs rs A s s' :
  0 < lo → hi < 2 ^ 32 → sizeof_Element ≤ hi - lo →
  promises typed unaligned_memory_access cs (whole lo hi) = Some (rs, A) →
  Simple_Heap lo (hi - lo) = Some s → calls typed unaligned_memory_access self cs s = Some (rs, s') →
  let bs := free_blocks A ++ live_blocks A in
  (∀ x, lo ≤ x < hi → ∃ b, b ∈ bs ∧ b.1 ≤ x < stop_at b ∧ ∀ c, c ∈ bs → c.1 ≤ x < stop_at c → c = b) ∧
  Forall (λ b, lo ≤ b.1 ∧ sizeof_Element ≤ b.2 ∧ stop_at b ≤ hi) bs ∧ separated (free_blocks A) ∧
  _grouped_size s' = hi - lo - total (live_blocks A) ∧
  (live_blocks A = [] → free_blocks A = [(lo, hi - lo)]).
Proof.
  intros Hlo Hhi Hroom Hp Es Ec bs. destruct (whole_calls typed unaligned_memory_access self lo hi Hlo Hhi cs rs A Hroom Hp) as (s1 & s2 & E & E' & HH).
  rewrite Es in E. injection E as <-. rewrite Ec in E'. injection E' as <-. destruct A as [fl live], HH as [HA _ Hg _]. subst bs. cbn in *. split_and!.
  - intros x Hx. apply (tiling_covers lo hi); [apply HA|done].
  - apply Forall_forall. intros b Hb. by apply (accounted_block lo hi fl live).
  - apply HA.
  - pose proof (accounted_total _ _ _ _ HA). lia.
  - intros ->. apply all_free_one_block; [size_lia|done].
Qed.

(** C8 What [alloc] returns is memory nobody else has.  After any such history
    a request either finds no free block of its size or with room to spare for
    an element, and then the machine panics and the result is null; or it
    returns a pointer to as many bytes as were asked for, which with the header
    before them keep clear of every block handed out, aligned to words where
    the machine needs it; and releasing it gives back the free blocks there
    were. *)
Theorem alloc_fresh_and_undone typed unaligned_memory_access self lo hi cs rs A s0 s bytes :
  0 < lo → hi < 2 ^ 32 → sizeof_Element ≤ hi - lo →
  promises typed unaligned_memory_access cs (whole lo hi) = Some (rs, A) →
  Simple_Heap lo (hi - lo) = Some s0 → calls typed unaligned_memory_access self cs s0 = Some (rs, s) →
  0 < bytes < 2 ^ 32 - 32 →
  let n := block_size typed unaligned_memory_access bytes in
  ∃ p s', alloc typed unaligned_memory_access self bytes s = Some (p, s') ∧
    (p = 0 ∧ panicked s' = true ∧ Forall (λ b, b.2 ≠ n ∧ b.2 < n + sizeof_Element) (free_blocks A) ∨
     lo < p ∧ p + bytes ≤ hi ∧ panicked s' = panicked s ∧
     Forall (λ b, p + bytes ≤ b.1 ∨ stop_at b ≤ p - header_size typed) (live_blocks A) ∧
     (unaligned_memory_access = false → lo mod 4 = 0 → hi mod 4 = 0 → p mod 4 = 0) ∧
     ∃ s'' fl, release typed self p s' = Some ((), s'') ∧ fl ≡ₚ free_blocks A ∧ Blocks fl (free_list s'') ∧ _grouped_size s'' = _grouped_size s).
Proof.
  intros Hlo Hhi Hroom Hp Es Ec Hb n. destruct (whole_calls typed unaligned_memory_access self lo hi Hlo Hhi cs rs A Hroom Hp) as (s1 & s2 & E & E' & HH).
  rewrite Es in E. injection E as <-. rewrite Ec in E'. injection E' as <-. destruct A as [fl live].
  destruct (block_size_bounds typed unaligned_memory_access bytes) as (H1 & H2 & H3 & H4); [lia|lia|]. fold n in H1, H2, H3, H4.
  assert (bytes ≠ 0) as Hne by lia.
  pose proof (alloc_spec typed unaligned_memory_access self lo hi Hlo Hhi bytes fl live s HH Hne H2 H3) as (p & s' & Ea & Hs')%wp_total.
  fold n in Hs'. exists p, s'. split; [done|]. cbn [free_blocks live_blocks].
  pose proof (holds_accounted _ _ _ _ _ _ HH) as HA. destruct (take_block n fl) as [[a|] fl'] eqn:Et.
  2:{ left. destruct Hs' as [-> ->]. split_and!; [done|done|]. unfold take_block in Et.
    destruct (cut (usable n) fl) as [[[l1 [a' k]] l2]|] eqn:Ecut; [by destruct (k =? n)|]. apply cut_none in Ecut.
    eapply Forall_impl; [done|]. intros b Hu. unfold usable in Hu. cbn beta in Hu. apply orb_false_iff in Hu as [?%Z.eqb_neq ?%Z.leb_gt]. lia. }
  right. destruct Hs' as (-> & HH' & Epan). pose proof (holds_accounted _ _ _ _ _ _ HH') as HA'.
  destruct (accounted_block lo hi fl' ((a, n) :: live) (a, n) HA') as (Ha & _ & Hst); [set_solver|].
  assert (4 ≤ header_size typed) as Hhs by (unfold header_size; destruct typed; lia).
  pose proof (release_spec typed self lo hi Hlo Hhi (a, n) fl' live s' HH') as (u & s'' & Er & HH'' & _)%wp_total.
  split_and!; [size_lia|size_lia|done| | |].
  - pose proof (accounted_apart lo hi fl' live (a, n) HA') as Hap. apply Forall_app in Hap as [_ Hap]. eapply Forall_impl; [done|]. intros b. size_lia.
  - intros Hun Hlo4 Hhi4. assert (aligned (whole lo hi)) as Hw.
    { constructor; [|constructor]. cbn. split; [done|]. by rewrite Zminus_mod, Hlo4, Hhi4. }
    destruct (heap_constructor_spec typed self lo hi Hlo Hhi Hroom) as (s1 & _ & HH0 & _).
    pose proof (promises_aligned typed unaligned_memory_access self lo hi Hlo Hhi cs _ _ _ _ Hun HH0 Hw Hp) as Hal.
    apply (take_aligned n fl live a fl') in Hal; [|done|by apply H4|done]. unfold aligned in Hal. cbn in Hal. rewrite <- Permutation_middle in Hal.
    apply Forall_cons in Hal as [[Hal _] _]. cbn in Hal. unfold header_size. destruct typed; Z.to_euclidean_division_equations; lia.
  - destruct u. exists s'', (give_block (a, n) fl'). split_and!; [done|by eapply (take_give lo hi)|apply HH''|].
    rewrite (holds_size _ _ _ _ _ _ HH''), (holds_size _ _ _ _ _ _ HH). cbn. by rewrite (take_give lo hi _ _ _ _ _ HA H2 Et).
Qed.

(** ** Examples *)

(** An arena of 4096 bytes, with typed headers, words aligned: two blocks, one
    request too large, a write, a release that leaves the free blocks apart,
    and a request that the first of them can satisfy. *)
Definition some_calls : list heap_call := [Alloc 100; Alloc 13; Alloc 4000; Store 8072 7; Release 8092; Alloc 60].
Definition some_arena : arena := Arena [(4096, 3896); (8084, 108)] [(7992, 68); (8060, 24)].

Example some_promises : promises true false some_calls (whole 4096 8192) = Some ([8092; 8068; 0; 0; 0; 8000], some_arena).
Proof. vm_compute. reflexivity. Qed.

Example heap_refines_first_fit_witness :
  ∃ s s', Simple_Heap 4096 4096 = Some s ∧ calls true false 1 some_calls s = Some ([8092; 8068; 0; 0; 0; 8000], s') ∧
    _grouped_size s' = 4004.
Proof.
  destruct (heap_refines_first_fit true false 1 4096 8192 some_calls [8092; 8068; 0; 0; 0; 8000] some_arena) as (s & s' & E & E' & _ & Hg & _).
  - done.
  - done.
  - done.
  - vm_compute. reflexivity.
  - by exists s, s'.
Defined.

(** The state these calls lead to. *)
Definition some_heap : option heap := s ← Simple_Heap 4096 4096; '(_, s) ← calls true false 1 some_calls s; Some s.

Example heap_accounts_for_memory_witness : ∃ s', some_heap = Some s' ∧ _grouped_size s' = 4096 - total [(7992, 68); (8060, 24)].
Proof.
  destruct (Simple_Heap 4096 4096) as [s|] eqn:Es; [|vm_compute in Es; discriminate].
  destruct (calls true false 1 some_calls s) as [[rs s']|] eqn:Ec; [|vm_compute in Es; injection Es as <-; vm_compute in Ec; discriminate].
  exists s'. assert (rs = [8092; 8068; 0; 0; 0; 8000]) as -> by (vm_compute in Es; injection Es as <-; vm_compute in Ec; congruence).
  destruct (heap_accounts_for_memory true false 1 4096 8192 some_calls [8092; 8068; 0; 0; 0; 8000] some_arena s s') as (_ & _ & _ & Hg & _);
    [done|done|done|vm_compute; reflexivity|exact Es|exact Ec|]. split; [|exact Hg]. unfold some_heap. rewrite Es. cbn [mbind option_bind]. by rewrite Ec.
Defined.

Example alloc_fresh_and_undone_witness :
  ∃ s p s', some_heap = Some s ∧ alloc true false 1 200 s = Some (p, s') ∧ p mod 4 = 0 ∧ is_Some (release true 1 p s').
Proof.
  destruct (Simple_Heap 4096 4096) as [s|] eqn:Es; [|vm_compute in Es; discriminate].
  destruct (calls true false 1 some_calls s) as [[rs s']|] eqn:Ec; [|vm_compute in Es; injection Es as <-; vm_compute in Ec; discriminate].
  assert (rs = [8092; 8068; 0; 0; 0; 8000]) as -> by (vm_compute in Es; injection Es as <-; vm_compute in Ec; congruence).
  destruct (alloc_fresh_and_undone true false 1 4096 8192 some_calls [8092; 8068; 0; 0; 0; 8000] some_arena s s' 200) as (p & s'' & Ea & [Hno|Hp]);
    [done|done|done|vm_compute; reflexivity|exact Es|exact Ec|done| |].
  - destruct Hno as (_ & _ & Hno). apply Forall_cons in Hno as [[_ Hno] _]. vm_compute in Hno. discriminate.
  - exists s', p, s''. split; [unfold some_heap; rewrite Es; cbn [mbind option_bind]; by rewrite Ec|]. split; [exact Ea|].
    destruct Hp as (_ & _ & _ & _ & Hm & s3 & fl & Er & _). split; [by apply Hm|by eexists].
Defined.

(** Sizes wrap.  A request of 2^32 - 20 bytes gets a pointer past the end of
    the arena, and the free block grows; one of 2^32 - 4 bytes gets 12. *)
Example huge_request_served : (s ← Simple_Heap 4096 4096; '(p, s) ← alloc false true 1 (2 ^ 32 - 20) s; Some (p, _grouped_size s)) = Some (8212, 4112).
Proof. vm_compute. reflexivity. Qed.
Example huge_request_shrunk : (s ← Simple_Heap 4096 4096; '(p, s) ← alloc false true 1 (2 ^ 32 - 4) s; Some (p, _grouped_size s)) = Some (8180, 4080).
Proof. vm_compute. reflexivity. Qed.

(** The null pointer cannot be freed: the word before it is read. *)
Example null_not_freed : (s ← Simple_Heap 4096 4096; release false 1 0 s) = None.
Proof. vm_compute. reflexivity. Qed.
