(* ===== verification/Aes.v ===== *)
(** * The Advanced Encryption Standard in software (include/utility/aes.h,
      src/utility/aes.cc)

    Class [SWAES<16>].  An array of bytes is a list of [Z]; the state matrix is
    the block it is laid over, its entry [i][j] being byte [4 * i + j], and a
    method that works in place is a function of the old block.  A pointer to
    a buffer is the buffer, the null key is [None]; [None] as a result is
    undefined behaviour: a null pointer followed, or bytes read that nobody
    wrote.  Input and output are not supposed to overlap.  What the class
    prints when debugged is left out.

    [fips] is the standard's own definition (FIPS 197), over the field of 256
    elements, against which the tables and the loops are checked. *)

From Stdlib Require Import Btauto.
From stdpp Require Import prelude.
From S2P Require Import Prelude.

(** ** Tables *)

Definition sbox : list Z := [
   0x63; 0x7c; 0x77; 0x7b; 0xf2; 0x6b; 0x6f; 0xc5; 0x30; 0x01; 0x67; 0x2b; 0xfe; 0xd7; 0xab; 0x76;
   0xca; 0x82; 0xc9; 0x7d; 0xfa; 0x59; 0x47; 0xf0; 0xad; 0xd4; 0xa2; 0xaf; 0x9c; 0xa4; 0x72; 0xc0;
   0xb7; 0xfd; 0x93; 0x26; 0x36; 0x3f; 0xf7; 0xcc; 0x34; 0xa5; 0xe5; 0xf1; 0x71; 0xd8; 0x31; 0x15;
   0x04; 0xc7; 0x23; 0xc3; 0x18; 0x96; 0x05; 0x9a; 0x07; 0x12; 0x80; 0xe2; 0xeb; 0x27; 0xb2; 0x75;
   0x09; 0x83; 0x2c; 0x1a; 0x1b; 0x6e; 0x5a; 0xa0; 0x52; 0x3b; 0xd6; 0xb3; 0x29; 0xe3; 0x2f; 0x84;
   0x53; 0xd1; 0x00; 0xed; 0x20; 0xfc; 0xb1; 0x5b; 0x6a; 0xcb; 0xbe; 0x39; 0x4a; 0x4c; 0x58; 0xcf;
   0xd0; 0xef; 0xaa; 0xfb; 0x43; 0x4d; 0x33; 0x85; 0x45; 0xf9; 0x02; 0x7f; 0x50; 0x3c; 0x9f; 0xa8;
   0x51; 0xa3; 0x40; 0x8f; 0x92; 0x9d; 0x38; 0xf5; 0xbc; 0xb6; 0xda; 0x21; 0x10; 0xff; 0xf3; 0xd2;
   0xcd; 0x0c; 0x13; 0xec; 0x5f; 0x97; 0x44; 0x17; 0xc4; 0xa7; 0x7e; 0x3d; 0x64; 0x5d; 0x19; 0x73;
   0x60; 0x81; 0x4f; 0xdc; 0x22; 0x2a; 0x90; 0x88; 0x46; 0xee; 0xb8; 0x14; 0xde; 0x5e; 0x0b; 0xdb;
   0xe0; 0x32; 0x3a; 0x0a; 0x49; 0x06; 0x24; 0x5c; 0xc2; 0xd3; 0xac; 0x62; 0x91; 0x95; 0xe4; 0x79;
   0xe7; 0xc8; 0x37; 0x6d; 0x8d; 0xd5; 0x4e; 0xa9; 0x6c; 0x56; 0xf4; 0xea; 0x65; 0x7a; 0xae; 0x08;
   0xba; 0x78; 0x25; 0x2e; 0x1c; 0xa6; 0xb4; 0xc6; 0xe8; 0xdd; 0x74; 0x1f; 0x4b; 0xbd; 0x8b; 0x8a;
   0x70; 0x3e; 0xb5; 0x66; 0x48; 0x03; 0xf6; 0x0e; 0x61; 0x35; 0x57; 0xb9; 0x86; 0xc1; 0x1d; 0x9e;
   0xe1; 0xf8; 0x98; 0x11; 0x69; 0xd9; 0x8e; 0x94; 0x9b; 0x1e; 0x87; 0xe9; 0xce; 0x55; 0x28; 0xdf;
   0x8c; 0xa1; 0x89; 0x0d; 0xbf; 0xe6; 0x42; 0x68; 0x41; 0x99; 0x2d; 0x0f; 0xb0; 0x54; 0xbb; 0x16 ].

Definition rsbox : list Z := [
   0x52; 0x09; 0x6a; 0xd5; 0x30; 0x36; 0xa5; 0x38; 0xbf; 0x40; 0xa3; 0x9e; 0x81; 0xf3; 0xd7; 0xfb;
   0x7c; 0xe3; 0x39; 0x82; 0x9b; 0x2f; 0xff; 0x87; 0x34; 0x8e; 0x43; 0x44; 0xc4; 0xde; 0xe9; 0xcb;
   0x54; 0x7b; 0x94; 0x32; 0xa6; 0xc2; 0x23; 0x3d; 0xee; 0x4c; 0x95; 0x0b; 0x42; 0xfa; 0xc3; 0x4e;
   0x08; 0x2e; 0xa1; 0x66; 0x28; 0xd9; 0x24; 0xb2; 0x76; 0x5b; 0xa2; 0x49; 0x6d; 0x8b; 0xd1; 0x25;
   0x72; 0xf8; 0xf6; 0x64; 0x86; 0x68; 0x98; 0x16; 0xd4; 0xa4; 0x5c; 0xcc; 0x5d; 0x65; 0xb6; 0x92;
   0x6c; 0x70; 0x48; 0x50; 0xfd; 0xed; 0xb9; 0xda; 0x5e; 0x15; 0x46; 0x57; 0xa7; 0x8d; 0x9d; 0x84;
   0x90; 0xd8; 0xab; 0x00; 0x8c; 0xbc; 0xd3; 0x0a; 0xf7; 0xe4; 0x58; 0x05; 0xb8; 0xb3; 0x45; 0x06;
   0xd0; 0x2c; 0x1e; 0x8f; 0xca; 0x3f; 0x0f; 0x02; 0xc1; 0xaf; 0xbd; 0x03; 0x01; 0x13; 0x8a; 0x6b;
   0x3a; 0x91; 0x11; 0x41; 0x4f; 0x67; 0xdc; 0xea; 0x97; 0xf2; 0xcf; 0xce; 0xf0; 0xb4; 0xe6; 0x73;
   0x96; 0xac; 0x74; 0x22; 0xe7; 0xad; 0x35; 0x85; 0xe2; 0xf9; 0x37; 0xe8; 0x1c; 0x75; 0xdf; 0x6e;
   0x47; 0xf1; 0x1a; 0x71; 0x1d; 0x29; 0xc5; 0x89; 0x6f; 0xb7; 0x62; 0x0e; 0xaa; 0x18; 0xbe; 0x1b;
   0xfc; 0x56; 0x3e; 0x4b; 0xc6; 0xd2; 0x79; 0x20; 0x9a; 0xdb; 0xc0; 0xfe; 0x78; 0xcd; 0x5a; 0xf4;
   0x1f; 0xdd; 0xa8; 0x33; 0x88; 0x07; 0xc7; 0x31; 0xb1; 0x12; 0x10; 0x59; 0x27; 0x80; 0xec; 0x5f;
   0x60; 0x51; 0x7f; 0xa9; 0x19; 0xb5; 0x4a; 0x0d; 0x2d; 0xe5; 0x7a; 0x9f; 0x93; 0xc9; 0x9c; 0xef;
   0xa0; 0xe0; 0x3b; 0x4d; 0xae; 0x2a; 0xf5; 0xb0; 0xc8; 0xeb; 0xbb; 0x3c; 0x83; 0x53; 0x99; 0x61;
   0x17; 0x2b; 0x04; 0x7e; 0xba; 0x77; 0xd6; 0x26; 0xe1; 0x69; 0x14; 0x63; 0x55; 0x21; 0x0c; 0x7d ].

Definition rcon : list Z := [
   0x8d; 0x01; 0x02; 0x04; 0x08; 0x10; 0x20; 0x40; 0x80; 0x1b; 0x36; 0x6c; 0xd8; 0xab; 0x4d; 0x9a;
   0x2f; 0x5e; 0xbc; 0x63; 0xc6; 0x97; 0x35; 0x6a; 0xd4; 0xb3; 0x7d; 0xfa; 0xef; 0xc5; 0x91; 0x39;
   0x72; 0xe4; 0xd3; 0xbd; 0x61; 0xc2; 0x9f; 0x25; 0x4a; 0x94; 0x33; 0x66; 0xcc; 0x83; 0x1d; 0x3a;
   0x74; 0xe8; 0xcb; 0x8d; 0x01; 0x02; 0x04; 0x08; 0x10; 0x20; 0x40; 0x80; 0x1b; 0x36; 0x6c; 0xd8;
   0xab; 0x4d; 0x9a; 0x2f; 0x5e; 0xbc; 0x63; 0xc6; 0x97; 0x35; 0x6a; 0xd4; 0xb3; 0x7d; 0xfa; 0xef;
   0xc5; 0x91; 0x39; 0x72; 0xe4; 0xd3; 0xbd; 0x61; 0xc2; 0x9f; 0x25; 0x4a; 0x94; 0x33; 0x66; 0xcc;
   0x83; 0x1d; 0x3a; 0x74; 0xe8; 0xcb; 0x8d; 0x01; 0x02; 0x04; 0x08; 0x10; 0x20; 0x40; 0x80; 0x1b;
   0x36; 0x6c; 0xd8; 0xab; 0x4d; 0x9a; 0x2f; 0x5e; 0xbc; 0x63; 0xc6; 0x97; 0x35; 0x6a; 0xd4; 0xb3;
   0x7d; 0xfa; 0xef; 0xc5; 0x91; 0x39; 0x72; 0xe4; 0xd3; 0xbd; 0x61; 0xc2; 0x9f; 0x25; 0x4a; 0x94;
   0x33; 0x66; 0xcc; 0x83; 0x1d; 0x3a; 0x74; 0xe8; 0xcb; 0x8d; 0x01; 0x02; 0x04; 0x08; 0x10; 0x20;
   0x40; 0x80; 0x1b; 0x36; 0x6c; 0xd8; 0xab; 0x4d; 0x9a; 0x2f; 0x5e; 0xbc; 0x63; 0xc6; 0x97; 0x35;
   0x6a; 0xd4; 0xb3; 0x7d; 0xfa; 0xef; 0xc5; 0x91; 0x39; 0x72; 0xe4; 0xd3; 0xbd; 0x61; 0xc2; 0x9f;
   0x25; 0x4a; 0x94; 0x33; 0x66; 0xcc; 0x83; 0x1d; 0x3a; 0x74; 0xe8; 0xcb; 0x8d; 0x01; 0x02; 0x04;
   0x08; 0x10; 0x20; 0x40; 0x80; 0x1b; 0x36; 0x6c; 0xd8; 0xab; 0x4d; 0x9a; 0x2f; 0x5e; 0xbc; 0x63;
   0xc6; 0x97; 0x35; 0x6a; 0xd4; 0xb3; 0x7d; 0xfa; 0xef; 0xc5; 0x91; 0x39; 0x72; 0xe4; 0xd3; 0xbd;
   0x61; 0xc2; 0x9f; 0x25; 0x4a; 0x94; 0x33; 0x66; 0xcc; 0x83; 0x1d; 0x3a; 0x74; 0xe8; 0xcb ].

(** [sbox[static_cast<int>(x)]], [rsbox[...]]. *)
Definition sub (x : Z) : Z := sbox !!! Z.to_nat x.
Definition rsub (x : Z) : Z := rsbox !!! Z.to_nat x.

(** ** The field *)

Definition u8 (x : Z) : Z := x mod 2 ^ 8.

Definition xtime (x : Z) : Z := u8 (Z.lxor (Z.shiftl x 1) (Z.land (Z.shiftr x 7) 1 * 0x1b)).

Definition multiply (x y : Z) : Z :=
  Z.lxor (Z.lxor (Z.lxor (Z.lxor
    (Z.land y 1 * x)
    (Z.land (Z.shiftr y 1) 1 * xtime x))
    (Z.land (Z.shiftr y 2) 1 * xtime (xtime x)))
    (Z.land (Z.shiftr y 3) 1 * xtime (xtime (xtime x))))
    (Z.land (Z.shiftr y 4) 1 * xtime (xtime (xtime (xtime x)))).

(** ** Operations on the state *)

Definition Nb : nat := 4.
Definition Nk : nat := 4.
Definition Nr : nat := 10.
Definition KEY_SIZE : nat := 16.

Definition cell (i j : nat) : nat := 4 * i + j.
Definition get (s : list Z) (i j : nat) : Z := s !!! cell i j.
Definition set (i j : nat) (x : Z) (s : list Z) : list Z := <[cell i j := x]> s.

(** [for(i = 0; i < 4; ++i) for(j = 0; j < 4; ++j) f(i, j)] *)
Definition for4 (f : nat → list Z → list Z) (s : list Z) : list Z := f 3%nat (f 2%nat (f 1%nat (f 0%nat s))).
Definition for44 (f : nat → nat → list Z → list Z) : list Z → list Z := for4 (λ i, for4 (f i)).

Definition add_round_key (round_key : list Z) (round : nat) : list Z → list Z :=
  for44 (λ i j s, set i j (Z.lxor (get s i j) (round_key !!! (round * Nb * 4 + i * Nb + j)%nat)) s).

Definition sub_bytes : list Z → list Z := for44 (λ i j s, set j i (sub (get s j i)) s).
Definition inv_sub_bytes : list Z → list Z := for44 (λ i j s, set j i (rsub (get s j i)) s).

Definition shift_rows (s : list Z) : list Z :=
  let temp := get s 0 1 in
  let s := set 0 1 (get s 1 1) s in
  let s := set 1 1 (get s 2 1) s in
  let s := set 2 1 (get s 3 1) s in
  let s := set 3 1 temp s in
  let temp := get s 0 2 in
  let s := set 0 2 (get s 2 2) s in
  let s := set 2 2 temp s in
  let temp := get s 1 2 in
  let s := set 1 2 (get s 3 2) s in
  let s := set 3 2 temp s in
  let temp := get s 0 3 in
  let s := set 0 3 (get s 3 3) s in
  let s := set 3 3 (get s 2 3) s in
  let s := set 2 3 (get s 1 3) s in
  set 1 3 temp s.

Definition inv_shift_rows (s : list Z) : list Z :=
  let temp := get s 3 1 in
  let s := set 3 1 (get s 2 1) s in
  let s := set 2 1 (get s 1 1) s in
  let s := set 1 1 (get s 0 1) s in
  let s := set 0 1 temp s in
  let temp := get s 0 2 in
  let s := set 0 2 (get s 2 2) s in
  let s := set 2 2 temp s in
  let temp := get s 1 2 in
  let s := set 1 2 (get s 3 2) s in
  let s := set 3 2 temp s in
  let temp := get s 0 3 in
  let s := set 0 3 (get s 1 3) s in
  let s := set 1 3 (get s 2 3) s in
  let s := set 2 3 (get s 3 3) s in
  set 3 3 temp s.

Definition mix_columns : list Z → list Z := for4 (λ i s,
  let t := get s i 0 in
  let Tmp := Z.lxor (Z.lxor (Z.lxor (get s i 0) (get s i 1)) (get s i 2)) (get s i 3) in
  let Tm := xtime (Z.lxor (get s i 0) (get s i 1)) in
  let s := set i 0 (Z.lxor (get s i 0) (Z.lxor Tm Tmp)) s in
  let Tm := xtime (Z.lxor (get s i 1) (get s i 2)) in
  let s := set i 1 (Z.lxor (get s i 1) (Z.lxor Tm Tmp)) s in
  let Tm := xtime (Z.lxor (get s i 2) (get s i 3)) in
  let s := set i 2 (Z.lxor (get s i 2) (Z.lxor Tm Tmp)) s in
  let Tm := xtime (Z.lxor (get s i 3) t) in
  set i 3 (Z.lxor (get s i 3) (Z.lxor Tm Tmp)) s).

Definition inv_mix_columns : list Z → list Z := for4 (λ i s,
  let a := get s i 0 in
  let b := get s i 1 in
  let c := get s i 2 in
  let d := get s i 3 in
  let s := set i 0 (Z.lxor (Z.lxor (Z.lxor (multiply a 0x0e) (multiply b 0x0b)) (multiply c 0x0d)) (multiply d 0x09)) s in
  let s := set i 1 (Z.lxor (Z.lxor (Z.lxor (multiply a 0x09) (multiply b 0x0e)) (multiply c 0x0b)) (multiply d 0x0d)) s in
  let s := set i 2 (Z.lxor (Z.lxor (Z.lxor (multiply a 0x0d) (multiply b 0x09)) (multiply c 0x0e)) (multiply d 0x0b)) s in
  set i 3 (Z.lxor (Z.lxor (Z.lxor (multiply a 0x0b) (multiply b 0x0d)) (multiply c 0x09)) (multiply d 0x0e)) s).

(** ** The key schedule

    The bytes of [_round_key] are written once each, in order: writing is
    appending.  [i] counts words. *)

Definition sub_word (tempa : list Z) : list Z := sub <$> tempa.
Definition rot_word (tempa : list Z) : list Z := drop 1 tempa ++ take 1 tempa.

Definition next_word (i : nat) (round_key : list Z) : list Z :=
  let tempa := take 4 (drop ((i - 1) * 4) round_key) in
  let tempa :=
    if decide (i mod Nk = 0)%nat then
      zip_with Z.lxor (sub_word (rot_word tempa)) [rcon !!! (i / Nk)%nat; 0; 0; 0]
    else if decide (6 < Nk ∧ i mod Nk = 4)%nat then sub_word tempa
    else tempa in
  zip_with Z.lxor (take 4 (drop ((i - Nk) * 4) round_key)) tempa.

Fixpoint expand_loop (n i : nat) (round_key : list Z) : list Z :=
  match n with
  | O => round_key
  | S n' => expand_loop n' (S i) (round_key ++ next_word i round_key)
  end.

Definition expand_key (key : list Z) : list Z := expand_loop (Nb * (Nr + 1) - Nk) Nk (take (4 * Nk) key).

(** ** The ciphers *)

(** [for(; n rounds; ++round) body(round)], and down to round 1. *)
Fixpoint rounds (body : nat → list Z → list Z) (n round : nat) (s : list Z) : list Z :=
  match n with
  | O => s
  | S n' => rounds body n' (S round) (body round s)
  end.
Fixpoint inv_rounds (body : nat → list Z → list Z) (round : nat) (s : list Z) : list Z :=
  match round with
  | O => s
  | S round' => inv_rounds body round' (body round s)
  end.

Definition cipher_round (round_key : list Z) (round : nat) (s : list Z) : list Z :=
  add_round_key round_key round (mix_columns (shift_rows (sub_bytes s))).
Definition cipher (round_key s : list Z) : list Z :=
  let s := rounds (cipher_round round_key) (Nr - 1) 1 (add_round_key round_key 0 s) in
  add_round_key round_key Nr (shift_rows (sub_bytes s)).

Definition inv_cipher_round (round_key : list Z) (round : nat) (s : list Z) : list Z :=
  inv_mix_columns (add_round_key round_key round (inv_sub_bytes (inv_shift_rows s))).
Definition inv_cipher (round_key s : list Z) : list Z :=
  let s := inv_rounds (inv_cipher_round round_key) (Nr - 1) (add_round_key round_key Nr s) in
  add_round_key round_key 0 (inv_sub_bytes (inv_shift_rows s)).

(** ** Buffers *)

(** [block_copy(..., input)]: 16 bytes have to be there. *)
Definition block (input : list Z) : option (list Z) :=
  if decide (KEY_SIZE ≤ length input)%nat then Some (take KEY_SIZE input) else None.

Definition xor_with_iv (iv buf : list Z) : list Z := zip_with Z.lxor buf iv.

(** The loops over the blocks of [left] bytes: what is written to the output,
    and the block [_iv] points to at the end.  A block that [left] bytes do
    not fill is encrypted with bytes of the local [input] that nobody wrote. *)
Fixpoint encrypt_loop (n : nat) (round_key iv input : list Z) (left : Z) : option (list Z * list Z) :=
  match n with
  | O => Some ([], iv)
  | S n' =>
      if left <=? 0 then Some ([], iv)
      else if left <? Z.of_nat KEY_SIZE then None
      else
        buf ← block input;
        let out := cipher round_key (xor_with_iv iv buf) in
        '(output, iv') ← encrypt_loop n' round_key out (drop KEY_SIZE input) (left - Z.of_nat KEY_SIZE);
        Some (out ++ output, iv')
  end.

(** What is decrypted, [_iv], and what [input] points to. *)
Fixpoint decrypt_loop (n : nat) (round_key iv input : list Z) (left : Z) : option (list Z * list Z * list Z) :=
  match n with
  | O => Some ([], iv, input)
  | S n' =>
      if left <=? 0 then Some ([], iv, input)
      else
        buf ← block input;
        '(output, iv', rest) ← decrypt_loop n' round_key buf (drop KEY_SIZE input) (left - Z.of_nat KEY_SIZE);
        Some (xor_with_iv iv (inv_cipher round_key buf) ++ output, iv', rest)
  end.

Inductive Mode := ECB | CBC.
#[export] Instance Mode_eq_dec : EqDecision Mode.
Proof. solve_decision. Defined.

Record aes := { _mode : Mode; _round_key : list Z; _iv : list Z; iv : list Z }.
Definition with_round_key (f : list Z → list Z) (o : aes) : aes :=
  {| _mode := _mode o; _round_key := f (_round_key o); _iv := _iv o; iv := iv o |}.
Definition with_iv (v : list Z) (o : aes) : aes :=
  {| _mode := _mode o; _round_key := _round_key o; _iv := v; iv := iv o |}.

(** Whatever the memory of the object held before; [iv[i] = 0] for 23 bytes. *)
Definition SWAES (m : Mode) (garbage_key garbage_iv : list Z) : aes :=
  {| _mode := m; _round_key := garbage_key; _iv := garbage_iv; iv := replicate 23 0 |}.

(** The bytes left over when the length is no multiple of the block. *)
Definition remainders (length : Z) : Z := length mod Z.of_nat KEY_SIZE.
Definition pad (r : Z) (buf : list Z) : list Z := take (Z.to_nat r) buf ++ replicate (KEY_SIZE - Z.to_nat r) 0.

(** [i] after a loop over the blocks. *)
Definition blocks_end (length : Z) : Z := (Z.max 0 length + 15) / 16 * 16.

(** Null pointers for [key] and [iv] leave the attributes as they are. *)
Definition set_key (key : option (list Z)) (o : aes) : aes :=
  match key with Some k => with_round_key (λ _, expand_key k) o | None => o end.
Definition set_iv (v : option (list Z)) (o : aes) : aes :=
  match v with Some v => with_iv v o | None => o end.

Definition cbc_encrypt_buffer (o : aes) (_input : list Z) (length : Z) (key v : option (list Z)) : option (aes * list Z) :=
  first ← block _input;
  let o := set_iv v (set_key key o) in
  '(output, iv') ← encrypt_loop (Z.to_nat length) (_round_key o) (_iv o) _input length;
  let o := with_iv iv' o in
  if decide (remainders length = 0) then Some (o, if decide (output = []) then first else output)
  else
    buf ← block (drop (Z.to_nat (blocks_end length)) _input);
    Some (o, output ++ cipher (_round_key o) (pad (remainders length) buf)).

Definition cbc_decrypt_buffer (o : aes) (input : list Z) (length : Z) (key v : option (list Z)) : option (aes * list Z) :=
  first ← block input;
  let o := set_iv v (set_key key o) in
  '(output, iv', input) ← decrypt_loop (Z.to_nat length) (_round_key o) (_iv o) input length;
  let o := with_iv iv' o in
  if decide (remainders length = 0) then Some (o, if decide (output = []) then first else output)
  else
    buf ← block input;
    Some (o, output ++ inv_cipher (_round_key o) (pad (remainders length) buf)).

Definition ebc_encrypt (o : aes) (input : list Z) (key : option (list Z)) : option (aes * list Z) :=
  state ← block input;
  key ← key;
  let o := with_round_key (λ _, expand_key key) o in
  Some (o, cipher (_round_key o) state).

Definition ebc_decrypt (o : aes) (input : list Z) (key : option (list Z)) : option (aes * list Z) :=
  state ← block input;
  key ← key;
  let o := with_round_key (λ _, expand_key key) o in
  Some (o, inv_cipher (_round_key o) state).

Definition crypt (o : aes) (data : list Z) (key : option (list Z)) (encrypt : bool) : option (aes * list Z) :=
  match _mode o with
  | CBC => if encrypt then cbc_encrypt_buffer o data 16 key (Some (iv o)) else cbc_decrypt_buffer o data 16 key (Some (iv o))
  | ECB => if encrypt then ebc_encrypt o data key else ebc_decrypt o data key
  end.

(** The output does not overlap the input; in ECB mode it may also be the input
    itself, since every byte is copied to its own place before the rounds. *)
Definition encrypt (o : aes) (data : list Z) (key : option (list Z)) : option (aes * list Z) := crypt o data key true.
Definition decrypt (o : aes) (data : list Z) (key : option (list Z)) : option (aes * list Z) := crypt o data key false.

(** ** The standard (FIPS 197)

    The field is the polynomials over one bit modulo x^8 + x^4 + x^3 + x + 1. *)

(** The product of [a] and the polynomial of the low [n] bits of [b]. *)
Fixpoint gmul (n : nat) (a b : Z) : Z :=
  match n with
  | O => 0
  | S n' =>
      let double := 2 * a in
      let a' := if 256 <=? double then Z.lxor double 0x11b else double in
      Z.lxor (if Z.odd b then a else 0) (gmul n' a' (b / 2))
  end.
Definition times (a b : Z) : Z := gmul 8 a b.

Fixpoint power (n : nat) (a : Z) : Z := match n with O => 1 | S n' => times a (power n' a) end.

(** The product of [b], its square, the square of that, and so on. *)
Fixpoint squares (n : nat) (b : Z) : Z := match n with O => 1 | S n' => times b (squares n' (times b b)) end.

(** The inverse, and 0 for 0: a^254 = a^2 a^4 ... a^128, there being 255 other
    elements. *)
Definition inverse (a : Z) : Z := squares 7 (times a a).

Definition bit (x : Z) (i : nat) : Z := Z.b2z (Z.testbit x (Z.of_nat i)).

(** Section 5.1.1: the inverse, then an affine map on bits. *)
Definition S_box (a : Z) : Z :=
  let b := inverse a in
  foldr (λ i acc, acc + 2 ^ Z.of_nat i *
    foldr Z.lxor (bit 0x63 i) [bit b i; bit b ((i + 4) mod 8); bit b ((i + 5) mod 8); bit b ((i + 6) mod 8); bit b ((i + 7) mod 8)])
    0 (seq 0 8).

(** The state is four columns of four rows: row [r] of column [c]. *)
Definition state_of (f : nat → nat → Z) : list Z := (λ k, f (k mod 4)%nat (k / 4)%nat) <$> seq 0 16.
Definition row (s : list Z) (r c : nat) : Z := s !!! (r + 4 * c)%nat.

Definition SubBytes (s : list Z) : list Z := state_of (λ r c, S_box (row s r c)).
Definition ShiftRows (s : list Z) : list Z := state_of (λ r c, row s r ((c + r) mod 4)).
Definition MixColumns (s : list Z) : list Z := state_of (λ r c,
  foldr Z.lxor 0 ((λ k, times (row s k c) ([2; 3; 1; 1] !!! ((k + 4 - r) mod 4)%nat)) <$> seq 0 4)).
Definition AddRoundKey (w : nat → list Z) (round : nat) (s : list Z) : list Z :=
  state_of (λ r c, Z.lxor (row s r c) (w (4 * round + c)%nat !!! r)).

(** Section 5.2: the words of the key schedule. *)
Fixpoint schedule (n : nat) (key : list Z) : list (list Z) :=
  match n with
  | O => (λ i, take 4 (drop (4 * i) key)) <$> seq 0 4
  | S n' =>
      let w := schedule n' key in
      let i := length w in
      let last := w !!! (i - 1)%nat in
      let temp := if decide (i mod 4 = 0)%nat
        then zip_with Z.lxor (S_box <$> [last !!! 1%nat; last !!! 2%nat; last !!! 3%nat; last !!! 0%nat]) [power (i / 4 - 1) 2; 0; 0; 0]
        else last in
      w ++ [zip_with Z.lxor (w !!! (i - 4)%nat) temp]
  end.
Definition words (key : list Z) (i : nat) : list Z := schedule 40 key !!! i.

(** Section 5.1. *)
Definition Cipher (w : nat → list Z) (s : list Z) : list Z :=
  AddRoundKey w 10 (ShiftRows (SubBytes (
    foldl (λ s round, AddRoundKey w round (MixColumns (ShiftRows (SubBytes s)))) (AddRoundKey w 0 s) (seq 1 9)))).

Definition fips (key data : list Z) : list Z := Cipher (words key) data.

(** ** Bits and bytes *)

Ltac xor_solve := apply Z.bits_inj'; intros ? _; rewrite ?Z.lxor_spec, ?Z.testbit_0_l; btauto.

Definition byte (x : Z) : Prop := 0 ≤ x < 2 ^ 8.
#[export] Instance byte_dec x : Decision (byte x) := _.
Definition is_block (s : list Z) : Prop := length s = 16%nat ∧ Forall byte s.

Lemma u8_lxor x y : u8 (Z.lxor x y) = Z.lxor (u8 x) (u8 y).
Proof. unfold u8. rewrite <- !Z.land_ones by lia. apply Z.bits_inj'. intros n _. rewrite !Z.land_spec, !Z.lxor_spec, !Z.land_spec. btauto. Qed.

Lemma u8_byte x : byte (u8 x).
Proof. apply Z.mod_pos_bound. lia. Qed.

Lemma byte_lxor x y : byte x → byte y → byte (Z.lxor x y).
Proof.
  intros Hx Hy. assert (∀ z, byte z → u8 z = z) as Hu by (intros z Hz; by apply Z.mod_small).
  rewrite <- (Hu x Hx), <- (Hu y Hy), <- u8_lxor. apply u8_byte.
Qed.

(** The product of a bit and a constant is linear in the bit. *)
Lemma land_1_lxor x y c : Z.land (Z.lxor x y) 1 * c = Z.lxor (Z.land x 1 * c) (Z.land y 1 * c).
Proof.
  assert (∀ z, Z.land z 1 = Z.b2z (Z.testbit z 0)) as E by (intros z; change 1 with (Z.ones 1); rewrite Z.land_ones by lia; symmetry; apply Z.bit0_mod).
  rewrite !E, Z.lxor_spec. destruct (Z.testbit x 0), (Z.testbit y 0); cbn [xorb Z.b2z]; rewrite ?Z.mul_1_l, ?Z.mul_0_l; xor_solve.
Qed.

Lemma xtime_lxor x y : xtime (Z.lxor x y) = Z.lxor (xtime x) (xtime y).
Proof. unfold xtime. rewrite Z.shiftl_lxor, Z.shiftr_lxor, land_1_lxor, <- u8_lxor. f_equal. xor_solve. Qed.

Lemma xtime_byte x : byte (xtime x).
Proof. apply u8_byte. Qed.

(** The four constants of the inverse mix, as sums of powers of x. *)
Ltac constant := unfold multiply; repeat match goal with
  |- context [Z.land ?a 1 * _] => let v := eval compute in (Z.land a 1) in change (Z.land a 1) with v end;
  rewrite !Z.mul_0_l, ?Z.mul_1_l; xor_solve.

Lemma multiply_9 x : multiply x 0x09 = Z.lxor x (xtime (xtime (xtime x))).
Proof. constant. Qed.
Lemma multiply_b x : multiply x 0x0b = Z.lxor x (Z.lxor (xtime x) (xtime (xtime (xtime x)))).
Proof. constant. Qed.
Lemma multiply_d x : multiply x 0x0d = Z.lxor x (Z.lxor (xtime (xtime x)) (xtime (xtime (xtime x)))).
Proof. constant. Qed.
Lemma multiply_e x : multiply x 0x0e = Z.lxor (xtime x) (Z.lxor (xtime (xtime x)) (xtime (xtime (xtime x)))).
Proof. constant. Qed.

(** *** Blocks *)

Lemma block_16 (s : list Z) : length s = 16%nat →
  ∃ a b c d e f g h i j k l m n o p, s = [a; b; c; d; e; f; g; h; i; j; k; l; m; n; o; p].
Proof. intros H. do 16 (destruct s as [|? s]; [done|]). destruct s; [|done]. by repeat eexists. Qed.

(** Works on the sixteen bytes one by one. *)
Ltac each_byte s H := destruct (block_16 s H) as (?&?&?&?&?&?&?&?&?&?&?&?&?&?&?&?&->).

Lemma shift_rows_back s : length s = 16%nat → inv_shift_rows (shift_rows s) = s.
Proof. intros H. each_byte s H. reflexivity. Qed.

(** A double loop that gives each entry a new value, in either order. *)
Lemma for44_imap g s : length s = 16%nat → for44 (λ i j s, set i j (g (cell i j) (get s i j)) s) s = imap g s.
Proof. intros H. each_byte s H. reflexivity. Qed.

Lemma for44_imap_transposed g s : length s = 16%nat → for44 (λ i j s, set j i (g (cell j i) (get s j i)) s) s = imap g s.
Proof. intros H. each_byte s H. reflexivity. Qed.

Lemma for44_ext f g s : (∀ i j s, f i j s = g i j s) → for44 f s = for44 g s.
Proof. intros H. unfold for44, for4. by rewrite !H. Qed.

Lemma add_round_key_imap w r s : length s = 16%nat → add_round_key w r s = imap (λ k x, Z.lxor x (w !!! (r * 16 + k)%nat)) s.
Proof.
  intros H. rewrite <- for44_imap by done. apply for44_ext. intros i j s'. unfold Nb, cell.
  by replace (r * 4 * 4 + i * 4 + j)%nat with (r * 16 + (4 * i + j))%nat by lia.
Qed.

Lemma sub_bytes_map s : length s = 16%nat → sub_bytes s = sub <$> s.
Proof. intros H. unfold sub_bytes. rewrite (for44_imap_transposed (λ _, sub)) by done. apply imap_const. Qed.

Lemma inv_sub_bytes_map s : length s = 16%nat → inv_sub_bytes s = rsub <$> s.
Proof. intros H. unfold inv_sub_bytes. rewrite (for44_imap_transposed (λ _, rsub)) by done. apply imap_const. Qed.

(** *** Each step undone *)

Lemma lxor_twice x y : Z.lxor (Z.lxor x y) y = x.
Proof. xor_solve. Qed.

Lemma add_round_key_back w r s : length s = 16%nat → add_round_key w r (add_round_key w r s) = s.
Proof.
  intros H. rewrite !add_round_key_imap; [|done|by rewrite add_round_key_imap, length_imap].
  apply list_eq. intros k. rewrite !list_lookup_imap. destruct (s !! k); cbn; [|done]. by rewrite lxor_twice.
Qed.

Lemma byte_cases (P : Z → Prop) `{∀ x, Decision (P x)} :
  forallb (λ k, bool_decide (P (Z.of_nat k))) (seq 0 256) = true → ∀ x, byte x → P x.
Proof.
  intros Hall x [Hx Hx']. rewrite forallb_forall in Hall.
  specialize (Hall (Z.to_nat x)). rewrite in_seq, Z2Nat.id in Hall by done. apply (bool_decide_unpack _), Is_true_true, Hall. lia.
Qed.

Lemma sub_byte x : byte x → byte (sub x).
Proof. apply (byte_cases (λ x, byte (sub x))). by vm_compute. Qed.

Lemma rsub_byte x : byte x → byte (rsub x).
Proof. apply (byte_cases (λ x, byte (rsub x))). by vm_compute. Qed.

Lemma rsub_sub x : byte x → rsub (sub x) = x.
Proof. apply (byte_cases (λ x, rsub (sub x) = x)). by vm_compute. Qed.

Lemma sub_rsub x : byte x → sub (rsub x) = x.
Proof. apply (byte_cases (λ x, sub (rsub x) = x)). by vm_compute. Qed.

(** One column mixed, and the four sums that undo it. *)
Definition mixed (x y T : Z) : Z := Z.lxor x (Z.lxor (xtime (Z.lxor x y)) T).
Definition unmixed (a b c d : Z) : Z :=
  Z.lxor (Z.lxor (Z.lxor (multiply a 0x0e) (multiply b 0x0b)) (multiply c 0x0d)) (multiply d 0x09).

Definition mix_column (a b c d : Z) : list Z :=
  let T := Z.lxor (Z.lxor (Z.lxor a b) c) d in [mixed a b T; mixed b c T; mixed c d T; mixed d a T].

Lemma unmixed_mixed a b c d T : T = Z.lxor (Z.lxor (Z.lxor a b) c) d →
  unmixed (mixed a b T) (mixed b c T) (mixed c d T) (mixed d a T) = a.
Proof.
  intros ->. unfold unmixed, mixed. rewrite multiply_9, multiply_b, multiply_d, multiply_e, !xtime_lxor. xor_solve.
Qed.

(** The mixes work on one column after the other. *)
Definition on_columns (f : Z → Z → Z → Z → list Z) (s : list Z) : list Z :=
  seq 0 4 ≫= λ i, f (get s i 0) (get s i 1) (get s i 2) (get s i 3).

Lemma mix_columns_each s : length s = 16%nat → mix_columns s = on_columns mix_column s.
Proof. intros H. each_byte s H. reflexivity. Qed.

Lemma xor_turn a b c d : Z.lxor (Z.lxor (Z.lxor a b) c) d = Z.lxor (Z.lxor (Z.lxor b c) d) a.
Proof. xor_solve. Qed.

Lemma inv_mix_columns_each s : length s = 16%nat →
  inv_mix_columns s = on_columns (λ a b c d, [unmixed a b c d; unmixed b c d a; unmixed c d a b; unmixed d a b c]) s.
Proof.
  intros H. each_byte s H. unfold unmixed, on_columns. cbn -[multiply Z.lxor].
  by rewrite !(xor_turn (multiply _ 0x0b)), !(xor_turn (multiply _ 0x0d)), !(xor_turn (multiply _ 0x09)).
Qed.

Lemma mix_columns_back s : length s = 16%nat → inv_mix_columns (mix_columns s) = s.
Proof.
  intros H. rewrite mix_columns_each by done. each_byte s H. rewrite inv_mix_columns_each by done. cbn -[unmixed mixed].
  rewrite !unmixed_mixed by xor_solve. done.
Qed.

(** *** Blocks stay blocks *)

Create HintDb aes discriminated.
#[export] Hint Constants Opaque : aes.

Lemma total_byte w k : Forall byte w → byte (w !!! k).
Proof.
  intros Hw. rewrite list_lookup_total_alt. destruct (w !! k) as [x|] eqn:E; [by eapply Forall_lookup_1|].
  apply (bool_decide_unpack _). by vm_compute.
Qed.

Lemma add_round_key_block w r s : Forall byte w → is_block s → is_block (add_round_key w r s).
Proof.
  intros Hw [H Hs]. rewrite add_round_key_imap by done. split; [by rewrite length_imap|].
  apply Forall_lookup. intros k x. rewrite list_lookup_imap. intros (y & Ey & ->)%fmap_Some.
  apply byte_lxor; [by eapply Forall_lookup_1|by apply total_byte].
Qed.

Lemma sub_bytes_block s : is_block s → is_block (sub_bytes s).
Proof.
  intros [H Hs]. rewrite sub_bytes_map by done. split; [by rewrite length_fmap|].
  apply Forall_fmap. eapply Forall_impl; [exact Hs|exact sub_byte].
Qed.

Lemma inv_sub_bytes_block s : is_block s → is_block (inv_sub_bytes s).
Proof.
  intros [H Hs]. rewrite inv_sub_bytes_map by done. split; [by rewrite length_fmap|].
  apply Forall_fmap. eapply Forall_impl; [exact Hs|exact rsub_byte].
Qed.


Lemma shift_rows_block s : is_block s → is_block (shift_rows s).
Proof.
  intros [H Hs]. each_byte s H. split; [done|]. cbn. rewrite !Forall_cons in *. tauto.
Qed.

Lemma inv_shift_rows_block s : is_block s → is_block (inv_shift_rows s).
Proof.
  intros [H Hs]. each_byte s H. split; [done|]. cbn. rewrite !Forall_cons in *. tauto.
Qed.

Lemma mixed_byte x y T : byte x → byte T → byte (mixed x y T).
Proof. intros. apply byte_lxor; [done|]. apply byte_lxor; [apply xtime_byte|done]. Qed.

Lemma unmixed_byte a b c d : byte a → byte b → byte c → byte d → byte (unmixed a b c d).
Proof.
  intros. unfold unmixed. rewrite multiply_9, multiply_b, multiply_d, multiply_e.
  repeat apply byte_lxor; first [done|apply xtime_byte].
Qed.

Lemma on_columns_block f s :
  (∀ a b c d, byte a → byte b → byte c → byte d → length (f a b c d) = 4%nat ∧ Forall byte (f a b c d)) →
  is_block s → is_block (on_columns f s).
Proof.
  intros Hf [H Hs]. assert (∀ k, byte (s !!! k)) as Hk by (intros k; by apply total_byte).
  unfold on_columns, get. cbn [seq mbind list_bind]. split.
  - rewrite !length_app. by rewrite !(proj1 (Hf _ _ _ _ (Hk _) (Hk _) (Hk _) (Hk _))).
  - rewrite !Forall_app. by repeat split; [apply (Hf _ _ _ _ (Hk _) (Hk _) (Hk _) (Hk _))..|].
Qed.

Lemma mix_columns_block s : is_block s → is_block (mix_columns s).
Proof.
  intros Hs. rewrite mix_columns_each by apply Hs. apply on_columns_block; [|done]. intros a b c d Ha Hb Hc Hd.
  split; [done|]. assert (byte (Z.lxor (Z.lxor (Z.lxor a b) c) d)) by (by repeat apply byte_lxor).
  by repeat first [apply Forall_cons; split|apply mixed_byte].
Qed.

Lemma inv_mix_columns_block s : is_block s → is_block (inv_mix_columns s).
Proof.
  intros Hs. rewrite inv_mix_columns_each by apply Hs. apply on_columns_block; [|done]. intros a b c d Ha Hb Hc Hd.
  split; [done|]. by repeat first [apply Forall_cons; split|apply unmixed_byte].
Qed.

#[export] Hint Resolve add_round_key_block sub_bytes_block inv_sub_bytes_block shift_rows_block inv_shift_rows_block
  mix_columns_block inv_mix_columns_block : aes.

Lemma inv_sub_shift s : is_block s → inv_sub_bytes (inv_shift_rows (shift_rows (sub_bytes s))) = s.
Proof.
  intros Hs. rewrite shift_rows_back by apply (sub_bytes_block _ Hs). destruct Hs as [H Hs].
  rewrite inv_sub_bytes_map, sub_bytes_map by (rewrite ?sub_bytes_map; by rewrite ?length_fmap).
  rewrite <- list_fmap_compose. rewrite <- (list_fmap_id s) at 2. apply list_fmap_ext. intros k x Hk. apply rsub_sub. by eapply Forall_lookup_1.
Qed.

(** *** The ciphers *)

Section rounds.
Context (f g : nat → list Z → list Z) (P : list Z → Prop).
Context (HP : ∀ r s, P s → P (f r s)).

Lemma rounds_inv n r s : P s → P (rounds f n r s).
Proof using HP. revert r s; induction n as [|n IH]; intros r s Hs; [done|]. by apply IH, HP. Qed.

Lemma rounds_last n r s : rounds f (S n) r s = f (r + n)%nat (rounds f n r s).
Proof.
  revert r s; induction n as [|n IH]; intros r s; [cbn; by rewrite Nat.add_0_r|].
  change (rounds f (S (S n)) r s) with (rounds f (S n) (S r) (f r s)). rewrite IH. cbn [rounds]. by rewrite Nat.add_succ_comm.
Qed.

(** What the rounds [g] undo of the rounds [f], seen through [h]. *)
Lemma rounds_undone (h : list Z → list Z) n s :
  (∀ r s, P s → g (S r) (h (f (S r) s)) = h s) → P s → inv_rounds g n (h (rounds f n 1 s)) = h s.
Proof using HP.
  intros Hg Hs. induction n as [|n IH]; [done|]. cbn [inv_rounds]. rewrite rounds_last. cbn [Nat.add].
  by rewrite Hg by by apply rounds_inv.
Qed.
End rounds.

Section round_key.
Context (w : list Z) (Hw : Forall byte w).

Lemma cipher_round_block r s : is_block s → is_block (cipher_round w r s).
Proof using Hw. intros Hs. unfold cipher_round. auto 6 with aes. Qed.

Lemma cipher_round_undone r s : is_block s →
  inv_cipher_round w r (shift_rows (sub_bytes (cipher_round w r s))) = shift_rows (sub_bytes s).
Proof using Hw.
  intros Hs. unfold inv_cipher_round. rewrite inv_sub_shift by by apply cipher_round_block. unfold cipher_round.
  assert (is_block (shift_rows (sub_bytes s))) as Hb by auto with aes.
  rewrite add_round_key_back by apply (mix_columns_block _ Hb). apply mix_columns_back, Hb.
Qed.

Lemma cipher_block s : is_block s → is_block (cipher w s).
Proof using Hw.
  intros Hs. unfold cipher. apply add_round_key_block, shift_rows_block, sub_bytes_block, rounds_inv;
    [done|exact cipher_round_block|by apply add_round_key_block].
Qed.

Lemma inv_rounds_inv (g : nat → list Z → list Z) (P : list Z → Prop) n s : (∀ r s, P s → P (g r s)) → P s → P (inv_rounds g n s).
Proof. intros Hg. revert s; induction n as [|n IH]; intros s Hs; [done|]. by apply IH, Hg. Qed.

Lemma inv_cipher_block s : is_block s → is_block (inv_cipher w s).
Proof using Hw.
  intros Hs. unfold inv_cipher. apply add_round_key_block, inv_sub_bytes_block, inv_shift_rows_block, inv_rounds_inv;
    [done| |by apply add_round_key_block].
  intros r t Ht. unfold inv_cipher_round. auto 6 with aes.
Qed.

Lemma inv_cipher_cipher s : is_block s → inv_cipher w (cipher w s) = s.
Proof using Hw.
  intros Hs. assert (is_block (add_round_key w 0 s)) as H0 by by apply add_round_key_block.
  pose proof (rounds_inv _ is_block cipher_round_block (Nr - 1) 1 _ H0) as H1.
  unfold inv_cipher, cipher. rewrite add_round_key_back by (by apply shift_rows_block, sub_bytes_block).
  rewrite (rounds_undone (cipher_round w) (inv_cipher_round w) is_block cipher_round_block (λ s, shift_rows (sub_bytes s)));
    [|intros r; apply cipher_round_undone|done].
  rewrite inv_sub_shift by done. apply add_round_key_back, Hs.
Qed.
End round_key.

(** *** The tables and steps are the standard's *)

Lemma sub_S_box x : byte x → sub x = S_box x.
Proof. apply (byte_cases (λ x, sub x = S_box x)). by vm_compute. Qed.

Lemma times_1 x : byte x → times x 1 = x.
Proof. apply (byte_cases (λ x, times x 1 = x)). by vm_compute. Qed.

Lemma times_2 x : byte x → times x 2 = xtime x.
Proof. apply (byte_cases (λ x, times x 2 = xtime x)). by vm_compute. Qed.

Lemma times_3 x : byte x → times x 3 = Z.lxor (xtime x) x.
Proof. apply (byte_cases (λ x, times x 3 = Z.lxor (xtime x) x)). by vm_compute. Qed.

Lemma rcon_power k : (1 ≤ k ≤ 10)%nat → rcon !!! k = power (k - 1) 2.
Proof. intros H. do 11 (destruct k as [|k]; [first [by vm_compute|lia]|]). lia. Qed.

Lemma sub_bytes_fips s : is_block s → sub_bytes s = SubBytes s.
Proof.
  intros [H Hs]. rewrite sub_bytes_map by done. assert (sub <$> s = S_box <$> s) as ->.
  { apply list_fmap_ext. intros k x Hk. apply sub_S_box. by eapply Forall_lookup_1. }
  each_byte s H. reflexivity.
Qed.

Lemma shift_rows_fips s : length s = 16%nat → shift_rows s = ShiftRows s.
Proof. intros H. each_byte s H. reflexivity. Qed.

Definition MixColumn (a b c d : Z) : list Z :=
  (λ r, foldr Z.lxor 0 ((λ k, times ([a; b; c; d] !!! k) ([2; 3; 1; 1] !!! ((k + 4 - r) mod 4)%nat)) <$> seq 0 4)) <$> seq 0 4.

Lemma mix_column_fips a b c d : byte a → byte b → byte c → byte d → mix_column a b c d = MixColumn a b c d.
Proof.
  intros. unfold mix_column, mixed, MixColumn. cbn -[times Z.lxor xtime]. rewrite !times_1, !times_2, !times_3, !xtime_lxor by done.
  f_equal; [xor_solve|]. f_equal; [xor_solve|]. f_equal; [xor_solve|]. f_equal. xor_solve.
Qed.

Lemma mix_columns_fips s : is_block s → mix_columns s = MixColumns s.
Proof.
  intros [H Hs]. rewrite mix_columns_each by done. each_byte s H. rewrite !Forall_cons in Hs. destruct_and! Hs.
  transitivity (on_columns MixColumn [x; x0; x1; x2; x3; x4; x5; x6; x7; x8; x9; x10; x11; x12; x13; x14]); [|reflexivity].
  unfold on_columns. cbn [seq mbind list_bind]. by rewrite !mix_column_fips.
Qed.

(** *** The key schedule *)

Definition is_word (w : list Z) : Prop := length w = 4%nat ∧ Forall byte w.

Lemma word_at ws i : Forall is_word ws → (i < length ws)%nat → take 4 (drop (i * 4) (concat ws)) = ws !!! i.
Proof.
  intros Hws. revert i; induction Hws as [|w ws [Hw _] _ IH]; intros i Hi; cbn [length] in Hi; [lia|].
  cbn [concat]. destruct i as [|i]; [by rewrite Nat.mul_0_l, drop_0, take_app_le, take_ge by lia|].
  replace (S i * 4)%nat with (length w + i * 4)%nat by lia. rewrite drop_app_add. cbn. apply IH. lia.
Qed.

Lemma length_words ws : Forall is_word ws → length (concat ws) = (4 * length ws)%nat.
Proof. induction 1 as [|w ws [Hw _] _ IH]; [done|]. cbn [concat length]. rewrite length_app. lia. Qed.

Lemma word_total ws i : Forall is_word ws → (i < length ws)%nat → is_word (ws !!! i).
Proof. intros Hws Hi. destruct (lookup_lt_is_Some_2 ws i Hi) as [w Hw]. rewrite (list_lookup_total_correct _ _ _ Hw). by eapply Forall_lookup_1. Qed.

Lemma word_4 w : is_word w → ∃ a b c d, w = [a; b; c; d] ∧ byte a ∧ byte b ∧ byte c ∧ byte d.
Proof.
  intros [H Hw]. destruct w as [|a [|b [|c [|d [|? ?]]]]]; try done. exists a, b, c, d. rewrite !Forall_cons in Hw. tauto.
Qed.

Lemma word_intro a b c d : byte a → byte b → byte c → byte d → is_word [a; b; c; d].
Proof. intros. split; [done|]. by rewrite !Forall_cons. Qed.

Lemma word_lxor v w : is_word v → is_word w → is_word (zip_with Z.lxor v w).
Proof.
  intros (a & b & c & d & -> & ?)%word_4 (a' & b' & c' & d' & -> & ?)%word_4. split; [done|]. destruct_and!.
  cbn. rewrite !Forall_cons. by repeat split; try apply byte_lxor.
Qed.

Lemma next_word_fips ws : Forall is_word ws → (4 ≤ length ws < 44)%nat →
  is_word (next_word (length ws) (concat ws)) ∧
  next_word (length ws) (concat ws) = zip_with Z.lxor (ws !!! (length ws - 4)%nat)
    (let last := ws !!! (length ws - 1)%nat in
     if decide (length ws mod 4 = 0)%nat then
       zip_with Z.lxor (S_box <$> [last !!! 1%nat; last !!! 2%nat; last !!! 3%nat; last !!! 0%nat]) [power (length ws / 4 - 1) 2; 0; 0; 0]
     else last).
Proof.
  intros Hws Hl. unfold next_word, Nk. rewrite !word_at by (done || lia). cbv zeta.
  destruct (word_total ws (length ws - 4) Hws ltac:(lia)) as [Hf Hfb].
  destruct (word_4 _ (word_total ws (length ws - 1) Hws ltac:(lia))) as (a & b & c & d & -> & ? & ? & ? & ?).
  assert (1 ≤ length ws / 4 ≤ 10)%nat as Hr.
  { split; [apply Nat.div_le_lower_bound; lia|]. apply Nat.lt_succ_r, Nat.Div0.div_lt_upper_bound. lia. }
  case_decide as Hm.
  - rewrite rcon_power by done. cbn -[sub S_box power Nat.div Nat.sub zip_with].
    rewrite !sub_S_box by done. split; [|done]. apply word_lxor; [done|]. split; [done|].
    cbn [zip_with]. rewrite <- !sub_S_box by done. rewrite !Z.lxor_0_r.
    assert (byte (power (length ws / 4 - 1) 2)).
    { rewrite <- rcon_power by done. apply total_byte.
      apply (bool_decide_unpack _). by vm_compute. }
    repeat (apply Forall_cons; split); try apply byte_lxor; by try apply sub_byte.
  - rewrite decide_False by lia. split; [|done]. apply word_lxor; [done|]. split; [done|]. by repeat (apply Forall_cons; split).
Qed.

Lemma expand_loop_last n i rk : expand_loop (S n) i rk = let r := expand_loop n i rk in r ++ next_word (i + n) r.
Proof.
  revert i rk; induction n as [|n IH]; intros i rk; [cbn [expand_loop]; by rewrite Nat.add_0_r|].
  change (expand_loop (S (S n)) i rk) with (expand_loop (S n) (S i) (rk ++ next_word i rk)). rewrite IH.
  by rewrite Nat.add_succ_comm.
Qed.

Lemma expand_fips key n : is_block key → (n ≤ 40)%nat →
  length (schedule n key) = (4 + n)%nat ∧ Forall is_word (schedule n key) ∧
  expand_loop n 4 (take 16 key) = concat (schedule n key).
Proof.
  intros Hk Hn. induction n as [|n IH].
  - destruct Hk as [H Hk]. each_byte key H. rewrite !Forall_cons in Hk. split; [done|]. split; [|done].
    destruct_and! Hk. cbn. repeat (apply Forall_cons; split); [by apply word_intro..|done].
  - destruct IH as (Hl & Hw & E); [lia|]. rewrite expand_loop_last, E. cbv zeta. rewrite <- Hl.
    destruct (next_word_fips (schedule n key) Hw ltac:(lia)) as [Hnw En].
    cbn [schedule]. cbv zeta. cbv zeta in En. rewrite <- En. split; [rewrite length_app, Hl; cbn; lia|]. split.
    + apply Forall_app. by split; [|constructor].
    + rewrite concat_app. cbn [concat]. by rewrite app_nil_r.
Qed.

Lemma expand_key_bytes key : is_block key → Forall byte (expand_key key).
Proof.
  intros Hk. destruct (expand_fips key 40 Hk ltac:(lia)) as (_ & Hw & E).
  change (expand_key key) with (expand_loop 40 4 (take 16 key)). rewrite E. clear E.
  induction Hw as [|w ws [_ Hb] _ IH]; [constructor|]. by apply Forall_app.
Qed.

(** *** The cipher is the standard's *)

Lemma byte_at ws i b : Forall is_word ws → (i < length ws)%nat → (b < 4)%nat → concat ws !!! (i * 4 + b)%nat = (ws !!! i) !!! b.
Proof.
  intros Hws Hi Hb. rewrite <- (word_at ws i) by done. by rewrite lookup_total_take_lt, lookup_total_drop.
Qed.

Lemma round_key_at key r k : is_block key → (r ≤ 10)%nat → (k < 16)%nat →
  expand_key key !!! (r * 16 + k)%nat = words key (4 * r + k / 4) !!! (k mod 4)%nat.
Proof.
  intros Hk Hr Hk'. destruct (expand_fips key 40 Hk ltac:(lia)) as (Hl & Hw & E).
  change (expand_key key) with (expand_loop 40 4 (take 16 key)). rewrite E. unfold words.
  pose proof (Nat.div_mod_eq k 4). pose proof (Nat.mod_upper_bound k 4 ltac:(lia)).
  replace (r * 16 + k)%nat with ((4 * r + k / 4) * 4 + k mod 4)%nat by lia. apply byte_at; [done|lia|lia].
Qed.

Lemma add_round_key_fips key r s : is_block key → length s = 16%nat → (r ≤ 10)%nat →
  add_round_key (expand_key key) r s = AddRoundKey (words key) r s.
Proof.
  intros Hk H Hr. rewrite add_round_key_imap by done.
  transitivity (imap (λ k x, Z.lxor x (words key (4 * r + k / 4)%nat !!! (k mod 4)%nat)) s).
  - apply imap_ext. intros k x Hx. cbn beta. apply lookup_lt_Some in Hx. rewrite round_key_at by (done || lia). done.
  - each_byte s H. reflexivity.
Qed.

Lemma rounds_foldl (P : list Z → Prop) f g n r s m :
  (∀ r s, (r ≤ m)%nat → P s → P (f r s) ∧ f r s = g s r) → P s → (r + n ≤ S m)%nat → rounds f n r s = foldl g s (seq r n).
Proof.
  intros H. revert r s; induction n as [|n IH]; intros r s Hs Hn; [done|]. cbn [rounds seq foldl].
  destruct (H r s) as [HP <-]; [lia|done|]. apply IH; [done|lia].
Qed.

Definition fips_round (key s : list Z) (round : nat) : list Z :=
  AddRoundKey (words key) round (MixColumns (ShiftRows (SubBytes s))).

Lemma cipher_round_fips key r s : is_block key → is_block s → (r ≤ 10)%nat → cipher_round (expand_key key) r s = fips_round key s r.
Proof.
  intros Hk Hs Hr. assert (is_block (shift_rows (sub_bytes s))) as Hst by auto with aes. unfold cipher_round, fips_round.
  rewrite (add_round_key_fips key r _ Hk (proj1 (mix_columns_block _ Hst)) Hr), (mix_columns_fips _ Hst).
  by rewrite (shift_rows_fips _ (proj1 (sub_bytes_block _ Hs))), (sub_bytes_fips _ Hs).
Qed.

Lemma cipher_fips key s : is_block key → is_block s → cipher (expand_key key) s = fips key s.
Proof.
  intros Hk Hs. pose proof (expand_key_bytes key Hk) as Hb.
  pose proof (add_round_key_block _ 0 _ Hb Hs) as H0.
  pose proof (rounds_inv (cipher_round (expand_key key)) is_block (cipher_round_block _ Hb) 9 1 _ H0) as H1.
  pose proof (rounds_foldl is_block (cipher_round (expand_key key)) (fips_round key) 9 1 _ 10
    (λ r t Hr Ht, conj (cipher_round_block _ Hb r t Ht) (cipher_round_fips key r t Hk Ht Hr)) H0 ltac:(lia)) as E.
  unfold cipher, Nr. change (10 - 1)%nat with 9%nat. set (t := rounds _ 9 1 _) in *.
  assert (is_block (shift_rows (sub_bytes t))) as Ht by auto with aes.
  rewrite (add_round_key_fips key 10 _ Hk (proj1 Ht) ltac:(lia)), (shift_rows_fips _ (proj1 (sub_bytes_block _ H1))), (sub_bytes_fips _ H1), E.
  by rewrite (add_round_key_fips key 0 _ Hk (proj1 Hs) ltac:(lia)).
Qed.

(** *** Buffers *)

Lemma length_xor_iv iv b : (16 ≤ length iv)%nat → length b = 16%nat → length (xor_with_iv iv b) = 16%nat.
Proof. intros. unfold xor_with_iv. rewrite length_zip_with. lia. Qed.

Lemma xor_iv_block iv b : (16 ≤ length iv)%nat → Forall byte iv → is_block b → is_block (xor_with_iv iv b).
Proof.
  intros Hl Hv [H Hb]. split; [by apply length_xor_iv|]. apply Forall_lookup. intros k x. unfold xor_with_iv.
  rewrite lookup_zip_with_Some. intros (y & z & -> & Ey & Ez). apply byte_lxor; [exact (Forall_lookup_1 _ _ _ _ Hb Ey)|exact (Forall_lookup_1 _ _ _ _ Hv Ez)].
Qed.

Lemma xor_iv_twice iv b : (16 ≤ length iv)%nat → length b = 16%nat → xor_with_iv iv (xor_with_iv iv b) = b.
Proof.
  intros Hl H. apply list_eq_same_length with (n := 16%nat); [done|by apply length_xor_iv, length_xor_iv|].
  intros k x y Hk. unfold xor_with_iv. rewrite lookup_zip_with_Some. intros (a & v & -> & Ha & Ev) Ey.
  apply lookup_zip_with_Some in Ha as (a' & v' & -> & Ea & Ev'). simplify_eq. apply lxor_twice.
Qed.

Lemma xor_iv_zeros b : length b = 16%nat → xor_with_iv (replicate 23 0) b = b.
Proof. intros H. each_byte b H. cbn -[Z.lxor]. by rewrite !Z.lxor_0_r. Qed.

Lemma block_take input : (16 ≤ length input)%nat → block input = Some (take 16 input).
Proof. intros. unfold block. by rewrite decide_True. Qed.

Lemma take_block n (l : list Z) : (n ≤ length l)%nat → length (take n l) = n.
Proof. intros. rewrite length_take. lia. Qed.

Section cbc.
Context (key : list Z) (Hkey : is_block key).
Abbreviation w := (expand_key key).

(** Blocks decrypted one after the other are the blocks encrypted, whatever
    the block the chain starts with. *)
Lemma cbc_chain n fuel fuel' v input :
  (16 ≤ length v)%nat → Forall byte v → Forall byte input → (16 * n ≤ length input)%nat → (n ≤ fuel)%nat → (n ≤ fuel')%nat →
  ∃ out v', encrypt_loop fuel w v input (16 * Z.of_nat n) = Some (out, v') ∧ length out = (16 * n)%nat ∧ Forall byte out ∧
    (n ≠ 0%nat → take 16 out = cipher w (xor_with_iv v (take 16 input))) ∧
    ∃ v'', decrypt_loop fuel' w v out (16 * Z.of_nat n) = Some (take (16 * n) input, v'', []).
Proof using Hkey.
  pose proof (expand_key_bytes key Hkey) as Hw.
  revert fuel fuel' v input; induction n as [|n IH]; intros fuel fuel' v input Hv Hvb Hb Hl Hf Hf'.
  - exists [], v. split; [by destruct fuel|]. split; [done|]. split; [done|]. split; [done|]. exists v. by destruct fuel'.
  - destruct fuel as [|fuel], fuel' as [|fuel']; [lia..|]. cbn [encrypt_loop decrypt_loop]. unfold KEY_SIZE.
    rewrite (proj2 (Z.leb_gt _ _)) by lia. rewrite (proj2 (Z.ltb_ge _ _)) by lia.
    rewrite block_take by lia. cbn [mbind option_bind].
    assert (is_block (take 16 input)) as Hin by (split; [apply take_block; lia|by apply Forall_take]).
    assert (is_block (xor_with_iv v (take 16 input))) as Hx by by apply xor_iv_block.
    pose proof (cipher_block w Hw _ Hx) as Hc. set (c := cipher w _) in *.
    replace (16 * Z.of_nat (S n) - Z.of_nat 16) with (16 * Z.of_nat n) by lia.
    destruct (IH fuel fuel' c (drop 16 input)) as (out & v' & E & Ho & Hob & _ & v'' & Ed);
      [destruct Hc; lia|apply Hc|by apply Forall_drop|rewrite length_drop; lia|lia|lia|].
    exists (c ++ out), v'. rewrite E. cbn [mbind option_bind]. split; [done|]. destruct Hc as [Hcl Hcb].
    split; [rewrite length_app; lia|]. split; [by apply Forall_app|]. split; [intros _; by apply take_app_length'|]. exists v''.
    rewrite block_take by (rewrite length_app; lia). cbn [mbind option_bind].
    rewrite (take_app_length' c out 16), (drop_app_length' c out 16) by done. rewrite Ed. cbn [mbind option_bind].
    f_equal. f_equal. f_equal. unfold c. rewrite inv_cipher_cipher by done. rewrite xor_iv_twice by (done || apply Hin).
    replace (16 * S n)%nat with (16 + 16 * n)%nat by lia. by rewrite <- take_take_drop.
Qed.

Lemma cbc_encrypt_blocks o v n input :
  (0 < n)%nat → (16 ≤ length v)%nat → Forall byte v → Forall byte input → (16 * n ≤ length input)%nat →
  ∃ o' out, cbc_encrypt_buffer o input (16 * Z.of_nat n) (Some key) (Some v) = Some (o', out) ∧
    _mode o' = _mode o ∧ iv o' = iv o ∧ length out = (16 * n)%nat ∧ Forall byte out ∧
    take 16 out = cipher w (xor_with_iv v (take 16 input)) ∧
    ∀ o2, ∃ o2', cbc_decrypt_buffer o2 out (16 * Z.of_nat n) (Some key) (Some v) = Some (o2', take (16 * n) input) ∧
      _mode o2' = _mode o2 ∧ iv o2' = iv o2.
Proof using Hkey.
  intros Hn Hv Hvb Hb Hl.
  destruct (cbc_chain n (Z.to_nat (16 * Z.of_nat n)) (Z.to_nat (16 * Z.of_nat n)) v input) as (out & v' & E & Ho & Hob & Hf & v'' & Ed); [done..|lia|lia|].
  assert (remainders (16 * Z.of_nat n) = 0) as Hr.
  { unfold remainders, KEY_SIZE. change (Z.of_nat 16) with 16. rewrite Z.mul_comm. apply Z.mod_mul. lia. }
  eexists _, out. unfold cbc_encrypt_buffer. rewrite (block_take input) by lia. cbn [mbind option_bind set_key set_iv with_iv with_round_key _round_key _iv].
  rewrite E. cbn [mbind option_bind]. rewrite decide_True by done. rewrite decide_False by (intros ->; cbn in Ho; lia).
  split; [done|]. split; [done|]. split; [done|]. split; [done|]. split; [done|]. split; [apply Hf; lia|]. intros o2. eexists.
  unfold cbc_decrypt_buffer. rewrite block_take by lia. cbn [mbind option_bind set_key set_iv with_iv with_round_key _round_key _iv].
  rewrite Ed. cbn [mbind option_bind]. rewrite decide_True by done. rewrite decide_False; [done|].
  intros Ht%(f_equal length). rewrite take_block in Ht by done. cbn in Ht. lia.
Qed.
End cbc.

(** ** Properties *)

Lemma inverse_correct a : byte a → a ≠ 0 → times a (inverse a) = 1.
Proof.
  intros Ha. assert (a = 0 ∨ times a (inverse a) = 1); [|tauto]. revert a Ha.
  apply (byte_cases (λ a, a = 0 ∨ times a (inverse a) = 1)). by vm_compute.
Qed.

(** What the constructor makes of [iv], and no method changes. *)
Definition constructed (o : aes) : Prop := iv o = replicate 23 0.

(** Either mode encrypts the one block it is given on its own, and its inverse
    takes it back. *)
Lemma crypt_block o key data : constructed o → is_block key → is_block data →
  ∃ o' c, encrypt o data (Some key) = Some (o', c) ∧ constructed o' ∧ c = fips key data ∧ is_block c ∧
    ∀ o2, constructed o2 → _mode o2 = _mode o → ∃ o2', decrypt o2 c (Some key) = Some (o2', data) ∧ constructed o2'.
Proof.
  intros Ho Hk Hd. pose proof (expand_key_bytes key Hk) as Hw. pose proof (cipher_block _ Hw _ Hd) as Hc.
  assert (∀ b, is_block b → block b = Some b) as Hb by (intros b [Hl _]; rewrite block_take, take_ge by lia; done).
  rewrite <- cipher_fips by done. unfold encrypt, decrypt, crypt. destruct (_mode o) eqn:Em.
  - eexists _, _. unfold ebc_encrypt. rewrite (Hb data Hd). cbn [mbind option_bind _round_key with_round_key].
    split; [done|]. split; [done|]. split; [done|]. split; [done|]. intros o2 Ho2 ->. eexists. unfold ebc_decrypt.
    rewrite (Hb _ Hc). cbn [mbind option_bind _round_key with_round_key]. by rewrite inv_cipher_cipher.
  - rewrite Ho. destruct (cbc_encrypt_blocks key Hk o (replicate 23 0) 1 data) as (o' & c & E & _ & Hi & Hl & Hcb & Hf & Hback);
      [lia|rewrite length_replicate; lia|by apply Forall_replicate|apply Hd|destruct Hd; lia|].
    destruct Hd as [Hdl Hd]. rewrite !take_ge, xor_iv_zeros in Hf by lia. subst c. exists o', (cipher (expand_key key) data).
    split; [exact E|]. split; [unfold constructed; by rewrite Hi|]. split; [done|]. split; [done|]. intros o2 Ho2 ->. rewrite Ho2.
    destruct (Hback o2) as (o2' & Ed & _ & Hi2). rewrite take_ge in Ed by lia. exists o2'. split; [exact Ed|]. unfold constructed. by rewrite Hi2.
Qed.

Lemma decrypt_block o key c : _mode o = ECB → is_block key → is_block c →
  ∃ o' d, decrypt o c (Some key) = Some (o', d) ∧ is_block d.
Proof.
  intros Em Hk Hc. unfold decrypt, crypt, ebc_decrypt. rewrite Em, block_take, take_ge by (destruct Hc; lia). cbn [mbind option_bind].
  eexists _, _. split; [done|]. apply inv_cipher_block; [by apply expand_key_bytes|done].
Qed.

(** C16 Advanced Encryption Standard: for every 16-byte key and block, and in
    either mode, [encrypt] gives what the standard's definition over the
    field gives, although the code uses tables, unrolled rotations and
    [xtime]; since every call chains from zeros, CBC encrypts each block as
    ECB does. *)
Theorem encrypt_is_fips o key data : constructed o → is_block key → is_block data →
  ∃ o', encrypt o data (Some key) = Some (o', fips key data) ∧ constructed o'.
Proof. intros Ho Hk Hd. destruct (crypt_block o key data Ho Hk Hd) as (o' & c & E & Ho' & -> & _). by exists o'. Qed.

(** C17 Encryption is undone: whatever two objects of the class did before,
    one decrypts what the other encrypted with the same key in the same
    mode; what is sent between them is again a block of bytes. *)
Theorem decrypt_encrypt o1 o2 key data :
  constructed o1 → constructed o2 → _mode o1 = _mode o2 → is_block key → is_block data →
  ∃ o1' c o2', encrypt o1 data (Some key) = Some (o1', c) ∧ is_block c ∧ decrypt o2 c (Some key) = Some (o2', data).
Proof.
  intros H1 H2 Em Hk Hd. destruct (crypt_block o1 key data H1 Hk Hd) as (o1' & c & E & _ & _ & Hc & Hback).
  destruct (Hback o2 H2 (eq_sym Em)) as (o2' & Ed & _). by exists o1', c, o2'.
Qed.

(** Chained blocks: any number of whole blocks, from any first block of the
    chain, are decrypted to what they were. *)
Theorem cbc_round_trip o o2 key v n input :
  is_block key → (0 < n)%nat → (16 ≤ length v)%nat → Forall byte v → Forall byte input → length input = (16 * n)%nat →
  ∃ o' out o2', cbc_encrypt_buffer o input (16 * Z.of_nat n) (Some key) (Some v) = Some (o', out) ∧ length out = length input ∧
    cbc_decrypt_buffer o2 out (16 * Z.of_nat n) (Some key) (Some v) = Some (o2', input).
Proof.
  intros Hk Hn Hv Hvb Hb Hl.
  destruct (cbc_encrypt_blocks key Hk o v n input) as (o' & out & E & _ & _ & Ho & _ & _ & Hback); [done..|lia|].
  destruct (Hback o2) as (o2' & Ed & _). rewrite take_ge in Ed by lia. exists o', out, o2'. by rewrite Hl.
Qed.

(** ** Witnesses: the example of the standard's appendix C.1 *)

Definition key_c1 : list Z := Z.of_nat <$> seq 0 16.
Definition plain_c1 : list Z := (λ i, 17 * Z.of_nat i) <$> seq 0 16.
Definition cipher_c1 : list Z :=
  [0x69; 0xc4; 0xe0; 0xd8; 0x6a; 0x7b; 0x04; 0x30; 0xd8; 0xcd; 0xb7; 0x80; 0x70; 0xb4; 0xc5; 0x5a].

Lemma key_c1_block : is_block key_c1.
Proof. split; [done|]. apply (bool_decide_unpack _). by vm_compute. Qed.
Lemma plain_c1_block : is_block plain_c1.
Proof. split; [done|]. apply (bool_decide_unpack _). by vm_compute. Qed.

Example encrypt_c1 m : snd <$> encrypt (SWAES m [] []) plain_c1 (Some key_c1) = Some cipher_c1.
Proof. by destruct m; vm_compute. Qed.

Example encrypt_is_fips_witness : fips key_c1 plain_c1 = cipher_c1.
Proof.
  destruct (encrypt_is_fips (SWAES CBC [] []) key_c1 plain_c1 eq_refl key_c1_block plain_c1_block) as (o' & E & _).
  pose proof (encrypt_c1 CBC) as E'. rewrite E in E'. revert E'. generalize (fips key_c1 plain_c1). intros c E'. by injection E'.
Defined.

Example decrypt_encrypt_witness : ∃ o1 c o2,
  encrypt (SWAES ECB [] []) plain_c1 (Some key_c1) = Some (o1, c) ∧ is_block c ∧ decrypt (SWAES ECB [1] [2]) c (Some key_c1) = Some (o2, plain_c1).
Proof. apply (decrypt_encrypt _ _ key_c1 plain_c1); [done..|exact key_c1_block|exact plain_c1_block]. Defined.
