(* ===== verification/Poly1305.v ===== *)
(** * Poly1305-AES (include/utility/poly1305.h)

    Class [Poly1305<Cipher>] over [Bignum<17>], the numbers modulo 2^130 - 5.
    The class looks at the digits of a number as bytes, and writes some; a
    buffer is the list of its bytes.  [Block_Cipher] is what the template's
    parameter must offer, and the software AES of Aes.v offers it.  [None] is
    a message shorter than the length given, or a cipher that fails. *)

From stdpp Require Import prelude.
From S2P Require Import Prelude PyStr Digits Aes Bignum.

(** ** What a cipher must offer

    [encrypt(data, key, result)] on a new object, and its promise: a block of
    16 bytes for a block and a key. *)

Class Block_Cipher := cipher_encrypt : list Z → list Z → option (list Z).

Class Block_Cipher_Laws (C : Block_Cipher) :=
  cipher_total data key : is_block data → is_block key → ∃ c, cipher_encrypt data key = Some c ∧ is_block c.

(** And, for who must read again what was encrypted, [decrypt(data, key, result)]. *)
Class Deciphers (C : Block_Cipher) := cipher_decrypt : list Z → list Z → option (list Z).

Class Deciphers_Laws (C : Block_Cipher) (D : Deciphers C) := {
  decrypt_total c key : is_block c → is_block key → ∃ d, cipher_decrypt c key = Some d ∧ is_block d;
  decrypt_inverts data key c : is_block data → is_block key → cipher_encrypt data key = Some c → cipher_decrypt c key = Some data
}.

(** A local object of class [SWAES<16>], in the mode its constructor gives. *)
#[export] Instance AES : Block_Cipher := λ data key, snd <$> Aes.encrypt (SWAES ECB [] []) data (Some key).

#[export] Instance AES_laws : Block_Cipher_Laws AES.
Proof.
  intros data key Hd Hk. destruct (crypt_block (SWAES ECB [] []) key data eq_refl Hk Hd) as (o & c & E & _ & _ & Hc & _).
  exists c. split; [|done]. unfold cipher_encrypt, AES. by rewrite E.
Qed.

#[export] Instance AES_deciphers : Deciphers AES := λ data key, snd <$> Aes.decrypt (SWAES ECB [] []) data (Some key).

#[export] Instance AES_deciphers_laws : Deciphers_Laws AES AES_deciphers.
Proof.
  split.
  - intros c key Hc Hk. destruct (decrypt_block (SWAES ECB [] []) key c eq_refl Hk Hc) as (o & d & E & Hd).
    exists d. split; [|done]. unfold cipher_decrypt, AES_deciphers. by rewrite E.
  - intros data key c Hd Hk. destruct (crypt_block (SWAES ECB [] []) key data eq_refl Hk Hd) as (o & c' & E & _ & _ & _ & Hback).
    unfold cipher_encrypt, AES, cipher_decrypt, AES_deciphers. rewrite E. intros [= <-].
    destruct (Hback (SWAES ECB [] []) eq_refl eq_refl) as (o' & Ed & _). by rewrite Ed.
Qed.

(** ** Numbers as bytes *)

Definition digit_bytes (d : Z) : list Z := (λ k, u8 (Z.shiftr d (8 * Z.of_nat k))) <$> seq 0 4.
Definition to_bytes (a : word) : list Z := a ≫= digit_bytes.

(** [reinterpret_cast<unsigned char *>(a._data)[i]] read and written. *)
Definition get_byte (a : word) (i : nat) : Z := u8 (Z.shiftr (digit a (i / 4)) (8 * Z.of_nat (i mod 4))).
Definition set_byte (i : nat) (x : Z) (a : word) : word :=
  let at_ := 8 * Z.of_nat (i mod 4) in
  alter (λ d, Z.lor (Z.ldiff d (Z.shiftl 255 at_)) (Z.shiftl x at_)) (i / 4)%nat a.
Definition and_byte (i : nat) (x : Z) (a : word) : word := set_byte i (Z.land (get_byte a i) x) a.

(** ** The class *)

Record Poly1305 := { _k : word; _r : word }.

Definition clamp (r : word) : word :=
  let r := and_byte 3 15 r in
  let r := and_byte 7 15 r in
  let r := and_byte 11 15 r in
  let r := and_byte 15 15 r in
  let r := and_byte 4 252 r in
  let r := and_byte 8 252 r in
  and_byte 12 252 r.

(** Arithmetic here is modulo 2^130 - 5. *)
#[local] Existing Instance Bignum_17 | 0.

(** The constructor, and the methods [k] and [r]. *)
Definition new (k r : list Z) : Poly1305 :=
  {| _k := of_bytes DIGITS (take 16 k); _r := clamp (of_bytes DIGITS (take 16 r)) |}.
Definition set_k (k1 : list Z) (p : Poly1305) : Poly1305 := {| _k := of_bytes DIGITS (take 16 k1); _r := _r p |}.
Definition set_r (r1 : list Z) (p : Poly1305) : Poly1305 := {| _k := _k p; _r := clamp (of_bytes DIGITS (take 16 r1)) |}.

Section stamp.
Context {C : Block_Cipher}.

(** The loop over [message_len] bytes, a block more each round. *)
Fixpoint stamp_loop (fuel : nat) (r cr : word) (message : list Z) (message_len : Z) : option word :=
  match fuel with
  | O => Some cr
  | S fuel' =>
      if message_len <=? 0 then Some cr
      else
        let len := Z.to_nat (16 `min` message_len) in
        if (length message <? len)%nat then None
        else
          let c := of_bytes DIGITS (take len message) in
          let c := set_byte len 1 c in
          let cr := add_assign cr c in
          cr ← mul_assign cr r;
          stamp_loop fuel' r cr (drop 16 message) (message_len - 16)
  end.

(** [message_len] is an [int]; every round takes 16 off it. *)
Definition stamp (p : Poly1305) (nonce message : list Z) (message_len : Z) : option (list Z) :=
  cr ← stamp_loop (Z.to_nat message_len) (_r p) (of_uint 0) message message_len;
  ciphertext ← cipher_encrypt nonce (take 16 (to_bytes (_k p)));
  Some (to_bytes (simple_add 4 (of_bytes 4 ciphertext) cr).1).

(** [verify] is given an [unsigned int]. *)
Definition to_int (x : Z) : Z := if x <? 2 ^ 31 then x else x - 2 ^ 32.

Fixpoint same_bytes (n i : nat) (my_mac mac : list Z) : bool :=
  match n with
  | O => true
  | S n' => if decide (my_mac !!! i ≠ mac !!! i) then false else same_bytes n' (S i) my_mac mac
  end.

Definition verify (p : Poly1305) (mac nonce message : list Z) (message_len : Z) : option bool :=
  my_mac ← stamp p nonce message (to_int message_len);
  Some (same_bytes 16 0 my_mac mac).
End stamp.

(** ** The code's comment: cr = (c_1 r^q + c_2 r^(q-1) + ... + c_q r^1) % (2^130 - 5),
    out = (cr + aes(k,n)) % 2^128 *)

Abbreviation le := (bignum_value 8).

Fixpoint chunks16 (fuel : nat) (message : list Z) : list (list Z) :=
  match fuel, message with
  | S fuel', _ :: _ => take 16 message :: chunks16 fuel' (drop 16 message)
  | _, _ => []
  end.

(** A block with a byte 1 after it, as a number. *)
Definition coefficient (b : list Z) : Z := le b + 2 ^ (8 * zlen b).

Fixpoint polynomial (r : Z) (cs : list Z) : Z :=
  match cs with [] => 0 | c :: cs' => c * r ^ zlen cs + polynomial r cs' end.

(** The key the standard clears bits of. *)
Definition clamped (r : list Z) : Z := Z.land (le r) 0x0ffffffc0ffffffc0ffffffc0fffffff.

Definition mac_of (s : Z) (r : Z) (message : list Z) : Z :=
  (polynomial r (coefficient <$> chunks16 (length message) message) mod (2 ^ 130 - 5) + s) mod 2 ^ 128.

(** ** Bytes and numbers *)

Abbreviation bytes := (is_digits 8).

Lemma u8_bits x n : 0 ≤ n → Z.testbit (u8 x) n = (n <? 8) && Z.testbit x n.
Proof.
  intros Hn. unfold u8. destruct (Z.ltb_spec n 8); [by rewrite Z.mod_pow2_bits_low|rewrite Z.mod_pow2_bits_high; [done|lia]].
Qed.

Lemma byte_high x n : byte x → 8 ≤ n → Z.testbit x n = false.
Proof. intros Hx Hn. rewrite <- (Z.mod_small x (2 ^ 8)) by done. by apply Z.mod_pow2_bits_high. Qed.

Lemma ones_bits n : 0 ≤ n → Z.testbit 255 n = (n <? 8).
Proof.
  intros Hn. change 255 with (Z.ones 8). destruct (Z.ltb_spec n 8); [by apply Z.ones_spec_low|by apply Z.ones_spec_high].
Qed.

(** The byte written, and the others as they were. *)
Lemma written_byte d x (j k : nat) : byte x →
  u8 (Z.shiftr (Z.lor (Z.ldiff d (Z.shiftl 255 (8 * Z.of_nat k))) (Z.shiftl x (8 * Z.of_nat k))) (8 * Z.of_nat j)) =
  if decide (j = k) then x else u8 (Z.shiftr d (8 * Z.of_nat j)).
Proof.
  intros Hx. apply Z.bits_inj'. intros n Hn. rewrite u8_bits, Z.shiftr_spec, Z.lor_spec, Z.ldiff_spec by done.
  case_decide as E.
  - subst. rewrite !Z.shiftl_spec by lia. rewrite !Z.add_simpl_r, ones_bits by done. destruct (Z.ltb_spec n 8); cbn; [by rewrite andb_false_r|].
    by rewrite byte_high.
  - rewrite u8_bits, Z.shiftr_spec by done. destruct (Z.ltb_spec n 8); [|done]. cbn.
    destruct (decide (j < k)%nat).
    + rewrite !Z.shiftl_spec_low by lia. by rewrite andb_true_r, orb_false_r.
    + rewrite !Z.shiftl_spec, ones_bits, (byte_high x) by (done || lia). rewrite (proj2 (Z.ltb_ge _ _)) by lia. by rewrite andb_true_r, orb_false_r.
Qed.

Lemma length_digit_bytes d : length (digit_bytes d) = 4%nat.
Proof. done. Qed.

Lemma digit_bytes_set d x k : byte x → (k < 4)%nat →
  digit_bytes (Z.lor (Z.ldiff d (Z.shiftl 255 (8 * Z.of_nat k))) (Z.shiftl x (8 * Z.of_nat k))) = <[k := x]> (digit_bytes d).
Proof.
  intros Hx Hk. apply list_eq. intros j. unfold digit_bytes. destruct (decide (j < 4)%nat) as [Hj|Hj].
  - rewrite list_lookup_fmap, lookup_seq_lt by done. cbn [fmap option_fmap option_map]. rewrite written_byte by done. case_decide as E; cbn [Nat.add] in E.
    + subst. by rewrite list_lookup_insert_eq by done.
    + rewrite list_lookup_insert_ne by (cbn in E; congruence). by rewrite list_lookup_fmap, lookup_seq_lt by done.
  - rewrite !lookup_ge_None_2; [done| |]; rewrite ?length_insert, length_fmap, length_seq; lia.
Qed.

Lemma written_digit d x k : 0 ≤ d < 2 ^ 32 → byte x → (k < 4)%nat →
  0 ≤ Z.lor (Z.ldiff d (Z.shiftl 255 (8 * Z.of_nat k))) (Z.shiftl x (8 * Z.of_nat k)) < 2 ^ 32.
Proof.
  intros Hd Hx Hk. set (y := Z.lor _ _). assert (y = y mod 2 ^ 32) as ->; [|by apply Z.mod_pos_bound].
  apply Z.bits_inj'. intros n Hn. destruct (decide (n < 32)); [by rewrite Z.mod_pow2_bits_low|].
  rewrite Z.mod_pow2_bits_high by lia. unfold y. rewrite Z.lor_spec, Z.ldiff_spec, (Z.shiftl_spec x), (byte_high x) by (done || lia).
  rewrite <- (Z.mod_small d (2 ^ 32)), Z.mod_pow2_bits_high by lia. done.
Qed.

(** *** The bytes of an array of digits *)

Lemma length_to_bytes a : length (to_bytes a) = (4 * length a)%nat.
Proof. unfold to_bytes. induction a as [|d a IH]; [done|]. cbn [mbind list_bind length]. rewrite length_app, IH. cbn. lia. Qed.

Lemma to_bytes_cons d a : to_bytes (d :: a) = digit_bytes d ++ to_bytes a.
Proof. done. Qed.

Lemma past_digit i : (4 ≤ i)%nat → (i / 4 = S ((i - 4) / 4) ∧ i mod 4 = (i - 4) mod 4)%nat.
Proof.
  intros Hi. assert (i = i - 4 + 1 * 4)%nat as E by lia. split; rewrite E at 1; [by rewrite Nat.div_add, Nat.add_1_r|by rewrite Nat.Div0.mod_add].
Qed.

Lemma to_bytes_at a i : to_bytes a !! i = (λ d, u8 (Z.shiftr d (8 * Z.of_nat (i mod 4)))) <$> a !! (i / 4)%nat.
Proof.
  revert i; induction a as [|d a IH]; intros i; [done|]. rewrite to_bytes_cons. destruct (decide (i < 4)%nat) as [Hi|Hi].
  - rewrite lookup_app_l by done. rewrite Nat.div_small, Nat.mod_small by done. unfold digit_bytes.
    by rewrite list_lookup_fmap, lookup_seq_lt.
  - rewrite lookup_app_r, length_digit_bytes, IH by (rewrite length_digit_bytes; lia).
    destruct (past_digit i ltac:(lia)) as [-> ->]. done.
Qed.

Lemma get_byte_at a i : (i < 4 * length a)%nat → to_bytes a !! i = Some (get_byte a i).
Proof.
  intros Hi. rewrite to_bytes_at. unfold get_byte, digit.
  destruct (lookup_lt_is_Some_2 a (i / 4)) as [d Ed]; [apply Nat.Div0.div_lt_upper_bound; lia|]. by rewrite Ed.
Qed.

Lemma digit_bytes_ok d : bytes (digit_bytes d).
Proof. apply Forall_fmap, Forall_true. intros k. apply u8_byte. Qed.

Lemma to_bytes_ok a : bytes (to_bytes a).
Proof. unfold is_digits. induction a as [|d a IH]; [constructor|]. rewrite to_bytes_cons. apply Forall_app. by split; [apply digit_bytes_ok|]. Qed.

Lemma set_byte_spec i x a : digits a → byte x → (i < 4 * length a)%nat →
  to_bytes (set_byte i x a) = <[i := x]> (to_bytes a) ∧ digits (set_byte i x a) ∧ length (set_byte i x a) = length a.
Proof.
  intros Ha Hx Hi. unfold set_byte. pose proof (Nat.mod_upper_bound i 4 ltac:(lia)) as Hm.
  split; [|split; [|by rewrite length_alter]].
  - revert i Hi Hm; induction Ha as [|d a Hd _ IH]; intros i Hi Hm; cbn [length] in Hi; [lia|]. rewrite to_bytes_cons.
    destruct (decide (i < 4)%nat) as [Hi4|Hi4].
    + rewrite Nat.div_small, Nat.mod_small by done. cbn [alter list_alter]. by rewrite to_bytes_cons, digit_bytes_set, insert_app_l by done.
    + rewrite insert_app_r_alt, length_digit_bytes by (rewrite length_digit_bytes; lia).
      rewrite <- IH by (try apply Nat.mod_upper_bound; lia).
      by destruct (past_digit i ltac:(lia)) as [-> ->].
  - apply Forall_alter; [done|]. intros d _ Hd. by apply written_digit.
Qed.

(** *** Values *)

Lemma digit_bytes_value d : 0 ≤ d < 2 ^ 32 → le (digit_bytes d) = d.
Proof.
  intros Hd. unfold digit_bytes, u8. cbn [seq fmap list_fmap bignum_value]. rewrite !Z.shiftr_div_pow2 by lia.
  change (8 * Z.of_nat 0) with 0. change (8 * Z.of_nat 1) with 8. change (8 * Z.of_nat 2) with 16. change (8 * Z.of_nat 3) with 24.
  Z.div_mod_to_equations. lia.
Qed.

Lemma to_bytes_value a : digits a → le (to_bytes a) = value a.
Proof.
  induction 1 as [|d a Hd _ IH]; [done|]. rewrite to_bytes_cons, value_app, IH, digit_bytes_value by done. done.
Qed.

Lemma bytes_digit_value bs : bytes_digit bs = le bs.
Proof. induction bs as [|x bs IH]; [done|]. cbn [bytes_digit bignum_value]. rewrite IH, Z.shiftl_mul_pow2; lia. Qed.

Lemma of_bytes_spec n bs : bytes bs → (length bs ≤ 4 * n)%nat →
  digits (of_bytes n bs) ∧ length (of_bytes n bs) = n ∧ value (of_bytes n bs) = le bs.
Proof.
  unfold is_digits. revert bs; induction n as [|n IH]; intros bs Hb Hl; [by destruct bs; [|cbn in Hl; lia]|].
  cbn [of_bytes]. destruct (IH (drop 4 bs)) as (D & L & V); [by apply Forall_drop|rewrite length_drop; lia|].
  pose proof (value_bounds 8 ltac:(lia) (take 4 bs) ltac:(by apply Forall_take)) as Hv.
  assert (2 ^ (8 * zlen (take 4 bs)) ≤ 2 ^ 32) as Hp by (apply Z.pow_le_mono_r; [lia|unfold zlen; rewrite length_take; lia]).
  split; [constructor; [apply u32_digit|done]|]. split; [cbn; by rewrite L|]. cbn [bignum_value].
  rewrite bytes_digit_value, u32_small, V by lia. rewrite <- (take_drop 4 bs) at 3. rewrite value_app by done.
  destruct (decide (4 ≤ length bs)%nat) as [H4|H4].
  - replace (8 * zlen (take 4 bs)) with 32 by (unfold zlen; rewrite length_take; lia). done.
  - rewrite drop_ge by lia. cbn [bignum_value]. lia.
Qed.

Lemma to_bytes_of_bytes n bs : bytes bs → (length bs ≤ 4 * n)%nat → to_bytes (of_bytes n bs) = bs ++ replicate (4 * n - length bs) 0.
Proof.
  intros Hb Hl. destruct (of_bytes_spec n bs Hb Hl) as (D & L & V). apply (value_inj 8); [done|apply to_bytes_ok| | |].
  - apply Forall_app. split; [done|]. by apply digits_zeros.
  - rewrite length_to_bytes, L, length_app, length_replicate. lia.
  - rewrite to_bytes_value, V, value_app, value_zeros by done. lia.
Qed.

(** *** The bits cleared *)

Lemma le_bits x bs n : byte x → bytes bs → 0 ≤ n →
  Z.testbit (le (x :: bs)) n = if n <? 8 then Z.testbit x n else Z.testbit (le bs) (n - 8).
Proof.
  intros Hx Hb Hn. cbn [bignum_value]. pose proof (value_bounds 8 ltac:(done) bs Hb) as Hv.
  destruct (Z.ltb_spec n 8) as [H|H].
  - rewrite <- (Z.mod_pow2_bits_low _ 8) by done. rewrite Z.mul_comm, Z.mod_add, Z.mod_small by done. done.
  - replace n with (n - 8 + 8) at 1 by lia. rewrite <- Z.div_pow2_bits by lia. f_equal. rewrite Z.mul_comm, Z.div_add, Z.div_small by done. lia.
Qed.

Lemma byte_land x y : byte x → byte y → byte (Z.land x y).
Proof.
  intros Hx Hy. assert (Z.land x y = u8 (Z.land x y)) as ->; [|apply u8_byte].
  apply Z.bits_inj'. intros n Hn. rewrite u8_bits, Z.land_spec by done. destruct (Z.ltb_spec n 8); [done|].
  by rewrite byte_high.
Qed.

Lemma zip_land_bytes bs ms : bytes bs → bytes ms → bytes (zip_with Z.land bs ms).
Proof.
  intros Hb Hm. apply Forall_lookup. intros k z. rewrite lookup_zip_with_Some. intros (u & v & -> & Eu & Ev).
  apply byte_land; [exact (Forall_lookup_1 _ _ _ _ Hb Eu)|exact (Forall_lookup_1 _ _ _ _ Hm Ev)].
Qed.

Lemma le_land bs ms : bytes bs → bytes ms → length bs = length ms → le (zip_with Z.land bs ms) = Z.land (le bs) (le ms).
Proof.
  unfold is_digits. intros Hb; revert ms; induction Hb as [|x bs Hx Hb IH]; intros [|y ms] Hm Hl; try done.
  apply Forall_cons in Hm as [Hy Hm]. injection Hl as Hl. cbn [zip_with]. apply Z.bits_inj'. intros n Hn.
  pose proof (zip_land_bytes bs ms Hb Hm) as Hz.
  rewrite Z.land_spec, !le_bits by (done || by apply byte_land). destruct (n <? 8); [by rewrite Z.land_spec|]. by rewrite IH, Z.land_spec.
Qed.

Lemma and_byte_spec i m a : digits a → byte m → (i < 4 * length a)%nat →
  to_bytes (and_byte i m a) = alter (λ b, Z.land b m) i (to_bytes a) ∧ digits (and_byte i m a) ∧ length (and_byte i m a) = length a.
Proof.
  intros Ha Hm Hi. pose proof (get_byte_at a i Hi) as E. assert (byte (get_byte a i)) as Hg by apply u8_byte.
  destruct (set_byte_spec i (Z.land (get_byte a i) m) a Ha ltac:(by apply byte_land) Hi) as (Eb & D & L).
  split; [|done]. unfold and_byte. rewrite Eb. apply list_eq. intros j. destruct (decide (i = j)) as [<-|Hj].
  - rewrite list_lookup_insert_eq by (rewrite length_to_bytes; lia). by rewrite list_lookup_alter_eq, E.
  - by rewrite list_lookup_insert_ne, list_lookup_alter_ne.
Qed.

Lemma and_bytes_spec l a : digits a → Forall (λ p, byte p.2 ∧ (p.1 < 4 * length a)%nat) l →
  let a' := foldl (λ a p, and_byte p.1 p.2 a) a l in
  to_bytes a' = foldl (λ bs p, alter (λ b, Z.land b p.2) p.1 bs) (to_bytes a) l ∧ digits a' ∧ length a' = length a.
Proof.
  cbv zeta. revert a; induction l as [|[i m] l IH]; intros a Ha Hl; [done|]. apply Forall_cons in Hl as [[Hm Hi] Hl]. cbn [fst snd foldl] in *.
  destruct (and_byte_spec i m a Ha Hm Hi) as (E & D & L). destruct (IH (and_byte i m a) D) as (E' & D' & L'); [by rewrite L|].
  split; [by rewrite E', E|]. split; [done|congruence].
Qed.

Definition mask : list Z := [255; 255; 255; 15; 252; 255; 255; 15; 252; 255; 255; 15; 252; 255; 255; 15].

Lemma clamp_spec r : is_block r → let a := clamp (of_bytes 5 r) in digits a ∧ length a = 5%nat ∧ value a = clamped r.
Proof.
  intros [Hl Hr]. destruct (of_bytes_spec 5 r Hr ltac:(lia)) as (D & L & _). cbv zeta.
  destruct (and_bytes_spec [(3%nat, 15); (7%nat, 15); (11%nat, 15); (15%nat, 15); (4%nat, 252); (8%nat, 252); (12%nat, 252)] (of_bytes 5 r) D) as (E' & D' & L').
  { rewrite L. apply (bool_decide_unpack _). by vm_compute. }
  cbn [foldl fst snd] in D', E', L'. fold (clamp (of_bytes 5 r)) in *.
  split; [exact D'|]. split; [by rewrite L'|]. rewrite <- to_bytes_value, E', to_bytes_of_bytes by (done || lia). rewrite Hl.
  unfold clamped. change 0x0ffffffc0ffffffc0ffffffc0fffffff with (le mask).
  rewrite <- le_land by (done || by apply (bool_decide_unpack _); vm_compute).
  transitivity (le (zip_with Z.land r mask ++ replicate 4 0)); [|rewrite value_app, value_zeros by done; lia].
  assert (∀ x, byte x → Z.land x 255 = x) as H255 by (intros x Hx; change 255 with (Z.ones 8); rewrite Z.land_ones by done; by apply Z.mod_small).
  each_byte r Hl. rewrite !Forall_cons in Hr. destruct_and! Hr. unfold mask. cbn [zip_with alter list_alter app replicate Nat.sub Nat.mul Nat.add].
  by rewrite !H255.
Qed.

(** ** Stamping *)

Abbreviation p1305 := (2 ^ 130 - 5).
Abbreviation small := (reduced (HB := Bignum_17)).

Lemma coefficient_spec b : bytes b → (length b ≤ 16)%nat →
  small (set_byte (length b) 1 (of_bytes 5 b)) ∧ value (set_byte (length b) 1 (of_bytes 5 b)) = coefficient b.
Proof.
  intros Hb Hl. destruct (of_bytes_spec 5 b Hb ltac:(lia)) as (D & L & _).
  destruct (set_byte_spec (length b) 1 (of_bytes 5 b) D ltac:(done) ltac:(lia)) as (E & D' & L').
  assert (value (set_byte (length b) 1 (of_bytes 5 b)) = coefficient b) as V.
  { rewrite <- to_bytes_value, E, to_bytes_of_bytes by (done || lia). unfold coefficient.
    replace (4 * 5 - length b)%nat with (S (19 - length b)) by lia. cbn [replicate].
    rewrite insert_app_r_alt by lia. rewrite Nat.sub_diag. cbn [insert list_insert].
    rewrite value_app by done. cbn [bignum_value]. rewrite value_zeros. lia. }
  split; [|done]. split; [split; [done|by rewrite L']|]. rewrite V.
  pose proof (value_bounds 8 ltac:(done) b Hb) as Hv. unfold coefficient.
  assert (2 ^ (8 * zlen b) ≤ 2 ^ 128) by (apply Z.pow_le_mono_r; unfold zlen; lia).
  change (value (_mod (Bignum := Bignum_17))) with p1305. lia.
Qed.

Lemma add_value a b : small a → small b → small (add_assign (H := Bignum_17) a b) ∧ value (add_assign (H := Bignum_17) a b) = (value a + value b) mod p1305.
Proof. apply (add_assign_value (HB := Bignum_17)). Qed.

Lemma mul_value a b : small a → wf (HB := Bignum_17) b →
  ∃ r, mul_assign (H := Bignum_17) a b = Some r ∧ small r ∧ value r = (value a * value b) mod p1305.
Proof. apply (mul_assign_value (HB := Bignum_17)). Qed.

Lemma chunks16_fuel n n' m : (length m ≤ n)%nat → (length m ≤ n')%nat → chunks16 n m = chunks16 n' m.
Proof.
  revert n' m; induction n as [|n IH]; intros n' m Hn Hn'; [by destruct m, n'; cbn in Hn; try lia|].
  destruct m as [|x m]; [by destruct n'|]. destruct n' as [|n']; [cbn in Hn'; lia|]. cbn [chunks16]. f_equal.
  cbn [drop length] in *. apply IH; rewrite length_drop; lia.
Qed.

(** One round, and what it adds to the sum. *)
Lemma horner p v c r k P : 0 < p → 0 ≤ k →
  ((v + c) mod p * r mod p * r ^ k + P) mod p = (v * r ^ (1 + k) + (c * r ^ (1 + k) + P)) mod p.
Proof.
  intros Hp Hk. rewrite Z.pow_add_r, Z.pow_1_r by lia. rewrite (Z.mul_mod_idemp_l (v + c) r) by lia.
  rewrite <- (Z.add_mod_idemp_l (_ mod p * r ^ k) P), (Z.mul_mod_idemp_l ((v + c) * r)), Z.add_mod_idemp_l by lia. f_equal. ring.
Qed.

Lemma stamp_loop_spec fuel r cr message :
  bytes message → small cr → wf (HB := Bignum_17) r → (length message ≤ fuel)%nat →
  ∃ cr', stamp_loop fuel r cr message (zlen message) = Some cr' ∧ small cr' ∧
    let cs := coefficient <$> chunks16 (length message) message in
    value cr' = (value cr * value r ^ zlen cs + polynomial (value r) cs) mod p1305.
Proof.
  intros Hm Hcr Hr Hf. revert cr message Hm Hcr Hf; induction fuel as [|fuel IH]; intros cr message Hm Hcr Hf.
  all: destruct (decide (message = [])) as [->|Hne].
  1, 3: exists cr; split; [done|]; split; [done|]; cbn -[Z.pow]; rewrite Z.pow_0_r, Z.mul_1_r, Z.add_0_r, Z.mod_small;
    [done|destruct Hcr as [Hw Hv]; pose proof (wf_value (HB := Bignum_17) cr Hw); exact (conj (proj1 H) Hv)].
  { destruct message; [done|]. cbn in Hf. lia. }
  assert (0 < length message)%nat as Hpos by (destruct message; [done|cbn; lia]).
  cbn [stamp_loop]. rewrite (proj2 (Z.leb_gt _ _)) by (unfold zlen; lia).
  set (len := Z.to_nat _). assert (len = length (take 16 message)) as El by (unfold len, zlen; rewrite length_take; lia).
  rewrite (proj2 (Nat.ltb_ge _ _)) by (rewrite El, length_take; lia).
  assert (take len message = take 16 message) as ->.
  { rewrite El, length_take. destruct (decide (16 ≤ length message)%nat); [by rewrite Nat.min_l|]. rewrite Nat.min_r by lia. by rewrite !take_ge by lia. }
  rewrite El. destruct (coefficient_spec (take 16 message)) as [Hc Vc]; [by apply Forall_take|rewrite length_take; lia|].
  destruct (add_value cr _ Hcr Hc) as [Ha Va]. destruct (mul_value _ r Ha Hr) as (cr1 & E1 & H1 & V1).
  change (@DIGITS Bignum_17) with 5%nat. rewrite E1. cbn [mbind option_bind].
  destruct (IH cr1 (drop 16 message)) as (cr' & E & Hcr' & V); [by apply Forall_drop|done|rewrite length_drop; lia|].
  exists cr'. split; [|split; [done|]].
  - destruct (decide (16 ≤ length message)%nat) as [H16|H16].
    + rewrite <- E. f_equal. unfold zlen. rewrite length_drop. lia.
    + rewrite drop_ge in * by lia. rewrite <- E. destruct fuel as [|fuel]; [done|]. cbn [stamp_loop].
      rewrite (proj2 (Z.leb_le (zlen message - 16) 0)) by (unfold zlen; lia). done.
  - cbv zeta in *. destruct message as [|x message]; [done|]. cbn [length chunks16]. set (b := take 16 (x :: message)) in *. set (rest := drop 16 (x :: message)) in *.
    rewrite (chunks16_fuel _ (length rest)) by (unfold rest; rewrite length_drop; cbn; lia).
    rewrite V, V1, Va, Vc, fmap_cons. cbn [polynomial]. rewrite zlen_cons. apply horner; [done|apply zlen_nonneg].
Qed.

(** ** Properties *)

Lemma stamp_spec `{!Block_Cipher_Laws C} k r nonce message :
  is_block k → is_block r → is_block nonce → bytes message →
  ∃ s mac, cipher_encrypt nonce k = Some s ∧ stamp (new k r) nonce message (zlen message) = Some mac ∧ is_block mac ∧
    le mac = mac_of (le s) (clamped r) message.
Proof.
  intros Hk Hr Hn Hm. destruct (cipher_total nonce k Hn Hk) as (s & Es & Hs).
  destruct (clamp_spec r Hr) as (Dr & Lr & Vr).
  destruct (of_uint_spec (HB := Bignum_17) 0 ltac:(done)) as [W0 V0].
  destruct (stamp_loop_spec (Z.to_nat (zlen message)) (clamp (of_bytes 5 r)) (of_uint (H := Bignum_17) 0) message) as (cr & E & [[Dc Lc] _] & V);
    [done|split; [done|by rewrite V0]|done|unfold zlen; lia|].
  exists s. unfold stamp, new. cbn [_k _r]. rewrite (take_ge k), (take_ge r) by (destruct Hr, Hk; lia).
  change (@DIGITS Bignum_17) with 5%nat in *. rewrite E. cbn [mbind option_bind].
  destruct Hk as [Lk Hkb]. rewrite (to_bytes_of_bytes 5 k) by (done || lia). rewrite take_app_length', Es by done. cbn [mbind option_bind].
  destruct Hs as [Ls Hsb]. destruct (of_bytes_spec 4 s Hsb ltac:(lia)) as (D4 & L4 & V4).
  pose proof (simple_add_spec 4 (of_bytes 4 s) cr D4 Dc ltac:(lia) ltac:(lia)) as Hadd.
  destruct (simple_add 4 (of_bytes 4 s) cr) as [res carry]. destruct Hadd as (Dres & Lres & Va). cbn [fst].
  exists (to_bytes res). split; [done|]. split; [done|]. split; [split; [by rewrite length_to_bytes, Lres|apply to_bytes_ok]|].
  rewrite to_bytes_value by done. unfold mac_of. rewrite (take_ge (of_bytes 4 s)), V4, value_take in Va by (done || lia).
  change (32 * Z.of_nat 4) with 128 in Va. cbv zeta in V. rewrite V0, Z.mul_0_l, Z.add_0_l, Vr in V. rewrite <- V.
  pose proof (value_bounds 32 ltac:(done) res Dres) as Hb. unfold zlen in Hb. rewrite Lres in Hb. change (32 * Z.of_nat 4) with 128 in Hb.
  rewrite <- Z.add_mod_idemp_l by lia. apply (Z.mod_unique _ _ (Z.b2z carry)); lia.
Qed.

Lemma same_bytes_spec n i a b : length a = (i + n)%nat → length b = (i + n)%nat → same_bytes n i a b = bool_decide (drop i a = drop i b).
Proof.
  revert i; induction n as [|n IH]; intros i Ha Hb; cbn [same_bytes].
  - rewrite !drop_ge by lia. by rewrite bool_decide_true.
  - destruct (lookup_lt_is_Some_2 a i ltac:(lia)) as [x Ex], (lookup_lt_is_Some_2 b i ltac:(lia)) as [y Ey].
    rewrite (list_lookup_total_correct _ _ _ Ex), (list_lookup_total_correct _ _ _ Ey), (drop_S a x i), (drop_S b y i) by done.
    case_decide as E; [by rewrite bool_decide_false by congruence|]. subst y. rewrite IH by lia.
    apply bool_decide_ext. split; congruence.
Qed.

Lemma same_blocks a b : is_block a → is_block b → same_bytes 16 0 a b = bool_decide (le b = le a).
Proof.
  intros [La Ha] [Lb Hb]. rewrite same_bytes_spec by done. rewrite !drop_0. apply bool_decide_ext. split; [by intros ->|].
  intros E. apply (value_inj 8); [done..|congruence|done].
Qed.

Section properties.
Context {C : Block_Cipher} {HC : Block_Cipher_Laws C}.
Implicit Types k r nonce message mac : list Z.

(** C19 The authenticator: over any cipher that keeps its promise, [stamp]
    gives the 16 bytes of the sum the code's comment announces: the
    polynomial whose coefficients are the blocks of the message, each with
    a byte 1 after it, at the key with the standard's bits cleared, modulo
    2^130 - 5, plus the nonce encrypted, modulo 2^128. *)
Theorem stamp_is_poly1305 k r nonce message :
  is_block k → is_block r → is_block nonce → bytes message → zlen message < 2 ^ 31 →
  ∃ s mac, cipher_encrypt nonce k = Some s ∧ stamp (new k r) nonce message (zlen message) = Some mac ∧ is_block mac ∧
    le mac = mac_of (le s) (clamped r) message.
Proof using HC. intros. by apply stamp_spec. Qed.

(** Verification accepts that sum and nothing else. *)
Theorem verify_accepts_mac k r nonce message mac :
  is_block k → is_block r → is_block nonce → is_block mac → bytes message → zlen message < 2 ^ 31 →
  ∃ s, cipher_encrypt nonce k = Some s ∧
    verify (new k r) mac nonce message (zlen message) = Some (bool_decide (le mac = mac_of (le s) (clamped r) message)).
Proof using HC.
  intros Hk Hr Hn Hmac Hm Hl. destruct (stamp_spec k r nonce message Hk Hr Hn Hm) as (s & my_mac & Es & E & Hmy & V).
  exists s. split; [done|]. unfold verify, to_int. rewrite (proj2 (Z.ltb_lt _ _)) by done. rewrite E. cbn [mbind option_bind].
  by rewrite same_blocks, V.
Qed.

(** A length of 2^31 or more is negative as the [int] that [stamp] takes: then
    the message does not count. *)
Theorem verify_huge_ignores_message k r nonce message mac len :
  is_block k → is_block r → is_block nonce → is_block mac → 2 ^ 31 ≤ len < 2 ^ 32 →
  verify (new k r) mac nonce message len = verify (new k r) mac nonce [] 0.
Proof.
  intros Hk Hr Hn Hmac Hl. unfold verify, to_int, stamp. rewrite (proj2 (Z.ltb_ge _ _)), (proj2 (Z.ltb_lt 0 _)) by lia.
  by rewrite Z2Nat.nonpos by lia.
Qed.
End properties.

(** The padding loses nothing: different messages are different sums of
    powers. *)
Lemma coefficient_inj b b' : bytes b → bytes b' → coefficient b = coefficient b' → b = b'.
Proof.
  intros Hb Hb' E. unfold coefficient in E.
  pose proof (value_bounds 8 ltac:(done) b Hb) as Hv. pose proof (value_bounds 8 ltac:(done) b' Hb') as Hv'.
  assert (zlen b = zlen b') as El.
  { assert (∀ (x y : list Z), zlen x < zlen y → 2 * 2 ^ (8 * zlen x) ≤ 2 ^ (8 * zlen y)) as Hp.
    { intros x y Hxy. rewrite <- Z.pow_succ_r by (pose proof (zlen_nonneg x); lia). apply Z.pow_le_mono_r; lia. }
    destruct (Z.lt_trichotomy (zlen b) (zlen b')) as [H|[H|H]]; [specialize (Hp b b' H); lia|done|specialize (Hp b' b H); lia]. }
  apply (value_inj 8); [done..|unfold zlen in El; lia|]. rewrite El in E. lia.
Qed.

Theorem padding_injective m m' : bytes m → bytes m' →
  coefficient <$> chunks16 (length m) m = coefficient <$> chunks16 (length m') m' → m = m'.
Proof.
  assert (∀ n m m', (length m ≤ n)%nat → (length m' ≤ n)%nat → bytes m → bytes m' →
    coefficient <$> chunks16 n m = coefficient <$> chunks16 n m' → m = m') as H.
  { induction n as [|n IH]; intros l l' Hl Hl' Hb Hb' E; [by destruct l, l'; cbn in Hl, Hl'; try lia|].
    destruct l as [|x l], l' as [|x' l']; try done. cbn [chunks16] in E. rewrite !fmap_cons in E. injection E as E1 E2.
    change (coefficient (take 16 (x :: l)) = coefficient (take 16 (x' :: l'))) in E1.
    change (coefficient <$> chunks16 n (drop 16 (x :: l)) = coefficient <$> chunks16 n (drop 16 (x' :: l'))) in E2.
    apply coefficient_inj in E1; [|by apply (Forall_take _ 16)..]. apply IH in E2;
      [|cbn [drop length] in *; rewrite length_drop; lia..|by apply (Forall_drop _ 16)|by apply (Forall_drop _ 16)].
    rewrite <- (take_drop 16 (x :: l)), <- (take_drop 16 (x' :: l')). by rewrite E1, E2. }
  intros Hb Hb' E. apply (H (length m + length m')%nat); [lia..|done|done|].
  by rewrite (chunks16_fuel _ (length m) m), (chunks16_fuel _ (length m') m') by lia.
Qed.

(** Over the software AES. *)
Lemma AES_fips data key : is_block data → is_block key → cipher_encrypt (Block_Cipher := AES) data key = Some (fips key data).
Proof.
  intros Hd Hk. destruct (crypt_block (SWAES ECB [] []) key data eq_refl Hk Hd) as (o & c & E & _ & -> & _).
  unfold cipher_encrypt, AES. by rewrite E.
Qed.

(** ** Witnesses: section 2.5.2 of RFC 8439, its second key half as cipher *)

Definition rfc_r : list Z := [0x85; 0xd6; 0xbe; 0x78; 0x57; 0x55; 0x6d; 0x33; 0x7f; 0x44; 0x52; 0xfe; 0x42; 0xd5; 0x06; 0xa8].
Definition rfc_s : list Z := [0x01; 0x03; 0x80; 0x8a; 0xfb; 0x0d; 0xb2; 0xfd; 0x4a; 0xbf; 0xf6; 0xaf; 0x41; 0x49; 0xf5; 0x1b].
Definition rfc_message : list Z := [
  0x43; 0x72; 0x79; 0x70; 0x74; 0x6f; 0x67; 0x72; 0x61; 0x70; 0x68; 0x69; 0x63; 0x20; 0x46; 0x6f; 0x72;
  0x75; 0x6d; 0x20; 0x52; 0x65; 0x73; 0x65; 0x61; 0x72; 0x63; 0x68; 0x20; 0x47; 0x72; 0x6f; 0x75; 0x70].
Definition rfc_tag : list Z := [0xa8; 0x06; 0x1d; 0xc1; 0x30; 0x51; 0x36; 0xc6; 0xc2; 0x2b; 0x8b; 0xaf; 0x0c; 0x01; 0x27; 0xa9].

Definition one_time : Block_Cipher := λ _ _, Some rfc_s.

Lemma rfc_blocks : is_block rfc_r ∧ is_block rfc_s ∧ bytes rfc_message.
Proof. split_and!; [split; [done|]|split; [done|]|]; by apply (bool_decide_unpack _); vm_compute. Qed.

#[local] Instance one_time_laws : Block_Cipher_Laws one_time.
Proof. intros data key _ _. exists rfc_s. split; [done|apply rfc_blocks]. Qed.

Example rfc_stamp : stamp (C := one_time) (new rfc_s rfc_r) rfc_s rfc_message (zlen rfc_message) = Some rfc_tag.
Proof. by vm_compute. Qed.

Example stamp_is_poly1305_witness : le rfc_tag = mac_of (le rfc_s) (clamped rfc_r) rfc_message.
Proof.
  destruct rfc_blocks as (Hr & Hs & Hm).
  destruct (stamp_is_poly1305 (C := one_time) rfc_s rfc_r rfc_s rfc_message Hs Hr Hs Hm ltac:(done)) as (s & mac & Es & E & _ & V).
  injection Es as <-.
  rewrite rfc_stamp in E. injection E as <-. exact V.
Defined.
