(* ===== verification/Security.v ===== *)
(** * Messages of trusted peers (src/network/tstp/security.cc)

    The part of TSTP::Security that authenticates: [pack] and [unpack] for
    the data of a response, [otp] and [verify_auth_request] for the one-time
    password of a key exchange.  Both sides share a master secret; the
    current window of 30 seconds is the nonce, and a receiver tries its own
    window, the one before and the one after.  A message is the buffer from
    the first byte of its data on; [None] is a buffer that is too short. *)

From stdpp Require Import prelude.
From S2P Require Import Prelude PyStr Digits Aes Bignum Poly1305.

Definition KEY_EXPIRY : Z := 1 * 60 * 1000 * 1000.
Definition POLY_TIME_WINDOW : Z := KEY_EXPIRY / 2.

(** The arithmetic of [Time], an unsigned long long; it is stored in 8 bytes. *)
Definition time_bytes (t : Z) : list Z := (λ k, u8 (Z.shiftr t (8 * Z.of_nat k))) <$> seq 0 8.

(** [memset(nonce, 0, 16); memcpy(nonce, &t, sizeof(Time))] *)
Definition nonce_of (t : Z) : list Z := time_bytes t ++ replicate 8 0.

(** What both sides know of each other: the bytes of [Peer::_id] and of
    [Peer::_master_secret]. *)
Record secret := { peer_id : list Z; master_secret : list Z }.

(** [mi = ms ^ _id], and what is left of the longer one. *)
Definition MI (s : secret) : list Z :=
  zip_with Z.lxor (peer_id s) (master_secret s) ++ drop (length (master_secret s)) (peer_id s) ++ drop (length (peer_id s)) (master_secret s).
Definition MI_SIZE : Z := 16.
Definition sizeof_Master_Secret : Z := 16.

Section channel.
Context {C : Block_Cipher} {D : Deciphers C}.

(** The class constant [use_encryption]; it is false. *)
Variable use_encryption : bool.

Definition poly_of (s : secret) : Poly1305 := new (peer_id s) (master_secret s).

Definition pack (msg : list Z) (s : secret) (now : Z) : option (list Z) :=
  let nonce := nonce_of (now / POLY_TIME_WINDOW) in
  let poly := poly_of s in
  mac ← stamp poly nonce (take 16 msg) sizeof_Master_Secret;
  if (length msg <? 32)%nat then None
  else
    let msg := take 16 msg ++ mac ++ drop 32 msg in
    if use_encryption then
      key ← stamp poly nonce (MI s) MI_SIZE;
      data ← cipher_encrypt (take 16 msg) key;
      Some (data ++ drop 16 msg)
    else Some msg.

(** One window: the data as it is after it, and whether it is authentic. *)
Definition try_window (s : secret) (original_msg msg mac : list Z) (window : Z) : option (bool * list Z) :=
  let nonce := nonce_of window in
  let poly := poly_of s in
  key ← stamp poly nonce (MI s) MI_SIZE;
  msg ← (if use_encryption then cipher_decrypt original_msg key else Some msg);
  ok ← verify poly mac nonce msg sizeof_Master_Secret;
  Some (ok, msg).

(** [msg] is the 16 bytes of data, [mac] the 16 bytes after them. *)
Definition unpack (s : secret) (msg mac : list Z) (reception_time : Z) : option (bool * list Z) :=
  let original_msg := msg in
  let reception_time := reception_time / POLY_TIME_WINDOW in
  '(ok, msg) ← try_window s original_msg msg mac reception_time;
  if ok : bool then Some (true, msg)
  else
    let reception_time := u64 (reception_time - 1) in
    '(ok, msg) ← try_window s original_msg msg mac reception_time;
    if ok : bool then Some (true, msg)
    else
      let reception_time := u64 (reception_time + 2) in
      '(ok, msg) ← try_window s original_msg msg mac reception_time;
      if ok : bool then Some (true, msg)
      else Some (false, original_msg).

Definition otp (s : secret) (now : Z) : option (list Z) :=
  stamp (poly_of s) (nonce_of (now / POLY_TIME_WINDOW)) (MI s) MI_SIZE.

Definition verify_auth_request (s : secret) (otp : list Z) (now : Z) : option bool :=
  let t := now / POLY_TIME_WINDOW in
  let poly := poly_of s in
  ok ← verify poly otp (nonce_of t) (MI s) MI_SIZE;
  if ok : bool then Some true
  else
    let t := u64 (t - 1) in
    ok ← verify poly otp (nonce_of t) (MI s) MI_SIZE;
    if ok : bool then Some true
    else
      let t := u64 (t + 2) in
      verify poly otp (nonce_of t) (MI s) MI_SIZE.
End channel.

(** ** Windows and tags *)

Definition well (s : secret) : Prop := is_block (peer_id s) ∧ is_block (master_secret s).

Lemma nonce_block t : is_block (nonce_of t).
Proof.
  split; [done|]. apply Forall_app. split; [|by apply Forall_replicate].
  apply Forall_fmap, Forall_true. intros k. apply u8_byte.
Qed.

Lemma MI_block s : well s → is_block (MI s).
Proof.
  intros [[Hi Hib] [Hm Hmb]]. unfold MI. rewrite !drop_ge, !app_nil_r by lia.
  apply (xor_iv_block (master_secret s) (peer_id s)); [lia|done|by split].
Qed.

Lemma block_len (m : list Z) : is_block m → zlen m = 16.
Proof. intros [H _]. unfold zlen. by rewrite H. Qed.

(** The windows a receiver tries. *)
Definition windows (t : Z) : list Z := let r := t / POLY_TIME_WINDOW in [r; u64 (r - 1); u64 (u64 (r - 1) + 2)].

Definition near (now t : Z) : Prop := Z.abs (now / POLY_TIME_WINDOW - t / POLY_TIME_WINDOW) ≤ 1.

Lemma near_windows now t : 0 ≤ now < 2 ^ 64 → 0 ≤ t < 2 ^ 64 → near now t → now / POLY_TIME_WINDOW ∈ windows t.
Proof.
  unfold near, windows, u64. change POLY_TIME_WINDOW with 30000000. intros Hn Ht Hw.
  assert (0 ≤ now / 30000000 < 2 ^ 63 ∧ 0 ≤ t / 30000000 < 2 ^ 63) as [Hn' Ht'].
  { split; (split; [apply Z.div_pos; lia|apply Z.div_lt_upper_bound; lia]). }
  rewrite Zplus_mod_idemp_l. replace (t / 30000000 - 1 + 2) with (t / 30000000 + 1) by lia. rewrite !elem_of_cons.
  destruct (Z.lt_trichotomy (now / 30000000) (t / 30000000)) as [H|[H|H]]; [right; left|by left|right; right; left]; rewrite Z.mod_small; lia.
Qed.

Section channel.
Context {C : Block_Cipher} {D : Deciphers C} {HC : Block_Cipher_Laws C} {HD : Deciphers_Laws C D}.
Variable use_encryption : bool.

(** The tag of a block in a window. *)
Definition tag (s : secret) (window : Z) (m : list Z) : list Z := default [] (stamp (poly_of s) (nonce_of window) m 16).

Lemma stamp_tag s w m : well s → is_block m → stamp (poly_of s) (nonce_of w) m 16 = Some (tag s w m) ∧ is_block (tag s w m).
Proof using HC.
  intros [Hi Hm] Hb. destruct (stamp_spec (peer_id s) (master_secret s) (nonce_of w) m Hi Hm (nonce_block w) (proj2 Hb)) as (x & mac & _ & E & Hmac & _).
  rewrite (block_len m Hb) in E. unfold tag, poly_of. by rewrite E.
Qed.

Lemma verify_tag s w m mac : well s → is_block m → is_block mac →
  verify (poly_of s) mac (nonce_of w) m 16 = Some (bool_decide (mac = tag s w m)).
Proof using HC.
  intros Hs Hb [Hl Hm]. destruct (stamp_tag s w m Hs Hb) as [E [Ht _]]. unfold verify. change (to_int 16) with 16. rewrite E.
  cbn [mbind option_bind]. rewrite same_bytes_spec by done. rewrite !drop_0. f_equal. apply bool_decide_ext. split; congruence.
Qed.

(** What a receiver reads in a window. *)
Definition view (s : secret) (msg : list Z) (window : Z) : list Z :=
  if use_encryption then default [] (cipher_decrypt msg (tag s window (MI s))) else msg.

Lemma view_block s msg w : well s → is_block msg → is_block (view s msg w) ∧
  (if use_encryption then cipher_decrypt msg (tag s w (MI s)) else Some msg) = Some (view s msg w).
Proof using HC HD.
  intros Hs Hm. unfold view. destruct use_encryption; [|done].
  destruct (decrypt_total msg (tag s w (MI s)) Hm (proj2 (stamp_tag s w _ Hs (MI_block s Hs)))) as (d & -> & Hd). done.
Qed.

Lemma try_window_spec s msg msg' mac w : well s → is_block msg → is_block mac → (use_encryption = false → msg' = msg) →
  try_window use_encryption s msg msg' mac w = Some (bool_decide (mac = tag s w (view s msg w)), view s msg w).
Proof using HC HD.
  intros Hs Hm Hmac Hmsg. destruct (view_block s msg w Hs Hm) as [Hv Ev]. unfold try_window.
  change MI_SIZE with 16. rewrite (proj1 (stamp_tag s w _ Hs (MI_block s Hs))). cbn [mbind option_bind].
  assert ((if use_encryption then cipher_decrypt msg (tag s w (MI s)) else Some msg') = Some (view s msg w)) as ->.
  { rewrite <- Ev. destruct use_encryption; [done|]. by rewrite Hmsg. }
  cbn [mbind option_bind]. change sizeof_Master_Secret with 16. by rewrite verify_tag.
Qed.

Lemma unpack_spec s msg mac t : well s → is_block msg → is_block mac →
  unpack use_encryption s msg mac t =
    Some (match list_find (λ w, mac = tag s w (view s msg w)) (windows t) with
      | Some (_, w) => (true, view s msg w)
      | None => (false, msg)
      end).
Proof using HC HD.
  intros Hs Hm Hmac. assert (∀ w, use_encryption = false → view s msg w = msg) as Hv by (intros w E; unfold view; by rewrite E).
  unfold unpack, windows. cbn [list_find]. rewrite try_window_spec by done. cbn [mbind option_bind].
  case_decide as H0; [by rewrite bool_decide_true|rewrite bool_decide_false by done].
  rewrite try_window_spec by auto. cbn [mbind option_bind].
  case_decide as H1; [by rewrite bool_decide_true|rewrite bool_decide_false by done].
  rewrite try_window_spec by auto. cbn [mbind option_bind].
  case_decide as H2; [by rewrite bool_decide_true|by rewrite bool_decide_false].
Qed.
End channel.

(** ** Properties *)

Section properties.
Context {C : Block_Cipher} {D : Deciphers C} {HC : Block_Cipher_Laws C} {HD : Deciphers_Laws C D}.
Variable use_encryption : bool.

Lemma find_window (P : Z → Prop) `{∀ w, Decision (P w)} w l : w ∈ l → P w →
  ∃ i w', list_find P l = Some (i, w') ∧ P w'.
Proof.
  intros Hw HP. destruct (list_find_elem_of P l w Hw HP) as [[i w'] E]. exists i, w'. split; [done|].
  by apply list_find_Some in E as (_ & ? & _).
Qed.

Lemma pack_spec s msg now : well s → bytes (take 16 msg) → (32 ≤ length msg)%nat →
  let w := now / POLY_TIME_WINDOW in
  ∃ data, pack use_encryption msg s now = Some (data ++ tag s w (take 16 msg) ++ drop 32 msg) ∧ is_block data ∧
    view use_encryption s data w = take 16 msg.
Proof using HC HD.
  intros Hs Hb Hl. cbv zeta. set (w := now / _). assert (is_block (take 16 msg)) as Hm by (split; [rewrite length_take; lia|done]).
  destruct (stamp_tag s w (take 16 msg) Hs Hm) as [E [Ht _]]. unfold pack. change sizeof_Master_Secret with 16. change MI_SIZE with 16.
  fold w. rewrite E. cbn [mbind option_bind]. rewrite (proj2 (Nat.ltb_ge _ _)) by done. unfold view. destruct use_encryption.
  - destruct (stamp_tag s w (MI s) Hs (MI_block s Hs)) as [-> Hk]. cbn [mbind option_bind].
    rewrite take_app_length' by (destruct Hm; lia). destruct (cipher_total (take 16 msg) _ Hm Hk) as (c & Ec & Hc).
    rewrite Ec. cbn [mbind option_bind]. exists c. rewrite drop_app_length' by (destruct Hm; lia). split; [done|]. split; [done|].
    by rewrite (decrypt_inverts _ _ _ Hm Hk Ec).
  - by exists (take 16 msg).
Qed.

(** C15 Authenticated messages arrive: for every shared secret and over any
    cipher that keeps its promises, what [pack] makes of a message, [unpack]
    accepts at any time of the same, the next or the previous window, and the
    rest of the buffer is untouched.  The data read is what was sent: always
    without encryption, which is how the program is configured
    ([use_encryption] in security.h), and with it when the window is the same;
    with it in a window beside, unless the data deciphered with the key of
    another window happens to have, in that window, the very same
    authenticator, which [unpack] cannot tell from a message of that window. *)
Theorem packed_messages_accepted s msg now t :
  well s → bytes (take 16 msg) → (32 ≤ length msg)%nat → 0 ≤ now < 2 ^ 64 → 0 ≤ t < 2 ^ 64 → near now t →
  ∃ out m, pack use_encryption msg s now = Some out ∧ length out = length msg ∧ drop 32 out = drop 32 msg ∧
    unpack use_encryption s (take 16 out) (take 16 (drop 16 out)) t = Some (true, m) ∧
    (use_encryption = false ∨ now / POLY_TIME_WINDOW = t / POLY_TIME_WINDOW → m = take 16 msg) ∧
    (m = take 16 msg ∨ ∃ v, v ∈ windows t ∧ v ≠ now / POLY_TIME_WINDOW ∧
      tag s v m = tag s (now / POLY_TIME_WINDOW) (take 16 msg)).
Proof using HC HD.
  intros Hs Hb Hl Hnow Ht Hnear. destruct (pack_spec s msg now Hs Hb Hl) as (data & E & Hd & Hv). cbv zeta in *.
  set (w := now / POLY_TIME_WINDOW) in *. assert (is_block (take 16 msg)) as Hm by (split; [rewrite length_take; lia|done]).
  destruct (stamp_tag s w (take 16 msg) Hs Hm) as [_ Hmac]. exists (data ++ tag s w (take 16 msg) ++ drop 32 msg).
  rewrite (take_app_length' data), (drop_app_length' data _ 16) by (destruct Hd; lia).
  rewrite (take_app_length' (tag s w (take 16 msg))) by (destruct Hmac; lia).
  pose proof (unpack_spec use_encryption s data (tag s w (take 16 msg)) t Hs Hd Hmac) as Eu.
  destruct (find_window (λ v, tag s w (take 16 msg) = tag s v (view use_encryption s data v)) w (windows t)) as (i & v & Ef & _);
    [by apply near_windows|by rewrite Hv|]. rewrite Ef in Eu. eexists. split; [done|].
  split; [rewrite !length_app, length_drop; destruct Hd, Hmac; lia|].
  split; [rewrite drop_app_ge, drop_app_length' by (destruct Hd, Hmac; rewrite ?length_app; lia); done|]. split; [exact Eu|].
  pose proof Ef as (Ev & Hcol & _)%list_find_Some. apply list_elem_of_lookup_2 in Ev. split.
  2:{ destruct (decide (view use_encryption s data v = take 16 msg)) as [|Hne]; [by left|right]. exists v.
      split_and!; [done|intros ->; congruence|done]. }
  clear Ev Hcol. intros [Hu|Hw].
  - revert Hv. unfold view. by rewrite Hu.
  - assert (v = w) as ->; [|done]. apply list_find_Some in Ef as (Ev & _ & Hfirst). destruct i as [|i].
    + unfold windows in Ev. cbn in Ev. injection Ev as <-. by rewrite <- Hw.
    + exfalso. apply (Hfirst 0%nat w); [unfold windows; cbn; by rewrite <- Hw|lia|by rewrite Hv].
Qed.

(** C14 Nothing else is accepted: [unpack] always answers; it says yes only if
    the 16 bytes after the data are the tag, in one of the three windows, of
    the data it leaves in the buffer, and when it says no the data is as it
    came. *)
Theorem unpack_authentic s msg mac t : well s → is_block msg → is_block mac →
  ∃ ok m, unpack use_encryption s msg mac t = Some (ok, m) ∧
    (ok = true ↔ ∃ w, w ∈ windows t ∧ mac = tag s w (view use_encryption s msg w)) ∧
    (ok = true → ∃ w, w ∈ windows t ∧ m = view use_encryption s msg w ∧ mac = tag s w m) ∧ (ok = false → m = msg).
Proof using HC HD.
  intros Hs Hm Hmac. rewrite unpack_spec by done. destruct (list_find _ _) as [[i w]|] eqn:E.
  - apply list_find_Some in E as (Ew & Hw & _). apply list_elem_of_lookup_2 in Ew.
    eexists _, _. split; [done|]. split; [split; [by exists w|done]|]. split; [by exists w|done].
  - apply list_find_None in E. eexists _, _. split; [done|]. split; [|done]. split; [done|]. intros (w & Hw & Hmw).
    by rewrite Forall_forall in E; destruct (E w Hw).
Qed.

Lemma verify_request_spec s o t : well s → is_block o →
  verify_auth_request s o t = Some (bool_decide (o ∈ (λ w, tag s w (MI s)) <$> windows t)).
Proof using HC.
  intros Hs Ho. pose proof (MI_block s Hs) as Hmi. unfold verify_auth_request, windows. change MI_SIZE with 16. cbn [fmap list_fmap].
  rewrite (verify_tag s (t / POLY_TIME_WINDOW)) by done. cbn [mbind option_bind].
  case_bool_decide as H0; [f_equal; symmetry; apply bool_decide_true; rewrite !elem_of_cons; tauto|].
  rewrite (verify_tag s (u64 (t / POLY_TIME_WINDOW - 1))) by done. cbn [mbind option_bind].
  case_bool_decide as H1; [f_equal; symmetry; apply bool_decide_true; rewrite !elem_of_cons; tauto|].
  rewrite verify_tag by done. f_equal. apply bool_decide_ext. rewrite !elem_of_cons, elem_of_nil. tauto.
Qed.

(** A password is the tag of the identifiers in the current window. *)
Lemma otp_tag s now : well s → otp s now = Some (tag s (now / POLY_TIME_WINDOW) (MI s)) ∧ is_block (tag s (now / POLY_TIME_WINDOW) (MI s)).
Proof using HC. intros Hs. apply stamp_tag; [done|by apply MI_block]. Qed.

Lemma otp_accepted s now t : well s → 0 ≤ now < 2 ^ 64 → 0 ≤ t < 2 ^ 64 → near now t →
  ∃ o, otp s now = Some o ∧ is_block o ∧ verify_auth_request s o t = Some true.
Proof using HC.
  intros Hs Hnow Ht Hnear. destruct (otp_tag s now Hs) as [E Hb]. eexists. split; [exact E|]. split; [done|].
  rewrite verify_request_spec by done. f_equal. apply bool_decide_true.
  apply list_elem_of_fmap. eexists. split; [done|]. by apply near_windows.
Qed.

(** One-time passwords: who knows the secret makes a password that is
    verified in the same, the next and the previous window, and a block that
    is not the password of one of the three windows is refused. *)
Theorem passwords_verified s now t password : well s → 0 ≤ now < 2 ^ 64 → 0 ≤ t < 2 ^ 64 →
  (near now t → ∃ o, otp s now = Some o ∧ is_block o ∧ verify_auth_request s o t = Some true) ∧
  (is_block password → verify_auth_request s password t = Some (bool_decide (password ∈ (λ w, tag s w (MI s)) <$> windows t))).
Proof using HC.
  intros Hs Hnow Ht. split; [intros Hn; by apply otp_accepted|by apply verify_request_spec].
Qed.
End properties.

(** ** Witnesses, over the software AES *)

Definition alice : secret := {| peer_id := Z.of_nat <$> seq 1 16; master_secret := Z.of_nat <$> seq 101 16 |}.
Definition letter : list Z := Z.of_nat <$> seq 65 40.

Lemma alice_well : well alice.
Proof. split; (split; [done|]); by apply (bool_decide_unpack _); vm_compute. Qed.

Lemma letter_bytes : bytes (take 16 letter) ∧ (32 ≤ length letter)%nat.
Proof. split; apply (bool_decide_unpack _); by vm_compute. Qed.

Lemma times_ok : 0 ≤ 59999999 < 2 ^ 64 ∧ 0 ≤ 60000000 < 2 ^ 64 ∧ near 59999999 60000000.
Proof. unfold near. vm_compute. split_and!; congruence. Qed.

Example packed_messages_accepted_witness : ∃ out m,
  pack true letter alice 59999999 = Some out ∧ unpack true alice (take 16 out) (take 16 (drop 16 out)) 60000000 = Some (true, m).
Proof.
  destruct letter_bytes as [Hb Hl], times_ok as (Hn & Ht & Hw).
  destruct (packed_messages_accepted true alice letter 59999999 60000000 alice_well Hb Hl Hn Ht Hw) as (out & m & E & _ & _ & Eu & _).
  exists out, m. exact (conj E Eu).
Defined.

Example unpack_authentic_witness : ∃ ok m, unpack false alice (take 16 letter) (take 16 letter) 7 = Some (ok, m) ∧ (ok = false → m = take 16 letter).
Proof.
  assert (is_block (take 16 letter)) as Hm by exact (conj eq_refl (proj1 letter_bytes)).
  destruct (unpack_authentic false alice (take 16 letter) (take 16 letter) 7 alice_well Hm Hm) as (ok & m & E & _ & _ & Hk).
  exists ok, m. exact (conj E Hk).
Defined.

Example passwords_verified_witness : ∃ o, otp alice 59999999 = Some o ∧ verify_auth_request alice o 60000000 = Some true.
Proof.
  destruct times_ok as (Hn & Ht & Hw).
  destruct (passwords_verified alice 59999999 60000000 [] alice_well Hn Ht) as [H _].
  destruct (H Hw) as (o & E & _ & Ev). exists o. exact (conj E Ev).
Defined.

(** A message changed on the way is refused, and so is one that is late. *)
Example tampered_message_refused :
  (out ← pack true letter alice 30000000;
   a ← unpack true alice (<[3%nat := 0]> (take 16 out)) (take 16 (drop 16 out)) 30000000;
   b ← unpack true alice (take 16 out) (take 16 (drop 16 out)) 90000000;
   c ← unpack true alice (take 16 out) (take 16 (drop 16 out)) 59999999;
   Some (a.1, b.1, c)) = Some (false, false, (true, take 16 letter)).
Proof. by vm_compute. Qed.
