(* ===== verification/Text.v ===== *)
(** * Text output and its numbers (include/utility/ostream.h,
      src/utility/ostream.cc, src/utility/string.cc)

    Class [OStream]: every insertion formats into a local array of 64
    characters and prints it up to its NUL; and the conversions of string.cc,
    of which [atol] reads back.  An array is the list of its characters, an
    access outside it is undefined, as a signed operation that overflows is:
    the program is stuck then.  Integers have the sizes of a 32-bit machine
    ([int] and [long] of 32 bits, [long long] of 64).  Loops over the digits
    of a number take 64 as fuel; a number of 64 bits has no more digits. *)

From Stdlib Require Import SpecFloat.
From stdpp Require Import prelude strings.
From S2P Require Import Prelude PyStr StateM.

(** ** Machine integers *)

Definition signed (w x : Z) : option Z := if decide (-2 ^ (w - 1) ≤ x < 2 ^ (w - 1)) then Some x else None.
(** A conversion to an unsigned or a signed type. *)
Definition unsigned (w x : Z) : Z := x mod 2 ^ w.
Definition to_signed (w x : Z) : Z := let y := unsigned w x in if y <? 2 ^ (w - 1) then y else y - 2 ^ w.

(** ** Arrays of characters *)

Abbreviation T := (ST (list Z)).
Implicit Types s : list Z.

(** [s[i] = c] *)
Definition store (i c : Z) : T () := λ s,
  if (0 <=? i) && (i <? zlen s) then Some ((), <[Z.to_nat i := c]> s) else None.
Definition fetch (i : Z) : T Z := λ s,
  if (0 <=? i) && (i <? zlen s) then Some (s !!! Z.to_nat i, s) else None.
(** A value that may be undefined. *)
Definition given {A} (o : option A) : T A := λ s, x ← o; Some (x, s).

Definition NUL : Z := 0.

(** What [_print] puts on the display: the characters up to the NUL. *)
Definition c_string (s : list Z) : option (list Z) :=
  match list_find (λ c, c = NUL) s with Some (i, _) => Some (take i s) | None => None end.

(** ** OStream's conversions *)

Definition _digits : list Z := lit "0123456789abcdef".

(** [for(j = v; j != 0; i++, j /= _base);] *)
Fixpoint count_loop (fuel : nat) (_base i j : Z) : option Z :=
  if j =? 0 then Some i
  else match fuel with O => None | S fuel' => count_loop fuel' _base (i + 1) (j / _base) end.

(** [for(j = 0; v != 0; j++, v /= _base) s[i - 1 - j] = _digits[v % _base];] *)
Fixpoint digit_loop (fuel : nat) (_base i j v : Z) : T () :=
  if v =? 0 then mret ()
  else match fuel with
  | O => stuck
  | S fuel' => _ ← store (i - 1 - j) (_digits !!! Z.to_nat (v mod _base)); digit_loop fuel' _base i (j + 1) (v / _base)
  end.

(** [utoa] and [llutoa], whose text is the same. *)
Definition utoa (_base v i : Z) : T Z :=
  if v =? 0 then _ ← store i (chr "0"); mret (i + 1)
  else
    i ← (if v >? 256 then
      i ← (if (_base =? 8) || (_base =? 16) then _ ← store i (chr "0"); mret (i + 1) else mret i);
      (if _base =? 16 then _ ← store i (chr "x"); mret (i + 1) else mret i)
    else mret i);
    i ← given (count_loop 64 _base i v);
    _ ← digit_loop 64 _base i 0 v;
    mret i.
Definition llutoa : Z → Z → Z → T Z := utoa.

(** [itoa] and [llitoa]: of 32 and of 64 bits. *)
Definition to_text (w _base v : Z) : T Z :=
  if v <? 0 then
    v ← given (signed w (- v));
    _ ← store 0 (chr "-");
    utoa _base (unsigned w v) 1
  else utoa _base (unsigned w v) 0.
Definition itoa : Z → Z → T Z := to_text 32.
Definition llitoa : Z → Z → T Z := to_text 64.

(** [for(j = 0; j < 8; j++, v >>= 4) s[9 - j] = _digits[v & 0xf];] *)
Fixpoint ptoa_loop (n : nat) (j v : Z) : T () :=
  match n with
  | O => mret ()
  | S n' => _ ← store (2 + 8 - 1 - j) (_digits !!! Z.to_nat (Z.land v 0xf)); ptoa_loop n' (j + 1) (Z.shiftr v 4)
  end.
Definition ptoa (p : Z) : T Z :=
  _ ← store 0 (chr "0");
  _ ← store 1 (chr "x");
  _ ← ptoa_loop 8 0 (unsigned 32 p);
  mret (8 + 2).

(** ** The stream *)

Inductive item :=
| Begl | Endl | Hex | Dec | Oct | Bin | Err
| Char (c : Z) | Uchar (c : Z) | Int (i : Z) | Short (i : Z) | Long (l : Z)
| Uint (u : Z) | Ushort (u : Z) | Ulong (u : Z) | Longlong (u : Z) | Ulonglong (u : Z)
| Pointer (p : Z) | Str (s : list Z) | Float (f : spec_float).

(** What the display and the other functions it calls get to see. *)
Inductive event := Preamble | Print (s : list Z) | Trailler (error : bool).

Record ostream := { _base : Z; _error : bool }.
Definition OStream : ostream := {| _base := 10; _error := false |}.
Definition with_base (b : Z) (o : ostream) : ostream := {| _base := b; _error := _error o |}.

(** [char buf[64]; buf[conversion(buf)] = '\0'; print(buf);], the array holding
    whatever the stack held. *)
Definition put_number (buf : list Z) (conversion : T Z) : option (list event) :=
  '(n, s) ← conversion buf;
  '(_, s) ← store n NUL s;
  s ← c_string s;
  Some [Print s].

(** *** Floats, of 24 bits and exponents up to 128 *)

Definition float_of (x : Z) : spec_float := binary_normalize 24 128 x 0 false.
Definition float_lt (f g : spec_float) : bool := match SFcompare f g with Some Lt => true | _ => false end.

(** 0.0001f, and a conversion to [long long], towards zero. *)
Definition tenth_of_milli : spec_float := S754_finite false 13743895 (-37).
Definition float_to_ll (f : spec_float) : option Z :=
  match f with
  | S754_zero _ => Some 0
  | S754_finite sg m e =>
      let x := if 0 <=? e then Z.pos m * 2 ^ e else Z.pos m / 2 ^ (- e) in
      signed 64 (if sg then - x else x)
  | _ => None
  end.

Section insertion.
(** [Traits<System>::multicore] and what is on the stack. *)
Variables (multicore : bool) (buf : list Z).

Definition insert_ll (o : ostream) (v : Z) : option (list event) := put_number buf (llitoa (_base o) v).

Definition insert_float (o : ostream) (f : spec_float) : option (list event) :=
  if float_lt f tenth_of_milli && float_lt (SFopp tenth_of_milli) f then Some [Print (lit "0.0000")]
  else
    let '(sign, f) := if float_lt f (S754_zero false) then ([Print (lit "-")], SFmul 24 128 f (float_of (-1))) else ([], f) in
    b ← float_to_ll f;
    whole ← insert_ll o b;
    m ← float_to_ll (SFmul 24 128 (SFsub 24 128 f (float_of b)) (float_of 10000));
    fraction ← insert_ll o m;
    Some (sign ++ whole ++ [Print (lit ".")] ++ fraction).

(** [operator<<], the overload of each type. *)
Definition insert (o : ostream) (x : item) : option (ostream * list event) :=
  match x with
  | Begl => Some (o, if multicore then [Preamble] else [])
  | Endl => Some (with_base 10 o, (if multicore then [Trailler (_error o)] else []) ++ [Print (lit "
")])
  | Hex => Some (with_base 16 o, [])
  | Dec => Some (with_base 10 o, [])
  | Oct => Some (with_base 8 o, [])
  | Bin => Some (with_base 2 o, [])
  | Err => Some ({| _base := _base o; _error := true |}, [])
  | Char c => s ← c_string [c; NUL]; Some (o, [Print s])
  | Uchar u | Uint u | Ushort u => e ← put_number buf (utoa (_base o) u 0); Some (o, e)
  | Ulong u => e ← put_number buf (utoa (_base o) (unsigned 32 u) 0); Some (o, e)
  | Int i | Short i => e ← put_number buf (itoa (_base o) i); Some (o, e)
  | Long i => e ← put_number buf (itoa (_base o) (to_signed 32 i)); Some (o, e)
  | Longlong v => e ← put_number buf (llitoa (_base o) v); Some (o, e)
  | Ulonglong v => e ← put_number buf (llutoa (_base o) v 0); Some (o, e)
  | Pointer p => e ← put_number buf (ptoa p); Some (o, e)
  | Str s => s ← c_string (s ++ [NUL]); Some (o, [Print s])
  | Float f => e ← insert_float o f; Some (o, e)
  end.

Fixpoint insert_all (o : ostream) (xs : list item) : option (ostream * list event) :=
  match xs with
  | [] => Some (o, [])
  | x :: xs' => '(o, e) ← insert o x; '(o, e') ← insert_all o xs'; Some (o, e ++ e')
  end.
End insertion.

(** ** string.cc *)

(** [while(v) { int i = v % 10; v /= 10; *buf++ = i + '0'; }]: the characters
    in [buffer], the first one last. *)
Fixpoint buffer_loop (fuel : nat) (v : Z) (buffer : list Z) : option (list Z) :=
  if v =? 0 then Some buffer
  else match fuel with
  | O => None
  | S fuel' =>
      if decide (11 ≤ length buffer)%nat then None
      else buffer_loop fuel' (v / 10) ((v mod 10 + chr "0") :: buffer)
  end.

(** [while(buf > buffer) *s++ = *--buf;] *)
Fixpoint copy_loop (i : Z) (buffer : list Z) : T Z :=
  match buffer with
  | [] => mret i
  | c :: buffer' => _ ← store i c; copy_loop (i + 1) buffer'
  end.

Definition c_itoa (value : Z) : T () :=
  '(i, v) ← (if value <? 0 then
      _ ← store 0 (chr "-");
      v ← given (signed 32 (- value));
      mret (1, unsigned 32 v)
    else if value =? 0 then _ ← store 0 (chr "0"); mret (1, 0)
    else mret (0, unsigned 32 value));
  buffer ← given (buffer_loop 64 v []);
  i ← copy_loop i buffer;
  store i NUL.

(** [utoa] of string.cc puts no NUL. *)
Definition c_utoa (v : Z) : T Z :=
  i ← (if v =? 0 then _ ← store 0 (chr "0"); mret 1 else mret 0);
  i ← given (count_loop 64 10 i v);
  _ ← digit_loop 64 10 i 0 v;
  mret i.

(** [while(( *s >= '0') && ( *s <= '9')) ret = ret * 10 + *s++ - '0';] *)
Fixpoint atol_loop (fuel : nat) (i ret : Z) : T Z :=
  match fuel with
  | O => stuck
  | S fuel' =>
      c ← fetch i;
      if (chr "0" <=? c) && (c <=? chr "9") then
        ret ← given (signed 32 (ret * 10));
        ret ← given (signed 32 (ret + c));
        ret ← given (signed 32 (ret - chr "0"));
        atol_loop fuel' (i + 1) ret
      else mret ret
  end.

(** One round for each character there may be. *)
Definition atol : T Z := λ s,
  (c ← fetch 0;
   if c =? chr "-" then
     ret ← atol_loop (length s) 1 0; given (signed 32 (- ret))
   else atol_loop (length s) 0 0) s.

(** [i = (i << 3) + (i << 1) + ( *s - '0')], to the NUL. *)
Fixpoint atoi_loop (fuel : nat) (i s_ : Z) : T Z :=
  match fuel with
  | O => stuck
  | S fuel' =>
      c ← fetch s_;
      if c =? NUL then mret i
      else
        a ← given (signed 32 (Z.shiftl i 3));
        b ← given (signed 32 (Z.shiftl i 1));
        i ← given (signed 32 (a + b));
        i ← given (signed 32 (i + (c - chr "0")));
        atoi_loop fuel' i (s_ + 1)
  end.
Definition atoi : T Z := λ s, atoi_loop (length s) 0 0 s.

(** ** Numerals *)

(** The digits of a number, the last one first. *)
Fixpoint lsd (n : nat) (base v : Z) : list Z :=
  match n with
  | O => []
  | S n' => if v =? 0 then [] else v mod base :: lsd n' base (v / base)
  end.

Definition digit_char (d : Z) : Z := _digits !!! Z.to_nat d.

Definition prefix (base v : Z) : list Z :=
  if v >? 256 then (if base =? 16 then lit "0x" else if base =? 8 then lit "0" else []) else [].

Definition magnitude (base v : Z) : list Z :=
  if v =? 0 then lit "0" else prefix base v ++ reverse (digit_char <$> lsd 64 base v).

(** What a number looks like in a base. *)
Definition numeral (base v : Z) : list Z := if v <? 0 then lit "-" ++ magnitude base (- v) else magnitude base v.

Definition is_base (b : Z) : Prop := b = 2 ∨ b = 8 ∨ b = 10 ∨ b = 16.

Lemma base_ge b : is_base b → 2 ≤ b ≤ 16.
Proof. unfold is_base. lia. Qed.

Lemma zlen_0 {A} (l : list A) : zlen l = 0 → l = [].
Proof. destruct l as [|x l]; [done|]. rewrite zlen_cons. pose proof (zlen_nonneg l). lia. Qed.
Lemma zlen_reverse {A} (l : list A) : zlen (reverse l) = zlen l.
Proof. unfold zlen. by rewrite length_reverse. Qed.
Lemma zlen_fmap {A B} (f : A → B) (l : list A) : zlen (f <$> l) = zlen l.
Proof. unfold zlen. by rewrite length_fmap. Qed.

Lemma div_small b v n : 2 ≤ b → 0 ≤ v < 2 ^ Z.of_nat (S n) → 0 ≤ v / b < 2 ^ Z.of_nat n.
Proof.
  intros Hb Hv. rewrite Nat2Z.inj_succ, Z.pow_succ_r in Hv by lia. split; [apply Z.div_pos; lia|].
  apply Z.div_lt_upper_bound; [lia|]. nia.
Qed.

Lemma lsd_digits b v n : 2 ≤ b → Forall (λ d, 0 ≤ d < b) (lsd n b v).
Proof.
  intros Hb. revert v; induction n as [|n IH]; intros v; [constructor|]. cbn [lsd]. destruct (v =? 0); [constructor|].
  constructor; [apply Z.mod_pos_bound; lia|apply IH].
Qed.

Lemma count_loop_spec b n i v : 2 ≤ b → 0 ≤ v < 2 ^ Z.of_nat n → count_loop n b i v = Some (i + zlen (lsd n b v)).
Proof.
  intros Hb. revert i v; induction n as [|n IH]; intros i v Hv; cbn [count_loop lsd].
  - assert (v = 0) as -> by (cbn in Hv; lia). change (zlen []) with 0; by rewrite Z.add_0_r.
  - destruct (Z.eqb_spec v 0) as [->|H0]; [change (zlen []) with 0; by rewrite Z.add_0_r|]. rewrite IH by by apply div_small. rewrite zlen_cons. f_equal. lia.
Qed.

(** Lengths of arrays put together. *)
Ltac zlens := rewrite ?zlen_app, ?zlen_cons, ?zlen_reverse, ?zlen_fmap, ?zlen_nil; lia.

(** *** Arrays *)

Lemma store_at i c s p x q : s = p ++ x :: q → i = zlen p → store i c s = Some ((), p ++ c :: q).
Proof.
  intros -> ->. unfold store. rewrite zlen_app, zlen_cons. pose proof (zlen_nonneg p). pose proof (zlen_nonneg q).
  rewrite (proj2 (Z.leb_le _ _)), (proj2 (Z.ltb_lt _ _)) by lia. cbn [andb]. unfold zlen. rewrite Nat2Z.id.
  by rewrite insert_app_r_alt, Nat.sub_diag by lia.
Qed.

Lemma fetch_at i s p x q : s = p ++ x :: q → i = zlen p → fetch i s = Some (x, s).
Proof.
  intros -> ->. unfold fetch. rewrite zlen_app, zlen_cons. pose proof (zlen_nonneg p). pose proof (zlen_nonneg q).
  rewrite (proj2 (Z.leb_le _ _)), (proj2 (Z.ltb_lt _ _)) by lia. cbn [andb]. unfold zlen. rewrite Nat2Z.id.
  by rewrite list_lookup_total_middle.
Qed.

(** The digits fill the room there is for them, from the last to the first. *)
Lemma digit_loop_spec b n i j v p mid q : 2 ≤ b → 0 ≤ v < 2 ^ Z.of_nat n → zlen mid = zlen (lsd n b v) → i - j = zlen p + zlen mid →
  digit_loop n b i j v (p ++ mid ++ q) = Some ((), p ++ reverse (digit_char <$> lsd n b v) ++ q).
Proof.
  intros Hb. revert j v mid q; induction n as [|n IH]; intros j v mid q Hv Hm Hi; cbn [digit_loop lsd] in *.
  - assert (v = 0) as -> by (cbn in Hv; lia). apply zlen_0 in Hm as ->. done.
  - destruct (Z.eqb_spec v 0) as [->|H0]; [by apply zlen_0 in Hm as ->|].
    rewrite zlen_cons in Hm. destruct (exists_last (l := mid)) as (mid' & x & ->); [intros ->; change (zlen []) with 0 in Hm; pose proof (zlen_nonneg (lsd n b (v / b))); lia|].
    rewrite zlen_app in Hm, Hi. change (zlen [x]) with 1 in Hm, Hi. unfold mbind, ST_bind.
    rewrite (store_at _ _ _ (p ++ mid') x q); [|by rewrite <- !app_assoc|rewrite zlen_app; lia]. cbn [mbind option_bind].
    rewrite <- app_assoc. rewrite (IH (j + 1) (v / b) mid') by (by apply div_small || lia).
    rewrite fmap_cons, reverse_cons, <- app_assoc. done.
Qed.

Lemma wp_store_char i c s p x q (Q : () → list Z → Prop) : s = p ++ x :: q → i = zlen p → Q () (p ++ c :: q) → wp (store i c) Q s.
Proof. intros Hs Hi HQ. unfold wp. by rewrite (store_at i c s p x q). Qed.

Lemma wp_given {A} (a : A) s (Q : A → list Z → Prop) : Q a s → wp (given (Some a)) Q s.
Proof. done. Qed.

Lemma wp_digits b v p mid q (Q : Z → list Z → Prop) : is_base b → 0 ≤ v < 2 ^ 64 → zlen mid = zlen (lsd 64 b v) →
  Q (zlen p + zlen mid) (p ++ reverse (digit_char <$> lsd 64 b v) ++ q) →
  wp (i ← given (count_loop 64 b (zlen p) v); _ ← digit_loop 64 b i 0 v; mret i) Q (p ++ mid ++ q).
Proof.
  intros Hb%base_ge Hv Hm HQ. rewrite count_loop_spec by (done || lia). apply wp_seq, wp_given, wp_seq. unfold wp at 1.
  rewrite (digit_loop_spec b 64 _ 0 v p mid q) by (done || lia). apply wp_ret. by rewrite <- Hm.
Qed.

Lemma split_first {A} (l : list A) n : 0 ≤ n → zlen l = 1 + n → ∃ x l', l = x :: l' ∧ zlen l' = n.
Proof. intros Hn. destruct l as [|x l]; [change (zlen []) with 0; lia|]. rewrite zlen_cons. intros H. exists x, l. split; [done|lia]. Qed.

(** [utoa] writes the magnitude from [i] on, and returns its end. *)
Lemma utoa_spec b v p mid q : is_base b → 0 ≤ v < 2 ^ 64 → zlen mid = zlen (magnitude b v) →
  wp (utoa b v (zlen p)) (λ i s, i = zlen p + zlen mid ∧ s = p ++ magnitude b v ++ q) (p ++ mid ++ q).
Proof.
  intros Hb Hv Hm. unfold utoa, magnitude in *. destruct (Z.eqb_spec v 0) as [->|H0].
  { destruct (split_first mid 0) as (x & l & -> & Hl); [done|exact Hm|]. apply zlen_0 in Hl as ->.
    apply wp_seq. eapply wp_store_char; [done|done|]. by apply wp_ret. }
  pose proof (zlen_nonneg (lsd 64 b v)) as Hn. unfold prefix in *. rewrite zlen_app, zlen_reverse, zlen_fmap in Hm. destruct (v >? 256).
  2: { apply wp_seq, wp_ret. apply wp_digits; [done..|]. done. }
  destruct Hb as [->|[->|[->| ->]]]; cbn [Z.eqb Pos.eqb orb] in *.
  - apply wp_seq, wp_seq, wp_ret, wp_ret. apply wp_digits; [by left|done..].
  - change (zlen (lit "0")) with 1 in Hm. destruct (split_first mid _ Hn Hm) as (x & l & -> & Hl).
    apply wp_seq, wp_seq, wp_seq, (wp_store_char _ _ _ p x (l ++ q)); [done..|]. apply wp_ret, wp_ret.
    replace (zlen p + 1) with (zlen (p ++ [chr "0"])) by by rewrite zlen_app.
    replace (p ++ chr "0" :: l ++ q) with ((p ++ [chr "0"]) ++ l ++ q) by by rewrite <- app_assoc.
    apply wp_digits; [right; by left|done|done|]. rewrite <- !app_assoc. split; [zlens|done].
  - apply wp_seq, wp_seq, wp_ret, wp_ret. apply wp_digits; [right; right; by left|done..].
  - change (zlen (lit "0x")) with 2 in Hm. destruct (split_first mid (1 + zlen (lsd 64 16 v)) ltac:(lia) ltac:(lia)) as (x & l & -> & Hl).
    destruct (split_first l _ Hn Hl) as (y & k & -> & Hk).
    apply wp_seq, wp_seq, wp_seq, (wp_store_char _ _ _ p x ((y :: k) ++ q)); [done..|]. apply wp_ret, wp_seq.
    apply (wp_store_char _ _ _ (p ++ [chr "0"]) y (k ++ q)); [by rewrite <- app_assoc|by rewrite zlen_app|]. apply wp_ret.
    replace (zlen p + 1 + 1) with (zlen (p ++ lit "0x")) by (rewrite zlen_app; change (zlen (lit "0x")) with 2; lia).
    replace ((p ++ [chr "0"]) ++ chr "x" :: k ++ q) with ((p ++ lit "0x") ++ k ++ q) by by rewrite <- !app_assoc.
    apply wp_digits; [by repeat right|done|done|]. rewrite <- !app_assoc. split; [rewrite zlen_app; change (zlen (lit "0x")) with 2; zlens|done].
Qed.

(** *** How long numerals are *)

Lemma lsd_short b n k v : 2 ≤ b → 0 ≤ v < b ^ Z.of_nat k → zlen (lsd n b v) ≤ Z.of_nat k.
Proof.
  intros Hb. revert k v; induction n as [|n IH]; intros k v Hv; cbn [lsd]; [rewrite zlen_nil; lia|].
  destruct (Z.eqb_spec v 0) as [->|H0]; [rewrite zlen_nil; lia|]. destruct k as [|k]; [cbn in Hv; lia|].
  rewrite Nat2Z.inj_succ, Z.pow_succ_r in Hv by lia. rewrite zlen_cons. specialize (IH k (v / b)).
  assert (0 ≤ v / b < b ^ Z.of_nat k) by (split; [apply Z.div_pos; lia|apply Z.div_lt_upper_bound; lia]). lia.
Qed.

Lemma lsd_long b n k v : 2 ≤ b → (k < n)%nat → b ^ Z.of_nat k ≤ v → Z.of_nat k < zlen (lsd n b v).
Proof.
  intros Hb. revert k v; induction n as [|n IH]; intros k v Hk Hv; [lia|]. cbn [lsd].
  pose proof (Z.pow_pos_nonneg b (Z.of_nat k) ltac:(lia) ltac:(lia)). destruct (Z.eqb_spec v 0) as [->|H0]; [lia|].
  rewrite zlen_cons. destruct k as [|k]; [pose proof (zlen_nonneg (lsd n b (v / b))); lia|].
  rewrite Nat2Z.inj_succ, Z.pow_succ_r in Hv by lia. specialize (IH k (v / b) ltac:(lia)).
  assert (b ^ Z.of_nat k ≤ v / b) by (apply Z.div_le_lower_bound; lia). lia.
Qed.

(** 64 characters hold the magnitude of 64 bits, but for 64 bits in base 2. *)
Lemma magnitude_length b v : is_base b → 0 ≤ v < 2 ^ 64 →
  (zlen (magnitude b v) ≤ 64) ∧ (b ≠ 2 → zlen (magnitude b v) ≤ 24) ∧
  (∀ k : nat, b = 2 → v < 2 ^ Z.of_nat (S k) → zlen (magnitude b v) ≤ Z.of_nat (S k)) ∧
  (∀ k : nat, b = 2 → (k < 64)%nat → 2 ^ Z.of_nat k ≤ v → Z.of_nat k < zlen (magnitude b v)).
Proof.
  intros Hb Hv. pose proof (zlen_nonneg (lsd 64 b v)) as Hn.
  assert (b = 2 → zlen (lsd 64 b v) ≤ 64) as H2 by (intros ->; by apply (lsd_short 2 64 64)).
  assert (b ≠ 2 → zlen (lsd 64 b v) ≤ 22) as H8.
  { intros Hb2. assert (8 ^ 22 ≤ b ^ 22) as Hp by (apply Z.pow_le_mono_l; unfold is_base in Hb; lia).
    apply (lsd_short b 64 22); [pose proof (base_ge b Hb); lia|]. change (Z.of_nat 22) with 22. change (8 ^ 22) with (2 ^ 66) in Hp. lia. }
  unfold magnitude. destruct (Z.eqb_spec v 0) as [->|H0].
  { change (zlen (lit "0")) with 1. split_and!; intros; try lia; pose proof (Z.pow_pos_nonneg 2 (Z.of_nat k) ltac:(lia) ltac:(lia)); lia. }
  rewrite zlen_app, zlen_reverse, zlen_fmap.
  assert (zlen (prefix b v) ≤ 2 ∧ (b = 2 → zlen (prefix b v) = 0) ∧ 0 ≤ zlen (prefix b v)) as (Hp1 & Hp2 & Hp3).
  { unfold prefix. destruct (v >? 256); [|by cbn]. destruct Hb as [->|[->|[->| ->]]]; by cbn. }
  split; [destruct (decide (b = 2)); lia|]. split; [lia|]. split; intros k E Hk.
  - subst. pose proof (lsd_short 2 64 (S k) v ltac:(lia) ltac:(lia)). lia.
  - subst. intros Hk'. pose proof (lsd_long 2 64 k v ltac:(lia) Hk Hk'). lia.
Qed.

(** *** No numeral has a NUL *)

Lemma digit_char_val d : 0 ≤ d < 16 → digit_char d = if d <? 10 then chr "0" + d else chr "a" + (d - 10).
Proof.
  intros Hd. assert (Forall (λ d, digit_char d = if d <? 10 then chr "0" + d else chr "a" + (d - 10)) (seqZ 0 16)) as H by repeat constructor.
  rewrite Forall_forall in H. apply H, elem_of_seqZ. lia.
Qed.

Lemma magnitude_chars b v : is_base b → Forall (λ c, c ≠ NUL ∧ c ≠ chr "-") (magnitude b v).
Proof.
  intros Hb%base_ge. unfold magnitude, prefix. destruct (v =? 0); [by repeat constructor|]. apply Forall_app. split.
  - destruct (v >? 256), (b =? 16), (b =? 8); by repeat constructor.
  - apply Forall_reverse, Forall_fmap. eapply Forall_impl; [apply lsd_digits; lia|]. intros d [Hd1 Hd2]. unfold compose.
    rewrite digit_char_val by lia. unfold NUL. change (chr "0") with 48. change (chr "a") with 97. change (chr "-") with 45.
    destruct (Z.ltb_spec d 10); lia.
Qed.

Lemma numeral_chars b v : is_base b → Forall (λ c, c ≠ NUL) (numeral b v).
Proof.
  intros Hb. unfold numeral. destruct (v <? 0); [apply Forall_app; split; [by repeat constructor|]|];
    (eapply Forall_impl; [by apply magnitude_chars|]; by intros ? [? _]).
Qed.

Lemma c_string_app t q : Forall (λ c, c ≠ NUL) t → c_string (t ++ NUL :: q) = Some t.
Proof.
  intros Ht. unfold c_string. assert (list_find (λ c, c = NUL) (t ++ NUL :: q) = Some (length t, NUL)) as ->.
  { apply list_find_Some. rewrite list_lookup_middle by done. split_and!; [done..|]. intros j y Hj Hlt.
    rewrite lookup_app_l in Hj by done. exact (Forall_lookup_1 _ _ _ _ Ht Hj). }
  by rewrite take_app_length.
Qed.

(** *** Insertions *)

Lemma put_number_spec buf conversion t :
  (∀ mid q, buf = mid ++ q → zlen mid = zlen t → wp conversion (λ n s, n = zlen t ∧ s = t ++ q) buf) →
  zlen t ≤ zlen buf → Forall (λ c, c ≠ NUL) t →
  put_number buf conversion = if zlen t <? zlen buf then Some [Print t] else None.
Proof.
  intros Hc Hl Ht. set (mid := take (length t) buf). set (q := drop (length t) buf).
  assert (buf = mid ++ q) as Eb by (symmetry; apply take_drop).
  assert (zlen mid = zlen t) as Em by (unfold zlen, mid in *; rewrite length_take; lia).
  pose proof (Hc mid q Eb Em) as (n & s & E & -> & ->)%wp_total. unfold put_number. rewrite E. cbn [mbind option_bind].
  destruct (Z.ltb_spec (zlen t) (zlen buf)) as [H|H].
  - destruct q as [|x q]; [rewrite Eb, app_nil_r in H; lia|]. rewrite (store_at _ _ _ t x q) by done. cbn [mbind option_bind].
    by rewrite c_string_app.
  - assert (q = []) as ->. { apply zlen_0. rewrite Eb, zlen_app in H. pose proof (zlen_nonneg q). lia. }
    unfold store. rewrite app_nil_r, Z.ltb_irrefl, andb_false_r. done.
Qed.

Lemma put_utoa buf b v : is_base b → 0 ≤ v < 2 ^ 64 → zlen buf = 64 →
  put_number buf (utoa b v 0) = if zlen (magnitude b v) <? 64 then Some [Print (magnitude b v)] else None.
Proof.
  intros Hb Hv Hl. rewrite <- Hl. apply put_number_spec.
  - intros mid q -> Hm. eapply wp_weaken; [exact (utoa_spec b v [] mid q Hb Hv Hm)|]. intros n s [-> ->]. by rewrite Hm.
  - rewrite Hl. by apply magnitude_length.
  - eapply Forall_impl; [by apply magnitude_chars|]. by intros ? [? _].
Qed.

Lemma put_to_text buf w b v : w = 32 ∨ w = 64 → is_base b → - 2 ^ (w - 1) < v < 2 ^ (w - 1) → zlen buf = 64 →
  put_number buf (to_text w b v) = if zlen (numeral b v) <? 64 then Some [Print (numeral b v)] else None.
Proof.
  intros Hw Hb Hv Hl. assert (2 ^ (w - 1) < 2 ^ w ∧ 2 ^ (w - 1) ≤ 2 ^ 63 ∧ 2 ^ w ≤ 2 ^ 64) as (Hp & Hp' & Hp'') by (destruct Hw as [-> | ->]; by vm_compute).
  unfold to_text, numeral. destruct (Z.ltb_spec v 0) as [Hneg|Hpos].
  - rewrite <- Hl. apply put_number_spec.
    + intros mid q -> Hm. unfold signed. rewrite decide_True by lia. apply wp_seq, wp_given, wp_seq.
      rewrite zlen_app in Hm. change (zlen (lit "-")) with 1 in Hm.
      destruct (split_first mid _ (zlen_nonneg _) Hm) as (x & l & -> & Hl'). apply (wp_store_char _ _ _ [] x (l ++ q)); [done..|].
      unfold unsigned. rewrite Z.mod_small by lia.
      eapply wp_weaken; [exact (utoa_spec b (- v) (lit "-") l q Hb ltac:(lia) Hl')|]. intros n s [-> ->]. rewrite zlen_app, Hl'. done.
    + rewrite Hl, zlen_app. change (zlen (lit "-")) with 1. destruct (magnitude_length b (- v) Hb ltac:(lia)) as (_ & H1 & H2 & _).
      destruct (decide (b = 2)) as [E|E]; [specialize (H2 62%nat E ltac:(lia)); lia|specialize (H1 E); lia].
    + apply Forall_app. split; [by repeat constructor|]. eapply Forall_impl; [by apply magnitude_chars|]. by intros ? [? _].
  - unfold unsigned. rewrite Z.mod_small by lia. apply put_utoa; [done|lia|done].
Qed.

(** *** Reading back *)

Definition digit_value (c : Z) : Z := if c <=? chr "9" then c - chr "0" else c - chr "a" + 10.
Definition read_digits (b r : Z) (t : list Z) : Z := foldl (λ a c, a * b + digit_value c) r t.
Definition read_magnitude (b : Z) (t : list Z) : Z :=
  read_digits b 0 (if decide (take 2 t = lit "0x") then drop 2 t else t).

(** The number a text stands for in a base. *)
Definition read_number (b : Z) (t : list Z) : Z :=
  match t with c :: t' => if c =? chr "-" then - read_magnitude b t' else read_magnitude b t | [] => 0 end.

Lemma digit_value_char d : 0 ≤ d < 16 → digit_value (digit_char d) = d.
Proof.
  intros Hd. rewrite digit_char_val by done. unfold digit_value. change (chr "0") with 48. change (chr "a") with 97. change (chr "9") with 57.
  destruct (Z.ltb_spec d 10); case_match eqn:E; (apply Z.leb_le in E || apply Z.leb_gt in E); lia.
Qed.

Lemma read_lsd b n v : 2 ≤ b ≤ 16 → 0 ≤ v < 2 ^ Z.of_nat n → read_digits b 0 (reverse (digit_char <$> lsd n b v)) = v.
Proof.
  intros Hb. revert v; induction n as [|n IH]; intros v Hv; cbn [lsd]; [cbn in Hv |- *; lia|].
  destruct (Z.eqb_spec v 0) as [->|H0]; [done|]. rewrite fmap_cons, reverse_cons. unfold read_digits in *. rewrite foldl_app. cbn [foldl].
  pose proof (Z.mod_pos_bound v b ltac:(lia)). rewrite IH, digit_value_char by (lia || (apply div_small; [lia|done])). pose proof (Z.div_mod v b). lia.
Qed.

Lemma magnitude_no_x b v : is_base b → Forall (λ c, c ≠ chr "x") (reverse (digit_char <$> lsd 64 b v)).
Proof.
  intros Hb%base_ge. apply Forall_reverse, Forall_fmap. eapply Forall_impl; [apply lsd_digits; lia|]. intros d [Hd1 Hd2]. unfold compose.
  rewrite digit_char_val by lia. change (chr "0") with 48. change (chr "a") with 97. change (chr "x") with 120. destruct (Z.ltb_spec d 10); lia.
Qed.

Lemma read_plain b t : Forall (λ c, c ≠ chr "x") t → read_magnitude b t = read_digits b 0 t.
Proof.
  intros Ht. unfold read_magnitude. rewrite decide_False; [done|]. intros E. destruct t as [|c [|c' t]]; try done.
  rewrite !Forall_cons in Ht. destruct Ht as (_ & Ht & _). apply Ht. by injection E.
Qed.

Lemma read_magnitude_back b v : is_base b → 0 ≤ v < 2 ^ 64 → read_magnitude b (magnitude b v) = v.
Proof.
  intros Hb Hv. pose proof (base_ge b Hb) as Hb2. pose proof (magnitude_no_x b v Hb) as Hx. pose proof (read_lsd b 64 v Hb2 Hv) as Hr.
  unfold magnitude. destruct (Z.eqb_spec v 0) as [->|H0]; [done|]. unfold prefix. destruct (v >? 256); [|by rewrite app_nil_l, read_plain].
  destruct Hb as [->|[->|[->| ->]]]; cbn [Z.eqb Pos.eqb]; rewrite ?app_nil_l; [by rewrite read_plain| |by rewrite read_plain|exact Hr].
  rewrite read_plain by (apply Forall_app; split; [by repeat constructor|done]). exact Hr.
Qed.

Lemma magnitude_nonempty b v : is_base b → 0 ≤ v < 2 ^ 64 → ∃ c t, magnitude b v = c :: t ∧ c ≠ chr "-".
Proof.
  intros Hb Hv. pose proof (magnitude_chars b v Hb) as Hc. destruct (magnitude b v) as [|c t] eqn:E.
  - exfalso. revert E. unfold magnitude. destruct (Z.eqb_spec v 0); [done|]. intros [_ E]%app_nil.
    apply (f_equal reverse) in E. rewrite reverse_involutive in E. apply fmap_nil_inv in E. cbn [lsd] in E.
    rewrite (proj2 (Z.eqb_neq v 0)) in E by done. done.
  - apply Forall_cons in Hc as [[_ ?] _]. by exists c, t.
Qed.

(** ** string.cc *)

Lemma buffer_loop_spec n v acc : 0 ≤ v < 2 ^ Z.of_nat n → zlen (lsd n 10 v) + zlen acc ≤ 11 →
  buffer_loop n v acc = Some (reverse (digit_char <$> lsd n 10 v) ++ acc).
Proof.
  revert v acc; induction n as [|n IH]; intros v acc Hv Hl; cbn [buffer_loop lsd] in *.
  - assert (v = 0) as -> by (cbn in Hv; lia). done.
  - destruct (Z.eqb_spec v 0) as [->|H0]; [done|]. rewrite zlen_cons in Hl. pose proof (zlen_nonneg (lsd n 10 (v / 10))).
    rewrite decide_False by (unfold zlen in *; lia). rewrite IH by ((apply div_small; [lia|done]) || zlens).
    pose proof (Z.mod_pos_bound v 10 ltac:(lia)).
    rewrite fmap_cons, reverse_cons, <- app_assoc, digit_char_val by lia. rewrite (proj2 (Z.ltb_lt _ _)) by lia. cbn [app]. by rewrite Z.add_comm.
Qed.

Lemma copy_loop_spec cs p mid q : zlen mid = zlen cs →
  wp (copy_loop (zlen p) cs) (λ i s, i = zlen p + zlen cs ∧ s = p ++ cs ++ q) (p ++ mid ++ q).
Proof.
  revert p mid; induction cs as [|c cs IH]; intros p mid Hm; cbn [copy_loop].
  - apply zlen_0 in Hm as ->. apply wp_ret. split; [zlens|done].
  - rewrite zlen_cons in Hm. destruct (split_first mid _ (zlen_nonneg _) Hm) as (x & l & -> & Hl).
    apply wp_seq, (wp_store_char _ _ _ p x (l ++ q)); [done..|]. replace (zlen p + 1) with (zlen (p ++ [c])) by zlens.
    replace (p ++ c :: l ++ q) with ((p ++ [c]) ++ l ++ q) by by rewrite <- app_assoc.
    eapply wp_weaken; [by apply IH|]. intros i s [-> ->]. split; [zlens|by rewrite <- app_assoc].
Qed.

Lemma magnitude_10 v : 0 < v → magnitude 10 v = reverse (digit_char <$> lsd 64 10 v).
Proof. intros Hv. unfold magnitude, prefix. rewrite (proj2 (Z.eqb_neq v 0)) by lia. by destruct (v >? 256). Qed.

Lemma c_itoa_spec v mid x q : -2 ^ 31 < v < 2 ^ 31 → zlen mid = zlen (numeral 10 v) →
  wp (c_itoa v) (λ _ s, s = numeral 10 v ++ NUL :: q) (mid ++ x :: q).
Proof.
  intros Hv Hm. assert (∀ v p mid, 0 ≤ v < 2 ^ 31 → zlen mid = zlen (lsd 64 10 v) →
    wp (buffer ← given (buffer_loop 64 v []); i ← copy_loop (zlen p) buffer; store i NUL)
      (λ _ s, s = p ++ reverse (digit_char <$> lsd 64 10 v) ++ NUL :: q) (p ++ mid ++ x :: q)) as Hw.
  { clear. intros v p mid Hv Hm. pose proof (lsd_short 10 64 10 v ltac:(lia) ltac:(lia)).
    rewrite buffer_loop_spec by (lia || zlens). rewrite app_nil_r. apply wp_seq, wp_given, wp_seq.
    eapply wp_weaken; [apply (copy_loop_spec _ p mid (x :: q)); by rewrite zlen_reverse, zlen_fmap|]. intros i s [-> ->].
    apply (wp_store_char _ _ _ (p ++ reverse (digit_char <$> lsd 64 10 v)) x q); [by rewrite <- app_assoc|zlens|by rewrite <- app_assoc]. }
  unfold c_itoa, numeral in *. apply wp_seq. destruct (Z.ltb_spec v 0) as [Hneg|Hpos].
  - rewrite magnitude_10 in * by lia. rewrite zlen_app, zlen_reverse, zlen_fmap in Hm. change (zlen (lit "-")) with 1 in Hm.
    destruct (split_first mid _ (zlen_nonneg _) Hm) as (y & l & -> & Hl).
    apply wp_seq, (wp_store_char _ _ _ [] y (l ++ x :: q)); [done..|]. unfold signed. rewrite decide_True by lia. apply wp_seq, wp_given, wp_ret.
    unfold unsigned. rewrite Z.mod_small by lia. apply (Hw (- v) (lit "-") l); [lia|done].
  - destruct (Z.eqb_spec v 0) as [->|H0].
    + change (zlen (magnitude 10 0)) with 1 in Hm. destruct (split_first mid 0) as (y & l & -> & ->%zlen_0); [done|done|].
      apply wp_seq, (wp_store_char _ _ _ [] y (x :: q)); [done..|]. apply wp_ret. exact (Hw 0 (lit "0") [] ltac:(done) eq_refl).
    + rewrite magnitude_10 in * by lia. apply wp_ret. unfold unsigned. rewrite Z.mod_small by lia.
      rewrite zlen_reverse, zlen_fmap in Hm. apply (Hw v [] mid); [lia|done].
Qed.

Lemma wp_fetch i s p x q (Q : Z → list Z → Prop) : s = p ++ x :: q → i = zlen p → Q x s → wp (fetch i) Q s.
Proof. intros Hs Hi HQ. unfold wp. by rewrite (fetch_at i s p x q). Qed.

Lemma read_digits_ge r ds : 0 ≤ r → Forall (λ d, 0 ≤ d < 10) ds → r ≤ read_digits 10 r (digit_char <$> ds).
Proof.
  intros Hr Hd. revert r Hr; induction Hd as [|d ds Hd _ IH]; intros r Hr; [done|]. cbn. unfold read_digits in IH.
  rewrite digit_value_char by lia. etrans; [|apply IH; lia]. lia.
Qed.

Lemma atol_loop_spec ds fuel p q r : Forall (λ d, 0 ≤ d < 10) ds → 0 ≤ r → (length ds < fuel)%nat →
  read_digits 10 r (digit_char <$> ds) + 48 < 2 ^ 31 →
  wp (atol_loop fuel (zlen p) r) (λ v _, v = read_digits 10 r (digit_char <$> ds)) (p ++ (digit_char <$> ds) ++ NUL :: q).
Proof.
  intros Hd. revert fuel p r; induction Hd as [|d ds Hd Hds IH]; intros fuel p r Hr Hf Hv; (destruct fuel as [|fuel]; [cbn in Hf; lia|]); cbn [atol_loop].
  - apply wp_seq, (wp_fetch _ _ p NUL q); [done..|]. apply wp_ret. done.
  - apply wp_seq, (wp_fetch _ _ p (digit_char d) ((digit_char <$> ds) ++ NUL :: q)); [done..|].
    cbn [fmap list_fmap read_digits foldl] in *. fold (read_digits 10 (r * 10 + digit_value (digit_char d)) (digit_char <$> ds)) in *.
    rewrite digit_value_char in * by lia. pose proof (read_digits_ge (r * 10 + d) ds ltac:(lia) Hds) as Hge.
    assert (digit_char d = 48 + d) as Ec. { rewrite digit_char_val, (proj2 (Z.ltb_lt _ _)) by lia. done. }
    rewrite Ec. change (chr "0") with 48. change (chr "9") with 57. rewrite (proj2 (Z.leb_le _ _)), (proj2 (Z.leb_le (48 + d) 57)) by lia. cbn [andb].
    unfold signed. rewrite decide_True by lia. apply wp_seq, wp_given. rewrite decide_True by lia. apply wp_seq, wp_given.
    rewrite decide_True by lia. apply wp_seq, wp_given. replace (r * 10 + (48 + d) - 48) with (r * 10 + d) by lia.
    replace (zlen p + 1) with (zlen (p ++ [48 + d])) by zlens. replace (p ++ (48 + d :: (digit_char <$> ds)) ++ NUL :: q)
      with ((p ++ [48 + d]) ++ (digit_char <$> ds) ++ NUL :: q) by by rewrite <- app_assoc.
    apply IH; [lia|cbn in Hf; lia|done].
Qed.

Lemma wp_atol (Q : Z → list Z → Prop) s :
  wp (fetch 0) (λ c, wp (if c =? chr "-" then ret ← atol_loop (length s) 1 0; given (signed 32 (- ret)) else atol_loop (length s) 0 0) Q) s →
  wp atol Q s.
Proof. intros H. by apply wp_seq in H. Qed.

Lemma atol_spec v q : 0 ≤ v → v + 48 < 2 ^ 31 →
  wp atol (λ r _, r = v) (magnitude 10 v ++ NUL :: q) ∧
  (v ≠ 0 → wp atol (λ r _, r = - v) (lit "-" ++ magnitude 10 v ++ NUL :: q)).
Proof.
  intros H0 Hv. assert (∃ ds, magnitude 10 v = digit_char <$> ds ∧ Forall (λ d, 0 ≤ d < 10) ds ∧ read_digits 10 0 (digit_char <$> ds) = v) as (ds & E & Hds & Hr).
  { destruct (Z.eqb_spec v 0) as [->|Hne].
    - exists [0]. split; [done|]. split; [by repeat constructor|done].
    - exists (reverse (lsd 64 10 v)). rewrite magnitude_10, fmap_reverse by lia. split; [done|].
      split; [by apply Forall_reverse, lsd_digits|]. apply read_lsd; lia. }
  destruct (magnitude_nonempty 10 v ltac:(by right; right; left) ltac:(lia)) as (c & t & Ec & Hc).
  assert (∀ s, (length ds < length s)%nat → ∀ p, s = p ++ magnitude 10 v ++ NUL :: q → wp (atol_loop (length s) (zlen p) 0) (λ r _, r = v) s) as Hl.
  { intros s Hs p ->. rewrite E. eapply wp_weaken; [apply atol_loop_spec; [done|lia|by rewrite <- E|by rewrite Hr]|]. by intros r _ ->. }
  split.
  - set (s := magnitude 10 v ++ NUL :: q). assert (s = c :: t ++ NUL :: q) as Es by (unfold s; by rewrite Ec).
    apply wp_atol, (wp_fetch _ s [] c (t ++ NUL :: q)); [done..|]. rewrite (proj2 (Z.eqb_neq _ _)) by done.
    apply (Hl s) with (p := []); [|done]. unfold s. rewrite length_app, E, length_fmap. cbn. lia.
  - intros Hne. set (s := lit "-" ++ magnitude 10 v ++ NUL :: q).
    apply wp_atol, (wp_fetch _ s [] (chr "-") (magnitude 10 v ++ NUL :: q)); [done..|]. cbn [Z.eqb].
    apply wp_seq. eapply wp_weaken; [apply (Hl s) with (p := lit "-"); [|done]|].
    { unfold s. rewrite !length_app, E, length_fmap. cbn. lia. }
    intros r s' ->. unfold signed. rewrite decide_True by lia. done.
Qed.

(** ** Properties *)

(** The least value of a type has no negation in it. *)
Lemma to_text_least w b buf : 0 < w → put_number buf (to_text w b (- 2 ^ (w - 1))) = None.
Proof.
  intros Hw. pose proof (Z.pow_pos_nonneg 2 (w - 1) ltac:(lia) ltac:(lia)). unfold put_number, to_text.
  rewrite (proj2 (Z.ltb_lt _ _)) by lia. unfold signed. rewrite decide_False by lia. done.
Qed.

(** C38 Numbers on a stream: in each of the four bases and whatever the
    stack holds, an integer prints its numeral and leaves the stream as it
    was.  The array of 64 characters is enough for every [int] and for
    every number in the bases 8, 10 and 16; in base 2 it is one too short
    for its NUL from 2^63 up and, with the sign, from -2^62 down, where the
    program writes outside it; and the least value of a signed type is
    negated outside its type. *)
Theorem numbers_inserted multicore buf o i u v w :
  is_base (_base o) → zlen buf = 64 → - 2 ^ 31 < i < 2 ^ 31 → 0 ≤ u < 2 ^ 32 → - 2 ^ 63 < v < 2 ^ 63 → 0 ≤ w < 2 ^ 64 →
  insert multicore buf o (Int i) = Some (o, [Print (numeral (_base o) i)]) ∧
  insert multicore buf o (Uint u) = Some (o, [Print (numeral (_base o) u)]) ∧
  insert multicore buf o (Longlong v) = (if decide (_base o = 2 ∧ v ≤ - 2 ^ 62) then None else Some (o, [Print (numeral (_base o) v)])) ∧
  insert multicore buf o (Ulonglong w) = (if decide (_base o = 2 ∧ 2 ^ 63 ≤ w) then None else Some (o, [Print (numeral (_base o) w)])) ∧
  insert multicore buf o (Int (- 2 ^ 31)) = None ∧ insert multicore buf o (Longlong (- 2 ^ 63)) = None.
Proof.
  intros Hb Hl Hi Hu Hv Hw. set (b := _base o) in *.
  assert (∀ x, 0 ≤ x < 2 ^ 64 → zlen (magnitude b x) < 64 ↔ ¬ (b = 2 ∧ 2 ^ 63 ≤ x)) as Hfit.
  { intros x Hx. destruct (magnitude_length b x Hb Hx) as (_ & H1 & H2 & H3). destruct (decide (b = 2)) as [E|E]; [|specialize (H1 E); intuition lia].
    destruct (decide (2 ^ 63 ≤ x)) as [Hh|Hh].
    - specialize (H3 63%nat E ltac:(lia) Hh). intuition lia.
    - specialize (H2 62%nat E ltac:(change (Z.of_nat 63) with 63; lia)). split; [tauto|intros _; lia]. }
  assert (∀ x, - 2 ^ 63 < x < 0 → zlen (numeral b x) < 64 ↔ ¬ (b = 2 ∧ x ≤ - 2 ^ 62)) as Hneg.
  { intros x Hx. unfold numeral. rewrite (proj2 (Z.ltb_lt x 0)), zlen_app by lia. change (zlen (lit "-")) with 1.
    destruct (magnitude_length b (- x) Hb ltac:(lia)) as (_ & H1 & H2 & H3). destruct (decide (b = 2)) as [E|E]; [|specialize (H1 E); intuition lia].
    destruct (decide (x ≤ - 2 ^ 62)) as [Hh|Hh].
    - specialize (H3 62%nat E ltac:(lia) ltac:(change (Z.of_nat 62) with 62; lia)). intuition lia.
    - specialize (H2 61%nat E ltac:(change (Z.of_nat 62) with 62; lia)). split; [tauto|intros _; lia]. }
  assert (∀ x, 0 ≤ x → numeral b x = magnitude b x) as Hpos by (intros x Hx; unfold numeral; by rewrite (proj2 (Z.ltb_ge x 0))).
  assert (∀ x, - 2 ^ 63 < x < 2 ^ 63 → zlen (numeral b x) < 64 ↔ ¬ (b = 2 ∧ x ≤ - 2 ^ 62)) as Hs.
  { intros x Hx. destruct (decide (x < 0)); [apply Hneg; lia|]. rewrite Hpos, Hfit by lia. split; intros; lia. }
  cbn [insert]. fold b. unfold itoa, llitoa, llutoa. rewrite !to_text_least by done. rewrite !put_to_text, !put_utoa by (tauto || done || lia).
  rewrite (proj2 (Z.ltb_lt (zlen (numeral b i)) 64)) by (apply Hs; lia). rewrite <- !Hpos by lia.
  rewrite (proj2 (Z.ltb_lt (zlen (numeral b u)) 64)) by (rewrite Hpos by lia; apply Hfit; lia).
  split_and!; [done|done| | |done|done].
  - case_decide as E; [rewrite (proj2 (Z.ltb_ge _ _)); [done|]|rewrite (proj2 (Z.ltb_lt _ _)); [done|by apply Hs]].
    apply Z.nlt_ge. rewrite Hs by done. tauto.
  - case_decide as E; [rewrite (proj2 (Z.ltb_ge _ _)); [done|]|rewrite (proj2 (Z.ltb_lt _ _)); [done|rewrite Hpos by lia; by apply Hfit]].
    apply Z.nlt_ge. rewrite Hpos, Hfit by lia. tauto.
Qed.

(** What is printed can be read: in each base the numeral, read digit by
    digit after its sign and the 0x of base 16, is the number; so different
    numbers print differently. *)
Theorem numerals_read_back b v : is_base b → - 2 ^ 64 < v < 2 ^ 64 → read_number b (numeral b v) = v.
Proof.
  intros Hb Hv. unfold numeral. destruct (Z.ltb_spec v 0).
  - change (- read_magnitude b (magnitude b (- v)) = v). rewrite read_magnitude_back by (done || lia). lia.
  - destruct (magnitude_nonempty b v Hb ltac:(lia)) as (c & t & E & Hc). pose proof (read_magnitude_back b v Hb ltac:(lia)) as Hr.
    rewrite E in *. cbn [read_number]. by rewrite (proj2 (Z.eqb_neq _ _)).
Qed.

(** The C conversions agree: [itoa] of string.cc writes the numeral that
    a stream prints in base 10, and a NUL, and nothing else; [atol] reads
    it back, for every number up to 2^31 - 49 in magnitude, beyond which
    its sum passes 2^31 before the '0' is taken off. *)
Theorem atol_reads_itoa v mid x q : - 2 ^ 31 < v < 2 ^ 31 → zlen mid = zlen (numeral 10 v) →
  ∃ s, c_itoa v (mid ++ x :: q) = Some ((), s) ∧ s = numeral 10 v ++ NUL :: q ∧
    (Z.abs v + 48 < 2 ^ 31 → ∃ s', atol s = Some (v, s')).
Proof.
  intros Hv Hm. pose proof (c_itoa_spec v mid x q Hv Hm) as ([] & s & E & Hs)%wp_total. exists s. split; [done|]. split; [done|].
  intros Ha. destruct (atol_spec (Z.abs v) q ltac:(lia) Ha) as [H1 H2]. subst s. unfold numeral. destruct (Z.ltb_spec v 0).
  - rewrite Z.abs_neq in * by lia. specialize (H2 ltac:(lia)). rewrite <- app_assoc.
    pose proof H2 as (r & s' & E' & ->)%wp_total. exists s'. rewrite E'. f_equal. f_equal. lia.
  - rewrite Z.abs_eq in * by lia. pose proof H1 as (r & s' & E' & ->)%wp_total. by exists s'.
Qed.

(** The largest number is one [atol] overflows on. *)
Example atol_overflows : atol (numeral 10 (2 ^ 31 - 1) ++ [NUL]) = None ∧ atol (numeral 10 (2 ^ 31 - 49) ++ [NUL]) ≠ None.
Proof. by vm_compute. Qed.

(** A float loses the zeros after its point: 1.03125 is printed as 1.312, and
    so reads as more than 1.25, which is printed as 1.2500. *)
Example floats_lose_zeros buf : buf = replicate 64 170 →
  insert false buf OStream (Float (S754_finite false 8650752 (-23))) =
    Some (OStream, [Print (lit "1"); Print (lit "."); Print (lit "312")]) ∧
  insert false buf OStream (Float (S754_finite false 10485760 (-23))) =
    Some (OStream, [Print (lit "1"); Print (lit "."); Print (lit "2500")]).
Proof. intros ->. by vm_compute. Qed.

(** The bases are those the manipulators choose, and a line ends in base 10. *)
Lemma bases_kept multicore buf xs o o' e : is_base (_base o) → insert_all multicore buf o xs = Some (o', e) → is_base (_base o').
Proof.
  revert o e; induction xs as [|x xs IH]; intros o e Hb; cbn [insert_all]; [by intros [= <- _]|].
  destruct (insert multicore buf o x) as [[o1 e1]|] eqn:E; [|done]. cbn [mbind option_bind].
  destruct (insert_all multicore buf o1 xs) as [[o2 e2]|] eqn:E2; [|done]. cbn. intros [= <- _].
  apply (IH o1 e2); [|done]. unfold is_base in *. destruct x; cbn in E; repeat case_match; simplify_eq/=; try done; try tauto.
  all: repeat (match type of E with (?c ≫= _) = _ => destruct c eqn:?; [|done] end; cbn in E; simplify_eq/=); done.
Qed.

(** ** Witnesses *)

Example numbers_inserted_witness :
  insert false (replicate 64 170) (with_base 2 OStream) (Ulonglong (2 ^ 63)) = None ∧
  insert false (replicate 64 170) (with_base 2 OStream) (Longlong (- 2 ^ 62)) = None ∧
  insert false (replicate 64 170) (with_base 2 OStream) (Int (-5)) = Some (with_base 2 OStream, [Print (lit "-101")]).
Proof.
  destruct (numbers_inserted false (replicate 64 170) (with_base 2 OStream) (-5) 0 (- 2 ^ 62) (2 ^ 63))
    as (Hi & _ & Hv & Hw & _); [by left|done|lia..|].
  rewrite decide_True in Hv, Hw by (split; [done|lia]). exact (conj Hw (conj Hv Hi)).
Defined.

Example numerals_read_back_witness : numeral 16 (-48879) = lit "-0xbeef" ∧ read_number 16 (lit "-0xbeef") = -48879.
Proof. split; [done|]. exact (numerals_read_back 16 (-48879) ltac:(by repeat right) ltac:(lia)). Defined.

Example atol_reads_itoa_witness :
  ∃ s, c_itoa (-2147483599) (replicate 12 170) = Some ((), s) ∧ ∃ s', atol s = Some (-2147483599, s').
Proof.
  destruct (atol_reads_itoa (-2147483599) (replicate 11 170) 170 [] ltac:(lia) ltac:(done)) as (s & E & _ & Ha).
  exists s. exact (conj E (Ha ltac:(lia))).
Defined.
