(* ===== verification/CString.v ===== *)
(** * The string functions (src/utility/string.cc)

    [memcpy], [memset], [strlen] and [strcmp], which work a [long] at a time
    where pointers are aligned.  Memory is a list of bytes from an aligned
    address on, a pointer a position in it, and an access outside it is
    undefined; words are little-endian.  [sizeof(long)] is a parameter: 4 on
    the 32-bit machines and 8 on ARMv8.  The loops over memory take its size
    as fuel. *)

From stdpp Require Import prelude.
From S2P Require Import Prelude PyStr Digits Aes Bignum Poly1305 StateM.

Abbreviation M := (ST (list Z)).
Implicit Types m : list Z.

(** ** Memory *)

Definition load (a : nat) : M Z := λ m, x ← m !! a; Some (x, m).
Definition save (a : nat) (x : Z) : M () := λ m, if (a <? length m)%nat then Some ((), <[a := x]> m) else None.

Section words.
Variable L : nat.   (* sizeof(long) *)

Definition ulong (x : Z) : Z := x mod 2 ^ (8 * Z.of_nat L).

Definition load_long (a : nat) : M Z := λ m,
  if (a + L <=? length m)%nat then Some (bignum_value 8 (take L (drop a m)), m) else None.

Definition long_bytes (w : Z) : list Z := (λ k, u8 (Z.shiftr w (8 * Z.of_nat k))) <$> seq 0 L.
Definition save_long (a : nat) (w : Z) : M () := λ m,
  if (a + L <=? length m)%nat then Some ((), take a m ++ long_bytes w ++ drop (a + L) m) else None.

(** [((long) p & (sizeof(long) - 1))] *)
Definition unaligned (p : nat) : bool := negb (p mod L =? 0)%nat.

(** [((w - 0x01010101) & ~w & 0x80808080)], the constants being extended by
    zeros to the size of [w]. *)
Definition has_zero (w : Z) : bool :=
  negb (Z.land (Z.land (ulong (w - 0x01010101)) (ulong (Z.lnot w))) 0x80808080 =? 0).

(** ** strlen *)

(** [while(!*str) ...]: to the NUL. *)
Fixpoint to_nul (fuel : nat) (str : nat) : M nat :=
  match fuel with
  | O => stuck
  | S fuel' => c ← load str; if c =? 0 then mret str else to_nul fuel' (S str)
  end.

Fixpoint words_to_zero (fuel : nat) (aligned_addr : nat) : M nat :=
  match fuel with
  | O => stuck
  | S fuel' => w ← load_long aligned_addr; if has_zero w then mret aligned_addr else words_to_zero fuel' (aligned_addr + L)
  end.

(** [while(((long) str & (sizeof(long) - 1))) { if(!*str) return str - start; str++; }]
    then words, then bytes. *)
Fixpoint strlen_loop (fuel : nat) (start str : nat) : M nat :=
  match fuel with
  | O => stuck
  | S fuel' =>
      if unaligned str then
        c ← load str;
        if c =? 0 then mret (str - start)%nat else strlen_loop fuel' start (S str)
      else λ m, (aligned_addr ← words_to_zero (length m) str;
        str ← to_nul (length m) aligned_addr;
        mret (str - start)%nat) m
  end.
Definition strlen (str : nat) : M nat := strlen_loop L str str.

(** ** strcmp *)

(** Bytes, to the first that differ or the NUL. *)
Fixpoint compare_bytes (fuel : nat) (s1 s2 : nat) : M Z :=
  match fuel with
  | O => stuck
  | S fuel' =>
      c1 ← load s1;
      c2 ← load s2;
      if negb (c1 =? 0) && (c1 =? c2) then compare_bytes fuel' (S s1) (S s2) else mret (c1 - c2)
  end.

(** Words, while they are equal; [None] as a result says return 0. *)
Fixpoint compare_words (fuel : nat) (a1 a2 : nat) : M (option (nat * nat)) :=
  match fuel with
  | O => stuck
  | S fuel' =>
      w1 ← load_long a1;
      w2 ← load_long a2;
      if w1 =? w2 then
        (if has_zero w1 then mret None else compare_words fuel' (a1 + L) (a2 + L))
      else mret (Some (a1, a2))
  end.

Definition strcmp (s1 s2 : nat) : M Z := λ m,
  (if unaligned s1 || unaligned s2 then compare_bytes (length m) s1 s2
   else
     r ← compare_words (length m) s1 s2;
     match r with
     | None => mret 0
     | Some (s1, s2) => compare_bytes (length m) s1 s2
     end) m.

(** ** memcpy *)

Fixpoint copy_bytes (n : nat) (dst src : nat) : M () :=
  match n with
  | O => mret ()
  | S n' => c ← load src; _ ← save dst c; copy_bytes n' (S dst) (S src)
  end.

Definition copy_long (dst src : nat) : M () := w ← load_long src; save_long dst w.

(** Four words a round, then single words; the length that is left and the
    pointers come out. *)
Fixpoint copy_longs (fuel : nat) (dst src len : nat) : M (nat * nat * nat) :=
  match fuel with
  | O => stuck
  | S fuel' =>
      if (4 * L <=? len)%nat then
        _ ← copy_long dst src;
        _ ← copy_long (dst + L) (src + L);
        _ ← copy_long (dst + L + L) (src + L + L);
        _ ← copy_long (dst + L + L + L) (src + L + L + L);
        copy_longs fuel' (dst + L + L + L + L) (src + L + L + L + L) (len - 4 * L)
      else if (L <=? len)%nat then
        _ ← copy_long dst src;
        copy_longs fuel' (dst + L) (src + L) (len - L)
      else mret (dst, src, len)
  end.

Definition memcpy (dst0 src0 len0 : nat) : M nat :=
  '(dst, src, len) ← (if negb (len0 <? 4 * L)%nat && negb (unaligned src0 || unaligned dst0)
    then copy_longs (S len0) dst0 src0 len0
    else mret (dst0, src0, len0));
  _ ← copy_bytes len dst src;
  mret dst0.

(** ** memset *)

(** [buffer = (d << 8) | d; buffer |= (buffer << 16); for(i = 32; i < sizeof(long) * 8; i <<= 1) ...] *)
Fixpoint widen (n : nat) (i buffer : Z) : Z :=
  match n with
  | O => buffer
  | S n' => if i <? Z.of_nat L * 8 then widen n' (Z.shiftl i 1) (ulong (Z.lor (Z.shiftl buffer i) buffer)) else buffer
  end.
Definition fill_word (c : Z) : Z :=
  let d := u8 c in
  let buffer := ulong (Z.lor (Z.shiftl d 8) d) in
  let buffer := ulong (Z.lor buffer (Z.shiftl buffer 16)) in
  widen 2 32 buffer.

Fixpoint set_bytes (n : nat) (s : nat) (c : Z) : M () :=
  match n with
  | O => mret ()
  | S n' => _ ← save s (u8 c); set_bytes n' (S s) c
  end.

Fixpoint set_longs (fuel : nat) (s n : nat) (buffer : Z) : M (nat * nat) :=
  match fuel with
  | O => stuck
  | S fuel' =>
      if (4 * L <=? n)%nat then
        _ ← save_long s buffer;
        _ ← save_long (s + L) buffer;
        _ ← save_long (s + L + L) buffer;
        _ ← save_long (s + L + L + L) buffer;
        set_longs fuel' (s + L + L + L + L) (n - 4 * L) buffer
      else if (L <=? n)%nat then
        _ ← save_long s buffer;
        set_longs fuel' (s + L) (n - L) buffer
      else mret (s, n)
  end.

(** [while(((long) s & (sizeof(long) - 1))) { if(n--) *s++ = c; else return m; }],
    then words, then bytes. *)
Fixpoint memset_loop (fuel : nat) (start s : nat) (c : Z) (n : nat) : M nat :=
  match fuel with
  | O => stuck
  | S fuel' =>
      if unaligned s then
        match n with
        | O => mret start
        | S n' => _ ← save s (u8 c); memset_loop fuel' start (S s) c n'
        end
      else
        '(s, n) ← (if negb (n <? L)%nat then set_longs (S n) s n (fill_word c) else mret (s, n));
        _ ← set_bytes n s c;
        mret start
  end.
Definition memset (s : nat) (c : Z) (n : nat) : M nat := memset_loop L s s c n.
End words.

(** ** Words and their bytes *)

(** [b - m - borrow] for each byte, from the lowest on. *)
Fixpoint sub_each (bs ms : list Z) (borrow : Z) : list Z :=
  match bs, ms with
  | b :: bs', m :: ms' => u8 (b - m - borrow) :: sub_each bs' ms' (if b <? m + borrow then 1 else 0)
  | _, _ => []
  end.

Lemma sub_each_spec bs ms c : bytes bs → bytes ms → length bs = length ms → 0 ≤ c ≤ 1 →
  bytes (sub_each bs ms c) ∧ length (sub_each bs ms c) = length bs ∧
  le (sub_each bs ms c) = (le bs - le ms - c) mod 2 ^ (8 * zlen bs).
Proof.
  unfold is_digits. intros Hb; revert ms c; induction Hb as [|b bs Hb Hbs IH]; intros [|x ms] c Hm Hl Hc; try done.
  { split; [constructor|]. split; [done|]. change (zlen []) with 0. by rewrite Z.mul_0_r, Z.pow_0_r, Z.mod_1_r. }
  apply Forall_cons in Hm as [Hx Hm]. injection Hl as Hl. change (0 ≤ b < 256) in Hb. change (0 ≤ x < 256) in Hx. cbn [sub_each]. set (c' := if b <? x + c then 1 else 0).
  destruct (IH ms c' Hm Hl ltac:(unfold c'; case_match; lia)) as (D & L & V).
  split; [constructor; [apply u8_byte|done]|]. split; [cbn; by rewrite L|]. cbn [bignum_value]. rewrite V, zlen_cons.
  assert (u8 (b - x - c) = b - x - c + 256 * c') as E.
  { unfold u8, c'. change (2 ^ 8) with 256. destruct (Z.ltb_spec b (x + c)) as [H|H].
    - rewrite <- (Z.mod_add (b - x - c) 1 256), Z.mod_small by lia. lia.
    - rewrite Z.mod_small by lia. lia. }
  rewrite E. replace (8 * (1 + zlen bs)) with (8 + 8 * zlen bs) by lia. pose proof (zlen_nonneg bs). rewrite Z.pow_add_r by lia.
  set (W := 2 ^ (8 * zlen bs)). assert (0 < W) by (apply Z.pow_pos_nonneg; lia). set (Y := le bs - le ms - c').
  replace (b + 2 ^ 8 * le bs - (x + 2 ^ 8 * le ms) - c) with (u8 (b - x - c) + 2 ^ 8 * Y) by (unfold Y; lia).
  rewrite <- E. pose proof (u8_byte (b - x - c)) as Hu. unfold byte in Hu.
  rewrite Z.rem_mul_r by lia. rewrite (Z.mul_comm (2 ^ 8) Y), Z.mod_add, Z.div_add, (Z.mod_small (u8 _)), (Z.div_small (u8 _)), Z.add_0_l by lia. lia.
Qed.

(** What the test finds in each byte. *)
Fixpoint flags (n : nat) (bs ds : list Z) : list Z :=
  match bs, ds with
  | b :: bs', d :: ds' =>
      Z.land (Z.land d (255 - b)) (match n with O => 0 | S _ => 128 end) :: flags (pred n) bs' ds'
  | _, _ => []
  end.

(** A number [x] at each of the [n] lowest of [k] bytes. *)
Definition low (n k : nat) (x : Z) : list Z := replicate (n `min` k) x ++ replicate (k - n) 0.

Lemma low_cons n k x : low n (S k) x = (match n with O => 0 | S _ => x end) :: low (pred n) k x.
Proof. unfold low. destruct n as [|n]; cbn; [by rewrite Nat.sub_0_r|done]. Qed.

Lemma length_low n k x : length (low n k x) = k.
Proof. unfold low. rewrite length_app, !length_replicate. lia. Qed.

Lemma low_bytes n k x : byte x → bytes (low n k x).
Proof. intros Hx. unfold low, is_digits. apply Forall_app. split; apply Forall_replicate; [done|]. by vm_compute. Qed.

Lemma flags_zip n bs ds : length ds = length bs →
  flags n bs ds = zip_with Z.land (zip_with Z.land ds ((λ b, 255 - b) <$> bs)) (low n (length bs) 128).
Proof.
  revert n ds; induction bs as [|b bs IH]; intros n [|d ds] Hl; try done. injection Hl as Hl. cbn [length]. rewrite low_cons. cbn. by rewrite IH.
Qed.

(** The lowest zero byte is found, and before it nothing is. *)
Lemma flags_zero n bs : bytes bs → Exists (λ f, f ≠ 0) (flags n bs (sub_each bs (low n (length bs) 1) 0)) ↔ 0 ∈ take n bs.
Proof.
  unfold is_digits. intros Hb; revert n; induction Hb as [|b bs Hb Hbs IH]; intros n.
  { rewrite take_nil. cbn. rewrite Exists_nil, elem_of_nil. done. }
  cbn [length]. rewrite low_cons. destruct n as [|n].
  - cbn [take sub_each flags pred]. rewrite Exists_cons, Z.land_0_r, Z.add_0_r, (proj2 (Z.ltb_ge b 0)) by apply Hb.
    rewrite IH, take_0, !elem_of_nil. intuition.
  - cbn [take sub_each flags pred]. rewrite Exists_cons, elem_of_cons, Z.sub_0_r, Z.add_0_r. destruct (Z.ltb_spec b 1) as [H|H].
    + assert (b = 0) as -> by (destruct Hb; lia). split; [by left|]. intros _. by left.
    + rewrite IH. assert (b = 0 ∨ Z.land (Z.land (u8 (b - 1)) (255 - b)) 128 = 0) as Hz.
      { apply (byte_cases (λ b, b = 0 ∨ Z.land (Z.land (u8 (b - 1)) (255 - b)) 128 = 0)); [by vm_compute|done]. }
      destruct Hz as [->|Hz]; [lia|]. rewrite Hz. split; [intros [?|?]; [done|by right]|]. intros [?|?]; [lia|by right].
Qed.

Lemma le_zero l : bytes l → le l = 0 ↔ ¬ Exists (λ f, f ≠ 0) l.
Proof.
  unfold is_digits. induction 1 as [|x l Hx Hl IH]; [rewrite Exists_nil; tauto|]. rewrite Exists_cons. cbn [bignum_value].
  pose proof (value_bounds 8 ltac:(done) l Hl). destruct (decide (x = 0)) as [->|Hne].
  - rewrite Z.add_0_l, Z.mul_eq_0, IH. intuition lia.
  - split; [lia|]. tauto.
Qed.

Lemma le_low n k x : (n ≤ k)%nat → le (low n k x) = le (replicate n x).
Proof. intros H. unfold low. rewrite Nat.min_l, value_app, value_zeros by done. lia. Qed.

Lemma complement_spec bs : bytes bs → bytes ((λ b, 255 - b) <$> bs) ∧ le ((λ b, 255 - b) <$> bs) = Z.lnot (le bs) mod 2 ^ (8 * zlen bs).
Proof.
  intros Hb. assert (bytes ((λ b, 255 - b) <$> bs)) as Hc.
  { apply Forall_fmap. eapply Forall_impl; [exact Hb|]. intros b Hx. unfold compose. change (0 ≤ b < 256) in Hx. change (2 ^ 8) with 256. lia. }
  split; [done|]. assert (le ((λ b, 255 - b) <$> bs) = 2 ^ (8 * zlen bs) - 1 - le bs) as ->.
  { clear Hb Hc. induction bs as [|b bs IH]; [done|]. rewrite fmap_cons. cbn [bignum_value]. rewrite IH, zlen_cons.
    replace (8 * (1 + zlen bs)) with (8 + 8 * zlen bs) by lia. pose proof (zlen_nonneg bs). rewrite Z.pow_add_r by lia. lia. }
  pose proof (value_bounds 8 ltac:(done) bs Hb). unfold Z.lnot. apply (Z.mod_unique _ _ (-1)); lia.
Qed.

(** The test finds a zero among the four lowest bytes of a word, and only
    there. *)
Lemma has_zero_spec L bs : bytes bs → length bs = L → (4 ≤ L)%nat → has_zero L (le bs) = bool_decide (0 ∈ take 4 bs).
Proof.
  intros Hb <- HL. set (L := length bs) in *.
  pose proof (low_bytes 4 L 1 ltac:(by vm_compute)) as H1. pose proof (low_bytes 4 L 128 ltac:(by vm_compute)) as H128.
  destruct (sub_each_spec bs (low 4 L 1) 0 Hb H1) as (Ds & Ls & Vs); [by rewrite length_low|lia|].
  destruct (complement_spec bs Hb) as [Dc Vc]. rewrite Z.sub_0_r, le_low in Vs by done. fold L in Ls.
  pose proof (zip_land_bytes _ _ Ds Dc) as Dz. set (fs := flags 4 bs (sub_each bs (low 4 L 1) 0)).
  assert (fs = zip_with Z.land (zip_with Z.land (sub_each bs (low 4 L 1) 0) ((λ b, 255 - b) <$> bs)) (low 4 L 128)) as Efs by by apply flags_zip.
  assert (Z.land (Z.land (ulong L (le bs - 0x01010101)) (ulong L (Z.lnot (le bs)))) 0x80808080 = le fs) as Ef.
  { rewrite Efs, !le_land by (done || rewrite ?length_zip_with, ?length_fmap, ?length_low, ?Ls; unfold L; lia).
    rewrite le_low by done. unfold ulong. change (8 * Z.of_nat L) with (8 * zlen bs). by rewrite Vs, Vc. }
  unfold has_zero. rewrite Ef. assert (bytes fs) as Dfs by (rewrite Efs; by apply zip_land_bytes).
  pose proof (flags_zero 4 bs Hb) as Hz. fold L fs in Hz. pose proof (le_zero fs Dfs) as H0.
  destruct (Z.eqb_spec (le fs) 0) as [E|E]; cbn [negb]; symmetry; [apply bool_decide_false|apply bool_decide_true]; rewrite <- Hz.
  - by apply H0.
  - destruct (decide (Exists (λ f, f ≠ 0) fs)) as [|Hn]; [done|]. by destruct E; apply H0.
Qed.

(** ** Strings in memory *)

(** The first NUL from [a] on is [k] bytes further. *)
Definition nul_at m (a k : nat) : Prop := m !! (a + k)%nat = Some 0 ∧ ∀ j, (j < k)%nat → ∃ c, m !! (a + j)%nat = Some c ∧ c ≠ 0.

Lemma nul_at_skip m a k i : nul_at m a k → (i ≤ k)%nat → nul_at m (a + i) (k - i).
Proof.
  intros [H0 Hk] Hi. split; [by replace (a + i + (k - i))%nat with (a + k)%nat by lia|].
  intros j Hj. destruct (Hk (i + j)%nat ltac:(lia)) as (c & E & Hc). exists c. by rewrite <- Nat.add_assoc.
Qed.

Lemma wp_load a x m (Q : Z → list Z → Prop) : m !! a = Some x → Q x m → wp (load a) Q m.
Proof. intros E HQ. unfold wp, load. by rewrite E. Qed.

Lemma wp_load_long L a m (Q : Z → list Z → Prop) : (a + L ≤ length m)%nat → Q (le (take L (drop a m))) m → wp (load_long L a) Q m.
Proof. intros Hl HQ. unfold wp, load_long. by rewrite (proj2 (Nat.leb_le _ _)). Qed.

Lemma to_nul_spec fuel m a k : nul_at m a k → (k < fuel)%nat → wp (to_nul fuel a) (λ r m', r = (a + k)%nat ∧ m' = m) m.
Proof.
  revert a k; induction fuel as [|fuel IH]; intros a k Hn Hk; [lia|]. pose proof Hn as [H0 Hj]. cbn [to_nul]. apply wp_seq. destruct k as [|k].
  - rewrite Nat.add_0_r in *. apply (wp_load a 0); [done|]. by apply wp_ret.
  - destruct (Hj 0%nat ltac:(lia)) as (c & Ec & Hc). rewrite Nat.add_0_r in Ec. apply (wp_load a c); [done|].
    rewrite (proj2 (Z.eqb_neq _ _)) by done. pose proof (nul_at_skip m a (S k) 1 Hn ltac:(lia)) as Hn'. rewrite Nat.add_1_r in Hn'.
    eapply wp_weaken; [apply (IH (S a) k)|]; [by replace k with (S k - 1)%nat by lia|lia|]. intros r m' [-> ->]. split; [lia|done].
Qed.


Lemma zero_in_word m a k : bytes m → (a + 4 ≤ length m)%nat → nul_at m a k → has_zero 4 (le (take 4 (drop a m))) = bool_decide (k < 4)%nat.
Proof.
  intros Hb Hl [H0 Hj]. assert (bytes (take 4 (drop a m))) as Hw by by apply Forall_take, Forall_drop.
  rewrite has_zero_spec; [|done|rewrite length_take, length_drop; lia|lia]. rewrite take_take. apply bool_decide_ext.
  rewrite list_elem_of_lookup. split.
  - intros (i & Hi). assert (i < 4)%nat as Hi4 by (apply lookup_lt_Some in Hi; rewrite length_take in Hi; lia).
    rewrite lookup_take_lt, lookup_drop in Hi by lia. destruct (decide (k ≤ i)%nat); [lia|]. destruct (Hj i ltac:(lia)) as (c & Ec & Hc). congruence.
  - intros Hk. exists k. by rewrite lookup_take_lt, lookup_drop by lia.
Qed.

Lemma words_to_zero_spec fuel m a k : bytes m → (length m mod 4 = 0)%nat → (a mod 4 = 0)%nat → nul_at m a k → (k < 4 * fuel)%nat →
  wp (words_to_zero 4 fuel a) (λ r m', m' = m ∧ ∃ i, r = (a + i)%nat ∧ (i ≤ k)%nat) m.
Proof.
  intros Hb Hm. revert a k; induction fuel as [|fuel IH]; intros a k Ha Hn Hk; [lia|]. cbn [words_to_zero]. apply wp_seq.
  assert (a + 4 ≤ length m)%nat as Hl.
  { pose proof (lookup_lt_Some _ _ _ (proj1 Hn)). pose proof (Nat.div_mod_eq (length m) 4). pose proof (Nat.div_mod_eq a 4). lia. }
  apply wp_load_long; [done|]. rewrite (zero_in_word m a k) by done. case_bool_decide as H4.
  - apply wp_ret. split; [done|]. exists 0%nat. lia.
  - eapply wp_weaken; [apply (IH (a + 4)%nat (k - 4)%nat)|]; [|apply nul_at_skip; [done|lia]|lia|].
    + by replace (a + 4)%nat with (a + 1 * 4)%nat by lia; rewrite Nat.Div0.mod_add.
    + intros r m' (-> & i & -> & Hi). split; [done|]. exists (4 + i)%nat. lia.
Qed.

Lemma strlen_loop_spec fuel m start str k : bytes m → (length m mod 4 = 0)%nat → nul_at m str k → (start ≤ str)%nat →
  ((str mod 4 = 0 ∧ 1 ≤ fuel) ∨ 4 < fuel + str mod 4)%nat →
  wp (strlen_loop 4 fuel start str) (λ r m', r = (str + k - start)%nat ∧ m' = m) m.
Proof.
  intros Hb Hm. revert str k; induction fuel as [|fuel IH]; intros str k Hn Hs Hf.
  { pose proof (Nat.mod_upper_bound str 4). lia. }
  cbn [strlen_loop]. unfold unaligned. destruct (Nat.eqb_spec (str mod 4) 0) as [Ha|Ha]; cbn [negb].
  - pose proof (lookup_lt_Some _ _ _ (proj1 Hn)) as Hlt. apply wp_seq. eapply wp_weaken; [apply (words_to_zero_spec (length m) m str k); [done..|lia]|].
    intros a m' (-> & i & -> & Hi). apply wp_seq. eapply wp_weaken; [apply (to_nul_spec (length m) m (str + i) (k - i)); [by apply nul_at_skip|lia]|].
    intros r m' [-> ->]. apply wp_ret. split; [lia|done].
  - apply wp_seq. destruct k as [|k].
    + destruct Hn as [H0 _]. rewrite Nat.add_0_r in *. apply (wp_load str 0); [done|]. apply wp_ret. done.
    + destruct (proj2 Hn 0%nat ltac:(lia)) as (c & Ec & Hc). rewrite Nat.add_0_r in Ec. apply (wp_load str c); [done|].
      rewrite (proj2 (Z.eqb_neq _ _)) by done. pose proof (nul_at_skip m str (S k) 1 Hn ltac:(lia)) as Hn'. rewrite Nat.add_1_r in Hn'.
      eapply wp_weaken; [apply (IH (S str) k)|]; [by replace k with (S k - 1)%nat by lia|lia| |intros r m' [-> ->]; split; [lia|done]].
      pose proof (Nat.div_mod_eq str 4). pose proof (Nat.div_mod_eq (S str) 4). pose proof (Nat.mod_upper_bound (S str) 4). pose proof (Nat.mod_upper_bound str 4). lia.
Qed.

(** ** Comparing *)

(** The first place where two strings differ or end, with their bytes there. *)
Definition differ_at m (s1 s2 k : nat) (c1 c2 : Z) : Prop :=
  m !! (s1 + k)%nat = Some c1 ∧ m !! (s2 + k)%nat = Some c2 ∧ (c1 = 0 ∨ c1 ≠ c2) ∧
  ∀ j, (j < k)%nat → ∃ c, m !! (s1 + j)%nat = Some c ∧ m !! (s2 + j)%nat = Some c ∧ c ≠ 0.

Lemma differ_at_skip m s1 s2 k c1 c2 i : differ_at m s1 s2 k c1 c2 → (i ≤ k)%nat → differ_at m (s1 + i) (s2 + i) (k - i) c1 c2.
Proof.
  intros (E1 & E2 & Hc & Hj) Hi. split; [by replace (s1 + i + (k - i))%nat with (s1 + k)%nat by lia|].
  split; [by replace (s2 + i + (k - i))%nat with (s2 + k)%nat by lia|]. split; [done|]. intros j Hlt.
  destruct (Hj (i + j)%nat ltac:(lia)) as (c & ?). exists c. by rewrite <- !Nat.add_assoc.
Qed.

Lemma compare_bytes_spec fuel m s1 s2 k c1 c2 : differ_at m s1 s2 k c1 c2 → (k < fuel)%nat →
  wp (compare_bytes fuel s1 s2) (λ r m', r = c1 - c2 ∧ m' = m) m.
Proof.
  revert s1 s2 k; induction fuel as [|fuel IH]; intros s1 s2 k Hd Hk; [lia|]. pose proof Hd as (E1 & E2 & Hc & Hj). cbn [compare_bytes]. apply wp_seq.
  destruct k as [|k].
  - rewrite Nat.add_0_r in E1, E2. apply (wp_load s1 c1); [done|]. apply wp_seq, (wp_load s2 c2); [done|].
    assert (negb (c1 =? 0) && (c1 =? c2) = false) as ->; [|by apply wp_ret].
    destruct (Z.eqb_spec c1 0); [done|]. cbn. apply Z.eqb_neq. tauto.
  - destruct (Hj 0%nat ltac:(lia)) as (c & F1 & F2 & Hc0). rewrite Nat.add_0_r in F1, F2. apply (wp_load s1 c); [done|].
    apply wp_seq, (wp_load s2 c); [done|].
    rewrite (proj2 (Z.eqb_neq _ _)) by done. rewrite Z.eqb_refl. cbn [negb andb].
    pose proof (differ_at_skip m s1 s2 (S k) c1 c2 1 Hd ltac:(lia)) as Hd'. rewrite !Nat.add_1_r in Hd'.
    apply (IH (S s1) (S s2) k); [by replace k with (S k - 1)%nat by lia|lia].
Qed.

Lemma differ_nul m s1 s2 k c1 c2 : differ_at m s1 s2 k c1 c2 → c1 = 0 → nul_at m s1 k.
Proof. intros (E1 & E2 & Hc & Hj) ->. split; [done|]. intros j Hlt. destruct (Hj j Hlt) as (c & ? & _ & ?). by exists c. Qed.

(** Words are equal when their bytes are. *)
Lemma equal_words m s1 s2 : bytes m → (s1 + 4 ≤ length m)%nat → (s2 + 4 ≤ length m)%nat →
  le (take 4 (drop s1 m)) = le (take 4 (drop s2 m)) ↔ ∀ j, (j < 4)%nat → m !! (s1 + j)%nat = m !! (s2 + j)%nat.
Proof.
  intros Hb H1 H2. split.
  - intros E j Hj. apply (value_inj 8) in E; [|done|by apply Forall_take, Forall_drop..|rewrite !length_take, !length_drop; lia].
    apply (f_equal (lookup j)) in E. by rewrite !lookup_take_lt, !lookup_drop in E by lia.
  - intros Hj. f_equal. apply list_eq. intros j. destruct (decide (j < 4)%nat) as [Hlt|Hge].
    + rewrite !lookup_take_lt, !lookup_drop by lia. by apply Hj.
    + by rewrite !lookup_take_ge by lia.
Qed.

Lemma compare_words_spec fuel m s1 s2 k c1 c2 : bytes m → (length m mod 4 = 0)%nat → (s1 mod 4 = 0)%nat → (s2 mod 4 = 0)%nat →
  differ_at m s1 s2 k c1 c2 → (k < 4 * fuel)%nat →
  wp (compare_words 4 fuel s1 s2) (λ r m', m' = m ∧
    match r with None => c1 - c2 = 0 | Some (a1, a2) => ∃ i, a1 = (s1 + i)%nat ∧ a2 = (s2 + i)%nat ∧ (i ≤ k)%nat end) m.
Proof.
  intros Hb Hm. revert s1 s2 k; induction fuel as [|fuel IH]; intros s1 s2 k H1 H2 Hd Hk; [lia|]. pose proof Hd as (E1 & E2 & Hc & Hj).
  assert (s1 + 4 ≤ length m ∧ s2 + 4 ≤ length m)%nat as [Hl1 Hl2].
  { pose proof (lookup_lt_Some _ _ _ E1). pose proof (lookup_lt_Some _ _ _ E2). pose proof (Nat.div_mod_eq (length m) 4).
    pose proof (Nat.div_mod_eq s1 4). pose proof (Nat.div_mod_eq s2 4). lia. }
  cbn [compare_words]. apply wp_seq, wp_load_long; [done|]. apply wp_seq, wp_load_long; [done|].
  destruct (Z.eqb_spec (le (take 4 (drop s1 m))) (le (take 4 (drop s2 m)))) as [E|E].
  2: { apply wp_ret. split; [done|]. exists 0%nat. lia. }
  rewrite (equal_words m s1 s2 Hb Hl1 Hl2) in E.
  destruct (has_zero 4 (le (take 4 (drop s1 m)))) eqn:Ez.
  - apply wp_ret. split; [done|]. destruct (decide (k < 4)%nat) as [Hlt|Hge].
    { specialize (E k Hlt). rewrite E1, E2 in E. injection E as ->. lia. }
    exfalso. rewrite has_zero_spec in Ez; [|by apply Forall_take, Forall_drop|rewrite length_take, length_drop; lia|lia].
    rewrite take_take in Ez. apply bool_decide_eq_true, list_elem_of_lookup in Ez as (i & Hi).
    assert (i < 4)%nat as Hi4 by (apply lookup_lt_Some in Hi; rewrite length_take in Hi; lia).
    rewrite lookup_take_lt, lookup_drop in Hi by lia. destruct (Hj i ltac:(lia)) as (c & Ec & _ & Hc0). congruence.
  - assert (4 ≤ k)%nat as Hk4.
    { destruct (decide (4 ≤ k)%nat); [done|]. specialize (E k ltac:(lia)). rewrite E1, E2 in E. injection E as ->.
      destruct Hc as [->|]; [|done]. rewrite (zero_in_word m s1 k), bool_decide_true in Ez by (done || lia || by eapply differ_nul). done. }
    eapply wp_weaken; [apply (IH (s1 + 4)%nat (s2 + 4)%nat (k - 4)%nat)|]; [| |by apply differ_at_skip|lia|].
    + by replace (s1 + 4)%nat with (s1 + 1 * 4)%nat by lia; rewrite Nat.Div0.mod_add.
    + by replace (s2 + 4)%nat with (s2 + 1 * 4)%nat by lia; rewrite Nat.Div0.mod_add.
    + intros r m' [-> Hr]. split; [done|]. destruct r as [[a1 a2]|]; [|done]. destruct Hr as (i & -> & -> & Hi). exists (4 + i)%nat. lia.
Qed.

(** ** Writing a list over a region *)

(** The words' bytes are the memory's. *)
Lemma long_bytes_value L w : bytes (long_bytes L w) ∧ le (long_bytes L w) = ulong L w.
Proof.
  unfold long_bytes, ulong. split; [apply Forall_fmap, Forall_forall; intros k _; apply u8_byte|].
  enough (∀ n i, le ((λ k, u8 (Z.shiftr w (8 * Z.of_nat k))) <$> seq i n) = Z.shiftr w (8 * Z.of_nat i) mod 2 ^ (8 * Z.of_nat n)) as E.
  { rewrite E. by rewrite Z.shiftr_0_r. }
  induction n as [|n IH]; intros i; [by rewrite Z.mod_1_r|]. cbn [seq]. rewrite fmap_cons. cbn [bignum_value]. rewrite IH.
  replace (8 * Z.of_nat (S n)) with (8 + 8 * Z.of_nat n) by lia. rewrite Z.pow_add_r, Z.rem_mul_r by lia.
  unfold u8. f_equal. f_equal. rewrite <- Z.shiftr_div_pow2, Z.shiftr_shiftr by lia. do 2 f_equal. lia.
Qed.

Lemma long_bytes_le L bs : bytes bs → length bs = L → long_bytes L (le bs) = bs.
Proof.
  intros Hb <-. destruct (long_bytes_value (length bs) (le bs)) as [D V]. pose proof (value_bounds 8 ltac:(done) bs Hb).
  apply (value_inj 8); [done..|unfold long_bytes; by rewrite length_fmap, length_seq|]. rewrite V. unfold ulong. by rewrite Z.mod_small.
Qed.

(** The bytes [bs] over those from [a] on. *)
Definition over (a : nat) (bs : list Z) m : list Z := take a m ++ bs ++ drop (a + length bs) m.

Lemma length_over a bs m : (a + length bs ≤ length m)%nat → length (over a bs m) = length m.
Proof. intros H. unfold over. rewrite !length_app, length_take, length_drop. lia. Qed.

Lemma over_outside a bs m i : (a + length bs ≤ length m)%nat → (i < a ∨ a + length bs ≤ i)%nat → over a bs m !! i = m !! i.
Proof.
  intros Hl [Hi|Hi]; unfold over.
  - rewrite lookup_app_l by (rewrite length_take; lia). by rewrite lookup_take_lt.
  - rewrite lookup_app_r by (rewrite length_take; lia). rewrite length_take, lookup_app_r, lookup_drop by lia. f_equal. lia.
Qed.

Lemma over_app a bs cs m : (a + length bs + length cs ≤ length m)%nat → over (a + length bs) cs (over a bs m) = over a (bs ++ cs) m.
Proof.
  intros H. assert (length (take a m ++ bs) = (a + length bs)%nat) as Hl by (rewrite length_app, length_take; lia).
  assert (take (a + length bs) (over a bs m) = take a m ++ bs) as Et.
  { unfold over. rewrite app_assoc. by apply take_app_length'. }
  assert (drop (a + length bs + length cs) (over a bs m) = drop (a + length bs + length cs) m) as Ed.
  { unfold over. rewrite app_assoc, drop_app_ge, drop_drop, Hl by lia. f_equal. lia. }
  unfold over at 1. rewrite Et, Ed. unfold over. by rewrite <- !app_assoc, length_app, Nat.add_assoc.
Qed.

Section writing.
Variables (L a : nat) (bs : list Z) (m : list Z).
Hypothesis room : (a + length bs ≤ length m)%nat.

(** After the first [k] bytes. *)
Definition written (k : nat) : list Z := over a (take k bs) m.

Lemma length_written k : length (written k) = length m.
Proof. apply length_over. rewrite length_take. lia. Qed.

Lemma written_more k cs : take (length cs) (drop k bs) = cs → (k + length cs ≤ length bs)%nat →
  over (a + k) cs (written k) = written (k + length cs).
Proof.
  intros E H. assert (length (take k bs) = k) as Hk by (rewrite length_take; lia). unfold written at 1.
  rewrite <- Hk at 1. rewrite over_app by lia. unfold written. f_equal. by rewrite <- (take_take_drop bs k), E.
Qed.

Lemma wp_save p k x (Q : () → list Z → Prop) : p = (a + k)%nat → bs !! k = Some x → Q () (written (S k)) → wp (save p x) Q (written k).
Proof.
  intros -> Ex HQ. pose proof (lookup_lt_Some _ _ _ Ex) as Hk. unfold wp, save. rewrite length_written, (proj2 (Nat.ltb_lt _ _)) by lia.
  assert (<[(a + k)%nat := x]> (written k) = written (S k)) as ->; [|done]. rewrite <- Nat.add_1_r. change 1%nat with (length [x]).
  rewrite <- (written_more k [x]); [|by rewrite (drop_S _ x)|cbn; lia]. unfold over. rewrite insert_take_drop by (rewrite length_written; lia).
  cbn. do 3 f_equal. lia.
Qed.

Lemma wp_save_long p k w (Q : () → list Z → Prop) : p = (a + k)%nat → (k + L ≤ length bs)%nat → long_bytes L w = take L (drop k bs) →
  Q () (written (k + L)) → wp (save_long L p w) Q (written k).
Proof.
  intros -> Hk Ew HQ. unfold wp, save_long. rewrite length_written, (proj2 (Nat.leb_le _ _)) by lia.
  assert (length (long_bytes L w) = L) as Lw by (unfold long_bytes; by rewrite length_fmap, length_seq).
  pose proof (written_more k (long_bytes L w)) as E. rewrite Lw in E. rewrite <- E in HQ by done. unfold over in HQ. by rewrite Lw in HQ.
Qed.
End writing.

(** ** Copying *)

Lemma length_source src len m : (src + len ≤ length m)%nat → length (take len (drop src m)) = len.
Proof. rewrite length_take, length_drop. lia. Qed.

Section copying.
Variables (L dst src len : nat) (m : list Z).
Hypothesis Hm : bytes m.
Hypothesis HL : (0 < L)%nat.
Hypothesis Hsrc : (src + len ≤ length m)%nat.
Hypothesis Hdst : (dst + len ≤ length m)%nat.
Hypothesis apart : (src + len ≤ dst ∨ dst + len ≤ src)%nat.

Definition copied := written dst (take len (drop src m)) m.

Lemma copied_room : (dst + length (take len (drop src m)) ≤ length m)%nat.
Proof. by rewrite length_source. Qed.

Lemma copied_source k j : (j < len)%nat → copied k !! (src + j)%nat = take len (drop src m) !! j.
Proof.
  intros Hj. unfold copied, written. rewrite over_outside; [by rewrite lookup_take_lt, lookup_drop|..]; rewrite length_take, length_source by done; lia.
Qed.

Lemma wp_copy_byte d s k (Q : () → list Z → Prop) : d = (dst + k)%nat → s = (src + k)%nat → (k < len)%nat →
  Q () (copied (S k)) → wp (c ← load s; save d c) Q (copied k).
Proof.
  intros -> -> Hk HQ. destruct (lookup_lt_is_Some_2 (take len (drop src m)) k) as [c Ec]; [by rewrite length_source|].
  apply wp_seq, (wp_load _ c); [by rewrite copied_source|]. unfold copied. eapply wp_save; [apply copied_room|done..].
Qed.

Lemma wp_copy_long d s k (Q : () → list Z → Prop) : d = (dst + k)%nat → s = (src + k)%nat → (k + L ≤ len)%nat →
  Q () (copied (k + L)) → wp (copy_long L d s) Q (copied k).
Proof.
  intros -> -> Hk HQ. pose proof copied_room as Hr. unfold copy_long. apply wp_seq, wp_load_long; [unfold copied; rewrite length_written by done; lia|].
  assert (take L (drop (src + k) (copied k)) = take L (drop k (take len (drop src m)))) as ->.
  { apply list_eq. intros i. destruct (decide (i < L)%nat) as [Hi|Hi]; [|by rewrite !lookup_take_ge by lia].
    rewrite !lookup_take_lt, !lookup_drop by done. rewrite <- Nat.add_assoc. apply copied_source. lia. }
  unfold copied. apply wp_save_long; [done..|rewrite length_source by done; lia| |done].
  apply long_bytes_le; [by apply Forall_take, Forall_drop, Forall_take, Forall_drop|]. rewrite length_take, length_drop, length_source by done. lia.
Qed.

Lemma copy_bytes_spec n d s k : d = (dst + k)%nat → s = (src + k)%nat → (k + n = len)%nat → wp (copy_bytes n d s) (λ _ m', m' = copied len) (copied k).
Proof.
  revert d s k; induction n as [|n IH]; intros d s k Ed Es Hn; cbn [copy_bytes].
  - apply wp_ret. f_equal. lia.
  - apply wp_assoc, wp_seq, (wp_copy_byte d s k); [done..|lia|]. apply IH; lia.
Qed.

Lemma copy_longs_spec fuel d s k : d = (dst + k)%nat → s = (src + k)%nat → (k ≤ len)%nat → (len - k < fuel)%nat →
  wp (copy_longs L fuel d s (len - k)) (λ '(d, s, n) m', ∃ k, d = dst + k ∧ s = src + k ∧ k + n = len ∧ m' = copied k)%nat (copied k).
Proof.
  revert d s k; induction fuel as [|fuel IH]; intros d s k Ed Es Hk Hf; [lia|]. cbn [copy_longs]. case_match eqn:E4.
  - apply Nat.leb_le in E4. do 4 (apply wp_seq; eapply wp_copy_long; [lia..|]).
    replace (len - k - 4 * L)%nat with (len - (k + L + L + L + L))%nat by lia. apply IH; lia.
  - case_match eqn:E1.
    + apply Nat.leb_le in E1. apply wp_seq; eapply wp_copy_long; [lia..|]. rewrite <- Nat.sub_add_distr. apply IH; lia.
    + apply wp_ret. exists k. repeat split; [done..|lia].
Qed.

Lemma memcpy_copies : wp (memcpy L dst src len) (λ r m', r = dst ∧ m' = over dst (take len (drop src m)) m) m.
Proof.
  assert (m = copied 0) as E0 by by unfold copied, written, over; rewrite take_0, Nat.add_0_r, app_nil_l, take_drop.
  assert (copied len = over dst (take len (drop src m)) m) as El by (unfold copied, written; by rewrite take_ge by (rewrite length_source by done; lia)).
  enough (wp (memcpy L dst src len) (λ r m', r = dst ∧ m' = copied len) (copied 0)) as H by by rewrite El, <- E0 in H.
  unfold memcpy. apply wp_seq.
  apply (wp_weaken _ (λ '(d, s, n) m', ∃ k, d = dst + k ∧ s = src + k ∧ k + n = len ∧ m' = copied k)%nat).
  - case_match; [|apply wp_ret; exists 0%nat; repeat split; lia].
    rewrite <- (Nat.sub_0_r len) at 2. apply copy_longs_spec; lia.
  - intros [[d s] n] m' (k & Ed & Es & Hn & ->). apply wp_seq. eapply wp_weaken; [by apply (copy_bytes_spec n d s k)|].
    intros [] m' ->. by apply wp_ret.
Qed.
End copying.

(** ** Filling *)

Lemma fill_word_bytes L c : L = 4%nat ∨ L = 8%nat → long_bytes L (fill_word L c) = replicate L (u8 c).
Proof.
  intros HL. transitivity (long_bytes L (fill_word L (u8 c))); [unfold fill_word, u8; by rewrite Z.mod_mod|].
  destruct HL as [-> | ->].
  - apply (byte_cases (λ d, long_bytes 4 (fill_word 4 d) = replicate 4 d)); [by vm_compute|apply u8_byte].
  - apply (byte_cases (λ d, long_bytes 8 (fill_word 8 d) = replicate 8 d)); [by vm_compute|apply u8_byte].
Qed.

Lemma next_mod s L : (0 < L)%nat → (S s mod L = S (s mod L) ∨ S s mod L = 0 ∧ S (s mod L) = L)%nat.
Proof.
  intros HL. pose proof (Nat.mod_upper_bound s L ltac:(lia)). pose proof (Nat.div_mod_eq s L).
  destruct (decide (S (s mod L) = L)) as [E|E].
  - right. split; [|done]. rewrite (Nat.Div0.div_mod s L) at 1. rewrite <- Nat.add_succ_r, E. replace (L * (s / L) + L)%nat with (0 + S (s / L) * L)%nat by lia.
    by rewrite Nat.Div0.mod_add, Nat.Div0.mod_0_l.
  - left. symmetry. apply (Nat.mod_unique _ _ (s / L)%nat); lia.
Qed.

Section filling.
Variables (L s0 n0 : nat) (c : Z) (m : list Z).
Hypothesis HL : L = 4%nat ∨ L = 8%nat.
Hypothesis Hroom : (s0 + n0 ≤ length m)%nat.

Definition filled := written s0 (replicate n0 (u8 c)) m.

Lemma filled_room : (s0 + length (replicate n0 (u8 c)) ≤ length m)%nat.
Proof. by rewrite length_replicate. Qed.

Lemma wp_fill_byte s k (Q : () → list Z → Prop) : s = (s0 + k)%nat → (k < n0)%nat → Q () (filled (S k)) → wp (save s (u8 c)) Q (filled k).
Proof. intros -> Hk HQ. unfold filled. eapply wp_save; [apply filled_room|done|by apply lookup_replicate_2|done]. Qed.

Lemma wp_fill_long s k (Q : () → list Z → Prop) : s = (s0 + k)%nat → (k + L ≤ n0)%nat → Q () (filled (k + L)) →
  wp (save_long L s (fill_word L c)) Q (filled k).
Proof.
  intros -> Hk HQ. unfold filled. apply wp_save_long; [apply filled_room|done|rewrite length_replicate; lia| |done].
  rewrite fill_word_bytes, drop_replicate, take_replicate by done. f_equal. lia.
Qed.

Lemma set_bytes_spec n s k : s = (s0 + k)%nat → (k + n = n0)%nat → wp (set_bytes n s c) (λ _ m', m' = filled n0) (filled k).
Proof.
  revert s k; induction n as [|n IH]; intros s k Es Hn; cbn [set_bytes].
  - apply wp_ret. f_equal. lia.
  - apply wp_seq, wp_fill_byte; [done|lia|]. apply IH; lia.
Qed.

Lemma set_longs_spec fuel s k : s = (s0 + k)%nat → (k ≤ n0)%nat → (n0 - k < fuel)%nat →
  wp (set_longs L fuel s (n0 - k) (fill_word L c)) (λ '(s, n) m', ∃ k, s = s0 + k ∧ k + n = n0 ∧ m' = filled k)%nat (filled k).
Proof.
  revert s k; induction fuel as [|fuel IH]; intros s k Es Hk Hf; [lia|]. cbn [set_longs]. case_match eqn:E4.
  - apply Nat.leb_le in E4. do 4 (apply wp_seq; eapply wp_fill_long; [lia..|]).
    replace (n0 - k - 4 * L)%nat with (n0 - (k + L + L + L + L))%nat by lia. apply IH; lia.
  - case_match eqn:E1.
    + apply Nat.leb_le in E1. apply wp_seq; eapply wp_fill_long; [lia..|]. rewrite <- Nat.sub_add_distr. apply IH; lia.
    + apply wp_ret. exists k. repeat split; [done..|lia].
Qed.

Lemma memset_loop_spec fuel s k : s = (s0 + k)%nat → (k ≤ n0)%nat → (s mod L = 0 ∧ 1 ≤ fuel ∨ L < fuel + s mod L)%nat →
  wp (memset_loop L fuel s0 s c (n0 - k)) (λ r m', r = s0 ∧ m' = filled n0) (filled k).
Proof.
  assert (0 < L)%nat as HL0 by lia. revert s k; induction fuel as [|fuel IH]; intros s k Es Hk Hf.
  { pose proof (Nat.mod_upper_bound s L). lia. }
  cbn [memset_loop]. unfold unaligned. destruct (Nat.eqb_spec (s mod L) 0) as [Ha|Ha]; cbn [negb].
  - apply wp_seq, (wp_weaken _ (λ '(s, n) m', ∃ k, s = s0 + k ∧ k + n = n0 ∧ m' = filled k)%nat).
    + case_match; [apply set_longs_spec; lia|apply wp_ret; exists k; repeat split; [done|lia]].
    + intros [s' n] m' (k' & Es' & Hn & ->). apply wp_seq. eapply wp_weaken; [by apply (set_bytes_spec n s' k')|]. intros [] m' ->. by apply wp_ret.
  - destruct (n0 - k)%nat as [|n] eqn:En; [apply wp_ret; split; [done|f_equal; lia]|].
    apply wp_seq, wp_fill_byte; [done|lia|]. replace n with (n0 - S k)%nat by lia. apply IH; [lia..|].
    destruct (next_mod s L HL0) as [->|[-> ?]]; lia.
Qed.

Lemma memset_fills : wp (memset L s0 c n0) (λ r m', r = s0 ∧ m' = over s0 (replicate n0 (u8 c)) m) m.
Proof.
  assert (m = filled 0) as E0 by by unfold filled, written, over; rewrite take_0, Nat.add_0_r, app_nil_l, take_drop.
  assert (filled n0 = over s0 (replicate n0 (u8 c)) m) as El by (unfold filled, written; by rewrite take_ge by (rewrite length_replicate; lia)).
  enough (wp (memset L s0 c n0) (λ r m', r = s0 ∧ m' = filled n0) (filled 0)) as H by by rewrite El, <- E0 in H.
  pose proof (memset_loop_spec L s0 0) as H. rewrite Nat.sub_0_r in H. pose proof (Nat.mod_upper_bound s0 L). apply H; lia.
Qed.
End filling.

(** ** What the functions promise *)

(** The bytes of a string, before its NUL. *)
Fixpoint String_at m (a : nat) (l : list Z) : Prop :=
  match l with [] => m !! a = Some 0 | c :: l' => m !! a = Some c ∧ c ≠ 0 ∧ String_at m (S a) l' end.

(** The difference of the first bytes that differ, NULs included. *)
Fixpoint compare (l1 l2 : list Z) : Z :=
  match l1, l2 with
  | [], [] => 0
  | [], c2 :: _ => - c2
  | c1 :: _, [] => c1
  | c1 :: l1', c2 :: l2' => if c1 =? c2 then compare l1' l2' else c1 - c2
  end.

Lemma string_nul m a l : String_at m a l → nul_at m a (length l).
Proof.
  revert a; induction l as [|c l IH]; intros a; cbn [String_at length].
  - intros E. split; [by rewrite Nat.add_0_r|]. intros j Hj. lia.
  - intros (E & Hc & Hl). destruct (IH (S a) Hl) as [E0 Hj]. split; [by rewrite <- Nat.add_succ_comm|].
    intros [|j] Hlt; [rewrite Nat.add_0_r; eauto|]. rewrite <- Nat.add_succ_comm. apply Hj. lia.
Qed.

Lemma differ_later m s1 s2 k c1 c2 c : m !! s1 = Some c → m !! s2 = Some c → c ≠ 0 → differ_at m (S s1) (S s2) k c1 c2 →
  differ_at m s1 s2 (S k) c1 c2.
Proof.
  intros E1 E2 Hc (F1 & F2 & Hd & Hj). split; [by rewrite <- Nat.add_succ_comm|]. split; [by rewrite <- Nat.add_succ_comm|]. split; [done|].
  intros [|j] Hlt; [rewrite !Nat.add_0_r; eauto|]. rewrite <- !Nat.add_succ_comm. apply Hj. lia.
Qed.

Lemma strings_differ m s1 s2 l1 l2 : String_at m s1 l1 → String_at m s2 l2 →
  ∃ k c1 c2, differ_at m s1 s2 k c1 c2 ∧ compare l1 l2 = c1 - c2.
Proof.
  assert (∀ c1 c2, m !! s1 = Some c1 → m !! s2 = Some c2 → c1 = 0 ∨ c1 ≠ c2 → differ_at m s1 s2 0 c1 c2) as Here.
  { intros c1 c2 E1 E2 Hc. split; [by rewrite Nat.add_0_r|]. split; [by rewrite Nat.add_0_r|]. split; [done|]. intros j Hj. lia. }
  revert s1 s2 l2 Here; induction l1 as [|c1 l1 IH]; intros s1 s2 [|c2 l2] Here; cbn [String_at compare]; intros H1 H2.
  - exists 0%nat, 0, 0. split; [apply Here; [done|done|by left]|done].
  - destruct H2 as (H2 & Hc & _). exists 0%nat, 0, c2. split; [apply Here; [done|done|by left]|lia].
  - destruct H1 as (H1 & Hc & _). exists 0%nat, c1, 0. split; [apply Here; [done|done|by right]|lia].
  - destruct H1 as (H1 & Hc1 & Hl1), H2 as (H2 & Hc2 & Hl2). destruct (Z.eqb_spec c1 c2) as [->|Hne].
    + destruct (IH (S s1) (S s2) l2) as (k & d1 & d2 & Hd & E); [|done..|].
      { intros d1 d2 F1 F2 Hd. split; [by rewrite Nat.add_0_r|]. split; [by rewrite Nat.add_0_r|]. split; [done|]. intros j Hj. lia. }
      exists (S k), d1, d2. split; [by eapply differ_later|done].
    + exists 0%nat, c1, c2. split; [apply Here; [done|done|by right]|done].
Qed.

Lemma wp_stays {A} (c : M A) (r : A) m : wp c (λ r' m', r' = r ∧ m' = m) m → c m = Some (r, m).
Proof. intros (r' & m' & E & -> & ->)%wp_total. done. Qed.

(** C36 On the machines whose longs have 4 bytes, in a memory of whole words,
    [strlen] returns the number of bytes before the NUL and [strcmp] the
    difference of the first bytes that differ, wherever the strings are and
    whatever follows them in their last words: the test of a whole word for
    a zero byte is exact. *)
Theorem strings_by_words m s1 s2 l1 l2 : bytes m → (length m mod 4 = 0)%nat → String_at m s1 l1 → String_at m s2 l2 →
  strlen 4 s1 m = Some (length l1, m) ∧ strcmp 4 s1 s2 m = Some (compare l1 l2, m).
Proof.
  intros Hb Hm H1 H2. split; apply wp_stays.
  - unfold strlen. eapply wp_weaken; [apply (strlen_loop_spec 4 m s1 s1 (length l1)); [done..|by apply string_nul|done|]|].
    + pose proof (Nat.mod_upper_bound s1 4). lia.
    + intros r m' [-> ->]. split; [lia|done].
  - destruct (strings_differ m s1 s2 l1 l2 H1 H2) as (k & c1 & c2 & Hd & ->). pose proof (lookup_lt_Some _ _ _ (proj1 Hd)) as Hk.
    unfold strcmp. change (wp (if unaligned 4 s1 || unaligned 4 s2 then compare_bytes (length m) s1 s2 else
      r ← compare_words 4 (length m) s1 s2; match r with None => mret 0 | Some (a1, a2) => compare_bytes (length m) a1 a2 end)
      (λ r' m', r' = c1 - c2 ∧ m' = m) m).
    destruct (unaligned 4 s1 || unaligned 4 s2) eqn:Ea; [apply (compare_bytes_spec _ _ _ _ k); [done|lia]|].
    apply orb_false_iff in Ea as [E1%negb_false_iff%Nat.eqb_eq E2%negb_false_iff%Nat.eqb_eq].
    apply wp_seq. eapply wp_weaken; [apply (compare_words_spec _ m s1 s2 k c1 c2); [done..|lia]|].
    intros [[a1 a2]|] m' [-> Hr]; [|by apply wp_ret]. destruct Hr as (i & -> & -> & Hi).
    apply (compare_bytes_spec _ _ _ _ (k - i)); [by apply differ_at_skip|lia].
Qed.

(** [abc] at 1 and [abcdee] at 8, among other bytes. *)
Lemma strings_by_words_witness :
  let m := [7; 97; 98; 99; 0; 255; 128; 0; 97; 98; 99; 100; 101; 101; 0; 129] in
  strlen 4 8 m = Some (6%nat, m) ∧ strcmp 4 1 8 m = Some (-100, m).
Proof.
  intros m. split; [|apply (strings_by_words m 1 8 [97; 98; 99] [97; 98; 99; 100; 101; 101]); [by repeat constructor|done|by repeat split..]].
  apply (strings_by_words m 8 1 [97; 98; 99; 100; 101; 101] [97; 98; 99]); [by repeat constructor|done|by repeat split..].
Defined.

(** C37 With longs of 4 or 8 bytes, [memcpy] between ranges that are apart makes
    the destination the source and [memset] makes each byte of its range the
    last 8 bits of [c]; no other byte changes, both return the pointer they
    were given, and both loops of words stay in range. *)
Theorem memory_by_words L m : L = 4%nat ∨ L = 8%nat → bytes m →
  (∀ dst src n, (dst + n ≤ length m)%nat → (src + n ≤ length m)%nat → (src + n ≤ dst ∨ dst + n ≤ src)%nat →
     memcpy L dst src n m = Some (dst, take dst m ++ take n (drop src m) ++ drop (dst + n) m)) ∧
  (∀ s c n, (s + n ≤ length m)%nat →
     memset L s c n m = Some (s, take s m ++ replicate n (u8 c) ++ drop (s + n) m)).
Proof.
  intros HL Hm. assert (0 < L)%nat as HL0 by lia. split.
  - intros dst src n Hd Hs Ha. destruct (wp_total _ _ _ (memcpy_copies L dst src n m Hm HL0 Hs Hd Ha)) as (r & m' & -> & -> & ->).
    unfold over. by rewrite length_source.
  - intros s c n Hs. destruct (wp_total _ _ _ (memset_fills L s n c m HL Hs)) as (r & m' & -> & -> & ->).
    unfold over. by rewrite length_replicate.
Qed.

Lemma memory_by_words_witness :
  memcpy 4 20 0 19 (Z.of_nat <$> seq 0 40) = Some (20%nat, Z.of_nat <$> (seq 0 20 ++ seq 0 19 ++ [39%nat])) ∧
  memset 8 1 511 38 (Z.of_nat <$> seq 0 40) = Some (1%nat, [0] ++ replicate 38 255 ++ [39]).
Proof.
  assert (bytes (Z.of_nat <$> seq 0 40)) as Hb by by repeat constructor. split.
  - destruct (memory_by_words 4 (Z.of_nat <$> seq 0 40)) as [Hc _]; [by left|done|]. apply (Hc 20 0 19)%nat; [by apply Nat.leb_le..|left; by apply Nat.leb_le].
  - destruct (memory_by_words 8 (Z.of_nat <$> seq 0 40)) as [_ Hf]; [by right|done|]. apply (Hf 1%nat 511 38%nat). by apply Nat.leb_le.
Defined.

(** With longs of 8 bytes the constants cover half a word: a NUL among the
    four high bytes of a word is passed over. *)
Example nul_passed_over :
  let m := (λ n, Z.of_nat n) <$> (seq 1 6 ++ [0; 77; 3; 4; 0; 0; 0; 0; 0; 0])%nat in
  strlen 4 0 m = Some (6%nat, m) ∧ strlen 8 0 m = Some (10%nat, m).
Proof. split; by vm_compute. Qed.
