(* ===== verification/Curve.v ===== *)
(** * The group of an elliptic curve

    Points of [y² = x³ + a x + b] over a field where 2 is not 0, with the chord
    and tangent rule; [None] is the point at infinity.  If no point of the
    curve is singular they form a commutative group.  This is what
    DiffieHellman.v means by the multiples of a point. *)

From Stdlib Require Import Zcong Field.
From stdpp Require Import prelude.

(** The laws of a field, and a curve over it without singular points. *)
Class Field {F : Type} (f0 f1 : F) (fadd fmul fsub : F → F → F) (fopp : F → F) (fdiv : F → F → F) (finv : F → F) :=
  field_laws : field_theory f0 f1 fadd fmul fsub fopp fdiv finv eq.
Class Curve {F : Type} (f0 f1 : F) (fadd fmul : F → F → F) (a b : F) := {
  two_nonzero : fadd f1 f1 ≠ f0;
  no_singular_point x : fadd (fadd (fmul (fmul x x) x) (fmul a x)) b = f0 → fadd (fmul (fadd (fadd f1 f1) f1) (fmul x x)) a ≠ f0
}.

Section curve.
Context {F : Type} `{!EqDecision F} {f0 f1 : F} {fadd fmul fsub : F → F → F} {fopp : F → F} {fdiv : F → F → F} {finv : F → F}.
Context {Hfield : Field f0 f1 fadd fmul fsub fopp fdiv finv} {a b : F} {Hcurve : Curve f0 f1 fadd fmul a b}.
Add Field F_field : (field_laws : field_theory f0 f1 fadd fmul fsub fopp fdiv finv eq).

Declare Scope F_scope.
Delimit Scope F_scope with F.
Infix "+" := fadd : F_scope.
Infix "*" := fmul : F_scope.
Infix "-" := fsub : F_scope.
Infix "/" := fdiv : F_scope.
Notation "- x" := (fopp x) : F_scope.
Local Notation "0" := f0 : F_scope.
Local Notation "1" := f1 : F_scope.
Local Notation "2" := (f1 + f1)%F : F_scope.
Local Notation "3" := (f1 + f1 + f1)%F : F_scope.
Local Open Scope F_scope.

Definition point : Type := option (F * F).
Definition on_curve (P : point) : Prop :=
  match P with None => True | Some (x, y) => y * y = x * x * x + a * x + b end.
Definition neg (P : point) : point := match P with None => None | Some (x, y) => Some (x, - y) end.

(** The third point of the line of slope [l] through the first two, reflected. *)
Definition third (l x1 y1 x2 : F) : point := let x := l * l - x1 - x2 in Some (x, l * (x1 - x) - y1).

Definition plus (P Q : point) : point :=
  match P, Q with
  | None, _ => Q
  | _, None => P
  | Some (x1, y1), Some (x2, y2) =>
      if decide (x1 = x2) then
        if decide (y1 = - y2) then None else third ((3 * (x1 * x1) + a) / (2 * y1)) x1 y1 x1
      else third ((y2 - y1) / (x2 - x1)) x1 y1 x2
  end.

(** ** The field *)

Lemma two : 2 ≠ 0.
Proof. apply Hcurve. Qed.
Lemma smooth x : x * x * x + a * x + b = 0 → 3 * (x * x) + a ≠ 0.
Proof. apply Hcurve. Qed.
#[local] Hint Resolve two : core.

Lemma mul_zero x y : x * y = 0 → x = 0 ∨ y = 0.
Proof.
  intros E. destruct (decide (x = 0)) as [|Hx]; [by left|right].
  transitivity (x * y / x); [by field|]. rewrite E. by field.
Qed.

Lemma mul_nonzero x y : x ≠ 0 → y ≠ 0 → x * y ≠ 0.
Proof. intros Hx Hy [|]%mul_zero; done. Qed.

Lemma sub_zero x y : x - y = 0 → x = y.
Proof. intros E. transitivity (x - y + y); [ring|]. rewrite E. ring. Qed.

Lemma sub_nonzero x y : x ≠ y → y - x ≠ 0.
Proof. intros Hn E%sub_zero. apply Hn. by symmetry. Qed.

Lemma mul_cancel x y z : z ≠ 0 → x * z = y * z → x = y.
Proof. intros Hz E. transitivity (x * z / z); [by field|]. rewrite E. by field. Qed.

Lemma own_negative y : y = - y → y = 0.
Proof. intros E. apply (mul_cancel y 0 2 two). transitivity (y + y); [ring|]. rewrite E at 2. ring. Qed.

(** ** Lines through two points *)

(** [l] is the slope of the chord, or of the tangent when they are one. *)
Definition slope (l x1 y1 x2 y2 : F) : Prop :=
  l * (x2 - x1) = y2 - y1 ∧ l * (y1 + y2) = x1 * x1 + x1 * x2 + x2 * x2 + a.

Lemma slope_sym l x1 y1 x2 y2 : slope l x1 y1 x2 y2 → slope l x2 y2 x1 y1.
Proof.
  intros [E1 E2]. split.
  - transitivity (- (l * (x2 - x1))); [ring|]. rewrite E1. ring.
  - transitivity (l * (y1 + y2)); [ring|]. rewrite E2. ring.
Qed.

Lemma curve_difference x1 y1 x2 y2 : on_curve (Some (x1, y1)) → on_curve (Some (x2, y2)) →
  (y1 + y2) * (y2 - y1) = (x2 - x1) * (x1 * x1 + x1 * x2 + x2 * x2 + a).
Proof. cbn. intros H1 H2. ring [H1 H2]. Qed.

Lemma same_x x y1 y2 : on_curve (Some (x, y1)) → on_curve (Some (x, y2)) → y1 = y2 ∨ y1 = - y2.
Proof.
  intros H1 H2. pose proof (curve_difference _ _ _ _ H1 H2) as E.
  replace ((x - x) * (x * x + x * x + x * x + a)) with 0 in E by ring.
  apply mul_zero in E as [E|E]; [right|left].
  - transitivity (y1 + y2 - y2); [ring|]. rewrite E. ring.
  - symmetry. by apply sub_zero.
Qed.

Lemma plus_chord x1 y1 x2 y2 : x1 ≠ x2 → plus (Some (x1, y1)) (Some (x2, y2)) = third ((y2 - y1) / (x2 - x1)) x1 y1 x2.
Proof. intros Hx. unfold plus. by rewrite decide_False. Qed.

Lemma plus_tangent x y : y ≠ 0 → plus (Some (x, y)) (Some (x, y)) = third ((3 * (x * x) + a) / (2 * y)) x y x.
Proof. intros Hy. unfold plus. rewrite decide_True by done. rewrite decide_False; [done|]. by intros ?%own_negative. Qed.

Lemma plus_opposite x y : plus (Some (x, y)) (Some (x, - y)) = None.
Proof. unfold plus. rewrite decide_True by done. rewrite decide_True; [done|ring]. Qed.

Lemma plus_slope l x1 y1 x2 y2 : on_curve (Some (x1, y1)) → on_curve (Some (x2, y2)) → Some (x1, y1) ≠ neg (Some (x2, y2)) →
  slope l x1 y1 x2 y2 → plus (Some (x1, y1)) (Some (x2, y2)) = third l x1 y1 x2.
Proof.
  intros H1 H2 Hn [E1 E2]. destruct (decide (x1 = x2)) as [->|Hx].
  - destruct (same_x _ _ _ H1 H2) as [->| ->]; [|by destruct Hn].
    assert (y2 ≠ 0) as Hy by (intros ->; apply Hn; cbn; do 2 f_equal; ring).
    rewrite plus_tangent by done. f_equal. symmetry. apply (mul_cancel _ _ (y2 + y2)).
    + intros E. apply Hy, own_negative. transitivity (y2 + y2 - y2); [ring|]. rewrite E. ring.
    + rewrite E2. field. split; done.
  - rewrite plus_chord by done. f_equal. assert (x2 - x1 ≠ 0) as Hd by by apply sub_nonzero.
    apply (mul_cancel _ _ (x2 - x1) Hd). rewrite E1. by field.
Qed.

Lemma slope_exists x1 y1 x2 y2 : on_curve (Some (x1, y1)) → on_curve (Some (x2, y2)) → Some (x1, y1) ≠ neg (Some (x2, y2)) →
  ∃ l, slope l x1 y1 x2 y2.
Proof.
  intros H1 H2 Hn. pose proof (curve_difference _ _ _ _ H1 H2) as E. destruct (decide (x1 = x2)) as [->|Hx].
  - destruct (same_x _ _ _ H1 H2) as [->| ->]; [|by destruct Hn].
    assert (y2 ≠ 0) as Hy by (intros ->; apply Hn; cbn; do 2 f_equal; ring).
    exists ((3 * (x2 * x2) + a) / (2 * y2)). split; [ring|]. field. done.
  - assert (x2 - x1 ≠ 0) as Hd by by apply sub_nonzero.
    exists ((y2 - y1) / (x2 - x1)). split; [by field|]. apply (mul_cancel _ _ (x2 - x1) Hd).
    transitivity ((y1 + y2) * (y2 - y1)); [by field|]. rewrite E. ring.
Qed.

(** ** Closure, commutativity and cancellation *)

Lemma third_on_curve l x1 y1 x2 y2 : on_curve (Some (x1, y1)) → slope l x1 y1 x2 y2 → on_curve (third l x1 y1 x2).
Proof.
  cbn. intros H1 [E1 E2]. assert (y2 = y1 + l * (x2 - x1)) as -> by (rewrite E1; ring).
  assert (a = l * (y1 + (y1 + l * (x2 - x1))) - (x1 * x1 + x1 * x2 + x2 * x2)) as Ha by (rewrite E2; ring).
  assert (b = y1 * y1 - x1 * x1 * x1 - a * x1) as -> by (rewrite H1; ring). rewrite Ha. ring.
Qed.

(** A sum of two finite points: none, or the third point of their line. *)
Lemma plus_cases x1 y1 x2 y2 : on_curve (Some (x1, y1)) → on_curve (Some (x2, y2)) →
  (Some (x1, y1) = neg (Some (x2, y2)) ∧ plus (Some (x1, y1)) (Some (x2, y2)) = None) ∨
  (Some (x1, y1) ≠ neg (Some (x2, y2)) ∧ ∃ l, slope l x1 y1 x2 y2 ∧ plus (Some (x1, y1)) (Some (x2, y2)) = third l x1 y1 x2).
Proof.
  intros H1 H2. destruct (decide (Some (x1, y1) = neg (Some (x2, y2)))) as [E|Hn]; [left|right].
  - split; [done|]. injection E as -> ->. replace (Some (x2, y2)) with (Some (x2, - - y2)) by (do 2 f_equal; ring). apply plus_opposite.
  - split; [done|]. destruct (slope_exists x1 y1 x2 y2) as [l Hl]; [done..|]. exists l. split; [done|]. by eapply plus_slope.
Qed.

Lemma neg_neg P : neg (neg P) = P.
Proof. destruct P as [[x y]|]; [|done]. cbn. do 2 f_equal. ring. Qed.

Lemma neg_on_curve P : on_curve P → on_curve (neg P).
Proof. destruct P as [[x y]|]; [|done]. cbn. intros <-. ring. Qed.

Lemma plus_on_curve P Q : on_curve P → on_curve Q → on_curve (plus P Q).
Proof.
  destruct P as [[x1 y1]|], Q as [[x2 y2]|]; [|done..]. intros H1 H2.
  destruct (plus_cases x1 y1 x2 y2 H1 H2) as [[_ ->]|(_ & l & Hl & ->)]; [done|]. by eapply third_on_curve.
Qed.

Lemma plus_0_r P : plus P None = P.
Proof. by destruct P as [[x y]|]. Qed.

Lemma plus_neg_r P : plus P (neg P) = None.
Proof. destruct P as [[x y]|]; [|done]. apply plus_opposite. Qed.

Lemma plus_none P Q : on_curve P → on_curve Q → plus P Q = None → P = neg Q.
Proof.
  destruct P as [[x1 y1]|], Q as [[x2 y2]|]; [|done..]. intros H1 H2 E.
  destruct (plus_cases x1 y1 x2 y2 H1 H2) as [[-> _]|(_ & l & _ & E')]; [done|]. by rewrite E' in E.
Qed.

Lemma plus_comm P Q : on_curve P → on_curve Q → plus P Q = plus Q P.
Proof.
  destruct P as [[x1 y1]|], Q as [[x2 y2]|]; [|done..]. intros H1 H2.
  destruct (plus_cases x1 y1 x2 y2 H1 H2) as [[E ->]|(Hn & l & [E1 E2] & ->)].
  - rewrite E. cbn. symmetry. apply plus_opposite.
  - rewrite (plus_slope l x2 y2 x1 y1 H2 H1).
    + unfold third. do 2 f_equal; [ring|]. replace y2 with (y1 + l * (x2 - x1)) by (rewrite E1; ring). ring.
    + intros E. apply Hn. by rewrite E, neg_neg.
    + by apply slope_sym.
Qed.

(** A sum minus one of its terms. *)
Lemma plus_minus P Q : on_curve P → on_curve Q → plus (plus P Q) (neg Q) = P.
Proof.
  destruct P as [[x1 y1]|], Q as [[x2 y2]|]; [|by intros _ _; rewrite plus_0_r|intros _ _; apply plus_neg_r|done]. intros H1 H2.
  destruct (plus_cases x1 y1 x2 y2 H1 H2) as [[E ->]|(Hn & l & Hl & ->)]; [by rewrite E|].
  pose proof (third_on_curve l x1 y1 x2 y2 H1 Hl) as H3. destruct Hl as [E1 E2]. unfold third in *.
  set (x3 := l * l - x1 - x2) in *. set (y3 := l * (x1 - x3) - y1) in *. cbn [neg].
  assert (y2 = y1 + l * (x2 - x1)) as Ey by (rewrite E1; ring).
  assert (slope (- l) x3 y3 x2 (- y2)) as Hs.
  { split; [rewrite Ey; unfold y3; ring|].
    assert (a = l * (y1 + y2) - (x1 * x1 + x1 * x2 + x2 * x2)) as -> by (rewrite E2; ring). rewrite Ey. unfold y3, x3. ring. }
  rewrite (plus_slope (- l)); [unfold third; do 2 f_equal; unfold y3, x3; ring|done|by apply (neg_on_curve (Some (x2, y2)))| |done].
  (* otherwise the sum is the second point, of order two and singular *)
  cbn [neg]. intros [= E3 E3']. assert (y3 = y2) as E4 by (rewrite E3'; ring).
  assert (y2 = 0) as E0.
  { apply own_negative. rewrite <- E4 at 1. unfold y3. rewrite E3, Ey. ring. }
  destruct Hs as [_ Hs]. rewrite E4, E3, E0 in Hs. apply (smooth x2).
  - cbn in H2. rewrite <- H2, E0. ring.
  - transitivity (x2 * x2 + x2 * x2 + x2 * x2 + a); [ring|]. rewrite <- Hs. ring.
Qed.

Lemma plus_inj P P' Q : on_curve P → on_curve P' → on_curve Q → plus P Q = plus P' Q → P = P'.
Proof. intros H H' HQ E. by rewrite <- (plus_minus P Q H HQ), E, plus_minus. Qed.

Lemma neg_plus P Q : on_curve P → on_curve Q → neg (plus P Q) = plus (neg P) (neg Q).
Proof.
  destruct P as [[x1 y1]|], Q as [[x2 y2]|]; [|done..]. intros H1 H2.
  destruct (plus_cases x1 y1 x2 y2 H1 H2) as [[E ->]|(Hn & l & [E1 E2] & ->)].
  - rewrite E, neg_neg. rewrite <- (neg_neg (Some (x2, y2))) at 1. by rewrite neg_neg, plus_neg_r.
  - cbn [neg]. rewrite (plus_slope (- l)); [unfold third; cbn; do 2 f_equal; ring|by apply (neg_on_curve (Some (x1, y1)))|by apply (neg_on_curve (Some (x2, y2)))| |].
    + intros E. apply Hn. change (neg (Some (x1, y1)) = neg (neg (Some (x2, y2)))) in E. by rewrite <- (neg_neg (Some (x1, y1))), E, neg_neg.
    + split; [transitivity (- (l * (x2 - x1))); [ring|rewrite E1; ring]|]. rewrite <- E2. ring.
Qed.

(** ** Associativity, by the shapes of the four sums *)

Definition apart (P Q : point) : Prop :=
  match P, Q with Some (x1, _), Some (x2, _) => x1 ≠ x2 | _, _ => False end.
Definition turning (P : point) : Prop := match P with Some (_, y) => y ≠ 0 | None => False end.

Lemma plus_apart x1 y1 x2 y2 : apart (Some (x1, y1)) (Some (x2, y2)) →
  x2 - x1 ≠ 0 ∧ plus (Some (x1, y1)) (Some (x2, y2)) = third ((y2 - y1) / (x2 - x1)) x1 y1 x2.
Proof. intros H. split; [by apply sub_nonzero|by apply plus_chord]. Qed.

Lemma plus_turning x y : turning (Some (x, y)) →
  2 * y ≠ 0 ∧ plus (Some (x, y)) (Some (x, y)) = third ((3 * (x * x) + a) / (2 * y)) x y x.
Proof. intros H. split; [by apply mul_nonzero|by apply plus_tangent]. Qed.

Lemma factor_nonzero t d g : t ≠ 0 → d ≠ 0 → g = t * d → g ≠ 0.
Proof. intros Ht Hd ->. by apply mul_nonzero. Qed.

(** What [field] asks to be nonzero is a difference that is, over the
    denominator [d]. *)
Ltac differs D d := apply (factor_nonzero _ d _ D); [repeat apply mul_nonzero; done|solve [field; repeat split; done]].

(** [(A + B) + C = A + (B + C)] when the sums are all of different points: two
    rational functions that agree modulo the equations of the curve. *)
Lemma assoc_chords x1 y1 x2 y2 x3 y3 : let A := Some (x1, y1) in let B := Some (x2, y2) in let C := Some (x3, y3) in
  on_curve A → on_curve B → on_curve C → apart A B → apart B C → apart (plus A B) C → apart A (plus B C) →
  plus (plus A B) C = plus A (plus B C).
Proof.
  cbv zeta. intros H1 H2 H3 Hab Hbc. cbn [on_curve] in H1, H2, H3.
  destruct (plus_apart _ _ _ _ Hab) as [Dab ->], (plus_apart _ _ _ _ Hbc) as [Dbc ->]. unfold third. intros Hc Ha.
  destruct (plus_apart _ _ _ _ Hc) as [Dc ->], (plus_apart _ _ _ _ Ha) as [Da ->]. unfold third.
  f_equal; f_equal; field [H1 H2 H3]; repeat split; first [done | differs Dc ((x2 - x1) * (x2 - x1)) | differs Da ((x3 - x2) * (x3 - x2))].
Qed.

(** [(A + B) + B = A + (B + B)]. *)
Lemma assoc_tangent x1 y1 x2 y2 : let A := Some (x1, y1) in let B := Some (x2, y2) in
  on_curve A → on_curve B → apart A B → turning B → apart (plus A B) B → apart A (plus B B) →
  plus (plus A B) B = plus A (plus B B).
Proof.
  cbv zeta. intros H1 H2 Hab Hb. cbn [on_curve] in H1, H2.
  destruct (plus_apart _ _ _ _ Hab) as [Dab ->], (plus_turning _ _ Hb) as [Db ->]. unfold third. intros Hc Ha.
  destruct (plus_apart _ _ _ _ Hc) as [Dc ->], (plus_apart _ _ _ _ Ha) as [Da ->]. unfold third. cbn in Hb.
  f_equal; f_equal; field [H1 H2]; repeat split; first [done | differs Dc ((x2 - x1) * (x2 - x1)) | differs Da (2 * y2 * (2 * y2))].
Qed.

(** ** Associativity *)

Lemma apart_or P Q : on_curve P → on_curve Q → P ≠ None → Q ≠ None → P ≠ Q → P ≠ neg Q → apart P Q.
Proof.
  destruct P as [[x1 y1]|], Q as [[x2 y2]|]; [|done..]. intros H1 H2 _ _ Hn Hm ->.
  destruct (same_x _ _ _ H1 H2) as [->| ->]; [by apply Hn|by apply Hm].
Qed.

Lemma turning_or P : P ≠ None → P ≠ neg P → turning P.
Proof. destruct P as [[x y]|]; [|done]. intros _ Hn ->. apply Hn. cbn. do 2 f_equal. ring. Qed.

Definition degenerate (A B C : point) : Prop :=
  A = None ∨ B = None ∨ C = None ∨ A = neg B ∨ B = neg C ∨ plus A B = neg C ∨ A = neg (plus B C).

Lemma neg_plus_cancel B C : on_curve B → on_curve C → plus (neg B) (plus B C) = C.
Proof.
  intros HB HC. rewrite (plus_comm B C), plus_comm by eauto using plus_on_curve, neg_on_curve. by apply plus_minus.
Qed.

Lemma plus_opposite_sum A B C : on_curve A → on_curve B → on_curve C → plus A B = neg C → plus A (plus B C) = None.
Proof.
  intros HA HB HC E. assert (plus B C = neg A) as ->; [|apply plus_neg_r].
  rewrite <- (neg_neg C), <- E, neg_plus, plus_comm by eauto using plus_on_curve, neg_on_curve.
  rewrite <- (neg_neg B) at 2. apply plus_minus; by apply neg_on_curve.
Qed.

Lemma assoc_degenerate A B C : on_curve A → on_curve B → on_curve C → degenerate A B C → plus (plus A B) C = plus A (plus B C).
Proof.
  intros HA HB HC [->|[->|[->|[->|[->|[E|E]]]]]].
  - done.
  - by rewrite plus_0_r.
  - by rewrite !plus_0_r.
  - rewrite neg_plus_cancel by done. rewrite (plus_comm (neg B)) by eauto using neg_on_curve. by rewrite plus_neg_r.
  - rewrite (plus_comm (neg C) C), plus_neg_r, plus_0_r by eauto using neg_on_curve. 
    rewrite <- (neg_neg C) at 2. apply plus_minus; eauto using neg_on_curve.
  - rewrite plus_opposite_sum by done. rewrite E, plus_comm by eauto using neg_on_curve. apply plus_neg_r.
  - assert (plus C B = neg A) as E' by (rewrite E, neg_neg; by apply plus_comm).
    rewrite (plus_comm (plus A B)), (plus_comm A B) by eauto using plus_on_curve. rewrite plus_opposite_sum by done.
    rewrite E, plus_comm by eauto using plus_on_curve, neg_on_curve. by rewrite plus_neg_r.
Qed.

(** Two equal terms. *)
Lemma assoc_double_but A B : on_curve A → on_curve B → A ≠ plus B B → plus (plus A B) B = plus A (plus B B).
Proof.
  intros HA HB Hne. destruct (decide (degenerate A B B)) as [Hd|Hd]; [by apply assoc_degenerate|]. unfold degenerate in Hd.
  destruct (decide (A = B)) as [->|Hn]; [apply plus_comm; by eauto using plus_on_curve|].
  assert (turning B) as Ht by (apply turning_or; tauto). assert (apart A B) as Hab by (apply apart_or; tauto).
  assert (apart (plus A B) B) as Hc.
  { apply apart_or; [eauto using plus_on_curve|done|intros E%plus_none; tauto|tauto| |tauto].
    intros E. assert (A = None); [|tauto]. by apply (plus_inj A None B). }
  assert (apart A (plus B B)) as Ha.
  { apply apart_or; [done|eauto using plus_on_curve|tauto|intros E%plus_none; tauto|done|tauto]. }
  destruct A as [[x1 y1]|]; [|done]. destruct B as [[x2 y2]|]; [|done]. by apply assoc_tangent.
Qed.

(** [(A + B) + (A + B) = A + (B + (A + B))], since both minus [A] are
    [B + (A + B)]. *)
Lemma twice_from A B : on_curve A → on_curve B → let C := plus A B in
  plus (plus (neg A) C) C = plus (neg A) (plus C C) → plus C C = plus A (plus B C).
Proof.
  intros HA HB C E. assert (on_curve C) as HC by by apply plus_on_curve. unfold C in E at 1. rewrite neg_plus_cancel in E by done. rewrite E.
  rewrite <- (neg_neg A) at 1. symmetry. apply neg_plus_cancel; eauto using neg_on_curve, plus_on_curve.
Qed.

Lemma assoc_double A B : on_curve A → on_curve B → plus (plus A B) B = plus A (plus B B).
Proof.
  intros HA HB. destruct (decide (A = plus B B)) as [->|Hn]; [|by apply assoc_double_but]. set (C := plus B B) in *.
  rewrite (plus_comm (plus C B)), (plus_comm C B) by eauto using plus_on_curve. symmetry.
  destruct (decide (neg B = plus C C)) as [E|Hne]; [|apply twice_from, assoc_double_but; eauto using neg_on_curve, plus_on_curve].
  (* five times B is zero: B + C is the opposite of C *)
  assert (plus B C = neg C) as ->.
  { rewrite <- (neg_neg (plus B C)), neg_plus, E by done. f_equal. by apply plus_minus. }
  rewrite <- E, <- (neg_neg (plus B (neg C))), neg_plus, neg_neg by eauto using neg_on_curve. f_equal.
  symmetry. by apply neg_plus_cancel.
Qed.

Lemma assoc_twice A B : on_curve A → on_curve B → plus (plus A B) (plus A B) = plus A (plus B (plus A B)).
Proof. intros HA HB. apply twice_from; [done..|]. apply assoc_double; eauto using neg_on_curve, plus_on_curve. Qed.

Theorem plus_assoc A B C : on_curve A → on_curve B → on_curve C → plus (plus A B) C = plus A (plus B C).
Proof.
  intros HA HB HC. destruct (decide (degenerate A B C)) as [Hd|Hd]; [by apply assoc_degenerate|].
  assert (∀ P Q, on_curve P → on_curve Q → on_curve (plus P Q)) as Hp by exact plus_on_curve.
  destruct (decide (B = C)) as [->|Hbc]; [by apply assoc_double|].
  destruct (decide (A = B)) as [->|Hab].
  { rewrite (plus_comm (plus B B)), (plus_comm B (plus B C)), (plus_comm B C) by eauto. symmetry. by apply assoc_double. }
  destruct (decide (A = C)) as [->|Hac]; [rewrite plus_comm by eauto; f_equal; by apply plus_comm|].
  destruct (decide (C = plus A B)) as [->|Hc]; [by apply assoc_twice|].
  destruct (decide (A = plus B C)) as [E|Ha].
  { rewrite (plus_comm (plus A B)), (plus_comm A B), (plus_comm A), (plus_comm B C) by eauto. rewrite (plus_comm B C) in E by done.
    rewrite E. symmetry. by apply assoc_twice. }
  unfold degenerate in Hd.
  assert (apart A B) as Dab by (apply apart_or; tauto). assert (apart B C) as Dbc by (apply apart_or; tauto).
  assert (apart (plus A B) C) as Dc by (apply apart_or; [by apply Hp|done|intros E%plus_none; tauto|tauto|congruence|tauto]).
  assert (apart A (plus B C)) as Da by (apply apart_or; [done|by apply Hp|tauto|intros E%plus_none; tauto|tauto..]).
  destruct A as [[x1 y1]|]; [|done]. destruct B as [[x2 y2]|]; [|done]. destruct C as [[x3 y3]|]; [|done]. by apply assoc_chords.
Qed.

(** ** Multiples *)

(** From the highest bit of [k] on. *)
Fixpoint multiple_pos (k : positive) (P : point) : point :=
  match k with
  | xH => P
  | xO k' => let Q := multiple_pos k' P in plus Q Q
  | xI k' => let Q := multiple_pos k' P in plus (plus Q Q) P
  end.
Definition multiple (k : Z) (P : point) : point := match k with Zpos k' => multiple_pos k' P | _ => None end.

Lemma multiple_on_curve k P : on_curve P → on_curve (multiple k P).
Proof. intros HP. destruct k as [|k|k]; [done| |done]. cbn [multiple]. induction k; cbn; auto using plus_on_curve. Qed.

Lemma multiple_succ k P : on_curve P → (0 ≤ k)%Z → multiple (Z.succ k) P = plus (multiple k P) P.
Proof.
  intros HP Hk. destruct k as [|k|k]; [done| |lia]. rewrite <- Pos2Z.inj_succ. cbn [multiple]. induction k as [k IH|k IH|]; [|done..].
  change (plus (multiple_pos (Pos.succ k) P) (multiple_pos (Pos.succ k) P) = plus (plus (plus (multiple_pos k P) (multiple_pos k P)) P) P).
  rewrite IH by lia. pose proof (multiple_on_curve (Zpos k) P HP) as HQ. cbn [multiple] in HQ. set (Q := multiple_pos k P) in *.
  rewrite (plus_assoc Q P), (plus_comm P (plus Q P)), (plus_assoc Q P P), <- (plus_assoc Q Q), (plus_assoc (plus Q Q)) by auto using plus_on_curve. done.
Qed.

Lemma multiple_add i j P : on_curve P → (0 ≤ i)%Z → (0 ≤ j)%Z → multiple (i + j) P = plus (multiple i P) (multiple j P).
Proof.
  intros HP Hi. revert j. apply natlike_ind; [by rewrite Z.add_0_r, plus_0_r|]. intros j Hj IH.
  rewrite Z.add_succ_r, !multiple_succ, IH by (done || lia). apply plus_assoc; auto using multiple_on_curve.
Qed.

Lemma multiple_none k : multiple k None = None.
Proof. destruct k as [|k|]; [done| |done]. cbn. induction k as [k IH|k IH|]; cbn; by rewrite ?IH. Qed.

Lemma multiple_mul i j P : on_curve P → (0 ≤ i)%Z → (0 ≤ j)%Z → multiple (i * j) P = multiple i (multiple j P).
Proof.
  intros HP Hi Hj. revert i Hi. apply natlike_ind; [done|]. intros i Hi IH.
  rewrite Z.mul_succ_l, multiple_add, multiple_succ, IH by (auto using multiple_on_curve with lia || nia). done.
Qed.

(** Two multiples are equal when the order divides their difference. *)
Lemma multiple_equal i j P : on_curve P → (0 ≤ j ≤ i)%Z → multiple i P = multiple j P → multiple (i - j) P = None.
Proof.
  intros HP Hij E. apply (plus_inj (multiple (i - j) P) None (multiple j P)); [auto using multiple_on_curve|done|auto using multiple_on_curve|].
  rewrite <- multiple_add by (done || lia).
  by replace (i - j + j)%Z with i by lia.
Qed.

(** A point of prime order has as many multiples. *)
Lemma prime_order_multiples N P j : on_curve P → Z.prime N → multiple N P = None → P ≠ None → (0 < j < N)%Z → multiple j P ≠ None.
Proof.
  intros HP HN EN Hn Hj Ej. apply Hn. assert (Z.invmod j N * j mod N = 1)%Z as E.
  { apply Z.invmod_prime; [done|]. rewrite Z.mod_small; lia. }
  assert (0 ≤ Z.invmod j N)%Z as Hi by (apply Z.mod_pos_bound; lia). set (u := Z.invmod j N) in *.
  pose proof (Z.div_mod (u * j) N ltac:(lia)) as Hd. rewrite E in Hd. assert (0 ≤ u * j / N)%Z as Hv by (apply Z.div_pos; nia).
  assert (multiple (u * j) P = None) as E0 by (rewrite multiple_mul, Ej by (done || lia); apply multiple_none).
  rewrite Hd, (Z.mul_comm N), multiple_add, multiple_mul, EN, multiple_none in E0 by (done || nia). done.
Qed.

(** ** Jacobian coordinates *)

(** [(X, Y, Z)] stands for [(X / Z², Y / Z³)], or for the point at infinity. *)
Definition of_jacobian (X Y Z : F) : point := if decide (Z = 0) then None else Some (X / (Z * Z), Y / (Z * Z * Z)).

Lemma jacobian_scaled x y Z : Z ≠ 0 → of_jacobian (x * (Z * Z)) (y * (Z * Z * Z)) Z = Some (x, y).
Proof. intros HZ. unfold of_jacobian. rewrite decide_False by done. do 2 f_equal; field; done. Qed.

(** Every point with [Z ≠ 0] is of that form. *)
Lemma jacobian_cases X Y Z : (Z = 0 ∧ of_jacobian X Y Z = None) ∨ (Z ≠ 0 ∧ ∃ x y, X = x * (Z * Z) ∧ Y = y * (Z * Z * Z)).
Proof.
  unfold of_jacobian. destruct (decide (Z = 0)) as [|HZ]; [by left|right]. split; [done|].
  exists (X / (Z * Z)), (Y / (Z * Z * Z)). split; field; done.
Qed.

Lemma double_jacobian X Y Z : a = - (3) →
  let C := 3 * (X - Z * Z) * (X + Z * Z) in let S := 2 * 2 * (Y * Y * X) in
  let X' := C * C - 2 * S in let Y' := C * (S - X') - 2 * 2 * 2 * (Y * Y) * (Y * Y) in
  of_jacobian X' Y' (2 * (Y * Z)) = plus (of_jacobian X Y Z) (of_jacobian X Y Z).
Proof.
  intros Ha. cbv zeta. destruct (jacobian_cases X Y Z) as [[E ->]|(HZ & x & y & -> & ->)].
  { unfold of_jacobian. rewrite decide_True; [done|]. rewrite E. ring. }
  rewrite jacobian_scaled by done. destruct (decide (y = 0)) as [->|Hy].
  - unfold of_jacobian. rewrite decide_True by ring. replace (Some (x, 0)) with (neg (Some (x, 0))) at 2; [by rewrite plus_neg_r|].
    cbn. do 2 f_equal. ring.
  - rewrite plus_tangent, Ha by done. unfold of_jacobian, third. rewrite decide_False by (by repeat apply mul_nonzero).
    do 2 f_equal; field; done.
Qed.

(** The addition of an affine point is right unless the sum so far is that
    point or the one at infinity. *)
Lemma add_jacobian X Y Z x2 y2 : let P := of_jacobian X Y Z in let Q := Some (x2, y2) in
  on_curve P → on_curve Q → P ≠ None → P ≠ Q →
  let C := Z * Z * x2 - X in let B := Z * Z * Z * y2 - Y in
  let X' := B * B - (C * C * C + 2 * (C * C) * X) in let Y' := B * (C * C * X - X') - C * C * C * Y in
  of_jacobian X' Y' (Z * C) = plus P Q.
Proof.
  cbv zeta. destruct (jacobian_cases X Y Z) as [[E ->]|(HZ & x & y & -> & ->)]; [done|]. rewrite jacobian_scaled by done.
  intros H1 H2 _ Hn. destruct (decide (x = x2)) as [->|Hx].
  - unfold of_jacobian. rewrite decide_True by ring. destruct (same_x _ _ _ H1 H2) as [->| ->]; [done|].
    rewrite plus_comm by done. symmetry. apply plus_opposite.
  - assert (x2 - x ≠ 0) as HD by by apply sub_nonzero. rewrite plus_chord by done. unfold of_jacobian, third.
    replace (Z * Z * x2 - x * (Z * Z)) with (Z * Z * (x2 - x)) by ring.
    rewrite decide_False by (by repeat apply mul_nonzero). do 2 f_equal; field; done.
Qed.
End curve.
