(* ===== verification/Primality.v ===== *)
(** * Two primes of secp128r1

    The modulus of include/utility/bignum.h for keys of 16 bytes and the order
    of the base point of include/utility/diffie_hellman.h are prime, by
    Pocklington's criterion: [n] is prime if [n - 1] has enough prime factors
    [q], for each of which some [x] has order [q] modulo every divisor of [n]. *)

From Stdlib Require Import Zcong Zmod.
From stdpp Require Import prelude numbers.
From S2P Require Import Prelude.
Local Open Scope Z_scope.

(** ** Computing *)

(** [x ^ e mod n] *)
Fixpoint power_mod (x : Z) (e : positive) (n : Z) : Z :=
  match e with
  | xH => x mod n
  | xO e' => let r := power_mod x e' n in r * r mod n
  | xI e' => let r := power_mod x e' n in r * r mod n * x mod n
  end.

Lemma power_mod_spec x e n : n ≠ 0 → power_mod x e n = x ^ Zpos e mod n.
Proof.
  intros Hn. induction e as [e IH|e IH|]; cbn [power_mod].
  - rewrite IH, Pos2Z.inj_xI, Z.pow_add_r, Z.pow_1_r, (Z.mul_comm 2), Z.pow_mul_r, Z.pow_2_r by lia.
    rewrite <- Z.mul_mod by done. by rewrite Z.mul_mod_idemp_l by done.
  - rewrite IH, Pos2Z.inj_xO, (Z.mul_comm 2), Z.pow_mul_r, Z.pow_2_r by lia. by rewrite <- Z.mul_mod by done.
  - by rewrite Z.pow_1_r.
Qed.

(** No number of [2 … k + 1] divides [n]. *)
Definition no_divisor (n : Z) (k : nat) : bool := forallb (λ d, negb (n mod Z.of_nat d =? 0)) (seq 2 k).

Fixpoint product (l : list (Z * Z)) : Z := match l with [] => 1 | (q, _) :: l' => q * product l' end.
Fixpoint certified (n : Z) (l : list (Z * Z)) : bool :=
  match l with
  | [] => true
  | (q, x) :: l' =>
      ((n - 1) mod q =? 0) && (power_mod x (Z.to_pos q) n =? 1) && (Z.gcd (x - 1) n =? 1) && (Z.gcd q (product l') =? 1) && certified n l'
  end.

(** ** Divisors *)

Lemma prime_divisor n : 1 < n → ∃ r, Z.prime r ∧ (r | n).
Proof.
  assert (∀ k m, 1 < m → m ≤ Z.of_nat k → ∃ r, Z.prime r ∧ (r | m)) as H.
  { intros k; induction k as [|k IH]; intros m Hm Hk; [lia|].
    destruct (decide (Exists (λ d, m mod d = 0) (Z.of_nat <$> seq 2 (Z.to_nat m - 2)))) as [Hd|Hd].
    - apply Exists_exists in Hd as (d & Hin & Hd). apply list_elem_of_In, list_elem_of_fmap in Hin as (i & -> & Hi%elem_of_seq).
      apply Z.mod_divide in Hd; [|lia].
      destruct (IH (Z.of_nat i)) as (r & Hr & Hri); [lia..|]. exists r. split; [done|]. by etransitivity.
    - exists m. split; [|done]. split; [done|]. intros d Hd1 Hd2. apply Hd. apply Exists_exists. exists d. split; [|apply Z.mod_divide; [lia|done]].
      apply list_elem_of_In, list_elem_of_fmap. exists (Z.to_nat d). split; [lia|]. apply elem_of_seq. lia. }
  intros Hn. apply (H (Z.to_nat n)); lia.
Qed.

(** A number with a proper divisor has a prime one up to its root. *)
Lemma small_divisor n m : 1 < m < n → (m | n) → ∃ r, Z.prime r ∧ (r | n) ∧ r * r ≤ n.
Proof.
  intros Hm [s Hs]. assert (∃ d, 1 < d ∧ (d | n) ∧ d * d ≤ n) as (d & Hd & Hdn & Hdd).
  { destruct (decide (m * m ≤ n)); [exists m; split_and!; [nia|by exists s|nia]|exists s; split_and!; [nia|exists m; lia|nia]]. }
  destruct (prime_divisor d Hd) as (r & Hr & Hrd). exists r. split; [done|]. split; [by etransitivity|].
  pose proof (Z.prime_ge_2 r Hr). apply Z.divide_pos_le in Hrd; nia.
Qed.

Lemma trial n k : 1 < n → n < Z.of_nat (k + 2) * Z.of_nat (k + 2) → no_divisor n k = true → Z.prime n.
Proof.
  intros Hn Hk Ht. split; [done|]. intros m Hm Hmn. destruct (small_divisor n m Hm Hmn) as (r & Hr & [s Hs] & Hrr).
  pose proof (Z.prime_ge_2 r Hr). unfold no_divisor in Ht. rewrite forallb_forall in Ht. specialize (Ht (Z.to_nat r)).
  rewrite in_seq, Z2Nat.id, Hs, Z.mod_mul in Ht by lia. cbn in Ht. discriminate Ht. nia.
Qed.

(** ** The criterion *)

(** Where [x] is not 1, but [x ^ q] is, [q] divides the order of the units. *)
Lemma order_divides r q x : Z.prime r → Z.prime q → x ^ q mod r = 1 → x mod r ≠ 1 → (q | r - 1).
Proof.
  intros Hr Hq Hx Hn. pose proof (Z.prime_ge_2 r Hr). pose proof (Z.prime_ge_2 q Hq).
  assert (x mod r ≠ 0) as Hx0. { intros E. rewrite <- Z.mod_pow_l, E, Z.pow_0_l, Z.mod_0_l in Hx; lia. }
  pose proof (ZmodInv.Z.fermat_nz r x Hr Hx0) as Hf.
  destruct (Z.BoolSpec_divide q (r - 1)) as [|Hd]; [done|]. destruct Hn.
  apply Z.coprime_prime_l, Z.Bezout_coprime in Hd as (u & v & E); [|done].
  (* u * q = 1 + w * (r - 1), with no negative factors *)
  set (u' := u + (Z.abs u + 1) * (r - 1)). set (w := - v + (Z.abs u + 1) * q). assert (u' * q = 1 + w * (r - 1)) as E' by (unfold u', w; lia).
  pose proof (Z.mul_le_mono_nonneg_l 1 (r - 1) (Z.abs u + 1) ltac:(lia) ltac:(lia)).
  assert (1 ≤ u') by (unfold u'; lia). assert (1 * 2 ≤ u' * q) by (apply Z.mul_le_mono_nonneg; lia).
  assert (0 ≤ w). { destruct (Z.le_gt_cases 0 w) as [|Hw]; [done|]. assert (w * (r - 1) ≤ 0) by (apply Z.mul_nonpos_nonneg; lia). lia. }
  clearbody u' w.
  assert (x ^ (q * u') mod r = 1) as Hx1. { rewrite Z.pow_mul_r, <- Z.mod_pow_l, Hx, Z.pow_1_l, Z.mod_1_l; lia. }
  rewrite Z.mul_comm, E', Z.pow_add_r, Z.pow_1_r, (Z.mul_comm w), Z.pow_mul_r in Hx1 by nia.
  rewrite <- Z.mul_mod_idemp_r, <- (Z.mod_pow_l (x ^ (r - 1))), Hf, Z.pow_1_l, (Z.mod_1_l r), Z.mul_1_r in Hx1 by lia. done.
Qed.

Lemma certified_divides n l r : 1 < n → Z.prime r → (r | n) → Forall (λ c, Z.prime c.1) l → certified n l = true → (product l | r - 1).
Proof.
  intros Hn Hr Hrn. pose proof (Z.prime_ge_2 r Hr). induction 1 as [|[q x] l Hq Hl IH]; cbn [certified product]; [by exists (r - 1); lia|].
  rewrite !andb_true_iff, !Z.eqb_eq. intros [[[[_ Hx] Hg] Hc] Hrest]. cbn in Hq. pose proof (Z.prime_ge_2 q Hq).
  rewrite power_mod_spec, Z2Pos.id in Hx by lia. destruct (IH Hrest) as [s Hs].
  assert (q | s * product l) as Hd.
  { rewrite <- Hs. apply (order_divides r q x); [done..| |].
    - by rewrite <- (Z.mod_mod_divide _ n r), Hx, Z.mod_1_l by (done || lia).
    - intros E. assert (r | Z.gcd (x - 1) n) as Hr1.
      { apply Z.gcd_greatest; [|done]. exists (x / r). pose proof (Z.div_mod x r). lia. }
      rewrite Hg in Hr1. apply Z.divide_pos_le in Hr1; lia. }
  rewrite Z.mul_comm in Hd. apply Z.gauss in Hd as [t ->]; [|done]. exists t. rewrite Hs. ring.
Qed.

Lemma pocklington n l : 1 < n → n < (product l + 1) * (product l + 1) → Forall (λ c, Z.prime c.1) l → certified n l = true → Z.prime n.
Proof.
  intros Hn Hl Hp Hc. split; [done|]. intros m Hm Hmn. destruct (small_divisor n m Hm Hmn) as (r & Hr & Hrn & Hrr).
  pose proof (Z.prime_ge_2 r Hr). pose proof (certified_divides n l r Hn Hr Hrn Hp Hc) as Hd.
  assert (0 < product l) as Hpos.
  { clear -Hp. induction Hp as [|[q x] l Hq _ IH]; [done|]. cbn in *. pose proof (Z.prime_ge_2 q Hq). nia. }
  apply Z.divide_pos_le in Hd; nia.
Qed.

(** ** The chain of certificates *)

Create HintDb primes.
Ltac small_prime k := apply (trial _ k); [done|by vm_compute|by vm_compute].
Ltac large_prime l := apply (pocklington _ l);
  [done|by vm_compute|repeat (apply List.Forall_cons; [cbn; auto with primes|]); apply List.Forall_nil|by vm_compute].

(** Below the modulus: *)
Lemma prime_157133 : Z.prime 157133.
Proof. small_prime 395%nat. Qed.
#[local] Hint Resolve prime_157133 : primes.
Lemma prime_541 : Z.prime 541.
Proof. small_prime 22%nat. Qed.
#[local] Hint Resolve prime_541 : primes.
Lemma prime_4516015619173 : Z.prime 4516015619173.
Proof. large_prime [(157133, 2524193982930); (541, 2523143606634)]. Qed.
#[local] Hint Resolve prime_4516015619173 : primes.
Lemma prime_222431055585633101740979 : Z.prime 222431055585633101740979.
Proof. large_prime [(4516015619173, 91618878606615592086376)]. Qed.
#[local] Hint Resolve prime_222431055585633101740979 : primes.
Lemma prime_2700653704464143955832110573370478657 : Z.prime 2700653704464143955832110573370478657.
Proof. large_prime [(222431055585633101740979, 385428805818468689654883912316499008)]. Qed.
#[local] Hint Resolve prime_2700653704464143955832110573370478657 : primes.
(** The modulus. *)
Lemma prime_modulus : Z.prime (2 ^ 128 - 2 ^ 97 - 1).
Proof. large_prime [(2700653704464143955832110573370478657, 85070591730234615865843651857942052864)]. Qed.

(** Below the order: *)
Lemma prime_178639 : Z.prime 178639.
Proof. small_prime 421%nat. Qed.
#[local] Hint Resolve prime_178639 : primes.
Lemma prime_24499 : Z.prime 24499.
Proof. small_prime 155%nat. Qed.
#[local] Hint Resolve prime_24499 : primes.
Lemma prime_43117050034573 : Z.prime 43117050034573.
Proof. large_prime [(178639, 28491489231293); (24499, 7539414552825)]. Qed.
#[local] Hint Resolve prime_43117050034573 : primes.
Lemma prime_90718273272741593 : Z.prime 90718273272741593.
Proof. large_prime [(43117050034573, 33099939949786972)]. Qed.
#[local] Hint Resolve prime_90718273272741593 : primes.
Lemma prime_1627 : Z.prime 1627.
Proof. small_prime 39%nat. Qed.
#[local] Hint Resolve prime_1627 : primes.
Lemma prime_71 : Z.prime 71.
Proof. small_prime 7%nat. Qed.
#[local] Hint Resolve prime_71 : primes.
Lemma prime_33961999 : Z.prime 33961999.
Proof. large_prime [(1627, 7873604); (71, 26758330)]. Qed.
#[local] Hint Resolve prime_33961999 : primes.
Lemma prime_676862640071 : Z.prime 676862640071.
Proof. large_prime [(33961999, 112670522486)]. Qed.
#[local] Hint Resolve prime_676862640071 : primes.
(** The order of the base point. *)
Lemma prime_order : Z.prime 0xfffffffe0000000075a30d1b9038a115.
Proof. large_prime [(90718273272741593, 111940042967550088980144249488240561721); (676862640071, 48095867733768440721661297010680551045)]. Qed.
