(* ===== verification/DiffieHellman.v ===== *)
(** * Elliptic-curve Diffie-Hellman (include/utility/diffie_hellman.h)

    Class [Diffie_Hellman]: points in Jacobian coordinates over the numbers of
    Bignum.v, their doubling and the addition of an affine point, the product
    by a number ([operator*=]), key pairs and shared keys.  The reference is
    the group of Curve.v over the integers modulo a prime: a point stands for
    an element of the group, the product is the multiple, and two parties
    compute one key. *)

From Stdlib Require Import Zmod Field.
From stdpp Require Import prelude numbers.
From S2P Require Import Prelude PyStr Digits Bignum Curve Primality.
Local Open Scope Z_scope.

(** ** The class *)

Record Elliptic_Curve_Point := Point { px : word; py : word; pz : word }.

Section diffie_hellman.
Context `{HB : Bignum}.

Definition jacobian_double (p : Elliptic_Curve_Point) : option Elliptic_Curve_Point :=
  let '(Point x y z) := p in
  let C := x in
  aux ← mul_assign z z;
  let C := sub_assign C aux in
  let aux := add_assign aux x in
  C ← mul_assign C aux;
  C ← mul_assign C (of_uint 3);
  z ← mul_assign z y;
  z ← mul_assign z (of_uint 2);
  y ← mul_assign y y;
  let B := y in
  y ← mul_assign y x;
  y ← mul_assign y (of_uint 4);
  B ← mul_assign B B;
  B ← mul_assign B (of_uint 8);
  x ← mul_assign C C;
  aux ← mul_assign y (of_uint 2);
  let x := sub_assign x aux in
  let y := sub_assign y x in
  y ← mul_assign y C;
  let y := sub_assign y B in
  Some (Point x y z).

Definition add_jacobian_affine (p b : Elliptic_Curve_Point) : option Elliptic_Curve_Point :=
  let '(Point x y z) := p in
  A ← mul_assign z z;
  let B := A in
  A ← mul_assign A (px b);
  B ← mul_assign B z;
  B ← mul_assign B (py b);
  let C := sub_assign A x in
  let B := sub_assign B y in
  X ← mul_assign B B;
  aux ← mul_assign C C;
  let Y := aux in
  let aux2 := aux in
  aux ← mul_assign aux C;
  aux2 ← mul_assign aux2 (of_uint 2);
  aux2 ← mul_assign aux2 x;
  let aux := add_assign aux aux2 in
  let X := sub_assign X aux in
  let aux := Y in
  Y ← mul_assign Y x;
  let Y := sub_assign Y X in
  Y ← mul_assign Y B;
  aux ← mul_assign aux y;
  aux ← mul_assign aux C;
  let Y := sub_assign Y aux in
  z ← mul_assign z C;
  Some (Point X Y z).

(** *** [operator*=] *)

(** [for(; (b_len > 1) && (b[b_len - 1] == 0); b_len--);] *)
Fixpoint used_digits (b : word) (b_len : nat) : nat :=
  match b_len with
  | S (S _ as n) => if digit b n =? 0 then used_digits b n else b_len
  | _ => b_len
  end.

(** [for(int i = bits_in_digit - 1; i >= 0; i--) { bin[i] = now % 2; now /= 2; }] *)
Fixpoint bin_loop (i : nat) (now : Z) (bin : list bool) : list bool :=
  match i with O => bin | S i' => bin_loop i' (now / 2) (negb (now mod 2 =? 0) :: bin) end.
Definition binary (now : Z) : list bool := bin_loop 32 now [].

(** [if(now % 2) current_bit = i + 1;] in that loop, before the halving. *)
Fixpoint current_bit_loop (i : nat) (now : Z) (current_bit : nat) : nat :=
  match i with O => current_bit | S i' => current_bit_loop i' (now / 2) (if now mod 2 =? 0 then current_bit else i) end.

(** [for(; current_bit < bits_in_digit; current_bit++) ...], over [bin] from
    [current_bit] on. *)
Fixpoint bits_loop (bin : list bool) (pp p : Elliptic_Curve_Point) : option Elliptic_Curve_Point :=
  match bin with
  | [] => Some p
  | bit :: bin' =>
      p ← jacobian_double p;
      p ← (if bit : bool then add_jacobian_affine p pp else Some p);
      bits_loop bin' pp p
  end.

Fixpoint digits_loop (i : nat) (b : word) (bin : list bool) (pp p : Elliptic_Curve_Point) : option Elliptic_Curve_Point :=
  p ← bits_loop bin pp p;
  match i with
  | O => Some p
  | S i' => digits_loop i' b (binary (digit b i')) pp p
  end.

(** To affine coordinates. *)
Definition normalize (p : Elliptic_Curve_Point) : option Elliptic_Curve_Point :=
  let '(Point x y z) := p in
  z ← invert z;
  Z ← mul_assign z z;
  x ← mul_assign x Z;
  Z ← mul_assign Z z;
  y ← mul_assign y Z;
  Some (Point x y (of_uint 1)).

Definition scalar_mult (p : Elliptic_Curve_Point) (b : word) : option Elliptic_Curve_Point :=
  let b_len := used_digits b DIGITS in
  let now := digit b (b_len - 1) in
  if (b_len =? 0)%nat || (now =? 0) then Some (Point (of_uint 0) (of_uint 0) (of_uint 0))
  else
    let current_bit := current_bit_loop 32 now 32 in
    p ← digits_loop (b_len - 1) b (drop current_bit (binary now)) p p;
    normalize p.

(** *** Keys *)

Record Diffie_Hellman := { _private : word; _base_point : Elliptic_Curve_Point; _public : Elliptic_Curve_Point }.

(** The constructor from a base point, which draws the key from the seed of
    the generator. *)
Definition generate_keypair (base_point : Elliptic_Curve_Point) (seed : Z) : option (Diffie_Hellman * Z) :=
  let '(private, seed) := randomize seed in
  public ← scalar_mult base_point private;
  Some ({| _private := private; _base_point := base_point; _public := public |}, seed).

Definition public_key (d : Diffie_Hellman) : Elliptic_Curve_Point := _public d.
Definition shared_key (d : Diffie_Hellman) (public_key : Elliptic_Curve_Point) : option word :=
  public_key ← scalar_mult public_key (_private d);
  Some (xor_assign (px public_key) (py public_key)).
End diffie_hellman.

(** The default constructor: the base point of secp128r1. *)
Definition _default_base_point_x : list Z :=
  [0x86; 0x5B; 0x2C; 0xA5; 0x7C; 0x60; 0x28; 0x0C; 0x2D; 0x9B; 0x89; 0x8B; 0x52; 0xF7; 0x1F; 0x16].
Definition _default_base_point_y : list Z :=
  [0x83; 0x7A; 0xED; 0xDD; 0x92; 0xA2; 0x2D; 0xC0; 0x13; 0xEB; 0xAF; 0x5B; 0x39; 0xC8; 0x5A; 0xCF].
Definition default_base_point : Elliptic_Curve_Point :=
  Point (of_bytes 4 _default_base_point_x) (of_bytes 4 _default_base_point_y) (of_uint (H := Bignum_16) 1).
Definition Default_Diffie_Hellman (seed : Z) : option (Diffie_Hellman * Z) :=
  generate_keypair (HB := Bignum_16) default_base_point seed.

Lemma value_take_S b i : value (take (S i) b) = value (take i b) + 2 ^ (32 * Z.of_nat i) * digit b i.
Proof.
  unfold digit. destruct (b !! i) as [x|] eqn:E.
  - rewrite (take_S_r _ _ _ E), value_app by done. unfold zlen. rewrite length_take. apply lookup_lt_Some in E. rewrite Nat.min_l by lia. cbn. lia.
  - apply lookup_ge_None in E. rewrite !take_ge by lia. cbn. lia.
Qed.

(** ** The bits of a number, from the highest *)

(** What [k] becomes when bits follow it. *)
Fixpoint followed (k : Z) (bits : list bool) : Z :=
  match bits with [] => k | bit :: bits' => followed (2 * k + Z.b2z bit) bits' end.

Lemma followed_app k l l' : followed k (l ++ l') = followed (followed k l) l'.
Proof. revert k; induction l as [|x l IH]; intros k; cbn; [done|apply IH]. Qed.

Lemma followed_le k bits : 0 ≤ k → k ≤ followed k bits.
Proof. revert k; induction bits as [|x bits IH]; intros k Hk; cbn [followed]; [lia|].
  pose proof (IH (2 * k + Z.b2z x)). destruct x; cbn [Z.b2z] in *; lia.
Qed.

Lemma bin_loop_app i now bin : bin_loop i now bin = bin_loop i now [] ++ bin.
Proof.
  revert now bin; induction i as [|i IH]; intros now bin; cbn; [done|]. rewrite IH, (IH _ [_]). by rewrite <- app_assoc.
Qed.

Lemma bin_loop_snoc i now : bin_loop (S i) now [] = bin_loop i (now / 2) [] ++ [negb (now mod 2 =? 0)].
Proof. cbn. apply bin_loop_app. Qed.

Lemma length_bin_loop i now : length (bin_loop i now []) = i.
Proof. revert now; induction i as [|i IH]; intros now; [done|]. rewrite bin_loop_snoc, length_app, IH. cbn. lia. Qed.

Lemma odd_bit now : Z.b2z (negb (now mod 2 =? 0)) = now mod 2.
Proof. pose proof (Z.mod_pos_bound now 2 ltac:(done)). destruct (Z.eqb_spec (now mod 2) 0); cbn; lia. Qed.

Lemma halves i now : now mod 2 ^ Z.of_nat (S i) = 2 * (now / 2 mod 2 ^ Z.of_nat i) + now mod 2.
Proof. replace (Z.of_nat (S i)) with (1 + Z.of_nat i) by lia. rewrite Z.pow_add_r, Z.rem_mul_r by lia. change (2 ^ 1) with 2. ring. Qed.

Lemma followed_binary k i now : followed k (bin_loop i now []) = k * 2 ^ Z.of_nat i + now mod 2 ^ Z.of_nat i.
Proof.
  revert k now; induction i as [|i IH]; intros k now; [cbn; rewrite Z.mod_1_r; lia|].
  rewrite bin_loop_snoc, followed_app, IH, halves. cbn [followed]. rewrite odd_bit.
  replace (Z.of_nat (S i)) with (1 + Z.of_nat i) by lia. rewrite Z.pow_add_r by lia. change (2 ^ 1) with 2. ring.
Qed.

(** From after the highest bit on, a number is its bits after a 1. *)
Lemma highest_bit i now cur :
  (now mod 2 ^ Z.of_nat i = 0 → current_bit_loop i now cur = cur) ∧
  (now mod 2 ^ Z.of_nat i ≠ 0 → (current_bit_loop i now cur ≤ i)%nat ∧
     followed 1 (drop (current_bit_loop i now cur) (bin_loop i now [])) = now mod 2 ^ Z.of_nat i).
Proof.
  revert now cur; induction i as [|i IH]; intros now cur; [by rewrite Z.mod_1_r|].
  cbn [current_bit_loop]. rewrite bin_loop_snoc, halves. set (cur' := if now mod 2 =? 0 then cur else S i).
  pose proof (Z.mod_pos_bound now 2 ltac:(done)). pose proof (Z.mod_pos_bound (now / 2) (2 ^ Z.of_nat i) ltac:(lia)).
  destruct (IH (now / 2) cur') as [Hz Hnz]. destruct (decide (now / 2 mod 2 ^ Z.of_nat i = 0)) as [E|Hne].
  - rewrite (Hz E), E. unfold cur'. destruct (Z.eqb_spec (now mod 2) 0); split; try lia. intros _. split; [done|].
    rewrite drop_ge by (rewrite length_app, length_bin_loop; cbn; lia). cbn. lia.
  - destruct (Hnz Hne) as [Hle Hf]. split; [lia|]. intros _. split; [lia|].
    rewrite drop_app_le by (by rewrite length_bin_loop). rewrite followed_app, Hf. cbn [followed]. rewrite odd_bit. lia.
Qed.

Lemma used_digits_spec b n : (1 ≤ n)%nat → value (take n b) = value (take (used_digits b n) b) ∧ (1 ≤ used_digits b n ≤ n)%nat ∧
  (digit b (used_digits b n - 1) = 0 → used_digits b n = 1%nat).
Proof.
  induction n as [|[|n] IH]; intros Hn; [lia|done|].
  change (used_digits b (S (S n))) with (if digit b (S n) =? 0 then used_digits b (S n) else S (S n)). destruct (Z.eqb_spec (digit b (S n)) 0) as [E|Hne].
  - destruct IH as (E' & Hle & Hd); [lia|]. split; [|split; [lia|done]].
    rewrite (value_take_S b (S n)), E, Z.mul_0_r, Z.add_0_r. exact E'.
  - split; [done|]. split; [lia|]. intros E. replace (S (S n) - 1)%nat with (S n) in E by lia. done.
Qed.

(** ** Numbers as elements of the field *)

#[export] Instance Zmod_eq_dec p : EqDecision (Zmod.Zmod p).
Proof. intros x y. destruct (Z.eq_dec (Zmod.to_Z x) (Zmod.to_Z y)) as [E|Hn]; [left; by apply Zmod.to_Z_inj|right; by intros ->]. Defined.

(** A computation that succeeds, with a result of [Q]. *)
Definition sure {A} (c : option A) (Q : A → Prop) : Prop := match c with Some r => Q r | None => False end.

Lemma sure_bind {A B} (c : option A) (k : A → option B) Q : sure c (λ r, sure (k r) Q) → sure (r ← c; k r) Q.
Proof. by destruct c. Qed.

Lemma sure_some {A} (c : option A) Q : sure c Q → ∃ r, c = Some r ∧ Q r.
Proof. destruct c as [r|]; [|done]. intros H. by exists r. Qed.

Section field.
Context `{HB : Bignum, HL : !BignumLaws HB}.
Abbreviation m := (value _mod).
Hypothesis Hprime : Z.prime m.
Hypothesis Hodd : Z.odd m = true.

Abbreviation F := (Zmod.Zmod m).
Add Field Zmod_field : (Zmod.field_theory m Hprime).

Declare Scope F_scope.
Delimit Scope F_scope with F.
Infix "+" := (@Zmod.add m) : F_scope.
Infix "*" := (@Zmod.mul m) : F_scope.
Infix "-" := (@Zmod.sub m) : F_scope.
Infix "/" := (@Zmod.mdiv m) : F_scope.
Notation "- x" := (@Zmod.opp m x) : F_scope.
Local Notation "0" := (@Zmod.zero m) : F_scope.
Local Notation "1" := (@Zmod.one m) : F_scope.
Local Notation "2" := (1 + 1)%F : F_scope.
Local Notation "3" := (1 + 1 + 1)%F : F_scope.
Local Open Scope F_scope.

Definition elt (w : word) : F := Zmod.of_Z m (value w).

Lemma elt_mod w x : value w = (x mod m)%Z → elt w = Zmod.of_Z m x.
Proof. unfold elt. intros ->. apply Zmod.of_Z_mod. Qed.

Lemma elt_zero w : reduced w → elt w = 0 → value w = 0%Z.
Proof.
  intros [Hw Hlt] E. rewrite <- Zmod.of_Z_0 in E. apply Zmod.of_Z_inj in E. pose proof (wf_value w Hw).
  by rewrite Z.mod_small, Z.mod_0_l in E by (pose proof m_bounds; lia).
Qed.

Lemma elt_inj v w : reduced v → reduced w → elt v = elt w → v = w.
Proof.
  intros [Hv Lv] [Hw Lw] E. apply Zmod.of_Z_inj in E. pose proof (wf_value v Hv). pose proof (wf_value w Hw).
  rewrite !Z.mod_small in E by lia. by apply wf_inj.
Qed.

Lemma add_elt v w : reduced v → reduced w → reduced (add_assign v w) ∧ elt (add_assign v w) = elt v + elt w.
Proof.
  intros Hv Hw. destruct (add_assign_value v w Hv Hw) as [Hr E]. split; [done|]. rewrite (elt_mod _ _ E). apply Zmod.of_Z_add.
Qed.

Lemma sub_elt v w : reduced v → reduced w → reduced (sub_assign v w) ∧ elt (sub_assign v w) = elt v - elt w.
Proof.
  intros Hv Hw. destruct (sub_assign_value v w Hv Hw) as [Hr E]. split; [done|]. rewrite (elt_mod _ _ E). apply Zmod.of_Z_sub.
Qed.

Lemma sure_mul v w (Q : word → Prop) : reduced v → wf w → (∀ r, reduced r → elt r = elt v * elt w → Q r) → sure (mul_assign v w) Q.
Proof.
  intros Hv Hw HQ. destruct (mul_assign_value v w Hv Hw) as (r & -> & Hr & E). apply HQ; [done|].
  rewrite (elt_mod _ _ E). apply Zmod.of_Z_mul.
Qed.

Lemma sure_invert v (Q : word → Prop) : reduced v → (∀ r, reduced r → (elt v = 0 → elt r = 0) → (elt v ≠ 0 → elt r * elt v = 1) → Q r) →
  sure (invert v) Q.
Proof.
  intros Hv HQ. destruct (decide (value v = 0%Z)) as [Ez|Hz].
  - destruct (invert_zero v (proj1 Hv) Ez) as (r & -> & Hr & E). assert (∀ w, value w = 0%Z → elt w = 0) as H0.
    { intros w Ew. unfold elt. rewrite Ew. apply Zmod.of_Z_0. }
    apply HQ; [done|by intros _; apply H0|]. intros []. by apply H0.
  - destruct (invert_value Hodd v Hv) as (r & -> & Hr & E).
    { rewrite Z.gcd_comm. apply Z.coprime_prime_small; [done|]. destruct Hv as [Hw Hlt]. pose proof (wf_value v Hw). lia. }
    apply HQ; [done|by intros E0%elt_zero|]. intros _. unfold elt. rewrite <- Zmod.of_Z_mul, <- Zmod.of_Z_1. apply Zmod.of_Z_inj.
    rewrite E. symmetry. apply Z.mod_small. pose proof m_bounds. lia.
Qed.

Lemma of_uint_elt k : (0 ≤ k < 2 ^ 32)%Z → wf (of_uint k) ∧ elt (of_uint k) = Zmod.of_Z m k.
Proof. intros Hk. destruct (of_uint_spec k Hk) as [Hw E]. split; [done|]. unfold elt. by rewrite E. Qed.

(** A small constant as a sum of ones. *)
Lemma elt_2 : elt (of_uint 2) = 2.
Proof. rewrite (proj2 (of_uint_elt 2 ltac:(done))). change 2%Z with (1 + 1)%Z. by rewrite !Zmod.of_Z_add, Zmod.of_Z_1. Qed.
Lemma elt_3 : elt (of_uint 3) = 3.
Proof. rewrite (proj2 (of_uint_elt 3 ltac:(done))). change 3%Z with (1 + 1 + 1)%Z. by rewrite !Zmod.of_Z_add, Zmod.of_Z_1. Qed.
Lemma elt_4 : elt (of_uint 4) = 2 * 2.
Proof. rewrite (proj2 (of_uint_elt 4 ltac:(done))). change 4%Z with ((1 + 1) * (1 + 1))%Z. by rewrite Zmod.of_Z_mul, !Zmod.of_Z_add, Zmod.of_Z_1. Qed.
Lemma elt_8 : elt (of_uint 8) = 2 * 2 * 2.
Proof. rewrite (proj2 (of_uint_elt 8 ltac:(done))). change 8%Z with ((1 + 1) * (1 + 1) * (1 + 1))%Z. by rewrite !Zmod.of_Z_mul, !Zmod.of_Z_add, Zmod.of_Z_1. Qed.

(** ** Points *)

Definition reduced_point (p : Elliptic_Curve_Point) : Prop := reduced (px p) ∧ reduced (py p) ∧ reduced (pz p).

Lemma reduced_wf w : reduced w → wf w.
Proof. by intros []. Qed.
Lemma reduced_add v w : reduced v → reduced w → reduced (add_assign v w).
Proof. apply add_elt. Qed.
Lemma reduced_sub v w : reduced v → reduced w → reduced (sub_assign v w).
Proof. apply sub_elt. Qed.
Lemma wf_uint k : (0 ≤ k < 2 ^ 32)%Z → wf (of_uint k).
Proof. intros Hk. by apply of_uint_spec. Qed.

(** Runs through products one after another, keeping what each one is. *)
Ltac numbers := eauto using reduced_wf, reduced_add, reduced_sub; try (apply wf_uint; done).
Ltac products := repeat (apply sure_bind, sure_mul; [by numbers..|]; intros ? ? ?).
Ltac elements := repeat match goal with
  | H : elt ?r = _ |- context [elt ?r] => is_var r; rewrite H
  | |- context [elt (sub_assign ?v ?w)] => rewrite (proj2 (sub_elt v w ltac:(by numbers) ltac:(by numbers)))
  | |- context [elt (add_assign ?v ?w)] => rewrite (proj2 (add_elt v w ltac:(by numbers) ltac:(by numbers)))
  end; rewrite ?elt_2, ?elt_3, ?elt_4, ?elt_8.

Lemma double_formula p (Q : Elliptic_Curve_Point → Prop) : reduced_point p →
  let X := elt (px p) in let Y := elt (py p) in let Z := elt (pz p) in
  let C := 3 * (X - Z * Z) * (X + Z * Z) in let S := 2 * 2 * (Y * Y * X) in
  (∀ p', reduced_point p' → elt (pz p') = 2 * (Y * Z) → elt (px p') = C * C - 2 * S →
     elt (py p') = C * (S - elt (px p')) - 2 * 2 * 2 * (Y * Y) * (Y * Y) → Q p') →
  sure (jacobian_double p) Q.
Proof.
  destruct p as [x y z]. intros (Hx & Hy & Hz) X Y Z C S HQ. cbn in X, Y, Z, Hx, Hy, Hz. unfold jacobian_double. products.
  cbn [sure]. apply HQ; [split_and!; numbers|..]; cbn [px py pz]; unfold C, S, X, Y, Z; elements; ring.
Qed.

Lemma add_formula p b (Q : Elliptic_Curve_Point → Prop) : reduced_point p → reduced_point b →
  let X := elt (px p) in let Y := elt (py p) in let Z := elt (pz p) in
  let C := Z * Z * elt (px b) - X in let B := Z * Z * Z * elt (py b) - Y in
  (∀ p', reduced_point p' → elt (pz p') = Z * C → elt (px p') = B * B - (C * C * C + 2 * (C * C) * X) →
     elt (py p') = B * (C * C * X - elt (px p')) - C * C * C * Y → Q p') →
  sure (add_jacobian_affine p b) Q.
Proof.
  destruct p as [x y z], b as [xb yb zb]. intros (Hx & Hy & Hz) (Hxb & Hyb & _) X Y Z C B HQ. cbn in X, Y, Z, C, B, Hx, Hy, Hz, Hxb, Hyb.
  unfold add_jacobian_affine. cbn [px py]. products.
  cbn [sure]. apply HQ; [split_and!; numbers|..]; cbn [px py pz]; unfold C, B, X, Y, Z; elements; ring.
Qed.

(** ** Points as elements of the group *)

#[local] Instance Zmod_is_field : Field 0 1 (@Zmod.add m) (@Zmod.mul m) (@Zmod.sub m) (@Zmod.opp m) (@Zmod.mdiv m) (@Zmod.inv m) :=
  Zmod.field_theory m Hprime.

(** The curve's coefficient of [x] is -3. *)
Context (c : F) {Hc : Curve 0 1 (@Zmod.add m) (@Zmod.mul m) (Zmod.opp 3) c}.
Abbreviation add := (plus (f1 := 1) (fadd := @Zmod.add m) (fmul := @Zmod.mul m) (fsub := @Zmod.sub m) (fopp := @Zmod.opp m) (fdiv := @Zmod.mdiv m) (a := Zmod.opp 3)).
Abbreviation times := (multiple (f1 := 1) (fadd := @Zmod.add m) (fmul := @Zmod.mul m) (fsub := @Zmod.sub m) (fopp := @Zmod.opp m) (fdiv := @Zmod.mdiv m) (a := Zmod.opp 3)).
Abbreviation on := (on_curve (fadd := @Zmod.add m) (fmul := @Zmod.mul m) (a := Zmod.opp 3) (b := c)).

(** What a point stands for. *)
Definition meaning (p : Elliptic_Curve_Point) : point (F := F) :=
  of_jacobian (f0 := 0) (fmul := @Zmod.mul m) (fdiv := @Zmod.mdiv m) (elt (px p)) (elt (py p)) (elt (pz p)).

Lemma double_doubles p (Q : Elliptic_Curve_Point → Prop) : reduced_point p →
  (∀ p', reduced_point p' → meaning p' = add (meaning p) (meaning p) → Q p') → sure (jacobian_double p) Q.
Proof.
  intros Hp HQ. apply double_formula; [done|]. intros p' Hp' Ez Ex Ey. apply HQ; [done|]. rewrite Ex in Ey.
  unfold meaning. rewrite Ez, Ex, Ey. by apply double_jacobian.
Qed.

Lemma add_adds p b (Q : Elliptic_Curve_Point → Prop) : reduced_point p → reduced_point b →
  let B := Some (elt (px b), elt (py b)) in
  on (meaning p) → on B → meaning p ≠ None → meaning p ≠ B →
  (∀ p', reduced_point p' → meaning p' = add (meaning p) B → Q p') → sure (add_jacobian_affine p b) Q.
Proof.
  intros Hp Hb B Hon HonB Hn HnB HQ. apply add_formula; [done..|]. intros p' Hp' Ez Ex Ey. apply HQ; [done|]. rewrite Ex in Ey.
  unfold meaning. rewrite Ez, Ex, Ey. by apply add_jacobian.
Qed.

(** ** The product is the multiple *)

Definition affine (p : Elliptic_Curve_Point) : Prop := reduced_point p ∧ pz p = of_uint 1.
Definition coordinates (p : Elliptic_Curve_Point) : point (F := F) := Some (elt (px p), elt (py p)).

Lemma elt_1 : elt (of_uint 1) = 1.
Proof. rewrite (proj2 (of_uint_elt 1 ltac:(done))). apply Zmod.of_Z_1. Qed.

Lemma one_nonzero : 1%F ≠ 0%F.
Proof. apply (F_1_neq_0 (Zmod.field_theory m Hprime)). Qed.

Lemma affine_meaning p : affine p → meaning p = coordinates p.
Proof.
  intros [_ Ez]. unfold meaning, coordinates. rewrite Ez, elt_1.
  transitivity (of_jacobian (f0 := 0) (fmul := @Zmod.mul m) (fdiv := @Zmod.mdiv m) (elt (px p) * (1 * 1)) (elt (py p) * (1 * 1 * 1)) 1); [f_equal; ring|].
  apply jacobian_scaled, one_nonzero.
Qed.

(** A point whose order is above [K], and its multiples. *)
Section multiples.
Context (pp : Elliptic_Curve_Point) (K : Z).
Hypothesis Hpp : affine pp.
Hypothesis Hcurve : on (coordinates pp).
Hypothesis Horder : ∀ i, (0 < i ≤ K)%Z → times i (coordinates pp) ≠ None.

Let P := coordinates pp.

Lemma double_multiple k p (Q : Elliptic_Curve_Point → Prop) : reduced_point p → meaning p = times k P → (0 < k)%Z →
  (∀ p', reduced_point p' → meaning p' = times (2 * k) P → Q p') → sure (jacobian_double p) Q.
Proof.
  intros Hp E Hk HQ. apply double_doubles; [done|]. intros p' Hp' E'. apply HQ; [done|]. rewrite E', E, <- Z.add_diag.
  symmetry. apply multiple_add; (done || lia).
Qed.

Lemma add_multiple k p (Q : Elliptic_Curve_Point → Prop) : reduced_point p → meaning p = times (2 * k) P → (0 < k)%Z → (2 * k + 1 ≤ K)%Z →
  (∀ p', reduced_point p' → meaning p' = times (2 * k + 1) P → Q p') → sure (add_jacobian_affine p pp) Q.
Proof.
  intros Hp E Hk HK HQ. apply add_adds; [done|apply Hpp|rewrite E; by apply multiple_on_curve|done|rewrite E; apply Horder; lia| |].
  - rewrite E. intros E1. apply (Horder (2 * k - 1)); [lia|]. apply multiple_equal; [done|lia|exact E1].
  - intros p' Hp' E'. apply HQ; [done|]. rewrite E', E. symmetry. rewrite Z.add_1_r. apply multiple_succ; (done || lia).
Qed.

Lemma bits_multiple bin k p : reduced_point p → meaning p = times k P → (0 < k)%Z → (followed k bin ≤ K)%Z →
  sure (bits_loop bin pp p) (λ p', reduced_point p' ∧ meaning p' = times (followed k bin) P).
Proof.
  revert k p; induction bin as [|bit bin IH]; intros k p Hp E Hk HK; cbn [bits_loop followed] in *; [by split|].
  apply sure_bind, (double_multiple k); [done..|]. intros p1 Hp1 E1. apply sure_bind.
  pose proof (followed_le (2 * k + Z.b2z bit) bin). destruct bit; cbn [Z.b2z sure] in *.
  - apply (add_multiple k); [done..|lia|]. intros p2 Hp2 E2. apply IH; (done || lia).
  - apply IH; [done|by rewrite Z.add_0_r|lia|done].
Qed.

Lemma digits_multiple i b bin k p : digits b → reduced_point p → meaning p = times k P → (0 < k)%Z →
  (followed k bin * 2 ^ (32 * Z.of_nat i) + value (take i b) ≤ K)%Z →
  sure (digits_loop i b bin pp p) (λ p', reduced_point p' ∧
    meaning p' = times (followed k bin * 2 ^ (32 * Z.of_nat i) + value (take i b)) P).
Proof.
  intros Hb. revert bin k p; induction i as [|i IH]; intros bin k p Hp E Hk HK; cbn [digits_loop].
  - rewrite Z.mul_0_r, Z.pow_0_r, Z.mul_1_r, take_0 in *. cbn [bignum_value] in *. rewrite Z.add_0_r in *. apply sure_bind.
    pose proof (bits_multiple bin k p Hp E Hk HK) as H. by destruct (bits_loop bin pp p).
  - pose proof (digit_nonneg 32 ltac:(done) b i Hb) as Hd. pose proof (followed_le k bin ltac:(lia)) as Hle.
    assert (followed (followed k bin) (binary (digit b i)) = followed k bin * 2 ^ 32 + digit b i)%Z as Ef.
    { unfold binary. rewrite followed_binary, (Z.mod_small (digit b i)) by done. done. }
    assert (followed k bin * 2 ^ (32 * Z.of_nat (S i)) + value (take (S i) b) =
      followed (followed k bin) (binary (digit b i)) * 2 ^ (32 * Z.of_nat i) + value (take i b))%Z as EV.
    { rewrite value_take_S, Ef. replace (32 * Z.of_nat (S i))%Z with (32 + 32 * Z.of_nat i)%Z by lia. rewrite Z.pow_add_r by lia. ring. }
    rewrite EV in *. pose proof (value_bounds 32 ltac:(done) (take i b) ltac:(by apply Forall_take)) as Hv.
    assert (followed k bin ≤ K)%Z as Hf.
    { pose proof (followed_le (followed k bin) (binary (digit b i)) ltac:(lia)). pose proof (Z.pow_pos_nonneg 2 (32 * Z.of_nat i) ltac:(lia) ltac:(lia)). nia. }
    apply sure_bind. pose proof (bits_multiple bin k p Hp E Hk Hf) as H.
    destruct (bits_loop bin pp p) as [p1|]; [|done]. destruct H as [Hp1 E1]. cbn [sure]. apply IH; (done || lia).
Qed.
End multiples.

Lemma normalize_affine p x y : reduced_point p → meaning p = Some (x, y) →
  sure (normalize p) (λ q, affine q ∧ coordinates q = Some (x, y)).
Proof.
  destruct p as [X Y Z]. intros (HX & HY & HZ) E. cbn [px py pz] in *. unfold meaning in E. cbn [px py pz] in E.
  destruct (jacobian_cases (elt X) (elt Y) (elt Z)) as [[_ E0]|(Hz & x' & y' & EX & EY)]; [by rewrite E0 in E|].
  rewrite EX, EY, jacobian_scaled in E by done. injection E as <- <-. unfold normalize. apply sure_bind, sure_invert; [done|].
  intros r Hr _ Er. specialize (Er Hz). products. cbn [sure]. assert (reduced (of_uint 1)) as Hone.
  { destruct (of_uint_spec 1 ltac:(done)) as [? E1]. split; [done|]. rewrite E1. apply m_bounds. }
  split; [by split|]. unfold coordinates. cbn [px py]. elements. do 2 f_equal.
  - transitivity (x' * ((elt r * elt Z) * (elt r * elt Z))); [ring|]. rewrite Er. ring.
  - transitivity (y' * ((elt r * elt Z) * (elt r * elt Z) * (elt r * elt Z))); [ring|]. rewrite Er. ring.
Qed.

(** The highest digit that is used is not zero. *)
Lemma used_digits_top b : wf b → value b ≠ 0%Z →
  ∃ n, used_digits b DIGITS = S n ∧ digit b n ≠ 0%Z ∧ value b = (digit b n * 2 ^ (32 * Z.of_nat n) + value (take n b))%Z.
Proof.
  intros [Db Lb] Hv. destruct (used_digits_spec b DIGITS (proj1 bl_size)) as (EV & Hu & Hd). rewrite take_ge in EV by lia.
  destruct (used_digits b DIGITS) as [|n]; [lia|]. exists n. replace (S n - 1)%nat with n in Hd by lia. rewrite value_take_S in EV.
  split; [done|]. split; [|lia]. intros E. specialize (Hd E). injection Hd as En. rewrite E, En, take_0, Z.mul_0_r in EV.
  cbn [bignum_value] in EV. lia.
Qed.

Lemma scalar_mult_zero p b : wf b → value b = 0%Z → scalar_mult p b = Some (Point (of_uint 0) (of_uint 0) (of_uint 0)).
Proof.
  intros [Db Lb] Hv. unfold scalar_mult. assert (digit b (used_digits b DIGITS - 1) = 0%Z) as ->; [|by rewrite orb_true_r].
  pose proof (value_take_S b (used_digits b DIGITS - 1)) as E. pose proof (digit_nonneg 32 ltac:(done) b (used_digits b DIGITS - 1) Db) as Hd.
  destruct (used_digits_spec b DIGITS (proj1 bl_size)) as (EV & Hu & _). rewrite take_ge in EV by lia.
  replace (S (used_digits b DIGITS - 1)) with (used_digits b DIGITS) in E by lia. rewrite <- EV, Hv in E.
  pose proof (value_bounds 32 ltac:(done) (take (used_digits b DIGITS - 1) b) ltac:(by apply Forall_take)).
  pose proof (Z.pow_pos_nonneg 2 (32 * Z.of_nat (used_digits b DIGITS - 1)) ltac:(lia) ltac:(lia)). nia.
Qed.

Lemma scalar_mult_multiple p b : affine p → on (coordinates p) → wf b → (0 < value b)%Z →
  (∀ i, (0 < i ≤ value b)%Z → times i (coordinates p) ≠ None) →
  sure (scalar_mult p b) (λ q, affine q ∧ coordinates q = times (value b) (coordinates p)).
Proof.
  intros Hp Hon [Db Lb] Hv Hord. unfold scalar_mult.
  destruct (used_digits_top b (conj Db Lb) ltac:(lia)) as (n & -> & Hdn & EV). replace (S n - 1)%nat with n by lia.
  rewrite (proj2 (Z.eqb_neq _ _)) by done. cbn [Nat.eqb orb]. pose proof (digit_nonneg 32 ltac:(done) b n Db) as Hdb.
  destruct (highest_bit 32 (digit b n) 32) as [_ [_ Hf]]; [by rewrite Z.mod_small|]. rewrite Z.mod_small in Hf by done.
  apply sure_bind. pose proof (digits_multiple p (value b) Hp Hon Hord n b (drop (current_bit_loop 32 (digit b n) 32) (binary (digit b n))) 1 p) as H.
  unfold binary in H |- *. rewrite Hf, <- EV in H.
  specialize (H Db (proj1 Hp) (affine_meaning p Hp) ltac:(lia) ltac:(lia)).
  destruct (digits_loop _ _ _ _ _) as [q|]; [|done]. destruct H as [Hq Eq]. cbn [sure].
  destruct (times (value b) (coordinates p)) as [[x y]|] eqn:Et; [by apply normalize_affine|]. destruct (Hord (value b)); [lia|done].
Qed.

Lemma some_pair {A B} (x x' : A) (y y' : B) : Some (x, y) = Some (x', y') → x = x' ∧ y = y'.
Proof. by injection 1. Qed.

(** Two products of a point of prime order commute, to the digit. *)
Lemma products_commute p N a b : affine p → on (coordinates p) → Z.prime N → times N (coordinates p) = None →
  wf a → wf b → (0 < value a < N)%Z → (0 < value b < N)%Z →
  ∃ pa pb q, scalar_mult p a = Some pa ∧ scalar_mult p b = Some pb ∧ scalar_mult pa b = Some q ∧ scalar_mult pb a = Some q ∧
    affine pa ∧ on (coordinates pa) ∧ affine pb ∧ on (coordinates pb) ∧ affine q.
Proof.
  intros Hp Hon HN EN Ha Hb Hva Hvb.
  (* any product of it has the same order *)
  assert (∀ r w v, affine r → on (coordinates r) → times N (coordinates r) = None → wf w → (0 < value w < N)%Z → v = value w →
    sure (scalar_mult r w) (λ q, affine q ∧ coordinates q = times v (coordinates r))) as Hmult.
  { intros r w v Hr Hor Er Hw Hvw ->. apply scalar_mult_multiple; [done..|lia|]. intros i Hi. by apply (prime_order_multiples N); [..|lia]. }
  assert (∀ r v, on (coordinates r) → coordinates r = times v (coordinates p) → (0 < v)%Z → times N (coordinates r) = None) as Hord.
  { intros r v _ E Hv. rewrite E, <- multiple_mul, Z.mul_comm, multiple_mul, EN by (done || (pose proof (Z.prime_ge_2 N HN); lia)). apply multiple_none. }
  destruct (sure_some _ _ (Hmult p a _ Hp Hon EN Ha Hva eq_refl)) as (pa & Epa & Apa & Cpa).
  destruct (sure_some _ _ (Hmult p b _ Hp Hon EN Hb Hvb eq_refl)) as (pb & Epb & Apb & Cpb).
  assert (on (coordinates pa)) as Opa by (rewrite Cpa; by apply multiple_on_curve).
  assert (on (coordinates pb)) as Opb by (rewrite Cpb; by apply multiple_on_curve).
  destruct (sure_some _ _ (Hmult pa b _ Apa Opa ltac:(by apply (Hord pa (value a)); [..|lia]) Hb Hvb eq_refl)) as (q & Eq & Aq & Cq).
  destruct (sure_some _ _ (Hmult pb a _ Apb Opb ltac:(by apply (Hord pb (value b)); [..|lia]) Ha Hva eq_refl)) as (q' & Eq' & Aq' & Cq').
  assert (q' = q) as ->; [|by exists pa, pb, q].
  assert (coordinates q' = coordinates q) as E.
  { rewrite Cq, Cq', Cpa, Cpb, <- !multiple_mul by (done || lia). by rewrite Z.mul_comm. }
  apply some_pair in E as [Ex Ey]. destruct q as [x y z], q' as [x' y' z'], Aq as [(? & ? & _) Ez], Aq' as [(? & ? & _) Ez'].
  cbn [px py pz] in *. apply elt_inj in Ex, Ey; try done. congruence.
Qed.

(** *** The point of zeros *)

Definition zeros : Elliptic_Curve_Point := Point (of_uint 0) (of_uint 0) (of_uint 0).

Lemma reduced_zero : reduced (of_uint 0).
Proof. destruct (of_uint_spec 0 ltac:(done)) as [? E]. split; [done|]. rewrite E. pose proof m_bounds. lia. Qed.

Lemma elt_uint_zero : elt (of_uint 0) = 0.
Proof. rewrite (proj2 (of_uint_elt 0 ltac:(done))). apply Zmod.of_Z_0. Qed.

Lemma is_zero w : reduced w → elt w = 0 → w = of_uint 0.
Proof. intros Hw E. apply elt_inj; [done|apply reduced_zero|]. by rewrite elt_uint_zero. Qed.

Lemma zeros_are p : reduced_point p → elt (px p) = 0 → elt (py p) = 0 → elt (pz p) = 0 → p = zeros.
Proof. destruct p as [x y z]. intros (Hx & Hy & Hz) ? ? ?. cbn [px py pz] in *. unfold zeros. f_equal; by apply is_zero. Qed.

Lemma reduced_zeros : reduced_point zeros.
Proof. split_and!; apply reduced_zero. Qed.

Lemma double_zeros : jacobian_double zeros = Some zeros.
Proof.
  destruct (sure_some (jacobian_double zeros) (λ q, q = zeros)) as (q & -> & ->); [|done].
  apply double_formula; [apply reduced_zeros|]. cbn [px py pz zeros]. rewrite elt_uint_zero. intros q Hq Ez Ex Ey.
  apply zeros_are; [done|rewrite Ex; ring|rewrite Ey, Ex; ring|rewrite Ez; ring].
Qed.

Lemma add_zeros : add_jacobian_affine zeros zeros = Some zeros.
Proof.
  destruct (sure_some (add_jacobian_affine zeros zeros) (λ q, q = zeros)) as (q & -> & ->); [|done].
  apply add_formula; [apply reduced_zeros..|]. cbn [px py pz zeros]. rewrite elt_uint_zero. intros q Hq Ez Ex Ey.
  apply zeros_are; [done|rewrite Ex; ring|rewrite Ey, Ex; ring|rewrite Ez; ring].
Qed.

Lemma bits_zeros bin : bits_loop bin zeros zeros = Some zeros.
Proof. induction bin as [|[] bin IH]; cbn [bits_loop]; [done|..]; rewrite double_zeros; [change (add_jacobian_affine zeros zeros ≫= bits_loop bin zeros = Some zeros); by rewrite add_zeros|done]. Qed.

Lemma digits_loop_zeros i b bin : digits_loop i b bin zeros zeros = Some zeros.
Proof. revert bin; induction i as [|i IH]; intros bin; cbn [digits_loop]; rewrite bits_zeros; [done|]. apply IH. Qed.

Lemma normalize_zeros : normalize zeros = Some (Point (of_uint 0) (of_uint 0) (of_uint 1)).
Proof.
  destruct (sure_some (normalize zeros) (λ q, q = Point (of_uint 0) (of_uint 0) (of_uint 1))) as (q & -> & ->); [|done].
  unfold normalize, zeros. pose proof reduced_zero. apply sure_bind, sure_invert; [done|]. intros r Hr Er _. specialize (Er elt_uint_zero).
  products. cbn [sure]. f_equal; (apply is_zero; [done|]); elements; rewrite elt_uint_zero; ring.
Qed.

Lemma xor_zero : xor_assign (of_uint 0) (of_uint 0) = of_uint 0.
Proof.
  unfold xor_assign, of_uint. cbn [zip_with]. f_equal. rewrite zip_with_replicate. done.
Qed.

(** A curve with the coefficients -3 and [c] has no singular point when
    [c * c] is not 4. *)
Lemma smooth_curve (c' : F) : 2%F ≠ 0%F → 3%F ≠ 0%F → c' * c' ≠ 2 * 2 → Curve 0 1 (@Zmod.add m) (@Zmod.mul m) (Zmod.opp 3) c'.
Proof.
  intros H2 H3 Hc'. split; [done|]. intros x Ex Et. apply Hc'. assert (x * x = 1) as E1.
  { apply (mul_cancel _ _ 3 H3). transitivity (3 * (x * x) + Zmod.opp 3 + 3); [ring|]. rewrite Et. ring. }
  assert (c' = 2 * x) as ->.
  { transitivity (x * x * x + Zmod.opp 3 * x + c' - (x * x) * x + 3 * x); [ring|]. rewrite Ex, E1. ring. }
  transitivity (2 * 2 * (x * x)); [ring|]. rewrite E1. ring.
Qed.

(** ** Properties *)

(** C18 The product of a point by a number is the multiple of the point in the
    group of the curve: for a point of the curve [y² = x³ - 3 x + c] modulo the
    prime, in affine coordinates, and a number [b] below the point's order,
    [operator*=] ends with the affine coordinates of [b] times the point,
    although the addition it uses is wrong for equal points and for the point
    at infinity; and a product by zero is the point of zeros. *)
Theorem product_is_multiple p b : affine p → on (coordinates p) → wf b → (∀ i, (0 < i ≤ value b)%Z → times i (coordinates p) ≠ None) →
  ∃ q, scalar_mult p b = Some q ∧
    if decide (value b = 0%Z) then q = zeros else affine q ∧ coordinates q = times (value b) (coordinates p).
Proof.
  intros Hp Hon Hb Hord. pose proof (wf_value b Hb). case_decide as Hz.
  - exists zeros. split; [by apply scalar_mult_zero|done].
  - apply sure_some, scalar_mult_multiple; (done || lia).
Qed.

(** A peer that sends the point of zeros decides the key: whatever the
    private key is, the shared key is zero.  The class does not look at what
    it receives. *)
Theorem zero_point_known_key d : wf (_private d) → shared_key d zeros = Some (of_uint 0).
Proof.
  intros Hb. unfold shared_key. destruct (decide (value (_private d) = 0%Z)) as [E|Hne].
  - rewrite scalar_mult_zero by done. exact (f_equal Some xor_zero).
  - unfold scalar_mult. destruct (used_digits_top _ Hb Hne) as (n & -> & Hd & _). replace (S n - 1)%nat with n by lia.
    rewrite (proj2 (Z.eqb_neq _ _)) by done. cbn [Nat.eqb orb]. rewrite digits_loop_zeros.
    transitivity (normalize zeros ≫= λ q, Some (xor_assign (px q) (py q))); [done|]. rewrite normalize_zeros. exact (f_equal Some xor_zero).
Qed.
End field.

(** ** secp128r1 *)

Abbreviation p128 := (value (_mod (Bignum := Bignum_16))).
Abbreviation F128 := (Zmod.Zmod p128).
Definition c128 : F128 := Zmod.of_Z _ 0xe87579c11079f43dd824993c2cee5ed3.
Definition N128 : Z := 0xfffffffe0000000075a30d1b9038a115.

Lemma p128_value : p128 = 2 ^ 128 - 2 ^ 97 - 1.
Proof. reflexivity. Qed.

Lemma p128_prime : Z.prime p128.
Proof. rewrite p128_value. exact prime_modulus. Qed.

#[export] Instance field128 : Field Zmod.zero Zmod.one (@Zmod.add p128) (@Zmod.mul p128) (@Zmod.sub p128) (@Zmod.opp p128)
  (@Zmod.mdiv p128) (@Zmod.inv p128) := Zmod.field_theory p128 p128_prime.

Ltac differ := intros E%(f_equal Zmod.to_Z); vm_compute in E; discriminate E.

#[export] Instance curve128 : Curve Zmod.zero Zmod.one (@Zmod.add p128) (@Zmod.mul p128)
  (Zmod.opp (Zmod.add (Zmod.add Zmod.one Zmod.one) Zmod.one)) c128.
Proof. apply (smooth_curve (HB := Bignum_16) p128_prime); differ. Qed.

Abbreviation add128 := (plus (f1 := Zmod.one) (fadd := @Zmod.add p128) (fmul := @Zmod.mul p128) (fsub := @Zmod.sub p128)
  (fopp := @Zmod.opp p128) (fdiv := @Zmod.mdiv p128) (a := Zmod.opp (Zmod.add (Zmod.add Zmod.one Zmod.one) Zmod.one))).
Abbreviation times128 := (multiple (f1 := Zmod.one) (fadd := @Zmod.add p128) (fmul := @Zmod.mul p128) (fsub := @Zmod.sub p128)
  (fopp := @Zmod.opp p128) (fdiv := @Zmod.mdiv p128) (a := Zmod.opp (Zmod.add (Zmod.add Zmod.one Zmod.one) Zmod.one))).

Lemma order_times_base : times128 N128 (coordinates (HB := Bignum_16) default_base_point) = None.
Proof. by vm_compute. Qed.

Lemma base_point_on_curve : on_curve (fadd := @Zmod.add p128) (fmul := @Zmod.mul p128)
  (a := Zmod.opp (Zmod.add (Zmod.add Zmod.one Zmod.one) Zmod.one)) (b := c128) (coordinates (HB := Bignum_16) default_base_point).
Proof. by vm_compute. Qed.

Lemma base_point_affine : affine (HB := Bignum_16) default_base_point.
Proof.
  split; [|reflexivity]. split_and!; (split; [split|]); try reflexivity; apply (bool_decide_unpack _); by vm_compute.
Qed.

Lemma order_base_point i : 0 < i < N128 → times128 i (coordinates (HB := Bignum_16) default_base_point) ≠ None.
Proof. intros Hi. by apply (prime_order_multiples N128); [exact base_point_on_curve|exact prime_order|exact order_times_base|..]. Qed.

(** The curve's equation between coordinates. *)
Definition solves_curve (p : Elliptic_Curve_Point) : Prop :=
  let x := value (px p) in let y := value (py p) in
  (y * y) mod p128 = (x * x * x - 3 * x + 0xe87579c11079f43dd824993c2cee5ed3) mod p128.

Lemma on_solves p : on_curve (fadd := @Zmod.add p128) (fmul := @Zmod.mul p128)
  (a := Zmod.opp (Zmod.add (Zmod.add Zmod.one Zmod.one) Zmod.one)) (b := c128) (coordinates (HB := Bignum_16) p) → solves_curve p.
Proof.
  intros E. apply Zmod.of_Z_inj. rewrite Zmod.of_Z_mul. etransitivity; [exact E|].
  rewrite Zmod.of_Z_add, Zmod.of_Z_sub, !Zmod.of_Z_mul. change 3 with (1 + 1 + 1) at 1. rewrite !Zmod.of_Z_add, !Zmod.of_Z_1.
  unfold c128, elt. generalize (@Zmod.of_Z p128 (value (px p))) as x. intros x. f_equal. 
  rewrite <- Zmod.add_opp_r. f_equal. by rewrite Zmod.mul_opp_l.
Qed.

Lemma private_key_bounds seed : let a := (randomize (H := Bignum_16) seed).1 in
  wf (HB := Bignum_16) a ∧ 0 ≤ value a < N128.
Proof.
  intros a. destruct (randomize_reduced (HB := Bignum_16) seed) as [Hw Hlt]. split; [done|]. pose proof (wf_value (HB := Bignum_16) a Hw).
  assert (p128 < N128) by by vm_compute. fold a in Hlt. lia.
Qed.

Lemma shared_128 seed1 seed2 :
  value (randomize (H := Bignum_16) seed1).1 ≠ 0 → value (randomize (H := Bignum_16) seed2).1 ≠ 0 →
  ∃ d1 s1 d2 s2 k, Default_Diffie_Hellman seed1 = Some (d1, s1) ∧ Default_Diffie_Hellman seed2 = Some (d2, s2) ∧
    solves_curve (public_key d1) ∧ solves_curve (public_key d2) ∧
    shared_key (HB := Bignum_16) d1 (public_key d2) = Some k ∧ shared_key (HB := Bignum_16) d2 (public_key d1) = Some k ∧ length k = 4%nat.
Proof.
  intros H1 H2. destruct (private_key_bounds seed1) as [W1 B1], (private_key_bounds seed2) as [W2 B2].
  unfold Default_Diffie_Hellman, generate_keypair. destruct (randomize seed1) as [a s1], (randomize seed2) as [b s2]. cbn [fst] in *.
  destruct (products_commute (HB := Bignum_16) p128_prime eq_refl c128 default_base_point N128 a b base_point_affine base_point_on_curve prime_order
    order_times_base W1 W2 ltac:(lia) ltac:(lia)) as (pa & pb & q & Ea & Eb & Eq & Eq' & _ & Oa & _ & Ob & ((Hx & Hy & _) & _)).
  exists {| _private := a; _base_point := default_base_point; _public := pa |}, s1,
    {| _private := b; _base_point := default_base_point; _public := pb |}, s2, (xor_assign (px q) (py q)).
  rewrite Ea, Eb. unfold shared_key. cbn [_private _public public_key]. rewrite Eq, Eq'.
  split_and!; [done|done|by apply on_solves|by apply on_solves|done|done|].
  destruct Hx as [[_ Lx] _], Hy as [[_ Ly] _]. unfold xor_assign. rewrite length_zip_with, Lx, Ly. done.
Qed.

(** C11 The two parties compute one key: for any two seeds whose private keys
    are not zero, both default constructors end, the public keys satisfy the
    equation of secp128r1, and each party's shared key with the other's
    public key is the same.  The group law, the primality of the modulus and
    of the order of the base point, and that order, are proved. *)
Theorem parties_share_key seed1 seed2 :
  value (randomize (H := Bignum_16) seed1).1 ≠ 0 → value (randomize (H := Bignum_16) seed2).1 ≠ 0 →
  ∃ d1 s1 d2 s2 k, Default_Diffie_Hellman seed1 = Some (d1, s1) ∧ Default_Diffie_Hellman seed2 = Some (d2, s2) ∧
    solves_curve (public_key d1) ∧ solves_curve (public_key d2) ∧
    shared_key (HB := Bignum_16) d1 (public_key d2) = Some k ∧ shared_key (HB := Bignum_16) d2 (public_key d1) = Some k.
Proof.
  intros H1 H2. destruct (shared_128 seed1 seed2 H1 H2) as (d1 & s1 & d2 & s2 & k & ? & ? & ? & ? & ? & ? & _).
  by exists d1, s1, d2, s2, k.
Qed.

(** Keys of the seeds 1 and 2. *)
Lemma parties_share_key_witness :
  value (randomize (H := Bignum_16) 1).1 ≠ 0 ∧ value (randomize (H := Bignum_16) 2).1 ≠ 0 ∧
  ∃ d1 s1 d2 s2 k, Default_Diffie_Hellman 1 = Some (d1, s1) ∧ Default_Diffie_Hellman 2 = Some (d2, s2) ∧
    solves_curve (public_key d1) ∧ solves_curve (public_key d2) ∧
    shared_key (HB := Bignum_16) d1 (public_key d2) = Some k ∧ shared_key (HB := Bignum_16) d2 (public_key d1) = Some k.
Proof.
  assert (value (randomize (H := Bignum_16) 1).1 ≠ 0) as Hne1 by by vm_compute.
  assert (value (randomize (H := Bignum_16) 2).1 ≠ 0) as Hne2 by by vm_compute.
  split; [exact Hne1|]. split; [exact Hne2|]. exact (parties_share_key 1 2 Hne1 Hne2).
Defined.

Lemma product_is_multiple_witness :
  ∃ q, scalar_mult (HB := Bignum_16) default_base_point [3; 1; 0; 0] = Some q ∧ affine (HB := Bignum_16) q ∧
    coordinates (HB := Bignum_16) q = times128 (2 ^ 32 + 3) (coordinates (HB := Bignum_16) default_base_point).
Proof.
  destruct (product_is_multiple (HB := Bignum_16) p128_prime eq_refl c128 default_base_point [3; 1; 0; 0]) as (q & E & H).
  - exact base_point_affine.
  - exact base_point_on_curve.
  - split; [apply (bool_decide_unpack _); by vm_compute|reflexivity].
  - intros i Hi. apply order_base_point. assert (value [3; 1; 0; 0] < N128) by by vm_compute. lia.
  - exists q. split; [exact E|]. by rewrite decide_False in H by done.
Defined.

(** Whatever the private key 2^64 + 5 is worth. *)
Lemma zero_point_known_key_witness :
  shared_key (HB := Bignum_16) {| _private := [5; 0; 1; 0]; _base_point := default_base_point; _public := default_base_point |} (zeros (HB := Bignum_16)) =
  Some [0; 0; 0; 0].
Proof.
  apply (zero_point_known_key (HB := Bignum_16) p128_prime eq_refl). split; [apply (bool_decide_unpack _); by vm_compute|reflexivity].
Defined.
