(* ===== verification/Handshake.v ===== *)
(** * The key exchange of trusted peers (src/network/tstp/security.cc)

    [TSTP::Security::update], the observer of received messages: a node
    answers a Diffie-Hellman request, keeps pending keys, and moves a peer
    from the pending to the trusted list when the peer proves that it has the
    same key.  [update] is a function of the node and the message that gives
    the node after it and the messages sent.  The clock does not advance
    within a call.  [key_manager] is a round of the thread that forgets what
    has expired and opens a request; the frame it sends for it has no content
    in the source, and so none here.
    Where a position is in a region of space is a parameter ([Geometry]). *)

From stdpp Require Import prelude.
From S2P Require Import Prelude PyStr Digits Aes Bignum Poly1305 Security DiffieHellman.

Class Geometry := { Sphere : Type; Space : Type; center : Sphere → Space; sphere_contains : Sphere → Space → bool }.

(** The bytes of a number, which are the key of a cipher. *)
Definition Master_Secret : Type := list Z.

Section security.
Context {C : Block_Cipher} {D : Deciphers C} {G : Geometry}.

Record Region := { sphere : Sphere; t0 : Z; t1 : Z }.
Definition contains (r : Region) (where_ : Space) (when : Z) : bool :=
  ((when >=? t0 r) && (when <=? t1 r)) && sphere_contains (sphere r) where_.

(** [p_el] is the address of the list element [_el] of the peer. *)
Record Peer := {
  p_el : nat; p_id : list Z; p_auth : list Z; p_valid : Region; p_master_secret : Master_Secret; p_auth_time : Z
}.

Definition valid_deploy (p : Peer) (where_ : Space) (when : Z) : bool := contains (p_valid p) where_ when.
Definition valid_request (p : Peer) (auth : list Z) (where_ : Space) (when : Z) : bool :=
  bool_decide (auth = p_auth p) && contains (p_valid p) where_ when.

(** [Peer::master_secret(ms)] *)
Definition set_master_secret (p : Peer) (ms : Master_Secret) (now : Z) : Peer :=
  {| p_el := p_el p; p_id := p_id p; p_auth := p_auth p; p_valid := p_valid p; p_master_secret := ms; p_auth_time := now |}.

(** [_master_secret] is kept once it is calculated. *)
Record Pending_Key := { k_master_secret : option Master_Secret; k_creation : Z; k_public_key : Elliptic_Curve_Point }.
Definition new_pending_key (pk : Elliptic_Curve_Point) (now : Z) : Pending_Key :=
  {| k_master_secret := None; k_creation := now; k_public_key := pk |}.

Definition pending_master_secret (dh : Diffie_Hellman) (k : Pending_Key) : option (Master_Secret * Pending_Key) :=
  match k_master_secret k with
  | Some ms => Some (ms, k)
  | None =>
      w ← shared_key (HB := Bignum_16) dh (k_public_key k);
      let ms := to_bytes w in
      Some (ms, {| k_master_secret := Some ms; k_creation := k_creation k; k_public_key := k_public_key k |})
  end.

(** The class's static attributes, and [TSTP::here() == TSTP::sink()]. *)
Record node := {
  _id : list Z; _auth : list Z; _dh : Diffie_Hellman;
  _pending_keys : list Pending_Key; _pending_peers : list Peer; _trusted_peers : list Peer;
  _dh_requests_open : Z; is_sink : bool
}.

(** The constructor of [Security] and [add_peer]. *)
Definition new_node (id : list Z) (dh : Diffie_Hellman) (sink : bool) : option node :=
  auth ← cipher_encrypt id id;
  Some {| _id := id; _auth := auth; _dh := dh; _pending_keys := []; _pending_peers := []; _trusted_peers := [];
    _dh_requests_open := 0; is_sink := sink |}.

Definition with_lists (n : node) (keys : list Pending_Key) (pending trusted : list Peer) : node :=
  {| _id := _id n; _auth := _auth n; _dh := _dh n; _pending_keys := keys; _pending_peers := pending; _trusted_peers := trusted;
    _dh_requests_open := _dh_requests_open n; is_sink := is_sink n |}.
Definition with_requests (n : node) (k : Z) : node :=
  {| _id := _id n; _auth := _auth n; _dh := _dh n; _pending_keys := _pending_keys n; _pending_peers := _pending_peers n;
    _trusted_peers := _trusted_peers n; _dh_requests_open := k; is_sink := is_sink n |}.

Definition add_peer (n : node) (el : nat) (id : list Z) (valid : Region) : option node :=
  auth ← cipher_encrypt id id;
  let peer := {| p_el := el; p_id := id; p_auth := auth; p_valid := valid; p_master_secret := replicate 16 0; p_auth_time := 0 |} in
  Some (with_lists n (_pending_keys n) (_pending_peers n ++ [peer]) (_trusted_peers n)).

Inductive message :=
  | DH_Request (key : Elliptic_Curve_Point)
  | DH_Response (key : Elliptic_Curve_Point)
  | Auth_Request (auth otp : list Z)
  | Auth_Granted (valid : Region) (auth : list Z).

(** [otp] and [verify_auth_request] of Security.v take the pair of a master
    secret and an identifier. *)
Definition secret_of (ms : Master_Secret) (id : list Z) : secret := {| peer_id := id; master_secret := ms |}.

(** The first element that satisfies [P], and the list without it. *)
Fixpoint remove_first {A} (P : A → bool) (l : list A) : option (A * list A) :=
  match l with
  | [] => None
  | x :: l' => if P x then Some (x, l') else '(y, l') ← remove_first P l'; Some (y, x :: l')
  end.

(** The loop over the pending keys: the first whose master secret passes
    [check], removed from the list; those looked at have been calculated. *)
Fixpoint find_key (dh : Diffie_Hellman) (check : Master_Secret → option bool) (keys : list Pending_Key) :
    option (option Master_Secret * list Pending_Key) :=
  match keys with
  | [] => Some (None, [])
  | k :: keys' =>
      '(ms, k) ← pending_master_secret dh k;
      ok ← check ms;
      if ok : bool then Some (Some ms, keys')
      else '(r, keys') ← find_key dh check keys'; Some (r, k :: keys')
  end.

(** The loop over the pending peers around it: the peer that is found, with
    its master secret, removed from the list. *)
Fixpoint find_peer (dh : Diffie_Hellman) (ready : Peer → bool) (check : Peer → Master_Secret → option bool) (now : Z)
    (peers : list Peer) (keys : list Pending_Key) : option (option Peer * list Peer * list Pending_Key) :=
  match peers with
  | [] => Some (None, [], keys)
  | p :: peers' =>
      '(r, keys) ← (if ready p then find_key dh (check p) keys else Some (None, keys));
      match r with
      | Some ms => Some (Some (set_master_secret p ms now), peers', keys)
      | None => '(r, peers', keys) ← find_peer dh ready check now peers' keys; Some (r, p :: peers', keys)
      end
  end.

Definition on_dh_request (n : node) (key : Elliptic_Curve_Point) (origin : Space) (now : Z) : option (node * list message) :=
  if is_sink n then Some (n, [])
  else
    let lists :=
      if existsb (λ p, valid_deploy p origin now) (_pending_peers n) then Some (_pending_peers n, _trusted_peers n)
      else
        '(p, trusted) ← remove_first (λ p, valid_deploy p origin now) (_trusted_peers n);
        Some (_pending_peers n ++ [p], trusted) in
    match lists with
    | None => Some (n, [])
    | Some (pending, trusted) =>
        '(ms, pk) ← pending_master_secret (_dh n) (new_pending_key key now);
        o ← otp (secret_of ms (_id n)) now;
        Some (with_lists n (_pending_keys n ++ [pk]) pending trusted, [DH_Response (public_key (_dh n)); Auth_Request (_auth n) o])
    end.

Definition on_dh_response (n : node) (key : Elliptic_Curve_Point) (origin : Space) (now : Z) : option (node * list message) :=
  if _dh_requests_open n =? 0 then Some (n, [])
  else if existsb (λ p, valid_deploy p origin now) (_pending_peers n) then
    let n := with_requests n (_dh_requests_open n - 1) in
    Some (with_lists n (_pending_keys n ++ [new_pending_key key now]) (_pending_peers n) (_trusted_peers n), [])
  else Some (n, []).

Definition on_auth_request (n : node) (auth o : list Z) (origin : Space) (now : Z) : option (node * list message) :=
  '(r, pending, keys) ← find_peer (_dh n) (λ p, valid_request p auth origin now)
    (λ p ms, verify_auth_request (secret_of ms (p_id p)) o now) now (_pending_peers n) (_pending_keys n);
  match r with
  | None => Some (with_lists n keys pending (_trusted_peers n), [])
  | Some p =>
      key ← otp (secret_of (p_master_secret p) (p_id p)) now;
      encrypted_auth ← cipher_encrypt (p_auth p) key;
      Some (with_lists n keys pending (_trusted_peers n ++ [p]), [Auth_Granted (p_valid p) encrypted_auth])
  end.

Definition on_auth_granted (n : node) (auth : list Z) (now : Z) : option (node * list message) :=
  if is_sink n then Some (n, [])
  else
    '(r, pending, keys) ← find_peer (_dh n) (λ _, true)
      (λ p ms,
        key ← otp (secret_of ms (p_id p)) now;
        decrypted_auth ← cipher_decrypt auth key;
        Some (bool_decide (decrypted_auth = _auth n))) now (_pending_peers n) (_pending_keys n);
    Some (with_lists n keys pending (_trusted_peers n ++ option_list r), []).

Definition update (n : node) (m : message) (origin : Space) (now : Z) : option (node * list message) :=
  match m with
  | DH_Request key => on_dh_request n key origin now
  | DH_Response key => on_dh_response n key origin now
  | Auth_Request auth o => on_auth_request n auth o origin now
  | Auth_Granted _ auth => on_auth_granted n auth now
  end.

(** The loop over the trusted peers for a RESPONSE: the data, and
    [buf->trusted]. *)
Fixpoint response_loop (use_encryption : bool) (peers : list Peer) (data mac : list Z) (origin : Space) (now reception_time : Z) :
    option (bool * list Z) :=
  match peers with
  | [] => Some (false, data)
  | p :: peers' =>
      if valid_deploy p origin now then
        '(ok, data) ← unpack use_encryption (secret_of (p_master_secret p) (p_id p)) data mac reception_time;
        if ok : bool then Some (true, data) else response_loop use_encryption peers' data mac origin now reception_time
      else response_loop use_encryption peers' data mac origin now reception_time
  end.
Definition on_response (use_encryption : bool) (n : node) (data mac : list Z) (origin : Space) (now reception_time : Z) : option (bool * list Z) :=
  '(trusted, data) ← response_loop use_encryption (_trusted_peers n) data mac origin now reception_time;
  let trusted := true in   (* TODO *)
  Some (trusted, data).
(** [Pending_Key::expired], and the same comparison for the peers' keys; the
    difference is one of unsigned 64-bit numbers. *)
Definition expired (since now : Z) : bool := (now - since) mod 2 ^ 64 >? KEY_EXPIRY.
Definition in_force (now : Z) (p : Peer) : bool := valid_deploy p (center (sphere (p_valid p))) now.

(** The loops of [key_manager] that clean the lists up. *)
Definition clean_up (n : node) (now : Z) : node :=
  let keys := List.filter (λ k, negb (expired (k_creation k) now)) (_pending_keys n) in
  let trusted := List.filter (in_force now) (_trusted_peers n) in
  let pending := List.filter (in_force now) (_pending_peers n) in
  let old := λ p, expired (p_auth_time p) now in
  with_lists n keys (pending ++ List.filter old trusted) (List.filter (λ p, negb (old p)) trusted).

(** [el->next()] and the peers after it, while the peer of [el] is in one of
    the lists; it is in none once it has been deleted. *)
Fixpoint after (el : nat) (l : list Peer) : option (list Peer) :=
  match l with
  | [] => None
  | p :: l' => if decide (p_el p = el) then Some l' else after el l'
  end.
Definition next_of (n : node) (el : nat) : option (list Peer) :=
  match after el (_pending_peers n) with Some l => Some l | None => after el (_trusted_peers n) end.

(** A round of [key_manager]: the node, [last_dh_request], and the frames
    sent.  The frame's constructor is commented out: it goes out with whatever
    its memory held, which is [None] here. *)
Definition key_manager (n : node) (last_dh_request : option nat) (now : Z) : option (node * option nat * list (option message)) :=
  let n := clean_up n now in
  next ← match last_dh_request with None => Some [] | Some el => next_of n el end;
  let el := match next with [] => _pending_peers n | _ => next end in
  match List.find (in_force now) el with
  | Some p => Some (with_requests n ((_dh_requests_open n + 1) mod 2 ^ 32), Some (p_el p), [None])
  | None => Some (n, None, [])
  end.
End security.

(** ** The loops *)

Section security.
Context {C : Block_Cipher} {D : Deciphers C} {G : Geometry} {HC : Block_Cipher_Laws C} {HD : Deciphers_Laws C D}.

(** A key that is known, or can be calculated, as [ms]. *)
Definition knows (dh : Diffie_Hellman) (k : Pending_Key) (ms : Master_Secret) : Prop := ∃ k', pending_master_secret dh k = Some (ms, k').

Lemma known_after dh k ms k' : pending_master_secret dh k = Some (ms, k') → knows dh k' ms.
Proof.
  unfold knows, pending_master_secret. destruct (k_master_secret k) as [x|] eqn:E.
  - injection 1 as -> <-. rewrite E. by eexists.
  - destruct (shared_key _ _) as [w|]; [|done]. cbn. injection 1 as <- <-. by eexists.
Qed.

Lemma knows_new dh pk w now : shared_key (HB := Bignum_16) dh pk = Some w → knows dh (new_pending_key pk now) (to_bytes w).
Proof. intros E. eexists. unfold pending_master_secret. cbn [k_master_secret new_pending_key k_public_key]. by rewrite E. Qed.

Lemma find_the_key dh check k ms keys : knows dh k ms → check ms = Some true → find_key dh check (k :: keys) = Some (Some ms, keys).
Proof. intros [k' E] Hc. cbn [find_key]. rewrite E. cbn. by rewrite Hc. Qed.

Lemma find_the_peer dh ready (check : Peer → Master_Secret → option bool) now p peers k ms keys : ready p = true → knows dh k ms → check p ms = Some true →
  find_peer dh ready check now (p :: peers) (k :: keys) = Some (Some (set_master_secret p ms now), peers, keys).
Proof. intros Hr Hk Hc. cbn [find_peer]. rewrite Hr, (find_the_key dh (check p) k ms) by done. done. Qed.

Lemma block_secret k id : length k = 4%nat → is_block id → well (secret_of (to_bytes k) id).
Proof. intros Hk Hid. split; [done|]. cbn [secret_of master_secret]. split; [by rewrite length_to_bytes, Hk|apply to_bytes_ok]. Qed.

(** ** The two halves of the exchange *)

(** One peer of a node, as [add_peer] makes it. *)
Definition fresh_peer (el : nat) (id auth : list Z) (r : Region) : Peer :=
  {| p_el := el; p_id := id; p_auth := auth; p_valid := r; p_master_secret := replicate 16 0; p_auth_time := 0 |}.
Definition trusts (n : node) (id : list Z) (ms : Master_Secret) : Prop :=
  _pending_peers n = [] ∧ _pending_keys n = [] ∧ ∃ p, _trusted_peers n = [p] ∧ p_id p = id ∧ p_master_secret p = ms.
(** A node that waits for its only peer. *)
Definition waits_for (n : node) (el : nat) (id auth : list Z) (r : Region) : Prop :=
  _pending_keys n = [] ∧ _pending_peers n = [fresh_peer el id auth r] ∧ _trusted_peers n = [].

Lemma sensor_half n el id auth r pk k origin t :
  waits_for n el id auth r → is_sink n = false → _id n = id → _auth n = auth → is_block id → is_block auth → length k = 4%nat →
  shared_key (HB := Bignum_16) (_dh n) pk = Some k → contains r origin t = true →
  ∃ n1 o, update n (DH_Request pk) origin t = Some (n1, [DH_Response (public_key (_dh n)); Auth_Request auth o]) ∧
    otp (secret_of (to_bytes k) id) t = Some o ∧
    ∀ r' key g origin' t', otp (secret_of (to_bytes k) id) t' = Some key → cipher_encrypt auth key = Some g →
      ∃ n2, update n1 (Auth_Granted r' g) origin' t' = Some (n2, []) ∧ trusts n2 id (to_bytes k).
Proof using HC HD.
  destruct n as [nid nauth dh keys pending trusted open sink]. unfold waits_for. cbn [_pending_keys _pending_peers _trusted_peers is_sink _id _auth _dh].
  intros (-> & -> & ->) -> -> -> Hid Hauth Hk Es Hc. pose proof (block_secret k id Hk Hid) as Hwell. destruct (otp_tag (secret_of (to_bytes k) id) t Hwell) as [Eo _].
  destruct (knows_new dh pk k t Es) as [k1 Ek1]. pose proof (known_after _ _ _ _ Ek1) as Hk1. eexists _, _. split; [|split; [exact Eo|]].
  - unfold update, on_dh_request. cbn [is_sink _pending_peers].
    change (existsb _ [_]) with (contains r origin t || false). rewrite Hc. cbn [orb _dh _id _pending_keys app]. rewrite Ek1.
    cbn [mbind option_bind]. by rewrite Eo.
  - intros r' key g origin' t' Ekey Eg. eexists. split.
    + unfold update, on_auth_granted. cbn [is_sink _dh _pending_peers _pending_keys with_lists app].
      rewrite (find_the_peer _ _ _ _ _ _ _ (to_bytes k)); [done|done|exact Hk1|]. cbn [p_id fresh_peer]. rewrite Ekey. cbn [mbind option_bind].
      assert (is_block key) as Hb. { destruct (otp_tag _ t' Hwell) as [E Hb]. rewrite Ekey in E. by injection E as ->. }
      rewrite (decrypt_inverts auth key g Hauth Hb Eg). cbn [mbind option_bind _auth with_lists]. by rewrite bool_decide_true.
    + split; [done|]. split; [done|]. eexists. split; done.
Qed.

Lemma sink_half n el id auth r pk k origin t :
  waits_for n el id auth r → 0 < _dh_requests_open n → is_block id → is_block auth → length k = 4%nat →
  shared_key (HB := Bignum_16) (_dh n) pk = Some k → contains r origin t = true →
  ∃ n1, update n (DH_Response pk) origin t = Some (n1, []) ∧ _dh_requests_open n1 = _dh_requests_open n - 1 ∧
    ∀ o origin' t', contains r origin' t' = true → is_block o →
      if decide (verify_auth_request (secret_of (to_bytes k) id) o t' = Some true) then
        ∃ n2 key g, update n1 (Auth_Request auth o) origin' t' = Some (n2, [Auth_Granted r g]) ∧
          otp (secret_of (to_bytes k) id) t' = Some key ∧ cipher_encrypt auth key = Some g ∧ trusts n2 id (to_bytes k)
      else ∃ n2, update n1 (Auth_Request auth o) origin' t' = Some (n2, []) ∧ _trusted_peers n2 = [] ∧ _pending_peers n2 = _pending_peers n.
Proof using HC HD.
  destruct n as [nid nauth dh keys pending trusted open sink]. unfold waits_for. cbn [_pending_keys _pending_peers _trusted_peers _dh_requests_open _dh].
  intros (-> & -> & ->) Ho Hid Hauth Hk Es Hc. pose proof (block_secret k id Hk Hid) as Hwell.
  eexists. split.
  { unfold update, on_dh_response. cbn [_dh_requests_open _pending_peers]. rewrite (proj2 (Z.eqb_neq open 0)) by lia.
    change (existsb _ [_]) with (contains r origin t || false). by rewrite Hc. }
  split; [done|]. intros o origin' t' Hc' Hob. unfold update, on_auth_request. cbn [_dh _pending_peers _pending_keys _trusted_peers with_lists with_requests app].
  assert (valid_request (fresh_peer el id auth r) auth origin' t' = true) as Hv by (unfold valid_request; cbn [p_auth p_valid fresh_peer]; by rewrite bool_decide_true, Hc').
  case_decide as Hver.
  - rewrite (find_the_peer _ _ _ _ _ _ _ (to_bytes k)); [|exact Hv|by apply knows_new|exact Hver].
    destruct (otp_tag (secret_of (to_bytes k) id) t' Hwell) as [Ekey Hb]. destruct (cipher_total auth _ Hauth Hb) as (g & Eg & _). eexists _, _, g.
    split; [|split; [exact Ekey|]; split; [exact Eg|]].
    + cbn [mbind option_bind set_master_secret p_master_secret p_id p_auth p_valid fresh_peer]. rewrite Ekey. cbn [mbind option_bind]. by rewrite Eg.
    + split; [done|]. split; [done|]. eexists. split; done.
  - destruct (knows_new dh pk k t Es) as [k1 Ek1]. cbn [find_peer find_key]. rewrite Hv. rewrite Ek1. cbn [mbind option_bind].
    rewrite verify_request_spec in Hver |- * by done. cbn [p_id fresh_peer].
    destruct (bool_decide _); [by destruct Hver|]. cbn [mbind option_bind]. eexists. split; [reflexivity|done].
Qed.

(** ** What the loops find *)

Definition derived (dh : Diffie_Hellman) (keys : list Pending_Key) (ms : Master_Secret) : Prop := ∃ k, k ∈ keys ∧ knows dh k ms.

Lemma calculated_knows dh k ms k' ms' : pending_master_secret dh k = Some (ms, k') → knows dh k' ms' → knows dh k ms'.
Proof.
  intros E. destruct (known_after _ _ _ _ E) as [k2 E2]. intros [k3 E3]. exists k'. congruence.
Qed.

Lemma find_key_spec dh check keys r keys' : find_key dh check keys = Some (r, keys') →
  (∀ ms, r = Some ms → derived dh keys ms ∧ check ms = Some true) ∧ (∀ ms, derived dh keys' ms → derived dh keys ms).
Proof.
  revert r keys'; induction keys as [|k keys IH]; intros r keys'; cbn [find_key]; [by injection 1 as <- <-|].
  destruct (pending_master_secret dh k) as [[ms k']|] eqn:Ek; [|done]. cbn [mbind option_bind].
  destruct (check ms) as [[]|] eqn:Ec; [| |done]; cbn [mbind option_bind].
  - injection 1 as <- <-. split.
    + intros ms' [= <-]. split; [|done]. exists k. split; [by left|by exists k'].
    + intros ms' (k2 & Hk2 & ?). exists k2. split; [by right|done].
  - destruct (find_key dh check keys) as [[r2 keys2]|] eqn:Ef; [|done]. cbn [mbind option_bind]. injection 1 as <- <-.
    destruct (IH _ _ eq_refl) as [H1 H2]. split.
    + intros ms' Er. destruct (H1 ms' Er) as [(k2 & Hk2 & Hkn) Hc]. split; [|done]. exists k2. split; [by right|done].
    + intros ms' (k2 & Hk2 & Hkn). apply elem_of_cons in Hk2 as [->|Hk2].
      * exists k. split; [by left|]. by eapply calculated_knows.
      * destruct (H2 ms') as (k3 & Hk3 & ?); [by exists k2|]. exists k3. split; [by right|done].
Qed.

Lemma find_peer_spec dh ready check now peers keys r peers' keys' : find_peer dh ready check now peers keys = Some (r, peers', keys') →
  match r with
  | None => peers' = peers
  | Some p => ∃ q ms, p = set_master_secret q ms now ∧ peers ≡ₚ q :: peers' ∧ ready q = true ∧ derived dh keys ms ∧ check q ms = Some true
  end.
Proof.
  revert r peers' keys keys'; induction peers as [|p peers IH]; intros r peers' keys keys'; cbn [find_peer]; [by injection 1 as <- <- <-|].
  destruct (if ready p then find_key dh (check p) keys else Some (None, keys)) as [[r1 keys1]|] eqn:E1; [|done]. cbn [mbind option_bind].
  assert ((∀ ms, r1 = Some ms → ready p = true ∧ derived dh keys ms ∧ check p ms = Some true) ∧ (∀ ms, derived dh keys1 ms → derived dh keys ms)) as [H1 H2].
  { destruct (ready p); [|injection E1 as <- <-; by split]. apply find_key_spec in E1 as [H1 H2]. split; [|done]. intros ms Er. by destruct (H1 ms Er). }
  destruct r1 as [ms|].
  - injection 1 as <- <- <-. destruct (H1 ms eq_refl) as (? & ? & ?). by exists p, ms.
  - destruct (find_peer dh ready check now peers keys1) as [[[r2 peers2] keys2]|] eqn:E2; [|done]. cbn [mbind option_bind].
    injection 1 as <- <- <-. apply IH in E2. destruct r2 as [p2|]; [|by rewrite E2].
    destruct E2 as (q & ms & Ep & Hperm & Hr & Hd & Hc). exists q, ms. split; [done|]. split; [by rewrite Hperm, Permutation_swap|].
    split; [done|]. split; [by apply H2|done].
Qed.

Lemma remove_first_perm {A} (P : A → bool) l x l' : remove_first P l = Some (x, l') → l ≡ₚ x :: l' ∧ P x = true.
Proof.
  revert x l'; induction l as [|y l IH]; intros x l'; cbn [remove_first]; [done|]. destruct (P y) eqn:E; [by injection 1 as <- <-|].
  destruct (remove_first P l) as [[z l2]|]; [|done]. cbn [mbind option_bind]. injection 1 as <- <-. destruct (IH _ _ eq_refl) as [-> ?].
  split; [apply Permutation_swap|done].
Qed.

(** The peer is one of those pending, and the message proves that it has a key
    derived from a pending key: by a one-time password for the peer, or by
    this node's own authentication encrypted with one. *)
Definition earned (n : node) (m : message) (origin : Space) (now : Z) (p : Peer) : Prop :=
  ∃ q ms, q ∈ _pending_peers n ∧ p = set_master_secret q ms now ∧ derived (_dh n) (_pending_keys n) ms ∧
    match m with
    | Auth_Request auth o => auth = p_auth q ∧ contains (p_valid q) origin now = true ∧ verify_auth_request (secret_of ms (p_id q)) o now = Some true
    | Auth_Granted _ auth => is_sink n = false ∧ ∃ key, otp (secret_of ms (p_id q)) now = Some key ∧ cipher_decrypt auth key = Some (_auth n)
    | _ => False
    end.

Definition peers_of (n : node) : list (list Z) := p_id <$> _pending_peers n ++ _trusted_peers n.
(** Whatever message a node handles, no peer is lost or doubled between its
    two lists, and one that is trusted afterwards was so or has earned it. *)
Lemma update_earned n m origin now n' out : update n m origin now = Some (n', out) →
  peers_of n' ≡ₚ peers_of n ∧ ∀ p, p ∈ _trusted_peers n' → p ∈ _trusted_peers n ∨ earned n m origin now p.
Proof using Type.
  destruct m as [key|key|auth o|valid auth]; cbn [update].
  - unfold on_dh_request. destruct (is_sink n); [by injection 1 as <- <-; auto|]. destruct (existsb _ _).
    + cbn [mbind option_bind]. destruct (pending_master_secret (_dh n) (new_pending_key key now)) as [[ms pk]|]; [|done]. cbn [mbind option_bind]. destruct (otp _ _); [|done]. cbn [mbind option_bind]. injection 1 as <- <-. by auto.
    + destruct (remove_first _ _) as [[p trusted]|] eqn:Er; cbn [mbind option_bind]; [|by injection 1 as <- <-; auto]. apply remove_first_perm in Er as [Hp _].
      destruct (pending_master_secret (_dh n) (new_pending_key key now)) as [[ms pk]|]; [|done]. cbn [mbind option_bind]. destruct (otp _ _); [|done]. cbn [mbind option_bind]. injection 1 as <- <-.
      unfold peers_of. cbn. split; [rewrite <- app_assoc, Hp; done|]. intros q Hq. left. rewrite Hp. by right.
  - unfold on_dh_response. destruct (_ =? 0); [by injection 1 as <- <-; auto|]. destruct (existsb _ _); injection 1 as <- <-; by auto.
  - unfold on_auth_request. destruct (find_peer _ _ _ _ _ _) as [[[r pending] keys]|] eqn:Ef; [|done]. cbn [mbind option_bind]. apply find_peer_spec in Ef.
    destruct r as [p|]; [|injection 1 as <- <-; unfold peers_of; cbn; rewrite Ef; by auto].
    destruct (otp _ _) as [key|]; [|done]. cbn [mbind option_bind]. destruct (cipher_encrypt _ _); [|done]. cbn [mbind option_bind]. injection 1 as <- <-.
    destruct Ef as (q & ms & -> & Hp & Hr & Hd & Hc). unfold peers_of. cbn. split.
    + rewrite Hp, !fmap_app. cbn. by rewrite app_assoc, Permutation_app_comm.
    + intros p [Hin| ->%list_elem_of_singleton]%elem_of_app; [by left|right]. exists q, ms. apply andb_true_iff in Hr as [Ha%bool_decide_eq_true Hv].
      split; [rewrite Hp; by left|]. by split_and!.
  - unfold on_auth_granted. destruct (is_sink n) eqn:Es; [by injection 1 as <- <-; auto|].
    destruct (find_peer _ _ _ _ _ _) as [[[r pending] keys]|] eqn:Ef; [|done]. cbn [mbind option_bind]. injection 1 as <- <-. apply find_peer_spec in Ef.
    destruct r as [p|]; cbn; [|unfold peers_of; cbn; rewrite Ef, app_nil_r; by auto].
    destruct Ef as (q & ms & -> & Hp & _ & Hd & Hc). unfold peers_of. cbn. split.
    + rewrite Hp, !fmap_app. cbn. by rewrite app_assoc, Permutation_app_comm.
    + intros p [Hin| ->%list_elem_of_singleton]%elem_of_app; [by left|right]. exists q, ms. split; [rewrite Hp; by left|]. split; [done|]. split; [done|].
      split; [done|]. destruct (otp _ _) as [key|]; [|done]. cbn in Hc. destruct (cipher_decrypt auth key) as [d|] eqn:E; [|done]. cbn in Hc.
      injection Hc as Hc%bool_decide_eq_true. exists key. by rewrite E, Hc.
Qed.

(** ** Runs of a node *)

(** From a node without trusted peers, at most [W] microseconds pass between
    rounds of the key manager: the node, the time, and that of the last round. *)
Inductive reachable (W : Z) (n0 : node) : node → Z → Z → Prop :=
  | run_start t : 0 ≤ t < 2 ^ 64 → reachable W n0 n0 t t
  | run_wait n now cleaned t : reachable W n0 n now cleaned → now ≤ t < 2 ^ 64 → t - cleaned ≤ W → reachable W n0 n t cleaned
  | run_update n now cleaned m origin n' out :
      reachable W n0 n now cleaned → update n m origin now = Some (n', out) → reachable W n0 n' now cleaned
  | run_add_peer n now cleaned el id valid n' :
      reachable W n0 n now cleaned → add_peer n el id valid = Some n' → reachable W n0 n' now cleaned
  | run_manager n now cleaned last n' last' sent :
      reachable W n0 n now cleaned → key_manager n last now = Some (n', last', sent) → reachable W n0 n' now now.

Definition earned_at (W : Z) (n0 : node) (p : Peer) : Prop :=
  ∃ n c m origin, reachable W n0 n (p_auth_time p) c ∧ earned n m origin (p_auth_time p) p.

Lemma filter_In {A} (P : A → bool) l (x : A) : x ∈ List.filter P l ↔ x ∈ l ∧ P x = true.
Proof. rewrite !list_elem_of_In. apply List.filter_In. Qed.

Lemma key_manager_lists n last now n' last' sent : key_manager n last now = Some (n', last', sent) →
  _trusted_peers n' = _trusted_peers (clean_up n now) ∧ _pending_peers n' = _pending_peers (clean_up n now).
Proof.
  unfold key_manager. cbv zeta. set (n1 := clean_up n now). clearbody n1.
  destruct (match last with None => _ | Some _ => _ end) as [next|]; [|done]. cbn [mbind option_bind]. destruct (List.find _ _); by injection 1 as <- _ _.
Qed.

Lemma add_peer_trusted n el id valid n' : add_peer n el id valid = Some n' → _trusted_peers n' = _trusted_peers n.
Proof. unfold add_peer. destruct (cipher_encrypt id id); [|done]. cbn [mbind option_bind]. by injection 1 as <-. Qed.

Lemma expired_spec since now : 0 ≤ since ≤ now → now < 2 ^ 64 → expired since now = (now - since >? KEY_EXPIRY).
Proof. intros ??. unfold expired. by rewrite Z.mod_small by lia. Qed.

Lemma run_times W n0 n now cleaned : 0 ≤ W → reachable W n0 n now cleaned → 0 ≤ cleaned ≤ now ∧ now < 2 ^ 64 ∧ now - cleaned ≤ W.
Proof. intros HW. induction 1; lia. Qed.
End security.

(** ** Properties *)

Section properties.
Context {C : Block_Cipher} {D : Deciphers C} {G : Geometry} {HC : Block_Cipher_Laws C} {HD : Deciphers_Laws C D}.

(** C13 Trust is earned and expires: whatever messages a node receives and
    whenever they come, a peer it trusts has proved, at the time the peer's
    record says, that it has a key derived from a pending one (by a password
    of that time, or by this node's own secret authentication), and that was
    at most [KEY_EXPIRY] and the time between two rounds of the manager ago. *)
Theorem trust_is_earned W n0 n now cleaned p : 0 ≤ W → _trusted_peers n0 = [] → reachable W n0 n now cleaned →
  p ∈ _trusted_peers n → earned_at W n0 p ∧ p_auth_time p ≤ now ≤ p_auth_time p + KEY_EXPIRY + W.
Proof using Type.
  intros HW H0 Hrun. enough (∀ p, p ∈ _trusted_peers n → earned_at W n0 p ∧ 0 ≤ p_auth_time p ≤ now ∧ cleaned - p_auth_time p ≤ KEY_EXPIRY) as H.
  { intros Hp. destruct (H p Hp) as (? & ? & ?). split; [done|]. pose proof (run_times _ _ _ _ _ HW Hrun). lia. }
  clear p. assert (0 ≤ KEY_EXPIRY) as HK by done.
  induction Hrun as [t Ht|n now cleaned t Hrun IH Ht Hw|n now cleaned m origin n' out Hrun IH Hu|n now cleaned el id valid n' Hrun IH Ha|n now cleaned last n' last' sent Hrun IH Hm];
    intros p Hp; [by rewrite H0 in Hp; apply not_elem_of_nil in Hp| | | |]; pose proof (run_times _ _ _ _ _ HW Hrun) as Hb.
  - destruct (IH p Hp) as (? & ? & ?). split; [done|lia].
  - apply update_earned in Hu as [_ Hu]. destruct (Hu p Hp) as [?|He]; [by apply IH|].
    assert (p_auth_time p = now) as Et by (by destruct He as (q & ms & _ & -> & _)). split; [|lia].
    exists n, cleaned, m, origin. by rewrite Et.
  - apply add_peer_trusted in Ha. rewrite Ha in Hp. by apply IH.
  - apply key_manager_lists in Hm as [Hm _]. rewrite Hm in Hp. cbn in Hp. rewrite !filter_In in Hp. destruct Hp as [[Hp _] Hx].
    destruct (IH p Hp) as (? & ? & ?). split; [done|]. rewrite expired_spec, negb_true_iff in Hx by lia. lia.
Qed.

(** C12 Both halves of the handshake.  A node that receives a request with any
    public key [pk], whoever sent it, answers with its own key and a password,
    and trusts its peer, with the secret of the two keys, when its own
    authentication comes back encrypted with a password of that secret.  A
    node with a request open that receives a response with a key [pk], and
    then the peer's authentication, trusts it, with the secret of the two keys,
    and grants it by the same authentication encrypted, if the password with
    it is one of that secret; if it is not, it trusts nobody.  The secrets are
    the same by [parties_share_key].  A round of the manager counts a request
    as open and sends a frame, but one that carries no request. *)
Theorem handshake_halves n el id auth r pk k origin t :
  waits_for n el id auth r → is_block id → is_block auth → length k = 4%nat →
  shared_key (HB := Bignum_16) (_dh n) pk = Some k → contains r origin t = true →
  (is_sink n = false → _id n = id → _auth n = auth →
   ∃ n1 o, update n (DH_Request pk) origin t = Some (n1, [DH_Response (public_key (_dh n)); Auth_Request auth o]) ∧
     otp (secret_of (to_bytes k) id) t = Some o ∧
     ∀ r' key g origin' t', otp (secret_of (to_bytes k) id) t' = Some key → cipher_encrypt auth key = Some g →
       ∃ n2, update n1 (Auth_Granted r' g) origin' t' = Some (n2, []) ∧ trusts n2 id (to_bytes k)) ∧
  (0 < _dh_requests_open n →
   ∃ n1, update n (DH_Response pk) origin t = Some (n1, []) ∧ _dh_requests_open n1 = _dh_requests_open n - 1 ∧
     ∀ o origin' t', contains r origin' t' = true → is_block o →
       if decide (verify_auth_request (secret_of (to_bytes k) id) o t' = Some true) then
         ∃ n2 key g, update n1 (Auth_Request auth o) origin' t' = Some (n2, [Auth_Granted r g]) ∧
           otp (secret_of (to_bytes k) id) t' = Some key ∧ cipher_encrypt auth key = Some g ∧ trusts n2 id (to_bytes k)
       else ∃ n2, update n1 (Auth_Request auth o) origin' t' = Some (n2, []) ∧ _trusted_peers n2 = [] ∧ _pending_peers n2 = _pending_peers n) ∧
  (contains r (center (sphere r)) t = true →
   key_manager n None t = Some (with_requests n ((_dh_requests_open n + 1) mod 2 ^ 32), Some el, [None])).
Proof using HC HD.
  intros Hn Hid Hauth Hk Es Hc. split; [|split]; [intros; by eapply sensor_half|intros; by eapply sink_half|]. intros Hf.
  destruct n as [nid nauth dh keys pending trusted open sink]. unfold waits_for in Hn. cbn [_pending_keys _pending_peers _trusted_peers] in Hn.
  destruct Hn as (-> & -> & ->).
  assert (in_force t (fresh_peer el id auth r) = true) as Hp by exact Hf.
  unfold key_manager, clean_up. cbn [_pending_peers _trusted_peers _pending_keys List.filter]. rewrite Hp.
  cbn [List.filter app mbind option_bind _pending_peers with_lists List.find]. by rewrite Hp.
Qed.

(** A response is handed on as trusted whatever it carries: its loop's answer
    is overwritten. *)
Theorem every_response_trusted use_encryption n data mac origin now reception_time r :
  response_loop use_encryption (_trusted_peers n) data mac origin now reception_time = Some r →
  on_response use_encryption n data mac origin now reception_time = Some (true, r.2).
Proof using Type. intros E. unfold on_response. rewrite E. by destruct r. Qed.
End properties.

(** ** Witnesses, over the software AES, where everywhere is in every region *)

#[local] Instance everywhere : Geometry :=
  {| Sphere := unit; Space := unit; center := λ _, tt; sphere_contains := λ _ _, true |}.

Definition hour : Region := {| sphere := tt; t0 := 0; t1 := 3600000000 |}.
Definition sensor_id : list Z := seqZ 1 16.
Definition sink_id : list Z := seqZ 33 16.

(** The keys of the seeds 1 and 2. *)
Lemma handshake_halves_witness :
  ∃ n k pk el auth, waits_for n el sensor_id auth hour ∧ ∃ n1 o, update n (DH_Request pk) tt 7 = Some (n1, [DH_Response (public_key (_dh n)); Auth_Request auth o]) ∧
    otp (secret_of (to_bytes k) sensor_id) 7 = Some o.
Proof.
  destruct (shared_128 1 2) as (d1 & s1 & d2 & s2 & k & _ & _ & _ & _ & E & _ & Hk); [by vm_compute..|].
  set (n := {| _id := sensor_id; _auth := sink_id; _dh := d1; _pending_keys := []; _pending_peers := [fresh_peer 3 sensor_id sink_id hour];
    _trusted_peers := []; _dh_requests_open := 0; is_sink := false |}).
  exists n, k, (public_key d2), 3%nat, sink_id. split; [done|].
  destruct (handshake_halves n 3 sensor_id sink_id hour (public_key d2) k tt 7) as (H & _ & _);
    [done|split; [done|apply (bool_decide_unpack _); by vm_compute]|split; [done|apply (bool_decide_unpack _); by vm_compute]|done|exact E|done|].
  destruct (H eq_refl eq_refl eq_refl) as (n1 & o & Eu & Eo & _). exists n1, o. exact (conj Eu Eo).
Defined.

(** The sink, with a key it has calculated and the sensor's password. *)
Definition waiting : node :=
  {| _id := sink_id; _auth := sink_id; _dh := {| _private := []; _base_point := default_base_point; _public := default_base_point |};
    _pending_keys := [{| k_master_secret := Some (seqZ 100 16); k_creation := 5; k_public_key := default_base_point |}];
    _pending_peers := [fresh_peer 3 sensor_id (seqZ 60 16) hour]; _trusted_peers := []; _dh_requests_open := 0; is_sink := true |}.

Lemma trust_is_earned_witness : ∃ n p, p ∈ _trusted_peers n ∧ earned_at 0 waiting p ∧ p_auth_time p ≤ 70 ≤ p_auth_time p + KEY_EXPIRY + 0.
Proof.
  assert (∃ o n out, update waiting (Auth_Request (seqZ 60 16) o) tt 70 = Some (n, out) ∧ fst <$> list_find (λ _, True) (_trusted_peers n) = Some 0%nat)
    as (o & n & out & Hu & Hf).
  { exists (default [] (otp (secret_of (seqZ 100 16) sensor_id) 70)). eexists _, _. split; vm_compute; reflexivity. }
  destruct (_trusted_peers n) as [|p l] eqn:El; [done|]. exists n, p. rewrite El. split; [by left|].
  apply (trust_is_earned 0 waiting n 70 70 p); [done|done| |rewrite El; by left].
  refine (run_update 0 waiting waiting 70 70 _ tt n out _ Hu). apply run_start. lia.
Defined.
