(* ===== verification/Base85.v ===== *)
(** * Base 85, in one pass

    [b85decode] of GetPip.v cuts its argument in slices; on a text of
    thousands of lines [words] computes the same bytes in one pass over the
    characters, line breaks skipped.  The lemmas say so, and that decoding
    goes through concatenation at multiples of five digits. *)

From Stdlib Require Strings.Byte.
From stdpp Require Import base numbers list option gmap.
From S2P Require Import Prelude PyStr GetPip Literal.

(** One step of the loop of [b85decode]. *)
Definition decode_chunk (p : pybytes) : outcome pybytes := acc ← chunk_value p; packI acc.

Definition digit_table : gmap Z Z := list_to_map (zip b85alphabet (seqZ 0 85)).

Definition split_word (v : Z) (rest : pybytes) : pybytes :=
  Z.shiftr v 24 :: Z.land (Z.shiftr v 16) 255 :: Z.land (Z.shiftr v 8) 255 :: Z.land v 255 :: rest.

(** [n] digits of value [acc] are pending. *)
Fixpoint words (n : nat) (acc : Z) (l : list Byte.byte) : option pybytes :=
  match l with
  | [] => match n with O => Some [] | _ => None end
  | c :: l' =>
      if Byte.eqb c Byte.x0a then words n acc l' else
      match digit_table !! code c with
      | None => None
      | Some d =>
          let acc := acc * 85 + d in
          match n with
          | 4%nat =>
              if acc <? 2 ^ 32 then
                match words 0 0 l' with Some out => Some (split_word acc out) | None => None end
              else None
          | _ => words (S n) acc l'
          end
      end
  end.

Lemma digit_table_spec c : digit_table !! code c = b85dec (code c).
Proof. destruct c; vm_compute; reflexivity. Qed.

Lemma b85dec_range c d : b85dec c = Some d → 0 ≤ d < 85.
Proof.
  unfold b85dec. destruct (list_find _ b85alphabet) as [[i x]|] eqn:E; [|done]. intros [= <-].
  apply list_find_Some in E as (E & _ & _). apply lookup_lt_Some in E.
  change (length b85alphabet) with 85%nat in E. lia.
Qed.

Lemma chunk_value_snoc p acc c d :
  chunk_value p = Ok acc → b85dec c = Some d → chunk_value (p ++ [c]) = Ok (acc * 85 + d).
Proof. unfold chunk_value. rewrite foldl_app. intros -> Ed. cbn [foldl]. by rewrite bind_ok, Ed. Qed.

Lemma decode_chunk_ok p v : chunk_value p = Ok v → 0 ≤ v < 2 ^ 32 → decode_chunk p = Ok (split_word v []).
Proof. intros E Hv. unfold decode_chunk. rewrite E, bind_ok, packI_bytes by done. unfold split_word. by rewrite !land_255, !Z.shiftr_div_pow2. Qed.

Definition digits_of (l : list Byte.byte) : pybytes := remove_char 10 (code <$> l).

Lemma digits_of_app a b : digits_of (a ++ b) = digits_of a ++ digits_of b.
Proof. unfold digits_of, remove_char. by rewrite fmap_app, filter_app. Qed.

Lemma digits_of_cons c l :
  digits_of (c :: l) = if Byte.eqb c Byte.x0a then digits_of l else code c :: digits_of l.
Proof.
  unfold digits_of, remove_char. cbn [fmap list_fmap].
  assert (Byte.eqb c Byte.x0a = bool_decide (code c = 10)) as -> by by destruct c.
  case_bool_decide as E; [by rewrite filter_cons_False by auto | by rewrite filter_cons_True].
Qed.

Lemma words_pieces l : ∀ n acc p out,
  words n acc l = Some out → chunk_value p = Ok acc → 0 ≤ acc → zlen p = Z.of_nat n → (n < 5)%nat →
  ∃ ws, mapM decode_chunk (pieces (p ++ digits_of l) 5) = Ok ws ∧ concat ws = out ∧ zlen (p ++ digits_of l) mod 5 = 0.
Proof.
  induction l as [|c l IH]; intros n acc p out; cbn [words].
  - destruct n; [|done]. intros [= <-] _ _ Hp _. destruct p; [|rewrite zlen_cons in Hp; pose proof (zlen_nonneg p); lia].
    by exists [].
  - rewrite digits_of_cons. destruct (Byte.eqb c Byte.x0a); [by apply IH|]. rewrite digit_table_spec.
    destruct (b85dec (code c)) as [d|] eqn:Ed; [|done]. pose proof (b85dec_range _ _ Ed). intros Hw Hp Ha Hl Hn.
    pose proof (chunk_value_snoc p acc (code c) d Hp Ed) as Hp'. replace (p ++ code c :: digits_of l) with ((p ++ [code c]) ++ digits_of l) by by rewrite <- app_assoc.
    assert (zlen (p ++ [code c]) = Z.of_nat (S n)) as Hl' by (rewrite zlen_app, zlen_cons, zlen_nil; lia).
    destruct (decide (n = 4)%nat) as [->|Hn4].
    2:{ apply (IH (S n) (acc * 85 + d)); [|done|lia|done|lia]. by destruct n as [|[|[|[|[|n]]]]]. }
    destruct (Z.ltb_spec (acc * 85 + d) (2 ^ 32)); [|done]. destruct (words 0 0 l) as [out'|] eqn:Ew; [|done].
    injection Hw as <-. destruct (IH 0%nat 0 [] out' Ew) as (ws & Hm & Hc & Hz); [done|done|done|lia|].
    rewrite pieces_app by done. cbn [mapM]. rewrite (decode_chunk_ok _ _ Hp'), bind_ok by lia.
    cbn [app] in Hm, Hz. rewrite Hm, bind_ok. eexists. split; [done|]. cbn [concat]. rewrite Hc. split; [done|].
    rewrite zlen_app, Hl'. replace (Z.of_nat 5 + zlen (digits_of l)) with (zlen (digits_of l) + 1 * 5) by lia. by rewrite Z.mod_add.
Qed.

(** ** The decoder on texts and concatenations *)

Lemma b85decode_pieces b :
  b85decode b =
    let padding := (- zlen b) mod 5 in
    out ← mapM decode_chunk (pieces (b ++ replicate (Z.to_nat padding) (chr "~")) 5);
    Ok (if padding =? 0 then concat out else slice_to (concat out) (- padding)).
Proof. unfold b85decode. cbv zeta. by rewrite (mapM_pieces (λ p, acc ← chunk_value p; packI acc)). Qed.

Lemma padding_aligned (b : pybytes) : zlen b mod 5 = 0 → (- zlen b) mod 5 = 0.
Proof. intros H. by apply Z.mod_opp_l_z. Qed.

Lemma b85decode_aligned b :
  zlen b mod 5 = 0 → b85decode b = (out ← mapM decode_chunk (pieces b 5); Ok (concat out)).
Proof. intros H%padding_aligned. rewrite b85decode_pieces. cbv zeta. rewrite H. cbn [Z.to_nat replicate]. by rewrite app_nil_r. Qed.

(** What [words] finds is what [b85decode] returns. *)
Lemma words_decode l out : words 0 0 l = Some out → b85decode (digits_of l) = Ok out.
Proof.
  intros E. destruct (words_pieces l 0 0 [] out E) as (ws & Hm & Hc & Hz); [done..|lia|]. cbn [app] in *.
  rewrite b85decode_aligned by done. by rewrite Hm, bind_ok, Hc.
Qed.

(** The same for a text whose last word is incomplete. *)
Lemma words_decode_end l k out :
  words 0 0 (l ++ replicate k Byte.x7e) = Some out → (0 < k < 5)%nat →
  b85decode (digits_of l) = Ok (slice_to out (- Z.of_nat k)).
Proof.
  intros E Hk. destruct (words_pieces _ 0 0 [] out E) as (ws & Hm & Hc & Hz); [done..|lia|]. cbn [app] in *.
  rewrite digits_of_app in *. assert (digits_of (replicate k Byte.x7e) = replicate k (chr "~")) as Et.
  { clear. induction k as [|k IH]; [done|]. cbn [replicate]. rewrite digits_of_cons, IH. done. }
  rewrite Et in *. rewrite zlen_app in Hz. unfold zlen at 2 in Hz. rewrite length_replicate in Hz.
  assert ((- zlen (digits_of l)) mod 5 = Z.of_nat k) as Ep.
  { symmetry. apply Z.mod_unique with (- ((zlen (digits_of l) + Z.of_nat k) / 5)); [lia|].
    pose proof (Z.div_mod (zlen (digits_of l) + Z.of_nat k) 5). lia. }
  rewrite b85decode_pieces. cbv zeta. rewrite Ep, Nat2Z.id, Hm, bind_ok, Hc. by rewrite (proj2 (Z.eqb_neq _ _)) by lia.
Qed.

Lemma pieces_app_aligned (a b : pybytes) : zlen a mod 5 = 0 → pieces (a ++ b) 5 = pieces a 5 ++ pieces b 5.
Proof.
  revert a. apply (step_ind (A := Z) 5 (λ a, zlen a mod 5 = 0 → pieces (a ++ b) 5 = pieces a 5 ++ pieces b 5)); [lia|by rewrite pieces_nil|].
  intros a Ha IH Hm. assert (5 ≤ zlen a) as H5.
  { pose proof (Z.div_mod (zlen a) 5). destruct a; [done|]. rewrite zlen_cons in *. pose proof (zlen_nonneg a). lia. }
  rewrite <- (take_drop 5 a) at 1. rewrite <- app_assoc.
  rewrite pieces_app, IH; [|unfold zlen in *; rewrite length_drop|lia|unfold zlen in *; rewrite length_take; lia].
  - by rewrite (pieces_cons a).
  - replace (Z.of_nat (length a - 5)) with (Z.of_nat (length a) + -1 * 5) by lia. by rewrite Z.mod_add.
Qed.

Lemma slice_to_neg (s : pybytes) k : 0 < k ≤ zlen s → slice_to s (- k) = take (Z.to_nat (zlen s - k)) s.
Proof.
  intros Hk. unfold slice_to, slice, clamp. rewrite (proj2 (Z.ltb_lt (- k) 0)) by lia. cbn [Z.ltb Z.compare].
  rewrite Z.min_l by lia. rewrite Z.max_r by lia. cbn [Z.to_nat drop]. f_equal. lia.
Qed.

Lemma decode_chunk_length p w : decode_chunk p = Ok w → zlen w = 4.
Proof.
  unfold decode_chunk. intros (v & _ & H)%bind_ok_inv. unfold packI in H.
  destruct (pack_be 4 v) as [w'|] eqn:E; [|done]. injection H as ->. by apply from_bytes_pack_be in E as [_ ->].
Qed.

(** Decoding goes through concatenation where a word ends. *)
Lemma b85decode_app a b x y :
  zlen a mod 5 = 0 → b85decode a = Ok x → b85decode b = Ok y → b85decode (a ++ b) = Ok (x ++ y).
Proof.
  intros Ha. rewrite b85decode_aligned, !b85decode_pieces by done. cbv zeta.
  intros (wa & Ewa & [= <-])%bind_ok_inv (wb & Ewb & Hy)%bind_ok_inv.
  replace ((- zlen (a ++ b)) mod 5) with ((- zlen b) mod 5).
  2:{ rewrite zlen_app. pose proof (Z.div_mod (zlen a) 5).
      replace (- (zlen a + zlen b)) with (- zlen b + - (zlen a / 5) * 5) by lia. by rewrite Z.mod_add. }
  pose proof (Z.mod_pos_bound (- zlen b) 5). set (k := (- zlen b) mod 5) in *.
  rewrite <- app_assoc, pieces_app_aligned by done. apply mapM_ok_Forall2 in Ewa as Fa. apply mapM_ok_Forall2 in Ewb as Fb.
  rewrite (proj2 (mapM_ok_Forall2 decode_chunk _ (wa ++ wb)) (Forall2_app Fa Fb)), bind_ok.
  rewrite concat_app. destruct (Z.eqb_spec k 0); [by injection Hy as <-|]. injection Hy as <-. f_equal.
  assert (4 ≤ zlen (concat wb)) as H4.
  { destruct (pieces (b ++ _) 5) as [|p ps] eqn:Ep.
    - apply (f_equal (concat (A := Z))) in Ep. rewrite pieces_concat in Ep by done. apply app_nil in Ep as [_ Ep].
      apply (f_equal (length (A := Z))) in Ep. rewrite length_replicate in Ep. cbn in Ep. lia.
    - inversion Fb as [|? w ? ws Hw]; subst. cbn [concat]. apply decode_chunk_length in Hw. rewrite zlen_app.
      pose proof (zlen_nonneg (concat ws)). lia. }
  rewrite !slice_to_neg by (rewrite ?zlen_app; pose proof (zlen_nonneg (concat wa)); lia).
  rewrite take_app_ge by (unfold zlen in *; rewrite length_app; lia). f_equal. f_equal. unfold zlen in *. rewrite length_app. lia.
Qed.

Lemma words_aligned l out : words 0 0 l = Some out → zlen (digits_of l) mod 5 = 0.
Proof. intros E. destruct (words_pieces l 0 0 [] out E) as (ws & _ & _ & Hz); [done..|lia|done]. Qed.

(** A multiple of five digits makes four bytes of each five. *)
Lemma b85decode_length b out : zlen b mod 5 = 0 → b85decode b = Ok out → zlen out = 4 * (zlen b / 5).
Proof.
  intros Hb. rewrite b85decode_aligned by done. intros (ws & Hm%mapM_ok_Forall2 & [= <-])%bind_ok_inv.
  revert Hb ws Hm. revert b. apply (step_ind (A := Z) 5 (λ b, zlen b mod 5 = 0 → ∀ ws,
    Forall2 (λ p w, decode_chunk p = Ok w) (pieces b 5) ws → zlen (concat ws) = 4 * (zlen b / 5))); [lia| |].
  - intros _ ws. rewrite pieces_nil by done. by inversion 1.
  - intros b Hb IH Hm ws. rewrite pieces_cons by done. inversion 1 as [|? w ? ws' Hw Hws]; subst. cbn [concat].
    assert (zlen b = zlen (drop 5 b) + 1 * 5) as E.
    { destruct b; [done|]. rewrite zlen_cons in *. pose proof (zlen_nonneg b). pose proof (Z.div_mod (1 + zlen b) 5).
      unfold zlen in *. rewrite length_drop. cbn [length] in *. lia. }
    rewrite E in Hm |- *. rewrite Z.mod_add in Hm by done. rewrite Z.div_add by done.
    rewrite zlen_app, (IH Hm ws' Hws), (decode_chunk_length _ _ Hw). lia.
Qed.

Lemma bytes_of_texts (l : list text) : concat (bytes_of <$> l) = code <$> concat (characters <$> l).
Proof. induction l as [|x l IH]; [done|]. cbn [fmap list_fmap concat]. rewrite IH. unfold bytes_of. by rewrite fmap_app. Qed.

Lemma decode_chunk_bytes p w : decode_chunk p = Ok w → Forall is_byte w.
Proof.
  unfold decode_chunk. intros (v & _ & H)%bind_ok_inv. unfold packI, pack_be in H.
  destruct (_ && _); [|done]. assert (w = reverse (le_bytes 4 v)) as -> by congruence. apply Forall_reverse, le_bytes_byte.
Qed.

Lemma words_bytes l out : words 0 0 l = Some out → Forall is_byte out.
Proof.
  intros E. destruct (words_pieces l 0 0 [] out E) as (ws & Hm%mapM_ok_Forall2 & <- & _); [done..|lia|].
  apply Forall_concat. clear E. revert Hm. generalize (pieces ([] ++ digits_of l) 5). intros ps.
  induction 1 as [|p w ps ws Hw _ IH]; constructor; [by eapply decode_chunk_bytes|done].
Qed.

(** ** Texts that decode

    [words] finds something whenever the characters are digits and no word
    starts with one of the last three, which a text of a million characters
    is checked for without its value. *)

Definition is_digit (c : Byte.byte) : bool :=
  match c with
  | Byte.x30 | Byte.x31 | Byte.x32 | Byte.x33 | Byte.x34 | Byte.x35 | Byte.x36 | Byte.x37 | Byte.x38 | Byte.x39 | Byte.x41 | Byte.x42 | Byte.x43
  | Byte.x44 | Byte.x45 | Byte.x46 | Byte.x47 | Byte.x48 | Byte.x49 | Byte.x4a | Byte.x4b | Byte.x4c | Byte.x4d | Byte.x4e | Byte.x4f | Byte.x50
  | Byte.x51 | Byte.x52 | Byte.x53 | Byte.x54 | Byte.x55 | Byte.x56 | Byte.x57 | Byte.x58 | Byte.x59 | Byte.x5a | Byte.x61 | Byte.x62 | Byte.x63
  | Byte.x64 | Byte.x65 | Byte.x66 | Byte.x67 | Byte.x68 | Byte.x69 | Byte.x6a | Byte.x6b | Byte.x6c | Byte.x6d | Byte.x6e | Byte.x6f | Byte.x70
  | Byte.x71 | Byte.x72 | Byte.x73 | Byte.x74 | Byte.x75 | Byte.x76 | Byte.x77 | Byte.x78 | Byte.x79 | Byte.x7a | Byte.x21 | Byte.x23 | Byte.x24
  | Byte.x25 | Byte.x26 | Byte.x28 | Byte.x29 | Byte.x2a | Byte.x2b | Byte.x2d | Byte.x3b | Byte.x3c | Byte.x3d | Byte.x3e | Byte.x3f | Byte.x40
  | Byte.x5e | Byte.x5f | Byte.x60 | Byte.x7b | Byte.x7c | Byte.x7d | Byte.x7e => true
  | _ => false
  end.
Definition is_break (c : Byte.byte) : bool := match c with Byte.x0a => true | _ => false end.
(** Below 82: a word that starts with it is below 2^32. *)
Definition is_low (c : Byte.byte) : bool :=
  match c with Byte.x7c | Byte.x7d | Byte.x7e => false | _ => is_digit c end.

(** The exact value is kept where the first digit does not tell. *)
Fixpoint valid (n : nat) (acc : option Z) (l : list Byte.byte) : bool :=
  match l with
  | [] => match n with O => true | _ => false end
  | c :: l' =>
      if is_break c then valid n acc l' else
          match n with
          | O => if is_low c then valid 1 None l' else match digit_table !! code c with Some d => valid 1 (Some d) l' | None => false end
          | _ =>
              match acc with
              | None => if is_digit c then (match n with 4%nat => valid 0 None l' | _ => valid (S n) None l' end) else false
              | Some a =>
                  match digit_table !! code c with
                  | None => false
                  | Some d =>
                      let a := a * 85 + d in
                      match n with 4%nat => if a <? 2 ^ 32 then valid 0 None l' else false | _ => valid (S n) (Some a) l' end
                  end
              end
          end
  end.

Lemma is_break_spec c : is_break c = Byte.eqb c Byte.x0a.
Proof. by destruct c. Qed.

Lemma is_digit_spec c : is_digit c = true → ∃ d, digit_table !! code c = Some d ∧ 0 ≤ d < 85.
Proof. intros H. rewrite digit_table_spec. destruct (b85dec (code c)) as [d|] eqn:E; [exists d; split; [done|by eapply b85dec_range]|]. by destruct c. Qed.

Lemma is_low_spec c : is_low c = true → ∃ d, digit_table !! code c = Some d ∧ 0 ≤ d < 82.
Proof.
  intros H. assert (is_digit c = true) as Hd by (by destruct c). destruct (is_digit_spec c Hd) as (d & E & ?). exists d. split; [done|].
  assert (bool_decide (d < 82) = true) as Hb; [|apply bool_decide_eq_true in Hb; lia].
  revert E. clear Hd. destruct c; try discriminate H; vm_compute; by intros [= <-].
Qed.

(** How large the digits that are pending can be. *)
Definition pending (n : nat) (acc : Z) : Prop := 0 ≤ acc ∧ acc * 85 ^ (5 - Z.of_nat n) + 85 ^ (5 - Z.of_nat n) ≤ 82 * 85 ^ 4.

Lemma pending_digit n acc d : (0 < n < 5)%nat → pending n acc → 0 ≤ d < 85 → pending (S n) (acc * 85 + d).
Proof.
  intros Hn [Ha Hp] Hd. split; [lia|]. replace (5 - Z.of_nat n) with (1 + (5 - Z.of_nat (S n))) in Hp by lia.
  rewrite Z.pow_add_r in Hp by lia. pose proof (Z.pow_pos_nonneg 85 (5 - Z.of_nat (S n)) ltac:(lia) ltac:(lia)). nia.
Qed.

Lemma valid_words l : ∀ n oacc acc, (n < 5)%nat → valid n oacc l = true →
  match n, oacc with O, _ => acc = 0 | _, Some a => a = acc | _, None => pending n acc end → is_Some (words n acc l).
Proof.
  induction l as [|c l IH]; intros n oacc acc Hn; cbn [valid words].
  { destruct n; [by eexists|done]. }
  rewrite is_break_spec. destruct (Byte.eqb c Byte.x0a); [by apply IH|].
  assert (valid 0 None l = true → ∀ v, is_Some (match words 0 0 l with Some out => Some (split_word v out) | None => None end)) as Hend.
  { intros Hv v. destruct (IH 0%nat None 0) as [out ->]; [lia|done|done|by eexists]. }
  destruct n as [|n].
  - intros Hv ->. destruct (is_low c) eqn:El.
    + destruct (is_low_spec c El) as (d & -> & Hd). apply (IH 1%nat None); [lia|done|]. split; [lia|].
      change (5 - Z.of_nat 1) with 4. lia.
    + destruct (digit_table !! code c) as [d|]; [|done]. by apply (IH 1%nat (Some d)); [lia|..].
  - destruct oacc as [a|]; intros Hv Ha.
    + subst a. destruct (digit_table !! code c) as [d|]; [|done]. cbv zeta in Hv.
      destruct n as [|[|[|[|n]]]]; [by apply (IH 2%nat (Some (acc * 85 + d))); [lia|..]|by apply (IH 3%nat (Some (acc * 85 + d))); [lia|..]
        |by apply (IH 4%nat (Some (acc * 85 + d))); [lia|..]| |lia]. destruct (_ <? _); [by apply Hend|done].
    + destruct (is_digit c) eqn:Ed; [|done]. destruct (is_digit_spec c Ed) as (d & -> & Hd).
      pose proof (pending_digit (S n) acc d ltac:(lia) Ha Hd) as Hp.
      destruct n as [|[|[|[|n]]]]; [by apply (IH 2%nat None); [lia|..]|by apply (IH 3%nat None); [lia|..]|by apply (IH 4%nat None); [lia|..]| |lia].
      destruct Hp as [H0 Hp]. change (85 ^ (5 - Z.of_nat 5)) with 1 in Hp. rewrite (proj2 (Z.ltb_lt _ _)) by (change (2 ^ 32) with 4294967296; change (85 ^ 4) with 52200625 in Hp; lia).
      by apply Hend.
Qed.

Lemma valid_decodes l : valid 0 None l = true → ∃ out, b85decode (digits_of l) = Ok out ∧ zlen (digits_of l) mod 5 = 0.
Proof. intros Hv. destruct (valid_words l 0 None 0) as [out E]; [lia|done|done|]. exists out. split; [by apply words_decode|by eapply words_aligned]. Qed.

(** How many digits a text has. *)
Definition digit_count (l : list Byte.byte) : N := foldl (λ n c, if is_break c then n else N.succ n) 0%N l.

Lemma digit_count_spec l : zlen (digits_of l) = Z.of_N (digit_count l).
Proof.
  unfold digit_count. enough (∀ n, zlen (digits_of l) + Z.of_N n = Z.of_N (foldl (λ n c, if is_break c then n else N.succ n) n l)) as H
    by (rewrite <- (H 0%N); cbn; lia).
  induction l as [|c l IH]; intros n; [done|]. cbn [foldl]. rewrite digits_of_cons, <- IH, is_break_spec. destruct (Byte.eqb c Byte.x0a); [done|rewrite zlen_cons; lia].
Qed.
