(* ===== verification/Zip.v ===== *)
(** * Zip archives, as the interpreter reads them

    The script puts an archive on [sys.path]; the interpreter's [zipimport]
    finds its directory from the last bytes of the file and a member from the
    directory.  This is that reader (the one for archives without a comment,
    which all versions share), with the inflation of members a parameter. *)

From stdpp Require Import base numbers list option strings.
From S2P Require Import Prelude PyStr.

(** ** The reader *)

Definition le_value (b : pybytes) : Z := foldr (λ x acc, x + 256 * acc) 0 b.

(** [seek(pos); read(n)] *)
Definition read_at (data : pybytes) (pos n : Z) : pybytes := take (Z.to_nat n) (drop (Z.to_nat pos) data).
(** The field of a record at bytes [a] to [b]. *)
Definition field (b : pybytes) (lo hi : Z) : Z := le_value (read_at b lo (hi - lo)).

Record entry := Entry {
  name : pystr; compress : Z; data_size : Z; file_size : Z; file_offset : Z; crc : Z
}.

Definition signature (a b : Z) : pybytes := lit "PK" ++ [a; b].
Definition starts_with (sig b : pybytes) : bool := bool_decide (take 4 b = sig).

(** The entries from a position on, up to the first record that is not one.
    An entry takes 46 bytes at least, so that the length is fuel enough. *)
Fixpoint read_entries (fuel : nat) (header_offset arc_offset : Z) (l : pybytes) : outcome (list entry) :=
  if decide (length l < 4)%nat then Raise OtherError else
  if negb (starts_with (signature 1 2) l) then Ok [] else
  match fuel with
  | O => Raise OtherError
  | S fuel' =>
      let buffer := take 46 l in
      if decide (length buffer ≠ 46%nat) then Raise OtherError else
      let name_size := field buffer 28 30 in
      let header_size := name_size + field buffer 30 32 + field buffer 32 34 in
      let file_offset := field buffer 42 46 in
      if header_offset <? file_offset then Raise OtherError else
      let more := read_at l 46 header_size in
      if zlen more =? header_size then
        rest ← read_entries fuel' header_offset arc_offset (drop (Z.to_nat (46 + header_size)) l);
        Ok (Entry (take (Z.to_nat name_size) more) (field buffer 10 12) (field buffer 20 24) (field buffer 24 28)
              (file_offset + arc_offset) (field buffer 16 20) :: rest)
      else Raise OtherError
  end.

Definition end_size : Z := 22.

Definition read_directory (data : pybytes) : outcome (list entry) :=
  let position := zlen data - end_size in
  if position <? 0 then Raise OtherError else
  let buffer := read_at data position end_size in
  if negb (starts_with (signature 5 6) buffer) then Raise OtherError else
  let header_size := field buffer 12 16 in
  let header_offset := field buffer 16 20 in
  if position <? header_size then Raise OtherError else
  if position <? header_offset then Raise OtherError else
  let start := position - header_size in
  let arc_offset := start - header_offset in
  if arc_offset <? 0 then Raise OtherError else
  let l := drop (Z.to_nat start) data in
  read_entries (length l) header_offset arc_offset l.

(** The bytes of a member as stored, after its local header. *)
Definition raw_data (data : pybytes) (e : entry) : outcome pybytes :=
  let buffer := read_at data (file_offset e) 30 in
  if decide (length buffer ≠ 30%nat) then Raise OtherError else
  if negb (starts_with (signature 3 4) buffer) then Raise OtherError else
  let header_size := 30 + field buffer 26 28 + field buffer 28 30 in
  let raw := read_at data (file_offset e + header_size) (data_size e) in
  if zlen raw =? data_size e then Ok raw else Raise OtherError.

(** [get_data]; [decompress] is [zlib.decompress(raw, -15)]. *)
Definition get_data (decompress : pybytes → outcome pybytes) (data : pybytes) (e : entry) : outcome pybytes :=
  raw ← raw_data data e;
  if compress e =? 0 then Ok raw else decompress raw.

(** ** Reading in parts of a file *)

Lemma read_at_app_r (p t : pybytes) pos n : zlen p ≤ pos → read_at (p ++ t) pos n = read_at t (pos - zlen p) n.
Proof.
  intros Hp. unfold read_at. rewrite drop_app_ge by (unfold zlen in Hp; lia). do 2 f_equal. unfold zlen. lia.
Qed.

Lemma read_at_app_l (h r : pybytes) pos n :
  0 ≤ pos → 0 ≤ n → pos + n ≤ zlen h → read_at (h ++ r) pos n = read_at h pos n.
Proof.
  intros Hp Hn Hl. unfold read_at. unfold zlen in Hl. rewrite drop_app_le by lia.
  rewrite take_app_le; [done|]. rewrite length_drop. lia.
Qed.

(** The directory of a file that ends in [t] is found in [t] alone. *)
Definition directory_in (k : Z) (t : pybytes) : outcome (list entry) :=
  let position := zlen t - end_size in
  if position <? 0 then Raise OtherError else
  let buffer := read_at t position end_size in
  if negb (starts_with (signature 5 6) buffer) then Raise OtherError else
  let header_size := field buffer 12 16 in
  let header_offset := field buffer 16 20 in
  if position <? header_size then Raise OtherError else
  let start := position - header_size in
  let arc_offset := k + start - header_offset in
  if arc_offset <? 0 then Raise OtherError else
  let l := drop (Z.to_nat start) t in
  read_entries (length l) header_offset arc_offset l.

Lemma le_value_nonneg b : Forall is_byte b → 0 ≤ le_value b.
Proof. induction 1 as [|x b Hx _ IH]; cbn; [lia|]. unfold is_byte, le_value in *. lia. Qed.

Lemma field_nonneg b lo hi : Forall is_byte b → 0 ≤ field b lo hi.
Proof. intros Hb. apply le_value_nonneg. unfold read_at. by apply Forall_take, Forall_drop. Qed.

Lemma read_directory_end p t es :
  Forall is_byte t → directory_in (zlen p) t = Ok es → read_directory (p ++ t) = Ok es.
Proof.
  intros Hb. unfold directory_in, read_directory. rewrite zlen_app. pose proof (zlen_nonneg p).
  destruct (Z.ltb_spec (zlen t - end_size) 0); [done|].
  rewrite (proj2 (Z.ltb_ge (zlen p + zlen t - end_size) 0)) by lia.
  rewrite read_at_app_r by lia. replace (zlen p + zlen t - end_size - zlen p) with (zlen t - end_size) by lia.
  set (buffer := read_at t _ _). assert (Forall is_byte buffer) as Hbuf by by apply Forall_take, Forall_drop.
  destruct (starts_with _ _); [|done]. cbn [negb]. pose proof (field_nonneg buffer 12 16 Hbuf).
  destruct (Z.ltb_spec (zlen t - end_size) (field buffer 12 16)); [done|]. rewrite (proj2 (Z.ltb_ge _ (field buffer 12 16))) by lia.
  destruct (Z.ltb_spec (zlen p + (zlen t - end_size - field buffer 12 16) - field buffer 16 20) 0); [done|].
  rewrite (proj2 (Z.ltb_ge _ (field buffer 16 20))) by lia.
  replace (zlen p + zlen t - end_size - field buffer 12 16 - field buffer 16 20)
    with (zlen p + (zlen t - end_size - field buffer 12 16) - field buffer 16 20) by lia.
  rewrite (proj2 (Z.ltb_ge _ 0)) by lia.
  rewrite drop_app_ge by (unfold zlen in *; lia).
  by replace (Z.to_nat (zlen p + zlen t - end_size - field buffer 12 16) - length p)%nat
    with (Z.to_nat (zlen t - end_size - field buffer 12 16)) by (unfold zlen in *; lia).
Qed.

(** What is read in the first part of a file is read in the file. *)
Lemma read_at_complete (h r : pybytes) pos n :
  0 ≤ pos → zlen (read_at h pos n) = n → read_at (h ++ r) pos n = read_at h pos n.
Proof.
  intros Hp Hn. destruct (decide (n ≤ 0)) as [H0|H0].
  - unfold read_at. replace (Z.to_nat n) with O by lia. done.
  - apply read_at_app_l; [done|lia|]. unfold read_at, zlen in *. rewrite length_take, length_drop in Hn. lia.
Qed.

Lemma raw_data_header h e raw : raw_data h e = Ok raw → zlen (read_at h (file_offset e) 30) = 30.
Proof. unfold raw_data. case_decide as E30; [done|]. intros _. unfold zlen. by rewrite E30. Qed.

Lemma raw_data_app h r e raw :
  Forall is_byte h → 0 ≤ file_offset e → raw_data h e = Ok raw → raw_data (h ++ r) e = Ok raw.
Proof.
  intros Hb Ho. unfold raw_data. case_decide as E30; [done|].
  rewrite (read_at_complete h r _ 30) by (done || (unfold zlen; rewrite E30; done)).
  rewrite decide_False by (intros H; by apply H). destruct (starts_with _ _); [|done]. cbn [negb]. set (b := read_at h (file_offset e) 30).
  assert (Forall is_byte b) as Hbb by by apply Forall_take, Forall_drop.
  pose proof (field_nonneg b 26 28 Hbb). pose proof (field_nonneg b 28 30 Hbb).
  destruct (Z.eqb_spec (zlen (read_at h (file_offset e + (30 + field b 26 28 + field b 28 30)) (data_size e))) (data_size e)) as [E|]; [|done].
  rewrite read_at_complete by (lia || done). by rewrite (proj2 (Z.eqb_eq _ _) E).
Qed.

Lemma get_data_app dec h r e text :
  Forall is_byte h → 0 ≤ file_offset e → get_data dec h e = Ok text → get_data dec (h ++ r) e = Ok text.
Proof.
  intros Hb Ho. unfold get_data. intros (raw & Hr & Ht)%bind_ok_inv. by rewrite (raw_data_app _ _ _ raw), bind_ok.
Qed.
