(* ===== verification/Inflate.v ===== *)
(** * Inflation (RFC 1951) and CRC-32

    What [zlib.decompress(raw, -15)] computes for the members of a zip
    archive: stored blocks, and blocks in the fixed or in a transmitted
    Huffman code.  The input is a sequence of bits, the output a map from
    positions, since copies go far back.  No block or symbol takes less than
    one bit, so that the number of bits is fuel enough. *)

From stdpp Require Import base numbers list option pmap gmap.
From S2P Require Import Prelude PyStr.

Abbreviation reader A := (list bool → option (A * list bool)).

Definition byte_bits (b : Z) : list bool := Z.testbit b <$> seqZ 0 8.
Definition bits_of (data : pybytes) : list bool := data ≫= byte_bits.

(** [n] bits, the least significant one first. *)
Fixpoint read_bits (n : nat) : reader Z := λ bs,
  match n, bs with
  | O, _ => Some (0, bs)
  | S n', b :: bs' => '(v, bs') ← read_bits n' bs'; Some (Z.b2z b + 2 * v, bs')
  | _, [] => None
  end.

(** ** Canonical Huffman codes

    A code is a binary tree.  From the lengths of the codes it is built level by
    level, the deepest first: among the nodes of a depth the symbols of that
    length come first, in order, and then the inner nodes. *)

Inductive tree := Leaf (s : Z) | Node (l r : tree) | Unused.

Definition of_length (lens : list Z) (n : Z) : list Z :=
  fst <$> filter (λ p : Z * Z, p.2 = n) (zip (seqZ 0 (zlen lens)) lens).

Fixpoint pair_up (ts : list tree) : list tree :=
  match ts with
  | [] => []
  | [t] => [Node t Unused]
  | t :: u :: ts' => Node t u :: pair_up ts'
  end.

Definition huffman (lens : list Z) : tree :=
  let ts := foldr (λ n deeper, (Leaf <$> of_length lens n) ++ pair_up deeper) [] (seqZ 1 15) in
  default Unused (pair_up ts !! 0%nat).

Fixpoint symbol (t : tree) : reader Z := λ bs,
  match t, bs with
  | Leaf s, _ => Some (s, bs)
  | Node l r, b :: bs' => if b : bool then symbol r bs' else symbol l bs'
  | _, _ => None
  end.

(** ** Lengths and distances *)

(** A code stands for a base and a number of extra bits. *)
Definition bases (first : Z) (extras : list nat) : list (Z * nat) :=
  (foldl (λ '(base, acc) e, (base + 2 ^ Z.of_nat e, acc ++ [(base, e)])) (first, []) extras).2.
Definition length_codes : list (Z * nat) :=
  bases 3 ([0; 0; 0; 0; 0; 0; 0; 0; 1; 1; 1; 1; 2; 2; 2; 2; 3; 3; 3; 3; 4; 4; 4; 4; 5; 5; 5; 5]%nat) ++ [(258, 0%nat)].
Definition distance_codes : list (Z * nat) :=
  bases 1 ([0; 0; 0; 0; 1; 1; 2; 2; 3; 3; 4; 4; 5; 5; 6; 6; 7; 7; 8; 8; 9; 9; 10; 10; 11; 11; 12; 12; 13; 13]%nat).

Definition extended (codes : list (Z * nat)) (c : Z) : reader Z := λ bs,
  '(base, e) ← codes !! Z.to_nat c;
  '(x, bs) ← read_bits e bs;
  Some (base + x, bs).

(** The bytes written, by position from 1, and the next position. *)
Record output := Output { written : Pmap Z; next_pos : positive }.
Definition no_output : output := Output ∅ 1.
Definition emit (b : Z) (out : output) : output :=
  Output (<[next_pos out := b]> (written out)) (Pos.succ (next_pos out)).
Fixpoint bytes_from (n : nat) (p : positive) (out : output) : pybytes :=
  match n with O => [] | S n' => default 0 (written out !! p) :: bytes_from n' (Pos.succ p) out end.
Definition contents (out : output) : pybytes := bytes_from (pred (Pos.to_nat (next_pos out))) 1 out.

(** [n] bytes from position [from] on, which may run into those it writes. *)
Fixpoint copy (n : nat) (from : positive) (out : output) : option output :=
  match n with
  | O => Some out
  | S n' => b ← written out !! from; copy n' (Pos.succ from) (emit b out)
  end.
Definition copy_back (n d : Z) (out : output) : option output :=
  let from := Zpos (next_pos out) - d in
  if 0 <? from then copy (Z.to_nat n) (Z.to_pos from) out else None.

Fixpoint coded (fuel : nat) (literals distances : tree) (out : output) : reader output := λ bs,
  match fuel with
  | O => None
  | S fuel' =>
      '(s, bs) ← symbol literals bs;
      if s <? 256 then coded fuel' literals distances (emit s out) bs else
      if s =? 256 then Some (out, bs) else
      '(n, bs) ← extended length_codes (s - 257) bs;
      '(c, bs) ← symbol distances bs;
      '(d, bs) ← extended distance_codes c bs;
      out ← copy_back n d out;
      coded fuel' literals distances out bs
  end.

(** ** Blocks *)

Definition stored (out : output) : reader output := λ bs,
  let bs := drop (length bs mod 8) bs in
  '(n, bs) ← read_bits 16 bs;
  '(m, bs) ← read_bits 16 bs;
  if n + m =? 65535 then
    (fix bytes k out bs :=
       match k with
       | O => Some (out, bs)
       | S k' => '(b, bs) ← read_bits 8 bs; bytes k' (emit b out) bs
       end) (Z.to_nat n) out bs
  else None.

Definition fixed_literals : tree :=
  huffman (replicate 144 8 ++ replicate 112 9 ++ replicate 24 7 ++ replicate 8 8).
Definition fixed_distances : tree := huffman (replicate 30 5).

(** [n] code lengths, some of them runs. *)
Fixpoint code_lengths (fuel : nat) (code : tree) (n : nat) (lens : list Z) : reader (list Z) := λ bs,
  match fuel with
  | O => None
  | S fuel' =>
      if decide (length lens = n) then Some (lens, bs) else
      if decide (n < length lens)%nat then None else
      '(s, bs) ← symbol code bs;
      if s <? 16 then code_lengths fuel' code n (lens ++ [s]) bs else
      if s =? 16 then
        '(x, bs) ← read_bits 2 bs; l ← lens !! pred (length lens);
        code_lengths fuel' code n (lens ++ replicate (Z.to_nat (3 + x)) l) bs
      else if s =? 17 then
        '(x, bs) ← read_bits 3 bs; code_lengths fuel' code n (lens ++ replicate (Z.to_nat (3 + x)) 0) bs
      else
        '(x, bs) ← read_bits 7 bs; code_lengths fuel' code n (lens ++ replicate (Z.to_nat (11 + x)) 0) bs
  end.

Definition length_order : list Z := [16; 17; 18; 0; 8; 7; 9; 6; 10; 5; 11; 4; 12; 3; 13; 2; 14; 1; 15].

Fixpoint read_each (n k : nat) : reader (list Z) := λ bs,
  match n with
  | O => Some ([], bs)
  | S n' => '(x, bs) ← read_bits k bs; '(xs, bs) ← read_each n' k bs; Some (x :: xs, bs)
  end.

Definition transmitted (out : output) : reader output := λ bs,
  '(hlit, bs) ← read_bits 5 bs;
  '(hdist, bs) ← read_bits 5 bs;
  '(hclen, bs) ← read_bits 4 bs;
  '(short, bs) ← read_each (Z.to_nat (hclen + 4)) 3 bs;
  let lens := (λ i, default 0 ((λ p : nat * (Z * Z), p.2.2) <$> list_find (λ p : Z * Z, p.1 = i) (zip length_order short))) <$> seqZ 0 19 in
  let nlit := Z.to_nat (hlit + 257) in
  '(all, bs) ← code_lengths (S (length bs)) (huffman lens) (nlit + Z.to_nat (hdist + 1)) [] bs;
  coded (length bs) (huffman (take nlit all)) (huffman (drop nlit all)) out bs.

Fixpoint blocks (fuel : nat) (out : output) (bs : list bool) : option output :=
  match fuel with
  | O => None
  | S fuel' =>
      '(final, bs) ← read_bits 1 bs;
      '(kind, bs) ← read_bits 2 bs;
      '(out, bs) ← (if kind =? 0 then stored out bs
                    else if kind =? 1 then coded (length bs) fixed_literals fixed_distances out bs
                    else if kind =? 2 then transmitted out bs else None);
      if final =? 1 then Some out else blocks fuel' out bs
  end.

Definition inflate (raw : pybytes) : outcome pybytes :=
  let bs := bits_of raw in
  match blocks (length bs) no_output bs with
  | Some out => Ok (contents out)
  | None => Raise OtherError
  end.

(** ** CRC-32 *)

Definition crc_bit (c : Z) : Z := if Z.odd c then Z.lxor (Z.shiftr c 1) 0xEDB88320 else Z.shiftr c 1.
Definition crc_table : gmap Z Z := list_to_map ((λ i, (i, Nat.iter 8 crc_bit i)) <$> seqZ 0 256).
Definition crc_byte (c b : Z) : Z :=
  Z.lxor (default 0 (crc_table !! Z.land (Z.lxor c b) 255)) (Z.shiftr c 8).
Definition crc32 (data : pybytes) : Z := Z.lxor (foldl crc_byte 0xFFFFFFFF data) 0xFFFFFFFF.
