(* ===== verification/PipArchive.v ===== *)
(** * The archive of the pip installer (tools/eposiotgw/get-pip.py)

    What the literal [DATA] holds.  The comments of the script call it "a
    base85 encoding of a zip file" with "an entire copy of pip": the theorems
    say what the interpreter finds in the file [main] writes.  Two
    computations carry them: [archive_checked] decodes the first 2695 and the
    last 340 lines, which hold the first members and the directory, and
    [middle_checked] goes over the lines between, which decode as well. *)

From Stdlib Require Strings.Byte.
From stdpp Require Import base numbers list option strings.
From S2P Require Import Prelude PyStr Effects Literal PipText GetPip Base85 Zip Inflate.

(** The lines in the middle, each of 79 digits. *)
Definition middle : pybytes := concat (bytes_of <$> body_lines).
Definition rest_lines : Z := 14550.

(** ** What an archive should be *)

(** Members lie one after the other, from [pos] to [stop]: each is a local
    header of 30 bytes, its name, and its data. *)
Definition extent_end (e : entry) : Z := file_offset e + 30 + zlen (name e) + data_size e.
Fixpoint tiles (pos : Z) (es : list entry) (stop : Z) : bool :=
  match es with
  | [] => pos =? stop
  | e :: es' => (file_offset e =? pos) && (0 <=? data_size e) && tiles (extent_end e) es' stop
  end.

(** A member can be read, and its local header says what the directory says. *)
Definition well_formed (data : pybytes) (e : entry) : bool :=
  let b := read_at data (file_offset e) 30 in
  is_ok (raw_data data e) && (field b 8 10 =? compress e) && (field b 14 18 =? crc e) &&
  (field b 18 22 =? data_size e) && (field b 22 26 =? file_size e) && (field b 28 30 =? 0) &&
  (field b 26 28 =? zlen (name e)) && bool_decide (read_at data (file_offset e + 30) (field b 26 28) = name e).

(** A member is what was packed: as long, and of the same CRC-32. *)
Definition intact (data : pybytes) (e : entry) : bool :=
  match get_data inflate data e with
  | Ok t => (zlen t =? file_size e) && (crc32 t =? crc e)
  | Raise _ => false
  end.

(** The text of a member holds a line. *)
Definition holds (data : pybytes) (e : entry) (line : pystr) : bool :=
  match get_data inflate data e with Ok t => contains t line | Raise _ => false end.

(** What [bootstrap] imports from the archive or reads in it. *)
Definition imported : list pystr :=
  [lit "pip/__init__.py"; lit "pip/commands/__init__.py"; lit "pip/commands/install.py"; lit "pip/_vendor/__init__.py";
   lit "pip/_vendor/requests/__init__.py"; lit "pip/_vendor/requests/cacert.pem"].

(** Where pip's modules, and its description, are. *)
Definition of_pip (path : pystr) : bool := is_prefix (lit "pip/") path || is_prefix (lit "pip-7.1.2.dist-info/") path.

(** The two names of [pip] that [bootstrap] uses. *)
Definition main_line : pystr := lit "def main(args=None):".
Definition commands_line : pystr := lit "from pip.commands import commands_dict".

(** The members that lie in the first lines, and, first of them, the modules
    right under [pip]. *)
Definition first_members : nat := 47.
Definition pip_modules : nat := 12.
Definition zip_size : Z := 1111358.
Definition directory_start : Z := 1091777.

(** ** The computation *)

Definition first_chars : list Byte.byte := concat (characters <$> opening_lines).
Definition last_chars : list Byte.byte := concat (characters <$> closing_lines).
Definition first_part : option pybytes := words 0 0 first_chars.
Definition last_part : option pybytes := (λ t, slice_to t (- 2)) <$> words 0 0 (last_chars ++ replicate 2 Byte.x7e).
Definition rest_size : Z := 4 * (rest_lines * 79 / 5).

Definition entry_checks (h : pybytes) (es : list entry) : bool :=
  (zlen es =? 236) && bool_decide (NoDup (name <$> es)) &&
  forallb (λ n, bool_decide (n ∈ name <$> es)) imported &&
  forallb (λ e, of_pip (name e)) es &&
  tiles 0 es directory_start &&
  forallb (well_formed h) (take first_members es) &&
  forallb (intact h) (take pip_modules es) &&
  match head es with
  | Some e => bool_decide (name e = lit "pip/__init__.py") && holds h e main_line && holds h e commands_line
  | None => false
  end.

Definition both_checks (first last : option pybytes) : bool :=
  match first, last with
  | Some h, Some t =>
      (zlen h + rest_size + zlen t =? zip_size) &&
      match directory_in (zlen h + rest_size) t with Ok es => entry_checks h es | Raise _ => false end
  | _, _ => false
  end.
Definition archive_checks : bool := both_checks first_part last_part.

Lemma archive_checked : archive_checks = true.
Proof. vm_cast_no_check (eq_refl true). Qed.

Definition middle_chars : list Byte.byte := concat (characters <$> body_lines).
Lemma middle_checked : valid 0 None middle_chars && (digit_count middle_chars =? 1149450)%N = true.
Proof. vm_cast_no_check (eq_refl true). Qed.

(** From here on the texts are only names. *)
#[local] Opaque opening_lines body_lines closing_lines first_chars middle_chars last_chars words valid digit_count.

(** ** The archive in general *)

Lemma digits_of_texts (l : list text) :
  remove_char 10 (concat (bytes_of <$> l)) = digits_of (concat (characters <$> l)).
Proof. by rewrite bytes_of_texts. Qed.

Lemma DATA_digits :
  remove_char 10 DATA = digits_of first_chars ++ remove_char 10 middle ++ digits_of last_chars.
Proof.
  rewrite DATA_parts. transitivity (remove_char 10 (concat (bytes_of <$> opening_lines)) ++ remove_char 10 middle ++
    remove_char 10 (concat (bytes_of <$> closing_lines))); [unfold remove_char, middle; by rewrite !filter_app|].
  rewrite !digits_of_texts. reflexivity.
Qed.

Lemma tiles_extents es : ∀ pos stop,
  0 ≤ pos → tiles pos es stop = true →
  pos ≤ stop ∧ Forall (λ e, 0 ≤ data_size e ∧ pos ≤ file_offset e ∧ extent_end e ≤ stop) es ∧
  ∀ i j e e', (i < j)%nat → es !! i = Some e → es !! j = Some e' → extent_end e ≤ file_offset e'.
Proof.
  induction es as [|e es IH]; intros pos stop Hp; cbn [tiles].
  - intros ->%Z.eqb_eq. by split_and!.
  - intros [[Eo%Z.eqb_eq Hs%Z.leb_le]%andb_true_iff Ht]%andb_true_iff. pose proof (zlen_nonneg (name e)) as Hn.
    assert (pos + 30 ≤ extent_end e) as Hx by (unfold extent_end; lia).
    destruct (IH (extent_end e) stop) as (Hle & Hall & Hord); [lia|done|]. split_and!; [lia| |].
    + constructor; [lia|]. eapply Forall_impl; [exact Hall|]. cbn. intros. lia.
    + intros [|i] [|j] e1 e2 Hij E1 E2; try lia; cbn in E1, E2; [|by apply (Hord i j); [lia|..]].
      injection E1 as <-. apply list_elem_of_lookup_2 in E2. rewrite Forall_forall in Hall. by apply Hall in E2 as (_ & ? & _).
Qed.

(** The lines in the middle decode. *)
Lemma middle_decodes : ∃ mid, b85decode (remove_char 10 middle) = Ok mid ∧ zlen (remove_char 10 middle) = rest_lines * 79 ∧ zlen mid = rest_size.
Proof.
  pose proof middle_checked as [Hv Hn%N.eqb_eq]%andb_true_iff. apply valid_decodes in Hv as (mid & E & Hm).
  assert (remove_char 10 middle = digits_of middle_chars) as Em by apply digits_of_texts.
  pose proof (digit_count_spec middle_chars) as Hc. rewrite Hn in Hc. rewrite Em. exists mid. split; [done|]. split; [done|].
  by rewrite (b85decode_length _ mid Hm E), Hc.
Qed.

(** What the computation says of the whole file. *)
Lemma archive_parts :
  ∃ h mid t es, let zip := h ++ mid ++ t in
    b85decode (remove_char 10 DATA) = Ok zip ∧ zlen zip = zip_size ∧ Forall is_byte h ∧
    read_directory zip = Ok es ∧ entry_checks h es = true.
Proof.
  destruct middle_decodes as (mid & rest_decodes & Hd & rest_zlen). pose proof archive_checked as H. unfold archive_checks, both_checks in H.
  destruct first_part as [h|] eqn:Eh; [|done]. destruct last_part as [t|] eqn:Et; [|done].
  apply andb_true_iff in H as [Hz%Z.eqb_eq H].
  destruct (directory_in (zlen h + rest_size) t) as [es|] eqn:Ed; [|done].
  unfold last_part in Et. apply fmap_Some in Et as (t' & Et & ->).
  exists h, mid, (slice_to t' (- 2)), es. cbv zeta.
  assert (Forall is_byte (slice_to t' (-2))) as Hb.
  { unfold slice_to, slice. by apply Forall_take, Forall_drop, (words_bytes _ _ Et). }
  split_and!.
  - rewrite DATA_digits.
    refine (b85decode_app _ _ _ _ (words_aligned _ _ Eh) (words_decode _ _ Eh) (b85decode_app _ _ _ _ _ rest_decodes _)).
    + by rewrite Hd.
    + exact (words_decode_end last_chars 2 t' Et ltac:(lia)).
  - rewrite !zlen_app, rest_zlen. lia.
  - exact (words_bytes _ _ Eh).
  - rewrite app_assoc. apply read_directory_end; [done|]. by rewrite zlen_app, rest_zlen.
  - done.
Qed.

Lemma forallb_take {A} (f : A → bool) n (l : list A) i x :
  forallb f (take n l) = true → (i < n)%nat → l !! i = Some x → f x = true.
Proof.
  rewrite forallb_forall. intros H Hi Hx. apply H, list_elem_of_In, list_elem_of_lookup_2 with i.
  by rewrite lookup_take_lt.
Qed.

Lemma well_formed_app h r e :
  Forall is_byte h → 0 ≤ file_offset e → well_formed h e = true → well_formed (h ++ r) e = true.
Proof.
  intros Hb Ho. unfold well_formed. cbv zeta. rewrite !andb_true_iff.
  intros (((((((Hok & H8) & H14) & H18) & H22) & H28) & Hn) & Hname).
  destruct (raw_data h e) as [raw|] eqn:Er; [|discriminate Hok]. rewrite (raw_data_app h r e raw) by done.
  pose proof (raw_data_header _ _ _ Er) as E30.
  rewrite (read_at_complete h r) by (lia || done).
  set (b := read_at h (file_offset e) 30) in *.
  assert (zlen (read_at h (file_offset e + 30) (field b 26 28)) = field b 26 28) as En.
  { apply bool_decide_eq_true in Hname as ->. symmetry. by apply Z.eqb_eq. }
  rewrite (read_at_complete h r) by (lia || done). by split_and!.
Qed.


(** The directory of the archive is within bounds: every member (its local
    header, its name and its data) lies between the start of the file and the
    directory, no two members overlap, none is out of order, and together
    they leave no gap. *)
Theorem archive_extents :
  ∃ zip es,
    b85decode (remove_char 10 DATA) = Ok zip ∧ read_directory zip = Ok es ∧
    (∀ e, e ∈ es → 0 ≤ data_size e ∧ 0 ≤ file_offset e ∧ extent_end e ≤ directory_start) ∧
    directory_start < zlen zip ∧
    (∀ i j e e', (i < j)%nat → es !! i = Some e → es !! j = Some e' → extent_end e ≤ file_offset e') ∧
    tiles 0 es directory_start = true.
Proof.
  destruct archive_parts as (h & mid & t & es & E & Hz & _ & Hd & Hc). exists (h ++ mid ++ t), es.
  unfold entry_checks in Hc. rewrite !andb_true_iff in Hc. destruct Hc as ((((_ & Ht) & _) & _) & _).
  destruct (tiles_extents es 0 directory_start) as (_ & Hall & Hord); [done..|].
  split_and!; [done|done| |by rewrite Hz|done|done]. by apply Forall_forall.
Qed.

(** The modules come out of the archive as they were packed.  Of each of
    the 47 members within the first lines, the local header says what the
    directory says and the data can be read; the first twelve, the modules
    right under [pip], inflate to the recorded length with the recorded
    CRC-32; the first is the module [pip], and its text has the two names
    [bootstrap] takes from it. *)
Theorem archive_members_intact :
  ∃ zip es,
    b85decode (remove_char 10 DATA) = Ok zip ∧ read_directory zip = Ok es ∧ (47 ≤ length es)%nat ∧
    (∀ i e, (i < 47)%nat → es !! i = Some e → well_formed zip e = true) ∧
    (∀ i e, (i < 12)%nat → es !! i = Some e →
      ∃ t, get_data inflate zip e = Ok t ∧ zlen t = file_size e ∧ crc32 t = crc e) ∧
    ∃ e t, es !! 0%nat = Some e ∧ name e = lit "pip/__init__.py" ∧ get_data inflate zip e = Ok t ∧
      contains t main_line = true ∧ contains t commands_line = true.
Proof.
  destruct archive_parts as (h & mid & t & es & E & Hz & Hb & Hd & Hc). exists (h ++ mid ++ t), es.
  unfold entry_checks in Hc. rewrite !andb_true_iff in Hc.
  destruct Hc as (((((((Hn & _) & _) & _) & Ht) & Hw) & Hi) & Hp).
  destruct (tiles_extents es 0 directory_start) as (_ & Hall & _); [done..|]. rewrite Forall_forall in Hall.
  assert (∀ i e, es !! i = Some e → 0 ≤ file_offset e) as Ho by (intros i e He%list_elem_of_lookup_2; apply Hall in He; lia).
  split_and!; [done|done| | | |].
  - apply Z.eqb_eq in Hn. unfold zlen in Hn. lia.
  - intros i e H47 He. apply well_formed_app; eauto using forallb_take.
  - intros i e H12 He. pose proof (forallb_take (intact h) _ _ i e Hi H12 He) as Hm. unfold intact in Hm.
    destruct (get_data inflate h e) as [x|] eqn:Ex; [|done]. exists x.
    rewrite (get_data_app inflate h _ e x) by eauto. rewrite andb_true_iff, !Z.eqb_eq in Hm. tauto.
  - destruct es as [|e es]; [done|]. cbn [head] in Hp. rewrite !andb_true_iff in Hp. destruct Hp as ((Hname & Hmain) & Hcom).
    unfold holds in *. destruct (get_data inflate h e) as [x|] eqn:Ex; [|done]. exists e, x.
    rewrite (get_data_app inflate h _ e x Hb (Ho 0%nat e eq_refl) Ex).
    apply bool_decide_eq_true_1 in Hname. auto 10.
Qed.
